(* ===== verification/_CoqProject ===== *)
-Q . S2P
Prelude.v
EncDecBits.v
WireFormat.v
IeFormat.v
GtpDefs.v
GtpFields.v
GtpIes1.v
GtpIes2.v
GtpIes3.v
GtpIesVar.v
GtpIesSub.v
GtpImsi.v
GtpIeTable.v
GtpMessage.v
GtpGrouped.v
GtpMembers.v
GtpGroupedIes.v
GtpNumbers.v
GtpMessages1.v
GtpMessages2.v
GtpMessageTable.v
GtpZero.v
TwagNet.v
TwagRadius.v
TwagDhcp.v
TwagS2a.v
TwagSta.v
TwagDns.v
TwagState.v
TwagCore.v
TwagSafety.v
TwagHandlers.v
TwagSystem.v
TwagScenario.v
TwagInvariants.v
TwagRuns.v
TwagAttach.v
FdList.v
FdMessages.v
FdWire.v
FdTrees.v
FdTypes.v
FdParse.v
FdRoundTrip.v
FdRules.v
FdParseError.v
FdDictionary.v
FdDictInv.v
FdDictSearch.v
FdDictModel.v
FdAnswers.v
FdDispatch.v
FdDispatchInv.v
FdDispatchRuns.v
FdFifo.v
FdLoops.v
FdApps.v
FdRtData.v
FdPeers.v
FdRouting.v
FdRoutingRuns.v
FdSentReq.v
FdEndpoints.v
FdCapa.v
FdBaseProto.v
FdCapaWire.v
FdHash.v
FdSessions.v
FdSessInv.v
FdSessMap.v
FdSessRuns.v
FdSessConc.v
FdPsm.v
FdPsmInv.v
FdPsmRuns.v
