(* ===== verification/Prelude.v ===== *)
(** Verification of the TWAG gateway.

    * The program

    The gateway (src/src, C++) connects Wi-Fi stations to a mobile core.  A
    wireless controller sends RADIUS requests; the gateway authenticates the
    station at an AAA server over Diameter (STa), opens a session at a packet
    gateway over GTPv2-C (S2a), installs a tunnel in the kernel and answers the
    station's DHCP requests with the address of the session.  It is built on
    libgtpv2c (the encoders and decoders of GTPv2-C messages), libgtpnl
    (netlink messages of the kernel's GTP driver) and freeDiameter (the
    Diameter stack).

    * The files

    Prelude: machine integers, byte memory, bit strings, outcomes; generic
    lemmas, hints and tactics.

    libgtpv2c (src/libgtpv2c).
    EncDecBits is enc_dec_bits.c.  WireFormat and IeFormat give the monad in
    which encoders are written, the class of fields and of elements with their
    round-trip laws.  GtpDefs has the constants and the element header;
    GtpFields and GtpIes1 to GtpIes3 the elements of constant size, GtpIesVar,
    GtpIesSub and GtpImsi those whose layout depends on their content;
    GtpIeTable collects their theorems in tables.  GtpMessage is the message
    encoder and the decoding loop, GtpGrouped the same for grouped elements;
    GtpMembers, GtpGroupedIes, GtpMessages1 and GtpMessages2 are the grouped
    elements and messages, each a Module with its members, its encoder's order
    and its decoder's table; GtpNumbers has the numbers and instances that
    elements carry and how a table leads them back, GtpMessageTable collects
    their theorems.  GtpZero has the structures after memset.

    The gateway.
    TwagNet models what the code uses of the C and C++ libraries (byte order,
    addresses in text, std::string).  TwagRadius, TwagDhcp, TwagS2a, TwagSta
    and TwagDns are the parts of radius_server.cpp, dhcp_server.cpp,
    s2a_interface.cpp, sta_interface.cpp and twag_core.cpp that make and read
    messages.  TwagState has the sessions (ue_session.hpp), the session manager
    (session_manager.cpp) and the atomic operations; TwagCore the handlers of
    twag_core.cpp as programs over them.  TwagSafety states the invariant of
    the shared state and the rely and guarantee of the threads, TwagHandlers
    proves every handler safe, TwagSystem defines the system of threads and
    its reachable configurations.  TwagScenario runs schedules, TwagInvariants
    has the consequences of the invariant, TwagRuns and TwagAttach what the
    handlers do when they run to their end.

    libfdproto of freeDiameter (src/freeDiameter/libfdproto).  FdList has the
    rings of lists.c on a memory of nodes and the lists they represent.
    FdMessages has the trees of messages.c, their lengths, their encoding and
    the first pass of decoding; FdWire the format of RFC 6733 and the
    refinement; FdParse the pass with the dictionary, against the interface
    [Dictionary]; FdRoundTrip joins them; FdRules is the check of the rules.
    FdDictionary has the objects of dictionary.c, their ordered lists, the
    searches, creation and deletion; FdDictInv its invariant, FdDictSearch the
    meaning of the searches, FdDictModel the instance of [Dictionary], a sample
    and what goes wrong.
    FdTrees has the browsing and building of trees of AVPs, FdAnswers the creation
    of answers, FdTypes the derived types of dictionary_functions.c.  FdDispatch
    has the handlers of dispatch.c and the dispatch of a message, with the
    callbacks of the applications as a parameter, FdDispatchInv their invariant,
    FdDispatchRuns the order of the calls and the fate of a message; FdParseError
    what is done with one that does not parse.  FdHash is fd_os_hash of ostr.c,
    FdSessions sessions.c with its calls as whole steps, FdSessInv their
    invariant, FdSessMap the finite map they implement and FdSessRuns what
    follows and what goes wrong; FdSessConc cuts the calls into the sections
    between which they give their locks back, and interleaves these.
    FdFifo has the queues of fifo.c, with every interleaving of their threads;
    FdLoops the walks over ordered lists the core shares.

    libfdcore of freeDiameter (src/freeDiameter/libfdcore).  FdApps has the
    lists of applications, FdRtData the candidates of a request (rt_data.c),
    FdPeers the registry of peers, FdRouting the routing of messages
    (routing_dispatch.c) with runs in FdRoutingRuns, FdSentReq the requests sent
    to a peer (p_sr.c).  FdEndpoints has the addresses of a peer (endpoints.c),
    FdCapa the exchange of capabilities (p_ce.c), FdBaseProto the dictionary and
    the rules it needs (dict_base_proto.c), FdCapaWire the exchange over the
    wire.  FdPsm is the state machine of a peer (p_psm.c) with its handlers
    (p_ce.c, p_dw.c, p_dp.c, p_out.c), FdPsmInv its invariant and FdPsmRuns
    failover, reopening and runs that go wrong.

    * How the code is modelled

    Unsigned integers are [Z] with the reduction written out (u8, u16, u32,
    u64); memory is a map from addresses to bytes, so that a decoder reads what
    lies behind a datagram, as the code does.  An encoder returns [None], and a
    parser [Fault], where the code writes or reads outside its array.  Loops
    that do not recurse on their data have fuel and return [OutOfFuel]; the
    termination theorems say for which inputs the fuel of the model (65536
    passes for the 16-bit counter of a decoder, one pass per byte for RADIUS
    and DHCP) is enough, and for which the code does not end.

    Sessions are objects of a heap that handlers share by pointer.  The event
    loop runs one handler at a time while Diameter threads run others; a step
    of the system is one atomic operation of one thread.  Sockets, the kernel,
    the resolver, the Diameter dictionary, the iteration order of hash tables
    and uninitialised memory are parameters ([Env]); no theorem but
    [attach_completes] and the schedules assumes that calls succeed.

    * What is proved

    Codecs: every element and message that is written into a zeroed buffer is
    recovered by its decoder (every_codec_inverts, every_var_codec_inverts,
    every_message_inverts), but for what is listed as lost
    (members_lost_in_decoding, counters_not_reset, decode_imsi_overflow), with
    the exact effect of the bit copier underneath (copybits_exact,
    field_roundtrip, encode_bits_keeps_stale); decoders end as long as the
    16-bit counter does not wrap, and loop for ever on a datagram that makes it
    (every_message_decoder_terminates, every_message_decoder_hangs); the writes
    past an array that a length on the wire can cause (copies_overflow,
    decode_imsi_overflow).
    Interfaces: RADIUS, DHCP, GTP, Diameter and NAPTR parsers against abstract
    formats, and their errors.
    System: invariants under every interleaving (no_service_without_accept,
    congestion_control, teids_unique, statistics_consistent), what single
    handlers do to the state (gtp_timeout_rejects_accepted,
    failed_authentication_keeps_session), a complete attach when every call
    succeeds (attach_completes), and schedules that lead to states the code does not
    mean to reach (refused_session_is_connected, dea_can_be_lost).
    Diameter: what is written is the format and is read back
    (fd_msg_bufferize_spec, fd_msg_roundtrip); any octets are parsed safely
    (fd_msg_parse_safe; the fuel is the number of octets, more than the levels
    of grouped AVPs); the rules are checked exactly (parserules_do_spec); the
    dictionary keeps its lists and finds what it has (dictionary_invariant,
    fd_dict_search_spec, fd_dict_new_found), on rings that behave as lists
    (fd_list_refines, fd_list_insert_ordered_spec).  Browsing visits every AVP once
    (walk_visits_tree), and adding an AVP can be undone (avp_add_unhook); times
    are read back (time_roundtrip).  An answer has what its request had
    (answer_mirrors_request).  A message goes to the documented callbacks in
    the documented order (handlers_typed, dispatch_order), and its fate
    follows exactly from what they say (dispatch_fate).  The sessions implement a
    finite map from identifiers in every interleaving of the lock sections of
    their threads in which none of three races happens (sessions_consistent,
    sessions_refine, sessions_safe); the races are runs that reach freed objects
    (store_in_destroyed_session, cleanup_after_free, sid_after_free).  They use a hash that does not depend on the alignment
    (hash_alignment) and identifiers that are unique (session_ids_unique).
    Between threads the queues keep the order and the limit and, with posts, gets
    without time limit and cancellations alone, lose no wake-up (fifo_order,
    fifo_bounded, fifo_no_lost_wakeup).  With the callbacks of the core a request
    goes to the right peer at the first attempt (request_routed), and requests
    are delivered, refused or found to loop as they should (decorated_nai,
    local_delivery, loop_detected, candidates_reordered, common_application,
    peers_registered), and their answers find them (sent_requests_refine).  A peer
    learns what a node is from its CER (cer_exchanged), keeps its addresses in
    order (endpoints_merged), and fails an assertion exactly on the messages that
    capabilities_crash describes.  Its state machine keeps its invariant in every
    run without a second validation callback (psm_invariant), loses no request
    when a connection breaks (no_request_lost) and leaves REOPEN for OPEN only
    after three watchdog messages (reopen_after_three_watchdogs).

    * Not modelled

    The elements of libgtpv2c no message of the model carries (MM contexts,
    forwarding data, traffic aggregate descriptions, the Sv elements) and the
    messages bearer_rsrc_cmd, id_rsp, fwd_reloc_req, create_fwdng_tunn_req/rsp,
    del_indir_data_fwdng_tunn_req/rsp, release_access_bearers_rsp and the
    resume and suspend pairs, whose encoders or decoders do not have the common
    shape.  Start-up of the gateway (config_manager.cpp, data_plane.cpp,
    main.cpp), epoll and sockets. Of
    libfdproto the dumps and the release of messages; of libfdcore the transport,
    the configuration and the expiry of idle peers; the extensions and libgtpnl. *)

From Stdlib Require Import ZArith List Lia Bool.
Import ListNotations.
Open Scope Z_scope.

(** * Machine integers

    A w-bit unsigned integer of the C code is a [Z]; the conversion to the
    type is the reduction modulo 2^w. *)

Definition u8 (x : Z) : Z := x mod 256.
Definition u16 (x : Z) : Z := x mod 65536.
Definition u32 (x : Z) : Z := x mod 4294967296.
Definition u64 (x : Z) : Z := x mod 18446744073709551616.

(** * Byte memory

    Memory is a total map from addresses to bytes; a C pointer is an address.
    [mbit b k] is bit [k] of the memory read as one big-endian bit string:
    bit 0 of a byte is its most significant bit. *)

Definition bytes : Type := Z -> Z.

Definition upd (b : bytes) (i v : Z) : bytes :=
  fun j => if j =? i then v else b j.

Definition wf_bytes (b : bytes) : Prop := forall i, 0 <= b i < 256.

Definition bit8 (x j : Z) : bool := Z.testbit x (7 - j).

Definition mbit (b : bytes) (k : Z) : bool := bit8 (b (k / 8)) (k mod 8).

(** [getbits b p n] is the unsigned integer written in the [n] bits from bit
    position [p] on, most significant bit first. *)
Fixpoint getbits_nat (b : bytes) (p : Z) (n : nat) : Z :=
  match n with
  | O => 0
  | S n' => 2 * getbits_nat b p n' + Z.b2z (mbit b (p + Z.of_nat n'))
  end.

Definition getbits (b : bytes) (p n : Z) : Z := getbits_nat b p (Z.to_nat n).

(** A list of bytes placed in a memory, zero elsewhere. *)
Definition of_list (l : list Z) : bytes :=
  fun i => if i <? 0 then 0 else nth (Z.to_nat i) l 0.

(** The [n] bytes from address [p] on. *)
Definition to_list (b : bytes) (p : Z) (n : nat) : list Z :=
  map (fun i => b (p + Z.of_nat i)) (seq 0 n).

(** [a[i] = x] on an array: [None] when the index is out of range. *)
Definition array_set {A} (a : list A) (i : nat) (x : A) : option (list A) :=
  if (i <? length a)%nat then Some (firstn i a ++ x :: skipn (S i) a) else None.

(** The result of code with a loop: a value, an undefined memory access, or the
    loop still running after the given number of passes. *)
Inductive outcome (A : Type) :=
| Done (a : A)
| Fault
| OutOfFuel.
Arguments Done {A}.
Arguments Fault {A}.
Arguments OutOfFuel {A}.

(** * Hint databases and tactics *)

Create HintDb twag.

(** Array sizes to unfold before arithmetic. *)
Create HintDb sizes.

Ltac zbool :=
  repeat match goal with
  | H : andb _ _ = true |- _ => apply andb_true_iff in H; destruct H
  | H : negb _ = true |- _ => apply negb_true_iff in H
  | H : negb _ = false |- _ => apply negb_false_iff in H
  | H : (_ <? _) = true |- _ => apply Z.ltb_lt in H
  | H : (_ <? _) = false |- _ => apply Z.ltb_ge in H
  | H : (_ <=? _) = true |- _ => apply Z.leb_le in H
  | H : (_ <=? _) = false |- _ => apply Z.leb_gt in H
  | H : (_ =? _) = true |- _ => apply Z.eqb_eq in H
  | H : (_ =? _) = false |- _ => apply Z.eqb_neq in H
  end.

(** Split on every comparison of integers in the goal. *)
Ltac zcases :=
  repeat match goal with
  | |- context [?a <? ?b] => destruct (Z.ltb_spec a b)
  | |- context [?a <=? ?b] => destruct (Z.leb_spec a b)
  | |- context [?a =? ?b] => destruct (Z.eqb_spec a b)
  end; cbn [andb orb negb].

(** * Lemmas on bytes and bits *)

Lemma upd_same b i v : upd b i v i = v.
Proof. unfold upd. rewrite Z.eqb_refl. reflexivity. Qed.

Lemma upd_other b i v j : j <> i -> upd b i v j = b j.
Proof. intros H. unfold upd. apply Z.eqb_neq in H. rewrite H. reflexivity. Qed.

Lemma wf_upd b i v : wf_bytes b -> 0 <= v < 256 -> wf_bytes (upd b i v).
Proof.
  intros Hb Hv j. unfold upd. destruct (j =? i); [exact Hv | apply Hb].
Qed.

#[export] Hint Resolve wf_upd : twag.

Lemma mbit_upd b i v k :
  mbit (upd b i v) k = if k / 8 =? i then bit8 v (k mod 8) else mbit b k.
Proof. unfold mbit, upd. destruct (k / 8 =? i); reflexivity. Qed.

Lemma bit8_lor x y j : bit8 (Z.lor x y) j = bit8 x j || bit8 y j.
Proof. apply Z.lor_spec. Qed.

Lemma bit8_land x y j : bit8 (Z.land x y) j = bit8 x j && bit8 y j.
Proof. apply Z.land_spec. Qed.

Lemma testbit_byte_high x i : 0 <= x < 256 -> 8 <= i -> Z.testbit x i = false.
Proof.
  intros Hx Hi. destruct (Z.eq_dec x 0) as [->|Hn]; [apply Z.bits_0|].
  apply Z.bits_above_log2; [lia|].
  apply Z.log2_lt_pow2; [lia|].
  assert (2 ^ 8 <= 2 ^ i) by (apply Z.pow_le_mono_r; lia). lia.
Qed.

Lemma u8_testbit x i : 0 <= i -> Z.testbit (u8 x) i = (i <? 8) && Z.testbit x i.
Proof.
  intros Hi. unfold u8. change 256 with (2 ^ 8).
  destruct (Z.ltb_spec i 8).
  - rewrite Z.mod_pow2_bits_low by lia. reflexivity.
  - rewrite Z.mod_pow2_bits_high by lia. reflexivity.
Qed.

Lemma bit8_shiftl x l j :
  0 <= l -> 0 <= j < 8 -> bit8 (u8 (Z.shiftl x l)) j = (j + l <? 8) && bit8 x (j + l).
Proof.
  intros Hl Hj. unfold bit8. rewrite u8_testbit by lia.
  destruct (Z.ltb_spec (7 - j) 8); [|lia]. cbn [andb].
  rewrite Z.shiftl_spec by lia.
  destruct (Z.ltb_spec (j + l) 8); cbn [andb].
  - f_equal. lia.
  - apply Z.testbit_neg_r. lia.
Qed.

Lemma bit8_shiftr x r j :
  0 <= x < 256 -> 0 <= r -> 0 <= j < 8 ->
  bit8 (Z.shiftr x r) j = (r <=? j) && bit8 x (j - r).
Proof.
  intros Hx Hr Hj. unfold bit8. rewrite Z.shiftr_spec by lia.
  destruct (Z.leb_spec r j); cbn [andb].
  - f_equal. lia.
  - apply testbit_byte_high; lia.
Qed.

Lemma byte_ext x y :
  0 <= x < 256 -> 0 <= y < 256 ->
  (forall j, 0 <= j < 8 -> bit8 x j = bit8 y j) -> x = y.
Proof.
  intros Hx Hy H. apply Z.bits_inj'. intros i Hi.
  destruct (Z.ltb_spec i 8).
  - specialize (H (7 - i)). unfold bit8 in H.
    replace (7 - (7 - i)) with i in H by lia. apply H. lia.
  - rewrite !testbit_byte_high by lia. reflexivity.
Qed.

Lemma byte_of_bits x :
  0 <= x -> (forall i, 8 <= i -> Z.testbit x i = false) -> 0 <= x < 256.
Proof.
  intros Hx H. replace x with (u8 x); [apply Z.mod_pos_bound; lia|].
  apply Z.bits_inj'. intros i Hi. rewrite u8_testbit by lia.
  destruct (Z.ltb_spec i 8); [reflexivity|]. symmetry. apply H. lia.
Qed.

Lemma byte_lor x y : 0 <= x < 256 -> 0 <= y < 256 -> 0 <= Z.lor x y < 256.
Proof.
  intros Hx Hy. apply byte_of_bits; [apply Z.lor_nonneg; lia|].
  intros i Hi. rewrite Z.lor_spec, !testbit_byte_high by lia. reflexivity.
Qed.

Lemma byte_land x y : 0 <= x < 256 -> 0 <= y -> 0 <= Z.land x y < 256.
Proof.
  intros Hx Hy. apply byte_of_bits; [apply Z.land_nonneg; lia|].
  intros i Hi. rewrite Z.land_spec, testbit_byte_high by lia. reflexivity.
Qed.

Lemma byte_shiftr x r : 0 <= x < 256 -> 0 <= r -> 0 <= Z.shiftr x r < 256.
Proof.
  intros Hx Hr. rewrite Z.shiftr_div_pow2 by lia.
  assert (0 < 2 ^ r) by (apply Z.pow_pos_nonneg; lia).
  split; [apply Z.div_pos; lia|].
  apply Z.div_lt_upper_bound; nia.
Qed.

Lemma byte_u8 x : 0 <= u8 x < 256.
Proof. apply Z.mod_pos_bound. lia. Qed.

#[export] Hint Resolve byte_lor byte_land byte_shiftr byte_u8 : twag.

(** Two memories with the same bits have the same bytes. *)
Lemma bytes_ext b c i :
  wf_bytes b -> wf_bytes c ->
  (forall k, 8 * i <= k < 8 * i + 8 -> mbit b k = mbit c k) -> b i = c i.
Proof.
  intros Hb Hc H. apply byte_ext; auto. intros j Hj.
  specialize (H (8 * i + j)). unfold mbit in H.
  replace ((8 * i + j) / 8) with i in H by (Z.div_mod_to_equations; lia).
  replace ((8 * i + j) mod 8) with j in H by (Z.div_mod_to_equations; lia).
  apply H. lia.
Qed.

(** * Lemmas on [getbits] *)

Lemma getbits_nat_testbit b p n i :
  0 <= i ->
  Z.testbit (getbits_nat b p n) i =
  (i <? Z.of_nat n) && mbit b (p + Z.of_nat n - 1 - i).
Proof.
  revert i. induction n as [|n IH]; intros i Hi.
  - cbn. rewrite Z.bits_0. destruct (Z.ltb_spec i 0); [lia|]. reflexivity.
  - cbn [getbits_nat].
    destruct (Z.eq_dec i 0) as [->|Hne].
    + rewrite Z.testbit_0_r. destruct (Z.ltb_spec 0 (Z.of_nat (S n))); [|lia].
      cbn [andb]. f_equal. lia.
    + replace i with (Z.succ (i - 1)) by lia.
      rewrite Z.testbit_succ_r by lia.
      rewrite IH by lia. f_equal; [|f_equal; lia].
      destruct (Z.ltb_spec (i - 1) (Z.of_nat n)), (Z.ltb_spec (Z.succ (i - 1)) (Z.of_nat (S n)));
        lia || reflexivity.
Qed.

Lemma getbits_testbit b p n i :
  0 <= n -> 0 <= i ->
  Z.testbit (getbits b p n) i = (i <? n) && mbit b (p + n - 1 - i).
Proof.
  intros Hn Hi. unfold getbits. rewrite getbits_nat_testbit by lia.
  rewrite Z2Nat.id by lia. reflexivity.
Qed.

Lemma getbits_ext b c p n :
  (forall k, p <= k < p + n -> mbit b k = mbit c k) -> getbits b p n = getbits c p n.
Proof.
  intros H. destruct (Z.le_gt_cases 0 n) as [Hn|Hn].
  - apply Z.bits_inj'. intros i Hi. rewrite !getbits_testbit by lia.
    destruct (Z.ltb_spec i n); [|reflexivity]. cbn [andb]. apply H. lia.
  - unfold getbits. destruct n; [lia|lia|reflexivity].
Qed.

Lemma getbits_range b p n : 0 <= n -> 0 <= getbits b p n < 2 ^ n.
Proof.
  intros Hn. assert (H : forall k, 0 <= getbits_nat b p k < 2 ^ Z.of_nat k).
  { induction k as [|k IH]; [cbn; lia|].
    cbn [getbits_nat]. rewrite Nat2Z.inj_succ, Z.pow_succ_r by lia.
    destruct (mbit b _); cbn [Z.b2z]; lia. }
  specialize (H (Z.to_nat n)). rewrite Z2Nat.id in H by lia. exact H.
Qed.

(** An 8-bit read at a byte boundary is the byte. *)
Lemma getbits_byte b i : wf_bytes b -> getbits b (8 * i) 8 = b i.
Proof.
  intros Hb. apply Z.bits_inj'. intros j Hj. rewrite getbits_testbit by lia.
  destruct (Z.ltb_spec j 8); cbn [andb].
  - unfold mbit, bit8.
    replace ((8 * i + 8 - 1 - j) / 8) with i by (Z.div_mod_to_equations; lia).
    f_equal. Z.div_mod_to_equations; lia.
  - symmetry. apply testbit_byte_high; [apply Hb | lia].
Qed.

Lemma getbits_split b p n1 n2 :
  0 <= n1 -> 0 <= n2 ->
  getbits b p (n1 + n2) = getbits b p n1 * 2 ^ n2 + getbits b (p + n1) n2.
Proof.
  intros H1 H2.
  assert (H : forall k, getbits_nat b p (Z.to_nat n1 + k) =
    getbits_nat b p (Z.to_nat n1) * 2 ^ Z.of_nat k + getbits_nat b (p + n1) k).
  { induction k as [|k IH].
    - rewrite Nat.add_0_r. cbn. lia.
    - rewrite Nat.add_succ_r. cbn [getbits_nat]. rewrite IH, Nat2Z.inj_succ, Z.pow_succ_r by lia.
      replace (p + Z.of_nat (Z.to_nat n1 + k)) with (p + n1 + Z.of_nat k) by lia. lia. }
  unfold getbits. rewrite Z2Nat.inj_add, H, Z2Nat.id by lia. reflexivity.
Qed.

(** * Lemmas on arrays *)

Lemma array_set_length {A} (a b : list A) i x : array_set a i x = Some b -> length b = length a.
Proof.
  unfold array_set. destruct (Nat.ltb_spec i (length a)); [|discriminate]. intros E.
  enough (length (firstn i a ++ x :: skipn (S i) a) = length a) by congruence.
  rewrite length_app, length_firstn. cbn [length]. rewrite length_skipn. lia.
Qed.

Lemma array_set_none {A} (a : list A) i x : array_set a i x = None <-> (length a <= i)%nat.
Proof.
  unfold array_set. destruct (Nat.ltb_spec i (length a)); split; try discriminate; try lia; auto.
Qed.

(** Filling position [i] after the first [i] positions were filled from [c]. *)
Lemma array_set_prefix {A} (c old : list A) i x :
  nth_error c i = Some x -> (i < length old)%nat ->
  array_set (firstn i c ++ skipn i old) i x = Some (firstn (S i) c ++ skipn (S i) old).
Proof.
  intros Hx Hi. assert (Hc : (i < length c)%nat) by (apply nth_error_Some; congruence).
  unfold array_set. rewrite length_app, length_firstn, length_skipn.
  destruct (Nat.ltb_spec i (min i (length c) + (length old - i))); [|lia].
  rewrite firstn_app, skipn_app, length_firstn, firstn_firstn.
  replace (i - min i (length c))%nat with 0%nat by lia.
  replace (S i - min i (length c))%nat with 1%nat by lia.
  rewrite Nat.min_id, firstn_O, app_nil_r.
  rewrite (skipn_all2 (n := S i) (firstn i c)) by (rewrite length_firstn; lia).
  rewrite skipn_skipn. cbn [app]. f_equal.
  destruct (nth_error_split c i Hx) as (l1 & l2 & -> & <-).
  assert (E1 : firstn (length l1) (l1 ++ x :: l2) = l1).
  { rewrite firstn_app, Nat.sub_diag, firstn_all, firstn_O. apply app_nil_r. }
  assert (E2 : firstn (S (length l1)) (l1 ++ x :: l2) = l1 ++ [x]).
  { rewrite firstn_app, firstn_all2 by lia.
    replace (S (length l1) - length l1)%nat with 1%nat by lia. reflexivity. }
  rewrite E1, E2, <- app_assoc. reflexivity.
Qed.

(** An array is its element at a valid index and what surrounds it. *)
Lemma skipn_nth {A} (l : list A) i x : nth_error l i = Some x -> skipn i l = x :: skipn (S i) l.
Proof.
  intros Hx. destruct (nth_error_split l i Hx) as (l1 & l2 & -> & <-).
  rewrite !skipn_app, Nat.sub_diag, skipn_all, (skipn_all2 (n := S (length l1)) l1) by lia.
  replace (S (length l1) - length l1)%nat with 1%nat by lia. reflexivity.
Qed.

(** Or-ing a value of [n] bits below a shifted one is adding it. *)
Lemma lor_shiftl_add x y n :
  0 <= n -> 0 <= y < 2 ^ n -> Z.lor (Z.shiftl x n) y = x * 2 ^ n + y.
Proof.
  intros Hn Hy. rewrite <- Z.shiftl_mul_pow2 by lia.
  assert (E : Z.land (Z.shiftl x n) y = 0).
  { apply Z.bits_inj'. intros i Hi. rewrite Z.land_spec, Z.bits_0.
    destruct (Z.ltb_spec i n).
    - rewrite Z.shiftl_spec_low by lia. reflexivity.
    - rewrite <- (Z.mod_small y (2 ^ n)), Z.mod_pow2_bits_high by lia. apply andb_false_r. }
  pose proof (Z.add_lor_land (Z.shiftl x n) y) as H. lia.
Qed.
