(* ===== verification/EncDecBits.v ===== *)
(** Bit copying: libgtpv2c/src/enc_dec_bits.c.

    [copybits] copies a run of bits between two byte arrays at arbitrary bit
    offsets; [encode_bits] and [decode_bits] use it to write and read an
    integer field of 1 to 64 bits.  The file gives the exact effect of
    [copybits] on every bit of the destination, and from it the effect of a
    field write, the value of a field read and their round trip. *)

From Stdlib Require Import ZArith List Lia Bool.
From S2P Require Import Prelude.
Import ListNotations.
Open Scope Z_scope.

(** * Definitions *)

Definition CHAR_BIT : Z := 8.

Definition mask_bits_tbl : list Z :=
  [0x55; 0x80; 0xc0; 0xe0; 0xf0; 0xf8; 0xfc; 0xfe; 0xff].

Definition xor_mask_bits_tbl : list Z :=
  [0xff; 0x7f; 0x3f; 0x1f; 0x0f; 0x07; 0x03; 0x01; 0x00].

Definition mask_bits (i : Z) : Z := nth (Z.to_nat i) mask_bits_tbl 0.
Definition xor_mask_bits (i : Z) : Z := nth (Z.to_nat i) xor_mask_bits_tbl 0.

(** The three in-out arguments are returned: the remaining bit count, the
    destination byte and the byte to merge into it. *)
Definition copy_start_bits (copy_bit_count destination mod_destination_offset byte : Z)
  : Z * Z * Z :=
  if CHAR_BIT - mod_destination_offset <=? copy_bit_count then
    (copy_bit_count - (CHAR_BIT - mod_destination_offset),
     Z.land destination (mask_bits mod_destination_offset),
     byte)
  else
    (0,
     Z.land destination
       (Z.lor (mask_bits mod_destination_offset)
              (xor_mask_bits (mod_destination_offset + copy_bit_count + 1))),
     Z.land byte (mask_bits (mod_destination_offset + copy_bit_count))).

(** [copy_byte = *p << left; copy_byte |= *(p + 1) >> right] *)
Definition shifted_byte (src : bytes) (p left_shift right_shift : Z) : Z :=
  Z.lor (u8 (Z.shiftl (src p) left_shift)) (Z.shiftr (src (p + 1)) right_shift).

(** The [while (copy_byte_length >= 0)] loop, run [n] times. *)
Fixpoint copy_shifted (n : nat) (src : bytes) (ptr_source left_shift right_shift : Z)
    (dest : bytes) (ptr_destination : Z) : bytes :=
  match n with
  | O => dest
  | S n' =>
      copy_shifted n' src (ptr_source + 1) left_shift right_shift
        (upd dest ptr_destination (shifted_byte src ptr_source left_shift right_shift))
        (ptr_destination + 1)
  end.

Fixpoint memcpy (n : nat) (dest : bytes) (ptr_destination : Z) (src : bytes) (ptr_source : Z)
  : bytes :=
  match n with
  | O => dest
  | S n' =>
      memcpy n' (upd dest ptr_destination (src ptr_source)) (ptr_destination + 1)
        src (ptr_source + 1)
  end.

(** The code of [copybits] after its first byte, offsets modulo 8 different:
    whole bytes by shifting, then the remaining bits. *)
Definition copy_rest_shifted (src : bytes) (ptr_source left_shift right_shift copy_bit_count : Z)
    (dest : bytes) (ptr_destination : Z) : bytes :=
  let copy_byte_length := Z.to_nat (copy_bit_count / CHAR_BIT) in
  let dest := copy_shifted copy_byte_length src ptr_source left_shift right_shift
                dest ptr_destination in
  let ptr_source := ptr_source + Z.of_nat copy_byte_length in
  let ptr_destination := ptr_destination + Z.of_nat copy_byte_length in
  let copy_bit_count_modulo := copy_bit_count mod CHAR_BIT in
  if 0 <? copy_bit_count_modulo then
    let copy_byte := Z.land (shifted_byte src ptr_source left_shift right_shift)
                            (mask_bits copy_bit_count_modulo) in
    upd dest ptr_destination
      (Z.lor (Z.land (dest ptr_destination) (xor_mask_bits copy_bit_count_modulo)) copy_byte)
  else dest.

(** The same with equal offsets modulo 8: [memcpy], then the remaining bits. *)
Definition copy_rest_aligned (src : bytes) (ptr_source copy_bit_count : Z)
    (dest : bytes) (ptr_destination : Z) : bytes :=
  let copy_byte_length := Z.to_nat (copy_bit_count / CHAR_BIT) in
  let copy_bit_count_modulo := copy_bit_count mod CHAR_BIT in
  let dest := memcpy copy_byte_length dest ptr_destination src ptr_source in
  let ptr_source := ptr_source + Z.of_nat copy_byte_length in
  let ptr_destination := ptr_destination + Z.of_nat copy_byte_length in
  if 0 <? copy_bit_count_modulo then
    upd dest ptr_destination
      (Z.lor (Z.land (dest ptr_destination) (xor_mask_bits copy_bit_count_modulo))
             (Z.land (mask_bits copy_bit_count_modulo) (src ptr_source)))
  else dest.

(** [src + sp] and [dest + dp] are the two pointer arguments; the result is
    the return value and the destination array.  [src_length] is unused by
    the code. *)
Definition copybits (src : bytes) (sp src_offset copy_bit_count : Z)
    (dest : bytes) (dp dest_offset : Z) : Z * bytes :=
  let ret := copy_bit_count in
  if copy_bit_count <? 1 then (0, dest) else
  let ptr_source := sp + src_offset / CHAR_BIT in
  let ptr_destination := dp + dest_offset / CHAR_BIT in
  let mod_source_offset := src_offset mod CHAR_BIT in
  let mod_destination_offset := dest_offset mod CHAR_BIT in
  if negb (mod_source_offset =? mod_destination_offset) then
    let '(left_shift, right_shift, copy_byte, ptr_source) :=
      if mod_destination_offset <? mod_source_offset then
        let left_shift := mod_source_offset - mod_destination_offset in
        let right_shift := CHAR_BIT - left_shift in
        (left_shift, right_shift,
         Z.land (shifted_byte src ptr_source left_shift right_shift)
                (xor_mask_bits mod_destination_offset),
         ptr_source + 1)
      else
        let right_shift := mod_destination_offset - mod_source_offset in
        (CHAR_BIT - right_shift, right_shift,
         Z.land (Z.shiftr (src ptr_source) right_shift)
                (xor_mask_bits mod_destination_offset),
         ptr_source) in
    let '(copy_bit_count, d, copy_byte) :=
      copy_start_bits copy_bit_count (dest ptr_destination) mod_destination_offset copy_byte in
    let dest := upd dest ptr_destination (Z.lor d copy_byte) in
    (ret, copy_rest_shifted src ptr_source left_shift right_shift copy_bit_count
            dest (ptr_destination + 1))
  else if 0 <? mod_source_offset then
    let copy_byte := Z.land (xor_mask_bits mod_destination_offset) (src ptr_source) in
    let '(copy_bit_count, d, copy_byte) :=
      copy_start_bits copy_bit_count (dest ptr_destination) mod_destination_offset copy_byte in
    let dest := upd dest ptr_destination (Z.lor d copy_byte) in
    (ret, copy_rest_aligned src (ptr_source + 1) copy_bit_count dest (ptr_destination + 1))
  else (ret, copy_rest_aligned src ptr_source copy_bit_count dest ptr_destination).

(** The byte count is kept in a [uint8_t]. *)
Definition bits_to_bytes (bits : Z) : Z :=
  let byte_count := u8 (bits / CHAR_BIT) in
  if negb (bits mod CHAR_BIT =? 0) then u8 (byte_count + 1) else byte_count.

Definition find_end_bit (numBits : Z) : Z :=
  let endBit := numBits mod CHAR_BIT in
  if endBit =? 0 then CHAR_BIT else endBit.

Definition copy_bits_right_aligned (source : bytes) (sp offset copy_bit_count : Z)
    (destination : bytes) (dp destination_length : Z) : bool * bytes :=
  let '(r, destination) :=
    copybits source sp offset copy_bit_count destination dp
      (u16 ((destination_length - bits_to_bytes copy_bit_count) * CHAR_BIT
            + CHAR_BIT - find_end_bit copy_bit_count)) in
  (negb (r =? 0), destination).

(** The union [byte_value_t]: the eight bytes of a [uint64_t] after
    [__builtin_bswap64] on a little-endian host, that is in network order. *)
Definition val8_of (past : bytes) (val64 : Z) : bytes :=
  fun i => if (0 <=? i) && (i <? 8) then u8 (Z.shiftr val64 (8 * (7 - i))) else past i.

Definition val64_of (val8 : bytes) : Z := getbits val8 0 64.

(** [source + sp] is the source pointer; the result is the value and the
    updated [*decoded_bit_count]. *)
Definition decode_bits (source : bytes) (sp offset bit_count decoded_bit_count : Z) : Z * Z :=
  if (64 <? bit_count) || (bit_count <? 1) then (0, decoded_bit_count)
  else
    let '(copied, combined) :=
      copy_bits_right_aligned source sp offset bit_count (fun _ => 0) 0 8 in
    if copied then (val64_of combined, bit_count) else (val64_of combined, 0).

(** [past] is what the stack holds beside the union. *)
Definition encode_bits_stack (past : bytes) (value bit_count : Z)
    (destination : bytes) (dp offset : Z) : Z * bytes :=
  let byte_val := val8_of past (u64 value) in
  copybits byte_val 0 (u16 (8 * CHAR_BIT - bit_count)) bit_count destination dp offset.

Definition encode_bits (value bit_count : Z) (destination : bytes) (dp offset : Z) : Z * bytes :=
  encode_bits_stack (fun _ => 0) value bit_count destination dp offset.

(** * The masks *)

Ltac enum x lo hi :=
  let rec go v :=
    lazymatch eval vm_compute in (v <? hi) with
    | true =>
        let v' := eval vm_compute in (v + 1) in
        destruct (Z.eq_dec x v) as [->|?]; [| go v']
    | false => exfalso; lia
    end in
  go lo.

Lemma mask_bits_spec m j :
  0 <= m <= 8 -> 0 <= j < 8 ->
  bit8 (mask_bits m) j = if m =? 0 then Z.odd j else j <? m.
Proof. intros Hm Hj. enum m 0 9; enum j 0 8; reflexivity. Qed.

Lemma xor_mask_bits_spec m j :
  0 <= m <= 8 -> 0 <= j < 8 -> bit8 (xor_mask_bits m) j = (m <=? j).
Proof. intros Hm Hj. enum m 0 9; enum j 0 8; reflexivity. Qed.

Lemma mask_bits_byte m : 0 <= m <= 8 -> 0 <= mask_bits m < 256.
Proof. intros Hm. enum m 0 9; vm_compute; split; congruence. Qed.

Lemma xor_mask_bits_byte m : 0 <= m <= 8 -> 0 <= xor_mask_bits m < 256.
Proof. intros Hm. enum m 0 9; vm_compute; split; congruence. Qed.

(** * Whole bytes *)

Lemma mbit_at b q j : 0 <= j < 8 -> mbit b (8 * q + j) = bit8 (b q) j.
Proof.
  intros Hj. unfold mbit.
  replace ((8 * q + j) / 8) with q by (Z.div_mod_to_equations; lia).
  replace ((8 * q + j) mod 8) with j by (Z.div_mod_to_equations; lia).
  reflexivity.
Qed.

Lemma mbit_split k : exists q j, k = 8 * q + j /\ 0 <= j < 8 /\ q = k / 8 /\ j = k mod 8.
Proof. exists (k / 8), (k mod 8). Z.div_mod_to_equations; lia. Qed.

Lemma mbit_upd_at b i v q j :
  0 <= j < 8 ->
  mbit (upd b i v) (8 * q + j) = if q =? i then bit8 v j else mbit b (8 * q + j).
Proof.
  intros Hj. rewrite !mbit_at by lia. unfold upd. destruct (q =? i); reflexivity.
Qed.

Lemma shifted_byte_spec src p l j :
  wf_bytes src -> 0 < l < 8 -> 0 <= j < 8 ->
  bit8 (shifted_byte src p l (8 - l)) j = mbit src (8 * p + l + j).
Proof.
  intros Hs Hl Hj. unfold shifted_byte.
  rewrite bit8_lor, bit8_shiftl, bit8_shiftr by (apply Hs || lia).
  destruct (Z.ltb_spec (j + l) 8), (Z.leb_spec (8 - l) j); try lia; cbn [andb orb].
  - rewrite orb_false_r. replace (8 * p + l + j) with (8 * p + (j + l)) by lia.
    rewrite mbit_at by lia. reflexivity.
  - replace (8 * p + l + j) with (8 * (p + 1) + (j - (8 - l))) by lia.
    rewrite mbit_at by lia. reflexivity.
Qed.

Lemma shifted_byte_byte src p l :
  wf_bytes src -> 0 < l < 8 -> 0 <= shifted_byte src p l (8 - l) < 256.
Proof.
  intros Hs Hl. unfold shifted_byte. apply byte_lor; [apply byte_u8|].
  apply byte_shiftr; [apply Hs | lia].
Qed.

#[export] Hint Resolve mask_bits_byte xor_mask_bits_byte shifted_byte_byte : twag.

Lemma copy_shifted_wf n src ps l dest pd :
  wf_bytes src -> wf_bytes dest -> 0 < l < 8 ->
  wf_bytes (copy_shifted n src ps l (8 - l) dest pd).
Proof.
  intros Hs Hd Hl. revert ps dest pd Hd.
  induction n as [|n IH]; intros; cbn [copy_shifted]; auto.
  apply IH. auto with twag.
Qed.

Lemma copy_shifted_spec n src ps l dest pd k :
  wf_bytes src -> 0 < l < 8 ->
  mbit (copy_shifted n src ps l (8 - l) dest pd) k =
  if (8 * pd <=? k) && (k <? 8 * (pd + Z.of_nat n))
  then mbit src (8 * ps + l + (k - 8 * pd)) else mbit dest k.
Proof.
  intros Hs Hl. destruct (mbit_split k) as (q & j & -> & Hj & _ & _).
  revert ps dest pd. induction n as [|n IH]; intros ps dest pd; cbn [copy_shifted].
  - zcases; try lia; reflexivity.
  - rewrite IH, mbit_upd_at, shifted_byte_spec by (auto || lia).
    zcases; try lia; try reflexivity; f_equal; lia.
Qed.

Lemma memcpy_wf n dest pd src ps :
  wf_bytes src -> wf_bytes dest -> wf_bytes (memcpy n dest pd src ps).
Proof.
  intros Hs. revert dest pd ps. induction n as [|n IH]; intros; cbn [memcpy]; auto.
  apply IH. apply wf_upd; auto.
Qed.

Lemma memcpy_spec n dest pd src ps i :
  memcpy n dest pd src ps i =
  if (pd <=? i) && (i <? pd + Z.of_nat n) then src (ps + (i - pd)) else dest i.
Proof.
  revert dest pd ps. induction n as [|n IH]; intros dest pd ps; cbn [memcpy].
  - zcases; try lia; reflexivity.
  - rewrite IH. unfold upd. zcases; try lia; try reflexivity; f_equal; lia.
Qed.

Lemma memcpy_bits n dest pd src ps k :
  mbit (memcpy n dest pd src ps) k =
  if (8 * pd <=? k) && (k <? 8 * (pd + Z.of_nat n))
  then mbit src (8 * ps + (k - 8 * pd)) else mbit dest k.
Proof.
  destruct (mbit_split k) as (q & j & -> & Hj & _ & _).
  rewrite mbit_at, memcpy_spec by lia.
  zcases; try lia; try (rewrite mbit_at by lia; reflexivity).
  replace (8 * ps + (8 * q + j - 8 * pd)) with (8 * (ps + (q - pd)) + j) by lia.
  rewrite mbit_at by lia. reflexivity.
Qed.

(** * The parts of [copybits] *)

(** Merging [n] bits of [x], aligned at the start of the byte, into [d]. *)
Lemma merge_tail_spec d x n j :
  0 < n < 8 -> 0 <= j < 8 ->
  bit8 (Z.lor (Z.land d (xor_mask_bits n)) (Z.land x (mask_bits n))) j =
  if j <? n then bit8 x j else bit8 d j.
Proof.
  intros Hn Hj. rewrite bit8_lor, !bit8_land, xor_mask_bits_spec, mask_bits_spec by lia.
  zcases; try lia; rewrite ?andb_true_r, ?andb_false_r, ?orb_false_r; reflexivity.
Qed.

Lemma copy_rest_shifted_spec src ps l n dest pd :
  wf_bytes src -> wf_bytes dest -> 0 < l < 8 -> 0 <= n ->
  let dest' := copy_rest_shifted src ps l (8 - l) n dest pd in
  wf_bytes dest' /\
  forall k, mbit dest' k =
    if (8 * pd <=? k) && (k <? 8 * pd + n)
    then mbit src (8 * ps + l + (k - 8 * pd)) else mbit dest k.
Proof.
  intros Hs Hd Hl Hn. unfold copy_rest_shifted, CHAR_BIT. cbv zeta.
  assert (Hq : 0 <= n / 8) by (apply Z.div_pos; lia).
  pose proof (Z.div_mod n 8 ltac:(lia)) as Hdm.
  pose proof (Z.mod_pos_bound n 8 ltac:(lia)) as Hm.
  pose proof (copy_shifted_wf (Z.to_nat (n / 8)) src ps l dest pd Hs Hd Hl) as Hw.
  pose proof (fun k => copy_shifted_spec (Z.to_nat (n / 8)) src ps l dest pd k Hs Hl) as Hb.
  rewrite Z2Nat.id in * by lia.
  destruct (Z.ltb_spec 0 (n mod 8)) as [Hr|Hr].
  - split.
    { apply wf_upd; [exact Hw|]. apply byte_lor; apply byte_land;
        auto with twag; try apply xor_mask_bits_byte; try apply mask_bits_byte; lia. }
    intros k. destruct (mbit_split k) as (q & j & -> & Hj & _ & _).
    rewrite mbit_upd_at, merge_tail_spec, shifted_byte_spec, <- mbit_at, !Hb by (auto || lia).
    zcases; try lia; try reflexivity; f_equal; lia.
  - split; [exact Hw|]. intros k. rewrite Hb. zcases; try lia; reflexivity.
Qed.

Lemma copy_rest_aligned_spec src ps n dest pd :
  wf_bytes src -> wf_bytes dest -> 0 <= n ->
  let dest' := copy_rest_aligned src ps n dest pd in
  wf_bytes dest' /\
  forall k, mbit dest' k =
    if (8 * pd <=? k) && (k <? 8 * pd + n)
    then mbit src (8 * ps + (k - 8 * pd)) else mbit dest k.
Proof.
  intros Hs Hd Hn. unfold copy_rest_aligned, CHAR_BIT. cbv zeta.
  assert (Hq : 0 <= n / 8) by (apply Z.div_pos; lia).
  pose proof (Z.div_mod n 8 ltac:(lia)) as Hdm.
  pose proof (Z.mod_pos_bound n 8 ltac:(lia)) as Hm.
  pose proof (memcpy_wf (Z.to_nat (n / 8)) dest pd src ps Hs Hd) as Hw.
  pose proof (memcpy_bits (Z.to_nat (n / 8)) dest pd src ps) as Hb.
  rewrite Z2Nat.id in * by lia.
  destruct (Z.ltb_spec 0 (n mod 8)) as [Hr|Hr].
  - rewrite (Z.land_comm (mask_bits _)). split.
    { apply wf_upd; [exact Hw|]. apply byte_lor; apply byte_land;
        auto; try apply xor_mask_bits_byte; try apply mask_bits_byte; lia. }
    intros k. destruct (mbit_split k) as (q & j & -> & Hj & _ & _).
    rewrite mbit_upd_at, merge_tail_spec, <- !mbit_at, !Hb by (auto || lia).
    zcases; try lia; try reflexivity; f_equal; lia.
  - split; [exact Hw|]. intros k. rewrite Hb. zcases; try lia; reflexivity.
Qed.

Lemma copy_start_bits_spec n d m cb (f : Z -> bool) :
  1 <= n -> 0 <= m < 8 -> 0 <= d < 256 -> 0 <= cb < 256 ->
  (forall j, 0 <= j < 8 -> bit8 cb j = (m <=? j) && f j) ->
  let '(n', d', cb') := copy_start_bits n d m cb in
  n' = Z.max 0 (n - (8 - m)) /\ 0 <= Z.lor d' cb' < 256 /\
  forall j, 0 <= j < 8 ->
    bit8 (Z.lor d' cb') j =
    if (m <=? j) && (j <? m + n) then f j || ((m =? 0) && Z.odd j && bit8 d j)
    else if j =? m + n then (m =? 0) && Z.odd j && bit8 d j
    else bit8 d j.
Proof.
  intros Hn Hm Hd Hcb Hf. unfold copy_start_bits, CHAR_BIT.
  destruct (Z.leb_spec (8 - m) n) as [Hc|Hc].
  - split; [lia|]. split.
    { apply byte_lor; [apply byte_land; [lia | apply mask_bits_byte; lia] | lia]. }
    intros j Hj. rewrite bit8_lor, bit8_land, mask_bits_spec, Hf by lia.
    zcases; try lia; destruct (bit8 d j), (f j), (Z.odd j); reflexivity.
  - split; [lia|]. split.
    { apply byte_lor; apply byte_land; try lia.
      - apply Z.lor_nonneg; split; [apply mask_bits_byte | apply xor_mask_bits_byte]; lia.
      - apply mask_bits_byte; lia. }
    intros j Hj.
    rewrite bit8_lor, !bit8_land, bit8_lor, !mask_bits_spec, xor_mask_bits_spec, Hf by lia.
    zcases; try lia; destruct (bit8 d j), (f j), (Z.odd j); reflexivity.
Qed.

(** * The effect of [copybits] on every bit

    The run of [n] bits from bit [S] of the source is copied to bit [D] of the
    destination, with two deviations, both in the first byte and only when
    [copy_start_bits] handles it: when the run starts on a byte boundary of
    the destination the old bits at odd positions of that byte are merged in
    ([mask_bits[0]] is 0x55, not 0), and when the run ends inside that byte
    the bit that follows it is cleared, unless merged in likewise. *)

Definition first_byte_path (src_offset dest_offset : Z) : bool :=
  negb (src_offset mod 8 =? dest_offset mod 8) || (0 <? src_offset mod 8).

Definition stale (src_offset dest_offset D k : Z) : bool :=
  first_byte_path src_offset dest_offset && (dest_offset mod 8 =? 0) && (k <? D + 8)
  && Z.odd (k - D).

Definition copied_bit (src : bytes) (S src_offset n : Z) (dest : bytes) (D dest_offset k : Z)
  : bool :=
  if (D <=? k) && (k <? D + n) then
    mbit src (S + (k - D)) || (stale src_offset dest_offset D k && mbit dest k)
  else if (k =? D + n) && (first_byte_path src_offset dest_offset && (dest_offset mod 8 + n <? 8))
  then stale src_offset dest_offset D k && mbit dest k
  else mbit dest k.

(** What the proofs of the three paths share: first byte, then the rest. *)
Lemma first_then_rest src dest S D m n f w dest' :
  1 <= n -> 0 <= m < 8 ->
  (forall j, m <= j < 8 -> f j = mbit src (S + (j - m))) ->
  (forall j, 0 <= j < 8 -> bit8 w j =
    if (m <=? j) && (j <? m + n) then f j || ((m =? 0) && Z.odd j && mbit dest (8 * D + j))
    else if j =? m + n then (m =? 0) && Z.odd j && mbit dest (8 * D + j)
    else mbit dest (8 * D + j)) ->
  (forall k, mbit dest' k =
    if (8 * (D + 1) <=? k) && (k <? 8 * (D + 1) + Z.max 0 (n - (8 - m)))
    then mbit src (S + (8 - m) + (k - 8 * (D + 1))) else mbit (upd dest D w) k) ->
  forall k, mbit dest' k =
    if (8 * D + m <=? k) && (k <? 8 * D + m + n) then
      mbit src (S + (k - (8 * D + m)))
      || ((m =? 0) && (k <? 8 * D + m + 8) && Z.odd (k - (8 * D + m)) && mbit dest k)
    else if (k =? 8 * D + m + n) && (m + n <? 8)
    then (m =? 0) && (k <? 8 * D + m + 8) && Z.odd (k - (8 * D + m)) && mbit dest k
    else mbit dest k.
Proof.
  intros Hn Hm Hf Hw Hd k. rewrite Hd. clear Hd.
  destruct (mbit_split k) as (q & j & -> & Hj & _ & _).
  rewrite mbit_upd_at by lia.
  destruct (Z.eqb_spec q D) as [->|Hq].
  - rewrite Hw by lia. clear Hw.
    destruct (Z.eqb_spec m 0) as [->|Hm0].
    + replace (8 * D + j - (8 * D + 0)) with j by lia.
      zcases; try lia; try reflexivity; rewrite Hf by lia; do 2 f_equal; lia.
    + zcases; try lia; try reflexivity; rewrite Hf by lia; rewrite ?orb_false_r; f_equal; lia.
  - clear Hw Hf. zcases; try lia; rewrite ?andb_false_r, ?orb_false_r; cbn [andb orb];
      rewrite ?orb_false_r; try reflexivity; f_equal; lia.
Qed.

Lemma offset_split p off :
  exists q m, off / 8 = q /\ off mod 8 = m /\ 0 <= m < 8 /\ 8 * p + off = 8 * (p + q) + m.
Proof. exists (off / 8), (off mod 8). Z.div_mod_to_equations; lia. Qed.

(** The window of the source that [copy_start_bits] merges, in each of the
    three cases of the offsets. *)
Lemma first_byte_right src ps ms md j :
  wf_bytes src -> 0 <= md < ms -> ms < 8 -> 0 <= j < 8 ->
  bit8 (Z.land (shifted_byte src ps (ms - md) (8 - (ms - md))) (xor_mask_bits md)) j
  = (md <=? j) && mbit src (8 * ps + ms + (j - md)).
Proof.
  intros Hs Hm Hms Hj. rewrite bit8_land, shifted_byte_spec, xor_mask_bits_spec by (auto || lia).
  rewrite andb_comm. do 2 f_equal. lia.
Qed.

Lemma first_byte_left src ps ms md j :
  wf_bytes src -> 0 <= ms <= md -> md < 8 -> 0 <= j < 8 ->
  bit8 (Z.land (Z.shiftr (src ps) (md - ms)) (xor_mask_bits md)) j
  = (md <=? j) && mbit src (8 * ps + ms + (j - md)).
Proof.
  intros Hs Hm Hmd Hj. rewrite bit8_land, bit8_shiftr, xor_mask_bits_spec by (apply Hs || lia).
  destruct (Z.leb_spec md j), (Z.leb_spec (md - ms) j); try lia; cbn [andb];
    rewrite ?andb_false_r, ?andb_true_r; try reflexivity.
  replace (8 * ps + ms + (j - md)) with (8 * ps + (j - (md - ms))) by lia.
  rewrite mbit_at by lia. reflexivity.
Qed.

Lemma first_chunk src ps ms md :
  wf_bytes src -> 0 <= ms < 8 -> 0 <= md < 8 -> ms <> md ->
  exists l cb p',
    (if md <? ms then
       (ms - md, 8 - (ms - md),
        Z.land (shifted_byte src ps (ms - md) (8 - (ms - md))) (xor_mask_bits md), ps + 1)
     else (8 - (md - ms), md - ms,
           Z.land (Z.shiftr (src ps) (md - ms)) (xor_mask_bits md), ps)) = (l, 8 - l, cb, p')
    /\ 0 < l < 8 /\ 8 * p' + l = 8 * ps + ms + (8 - md) /\ 0 <= cb < 256
    /\ forall j, 0 <= j < 8 -> bit8 cb j = (md <=? j) && mbit src (8 * ps + ms + (j - md)).
Proof.
  intros Hs Hms Hmd Hne. destruct (Z.ltb_spec md ms).
  - do 3 eexists. split; [reflexivity|]. split; [lia|]. split; [lia|]. split.
    { apply byte_land; [apply shifted_byte_byte; auto; lia | apply xor_mask_bits_byte; lia]. }
    intros j Hj. apply first_byte_right; auto; lia.
  - exists (8 - (md - ms)). do 2 eexists. split; [do 3 f_equal; lia|].
    split; [lia|]. split; [lia|]. split.
    { apply byte_land; [apply byte_shiftr; [apply Hs | lia] | apply xor_mask_bits_byte; lia]. }
    intros j Hj. apply first_byte_left; auto; lia.
Qed.

Lemma copybits_bits src sp src_offset n dest dp dest_offset :
  wf_bytes src -> wf_bytes dest -> 1 <= n ->
  let '(r, dest') := copybits src sp src_offset n dest dp dest_offset in
  r = n /\ wf_bytes dest' /\
  forall k, mbit dest' k =
    copied_bit src (8 * sp + src_offset) src_offset n dest (8 * dp + dest_offset) dest_offset k.
Proof.
  intros Hs Hd Hn. unfold copybits, CHAR_BIT, copied_bit, stale, first_byte_path.
  destruct (offset_split sp src_offset) as (qs & ms & -> & -> & Hms & ->).
  destruct (offset_split dp dest_offset) as (qd & md & -> & -> & Hmd & ->).
  destruct (Z.ltb_spec n 1) as [?|_]; [lia|].
  set (ps := sp + qs). set (pd := dp + qd).
  destruct (Z.eqb_spec ms md) as [<-|Hne]; cbn [negb].
  - destruct (Z.ltb_spec 0 ms) as [Hpos|Hz].
    + pose proof (copy_start_bits_spec n (dest pd) ms (Z.land (xor_mask_bits ms) (src ps))
        (fun j => mbit src (8 * ps + ms + (j - ms)))) as H.
      destruct (copy_start_bits _ _ _ _) as [[n' d'] cb'].
      destruct H as (-> & Hw & Hb); [lia|lia|apply Hd| | |].
      { rewrite Z.land_comm. apply byte_land; [apply Hs | apply xor_mask_bits_byte; lia]. }
      { intros j Hj. rewrite Z.land_comm, <- (Z.shiftr_0_r (src ps)).
        replace 0 with (ms - ms) at 1 by lia. apply first_byte_left; auto; lia. }
      destruct (copy_rest_aligned_spec src (ps + 1) (Z.max 0 (n - (8 - ms)))
        (upd dest pd (Z.lor d' cb')) (pd + 1)) as [Hw' Hr]; auto with twag; [lia|].
      split; [reflexivity|]. split; [exact Hw'|]. cbn [orb andb].
      eapply first_then_rest; [lia|lia| |intros j Hj; rewrite Hb, <- mbit_at by lia; reflexivity|].
      { intros j Hj. cbv beta. f_equal. }
      intros k. rewrite Hr. zcases; try lia; try reflexivity. f_equal. lia.
    + destruct (copy_rest_aligned_spec src ps n dest pd) as [Hw' Hr]; auto; [lia|].
      split; [reflexivity|]. split; [exact Hw'|]. intros k. rewrite Hr. cbn [orb andb].
      zcases; try lia; rewrite ?orb_false_r; try reflexivity. f_equal. lia.
  - destruct (first_chunk src ps ms md Hs Hms Hmd Hne) as (l & cb & p' & -> & Hl & Hp & Hcb & Hcbb).
    pose proof (copy_start_bits_spec n (dest pd) md cb
      (fun j => mbit src (8 * ps + ms + (j - md)))) as H.
    destruct (copy_start_bits _ _ _ _) as [[n' d'] cb'].
    destruct H as (-> & Hw & Hb); [lia|lia|apply Hd|exact Hcb|exact Hcbb|].
    destruct (copy_rest_shifted_spec src p' l (Z.max 0 (n - (8 - md)))
      (upd dest pd (Z.lor d' cb')) (pd + 1)) as [Hw' Hr]; auto with twag; [lia|].
    split; [reflexivity|]. split; [exact Hw'|]. cbn [orb andb].
    eapply first_then_rest; [lia|lia| |intros j Hj; rewrite Hb, <- mbit_at by lia; reflexivity|].
    { intros j Hj. cbv beta. f_equal. }
    intros k. rewrite Hr. zcases; try lia; try reflexivity. f_equal. lia.
Qed.

(** * Writing and reading one field *)

Lemma val8_of_wf past v : wf_bytes past -> wf_bytes (val8_of past v).
Proof.
  intros Hp i. unfold val8_of. destruct ((0 <=? i) && (i <? 8)); [apply byte_u8 | apply Hp].
Qed.

(** Bit [k] of the union is bit [63 - k] of the integer. *)
Lemma val8_of_bit past v k :
  0 <= k < 64 -> mbit (val8_of past v) k = Z.testbit v (63 - k).
Proof.
  intros Hk. destruct (mbit_split k) as (q & j & -> & Hj & _ & _).
  rewrite mbit_at by lia. unfold val8_of.
  destruct (Z.leb_spec 0 q), (Z.ltb_spec q 8); try lia. cbn [andb].
  unfold bit8. rewrite u8_testbit by lia.
  destruct (Z.ltb_spec (7 - j) 8); [|lia]. cbn [andb].
  rewrite Z.shiftr_spec by lia. f_equal. lia.
Qed.

Lemma u64_testbit x i : 0 <= i -> Z.testbit (u64 x) i = (i <? 64) && Z.testbit x i.
Proof.
  intros Hi. unfold u64. change 18446744073709551616 with (2 ^ 64).
  destruct (Z.ltb_spec i 64).
  - rewrite Z.mod_pow2_bits_low by lia. reflexivity.
  - rewrite Z.mod_pow2_bits_high by lia. reflexivity.
Qed.

Lemma u16_small x : 0 <= x < 65536 -> u16 x = x.
Proof. apply Z.mod_small. Qed.

(** A field write puts bit [n - 1 - i] of the value at bit [i] of the field. *)
Lemma encode_bits_stack_bits past v n dest dp off :
  wf_bytes past -> wf_bytes dest -> 1 <= n <= 64 ->
  let '(r, dest') := encode_bits_stack past v n dest dp off in
  r = n /\ wf_bytes dest' /\
  forall k, mbit dest' k =
    if (8 * dp + off <=? k) && (k <? 8 * dp + off + n) then
      Z.testbit v (n - 1 - (k - (8 * dp + off)))
      || (stale (64 - n) off (8 * dp + off) k && mbit dest k)
    else if (k =? 8 * dp + off + n) && (first_byte_path (64 - n) off && (off mod 8 + n <? 8))
    then stale (64 - n) off (8 * dp + off) k && mbit dest k
    else mbit dest k.
Proof.
  intros Hp Hd Hn. unfold encode_bits_stack, CHAR_BIT.
  rewrite u16_small by lia. change (8 * 8) with 64.
  pose proof (copybits_bits (val8_of past (u64 v)) 0 (64 - n) n dest dp off
    (val8_of_wf _ _ Hp) Hd ltac:(lia)) as H.
  destruct (copybits _ _ _ _ _ _ _) as [r dest'].
  destruct H as (-> & Hw & Hb). split; [reflexivity|]. split; [exact Hw|].
  intros k. rewrite Hb. unfold copied_bit.
  destruct (Z.leb_spec (8 * dp + off) k), (Z.ltb_spec k (8 * dp + off + n)); try reflexivity.
  cbn [andb]. rewrite val8_of_bit, u64_testbit by lia.
  destruct (Z.ltb_spec (63 - (8 * 0 + (64 - n) + (k - (8 * dp + off)))) 64); [|lia].
  cbn [andb]. do 2 f_equal. lia.
Qed.

Lemma zero_wf : wf_bytes (fun _ => 0).
Proof. intros i. lia. Qed.

#[export] Hint Resolve zero_wf val8_of_wf : twag.

Lemma find_end_bit_bytes n :
  1 <= n <= 64 -> (8 - bits_to_bytes n) * 8 + 8 - find_end_bit n = 64 - n.
Proof. intros Hn. enum n 1 65; reflexivity. Qed.

(** A field read is the integer written in the bits. *)
Lemma decode_bits_getbits b p off n d :
  wf_bytes b -> 1 <= n <= 64 ->
  decode_bits b p off n d = (getbits b (8 * p + off) n, n).
Proof.
  intros Hb Hn. unfold decode_bits, copy_bits_right_aligned, CHAR_BIT.
  destruct (Z.ltb_spec 64 n) as [?|_], (Z.ltb_spec n 1) as [?|_]; try lia. cbn [orb].
  rewrite find_end_bit_bytes, u16_small by lia.
  pose proof (copybits_bits b p off n (fun _ => 0) 0 (64 - n) Hb zero_wf ltac:(lia)) as H.
  destruct (copybits _ _ _ _ _ _ _) as [r dest'].
  destruct H as (-> & Hw & Hbits).
  destruct (Z.eqb_spec n 0) as [?|_]; [lia|]. cbn [negb]. f_equal.
  apply Z.bits_inj'. intros i Hi. unfold val64_of. rewrite !getbits_testbit by lia.
  assert (Hz : forall k, mbit (fun _ => 0) k = false) by (intros k; apply Z.bits_0).
  rewrite Hbits. unfold copied_bit. rewrite Hz, !andb_false_r, !orb_false_r, Tauto.if_same.
  zcases; try lia; try reflexivity. f_equal. lia.
Qed.

(** Two memories with the same bits are the same bytes, so what the stack
    holds past the union cannot reach the result. *)
Lemma encode_bits_stack_ext past past' v n dest dp off i :
  wf_bytes past -> wf_bytes past' -> wf_bytes dest -> 1 <= n <= 64 ->
  snd (encode_bits_stack past v n dest dp off) i
  = snd (encode_bits_stack past' v n dest dp off) i.
Proof.
  intros Hp Hp' Hd Hn.
  pose proof (encode_bits_stack_bits past v n dest dp off Hp Hd Hn) as H.
  pose proof (encode_bits_stack_bits past' v n dest dp off Hp' Hd Hn) as H'.
  destruct (encode_bits_stack past v n dest dp off) as [r m].
  destruct (encode_bits_stack past' v n dest dp off) as [r' m'].
  destruct H as (_ & Hw & Hb), H' as (_ & Hw' & Hb'). cbn [snd].
  apply bytes_ext; auto. intros k. rewrite Hb, Hb'. reflexivity.
Qed.

(** * Properties of the bit fields *)

(** C9: [copybits] copies exactly the run of bits it is asked to copy and
    returns its length; every other bit of the destination keeps its value,
    but for the two deviations of the first byte that [copied_bit] spells out
    (old bits at odd positions merged in when the run starts on a byte
    boundary, the bit after the run cleared when it ends in the first byte). *)
Theorem copybits_exact (src : bytes) (sp src_offset n : Z) (dest : bytes) (dp dest_offset : Z) :
  wf_bytes src -> wf_bytes dest -> 1 <= n ->
  exists dest',
    copybits src sp src_offset n dest dp dest_offset = (n, dest') /\ wf_bytes dest' /\
    forall k, mbit dest' k =
      copied_bit src (8 * sp + src_offset) src_offset n dest (8 * dp + dest_offset) dest_offset k.
Proof.
  intros Hs Hd Hn. pose proof (copybits_bits src sp src_offset n dest dp dest_offset Hs Hd Hn) as H.
  destruct (copybits _ _ _ _ _ _ _) as [r d]. destruct H as (-> & Hw & Hb). eauto.
Qed.

Lemma copybits_exact_witness :
  exists dest',
    copybits (of_list [0xab; 0xcd]) 0 4 9 (of_list [0x80; 0x01]) 0 3 = (9, dest')
    /\ wf_bytes dest' /\
    forall k, mbit dest' k = copied_bit (of_list [0xab; 0xcd]) (8 * 0 + 4) 4 9
                               (of_list [0x80; 0x01]) (8 * 0 + 3) 3 k.
Proof.
  apply copybits_exact; [| |lia];
    intros i; unfold of_list; destruct (i <? 0); [lia| |lia|];
    destruct (Z.to_nat i) as [|[|[|n]]]; cbn; lia.
Defined.

(** a value of [n] bits written by [encode_bits] is read back by
    [decode_bits] from the same bit offset, whatever the bits around it, as
    long as the first byte's merge has nothing to merge: the field is handled
    by [memcpy] alone, or starts inside a byte, or the area was zero. *)
Theorem field_roundtrip (v n : Z) (dest : bytes) (dp off d : Z) :
  wf_bytes dest -> 1 <= n <= 64 -> 0 <= v < 2 ^ n ->
  (n mod 8 = 0 /\ off mod 8 = 0) \/ off mod 8 <> 0
    \/ (forall k, 8 * dp + off <= k < 8 * dp + off + n -> mbit dest k = false) ->
  exists dest', encode_bits v n dest dp off = (n, dest')
                /\ decode_bits dest' dp off n d = (v, n).
Proof.
  intros Hd Hn Hv Hc. unfold encode_bits.
  pose proof (encode_bits_stack_bits (fun _ => 0) v n dest dp off zero_wf Hd Hn) as H.
  destruct (encode_bits_stack _ _ _ _ _ _) as [r dest']. destruct H as (-> & Hw & Hb).
  exists dest'. split; [reflexivity|]. rewrite decode_bits_getbits by auto. f_equal.
  apply Z.bits_inj'. intros i Hi. rewrite getbits_testbit, Hb by lia.
  destruct (Z.ltb_spec i n) as [Hin|Hin]; cbn [andb].
  - assert (Hst : stale (64 - n) off (8 * dp + off) (8 * dp + off + n - 1 - i)
                  && mbit dest (8 * dp + off + n - 1 - i) = false).
    { unfold stale, first_byte_path. destruct Hc as [[Hm Ho]|[Ho|Hz]].
      - rewrite Ho. replace ((64 - n) mod 8) with 0 by (Z.div_mod_to_equations; lia). reflexivity.
      - destruct (Z.eqb_spec (off mod 8) 0); [lia|]. rewrite andb_false_r. reflexivity.
      - rewrite Hz, andb_false_r by lia. reflexivity. }
    rewrite Hst, orb_false_r. zcases; try lia; f_equal; lia.
  - symmetry. rewrite <- (Z.mod_small v (2 ^ n)) by lia. apply Z.mod_pow2_bits_high. lia.
Qed.

Lemma field_roundtrip_witness :
  exists dest', encode_bits 0x15 5 (fun _ => 0) 2 9 = (5, dest')
                /\ decode_bits dest' 2 9 5 0 = (0x15, 5).
Proof. apply field_roundtrip; [exact zero_wf|lia|lia|]. right; left. discriminate. Defined.

(** [encode_bits] lets [copybits] read one byte past its eight byte union
    (the second operand of the last shift); no result depends on that byte:
    the memory after the call is the same whatever the stack holds there. *)
Theorem encode_bits_overread_harmless (past : bytes) (v n : Z) (dest : bytes) (dp off : Z) :
  wf_bytes past -> wf_bytes dest -> 1 <= n <= 64 ->
  fst (encode_bits_stack past v n dest dp off) = n
  /\ forall i, snd (encode_bits_stack past v n dest dp off) i
               = snd (encode_bits v n dest dp off) i.
Proof.
  intros Hp Hd Hn. split.
  - pose proof (encode_bits_stack_bits past v n dest dp off Hp Hd Hn) as H.
    destruct (encode_bits_stack _ _ _ _ _ _). apply H.
  - intros i. apply encode_bits_stack_ext; auto with twag.
Qed.

Lemma encode_bits_overread_harmless_witness :
  fst (encode_bits_stack (fun _ => 0xee) 3 4 (fun _ => 0) 0 2) = 4
  /\ forall i, snd (encode_bits_stack (fun _ => 0xee) 3 4 (fun _ => 0) 0 2) i
               = snd (encode_bits 3 4 (fun _ => 0) 0 2) i.
Proof. apply encode_bits_overread_harmless; [intros i; lia|exact zero_wf|lia]. Defined.

(** [encode_bits] writes only the bytes its field overlaps. *)
Theorem encode_bits_in_bounds (v n : Z) (dest : bytes) (dp off i : Z) :
  wf_bytes dest -> 1 <= n <= 64 ->
  i < dp + off / 8 \/ dp + (off + n - 1) / 8 < i ->
  snd (encode_bits v n dest dp off) i = dest i.
Proof.
  intros Hd Hn Hi. unfold encode_bits.
  pose proof (encode_bits_stack_bits (fun _ => 0) v n dest dp off zero_wf Hd Hn) as H.
  destruct (encode_bits_stack _ _ _ _ _ _) as [r dest']. destruct H as (_ & Hw & Hb). cbn [snd].
  apply byte_ext; [apply Hw|apply Hd|]. intros j Hj. rewrite <- !mbit_at, Hb by lia.
  destruct (offset_split dp off) as (q & mo & Hq & Hmo & Hr & E). rewrite Hmo, E.
  assert (dp + (off + n - 1) / 8 = dp + q + (mo + n - 1) / 8) as Hend.
  { rewrite <- Hq, <- Hmo. Z.div_mod_to_equations. lia. }
  rewrite Hend, Hq in Hi. clear Hend Hb Hq E Hmo.
  zcases; rewrite ?andb_false_r; try reflexivity; exfalso; Z.div_mod_to_equations; lia.
Qed.

Lemma encode_bits_in_bounds_witness : snd (encode_bits 5 3 (fun _ => 0) 7 9) 9 = 0.
Proof. exact (encode_bits_in_bounds 5 3 (fun _ => 0) 7 9 9 zero_wf ltac:(lia)
  (or_intror eq_refl)). Defined.

(** a field that does not fill its last byte and starts on a byte
    boundary keeps an old bit of the buffer: when the second bit of the byte
    was set, the value read back has its second highest bit set, whatever
    value was written.  The encoders are therefore right only on a buffer
    that was cleared before. *)
Theorem encode_bits_keeps_stale (v n : Z) (dest : bytes) (dp off d : Z) :
  wf_bytes dest -> 2 <= n <= 64 -> n mod 8 <> 0 -> off mod 8 = 0 ->
  mbit dest (8 * dp + off + 1) = true ->
  Z.testbit (fst (decode_bits (snd (encode_bits v n dest dp off)) dp off n d)) (n - 2) = true.
Proof.
  intros Hd Hn Hm Ho Hs. unfold encode_bits.
  pose proof (encode_bits_stack_bits (fun _ => 0) v n dest dp off zero_wf Hd ltac:(lia)) as H.
  destruct (encode_bits_stack _ _ _ _ _ _) as [r dest']. destruct H as (_ & Hw & Hb).
  cbn [snd]. rewrite decode_bits_getbits by (auto || lia). cbn [fst].
  rewrite getbits_testbit by lia.
  replace (8 * dp + off + n - 1 - (n - 2)) with (8 * dp + off + 1) by lia.
  rewrite Hb, Hs. unfold stale, first_byte_path. rewrite Ho.
  replace (8 * dp + off + 1 - (8 * dp + off)) with 1 by lia.
  assert ((64 - n) mod 8 <> 0) by (Z.div_mod_to_equations; lia).
  zcases; try lia; rewrite ?orb_true_r; reflexivity.
Qed.

Lemma encode_bits_keeps_stale_witness :
  fst (decode_bits (snd (encode_bits 0 4 (fun _ => 255) 0 0)) 0 0 4 0) = 5
  /\ Z.testbit (fst (decode_bits (snd (encode_bits 0 4 (fun _ => 255) 0 0)) 0 0 4 0)) (4 - 2) = true.
Proof.
  split; [vm_compute; reflexivity|].
  apply encode_bits_keeps_stale; [intros i; lia|lia|discriminate|reflexivity|reflexivity].
Defined.
