(* ===== verification/WireFormat.v ===== *)
(** Wire formats of information elements.

    The encoders and decoders of libgtpv2c are straight-line sequences of
    field writes and reads.  This file has the small monad they are written
    in, the primitives the sequences are made of, the notion of a wire layout
    (an abstract list of fields at consecutive bit positions), and the two
    relations that connect code and layout: [emits] (the encoder writes the
    layout and nothing else) and [reads] (the decoder returns the value a
    layout holds).  [WireFormat] is the interface the information elements
    offer to the messages. *)

From Stdlib Require Import ZArith List Lia Bool.
From S2P Require Import Prelude EncDecBits.
Import ListNotations.
Open Scope Z_scope.

(** * The monad

    A computation over a state that may meet undefined behaviour: [None] is
    an access outside an array of a C structure. *)

Definition M (S A : Type) : Type := S -> option (A * S).

Definition ret {S A} (a : A) : M S A := fun s => Some (a, s).

Definition bind {S A B} (c : M S A) (k : A -> M S B) : M S B :=
  fun s => match c s with
           | Some (a, s') => k a s'
           | None => None
           end.

Declare Scope wire_scope.
Delimit Scope wire_scope with wire.
Notation "x <- c ;; k" := (bind c (fun x => k))
  (at level 100, c at next level, right associativity) : wire_scope.
Open Scope wire_scope.

(** Encoders run on the memory. *)
Definition enc (A : Type) : Type := M bytes A.

(** Decoders run on their two counters, [total_decoded] and [decoded]. *)
Definition dec (A : Type) : Type := M (Z * Z) A.

Definition run_dec {A} (d : dec A) : option A :=
  match d (0, 0) with
  | Some (a, _) => Some a
  | None => None
  end.

(** * Information element headers *)

Record ie_header_t := mk_ie_header {
  hdr_type : Z;      (* uint8_t type *)
  hdr_len : Z;       (* uint16_t len *)
  hdr_instance : Z   (* uint8_t instance *)
}.

Definition CHAR_SIZE : Z := 8.
Definition IE_HEADER_SIZE : Z := 4.

(** * Primitives of the encoders *)

(** [encoded += encode_bits(value, n, buf + (encoded/8), encoded % CHAR_SIZE);] *)
Definition put_bits (value n buf encoded : Z) : enc Z :=
  fun m =>
    let '(r, m') := encode_bits value n m (buf + encoded / 8) (encoded mod CHAR_SIZE) in
    Some (u16 (encoded + r), m').

Definition encode_ie_header_t (value : ie_header_t) (buf : Z) : enc Z :=
  encoded <- ret 0;;
  encoded <- put_bits value.(hdr_type) 8 buf encoded;;
  encoded <- put_bits value.(hdr_len) 16 buf encoded;;
  encoded <- put_bits value.(hdr_instance) 8 buf encoded;;
  ret encoded.

(** [encoded += encode_ie_header_t(&value->header, buf + (encoded/CHAR_SIZE));] *)
Definition put_header (header : ie_header_t) (buf encoded : Z) : enc Z :=
  r <- encode_ie_header_t header (buf + encoded / CHAR_SIZE);;
  ret (u16 (encoded + r)).

(** [memcpy(buf + (encoded/8), src, n); encoded += n * CHAR_SIZE;] where [src]
    is an array member: reading past its end is undefined behaviour. *)
Definition put_bytes (src : list Z) (n buf encoded : Z) : enc Z :=
  fun m =>
    if n <=? Z.of_nat (length src) then
      Some (u16 (encoded + n * CHAR_SIZE),
            memcpy (Z.to_nat n) m (buf + encoded / 8) (of_list src) 0)
    else None.

(** * Primitives of the decoders *)

(** [x = decode_bits(buf, total_decoded, n, &decoded); total_decoded += decoded;] *)
Definition get_bits (m : bytes) (buf n : Z) : dec Z :=
  fun '(total_decoded, decoded) =>
    let '(v, decoded) := decode_bits m buf total_decoded n decoded in
    Some (v, (u16 (total_decoded + decoded), decoded)).

(** [memcpy(val, buf, IE_HEADER_SIZE); val->len = ntohs(val->len);] on the
    packed structure: type, big-endian length, instance. *)
Definition decode_ie_header_t (m : bytes) (buf val_len : Z) : Z * ie_header_t :=
  (val_len * CHAR_SIZE,
   mk_ie_header (m buf) (m (buf + 1) * 256 + m (buf + 2)) (m (buf + 3))).

(** [total_decoded += decode_ie_header_t(buf, &(value->header), IE_HEADER_SIZE);] *)
Definition get_header (m : bytes) (buf : Z) : dec ie_header_t :=
  fun '(total_decoded, decoded) =>
    let '(r, header) := decode_ie_header_t m buf IE_HEADER_SIZE in
    Some (header, (u16 (total_decoded + r), decoded)).

(** [memcpy(&x, buf + (total_decoded/CHAR_SIZE), n); total_decoded += n * CHAR_SIZE;]
    where [x] is an array of exactly [n] bytes. *)
Definition get_bytes (m : bytes) (buf n : Z) : dec (list Z) :=
  fun '(total_decoded, decoded) =>
    Some (to_list m (buf + total_decoded / CHAR_SIZE) (Z.to_nat n),
          (u16 (total_decoded + n * CHAR_SIZE), decoded)).

(** The same into an array [old] of [length old] bytes: writing past its end
    is undefined behaviour, and the bytes after the [n] copied keep. *)
Definition get_bytes_into (m : bytes) (buf : Z) (old : list Z) (n : Z) : dec (list Z) :=
  fun '(total_decoded, decoded) =>
    if n <=? Z.of_nat (length old) then
      Some (to_list m (buf + total_decoded / CHAR_SIZE) (Z.to_nat n) ++ skipn (Z.to_nat n) old,
            (u16 (total_decoded + n * CHAR_SIZE), decoded))
    else None.

(** The current [total_decoded]. *)
Definition get_total : dec Z := fun '(total_decoded, decoded) =>
  Some (total_decoded, (total_decoded, decoded)).

(** * Wire layouts *)

Inductive field :=
| FHdr (h : ie_header_t)
| FBits (v n : Z)
| FCopy (l : list Z).

Definition fsize (f : field) : Z :=
  match f with
  | FHdr _ => 32
  | FBits _ n => n
  | FCopy l => 8 * Z.of_nat (length l)
  end.

Fixpoint lsize (fs : list field) : Z :=
  match fs with
  | [] => 0
  | f :: fs => fsize f + lsize fs
  end.

(** Every member holds a value of its C type. *)
Definition field_ok (f : field) : Prop :=
  match f with
  | FHdr h => 0 <= h.(hdr_type) < 256 /\ 0 <= h.(hdr_len) < 65536 /\ 0 <= h.(hdr_instance) < 256
  | FBits v n => 1 <= n <= 64 /\ 0 <= v < 2 ^ n
  | FCopy l => Forall (fun x => 0 <= x < 256) l
  end.

Fixpoint fields_ok (fs : list field) : Prop :=
  match fs with
  | [] => True
  | f :: fs => field_ok f /\ fields_ok fs
  end.

(** The memory holds the field at bit position [p]. *)
Definition field_at (m : bytes) (p : Z) (f : field) : Prop :=
  match f with
  | FHdr h => getbits m p 8 = h.(hdr_type) /\ getbits m (p + 8) 16 = h.(hdr_len)
              /\ getbits m (p + 24) 8 = h.(hdr_instance)
  | FBits v n => getbits m p n = v
  | FCopy l => forall i, (i < length l)%nat -> getbits m (p + 8 * Z.of_nat i) 8 = nth i l 0
  end.

Fixpoint laid (m : bytes) (p : Z) (fs : list field) : Prop :=
  match fs with
  | [] => True
  | f :: fs => field_at m p f /\ laid m (p + fsize f) fs
  end.

(** The [n] bits from position [p] on are zero. *)
Definition zeroed (m : bytes) (p n : Z) : Prop :=
  forall k, p <= k < p + n -> mbit m k = false.

(** Outside the [n] bits from [p] on nothing changed, except that a bit that
    directly follows, in the same byte, may have been cleared. *)
Definition framed (m m' : bytes) (p n : Z) : Prop :=
  (forall k, k < p -> mbit m' k = mbit m k) /\
  (forall k, p + n <= k ->
     mbit m' k = mbit m k \/ (k = p + n /\ k mod 8 <> 0 /\ mbit m' k = false)).

(** From the bit offset [off] on, run on a zeroed area, the encoder [e] writes
    exactly the fields [fs] and returns [a]. *)
Definition emits {A} (buf off : Z) (fs : list field) (e : enc A) (a : A) : Prop :=
  forall m, wf_bytes m -> fields_ok fs -> 0 <= off -> off + lsize fs < 65536 ->
    zeroed m (8 * buf + off) (lsize fs) ->
    exists m', e m = Some (a, m') /\ wf_bytes m' /\ laid m' (8 * buf + off) fs
               /\ framed m m' (8 * buf + off) (lsize fs).

(** From the bit offset [off] on, the decoder [d] reads the fields [fs] and
    returns [a]. *)
Definition reads {A} (m : bytes) (buf off : Z) (fs : list field) (d : dec A) (a : A) : Prop :=
  forall c, wf_bytes m -> fields_ok fs -> 0 <= off -> off + lsize fs < 65536 ->
    laid m (8 * buf + off) fs ->
    exists c', d (off, c) = Some (a, (off + lsize fs, c')).

(** * Frames and layouts *)

Lemma framed_refl m p : framed m m p 0.
Proof. split; auto. Qed.

Lemma framed_trans m m1 m2 p n1 n2 :
  0 <= n1 -> 0 <= n2 -> framed m m1 p n1 -> framed m1 m2 (p + n1) n2 -> framed m m2 p (n1 + n2).
Proof.
  intros Hn1 Hn2 [Hb1 Ha1] [Hb2 Ha2]. split.
  - intros k Hk. rewrite Hb2, Hb1 by lia. reflexivity.
  - intros k Hk. destruct (Ha2 k ltac:(lia)) as [E2|(Ek & Hm & E2)].
    + destruct (Ha1 k ltac:(lia)) as [E1|(Ek & Hm & E1)].
      * left. congruence.
      * right. split; [lia|]. split; [exact Hm|]. congruence.
    + right. split; [lia|]. auto.
Qed.

Lemma lsize_nonneg fs : fields_ok fs -> 0 <= lsize fs.
Proof.
  induction fs as [|f fs IH]; cbn [fields_ok lsize]; [lia|].
  intros [Hf Hfs]. specialize (IH Hfs). destruct f; cbn [fsize field_ok] in *; lia.
Qed.

Lemma fsize_nonneg f : field_ok f -> 0 <= fsize f.
Proof. destruct f; cbn [fsize field_ok]; lia. Qed.

(** A field does not depend on the bits outside it. *)
Lemma field_at_ext m m' p f :
  field_ok f -> (forall k, p <= k < p + fsize f -> mbit m' k = mbit m k) ->
  field_at m p f -> field_at m' p f.
Proof.
  intros Hok H. destruct f as [h|v n|l]; cbn [fsize field_ok field_at] in *.
  - rewrite !(getbits_ext m' m) by (intros; apply H; lia). auto.
  - rewrite (getbits_ext m' m) by (intros; apply H; lia). auto.
  - intros Hl i Hi. rewrite (getbits_ext m' m) by (intros; apply H; lia). auto.
Qed.

Lemma laid_ext m m' p fs :
  fields_ok fs -> (forall k, p <= k < p + lsize fs -> mbit m' k = mbit m k) ->
  laid m p fs -> laid m' p fs.
Proof.
  revert p. induction fs as [|f fs IH]; intros p; cbn [fields_ok lsize laid]; [auto|].
  intros [Hf Hfs] H [Hat Hl].
  pose proof (lsize_nonneg fs Hfs). pose proof (fsize_nonneg f Hf). split.
  - apply (field_at_ext m m'); auto. intros k Hk. apply H. lia.
  - apply IH; auto. intros k Hk. apply H. lia.
Qed.

(** * One step of an encoder *)

Lemma emits_ret {A} buf off (a : A) : emits buf off [] (ret a) a.
Proof.
  intros m Hm _ Hoff Hsz Hz. exists m.
  split; [reflexivity|]. split; [exact Hm|]. split; [exact I | apply framed_refl].
Qed.

(** A computation that writes one field and advances the offset. *)
Definition writes_field (buf off : Z) (f : field) (e : enc Z) : Prop :=
  forall m, wf_bytes m -> field_ok f -> 0 <= off -> off + fsize f < 65536 ->
    zeroed m (8 * buf + off) (fsize f) ->
    exists m', e m = Some (off + fsize f, m') /\ wf_bytes m'
               /\ field_at m' (8 * buf + off) f /\ framed m m' (8 * buf + off) (fsize f).

Lemma emits_step {A} buf off f fs (e : enc Z) (k : Z -> enc A) a :
  writes_field buf off f e -> emits buf (off + fsize f) fs (k (off + fsize f)) a ->
  emits buf off (f :: fs) (bind e k) a.
Proof.
  intros He Hk m Hm Hok Hoff Hsz Hz. cbn [fields_ok lsize] in *.
  destruct Hok as [Hf Hfs].
  pose proof (lsize_nonneg fs Hfs) as Hl0. pose proof (fsize_nonneg f Hf) as Hf0.
  destruct (He m Hm Hf Hoff ltac:(lia)) as (m1 & E1 & Hm1 & Hat & Hfr1).
  { intros q Hq. apply Hz. lia. }
  destruct (Hk m1 Hm1 Hfs ltac:(lia) ltac:(lia)) as (m2 & E2 & Hm2 & Hl & Hfr2).
  { intros q Hq. destruct (proj2 Hfr1 q ltac:(lia)) as [->|(_ & _ & E)]; [apply Hz; lia | exact E]. }
  replace (8 * buf + (off + fsize f)) with (8 * buf + off + fsize f) in * by lia.
  exists m2. unfold bind. rewrite E1. split; [exact E2|]. split; [exact Hm2|]. split.
  - cbn [laid]. split; [|exact Hl]. apply (field_at_ext m1 m2); [exact Hf| |exact Hat].
    intros q Hq. apply Hfr2. lia.
  - apply (framed_trans m m1 m2); auto.
Qed.

(** * The primitives write their fields *)

Lemma first_byte_aligned n off :
  1 <= n -> first_byte_path (64 - n) off && (off mod 8 + n <? 8) = true -> (off + n) mod 8 <> 0.
Proof.
  intros Hn H. apply andb_true_iff in H. destruct H as [_ H]. apply Z.ltb_lt in H.
  pose proof (Z.mod_pos_bound off 8). rewrite Z.add_mod by lia.
  Z.div_mod_to_equations. lia.
Qed.

Lemma put_bits_writes v n buf off : writes_field buf off (FBits v n) (put_bits v n buf off).
Proof.
  intros m Hm [Hn Hv] Hoff Hsz Hz. cbn [fsize] in *. unfold put_bits, CHAR_SIZE, encode_bits.
  pose proof (encode_bits_stack_bits (fun _ => 0) v n m (buf + off / 8) (off mod 8)
    zero_wf Hm Hn) as H.
  destruct (encode_bits_stack _ _ _ _ _ _) as [r m'].
  destruct H as (-> & Hm' & Hb).
  replace (8 * (buf + off / 8) + off mod 8) with (8 * buf + off) in Hb
    by (Z.div_mod_to_equations; lia).
  rewrite Z.mod_mod in Hb by lia.
  exists m'. rewrite u16_small by lia. split; [reflexivity|]. split; [exact Hm'|]. split; [|split].
  - cbn [field_at]. apply Z.bits_inj'. intros i Hi. rewrite getbits_testbit, Hb by lia.
    destruct (Z.ltb_spec i n) as [Hin|Hin]; cbn [andb].
    + rewrite Hz, andb_false_r, orb_false_r by lia.
      destruct (Z.leb_spec (8 * buf + off) (8 * buf + off + n - 1 - i)),
        (Z.ltb_spec (8 * buf + off + n - 1 - i) (8 * buf + off + n)); try lia.
      cbn [andb]. f_equal. lia.
    + symmetry. rewrite <- (Z.mod_small v (2 ^ n)) by lia. apply Z.mod_pow2_bits_high. lia.
  - intros k Hk. rewrite Hb. zcases; try lia; reflexivity.
  - intros k Hk. rewrite Hb.
    destruct (Z.leb_spec (8 * buf + off) k), (Z.ltb_spec k (8 * buf + off + n)); try lia.
    cbn [andb]. destruct (Z.eqb_spec k (8 * buf + off + n)) as [->|]; [|left; reflexivity].
    cbn [andb]. destruct (first_byte_path _ _ && _) eqn:Hp; [|left; reflexivity].
    destruct (stale _ _ _ _ && mbit m _) eqn:Hs; [left|right].
    + apply andb_true_iff in Hs. destruct Hs as [_ Hs]. auto.
    + split; [reflexivity|]. split; [|reflexivity].
      unfold first_byte_path in Hp. rewrite Z.mod_mod in Hp by lia.
      apply first_byte_aligned in Hp; [|lia].
      replace (8 * buf + off + n) with (off + n + buf * 8) by lia.
      rewrite Z.mod_add by lia. exact Hp.
Qed.

Lemma encode_ie_header_emits h buf :
  emits buf 0 [FBits h.(hdr_type) 8; FBits h.(hdr_len) 16; FBits h.(hdr_instance) 8]
    (encode_ie_header_t h buf) 32.
Proof.
  unfold encode_ie_header_t. change (bind (ret 0) ?k) with (k 0). cbv beta.
  apply emits_step; [apply put_bits_writes|]. cbn [fsize].
  apply emits_step; [apply put_bits_writes|]. cbn [fsize].
  apply emits_step; [apply put_bits_writes|]. apply emits_ret.
Qed.

Lemma put_header_writes h buf off :
  off mod 8 = 0 -> writes_field buf off (FHdr h) (put_header h buf off).
Proof.
  intros Ho m Hm (Ht & Hl & Hi) Hoff Hsz Hz. cbn [fsize] in *. unfold put_header, CHAR_SIZE.
  destruct (encode_ie_header_emits h (buf + off / 8) m Hm) as (m' & E & Hm' & Hlaid & Hfr);
    cbn [lsize fsize] in *; [cbn; lia|lia|lia| |].
  { intros k Hk. apply Hz. Z.div_mod_to_equations. lia. }
  replace (8 * (buf + off / 8) + 0) with (8 * buf + off) in * by (Z.div_mod_to_equations; lia).
  exists m'. unfold bind. rewrite E. unfold ret. rewrite u16_small by lia.
  split; [reflexivity|]. split; [exact Hm'|]. split; [|exact Hfr].
  cbn [laid field_at fsize] in *. destruct Hlaid as (H1 & H2 & H3 & _).
  replace (8 * buf + off + 8 + 16) with (8 * buf + off + 24) in H3 by lia. auto.
Qed.

Lemma of_list_wf l : Forall (fun x => 0 <= x < 256) l -> wf_bytes (of_list l).
Proof.
  intros Hl i. unfold of_list. destruct (i <? 0); [lia|].
  destruct (nth_in_or_default (Z.to_nat i) l 0) as [Hin| ->]; [|lia].
  rewrite Forall_forall in Hl. apply Hl, Hin.
Qed.

(** A memory that differs from [m] by the bytes [l] at address [p]. *)
Lemma bytes_written m m' p l :
  wf_bytes m -> Forall (fun x => 0 <= x < 256) l ->
  (forall i, m' i = if (p <=? i) && (i <? p + Z.of_nat (length l))
                    then nth (Z.to_nat (i - p)) l 0 else m i) ->
  wf_bytes m' /\ field_at m' (8 * p) (FCopy l)
  /\ framed m m' (8 * p) (8 * Z.of_nat (length l)).
Proof.
  intros Hm Hl Hspec.
  assert (Hm' : wf_bytes m').
  { intros i. rewrite Hspec. destruct (_ && _); [|apply Hm].
    destruct (nth_in_or_default (Z.to_nat (i - p)) l 0) as [Hin| ->]; [|lia].
    rewrite Forall_forall in Hl. apply Hl, Hin. }
  split; [exact Hm'|]. split; [|split].
  - cbn [field_at]. intros i Hi.
    replace (8 * p + 8 * Z.of_nat i) with (8 * (p + Z.of_nat i)) by lia.
    rewrite getbits_byte, Hspec by auto. zcases; try lia. f_equal. lia.
  - intros k Hk. unfold mbit. rewrite Hspec. zcases; try reflexivity.
    Z.div_mod_to_equations. lia.
  - intros k Hk. left. unfold mbit. rewrite Hspec. zcases; try reflexivity.
    Z.div_mod_to_equations. lia.
Qed.

Lemma put_bytes_writes src n buf off :
  off mod 8 = 0 -> 0 <= n <= Z.of_nat (length src) ->
  writes_field buf off (FCopy (firstn (Z.to_nat n) src)) (put_bytes src n buf off).
Proof.
  intros Ho Hn m Hm Hl Hoff Hsz Hz. cbn [fsize field_ok] in *. unfold put_bytes, CHAR_SIZE.
  assert (Hlen : Z.of_nat (length (firstn (Z.to_nat n) src)) = n)
    by (rewrite length_firstn; lia).
  rewrite Hlen in *. destruct (Z.leb_spec n (Z.of_nat (length src))) as [_|?]; [|lia].
  replace (8 * buf + off) with (8 * (buf + off / 8)) by (Z.div_mod_to_equations; lia).
  eexists. rewrite u16_small by lia. split; [do 2 f_equal; lia|].
  replace (8 * n) with (8 * Z.of_nat (length (firstn (Z.to_nat n) src))) by lia.
  apply bytes_written; [exact Hm|exact Hl|].
  intros i. rewrite memcpy_spec, Z2Nat.id, Hlen by lia. zcases; try reflexivity.
  unfold of_list. destruct (Z.ltb_spec (0 + (i - (buf + off / 8))) 0); [lia|].
  rewrite Z.add_0_l, nth_firstn. destruct (Nat.ltb_spec (Z.to_nat (i - (buf + off / 8))) (Z.to_nat n));
    [reflexivity | lia].
Qed.

Lemma put_array_writes l n buf off :
  off mod 8 = 0 -> Z.of_nat (length l) = n ->
  writes_field buf off (FCopy l) (put_bytes l n buf off).
Proof.
  intros Ho <-. pose proof (put_bytes_writes l (Z.of_nat (length l)) buf off Ho ltac:(lia)) as H.
  rewrite Nat2Z.id, firstn_all in H. exact H.
Qed.

(** * One step of a decoder *)

Lemma reads_ret {A} m buf off (a : A) : reads m buf off [] (ret a) a.
Proof. intros c _ _ _ _ _. exists c. cbn [lsize]. rewrite Z.add_0_r. reflexivity. Qed.

Lemma reads_bits {A} m buf off v n fs (k : Z -> dec A) a :
  reads m buf (off + n) fs (k v) a ->
  reads m buf off (FBits v n :: fs) (bind (get_bits m buf n) k) a.
Proof.
  intros Hk c Hm [[Hn Hv] Hfs] Hoff Hsz [Hat Hl]. cbn [lsize fsize field_at] in *.
  pose proof (lsize_nonneg fs Hfs).
  unfold bind, get_bits. rewrite decode_bits_getbits, Hat, u16_small by (auto || lia).
  destruct (Hk n Hm Hfs ltac:(lia) ltac:(lia)) as [c' E].
  { rewrite Z.add_assoc. exact Hl. }
  exists c'. rewrite E. do 3 f_equal. lia.
Qed.

Lemma getbits_16 m p :
  wf_bytes m -> getbits m (8 * p) 16 = m p * 256 + m (p + 1).
Proof.
  intros Hm. change 16 with (8 + 8). rewrite (getbits_split m (8 * p) 8 8) by lia.
  replace (8 * p + 8) with (8 * (p + 1)) by lia. rewrite !getbits_byte by exact Hm. reflexivity.
Qed.

Lemma reads_header {A} m buf h fs (k : ie_header_t -> dec A) a :
  reads m buf 32 fs (k h) a -> reads m buf 0 (FHdr h :: fs) (bind (get_header m buf) k) a.
Proof.
  intros Hk c Hm [Hf Hfs] Hoff Hsz [(H1 & H2 & H3) Hl]. cbn [lsize fsize] in *.
  pose proof (lsize_nonneg fs Hfs).
  unfold bind, get_header, decode_ie_header_t, IE_HEADER_SIZE, CHAR_SIZE. cbn [Z.mul].
  rewrite <- (getbits_byte m buf), <- (getbits_byte m (buf + 3)) by auto.
  replace (buf + 2) with (buf + 1 + 1) by lia. rewrite <- getbits_16 by auto.
  replace (8 * buf) with (8 * buf + 0) by lia.
  replace (8 * (buf + 1)) with (8 * buf + 0 + 8) by lia.
  replace (8 * (buf + 3)) with (8 * buf + 0 + 24) by lia.
  rewrite H1, H2, H3. change (u16 (0 + 4 * 8)) with 32. destruct h as [t l i]. cbn.
  destruct (Hk c Hm Hfs ltac:(lia) ltac:(lia)) as [c' E].
  { rewrite Z.add_0_r in Hl. exact Hl. }
  exists c'. exact E.
Qed.

Lemma to_list_length m p n : length (to_list m p n) = n.
Proof. unfold to_list. rewrite length_map. apply length_seq. Qed.

Lemma to_list_laid m p l :
  wf_bytes m -> field_at m (8 * p) (FCopy l) -> to_list m p (length l) = l.
Proof.
  intros Hm Hat. apply (nth_ext _ _ 0 0); [apply to_list_length|].
  rewrite to_list_length. intros i Hi. unfold to_list.
  rewrite (nth_indep _ 0 (m (p + Z.of_nat 0))) by (rewrite length_map, length_seq; exact Hi).
  rewrite (map_nth (fun i => m (p + Z.of_nat i))), seq_nth by exact Hi.
  cbn [field_at] in Hat. rewrite <- Hat by exact Hi.
  replace (8 * p + 8 * Z.of_nat i) with (8 * (p + Z.of_nat i)) by lia.
  rewrite getbits_byte by exact Hm. reflexivity.
Qed.

Lemma reads_array {A} m buf off l n fs (k : list Z -> dec A) a :
  off mod 8 = 0 -> Z.of_nat (length l) = n ->
  reads m buf (off + 8 * n) fs (k l) a ->
  reads m buf off (FCopy l :: fs) (bind (get_bytes m buf n) k) a.
Proof.
  intros Ho <- Hk c Hm [Hf Hfs] Hoff Hsz [Hat Hl]. cbn [lsize fsize] in *.
  pose proof (lsize_nonneg fs Hfs).
  unfold bind, get_bytes, CHAR_SIZE. rewrite Nat2Z.id, u16_small by lia.
  rewrite to_list_laid; [|exact Hm|].
  2: { replace (8 * (buf + off / 8)) with (8 * buf + off) by (Z.div_mod_to_equations; lia).
       exact Hat. }
  rewrite (Z.mul_comm (Z.of_nat (length l)) 8).
  destruct (Hk c Hm Hfs ltac:(lia) ltac:(lia)) as [c' E].
  { rewrite Z.add_assoc. exact Hl. }
  exists c'. rewrite E. do 3 f_equal. lia.
Qed.

(** * The interface of a wire format *)

(** The memory at [buf] holds the fields, and the decoder call [o] returns [a]. *)
Definition decodes {A} (m : bytes) (buf : Z) (fs : list field) (o : option A) (a : A) : Prop :=
  wf_bytes m -> fields_ok fs -> lsize fs < 65536 -> laid m (8 * buf) fs -> o = Some a.

(** What a structure's encoder and decoder promise: the encoder writes the
    layout and returns its whole bytes, the decoder inverts the layout. *)
Class WireFormat (T : Type) := {
  wire_layout : T -> list field;
  wire_ok : T -> Prop;
  wire_count : T -> Z;
  wire_encode : T -> Z -> enc Z;
  wire_decode : bytes -> Z -> option (Z * T);
  wire_bound v : wire_ok v -> lsize (wire_layout v) < 65536;
  wire_emits v buf :
    wire_ok v -> emits buf 0 (wire_layout v) (wire_encode v buf) (lsize (wire_layout v) / 8);
  wire_decodes m buf v :
    wire_ok v -> decodes m buf (wire_layout v) (wire_decode m buf) (wire_count v, v)
}.

(** A value of the structure's C type. *)
Definition wire_wf {T} `{WireFormat T} (v : T) : Prop :=
  wire_ok v /\ fields_ok (wire_layout v).

Lemma wire_roundtrip {T} `{WireFormat T} (v : T) buf m :
  wf_bytes m -> wire_wf v -> zeroed m (8 * buf) (lsize (wire_layout v)) ->
  exists m',
    wire_encode v buf m = Some (lsize (wire_layout v) / 8, m') /\ wf_bytes m'
    /\ wire_decode m' buf = Some (wire_count v, v)
    /\ laid m' (8 * buf) (wire_layout v)
    /\ framed m m' (8 * buf) (lsize (wire_layout v)).
Proof.
  intros Hm [Hok Hf] Hz. pose proof (wire_bound v Hok) as Hb.
  destruct (wire_emits v buf Hok m Hm Hf ltac:(lia) ltac:(lia)) as (m' & E & Hm' & Hl & Hfr);
    rewrite Z.add_0_r in *; [exact Hz|].
  exists m'. split; [exact E|]. split; [exact Hm'|].
  split; [apply wire_decodes; auto | auto].
Qed.

(** * Automation *)

Lemma emits_start {A} buf fs (k : Z -> enc A) a :
  emits buf 0 fs (k 0) a -> emits buf 0 fs (bind (ret 0) k) a.
Proof. intros H. exact H. Qed.

Lemma emits_header {A} buf h fs (k : Z -> enc A) a :
  emits buf 32 fs (k 32) a -> emits buf 0 (FHdr h :: fs) (bind (put_header h buf 0) k) a.
Proof. intros H. apply emits_step; [apply put_header_writes; reflexivity | exact H]. Qed.

Lemma emits_bits {A} buf off off' v n fs (k : Z -> enc A) a :
  off + n = off' -> emits buf off' fs (k off') a ->
  emits buf off (FBits v n :: fs) (bind (put_bits v n buf off) k) a.
Proof. intros <- H. apply emits_step; [apply put_bits_writes | exact H]. Qed.

Lemma emits_array {A} buf off off' l n fs (k : Z -> enc A) a :
  off mod 8 = 0 -> Z.of_nat (length l) = n -> off + 8 * n = off' ->
  emits buf off' fs (k off') a ->
  emits buf off (FCopy l :: fs) (bind (put_bytes l n buf off) k) a.
Proof.
  intros Ho <- <- H. apply emits_step; [apply put_array_writes; auto | exact H].
Qed.

Lemma reads_run {A} m buf fs (d : dec A) a :
  reads m buf 0 fs d a -> decodes m buf fs (run_dec d) a.
Proof.
  intros H Hm Hf Hs Hl. unfold run_dec.
  destruct (H 0 Hm Hf ltac:(lia) ltac:(lia)) as [c ->]; [|reflexivity].
  rewrite Z.add_0_r. exact Hl.
Qed.

Lemma reads_bits_at {A} m buf off off' v n fs (k : Z -> dec A) a :
  off + n = off' -> reads m buf off' fs (k v) a ->
  reads m buf off (FBits v n :: fs) (bind (get_bits m buf n) k) a.
Proof. intros <-. apply reads_bits. Qed.

Lemma reads_array_at {A} m buf off off' l n fs (k : list Z -> dec A) a :
  off mod 8 = 0 -> Z.of_nat (length l) = n -> off + 8 * n = off' ->
  reads m buf off' fs (k l) a ->
  reads m buf off (FCopy l :: fs) (bind (get_bytes m buf n) k) a.
Proof. intros Ho Hn <-. apply reads_array; auto. Qed.

Lemma reads_total {A} m buf off fs (k : Z -> dec A) a :
  reads m buf off fs (k off) a -> reads m buf off fs (bind get_total k) a.
Proof. intros H. exact H. Qed.

(** Run through a straight-line encoder at constant offsets. *)
Ltac emit_step :=
  lazymatch goal with
  | |- emits _ 0 _ (bind (ret 0) _) _ => apply emits_start; cbv beta
  | |- emits _ 0 (FHdr _ :: _) _ _ => apply emits_header; cbv beta
  | |- emits _ ?off (FBits _ ?n :: _) _ _ =>
      let o := eval vm_compute in (off + n) in
      apply (emits_bits _ off o _ n); [reflexivity|]; cbv beta
  | |- emits _ ?off (FCopy _ :: _) (bind (put_bytes _ ?n _ _) _) _ =>
      let o := eval vm_compute in (off + 8 * n) in
      apply (emits_array _ off o _ n); [reflexivity | tauto | reflexivity|]; cbv beta
  | |- emits _ _ [] (ret _) _ => exact (emits_ret _ _ _)
  end.
Ltac emit_steps := repeat emit_step.

(** Run through a straight-line decoder at constant offsets. *)
Ltac read_step :=
  lazymatch goal with
  | |- reads _ _ _ _ (bind get_total _) _ => apply reads_total; cbv beta
  | |- reads _ _ 0 (FHdr _ :: _) _ _ => apply reads_header; cbv beta
  | |- reads _ _ ?off (FBits _ ?n :: _) _ _ =>
      let o := eval vm_compute in (off + n) in
      apply (reads_bits_at _ _ off o _ n); [reflexivity|]; cbv beta
  | |- reads _ _ ?off (FCopy _ :: _) (bind (get_bytes _ _ ?n) _) _ =>
      let o := eval vm_compute in (off + 8 * n) in
      apply (reads_array_at _ _ off o _ n); [reflexivity | tauto | reflexivity|]; cbv beta
  | |- reads _ _ _ [] (ret _) _ => exact (reads_ret _ _ _ _)
  end.
Ltac read_steps := repeat read_step.

(** The obligations of a layout of constant size. *)
Ltac solve_size := intros; autounfold with sizes in *; cbn [lsize fsize]; lia.
Ltac solve_emits := intros; emit_steps.
Ltac solve_decodes v := intros; destruct v; apply reads_run; read_steps.

(** A wire format whose layout has the same size for every value. *)
Definition fixed_format {T} (layout : T -> list field) (ok : T -> Prop) (count : T -> Z)
    (encode : T -> Z -> enc Z) (decode : bytes -> Z -> option (Z * T)) (size : Z)
    (Hlt : size < 65536)
    (Hsize : forall v, ok v -> lsize (layout v) = size)
    (Hemits : forall v buf, ok v -> emits buf 0 (layout v) (encode v buf) (size / 8))
    (Hdecodes : forall m buf v, ok v -> decodes m buf (layout v) (decode m buf) (count v, v))
  : WireFormat T.
Proof.
  refine {| wire_layout := layout; wire_ok := ok; wire_count := count;
            wire_encode := encode; wire_decode := decode |}.
  - intros v Hv. rewrite Hsize by exact Hv. exact Hlt.
  - intros v buf Hv. rewrite Hsize by exact Hv. apply Hemits, Hv.
  - exact Hdecodes.
Defined.
