(* ===== verification/IeFormat.v ===== *)
(** Formats of information elements of variable size.

    An element whose header or flags decide which members are on the wire is
    decoded into a structure that exists already: the members that are absent
    keep their old values.  [IeFormat] is the interface of such an element
    (every [WireFormat] is one); the lemmas here run encoders and decoders
    with branches, sub-encoders and copies of integers through the relations
    of WireFormat. *)

From Stdlib Require Import ZArith List Lia Bool.
From S2P Require Import Prelude EncDecBits WireFormat.
Import ListNotations.
Open Scope Z_scope.
Open Scope wire_scope.

(** * Integers as bytes of a little-endian host *)

Definition le_bytes (n : nat) (v : Z) : list Z :=
  map (fun i => u8 (Z.shiftr v (8 * Z.of_nat i))) (seq 0 n).

Fixpoint le_val (l : list Z) : Z :=
  match l with
  | [] => 0
  | b :: l => b + 256 * le_val l
  end.

(** The interface of an information element. *)
Class IeFormat (T : Type) := {
  ie_layout : T -> list field;
  ie_ok : T -> Prop;
  ie_shape : T -> Prop;     (* the arrays have the lengths of the C type *)
  ie_count : T -> Z;
  ie_encode : T -> Z -> enc Z;
  ie_decode : bytes -> Z -> T -> option (Z * T);
  ie_merge : T -> T -> T;   (* the old structure, the one on the wire *)
  ie_bound v : ie_ok v -> lsize (ie_layout v) < 65536;
  ie_emits v buf :
    ie_ok v -> emits buf 0 (ie_layout v) (ie_encode v buf) (lsize (ie_layout v) / 8);
  ie_decodes m buf old v :
    ie_ok v -> ie_shape old ->
    decodes m buf (ie_layout v) (ie_decode m buf old) (ie_count v, ie_merge old v)
}.

(** Decoding a value over itself changes nothing. *)
Class IeMergeSame (T : Type) `{IeFormat T} :=
  merge_same v : ie_ok v -> fields_ok (ie_layout v) -> ie_merge v v = v.

Definition ie_wf {T} `{IeFormat T} (v : T) : Prop := ie_ok v /\ fields_ok (ie_layout v).

#[export] Instance wire_format_ie {T} (F : WireFormat T) : IeFormat T | 10 := {
  ie_layout := wire_layout;
  ie_ok := wire_ok;
  ie_shape _ := True;
  ie_count := wire_count;
  ie_encode := wire_encode;
  ie_decode m buf _ := wire_decode m buf;
  ie_merge _ v := v;
  ie_bound := wire_bound;
  ie_emits := wire_emits;
  ie_decodes m buf _ v Hv _ := wire_decodes m buf v Hv
}.

(** * Layouts of several parts *)

Lemma lsize_app fs gs : lsize (fs ++ gs) = lsize fs + lsize gs.
Proof. induction fs as [|f fs IH]; cbn [app lsize]; [reflexivity | lia]. Qed.

Lemma fields_ok_app fs gs : fields_ok (fs ++ gs) <-> fields_ok fs /\ fields_ok gs.
Proof. induction fs as [|f fs IH]; cbn [app fields_ok]; tauto. Qed.

Lemma laid_app m p fs gs : laid m p (fs ++ gs) <-> laid m p fs /\ laid m (p + lsize fs) gs.
Proof.
  revert p. induction fs as [|f fs IH]; intros p; cbn [app laid lsize].
  - rewrite Z.add_0_r. tauto.
  - rewrite IH, Z.add_assoc. tauto.
Qed.

Lemma emits_app {A B} buf off fs gs (e : enc A) (k : A -> enc B) a b :
  emits buf off fs e a -> emits buf (off + lsize fs) gs (k a) b ->
  emits buf off (fs ++ gs) (bind e k) b.
Proof.
  intros He Hk m Hm Hok Hoff Hsz Hz. rewrite fields_ok_app in Hok. rewrite lsize_app in *.
  destruct Hok as [Hf Hg].
  pose proof (lsize_nonneg fs Hf). pose proof (lsize_nonneg gs Hg).
  destruct (He m Hm Hf Hoff ltac:(lia)) as (m1 & E1 & Hm1 & Hl1 & Hfr1).
  { intros q Hq. apply Hz. lia. }
  destruct (Hk m1 Hm1 Hg ltac:(lia) ltac:(lia)) as (m2 & E2 & Hm2 & Hl2 & Hfr2).
  { intros q Hq. destruct (proj2 Hfr1 q ltac:(lia)) as [->|(_ & _ & E)]; [apply Hz; lia | exact E]. }
  replace (8 * buf + (off + lsize fs)) with (8 * buf + off + lsize fs) in * by lia.
  exists m2. unfold bind. rewrite E1. split; [exact E2|]. split; [exact Hm2|]. split.
  - apply laid_app. split; [|exact Hl2]. apply (laid_ext m1 m2); [exact Hf| |exact Hl1].
    intros q Hq. apply Hfr2. lia.
  - apply (framed_trans m m1 m2); auto.
Qed.

Lemma reads_app {A B} m buf off fs gs (d : dec A) (k : A -> dec B) a b :
  reads m buf off fs d a -> reads m buf (off + lsize fs) gs (k a) b ->
  reads m buf off (fs ++ gs) (bind d k) b.
Proof.
  intros Hd Hk c Hm Hok Hoff Hsz Hl. rewrite fields_ok_app in Hok. rewrite lsize_app in *.
  destruct Hok as [Hf Hg]. rewrite laid_app in Hl. destruct Hl as [Hl1 Hl2].
  pose proof (lsize_nonneg fs Hf). pose proof (lsize_nonneg gs Hg).
  destruct (Hd c Hm Hf Hoff ltac:(lia) Hl1) as [c1 E1].
  destruct (Hk c1 Hm Hg ltac:(lia) ltac:(lia)) as [c2 E2].
  { rewrite Z.add_assoc. exact Hl2. }
  exists c2. unfold bind. rewrite E1, E2. do 3 f_equal. lia.
Qed.

Lemma emits_assoc {A B C} buf off fs (e : enc A) (k : A -> enc B) (j : B -> enc C) c :
  emits buf off fs (bind e (fun x => bind (k x) j)) c ->
  emits buf off fs (bind (bind e k) j) c.
Proof.
  intros H m Hm Hok Hoff Hsz Hz. destruct (H m Hm Hok Hoff Hsz Hz) as (m' & E & R).
  exists m'. split; [|exact R]. unfold bind in *. destruct (e m) as [[a m1]|]; auto.
Qed.

Lemma reads_assoc {A B C} m buf off fs (d : dec A) (k : A -> dec B) (j : B -> dec C) c :
  reads m buf off fs (bind d (fun x => bind (k x) j)) c ->
  reads m buf off fs (bind (bind d k) j) c.
Proof.
  intros H o Hm Hok Hoff Hsz Hl. destruct (H o Hm Hok Hoff Hsz Hl) as [c' E].
  exists c'. unfold bind in *. destruct (d (off, o)) as [[a s]|]; auto.
Qed.

Lemma emits_pure {A B} buf off fs (a : A) (k : A -> enc B) b :
  emits buf off fs (k a) b -> emits buf off fs (bind (ret a) k) b.
Proof. intros H. exact H. Qed.

Lemma reads_pure {A B} m buf off fs (a : A) (k : A -> dec B) b :
  reads m buf off fs (k a) b -> reads m buf off fs (bind (ret a) k) b.
Proof. intros H. exact H. Qed.

Lemma emits_ret_eq {A} buf off (a b : A) : a = b -> emits buf off [] (ret a) b.
Proof. intros <-. apply emits_ret. Qed.

(** The values of the fields may be used to follow the branches. *)
Lemma emits_with_ok {A} buf off fs (e : enc A) a :
  (fields_ok fs -> emits buf off fs e a) -> emits buf off fs e a.
Proof. intros H m Hm Hok. apply H; auto. Qed.

Lemma reads_with_ok {A} m buf off fs (d : dec A) a :
  (fields_ok fs -> reads m buf off fs d a) -> reads m buf off fs d a.
Proof. intros H c Hm Hok. apply H; auto. Qed.

(** A copy of the first [n] bytes of an array. *)
Lemma emits_copy {A} buf off src n fs (k : Z -> enc A) a :
  off mod 8 = 0 -> 0 <= n <= Z.of_nat (length src) ->
  emits buf (off + 8 * n) fs (k (off + 8 * n)) a ->
  emits buf off (FCopy (firstn (Z.to_nat n) src) :: fs) (bind (put_bytes src n buf off) k) a.
Proof.
  intros Ho Hn H. apply emits_step; [apply put_bytes_writes; auto|].
  cbn [fsize]. rewrite length_firstn, Nat.min_l, Z2Nat.id by lia. exact H.
Qed.

Lemma reads_into {A} m buf off l old n fs (k : list Z -> dec A) a :
  off mod 8 = 0 -> Z.of_nat (length l) = n -> n <= Z.of_nat (length old) ->
  reads m buf (off + 8 * n) fs (k (l ++ skipn (Z.to_nat n) old)) a ->
  reads m buf off (FCopy l :: fs) (bind (get_bytes_into m buf old n) k) a.
Proof.
  intros Ho <- Hle Hk c Hm [Hf Hfs] Hoff Hsz [Hat Hl]. cbn [lsize fsize] in *.
  pose proof (lsize_nonneg fs Hfs).
  unfold bind, get_bytes_into, CHAR_SIZE. destruct (Z.leb_spec (Z.of_nat (length l)) (Z.of_nat (length old)));
    [|lia].
  rewrite Nat2Z.id in *. rewrite u16_small by lia.
  rewrite to_list_laid; [|exact Hm|].
  2: { replace (8 * (buf + off / 8)) with (8 * buf + off) by (Z.div_mod_to_equations; lia).
       exact Hat. }
  rewrite (Z.mul_comm (Z.of_nat (length l)) 8).
  destruct (Hk c Hm Hfs ltac:(lia) ltac:(lia)) as [c' E].
  { rewrite Z.add_assoc. exact Hl. }
  exists c'. rewrite E. do 3 f_equal. lia.
Qed.

(** * Bytes of integers *)

Lemma le_bytes_length n v : length (le_bytes n v) = n.
Proof. unfold le_bytes. rewrite length_map. apply length_seq. Qed.

Lemma le_bytes_range n v : Forall (fun x => 0 <= x < 256) (le_bytes n v).
Proof.
  unfold le_bytes. apply Forall_forall. intros x Hx. apply in_map_iff in Hx.
  destruct Hx as (i & <- & _). apply byte_u8.
Qed.

Lemma le_bytes_S n v : le_bytes (S n) v = u8 v :: le_bytes n (v / 256).
Proof.
  unfold le_bytes. cbn [seq map]. rewrite Z.shiftr_0_r. f_equal.
  rewrite <- seq_shift, map_map. apply map_ext. intros i.
  change 256 with (2 ^ 8). rewrite <- (Z.shiftr_div_pow2 v 8), Z.shiftr_shiftr by lia.
  do 2 f_equal. lia.
Qed.

Lemma le_val_bytes n v : 0 <= v < 2 ^ (8 * Z.of_nat n) -> le_val (le_bytes n v) = v.
Proof.
  revert v. induction n as [|n IH]; intros v Hv.
  - change (2 ^ (8 * Z.of_nat 0)) with 1 in Hv. cbn. lia.
  - rewrite le_bytes_S. cbn [le_val]. unfold u8. rewrite IH.
    + Z.div_mod_to_equations. lia.
    + replace (8 * Z.of_nat (S n)) with (8 + 8 * Z.of_nat n) in Hv by lia.
      rewrite Z.pow_add_r in Hv by lia. change (2 ^ 8) with 256 in Hv.
      split; [apply Z.div_pos; lia | apply Z.div_lt_upper_bound; lia].
Qed.

Lemma le_val_range l :
  Forall (fun x => 0 <= x < 256) l -> 0 <= le_val l < 2 ^ (8 * Z.of_nat (length l)).
Proof.
  induction 1 as [|b l Hb _ IH]; [cbn; lia|]. cbn [le_val length].
  replace (8 * Z.of_nat (S (length l))) with (8 + 8 * Z.of_nat (length l)) by lia.
  rewrite Z.pow_add_r by lia. change (2 ^ 8) with 256. lia.
Qed.

Lemma le_bytes_val l :
  Forall (fun x => 0 <= x < 256) l -> le_bytes (length l) (le_val l) = l.
Proof.
  induction 1 as [|b l Hb _ IH]; [reflexivity|]. cbn [length le_val]. rewrite le_bytes_S. unfold u8.
  replace ((b + 256 * le_val l) mod 256) with b by (Z.div_mod_to_equations; lia).
  replace ((b + 256 * le_val l) / 256) with (le_val l) by (Z.div_mod_to_equations; lia).
  rewrite IH. reflexivity.
Qed.

Lemma le_val_snoc l x : le_val (l ++ [x]) = le_val l + 2 ^ (8 * Z.of_nat (length l)) * x.
Proof.
  induction l as [|y l IH]; [cbn [app le_val length]; change (2 ^ (8 * Z.of_nat 0)) with 1; lia|].
  cbn [app le_val length]. rewrite IH.
  replace (8 * Z.of_nat (S (length l))) with (8 + 8 * Z.of_nat (length l)) by lia.
  rewrite Z.pow_add_r by lia. change (2 ^ 8) with 256. ring.
Qed.

#[export] Hint Resolve le_bytes_length le_bytes_range : twag.

(** * The round trip *)

Lemma ie_roundtrip {T} `{IeFormat T} (v old : T) buf m :
  wf_bytes m -> ie_wf v -> ie_shape old -> zeroed m (8 * buf) (lsize (ie_layout v)) ->
  exists m',
    ie_encode v buf m = Some (lsize (ie_layout v) / 8, m') /\ wf_bytes m'
    /\ ie_decode m' buf old = Some (ie_count v, ie_merge old v)
    /\ laid m' (8 * buf) (ie_layout v)
    /\ framed m m' (8 * buf) (lsize (ie_layout v)).
Proof.
  intros Hm [Hok Hf] Ho Hz. pose proof (ie_bound v Hok) as Hb.
  destruct (ie_emits v buf Hok m Hm Hf ltac:(lia) ltac:(lia)) as (m' & E & Hm' & Hl & Hfr);
    rewrite Z.add_0_r in *; [exact Hz|].
  exists m'. split; [exact E|]. split; [exact Hm'|].
  split; [apply ie_decodes; auto | auto].
Qed.

(** * Automation *)

(** Run through an encoder or decoder whose branches have been decided. *)
Ltac ie_emit_step :=
  lazymatch goal with
  | |- emits _ _ _ (bind (bind _ _) _) _ => apply emits_assoc; cbv beta
  | |- emits _ _ _ (bind (ret _) _) _ => apply emits_pure; cbv beta
  | |- emits _ _ [] (ret _) _ => apply emits_ret_eq
  | |- emits _ _ (_ :: _) (bind _ _) _ => emit_step
  end.
Ltac ie_emit_steps := repeat ie_emit_step.
Ltac ie_read_step :=
  lazymatch goal with
  | |- reads _ _ _ _ (bind (bind _ _) _) _ => apply reads_assoc; cbv beta
  | |- reads _ _ _ _ (bind (ret _) _) _ => apply reads_pure; cbv beta
  | |- reads _ _ _ [] (ret _) _ => exact (reads_ret _ _ _ _)
  | |- reads _ _ _ _ (bind get_total _) _ => apply reads_total; cbv beta
  | |- reads _ _ _ (_ :: _) (bind _ _) _ => read_step
  end.
Ltac ie_read_steps := repeat ie_read_step.

(** * Elements that are a header and an array

    [memcpy] of [header.len] bytes between the buffer and an array member. *)

Lemma array_emits h arr buf cap :
  cap <= 8000 -> Z.of_nat (length arr) = cap -> 0 <= h.(hdr_len) <= cap ->
  emits buf 0 [FHdr h; FCopy (firstn (Z.to_nat h.(hdr_len)) arr)]
    (encoded <- ret 0;;
     encoded <- put_header h buf encoded;;
     encoded <- put_bytes arr h.(hdr_len) buf encoded;;
     ret (encoded / CHAR_SIZE))
    ((32 + 8 * h.(hdr_len)) / 8).
Proof.
  intros Hc Ha Hl. ie_emit_steps. apply emits_copy; [reflexivity|lia|].
  apply emits_ret_eq. reflexivity.
Qed.

Lemma array_reads {T} m buf h arr old cap (mk : ie_header_t -> list Z -> T) :
  Z.of_nat (length arr) = cap -> Z.of_nat (length old) = cap -> 0 <= h.(hdr_len) <= cap ->
  decodes m buf [FHdr h; FCopy (firstn (Z.to_nat h.(hdr_len)) arr)]
    (run_dec (
       header <- get_header m buf;;
       arr <- get_bytes_into m buf old header.(hdr_len);;
       ret (header.(hdr_len) + IE_HEADER_SIZE, mk header arr)))
    (h.(hdr_len) + IE_HEADER_SIZE,
     mk h (firstn (Z.to_nat h.(hdr_len)) arr ++ skipn (Z.to_nat h.(hdr_len)) old)).
Proof.
  intros Ha Ho Hl. apply reads_run. ie_read_step. apply reads_into.
  - reflexivity.
  - rewrite length_firstn. lia.
  - lia.
  - apply reads_ret.
Qed.

Lemma array_size h arr cap :
  Z.of_nat (length arr) = cap -> 0 <= h.(hdr_len) <= cap ->
  lsize [FHdr h; FCopy (firstn (Z.to_nat h.(hdr_len)) arr)] = 32 + 8 * h.(hdr_len).
Proof. intros Ha Hl. cbn [lsize fsize]. rewrite length_firstn. lia. Qed.
