(* ===== verification/GtpDefs.v ===== *)
(** Constants of libgtpv2c/include/gtp_ies.h: array sizes, element types and
    instances. *)

From Stdlib Require Import ZArith.
From S2P Require Import Prelude.
Open Scope Z_scope.

(** * Sizes and enumerations *)

Definition APN_LEN : Z := 128.
Definition PDN_ADDR_AND_PFX_LEN : Z := 21.
Definition IPV6_ADDRESS_LEN : Z := 16.
Definition BEARER_CONTEXT_LEN : Z := 8.
Definition TRIGRNG_EVNTS_LEN : Z := 9.
Definition LIST_OF_INTFCS_LEN : Z := 12.
Definition CK_LEN : Z := 16.
Definition IK_LEN : Z := 16.
Definition KASME_LEN : Z := 32.
Definition NH_LEN : Z := 32.
Definition OLD_KASME_LEN : Z := 32.
Definition OLD_NH_LEN : Z := 32.
Definition RAND_LEN : Z := 16.
Definition PDN_CSID_LEN : Z := 8.
Definition FQDN_LEN : Z := 256.
Definition OVERLOAD_CONTROL_INFORMATION_LEN : Z := 8.
Definition LOAD_CONTROL_INFORMATION_LEN : Z := 8.
Definition REMOTE_UE_CONTEXT_LEN : Z := 8.
Definition SCEF_PDN_CONNECTION_LEN : Z := 8.
Definition GTP_PCO_CONTENT_LEN : Z := 255.
Definition PDN_IP_TYPE_IPV4 : Z := 1.
Definition PDN_IP_TYPE_IPV6 : Z := 2.
Definition PDN_IP_TYPE_IPV4V6 : Z := 3.
Definition INDICATION_LEN_1 : Z := 1.
Definition INDICATION_LEN_2 : Z := 2.
Definition INDICATION_LEN_3 : Z := 3.
Definition INDICATION_LEN_4 : Z := 4.
Definition INDICATION_LEN_5 : Z := 5.
Definition INDICATION_LEN_6 : Z := 6.
Definition INDICATION_LEN_7 : Z := 7.
Definition START_REPORT_TAI_ECGI : Z := 6.
Definition BUFF_SIZE : Z := 257.
Definition GTP_IPV4_GLOBAL_UNICAST : Z := 0.
Definition GTP_IPV6_GLOBAL_UNICAST : Z := 1.
Definition GTP_MCC_MNC : Z := 2.
Definition MAX_TAIS : Z := 15.
Definition MAX_MACRO_ENB_IDS : Z := 63.
Definition MAX_HOME_ENB_IDS : Z := 63.
Definition MAX_ECGIS : Z := 63.
Definition MAX_RAIS : Z := 15.
Definition MAX_SAIS : Z := 63.
Definition MAX_CGIS : Z := 63.
Definition MAX_EX_MACRO_ENB_IDS : Z := 63.

#[export] Hint Unfold APN_LEN PDN_ADDR_AND_PFX_LEN IPV6_ADDRESS_LEN BEARER_CONTEXT_LEN TRIGRNG_EVNTS_LEN LIST_OF_INTFCS_LEN CK_LEN IK_LEN KASME_LEN NH_LEN OLD_KASME_LEN OLD_NH_LEN RAND_LEN PDN_CSID_LEN FQDN_LEN OVERLOAD_CONTROL_INFORMATION_LEN LOAD_CONTROL_INFORMATION_LEN REMOTE_UE_CONTEXT_LEN SCEF_PDN_CONNECTION_LEN GTP_PCO_CONTENT_LEN : sizes.

(** * Types of information elements *)

Definition GTP_IE_IMSI : Z := 1.
Definition GTP_IE_CAUSE : Z := 2.
Definition GTP_IE_RECOVERY : Z := 3.
Definition GTP_IE_ACC_PT_NAME : Z := 71.
Definition GTP_IE_AGG_MAX_BIT_RATE : Z := 72.
Definition GTP_IE_EPS_BEARER_ID : Z := 73.
Definition GTP_IE_IP_ADDRESS : Z := 74.
Definition GTP_IE_MBL_EQUIP_IDNTY : Z := 75.
Definition GTP_IE_MSISDN : Z := 76.
Definition GTP_IE_INDICATION : Z := 77.
Definition GTP_IE_PROT_CFG_OPTS : Z := 78.
Definition GTP_IE_PDN_ADDR_ALLOC : Z := 79.
Definition GTP_IE_BEARER_QLTY_OF_SVC : Z := 80.
Definition GTP_IE_FLOW_QLTY_OF_SVC : Z := 81.
Definition GTP_IE_RAT_TYPE : Z := 82.
Definition GTP_IE_SERVING_NETWORK : Z := 83.
Definition GTP_IE_EPS_BEARER_LVL_TRAFFIC_FLOW_TMPL : Z := 84.
Definition GTP_IE_TRAFFIC_AGG_DESC : Z := 85.
Definition GTP_IE_USER_LOC_INFO : Z := 86.
Definition GTP_IE_FULLY_QUAL_TUNN_ENDPT_IDNT : Z := 87.
Definition GTP_IE_TMSI : Z := 88.
Definition GTP_IE_GLOBAL_CN_ID : Z := 89.
Definition GTP_IE_S103_PDN_DATA_FWDNG_INFO : Z := 90.
Definition GTP_IE_S1U_DATA_FWDNG : Z := 91.
Definition GTP_IE_DELAY_VALUE : Z := 92.
Definition GTP_IE_BEARER_CONTEXT : Z := 93.
Definition GTP_IE_CHARGING_ID : Z := 94.
Definition GTP_IE_CHRGNG_CHAR : Z := 95.
Definition GTP_IE_TRC_INFO : Z := 96.
Definition GTP_IE_BEARER_FLAGS : Z := 97.
Definition GTP_IE_PDN_TYPE : Z := 99.
Definition GTP_IE_PROC_TRANS_ID : Z := 100.
Definition GTP_IE_GSM_KEY_AND_TRIPLETS : Z := 103.
Definition GTP_IE_UMTS_KEY_USED_CIPHER_AND_QUINTUPLETS : Z := 104.
Definition GTP_IE_GSM_KEY_USED_CIPHER_AND_QUINTUPLETS : Z := 105.
Definition GTP_IE_UMTS_KEY_AND_QUINTUPLETS : Z := 106.
Definition GTP_IE_EPS_SECUR_CTXT_AND_QUADRUPLETS : Z := 107.
Definition GTP_IE_UMTS_KEY_QUADRUPLETS_AND_QUINTUPLETS : Z := 108.
Definition GTP_IE_PDN_CONNECTION : Z := 109.
Definition GTP_IE_PDU_NUMBERS : Z := 110.
Definition GTP_IE_PTMSI : Z := 111.
Definition GTP_IE_PTMSI_SIGNATURE : Z := 112.
Definition GTP_IE_HOP_COUNTER : Z := 113.
Definition GTP_IE_UE_TIME_ZONE : Z := 114.
Definition GTP_IE_TRACE_REFERENCE : Z := 115.
Definition GTP_IE_CMPLT_REQ_MSG : Z := 116.
Definition GTP_IE_GUTI : Z := 117.
Definition GTP_IE_FULL_QUAL_CNTNR : Z := 118.
Definition GTP_IE_FULL_QUAL_CAUSE : Z := 119.
Definition GTP_IE_PLMN_ID : Z := 120.
Definition GTP_IE_TRGT_ID : Z := 121.
Definition GTP_IE_PACKET_FLOW_ID : Z := 123.
Definition GTP_IE_RAB_CONTEXT : Z := 124.
Definition GTP_IE_SRC_RNC_PDCP_CTXT_INFO : Z := 125.
Definition GTP_IE_PORT_NUMBER : Z := 126.
Definition GTP_IE_APN_RESTRICTION : Z := 127.
Definition GTP_IE_SELECTION_MODE : Z := 128.
Definition GTP_IE_SRC_ID : Z := 129.
Definition GTP_IE_CHG_RPTNG_ACT : Z := 131.
Definition GTP_IE_FQCSID : Z := 132.
Definition GTP_IE_CHANNEL_NEEDED : Z := 133.
Definition GTP_IE_EMLPP_PRIORITY : Z := 134.
Definition GTP_IE_NODE_TYPE : Z := 135.
Definition GTP_IE_FULLY_QUAL_DOMAIN_NAME : Z := 136.
Definition GTP_IE_PRIV_EXT : Z := 255.
Definition GTP_IE_TRANS_IDNT : Z := 137.
Definition GTP_IE_MBMS_SESS_DUR : Z := 138.
Definition GTP_IE_MBMS_SVC_AREA : Z := 139.
Definition GTP_IE_MBMS_SESS_IDNT : Z := 140.
Definition GTP_IE_MBMS_FLOW_IDNT : Z := 141.
Definition GTP_IE_MBMS_IP_MULTCST_DIST : Z := 142.
Definition GTP_IE_MBMS_DIST_ACK : Z := 143.
Definition GTP_IE_USER_CSG_INFO : Z := 145.
Definition GTP_IE_CSG_INFO_RPTNG_ACT : Z := 146.
Definition GTP_IE_RFSP_INDEX : Z := 144.
Definition GTP_IE_CSG_ID : Z := 147.
Definition GTP_IE_CSG_MEMB_INDCTN : Z := 148.
Definition GTP_IE_SVC_INDCTR : Z := 149.
Definition GTP_IE_DETACH_TYPE : Z := 150.
Definition GTP_IE_LOCAL_DISTGSD_NAME : Z := 151.
Definition GTP_IE_NODE_FEATURES : Z := 152.
Definition GTP_IE_MBMS_TIME_TO_DATA_XFER : Z := 153.
Definition GTP_IE_THROTTLING : Z := 154.
Definition GTP_IE_ALLOC_RETEN_PRIORITY : Z := 155.
Definition GTP_IE_EPC_TIMER : Z := 156.
Definition GTP_IE_SGNLLNG_PRIORITY_INDCTN : Z := 157.
Definition GTP_IE_TMGI : Z := 158.
Definition GTP_IE_ADDTL_MM_CTXT_SRVCC : Z := 159.
Definition GTP_IE_ADDTL_FLGS_SRVCC : Z := 160.
Definition GTP_IE_MDT_CFG : Z := 162.
Definition GTP_IE_ADDTL_PROT_CFG_OPTS : Z := 163.
Definition GTP_IE_MBMS_DATA_XFER_ABS_TIME : Z := 164.
Definition GTP_IE_HENB_INFO_RPTNG : Z := 165.
Definition GTP_IE_IPV4_CFG_PARMS : Z := 166.
Definition GTP_IE_CHG_TO_RPT_FLGS : Z := 167.
Definition GTP_IE_ACT_INDCTN : Z := 168.
Definition GTP_IE_TWAN_IDENTIFIER : Z := 169.
Definition GTP_IE_ULI_TIMESTAMP : Z := 170.
Definition GTP_IE_MBMS_FLAGS : Z := 171.
Definition GTP_IE_RAN_NAS_CAUSE : Z := 172.
Definition GTP_IE_CN_OPER_SEL_ENTITY : Z := 173.
Definition GTP_IE_TRSTD_WLAN_MODE_INDCTN : Z := 174.
Definition GTP_IE_NODE_NUMBER : Z := 175.
Definition GTP_IE_NODE_IDENTIFIER : Z := 176.
Definition GTP_IE_PRES_RPTNG_AREA_ACT : Z := 177.
Definition GTP_IE_PRES_RPTNG_AREA_INFO : Z := 178.
Definition GTP_IE_TWAN_IDNT_TS : Z := 179.
Definition GTP_IE_OVRLD_CTL_INFO : Z := 180.
Definition GTP_IE_LOAD_CTL_INFO : Z := 181.
Definition GTP_IE_METRIC : Z := 182.
Definition GTP_IE_SEQUENCE_NUMBER : Z := 183.
Definition GTP_IE_APN_AND_RLTV_CAP : Z := 184.
Definition GTP_IE_WLAN_OFFLDBLTY_INDCTN : Z := 206.
Definition GTP_IE_PAGING_AND_SVC_INFO : Z := 186.
Definition GTP_IE_INTEGER_NUMBER : Z := 187.
Definition GTP_IE_MSEC_TIME_STMP : Z := 188.
Definition GTP_IE_MNTRNG_EVNT_INFO : Z := 189.
Definition GTP_IE_ECGI_LIST : Z := 190.
Definition GTP_IE_RMT_UE_CTXT : Z := 191.
Definition GTP_IE_REMOTE_USER_ID : Z := 192.
Definition GTP_IE_RMT_UE_IP_INFO : Z := 193.
Definition GTP_IE_CIOT_OPTIM_SUPP_INDCTN : Z := 194.
Definition GTP_IE_SCEF_PDN_CONN : Z := 195.
Definition GTP_IE_HDR_COMP_CFG : Z := 196.
Definition GTP_IE_EXTNDED_PROT_CFG_OPTS : Z := 197.
Definition GTP_IE_SRVNG_PLMN_RATE_CTL : Z := 198.
Definition GTP_IE_COUNTER : Z := 199.
Definition GTP_IE_MAPPED_UE_USAGE_TYPE : Z := 200.
Definition GTP_IE_SECDRY_RAT_USAGE_DATA_RPT : Z := 201.
Definition GTP_IE_UP_FUNC_SEL_INDCTN_FLGS : Z := 202.
Definition GTP_IE_MAX_PCKT_LOSS_RATE : Z := 206.
Definition GTP_IE_MM_CTXT_TYPE : Z := 225.

(** * Instances of information elements *)

Definition GTP_IE_INSTANCE_ZERO : Z := 0.
Definition GTP_IE_INSTANCE_ONE : Z := 1.
Definition GTP_IE_INSTANCE_TWO : Z := 2.
Definition GTP_IE_INSTANCE_THREE : Z := 3.
Definition GTP_IE_INSTANCE_FOUR : Z := 4.
Definition GTP_IE_INSTANCE_FIVE : Z := 5.
Definition GTP_IE_INSTANCE_SIX : Z := 6.
Definition GTP_IE_INSTANCE_SEVEN : Z := 7.
Definition GTP_IE_INSTANCE_EIGHT : Z := 8.
Definition GTP_IE_INSTANCE_NINE : Z := 9.
Definition GTP_IE_INSTANCE_TEN : Z := 10.
Definition GTP_IE_INSTANCE_ELEVEN : Z := 11.

(** * Constants of gtp_messages.h *)
Definition MAX_BEARERS : Z := 14.
Definition GTP_IE_CREATE_SESS_REQUEST_BEARER_CTXT_TO_BE_CREATED : Z := 93.
Definition GTP_IE_CREATE_SESS_REQUEST_BEARER_CTXT_TO_BE_REMOVED : Z := 93.
Definition GTP_IE_CREATE_SESS_RESPONSE_BEARER_CTXT_CREATED : Z := 93.
Definition GTP_IE_CREATE_SESS_RESPONSE_BEARER_CTXT_MARKED_REMOVAL : Z := 93.
Definition GTP_IE_MOD_BEARER_REQUEST_BEARER_CTXT_TO_BE_MODIFIED : Z := 93.
Definition GTP_IE_MOD_BEARER_REQUEST_BEARER_CTXT_TO_BE_REMOVED : Z := 93.
Definition GTP_IE_MOD_BEARER_RESPONSE_BEARER_CTXT_MARKED_REMOVAL : Z := 93.
Definition GTP_IE_MOD_BEARER_RESPONSE_BEARER_CTXT_MODIFIED : Z := 93.
Definition MAX_BEARERS_PER_UE : Z := 15.
