(* ===== verification/GtpFields.v ===== *)
(** Information elements of libgtpv2c of constant size: the structures without a header that other elements contain.

    Each structure of gtp_ies.h is a record in a module of its own, with its
    encoder (gtp_ies_encoder.c), its decoder (gtp_ies_decoder.c), the wire
    layout both implement, and the [WireFormat] instance that proves it. *)

From Stdlib Require Import ZArith List Lia.
From S2P Require Import Prelude EncDecBits WireFormat GtpDefs.
Import ListNotations.
Open Scope Z_scope.
Open Scope wire_scope.

(** ** [macro_enb_id_fld] *)

Module macro_enb_id_fld.

Record macro_enb_id_fld_t := {
  menbid_mcc_digit_2 : Z;  (* uint8_t :4 *)
  menbid_mcc_digit_1 : Z;  (* uint8_t :4 *)
  menbid_mnc_digit_3 : Z;  (* uint8_t :4 *)
  menbid_mcc_digit_3 : Z;  (* uint8_t :4 *)
  menbid_mnc_digit_2 : Z;  (* uint8_t :4 *)
  menbid_mnc_digit_1 : Z;  (* uint8_t :4 *)
  menbid_spare : Z;  (* uint8_t :4 *)
  menbid_macro_enodeb_id : Z;  (* uint8_t :4 *)
  menbid_macro_enb_id2 : Z  (* uint16_t *)
}.

Definition encode_macro_enb_id_fld (value : macro_enb_id_fld_t) (buf : Z) : enc Z :=
  encoded <- ret 0;;
  encoded <- put_bits value.(menbid_mcc_digit_2) 4 buf encoded;;
  encoded <- put_bits value.(menbid_mcc_digit_1) 4 buf encoded;;
  encoded <- put_bits value.(menbid_mnc_digit_3) 4 buf encoded;;
  encoded <- put_bits value.(menbid_mcc_digit_3) 4 buf encoded;;
  encoded <- put_bits value.(menbid_mnc_digit_2) 4 buf encoded;;
  encoded <- put_bits value.(menbid_mnc_digit_1) 4 buf encoded;;
  encoded <- put_bits value.(menbid_spare) 4 buf encoded;;
  encoded <- put_bits value.(menbid_macro_enodeb_id) 4 buf encoded;;
  encoded <- put_bits value.(menbid_macro_enb_id2) 16 buf encoded;;
  ret (encoded / CHAR_SIZE).

Definition decode_macro_enb_id_fld (m : bytes) (buf : Z) : option (Z * macro_enb_id_fld_t) :=
  run_dec (
  menbid_mcc_digit_2 <- get_bits m buf 4;;
  menbid_mcc_digit_1 <- get_bits m buf 4;;
  menbid_mnc_digit_3 <- get_bits m buf 4;;
  menbid_mcc_digit_3 <- get_bits m buf 4;;
  menbid_mnc_digit_2 <- get_bits m buf 4;;
  menbid_mnc_digit_1 <- get_bits m buf 4;;
  menbid_spare <- get_bits m buf 4;;
  menbid_macro_enodeb_id <- get_bits m buf 4;;
  menbid_macro_enb_id2 <- get_bits m buf 16;;
  total_decoded <- get_total;;
  ret (total_decoded / CHAR_SIZE,
      Build_macro_enb_id_fld_t menbid_mcc_digit_2 menbid_mcc_digit_1 menbid_mnc_digit_3
       menbid_mcc_digit_3 menbid_mnc_digit_2 menbid_mnc_digit_1 menbid_spare
       menbid_macro_enodeb_id menbid_macro_enb_id2)).

Definition layout_macro_enb_id_fld (v : macro_enb_id_fld_t) : list field :=
  [FBits v.(menbid_mcc_digit_2) 4; FBits v.(menbid_mcc_digit_1) 4;
   FBits v.(menbid_mnc_digit_3) 4; FBits v.(menbid_mcc_digit_3) 4;
   FBits v.(menbid_mnc_digit_2) 4; FBits v.(menbid_mnc_digit_1) 4;
   FBits v.(menbid_spare) 4; FBits v.(menbid_macro_enodeb_id) 4;
   FBits v.(menbid_macro_enb_id2) 16].

Definition ok_macro_enb_id_fld (v : macro_enb_id_fld_t) : Prop :=
  True.

Definition count_macro_enb_id_fld (v : macro_enb_id_fld_t) : Z := 6.

Lemma layout_macro_enb_id_fld_size v : ok_macro_enb_id_fld v -> lsize (layout_macro_enb_id_fld v) = 48.
Proof. unfold ok_macro_enb_id_fld, layout_macro_enb_id_fld. solve_size. Qed.

Lemma encode_macro_enb_id_fld_emits v buf :
  ok_macro_enb_id_fld v -> emits buf 0 (layout_macro_enb_id_fld v) (encode_macro_enb_id_fld v buf) (48 / 8).
Proof. unfold ok_macro_enb_id_fld, layout_macro_enb_id_fld, encode_macro_enb_id_fld. solve_emits. Qed.

Lemma decode_macro_enb_id_fld_decodes m buf v :
  ok_macro_enb_id_fld v ->
  decodes m buf (layout_macro_enb_id_fld v) (decode_macro_enb_id_fld m buf) (count_macro_enb_id_fld v, v).
Proof. unfold ok_macro_enb_id_fld, layout_macro_enb_id_fld, decode_macro_enb_id_fld, count_macro_enb_id_fld. solve_decodes v. Qed.

#[global] Instance macro_enb_id_fld_format : WireFormat macro_enb_id_fld_t :=
  fixed_format layout_macro_enb_id_fld ok_macro_enb_id_fld count_macro_enb_id_fld encode_macro_enb_id_fld decode_macro_enb_id_fld 48 ltac:(reflexivity)
    layout_macro_enb_id_fld_size encode_macro_enb_id_fld_emits decode_macro_enb_id_fld_decodes.

End macro_enb_id_fld.

(** ** [home_enb_id_fld] *)

Module home_enb_id_fld.

Record home_enb_id_fld_t := {
  henbid_mcc_digit_2 : Z;  (* uint8_t :4 *)
  henbid_mcc_digit_1 : Z;  (* uint8_t :4 *)
  henbid_mnc_digit_3 : Z;  (* uint8_t :4 *)
  henbid_mcc_digit_3 : Z;  (* uint8_t :4 *)
  henbid_mnc_digit_2 : Z;  (* uint8_t :4 *)
  henbid_mnc_digit_1 : Z;  (* uint8_t :4 *)
  henbid_spare : Z;  (* uint8_t :4 *)
  henbid_home_enodeb_id : Z;  (* uint8_t :4 *)
  henbid_home_enb_id2 : Z  (* uint32_t :24 *)
}.

Definition encode_home_enb_id_fld (value : home_enb_id_fld_t) (buf : Z) : enc Z :=
  encoded <- ret 0;;
  encoded <- put_bits value.(henbid_mcc_digit_2) 4 buf encoded;;
  encoded <- put_bits value.(henbid_mcc_digit_1) 4 buf encoded;;
  encoded <- put_bits value.(henbid_mnc_digit_3) 4 buf encoded;;
  encoded <- put_bits value.(henbid_mcc_digit_3) 4 buf encoded;;
  encoded <- put_bits value.(henbid_mnc_digit_2) 4 buf encoded;;
  encoded <- put_bits value.(henbid_mnc_digit_1) 4 buf encoded;;
  encoded <- put_bits value.(henbid_spare) 4 buf encoded;;
  encoded <- put_bits value.(henbid_home_enodeb_id) 4 buf encoded;;
  encoded <- put_bits value.(henbid_home_enb_id2) 24 buf encoded;;
  ret (encoded / CHAR_SIZE).

Definition decode_home_enb_id_fld (m : bytes) (buf : Z) : option (Z * home_enb_id_fld_t) :=
  run_dec (
  henbid_mcc_digit_2 <- get_bits m buf 4;;
  henbid_mcc_digit_1 <- get_bits m buf 4;;
  henbid_mnc_digit_3 <- get_bits m buf 4;;
  henbid_mcc_digit_3 <- get_bits m buf 4;;
  henbid_mnc_digit_2 <- get_bits m buf 4;;
  henbid_mnc_digit_1 <- get_bits m buf 4;;
  henbid_spare <- get_bits m buf 4;;
  henbid_home_enodeb_id <- get_bits m buf 4;;
  henbid_home_enb_id2 <- get_bits m buf 24;;
  total_decoded <- get_total;;
  ret (total_decoded / CHAR_SIZE,
      Build_home_enb_id_fld_t henbid_mcc_digit_2 henbid_mcc_digit_1 henbid_mnc_digit_3
       henbid_mcc_digit_3 henbid_mnc_digit_2 henbid_mnc_digit_1 henbid_spare
       henbid_home_enodeb_id henbid_home_enb_id2)).

Definition layout_home_enb_id_fld (v : home_enb_id_fld_t) : list field :=
  [FBits v.(henbid_mcc_digit_2) 4; FBits v.(henbid_mcc_digit_1) 4;
   FBits v.(henbid_mnc_digit_3) 4; FBits v.(henbid_mcc_digit_3) 4;
   FBits v.(henbid_mnc_digit_2) 4; FBits v.(henbid_mnc_digit_1) 4;
   FBits v.(henbid_spare) 4; FBits v.(henbid_home_enodeb_id) 4;
   FBits v.(henbid_home_enb_id2) 24].

Definition ok_home_enb_id_fld (v : home_enb_id_fld_t) : Prop :=
  True.

Definition count_home_enb_id_fld (v : home_enb_id_fld_t) : Z := 7.

Lemma layout_home_enb_id_fld_size v : ok_home_enb_id_fld v -> lsize (layout_home_enb_id_fld v) = 56.
Proof. unfold ok_home_enb_id_fld, layout_home_enb_id_fld. solve_size. Qed.

Lemma encode_home_enb_id_fld_emits v buf :
  ok_home_enb_id_fld v -> emits buf 0 (layout_home_enb_id_fld v) (encode_home_enb_id_fld v buf) (56 / 8).
Proof. unfold ok_home_enb_id_fld, layout_home_enb_id_fld, encode_home_enb_id_fld. solve_emits. Qed.

Lemma decode_home_enb_id_fld_decodes m buf v :
  ok_home_enb_id_fld v ->
  decodes m buf (layout_home_enb_id_fld v) (decode_home_enb_id_fld m buf) (count_home_enb_id_fld v, v).
Proof. unfold ok_home_enb_id_fld, layout_home_enb_id_fld, decode_home_enb_id_fld, count_home_enb_id_fld. solve_decodes v. Qed.

#[global] Instance home_enb_id_fld_format : WireFormat home_enb_id_fld_t :=
  fixed_format layout_home_enb_id_fld ok_home_enb_id_fld count_home_enb_id_fld encode_home_enb_id_fld decode_home_enb_id_fld 56 ltac:(reflexivity)
    layout_home_enb_id_fld_size encode_home_enb_id_fld_emits decode_home_enb_id_fld_decodes.

End home_enb_id_fld.

(** ** [auth_quintuplet] *)

Module auth_quintuplet.

Record auth_quintuplet_t := {
  rand : list Z;  (* uint8_t[RAND_LEN] *)
  xres_length : Z;  (* uint8_t *)
  xres : Z;  (* uint8_t *)
  ck : list Z;  (* uint8_t[CK_LEN] *)
  ik : list Z;  (* uint8_t[IK_LEN] *)
  autn_length : Z;  (* uint8_t *)
  autn : Z  (* uint8_t *)
}.

Definition encode_auth_quintuplet (value : auth_quintuplet_t) (buf : Z) : enc Z :=
  encoded <- ret 0;;
  encoded <- put_bytes value.(rand) RAND_LEN buf encoded;;
  encoded <- put_bits value.(xres_length) 8 buf encoded;;
  encoded <- put_bits value.(xres) 8 buf encoded;;
  encoded <- put_bytes value.(ck) CK_LEN buf encoded;;
  encoded <- put_bytes value.(ik) IK_LEN buf encoded;;
  encoded <- put_bits value.(autn_length) 8 buf encoded;;
  encoded <- put_bits value.(autn) 8 buf encoded;;
  ret (encoded / CHAR_SIZE).

Definition decode_auth_quintuplet (m : bytes) (buf : Z) : option (Z * auth_quintuplet_t) :=
  run_dec (
  rand <- get_bytes m buf RAND_LEN;;
  xres_length <- get_bits m buf 8;;
  xres <- get_bits m buf 8;;
  ck <- get_bytes m buf CK_LEN;;
  ik <- get_bytes m buf IK_LEN;;
  autn_length <- get_bits m buf 8;;
  autn <- get_bits m buf 8;;
  total_decoded <- get_total;;
  ret (total_decoded,
      Build_auth_quintuplet_t rand xres_length xres ck ik autn_length autn)).

Definition layout_auth_quintuplet (v : auth_quintuplet_t) : list field :=
  [FCopy v.(rand); FBits v.(xres_length) 8; FBits v.(xres) 8; FCopy v.(ck); FCopy v.(ik);
   FBits v.(autn_length) 8; FBits v.(autn) 8].

Definition ok_auth_quintuplet (v : auth_quintuplet_t) : Prop :=
  Z.of_nat (length v.(rand)) = RAND_LEN /\ Z.of_nat (length v.(ck)) = CK_LEN /\ Z.of_nat (length v.(ik)) = IK_LEN.

Definition count_auth_quintuplet (v : auth_quintuplet_t) : Z := 416.

Lemma layout_auth_quintuplet_size v : ok_auth_quintuplet v -> lsize (layout_auth_quintuplet v) = 416.
Proof. unfold ok_auth_quintuplet, layout_auth_quintuplet. solve_size. Qed.

Lemma encode_auth_quintuplet_emits v buf :
  ok_auth_quintuplet v -> emits buf 0 (layout_auth_quintuplet v) (encode_auth_quintuplet v buf) (416 / 8).
Proof. unfold ok_auth_quintuplet, layout_auth_quintuplet, encode_auth_quintuplet. solve_emits. Qed.

Lemma decode_auth_quintuplet_decodes m buf v :
  ok_auth_quintuplet v ->
  decodes m buf (layout_auth_quintuplet v) (decode_auth_quintuplet m buf) (count_auth_quintuplet v, v).
Proof. unfold ok_auth_quintuplet, layout_auth_quintuplet, decode_auth_quintuplet, count_auth_quintuplet. solve_decodes v. Qed.

#[global] Instance auth_quintuplet_format : WireFormat auth_quintuplet_t :=
  fixed_format layout_auth_quintuplet ok_auth_quintuplet count_auth_quintuplet encode_auth_quintuplet decode_auth_quintuplet 416 ltac:(reflexivity)
    layout_auth_quintuplet_size encode_auth_quintuplet_emits decode_auth_quintuplet_decodes.

End auth_quintuplet.

(** ** [trgt_id_type_macro_ng_enb] *)

Module trgt_id_type_macro_ng_enb.

Record trgt_id_type_macro_ng_enb_t := {
  mcc_digit_2 : Z;  (* uint8_t :4 *)
  mcc_digit_1 : Z;  (* uint8_t :4 *)
  mnc_digit_3 : Z;  (* uint8_t :4 *)
  mcc_digit_3 : Z;  (* uint8_t :4 *)
  mnc_digit_2 : Z;  (* uint8_t :4 *)
  mnc_digit_1 : Z;  (* uint8_t :4 *)
  spare : Z;  (* uint8_t :4 *)
  macro_ng_enb_id : Z;  (* uint16_t *)
  fivegs_tac : Z  (* uint32_t :24 *)
}.

Definition encode_trgt_id_type_macro_ng_enb (value : trgt_id_type_macro_ng_enb_t) (buf : Z) : enc Z :=
  encoded <- ret 0;;
  encoded <- put_bits value.(mcc_digit_2) 4 buf encoded;;
  encoded <- put_bits value.(mcc_digit_1) 4 buf encoded;;
  encoded <- put_bits value.(mnc_digit_3) 4 buf encoded;;
  encoded <- put_bits value.(mcc_digit_3) 4 buf encoded;;
  encoded <- put_bits value.(mnc_digit_2) 4 buf encoded;;
  encoded <- put_bits value.(mnc_digit_1) 4 buf encoded;;
  encoded <- put_bits value.(spare) 4 buf encoded;;
  encoded <- put_bits value.(macro_ng_enb_id) 16 buf encoded;;
  encoded <- put_bits value.(fivegs_tac) 24 buf encoded;;
  ret (encoded / CHAR_SIZE).

Definition decode_trgt_id_type_macro_ng_enb (m : bytes) (buf : Z) : option (Z * trgt_id_type_macro_ng_enb_t) :=
  run_dec (
  mcc_digit_2 <- get_bits m buf 4;;
  mcc_digit_1 <- get_bits m buf 4;;
  mnc_digit_3 <- get_bits m buf 4;;
  mcc_digit_3 <- get_bits m buf 4;;
  mnc_digit_2 <- get_bits m buf 4;;
  mnc_digit_1 <- get_bits m buf 4;;
  spare <- get_bits m buf 4;;
  macro_ng_enb_id <- get_bits m buf 16;;
  fivegs_tac <- get_bits m buf 24;;
  total_decoded <- get_total;;
  ret (total_decoded,
      Build_trgt_id_type_macro_ng_enb_t mcc_digit_2 mcc_digit_1 mnc_digit_3 mcc_digit_3
       mnc_digit_2 mnc_digit_1 spare macro_ng_enb_id fivegs_tac)).

Definition layout_trgt_id_type_macro_ng_enb (v : trgt_id_type_macro_ng_enb_t) : list field :=
  [FBits v.(mcc_digit_2) 4; FBits v.(mcc_digit_1) 4; FBits v.(mnc_digit_3) 4;
   FBits v.(mcc_digit_3) 4; FBits v.(mnc_digit_2) 4; FBits v.(mnc_digit_1) 4;
   FBits v.(spare) 4; FBits v.(macro_ng_enb_id) 16; FBits v.(fivegs_tac) 24].

Definition ok_trgt_id_type_macro_ng_enb (v : trgt_id_type_macro_ng_enb_t) : Prop :=
  True.

Definition count_trgt_id_type_macro_ng_enb (v : trgt_id_type_macro_ng_enb_t) : Z := 68.

Lemma layout_trgt_id_type_macro_ng_enb_size v : ok_trgt_id_type_macro_ng_enb v -> lsize (layout_trgt_id_type_macro_ng_enb v) = 68.
Proof. unfold ok_trgt_id_type_macro_ng_enb, layout_trgt_id_type_macro_ng_enb. solve_size. Qed.

Lemma encode_trgt_id_type_macro_ng_enb_emits v buf :
  ok_trgt_id_type_macro_ng_enb v -> emits buf 0 (layout_trgt_id_type_macro_ng_enb v) (encode_trgt_id_type_macro_ng_enb v buf) (68 / 8).
Proof. unfold ok_trgt_id_type_macro_ng_enb, layout_trgt_id_type_macro_ng_enb, encode_trgt_id_type_macro_ng_enb. solve_emits. Qed.

Lemma decode_trgt_id_type_macro_ng_enb_decodes m buf v :
  ok_trgt_id_type_macro_ng_enb v ->
  decodes m buf (layout_trgt_id_type_macro_ng_enb v) (decode_trgt_id_type_macro_ng_enb m buf) (count_trgt_id_type_macro_ng_enb v, v).
Proof. unfold ok_trgt_id_type_macro_ng_enb, layout_trgt_id_type_macro_ng_enb, decode_trgt_id_type_macro_ng_enb, count_trgt_id_type_macro_ng_enb. solve_decodes v. Qed.

#[global] Instance trgt_id_type_macro_ng_enb_format : WireFormat trgt_id_type_macro_ng_enb_t :=
  fixed_format layout_trgt_id_type_macro_ng_enb ok_trgt_id_type_macro_ng_enb count_trgt_id_type_macro_ng_enb encode_trgt_id_type_macro_ng_enb decode_trgt_id_type_macro_ng_enb 68 ltac:(reflexivity)
    layout_trgt_id_type_macro_ng_enb_size encode_trgt_id_type_macro_ng_enb_emits decode_trgt_id_type_macro_ng_enb_decodes.

End trgt_id_type_macro_ng_enb.

(** ** [trgt_id_type_rnc_id] *)

Module trgt_id_type_rnc_id.

Record trgt_id_type_rnc_id_t := {
  mcc_digit_2 : Z;  (* uint8_t :4 *)
  mcc_digit_1 : Z;  (* uint8_t :4 *)
  mnc_digit_3 : Z;  (* uint8_t :4 *)
  mcc_digit_3 : Z;  (* uint8_t :4 *)
  mnc_digit_2 : Z;  (* uint8_t :4 *)
  mnc_digit_1 : Z;  (* uint8_t :4 *)
  lac : Z;  (* uint16_t *)
  rac : Z;  (* uint8_t *)
  rnc_id : Z;  (* uint16_t *)
  extended_rnc_id : Z  (* uint16_t *)
}.

Definition encode_trgt_id_type_rnc_id (value : trgt_id_type_rnc_id_t) (buf : Z) : enc Z :=
  encoded <- ret 0;;
  encoded <- put_bits value.(mcc_digit_2) 4 buf encoded;;
  encoded <- put_bits value.(mcc_digit_1) 4 buf encoded;;
  encoded <- put_bits value.(mnc_digit_3) 4 buf encoded;;
  encoded <- put_bits value.(mcc_digit_3) 4 buf encoded;;
  encoded <- put_bits value.(mnc_digit_2) 4 buf encoded;;
  encoded <- put_bits value.(mnc_digit_1) 4 buf encoded;;
  encoded <- put_bits value.(lac) 16 buf encoded;;
  encoded <- put_bits value.(rac) 8 buf encoded;;
  encoded <- put_bits value.(rnc_id) 16 buf encoded;;
  encoded <- put_bits value.(extended_rnc_id) 16 buf encoded;;
  ret (encoded / CHAR_SIZE).

Definition decode_trgt_id_type_rnc_id (m : bytes) (buf : Z) : option (Z * trgt_id_type_rnc_id_t) :=
  run_dec (
  mcc_digit_2 <- get_bits m buf 4;;
  mcc_digit_1 <- get_bits m buf 4;;
  mnc_digit_3 <- get_bits m buf 4;;
  mcc_digit_3 <- get_bits m buf 4;;
  mnc_digit_2 <- get_bits m buf 4;;
  mnc_digit_1 <- get_bits m buf 4;;
  lac <- get_bits m buf 16;;
  rac <- get_bits m buf 8;;
  rnc_id <- get_bits m buf 16;;
  extended_rnc_id <- get_bits m buf 16;;
  total_decoded <- get_total;;
  ret (total_decoded,
      Build_trgt_id_type_rnc_id_t mcc_digit_2 mcc_digit_1 mnc_digit_3 mcc_digit_3 mnc_digit_2
       mnc_digit_1 lac rac rnc_id extended_rnc_id)).

Definition layout_trgt_id_type_rnc_id (v : trgt_id_type_rnc_id_t) : list field :=
  [FBits v.(mcc_digit_2) 4; FBits v.(mcc_digit_1) 4; FBits v.(mnc_digit_3) 4;
   FBits v.(mcc_digit_3) 4; FBits v.(mnc_digit_2) 4; FBits v.(mnc_digit_1) 4;
   FBits v.(lac) 16; FBits v.(rac) 8; FBits v.(rnc_id) 16; FBits v.(extended_rnc_id) 16].

Definition ok_trgt_id_type_rnc_id (v : trgt_id_type_rnc_id_t) : Prop :=
  True.

Definition count_trgt_id_type_rnc_id (v : trgt_id_type_rnc_id_t) : Z := 80.

Lemma layout_trgt_id_type_rnc_id_size v : ok_trgt_id_type_rnc_id v -> lsize (layout_trgt_id_type_rnc_id v) = 80.
Proof. unfold ok_trgt_id_type_rnc_id, layout_trgt_id_type_rnc_id. solve_size. Qed.

Lemma encode_trgt_id_type_rnc_id_emits v buf :
  ok_trgt_id_type_rnc_id v -> emits buf 0 (layout_trgt_id_type_rnc_id v) (encode_trgt_id_type_rnc_id v buf) (80 / 8).
Proof. unfold ok_trgt_id_type_rnc_id, layout_trgt_id_type_rnc_id, encode_trgt_id_type_rnc_id. solve_emits. Qed.

Lemma decode_trgt_id_type_rnc_id_decodes m buf v :
  ok_trgt_id_type_rnc_id v ->
  decodes m buf (layout_trgt_id_type_rnc_id v) (decode_trgt_id_type_rnc_id m buf) (count_trgt_id_type_rnc_id v, v).
Proof. unfold ok_trgt_id_type_rnc_id, layout_trgt_id_type_rnc_id, decode_trgt_id_type_rnc_id, count_trgt_id_type_rnc_id. solve_decodes v. Qed.

#[global] Instance trgt_id_type_rnc_id_format : WireFormat trgt_id_type_rnc_id_t :=
  fixed_format layout_trgt_id_type_rnc_id ok_trgt_id_type_rnc_id count_trgt_id_type_rnc_id encode_trgt_id_type_rnc_id decode_trgt_id_type_rnc_id 80 ltac:(reflexivity)
    layout_trgt_id_type_rnc_id_size encode_trgt_id_type_rnc_id_emits decode_trgt_id_type_rnc_id_decodes.

End trgt_id_type_rnc_id.

(** ** [rai_field] *)

Module rai_field.

Record rai_field_t := {
  ria_mcc_digit_2 : Z;  (* uint8_t :4 *)
  ria_mcc_digit_1 : Z;  (* uint8_t :4 *)
  ria_mnc_digit_3 : Z;  (* uint8_t :4 *)
  ria_mcc_digit_3 : Z;  (* uint8_t :4 *)
  ria_mnc_digit_2 : Z;  (* uint8_t :4 *)
  ria_mnc_digit_1 : Z;  (* uint8_t :4 *)
  ria_lac : Z;  (* uint16_t *)
  ria_rac : Z  (* uint16_t *)
}.

Definition encode_rai_field (value : rai_field_t) (buf : Z) : enc Z :=
  encoded <- ret 0;;
  encoded <- put_bits value.(ria_mcc_digit_2) 4 buf encoded;;
  encoded <- put_bits value.(ria_mcc_digit_1) 4 buf encoded;;
  encoded <- put_bits value.(ria_mnc_digit_3) 4 buf encoded;;
  encoded <- put_bits value.(ria_mcc_digit_3) 4 buf encoded;;
  encoded <- put_bits value.(ria_mnc_digit_2) 4 buf encoded;;
  encoded <- put_bits value.(ria_mnc_digit_1) 4 buf encoded;;
  encoded <- put_bits value.(ria_lac) 16 buf encoded;;
  encoded <- put_bits value.(ria_rac) 16 buf encoded;;
  ret (encoded / CHAR_SIZE).

Definition decode_rai_field (m : bytes) (buf : Z) : option (Z * rai_field_t) :=
  run_dec (
  ria_mcc_digit_2 <- get_bits m buf 4;;
  ria_mcc_digit_1 <- get_bits m buf 4;;
  ria_mnc_digit_3 <- get_bits m buf 4;;
  ria_mcc_digit_3 <- get_bits m buf 4;;
  ria_mnc_digit_2 <- get_bits m buf 4;;
  ria_mnc_digit_1 <- get_bits m buf 4;;
  ria_lac <- get_bits m buf 16;;
  ria_rac <- get_bits m buf 16;;
  total_decoded <- get_total;;
  ret (total_decoded / CHAR_SIZE,
      Build_rai_field_t ria_mcc_digit_2 ria_mcc_digit_1 ria_mnc_digit_3 ria_mcc_digit_3
       ria_mnc_digit_2 ria_mnc_digit_1 ria_lac ria_rac)).

Definition layout_rai_field (v : rai_field_t) : list field :=
  [FBits v.(ria_mcc_digit_2) 4; FBits v.(ria_mcc_digit_1) 4; FBits v.(ria_mnc_digit_3) 4;
   FBits v.(ria_mcc_digit_3) 4; FBits v.(ria_mnc_digit_2) 4; FBits v.(ria_mnc_digit_1) 4;
   FBits v.(ria_lac) 16; FBits v.(ria_rac) 16].

Definition ok_rai_field (v : rai_field_t) : Prop :=
  True.

Definition count_rai_field (v : rai_field_t) : Z := 7.

Lemma layout_rai_field_size v : ok_rai_field v -> lsize (layout_rai_field v) = 56.
Proof. unfold ok_rai_field, layout_rai_field. solve_size. Qed.

Lemma encode_rai_field_emits v buf :
  ok_rai_field v -> emits buf 0 (layout_rai_field v) (encode_rai_field v buf) (56 / 8).
Proof. unfold ok_rai_field, layout_rai_field, encode_rai_field. solve_emits. Qed.

Lemma decode_rai_field_decodes m buf v :
  ok_rai_field v ->
  decodes m buf (layout_rai_field v) (decode_rai_field m buf) (count_rai_field v, v).
Proof. unfold ok_rai_field, layout_rai_field, decode_rai_field, count_rai_field. solve_decodes v. Qed.

#[global] Instance rai_field_format : WireFormat rai_field_t :=
  fixed_format layout_rai_field ok_rai_field count_rai_field encode_rai_field decode_rai_field 56 ltac:(reflexivity)
    layout_rai_field_size encode_rai_field_emits decode_rai_field_decodes.

End rai_field.

(** ** [sai_field] *)

Module sai_field.

Record sai_field_t := {
  sai_mcc_digit_2 : Z;  (* uint8_t :4 *)
  sai_mcc_digit_1 : Z;  (* uint8_t :4 *)
  sai_mnc_digit_3 : Z;  (* uint8_t :4 *)
  sai_mcc_digit_3 : Z;  (* uint8_t :4 *)
  sai_mnc_digit_2 : Z;  (* uint8_t :4 *)
  sai_mnc_digit_1 : Z;  (* uint8_t :4 *)
  sai_lac : Z;  (* uint16_t *)
  sai_sac : Z  (* uint16_t *)
}.

Definition encode_sai_field (value : sai_field_t) (buf : Z) : enc Z :=
  encoded <- ret 0;;
  encoded <- put_bits value.(sai_mcc_digit_2) 4 buf encoded;;
  encoded <- put_bits value.(sai_mcc_digit_1) 4 buf encoded;;
  encoded <- put_bits value.(sai_mnc_digit_3) 4 buf encoded;;
  encoded <- put_bits value.(sai_mcc_digit_3) 4 buf encoded;;
  encoded <- put_bits value.(sai_mnc_digit_2) 4 buf encoded;;
  encoded <- put_bits value.(sai_mnc_digit_1) 4 buf encoded;;
  encoded <- put_bits value.(sai_lac) 16 buf encoded;;
  encoded <- put_bits value.(sai_sac) 16 buf encoded;;
  ret (encoded / CHAR_SIZE).

Definition decode_sai_field (m : bytes) (buf : Z) : option (Z * sai_field_t) :=
  run_dec (
  sai_mcc_digit_2 <- get_bits m buf 4;;
  sai_mcc_digit_1 <- get_bits m buf 4;;
  sai_mnc_digit_3 <- get_bits m buf 4;;
  sai_mcc_digit_3 <- get_bits m buf 4;;
  sai_mnc_digit_2 <- get_bits m buf 4;;
  sai_mnc_digit_1 <- get_bits m buf 4;;
  sai_lac <- get_bits m buf 16;;
  sai_sac <- get_bits m buf 16;;
  total_decoded <- get_total;;
  ret (total_decoded / CHAR_SIZE,
      Build_sai_field_t sai_mcc_digit_2 sai_mcc_digit_1 sai_mnc_digit_3 sai_mcc_digit_3
       sai_mnc_digit_2 sai_mnc_digit_1 sai_lac sai_sac)).

Definition layout_sai_field (v : sai_field_t) : list field :=
  [FBits v.(sai_mcc_digit_2) 4; FBits v.(sai_mcc_digit_1) 4; FBits v.(sai_mnc_digit_3) 4;
   FBits v.(sai_mcc_digit_3) 4; FBits v.(sai_mnc_digit_2) 4; FBits v.(sai_mnc_digit_1) 4;
   FBits v.(sai_lac) 16; FBits v.(sai_sac) 16].

Definition ok_sai_field (v : sai_field_t) : Prop :=
  True.

Definition count_sai_field (v : sai_field_t) : Z := 7.

Lemma layout_sai_field_size v : ok_sai_field v -> lsize (layout_sai_field v) = 56.
Proof. unfold ok_sai_field, layout_sai_field. solve_size. Qed.

Lemma encode_sai_field_emits v buf :
  ok_sai_field v -> emits buf 0 (layout_sai_field v) (encode_sai_field v buf) (56 / 8).
Proof. unfold ok_sai_field, layout_sai_field, encode_sai_field. solve_emits. Qed.

Lemma decode_sai_field_decodes m buf v :
  ok_sai_field v ->
  decodes m buf (layout_sai_field v) (decode_sai_field m buf) (count_sai_field v, v).
Proof. unfold ok_sai_field, layout_sai_field, decode_sai_field, count_sai_field. solve_decodes v. Qed.

#[global] Instance sai_field_format : WireFormat sai_field_t :=
  fixed_format layout_sai_field ok_sai_field count_sai_field encode_sai_field decode_sai_field 56 ltac:(reflexivity)
    layout_sai_field_size encode_sai_field_emits decode_sai_field_decodes.

End sai_field.

(** ** [trgt_id_type_extnded_macro_ng_enb] *)

Module trgt_id_type_extnded_macro_ng_enb.

Record trgt_id_type_extnded_macro_ng_enb_t := {
  mcc_digit_2 : Z;  (* uint8_t :4 *)
  mcc_digit_1 : Z;  (* uint8_t :4 *)
  mnc_digit_3 : Z;  (* uint8_t :4 *)
  mcc_digit_3 : Z;  (* uint8_t :4 *)
  mnc_digit_2 : Z;  (* uint8_t :4 *)
  mnc_digit_1 : Z;  (* uint8_t :4 *)
  smenb : Z;  (* uint8_t :1 *)
  spare : Z;  (* uint8_t :2 *)
  extnded_macro_ng_enb_id : Z;  (* uint16_t *)
  fivegs_tac : Z  (* uint32_t :24 *)
}.

Definition encode_trgt_id_type_extnded_macro_ng_enb (value : trgt_id_type_extnded_macro_ng_enb_t) (buf : Z) : enc Z :=
  encoded <- ret 0;;
  encoded <- put_bits value.(mcc_digit_2) 4 buf encoded;;
  encoded <- put_bits value.(mcc_digit_1) 4 buf encoded;;
  encoded <- put_bits value.(mnc_digit_3) 4 buf encoded;;
  encoded <- put_bits value.(mcc_digit_3) 4 buf encoded;;
  encoded <- put_bits value.(mnc_digit_2) 4 buf encoded;;
  encoded <- put_bits value.(mnc_digit_1) 4 buf encoded;;
  encoded <- put_bits value.(smenb) 1 buf encoded;;
  encoded <- put_bits value.(spare) 2 buf encoded;;
  encoded <- put_bits value.(extnded_macro_ng_enb_id) 16 buf encoded;;
  encoded <- put_bits value.(fivegs_tac) 24 buf encoded;;
  ret (encoded / CHAR_SIZE).

Definition decode_trgt_id_type_extnded_macro_ng_enb (m : bytes) (buf : Z) : option (Z * trgt_id_type_extnded_macro_ng_enb_t) :=
  run_dec (
  mcc_digit_2 <- get_bits m buf 4;;
  mcc_digit_1 <- get_bits m buf 4;;
  mnc_digit_3 <- get_bits m buf 4;;
  mcc_digit_3 <- get_bits m buf 4;;
  mnc_digit_2 <- get_bits m buf 4;;
  mnc_digit_1 <- get_bits m buf 4;;
  smenb <- get_bits m buf 1;;
  spare <- get_bits m buf 2;;
  extnded_macro_ng_enb_id <- get_bits m buf 16;;
  fivegs_tac <- get_bits m buf 24;;
  total_decoded <- get_total;;
  ret (total_decoded,
      Build_trgt_id_type_extnded_macro_ng_enb_t mcc_digit_2 mcc_digit_1 mnc_digit_3
       mcc_digit_3 mnc_digit_2 mnc_digit_1 smenb spare extnded_macro_ng_enb_id fivegs_tac)).

Definition layout_trgt_id_type_extnded_macro_ng_enb (v : trgt_id_type_extnded_macro_ng_enb_t) : list field :=
  [FBits v.(mcc_digit_2) 4; FBits v.(mcc_digit_1) 4; FBits v.(mnc_digit_3) 4;
   FBits v.(mcc_digit_3) 4; FBits v.(mnc_digit_2) 4; FBits v.(mnc_digit_1) 4;
   FBits v.(smenb) 1; FBits v.(spare) 2; FBits v.(extnded_macro_ng_enb_id) 16;
   FBits v.(fivegs_tac) 24].

Definition ok_trgt_id_type_extnded_macro_ng_enb (v : trgt_id_type_extnded_macro_ng_enb_t) : Prop :=
  True.

Definition count_trgt_id_type_extnded_macro_ng_enb (v : trgt_id_type_extnded_macro_ng_enb_t) : Z := 67.

Lemma layout_trgt_id_type_extnded_macro_ng_enb_size v : ok_trgt_id_type_extnded_macro_ng_enb v -> lsize (layout_trgt_id_type_extnded_macro_ng_enb v) = 67.
Proof. unfold ok_trgt_id_type_extnded_macro_ng_enb, layout_trgt_id_type_extnded_macro_ng_enb. solve_size. Qed.

Lemma encode_trgt_id_type_extnded_macro_ng_enb_emits v buf :
  ok_trgt_id_type_extnded_macro_ng_enb v -> emits buf 0 (layout_trgt_id_type_extnded_macro_ng_enb v) (encode_trgt_id_type_extnded_macro_ng_enb v buf) (67 / 8).
Proof. unfold ok_trgt_id_type_extnded_macro_ng_enb, layout_trgt_id_type_extnded_macro_ng_enb, encode_trgt_id_type_extnded_macro_ng_enb. solve_emits. Qed.

Lemma decode_trgt_id_type_extnded_macro_ng_enb_decodes m buf v :
  ok_trgt_id_type_extnded_macro_ng_enb v ->
  decodes m buf (layout_trgt_id_type_extnded_macro_ng_enb v) (decode_trgt_id_type_extnded_macro_ng_enb m buf) (count_trgt_id_type_extnded_macro_ng_enb v, v).
Proof. unfold ok_trgt_id_type_extnded_macro_ng_enb, layout_trgt_id_type_extnded_macro_ng_enb, decode_trgt_id_type_extnded_macro_ng_enb, count_trgt_id_type_extnded_macro_ng_enb. solve_decodes v. Qed.

#[global] Instance trgt_id_type_extnded_macro_ng_enb_format : WireFormat trgt_id_type_extnded_macro_ng_enb_t :=
  fixed_format layout_trgt_id_type_extnded_macro_ng_enb ok_trgt_id_type_extnded_macro_ng_enb count_trgt_id_type_extnded_macro_ng_enb encode_trgt_id_type_extnded_macro_ng_enb decode_trgt_id_type_extnded_macro_ng_enb 67 ltac:(reflexivity)
    layout_trgt_id_type_extnded_macro_ng_enb_size encode_trgt_id_type_extnded_macro_ng_enb_emits decode_trgt_id_type_extnded_macro_ng_enb_decodes.

End trgt_id_type_extnded_macro_ng_enb.

(** ** [tai_field] *)

Module tai_field.

Record tai_field_t := {
  tai_mcc_digit_2 : Z;  (* uint8_t :4 *)
  tai_mcc_digit_1 : Z;  (* uint8_t :4 *)
  tai_mnc_digit_3 : Z;  (* uint8_t :4 *)
  tai_mcc_digit_3 : Z;  (* uint8_t :4 *)
  tai_mnc_digit_2 : Z;  (* uint8_t :4 *)
  tai_mnc_digit_1 : Z;  (* uint8_t :4 *)
  tai_tac : Z  (* uint16_t *)
}.

Definition encode_tai_field (value : tai_field_t) (buf : Z) : enc Z :=
  encoded <- ret 0;;
  encoded <- put_bits value.(tai_mcc_digit_2) 4 buf encoded;;
  encoded <- put_bits value.(tai_mcc_digit_1) 4 buf encoded;;
  encoded <- put_bits value.(tai_mnc_digit_3) 4 buf encoded;;
  encoded <- put_bits value.(tai_mcc_digit_3) 4 buf encoded;;
  encoded <- put_bits value.(tai_mnc_digit_2) 4 buf encoded;;
  encoded <- put_bits value.(tai_mnc_digit_1) 4 buf encoded;;
  encoded <- put_bits value.(tai_tac) 16 buf encoded;;
  ret (encoded / CHAR_SIZE).

Definition decode_tai_field (m : bytes) (buf : Z) : option (Z * tai_field_t) :=
  run_dec (
  tai_mcc_digit_2 <- get_bits m buf 4;;
  tai_mcc_digit_1 <- get_bits m buf 4;;
  tai_mnc_digit_3 <- get_bits m buf 4;;
  tai_mcc_digit_3 <- get_bits m buf 4;;
  tai_mnc_digit_2 <- get_bits m buf 4;;
  tai_mnc_digit_1 <- get_bits m buf 4;;
  tai_tac <- get_bits m buf 16;;
  total_decoded <- get_total;;
  ret (total_decoded / CHAR_SIZE,
      Build_tai_field_t tai_mcc_digit_2 tai_mcc_digit_1 tai_mnc_digit_3 tai_mcc_digit_3
       tai_mnc_digit_2 tai_mnc_digit_1 tai_tac)).

Definition layout_tai_field (v : tai_field_t) : list field :=
  [FBits v.(tai_mcc_digit_2) 4; FBits v.(tai_mcc_digit_1) 4; FBits v.(tai_mnc_digit_3) 4;
   FBits v.(tai_mcc_digit_3) 4; FBits v.(tai_mnc_digit_2) 4; FBits v.(tai_mnc_digit_1) 4;
   FBits v.(tai_tac) 16].

Definition ok_tai_field (v : tai_field_t) : Prop :=
  True.

Definition count_tai_field (v : tai_field_t) : Z := 5.

Lemma layout_tai_field_size v : ok_tai_field v -> lsize (layout_tai_field v) = 40.
Proof. unfold ok_tai_field, layout_tai_field. solve_size. Qed.

Lemma encode_tai_field_emits v buf :
  ok_tai_field v -> emits buf 0 (layout_tai_field v) (encode_tai_field v buf) (40 / 8).
Proof. unfold ok_tai_field, layout_tai_field, encode_tai_field. solve_emits. Qed.

Lemma decode_tai_field_decodes m buf v :
  ok_tai_field v ->
  decodes m buf (layout_tai_field v) (decode_tai_field m buf) (count_tai_field v, v).
Proof. unfold ok_tai_field, layout_tai_field, decode_tai_field, count_tai_field. solve_decodes v. Qed.

#[global] Instance tai_field_format : WireFormat tai_field_t :=
  fixed_format layout_tai_field ok_tai_field count_tai_field encode_tai_field decode_tai_field 40 ltac:(reflexivity)
    layout_tai_field_size encode_tai_field_emits decode_tai_field_decodes.

End tai_field.

(** ** [bss_container] *)

Module bss_container.

Record bss_container_t := {
  spare : Z;  (* uint8_t :4 *)
  phx : Z;  (* uint8_t :1 *)
  sapi : Z;  (* uint8_t :1 *)
  rp : Z;  (* uint8_t :1 *)
  pfi : Z;  (* uint8_t :1 *)
  sapi2 : Z;  (* uint8_t :4 *)
  spare2 : Z;  (* uint8_t :1 *)
  radio_priority : Z;  (* uint8_t :3 *)
  xid_parms_len : Z;  (* uint8_t *)
  xid_parameters : Z  (* uint8_t *)
}.

Definition encode_bss_container (value : bss_container_t) (buf : Z) : enc Z :=
  encoded <- ret 0;;
  encoded <- put_bits value.(spare) 4 buf encoded;;
  encoded <- put_bits value.(phx) 1 buf encoded;;
  encoded <- put_bits value.(sapi) 1 buf encoded;;
  encoded <- put_bits value.(rp) 1 buf encoded;;
  encoded <- put_bits value.(pfi) 1 buf encoded;;
  encoded <- put_bits value.(sapi2) 4 buf encoded;;
  encoded <- put_bits value.(spare2) 1 buf encoded;;
  encoded <- put_bits value.(radio_priority) 3 buf encoded;;
  encoded <- put_bits value.(xid_parms_len) 8 buf encoded;;
  encoded <- put_bits value.(xid_parameters) 8 buf encoded;;
  ret (encoded / CHAR_SIZE).

Definition decode_bss_container (m : bytes) (buf : Z) : option (Z * bss_container_t) :=
  run_dec (
  spare <- get_bits m buf 4;;
  phx <- get_bits m buf 1;;
  sapi <- get_bits m buf 1;;
  rp <- get_bits m buf 1;;
  pfi <- get_bits m buf 1;;
  sapi2 <- get_bits m buf 4;;
  spare2 <- get_bits m buf 1;;
  radio_priority <- get_bits m buf 3;;
  xid_parms_len <- get_bits m buf 8;;
  xid_parameters <- get_bits m buf 8;;
  total_decoded <- get_total;;
  ret (total_decoded,
      Build_bss_container_t spare phx sapi rp pfi sapi2 spare2 radio_priority xid_parms_len
       xid_parameters)).

Definition layout_bss_container (v : bss_container_t) : list field :=
  [FBits v.(spare) 4; FBits v.(phx) 1; FBits v.(sapi) 1; FBits v.(rp) 1; FBits v.(pfi) 1;
   FBits v.(sapi2) 4; FBits v.(spare2) 1; FBits v.(radio_priority) 3;
   FBits v.(xid_parms_len) 8; FBits v.(xid_parameters) 8].

Definition ok_bss_container (v : bss_container_t) : Prop :=
  True.

Definition count_bss_container (v : bss_container_t) : Z := 32.

Lemma layout_bss_container_size v : ok_bss_container v -> lsize (layout_bss_container v) = 32.
Proof. unfold ok_bss_container, layout_bss_container. solve_size. Qed.

Lemma encode_bss_container_emits v buf :
  ok_bss_container v -> emits buf 0 (layout_bss_container v) (encode_bss_container v buf) (32 / 8).
Proof. unfold ok_bss_container, layout_bss_container, encode_bss_container. solve_emits. Qed.

Lemma decode_bss_container_decodes m buf v :
  ok_bss_container v ->
  decodes m buf (layout_bss_container v) (decode_bss_container m buf) (count_bss_container v, v).
Proof. unfold ok_bss_container, layout_bss_container, decode_bss_container, count_bss_container. solve_decodes v. Qed.

#[global] Instance bss_container_format : WireFormat bss_container_t :=
  fixed_format layout_bss_container ok_bss_container count_bss_container encode_bss_container decode_bss_container 32 ltac:(reflexivity)
    layout_bss_container_size encode_bss_container_emits decode_bss_container_decodes.

End bss_container.

(** ** [trgt_id_type_gnode_id] *)

Module trgt_id_type_gnode_id.

Record trgt_id_type_gnode_id_t := {
  mcc_digit_2 : Z;  (* uint8_t :4 *)
  mcc_digit_1 : Z;  (* uint8_t :4 *)
  mnc_digit_3 : Z;  (* uint8_t :4 *)
  mcc_digit_3 : Z;  (* uint8_t :4 *)
  mnc_digit_2 : Z;  (* uint8_t :4 *)
  mnc_digit_1 : Z;  (* uint8_t :4 *)
  spare : Z;  (* uint8_t :2 *)
  gnb_id_len : Z;  (* uint8_t :6 *)
  gnodeb_id : Z;  (* uint32_t *)
  fivegs_tac : Z  (* uint32_t :24 *)
}.

Definition encode_trgt_id_type_gnode_id (value : trgt_id_type_gnode_id_t) (buf : Z) : enc Z :=
  encoded <- ret 0;;
  encoded <- put_bits value.(mcc_digit_2) 4 buf encoded;;
  encoded <- put_bits value.(mcc_digit_1) 4 buf encoded;;
  encoded <- put_bits value.(mnc_digit_3) 4 buf encoded;;
  encoded <- put_bits value.(mcc_digit_3) 4 buf encoded;;
  encoded <- put_bits value.(mnc_digit_2) 4 buf encoded;;
  encoded <- put_bits value.(mnc_digit_1) 4 buf encoded;;
  encoded <- put_bits value.(spare) 2 buf encoded;;
  encoded <- put_bits value.(gnb_id_len) 6 buf encoded;;
  encoded <- put_bits value.(gnodeb_id) 32 buf encoded;;
  encoded <- put_bits value.(fivegs_tac) 24 buf encoded;;
  ret (encoded / CHAR_SIZE).

Definition decode_trgt_id_type_gnode_id (m : bytes) (buf : Z) : option (Z * trgt_id_type_gnode_id_t) :=
  run_dec (
  mcc_digit_2 <- get_bits m buf 4;;
  mcc_digit_1 <- get_bits m buf 4;;
  mnc_digit_3 <- get_bits m buf 4;;
  mcc_digit_3 <- get_bits m buf 4;;
  mnc_digit_2 <- get_bits m buf 4;;
  mnc_digit_1 <- get_bits m buf 4;;
  spare <- get_bits m buf 2;;
  gnb_id_len <- get_bits m buf 6;;
  gnodeb_id <- get_bits m buf 32;;
  fivegs_tac <- get_bits m buf 24;;
  total_decoded <- get_total;;
  ret (total_decoded,
      Build_trgt_id_type_gnode_id_t mcc_digit_2 mcc_digit_1 mnc_digit_3 mcc_digit_3
       mnc_digit_2 mnc_digit_1 spare gnb_id_len gnodeb_id fivegs_tac)).

Definition layout_trgt_id_type_gnode_id (v : trgt_id_type_gnode_id_t) : list field :=
  [FBits v.(mcc_digit_2) 4; FBits v.(mcc_digit_1) 4; FBits v.(mnc_digit_3) 4;
   FBits v.(mcc_digit_3) 4; FBits v.(mnc_digit_2) 4; FBits v.(mnc_digit_1) 4;
   FBits v.(spare) 2; FBits v.(gnb_id_len) 6; FBits v.(gnodeb_id) 32;
   FBits v.(fivegs_tac) 24].

Definition ok_trgt_id_type_gnode_id (v : trgt_id_type_gnode_id_t) : Prop :=
  True.

Definition count_trgt_id_type_gnode_id (v : trgt_id_type_gnode_id_t) : Z := 88.

Lemma layout_trgt_id_type_gnode_id_size v : ok_trgt_id_type_gnode_id v -> lsize (layout_trgt_id_type_gnode_id v) = 88.
Proof. unfold ok_trgt_id_type_gnode_id, layout_trgt_id_type_gnode_id. solve_size. Qed.

Lemma encode_trgt_id_type_gnode_id_emits v buf :
  ok_trgt_id_type_gnode_id v -> emits buf 0 (layout_trgt_id_type_gnode_id v) (encode_trgt_id_type_gnode_id v buf) (88 / 8).
Proof. unfold ok_trgt_id_type_gnode_id, layout_trgt_id_type_gnode_id, encode_trgt_id_type_gnode_id. solve_emits. Qed.

Lemma decode_trgt_id_type_gnode_id_decodes m buf v :
  ok_trgt_id_type_gnode_id v ->
  decodes m buf (layout_trgt_id_type_gnode_id v) (decode_trgt_id_type_gnode_id m buf) (count_trgt_id_type_gnode_id v, v).
Proof. unfold ok_trgt_id_type_gnode_id, layout_trgt_id_type_gnode_id, decode_trgt_id_type_gnode_id, count_trgt_id_type_gnode_id. solve_decodes v. Qed.

#[global] Instance trgt_id_type_gnode_id_format : WireFormat trgt_id_type_gnode_id_t :=
  fixed_format layout_trgt_id_type_gnode_id ok_trgt_id_type_gnode_id count_trgt_id_type_gnode_id encode_trgt_id_type_gnode_id decode_trgt_id_type_gnode_id 88 ltac:(reflexivity)
    layout_trgt_id_type_gnode_id_size encode_trgt_id_type_gnode_id_emits decode_trgt_id_type_gnode_id_decodes.

End trgt_id_type_gnode_id.

(** ** [trgt_id_type_extnded_macro_enb] *)

Module trgt_id_type_extnded_macro_enb.

Record trgt_id_type_extnded_macro_enb_t := {
  mcc_digit_2 : Z;  (* uint8_t :4 *)
  mcc_digit_1 : Z;  (* uint8_t :4 *)
  mnc_digit_3 : Z;  (* uint8_t :4 *)
  mcc_digit_3 : Z;  (* uint8_t :4 *)
  mnc_digit_2 : Z;  (* uint8_t :4 *)
  mnc_digit_1 : Z;  (* uint8_t :4 *)
  smenb : Z;  (* uint8_t :1 *)
  spare : Z;  (* uint8_t :2 *)
  extnded_macro_enb_id_field2 : Z;  (* uint16_t *)
  tac : Z  (* uint16_t *)
}.

Definition encode_trgt_id_type_extnded_macro_enb (value : trgt_id_type_extnded_macro_enb_t) (buf : Z) : enc Z :=
  encoded <- ret 0;;
  encoded <- put_bits value.(mcc_digit_2) 4 buf encoded;;
  encoded <- put_bits value.(mcc_digit_1) 4 buf encoded;;
  encoded <- put_bits value.(mnc_digit_3) 4 buf encoded;;
  encoded <- put_bits value.(mcc_digit_3) 4 buf encoded;;
  encoded <- put_bits value.(mnc_digit_2) 4 buf encoded;;
  encoded <- put_bits value.(mnc_digit_1) 4 buf encoded;;
  encoded <- put_bits value.(smenb) 1 buf encoded;;
  encoded <- put_bits value.(spare) 2 buf encoded;;
  encoded <- put_bits value.(extnded_macro_enb_id_field2) 16 buf encoded;;
  encoded <- put_bits value.(tac) 16 buf encoded;;
  ret (encoded / CHAR_SIZE).

Definition decode_trgt_id_type_extnded_macro_enb (m : bytes) (buf : Z) : option (Z * trgt_id_type_extnded_macro_enb_t) :=
  run_dec (
  mcc_digit_2 <- get_bits m buf 4;;
  mcc_digit_1 <- get_bits m buf 4;;
  mnc_digit_3 <- get_bits m buf 4;;
  mcc_digit_3 <- get_bits m buf 4;;
  mnc_digit_2 <- get_bits m buf 4;;
  mnc_digit_1 <- get_bits m buf 4;;
  smenb <- get_bits m buf 1;;
  spare <- get_bits m buf 2;;
  extnded_macro_enb_id_field2 <- get_bits m buf 16;;
  tac <- get_bits m buf 16;;
  total_decoded <- get_total;;
  ret (total_decoded,
      Build_trgt_id_type_extnded_macro_enb_t mcc_digit_2 mcc_digit_1 mnc_digit_3 mcc_digit_3
       mnc_digit_2 mnc_digit_1 smenb spare extnded_macro_enb_id_field2 tac)).

Definition layout_trgt_id_type_extnded_macro_enb (v : trgt_id_type_extnded_macro_enb_t) : list field :=
  [FBits v.(mcc_digit_2) 4; FBits v.(mcc_digit_1) 4; FBits v.(mnc_digit_3) 4;
   FBits v.(mcc_digit_3) 4; FBits v.(mnc_digit_2) 4; FBits v.(mnc_digit_1) 4;
   FBits v.(smenb) 1; FBits v.(spare) 2; FBits v.(extnded_macro_enb_id_field2) 16;
   FBits v.(tac) 16].

Definition ok_trgt_id_type_extnded_macro_enb (v : trgt_id_type_extnded_macro_enb_t) : Prop :=
  True.

Definition count_trgt_id_type_extnded_macro_enb (v : trgt_id_type_extnded_macro_enb_t) : Z := 59.

Lemma layout_trgt_id_type_extnded_macro_enb_size v : ok_trgt_id_type_extnded_macro_enb v -> lsize (layout_trgt_id_type_extnded_macro_enb v) = 59.
Proof. unfold ok_trgt_id_type_extnded_macro_enb, layout_trgt_id_type_extnded_macro_enb. solve_size. Qed.

Lemma encode_trgt_id_type_extnded_macro_enb_emits v buf :
  ok_trgt_id_type_extnded_macro_enb v -> emits buf 0 (layout_trgt_id_type_extnded_macro_enb v) (encode_trgt_id_type_extnded_macro_enb v buf) (59 / 8).
Proof. unfold ok_trgt_id_type_extnded_macro_enb, layout_trgt_id_type_extnded_macro_enb, encode_trgt_id_type_extnded_macro_enb. solve_emits. Qed.

Lemma decode_trgt_id_type_extnded_macro_enb_decodes m buf v :
  ok_trgt_id_type_extnded_macro_enb v ->
  decodes m buf (layout_trgt_id_type_extnded_macro_enb v) (decode_trgt_id_type_extnded_macro_enb m buf) (count_trgt_id_type_extnded_macro_enb v, v).
Proof. unfold ok_trgt_id_type_extnded_macro_enb, layout_trgt_id_type_extnded_macro_enb, decode_trgt_id_type_extnded_macro_enb, count_trgt_id_type_extnded_macro_enb. solve_decodes v. Qed.

#[global] Instance trgt_id_type_extnded_macro_enb_format : WireFormat trgt_id_type_extnded_macro_enb_t :=
  fixed_format layout_trgt_id_type_extnded_macro_enb ok_trgt_id_type_extnded_macro_enb count_trgt_id_type_extnded_macro_enb encode_trgt_id_type_extnded_macro_enb decode_trgt_id_type_extnded_macro_enb 59 ltac:(reflexivity)
    layout_trgt_id_type_extnded_macro_enb_size encode_trgt_id_type_extnded_macro_enb_emits decode_trgt_id_type_extnded_macro_enb_decodes.

End trgt_id_type_extnded_macro_enb.

(** ** [ecgi_field] *)

Module ecgi_field.

Record ecgi_field_t := {
  ecgi_mcc_digit_2 : Z;  (* uint8_t :4 *)
  ecgi_mcc_digit_1 : Z;  (* uint8_t :4 *)
  ecgi_mnc_digit_3 : Z;  (* uint8_t :4 *)
  ecgi_mcc_digit_3 : Z;  (* uint8_t :4 *)
  ecgi_mnc_digit_2 : Z;  (* uint8_t :4 *)
  ecgi_mnc_digit_1 : Z;  (* uint8_t :4 *)
  ecgi_spare : Z;  (* uint8_t :4 *)
  eci : Z  (* uint32_t :28 *)
}.

Definition encode_ecgi_field (value : ecgi_field_t) (buf : Z) : enc Z :=
  encoded <- ret 0;;
  encoded <- put_bits value.(ecgi_mcc_digit_2) 4 buf encoded;;
  encoded <- put_bits value.(ecgi_mcc_digit_1) 4 buf encoded;;
  encoded <- put_bits value.(ecgi_mnc_digit_3) 4 buf encoded;;
  encoded <- put_bits value.(ecgi_mcc_digit_3) 4 buf encoded;;
  encoded <- put_bits value.(ecgi_mnc_digit_2) 4 buf encoded;;
  encoded <- put_bits value.(ecgi_mnc_digit_1) 4 buf encoded;;
  encoded <- put_bits value.(ecgi_spare) 4 buf encoded;;
  encoded <- put_bits value.(eci) 28 buf encoded;;
  ret (encoded / CHAR_SIZE).

Definition decode_ecgi_field (m : bytes) (buf : Z) : option (Z * ecgi_field_t) :=
  run_dec (
  ecgi_mcc_digit_2 <- get_bits m buf 4;;
  ecgi_mcc_digit_1 <- get_bits m buf 4;;
  ecgi_mnc_digit_3 <- get_bits m buf 4;;
  ecgi_mcc_digit_3 <- get_bits m buf 4;;
  ecgi_mnc_digit_2 <- get_bits m buf 4;;
  ecgi_mnc_digit_1 <- get_bits m buf 4;;
  ecgi_spare <- get_bits m buf 4;;
  eci <- get_bits m buf 28;;
  total_decoded <- get_total;;
  ret (total_decoded / CHAR_SIZE,
      Build_ecgi_field_t ecgi_mcc_digit_2 ecgi_mcc_digit_1 ecgi_mnc_digit_3 ecgi_mcc_digit_3
       ecgi_mnc_digit_2 ecgi_mnc_digit_1 ecgi_spare eci)).

Definition layout_ecgi_field (v : ecgi_field_t) : list field :=
  [FBits v.(ecgi_mcc_digit_2) 4; FBits v.(ecgi_mcc_digit_1) 4; FBits v.(ecgi_mnc_digit_3) 4;
   FBits v.(ecgi_mcc_digit_3) 4; FBits v.(ecgi_mnc_digit_2) 4;
   FBits v.(ecgi_mnc_digit_1) 4; FBits v.(ecgi_spare) 4; FBits v.(eci) 28].

Definition ok_ecgi_field (v : ecgi_field_t) : Prop :=
  True.

Definition count_ecgi_field (v : ecgi_field_t) : Z := 7.

Lemma layout_ecgi_field_size v : ok_ecgi_field v -> lsize (layout_ecgi_field v) = 56.
Proof. unfold ok_ecgi_field, layout_ecgi_field. solve_size. Qed.

Lemma encode_ecgi_field_emits v buf :
  ok_ecgi_field v -> emits buf 0 (layout_ecgi_field v) (encode_ecgi_field v buf) (56 / 8).
Proof. unfold ok_ecgi_field, layout_ecgi_field, encode_ecgi_field. solve_emits. Qed.

Lemma decode_ecgi_field_decodes m buf v :
  ok_ecgi_field v ->
  decodes m buf (layout_ecgi_field v) (decode_ecgi_field m buf) (count_ecgi_field v, v).
Proof. unfold ok_ecgi_field, layout_ecgi_field, decode_ecgi_field, count_ecgi_field. solve_decodes v. Qed.

#[global] Instance ecgi_field_format : WireFormat ecgi_field_t :=
  fixed_format layout_ecgi_field ok_ecgi_field count_ecgi_field encode_ecgi_field decode_ecgi_field 56 ltac:(reflexivity)
    layout_ecgi_field_size encode_ecgi_field_emits decode_ecgi_field_decodes.

End ecgi_field.

(** ** [auth_triplet] *)

Module auth_triplet.

Record auth_triplet_t := {
  rand : list Z;  (* uint8_t[RAND_LEN] *)
  sres : Z;  (* uint32_t *)
  kc : Z  (* uint64_t *)
}.

Definition encode_auth_triplet (value : auth_triplet_t) (buf : Z) : enc Z :=
  encoded <- ret 0;;
  encoded <- put_bytes value.(rand) RAND_LEN buf encoded;;
  encoded <- put_bits value.(sres) 32 buf encoded;;
  encoded <- put_bits value.(kc) 64 buf encoded;;
  ret (encoded / CHAR_SIZE).

Definition decode_auth_triplet (m : bytes) (buf : Z) : option (Z * auth_triplet_t) :=
  run_dec (
  rand <- get_bytes m buf RAND_LEN;;
  sres <- get_bits m buf 32;;
  kc <- get_bits m buf 64;;
  total_decoded <- get_total;;
  ret (total_decoded,
      Build_auth_triplet_t rand sres kc)).

Definition layout_auth_triplet (v : auth_triplet_t) : list field :=
  [FCopy v.(rand); FBits v.(sres) 32; FBits v.(kc) 64].

Definition ok_auth_triplet (v : auth_triplet_t) : Prop :=
  Z.of_nat (length v.(rand)) = RAND_LEN.

Definition count_auth_triplet (v : auth_triplet_t) : Z := 224.

Lemma layout_auth_triplet_size v : ok_auth_triplet v -> lsize (layout_auth_triplet v) = 224.
Proof. unfold ok_auth_triplet, layout_auth_triplet. solve_size. Qed.

Lemma encode_auth_triplet_emits v buf :
  ok_auth_triplet v -> emits buf 0 (layout_auth_triplet v) (encode_auth_triplet v buf) (224 / 8).
Proof. unfold ok_auth_triplet, layout_auth_triplet, encode_auth_triplet. solve_emits. Qed.

Lemma decode_auth_triplet_decodes m buf v :
  ok_auth_triplet v ->
  decodes m buf (layout_auth_triplet v) (decode_auth_triplet m buf) (count_auth_triplet v, v).
Proof. unfold ok_auth_triplet, layout_auth_triplet, decode_auth_triplet, count_auth_triplet. solve_decodes v. Qed.

#[global] Instance auth_triplet_format : WireFormat auth_triplet_t :=
  fixed_format layout_auth_triplet ok_auth_triplet count_auth_triplet encode_auth_triplet decode_auth_triplet 224 ltac:(reflexivity)
    layout_auth_triplet_size encode_auth_triplet_emits decode_auth_triplet_decodes.

End auth_triplet.

(** ** [trgt_id_type_macro_enb] *)

Module trgt_id_type_macro_enb.

Record trgt_id_type_macro_enb_t := {
  mcc_digit_2 : Z;  (* uint8_t :4 *)
  mcc_digit_1 : Z;  (* uint8_t :4 *)
  mnc_digit_3 : Z;  (* uint8_t :4 *)
  mcc_digit_3 : Z;  (* uint8_t :4 *)
  mnc_digit_2 : Z;  (* uint8_t :4 *)
  mnc_digit_1 : Z;  (* uint8_t :4 *)
  spare : Z;  (* uint8_t :4 *)
  macro_enb_id_field2 : Z;  (* uint16_t *)
  tac : Z  (* uint16_t *)
}.

Definition encode_trgt_id_type_macro_enb (value : trgt_id_type_macro_enb_t) (buf : Z) : enc Z :=
  encoded <- ret 0;;
  encoded <- put_bits value.(mcc_digit_2) 4 buf encoded;;
  encoded <- put_bits value.(mcc_digit_1) 4 buf encoded;;
  encoded <- put_bits value.(mnc_digit_3) 4 buf encoded;;
  encoded <- put_bits value.(mcc_digit_3) 4 buf encoded;;
  encoded <- put_bits value.(mnc_digit_2) 4 buf encoded;;
  encoded <- put_bits value.(mnc_digit_1) 4 buf encoded;;
  encoded <- put_bits value.(spare) 4 buf encoded;;
  encoded <- put_bits value.(macro_enb_id_field2) 16 buf encoded;;
  encoded <- put_bits value.(tac) 16 buf encoded;;
  ret (encoded / CHAR_SIZE).

Definition decode_trgt_id_type_macro_enb (m : bytes) (buf : Z) : option (Z * trgt_id_type_macro_enb_t) :=
  run_dec (
  mcc_digit_2 <- get_bits m buf 4;;
  mcc_digit_1 <- get_bits m buf 4;;
  mnc_digit_3 <- get_bits m buf 4;;
  mcc_digit_3 <- get_bits m buf 4;;
  mnc_digit_2 <- get_bits m buf 4;;
  mnc_digit_1 <- get_bits m buf 4;;
  spare <- get_bits m buf 4;;
  macro_enb_id_field2 <- get_bits m buf 16;;
  tac <- get_bits m buf 16;;
  total_decoded <- get_total;;
  ret (total_decoded,
      Build_trgt_id_type_macro_enb_t mcc_digit_2 mcc_digit_1 mnc_digit_3 mcc_digit_3
       mnc_digit_2 mnc_digit_1 spare macro_enb_id_field2 tac)).

Definition layout_trgt_id_type_macro_enb (v : trgt_id_type_macro_enb_t) : list field :=
  [FBits v.(mcc_digit_2) 4; FBits v.(mcc_digit_1) 4; FBits v.(mnc_digit_3) 4;
   FBits v.(mcc_digit_3) 4; FBits v.(mnc_digit_2) 4; FBits v.(mnc_digit_1) 4;
   FBits v.(spare) 4; FBits v.(macro_enb_id_field2) 16; FBits v.(tac) 16].

Definition ok_trgt_id_type_macro_enb (v : trgt_id_type_macro_enb_t) : Prop :=
  True.

Definition count_trgt_id_type_macro_enb (v : trgt_id_type_macro_enb_t) : Z := 60.

Lemma layout_trgt_id_type_macro_enb_size v : ok_trgt_id_type_macro_enb v -> lsize (layout_trgt_id_type_macro_enb v) = 60.
Proof. unfold ok_trgt_id_type_macro_enb, layout_trgt_id_type_macro_enb. solve_size. Qed.

Lemma encode_trgt_id_type_macro_enb_emits v buf :
  ok_trgt_id_type_macro_enb v -> emits buf 0 (layout_trgt_id_type_macro_enb v) (encode_trgt_id_type_macro_enb v buf) (60 / 8).
Proof. unfold ok_trgt_id_type_macro_enb, layout_trgt_id_type_macro_enb, encode_trgt_id_type_macro_enb. solve_emits. Qed.

Lemma decode_trgt_id_type_macro_enb_decodes m buf v :
  ok_trgt_id_type_macro_enb v ->
  decodes m buf (layout_trgt_id_type_macro_enb v) (decode_trgt_id_type_macro_enb m buf) (count_trgt_id_type_macro_enb v, v).
Proof. unfold ok_trgt_id_type_macro_enb, layout_trgt_id_type_macro_enb, decode_trgt_id_type_macro_enb, count_trgt_id_type_macro_enb. solve_decodes v. Qed.

#[global] Instance trgt_id_type_macro_enb_format : WireFormat trgt_id_type_macro_enb_t :=
  fixed_format layout_trgt_id_type_macro_enb ok_trgt_id_type_macro_enb count_trgt_id_type_macro_enb encode_trgt_id_type_macro_enb decode_trgt_id_type_macro_enb 60 ltac:(reflexivity)
    layout_trgt_id_type_macro_enb_size encode_trgt_id_type_macro_enb_emits decode_trgt_id_type_macro_enb_decodes.

End trgt_id_type_macro_enb.

(** ** [extnded_macro_enb_id_fld] *)

Module extnded_macro_enb_id_fld.

Record extnded_macro_enb_id_fld_t := {
  emenbid_mcc_digit_2 : Z;  (* uint8_t :4 *)
  emenbid_mcc_digit_1 : Z;  (* uint8_t :4 *)
  emenbid_mnc_digit_3 : Z;  (* uint8_t :4 *)
  emenbid_mcc_digit_3 : Z;  (* uint8_t :4 *)
  emenbid_mnc_digit_2 : Z;  (* uint8_t :4 *)
  emenbid_mnc_digit_1 : Z;  (* uint8_t :4 *)
  emenbid_smenb : Z;  (* uint8_t :1 *)
  emenbid_spare : Z;  (* uint8_t :2 *)
  emenbid_extnded_macro_enb_id : Z;  (* uint8_t :5 *)
  emenbid_extnded_macro_enb_id2 : Z  (* uint16_t *)
}.

Definition encode_extnded_macro_enb_id_fld (value : extnded_macro_enb_id_fld_t) (buf : Z) : enc Z :=
  encoded <- ret 0;;
  encoded <- put_bits value.(emenbid_mcc_digit_2) 4 buf encoded;;
  encoded <- put_bits value.(emenbid_mcc_digit_1) 4 buf encoded;;
  encoded <- put_bits value.(emenbid_mnc_digit_3) 4 buf encoded;;
  encoded <- put_bits value.(emenbid_mcc_digit_3) 4 buf encoded;;
  encoded <- put_bits value.(emenbid_mnc_digit_2) 4 buf encoded;;
  encoded <- put_bits value.(emenbid_mnc_digit_1) 4 buf encoded;;
  encoded <- put_bits value.(emenbid_smenb) 1 buf encoded;;
  encoded <- put_bits value.(emenbid_spare) 2 buf encoded;;
  encoded <- put_bits value.(emenbid_extnded_macro_enb_id) 5 buf encoded;;
  encoded <- put_bits value.(emenbid_extnded_macro_enb_id2) 16 buf encoded;;
  ret (encoded / CHAR_SIZE).

Definition decode_extnded_macro_enb_id_fld (m : bytes) (buf : Z) : option (Z * extnded_macro_enb_id_fld_t) :=
  run_dec (
  emenbid_mcc_digit_2 <- get_bits m buf 4;;
  emenbid_mcc_digit_1 <- get_bits m buf 4;;
  emenbid_mnc_digit_3 <- get_bits m buf 4;;
  emenbid_mcc_digit_3 <- get_bits m buf 4;;
  emenbid_mnc_digit_2 <- get_bits m buf 4;;
  emenbid_mnc_digit_1 <- get_bits m buf 4;;
  emenbid_smenb <- get_bits m buf 1;;
  emenbid_spare <- get_bits m buf 2;;
  emenbid_extnded_macro_enb_id <- get_bits m buf 5;;
  emenbid_extnded_macro_enb_id2 <- get_bits m buf 16;;
  total_decoded <- get_total;;
  ret (total_decoded / CHAR_SIZE,
      Build_extnded_macro_enb_id_fld_t emenbid_mcc_digit_2 emenbid_mcc_digit_1
       emenbid_mnc_digit_3 emenbid_mcc_digit_3 emenbid_mnc_digit_2 emenbid_mnc_digit_1
       emenbid_smenb emenbid_spare emenbid_extnded_macro_enb_id emenbid_extnded_macro_enb_id2)).

Definition layout_extnded_macro_enb_id_fld (v : extnded_macro_enb_id_fld_t) : list field :=
  [FBits v.(emenbid_mcc_digit_2) 4; FBits v.(emenbid_mcc_digit_1) 4;
   FBits v.(emenbid_mnc_digit_3) 4; FBits v.(emenbid_mcc_digit_3) 4;
   FBits v.(emenbid_mnc_digit_2) 4; FBits v.(emenbid_mnc_digit_1) 4;
   FBits v.(emenbid_smenb) 1; FBits v.(emenbid_spare) 2;
   FBits v.(emenbid_extnded_macro_enb_id) 5; FBits v.(emenbid_extnded_macro_enb_id2) 16].

Definition ok_extnded_macro_enb_id_fld (v : extnded_macro_enb_id_fld_t) : Prop :=
  True.

Definition count_extnded_macro_enb_id_fld (v : extnded_macro_enb_id_fld_t) : Z := 6.

Lemma layout_extnded_macro_enb_id_fld_size v : ok_extnded_macro_enb_id_fld v -> lsize (layout_extnded_macro_enb_id_fld v) = 48.
Proof. unfold ok_extnded_macro_enb_id_fld, layout_extnded_macro_enb_id_fld. solve_size. Qed.

Lemma encode_extnded_macro_enb_id_fld_emits v buf :
  ok_extnded_macro_enb_id_fld v -> emits buf 0 (layout_extnded_macro_enb_id_fld v) (encode_extnded_macro_enb_id_fld v buf) (48 / 8).
Proof. unfold ok_extnded_macro_enb_id_fld, layout_extnded_macro_enb_id_fld, encode_extnded_macro_enb_id_fld. solve_emits. Qed.

Lemma decode_extnded_macro_enb_id_fld_decodes m buf v :
  ok_extnded_macro_enb_id_fld v ->
  decodes m buf (layout_extnded_macro_enb_id_fld v) (decode_extnded_macro_enb_id_fld m buf) (count_extnded_macro_enb_id_fld v, v).
Proof. unfold ok_extnded_macro_enb_id_fld, layout_extnded_macro_enb_id_fld, decode_extnded_macro_enb_id_fld, count_extnded_macro_enb_id_fld. solve_decodes v. Qed.

#[global] Instance extnded_macro_enb_id_fld_format : WireFormat extnded_macro_enb_id_fld_t :=
  fixed_format layout_extnded_macro_enb_id_fld ok_extnded_macro_enb_id_fld count_extnded_macro_enb_id_fld encode_extnded_macro_enb_id_fld decode_extnded_macro_enb_id_fld 48 ltac:(reflexivity)
    layout_extnded_macro_enb_id_fld_size encode_extnded_macro_enb_id_fld_emits decode_extnded_macro_enb_id_fld_decodes.

End extnded_macro_enb_id_fld.

(** ** [auth_quadruplet] *)

Module auth_quadruplet.

Record auth_quadruplet_t := {
  rand : list Z;  (* uint8_t[RAND_LEN] *)
  xres_length : Z;  (* uint8_t *)
  xres : Z;  (* uint8_t *)
  autn_length : Z;  (* uint8_t *)
  autn : Z;  (* uint8_t *)
  kasme : list Z  (* uint8_t[KASME_LEN] *)
}.

Definition encode_auth_quadruplet (value : auth_quadruplet_t) (buf : Z) : enc Z :=
  encoded <- ret 0;;
  encoded <- put_bytes value.(rand) RAND_LEN buf encoded;;
  encoded <- put_bits value.(xres_length) 8 buf encoded;;
  encoded <- put_bits value.(xres) 8 buf encoded;;
  encoded <- put_bits value.(autn_length) 8 buf encoded;;
  encoded <- put_bits value.(autn) 8 buf encoded;;
  encoded <- put_bytes value.(kasme) KASME_LEN buf encoded;;
  ret (encoded / CHAR_SIZE).

Definition decode_auth_quadruplet (m : bytes) (buf : Z) : option (Z * auth_quadruplet_t) :=
  run_dec (
  rand <- get_bytes m buf RAND_LEN;;
  xres_length <- get_bits m buf 8;;
  xres <- get_bits m buf 8;;
  autn_length <- get_bits m buf 8;;
  autn <- get_bits m buf 8;;
  kasme <- get_bytes m buf KASME_LEN;;
  total_decoded <- get_total;;
  ret (total_decoded,
      Build_auth_quadruplet_t rand xres_length xres autn_length autn kasme)).

Definition layout_auth_quadruplet (v : auth_quadruplet_t) : list field :=
  [FCopy v.(rand); FBits v.(xres_length) 8; FBits v.(xres) 8; FBits v.(autn_length) 8;
   FBits v.(autn) 8; FCopy v.(kasme)].

Definition ok_auth_quadruplet (v : auth_quadruplet_t) : Prop :=
  Z.of_nat (length v.(rand)) = RAND_LEN /\ Z.of_nat (length v.(kasme)) = KASME_LEN.

Definition count_auth_quadruplet (v : auth_quadruplet_t) : Z := 416.

Lemma layout_auth_quadruplet_size v : ok_auth_quadruplet v -> lsize (layout_auth_quadruplet v) = 416.
Proof. unfold ok_auth_quadruplet, layout_auth_quadruplet. solve_size. Qed.

Lemma encode_auth_quadruplet_emits v buf :
  ok_auth_quadruplet v -> emits buf 0 (layout_auth_quadruplet v) (encode_auth_quadruplet v buf) (416 / 8).
Proof. unfold ok_auth_quadruplet, layout_auth_quadruplet, encode_auth_quadruplet. solve_emits. Qed.

Lemma decode_auth_quadruplet_decodes m buf v :
  ok_auth_quadruplet v ->
  decodes m buf (layout_auth_quadruplet v) (decode_auth_quadruplet m buf) (count_auth_quadruplet v, v).
Proof. unfold ok_auth_quadruplet, layout_auth_quadruplet, decode_auth_quadruplet, count_auth_quadruplet. solve_decodes v. Qed.

#[global] Instance auth_quadruplet_format : WireFormat auth_quadruplet_t :=
  fixed_format layout_auth_quadruplet ok_auth_quadruplet count_auth_quadruplet encode_auth_quadruplet decode_auth_quadruplet 416 ltac:(reflexivity)
    layout_auth_quadruplet_size encode_auth_quadruplet_emits decode_auth_quadruplet_decodes.

End auth_quadruplet.

(** ** [cgi_field] *)

Module cgi_field.

Record cgi_field_t := {
  cgi_mcc_digit_2 : Z;  (* uint8_t :4 *)
  cgi_mcc_digit_1 : Z;  (* uint8_t :4 *)
  cgi_mnc_digit_3 : Z;  (* uint8_t :4 *)
  cgi_mcc_digit_3 : Z;  (* uint8_t :4 *)
  cgi_mnc_digit_2 : Z;  (* uint8_t :4 *)
  cgi_mnc_digit_1 : Z;  (* uint8_t :4 *)
  cgi_lac : Z;  (* uint16_t *)
  cgi_ci : Z  (* uint16_t *)
}.

Definition encode_cgi_field (value : cgi_field_t) (buf : Z) : enc Z :=
  encoded <- ret 0;;
  encoded <- put_bits value.(cgi_mcc_digit_2) 4 buf encoded;;
  encoded <- put_bits value.(cgi_mcc_digit_1) 4 buf encoded;;
  encoded <- put_bits value.(cgi_mnc_digit_3) 4 buf encoded;;
  encoded <- put_bits value.(cgi_mcc_digit_3) 4 buf encoded;;
  encoded <- put_bits value.(cgi_mnc_digit_2) 4 buf encoded;;
  encoded <- put_bits value.(cgi_mnc_digit_1) 4 buf encoded;;
  encoded <- put_bits value.(cgi_lac) 16 buf encoded;;
  encoded <- put_bits value.(cgi_ci) 16 buf encoded;;
  ret (encoded / CHAR_SIZE).

Definition decode_cgi_field (m : bytes) (buf : Z) : option (Z * cgi_field_t) :=
  run_dec (
  cgi_mcc_digit_2 <- get_bits m buf 4;;
  cgi_mcc_digit_1 <- get_bits m buf 4;;
  cgi_mnc_digit_3 <- get_bits m buf 4;;
  cgi_mcc_digit_3 <- get_bits m buf 4;;
  cgi_mnc_digit_2 <- get_bits m buf 4;;
  cgi_mnc_digit_1 <- get_bits m buf 4;;
  cgi_lac <- get_bits m buf 16;;
  cgi_ci <- get_bits m buf 16;;
  total_decoded <- get_total;;
  ret (total_decoded / CHAR_SIZE,
      Build_cgi_field_t cgi_mcc_digit_2 cgi_mcc_digit_1 cgi_mnc_digit_3 cgi_mcc_digit_3
       cgi_mnc_digit_2 cgi_mnc_digit_1 cgi_lac cgi_ci)).

Definition layout_cgi_field (v : cgi_field_t) : list field :=
  [FBits v.(cgi_mcc_digit_2) 4; FBits v.(cgi_mcc_digit_1) 4; FBits v.(cgi_mnc_digit_3) 4;
   FBits v.(cgi_mcc_digit_3) 4; FBits v.(cgi_mnc_digit_2) 4; FBits v.(cgi_mnc_digit_1) 4;
   FBits v.(cgi_lac) 16; FBits v.(cgi_ci) 16].

Definition ok_cgi_field (v : cgi_field_t) : Prop :=
  True.

Definition count_cgi_field (v : cgi_field_t) : Z := 7.

Lemma layout_cgi_field_size v : ok_cgi_field v -> lsize (layout_cgi_field v) = 56.
Proof. unfold ok_cgi_field, layout_cgi_field. solve_size. Qed.

Lemma encode_cgi_field_emits v buf :
  ok_cgi_field v -> emits buf 0 (layout_cgi_field v) (encode_cgi_field v buf) (56 / 8).
Proof. unfold ok_cgi_field, layout_cgi_field, encode_cgi_field. solve_emits. Qed.

Lemma decode_cgi_field_decodes m buf v :
  ok_cgi_field v ->
  decodes m buf (layout_cgi_field v) (decode_cgi_field m buf) (count_cgi_field v, v).
Proof. unfold ok_cgi_field, layout_cgi_field, decode_cgi_field, count_cgi_field. solve_decodes v. Qed.

#[global] Instance cgi_field_format : WireFormat cgi_field_t :=
  fixed_format layout_cgi_field ok_cgi_field count_cgi_field encode_cgi_field decode_cgi_field 56 ltac:(reflexivity)
    layout_cgi_field_size encode_cgi_field_emits decode_cgi_field_decodes.

End cgi_field.

(** ** [trgt_id_type_home_enb] *)

Module trgt_id_type_home_enb.

Record trgt_id_type_home_enb_t := {
  mcc_digit_2 : Z;  (* uint8_t :4 *)
  mcc_digit_1 : Z;  (* uint8_t :4 *)
  mnc_digit_3 : Z;  (* uint8_t :4 *)
  mcc_digit_3 : Z;  (* uint8_t :4 *)
  mnc_digit_2 : Z;  (* uint8_t :4 *)
  mnc_digit_1 : Z;  (* uint8_t :4 *)
  spare : Z;  (* uint8_t :4 *)
  home_enodeb_id : Z;  (* uint8_t :4 *)
  home_enodeb_id2 : Z;  (* uint32_t :24 *)
  tac : Z  (* uint16_t *)
}.

Definition encode_trgt_id_type_home_enb (value : trgt_id_type_home_enb_t) (buf : Z) : enc Z :=
  encoded <- ret 0;;
  encoded <- put_bits value.(mcc_digit_2) 4 buf encoded;;
  encoded <- put_bits value.(mcc_digit_1) 4 buf encoded;;
  encoded <- put_bits value.(mnc_digit_3) 4 buf encoded;;
  encoded <- put_bits value.(mcc_digit_3) 4 buf encoded;;
  encoded <- put_bits value.(mnc_digit_2) 4 buf encoded;;
  encoded <- put_bits value.(mnc_digit_1) 4 buf encoded;;
  encoded <- put_bits value.(spare) 4 buf encoded;;
  encoded <- put_bits value.(home_enodeb_id) 4 buf encoded;;
  encoded <- put_bits value.(home_enodeb_id2) 24 buf encoded;;
  encoded <- put_bits value.(tac) 16 buf encoded;;
  ret (encoded / CHAR_SIZE).

Definition decode_trgt_id_type_home_enb (m : bytes) (buf : Z) : option (Z * trgt_id_type_home_enb_t) :=
  run_dec (
  mcc_digit_2 <- get_bits m buf 4;;
  mcc_digit_1 <- get_bits m buf 4;;
  mnc_digit_3 <- get_bits m buf 4;;
  mcc_digit_3 <- get_bits m buf 4;;
  mnc_digit_2 <- get_bits m buf 4;;
  mnc_digit_1 <- get_bits m buf 4;;
  spare <- get_bits m buf 4;;
  home_enodeb_id <- get_bits m buf 4;;
  home_enodeb_id2 <- get_bits m buf 24;;
  tac <- get_bits m buf 16;;
  total_decoded <- get_total;;
  ret (total_decoded,
      Build_trgt_id_type_home_enb_t mcc_digit_2 mcc_digit_1 mnc_digit_3 mcc_digit_3
       mnc_digit_2 mnc_digit_1 spare home_enodeb_id home_enodeb_id2 tac)).

Definition layout_trgt_id_type_home_enb (v : trgt_id_type_home_enb_t) : list field :=
  [FBits v.(mcc_digit_2) 4; FBits v.(mcc_digit_1) 4; FBits v.(mnc_digit_3) 4;
   FBits v.(mcc_digit_3) 4; FBits v.(mnc_digit_2) 4; FBits v.(mnc_digit_1) 4;
   FBits v.(spare) 4; FBits v.(home_enodeb_id) 4; FBits v.(home_enodeb_id2) 24;
   FBits v.(tac) 16].

Definition ok_trgt_id_type_home_enb (v : trgt_id_type_home_enb_t) : Prop :=
  True.

Definition count_trgt_id_type_home_enb (v : trgt_id_type_home_enb_t) : Z := 72.

Lemma layout_trgt_id_type_home_enb_size v : ok_trgt_id_type_home_enb v -> lsize (layout_trgt_id_type_home_enb v) = 72.
Proof. unfold ok_trgt_id_type_home_enb, layout_trgt_id_type_home_enb. solve_size. Qed.

Lemma encode_trgt_id_type_home_enb_emits v buf :
  ok_trgt_id_type_home_enb v -> emits buf 0 (layout_trgt_id_type_home_enb v) (encode_trgt_id_type_home_enb v buf) (72 / 8).
Proof. unfold ok_trgt_id_type_home_enb, layout_trgt_id_type_home_enb, encode_trgt_id_type_home_enb. solve_emits. Qed.

Lemma decode_trgt_id_type_home_enb_decodes m buf v :
  ok_trgt_id_type_home_enb v ->
  decodes m buf (layout_trgt_id_type_home_enb v) (decode_trgt_id_type_home_enb m buf) (count_trgt_id_type_home_enb v, v).
Proof. unfold ok_trgt_id_type_home_enb, layout_trgt_id_type_home_enb, decode_trgt_id_type_home_enb, count_trgt_id_type_home_enb. solve_decodes v. Qed.

#[global] Instance trgt_id_type_home_enb_format : WireFormat trgt_id_type_home_enb_t :=
  fixed_format layout_trgt_id_type_home_enb ok_trgt_id_type_home_enb count_trgt_id_type_home_enb encode_trgt_id_type_home_enb decode_trgt_id_type_home_enb 72 ltac:(reflexivity)
    layout_trgt_id_type_home_enb_size encode_trgt_id_type_home_enb_emits decode_trgt_id_type_home_enb_decodes.

End trgt_id_type_home_enb.

(** ** [lai_field] *)

Module lai_field.

Record lai_field_t := {
  lai_mcc_digit_2 : Z;  (* uint8_t :4 *)
  lai_mcc_digit_1 : Z;  (* uint8_t :4 *)
  lai_mnc_digit_3 : Z;  (* uint8_t :4 *)
  lai_mcc_digit_3 : Z;  (* uint8_t :4 *)
  lai_mnc_digit_2 : Z;  (* uint8_t :4 *)
  lai_mnc_digit_1 : Z;  (* uint8_t :4 *)
  lai_lac : Z  (* uint16_t *)
}.

Definition encode_lai_field (value : lai_field_t) (buf : Z) : enc Z :=
  encoded <- ret 0;;
  encoded <- put_bits value.(lai_mcc_digit_2) 4 buf encoded;;
  encoded <- put_bits value.(lai_mcc_digit_1) 4 buf encoded;;
  encoded <- put_bits value.(lai_mnc_digit_3) 4 buf encoded;;
  encoded <- put_bits value.(lai_mcc_digit_3) 4 buf encoded;;
  encoded <- put_bits value.(lai_mnc_digit_2) 4 buf encoded;;
  encoded <- put_bits value.(lai_mnc_digit_1) 4 buf encoded;;
  encoded <- put_bits value.(lai_lac) 16 buf encoded;;
  ret (encoded / CHAR_SIZE).

Definition decode_lai_field (m : bytes) (buf : Z) : option (Z * lai_field_t) :=
  run_dec (
  lai_mcc_digit_2 <- get_bits m buf 4;;
  lai_mcc_digit_1 <- get_bits m buf 4;;
  lai_mnc_digit_3 <- get_bits m buf 4;;
  lai_mcc_digit_3 <- get_bits m buf 4;;
  lai_mnc_digit_2 <- get_bits m buf 4;;
  lai_mnc_digit_1 <- get_bits m buf 4;;
  lai_lac <- get_bits m buf 16;;
  total_decoded <- get_total;;
  ret (total_decoded / CHAR_SIZE,
      Build_lai_field_t lai_mcc_digit_2 lai_mcc_digit_1 lai_mnc_digit_3 lai_mcc_digit_3
       lai_mnc_digit_2 lai_mnc_digit_1 lai_lac)).

Definition layout_lai_field (v : lai_field_t) : list field :=
  [FBits v.(lai_mcc_digit_2) 4; FBits v.(lai_mcc_digit_1) 4; FBits v.(lai_mnc_digit_3) 4;
   FBits v.(lai_mcc_digit_3) 4; FBits v.(lai_mnc_digit_2) 4; FBits v.(lai_mnc_digit_1) 4;
   FBits v.(lai_lac) 16].

Definition ok_lai_field (v : lai_field_t) : Prop :=
  True.

Definition count_lai_field (v : lai_field_t) : Z := 5.

Lemma layout_lai_field_size v : ok_lai_field v -> lsize (layout_lai_field v) = 40.
Proof. unfold ok_lai_field, layout_lai_field. solve_size. Qed.

Lemma encode_lai_field_emits v buf :
  ok_lai_field v -> emits buf 0 (layout_lai_field v) (encode_lai_field v buf) (40 / 8).
Proof. unfold ok_lai_field, layout_lai_field, encode_lai_field. solve_emits. Qed.

Lemma decode_lai_field_decodes m buf v :
  ok_lai_field v ->
  decodes m buf (layout_lai_field v) (decode_lai_field m buf) (count_lai_field v, v).
Proof. unfold ok_lai_field, layout_lai_field, decode_lai_field, count_lai_field. solve_decodes v. Qed.

#[global] Instance lai_field_format : WireFormat lai_field_t :=
  fixed_format layout_lai_field ok_lai_field count_lai_field encode_lai_field decode_lai_field 40 ltac:(reflexivity)
    layout_lai_field_size encode_lai_field_emits decode_lai_field_decodes.

End lai_field.
