(* ===== verification/GtpIes1.v ===== *)
(** Information elements of libgtpv2c of constant size: information elements with a header, part 1 of 3.

    Each structure of gtp_ies.h is a record in a module of its own, with its
    encoder (gtp_ies_encoder.c), its decoder (gtp_ies_decoder.c), the wire
    layout both implement, and the [WireFormat] instance that proves it. *)

From Stdlib Require Import ZArith List Lia.
From S2P Require Import Prelude EncDecBits WireFormat GtpDefs.
Import ListNotations.
Open Scope Z_scope.
Open Scope wire_scope.

(** ** [gtp_umts_key_and_quintuplets_ie] *)

Module gtp_umts_key_and_quintuplets_ie.

Record gtp_umts_key_and_quintuplets_ie_t := {
  header : ie_header_t;
  security_mode : Z;  (* uint8_t :3 *)
  spare2 : Z;  (* uint8_t :1 *)
  drxi : Z;  (* uint8_t :1 *)
  ksi : Z;  (* uint8_t :3 *)
  nbr_of_quintuplets : Z;  (* uint8_t :3 *)
  iovi : Z;  (* uint8_t :1 *)
  gupii : Z;  (* uint8_t :1 *)
  ugipai : Z;  (* uint8_t :1 *)
  uambri : Z;  (* uint8_t :1 *)
  sambri : Z;  (* uint8_t :1 *)
  spare3 : Z;  (* uint8_t :5 *)
  used_gprs_intgrty_protctn_algo : Z;  (* uint8_t :3 *)
  ck : list Z;  (* uint8_t[CK_LEN] *)
  ik : list Z;  (* uint8_t[IK_LEN] *)
  auth_quintuplet : Z;  (* uint8_t *)
  drx_parameter : Z;  (* uint16_t *)
  uplnk_subscrbd_ue_ambr : Z;  (* uint32_t *)
  dnlnk_subscrbd_ue_ambr : Z;  (* uint32_t *)
  uplnk_used_ue_ambr : Z;  (* uint32_t *)
  dnlnk_used_ue_ambr : Z;  (* uint32_t *)
  ue_ntwk_capblty_len : Z;  (* uint8_t *)
  ue_ntwk_capblty : Z;  (* uint8_t *)
  ms_ntwk_capblty_len : Z;  (* uint8_t *)
  ms_ntwk_capblty : Z;  (* uint8_t *)
  mei_length : Z;  (* uint8_t *)
  mei : Z;  (* uint8_t *)
  ecna : Z;  (* uint8_t :1 *)
  nbna : Z;  (* uint8_t :1 *)
  hnna : Z;  (* uint8_t :1 *)
  ena : Z;  (* uint8_t :1 *)
  ina : Z;  (* uint8_t :1 *)
  gana : Z;  (* uint8_t :1 *)
  gena : Z;  (* uint8_t :1 *)
  una : Z;  (* uint8_t :1 *)
  vdom_pref_ue_usage_len : Z;  (* uint8_t *)
  voice_domain_pref_and_ues_usage_setting : Z;  (* uint8_t *)
  higher_bitrates_flg_len : Z;  (* uint8_t *)
  higher_bitrates_flg : Z;  (* uint8_t *)
  iov_updts_cntr : Z;  (* uint8_t *)
  len_of_extnded_acc_rstrct_data : Z;  (* uint8_t *)
  spare4 : Z;  (* uint8_t :7 *)
  nrsrna : Z  (* uint8_t :1 *)
}.

Definition encode_gtp_umts_key_and_quintuplets_ie (value : gtp_umts_key_and_quintuplets_ie_t) (buf : Z) : enc Z :=
  encoded <- ret 0;;
  encoded <- put_header value.(header) buf encoded;;
  encoded <- put_bits value.(security_mode) 3 buf encoded;;
  encoded <- put_bits value.(spare2) 1 buf encoded;;
  encoded <- put_bits value.(drxi) 1 buf encoded;;
  encoded <- put_bits value.(ksi) 3 buf encoded;;
  encoded <- put_bits value.(nbr_of_quintuplets) 3 buf encoded;;
  encoded <- put_bits value.(iovi) 1 buf encoded;;
  encoded <- put_bits value.(gupii) 1 buf encoded;;
  encoded <- put_bits value.(ugipai) 1 buf encoded;;
  encoded <- put_bits value.(uambri) 1 buf encoded;;
  encoded <- put_bits value.(sambri) 1 buf encoded;;
  encoded <- put_bits value.(spare3) 5 buf encoded;;
  encoded <- put_bits value.(used_gprs_intgrty_protctn_algo) 3 buf encoded;;
  encoded <- put_bytes value.(ck) CK_LEN buf encoded;;
  encoded <- put_bytes value.(ik) IK_LEN buf encoded;;
  encoded <- put_bits value.(auth_quintuplet) 8 buf encoded;;
  encoded <- put_bits value.(drx_parameter) 16 buf encoded;;
  encoded <- put_bits value.(uplnk_subscrbd_ue_ambr) 32 buf encoded;;
  encoded <- put_bits value.(dnlnk_subscrbd_ue_ambr) 32 buf encoded;;
  encoded <- put_bits value.(uplnk_used_ue_ambr) 32 buf encoded;;
  encoded <- put_bits value.(dnlnk_used_ue_ambr) 32 buf encoded;;
  encoded <- put_bits value.(ue_ntwk_capblty_len) 8 buf encoded;;
  encoded <- put_bits value.(ue_ntwk_capblty) 8 buf encoded;;
  encoded <- put_bits value.(ms_ntwk_capblty_len) 8 buf encoded;;
  encoded <- put_bits value.(ms_ntwk_capblty) 8 buf encoded;;
  encoded <- put_bits value.(mei_length) 8 buf encoded;;
  encoded <- put_bits value.(mei) 8 buf encoded;;
  encoded <- put_bits value.(ecna) 1 buf encoded;;
  encoded <- put_bits value.(nbna) 1 buf encoded;;
  encoded <- put_bits value.(hnna) 1 buf encoded;;
  encoded <- put_bits value.(ena) 1 buf encoded;;
  encoded <- put_bits value.(ina) 1 buf encoded;;
  encoded <- put_bits value.(gana) 1 buf encoded;;
  encoded <- put_bits value.(gena) 1 buf encoded;;
  encoded <- put_bits value.(una) 1 buf encoded;;
  encoded <- put_bits value.(vdom_pref_ue_usage_len) 8 buf encoded;;
  encoded <- put_bits value.(voice_domain_pref_and_ues_usage_setting) 8 buf encoded;;
  encoded <- put_bits value.(higher_bitrates_flg_len) 8 buf encoded;;
  encoded <- put_bits value.(higher_bitrates_flg) 8 buf encoded;;
  encoded <- put_bits value.(iov_updts_cntr) 8 buf encoded;;
  encoded <- put_bits value.(len_of_extnded_acc_rstrct_data) 8 buf encoded;;
  encoded <- put_bits value.(spare4) 7 buf encoded;;
  encoded <- put_bits value.(nrsrna) 1 buf encoded;;
  ret (encoded / CHAR_SIZE).

Definition decode_gtp_umts_key_and_quintuplets_ie (m : bytes) (buf : Z) : option (Z * gtp_umts_key_and_quintuplets_ie_t) :=
  run_dec (
  header <- get_header m buf;;
  security_mode <- get_bits m buf 3;;
  spare2 <- get_bits m buf 1;;
  drxi <- get_bits m buf 1;;
  ksi <- get_bits m buf 3;;
  nbr_of_quintuplets <- get_bits m buf 3;;
  iovi <- get_bits m buf 1;;
  gupii <- get_bits m buf 1;;
  ugipai <- get_bits m buf 1;;
  uambri <- get_bits m buf 1;;
  sambri <- get_bits m buf 1;;
  spare3 <- get_bits m buf 5;;
  used_gprs_intgrty_protctn_algo <- get_bits m buf 3;;
  ck <- get_bytes m buf CK_LEN;;
  ik <- get_bytes m buf IK_LEN;;
  auth_quintuplet <- get_bits m buf 8;;
  drx_parameter <- get_bits m buf 16;;
  uplnk_subscrbd_ue_ambr <- get_bits m buf 32;;
  dnlnk_subscrbd_ue_ambr <- get_bits m buf 32;;
  uplnk_used_ue_ambr <- get_bits m buf 32;;
  dnlnk_used_ue_ambr <- get_bits m buf 32;;
  ue_ntwk_capblty_len <- get_bits m buf 8;;
  ue_ntwk_capblty <- get_bits m buf 8;;
  ms_ntwk_capblty_len <- get_bits m buf 8;;
  ms_ntwk_capblty <- get_bits m buf 8;;
  mei_length <- get_bits m buf 8;;
  mei <- get_bits m buf 8;;
  ecna <- get_bits m buf 1;;
  nbna <- get_bits m buf 1;;
  hnna <- get_bits m buf 1;;
  ena <- get_bits m buf 1;;
  ina <- get_bits m buf 1;;
  gana <- get_bits m buf 1;;
  gena <- get_bits m buf 1;;
  una <- get_bits m buf 1;;
  vdom_pref_ue_usage_len <- get_bits m buf 8;;
  voice_domain_pref_and_ues_usage_setting <- get_bits m buf 8;;
  higher_bitrates_flg_len <- get_bits m buf 8;;
  higher_bitrates_flg <- get_bits m buf 8;;
  iov_updts_cntr <- get_bits m buf 8;;
  len_of_extnded_acc_rstrct_data <- get_bits m buf 8;;
  spare4 <- get_bits m buf 7;;
  nrsrna <- get_bits m buf 1;;
  ret (header.(hdr_len) + IE_HEADER_SIZE,
      Build_gtp_umts_key_and_quintuplets_ie_t header security_mode spare2 drxi ksi
       nbr_of_quintuplets iovi gupii ugipai uambri sambri spare3
       used_gprs_intgrty_protctn_algo ck ik auth_quintuplet drx_parameter
       uplnk_subscrbd_ue_ambr dnlnk_subscrbd_ue_ambr uplnk_used_ue_ambr dnlnk_used_ue_ambr
       ue_ntwk_capblty_len ue_ntwk_capblty ms_ntwk_capblty_len ms_ntwk_capblty mei_length mei
       ecna nbna hnna ena ina gana gena una vdom_pref_ue_usage_len
       voice_domain_pref_and_ues_usage_setting higher_bitrates_flg_len higher_bitrates_flg
       iov_updts_cntr len_of_extnded_acc_rstrct_data spare4 nrsrna)).

Definition layout_gtp_umts_key_and_quintuplets_ie (v : gtp_umts_key_and_quintuplets_ie_t) : list field :=
  [FHdr v.(header); FBits v.(security_mode) 3; FBits v.(spare2) 1; FBits v.(drxi) 1;
   FBits v.(ksi) 3; FBits v.(nbr_of_quintuplets) 3; FBits v.(iovi) 1; FBits v.(gupii) 1;
   FBits v.(ugipai) 1; FBits v.(uambri) 1; FBits v.(sambri) 1; FBits v.(spare3) 5;
   FBits v.(used_gprs_intgrty_protctn_algo) 3; FCopy v.(ck); FCopy v.(ik);
   FBits v.(auth_quintuplet) 8; FBits v.(drx_parameter) 16;
   FBits v.(uplnk_subscrbd_ue_ambr) 32; FBits v.(dnlnk_subscrbd_ue_ambr) 32;
   FBits v.(uplnk_used_ue_ambr) 32; FBits v.(dnlnk_used_ue_ambr) 32;
   FBits v.(ue_ntwk_capblty_len) 8; FBits v.(ue_ntwk_capblty) 8;
   FBits v.(ms_ntwk_capblty_len) 8; FBits v.(ms_ntwk_capblty) 8; FBits v.(mei_length) 8;
   FBits v.(mei) 8; FBits v.(ecna) 1; FBits v.(nbna) 1; FBits v.(hnna) 1; FBits v.(ena) 1;
   FBits v.(ina) 1; FBits v.(gana) 1; FBits v.(gena) 1; FBits v.(una) 1;
   FBits v.(vdom_pref_ue_usage_len) 8; FBits v.(voice_domain_pref_and_ues_usage_setting) 8;
   FBits v.(higher_bitrates_flg_len) 8; FBits v.(higher_bitrates_flg) 8;
   FBits v.(iov_updts_cntr) 8; FBits v.(len_of_extnded_acc_rstrct_data) 8;
   FBits v.(spare4) 7; FBits v.(nrsrna) 1].

Definition ok_gtp_umts_key_and_quintuplets_ie (v : gtp_umts_key_and_quintuplets_ie_t) : Prop :=
  Z.of_nat (length v.(ck)) = CK_LEN /\ Z.of_nat (length v.(ik)) = IK_LEN.

Definition count_gtp_umts_key_and_quintuplets_ie (v : gtp_umts_key_and_quintuplets_ie_t) : Z := v.(header).(hdr_len) + IE_HEADER_SIZE.

Lemma layout_gtp_umts_key_and_quintuplets_ie_size v : ok_gtp_umts_key_and_quintuplets_ie v -> lsize (layout_gtp_umts_key_and_quintuplets_ie v) = 576.
Proof. unfold ok_gtp_umts_key_and_quintuplets_ie, layout_gtp_umts_key_and_quintuplets_ie. solve_size. Qed.

Lemma encode_gtp_umts_key_and_quintuplets_ie_emits v buf :
  ok_gtp_umts_key_and_quintuplets_ie v -> emits buf 0 (layout_gtp_umts_key_and_quintuplets_ie v) (encode_gtp_umts_key_and_quintuplets_ie v buf) (576 / 8).
Proof. unfold ok_gtp_umts_key_and_quintuplets_ie, layout_gtp_umts_key_and_quintuplets_ie, encode_gtp_umts_key_and_quintuplets_ie. solve_emits. Qed.

Lemma decode_gtp_umts_key_and_quintuplets_ie_decodes m buf v :
  ok_gtp_umts_key_and_quintuplets_ie v ->
  decodes m buf (layout_gtp_umts_key_and_quintuplets_ie v) (decode_gtp_umts_key_and_quintuplets_ie m buf) (count_gtp_umts_key_and_quintuplets_ie v, v).
Proof. unfold ok_gtp_umts_key_and_quintuplets_ie, layout_gtp_umts_key_and_quintuplets_ie, decode_gtp_umts_key_and_quintuplets_ie, count_gtp_umts_key_and_quintuplets_ie. solve_decodes v. Qed.

#[global] Instance gtp_umts_key_and_quintuplets_ie_format : WireFormat gtp_umts_key_and_quintuplets_ie_t :=
  fixed_format layout_gtp_umts_key_and_quintuplets_ie ok_gtp_umts_key_and_quintuplets_ie count_gtp_umts_key_and_quintuplets_ie encode_gtp_umts_key_and_quintuplets_ie decode_gtp_umts_key_and_quintuplets_ie 576 ltac:(reflexivity)
    layout_gtp_umts_key_and_quintuplets_ie_size encode_gtp_umts_key_and_quintuplets_ie_emits decode_gtp_umts_key_and_quintuplets_ie_decodes.

End gtp_umts_key_and_quintuplets_ie.

(** ** [gtp_channel_needed_ie] *)

Module gtp_channel_needed_ie.

Record gtp_channel_needed_ie_t := {
  header : ie_header_t;
  channel_needed : Z  (* uint8_t *)
}.

Definition encode_gtp_channel_needed_ie (value : gtp_channel_needed_ie_t) (buf : Z) : enc Z :=
  encoded <- ret 0;;
  encoded <- put_header value.(header) buf encoded;;
  encoded <- put_bits value.(channel_needed) 8 buf encoded;;
  ret (encoded / CHAR_SIZE).

Definition decode_gtp_channel_needed_ie (m : bytes) (buf : Z) : option (Z * gtp_channel_needed_ie_t) :=
  run_dec (
  header <- get_header m buf;;
  channel_needed <- get_bits m buf 8;;
  ret (header.(hdr_len) + IE_HEADER_SIZE,
      Build_gtp_channel_needed_ie_t header channel_needed)).

Definition layout_gtp_channel_needed_ie (v : gtp_channel_needed_ie_t) : list field :=
  [FHdr v.(header); FBits v.(channel_needed) 8].

Definition ok_gtp_channel_needed_ie (v : gtp_channel_needed_ie_t) : Prop :=
  True.

Definition count_gtp_channel_needed_ie (v : gtp_channel_needed_ie_t) : Z := v.(header).(hdr_len) + IE_HEADER_SIZE.

Lemma layout_gtp_channel_needed_ie_size v : ok_gtp_channel_needed_ie v -> lsize (layout_gtp_channel_needed_ie v) = 40.
Proof. unfold ok_gtp_channel_needed_ie, layout_gtp_channel_needed_ie. solve_size. Qed.

Lemma encode_gtp_channel_needed_ie_emits v buf :
  ok_gtp_channel_needed_ie v -> emits buf 0 (layout_gtp_channel_needed_ie v) (encode_gtp_channel_needed_ie v buf) (40 / 8).
Proof. unfold ok_gtp_channel_needed_ie, layout_gtp_channel_needed_ie, encode_gtp_channel_needed_ie. solve_emits. Qed.

Lemma decode_gtp_channel_needed_ie_decodes m buf v :
  ok_gtp_channel_needed_ie v ->
  decodes m buf (layout_gtp_channel_needed_ie v) (decode_gtp_channel_needed_ie m buf) (count_gtp_channel_needed_ie v, v).
Proof. unfold ok_gtp_channel_needed_ie, layout_gtp_channel_needed_ie, decode_gtp_channel_needed_ie, count_gtp_channel_needed_ie. solve_decodes v. Qed.

#[global] Instance gtp_channel_needed_ie_format : WireFormat gtp_channel_needed_ie_t :=
  fixed_format layout_gtp_channel_needed_ie ok_gtp_channel_needed_ie count_gtp_channel_needed_ie encode_gtp_channel_needed_ie decode_gtp_channel_needed_ie 40 ltac:(reflexivity)
    layout_gtp_channel_needed_ie_size encode_gtp_channel_needed_ie_emits decode_gtp_channel_needed_ie_decodes.

End gtp_channel_needed_ie.

(** ** [gtp_rfsp_index_ie] *)

Module gtp_rfsp_index_ie.

Record gtp_rfsp_index_ie_t := {
  header : ie_header_t;
  rfsp_index : Z  (* uint16_t *)
}.

Definition encode_gtp_rfsp_index_ie (value : gtp_rfsp_index_ie_t) (buf : Z) : enc Z :=
  encoded <- ret 0;;
  encoded <- put_header value.(header) buf encoded;;
  encoded <- put_bits value.(rfsp_index) 16 buf encoded;;
  ret (encoded / CHAR_SIZE).

Definition decode_gtp_rfsp_index_ie (m : bytes) (buf : Z) : option (Z * gtp_rfsp_index_ie_t) :=
  run_dec (
  header <- get_header m buf;;
  rfsp_index <- get_bits m buf 16;;
  ret (header.(hdr_len) + IE_HEADER_SIZE,
      Build_gtp_rfsp_index_ie_t header rfsp_index)).

Definition layout_gtp_rfsp_index_ie (v : gtp_rfsp_index_ie_t) : list field :=
  [FHdr v.(header); FBits v.(rfsp_index) 16].

Definition ok_gtp_rfsp_index_ie (v : gtp_rfsp_index_ie_t) : Prop :=
  True.

Definition count_gtp_rfsp_index_ie (v : gtp_rfsp_index_ie_t) : Z := v.(header).(hdr_len) + IE_HEADER_SIZE.

Lemma layout_gtp_rfsp_index_ie_size v : ok_gtp_rfsp_index_ie v -> lsize (layout_gtp_rfsp_index_ie v) = 48.
Proof. unfold ok_gtp_rfsp_index_ie, layout_gtp_rfsp_index_ie. solve_size. Qed.

Lemma encode_gtp_rfsp_index_ie_emits v buf :
  ok_gtp_rfsp_index_ie v -> emits buf 0 (layout_gtp_rfsp_index_ie v) (encode_gtp_rfsp_index_ie v buf) (48 / 8).
Proof. unfold ok_gtp_rfsp_index_ie, layout_gtp_rfsp_index_ie, encode_gtp_rfsp_index_ie. solve_emits. Qed.

Lemma decode_gtp_rfsp_index_ie_decodes m buf v :
  ok_gtp_rfsp_index_ie v ->
  decodes m buf (layout_gtp_rfsp_index_ie v) (decode_gtp_rfsp_index_ie m buf) (count_gtp_rfsp_index_ie v, v).
Proof. unfold ok_gtp_rfsp_index_ie, layout_gtp_rfsp_index_ie, decode_gtp_rfsp_index_ie, count_gtp_rfsp_index_ie. solve_decodes v. Qed.

#[global] Instance gtp_rfsp_index_ie_format : WireFormat gtp_rfsp_index_ie_t :=
  fixed_format layout_gtp_rfsp_index_ie ok_gtp_rfsp_index_ie count_gtp_rfsp_index_ie encode_gtp_rfsp_index_ie decode_gtp_rfsp_index_ie 48 ltac:(reflexivity)
    layout_gtp_rfsp_index_ie_size encode_gtp_rfsp_index_ie_emits decode_gtp_rfsp_index_ie_decodes.

End gtp_rfsp_index_ie.

(** ** [gtp_guti_ie] *)

Module gtp_guti_ie.

Record gtp_guti_ie_t := {
  header : ie_header_t;
  mcc_digit_2 : Z;  (* uint8_t :4 *)
  mcc_digit_1 : Z;  (* uint8_t :4 *)
  mnc_digit_3 : Z;  (* uint8_t :4 *)
  mcc_digit_3 : Z;  (* uint8_t :4 *)
  mnc_digit_2 : Z;  (* uint8_t :4 *)
  mnc_digit_1 : Z;  (* uint8_t :4 *)
  mme_group_id : Z;  (* uint16_t *)
  mme_code : Z;  (* uint8_t *)
  m_tmsi : Z  (* uint8_t *)
}.

Definition encode_gtp_guti_ie (value : gtp_guti_ie_t) (buf : Z) : enc Z :=
  encoded <- ret 0;;
  encoded <- put_header value.(header) buf encoded;;
  encoded <- put_bits value.(mcc_digit_2) 4 buf encoded;;
  encoded <- put_bits value.(mcc_digit_1) 4 buf encoded;;
  encoded <- put_bits value.(mnc_digit_3) 4 buf encoded;;
  encoded <- put_bits value.(mcc_digit_3) 4 buf encoded;;
  encoded <- put_bits value.(mnc_digit_2) 4 buf encoded;;
  encoded <- put_bits value.(mnc_digit_1) 4 buf encoded;;
  encoded <- put_bits value.(mme_group_id) 16 buf encoded;;
  encoded <- put_bits value.(mme_code) 8 buf encoded;;
  encoded <- put_bits value.(m_tmsi) 8 buf encoded;;
  ret (encoded / CHAR_SIZE).

Definition decode_gtp_guti_ie (m : bytes) (buf : Z) : option (Z * gtp_guti_ie_t) :=
  run_dec (
  header <- get_header m buf;;
  mcc_digit_2 <- get_bits m buf 4;;
  mcc_digit_1 <- get_bits m buf 4;;
  mnc_digit_3 <- get_bits m buf 4;;
  mcc_digit_3 <- get_bits m buf 4;;
  mnc_digit_2 <- get_bits m buf 4;;
  mnc_digit_1 <- get_bits m buf 4;;
  mme_group_id <- get_bits m buf 16;;
  mme_code <- get_bits m buf 8;;
  m_tmsi <- get_bits m buf 8;;
  ret (header.(hdr_len) + IE_HEADER_SIZE,
      Build_gtp_guti_ie_t header mcc_digit_2 mcc_digit_1 mnc_digit_3 mcc_digit_3 mnc_digit_2
       mnc_digit_1 mme_group_id mme_code m_tmsi)).

Definition layout_gtp_guti_ie (v : gtp_guti_ie_t) : list field :=
  [FHdr v.(header); FBits v.(mcc_digit_2) 4; FBits v.(mcc_digit_1) 4; FBits v.(mnc_digit_3) 4;
   FBits v.(mcc_digit_3) 4; FBits v.(mnc_digit_2) 4; FBits v.(mnc_digit_1) 4;
   FBits v.(mme_group_id) 16; FBits v.(mme_code) 8; FBits v.(m_tmsi) 8].

Definition ok_gtp_guti_ie (v : gtp_guti_ie_t) : Prop :=
  True.

Definition count_gtp_guti_ie (v : gtp_guti_ie_t) : Z := v.(header).(hdr_len) + IE_HEADER_SIZE.

Lemma layout_gtp_guti_ie_size v : ok_gtp_guti_ie v -> lsize (layout_gtp_guti_ie v) = 88.
Proof. unfold ok_gtp_guti_ie, layout_gtp_guti_ie. solve_size. Qed.

Lemma encode_gtp_guti_ie_emits v buf :
  ok_gtp_guti_ie v -> emits buf 0 (layout_gtp_guti_ie v) (encode_gtp_guti_ie v buf) (88 / 8).
Proof. unfold ok_gtp_guti_ie, layout_gtp_guti_ie, encode_gtp_guti_ie. solve_emits. Qed.

Lemma decode_gtp_guti_ie_decodes m buf v :
  ok_gtp_guti_ie v ->
  decodes m buf (layout_gtp_guti_ie v) (decode_gtp_guti_ie m buf) (count_gtp_guti_ie v, v).
Proof. unfold ok_gtp_guti_ie, layout_gtp_guti_ie, decode_gtp_guti_ie, count_gtp_guti_ie. solve_decodes v. Qed.

#[global] Instance gtp_guti_ie_format : WireFormat gtp_guti_ie_t :=
  fixed_format layout_gtp_guti_ie ok_gtp_guti_ie count_gtp_guti_ie encode_gtp_guti_ie decode_gtp_guti_ie 88 ltac:(reflexivity)
    layout_gtp_guti_ie_size encode_gtp_guti_ie_emits decode_gtp_guti_ie_decodes.

End gtp_guti_ie.

(** ** [gtp_eps_bearer_id_ie] *)

Module gtp_eps_bearer_id_ie.

Record gtp_eps_bearer_id_ie_t := {
  header : ie_header_t;
  ebi_spare2 : Z;  (* uint8_t :4 *)
  ebi_ebi : Z  (* uint8_t :4 *)
}.

Definition encode_gtp_eps_bearer_id_ie (value : gtp_eps_bearer_id_ie_t) (buf : Z) : enc Z :=
  encoded <- ret 0;;
  encoded <- put_header value.(header) buf encoded;;
  encoded <- put_bits value.(ebi_spare2) 4 buf encoded;;
  encoded <- put_bits value.(ebi_ebi) 4 buf encoded;;
  ret (encoded / CHAR_SIZE).

Definition decode_gtp_eps_bearer_id_ie (m : bytes) (buf : Z) : option (Z * gtp_eps_bearer_id_ie_t) :=
  run_dec (
  header <- get_header m buf;;
  ebi_spare2 <- get_bits m buf 4;;
  ebi_ebi <- get_bits m buf 4;;
  ret (header.(hdr_len) + IE_HEADER_SIZE,
      Build_gtp_eps_bearer_id_ie_t header ebi_spare2 ebi_ebi)).

Definition layout_gtp_eps_bearer_id_ie (v : gtp_eps_bearer_id_ie_t) : list field :=
  [FHdr v.(header); FBits v.(ebi_spare2) 4; FBits v.(ebi_ebi) 4].

Definition ok_gtp_eps_bearer_id_ie (v : gtp_eps_bearer_id_ie_t) : Prop :=
  True.

Definition count_gtp_eps_bearer_id_ie (v : gtp_eps_bearer_id_ie_t) : Z := v.(header).(hdr_len) + IE_HEADER_SIZE.

Lemma layout_gtp_eps_bearer_id_ie_size v : ok_gtp_eps_bearer_id_ie v -> lsize (layout_gtp_eps_bearer_id_ie v) = 40.
Proof. unfold ok_gtp_eps_bearer_id_ie, layout_gtp_eps_bearer_id_ie. solve_size. Qed.

Lemma encode_gtp_eps_bearer_id_ie_emits v buf :
  ok_gtp_eps_bearer_id_ie v -> emits buf 0 (layout_gtp_eps_bearer_id_ie v) (encode_gtp_eps_bearer_id_ie v buf) (40 / 8).
Proof. unfold ok_gtp_eps_bearer_id_ie, layout_gtp_eps_bearer_id_ie, encode_gtp_eps_bearer_id_ie. solve_emits. Qed.

Lemma decode_gtp_eps_bearer_id_ie_decodes m buf v :
  ok_gtp_eps_bearer_id_ie v ->
  decodes m buf (layout_gtp_eps_bearer_id_ie v) (decode_gtp_eps_bearer_id_ie m buf) (count_gtp_eps_bearer_id_ie v, v).
Proof. unfold ok_gtp_eps_bearer_id_ie, layout_gtp_eps_bearer_id_ie, decode_gtp_eps_bearer_id_ie, count_gtp_eps_bearer_id_ie. solve_decodes v. Qed.

#[global] Instance gtp_eps_bearer_id_ie_format : WireFormat gtp_eps_bearer_id_ie_t :=
  fixed_format layout_gtp_eps_bearer_id_ie ok_gtp_eps_bearer_id_ie count_gtp_eps_bearer_id_ie encode_gtp_eps_bearer_id_ie decode_gtp_eps_bearer_id_ie 40 ltac:(reflexivity)
    layout_gtp_eps_bearer_id_ie_size encode_gtp_eps_bearer_id_ie_emits decode_gtp_eps_bearer_id_ie_decodes.

End gtp_eps_bearer_id_ie.

(** ** [gtp_emlpp_priority_ie] *)

Module gtp_emlpp_priority_ie.

Record gtp_emlpp_priority_ie_t := {
  header : ie_header_t;
  emlpp_priority : Z  (* uint8_t *)
}.

Definition encode_gtp_emlpp_priority_ie (value : gtp_emlpp_priority_ie_t) (buf : Z) : enc Z :=
  encoded <- ret 0;;
  encoded <- put_header value.(header) buf encoded;;
  encoded <- put_bits value.(emlpp_priority) 8 buf encoded;;
  ret (encoded / CHAR_SIZE).

Definition decode_gtp_emlpp_priority_ie (m : bytes) (buf : Z) : option (Z * gtp_emlpp_priority_ie_t) :=
  run_dec (
  header <- get_header m buf;;
  emlpp_priority <- get_bits m buf 8;;
  ret (header.(hdr_len) + IE_HEADER_SIZE,
      Build_gtp_emlpp_priority_ie_t header emlpp_priority)).

Definition layout_gtp_emlpp_priority_ie (v : gtp_emlpp_priority_ie_t) : list field :=
  [FHdr v.(header); FBits v.(emlpp_priority) 8].

Definition ok_gtp_emlpp_priority_ie (v : gtp_emlpp_priority_ie_t) : Prop :=
  True.

Definition count_gtp_emlpp_priority_ie (v : gtp_emlpp_priority_ie_t) : Z := v.(header).(hdr_len) + IE_HEADER_SIZE.

Lemma layout_gtp_emlpp_priority_ie_size v : ok_gtp_emlpp_priority_ie v -> lsize (layout_gtp_emlpp_priority_ie v) = 40.
Proof. unfold ok_gtp_emlpp_priority_ie, layout_gtp_emlpp_priority_ie. solve_size. Qed.

Lemma encode_gtp_emlpp_priority_ie_emits v buf :
  ok_gtp_emlpp_priority_ie v -> emits buf 0 (layout_gtp_emlpp_priority_ie v) (encode_gtp_emlpp_priority_ie v buf) (40 / 8).
Proof. unfold ok_gtp_emlpp_priority_ie, layout_gtp_emlpp_priority_ie, encode_gtp_emlpp_priority_ie. solve_emits. Qed.

Lemma decode_gtp_emlpp_priority_ie_decodes m buf v :
  ok_gtp_emlpp_priority_ie v ->
  decodes m buf (layout_gtp_emlpp_priority_ie v) (decode_gtp_emlpp_priority_ie m buf) (count_gtp_emlpp_priority_ie v, v).
Proof. unfold ok_gtp_emlpp_priority_ie, layout_gtp_emlpp_priority_ie, decode_gtp_emlpp_priority_ie, count_gtp_emlpp_priority_ie. solve_decodes v. Qed.

#[global] Instance gtp_emlpp_priority_ie_format : WireFormat gtp_emlpp_priority_ie_t :=
  fixed_format layout_gtp_emlpp_priority_ie ok_gtp_emlpp_priority_ie count_gtp_emlpp_priority_ie encode_gtp_emlpp_priority_ie decode_gtp_emlpp_priority_ie 40 ltac:(reflexivity)
    layout_gtp_emlpp_priority_ie_size encode_gtp_emlpp_priority_ie_emits decode_gtp_emlpp_priority_ie_decodes.

End gtp_emlpp_priority_ie.

(** ** [gtp_mdt_cfg_ie] *)

Module gtp_mdt_cfg_ie.

Record gtp_mdt_cfg_ie_t := {
  header : ie_header_t;
  job_type : Z;  (* uint8_t *)
  measrmnts_lsts : Z;  (* uint32_t *)
  rptng_trig : Z;  (* uint8_t *)
  report_interval : Z;  (* uint8_t *)
  report_amount : Z;  (* uint8_t *)
  rsrp_evnt_thresh : Z;  (* uint8_t *)
  rsrq_evnt_thresh : Z;  (* uint8_t *)
  len_of_area_scop : Z;  (* uint8_t *)
  area_scope : Z;  (* uint8_t *)
  spare2 : Z;  (* uint8_t :4 *)
  pli : Z;  (* uint8_t :1 *)
  pmi : Z;  (* uint8_t :1 *)
  mpi : Z;  (* uint8_t :1 *)
  crrmi : Z;  (* uint8_t :1 *)
  coll_prd_rrm_lte : Z;  (* uint8_t *)
  meas_prd_lte : Z;  (* uint8_t *)
  pos_mthd : Z;  (* uint8_t *)
  nbr_of_mdt_plmns : Z;  (* uint8_t *)
  mdt_plmn_list : Z  (* uint8_t *)
}.

Definition encode_gtp_mdt_cfg_ie (value : gtp_mdt_cfg_ie_t) (buf : Z) : enc Z :=
  encoded <- ret 0;;
  encoded <- put_header value.(header) buf encoded;;
  encoded <- put_bits value.(job_type) 8 buf encoded;;
  encoded <- put_bits value.(measrmnts_lsts) 32 buf encoded;;
  encoded <- put_bits value.(rptng_trig) 8 buf encoded;;
  encoded <- put_bits value.(report_interval) 8 buf encoded;;
  encoded <- put_bits value.(report_amount) 8 buf encoded;;
  encoded <- put_bits value.(rsrp_evnt_thresh) 8 buf encoded;;
  encoded <- put_bits value.(rsrq_evnt_thresh) 8 buf encoded;;
  encoded <- put_bits value.(len_of_area_scop) 8 buf encoded;;
  encoded <- put_bits value.(area_scope) 8 buf encoded;;
  encoded <- put_bits value.(spare2) 4 buf encoded;;
  encoded <- put_bits value.(pli) 1 buf encoded;;
  encoded <- put_bits value.(pmi) 1 buf encoded;;
  encoded <- put_bits value.(mpi) 1 buf encoded;;
  encoded <- put_bits value.(crrmi) 1 buf encoded;;
  encoded <- put_bits value.(coll_prd_rrm_lte) 8 buf encoded;;
  encoded <- put_bits value.(meas_prd_lte) 8 buf encoded;;
  encoded <- put_bits value.(pos_mthd) 8 buf encoded;;
  encoded <- put_bits value.(nbr_of_mdt_plmns) 8 buf encoded;;
  encoded <- put_bits value.(mdt_plmn_list) 8 buf encoded;;
  ret (encoded / CHAR_SIZE).

Definition decode_gtp_mdt_cfg_ie (m : bytes) (buf : Z) : option (Z * gtp_mdt_cfg_ie_t) :=
  run_dec (
  header <- get_header m buf;;
  job_type <- get_bits m buf 8;;
  measrmnts_lsts <- get_bits m buf 32;;
  rptng_trig <- get_bits m buf 8;;
  report_interval <- get_bits m buf 8;;
  report_amount <- get_bits m buf 8;;
  rsrp_evnt_thresh <- get_bits m buf 8;;
  rsrq_evnt_thresh <- get_bits m buf 8;;
  len_of_area_scop <- get_bits m buf 8;;
  area_scope <- get_bits m buf 8;;
  spare2 <- get_bits m buf 4;;
  pli <- get_bits m buf 1;;
  pmi <- get_bits m buf 1;;
  mpi <- get_bits m buf 1;;
  crrmi <- get_bits m buf 1;;
  coll_prd_rrm_lte <- get_bits m buf 8;;
  meas_prd_lte <- get_bits m buf 8;;
  pos_mthd <- get_bits m buf 8;;
  nbr_of_mdt_plmns <- get_bits m buf 8;;
  mdt_plmn_list <- get_bits m buf 8;;
  ret (header.(hdr_len) + IE_HEADER_SIZE,
      Build_gtp_mdt_cfg_ie_t header job_type measrmnts_lsts rptng_trig report_interval
       report_amount rsrp_evnt_thresh rsrq_evnt_thresh len_of_area_scop area_scope spare2 pli
       pmi mpi crrmi coll_prd_rrm_lte meas_prd_lte pos_mthd nbr_of_mdt_plmns mdt_plmn_list)).

Definition layout_gtp_mdt_cfg_ie (v : gtp_mdt_cfg_ie_t) : list field :=
  [FHdr v.(header); FBits v.(job_type) 8; FBits v.(measrmnts_lsts) 32; FBits v.(rptng_trig) 8;
   FBits v.(report_interval) 8; FBits v.(report_amount) 8; FBits v.(rsrp_evnt_thresh) 8;
   FBits v.(rsrq_evnt_thresh) 8; FBits v.(len_of_area_scop) 8; FBits v.(area_scope) 8;
   FBits v.(spare2) 4; FBits v.(pli) 1; FBits v.(pmi) 1; FBits v.(mpi) 1;
   FBits v.(crrmi) 1; FBits v.(coll_prd_rrm_lte) 8; FBits v.(meas_prd_lte) 8;
   FBits v.(pos_mthd) 8; FBits v.(nbr_of_mdt_plmns) 8; FBits v.(mdt_plmn_list) 8].

Definition ok_gtp_mdt_cfg_ie (v : gtp_mdt_cfg_ie_t) : Prop :=
  True.

Definition count_gtp_mdt_cfg_ie (v : gtp_mdt_cfg_ie_t) : Z := v.(header).(hdr_len) + IE_HEADER_SIZE.

Lemma layout_gtp_mdt_cfg_ie_size v : ok_gtp_mdt_cfg_ie v -> lsize (layout_gtp_mdt_cfg_ie v) = 176.
Proof. unfold ok_gtp_mdt_cfg_ie, layout_gtp_mdt_cfg_ie. solve_size. Qed.

Lemma encode_gtp_mdt_cfg_ie_emits v buf :
  ok_gtp_mdt_cfg_ie v -> emits buf 0 (layout_gtp_mdt_cfg_ie v) (encode_gtp_mdt_cfg_ie v buf) (176 / 8).
Proof. unfold ok_gtp_mdt_cfg_ie, layout_gtp_mdt_cfg_ie, encode_gtp_mdt_cfg_ie. solve_emits. Qed.

Lemma decode_gtp_mdt_cfg_ie_decodes m buf v :
  ok_gtp_mdt_cfg_ie v ->
  decodes m buf (layout_gtp_mdt_cfg_ie v) (decode_gtp_mdt_cfg_ie m buf) (count_gtp_mdt_cfg_ie v, v).
Proof. unfold ok_gtp_mdt_cfg_ie, layout_gtp_mdt_cfg_ie, decode_gtp_mdt_cfg_ie, count_gtp_mdt_cfg_ie. solve_decodes v. Qed.

#[global] Instance gtp_mdt_cfg_ie_format : WireFormat gtp_mdt_cfg_ie_t :=
  fixed_format layout_gtp_mdt_cfg_ie ok_gtp_mdt_cfg_ie count_gtp_mdt_cfg_ie encode_gtp_mdt_cfg_ie decode_gtp_mdt_cfg_ie 176 ltac:(reflexivity)
    layout_gtp_mdt_cfg_ie_size encode_gtp_mdt_cfg_ie_emits decode_gtp_mdt_cfg_ie_decodes.

End gtp_mdt_cfg_ie.

(** ** [gtp_src_id_ie] *)

Module gtp_src_id_ie.

Record gtp_src_id_ie_t := {
  header : ie_header_t;
  target_cell_id : Z;  (* uint64_t *)
  source_type : Z;  (* uint8_t *)
  source_id : Z  (* uint8_t *)
}.

Definition encode_gtp_src_id_ie (value : gtp_src_id_ie_t) (buf : Z) : enc Z :=
  encoded <- ret 0;;
  encoded <- put_header value.(header) buf encoded;;
  encoded <- put_bits value.(target_cell_id) 64 buf encoded;;
  encoded <- put_bits value.(source_type) 8 buf encoded;;
  encoded <- put_bits value.(source_id) 8 buf encoded;;
  ret (encoded / CHAR_SIZE).

Definition decode_gtp_src_id_ie (m : bytes) (buf : Z) : option (Z * gtp_src_id_ie_t) :=
  run_dec (
  header <- get_header m buf;;
  target_cell_id <- get_bits m buf 64;;
  source_type <- get_bits m buf 8;;
  source_id <- get_bits m buf 8;;
  ret (header.(hdr_len) + IE_HEADER_SIZE,
      Build_gtp_src_id_ie_t header target_cell_id source_type source_id)).

Definition layout_gtp_src_id_ie (v : gtp_src_id_ie_t) : list field :=
  [FHdr v.(header); FBits v.(target_cell_id) 64; FBits v.(source_type) 8;
   FBits v.(source_id) 8].

Definition ok_gtp_src_id_ie (v : gtp_src_id_ie_t) : Prop :=
  True.

Definition count_gtp_src_id_ie (v : gtp_src_id_ie_t) : Z := v.(header).(hdr_len) + IE_HEADER_SIZE.

Lemma layout_gtp_src_id_ie_size v : ok_gtp_src_id_ie v -> lsize (layout_gtp_src_id_ie v) = 112.
Proof. unfold ok_gtp_src_id_ie, layout_gtp_src_id_ie. solve_size. Qed.

Lemma encode_gtp_src_id_ie_emits v buf :
  ok_gtp_src_id_ie v -> emits buf 0 (layout_gtp_src_id_ie v) (encode_gtp_src_id_ie v buf) (112 / 8).
Proof. unfold ok_gtp_src_id_ie, layout_gtp_src_id_ie, encode_gtp_src_id_ie. solve_emits. Qed.

Lemma decode_gtp_src_id_ie_decodes m buf v :
  ok_gtp_src_id_ie v ->
  decodes m buf (layout_gtp_src_id_ie v) (decode_gtp_src_id_ie m buf) (count_gtp_src_id_ie v, v).
Proof. unfold ok_gtp_src_id_ie, layout_gtp_src_id_ie, decode_gtp_src_id_ie, count_gtp_src_id_ie. solve_decodes v. Qed.

#[global] Instance gtp_src_id_ie_format : WireFormat gtp_src_id_ie_t :=
  fixed_format layout_gtp_src_id_ie ok_gtp_src_id_ie count_gtp_src_id_ie encode_gtp_src_id_ie decode_gtp_src_id_ie 112 ltac:(reflexivity)
    layout_gtp_src_id_ie_size encode_gtp_src_id_ie_emits decode_gtp_src_id_ie_decodes.

End gtp_src_id_ie.

(** ** [gtp_ran_nas_cause_ie] *)

Module gtp_ran_nas_cause_ie.

Record gtp_ran_nas_cause_ie_t := {
  header : ie_header_t;
  protocol_type : Z;  (* uint8_t :4 *)
  cause_type : Z;  (* uint8_t :4 *)
  cause_value : Z  (* uint8_t *)
}.

Definition encode_gtp_ran_nas_cause_ie (value : gtp_ran_nas_cause_ie_t) (buf : Z) : enc Z :=
  encoded <- ret 0;;
  encoded <- put_header value.(header) buf encoded;;
  encoded <- put_bits value.(protocol_type) 4 buf encoded;;
  encoded <- put_bits value.(cause_type) 4 buf encoded;;
  encoded <- put_bits value.(cause_value) 8 buf encoded;;
  ret (encoded / CHAR_SIZE).

Definition decode_gtp_ran_nas_cause_ie (m : bytes) (buf : Z) : option (Z * gtp_ran_nas_cause_ie_t) :=
  run_dec (
  header <- get_header m buf;;
  protocol_type <- get_bits m buf 4;;
  cause_type <- get_bits m buf 4;;
  cause_value <- get_bits m buf 8;;
  ret (header.(hdr_len) + IE_HEADER_SIZE,
      Build_gtp_ran_nas_cause_ie_t header protocol_type cause_type cause_value)).

Definition layout_gtp_ran_nas_cause_ie (v : gtp_ran_nas_cause_ie_t) : list field :=
  [FHdr v.(header); FBits v.(protocol_type) 4; FBits v.(cause_type) 4; FBits v.(cause_value) 8].

Definition ok_gtp_ran_nas_cause_ie (v : gtp_ran_nas_cause_ie_t) : Prop :=
  True.

Definition count_gtp_ran_nas_cause_ie (v : gtp_ran_nas_cause_ie_t) : Z := v.(header).(hdr_len) + IE_HEADER_SIZE.

Lemma layout_gtp_ran_nas_cause_ie_size v : ok_gtp_ran_nas_cause_ie v -> lsize (layout_gtp_ran_nas_cause_ie v) = 48.
Proof. unfold ok_gtp_ran_nas_cause_ie, layout_gtp_ran_nas_cause_ie. solve_size. Qed.

Lemma encode_gtp_ran_nas_cause_ie_emits v buf :
  ok_gtp_ran_nas_cause_ie v -> emits buf 0 (layout_gtp_ran_nas_cause_ie v) (encode_gtp_ran_nas_cause_ie v buf) (48 / 8).
Proof. unfold ok_gtp_ran_nas_cause_ie, layout_gtp_ran_nas_cause_ie, encode_gtp_ran_nas_cause_ie. solve_emits. Qed.

Lemma decode_gtp_ran_nas_cause_ie_decodes m buf v :
  ok_gtp_ran_nas_cause_ie v ->
  decodes m buf (layout_gtp_ran_nas_cause_ie v) (decode_gtp_ran_nas_cause_ie m buf) (count_gtp_ran_nas_cause_ie v, v).
Proof. unfold ok_gtp_ran_nas_cause_ie, layout_gtp_ran_nas_cause_ie, decode_gtp_ran_nas_cause_ie, count_gtp_ran_nas_cause_ie. solve_decodes v. Qed.

#[global] Instance gtp_ran_nas_cause_ie_format : WireFormat gtp_ran_nas_cause_ie_t :=
  fixed_format layout_gtp_ran_nas_cause_ie ok_gtp_ran_nas_cause_ie count_gtp_ran_nas_cause_ie encode_gtp_ran_nas_cause_ie decode_gtp_ran_nas_cause_ie 48 ltac:(reflexivity)
    layout_gtp_ran_nas_cause_ie_size encode_gtp_ran_nas_cause_ie_emits decode_gtp_ran_nas_cause_ie_decodes.

End gtp_ran_nas_cause_ie.

(** ** [gtp_pdn_type_ie] *)

Module gtp_pdn_type_ie.

Record gtp_pdn_type_ie_t := {
  header : ie_header_t;
  pdn_type_spare2 : Z;  (* uint8_t :5 *)
  pdn_type_pdn_type : Z  (* uint8_t :3 *)
}.

Definition encode_gtp_pdn_type_ie (value : gtp_pdn_type_ie_t) (buf : Z) : enc Z :=
  encoded <- ret 0;;
  encoded <- put_header value.(header) buf encoded;;
  encoded <- put_bits value.(pdn_type_spare2) 5 buf encoded;;
  encoded <- put_bits value.(pdn_type_pdn_type) 3 buf encoded;;
  ret (encoded / CHAR_SIZE).

Definition decode_gtp_pdn_type_ie (m : bytes) (buf : Z) : option (Z * gtp_pdn_type_ie_t) :=
  run_dec (
  header <- get_header m buf;;
  pdn_type_spare2 <- get_bits m buf 5;;
  pdn_type_pdn_type <- get_bits m buf 3;;
  ret (header.(hdr_len) + IE_HEADER_SIZE,
      Build_gtp_pdn_type_ie_t header pdn_type_spare2 pdn_type_pdn_type)).

Definition layout_gtp_pdn_type_ie (v : gtp_pdn_type_ie_t) : list field :=
  [FHdr v.(header); FBits v.(pdn_type_spare2) 5; FBits v.(pdn_type_pdn_type) 3].

Definition ok_gtp_pdn_type_ie (v : gtp_pdn_type_ie_t) : Prop :=
  True.

Definition count_gtp_pdn_type_ie (v : gtp_pdn_type_ie_t) : Z := v.(header).(hdr_len) + IE_HEADER_SIZE.

Lemma layout_gtp_pdn_type_ie_size v : ok_gtp_pdn_type_ie v -> lsize (layout_gtp_pdn_type_ie v) = 40.
Proof. unfold ok_gtp_pdn_type_ie, layout_gtp_pdn_type_ie. solve_size. Qed.

Lemma encode_gtp_pdn_type_ie_emits v buf :
  ok_gtp_pdn_type_ie v -> emits buf 0 (layout_gtp_pdn_type_ie v) (encode_gtp_pdn_type_ie v buf) (40 / 8).
Proof. unfold ok_gtp_pdn_type_ie, layout_gtp_pdn_type_ie, encode_gtp_pdn_type_ie. solve_emits. Qed.

Lemma decode_gtp_pdn_type_ie_decodes m buf v :
  ok_gtp_pdn_type_ie v ->
  decodes m buf (layout_gtp_pdn_type_ie v) (decode_gtp_pdn_type_ie m buf) (count_gtp_pdn_type_ie v, v).
Proof. unfold ok_gtp_pdn_type_ie, layout_gtp_pdn_type_ie, decode_gtp_pdn_type_ie, count_gtp_pdn_type_ie. solve_decodes v. Qed.

#[global] Instance gtp_pdn_type_ie_format : WireFormat gtp_pdn_type_ie_t :=
  fixed_format layout_gtp_pdn_type_ie ok_gtp_pdn_type_ie count_gtp_pdn_type_ie encode_gtp_pdn_type_ie decode_gtp_pdn_type_ie 40 ltac:(reflexivity)
    layout_gtp_pdn_type_ie_size encode_gtp_pdn_type_ie_emits decode_gtp_pdn_type_ie_decodes.

End gtp_pdn_type_ie.

(** ** [gtp_eps_secur_ctxt_and_quadruplets_ie] *)

Module gtp_eps_secur_ctxt_and_quadruplets_ie.

Record gtp_eps_secur_ctxt_and_quadruplets_ie_t := {
  header : ie_header_t;
  security_mode : Z;  (* uint8_t :3 *)
  nhi : Z;  (* uint8_t :1 *)
  drxi : Z;  (* uint8_t :1 *)
  ksiasme : Z;  (* uint8_t :3 *)
  nbr_of_quintuplets : Z;  (* uint8_t :3 *)
  nbr_of_quadruplet : Z;  (* uint8_t :3 *)
  uambri : Z;  (* uint8_t :1 *)
  osci : Z;  (* uint8_t :1 *)
  sambri : Z;  (* uint8_t :1 *)
  used_nas_intgrty_protctn_algo : Z;  (* uint8_t :3 *)
  used_nas_cipher : Z;  (* uint8_t :4 *)
  nas_dnlnk_cnt : Z;  (* uint32_t :24 *)
  nas_uplnk_cnt : Z;  (* uint32_t :24 *)
  kasme : list Z;  (* uint8_t[KASME_LEN] *)
  auth_quadruplet : Z;  (* uint8_t *)
  auth_quintuplet : Z;  (* uint8_t *)
  drx_parameter : Z;  (* uint16_t *)
  nh : list Z;  (* uint8_t[NH_LEN] *)
  spare2 : Z;  (* uint8_t :5 *)
  ncc : Z;  (* uint8_t :3 *)
  uplnk_subscrbd_ue_ambr : Z;  (* uint32_t *)
  dnlnk_subscrbd_ue_ambr : Z;  (* uint32_t *)
  uplnk_used_ue_ambr : Z;  (* uint32_t *)
  dnlnk_used_ue_ambr : Z;  (* uint32_t *)
  ue_ntwk_capblty_len : Z;  (* uint8_t *)
  ue_ntwk_capblty : Z;  (* uint8_t *)
  ms_ntwk_capblty_len : Z;  (* uint8_t *)
  ms_ntwk_capblty : Z;  (* uint8_t *)
  mei_length : Z;  (* uint8_t *)
  mei : Z;  (* uint8_t *)
  ecna : Z;  (* uint8_t :1 *)
  nbna : Z;  (* uint8_t :1 *)
  hnna : Z;  (* uint8_t :1 *)
  ena : Z;  (* uint8_t :1 *)
  ina : Z;  (* uint8_t :1 *)
  gana : Z;  (* uint8_t :1 *)
  gena : Z;  (* uint8_t :1 *)
  una : Z;  (* uint8_t :1 *)
  s : Z;  (* uint8_t :2 *)
  nhi_old : Z;  (* uint8_t :1 *)
  spare3 : Z;  (* uint8_t :1 *)
  old_ksiasme : Z;  (* uint8_t :3 *)
  old_ncc : Z;  (* uint8_t :3 *)
  old_kasme : list Z;  (* uint8_t[OLD_KASME_LEN] *)
  old_nh : list Z;  (* uint8_t[OLD_NH_LEN] *)
  vdom_pref_ue_usage_len : Z;  (* uint8_t *)
  voice_domain_pref_and_ues_usage_setting : Z;  (* uint8_t *)
  len_of_ue_radio_capblty_paging_info : Z;  (* uint16_t *)
  ue_radio_capblty_paging_info : Z;  (* uint8_t *)
  len_of_extnded_acc_rstrct_data : Z;  (* uint8_t *)
  spare4 : Z;  (* uint8_t :6 *)
  ussrna : Z;  (* uint8_t :1 *)
  nrsrna : Z;  (* uint8_t :1 *)
  ue_addtl_secur_capblty_len : Z;  (* uint8_t *)
  ue_addtl_secur_capblty : Z;  (* uint8_t *)
  len_of_ue_nr_secur_capblty : Z;  (* uint8_t *)
  ue_nr_secur_capblty : Z  (* uint8_t *)
}.

Definition encode_gtp_eps_secur_ctxt_and_quadruplets_ie (value : gtp_eps_secur_ctxt_and_quadruplets_ie_t) (buf : Z) : enc Z :=
  encoded <- ret 0;;
  encoded <- put_header value.(header) buf encoded;;
  encoded <- put_bits value.(security_mode) 3 buf encoded;;
  encoded <- put_bits value.(nhi) 1 buf encoded;;
  encoded <- put_bits value.(drxi) 1 buf encoded;;
  encoded <- put_bits value.(ksiasme) 3 buf encoded;;
  encoded <- put_bits value.(nbr_of_quintuplets) 3 buf encoded;;
  encoded <- put_bits value.(nbr_of_quadruplet) 3 buf encoded;;
  encoded <- put_bits value.(uambri) 1 buf encoded;;
  encoded <- put_bits value.(osci) 1 buf encoded;;
  encoded <- put_bits value.(sambri) 1 buf encoded;;
  encoded <- put_bits value.(used_nas_intgrty_protctn_algo) 3 buf encoded;;
  encoded <- put_bits value.(used_nas_cipher) 4 buf encoded;;
  encoded <- put_bits value.(nas_dnlnk_cnt) 24 buf encoded;;
  encoded <- put_bits value.(nas_uplnk_cnt) 24 buf encoded;;
  encoded <- put_bytes value.(kasme) KASME_LEN buf encoded;;
  encoded <- put_bits value.(auth_quadruplet) 8 buf encoded;;
  encoded <- put_bits value.(auth_quintuplet) 8 buf encoded;;
  encoded <- put_bits value.(drx_parameter) 16 buf encoded;;
  encoded <- put_bytes value.(nh) NH_LEN buf encoded;;
  encoded <- put_bits value.(spare2) 5 buf encoded;;
  encoded <- put_bits value.(ncc) 3 buf encoded;;
  encoded <- put_bits value.(uplnk_subscrbd_ue_ambr) 32 buf encoded;;
  encoded <- put_bits value.(dnlnk_subscrbd_ue_ambr) 32 buf encoded;;
  encoded <- put_bits value.(uplnk_used_ue_ambr) 32 buf encoded;;
  encoded <- put_bits value.(dnlnk_used_ue_ambr) 32 buf encoded;;
  encoded <- put_bits value.(ue_ntwk_capblty_len) 8 buf encoded;;
  encoded <- put_bits value.(ue_ntwk_capblty) 8 buf encoded;;
  encoded <- put_bits value.(ms_ntwk_capblty_len) 8 buf encoded;;
  encoded <- put_bits value.(ms_ntwk_capblty) 8 buf encoded;;
  encoded <- put_bits value.(mei_length) 8 buf encoded;;
  encoded <- put_bits value.(mei) 8 buf encoded;;
  encoded <- put_bits value.(ecna) 1 buf encoded;;
  encoded <- put_bits value.(nbna) 1 buf encoded;;
  encoded <- put_bits value.(hnna) 1 buf encoded;;
  encoded <- put_bits value.(ena) 1 buf encoded;;
  encoded <- put_bits value.(ina) 1 buf encoded;;
  encoded <- put_bits value.(gana) 1 buf encoded;;
  encoded <- put_bits value.(gena) 1 buf encoded;;
  encoded <- put_bits value.(una) 1 buf encoded;;
  encoded <- put_bits value.(s) 2 buf encoded;;
  encoded <- put_bits value.(nhi_old) 1 buf encoded;;
  encoded <- put_bits value.(spare3) 1 buf encoded;;
  encoded <- put_bits value.(old_ksiasme) 3 buf encoded;;
  encoded <- put_bits value.(old_ncc) 3 buf encoded;;
  encoded <- put_bytes value.(old_kasme) OLD_KASME_LEN buf encoded;;
  encoded <- put_bytes value.(old_nh) OLD_NH_LEN buf encoded;;
  encoded <- put_bits value.(vdom_pref_ue_usage_len) 8 buf encoded;;
  encoded <- put_bits value.(voice_domain_pref_and_ues_usage_setting) 8 buf encoded;;
  encoded <- put_bits value.(len_of_ue_radio_capblty_paging_info) 16 buf encoded;;
  encoded <- put_bits value.(ue_radio_capblty_paging_info) 8 buf encoded;;
  encoded <- put_bits value.(len_of_extnded_acc_rstrct_data) 8 buf encoded;;
  encoded <- put_bits value.(spare4) 6 buf encoded;;
  encoded <- put_bits value.(ussrna) 1 buf encoded;;
  encoded <- put_bits value.(nrsrna) 1 buf encoded;;
  encoded <- put_bits value.(ue_addtl_secur_capblty_len) 8 buf encoded;;
  encoded <- put_bits value.(ue_addtl_secur_capblty) 8 buf encoded;;
  encoded <- put_bits value.(len_of_ue_nr_secur_capblty) 8 buf encoded;;
  encoded <- put_bits value.(ue_nr_secur_capblty) 8 buf encoded;;
  ret (encoded / CHAR_SIZE).

Definition decode_gtp_eps_secur_ctxt_and_quadruplets_ie (m : bytes) (buf : Z) : option (Z * gtp_eps_secur_ctxt_and_quadruplets_ie_t) :=
  run_dec (
  header <- get_header m buf;;
  security_mode <- get_bits m buf 3;;
  nhi <- get_bits m buf 1;;
  drxi <- get_bits m buf 1;;
  ksiasme <- get_bits m buf 3;;
  nbr_of_quintuplets <- get_bits m buf 3;;
  nbr_of_quadruplet <- get_bits m buf 3;;
  uambri <- get_bits m buf 1;;
  osci <- get_bits m buf 1;;
  sambri <- get_bits m buf 1;;
  used_nas_intgrty_protctn_algo <- get_bits m buf 3;;
  used_nas_cipher <- get_bits m buf 4;;
  nas_dnlnk_cnt <- get_bits m buf 24;;
  nas_uplnk_cnt <- get_bits m buf 24;;
  kasme <- get_bytes m buf KASME_LEN;;
  auth_quadruplet <- get_bits m buf 8;;
  auth_quintuplet <- get_bits m buf 8;;
  drx_parameter <- get_bits m buf 16;;
  nh <- get_bytes m buf NH_LEN;;
  spare2 <- get_bits m buf 5;;
  ncc <- get_bits m buf 3;;
  uplnk_subscrbd_ue_ambr <- get_bits m buf 32;;
  dnlnk_subscrbd_ue_ambr <- get_bits m buf 32;;
  uplnk_used_ue_ambr <- get_bits m buf 32;;
  dnlnk_used_ue_ambr <- get_bits m buf 32;;
  ue_ntwk_capblty_len <- get_bits m buf 8;;
  ue_ntwk_capblty <- get_bits m buf 8;;
  ms_ntwk_capblty_len <- get_bits m buf 8;;
  ms_ntwk_capblty <- get_bits m buf 8;;
  mei_length <- get_bits m buf 8;;
  mei <- get_bits m buf 8;;
  ecna <- get_bits m buf 1;;
  nbna <- get_bits m buf 1;;
  hnna <- get_bits m buf 1;;
  ena <- get_bits m buf 1;;
  ina <- get_bits m buf 1;;
  gana <- get_bits m buf 1;;
  gena <- get_bits m buf 1;;
  una <- get_bits m buf 1;;
  s <- get_bits m buf 2;;
  nhi_old <- get_bits m buf 1;;
  spare3 <- get_bits m buf 1;;
  old_ksiasme <- get_bits m buf 3;;
  old_ncc <- get_bits m buf 3;;
  old_kasme <- get_bytes m buf OLD_KASME_LEN;;
  old_nh <- get_bytes m buf OLD_NH_LEN;;
  vdom_pref_ue_usage_len <- get_bits m buf 8;;
  voice_domain_pref_and_ues_usage_setting <- get_bits m buf 8;;
  len_of_ue_radio_capblty_paging_info <- get_bits m buf 16;;
  ue_radio_capblty_paging_info <- get_bits m buf 8;;
  len_of_extnded_acc_rstrct_data <- get_bits m buf 8;;
  spare4 <- get_bits m buf 6;;
  ussrna <- get_bits m buf 1;;
  nrsrna <- get_bits m buf 1;;
  ue_addtl_secur_capblty_len <- get_bits m buf 8;;
  ue_addtl_secur_capblty <- get_bits m buf 8;;
  len_of_ue_nr_secur_capblty <- get_bits m buf 8;;
  ue_nr_secur_capblty <- get_bits m buf 8;;
  ret (header.(hdr_len) + IE_HEADER_SIZE,
      Build_gtp_eps_secur_ctxt_and_quadruplets_ie_t header security_mode nhi drxi ksiasme
       nbr_of_quintuplets nbr_of_quadruplet uambri osci sambri used_nas_intgrty_protctn_algo
       used_nas_cipher nas_dnlnk_cnt nas_uplnk_cnt kasme auth_quadruplet auth_quintuplet
       drx_parameter nh spare2 ncc uplnk_subscrbd_ue_ambr dnlnk_subscrbd_ue_ambr
       uplnk_used_ue_ambr dnlnk_used_ue_ambr ue_ntwk_capblty_len ue_ntwk_capblty
       ms_ntwk_capblty_len ms_ntwk_capblty mei_length mei ecna nbna hnna ena ina gana gena
       una s nhi_old spare3 old_ksiasme old_ncc old_kasme old_nh vdom_pref_ue_usage_len
       voice_domain_pref_and_ues_usage_setting len_of_ue_radio_capblty_paging_info
       ue_radio_capblty_paging_info len_of_extnded_acc_rstrct_data spare4 ussrna nrsrna
       ue_addtl_secur_capblty_len ue_addtl_secur_capblty len_of_ue_nr_secur_capblty
       ue_nr_secur_capblty)).

End gtp_eps_secur_ctxt_and_quadruplets_ie.

(** ** [gtp_flow_qlty_of_svc_ie] *)

Module gtp_flow_qlty_of_svc_ie.

Record gtp_flow_qlty_of_svc_ie_t := {
  header : ie_header_t;
  qci : Z;  (* uint8_t *)
  max_bit_rate_uplnk : Z;  (* uint64_t :40 *)
  max_bit_rate_dnlnk : Z;  (* uint64_t :40 *)
  guarntd_bit_rate_uplnk : Z;  (* uint64_t :40 *)
  guarntd_bit_rate_dnlnk : Z  (* uint64_t :40 *)
}.

Definition encode_gtp_flow_qlty_of_svc_ie (value : gtp_flow_qlty_of_svc_ie_t) (buf : Z) : enc Z :=
  encoded <- ret 0;;
  encoded <- put_header value.(header) buf encoded;;
  encoded <- put_bits value.(qci) 8 buf encoded;;
  encoded <- put_bits value.(max_bit_rate_uplnk) 40 buf encoded;;
  encoded <- put_bits value.(max_bit_rate_dnlnk) 40 buf encoded;;
  encoded <- put_bits value.(guarntd_bit_rate_uplnk) 40 buf encoded;;
  encoded <- put_bits value.(guarntd_bit_rate_dnlnk) 40 buf encoded;;
  ret (encoded / CHAR_SIZE).

Definition decode_gtp_flow_qlty_of_svc_ie (m : bytes) (buf : Z) : option (Z * gtp_flow_qlty_of_svc_ie_t) :=
  run_dec (
  header <- get_header m buf;;
  qci <- get_bits m buf 8;;
  max_bit_rate_uplnk <- get_bits m buf 40;;
  max_bit_rate_dnlnk <- get_bits m buf 40;;
  guarntd_bit_rate_uplnk <- get_bits m buf 40;;
  guarntd_bit_rate_dnlnk <- get_bits m buf 40;;
  ret (header.(hdr_len) + IE_HEADER_SIZE,
      Build_gtp_flow_qlty_of_svc_ie_t header qci max_bit_rate_uplnk max_bit_rate_dnlnk
       guarntd_bit_rate_uplnk guarntd_bit_rate_dnlnk)).

Definition layout_gtp_flow_qlty_of_svc_ie (v : gtp_flow_qlty_of_svc_ie_t) : list field :=
  [FHdr v.(header); FBits v.(qci) 8; FBits v.(max_bit_rate_uplnk) 40;
   FBits v.(max_bit_rate_dnlnk) 40; FBits v.(guarntd_bit_rate_uplnk) 40;
   FBits v.(guarntd_bit_rate_dnlnk) 40].

Definition ok_gtp_flow_qlty_of_svc_ie (v : gtp_flow_qlty_of_svc_ie_t) : Prop :=
  True.

Definition count_gtp_flow_qlty_of_svc_ie (v : gtp_flow_qlty_of_svc_ie_t) : Z := v.(header).(hdr_len) + IE_HEADER_SIZE.

Lemma layout_gtp_flow_qlty_of_svc_ie_size v : ok_gtp_flow_qlty_of_svc_ie v -> lsize (layout_gtp_flow_qlty_of_svc_ie v) = 200.
Proof. unfold ok_gtp_flow_qlty_of_svc_ie, layout_gtp_flow_qlty_of_svc_ie. solve_size. Qed.

Lemma encode_gtp_flow_qlty_of_svc_ie_emits v buf :
  ok_gtp_flow_qlty_of_svc_ie v -> emits buf 0 (layout_gtp_flow_qlty_of_svc_ie v) (encode_gtp_flow_qlty_of_svc_ie v buf) (200 / 8).
Proof. unfold ok_gtp_flow_qlty_of_svc_ie, layout_gtp_flow_qlty_of_svc_ie, encode_gtp_flow_qlty_of_svc_ie. solve_emits. Qed.

Lemma decode_gtp_flow_qlty_of_svc_ie_decodes m buf v :
  ok_gtp_flow_qlty_of_svc_ie v ->
  decodes m buf (layout_gtp_flow_qlty_of_svc_ie v) (decode_gtp_flow_qlty_of_svc_ie m buf) (count_gtp_flow_qlty_of_svc_ie v, v).
Proof. unfold ok_gtp_flow_qlty_of_svc_ie, layout_gtp_flow_qlty_of_svc_ie, decode_gtp_flow_qlty_of_svc_ie, count_gtp_flow_qlty_of_svc_ie. solve_decodes v. Qed.

#[global] Instance gtp_flow_qlty_of_svc_ie_format : WireFormat gtp_flow_qlty_of_svc_ie_t :=
  fixed_format layout_gtp_flow_qlty_of_svc_ie ok_gtp_flow_qlty_of_svc_ie count_gtp_flow_qlty_of_svc_ie encode_gtp_flow_qlty_of_svc_ie decode_gtp_flow_qlty_of_svc_ie 200 ltac:(reflexivity)
    layout_gtp_flow_qlty_of_svc_ie_size encode_gtp_flow_qlty_of_svc_ie_emits decode_gtp_flow_qlty_of_svc_ie_decodes.

End gtp_flow_qlty_of_svc_ie.

(** ** [gtp_recovery_ie] *)

Module gtp_recovery_ie.

Record gtp_recovery_ie_t := {
  header : ie_header_t;
  recovery : Z  (* uint8_t *)
}.

Definition encode_gtp_recovery_ie (value : gtp_recovery_ie_t) (buf : Z) : enc Z :=
  encoded <- ret 0;;
  encoded <- put_header value.(header) buf encoded;;
  encoded <- put_bits value.(recovery) 8 buf encoded;;
  ret (encoded / CHAR_SIZE).

Definition decode_gtp_recovery_ie (m : bytes) (buf : Z) : option (Z * gtp_recovery_ie_t) :=
  run_dec (
  header <- get_header m buf;;
  recovery <- get_bits m buf 8;;
  ret (header.(hdr_len) + IE_HEADER_SIZE,
      Build_gtp_recovery_ie_t header recovery)).

Definition layout_gtp_recovery_ie (v : gtp_recovery_ie_t) : list field :=
  [FHdr v.(header); FBits v.(recovery) 8].

Definition ok_gtp_recovery_ie (v : gtp_recovery_ie_t) : Prop :=
  True.

Definition count_gtp_recovery_ie (v : gtp_recovery_ie_t) : Z := v.(header).(hdr_len) + IE_HEADER_SIZE.

Lemma layout_gtp_recovery_ie_size v : ok_gtp_recovery_ie v -> lsize (layout_gtp_recovery_ie v) = 40.
Proof. unfold ok_gtp_recovery_ie, layout_gtp_recovery_ie. solve_size. Qed.

Lemma encode_gtp_recovery_ie_emits v buf :
  ok_gtp_recovery_ie v -> emits buf 0 (layout_gtp_recovery_ie v) (encode_gtp_recovery_ie v buf) (40 / 8).
Proof. unfold ok_gtp_recovery_ie, layout_gtp_recovery_ie, encode_gtp_recovery_ie. solve_emits. Qed.

Lemma decode_gtp_recovery_ie_decodes m buf v :
  ok_gtp_recovery_ie v ->
  decodes m buf (layout_gtp_recovery_ie v) (decode_gtp_recovery_ie m buf) (count_gtp_recovery_ie v, v).
Proof. unfold ok_gtp_recovery_ie, layout_gtp_recovery_ie, decode_gtp_recovery_ie, count_gtp_recovery_ie. solve_decodes v. Qed.

#[global] Instance gtp_recovery_ie_format : WireFormat gtp_recovery_ie_t :=
  fixed_format layout_gtp_recovery_ie ok_gtp_recovery_ie count_gtp_recovery_ie encode_gtp_recovery_ie decode_gtp_recovery_ie 40 ltac:(reflexivity)
    layout_gtp_recovery_ie_size encode_gtp_recovery_ie_emits decode_gtp_recovery_ie_decodes.

End gtp_recovery_ie.

(** ** [gtp_srvng_plmn_rate_ctl_ie] *)

Module gtp_srvng_plmn_rate_ctl_ie.

Record gtp_srvng_plmn_rate_ctl_ie_t := {
  header : ie_header_t;
  uplnk_rate_lmt : Z;  (* uint16_t *)
  dnlnk_rate_lmt : Z  (* uint16_t *)
}.

Definition encode_gtp_srvng_plmn_rate_ctl_ie (value : gtp_srvng_plmn_rate_ctl_ie_t) (buf : Z) : enc Z :=
  encoded <- ret 0;;
  encoded <- put_header value.(header) buf encoded;;
  encoded <- put_bits value.(uplnk_rate_lmt) 16 buf encoded;;
  encoded <- put_bits value.(dnlnk_rate_lmt) 16 buf encoded;;
  ret (encoded / CHAR_SIZE).

Definition decode_gtp_srvng_plmn_rate_ctl_ie (m : bytes) (buf : Z) : option (Z * gtp_srvng_plmn_rate_ctl_ie_t) :=
  run_dec (
  header <- get_header m buf;;
  uplnk_rate_lmt <- get_bits m buf 16;;
  dnlnk_rate_lmt <- get_bits m buf 16;;
  ret (header.(hdr_len) + IE_HEADER_SIZE,
      Build_gtp_srvng_plmn_rate_ctl_ie_t header uplnk_rate_lmt dnlnk_rate_lmt)).

Definition layout_gtp_srvng_plmn_rate_ctl_ie (v : gtp_srvng_plmn_rate_ctl_ie_t) : list field :=
  [FHdr v.(header); FBits v.(uplnk_rate_lmt) 16; FBits v.(dnlnk_rate_lmt) 16].

Definition ok_gtp_srvng_plmn_rate_ctl_ie (v : gtp_srvng_plmn_rate_ctl_ie_t) : Prop :=
  True.

Definition count_gtp_srvng_plmn_rate_ctl_ie (v : gtp_srvng_plmn_rate_ctl_ie_t) : Z := v.(header).(hdr_len) + IE_HEADER_SIZE.

Lemma layout_gtp_srvng_plmn_rate_ctl_ie_size v : ok_gtp_srvng_plmn_rate_ctl_ie v -> lsize (layout_gtp_srvng_plmn_rate_ctl_ie v) = 64.
Proof. unfold ok_gtp_srvng_plmn_rate_ctl_ie, layout_gtp_srvng_plmn_rate_ctl_ie. solve_size. Qed.

Lemma encode_gtp_srvng_plmn_rate_ctl_ie_emits v buf :
  ok_gtp_srvng_plmn_rate_ctl_ie v -> emits buf 0 (layout_gtp_srvng_plmn_rate_ctl_ie v) (encode_gtp_srvng_plmn_rate_ctl_ie v buf) (64 / 8).
Proof. unfold ok_gtp_srvng_plmn_rate_ctl_ie, layout_gtp_srvng_plmn_rate_ctl_ie, encode_gtp_srvng_plmn_rate_ctl_ie. solve_emits. Qed.

Lemma decode_gtp_srvng_plmn_rate_ctl_ie_decodes m buf v :
  ok_gtp_srvng_plmn_rate_ctl_ie v ->
  decodes m buf (layout_gtp_srvng_plmn_rate_ctl_ie v) (decode_gtp_srvng_plmn_rate_ctl_ie m buf) (count_gtp_srvng_plmn_rate_ctl_ie v, v).
Proof. unfold ok_gtp_srvng_plmn_rate_ctl_ie, layout_gtp_srvng_plmn_rate_ctl_ie, decode_gtp_srvng_plmn_rate_ctl_ie, count_gtp_srvng_plmn_rate_ctl_ie. solve_decodes v. Qed.

#[global] Instance gtp_srvng_plmn_rate_ctl_ie_format : WireFormat gtp_srvng_plmn_rate_ctl_ie_t :=
  fixed_format layout_gtp_srvng_plmn_rate_ctl_ie ok_gtp_srvng_plmn_rate_ctl_ie count_gtp_srvng_plmn_rate_ctl_ie encode_gtp_srvng_plmn_rate_ctl_ie decode_gtp_srvng_plmn_rate_ctl_ie 64 ltac:(reflexivity)
    layout_gtp_srvng_plmn_rate_ctl_ie_size encode_gtp_srvng_plmn_rate_ctl_ie_emits decode_gtp_srvng_plmn_rate_ctl_ie_decodes.

End gtp_srvng_plmn_rate_ctl_ie.

(** ** [gtp_mbms_dist_ack_ie] *)

Module gtp_mbms_dist_ack_ie.

Record gtp_mbms_dist_ack_ie_t := {
  header : ie_header_t;
  spare2 : Z;  (* uint8_t :6 *)
  distr_ind : Z  (* uint8_t :2 *)
}.

Definition encode_gtp_mbms_dist_ack_ie (value : gtp_mbms_dist_ack_ie_t) (buf : Z) : enc Z :=
  encoded <- ret 0;;
  encoded <- put_header value.(header) buf encoded;;
  encoded <- put_bits value.(spare2) 6 buf encoded;;
  encoded <- put_bits value.(distr_ind) 2 buf encoded;;
  ret (encoded / CHAR_SIZE).

Definition decode_gtp_mbms_dist_ack_ie (m : bytes) (buf : Z) : option (Z * gtp_mbms_dist_ack_ie_t) :=
  run_dec (
  header <- get_header m buf;;
  spare2 <- get_bits m buf 6;;
  distr_ind <- get_bits m buf 2;;
  ret (header.(hdr_len) + IE_HEADER_SIZE,
      Build_gtp_mbms_dist_ack_ie_t header spare2 distr_ind)).

Definition layout_gtp_mbms_dist_ack_ie (v : gtp_mbms_dist_ack_ie_t) : list field :=
  [FHdr v.(header); FBits v.(spare2) 6; FBits v.(distr_ind) 2].

Definition ok_gtp_mbms_dist_ack_ie (v : gtp_mbms_dist_ack_ie_t) : Prop :=
  True.

Definition count_gtp_mbms_dist_ack_ie (v : gtp_mbms_dist_ack_ie_t) : Z := v.(header).(hdr_len) + IE_HEADER_SIZE.

Lemma layout_gtp_mbms_dist_ack_ie_size v : ok_gtp_mbms_dist_ack_ie v -> lsize (layout_gtp_mbms_dist_ack_ie v) = 40.
Proof. unfold ok_gtp_mbms_dist_ack_ie, layout_gtp_mbms_dist_ack_ie. solve_size. Qed.

Lemma encode_gtp_mbms_dist_ack_ie_emits v buf :
  ok_gtp_mbms_dist_ack_ie v -> emits buf 0 (layout_gtp_mbms_dist_ack_ie v) (encode_gtp_mbms_dist_ack_ie v buf) (40 / 8).
Proof. unfold ok_gtp_mbms_dist_ack_ie, layout_gtp_mbms_dist_ack_ie, encode_gtp_mbms_dist_ack_ie. solve_emits. Qed.

Lemma decode_gtp_mbms_dist_ack_ie_decodes m buf v :
  ok_gtp_mbms_dist_ack_ie v ->
  decodes m buf (layout_gtp_mbms_dist_ack_ie v) (decode_gtp_mbms_dist_ack_ie m buf) (count_gtp_mbms_dist_ack_ie v, v).
Proof. unfold ok_gtp_mbms_dist_ack_ie, layout_gtp_mbms_dist_ack_ie, decode_gtp_mbms_dist_ack_ie, count_gtp_mbms_dist_ack_ie. solve_decodes v. Qed.

#[global] Instance gtp_mbms_dist_ack_ie_format : WireFormat gtp_mbms_dist_ack_ie_t :=
  fixed_format layout_gtp_mbms_dist_ack_ie ok_gtp_mbms_dist_ack_ie count_gtp_mbms_dist_ack_ie encode_gtp_mbms_dist_ack_ie decode_gtp_mbms_dist_ack_ie 40 ltac:(reflexivity)
    layout_gtp_mbms_dist_ack_ie_size encode_gtp_mbms_dist_ack_ie_emits decode_gtp_mbms_dist_ack_ie_decodes.

End gtp_mbms_dist_ack_ie.

(** ** [gtp_ue_time_zone_ie] *)

Module gtp_ue_time_zone_ie.

Record gtp_ue_time_zone_ie_t := {
  header : ie_header_t;
  time_zone : Z;  (* uint8_t *)
  spare2 : Z;  (* uint8_t :6 *)
  daylt_svng_time : Z  (* uint8_t :2 *)
}.

Definition encode_gtp_ue_time_zone_ie (value : gtp_ue_time_zone_ie_t) (buf : Z) : enc Z :=
  encoded <- ret 0;;
  encoded <- put_header value.(header) buf encoded;;
  encoded <- put_bits value.(time_zone) 8 buf encoded;;
  encoded <- put_bits value.(spare2) 6 buf encoded;;
  encoded <- put_bits value.(daylt_svng_time) 2 buf encoded;;
  ret (encoded / CHAR_SIZE).

Definition decode_gtp_ue_time_zone_ie (m : bytes) (buf : Z) : option (Z * gtp_ue_time_zone_ie_t) :=
  run_dec (
  header <- get_header m buf;;
  time_zone <- get_bits m buf 8;;
  spare2 <- get_bits m buf 6;;
  daylt_svng_time <- get_bits m buf 2;;
  ret (header.(hdr_len) + IE_HEADER_SIZE,
      Build_gtp_ue_time_zone_ie_t header time_zone spare2 daylt_svng_time)).

Definition layout_gtp_ue_time_zone_ie (v : gtp_ue_time_zone_ie_t) : list field :=
  [FHdr v.(header); FBits v.(time_zone) 8; FBits v.(spare2) 6; FBits v.(daylt_svng_time) 2].

Definition ok_gtp_ue_time_zone_ie (v : gtp_ue_time_zone_ie_t) : Prop :=
  True.

Definition count_gtp_ue_time_zone_ie (v : gtp_ue_time_zone_ie_t) : Z := v.(header).(hdr_len) + IE_HEADER_SIZE.

Lemma layout_gtp_ue_time_zone_ie_size v : ok_gtp_ue_time_zone_ie v -> lsize (layout_gtp_ue_time_zone_ie v) = 48.
Proof. unfold ok_gtp_ue_time_zone_ie, layout_gtp_ue_time_zone_ie. solve_size. Qed.

Lemma encode_gtp_ue_time_zone_ie_emits v buf :
  ok_gtp_ue_time_zone_ie v -> emits buf 0 (layout_gtp_ue_time_zone_ie v) (encode_gtp_ue_time_zone_ie v buf) (48 / 8).
Proof. unfold ok_gtp_ue_time_zone_ie, layout_gtp_ue_time_zone_ie, encode_gtp_ue_time_zone_ie. solve_emits. Qed.

Lemma decode_gtp_ue_time_zone_ie_decodes m buf v :
  ok_gtp_ue_time_zone_ie v ->
  decodes m buf (layout_gtp_ue_time_zone_ie v) (decode_gtp_ue_time_zone_ie m buf) (count_gtp_ue_time_zone_ie v, v).
Proof. unfold ok_gtp_ue_time_zone_ie, layout_gtp_ue_time_zone_ie, decode_gtp_ue_time_zone_ie, count_gtp_ue_time_zone_ie. solve_decodes v. Qed.

#[global] Instance gtp_ue_time_zone_ie_format : WireFormat gtp_ue_time_zone_ie_t :=
  fixed_format layout_gtp_ue_time_zone_ie ok_gtp_ue_time_zone_ie count_gtp_ue_time_zone_ie encode_gtp_ue_time_zone_ie decode_gtp_ue_time_zone_ie 48 ltac:(reflexivity)
    layout_gtp_ue_time_zone_ie_size encode_gtp_ue_time_zone_ie_emits decode_gtp_ue_time_zone_ie_decodes.

End gtp_ue_time_zone_ie.

(** ** [gtp_trstd_wlan_mode_indctn_ie] *)

Module gtp_trstd_wlan_mode_indctn_ie.

Record gtp_trstd_wlan_mode_indctn_ie_t := {
  header : ie_header_t;
  spare2 : Z;  (* uint8_t :6 *)
  mcm : Z;  (* uint8_t :2 *)
  scm : Z  (* uint8_t :1 *)
}.

Definition encode_gtp_trstd_wlan_mode_indctn_ie (value : gtp_trstd_wlan_mode_indctn_ie_t) (buf : Z) : enc Z :=
  encoded <- ret 0;;
  encoded <- put_header value.(header) buf encoded;;
  encoded <- put_bits value.(spare2) 6 buf encoded;;
  encoded <- put_bits value.(mcm) 2 buf encoded;;
  encoded <- put_bits value.(scm) 1 buf encoded;;
  ret (encoded / CHAR_SIZE).

Definition decode_gtp_trstd_wlan_mode_indctn_ie (m : bytes) (buf : Z) : option (Z * gtp_trstd_wlan_mode_indctn_ie_t) :=
  run_dec (
  header <- get_header m buf;;
  spare2 <- get_bits m buf 6;;
  mcm <- get_bits m buf 2;;
  scm <- get_bits m buf 1;;
  ret (header.(hdr_len) + IE_HEADER_SIZE,
      Build_gtp_trstd_wlan_mode_indctn_ie_t header spare2 mcm scm)).

Definition layout_gtp_trstd_wlan_mode_indctn_ie (v : gtp_trstd_wlan_mode_indctn_ie_t) : list field :=
  [FHdr v.(header); FBits v.(spare2) 6; FBits v.(mcm) 2; FBits v.(scm) 1].

Definition ok_gtp_trstd_wlan_mode_indctn_ie (v : gtp_trstd_wlan_mode_indctn_ie_t) : Prop :=
  True.

Definition count_gtp_trstd_wlan_mode_indctn_ie (v : gtp_trstd_wlan_mode_indctn_ie_t) : Z := v.(header).(hdr_len) + IE_HEADER_SIZE.

Lemma layout_gtp_trstd_wlan_mode_indctn_ie_size v : ok_gtp_trstd_wlan_mode_indctn_ie v -> lsize (layout_gtp_trstd_wlan_mode_indctn_ie v) = 41.
Proof. unfold ok_gtp_trstd_wlan_mode_indctn_ie, layout_gtp_trstd_wlan_mode_indctn_ie. solve_size. Qed.

Lemma encode_gtp_trstd_wlan_mode_indctn_ie_emits v buf :
  ok_gtp_trstd_wlan_mode_indctn_ie v -> emits buf 0 (layout_gtp_trstd_wlan_mode_indctn_ie v) (encode_gtp_trstd_wlan_mode_indctn_ie v buf) (41 / 8).
Proof. unfold ok_gtp_trstd_wlan_mode_indctn_ie, layout_gtp_trstd_wlan_mode_indctn_ie, encode_gtp_trstd_wlan_mode_indctn_ie. solve_emits. Qed.

Lemma decode_gtp_trstd_wlan_mode_indctn_ie_decodes m buf v :
  ok_gtp_trstd_wlan_mode_indctn_ie v ->
  decodes m buf (layout_gtp_trstd_wlan_mode_indctn_ie v) (decode_gtp_trstd_wlan_mode_indctn_ie m buf) (count_gtp_trstd_wlan_mode_indctn_ie v, v).
Proof. unfold ok_gtp_trstd_wlan_mode_indctn_ie, layout_gtp_trstd_wlan_mode_indctn_ie, decode_gtp_trstd_wlan_mode_indctn_ie, count_gtp_trstd_wlan_mode_indctn_ie. solve_decodes v. Qed.

#[global] Instance gtp_trstd_wlan_mode_indctn_ie_format : WireFormat gtp_trstd_wlan_mode_indctn_ie_t :=
  fixed_format layout_gtp_trstd_wlan_mode_indctn_ie ok_gtp_trstd_wlan_mode_indctn_ie count_gtp_trstd_wlan_mode_indctn_ie encode_gtp_trstd_wlan_mode_indctn_ie decode_gtp_trstd_wlan_mode_indctn_ie 41 ltac:(reflexivity)
    layout_gtp_trstd_wlan_mode_indctn_ie_size encode_gtp_trstd_wlan_mode_indctn_ie_emits decode_gtp_trstd_wlan_mode_indctn_ie_decodes.

End gtp_trstd_wlan_mode_indctn_ie.

(** ** [gtp_proc_trans_id_ie] *)

Module gtp_proc_trans_id_ie.

Record gtp_proc_trans_id_ie_t := {
  header : ie_header_t;
  proc_trans_id : Z  (* uint8_t *)
}.

Definition encode_gtp_proc_trans_id_ie (value : gtp_proc_trans_id_ie_t) (buf : Z) : enc Z :=
  encoded <- ret 0;;
  encoded <- put_header value.(header) buf encoded;;
  encoded <- put_bits value.(proc_trans_id) 8 buf encoded;;
  ret (encoded / CHAR_SIZE).

Definition decode_gtp_proc_trans_id_ie (m : bytes) (buf : Z) : option (Z * gtp_proc_trans_id_ie_t) :=
  run_dec (
  header <- get_header m buf;;
  proc_trans_id <- get_bits m buf 8;;
  ret (header.(hdr_len) + IE_HEADER_SIZE,
      Build_gtp_proc_trans_id_ie_t header proc_trans_id)).

Definition layout_gtp_proc_trans_id_ie (v : gtp_proc_trans_id_ie_t) : list field :=
  [FHdr v.(header); FBits v.(proc_trans_id) 8].

Definition ok_gtp_proc_trans_id_ie (v : gtp_proc_trans_id_ie_t) : Prop :=
  True.

Definition count_gtp_proc_trans_id_ie (v : gtp_proc_trans_id_ie_t) : Z := v.(header).(hdr_len) + IE_HEADER_SIZE.

Lemma layout_gtp_proc_trans_id_ie_size v : ok_gtp_proc_trans_id_ie v -> lsize (layout_gtp_proc_trans_id_ie v) = 40.
Proof. unfold ok_gtp_proc_trans_id_ie, layout_gtp_proc_trans_id_ie. solve_size. Qed.

Lemma encode_gtp_proc_trans_id_ie_emits v buf :
  ok_gtp_proc_trans_id_ie v -> emits buf 0 (layout_gtp_proc_trans_id_ie v) (encode_gtp_proc_trans_id_ie v buf) (40 / 8).
Proof. unfold ok_gtp_proc_trans_id_ie, layout_gtp_proc_trans_id_ie, encode_gtp_proc_trans_id_ie. solve_emits. Qed.

Lemma decode_gtp_proc_trans_id_ie_decodes m buf v :
  ok_gtp_proc_trans_id_ie v ->
  decodes m buf (layout_gtp_proc_trans_id_ie v) (decode_gtp_proc_trans_id_ie m buf) (count_gtp_proc_trans_id_ie v, v).
Proof. unfold ok_gtp_proc_trans_id_ie, layout_gtp_proc_trans_id_ie, decode_gtp_proc_trans_id_ie, count_gtp_proc_trans_id_ie. solve_decodes v. Qed.

#[global] Instance gtp_proc_trans_id_ie_format : WireFormat gtp_proc_trans_id_ie_t :=
  fixed_format layout_gtp_proc_trans_id_ie ok_gtp_proc_trans_id_ie count_gtp_proc_trans_id_ie encode_gtp_proc_trans_id_ie decode_gtp_proc_trans_id_ie 40 ltac:(reflexivity)
    layout_gtp_proc_trans_id_ie_size encode_gtp_proc_trans_id_ie_emits decode_gtp_proc_trans_id_ie_decodes.

End gtp_proc_trans_id_ie.

(** ** [gtp_wlan_offldblty_indctn_ie] *)

Module gtp_wlan_offldblty_indctn_ie.

Record gtp_wlan_offldblty_indctn_ie_t := {
  header : ie_header_t;
  spare2 : Z;  (* uint8_t :6 *)
  eutran_indctn : Z;  (* uint8_t :1 *)
  utran_indctn : Z  (* uint8_t :1 *)
}.

Definition encode_gtp_wlan_offldblty_indctn_ie (value : gtp_wlan_offldblty_indctn_ie_t) (buf : Z) : enc Z :=
  encoded <- ret 0;;
  encoded <- put_header value.(header) buf encoded;;
  encoded <- put_bits value.(spare2) 6 buf encoded;;
  encoded <- put_bits value.(eutran_indctn) 1 buf encoded;;
  encoded <- put_bits value.(utran_indctn) 1 buf encoded;;
  ret (encoded / CHAR_SIZE).

Definition decode_gtp_wlan_offldblty_indctn_ie (m : bytes) (buf : Z) : option (Z * gtp_wlan_offldblty_indctn_ie_t) :=
  run_dec (
  header <- get_header m buf;;
  spare2 <- get_bits m buf 6;;
  eutran_indctn <- get_bits m buf 1;;
  utran_indctn <- get_bits m buf 1;;
  ret (header.(hdr_len) + IE_HEADER_SIZE,
      Build_gtp_wlan_offldblty_indctn_ie_t header spare2 eutran_indctn utran_indctn)).

Definition layout_gtp_wlan_offldblty_indctn_ie (v : gtp_wlan_offldblty_indctn_ie_t) : list field :=
  [FHdr v.(header); FBits v.(spare2) 6; FBits v.(eutran_indctn) 1; FBits v.(utran_indctn) 1].

Definition ok_gtp_wlan_offldblty_indctn_ie (v : gtp_wlan_offldblty_indctn_ie_t) : Prop :=
  True.

Definition count_gtp_wlan_offldblty_indctn_ie (v : gtp_wlan_offldblty_indctn_ie_t) : Z := v.(header).(hdr_len) + IE_HEADER_SIZE.

Lemma layout_gtp_wlan_offldblty_indctn_ie_size v : ok_gtp_wlan_offldblty_indctn_ie v -> lsize (layout_gtp_wlan_offldblty_indctn_ie v) = 40.
Proof. unfold ok_gtp_wlan_offldblty_indctn_ie, layout_gtp_wlan_offldblty_indctn_ie. solve_size. Qed.

Lemma encode_gtp_wlan_offldblty_indctn_ie_emits v buf :
  ok_gtp_wlan_offldblty_indctn_ie v -> emits buf 0 (layout_gtp_wlan_offldblty_indctn_ie v) (encode_gtp_wlan_offldblty_indctn_ie v buf) (40 / 8).
Proof. unfold ok_gtp_wlan_offldblty_indctn_ie, layout_gtp_wlan_offldblty_indctn_ie, encode_gtp_wlan_offldblty_indctn_ie. solve_emits. Qed.

Lemma decode_gtp_wlan_offldblty_indctn_ie_decodes m buf v :
  ok_gtp_wlan_offldblty_indctn_ie v ->
  decodes m buf (layout_gtp_wlan_offldblty_indctn_ie v) (decode_gtp_wlan_offldblty_indctn_ie m buf) (count_gtp_wlan_offldblty_indctn_ie v, v).
Proof. unfold ok_gtp_wlan_offldblty_indctn_ie, layout_gtp_wlan_offldblty_indctn_ie, decode_gtp_wlan_offldblty_indctn_ie, count_gtp_wlan_offldblty_indctn_ie. solve_decodes v. Qed.

#[global] Instance gtp_wlan_offldblty_indctn_ie_format : WireFormat gtp_wlan_offldblty_indctn_ie_t :=
  fixed_format layout_gtp_wlan_offldblty_indctn_ie ok_gtp_wlan_offldblty_indctn_ie count_gtp_wlan_offldblty_indctn_ie encode_gtp_wlan_offldblty_indctn_ie decode_gtp_wlan_offldblty_indctn_ie 40 ltac:(reflexivity)
    layout_gtp_wlan_offldblty_indctn_ie_size encode_gtp_wlan_offldblty_indctn_ie_emits decode_gtp_wlan_offldblty_indctn_ie_decodes.

End gtp_wlan_offldblty_indctn_ie.

(** ** [gtp_uli_timestamp_ie] *)

Module gtp_uli_timestamp_ie.

Record gtp_uli_timestamp_ie_t := {
  header : ie_header_t;
  uli_ts_val : Z  (* uint8_t *)
}.

Definition encode_gtp_uli_timestamp_ie (value : gtp_uli_timestamp_ie_t) (buf : Z) : enc Z :=
  encoded <- ret 0;;
  encoded <- put_header value.(header) buf encoded;;
  encoded <- put_bits value.(uli_ts_val) 8 buf encoded;;
  ret (encoded / CHAR_SIZE).

Definition decode_gtp_uli_timestamp_ie (m : bytes) (buf : Z) : option (Z * gtp_uli_timestamp_ie_t) :=
  run_dec (
  header <- get_header m buf;;
  uli_ts_val <- get_bits m buf 8;;
  ret (header.(hdr_len) + IE_HEADER_SIZE,
      Build_gtp_uli_timestamp_ie_t header uli_ts_val)).

Definition layout_gtp_uli_timestamp_ie (v : gtp_uli_timestamp_ie_t) : list field :=
  [FHdr v.(header); FBits v.(uli_ts_val) 8].

Definition ok_gtp_uli_timestamp_ie (v : gtp_uli_timestamp_ie_t) : Prop :=
  True.

Definition count_gtp_uli_timestamp_ie (v : gtp_uli_timestamp_ie_t) : Z := v.(header).(hdr_len) + IE_HEADER_SIZE.

Lemma layout_gtp_uli_timestamp_ie_size v : ok_gtp_uli_timestamp_ie v -> lsize (layout_gtp_uli_timestamp_ie v) = 40.
Proof. unfold ok_gtp_uli_timestamp_ie, layout_gtp_uli_timestamp_ie. solve_size. Qed.

Lemma encode_gtp_uli_timestamp_ie_emits v buf :
  ok_gtp_uli_timestamp_ie v -> emits buf 0 (layout_gtp_uli_timestamp_ie v) (encode_gtp_uli_timestamp_ie v buf) (40 / 8).
Proof. unfold ok_gtp_uli_timestamp_ie, layout_gtp_uli_timestamp_ie, encode_gtp_uli_timestamp_ie. solve_emits. Qed.

Lemma decode_gtp_uli_timestamp_ie_decodes m buf v :
  ok_gtp_uli_timestamp_ie v ->
  decodes m buf (layout_gtp_uli_timestamp_ie v) (decode_gtp_uli_timestamp_ie m buf) (count_gtp_uli_timestamp_ie v, v).
Proof. unfold ok_gtp_uli_timestamp_ie, layout_gtp_uli_timestamp_ie, decode_gtp_uli_timestamp_ie, count_gtp_uli_timestamp_ie. solve_decodes v. Qed.

#[global] Instance gtp_uli_timestamp_ie_format : WireFormat gtp_uli_timestamp_ie_t :=
  fixed_format layout_gtp_uli_timestamp_ie ok_gtp_uli_timestamp_ie count_gtp_uli_timestamp_ie encode_gtp_uli_timestamp_ie decode_gtp_uli_timestamp_ie 40 ltac:(reflexivity)
    layout_gtp_uli_timestamp_ie_size encode_gtp_uli_timestamp_ie_emits decode_gtp_uli_timestamp_ie_decodes.

End gtp_uli_timestamp_ie.

(** ** [gtp_max_pckt_loss_rate_ie] *)

Module gtp_max_pckt_loss_rate_ie.

Record gtp_max_pckt_loss_rate_ie_t := {
  header : ie_header_t;
  spare2 : Z;  (* uint8_t :6 *)
  dl : Z;  (* uint8_t :1 *)
  ul : Z;  (* uint8_t :1 *)
  max_pckt_loss_rate_ul : Z;  (* uint16_t *)
  max_pckt_loss_rate_dl : Z  (* uint16_t *)
}.

Definition encode_gtp_max_pckt_loss_rate_ie (value : gtp_max_pckt_loss_rate_ie_t) (buf : Z) : enc Z :=
  encoded <- ret 0;;
  encoded <- put_header value.(header) buf encoded;;
  encoded <- put_bits value.(spare2) 6 buf encoded;;
  encoded <- put_bits value.(dl) 1 buf encoded;;
  encoded <- put_bits value.(ul) 1 buf encoded;;
  encoded <- put_bits value.(max_pckt_loss_rate_ul) 16 buf encoded;;
  encoded <- put_bits value.(max_pckt_loss_rate_dl) 16 buf encoded;;
  ret (encoded / CHAR_SIZE).

Definition decode_gtp_max_pckt_loss_rate_ie (m : bytes) (buf : Z) : option (Z * gtp_max_pckt_loss_rate_ie_t) :=
  run_dec (
  header <- get_header m buf;;
  spare2 <- get_bits m buf 6;;
  dl <- get_bits m buf 1;;
  ul <- get_bits m buf 1;;
  max_pckt_loss_rate_ul <- get_bits m buf 16;;
  max_pckt_loss_rate_dl <- get_bits m buf 16;;
  ret (header.(hdr_len) + IE_HEADER_SIZE,
      Build_gtp_max_pckt_loss_rate_ie_t header spare2 dl ul max_pckt_loss_rate_ul
       max_pckt_loss_rate_dl)).

Definition layout_gtp_max_pckt_loss_rate_ie (v : gtp_max_pckt_loss_rate_ie_t) : list field :=
  [FHdr v.(header); FBits v.(spare2) 6; FBits v.(dl) 1; FBits v.(ul) 1;
   FBits v.(max_pckt_loss_rate_ul) 16; FBits v.(max_pckt_loss_rate_dl) 16].

Definition ok_gtp_max_pckt_loss_rate_ie (v : gtp_max_pckt_loss_rate_ie_t) : Prop :=
  True.

Definition count_gtp_max_pckt_loss_rate_ie (v : gtp_max_pckt_loss_rate_ie_t) : Z := v.(header).(hdr_len) + IE_HEADER_SIZE.

Lemma layout_gtp_max_pckt_loss_rate_ie_size v : ok_gtp_max_pckt_loss_rate_ie v -> lsize (layout_gtp_max_pckt_loss_rate_ie v) = 72.
Proof. unfold ok_gtp_max_pckt_loss_rate_ie, layout_gtp_max_pckt_loss_rate_ie. solve_size. Qed.

Lemma encode_gtp_max_pckt_loss_rate_ie_emits v buf :
  ok_gtp_max_pckt_loss_rate_ie v -> emits buf 0 (layout_gtp_max_pckt_loss_rate_ie v) (encode_gtp_max_pckt_loss_rate_ie v buf) (72 / 8).
Proof. unfold ok_gtp_max_pckt_loss_rate_ie, layout_gtp_max_pckt_loss_rate_ie, encode_gtp_max_pckt_loss_rate_ie. solve_emits. Qed.

Lemma decode_gtp_max_pckt_loss_rate_ie_decodes m buf v :
  ok_gtp_max_pckt_loss_rate_ie v ->
  decodes m buf (layout_gtp_max_pckt_loss_rate_ie v) (decode_gtp_max_pckt_loss_rate_ie m buf) (count_gtp_max_pckt_loss_rate_ie v, v).
Proof. unfold ok_gtp_max_pckt_loss_rate_ie, layout_gtp_max_pckt_loss_rate_ie, decode_gtp_max_pckt_loss_rate_ie, count_gtp_max_pckt_loss_rate_ie. solve_decodes v. Qed.

#[global] Instance gtp_max_pckt_loss_rate_ie_format : WireFormat gtp_max_pckt_loss_rate_ie_t :=
  fixed_format layout_gtp_max_pckt_loss_rate_ie ok_gtp_max_pckt_loss_rate_ie count_gtp_max_pckt_loss_rate_ie encode_gtp_max_pckt_loss_rate_ie decode_gtp_max_pckt_loss_rate_ie 72 ltac:(reflexivity)
    layout_gtp_max_pckt_loss_rate_ie_size encode_gtp_max_pckt_loss_rate_ie_emits decode_gtp_max_pckt_loss_rate_ie_decodes.

End gtp_max_pckt_loss_rate_ie.

(** ** [gtp_cn_oper_sel_entity_ie] *)

Module gtp_cn_oper_sel_entity_ie.

Record gtp_cn_oper_sel_entity_ie_t := {
  header : ie_header_t;
  spare2 : Z;  (* uint8_t :6 *)
  sel_entity : Z  (* uint8_t :2 *)
}.

Definition encode_gtp_cn_oper_sel_entity_ie (value : gtp_cn_oper_sel_entity_ie_t) (buf : Z) : enc Z :=
  encoded <- ret 0;;
  encoded <- put_header value.(header) buf encoded;;
  encoded <- put_bits value.(spare2) 6 buf encoded;;
  encoded <- put_bits value.(sel_entity) 2 buf encoded;;
  ret (encoded / CHAR_SIZE).

Definition decode_gtp_cn_oper_sel_entity_ie (m : bytes) (buf : Z) : option (Z * gtp_cn_oper_sel_entity_ie_t) :=
  run_dec (
  header <- get_header m buf;;
  spare2 <- get_bits m buf 6;;
  sel_entity <- get_bits m buf 2;;
  ret (header.(hdr_len) + IE_HEADER_SIZE,
      Build_gtp_cn_oper_sel_entity_ie_t header spare2 sel_entity)).

Definition layout_gtp_cn_oper_sel_entity_ie (v : gtp_cn_oper_sel_entity_ie_t) : list field :=
  [FHdr v.(header); FBits v.(spare2) 6; FBits v.(sel_entity) 2].

Definition ok_gtp_cn_oper_sel_entity_ie (v : gtp_cn_oper_sel_entity_ie_t) : Prop :=
  True.

Definition count_gtp_cn_oper_sel_entity_ie (v : gtp_cn_oper_sel_entity_ie_t) : Z := v.(header).(hdr_len) + IE_HEADER_SIZE.

Lemma layout_gtp_cn_oper_sel_entity_ie_size v : ok_gtp_cn_oper_sel_entity_ie v -> lsize (layout_gtp_cn_oper_sel_entity_ie v) = 40.
Proof. unfold ok_gtp_cn_oper_sel_entity_ie, layout_gtp_cn_oper_sel_entity_ie. solve_size. Qed.

Lemma encode_gtp_cn_oper_sel_entity_ie_emits v buf :
  ok_gtp_cn_oper_sel_entity_ie v -> emits buf 0 (layout_gtp_cn_oper_sel_entity_ie v) (encode_gtp_cn_oper_sel_entity_ie v buf) (40 / 8).
Proof. unfold ok_gtp_cn_oper_sel_entity_ie, layout_gtp_cn_oper_sel_entity_ie, encode_gtp_cn_oper_sel_entity_ie. solve_emits. Qed.

Lemma decode_gtp_cn_oper_sel_entity_ie_decodes m buf v :
  ok_gtp_cn_oper_sel_entity_ie v ->
  decodes m buf (layout_gtp_cn_oper_sel_entity_ie v) (decode_gtp_cn_oper_sel_entity_ie m buf) (count_gtp_cn_oper_sel_entity_ie v, v).
Proof. unfold ok_gtp_cn_oper_sel_entity_ie, layout_gtp_cn_oper_sel_entity_ie, decode_gtp_cn_oper_sel_entity_ie, count_gtp_cn_oper_sel_entity_ie. solve_decodes v. Qed.

#[global] Instance gtp_cn_oper_sel_entity_ie_format : WireFormat gtp_cn_oper_sel_entity_ie_t :=
  fixed_format layout_gtp_cn_oper_sel_entity_ie ok_gtp_cn_oper_sel_entity_ie count_gtp_cn_oper_sel_entity_ie encode_gtp_cn_oper_sel_entity_ie decode_gtp_cn_oper_sel_entity_ie 40 ltac:(reflexivity)
    layout_gtp_cn_oper_sel_entity_ie_size encode_gtp_cn_oper_sel_entity_ie_emits decode_gtp_cn_oper_sel_entity_ie_decodes.

End gtp_cn_oper_sel_entity_ie.

(** ** [gtp_alloc_reten_priority_ie] *)

Module gtp_alloc_reten_priority_ie.

Record gtp_alloc_reten_priority_ie_t := {
  header : ie_header_t;
  spare2 : Z;  (* uint8_t :1 *)
  pci : Z;  (* uint8_t :1 *)
  pl : Z;  (* uint8_t :4 *)
  spare3 : Z;  (* uint8_t :1 *)
  pvi : Z  (* uint8_t :1 *)
}.

Definition encode_gtp_alloc_reten_priority_ie (value : gtp_alloc_reten_priority_ie_t) (buf : Z) : enc Z :=
  encoded <- ret 0;;
  encoded <- put_header value.(header) buf encoded;;
  encoded <- put_bits value.(spare2) 1 buf encoded;;
  encoded <- put_bits value.(pci) 1 buf encoded;;
  encoded <- put_bits value.(pl) 4 buf encoded;;
  encoded <- put_bits value.(spare3) 1 buf encoded;;
  encoded <- put_bits value.(pvi) 1 buf encoded;;
  ret (encoded / CHAR_SIZE).

Definition decode_gtp_alloc_reten_priority_ie (m : bytes) (buf : Z) : option (Z * gtp_alloc_reten_priority_ie_t) :=
  run_dec (
  header <- get_header m buf;;
  spare2 <- get_bits m buf 1;;
  pci <- get_bits m buf 1;;
  pl <- get_bits m buf 4;;
  spare3 <- get_bits m buf 1;;
  pvi <- get_bits m buf 1;;
  ret (header.(hdr_len) + IE_HEADER_SIZE,
      Build_gtp_alloc_reten_priority_ie_t header spare2 pci pl spare3 pvi)).

Definition layout_gtp_alloc_reten_priority_ie (v : gtp_alloc_reten_priority_ie_t) : list field :=
  [FHdr v.(header); FBits v.(spare2) 1; FBits v.(pci) 1; FBits v.(pl) 4; FBits v.(spare3) 1;
   FBits v.(pvi) 1].

Definition ok_gtp_alloc_reten_priority_ie (v : gtp_alloc_reten_priority_ie_t) : Prop :=
  True.

Definition count_gtp_alloc_reten_priority_ie (v : gtp_alloc_reten_priority_ie_t) : Z := v.(header).(hdr_len) + IE_HEADER_SIZE.

Lemma layout_gtp_alloc_reten_priority_ie_size v : ok_gtp_alloc_reten_priority_ie v -> lsize (layout_gtp_alloc_reten_priority_ie v) = 40.
Proof. unfold ok_gtp_alloc_reten_priority_ie, layout_gtp_alloc_reten_priority_ie. solve_size. Qed.

Lemma encode_gtp_alloc_reten_priority_ie_emits v buf :
  ok_gtp_alloc_reten_priority_ie v -> emits buf 0 (layout_gtp_alloc_reten_priority_ie v) (encode_gtp_alloc_reten_priority_ie v buf) (40 / 8).
Proof. unfold ok_gtp_alloc_reten_priority_ie, layout_gtp_alloc_reten_priority_ie, encode_gtp_alloc_reten_priority_ie. solve_emits. Qed.

Lemma decode_gtp_alloc_reten_priority_ie_decodes m buf v :
  ok_gtp_alloc_reten_priority_ie v ->
  decodes m buf (layout_gtp_alloc_reten_priority_ie v) (decode_gtp_alloc_reten_priority_ie m buf) (count_gtp_alloc_reten_priority_ie v, v).
Proof. unfold ok_gtp_alloc_reten_priority_ie, layout_gtp_alloc_reten_priority_ie, decode_gtp_alloc_reten_priority_ie, count_gtp_alloc_reten_priority_ie. solve_decodes v. Qed.

#[global] Instance gtp_alloc_reten_priority_ie_format : WireFormat gtp_alloc_reten_priority_ie_t :=
  fixed_format layout_gtp_alloc_reten_priority_ie ok_gtp_alloc_reten_priority_ie count_gtp_alloc_reten_priority_ie encode_gtp_alloc_reten_priority_ie decode_gtp_alloc_reten_priority_ie 40 ltac:(reflexivity)
    layout_gtp_alloc_reten_priority_ie_size encode_gtp_alloc_reten_priority_ie_emits decode_gtp_alloc_reten_priority_ie_decodes.

End gtp_alloc_reten_priority_ie.

(** ** [gtp_apn_restriction_ie] *)

Module gtp_apn_restriction_ie.

Record gtp_apn_restriction_ie_t := {
  header : ie_header_t;
  rstrct_type_val : Z  (* uint8_t *)
}.

Definition encode_gtp_apn_restriction_ie (value : gtp_apn_restriction_ie_t) (buf : Z) : enc Z :=
  encoded <- ret 0;;
  encoded <- put_header value.(header) buf encoded;;
  encoded <- put_bits value.(rstrct_type_val) 8 buf encoded;;
  ret (encoded / CHAR_SIZE).

Definition decode_gtp_apn_restriction_ie (m : bytes) (buf : Z) : option (Z * gtp_apn_restriction_ie_t) :=
  run_dec (
  header <- get_header m buf;;
  rstrct_type_val <- get_bits m buf 8;;
  ret (header.(hdr_len) + IE_HEADER_SIZE,
      Build_gtp_apn_restriction_ie_t header rstrct_type_val)).

Definition layout_gtp_apn_restriction_ie (v : gtp_apn_restriction_ie_t) : list field :=
  [FHdr v.(header); FBits v.(rstrct_type_val) 8].

Definition ok_gtp_apn_restriction_ie (v : gtp_apn_restriction_ie_t) : Prop :=
  True.

Definition count_gtp_apn_restriction_ie (v : gtp_apn_restriction_ie_t) : Z := v.(header).(hdr_len) + IE_HEADER_SIZE.

Lemma layout_gtp_apn_restriction_ie_size v : ok_gtp_apn_restriction_ie v -> lsize (layout_gtp_apn_restriction_ie v) = 40.
Proof. unfold ok_gtp_apn_restriction_ie, layout_gtp_apn_restriction_ie. solve_size. Qed.

Lemma encode_gtp_apn_restriction_ie_emits v buf :
  ok_gtp_apn_restriction_ie v -> emits buf 0 (layout_gtp_apn_restriction_ie v) (encode_gtp_apn_restriction_ie v buf) (40 / 8).
Proof. unfold ok_gtp_apn_restriction_ie, layout_gtp_apn_restriction_ie, encode_gtp_apn_restriction_ie. solve_emits. Qed.

Lemma decode_gtp_apn_restriction_ie_decodes m buf v :
  ok_gtp_apn_restriction_ie v ->
  decodes m buf (layout_gtp_apn_restriction_ie v) (decode_gtp_apn_restriction_ie m buf) (count_gtp_apn_restriction_ie v, v).
Proof. unfold ok_gtp_apn_restriction_ie, layout_gtp_apn_restriction_ie, decode_gtp_apn_restriction_ie, count_gtp_apn_restriction_ie. solve_decodes v. Qed.

#[global] Instance gtp_apn_restriction_ie_format : WireFormat gtp_apn_restriction_ie_t :=
  fixed_format layout_gtp_apn_restriction_ie ok_gtp_apn_restriction_ie count_gtp_apn_restriction_ie encode_gtp_apn_restriction_ie decode_gtp_apn_restriction_ie 40 ltac:(reflexivity)
    layout_gtp_apn_restriction_ie_size encode_gtp_apn_restriction_ie_emits decode_gtp_apn_restriction_ie_decodes.

End gtp_apn_restriction_ie.

(** ** [gtp_ptmsi_signature_ie] *)

Module gtp_ptmsi_signature_ie.

Record gtp_ptmsi_signature_ie_t := {
  header : ie_header_t;
  ptmsi_signature : Z  (* uint8_t *)
}.

Definition encode_gtp_ptmsi_signature_ie (value : gtp_ptmsi_signature_ie_t) (buf : Z) : enc Z :=
  encoded <- ret 0;;
  encoded <- put_header value.(header) buf encoded;;
  encoded <- put_bits value.(ptmsi_signature) 8 buf encoded;;
  ret (encoded / CHAR_SIZE).

Definition decode_gtp_ptmsi_signature_ie (m : bytes) (buf : Z) : option (Z * gtp_ptmsi_signature_ie_t) :=
  run_dec (
  header <- get_header m buf;;
  ptmsi_signature <- get_bits m buf 8;;
  ret (header.(hdr_len) + IE_HEADER_SIZE,
      Build_gtp_ptmsi_signature_ie_t header ptmsi_signature)).

Definition layout_gtp_ptmsi_signature_ie (v : gtp_ptmsi_signature_ie_t) : list field :=
  [FHdr v.(header); FBits v.(ptmsi_signature) 8].

Definition ok_gtp_ptmsi_signature_ie (v : gtp_ptmsi_signature_ie_t) : Prop :=
  True.

Definition count_gtp_ptmsi_signature_ie (v : gtp_ptmsi_signature_ie_t) : Z := v.(header).(hdr_len) + IE_HEADER_SIZE.

Lemma layout_gtp_ptmsi_signature_ie_size v : ok_gtp_ptmsi_signature_ie v -> lsize (layout_gtp_ptmsi_signature_ie v) = 40.
Proof. unfold ok_gtp_ptmsi_signature_ie, layout_gtp_ptmsi_signature_ie. solve_size. Qed.

Lemma encode_gtp_ptmsi_signature_ie_emits v buf :
  ok_gtp_ptmsi_signature_ie v -> emits buf 0 (layout_gtp_ptmsi_signature_ie v) (encode_gtp_ptmsi_signature_ie v buf) (40 / 8).
Proof. unfold ok_gtp_ptmsi_signature_ie, layout_gtp_ptmsi_signature_ie, encode_gtp_ptmsi_signature_ie. solve_emits. Qed.

Lemma decode_gtp_ptmsi_signature_ie_decodes m buf v :
  ok_gtp_ptmsi_signature_ie v ->
  decodes m buf (layout_gtp_ptmsi_signature_ie v) (decode_gtp_ptmsi_signature_ie m buf) (count_gtp_ptmsi_signature_ie v, v).
Proof. unfold ok_gtp_ptmsi_signature_ie, layout_gtp_ptmsi_signature_ie, decode_gtp_ptmsi_signature_ie, count_gtp_ptmsi_signature_ie. solve_decodes v. Qed.

#[global] Instance gtp_ptmsi_signature_ie_format : WireFormat gtp_ptmsi_signature_ie_t :=
  fixed_format layout_gtp_ptmsi_signature_ie ok_gtp_ptmsi_signature_ie count_gtp_ptmsi_signature_ie encode_gtp_ptmsi_signature_ie decode_gtp_ptmsi_signature_ie 40 ltac:(reflexivity)
    layout_gtp_ptmsi_signature_ie_size encode_gtp_ptmsi_signature_ie_emits decode_gtp_ptmsi_signature_ie_decodes.

End gtp_ptmsi_signature_ie.

(** ** [gtp_paging_and_svc_info_ie] *)

Module gtp_paging_and_svc_info_ie.

Record gtp_paging_and_svc_info_ie_t := {
  header : ie_header_t;
  spare2 : Z;  (* uint8_t :4 *)
  ebi : Z;  (* uint8_t :4 *)
  spare3 : Z;  (* uint8_t :7 *)
  ppi : Z;  (* uint8_t :1 *)
  spare4 : Z;  (* uint8_t :2 *)
  paging_plcy_indctn_val : Z  (* uint8_t :6 *)
}.

Definition encode_gtp_paging_and_svc_info_ie (value : gtp_paging_and_svc_info_ie_t) (buf : Z) : enc Z :=
  encoded <- ret 0;;
  encoded <- put_header value.(header) buf encoded;;
  encoded <- put_bits value.(spare2) 4 buf encoded;;
  encoded <- put_bits value.(ebi) 4 buf encoded;;
  encoded <- put_bits value.(spare3) 7 buf encoded;;
  encoded <- put_bits value.(ppi) 1 buf encoded;;
  encoded <- put_bits value.(spare4) 2 buf encoded;;
  encoded <- put_bits value.(paging_plcy_indctn_val) 6 buf encoded;;
  ret (encoded / CHAR_SIZE).

Definition decode_gtp_paging_and_svc_info_ie (m : bytes) (buf : Z) : option (Z * gtp_paging_and_svc_info_ie_t) :=
  run_dec (
  header <- get_header m buf;;
  spare2 <- get_bits m buf 4;;
  ebi <- get_bits m buf 4;;
  spare3 <- get_bits m buf 7;;
  ppi <- get_bits m buf 1;;
  spare4 <- get_bits m buf 2;;
  paging_plcy_indctn_val <- get_bits m buf 6;;
  ret (header.(hdr_len) + IE_HEADER_SIZE,
      Build_gtp_paging_and_svc_info_ie_t header spare2 ebi spare3 ppi spare4
       paging_plcy_indctn_val)).

Definition layout_gtp_paging_and_svc_info_ie (v : gtp_paging_and_svc_info_ie_t) : list field :=
  [FHdr v.(header); FBits v.(spare2) 4; FBits v.(ebi) 4; FBits v.(spare3) 7; FBits v.(ppi) 1;
   FBits v.(spare4) 2; FBits v.(paging_plcy_indctn_val) 6].

Definition ok_gtp_paging_and_svc_info_ie (v : gtp_paging_and_svc_info_ie_t) : Prop :=
  True.

Definition count_gtp_paging_and_svc_info_ie (v : gtp_paging_and_svc_info_ie_t) : Z := v.(header).(hdr_len) + IE_HEADER_SIZE.

Lemma layout_gtp_paging_and_svc_info_ie_size v : ok_gtp_paging_and_svc_info_ie v -> lsize (layout_gtp_paging_and_svc_info_ie v) = 56.
Proof. unfold ok_gtp_paging_and_svc_info_ie, layout_gtp_paging_and_svc_info_ie. solve_size. Qed.

Lemma encode_gtp_paging_and_svc_info_ie_emits v buf :
  ok_gtp_paging_and_svc_info_ie v -> emits buf 0 (layout_gtp_paging_and_svc_info_ie v) (encode_gtp_paging_and_svc_info_ie v buf) (56 / 8).
Proof. unfold ok_gtp_paging_and_svc_info_ie, layout_gtp_paging_and_svc_info_ie, encode_gtp_paging_and_svc_info_ie. solve_emits. Qed.

Lemma decode_gtp_paging_and_svc_info_ie_decodes m buf v :
  ok_gtp_paging_and_svc_info_ie v ->
  decodes m buf (layout_gtp_paging_and_svc_info_ie v) (decode_gtp_paging_and_svc_info_ie m buf) (count_gtp_paging_and_svc_info_ie v, v).
Proof. unfold ok_gtp_paging_and_svc_info_ie, layout_gtp_paging_and_svc_info_ie, decode_gtp_paging_and_svc_info_ie, count_gtp_paging_and_svc_info_ie. solve_decodes v. Qed.

#[global] Instance gtp_paging_and_svc_info_ie_format : WireFormat gtp_paging_and_svc_info_ie_t :=
  fixed_format layout_gtp_paging_and_svc_info_ie ok_gtp_paging_and_svc_info_ie count_gtp_paging_and_svc_info_ie encode_gtp_paging_and_svc_info_ie decode_gtp_paging_and_svc_info_ie 56 ltac:(reflexivity)
    layout_gtp_paging_and_svc_info_ie_size encode_gtp_paging_and_svc_info_ie_emits decode_gtp_paging_and_svc_info_ie_decodes.

End gtp_paging_and_svc_info_ie.

(** ** [gtp_ovrld_ctl_info_ie] *)

Module gtp_ovrld_ctl_info_ie.

Record gtp_ovrld_ctl_info_ie_t := {
  header : ie_header_t;
  overload_control_information : list Z  (* uint8_t[OVERLOAD_CONTROL_INFORMATION_LEN] *)
}.

Definition encode_gtp_ovrld_ctl_info_ie (value : gtp_ovrld_ctl_info_ie_t) (buf : Z) : enc Z :=
  encoded <- ret 0;;
  encoded <- put_header value.(header) buf encoded;;
  encoded <- put_bytes value.(overload_control_information) OVERLOAD_CONTROL_INFORMATION_LEN buf encoded;;
  ret (encoded / CHAR_SIZE).

Definition decode_gtp_ovrld_ctl_info_ie (m : bytes) (buf : Z) : option (Z * gtp_ovrld_ctl_info_ie_t) :=
  run_dec (
  header <- get_header m buf;;
  overload_control_information <- get_bytes m buf OVERLOAD_CONTROL_INFORMATION_LEN;;
  ret (header.(hdr_len) + IE_HEADER_SIZE,
      Build_gtp_ovrld_ctl_info_ie_t header overload_control_information)).

Definition layout_gtp_ovrld_ctl_info_ie (v : gtp_ovrld_ctl_info_ie_t) : list field :=
  [FHdr v.(header); FCopy v.(overload_control_information)].

Definition ok_gtp_ovrld_ctl_info_ie (v : gtp_ovrld_ctl_info_ie_t) : Prop :=
  Z.of_nat (length v.(overload_control_information)) = OVERLOAD_CONTROL_INFORMATION_LEN.

Definition count_gtp_ovrld_ctl_info_ie (v : gtp_ovrld_ctl_info_ie_t) : Z := v.(header).(hdr_len) + IE_HEADER_SIZE.

Lemma layout_gtp_ovrld_ctl_info_ie_size v : ok_gtp_ovrld_ctl_info_ie v -> lsize (layout_gtp_ovrld_ctl_info_ie v) = 96.
Proof. unfold ok_gtp_ovrld_ctl_info_ie, layout_gtp_ovrld_ctl_info_ie. solve_size. Qed.

Lemma encode_gtp_ovrld_ctl_info_ie_emits v buf :
  ok_gtp_ovrld_ctl_info_ie v -> emits buf 0 (layout_gtp_ovrld_ctl_info_ie v) (encode_gtp_ovrld_ctl_info_ie v buf) (96 / 8).
Proof. unfold ok_gtp_ovrld_ctl_info_ie, layout_gtp_ovrld_ctl_info_ie, encode_gtp_ovrld_ctl_info_ie. solve_emits. Qed.

Lemma decode_gtp_ovrld_ctl_info_ie_decodes m buf v :
  ok_gtp_ovrld_ctl_info_ie v ->
  decodes m buf (layout_gtp_ovrld_ctl_info_ie v) (decode_gtp_ovrld_ctl_info_ie m buf) (count_gtp_ovrld_ctl_info_ie v, v).
Proof. unfold ok_gtp_ovrld_ctl_info_ie, layout_gtp_ovrld_ctl_info_ie, decode_gtp_ovrld_ctl_info_ie, count_gtp_ovrld_ctl_info_ie. solve_decodes v. Qed.

#[global] Instance gtp_ovrld_ctl_info_ie_format : WireFormat gtp_ovrld_ctl_info_ie_t :=
  fixed_format layout_gtp_ovrld_ctl_info_ie ok_gtp_ovrld_ctl_info_ie count_gtp_ovrld_ctl_info_ie encode_gtp_ovrld_ctl_info_ie decode_gtp_ovrld_ctl_info_ie 96 ltac:(reflexivity)
    layout_gtp_ovrld_ctl_info_ie_size encode_gtp_ovrld_ctl_info_ie_emits decode_gtp_ovrld_ctl_info_ie_decodes.

End gtp_ovrld_ctl_info_ie.

(** ** [gtp_ecgi_list_ie] *)

Module gtp_ecgi_list_ie.

Record gtp_ecgi_list_ie_t := {
  header : ie_header_t;
  nbr_of_ecgi_flds : Z;  (* uint16_t *)
  ecgi_list_of_m_ecgi_flds : Z  (* uint8_t *)
}.

Definition encode_gtp_ecgi_list_ie (value : gtp_ecgi_list_ie_t) (buf : Z) : enc Z :=
  encoded <- ret 0;;
  encoded <- put_header value.(header) buf encoded;;
  encoded <- put_bits value.(nbr_of_ecgi_flds) 16 buf encoded;;
  encoded <- put_bits value.(ecgi_list_of_m_ecgi_flds) 8 buf encoded;;
  ret (encoded / CHAR_SIZE).

Definition decode_gtp_ecgi_list_ie (m : bytes) (buf : Z) : option (Z * gtp_ecgi_list_ie_t) :=
  run_dec (
  header <- get_header m buf;;
  nbr_of_ecgi_flds <- get_bits m buf 16;;
  ecgi_list_of_m_ecgi_flds <- get_bits m buf 8;;
  ret (header.(hdr_len) + IE_HEADER_SIZE,
      Build_gtp_ecgi_list_ie_t header nbr_of_ecgi_flds ecgi_list_of_m_ecgi_flds)).

Definition layout_gtp_ecgi_list_ie (v : gtp_ecgi_list_ie_t) : list field :=
  [FHdr v.(header); FBits v.(nbr_of_ecgi_flds) 16; FBits v.(ecgi_list_of_m_ecgi_flds) 8].

Definition ok_gtp_ecgi_list_ie (v : gtp_ecgi_list_ie_t) : Prop :=
  True.

Definition count_gtp_ecgi_list_ie (v : gtp_ecgi_list_ie_t) : Z := v.(header).(hdr_len) + IE_HEADER_SIZE.

Lemma layout_gtp_ecgi_list_ie_size v : ok_gtp_ecgi_list_ie v -> lsize (layout_gtp_ecgi_list_ie v) = 56.
Proof. unfold ok_gtp_ecgi_list_ie, layout_gtp_ecgi_list_ie. solve_size. Qed.

Lemma encode_gtp_ecgi_list_ie_emits v buf :
  ok_gtp_ecgi_list_ie v -> emits buf 0 (layout_gtp_ecgi_list_ie v) (encode_gtp_ecgi_list_ie v buf) (56 / 8).
Proof. unfold ok_gtp_ecgi_list_ie, layout_gtp_ecgi_list_ie, encode_gtp_ecgi_list_ie. solve_emits. Qed.

Lemma decode_gtp_ecgi_list_ie_decodes m buf v :
  ok_gtp_ecgi_list_ie v ->
  decodes m buf (layout_gtp_ecgi_list_ie v) (decode_gtp_ecgi_list_ie m buf) (count_gtp_ecgi_list_ie v, v).
Proof. unfold ok_gtp_ecgi_list_ie, layout_gtp_ecgi_list_ie, decode_gtp_ecgi_list_ie, count_gtp_ecgi_list_ie. solve_decodes v. Qed.

#[global] Instance gtp_ecgi_list_ie_format : WireFormat gtp_ecgi_list_ie_t :=
  fixed_format layout_gtp_ecgi_list_ie ok_gtp_ecgi_list_ie count_gtp_ecgi_list_ie encode_gtp_ecgi_list_ie decode_gtp_ecgi_list_ie 56 ltac:(reflexivity)
    layout_gtp_ecgi_list_ie_size encode_gtp_ecgi_list_ie_emits decode_gtp_ecgi_list_ie_decodes.

End gtp_ecgi_list_ie.

(** ** [gtp_agg_max_bit_rate_ie] *)

Module gtp_agg_max_bit_rate_ie.

Record gtp_agg_max_bit_rate_ie_t := {
  header : ie_header_t;
  apn_ambr_uplnk : Z;  (* uint32_t *)
  apn_ambr_dnlnk : Z  (* uint32_t *)
}.

Definition encode_gtp_agg_max_bit_rate_ie (value : gtp_agg_max_bit_rate_ie_t) (buf : Z) : enc Z :=
  encoded <- ret 0;;
  encoded <- put_header value.(header) buf encoded;;
  encoded <- put_bits value.(apn_ambr_uplnk) 32 buf encoded;;
  encoded <- put_bits value.(apn_ambr_dnlnk) 32 buf encoded;;
  ret (encoded / CHAR_SIZE).

Definition decode_gtp_agg_max_bit_rate_ie (m : bytes) (buf : Z) : option (Z * gtp_agg_max_bit_rate_ie_t) :=
  run_dec (
  header <- get_header m buf;;
  apn_ambr_uplnk <- get_bits m buf 32;;
  apn_ambr_dnlnk <- get_bits m buf 32;;
  ret (header.(hdr_len) + IE_HEADER_SIZE,
      Build_gtp_agg_max_bit_rate_ie_t header apn_ambr_uplnk apn_ambr_dnlnk)).

Definition layout_gtp_agg_max_bit_rate_ie (v : gtp_agg_max_bit_rate_ie_t) : list field :=
  [FHdr v.(header); FBits v.(apn_ambr_uplnk) 32; FBits v.(apn_ambr_dnlnk) 32].

Definition ok_gtp_agg_max_bit_rate_ie (v : gtp_agg_max_bit_rate_ie_t) : Prop :=
  True.

Definition count_gtp_agg_max_bit_rate_ie (v : gtp_agg_max_bit_rate_ie_t) : Z := v.(header).(hdr_len) + IE_HEADER_SIZE.

Lemma layout_gtp_agg_max_bit_rate_ie_size v : ok_gtp_agg_max_bit_rate_ie v -> lsize (layout_gtp_agg_max_bit_rate_ie v) = 96.
Proof. unfold ok_gtp_agg_max_bit_rate_ie, layout_gtp_agg_max_bit_rate_ie. solve_size. Qed.

Lemma encode_gtp_agg_max_bit_rate_ie_emits v buf :
  ok_gtp_agg_max_bit_rate_ie v -> emits buf 0 (layout_gtp_agg_max_bit_rate_ie v) (encode_gtp_agg_max_bit_rate_ie v buf) (96 / 8).
Proof. unfold ok_gtp_agg_max_bit_rate_ie, layout_gtp_agg_max_bit_rate_ie, encode_gtp_agg_max_bit_rate_ie. solve_emits. Qed.

Lemma decode_gtp_agg_max_bit_rate_ie_decodes m buf v :
  ok_gtp_agg_max_bit_rate_ie v ->
  decodes m buf (layout_gtp_agg_max_bit_rate_ie v) (decode_gtp_agg_max_bit_rate_ie m buf) (count_gtp_agg_max_bit_rate_ie v, v).
Proof. unfold ok_gtp_agg_max_bit_rate_ie, layout_gtp_agg_max_bit_rate_ie, decode_gtp_agg_max_bit_rate_ie, count_gtp_agg_max_bit_rate_ie. solve_decodes v. Qed.

#[global] Instance gtp_agg_max_bit_rate_ie_format : WireFormat gtp_agg_max_bit_rate_ie_t :=
  fixed_format layout_gtp_agg_max_bit_rate_ie ok_gtp_agg_max_bit_rate_ie count_gtp_agg_max_bit_rate_ie encode_gtp_agg_max_bit_rate_ie decode_gtp_agg_max_bit_rate_ie 96 ltac:(reflexivity)
    layout_gtp_agg_max_bit_rate_ie_size encode_gtp_agg_max_bit_rate_ie_emits decode_gtp_agg_max_bit_rate_ie_decodes.

End gtp_agg_max_bit_rate_ie.

(** ** [gtp_umts_key_quadruplets_and_quintuplets_ie] *)

Module gtp_umts_key_quadruplets_and_quintuplets_ie.

Record gtp_umts_key_quadruplets_and_quintuplets_ie_t := {
  header : ie_header_t;
  security_mode : Z;  (* uint8_t :3 *)
  spare2 : Z;  (* uint8_t :1 *)
  drxi : Z;  (* uint8_t :1 *)
  ksiasme : Z;  (* uint8_t :3 *)
  nbr_of_quintuplets : Z;  (* uint8_t :3 *)
  nbr_of_quadruplet : Z;  (* uint8_t :3 *)
  uambri : Z;  (* uint8_t :1 *)
  sambri : Z;  (* uint8_t :1 *)
  spare3 : Z;  (* uint8_t *)
  ck : list Z;  (* uint8_t[CK_LEN] *)
  ik : list Z;  (* uint8_t[IK_LEN] *)
  auth_quadruplet : Z;  (* uint8_t *)
  auth_quintuplet : Z;  (* uint8_t *)
  drx_parameter : Z;  (* uint16_t *)
  uplnk_subscrbd_ue_ambr : Z;  (* uint32_t *)
  dnlnk_subscrbd_ue_ambr : Z;  (* uint32_t *)
  uplnk_used_ue_ambr : Z;  (* uint32_t *)
  dnlnk_used_ue_ambr : Z;  (* uint32_t *)
  ue_ntwk_capblty_len : Z;  (* uint8_t *)
  ue_ntwk_capblty : Z;  (* uint8_t *)
  ms_ntwk_capblty_len : Z;  (* uint8_t *)
  ms_ntwk_capblty : Z;  (* uint8_t *)
  mei_length : Z;  (* uint8_t *)
  mei : Z;  (* uint8_t *)
  ecna : Z;  (* uint8_t :1 *)
  nbna : Z;  (* uint8_t :1 *)
  hnna : Z;  (* uint8_t :1 *)
  ena : Z;  (* uint8_t :1 *)
  ina : Z;  (* uint8_t :1 *)
  gana : Z;  (* uint8_t :1 *)
  gena : Z;  (* uint8_t :1 *)
  una : Z;  (* uint8_t :1 *)
  vdom_pref_ue_usage_len : Z;  (* uint8_t *)
  voice_domain_pref_and_ues_usage_setting : Z  (* uint8_t *)
}.

Definition encode_gtp_umts_key_quadruplets_and_quintuplets_ie (value : gtp_umts_key_quadruplets_and_quintuplets_ie_t) (buf : Z) : enc Z :=
  encoded <- ret 0;;
  encoded <- put_header value.(header) buf encoded;;
  encoded <- put_bits value.(security_mode) 3 buf encoded;;
  encoded <- put_bits value.(spare2) 1 buf encoded;;
  encoded <- put_bits value.(drxi) 1 buf encoded;;
  encoded <- put_bits value.(ksiasme) 3 buf encoded;;
  encoded <- put_bits value.(nbr_of_quintuplets) 3 buf encoded;;
  encoded <- put_bits value.(nbr_of_quadruplet) 3 buf encoded;;
  encoded <- put_bits value.(uambri) 1 buf encoded;;
  encoded <- put_bits value.(sambri) 1 buf encoded;;
  encoded <- put_bits value.(spare3) 8 buf encoded;;
  encoded <- put_bytes value.(ck) CK_LEN buf encoded;;
  encoded <- put_bytes value.(ik) IK_LEN buf encoded;;
  encoded <- put_bits value.(auth_quadruplet) 8 buf encoded;;
  encoded <- put_bits value.(auth_quintuplet) 8 buf encoded;;
  encoded <- put_bits value.(drx_parameter) 16 buf encoded;;
  encoded <- put_bits value.(uplnk_subscrbd_ue_ambr) 32 buf encoded;;
  encoded <- put_bits value.(dnlnk_subscrbd_ue_ambr) 32 buf encoded;;
  encoded <- put_bits value.(uplnk_used_ue_ambr) 32 buf encoded;;
  encoded <- put_bits value.(dnlnk_used_ue_ambr) 32 buf encoded;;
  encoded <- put_bits value.(ue_ntwk_capblty_len) 8 buf encoded;;
  encoded <- put_bits value.(ue_ntwk_capblty) 8 buf encoded;;
  encoded <- put_bits value.(ms_ntwk_capblty_len) 8 buf encoded;;
  encoded <- put_bits value.(ms_ntwk_capblty) 8 buf encoded;;
  encoded <- put_bits value.(mei_length) 8 buf encoded;;
  encoded <- put_bits value.(mei) 8 buf encoded;;
  encoded <- put_bits value.(ecna) 1 buf encoded;;
  encoded <- put_bits value.(nbna) 1 buf encoded;;
  encoded <- put_bits value.(hnna) 1 buf encoded;;
  encoded <- put_bits value.(ena) 1 buf encoded;;
  encoded <- put_bits value.(ina) 1 buf encoded;;
  encoded <- put_bits value.(gana) 1 buf encoded;;
  encoded <- put_bits value.(gena) 1 buf encoded;;
  encoded <- put_bits value.(una) 1 buf encoded;;
  encoded <- put_bits value.(vdom_pref_ue_usage_len) 8 buf encoded;;
  encoded <- put_bits value.(voice_domain_pref_and_ues_usage_setting) 8 buf encoded;;
  ret (encoded / CHAR_SIZE).

Definition decode_gtp_umts_key_quadruplets_and_quintuplets_ie (m : bytes) (buf : Z) : option (Z * gtp_umts_key_quadruplets_and_quintuplets_ie_t) :=
  run_dec (
  header <- get_header m buf;;
  security_mode <- get_bits m buf 3;;
  spare2 <- get_bits m buf 1;;
  drxi <- get_bits m buf 1;;
  ksiasme <- get_bits m buf 3;;
  nbr_of_quintuplets <- get_bits m buf 3;;
  nbr_of_quadruplet <- get_bits m buf 3;;
  uambri <- get_bits m buf 1;;
  sambri <- get_bits m buf 1;;
  spare3 <- get_bits m buf 8;;
  ck <- get_bytes m buf CK_LEN;;
  ik <- get_bytes m buf IK_LEN;;
  auth_quadruplet <- get_bits m buf 8;;
  auth_quintuplet <- get_bits m buf 8;;
  drx_parameter <- get_bits m buf 16;;
  uplnk_subscrbd_ue_ambr <- get_bits m buf 32;;
  dnlnk_subscrbd_ue_ambr <- get_bits m buf 32;;
  uplnk_used_ue_ambr <- get_bits m buf 32;;
  dnlnk_used_ue_ambr <- get_bits m buf 32;;
  ue_ntwk_capblty_len <- get_bits m buf 8;;
  ue_ntwk_capblty <- get_bits m buf 8;;
  ms_ntwk_capblty_len <- get_bits m buf 8;;
  ms_ntwk_capblty <- get_bits m buf 8;;
  mei_length <- get_bits m buf 8;;
  mei <- get_bits m buf 8;;
  ecna <- get_bits m buf 1;;
  nbna <- get_bits m buf 1;;
  hnna <- get_bits m buf 1;;
  ena <- get_bits m buf 1;;
  ina <- get_bits m buf 1;;
  gana <- get_bits m buf 1;;
  gena <- get_bits m buf 1;;
  una <- get_bits m buf 1;;
  vdom_pref_ue_usage_len <- get_bits m buf 8;;
  voice_domain_pref_and_ues_usage_setting <- get_bits m buf 8;;
  ret (header.(hdr_len) + IE_HEADER_SIZE,
      Build_gtp_umts_key_quadruplets_and_quintuplets_ie_t header security_mode spare2 drxi
       ksiasme nbr_of_quintuplets nbr_of_quadruplet uambri sambri spare3 ck ik
       auth_quadruplet auth_quintuplet drx_parameter uplnk_subscrbd_ue_ambr
       dnlnk_subscrbd_ue_ambr uplnk_used_ue_ambr dnlnk_used_ue_ambr ue_ntwk_capblty_len
       ue_ntwk_capblty ms_ntwk_capblty_len ms_ntwk_capblty mei_length mei ecna nbna hnna ena
       ina gana gena una vdom_pref_ue_usage_len voice_domain_pref_and_ues_usage_setting)).

Definition layout_gtp_umts_key_quadruplets_and_quintuplets_ie (v : gtp_umts_key_quadruplets_and_quintuplets_ie_t) : list field :=
  [FHdr v.(header); FBits v.(security_mode) 3; FBits v.(spare2) 1; FBits v.(drxi) 1;
   FBits v.(ksiasme) 3; FBits v.(nbr_of_quintuplets) 3; FBits v.(nbr_of_quadruplet) 3;
   FBits v.(uambri) 1; FBits v.(sambri) 1; FBits v.(spare3) 8; FCopy v.(ck); FCopy v.(ik);
   FBits v.(auth_quadruplet) 8; FBits v.(auth_quintuplet) 8; FBits v.(drx_parameter) 16;
   FBits v.(uplnk_subscrbd_ue_ambr) 32; FBits v.(dnlnk_subscrbd_ue_ambr) 32;
   FBits v.(uplnk_used_ue_ambr) 32; FBits v.(dnlnk_used_ue_ambr) 32;
   FBits v.(ue_ntwk_capblty_len) 8; FBits v.(ue_ntwk_capblty) 8;
   FBits v.(ms_ntwk_capblty_len) 8; FBits v.(ms_ntwk_capblty) 8; FBits v.(mei_length) 8;
   FBits v.(mei) 8; FBits v.(ecna) 1; FBits v.(nbna) 1; FBits v.(hnna) 1; FBits v.(ena) 1;
   FBits v.(ina) 1; FBits v.(gana) 1; FBits v.(gena) 1; FBits v.(una) 1;
   FBits v.(vdom_pref_ue_usage_len) 8; FBits v.(voice_domain_pref_and_ues_usage_setting) 8].

Definition ok_gtp_umts_key_quadruplets_and_quintuplets_ie (v : gtp_umts_key_quadruplets_and_quintuplets_ie_t) : Prop :=
  Z.of_nat (length v.(ck)) = CK_LEN /\ Z.of_nat (length v.(ik)) = IK_LEN.

Definition count_gtp_umts_key_quadruplets_and_quintuplets_ie (v : gtp_umts_key_quadruplets_and_quintuplets_ie_t) : Z := v.(header).(hdr_len) + IE_HEADER_SIZE.

Lemma layout_gtp_umts_key_quadruplets_and_quintuplets_ie_size v : ok_gtp_umts_key_quadruplets_and_quintuplets_ie v -> lsize (layout_gtp_umts_key_quadruplets_and_quintuplets_ie v) = 544.
Proof. unfold ok_gtp_umts_key_quadruplets_and_quintuplets_ie, layout_gtp_umts_key_quadruplets_and_quintuplets_ie. solve_size. Qed.

Lemma encode_gtp_umts_key_quadruplets_and_quintuplets_ie_emits v buf :
  ok_gtp_umts_key_quadruplets_and_quintuplets_ie v -> emits buf 0 (layout_gtp_umts_key_quadruplets_and_quintuplets_ie v) (encode_gtp_umts_key_quadruplets_and_quintuplets_ie v buf) (544 / 8).
Proof. unfold ok_gtp_umts_key_quadruplets_and_quintuplets_ie, layout_gtp_umts_key_quadruplets_and_quintuplets_ie, encode_gtp_umts_key_quadruplets_and_quintuplets_ie. solve_emits. Qed.

Lemma decode_gtp_umts_key_quadruplets_and_quintuplets_ie_decodes m buf v :
  ok_gtp_umts_key_quadruplets_and_quintuplets_ie v ->
  decodes m buf (layout_gtp_umts_key_quadruplets_and_quintuplets_ie v) (decode_gtp_umts_key_quadruplets_and_quintuplets_ie m buf) (count_gtp_umts_key_quadruplets_and_quintuplets_ie v, v).
Proof. unfold ok_gtp_umts_key_quadruplets_and_quintuplets_ie, layout_gtp_umts_key_quadruplets_and_quintuplets_ie, decode_gtp_umts_key_quadruplets_and_quintuplets_ie, count_gtp_umts_key_quadruplets_and_quintuplets_ie. solve_decodes v. Qed.

#[global] Instance gtp_umts_key_quadruplets_and_quintuplets_ie_format : WireFormat gtp_umts_key_quadruplets_and_quintuplets_ie_t :=
  fixed_format layout_gtp_umts_key_quadruplets_and_quintuplets_ie ok_gtp_umts_key_quadruplets_and_quintuplets_ie count_gtp_umts_key_quadruplets_and_quintuplets_ie encode_gtp_umts_key_quadruplets_and_quintuplets_ie decode_gtp_umts_key_quadruplets_and_quintuplets_ie 544 ltac:(reflexivity)
    layout_gtp_umts_key_quadruplets_and_quintuplets_ie_size encode_gtp_umts_key_quadruplets_and_quintuplets_ie_emits decode_gtp_umts_key_quadruplets_and_quintuplets_ie_decodes.

End gtp_umts_key_quadruplets_and_quintuplets_ie.

(** ** [gtp_cmplt_req_msg_ie] *)

Module gtp_cmplt_req_msg_ie.

Record gtp_cmplt_req_msg_ie_t := {
  header : ie_header_t;
  cmplt_req_msg_type : Z;  (* uint8_t *)
  cmplt_req_msg : Z  (* uint8_t *)
}.

Definition encode_gtp_cmplt_req_msg_ie (value : gtp_cmplt_req_msg_ie_t) (buf : Z) : enc Z :=
  encoded <- ret 0;;
  encoded <- put_header value.(header) buf encoded;;
  encoded <- put_bits value.(cmplt_req_msg_type) 8 buf encoded;;
  encoded <- put_bits value.(cmplt_req_msg) 8 buf encoded;;
  ret (encoded / CHAR_SIZE).

Definition decode_gtp_cmplt_req_msg_ie (m : bytes) (buf : Z) : option (Z * gtp_cmplt_req_msg_ie_t) :=
  run_dec (
  header <- get_header m buf;;
  cmplt_req_msg_type <- get_bits m buf 8;;
  cmplt_req_msg <- get_bits m buf 8;;
  ret (header.(hdr_len) + IE_HEADER_SIZE,
      Build_gtp_cmplt_req_msg_ie_t header cmplt_req_msg_type cmplt_req_msg)).

Definition layout_gtp_cmplt_req_msg_ie (v : gtp_cmplt_req_msg_ie_t) : list field :=
  [FHdr v.(header); FBits v.(cmplt_req_msg_type) 8; FBits v.(cmplt_req_msg) 8].

Definition ok_gtp_cmplt_req_msg_ie (v : gtp_cmplt_req_msg_ie_t) : Prop :=
  True.

Definition count_gtp_cmplt_req_msg_ie (v : gtp_cmplt_req_msg_ie_t) : Z := v.(header).(hdr_len) + IE_HEADER_SIZE.

Lemma layout_gtp_cmplt_req_msg_ie_size v : ok_gtp_cmplt_req_msg_ie v -> lsize (layout_gtp_cmplt_req_msg_ie v) = 48.
Proof. unfold ok_gtp_cmplt_req_msg_ie, layout_gtp_cmplt_req_msg_ie. solve_size. Qed.

Lemma encode_gtp_cmplt_req_msg_ie_emits v buf :
  ok_gtp_cmplt_req_msg_ie v -> emits buf 0 (layout_gtp_cmplt_req_msg_ie v) (encode_gtp_cmplt_req_msg_ie v buf) (48 / 8).
Proof. unfold ok_gtp_cmplt_req_msg_ie, layout_gtp_cmplt_req_msg_ie, encode_gtp_cmplt_req_msg_ie. solve_emits. Qed.

Lemma decode_gtp_cmplt_req_msg_ie_decodes m buf v :
  ok_gtp_cmplt_req_msg_ie v ->
  decodes m buf (layout_gtp_cmplt_req_msg_ie v) (decode_gtp_cmplt_req_msg_ie m buf) (count_gtp_cmplt_req_msg_ie v, v).
Proof. unfold ok_gtp_cmplt_req_msg_ie, layout_gtp_cmplt_req_msg_ie, decode_gtp_cmplt_req_msg_ie, count_gtp_cmplt_req_msg_ie. solve_decodes v. Qed.

#[global] Instance gtp_cmplt_req_msg_ie_format : WireFormat gtp_cmplt_req_msg_ie_t :=
  fixed_format layout_gtp_cmplt_req_msg_ie ok_gtp_cmplt_req_msg_ie count_gtp_cmplt_req_msg_ie encode_gtp_cmplt_req_msg_ie decode_gtp_cmplt_req_msg_ie 48 ltac:(reflexivity)
    layout_gtp_cmplt_req_msg_ie_size encode_gtp_cmplt_req_msg_ie_emits decode_gtp_cmplt_req_msg_ie_decodes.

End gtp_cmplt_req_msg_ie.

(** ** [gtp_epc_timer_ie] *)

Module gtp_epc_timer_ie.

Record gtp_epc_timer_ie_t := {
  header : ie_header_t;
  timer_unit : Z;  (* uint8_t :3 *)
  timer_value : Z  (* uint8_t :5 *)
}.

Definition encode_gtp_epc_timer_ie (value : gtp_epc_timer_ie_t) (buf : Z) : enc Z :=
  encoded <- ret 0;;
  encoded <- put_header value.(header) buf encoded;;
  encoded <- put_bits value.(timer_unit) 3 buf encoded;;
  encoded <- put_bits value.(timer_value) 5 buf encoded;;
  ret (encoded / CHAR_SIZE).

Definition decode_gtp_epc_timer_ie (m : bytes) (buf : Z) : option (Z * gtp_epc_timer_ie_t) :=
  run_dec (
  header <- get_header m buf;;
  timer_unit <- get_bits m buf 3;;
  timer_value <- get_bits m buf 5;;
  ret (header.(hdr_len) + IE_HEADER_SIZE,
      Build_gtp_epc_timer_ie_t header timer_unit timer_value)).

Definition layout_gtp_epc_timer_ie (v : gtp_epc_timer_ie_t) : list field :=
  [FHdr v.(header); FBits v.(timer_unit) 3; FBits v.(timer_value) 5].

Definition ok_gtp_epc_timer_ie (v : gtp_epc_timer_ie_t) : Prop :=
  True.

Definition count_gtp_epc_timer_ie (v : gtp_epc_timer_ie_t) : Z := v.(header).(hdr_len) + IE_HEADER_SIZE.

Lemma layout_gtp_epc_timer_ie_size v : ok_gtp_epc_timer_ie v -> lsize (layout_gtp_epc_timer_ie v) = 40.
Proof. unfold ok_gtp_epc_timer_ie, layout_gtp_epc_timer_ie. solve_size. Qed.

Lemma encode_gtp_epc_timer_ie_emits v buf :
  ok_gtp_epc_timer_ie v -> emits buf 0 (layout_gtp_epc_timer_ie v) (encode_gtp_epc_timer_ie v buf) (40 / 8).
Proof. unfold ok_gtp_epc_timer_ie, layout_gtp_epc_timer_ie, encode_gtp_epc_timer_ie. solve_emits. Qed.

Lemma decode_gtp_epc_timer_ie_decodes m buf v :
  ok_gtp_epc_timer_ie v ->
  decodes m buf (layout_gtp_epc_timer_ie v) (decode_gtp_epc_timer_ie m buf) (count_gtp_epc_timer_ie v, v).
Proof. unfold ok_gtp_epc_timer_ie, layout_gtp_epc_timer_ie, decode_gtp_epc_timer_ie, count_gtp_epc_timer_ie. solve_decodes v. Qed.

#[global] Instance gtp_epc_timer_ie_format : WireFormat gtp_epc_timer_ie_t :=
  fixed_format layout_gtp_epc_timer_ie ok_gtp_epc_timer_ie count_gtp_epc_timer_ie encode_gtp_epc_timer_ie decode_gtp_epc_timer_ie 40 ltac:(reflexivity)
    layout_gtp_epc_timer_ie_size encode_gtp_epc_timer_ie_emits decode_gtp_epc_timer_ie_decodes.

End gtp_epc_timer_ie.

(** ** [gtp_csg_id_ie] *)

Module gtp_csg_id_ie.

Record gtp_csg_id_ie_t := {
  header : ie_header_t;
  csg_id_spare2 : Z;  (* uint8_t :5 *)
  csg_id_csg_id : Z;  (* uint8_t :3 *)
  csg_id_csg_id2 : Z  (* uint32_t :24 *)
}.

Definition encode_gtp_csg_id_ie (value : gtp_csg_id_ie_t) (buf : Z) : enc Z :=
  encoded <- ret 0;;
  encoded <- put_header value.(header) buf encoded;;
  encoded <- put_bits value.(csg_id_spare2) 5 buf encoded;;
  encoded <- put_bits value.(csg_id_csg_id) 3 buf encoded;;
  encoded <- put_bits value.(csg_id_csg_id2) 24 buf encoded;;
  ret (encoded / CHAR_SIZE).

Definition decode_gtp_csg_id_ie (m : bytes) (buf : Z) : option (Z * gtp_csg_id_ie_t) :=
  run_dec (
  header <- get_header m buf;;
  csg_id_spare2 <- get_bits m buf 5;;
  csg_id_csg_id <- get_bits m buf 3;;
  csg_id_csg_id2 <- get_bits m buf 24;;
  ret (header.(hdr_len) + IE_HEADER_SIZE,
      Build_gtp_csg_id_ie_t header csg_id_spare2 csg_id_csg_id csg_id_csg_id2)).

Definition layout_gtp_csg_id_ie (v : gtp_csg_id_ie_t) : list field :=
  [FHdr v.(header); FBits v.(csg_id_spare2) 5; FBits v.(csg_id_csg_id) 3;
   FBits v.(csg_id_csg_id2) 24].

Definition ok_gtp_csg_id_ie (v : gtp_csg_id_ie_t) : Prop :=
  True.

Definition count_gtp_csg_id_ie (v : gtp_csg_id_ie_t) : Z := v.(header).(hdr_len) + IE_HEADER_SIZE.

Lemma layout_gtp_csg_id_ie_size v : ok_gtp_csg_id_ie v -> lsize (layout_gtp_csg_id_ie v) = 64.
Proof. unfold ok_gtp_csg_id_ie, layout_gtp_csg_id_ie. solve_size. Qed.

Lemma encode_gtp_csg_id_ie_emits v buf :
  ok_gtp_csg_id_ie v -> emits buf 0 (layout_gtp_csg_id_ie v) (encode_gtp_csg_id_ie v buf) (64 / 8).
Proof. unfold ok_gtp_csg_id_ie, layout_gtp_csg_id_ie, encode_gtp_csg_id_ie. solve_emits. Qed.

Lemma decode_gtp_csg_id_ie_decodes m buf v :
  ok_gtp_csg_id_ie v ->
  decodes m buf (layout_gtp_csg_id_ie v) (decode_gtp_csg_id_ie m buf) (count_gtp_csg_id_ie v, v).
Proof. unfold ok_gtp_csg_id_ie, layout_gtp_csg_id_ie, decode_gtp_csg_id_ie, count_gtp_csg_id_ie. solve_decodes v. Qed.

#[global] Instance gtp_csg_id_ie_format : WireFormat gtp_csg_id_ie_t :=
  fixed_format layout_gtp_csg_id_ie ok_gtp_csg_id_ie count_gtp_csg_id_ie encode_gtp_csg_id_ie decode_gtp_csg_id_ie 64 ltac:(reflexivity)
    layout_gtp_csg_id_ie_size encode_gtp_csg_id_ie_emits decode_gtp_csg_id_ie_decodes.

End gtp_csg_id_ie.

(** ** [gtp_packet_flow_id_ie] *)

Module gtp_packet_flow_id_ie.

Record gtp_packet_flow_id_ie_t := {
  header : ie_header_t;
  packet_flow_id_spare2 : Z;  (* uint8_t :4 *)
  packet_flow_id_ebi : Z;  (* uint8_t :4 *)
  packet_flow_id_packet_flow_id : Z  (* uint8_t *)
}.

Definition encode_gtp_packet_flow_id_ie (value : gtp_packet_flow_id_ie_t) (buf : Z) : enc Z :=
  encoded <- ret 0;;
  encoded <- put_header value.(header) buf encoded;;
  encoded <- put_bits value.(packet_flow_id_spare2) 4 buf encoded;;
  encoded <- put_bits value.(packet_flow_id_ebi) 4 buf encoded;;
  encoded <- put_bits value.(packet_flow_id_packet_flow_id) 8 buf encoded;;
  ret (encoded / CHAR_SIZE).

Definition decode_gtp_packet_flow_id_ie (m : bytes) (buf : Z) : option (Z * gtp_packet_flow_id_ie_t) :=
  run_dec (
  header <- get_header m buf;;
  packet_flow_id_spare2 <- get_bits m buf 4;;
  packet_flow_id_ebi <- get_bits m buf 4;;
  packet_flow_id_packet_flow_id <- get_bits m buf 8;;
  ret (header.(hdr_len) + IE_HEADER_SIZE,
      Build_gtp_packet_flow_id_ie_t header packet_flow_id_spare2 packet_flow_id_ebi
       packet_flow_id_packet_flow_id)).

Definition layout_gtp_packet_flow_id_ie (v : gtp_packet_flow_id_ie_t) : list field :=
  [FHdr v.(header); FBits v.(packet_flow_id_spare2) 4; FBits v.(packet_flow_id_ebi) 4;
   FBits v.(packet_flow_id_packet_flow_id) 8].

Definition ok_gtp_packet_flow_id_ie (v : gtp_packet_flow_id_ie_t) : Prop :=
  True.

Definition count_gtp_packet_flow_id_ie (v : gtp_packet_flow_id_ie_t) : Z := v.(header).(hdr_len) + IE_HEADER_SIZE.

Lemma layout_gtp_packet_flow_id_ie_size v : ok_gtp_packet_flow_id_ie v -> lsize (layout_gtp_packet_flow_id_ie v) = 48.
Proof. unfold ok_gtp_packet_flow_id_ie, layout_gtp_packet_flow_id_ie. solve_size. Qed.

Lemma encode_gtp_packet_flow_id_ie_emits v buf :
  ok_gtp_packet_flow_id_ie v -> emits buf 0 (layout_gtp_packet_flow_id_ie v) (encode_gtp_packet_flow_id_ie v buf) (48 / 8).
Proof. unfold ok_gtp_packet_flow_id_ie, layout_gtp_packet_flow_id_ie, encode_gtp_packet_flow_id_ie. solve_emits. Qed.

Lemma decode_gtp_packet_flow_id_ie_decodes m buf v :
  ok_gtp_packet_flow_id_ie v ->
  decodes m buf (layout_gtp_packet_flow_id_ie v) (decode_gtp_packet_flow_id_ie m buf) (count_gtp_packet_flow_id_ie v, v).
Proof. unfold ok_gtp_packet_flow_id_ie, layout_gtp_packet_flow_id_ie, decode_gtp_packet_flow_id_ie, count_gtp_packet_flow_id_ie. solve_decodes v. Qed.

#[global] Instance gtp_packet_flow_id_ie_format : WireFormat gtp_packet_flow_id_ie_t :=
  fixed_format layout_gtp_packet_flow_id_ie ok_gtp_packet_flow_id_ie count_gtp_packet_flow_id_ie encode_gtp_packet_flow_id_ie decode_gtp_packet_flow_id_ie 48 ltac:(reflexivity)
    layout_gtp_packet_flow_id_ie_size encode_gtp_packet_flow_id_ie_emits decode_gtp_packet_flow_id_ie_decodes.

End gtp_packet_flow_id_ie.

(** ** [gtp_tmgi_ie] *)

Module gtp_tmgi_ie.

Record gtp_tmgi_ie_t := {
  header : ie_header_t;
  tmgi : Z  (* uint8_t *)
}.

Definition encode_gtp_tmgi_ie (value : gtp_tmgi_ie_t) (buf : Z) : enc Z :=
  encoded <- ret 0;;
  encoded <- put_header value.(header) buf encoded;;
  encoded <- put_bits value.(tmgi) 8 buf encoded;;
  ret (encoded / CHAR_SIZE).

Definition decode_gtp_tmgi_ie (m : bytes) (buf : Z) : option (Z * gtp_tmgi_ie_t) :=
  run_dec (
  header <- get_header m buf;;
  tmgi <- get_bits m buf 8;;
  ret (header.(hdr_len) + IE_HEADER_SIZE,
      Build_gtp_tmgi_ie_t header tmgi)).

Definition layout_gtp_tmgi_ie (v : gtp_tmgi_ie_t) : list field :=
  [FHdr v.(header); FBits v.(tmgi) 8].

Definition ok_gtp_tmgi_ie (v : gtp_tmgi_ie_t) : Prop :=
  True.

Definition count_gtp_tmgi_ie (v : gtp_tmgi_ie_t) : Z := v.(header).(hdr_len) + IE_HEADER_SIZE.

Lemma layout_gtp_tmgi_ie_size v : ok_gtp_tmgi_ie v -> lsize (layout_gtp_tmgi_ie v) = 40.
Proof. unfold ok_gtp_tmgi_ie, layout_gtp_tmgi_ie. solve_size. Qed.

Lemma encode_gtp_tmgi_ie_emits v buf :
  ok_gtp_tmgi_ie v -> emits buf 0 (layout_gtp_tmgi_ie v) (encode_gtp_tmgi_ie v buf) (40 / 8).
Proof. unfold ok_gtp_tmgi_ie, layout_gtp_tmgi_ie, encode_gtp_tmgi_ie. solve_emits. Qed.

Lemma decode_gtp_tmgi_ie_decodes m buf v :
  ok_gtp_tmgi_ie v ->
  decodes m buf (layout_gtp_tmgi_ie v) (decode_gtp_tmgi_ie m buf) (count_gtp_tmgi_ie v, v).
Proof. unfold ok_gtp_tmgi_ie, layout_gtp_tmgi_ie, decode_gtp_tmgi_ie, count_gtp_tmgi_ie. solve_decodes v. Qed.

#[global] Instance gtp_tmgi_ie_format : WireFormat gtp_tmgi_ie_t :=
  fixed_format layout_gtp_tmgi_ie ok_gtp_tmgi_ie count_gtp_tmgi_ie encode_gtp_tmgi_ie decode_gtp_tmgi_ie 40 ltac:(reflexivity)
    layout_gtp_tmgi_ie_size encode_gtp_tmgi_ie_emits decode_gtp_tmgi_ie_decodes.

End gtp_tmgi_ie.

(** ** [gtp_mntrng_evnt_info_ie] *)

Module gtp_mntrng_evnt_info_ie.

Record gtp_mntrng_evnt_info_ie_t := {
  header : ie_header_t;
  scef_ref_id : Z;  (* uint32_t *)
  scef_id_length : Z;  (* uint8_t *)
  scef_id : Z;  (* uint8_t *)
  rem_nbr_of_rpts : Z  (* uint16_t *)
}.

Definition encode_gtp_mntrng_evnt_info_ie (value : gtp_mntrng_evnt_info_ie_t) (buf : Z) : enc Z :=
  encoded <- ret 0;;
  encoded <- put_header value.(header) buf encoded;;
  encoded <- put_bits value.(scef_ref_id) 32 buf encoded;;
  encoded <- put_bits value.(scef_id_length) 8 buf encoded;;
  encoded <- put_bits value.(scef_id) 8 buf encoded;;
  encoded <- put_bits value.(rem_nbr_of_rpts) 16 buf encoded;;
  ret (encoded / CHAR_SIZE).

Definition decode_gtp_mntrng_evnt_info_ie (m : bytes) (buf : Z) : option (Z * gtp_mntrng_evnt_info_ie_t) :=
  run_dec (
  header <- get_header m buf;;
  scef_ref_id <- get_bits m buf 32;;
  scef_id_length <- get_bits m buf 8;;
  scef_id <- get_bits m buf 8;;
  rem_nbr_of_rpts <- get_bits m buf 16;;
  ret (header.(hdr_len) + IE_HEADER_SIZE,
      Build_gtp_mntrng_evnt_info_ie_t header scef_ref_id scef_id_length scef_id
       rem_nbr_of_rpts)).

Definition layout_gtp_mntrng_evnt_info_ie (v : gtp_mntrng_evnt_info_ie_t) : list field :=
  [FHdr v.(header); FBits v.(scef_ref_id) 32; FBits v.(scef_id_length) 8; FBits v.(scef_id) 8;
   FBits v.(rem_nbr_of_rpts) 16].

Definition ok_gtp_mntrng_evnt_info_ie (v : gtp_mntrng_evnt_info_ie_t) : Prop :=
  True.

Definition count_gtp_mntrng_evnt_info_ie (v : gtp_mntrng_evnt_info_ie_t) : Z := v.(header).(hdr_len) + IE_HEADER_SIZE.

Lemma layout_gtp_mntrng_evnt_info_ie_size v : ok_gtp_mntrng_evnt_info_ie v -> lsize (layout_gtp_mntrng_evnt_info_ie v) = 96.
Proof. unfold ok_gtp_mntrng_evnt_info_ie, layout_gtp_mntrng_evnt_info_ie. solve_size. Qed.

Lemma encode_gtp_mntrng_evnt_info_ie_emits v buf :
  ok_gtp_mntrng_evnt_info_ie v -> emits buf 0 (layout_gtp_mntrng_evnt_info_ie v) (encode_gtp_mntrng_evnt_info_ie v buf) (96 / 8).
Proof. unfold ok_gtp_mntrng_evnt_info_ie, layout_gtp_mntrng_evnt_info_ie, encode_gtp_mntrng_evnt_info_ie. solve_emits. Qed.

Lemma decode_gtp_mntrng_evnt_info_ie_decodes m buf v :
  ok_gtp_mntrng_evnt_info_ie v ->
  decodes m buf (layout_gtp_mntrng_evnt_info_ie v) (decode_gtp_mntrng_evnt_info_ie m buf) (count_gtp_mntrng_evnt_info_ie v, v).
Proof. unfold ok_gtp_mntrng_evnt_info_ie, layout_gtp_mntrng_evnt_info_ie, decode_gtp_mntrng_evnt_info_ie, count_gtp_mntrng_evnt_info_ie. solve_decodes v. Qed.

#[global] Instance gtp_mntrng_evnt_info_ie_format : WireFormat gtp_mntrng_evnt_info_ie_t :=
  fixed_format layout_gtp_mntrng_evnt_info_ie ok_gtp_mntrng_evnt_info_ie count_gtp_mntrng_evnt_info_ie encode_gtp_mntrng_evnt_info_ie decode_gtp_mntrng_evnt_info_ie 96 ltac:(reflexivity)
    layout_gtp_mntrng_evnt_info_ie_size encode_gtp_mntrng_evnt_info_ie_emits decode_gtp_mntrng_evnt_info_ie_decodes.

End gtp_mntrng_evnt_info_ie.

(** ** [gtp_rmt_ue_ip_info_ie] *)

Module gtp_rmt_ue_ip_info_ie.

Record gtp_rmt_ue_ip_info_ie_t := {
  header : ie_header_t;
  rmt_ue_ip_info : Z  (* uint8_t *)
}.

Definition encode_gtp_rmt_ue_ip_info_ie (value : gtp_rmt_ue_ip_info_ie_t) (buf : Z) : enc Z :=
  encoded <- ret 0;;
  encoded <- put_header value.(header) buf encoded;;
  encoded <- put_bits value.(rmt_ue_ip_info) 8 buf encoded;;
  ret (encoded / CHAR_SIZE).

Definition decode_gtp_rmt_ue_ip_info_ie (m : bytes) (buf : Z) : option (Z * gtp_rmt_ue_ip_info_ie_t) :=
  run_dec (
  header <- get_header m buf;;
  rmt_ue_ip_info <- get_bits m buf 8;;
  ret (header.(hdr_len) + IE_HEADER_SIZE,
      Build_gtp_rmt_ue_ip_info_ie_t header rmt_ue_ip_info)).

Definition layout_gtp_rmt_ue_ip_info_ie (v : gtp_rmt_ue_ip_info_ie_t) : list field :=
  [FHdr v.(header); FBits v.(rmt_ue_ip_info) 8].

Definition ok_gtp_rmt_ue_ip_info_ie (v : gtp_rmt_ue_ip_info_ie_t) : Prop :=
  True.

Definition count_gtp_rmt_ue_ip_info_ie (v : gtp_rmt_ue_ip_info_ie_t) : Z := v.(header).(hdr_len) + IE_HEADER_SIZE.

Lemma layout_gtp_rmt_ue_ip_info_ie_size v : ok_gtp_rmt_ue_ip_info_ie v -> lsize (layout_gtp_rmt_ue_ip_info_ie v) = 40.
Proof. unfold ok_gtp_rmt_ue_ip_info_ie, layout_gtp_rmt_ue_ip_info_ie. solve_size. Qed.

Lemma encode_gtp_rmt_ue_ip_info_ie_emits v buf :
  ok_gtp_rmt_ue_ip_info_ie v -> emits buf 0 (layout_gtp_rmt_ue_ip_info_ie v) (encode_gtp_rmt_ue_ip_info_ie v buf) (40 / 8).
Proof. unfold ok_gtp_rmt_ue_ip_info_ie, layout_gtp_rmt_ue_ip_info_ie, encode_gtp_rmt_ue_ip_info_ie. solve_emits. Qed.

Lemma decode_gtp_rmt_ue_ip_info_ie_decodes m buf v :
  ok_gtp_rmt_ue_ip_info_ie v ->
  decodes m buf (layout_gtp_rmt_ue_ip_info_ie v) (decode_gtp_rmt_ue_ip_info_ie m buf) (count_gtp_rmt_ue_ip_info_ie v, v).
Proof. unfold ok_gtp_rmt_ue_ip_info_ie, layout_gtp_rmt_ue_ip_info_ie, decode_gtp_rmt_ue_ip_info_ie, count_gtp_rmt_ue_ip_info_ie. solve_decodes v. Qed.

#[global] Instance gtp_rmt_ue_ip_info_ie_format : WireFormat gtp_rmt_ue_ip_info_ie_t :=
  fixed_format layout_gtp_rmt_ue_ip_info_ie ok_gtp_rmt_ue_ip_info_ie count_gtp_rmt_ue_ip_info_ie encode_gtp_rmt_ue_ip_info_ie decode_gtp_rmt_ue_ip_info_ie 40 ltac:(reflexivity)
    layout_gtp_rmt_ue_ip_info_ie_size encode_gtp_rmt_ue_ip_info_ie_emits decode_gtp_rmt_ue_ip_info_ie_decodes.

End gtp_rmt_ue_ip_info_ie.
