(* ===== verification/GtpIes2.v ===== *)
(** Information elements of libgtpv2c of constant size: information elements with a header, part 2 of 3.

    Each structure of gtp_ies.h is a record in a module of its own, with its
    encoder (gtp_ies_encoder.c), its decoder (gtp_ies_decoder.c), the wire
    layout both implement, and the [WireFormat] instance that proves it. *)

From Stdlib Require Import ZArith List Lia.
From S2P Require Import Prelude EncDecBits WireFormat GtpDefs.
Import ListNotations.
Open Scope Z_scope.
Open Scope wire_scope.

(** ** [gtp_bearer_qlty_of_svc_ie] *)

Module gtp_bearer_qlty_of_svc_ie.

Record gtp_bearer_qlty_of_svc_ie_t := {
  header : ie_header_t;
  spare2 : Z;  (* uint8_t :1 *)
  pci : Z;  (* uint8_t :1 *)
  pl : Z;  (* uint8_t :4 *)
  spare3 : Z;  (* uint8_t :1 *)
  pvi : Z;  (* uint8_t :1 *)
  qci : Z;  (* uint8_t *)
  max_bit_rate_uplnk : Z;  (* uint64_t :40 *)
  max_bit_rate_dnlnk : Z;  (* uint64_t :40 *)
  guarntd_bit_rate_uplnk : Z;  (* uint64_t :40 *)
  guarntd_bit_rate_dnlnk : Z  (* uint64_t :40 *)
}.

Definition encode_gtp_bearer_qlty_of_svc_ie (value : gtp_bearer_qlty_of_svc_ie_t) (buf : Z) : enc Z :=
  encoded <- ret 0;;
  encoded <- put_header value.(header) buf encoded;;
  encoded <- put_bits value.(spare2) 1 buf encoded;;
  encoded <- put_bits value.(pci) 1 buf encoded;;
  encoded <- put_bits value.(pl) 4 buf encoded;;
  encoded <- put_bits value.(spare3) 1 buf encoded;;
  encoded <- put_bits value.(pvi) 1 buf encoded;;
  encoded <- put_bits value.(qci) 8 buf encoded;;
  encoded <- put_bits value.(max_bit_rate_uplnk) 40 buf encoded;;
  encoded <- put_bits value.(max_bit_rate_dnlnk) 40 buf encoded;;
  encoded <- put_bits value.(guarntd_bit_rate_uplnk) 40 buf encoded;;
  encoded <- put_bits value.(guarntd_bit_rate_dnlnk) 40 buf encoded;;
  ret (encoded / CHAR_SIZE).

Definition decode_gtp_bearer_qlty_of_svc_ie (m : bytes) (buf : Z) : option (Z * gtp_bearer_qlty_of_svc_ie_t) :=
  run_dec (
  header <- get_header m buf;;
  spare2 <- get_bits m buf 1;;
  pci <- get_bits m buf 1;;
  pl <- get_bits m buf 4;;
  spare3 <- get_bits m buf 1;;
  pvi <- get_bits m buf 1;;
  qci <- get_bits m buf 8;;
  max_bit_rate_uplnk <- get_bits m buf 40;;
  max_bit_rate_dnlnk <- get_bits m buf 40;;
  guarntd_bit_rate_uplnk <- get_bits m buf 40;;
  guarntd_bit_rate_dnlnk <- get_bits m buf 40;;
  ret (header.(hdr_len) + IE_HEADER_SIZE,
      Build_gtp_bearer_qlty_of_svc_ie_t header spare2 pci pl spare3 pvi qci
       max_bit_rate_uplnk max_bit_rate_dnlnk guarntd_bit_rate_uplnk guarntd_bit_rate_dnlnk)).

Definition layout_gtp_bearer_qlty_of_svc_ie (v : gtp_bearer_qlty_of_svc_ie_t) : list field :=
  [FHdr v.(header); FBits v.(spare2) 1; FBits v.(pci) 1; FBits v.(pl) 4; FBits v.(spare3) 1;
   FBits v.(pvi) 1; FBits v.(qci) 8; FBits v.(max_bit_rate_uplnk) 40;
   FBits v.(max_bit_rate_dnlnk) 40; FBits v.(guarntd_bit_rate_uplnk) 40;
   FBits v.(guarntd_bit_rate_dnlnk) 40].

Definition ok_gtp_bearer_qlty_of_svc_ie (v : gtp_bearer_qlty_of_svc_ie_t) : Prop :=
  True.

Definition count_gtp_bearer_qlty_of_svc_ie (v : gtp_bearer_qlty_of_svc_ie_t) : Z := v.(header).(hdr_len) + IE_HEADER_SIZE.

Lemma layout_gtp_bearer_qlty_of_svc_ie_size v : ok_gtp_bearer_qlty_of_svc_ie v -> lsize (layout_gtp_bearer_qlty_of_svc_ie v) = 208.
Proof. unfold ok_gtp_bearer_qlty_of_svc_ie, layout_gtp_bearer_qlty_of_svc_ie. solve_size. Qed.

Lemma encode_gtp_bearer_qlty_of_svc_ie_emits v buf :
  ok_gtp_bearer_qlty_of_svc_ie v -> emits buf 0 (layout_gtp_bearer_qlty_of_svc_ie v) (encode_gtp_bearer_qlty_of_svc_ie v buf) (208 / 8).
Proof. unfold ok_gtp_bearer_qlty_of_svc_ie, layout_gtp_bearer_qlty_of_svc_ie, encode_gtp_bearer_qlty_of_svc_ie. solve_emits. Qed.

Lemma decode_gtp_bearer_qlty_of_svc_ie_decodes m buf v :
  ok_gtp_bearer_qlty_of_svc_ie v ->
  decodes m buf (layout_gtp_bearer_qlty_of_svc_ie v) (decode_gtp_bearer_qlty_of_svc_ie m buf) (count_gtp_bearer_qlty_of_svc_ie v, v).
Proof. unfold ok_gtp_bearer_qlty_of_svc_ie, layout_gtp_bearer_qlty_of_svc_ie, decode_gtp_bearer_qlty_of_svc_ie, count_gtp_bearer_qlty_of_svc_ie. solve_decodes v. Qed.

#[global] Instance gtp_bearer_qlty_of_svc_ie_format : WireFormat gtp_bearer_qlty_of_svc_ie_t :=
  fixed_format layout_gtp_bearer_qlty_of_svc_ie ok_gtp_bearer_qlty_of_svc_ie count_gtp_bearer_qlty_of_svc_ie encode_gtp_bearer_qlty_of_svc_ie decode_gtp_bearer_qlty_of_svc_ie 208 ltac:(reflexivity)
    layout_gtp_bearer_qlty_of_svc_ie_size encode_gtp_bearer_qlty_of_svc_ie_emits decode_gtp_bearer_qlty_of_svc_ie_decodes.

End gtp_bearer_qlty_of_svc_ie.

(** ** [gtp_mapped_ue_usage_type_ie] *)

Module gtp_mapped_ue_usage_type_ie.

Record gtp_mapped_ue_usage_type_ie_t := {
  header : ie_header_t;
  mapped_ue_usage_type : Z  (* uint16_t *)
}.

Definition encode_gtp_mapped_ue_usage_type_ie (value : gtp_mapped_ue_usage_type_ie_t) (buf : Z) : enc Z :=
  encoded <- ret 0;;
  encoded <- put_header value.(header) buf encoded;;
  encoded <- put_bits value.(mapped_ue_usage_type) 16 buf encoded;;
  ret (encoded / CHAR_SIZE).

Definition decode_gtp_mapped_ue_usage_type_ie (m : bytes) (buf : Z) : option (Z * gtp_mapped_ue_usage_type_ie_t) :=
  run_dec (
  header <- get_header m buf;;
  mapped_ue_usage_type <- get_bits m buf 16;;
  ret (header.(hdr_len) + IE_HEADER_SIZE,
      Build_gtp_mapped_ue_usage_type_ie_t header mapped_ue_usage_type)).

Definition layout_gtp_mapped_ue_usage_type_ie (v : gtp_mapped_ue_usage_type_ie_t) : list field :=
  [FHdr v.(header); FBits v.(mapped_ue_usage_type) 16].

Definition ok_gtp_mapped_ue_usage_type_ie (v : gtp_mapped_ue_usage_type_ie_t) : Prop :=
  True.

Definition count_gtp_mapped_ue_usage_type_ie (v : gtp_mapped_ue_usage_type_ie_t) : Z := v.(header).(hdr_len) + IE_HEADER_SIZE.

Lemma layout_gtp_mapped_ue_usage_type_ie_size v : ok_gtp_mapped_ue_usage_type_ie v -> lsize (layout_gtp_mapped_ue_usage_type_ie v) = 48.
Proof. unfold ok_gtp_mapped_ue_usage_type_ie, layout_gtp_mapped_ue_usage_type_ie. solve_size. Qed.

Lemma encode_gtp_mapped_ue_usage_type_ie_emits v buf :
  ok_gtp_mapped_ue_usage_type_ie v -> emits buf 0 (layout_gtp_mapped_ue_usage_type_ie v) (encode_gtp_mapped_ue_usage_type_ie v buf) (48 / 8).
Proof. unfold ok_gtp_mapped_ue_usage_type_ie, layout_gtp_mapped_ue_usage_type_ie, encode_gtp_mapped_ue_usage_type_ie. solve_emits. Qed.

Lemma decode_gtp_mapped_ue_usage_type_ie_decodes m buf v :
  ok_gtp_mapped_ue_usage_type_ie v ->
  decodes m buf (layout_gtp_mapped_ue_usage_type_ie v) (decode_gtp_mapped_ue_usage_type_ie m buf) (count_gtp_mapped_ue_usage_type_ie v, v).
Proof. unfold ok_gtp_mapped_ue_usage_type_ie, layout_gtp_mapped_ue_usage_type_ie, decode_gtp_mapped_ue_usage_type_ie, count_gtp_mapped_ue_usage_type_ie. solve_decodes v. Qed.

#[global] Instance gtp_mapped_ue_usage_type_ie_format : WireFormat gtp_mapped_ue_usage_type_ie_t :=
  fixed_format layout_gtp_mapped_ue_usage_type_ie ok_gtp_mapped_ue_usage_type_ie count_gtp_mapped_ue_usage_type_ie encode_gtp_mapped_ue_usage_type_ie decode_gtp_mapped_ue_usage_type_ie 48 ltac:(reflexivity)
    layout_gtp_mapped_ue_usage_type_ie_size encode_gtp_mapped_ue_usage_type_ie_emits decode_gtp_mapped_ue_usage_type_ie_decodes.

End gtp_mapped_ue_usage_type_ie.

(** ** [gtp_svc_indctr_ie] *)

Module gtp_svc_indctr_ie.

Record gtp_svc_indctr_ie_t := {
  header : ie_header_t;
  svc_indctr : Z  (* uint8_t *)
}.

Definition encode_gtp_svc_indctr_ie (value : gtp_svc_indctr_ie_t) (buf : Z) : enc Z :=
  encoded <- ret 0;;
  encoded <- put_header value.(header) buf encoded;;
  encoded <- put_bits value.(svc_indctr) 8 buf encoded;;
  ret (encoded / CHAR_SIZE).

Definition decode_gtp_svc_indctr_ie (m : bytes) (buf : Z) : option (Z * gtp_svc_indctr_ie_t) :=
  run_dec (
  header <- get_header m buf;;
  svc_indctr <- get_bits m buf 8;;
  ret (header.(hdr_len) + IE_HEADER_SIZE,
      Build_gtp_svc_indctr_ie_t header svc_indctr)).

Definition layout_gtp_svc_indctr_ie (v : gtp_svc_indctr_ie_t) : list field :=
  [FHdr v.(header); FBits v.(svc_indctr) 8].

Definition ok_gtp_svc_indctr_ie (v : gtp_svc_indctr_ie_t) : Prop :=
  True.

Definition count_gtp_svc_indctr_ie (v : gtp_svc_indctr_ie_t) : Z := v.(header).(hdr_len) + IE_HEADER_SIZE.

Lemma layout_gtp_svc_indctr_ie_size v : ok_gtp_svc_indctr_ie v -> lsize (layout_gtp_svc_indctr_ie v) = 40.
Proof. unfold ok_gtp_svc_indctr_ie, layout_gtp_svc_indctr_ie. solve_size. Qed.

Lemma encode_gtp_svc_indctr_ie_emits v buf :
  ok_gtp_svc_indctr_ie v -> emits buf 0 (layout_gtp_svc_indctr_ie v) (encode_gtp_svc_indctr_ie v buf) (40 / 8).
Proof. unfold ok_gtp_svc_indctr_ie, layout_gtp_svc_indctr_ie, encode_gtp_svc_indctr_ie. solve_emits. Qed.

Lemma decode_gtp_svc_indctr_ie_decodes m buf v :
  ok_gtp_svc_indctr_ie v ->
  decodes m buf (layout_gtp_svc_indctr_ie v) (decode_gtp_svc_indctr_ie m buf) (count_gtp_svc_indctr_ie v, v).
Proof. unfold ok_gtp_svc_indctr_ie, layout_gtp_svc_indctr_ie, decode_gtp_svc_indctr_ie, count_gtp_svc_indctr_ie. solve_decodes v. Qed.

#[global] Instance gtp_svc_indctr_ie_format : WireFormat gtp_svc_indctr_ie_t :=
  fixed_format layout_gtp_svc_indctr_ie ok_gtp_svc_indctr_ie count_gtp_svc_indctr_ie encode_gtp_svc_indctr_ie decode_gtp_svc_indctr_ie 40 ltac:(reflexivity)
    layout_gtp_svc_indctr_ie_size encode_gtp_svc_indctr_ie_emits decode_gtp_svc_indctr_ie_decodes.

End gtp_svc_indctr_ie.

(** ** [gtp_umts_key_used_cipher_and_quintuplets_ie] *)

Module gtp_umts_key_used_cipher_and_quintuplets_ie.

Record gtp_umts_key_used_cipher_and_quintuplets_ie_t := {
  header : ie_header_t;
  security_mode : Z;  (* uint8_t :3 *)
  spare2 : Z;  (* uint8_t :1 *)
  drxi : Z;  (* uint8_t :1 *)
  cksnksi : Z;  (* uint8_t :3 *)
  nbr_of_quintuplets : Z;  (* uint8_t :3 *)
  iovi : Z;  (* uint8_t :1 *)
  gupii : Z;  (* uint8_t :1 *)
  ugipai : Z;  (* uint8_t :1 *)
  uambri : Z;  (* uint8_t :1 *)
  sambri : Z;  (* uint8_t :1 *)
  spare3 : Z;  (* uint8_t :2 *)
  used_gprs_intgrty_protctn_algo : Z;  (* uint8_t :3 *)
  used_cipher : Z;  (* uint8_t :3 *)
  ck : list Z;  (* uint8_t[CK_LEN] *)
  ik : list Z;  (* uint8_t[IK_LEN] *)
  auth_quintuplet : Z;  (* uint8_t *)
  drx_parameter : Z;  (* uint16_t *)
  uplnk_subscrbd_ue_ambr : Z;  (* uint32_t *)
  dnlnk_subscrbd_ue_ambr : Z;  (* uint32_t *)
  uplnk_used_ue_ambr : Z;  (* uint32_t *)
  dnlnk_used_ue_ambr : Z;  (* uint8_t *)
  ue_ntwk_capblty_len : Z;  (* uint8_t *)
  ue_ntwk_capblty : Z;  (* uint8_t *)
  ms_ntwk_capblty_len : Z;  (* uint8_t *)
  ms_ntwk_capblty : Z;  (* uint8_t *)
  mei_length : Z;  (* uint8_t *)
  mei : Z;  (* uint8_t *)
  ecna : Z;  (* uint8_t :1 *)
  nbna : Z;  (* uint8_t :1 *)
  hnna : Z;  (* uint8_t :1 *)
  ena : Z;  (* uint8_t :1 *)
  ina : Z;  (* uint8_t :1 *)
  gana : Z;  (* uint8_t :1 *)
  gena : Z;  (* uint8_t :1 *)
  una : Z;  (* uint8_t :1 *)
  vdom_pref_ue_usage_len : Z;  (* uint8_t *)
  voice_domain_pref_and_ues_usage_setting : Z;  (* uint8_t *)
  higher_bitrates_flg_len : Z;  (* uint8_t *)
  higher_bitrates_flg : Z;  (* uint8_t *)
  iov_updts_cntr : Z  (* uint8_t *)
}.

Definition encode_gtp_umts_key_used_cipher_and_quintuplets_ie (value : gtp_umts_key_used_cipher_and_quintuplets_ie_t) (buf : Z) : enc Z :=
  encoded <- ret 0;;
  encoded <- put_header value.(header) buf encoded;;
  encoded <- put_bits value.(security_mode) 3 buf encoded;;
  encoded <- put_bits value.(spare2) 1 buf encoded;;
  encoded <- put_bits value.(drxi) 1 buf encoded;;
  encoded <- put_bits value.(cksnksi) 3 buf encoded;;
  encoded <- put_bits value.(nbr_of_quintuplets) 3 buf encoded;;
  encoded <- put_bits value.(iovi) 1 buf encoded;;
  encoded <- put_bits value.(gupii) 1 buf encoded;;
  encoded <- put_bits value.(ugipai) 1 buf encoded;;
  encoded <- put_bits value.(uambri) 1 buf encoded;;
  encoded <- put_bits value.(sambri) 1 buf encoded;;
  encoded <- put_bits value.(spare3) 2 buf encoded;;
  encoded <- put_bits value.(used_gprs_intgrty_protctn_algo) 3 buf encoded;;
  encoded <- put_bits value.(used_cipher) 3 buf encoded;;
  encoded <- put_bytes value.(ck) CK_LEN buf encoded;;
  encoded <- put_bytes value.(ik) IK_LEN buf encoded;;
  encoded <- put_bits value.(auth_quintuplet) 8 buf encoded;;
  encoded <- put_bits value.(drx_parameter) 16 buf encoded;;
  encoded <- put_bits value.(uplnk_subscrbd_ue_ambr) 32 buf encoded;;
  encoded <- put_bits value.(dnlnk_subscrbd_ue_ambr) 32 buf encoded;;
  encoded <- put_bits value.(uplnk_used_ue_ambr) 32 buf encoded;;
  encoded <- put_bits value.(dnlnk_used_ue_ambr) 8 buf encoded;;
  encoded <- put_bits value.(ue_ntwk_capblty_len) 8 buf encoded;;
  encoded <- put_bits value.(ue_ntwk_capblty) 8 buf encoded;;
  encoded <- put_bits value.(ms_ntwk_capblty_len) 8 buf encoded;;
  encoded <- put_bits value.(ms_ntwk_capblty) 8 buf encoded;;
  encoded <- put_bits value.(mei_length) 8 buf encoded;;
  encoded <- put_bits value.(mei) 8 buf encoded;;
  encoded <- put_bits value.(ecna) 1 buf encoded;;
  encoded <- put_bits value.(nbna) 1 buf encoded;;
  encoded <- put_bits value.(hnna) 1 buf encoded;;
  encoded <- put_bits value.(ena) 1 buf encoded;;
  encoded <- put_bits value.(ina) 1 buf encoded;;
  encoded <- put_bits value.(gana) 1 buf encoded;;
  encoded <- put_bits value.(gena) 1 buf encoded;;
  encoded <- put_bits value.(una) 1 buf encoded;;
  encoded <- put_bits value.(vdom_pref_ue_usage_len) 8 buf encoded;;
  encoded <- put_bits value.(voice_domain_pref_and_ues_usage_setting) 8 buf encoded;;
  encoded <- put_bits value.(higher_bitrates_flg_len) 8 buf encoded;;
  encoded <- put_bits value.(higher_bitrates_flg) 8 buf encoded;;
  encoded <- put_bits value.(iov_updts_cntr) 8 buf encoded;;
  ret (encoded / CHAR_SIZE).

Definition decode_gtp_umts_key_used_cipher_and_quintuplets_ie (m : bytes) (buf : Z) : option (Z * gtp_umts_key_used_cipher_and_quintuplets_ie_t) :=
  run_dec (
  header <- get_header m buf;;
  security_mode <- get_bits m buf 3;;
  spare2 <- get_bits m buf 1;;
  drxi <- get_bits m buf 1;;
  cksnksi <- get_bits m buf 3;;
  nbr_of_quintuplets <- get_bits m buf 3;;
  iovi <- get_bits m buf 1;;
  gupii <- get_bits m buf 1;;
  ugipai <- get_bits m buf 1;;
  uambri <- get_bits m buf 1;;
  sambri <- get_bits m buf 1;;
  spare3 <- get_bits m buf 2;;
  used_gprs_intgrty_protctn_algo <- get_bits m buf 3;;
  used_cipher <- get_bits m buf 3;;
  ck <- get_bytes m buf CK_LEN;;
  ik <- get_bytes m buf IK_LEN;;
  auth_quintuplet <- get_bits m buf 8;;
  drx_parameter <- get_bits m buf 16;;
  uplnk_subscrbd_ue_ambr <- get_bits m buf 32;;
  dnlnk_subscrbd_ue_ambr <- get_bits m buf 32;;
  uplnk_used_ue_ambr <- get_bits m buf 32;;
  dnlnk_used_ue_ambr <- get_bits m buf 8;;
  ue_ntwk_capblty_len <- get_bits m buf 8;;
  ue_ntwk_capblty <- get_bits m buf 8;;
  ms_ntwk_capblty_len <- get_bits m buf 8;;
  ms_ntwk_capblty <- get_bits m buf 8;;
  mei_length <- get_bits m buf 8;;
  mei <- get_bits m buf 8;;
  ecna <- get_bits m buf 1;;
  nbna <- get_bits m buf 1;;
  hnna <- get_bits m buf 1;;
  ena <- get_bits m buf 1;;
  ina <- get_bits m buf 1;;
  gana <- get_bits m buf 1;;
  gena <- get_bits m buf 1;;
  una <- get_bits m buf 1;;
  vdom_pref_ue_usage_len <- get_bits m buf 8;;
  voice_domain_pref_and_ues_usage_setting <- get_bits m buf 8;;
  higher_bitrates_flg_len <- get_bits m buf 8;;
  higher_bitrates_flg <- get_bits m buf 8;;
  iov_updts_cntr <- get_bits m buf 8;;
  ret (header.(hdr_len) + IE_HEADER_SIZE,
      Build_gtp_umts_key_used_cipher_and_quintuplets_ie_t header security_mode spare2 drxi
       cksnksi nbr_of_quintuplets iovi gupii ugipai uambri sambri spare3
       used_gprs_intgrty_protctn_algo used_cipher ck ik auth_quintuplet drx_parameter
       uplnk_subscrbd_ue_ambr dnlnk_subscrbd_ue_ambr uplnk_used_ue_ambr dnlnk_used_ue_ambr
       ue_ntwk_capblty_len ue_ntwk_capblty ms_ntwk_capblty_len ms_ntwk_capblty mei_length mei
       ecna nbna hnna ena ina gana gena una vdom_pref_ue_usage_len
       voice_domain_pref_and_ues_usage_setting higher_bitrates_flg_len higher_bitrates_flg
       iov_updts_cntr)).

Definition layout_gtp_umts_key_used_cipher_and_quintuplets_ie (v : gtp_umts_key_used_cipher_and_quintuplets_ie_t) : list field :=
  [FHdr v.(header); FBits v.(security_mode) 3; FBits v.(spare2) 1; FBits v.(drxi) 1;
   FBits v.(cksnksi) 3; FBits v.(nbr_of_quintuplets) 3; FBits v.(iovi) 1;
   FBits v.(gupii) 1; FBits v.(ugipai) 1; FBits v.(uambri) 1; FBits v.(sambri) 1;
   FBits v.(spare3) 2; FBits v.(used_gprs_intgrty_protctn_algo) 3; FBits v.(used_cipher) 3;
   FCopy v.(ck); FCopy v.(ik); FBits v.(auth_quintuplet) 8; FBits v.(drx_parameter) 16;
   FBits v.(uplnk_subscrbd_ue_ambr) 32; FBits v.(dnlnk_subscrbd_ue_ambr) 32;
   FBits v.(uplnk_used_ue_ambr) 32; FBits v.(dnlnk_used_ue_ambr) 8;
   FBits v.(ue_ntwk_capblty_len) 8; FBits v.(ue_ntwk_capblty) 8;
   FBits v.(ms_ntwk_capblty_len) 8; FBits v.(ms_ntwk_capblty) 8; FBits v.(mei_length) 8;
   FBits v.(mei) 8; FBits v.(ecna) 1; FBits v.(nbna) 1; FBits v.(hnna) 1; FBits v.(ena) 1;
   FBits v.(ina) 1; FBits v.(gana) 1; FBits v.(gena) 1; FBits v.(una) 1;
   FBits v.(vdom_pref_ue_usage_len) 8; FBits v.(voice_domain_pref_and_ues_usage_setting) 8;
   FBits v.(higher_bitrates_flg_len) 8; FBits v.(higher_bitrates_flg) 8;
   FBits v.(iov_updts_cntr) 8].

Definition ok_gtp_umts_key_used_cipher_and_quintuplets_ie (v : gtp_umts_key_used_cipher_and_quintuplets_ie_t) : Prop :=
  Z.of_nat (length v.(ck)) = CK_LEN /\ Z.of_nat (length v.(ik)) = IK_LEN.

Definition count_gtp_umts_key_used_cipher_and_quintuplets_ie (v : gtp_umts_key_used_cipher_and_quintuplets_ie_t) : Z := v.(header).(hdr_len) + IE_HEADER_SIZE.

Lemma layout_gtp_umts_key_used_cipher_and_quintuplets_ie_size v : ok_gtp_umts_key_used_cipher_and_quintuplets_ie v -> lsize (layout_gtp_umts_key_used_cipher_and_quintuplets_ie v) = 536.
Proof. unfold ok_gtp_umts_key_used_cipher_and_quintuplets_ie, layout_gtp_umts_key_used_cipher_and_quintuplets_ie. solve_size. Qed.

Lemma encode_gtp_umts_key_used_cipher_and_quintuplets_ie_emits v buf :
  ok_gtp_umts_key_used_cipher_and_quintuplets_ie v -> emits buf 0 (layout_gtp_umts_key_used_cipher_and_quintuplets_ie v) (encode_gtp_umts_key_used_cipher_and_quintuplets_ie v buf) (536 / 8).
Proof. unfold ok_gtp_umts_key_used_cipher_and_quintuplets_ie, layout_gtp_umts_key_used_cipher_and_quintuplets_ie, encode_gtp_umts_key_used_cipher_and_quintuplets_ie. solve_emits. Qed.

Lemma decode_gtp_umts_key_used_cipher_and_quintuplets_ie_decodes m buf v :
  ok_gtp_umts_key_used_cipher_and_quintuplets_ie v ->
  decodes m buf (layout_gtp_umts_key_used_cipher_and_quintuplets_ie v) (decode_gtp_umts_key_used_cipher_and_quintuplets_ie m buf) (count_gtp_umts_key_used_cipher_and_quintuplets_ie v, v).
Proof. unfold ok_gtp_umts_key_used_cipher_and_quintuplets_ie, layout_gtp_umts_key_used_cipher_and_quintuplets_ie, decode_gtp_umts_key_used_cipher_and_quintuplets_ie, count_gtp_umts_key_used_cipher_and_quintuplets_ie. solve_decodes v. Qed.

#[global] Instance gtp_umts_key_used_cipher_and_quintuplets_ie_format : WireFormat gtp_umts_key_used_cipher_and_quintuplets_ie_t :=
  fixed_format layout_gtp_umts_key_used_cipher_and_quintuplets_ie ok_gtp_umts_key_used_cipher_and_quintuplets_ie count_gtp_umts_key_used_cipher_and_quintuplets_ie encode_gtp_umts_key_used_cipher_and_quintuplets_ie decode_gtp_umts_key_used_cipher_and_quintuplets_ie 536 ltac:(reflexivity)
    layout_gtp_umts_key_used_cipher_and_quintuplets_ie_size encode_gtp_umts_key_used_cipher_and_quintuplets_ie_emits decode_gtp_umts_key_used_cipher_and_quintuplets_ie_decodes.

End gtp_umts_key_used_cipher_and_quintuplets_ie.

(** ** [gtp_local_distgsd_name_ie] *)

Module gtp_local_distgsd_name_ie.

Record gtp_local_distgsd_name_ie_t := {
  header : ie_header_t;
  ldn : Z  (* uint8_t *)
}.

Definition encode_gtp_local_distgsd_name_ie (value : gtp_local_distgsd_name_ie_t) (buf : Z) : enc Z :=
  encoded <- ret 0;;
  encoded <- put_header value.(header) buf encoded;;
  encoded <- put_bits value.(ldn) 8 buf encoded;;
  ret (encoded / CHAR_SIZE).

Definition decode_gtp_local_distgsd_name_ie (m : bytes) (buf : Z) : option (Z * gtp_local_distgsd_name_ie_t) :=
  run_dec (
  header <- get_header m buf;;
  ldn <- get_bits m buf 8;;
  ret (header.(hdr_len) + IE_HEADER_SIZE,
      Build_gtp_local_distgsd_name_ie_t header ldn)).

Definition layout_gtp_local_distgsd_name_ie (v : gtp_local_distgsd_name_ie_t) : list field :=
  [FHdr v.(header); FBits v.(ldn) 8].

Definition ok_gtp_local_distgsd_name_ie (v : gtp_local_distgsd_name_ie_t) : Prop :=
  True.

Definition count_gtp_local_distgsd_name_ie (v : gtp_local_distgsd_name_ie_t) : Z := v.(header).(hdr_len) + IE_HEADER_SIZE.

Lemma layout_gtp_local_distgsd_name_ie_size v : ok_gtp_local_distgsd_name_ie v -> lsize (layout_gtp_local_distgsd_name_ie v) = 40.
Proof. unfold ok_gtp_local_distgsd_name_ie, layout_gtp_local_distgsd_name_ie. solve_size. Qed.

Lemma encode_gtp_local_distgsd_name_ie_emits v buf :
  ok_gtp_local_distgsd_name_ie v -> emits buf 0 (layout_gtp_local_distgsd_name_ie v) (encode_gtp_local_distgsd_name_ie v buf) (40 / 8).
Proof. unfold ok_gtp_local_distgsd_name_ie, layout_gtp_local_distgsd_name_ie, encode_gtp_local_distgsd_name_ie. solve_emits. Qed.

Lemma decode_gtp_local_distgsd_name_ie_decodes m buf v :
  ok_gtp_local_distgsd_name_ie v ->
  decodes m buf (layout_gtp_local_distgsd_name_ie v) (decode_gtp_local_distgsd_name_ie m buf) (count_gtp_local_distgsd_name_ie v, v).
Proof. unfold ok_gtp_local_distgsd_name_ie, layout_gtp_local_distgsd_name_ie, decode_gtp_local_distgsd_name_ie, count_gtp_local_distgsd_name_ie. solve_decodes v. Qed.

#[global] Instance gtp_local_distgsd_name_ie_format : WireFormat gtp_local_distgsd_name_ie_t :=
  fixed_format layout_gtp_local_distgsd_name_ie ok_gtp_local_distgsd_name_ie count_gtp_local_distgsd_name_ie encode_gtp_local_distgsd_name_ie decode_gtp_local_distgsd_name_ie 40 ltac:(reflexivity)
    layout_gtp_local_distgsd_name_ie_size encode_gtp_local_distgsd_name_ie_emits decode_gtp_local_distgsd_name_ie_decodes.

End gtp_local_distgsd_name_ie.

(** ** [gtp_csg_info_rptng_act_ie] *)

Module gtp_csg_info_rptng_act_ie.

Record gtp_csg_info_rptng_act_ie_t := {
  header : ie_header_t;
  spare2 : Z;  (* uint8_t :5 *)
  uciuhc : Z;  (* uint8_t :1 *)
  ucishc : Z;  (* uint8_t :1 *)
  ucicsg : Z  (* uint8_t :1 *)
}.

Definition encode_gtp_csg_info_rptng_act_ie (value : gtp_csg_info_rptng_act_ie_t) (buf : Z) : enc Z :=
  encoded <- ret 0;;
  encoded <- put_header value.(header) buf encoded;;
  encoded <- put_bits value.(spare2) 5 buf encoded;;
  encoded <- put_bits value.(uciuhc) 1 buf encoded;;
  encoded <- put_bits value.(ucishc) 1 buf encoded;;
  encoded <- put_bits value.(ucicsg) 1 buf encoded;;
  ret (encoded / CHAR_SIZE).

Definition decode_gtp_csg_info_rptng_act_ie (m : bytes) (buf : Z) : option (Z * gtp_csg_info_rptng_act_ie_t) :=
  run_dec (
  header <- get_header m buf;;
  spare2 <- get_bits m buf 5;;
  uciuhc <- get_bits m buf 1;;
  ucishc <- get_bits m buf 1;;
  ucicsg <- get_bits m buf 1;;
  ret (header.(hdr_len) + IE_HEADER_SIZE,
      Build_gtp_csg_info_rptng_act_ie_t header spare2 uciuhc ucishc ucicsg)).

Definition layout_gtp_csg_info_rptng_act_ie (v : gtp_csg_info_rptng_act_ie_t) : list field :=
  [FHdr v.(header); FBits v.(spare2) 5; FBits v.(uciuhc) 1; FBits v.(ucishc) 1;
   FBits v.(ucicsg) 1].

Definition ok_gtp_csg_info_rptng_act_ie (v : gtp_csg_info_rptng_act_ie_t) : Prop :=
  True.

Definition count_gtp_csg_info_rptng_act_ie (v : gtp_csg_info_rptng_act_ie_t) : Z := v.(header).(hdr_len) + IE_HEADER_SIZE.

Lemma layout_gtp_csg_info_rptng_act_ie_size v : ok_gtp_csg_info_rptng_act_ie v -> lsize (layout_gtp_csg_info_rptng_act_ie v) = 40.
Proof. unfold ok_gtp_csg_info_rptng_act_ie, layout_gtp_csg_info_rptng_act_ie. solve_size. Qed.

Lemma encode_gtp_csg_info_rptng_act_ie_emits v buf :
  ok_gtp_csg_info_rptng_act_ie v -> emits buf 0 (layout_gtp_csg_info_rptng_act_ie v) (encode_gtp_csg_info_rptng_act_ie v buf) (40 / 8).
Proof. unfold ok_gtp_csg_info_rptng_act_ie, layout_gtp_csg_info_rptng_act_ie, encode_gtp_csg_info_rptng_act_ie. solve_emits. Qed.

Lemma decode_gtp_csg_info_rptng_act_ie_decodes m buf v :
  ok_gtp_csg_info_rptng_act_ie v ->
  decodes m buf (layout_gtp_csg_info_rptng_act_ie v) (decode_gtp_csg_info_rptng_act_ie m buf) (count_gtp_csg_info_rptng_act_ie v, v).
Proof. unfold ok_gtp_csg_info_rptng_act_ie, layout_gtp_csg_info_rptng_act_ie, decode_gtp_csg_info_rptng_act_ie, count_gtp_csg_info_rptng_act_ie. solve_decodes v. Qed.

#[global] Instance gtp_csg_info_rptng_act_ie_format : WireFormat gtp_csg_info_rptng_act_ie_t :=
  fixed_format layout_gtp_csg_info_rptng_act_ie ok_gtp_csg_info_rptng_act_ie count_gtp_csg_info_rptng_act_ie encode_gtp_csg_info_rptng_act_ie decode_gtp_csg_info_rptng_act_ie 40 ltac:(reflexivity)
    layout_gtp_csg_info_rptng_act_ie_size encode_gtp_csg_info_rptng_act_ie_emits decode_gtp_csg_info_rptng_act_ie_decodes.

End gtp_csg_info_rptng_act_ie.

(** ** [gtp_secdry_rat_usage_data_rpt_ie] *)

Module gtp_secdry_rat_usage_data_rpt_ie.

Record gtp_secdry_rat_usage_data_rpt_ie_t := {
  header : ie_header_t;
  spare2 : Z;  (* uint8_t :6 *)
  irsgw : Z;  (* uint8_t :1 *)
  irpgw : Z;  (* uint8_t :1 *)
  secdry_rat_type : Z;  (* uint8_t *)
  spare3 : Z;  (* uint8_t :4 *)
  ebi : Z;  (* uint8_t :4 *)
  start_timestamp : Z;  (* uint32_t *)
  end_timestamp : Z;  (* uint32_t *)
  usage_data_dl : Z;  (* uint64_t *)
  usage_data_ul : Z  (* uint64_t *)
}.

Definition encode_gtp_secdry_rat_usage_data_rpt_ie (value : gtp_secdry_rat_usage_data_rpt_ie_t) (buf : Z) : enc Z :=
  encoded <- ret 0;;
  encoded <- put_header value.(header) buf encoded;;
  encoded <- put_bits value.(spare2) 6 buf encoded;;
  encoded <- put_bits value.(irsgw) 1 buf encoded;;
  encoded <- put_bits value.(irpgw) 1 buf encoded;;
  encoded <- put_bits value.(secdry_rat_type) 8 buf encoded;;
  encoded <- put_bits value.(spare3) 4 buf encoded;;
  encoded <- put_bits value.(ebi) 4 buf encoded;;
  encoded <- put_bits value.(start_timestamp) 32 buf encoded;;
  encoded <- put_bits value.(end_timestamp) 32 buf encoded;;
  encoded <- put_bits value.(usage_data_dl) 64 buf encoded;;
  encoded <- put_bits value.(usage_data_ul) 64 buf encoded;;
  ret (encoded / CHAR_SIZE).

Definition decode_gtp_secdry_rat_usage_data_rpt_ie (m : bytes) (buf : Z) : option (Z * gtp_secdry_rat_usage_data_rpt_ie_t) :=
  run_dec (
  header <- get_header m buf;;
  spare2 <- get_bits m buf 6;;
  irsgw <- get_bits m buf 1;;
  irpgw <- get_bits m buf 1;;
  secdry_rat_type <- get_bits m buf 8;;
  spare3 <- get_bits m buf 4;;
  ebi <- get_bits m buf 4;;
  start_timestamp <- get_bits m buf 32;;
  end_timestamp <- get_bits m buf 32;;
  usage_data_dl <- get_bits m buf 64;;
  usage_data_ul <- get_bits m buf 64;;
  ret (header.(hdr_len) + IE_HEADER_SIZE,
      Build_gtp_secdry_rat_usage_data_rpt_ie_t header spare2 irsgw irpgw secdry_rat_type
       spare3 ebi start_timestamp end_timestamp usage_data_dl usage_data_ul)).

Definition layout_gtp_secdry_rat_usage_data_rpt_ie (v : gtp_secdry_rat_usage_data_rpt_ie_t) : list field :=
  [FHdr v.(header); FBits v.(spare2) 6; FBits v.(irsgw) 1; FBits v.(irpgw) 1;
   FBits v.(secdry_rat_type) 8; FBits v.(spare3) 4; FBits v.(ebi) 4;
   FBits v.(start_timestamp) 32; FBits v.(end_timestamp) 32; FBits v.(usage_data_dl) 64;
   FBits v.(usage_data_ul) 64].

Definition ok_gtp_secdry_rat_usage_data_rpt_ie (v : gtp_secdry_rat_usage_data_rpt_ie_t) : Prop :=
  True.

Definition count_gtp_secdry_rat_usage_data_rpt_ie (v : gtp_secdry_rat_usage_data_rpt_ie_t) : Z := v.(header).(hdr_len) + IE_HEADER_SIZE.

Lemma layout_gtp_secdry_rat_usage_data_rpt_ie_size v : ok_gtp_secdry_rat_usage_data_rpt_ie v -> lsize (layout_gtp_secdry_rat_usage_data_rpt_ie v) = 248.
Proof. unfold ok_gtp_secdry_rat_usage_data_rpt_ie, layout_gtp_secdry_rat_usage_data_rpt_ie. solve_size. Qed.

Lemma encode_gtp_secdry_rat_usage_data_rpt_ie_emits v buf :
  ok_gtp_secdry_rat_usage_data_rpt_ie v -> emits buf 0 (layout_gtp_secdry_rat_usage_data_rpt_ie v) (encode_gtp_secdry_rat_usage_data_rpt_ie v buf) (248 / 8).
Proof. unfold ok_gtp_secdry_rat_usage_data_rpt_ie, layout_gtp_secdry_rat_usage_data_rpt_ie, encode_gtp_secdry_rat_usage_data_rpt_ie. solve_emits. Qed.

Lemma decode_gtp_secdry_rat_usage_data_rpt_ie_decodes m buf v :
  ok_gtp_secdry_rat_usage_data_rpt_ie v ->
  decodes m buf (layout_gtp_secdry_rat_usage_data_rpt_ie v) (decode_gtp_secdry_rat_usage_data_rpt_ie m buf) (count_gtp_secdry_rat_usage_data_rpt_ie v, v).
Proof. unfold ok_gtp_secdry_rat_usage_data_rpt_ie, layout_gtp_secdry_rat_usage_data_rpt_ie, decode_gtp_secdry_rat_usage_data_rpt_ie, count_gtp_secdry_rat_usage_data_rpt_ie. solve_decodes v. Qed.

#[global] Instance gtp_secdry_rat_usage_data_rpt_ie_format : WireFormat gtp_secdry_rat_usage_data_rpt_ie_t :=
  fixed_format layout_gtp_secdry_rat_usage_data_rpt_ie ok_gtp_secdry_rat_usage_data_rpt_ie count_gtp_secdry_rat_usage_data_rpt_ie encode_gtp_secdry_rat_usage_data_rpt_ie decode_gtp_secdry_rat_usage_data_rpt_ie 248 ltac:(reflexivity)
    layout_gtp_secdry_rat_usage_data_rpt_ie_size encode_gtp_secdry_rat_usage_data_rpt_ie_emits decode_gtp_secdry_rat_usage_data_rpt_ie_decodes.

End gtp_secdry_rat_usage_data_rpt_ie.

(** ** [gtp_rat_type_ie] *)

Module gtp_rat_type_ie.

Record gtp_rat_type_ie_t := {
  header : ie_header_t;
  rat_type : Z  (* uint8_t *)
}.

Definition encode_gtp_rat_type_ie (value : gtp_rat_type_ie_t) (buf : Z) : enc Z :=
  encoded <- ret 0;;
  encoded <- put_header value.(header) buf encoded;;
  encoded <- put_bits value.(rat_type) 8 buf encoded;;
  ret (encoded / CHAR_SIZE).

Definition decode_gtp_rat_type_ie (m : bytes) (buf : Z) : option (Z * gtp_rat_type_ie_t) :=
  run_dec (
  header <- get_header m buf;;
  rat_type <- get_bits m buf 8;;
  ret (header.(hdr_len) + IE_HEADER_SIZE,
      Build_gtp_rat_type_ie_t header rat_type)).

Definition layout_gtp_rat_type_ie (v : gtp_rat_type_ie_t) : list field :=
  [FHdr v.(header); FBits v.(rat_type) 8].

Definition ok_gtp_rat_type_ie (v : gtp_rat_type_ie_t) : Prop :=
  True.

Definition count_gtp_rat_type_ie (v : gtp_rat_type_ie_t) : Z := v.(header).(hdr_len) + IE_HEADER_SIZE.

Lemma layout_gtp_rat_type_ie_size v : ok_gtp_rat_type_ie v -> lsize (layout_gtp_rat_type_ie v) = 40.
Proof. unfold ok_gtp_rat_type_ie, layout_gtp_rat_type_ie. solve_size. Qed.

Lemma encode_gtp_rat_type_ie_emits v buf :
  ok_gtp_rat_type_ie v -> emits buf 0 (layout_gtp_rat_type_ie v) (encode_gtp_rat_type_ie v buf) (40 / 8).
Proof. unfold ok_gtp_rat_type_ie, layout_gtp_rat_type_ie, encode_gtp_rat_type_ie. solve_emits. Qed.

Lemma decode_gtp_rat_type_ie_decodes m buf v :
  ok_gtp_rat_type_ie v ->
  decodes m buf (layout_gtp_rat_type_ie v) (decode_gtp_rat_type_ie m buf) (count_gtp_rat_type_ie v, v).
Proof. unfold ok_gtp_rat_type_ie, layout_gtp_rat_type_ie, decode_gtp_rat_type_ie, count_gtp_rat_type_ie. solve_decodes v. Qed.

#[global] Instance gtp_rat_type_ie_format : WireFormat gtp_rat_type_ie_t :=
  fixed_format layout_gtp_rat_type_ie ok_gtp_rat_type_ie count_gtp_rat_type_ie encode_gtp_rat_type_ie decode_gtp_rat_type_ie 40 ltac:(reflexivity)
    layout_gtp_rat_type_ie_size encode_gtp_rat_type_ie_emits decode_gtp_rat_type_ie_decodes.

End gtp_rat_type_ie.

(** ** [gtp_global_cn_id_ie] *)

Module gtp_global_cn_id_ie.

Record gtp_global_cn_id_ie_t := {
  header : ie_header_t;
  mcc_digit_2 : Z;  (* uint8_t :4 *)
  mcc_digit_1 : Z;  (* uint8_t :4 *)
  mnc_digit_3 : Z;  (* uint8_t :4 *)
  mcc_digit_3 : Z;  (* uint8_t :4 *)
  mnc_digit_2 : Z;  (* uint8_t :4 *)
  mnc_digit_1 : Z;  (* uint8_t :4 *)
  cn : Z  (* uint8_t *)
}.

Definition encode_gtp_global_cn_id_ie (value : gtp_global_cn_id_ie_t) (buf : Z) : enc Z :=
  encoded <- ret 0;;
  encoded <- put_header value.(header) buf encoded;;
  encoded <- put_bits value.(mcc_digit_2) 4 buf encoded;;
  encoded <- put_bits value.(mcc_digit_1) 4 buf encoded;;
  encoded <- put_bits value.(mnc_digit_3) 4 buf encoded;;
  encoded <- put_bits value.(mcc_digit_3) 4 buf encoded;;
  encoded <- put_bits value.(mnc_digit_2) 4 buf encoded;;
  encoded <- put_bits value.(mnc_digit_1) 4 buf encoded;;
  encoded <- put_bits value.(cn) 8 buf encoded;;
  ret (encoded / CHAR_SIZE).

Definition decode_gtp_global_cn_id_ie (m : bytes) (buf : Z) : option (Z * gtp_global_cn_id_ie_t) :=
  run_dec (
  header <- get_header m buf;;
  mcc_digit_2 <- get_bits m buf 4;;
  mcc_digit_1 <- get_bits m buf 4;;
  mnc_digit_3 <- get_bits m buf 4;;
  mcc_digit_3 <- get_bits m buf 4;;
  mnc_digit_2 <- get_bits m buf 4;;
  mnc_digit_1 <- get_bits m buf 4;;
  cn <- get_bits m buf 8;;
  ret (header.(hdr_len) + IE_HEADER_SIZE,
      Build_gtp_global_cn_id_ie_t header mcc_digit_2 mcc_digit_1 mnc_digit_3 mcc_digit_3
       mnc_digit_2 mnc_digit_1 cn)).

Definition layout_gtp_global_cn_id_ie (v : gtp_global_cn_id_ie_t) : list field :=
  [FHdr v.(header); FBits v.(mcc_digit_2) 4; FBits v.(mcc_digit_1) 4; FBits v.(mnc_digit_3) 4;
   FBits v.(mcc_digit_3) 4; FBits v.(mnc_digit_2) 4; FBits v.(mnc_digit_1) 4;
   FBits v.(cn) 8].

Definition ok_gtp_global_cn_id_ie (v : gtp_global_cn_id_ie_t) : Prop :=
  True.

Definition count_gtp_global_cn_id_ie (v : gtp_global_cn_id_ie_t) : Z := v.(header).(hdr_len) + IE_HEADER_SIZE.

Lemma layout_gtp_global_cn_id_ie_size v : ok_gtp_global_cn_id_ie v -> lsize (layout_gtp_global_cn_id_ie v) = 64.
Proof. unfold ok_gtp_global_cn_id_ie, layout_gtp_global_cn_id_ie. solve_size. Qed.

Lemma encode_gtp_global_cn_id_ie_emits v buf :
  ok_gtp_global_cn_id_ie v -> emits buf 0 (layout_gtp_global_cn_id_ie v) (encode_gtp_global_cn_id_ie v buf) (64 / 8).
Proof. unfold ok_gtp_global_cn_id_ie, layout_gtp_global_cn_id_ie, encode_gtp_global_cn_id_ie. solve_emits. Qed.

Lemma decode_gtp_global_cn_id_ie_decodes m buf v :
  ok_gtp_global_cn_id_ie v ->
  decodes m buf (layout_gtp_global_cn_id_ie v) (decode_gtp_global_cn_id_ie m buf) (count_gtp_global_cn_id_ie v, v).
Proof. unfold ok_gtp_global_cn_id_ie, layout_gtp_global_cn_id_ie, decode_gtp_global_cn_id_ie, count_gtp_global_cn_id_ie. solve_decodes v. Qed.

#[global] Instance gtp_global_cn_id_ie_format : WireFormat gtp_global_cn_id_ie_t :=
  fixed_format layout_gtp_global_cn_id_ie ok_gtp_global_cn_id_ie count_gtp_global_cn_id_ie encode_gtp_global_cn_id_ie decode_gtp_global_cn_id_ie 64 ltac:(reflexivity)
    layout_gtp_global_cn_id_ie_size encode_gtp_global_cn_id_ie_emits decode_gtp_global_cn_id_ie_decodes.

End gtp_global_cn_id_ie.

(** ** [gtp_charging_id_ie] *)

Module gtp_charging_id_ie.

Record gtp_charging_id_ie_t := {
  header : ie_header_t;
  chrgng_id_val : Z  (* uint8_t *)
}.

Definition encode_gtp_charging_id_ie (value : gtp_charging_id_ie_t) (buf : Z) : enc Z :=
  encoded <- ret 0;;
  encoded <- put_header value.(header) buf encoded;;
  encoded <- put_bits value.(chrgng_id_val) 8 buf encoded;;
  ret (encoded / CHAR_SIZE).

Definition decode_gtp_charging_id_ie (m : bytes) (buf : Z) : option (Z * gtp_charging_id_ie_t) :=
  run_dec (
  header <- get_header m buf;;
  chrgng_id_val <- get_bits m buf 8;;
  ret (header.(hdr_len) + IE_HEADER_SIZE,
      Build_gtp_charging_id_ie_t header chrgng_id_val)).

Definition layout_gtp_charging_id_ie (v : gtp_charging_id_ie_t) : list field :=
  [FHdr v.(header); FBits v.(chrgng_id_val) 8].

Definition ok_gtp_charging_id_ie (v : gtp_charging_id_ie_t) : Prop :=
  True.

Definition count_gtp_charging_id_ie (v : gtp_charging_id_ie_t) : Z := v.(header).(hdr_len) + IE_HEADER_SIZE.

Lemma layout_gtp_charging_id_ie_size v : ok_gtp_charging_id_ie v -> lsize (layout_gtp_charging_id_ie v) = 40.
Proof. unfold ok_gtp_charging_id_ie, layout_gtp_charging_id_ie. solve_size. Qed.

Lemma encode_gtp_charging_id_ie_emits v buf :
  ok_gtp_charging_id_ie v -> emits buf 0 (layout_gtp_charging_id_ie v) (encode_gtp_charging_id_ie v buf) (40 / 8).
Proof. unfold ok_gtp_charging_id_ie, layout_gtp_charging_id_ie, encode_gtp_charging_id_ie. solve_emits. Qed.

Lemma decode_gtp_charging_id_ie_decodes m buf v :
  ok_gtp_charging_id_ie v ->
  decodes m buf (layout_gtp_charging_id_ie v) (decode_gtp_charging_id_ie m buf) (count_gtp_charging_id_ie v, v).
Proof. unfold ok_gtp_charging_id_ie, layout_gtp_charging_id_ie, decode_gtp_charging_id_ie, count_gtp_charging_id_ie. solve_decodes v. Qed.

#[global] Instance gtp_charging_id_ie_format : WireFormat gtp_charging_id_ie_t :=
  fixed_format layout_gtp_charging_id_ie ok_gtp_charging_id_ie count_gtp_charging_id_ie encode_gtp_charging_id_ie decode_gtp_charging_id_ie 40 ltac:(reflexivity)
    layout_gtp_charging_id_ie_size encode_gtp_charging_id_ie_emits decode_gtp_charging_id_ie_decodes.

End gtp_charging_id_ie.

(** ** [gtp_counter_ie] *)

Module gtp_counter_ie.

Record gtp_counter_ie_t := {
  header : ie_header_t;
  timestamp_value : Z;  (* uint32_t *)
  counter_value : Z  (* uint8_t *)
}.

Definition encode_gtp_counter_ie (value : gtp_counter_ie_t) (buf : Z) : enc Z :=
  encoded <- ret 0;;
  encoded <- put_header value.(header) buf encoded;;
  encoded <- put_bits value.(timestamp_value) 32 buf encoded;;
  encoded <- put_bits value.(counter_value) 8 buf encoded;;
  ret (encoded / CHAR_SIZE).

Definition decode_gtp_counter_ie (m : bytes) (buf : Z) : option (Z * gtp_counter_ie_t) :=
  run_dec (
  header <- get_header m buf;;
  timestamp_value <- get_bits m buf 32;;
  counter_value <- get_bits m buf 8;;
  ret (header.(hdr_len) + IE_HEADER_SIZE,
      Build_gtp_counter_ie_t header timestamp_value counter_value)).

Definition layout_gtp_counter_ie (v : gtp_counter_ie_t) : list field :=
  [FHdr v.(header); FBits v.(timestamp_value) 32; FBits v.(counter_value) 8].

Definition ok_gtp_counter_ie (v : gtp_counter_ie_t) : Prop :=
  True.

Definition count_gtp_counter_ie (v : gtp_counter_ie_t) : Z := v.(header).(hdr_len) + IE_HEADER_SIZE.

Lemma layout_gtp_counter_ie_size v : ok_gtp_counter_ie v -> lsize (layout_gtp_counter_ie v) = 72.
Proof. unfold ok_gtp_counter_ie, layout_gtp_counter_ie. solve_size. Qed.

Lemma encode_gtp_counter_ie_emits v buf :
  ok_gtp_counter_ie v -> emits buf 0 (layout_gtp_counter_ie v) (encode_gtp_counter_ie v buf) (72 / 8).
Proof. unfold ok_gtp_counter_ie, layout_gtp_counter_ie, encode_gtp_counter_ie. solve_emits. Qed.

Lemma decode_gtp_counter_ie_decodes m buf v :
  ok_gtp_counter_ie v ->
  decodes m buf (layout_gtp_counter_ie v) (decode_gtp_counter_ie m buf) (count_gtp_counter_ie v, v).
Proof. unfold ok_gtp_counter_ie, layout_gtp_counter_ie, decode_gtp_counter_ie, count_gtp_counter_ie. solve_decodes v. Qed.

#[global] Instance gtp_counter_ie_format : WireFormat gtp_counter_ie_t :=
  fixed_format layout_gtp_counter_ie ok_gtp_counter_ie count_gtp_counter_ie encode_gtp_counter_ie decode_gtp_counter_ie 72 ltac:(reflexivity)
    layout_gtp_counter_ie_size encode_gtp_counter_ie_emits decode_gtp_counter_ie_decodes.

End gtp_counter_ie.

(** ** [gtp_serving_network_ie] *)

Module gtp_serving_network_ie.

Record gtp_serving_network_ie_t := {
  header : ie_header_t;
  mcc_digit_2 : Z;  (* uint8_t :4 *)
  mcc_digit_1 : Z;  (* uint8_t :4 *)
  mnc_digit_3 : Z;  (* uint8_t :4 *)
  mcc_digit_3 : Z;  (* uint8_t :4 *)
  mnc_digit_2 : Z;  (* uint8_t :4 *)
  mnc_digit_1 : Z  (* uint8_t :4 *)
}.

Definition encode_gtp_serving_network_ie (value : gtp_serving_network_ie_t) (buf : Z) : enc Z :=
  encoded <- ret 0;;
  encoded <- put_header value.(header) buf encoded;;
  encoded <- put_bits value.(mcc_digit_2) 4 buf encoded;;
  encoded <- put_bits value.(mcc_digit_1) 4 buf encoded;;
  encoded <- put_bits value.(mnc_digit_3) 4 buf encoded;;
  encoded <- put_bits value.(mcc_digit_3) 4 buf encoded;;
  encoded <- put_bits value.(mnc_digit_2) 4 buf encoded;;
  encoded <- put_bits value.(mnc_digit_1) 4 buf encoded;;
  ret (encoded / CHAR_SIZE).

Definition decode_gtp_serving_network_ie (m : bytes) (buf : Z) : option (Z * gtp_serving_network_ie_t) :=
  run_dec (
  header <- get_header m buf;;
  mcc_digit_2 <- get_bits m buf 4;;
  mcc_digit_1 <- get_bits m buf 4;;
  mnc_digit_3 <- get_bits m buf 4;;
  mcc_digit_3 <- get_bits m buf 4;;
  mnc_digit_2 <- get_bits m buf 4;;
  mnc_digit_1 <- get_bits m buf 4;;
  ret (header.(hdr_len) + IE_HEADER_SIZE,
      Build_gtp_serving_network_ie_t header mcc_digit_2 mcc_digit_1 mnc_digit_3 mcc_digit_3
       mnc_digit_2 mnc_digit_1)).

Definition layout_gtp_serving_network_ie (v : gtp_serving_network_ie_t) : list field :=
  [FHdr v.(header); FBits v.(mcc_digit_2) 4; FBits v.(mcc_digit_1) 4; FBits v.(mnc_digit_3) 4;
   FBits v.(mcc_digit_3) 4; FBits v.(mnc_digit_2) 4; FBits v.(mnc_digit_1) 4].

Definition ok_gtp_serving_network_ie (v : gtp_serving_network_ie_t) : Prop :=
  True.

Definition count_gtp_serving_network_ie (v : gtp_serving_network_ie_t) : Z := v.(header).(hdr_len) + IE_HEADER_SIZE.

Lemma layout_gtp_serving_network_ie_size v : ok_gtp_serving_network_ie v -> lsize (layout_gtp_serving_network_ie v) = 56.
Proof. unfold ok_gtp_serving_network_ie, layout_gtp_serving_network_ie. solve_size. Qed.

Lemma encode_gtp_serving_network_ie_emits v buf :
  ok_gtp_serving_network_ie v -> emits buf 0 (layout_gtp_serving_network_ie v) (encode_gtp_serving_network_ie v buf) (56 / 8).
Proof. unfold ok_gtp_serving_network_ie, layout_gtp_serving_network_ie, encode_gtp_serving_network_ie. solve_emits. Qed.

Lemma decode_gtp_serving_network_ie_decodes m buf v :
  ok_gtp_serving_network_ie v ->
  decodes m buf (layout_gtp_serving_network_ie v) (decode_gtp_serving_network_ie m buf) (count_gtp_serving_network_ie v, v).
Proof. unfold ok_gtp_serving_network_ie, layout_gtp_serving_network_ie, decode_gtp_serving_network_ie, count_gtp_serving_network_ie. solve_decodes v. Qed.

#[global] Instance gtp_serving_network_ie_format : WireFormat gtp_serving_network_ie_t :=
  fixed_format layout_gtp_serving_network_ie ok_gtp_serving_network_ie count_gtp_serving_network_ie encode_gtp_serving_network_ie decode_gtp_serving_network_ie 56 ltac:(reflexivity)
    layout_gtp_serving_network_ie_size encode_gtp_serving_network_ie_emits decode_gtp_serving_network_ie_decodes.

End gtp_serving_network_ie.

(** ** [gtp_node_identifier_ie] *)

Module gtp_node_identifier_ie.

Record gtp_node_identifier_ie_t := {
  header : ie_header_t;
  len_of_node_name : Z;  (* uint8_t *)
  node_name : Z;  (* uint8_t *)
  len_of_node_realm : Z;  (* uint8_t *)
  node_realm : Z  (* uint8_t *)
}.

Definition encode_gtp_node_identifier_ie (value : gtp_node_identifier_ie_t) (buf : Z) : enc Z :=
  encoded <- ret 0;;
  encoded <- put_header value.(header) buf encoded;;
  encoded <- put_bits value.(len_of_node_name) 8 buf encoded;;
  encoded <- put_bits value.(node_name) 8 buf encoded;;
  encoded <- put_bits value.(len_of_node_realm) 8 buf encoded;;
  encoded <- put_bits value.(node_realm) 8 buf encoded;;
  ret (encoded / CHAR_SIZE).

Definition decode_gtp_node_identifier_ie (m : bytes) (buf : Z) : option (Z * gtp_node_identifier_ie_t) :=
  run_dec (
  header <- get_header m buf;;
  len_of_node_name <- get_bits m buf 8;;
  node_name <- get_bits m buf 8;;
  len_of_node_realm <- get_bits m buf 8;;
  node_realm <- get_bits m buf 8;;
  ret (header.(hdr_len) + IE_HEADER_SIZE,
      Build_gtp_node_identifier_ie_t header len_of_node_name node_name len_of_node_realm
       node_realm)).

Definition layout_gtp_node_identifier_ie (v : gtp_node_identifier_ie_t) : list field :=
  [FHdr v.(header); FBits v.(len_of_node_name) 8; FBits v.(node_name) 8;
   FBits v.(len_of_node_realm) 8; FBits v.(node_realm) 8].

Definition ok_gtp_node_identifier_ie (v : gtp_node_identifier_ie_t) : Prop :=
  True.

Definition count_gtp_node_identifier_ie (v : gtp_node_identifier_ie_t) : Z := v.(header).(hdr_len) + IE_HEADER_SIZE.

Lemma layout_gtp_node_identifier_ie_size v : ok_gtp_node_identifier_ie v -> lsize (layout_gtp_node_identifier_ie v) = 64.
Proof. unfold ok_gtp_node_identifier_ie, layout_gtp_node_identifier_ie. solve_size. Qed.

Lemma encode_gtp_node_identifier_ie_emits v buf :
  ok_gtp_node_identifier_ie v -> emits buf 0 (layout_gtp_node_identifier_ie v) (encode_gtp_node_identifier_ie v buf) (64 / 8).
Proof. unfold ok_gtp_node_identifier_ie, layout_gtp_node_identifier_ie, encode_gtp_node_identifier_ie. solve_emits. Qed.

Lemma decode_gtp_node_identifier_ie_decodes m buf v :
  ok_gtp_node_identifier_ie v ->
  decodes m buf (layout_gtp_node_identifier_ie v) (decode_gtp_node_identifier_ie m buf) (count_gtp_node_identifier_ie v, v).
Proof. unfold ok_gtp_node_identifier_ie, layout_gtp_node_identifier_ie, decode_gtp_node_identifier_ie, count_gtp_node_identifier_ie. solve_decodes v. Qed.

#[global] Instance gtp_node_identifier_ie_format : WireFormat gtp_node_identifier_ie_t :=
  fixed_format layout_gtp_node_identifier_ie ok_gtp_node_identifier_ie count_gtp_node_identifier_ie encode_gtp_node_identifier_ie decode_gtp_node_identifier_ie 64 ltac:(reflexivity)
    layout_gtp_node_identifier_ie_size encode_gtp_node_identifier_ie_emits decode_gtp_node_identifier_ie_decodes.

End gtp_node_identifier_ie.

(** ** [gtp_trc_info_ie] *)

Module gtp_trc_info_ie.

Record gtp_trc_info_ie_t := {
  header : ie_header_t;
  mcc_digit_2 : Z;  (* uint8_t :4 *)
  mcc_digit_1 : Z;  (* uint8_t :4 *)
  mnc_digit_3 : Z;  (* uint8_t :4 *)
  mcc_digit_3 : Z;  (* uint8_t :4 *)
  mnc_digit_2 : Z;  (* uint8_t :4 *)
  mnc_digit_1 : Z;  (* uint8_t :4 *)
  trace_id : Z;  (* uint32_t :24 *)
  trigrng_evnts : list Z;  (* uint8_t[TRIGRNG_EVNTS_LEN] *)
  list_of_ne_types : Z;  (* uint16_t *)
  sess_trc_depth : Z;  (* uint8_t *)
  list_of_intfcs : list Z;  (* uint8_t[LIST_OF_INTFCS_LEN] *)
  ip_addr_of_trc_coll_entity : Z  (* uint32_t *)
}.

Definition encode_gtp_trc_info_ie (value : gtp_trc_info_ie_t) (buf : Z) : enc Z :=
  encoded <- ret 0;;
  encoded <- put_header value.(header) buf encoded;;
  encoded <- put_bits value.(mcc_digit_2) 4 buf encoded;;
  encoded <- put_bits value.(mcc_digit_1) 4 buf encoded;;
  encoded <- put_bits value.(mnc_digit_3) 4 buf encoded;;
  encoded <- put_bits value.(mcc_digit_3) 4 buf encoded;;
  encoded <- put_bits value.(mnc_digit_2) 4 buf encoded;;
  encoded <- put_bits value.(mnc_digit_1) 4 buf encoded;;
  encoded <- put_bits value.(trace_id) 24 buf encoded;;
  encoded <- put_bytes value.(trigrng_evnts) TRIGRNG_EVNTS_LEN buf encoded;;
  encoded <- put_bits value.(list_of_ne_types) 16 buf encoded;;
  encoded <- put_bits value.(sess_trc_depth) 8 buf encoded;;
  encoded <- put_bytes value.(list_of_intfcs) LIST_OF_INTFCS_LEN buf encoded;;
  encoded <- put_bits value.(ip_addr_of_trc_coll_entity) 32 buf encoded;;
  ret (encoded / CHAR_SIZE).

Definition decode_gtp_trc_info_ie (m : bytes) (buf : Z) : option (Z * gtp_trc_info_ie_t) :=
  run_dec (
  header <- get_header m buf;;
  mcc_digit_2 <- get_bits m buf 4;;
  mcc_digit_1 <- get_bits m buf 4;;
  mnc_digit_3 <- get_bits m buf 4;;
  mcc_digit_3 <- get_bits m buf 4;;
  mnc_digit_2 <- get_bits m buf 4;;
  mnc_digit_1 <- get_bits m buf 4;;
  trace_id <- get_bits m buf 24;;
  trigrng_evnts <- get_bytes m buf TRIGRNG_EVNTS_LEN;;
  list_of_ne_types <- get_bits m buf 16;;
  sess_trc_depth <- get_bits m buf 8;;
  list_of_intfcs <- get_bytes m buf LIST_OF_INTFCS_LEN;;
  ip_addr_of_trc_coll_entity <- get_bits m buf 32;;
  ret (header.(hdr_len) + IE_HEADER_SIZE,
      Build_gtp_trc_info_ie_t header mcc_digit_2 mcc_digit_1 mnc_digit_3 mcc_digit_3
       mnc_digit_2 mnc_digit_1 trace_id trigrng_evnts list_of_ne_types sess_trc_depth
       list_of_intfcs ip_addr_of_trc_coll_entity)).

Definition layout_gtp_trc_info_ie (v : gtp_trc_info_ie_t) : list field :=
  [FHdr v.(header); FBits v.(mcc_digit_2) 4; FBits v.(mcc_digit_1) 4; FBits v.(mnc_digit_3) 4;
   FBits v.(mcc_digit_3) 4; FBits v.(mnc_digit_2) 4; FBits v.(mnc_digit_1) 4;
   FBits v.(trace_id) 24; FCopy v.(trigrng_evnts); FBits v.(list_of_ne_types) 16;
   FBits v.(sess_trc_depth) 8; FCopy v.(list_of_intfcs);
   FBits v.(ip_addr_of_trc_coll_entity) 32].

Definition ok_gtp_trc_info_ie (v : gtp_trc_info_ie_t) : Prop :=
  Z.of_nat (length v.(trigrng_evnts)) = TRIGRNG_EVNTS_LEN /\ Z.of_nat (length v.(list_of_intfcs)) = LIST_OF_INTFCS_LEN.

Definition count_gtp_trc_info_ie (v : gtp_trc_info_ie_t) : Z := v.(header).(hdr_len) + IE_HEADER_SIZE.

Lemma layout_gtp_trc_info_ie_size v : ok_gtp_trc_info_ie v -> lsize (layout_gtp_trc_info_ie v) = 304.
Proof. unfold ok_gtp_trc_info_ie, layout_gtp_trc_info_ie. solve_size. Qed.

Lemma encode_gtp_trc_info_ie_emits v buf :
  ok_gtp_trc_info_ie v -> emits buf 0 (layout_gtp_trc_info_ie v) (encode_gtp_trc_info_ie v buf) (304 / 8).
Proof. unfold ok_gtp_trc_info_ie, layout_gtp_trc_info_ie, encode_gtp_trc_info_ie. solve_emits. Qed.

Lemma decode_gtp_trc_info_ie_decodes m buf v :
  ok_gtp_trc_info_ie v ->
  decodes m buf (layout_gtp_trc_info_ie v) (decode_gtp_trc_info_ie m buf) (count_gtp_trc_info_ie v, v).
Proof. unfold ok_gtp_trc_info_ie, layout_gtp_trc_info_ie, decode_gtp_trc_info_ie, count_gtp_trc_info_ie. solve_decodes v. Qed.

#[global] Instance gtp_trc_info_ie_format : WireFormat gtp_trc_info_ie_t :=
  fixed_format layout_gtp_trc_info_ie ok_gtp_trc_info_ie count_gtp_trc_info_ie encode_gtp_trc_info_ie decode_gtp_trc_info_ie 304 ltac:(reflexivity)
    layout_gtp_trc_info_ie_size encode_gtp_trc_info_ie_emits decode_gtp_trc_info_ie_decodes.

End gtp_trc_info_ie.

(** ** [gtp_mbms_ip_multcst_dist_ie] *)

Module gtp_mbms_ip_multcst_dist_ie.

Record gtp_mbms_ip_multcst_dist_ie_t := {
  header : ie_header_t;
  cmn_tunn_endpt_idnt : Z;  (* uint32_t *)
  address_type : Z;  (* uint8_t :2 *)
  address_length : Z;  (* uint8_t :6 *)
  ip_multcst_dist_addr : Z;  (* uint8_t *)
  address_type2 : Z;  (* uint8_t :2 *)
  address_length2 : Z;  (* uint8_t :6 *)
  ip_multcst_src_addr : Z;  (* uint8_t *)
  mbms_hc_indctr : Z  (* uint8_t *)
}.

Definition encode_gtp_mbms_ip_multcst_dist_ie (value : gtp_mbms_ip_multcst_dist_ie_t) (buf : Z) : enc Z :=
  encoded <- ret 0;;
  encoded <- put_header value.(header) buf encoded;;
  encoded <- put_bits value.(cmn_tunn_endpt_idnt) 32 buf encoded;;
  encoded <- put_bits value.(address_type) 2 buf encoded;;
  encoded <- put_bits value.(address_length) 6 buf encoded;;
  encoded <- put_bits value.(ip_multcst_dist_addr) 8 buf encoded;;
  encoded <- put_bits value.(address_type2) 2 buf encoded;;
  encoded <- put_bits value.(address_length2) 6 buf encoded;;
  encoded <- put_bits value.(ip_multcst_src_addr) 8 buf encoded;;
  encoded <- put_bits value.(mbms_hc_indctr) 8 buf encoded;;
  ret (encoded / CHAR_SIZE).

Definition decode_gtp_mbms_ip_multcst_dist_ie (m : bytes) (buf : Z) : option (Z * gtp_mbms_ip_multcst_dist_ie_t) :=
  run_dec (
  header <- get_header m buf;;
  cmn_tunn_endpt_idnt <- get_bits m buf 32;;
  address_type <- get_bits m buf 2;;
  address_length <- get_bits m buf 6;;
  ip_multcst_dist_addr <- get_bits m buf 8;;
  address_type2 <- get_bits m buf 2;;
  address_length2 <- get_bits m buf 6;;
  ip_multcst_src_addr <- get_bits m buf 8;;
  mbms_hc_indctr <- get_bits m buf 8;;
  ret (header.(hdr_len) + IE_HEADER_SIZE,
      Build_gtp_mbms_ip_multcst_dist_ie_t header cmn_tunn_endpt_idnt address_type
       address_length ip_multcst_dist_addr address_type2 address_length2 ip_multcst_src_addr
       mbms_hc_indctr)).

Definition layout_gtp_mbms_ip_multcst_dist_ie (v : gtp_mbms_ip_multcst_dist_ie_t) : list field :=
  [FHdr v.(header); FBits v.(cmn_tunn_endpt_idnt) 32; FBits v.(address_type) 2;
   FBits v.(address_length) 6; FBits v.(ip_multcst_dist_addr) 8; FBits v.(address_type2) 2;
   FBits v.(address_length2) 6; FBits v.(ip_multcst_src_addr) 8; FBits v.(mbms_hc_indctr) 8].

Definition ok_gtp_mbms_ip_multcst_dist_ie (v : gtp_mbms_ip_multcst_dist_ie_t) : Prop :=
  True.

Definition count_gtp_mbms_ip_multcst_dist_ie (v : gtp_mbms_ip_multcst_dist_ie_t) : Z := v.(header).(hdr_len) + IE_HEADER_SIZE.

Lemma layout_gtp_mbms_ip_multcst_dist_ie_size v : ok_gtp_mbms_ip_multcst_dist_ie v -> lsize (layout_gtp_mbms_ip_multcst_dist_ie v) = 104.
Proof. unfold ok_gtp_mbms_ip_multcst_dist_ie, layout_gtp_mbms_ip_multcst_dist_ie. solve_size. Qed.

Lemma encode_gtp_mbms_ip_multcst_dist_ie_emits v buf :
  ok_gtp_mbms_ip_multcst_dist_ie v -> emits buf 0 (layout_gtp_mbms_ip_multcst_dist_ie v) (encode_gtp_mbms_ip_multcst_dist_ie v buf) (104 / 8).
Proof. unfold ok_gtp_mbms_ip_multcst_dist_ie, layout_gtp_mbms_ip_multcst_dist_ie, encode_gtp_mbms_ip_multcst_dist_ie. solve_emits. Qed.

Lemma decode_gtp_mbms_ip_multcst_dist_ie_decodes m buf v :
  ok_gtp_mbms_ip_multcst_dist_ie v ->
  decodes m buf (layout_gtp_mbms_ip_multcst_dist_ie v) (decode_gtp_mbms_ip_multcst_dist_ie m buf) (count_gtp_mbms_ip_multcst_dist_ie v, v).
Proof. unfold ok_gtp_mbms_ip_multcst_dist_ie, layout_gtp_mbms_ip_multcst_dist_ie, decode_gtp_mbms_ip_multcst_dist_ie, count_gtp_mbms_ip_multcst_dist_ie. solve_decodes v. Qed.

#[global] Instance gtp_mbms_ip_multcst_dist_ie_format : WireFormat gtp_mbms_ip_multcst_dist_ie_t :=
  fixed_format layout_gtp_mbms_ip_multcst_dist_ie ok_gtp_mbms_ip_multcst_dist_ie count_gtp_mbms_ip_multcst_dist_ie encode_gtp_mbms_ip_multcst_dist_ie decode_gtp_mbms_ip_multcst_dist_ie 104 ltac:(reflexivity)
    layout_gtp_mbms_ip_multcst_dist_ie_size encode_gtp_mbms_ip_multcst_dist_ie_emits decode_gtp_mbms_ip_multcst_dist_ie_decodes.

End gtp_mbms_ip_multcst_dist_ie.

(** ** [gtp_full_qual_cntnr_ie] *)

Module gtp_full_qual_cntnr_ie.

Record gtp_full_qual_cntnr_ie_t := {
  header : ie_header_t;
  spare2 : Z;  (* uint8_t :4 *)
  container_type : Z;  (* uint8_t :4 *)
  fcontainer_fld : Z  (* uint8_t *)
}.

Definition encode_gtp_full_qual_cntnr_ie (value : gtp_full_qual_cntnr_ie_t) (buf : Z) : enc Z :=
  encoded <- ret 0;;
  encoded <- put_header value.(header) buf encoded;;
  encoded <- put_bits value.(spare2) 4 buf encoded;;
  encoded <- put_bits value.(container_type) 4 buf encoded;;
  encoded <- put_bits value.(fcontainer_fld) 8 buf encoded;;
  ret (encoded / CHAR_SIZE).

Definition decode_gtp_full_qual_cntnr_ie (m : bytes) (buf : Z) : option (Z * gtp_full_qual_cntnr_ie_t) :=
  run_dec (
  header <- get_header m buf;;
  spare2 <- get_bits m buf 4;;
  container_type <- get_bits m buf 4;;
  fcontainer_fld <- get_bits m buf 8;;
  ret (header.(hdr_len) + IE_HEADER_SIZE,
      Build_gtp_full_qual_cntnr_ie_t header spare2 container_type fcontainer_fld)).

Definition layout_gtp_full_qual_cntnr_ie (v : gtp_full_qual_cntnr_ie_t) : list field :=
  [FHdr v.(header); FBits v.(spare2) 4; FBits v.(container_type) 4; FBits v.(fcontainer_fld) 8].

Definition ok_gtp_full_qual_cntnr_ie (v : gtp_full_qual_cntnr_ie_t) : Prop :=
  True.

Definition count_gtp_full_qual_cntnr_ie (v : gtp_full_qual_cntnr_ie_t) : Z := v.(header).(hdr_len) + IE_HEADER_SIZE.

Lemma layout_gtp_full_qual_cntnr_ie_size v : ok_gtp_full_qual_cntnr_ie v -> lsize (layout_gtp_full_qual_cntnr_ie v) = 48.
Proof. unfold ok_gtp_full_qual_cntnr_ie, layout_gtp_full_qual_cntnr_ie. solve_size. Qed.

Lemma encode_gtp_full_qual_cntnr_ie_emits v buf :
  ok_gtp_full_qual_cntnr_ie v -> emits buf 0 (layout_gtp_full_qual_cntnr_ie v) (encode_gtp_full_qual_cntnr_ie v buf) (48 / 8).
Proof. unfold ok_gtp_full_qual_cntnr_ie, layout_gtp_full_qual_cntnr_ie, encode_gtp_full_qual_cntnr_ie. solve_emits. Qed.

Lemma decode_gtp_full_qual_cntnr_ie_decodes m buf v :
  ok_gtp_full_qual_cntnr_ie v ->
  decodes m buf (layout_gtp_full_qual_cntnr_ie v) (decode_gtp_full_qual_cntnr_ie m buf) (count_gtp_full_qual_cntnr_ie v, v).
Proof. unfold ok_gtp_full_qual_cntnr_ie, layout_gtp_full_qual_cntnr_ie, decode_gtp_full_qual_cntnr_ie, count_gtp_full_qual_cntnr_ie. solve_decodes v. Qed.

#[global] Instance gtp_full_qual_cntnr_ie_format : WireFormat gtp_full_qual_cntnr_ie_t :=
  fixed_format layout_gtp_full_qual_cntnr_ie ok_gtp_full_qual_cntnr_ie count_gtp_full_qual_cntnr_ie encode_gtp_full_qual_cntnr_ie decode_gtp_full_qual_cntnr_ie 48 ltac:(reflexivity)
    layout_gtp_full_qual_cntnr_ie_size encode_gtp_full_qual_cntnr_ie_emits decode_gtp_full_qual_cntnr_ie_decodes.

End gtp_full_qual_cntnr_ie.

(** ** [gtp_mbms_data_xfer_abs_time_ie] *)

Module gtp_mbms_data_xfer_abs_time_ie.

Record gtp_mbms_data_xfer_abs_time_ie_t := {
  header : ie_header_t;
  mbms_data_xfer_abs_time_val_prt : Z  (* uint64_t *)
}.

Definition encode_gtp_mbms_data_xfer_abs_time_ie (value : gtp_mbms_data_xfer_abs_time_ie_t) (buf : Z) : enc Z :=
  encoded <- ret 0;;
  encoded <- put_header value.(header) buf encoded;;
  encoded <- put_bits value.(mbms_data_xfer_abs_time_val_prt) 64 buf encoded;;
  ret (encoded / CHAR_SIZE).

Definition decode_gtp_mbms_data_xfer_abs_time_ie (m : bytes) (buf : Z) : option (Z * gtp_mbms_data_xfer_abs_time_ie_t) :=
  run_dec (
  header <- get_header m buf;;
  mbms_data_xfer_abs_time_val_prt <- get_bits m buf 64;;
  ret (header.(hdr_len) + IE_HEADER_SIZE,
      Build_gtp_mbms_data_xfer_abs_time_ie_t header mbms_data_xfer_abs_time_val_prt)).

Definition layout_gtp_mbms_data_xfer_abs_time_ie (v : gtp_mbms_data_xfer_abs_time_ie_t) : list field :=
  [FHdr v.(header); FBits v.(mbms_data_xfer_abs_time_val_prt) 64].

Definition ok_gtp_mbms_data_xfer_abs_time_ie (v : gtp_mbms_data_xfer_abs_time_ie_t) : Prop :=
  True.

Definition count_gtp_mbms_data_xfer_abs_time_ie (v : gtp_mbms_data_xfer_abs_time_ie_t) : Z := v.(header).(hdr_len) + IE_HEADER_SIZE.

Lemma layout_gtp_mbms_data_xfer_abs_time_ie_size v : ok_gtp_mbms_data_xfer_abs_time_ie v -> lsize (layout_gtp_mbms_data_xfer_abs_time_ie v) = 96.
Proof. unfold ok_gtp_mbms_data_xfer_abs_time_ie, layout_gtp_mbms_data_xfer_abs_time_ie. solve_size. Qed.

Lemma encode_gtp_mbms_data_xfer_abs_time_ie_emits v buf :
  ok_gtp_mbms_data_xfer_abs_time_ie v -> emits buf 0 (layout_gtp_mbms_data_xfer_abs_time_ie v) (encode_gtp_mbms_data_xfer_abs_time_ie v buf) (96 / 8).
Proof. unfold ok_gtp_mbms_data_xfer_abs_time_ie, layout_gtp_mbms_data_xfer_abs_time_ie, encode_gtp_mbms_data_xfer_abs_time_ie. solve_emits. Qed.

Lemma decode_gtp_mbms_data_xfer_abs_time_ie_decodes m buf v :
  ok_gtp_mbms_data_xfer_abs_time_ie v ->
  decodes m buf (layout_gtp_mbms_data_xfer_abs_time_ie v) (decode_gtp_mbms_data_xfer_abs_time_ie m buf) (count_gtp_mbms_data_xfer_abs_time_ie v, v).
Proof. unfold ok_gtp_mbms_data_xfer_abs_time_ie, layout_gtp_mbms_data_xfer_abs_time_ie, decode_gtp_mbms_data_xfer_abs_time_ie, count_gtp_mbms_data_xfer_abs_time_ie. solve_decodes v. Qed.

#[global] Instance gtp_mbms_data_xfer_abs_time_ie_format : WireFormat gtp_mbms_data_xfer_abs_time_ie_t :=
  fixed_format layout_gtp_mbms_data_xfer_abs_time_ie ok_gtp_mbms_data_xfer_abs_time_ie count_gtp_mbms_data_xfer_abs_time_ie encode_gtp_mbms_data_xfer_abs_time_ie decode_gtp_mbms_data_xfer_abs_time_ie 96 ltac:(reflexivity)
    layout_gtp_mbms_data_xfer_abs_time_ie_size encode_gtp_mbms_data_xfer_abs_time_ie_emits decode_gtp_mbms_data_xfer_abs_time_ie_decodes.

End gtp_mbms_data_xfer_abs_time_ie.

(** ** [gtp_gsm_key_used_cipher_and_quintuplets_ie] *)

Module gtp_gsm_key_used_cipher_and_quintuplets_ie.

Record gtp_gsm_key_used_cipher_and_quintuplets_ie_t := {
  header : ie_header_t;
  security_mode : Z;  (* uint8_t :3 *)
  spare2 : Z;  (* uint8_t :1 *)
  drxi : Z;  (* uint8_t :1 *)
  cksnksi : Z;  (* uint8_t :3 *)
  nbr_of_quintuplets : Z;  (* uint8_t :3 *)
  spare3 : Z;  (* uint8_t :3 *)
  uambri : Z;  (* uint8_t :1 *)
  sambri : Z;  (* uint8_t :1 *)
  spare4 : Z;  (* uint8_t :5 *)
  used_cipher : Z;  (* uint8_t :3 *)
  kc : Z;  (* uint64_t *)
  auth_quintuplets : Z;  (* uint8_t *)
  drx_parameter : Z;  (* uint16_t *)
  uplnk_subscrbd_ue_ambr : Z;  (* uint32_t *)
  dnlnk_subscrbd_ue_ambr : Z;  (* uint32_t *)
  uplnk_used_ue_ambr : Z;  (* uint32_t *)
  dnlnk_used_ue_ambr : Z;  (* uint32_t *)
  ue_ntwk_capblty_len : Z;  (* uint8_t *)
  ue_ntwk_capblty : Z;  (* uint8_t *)
  ms_ntwk_capblty_len : Z;  (* uint8_t *)
  ms_ntwk_capblty : Z;  (* uint8_t *)
  mei_length : Z;  (* uint8_t *)
  mei : Z;  (* uint8_t *)
  ecna : Z;  (* uint8_t :1 *)
  nbna : Z;  (* uint8_t :1 *)
  hnna : Z;  (* uint8_t :1 *)
  ena : Z;  (* uint8_t :1 *)
  ina : Z;  (* uint8_t :1 *)
  gana : Z;  (* uint8_t :1 *)
  gena : Z;  (* uint8_t :1 *)
  una : Z;  (* uint8_t :1 *)
  vdom_pref_ue_usage_len : Z;  (* uint8_t *)
  voice_domain_pref_and_ues_usage_setting : Z;  (* uint8_t *)
  higher_bitrates_flg_len : Z;  (* uint8_t *)
  higher_bitrates_flg : Z  (* uint8_t *)
}.

Definition encode_gtp_gsm_key_used_cipher_and_quintuplets_ie (value : gtp_gsm_key_used_cipher_and_quintuplets_ie_t) (buf : Z) : enc Z :=
  encoded <- ret 0;;
  encoded <- put_header value.(header) buf encoded;;
  encoded <- put_bits value.(security_mode) 3 buf encoded;;
  encoded <- put_bits value.(spare2) 1 buf encoded;;
  encoded <- put_bits value.(drxi) 1 buf encoded;;
  encoded <- put_bits value.(cksnksi) 3 buf encoded;;
  encoded <- put_bits value.(nbr_of_quintuplets) 3 buf encoded;;
  encoded <- put_bits value.(spare3) 3 buf encoded;;
  encoded <- put_bits value.(uambri) 1 buf encoded;;
  encoded <- put_bits value.(sambri) 1 buf encoded;;
  encoded <- put_bits value.(spare4) 5 buf encoded;;
  encoded <- put_bits value.(used_cipher) 3 buf encoded;;
  encoded <- put_bits value.(kc) 64 buf encoded;;
  encoded <- put_bits value.(auth_quintuplets) 8 buf encoded;;
  encoded <- put_bits value.(drx_parameter) 16 buf encoded;;
  encoded <- put_bits value.(uplnk_subscrbd_ue_ambr) 32 buf encoded;;
  encoded <- put_bits value.(dnlnk_subscrbd_ue_ambr) 32 buf encoded;;
  encoded <- put_bits value.(uplnk_used_ue_ambr) 32 buf encoded;;
  encoded <- put_bits value.(dnlnk_used_ue_ambr) 32 buf encoded;;
  encoded <- put_bits value.(ue_ntwk_capblty_len) 8 buf encoded;;
  encoded <- put_bits value.(ue_ntwk_capblty) 8 buf encoded;;
  encoded <- put_bits value.(ms_ntwk_capblty_len) 8 buf encoded;;
  encoded <- put_bits value.(ms_ntwk_capblty) 8 buf encoded;;
  encoded <- put_bits value.(mei_length) 8 buf encoded;;
  encoded <- put_bits value.(mei) 8 buf encoded;;
  encoded <- put_bits value.(ecna) 1 buf encoded;;
  encoded <- put_bits value.(nbna) 1 buf encoded;;
  encoded <- put_bits value.(hnna) 1 buf encoded;;
  encoded <- put_bits value.(ena) 1 buf encoded;;
  encoded <- put_bits value.(ina) 1 buf encoded;;
  encoded <- put_bits value.(gana) 1 buf encoded;;
  encoded <- put_bits value.(gena) 1 buf encoded;;
  encoded <- put_bits value.(una) 1 buf encoded;;
  encoded <- put_bits value.(vdom_pref_ue_usage_len) 8 buf encoded;;
  encoded <- put_bits value.(voice_domain_pref_and_ues_usage_setting) 8 buf encoded;;
  encoded <- put_bits value.(higher_bitrates_flg_len) 8 buf encoded;;
  encoded <- put_bits value.(higher_bitrates_flg) 8 buf encoded;;
  ret (encoded / CHAR_SIZE).

Definition decode_gtp_gsm_key_used_cipher_and_quintuplets_ie (m : bytes) (buf : Z) : option (Z * gtp_gsm_key_used_cipher_and_quintuplets_ie_t) :=
  run_dec (
  header <- get_header m buf;;
  security_mode <- get_bits m buf 3;;
  spare2 <- get_bits m buf 1;;
  drxi <- get_bits m buf 1;;
  cksnksi <- get_bits m buf 3;;
  nbr_of_quintuplets <- get_bits m buf 3;;
  spare3 <- get_bits m buf 3;;
  uambri <- get_bits m buf 1;;
  sambri <- get_bits m buf 1;;
  spare4 <- get_bits m buf 5;;
  used_cipher <- get_bits m buf 3;;
  kc <- get_bits m buf 64;;
  auth_quintuplets <- get_bits m buf 8;;
  drx_parameter <- get_bits m buf 16;;
  uplnk_subscrbd_ue_ambr <- get_bits m buf 32;;
  dnlnk_subscrbd_ue_ambr <- get_bits m buf 32;;
  uplnk_used_ue_ambr <- get_bits m buf 32;;
  dnlnk_used_ue_ambr <- get_bits m buf 32;;
  ue_ntwk_capblty_len <- get_bits m buf 8;;
  ue_ntwk_capblty <- get_bits m buf 8;;
  ms_ntwk_capblty_len <- get_bits m buf 8;;
  ms_ntwk_capblty <- get_bits m buf 8;;
  mei_length <- get_bits m buf 8;;
  mei <- get_bits m buf 8;;
  ecna <- get_bits m buf 1;;
  nbna <- get_bits m buf 1;;
  hnna <- get_bits m buf 1;;
  ena <- get_bits m buf 1;;
  ina <- get_bits m buf 1;;
  gana <- get_bits m buf 1;;
  gena <- get_bits m buf 1;;
  una <- get_bits m buf 1;;
  vdom_pref_ue_usage_len <- get_bits m buf 8;;
  voice_domain_pref_and_ues_usage_setting <- get_bits m buf 8;;
  higher_bitrates_flg_len <- get_bits m buf 8;;
  higher_bitrates_flg <- get_bits m buf 8;;
  ret (header.(hdr_len) + IE_HEADER_SIZE,
      Build_gtp_gsm_key_used_cipher_and_quintuplets_ie_t header security_mode spare2 drxi
       cksnksi nbr_of_quintuplets spare3 uambri sambri spare4 used_cipher kc auth_quintuplets
       drx_parameter uplnk_subscrbd_ue_ambr dnlnk_subscrbd_ue_ambr uplnk_used_ue_ambr
       dnlnk_used_ue_ambr ue_ntwk_capblty_len ue_ntwk_capblty ms_ntwk_capblty_len
       ms_ntwk_capblty mei_length mei ecna nbna hnna ena ina gana gena una
       vdom_pref_ue_usage_len voice_domain_pref_and_ues_usage_setting higher_bitrates_flg_len
       higher_bitrates_flg)).

Definition layout_gtp_gsm_key_used_cipher_and_quintuplets_ie (v : gtp_gsm_key_used_cipher_and_quintuplets_ie_t) : list field :=
  [FHdr v.(header); FBits v.(security_mode) 3; FBits v.(spare2) 1; FBits v.(drxi) 1;
   FBits v.(cksnksi) 3; FBits v.(nbr_of_quintuplets) 3; FBits v.(spare3) 3;
   FBits v.(uambri) 1; FBits v.(sambri) 1; FBits v.(spare4) 5; FBits v.(used_cipher) 3;
   FBits v.(kc) 64; FBits v.(auth_quintuplets) 8; FBits v.(drx_parameter) 16;
   FBits v.(uplnk_subscrbd_ue_ambr) 32; FBits v.(dnlnk_subscrbd_ue_ambr) 32;
   FBits v.(uplnk_used_ue_ambr) 32; FBits v.(dnlnk_used_ue_ambr) 32;
   FBits v.(ue_ntwk_capblty_len) 8; FBits v.(ue_ntwk_capblty) 8;
   FBits v.(ms_ntwk_capblty_len) 8; FBits v.(ms_ntwk_capblty) 8; FBits v.(mei_length) 8;
   FBits v.(mei) 8; FBits v.(ecna) 1; FBits v.(nbna) 1; FBits v.(hnna) 1; FBits v.(ena) 1;
   FBits v.(ina) 1; FBits v.(gana) 1; FBits v.(gena) 1; FBits v.(una) 1;
   FBits v.(vdom_pref_ue_usage_len) 8; FBits v.(voice_domain_pref_and_ues_usage_setting) 8;
   FBits v.(higher_bitrates_flg_len) 8; FBits v.(higher_bitrates_flg) 8].

Definition ok_gtp_gsm_key_used_cipher_and_quintuplets_ie (v : gtp_gsm_key_used_cipher_and_quintuplets_ie_t) : Prop :=
  True.

Definition count_gtp_gsm_key_used_cipher_and_quintuplets_ie (v : gtp_gsm_key_used_cipher_and_quintuplets_ie_t) : Z := v.(header).(hdr_len) + IE_HEADER_SIZE.

Lemma layout_gtp_gsm_key_used_cipher_and_quintuplets_ie_size v : ok_gtp_gsm_key_used_cipher_and_quintuplets_ie v -> lsize (layout_gtp_gsm_key_used_cipher_and_quintuplets_ie v) = 360.
Proof. unfold ok_gtp_gsm_key_used_cipher_and_quintuplets_ie, layout_gtp_gsm_key_used_cipher_and_quintuplets_ie. solve_size. Qed.

Lemma encode_gtp_gsm_key_used_cipher_and_quintuplets_ie_emits v buf :
  ok_gtp_gsm_key_used_cipher_and_quintuplets_ie v -> emits buf 0 (layout_gtp_gsm_key_used_cipher_and_quintuplets_ie v) (encode_gtp_gsm_key_used_cipher_and_quintuplets_ie v buf) (360 / 8).
Proof. unfold ok_gtp_gsm_key_used_cipher_and_quintuplets_ie, layout_gtp_gsm_key_used_cipher_and_quintuplets_ie, encode_gtp_gsm_key_used_cipher_and_quintuplets_ie. solve_emits. Qed.

Lemma decode_gtp_gsm_key_used_cipher_and_quintuplets_ie_decodes m buf v :
  ok_gtp_gsm_key_used_cipher_and_quintuplets_ie v ->
  decodes m buf (layout_gtp_gsm_key_used_cipher_and_quintuplets_ie v) (decode_gtp_gsm_key_used_cipher_and_quintuplets_ie m buf) (count_gtp_gsm_key_used_cipher_and_quintuplets_ie v, v).
Proof. unfold ok_gtp_gsm_key_used_cipher_and_quintuplets_ie, layout_gtp_gsm_key_used_cipher_and_quintuplets_ie, decode_gtp_gsm_key_used_cipher_and_quintuplets_ie, count_gtp_gsm_key_used_cipher_and_quintuplets_ie. solve_decodes v. Qed.

#[global] Instance gtp_gsm_key_used_cipher_and_quintuplets_ie_format : WireFormat gtp_gsm_key_used_cipher_and_quintuplets_ie_t :=
  fixed_format layout_gtp_gsm_key_used_cipher_and_quintuplets_ie ok_gtp_gsm_key_used_cipher_and_quintuplets_ie count_gtp_gsm_key_used_cipher_and_quintuplets_ie encode_gtp_gsm_key_used_cipher_and_quintuplets_ie decode_gtp_gsm_key_used_cipher_and_quintuplets_ie 360 ltac:(reflexivity)
    layout_gtp_gsm_key_used_cipher_and_quintuplets_ie_size encode_gtp_gsm_key_used_cipher_and_quintuplets_ie_emits decode_gtp_gsm_key_used_cipher_and_quintuplets_ie_decodes.

End gtp_gsm_key_used_cipher_and_quintuplets_ie.

(** ** [gtp_twan_idnt_ts_ie] *)

Module gtp_twan_idnt_ts_ie.

Record gtp_twan_idnt_ts_ie_t := {
  header : ie_header_t;
  twan_idnt_ts_val : Z  (* uint8_t *)
}.

Definition encode_gtp_twan_idnt_ts_ie (value : gtp_twan_idnt_ts_ie_t) (buf : Z) : enc Z :=
  encoded <- ret 0;;
  encoded <- put_header value.(header) buf encoded;;
  encoded <- put_bits value.(twan_idnt_ts_val) 8 buf encoded;;
  ret (encoded / CHAR_SIZE).

Definition decode_gtp_twan_idnt_ts_ie (m : bytes) (buf : Z) : option (Z * gtp_twan_idnt_ts_ie_t) :=
  run_dec (
  header <- get_header m buf;;
  twan_idnt_ts_val <- get_bits m buf 8;;
  ret (header.(hdr_len) + IE_HEADER_SIZE,
      Build_gtp_twan_idnt_ts_ie_t header twan_idnt_ts_val)).

Definition layout_gtp_twan_idnt_ts_ie (v : gtp_twan_idnt_ts_ie_t) : list field :=
  [FHdr v.(header); FBits v.(twan_idnt_ts_val) 8].

Definition ok_gtp_twan_idnt_ts_ie (v : gtp_twan_idnt_ts_ie_t) : Prop :=
  True.

Definition count_gtp_twan_idnt_ts_ie (v : gtp_twan_idnt_ts_ie_t) : Z := v.(header).(hdr_len) + IE_HEADER_SIZE.

Lemma layout_gtp_twan_idnt_ts_ie_size v : ok_gtp_twan_idnt_ts_ie v -> lsize (layout_gtp_twan_idnt_ts_ie v) = 40.
Proof. unfold ok_gtp_twan_idnt_ts_ie, layout_gtp_twan_idnt_ts_ie. solve_size. Qed.

Lemma encode_gtp_twan_idnt_ts_ie_emits v buf :
  ok_gtp_twan_idnt_ts_ie v -> emits buf 0 (layout_gtp_twan_idnt_ts_ie v) (encode_gtp_twan_idnt_ts_ie v buf) (40 / 8).
Proof. unfold ok_gtp_twan_idnt_ts_ie, layout_gtp_twan_idnt_ts_ie, encode_gtp_twan_idnt_ts_ie. solve_emits. Qed.

Lemma decode_gtp_twan_idnt_ts_ie_decodes m buf v :
  ok_gtp_twan_idnt_ts_ie v ->
  decodes m buf (layout_gtp_twan_idnt_ts_ie v) (decode_gtp_twan_idnt_ts_ie m buf) (count_gtp_twan_idnt_ts_ie v, v).
Proof. unfold ok_gtp_twan_idnt_ts_ie, layout_gtp_twan_idnt_ts_ie, decode_gtp_twan_idnt_ts_ie, count_gtp_twan_idnt_ts_ie. solve_decodes v. Qed.

#[global] Instance gtp_twan_idnt_ts_ie_format : WireFormat gtp_twan_idnt_ts_ie_t :=
  fixed_format layout_gtp_twan_idnt_ts_ie ok_gtp_twan_idnt_ts_ie count_gtp_twan_idnt_ts_ie encode_gtp_twan_idnt_ts_ie decode_gtp_twan_idnt_ts_ie 40 ltac:(reflexivity)
    layout_gtp_twan_idnt_ts_ie_size encode_gtp_twan_idnt_ts_ie_emits decode_gtp_twan_idnt_ts_ie_decodes.

End gtp_twan_idnt_ts_ie.

(** ** [gtp_tmsi_ie] *)

Module gtp_tmsi_ie.

Record gtp_tmsi_ie_t := {
  header : ie_header_t;
  tmsi : Z  (* uint8_t *)
}.

Definition encode_gtp_tmsi_ie (value : gtp_tmsi_ie_t) (buf : Z) : enc Z :=
  encoded <- ret 0;;
  encoded <- put_header value.(header) buf encoded;;
  encoded <- put_bits value.(tmsi) 8 buf encoded;;
  ret (encoded / CHAR_SIZE).

Definition decode_gtp_tmsi_ie (m : bytes) (buf : Z) : option (Z * gtp_tmsi_ie_t) :=
  run_dec (
  header <- get_header m buf;;
  tmsi <- get_bits m buf 8;;
  ret (header.(hdr_len) + IE_HEADER_SIZE,
      Build_gtp_tmsi_ie_t header tmsi)).

Definition layout_gtp_tmsi_ie (v : gtp_tmsi_ie_t) : list field :=
  [FHdr v.(header); FBits v.(tmsi) 8].

Definition ok_gtp_tmsi_ie (v : gtp_tmsi_ie_t) : Prop :=
  True.

Definition count_gtp_tmsi_ie (v : gtp_tmsi_ie_t) : Z := v.(header).(hdr_len) + IE_HEADER_SIZE.

Lemma layout_gtp_tmsi_ie_size v : ok_gtp_tmsi_ie v -> lsize (layout_gtp_tmsi_ie v) = 40.
Proof. unfold ok_gtp_tmsi_ie, layout_gtp_tmsi_ie. solve_size. Qed.

Lemma encode_gtp_tmsi_ie_emits v buf :
  ok_gtp_tmsi_ie v -> emits buf 0 (layout_gtp_tmsi_ie v) (encode_gtp_tmsi_ie v buf) (40 / 8).
Proof. unfold ok_gtp_tmsi_ie, layout_gtp_tmsi_ie, encode_gtp_tmsi_ie. solve_emits. Qed.

Lemma decode_gtp_tmsi_ie_decodes m buf v :
  ok_gtp_tmsi_ie v ->
  decodes m buf (layout_gtp_tmsi_ie v) (decode_gtp_tmsi_ie m buf) (count_gtp_tmsi_ie v, v).
Proof. unfold ok_gtp_tmsi_ie, layout_gtp_tmsi_ie, decode_gtp_tmsi_ie, count_gtp_tmsi_ie. solve_decodes v. Qed.

#[global] Instance gtp_tmsi_ie_format : WireFormat gtp_tmsi_ie_t :=
  fixed_format layout_gtp_tmsi_ie ok_gtp_tmsi_ie count_gtp_tmsi_ie encode_gtp_tmsi_ie decode_gtp_tmsi_ie 40 ltac:(reflexivity)
    layout_gtp_tmsi_ie_size encode_gtp_tmsi_ie_emits decode_gtp_tmsi_ie_decodes.

End gtp_tmsi_ie.

(** ** [gtp_twan_identifier_ie] *)

Module gtp_twan_identifier_ie.

Record gtp_twan_identifier_ie_t := {
  header : ie_header_t;
  spare2 : Z;  (* uint8_t :3 *)
  laii : Z;  (* uint8_t :1 *)
  opnai : Z;  (* uint8_t :1 *)
  plmni : Z;  (* uint8_t :1 *)
  civai : Z;  (* uint8_t :1 *)
  bssidi : Z;  (* uint8_t :2 *)
  ssid_length : Z;  (* uint8_t *)
  ssid : Z;  (* uint8_t *)
  bssid : Z;  (* uint64_t :48 *)
  civic_addr_len : Z;  (* uint8_t *)
  civic_addr_info : Z;  (* uint8_t *)
  twan_plmn_id : Z;  (* uint32_t :24 *)
  twan_oper_name_len : Z;  (* uint8_t *)
  twan_oper_name : Z;  (* uint8_t *)
  rly_idnty_type : Z;  (* uint8_t *)
  rly_idnty_len : Z;  (* uint8_t *)
  relay_identity : Z;  (* uint8_t *)
  circuit_id_len : Z;  (* uint8_t *)
  circuit_id : Z  (* uint8_t *)
}.

Definition encode_gtp_twan_identifier_ie (value : gtp_twan_identifier_ie_t) (buf : Z) : enc Z :=
  encoded <- ret 0;;
  encoded <- put_header value.(header) buf encoded;;
  encoded <- put_bits value.(spare2) 3 buf encoded;;
  encoded <- put_bits value.(laii) 1 buf encoded;;
  encoded <- put_bits value.(opnai) 1 buf encoded;;
  encoded <- put_bits value.(plmni) 1 buf encoded;;
  encoded <- put_bits value.(civai) 1 buf encoded;;
  encoded <- put_bits value.(bssidi) 2 buf encoded;;
  encoded <- put_bits value.(ssid_length) 8 buf encoded;;
  encoded <- put_bits value.(ssid) 8 buf encoded;;
  encoded <- put_bits value.(bssid) 48 buf encoded;;
  encoded <- put_bits value.(civic_addr_len) 8 buf encoded;;
  encoded <- put_bits value.(civic_addr_info) 8 buf encoded;;
  encoded <- put_bits value.(twan_plmn_id) 24 buf encoded;;
  encoded <- put_bits value.(twan_oper_name_len) 8 buf encoded;;
  encoded <- put_bits value.(twan_oper_name) 8 buf encoded;;
  encoded <- put_bits value.(rly_idnty_type) 8 buf encoded;;
  encoded <- put_bits value.(rly_idnty_len) 8 buf encoded;;
  encoded <- put_bits value.(relay_identity) 8 buf encoded;;
  encoded <- put_bits value.(circuit_id_len) 8 buf encoded;;
  encoded <- put_bits value.(circuit_id) 8 buf encoded;;
  ret (encoded / CHAR_SIZE).

Definition decode_gtp_twan_identifier_ie (m : bytes) (buf : Z) : option (Z * gtp_twan_identifier_ie_t) :=
  run_dec (
  header <- get_header m buf;;
  spare2 <- get_bits m buf 3;;
  laii <- get_bits m buf 1;;
  opnai <- get_bits m buf 1;;
  plmni <- get_bits m buf 1;;
  civai <- get_bits m buf 1;;
  bssidi <- get_bits m buf 2;;
  ssid_length <- get_bits m buf 8;;
  ssid <- get_bits m buf 8;;
  bssid <- get_bits m buf 48;;
  civic_addr_len <- get_bits m buf 8;;
  civic_addr_info <- get_bits m buf 8;;
  twan_plmn_id <- get_bits m buf 24;;
  twan_oper_name_len <- get_bits m buf 8;;
  twan_oper_name <- get_bits m buf 8;;
  rly_idnty_type <- get_bits m buf 8;;
  rly_idnty_len <- get_bits m buf 8;;
  relay_identity <- get_bits m buf 8;;
  circuit_id_len <- get_bits m buf 8;;
  circuit_id <- get_bits m buf 8;;
  ret (header.(hdr_len) + IE_HEADER_SIZE,
      Build_gtp_twan_identifier_ie_t header spare2 laii opnai plmni civai bssidi ssid_length
       ssid bssid civic_addr_len civic_addr_info twan_plmn_id twan_oper_name_len
       twan_oper_name rly_idnty_type rly_idnty_len relay_identity circuit_id_len circuit_id)).

Definition layout_gtp_twan_identifier_ie (v : gtp_twan_identifier_ie_t) : list field :=
  [FHdr v.(header); FBits v.(spare2) 3; FBits v.(laii) 1; FBits v.(opnai) 1;
   FBits v.(plmni) 1; FBits v.(civai) 1; FBits v.(bssidi) 2; FBits v.(ssid_length) 8;
   FBits v.(ssid) 8; FBits v.(bssid) 48; FBits v.(civic_addr_len) 8;
   FBits v.(civic_addr_info) 8; FBits v.(twan_plmn_id) 24; FBits v.(twan_oper_name_len) 8;
   FBits v.(twan_oper_name) 8; FBits v.(rly_idnty_type) 8; FBits v.(rly_idnty_len) 8;
   FBits v.(relay_identity) 8; FBits v.(circuit_id_len) 8; FBits v.(circuit_id) 8].

Definition ok_gtp_twan_identifier_ie (v : gtp_twan_identifier_ie_t) : Prop :=
  True.

Definition count_gtp_twan_identifier_ie (v : gtp_twan_identifier_ie_t) : Z := v.(header).(hdr_len) + IE_HEADER_SIZE.

Lemma layout_gtp_twan_identifier_ie_size v : ok_gtp_twan_identifier_ie v -> lsize (layout_gtp_twan_identifier_ie v) = 201.
Proof. unfold ok_gtp_twan_identifier_ie, layout_gtp_twan_identifier_ie. solve_size. Qed.

Lemma encode_gtp_twan_identifier_ie_emits v buf :
  ok_gtp_twan_identifier_ie v -> emits buf 0 (layout_gtp_twan_identifier_ie v) (encode_gtp_twan_identifier_ie v buf) (201 / 8).
Proof. unfold ok_gtp_twan_identifier_ie, layout_gtp_twan_identifier_ie, encode_gtp_twan_identifier_ie. solve_emits. Qed.

Lemma decode_gtp_twan_identifier_ie_decodes m buf v :
  ok_gtp_twan_identifier_ie v ->
  decodes m buf (layout_gtp_twan_identifier_ie v) (decode_gtp_twan_identifier_ie m buf) (count_gtp_twan_identifier_ie v, v).
Proof. unfold ok_gtp_twan_identifier_ie, layout_gtp_twan_identifier_ie, decode_gtp_twan_identifier_ie, count_gtp_twan_identifier_ie. solve_decodes v. Qed.

#[global] Instance gtp_twan_identifier_ie_format : WireFormat gtp_twan_identifier_ie_t :=
  fixed_format layout_gtp_twan_identifier_ie ok_gtp_twan_identifier_ie count_gtp_twan_identifier_ie encode_gtp_twan_identifier_ie decode_gtp_twan_identifier_ie 201 ltac:(reflexivity)
    layout_gtp_twan_identifier_ie_size encode_gtp_twan_identifier_ie_emits decode_gtp_twan_identifier_ie_decodes.

End gtp_twan_identifier_ie.

(** ** [gtp_ptmsi_ie] *)

Module gtp_ptmsi_ie.

Record gtp_ptmsi_ie_t := {
  header : ie_header_t;
  ptmsi : Z  (* uint8_t *)
}.

Definition encode_gtp_ptmsi_ie (value : gtp_ptmsi_ie_t) (buf : Z) : enc Z :=
  encoded <- ret 0;;
  encoded <- put_header value.(header) buf encoded;;
  encoded <- put_bits value.(ptmsi) 8 buf encoded;;
  ret (encoded / CHAR_SIZE).

Definition decode_gtp_ptmsi_ie (m : bytes) (buf : Z) : option (Z * gtp_ptmsi_ie_t) :=
  run_dec (
  header <- get_header m buf;;
  ptmsi <- get_bits m buf 8;;
  ret (header.(hdr_len) + IE_HEADER_SIZE,
      Build_gtp_ptmsi_ie_t header ptmsi)).

Definition layout_gtp_ptmsi_ie (v : gtp_ptmsi_ie_t) : list field :=
  [FHdr v.(header); FBits v.(ptmsi) 8].

Definition ok_gtp_ptmsi_ie (v : gtp_ptmsi_ie_t) : Prop :=
  True.

Definition count_gtp_ptmsi_ie (v : gtp_ptmsi_ie_t) : Z := v.(header).(hdr_len) + IE_HEADER_SIZE.

Lemma layout_gtp_ptmsi_ie_size v : ok_gtp_ptmsi_ie v -> lsize (layout_gtp_ptmsi_ie v) = 40.
Proof. unfold ok_gtp_ptmsi_ie, layout_gtp_ptmsi_ie. solve_size. Qed.

Lemma encode_gtp_ptmsi_ie_emits v buf :
  ok_gtp_ptmsi_ie v -> emits buf 0 (layout_gtp_ptmsi_ie v) (encode_gtp_ptmsi_ie v buf) (40 / 8).
Proof. unfold ok_gtp_ptmsi_ie, layout_gtp_ptmsi_ie, encode_gtp_ptmsi_ie. solve_emits. Qed.

Lemma decode_gtp_ptmsi_ie_decodes m buf v :
  ok_gtp_ptmsi_ie v ->
  decodes m buf (layout_gtp_ptmsi_ie v) (decode_gtp_ptmsi_ie m buf) (count_gtp_ptmsi_ie v, v).
Proof. unfold ok_gtp_ptmsi_ie, layout_gtp_ptmsi_ie, decode_gtp_ptmsi_ie, count_gtp_ptmsi_ie. solve_decodes v. Qed.

#[global] Instance gtp_ptmsi_ie_format : WireFormat gtp_ptmsi_ie_t :=
  fixed_format layout_gtp_ptmsi_ie ok_gtp_ptmsi_ie count_gtp_ptmsi_ie encode_gtp_ptmsi_ie decode_gtp_ptmsi_ie 40 ltac:(reflexivity)
    layout_gtp_ptmsi_ie_size encode_gtp_ptmsi_ie_emits decode_gtp_ptmsi_ie_decodes.

End gtp_ptmsi_ie.

(** ** [gtp_node_type_ie] *)

Module gtp_node_type_ie.

Record gtp_node_type_ie_t := {
  header : ie_header_t;
  node_type : Z  (* uint8_t *)
}.

Definition encode_gtp_node_type_ie (value : gtp_node_type_ie_t) (buf : Z) : enc Z :=
  encoded <- ret 0;;
  encoded <- put_header value.(header) buf encoded;;
  encoded <- put_bits value.(node_type) 8 buf encoded;;
  ret (encoded / CHAR_SIZE).

Definition decode_gtp_node_type_ie (m : bytes) (buf : Z) : option (Z * gtp_node_type_ie_t) :=
  run_dec (
  header <- get_header m buf;;
  node_type <- get_bits m buf 8;;
  ret (header.(hdr_len) + IE_HEADER_SIZE,
      Build_gtp_node_type_ie_t header node_type)).

Definition layout_gtp_node_type_ie (v : gtp_node_type_ie_t) : list field :=
  [FHdr v.(header); FBits v.(node_type) 8].

Definition ok_gtp_node_type_ie (v : gtp_node_type_ie_t) : Prop :=
  True.

Definition count_gtp_node_type_ie (v : gtp_node_type_ie_t) : Z := v.(header).(hdr_len) + IE_HEADER_SIZE.

Lemma layout_gtp_node_type_ie_size v : ok_gtp_node_type_ie v -> lsize (layout_gtp_node_type_ie v) = 40.
Proof. unfold ok_gtp_node_type_ie, layout_gtp_node_type_ie. solve_size. Qed.

Lemma encode_gtp_node_type_ie_emits v buf :
  ok_gtp_node_type_ie v -> emits buf 0 (layout_gtp_node_type_ie v) (encode_gtp_node_type_ie v buf) (40 / 8).
Proof. unfold ok_gtp_node_type_ie, layout_gtp_node_type_ie, encode_gtp_node_type_ie. solve_emits. Qed.

Lemma decode_gtp_node_type_ie_decodes m buf v :
  ok_gtp_node_type_ie v ->
  decodes m buf (layout_gtp_node_type_ie v) (decode_gtp_node_type_ie m buf) (count_gtp_node_type_ie v, v).
Proof. unfold ok_gtp_node_type_ie, layout_gtp_node_type_ie, decode_gtp_node_type_ie, count_gtp_node_type_ie. solve_decodes v. Qed.

#[global] Instance gtp_node_type_ie_format : WireFormat gtp_node_type_ie_t :=
  fixed_format layout_gtp_node_type_ie ok_gtp_node_type_ie count_gtp_node_type_ie encode_gtp_node_type_ie decode_gtp_node_type_ie 40 ltac:(reflexivity)
    layout_gtp_node_type_ie_size encode_gtp_node_type_ie_emits decode_gtp_node_type_ie_decodes.

End gtp_node_type_ie.

(** ** [gtp_user_csg_info_ie] *)

Module gtp_user_csg_info_ie.

Record gtp_user_csg_info_ie_t := {
  header : ie_header_t;
  mcc_digit_2 : Z;  (* uint8_t :4 *)
  mcc_digit_1 : Z;  (* uint8_t :4 *)
  mnc_digit_3 : Z;  (* uint8_t :4 *)
  mcc_digit_3 : Z;  (* uint8_t :4 *)
  mnc_digit_2 : Z;  (* uint8_t :4 *)
  mnc_digit_1 : Z;  (* uint8_t :4 *)
  spare2 : Z;  (* uint8_t :5 *)
  csg_id : Z;  (* uint32_t :3 *)
  csg_id2 : Z;  (* uint32_t :24 *)
  access_mode : Z;  (* uint8_t :2 *)
  spare3 : Z;  (* uint8_t :4 *)
  lcsg : Z;  (* uint8_t :1 *)
  cmi : Z  (* uint8_t :1 *)
}.

Definition encode_gtp_user_csg_info_ie (value : gtp_user_csg_info_ie_t) (buf : Z) : enc Z :=
  encoded <- ret 0;;
  encoded <- put_header value.(header) buf encoded;;
  encoded <- put_bits value.(mcc_digit_2) 4 buf encoded;;
  encoded <- put_bits value.(mcc_digit_1) 4 buf encoded;;
  encoded <- put_bits value.(mnc_digit_3) 4 buf encoded;;
  encoded <- put_bits value.(mcc_digit_3) 4 buf encoded;;
  encoded <- put_bits value.(mnc_digit_2) 4 buf encoded;;
  encoded <- put_bits value.(mnc_digit_1) 4 buf encoded;;
  encoded <- put_bits value.(spare2) 5 buf encoded;;
  encoded <- put_bits value.(csg_id) 3 buf encoded;;
  encoded <- put_bits value.(csg_id2) 24 buf encoded;;
  encoded <- put_bits value.(access_mode) 2 buf encoded;;
  encoded <- put_bits value.(spare3) 4 buf encoded;;
  encoded <- put_bits value.(lcsg) 1 buf encoded;;
  encoded <- put_bits value.(cmi) 1 buf encoded;;
  ret (encoded / CHAR_SIZE).

Definition decode_gtp_user_csg_info_ie (m : bytes) (buf : Z) : option (Z * gtp_user_csg_info_ie_t) :=
  run_dec (
  header <- get_header m buf;;
  mcc_digit_2 <- get_bits m buf 4;;
  mcc_digit_1 <- get_bits m buf 4;;
  mnc_digit_3 <- get_bits m buf 4;;
  mcc_digit_3 <- get_bits m buf 4;;
  mnc_digit_2 <- get_bits m buf 4;;
  mnc_digit_1 <- get_bits m buf 4;;
  spare2 <- get_bits m buf 5;;
  csg_id <- get_bits m buf 3;;
  csg_id2 <- get_bits m buf 24;;
  access_mode <- get_bits m buf 2;;
  spare3 <- get_bits m buf 4;;
  lcsg <- get_bits m buf 1;;
  cmi <- get_bits m buf 1;;
  ret (header.(hdr_len) + IE_HEADER_SIZE,
      Build_gtp_user_csg_info_ie_t header mcc_digit_2 mcc_digit_1 mnc_digit_3 mcc_digit_3
       mnc_digit_2 mnc_digit_1 spare2 csg_id csg_id2 access_mode spare3 lcsg cmi)).

Definition layout_gtp_user_csg_info_ie (v : gtp_user_csg_info_ie_t) : list field :=
  [FHdr v.(header); FBits v.(mcc_digit_2) 4; FBits v.(mcc_digit_1) 4; FBits v.(mnc_digit_3) 4;
   FBits v.(mcc_digit_3) 4; FBits v.(mnc_digit_2) 4; FBits v.(mnc_digit_1) 4;
   FBits v.(spare2) 5; FBits v.(csg_id) 3; FBits v.(csg_id2) 24; FBits v.(access_mode) 2;
   FBits v.(spare3) 4; FBits v.(lcsg) 1; FBits v.(cmi) 1].

Definition ok_gtp_user_csg_info_ie (v : gtp_user_csg_info_ie_t) : Prop :=
  True.

Definition count_gtp_user_csg_info_ie (v : gtp_user_csg_info_ie_t) : Z := v.(header).(hdr_len) + IE_HEADER_SIZE.

Lemma layout_gtp_user_csg_info_ie_size v : ok_gtp_user_csg_info_ie v -> lsize (layout_gtp_user_csg_info_ie v) = 96.
Proof. unfold ok_gtp_user_csg_info_ie, layout_gtp_user_csg_info_ie. solve_size. Qed.

Lemma encode_gtp_user_csg_info_ie_emits v buf :
  ok_gtp_user_csg_info_ie v -> emits buf 0 (layout_gtp_user_csg_info_ie v) (encode_gtp_user_csg_info_ie v buf) (96 / 8).
Proof. unfold ok_gtp_user_csg_info_ie, layout_gtp_user_csg_info_ie, encode_gtp_user_csg_info_ie. solve_emits. Qed.

Lemma decode_gtp_user_csg_info_ie_decodes m buf v :
  ok_gtp_user_csg_info_ie v ->
  decodes m buf (layout_gtp_user_csg_info_ie v) (decode_gtp_user_csg_info_ie m buf) (count_gtp_user_csg_info_ie v, v).
Proof. unfold ok_gtp_user_csg_info_ie, layout_gtp_user_csg_info_ie, decode_gtp_user_csg_info_ie, count_gtp_user_csg_info_ie. solve_decodes v. Qed.

#[global] Instance gtp_user_csg_info_ie_format : WireFormat gtp_user_csg_info_ie_t :=
  fixed_format layout_gtp_user_csg_info_ie ok_gtp_user_csg_info_ie count_gtp_user_csg_info_ie encode_gtp_user_csg_info_ie decode_gtp_user_csg_info_ie 96 ltac:(reflexivity)
    layout_gtp_user_csg_info_ie_size encode_gtp_user_csg_info_ie_emits decode_gtp_user_csg_info_ie_decodes.

End gtp_user_csg_info_ie.

(** ** [gtp_mbms_sess_dur_ie] *)

Module gtp_mbms_sess_dur_ie.

Record gtp_mbms_sess_dur_ie_t := {
  header : ie_header_t;
  mbms_sess_dur : Z  (* uint32_t :24 *)
}.

Definition encode_gtp_mbms_sess_dur_ie (value : gtp_mbms_sess_dur_ie_t) (buf : Z) : enc Z :=
  encoded <- ret 0;;
  encoded <- put_header value.(header) buf encoded;;
  encoded <- put_bits value.(mbms_sess_dur) 24 buf encoded;;
  ret (encoded / CHAR_SIZE).

Definition decode_gtp_mbms_sess_dur_ie (m : bytes) (buf : Z) : option (Z * gtp_mbms_sess_dur_ie_t) :=
  run_dec (
  header <- get_header m buf;;
  mbms_sess_dur <- get_bits m buf 24;;
  ret (header.(hdr_len) + IE_HEADER_SIZE,
      Build_gtp_mbms_sess_dur_ie_t header mbms_sess_dur)).

Definition layout_gtp_mbms_sess_dur_ie (v : gtp_mbms_sess_dur_ie_t) : list field :=
  [FHdr v.(header); FBits v.(mbms_sess_dur) 24].

Definition ok_gtp_mbms_sess_dur_ie (v : gtp_mbms_sess_dur_ie_t) : Prop :=
  True.

Definition count_gtp_mbms_sess_dur_ie (v : gtp_mbms_sess_dur_ie_t) : Z := v.(header).(hdr_len) + IE_HEADER_SIZE.

Lemma layout_gtp_mbms_sess_dur_ie_size v : ok_gtp_mbms_sess_dur_ie v -> lsize (layout_gtp_mbms_sess_dur_ie v) = 56.
Proof. unfold ok_gtp_mbms_sess_dur_ie, layout_gtp_mbms_sess_dur_ie. solve_size. Qed.

Lemma encode_gtp_mbms_sess_dur_ie_emits v buf :
  ok_gtp_mbms_sess_dur_ie v -> emits buf 0 (layout_gtp_mbms_sess_dur_ie v) (encode_gtp_mbms_sess_dur_ie v buf) (56 / 8).
Proof. unfold ok_gtp_mbms_sess_dur_ie, layout_gtp_mbms_sess_dur_ie, encode_gtp_mbms_sess_dur_ie. solve_emits. Qed.

Lemma decode_gtp_mbms_sess_dur_ie_decodes m buf v :
  ok_gtp_mbms_sess_dur_ie v ->
  decodes m buf (layout_gtp_mbms_sess_dur_ie v) (decode_gtp_mbms_sess_dur_ie m buf) (count_gtp_mbms_sess_dur_ie v, v).
Proof. unfold ok_gtp_mbms_sess_dur_ie, layout_gtp_mbms_sess_dur_ie, decode_gtp_mbms_sess_dur_ie, count_gtp_mbms_sess_dur_ie. solve_decodes v. Qed.

#[global] Instance gtp_mbms_sess_dur_ie_format : WireFormat gtp_mbms_sess_dur_ie_t :=
  fixed_format layout_gtp_mbms_sess_dur_ie ok_gtp_mbms_sess_dur_ie count_gtp_mbms_sess_dur_ie encode_gtp_mbms_sess_dur_ie decode_gtp_mbms_sess_dur_ie 56 ltac:(reflexivity)
    layout_gtp_mbms_sess_dur_ie_size encode_gtp_mbms_sess_dur_ie_emits decode_gtp_mbms_sess_dur_ie_decodes.

End gtp_mbms_sess_dur_ie.

(** ** [gtp_metric_ie] *)

Module gtp_metric_ie.

Record gtp_metric_ie_t := {
  header : ie_header_t;
  metric : Z  (* uint8_t *)
}.

Definition encode_gtp_metric_ie (value : gtp_metric_ie_t) (buf : Z) : enc Z :=
  encoded <- ret 0;;
  encoded <- put_header value.(header) buf encoded;;
  encoded <- put_bits value.(metric) 8 buf encoded;;
  ret (encoded / CHAR_SIZE).

Definition decode_gtp_metric_ie (m : bytes) (buf : Z) : option (Z * gtp_metric_ie_t) :=
  run_dec (
  header <- get_header m buf;;
  metric <- get_bits m buf 8;;
  ret (header.(hdr_len) + IE_HEADER_SIZE,
      Build_gtp_metric_ie_t header metric)).

Definition layout_gtp_metric_ie (v : gtp_metric_ie_t) : list field :=
  [FHdr v.(header); FBits v.(metric) 8].

Definition ok_gtp_metric_ie (v : gtp_metric_ie_t) : Prop :=
  True.

Definition count_gtp_metric_ie (v : gtp_metric_ie_t) : Z := v.(header).(hdr_len) + IE_HEADER_SIZE.

Lemma layout_gtp_metric_ie_size v : ok_gtp_metric_ie v -> lsize (layout_gtp_metric_ie v) = 40.
Proof. unfold ok_gtp_metric_ie, layout_gtp_metric_ie. solve_size. Qed.

Lemma encode_gtp_metric_ie_emits v buf :
  ok_gtp_metric_ie v -> emits buf 0 (layout_gtp_metric_ie v) (encode_gtp_metric_ie v buf) (40 / 8).
Proof. unfold ok_gtp_metric_ie, layout_gtp_metric_ie, encode_gtp_metric_ie. solve_emits. Qed.

Lemma decode_gtp_metric_ie_decodes m buf v :
  ok_gtp_metric_ie v ->
  decodes m buf (layout_gtp_metric_ie v) (decode_gtp_metric_ie m buf) (count_gtp_metric_ie v, v).
Proof. unfold ok_gtp_metric_ie, layout_gtp_metric_ie, decode_gtp_metric_ie, count_gtp_metric_ie. solve_decodes v. Qed.

#[global] Instance gtp_metric_ie_format : WireFormat gtp_metric_ie_t :=
  fixed_format layout_gtp_metric_ie ok_gtp_metric_ie count_gtp_metric_ie encode_gtp_metric_ie decode_gtp_metric_ie 40 ltac:(reflexivity)
    layout_gtp_metric_ie_size encode_gtp_metric_ie_emits decode_gtp_metric_ie_decodes.

End gtp_metric_ie.

(** ** [gtp_bearer_context_ie] *)

Module gtp_bearer_context_ie.

Record gtp_bearer_context_ie_t := {
  header : ie_header_t;
  bearer_context : list Z  (* uint8_t[BEARER_CONTEXT_LEN] *)
}.

Definition encode_gtp_bearer_context_ie (value : gtp_bearer_context_ie_t) (buf : Z) : enc Z :=
  encoded <- ret 0;;
  encoded <- put_header value.(header) buf encoded;;
  encoded <- put_bytes value.(bearer_context) BEARER_CONTEXT_LEN buf encoded;;
  ret (encoded / CHAR_SIZE).

Definition decode_gtp_bearer_context_ie (m : bytes) (buf : Z) : option (Z * gtp_bearer_context_ie_t) :=
  run_dec (
  header <- get_header m buf;;
  bearer_context <- get_bytes m buf BEARER_CONTEXT_LEN;;
  ret (header.(hdr_len) + IE_HEADER_SIZE,
      Build_gtp_bearer_context_ie_t header bearer_context)).

Definition layout_gtp_bearer_context_ie (v : gtp_bearer_context_ie_t) : list field :=
  [FHdr v.(header); FCopy v.(bearer_context)].

Definition ok_gtp_bearer_context_ie (v : gtp_bearer_context_ie_t) : Prop :=
  Z.of_nat (length v.(bearer_context)) = BEARER_CONTEXT_LEN.

Definition count_gtp_bearer_context_ie (v : gtp_bearer_context_ie_t) : Z := v.(header).(hdr_len) + IE_HEADER_SIZE.

Lemma layout_gtp_bearer_context_ie_size v : ok_gtp_bearer_context_ie v -> lsize (layout_gtp_bearer_context_ie v) = 96.
Proof. unfold ok_gtp_bearer_context_ie, layout_gtp_bearer_context_ie. solve_size. Qed.

Lemma encode_gtp_bearer_context_ie_emits v buf :
  ok_gtp_bearer_context_ie v -> emits buf 0 (layout_gtp_bearer_context_ie v) (encode_gtp_bearer_context_ie v buf) (96 / 8).
Proof. unfold ok_gtp_bearer_context_ie, layout_gtp_bearer_context_ie, encode_gtp_bearer_context_ie. solve_emits. Qed.

Lemma decode_gtp_bearer_context_ie_decodes m buf v :
  ok_gtp_bearer_context_ie v ->
  decodes m buf (layout_gtp_bearer_context_ie v) (decode_gtp_bearer_context_ie m buf) (count_gtp_bearer_context_ie v, v).
Proof. unfold ok_gtp_bearer_context_ie, layout_gtp_bearer_context_ie, decode_gtp_bearer_context_ie, count_gtp_bearer_context_ie. solve_decodes v. Qed.

#[global] Instance gtp_bearer_context_ie_format : WireFormat gtp_bearer_context_ie_t :=
  fixed_format layout_gtp_bearer_context_ie ok_gtp_bearer_context_ie count_gtp_bearer_context_ie encode_gtp_bearer_context_ie decode_gtp_bearer_context_ie 96 ltac:(reflexivity)
    layout_gtp_bearer_context_ie_size encode_gtp_bearer_context_ie_emits decode_gtp_bearer_context_ie_decodes.

End gtp_bearer_context_ie.

(** ** [gtp_ciot_optim_supp_indctn_ie] *)

Module gtp_ciot_optim_supp_indctn_ie.

Record gtp_ciot_optim_supp_indctn_ie_t := {
  header : ie_header_t;
  spare2 : Z;  (* uint8_t :1 *)
  spare3 : Z;  (* uint8_t :1 *)
  spare4 : Z;  (* uint8_t :1 *)
  spare5 : Z;  (* uint8_t :1 *)
  ihcsi : Z;  (* uint8_t :1 *)
  awopdn : Z;  (* uint8_t :1 *)
  scnipdn : Z;  (* uint8_t :1 *)
  sgnipdn : Z  (* uint8_t :1 *)
}.

Definition encode_gtp_ciot_optim_supp_indctn_ie (value : gtp_ciot_optim_supp_indctn_ie_t) (buf : Z) : enc Z :=
  encoded <- ret 0;;
  encoded <- put_header value.(header) buf encoded;;
  encoded <- put_bits value.(spare2) 1 buf encoded;;
  encoded <- put_bits value.(spare3) 1 buf encoded;;
  encoded <- put_bits value.(spare4) 1 buf encoded;;
  encoded <- put_bits value.(spare5) 1 buf encoded;;
  encoded <- put_bits value.(ihcsi) 1 buf encoded;;
  encoded <- put_bits value.(awopdn) 1 buf encoded;;
  encoded <- put_bits value.(scnipdn) 1 buf encoded;;
  encoded <- put_bits value.(sgnipdn) 1 buf encoded;;
  ret (encoded / CHAR_SIZE).

Definition decode_gtp_ciot_optim_supp_indctn_ie (m : bytes) (buf : Z) : option (Z * gtp_ciot_optim_supp_indctn_ie_t) :=
  run_dec (
  header <- get_header m buf;;
  spare2 <- get_bits m buf 1;;
  spare3 <- get_bits m buf 1;;
  spare4 <- get_bits m buf 1;;
  spare5 <- get_bits m buf 1;;
  ihcsi <- get_bits m buf 1;;
  awopdn <- get_bits m buf 1;;
  scnipdn <- get_bits m buf 1;;
  sgnipdn <- get_bits m buf 1;;
  ret (header.(hdr_len) + IE_HEADER_SIZE,
      Build_gtp_ciot_optim_supp_indctn_ie_t header spare2 spare3 spare4 spare5 ihcsi awopdn
       scnipdn sgnipdn)).

Definition layout_gtp_ciot_optim_supp_indctn_ie (v : gtp_ciot_optim_supp_indctn_ie_t) : list field :=
  [FHdr v.(header); FBits v.(spare2) 1; FBits v.(spare3) 1; FBits v.(spare4) 1;
   FBits v.(spare5) 1; FBits v.(ihcsi) 1; FBits v.(awopdn) 1; FBits v.(scnipdn) 1;
   FBits v.(sgnipdn) 1].

Definition ok_gtp_ciot_optim_supp_indctn_ie (v : gtp_ciot_optim_supp_indctn_ie_t) : Prop :=
  True.

Definition count_gtp_ciot_optim_supp_indctn_ie (v : gtp_ciot_optim_supp_indctn_ie_t) : Z := v.(header).(hdr_len) + IE_HEADER_SIZE.

Lemma layout_gtp_ciot_optim_supp_indctn_ie_size v : ok_gtp_ciot_optim_supp_indctn_ie v -> lsize (layout_gtp_ciot_optim_supp_indctn_ie v) = 40.
Proof. unfold ok_gtp_ciot_optim_supp_indctn_ie, layout_gtp_ciot_optim_supp_indctn_ie. solve_size. Qed.

Lemma encode_gtp_ciot_optim_supp_indctn_ie_emits v buf :
  ok_gtp_ciot_optim_supp_indctn_ie v -> emits buf 0 (layout_gtp_ciot_optim_supp_indctn_ie v) (encode_gtp_ciot_optim_supp_indctn_ie v buf) (40 / 8).
Proof. unfold ok_gtp_ciot_optim_supp_indctn_ie, layout_gtp_ciot_optim_supp_indctn_ie, encode_gtp_ciot_optim_supp_indctn_ie. solve_emits. Qed.

Lemma decode_gtp_ciot_optim_supp_indctn_ie_decodes m buf v :
  ok_gtp_ciot_optim_supp_indctn_ie v ->
  decodes m buf (layout_gtp_ciot_optim_supp_indctn_ie v) (decode_gtp_ciot_optim_supp_indctn_ie m buf) (count_gtp_ciot_optim_supp_indctn_ie v, v).
Proof. unfold ok_gtp_ciot_optim_supp_indctn_ie, layout_gtp_ciot_optim_supp_indctn_ie, decode_gtp_ciot_optim_supp_indctn_ie, count_gtp_ciot_optim_supp_indctn_ie. solve_decodes v. Qed.

#[global] Instance gtp_ciot_optim_supp_indctn_ie_format : WireFormat gtp_ciot_optim_supp_indctn_ie_t :=
  fixed_format layout_gtp_ciot_optim_supp_indctn_ie ok_gtp_ciot_optim_supp_indctn_ie count_gtp_ciot_optim_supp_indctn_ie encode_gtp_ciot_optim_supp_indctn_ie decode_gtp_ciot_optim_supp_indctn_ie 40 ltac:(reflexivity)
    layout_gtp_ciot_optim_supp_indctn_ie_size encode_gtp_ciot_optim_supp_indctn_ie_emits decode_gtp_ciot_optim_supp_indctn_ie_decodes.

End gtp_ciot_optim_supp_indctn_ie.

(** ** [gtp_pdu_numbers_ie] *)

Module gtp_pdu_numbers_ie.

Record gtp_pdu_numbers_ie_t := {
  header : ie_header_t;
  spare2 : Z;  (* uint8_t :4 *)
  nsapi : Z;  (* uint8_t :4 *)
  dl_gtpu_seqn_nbr : Z;  (* uint8_t *)
  ul_gtpu_seqn_nbr : Z;  (* uint8_t *)
  snd_npdu_nbr : Z;  (* uint8_t *)
  rcv_npdu_nbr : Z  (* uint8_t *)
}.

Definition encode_gtp_pdu_numbers_ie (value : gtp_pdu_numbers_ie_t) (buf : Z) : enc Z :=
  encoded <- ret 0;;
  encoded <- put_header value.(header) buf encoded;;
  encoded <- put_bits value.(spare2) 4 buf encoded;;
  encoded <- put_bits value.(nsapi) 4 buf encoded;;
  encoded <- put_bits value.(dl_gtpu_seqn_nbr) 8 buf encoded;;
  encoded <- put_bits value.(ul_gtpu_seqn_nbr) 8 buf encoded;;
  encoded <- put_bits value.(snd_npdu_nbr) 8 buf encoded;;
  encoded <- put_bits value.(rcv_npdu_nbr) 8 buf encoded;;
  ret (encoded / CHAR_SIZE).

Definition decode_gtp_pdu_numbers_ie (m : bytes) (buf : Z) : option (Z * gtp_pdu_numbers_ie_t) :=
  run_dec (
  header <- get_header m buf;;
  spare2 <- get_bits m buf 4;;
  nsapi <- get_bits m buf 4;;
  dl_gtpu_seqn_nbr <- get_bits m buf 8;;
  ul_gtpu_seqn_nbr <- get_bits m buf 8;;
  snd_npdu_nbr <- get_bits m buf 8;;
  rcv_npdu_nbr <- get_bits m buf 8;;
  ret (header.(hdr_len) + IE_HEADER_SIZE,
      Build_gtp_pdu_numbers_ie_t header spare2 nsapi dl_gtpu_seqn_nbr ul_gtpu_seqn_nbr
       snd_npdu_nbr rcv_npdu_nbr)).

Definition layout_gtp_pdu_numbers_ie (v : gtp_pdu_numbers_ie_t) : list field :=
  [FHdr v.(header); FBits v.(spare2) 4; FBits v.(nsapi) 4; FBits v.(dl_gtpu_seqn_nbr) 8;
   FBits v.(ul_gtpu_seqn_nbr) 8; FBits v.(snd_npdu_nbr) 8; FBits v.(rcv_npdu_nbr) 8].

Definition ok_gtp_pdu_numbers_ie (v : gtp_pdu_numbers_ie_t) : Prop :=
  True.

Definition count_gtp_pdu_numbers_ie (v : gtp_pdu_numbers_ie_t) : Z := v.(header).(hdr_len) + IE_HEADER_SIZE.

Lemma layout_gtp_pdu_numbers_ie_size v : ok_gtp_pdu_numbers_ie v -> lsize (layout_gtp_pdu_numbers_ie v) = 72.
Proof. unfold ok_gtp_pdu_numbers_ie, layout_gtp_pdu_numbers_ie. solve_size. Qed.

Lemma encode_gtp_pdu_numbers_ie_emits v buf :
  ok_gtp_pdu_numbers_ie v -> emits buf 0 (layout_gtp_pdu_numbers_ie v) (encode_gtp_pdu_numbers_ie v buf) (72 / 8).
Proof. unfold ok_gtp_pdu_numbers_ie, layout_gtp_pdu_numbers_ie, encode_gtp_pdu_numbers_ie. solve_emits. Qed.

Lemma decode_gtp_pdu_numbers_ie_decodes m buf v :
  ok_gtp_pdu_numbers_ie v ->
  decodes m buf (layout_gtp_pdu_numbers_ie v) (decode_gtp_pdu_numbers_ie m buf) (count_gtp_pdu_numbers_ie v, v).
Proof. unfold ok_gtp_pdu_numbers_ie, layout_gtp_pdu_numbers_ie, decode_gtp_pdu_numbers_ie, count_gtp_pdu_numbers_ie. solve_decodes v. Qed.

#[global] Instance gtp_pdu_numbers_ie_format : WireFormat gtp_pdu_numbers_ie_t :=
  fixed_format layout_gtp_pdu_numbers_ie ok_gtp_pdu_numbers_ie count_gtp_pdu_numbers_ie encode_gtp_pdu_numbers_ie decode_gtp_pdu_numbers_ie 72 ltac:(reflexivity)
    layout_gtp_pdu_numbers_ie_size encode_gtp_pdu_numbers_ie_emits decode_gtp_pdu_numbers_ie_decodes.

End gtp_pdu_numbers_ie.

(** ** [gtp_rab_context_ie] *)

Module gtp_rab_context_ie.

Record gtp_rab_context_ie_t := {
  header : ie_header_t;
  spare2 : Z;  (* uint8_t :4 *)
  nsapi : Z;  (* uint8_t :4 *)
  dl_gtpu_seqn_nbr : Z;  (* uint16_t *)
  ul_gtpu_seqn_nbr : Z;  (* uint16_t *)
  dl_pdcp_seqn_nbr : Z;  (* uint16_t *)
  ul_pdcp_seqn_nbr : Z  (* uint16_t *)
}.

Definition encode_gtp_rab_context_ie (value : gtp_rab_context_ie_t) (buf : Z) : enc Z :=
  encoded <- ret 0;;
  encoded <- put_header value.(header) buf encoded;;
  encoded <- put_bits value.(spare2) 4 buf encoded;;
  encoded <- put_bits value.(nsapi) 4 buf encoded;;
  encoded <- put_bits value.(dl_gtpu_seqn_nbr) 16 buf encoded;;
  encoded <- put_bits value.(ul_gtpu_seqn_nbr) 16 buf encoded;;
  encoded <- put_bits value.(dl_pdcp_seqn_nbr) 16 buf encoded;;
  encoded <- put_bits value.(ul_pdcp_seqn_nbr) 16 buf encoded;;
  ret (encoded / CHAR_SIZE).

Definition decode_gtp_rab_context_ie (m : bytes) (buf : Z) : option (Z * gtp_rab_context_ie_t) :=
  run_dec (
  header <- get_header m buf;;
  spare2 <- get_bits m buf 4;;
  nsapi <- get_bits m buf 4;;
  dl_gtpu_seqn_nbr <- get_bits m buf 16;;
  ul_gtpu_seqn_nbr <- get_bits m buf 16;;
  dl_pdcp_seqn_nbr <- get_bits m buf 16;;
  ul_pdcp_seqn_nbr <- get_bits m buf 16;;
  ret (header.(hdr_len) + IE_HEADER_SIZE,
      Build_gtp_rab_context_ie_t header spare2 nsapi dl_gtpu_seqn_nbr ul_gtpu_seqn_nbr
       dl_pdcp_seqn_nbr ul_pdcp_seqn_nbr)).

Definition layout_gtp_rab_context_ie (v : gtp_rab_context_ie_t) : list field :=
  [FHdr v.(header); FBits v.(spare2) 4; FBits v.(nsapi) 4; FBits v.(dl_gtpu_seqn_nbr) 16;
   FBits v.(ul_gtpu_seqn_nbr) 16; FBits v.(dl_pdcp_seqn_nbr) 16;
   FBits v.(ul_pdcp_seqn_nbr) 16].

Definition ok_gtp_rab_context_ie (v : gtp_rab_context_ie_t) : Prop :=
  True.

Definition count_gtp_rab_context_ie (v : gtp_rab_context_ie_t) : Z := v.(header).(hdr_len) + IE_HEADER_SIZE.

Lemma layout_gtp_rab_context_ie_size v : ok_gtp_rab_context_ie v -> lsize (layout_gtp_rab_context_ie v) = 104.
Proof. unfold ok_gtp_rab_context_ie, layout_gtp_rab_context_ie. solve_size. Qed.

Lemma encode_gtp_rab_context_ie_emits v buf :
  ok_gtp_rab_context_ie v -> emits buf 0 (layout_gtp_rab_context_ie v) (encode_gtp_rab_context_ie v buf) (104 / 8).
Proof. unfold ok_gtp_rab_context_ie, layout_gtp_rab_context_ie, encode_gtp_rab_context_ie. solve_emits. Qed.

Lemma decode_gtp_rab_context_ie_decodes m buf v :
  ok_gtp_rab_context_ie v ->
  decodes m buf (layout_gtp_rab_context_ie v) (decode_gtp_rab_context_ie m buf) (count_gtp_rab_context_ie v, v).
Proof. unfold ok_gtp_rab_context_ie, layout_gtp_rab_context_ie, decode_gtp_rab_context_ie, count_gtp_rab_context_ie. solve_decodes v. Qed.

#[global] Instance gtp_rab_context_ie_format : WireFormat gtp_rab_context_ie_t :=
  fixed_format layout_gtp_rab_context_ie ok_gtp_rab_context_ie count_gtp_rab_context_ie encode_gtp_rab_context_ie decode_gtp_rab_context_ie 104 ltac:(reflexivity)
    layout_gtp_rab_context_ie_size encode_gtp_rab_context_ie_emits decode_gtp_rab_context_ie_decodes.

End gtp_rab_context_ie.

(** ** [gtp_addtl_flgs_srvcc_ie] *)

Module gtp_addtl_flgs_srvcc_ie.

Record gtp_addtl_flgs_srvcc_ie_t := {
  header : ie_header_t;
  spare2 : Z;  (* uint8_t :6 *)
  vf : Z;  (* uint8_t :1 *)
  ics : Z  (* uint8_t :1 *)
}.

Definition encode_gtp_addtl_flgs_srvcc_ie (value : gtp_addtl_flgs_srvcc_ie_t) (buf : Z) : enc Z :=
  encoded <- ret 0;;
  encoded <- put_header value.(header) buf encoded;;
  encoded <- put_bits value.(spare2) 6 buf encoded;;
  encoded <- put_bits value.(vf) 1 buf encoded;;
  encoded <- put_bits value.(ics) 1 buf encoded;;
  ret (encoded / CHAR_SIZE).

Definition decode_gtp_addtl_flgs_srvcc_ie (m : bytes) (buf : Z) : option (Z * gtp_addtl_flgs_srvcc_ie_t) :=
  run_dec (
  header <- get_header m buf;;
  spare2 <- get_bits m buf 6;;
  vf <- get_bits m buf 1;;
  ics <- get_bits m buf 1;;
  ret (header.(hdr_len) + IE_HEADER_SIZE,
      Build_gtp_addtl_flgs_srvcc_ie_t header spare2 vf ics)).

Definition layout_gtp_addtl_flgs_srvcc_ie (v : gtp_addtl_flgs_srvcc_ie_t) : list field :=
  [FHdr v.(header); FBits v.(spare2) 6; FBits v.(vf) 1; FBits v.(ics) 1].

Definition ok_gtp_addtl_flgs_srvcc_ie (v : gtp_addtl_flgs_srvcc_ie_t) : Prop :=
  True.

Definition count_gtp_addtl_flgs_srvcc_ie (v : gtp_addtl_flgs_srvcc_ie_t) : Z := v.(header).(hdr_len) + IE_HEADER_SIZE.

Lemma layout_gtp_addtl_flgs_srvcc_ie_size v : ok_gtp_addtl_flgs_srvcc_ie v -> lsize (layout_gtp_addtl_flgs_srvcc_ie v) = 40.
Proof. unfold ok_gtp_addtl_flgs_srvcc_ie, layout_gtp_addtl_flgs_srvcc_ie. solve_size. Qed.

Lemma encode_gtp_addtl_flgs_srvcc_ie_emits v buf :
  ok_gtp_addtl_flgs_srvcc_ie v -> emits buf 0 (layout_gtp_addtl_flgs_srvcc_ie v) (encode_gtp_addtl_flgs_srvcc_ie v buf) (40 / 8).
Proof. unfold ok_gtp_addtl_flgs_srvcc_ie, layout_gtp_addtl_flgs_srvcc_ie, encode_gtp_addtl_flgs_srvcc_ie. solve_emits. Qed.

Lemma decode_gtp_addtl_flgs_srvcc_ie_decodes m buf v :
  ok_gtp_addtl_flgs_srvcc_ie v ->
  decodes m buf (layout_gtp_addtl_flgs_srvcc_ie v) (decode_gtp_addtl_flgs_srvcc_ie m buf) (count_gtp_addtl_flgs_srvcc_ie v, v).
Proof. unfold ok_gtp_addtl_flgs_srvcc_ie, layout_gtp_addtl_flgs_srvcc_ie, decode_gtp_addtl_flgs_srvcc_ie, count_gtp_addtl_flgs_srvcc_ie. solve_decodes v. Qed.

#[global] Instance gtp_addtl_flgs_srvcc_ie_format : WireFormat gtp_addtl_flgs_srvcc_ie_t :=
  fixed_format layout_gtp_addtl_flgs_srvcc_ie ok_gtp_addtl_flgs_srvcc_ie count_gtp_addtl_flgs_srvcc_ie encode_gtp_addtl_flgs_srvcc_ie decode_gtp_addtl_flgs_srvcc_ie 40 ltac:(reflexivity)
    layout_gtp_addtl_flgs_srvcc_ie_size encode_gtp_addtl_flgs_srvcc_ie_emits decode_gtp_addtl_flgs_srvcc_ie_decodes.

End gtp_addtl_flgs_srvcc_ie.

(** ** [gtp_gsm_key_and_triplets_ie] *)

Module gtp_gsm_key_and_triplets_ie.

Record gtp_gsm_key_and_triplets_ie_t := {
  header : ie_header_t;
  security_mode : Z;  (* uint8_t :3 *)
  spare2 : Z;  (* uint8_t :1 *)
  drxi : Z;  (* uint8_t :1 *)
  cksn : Z;  (* uint8_t :3 *)
  nbr_of_triplet : Z;  (* uint8_t :3 *)
  spare3 : Z;  (* uint8_t :3 *)
  uambri : Z;  (* uint8_t :1 *)
  sambri : Z;  (* uint8_t :1 *)
  spare4 : Z;  (* uint8_t :5 *)
  used_cipher : Z;  (* uint8_t :3 *)
  kc : Z;  (* uint64_t *)
  auth_triplet : Z;  (* uint8_t *)
  drx_parameter : Z;  (* uint16_t *)
  uplnk_subscrbd_ue_ambr : Z;  (* uint32_t *)
  dnlnk_subscrbd_ue_ambr : Z;  (* uint32_t *)
  uplnk_used_ue_ambr : Z;  (* uint32_t *)
  dnlnk_used_ue_ambr : Z;  (* uint32_t *)
  ue_ntwk_capblty_len : Z;  (* uint8_t *)
  ue_ntwk_capblty : Z;  (* uint8_t *)
  ms_ntwk_capblty_len : Z;  (* uint8_t *)
  ms_ntwk_capblty : Z;  (* uint8_t *)
  mei_length : Z;  (* uint8_t *)
  mei : Z;  (* uint8_t *)
  ecna : Z;  (* uint8_t :1 *)
  nbna : Z;  (* uint8_t :1 *)
  hnna : Z;  (* uint8_t :1 *)
  ena : Z;  (* uint8_t :1 *)
  ina : Z;  (* uint8_t :1 *)
  gana : Z;  (* uint8_t :1 *)
  gena : Z;  (* uint8_t :1 *)
  una : Z;  (* uint8_t :1 *)
  vdom_pref_ue_usage_len : Z;  (* uint8_t *)
  voice_domain_pref_and_ues_usage_setting : Z  (* uint8_t *)
}.

Definition encode_gtp_gsm_key_and_triplets_ie (value : gtp_gsm_key_and_triplets_ie_t) (buf : Z) : enc Z :=
  encoded <- ret 0;;
  encoded <- put_header value.(header) buf encoded;;
  encoded <- put_bits value.(security_mode) 3 buf encoded;;
  encoded <- put_bits value.(spare2) 1 buf encoded;;
  encoded <- put_bits value.(drxi) 1 buf encoded;;
  encoded <- put_bits value.(cksn) 3 buf encoded;;
  encoded <- put_bits value.(nbr_of_triplet) 3 buf encoded;;
  encoded <- put_bits value.(spare3) 3 buf encoded;;
  encoded <- put_bits value.(uambri) 1 buf encoded;;
  encoded <- put_bits value.(sambri) 1 buf encoded;;
  encoded <- put_bits value.(spare4) 5 buf encoded;;
  encoded <- put_bits value.(used_cipher) 3 buf encoded;;
  encoded <- put_bits value.(kc) 64 buf encoded;;
  encoded <- put_bits value.(auth_triplet) 8 buf encoded;;
  encoded <- put_bits value.(drx_parameter) 16 buf encoded;;
  encoded <- put_bits value.(uplnk_subscrbd_ue_ambr) 32 buf encoded;;
  encoded <- put_bits value.(dnlnk_subscrbd_ue_ambr) 32 buf encoded;;
  encoded <- put_bits value.(uplnk_used_ue_ambr) 32 buf encoded;;
  encoded <- put_bits value.(dnlnk_used_ue_ambr) 32 buf encoded;;
  encoded <- put_bits value.(ue_ntwk_capblty_len) 8 buf encoded;;
  encoded <- put_bits value.(ue_ntwk_capblty) 8 buf encoded;;
  encoded <- put_bits value.(ms_ntwk_capblty_len) 8 buf encoded;;
  encoded <- put_bits value.(ms_ntwk_capblty) 8 buf encoded;;
  encoded <- put_bits value.(mei_length) 8 buf encoded;;
  encoded <- put_bits value.(mei) 8 buf encoded;;
  encoded <- put_bits value.(ecna) 1 buf encoded;;
  encoded <- put_bits value.(nbna) 1 buf encoded;;
  encoded <- put_bits value.(hnna) 1 buf encoded;;
  encoded <- put_bits value.(ena) 1 buf encoded;;
  encoded <- put_bits value.(ina) 1 buf encoded;;
  encoded <- put_bits value.(gana) 1 buf encoded;;
  encoded <- put_bits value.(gena) 1 buf encoded;;
  encoded <- put_bits value.(una) 1 buf encoded;;
  encoded <- put_bits value.(vdom_pref_ue_usage_len) 8 buf encoded;;
  encoded <- put_bits value.(voice_domain_pref_and_ues_usage_setting) 8 buf encoded;;
  ret (encoded / CHAR_SIZE).

Definition decode_gtp_gsm_key_and_triplets_ie (m : bytes) (buf : Z) : option (Z * gtp_gsm_key_and_triplets_ie_t) :=
  run_dec (
  header <- get_header m buf;;
  security_mode <- get_bits m buf 3;;
  spare2 <- get_bits m buf 1;;
  drxi <- get_bits m buf 1;;
  cksn <- get_bits m buf 3;;
  nbr_of_triplet <- get_bits m buf 3;;
  spare3 <- get_bits m buf 3;;
  uambri <- get_bits m buf 1;;
  sambri <- get_bits m buf 1;;
  spare4 <- get_bits m buf 5;;
  used_cipher <- get_bits m buf 3;;
  kc <- get_bits m buf 64;;
  auth_triplet <- get_bits m buf 8;;
  drx_parameter <- get_bits m buf 16;;
  uplnk_subscrbd_ue_ambr <- get_bits m buf 32;;
  dnlnk_subscrbd_ue_ambr <- get_bits m buf 32;;
  uplnk_used_ue_ambr <- get_bits m buf 32;;
  dnlnk_used_ue_ambr <- get_bits m buf 32;;
  ue_ntwk_capblty_len <- get_bits m buf 8;;
  ue_ntwk_capblty <- get_bits m buf 8;;
  ms_ntwk_capblty_len <- get_bits m buf 8;;
  ms_ntwk_capblty <- get_bits m buf 8;;
  mei_length <- get_bits m buf 8;;
  mei <- get_bits m buf 8;;
  ecna <- get_bits m buf 1;;
  nbna <- get_bits m buf 1;;
  hnna <- get_bits m buf 1;;
  ena <- get_bits m buf 1;;
  ina <- get_bits m buf 1;;
  gana <- get_bits m buf 1;;
  gena <- get_bits m buf 1;;
  una <- get_bits m buf 1;;
  vdom_pref_ue_usage_len <- get_bits m buf 8;;
  voice_domain_pref_and_ues_usage_setting <- get_bits m buf 8;;
  ret (header.(hdr_len) + IE_HEADER_SIZE,
      Build_gtp_gsm_key_and_triplets_ie_t header security_mode spare2 drxi cksn
       nbr_of_triplet spare3 uambri sambri spare4 used_cipher kc auth_triplet drx_parameter
       uplnk_subscrbd_ue_ambr dnlnk_subscrbd_ue_ambr uplnk_used_ue_ambr dnlnk_used_ue_ambr
       ue_ntwk_capblty_len ue_ntwk_capblty ms_ntwk_capblty_len ms_ntwk_capblty mei_length mei
       ecna nbna hnna ena ina gana gena una vdom_pref_ue_usage_len
       voice_domain_pref_and_ues_usage_setting)).

Definition layout_gtp_gsm_key_and_triplets_ie (v : gtp_gsm_key_and_triplets_ie_t) : list field :=
  [FHdr v.(header); FBits v.(security_mode) 3; FBits v.(spare2) 1; FBits v.(drxi) 1;
   FBits v.(cksn) 3; FBits v.(nbr_of_triplet) 3; FBits v.(spare3) 3; FBits v.(uambri) 1;
   FBits v.(sambri) 1; FBits v.(spare4) 5; FBits v.(used_cipher) 3; FBits v.(kc) 64;
   FBits v.(auth_triplet) 8; FBits v.(drx_parameter) 16;
   FBits v.(uplnk_subscrbd_ue_ambr) 32; FBits v.(dnlnk_subscrbd_ue_ambr) 32;
   FBits v.(uplnk_used_ue_ambr) 32; FBits v.(dnlnk_used_ue_ambr) 32;
   FBits v.(ue_ntwk_capblty_len) 8; FBits v.(ue_ntwk_capblty) 8;
   FBits v.(ms_ntwk_capblty_len) 8; FBits v.(ms_ntwk_capblty) 8; FBits v.(mei_length) 8;
   FBits v.(mei) 8; FBits v.(ecna) 1; FBits v.(nbna) 1; FBits v.(hnna) 1; FBits v.(ena) 1;
   FBits v.(ina) 1; FBits v.(gana) 1; FBits v.(gena) 1; FBits v.(una) 1;
   FBits v.(vdom_pref_ue_usage_len) 8; FBits v.(voice_domain_pref_and_ues_usage_setting) 8].

Definition ok_gtp_gsm_key_and_triplets_ie (v : gtp_gsm_key_and_triplets_ie_t) : Prop :=
  True.

Definition count_gtp_gsm_key_and_triplets_ie (v : gtp_gsm_key_and_triplets_ie_t) : Z := v.(header).(hdr_len) + IE_HEADER_SIZE.

Lemma layout_gtp_gsm_key_and_triplets_ie_size v : ok_gtp_gsm_key_and_triplets_ie v -> lsize (layout_gtp_gsm_key_and_triplets_ie v) = 344.
Proof. unfold ok_gtp_gsm_key_and_triplets_ie, layout_gtp_gsm_key_and_triplets_ie. solve_size. Qed.

Lemma encode_gtp_gsm_key_and_triplets_ie_emits v buf :
  ok_gtp_gsm_key_and_triplets_ie v -> emits buf 0 (layout_gtp_gsm_key_and_triplets_ie v) (encode_gtp_gsm_key_and_triplets_ie v buf) (344 / 8).
Proof. unfold ok_gtp_gsm_key_and_triplets_ie, layout_gtp_gsm_key_and_triplets_ie, encode_gtp_gsm_key_and_triplets_ie. solve_emits. Qed.

Lemma decode_gtp_gsm_key_and_triplets_ie_decodes m buf v :
  ok_gtp_gsm_key_and_triplets_ie v ->
  decodes m buf (layout_gtp_gsm_key_and_triplets_ie v) (decode_gtp_gsm_key_and_triplets_ie m buf) (count_gtp_gsm_key_and_triplets_ie v, v).
Proof. unfold ok_gtp_gsm_key_and_triplets_ie, layout_gtp_gsm_key_and_triplets_ie, decode_gtp_gsm_key_and_triplets_ie, count_gtp_gsm_key_and_triplets_ie. solve_decodes v. Qed.

#[global] Instance gtp_gsm_key_and_triplets_ie_format : WireFormat gtp_gsm_key_and_triplets_ie_t :=
  fixed_format layout_gtp_gsm_key_and_triplets_ie ok_gtp_gsm_key_and_triplets_ie count_gtp_gsm_key_and_triplets_ie encode_gtp_gsm_key_and_triplets_ie decode_gtp_gsm_key_and_triplets_ie 344 ltac:(reflexivity)
    layout_gtp_gsm_key_and_triplets_ie_size encode_gtp_gsm_key_and_triplets_ie_emits decode_gtp_gsm_key_and_triplets_ie_decodes.

End gtp_gsm_key_and_triplets_ie.

(** ** [gtp_node_number_ie] *)

Module gtp_node_number_ie.

Record gtp_node_number_ie_t := {
  header : ie_header_t;
  len_of_node_nbr : Z;  (* uint8_t *)
  node_number : Z  (* uint8_t *)
}.

Definition encode_gtp_node_number_ie (value : gtp_node_number_ie_t) (buf : Z) : enc Z :=
  encoded <- ret 0;;
  encoded <- put_header value.(header) buf encoded;;
  encoded <- put_bits value.(len_of_node_nbr) 8 buf encoded;;
  encoded <- put_bits value.(node_number) 8 buf encoded;;
  ret (encoded / CHAR_SIZE).

Definition decode_gtp_node_number_ie (m : bytes) (buf : Z) : option (Z * gtp_node_number_ie_t) :=
  run_dec (
  header <- get_header m buf;;
  len_of_node_nbr <- get_bits m buf 8;;
  node_number <- get_bits m buf 8;;
  ret (header.(hdr_len) + IE_HEADER_SIZE,
      Build_gtp_node_number_ie_t header len_of_node_nbr node_number)).

Definition layout_gtp_node_number_ie (v : gtp_node_number_ie_t) : list field :=
  [FHdr v.(header); FBits v.(len_of_node_nbr) 8; FBits v.(node_number) 8].

Definition ok_gtp_node_number_ie (v : gtp_node_number_ie_t) : Prop :=
  True.

Definition count_gtp_node_number_ie (v : gtp_node_number_ie_t) : Z := v.(header).(hdr_len) + IE_HEADER_SIZE.

Lemma layout_gtp_node_number_ie_size v : ok_gtp_node_number_ie v -> lsize (layout_gtp_node_number_ie v) = 48.
Proof. unfold ok_gtp_node_number_ie, layout_gtp_node_number_ie. solve_size. Qed.

Lemma encode_gtp_node_number_ie_emits v buf :
  ok_gtp_node_number_ie v -> emits buf 0 (layout_gtp_node_number_ie v) (encode_gtp_node_number_ie v buf) (48 / 8).
Proof. unfold ok_gtp_node_number_ie, layout_gtp_node_number_ie, encode_gtp_node_number_ie. solve_emits. Qed.

Lemma decode_gtp_node_number_ie_decodes m buf v :
  ok_gtp_node_number_ie v ->
  decodes m buf (layout_gtp_node_number_ie v) (decode_gtp_node_number_ie m buf) (count_gtp_node_number_ie v, v).
Proof. unfold ok_gtp_node_number_ie, layout_gtp_node_number_ie, decode_gtp_node_number_ie, count_gtp_node_number_ie. solve_decodes v. Qed.

#[global] Instance gtp_node_number_ie_format : WireFormat gtp_node_number_ie_t :=
  fixed_format layout_gtp_node_number_ie ok_gtp_node_number_ie count_gtp_node_number_ie encode_gtp_node_number_ie decode_gtp_node_number_ie 48 ltac:(reflexivity)
    layout_gtp_node_number_ie_size encode_gtp_node_number_ie_emits decode_gtp_node_number_ie_decodes.

End gtp_node_number_ie.

(** ** [gtp_load_ctl_info_ie] *)

Module gtp_load_ctl_info_ie.

Record gtp_load_ctl_info_ie_t := {
  header : ie_header_t;
  load_control_information : list Z  (* uint8_t[LOAD_CONTROL_INFORMATION_LEN] *)
}.

Definition encode_gtp_load_ctl_info_ie (value : gtp_load_ctl_info_ie_t) (buf : Z) : enc Z :=
  encoded <- ret 0;;
  encoded <- put_header value.(header) buf encoded;;
  encoded <- put_bytes value.(load_control_information) LOAD_CONTROL_INFORMATION_LEN buf encoded;;
  ret (encoded / CHAR_SIZE).

Definition decode_gtp_load_ctl_info_ie (m : bytes) (buf : Z) : option (Z * gtp_load_ctl_info_ie_t) :=
  run_dec (
  header <- get_header m buf;;
  load_control_information <- get_bytes m buf LOAD_CONTROL_INFORMATION_LEN;;
  ret (header.(hdr_len) + IE_HEADER_SIZE,
      Build_gtp_load_ctl_info_ie_t header load_control_information)).

Definition layout_gtp_load_ctl_info_ie (v : gtp_load_ctl_info_ie_t) : list field :=
  [FHdr v.(header); FCopy v.(load_control_information)].

Definition ok_gtp_load_ctl_info_ie (v : gtp_load_ctl_info_ie_t) : Prop :=
  Z.of_nat (length v.(load_control_information)) = LOAD_CONTROL_INFORMATION_LEN.

Definition count_gtp_load_ctl_info_ie (v : gtp_load_ctl_info_ie_t) : Z := v.(header).(hdr_len) + IE_HEADER_SIZE.

Lemma layout_gtp_load_ctl_info_ie_size v : ok_gtp_load_ctl_info_ie v -> lsize (layout_gtp_load_ctl_info_ie v) = 96.
Proof. unfold ok_gtp_load_ctl_info_ie, layout_gtp_load_ctl_info_ie. solve_size. Qed.

Lemma encode_gtp_load_ctl_info_ie_emits v buf :
  ok_gtp_load_ctl_info_ie v -> emits buf 0 (layout_gtp_load_ctl_info_ie v) (encode_gtp_load_ctl_info_ie v buf) (96 / 8).
Proof. unfold ok_gtp_load_ctl_info_ie, layout_gtp_load_ctl_info_ie, encode_gtp_load_ctl_info_ie. solve_emits. Qed.

Lemma decode_gtp_load_ctl_info_ie_decodes m buf v :
  ok_gtp_load_ctl_info_ie v ->
  decodes m buf (layout_gtp_load_ctl_info_ie v) (decode_gtp_load_ctl_info_ie m buf) (count_gtp_load_ctl_info_ie v, v).
Proof. unfold ok_gtp_load_ctl_info_ie, layout_gtp_load_ctl_info_ie, decode_gtp_load_ctl_info_ie, count_gtp_load_ctl_info_ie. solve_decodes v. Qed.

#[global] Instance gtp_load_ctl_info_ie_format : WireFormat gtp_load_ctl_info_ie_t :=
  fixed_format layout_gtp_load_ctl_info_ie ok_gtp_load_ctl_info_ie count_gtp_load_ctl_info_ie encode_gtp_load_ctl_info_ie decode_gtp_load_ctl_info_ie 96 ltac:(reflexivity)
    layout_gtp_load_ctl_info_ie_size encode_gtp_load_ctl_info_ie_emits decode_gtp_load_ctl_info_ie_decodes.

End gtp_load_ctl_info_ie.

(** ** [gtp_rmt_ue_ctxt_ie] *)

Module gtp_rmt_ue_ctxt_ie.

Record gtp_rmt_ue_ctxt_ie_t := {
  header : ie_header_t;
  remote_ue_context : list Z  (* uint8_t[REMOTE_UE_CONTEXT_LEN] *)
}.

Definition encode_gtp_rmt_ue_ctxt_ie (value : gtp_rmt_ue_ctxt_ie_t) (buf : Z) : enc Z :=
  encoded <- ret 0;;
  encoded <- put_header value.(header) buf encoded;;
  encoded <- put_bytes value.(remote_ue_context) REMOTE_UE_CONTEXT_LEN buf encoded;;
  ret (encoded / CHAR_SIZE).

Definition decode_gtp_rmt_ue_ctxt_ie (m : bytes) (buf : Z) : option (Z * gtp_rmt_ue_ctxt_ie_t) :=
  run_dec (
  header <- get_header m buf;;
  remote_ue_context <- get_bytes m buf REMOTE_UE_CONTEXT_LEN;;
  ret (header.(hdr_len) + IE_HEADER_SIZE,
      Build_gtp_rmt_ue_ctxt_ie_t header remote_ue_context)).

Definition layout_gtp_rmt_ue_ctxt_ie (v : gtp_rmt_ue_ctxt_ie_t) : list field :=
  [FHdr v.(header); FCopy v.(remote_ue_context)].

Definition ok_gtp_rmt_ue_ctxt_ie (v : gtp_rmt_ue_ctxt_ie_t) : Prop :=
  Z.of_nat (length v.(remote_ue_context)) = REMOTE_UE_CONTEXT_LEN.

Definition count_gtp_rmt_ue_ctxt_ie (v : gtp_rmt_ue_ctxt_ie_t) : Z := v.(header).(hdr_len) + IE_HEADER_SIZE.

Lemma layout_gtp_rmt_ue_ctxt_ie_size v : ok_gtp_rmt_ue_ctxt_ie v -> lsize (layout_gtp_rmt_ue_ctxt_ie v) = 96.
Proof. unfold ok_gtp_rmt_ue_ctxt_ie, layout_gtp_rmt_ue_ctxt_ie. solve_size. Qed.

Lemma encode_gtp_rmt_ue_ctxt_ie_emits v buf :
  ok_gtp_rmt_ue_ctxt_ie v -> emits buf 0 (layout_gtp_rmt_ue_ctxt_ie v) (encode_gtp_rmt_ue_ctxt_ie v buf) (96 / 8).
Proof. unfold ok_gtp_rmt_ue_ctxt_ie, layout_gtp_rmt_ue_ctxt_ie, encode_gtp_rmt_ue_ctxt_ie. solve_emits. Qed.

Lemma decode_gtp_rmt_ue_ctxt_ie_decodes m buf v :
  ok_gtp_rmt_ue_ctxt_ie v ->
  decodes m buf (layout_gtp_rmt_ue_ctxt_ie v) (decode_gtp_rmt_ue_ctxt_ie m buf) (count_gtp_rmt_ue_ctxt_ie v, v).
Proof. unfold ok_gtp_rmt_ue_ctxt_ie, layout_gtp_rmt_ue_ctxt_ie, decode_gtp_rmt_ue_ctxt_ie, count_gtp_rmt_ue_ctxt_ie. solve_decodes v. Qed.

#[global] Instance gtp_rmt_ue_ctxt_ie_format : WireFormat gtp_rmt_ue_ctxt_ie_t :=
  fixed_format layout_gtp_rmt_ue_ctxt_ie ok_gtp_rmt_ue_ctxt_ie count_gtp_rmt_ue_ctxt_ie encode_gtp_rmt_ue_ctxt_ie decode_gtp_rmt_ue_ctxt_ie 96 ltac:(reflexivity)
    layout_gtp_rmt_ue_ctxt_ie_size encode_gtp_rmt_ue_ctxt_ie_emits decode_gtp_rmt_ue_ctxt_ie_decodes.

End gtp_rmt_ue_ctxt_ie.

(** ** [gtp_full_qual_cause_ie] *)

Module gtp_full_qual_cause_ie.

Record gtp_full_qual_cause_ie_t := {
  header : ie_header_t;
  spare2 : Z;  (* uint8_t :4 *)
  cause_type : Z;  (* uint8_t :4 *)
  fcause_field : Z  (* uint8_t *)
}.

Definition encode_gtp_full_qual_cause_ie (value : gtp_full_qual_cause_ie_t) (buf : Z) : enc Z :=
  encoded <- ret 0;;
  encoded <- put_header value.(header) buf encoded;;
  encoded <- put_bits value.(spare2) 4 buf encoded;;
  encoded <- put_bits value.(cause_type) 4 buf encoded;;
  encoded <- put_bits value.(fcause_field) 8 buf encoded;;
  ret (encoded / CHAR_SIZE).

Definition decode_gtp_full_qual_cause_ie (m : bytes) (buf : Z) : option (Z * gtp_full_qual_cause_ie_t) :=
  run_dec (
  header <- get_header m buf;;
  spare2 <- get_bits m buf 4;;
  cause_type <- get_bits m buf 4;;
  fcause_field <- get_bits m buf 8;;
  ret (header.(hdr_len) + IE_HEADER_SIZE,
      Build_gtp_full_qual_cause_ie_t header spare2 cause_type fcause_field)).

Definition layout_gtp_full_qual_cause_ie (v : gtp_full_qual_cause_ie_t) : list field :=
  [FHdr v.(header); FBits v.(spare2) 4; FBits v.(cause_type) 4; FBits v.(fcause_field) 8].

Definition ok_gtp_full_qual_cause_ie (v : gtp_full_qual_cause_ie_t) : Prop :=
  True.

Definition count_gtp_full_qual_cause_ie (v : gtp_full_qual_cause_ie_t) : Z := v.(header).(hdr_len) + IE_HEADER_SIZE.

Lemma layout_gtp_full_qual_cause_ie_size v : ok_gtp_full_qual_cause_ie v -> lsize (layout_gtp_full_qual_cause_ie v) = 48.
Proof. unfold ok_gtp_full_qual_cause_ie, layout_gtp_full_qual_cause_ie. solve_size. Qed.

Lemma encode_gtp_full_qual_cause_ie_emits v buf :
  ok_gtp_full_qual_cause_ie v -> emits buf 0 (layout_gtp_full_qual_cause_ie v) (encode_gtp_full_qual_cause_ie v buf) (48 / 8).
Proof. unfold ok_gtp_full_qual_cause_ie, layout_gtp_full_qual_cause_ie, encode_gtp_full_qual_cause_ie. solve_emits. Qed.

Lemma decode_gtp_full_qual_cause_ie_decodes m buf v :
  ok_gtp_full_qual_cause_ie v ->
  decodes m buf (layout_gtp_full_qual_cause_ie v) (decode_gtp_full_qual_cause_ie m buf) (count_gtp_full_qual_cause_ie v, v).
Proof. unfold ok_gtp_full_qual_cause_ie, layout_gtp_full_qual_cause_ie, decode_gtp_full_qual_cause_ie, count_gtp_full_qual_cause_ie. solve_decodes v. Qed.

#[global] Instance gtp_full_qual_cause_ie_format : WireFormat gtp_full_qual_cause_ie_t :=
  fixed_format layout_gtp_full_qual_cause_ie ok_gtp_full_qual_cause_ie count_gtp_full_qual_cause_ie encode_gtp_full_qual_cause_ie decode_gtp_full_qual_cause_ie 48 ltac:(reflexivity)
    layout_gtp_full_qual_cause_ie_size encode_gtp_full_qual_cause_ie_emits decode_gtp_full_qual_cause_ie_decodes.

End gtp_full_qual_cause_ie.

(** ** [gtp_ipv4_cfg_parms_ie] *)

Module gtp_ipv4_cfg_parms_ie.

Record gtp_ipv4_cfg_parms_ie_t := {
  header : ie_header_t;
  subnet_pfx_len : Z;  (* uint8_t *)
  ipv4_dflt_rtr_addr : Z  (* uint32_t *)
}.

Definition encode_gtp_ipv4_cfg_parms_ie (value : gtp_ipv4_cfg_parms_ie_t) (buf : Z) : enc Z :=
  encoded <- ret 0;;
  encoded <- put_header value.(header) buf encoded;;
  encoded <- put_bits value.(subnet_pfx_len) 8 buf encoded;;
  encoded <- put_bits value.(ipv4_dflt_rtr_addr) 32 buf encoded;;
  ret (encoded / CHAR_SIZE).

Definition decode_gtp_ipv4_cfg_parms_ie (m : bytes) (buf : Z) : option (Z * gtp_ipv4_cfg_parms_ie_t) :=
  run_dec (
  header <- get_header m buf;;
  subnet_pfx_len <- get_bits m buf 8;;
  ipv4_dflt_rtr_addr <- get_bits m buf 32;;
  ret (header.(hdr_len) + IE_HEADER_SIZE,
      Build_gtp_ipv4_cfg_parms_ie_t header subnet_pfx_len ipv4_dflt_rtr_addr)).

Definition layout_gtp_ipv4_cfg_parms_ie (v : gtp_ipv4_cfg_parms_ie_t) : list field :=
  [FHdr v.(header); FBits v.(subnet_pfx_len) 8; FBits v.(ipv4_dflt_rtr_addr) 32].

Definition ok_gtp_ipv4_cfg_parms_ie (v : gtp_ipv4_cfg_parms_ie_t) : Prop :=
  True.

Definition count_gtp_ipv4_cfg_parms_ie (v : gtp_ipv4_cfg_parms_ie_t) : Z := v.(header).(hdr_len) + IE_HEADER_SIZE.

Lemma layout_gtp_ipv4_cfg_parms_ie_size v : ok_gtp_ipv4_cfg_parms_ie v -> lsize (layout_gtp_ipv4_cfg_parms_ie v) = 72.
Proof. unfold ok_gtp_ipv4_cfg_parms_ie, layout_gtp_ipv4_cfg_parms_ie. solve_size. Qed.

Lemma encode_gtp_ipv4_cfg_parms_ie_emits v buf :
  ok_gtp_ipv4_cfg_parms_ie v -> emits buf 0 (layout_gtp_ipv4_cfg_parms_ie v) (encode_gtp_ipv4_cfg_parms_ie v buf) (72 / 8).
Proof. unfold ok_gtp_ipv4_cfg_parms_ie, layout_gtp_ipv4_cfg_parms_ie, encode_gtp_ipv4_cfg_parms_ie. solve_emits. Qed.

Lemma decode_gtp_ipv4_cfg_parms_ie_decodes m buf v :
  ok_gtp_ipv4_cfg_parms_ie v ->
  decodes m buf (layout_gtp_ipv4_cfg_parms_ie v) (decode_gtp_ipv4_cfg_parms_ie m buf) (count_gtp_ipv4_cfg_parms_ie v, v).
Proof. unfold ok_gtp_ipv4_cfg_parms_ie, layout_gtp_ipv4_cfg_parms_ie, decode_gtp_ipv4_cfg_parms_ie, count_gtp_ipv4_cfg_parms_ie. solve_decodes v. Qed.

#[global] Instance gtp_ipv4_cfg_parms_ie_format : WireFormat gtp_ipv4_cfg_parms_ie_t :=
  fixed_format layout_gtp_ipv4_cfg_parms_ie ok_gtp_ipv4_cfg_parms_ie count_gtp_ipv4_cfg_parms_ie encode_gtp_ipv4_cfg_parms_ie decode_gtp_ipv4_cfg_parms_ie 72 ltac:(reflexivity)
    layout_gtp_ipv4_cfg_parms_ie_size encode_gtp_ipv4_cfg_parms_ie_emits decode_gtp_ipv4_cfg_parms_ie_decodes.

End gtp_ipv4_cfg_parms_ie.
