(* ===== verification/GtpIes3.v ===== *)
(** Information elements of libgtpv2c of constant size: information elements with a header, part 3 of 3.

    Each structure of gtp_ies.h is a record in a module of its own, with its
    encoder (gtp_ies_encoder.c), its decoder (gtp_ies_decoder.c), the wire
    layout both implement, and the [WireFormat] instance that proves it. *)

From Stdlib Require Import ZArith List Lia.
From S2P Require Import Prelude EncDecBits WireFormat GtpDefs.
Import ListNotations.
Open Scope Z_scope.
Open Scope wire_scope.

(** ** [gtp_trace_reference_ie] *)

Module gtp_trace_reference_ie.

Record gtp_trace_reference_ie_t := {
  header : ie_header_t;
  mcc_digit_2 : Z;  (* uint8_t :4 *)
  mcc_digit_1 : Z;  (* uint8_t :4 *)
  mnc_digit_3 : Z;  (* uint8_t :4 *)
  mcc_digit_3 : Z;  (* uint8_t :4 *)
  mnc_digit_2 : Z;  (* uint8_t :4 *)
  mnc_digit_1 : Z;  (* uint8_t :4 *)
  trace_id : Z  (* uint32_t :24 *)
}.

Definition encode_gtp_trace_reference_ie (value : gtp_trace_reference_ie_t) (buf : Z) : enc Z :=
  encoded <- ret 0;;
  encoded <- put_header value.(header) buf encoded;;
  encoded <- put_bits value.(mcc_digit_2) 4 buf encoded;;
  encoded <- put_bits value.(mcc_digit_1) 4 buf encoded;;
  encoded <- put_bits value.(mnc_digit_3) 4 buf encoded;;
  encoded <- put_bits value.(mcc_digit_3) 4 buf encoded;;
  encoded <- put_bits value.(mnc_digit_2) 4 buf encoded;;
  encoded <- put_bits value.(mnc_digit_1) 4 buf encoded;;
  encoded <- put_bits value.(trace_id) 24 buf encoded;;
  ret (encoded / CHAR_SIZE).

Definition decode_gtp_trace_reference_ie (m : bytes) (buf : Z) : option (Z * gtp_trace_reference_ie_t) :=
  run_dec (
  header <- get_header m buf;;
  mcc_digit_2 <- get_bits m buf 4;;
  mcc_digit_1 <- get_bits m buf 4;;
  mnc_digit_3 <- get_bits m buf 4;;
  mcc_digit_3 <- get_bits m buf 4;;
  mnc_digit_2 <- get_bits m buf 4;;
  mnc_digit_1 <- get_bits m buf 4;;
  trace_id <- get_bits m buf 24;;
  ret (header.(hdr_len) + IE_HEADER_SIZE,
      Build_gtp_trace_reference_ie_t header mcc_digit_2 mcc_digit_1 mnc_digit_3 mcc_digit_3
       mnc_digit_2 mnc_digit_1 trace_id)).

Definition layout_gtp_trace_reference_ie (v : gtp_trace_reference_ie_t) : list field :=
  [FHdr v.(header); FBits v.(mcc_digit_2) 4; FBits v.(mcc_digit_1) 4; FBits v.(mnc_digit_3) 4;
   FBits v.(mcc_digit_3) 4; FBits v.(mnc_digit_2) 4; FBits v.(mnc_digit_1) 4;
   FBits v.(trace_id) 24].

Definition ok_gtp_trace_reference_ie (v : gtp_trace_reference_ie_t) : Prop :=
  True.

Definition count_gtp_trace_reference_ie (v : gtp_trace_reference_ie_t) : Z := v.(header).(hdr_len) + IE_HEADER_SIZE.

Lemma layout_gtp_trace_reference_ie_size v : ok_gtp_trace_reference_ie v -> lsize (layout_gtp_trace_reference_ie v) = 80.
Proof. unfold ok_gtp_trace_reference_ie, layout_gtp_trace_reference_ie. solve_size. Qed.

Lemma encode_gtp_trace_reference_ie_emits v buf :
  ok_gtp_trace_reference_ie v -> emits buf 0 (layout_gtp_trace_reference_ie v) (encode_gtp_trace_reference_ie v buf) (80 / 8).
Proof. unfold ok_gtp_trace_reference_ie, layout_gtp_trace_reference_ie, encode_gtp_trace_reference_ie. solve_emits. Qed.

Lemma decode_gtp_trace_reference_ie_decodes m buf v :
  ok_gtp_trace_reference_ie v ->
  decodes m buf (layout_gtp_trace_reference_ie v) (decode_gtp_trace_reference_ie m buf) (count_gtp_trace_reference_ie v, v).
Proof. unfold ok_gtp_trace_reference_ie, layout_gtp_trace_reference_ie, decode_gtp_trace_reference_ie, count_gtp_trace_reference_ie. solve_decodes v. Qed.

#[global] Instance gtp_trace_reference_ie_format : WireFormat gtp_trace_reference_ie_t :=
  fixed_format layout_gtp_trace_reference_ie ok_gtp_trace_reference_ie count_gtp_trace_reference_ie encode_gtp_trace_reference_ie decode_gtp_trace_reference_ie 80 ltac:(reflexivity)
    layout_gtp_trace_reference_ie_size encode_gtp_trace_reference_ie_emits decode_gtp_trace_reference_ie_decodes.

End gtp_trace_reference_ie.

(** ** [gtp_node_features_ie] *)

Module gtp_node_features_ie.

Record gtp_node_features_ie_t := {
  header : ie_header_t;
  sup_feat : Z  (* uint8_t *)
}.

Definition encode_gtp_node_features_ie (value : gtp_node_features_ie_t) (buf : Z) : enc Z :=
  encoded <- ret 0;;
  encoded <- put_header value.(header) buf encoded;;
  encoded <- put_bits value.(sup_feat) 8 buf encoded;;
  ret (encoded / CHAR_SIZE).

Definition decode_gtp_node_features_ie (m : bytes) (buf : Z) : option (Z * gtp_node_features_ie_t) :=
  run_dec (
  header <- get_header m buf;;
  sup_feat <- get_bits m buf 8;;
  ret (header.(hdr_len) + IE_HEADER_SIZE,
      Build_gtp_node_features_ie_t header sup_feat)).

Definition layout_gtp_node_features_ie (v : gtp_node_features_ie_t) : list field :=
  [FHdr v.(header); FBits v.(sup_feat) 8].

Definition ok_gtp_node_features_ie (v : gtp_node_features_ie_t) : Prop :=
  True.

Definition count_gtp_node_features_ie (v : gtp_node_features_ie_t) : Z := v.(header).(hdr_len) + IE_HEADER_SIZE.

Lemma layout_gtp_node_features_ie_size v : ok_gtp_node_features_ie v -> lsize (layout_gtp_node_features_ie v) = 40.
Proof. unfold ok_gtp_node_features_ie, layout_gtp_node_features_ie. solve_size. Qed.

Lemma encode_gtp_node_features_ie_emits v buf :
  ok_gtp_node_features_ie v -> emits buf 0 (layout_gtp_node_features_ie v) (encode_gtp_node_features_ie v buf) (40 / 8).
Proof. unfold ok_gtp_node_features_ie, layout_gtp_node_features_ie, encode_gtp_node_features_ie. solve_emits. Qed.

Lemma decode_gtp_node_features_ie_decodes m buf v :
  ok_gtp_node_features_ie v ->
  decodes m buf (layout_gtp_node_features_ie v) (decode_gtp_node_features_ie m buf) (count_gtp_node_features_ie v, v).
Proof. unfold ok_gtp_node_features_ie, layout_gtp_node_features_ie, decode_gtp_node_features_ie, count_gtp_node_features_ie. solve_decodes v. Qed.

#[global] Instance gtp_node_features_ie_format : WireFormat gtp_node_features_ie_t :=
  fixed_format layout_gtp_node_features_ie ok_gtp_node_features_ie count_gtp_node_features_ie encode_gtp_node_features_ie decode_gtp_node_features_ie 40 ltac:(reflexivity)
    layout_gtp_node_features_ie_size encode_gtp_node_features_ie_emits decode_gtp_node_features_ie_decodes.

End gtp_node_features_ie.

(** ** [gtp_remote_user_id_ie] *)

Module gtp_remote_user_id_ie.

Record gtp_remote_user_id_ie_t := {
  header : ie_header_t;
  spare2 : Z;  (* uint8_t :6 *)
  imeif : Z;  (* uint8_t :1 *)
  msisdnf : Z;  (* uint8_t :1 *)
  length_of_imsi : Z;  (* uint8_t *)
  len_of_msisdn : Z;  (* uint8_t *)
  length_of_imei : Z;  (* uint8_t *)
  imei : Z  (* uint8_t *)
}.

Definition encode_gtp_remote_user_id_ie (value : gtp_remote_user_id_ie_t) (buf : Z) : enc Z :=
  encoded <- ret 0;;
  encoded <- put_header value.(header) buf encoded;;
  encoded <- put_bits value.(spare2) 6 buf encoded;;
  encoded <- put_bits value.(imeif) 1 buf encoded;;
  encoded <- put_bits value.(msisdnf) 1 buf encoded;;
  encoded <- put_bits value.(length_of_imsi) 8 buf encoded;;
  encoded <- put_bits value.(len_of_msisdn) 8 buf encoded;;
  encoded <- put_bits value.(length_of_imei) 8 buf encoded;;
  encoded <- put_bits value.(imei) 8 buf encoded;;
  ret (encoded / CHAR_SIZE).

Definition decode_gtp_remote_user_id_ie (m : bytes) (buf : Z) : option (Z * gtp_remote_user_id_ie_t) :=
  run_dec (
  header <- get_header m buf;;
  spare2 <- get_bits m buf 6;;
  imeif <- get_bits m buf 1;;
  msisdnf <- get_bits m buf 1;;
  length_of_imsi <- get_bits m buf 8;;
  len_of_msisdn <- get_bits m buf 8;;
  length_of_imei <- get_bits m buf 8;;
  imei <- get_bits m buf 8;;
  ret (header.(hdr_len) + IE_HEADER_SIZE,
      Build_gtp_remote_user_id_ie_t header spare2 imeif msisdnf length_of_imsi len_of_msisdn
       length_of_imei imei)).

Definition layout_gtp_remote_user_id_ie (v : gtp_remote_user_id_ie_t) : list field :=
  [FHdr v.(header); FBits v.(spare2) 6; FBits v.(imeif) 1; FBits v.(msisdnf) 1;
   FBits v.(length_of_imsi) 8; FBits v.(len_of_msisdn) 8; FBits v.(length_of_imei) 8;
   FBits v.(imei) 8].

Definition ok_gtp_remote_user_id_ie (v : gtp_remote_user_id_ie_t) : Prop :=
  True.

Definition count_gtp_remote_user_id_ie (v : gtp_remote_user_id_ie_t) : Z := v.(header).(hdr_len) + IE_HEADER_SIZE.

Lemma layout_gtp_remote_user_id_ie_size v : ok_gtp_remote_user_id_ie v -> lsize (layout_gtp_remote_user_id_ie v) = 72.
Proof. unfold ok_gtp_remote_user_id_ie, layout_gtp_remote_user_id_ie. solve_size. Qed.

Lemma encode_gtp_remote_user_id_ie_emits v buf :
  ok_gtp_remote_user_id_ie v -> emits buf 0 (layout_gtp_remote_user_id_ie v) (encode_gtp_remote_user_id_ie v buf) (72 / 8).
Proof. unfold ok_gtp_remote_user_id_ie, layout_gtp_remote_user_id_ie, encode_gtp_remote_user_id_ie. solve_emits. Qed.

Lemma decode_gtp_remote_user_id_ie_decodes m buf v :
  ok_gtp_remote_user_id_ie v ->
  decodes m buf (layout_gtp_remote_user_id_ie v) (decode_gtp_remote_user_id_ie m buf) (count_gtp_remote_user_id_ie v, v).
Proof. unfold ok_gtp_remote_user_id_ie, layout_gtp_remote_user_id_ie, decode_gtp_remote_user_id_ie, count_gtp_remote_user_id_ie. solve_decodes v. Qed.

#[global] Instance gtp_remote_user_id_ie_format : WireFormat gtp_remote_user_id_ie_t :=
  fixed_format layout_gtp_remote_user_id_ie ok_gtp_remote_user_id_ie count_gtp_remote_user_id_ie encode_gtp_remote_user_id_ie decode_gtp_remote_user_id_ie 72 ltac:(reflexivity)
    layout_gtp_remote_user_id_ie_size encode_gtp_remote_user_id_ie_emits decode_gtp_remote_user_id_ie_decodes.

End gtp_remote_user_id_ie.

(** ** [gtp_port_number_ie] *)

Module gtp_port_number_ie.

Record gtp_port_number_ie_t := {
  header : ie_header_t;
  port_number : Z  (* uint16_t *)
}.

Definition encode_gtp_port_number_ie (value : gtp_port_number_ie_t) (buf : Z) : enc Z :=
  encoded <- ret 0;;
  encoded <- put_header value.(header) buf encoded;;
  encoded <- put_bits value.(port_number) 16 buf encoded;;
  ret (encoded / CHAR_SIZE).

Definition decode_gtp_port_number_ie (m : bytes) (buf : Z) : option (Z * gtp_port_number_ie_t) :=
  run_dec (
  header <- get_header m buf;;
  port_number <- get_bits m buf 16;;
  ret (header.(hdr_len) + IE_HEADER_SIZE,
      Build_gtp_port_number_ie_t header port_number)).

Definition layout_gtp_port_number_ie (v : gtp_port_number_ie_t) : list field :=
  [FHdr v.(header); FBits v.(port_number) 16].

Definition ok_gtp_port_number_ie (v : gtp_port_number_ie_t) : Prop :=
  True.

Definition count_gtp_port_number_ie (v : gtp_port_number_ie_t) : Z := v.(header).(hdr_len) + IE_HEADER_SIZE.

Lemma layout_gtp_port_number_ie_size v : ok_gtp_port_number_ie v -> lsize (layout_gtp_port_number_ie v) = 48.
Proof. unfold ok_gtp_port_number_ie, layout_gtp_port_number_ie. solve_size. Qed.

Lemma encode_gtp_port_number_ie_emits v buf :
  ok_gtp_port_number_ie v -> emits buf 0 (layout_gtp_port_number_ie v) (encode_gtp_port_number_ie v buf) (48 / 8).
Proof. unfold ok_gtp_port_number_ie, layout_gtp_port_number_ie, encode_gtp_port_number_ie. solve_emits. Qed.

Lemma decode_gtp_port_number_ie_decodes m buf v :
  ok_gtp_port_number_ie v ->
  decodes m buf (layout_gtp_port_number_ie v) (decode_gtp_port_number_ie m buf) (count_gtp_port_number_ie v, v).
Proof. unfold ok_gtp_port_number_ie, layout_gtp_port_number_ie, decode_gtp_port_number_ie, count_gtp_port_number_ie. solve_decodes v. Qed.

#[global] Instance gtp_port_number_ie_format : WireFormat gtp_port_number_ie_t :=
  fixed_format layout_gtp_port_number_ie ok_gtp_port_number_ie count_gtp_port_number_ie encode_gtp_port_number_ie decode_gtp_port_number_ie 48 ltac:(reflexivity)
    layout_gtp_port_number_ie_size encode_gtp_port_number_ie_emits decode_gtp_port_number_ie_decodes.

End gtp_port_number_ie.

(** ** [gtp_addtl_mm_ctxt_srvcc_ie] *)

Module gtp_addtl_mm_ctxt_srvcc_ie.

Record gtp_addtl_mm_ctxt_srvcc_ie_t := {
  header : ie_header_t;
  ms_classmark_2_len : Z;  (* uint8_t *)
  ms_classmark_2 : Z;  (* uint8_t *)
  ms_classmark_3_len : Z;  (* uint8_t *)
  ms_classmark_3 : Z;  (* uint8_t *)
  sup_codec_list_len : Z;  (* uint8_t *)
  sup_codec_list : Z  (* uint8_t *)
}.

Definition encode_gtp_addtl_mm_ctxt_srvcc_ie (value : gtp_addtl_mm_ctxt_srvcc_ie_t) (buf : Z) : enc Z :=
  encoded <- ret 0;;
  encoded <- put_header value.(header) buf encoded;;
  encoded <- put_bits value.(ms_classmark_2_len) 8 buf encoded;;
  encoded <- put_bits value.(ms_classmark_2) 8 buf encoded;;
  encoded <- put_bits value.(ms_classmark_3_len) 8 buf encoded;;
  encoded <- put_bits value.(ms_classmark_3) 8 buf encoded;;
  encoded <- put_bits value.(sup_codec_list_len) 8 buf encoded;;
  encoded <- put_bits value.(sup_codec_list) 8 buf encoded;;
  ret (encoded / CHAR_SIZE).

Definition decode_gtp_addtl_mm_ctxt_srvcc_ie (m : bytes) (buf : Z) : option (Z * gtp_addtl_mm_ctxt_srvcc_ie_t) :=
  run_dec (
  header <- get_header m buf;;
  ms_classmark_2_len <- get_bits m buf 8;;
  ms_classmark_2 <- get_bits m buf 8;;
  ms_classmark_3_len <- get_bits m buf 8;;
  ms_classmark_3 <- get_bits m buf 8;;
  sup_codec_list_len <- get_bits m buf 8;;
  sup_codec_list <- get_bits m buf 8;;
  ret (header.(hdr_len) + IE_HEADER_SIZE,
      Build_gtp_addtl_mm_ctxt_srvcc_ie_t header ms_classmark_2_len ms_classmark_2
       ms_classmark_3_len ms_classmark_3 sup_codec_list_len sup_codec_list)).

Definition layout_gtp_addtl_mm_ctxt_srvcc_ie (v : gtp_addtl_mm_ctxt_srvcc_ie_t) : list field :=
  [FHdr v.(header); FBits v.(ms_classmark_2_len) 8; FBits v.(ms_classmark_2) 8;
   FBits v.(ms_classmark_3_len) 8; FBits v.(ms_classmark_3) 8;
   FBits v.(sup_codec_list_len) 8; FBits v.(sup_codec_list) 8].

Definition ok_gtp_addtl_mm_ctxt_srvcc_ie (v : gtp_addtl_mm_ctxt_srvcc_ie_t) : Prop :=
  True.

Definition count_gtp_addtl_mm_ctxt_srvcc_ie (v : gtp_addtl_mm_ctxt_srvcc_ie_t) : Z := v.(header).(hdr_len) + IE_HEADER_SIZE.

Lemma layout_gtp_addtl_mm_ctxt_srvcc_ie_size v : ok_gtp_addtl_mm_ctxt_srvcc_ie v -> lsize (layout_gtp_addtl_mm_ctxt_srvcc_ie v) = 80.
Proof. unfold ok_gtp_addtl_mm_ctxt_srvcc_ie, layout_gtp_addtl_mm_ctxt_srvcc_ie. solve_size. Qed.

Lemma encode_gtp_addtl_mm_ctxt_srvcc_ie_emits v buf :
  ok_gtp_addtl_mm_ctxt_srvcc_ie v -> emits buf 0 (layout_gtp_addtl_mm_ctxt_srvcc_ie v) (encode_gtp_addtl_mm_ctxt_srvcc_ie v buf) (80 / 8).
Proof. unfold ok_gtp_addtl_mm_ctxt_srvcc_ie, layout_gtp_addtl_mm_ctxt_srvcc_ie, encode_gtp_addtl_mm_ctxt_srvcc_ie. solve_emits. Qed.

Lemma decode_gtp_addtl_mm_ctxt_srvcc_ie_decodes m buf v :
  ok_gtp_addtl_mm_ctxt_srvcc_ie v ->
  decodes m buf (layout_gtp_addtl_mm_ctxt_srvcc_ie v) (decode_gtp_addtl_mm_ctxt_srvcc_ie m buf) (count_gtp_addtl_mm_ctxt_srvcc_ie v, v).
Proof. unfold ok_gtp_addtl_mm_ctxt_srvcc_ie, layout_gtp_addtl_mm_ctxt_srvcc_ie, decode_gtp_addtl_mm_ctxt_srvcc_ie, count_gtp_addtl_mm_ctxt_srvcc_ie. solve_decodes v. Qed.

#[global] Instance gtp_addtl_mm_ctxt_srvcc_ie_format : WireFormat gtp_addtl_mm_ctxt_srvcc_ie_t :=
  fixed_format layout_gtp_addtl_mm_ctxt_srvcc_ie ok_gtp_addtl_mm_ctxt_srvcc_ie count_gtp_addtl_mm_ctxt_srvcc_ie encode_gtp_addtl_mm_ctxt_srvcc_ie decode_gtp_addtl_mm_ctxt_srvcc_ie 80 ltac:(reflexivity)
    layout_gtp_addtl_mm_ctxt_srvcc_ie_size encode_gtp_addtl_mm_ctxt_srvcc_ie_emits decode_gtp_addtl_mm_ctxt_srvcc_ie_decodes.

End gtp_addtl_mm_ctxt_srvcc_ie.

(** ** [gtp_act_indctn_ie] *)

Module gtp_act_indctn_ie.

Record gtp_act_indctn_ie_t := {
  header : ie_header_t;
  spare2 : Z  (* uint8_t :5 *)
}.

Definition encode_gtp_act_indctn_ie (value : gtp_act_indctn_ie_t) (buf : Z) : enc Z :=
  encoded <- ret 0;;
  encoded <- put_header value.(header) buf encoded;;
  encoded <- put_bits value.(spare2) 5 buf encoded;;
  ret (encoded / CHAR_SIZE).

Definition decode_gtp_act_indctn_ie (m : bytes) (buf : Z) : option (Z * gtp_act_indctn_ie_t) :=
  run_dec (
  header <- get_header m buf;;
  spare2 <- get_bits m buf 5;;
  ret (header.(hdr_len) + IE_HEADER_SIZE,
      Build_gtp_act_indctn_ie_t header spare2)).

Definition layout_gtp_act_indctn_ie (v : gtp_act_indctn_ie_t) : list field :=
  [FHdr v.(header); FBits v.(spare2) 5].

Definition ok_gtp_act_indctn_ie (v : gtp_act_indctn_ie_t) : Prop :=
  True.

Definition count_gtp_act_indctn_ie (v : gtp_act_indctn_ie_t) : Z := v.(header).(hdr_len) + IE_HEADER_SIZE.

Lemma layout_gtp_act_indctn_ie_size v : ok_gtp_act_indctn_ie v -> lsize (layout_gtp_act_indctn_ie v) = 37.
Proof. unfold ok_gtp_act_indctn_ie, layout_gtp_act_indctn_ie. solve_size. Qed.

Lemma encode_gtp_act_indctn_ie_emits v buf :
  ok_gtp_act_indctn_ie v -> emits buf 0 (layout_gtp_act_indctn_ie v) (encode_gtp_act_indctn_ie v buf) (37 / 8).
Proof. unfold ok_gtp_act_indctn_ie, layout_gtp_act_indctn_ie, encode_gtp_act_indctn_ie. solve_emits. Qed.

Lemma decode_gtp_act_indctn_ie_decodes m buf v :
  ok_gtp_act_indctn_ie v ->
  decodes m buf (layout_gtp_act_indctn_ie v) (decode_gtp_act_indctn_ie m buf) (count_gtp_act_indctn_ie v, v).
Proof. unfold ok_gtp_act_indctn_ie, layout_gtp_act_indctn_ie, decode_gtp_act_indctn_ie, count_gtp_act_indctn_ie. solve_decodes v. Qed.

#[global] Instance gtp_act_indctn_ie_format : WireFormat gtp_act_indctn_ie_t :=
  fixed_format layout_gtp_act_indctn_ie ok_gtp_act_indctn_ie count_gtp_act_indctn_ie encode_gtp_act_indctn_ie decode_gtp_act_indctn_ie 37 ltac:(reflexivity)
    layout_gtp_act_indctn_ie_size encode_gtp_act_indctn_ie_emits decode_gtp_act_indctn_ie_decodes.

End gtp_act_indctn_ie.

(** ** [gtp_plmn_id_ie] *)

Module gtp_plmn_id_ie.

Record gtp_plmn_id_ie_t := {
  header : ie_header_t;
  mcc_digit_2 : Z;  (* uint8_t :4 *)
  mcc_digit_1 : Z;  (* uint8_t :4 *)
  mnc_digit_1 : Z;  (* uint8_t :4 *)
  mcc_digit_3 : Z;  (* uint8_t :4 *)
  mnc_digit_3 : Z;  (* uint8_t :4 *)
  mnc_digit_2 : Z  (* uint8_t :4 *)
}.

Definition encode_gtp_plmn_id_ie (value : gtp_plmn_id_ie_t) (buf : Z) : enc Z :=
  encoded <- ret 0;;
  encoded <- put_header value.(header) buf encoded;;
  encoded <- put_bits value.(mcc_digit_2) 4 buf encoded;;
  encoded <- put_bits value.(mcc_digit_1) 4 buf encoded;;
  encoded <- put_bits value.(mnc_digit_1) 4 buf encoded;;
  encoded <- put_bits value.(mcc_digit_3) 4 buf encoded;;
  encoded <- put_bits value.(mnc_digit_3) 4 buf encoded;;
  encoded <- put_bits value.(mnc_digit_2) 4 buf encoded;;
  ret (encoded / CHAR_SIZE).

Definition decode_gtp_plmn_id_ie (m : bytes) (buf : Z) : option (Z * gtp_plmn_id_ie_t) :=
  run_dec (
  header <- get_header m buf;;
  mcc_digit_2 <- get_bits m buf 4;;
  mcc_digit_1 <- get_bits m buf 4;;
  mnc_digit_1 <- get_bits m buf 4;;
  mcc_digit_3 <- get_bits m buf 4;;
  mnc_digit_3 <- get_bits m buf 4;;
  mnc_digit_2 <- get_bits m buf 4;;
  ret (header.(hdr_len) + IE_HEADER_SIZE,
      Build_gtp_plmn_id_ie_t header mcc_digit_2 mcc_digit_1 mnc_digit_1 mcc_digit_3
       mnc_digit_3 mnc_digit_2)).

Definition layout_gtp_plmn_id_ie (v : gtp_plmn_id_ie_t) : list field :=
  [FHdr v.(header); FBits v.(mcc_digit_2) 4; FBits v.(mcc_digit_1) 4; FBits v.(mnc_digit_1) 4;
   FBits v.(mcc_digit_3) 4; FBits v.(mnc_digit_3) 4; FBits v.(mnc_digit_2) 4].

Definition ok_gtp_plmn_id_ie (v : gtp_plmn_id_ie_t) : Prop :=
  True.

Definition count_gtp_plmn_id_ie (v : gtp_plmn_id_ie_t) : Z := v.(header).(hdr_len) + IE_HEADER_SIZE.

Lemma layout_gtp_plmn_id_ie_size v : ok_gtp_plmn_id_ie v -> lsize (layout_gtp_plmn_id_ie v) = 56.
Proof. unfold ok_gtp_plmn_id_ie, layout_gtp_plmn_id_ie. solve_size. Qed.

Lemma encode_gtp_plmn_id_ie_emits v buf :
  ok_gtp_plmn_id_ie v -> emits buf 0 (layout_gtp_plmn_id_ie v) (encode_gtp_plmn_id_ie v buf) (56 / 8).
Proof. unfold ok_gtp_plmn_id_ie, layout_gtp_plmn_id_ie, encode_gtp_plmn_id_ie. solve_emits. Qed.

Lemma decode_gtp_plmn_id_ie_decodes m buf v :
  ok_gtp_plmn_id_ie v ->
  decodes m buf (layout_gtp_plmn_id_ie v) (decode_gtp_plmn_id_ie m buf) (count_gtp_plmn_id_ie v, v).
Proof. unfold ok_gtp_plmn_id_ie, layout_gtp_plmn_id_ie, decode_gtp_plmn_id_ie, count_gtp_plmn_id_ie. solve_decodes v. Qed.

#[global] Instance gtp_plmn_id_ie_format : WireFormat gtp_plmn_id_ie_t :=
  fixed_format layout_gtp_plmn_id_ie ok_gtp_plmn_id_ie count_gtp_plmn_id_ie encode_gtp_plmn_id_ie decode_gtp_plmn_id_ie 56 ltac:(reflexivity)
    layout_gtp_plmn_id_ie_size encode_gtp_plmn_id_ie_emits decode_gtp_plmn_id_ie_decodes.

End gtp_plmn_id_ie.

(** ** [gtp_mbms_flow_idnt_ie] *)

Module gtp_mbms_flow_idnt_ie.

Record gtp_mbms_flow_idnt_ie_t := {
  header : ie_header_t;
  mbms_flow_id : Z  (* uint16_t *)
}.

Definition encode_gtp_mbms_flow_idnt_ie (value : gtp_mbms_flow_idnt_ie_t) (buf : Z) : enc Z :=
  encoded <- ret 0;;
  encoded <- put_header value.(header) buf encoded;;
  encoded <- put_bits value.(mbms_flow_id) 16 buf encoded;;
  ret (encoded / CHAR_SIZE).

Definition decode_gtp_mbms_flow_idnt_ie (m : bytes) (buf : Z) : option (Z * gtp_mbms_flow_idnt_ie_t) :=
  run_dec (
  header <- get_header m buf;;
  mbms_flow_id <- get_bits m buf 16;;
  ret (header.(hdr_len) + IE_HEADER_SIZE,
      Build_gtp_mbms_flow_idnt_ie_t header mbms_flow_id)).

Definition layout_gtp_mbms_flow_idnt_ie (v : gtp_mbms_flow_idnt_ie_t) : list field :=
  [FHdr v.(header); FBits v.(mbms_flow_id) 16].

Definition ok_gtp_mbms_flow_idnt_ie (v : gtp_mbms_flow_idnt_ie_t) : Prop :=
  True.

Definition count_gtp_mbms_flow_idnt_ie (v : gtp_mbms_flow_idnt_ie_t) : Z := v.(header).(hdr_len) + IE_HEADER_SIZE.

Lemma layout_gtp_mbms_flow_idnt_ie_size v : ok_gtp_mbms_flow_idnt_ie v -> lsize (layout_gtp_mbms_flow_idnt_ie v) = 48.
Proof. unfold ok_gtp_mbms_flow_idnt_ie, layout_gtp_mbms_flow_idnt_ie. solve_size. Qed.

Lemma encode_gtp_mbms_flow_idnt_ie_emits v buf :
  ok_gtp_mbms_flow_idnt_ie v -> emits buf 0 (layout_gtp_mbms_flow_idnt_ie v) (encode_gtp_mbms_flow_idnt_ie v buf) (48 / 8).
Proof. unfold ok_gtp_mbms_flow_idnt_ie, layout_gtp_mbms_flow_idnt_ie, encode_gtp_mbms_flow_idnt_ie. solve_emits. Qed.

Lemma decode_gtp_mbms_flow_idnt_ie_decodes m buf v :
  ok_gtp_mbms_flow_idnt_ie v ->
  decodes m buf (layout_gtp_mbms_flow_idnt_ie v) (decode_gtp_mbms_flow_idnt_ie m buf) (count_gtp_mbms_flow_idnt_ie v, v).
Proof. unfold ok_gtp_mbms_flow_idnt_ie, layout_gtp_mbms_flow_idnt_ie, decode_gtp_mbms_flow_idnt_ie, count_gtp_mbms_flow_idnt_ie. solve_decodes v. Qed.

#[global] Instance gtp_mbms_flow_idnt_ie_format : WireFormat gtp_mbms_flow_idnt_ie_t :=
  fixed_format layout_gtp_mbms_flow_idnt_ie ok_gtp_mbms_flow_idnt_ie count_gtp_mbms_flow_idnt_ie encode_gtp_mbms_flow_idnt_ie decode_gtp_mbms_flow_idnt_ie 48 ltac:(reflexivity)
    layout_gtp_mbms_flow_idnt_ie_size encode_gtp_mbms_flow_idnt_ie_emits decode_gtp_mbms_flow_idnt_ie_decodes.

End gtp_mbms_flow_idnt_ie.

(** ** [gtp_hdr_comp_cfg_ie] *)

Module gtp_hdr_comp_cfg_ie.

Record gtp_hdr_comp_cfg_ie_t := {
  header : ie_header_t;
  rohc_profiles : Z;  (* uint16_t *)
  max_cid : Z  (* uint16_t *)
}.

Definition encode_gtp_hdr_comp_cfg_ie (value : gtp_hdr_comp_cfg_ie_t) (buf : Z) : enc Z :=
  encoded <- ret 0;;
  encoded <- put_header value.(header) buf encoded;;
  encoded <- put_bits value.(rohc_profiles) 16 buf encoded;;
  encoded <- put_bits value.(max_cid) 16 buf encoded;;
  ret (encoded / CHAR_SIZE).

Definition decode_gtp_hdr_comp_cfg_ie (m : bytes) (buf : Z) : option (Z * gtp_hdr_comp_cfg_ie_t) :=
  run_dec (
  header <- get_header m buf;;
  rohc_profiles <- get_bits m buf 16;;
  max_cid <- get_bits m buf 16;;
  ret (header.(hdr_len) + IE_HEADER_SIZE,
      Build_gtp_hdr_comp_cfg_ie_t header rohc_profiles max_cid)).

Definition layout_gtp_hdr_comp_cfg_ie (v : gtp_hdr_comp_cfg_ie_t) : list field :=
  [FHdr v.(header); FBits v.(rohc_profiles) 16; FBits v.(max_cid) 16].

Definition ok_gtp_hdr_comp_cfg_ie (v : gtp_hdr_comp_cfg_ie_t) : Prop :=
  True.

Definition count_gtp_hdr_comp_cfg_ie (v : gtp_hdr_comp_cfg_ie_t) : Z := v.(header).(hdr_len) + IE_HEADER_SIZE.

Lemma layout_gtp_hdr_comp_cfg_ie_size v : ok_gtp_hdr_comp_cfg_ie v -> lsize (layout_gtp_hdr_comp_cfg_ie v) = 64.
Proof. unfold ok_gtp_hdr_comp_cfg_ie, layout_gtp_hdr_comp_cfg_ie. solve_size. Qed.

Lemma encode_gtp_hdr_comp_cfg_ie_emits v buf :
  ok_gtp_hdr_comp_cfg_ie v -> emits buf 0 (layout_gtp_hdr_comp_cfg_ie v) (encode_gtp_hdr_comp_cfg_ie v buf) (64 / 8).
Proof. unfold ok_gtp_hdr_comp_cfg_ie, layout_gtp_hdr_comp_cfg_ie, encode_gtp_hdr_comp_cfg_ie. solve_emits. Qed.

Lemma decode_gtp_hdr_comp_cfg_ie_decodes m buf v :
  ok_gtp_hdr_comp_cfg_ie v ->
  decodes m buf (layout_gtp_hdr_comp_cfg_ie v) (decode_gtp_hdr_comp_cfg_ie m buf) (count_gtp_hdr_comp_cfg_ie v, v).
Proof. unfold ok_gtp_hdr_comp_cfg_ie, layout_gtp_hdr_comp_cfg_ie, decode_gtp_hdr_comp_cfg_ie, count_gtp_hdr_comp_cfg_ie. solve_decodes v. Qed.

#[global] Instance gtp_hdr_comp_cfg_ie_format : WireFormat gtp_hdr_comp_cfg_ie_t :=
  fixed_format layout_gtp_hdr_comp_cfg_ie ok_gtp_hdr_comp_cfg_ie count_gtp_hdr_comp_cfg_ie encode_gtp_hdr_comp_cfg_ie decode_gtp_hdr_comp_cfg_ie 64 ltac:(reflexivity)
    layout_gtp_hdr_comp_cfg_ie_size encode_gtp_hdr_comp_cfg_ie_emits decode_gtp_hdr_comp_cfg_ie_decodes.

End gtp_hdr_comp_cfg_ie.

(** ** [gtp_sgnllng_priority_indctn_ie] *)

Module gtp_sgnllng_priority_indctn_ie.

Record gtp_sgnllng_priority_indctn_ie_t := {
  header : ie_header_t;
  spare2 : Z;  (* uint8_t :7 *)
  lapi : Z  (* uint8_t :1 *)
}.

Definition encode_gtp_sgnllng_priority_indctn_ie (value : gtp_sgnllng_priority_indctn_ie_t) (buf : Z) : enc Z :=
  encoded <- ret 0;;
  encoded <- put_header value.(header) buf encoded;;
  encoded <- put_bits value.(spare2) 7 buf encoded;;
  encoded <- put_bits value.(lapi) 1 buf encoded;;
  ret (encoded / CHAR_SIZE).

Definition decode_gtp_sgnllng_priority_indctn_ie (m : bytes) (buf : Z) : option (Z * gtp_sgnllng_priority_indctn_ie_t) :=
  run_dec (
  header <- get_header m buf;;
  spare2 <- get_bits m buf 7;;
  lapi <- get_bits m buf 1;;
  ret (header.(hdr_len) + IE_HEADER_SIZE,
      Build_gtp_sgnllng_priority_indctn_ie_t header spare2 lapi)).

Definition layout_gtp_sgnllng_priority_indctn_ie (v : gtp_sgnllng_priority_indctn_ie_t) : list field :=
  [FHdr v.(header); FBits v.(spare2) 7; FBits v.(lapi) 1].

Definition ok_gtp_sgnllng_priority_indctn_ie (v : gtp_sgnllng_priority_indctn_ie_t) : Prop :=
  True.

Definition count_gtp_sgnllng_priority_indctn_ie (v : gtp_sgnllng_priority_indctn_ie_t) : Z := v.(header).(hdr_len) + IE_HEADER_SIZE.

Lemma layout_gtp_sgnllng_priority_indctn_ie_size v : ok_gtp_sgnllng_priority_indctn_ie v -> lsize (layout_gtp_sgnllng_priority_indctn_ie v) = 40.
Proof. unfold ok_gtp_sgnllng_priority_indctn_ie, layout_gtp_sgnllng_priority_indctn_ie. solve_size. Qed.

Lemma encode_gtp_sgnllng_priority_indctn_ie_emits v buf :
  ok_gtp_sgnllng_priority_indctn_ie v -> emits buf 0 (layout_gtp_sgnllng_priority_indctn_ie v) (encode_gtp_sgnllng_priority_indctn_ie v buf) (40 / 8).
Proof. unfold ok_gtp_sgnllng_priority_indctn_ie, layout_gtp_sgnllng_priority_indctn_ie, encode_gtp_sgnllng_priority_indctn_ie. solve_emits. Qed.

Lemma decode_gtp_sgnllng_priority_indctn_ie_decodes m buf v :
  ok_gtp_sgnllng_priority_indctn_ie v ->
  decodes m buf (layout_gtp_sgnllng_priority_indctn_ie v) (decode_gtp_sgnllng_priority_indctn_ie m buf) (count_gtp_sgnllng_priority_indctn_ie v, v).
Proof. unfold ok_gtp_sgnllng_priority_indctn_ie, layout_gtp_sgnllng_priority_indctn_ie, decode_gtp_sgnllng_priority_indctn_ie, count_gtp_sgnllng_priority_indctn_ie. solve_decodes v. Qed.

#[global] Instance gtp_sgnllng_priority_indctn_ie_format : WireFormat gtp_sgnllng_priority_indctn_ie_t :=
  fixed_format layout_gtp_sgnllng_priority_indctn_ie ok_gtp_sgnllng_priority_indctn_ie count_gtp_sgnllng_priority_indctn_ie encode_gtp_sgnllng_priority_indctn_ie decode_gtp_sgnllng_priority_indctn_ie 40 ltac:(reflexivity)
    layout_gtp_sgnllng_priority_indctn_ie_size encode_gtp_sgnllng_priority_indctn_ie_emits decode_gtp_sgnllng_priority_indctn_ie_decodes.

End gtp_sgnllng_priority_indctn_ie.

(** ** [gtp_mbms_time_to_data_xfer_ie] *)

Module gtp_mbms_time_to_data_xfer_ie.

Record gtp_mbms_time_to_data_xfer_ie_t := {
  header : ie_header_t;
  mbms_time_to_data_xfer_val_prt : Z  (* uint8_t *)
}.

Definition encode_gtp_mbms_time_to_data_xfer_ie (value : gtp_mbms_time_to_data_xfer_ie_t) (buf : Z) : enc Z :=
  encoded <- ret 0;;
  encoded <- put_header value.(header) buf encoded;;
  encoded <- put_bits value.(mbms_time_to_data_xfer_val_prt) 8 buf encoded;;
  ret (encoded / CHAR_SIZE).

Definition decode_gtp_mbms_time_to_data_xfer_ie (m : bytes) (buf : Z) : option (Z * gtp_mbms_time_to_data_xfer_ie_t) :=
  run_dec (
  header <- get_header m buf;;
  mbms_time_to_data_xfer_val_prt <- get_bits m buf 8;;
  ret (header.(hdr_len) + IE_HEADER_SIZE,
      Build_gtp_mbms_time_to_data_xfer_ie_t header mbms_time_to_data_xfer_val_prt)).

Definition layout_gtp_mbms_time_to_data_xfer_ie (v : gtp_mbms_time_to_data_xfer_ie_t) : list field :=
  [FHdr v.(header); FBits v.(mbms_time_to_data_xfer_val_prt) 8].

Definition ok_gtp_mbms_time_to_data_xfer_ie (v : gtp_mbms_time_to_data_xfer_ie_t) : Prop :=
  True.

Definition count_gtp_mbms_time_to_data_xfer_ie (v : gtp_mbms_time_to_data_xfer_ie_t) : Z := v.(header).(hdr_len) + IE_HEADER_SIZE.

Lemma layout_gtp_mbms_time_to_data_xfer_ie_size v : ok_gtp_mbms_time_to_data_xfer_ie v -> lsize (layout_gtp_mbms_time_to_data_xfer_ie v) = 40.
Proof. unfold ok_gtp_mbms_time_to_data_xfer_ie, layout_gtp_mbms_time_to_data_xfer_ie. solve_size. Qed.

Lemma encode_gtp_mbms_time_to_data_xfer_ie_emits v buf :
  ok_gtp_mbms_time_to_data_xfer_ie v -> emits buf 0 (layout_gtp_mbms_time_to_data_xfer_ie v) (encode_gtp_mbms_time_to_data_xfer_ie v buf) (40 / 8).
Proof. unfold ok_gtp_mbms_time_to_data_xfer_ie, layout_gtp_mbms_time_to_data_xfer_ie, encode_gtp_mbms_time_to_data_xfer_ie. solve_emits. Qed.

Lemma decode_gtp_mbms_time_to_data_xfer_ie_decodes m buf v :
  ok_gtp_mbms_time_to_data_xfer_ie v ->
  decodes m buf (layout_gtp_mbms_time_to_data_xfer_ie v) (decode_gtp_mbms_time_to_data_xfer_ie m buf) (count_gtp_mbms_time_to_data_xfer_ie v, v).
Proof. unfold ok_gtp_mbms_time_to_data_xfer_ie, layout_gtp_mbms_time_to_data_xfer_ie, decode_gtp_mbms_time_to_data_xfer_ie, count_gtp_mbms_time_to_data_xfer_ie. solve_decodes v. Qed.

#[global] Instance gtp_mbms_time_to_data_xfer_ie_format : WireFormat gtp_mbms_time_to_data_xfer_ie_t :=
  fixed_format layout_gtp_mbms_time_to_data_xfer_ie ok_gtp_mbms_time_to_data_xfer_ie count_gtp_mbms_time_to_data_xfer_ie encode_gtp_mbms_time_to_data_xfer_ie decode_gtp_mbms_time_to_data_xfer_ie 40 ltac:(reflexivity)
    layout_gtp_mbms_time_to_data_xfer_ie_size encode_gtp_mbms_time_to_data_xfer_ie_emits decode_gtp_mbms_time_to_data_xfer_ie_decodes.

End gtp_mbms_time_to_data_xfer_ie.

(** ** [gtp_trgt_id_ie] *)

Module gtp_trgt_id_ie.

Record gtp_trgt_id_ie_t := {
  header : ie_header_t;
  target_type : Z;  (* uint8_t *)
  target_id : Z  (* uint8_t *)
}.

Definition encode_gtp_trgt_id_ie (value : gtp_trgt_id_ie_t) (buf : Z) : enc Z :=
  encoded <- ret 0;;
  encoded <- put_header value.(header) buf encoded;;
  encoded <- put_bits value.(target_type) 8 buf encoded;;
  encoded <- put_bits value.(target_id) 8 buf encoded;;
  ret (encoded / CHAR_SIZE).

Definition decode_gtp_trgt_id_ie (m : bytes) (buf : Z) : option (Z * gtp_trgt_id_ie_t) :=
  run_dec (
  header <- get_header m buf;;
  target_type <- get_bits m buf 8;;
  target_id <- get_bits m buf 8;;
  ret (header.(hdr_len) + IE_HEADER_SIZE,
      Build_gtp_trgt_id_ie_t header target_type target_id)).

Definition layout_gtp_trgt_id_ie (v : gtp_trgt_id_ie_t) : list field :=
  [FHdr v.(header); FBits v.(target_type) 8; FBits v.(target_id) 8].

Definition ok_gtp_trgt_id_ie (v : gtp_trgt_id_ie_t) : Prop :=
  True.

Definition count_gtp_trgt_id_ie (v : gtp_trgt_id_ie_t) : Z := v.(header).(hdr_len) + IE_HEADER_SIZE.

Lemma layout_gtp_trgt_id_ie_size v : ok_gtp_trgt_id_ie v -> lsize (layout_gtp_trgt_id_ie v) = 48.
Proof. unfold ok_gtp_trgt_id_ie, layout_gtp_trgt_id_ie. solve_size. Qed.

Lemma encode_gtp_trgt_id_ie_emits v buf :
  ok_gtp_trgt_id_ie v -> emits buf 0 (layout_gtp_trgt_id_ie v) (encode_gtp_trgt_id_ie v buf) (48 / 8).
Proof. unfold ok_gtp_trgt_id_ie, layout_gtp_trgt_id_ie, encode_gtp_trgt_id_ie. solve_emits. Qed.

Lemma decode_gtp_trgt_id_ie_decodes m buf v :
  ok_gtp_trgt_id_ie v ->
  decodes m buf (layout_gtp_trgt_id_ie v) (decode_gtp_trgt_id_ie m buf) (count_gtp_trgt_id_ie v, v).
Proof. unfold ok_gtp_trgt_id_ie, layout_gtp_trgt_id_ie, decode_gtp_trgt_id_ie, count_gtp_trgt_id_ie. solve_decodes v. Qed.

#[global] Instance gtp_trgt_id_ie_format : WireFormat gtp_trgt_id_ie_t :=
  fixed_format layout_gtp_trgt_id_ie ok_gtp_trgt_id_ie count_gtp_trgt_id_ie encode_gtp_trgt_id_ie decode_gtp_trgt_id_ie 48 ltac:(reflexivity)
    layout_gtp_trgt_id_ie_size encode_gtp_trgt_id_ie_emits decode_gtp_trgt_id_ie_decodes.

End gtp_trgt_id_ie.

(** ** [gtp_mbms_flags_ie] *)

Module gtp_mbms_flags_ie.

Record gtp_mbms_flags_ie_t := {
  header : ie_header_t;
  spare2 : Z;  (* uint8_t :6 *)
  lmri : Z;  (* uint8_t :1 *)
  msri : Z  (* uint8_t :1 *)
}.

Definition encode_gtp_mbms_flags_ie (value : gtp_mbms_flags_ie_t) (buf : Z) : enc Z :=
  encoded <- ret 0;;
  encoded <- put_header value.(header) buf encoded;;
  encoded <- put_bits value.(spare2) 6 buf encoded;;
  encoded <- put_bits value.(lmri) 1 buf encoded;;
  encoded <- put_bits value.(msri) 1 buf encoded;;
  ret (encoded / CHAR_SIZE).

Definition decode_gtp_mbms_flags_ie (m : bytes) (buf : Z) : option (Z * gtp_mbms_flags_ie_t) :=
  run_dec (
  header <- get_header m buf;;
  spare2 <- get_bits m buf 6;;
  lmri <- get_bits m buf 1;;
  msri <- get_bits m buf 1;;
  ret (header.(hdr_len) + IE_HEADER_SIZE,
      Build_gtp_mbms_flags_ie_t header spare2 lmri msri)).

Definition layout_gtp_mbms_flags_ie (v : gtp_mbms_flags_ie_t) : list field :=
  [FHdr v.(header); FBits v.(spare2) 6; FBits v.(lmri) 1; FBits v.(msri) 1].

Definition ok_gtp_mbms_flags_ie (v : gtp_mbms_flags_ie_t) : Prop :=
  True.

Definition count_gtp_mbms_flags_ie (v : gtp_mbms_flags_ie_t) : Z := v.(header).(hdr_len) + IE_HEADER_SIZE.

Lemma layout_gtp_mbms_flags_ie_size v : ok_gtp_mbms_flags_ie v -> lsize (layout_gtp_mbms_flags_ie v) = 40.
Proof. unfold ok_gtp_mbms_flags_ie, layout_gtp_mbms_flags_ie. solve_size. Qed.

Lemma encode_gtp_mbms_flags_ie_emits v buf :
  ok_gtp_mbms_flags_ie v -> emits buf 0 (layout_gtp_mbms_flags_ie v) (encode_gtp_mbms_flags_ie v buf) (40 / 8).
Proof. unfold ok_gtp_mbms_flags_ie, layout_gtp_mbms_flags_ie, encode_gtp_mbms_flags_ie. solve_emits. Qed.

Lemma decode_gtp_mbms_flags_ie_decodes m buf v :
  ok_gtp_mbms_flags_ie v ->
  decodes m buf (layout_gtp_mbms_flags_ie v) (decode_gtp_mbms_flags_ie m buf) (count_gtp_mbms_flags_ie v, v).
Proof. unfold ok_gtp_mbms_flags_ie, layout_gtp_mbms_flags_ie, decode_gtp_mbms_flags_ie, count_gtp_mbms_flags_ie. solve_decodes v. Qed.

#[global] Instance gtp_mbms_flags_ie_format : WireFormat gtp_mbms_flags_ie_t :=
  fixed_format layout_gtp_mbms_flags_ie ok_gtp_mbms_flags_ie count_gtp_mbms_flags_ie encode_gtp_mbms_flags_ie decode_gtp_mbms_flags_ie 40 ltac:(reflexivity)
    layout_gtp_mbms_flags_ie_size encode_gtp_mbms_flags_ie_emits decode_gtp_mbms_flags_ie_decodes.

End gtp_mbms_flags_ie.

(** ** [gtp_trans_idnt_ie] *)

Module gtp_trans_idnt_ie.

Record gtp_trans_idnt_ie_t := {
  header : ie_header_t;
  trans_idnt : Z  (* uint8_t *)
}.

Definition encode_gtp_trans_idnt_ie (value : gtp_trans_idnt_ie_t) (buf : Z) : enc Z :=
  encoded <- ret 0;;
  encoded <- put_header value.(header) buf encoded;;
  encoded <- put_bits value.(trans_idnt) 8 buf encoded;;
  ret (encoded / CHAR_SIZE).

Definition decode_gtp_trans_idnt_ie (m : bytes) (buf : Z) : option (Z * gtp_trans_idnt_ie_t) :=
  run_dec (
  header <- get_header m buf;;
  trans_idnt <- get_bits m buf 8;;
  ret (header.(hdr_len) + IE_HEADER_SIZE,
      Build_gtp_trans_idnt_ie_t header trans_idnt)).

Definition layout_gtp_trans_idnt_ie (v : gtp_trans_idnt_ie_t) : list field :=
  [FHdr v.(header); FBits v.(trans_idnt) 8].

Definition ok_gtp_trans_idnt_ie (v : gtp_trans_idnt_ie_t) : Prop :=
  True.

Definition count_gtp_trans_idnt_ie (v : gtp_trans_idnt_ie_t) : Z := v.(header).(hdr_len) + IE_HEADER_SIZE.

Lemma layout_gtp_trans_idnt_ie_size v : ok_gtp_trans_idnt_ie v -> lsize (layout_gtp_trans_idnt_ie v) = 40.
Proof. unfold ok_gtp_trans_idnt_ie, layout_gtp_trans_idnt_ie. solve_size. Qed.

Lemma encode_gtp_trans_idnt_ie_emits v buf :
  ok_gtp_trans_idnt_ie v -> emits buf 0 (layout_gtp_trans_idnt_ie v) (encode_gtp_trans_idnt_ie v buf) (40 / 8).
Proof. unfold ok_gtp_trans_idnt_ie, layout_gtp_trans_idnt_ie, encode_gtp_trans_idnt_ie. solve_emits. Qed.

Lemma decode_gtp_trans_idnt_ie_decodes m buf v :
  ok_gtp_trans_idnt_ie v ->
  decodes m buf (layout_gtp_trans_idnt_ie v) (decode_gtp_trans_idnt_ie m buf) (count_gtp_trans_idnt_ie v, v).
Proof. unfold ok_gtp_trans_idnt_ie, layout_gtp_trans_idnt_ie, decode_gtp_trans_idnt_ie, count_gtp_trans_idnt_ie. solve_decodes v. Qed.

#[global] Instance gtp_trans_idnt_ie_format : WireFormat gtp_trans_idnt_ie_t :=
  fixed_format layout_gtp_trans_idnt_ie ok_gtp_trans_idnt_ie count_gtp_trans_idnt_ie encode_gtp_trans_idnt_ie decode_gtp_trans_idnt_ie 40 ltac:(reflexivity)
    layout_gtp_trans_idnt_ie_size encode_gtp_trans_idnt_ie_emits decode_gtp_trans_idnt_ie_decodes.

End gtp_trans_idnt_ie.

(** ** [gtp_bearer_flags_ie] *)

Module gtp_bearer_flags_ie.

Record gtp_bearer_flags_ie_t := {
  header : ie_header_t;
  spare2 : Z;  (* uint8_t :4 *)
  asi : Z;  (* uint8_t :1 *)
  vind : Z;  (* uint8_t :1 *)
  vb : Z;  (* uint8_t :1 *)
  ppc : Z  (* uint8_t :1 *)
}.

Definition encode_gtp_bearer_flags_ie (value : gtp_bearer_flags_ie_t) (buf : Z) : enc Z :=
  encoded <- ret 0;;
  encoded <- put_header value.(header) buf encoded;;
  encoded <- put_bits value.(spare2) 4 buf encoded;;
  encoded <- put_bits value.(asi) 1 buf encoded;;
  encoded <- put_bits value.(vind) 1 buf encoded;;
  encoded <- put_bits value.(vb) 1 buf encoded;;
  encoded <- put_bits value.(ppc) 1 buf encoded;;
  ret (encoded / CHAR_SIZE).

Definition decode_gtp_bearer_flags_ie (m : bytes) (buf : Z) : option (Z * gtp_bearer_flags_ie_t) :=
  run_dec (
  header <- get_header m buf;;
  spare2 <- get_bits m buf 4;;
  asi <- get_bits m buf 1;;
  vind <- get_bits m buf 1;;
  vb <- get_bits m buf 1;;
  ppc <- get_bits m buf 1;;
  ret (header.(hdr_len) + IE_HEADER_SIZE,
      Build_gtp_bearer_flags_ie_t header spare2 asi vind vb ppc)).

Definition layout_gtp_bearer_flags_ie (v : gtp_bearer_flags_ie_t) : list field :=
  [FHdr v.(header); FBits v.(spare2) 4; FBits v.(asi) 1; FBits v.(vind) 1; FBits v.(vb) 1;
   FBits v.(ppc) 1].

Definition ok_gtp_bearer_flags_ie (v : gtp_bearer_flags_ie_t) : Prop :=
  True.

Definition count_gtp_bearer_flags_ie (v : gtp_bearer_flags_ie_t) : Z := v.(header).(hdr_len) + IE_HEADER_SIZE.

Lemma layout_gtp_bearer_flags_ie_size v : ok_gtp_bearer_flags_ie v -> lsize (layout_gtp_bearer_flags_ie v) = 40.
Proof. unfold ok_gtp_bearer_flags_ie, layout_gtp_bearer_flags_ie. solve_size. Qed.

Lemma encode_gtp_bearer_flags_ie_emits v buf :
  ok_gtp_bearer_flags_ie v -> emits buf 0 (layout_gtp_bearer_flags_ie v) (encode_gtp_bearer_flags_ie v buf) (40 / 8).
Proof. unfold ok_gtp_bearer_flags_ie, layout_gtp_bearer_flags_ie, encode_gtp_bearer_flags_ie. solve_emits. Qed.

Lemma decode_gtp_bearer_flags_ie_decodes m buf v :
  ok_gtp_bearer_flags_ie v ->
  decodes m buf (layout_gtp_bearer_flags_ie v) (decode_gtp_bearer_flags_ie m buf) (count_gtp_bearer_flags_ie v, v).
Proof. unfold ok_gtp_bearer_flags_ie, layout_gtp_bearer_flags_ie, decode_gtp_bearer_flags_ie, count_gtp_bearer_flags_ie. solve_decodes v. Qed.

#[global] Instance gtp_bearer_flags_ie_format : WireFormat gtp_bearer_flags_ie_t :=
  fixed_format layout_gtp_bearer_flags_ie ok_gtp_bearer_flags_ie count_gtp_bearer_flags_ie encode_gtp_bearer_flags_ie decode_gtp_bearer_flags_ie 40 ltac:(reflexivity)
    layout_gtp_bearer_flags_ie_size encode_gtp_bearer_flags_ie_emits decode_gtp_bearer_flags_ie_decodes.

End gtp_bearer_flags_ie.

(** ** [gtp_msec_time_stmp_ie] *)

Module gtp_msec_time_stmp_ie.

Record gtp_msec_time_stmp_ie_t := {
  header : ie_header_t;
  msec_time_stmp_val : Z  (* uint8_t *)
}.

Definition encode_gtp_msec_time_stmp_ie (value : gtp_msec_time_stmp_ie_t) (buf : Z) : enc Z :=
  encoded <- ret 0;;
  encoded <- put_header value.(header) buf encoded;;
  encoded <- put_bits value.(msec_time_stmp_val) 8 buf encoded;;
  ret (encoded / CHAR_SIZE).

Definition decode_gtp_msec_time_stmp_ie (m : bytes) (buf : Z) : option (Z * gtp_msec_time_stmp_ie_t) :=
  run_dec (
  header <- get_header m buf;;
  msec_time_stmp_val <- get_bits m buf 8;;
  ret (header.(hdr_len) + IE_HEADER_SIZE,
      Build_gtp_msec_time_stmp_ie_t header msec_time_stmp_val)).

Definition layout_gtp_msec_time_stmp_ie (v : gtp_msec_time_stmp_ie_t) : list field :=
  [FHdr v.(header); FBits v.(msec_time_stmp_val) 8].

Definition ok_gtp_msec_time_stmp_ie (v : gtp_msec_time_stmp_ie_t) : Prop :=
  True.

Definition count_gtp_msec_time_stmp_ie (v : gtp_msec_time_stmp_ie_t) : Z := v.(header).(hdr_len) + IE_HEADER_SIZE.

Lemma layout_gtp_msec_time_stmp_ie_size v : ok_gtp_msec_time_stmp_ie v -> lsize (layout_gtp_msec_time_stmp_ie v) = 40.
Proof. unfold ok_gtp_msec_time_stmp_ie, layout_gtp_msec_time_stmp_ie. solve_size. Qed.

Lemma encode_gtp_msec_time_stmp_ie_emits v buf :
  ok_gtp_msec_time_stmp_ie v -> emits buf 0 (layout_gtp_msec_time_stmp_ie v) (encode_gtp_msec_time_stmp_ie v buf) (40 / 8).
Proof. unfold ok_gtp_msec_time_stmp_ie, layout_gtp_msec_time_stmp_ie, encode_gtp_msec_time_stmp_ie. solve_emits. Qed.

Lemma decode_gtp_msec_time_stmp_ie_decodes m buf v :
  ok_gtp_msec_time_stmp_ie v ->
  decodes m buf (layout_gtp_msec_time_stmp_ie v) (decode_gtp_msec_time_stmp_ie m buf) (count_gtp_msec_time_stmp_ie v, v).
Proof. unfold ok_gtp_msec_time_stmp_ie, layout_gtp_msec_time_stmp_ie, decode_gtp_msec_time_stmp_ie, count_gtp_msec_time_stmp_ie. solve_decodes v. Qed.

#[global] Instance gtp_msec_time_stmp_ie_format : WireFormat gtp_msec_time_stmp_ie_t :=
  fixed_format layout_gtp_msec_time_stmp_ie ok_gtp_msec_time_stmp_ie count_gtp_msec_time_stmp_ie encode_gtp_msec_time_stmp_ie decode_gtp_msec_time_stmp_ie 40 ltac:(reflexivity)
    layout_gtp_msec_time_stmp_ie_size encode_gtp_msec_time_stmp_ie_emits decode_gtp_msec_time_stmp_ie_decodes.

End gtp_msec_time_stmp_ie.

(** ** [gtp_chg_to_rpt_flgs_ie] *)

Module gtp_chg_to_rpt_flgs_ie.

Record gtp_chg_to_rpt_flgs_ie_t := {
  header : ie_header_t;
  spare2 : Z;  (* uint8_t :6 *)
  tzcr : Z;  (* uint8_t :1 *)
  sncr : Z  (* uint8_t :1 *)
}.

Definition encode_gtp_chg_to_rpt_flgs_ie (value : gtp_chg_to_rpt_flgs_ie_t) (buf : Z) : enc Z :=
  encoded <- ret 0;;
  encoded <- put_header value.(header) buf encoded;;
  encoded <- put_bits value.(spare2) 6 buf encoded;;
  encoded <- put_bits value.(tzcr) 1 buf encoded;;
  encoded <- put_bits value.(sncr) 1 buf encoded;;
  ret (encoded / CHAR_SIZE).

Definition decode_gtp_chg_to_rpt_flgs_ie (m : bytes) (buf : Z) : option (Z * gtp_chg_to_rpt_flgs_ie_t) :=
  run_dec (
  header <- get_header m buf;;
  spare2 <- get_bits m buf 6;;
  tzcr <- get_bits m buf 1;;
  sncr <- get_bits m buf 1;;
  ret (header.(hdr_len) + IE_HEADER_SIZE,
      Build_gtp_chg_to_rpt_flgs_ie_t header spare2 tzcr sncr)).

Definition layout_gtp_chg_to_rpt_flgs_ie (v : gtp_chg_to_rpt_flgs_ie_t) : list field :=
  [FHdr v.(header); FBits v.(spare2) 6; FBits v.(tzcr) 1; FBits v.(sncr) 1].

Definition ok_gtp_chg_to_rpt_flgs_ie (v : gtp_chg_to_rpt_flgs_ie_t) : Prop :=
  True.

Definition count_gtp_chg_to_rpt_flgs_ie (v : gtp_chg_to_rpt_flgs_ie_t) : Z := v.(header).(hdr_len) + IE_HEADER_SIZE.

Lemma layout_gtp_chg_to_rpt_flgs_ie_size v : ok_gtp_chg_to_rpt_flgs_ie v -> lsize (layout_gtp_chg_to_rpt_flgs_ie v) = 40.
Proof. unfold ok_gtp_chg_to_rpt_flgs_ie, layout_gtp_chg_to_rpt_flgs_ie. solve_size. Qed.

Lemma encode_gtp_chg_to_rpt_flgs_ie_emits v buf :
  ok_gtp_chg_to_rpt_flgs_ie v -> emits buf 0 (layout_gtp_chg_to_rpt_flgs_ie v) (encode_gtp_chg_to_rpt_flgs_ie v buf) (40 / 8).
Proof. unfold ok_gtp_chg_to_rpt_flgs_ie, layout_gtp_chg_to_rpt_flgs_ie, encode_gtp_chg_to_rpt_flgs_ie. solve_emits. Qed.

Lemma decode_gtp_chg_to_rpt_flgs_ie_decodes m buf v :
  ok_gtp_chg_to_rpt_flgs_ie v ->
  decodes m buf (layout_gtp_chg_to_rpt_flgs_ie v) (decode_gtp_chg_to_rpt_flgs_ie m buf) (count_gtp_chg_to_rpt_flgs_ie v, v).
Proof. unfold ok_gtp_chg_to_rpt_flgs_ie, layout_gtp_chg_to_rpt_flgs_ie, decode_gtp_chg_to_rpt_flgs_ie, count_gtp_chg_to_rpt_flgs_ie. solve_decodes v. Qed.

#[global] Instance gtp_chg_to_rpt_flgs_ie_format : WireFormat gtp_chg_to_rpt_flgs_ie_t :=
  fixed_format layout_gtp_chg_to_rpt_flgs_ie ok_gtp_chg_to_rpt_flgs_ie count_gtp_chg_to_rpt_flgs_ie encode_gtp_chg_to_rpt_flgs_ie decode_gtp_chg_to_rpt_flgs_ie 40 ltac:(reflexivity)
    layout_gtp_chg_to_rpt_flgs_ie_size encode_gtp_chg_to_rpt_flgs_ie_emits decode_gtp_chg_to_rpt_flgs_ie_decodes.

End gtp_chg_to_rpt_flgs_ie.

(** ** [gtp_scef_pdn_conn_ie] *)

Module gtp_scef_pdn_conn_ie.

Record gtp_scef_pdn_conn_ie_t := {
  header : ie_header_t;
  scef_pdn_connection : list Z  (* uint8_t[SCEF_PDN_CONNECTION_LEN] *)
}.

Definition encode_gtp_scef_pdn_conn_ie (value : gtp_scef_pdn_conn_ie_t) (buf : Z) : enc Z :=
  encoded <- ret 0;;
  encoded <- put_header value.(header) buf encoded;;
  encoded <- put_bytes value.(scef_pdn_connection) SCEF_PDN_CONNECTION_LEN buf encoded;;
  ret (encoded / CHAR_SIZE).

Definition decode_gtp_scef_pdn_conn_ie (m : bytes) (buf : Z) : option (Z * gtp_scef_pdn_conn_ie_t) :=
  run_dec (
  header <- get_header m buf;;
  scef_pdn_connection <- get_bytes m buf SCEF_PDN_CONNECTION_LEN;;
  ret (header.(hdr_len) + IE_HEADER_SIZE,
      Build_gtp_scef_pdn_conn_ie_t header scef_pdn_connection)).

Definition layout_gtp_scef_pdn_conn_ie (v : gtp_scef_pdn_conn_ie_t) : list field :=
  [FHdr v.(header); FCopy v.(scef_pdn_connection)].

Definition ok_gtp_scef_pdn_conn_ie (v : gtp_scef_pdn_conn_ie_t) : Prop :=
  Z.of_nat (length v.(scef_pdn_connection)) = SCEF_PDN_CONNECTION_LEN.

Definition count_gtp_scef_pdn_conn_ie (v : gtp_scef_pdn_conn_ie_t) : Z := v.(header).(hdr_len) + IE_HEADER_SIZE.

Lemma layout_gtp_scef_pdn_conn_ie_size v : ok_gtp_scef_pdn_conn_ie v -> lsize (layout_gtp_scef_pdn_conn_ie v) = 96.
Proof. unfold ok_gtp_scef_pdn_conn_ie, layout_gtp_scef_pdn_conn_ie. solve_size. Qed.

Lemma encode_gtp_scef_pdn_conn_ie_emits v buf :
  ok_gtp_scef_pdn_conn_ie v -> emits buf 0 (layout_gtp_scef_pdn_conn_ie v) (encode_gtp_scef_pdn_conn_ie v buf) (96 / 8).
Proof. unfold ok_gtp_scef_pdn_conn_ie, layout_gtp_scef_pdn_conn_ie, encode_gtp_scef_pdn_conn_ie. solve_emits. Qed.

Lemma decode_gtp_scef_pdn_conn_ie_decodes m buf v :
  ok_gtp_scef_pdn_conn_ie v ->
  decodes m buf (layout_gtp_scef_pdn_conn_ie v) (decode_gtp_scef_pdn_conn_ie m buf) (count_gtp_scef_pdn_conn_ie v, v).
Proof. unfold ok_gtp_scef_pdn_conn_ie, layout_gtp_scef_pdn_conn_ie, decode_gtp_scef_pdn_conn_ie, count_gtp_scef_pdn_conn_ie. solve_decodes v. Qed.

#[global] Instance gtp_scef_pdn_conn_ie_format : WireFormat gtp_scef_pdn_conn_ie_t :=
  fixed_format layout_gtp_scef_pdn_conn_ie ok_gtp_scef_pdn_conn_ie count_gtp_scef_pdn_conn_ie encode_gtp_scef_pdn_conn_ie decode_gtp_scef_pdn_conn_ie 96 ltac:(reflexivity)
    layout_gtp_scef_pdn_conn_ie_size encode_gtp_scef_pdn_conn_ie_emits decode_gtp_scef_pdn_conn_ie_decodes.

End gtp_scef_pdn_conn_ie.

(** ** [gtp_chg_rptng_act_ie] *)

Module gtp_chg_rptng_act_ie.

Record gtp_chg_rptng_act_ie_t := {
  header : ie_header_t;
  action : Z  (* uint8_t *)
}.

Definition encode_gtp_chg_rptng_act_ie (value : gtp_chg_rptng_act_ie_t) (buf : Z) : enc Z :=
  encoded <- ret 0;;
  encoded <- put_header value.(header) buf encoded;;
  encoded <- put_bits value.(action) 8 buf encoded;;
  ret (encoded / CHAR_SIZE).

Definition decode_gtp_chg_rptng_act_ie (m : bytes) (buf : Z) : option (Z * gtp_chg_rptng_act_ie_t) :=
  run_dec (
  header <- get_header m buf;;
  action <- get_bits m buf 8;;
  ret (header.(hdr_len) + IE_HEADER_SIZE,
      Build_gtp_chg_rptng_act_ie_t header action)).

Definition layout_gtp_chg_rptng_act_ie (v : gtp_chg_rptng_act_ie_t) : list field :=
  [FHdr v.(header); FBits v.(action) 8].

Definition ok_gtp_chg_rptng_act_ie (v : gtp_chg_rptng_act_ie_t) : Prop :=
  True.

Definition count_gtp_chg_rptng_act_ie (v : gtp_chg_rptng_act_ie_t) : Z := v.(header).(hdr_len) + IE_HEADER_SIZE.

Lemma layout_gtp_chg_rptng_act_ie_size v : ok_gtp_chg_rptng_act_ie v -> lsize (layout_gtp_chg_rptng_act_ie v) = 40.
Proof. unfold ok_gtp_chg_rptng_act_ie, layout_gtp_chg_rptng_act_ie. solve_size. Qed.

Lemma encode_gtp_chg_rptng_act_ie_emits v buf :
  ok_gtp_chg_rptng_act_ie v -> emits buf 0 (layout_gtp_chg_rptng_act_ie v) (encode_gtp_chg_rptng_act_ie v buf) (40 / 8).
Proof. unfold ok_gtp_chg_rptng_act_ie, layout_gtp_chg_rptng_act_ie, encode_gtp_chg_rptng_act_ie. solve_emits. Qed.

Lemma decode_gtp_chg_rptng_act_ie_decodes m buf v :
  ok_gtp_chg_rptng_act_ie v ->
  decodes m buf (layout_gtp_chg_rptng_act_ie v) (decode_gtp_chg_rptng_act_ie m buf) (count_gtp_chg_rptng_act_ie v, v).
Proof. unfold ok_gtp_chg_rptng_act_ie, layout_gtp_chg_rptng_act_ie, decode_gtp_chg_rptng_act_ie, count_gtp_chg_rptng_act_ie. solve_decodes v. Qed.

#[global] Instance gtp_chg_rptng_act_ie_format : WireFormat gtp_chg_rptng_act_ie_t :=
  fixed_format layout_gtp_chg_rptng_act_ie ok_gtp_chg_rptng_act_ie count_gtp_chg_rptng_act_ie encode_gtp_chg_rptng_act_ie decode_gtp_chg_rptng_act_ie 40 ltac:(reflexivity)
    layout_gtp_chg_rptng_act_ie_size encode_gtp_chg_rptng_act_ie_emits decode_gtp_chg_rptng_act_ie_decodes.

End gtp_chg_rptng_act_ie.

(** ** [gtp_delay_value_ie] *)

Module gtp_delay_value_ie.

Record gtp_delay_value_ie_t := {
  header : ie_header_t;
  delay_value : Z  (* uint8_t *)
}.

Definition encode_gtp_delay_value_ie (value : gtp_delay_value_ie_t) (buf : Z) : enc Z :=
  encoded <- ret 0;;
  encoded <- put_header value.(header) buf encoded;;
  encoded <- put_bits value.(delay_value) 8 buf encoded;;
  ret (encoded / CHAR_SIZE).

Definition decode_gtp_delay_value_ie (m : bytes) (buf : Z) : option (Z * gtp_delay_value_ie_t) :=
  run_dec (
  header <- get_header m buf;;
  delay_value <- get_bits m buf 8;;
  ret (header.(hdr_len) + IE_HEADER_SIZE,
      Build_gtp_delay_value_ie_t header delay_value)).

Definition layout_gtp_delay_value_ie (v : gtp_delay_value_ie_t) : list field :=
  [FHdr v.(header); FBits v.(delay_value) 8].

Definition ok_gtp_delay_value_ie (v : gtp_delay_value_ie_t) : Prop :=
  True.

Definition count_gtp_delay_value_ie (v : gtp_delay_value_ie_t) : Z := v.(header).(hdr_len) + IE_HEADER_SIZE.

Lemma layout_gtp_delay_value_ie_size v : ok_gtp_delay_value_ie v -> lsize (layout_gtp_delay_value_ie v) = 40.
Proof. unfold ok_gtp_delay_value_ie, layout_gtp_delay_value_ie. solve_size. Qed.

Lemma encode_gtp_delay_value_ie_emits v buf :
  ok_gtp_delay_value_ie v -> emits buf 0 (layout_gtp_delay_value_ie v) (encode_gtp_delay_value_ie v buf) (40 / 8).
Proof. unfold ok_gtp_delay_value_ie, layout_gtp_delay_value_ie, encode_gtp_delay_value_ie. solve_emits. Qed.

Lemma decode_gtp_delay_value_ie_decodes m buf v :
  ok_gtp_delay_value_ie v ->
  decodes m buf (layout_gtp_delay_value_ie v) (decode_gtp_delay_value_ie m buf) (count_gtp_delay_value_ie v, v).
Proof. unfold ok_gtp_delay_value_ie, layout_gtp_delay_value_ie, decode_gtp_delay_value_ie, count_gtp_delay_value_ie. solve_decodes v. Qed.

#[global] Instance gtp_delay_value_ie_format : WireFormat gtp_delay_value_ie_t :=
  fixed_format layout_gtp_delay_value_ie ok_gtp_delay_value_ie count_gtp_delay_value_ie encode_gtp_delay_value_ie decode_gtp_delay_value_ie 40 ltac:(reflexivity)
    layout_gtp_delay_value_ie_size encode_gtp_delay_value_ie_emits decode_gtp_delay_value_ie_decodes.

End gtp_delay_value_ie.

(** ** [gtp_pdn_connection_ie] *)

Module gtp_pdn_connection_ie.

Record gtp_pdn_connection_ie_t := {
  header : ie_header_t
}.

Definition encode_gtp_pdn_connection_ie (value : gtp_pdn_connection_ie_t) (buf : Z) : enc Z :=
  encoded <- ret 0;;
  encoded <- put_header value.(header) buf encoded;;
  ret (encoded / CHAR_SIZE).

Definition decode_gtp_pdn_connection_ie (m : bytes) (buf : Z) : option (Z * gtp_pdn_connection_ie_t) :=
  run_dec (
  header <- get_header m buf;;
  ret (header.(hdr_len) + IE_HEADER_SIZE,
      Build_gtp_pdn_connection_ie_t header)).

Definition layout_gtp_pdn_connection_ie (v : gtp_pdn_connection_ie_t) : list field :=
  [FHdr v.(header)].

Definition ok_gtp_pdn_connection_ie (v : gtp_pdn_connection_ie_t) : Prop :=
  True.

Definition count_gtp_pdn_connection_ie (v : gtp_pdn_connection_ie_t) : Z := v.(header).(hdr_len) + IE_HEADER_SIZE.

Lemma layout_gtp_pdn_connection_ie_size v : ok_gtp_pdn_connection_ie v -> lsize (layout_gtp_pdn_connection_ie v) = 32.
Proof. unfold ok_gtp_pdn_connection_ie, layout_gtp_pdn_connection_ie. solve_size. Qed.

Lemma encode_gtp_pdn_connection_ie_emits v buf :
  ok_gtp_pdn_connection_ie v -> emits buf 0 (layout_gtp_pdn_connection_ie v) (encode_gtp_pdn_connection_ie v buf) (32 / 8).
Proof. unfold ok_gtp_pdn_connection_ie, layout_gtp_pdn_connection_ie, encode_gtp_pdn_connection_ie. solve_emits. Qed.

Lemma decode_gtp_pdn_connection_ie_decodes m buf v :
  ok_gtp_pdn_connection_ie v ->
  decodes m buf (layout_gtp_pdn_connection_ie v) (decode_gtp_pdn_connection_ie m buf) (count_gtp_pdn_connection_ie v, v).
Proof. unfold ok_gtp_pdn_connection_ie, layout_gtp_pdn_connection_ie, decode_gtp_pdn_connection_ie, count_gtp_pdn_connection_ie. solve_decodes v. Qed.

#[global] Instance gtp_pdn_connection_ie_format : WireFormat gtp_pdn_connection_ie_t :=
  fixed_format layout_gtp_pdn_connection_ie ok_gtp_pdn_connection_ie count_gtp_pdn_connection_ie encode_gtp_pdn_connection_ie decode_gtp_pdn_connection_ie 32 ltac:(reflexivity)
    layout_gtp_pdn_connection_ie_size encode_gtp_pdn_connection_ie_emits decode_gtp_pdn_connection_ie_decodes.

End gtp_pdn_connection_ie.

(** ** [gtp_detach_type_ie] *)

Module gtp_detach_type_ie.

Record gtp_detach_type_ie_t := {
  header : ie_header_t;
  detach_type : Z  (* uint8_t *)
}.

Definition encode_gtp_detach_type_ie (value : gtp_detach_type_ie_t) (buf : Z) : enc Z :=
  encoded <- ret 0;;
  encoded <- put_header value.(header) buf encoded;;
  encoded <- put_bits value.(detach_type) 8 buf encoded;;
  ret (encoded / CHAR_SIZE).

Definition decode_gtp_detach_type_ie (m : bytes) (buf : Z) : option (Z * gtp_detach_type_ie_t) :=
  run_dec (
  header <- get_header m buf;;
  detach_type <- get_bits m buf 8;;
  ret (header.(hdr_len) + IE_HEADER_SIZE,
      Build_gtp_detach_type_ie_t header detach_type)).

Definition layout_gtp_detach_type_ie (v : gtp_detach_type_ie_t) : list field :=
  [FHdr v.(header); FBits v.(detach_type) 8].

Definition ok_gtp_detach_type_ie (v : gtp_detach_type_ie_t) : Prop :=
  True.

Definition count_gtp_detach_type_ie (v : gtp_detach_type_ie_t) : Z := v.(header).(hdr_len) + IE_HEADER_SIZE.

Lemma layout_gtp_detach_type_ie_size v : ok_gtp_detach_type_ie v -> lsize (layout_gtp_detach_type_ie v) = 40.
Proof. unfold ok_gtp_detach_type_ie, layout_gtp_detach_type_ie. solve_size. Qed.

Lemma encode_gtp_detach_type_ie_emits v buf :
  ok_gtp_detach_type_ie v -> emits buf 0 (layout_gtp_detach_type_ie v) (encode_gtp_detach_type_ie v buf) (40 / 8).
Proof. unfold ok_gtp_detach_type_ie, layout_gtp_detach_type_ie, encode_gtp_detach_type_ie. solve_emits. Qed.

Lemma decode_gtp_detach_type_ie_decodes m buf v :
  ok_gtp_detach_type_ie v ->
  decodes m buf (layout_gtp_detach_type_ie v) (decode_gtp_detach_type_ie m buf) (count_gtp_detach_type_ie v, v).
Proof. unfold ok_gtp_detach_type_ie, layout_gtp_detach_type_ie, decode_gtp_detach_type_ie, count_gtp_detach_type_ie. solve_decodes v. Qed.

#[global] Instance gtp_detach_type_ie_format : WireFormat gtp_detach_type_ie_t :=
  fixed_format layout_gtp_detach_type_ie ok_gtp_detach_type_ie count_gtp_detach_type_ie encode_gtp_detach_type_ie decode_gtp_detach_type_ie 40 ltac:(reflexivity)
    layout_gtp_detach_type_ie_size encode_gtp_detach_type_ie_emits decode_gtp_detach_type_ie_decodes.

End gtp_detach_type_ie.

(** ** [gtp_mbms_svc_area_ie] *)

Module gtp_mbms_svc_area_ie.

Record gtp_mbms_svc_area_ie_t := {
  header : ie_header_t;
  mbms_svc_area : Z  (* uint8_t *)
}.

Definition encode_gtp_mbms_svc_area_ie (value : gtp_mbms_svc_area_ie_t) (buf : Z) : enc Z :=
  encoded <- ret 0;;
  encoded <- put_header value.(header) buf encoded;;
  encoded <- put_bits value.(mbms_svc_area) 8 buf encoded;;
  ret (encoded / CHAR_SIZE).

Definition decode_gtp_mbms_svc_area_ie (m : bytes) (buf : Z) : option (Z * gtp_mbms_svc_area_ie_t) :=
  run_dec (
  header <- get_header m buf;;
  mbms_svc_area <- get_bits m buf 8;;
  ret (header.(hdr_len) + IE_HEADER_SIZE,
      Build_gtp_mbms_svc_area_ie_t header mbms_svc_area)).

Definition layout_gtp_mbms_svc_area_ie (v : gtp_mbms_svc_area_ie_t) : list field :=
  [FHdr v.(header); FBits v.(mbms_svc_area) 8].

Definition ok_gtp_mbms_svc_area_ie (v : gtp_mbms_svc_area_ie_t) : Prop :=
  True.

Definition count_gtp_mbms_svc_area_ie (v : gtp_mbms_svc_area_ie_t) : Z := v.(header).(hdr_len) + IE_HEADER_SIZE.

Lemma layout_gtp_mbms_svc_area_ie_size v : ok_gtp_mbms_svc_area_ie v -> lsize (layout_gtp_mbms_svc_area_ie v) = 40.
Proof. unfold ok_gtp_mbms_svc_area_ie, layout_gtp_mbms_svc_area_ie. solve_size. Qed.

Lemma encode_gtp_mbms_svc_area_ie_emits v buf :
  ok_gtp_mbms_svc_area_ie v -> emits buf 0 (layout_gtp_mbms_svc_area_ie v) (encode_gtp_mbms_svc_area_ie v buf) (40 / 8).
Proof. unfold ok_gtp_mbms_svc_area_ie, layout_gtp_mbms_svc_area_ie, encode_gtp_mbms_svc_area_ie. solve_emits. Qed.

Lemma decode_gtp_mbms_svc_area_ie_decodes m buf v :
  ok_gtp_mbms_svc_area_ie v ->
  decodes m buf (layout_gtp_mbms_svc_area_ie v) (decode_gtp_mbms_svc_area_ie m buf) (count_gtp_mbms_svc_area_ie v, v).
Proof. unfold ok_gtp_mbms_svc_area_ie, layout_gtp_mbms_svc_area_ie, decode_gtp_mbms_svc_area_ie, count_gtp_mbms_svc_area_ie. solve_decodes v. Qed.

#[global] Instance gtp_mbms_svc_area_ie_format : WireFormat gtp_mbms_svc_area_ie_t :=
  fixed_format layout_gtp_mbms_svc_area_ie ok_gtp_mbms_svc_area_ie count_gtp_mbms_svc_area_ie encode_gtp_mbms_svc_area_ie decode_gtp_mbms_svc_area_ie 40 ltac:(reflexivity)
    layout_gtp_mbms_svc_area_ie_size encode_gtp_mbms_svc_area_ie_emits decode_gtp_mbms_svc_area_ie_decodes.

End gtp_mbms_svc_area_ie.

(** ** [gtp_chrgng_char_ie] *)

Module gtp_chrgng_char_ie.

Record gtp_chrgng_char_ie_t := {
  header : ie_header_t;
  chrgng_char_val : Z  (* uint16_t *)
}.

Definition encode_gtp_chrgng_char_ie (value : gtp_chrgng_char_ie_t) (buf : Z) : enc Z :=
  encoded <- ret 0;;
  encoded <- put_header value.(header) buf encoded;;
  encoded <- put_bits value.(chrgng_char_val) 16 buf encoded;;
  ret (encoded / CHAR_SIZE).

Definition decode_gtp_chrgng_char_ie (m : bytes) (buf : Z) : option (Z * gtp_chrgng_char_ie_t) :=
  run_dec (
  header <- get_header m buf;;
  chrgng_char_val <- get_bits m buf 16;;
  ret (header.(hdr_len) + IE_HEADER_SIZE,
      Build_gtp_chrgng_char_ie_t header chrgng_char_val)).

Definition layout_gtp_chrgng_char_ie (v : gtp_chrgng_char_ie_t) : list field :=
  [FHdr v.(header); FBits v.(chrgng_char_val) 16].

Definition ok_gtp_chrgng_char_ie (v : gtp_chrgng_char_ie_t) : Prop :=
  True.

Definition count_gtp_chrgng_char_ie (v : gtp_chrgng_char_ie_t) : Z := v.(header).(hdr_len) + IE_HEADER_SIZE.

Lemma layout_gtp_chrgng_char_ie_size v : ok_gtp_chrgng_char_ie v -> lsize (layout_gtp_chrgng_char_ie v) = 48.
Proof. unfold ok_gtp_chrgng_char_ie, layout_gtp_chrgng_char_ie. solve_size. Qed.

Lemma encode_gtp_chrgng_char_ie_emits v buf :
  ok_gtp_chrgng_char_ie v -> emits buf 0 (layout_gtp_chrgng_char_ie v) (encode_gtp_chrgng_char_ie v buf) (48 / 8).
Proof. unfold ok_gtp_chrgng_char_ie, layout_gtp_chrgng_char_ie, encode_gtp_chrgng_char_ie. solve_emits. Qed.

Lemma decode_gtp_chrgng_char_ie_decodes m buf v :
  ok_gtp_chrgng_char_ie v ->
  decodes m buf (layout_gtp_chrgng_char_ie v) (decode_gtp_chrgng_char_ie m buf) (count_gtp_chrgng_char_ie v, v).
Proof. unfold ok_gtp_chrgng_char_ie, layout_gtp_chrgng_char_ie, decode_gtp_chrgng_char_ie, count_gtp_chrgng_char_ie. solve_decodes v. Qed.

#[global] Instance gtp_chrgng_char_ie_format : WireFormat gtp_chrgng_char_ie_t :=
  fixed_format layout_gtp_chrgng_char_ie ok_gtp_chrgng_char_ie count_gtp_chrgng_char_ie encode_gtp_chrgng_char_ie decode_gtp_chrgng_char_ie 48 ltac:(reflexivity)
    layout_gtp_chrgng_char_ie_size encode_gtp_chrgng_char_ie_emits decode_gtp_chrgng_char_ie_decodes.

End gtp_chrgng_char_ie.

(** ** [gtp_henb_info_rptng_ie] *)

Module gtp_henb_info_rptng_ie.

Record gtp_henb_info_rptng_ie_t := {
  header : ie_header_t;
  spare2 : Z;  (* uint8_t :7 *)
  fti : Z  (* uint8_t :1 *)
}.

Definition encode_gtp_henb_info_rptng_ie (value : gtp_henb_info_rptng_ie_t) (buf : Z) : enc Z :=
  encoded <- ret 0;;
  encoded <- put_header value.(header) buf encoded;;
  encoded <- put_bits value.(spare2) 7 buf encoded;;
  encoded <- put_bits value.(fti) 1 buf encoded;;
  ret (encoded / CHAR_SIZE).

Definition decode_gtp_henb_info_rptng_ie (m : bytes) (buf : Z) : option (Z * gtp_henb_info_rptng_ie_t) :=
  run_dec (
  header <- get_header m buf;;
  spare2 <- get_bits m buf 7;;
  fti <- get_bits m buf 1;;
  ret (header.(hdr_len) + IE_HEADER_SIZE,
      Build_gtp_henb_info_rptng_ie_t header spare2 fti)).

Definition layout_gtp_henb_info_rptng_ie (v : gtp_henb_info_rptng_ie_t) : list field :=
  [FHdr v.(header); FBits v.(spare2) 7; FBits v.(fti) 1].

Definition ok_gtp_henb_info_rptng_ie (v : gtp_henb_info_rptng_ie_t) : Prop :=
  True.

Definition count_gtp_henb_info_rptng_ie (v : gtp_henb_info_rptng_ie_t) : Z := v.(header).(hdr_len) + IE_HEADER_SIZE.

Lemma layout_gtp_henb_info_rptng_ie_size v : ok_gtp_henb_info_rptng_ie v -> lsize (layout_gtp_henb_info_rptng_ie v) = 40.
Proof. unfold ok_gtp_henb_info_rptng_ie, layout_gtp_henb_info_rptng_ie. solve_size. Qed.

Lemma encode_gtp_henb_info_rptng_ie_emits v buf :
  ok_gtp_henb_info_rptng_ie v -> emits buf 0 (layout_gtp_henb_info_rptng_ie v) (encode_gtp_henb_info_rptng_ie v buf) (40 / 8).
Proof. unfold ok_gtp_henb_info_rptng_ie, layout_gtp_henb_info_rptng_ie, encode_gtp_henb_info_rptng_ie. solve_emits. Qed.

Lemma decode_gtp_henb_info_rptng_ie_decodes m buf v :
  ok_gtp_henb_info_rptng_ie v ->
  decodes m buf (layout_gtp_henb_info_rptng_ie v) (decode_gtp_henb_info_rptng_ie m buf) (count_gtp_henb_info_rptng_ie v, v).
Proof. unfold ok_gtp_henb_info_rptng_ie, layout_gtp_henb_info_rptng_ie, decode_gtp_henb_info_rptng_ie, count_gtp_henb_info_rptng_ie. solve_decodes v. Qed.

#[global] Instance gtp_henb_info_rptng_ie_format : WireFormat gtp_henb_info_rptng_ie_t :=
  fixed_format layout_gtp_henb_info_rptng_ie ok_gtp_henb_info_rptng_ie count_gtp_henb_info_rptng_ie encode_gtp_henb_info_rptng_ie decode_gtp_henb_info_rptng_ie 40 ltac:(reflexivity)
    layout_gtp_henb_info_rptng_ie_size encode_gtp_henb_info_rptng_ie_emits decode_gtp_henb_info_rptng_ie_decodes.

End gtp_henb_info_rptng_ie.

(** ** [gtp_throttling_ie] *)

Module gtp_throttling_ie.

Record gtp_throttling_ie_t := {
  header : ie_header_t;
  thrtlng_delay_unit : Z;  (* uint8_t :3 *)
  thrtlng_delay_val : Z;  (* uint8_t :5 *)
  thrtlng_factor : Z  (* uint8_t *)
}.

Definition encode_gtp_throttling_ie (value : gtp_throttling_ie_t) (buf : Z) : enc Z :=
  encoded <- ret 0;;
  encoded <- put_header value.(header) buf encoded;;
  encoded <- put_bits value.(thrtlng_delay_unit) 3 buf encoded;;
  encoded <- put_bits value.(thrtlng_delay_val) 5 buf encoded;;
  encoded <- put_bits value.(thrtlng_factor) 8 buf encoded;;
  ret (encoded / CHAR_SIZE).

Definition decode_gtp_throttling_ie (m : bytes) (buf : Z) : option (Z * gtp_throttling_ie_t) :=
  run_dec (
  header <- get_header m buf;;
  thrtlng_delay_unit <- get_bits m buf 3;;
  thrtlng_delay_val <- get_bits m buf 5;;
  thrtlng_factor <- get_bits m buf 8;;
  ret (header.(hdr_len) + IE_HEADER_SIZE,
      Build_gtp_throttling_ie_t header thrtlng_delay_unit thrtlng_delay_val thrtlng_factor)).

Definition layout_gtp_throttling_ie (v : gtp_throttling_ie_t) : list field :=
  [FHdr v.(header); FBits v.(thrtlng_delay_unit) 3; FBits v.(thrtlng_delay_val) 5;
   FBits v.(thrtlng_factor) 8].

Definition ok_gtp_throttling_ie (v : gtp_throttling_ie_t) : Prop :=
  True.

Definition count_gtp_throttling_ie (v : gtp_throttling_ie_t) : Z := v.(header).(hdr_len) + IE_HEADER_SIZE.

Lemma layout_gtp_throttling_ie_size v : ok_gtp_throttling_ie v -> lsize (layout_gtp_throttling_ie v) = 48.
Proof. unfold ok_gtp_throttling_ie, layout_gtp_throttling_ie. solve_size. Qed.

Lemma encode_gtp_throttling_ie_emits v buf :
  ok_gtp_throttling_ie v -> emits buf 0 (layout_gtp_throttling_ie v) (encode_gtp_throttling_ie v buf) (48 / 8).
Proof. unfold ok_gtp_throttling_ie, layout_gtp_throttling_ie, encode_gtp_throttling_ie. solve_emits. Qed.

Lemma decode_gtp_throttling_ie_decodes m buf v :
  ok_gtp_throttling_ie v ->
  decodes m buf (layout_gtp_throttling_ie v) (decode_gtp_throttling_ie m buf) (count_gtp_throttling_ie v, v).
Proof. unfold ok_gtp_throttling_ie, layout_gtp_throttling_ie, decode_gtp_throttling_ie, count_gtp_throttling_ie. solve_decodes v. Qed.

#[global] Instance gtp_throttling_ie_format : WireFormat gtp_throttling_ie_t :=
  fixed_format layout_gtp_throttling_ie ok_gtp_throttling_ie count_gtp_throttling_ie encode_gtp_throttling_ie decode_gtp_throttling_ie 48 ltac:(reflexivity)
    layout_gtp_throttling_ie_size encode_gtp_throttling_ie_emits decode_gtp_throttling_ie_decodes.

End gtp_throttling_ie.

(** ** [gtp_csg_memb_indctn_ie] *)

Module gtp_csg_memb_indctn_ie.

Record gtp_csg_memb_indctn_ie_t := {
  header : ie_header_t;
  csg_memb_indctn_spare2 : Z;  (* uint8_t :7 *)
  csg_memb_indctn_cmi : Z  (* uint8_t :1 *)
}.

Definition encode_gtp_csg_memb_indctn_ie (value : gtp_csg_memb_indctn_ie_t) (buf : Z) : enc Z :=
  encoded <- ret 0;;
  encoded <- put_header value.(header) buf encoded;;
  encoded <- put_bits value.(csg_memb_indctn_spare2) 7 buf encoded;;
  encoded <- put_bits value.(csg_memb_indctn_cmi) 1 buf encoded;;
  ret (encoded / CHAR_SIZE).

Definition decode_gtp_csg_memb_indctn_ie (m : bytes) (buf : Z) : option (Z * gtp_csg_memb_indctn_ie_t) :=
  run_dec (
  header <- get_header m buf;;
  csg_memb_indctn_spare2 <- get_bits m buf 7;;
  csg_memb_indctn_cmi <- get_bits m buf 1;;
  ret (header.(hdr_len) + IE_HEADER_SIZE,
      Build_gtp_csg_memb_indctn_ie_t header csg_memb_indctn_spare2 csg_memb_indctn_cmi)).

Definition layout_gtp_csg_memb_indctn_ie (v : gtp_csg_memb_indctn_ie_t) : list field :=
  [FHdr v.(header); FBits v.(csg_memb_indctn_spare2) 7; FBits v.(csg_memb_indctn_cmi) 1].

Definition ok_gtp_csg_memb_indctn_ie (v : gtp_csg_memb_indctn_ie_t) : Prop :=
  True.

Definition count_gtp_csg_memb_indctn_ie (v : gtp_csg_memb_indctn_ie_t) : Z := v.(header).(hdr_len) + IE_HEADER_SIZE.

Lemma layout_gtp_csg_memb_indctn_ie_size v : ok_gtp_csg_memb_indctn_ie v -> lsize (layout_gtp_csg_memb_indctn_ie v) = 40.
Proof. unfold ok_gtp_csg_memb_indctn_ie, layout_gtp_csg_memb_indctn_ie. solve_size. Qed.

Lemma encode_gtp_csg_memb_indctn_ie_emits v buf :
  ok_gtp_csg_memb_indctn_ie v -> emits buf 0 (layout_gtp_csg_memb_indctn_ie v) (encode_gtp_csg_memb_indctn_ie v buf) (40 / 8).
Proof. unfold ok_gtp_csg_memb_indctn_ie, layout_gtp_csg_memb_indctn_ie, encode_gtp_csg_memb_indctn_ie. solve_emits. Qed.

Lemma decode_gtp_csg_memb_indctn_ie_decodes m buf v :
  ok_gtp_csg_memb_indctn_ie v ->
  decodes m buf (layout_gtp_csg_memb_indctn_ie v) (decode_gtp_csg_memb_indctn_ie m buf) (count_gtp_csg_memb_indctn_ie v, v).
Proof. unfold ok_gtp_csg_memb_indctn_ie, layout_gtp_csg_memb_indctn_ie, decode_gtp_csg_memb_indctn_ie, count_gtp_csg_memb_indctn_ie. solve_decodes v. Qed.

#[global] Instance gtp_csg_memb_indctn_ie_format : WireFormat gtp_csg_memb_indctn_ie_t :=
  fixed_format layout_gtp_csg_memb_indctn_ie ok_gtp_csg_memb_indctn_ie count_gtp_csg_memb_indctn_ie encode_gtp_csg_memb_indctn_ie decode_gtp_csg_memb_indctn_ie 40 ltac:(reflexivity)
    layout_gtp_csg_memb_indctn_ie_size encode_gtp_csg_memb_indctn_ie_emits decode_gtp_csg_memb_indctn_ie_decodes.

End gtp_csg_memb_indctn_ie.

(** ** [gtp_src_rnc_pdcp_ctxt_info_ie] *)

Module gtp_src_rnc_pdcp_ctxt_info_ie.

Record gtp_src_rnc_pdcp_ctxt_info_ie_t := {
  header : ie_header_t;
  rrc_container : Z  (* uint8_t *)
}.

Definition encode_gtp_src_rnc_pdcp_ctxt_info_ie (value : gtp_src_rnc_pdcp_ctxt_info_ie_t) (buf : Z) : enc Z :=
  encoded <- ret 0;;
  encoded <- put_header value.(header) buf encoded;;
  encoded <- put_bits value.(rrc_container) 8 buf encoded;;
  ret (encoded / CHAR_SIZE).

Definition decode_gtp_src_rnc_pdcp_ctxt_info_ie (m : bytes) (buf : Z) : option (Z * gtp_src_rnc_pdcp_ctxt_info_ie_t) :=
  run_dec (
  header <- get_header m buf;;
  rrc_container <- get_bits m buf 8;;
  ret (header.(hdr_len) + IE_HEADER_SIZE,
      Build_gtp_src_rnc_pdcp_ctxt_info_ie_t header rrc_container)).

Definition layout_gtp_src_rnc_pdcp_ctxt_info_ie (v : gtp_src_rnc_pdcp_ctxt_info_ie_t) : list field :=
  [FHdr v.(header); FBits v.(rrc_container) 8].

Definition ok_gtp_src_rnc_pdcp_ctxt_info_ie (v : gtp_src_rnc_pdcp_ctxt_info_ie_t) : Prop :=
  True.

Definition count_gtp_src_rnc_pdcp_ctxt_info_ie (v : gtp_src_rnc_pdcp_ctxt_info_ie_t) : Z := v.(header).(hdr_len) + IE_HEADER_SIZE.

Lemma layout_gtp_src_rnc_pdcp_ctxt_info_ie_size v : ok_gtp_src_rnc_pdcp_ctxt_info_ie v -> lsize (layout_gtp_src_rnc_pdcp_ctxt_info_ie v) = 40.
Proof. unfold ok_gtp_src_rnc_pdcp_ctxt_info_ie, layout_gtp_src_rnc_pdcp_ctxt_info_ie. solve_size. Qed.

Lemma encode_gtp_src_rnc_pdcp_ctxt_info_ie_emits v buf :
  ok_gtp_src_rnc_pdcp_ctxt_info_ie v -> emits buf 0 (layout_gtp_src_rnc_pdcp_ctxt_info_ie v) (encode_gtp_src_rnc_pdcp_ctxt_info_ie v buf) (40 / 8).
Proof. unfold ok_gtp_src_rnc_pdcp_ctxt_info_ie, layout_gtp_src_rnc_pdcp_ctxt_info_ie, encode_gtp_src_rnc_pdcp_ctxt_info_ie. solve_emits. Qed.

Lemma decode_gtp_src_rnc_pdcp_ctxt_info_ie_decodes m buf v :
  ok_gtp_src_rnc_pdcp_ctxt_info_ie v ->
  decodes m buf (layout_gtp_src_rnc_pdcp_ctxt_info_ie v) (decode_gtp_src_rnc_pdcp_ctxt_info_ie m buf) (count_gtp_src_rnc_pdcp_ctxt_info_ie v, v).
Proof. unfold ok_gtp_src_rnc_pdcp_ctxt_info_ie, layout_gtp_src_rnc_pdcp_ctxt_info_ie, decode_gtp_src_rnc_pdcp_ctxt_info_ie, count_gtp_src_rnc_pdcp_ctxt_info_ie. solve_decodes v. Qed.

#[global] Instance gtp_src_rnc_pdcp_ctxt_info_ie_format : WireFormat gtp_src_rnc_pdcp_ctxt_info_ie_t :=
  fixed_format layout_gtp_src_rnc_pdcp_ctxt_info_ie ok_gtp_src_rnc_pdcp_ctxt_info_ie count_gtp_src_rnc_pdcp_ctxt_info_ie encode_gtp_src_rnc_pdcp_ctxt_info_ie decode_gtp_src_rnc_pdcp_ctxt_info_ie 40 ltac:(reflexivity)
    layout_gtp_src_rnc_pdcp_ctxt_info_ie_size encode_gtp_src_rnc_pdcp_ctxt_info_ie_emits decode_gtp_src_rnc_pdcp_ctxt_info_ie_decodes.

End gtp_src_rnc_pdcp_ctxt_info_ie.

(** ** [gtp_hop_counter_ie] *)

Module gtp_hop_counter_ie.

Record gtp_hop_counter_ie_t := {
  header : ie_header_t;
  hop_counter : Z  (* uint8_t *)
}.

Definition encode_gtp_hop_counter_ie (value : gtp_hop_counter_ie_t) (buf : Z) : enc Z :=
  encoded <- ret 0;;
  encoded <- put_header value.(header) buf encoded;;
  encoded <- put_bits value.(hop_counter) 8 buf encoded;;
  ret (encoded / CHAR_SIZE).

Definition decode_gtp_hop_counter_ie (m : bytes) (buf : Z) : option (Z * gtp_hop_counter_ie_t) :=
  run_dec (
  header <- get_header m buf;;
  hop_counter <- get_bits m buf 8;;
  ret (header.(hdr_len) + IE_HEADER_SIZE,
      Build_gtp_hop_counter_ie_t header hop_counter)).

Definition layout_gtp_hop_counter_ie (v : gtp_hop_counter_ie_t) : list field :=
  [FHdr v.(header); FBits v.(hop_counter) 8].

Definition ok_gtp_hop_counter_ie (v : gtp_hop_counter_ie_t) : Prop :=
  True.

Definition count_gtp_hop_counter_ie (v : gtp_hop_counter_ie_t) : Z := v.(header).(hdr_len) + IE_HEADER_SIZE.

Lemma layout_gtp_hop_counter_ie_size v : ok_gtp_hop_counter_ie v -> lsize (layout_gtp_hop_counter_ie v) = 40.
Proof. unfold ok_gtp_hop_counter_ie, layout_gtp_hop_counter_ie. solve_size. Qed.

Lemma encode_gtp_hop_counter_ie_emits v buf :
  ok_gtp_hop_counter_ie v -> emits buf 0 (layout_gtp_hop_counter_ie v) (encode_gtp_hop_counter_ie v buf) (40 / 8).
Proof. unfold ok_gtp_hop_counter_ie, layout_gtp_hop_counter_ie, encode_gtp_hop_counter_ie. solve_emits. Qed.

Lemma decode_gtp_hop_counter_ie_decodes m buf v :
  ok_gtp_hop_counter_ie v ->
  decodes m buf (layout_gtp_hop_counter_ie v) (decode_gtp_hop_counter_ie m buf) (count_gtp_hop_counter_ie v, v).
Proof. unfold ok_gtp_hop_counter_ie, layout_gtp_hop_counter_ie, decode_gtp_hop_counter_ie, count_gtp_hop_counter_ie. solve_decodes v. Qed.

#[global] Instance gtp_hop_counter_ie_format : WireFormat gtp_hop_counter_ie_t :=
  fixed_format layout_gtp_hop_counter_ie ok_gtp_hop_counter_ie count_gtp_hop_counter_ie encode_gtp_hop_counter_ie decode_gtp_hop_counter_ie 40 ltac:(reflexivity)
    layout_gtp_hop_counter_ie_size encode_gtp_hop_counter_ie_emits decode_gtp_hop_counter_ie_decodes.

End gtp_hop_counter_ie.

(** ** [gtp_pres_rptng_area_info_ie] *)

Module gtp_pres_rptng_area_info_ie.

Record gtp_pres_rptng_area_info_ie_t := {
  header : ie_header_t;
  pra_identifier : Z;  (* uint32_t :24 *)
  spare2 : Z;  (* uint8_t :4 *)
  inapra : Z;  (* uint8_t :1 *)
  apra : Z;  (* uint8_t :1 *)
  opra : Z;  (* uint8_t :1 *)
  ipra : Z  (* uint8_t :1 *)
}.

Definition encode_gtp_pres_rptng_area_info_ie (value : gtp_pres_rptng_area_info_ie_t) (buf : Z) : enc Z :=
  encoded <- ret 0;;
  encoded <- put_header value.(header) buf encoded;;
  encoded <- put_bits value.(pra_identifier) 24 buf encoded;;
  encoded <- put_bits value.(spare2) 4 buf encoded;;
  encoded <- put_bits value.(inapra) 1 buf encoded;;
  encoded <- put_bits value.(apra) 1 buf encoded;;
  encoded <- put_bits value.(opra) 1 buf encoded;;
  encoded <- put_bits value.(ipra) 1 buf encoded;;
  ret (encoded / CHAR_SIZE).

Definition decode_gtp_pres_rptng_area_info_ie (m : bytes) (buf : Z) : option (Z * gtp_pres_rptng_area_info_ie_t) :=
  run_dec (
  header <- get_header m buf;;
  pra_identifier <- get_bits m buf 24;;
  spare2 <- get_bits m buf 4;;
  inapra <- get_bits m buf 1;;
  apra <- get_bits m buf 1;;
  opra <- get_bits m buf 1;;
  ipra <- get_bits m buf 1;;
  ret (header.(hdr_len) + IE_HEADER_SIZE,
      Build_gtp_pres_rptng_area_info_ie_t header pra_identifier spare2 inapra apra opra ipra)).

Definition layout_gtp_pres_rptng_area_info_ie (v : gtp_pres_rptng_area_info_ie_t) : list field :=
  [FHdr v.(header); FBits v.(pra_identifier) 24; FBits v.(spare2) 4; FBits v.(inapra) 1;
   FBits v.(apra) 1; FBits v.(opra) 1; FBits v.(ipra) 1].

Definition ok_gtp_pres_rptng_area_info_ie (v : gtp_pres_rptng_area_info_ie_t) : Prop :=
  True.

Definition count_gtp_pres_rptng_area_info_ie (v : gtp_pres_rptng_area_info_ie_t) : Z := v.(header).(hdr_len) + IE_HEADER_SIZE.

Lemma layout_gtp_pres_rptng_area_info_ie_size v : ok_gtp_pres_rptng_area_info_ie v -> lsize (layout_gtp_pres_rptng_area_info_ie v) = 64.
Proof. unfold ok_gtp_pres_rptng_area_info_ie, layout_gtp_pres_rptng_area_info_ie. solve_size. Qed.

Lemma encode_gtp_pres_rptng_area_info_ie_emits v buf :
  ok_gtp_pres_rptng_area_info_ie v -> emits buf 0 (layout_gtp_pres_rptng_area_info_ie v) (encode_gtp_pres_rptng_area_info_ie v buf) (64 / 8).
Proof. unfold ok_gtp_pres_rptng_area_info_ie, layout_gtp_pres_rptng_area_info_ie, encode_gtp_pres_rptng_area_info_ie. solve_emits. Qed.

Lemma decode_gtp_pres_rptng_area_info_ie_decodes m buf v :
  ok_gtp_pres_rptng_area_info_ie v ->
  decodes m buf (layout_gtp_pres_rptng_area_info_ie v) (decode_gtp_pres_rptng_area_info_ie m buf) (count_gtp_pres_rptng_area_info_ie v, v).
Proof. unfold ok_gtp_pres_rptng_area_info_ie, layout_gtp_pres_rptng_area_info_ie, decode_gtp_pres_rptng_area_info_ie, count_gtp_pres_rptng_area_info_ie. solve_decodes v. Qed.

#[global] Instance gtp_pres_rptng_area_info_ie_format : WireFormat gtp_pres_rptng_area_info_ie_t :=
  fixed_format layout_gtp_pres_rptng_area_info_ie ok_gtp_pres_rptng_area_info_ie count_gtp_pres_rptng_area_info_ie encode_gtp_pres_rptng_area_info_ie decode_gtp_pres_rptng_area_info_ie 64 ltac:(reflexivity)
    layout_gtp_pres_rptng_area_info_ie_size encode_gtp_pres_rptng_area_info_ie_emits decode_gtp_pres_rptng_area_info_ie_decodes.

End gtp_pres_rptng_area_info_ie.

(** ** [gtp_mbms_sess_idnt_ie] *)

Module gtp_mbms_sess_idnt_ie.

Record gtp_mbms_sess_idnt_ie_t := {
  header : ie_header_t;
  mbms_sess_idnt : Z  (* uint8_t *)
}.

Definition encode_gtp_mbms_sess_idnt_ie (value : gtp_mbms_sess_idnt_ie_t) (buf : Z) : enc Z :=
  encoded <- ret 0;;
  encoded <- put_header value.(header) buf encoded;;
  encoded <- put_bits value.(mbms_sess_idnt) 8 buf encoded;;
  ret (encoded / CHAR_SIZE).

Definition decode_gtp_mbms_sess_idnt_ie (m : bytes) (buf : Z) : option (Z * gtp_mbms_sess_idnt_ie_t) :=
  run_dec (
  header <- get_header m buf;;
  mbms_sess_idnt <- get_bits m buf 8;;
  ret (header.(hdr_len) + IE_HEADER_SIZE,
      Build_gtp_mbms_sess_idnt_ie_t header mbms_sess_idnt)).

Definition layout_gtp_mbms_sess_idnt_ie (v : gtp_mbms_sess_idnt_ie_t) : list field :=
  [FHdr v.(header); FBits v.(mbms_sess_idnt) 8].

Definition ok_gtp_mbms_sess_idnt_ie (v : gtp_mbms_sess_idnt_ie_t) : Prop :=
  True.

Definition count_gtp_mbms_sess_idnt_ie (v : gtp_mbms_sess_idnt_ie_t) : Z := v.(header).(hdr_len) + IE_HEADER_SIZE.

Lemma layout_gtp_mbms_sess_idnt_ie_size v : ok_gtp_mbms_sess_idnt_ie v -> lsize (layout_gtp_mbms_sess_idnt_ie v) = 40.
Proof. unfold ok_gtp_mbms_sess_idnt_ie, layout_gtp_mbms_sess_idnt_ie. solve_size. Qed.

Lemma encode_gtp_mbms_sess_idnt_ie_emits v buf :
  ok_gtp_mbms_sess_idnt_ie v -> emits buf 0 (layout_gtp_mbms_sess_idnt_ie v) (encode_gtp_mbms_sess_idnt_ie v buf) (40 / 8).
Proof. unfold ok_gtp_mbms_sess_idnt_ie, layout_gtp_mbms_sess_idnt_ie, encode_gtp_mbms_sess_idnt_ie. solve_emits. Qed.

Lemma decode_gtp_mbms_sess_idnt_ie_decodes m buf v :
  ok_gtp_mbms_sess_idnt_ie v ->
  decodes m buf (layout_gtp_mbms_sess_idnt_ie v) (decode_gtp_mbms_sess_idnt_ie m buf) (count_gtp_mbms_sess_idnt_ie v, v).
Proof. unfold ok_gtp_mbms_sess_idnt_ie, layout_gtp_mbms_sess_idnt_ie, decode_gtp_mbms_sess_idnt_ie, count_gtp_mbms_sess_idnt_ie. solve_decodes v. Qed.

#[global] Instance gtp_mbms_sess_idnt_ie_format : WireFormat gtp_mbms_sess_idnt_ie_t :=
  fixed_format layout_gtp_mbms_sess_idnt_ie ok_gtp_mbms_sess_idnt_ie count_gtp_mbms_sess_idnt_ie encode_gtp_mbms_sess_idnt_ie decode_gtp_mbms_sess_idnt_ie 40 ltac:(reflexivity)
    layout_gtp_mbms_sess_idnt_ie_size encode_gtp_mbms_sess_idnt_ie_emits decode_gtp_mbms_sess_idnt_ie_decodes.

End gtp_mbms_sess_idnt_ie.

(** ** [gtp_apn_and_rltv_cap_ie] *)

Module gtp_apn_and_rltv_cap_ie.

Record gtp_apn_and_rltv_cap_ie_t := {
  header : ie_header_t;
  rltv_cap : Z;  (* uint8_t *)
  apn_length : Z;  (* uint8_t *)
  apn : Z  (* uint8_t *)
}.

Definition encode_gtp_apn_and_rltv_cap_ie (value : gtp_apn_and_rltv_cap_ie_t) (buf : Z) : enc Z :=
  encoded <- ret 0;;
  encoded <- put_header value.(header) buf encoded;;
  encoded <- put_bits value.(rltv_cap) 8 buf encoded;;
  encoded <- put_bits value.(apn_length) 8 buf encoded;;
  encoded <- put_bits value.(apn) 8 buf encoded;;
  ret (encoded / CHAR_SIZE).

Definition decode_gtp_apn_and_rltv_cap_ie (m : bytes) (buf : Z) : option (Z * gtp_apn_and_rltv_cap_ie_t) :=
  run_dec (
  header <- get_header m buf;;
  rltv_cap <- get_bits m buf 8;;
  apn_length <- get_bits m buf 8;;
  apn <- get_bits m buf 8;;
  ret (header.(hdr_len) + IE_HEADER_SIZE,
      Build_gtp_apn_and_rltv_cap_ie_t header rltv_cap apn_length apn)).

Definition layout_gtp_apn_and_rltv_cap_ie (v : gtp_apn_and_rltv_cap_ie_t) : list field :=
  [FHdr v.(header); FBits v.(rltv_cap) 8; FBits v.(apn_length) 8; FBits v.(apn) 8].

Definition ok_gtp_apn_and_rltv_cap_ie (v : gtp_apn_and_rltv_cap_ie_t) : Prop :=
  True.

Definition count_gtp_apn_and_rltv_cap_ie (v : gtp_apn_and_rltv_cap_ie_t) : Z := v.(header).(hdr_len) + IE_HEADER_SIZE.

Lemma layout_gtp_apn_and_rltv_cap_ie_size v : ok_gtp_apn_and_rltv_cap_ie v -> lsize (layout_gtp_apn_and_rltv_cap_ie v) = 56.
Proof. unfold ok_gtp_apn_and_rltv_cap_ie, layout_gtp_apn_and_rltv_cap_ie. solve_size. Qed.

Lemma encode_gtp_apn_and_rltv_cap_ie_emits v buf :
  ok_gtp_apn_and_rltv_cap_ie v -> emits buf 0 (layout_gtp_apn_and_rltv_cap_ie v) (encode_gtp_apn_and_rltv_cap_ie v buf) (56 / 8).
Proof. unfold ok_gtp_apn_and_rltv_cap_ie, layout_gtp_apn_and_rltv_cap_ie, encode_gtp_apn_and_rltv_cap_ie. solve_emits. Qed.

Lemma decode_gtp_apn_and_rltv_cap_ie_decodes m buf v :
  ok_gtp_apn_and_rltv_cap_ie v ->
  decodes m buf (layout_gtp_apn_and_rltv_cap_ie v) (decode_gtp_apn_and_rltv_cap_ie m buf) (count_gtp_apn_and_rltv_cap_ie v, v).
Proof. unfold ok_gtp_apn_and_rltv_cap_ie, layout_gtp_apn_and_rltv_cap_ie, decode_gtp_apn_and_rltv_cap_ie, count_gtp_apn_and_rltv_cap_ie. solve_decodes v. Qed.

#[global] Instance gtp_apn_and_rltv_cap_ie_format : WireFormat gtp_apn_and_rltv_cap_ie_t :=
  fixed_format layout_gtp_apn_and_rltv_cap_ie ok_gtp_apn_and_rltv_cap_ie count_gtp_apn_and_rltv_cap_ie encode_gtp_apn_and_rltv_cap_ie decode_gtp_apn_and_rltv_cap_ie 56 ltac:(reflexivity)
    layout_gtp_apn_and_rltv_cap_ie_size encode_gtp_apn_and_rltv_cap_ie_emits decode_gtp_apn_and_rltv_cap_ie_decodes.

End gtp_apn_and_rltv_cap_ie.

(** ** [gtp_selection_mode_ie] *)

Module gtp_selection_mode_ie.

Record gtp_selection_mode_ie_t := {
  header : ie_header_t;
  spare2 : Z;  (* uint8_t :6 *)
  selec_mode : Z  (* uint8_t :2 *)
}.

Definition encode_gtp_selection_mode_ie (value : gtp_selection_mode_ie_t) (buf : Z) : enc Z :=
  encoded <- ret 0;;
  encoded <- put_header value.(header) buf encoded;;
  encoded <- put_bits value.(spare2) 6 buf encoded;;
  encoded <- put_bits value.(selec_mode) 2 buf encoded;;
  ret (encoded / CHAR_SIZE).

Definition decode_gtp_selection_mode_ie (m : bytes) (buf : Z) : option (Z * gtp_selection_mode_ie_t) :=
  run_dec (
  header <- get_header m buf;;
  spare2 <- get_bits m buf 6;;
  selec_mode <- get_bits m buf 2;;
  ret (header.(hdr_len) + IE_HEADER_SIZE,
      Build_gtp_selection_mode_ie_t header spare2 selec_mode)).

Definition layout_gtp_selection_mode_ie (v : gtp_selection_mode_ie_t) : list field :=
  [FHdr v.(header); FBits v.(spare2) 6; FBits v.(selec_mode) 2].

Definition ok_gtp_selection_mode_ie (v : gtp_selection_mode_ie_t) : Prop :=
  True.

Definition count_gtp_selection_mode_ie (v : gtp_selection_mode_ie_t) : Z := v.(header).(hdr_len) + IE_HEADER_SIZE.

Lemma layout_gtp_selection_mode_ie_size v : ok_gtp_selection_mode_ie v -> lsize (layout_gtp_selection_mode_ie v) = 40.
Proof. unfold ok_gtp_selection_mode_ie, layout_gtp_selection_mode_ie. solve_size. Qed.

Lemma encode_gtp_selection_mode_ie_emits v buf :
  ok_gtp_selection_mode_ie v -> emits buf 0 (layout_gtp_selection_mode_ie v) (encode_gtp_selection_mode_ie v buf) (40 / 8).
Proof. unfold ok_gtp_selection_mode_ie, layout_gtp_selection_mode_ie, encode_gtp_selection_mode_ie. solve_emits. Qed.

Lemma decode_gtp_selection_mode_ie_decodes m buf v :
  ok_gtp_selection_mode_ie v ->
  decodes m buf (layout_gtp_selection_mode_ie v) (decode_gtp_selection_mode_ie m buf) (count_gtp_selection_mode_ie v, v).
Proof. unfold ok_gtp_selection_mode_ie, layout_gtp_selection_mode_ie, decode_gtp_selection_mode_ie, count_gtp_selection_mode_ie. solve_decodes v. Qed.

#[global] Instance gtp_selection_mode_ie_format : WireFormat gtp_selection_mode_ie_t :=
  fixed_format layout_gtp_selection_mode_ie ok_gtp_selection_mode_ie count_gtp_selection_mode_ie encode_gtp_selection_mode_ie decode_gtp_selection_mode_ie 40 ltac:(reflexivity)
    layout_gtp_selection_mode_ie_size encode_gtp_selection_mode_ie_emits decode_gtp_selection_mode_ie_decodes.

End gtp_selection_mode_ie.

(** ** [gtp_up_func_sel_indctn_flgs_ie] *)

Module gtp_up_func_sel_indctn_flgs_ie.

Record gtp_up_func_sel_indctn_flgs_ie_t := {
  header : ie_header_t;
  spare2 : Z;  (* uint8_t :7 *)
  dcnr : Z  (* uint8_t :1 *)
}.

Definition encode_gtp_up_func_sel_indctn_flgs_ie (value : gtp_up_func_sel_indctn_flgs_ie_t) (buf : Z) : enc Z :=
  encoded <- ret 0;;
  encoded <- put_header value.(header) buf encoded;;
  encoded <- put_bits value.(spare2) 7 buf encoded;;
  encoded <- put_bits value.(dcnr) 1 buf encoded;;
  ret (encoded / CHAR_SIZE).

Definition decode_gtp_up_func_sel_indctn_flgs_ie (m : bytes) (buf : Z) : option (Z * gtp_up_func_sel_indctn_flgs_ie_t) :=
  run_dec (
  header <- get_header m buf;;
  spare2 <- get_bits m buf 7;;
  dcnr <- get_bits m buf 1;;
  ret (header.(hdr_len) + IE_HEADER_SIZE,
      Build_gtp_up_func_sel_indctn_flgs_ie_t header spare2 dcnr)).

Definition layout_gtp_up_func_sel_indctn_flgs_ie (v : gtp_up_func_sel_indctn_flgs_ie_t) : list field :=
  [FHdr v.(header); FBits v.(spare2) 7; FBits v.(dcnr) 1].

Definition ok_gtp_up_func_sel_indctn_flgs_ie (v : gtp_up_func_sel_indctn_flgs_ie_t) : Prop :=
  True.

Definition count_gtp_up_func_sel_indctn_flgs_ie (v : gtp_up_func_sel_indctn_flgs_ie_t) : Z := v.(header).(hdr_len) + IE_HEADER_SIZE.

Lemma layout_gtp_up_func_sel_indctn_flgs_ie_size v : ok_gtp_up_func_sel_indctn_flgs_ie v -> lsize (layout_gtp_up_func_sel_indctn_flgs_ie v) = 40.
Proof. unfold ok_gtp_up_func_sel_indctn_flgs_ie, layout_gtp_up_func_sel_indctn_flgs_ie. solve_size. Qed.

Lemma encode_gtp_up_func_sel_indctn_flgs_ie_emits v buf :
  ok_gtp_up_func_sel_indctn_flgs_ie v -> emits buf 0 (layout_gtp_up_func_sel_indctn_flgs_ie v) (encode_gtp_up_func_sel_indctn_flgs_ie v buf) (40 / 8).
Proof. unfold ok_gtp_up_func_sel_indctn_flgs_ie, layout_gtp_up_func_sel_indctn_flgs_ie, encode_gtp_up_func_sel_indctn_flgs_ie. solve_emits. Qed.

Lemma decode_gtp_up_func_sel_indctn_flgs_ie_decodes m buf v :
  ok_gtp_up_func_sel_indctn_flgs_ie v ->
  decodes m buf (layout_gtp_up_func_sel_indctn_flgs_ie v) (decode_gtp_up_func_sel_indctn_flgs_ie m buf) (count_gtp_up_func_sel_indctn_flgs_ie v, v).
Proof. unfold ok_gtp_up_func_sel_indctn_flgs_ie, layout_gtp_up_func_sel_indctn_flgs_ie, decode_gtp_up_func_sel_indctn_flgs_ie, count_gtp_up_func_sel_indctn_flgs_ie. solve_decodes v. Qed.

#[global] Instance gtp_up_func_sel_indctn_flgs_ie_format : WireFormat gtp_up_func_sel_indctn_flgs_ie_t :=
  fixed_format layout_gtp_up_func_sel_indctn_flgs_ie ok_gtp_up_func_sel_indctn_flgs_ie count_gtp_up_func_sel_indctn_flgs_ie encode_gtp_up_func_sel_indctn_flgs_ie decode_gtp_up_func_sel_indctn_flgs_ie 40 ltac:(reflexivity)
    layout_gtp_up_func_sel_indctn_flgs_ie_size encode_gtp_up_func_sel_indctn_flgs_ie_emits decode_gtp_up_func_sel_indctn_flgs_ie_decodes.

End gtp_up_func_sel_indctn_flgs_ie.

(** ** [gtp_mbl_equip_idnty_ie] *)

Module gtp_mbl_equip_idnty_ie.

Record gtp_mbl_equip_idnty_ie_t := {
  header : ie_header_t;
  mei : Z  (* uint64_t *)
}.

Definition encode_gtp_mbl_equip_idnty_ie (value : gtp_mbl_equip_idnty_ie_t) (buf : Z) : enc Z :=
  encoded <- ret 0;;
  encoded <- put_header value.(header) buf encoded;;
  encoded <- put_bits value.(mei) 64 buf encoded;;
  ret (encoded / CHAR_SIZE).

Definition decode_gtp_mbl_equip_idnty_ie (m : bytes) (buf : Z) : option (Z * gtp_mbl_equip_idnty_ie_t) :=
  run_dec (
  header <- get_header m buf;;
  mei <- get_bits m buf 64;;
  ret (header.(hdr_len) + IE_HEADER_SIZE,
      Build_gtp_mbl_equip_idnty_ie_t header mei)).

Definition layout_gtp_mbl_equip_idnty_ie (v : gtp_mbl_equip_idnty_ie_t) : list field :=
  [FHdr v.(header); FBits v.(mei) 64].

Definition ok_gtp_mbl_equip_idnty_ie (v : gtp_mbl_equip_idnty_ie_t) : Prop :=
  True.

Definition count_gtp_mbl_equip_idnty_ie (v : gtp_mbl_equip_idnty_ie_t) : Z := v.(header).(hdr_len) + IE_HEADER_SIZE.

Lemma layout_gtp_mbl_equip_idnty_ie_size v : ok_gtp_mbl_equip_idnty_ie v -> lsize (layout_gtp_mbl_equip_idnty_ie v) = 96.
Proof. unfold ok_gtp_mbl_equip_idnty_ie, layout_gtp_mbl_equip_idnty_ie. solve_size. Qed.

Lemma encode_gtp_mbl_equip_idnty_ie_emits v buf :
  ok_gtp_mbl_equip_idnty_ie v -> emits buf 0 (layout_gtp_mbl_equip_idnty_ie v) (encode_gtp_mbl_equip_idnty_ie v buf) (96 / 8).
Proof. unfold ok_gtp_mbl_equip_idnty_ie, layout_gtp_mbl_equip_idnty_ie, encode_gtp_mbl_equip_idnty_ie. solve_emits. Qed.

Lemma decode_gtp_mbl_equip_idnty_ie_decodes m buf v :
  ok_gtp_mbl_equip_idnty_ie v ->
  decodes m buf (layout_gtp_mbl_equip_idnty_ie v) (decode_gtp_mbl_equip_idnty_ie m buf) (count_gtp_mbl_equip_idnty_ie v, v).
Proof. unfold ok_gtp_mbl_equip_idnty_ie, layout_gtp_mbl_equip_idnty_ie, decode_gtp_mbl_equip_idnty_ie, count_gtp_mbl_equip_idnty_ie. solve_decodes v. Qed.

#[global] Instance gtp_mbl_equip_idnty_ie_format : WireFormat gtp_mbl_equip_idnty_ie_t :=
  fixed_format layout_gtp_mbl_equip_idnty_ie ok_gtp_mbl_equip_idnty_ie count_gtp_mbl_equip_idnty_ie encode_gtp_mbl_equip_idnty_ie decode_gtp_mbl_equip_idnty_ie 96 ltac:(reflexivity)
    layout_gtp_mbl_equip_idnty_ie_size encode_gtp_mbl_equip_idnty_ie_emits decode_gtp_mbl_equip_idnty_ie_decodes.

End gtp_mbl_equip_idnty_ie.

(** ** [gtp_priv_ext_ie] *)

Module gtp_priv_ext_ie.

Record gtp_priv_ext_ie_t := {
  header : ie_header_t;
  enterprise_id : Z;  (* uint16_t *)
  prop_val : Z  (* uint8_t *)
}.

Definition encode_gtp_priv_ext_ie (value : gtp_priv_ext_ie_t) (buf : Z) : enc Z :=
  encoded <- ret 0;;
  encoded <- put_header value.(header) buf encoded;;
  encoded <- put_bits value.(enterprise_id) 16 buf encoded;;
  encoded <- put_bits value.(prop_val) 8 buf encoded;;
  ret (encoded / CHAR_SIZE).

Definition decode_gtp_priv_ext_ie (m : bytes) (buf : Z) : option (Z * gtp_priv_ext_ie_t) :=
  run_dec (
  header <- get_header m buf;;
  enterprise_id <- get_bits m buf 16;;
  prop_val <- get_bits m buf 8;;
  ret (header.(hdr_len) + IE_HEADER_SIZE,
      Build_gtp_priv_ext_ie_t header enterprise_id prop_val)).

Definition layout_gtp_priv_ext_ie (v : gtp_priv_ext_ie_t) : list field :=
  [FHdr v.(header); FBits v.(enterprise_id) 16; FBits v.(prop_val) 8].

Definition ok_gtp_priv_ext_ie (v : gtp_priv_ext_ie_t) : Prop :=
  True.

Definition count_gtp_priv_ext_ie (v : gtp_priv_ext_ie_t) : Z := v.(header).(hdr_len) + IE_HEADER_SIZE.

Lemma layout_gtp_priv_ext_ie_size v : ok_gtp_priv_ext_ie v -> lsize (layout_gtp_priv_ext_ie v) = 56.
Proof. unfold ok_gtp_priv_ext_ie, layout_gtp_priv_ext_ie. solve_size. Qed.

Lemma encode_gtp_priv_ext_ie_emits v buf :
  ok_gtp_priv_ext_ie v -> emits buf 0 (layout_gtp_priv_ext_ie v) (encode_gtp_priv_ext_ie v buf) (56 / 8).
Proof. unfold ok_gtp_priv_ext_ie, layout_gtp_priv_ext_ie, encode_gtp_priv_ext_ie. solve_emits. Qed.

Lemma decode_gtp_priv_ext_ie_decodes m buf v :
  ok_gtp_priv_ext_ie v ->
  decodes m buf (layout_gtp_priv_ext_ie v) (decode_gtp_priv_ext_ie m buf) (count_gtp_priv_ext_ie v, v).
Proof. unfold ok_gtp_priv_ext_ie, layout_gtp_priv_ext_ie, decode_gtp_priv_ext_ie, count_gtp_priv_ext_ie. solve_decodes v. Qed.

#[global] Instance gtp_priv_ext_ie_format : WireFormat gtp_priv_ext_ie_t :=
  fixed_format layout_gtp_priv_ext_ie ok_gtp_priv_ext_ie count_gtp_priv_ext_ie encode_gtp_priv_ext_ie decode_gtp_priv_ext_ie 56 ltac:(reflexivity)
    layout_gtp_priv_ext_ie_size encode_gtp_priv_ext_ie_emits decode_gtp_priv_ext_ie_decodes.

End gtp_priv_ext_ie.

(** ** [gtp_sequence_number_ie] *)

Module gtp_sequence_number_ie.

Record gtp_sequence_number_ie_t := {
  header : ie_header_t;
  sequence_number : Z  (* uint32_t *)
}.

Definition encode_gtp_sequence_number_ie (value : gtp_sequence_number_ie_t) (buf : Z) : enc Z :=
  encoded <- ret 0;;
  encoded <- put_header value.(header) buf encoded;;
  encoded <- put_bits value.(sequence_number) 32 buf encoded;;
  ret (encoded / CHAR_SIZE).

Definition decode_gtp_sequence_number_ie (m : bytes) (buf : Z) : option (Z * gtp_sequence_number_ie_t) :=
  run_dec (
  header <- get_header m buf;;
  sequence_number <- get_bits m buf 32;;
  ret (header.(hdr_len) + IE_HEADER_SIZE,
      Build_gtp_sequence_number_ie_t header sequence_number)).

Definition layout_gtp_sequence_number_ie (v : gtp_sequence_number_ie_t) : list field :=
  [FHdr v.(header); FBits v.(sequence_number) 32].

Definition ok_gtp_sequence_number_ie (v : gtp_sequence_number_ie_t) : Prop :=
  True.

Definition count_gtp_sequence_number_ie (v : gtp_sequence_number_ie_t) : Z := v.(header).(hdr_len) + IE_HEADER_SIZE.

Lemma layout_gtp_sequence_number_ie_size v : ok_gtp_sequence_number_ie v -> lsize (layout_gtp_sequence_number_ie v) = 64.
Proof. unfold ok_gtp_sequence_number_ie, layout_gtp_sequence_number_ie. solve_size. Qed.

Lemma encode_gtp_sequence_number_ie_emits v buf :
  ok_gtp_sequence_number_ie v -> emits buf 0 (layout_gtp_sequence_number_ie v) (encode_gtp_sequence_number_ie v buf) (64 / 8).
Proof. unfold ok_gtp_sequence_number_ie, layout_gtp_sequence_number_ie, encode_gtp_sequence_number_ie. solve_emits. Qed.

Lemma decode_gtp_sequence_number_ie_decodes m buf v :
  ok_gtp_sequence_number_ie v ->
  decodes m buf (layout_gtp_sequence_number_ie v) (decode_gtp_sequence_number_ie m buf) (count_gtp_sequence_number_ie v, v).
Proof. unfold ok_gtp_sequence_number_ie, layout_gtp_sequence_number_ie, decode_gtp_sequence_number_ie, count_gtp_sequence_number_ie. solve_decodes v. Qed.

#[global] Instance gtp_sequence_number_ie_format : WireFormat gtp_sequence_number_ie_t :=
  fixed_format layout_gtp_sequence_number_ie ok_gtp_sequence_number_ie count_gtp_sequence_number_ie encode_gtp_sequence_number_ie decode_gtp_sequence_number_ie 64 ltac:(reflexivity)
    layout_gtp_sequence_number_ie_size encode_gtp_sequence_number_ie_emits decode_gtp_sequence_number_ie_decodes.

End gtp_sequence_number_ie.
