(* ===== verification/GtpIesVar.v ===== *)
(** Information elements of libgtpv2c whose members on the wire depend on
    their header or flags.

    Each structure is a module: the record, the encoder of gtp_ies_encoder.c,
    the decoder of gtp_ies_decoder.c (its argument [value] is the structure as
    it was before the call) and an [IeFormat] instance. *)

From Stdlib Require Import ZArith List Lia Bool.
From S2P Require Import Prelude EncDecBits WireFormat IeFormat GtpDefs.
Import ListNotations.
Open Scope Z_scope.
Open Scope wire_scope.

(** ** A header and an array *)

Module gtp_acc_pt_name_ie.

Record gtp_acc_pt_name_ie_t := {
  header : ie_header_t;
  apn : list Z  (* uint8_t[APN_LEN] *)
}.

Definition encode_gtp_acc_pt_name_ie (value : gtp_acc_pt_name_ie_t) (buf : Z) : enc Z :=
  encoded <- ret 0;;
  encoded <- put_header value.(header) buf encoded;;
  encoded <- put_bytes value.(apn) value.(header).(hdr_len) buf encoded;;
  ret (encoded / CHAR_SIZE).

Definition decode_gtp_acc_pt_name_ie (m : bytes) (buf : Z) (value : gtp_acc_pt_name_ie_t)
  : option (Z * gtp_acc_pt_name_ie_t) :=
  run_dec (
  header <- get_header m buf;;
  apn <- get_bytes_into m buf value.(apn) header.(hdr_len);;
  ret (header.(hdr_len) + IE_HEADER_SIZE, Build_gtp_acc_pt_name_ie_t header apn)).

#[global] Instance gtp_acc_pt_name_ie_format : IeFormat gtp_acc_pt_name_ie_t.
Proof.
  refine {|
    ie_layout v := [FHdr v.(header); FCopy (firstn (Z.to_nat v.(header).(hdr_len)) v.(apn))];
    ie_ok v := Z.of_nat (length v.(apn)) = APN_LEN /\ 0 <= v.(header).(hdr_len) <= APN_LEN;
    ie_shape v := Z.of_nat (length v.(apn)) = APN_LEN;
    ie_count v := v.(header).(hdr_len) + IE_HEADER_SIZE;
    ie_encode := encode_gtp_acc_pt_name_ie;
    ie_decode := decode_gtp_acc_pt_name_ie;
    ie_merge old v := Build_gtp_acc_pt_name_ie_t v.(header)
      (firstn (Z.to_nat v.(header).(hdr_len)) v.(apn)
       ++ skipn (Z.to_nat v.(header).(hdr_len)) old.(apn)) |}.
  all: unfold APN_LEN.
  - intros v [Ha Hl]. rewrite (array_size _ _ 128); lia.
  - intros v buf [Ha Hl]. rewrite (array_size _ _ 128) by lia. apply (array_emits _ _ _ 128); lia.
  - intros m buf old v [Ha Hl] Ho. apply (array_reads m buf _ _ _ 128); lia.
Defined.

#[global] Instance gtp_acc_pt_name_ie_merge_same : IeMergeSame gtp_acc_pt_name_ie_t.
Proof.
  unfold IeMergeSame; cbn [ie_merge ie_ok ie_layout gtp_acc_pt_name_ie_format].
  intros [h a] _ _. cbn. rewrite firstn_skipn. reflexivity.
Qed.

End gtp_acc_pt_name_ie.

Module gtp_fully_qual_domain_name_ie.

Record gtp_fully_qual_domain_name_ie_t := {
  header : ie_header_t;
  fqdn : list Z  (* uint8_t[FQDN_LEN] *)
}.

Definition encode_gtp_fully_qual_domain_name_ie (value : gtp_fully_qual_domain_name_ie_t) (buf : Z)
  : enc Z :=
  encoded <- ret 0;;
  encoded <- put_header value.(header) buf encoded;;
  encoded <- put_bytes value.(fqdn) value.(header).(hdr_len) buf encoded;;
  ret (encoded / CHAR_SIZE).

Definition decode_gtp_fully_qual_domain_name_ie (m : bytes) (buf : Z)
    (value : gtp_fully_qual_domain_name_ie_t) : option (Z * gtp_fully_qual_domain_name_ie_t) :=
  run_dec (
  header <- get_header m buf;;
  fqdn <- get_bytes_into m buf value.(fqdn) header.(hdr_len);;
  ret (header.(hdr_len) + IE_HEADER_SIZE, Build_gtp_fully_qual_domain_name_ie_t header fqdn)).

#[global] Instance gtp_fully_qual_domain_name_ie_format : IeFormat gtp_fully_qual_domain_name_ie_t.
Proof.
  refine {|
    ie_layout v := [FHdr v.(header); FCopy (firstn (Z.to_nat v.(header).(hdr_len)) v.(fqdn))];
    ie_ok v := Z.of_nat (length v.(fqdn)) = FQDN_LEN /\ 0 <= v.(header).(hdr_len) <= FQDN_LEN;
    ie_shape v := Z.of_nat (length v.(fqdn)) = FQDN_LEN;
    ie_count v := v.(header).(hdr_len) + IE_HEADER_SIZE;
    ie_encode := encode_gtp_fully_qual_domain_name_ie;
    ie_decode := decode_gtp_fully_qual_domain_name_ie;
    ie_merge old v := Build_gtp_fully_qual_domain_name_ie_t v.(header)
      (firstn (Z.to_nat v.(header).(hdr_len)) v.(fqdn)
       ++ skipn (Z.to_nat v.(header).(hdr_len)) old.(fqdn)) |}.
  all: unfold FQDN_LEN.
  - intros v [Ha Hl]. rewrite (array_size _ _ 256); lia.
  - intros v buf [Ha Hl]. rewrite (array_size _ _ 256) by lia. apply (array_emits _ _ _ 256); lia.
  - intros m buf old v [Ha Hl] Ho. apply (array_reads m buf _ _ _ 256); lia.
Defined.

#[global] Instance gtp_fully_qual_domain_name_ie_merge_same : IeMergeSame gtp_fully_qual_domain_name_ie_t.
Proof.
  unfold IeMergeSame; cbn [ie_merge ie_ok ie_layout gtp_fully_qual_domain_name_ie_format].
  intros [h a] _ _. cbn. rewrite firstn_skipn. reflexivity.
Qed.

End gtp_fully_qual_domain_name_ie.

Module gtp_eps_bearer_lvl_traffic_flow_tmpl_ie.

Record gtp_eps_bearer_lvl_traffic_flow_tmpl_ie_t := {
  header : ie_header_t;
  eps_bearer_lvl_tft : list Z  (* uint8_t[BUFF_SIZE] *)
}.

Definition encode_gtp_eps_bearer_lvl_traffic_flow_tmpl_ie
    (value : gtp_eps_bearer_lvl_traffic_flow_tmpl_ie_t) (buf : Z) : enc Z :=
  encoded <- ret 0;;
  encoded <- put_header value.(header) buf encoded;;
  encoded <- put_bytes value.(eps_bearer_lvl_tft) value.(header).(hdr_len) buf encoded;;
  ret (encoded / CHAR_SIZE).

Definition decode_gtp_eps_bearer_lvl_traffic_flow_tmpl_ie (m : bytes) (buf : Z)
    (value : gtp_eps_bearer_lvl_traffic_flow_tmpl_ie_t)
  : option (Z * gtp_eps_bearer_lvl_traffic_flow_tmpl_ie_t) :=
  run_dec (
  header <- get_header m buf;;
  tft <- get_bytes_into m buf value.(eps_bearer_lvl_tft) header.(hdr_len);;
  ret (header.(hdr_len) + IE_HEADER_SIZE,
       Build_gtp_eps_bearer_lvl_traffic_flow_tmpl_ie_t header tft)).

#[global] Instance gtp_eps_bearer_lvl_traffic_flow_tmpl_ie_format :
  IeFormat gtp_eps_bearer_lvl_traffic_flow_tmpl_ie_t.
Proof.
  refine {|
    ie_layout v :=
      [FHdr v.(header); FCopy (firstn (Z.to_nat v.(header).(hdr_len)) v.(eps_bearer_lvl_tft))];
    ie_ok v := Z.of_nat (length v.(eps_bearer_lvl_tft)) = BUFF_SIZE
               /\ 0 <= v.(header).(hdr_len) <= BUFF_SIZE;
    ie_shape v := Z.of_nat (length v.(eps_bearer_lvl_tft)) = BUFF_SIZE;
    ie_count v := v.(header).(hdr_len) + IE_HEADER_SIZE;
    ie_encode := encode_gtp_eps_bearer_lvl_traffic_flow_tmpl_ie;
    ie_decode := decode_gtp_eps_bearer_lvl_traffic_flow_tmpl_ie;
    ie_merge old v := Build_gtp_eps_bearer_lvl_traffic_flow_tmpl_ie_t v.(header)
      (firstn (Z.to_nat v.(header).(hdr_len)) v.(eps_bearer_lvl_tft)
       ++ skipn (Z.to_nat v.(header).(hdr_len)) old.(eps_bearer_lvl_tft)) |}.
  all: unfold BUFF_SIZE.
  - intros v [Ha Hl]. rewrite (array_size _ _ 257); lia.
  - intros v buf [Ha Hl]. rewrite (array_size _ _ 257) by lia. apply (array_emits _ _ _ 257); lia.
  - intros m buf old v [Ha Hl] Ho. apply (array_reads m buf _ _ _ 257); lia.
Defined.

#[global] Instance gtp_eps_bearer_lvl_traffic_flow_tmpl_ie_merge_same : IeMergeSame gtp_eps_bearer_lvl_traffic_flow_tmpl_ie_t.
Proof.
  unfold IeMergeSame; cbn [ie_merge ie_ok ie_layout gtp_eps_bearer_lvl_traffic_flow_tmpl_ie_format].
  intros [h a] _ _. cbn. rewrite firstn_skipn. reflexivity.
Qed.

End gtp_eps_bearer_lvl_traffic_flow_tmpl_ie.

Module gtp_ip_address_ie.

Record gtp_ip_address_ie_t := {
  header : ie_header_t;
  ipv4_ipv6_addr : list Z  (* uint8_t[IPV6_ADDRESS_LEN] *)
}.

Definition encode_gtp_ip_address_ie (value : gtp_ip_address_ie_t) (buf : Z) : enc Z :=
  encoded <- ret 0;;
  encoded <- put_header value.(header) buf encoded;;
  encoded <- put_bytes value.(ipv4_ipv6_addr) value.(header).(hdr_len) buf encoded;;
  ret (encoded / CHAR_SIZE).

(** The code adds the zero [decoded] to [total_decoded] after the copy, and
    does not use the counter again. *)
Definition decode_gtp_ip_address_ie (m : bytes) (buf : Z) (value : gtp_ip_address_ie_t)
  : option (Z * gtp_ip_address_ie_t) :=
  run_dec (
  header <- get_header m buf;;
  ipv4_ipv6_addr <- get_bytes_into m buf value.(ipv4_ipv6_addr) header.(hdr_len);;
  ret (header.(hdr_len) + IE_HEADER_SIZE, Build_gtp_ip_address_ie_t header ipv4_ipv6_addr)).

#[global] Instance gtp_ip_address_ie_format : IeFormat gtp_ip_address_ie_t.
Proof.
  refine {|
    ie_layout v :=
      [FHdr v.(header); FCopy (firstn (Z.to_nat v.(header).(hdr_len)) v.(ipv4_ipv6_addr))];
    ie_ok v := Z.of_nat (length v.(ipv4_ipv6_addr)) = IPV6_ADDRESS_LEN
               /\ 0 <= v.(header).(hdr_len) <= IPV6_ADDRESS_LEN;
    ie_shape v := Z.of_nat (length v.(ipv4_ipv6_addr)) = IPV6_ADDRESS_LEN;
    ie_count v := v.(header).(hdr_len) + IE_HEADER_SIZE;
    ie_encode := encode_gtp_ip_address_ie;
    ie_decode := decode_gtp_ip_address_ie;
    ie_merge old v := Build_gtp_ip_address_ie_t v.(header)
      (firstn (Z.to_nat v.(header).(hdr_len)) v.(ipv4_ipv6_addr)
       ++ skipn (Z.to_nat v.(header).(hdr_len)) old.(ipv4_ipv6_addr)) |}.
  all: unfold IPV6_ADDRESS_LEN.
  - intros v [Ha Hl]. rewrite (array_size _ _ 16); lia.
  - intros v buf [Ha Hl]. rewrite (array_size _ _ 16) by lia. apply (array_emits _ _ _ 16); lia.
  - intros m buf old v [Ha Hl] Ho. apply (array_reads m buf _ _ _ 16); lia.
Defined.

#[global] Instance gtp_ip_address_ie_merge_same : IeMergeSame gtp_ip_address_ie_t.
Proof.
  unfold IeMergeSame; cbn [ie_merge ie_ok ie_layout gtp_ip_address_ie_format].
  intros [h a] _ _. cbn. rewrite firstn_skipn. reflexivity.
Qed.

End gtp_ip_address_ie.

(** ** Members that depend on the header or on flags *)

Module gtp_cause_ie.

Record gtp_cause_ie_t := {
  header : ie_header_t;
  cause_value : Z;  (* uint8_t *)
  spare2 : Z;  (* uint8_t :5 *)
  pce : Z;  (* uint8_t :1 *)
  bce : Z;  (* uint8_t :1 *)
  cs : Z;  (* uint8_t :1 *)
  offend_ie_type : Z;  (* uint8_t *)
  offend_ie_len : Z;  (* uint16_t *)
  spareinstance : Z  (* uint8_t *)
}.

Definition encode_gtp_cause_ie (value : gtp_cause_ie_t) (buf : Z) : enc Z :=
  encoded <- ret 0;;
  encoded <- put_header value.(header) buf encoded;;
  encoded <- put_bits value.(cause_value) 8 buf encoded;;
  encoded <- put_bits value.(spare2) 5 buf encoded;;
  encoded <- put_bits value.(pce) 1 buf encoded;;
  encoded <- put_bits value.(bce) 1 buf encoded;;
  encoded <- put_bits value.(cs) 1 buf encoded;;
  encoded <- (if negb (value.(header).(hdr_len) =? 2) then
                encoded <- put_bits value.(offend_ie_type) 8 buf encoded;;
                encoded <- put_bits value.(offend_ie_len) 16 buf encoded;;
                put_bits value.(spareinstance) 8 buf encoded
              else ret encoded);;
  ret (encoded / CHAR_SIZE).

Definition decode_gtp_cause_ie (m : bytes) (buf : Z) (value : gtp_cause_ie_t)
  : option (Z * gtp_cause_ie_t) :=
  run_dec (
  header <- get_header m buf;;
  cause_value <- get_bits m buf 8;;
  spare2 <- get_bits m buf 5;;
  pce <- get_bits m buf 1;;
  bce <- get_bits m buf 1;;
  cs <- get_bits m buf 1;;
  value <- (if negb (header.(hdr_len) =? 2) then
              offend_ie_type <- get_bits m buf 8;;
              offend_ie_len <- get_bits m buf 16;;
              spareinstance <- get_bits m buf 8;;
              ret (Build_gtp_cause_ie_t header cause_value spare2 pce bce cs
                     offend_ie_type offend_ie_len spareinstance)
            else
              ret (Build_gtp_cause_ie_t header cause_value spare2 pce bce cs
                     value.(offend_ie_type) value.(offend_ie_len) value.(spareinstance)));;
  ret (header.(hdr_len) + IE_HEADER_SIZE, value)).

Definition layout_gtp_cause_ie (v : gtp_cause_ie_t) : list field :=
  [FHdr v.(header); FBits v.(cause_value) 8; FBits v.(spare2) 5; FBits v.(pce) 1;
   FBits v.(bce) 1; FBits v.(cs) 1]
  ++ (if negb (v.(header).(hdr_len) =? 2)
      then [FBits v.(offend_ie_type) 8; FBits v.(offend_ie_len) 16; FBits v.(spareinstance) 8]
      else []).

Definition merge_gtp_cause_ie (old v : gtp_cause_ie_t) : gtp_cause_ie_t :=
  if negb (v.(header).(hdr_len) =? 2) then v
  else Build_gtp_cause_ie_t v.(header) v.(cause_value) v.(spare2) v.(pce) v.(bce) v.(cs)
         old.(offend_ie_type) old.(offend_ie_len) old.(spareinstance).

#[global] Instance gtp_cause_ie_format : IeFormat gtp_cause_ie_t.
Proof.
  refine {|
    ie_layout := layout_gtp_cause_ie;
    ie_ok v := True;
    ie_shape v := True;
    ie_count v := v.(header).(hdr_len) + IE_HEADER_SIZE;
    ie_encode := encode_gtp_cause_ie;
    ie_decode := decode_gtp_cause_ie;
    ie_merge := merge_gtp_cause_ie |}.
  - intros v _. unfold layout_gtp_cause_ie. destruct (negb _); reflexivity.
  - intros v buf _. unfold layout_gtp_cause_ie, encode_gtp_cause_ie.
    destruct (negb _); cbn [app]; ie_emit_steps; reflexivity.
  - intros m buf old [] _ _. unfold layout_gtp_cause_ie, merge_gtp_cause_ie. apply reads_run.
    cbn [header]. destruct (negb _) eqn:E; cbn [app]; ie_read_steps; rewrite E; ie_read_steps.
Defined.

#[global] Instance gtp_cause_ie_merge_same : IeMergeSame gtp_cause_ie_t.
Proof.
  unfold IeMergeSame; cbn [ie_merge ie_ok ie_layout gtp_cause_ie_format].
  intros [] _ _. unfold merge_gtp_cause_ie. destruct (negb _); reflexivity.
Qed.

End gtp_cause_ie.

Module gtp_fully_qual_tunn_endpt_idnt_ie.

Record gtp_fully_qual_tunn_endpt_idnt_ie_t := {
  header : ie_header_t;
  v4 : Z;  (* uint8_t :1 *)
  v6 : Z;  (* uint8_t :1 *)
  interface_type : Z;  (* uint8_t :6 *)
  teid_gre_key : Z;  (* uint32_t *)
  ipv4_address : Z;  (* uint32_t *)
  ipv6_address : list Z  (* uint8_t[IPV6_ADDRESS_LEN] *)
}.

Definition encode_gtp_fully_qual_tunn_endpt_idnt_ie
    (value : gtp_fully_qual_tunn_endpt_idnt_ie_t) (buf : Z) : enc Z :=
  encoded <- ret 0;;
  encoded <- put_header value.(header) buf encoded;;
  encoded <- put_bits value.(v4) 1 buf encoded;;
  encoded <- put_bits value.(v6) 1 buf encoded;;
  encoded <- put_bits value.(interface_type) 6 buf encoded;;
  encoded <- put_bits value.(teid_gre_key) 32 buf encoded;;
  encoded <- (if negb (value.(v4) =? 0)
              then put_bytes (le_bytes 4 value.(ipv4_address)) 4 buf encoded
              else ret encoded);;
  encoded <- (if negb (value.(v6) =? 0)
              then put_bytes value.(ipv6_address) IPV6_ADDRESS_LEN buf encoded
              else ret encoded);;
  ret (encoded / CHAR_SIZE).

Definition decode_gtp_fully_qual_tunn_endpt_idnt_ie (m : bytes) (buf : Z)
    (value : gtp_fully_qual_tunn_endpt_idnt_ie_t) : option (Z * gtp_fully_qual_tunn_endpt_idnt_ie_t) :=
  run_dec (
  header <- get_header m buf;;
  v4 <- get_bits m buf 1;;
  v6 <- get_bits m buf 1;;
  interface_type <- get_bits m buf 6;;
  teid_gre_key <- get_bits m buf 32;;
  ipv4_address <- (if v4 =? 1 then b <- get_bytes m buf 4;; ret (le_val b)
                   else ret value.(ipv4_address));;
  ipv6_address <- (if negb (v6 =? 0) then get_bytes m buf IPV6_ADDRESS_LEN
                   else ret value.(ipv6_address));;
  ret (header.(hdr_len) + IE_HEADER_SIZE,
       Build_gtp_fully_qual_tunn_endpt_idnt_ie_t header v4 v6 interface_type teid_gre_key
         ipv4_address ipv6_address)).

Definition layout_gtp_fully_qual_tunn_endpt_idnt_ie (v : gtp_fully_qual_tunn_endpt_idnt_ie_t)
  : list field :=
  [FHdr v.(header); FBits v.(v4) 1; FBits v.(v6) 1; FBits v.(interface_type) 6;
   FBits v.(teid_gre_key) 32]
  ++ (if v.(v4) =? 1 then [FCopy (le_bytes 4 v.(ipv4_address))] else [])
  ++ (if v.(v6) =? 1 then [FCopy v.(ipv6_address)] else []).

Definition merge_gtp_fully_qual_tunn_endpt_idnt_ie (old v : gtp_fully_qual_tunn_endpt_idnt_ie_t)
  : gtp_fully_qual_tunn_endpt_idnt_ie_t :=
  Build_gtp_fully_qual_tunn_endpt_idnt_ie_t v.(header) v.(v4) v.(v6) v.(interface_type)
    v.(teid_gre_key)
    (if v.(v4) =? 1 then v.(ipv4_address) else old.(ipv4_address))
    (if v.(v6) =? 1 then v.(ipv6_address) else old.(ipv6_address)).

(** A flag of one bit is tested for 1 or for not 0: the same. *)
Lemma flag_cases x : 0 <= x < 2 ^ 1 -> x = 0 \/ x = 1.
Proof. lia. Qed.

#[global] Instance gtp_fully_qual_tunn_endpt_idnt_ie_format :
  IeFormat gtp_fully_qual_tunn_endpt_idnt_ie_t.
Proof.
  refine {|
    ie_layout := layout_gtp_fully_qual_tunn_endpt_idnt_ie;
    ie_ok v := 0 <= v.(ipv4_address) < 2 ^ (8 * Z.of_nat 4)
               /\ Z.of_nat (length v.(ipv6_address)) = IPV6_ADDRESS_LEN;
    ie_shape v := True;
    ie_count v := v.(header).(hdr_len) + IE_HEADER_SIZE;
    ie_encode := encode_gtp_fully_qual_tunn_endpt_idnt_ie;
    ie_decode := decode_gtp_fully_qual_tunn_endpt_idnt_ie;
    ie_merge := merge_gtp_fully_qual_tunn_endpt_idnt_ie |}.
  - intros v [_ Hl]. unfold layout_gtp_fully_qual_tunn_endpt_idnt_ie, IPV6_ADDRESS_LEN in *.
    rewrite !lsize_app. destruct (_ =? 1), (v6 v =? 1); cbn [lsize fsize];
      rewrite ?le_bytes_length; lia.
  - intros [h f4 f6 i t a4 a6] buf [_ Hl]. unfold layout_gtp_fully_qual_tunn_endpt_idnt_ie,
      encode_gtp_fully_qual_tunn_endpt_idnt_ie in *. cbn [header v4 v6 interface_type teid_gre_key
      ipv4_address ipv6_address] in *. apply emits_with_ok. cbn [app fields_ok field_ok].
    intros (_ & [_ H4] & [_ H6] & _).
    assert (H44 : Z.of_nat (length (le_bytes 4 a4)) = 4) by (rewrite le_bytes_length; reflexivity).
    destruct (flag_cases f4 H4) as [->| ->], (flag_cases f6 H6) as [->| ->]; cbn [Z.eqb Pos.eqb negb app];
      ie_emit_steps; cbn [lsize fsize]; rewrite ?H44, ?Hl; reflexivity.
  - intros m buf old [h f4 f6 i t a4 a6] [Ha Hl] _. unfold layout_gtp_fully_qual_tunn_endpt_idnt_ie,
      merge_gtp_fully_qual_tunn_endpt_idnt_ie in *. cbn [header v4 v6 interface_type teid_gre_key
      ipv4_address ipv6_address] in *. apply reads_run, reads_with_ok. cbn [app fields_ok field_ok].
    intros (_ & [_ H4] & [_ H6] & _).
    assert (H44 : Z.of_nat (length (le_bytes 4 a4)) = 4) by (rewrite le_bytes_length; reflexivity).
    destruct (flag_cases f4 H4) as [->| ->], (flag_cases f6 H6) as [->| ->]; cbn [Z.eqb Pos.eqb negb app];
      ie_read_steps; cbn [Z.eqb negb Pos.eqb]; ie_read_steps; cbn [Z.eqb negb Pos.eqb];
      rewrite ?le_val_bytes by exact Ha; ie_read_steps.
Defined.

#[global] Instance gtp_fully_qual_tunn_endpt_idnt_ie_merge_same : IeMergeSame gtp_fully_qual_tunn_endpt_idnt_ie_t.
Proof.
  unfold IeMergeSame; cbn [ie_merge ie_ok ie_layout gtp_fully_qual_tunn_endpt_idnt_ie_format].
  intros [] _ _. unfold merge_gtp_fully_qual_tunn_endpt_idnt_ie. cbn.
  rewrite !Tauto.if_same. reflexivity.
Qed.

End gtp_fully_qual_tunn_endpt_idnt_ie.

Module gtp_pdn_addr_alloc_ie.

Record gtp_pdn_addr_alloc_ie_t := {
  header : ie_header_t;
  spare2 : Z;  (* uint8_t :5 *)
  pdn_type : Z;  (* uint8_t :3 *)
  pdn_addr_and_pfx : Z;  (* uint64_t *)
  ipv6_prefix_len : Z;  (* uint8_t *)
  paa_ipv6 : list Z  (* uint8_t[IPV6_ADDRESS_LEN] *)
}.

Definition has_v6 (pdn_type : Z) : bool :=
  (pdn_type =? PDN_IP_TYPE_IPV6) || (pdn_type =? PDN_IP_TYPE_IPV4V6).

Definition has_v4 (pdn_type : Z) : bool :=
  (pdn_type =? PDN_IP_TYPE_IPV4) || (pdn_type =? PDN_IP_TYPE_IPV4V6).

Definition encode_gtp_pdn_addr_alloc_ie (value : gtp_pdn_addr_alloc_ie_t) (buf : Z) : enc Z :=
  encoded <- ret 0;;
  encoded <- put_header value.(header) buf encoded;;
  encoded <- put_bits value.(spare2) 5 buf encoded;;
  encoded <- put_bits value.(pdn_type) 3 buf encoded;;
  encoded <- (if has_v6 value.(pdn_type) then
                encoded <- put_bits value.(ipv6_prefix_len) 8 buf encoded;;
                put_bytes value.(paa_ipv6) IPV6_ADDRESS_LEN buf encoded
              else ret encoded);;
  encoded <- (if has_v4 value.(pdn_type)
              then put_bytes (le_bytes 8 value.(pdn_addr_and_pfx)) 4 buf encoded
              else ret encoded);;
  ret (encoded / CHAR_SIZE).

(** The copy of four bytes leaves the other four of the [uint64_t]. *)
Definition decode_gtp_pdn_addr_alloc_ie (m : bytes) (buf : Z) (value : gtp_pdn_addr_alloc_ie_t)
  : option (Z * gtp_pdn_addr_alloc_ie_t) :=
  run_dec (
  header <- get_header m buf;;
  spare2 <- get_bits m buf 5;;
  pdn_type <- get_bits m buf 3;;
  ipv6_prefix_len <- (if has_v6 pdn_type then get_bits m buf 8
                      else ret value.(ipv6_prefix_len));;
  paa_ipv6 <- (if has_v6 pdn_type then get_bytes m buf IPV6_ADDRESS_LEN
               else ret value.(paa_ipv6));;
  pdn_addr_and_pfx <-
    (if has_v4 pdn_type then
       b <- get_bytes_into m buf (le_bytes 8 value.(pdn_addr_and_pfx)) 4;; ret (le_val b)
     else ret value.(pdn_addr_and_pfx));;
  ret (header.(hdr_len) + IE_HEADER_SIZE,
       Build_gtp_pdn_addr_alloc_ie_t header spare2 pdn_type pdn_addr_and_pfx ipv6_prefix_len
         paa_ipv6)).

Definition layout_gtp_pdn_addr_alloc_ie (v : gtp_pdn_addr_alloc_ie_t) : list field :=
  [FHdr v.(header); FBits v.(spare2) 5; FBits v.(pdn_type) 3]
  ++ (if has_v6 v.(pdn_type) then [FBits v.(ipv6_prefix_len) 8; FCopy v.(paa_ipv6)] else [])
  ++ (if has_v4 v.(pdn_type) then [FCopy (firstn 4 (le_bytes 8 v.(pdn_addr_and_pfx)))] else []).

Definition merge_gtp_pdn_addr_alloc_ie (old v : gtp_pdn_addr_alloc_ie_t)
  : gtp_pdn_addr_alloc_ie_t :=
  Build_gtp_pdn_addr_alloc_ie_t v.(header) v.(spare2) v.(pdn_type)
    (if has_v4 v.(pdn_type)
     then le_val (firstn 4 (le_bytes 8 v.(pdn_addr_and_pfx))
                  ++ skipn 4 (le_bytes 8 old.(pdn_addr_and_pfx)))
     else old.(pdn_addr_and_pfx))
    (if has_v6 v.(pdn_type) then v.(ipv6_prefix_len) else old.(ipv6_prefix_len))
    (if has_v6 v.(pdn_type) then v.(paa_ipv6) else old.(paa_ipv6)).

#[global] Instance gtp_pdn_addr_alloc_ie_format : IeFormat gtp_pdn_addr_alloc_ie_t.
Proof.
  refine {|
    ie_layout := layout_gtp_pdn_addr_alloc_ie;
    ie_ok v := 0 <= v.(pdn_addr_and_pfx) < 2 ^ (8 * Z.of_nat 8)
               /\ Z.of_nat (length v.(paa_ipv6)) = IPV6_ADDRESS_LEN;
    ie_shape v := True;
    ie_count v := v.(header).(hdr_len) + IE_HEADER_SIZE;
    ie_encode := encode_gtp_pdn_addr_alloc_ie;
    ie_decode := decode_gtp_pdn_addr_alloc_ie;
    ie_merge := merge_gtp_pdn_addr_alloc_ie |}.
  - intros v [_ Hl]. unfold layout_gtp_pdn_addr_alloc_ie, IPV6_ADDRESS_LEN in *.
    rewrite !lsize_app. destruct (has_v4 _), (has_v6 _); cbn [lsize fsize];
      rewrite ?length_firstn, ?le_bytes_length; lia.
  - intros v buf [_ Hl]. unfold layout_gtp_pdn_addr_alloc_ie, encode_gtp_pdn_addr_alloc_ie.
    destruct (has_v4 _), (has_v6 _); cbn [app]; ie_emit_steps;
      try (apply (emits_copy _ _ _ 4); [reflexivity | rewrite le_bytes_length; lia |]; ie_emit_steps);
      cbn [lsize fsize]; rewrite ?length_firstn, ?le_bytes_length, ?Hl; reflexivity.
  - intros m buf old [h s t a pl a6] [Ha Hl] _.
    unfold layout_gtp_pdn_addr_alloc_ie, merge_gtp_pdn_addr_alloc_ie.
    cbn [header spare2 pdn_type pdn_addr_and_pfx ipv6_prefix_len paa_ipv6] in *.
    apply reads_run. destruct (has_v4 t) eqn:E4, (has_v6 t) eqn:E6; cbn [app]; ie_read_steps;
      rewrite E6; ie_read_steps; rewrite E4; ie_read_steps;
      try (apply reads_into;
           [reflexivity | rewrite length_firstn, le_bytes_length; reflexivity
            | rewrite le_bytes_length; lia |]; ie_read_steps).
Defined.

#[global] Instance gtp_pdn_addr_alloc_ie_merge_same : IeMergeSame gtp_pdn_addr_alloc_ie_t.
Proof.
  unfold IeMergeSame; cbn [ie_merge ie_ok ie_layout gtp_pdn_addr_alloc_ie_format].
  intros [h s t a pl a6] [Ha Hl] _. unfold merge_gtp_pdn_addr_alloc_ie.
  cbn [header spare2 pdn_type pdn_addr_and_pfx ipv6_prefix_len paa_ipv6] in *.
  rewrite firstn_skipn, le_val_bytes, !Tauto.if_same by exact Ha. reflexivity.
Qed.

End gtp_pdn_addr_alloc_ie.

Module gtp_msisdn_ie.

Record gtp_msisdn_ie_t := {
  header : ie_header_t;
  msisdn_number_digits : Z  (* uint64_t *)
}.

(** [memcpy] of [header.len] bytes from and to a [uint64_t]. *)
Definition encode_gtp_msisdn_ie (value : gtp_msisdn_ie_t) (buf : Z) : enc Z :=
  encoded <- ret 0;;
  encoded <- put_header value.(header) buf encoded;;
  encoded <- put_bytes (le_bytes 8 value.(msisdn_number_digits)) value.(header).(hdr_len)
               buf encoded;;
  ret (encoded / CHAR_SIZE).

Definition decode_gtp_msisdn_ie (m : bytes) (buf : Z) (value : gtp_msisdn_ie_t)
  : option (Z * gtp_msisdn_ie_t) :=
  run_dec (
  header <- get_header m buf;;
  b <- get_bytes_into m buf (le_bytes 8 value.(msisdn_number_digits)) header.(hdr_len);;
  ret (header.(hdr_len) + IE_HEADER_SIZE, Build_gtp_msisdn_ie_t header (le_val b))).

#[global] Instance gtp_msisdn_ie_format : IeFormat gtp_msisdn_ie_t.
Proof.
  refine {|
    ie_layout v := [FHdr v.(header);
                    FCopy (firstn (Z.to_nat v.(header).(hdr_len)) (le_bytes 8 v.(msisdn_number_digits)))];
    ie_ok v := 0 <= v.(msisdn_number_digits) < 2 ^ (8 * Z.of_nat 8)
               /\ 0 <= v.(header).(hdr_len) <= 8;
    ie_shape v := True;
    ie_count v := v.(header).(hdr_len) + IE_HEADER_SIZE;
    ie_encode := encode_gtp_msisdn_ie;
    ie_decode := decode_gtp_msisdn_ie;
    ie_merge old v := Build_gtp_msisdn_ie_t v.(header)
      (le_val (firstn (Z.to_nat v.(header).(hdr_len)) (le_bytes 8 v.(msisdn_number_digits))
               ++ skipn (Z.to_nat v.(header).(hdr_len)) (le_bytes 8 old.(msisdn_number_digits)))) |}.
  - intros v [_ Hl]. rewrite (array_size _ _ 8); rewrite ?le_bytes_length; lia.
  - intros v buf [_ Hl]. rewrite (array_size _ _ 8); rewrite ?le_bytes_length; try lia.
    apply (array_emits _ _ _ 8); rewrite ?le_bytes_length; lia.
  - intros m buf old v [Ha Hl] _.
    apply (array_reads m buf _ _ _ 8 (fun h b => Build_gtp_msisdn_ie_t h (le_val b)));
      rewrite ?le_bytes_length; lia.
Defined.

#[global] Instance gtp_msisdn_ie_merge_same : IeMergeSame gtp_msisdn_ie_t.
Proof.
  unfold IeMergeSame; cbn [ie_merge ie_ok ie_layout gtp_msisdn_ie_format].
  intros [h a] [Ha Hl] _. cbn [header msisdn_number_digits] in *.
  rewrite firstn_skipn, le_val_bytes by exact Ha. reflexivity.
Qed.

End gtp_msisdn_ie.

Module gtp_integer_number_ie.

Record gtp_integer_number_ie_t := {
  header : ie_header_t;
  int_nbr_val : Z  (* uint32_t *)
}.

Definition encode_gtp_integer_number_ie (value : gtp_integer_number_ie_t) (buf : Z) : enc Z :=
  encoded <- ret 0;;
  encoded <- put_header value.(header) buf encoded;;
  encoded <- put_bits value.(int_nbr_val) 32 buf encoded;;
  ret (encoded / CHAR_SIZE).

(** The number of bits read is the header's length, the number written 32. *)
Definition decode_gtp_integer_number_ie (m : bytes) (buf : Z)
  : option (Z * gtp_integer_number_ie_t) :=
  run_dec (
  header <- get_header m buf;;
  int_nbr_val <- get_bits m buf (u16 (header.(hdr_len) * CHAR_SIZE));;
  ret (header.(hdr_len) + IE_HEADER_SIZE, Build_gtp_integer_number_ie_t header (u32 int_nbr_val))).

#[global] Instance gtp_integer_number_ie_format : IeFormat gtp_integer_number_ie_t.
Proof.
  refine {|
    ie_layout v := [FHdr v.(header); FBits v.(int_nbr_val) 32];
    ie_ok v := v.(header).(hdr_len) = 4 /\ 0 <= v.(int_nbr_val) < 4294967296;
    ie_shape v := True;
    ie_count v := v.(header).(hdr_len) + IE_HEADER_SIZE;
    ie_encode := encode_gtp_integer_number_ie;
    ie_decode m buf _ := decode_gtp_integer_number_ie m buf;
    ie_merge _ v := v |}.
  - reflexivity.
  - intros v buf _. unfold encode_gtp_integer_number_ie. ie_emit_steps. reflexivity.
  - intros m buf _ [[t l i] x] [Hl Hx] _. cbn [header int_nbr_val hdr_len] in *. subst l.
    apply reads_run. ie_read_step. cbn [hdr_len].
    change (u16 (4 * CHAR_SIZE)) with 32. ie_read_step.
    unfold u32. rewrite Z.mod_small by exact Hx. ie_read_step.
Defined.

#[global] Instance gtp_integer_number_ie_merge_same : IeMergeSame gtp_integer_number_ie_t.
Proof.
  intros v _ _. reflexivity.
Qed.

End gtp_integer_number_ie.

Module gtp_fqcsid_ie.

Record gtp_fqcsid_ie_t := {
  header : ie_header_t;
  node_id_type : Z;  (* uint8_t :4 *)
  number_of_csids : Z;  (* uint8_t :4 *)
  node_address : list Z;  (* uint8_t[IPV6_ADDRESS_LEN] *)
  pdn_csid : list Z  (* uint16_t[PDN_CSID_LEN] *)
}.

Definition address_len (node_id_type : Z) : Z :=
  if node_id_type =? GTP_IPV4_GLOBAL_UNICAST then 4 else 16.

(** The loop over the csids; [pdn_csid[i]] past the array is undefined. *)
Fixpoint put_csids (todo : nat) (i : nat) (pdn_csid : list Z) (buf encoded : Z) : enc Z :=
  match todo with
  | O => ret encoded
  | S todo =>
      match nth_error pdn_csid i with
      | Some csid =>
          encoded <- put_bits csid 16 buf encoded;;
          put_csids todo (S i) pdn_csid buf encoded
      | None => fun _ => None
      end
  end.

Definition encode_gtp_fqcsid_ie (value : gtp_fqcsid_ie_t) (buf : Z) : enc Z :=
  encoded <- ret 0;;
  encoded <- put_header value.(header) buf encoded;;
  encoded <- put_bits value.(node_id_type) 4 buf encoded;;
  encoded <- put_bits value.(number_of_csids) 4 buf encoded;;
  encoded <- put_bytes value.(node_address) (address_len value.(node_id_type)) buf encoded;;
  encoded <- put_csids (Z.to_nat value.(number_of_csids)) 0 value.(pdn_csid) buf encoded;;
  ret (encoded / CHAR_SIZE).

Fixpoint get_csids (m : bytes) (buf : Z) (todo itr : nat) (pdn_csid : list Z) : dec (list Z) :=
  match todo with
  | O => ret pdn_csid
  | S todo =>
      csid <- get_bits m buf 16;;
      match array_set pdn_csid itr csid with
      | Some pdn_csid => get_csids m buf todo (S itr) pdn_csid
      | None => fun _ => None
      end
  end.

Definition decode_gtp_fqcsid_ie (m : bytes) (buf : Z) (value : gtp_fqcsid_ie_t)
  : option (Z * gtp_fqcsid_ie_t) :=
  run_dec (
  header <- get_header m buf;;
  node_id_type <- get_bits m buf 4;;
  number_of_csids <- get_bits m buf 4;;
  node_address <- get_bytes_into m buf value.(node_address) (address_len node_id_type);;
  pdn_csid <- get_csids m buf (Z.to_nat number_of_csids) 0 value.(pdn_csid);;
  ret (header.(hdr_len) + IE_HEADER_SIZE,
       Build_gtp_fqcsid_ie_t header node_id_type number_of_csids node_address pdn_csid)).

Definition csid_fields (l : list Z) : list field := map (fun c => FBits c 16) l.

Definition layout_gtp_fqcsid_ie (v : gtp_fqcsid_ie_t) : list field :=
  [FHdr v.(header); FBits v.(node_id_type) 4; FBits v.(number_of_csids) 4;
   FCopy (firstn (Z.to_nat (address_len v.(node_id_type))) v.(node_address))]
  ++ csid_fields (firstn (Z.to_nat v.(number_of_csids)) v.(pdn_csid)).

Definition merge_gtp_fqcsid_ie (old v : gtp_fqcsid_ie_t) : gtp_fqcsid_ie_t :=
  Build_gtp_fqcsid_ie_t v.(header) v.(node_id_type) v.(number_of_csids)
    (firstn (Z.to_nat (address_len v.(node_id_type))) v.(node_address)
     ++ skipn (Z.to_nat (address_len v.(node_id_type))) old.(node_address))
    (firstn (Z.to_nat v.(number_of_csids)) v.(pdn_csid)
     ++ skipn (Z.to_nat v.(number_of_csids)) old.(pdn_csid)).

Lemma csid_fields_size l : lsize (csid_fields l) = 16 * Z.of_nat (length l).
Proof. induction l as [|c l IH]; [reflexivity|]. cbn [csid_fields map lsize fsize length]. fold (csid_fields l). lia. Qed.

Lemma put_csids_emits buf csids n i off :
  (i + n <= length csids)%nat -> off mod 8 = 0 ->
  emits buf off (csid_fields (firstn n (skipn i csids))) (put_csids n i csids buf off)
    (off + 16 * Z.of_nat n).
Proof.
  revert i off. induction n as [|n IH]; intros i off Hi Ho.
  - apply emits_ret_eq. lia.
  - destruct (nth_error csids i) as [x|] eqn:Hx.
    + rewrite (skipn_nth csids i x Hx). cbn [firstn csid_fields map put_csids]. rewrite Hx.
      apply emits_bits with (off' := off + 16); [lia|].
      replace (off + 16 * Z.of_nat (S n)) with (off + 16 + 16 * Z.of_nat n) by lia.
      apply IH; [lia|]. Z.div_mod_to_equations. lia.
    + apply nth_error_None in Hx. lia.
Qed.

Lemma get_csids_reads m buf csids old n i off :
  (i + n <= length csids)%nat -> length old = length csids ->
  reads m buf off (csid_fields (firstn n (skipn i csids)))
    (get_csids m buf n i (firstn i csids ++ skipn i old))
    (firstn (i + n) csids ++ skipn (i + n) old).
Proof.
  intros Hi Hlen. revert i off Hi. induction n as [|n IH]; intros i off Hi.
  - rewrite Nat.add_0_r. apply reads_ret.
  - destruct (nth_error csids i) as [x|] eqn:Hx; [|apply nth_error_None in Hx; lia].
    rewrite (skipn_nth csids i x Hx). cbn [firstn csid_fields map get_csids].
    apply reads_bits. rewrite (array_set_prefix csids old i x Hx) by lia.
    replace (i + S n)%nat with (S i + n)%nat by lia. apply IH. lia.
Qed.

Lemma address_len_cases t : address_len t = 4 \/ address_len t = 16.
Proof. unfold address_len. destruct (_ =? _); auto. Qed.

#[global] Instance gtp_fqcsid_ie_format : IeFormat gtp_fqcsid_ie_t.
Proof.
  refine {|
    ie_layout := layout_gtp_fqcsid_ie;
    ie_ok v := Z.of_nat (length v.(node_address)) = IPV6_ADDRESS_LEN
               /\ Z.of_nat (length v.(pdn_csid)) = PDN_CSID_LEN
               /\ 0 <= v.(number_of_csids) <= PDN_CSID_LEN;
    ie_shape v := Z.of_nat (length v.(node_address)) = IPV6_ADDRESS_LEN
                  /\ Z.of_nat (length v.(pdn_csid)) = PDN_CSID_LEN;
    ie_count v := v.(header).(hdr_len) + IE_HEADER_SIZE;
    ie_encode := encode_gtp_fqcsid_ie;
    ie_decode := decode_gtp_fqcsid_ie;
    ie_merge := merge_gtp_fqcsid_ie |}.
  all: unfold IPV6_ADDRESS_LEN, PDN_CSID_LEN.
  - intros v (Ha & Hc & Hn). unfold layout_gtp_fqcsid_ie. rewrite lsize_app, csid_fields_size.
    cbn [lsize fsize]. rewrite !length_firstn. lia.
  - intros v buf (Ha & Hc & Hn). unfold layout_gtp_fqcsid_ie, encode_gtp_fqcsid_ie.
    destruct (address_len_cases v.(node_id_type)) as [E|E]; rewrite E; cbn [app]; ie_emit_steps;
      (apply emits_copy; [reflexivity|lia|]);
      rewrite <- (app_nil_r (csid_fields _)); eapply emits_app;
      try (apply (put_csids_emits buf v.(pdn_csid) _ 0); [lia|reflexivity]);
      apply emits_ret_eq; rewrite app_nil_r; cbn [lsize fsize skipn]; rewrite csid_fields_size, !length_firstn;
      unfold CHAR_SIZE; f_equal; lia.
  - intros m buf old [h t n na cs] (Ha & Hc & Hn) (Ho & Hoc).
    unfold layout_gtp_fqcsid_ie, merge_gtp_fqcsid_ie.
    cbn [header node_id_type number_of_csids node_address pdn_csid app] in *. apply reads_run.
    ie_read_steps. apply reads_into; [reflexivity | | |].
    1,2: destruct (address_len_cases t) as [E|E]; rewrite E, ?length_firstn; lia.
    rewrite <- (app_nil_r (csid_fields _)). eapply reads_app; [|apply reads_ret].
    apply (get_csids_reads m buf cs old.(pdn_csid) (Z.to_nat n) 0); lia.
Defined.

#[global] Instance gtp_fqcsid_ie_merge_same : IeMergeSame gtp_fqcsid_ie_t.
Proof.
  unfold IeMergeSame; cbn [ie_merge ie_ok ie_layout gtp_fqcsid_ie_format].
  intros [h t n na cs] _ _. unfold merge_gtp_fqcsid_ie.
  cbn [header node_id_type number_of_csids node_address pdn_csid].
  rewrite !firstn_skipn. reflexivity.
Qed.

End gtp_fqcsid_ie.

(** * Lengths that the wire decides *)

(** The length member of the header at [buf]. *)
Definition wire_len (m : bytes) (buf : Z) : Z := m (buf + 1) * 256 + m (buf + 2).

Lemma array_decode_none {T} m buf old (mk : ie_header_t -> list Z -> T) :
  run_dec (
    header <- get_header m buf;;
    arr <- get_bytes_into m buf old header.(hdr_len);;
    ret (header.(hdr_len) + IE_HEADER_SIZE, mk header arr)) = None
  <-> Z.of_nat (length old) < wire_len m buf.
Proof.
  unfold run_dec, bind, get_header, decode_ie_header_t, get_bytes_into. cbn [hdr_len].
  fold (wire_len m buf). destruct (Z.leb_spec (wire_len m buf) (Z.of_nat (length old)));
    split; try discriminate; try lia; auto.
Qed.

Lemma get_csids_none m buf todo itr csids s :
  (itr <= length csids)%nat ->
  gtp_fqcsid_ie.get_csids m buf todo itr csids s = None <-> (length csids < itr + todo)%nat.
Proof.
  revert itr csids s. induction todo as [|todo IH]; intros itr csids s Hi;
    cbn [gtp_fqcsid_ie.get_csids].
  - split; [discriminate | lia].
  - unfold bind, get_bits at 1. destruct s as [t d]. destruct (decode_bits _ _ _ _ _) as [x d'].
    destruct (array_set csids itr x) as [csids'|] eqn:E.
    + pose proof (array_set_length _ _ _ _ E) as Hl.
      assert (itr < length csids)%nat.
      { destruct (Nat.lt_ge_cases itr (length csids)) as [|Hge]; [assumption|].
        apply (array_set_none csids itr x) in Hge. congruence. }
      rewrite IH by lia. lia.
    + apply array_set_none in E. split; [lia | reflexivity].
Qed.

(** the decoders that copy [header.len] bytes write past their array
    exactly when the length on the wire exceeds it: 128 bytes of [apn], 256 of
    [fqdn], 257 of [eps_bearer_lvl_tft], 16 of [ipv4_ipv6_addr], 8 of
    [msisdn_number_digits]; none of them checks it. *)
Theorem copies_overflow (m : bytes) (buf : Z)
    (a : gtp_acc_pt_name_ie.gtp_acc_pt_name_ie_t)
    (f : gtp_fully_qual_domain_name_ie.gtp_fully_qual_domain_name_ie_t)
    (t : gtp_eps_bearer_lvl_traffic_flow_tmpl_ie.gtp_eps_bearer_lvl_traffic_flow_tmpl_ie_t)
    (i : gtp_ip_address_ie.gtp_ip_address_ie_t) (n : gtp_msisdn_ie.gtp_msisdn_ie_t) :
  ie_shape a -> ie_shape f -> ie_shape t -> ie_shape i ->
  (gtp_acc_pt_name_ie.decode_gtp_acc_pt_name_ie m buf a = None <-> 128 < wire_len m buf)
  /\ (gtp_fully_qual_domain_name_ie.decode_gtp_fully_qual_domain_name_ie m buf f = None
      <-> 256 < wire_len m buf)
  /\ (gtp_eps_bearer_lvl_traffic_flow_tmpl_ie.decode_gtp_eps_bearer_lvl_traffic_flow_tmpl_ie
        m buf t = None <-> 257 < wire_len m buf)
  /\ (gtp_ip_address_ie.decode_gtp_ip_address_ie m buf i = None <-> 16 < wire_len m buf)
  /\ (gtp_msisdn_ie.decode_gtp_msisdn_ie m buf n = None <-> 8 < wire_len m buf).
Proof.
  cbn [ie_shape gtp_acc_pt_name_ie.gtp_acc_pt_name_ie_format
    gtp_fully_qual_domain_name_ie.gtp_fully_qual_domain_name_ie_format
    gtp_eps_bearer_lvl_traffic_flow_tmpl_ie.gtp_eps_bearer_lvl_traffic_flow_tmpl_ie_format
    gtp_ip_address_ie.gtp_ip_address_ie_format].
  unfold APN_LEN, FQDN_LEN, BUFF_SIZE, IPV6_ADDRESS_LEN. intros <- <- <- <-.
  repeat split; try apply array_decode_none.
  all: unfold gtp_msisdn_ie.decode_gtp_msisdn_ie; change 8 with (Z.of_nat (length (le_bytes 8 (gtp_msisdn_ie.msisdn_number_digits n))));
    apply (array_decode_none m buf _ (fun h b => gtp_msisdn_ie.Build_gtp_msisdn_ie_t h (le_val b))).
Qed.

Lemma copies_overflow_witness :
  let m := of_list [71; 1; 44; 0] in
  gtp_acc_pt_name_ie.decode_gtp_acc_pt_name_ie m 0
    (gtp_acc_pt_name_ie.Build_gtp_acc_pt_name_ie_t (mk_ie_header 0 0 0) (repeat 0 128)) = None.
Proof.
  apply (copies_overflow (of_list [71; 1; 44; 0]) 0 _
    (gtp_fully_qual_domain_name_ie.Build_gtp_fully_qual_domain_name_ie_t (mk_ie_header 0 0 0) (repeat 0 256))
    (gtp_eps_bearer_lvl_traffic_flow_tmpl_ie.Build_gtp_eps_bearer_lvl_traffic_flow_tmpl_ie_t
       (mk_ie_header 0 0 0) (repeat 0 257))
    (gtp_ip_address_ie.Build_gtp_ip_address_ie_t (mk_ie_header 0 0 0) (repeat 0 16))
    (gtp_msisdn_ie.Build_gtp_msisdn_ie_t (mk_ie_header 0 0 0) 0)); reflexivity.
Defined.

(** the four bit count of an FQ-CSID can announce 15 entries for an array
    of 8: the decoder writes past [pdn_csid] exactly when it announces more
    than 8. *)
Theorem fqcsid_overflow (m : bytes) (buf : Z) (v : gtp_fqcsid_ie.gtp_fqcsid_ie_t) :
  wf_bytes m -> ie_shape v ->
  gtp_fqcsid_ie.decode_gtp_fqcsid_ie m buf v = None <-> 8 < getbits m (8 * buf + 36) 4.
Proof.
  intros Hm [Ha Hc]. unfold IPV6_ADDRESS_LEN, PDN_CSID_LEN in *.
  unfold gtp_fqcsid_ie.decode_gtp_fqcsid_ie, run_dec, bind at 1, get_header, decode_ie_header_t.
  change (u16 (0 + IE_HEADER_SIZE * CHAR_SIZE)) with 32.
  unfold bind at 1, get_bits at 1. rewrite decode_bits_getbits by (auto; lia).
  change (u16 (32 + 4)) with 36. unfold bind at 1, get_bits at 1.
  rewrite decode_bits_getbits by (auto; lia). change (u16 (36 + 4)) with 40.
  unfold bind at 1, get_bytes_into.
  replace (_ <=? Z.of_nat (length v.(gtp_fqcsid_ie.node_address))) with true.
  2: { symmetry. apply Z.leb_le.
       destruct (gtp_fqcsid_ie.address_len_cases (getbits m (8 * buf + 32) 4)); lia. }
  pose proof (getbits_range m (8 * buf + 36) 4 ltac:(lia)) as Hr.
  unfold bind. match goal with |- context [gtp_fqcsid_ie.get_csids ?m ?b ?n ?i ?c ?s] =>
    pose proof (get_csids_none m b n i c s ltac:(lia)) as H0;
    destruct (gtp_fqcsid_ie.get_csids m b n i c s) as [[? []]|] end.
  - split; [discriminate|]. intros Hg. destruct H0 as [_ H0]. discriminate H0. lia.
  - split; [|reflexivity]. intros _. destruct H0 as [H0 _]. specialize (H0 eq_refl). lia.
Qed.

Lemma fqcsid_overflow_witness :
  gtp_fqcsid_ie.decode_gtp_fqcsid_ie (of_list [132; 0; 27; 0; 0x09]) 0
    (gtp_fqcsid_ie.Build_gtp_fqcsid_ie_t (mk_ie_header 0 0 0) 0 0 (repeat 0 16) (repeat 0 8)) = None.
Proof.
  apply fqcsid_overflow.
  - apply of_list_wf. repeat constructor; lia.
  - split; reflexivity.
  - vm_compute. reflexivity.
Defined.
