(* ===== verification/GtpIesSub.v ===== *)
(** Information elements of libgtpv2c that contain other structures or a
    number of flag octets: indication, user location information, presence
    reporting area action and the protocol configuration options. *)

From Stdlib Require Import ZArith List Lia Bool.
From S2P Require Import Prelude EncDecBits WireFormat IeFormat GtpDefs GtpFields.
Import ListNotations.
Open Scope Z_scope.
Open Scope wire_scope.

(** * Structures inside an element

    Around the calls of their codecs the counters are in bytes. *)

(** A structure of whole bytes whose decoder returns their number. *)
Class ByteField (T : Type) := {
  bf_format :: WireFormat T;
  bf_size : Z;
  bf_ok (v : T) : wire_ok v;
  bf_sized (v : T) : lsize (wire_layout v) = 8 * bf_size;
  bf_count (v : T) : wire_count v = bf_size
}.
Arguments bf_size T {_}.

#[global] Instance cgi_field_bytes : ByteField cgi_field.cgi_field_t := {
  bf_format := cgi_field.cgi_field_format; bf_size := 7;
  bf_ok _ := I; bf_sized _ := eq_refl; bf_count _ := eq_refl
}.
#[global] Instance sai_field_bytes : ByteField sai_field.sai_field_t := {
  bf_format := sai_field.sai_field_format; bf_size := 7;
  bf_ok _ := I; bf_sized _ := eq_refl; bf_count _ := eq_refl
}.
#[global] Instance rai_field_bytes : ByteField rai_field.rai_field_t := {
  bf_format := rai_field.rai_field_format; bf_size := 7;
  bf_ok _ := I; bf_sized _ := eq_refl; bf_count _ := eq_refl
}.
#[global] Instance tai_field_bytes : ByteField tai_field.tai_field_t := {
  bf_format := tai_field.tai_field_format; bf_size := 5;
  bf_ok _ := I; bf_sized _ := eq_refl; bf_count _ := eq_refl
}.
#[global] Instance ecgi_field_bytes : ByteField ecgi_field.ecgi_field_t := {
  bf_format := ecgi_field.ecgi_field_format; bf_size := 7;
  bf_ok _ := I; bf_sized _ := eq_refl; bf_count _ := eq_refl
}.
#[global] Instance lai_field_bytes : ByteField lai_field.lai_field_t := {
  bf_format := lai_field.lai_field_format; bf_size := 5;
  bf_ok _ := I; bf_sized _ := eq_refl; bf_count _ := eq_refl
}.
#[global] Instance macro_enb_id_fld_bytes : ByteField macro_enb_id_fld.macro_enb_id_fld_t := {
  bf_format := macro_enb_id_fld.macro_enb_id_fld_format; bf_size := 6;
  bf_ok _ := I; bf_sized _ := eq_refl; bf_count _ := eq_refl
}.
#[global] Instance extnded_macro_enb_id_fld_bytes : ByteField extnded_macro_enb_id_fld.extnded_macro_enb_id_fld_t := {
  bf_format := extnded_macro_enb_id_fld.extnded_macro_enb_id_fld_format; bf_size := 6;
  bf_ok _ := I; bf_sized _ := eq_refl; bf_count _ := eq_refl
}.
#[global] Instance home_enb_id_fld_bytes : ByteField home_enb_id_fld.home_enb_id_fld_t := {
  bf_format := home_enb_id_fld.home_enb_id_fld_format; bf_size := 7;
  bf_ok _ := I; bf_sized _ := eq_refl; bf_count _ := eq_refl
}.

Definition field_layout {T} `{ByteField T} (x : T) : list field := wire_layout x.

(** [encoded += encode_T(&x, buf + encoded);] *)
Definition put_field {T} `{ByteField T} (x : T) (buf encoded : Z) : enc Z :=
  r <- wire_encode x (buf + encoded);;
  ret (u16 (encoded + r)).

(** [total_decoded += decode_T(buf + total_decoded, &x);] *)
Definition get_field {T} `{ByteField T} (m : bytes) (buf : Z) : dec T :=
  fun '(total_decoded, decoded) =>
    match wire_decode m (buf + total_decoded) with
    | Some (c, x) => Some (x, (u16 (total_decoded + c), decoded))
    | None => None
    end.

(** The loop over the first [todo] elements of an array: [None] past its end. *)
Fixpoint put_fields {T} `{ByteField T} (todo i : nat) (a : list T) (buf encoded : Z) : enc Z :=
  match todo with
  | O => ret encoded
  | S todo =>
      match nth_error a i with
      | Some x =>
          encoded <- put_field x buf encoded;;
          put_fields todo (S i) a buf encoded
      | None => fun _ => None
      end
  end.

Fixpoint get_fields {T} `{ByteField T} (m : bytes) (buf : Z) (todo i : nat) (a : list T)
  : dec (list T) :=
  match todo with
  | O => ret a
  | S todo =>
      x <- get_field m buf;;
      match array_set a i x with
      | Some a => get_fields m buf todo (S i) a
      | None => fun _ => None
      end
  end.

(** [total_decoded = total_decoded/CHAR_SIZE;] and back. *)
Definition count_bytes : dec unit := fun '(total_decoded, decoded) =>
  Some (tt, (total_decoded / CHAR_SIZE, decoded)).
Definition count_bits : dec unit := fun '(total_decoded, decoded) =>
  Some (tt, (u16 (total_decoded * CHAR_SIZE), decoded)).

(** The decoder [d], with its counter at bit [off], returns [a] from the fields [fs]. *)
Definition finishes {A} (m : bytes) (buf off : Z) (fs : list field) (d : dec A) (a : A) : Prop :=
  forall c, wf_bytes m -> fields_ok fs -> 0 <= off -> off + lsize fs < 65536 ->
    laid m (8 * buf + off) fs -> exists s, d (off, c) = Some (a, s).

(** The same with the counter at byte [q]. *)
Definition finishes_bytes {A} (m : bytes) (buf q : Z) (fs : list field) (d : dec A) (a : A) : Prop :=
  forall c, wf_bytes m -> fields_ok fs -> 0 <= q -> 8 * q + lsize fs < 65536 ->
    laid m (8 * (buf + q)) fs -> exists s, d (q, c) = Some (a, s).

Lemma finishes_run {A} m buf fs (d : dec A) a :
  finishes m buf 0 fs d a -> decodes m buf fs (run_dec d) a.
Proof.
  intros H Hm Hf Hs Hl. unfold run_dec.
  destruct (H 0 Hm Hf ltac:(lia) ltac:(lia)) as [s ->]; [|reflexivity].
  rewrite Z.add_0_r. exact Hl.
Qed.

Lemma finishes_bind {A B} m buf off fs gs (d : dec A) (k : A -> dec B) a b :
  reads m buf off fs d a -> finishes m buf (off + lsize fs) gs (k a) b ->
  finishes m buf off (fs ++ gs) (bind d k) b.
Proof.
  intros Hd Hk c Hm Hok Hoff Hsz Hl. rewrite fields_ok_app in Hok. rewrite lsize_app in *.
  destruct Hok as [Hf Hg]. rewrite laid_app in Hl. destruct Hl as [Hl1 Hl2].
  pose proof (lsize_nonneg fs Hf). pose proof (lsize_nonneg gs Hg).
  destruct (Hd c Hm Hf Hoff ltac:(lia) Hl1) as [c1 E1].
  destruct (Hk c1 Hm Hg ltac:(lia) ltac:(lia)) as [s E2].
  { rewrite Z.add_assoc. exact Hl2. }
  exists s. unfold bind. rewrite E1. exact E2.
Qed.

Lemma reads_alone {A} m buf off fs (d : dec A) a :
  reads m buf off fs (bind d ret) a -> reads m buf off fs d a.
Proof.
  intros H c Hm Hok Hoff Hs Hl. destruct (H c Hm Hok Hoff Hs Hl) as [c' E]. exists c'.
  unfold bind, ret in E. destruct (d (off, c)) as [[x s]|]; congruence.
Qed.

Lemma finishes_header {A} m buf h fs (k : ie_header_t -> dec A) a :
  finishes m buf 32 fs (k h) a -> finishes m buf 0 (FHdr h :: fs) (bind (get_header m buf) k) a.
Proof.
  intros H. change (FHdr h :: fs) with ([FHdr h] ++ fs).
  apply finishes_bind with (a := h); [|exact H]. apply reads_alone, reads_header, reads_ret.
Qed.

Lemma finishes_bits {A} m buf off v n fs (k : Z -> dec A) a :
  finishes m buf (off + n) fs (k v) a ->
  finishes m buf off (FBits v n :: fs) (bind (get_bits m buf n) k) a.
Proof.
  intros H. change (FBits v n :: fs) with ([FBits v n] ++ fs).
  apply finishes_bind with (a := v); [apply reads_alone, reads_bits, reads_ret|].
  cbn [lsize fsize]. rewrite Z.add_0_r. exact H.
Qed.

Lemma finishes_ret {A} m buf off (a : A) : finishes m buf off [] (ret a) a.
Proof. intros c _ _ _ _ _. eexists. reflexivity. Qed.

Lemma finishes_bytes_ret {A} m buf q (a : A) : finishes_bytes m buf q [] (ret a) a.
Proof. intros c _ _ _ _ _. eexists. reflexivity. Qed.

Lemma finishes_count_bytes {A} m buf q fs (k : unit -> dec A) a :
  finishes_bytes m buf q fs (k tt) a -> finishes m buf (8 * q) fs (bind count_bytes k) a.
Proof.
  intros H c Hm Hok Hq Hs Hl. unfold bind, count_bytes, CHAR_SIZE.
  rewrite (Z.mul_comm 8 q), Z.div_mul by lia. apply H; auto; try lia.
  replace (8 * (buf + q)) with (8 * buf + 8 * q) by lia. exact Hl.
Qed.

Lemma finishes_count_bits {A} m buf q fs (k : unit -> dec A) a :
  finishes m buf (8 * q) fs (k tt) a -> finishes_bytes m buf q fs (bind count_bits k) a.
Proof.
  intros H c Hm Hok Hq Hs Hl. unfold bind, count_bits, CHAR_SIZE.
  pose proof (lsize_nonneg fs Hok). rewrite u16_small, (Z.mul_comm q 8) by lia.
  apply H; auto; try lia.
  replace (8 * buf + 8 * q) with (8 * (buf + q)) by lia. exact Hl.
Qed.

Section Field.
Context {T : Type} `{ByteField T}.

Lemma field_emits (x : T) buf q :
  emits buf (8 * q) (field_layout x) (put_field x buf q) (q + bf_size T).
Proof.
  unfold field_layout. intros m Hm Hok Hq Hs Hz. pose proof (bf_sized x) as Hsz. pose proof (lsize_nonneg _ Hok).
  destruct (wire_emits x (buf + q) (bf_ok x) m Hm Hok) as (m' & E & R);
    rewrite ?Hsz, ?Z.add_0_r in *; try lia.
  { replace (8 * (buf + q)) with (8 * buf + 8 * q) by lia. exact Hz. }
  replace (8 * (buf + q)) with (8 * buf + 8 * q) in R by lia.
  rewrite (Z.mul_comm 8 (bf_size T)), Z.div_mul in E by lia.
  exists m'. split; [|exact R]. unfold put_field, bind. rewrite E, u16_small by lia. reflexivity.
Qed.

Definition opt_size (b : bool) : Z := if b then bf_size T else 0.

Lemma opt_layout_size (b : bool) (x : T) : lsize (if b then field_layout x else []) = 8 * opt_size b.
Proof. destruct b; [apply bf_sized | reflexivity]. Qed.

Lemma emits_opt {A} (b : bool) (x : T) buf q fs (k : Z -> enc A) a :
  emits buf (8 * (q + opt_size b)) fs (k (q + opt_size b)) a ->
  emits buf (8 * q) ((if b then field_layout x else []) ++ fs)
    (bind (if b then put_field x buf q else ret q) k) a.
Proof.
  intros Hk. eapply emits_app with (a := q + opt_size b).
  - destruct b; [apply field_emits|]. cbn. rewrite Z.add_0_r. apply emits_ret.
  - rewrite opt_layout_size. replace (8 * q + 8 * opt_size b) with (8 * (q + opt_size b)) by lia.
    exact Hk.
Qed.

Lemma finishes_field {A} m buf q (x : T) fs (k : T -> dec A) a :
  finishes_bytes m buf (q + bf_size T) fs (k x) a ->
  finishes_bytes m buf q (field_layout x ++ fs) (bind (get_field m buf) k) a.
Proof.
  unfold field_layout. intros Hk c Hm Hok Hq Hs Hl. rewrite fields_ok_app in Hok.
  rewrite lsize_app, bf_sized in Hs.
  rewrite laid_app, bf_sized in Hl. destruct Hok as [Hf Hg], Hl as [Hl1 Hl2].
  pose proof (lsize_nonneg _ Hf) as Hn. rewrite bf_sized in Hn. pose proof (lsize_nonneg _ Hg).
  unfold bind, get_field.
  rewrite (wire_decodes m (buf + q) x (bf_ok x) Hm Hf (wire_bound x (bf_ok x)) Hl1), bf_count,
    u16_small by lia.
  apply Hk; auto; try lia.
  replace (8 * (buf + (q + bf_size T))) with (8 * (buf + q) + 8 * bf_size T) by lia. exact Hl2.
Qed.

Lemma finishes_opt {A} m buf q (b : bool) (x old : T) fs (k : T -> dec A) a :
  finishes_bytes m buf (q + opt_size b) fs (k (if b then x else old)) a ->
  finishes_bytes m buf q ((if b then field_layout x else []) ++ fs)
    (bind (if b then get_field m buf else ret old) k) a.
Proof.
  destruct b; cbn [app opt_size]; [apply finishes_field|]. rewrite Z.add_0_r. auto.
Qed.

(** Arrays of structures. *)
Definition layout_fields (l : list T) : list field := flat_map field_layout l.

Lemma layout_fields_size (l : list T) : lsize (layout_fields l) = 8 * (bf_size T * Z.of_nat (length l)).
Proof.
  induction l as [|x l IH]; unfold layout_fields in *; cbn [flat_map length lsize]; [lia|].
  rewrite lsize_app, IH. unfold field_layout. rewrite bf_sized. lia.
Qed.

Lemma put_fields_emits buf (l : list T) n i q :
  (i + n <= length l)%nat ->
  emits buf (8 * q) (layout_fields (firstn n (skipn i l))) (put_fields n i l buf q)
    (q + bf_size T * Z.of_nat n).
Proof.
  revert i q. induction n as [|n IH]; intros i q Hi.
  - apply emits_ret_eq. lia.
  - destruct (nth_error l i) as [x|] eqn:Hx; [|apply nth_error_None in Hx; lia].
    rewrite (skipn_nth l i x Hx). cbn [firstn put_fields]. rewrite Hx.
    unfold layout_fields. cbn [flat_map]. eapply emits_app; [apply field_emits|].
    unfold field_layout. rewrite bf_sized. replace (8 * q + 8 * bf_size T) with (8 * (q + bf_size T)) by lia.
    replace (q + bf_size T * Z.of_nat (S n)) with (q + bf_size T + bf_size T * Z.of_nat n) by lia.
    apply IH. lia.
Qed.

Lemma emits_fields {A} buf (l : list T) n q fs (k : Z -> enc A) a :
  (n <= length l)%nat ->
  emits buf (8 * (q + bf_size T * Z.of_nat n)) fs (k (q + bf_size T * Z.of_nat n)) a ->
  emits buf (8 * q) (layout_fields (firstn n l) ++ fs) (bind (put_fields n 0 l buf q) k) a.
Proof.
  intros Hn Hk. eapply emits_app; [apply (put_fields_emits buf l n 0 q); lia|].
  cbn [skipn]. rewrite layout_fields_size, length_firstn, Nat.min_l by lia.
  replace (8 * q + 8 * (bf_size T * Z.of_nat n)) with (8 * (q + bf_size T * Z.of_nat n)) by lia.
  exact Hk.
Qed.

Lemma get_fields_finishes {A} m buf (l old : list T) n i q fs (k : list T -> dec A) a :
  (i + n <= length l)%nat -> length old = length l ->
  finishes_bytes m buf (q + bf_size T * Z.of_nat n) fs
    (k (firstn (i + n) l ++ skipn (i + n) old)) a ->
  finishes_bytes m buf q (layout_fields (firstn n (skipn i l)) ++ fs)
    (bind (get_fields m buf n i (firstn i l ++ skipn i old)) k) a.
Proof.
  intros Hi Hlen. revert i q Hi. induction n as [|n IH]; intros i q Hi Hk.
  - cbn [firstn layout_fields flat_map app get_fields]. rewrite Nat.add_0_r in Hk.
    replace (q + bf_size T * Z.of_nat 0) with q in Hk by lia. exact Hk.
  - destruct (nth_error l i) as [x|] eqn:Hx; [|apply nth_error_None in Hx; lia].
    rewrite (skipn_nth l i x Hx). cbn [firstn get_fields].
    unfold layout_fields. cbn [flat_map]. rewrite <- app_assoc.
    intros c Hm Hok Hq Hs Hl.
    destruct (finishes_field m buf q x
      (layout_fields (firstn n (skipn (S i) l)) ++ fs)
      (fun y => bind match array_set (firstn i l ++ skipn i old) i y with
                     | Some b => get_fields m buf n (S i) b
                     | None => fun _ => None end k) a) with (c := c) as [s E]; auto.
    + rewrite (array_set_prefix l old i x Hx) by lia. apply IH; [lia|].
      replace (i + S n)%nat with (S i + n)%nat in Hk by lia.
      replace (q + bf_size T + bf_size T * Z.of_nat n) with (q + bf_size T * Z.of_nat (S n)) by lia.
      exact Hk.
    + exists s. revert E. unfold bind. destruct (get_field m buf (q, c)) as [[y s1]|]; auto.
Qed.

Lemma finishes_fields {A} m buf (l old : list T) n q fs (k : list T -> dec A) a :
  (n <= length l)%nat -> length old = length l ->
  finishes_bytes m buf (q + bf_size T * Z.of_nat n) fs (k (firstn n l ++ skipn n old)) a ->
  finishes_bytes m buf q (layout_fields (firstn n l) ++ fs)
    (bind (get_fields m buf n 0 old) k) a.
Proof. intros Hn Hl Hk. apply (get_fields_finishes m buf l old n 0 q); auto. Qed.

End Field.
Arguments opt_size T {_} b.

Ltac opt_size_of b x :=
  let T := type of x in let H := fresh in
  assert (H : lsize (if b then field_layout x else []) = 8 * opt_size T b)
    by apply (opt_layout_size (T := T));
  rewrite H; clear H.

(** ** User location information *)

Module gtp_user_loc_info_ie.

Record gtp_user_loc_info_ie_t := {
  header : ie_header_t;
  extnded_macro_enb_id : Z;  (* uint8_t :1 *)
  macro_enodeb_id : Z;  (* uint8_t :1 *)
  lai : Z;  (* uint8_t :1 *)
  ecgi : Z;  (* uint8_t :1 *)
  tai : Z;  (* uint8_t :1 *)
  rai : Z;  (* uint8_t :1 *)
  sai : Z;  (* uint8_t :1 *)
  cgi : Z;  (* uint8_t :1 *)
  cgi2 : cgi_field.cgi_field_t;
  sai2 : sai_field.sai_field_t;
  rai2 : rai_field.rai_field_t;
  tai2 : tai_field.tai_field_t;
  ecgi2 : ecgi_field.ecgi_field_t;
  lai2 : lai_field.lai_field_t;
  macro_enodeb_id2 : macro_enb_id_fld.macro_enb_id_fld_t;
  extended_macro_enodeb_id2 : extnded_macro_enb_id_fld.extnded_macro_enb_id_fld_t
}.

(** A flag of one bit, as a condition. *)
Definition on (flag : Z) : bool := negb (flag =? 0).

Definition encode_gtp_user_loc_info_ie (value : gtp_user_loc_info_ie_t) (buf : Z) : enc Z :=
  encoded <- ret 0;;
  encoded <- put_header value.(header) buf encoded;;
  encoded <- put_bits value.(extnded_macro_enb_id) 1 buf encoded;;
  encoded <- put_bits value.(macro_enodeb_id) 1 buf encoded;;
  encoded <- put_bits value.(lai) 1 buf encoded;;
  encoded <- put_bits value.(ecgi) 1 buf encoded;;
  encoded <- put_bits value.(tai) 1 buf encoded;;
  encoded <- put_bits value.(rai) 1 buf encoded;;
  encoded <- put_bits value.(sai) 1 buf encoded;;
  encoded <- put_bits value.(cgi) 1 buf encoded;;
  encoded <- ret (encoded / CHAR_SIZE);;
  encoded <- (if on value.(cgi) then put_field value.(cgi2) buf encoded else ret encoded);;
  encoded <- (if on value.(sai) then put_field value.(sai2) buf encoded else ret encoded);;
  encoded <- (if on value.(rai) then put_field value.(rai2) buf encoded else ret encoded);;
  encoded <- (if on value.(tai) then put_field value.(tai2) buf encoded else ret encoded);;
  encoded <- (if on value.(ecgi) then put_field value.(ecgi2) buf encoded else ret encoded);;
  encoded <- (if on value.(lai) then put_field value.(lai2) buf encoded else ret encoded);;
  encoded <- (if on value.(macro_enodeb_id) then put_field value.(macro_enodeb_id2) buf encoded
              else ret encoded);;
  encoded <- (if on value.(extnded_macro_enb_id)
              then put_field value.(extended_macro_enodeb_id2) buf encoded else ret encoded);;
  ret encoded.

Definition decode_gtp_user_loc_info_ie (m : bytes) (buf : Z) (value : gtp_user_loc_info_ie_t)
  : option (Z * gtp_user_loc_info_ie_t) :=
  run_dec (
  header <- get_header m buf;;
  extnded_macro_enb_id <- get_bits m buf 1;;
  macro_enodeb_id <- get_bits m buf 1;;
  lai <- get_bits m buf 1;;
  ecgi <- get_bits m buf 1;;
  tai <- get_bits m buf 1;;
  rai <- get_bits m buf 1;;
  sai <- get_bits m buf 1;;
  cgi <- get_bits m buf 1;;
  _ <- count_bytes;;
  cgi2 <- (if on cgi then get_field m buf else ret value.(cgi2));;
  sai2 <- (if on sai then get_field m buf else ret value.(sai2));;
  rai2 <- (if on rai then get_field m buf else ret value.(rai2));;
  tai2 <- (if on tai then get_field m buf else ret value.(tai2));;
  ecgi2 <- (if on ecgi then get_field m buf else ret value.(ecgi2));;
  lai2 <- (if on lai then get_field m buf else ret value.(lai2));;
  macro_enodeb_id2 <- (if on macro_enodeb_id then get_field m buf else ret value.(macro_enodeb_id2));;
  extended_macro_enodeb_id2 <-
    (if on extnded_macro_enb_id then get_field m buf else ret value.(extended_macro_enodeb_id2));;
  ret (header.(hdr_len) + IE_HEADER_SIZE,
       Build_gtp_user_loc_info_ie_t header extnded_macro_enb_id macro_enodeb_id lai ecgi tai rai sai cgi
         cgi2 sai2 rai2 tai2 ecgi2 lai2 macro_enodeb_id2 extended_macro_enodeb_id2)).

Definition flags_gtp_user_loc_info_ie (v : gtp_user_loc_info_ie_t) : list field :=
  [FHdr v.(header); FBits v.(extnded_macro_enb_id) 1; FBits v.(macro_enodeb_id) 1; FBits v.(lai) 1;
   FBits v.(ecgi) 1; FBits v.(tai) 1; FBits v.(rai) 1; FBits v.(sai) 1; FBits v.(cgi) 1].

Definition layout_gtp_user_loc_info_ie (v : gtp_user_loc_info_ie_t) : list field :=
  flags_gtp_user_loc_info_ie v
  ++ (if on v.(cgi) then field_layout v.(cgi2) else [])
  ++ (if on v.(sai) then field_layout v.(sai2) else [])
  ++ (if on v.(rai) then field_layout v.(rai2) else [])
  ++ (if on v.(tai) then field_layout v.(tai2) else [])
  ++ (if on v.(ecgi) then field_layout v.(ecgi2) else [])
  ++ (if on v.(lai) then field_layout v.(lai2) else [])
  ++ (if on v.(macro_enodeb_id) then field_layout v.(macro_enodeb_id2) else [])
  ++ (if on v.(extnded_macro_enb_id) then field_layout v.(extended_macro_enodeb_id2) else [])
  ++ [].

Definition merge_gtp_user_loc_info_ie (old v : gtp_user_loc_info_ie_t) : gtp_user_loc_info_ie_t :=
  Build_gtp_user_loc_info_ie_t v.(header) v.(extnded_macro_enb_id) v.(macro_enodeb_id) v.(lai)
    v.(ecgi) v.(tai) v.(rai) v.(sai) v.(cgi)
    (if on v.(cgi) then v.(cgi2) else old.(cgi2))
    (if on v.(sai) then v.(sai2) else old.(sai2))
    (if on v.(rai) then v.(rai2) else old.(rai2))
    (if on v.(tai) then v.(tai2) else old.(tai2))
    (if on v.(ecgi) then v.(ecgi2) else old.(ecgi2))
    (if on v.(lai) then v.(lai2) else old.(lai2))
    (if on v.(macro_enodeb_id) then v.(macro_enodeb_id2) else old.(macro_enodeb_id2))
    (if on v.(extnded_macro_enb_id) then v.(extended_macro_enodeb_id2)
     else old.(extended_macro_enodeb_id2)).

Definition bytes_gtp_user_loc_info_ie (v : gtp_user_loc_info_ie_t) : Z :=
  5 + opt_size cgi_field.cgi_field_t (on v.(cgi)) + opt_size sai_field.sai_field_t (on v.(sai))
  + opt_size rai_field.rai_field_t (on v.(rai)) + opt_size tai_field.tai_field_t (on v.(tai))
  + opt_size ecgi_field.ecgi_field_t (on v.(ecgi)) + opt_size lai_field.lai_field_t (on v.(lai))
  + opt_size macro_enb_id_fld.macro_enb_id_fld_t (on v.(macro_enodeb_id))
  + opt_size extnded_macro_enb_id_fld.extnded_macro_enb_id_fld_t (on v.(extnded_macro_enb_id)).

Lemma user_loc_info_size v :
  lsize (layout_gtp_user_loc_info_ie v) = 8 * bytes_gtp_user_loc_info_ie v.
Proof.
  unfold layout_gtp_user_loc_info_ie, bytes_gtp_user_loc_info_ie.
  rewrite !lsize_app.
  opt_size_of (on v.(cgi)) v.(cgi2). opt_size_of (on v.(sai)) v.(sai2).
  opt_size_of (on v.(rai)) v.(rai2). opt_size_of (on v.(tai)) v.(tai2).
  opt_size_of (on v.(ecgi)) v.(ecgi2). opt_size_of (on v.(lai)) v.(lai2).
  opt_size_of (on v.(macro_enodeb_id)) v.(macro_enodeb_id2).
  opt_size_of (on v.(extnded_macro_enb_id)) v.(extended_macro_enodeb_id2).
  cbn [lsize fsize flags_gtp_user_loc_info_ie]. lia.
Qed.

Lemma user_loc_info_bound v : 0 <= bytes_gtp_user_loc_info_ie v <= 60.
Proof.
  unfold bytes_gtp_user_loc_info_ie, opt_size.
  repeat match goal with |- context [if ?b then _ else _] => destruct b end; cbn; lia.
Qed.

#[global] Instance gtp_user_loc_info_ie_format : IeFormat gtp_user_loc_info_ie_t.
Proof.
  refine {|
    ie_layout := layout_gtp_user_loc_info_ie;
    ie_ok v := True;
    ie_shape v := True;
    ie_count v := v.(header).(hdr_len) + IE_HEADER_SIZE;
    ie_encode := encode_gtp_user_loc_info_ie;
    ie_decode := decode_gtp_user_loc_info_ie;
    ie_merge := merge_gtp_user_loc_info_ie |}.
  - intros v _. rewrite user_loc_info_size. pose proof (user_loc_info_bound v). lia.
  - intros v buf _. rewrite user_loc_info_size, (Z.mul_comm 8), Z.div_mul by lia.
    unfold layout_gtp_user_loc_info_ie, encode_gtp_user_loc_info_ie.
    cbn [flags_gtp_user_loc_info_ie app]. ie_emit_steps. change (40 / CHAR_SIZE) with 5.
    change 40 with (8 * 5). do 8 apply emits_opt. apply emits_ret_eq. reflexivity.
  - intros m buf old [] _ _. unfold layout_gtp_user_loc_info_ie, merge_gtp_user_loc_info_ie.
    apply finishes_run. cbn [flags_gtp_user_loc_info_ie app header extnded_macro_enb_id
      macro_enodeb_id lai ecgi tai rai sai cgi cgi2 sai2 rai2 tai2 ecgi2 lai2 macro_enodeb_id2
      extended_macro_enodeb_id2].
    apply (finishes_header m buf). do 8 apply finishes_bits. apply (finishes_count_bytes m buf 5).
    do 8 apply finishes_opt. apply finishes_bytes_ret.
Defined.

End gtp_user_loc_info_ie.

(** ** Presence reporting area action *)

Module gtp_pres_rptng_area_act_ie.

Record gtp_pres_rptng_area_act_ie_t := {
  header : ie_header_t;
  spare2 : Z;  (* uint8_t :4 *)
  inapra : Z;  (* uint8_t :1 *)
  action : Z;  (* uint8_t :3 *)
  pres_rptng_area_idnt : Z;  (* uint32_t :24 *)
  number_of_tai : Z;  (* uint8_t :4 *)
  number_of_rai : Z;  (* uint8_t :4 *)
  spare3 : Z;  (* uint8_t :2 *)
  nbr_of_macro_enb : Z;  (* uint8_t :6 *)
  spare4 : Z;  (* uint8_t :2 *)
  nbr_of_home_enb : Z;  (* uint8_t :6 *)
  spare5 : Z;  (* uint8_t :2 *)
  number_of_ecgi : Z;  (* uint8_t :6 *)
  spare6 : Z;  (* uint8_t :2 *)
  number_of_sai : Z;  (* uint8_t :6 *)
  spare7 : Z;  (* uint8_t :2 *)
  number_of_cgi : Z;  (* uint8_t :6 *)
  tais : list tai_field.tai_field_t;  (* [MAX_TAIS] *)
  macro_enb_ids : list macro_enb_id_fld.macro_enb_id_fld_t;  (* [MAX_MACRO_ENB_IDS] *)
  home_enb_ids : list home_enb_id_fld.home_enb_id_fld_t;  (* [MAX_HOME_ENB_IDS] *)
  ecgis : list ecgi_field.ecgi_field_t;  (* [MAX_ECGIS] *)
  rais : list rai_field.rai_field_t;  (* [MAX_RAIS] *)
  sais : list sai_field.sai_field_t;  (* [MAX_SAIS] *)
  cgis : list cgi_field.cgi_field_t;  (* [MAX_CGIS] *)
  spare8 : Z;  (* uint8_t :2 *)
  nbr_of_extnded_macro_enb : Z;  (* uint8_t :6 *)
  extnded_macro_enb_ids : list extnded_macro_enb_id_fld.extnded_macro_enb_id_fld_t
    (* [MAX_EX_MACRO_ENB_IDS] *)
}.

Definition encode_gtp_pres_rptng_area_act_ie (value : gtp_pres_rptng_area_act_ie_t) (buf : Z)
  : enc Z :=
  encoded <- ret 0;;
  encoded <- put_header value.(header) buf encoded;;
  encoded <- put_bits value.(spare2) 4 buf encoded;;
  encoded <- put_bits value.(inapra) 1 buf encoded;;
  encoded <- put_bits value.(action) 3 buf encoded;;
  encoded <- put_bits value.(pres_rptng_area_idnt) 24 buf encoded;;
  encoded <- put_bits value.(number_of_tai) 4 buf encoded;;
  encoded <- put_bits value.(number_of_rai) 4 buf encoded;;
  encoded <- put_bits value.(spare3) 2 buf encoded;;
  encoded <- put_bits value.(nbr_of_macro_enb) 6 buf encoded;;
  encoded <- put_bits value.(spare4) 2 buf encoded;;
  encoded <- put_bits value.(nbr_of_home_enb) 6 buf encoded;;
  encoded <- put_bits value.(spare5) 2 buf encoded;;
  encoded <- put_bits value.(number_of_ecgi) 6 buf encoded;;
  encoded <- put_bits value.(spare6) 2 buf encoded;;
  encoded <- put_bits value.(number_of_sai) 6 buf encoded;;
  encoded <- put_bits value.(spare7) 2 buf encoded;;
  encoded <- put_bits value.(number_of_cgi) 6 buf encoded;;
  encoded <- ret (encoded / CHAR_SIZE);;
  encoded <- put_fields (Z.to_nat value.(number_of_tai)) 0 value.(tais) buf encoded;;
  encoded <- put_fields (Z.to_nat value.(nbr_of_macro_enb)) 0 value.(macro_enb_ids) buf encoded;;
  encoded <- put_fields (Z.to_nat value.(nbr_of_home_enb)) 0 value.(home_enb_ids) buf encoded;;
  encoded <- put_fields (Z.to_nat value.(number_of_ecgi)) 0 value.(ecgis) buf encoded;;
  encoded <- put_fields (Z.to_nat value.(number_of_rai)) 0 value.(rais) buf encoded;;
  encoded <- put_fields (Z.to_nat value.(number_of_sai)) 0 value.(sais) buf encoded;;
  encoded <- put_fields (Z.to_nat value.(number_of_cgi)) 0 value.(cgis) buf encoded;;
  encoded <- ret (u16 (encoded * CHAR_SIZE));;
  encoded <- put_bits value.(spare8) 2 buf encoded;;
  encoded <- put_bits value.(nbr_of_extnded_macro_enb) 6 buf encoded;;
  encoded <- ret (encoded / CHAR_SIZE);;
  encoded <- put_fields (Z.to_nat value.(nbr_of_extnded_macro_enb)) 0
               value.(extnded_macro_enb_ids) buf encoded;;
  ret encoded.

Definition decode_gtp_pres_rptng_area_act_ie (m : bytes) (buf : Z)
    (value : gtp_pres_rptng_area_act_ie_t) : option (Z * gtp_pres_rptng_area_act_ie_t) :=
  run_dec (
  header <- get_header m buf;;
  spare2 <- get_bits m buf 4;;
  inapra <- get_bits m buf 1;;
  action <- get_bits m buf 3;;
  pres_rptng_area_idnt <- get_bits m buf 24;;
  number_of_tai <- get_bits m buf 4;;
  number_of_rai <- get_bits m buf 4;;
  spare3 <- get_bits m buf 2;;
  nbr_of_macro_enb <- get_bits m buf 6;;
  spare4 <- get_bits m buf 2;;
  nbr_of_home_enb <- get_bits m buf 6;;
  spare5 <- get_bits m buf 2;;
  number_of_ecgi <- get_bits m buf 6;;
  spare6 <- get_bits m buf 2;;
  number_of_sai <- get_bits m buf 6;;
  spare7 <- get_bits m buf 2;;
  number_of_cgi <- get_bits m buf 6;;
  _ <- count_bytes;;
  tais <- get_fields m buf (Z.to_nat number_of_tai) 0 value.(tais);;
  macro_enb_ids <- get_fields m buf (Z.to_nat nbr_of_macro_enb) 0 value.(macro_enb_ids);;
  home_enb_ids <- get_fields m buf (Z.to_nat nbr_of_home_enb) 0 value.(home_enb_ids);;
  ecgis <- get_fields m buf (Z.to_nat number_of_ecgi) 0 value.(ecgis);;
  rais <- get_fields m buf (Z.to_nat number_of_rai) 0 value.(rais);;
  sais <- get_fields m buf (Z.to_nat number_of_sai) 0 value.(sais);;
  cgis <- get_fields m buf (Z.to_nat number_of_cgi) 0 value.(cgis);;
  _ <- count_bits;;
  spare8 <- get_bits m buf 2;;
  nbr_of_extnded_macro_enb <- get_bits m buf 6;;
  _ <- count_bytes;;
  extnded_macro_enb_ids <- get_fields m buf (Z.to_nat nbr_of_extnded_macro_enb) 0
                             value.(extnded_macro_enb_ids);;
  ret (header.(hdr_len) + IE_HEADER_SIZE,
       Build_gtp_pres_rptng_area_act_ie_t header spare2 inapra action pres_rptng_area_idnt
         number_of_tai number_of_rai spare3 nbr_of_macro_enb spare4 nbr_of_home_enb spare5
         number_of_ecgi spare6 number_of_sai spare7 number_of_cgi tais macro_enb_ids home_enb_ids
         ecgis rais sais cgis spare8 nbr_of_extnded_macro_enb extnded_macro_enb_ids)).

Definition taken {T} (n : Z) (l : list T) : list T := firstn (Z.to_nat n) l.

Definition layout_gtp_pres_rptng_area_act_ie (v : gtp_pres_rptng_area_act_ie_t) : list field :=
  [FHdr v.(header); FBits v.(spare2) 4; FBits v.(inapra) 1; FBits v.(action) 3;
   FBits v.(pres_rptng_area_idnt) 24; FBits v.(number_of_tai) 4; FBits v.(number_of_rai) 4;
   FBits v.(spare3) 2; FBits v.(nbr_of_macro_enb) 6; FBits v.(spare4) 2;
   FBits v.(nbr_of_home_enb) 6; FBits v.(spare5) 2; FBits v.(number_of_ecgi) 6;
   FBits v.(spare6) 2; FBits v.(number_of_sai) 6; FBits v.(spare7) 2; FBits v.(number_of_cgi) 6]
  ++ layout_fields (taken v.(number_of_tai) v.(tais))
  ++ layout_fields (taken v.(nbr_of_macro_enb) v.(macro_enb_ids))
  ++ layout_fields (taken v.(nbr_of_home_enb) v.(home_enb_ids))
  ++ layout_fields (taken v.(number_of_ecgi) v.(ecgis))
  ++ layout_fields (taken v.(number_of_rai) v.(rais))
  ++ layout_fields (taken v.(number_of_sai) v.(sais))
  ++ layout_fields (taken v.(number_of_cgi) v.(cgis))
  ++ [FBits v.(spare8) 2; FBits v.(nbr_of_extnded_macro_enb) 6]
  ++ layout_fields (taken v.(nbr_of_extnded_macro_enb) v.(extnded_macro_enb_ids))
  ++ [].

(** The arrays have their C lengths. *)
Definition shape_gtp_pres_rptng_area_act_ie (v : gtp_pres_rptng_area_act_ie_t) : Prop :=
  length v.(tais) = 15%nat /\ length v.(macro_enb_ids) = 63%nat /\ length v.(home_enb_ids) = 63%nat
  /\ length v.(ecgis) = 63%nat /\ length v.(rais) = 15%nat /\ length v.(sais) = 63%nat
  /\ length v.(cgis) = 63%nat /\ length v.(extnded_macro_enb_ids) = 63%nat.

(** The counters hold values of their bit fields. *)
Definition ok_gtp_pres_rptng_area_act_ie (v : gtp_pres_rptng_area_act_ie_t) : Prop :=
  shape_gtp_pres_rptng_area_act_ie v
  /\ 0 <= v.(number_of_tai) < 16 /\ 0 <= v.(number_of_rai) < 16
  /\ 0 <= v.(nbr_of_macro_enb) < 64 /\ 0 <= v.(nbr_of_home_enb) < 64
  /\ 0 <= v.(number_of_ecgi) < 64 /\ 0 <= v.(number_of_sai) < 64
  /\ 0 <= v.(number_of_cgi) < 64 /\ 0 <= v.(nbr_of_extnded_macro_enb) < 64.

Definition over {T} (n : Z) (l old : list T) : list T :=
  firstn (Z.to_nat n) l ++ skipn (Z.to_nat n) old.

Definition merge_gtp_pres_rptng_area_act_ie (old v : gtp_pres_rptng_area_act_ie_t)
  : gtp_pres_rptng_area_act_ie_t :=
  Build_gtp_pres_rptng_area_act_ie_t v.(header) v.(spare2) v.(inapra) v.(action)
    v.(pres_rptng_area_idnt) v.(number_of_tai) v.(number_of_rai) v.(spare3) v.(nbr_of_macro_enb)
    v.(spare4) v.(nbr_of_home_enb) v.(spare5) v.(number_of_ecgi) v.(spare6) v.(number_of_sai)
    v.(spare7) v.(number_of_cgi)
    (over v.(number_of_tai) v.(tais) old.(tais))
    (over v.(nbr_of_macro_enb) v.(macro_enb_ids) old.(macro_enb_ids))
    (over v.(nbr_of_home_enb) v.(home_enb_ids) old.(home_enb_ids))
    (over v.(number_of_ecgi) v.(ecgis) old.(ecgis))
    (over v.(number_of_rai) v.(rais) old.(rais))
    (over v.(number_of_sai) v.(sais) old.(sais))
    (over v.(number_of_cgi) v.(cgis) old.(cgis))
    v.(spare8) v.(nbr_of_extnded_macro_enb)
    (over v.(nbr_of_extnded_macro_enb) v.(extnded_macro_enb_ids) old.(extnded_macro_enb_ids)).

Definition bytes_before_last (v : gtp_pres_rptng_area_act_ie_t) : Z :=
  14 + 5 * v.(number_of_tai) + 6 * v.(nbr_of_macro_enb) + 7 * v.(nbr_of_home_enb)
  + 7 * v.(number_of_ecgi) + 7 * v.(number_of_rai) + 7 * v.(number_of_sai) + 7 * v.(number_of_cgi).

Definition bytes_gtp_pres_rptng_area_act_ie (v : gtp_pres_rptng_area_act_ie_t) : Z :=
  bytes_before_last v + 1 + 6 * v.(nbr_of_extnded_macro_enb).

Lemma taken_size {T} `{ByteField T} n (l : list T) :
  0 <= n <= Z.of_nat (length l) -> lsize (layout_fields (taken n l)) = 8 * (bf_size T * n).
Proof.
  intros Hn. rewrite layout_fields_size. unfold taken. rewrite length_firstn, Nat.min_l by lia.
  rewrite Z2Nat.id by lia. reflexivity.
Qed.

Lemma pres_rptng_area_act_size v :
  ok_gtp_pres_rptng_area_act_ie v ->
  lsize (layout_gtp_pres_rptng_area_act_ie v) = 8 * bytes_gtp_pres_rptng_area_act_ie v.
Proof.
  intros [(H1 & H2 & H3 & H4 & H5 & H6 & H7 & H8) Hc].
  unfold layout_gtp_pres_rptng_area_act_ie, bytes_gtp_pres_rptng_area_act_ie, bytes_before_last.
  rewrite !lsize_app, !taken_size by lia. cbn [lsize fsize].
  cbn [bf_size tai_field_bytes macro_enb_id_fld_bytes home_enb_id_fld_bytes ecgi_field_bytes
    rai_field_bytes sai_field_bytes cgi_field_bytes extnded_macro_enb_id_fld_bytes]. lia.
Qed.

#[global] Instance gtp_pres_rptng_area_act_ie_format : IeFormat gtp_pres_rptng_area_act_ie_t.
Proof.
  refine {|
    ie_layout := layout_gtp_pres_rptng_area_act_ie;
    ie_ok := ok_gtp_pres_rptng_area_act_ie;
    ie_shape := shape_gtp_pres_rptng_area_act_ie;
    ie_count v := v.(header).(hdr_len) + IE_HEADER_SIZE;
    ie_encode := encode_gtp_pres_rptng_area_act_ie;
    ie_decode := decode_gtp_pres_rptng_area_act_ie;
    ie_merge := merge_gtp_pres_rptng_area_act_ie |}.
  - intros v Hok. rewrite pres_rptng_area_act_size by exact Hok. destruct Hok as [_ Hc].
    unfold bytes_gtp_pres_rptng_area_act_ie, bytes_before_last. lia.
  - intros v buf Hok. rewrite pres_rptng_area_act_size, (Z.mul_comm 8), Z.div_mul by (auto; lia).
    destruct Hok as [(H1 & H2 & H3 & H4 & H5 & H6 & H7 & H8) Hc].
    unfold layout_gtp_pres_rptng_area_act_ie, encode_gtp_pres_rptng_area_act_ie, taken.
    cbn [app]. ie_emit_steps. change (112 / CHAR_SIZE) with 14. change 112 with (8 * 14).
    do 7 (apply emits_fields; [lia|]).
    rewrite !Z2Nat.id by lia.
    cbn [bf_size tai_field_bytes macro_enb_id_fld_bytes home_enb_id_fld_bytes ecgi_field_bytes
      rai_field_bytes sai_field_bytes cgi_field_bytes].
    set (q := 14 + _ + _ + _ + _ + _ + _ + _). assert (Hq : q = bytes_before_last v) by reflexivity.
    apply emits_pure. rewrite u16_small
      by (rewrite Hq; unfold bytes_before_last, CHAR_SIZE; lia).
    unfold CHAR_SIZE. rewrite (Z.mul_comm q 8).
    eapply emits_bits; [reflexivity|]. eapply emits_bits; [reflexivity|]. apply emits_pure.
    replace (8 * q + 2 + 6) with (8 * (q + 1)) by lia.
    rewrite (Z.mul_comm 8 (q + 1)), Z.div_mul, (Z.mul_comm (q + 1) 8) by lia.
    apply emits_fields; [lia|]. apply emits_ret_eq. rewrite Z2Nat.id by lia.
    unfold bytes_gtp_pres_rptng_area_act_ie. rewrite <- Hq. reflexivity.
  - intros m buf old [] Hok (O1 & O2 & O3 & O4 & O5 & O6 & O7 & O8).
    destruct Hok as [(H1 & H2 & H3 & H4 & H5 & H6 & H7 & H8) Hc].
    unfold layout_gtp_pres_rptng_area_act_ie, merge_gtp_pres_rptng_area_act_ie, taken, over.
    cbn [header spare2 inapra action pres_rptng_area_idnt number_of_tai number_of_rai spare3
      nbr_of_macro_enb spare4 nbr_of_home_enb spare5 number_of_ecgi spare6 number_of_sai spare7
      number_of_cgi tais macro_enb_ids home_enb_ids ecgis rais sais cgis spare8
      nbr_of_extnded_macro_enb extnded_macro_enb_ids app] in *.
    apply finishes_run, finishes_header. do 16 apply finishes_bits.
    apply (finishes_count_bytes m buf 14).
    do 7 (apply finishes_fields; [lia|congruence|]).
    apply finishes_count_bits. do 2 apply finishes_bits.
    match goal with |- finishes _ _ (8 * ?q + 2 + 6) _ _ _ =>
      replace (8 * q + 2 + 6) with (8 * (q + 1)) by lia end.
    apply finishes_count_bytes. apply finishes_fields; [lia|congruence|]. apply finishes_bytes_ret.
Defined.

End gtp_pres_rptng_area_act_ie.

(** ** Indication

    The 56 flags are one bit members; the length in the header decides how
    many octets of them are on the wire. *)

Module gtp_indication_ie.

(** [flags] holds the one bit members in the order of the structure. *)
Record gtp_indication_ie_t := {
  header : ie_header_t;
  flags : list Z
}.

Definition indication_daf (v : gtp_indication_ie_t) : Z := nth 0 v.(flags) 0.
Definition indication_dtf (v : gtp_indication_ie_t) : Z := nth 1 v.(flags) 0.
Definition indication_hi (v : gtp_indication_ie_t) : Z := nth 2 v.(flags) 0.
Definition indication_dfi (v : gtp_indication_ie_t) : Z := nth 3 v.(flags) 0.
Definition indication_oi (v : gtp_indication_ie_t) : Z := nth 4 v.(flags) 0.
Definition indication_isrsi (v : gtp_indication_ie_t) : Z := nth 5 v.(flags) 0.
Definition indication_israi (v : gtp_indication_ie_t) : Z := nth 6 v.(flags) 0.
Definition indication_sgwci (v : gtp_indication_ie_t) : Z := nth 7 v.(flags) 0.
Definition indication_sqci (v : gtp_indication_ie_t) : Z := nth 8 v.(flags) 0.
Definition indication_uimsi (v : gtp_indication_ie_t) : Z := nth 9 v.(flags) 0.
Definition indication_cfsi (v : gtp_indication_ie_t) : Z := nth 10 v.(flags) 0.
Definition indication_crsi (v : gtp_indication_ie_t) : Z := nth 11 v.(flags) 0.
Definition indication_p (v : gtp_indication_ie_t) : Z := nth 12 v.(flags) 0.
Definition indication_pt (v : gtp_indication_ie_t) : Z := nth 13 v.(flags) 0.
Definition indication_si (v : gtp_indication_ie_t) : Z := nth 14 v.(flags) 0.
Definition indication_msv (v : gtp_indication_ie_t) : Z := nth 15 v.(flags) 0.
Definition indication_retloc (v : gtp_indication_ie_t) : Z := nth 16 v.(flags) 0.
Definition indication_pbic (v : gtp_indication_ie_t) : Z := nth 17 v.(flags) 0.
Definition indication_srni (v : gtp_indication_ie_t) : Z := nth 18 v.(flags) 0.
Definition indication_s6af (v : gtp_indication_ie_t) : Z := nth 19 v.(flags) 0.
Definition indication_s4af (v : gtp_indication_ie_t) : Z := nth 20 v.(flags) 0.
Definition indication_mbmdt (v : gtp_indication_ie_t) : Z := nth 21 v.(flags) 0.
Definition indication_israu (v : gtp_indication_ie_t) : Z := nth 22 v.(flags) 0.
Definition indication_ccrsi (v : gtp_indication_ie_t) : Z := nth 23 v.(flags) 0.
Definition indication_cprai (v : gtp_indication_ie_t) : Z := nth 24 v.(flags) 0.
Definition indication_arrl (v : gtp_indication_ie_t) : Z := nth 25 v.(flags) 0.
Definition indication_ppof (v : gtp_indication_ie_t) : Z := nth 26 v.(flags) 0.
Definition indication_ppon_ppei (v : gtp_indication_ie_t) : Z := nth 27 v.(flags) 0.
Definition indication_ppsi (v : gtp_indication_ie_t) : Z := nth 28 v.(flags) 0.
Definition indication_csfbi (v : gtp_indication_ie_t) : Z := nth 29 v.(flags) 0.
Definition indication_clii (v : gtp_indication_ie_t) : Z := nth 30 v.(flags) 0.
Definition indication_cpsr (v : gtp_indication_ie_t) : Z := nth 31 v.(flags) 0.
Definition indication_nsi (v : gtp_indication_ie_t) : Z := nth 32 v.(flags) 0.
Definition indication_uasi (v : gtp_indication_ie_t) : Z := nth 33 v.(flags) 0.
Definition indication_dtci (v : gtp_indication_ie_t) : Z := nth 34 v.(flags) 0.
Definition indication_bdwi (v : gtp_indication_ie_t) : Z := nth 35 v.(flags) 0.
Definition indication_psci (v : gtp_indication_ie_t) : Z := nth 36 v.(flags) 0.
Definition indication_pcri (v : gtp_indication_ie_t) : Z := nth 37 v.(flags) 0.
Definition indication_aosi (v : gtp_indication_ie_t) : Z := nth 38 v.(flags) 0.
Definition indication_aopi (v : gtp_indication_ie_t) : Z := nth 39 v.(flags) 0.
Definition indication_roaai (v : gtp_indication_ie_t) : Z := nth 40 v.(flags) 0.
Definition indication_epcosi (v : gtp_indication_ie_t) : Z := nth 41 v.(flags) 0.
Definition indication_cpopci (v : gtp_indication_ie_t) : Z := nth 42 v.(flags) 0.
Definition indication_pmtsmi (v : gtp_indication_ie_t) : Z := nth 43 v.(flags) 0.
Definition indication_s11tf (v : gtp_indication_ie_t) : Z := nth 44 v.(flags) 0.
Definition indication_pnsi (v : gtp_indication_ie_t) : Z := nth 45 v.(flags) 0.
Definition indication_unaccsi (v : gtp_indication_ie_t) : Z := nth 46 v.(flags) 0.
Definition indication_wpmsi (v : gtp_indication_ie_t) : Z := nth 47 v.(flags) 0.
Definition indication_spare2 (v : gtp_indication_ie_t) : Z := nth 48 v.(flags) 0.
Definition indication_spare3 (v : gtp_indication_ie_t) : Z := nth 49 v.(flags) 0.
Definition indication_spare4 (v : gtp_indication_ie_t) : Z := nth 50 v.(flags) 0.
Definition indication_eevrsi (v : gtp_indication_ie_t) : Z := nth 51 v.(flags) 0.
Definition indication_ltemui (v : gtp_indication_ie_t) : Z := nth 52 v.(flags) 0.
Definition indication_ltempi (v : gtp_indication_ie_t) : Z := nth 53 v.(flags) 0.
Definition indication_enbcrsi (v : gtp_indication_ie_t) : Z := nth 54 v.(flags) 0.
Definition indication_tspcmi (v : gtp_indication_ie_t) : Z := nth 55 v.(flags) 0.

(** The eight members of octet [k]. *)
Definition octet (v : gtp_indication_ie_t) (k : nat) : list Z := firstn 8 (skipn (8 * k) v.(flags)).

(** Consecutive writes and reads of one bit. *)
Fixpoint put_flags (l : list Z) (buf encoded : Z) : enc Z :=
  match l with
  | [] => ret encoded
  | x :: l =>
      encoded <- put_bits x 1 buf encoded;;
      put_flags l buf encoded
  end.

Fixpoint get_flags (m : bytes) (buf : Z) (n : nat) : dec (list Z) :=
  match n with
  | O => ret []
  | S n =>
      x <- get_bits m buf 1;;
      l <- get_flags m buf n;;
      ret (x :: l)
  end.

(** [uint8_t indic_len = value->header.len;] *)
Definition encode_gtp_indication_ie (value : gtp_indication_ie_t) (buf : Z) : enc Z :=
  let indic_len := u8 value.(header).(hdr_len) in
  encoded <- ret 0;;
  encoded <- put_header value.(header) buf encoded;;
  encoded <- (if (indic_len =? INDICATION_LEN_1) || (INDICATION_LEN_1 <? indic_len) then
                put_flags [indication_daf value; indication_dtf value; indication_hi value; indication_dfi value;
                           indication_oi value; indication_isrsi value; indication_israi value; indication_sgwci value] buf encoded
              else ret encoded);;
  encoded <- (if (indic_len =? INDICATION_LEN_2) || (INDICATION_LEN_2 <? indic_len) then
                put_flags [indication_sqci value; indication_uimsi value; indication_cfsi value; indication_crsi value;
                           indication_p value; indication_pt value; indication_si value; indication_msv value] buf encoded
              else ret encoded);;
  encoded <- (if (indic_len =? INDICATION_LEN_3) || (INDICATION_LEN_3 <? indic_len) then
                put_flags [indication_retloc value; indication_pbic value; indication_srni value; indication_s6af value;
                           indication_s4af value; indication_mbmdt value; indication_israu value; indication_ccrsi value] buf encoded
              else ret encoded);;
  encoded <- (if (indic_len =? INDICATION_LEN_4) || (INDICATION_LEN_4 <? indic_len) then
                put_flags [indication_cprai value; indication_arrl value; indication_ppof value; indication_ppon_ppei value;
                           indication_ppsi value; indication_csfbi value; indication_clii value; indication_cpsr value] buf encoded
              else ret encoded);;
  encoded <- (if (indic_len =? INDICATION_LEN_5) || (INDICATION_LEN_5 <? indic_len) then
                put_flags [indication_nsi value; indication_uasi value; indication_dtci value; indication_bdwi value;
                           indication_psci value; indication_pcri value; indication_aosi value; indication_aopi value] buf encoded
              else ret encoded);;
  encoded <- (if (indic_len =? INDICATION_LEN_6) || (INDICATION_LEN_6 <? indic_len) then
                put_flags [indication_roaai value; indication_epcosi value; indication_cpopci value; indication_pmtsmi value;
                           indication_s11tf value; indication_pnsi value; indication_unaccsi value; indication_wpmsi value] buf encoded
              else ret encoded);;
  encoded <- (if indic_len =? INDICATION_LEN_7 then
                put_flags [indication_spare2 value; indication_spare3 value; indication_spare4 value; indication_eevrsi value;
                           indication_ltemui value; indication_ltempi value; indication_enbcrsi value; indication_tspcmi value] buf encoded
              else ret encoded);;
  ret (encoded / CHAR_SIZE).

Definition decode_gtp_indication_ie (m : bytes) (buf : Z) (value : gtp_indication_ie_t)
  : option (Z * gtp_indication_ie_t) :=
  run_dec (
  header <- get_header m buf;;
  let indic_len := u8 header.(hdr_len) in
  o1 <- (if (indic_len =? INDICATION_LEN_1) || (INDICATION_LEN_1 <? indic_len) then get_flags m buf 8
         else ret (octet value 0));;
  o2 <- (if (indic_len =? INDICATION_LEN_2) || (INDICATION_LEN_2 <? indic_len) then get_flags m buf 8
         else ret (octet value 1));;
  o3 <- (if (indic_len =? INDICATION_LEN_3) || (INDICATION_LEN_3 <? indic_len) then get_flags m buf 8
         else ret (octet value 2));;
  o4 <- (if (indic_len =? INDICATION_LEN_4) || (INDICATION_LEN_4 <? indic_len) then get_flags m buf 8
         else ret (octet value 3));;
  o5 <- (if (indic_len =? INDICATION_LEN_5) || (INDICATION_LEN_5 <? indic_len) then get_flags m buf 8
         else ret (octet value 4));;
  o6 <- (if (indic_len =? INDICATION_LEN_6) || (INDICATION_LEN_6 <? indic_len) then get_flags m buf 8
         else ret (octet value 5));;
  o7 <- (if indic_len =? INDICATION_LEN_7 then get_flags m buf 8
         else ret (octet value 6));;
  ret (header.(hdr_len) + IE_HEADER_SIZE,
       Build_gtp_indication_ie_t header (o1 ++ o2 ++ o3 ++ o4 ++ o5 ++ o6 ++ o7))).

(** Octet [k] (from 1) is on the wire. *)
Definition sent (v : gtp_indication_ie_t) (k : Z) : bool :=
  let indic_len := u8 v.(header).(hdr_len) in
  if k <? 7 then (indic_len =? k) || (k <? indic_len) else indic_len =? k.

Definition flag_fields (l : list Z) : list field := map (fun x => FBits x 1) l.

Definition octet_fields (v : gtp_indication_ie_t) (k : nat) : list field :=
  if sent v (Z.of_nat k + 1) then flag_fields (octet v k) else [].

Definition layout_gtp_indication_ie (v : gtp_indication_ie_t) : list field :=
  [FHdr v.(header)] ++ octet_fields v 0 ++ octet_fields v 1 ++ octet_fields v 2 ++ octet_fields v 3
  ++ octet_fields v 4 ++ octet_fields v 5 ++ octet_fields v 6 ++ [].

Definition merge_octet (old v : gtp_indication_ie_t) (k : nat) : list Z :=
  if sent v (Z.of_nat k + 1) then octet v k else octet old k.

Definition merge_gtp_indication_ie (old v : gtp_indication_ie_t) : gtp_indication_ie_t :=
  Build_gtp_indication_ie_t v.(header)
    (merge_octet old v 0 ++ merge_octet old v 1 ++ merge_octet old v 2 ++ merge_octet old v 3
     ++ merge_octet old v 4 ++ merge_octet old v 5 ++ merge_octet old v 6).

Lemma put_flags_emits l buf off :
  emits buf off (flag_fields l) (put_flags l buf off) (off + Z.of_nat (length l)).
Proof.
  revert off. induction l as [|x l IH]; intros off.
  - apply emits_ret_eq. cbn. lia.
  - cbn [flag_fields map put_flags length].
    eapply emits_bits; [reflexivity|]. rewrite Nat2Z.inj_succ.
    replace (off + Z.succ (Z.of_nat (length l))) with (off + 1 + Z.of_nat (length l)) by lia. apply IH.
Qed.

Lemma get_flags_reads m buf l off : reads m buf off (flag_fields l) (get_flags m buf (length l)) l.
Proof.
  revert off. induction l as [|x l IH]; intros off; [apply reads_ret|].
  cbn [flag_fields map get_flags length]. apply reads_bits.
  fold (flag_fields l). rewrite <- (app_nil_r (flag_fields l)).
  eapply reads_app; [apply IH | apply reads_ret].
Qed.

Lemma flag_fields_size l : lsize (flag_fields l) = Z.of_nat (length l).
Proof. induction l as [|x l IH]; [reflexivity|]. cbn [flag_fields map lsize fsize length]. fold (flag_fields l). lia. Qed.

Lemma octet_length v k : length v.(flags) = 56%nat -> (k < 7)%nat -> length (octet v k) = 8%nat.
Proof. intros Hl Hk. unfold octet. rewrite length_firstn, length_skipn. lia. Qed.

Lemma octets_flags v :
  length v.(flags) = 56%nat ->
  v.(flags) = octet v 0 ++ octet v 1 ++ octet v 2 ++ octet v 3 ++ octet v 4 ++ octet v 5 ++ octet v 6.
Proof.
  intros Hl. unfold octet. destruct v as [h l]. cbn [flags] in *. do 56 (destruct l as [|? l]; [discriminate|]).
  destruct l; [reflexivity | discriminate].
Qed.

Definition octet_bits (v : gtp_indication_ie_t) (k : nat) : Z :=
  if sent v (Z.of_nat k + 1) then 8 else 0.

Lemma octet_fields_size v k :
  length v.(flags) = 56%nat -> (k < 7)%nat -> lsize (octet_fields v k) = octet_bits v k.
Proof.
  intros Hl Hk. unfold octet_fields, octet_bits. destruct (sent _ _); [|reflexivity].
  rewrite flag_fields_size, octet_length by assumption. reflexivity.
Qed.

Lemma emits_octet {A} v k fs buf off l (b : bool) (j : Z -> enc A) a :
  length v.(flags) = 56%nat -> (k < 7)%nat -> l = octet v k -> b = sent v (Z.of_nat k + 1) ->
  emits buf (off + octet_bits v k) fs (j (off + octet_bits v k)) a ->
  emits buf off (octet_fields v k ++ fs) (bind (if b then put_flags l buf off else ret off) j) a.
Proof.
  intros Hl Hk -> -> Hj. eapply emits_app with (a := off + octet_bits v k).
  - unfold octet_fields, octet_bits. destruct (sent _ _).
    + replace 8 with (Z.of_nat (length (octet v k))) by (rewrite octet_length by assumption; reflexivity).
      apply put_flags_emits.
    + rewrite Z.add_0_r. apply emits_ret.
  - rewrite octet_fields_size by assumption. exact Hj.
Qed.

Lemma finishes_octet {A} m buf v old k fs off (b : bool) (j : list Z -> dec A) a :
  length v.(flags) = 56%nat -> (k < 7)%nat -> b = sent v (Z.of_nat k + 1) ->
  finishes m buf (off + octet_bits v k) fs (j (merge_octet old v k)) a ->
  finishes m buf off (octet_fields v k ++ fs)
    (bind (if b then get_flags m buf 8 else ret (octet old k)) j) a.
Proof.
  intros Hl Hk -> Hj. eapply finishes_bind.
  2: { rewrite octet_fields_size by assumption. exact Hj. }
  unfold octet_fields, merge_octet. destruct (sent _ _); [|apply reads_ret].
  replace 8%nat with (length (octet v k)) by (apply octet_length; assumption). apply get_flags_reads.
Qed.

Lemma indication_size v :
  length v.(flags) = 56%nat ->
  lsize (layout_gtp_indication_ie v)
  = 32 + octet_bits v 0 + octet_bits v 1 + octet_bits v 2 + octet_bits v 3 + octet_bits v 4
    + octet_bits v 5 + octet_bits v 6.
Proof.
  intros Hl. unfold layout_gtp_indication_ie. rewrite !lsize_app, !octet_fields_size by (auto; lia).
  cbn [lsize fsize]. lia.
Qed.

#[global] Instance gtp_indication_ie_format : IeFormat gtp_indication_ie_t.
Proof.
  refine {|
    ie_layout := layout_gtp_indication_ie;
    ie_ok v := length v.(flags) = 56%nat;
    ie_shape v := length v.(flags) = 56%nat;
    ie_count v := v.(header).(hdr_len) + IE_HEADER_SIZE;
    ie_encode := encode_gtp_indication_ie;
    ie_decode := decode_gtp_indication_ie;
    ie_merge := merge_gtp_indication_ie |}.
  - intros v Hl. rewrite indication_size by exact Hl. unfold octet_bits.
    repeat match goal with |- context [if ?b then _ else _] => destruct b end; lia.
  - intros v buf Hl. rewrite indication_size by exact Hl.
    unfold layout_gtp_indication_ie, encode_gtp_indication_ie. cbn [app]. cbv zeta.
    apply emits_start, emits_header.
    do 7 (eapply emits_octet;
      [exact Hl | lia
      | unfold octet; destruct v as [h l]; cbn [flags] in *;
        do 56 (destruct l as [|? l]; [discriminate|]); reflexivity
      | reflexivity |]).
    apply emits_ret_eq. reflexivity.
  - intros m buf old v Hl Ho. unfold layout_gtp_indication_ie, merge_gtp_indication_ie.
    apply finishes_run. cbn [app]. apply finishes_header.
    do 7 (eapply finishes_octet; [exact Hl | lia | reflexivity |]). apply finishes_ret.
Defined.

#[global] Instance gtp_indication_ie_merge_same : IeMergeSame gtp_indication_ie_t.
Proof.
  intros v Hl _. cbn [ie_merge ie_ok gtp_indication_ie_format] in *.
  unfold merge_gtp_indication_ie, merge_octet. rewrite !Tauto.if_same, <- octets_flags by exact Hl.
  destruct v. reflexivity.
Qed.

End gtp_indication_ie.

(** ** Protocol configuration options

    The encoders write the identifier and the length of the container first;
    the decoders do not read them back: they take the byte of the identifier
    for the flags.  They also do not read the number of options: the loop runs
    as often as the structure said before the call. *)

Record prot_content_t := {
  prot_id : Z;  (* uint16_t *)
  length_ : Z;  (* uint8_t length *)
  content : list Z  (* uint8_t[GTP_PCO_CONTENT_LEN] *)
}.

Record prot_cfg_opts_t := {
  pco_iei : Z;  (* uint8_t *)
  pco_content_len : Z;  (* uint8_t *)
  pco_flag_ext : Z;  (* uint8_t :1 *)
  pco_flag_spare : Z;  (* uint8_t :4 *)
  pco_cfg_proto : Z;  (* uint8_t :3 *)
  pco_content_count : Z;  (* uint8_t *)
  pco_content : list prot_content_t  (* [8] *)
}.

Fixpoint put_contents (todo i : nat) (a : list prot_content_t) (buf encoded : Z) : enc Z :=
  match todo with
  | O => ret encoded
  | S todo =>
      match nth_error a i with
      | Some c =>
          encoded <- put_bits c.(prot_id) 16 buf encoded;;
          encoded <- put_bits c.(length_) 8 buf encoded;;
          encoded <- put_bytes c.(content) c.(length_) buf encoded;;
          put_contents todo (S i) a buf encoded
      | None => fun _ => None
      end
  end.

(** The body of the three encoders after the header. *)
Definition put_pco (pco : prot_cfg_opts_t) (buf encoded : Z) : enc Z :=
  encoded <- put_bits pco.(pco_iei) 8 buf encoded;;
  encoded <- put_bits pco.(pco_content_len) 8 buf encoded;;
  encoded <- put_bits pco.(pco_flag_ext) 1 buf encoded;;
  encoded <- put_bits pco.(pco_flag_spare) 4 buf encoded;;
  encoded <- put_bits pco.(pco_cfg_proto) 3 buf encoded;;
  put_contents (Z.to_nat pco.(pco_content_count)) 0 pco.(pco_content) buf encoded.

Fixpoint get_contents (m : bytes) (buf : Z) (todo itr : nat) (a : list prot_content_t)
  : dec (list prot_content_t) :=
  match todo with
  | O => ret a
  | S todo =>
      match nth_error a itr with
      | Some old =>
          prot_id <- get_bits m buf 16;;
          length_ <- get_bits m buf 8;;
          content <- get_bytes_into m buf old.(content) length_;;
          match array_set a itr (Build_prot_content_t prot_id length_ content) with
          | Some a => get_contents m buf todo (S itr) a
          | None => fun _ => None
          end
      | None => fun _ => None
      end
  end.

(** The body of the three decoders after the header. *)
Definition get_pco (m : bytes) (buf : Z) (pco : prot_cfg_opts_t) : dec prot_cfg_opts_t :=
  pco_flag_ext <- get_bits m buf 1;;
  pco_flag_spare <- get_bits m buf 4;;
  pco_cfg_proto <- get_bits m buf 3;;
  pco_content <- get_contents m buf (Z.to_nat pco.(pco_content_count)) 0 pco.(pco_content);;
  ret (Build_prot_cfg_opts_t pco.(pco_iei) pco.(pco_content_len) pco_flag_ext pco_flag_spare
         pco_cfg_proto pco.(pco_content_count) pco_content).

Definition content_fields (c : prot_content_t) : list field :=
  [FBits c.(prot_id) 16; FBits c.(length_) 8; FCopy (firstn (Z.to_nat c.(length_)) c.(content))].

Definition contents_fields (l : list prot_content_t) : list field := flat_map content_fields l.

Definition pco_fields (p : prot_cfg_opts_t) : list field :=
  [FBits p.(pco_iei) 8; FBits p.(pco_content_len) 8; FBits p.(pco_flag_ext) 1;
   FBits p.(pco_flag_spare) 4; FBits p.(pco_cfg_proto) 3]
  ++ contents_fields (firstn (Z.to_nat p.(pco_content_count)) p.(pco_content)).

(** The content is an array of 255 bytes, of which the length announces some. *)
Definition content_ok (c : prot_content_t) : Prop :=
  Z.of_nat (length c.(content)) = GTP_PCO_CONTENT_LEN /\ 0 <= c.(length_) <= GTP_PCO_CONTENT_LEN.

Definition pco_ok (p : prot_cfg_opts_t) : Prop :=
  Forall content_ok p.(pco_content) /\ length p.(pco_content) = 8%nat
  /\ 0 <= p.(pco_content_count) <= 8.

(** What the decoder makes of the bytes of [p]: the flags are the identifier. *)
Definition pco_misread (old p : prot_cfg_opts_t) : prot_cfg_opts_t :=
  Build_prot_cfg_opts_t old.(pco_iei) old.(pco_content_len)
    (p.(pco_iei) / 128) (p.(pco_iei) / 8 mod 16) (p.(pco_iei) mod 8)
    old.(pco_content_count) old.(pco_content).

Fixpoint contents_size (l : list prot_content_t) : Z :=
  match l with
  | [] => 0
  | c :: l => 8 * (3 + c.(length_)) + contents_size l
  end.

Lemma contents_fields_size l : Forall content_ok l -> lsize (contents_fields l) = contents_size l.
Proof.
  induction 1 as [|c l [Hl Hc] _ IH]; [reflexivity|]. unfold contents_fields in *.
  cbn [flat_map contents_size]. rewrite lsize_app, IH. cbn [content_fields lsize fsize].
  rewrite length_firstn. lia.
Qed.

Lemma contents_size_bound l :
  Forall content_ok l -> 0 <= contents_size l <= 2064 * Z.of_nat (length l).
Proof.
  induction 1 as [|c l [_ Hc] _ IH]; cbn [contents_size length]; unfold GTP_PCO_CONTENT_LEN in *; lia.
Qed.

Lemma contents_size_aligned l : contents_size l mod 8 = 0.
Proof.
  induction l as [|c l IH]; [reflexivity|]. cbn [contents_size]. Z.div_mod_to_equations. lia.
Qed.

Lemma Forall_firstn_skipn {A} (P : A -> Prop) l i n : Forall P l -> Forall P (firstn n (skipn i l)).
Proof.
  intros H. rewrite <- (firstn_skipn i l) in H. apply Forall_app in H. destruct H as [_ H].
  rewrite <- (firstn_skipn n (skipn i l)) in H. apply Forall_app in H. apply H.
Qed.

Lemma put_contents_emits a buf n i off :
  Forall content_ok a -> (i + n <= length a)%nat -> off mod 8 = 0 ->
  emits buf off (contents_fields (firstn n (skipn i a))) (put_contents n i a buf off)
    (off + contents_size (firstn n (skipn i a))).
Proof.
  intros Ha. revert i off. induction n as [|n IH]; intros i off Hi Ho.
  - apply emits_ret_eq. cbn. lia.
  - destruct (nth_error a i) as [c|] eqn:Hc; [|apply nth_error_None in Hc; lia].
    rewrite (skipn_nth a i c Hc). cbn [firstn put_contents contents_size]. rewrite Hc.
    unfold contents_fields. cbn [flat_map content_fields app].
    assert (Hok : content_ok c) by (eapply Forall_forall; [exact Ha | eapply nth_error_In, Hc]).
    destruct Hok as [Hl Hle].
    eapply emits_bits; [reflexivity|]. eapply emits_bits; [reflexivity|].
    apply emits_copy; [Z.div_mod_to_equations; lia | lia |].
    replace (off + (8 * (3 + c.(length_)) + contents_size (firstn n (skipn (S i) a))))
      with (off + 16 + 8 + 8 * c.(length_) + contents_size (firstn n (skipn (S i) a))) by lia.
    apply IH; [lia|]. Z.div_mod_to_equations. lia.
Qed.

Lemma pco_size p :
  pco_ok p ->
  lsize (pco_fields p) = 24 + contents_size (firstn (Z.to_nat p.(pco_content_count)) p.(pco_content)).
Proof.
  intros (Hc & Hl & Hn). unfold pco_fields. rewrite lsize_app.
  rewrite contents_fields_size by (apply (Forall_firstn_skipn content_ok _ 0), Hc).
  cbn [lsize fsize]. lia.
Qed.

Lemma pco_size_bound p : pco_ok p -> lsize (pco_fields p) <= 16536.
Proof.
  intros Hp. rewrite pco_size by exact Hp. destruct Hp as (Hc & Hl & Hn).
  pose proof (contents_size_bound _ (Forall_firstn_skipn content_ok _ 0
    (Z.to_nat p.(pco_content_count)) Hc)) as H. cbn [skipn] in H.
  rewrite length_firstn in H. lia.
Qed.

Lemma put_pco_emits p buf :
  pco_ok p -> emits buf 32 (pco_fields p) (put_pco p buf 32) (32 + lsize (pco_fields p)).
Proof.
  intros Hp. pose proof (pco_size p Hp) as Hs. destruct Hp as (Hc & Hl & Hn).
  rewrite Hs. unfold pco_fields, put_pco. cbn [app]. ie_emit_steps.
  rewrite Z.add_assoc. change (32 + 24) with 56.
  apply (put_contents_emits p.(pco_content) buf _ 0 56); [exact Hc | lia | reflexivity].
Qed.

Lemma get_pco_finishes {A} m buf p old (k : prot_cfg_opts_t -> dec A) a :
  old.(pco_content_count) = 0 ->
  finishes m buf 40 [] (k (pco_misread old p)) a ->
  finishes m buf 32 (pco_fields p) (bind (get_pco m buf old) k) a.
Proof.
  intros H0 Hk c Hm Hok Hoff Hs Hl. unfold pco_fields in *. rewrite fields_ok_app in Hok.
  rewrite laid_app in Hl. destruct Hl as [(H1 & _) _], Hok as [([_ Hr] & _) _].
  cbn [field_at] in H1. set (p0 := 8 * buf + 32) in *.
  pose proof (getbits_range m p0 1 ltac:(lia)) as R1.
  pose proof (getbits_range m (p0 + 1) 4 ltac:(lia)) as R2.
  pose proof (getbits_range m (p0 + 1 + 4) 3 ltac:(lia)) as R3.
  assert (E : p.(pco_iei) = (getbits m p0 1 * 16 + getbits m (p0 + 1) 4) * 8 + getbits m (p0 + 1 + 4) 3).
  { rewrite <- H1. change 8 with (1 + (4 + 3)) at 1.
    rewrite (getbits_split m p0 1 (4 + 3)), (getbits_split m (p0 + 1) 4 3) by lia.
    change (2 ^ (4 + 3)) with 128. change (2 ^ 3) with 8. lia. }
  destruct (Hk 3 Hm I ltac:(lia) ltac:(cbn; lia) I) as [s Es]. exists s.
  unfold bind, get_pco, get_bits at 1, bind at 1.
  rewrite decode_bits_getbits by (auto; lia). change (u16 (32 + 1)) with 33.
  unfold bind at 1, get_bits at 1. rewrite decode_bits_getbits by (auto; lia). change (u16 (33 + 4)) with 37.
  unfold bind at 1, get_bits at 1. rewrite decode_bits_getbits by (auto; lia). change (u16 (37 + 3)) with 40.
  rewrite H0. cbn [Z.to_nat get_contents]. unfold bind, ret. rewrite <- Es. f_equal.
  unfold pco_misread. rewrite H0.
  replace (8 * buf + 33) with (p0 + 1) by (unfold p0; lia).
  replace (8 * buf + 37) with (p0 + 1 + 4) by (unfold p0; lia). fold p0.
  change (2 ^ 1) with 2 in *. change (2 ^ 4) with 16 in *. change (2 ^ 3) with 8 in *.
  f_equal; rewrite E; Z.div_mod_to_equations; lia.
Qed.

Module gtp_prot_cfg_opts_ie.

Record gtp_prot_cfg_opts_ie_t := {
  header : ie_header_t;
  pco : prot_cfg_opts_t
}.

Definition encode_gtp_prot_cfg_opts_ie (value : gtp_prot_cfg_opts_ie_t) (buf : Z) : enc Z :=
  encoded <- ret 0;;
  encoded <- put_header value.(header) buf encoded;;
  encoded <- put_pco value.(pco) buf encoded;;
  ret (encoded / CHAR_SIZE).

Definition decode_gtp_prot_cfg_opts_ie (m : bytes) (buf : Z) (value : gtp_prot_cfg_opts_ie_t)
  : option (Z * gtp_prot_cfg_opts_ie_t) :=
  run_dec (
  header <- get_header m buf;;
  pco <- get_pco m buf value.(pco);;
  ret (header.(hdr_len) + IE_HEADER_SIZE, Build_gtp_prot_cfg_opts_ie_t header pco)).

#[global] Instance gtp_prot_cfg_opts_ie_format : IeFormat gtp_prot_cfg_opts_ie_t.
Proof.
  refine {|
    ie_layout v := FHdr v.(header) :: pco_fields v.(pco);
    ie_ok v := pco_ok v.(pco);
    ie_shape v := v.(pco).(pco_content_count) = 0;
    ie_count v := v.(header).(hdr_len) + IE_HEADER_SIZE;
    ie_encode := encode_gtp_prot_cfg_opts_ie;
    ie_decode := decode_gtp_prot_cfg_opts_ie;
    ie_merge old v := Build_gtp_prot_cfg_opts_ie_t v.(header) (pco_misread old.(pco) v.(pco)) |}.
  - intros v Hv. pose proof (pco_size_bound _ Hv). cbn [lsize fsize]. lia.
  - intros v buf Hv. apply emits_start, emits_header.
    rewrite <- (app_nil_r (pco_fields _)). eapply emits_app; [apply put_pco_emits, Hv|].
    apply emits_ret_eq. rewrite app_nil_r. reflexivity.
  - intros m buf old v Hv Ho. apply finishes_run, finishes_header, get_pco_finishes; [exact Ho|].
    apply finishes_ret.
Defined.

End gtp_prot_cfg_opts_ie.

Module gtp_addtl_prot_cfg_opts_ie.

Record gtp_addtl_prot_cfg_opts_ie_t := {
  header : ie_header_t;
  apco : prot_cfg_opts_t
}.

Definition encode_gtp_addtl_prot_cfg_opts_ie (value : gtp_addtl_prot_cfg_opts_ie_t) (buf : Z) : enc Z :=
  encoded <- ret 0;;
  encoded <- put_header value.(header) buf encoded;;
  encoded <- put_pco value.(apco) buf encoded;;
  ret (encoded / CHAR_SIZE).

Definition decode_gtp_addtl_prot_cfg_opts_ie (m : bytes) (buf : Z) (value : gtp_addtl_prot_cfg_opts_ie_t)
  : option (Z * gtp_addtl_prot_cfg_opts_ie_t) :=
  run_dec (
  header <- get_header m buf;;
  apco <- get_pco m buf value.(apco);;
  ret (header.(hdr_len) + IE_HEADER_SIZE, Build_gtp_addtl_prot_cfg_opts_ie_t header apco)).

#[global] Instance gtp_addtl_prot_cfg_opts_ie_format : IeFormat gtp_addtl_prot_cfg_opts_ie_t.
Proof.
  refine {|
    ie_layout v := FHdr v.(header) :: pco_fields v.(apco);
    ie_ok v := pco_ok v.(apco);
    ie_shape v := v.(apco).(pco_content_count) = 0;
    ie_count v := v.(header).(hdr_len) + IE_HEADER_SIZE;
    ie_encode := encode_gtp_addtl_prot_cfg_opts_ie;
    ie_decode := decode_gtp_addtl_prot_cfg_opts_ie;
    ie_merge old v := Build_gtp_addtl_prot_cfg_opts_ie_t v.(header) (pco_misread old.(apco) v.(apco)) |}.
  - intros v Hv. pose proof (pco_size_bound _ Hv). cbn [lsize fsize]. lia.
  - intros v buf Hv. apply emits_start, emits_header.
    rewrite <- (app_nil_r (pco_fields _)). eapply emits_app; [apply put_pco_emits, Hv|].
    apply emits_ret_eq. rewrite app_nil_r. reflexivity.
  - intros m buf old v Hv Ho. apply finishes_run, finishes_header, get_pco_finishes; [exact Ho|].
    apply finishes_ret.
Defined.

End gtp_addtl_prot_cfg_opts_ie.

Module gtp_extnded_prot_cfg_opts_ie.

Record gtp_extnded_prot_cfg_opts_ie_t := {
  header : ie_header_t;
  epco : prot_cfg_opts_t
}.

Definition encode_gtp_extnded_prot_cfg_opts_ie (value : gtp_extnded_prot_cfg_opts_ie_t) (buf : Z) : enc Z :=
  encoded <- ret 0;;
  encoded <- put_header value.(header) buf encoded;;
  encoded <- put_pco value.(epco) buf encoded;;
  ret (encoded / CHAR_SIZE).

Definition decode_gtp_extnded_prot_cfg_opts_ie (m : bytes) (buf : Z) (value : gtp_extnded_prot_cfg_opts_ie_t)
  : option (Z * gtp_extnded_prot_cfg_opts_ie_t) :=
  run_dec (
  header <- get_header m buf;;
  epco <- get_pco m buf value.(epco);;
  ret (header.(hdr_len) + IE_HEADER_SIZE, Build_gtp_extnded_prot_cfg_opts_ie_t header epco)).

#[global] Instance gtp_extnded_prot_cfg_opts_ie_format : IeFormat gtp_extnded_prot_cfg_opts_ie_t.
Proof.
  refine {|
    ie_layout v := FHdr v.(header) :: pco_fields v.(epco);
    ie_ok v := pco_ok v.(epco);
    ie_shape v := v.(epco).(pco_content_count) = 0;
    ie_count v := v.(header).(hdr_len) + IE_HEADER_SIZE;
    ie_encode := encode_gtp_extnded_prot_cfg_opts_ie;
    ie_decode := decode_gtp_extnded_prot_cfg_opts_ie;
    ie_merge old v := Build_gtp_extnded_prot_cfg_opts_ie_t v.(header) (pco_misread old.(epco) v.(epco)) |}.
  - intros v Hv. pose proof (pco_size_bound _ Hv). cbn [lsize fsize]. lia.
  - intros v buf Hv. apply emits_start, emits_header.
    rewrite <- (app_nil_r (pco_fields _)). eapply emits_app; [apply put_pco_emits, Hv|].
    apply emits_ret_eq. rewrite app_nil_r. reflexivity.
  - intros m buf old v Hv Ho. apply finishes_run, finishes_header, get_pco_finishes; [exact Ho|].
    apply finishes_ret.
Defined.

End gtp_extnded_prot_cfg_opts_ie.
