(* ===== verification/GtpImsi.v ===== *)
(** The IMSI element of libgtpv2c.

    [encode_imsi] (gtp_ies_encoder.c) prints the number in decimal and packs
    two digits per byte, low nibble first, with 0xF as the filler of an odd
    digit; [decode_imsi] (gtp_ies_decoder.c) prints the nibbles into a string
    of 16 characters and scans it as a number.  The abstract format is
    [tbcd]. *)

From Stdlib Require Import ZArith List Lia Bool.
From S2P Require Import Prelude EncDecBits WireFormat IeFormat.
Import ListNotations.
Open Scope Z_scope.
Open Scope wire_scope.

(** * The C strings *)

(** Decimal digits, most significant first. *)
Fixpoint dec_digits (fuel : nat) (v : Z) : list Z :=
  match fuel with
  | O => [v]
  | S fuel => if v <? 10 then [v] else dec_digits fuel (v / 10) ++ [v mod 10]
  end.

(** The digits of a [uint64_t]: at most 20. *)
Definition digits (v : Z) : list Z := dec_digits 19 v.

(** [uint8_t buf[32] = {0}; snprintf(buf, 32, "%lu", val);] *)
Definition printed (val : Z) : list Z :=
  map (fun d => 48 + d) (digits val) ++ repeat 0 (32 - length (digits val)).

(** One digit of the conversion [%x]. *)
Definition hex_char (n : Z) : Z := if n <? 10 then 48 + n else 87 + n.

(** [sprintf(hex + pos, "%02x", x)] for a byte [x]: two characters and the
    terminator; [None] when one of them is past the array. *)
Definition sprintf_02x (hex : list Z) (pos : nat) (x : Z) : option (list Z) :=
  let s := [hex_char (x / 16); hex_char (x mod 16); 0] in
  if (pos + length s <=? length hex)%nat
  then Some (firstn pos hex ++ s ++ skipn (pos + length s) hex) else None.

(** The digits [sscanf(hex, "%lu", imsi)] consumes; the string holds only
    characters of [hex_char], so there is no blank and no sign to skip. *)
Fixpoint scan_digits (s : list Z) : list Z :=
  match s with
  | c :: s => if (48 <=? c) && (c <=? 57) then (c - 48) :: scan_digits s else []
  | [] => []
  end.

Definition digits_val (ds : list Z) : Z := fold_left (fun a d => 10 * a + d) ds 0.

(** No digit: the conversion fails and [*imsi] keeps its value. *)
Definition sscanf_lu (s : list Z) (imsi : Z) : Z :=
  match scan_digits s with
  | [] => imsi
  | ds => u64 (digits_val ds)
  end.

(** * Encoder *)

Definition pack_nibbles (hi lo : Z) : Z :=
  Z.lor (Z.shiftl (Z.land hi 0xF) 4) (Z.land lo 0xF).

Fixpoint encode_imsi_loop (todo i : nat) (buf : list Z) (imsi : Z) : enc unit :=
  match todo with
  | O => ret tt
  | S todo => fun m =>
      match nth_error buf (i * 2 + 1), nth_error buf (i * 2) with
      | Some hi, Some lo =>
          encode_imsi_loop todo (S i) buf imsi (upd m (imsi + Z.of_nat i) (pack_nibbles hi lo))
      | _, _ => None
      end
  end.

(** Reading past [buf] or writing before [imsi] is undefined: [None]. *)
Definition encode_imsi (val len imsi : Z) : enc unit := fun m =>
  let buf := printed val in
  match encode_imsi_loop (Z.to_nat len) 0 buf imsi m with
  | None => None
  | Some (_, m) =>
      if Nat.odd (length (digits val)) then
        if len <? 1 then None
        else match nth_error buf (Z.to_nat (len - 1) * 2) with
             | Some lo => Some (tt, upd m (imsi + (len - 1))
                                      (Z.lor (Z.shiftl 0xF 4) (Z.land lo 0xF)))
             | None => None
             end
      else Some (tt, m)
  end.

(** * Decoder *)

Fixpoint decode_imsi_loop (buf : list Z) (i len : nat) (hex : list Z) (flag : bool)
  : option (list Z * bool) :=
  match buf with
  | [] => Some (hex, flag)
  | b :: buf =>
      if (i =? len - 1)%nat && (Z.shiftr (Z.land b 0xF0) 4 =? 0x0F) then
        match sprintf_02x hex (i * 2) (Z.shiftl (Z.land b 0x0F) 4) with
        | Some hex => decode_imsi_loop buf (S i) len hex true
        | None => None
        end
      else
        match sprintf_02x hex (i * 2)
                (Z.lor (Z.shiftl (Z.land b 0x0F) 4) (Z.shiftr (Z.land b 0xF0) 4)) with
        | Some hex => decode_imsi_loop buf (S i) len hex flag
        | None => None
        end
  end.

Definition decode_imsi (m : bytes) (buf len imsi : Z) : option Z :=
  match decode_imsi_loop (to_list m buf (Z.to_nat len)) 0 (Z.to_nat len) (repeat 0 16) false with
  | Some (hex, flag) =>
      let imsi := sscanf_lu hex imsi in
      Some (if flag : bool then imsi / 10 else imsi)
  | None => None
  end.

(** [total_decoded += n * CHAR_SIZE;] *)
Definition advance (n : Z) : dec unit := fun '(total_decoded, decoded) =>
  Some (tt, (u16 (total_decoded + n * CHAR_SIZE), decoded)).

Module gtp_imsi_ie.

Record gtp_imsi_ie_t := {
  header : ie_header_t;
  imsi_number_digits : Z  (* uint64_t *)
}.

Definition encode_gtp_imsi_ie (value : gtp_imsi_ie_t) (buf : Z) : enc Z :=
  encoded <- ret 0;;
  encoded <- put_header value.(header) buf encoded;;
  _ <- encode_imsi value.(imsi_number_digits) value.(header).(hdr_len) (buf + encoded / CHAR_SIZE);;
  encoded <- ret (u16 (encoded + value.(header).(hdr_len) * CHAR_SIZE));;
  ret (encoded / CHAR_SIZE).

Definition decode_gtp_imsi_ie (m : bytes) (buf : Z) (value : gtp_imsi_ie_t)
  : option (Z * gtp_imsi_ie_t) :=
  run_dec (
  header <- get_header m buf;;
  total_decoded <- get_total;;
  match decode_imsi m (buf + total_decoded / CHAR_SIZE) header.(hdr_len)
          value.(imsi_number_digits) with
  | Some imsi_number_digits =>
      _ <- advance header.(hdr_len);;
      ret (header.(hdr_len) + IE_HEADER_SIZE, Build_gtp_imsi_ie_t header imsi_number_digits)
  | None => fun _ => None
  end).

End gtp_imsi_ie.

(** * The abstract format

    Telephony BCD: pairs of digits, the first in the low nibble; the filler
    0xF completes an odd number of digits. *)

Fixpoint tbcd (ds : list Z) : list Z :=
  match ds with
  | [] => []
  | [d] => [0xF0 + d]
  | d1 :: d2 :: ds => (16 * d2 + d1) :: tbcd ds
  end.

Definition is_digit (d : Z) : Prop := 0 <= d < 10.

(** * Digits *)

Lemma dec_digits_ok fuel v :
  0 <= v < 10 ^ Z.of_nat (S fuel) -> Forall is_digit (dec_digits fuel v).
Proof.
  revert v. induction fuel as [|fuel IH]; intros v Hv; cbn [dec_digits].
  - constructor; [unfold is_digit; cbn in Hv; lia | constructor].
  - destruct (Z.ltb_spec v 10); [constructor; [unfold is_digit; lia | constructor]|].
    apply Forall_app. split.
    + apply IH. rewrite Nat2Z.inj_succ, Z.pow_succ_r in Hv by lia.
      split; [apply Z.div_pos; lia | apply Z.div_lt_upper_bound; lia].
    + constructor; [|constructor]. unfold is_digit. Z.div_mod_to_equations. lia.
Qed.

Lemma digits_val_app ds d : digits_val (ds ++ [d]) = 10 * digits_val ds + d.
Proof. unfold digits_val. rewrite fold_left_app. reflexivity. Qed.

Lemma digits_val_dec fuel v : digits_val (dec_digits fuel v) = v.
Proof.
  revert v. induction fuel as [|fuel IH]; intros v; cbn [dec_digits].
  - cbn. lia.
  - destruct (v <? 10); [cbn; lia|]. rewrite digits_val_app, IH. Z.div_mod_to_equations. lia.
Qed.

Lemma dec_digits_length fuel v k :
  0 <= v < 10 ^ Z.of_nat k -> (1 <= k)%nat -> (1 <= length (dec_digits fuel v) <= k)%nat.
Proof.
  revert v k. induction fuel as [|fuel IH]; intros v k Hv Hk; cbn [dec_digits].
  - cbn. lia.
  - destruct (Z.ltb_spec v 10); [cbn; lia|]. rewrite length_app. cbn [length].
    destruct k as [|k]; [lia|]. rewrite Nat2Z.inj_succ, Z.pow_succ_r in Hv by lia.
    destruct k as [|k]; [cbn in Hv; lia|].
    destruct (IH (v / 10) (S k)); [|lia|lia].
    split; [apply Z.div_pos; lia | apply Z.div_lt_upper_bound; lia].
Qed.

Lemma digits_length v : 0 <= v < 2 ^ 64 -> (1 <= length (digits v) <= 20)%nat.
Proof. intros Hv. apply dec_digits_length; [|lia]. change (10 ^ Z.of_nat 20) with (10^20). lia. Qed.

Lemma digits_ok v : 0 <= v < 2 ^ 64 -> Forall is_digit (digits v).
Proof. intros Hv. apply dec_digits_ok. change (10 ^ Z.of_nat 20) with (10^20). lia. Qed.

(** * Nibbles *)

Lemma digit_ind (P : Z -> Prop) :
  P 0 -> P 1 -> P 2 -> P 3 -> P 4 -> P 5 -> P 6 -> P 7 -> P 8 -> P 9 ->
  forall d, is_digit d -> P d.
Proof. intros. unfold is_digit in *. enum d 0 10; assumption. Qed.

Lemma pack_digits d1 d2 :
  is_digit d1 -> is_digit d2 -> pack_nibbles (48 + d2) (48 + d1) = 16 * d2 + d1.
Proof.
  intros H1 H2. revert d1 H1. apply (digit_ind (fun d1 => _));
    revert d2 H2; apply (digit_ind (fun d2 => _)); reflexivity.
Qed.

Lemma pack_filler d : is_digit d -> Z.lor (Z.shiftl 0xF 4) (Z.land (48 + d) 0xF) = 0xF0 + d.
Proof. revert d. apply (digit_ind (fun d => _)); reflexivity. Qed.

(** Induction on digits two at a time, as they are packed. *)
Lemma pairs_ind (P : list Z -> Prop) :
  P [] -> (forall d, P [d]) -> (forall d1 d2 ds, P ds -> P (d1 :: d2 :: ds)) -> forall ds, P ds.
Proof.
  intros H0 H1 H2. assert (H : forall n ds, (length ds <= n)%nat -> P ds).
  { induction n as [|n IH]; intros [|d1 [|d2 ds]] Hl; try exact H0; try exact (H1 d1);
      cbn in Hl; [lia | apply H2, IH; lia]. }
  intros ds. apply (H (length ds)). lia.
Qed.

Lemma tbcd_length ds : length (tbcd ds) = ((length ds + 1) / 2)%nat.
Proof.
  induction ds as [|d|d1 d2 ds IH] using pairs_ind; [reflexivity|reflexivity|].
  cbn [tbcd length]. rewrite IH.
  replace (S (S (length ds)) + 1)%nat with (length ds + 1 + 1 * 2)%nat by lia.
  rewrite Nat.div_add by lia. lia.
Qed.

Lemma tbcd_bytes ds : Forall is_digit ds -> Forall (fun x => 0 <= x < 256) (tbcd ds).
Proof.
  induction ds as [|d|d1 d2 ds IH] using pairs_ind; cbn [tbcd]; intros H.
  - constructor.
  - inversion_clear H. constructor; [unfold is_digit in *; lia | constructor].
  - inversion_clear H. inversion_clear H1. constructor; [unfold is_digit in *; lia | auto].
Qed.

Lemma tbcd_nth ds j :
  (2 * j < length ds)%nat ->
  nth j (tbcd ds) 0 = if (2 * j + 1 <? length ds)%nat
                      then 16 * nth (2 * j + 1) ds 0 + nth (2 * j) ds 0
                      else 0xF0 + nth (2 * j) ds 0.
Proof.
  revert j. induction ds as [|d|d1 d2 ds IH] using pairs_ind; intros j Hj.
  - cbn in Hj. lia.
  - cbn in Hj. replace j with 0%nat by lia. reflexivity.
  - destruct j as [|j]; [reflexivity|]. cbn [length] in *.
    replace (2 * S j)%nat with (S (S (2 * j))) by lia. cbn [tbcd nth Nat.add].
    rewrite IH by lia. replace (S (S (2 * j + 1))) with (S (S (2 * j)) + 1)%nat by lia.
    destruct (Nat.ltb_spec (2 * j + 1) (length ds)),
      (Nat.ltb_spec (S (S (2 * j)) + 1) (S (S (length ds)))); try lia; reflexivity.
Qed.

(** * The encoder writes the abstract format *)

Lemma printed_nth val k :
  (k < length (digits val))%nat -> nth_error (printed val) k = Some (48 + nth k (digits val) 0).
Proof.
  intros Hk. unfold printed. rewrite nth_error_app1 by (rewrite length_map; exact Hk).
  rewrite nth_error_map, (nth_error_nth' _ 0 Hk). reflexivity.
Qed.

Lemma printed_length val : 0 <= val < 2 ^ 64 -> length (printed val) = 32%nat.
Proof.
  intros Hv. pose proof (digits_length val Hv). unfold printed.
  rewrite length_app, length_map, repeat_length. lia.
Qed.

Lemma encode_imsi_loop_spec todo i buf imsi m :
  (2 * (i + todo) <= length buf)%nat ->
  exists m', encode_imsi_loop todo i buf imsi m = Some (tt, m') /\
    forall p, m' p = if (imsi + Z.of_nat i <=? p) && (p <? imsi + Z.of_nat (i + todo))
                     then pack_nibbles (nth (Z.to_nat (p - imsi) * 2 + 1) buf 0)
                                       (nth (Z.to_nat (p - imsi) * 2) buf 0)
                     else m p.
Proof.
  revert i m. induction todo as [|todo IH]; intros i m Hl; cbn [encode_imsi_loop].
  - exists m. split; [reflexivity|]. intros p. zcases; try lia; reflexivity.
  - rewrite !(nth_error_nth' buf 0) by lia.
    edestruct IH as (m' & -> & Hm'); [|exists m'; split; [reflexivity|]]; [lia|].
    intros p. rewrite Hm'. unfold upd. zcases; try lia; try reflexivity.
    replace (Z.to_nat (p - imsi)) with i by lia. reflexivity.
Qed.

Lemma half_up n : (2 * ((n + 1) / 2) = n + if Nat.odd n then 1 else 0)%nat.
Proof.
  pose proof (Nat.div_mod (n + 1) 2 ltac:(lia)) as H.
  pose proof (Nat.mod_upper_bound (n + 1) 2 ltac:(lia)) as Hb.
  destruct (Nat.odd n) eqn:E.
  - apply Nat.odd_spec in E. destruct E as [q E]. lia.
  - rewrite <- Nat.negb_even in E. apply negb_false_iff, Nat.even_spec in E.
    destruct E as [q E]. lia.
Qed.

(** The two assignments of the encoder, as bytes of the abstract format. *)
Lemma packed_pair val j :
  0 <= val < 2 ^ 64 -> (2 * j + 1 < length (digits val))%nat ->
  pack_nibbles (nth (j * 2 + 1) (printed val) 0) (nth (j * 2) (printed val) 0)
  = nth j (tbcd (digits val)) 0.
Proof.
  intros Hv Hj. pose proof (digits_ok val Hv) as Hok. rewrite Forall_forall in Hok.
  rewrite (nth_error_nth _ _ _ (printed_nth val (j * 2 + 1) ltac:(lia))),
    (nth_error_nth _ _ _ (printed_nth val (j * 2) ltac:(lia))), pack_digits, tbcd_nth
    by (try apply Hok, nth_In; lia).
  destruct (Nat.ltb_spec (2 * j + 1) (length (digits val))); [|lia].
  rewrite (Nat.mul_comm j 2). reflexivity.
Qed.

Lemma packed_last val j :
  0 <= val < 2 ^ 64 -> (2 * j + 1 = length (digits val))%nat ->
  Z.lor (Z.shiftl 0xF 4) (Z.land (48 + nth (j * 2) (digits val) 0) 0xF)
  = nth j (tbcd (digits val)) 0.
Proof.
  intros Hv Hj. pose proof (digits_ok val Hv) as Hok. rewrite Forall_forall in Hok.
  rewrite pack_filler, tbcd_nth by (try apply Hok, nth_In; lia).
  destruct (Nat.ltb_spec (2 * j + 1) (length (digits val))); [lia|].
  rewrite (Nat.mul_comm j 2). reflexivity.
Qed.

Lemma encode_imsi_spec val len imsi m :
  0 <= val < 2 ^ 64 -> len = Z.of_nat (length (tbcd (digits val))) ->
  exists m', encode_imsi val len imsi m = Some (tt, m') /\
    forall p, m' p = if (imsi <=? p) && (p <? imsi + len)
                     then nth (Z.to_nat (p - imsi)) (tbcd (digits val)) 0 else m p.
Proof.
  intros Hv Hlen. pose proof (digits_length val Hv) as Hd.
  rewrite tbcd_length in Hlen. pose proof (half_up (length (digits val))) as Hhalf.
  unfold encode_imsi.
  destruct (encode_imsi_loop_spec (Z.to_nat len) 0 (printed val) imsi m) as (m1 & -> & Hm1).
  { rewrite printed_length, Hlen, Nat2Z.id by exact Hv. destruct (Nat.odd _); lia. }
  rewrite Hlen, Nat2Z.id in *. set (h := ((length (digits val) + 1) / 2)%nat) in *.
  destruct (Nat.odd (length (digits val))).
  - destruct (Z.ltb_spec (Z.of_nat h) 1); [lia|].
    rewrite (printed_nth val) by lia. eexists. split; [reflexivity|].
    intros p. unfold upd. rewrite Hm1. rewrite (packed_last val) by (auto; lia).
    destruct (Z.eqb_spec p (imsi + (Z.of_nat h - 1))) as [->|Hne].
    + zcases; try lia. f_equal. lia.
    + zcases; try lia; try reflexivity. apply packed_pair; [exact Hv | lia].
  - eexists. split; [reflexivity|]. intros p. rewrite Hm1.
    zcases; try lia; try reflexivity. apply packed_pair; [exact Hv | lia].
Qed.

(** * The decoder inverts the abstract format *)

(** The characters the decoder collects. *)
Definition hex_of (ds : list Z) : list Z :=
  map (fun d => 48 + d) (if Nat.odd (length ds) then ds ++ [0] else ds).

Lemma hex_of_pair d1 d2 ds : hex_of (d1 :: d2 :: ds) = [48 + d1; 48 + d2] ++ hex_of ds.
Proof.
  unfold hex_of. change (Nat.odd (length (d1 :: d2 :: ds))) with (Nat.odd (length ds)).
  destruct (Nat.odd (length ds)); reflexivity.
Qed.

Lemma sprintf_pad p k x :
  (3 <= k)%nat ->
  sprintf_02x (p ++ repeat 0 k) (length p) x
  = Some ((p ++ [hex_char (x / 16); hex_char (x mod 16)]) ++ repeat 0 (k - 2)).
Proof.
  intros Hk. unfold sprintf_02x. cbn [length].
  rewrite length_app, repeat_length. destruct (Nat.leb_spec (length p + 3) (length p + k)); [|lia].
  f_equal. rewrite firstn_app, firstn_all, Nat.sub_diag, firstn_O, app_nil_r, skipn_app.
  rewrite skipn_all2 by lia. replace (length p + 3 - length p)%nat with 3%nat by lia.
  destruct k as [|[|[|k]]]; try lia. cbn [repeat skipn app Nat.sub]. rewrite <- app_assoc. reflexivity.
Qed.

Lemma nibble_pair d1 d2 last :
  is_digit d1 -> is_digit d2 ->
  let b := 16 * d2 + d1 in
  let x := Z.lor (Z.shiftl (Z.land b 0x0F) 4) (Z.shiftr (Z.land b 0xF0) 4) in
  (last && (Z.shiftr (Z.land b 0xF0) 4 =? 0x0F))%bool = false
  /\ hex_char (x / 16) = 48 + d1 /\ hex_char (x mod 16) = 48 + d2.
Proof.
  intros H1 H2. revert d1 H1. apply (digit_ind (fun d1 => _));
    revert d2 H2; apply (digit_ind (fun d2 => _)); destruct last; repeat split; reflexivity.
Qed.

Lemma nibble_filler d :
  is_digit d ->
  let b := 0xF0 + d in
  (Z.shiftr (Z.land b 0xF0) 4 =? 0x0F) = true
  /\ hex_char (Z.shiftl (Z.land b 0x0F) 4 / 16) = 48 + d
  /\ hex_char (Z.shiftl (Z.land b 0x0F) 4 mod 16) = 48.
Proof. revert d. apply (digit_ind (fun d => _)); repeat split; reflexivity. Qed.

Lemma decode_imsi_loop_tbcd ds i len p k :
  Forall is_digit ds -> (len = i + length (tbcd ds))%nat -> length p = (i * 2)%nat ->
  (length (tbcd ds) * 2 < k)%nat ->
  decode_imsi_loop (tbcd ds) i len (p ++ repeat 0 k) false
  = Some ((p ++ hex_of ds) ++ repeat 0 (k - length (tbcd ds) * 2), Nat.odd (length ds)).
Proof.
  revert i p k. induction ds as [|d|d1 d2 ds IH] using pairs_ind; intros i p k Hd Hlen Hp Hk.
  - cbn. rewrite Nat.sub_0_r, app_nil_r. reflexivity.
  - inversion_clear Hd. cbn [tbcd length] in *. cbn [decode_imsi_loop].
    destruct (nibble_filler d) as (-> & E1 & E2); [assumption|].
    destruct (Nat.eqb_spec i (len - 1)); [|lia]. cbn [andb].
    rewrite <- Hp, sprintf_pad, E1, E2 by lia. reflexivity.
  - inversion_clear Hd. inversion_clear H0. cbn [tbcd length] in *. cbn [decode_imsi_loop].
    destruct (nibble_pair d1 d2 (i =? len - 1)%nat) as (-> & E1 & E2); [assumption..|].
    rewrite <- Hp, sprintf_pad, E1, E2, IH by (auto; rewrite ?length_app; cbn [length]; lia).
    replace (k - 2 - length (tbcd ds) * 2)%nat with (k - S (length (tbcd ds)) * 2)%nat by lia.
    rewrite hex_of_pair, <- !app_assoc. reflexivity.
Qed.

Lemma scan_digits_app ds k :
  Forall is_digit ds -> scan_digits (map (fun d => 48 + d) ds ++ repeat 0 k) = ds.
Proof.
  induction 1 as [|d ds Hd _ IH]; cbn [map app scan_digits].
  - destruct k; reflexivity.
  - unfold is_digit in Hd. destruct (Z.leb_spec 48 (48 + d)), (Z.leb_spec (48 + d) 57); try lia.
    cbn [andb]. rewrite IH. f_equal. lia.
Qed.

Lemma digits_val_bound ds : Forall is_digit ds -> 0 <= digits_val ds < 10 ^ Z.of_nat (length ds).
Proof.
  induction ds as [|d ds IH] using rev_ind; intros H; [cbn; lia|].
  apply Forall_app in H. destruct H as [H1 H2]. inversion_clear H2.
  rewrite digits_val_app, length_app. cbn [length]. rewrite Nat2Z.inj_add, Z.pow_add_r by lia.
  change (10 ^ Z.of_nat 1) with 10. specialize (IH H1). unfold is_digit in *. lia.
Qed.

Lemma sscanf_digits ds k old :
  Forall is_digit ds -> ds <> [] -> (length ds <= 19)%nat ->
  sscanf_lu (map (fun d => 48 + d) ds ++ repeat 0 k) old = digits_val ds.
Proof.
  intros Hd Hne Hl. unfold sscanf_lu. rewrite scan_digits_app by exact Hd.
  pose proof (digits_val_bound ds Hd) as Hb.
  assert (10 ^ Z.of_nat (length ds) <= 10 ^ 19) by (apply Z.pow_le_mono_r; lia).
  destruct ds; [congruence|]. apply Z.mod_small. lia.
Qed.

Lemma decode_imsi_tbcd m buf len ds old :
  Forall is_digit ds -> ds <> [] -> (length ds <= 14)%nat ->
  len = Z.of_nat (length (tbcd ds)) -> to_list m buf (Z.to_nat len) = tbcd ds ->
  decode_imsi m buf len old = Some (digits_val ds).
Proof.
  intros Hd Hne Hl Hlen Hm. unfold decode_imsi. rewrite Hm.
  pose proof (half_up (length ds)) as Hh. pose proof (tbcd_length ds) as Ht.
  change (repeat 0 16) with ([] ++ repeat 0 16).
  rewrite (decode_imsi_loop_tbcd ds 0 (Z.to_nat len) [] 16 Hd)
    by (rewrite ?Hlen, ?Nat2Z.id; auto; destruct (Nat.odd _); lia).
  cbn [app]. unfold hex_of. destruct (Nat.odd (length ds)) eqn:E.
  - rewrite sscanf_digits.
    + rewrite digits_val_app, Z.add_0_r, Z.mul_comm, Z.div_mul by lia. reflexivity.
    + apply Forall_app. split; [exact Hd|]. repeat constructor; unfold is_digit; lia.
    + destruct ds; discriminate.
    + rewrite length_app. cbn. lia.
  - rewrite sscanf_digits by (auto; lia). reflexivity.
Qed.

(** * The element *)

Lemma imsi_emits h val buf :
  0 <= val < 2 ^ 64 -> h.(hdr_len) = Z.of_nat (length (tbcd (digits val))) ->
  emits buf 0 [FHdr h; FCopy (tbcd (digits val))]
    (gtp_imsi_ie.encode_gtp_imsi_ie (gtp_imsi_ie.Build_gtp_imsi_ie_t h val) buf)
    (lsize [FHdr h; FCopy (tbcd (digits val))] / 8).
Proof.
  intros Hv Hl. unfold gtp_imsi_ie.encode_gtp_imsi_ie.
  cbn [gtp_imsi_ie.header gtp_imsi_ie.imsi_number_digits]. ie_emit_steps.
  intros m Hm Hok Hoff Hsz Hz. cbn [lsize fsize fields_ok field_ok] in *.
  destruct (encode_imsi_spec val h.(hdr_len) (buf + 32 / CHAR_SIZE) m Hv Hl) as (m' & E & Hm').
  unfold bind. rewrite E. unfold ret, CHAR_SIZE in *. change (32 / 8) with 4 in *.
  rewrite u16_small by lia.
  destruct (bytes_written m m' (buf + 4) (tbcd (digits val)) Hm (proj1 Hok)) as (Hw & Hat & Hfr).
  { intros p. rewrite Hm', Hl. reflexivity. }
  replace (8 * (buf + 4)) with (8 * buf + 32) in * by lia.
  exists m'. rewrite Hl, Z.add_0_r. split; [do 3 f_equal; lia|].
  split; [exact Hw|]. split; [cbn [laid]; auto | exact Hfr].
Qed.

Lemma imsi_decodes m buf old h val :
  0 <= val < 10 ^ Z.of_nat 14 -> h.(hdr_len) = Z.of_nat (length (tbcd (digits val))) ->
  decodes m buf [FHdr h; FCopy (tbcd (digits val))]
    (gtp_imsi_ie.decode_gtp_imsi_ie m buf old)
    (h.(hdr_len) + IE_HEADER_SIZE, gtp_imsi_ie.Build_gtp_imsi_ie_t h val).
Proof.
  intros Hv Hl. apply reads_run. ie_read_step. ie_read_step.
  pose proof (dec_digits_length 19 val 14 Hv ltac:(lia)) as Hd. fold (digits val) in Hd.
  change (10 ^ Z.of_nat 14) with (10 ^ 14) in Hv.
  intros c Hm Hok Hoff Hsz Hlaid. cbn [lsize fsize fields_ok laid] in *.
  rewrite (decode_imsi_tbcd m _ _ (digits val)).
  - change (digits_val (digits val)) with (digits_val (dec_digits 19 val)).
    rewrite digits_val_dec. exists c. unfold bind, advance, ret, CHAR_SIZE.
    rewrite Hl, u16_small by lia. do 3 f_equal. lia.
  - apply digits_ok. lia.
  - intros E. rewrite E in Hd. cbn in Hd. lia.
  - lia.
  - exact Hl.
  - rewrite Hl, Nat2Z.id. apply to_list_laid; [exact Hm|].
    change (32 / CHAR_SIZE) with 4. replace (8 * (buf + 4)) with (8 * buf + 32) by lia.
    apply Hlaid.
Qed.

#[global] Instance gtp_imsi_ie_format : IeFormat gtp_imsi_ie.gtp_imsi_ie_t.
Proof.
  refine {|
    ie_layout v := [FHdr v.(gtp_imsi_ie.header);
                    FCopy (tbcd (digits v.(gtp_imsi_ie.imsi_number_digits)))];
    ie_ok v := 0 <= v.(gtp_imsi_ie.imsi_number_digits) < 10 ^ Z.of_nat 14
               /\ v.(gtp_imsi_ie.header).(hdr_len)
                  = Z.of_nat (length (tbcd (digits v.(gtp_imsi_ie.imsi_number_digits))));
    ie_shape v := True;
    ie_count v := v.(gtp_imsi_ie.header).(hdr_len) + IE_HEADER_SIZE;
    ie_encode := gtp_imsi_ie.encode_gtp_imsi_ie;
    ie_decode := gtp_imsi_ie.decode_gtp_imsi_ie;
    ie_merge _ v := v |}.
  - intros v [Hv Hl]. cbn [lsize fsize]. rewrite <- Hl. rewrite Hl, tbcd_length.
    pose proof (dec_digits_length 19 _ 14 Hv ltac:(lia)) as H.
    pose proof (half_up (length (digits v.(gtp_imsi_ie.imsi_number_digits)))).
    unfold digits in *. destruct (Nat.odd _); lia.
  - intros [h val] buf [Hv Hl]. cbn [gtp_imsi_ie.header gtp_imsi_ie.imsi_number_digits] in *.
    apply imsi_emits; [lia|exact Hl].
  - intros m buf old [h val] [Hv Hl] _. apply imsi_decodes; auto.
Defined.

#[global] Instance gtp_imsi_ie_merge_same : IeMergeSame gtp_imsi_ie.gtp_imsi_ie_t.
Proof.
  intros v _ _. reflexivity.
Qed.

Lemma sprintf_02x_length hex pos x hex' :
  sprintf_02x hex pos x = Some hex' -> length hex' = length hex.
Proof.
  unfold sprintf_02x. cbn [length].
  destruct (Nat.leb_spec (pos + 3) (length hex)); [|discriminate]. intros E.
  enough (length (firstn pos hex ++ [hex_char (x / 16); hex_char (x mod 16); 0]
                  ++ skipn (pos + 3) hex) = length hex) by congruence.
  rewrite !length_app, length_firstn, length_skipn. cbn [length]. lia.
Qed.

Lemma sprintf_02x_past hex x : length hex = 16%nat -> sprintf_02x hex 14 x = None.
Proof. intros H. unfold sprintf_02x. rewrite H. reflexivity. Qed.

Lemma decode_imsi_loop_past buf i len hex flag :
  length hex = 16%nat -> (i <= 7)%nat -> (8 <= i + length buf)%nat ->
  decode_imsi_loop buf i len hex flag = None.
Proof.
  revert i hex flag. induction buf as [|b buf IH]; intros i hex flag Hh Hi Hl; cbn [length] in Hl;
    [lia|]. cbn [decode_imsi_loop].
  destruct (Nat.eq_dec i 7) as [->|Hne].
  - change (7 * 2)%nat with 14%nat. rewrite !sprintf_02x_past by exact Hh. destruct (_ && _); reflexivity.
  - destruct (_ && _);
      (destruct (sprintf_02x _ _ _) as [hex'|] eqn:E; [|reflexivity];
       apply IH; [rewrite (sprintf_02x_length _ _ _ _ E); exact Hh | lia | lia]).
Qed.

(** * Properties of the IMSI *)

(** [encode_imsi] refines telephony BCD: given the length of the packed
    digits, it writes exactly the bytes [tbcd] of the decimal digits of the
    number, filler nibble included, and no other byte. *)
Theorem encode_imsi_refines_tbcd (val imsi : Z) (m : bytes) :
  0 <= val < 2 ^ 64 ->
  exists m',
    encode_imsi val (Z.of_nat (length (tbcd (digits val)))) imsi m = Some (tt, m')
    /\ to_list m' imsi (length (tbcd (digits val))) = tbcd (digits val)
    /\ forall p, p < imsi \/ imsi + Z.of_nat (length (tbcd (digits val))) <= p -> m' p = m p.
Proof.
  intros Hv. destruct (encode_imsi_spec val _ imsi m Hv eq_refl) as (m' & E & Hm').
  exists m'. split; [exact E|]. split.
  - apply (nth_ext _ _ 0 0); rewrite to_list_length; [reflexivity|]. intros i Hi. unfold to_list.
    rewrite (nth_indep _ 0 (m' (imsi + Z.of_nat 0))) by (rewrite length_map, length_seq; exact Hi).
    rewrite (map_nth (fun i => m' (imsi + Z.of_nat i))), seq_nth, Hm' by exact Hi.
    zcases; try lia. f_equal. lia.
  - intros p Hp. rewrite Hm'. zcases; try lia; reflexivity.
Qed.

Lemma encode_imsi_refines_tbcd_witness :
  exists m', encode_imsi 250011234567890 8 0 (fun _ => 0) = Some (tt, m')
             /\ to_list m' 0 8 = [0x52; 0x00; 0x11; 0x32; 0x54; 0x76; 0x98; 0xF0].
Proof.
  destruct (encode_imsi_refines_tbcd 250011234567890 0 (fun _ => 0) ltac:(lia)) as (m' & E & L & _).
  exists m'. vm_compute in E, L |- *. split; [exact E | exact L].
Defined.

(** a number of at most 14 digits survives the IMSI element: the decoder
    returns it, whatever the structure held before, and the header's length. *)
Theorem imsi_roundtrip (h : ie_header_t) (val buf : Z) (m : bytes) (old : gtp_imsi_ie.gtp_imsi_ie_t) :
  let v := gtp_imsi_ie.Build_gtp_imsi_ie_t h val in
  0 <= val < 10 ^ 14 -> h.(hdr_len) = Z.of_nat (length (tbcd (digits val))) ->
  field_ok (FHdr h) -> wf_bytes m -> zeroed m (8 * buf) (32 + 8 * h.(hdr_len)) ->
  exists m',
    gtp_imsi_ie.encode_gtp_imsi_ie v buf m = Some (4 + h.(hdr_len), m')
    /\ gtp_imsi_ie.decode_gtp_imsi_ie m' buf old = Some (4 + h.(hdr_len), v).
Proof.
  intros v Hv Hl Hh Hm Hz.
  destruct (ie_roundtrip v old buf m) as (m' & E & _ & D & _); auto.
  - split; [split; [exact Hv | exact Hl]|]. cbn [ie_layout gtp_imsi_ie_format fields_ok].
    split; [exact Hh|]. split; [|exact I]. apply tbcd_bytes, digits_ok. cbn. lia.
  - exact I.
  - cbn [ie_layout gtp_imsi_ie_format lsize fsize v gtp_imsi_ie.header gtp_imsi_ie.imsi_number_digits].
    rewrite <- Hl, Z.add_0_r. exact Hz.
  - cbn [ie_layout ie_encode ie_decode ie_count ie_merge gtp_imsi_ie_format lsize fsize v
      gtp_imsi_ie.header gtp_imsi_ie.imsi_number_digits] in *.
    exists m'. split; [rewrite E; do 2 f_equal; rewrite <- Hl|].
    + replace (32 + (8 * hdr_len h + 0)) with ((4 + hdr_len h) * 8) by lia. apply Z.div_mul. lia.
    + rewrite D. unfold IE_HEADER_SIZE. do 2 f_equal. lia.
Qed.

Lemma imsi_roundtrip_witness :
  exists m', gtp_imsi_ie.encode_gtp_imsi_ie
      (gtp_imsi_ie.Build_gtp_imsi_ie_t (mk_ie_header 1 7 0) 1010123456789) 0 (fun _ => 0)
    = Some (4 + 7, m')
  /\ gtp_imsi_ie.decode_gtp_imsi_ie m' 0 (gtp_imsi_ie.Build_gtp_imsi_ie_t (mk_ie_header 0 0 0) 0)
    = Some (4 + 7, gtp_imsi_ie.Build_gtp_imsi_ie_t (mk_ie_header 1 7 0) 1010123456789).
Proof.
  apply (imsi_roundtrip (mk_ie_header 1 7 0) 1010123456789 0 (fun _ => 0)).
  - lia.
  - vm_compute. reflexivity.
  - cbn. lia.
  - exact zero_wf.
  - intros k _. apply Z.bits_0.
Defined.

(** an IMSI of eight bytes or more, which is every IMSI of 15 digits, makes
    [decode_imsi] write past its buffer [hex[16]] (the terminator of the last
    [sprintf] lands on [hex[16]]), whatever the bytes are. *)
Theorem decode_imsi_overflow (m : bytes) (buf : Z) (value : gtp_imsi_ie.gtp_imsi_ie_t) :
  8 <= m (buf + 1) * 256 + m (buf + 2) ->
  gtp_imsi_ie.decode_gtp_imsi_ie m buf value = None.
Proof.
  intros Hl. unfold gtp_imsi_ie.decode_gtp_imsi_ie, run_dec, bind, get_header, get_total,
    decode_ie_header_t, decode_imsi. cbn [hdr_len].
  rewrite decode_imsi_loop_past; [reflexivity|reflexivity|lia|].
  rewrite to_list_length. lia.
Qed.

Lemma decode_imsi_overflow_witness :
  gtp_imsi_ie.decode_gtp_imsi_ie
    (of_list [1; 0; 8; 0; 0x52; 0x00; 0x11; 0x32; 0x54; 0x76; 0x98; 0xF0]) 0
    (gtp_imsi_ie.Build_gtp_imsi_ie_t (mk_ie_header 0 0 0) 0) = None.
Proof. apply decode_imsi_overflow. vm_compute. discriminate. Defined.
