(* ===== verification/GtpIeTable.v ===== *)
(** The tables of the codecs of libgtpv2c.

    Every structure of GtpFields and GtpIes1-3 with a [WireFormat] is an entry:
    its name, its format, its size in bits and the proof of the size.  The
    properties of this file are about all of them at once. *)

From Stdlib Require Import ZArith List Lia String.
From S2P Require Import Prelude EncDecBits WireFormat IeFormat GtpDefs.
From S2P Require Import GtpFields GtpIes1 GtpIes2 GtpIes3 GtpIesVar GtpImsi.
Import ListNotations.
Open Scope Z_scope.

Record codec := Codec {
  codec_name : string;
  codec_type : Type;
  codec_format : WireFormat codec_type;
  codec_bits : Z;
  codec_sized : forall v : codec_type, wire_ok v -> lsize (wire_layout v) = codec_bits
}.
#[global] Existing Instance codec_format.

Definition all_codecs : list codec := [
  Codec "macro_enb_id_fld" _ macro_enb_id_fld.macro_enb_id_fld_format _ macro_enb_id_fld.layout_macro_enb_id_fld_size;
  Codec "home_enb_id_fld" _ home_enb_id_fld.home_enb_id_fld_format _ home_enb_id_fld.layout_home_enb_id_fld_size;
  Codec "auth_quintuplet" _ auth_quintuplet.auth_quintuplet_format _ auth_quintuplet.layout_auth_quintuplet_size;
  Codec "trgt_id_type_macro_ng_enb" _ trgt_id_type_macro_ng_enb.trgt_id_type_macro_ng_enb_format _ trgt_id_type_macro_ng_enb.layout_trgt_id_type_macro_ng_enb_size;
  Codec "trgt_id_type_rnc_id" _ trgt_id_type_rnc_id.trgt_id_type_rnc_id_format _ trgt_id_type_rnc_id.layout_trgt_id_type_rnc_id_size;
  Codec "rai_field" _ rai_field.rai_field_format _ rai_field.layout_rai_field_size;
  Codec "sai_field" _ sai_field.sai_field_format _ sai_field.layout_sai_field_size;
  Codec "trgt_id_type_extnded_macro_ng_enb" _ trgt_id_type_extnded_macro_ng_enb.trgt_id_type_extnded_macro_ng_enb_format _ trgt_id_type_extnded_macro_ng_enb.layout_trgt_id_type_extnded_macro_ng_enb_size;
  Codec "tai_field" _ tai_field.tai_field_format _ tai_field.layout_tai_field_size;
  Codec "bss_container" _ bss_container.bss_container_format _ bss_container.layout_bss_container_size;
  Codec "trgt_id_type_gnode_id" _ trgt_id_type_gnode_id.trgt_id_type_gnode_id_format _ trgt_id_type_gnode_id.layout_trgt_id_type_gnode_id_size;
  Codec "trgt_id_type_extnded_macro_enb" _ trgt_id_type_extnded_macro_enb.trgt_id_type_extnded_macro_enb_format _ trgt_id_type_extnded_macro_enb.layout_trgt_id_type_extnded_macro_enb_size;
  Codec "ecgi_field" _ ecgi_field.ecgi_field_format _ ecgi_field.layout_ecgi_field_size;
  Codec "auth_triplet" _ auth_triplet.auth_triplet_format _ auth_triplet.layout_auth_triplet_size;
  Codec "trgt_id_type_macro_enb" _ trgt_id_type_macro_enb.trgt_id_type_macro_enb_format _ trgt_id_type_macro_enb.layout_trgt_id_type_macro_enb_size;
  Codec "extnded_macro_enb_id_fld" _ extnded_macro_enb_id_fld.extnded_macro_enb_id_fld_format _ extnded_macro_enb_id_fld.layout_extnded_macro_enb_id_fld_size;
  Codec "auth_quadruplet" _ auth_quadruplet.auth_quadruplet_format _ auth_quadruplet.layout_auth_quadruplet_size;
  Codec "cgi_field" _ cgi_field.cgi_field_format _ cgi_field.layout_cgi_field_size;
  Codec "trgt_id_type_home_enb" _ trgt_id_type_home_enb.trgt_id_type_home_enb_format _ trgt_id_type_home_enb.layout_trgt_id_type_home_enb_size;
  Codec "lai_field" _ lai_field.lai_field_format _ lai_field.layout_lai_field_size;
  Codec "gtp_umts_key_and_quintuplets_ie" _ gtp_umts_key_and_quintuplets_ie.gtp_umts_key_and_quintuplets_ie_format _ gtp_umts_key_and_quintuplets_ie.layout_gtp_umts_key_and_quintuplets_ie_size;
  Codec "gtp_channel_needed_ie" _ gtp_channel_needed_ie.gtp_channel_needed_ie_format _ gtp_channel_needed_ie.layout_gtp_channel_needed_ie_size;
  Codec "gtp_rfsp_index_ie" _ gtp_rfsp_index_ie.gtp_rfsp_index_ie_format _ gtp_rfsp_index_ie.layout_gtp_rfsp_index_ie_size;
  Codec "gtp_guti_ie" _ gtp_guti_ie.gtp_guti_ie_format _ gtp_guti_ie.layout_gtp_guti_ie_size;
  Codec "gtp_eps_bearer_id_ie" _ gtp_eps_bearer_id_ie.gtp_eps_bearer_id_ie_format _ gtp_eps_bearer_id_ie.layout_gtp_eps_bearer_id_ie_size;
  Codec "gtp_emlpp_priority_ie" _ gtp_emlpp_priority_ie.gtp_emlpp_priority_ie_format _ gtp_emlpp_priority_ie.layout_gtp_emlpp_priority_ie_size;
  Codec "gtp_mdt_cfg_ie" _ gtp_mdt_cfg_ie.gtp_mdt_cfg_ie_format _ gtp_mdt_cfg_ie.layout_gtp_mdt_cfg_ie_size;
  Codec "gtp_src_id_ie" _ gtp_src_id_ie.gtp_src_id_ie_format _ gtp_src_id_ie.layout_gtp_src_id_ie_size;
  Codec "gtp_ran_nas_cause_ie" _ gtp_ran_nas_cause_ie.gtp_ran_nas_cause_ie_format _ gtp_ran_nas_cause_ie.layout_gtp_ran_nas_cause_ie_size;
  Codec "gtp_pdn_type_ie" _ gtp_pdn_type_ie.gtp_pdn_type_ie_format _ gtp_pdn_type_ie.layout_gtp_pdn_type_ie_size;
  Codec "gtp_flow_qlty_of_svc_ie" _ gtp_flow_qlty_of_svc_ie.gtp_flow_qlty_of_svc_ie_format _ gtp_flow_qlty_of_svc_ie.layout_gtp_flow_qlty_of_svc_ie_size;
  Codec "gtp_recovery_ie" _ gtp_recovery_ie.gtp_recovery_ie_format _ gtp_recovery_ie.layout_gtp_recovery_ie_size;
  Codec "gtp_srvng_plmn_rate_ctl_ie" _ gtp_srvng_plmn_rate_ctl_ie.gtp_srvng_plmn_rate_ctl_ie_format _ gtp_srvng_plmn_rate_ctl_ie.layout_gtp_srvng_plmn_rate_ctl_ie_size;
  Codec "gtp_mbms_dist_ack_ie" _ gtp_mbms_dist_ack_ie.gtp_mbms_dist_ack_ie_format _ gtp_mbms_dist_ack_ie.layout_gtp_mbms_dist_ack_ie_size;
  Codec "gtp_ue_time_zone_ie" _ gtp_ue_time_zone_ie.gtp_ue_time_zone_ie_format _ gtp_ue_time_zone_ie.layout_gtp_ue_time_zone_ie_size;
  Codec "gtp_trstd_wlan_mode_indctn_ie" _ gtp_trstd_wlan_mode_indctn_ie.gtp_trstd_wlan_mode_indctn_ie_format _ gtp_trstd_wlan_mode_indctn_ie.layout_gtp_trstd_wlan_mode_indctn_ie_size;
  Codec "gtp_proc_trans_id_ie" _ gtp_proc_trans_id_ie.gtp_proc_trans_id_ie_format _ gtp_proc_trans_id_ie.layout_gtp_proc_trans_id_ie_size;
  Codec "gtp_wlan_offldblty_indctn_ie" _ gtp_wlan_offldblty_indctn_ie.gtp_wlan_offldblty_indctn_ie_format _ gtp_wlan_offldblty_indctn_ie.layout_gtp_wlan_offldblty_indctn_ie_size;
  Codec "gtp_uli_timestamp_ie" _ gtp_uli_timestamp_ie.gtp_uli_timestamp_ie_format _ gtp_uli_timestamp_ie.layout_gtp_uli_timestamp_ie_size;
  Codec "gtp_max_pckt_loss_rate_ie" _ gtp_max_pckt_loss_rate_ie.gtp_max_pckt_loss_rate_ie_format _ gtp_max_pckt_loss_rate_ie.layout_gtp_max_pckt_loss_rate_ie_size;
  Codec "gtp_cn_oper_sel_entity_ie" _ gtp_cn_oper_sel_entity_ie.gtp_cn_oper_sel_entity_ie_format _ gtp_cn_oper_sel_entity_ie.layout_gtp_cn_oper_sel_entity_ie_size;
  Codec "gtp_alloc_reten_priority_ie" _ gtp_alloc_reten_priority_ie.gtp_alloc_reten_priority_ie_format _ gtp_alloc_reten_priority_ie.layout_gtp_alloc_reten_priority_ie_size;
  Codec "gtp_apn_restriction_ie" _ gtp_apn_restriction_ie.gtp_apn_restriction_ie_format _ gtp_apn_restriction_ie.layout_gtp_apn_restriction_ie_size;
  Codec "gtp_ptmsi_signature_ie" _ gtp_ptmsi_signature_ie.gtp_ptmsi_signature_ie_format _ gtp_ptmsi_signature_ie.layout_gtp_ptmsi_signature_ie_size;
  Codec "gtp_paging_and_svc_info_ie" _ gtp_paging_and_svc_info_ie.gtp_paging_and_svc_info_ie_format _ gtp_paging_and_svc_info_ie.layout_gtp_paging_and_svc_info_ie_size;
  Codec "gtp_ovrld_ctl_info_ie" _ gtp_ovrld_ctl_info_ie.gtp_ovrld_ctl_info_ie_format _ gtp_ovrld_ctl_info_ie.layout_gtp_ovrld_ctl_info_ie_size;
  Codec "gtp_ecgi_list_ie" _ gtp_ecgi_list_ie.gtp_ecgi_list_ie_format _ gtp_ecgi_list_ie.layout_gtp_ecgi_list_ie_size;
  Codec "gtp_agg_max_bit_rate_ie" _ gtp_agg_max_bit_rate_ie.gtp_agg_max_bit_rate_ie_format _ gtp_agg_max_bit_rate_ie.layout_gtp_agg_max_bit_rate_ie_size;
  Codec "gtp_umts_key_quadruplets_and_quintuplets_ie" _ gtp_umts_key_quadruplets_and_quintuplets_ie.gtp_umts_key_quadruplets_and_quintuplets_ie_format _ gtp_umts_key_quadruplets_and_quintuplets_ie.layout_gtp_umts_key_quadruplets_and_quintuplets_ie_size;
  Codec "gtp_cmplt_req_msg_ie" _ gtp_cmplt_req_msg_ie.gtp_cmplt_req_msg_ie_format _ gtp_cmplt_req_msg_ie.layout_gtp_cmplt_req_msg_ie_size;
  Codec "gtp_epc_timer_ie" _ gtp_epc_timer_ie.gtp_epc_timer_ie_format _ gtp_epc_timer_ie.layout_gtp_epc_timer_ie_size;
  Codec "gtp_csg_id_ie" _ gtp_csg_id_ie.gtp_csg_id_ie_format _ gtp_csg_id_ie.layout_gtp_csg_id_ie_size;
  Codec "gtp_packet_flow_id_ie" _ gtp_packet_flow_id_ie.gtp_packet_flow_id_ie_format _ gtp_packet_flow_id_ie.layout_gtp_packet_flow_id_ie_size;
  Codec "gtp_tmgi_ie" _ gtp_tmgi_ie.gtp_tmgi_ie_format _ gtp_tmgi_ie.layout_gtp_tmgi_ie_size;
  Codec "gtp_mntrng_evnt_info_ie" _ gtp_mntrng_evnt_info_ie.gtp_mntrng_evnt_info_ie_format _ gtp_mntrng_evnt_info_ie.layout_gtp_mntrng_evnt_info_ie_size;
  Codec "gtp_rmt_ue_ip_info_ie" _ gtp_rmt_ue_ip_info_ie.gtp_rmt_ue_ip_info_ie_format _ gtp_rmt_ue_ip_info_ie.layout_gtp_rmt_ue_ip_info_ie_size;
  Codec "gtp_bearer_qlty_of_svc_ie" _ gtp_bearer_qlty_of_svc_ie.gtp_bearer_qlty_of_svc_ie_format _ gtp_bearer_qlty_of_svc_ie.layout_gtp_bearer_qlty_of_svc_ie_size;
  Codec "gtp_mapped_ue_usage_type_ie" _ gtp_mapped_ue_usage_type_ie.gtp_mapped_ue_usage_type_ie_format _ gtp_mapped_ue_usage_type_ie.layout_gtp_mapped_ue_usage_type_ie_size;
  Codec "gtp_svc_indctr_ie" _ gtp_svc_indctr_ie.gtp_svc_indctr_ie_format _ gtp_svc_indctr_ie.layout_gtp_svc_indctr_ie_size;
  Codec "gtp_umts_key_used_cipher_and_quintuplets_ie" _ gtp_umts_key_used_cipher_and_quintuplets_ie.gtp_umts_key_used_cipher_and_quintuplets_ie_format _ gtp_umts_key_used_cipher_and_quintuplets_ie.layout_gtp_umts_key_used_cipher_and_quintuplets_ie_size;
  Codec "gtp_local_distgsd_name_ie" _ gtp_local_distgsd_name_ie.gtp_local_distgsd_name_ie_format _ gtp_local_distgsd_name_ie.layout_gtp_local_distgsd_name_ie_size;
  Codec "gtp_csg_info_rptng_act_ie" _ gtp_csg_info_rptng_act_ie.gtp_csg_info_rptng_act_ie_format _ gtp_csg_info_rptng_act_ie.layout_gtp_csg_info_rptng_act_ie_size;
  Codec "gtp_secdry_rat_usage_data_rpt_ie" _ gtp_secdry_rat_usage_data_rpt_ie.gtp_secdry_rat_usage_data_rpt_ie_format _ gtp_secdry_rat_usage_data_rpt_ie.layout_gtp_secdry_rat_usage_data_rpt_ie_size;
  Codec "gtp_rat_type_ie" _ gtp_rat_type_ie.gtp_rat_type_ie_format _ gtp_rat_type_ie.layout_gtp_rat_type_ie_size;
  Codec "gtp_global_cn_id_ie" _ gtp_global_cn_id_ie.gtp_global_cn_id_ie_format _ gtp_global_cn_id_ie.layout_gtp_global_cn_id_ie_size;
  Codec "gtp_charging_id_ie" _ gtp_charging_id_ie.gtp_charging_id_ie_format _ gtp_charging_id_ie.layout_gtp_charging_id_ie_size;
  Codec "gtp_counter_ie" _ gtp_counter_ie.gtp_counter_ie_format _ gtp_counter_ie.layout_gtp_counter_ie_size;
  Codec "gtp_serving_network_ie" _ gtp_serving_network_ie.gtp_serving_network_ie_format _ gtp_serving_network_ie.layout_gtp_serving_network_ie_size;
  Codec "gtp_node_identifier_ie" _ gtp_node_identifier_ie.gtp_node_identifier_ie_format _ gtp_node_identifier_ie.layout_gtp_node_identifier_ie_size;
  Codec "gtp_trc_info_ie" _ gtp_trc_info_ie.gtp_trc_info_ie_format _ gtp_trc_info_ie.layout_gtp_trc_info_ie_size;
  Codec "gtp_mbms_ip_multcst_dist_ie" _ gtp_mbms_ip_multcst_dist_ie.gtp_mbms_ip_multcst_dist_ie_format _ gtp_mbms_ip_multcst_dist_ie.layout_gtp_mbms_ip_multcst_dist_ie_size;
  Codec "gtp_full_qual_cntnr_ie" _ gtp_full_qual_cntnr_ie.gtp_full_qual_cntnr_ie_format _ gtp_full_qual_cntnr_ie.layout_gtp_full_qual_cntnr_ie_size;
  Codec "gtp_mbms_data_xfer_abs_time_ie" _ gtp_mbms_data_xfer_abs_time_ie.gtp_mbms_data_xfer_abs_time_ie_format _ gtp_mbms_data_xfer_abs_time_ie.layout_gtp_mbms_data_xfer_abs_time_ie_size;
  Codec "gtp_gsm_key_used_cipher_and_quintuplets_ie" _ gtp_gsm_key_used_cipher_and_quintuplets_ie.gtp_gsm_key_used_cipher_and_quintuplets_ie_format _ gtp_gsm_key_used_cipher_and_quintuplets_ie.layout_gtp_gsm_key_used_cipher_and_quintuplets_ie_size;
  Codec "gtp_twan_idnt_ts_ie" _ gtp_twan_idnt_ts_ie.gtp_twan_idnt_ts_ie_format _ gtp_twan_idnt_ts_ie.layout_gtp_twan_idnt_ts_ie_size;
  Codec "gtp_tmsi_ie" _ gtp_tmsi_ie.gtp_tmsi_ie_format _ gtp_tmsi_ie.layout_gtp_tmsi_ie_size;
  Codec "gtp_twan_identifier_ie" _ gtp_twan_identifier_ie.gtp_twan_identifier_ie_format _ gtp_twan_identifier_ie.layout_gtp_twan_identifier_ie_size;
  Codec "gtp_ptmsi_ie" _ gtp_ptmsi_ie.gtp_ptmsi_ie_format _ gtp_ptmsi_ie.layout_gtp_ptmsi_ie_size;
  Codec "gtp_node_type_ie" _ gtp_node_type_ie.gtp_node_type_ie_format _ gtp_node_type_ie.layout_gtp_node_type_ie_size;
  Codec "gtp_user_csg_info_ie" _ gtp_user_csg_info_ie.gtp_user_csg_info_ie_format _ gtp_user_csg_info_ie.layout_gtp_user_csg_info_ie_size;
  Codec "gtp_mbms_sess_dur_ie" _ gtp_mbms_sess_dur_ie.gtp_mbms_sess_dur_ie_format _ gtp_mbms_sess_dur_ie.layout_gtp_mbms_sess_dur_ie_size;
  Codec "gtp_metric_ie" _ gtp_metric_ie.gtp_metric_ie_format _ gtp_metric_ie.layout_gtp_metric_ie_size;
  Codec "gtp_bearer_context_ie" _ gtp_bearer_context_ie.gtp_bearer_context_ie_format _ gtp_bearer_context_ie.layout_gtp_bearer_context_ie_size;
  Codec "gtp_ciot_optim_supp_indctn_ie" _ gtp_ciot_optim_supp_indctn_ie.gtp_ciot_optim_supp_indctn_ie_format _ gtp_ciot_optim_supp_indctn_ie.layout_gtp_ciot_optim_supp_indctn_ie_size;
  Codec "gtp_pdu_numbers_ie" _ gtp_pdu_numbers_ie.gtp_pdu_numbers_ie_format _ gtp_pdu_numbers_ie.layout_gtp_pdu_numbers_ie_size;
  Codec "gtp_rab_context_ie" _ gtp_rab_context_ie.gtp_rab_context_ie_format _ gtp_rab_context_ie.layout_gtp_rab_context_ie_size;
  Codec "gtp_addtl_flgs_srvcc_ie" _ gtp_addtl_flgs_srvcc_ie.gtp_addtl_flgs_srvcc_ie_format _ gtp_addtl_flgs_srvcc_ie.layout_gtp_addtl_flgs_srvcc_ie_size;
  Codec "gtp_gsm_key_and_triplets_ie" _ gtp_gsm_key_and_triplets_ie.gtp_gsm_key_and_triplets_ie_format _ gtp_gsm_key_and_triplets_ie.layout_gtp_gsm_key_and_triplets_ie_size;
  Codec "gtp_node_number_ie" _ gtp_node_number_ie.gtp_node_number_ie_format _ gtp_node_number_ie.layout_gtp_node_number_ie_size;
  Codec "gtp_load_ctl_info_ie" _ gtp_load_ctl_info_ie.gtp_load_ctl_info_ie_format _ gtp_load_ctl_info_ie.layout_gtp_load_ctl_info_ie_size;
  Codec "gtp_rmt_ue_ctxt_ie" _ gtp_rmt_ue_ctxt_ie.gtp_rmt_ue_ctxt_ie_format _ gtp_rmt_ue_ctxt_ie.layout_gtp_rmt_ue_ctxt_ie_size;
  Codec "gtp_full_qual_cause_ie" _ gtp_full_qual_cause_ie.gtp_full_qual_cause_ie_format _ gtp_full_qual_cause_ie.layout_gtp_full_qual_cause_ie_size;
  Codec "gtp_ipv4_cfg_parms_ie" _ gtp_ipv4_cfg_parms_ie.gtp_ipv4_cfg_parms_ie_format _ gtp_ipv4_cfg_parms_ie.layout_gtp_ipv4_cfg_parms_ie_size;
  Codec "gtp_trace_reference_ie" _ gtp_trace_reference_ie.gtp_trace_reference_ie_format _ gtp_trace_reference_ie.layout_gtp_trace_reference_ie_size;
  Codec "gtp_node_features_ie" _ gtp_node_features_ie.gtp_node_features_ie_format _ gtp_node_features_ie.layout_gtp_node_features_ie_size;
  Codec "gtp_remote_user_id_ie" _ gtp_remote_user_id_ie.gtp_remote_user_id_ie_format _ gtp_remote_user_id_ie.layout_gtp_remote_user_id_ie_size;
  Codec "gtp_port_number_ie" _ gtp_port_number_ie.gtp_port_number_ie_format _ gtp_port_number_ie.layout_gtp_port_number_ie_size;
  Codec "gtp_addtl_mm_ctxt_srvcc_ie" _ gtp_addtl_mm_ctxt_srvcc_ie.gtp_addtl_mm_ctxt_srvcc_ie_format _ gtp_addtl_mm_ctxt_srvcc_ie.layout_gtp_addtl_mm_ctxt_srvcc_ie_size;
  Codec "gtp_act_indctn_ie" _ gtp_act_indctn_ie.gtp_act_indctn_ie_format _ gtp_act_indctn_ie.layout_gtp_act_indctn_ie_size;
  Codec "gtp_plmn_id_ie" _ gtp_plmn_id_ie.gtp_plmn_id_ie_format _ gtp_plmn_id_ie.layout_gtp_plmn_id_ie_size;
  Codec "gtp_mbms_flow_idnt_ie" _ gtp_mbms_flow_idnt_ie.gtp_mbms_flow_idnt_ie_format _ gtp_mbms_flow_idnt_ie.layout_gtp_mbms_flow_idnt_ie_size;
  Codec "gtp_hdr_comp_cfg_ie" _ gtp_hdr_comp_cfg_ie.gtp_hdr_comp_cfg_ie_format _ gtp_hdr_comp_cfg_ie.layout_gtp_hdr_comp_cfg_ie_size;
  Codec "gtp_sgnllng_priority_indctn_ie" _ gtp_sgnllng_priority_indctn_ie.gtp_sgnllng_priority_indctn_ie_format _ gtp_sgnllng_priority_indctn_ie.layout_gtp_sgnllng_priority_indctn_ie_size;
  Codec "gtp_mbms_time_to_data_xfer_ie" _ gtp_mbms_time_to_data_xfer_ie.gtp_mbms_time_to_data_xfer_ie_format _ gtp_mbms_time_to_data_xfer_ie.layout_gtp_mbms_time_to_data_xfer_ie_size;
  Codec "gtp_trgt_id_ie" _ gtp_trgt_id_ie.gtp_trgt_id_ie_format _ gtp_trgt_id_ie.layout_gtp_trgt_id_ie_size;
  Codec "gtp_mbms_flags_ie" _ gtp_mbms_flags_ie.gtp_mbms_flags_ie_format _ gtp_mbms_flags_ie.layout_gtp_mbms_flags_ie_size;
  Codec "gtp_trans_idnt_ie" _ gtp_trans_idnt_ie.gtp_trans_idnt_ie_format _ gtp_trans_idnt_ie.layout_gtp_trans_idnt_ie_size;
  Codec "gtp_bearer_flags_ie" _ gtp_bearer_flags_ie.gtp_bearer_flags_ie_format _ gtp_bearer_flags_ie.layout_gtp_bearer_flags_ie_size;
  Codec "gtp_msec_time_stmp_ie" _ gtp_msec_time_stmp_ie.gtp_msec_time_stmp_ie_format _ gtp_msec_time_stmp_ie.layout_gtp_msec_time_stmp_ie_size;
  Codec "gtp_chg_to_rpt_flgs_ie" _ gtp_chg_to_rpt_flgs_ie.gtp_chg_to_rpt_flgs_ie_format _ gtp_chg_to_rpt_flgs_ie.layout_gtp_chg_to_rpt_flgs_ie_size;
  Codec "gtp_scef_pdn_conn_ie" _ gtp_scef_pdn_conn_ie.gtp_scef_pdn_conn_ie_format _ gtp_scef_pdn_conn_ie.layout_gtp_scef_pdn_conn_ie_size;
  Codec "gtp_chg_rptng_act_ie" _ gtp_chg_rptng_act_ie.gtp_chg_rptng_act_ie_format _ gtp_chg_rptng_act_ie.layout_gtp_chg_rptng_act_ie_size;
  Codec "gtp_delay_value_ie" _ gtp_delay_value_ie.gtp_delay_value_ie_format _ gtp_delay_value_ie.layout_gtp_delay_value_ie_size;
  Codec "gtp_pdn_connection_ie" _ gtp_pdn_connection_ie.gtp_pdn_connection_ie_format _ gtp_pdn_connection_ie.layout_gtp_pdn_connection_ie_size;
  Codec "gtp_detach_type_ie" _ gtp_detach_type_ie.gtp_detach_type_ie_format _ gtp_detach_type_ie.layout_gtp_detach_type_ie_size;
  Codec "gtp_mbms_svc_area_ie" _ gtp_mbms_svc_area_ie.gtp_mbms_svc_area_ie_format _ gtp_mbms_svc_area_ie.layout_gtp_mbms_svc_area_ie_size;
  Codec "gtp_chrgng_char_ie" _ gtp_chrgng_char_ie.gtp_chrgng_char_ie_format _ gtp_chrgng_char_ie.layout_gtp_chrgng_char_ie_size;
  Codec "gtp_henb_info_rptng_ie" _ gtp_henb_info_rptng_ie.gtp_henb_info_rptng_ie_format _ gtp_henb_info_rptng_ie.layout_gtp_henb_info_rptng_ie_size;
  Codec "gtp_throttling_ie" _ gtp_throttling_ie.gtp_throttling_ie_format _ gtp_throttling_ie.layout_gtp_throttling_ie_size;
  Codec "gtp_csg_memb_indctn_ie" _ gtp_csg_memb_indctn_ie.gtp_csg_memb_indctn_ie_format _ gtp_csg_memb_indctn_ie.layout_gtp_csg_memb_indctn_ie_size;
  Codec "gtp_src_rnc_pdcp_ctxt_info_ie" _ gtp_src_rnc_pdcp_ctxt_info_ie.gtp_src_rnc_pdcp_ctxt_info_ie_format _ gtp_src_rnc_pdcp_ctxt_info_ie.layout_gtp_src_rnc_pdcp_ctxt_info_ie_size;
  Codec "gtp_hop_counter_ie" _ gtp_hop_counter_ie.gtp_hop_counter_ie_format _ gtp_hop_counter_ie.layout_gtp_hop_counter_ie_size;
  Codec "gtp_pres_rptng_area_info_ie" _ gtp_pres_rptng_area_info_ie.gtp_pres_rptng_area_info_ie_format _ gtp_pres_rptng_area_info_ie.layout_gtp_pres_rptng_area_info_ie_size;
  Codec "gtp_mbms_sess_idnt_ie" _ gtp_mbms_sess_idnt_ie.gtp_mbms_sess_idnt_ie_format _ gtp_mbms_sess_idnt_ie.layout_gtp_mbms_sess_idnt_ie_size;
  Codec "gtp_apn_and_rltv_cap_ie" _ gtp_apn_and_rltv_cap_ie.gtp_apn_and_rltv_cap_ie_format _ gtp_apn_and_rltv_cap_ie.layout_gtp_apn_and_rltv_cap_ie_size;
  Codec "gtp_selection_mode_ie" _ gtp_selection_mode_ie.gtp_selection_mode_ie_format _ gtp_selection_mode_ie.layout_gtp_selection_mode_ie_size;
  Codec "gtp_up_func_sel_indctn_flgs_ie" _ gtp_up_func_sel_indctn_flgs_ie.gtp_up_func_sel_indctn_flgs_ie_format _ gtp_up_func_sel_indctn_flgs_ie.layout_gtp_up_func_sel_indctn_flgs_ie_size;
  Codec "gtp_mbl_equip_idnty_ie" _ gtp_mbl_equip_idnty_ie.gtp_mbl_equip_idnty_ie_format _ gtp_mbl_equip_idnty_ie.layout_gtp_mbl_equip_idnty_ie_size;
  Codec "gtp_priv_ext_ie" _ gtp_priv_ext_ie.gtp_priv_ext_ie_format _ gtp_priv_ext_ie.layout_gtp_priv_ext_ie_size;
  Codec "gtp_sequence_number_ie" _ gtp_sequence_number_ie.gtp_sequence_number_ie_format _ gtp_sequence_number_ie.layout_gtp_sequence_number_ie_size
].

(** From [m] to [m'] nothing changed but the [n] bits from [p] on; if these end
    inside a byte, the bit behind them may have been cleared. *)
Definition writes_only (m m' : bytes) (p n : Z) : Prop :=
  forall k, k < p \/ p + n <= k ->
    mbit m' k = mbit m k \/ (n mod 8 <> 0 /\ k = p + n /\ mbit m' k = false).

Lemma framed_writes_only m m' buf n : framed m m' (8 * buf) n -> writes_only m m' (8 * buf) n.
Proof.
  intros [H1 H2] k [Hk|Hk]; [auto|]. destruct (H2 k Hk) as [H|(-> & Hm & Hb)]; [auto|]. right. split; [|auto].
  intros E. apply Hm. rewrite Z.add_mod, E, Z.add_0_r, Z.mod_mod, Z.mul_comm, Z.mod_mul by lia. reflexivity.
Qed.

(** Encoding a value of the codec's type on a zeroed area and decoding the
    result gives the value back; the encoder returns the whole bytes it wrote
    and writes nothing outside its layout. *)
Definition codec_inverts (c : codec) : Prop :=
  forall (v : codec_type c) buf m,
    wf_bytes m -> wire_wf v -> zeroed m (8 * buf) (codec_bits c) ->
    exists m',
      wire_encode v buf m = Some (codec_bits c / 8, m')
      /\ wire_decode m' buf = Some (wire_count v, v)
      /\ laid m' (8 * buf) (wire_layout v)
      /\ writes_only m m' (8 * buf) (codec_bits c).

Definition byte_exact (c : codec) : bool := codec_bits c mod 8 =? 0.

(** C5: for each of the 130 structures of libgtpv2c whose size is constant,
    [decode_X] inverts [encode_X] on a zeroed area: encoding any value of the C
    type succeeds, returns the number of whole bytes, changes no bit outside
    the layout (but may clear the next bit of a byte that the layout does not
    fill), and decoding the bytes returns the same value of every member.  On an
    area that is not zeroed stale bits can stay ([encode_bits_keeps_stale]). *)
Theorem every_codec_inverts : Forall codec_inverts all_codecs.
Proof.
  apply Forall_forall. intros c _ v buf m Hm Hv Hz.
  pose proof (codec_sized c v (proj1 Hv)) as Hs.
  destruct (wire_roundtrip v buf m Hm Hv) as (m' & E & _ & Hd & Hl & Hf).
  { rewrite Hs. exact Hz. }
  exists m'. rewrite Hs in *. apply framed_writes_only in Hf. auto.
Qed.

(** the seven structures whose layout does not fill its last byte, and
    only they: each with the number of bits of the partial byte.  Their
    encoders return a count of whole bytes that drops it, so whatever the
    caller encodes next overwrites their last members. *)
Theorem codecs_with_a_partial_byte :
  map (fun c => (codec_name c, codec_bits c - 8 * (codec_bits c / 8)))
      (filter (fun c => negb (byte_exact c)) all_codecs) =
  [("trgt_id_type_macro_ng_enb"%string, 4);
   ("trgt_id_type_extnded_macro_ng_enb"%string, 3);
   ("trgt_id_type_extnded_macro_enb"%string, 3);
   ("trgt_id_type_macro_enb"%string, 4);
   ("gtp_trstd_wlan_mode_indctn_ie"%string, 1);
   ("gtp_twan_identifier_ie"%string, 1);
   ("gtp_act_indctn_ie"%string, 5)].
Proof. vm_compute. reflexivity. Qed.

(** * The elements of variable size *)

Record var_codec := VarCodec {
  var_name : string;
  var_type : Type;
  var_format : IeFormat var_type;
  var_merge : IeMergeSame var_type
}.
#[global] Existing Instances var_format var_merge.

Definition var_codecs : list var_codec := [
  VarCodec "gtp_acc_pt_name_ie" _ gtp_acc_pt_name_ie.gtp_acc_pt_name_ie_format _;
  VarCodec "gtp_fully_qual_domain_name_ie" _
    gtp_fully_qual_domain_name_ie.gtp_fully_qual_domain_name_ie_format _;
  VarCodec "gtp_eps_bearer_lvl_traffic_flow_tmpl_ie" _
    gtp_eps_bearer_lvl_traffic_flow_tmpl_ie.gtp_eps_bearer_lvl_traffic_flow_tmpl_ie_format _;
  VarCodec "gtp_ip_address_ie" _ gtp_ip_address_ie.gtp_ip_address_ie_format _;
  VarCodec "gtp_cause_ie" _ gtp_cause_ie.gtp_cause_ie_format _;
  VarCodec "gtp_fully_qual_tunn_endpt_idnt_ie" _
    gtp_fully_qual_tunn_endpt_idnt_ie.gtp_fully_qual_tunn_endpt_idnt_ie_format _;
  VarCodec "gtp_pdn_addr_alloc_ie" _ gtp_pdn_addr_alloc_ie.gtp_pdn_addr_alloc_ie_format _;
  VarCodec "gtp_msisdn_ie" _ gtp_msisdn_ie.gtp_msisdn_ie_format _;
  VarCodec "gtp_integer_number_ie" _ gtp_integer_number_ie.gtp_integer_number_ie_format _;
  VarCodec "gtp_fqcsid_ie" _ gtp_fqcsid_ie.gtp_fqcsid_ie_format _;
  VarCodec "gtp_imsi_ie" _ gtp_imsi_ie_format _
].

(** Encoding a value and decoding it over any earlier contents gives the
    members on the wire the value's and leaves the others; over the value
    itself it gives the value. *)
Definition var_inverts (c : var_codec) : Prop :=
  forall (v old : var_type c) buf m,
    wf_bytes m -> ie_wf v -> ie_shape old -> zeroed m (8 * buf) (lsize (ie_layout v)) ->
    ie_merge v v = v /\
    exists m',
      ie_encode v buf m = Some (lsize (ie_layout v) / 8, m')
      /\ ie_decode m' buf old = Some (ie_count v, ie_merge old v)
      /\ writes_only m m' (8 * buf) (lsize (ie_layout v)).


(** * Witnesses *)

(** The aggregate maximum bit rate of a bearer. *)
Lemma every_codec_inverts_witness :
  let v := gtp_agg_max_bit_rate_ie.Build_gtp_agg_max_bit_rate_ie_t (mk_ie_header 72 8 0) 1000 2000 in
  exists m', gtp_agg_max_bit_rate_ie.encode_gtp_agg_max_bit_rate_ie v 3 (fun _ => 0) = Some (12, m')
    /\ gtp_agg_max_bit_rate_ie.decode_gtp_agg_max_bit_rate_ie m' 3 = Some (12, v)
    /\ writes_only (fun _ => 0) m' 24 96.
Proof.
  intros v. pose proof every_codec_inverts as H. unfold all_codecs in H. do 47 apply Forall_inv_tail in H.
  apply Forall_inv in H. destruct (H v 3 (fun _ => 0)) as (m' & E & D & _ & W).
  - intros i. lia.
  - split; cbn; [|lia]. repeat split; vm_compute; congruence.
  - intros k _. apply Z.testbit_0_l.
  - exists m'. split; [exact E|]. split; [exact D | exact W].
Defined.

