(* ===== verification/GtpMessage.v ===== *)
(** Messages of libgtpv2c: the header, and the encoder and decoder every
    message is an instance of.

    A message structure is a header, one member per information element and
    the counters of its arrays of elements.  Here it is a family of elements
    indexed by the names of the members ([message]); an array member is a
    constructor applied to the index.  An encoder visits members in a fixed
    order; a decoder walks over the elements in the buffer, and dispatches on
    type and instance with a table.  Both are one definition, with the order
    and the table as arguments. *)

From Stdlib Require Import ZArith List Lia Bool Eqdep_dec.
From S2P Require Import Prelude EncDecBits WireFormat IeFormat GtpIesVar.
Import ListNotations.
Open Scope Z_scope.
Open Scope wire_scope.

(** * The message header *)

(** The union [teid] is its bytes: [teid] the first four, [seq] and [spare]
    the next three and one.  [no_teid] overlays the first four. *)
Record gtpv2c_header_t := {
  gtpc_spare : Z;  (* uint8_t :3 *)
  gtpc_teid_flag : Z;  (* uint8_t :1 *)
  gtpc_piggyback : Z;  (* uint8_t :1 *)
  gtpc_version : Z;  (* uint8_t :3 *)
  gtpc_message_type : Z;  (* uint8_t *)
  gtpc_message_len : Z;  (* uint16_t *)
  teid_has_teid_teid : Z;  (* uint32_t *)
  teid_has_teid_seq : Z;  (* uint32_t :24 *)
  teid_has_teid_spare : Z  (* uint32_t :8 *)
}.

Definition teid_no_teid_seq (h : gtpv2c_header_t) : Z := Z.land h.(teid_has_teid_teid) 0xFFFFFF.
Definition teid_no_teid_spare (h : gtpv2c_header_t) : Z := Z.shiftr h.(teid_has_teid_teid) 24.

Definition encode_gtpv2c_header_t (value : gtpv2c_header_t) (buf : Z) : enc Z :=
  encoded <- ret 0;;
  encoded <- put_bits value.(gtpc_version) 3 buf encoded;;
  encoded <- put_bits value.(gtpc_piggyback) 1 buf encoded;;
  encoded <- put_bits value.(gtpc_teid_flag) 1 buf encoded;;
  encoded <- put_bits value.(gtpc_spare) 3 buf encoded;;
  encoded <- put_bits value.(gtpc_message_type) 8 buf encoded;;
  encoded <- put_bits value.(gtpc_message_len) 16 buf encoded;;
  encoded <- (if value.(gtpc_teid_flag) =? 1 then
                encoded <- put_bits value.(teid_has_teid_teid) 32 buf encoded;;
                encoded <- put_bits value.(teid_has_teid_seq) 24 buf encoded;;
                put_bits value.(teid_has_teid_spare) 8 buf encoded
              else
                encoded <- put_bits (teid_no_teid_seq value) 24 buf encoded;;
                put_bits (teid_no_teid_spare value) 8 buf encoded);;
  ret (encoded / CHAR_SIZE).

(** The 24 bits [b[0] << 16 | b[1] << 8 | b[2]]. *)
Definition be24 (m : bytes) (p : Z) : Z :=
  Z.lor (Z.lor (Z.shiftl (m p) 16) (Z.shiftl (m (p + 1)) 8)) (m (p + 2)).

(** The bit fields of the first byte are allocated from its low end. *)
Definition decode_gtpv2c_header_t (m : bytes) (buf : Z) (header : gtpv2c_header_t)
  : Z * gtpv2c_header_t :=
  let b := m buf in
  let teid_flag := Z.land (Z.shiftr b 3) 1 in
  let mk := Build_gtpv2c_header_t (Z.land b 7) teid_flag (Z.land (Z.shiftr b 4) 1) (Z.shiftr b 5)
              (m (buf + 1)) (m (buf + 2) * 256 + m (buf + 3)) in
  if negb (teid_flag =? 0) then
    (12, mk (getbits m (8 * (buf + 4)) 32) (be24 m (buf + 8)) header.(teid_has_teid_spare))
  else
    (8, mk (Z.lor (Z.land header.(teid_has_teid_teid) 0xFF000000) (be24 m (buf + 4)))
           header.(teid_has_teid_seq) header.(teid_has_teid_spare)).

Definition sizeof_gtpv2c_header_t : Z := 12.

Lemma header_count m buf old :
  fst (decode_gtpv2c_header_t m buf old) = 12 \/ fst (decode_gtpv2c_header_t m buf old) = 8.
Proof. unfold decode_gtpv2c_header_t. cbv zeta. destruct (negb _); auto. Qed.

(** * Members *)

(** What a message asks of the type of a member: a header, a codec, and that
    the decoder, on any bytes, consumes the header and the length in it. *)
Class IeMember (T : Type) := {
  member_format :: IeFormat T;
  member_header : T -> ie_header_t;
  member_layout v : exists fs, ie_layout v = FHdr (member_header v) :: fs;
  member_count v : ie_count v = (member_header v).(hdr_len) + IE_HEADER_SIZE;
  member_consumes m buf old c v :
    ie_decode m buf old = Some (c, v) -> c = wire_len m buf + IE_HEADER_SIZE
}.

(** The members of a message structure, and its counters. *)
Record signature := Signature {
  member : Type;
  #[canonical=no] member_eq_dec : forall f g : member, {f = g} + {f <> g};
  #[canonical=no] member_type : member -> Type;
  #[canonical=no] member_ie : forall f, IeMember (member_type f);
  #[canonical=no] counter : Type;
  #[canonical=no] counter_eq_dec : forall c d : counter, {c = d} + {c <> d}
}.
#[global] Existing Instance member_ie.

Record message (S : signature) := Message {
  header : gtpv2c_header_t;
  ie : forall f : member S, member_type S f;
  count_of : counter S -> Z
}.
Arguments Message {S}.
Arguments header {S}.
Arguments ie {S}.
Arguments count_of {S}.

Definition set_ie {S} (ies : forall f : member S, member_type S f) (f : member S)
    (x : member_type S f) : forall f, member_type S f :=
  fun g => match member_eq_dec S f g with
           | left e => eq_rect f (member_type S) x g e
           | right _ => ies g
           end.

Definition set_count {S} (counts : counter S -> Z) (c : counter S) (n : Z) : counter S -> Z :=
  fun d => if counter_eq_dec S c d then n else counts d.

(** A structure without counters. *)
Definition no_counter_eq_dec (c d : Empty_set) : {c = d} + {c <> d} := match c with end.

(** * Encoders *)

(** [if (value->f.header.len) encoded += encode_T(&(value->f), buf + encoded);] *)
Definition put_ie {T} `{IeMember T} (x : T) (buf encoded : Z) : enc Z :=
  if negb ((member_header x).(hdr_len) =? 0) then
    r <- ie_encode x (buf + encoded);;
    ret (u16 (encoded + r))
  else ret encoded.

(** A member, or a loop over the first elements of an array of [cap]. *)
Inductive visit (S : signature) :=
| One (f : member S)
| Many (upto : (counter S -> Z) -> Z) (f : nat -> member S) (cap : nat).
Arguments One {S}.
Arguments Many {S}.

Fixpoint put_many {S} (ies : forall f : member S, member_type S f) (f : nat -> member S)
    (todo i cap : nat) (buf encoded : Z) : enc Z :=
  match todo with
  | O => ret encoded
  | Datatypes.S todo =>
      if (i <? cap)%nat then
        encoded <- put_ie (ies (f i)) buf encoded;;
        put_many ies f todo (Datatypes.S i) cap buf encoded
      else fun _ => None
  end.

Fixpoint put_visits {S} (ies : forall f : member S, member_type S f) (counts : counter S -> Z)
    (order : list (visit S)) (buf encoded : Z) : enc Z :=
  match order with
  | [] => ret encoded
  | One f :: order =>
      encoded <- put_ie (ies f) buf encoded;;
      put_visits ies counts order buf encoded
  | Many upto f cap :: order =>
      encoded <- put_many ies f (Z.to_nat (upto counts)) 0 cap buf encoded;;
      put_visits ies counts order buf encoded
  end.

(** [buf->gtpc.message_len = htons(encoded - IE_HEADER_SIZE);] on the buffer cast
    to the header. *)
Definition set_message_len (buf encoded : Z) : enc unit := fun m =>
  let len := u16 (encoded - IE_HEADER_SIZE) in
  Some (tt, upd (upd m (buf + 2) (len / 256)) (buf + 3) (len mod 256)).

Definition encode_message {S} (order : list (visit S)) (value : message S) (buf : Z) : enc Z :=
  r <- encode_gtpv2c_header_t value.(header) buf;;
  encoded <- put_visits value.(ie) value.(count_of) order buf (u16 (0 + r));;
  _ <- set_message_len buf encoded;;
  ret encoded.

(** * Decoders *)

(** What a branch does with the element: decode it into a member, into the
    next element of an array, or nothing at all (an empty branch). *)
Inductive action (S : signature) :=
| Into (f : member S)
| Next (c : counter S) (f : nat -> member S) (cap : Z)
| Empty.
Arguments Into {S}.
Arguments Next {S}.
Arguments Empty {S}.

(** A branch: the type, the instance if it is tested, the action. *)
Definition branch (S : signature) : Type := Z * option Z * action S.

Definition matches {S} (type instance : Z) (b : branch S) : bool :=
  (type =? fst (fst b)) && match snd (fst b) with Some i => instance =? i | None => true end.

Definition dispatch {S} (table : list (branch S)) (type instance : Z) : option (action S) :=
  option_map snd (find (matches type instance) table).

(** The elements of a structure and its counters: what the loop changes. *)
Definition body (S : signature) : Type := (forall f : member S, member_type S f) * (counter S -> Z).

(** One pass of the loop over the element at address [p]: the bytes consumed
    and the new members; [None] is a write past an array. *)
Definition decode_element {S} (table : list (branch S)) (m : bytes) (p : Z) (value : body S)
  : option (Z * body S) :=
  let '(ies, counts) := value in
  match dispatch table (m p) (m (p + 3)) with
  | Some (Into f) =>
      match ie_decode m p (ies f) with
      | Some (c, x) => Some (c, (set_ie ies f x, counts))
      | None => None
      end
  | Some (Next k f cap) =>
      let i := counts k in
      if (0 <=? i) && (i <? cap) then
        match ie_decode m p (ies (f (Z.to_nat i))) with
        | Some (c, x) => Some (c, (set_ie ies (f (Z.to_nat i)) x, set_count counts k (u8 (i + 1))))
        | None => None
        end
      else None
  | Some Empty => Some (0, value)
  | None => Some (IE_HEADER_SIZE + wire_len m p, value)
  end.

(** The loop [while (count < buf_len)], for at most [fuel] passes. *)
Fixpoint decode_loop {S} (fuel : nat) (table : list (branch S)) (m : bytes)
    (buf count buf_len : Z) (value : body S) : outcome (Z * body S) :=
  if count <? buf_len then
    match fuel with
    | O => OutOfFuel
    | Datatypes.S fuel =>
        match decode_element table m (buf + count) value with
        | Some (c, value) => decode_loop fuel table m buf (u16 (count + c)) buf_len value
        | None => Fault
        end
    end
  else Done (count, value).

Definition header_size (h : gtpv2c_header_t) : Z :=
  if h.(gtpc_teid_flag) =? 1 then sizeof_gtpv2c_header_t else sizeof_gtpv2c_header_t - 4.

(** [guarded]: some decoders reset [count] only when [buf_len] is not zero. *)
Definition decode_message {S} (table : list (branch S)) (resets : list (counter S)) (guarded : bool)
    (fuel : nat) (m : bytes) (buf : Z) (value : message S) : outcome (Z * message S) :=
  let counts := fold_left (fun n c => set_count n c 0) resets value.(count_of) in
  let '(count, h) := decode_gtpv2c_header_t m buf value.(header) in
  let buf_len := u16 (h.(gtpc_message_len) - (if negb (h.(gtpc_teid_flag) =? 0) then 8 else 4)) in
  let buf := buf + count in
  let count := if guarded && (buf_len =? 0) then count else 0 in
  match decode_loop fuel table m buf count buf_len (value.(ie), counts) with
  | Done (count, (ies, counts)) => Done (count + header_size h, Message h ies counts)
  | Fault => Fault
  | OutOfFuel => OutOfFuel
  end.

(** * The walk over the elements *)

Lemma wire_len_nonneg m p : wf_bytes m -> 0 <= wire_len m p < 65536.
Proof.
  intros Hm. unfold wire_len. pose proof (Hm (p + 1)). pose proof (Hm (p + 2)). lia.
Qed.

(** Every branch but an empty one consumes the element it looks at. *)
Lemma decode_element_consumes {S} (table : list (branch S)) m p value c value' :
  dispatch table (m p) (m (p + 3)) <> Some Empty ->
  decode_element table m p value = Some (c, value') -> c = wire_len m p + IE_HEADER_SIZE.
Proof.
  unfold decode_element. destruct value as [ies counts].
  destruct (dispatch _ _ _) as [[f|k f cap|]|]; intros He.
  - destruct (ie_decode _ _ _) as [[c' x]|] eqn:E; [|discriminate]. intros [= <- _].
    apply member_consumes in E. exact E.
  - destruct (_ && _); [|discriminate].
    destruct (ie_decode _ _ _) as [[c' x]|] eqn:E; [|discriminate]. intros [= <- _].
    apply member_consumes in E. exact E.
  - congruence.
  - intros E. assert (c = IE_HEADER_SIZE + wire_len m p) by congruence. lia.
Qed.

(** A table without empty branches. *)
Definition no_empty {S} (table : list (branch S)) : bool :=
  forallb (fun b => match snd b with Empty => false | _ => true end) table.

Lemma no_empty_dispatch {S} (table : list (branch S)) t i :
  no_empty table = true -> dispatch table t i <> Some Empty.
Proof.
  intros H. unfold dispatch. destruct (find _ table) as [b|] eqn:E; cbn; [|discriminate].
  apply find_some in E. destruct E as [Hin _].
  unfold no_empty in H. rewrite forallb_forall in H. specialize (H b Hin).
  destruct b as [k [f|c f cap|]]; cbn in *; discriminate.
Qed.

(** The offsets at which a decoder looks for an element: each is the one
    before, inside [buf_len], plus the size its header announces, in sixteen
    bits. *)
Inductive reached (m : bytes) (buf buf_len : Z) : Z -> Prop :=
| reached_start : reached m buf buf_len 0
| reached_next c :
    reached m buf buf_len c -> c < buf_len ->
    reached m buf buf_len (u16 (c + (wire_len m (buf + c) + IE_HEADER_SIZE))).

Lemma decode_loop_terminates {S} (table : list (branch S)) m buf buf_len count value fuel :
  wf_bytes m -> no_empty table = true -> 0 <= count -> reached m buf buf_len count ->
  (forall c, reached m buf buf_len c -> c < buf_len -> c + wire_len m (buf + c) + IE_HEADER_SIZE < 65536) ->
  buf_len - count <= Z.of_nat fuel ->
  decode_loop fuel table m buf count buf_len value <> OutOfFuel.
Proof.
  intros Hm Ht Hc Hr Hw. revert count value Hc Hr.
  induction fuel as [|fuel IH]; intros count value Hc Hr Hf.
  - cbn [decode_loop]. destruct (Z.ltb_spec count buf_len); [lia | discriminate].
  - cbn [decode_loop]. destruct (Z.ltb_spec count buf_len) as [Hlt|_]; [|discriminate].
    destruct (decode_element _ _ _ _) as [[c value']|] eqn:E; [|discriminate].
    apply decode_element_consumes in E; [|apply no_empty_dispatch, Ht]. subst c.
    specialize (Hw count Hr Hlt). pose proof (wire_len_nonneg m (buf + count) Hm).
    apply reached_next in Hr; [|exact Hlt]. unfold IE_HEADER_SIZE in *.
    rewrite u16_small in * by lia. apply IH; auto; lia.
Qed.

(** An element that leaves [count] where it is is met again and again. *)
Lemma decode_loop_stuck {S} (table : list (branch S)) m buf buf_len count value fuel c :
  0 <= count < buf_len -> buf_len < 65536 ->
  decode_element table m (buf + count) value = Some (c, value) -> c mod 65536 = 0 ->
  decode_loop fuel table m buf count buf_len value = OutOfFuel.
Proof.
  intros Hc Hb He Hz. induction fuel as [|fuel IH]; cbn [decode_loop];
    (destruct (Z.ltb_spec count buf_len); [|lia]); [reflexivity|].
  rewrite He. replace (u16 (count + c)) with count; [exact IH|].
  unfold u16. rewrite Z.add_mod, Hz, Z.add_0_r, Z.mod_mod, Z.mod_small by lia. reflexivity.
Qed.

(** * Updates of members *)

Lemma set_ie_same {S} ies (f : member S) x : set_ie ies f x f = x.
Proof.
  unfold set_ie. destruct (member_eq_dec S f f) as [e|n]; [|congruence].
  symmetry. apply eq_rect_eq_dec, member_eq_dec.
Qed.

Lemma set_ie_other {S} ies (f g : member S) x : f <> g -> set_ie ies f x g = ies g.
Proof. intros H. unfold set_ie. destruct (member_eq_dec S f g); congruence. Qed.

(** * The header *)

Definition layout_header (h : gtpv2c_header_t) : list field :=
  [FBits h.(gtpc_version) 3; FBits h.(gtpc_piggyback) 1; FBits h.(gtpc_teid_flag) 1;
   FBits h.(gtpc_spare) 3; FBits h.(gtpc_message_type) 8; FBits h.(gtpc_message_len) 16]
  ++ (if h.(gtpc_teid_flag) =? 1
      then [FBits h.(teid_has_teid_teid) 32; FBits h.(teid_has_teid_seq) 24;
            FBits h.(teid_has_teid_spare) 8]
      else [FBits (teid_no_teid_seq h) 24; FBits (teid_no_teid_spare h) 8]).

(** The header a decoder leaves in place of [old] for the header [h]. *)
Definition merge_header (old h : gtpv2c_header_t) : gtpv2c_header_t :=
  let mk := Build_gtpv2c_header_t h.(gtpc_spare) h.(gtpc_teid_flag) h.(gtpc_piggyback)
              h.(gtpc_version) h.(gtpc_message_type) h.(gtpc_message_len) in
  if h.(gtpc_teid_flag) =? 1
  then mk h.(teid_has_teid_teid) h.(teid_has_teid_seq) old.(teid_has_teid_spare)
  else mk (Z.lor (Z.land old.(teid_has_teid_teid) 0xFF000000) (teid_no_teid_seq h))
          old.(teid_has_teid_seq) old.(teid_has_teid_spare).

Lemma header_layout_size h : lsize (layout_header h) = 8 * header_size h.
Proof. unfold layout_header, header_size. destruct (_ =? 1); reflexivity. Qed.

Lemma header_size_cases h : header_size h = 12 \/ header_size h = 8.
Proof. unfold header_size. destruct (_ =? 1); auto. Qed.

Lemma header_size_flag h h' :
  h.(gtpc_teid_flag) = h'.(gtpc_teid_flag) -> header_size h = header_size h'.
Proof. unfold header_size. intros ->. reflexivity. Qed.

Lemma header_emits h buf :
  emits buf 0 (layout_header h) (encode_gtpv2c_header_t h buf) (header_size h).
Proof.
  unfold layout_header, encode_gtpv2c_header_t, header_size.
  destruct (_ =? 1); cbn [app]; ie_emit_steps; reflexivity.
Qed.

Lemma be24_getbits m p : wf_bytes m -> be24 m p = getbits m (8 * p) 24.
Proof.
  intros Hm. change 24 with (8 + (8 + 8)).
  rewrite (getbits_split m (8 * p) 8 (8 + 8)), (getbits_split m (8 * p + 8) 8 8) by lia.
  replace (8 * p + 8 + 8) with (8 * (p + 2)) by lia. replace (8 * p + 8) with (8 * (p + 1)) by lia.
  rewrite !getbits_byte by exact Hm. change (2 ^ (8 + 8)) with 65536. change (2 ^ 8) with 256.
  unfold be24. pose proof (Hm p). pose proof (Hm (p + 1)). pose proof (Hm (p + 2)).
  rewrite <- Z.lor_assoc, (lor_shiftl_add (m (p + 1)) _ 8), lor_shiftl_add by lia.
  reflexivity.
Qed.

Lemma first_byte_fields m p v g t s :
  wf_bytes m -> getbits m (8 * p) 3 = v -> getbits m (8 * p + 3) 1 = g ->
  getbits m (8 * p + 3 + 1) 1 = t -> getbits m (8 * p + 3 + 1 + 1) 3 = s ->
  Z.land (m p) 7 = s /\ Z.land (Z.shiftr (m p) 3) 1 = t
  /\ Z.land (Z.shiftr (m p) 4) 1 = g /\ Z.shiftr (m p) 5 = v.
Proof.
  intros Hm Hv Hg Ht Hs.
  pose proof (getbits_range m (8 * p) 3 ltac:(lia)). pose proof (getbits_range m (8 * p + 3) 1 ltac:(lia)).
  pose proof (getbits_range m (8 * p + 3 + 1) 1 ltac:(lia)).
  pose proof (getbits_range m (8 * p + 3 + 1 + 1) 3 ltac:(lia)).
  assert (E : m p = ((v * 2 + g) * 2 + t) * 8 + s).
  { rewrite <- (getbits_byte m p Hm). change 8 with (3 + (1 + (1 + 3))) at 2.
    rewrite (getbits_split m _ 3 (1 + (1 + 3))), (getbits_split m _ 1 (1 + 3)),
      (getbits_split m _ 1 3) by lia.
    rewrite Hv, Hg, Ht, Hs. change (2 ^ (1 + (1 + 3))) with 32. change (2 ^ (1 + 3)) with 16.
    change (2 ^ 3) with 8. lia. }
  rewrite Hv, Hg, Ht, Hs in *. rewrite E. clear E Hv Hg Ht Hs Hm.
  change 7 with (Z.ones 3). rewrite !(Z.land_ones _ 3) by lia.
  change 1 with (Z.ones 1). rewrite !(Z.land_ones _ 1), !Z.shiftr_div_pow2 by lia.
  change (2 ^ Z.ones 1) with 2 in *. change (2 ^ 3) with 8 in *. change (2 ^ 1) with 2 in *.
  change (2 ^ 4) with 16. change (2 ^ 5) with 32. repeat split; Z.div_mod_to_equations; lia.
Qed.

Lemma header_decodes m buf old h :
  wf_bytes m -> fields_ok (layout_header h) -> laid m (8 * buf) (layout_header h) ->
  decode_gtpv2c_header_t m buf old = (header_size h, merge_header old h).
Proof.
  intros Hm Hok Hl. unfold layout_header in *. rewrite laid_app in Hl. rewrite fields_ok_app in Hok.
  destruct Hl as [(H1 & H2 & H3 & H4 & H5 & H6 & _) Hl]. destruct Hok as [(_ & _ & [_ Ht] & _) _].
  cbn [fsize lsize field_at] in *.
  destruct (first_byte_fields m buf _ _ _ _ Hm H1 H2 H3 H4) as (E1 & E2 & E3 & E4).
  unfold decode_gtpv2c_header_t. cbv zeta. rewrite E1, E2, E3, E4.
  replace (8 * buf + 3 + 1 + 1 + 3) with (8 * (buf + 1)) in H5 by lia.
  replace (8 * buf + 3 + 1 + 1 + 3 + 8) with (8 * (buf + 2)) in H6 by lia.
  rewrite getbits_byte in H5 by exact Hm. rewrite getbits_16 in H6 by exact Hm.
  replace (buf + 2 + 1) with (buf + 3) in H6 by lia. rewrite H5, H6.
  change (3 + (1 + (1 + (3 + (8 + (16 + 0)))))) with 32 in Hl.
  unfold header_size, merge_header, sizeof_gtpv2c_header_t. rewrite !be24_getbits by exact Hm.
  assert (Hf : gtpc_teid_flag h = 0 \/ gtpc_teid_flag h = 1) by lia.
  destruct Hf as [Hf|Hf]; rewrite Hf in *; cbn [Z.eqb Pos.eqb negb laid field_at fsize] in *.
  - destruct Hl as (L1 & _). replace (8 * buf + 32) with (8 * (buf + 4)) in L1 by lia.
    rewrite L1. reflexivity.
  - destruct Hl as (L1 & L2 & _). replace (8 * buf + 32 + 32) with (8 * (buf + 8)) in L2 by lia.
    replace (8 * buf + 32) with (8 * (buf + 4)) in L1 by lia. rewrite L1, L2. reflexivity.
Qed.

(** * The members an encoder emits, in order *)

Fixpoint flatten {S} (counts : counter S -> Z) (order : list (visit S))
  : option (list (member S)) :=
  match order with
  | [] => Some []
  | One f :: order => option_map (cons f) (flatten counts order)
  | Many upto f cap :: order =>
      let n := Z.to_nat (upto counts) in
      if (n <=? cap)%nat then option_map (app (map f (seq 0 n))) (flatten counts order) else None
  end.

Definition present {S} (ies : forall f : member S, member_type S f) (f : member S) : bool :=
  negb ((member_header (ies f)).(hdr_len) =? 0).

Definition emitted {S} (ies : forall f : member S, member_type S f) (counts : counter S -> Z)
    (order : list (visit S)) : list (member S) :=
  match flatten counts order with
  | Some l => filter (present ies) l
  | None => []
  end.

Fixpoint put_list {S} (ies : forall f : member S, member_type S f) (l : list (member S))
    (buf encoded : Z) : enc Z :=
  match l with
  | [] => ret encoded
  | f :: l =>
      r <- ie_encode (ies f) (buf + encoded);;
      put_list ies l buf (u16 (encoded + r))
  end.

Lemma put_list_app {S} (ies : forall f : member S, member_type S f) l1 l2 buf encoded m :
  put_list ies (l1 ++ l2) buf encoded m
  = bind (put_list ies l1 buf encoded) (put_list ies l2 buf) m.
Proof.
  revert encoded m. induction l1 as [|f l1 IH]; intros encoded m; [reflexivity|].
  cbn [app put_list]. unfold bind in *. destruct (ie_encode _ _ m) as [[r m']|]; [|reflexivity].
  apply IH.
Qed.

Lemma put_ie_list {S} (ies : forall f : member S, member_type S f) f buf encoded m :
  put_ie (ies f) buf encoded m = put_list ies (filter (present ies) [f]) buf encoded m.
Proof.
  cbn [filter]. unfold put_ie, present.
  destruct (negb _); [|reflexivity]. cbn [put_list]. reflexivity.
Qed.

Lemma put_many_list {S} (ies : forall f : member S, member_type S f) f todo i cap buf encoded m :
  (i + todo <= cap)%nat ->
  put_many ies f todo i cap buf encoded m
  = put_list ies (filter (present ies) (map f (seq i todo))) buf encoded m.
Proof.
  revert i encoded m. induction todo as [|todo IH]; intros i encoded m Hi; [reflexivity|].
  cbn [put_many seq map]. destruct (Nat.ltb_spec i cap); [|lia].
  change (f i :: map f (seq (Datatypes.S i) todo)) with ([f i] ++ map f (seq (Datatypes.S i) todo)).
  rewrite filter_app, put_list_app. unfold bind. rewrite put_ie_list.
  destruct (put_list _ _ _ _ _) as [[e m']|]; [|reflexivity]. apply IH. lia.
Qed.

Lemma put_visits_list {S} (ies : forall f : member S, member_type S f) counts order buf encoded m :
  flatten counts order <> None ->
  put_visits ies counts order buf encoded m
  = put_list ies (emitted ies counts order) buf encoded m.
Proof.
  unfold emitted. revert encoded m.
  induction order as [|[f|upto f cap] order IH]; intros encoded m; cbn [flatten put_visits].
  - reflexivity.
  - destruct (flatten counts order) as [l'|] eqn:E; cbn [option_map]; [|congruence]. intros _.
    change (f :: l') with ([f] ++ l'). rewrite filter_app, put_list_app.
    unfold bind. rewrite put_ie_list. destruct (put_list _ _ _ _ _) as [[e m']|]; [|reflexivity].
    apply IH. discriminate.
  - destruct (Nat.leb_spec (Z.to_nat (upto counts)) cap); [|congruence].
    destruct (flatten counts order) as [l'|] eqn:E; cbn [option_map]; [|congruence]. intros _.
    rewrite filter_app, put_list_app.
    unfold bind. rewrite put_many_list by lia. destruct (put_list _ _ _ _ _) as [[e m']|]; [|reflexivity].
    apply IH. discriminate.
Qed.

(** * What is written is what the walk meets *)

Definition ie_size {T} `{IeMember T} (x : T) : Z := (member_header x).(hdr_len) + IE_HEADER_SIZE.

Fixpoint total_size {S} (ies : forall f : member S, member_type S f) (l : list (member S)) : Z :=
  match l with
  | [] => 0
  | f :: l => ie_size (ies f) + total_size ies l
  end.

(** A member fit to be sent: its values are in range and its header has the
    length of what follows. *)
Definition sendable {T} `{IeMember T} (x : T) : Prop :=
  ie_wf x /\ lsize (ie_layout x) = 8 * ie_size x.

Lemma sendable_size {T} `{IeMember T} (x : T) : sendable x -> 4 <= ie_size x < 8192.
Proof.
  intros [[Hok Hf] Hs]. pose proof (ie_bound x Hok).
  destruct (member_layout x) as [fs E]. rewrite E in *. cbn [fields_ok field_ok] in Hf.
  unfold ie_size, IE_HEADER_SIZE in *. lia.
Qed.

Lemma total_size_nonneg {S} (ies : forall f : member S, member_type S f) l :
  Forall (fun f => sendable (ies f)) l -> 4 * Z.of_nat (length l) <= total_size ies l.
Proof.
  induction 1 as [|f l Hf _ IH]; cbn [total_size length]; [lia|].
  pose proof (sendable_size _ Hf). lia.
Qed.

(** The elements of [l] lie one after the other from address [p] on. *)
Fixpoint laid_ies {S} (m : bytes) (p : Z) (ies : forall f : member S, member_type S f)
    (l : list (member S)) : Prop :=
  match l with
  | [] => True
  | f :: l => laid m (8 * p) (ie_layout (ies f)) /\ laid_ies m (p + ie_size (ies f)) ies l
  end.

Lemma laid_ies_ext {S} m m' p (ies : forall f : member S, member_type S f) l :
  Forall (fun f => sendable (ies f)) l ->
  (forall k, 8 * p <= k < 8 * (p + total_size ies l) -> mbit m' k = mbit m k) ->
  laid_ies m p ies l -> laid_ies m' p ies l.
Proof.
  intros Hs. revert p. induction Hs as [|f l Hf Hl IH]; intros p He; cbn [laid_ies total_size] in *; auto.
  intros [H1 H2]. pose proof (sendable_size _ Hf). pose proof (total_size_nonneg ies l Hl).
  split.
  - apply (laid_ext m); [apply Hf| |exact H1]. intros k Hk. apply He.
    destruct Hf as [_ Hsz]. lia.
  - apply IH; auto. intros k Hk. apply He. lia.
Qed.

Lemma put_list_emits {S} (ies : forall f : member S, member_type S f) l buf encoded m :
  Forall (fun f => sendable (ies f)) l -> wf_bytes m -> 0 <= encoded ->
  encoded + total_size ies l < 65536 ->
  zeroed m (8 * (buf + encoded)) (8 * total_size ies l) ->
  exists m', put_list ies l buf encoded m = Some (encoded + total_size ies l, m')
    /\ wf_bytes m' /\ laid_ies m' (buf + encoded) ies l
    /\ framed m m' (8 * (buf + encoded)) (8 * total_size ies l).
Proof.
  intros Hs. revert encoded m. induction Hs as [|f l Hf Hl IH]; intros encoded m Hm He Hb Hz;
    cbn [total_size put_list laid_ies] in *.
  - exists m. rewrite Z.add_0_r. split; [reflexivity|]. split; [exact Hm|].
    split; [exact I | apply framed_refl].
  - pose proof (sendable_size _ Hf) as Hsz. pose proof (total_size_nonneg ies l Hl).
    destruct Hf as [[Hok Hfo] Hlen].
    destruct (ie_emits (ies f) (buf + encoded) Hok m Hm Hfo) as (m1 & E1 & Hm1 & Hl1 & Hf1);
      rewrite ?Z.add_0_r, ?Hlen in *; [lia|lia| |].
    { intros k Hk. apply Hz. lia. }
    rewrite (Z.mul_comm 8 (ie_size (ies f))), Z.div_mul in E1 by lia.
    destruct (IH (encoded + ie_size (ies f)) m1 Hm1) as (m2 & E2 & Hm2 & Hl2 & Hf2); [lia|lia| |].
    { intros k Hk. destruct (proj2 Hf1 k ltac:(lia)) as [->|(_ & _ & E)]; [apply Hz; lia | exact E]. }
    exists m2. unfold bind. rewrite E1, u16_small by lia.
    rewrite Z.add_assoc. split; [exact E2|]. split; [exact Hm2|].
    replace (8 * (buf + (encoded + ie_size (ies f)))) with (8 * (buf + encoded) + 8 * ie_size (ies f))
      in Hf2 by lia.
    split; [split|].
    + apply (laid_ext m1); [exact Hfo| |exact Hl1]. intros k Hk. apply Hf2. lia.
    + rewrite <- Z.add_assoc. exact Hl2.
    + rewrite (Z.mul_add_distr_l 8 (ie_size _)). apply (framed_trans m m1 m2); auto; lia.
Qed.

(** * The decoder's dispatch leads back to the members *)

(** What the counters are after the elements of [l], if each is routed to the
    member it came from. *)
Fixpoint routed {S} (table : list (branch S)) (ies : forall f : member S, member_type S f)
    (l : list (member S)) (counts : counter S -> Z) : option (counter S -> Z) :=
  match l with
  | [] => Some counts
  | f :: l =>
      let h := member_header (ies f) in
      match dispatch table h.(hdr_type) h.(hdr_instance) with
      | Some (Into g) =>
          if member_eq_dec S f g then routed table ies l counts else None
      | Some (Next k g cap) =>
          let i := counts k in
          if (0 <=? i) && (i <? cap) then
            if member_eq_dec S f (g (Z.to_nat i))
            then routed table ies l (set_count counts k (u8 (i + 1))) else None
          else None
      | _ => None
      end
  end.

(** Each element of [l] decoded over its old contents. *)
Definition merged {S} (ies old : forall f : member S, member_type S f) (l : list (member S))
  : forall f, member_type S f :=
  fold_left (fun acc f => set_ie acc f (ie_merge (acc f) (ies f))) l old.

Lemma merged_at {S} (ies old : forall f : member S, member_type S f) l f :
  NoDup l ->
  merged ies old l f = if in_dec (member_eq_dec S) f l then ie_merge (old f) (ies f) else old f.
Proof.
  intros Hn. revert old. induction Hn as [|g l Hg Hl IH]; intros old; [reflexivity|].
  unfold merged in *. cbn [fold_left]. rewrite IH.
  destruct (in_dec _ f l) as [Hin|Hout], (in_dec _ f (g :: l)) as [Hin'|Hout']; cbn [In] in *.
  - assert (g <> f) by congruence. rewrite set_ie_other by assumption. reflexivity.
  - tauto.
  - assert (g = f) as <- by tauto. apply set_ie_same.
  - apply set_ie_other. tauto.
Qed.

Lemma header_key {T} `{IeMember T} m p (x : T) :
  wf_bytes m -> laid m (8 * p) (ie_layout x) ->
  m p = (member_header x).(hdr_type) /\ m (p + 3) = (member_header x).(hdr_instance).
Proof.
  intros Hm Hl. destruct (member_layout x) as [fs E]. rewrite E in Hl.
  destruct Hl as [(H1 & _ & H3) _]. replace (8 * p + 24) with (8 * (p + 3)) in H3 by lia.
  rewrite getbits_byte in H1, H3 by exact Hm. auto.
Qed.

Lemma decode_element_routed {S} (table : list (branch S)) m p ies f l old counts counts' :
  wf_bytes m -> sendable (ies f) -> ie_shape (old f) -> laid m (8 * p) (ie_layout (ies f)) ->
  routed table ies (f :: l) counts = Some counts' ->
  exists counts1,
    decode_element table m p (old, counts)
    = Some (ie_size (ies f), (set_ie old f (ie_merge (old f) (ies f)), counts1))
    /\ routed table ies l counts1 = Some counts'.
Proof.
  intros Hm [[Hok Hfo] Hsz] Hsh Hl Hr. pose proof (ie_bound (ies f) Hok) as Hb.
  pose proof (ie_decodes m p (old f) (ies f) Hok Hsh Hm Hfo Hb Hl) as Hd.
  rewrite member_count in Hd. fold (ie_size (ies f)) in Hd.
  destruct (header_key m p (ies f) Hm Hl) as [Et Ei].
  cbn [routed] in Hr. unfold decode_element. rewrite Et, Ei.
  destruct (dispatch _ _ _) as [[g|k g cap|]|]; try discriminate.
  - destruct (member_eq_dec S f g) as [<-|]; [|discriminate]. rewrite Hd. eauto.
  - destruct (_ && _); [|discriminate].
    destruct (member_eq_dec S f (g (Z.to_nat (counts k)))) as [E|]; [|discriminate].
    rewrite <- E, Hd. eauto.
Qed.

Lemma decode_loop_routed {S} (table : list (branch S)) m buf ies l count buf_len old counts counts'
    fuel :
  wf_bytes m -> Forall (fun f => sendable (ies f)) l -> NoDup l ->
  (forall f, ie_shape (old f)) -> 0 <= count -> buf_len = count + total_size ies l ->
  buf_len < 65536 -> laid_ies m (buf + count) ies l ->
  routed table ies l counts = Some counts' -> (length l <= fuel)%nat ->
  decode_loop fuel table m buf count buf_len (old, counts)
  = Done (buf_len, (merged ies old l, counts')).
Proof.
  intros Hm Hs Hn Hsh Hc Hbl Hb Hl Hr Hf.
  assert (Hsh' : forall f, In f l -> ie_shape (old f)) by auto. clear Hsh.
  revert count old counts fuel Hn Hsh' Hc Hbl Hl Hr Hf.
  induction Hs as [|f l Hsf Hsl IH]; intros count old counts fuel Hn Hsh Hc Hbl Hl Hr Hf;
    cbn [total_size laid_ies length] in *.
  - cbn in Hr. injection Hr as <-. rewrite Z.add_0_r in Hbl. subst.
    destruct fuel; cbn [decode_loop]; destruct (Z.ltb_spec count count); try lia; reflexivity.
  - destruct fuel as [|fuel]; [lia|]. pose proof (sendable_size _ Hsf).
    pose proof (total_size_nonneg ies l Hsl). destruct Hl as [Hl1 Hl2].
    inversion_clear Hn as [|? ? Hnin Hn'].
    destruct (decode_element_routed table m (buf + count) ies f l old counts counts' Hm Hsf
      (Hsh f (or_introl eq_refl)) Hl1 Hr) as (counts1 & E & Hr1).
    cbn [decode_loop]. destruct (Z.ltb_spec count buf_len); [|lia].
    rewrite E, u16_small by lia.
    rewrite (IH _ (set_ie old f (ie_merge (old f) (ies f))) counts1 fuel); try lia; auto.
    + intros g Hg. rewrite set_ie_other by congruence. apply Hsh. right. exact Hg.
    + rewrite Z.add_assoc. exact Hl2.
Qed.

(** * Whole messages *)

Definition with_len (h : gtpv2c_header_t) (len : Z) : gtpv2c_header_t :=
  Build_gtpv2c_header_t h.(gtpc_spare) h.(gtpc_teid_flag) h.(gtpc_piggyback) h.(gtpc_version)
    h.(gtpc_message_type) len h.(teid_has_teid_teid) h.(teid_has_teid_seq) h.(teid_has_teid_spare).

Lemma mbit_upd2 m i j x y k :
  k / 8 <> i -> k / 8 <> j -> mbit (upd (upd m i x) j y) k = mbit m k.
Proof. intros Hi Hj. unfold mbit. rewrite !upd_other by assumption. reflexivity. Qed.

Lemma header_with_len m buf h len :
  wf_bytes m -> 0 <= len < 65536 -> fields_ok (layout_header h) ->
  laid m (8 * buf) (layout_header h) ->
  let m' := upd (upd m (buf + 2) (len / 256)) (buf + 3) (len mod 256) in
  wf_bytes m' /\ fields_ok (layout_header (with_len h len))
  /\ laid m' (8 * buf) (layout_header (with_len h len)).
Proof.
  intros Hm Hlen Hok Hl m'.
  assert (Hm' : wf_bytes m').
  { apply wf_upd; [apply wf_upd; [exact Hm|]|]; Z.div_mod_to_equations; lia. }
  assert (Hsame : forall k, k < 8 * buf + 16 \/ 8 * buf + 32 <= k -> mbit m' k = mbit m k).
  { intros k Hk. apply mbit_upd2; Z.div_mod_to_equations; lia. }
  assert (Hfield : getbits m' (8 * buf + 16) 16 = len).
  { replace (8 * buf + 16) with (8 * (buf + 2)) by lia. rewrite getbits_16 by exact Hm'.
    replace (buf + 2 + 1) with (buf + 3) by lia. unfold m'.
    rewrite upd_same, upd_other, upd_same by lia. Z.div_mod_to_equations. lia. }
  split; [exact Hm'|]. unfold layout_header in *. rewrite !fields_ok_app, !laid_app in *.
  change (gtpc_teid_flag (with_len h len)) with (gtpc_teid_flag h).
  change (teid_no_teid_seq (with_len h len)) with (teid_no_teid_seq h).
  change (teid_no_teid_spare (with_len h len)) with (teid_no_teid_spare h).
  destruct Hok as [(A1 & A2 & A3 & A4 & A5 & _) B], Hl as [(L1 & L2 & L3 & L4 & L5 & _) LB].
  split; [split; [repeat (split; try assumption); cbn; lia | exact B]|]. split.
  - cbn [laid fsize field_at with_len gtpc_version gtpc_piggyback gtpc_teid_flag gtpc_spare
      gtpc_message_type gtpc_message_len] in *.
    rewrite !(getbits_ext m' m) by (intros; apply Hsame; lia).
    replace (8 * buf + 3 + 1 + 1 + 3 + 8) with (8 * buf + 16) by lia. rewrite Hfield. auto 8.
  - cbn [lsize fsize] in *. apply (laid_ext m); [exact B| |exact LB].
    intros k Hk. apply Hsame. lia.
Qed.

Section MessageRoundtrip.
Context {S : signature} (order : list (visit S)) (table : list (branch S)) (resets : list (counter S)).
Context (value old : message S).

(** The members the encoder emits. *)
Definition sent : list (member S) := emitted value.(ie) value.(count_of) order.

Definition size_of : Z := header_size value.(header) + total_size value.(ie) (sent).

(** What has to hold of a message for it to survive the wire. *)
Definition encodable : Prop :=
  flatten value.(count_of) order <> None
  /\ fields_ok (layout_header value.(header))
  /\ Forall (fun f => sendable (value.(ie) f)) (sent)
  /\ size_of < 65536.

Lemma encode_message_spec buf m :
  encodable -> wf_bytes m -> zeroed m (8 * buf) (8 * size_of) ->
  exists m',
    encode_message order value buf m = Some (size_of, m') /\ wf_bytes m'
    /\ fields_ok (layout_header (with_len value.(header) (size_of - 4)))
    /\ laid m' (8 * buf) (layout_header (with_len value.(header) (size_of - 4)))
    /\ laid_ies m' (buf + header_size value.(header)) value.(ie) (sent).
Proof.
  intros (Hfl & Hh & Hs & Hsz) Hm Hz. unfold size_of in *.
  pose proof (header_size_cases value.(header)) as Hhs.
  pose proof (total_size_nonneg _ _ Hs) as Hts. pose proof (header_layout_size value.(header)) as Hls.
  destruct (header_emits value.(header) buf m Hm Hh) as (m1 & E1 & Hm1 & Hl1 & Hf1);
    rewrite ?Z.add_0_r, ?Hls in *; [lia|lia|intros k Hk; apply Hz; lia|].
  destruct (put_list_emits value.(ie) (sent) buf (header_size value.(header)) m1 Hs Hm1)
    as (m2 & E2 & Hm2 & Hl2 & Hf2); [lia|lia| |].
  { intros k Hk. destruct (proj2 Hf1 k ltac:(lia)) as [->|(_ & _ & E)]; [apply Hz; lia | exact E]. }
  unfold encode_message, bind. rewrite E1, Z.add_0_l, u16_small by lia.
  rewrite put_visits_list by exact Hfl. fold sent. rewrite E2. unfold set_message_len, ret, IE_HEADER_SIZE.
  rewrite u16_small by lia. eexists. split; [reflexivity|].
  edestruct (header_with_len m2 buf value.(header)) as (Hm3 & Hok3 & Hl3); [exact Hm2| |exact Hh| |].
  2: { apply (laid_ext m1); [exact Hh| |exact Hl1]. intros k Hk. apply Hf2. lia. }
  2: { split; [exact Hm3|]. split; [exact Hok3|]. split; [exact Hl3|].
       apply (laid_ies_ext m2); [exact Hs| |exact Hl2].
       intros k Hk. apply mbit_upd2; Z.div_mod_to_equations; lia. }
  lia.
Qed.

Lemma message_roundtrip_spec guarded buf m counts fuel :
  encodable -> wf_bytes m -> zeroed m (8 * buf) (8 * size_of) ->
  NoDup (sent) -> (forall f, ie_shape (old.(ie) f)) ->
  routed table value.(ie) (sent)
    (fold_left (fun n c => set_count n c 0) resets old.(count_of)) = Some counts ->
  (guarded = true -> sent <> []) -> (length (sent) <= fuel)%nat ->
  exists m',
    encode_message order value buf m = Some (size_of, m')
    /\ decode_message table resets guarded fuel m' buf old
       = Done (size_of, Message (merge_header old.(header) (with_len value.(header) (size_of - 4)))
                                (merged value.(ie) old.(ie) (sent)) counts).
Proof.
  intros He Hm Hz Hn Hsh Hr Hg Hfuel.
  destruct (encode_message_spec buf m He Hm Hz) as (m' & E & Hm' & Hok & Hl & Hies).
  exists m'. split; [exact E|]. unfold decode_message.
  rewrite (header_decodes m' buf _ _ Hm' Hok Hl).
  destruct He as (_ & Hh & Hs & Hsz). unfold size_of in *.
  pose proof (header_size_cases value.(header)) as Hhs.
  pose proof (total_size_nonneg _ _ Hs) as Hts.
  set (h := value.(header)) in *. set (t := total_size _ _) in *.
  change (header_size (with_len h (header_size h + t - 4))) with (header_size h).
  assert (Hml : gtpc_message_len (merge_header (header old) (with_len h (header_size h + t - 4)))
    = header_size h + t - 4) by (unfold merge_header; cbn; destruct (_ =? 1); reflexivity).
  assert (Hfl : gtpc_teid_flag (merge_header (header old) (with_len h (header_size h + t - 4)))
    = gtpc_teid_flag h) by (unfold merge_header; cbn; destruct (_ =? 1); reflexivity).
  rewrite Hml, Hfl.
  replace (header_size h + t - 4 - (if negb (gtpc_teid_flag h =? 0) then 8 else 4)) with t.
  2: { unfold layout_header in Hh. rewrite fields_ok_app in Hh. destruct Hh as [(_ & _ & [_ Hb] & _) _].
       unfold header_size, sizeof_gtpv2c_header_t. fold h in Hb.
       assert (Hc : gtpc_teid_flag h = 0 \/ gtpc_teid_flag h = 1) by lia.
       destruct Hc as [-> | ->]; cbn [Z.eqb Pos.eqb negb]; lia. }
  rewrite u16_small by lia.
  assert (Hcount : (if guarded && (t =? 0) then header_size h else 0) = 0).
  { destruct guarded; [|reflexivity]. destruct (Z.eqb_spec t 0); [|reflexivity].
    specialize (Hg eq_refl). destruct (sent); [congruence|]. cbn [length] in Hts. lia. }
  rewrite Hcount.
  rewrite (decode_loop_routed table m' _ value.(ie) (sent) 0 t old.(ie) _ counts);
    auto; try lia.
  - assert (Hh2 : header_size (merge_header (header old) (with_len h (header_size h + t - 4)))
      = header_size h) by (apply header_size_flag, Hfl).
    rewrite Hh2, (Z.add_comm t). reflexivity.
  - rewrite Z.add_0_r. exact Hies.
Qed.

End MessageRoundtrip.

(** * Members from formats *)

(** Every result of the decoder computation satisfies [P]. *)
Definition returns {A} (d : dec A) (P : A -> Prop) : Prop :=
  forall s a s', d s = Some (a, s') -> P a.

Lemma returns_ret {A} (a : A) (P : A -> Prop) : P a -> returns (ret a) P.
Proof. intros H s a' s' [= <- _]. exact H. Qed.

Lemma returns_bind {A B} (d : dec A) (k : A -> dec B) (P : B -> Prop) :
  (forall x, returns (k x) P) -> returns (bind d k) P.
Proof.
  intros H s b s'. unfold bind. destruct (d s) as [[x s1]|]; [|discriminate]. apply H.
Qed.

Lemma consumes_header {T} m buf (k : ie_header_t -> dec (Z * T)) c v :
  (forall h, returns (k h) (fun p => fst p = h.(hdr_len) + IE_HEADER_SIZE)) ->
  run_dec (bind (get_header m buf) k) = Some (c, v) -> c = wire_len m buf + IE_HEADER_SIZE.
Proof.
  intros H. unfold run_dec, bind, get_header, decode_ie_header_t.
  destruct (k _ _) as [[[c' v'] s']|] eqn:E; [|discriminate]. intros [= <- <-].
  apply H in E. exact E.
Qed.

(** The instance of an element whose decoder reads the header first and
    returns its length. *)
Ltac solve_consumes :=
  let c := fresh "c" in let v := fresh "v" in
  intros ? ? ? c v; apply consumes_header; intros ?; cbv zeta;
  repeat (apply returns_bind; intros ?); apply returns_ret; reflexivity.
