(* ===== verification/GtpGrouped.v ===== *)
(** Grouped information elements of libgtpv2c (bearer contexts, load and
    overload control, ...): a header and elements, encoded and decoded with the
    loops of the messages.  A grouped element is itself an element: it has an
    [IeFormat], so messages treat it like the others. *)

From Stdlib Require Import ZArith List Lia Bool.
From S2P Require Import Prelude EncDecBits WireFormat IeFormat GtpIesVar GtpMessage.
Import ListNotations.
Open Scope Z_scope.
Open Scope wire_scope.

Record grouped (S : signature) := Grouped {
  g_header : ie_header_t;
  g_ie : forall f : member S, member_type S f;
  g_count : counter S -> Z
}.
Arguments Grouped {S}.
Arguments g_header {S}.
Arguments g_ie {S}.
Arguments g_count {S}.

Definition encode_grouped {S} (order : list (visit S)) (value : grouped S) (buf : Z) : enc Z :=
  encoded <- ret 0;;
  encoded <- put_header value.(g_header) buf encoded;;
  encoded <- ret (encoded / CHAR_SIZE);;
  put_visits value.(g_ie) value.(g_count) order buf encoded.

(** [buf_len] is below 65536 and [count] is a [uint16_t]: a loop that has not
    ended after 65536 passes has met a [count] twice and never ends. *)
Definition grouped_fuel : nat := Z.to_nat 65536.

(** [None]: a fault, or a loop that does not end. *)
Definition decode_grouped {S} (table : list (branch S)) (m : bytes) (buf : Z) (value : grouped S)
  : option (Z * grouped S) :=
  let '(r, h) := decode_ie_header_t m buf IE_HEADER_SIZE in
  let buf := buf + u16 (0 + r) / CHAR_SIZE in
  let buf_len := h.(hdr_len) in
  match decode_loop grouped_fuel table m buf 0 buf_len (value.(g_ie), value.(g_count)) with
  | Done (_, (ies, counts)) => Some (h.(hdr_len) + IE_HEADER_SIZE, Grouped h ies counts)
  | _ => None
  end.

(** * The layout *)

(** Every element of [l] is dispatched to the member it came from. *)
Definition routed_into {S} (table : list (branch S)) (ies : forall f : member S, member_type S f)
    (l : list (member S)) : Prop :=
  Forall (fun f => dispatch table (member_header (ies f)).(hdr_type)
                     (member_header (ies f)).(hdr_instance) = Some (Into f)) l.

Lemma routed_into_routed {S} (table : list (branch S)) ies l counts :
  routed_into table ies l -> routed table ies l counts = Some counts.
Proof.
  induction 1 as [|f l Hf _ IH]; cbn [routed]; [reflexivity|]. rewrite Hf.
  destruct (member_eq_dec S f f); congruence.
Qed.

Definition layout_ies {S} (ies : forall f : member S, member_type S f) (l : list (member S))
  : list field := flat_map (fun f => ie_layout (ies f)) l.

Lemma layout_ies_size {S} (ies : forall f : member S, member_type S f) l :
  Forall (fun f => sendable (ies f)) l -> lsize (layout_ies ies l) = 8 * total_size ies l.
Proof.
  induction 1 as [|f l Hf _ IH]; [reflexivity|]. unfold layout_ies in *. cbn [flat_map total_size].
  rewrite lsize_app, IH. destruct Hf as [_ ->]. lia.
Qed.

Lemma laid_layout_ies {S} m p (ies : forall f : member S, member_type S f) l :
  Forall (fun f => sendable (ies f)) l ->
  laid m (8 * p) (layout_ies ies l) <-> laid_ies m p ies l.
Proof.
  intros Hs. revert p. induction Hs as [|f l Hf _ IH]; intros p; [reflexivity|].
  unfold layout_ies in *. cbn [flat_map laid_ies].
  rewrite laid_app. destruct Hf as [_ ->].
  replace (8 * p + 8 * ie_size (ies f)) with (8 * (p + ie_size (ies f))) by lia.
  rewrite IH. reflexivity.
Qed.

Section GroupedFormat.
Context {S : signature} (order : list (visit S)) (table : list (branch S)).

Definition g_sent (v : grouped S) : list (member S) := emitted v.(g_ie) v.(g_count) order.

Definition g_layout (v : grouped S) : list field :=
  FHdr v.(g_header) :: layout_ies v.(g_ie) (g_sent v).

Definition g_ok (v : grouped S) : Prop :=
  flatten v.(g_count) order <> None /\ NoDup (g_sent v)
  /\ Forall (fun f => sendable (v.(g_ie) f)) (g_sent v)
  /\ routed_into table v.(g_ie) (g_sent v)
  /\ v.(g_header).(hdr_len) = total_size v.(g_ie) (g_sent v)
  /\ total_size v.(g_ie) (g_sent v) < 8188.

Definition g_merge (old v : grouped S) : grouped S :=
  Grouped v.(g_header) (merged v.(g_ie) old.(g_ie) (g_sent v)) old.(g_count).

Lemma g_size v : g_ok v -> lsize (g_layout v) = 8 * (v.(g_header).(hdr_len) + IE_HEADER_SIZE).
Proof.
  intros (_ & _ & Hs & _ & Hl & _). unfold g_layout, IE_HEADER_SIZE. cbn [lsize fsize].
  rewrite layout_ies_size, Hl by exact Hs. lia.
Qed.

Lemma g_emits v buf :
  g_ok v -> emits buf 0 (g_layout v) (encode_grouped order v buf) (lsize (g_layout v) / 8).
Proof.
  intros Hok. rewrite g_size by exact Hok. destruct Hok as (Hfl & _ & Hs & _ & Hl & Hb).
  rewrite (Z.mul_comm 8), Z.div_mul by lia. unfold g_layout, encode_grouped.
  apply emits_start, emits_header, emits_pure. change (32 / CHAR_SIZE) with 4.
  pose proof (total_size_nonneg _ _ Hs) as Hn. pose proof (layout_ies_size v.(g_ie) _ Hs) as Hsz.
  intros m Hm Hok Hoff Hlt Hz. rewrite Hsz in *.
  destruct (put_list_emits v.(g_ie) (g_sent v) buf 4 m Hs Hm) as (m' & E & Hm' & Hl' & Hf');
    [lia|lia|intros k Hk; apply Hz; lia|].
  exists m'. rewrite put_visits_list by exact Hfl. fold (g_sent v). rewrite E, Hl.
  unfold IE_HEADER_SIZE. replace (8 * (buf + 4)) with (8 * buf + 32) in Hf' by lia.
  split; [do 2 f_equal; lia|]. split; [exact Hm'|]. split; [|exact Hf'].
  replace (8 * buf + 32) with (8 * (buf + 4)) by lia. apply laid_layout_ies; assumption.
Qed.

Lemma g_decodes m buf old v :
  g_ok v -> (forall f, ie_shape (old.(g_ie) f)) ->
  decodes m buf (g_layout v) (decode_grouped table m buf old)
    (v.(g_header).(hdr_len) + IE_HEADER_SIZE, g_merge old v).
Proof.
  intros (Hfl & Hnd & Hs & Hr & Hl & Hb) Hsh Hm Hok Hlt Hlaid. unfold g_layout in *.
  destruct Hlaid as [(H1 & H2 & H3) Hlaid]. cbn [fsize] in Hlaid.
  replace (8 * buf + 8) with (8 * (buf + 1)) in H2 by lia.
  replace (8 * buf + 24) with (8 * (buf + 3)) in H3 by lia.
  replace (8 * buf + 32) with (8 * (buf + 4)) in Hlaid by lia.
  rewrite getbits_byte in H1, H3 by exact Hm. rewrite getbits_16 in H2 by exact Hm.
  replace (buf + 1 + 1) with (buf + 2) in H2 by lia.
  unfold decode_grouped, decode_ie_header_t. rewrite H1, H2, H3.
  replace (mk_ie_header _ _ _) with v.(g_header) by (destruct v.(g_header); reflexivity).
  change (u16 (0 + IE_HEADER_SIZE * CHAR_SIZE) / CHAR_SIZE) with 4.
  pose proof (total_size_nonneg _ _ Hs) as Hn.
  rewrite (decode_loop_routed table m (buf + 4) v.(g_ie) (g_sent v) 0 v.(g_header).(hdr_len)
             old.(g_ie) old.(g_count) old.(g_count)); auto; try lia.
  - rewrite Z.add_0_r. apply laid_layout_ies; assumption.
  - apply routed_into_routed, Hr.
  - unfold grouped_fuel. lia.
Qed.

Definition grouped_format : IeFormat (grouped S).
Proof.
  refine {|
    ie_layout := g_layout;
    ie_ok := g_ok;
    ie_shape v := forall f, ie_shape (v.(g_ie) f);
    ie_count v := v.(g_header).(hdr_len) + IE_HEADER_SIZE;
    ie_encode := encode_grouped order;
    ie_decode := decode_grouped table;
    ie_merge := g_merge |}.
  - intros v Hok. rewrite g_size by exact Hok. destruct Hok as (_ & _ & _ & _ & -> & Hb).
    unfold IE_HEADER_SIZE. lia.
  - exact g_emits.
  - exact g_decodes.
Defined.

Lemma decode_grouped_consumes m buf old c v :
  decode_grouped table m buf old = Some (c, v) -> c = wire_len m buf + IE_HEADER_SIZE.
Proof.
  unfold decode_grouped, decode_ie_header_t. cbn [hdr_len].
  destruct (decode_loop _ _ _ _ _ _ _) as [[? []]| |]; try discriminate. intros E.
  symmetry. unfold wire_len. congruence.
Qed.

Definition grouped_member : IeMember (grouped S).
Proof.
  refine {| member_format := grouped_format; member_header := g_header |}.
  - intros v. eexists. reflexivity.
  - reflexivity.
  - exact decode_grouped_consumes.
Defined.

End GroupedFormat.
