(* ===== verification/GtpMembers.v ===== *)
(** The information elements as members of messages: each element of GtpIes1-3,
    GtpIesVar, GtpIesSub and GtpImsi has a header, and its decoder consumes, on any bytes,
    the header and the length the header announces. *)

From Stdlib Require Import ZArith List Lia.
From S2P Require Import Prelude EncDecBits WireFormat IeFormat GtpDefs.
From S2P Require Import GtpIes1 GtpIes2 GtpIes3 GtpIesVar GtpIesSub GtpImsi GtpMessage.
Import ListNotations.
Open Scope Z_scope.

Ltac solve_member :=
  [> intros ?; eexists; reflexivity | reflexivity | unfold ie_decode; solve_consumes].

#[global] Instance gtp_umts_key_and_quintuplets_ie_member : IeMember gtp_umts_key_and_quintuplets_ie.gtp_umts_key_and_quintuplets_ie_t.
Proof.
  refine {| member_format := wire_format_ie gtp_umts_key_and_quintuplets_ie.gtp_umts_key_and_quintuplets_ie_format; member_header := gtp_umts_key_and_quintuplets_ie.header |};
    solve_member.
Defined.

#[global] Instance gtp_channel_needed_ie_member : IeMember gtp_channel_needed_ie.gtp_channel_needed_ie_t.
Proof.
  refine {| member_format := wire_format_ie gtp_channel_needed_ie.gtp_channel_needed_ie_format; member_header := gtp_channel_needed_ie.header |};
    solve_member.
Defined.

#[global] Instance gtp_rfsp_index_ie_member : IeMember gtp_rfsp_index_ie.gtp_rfsp_index_ie_t.
Proof.
  refine {| member_format := wire_format_ie gtp_rfsp_index_ie.gtp_rfsp_index_ie_format; member_header := gtp_rfsp_index_ie.header |};
    solve_member.
Defined.

#[global] Instance gtp_guti_ie_member : IeMember gtp_guti_ie.gtp_guti_ie_t.
Proof.
  refine {| member_format := wire_format_ie gtp_guti_ie.gtp_guti_ie_format; member_header := gtp_guti_ie.header |};
    solve_member.
Defined.

#[global] Instance gtp_eps_bearer_id_ie_member : IeMember gtp_eps_bearer_id_ie.gtp_eps_bearer_id_ie_t.
Proof.
  refine {| member_format := wire_format_ie gtp_eps_bearer_id_ie.gtp_eps_bearer_id_ie_format; member_header := gtp_eps_bearer_id_ie.header |};
    solve_member.
Defined.

#[global] Instance gtp_emlpp_priority_ie_member : IeMember gtp_emlpp_priority_ie.gtp_emlpp_priority_ie_t.
Proof.
  refine {| member_format := wire_format_ie gtp_emlpp_priority_ie.gtp_emlpp_priority_ie_format; member_header := gtp_emlpp_priority_ie.header |};
    solve_member.
Defined.

#[global] Instance gtp_mdt_cfg_ie_member : IeMember gtp_mdt_cfg_ie.gtp_mdt_cfg_ie_t.
Proof.
  refine {| member_format := wire_format_ie gtp_mdt_cfg_ie.gtp_mdt_cfg_ie_format; member_header := gtp_mdt_cfg_ie.header |};
    solve_member.
Defined.

#[global] Instance gtp_src_id_ie_member : IeMember gtp_src_id_ie.gtp_src_id_ie_t.
Proof.
  refine {| member_format := wire_format_ie gtp_src_id_ie.gtp_src_id_ie_format; member_header := gtp_src_id_ie.header |};
    solve_member.
Defined.

#[global] Instance gtp_ran_nas_cause_ie_member : IeMember gtp_ran_nas_cause_ie.gtp_ran_nas_cause_ie_t.
Proof.
  refine {| member_format := wire_format_ie gtp_ran_nas_cause_ie.gtp_ran_nas_cause_ie_format; member_header := gtp_ran_nas_cause_ie.header |};
    solve_member.
Defined.

#[global] Instance gtp_pdn_type_ie_member : IeMember gtp_pdn_type_ie.gtp_pdn_type_ie_t.
Proof.
  refine {| member_format := wire_format_ie gtp_pdn_type_ie.gtp_pdn_type_ie_format; member_header := gtp_pdn_type_ie.header |};
    solve_member.
Defined.

#[global] Instance gtp_flow_qlty_of_svc_ie_member : IeMember gtp_flow_qlty_of_svc_ie.gtp_flow_qlty_of_svc_ie_t.
Proof.
  refine {| member_format := wire_format_ie gtp_flow_qlty_of_svc_ie.gtp_flow_qlty_of_svc_ie_format; member_header := gtp_flow_qlty_of_svc_ie.header |};
    solve_member.
Defined.

#[global] Instance gtp_recovery_ie_member : IeMember gtp_recovery_ie.gtp_recovery_ie_t.
Proof.
  refine {| member_format := wire_format_ie gtp_recovery_ie.gtp_recovery_ie_format; member_header := gtp_recovery_ie.header |};
    solve_member.
Defined.

#[global] Instance gtp_srvng_plmn_rate_ctl_ie_member : IeMember gtp_srvng_plmn_rate_ctl_ie.gtp_srvng_plmn_rate_ctl_ie_t.
Proof.
  refine {| member_format := wire_format_ie gtp_srvng_plmn_rate_ctl_ie.gtp_srvng_plmn_rate_ctl_ie_format; member_header := gtp_srvng_plmn_rate_ctl_ie.header |};
    solve_member.
Defined.

#[global] Instance gtp_mbms_dist_ack_ie_member : IeMember gtp_mbms_dist_ack_ie.gtp_mbms_dist_ack_ie_t.
Proof.
  refine {| member_format := wire_format_ie gtp_mbms_dist_ack_ie.gtp_mbms_dist_ack_ie_format; member_header := gtp_mbms_dist_ack_ie.header |};
    solve_member.
Defined.

#[global] Instance gtp_ue_time_zone_ie_member : IeMember gtp_ue_time_zone_ie.gtp_ue_time_zone_ie_t.
Proof.
  refine {| member_format := wire_format_ie gtp_ue_time_zone_ie.gtp_ue_time_zone_ie_format; member_header := gtp_ue_time_zone_ie.header |};
    solve_member.
Defined.

#[global] Instance gtp_trstd_wlan_mode_indctn_ie_member : IeMember gtp_trstd_wlan_mode_indctn_ie.gtp_trstd_wlan_mode_indctn_ie_t.
Proof.
  refine {| member_format := wire_format_ie gtp_trstd_wlan_mode_indctn_ie.gtp_trstd_wlan_mode_indctn_ie_format; member_header := gtp_trstd_wlan_mode_indctn_ie.header |};
    solve_member.
Defined.

#[global] Instance gtp_proc_trans_id_ie_member : IeMember gtp_proc_trans_id_ie.gtp_proc_trans_id_ie_t.
Proof.
  refine {| member_format := wire_format_ie gtp_proc_trans_id_ie.gtp_proc_trans_id_ie_format; member_header := gtp_proc_trans_id_ie.header |};
    solve_member.
Defined.

#[global] Instance gtp_wlan_offldblty_indctn_ie_member : IeMember gtp_wlan_offldblty_indctn_ie.gtp_wlan_offldblty_indctn_ie_t.
Proof.
  refine {| member_format := wire_format_ie gtp_wlan_offldblty_indctn_ie.gtp_wlan_offldblty_indctn_ie_format; member_header := gtp_wlan_offldblty_indctn_ie.header |};
    solve_member.
Defined.

#[global] Instance gtp_uli_timestamp_ie_member : IeMember gtp_uli_timestamp_ie.gtp_uli_timestamp_ie_t.
Proof.
  refine {| member_format := wire_format_ie gtp_uli_timestamp_ie.gtp_uli_timestamp_ie_format; member_header := gtp_uli_timestamp_ie.header |};
    solve_member.
Defined.

#[global] Instance gtp_max_pckt_loss_rate_ie_member : IeMember gtp_max_pckt_loss_rate_ie.gtp_max_pckt_loss_rate_ie_t.
Proof.
  refine {| member_format := wire_format_ie gtp_max_pckt_loss_rate_ie.gtp_max_pckt_loss_rate_ie_format; member_header := gtp_max_pckt_loss_rate_ie.header |};
    solve_member.
Defined.

#[global] Instance gtp_cn_oper_sel_entity_ie_member : IeMember gtp_cn_oper_sel_entity_ie.gtp_cn_oper_sel_entity_ie_t.
Proof.
  refine {| member_format := wire_format_ie gtp_cn_oper_sel_entity_ie.gtp_cn_oper_sel_entity_ie_format; member_header := gtp_cn_oper_sel_entity_ie.header |};
    solve_member.
Defined.

#[global] Instance gtp_alloc_reten_priority_ie_member : IeMember gtp_alloc_reten_priority_ie.gtp_alloc_reten_priority_ie_t.
Proof.
  refine {| member_format := wire_format_ie gtp_alloc_reten_priority_ie.gtp_alloc_reten_priority_ie_format; member_header := gtp_alloc_reten_priority_ie.header |};
    solve_member.
Defined.

#[global] Instance gtp_apn_restriction_ie_member : IeMember gtp_apn_restriction_ie.gtp_apn_restriction_ie_t.
Proof.
  refine {| member_format := wire_format_ie gtp_apn_restriction_ie.gtp_apn_restriction_ie_format; member_header := gtp_apn_restriction_ie.header |};
    solve_member.
Defined.

#[global] Instance gtp_ptmsi_signature_ie_member : IeMember gtp_ptmsi_signature_ie.gtp_ptmsi_signature_ie_t.
Proof.
  refine {| member_format := wire_format_ie gtp_ptmsi_signature_ie.gtp_ptmsi_signature_ie_format; member_header := gtp_ptmsi_signature_ie.header |};
    solve_member.
Defined.

#[global] Instance gtp_paging_and_svc_info_ie_member : IeMember gtp_paging_and_svc_info_ie.gtp_paging_and_svc_info_ie_t.
Proof.
  refine {| member_format := wire_format_ie gtp_paging_and_svc_info_ie.gtp_paging_and_svc_info_ie_format; member_header := gtp_paging_and_svc_info_ie.header |};
    solve_member.
Defined.

#[global] Instance gtp_ovrld_ctl_info_ie_member : IeMember gtp_ovrld_ctl_info_ie.gtp_ovrld_ctl_info_ie_t.
Proof.
  refine {| member_format := wire_format_ie gtp_ovrld_ctl_info_ie.gtp_ovrld_ctl_info_ie_format; member_header := gtp_ovrld_ctl_info_ie.header |};
    solve_member.
Defined.

#[global] Instance gtp_ecgi_list_ie_member : IeMember gtp_ecgi_list_ie.gtp_ecgi_list_ie_t.
Proof.
  refine {| member_format := wire_format_ie gtp_ecgi_list_ie.gtp_ecgi_list_ie_format; member_header := gtp_ecgi_list_ie.header |};
    solve_member.
Defined.

#[global] Instance gtp_agg_max_bit_rate_ie_member : IeMember gtp_agg_max_bit_rate_ie.gtp_agg_max_bit_rate_ie_t.
Proof.
  refine {| member_format := wire_format_ie gtp_agg_max_bit_rate_ie.gtp_agg_max_bit_rate_ie_format; member_header := gtp_agg_max_bit_rate_ie.header |};
    solve_member.
Defined.

#[global] Instance gtp_umts_key_quadruplets_and_quintuplets_ie_member : IeMember gtp_umts_key_quadruplets_and_quintuplets_ie.gtp_umts_key_quadruplets_and_quintuplets_ie_t.
Proof.
  refine {| member_format := wire_format_ie gtp_umts_key_quadruplets_and_quintuplets_ie.gtp_umts_key_quadruplets_and_quintuplets_ie_format; member_header := gtp_umts_key_quadruplets_and_quintuplets_ie.header |};
    solve_member.
Defined.

#[global] Instance gtp_cmplt_req_msg_ie_member : IeMember gtp_cmplt_req_msg_ie.gtp_cmplt_req_msg_ie_t.
Proof.
  refine {| member_format := wire_format_ie gtp_cmplt_req_msg_ie.gtp_cmplt_req_msg_ie_format; member_header := gtp_cmplt_req_msg_ie.header |};
    solve_member.
Defined.

#[global] Instance gtp_epc_timer_ie_member : IeMember gtp_epc_timer_ie.gtp_epc_timer_ie_t.
Proof.
  refine {| member_format := wire_format_ie gtp_epc_timer_ie.gtp_epc_timer_ie_format; member_header := gtp_epc_timer_ie.header |};
    solve_member.
Defined.

#[global] Instance gtp_csg_id_ie_member : IeMember gtp_csg_id_ie.gtp_csg_id_ie_t.
Proof.
  refine {| member_format := wire_format_ie gtp_csg_id_ie.gtp_csg_id_ie_format; member_header := gtp_csg_id_ie.header |};
    solve_member.
Defined.

#[global] Instance gtp_packet_flow_id_ie_member : IeMember gtp_packet_flow_id_ie.gtp_packet_flow_id_ie_t.
Proof.
  refine {| member_format := wire_format_ie gtp_packet_flow_id_ie.gtp_packet_flow_id_ie_format; member_header := gtp_packet_flow_id_ie.header |};
    solve_member.
Defined.

#[global] Instance gtp_tmgi_ie_member : IeMember gtp_tmgi_ie.gtp_tmgi_ie_t.
Proof.
  refine {| member_format := wire_format_ie gtp_tmgi_ie.gtp_tmgi_ie_format; member_header := gtp_tmgi_ie.header |};
    solve_member.
Defined.

#[global] Instance gtp_mntrng_evnt_info_ie_member : IeMember gtp_mntrng_evnt_info_ie.gtp_mntrng_evnt_info_ie_t.
Proof.
  refine {| member_format := wire_format_ie gtp_mntrng_evnt_info_ie.gtp_mntrng_evnt_info_ie_format; member_header := gtp_mntrng_evnt_info_ie.header |};
    solve_member.
Defined.

#[global] Instance gtp_rmt_ue_ip_info_ie_member : IeMember gtp_rmt_ue_ip_info_ie.gtp_rmt_ue_ip_info_ie_t.
Proof.
  refine {| member_format := wire_format_ie gtp_rmt_ue_ip_info_ie.gtp_rmt_ue_ip_info_ie_format; member_header := gtp_rmt_ue_ip_info_ie.header |};
    solve_member.
Defined.

#[global] Instance gtp_bearer_qlty_of_svc_ie_member : IeMember gtp_bearer_qlty_of_svc_ie.gtp_bearer_qlty_of_svc_ie_t.
Proof.
  refine {| member_format := wire_format_ie gtp_bearer_qlty_of_svc_ie.gtp_bearer_qlty_of_svc_ie_format; member_header := gtp_bearer_qlty_of_svc_ie.header |};
    solve_member.
Defined.

#[global] Instance gtp_mapped_ue_usage_type_ie_member : IeMember gtp_mapped_ue_usage_type_ie.gtp_mapped_ue_usage_type_ie_t.
Proof.
  refine {| member_format := wire_format_ie gtp_mapped_ue_usage_type_ie.gtp_mapped_ue_usage_type_ie_format; member_header := gtp_mapped_ue_usage_type_ie.header |};
    solve_member.
Defined.

#[global] Instance gtp_svc_indctr_ie_member : IeMember gtp_svc_indctr_ie.gtp_svc_indctr_ie_t.
Proof.
  refine {| member_format := wire_format_ie gtp_svc_indctr_ie.gtp_svc_indctr_ie_format; member_header := gtp_svc_indctr_ie.header |};
    solve_member.
Defined.

#[global] Instance gtp_umts_key_used_cipher_and_quintuplets_ie_member : IeMember gtp_umts_key_used_cipher_and_quintuplets_ie.gtp_umts_key_used_cipher_and_quintuplets_ie_t.
Proof.
  refine {| member_format := wire_format_ie gtp_umts_key_used_cipher_and_quintuplets_ie.gtp_umts_key_used_cipher_and_quintuplets_ie_format; member_header := gtp_umts_key_used_cipher_and_quintuplets_ie.header |};
    solve_member.
Defined.

#[global] Instance gtp_local_distgsd_name_ie_member : IeMember gtp_local_distgsd_name_ie.gtp_local_distgsd_name_ie_t.
Proof.
  refine {| member_format := wire_format_ie gtp_local_distgsd_name_ie.gtp_local_distgsd_name_ie_format; member_header := gtp_local_distgsd_name_ie.header |};
    solve_member.
Defined.

#[global] Instance gtp_csg_info_rptng_act_ie_member : IeMember gtp_csg_info_rptng_act_ie.gtp_csg_info_rptng_act_ie_t.
Proof.
  refine {| member_format := wire_format_ie gtp_csg_info_rptng_act_ie.gtp_csg_info_rptng_act_ie_format; member_header := gtp_csg_info_rptng_act_ie.header |};
    solve_member.
Defined.

#[global] Instance gtp_secdry_rat_usage_data_rpt_ie_member : IeMember gtp_secdry_rat_usage_data_rpt_ie.gtp_secdry_rat_usage_data_rpt_ie_t.
Proof.
  refine {| member_format := wire_format_ie gtp_secdry_rat_usage_data_rpt_ie.gtp_secdry_rat_usage_data_rpt_ie_format; member_header := gtp_secdry_rat_usage_data_rpt_ie.header |};
    solve_member.
Defined.

#[global] Instance gtp_rat_type_ie_member : IeMember gtp_rat_type_ie.gtp_rat_type_ie_t.
Proof.
  refine {| member_format := wire_format_ie gtp_rat_type_ie.gtp_rat_type_ie_format; member_header := gtp_rat_type_ie.header |};
    solve_member.
Defined.

#[global] Instance gtp_global_cn_id_ie_member : IeMember gtp_global_cn_id_ie.gtp_global_cn_id_ie_t.
Proof.
  refine {| member_format := wire_format_ie gtp_global_cn_id_ie.gtp_global_cn_id_ie_format; member_header := gtp_global_cn_id_ie.header |};
    solve_member.
Defined.

#[global] Instance gtp_charging_id_ie_member : IeMember gtp_charging_id_ie.gtp_charging_id_ie_t.
Proof.
  refine {| member_format := wire_format_ie gtp_charging_id_ie.gtp_charging_id_ie_format; member_header := gtp_charging_id_ie.header |};
    solve_member.
Defined.

#[global] Instance gtp_counter_ie_member : IeMember gtp_counter_ie.gtp_counter_ie_t.
Proof.
  refine {| member_format := wire_format_ie gtp_counter_ie.gtp_counter_ie_format; member_header := gtp_counter_ie.header |};
    solve_member.
Defined.

#[global] Instance gtp_serving_network_ie_member : IeMember gtp_serving_network_ie.gtp_serving_network_ie_t.
Proof.
  refine {| member_format := wire_format_ie gtp_serving_network_ie.gtp_serving_network_ie_format; member_header := gtp_serving_network_ie.header |};
    solve_member.
Defined.

#[global] Instance gtp_node_identifier_ie_member : IeMember gtp_node_identifier_ie.gtp_node_identifier_ie_t.
Proof.
  refine {| member_format := wire_format_ie gtp_node_identifier_ie.gtp_node_identifier_ie_format; member_header := gtp_node_identifier_ie.header |};
    solve_member.
Defined.

#[global] Instance gtp_trc_info_ie_member : IeMember gtp_trc_info_ie.gtp_trc_info_ie_t.
Proof.
  refine {| member_format := wire_format_ie gtp_trc_info_ie.gtp_trc_info_ie_format; member_header := gtp_trc_info_ie.header |};
    solve_member.
Defined.

#[global] Instance gtp_mbms_ip_multcst_dist_ie_member : IeMember gtp_mbms_ip_multcst_dist_ie.gtp_mbms_ip_multcst_dist_ie_t.
Proof.
  refine {| member_format := wire_format_ie gtp_mbms_ip_multcst_dist_ie.gtp_mbms_ip_multcst_dist_ie_format; member_header := gtp_mbms_ip_multcst_dist_ie.header |};
    solve_member.
Defined.

#[global] Instance gtp_full_qual_cntnr_ie_member : IeMember gtp_full_qual_cntnr_ie.gtp_full_qual_cntnr_ie_t.
Proof.
  refine {| member_format := wire_format_ie gtp_full_qual_cntnr_ie.gtp_full_qual_cntnr_ie_format; member_header := gtp_full_qual_cntnr_ie.header |};
    solve_member.
Defined.

#[global] Instance gtp_mbms_data_xfer_abs_time_ie_member : IeMember gtp_mbms_data_xfer_abs_time_ie.gtp_mbms_data_xfer_abs_time_ie_t.
Proof.
  refine {| member_format := wire_format_ie gtp_mbms_data_xfer_abs_time_ie.gtp_mbms_data_xfer_abs_time_ie_format; member_header := gtp_mbms_data_xfer_abs_time_ie.header |};
    solve_member.
Defined.

#[global] Instance gtp_gsm_key_used_cipher_and_quintuplets_ie_member : IeMember gtp_gsm_key_used_cipher_and_quintuplets_ie.gtp_gsm_key_used_cipher_and_quintuplets_ie_t.
Proof.
  refine {| member_format := wire_format_ie gtp_gsm_key_used_cipher_and_quintuplets_ie.gtp_gsm_key_used_cipher_and_quintuplets_ie_format; member_header := gtp_gsm_key_used_cipher_and_quintuplets_ie.header |};
    solve_member.
Defined.

#[global] Instance gtp_twan_idnt_ts_ie_member : IeMember gtp_twan_idnt_ts_ie.gtp_twan_idnt_ts_ie_t.
Proof.
  refine {| member_format := wire_format_ie gtp_twan_idnt_ts_ie.gtp_twan_idnt_ts_ie_format; member_header := gtp_twan_idnt_ts_ie.header |};
    solve_member.
Defined.

#[global] Instance gtp_tmsi_ie_member : IeMember gtp_tmsi_ie.gtp_tmsi_ie_t.
Proof.
  refine {| member_format := wire_format_ie gtp_tmsi_ie.gtp_tmsi_ie_format; member_header := gtp_tmsi_ie.header |};
    solve_member.
Defined.

#[global] Instance gtp_twan_identifier_ie_member : IeMember gtp_twan_identifier_ie.gtp_twan_identifier_ie_t.
Proof.
  refine {| member_format := wire_format_ie gtp_twan_identifier_ie.gtp_twan_identifier_ie_format; member_header := gtp_twan_identifier_ie.header |};
    solve_member.
Defined.

#[global] Instance gtp_ptmsi_ie_member : IeMember gtp_ptmsi_ie.gtp_ptmsi_ie_t.
Proof.
  refine {| member_format := wire_format_ie gtp_ptmsi_ie.gtp_ptmsi_ie_format; member_header := gtp_ptmsi_ie.header |};
    solve_member.
Defined.

#[global] Instance gtp_node_type_ie_member : IeMember gtp_node_type_ie.gtp_node_type_ie_t.
Proof.
  refine {| member_format := wire_format_ie gtp_node_type_ie.gtp_node_type_ie_format; member_header := gtp_node_type_ie.header |};
    solve_member.
Defined.

#[global] Instance gtp_user_csg_info_ie_member : IeMember gtp_user_csg_info_ie.gtp_user_csg_info_ie_t.
Proof.
  refine {| member_format := wire_format_ie gtp_user_csg_info_ie.gtp_user_csg_info_ie_format; member_header := gtp_user_csg_info_ie.header |};
    solve_member.
Defined.

#[global] Instance gtp_mbms_sess_dur_ie_member : IeMember gtp_mbms_sess_dur_ie.gtp_mbms_sess_dur_ie_t.
Proof.
  refine {| member_format := wire_format_ie gtp_mbms_sess_dur_ie.gtp_mbms_sess_dur_ie_format; member_header := gtp_mbms_sess_dur_ie.header |};
    solve_member.
Defined.

#[global] Instance gtp_metric_ie_member : IeMember gtp_metric_ie.gtp_metric_ie_t.
Proof.
  refine {| member_format := wire_format_ie gtp_metric_ie.gtp_metric_ie_format; member_header := gtp_metric_ie.header |};
    solve_member.
Defined.

#[global] Instance gtp_bearer_context_ie_member : IeMember gtp_bearer_context_ie.gtp_bearer_context_ie_t.
Proof.
  refine {| member_format := wire_format_ie gtp_bearer_context_ie.gtp_bearer_context_ie_format; member_header := gtp_bearer_context_ie.header |};
    solve_member.
Defined.

#[global] Instance gtp_ciot_optim_supp_indctn_ie_member : IeMember gtp_ciot_optim_supp_indctn_ie.gtp_ciot_optim_supp_indctn_ie_t.
Proof.
  refine {| member_format := wire_format_ie gtp_ciot_optim_supp_indctn_ie.gtp_ciot_optim_supp_indctn_ie_format; member_header := gtp_ciot_optim_supp_indctn_ie.header |};
    solve_member.
Defined.

#[global] Instance gtp_pdu_numbers_ie_member : IeMember gtp_pdu_numbers_ie.gtp_pdu_numbers_ie_t.
Proof.
  refine {| member_format := wire_format_ie gtp_pdu_numbers_ie.gtp_pdu_numbers_ie_format; member_header := gtp_pdu_numbers_ie.header |};
    solve_member.
Defined.

#[global] Instance gtp_rab_context_ie_member : IeMember gtp_rab_context_ie.gtp_rab_context_ie_t.
Proof.
  refine {| member_format := wire_format_ie gtp_rab_context_ie.gtp_rab_context_ie_format; member_header := gtp_rab_context_ie.header |};
    solve_member.
Defined.

#[global] Instance gtp_addtl_flgs_srvcc_ie_member : IeMember gtp_addtl_flgs_srvcc_ie.gtp_addtl_flgs_srvcc_ie_t.
Proof.
  refine {| member_format := wire_format_ie gtp_addtl_flgs_srvcc_ie.gtp_addtl_flgs_srvcc_ie_format; member_header := gtp_addtl_flgs_srvcc_ie.header |};
    solve_member.
Defined.

#[global] Instance gtp_gsm_key_and_triplets_ie_member : IeMember gtp_gsm_key_and_triplets_ie.gtp_gsm_key_and_triplets_ie_t.
Proof.
  refine {| member_format := wire_format_ie gtp_gsm_key_and_triplets_ie.gtp_gsm_key_and_triplets_ie_format; member_header := gtp_gsm_key_and_triplets_ie.header |};
    solve_member.
Defined.

#[global] Instance gtp_node_number_ie_member : IeMember gtp_node_number_ie.gtp_node_number_ie_t.
Proof.
  refine {| member_format := wire_format_ie gtp_node_number_ie.gtp_node_number_ie_format; member_header := gtp_node_number_ie.header |};
    solve_member.
Defined.

#[global] Instance gtp_load_ctl_info_ie_member : IeMember gtp_load_ctl_info_ie.gtp_load_ctl_info_ie_t.
Proof.
  refine {| member_format := wire_format_ie gtp_load_ctl_info_ie.gtp_load_ctl_info_ie_format; member_header := gtp_load_ctl_info_ie.header |};
    solve_member.
Defined.

#[global] Instance gtp_rmt_ue_ctxt_ie_member : IeMember gtp_rmt_ue_ctxt_ie.gtp_rmt_ue_ctxt_ie_t.
Proof.
  refine {| member_format := wire_format_ie gtp_rmt_ue_ctxt_ie.gtp_rmt_ue_ctxt_ie_format; member_header := gtp_rmt_ue_ctxt_ie.header |};
    solve_member.
Defined.

#[global] Instance gtp_full_qual_cause_ie_member : IeMember gtp_full_qual_cause_ie.gtp_full_qual_cause_ie_t.
Proof.
  refine {| member_format := wire_format_ie gtp_full_qual_cause_ie.gtp_full_qual_cause_ie_format; member_header := gtp_full_qual_cause_ie.header |};
    solve_member.
Defined.

#[global] Instance gtp_ipv4_cfg_parms_ie_member : IeMember gtp_ipv4_cfg_parms_ie.gtp_ipv4_cfg_parms_ie_t.
Proof.
  refine {| member_format := wire_format_ie gtp_ipv4_cfg_parms_ie.gtp_ipv4_cfg_parms_ie_format; member_header := gtp_ipv4_cfg_parms_ie.header |};
    solve_member.
Defined.

#[global] Instance gtp_trace_reference_ie_member : IeMember gtp_trace_reference_ie.gtp_trace_reference_ie_t.
Proof.
  refine {| member_format := wire_format_ie gtp_trace_reference_ie.gtp_trace_reference_ie_format; member_header := gtp_trace_reference_ie.header |};
    solve_member.
Defined.

#[global] Instance gtp_node_features_ie_member : IeMember gtp_node_features_ie.gtp_node_features_ie_t.
Proof.
  refine {| member_format := wire_format_ie gtp_node_features_ie.gtp_node_features_ie_format; member_header := gtp_node_features_ie.header |};
    solve_member.
Defined.

#[global] Instance gtp_remote_user_id_ie_member : IeMember gtp_remote_user_id_ie.gtp_remote_user_id_ie_t.
Proof.
  refine {| member_format := wire_format_ie gtp_remote_user_id_ie.gtp_remote_user_id_ie_format; member_header := gtp_remote_user_id_ie.header |};
    solve_member.
Defined.

#[global] Instance gtp_port_number_ie_member : IeMember gtp_port_number_ie.gtp_port_number_ie_t.
Proof.
  refine {| member_format := wire_format_ie gtp_port_number_ie.gtp_port_number_ie_format; member_header := gtp_port_number_ie.header |};
    solve_member.
Defined.

#[global] Instance gtp_addtl_mm_ctxt_srvcc_ie_member : IeMember gtp_addtl_mm_ctxt_srvcc_ie.gtp_addtl_mm_ctxt_srvcc_ie_t.
Proof.
  refine {| member_format := wire_format_ie gtp_addtl_mm_ctxt_srvcc_ie.gtp_addtl_mm_ctxt_srvcc_ie_format; member_header := gtp_addtl_mm_ctxt_srvcc_ie.header |};
    solve_member.
Defined.

#[global] Instance gtp_act_indctn_ie_member : IeMember gtp_act_indctn_ie.gtp_act_indctn_ie_t.
Proof.
  refine {| member_format := wire_format_ie gtp_act_indctn_ie.gtp_act_indctn_ie_format; member_header := gtp_act_indctn_ie.header |};
    solve_member.
Defined.

#[global] Instance gtp_plmn_id_ie_member : IeMember gtp_plmn_id_ie.gtp_plmn_id_ie_t.
Proof.
  refine {| member_format := wire_format_ie gtp_plmn_id_ie.gtp_plmn_id_ie_format; member_header := gtp_plmn_id_ie.header |};
    solve_member.
Defined.

#[global] Instance gtp_mbms_flow_idnt_ie_member : IeMember gtp_mbms_flow_idnt_ie.gtp_mbms_flow_idnt_ie_t.
Proof.
  refine {| member_format := wire_format_ie gtp_mbms_flow_idnt_ie.gtp_mbms_flow_idnt_ie_format; member_header := gtp_mbms_flow_idnt_ie.header |};
    solve_member.
Defined.

#[global] Instance gtp_hdr_comp_cfg_ie_member : IeMember gtp_hdr_comp_cfg_ie.gtp_hdr_comp_cfg_ie_t.
Proof.
  refine {| member_format := wire_format_ie gtp_hdr_comp_cfg_ie.gtp_hdr_comp_cfg_ie_format; member_header := gtp_hdr_comp_cfg_ie.header |};
    solve_member.
Defined.

#[global] Instance gtp_sgnllng_priority_indctn_ie_member : IeMember gtp_sgnllng_priority_indctn_ie.gtp_sgnllng_priority_indctn_ie_t.
Proof.
  refine {| member_format := wire_format_ie gtp_sgnllng_priority_indctn_ie.gtp_sgnllng_priority_indctn_ie_format; member_header := gtp_sgnllng_priority_indctn_ie.header |};
    solve_member.
Defined.

#[global] Instance gtp_mbms_time_to_data_xfer_ie_member : IeMember gtp_mbms_time_to_data_xfer_ie.gtp_mbms_time_to_data_xfer_ie_t.
Proof.
  refine {| member_format := wire_format_ie gtp_mbms_time_to_data_xfer_ie.gtp_mbms_time_to_data_xfer_ie_format; member_header := gtp_mbms_time_to_data_xfer_ie.header |};
    solve_member.
Defined.

#[global] Instance gtp_trgt_id_ie_member : IeMember gtp_trgt_id_ie.gtp_trgt_id_ie_t.
Proof.
  refine {| member_format := wire_format_ie gtp_trgt_id_ie.gtp_trgt_id_ie_format; member_header := gtp_trgt_id_ie.header |};
    solve_member.
Defined.

#[global] Instance gtp_mbms_flags_ie_member : IeMember gtp_mbms_flags_ie.gtp_mbms_flags_ie_t.
Proof.
  refine {| member_format := wire_format_ie gtp_mbms_flags_ie.gtp_mbms_flags_ie_format; member_header := gtp_mbms_flags_ie.header |};
    solve_member.
Defined.

#[global] Instance gtp_trans_idnt_ie_member : IeMember gtp_trans_idnt_ie.gtp_trans_idnt_ie_t.
Proof.
  refine {| member_format := wire_format_ie gtp_trans_idnt_ie.gtp_trans_idnt_ie_format; member_header := gtp_trans_idnt_ie.header |};
    solve_member.
Defined.

#[global] Instance gtp_bearer_flags_ie_member : IeMember gtp_bearer_flags_ie.gtp_bearer_flags_ie_t.
Proof.
  refine {| member_format := wire_format_ie gtp_bearer_flags_ie.gtp_bearer_flags_ie_format; member_header := gtp_bearer_flags_ie.header |};
    solve_member.
Defined.

#[global] Instance gtp_msec_time_stmp_ie_member : IeMember gtp_msec_time_stmp_ie.gtp_msec_time_stmp_ie_t.
Proof.
  refine {| member_format := wire_format_ie gtp_msec_time_stmp_ie.gtp_msec_time_stmp_ie_format; member_header := gtp_msec_time_stmp_ie.header |};
    solve_member.
Defined.

#[global] Instance gtp_chg_to_rpt_flgs_ie_member : IeMember gtp_chg_to_rpt_flgs_ie.gtp_chg_to_rpt_flgs_ie_t.
Proof.
  refine {| member_format := wire_format_ie gtp_chg_to_rpt_flgs_ie.gtp_chg_to_rpt_flgs_ie_format; member_header := gtp_chg_to_rpt_flgs_ie.header |};
    solve_member.
Defined.

#[global] Instance gtp_scef_pdn_conn_ie_member : IeMember gtp_scef_pdn_conn_ie.gtp_scef_pdn_conn_ie_t.
Proof.
  refine {| member_format := wire_format_ie gtp_scef_pdn_conn_ie.gtp_scef_pdn_conn_ie_format; member_header := gtp_scef_pdn_conn_ie.header |};
    solve_member.
Defined.

#[global] Instance gtp_chg_rptng_act_ie_member : IeMember gtp_chg_rptng_act_ie.gtp_chg_rptng_act_ie_t.
Proof.
  refine {| member_format := wire_format_ie gtp_chg_rptng_act_ie.gtp_chg_rptng_act_ie_format; member_header := gtp_chg_rptng_act_ie.header |};
    solve_member.
Defined.

#[global] Instance gtp_delay_value_ie_member : IeMember gtp_delay_value_ie.gtp_delay_value_ie_t.
Proof.
  refine {| member_format := wire_format_ie gtp_delay_value_ie.gtp_delay_value_ie_format; member_header := gtp_delay_value_ie.header |};
    solve_member.
Defined.

#[global] Instance gtp_pdn_connection_ie_member : IeMember gtp_pdn_connection_ie.gtp_pdn_connection_ie_t.
Proof.
  refine {| member_format := wire_format_ie gtp_pdn_connection_ie.gtp_pdn_connection_ie_format; member_header := gtp_pdn_connection_ie.header |};
    solve_member.
Defined.

#[global] Instance gtp_detach_type_ie_member : IeMember gtp_detach_type_ie.gtp_detach_type_ie_t.
Proof.
  refine {| member_format := wire_format_ie gtp_detach_type_ie.gtp_detach_type_ie_format; member_header := gtp_detach_type_ie.header |};
    solve_member.
Defined.

#[global] Instance gtp_mbms_svc_area_ie_member : IeMember gtp_mbms_svc_area_ie.gtp_mbms_svc_area_ie_t.
Proof.
  refine {| member_format := wire_format_ie gtp_mbms_svc_area_ie.gtp_mbms_svc_area_ie_format; member_header := gtp_mbms_svc_area_ie.header |};
    solve_member.
Defined.

#[global] Instance gtp_chrgng_char_ie_member : IeMember gtp_chrgng_char_ie.gtp_chrgng_char_ie_t.
Proof.
  refine {| member_format := wire_format_ie gtp_chrgng_char_ie.gtp_chrgng_char_ie_format; member_header := gtp_chrgng_char_ie.header |};
    solve_member.
Defined.

#[global] Instance gtp_henb_info_rptng_ie_member : IeMember gtp_henb_info_rptng_ie.gtp_henb_info_rptng_ie_t.
Proof.
  refine {| member_format := wire_format_ie gtp_henb_info_rptng_ie.gtp_henb_info_rptng_ie_format; member_header := gtp_henb_info_rptng_ie.header |};
    solve_member.
Defined.

#[global] Instance gtp_throttling_ie_member : IeMember gtp_throttling_ie.gtp_throttling_ie_t.
Proof.
  refine {| member_format := wire_format_ie gtp_throttling_ie.gtp_throttling_ie_format; member_header := gtp_throttling_ie.header |};
    solve_member.
Defined.

#[global] Instance gtp_csg_memb_indctn_ie_member : IeMember gtp_csg_memb_indctn_ie.gtp_csg_memb_indctn_ie_t.
Proof.
  refine {| member_format := wire_format_ie gtp_csg_memb_indctn_ie.gtp_csg_memb_indctn_ie_format; member_header := gtp_csg_memb_indctn_ie.header |};
    solve_member.
Defined.

#[global] Instance gtp_src_rnc_pdcp_ctxt_info_ie_member : IeMember gtp_src_rnc_pdcp_ctxt_info_ie.gtp_src_rnc_pdcp_ctxt_info_ie_t.
Proof.
  refine {| member_format := wire_format_ie gtp_src_rnc_pdcp_ctxt_info_ie.gtp_src_rnc_pdcp_ctxt_info_ie_format; member_header := gtp_src_rnc_pdcp_ctxt_info_ie.header |};
    solve_member.
Defined.

#[global] Instance gtp_hop_counter_ie_member : IeMember gtp_hop_counter_ie.gtp_hop_counter_ie_t.
Proof.
  refine {| member_format := wire_format_ie gtp_hop_counter_ie.gtp_hop_counter_ie_format; member_header := gtp_hop_counter_ie.header |};
    solve_member.
Defined.

#[global] Instance gtp_pres_rptng_area_info_ie_member : IeMember gtp_pres_rptng_area_info_ie.gtp_pres_rptng_area_info_ie_t.
Proof.
  refine {| member_format := wire_format_ie gtp_pres_rptng_area_info_ie.gtp_pres_rptng_area_info_ie_format; member_header := gtp_pres_rptng_area_info_ie.header |};
    solve_member.
Defined.

#[global] Instance gtp_mbms_sess_idnt_ie_member : IeMember gtp_mbms_sess_idnt_ie.gtp_mbms_sess_idnt_ie_t.
Proof.
  refine {| member_format := wire_format_ie gtp_mbms_sess_idnt_ie.gtp_mbms_sess_idnt_ie_format; member_header := gtp_mbms_sess_idnt_ie.header |};
    solve_member.
Defined.

#[global] Instance gtp_apn_and_rltv_cap_ie_member : IeMember gtp_apn_and_rltv_cap_ie.gtp_apn_and_rltv_cap_ie_t.
Proof.
  refine {| member_format := wire_format_ie gtp_apn_and_rltv_cap_ie.gtp_apn_and_rltv_cap_ie_format; member_header := gtp_apn_and_rltv_cap_ie.header |};
    solve_member.
Defined.

#[global] Instance gtp_selection_mode_ie_member : IeMember gtp_selection_mode_ie.gtp_selection_mode_ie_t.
Proof.
  refine {| member_format := wire_format_ie gtp_selection_mode_ie.gtp_selection_mode_ie_format; member_header := gtp_selection_mode_ie.header |};
    solve_member.
Defined.

#[global] Instance gtp_up_func_sel_indctn_flgs_ie_member : IeMember gtp_up_func_sel_indctn_flgs_ie.gtp_up_func_sel_indctn_flgs_ie_t.
Proof.
  refine {| member_format := wire_format_ie gtp_up_func_sel_indctn_flgs_ie.gtp_up_func_sel_indctn_flgs_ie_format; member_header := gtp_up_func_sel_indctn_flgs_ie.header |};
    solve_member.
Defined.

#[global] Instance gtp_mbl_equip_idnty_ie_member : IeMember gtp_mbl_equip_idnty_ie.gtp_mbl_equip_idnty_ie_t.
Proof.
  refine {| member_format := wire_format_ie gtp_mbl_equip_idnty_ie.gtp_mbl_equip_idnty_ie_format; member_header := gtp_mbl_equip_idnty_ie.header |};
    solve_member.
Defined.

#[global] Instance gtp_priv_ext_ie_member : IeMember gtp_priv_ext_ie.gtp_priv_ext_ie_t.
Proof.
  refine {| member_format := wire_format_ie gtp_priv_ext_ie.gtp_priv_ext_ie_format; member_header := gtp_priv_ext_ie.header |};
    solve_member.
Defined.

#[global] Instance gtp_sequence_number_ie_member : IeMember gtp_sequence_number_ie.gtp_sequence_number_ie_t.
Proof.
  refine {| member_format := wire_format_ie gtp_sequence_number_ie.gtp_sequence_number_ie_format; member_header := gtp_sequence_number_ie.header |};
    solve_member.
Defined.

#[global] Instance gtp_acc_pt_name_ie_member : IeMember gtp_acc_pt_name_ie.gtp_acc_pt_name_ie_t.
Proof.
  refine {| member_format := gtp_acc_pt_name_ie.gtp_acc_pt_name_ie_format; member_header := gtp_acc_pt_name_ie.header |};
    solve_member.
Defined.

#[global] Instance gtp_fully_qual_domain_name_ie_member : IeMember gtp_fully_qual_domain_name_ie.gtp_fully_qual_domain_name_ie_t.
Proof.
  refine {| member_format := gtp_fully_qual_domain_name_ie.gtp_fully_qual_domain_name_ie_format; member_header := gtp_fully_qual_domain_name_ie.header |};
    solve_member.
Defined.

#[global] Instance gtp_eps_bearer_lvl_traffic_flow_tmpl_ie_member : IeMember gtp_eps_bearer_lvl_traffic_flow_tmpl_ie.gtp_eps_bearer_lvl_traffic_flow_tmpl_ie_t.
Proof.
  refine {| member_format := gtp_eps_bearer_lvl_traffic_flow_tmpl_ie.gtp_eps_bearer_lvl_traffic_flow_tmpl_ie_format; member_header := gtp_eps_bearer_lvl_traffic_flow_tmpl_ie.header |};
    solve_member.
Defined.

#[global] Instance gtp_ip_address_ie_member : IeMember gtp_ip_address_ie.gtp_ip_address_ie_t.
Proof.
  refine {| member_format := gtp_ip_address_ie.gtp_ip_address_ie_format; member_header := gtp_ip_address_ie.header |};
    solve_member.
Defined.

#[global] Instance gtp_cause_ie_member : IeMember gtp_cause_ie.gtp_cause_ie_t.
Proof.
  refine {| member_format := gtp_cause_ie.gtp_cause_ie_format; member_header := gtp_cause_ie.header |};
    solve_member.
Defined.

#[global] Instance gtp_fully_qual_tunn_endpt_idnt_ie_member : IeMember gtp_fully_qual_tunn_endpt_idnt_ie.gtp_fully_qual_tunn_endpt_idnt_ie_t.
Proof.
  refine {| member_format := gtp_fully_qual_tunn_endpt_idnt_ie.gtp_fully_qual_tunn_endpt_idnt_ie_format; member_header := gtp_fully_qual_tunn_endpt_idnt_ie.header |};
    solve_member.
Defined.

#[global] Instance gtp_pdn_addr_alloc_ie_member : IeMember gtp_pdn_addr_alloc_ie.gtp_pdn_addr_alloc_ie_t.
Proof.
  refine {| member_format := gtp_pdn_addr_alloc_ie.gtp_pdn_addr_alloc_ie_format; member_header := gtp_pdn_addr_alloc_ie.header |};
    solve_member.
Defined.

#[global] Instance gtp_msisdn_ie_member : IeMember gtp_msisdn_ie.gtp_msisdn_ie_t.
Proof.
  refine {| member_format := gtp_msisdn_ie.gtp_msisdn_ie_format; member_header := gtp_msisdn_ie.header |};
    solve_member.
Defined.

#[global] Instance gtp_integer_number_ie_member : IeMember gtp_integer_number_ie.gtp_integer_number_ie_t.
Proof.
  refine {| member_format := gtp_integer_number_ie.gtp_integer_number_ie_format; member_header := gtp_integer_number_ie.header |};
    solve_member.
Defined.

#[global] Instance gtp_fqcsid_ie_member : IeMember gtp_fqcsid_ie.gtp_fqcsid_ie_t.
Proof.
  refine {| member_format := gtp_fqcsid_ie.gtp_fqcsid_ie_format; member_header := gtp_fqcsid_ie.header |};
    solve_member.
Defined.

#[global] Instance gtp_user_loc_info_ie_member : IeMember gtp_user_loc_info_ie.gtp_user_loc_info_ie_t.
Proof.
  refine {| member_format := gtp_user_loc_info_ie.gtp_user_loc_info_ie_format; member_header := gtp_user_loc_info_ie.header |};
    solve_member.
Defined.

#[global] Instance gtp_pres_rptng_area_act_ie_member : IeMember gtp_pres_rptng_area_act_ie.gtp_pres_rptng_area_act_ie_t.
Proof.
  refine {| member_format := gtp_pres_rptng_area_act_ie.gtp_pres_rptng_area_act_ie_format; member_header := gtp_pres_rptng_area_act_ie.header |};
    solve_member.
Defined.

#[global] Instance gtp_indication_ie_member : IeMember gtp_indication_ie.gtp_indication_ie_t.
Proof.
  refine {| member_format := gtp_indication_ie.gtp_indication_ie_format; member_header := gtp_indication_ie.header |};
    solve_member.
Defined.

#[global] Instance gtp_prot_cfg_opts_ie_member : IeMember gtp_prot_cfg_opts_ie.gtp_prot_cfg_opts_ie_t.
Proof.
  refine {| member_format := gtp_prot_cfg_opts_ie.gtp_prot_cfg_opts_ie_format; member_header := gtp_prot_cfg_opts_ie.header |};
    solve_member.
Defined.

#[global] Instance gtp_addtl_prot_cfg_opts_ie_member : IeMember gtp_addtl_prot_cfg_opts_ie.gtp_addtl_prot_cfg_opts_ie_t.
Proof.
  refine {| member_format := gtp_addtl_prot_cfg_opts_ie.gtp_addtl_prot_cfg_opts_ie_format; member_header := gtp_addtl_prot_cfg_opts_ie.header |};
    solve_member.
Defined.

#[global] Instance gtp_extnded_prot_cfg_opts_ie_member : IeMember gtp_extnded_prot_cfg_opts_ie.gtp_extnded_prot_cfg_opts_ie_t.
Proof.
  refine {| member_format := gtp_extnded_prot_cfg_opts_ie.gtp_extnded_prot_cfg_opts_ie_format; member_header := gtp_extnded_prot_cfg_opts_ie.header |};
    solve_member.
Defined.

#[global] Instance gtp_imsi_ie_member : IeMember gtp_imsi_ie.gtp_imsi_ie_t.
Proof.
  refine {| member_format := gtp_imsi_ie_format; member_header := gtp_imsi_ie.header |};
    [> intros ?; eexists; reflexivity | reflexivity |].
  intros m buf old c v. apply consumes_header. intros h. apply returns_bind. intros t.
  destruct (decode_imsi _ _ _ _); [|intros s a s'; discriminate].
  apply returns_bind. intros _. apply returns_ret. reflexivity.
Defined.
