(* ===== verification/GtpGroupedIes.v ===== *)
(** The grouped information elements of libgtpv2c.

    Each structure of gtp_messages.h is a module: the members, their types, the
    order in which [encode_X] (gtp_messages_encoder.c) visits them, and the
    table of branches of [decode_X] (gtp_messages_decoder.c). *)

From Stdlib Require Import ZArith List Arith.
From S2P Require Import Prelude WireFormat IeFormat GtpDefs.
From S2P Require Import GtpIes1 GtpIes2 GtpIes3 GtpIesVar GtpIesSub GtpImsi.
From S2P Require Import GtpMessage GtpGrouped GtpMembers.
Import ListNotations.
Open Scope Z_scope.

(** ** [gtp_ctxt_acknowledge__bearer_ctxt_ie] *)

Module gtp_ctxt_acknowledge__bearer_ctxt_ie.

Inductive gtp_ctxt_acknowledge__bearer_ctxt_ie_member :=
| eps_bearer_id
| fwdng_fteid.

Definition gtp_ctxt_acknowledge__bearer_ctxt_ie_eq_dec (f g : gtp_ctxt_acknowledge__bearer_ctxt_ie_member) : {f = g} + {f <> g}.
Proof. decide equality. Defined.

Definition gtp_ctxt_acknowledge__bearer_ctxt_ie_type (f : gtp_ctxt_acknowledge__bearer_ctxt_ie_member) : Type :=
  match f with
  | eps_bearer_id => gtp_eps_bearer_id_ie.gtp_eps_bearer_id_ie_t
  | fwdng_fteid => gtp_fully_qual_tunn_endpt_idnt_ie.gtp_fully_qual_tunn_endpt_idnt_ie_t
  end.

Definition gtp_ctxt_acknowledge__bearer_ctxt_ie_ie (f : gtp_ctxt_acknowledge__bearer_ctxt_ie_member) : IeMember (gtp_ctxt_acknowledge__bearer_ctxt_ie_type f) :=
  match f with
  | eps_bearer_id => gtp_eps_bearer_id_ie_member
  | fwdng_fteid => gtp_fully_qual_tunn_endpt_idnt_ie_member
  end.

Definition gtp_ctxt_acknowledge__bearer_ctxt_ie_sig : signature :=
  Signature gtp_ctxt_acknowledge__bearer_ctxt_ie_member gtp_ctxt_acknowledge__bearer_ctxt_ie_eq_dec gtp_ctxt_acknowledge__bearer_ctxt_ie_type gtp_ctxt_acknowledge__bearer_ctxt_ie_ie
    Empty_set no_counter_eq_dec.
Canonical Structure gtp_ctxt_acknowledge__bearer_ctxt_ie_sig.

Definition gtp_ctxt_acknowledge__bearer_ctxt_ie_t : Type := grouped gtp_ctxt_acknowledge__bearer_ctxt_ie_sig.

Definition encode_gtp_ctxt_acknowledge__bearer_ctxt_ie_order : list (visit gtp_ctxt_acknowledge__bearer_ctxt_ie_sig) :=
  [One eps_bearer_id; One fwdng_fteid].

Definition encode_gtp_ctxt_acknowledge__bearer_ctxt_ie (value : gtp_ctxt_acknowledge__bearer_ctxt_ie_t) (buf : Z) : enc Z :=
  encode_grouped encode_gtp_ctxt_acknowledge__bearer_ctxt_ie_order value buf.

Definition decode_gtp_ctxt_acknowledge__bearer_ctxt_ie_table : list (branch gtp_ctxt_acknowledge__bearer_ctxt_ie_sig) :=
  [(GTP_IE_EPS_BEARER_ID, Some GTP_IE_INSTANCE_ZERO, Into eps_bearer_id);
   (GTP_IE_FULLY_QUAL_TUNN_ENDPT_IDNT, Some GTP_IE_INSTANCE_ZERO, Into fwdng_fteid)].

Definition decode_gtp_ctxt_acknowledge__bearer_ctxt_ie (m : bytes) (buf : Z) (value : gtp_ctxt_acknowledge__bearer_ctxt_ie_t)
  : option (Z * gtp_ctxt_acknowledge__bearer_ctxt_ie_t) :=
  decode_grouped decode_gtp_ctxt_acknowledge__bearer_ctxt_ie_table m buf value.

#[global] Instance gtp_ctxt_acknowledge__bearer_ctxt_ie_member_ie : IeMember gtp_ctxt_acknowledge__bearer_ctxt_ie_t :=
  grouped_member encode_gtp_ctxt_acknowledge__bearer_ctxt_ie_order decode_gtp_ctxt_acknowledge__bearer_ctxt_ie_table.

End gtp_ctxt_acknowledge__bearer_ctxt_ie.

(** ** [gtp_del_bearer_request__overload_ctl_info_ie] *)

Module gtp_del_bearer_request__overload_ctl_info_ie.

Inductive gtp_del_bearer_request__overload_ctl_info_ie_member :=
| ovrld_ctl_seqn_nbr
| ovrld_reduction_metric
| prd_of_validity
| apn.

Definition gtp_del_bearer_request__overload_ctl_info_ie_eq_dec (f g : gtp_del_bearer_request__overload_ctl_info_ie_member) : {f = g} + {f <> g}.
Proof. decide equality. Defined.

Definition gtp_del_bearer_request__overload_ctl_info_ie_type (f : gtp_del_bearer_request__overload_ctl_info_ie_member) : Type :=
  match f with
  | ovrld_ctl_seqn_nbr => gtp_sequence_number_ie.gtp_sequence_number_ie_t
  | ovrld_reduction_metric => gtp_metric_ie.gtp_metric_ie_t
  | prd_of_validity => gtp_epc_timer_ie.gtp_epc_timer_ie_t
  | apn => gtp_acc_pt_name_ie.gtp_acc_pt_name_ie_t
  end.

Definition gtp_del_bearer_request__overload_ctl_info_ie_ie (f : gtp_del_bearer_request__overload_ctl_info_ie_member) : IeMember (gtp_del_bearer_request__overload_ctl_info_ie_type f) :=
  match f with
  | ovrld_ctl_seqn_nbr => gtp_sequence_number_ie_member
  | ovrld_reduction_metric => gtp_metric_ie_member
  | prd_of_validity => gtp_epc_timer_ie_member
  | apn => gtp_acc_pt_name_ie_member
  end.

Definition gtp_del_bearer_request__overload_ctl_info_ie_sig : signature :=
  Signature gtp_del_bearer_request__overload_ctl_info_ie_member gtp_del_bearer_request__overload_ctl_info_ie_eq_dec gtp_del_bearer_request__overload_ctl_info_ie_type gtp_del_bearer_request__overload_ctl_info_ie_ie
    Empty_set no_counter_eq_dec.
Canonical Structure gtp_del_bearer_request__overload_ctl_info_ie_sig.

Definition gtp_del_bearer_request__overload_ctl_info_ie_t : Type := grouped gtp_del_bearer_request__overload_ctl_info_ie_sig.

Definition encode_gtp_del_bearer_request__overload_ctl_info_ie_order : list (visit gtp_del_bearer_request__overload_ctl_info_ie_sig) :=
  [One ovrld_ctl_seqn_nbr; One ovrld_reduction_metric; One prd_of_validity; One apn].

Definition encode_gtp_del_bearer_request__overload_ctl_info_ie (value : gtp_del_bearer_request__overload_ctl_info_ie_t) (buf : Z) : enc Z :=
  encode_grouped encode_gtp_del_bearer_request__overload_ctl_info_ie_order value buf.

Definition decode_gtp_del_bearer_request__overload_ctl_info_ie_table : list (branch gtp_del_bearer_request__overload_ctl_info_ie_sig) :=
  [(GTP_IE_SEQUENCE_NUMBER, Some GTP_IE_INSTANCE_ZERO, Into ovrld_ctl_seqn_nbr);
   (GTP_IE_METRIC, Some GTP_IE_INSTANCE_ZERO, Into ovrld_reduction_metric);
   (GTP_IE_EPC_TIMER, Some GTP_IE_INSTANCE_ZERO, Into prd_of_validity);
   (GTP_IE_ACC_PT_NAME, Some GTP_IE_INSTANCE_ZERO, Into apn)].

Definition decode_gtp_del_bearer_request__overload_ctl_info_ie (m : bytes) (buf : Z) (value : gtp_del_bearer_request__overload_ctl_info_ie_t)
  : option (Z * gtp_del_bearer_request__overload_ctl_info_ie_t) :=
  decode_grouped decode_gtp_del_bearer_request__overload_ctl_info_ie_table m buf value.

#[global] Instance gtp_del_bearer_request__overload_ctl_info_ie_member_ie : IeMember gtp_del_bearer_request__overload_ctl_info_ie_t :=
  grouped_member encode_gtp_del_bearer_request__overload_ctl_info_ie_order decode_gtp_del_bearer_request__overload_ctl_info_ie_table.

End gtp_del_bearer_request__overload_ctl_info_ie.

(** ** [gtp_create_bearer_response__overload_ctl_info_ie] *)

Module gtp_create_bearer_response__overload_ctl_info_ie.

Inductive gtp_create_bearer_response__overload_ctl_info_ie_member :=
| ovrld_ctl_seqn_nbr
| ovrld_reduction_metric
| prd_of_validity.

Definition gtp_create_bearer_response__overload_ctl_info_ie_eq_dec (f g : gtp_create_bearer_response__overload_ctl_info_ie_member) : {f = g} + {f <> g}.
Proof. decide equality. Defined.

Definition gtp_create_bearer_response__overload_ctl_info_ie_type (f : gtp_create_bearer_response__overload_ctl_info_ie_member) : Type :=
  match f with
  | ovrld_ctl_seqn_nbr => gtp_sequence_number_ie.gtp_sequence_number_ie_t
  | ovrld_reduction_metric => gtp_metric_ie.gtp_metric_ie_t
  | prd_of_validity => gtp_epc_timer_ie.gtp_epc_timer_ie_t
  end.

Definition gtp_create_bearer_response__overload_ctl_info_ie_ie (f : gtp_create_bearer_response__overload_ctl_info_ie_member) : IeMember (gtp_create_bearer_response__overload_ctl_info_ie_type f) :=
  match f with
  | ovrld_ctl_seqn_nbr => gtp_sequence_number_ie_member
  | ovrld_reduction_metric => gtp_metric_ie_member
  | prd_of_validity => gtp_epc_timer_ie_member
  end.

Definition gtp_create_bearer_response__overload_ctl_info_ie_sig : signature :=
  Signature gtp_create_bearer_response__overload_ctl_info_ie_member gtp_create_bearer_response__overload_ctl_info_ie_eq_dec gtp_create_bearer_response__overload_ctl_info_ie_type gtp_create_bearer_response__overload_ctl_info_ie_ie
    Empty_set no_counter_eq_dec.
Canonical Structure gtp_create_bearer_response__overload_ctl_info_ie_sig.

Definition gtp_create_bearer_response__overload_ctl_info_ie_t : Type := grouped gtp_create_bearer_response__overload_ctl_info_ie_sig.

Definition encode_gtp_create_bearer_response__overload_ctl_info_ie_order : list (visit gtp_create_bearer_response__overload_ctl_info_ie_sig) :=
  [One ovrld_ctl_seqn_nbr; One ovrld_reduction_metric; One prd_of_validity].

Definition encode_gtp_create_bearer_response__overload_ctl_info_ie (value : gtp_create_bearer_response__overload_ctl_info_ie_t) (buf : Z) : enc Z :=
  encode_grouped encode_gtp_create_bearer_response__overload_ctl_info_ie_order value buf.

Definition decode_gtp_create_bearer_response__overload_ctl_info_ie_table : list (branch gtp_create_bearer_response__overload_ctl_info_ie_sig) :=
  [(GTP_IE_SEQUENCE_NUMBER, Some GTP_IE_INSTANCE_ZERO, Into ovrld_ctl_seqn_nbr);
   (GTP_IE_METRIC, Some GTP_IE_INSTANCE_ZERO, Into ovrld_reduction_metric);
   (GTP_IE_EPC_TIMER, Some GTP_IE_INSTANCE_ZERO, Into prd_of_validity)].

Definition decode_gtp_create_bearer_response__overload_ctl_info_ie (m : bytes) (buf : Z) (value : gtp_create_bearer_response__overload_ctl_info_ie_t)
  : option (Z * gtp_create_bearer_response__overload_ctl_info_ie_t) :=
  decode_grouped decode_gtp_create_bearer_response__overload_ctl_info_ie_table m buf value.

#[global] Instance gtp_create_bearer_response__overload_ctl_info_ie_member_ie : IeMember gtp_create_bearer_response__overload_ctl_info_ie_t :=
  grouped_member encode_gtp_create_bearer_response__overload_ctl_info_ie_order decode_gtp_create_bearer_response__overload_ctl_info_ie_table.

End gtp_create_bearer_response__overload_ctl_info_ie.

(** ** [gtp_mod_acc_bearers_request__bearer_ctxt_to_be_modified_ie] *)

Module gtp_mod_acc_bearers_request__bearer_ctxt_to_be_modified_ie.

Inductive gtp_mod_acc_bearers_request__bearer_ctxt_to_be_modified_ie_member :=
| eps_bearer_id
| s1u_enb_fteid
| s11_u_mme_fteid.

Definition gtp_mod_acc_bearers_request__bearer_ctxt_to_be_modified_ie_eq_dec (f g : gtp_mod_acc_bearers_request__bearer_ctxt_to_be_modified_ie_member) : {f = g} + {f <> g}.
Proof. decide equality. Defined.

Definition gtp_mod_acc_bearers_request__bearer_ctxt_to_be_modified_ie_type (f : gtp_mod_acc_bearers_request__bearer_ctxt_to_be_modified_ie_member) : Type :=
  match f with
  | eps_bearer_id => gtp_eps_bearer_id_ie.gtp_eps_bearer_id_ie_t
  | s1u_enb_fteid => gtp_fully_qual_tunn_endpt_idnt_ie.gtp_fully_qual_tunn_endpt_idnt_ie_t
  | s11_u_mme_fteid => gtp_fully_qual_tunn_endpt_idnt_ie.gtp_fully_qual_tunn_endpt_idnt_ie_t
  end.

Definition gtp_mod_acc_bearers_request__bearer_ctxt_to_be_modified_ie_ie (f : gtp_mod_acc_bearers_request__bearer_ctxt_to_be_modified_ie_member) : IeMember (gtp_mod_acc_bearers_request__bearer_ctxt_to_be_modified_ie_type f) :=
  match f with
  | eps_bearer_id => gtp_eps_bearer_id_ie_member
  | s1u_enb_fteid => gtp_fully_qual_tunn_endpt_idnt_ie_member
  | s11_u_mme_fteid => gtp_fully_qual_tunn_endpt_idnt_ie_member
  end.

Definition gtp_mod_acc_bearers_request__bearer_ctxt_to_be_modified_ie_sig : signature :=
  Signature gtp_mod_acc_bearers_request__bearer_ctxt_to_be_modified_ie_member gtp_mod_acc_bearers_request__bearer_ctxt_to_be_modified_ie_eq_dec gtp_mod_acc_bearers_request__bearer_ctxt_to_be_modified_ie_type gtp_mod_acc_bearers_request__bearer_ctxt_to_be_modified_ie_ie
    Empty_set no_counter_eq_dec.
Canonical Structure gtp_mod_acc_bearers_request__bearer_ctxt_to_be_modified_ie_sig.

Definition gtp_mod_acc_bearers_request__bearer_ctxt_to_be_modified_ie_t : Type := grouped gtp_mod_acc_bearers_request__bearer_ctxt_to_be_modified_ie_sig.

Definition encode_gtp_mod_acc_bearers_request__bearer_ctxt_to_be_modified_ie_order : list (visit gtp_mod_acc_bearers_request__bearer_ctxt_to_be_modified_ie_sig) :=
  [One eps_bearer_id; One s1u_enb_fteid; One s11_u_mme_fteid].

Definition encode_gtp_mod_acc_bearers_request__bearer_ctxt_to_be_modified_ie (value : gtp_mod_acc_bearers_request__bearer_ctxt_to_be_modified_ie_t) (buf : Z) : enc Z :=
  encode_grouped encode_gtp_mod_acc_bearers_request__bearer_ctxt_to_be_modified_ie_order value buf.

Definition decode_gtp_mod_acc_bearers_request__bearer_ctxt_to_be_modified_ie_table : list (branch gtp_mod_acc_bearers_request__bearer_ctxt_to_be_modified_ie_sig) :=
  [(GTP_IE_EPS_BEARER_ID, Some GTP_IE_INSTANCE_ZERO, Into eps_bearer_id);
   (GTP_IE_FULLY_QUAL_TUNN_ENDPT_IDNT, Some GTP_IE_INSTANCE_ZERO, Into s1u_enb_fteid);
   (GTP_IE_FULLY_QUAL_TUNN_ENDPT_IDNT, Some GTP_IE_INSTANCE_ONE, Into s11_u_mme_fteid)].

Definition decode_gtp_mod_acc_bearers_request__bearer_ctxt_to_be_modified_ie (m : bytes) (buf : Z) (value : gtp_mod_acc_bearers_request__bearer_ctxt_to_be_modified_ie_t)
  : option (Z * gtp_mod_acc_bearers_request__bearer_ctxt_to_be_modified_ie_t) :=
  decode_grouped decode_gtp_mod_acc_bearers_request__bearer_ctxt_to_be_modified_ie_table m buf value.

#[global] Instance gtp_mod_acc_bearers_request__bearer_ctxt_to_be_modified_ie_member_ie : IeMember gtp_mod_acc_bearers_request__bearer_ctxt_to_be_modified_ie_t :=
  grouped_member encode_gtp_mod_acc_bearers_request__bearer_ctxt_to_be_modified_ie_order decode_gtp_mod_acc_bearers_request__bearer_ctxt_to_be_modified_ie_table.

End gtp_mod_acc_bearers_request__bearer_ctxt_to_be_modified_ie.

(** ** [gtp_rmt_ue_rpt_notification__remote_ue_ctxt_disconnected_ie] *)

Module gtp_rmt_ue_rpt_notification__remote_ue_ctxt_disconnected_ie.

Inductive gtp_rmt_ue_rpt_notification__remote_ue_ctxt_disconnected_ie_member :=
| remote_user_id.

Definition gtp_rmt_ue_rpt_notification__remote_ue_ctxt_disconnected_ie_eq_dec (f g : gtp_rmt_ue_rpt_notification__remote_ue_ctxt_disconnected_ie_member) : {f = g} + {f <> g}.
Proof. decide equality. Defined.

Definition gtp_rmt_ue_rpt_notification__remote_ue_ctxt_disconnected_ie_type (f : gtp_rmt_ue_rpt_notification__remote_ue_ctxt_disconnected_ie_member) : Type :=
  match f with
  | remote_user_id => gtp_remote_user_id_ie.gtp_remote_user_id_ie_t
  end.

Definition gtp_rmt_ue_rpt_notification__remote_ue_ctxt_disconnected_ie_ie (f : gtp_rmt_ue_rpt_notification__remote_ue_ctxt_disconnected_ie_member) : IeMember (gtp_rmt_ue_rpt_notification__remote_ue_ctxt_disconnected_ie_type f) :=
  match f with
  | remote_user_id => gtp_remote_user_id_ie_member
  end.

Definition gtp_rmt_ue_rpt_notification__remote_ue_ctxt_disconnected_ie_sig : signature :=
  Signature gtp_rmt_ue_rpt_notification__remote_ue_ctxt_disconnected_ie_member gtp_rmt_ue_rpt_notification__remote_ue_ctxt_disconnected_ie_eq_dec gtp_rmt_ue_rpt_notification__remote_ue_ctxt_disconnected_ie_type gtp_rmt_ue_rpt_notification__remote_ue_ctxt_disconnected_ie_ie
    Empty_set no_counter_eq_dec.
Canonical Structure gtp_rmt_ue_rpt_notification__remote_ue_ctxt_disconnected_ie_sig.

Definition gtp_rmt_ue_rpt_notification__remote_ue_ctxt_disconnected_ie_t : Type := grouped gtp_rmt_ue_rpt_notification__remote_ue_ctxt_disconnected_ie_sig.

Definition encode_gtp_rmt_ue_rpt_notification__remote_ue_ctxt_disconnected_ie_order : list (visit gtp_rmt_ue_rpt_notification__remote_ue_ctxt_disconnected_ie_sig) :=
  [One remote_user_id].

Definition encode_gtp_rmt_ue_rpt_notification__remote_ue_ctxt_disconnected_ie (value : gtp_rmt_ue_rpt_notification__remote_ue_ctxt_disconnected_ie_t) (buf : Z) : enc Z :=
  encode_grouped encode_gtp_rmt_ue_rpt_notification__remote_ue_ctxt_disconnected_ie_order value buf.

Definition decode_gtp_rmt_ue_rpt_notification__remote_ue_ctxt_disconnected_ie_table : list (branch gtp_rmt_ue_rpt_notification__remote_ue_ctxt_disconnected_ie_sig) :=
  [(GTP_IE_REMOTE_USER_ID, Some GTP_IE_INSTANCE_ZERO, Into remote_user_id)].

Definition decode_gtp_rmt_ue_rpt_notification__remote_ue_ctxt_disconnected_ie (m : bytes) (buf : Z) (value : gtp_rmt_ue_rpt_notification__remote_ue_ctxt_disconnected_ie_t)
  : option (Z * gtp_rmt_ue_rpt_notification__remote_ue_ctxt_disconnected_ie_t) :=
  decode_grouped decode_gtp_rmt_ue_rpt_notification__remote_ue_ctxt_disconnected_ie_table m buf value.

#[global] Instance gtp_rmt_ue_rpt_notification__remote_ue_ctxt_disconnected_ie_member_ie : IeMember gtp_rmt_ue_rpt_notification__remote_ue_ctxt_disconnected_ie_t :=
  grouped_member encode_gtp_rmt_ue_rpt_notification__remote_ue_ctxt_disconnected_ie_order decode_gtp_rmt_ue_rpt_notification__remote_ue_ctxt_disconnected_ie_table.

End gtp_rmt_ue_rpt_notification__remote_ue_ctxt_disconnected_ie.

(** ** [gtp_rmt_ue_rpt_notification__remote_ue_ctxt_connected_ie] *)

Module gtp_rmt_ue_rpt_notification__remote_ue_ctxt_connected_ie.

Inductive gtp_rmt_ue_rpt_notification__remote_ue_ctxt_connected_ie_member :=
| remote_user_id
| rmt_ue_ip_info.

Definition gtp_rmt_ue_rpt_notification__remote_ue_ctxt_connected_ie_eq_dec (f g : gtp_rmt_ue_rpt_notification__remote_ue_ctxt_connected_ie_member) : {f = g} + {f <> g}.
Proof. decide equality. Defined.

Definition gtp_rmt_ue_rpt_notification__remote_ue_ctxt_connected_ie_type (f : gtp_rmt_ue_rpt_notification__remote_ue_ctxt_connected_ie_member) : Type :=
  match f with
  | remote_user_id => gtp_remote_user_id_ie.gtp_remote_user_id_ie_t
  | rmt_ue_ip_info => gtp_rmt_ue_ip_info_ie.gtp_rmt_ue_ip_info_ie_t
  end.

Definition gtp_rmt_ue_rpt_notification__remote_ue_ctxt_connected_ie_ie (f : gtp_rmt_ue_rpt_notification__remote_ue_ctxt_connected_ie_member) : IeMember (gtp_rmt_ue_rpt_notification__remote_ue_ctxt_connected_ie_type f) :=
  match f with
  | remote_user_id => gtp_remote_user_id_ie_member
  | rmt_ue_ip_info => gtp_rmt_ue_ip_info_ie_member
  end.

Definition gtp_rmt_ue_rpt_notification__remote_ue_ctxt_connected_ie_sig : signature :=
  Signature gtp_rmt_ue_rpt_notification__remote_ue_ctxt_connected_ie_member gtp_rmt_ue_rpt_notification__remote_ue_ctxt_connected_ie_eq_dec gtp_rmt_ue_rpt_notification__remote_ue_ctxt_connected_ie_type gtp_rmt_ue_rpt_notification__remote_ue_ctxt_connected_ie_ie
    Empty_set no_counter_eq_dec.
Canonical Structure gtp_rmt_ue_rpt_notification__remote_ue_ctxt_connected_ie_sig.

Definition gtp_rmt_ue_rpt_notification__remote_ue_ctxt_connected_ie_t : Type := grouped gtp_rmt_ue_rpt_notification__remote_ue_ctxt_connected_ie_sig.

Definition encode_gtp_rmt_ue_rpt_notification__remote_ue_ctxt_connected_ie_order : list (visit gtp_rmt_ue_rpt_notification__remote_ue_ctxt_connected_ie_sig) :=
  [One remote_user_id; One rmt_ue_ip_info].

Definition encode_gtp_rmt_ue_rpt_notification__remote_ue_ctxt_connected_ie (value : gtp_rmt_ue_rpt_notification__remote_ue_ctxt_connected_ie_t) (buf : Z) : enc Z :=
  encode_grouped encode_gtp_rmt_ue_rpt_notification__remote_ue_ctxt_connected_ie_order value buf.

Definition decode_gtp_rmt_ue_rpt_notification__remote_ue_ctxt_connected_ie_table : list (branch gtp_rmt_ue_rpt_notification__remote_ue_ctxt_connected_ie_sig) :=
  [(GTP_IE_REMOTE_USER_ID, Some GTP_IE_INSTANCE_ZERO, Into remote_user_id);
   (GTP_IE_RMT_UE_IP_INFO, Some GTP_IE_INSTANCE_ZERO, Into rmt_ue_ip_info)].

Definition decode_gtp_rmt_ue_rpt_notification__remote_ue_ctxt_connected_ie (m : bytes) (buf : Z) (value : gtp_rmt_ue_rpt_notification__remote_ue_ctxt_connected_ie_t)
  : option (Z * gtp_rmt_ue_rpt_notification__remote_ue_ctxt_connected_ie_t) :=
  decode_grouped decode_gtp_rmt_ue_rpt_notification__remote_ue_ctxt_connected_ie_table m buf value.

#[global] Instance gtp_rmt_ue_rpt_notification__remote_ue_ctxt_connected_ie_member_ie : IeMember gtp_rmt_ue_rpt_notification__remote_ue_ctxt_connected_ie_t :=
  grouped_member encode_gtp_rmt_ue_rpt_notification__remote_ue_ctxt_connected_ie_order decode_gtp_rmt_ue_rpt_notification__remote_ue_ctxt_connected_ie_table.

End gtp_rmt_ue_rpt_notification__remote_ue_ctxt_connected_ie.

(** ** [gtp_del_bearer_fail_indication__overload_ctl_info_ie] *)

Module gtp_del_bearer_fail_indication__overload_ctl_info_ie.

Inductive gtp_del_bearer_fail_indication__overload_ctl_info_ie_member :=
| ovrld_ctl_seqn_nbr
| ovrld_reduction_metric
| prd_of_validity
| apn.

Definition gtp_del_bearer_fail_indication__overload_ctl_info_ie_eq_dec (f g : gtp_del_bearer_fail_indication__overload_ctl_info_ie_member) : {f = g} + {f <> g}.
Proof. decide equality. Defined.

Definition gtp_del_bearer_fail_indication__overload_ctl_info_ie_type (f : gtp_del_bearer_fail_indication__overload_ctl_info_ie_member) : Type :=
  match f with
  | ovrld_ctl_seqn_nbr => gtp_sequence_number_ie.gtp_sequence_number_ie_t
  | ovrld_reduction_metric => gtp_metric_ie.gtp_metric_ie_t
  | prd_of_validity => gtp_epc_timer_ie.gtp_epc_timer_ie_t
  | apn => gtp_acc_pt_name_ie.gtp_acc_pt_name_ie_t
  end.

Definition gtp_del_bearer_fail_indication__overload_ctl_info_ie_ie (f : gtp_del_bearer_fail_indication__overload_ctl_info_ie_member) : IeMember (gtp_del_bearer_fail_indication__overload_ctl_info_ie_type f) :=
  match f with
  | ovrld_ctl_seqn_nbr => gtp_sequence_number_ie_member
  | ovrld_reduction_metric => gtp_metric_ie_member
  | prd_of_validity => gtp_epc_timer_ie_member
  | apn => gtp_acc_pt_name_ie_member
  end.

Definition gtp_del_bearer_fail_indication__overload_ctl_info_ie_sig : signature :=
  Signature gtp_del_bearer_fail_indication__overload_ctl_info_ie_member gtp_del_bearer_fail_indication__overload_ctl_info_ie_eq_dec gtp_del_bearer_fail_indication__overload_ctl_info_ie_type gtp_del_bearer_fail_indication__overload_ctl_info_ie_ie
    Empty_set no_counter_eq_dec.
Canonical Structure gtp_del_bearer_fail_indication__overload_ctl_info_ie_sig.

Definition gtp_del_bearer_fail_indication__overload_ctl_info_ie_t : Type := grouped gtp_del_bearer_fail_indication__overload_ctl_info_ie_sig.

Definition encode_gtp_del_bearer_fail_indication__overload_ctl_info_ie_order : list (visit gtp_del_bearer_fail_indication__overload_ctl_info_ie_sig) :=
  [One ovrld_ctl_seqn_nbr; One ovrld_reduction_metric; One prd_of_validity; One apn].

Definition encode_gtp_del_bearer_fail_indication__overload_ctl_info_ie (value : gtp_del_bearer_fail_indication__overload_ctl_info_ie_t) (buf : Z) : enc Z :=
  encode_grouped encode_gtp_del_bearer_fail_indication__overload_ctl_info_ie_order value buf.

Definition decode_gtp_del_bearer_fail_indication__overload_ctl_info_ie_table : list (branch gtp_del_bearer_fail_indication__overload_ctl_info_ie_sig) :=
  [(GTP_IE_SEQUENCE_NUMBER, Some GTP_IE_INSTANCE_ZERO, Into ovrld_ctl_seqn_nbr);
   (GTP_IE_METRIC, Some GTP_IE_INSTANCE_ZERO, Into ovrld_reduction_metric);
   (GTP_IE_EPC_TIMER, Some GTP_IE_INSTANCE_ZERO, Into prd_of_validity);
   (GTP_IE_ACC_PT_NAME, Some GTP_IE_INSTANCE_ZERO, Into apn)].

Definition decode_gtp_del_bearer_fail_indication__overload_ctl_info_ie (m : bytes) (buf : Z) (value : gtp_del_bearer_fail_indication__overload_ctl_info_ie_t)
  : option (Z * gtp_del_bearer_fail_indication__overload_ctl_info_ie_t) :=
  decode_grouped decode_gtp_del_bearer_fail_indication__overload_ctl_info_ie_table m buf value.

#[global] Instance gtp_del_bearer_fail_indication__overload_ctl_info_ie_member_ie : IeMember gtp_del_bearer_fail_indication__overload_ctl_info_ie_t :=
  grouped_member encode_gtp_del_bearer_fail_indication__overload_ctl_info_ie_order decode_gtp_del_bearer_fail_indication__overload_ctl_info_ie_table.

End gtp_del_bearer_fail_indication__overload_ctl_info_ie.

(** ** [gtp_create_sess_request_bearer_ctxt_to_be_created_ie] *)

Module gtp_create_sess_request_bearer_ctxt_to_be_created_ie.

Inductive gtp_create_sess_request_bearer_ctxt_to_be_created_ie_member :=
| eps_bearer_id
| tft
| s1u_enb_fteid
| s4_u_sgsn_fteid
| s5s8_u_sgw_fteid
| s5s8_u_pgw_fteid
| s12_rnc_fteid
| s2b_u_epdg_fteid
| s2a_u_twan_fteid
| bearer_lvl_qos
| s11_u_mme_fteid.

Definition gtp_create_sess_request_bearer_ctxt_to_be_created_ie_eq_dec (f g : gtp_create_sess_request_bearer_ctxt_to_be_created_ie_member) : {f = g} + {f <> g}.
Proof. decide equality. Defined.

Definition gtp_create_sess_request_bearer_ctxt_to_be_created_ie_type (f : gtp_create_sess_request_bearer_ctxt_to_be_created_ie_member) : Type :=
  match f with
  | eps_bearer_id => gtp_eps_bearer_id_ie.gtp_eps_bearer_id_ie_t
  | tft => gtp_eps_bearer_lvl_traffic_flow_tmpl_ie.gtp_eps_bearer_lvl_traffic_flow_tmpl_ie_t
  | s1u_enb_fteid => gtp_fully_qual_tunn_endpt_idnt_ie.gtp_fully_qual_tunn_endpt_idnt_ie_t
  | s4_u_sgsn_fteid => gtp_fully_qual_tunn_endpt_idnt_ie.gtp_fully_qual_tunn_endpt_idnt_ie_t
  | s5s8_u_sgw_fteid => gtp_fully_qual_tunn_endpt_idnt_ie.gtp_fully_qual_tunn_endpt_idnt_ie_t
  | s5s8_u_pgw_fteid => gtp_fully_qual_tunn_endpt_idnt_ie.gtp_fully_qual_tunn_endpt_idnt_ie_t
  | s12_rnc_fteid => gtp_fully_qual_tunn_endpt_idnt_ie.gtp_fully_qual_tunn_endpt_idnt_ie_t
  | s2b_u_epdg_fteid => gtp_fully_qual_tunn_endpt_idnt_ie.gtp_fully_qual_tunn_endpt_idnt_ie_t
  | s2a_u_twan_fteid => gtp_fully_qual_tunn_endpt_idnt_ie.gtp_fully_qual_tunn_endpt_idnt_ie_t
  | bearer_lvl_qos => gtp_bearer_qlty_of_svc_ie.gtp_bearer_qlty_of_svc_ie_t
  | s11_u_mme_fteid => gtp_fully_qual_tunn_endpt_idnt_ie.gtp_fully_qual_tunn_endpt_idnt_ie_t
  end.

Definition gtp_create_sess_request_bearer_ctxt_to_be_created_ie_ie (f : gtp_create_sess_request_bearer_ctxt_to_be_created_ie_member) : IeMember (gtp_create_sess_request_bearer_ctxt_to_be_created_ie_type f) :=
  match f with
  | eps_bearer_id => gtp_eps_bearer_id_ie_member
  | tft => gtp_eps_bearer_lvl_traffic_flow_tmpl_ie_member
  | s1u_enb_fteid => gtp_fully_qual_tunn_endpt_idnt_ie_member
  | s4_u_sgsn_fteid => gtp_fully_qual_tunn_endpt_idnt_ie_member
  | s5s8_u_sgw_fteid => gtp_fully_qual_tunn_endpt_idnt_ie_member
  | s5s8_u_pgw_fteid => gtp_fully_qual_tunn_endpt_idnt_ie_member
  | s12_rnc_fteid => gtp_fully_qual_tunn_endpt_idnt_ie_member
  | s2b_u_epdg_fteid => gtp_fully_qual_tunn_endpt_idnt_ie_member
  | s2a_u_twan_fteid => gtp_fully_qual_tunn_endpt_idnt_ie_member
  | bearer_lvl_qos => gtp_bearer_qlty_of_svc_ie_member
  | s11_u_mme_fteid => gtp_fully_qual_tunn_endpt_idnt_ie_member
  end.

Definition gtp_create_sess_request_bearer_ctxt_to_be_created_ie_sig : signature :=
  Signature gtp_create_sess_request_bearer_ctxt_to_be_created_ie_member gtp_create_sess_request_bearer_ctxt_to_be_created_ie_eq_dec gtp_create_sess_request_bearer_ctxt_to_be_created_ie_type gtp_create_sess_request_bearer_ctxt_to_be_created_ie_ie
    Empty_set no_counter_eq_dec.
Canonical Structure gtp_create_sess_request_bearer_ctxt_to_be_created_ie_sig.

Definition gtp_create_sess_request_bearer_ctxt_to_be_created_ie_t : Type := grouped gtp_create_sess_request_bearer_ctxt_to_be_created_ie_sig.

Definition encode_gtp_create_sess_request_bearer_ctxt_to_be_created_ie_order : list (visit gtp_create_sess_request_bearer_ctxt_to_be_created_ie_sig) :=
  [One eps_bearer_id; One tft; One s1u_enb_fteid; One s4_u_sgsn_fteid; One s5s8_u_sgw_fteid;
   One s5s8_u_pgw_fteid; One s12_rnc_fteid; One s2b_u_epdg_fteid; One s2a_u_twan_fteid;
   One bearer_lvl_qos; One s11_u_mme_fteid].

Definition encode_gtp_create_sess_request_bearer_ctxt_to_be_created_ie (value : gtp_create_sess_request_bearer_ctxt_to_be_created_ie_t) (buf : Z) : enc Z :=
  encode_grouped encode_gtp_create_sess_request_bearer_ctxt_to_be_created_ie_order value buf.

Definition decode_gtp_create_sess_request_bearer_ctxt_to_be_created_ie_table : list (branch gtp_create_sess_request_bearer_ctxt_to_be_created_ie_sig) :=
  [(GTP_IE_EPS_BEARER_ID, Some GTP_IE_INSTANCE_ZERO, Into eps_bearer_id);
   (GTP_IE_EPS_BEARER_LVL_TRAFFIC_FLOW_TMPL, Some GTP_IE_INSTANCE_ZERO, Into tft);
   (GTP_IE_FULLY_QUAL_TUNN_ENDPT_IDNT, Some GTP_IE_INSTANCE_ZERO, Into s1u_enb_fteid);
   (GTP_IE_FULLY_QUAL_TUNN_ENDPT_IDNT, Some GTP_IE_INSTANCE_ONE, Into s4_u_sgsn_fteid);
   (GTP_IE_FULLY_QUAL_TUNN_ENDPT_IDNT, Some GTP_IE_INSTANCE_TWO, Into s5s8_u_sgw_fteid);
   (GTP_IE_FULLY_QUAL_TUNN_ENDPT_IDNT, Some GTP_IE_INSTANCE_THREE, Into s5s8_u_pgw_fteid);
   (GTP_IE_FULLY_QUAL_TUNN_ENDPT_IDNT, Some GTP_IE_INSTANCE_FOUR, Into s12_rnc_fteid);
   (GTP_IE_FULLY_QUAL_TUNN_ENDPT_IDNT, Some GTP_IE_INSTANCE_FIVE, Into s2b_u_epdg_fteid);
   (GTP_IE_FULLY_QUAL_TUNN_ENDPT_IDNT, Some GTP_IE_INSTANCE_SIX, Into s2a_u_twan_fteid);
   (GTP_IE_BEARER_QLTY_OF_SVC, Some GTP_IE_INSTANCE_ZERO, Into bearer_lvl_qos);
   (GTP_IE_FULLY_QUAL_TUNN_ENDPT_IDNT, Some GTP_IE_INSTANCE_SEVEN, Into s11_u_mme_fteid)].

Definition decode_gtp_create_sess_request_bearer_ctxt_to_be_created_ie (m : bytes) (buf : Z) (value : gtp_create_sess_request_bearer_ctxt_to_be_created_ie_t)
  : option (Z * gtp_create_sess_request_bearer_ctxt_to_be_created_ie_t) :=
  decode_grouped decode_gtp_create_sess_request_bearer_ctxt_to_be_created_ie_table m buf value.

#[global] Instance gtp_create_sess_request_bearer_ctxt_to_be_created_ie_member_ie : IeMember gtp_create_sess_request_bearer_ctxt_to_be_created_ie_t :=
  grouped_member encode_gtp_create_sess_request_bearer_ctxt_to_be_created_ie_order decode_gtp_create_sess_request_bearer_ctxt_to_be_created_ie_table.

End gtp_create_sess_request_bearer_ctxt_to_be_created_ie.

(** ** [gtp_upd_bearer_response__overload_ctl_info_ie] *)

Module gtp_upd_bearer_response__overload_ctl_info_ie.

Inductive gtp_upd_bearer_response__overload_ctl_info_ie_member :=
| ovrld_ctl_seqn_nbr
| ovrld_reduction_metric
| prd_of_validity.

Definition gtp_upd_bearer_response__overload_ctl_info_ie_eq_dec (f g : gtp_upd_bearer_response__overload_ctl_info_ie_member) : {f = g} + {f <> g}.
Proof. decide equality. Defined.

Definition gtp_upd_bearer_response__overload_ctl_info_ie_type (f : gtp_upd_bearer_response__overload_ctl_info_ie_member) : Type :=
  match f with
  | ovrld_ctl_seqn_nbr => gtp_sequence_number_ie.gtp_sequence_number_ie_t
  | ovrld_reduction_metric => gtp_metric_ie.gtp_metric_ie_t
  | prd_of_validity => gtp_epc_timer_ie.gtp_epc_timer_ie_t
  end.

Definition gtp_upd_bearer_response__overload_ctl_info_ie_ie (f : gtp_upd_bearer_response__overload_ctl_info_ie_member) : IeMember (gtp_upd_bearer_response__overload_ctl_info_ie_type f) :=
  match f with
  | ovrld_ctl_seqn_nbr => gtp_sequence_number_ie_member
  | ovrld_reduction_metric => gtp_metric_ie_member
  | prd_of_validity => gtp_epc_timer_ie_member
  end.

Definition gtp_upd_bearer_response__overload_ctl_info_ie_sig : signature :=
  Signature gtp_upd_bearer_response__overload_ctl_info_ie_member gtp_upd_bearer_response__overload_ctl_info_ie_eq_dec gtp_upd_bearer_response__overload_ctl_info_ie_type gtp_upd_bearer_response__overload_ctl_info_ie_ie
    Empty_set no_counter_eq_dec.
Canonical Structure gtp_upd_bearer_response__overload_ctl_info_ie_sig.

Definition gtp_upd_bearer_response__overload_ctl_info_ie_t : Type := grouped gtp_upd_bearer_response__overload_ctl_info_ie_sig.

Definition encode_gtp_upd_bearer_response__overload_ctl_info_ie_order : list (visit gtp_upd_bearer_response__overload_ctl_info_ie_sig) :=
  [One ovrld_ctl_seqn_nbr; One ovrld_reduction_metric; One prd_of_validity].

Definition encode_gtp_upd_bearer_response__overload_ctl_info_ie (value : gtp_upd_bearer_response__overload_ctl_info_ie_t) (buf : Z) : enc Z :=
  encode_grouped encode_gtp_upd_bearer_response__overload_ctl_info_ie_order value buf.

Definition decode_gtp_upd_bearer_response__overload_ctl_info_ie_table : list (branch gtp_upd_bearer_response__overload_ctl_info_ie_sig) :=
  [(GTP_IE_SEQUENCE_NUMBER, Some GTP_IE_INSTANCE_ZERO, Into ovrld_ctl_seqn_nbr);
   (GTP_IE_METRIC, Some GTP_IE_INSTANCE_ZERO, Into ovrld_reduction_metric);
   (GTP_IE_EPC_TIMER, Some GTP_IE_INSTANCE_ZERO, Into prd_of_validity)].

Definition decode_gtp_upd_bearer_response__overload_ctl_info_ie (m : bytes) (buf : Z) (value : gtp_upd_bearer_response__overload_ctl_info_ie_t)
  : option (Z * gtp_upd_bearer_response__overload_ctl_info_ie_t) :=
  decode_grouped decode_gtp_upd_bearer_response__overload_ctl_info_ie_table m buf value.

#[global] Instance gtp_upd_bearer_response__overload_ctl_info_ie_member_ie : IeMember gtp_upd_bearer_response__overload_ctl_info_ie_t :=
  grouped_member encode_gtp_upd_bearer_response__overload_ctl_info_ie_order decode_gtp_upd_bearer_response__overload_ctl_info_ie_table.

End gtp_upd_bearer_response__overload_ctl_info_ie.

(** ** [gtp_del_bearer_request__bearer_ctxt_ie] *)

Module gtp_del_bearer_request__bearer_ctxt_ie.

Inductive gtp_del_bearer_request__bearer_ctxt_ie_member :=
| eps_bearer_id
| cause.

Definition gtp_del_bearer_request__bearer_ctxt_ie_eq_dec (f g : gtp_del_bearer_request__bearer_ctxt_ie_member) : {f = g} + {f <> g}.
Proof. decide equality. Defined.

Definition gtp_del_bearer_request__bearer_ctxt_ie_type (f : gtp_del_bearer_request__bearer_ctxt_ie_member) : Type :=
  match f with
  | eps_bearer_id => gtp_eps_bearer_id_ie.gtp_eps_bearer_id_ie_t
  | cause => gtp_cause_ie.gtp_cause_ie_t
  end.

Definition gtp_del_bearer_request__bearer_ctxt_ie_ie (f : gtp_del_bearer_request__bearer_ctxt_ie_member) : IeMember (gtp_del_bearer_request__bearer_ctxt_ie_type f) :=
  match f with
  | eps_bearer_id => gtp_eps_bearer_id_ie_member
  | cause => gtp_cause_ie_member
  end.

Definition gtp_del_bearer_request__bearer_ctxt_ie_sig : signature :=
  Signature gtp_del_bearer_request__bearer_ctxt_ie_member gtp_del_bearer_request__bearer_ctxt_ie_eq_dec gtp_del_bearer_request__bearer_ctxt_ie_type gtp_del_bearer_request__bearer_ctxt_ie_ie
    Empty_set no_counter_eq_dec.
Canonical Structure gtp_del_bearer_request__bearer_ctxt_ie_sig.

Definition gtp_del_bearer_request__bearer_ctxt_ie_t : Type := grouped gtp_del_bearer_request__bearer_ctxt_ie_sig.

Definition encode_gtp_del_bearer_request__bearer_ctxt_ie_order : list (visit gtp_del_bearer_request__bearer_ctxt_ie_sig) :=
  [One eps_bearer_id; One cause].

Definition encode_gtp_del_bearer_request__bearer_ctxt_ie (value : gtp_del_bearer_request__bearer_ctxt_ie_t) (buf : Z) : enc Z :=
  encode_grouped encode_gtp_del_bearer_request__bearer_ctxt_ie_order value buf.

Definition decode_gtp_del_bearer_request__bearer_ctxt_ie_table : list (branch gtp_del_bearer_request__bearer_ctxt_ie_sig) :=
  [(GTP_IE_EPS_BEARER_ID, Some GTP_IE_INSTANCE_ZERO, Into eps_bearer_id);
   (GTP_IE_CAUSE, Some GTP_IE_INSTANCE_ZERO, Into cause)].

Definition decode_gtp_del_bearer_request__bearer_ctxt_ie (m : bytes) (buf : Z) (value : gtp_del_bearer_request__bearer_ctxt_ie_t)
  : option (Z * gtp_del_bearer_request__bearer_ctxt_ie_t) :=
  decode_grouped decode_gtp_del_bearer_request__bearer_ctxt_ie_table m buf value.

#[global] Instance gtp_del_bearer_request__bearer_ctxt_ie_member_ie : IeMember gtp_del_bearer_request__bearer_ctxt_ie_t :=
  grouped_member encode_gtp_del_bearer_request__bearer_ctxt_ie_order decode_gtp_del_bearer_request__bearer_ctxt_ie_table.

End gtp_del_bearer_request__bearer_ctxt_ie.

(** ** [gtp_upd_bearer_request__overload_ctl_info_ie] *)

Module gtp_upd_bearer_request__overload_ctl_info_ie.

Inductive gtp_upd_bearer_request__overload_ctl_info_ie_member :=
| ovrld_ctl_seqn_nbr
| ovrld_reduction_metric
| prd_of_validity
| apn.

Definition gtp_upd_bearer_request__overload_ctl_info_ie_eq_dec (f g : gtp_upd_bearer_request__overload_ctl_info_ie_member) : {f = g} + {f <> g}.
Proof. decide equality. Defined.

Definition gtp_upd_bearer_request__overload_ctl_info_ie_type (f : gtp_upd_bearer_request__overload_ctl_info_ie_member) : Type :=
  match f with
  | ovrld_ctl_seqn_nbr => gtp_sequence_number_ie.gtp_sequence_number_ie_t
  | ovrld_reduction_metric => gtp_metric_ie.gtp_metric_ie_t
  | prd_of_validity => gtp_epc_timer_ie.gtp_epc_timer_ie_t
  | apn => gtp_acc_pt_name_ie.gtp_acc_pt_name_ie_t
  end.

Definition gtp_upd_bearer_request__overload_ctl_info_ie_ie (f : gtp_upd_bearer_request__overload_ctl_info_ie_member) : IeMember (gtp_upd_bearer_request__overload_ctl_info_ie_type f) :=
  match f with
  | ovrld_ctl_seqn_nbr => gtp_sequence_number_ie_member
  | ovrld_reduction_metric => gtp_metric_ie_member
  | prd_of_validity => gtp_epc_timer_ie_member
  | apn => gtp_acc_pt_name_ie_member
  end.

Definition gtp_upd_bearer_request__overload_ctl_info_ie_sig : signature :=
  Signature gtp_upd_bearer_request__overload_ctl_info_ie_member gtp_upd_bearer_request__overload_ctl_info_ie_eq_dec gtp_upd_bearer_request__overload_ctl_info_ie_type gtp_upd_bearer_request__overload_ctl_info_ie_ie
    Empty_set no_counter_eq_dec.
Canonical Structure gtp_upd_bearer_request__overload_ctl_info_ie_sig.

Definition gtp_upd_bearer_request__overload_ctl_info_ie_t : Type := grouped gtp_upd_bearer_request__overload_ctl_info_ie_sig.

Definition encode_gtp_upd_bearer_request__overload_ctl_info_ie_order : list (visit gtp_upd_bearer_request__overload_ctl_info_ie_sig) :=
  [One ovrld_ctl_seqn_nbr; One ovrld_reduction_metric; One prd_of_validity; One apn].

Definition encode_gtp_upd_bearer_request__overload_ctl_info_ie (value : gtp_upd_bearer_request__overload_ctl_info_ie_t) (buf : Z) : enc Z :=
  encode_grouped encode_gtp_upd_bearer_request__overload_ctl_info_ie_order value buf.

Definition decode_gtp_upd_bearer_request__overload_ctl_info_ie_table : list (branch gtp_upd_bearer_request__overload_ctl_info_ie_sig) :=
  [(GTP_IE_SEQUENCE_NUMBER, Some GTP_IE_INSTANCE_ZERO, Into ovrld_ctl_seqn_nbr);
   (GTP_IE_METRIC, Some GTP_IE_INSTANCE_ZERO, Into ovrld_reduction_metric);
   (GTP_IE_EPC_TIMER, Some GTP_IE_INSTANCE_ZERO, Into prd_of_validity);
   (GTP_IE_ACC_PT_NAME, Some GTP_IE_INSTANCE_ZERO, Into apn)].

Definition decode_gtp_upd_bearer_request__overload_ctl_info_ie (m : bytes) (buf : Z) (value : gtp_upd_bearer_request__overload_ctl_info_ie_t)
  : option (Z * gtp_upd_bearer_request__overload_ctl_info_ie_t) :=
  decode_grouped decode_gtp_upd_bearer_request__overload_ctl_info_ie_table m buf value.

#[global] Instance gtp_upd_bearer_request__overload_ctl_info_ie_member_ie : IeMember gtp_upd_bearer_request__overload_ctl_info_ie_t :=
  grouped_member encode_gtp_upd_bearer_request__overload_ctl_info_ie_order decode_gtp_upd_bearer_request__overload_ctl_info_ie_table.

End gtp_upd_bearer_request__overload_ctl_info_ie.

(** ** [gtp_fwd_reloc_request__mmesgsnamf_ue_eps_pdn_connections_ie] *)

Module gtp_fwd_reloc_request__mmesgsnamf_ue_eps_pdn_connections_ie.

Inductive gtp_fwd_reloc_request__mmesgsnamf_ue_eps_pdn_connections_ie_member :=
| apn
| apn_restriction
| selection_mode
| ipv4_address
| ipv6_address
| linked_eps_bearer_id
| pgw_s5s8_ip_addr_ctl_plane_or_pmip
| bearer_contexts
| apn_ambr
| chrgng_char
| chg_rptng_act
| csg_info_rptng_act
| henb_info_rptng
| indctn_flgs
| sgnllng_priority_indctn
| chg_to_rpt_flgs
| local_home_ntwk_id
| pres_rptng_area_act
| wlan_offldblty_indctn
| rmt_ue_ctxt_connected
| pdn_type
| hdr_comp_cfg.

Definition gtp_fwd_reloc_request__mmesgsnamf_ue_eps_pdn_connections_ie_eq_dec (f g : gtp_fwd_reloc_request__mmesgsnamf_ue_eps_pdn_connections_ie_member) : {f = g} + {f <> g}.
Proof. decide equality. Defined.

Definition gtp_fwd_reloc_request__mmesgsnamf_ue_eps_pdn_connections_ie_type (f : gtp_fwd_reloc_request__mmesgsnamf_ue_eps_pdn_connections_ie_member) : Type :=
  match f with
  | apn => gtp_acc_pt_name_ie.gtp_acc_pt_name_ie_t
  | apn_restriction => gtp_apn_restriction_ie.gtp_apn_restriction_ie_t
  | selection_mode => gtp_selection_mode_ie.gtp_selection_mode_ie_t
  | ipv4_address => gtp_ip_address_ie.gtp_ip_address_ie_t
  | ipv6_address => gtp_ip_address_ie.gtp_ip_address_ie_t
  | linked_eps_bearer_id => gtp_eps_bearer_id_ie.gtp_eps_bearer_id_ie_t
  | pgw_s5s8_ip_addr_ctl_plane_or_pmip => gtp_fully_qual_tunn_endpt_idnt_ie.gtp_fully_qual_tunn_endpt_idnt_ie_t
  | bearer_contexts => gtp_bearer_context_ie.gtp_bearer_context_ie_t
  | apn_ambr => gtp_agg_max_bit_rate_ie.gtp_agg_max_bit_rate_ie_t
  | chrgng_char => gtp_chrgng_char_ie.gtp_chrgng_char_ie_t
  | chg_rptng_act => gtp_chg_rptng_act_ie.gtp_chg_rptng_act_ie_t
  | csg_info_rptng_act => gtp_csg_info_rptng_act_ie.gtp_csg_info_rptng_act_ie_t
  | henb_info_rptng => gtp_henb_info_rptng_ie.gtp_henb_info_rptng_ie_t
  | indctn_flgs => gtp_indication_ie.gtp_indication_ie_t
  | sgnllng_priority_indctn => gtp_sgnllng_priority_indctn_ie.gtp_sgnllng_priority_indctn_ie_t
  | chg_to_rpt_flgs => gtp_chg_to_rpt_flgs_ie.gtp_chg_to_rpt_flgs_ie_t
  | local_home_ntwk_id => gtp_fully_qual_domain_name_ie.gtp_fully_qual_domain_name_ie_t
  | pres_rptng_area_act => gtp_pres_rptng_area_act_ie.gtp_pres_rptng_area_act_ie_t
  | wlan_offldblty_indctn => gtp_wlan_offldblty_indctn_ie.gtp_wlan_offldblty_indctn_ie_t
  | rmt_ue_ctxt_connected => gtp_rmt_ue_ctxt_ie.gtp_rmt_ue_ctxt_ie_t
  | pdn_type => gtp_pdn_type_ie.gtp_pdn_type_ie_t
  | hdr_comp_cfg => gtp_hdr_comp_cfg_ie.gtp_hdr_comp_cfg_ie_t
  end.

Definition gtp_fwd_reloc_request__mmesgsnamf_ue_eps_pdn_connections_ie_ie (f : gtp_fwd_reloc_request__mmesgsnamf_ue_eps_pdn_connections_ie_member) : IeMember (gtp_fwd_reloc_request__mmesgsnamf_ue_eps_pdn_connections_ie_type f) :=
  match f with
  | apn => gtp_acc_pt_name_ie_member
  | apn_restriction => gtp_apn_restriction_ie_member
  | selection_mode => gtp_selection_mode_ie_member
  | ipv4_address => gtp_ip_address_ie_member
  | ipv6_address => gtp_ip_address_ie_member
  | linked_eps_bearer_id => gtp_eps_bearer_id_ie_member
  | pgw_s5s8_ip_addr_ctl_plane_or_pmip => gtp_fully_qual_tunn_endpt_idnt_ie_member
  | bearer_contexts => gtp_bearer_context_ie_member
  | apn_ambr => gtp_agg_max_bit_rate_ie_member
  | chrgng_char => gtp_chrgng_char_ie_member
  | chg_rptng_act => gtp_chg_rptng_act_ie_member
  | csg_info_rptng_act => gtp_csg_info_rptng_act_ie_member
  | henb_info_rptng => gtp_henb_info_rptng_ie_member
  | indctn_flgs => gtp_indication_ie_member
  | sgnllng_priority_indctn => gtp_sgnllng_priority_indctn_ie_member
  | chg_to_rpt_flgs => gtp_chg_to_rpt_flgs_ie_member
  | local_home_ntwk_id => gtp_fully_qual_domain_name_ie_member
  | pres_rptng_area_act => gtp_pres_rptng_area_act_ie_member
  | wlan_offldblty_indctn => gtp_wlan_offldblty_indctn_ie_member
  | rmt_ue_ctxt_connected => gtp_rmt_ue_ctxt_ie_member
  | pdn_type => gtp_pdn_type_ie_member
  | hdr_comp_cfg => gtp_hdr_comp_cfg_ie_member
  end.

Definition gtp_fwd_reloc_request__mmesgsnamf_ue_eps_pdn_connections_ie_sig : signature :=
  Signature gtp_fwd_reloc_request__mmesgsnamf_ue_eps_pdn_connections_ie_member gtp_fwd_reloc_request__mmesgsnamf_ue_eps_pdn_connections_ie_eq_dec gtp_fwd_reloc_request__mmesgsnamf_ue_eps_pdn_connections_ie_type gtp_fwd_reloc_request__mmesgsnamf_ue_eps_pdn_connections_ie_ie
    Empty_set no_counter_eq_dec.
Canonical Structure gtp_fwd_reloc_request__mmesgsnamf_ue_eps_pdn_connections_ie_sig.

Definition gtp_fwd_reloc_request__mmesgsnamf_ue_eps_pdn_connections_ie_t : Type := grouped gtp_fwd_reloc_request__mmesgsnamf_ue_eps_pdn_connections_ie_sig.

Definition encode_gtp_fwd_reloc_request__mmesgsnamf_ue_eps_pdn_connections_ie_order : list (visit gtp_fwd_reloc_request__mmesgsnamf_ue_eps_pdn_connections_ie_sig) :=
  [One apn; One apn_restriction; One selection_mode; One ipv4_address; One ipv6_address;
   One linked_eps_bearer_id; One pgw_s5s8_ip_addr_ctl_plane_or_pmip; One bearer_contexts;
   One apn_ambr; One chrgng_char; One chg_rptng_act; One csg_info_rptng_act;
   One henb_info_rptng; One indctn_flgs; One sgnllng_priority_indctn; One chg_to_rpt_flgs;
   One local_home_ntwk_id; One pres_rptng_area_act; One wlan_offldblty_indctn;
   One rmt_ue_ctxt_connected; One pdn_type; One hdr_comp_cfg].

Definition encode_gtp_fwd_reloc_request__mmesgsnamf_ue_eps_pdn_connections_ie (value : gtp_fwd_reloc_request__mmesgsnamf_ue_eps_pdn_connections_ie_t) (buf : Z) : enc Z :=
  encode_grouped encode_gtp_fwd_reloc_request__mmesgsnamf_ue_eps_pdn_connections_ie_order value buf.

Definition decode_gtp_fwd_reloc_request__mmesgsnamf_ue_eps_pdn_connections_ie_table : list (branch gtp_fwd_reloc_request__mmesgsnamf_ue_eps_pdn_connections_ie_sig) :=
  [(GTP_IE_ACC_PT_NAME, Some GTP_IE_INSTANCE_ZERO, Into apn);
   (GTP_IE_APN_RESTRICTION, Some GTP_IE_INSTANCE_ZERO, Into apn_restriction);
   (GTP_IE_SELECTION_MODE, Some GTP_IE_INSTANCE_ZERO, Into selection_mode);
   (GTP_IE_IP_ADDRESS, Some GTP_IE_INSTANCE_ZERO, Into ipv4_address);
   (GTP_IE_IP_ADDRESS, Some GTP_IE_INSTANCE_ONE, Into ipv6_address);
   (GTP_IE_EPS_BEARER_ID, Some GTP_IE_INSTANCE_ZERO, Into linked_eps_bearer_id);
   (GTP_IE_FULLY_QUAL_TUNN_ENDPT_IDNT, Some GTP_IE_INSTANCE_ZERO, Into pgw_s5s8_ip_addr_ctl_plane_or_pmip);
   (GTP_IE_BEARER_CONTEXT, Some GTP_IE_INSTANCE_ZERO, Into bearer_contexts);
   (GTP_IE_AGG_MAX_BIT_RATE, Some GTP_IE_INSTANCE_ZERO, Into apn_ambr);
   (GTP_IE_CHRGNG_CHAR, Some GTP_IE_INSTANCE_ZERO, Into chrgng_char);
   (GTP_IE_CHG_RPTNG_ACT, Some GTP_IE_INSTANCE_ZERO, Into chg_rptng_act);
   (GTP_IE_CSG_INFO_RPTNG_ACT, Some GTP_IE_INSTANCE_ZERO, Into csg_info_rptng_act);
   (GTP_IE_HENB_INFO_RPTNG, Some GTP_IE_INSTANCE_ZERO, Into henb_info_rptng);
   (GTP_IE_INDICATION, Some GTP_IE_INSTANCE_ZERO, Into indctn_flgs);
   (GTP_IE_SGNLLNG_PRIORITY_INDCTN, Some GTP_IE_INSTANCE_ZERO, Into sgnllng_priority_indctn);
   (GTP_IE_CHG_TO_RPT_FLGS, Some GTP_IE_INSTANCE_ZERO, Into chg_to_rpt_flgs);
   (GTP_IE_FULLY_QUAL_DOMAIN_NAME, Some GTP_IE_INSTANCE_ONE, Into local_home_ntwk_id);
   (GTP_IE_PRES_RPTNG_AREA_ACT, Some GTP_IE_INSTANCE_ZERO, Into pres_rptng_area_act);
   (GTP_IE_WLAN_OFFLDBLTY_INDCTN, Some GTP_IE_INSTANCE_ZERO, Into wlan_offldblty_indctn);
   (GTP_IE_RMT_UE_CTXT, Some GTP_IE_INSTANCE_ZERO, Into rmt_ue_ctxt_connected);
   (GTP_IE_PDN_TYPE, Some GTP_IE_INSTANCE_ZERO, Into pdn_type);
   (GTP_IE_HDR_COMP_CFG, Some GTP_IE_INSTANCE_ZERO, Into hdr_comp_cfg)].

Definition decode_gtp_fwd_reloc_request__mmesgsnamf_ue_eps_pdn_connections_ie (m : bytes) (buf : Z) (value : gtp_fwd_reloc_request__mmesgsnamf_ue_eps_pdn_connections_ie_t)
  : option (Z * gtp_fwd_reloc_request__mmesgsnamf_ue_eps_pdn_connections_ie_t) :=
  decode_grouped decode_gtp_fwd_reloc_request__mmesgsnamf_ue_eps_pdn_connections_ie_table m buf value.

#[global] Instance gtp_fwd_reloc_request__mmesgsnamf_ue_eps_pdn_connections_ie_member_ie : IeMember gtp_fwd_reloc_request__mmesgsnamf_ue_eps_pdn_connections_ie_t :=
  grouped_member encode_gtp_fwd_reloc_request__mmesgsnamf_ue_eps_pdn_connections_ie_order decode_gtp_fwd_reloc_request__mmesgsnamf_ue_eps_pdn_connections_ie_table.

End gtp_fwd_reloc_request__mmesgsnamf_ue_eps_pdn_connections_ie.

(** ** [gtp_dnlnk_data_notification__load_ctl_info_ie] *)

Module gtp_dnlnk_data_notification__load_ctl_info_ie.

Inductive gtp_dnlnk_data_notification__load_ctl_info_ie_member :=
| load_ctl_seqn_nbr
| load_metric.

Definition gtp_dnlnk_data_notification__load_ctl_info_ie_eq_dec (f g : gtp_dnlnk_data_notification__load_ctl_info_ie_member) : {f = g} + {f <> g}.
Proof. decide equality. Defined.

Definition gtp_dnlnk_data_notification__load_ctl_info_ie_type (f : gtp_dnlnk_data_notification__load_ctl_info_ie_member) : Type :=
  match f with
  | load_ctl_seqn_nbr => gtp_sequence_number_ie.gtp_sequence_number_ie_t
  | load_metric => gtp_metric_ie.gtp_metric_ie_t
  end.

Definition gtp_dnlnk_data_notification__load_ctl_info_ie_ie (f : gtp_dnlnk_data_notification__load_ctl_info_ie_member) : IeMember (gtp_dnlnk_data_notification__load_ctl_info_ie_type f) :=
  match f with
  | load_ctl_seqn_nbr => gtp_sequence_number_ie_member
  | load_metric => gtp_metric_ie_member
  end.

Definition gtp_dnlnk_data_notification__load_ctl_info_ie_sig : signature :=
  Signature gtp_dnlnk_data_notification__load_ctl_info_ie_member gtp_dnlnk_data_notification__load_ctl_info_ie_eq_dec gtp_dnlnk_data_notification__load_ctl_info_ie_type gtp_dnlnk_data_notification__load_ctl_info_ie_ie
    Empty_set no_counter_eq_dec.
Canonical Structure gtp_dnlnk_data_notification__load_ctl_info_ie_sig.

Definition gtp_dnlnk_data_notification__load_ctl_info_ie_t : Type := grouped gtp_dnlnk_data_notification__load_ctl_info_ie_sig.

Definition encode_gtp_dnlnk_data_notification__load_ctl_info_ie_order : list (visit gtp_dnlnk_data_notification__load_ctl_info_ie_sig) :=
  [One load_ctl_seqn_nbr; One load_metric].

Definition encode_gtp_dnlnk_data_notification__load_ctl_info_ie (value : gtp_dnlnk_data_notification__load_ctl_info_ie_t) (buf : Z) : enc Z :=
  encode_grouped encode_gtp_dnlnk_data_notification__load_ctl_info_ie_order value buf.

Definition decode_gtp_dnlnk_data_notification__load_ctl_info_ie_table : list (branch gtp_dnlnk_data_notification__load_ctl_info_ie_sig) :=
  [(GTP_IE_SEQUENCE_NUMBER, Some GTP_IE_INSTANCE_ZERO, Into load_ctl_seqn_nbr);
   (GTP_IE_METRIC, Some GTP_IE_INSTANCE_ZERO, Into load_metric)].

Definition decode_gtp_dnlnk_data_notification__load_ctl_info_ie (m : bytes) (buf : Z) (value : gtp_dnlnk_data_notification__load_ctl_info_ie_t)
  : option (Z * gtp_dnlnk_data_notification__load_ctl_info_ie_t) :=
  decode_grouped decode_gtp_dnlnk_data_notification__load_ctl_info_ie_table m buf value.

#[global] Instance gtp_dnlnk_data_notification__load_ctl_info_ie_member_ie : IeMember gtp_dnlnk_data_notification__load_ctl_info_ie_t :=
  grouped_member encode_gtp_dnlnk_data_notification__load_ctl_info_ie_order decode_gtp_dnlnk_data_notification__load_ctl_info_ie_table.

End gtp_dnlnk_data_notification__load_ctl_info_ie.

(** ** [gtp_ctxt_response__bearer_ctxt_ie] *)

Module gtp_ctxt_response__bearer_ctxt_ie.

Inductive gtp_ctxt_response__bearer_ctxt_ie_member :=
| eps_bearer_id
| tft
| sgw_s1s4s12s11_ip_addr_and_teid_user_plane
| pgw_s5s8_ip_addr_and_teid_user_plane
| bearer_lvl_qos
| bss_container
| trans_idnt
| sgw_s11_ip_addr_and_teid_user_plane.

Definition gtp_ctxt_response__bearer_ctxt_ie_eq_dec (f g : gtp_ctxt_response__bearer_ctxt_ie_member) : {f = g} + {f <> g}.
Proof. decide equality. Defined.

Definition gtp_ctxt_response__bearer_ctxt_ie_type (f : gtp_ctxt_response__bearer_ctxt_ie_member) : Type :=
  match f with
  | eps_bearer_id => gtp_eps_bearer_id_ie.gtp_eps_bearer_id_ie_t
  | tft => gtp_eps_bearer_lvl_traffic_flow_tmpl_ie.gtp_eps_bearer_lvl_traffic_flow_tmpl_ie_t
  | sgw_s1s4s12s11_ip_addr_and_teid_user_plane => gtp_fully_qual_tunn_endpt_idnt_ie.gtp_fully_qual_tunn_endpt_idnt_ie_t
  | pgw_s5s8_ip_addr_and_teid_user_plane => gtp_fully_qual_tunn_endpt_idnt_ie.gtp_fully_qual_tunn_endpt_idnt_ie_t
  | bearer_lvl_qos => gtp_bearer_qlty_of_svc_ie.gtp_bearer_qlty_of_svc_ie_t
  | bss_container => gtp_full_qual_cntnr_ie.gtp_full_qual_cntnr_ie_t
  | trans_idnt => gtp_trans_idnt_ie.gtp_trans_idnt_ie_t
  | sgw_s11_ip_addr_and_teid_user_plane => gtp_fully_qual_tunn_endpt_idnt_ie.gtp_fully_qual_tunn_endpt_idnt_ie_t
  end.

Definition gtp_ctxt_response__bearer_ctxt_ie_ie (f : gtp_ctxt_response__bearer_ctxt_ie_member) : IeMember (gtp_ctxt_response__bearer_ctxt_ie_type f) :=
  match f with
  | eps_bearer_id => gtp_eps_bearer_id_ie_member
  | tft => gtp_eps_bearer_lvl_traffic_flow_tmpl_ie_member
  | sgw_s1s4s12s11_ip_addr_and_teid_user_plane => gtp_fully_qual_tunn_endpt_idnt_ie_member
  | pgw_s5s8_ip_addr_and_teid_user_plane => gtp_fully_qual_tunn_endpt_idnt_ie_member
  | bearer_lvl_qos => gtp_bearer_qlty_of_svc_ie_member
  | bss_container => gtp_full_qual_cntnr_ie_member
  | trans_idnt => gtp_trans_idnt_ie_member
  | sgw_s11_ip_addr_and_teid_user_plane => gtp_fully_qual_tunn_endpt_idnt_ie_member
  end.

Definition gtp_ctxt_response__bearer_ctxt_ie_sig : signature :=
  Signature gtp_ctxt_response__bearer_ctxt_ie_member gtp_ctxt_response__bearer_ctxt_ie_eq_dec gtp_ctxt_response__bearer_ctxt_ie_type gtp_ctxt_response__bearer_ctxt_ie_ie
    Empty_set no_counter_eq_dec.
Canonical Structure gtp_ctxt_response__bearer_ctxt_ie_sig.

Definition gtp_ctxt_response__bearer_ctxt_ie_t : Type := grouped gtp_ctxt_response__bearer_ctxt_ie_sig.

Definition encode_gtp_ctxt_response__bearer_ctxt_ie_order : list (visit gtp_ctxt_response__bearer_ctxt_ie_sig) :=
  [One eps_bearer_id; One tft; One sgw_s1s4s12s11_ip_addr_and_teid_user_plane;
   One pgw_s5s8_ip_addr_and_teid_user_plane; One bearer_lvl_qos; One bss_container;
   One trans_idnt; One sgw_s11_ip_addr_and_teid_user_plane].

Definition encode_gtp_ctxt_response__bearer_ctxt_ie (value : gtp_ctxt_response__bearer_ctxt_ie_t) (buf : Z) : enc Z :=
  encode_grouped encode_gtp_ctxt_response__bearer_ctxt_ie_order value buf.

Definition decode_gtp_ctxt_response__bearer_ctxt_ie_table : list (branch gtp_ctxt_response__bearer_ctxt_ie_sig) :=
  [(GTP_IE_EPS_BEARER_ID, Some GTP_IE_INSTANCE_ZERO, Into eps_bearer_id);
   (GTP_IE_EPS_BEARER_LVL_TRAFFIC_FLOW_TMPL, Some GTP_IE_INSTANCE_ZERO, Into tft);
   (GTP_IE_FULLY_QUAL_TUNN_ENDPT_IDNT, Some GTP_IE_INSTANCE_ZERO, Into sgw_s1s4s12s11_ip_addr_and_teid_user_plane);
   (GTP_IE_FULLY_QUAL_TUNN_ENDPT_IDNT, Some GTP_IE_INSTANCE_ONE, Into pgw_s5s8_ip_addr_and_teid_user_plane);
   (GTP_IE_BEARER_QLTY_OF_SVC, Some GTP_IE_INSTANCE_ZERO, Into bearer_lvl_qos);
   (GTP_IE_FULL_QUAL_CNTNR, Some GTP_IE_INSTANCE_ZERO, Into bss_container);
   (GTP_IE_TRANS_IDNT, Some GTP_IE_INSTANCE_ZERO, Into trans_idnt);
   (GTP_IE_FULLY_QUAL_TUNN_ENDPT_IDNT, Some GTP_IE_INSTANCE_TWO, Into sgw_s11_ip_addr_and_teid_user_plane)].

Definition decode_gtp_ctxt_response__bearer_ctxt_ie (m : bytes) (buf : Z) (value : gtp_ctxt_response__bearer_ctxt_ie_t)
  : option (Z * gtp_ctxt_response__bearer_ctxt_ie_t) :=
  decode_grouped decode_gtp_ctxt_response__bearer_ctxt_ie_table m buf value.

#[global] Instance gtp_ctxt_response__bearer_ctxt_ie_member_ie : IeMember gtp_ctxt_response__bearer_ctxt_ie_t :=
  grouped_member encode_gtp_ctxt_response__bearer_ctxt_ie_order decode_gtp_ctxt_response__bearer_ctxt_ie_table.

End gtp_ctxt_response__bearer_ctxt_ie.

(** ** [gtp_ctxt_response__remote_ue_ctxt_connected_ie] *)

Module gtp_ctxt_response__remote_ue_ctxt_connected_ie.

Inductive gtp_ctxt_response__remote_ue_ctxt_connected_ie_member :=
| remote_user_id
| rmt_ue_ip_info.

Definition gtp_ctxt_response__remote_ue_ctxt_connected_ie_eq_dec (f g : gtp_ctxt_response__remote_ue_ctxt_connected_ie_member) : {f = g} + {f <> g}.
Proof. decide equality. Defined.

Definition gtp_ctxt_response__remote_ue_ctxt_connected_ie_type (f : gtp_ctxt_response__remote_ue_ctxt_connected_ie_member) : Type :=
  match f with
  | remote_user_id => gtp_remote_user_id_ie.gtp_remote_user_id_ie_t
  | rmt_ue_ip_info => gtp_rmt_ue_ip_info_ie.gtp_rmt_ue_ip_info_ie_t
  end.

Definition gtp_ctxt_response__remote_ue_ctxt_connected_ie_ie (f : gtp_ctxt_response__remote_ue_ctxt_connected_ie_member) : IeMember (gtp_ctxt_response__remote_ue_ctxt_connected_ie_type f) :=
  match f with
  | remote_user_id => gtp_remote_user_id_ie_member
  | rmt_ue_ip_info => gtp_rmt_ue_ip_info_ie_member
  end.

Definition gtp_ctxt_response__remote_ue_ctxt_connected_ie_sig : signature :=
  Signature gtp_ctxt_response__remote_ue_ctxt_connected_ie_member gtp_ctxt_response__remote_ue_ctxt_connected_ie_eq_dec gtp_ctxt_response__remote_ue_ctxt_connected_ie_type gtp_ctxt_response__remote_ue_ctxt_connected_ie_ie
    Empty_set no_counter_eq_dec.
Canonical Structure gtp_ctxt_response__remote_ue_ctxt_connected_ie_sig.

Definition gtp_ctxt_response__remote_ue_ctxt_connected_ie_t : Type := grouped gtp_ctxt_response__remote_ue_ctxt_connected_ie_sig.

Definition encode_gtp_ctxt_response__remote_ue_ctxt_connected_ie_order : list (visit gtp_ctxt_response__remote_ue_ctxt_connected_ie_sig) :=
  [One remote_user_id; One rmt_ue_ip_info].

Definition encode_gtp_ctxt_response__remote_ue_ctxt_connected_ie (value : gtp_ctxt_response__remote_ue_ctxt_connected_ie_t) (buf : Z) : enc Z :=
  encode_grouped encode_gtp_ctxt_response__remote_ue_ctxt_connected_ie_order value buf.

Definition decode_gtp_ctxt_response__remote_ue_ctxt_connected_ie_table : list (branch gtp_ctxt_response__remote_ue_ctxt_connected_ie_sig) :=
  [(GTP_IE_REMOTE_USER_ID, Some GTP_IE_INSTANCE_ZERO, Into remote_user_id);
   (GTP_IE_RMT_UE_IP_INFO, Some GTP_IE_INSTANCE_ZERO, Into rmt_ue_ip_info)].

Definition decode_gtp_ctxt_response__remote_ue_ctxt_connected_ie (m : bytes) (buf : Z) (value : gtp_ctxt_response__remote_ue_ctxt_connected_ie_t)
  : option (Z * gtp_ctxt_response__remote_ue_ctxt_connected_ie_t) :=
  decode_grouped decode_gtp_ctxt_response__remote_ue_ctxt_connected_ie_table m buf value.

#[global] Instance gtp_ctxt_response__remote_ue_ctxt_connected_ie_member_ie : IeMember gtp_ctxt_response__remote_ue_ctxt_connected_ie_t :=
  grouped_member encode_gtp_ctxt_response__remote_ue_ctxt_connected_ie_order decode_gtp_ctxt_response__remote_ue_ctxt_connected_ie_table.

End gtp_ctxt_response__remote_ue_ctxt_connected_ie.

(** ** [gtp_mod_bearer_request_overload_ctl_info_ie] *)

Module gtp_mod_bearer_request_overload_ctl_info_ie.

Inductive gtp_mod_bearer_request_overload_ctl_info_ie_member :=
| ovrld_ctl_seqn_nbr
| ovrld_reduction_metric
| prd_of_validity.

Definition gtp_mod_bearer_request_overload_ctl_info_ie_eq_dec (f g : gtp_mod_bearer_request_overload_ctl_info_ie_member) : {f = g} + {f <> g}.
Proof. decide equality. Defined.

Definition gtp_mod_bearer_request_overload_ctl_info_ie_type (f : gtp_mod_bearer_request_overload_ctl_info_ie_member) : Type :=
  match f with
  | ovrld_ctl_seqn_nbr => gtp_sequence_number_ie.gtp_sequence_number_ie_t
  | ovrld_reduction_metric => gtp_metric_ie.gtp_metric_ie_t
  | prd_of_validity => gtp_epc_timer_ie.gtp_epc_timer_ie_t
  end.

Definition gtp_mod_bearer_request_overload_ctl_info_ie_ie (f : gtp_mod_bearer_request_overload_ctl_info_ie_member) : IeMember (gtp_mod_bearer_request_overload_ctl_info_ie_type f) :=
  match f with
  | ovrld_ctl_seqn_nbr => gtp_sequence_number_ie_member
  | ovrld_reduction_metric => gtp_metric_ie_member
  | prd_of_validity => gtp_epc_timer_ie_member
  end.

Definition gtp_mod_bearer_request_overload_ctl_info_ie_sig : signature :=
  Signature gtp_mod_bearer_request_overload_ctl_info_ie_member gtp_mod_bearer_request_overload_ctl_info_ie_eq_dec gtp_mod_bearer_request_overload_ctl_info_ie_type gtp_mod_bearer_request_overload_ctl_info_ie_ie
    Empty_set no_counter_eq_dec.
Canonical Structure gtp_mod_bearer_request_overload_ctl_info_ie_sig.

Definition gtp_mod_bearer_request_overload_ctl_info_ie_t : Type := grouped gtp_mod_bearer_request_overload_ctl_info_ie_sig.

Definition encode_gtp_mod_bearer_request_overload_ctl_info_ie_order : list (visit gtp_mod_bearer_request_overload_ctl_info_ie_sig) :=
  [One ovrld_ctl_seqn_nbr; One ovrld_reduction_metric; One prd_of_validity].

Definition encode_gtp_mod_bearer_request_overload_ctl_info_ie (value : gtp_mod_bearer_request_overload_ctl_info_ie_t) (buf : Z) : enc Z :=
  encode_grouped encode_gtp_mod_bearer_request_overload_ctl_info_ie_order value buf.

Definition decode_gtp_mod_bearer_request_overload_ctl_info_ie_table : list (branch gtp_mod_bearer_request_overload_ctl_info_ie_sig) :=
  [(GTP_IE_SEQUENCE_NUMBER, Some GTP_IE_INSTANCE_ZERO, Into ovrld_ctl_seqn_nbr);
   (GTP_IE_METRIC, Some GTP_IE_INSTANCE_ZERO, Into ovrld_reduction_metric);
   (GTP_IE_EPC_TIMER, Some GTP_IE_INSTANCE_ZERO, Into prd_of_validity)].

Definition decode_gtp_mod_bearer_request_overload_ctl_info_ie (m : bytes) (buf : Z) (value : gtp_mod_bearer_request_overload_ctl_info_ie_t)
  : option (Z * gtp_mod_bearer_request_overload_ctl_info_ie_t) :=
  decode_grouped decode_gtp_mod_bearer_request_overload_ctl_info_ie_table m buf value.

#[global] Instance gtp_mod_bearer_request_overload_ctl_info_ie_member_ie : IeMember gtp_mod_bearer_request_overload_ctl_info_ie_t :=
  grouped_member encode_gtp_mod_bearer_request_overload_ctl_info_ie_order decode_gtp_mod_bearer_request_overload_ctl_info_ie_table.

End gtp_mod_bearer_request_overload_ctl_info_ie.

(** ** [gtp_fwd_reloc_request__bearer_ctxt_ie] *)

Module gtp_fwd_reloc_request__bearer_ctxt_ie.

Inductive gtp_fwd_reloc_request__bearer_ctxt_ie_member :=
| eps_bearer_id
| tft
| sgw_s1s4s12_ip_addr_and_teid_user_plane
| pgw_s5s8_ip_addr_and_teid_user_plane
| bearer_lvl_qos
| bss_container
| trans_idnt
| bearer_flags
| sgw_s11_ip_addr_and_teid_user_plane.

Definition gtp_fwd_reloc_request__bearer_ctxt_ie_eq_dec (f g : gtp_fwd_reloc_request__bearer_ctxt_ie_member) : {f = g} + {f <> g}.
Proof. decide equality. Defined.

Definition gtp_fwd_reloc_request__bearer_ctxt_ie_type (f : gtp_fwd_reloc_request__bearer_ctxt_ie_member) : Type :=
  match f with
  | eps_bearer_id => gtp_eps_bearer_id_ie.gtp_eps_bearer_id_ie_t
  | tft => gtp_eps_bearer_lvl_traffic_flow_tmpl_ie.gtp_eps_bearer_lvl_traffic_flow_tmpl_ie_t
  | sgw_s1s4s12_ip_addr_and_teid_user_plane => gtp_fully_qual_tunn_endpt_idnt_ie.gtp_fully_qual_tunn_endpt_idnt_ie_t
  | pgw_s5s8_ip_addr_and_teid_user_plane => gtp_fully_qual_tunn_endpt_idnt_ie.gtp_fully_qual_tunn_endpt_idnt_ie_t
  | bearer_lvl_qos => gtp_bearer_qlty_of_svc_ie.gtp_bearer_qlty_of_svc_ie_t
  | bss_container => gtp_full_qual_cntnr_ie.gtp_full_qual_cntnr_ie_t
  | trans_idnt => gtp_trans_idnt_ie.gtp_trans_idnt_ie_t
  | bearer_flags => gtp_bearer_flags_ie.gtp_bearer_flags_ie_t
  | sgw_s11_ip_addr_and_teid_user_plane => gtp_fully_qual_tunn_endpt_idnt_ie.gtp_fully_qual_tunn_endpt_idnt_ie_t
  end.

Definition gtp_fwd_reloc_request__bearer_ctxt_ie_ie (f : gtp_fwd_reloc_request__bearer_ctxt_ie_member) : IeMember (gtp_fwd_reloc_request__bearer_ctxt_ie_type f) :=
  match f with
  | eps_bearer_id => gtp_eps_bearer_id_ie_member
  | tft => gtp_eps_bearer_lvl_traffic_flow_tmpl_ie_member
  | sgw_s1s4s12_ip_addr_and_teid_user_plane => gtp_fully_qual_tunn_endpt_idnt_ie_member
  | pgw_s5s8_ip_addr_and_teid_user_plane => gtp_fully_qual_tunn_endpt_idnt_ie_member
  | bearer_lvl_qos => gtp_bearer_qlty_of_svc_ie_member
  | bss_container => gtp_full_qual_cntnr_ie_member
  | trans_idnt => gtp_trans_idnt_ie_member
  | bearer_flags => gtp_bearer_flags_ie_member
  | sgw_s11_ip_addr_and_teid_user_plane => gtp_fully_qual_tunn_endpt_idnt_ie_member
  end.

Definition gtp_fwd_reloc_request__bearer_ctxt_ie_sig : signature :=
  Signature gtp_fwd_reloc_request__bearer_ctxt_ie_member gtp_fwd_reloc_request__bearer_ctxt_ie_eq_dec gtp_fwd_reloc_request__bearer_ctxt_ie_type gtp_fwd_reloc_request__bearer_ctxt_ie_ie
    Empty_set no_counter_eq_dec.
Canonical Structure gtp_fwd_reloc_request__bearer_ctxt_ie_sig.

Definition gtp_fwd_reloc_request__bearer_ctxt_ie_t : Type := grouped gtp_fwd_reloc_request__bearer_ctxt_ie_sig.

Definition encode_gtp_fwd_reloc_request__bearer_ctxt_ie_order : list (visit gtp_fwd_reloc_request__bearer_ctxt_ie_sig) :=
  [One eps_bearer_id; One tft; One sgw_s1s4s12_ip_addr_and_teid_user_plane;
   One pgw_s5s8_ip_addr_and_teid_user_plane; One bearer_lvl_qos; One bss_container;
   One trans_idnt; One bearer_flags; One sgw_s11_ip_addr_and_teid_user_plane].

Definition encode_gtp_fwd_reloc_request__bearer_ctxt_ie (value : gtp_fwd_reloc_request__bearer_ctxt_ie_t) (buf : Z) : enc Z :=
  encode_grouped encode_gtp_fwd_reloc_request__bearer_ctxt_ie_order value buf.

Definition decode_gtp_fwd_reloc_request__bearer_ctxt_ie_table : list (branch gtp_fwd_reloc_request__bearer_ctxt_ie_sig) :=
  [(GTP_IE_EPS_BEARER_ID, Some GTP_IE_INSTANCE_ZERO, Into eps_bearer_id);
   (GTP_IE_EPS_BEARER_LVL_TRAFFIC_FLOW_TMPL, Some GTP_IE_INSTANCE_ZERO, Into tft);
   (GTP_IE_FULLY_QUAL_TUNN_ENDPT_IDNT, Some GTP_IE_INSTANCE_ZERO, Into sgw_s1s4s12_ip_addr_and_teid_user_plane);
   (GTP_IE_FULLY_QUAL_TUNN_ENDPT_IDNT, Some GTP_IE_INSTANCE_ONE, Into pgw_s5s8_ip_addr_and_teid_user_plane);
   (GTP_IE_BEARER_QLTY_OF_SVC, Some GTP_IE_INSTANCE_ZERO, Into bearer_lvl_qos);
   (GTP_IE_FULL_QUAL_CNTNR, Some GTP_IE_INSTANCE_ZERO, Into bss_container);
   (GTP_IE_TRANS_IDNT, Some GTP_IE_INSTANCE_ZERO, Into trans_idnt);
   (GTP_IE_BEARER_FLAGS, Some GTP_IE_INSTANCE_ZERO, Into bearer_flags);
   (GTP_IE_FULLY_QUAL_TUNN_ENDPT_IDNT, Some GTP_IE_INSTANCE_TWO, Into sgw_s11_ip_addr_and_teid_user_plane)].

Definition decode_gtp_fwd_reloc_request__bearer_ctxt_ie (m : bytes) (buf : Z) (value : gtp_fwd_reloc_request__bearer_ctxt_ie_t)
  : option (Z * gtp_fwd_reloc_request__bearer_ctxt_ie_t) :=
  decode_grouped decode_gtp_fwd_reloc_request__bearer_ctxt_ie_table m buf value.

#[global] Instance gtp_fwd_reloc_request__bearer_ctxt_ie_member_ie : IeMember gtp_fwd_reloc_request__bearer_ctxt_ie_t :=
  grouped_member encode_gtp_fwd_reloc_request__bearer_ctxt_ie_order decode_gtp_fwd_reloc_request__bearer_ctxt_ie_table.

End gtp_fwd_reloc_request__bearer_ctxt_ie.

(** ** [gtp_create_sess_request__remote_ue_ctxt_connected_ie] *)

Module gtp_create_sess_request__remote_ue_ctxt_connected_ie.

Inductive gtp_create_sess_request__remote_ue_ctxt_connected_ie_member :=
| remote_user_id
| rmt_ue_ip_info.

Definition gtp_create_sess_request__remote_ue_ctxt_connected_ie_eq_dec (f g : gtp_create_sess_request__remote_ue_ctxt_connected_ie_member) : {f = g} + {f <> g}.
Proof. decide equality. Defined.

Definition gtp_create_sess_request__remote_ue_ctxt_connected_ie_type (f : gtp_create_sess_request__remote_ue_ctxt_connected_ie_member) : Type :=
  match f with
  | remote_user_id => gtp_remote_user_id_ie.gtp_remote_user_id_ie_t
  | rmt_ue_ip_info => gtp_rmt_ue_ip_info_ie.gtp_rmt_ue_ip_info_ie_t
  end.

Definition gtp_create_sess_request__remote_ue_ctxt_connected_ie_ie (f : gtp_create_sess_request__remote_ue_ctxt_connected_ie_member) : IeMember (gtp_create_sess_request__remote_ue_ctxt_connected_ie_type f) :=
  match f with
  | remote_user_id => gtp_remote_user_id_ie_member
  | rmt_ue_ip_info => gtp_rmt_ue_ip_info_ie_member
  end.

Definition gtp_create_sess_request__remote_ue_ctxt_connected_ie_sig : signature :=
  Signature gtp_create_sess_request__remote_ue_ctxt_connected_ie_member gtp_create_sess_request__remote_ue_ctxt_connected_ie_eq_dec gtp_create_sess_request__remote_ue_ctxt_connected_ie_type gtp_create_sess_request__remote_ue_ctxt_connected_ie_ie
    Empty_set no_counter_eq_dec.
Canonical Structure gtp_create_sess_request__remote_ue_ctxt_connected_ie_sig.

Definition gtp_create_sess_request__remote_ue_ctxt_connected_ie_t : Type := grouped gtp_create_sess_request__remote_ue_ctxt_connected_ie_sig.

Definition encode_gtp_create_sess_request__remote_ue_ctxt_connected_ie_order : list (visit gtp_create_sess_request__remote_ue_ctxt_connected_ie_sig) :=
  [One remote_user_id; One rmt_ue_ip_info].

Definition encode_gtp_create_sess_request__remote_ue_ctxt_connected_ie (value : gtp_create_sess_request__remote_ue_ctxt_connected_ie_t) (buf : Z) : enc Z :=
  encode_grouped encode_gtp_create_sess_request__remote_ue_ctxt_connected_ie_order value buf.

Definition decode_gtp_create_sess_request__remote_ue_ctxt_connected_ie_table : list (branch gtp_create_sess_request__remote_ue_ctxt_connected_ie_sig) :=
  [(GTP_IE_REMOTE_USER_ID, Some GTP_IE_INSTANCE_ZERO, Into remote_user_id);
   (GTP_IE_RMT_UE_IP_INFO, Some GTP_IE_INSTANCE_ZERO, Into rmt_ue_ip_info)].

Definition decode_gtp_create_sess_request__remote_ue_ctxt_connected_ie (m : bytes) (buf : Z) (value : gtp_create_sess_request__remote_ue_ctxt_connected_ie_t)
  : option (Z * gtp_create_sess_request__remote_ue_ctxt_connected_ie_t) :=
  decode_grouped decode_gtp_create_sess_request__remote_ue_ctxt_connected_ie_table m buf value.

#[global] Instance gtp_create_sess_request__remote_ue_ctxt_connected_ie_member_ie : IeMember gtp_create_sess_request__remote_ue_ctxt_connected_ie_t :=
  grouped_member encode_gtp_create_sess_request__remote_ue_ctxt_connected_ie_order decode_gtp_create_sess_request__remote_ue_ctxt_connected_ie_table.

End gtp_create_sess_request__remote_ue_ctxt_connected_ie.

(** ** [gtp_mod_bearer_command__overload_ctl_info_ie] *)

Module gtp_mod_bearer_command__overload_ctl_info_ie.

Inductive gtp_mod_bearer_command__overload_ctl_info_ie_member :=
| ovrld_ctl_seqn_nbr
| ovrld_reduction_metric
| prd_of_validity.

Definition gtp_mod_bearer_command__overload_ctl_info_ie_eq_dec (f g : gtp_mod_bearer_command__overload_ctl_info_ie_member) : {f = g} + {f <> g}.
Proof. decide equality. Defined.

Definition gtp_mod_bearer_command__overload_ctl_info_ie_type (f : gtp_mod_bearer_command__overload_ctl_info_ie_member) : Type :=
  match f with
  | ovrld_ctl_seqn_nbr => gtp_sequence_number_ie.gtp_sequence_number_ie_t
  | ovrld_reduction_metric => gtp_metric_ie.gtp_metric_ie_t
  | prd_of_validity => gtp_epc_timer_ie.gtp_epc_timer_ie_t
  end.

Definition gtp_mod_bearer_command__overload_ctl_info_ie_ie (f : gtp_mod_bearer_command__overload_ctl_info_ie_member) : IeMember (gtp_mod_bearer_command__overload_ctl_info_ie_type f) :=
  match f with
  | ovrld_ctl_seqn_nbr => gtp_sequence_number_ie_member
  | ovrld_reduction_metric => gtp_metric_ie_member
  | prd_of_validity => gtp_epc_timer_ie_member
  end.

Definition gtp_mod_bearer_command__overload_ctl_info_ie_sig : signature :=
  Signature gtp_mod_bearer_command__overload_ctl_info_ie_member gtp_mod_bearer_command__overload_ctl_info_ie_eq_dec gtp_mod_bearer_command__overload_ctl_info_ie_type gtp_mod_bearer_command__overload_ctl_info_ie_ie
    Empty_set no_counter_eq_dec.
Canonical Structure gtp_mod_bearer_command__overload_ctl_info_ie_sig.

Definition gtp_mod_bearer_command__overload_ctl_info_ie_t : Type := grouped gtp_mod_bearer_command__overload_ctl_info_ie_sig.

Definition encode_gtp_mod_bearer_command__overload_ctl_info_ie_order : list (visit gtp_mod_bearer_command__overload_ctl_info_ie_sig) :=
  [One ovrld_ctl_seqn_nbr; One ovrld_reduction_metric; One prd_of_validity].

Definition encode_gtp_mod_bearer_command__overload_ctl_info_ie (value : gtp_mod_bearer_command__overload_ctl_info_ie_t) (buf : Z) : enc Z :=
  encode_grouped encode_gtp_mod_bearer_command__overload_ctl_info_ie_order value buf.

Definition decode_gtp_mod_bearer_command__overload_ctl_info_ie_table : list (branch gtp_mod_bearer_command__overload_ctl_info_ie_sig) :=
  [(GTP_IE_SEQUENCE_NUMBER, Some GTP_IE_INSTANCE_ZERO, Into ovrld_ctl_seqn_nbr);
   (GTP_IE_METRIC, Some GTP_IE_INSTANCE_ZERO, Into ovrld_reduction_metric);
   (GTP_IE_EPC_TIMER, Some GTP_IE_INSTANCE_ZERO, Into prd_of_validity)].

Definition decode_gtp_mod_bearer_command__overload_ctl_info_ie (m : bytes) (buf : Z) (value : gtp_mod_bearer_command__overload_ctl_info_ie_t)
  : option (Z * gtp_mod_bearer_command__overload_ctl_info_ie_t) :=
  decode_grouped decode_gtp_mod_bearer_command__overload_ctl_info_ie_table m buf value.

#[global] Instance gtp_mod_bearer_command__overload_ctl_info_ie_member_ie : IeMember gtp_mod_bearer_command__overload_ctl_info_ie_t :=
  grouped_member encode_gtp_mod_bearer_command__overload_ctl_info_ie_order decode_gtp_mod_bearer_command__overload_ctl_info_ie_table.

End gtp_mod_bearer_command__overload_ctl_info_ie.

(** ** [gtp_fwd_reloc_request__mme_ue_scef_pdn_connections_ie] *)

Module gtp_fwd_reloc_request__mme_ue_scef_pdn_connections_ie.

Inductive gtp_fwd_reloc_request__mme_ue_scef_pdn_connections_ie_member :=
| apn
| dflt_eps_bearer_id
| scef_id.

Definition gtp_fwd_reloc_request__mme_ue_scef_pdn_connections_ie_eq_dec (f g : gtp_fwd_reloc_request__mme_ue_scef_pdn_connections_ie_member) : {f = g} + {f <> g}.
Proof. decide equality. Defined.

Definition gtp_fwd_reloc_request__mme_ue_scef_pdn_connections_ie_type (f : gtp_fwd_reloc_request__mme_ue_scef_pdn_connections_ie_member) : Type :=
  match f with
  | apn => gtp_acc_pt_name_ie.gtp_acc_pt_name_ie_t
  | dflt_eps_bearer_id => gtp_eps_bearer_id_ie.gtp_eps_bearer_id_ie_t
  | scef_id => gtp_node_identifier_ie.gtp_node_identifier_ie_t
  end.

Definition gtp_fwd_reloc_request__mme_ue_scef_pdn_connections_ie_ie (f : gtp_fwd_reloc_request__mme_ue_scef_pdn_connections_ie_member) : IeMember (gtp_fwd_reloc_request__mme_ue_scef_pdn_connections_ie_type f) :=
  match f with
  | apn => gtp_acc_pt_name_ie_member
  | dflt_eps_bearer_id => gtp_eps_bearer_id_ie_member
  | scef_id => gtp_node_identifier_ie_member
  end.

Definition gtp_fwd_reloc_request__mme_ue_scef_pdn_connections_ie_sig : signature :=
  Signature gtp_fwd_reloc_request__mme_ue_scef_pdn_connections_ie_member gtp_fwd_reloc_request__mme_ue_scef_pdn_connections_ie_eq_dec gtp_fwd_reloc_request__mme_ue_scef_pdn_connections_ie_type gtp_fwd_reloc_request__mme_ue_scef_pdn_connections_ie_ie
    Empty_set no_counter_eq_dec.
Canonical Structure gtp_fwd_reloc_request__mme_ue_scef_pdn_connections_ie_sig.

Definition gtp_fwd_reloc_request__mme_ue_scef_pdn_connections_ie_t : Type := grouped gtp_fwd_reloc_request__mme_ue_scef_pdn_connections_ie_sig.

Definition encode_gtp_fwd_reloc_request__mme_ue_scef_pdn_connections_ie_order : list (visit gtp_fwd_reloc_request__mme_ue_scef_pdn_connections_ie_sig) :=
  [One apn; One dflt_eps_bearer_id; One scef_id].

Definition encode_gtp_fwd_reloc_request__mme_ue_scef_pdn_connections_ie (value : gtp_fwd_reloc_request__mme_ue_scef_pdn_connections_ie_t) (buf : Z) : enc Z :=
  encode_grouped encode_gtp_fwd_reloc_request__mme_ue_scef_pdn_connections_ie_order value buf.

Definition decode_gtp_fwd_reloc_request__mme_ue_scef_pdn_connections_ie_table : list (branch gtp_fwd_reloc_request__mme_ue_scef_pdn_connections_ie_sig) :=
  [(GTP_IE_ACC_PT_NAME, Some GTP_IE_INSTANCE_ZERO, Into apn);
   (GTP_IE_EPS_BEARER_ID, Some GTP_IE_INSTANCE_ZERO, Into dflt_eps_bearer_id);
   (GTP_IE_NODE_IDENTIFIER, Some GTP_IE_INSTANCE_ZERO, Into scef_id)].

Definition decode_gtp_fwd_reloc_request__mme_ue_scef_pdn_connections_ie (m : bytes) (buf : Z) (value : gtp_fwd_reloc_request__mme_ue_scef_pdn_connections_ie_t)
  : option (Z * gtp_fwd_reloc_request__mme_ue_scef_pdn_connections_ie_t) :=
  decode_grouped decode_gtp_fwd_reloc_request__mme_ue_scef_pdn_connections_ie_table m buf value.

#[global] Instance gtp_fwd_reloc_request__mme_ue_scef_pdn_connections_ie_member_ie : IeMember gtp_fwd_reloc_request__mme_ue_scef_pdn_connections_ie_t :=
  grouped_member encode_gtp_fwd_reloc_request__mme_ue_scef_pdn_connections_ie_order decode_gtp_fwd_reloc_request__mme_ue_scef_pdn_connections_ie_table.

End gtp_fwd_reloc_request__mme_ue_scef_pdn_connections_ie.

(** ** [gtp_create_sess_response_bearer_ctxt_created_ie] *)

Module gtp_create_sess_response_bearer_ctxt_created_ie.

Inductive gtp_create_sess_response_bearer_ctxt_created_ie_member :=
| eps_bearer_id
| cause
| s1u_sgw_fteid
| s4_u_sgw_fteid
| s5s8_u_pgw_fteid
| s12_sgw_fteid
| s2b_u_pgw_fteid
| s2a_u_pgw_fteid
| bearer_lvl_qos
| charging_id
| bearer_flags
| s11_u_sgw_fteid.

Definition gtp_create_sess_response_bearer_ctxt_created_ie_eq_dec (f g : gtp_create_sess_response_bearer_ctxt_created_ie_member) : {f = g} + {f <> g}.
Proof. decide equality. Defined.

Definition gtp_create_sess_response_bearer_ctxt_created_ie_type (f : gtp_create_sess_response_bearer_ctxt_created_ie_member) : Type :=
  match f with
  | eps_bearer_id => gtp_eps_bearer_id_ie.gtp_eps_bearer_id_ie_t
  | cause => gtp_cause_ie.gtp_cause_ie_t
  | s1u_sgw_fteid => gtp_fully_qual_tunn_endpt_idnt_ie.gtp_fully_qual_tunn_endpt_idnt_ie_t
  | s4_u_sgw_fteid => gtp_fully_qual_tunn_endpt_idnt_ie.gtp_fully_qual_tunn_endpt_idnt_ie_t
  | s5s8_u_pgw_fteid => gtp_fully_qual_tunn_endpt_idnt_ie.gtp_fully_qual_tunn_endpt_idnt_ie_t
  | s12_sgw_fteid => gtp_fully_qual_tunn_endpt_idnt_ie.gtp_fully_qual_tunn_endpt_idnt_ie_t
  | s2b_u_pgw_fteid => gtp_fully_qual_tunn_endpt_idnt_ie.gtp_fully_qual_tunn_endpt_idnt_ie_t
  | s2a_u_pgw_fteid => gtp_fully_qual_tunn_endpt_idnt_ie.gtp_fully_qual_tunn_endpt_idnt_ie_t
  | bearer_lvl_qos => gtp_bearer_qlty_of_svc_ie.gtp_bearer_qlty_of_svc_ie_t
  | charging_id => gtp_charging_id_ie.gtp_charging_id_ie_t
  | bearer_flags => gtp_bearer_flags_ie.gtp_bearer_flags_ie_t
  | s11_u_sgw_fteid => gtp_fully_qual_tunn_endpt_idnt_ie.gtp_fully_qual_tunn_endpt_idnt_ie_t
  end.

Definition gtp_create_sess_response_bearer_ctxt_created_ie_ie (f : gtp_create_sess_response_bearer_ctxt_created_ie_member) : IeMember (gtp_create_sess_response_bearer_ctxt_created_ie_type f) :=
  match f with
  | eps_bearer_id => gtp_eps_bearer_id_ie_member
  | cause => gtp_cause_ie_member
  | s1u_sgw_fteid => gtp_fully_qual_tunn_endpt_idnt_ie_member
  | s4_u_sgw_fteid => gtp_fully_qual_tunn_endpt_idnt_ie_member
  | s5s8_u_pgw_fteid => gtp_fully_qual_tunn_endpt_idnt_ie_member
  | s12_sgw_fteid => gtp_fully_qual_tunn_endpt_idnt_ie_member
  | s2b_u_pgw_fteid => gtp_fully_qual_tunn_endpt_idnt_ie_member
  | s2a_u_pgw_fteid => gtp_fully_qual_tunn_endpt_idnt_ie_member
  | bearer_lvl_qos => gtp_bearer_qlty_of_svc_ie_member
  | charging_id => gtp_charging_id_ie_member
  | bearer_flags => gtp_bearer_flags_ie_member
  | s11_u_sgw_fteid => gtp_fully_qual_tunn_endpt_idnt_ie_member
  end.

Definition gtp_create_sess_response_bearer_ctxt_created_ie_sig : signature :=
  Signature gtp_create_sess_response_bearer_ctxt_created_ie_member gtp_create_sess_response_bearer_ctxt_created_ie_eq_dec gtp_create_sess_response_bearer_ctxt_created_ie_type gtp_create_sess_response_bearer_ctxt_created_ie_ie
    Empty_set no_counter_eq_dec.
Canonical Structure gtp_create_sess_response_bearer_ctxt_created_ie_sig.

Definition gtp_create_sess_response_bearer_ctxt_created_ie_t : Type := grouped gtp_create_sess_response_bearer_ctxt_created_ie_sig.

Definition encode_gtp_create_sess_response_bearer_ctxt_created_ie_order : list (visit gtp_create_sess_response_bearer_ctxt_created_ie_sig) :=
  [One eps_bearer_id; One cause; One s1u_sgw_fteid; One s4_u_sgw_fteid; One s5s8_u_pgw_fteid;
   One s12_sgw_fteid; One s2b_u_pgw_fteid; One s2a_u_pgw_fteid; One bearer_lvl_qos;
   One charging_id; One bearer_flags; One s11_u_sgw_fteid].

Definition encode_gtp_create_sess_response_bearer_ctxt_created_ie (value : gtp_create_sess_response_bearer_ctxt_created_ie_t) (buf : Z) : enc Z :=
  encode_grouped encode_gtp_create_sess_response_bearer_ctxt_created_ie_order value buf.

Definition decode_gtp_create_sess_response_bearer_ctxt_created_ie_table : list (branch gtp_create_sess_response_bearer_ctxt_created_ie_sig) :=
  [(GTP_IE_EPS_BEARER_ID, Some GTP_IE_INSTANCE_ZERO, Into eps_bearer_id);
   (GTP_IE_CAUSE, Some GTP_IE_INSTANCE_ZERO, Into cause);
   (GTP_IE_FULLY_QUAL_TUNN_ENDPT_IDNT, Some GTP_IE_INSTANCE_ZERO, Into s1u_sgw_fteid);
   (GTP_IE_FULLY_QUAL_TUNN_ENDPT_IDNT, Some GTP_IE_INSTANCE_ONE, Into s4_u_sgw_fteid);
   (GTP_IE_FULLY_QUAL_TUNN_ENDPT_IDNT, Some GTP_IE_INSTANCE_TWO, Into s5s8_u_pgw_fteid);
   (GTP_IE_FULLY_QUAL_TUNN_ENDPT_IDNT, Some GTP_IE_INSTANCE_THREE, Into s12_sgw_fteid);
   (GTP_IE_FULLY_QUAL_TUNN_ENDPT_IDNT, Some GTP_IE_INSTANCE_FOUR, Into s2b_u_pgw_fteid);
   (GTP_IE_FULLY_QUAL_TUNN_ENDPT_IDNT, Some GTP_IE_INSTANCE_FIVE, Into s2a_u_pgw_fteid);
   (GTP_IE_BEARER_QLTY_OF_SVC, Some GTP_IE_INSTANCE_ZERO, Into bearer_lvl_qos);
   (GTP_IE_CHARGING_ID, Some GTP_IE_INSTANCE_ZERO, Into charging_id);
   (GTP_IE_BEARER_FLAGS, Some GTP_IE_INSTANCE_ZERO, Into bearer_flags);
   (GTP_IE_FULLY_QUAL_TUNN_ENDPT_IDNT, Some GTP_IE_INSTANCE_SIX, Into s11_u_sgw_fteid)].

Definition decode_gtp_create_sess_response_bearer_ctxt_created_ie (m : bytes) (buf : Z) (value : gtp_create_sess_response_bearer_ctxt_created_ie_t)
  : option (Z * gtp_create_sess_response_bearer_ctxt_created_ie_t) :=
  decode_grouped decode_gtp_create_sess_response_bearer_ctxt_created_ie_table m buf value.

#[global] Instance gtp_create_sess_response_bearer_ctxt_created_ie_member_ie : IeMember gtp_create_sess_response_bearer_ctxt_created_ie_t :=
  grouped_member encode_gtp_create_sess_response_bearer_ctxt_created_ie_order decode_gtp_create_sess_response_bearer_ctxt_created_ie_table.

End gtp_create_sess_response_bearer_ctxt_created_ie.

(** ** [gtp_create_bearer_request__load_ctl_info_ie] *)

Module gtp_create_bearer_request__load_ctl_info_ie.

Inductive gtp_create_bearer_request__load_ctl_info_ie_member :=
| load_ctl_seqn_nbr
| load_metric
| list_of_apn_and_rltv_cap.

Definition gtp_create_bearer_request__load_ctl_info_ie_eq_dec (f g : gtp_create_bearer_request__load_ctl_info_ie_member) : {f = g} + {f <> g}.
Proof. decide equality. Defined.

Definition gtp_create_bearer_request__load_ctl_info_ie_type (f : gtp_create_bearer_request__load_ctl_info_ie_member) : Type :=
  match f with
  | load_ctl_seqn_nbr => gtp_sequence_number_ie.gtp_sequence_number_ie_t
  | load_metric => gtp_metric_ie.gtp_metric_ie_t
  | list_of_apn_and_rltv_cap => gtp_apn_and_rltv_cap_ie.gtp_apn_and_rltv_cap_ie_t
  end.

Definition gtp_create_bearer_request__load_ctl_info_ie_ie (f : gtp_create_bearer_request__load_ctl_info_ie_member) : IeMember (gtp_create_bearer_request__load_ctl_info_ie_type f) :=
  match f with
  | load_ctl_seqn_nbr => gtp_sequence_number_ie_member
  | load_metric => gtp_metric_ie_member
  | list_of_apn_and_rltv_cap => gtp_apn_and_rltv_cap_ie_member
  end.

Definition gtp_create_bearer_request__load_ctl_info_ie_sig : signature :=
  Signature gtp_create_bearer_request__load_ctl_info_ie_member gtp_create_bearer_request__load_ctl_info_ie_eq_dec gtp_create_bearer_request__load_ctl_info_ie_type gtp_create_bearer_request__load_ctl_info_ie_ie
    Empty_set no_counter_eq_dec.
Canonical Structure gtp_create_bearer_request__load_ctl_info_ie_sig.

Definition gtp_create_bearer_request__load_ctl_info_ie_t : Type := grouped gtp_create_bearer_request__load_ctl_info_ie_sig.

Definition encode_gtp_create_bearer_request__load_ctl_info_ie_order : list (visit gtp_create_bearer_request__load_ctl_info_ie_sig) :=
  [One load_ctl_seqn_nbr; One load_metric; One list_of_apn_and_rltv_cap].

Definition encode_gtp_create_bearer_request__load_ctl_info_ie (value : gtp_create_bearer_request__load_ctl_info_ie_t) (buf : Z) : enc Z :=
  encode_grouped encode_gtp_create_bearer_request__load_ctl_info_ie_order value buf.

Definition decode_gtp_create_bearer_request__load_ctl_info_ie_table : list (branch gtp_create_bearer_request__load_ctl_info_ie_sig) :=
  [(GTP_IE_SEQUENCE_NUMBER, Some GTP_IE_INSTANCE_ZERO, Into load_ctl_seqn_nbr);
   (GTP_IE_METRIC, Some GTP_IE_INSTANCE_ZERO, Into load_metric);
   (GTP_IE_APN_AND_RLTV_CAP, Some GTP_IE_INSTANCE_ZERO, Into list_of_apn_and_rltv_cap)].

Definition decode_gtp_create_bearer_request__load_ctl_info_ie (m : bytes) (buf : Z) (value : gtp_create_bearer_request__load_ctl_info_ie_t)
  : option (Z * gtp_create_bearer_request__load_ctl_info_ie_t) :=
  decode_grouped decode_gtp_create_bearer_request__load_ctl_info_ie_table m buf value.

#[global] Instance gtp_create_bearer_request__load_ctl_info_ie_member_ie : IeMember gtp_create_bearer_request__load_ctl_info_ie_t :=
  grouped_member encode_gtp_create_bearer_request__load_ctl_info_ie_order decode_gtp_create_bearer_request__load_ctl_info_ie_table.

End gtp_create_bearer_request__load_ctl_info_ie.

(** ** [gtp_create_sess_request__overload_ctl_info_ie] *)

Module gtp_create_sess_request__overload_ctl_info_ie.

Inductive gtp_create_sess_request__overload_ctl_info_ie_member :=
| ovrld_ctl_seqn_nbr
| ovrld_reduction_metric
| prd_of_validity.

Definition gtp_create_sess_request__overload_ctl_info_ie_eq_dec (f g : gtp_create_sess_request__overload_ctl_info_ie_member) : {f = g} + {f <> g}.
Proof. decide equality. Defined.

Definition gtp_create_sess_request__overload_ctl_info_ie_type (f : gtp_create_sess_request__overload_ctl_info_ie_member) : Type :=
  match f with
  | ovrld_ctl_seqn_nbr => gtp_sequence_number_ie.gtp_sequence_number_ie_t
  | ovrld_reduction_metric => gtp_metric_ie.gtp_metric_ie_t
  | prd_of_validity => gtp_epc_timer_ie.gtp_epc_timer_ie_t
  end.

Definition gtp_create_sess_request__overload_ctl_info_ie_ie (f : gtp_create_sess_request__overload_ctl_info_ie_member) : IeMember (gtp_create_sess_request__overload_ctl_info_ie_type f) :=
  match f with
  | ovrld_ctl_seqn_nbr => gtp_sequence_number_ie_member
  | ovrld_reduction_metric => gtp_metric_ie_member
  | prd_of_validity => gtp_epc_timer_ie_member
  end.

Definition gtp_create_sess_request__overload_ctl_info_ie_sig : signature :=
  Signature gtp_create_sess_request__overload_ctl_info_ie_member gtp_create_sess_request__overload_ctl_info_ie_eq_dec gtp_create_sess_request__overload_ctl_info_ie_type gtp_create_sess_request__overload_ctl_info_ie_ie
    Empty_set no_counter_eq_dec.
Canonical Structure gtp_create_sess_request__overload_ctl_info_ie_sig.

Definition gtp_create_sess_request__overload_ctl_info_ie_t : Type := grouped gtp_create_sess_request__overload_ctl_info_ie_sig.

Definition encode_gtp_create_sess_request__overload_ctl_info_ie_order : list (visit gtp_create_sess_request__overload_ctl_info_ie_sig) :=
  [One ovrld_ctl_seqn_nbr; One ovrld_reduction_metric; One prd_of_validity].

Definition encode_gtp_create_sess_request__overload_ctl_info_ie (value : gtp_create_sess_request__overload_ctl_info_ie_t) (buf : Z) : enc Z :=
  encode_grouped encode_gtp_create_sess_request__overload_ctl_info_ie_order value buf.

Definition decode_gtp_create_sess_request__overload_ctl_info_ie_table : list (branch gtp_create_sess_request__overload_ctl_info_ie_sig) :=
  [(GTP_IE_SEQUENCE_NUMBER, Some GTP_IE_INSTANCE_ZERO, Into ovrld_ctl_seqn_nbr);
   (GTP_IE_METRIC, Some GTP_IE_INSTANCE_ZERO, Into ovrld_reduction_metric);
   (GTP_IE_EPC_TIMER, Some GTP_IE_INSTANCE_ZERO, Into prd_of_validity)].

Definition decode_gtp_create_sess_request__overload_ctl_info_ie (m : bytes) (buf : Z) (value : gtp_create_sess_request__overload_ctl_info_ie_t)
  : option (Z * gtp_create_sess_request__overload_ctl_info_ie_t) :=
  decode_grouped decode_gtp_create_sess_request__overload_ctl_info_ie_table m buf value.

#[global] Instance gtp_create_sess_request__overload_ctl_info_ie_member_ie : IeMember gtp_create_sess_request__overload_ctl_info_ie_t :=
  grouped_member encode_gtp_create_sess_request__overload_ctl_info_ie_order decode_gtp_create_sess_request__overload_ctl_info_ie_table.

End gtp_create_sess_request__overload_ctl_info_ie.

(** ** [gtp_create_bearer_request_bearer_ctxt_ie] *)

Module gtp_create_bearer_request_bearer_ctxt_ie.

Inductive gtp_create_bearer_request_bearer_ctxt_ie_member :=
| eps_bearer_id
| tft
| s1u_sgw_fteid
| s58_u_pgw_fteid
| s12_sgw_fteid
| s4_u_sgw_fteid
| s2b_u_pgw_fteid
| s2a_u_pgw_fteid
| bearer_lvl_qos
| charging_id
| bearer_flags
| pco
| epco
| max_pckt_loss_rate.

Definition gtp_create_bearer_request_bearer_ctxt_ie_eq_dec (f g : gtp_create_bearer_request_bearer_ctxt_ie_member) : {f = g} + {f <> g}.
Proof. decide equality. Defined.

Definition gtp_create_bearer_request_bearer_ctxt_ie_type (f : gtp_create_bearer_request_bearer_ctxt_ie_member) : Type :=
  match f with
  | eps_bearer_id => gtp_eps_bearer_id_ie.gtp_eps_bearer_id_ie_t
  | tft => gtp_eps_bearer_lvl_traffic_flow_tmpl_ie.gtp_eps_bearer_lvl_traffic_flow_tmpl_ie_t
  | s1u_sgw_fteid => gtp_fully_qual_tunn_endpt_idnt_ie.gtp_fully_qual_tunn_endpt_idnt_ie_t
  | s58_u_pgw_fteid => gtp_fully_qual_tunn_endpt_idnt_ie.gtp_fully_qual_tunn_endpt_idnt_ie_t
  | s12_sgw_fteid => gtp_fully_qual_tunn_endpt_idnt_ie.gtp_fully_qual_tunn_endpt_idnt_ie_t
  | s4_u_sgw_fteid => gtp_fully_qual_tunn_endpt_idnt_ie.gtp_fully_qual_tunn_endpt_idnt_ie_t
  | s2b_u_pgw_fteid => gtp_fully_qual_tunn_endpt_idnt_ie.gtp_fully_qual_tunn_endpt_idnt_ie_t
  | s2a_u_pgw_fteid => gtp_fully_qual_tunn_endpt_idnt_ie.gtp_fully_qual_tunn_endpt_idnt_ie_t
  | bearer_lvl_qos => gtp_bearer_qlty_of_svc_ie.gtp_bearer_qlty_of_svc_ie_t
  | charging_id => gtp_charging_id_ie.gtp_charging_id_ie_t
  | bearer_flags => gtp_bearer_flags_ie.gtp_bearer_flags_ie_t
  | pco => gtp_prot_cfg_opts_ie.gtp_prot_cfg_opts_ie_t
  | epco => gtp_extnded_prot_cfg_opts_ie.gtp_extnded_prot_cfg_opts_ie_t
  | max_pckt_loss_rate => gtp_max_pckt_loss_rate_ie.gtp_max_pckt_loss_rate_ie_t
  end.

Definition gtp_create_bearer_request_bearer_ctxt_ie_ie (f : gtp_create_bearer_request_bearer_ctxt_ie_member) : IeMember (gtp_create_bearer_request_bearer_ctxt_ie_type f) :=
  match f with
  | eps_bearer_id => gtp_eps_bearer_id_ie_member
  | tft => gtp_eps_bearer_lvl_traffic_flow_tmpl_ie_member
  | s1u_sgw_fteid => gtp_fully_qual_tunn_endpt_idnt_ie_member
  | s58_u_pgw_fteid => gtp_fully_qual_tunn_endpt_idnt_ie_member
  | s12_sgw_fteid => gtp_fully_qual_tunn_endpt_idnt_ie_member
  | s4_u_sgw_fteid => gtp_fully_qual_tunn_endpt_idnt_ie_member
  | s2b_u_pgw_fteid => gtp_fully_qual_tunn_endpt_idnt_ie_member
  | s2a_u_pgw_fteid => gtp_fully_qual_tunn_endpt_idnt_ie_member
  | bearer_lvl_qos => gtp_bearer_qlty_of_svc_ie_member
  | charging_id => gtp_charging_id_ie_member
  | bearer_flags => gtp_bearer_flags_ie_member
  | pco => gtp_prot_cfg_opts_ie_member
  | epco => gtp_extnded_prot_cfg_opts_ie_member
  | max_pckt_loss_rate => gtp_max_pckt_loss_rate_ie_member
  end.

Definition gtp_create_bearer_request_bearer_ctxt_ie_sig : signature :=
  Signature gtp_create_bearer_request_bearer_ctxt_ie_member gtp_create_bearer_request_bearer_ctxt_ie_eq_dec gtp_create_bearer_request_bearer_ctxt_ie_type gtp_create_bearer_request_bearer_ctxt_ie_ie
    Empty_set no_counter_eq_dec.
Canonical Structure gtp_create_bearer_request_bearer_ctxt_ie_sig.

Definition gtp_create_bearer_request_bearer_ctxt_ie_t : Type := grouped gtp_create_bearer_request_bearer_ctxt_ie_sig.

Definition encode_gtp_create_bearer_request_bearer_ctxt_ie_order : list (visit gtp_create_bearer_request_bearer_ctxt_ie_sig) :=
  [One eps_bearer_id; One tft; One s1u_sgw_fteid; One s58_u_pgw_fteid; One s12_sgw_fteid;
   One s4_u_sgw_fteid; One s2b_u_pgw_fteid; One s2a_u_pgw_fteid; One bearer_lvl_qos;
   One charging_id; One bearer_flags; One pco; One epco; One max_pckt_loss_rate].

Definition encode_gtp_create_bearer_request_bearer_ctxt_ie (value : gtp_create_bearer_request_bearer_ctxt_ie_t) (buf : Z) : enc Z :=
  encode_grouped encode_gtp_create_bearer_request_bearer_ctxt_ie_order value buf.

Definition decode_gtp_create_bearer_request_bearer_ctxt_ie_table : list (branch gtp_create_bearer_request_bearer_ctxt_ie_sig) :=
  [(GTP_IE_EPS_BEARER_ID, Some GTP_IE_INSTANCE_ZERO, Into eps_bearer_id);
   (GTP_IE_EPS_BEARER_LVL_TRAFFIC_FLOW_TMPL, Some GTP_IE_INSTANCE_ZERO, Into tft);
   (GTP_IE_FULLY_QUAL_TUNN_ENDPT_IDNT, Some GTP_IE_INSTANCE_ZERO, Into s1u_sgw_fteid);
   (GTP_IE_FULLY_QUAL_TUNN_ENDPT_IDNT, Some GTP_IE_INSTANCE_ONE, Into s58_u_pgw_fteid);
   (GTP_IE_FULLY_QUAL_TUNN_ENDPT_IDNT, Some GTP_IE_INSTANCE_TWO, Into s12_sgw_fteid);
   (GTP_IE_FULLY_QUAL_TUNN_ENDPT_IDNT, Some GTP_IE_INSTANCE_THREE, Into s4_u_sgw_fteid);
   (GTP_IE_FULLY_QUAL_TUNN_ENDPT_IDNT, Some GTP_IE_INSTANCE_FOUR, Into s2b_u_pgw_fteid);
   (GTP_IE_FULLY_QUAL_TUNN_ENDPT_IDNT, Some GTP_IE_INSTANCE_FIVE, Into s2a_u_pgw_fteid);
   (GTP_IE_BEARER_QLTY_OF_SVC, Some GTP_IE_INSTANCE_ZERO, Into bearer_lvl_qos);
   (GTP_IE_CHARGING_ID, Some GTP_IE_INSTANCE_ZERO, Into charging_id);
   (GTP_IE_BEARER_FLAGS, Some GTP_IE_INSTANCE_ZERO, Into bearer_flags);
   (GTP_IE_PROT_CFG_OPTS, Some GTP_IE_INSTANCE_ZERO, Into pco);
   (GTP_IE_EXTNDED_PROT_CFG_OPTS, Some GTP_IE_INSTANCE_ZERO, Into epco);
   (GTP_IE_MAX_PCKT_LOSS_RATE, Some GTP_IE_INSTANCE_ZERO, Into max_pckt_loss_rate)].

Definition decode_gtp_create_bearer_request_bearer_ctxt_ie (m : bytes) (buf : Z) (value : gtp_create_bearer_request_bearer_ctxt_ie_t)
  : option (Z * gtp_create_bearer_request_bearer_ctxt_ie_t) :=
  decode_grouped decode_gtp_create_bearer_request_bearer_ctxt_ie_table m buf value.

#[global] Instance gtp_create_bearer_request_bearer_ctxt_ie_member_ie : IeMember gtp_create_bearer_request_bearer_ctxt_ie_t :=
  grouped_member encode_gtp_create_bearer_request_bearer_ctxt_ie_order decode_gtp_create_bearer_request_bearer_ctxt_ie_table.

End gtp_create_bearer_request_bearer_ctxt_ie.

(** ** [gtp_create_sess_response_bearer_ctxt_marked_removal_ie] *)

Module gtp_create_sess_response_bearer_ctxt_marked_removal_ie.

Inductive gtp_create_sess_response_bearer_ctxt_marked_removal_ie_member :=
| eps_bearer_id
| cause.

Definition gtp_create_sess_response_bearer_ctxt_marked_removal_ie_eq_dec (f g : gtp_create_sess_response_bearer_ctxt_marked_removal_ie_member) : {f = g} + {f <> g}.
Proof. decide equality. Defined.

Definition gtp_create_sess_response_bearer_ctxt_marked_removal_ie_type (f : gtp_create_sess_response_bearer_ctxt_marked_removal_ie_member) : Type :=
  match f with
  | eps_bearer_id => gtp_eps_bearer_id_ie.gtp_eps_bearer_id_ie_t
  | cause => gtp_cause_ie.gtp_cause_ie_t
  end.

Definition gtp_create_sess_response_bearer_ctxt_marked_removal_ie_ie (f : gtp_create_sess_response_bearer_ctxt_marked_removal_ie_member) : IeMember (gtp_create_sess_response_bearer_ctxt_marked_removal_ie_type f) :=
  match f with
  | eps_bearer_id => gtp_eps_bearer_id_ie_member
  | cause => gtp_cause_ie_member
  end.

Definition gtp_create_sess_response_bearer_ctxt_marked_removal_ie_sig : signature :=
  Signature gtp_create_sess_response_bearer_ctxt_marked_removal_ie_member gtp_create_sess_response_bearer_ctxt_marked_removal_ie_eq_dec gtp_create_sess_response_bearer_ctxt_marked_removal_ie_type gtp_create_sess_response_bearer_ctxt_marked_removal_ie_ie
    Empty_set no_counter_eq_dec.
Canonical Structure gtp_create_sess_response_bearer_ctxt_marked_removal_ie_sig.

Definition gtp_create_sess_response_bearer_ctxt_marked_removal_ie_t : Type := grouped gtp_create_sess_response_bearer_ctxt_marked_removal_ie_sig.

Definition encode_gtp_create_sess_response_bearer_ctxt_marked_removal_ie_order : list (visit gtp_create_sess_response_bearer_ctxt_marked_removal_ie_sig) :=
  [One eps_bearer_id; One cause].

Definition encode_gtp_create_sess_response_bearer_ctxt_marked_removal_ie (value : gtp_create_sess_response_bearer_ctxt_marked_removal_ie_t) (buf : Z) : enc Z :=
  encode_grouped encode_gtp_create_sess_response_bearer_ctxt_marked_removal_ie_order value buf.

Definition decode_gtp_create_sess_response_bearer_ctxt_marked_removal_ie_table : list (branch gtp_create_sess_response_bearer_ctxt_marked_removal_ie_sig) :=
  [(GTP_IE_EPS_BEARER_ID, Some GTP_IE_INSTANCE_ZERO, Into eps_bearer_id);
   (GTP_IE_CAUSE, Some GTP_IE_INSTANCE_ZERO, Into cause)].

Definition decode_gtp_create_sess_response_bearer_ctxt_marked_removal_ie (m : bytes) (buf : Z) (value : gtp_create_sess_response_bearer_ctxt_marked_removal_ie_t)
  : option (Z * gtp_create_sess_response_bearer_ctxt_marked_removal_ie_t) :=
  decode_grouped decode_gtp_create_sess_response_bearer_ctxt_marked_removal_ie_table m buf value.

#[global] Instance gtp_create_sess_response_bearer_ctxt_marked_removal_ie_member_ie : IeMember gtp_create_sess_response_bearer_ctxt_marked_removal_ie_t :=
  grouped_member encode_gtp_create_sess_response_bearer_ctxt_marked_removal_ie_order decode_gtp_create_sess_response_bearer_ctxt_marked_removal_ie_table.

End gtp_create_sess_response_bearer_ctxt_marked_removal_ie.

(** ** [gtp_create_sess_response__overload_ctl_info_ie] *)

Module gtp_create_sess_response__overload_ctl_info_ie.

Inductive gtp_create_sess_response__overload_ctl_info_ie_member :=
| ovrld_ctl_seqn_nbr
| ovrld_reduction_metric
| prd_of_validity
| apn.

Definition gtp_create_sess_response__overload_ctl_info_ie_eq_dec (f g : gtp_create_sess_response__overload_ctl_info_ie_member) : {f = g} + {f <> g}.
Proof. decide equality. Defined.

Definition gtp_create_sess_response__overload_ctl_info_ie_type (f : gtp_create_sess_response__overload_ctl_info_ie_member) : Type :=
  match f with
  | ovrld_ctl_seqn_nbr => gtp_sequence_number_ie.gtp_sequence_number_ie_t
  | ovrld_reduction_metric => gtp_metric_ie.gtp_metric_ie_t
  | prd_of_validity => gtp_epc_timer_ie.gtp_epc_timer_ie_t
  | apn => gtp_acc_pt_name_ie.gtp_acc_pt_name_ie_t
  end.

Definition gtp_create_sess_response__overload_ctl_info_ie_ie (f : gtp_create_sess_response__overload_ctl_info_ie_member) : IeMember (gtp_create_sess_response__overload_ctl_info_ie_type f) :=
  match f with
  | ovrld_ctl_seqn_nbr => gtp_sequence_number_ie_member
  | ovrld_reduction_metric => gtp_metric_ie_member
  | prd_of_validity => gtp_epc_timer_ie_member
  | apn => gtp_acc_pt_name_ie_member
  end.

Definition gtp_create_sess_response__overload_ctl_info_ie_sig : signature :=
  Signature gtp_create_sess_response__overload_ctl_info_ie_member gtp_create_sess_response__overload_ctl_info_ie_eq_dec gtp_create_sess_response__overload_ctl_info_ie_type gtp_create_sess_response__overload_ctl_info_ie_ie
    Empty_set no_counter_eq_dec.
Canonical Structure gtp_create_sess_response__overload_ctl_info_ie_sig.

Definition gtp_create_sess_response__overload_ctl_info_ie_t : Type := grouped gtp_create_sess_response__overload_ctl_info_ie_sig.

Definition encode_gtp_create_sess_response__overload_ctl_info_ie_order : list (visit gtp_create_sess_response__overload_ctl_info_ie_sig) :=
  [One ovrld_ctl_seqn_nbr; One ovrld_reduction_metric; One prd_of_validity; One apn].

Definition encode_gtp_create_sess_response__overload_ctl_info_ie (value : gtp_create_sess_response__overload_ctl_info_ie_t) (buf : Z) : enc Z :=
  encode_grouped encode_gtp_create_sess_response__overload_ctl_info_ie_order value buf.

Definition decode_gtp_create_sess_response__overload_ctl_info_ie_table : list (branch gtp_create_sess_response__overload_ctl_info_ie_sig) :=
  [(GTP_IE_SEQUENCE_NUMBER, Some GTP_IE_INSTANCE_ZERO, Into ovrld_ctl_seqn_nbr);
   (GTP_IE_METRIC, Some GTP_IE_INSTANCE_ZERO, Into ovrld_reduction_metric);
   (GTP_IE_EPC_TIMER, Some GTP_IE_INSTANCE_ZERO, Into prd_of_validity);
   (GTP_IE_ACC_PT_NAME, Some GTP_IE_INSTANCE_ZERO, Into apn)].

Definition decode_gtp_create_sess_response__overload_ctl_info_ie (m : bytes) (buf : Z) (value : gtp_create_sess_response__overload_ctl_info_ie_t)
  : option (Z * gtp_create_sess_response__overload_ctl_info_ie_t) :=
  decode_grouped decode_gtp_create_sess_response__overload_ctl_info_ie_table m buf value.

#[global] Instance gtp_create_sess_response__overload_ctl_info_ie_member_ie : IeMember gtp_create_sess_response__overload_ctl_info_ie_t :=
  grouped_member encode_gtp_create_sess_response__overload_ctl_info_ie_order decode_gtp_create_sess_response__overload_ctl_info_ie_table.

End gtp_create_sess_response__overload_ctl_info_ie.

(** ** [gtp_create_bearer_request__overload_ctl_info_ie] *)

Module gtp_create_bearer_request__overload_ctl_info_ie.

Inductive gtp_create_bearer_request__overload_ctl_info_ie_member :=
| ovrld_ctl_seqn_nbr
| ovrld_reduction_metric
| prd_of_validity
| apn.

Definition gtp_create_bearer_request__overload_ctl_info_ie_eq_dec (f g : gtp_create_bearer_request__overload_ctl_info_ie_member) : {f = g} + {f <> g}.
Proof. decide equality. Defined.

Definition gtp_create_bearer_request__overload_ctl_info_ie_type (f : gtp_create_bearer_request__overload_ctl_info_ie_member) : Type :=
  match f with
  | ovrld_ctl_seqn_nbr => gtp_sequence_number_ie.gtp_sequence_number_ie_t
  | ovrld_reduction_metric => gtp_metric_ie.gtp_metric_ie_t
  | prd_of_validity => gtp_epc_timer_ie.gtp_epc_timer_ie_t
  | apn => gtp_acc_pt_name_ie.gtp_acc_pt_name_ie_t
  end.

Definition gtp_create_bearer_request__overload_ctl_info_ie_ie (f : gtp_create_bearer_request__overload_ctl_info_ie_member) : IeMember (gtp_create_bearer_request__overload_ctl_info_ie_type f) :=
  match f with
  | ovrld_ctl_seqn_nbr => gtp_sequence_number_ie_member
  | ovrld_reduction_metric => gtp_metric_ie_member
  | prd_of_validity => gtp_epc_timer_ie_member
  | apn => gtp_acc_pt_name_ie_member
  end.

Definition gtp_create_bearer_request__overload_ctl_info_ie_sig : signature :=
  Signature gtp_create_bearer_request__overload_ctl_info_ie_member gtp_create_bearer_request__overload_ctl_info_ie_eq_dec gtp_create_bearer_request__overload_ctl_info_ie_type gtp_create_bearer_request__overload_ctl_info_ie_ie
    Empty_set no_counter_eq_dec.
Canonical Structure gtp_create_bearer_request__overload_ctl_info_ie_sig.

Definition gtp_create_bearer_request__overload_ctl_info_ie_t : Type := grouped gtp_create_bearer_request__overload_ctl_info_ie_sig.

Definition encode_gtp_create_bearer_request__overload_ctl_info_ie_order : list (visit gtp_create_bearer_request__overload_ctl_info_ie_sig) :=
  [One ovrld_ctl_seqn_nbr; One ovrld_reduction_metric; One prd_of_validity; One apn].

Definition encode_gtp_create_bearer_request__overload_ctl_info_ie (value : gtp_create_bearer_request__overload_ctl_info_ie_t) (buf : Z) : enc Z :=
  encode_grouped encode_gtp_create_bearer_request__overload_ctl_info_ie_order value buf.

Definition decode_gtp_create_bearer_request__overload_ctl_info_ie_table : list (branch gtp_create_bearer_request__overload_ctl_info_ie_sig) :=
  [(GTP_IE_SEQUENCE_NUMBER, Some GTP_IE_INSTANCE_ZERO, Into ovrld_ctl_seqn_nbr);
   (GTP_IE_METRIC, Some GTP_IE_INSTANCE_ZERO, Into ovrld_reduction_metric);
   (GTP_IE_EPC_TIMER, Some GTP_IE_INSTANCE_ZERO, Into prd_of_validity);
   (GTP_IE_ACC_PT_NAME, Some GTP_IE_INSTANCE_ZERO, Into apn)].

Definition decode_gtp_create_bearer_request__overload_ctl_info_ie (m : bytes) (buf : Z) (value : gtp_create_bearer_request__overload_ctl_info_ie_t)
  : option (Z * gtp_create_bearer_request__overload_ctl_info_ie_t) :=
  decode_grouped decode_gtp_create_bearer_request__overload_ctl_info_ie_table m buf value.

#[global] Instance gtp_create_bearer_request__overload_ctl_info_ie_member_ie : IeMember gtp_create_bearer_request__overload_ctl_info_ie_t :=
  grouped_member encode_gtp_create_bearer_request__overload_ctl_info_ie_order decode_gtp_create_bearer_request__overload_ctl_info_ie_table.

End gtp_create_bearer_request__overload_ctl_info_ie.

(** ** [gtp_del_sess_request__overload_ctl_info_ie] *)

Module gtp_del_sess_request__overload_ctl_info_ie.

Inductive gtp_del_sess_request__overload_ctl_info_ie_member :=
| ovrld_ctl_seqn_nbr
| ovrld_reduction_metric
| prd_of_validity.

Definition gtp_del_sess_request__overload_ctl_info_ie_eq_dec (f g : gtp_del_sess_request__overload_ctl_info_ie_member) : {f = g} + {f <> g}.
Proof. decide equality. Defined.

Definition gtp_del_sess_request__overload_ctl_info_ie_type (f : gtp_del_sess_request__overload_ctl_info_ie_member) : Type :=
  match f with
  | ovrld_ctl_seqn_nbr => gtp_sequence_number_ie.gtp_sequence_number_ie_t
  | ovrld_reduction_metric => gtp_metric_ie.gtp_metric_ie_t
  | prd_of_validity => gtp_epc_timer_ie.gtp_epc_timer_ie_t
  end.

Definition gtp_del_sess_request__overload_ctl_info_ie_ie (f : gtp_del_sess_request__overload_ctl_info_ie_member) : IeMember (gtp_del_sess_request__overload_ctl_info_ie_type f) :=
  match f with
  | ovrld_ctl_seqn_nbr => gtp_sequence_number_ie_member
  | ovrld_reduction_metric => gtp_metric_ie_member
  | prd_of_validity => gtp_epc_timer_ie_member
  end.

Definition gtp_del_sess_request__overload_ctl_info_ie_sig : signature :=
  Signature gtp_del_sess_request__overload_ctl_info_ie_member gtp_del_sess_request__overload_ctl_info_ie_eq_dec gtp_del_sess_request__overload_ctl_info_ie_type gtp_del_sess_request__overload_ctl_info_ie_ie
    Empty_set no_counter_eq_dec.
Canonical Structure gtp_del_sess_request__overload_ctl_info_ie_sig.

Definition gtp_del_sess_request__overload_ctl_info_ie_t : Type := grouped gtp_del_sess_request__overload_ctl_info_ie_sig.

Definition encode_gtp_del_sess_request__overload_ctl_info_ie_order : list (visit gtp_del_sess_request__overload_ctl_info_ie_sig) :=
  [One ovrld_ctl_seqn_nbr; One ovrld_reduction_metric; One prd_of_validity].

Definition encode_gtp_del_sess_request__overload_ctl_info_ie (value : gtp_del_sess_request__overload_ctl_info_ie_t) (buf : Z) : enc Z :=
  encode_grouped encode_gtp_del_sess_request__overload_ctl_info_ie_order value buf.

Definition decode_gtp_del_sess_request__overload_ctl_info_ie_table : list (branch gtp_del_sess_request__overload_ctl_info_ie_sig) :=
  [(GTP_IE_SEQUENCE_NUMBER, Some GTP_IE_INSTANCE_ZERO, Into ovrld_ctl_seqn_nbr);
   (GTP_IE_METRIC, Some GTP_IE_INSTANCE_ZERO, Into ovrld_reduction_metric);
   (GTP_IE_EPC_TIMER, Some GTP_IE_INSTANCE_ZERO, Into prd_of_validity)].

Definition decode_gtp_del_sess_request__overload_ctl_info_ie (m : bytes) (buf : Z) (value : gtp_del_sess_request__overload_ctl_info_ie_t)
  : option (Z * gtp_del_sess_request__overload_ctl_info_ie_t) :=
  decode_grouped decode_gtp_del_sess_request__overload_ctl_info_ie_table m buf value.

#[global] Instance gtp_del_sess_request__overload_ctl_info_ie_member_ie : IeMember gtp_del_sess_request__overload_ctl_info_ie_t :=
  grouped_member encode_gtp_del_sess_request__overload_ctl_info_ie_order decode_gtp_del_sess_request__overload_ctl_info_ie_table.

End gtp_del_sess_request__overload_ctl_info_ie.

(** ** [gtp_del_bearer_fail_indication__bearer_ctxt_ie] *)

Module gtp_del_bearer_fail_indication__bearer_ctxt_ie.

Inductive gtp_del_bearer_fail_indication__bearer_ctxt_ie_member :=
| eps_bearer_id
| cause.

Definition gtp_del_bearer_fail_indication__bearer_ctxt_ie_eq_dec (f g : gtp_del_bearer_fail_indication__bearer_ctxt_ie_member) : {f = g} + {f <> g}.
Proof. decide equality. Defined.

Definition gtp_del_bearer_fail_indication__bearer_ctxt_ie_type (f : gtp_del_bearer_fail_indication__bearer_ctxt_ie_member) : Type :=
  match f with
  | eps_bearer_id => gtp_eps_bearer_id_ie.gtp_eps_bearer_id_ie_t
  | cause => gtp_cause_ie.gtp_cause_ie_t
  end.

Definition gtp_del_bearer_fail_indication__bearer_ctxt_ie_ie (f : gtp_del_bearer_fail_indication__bearer_ctxt_ie_member) : IeMember (gtp_del_bearer_fail_indication__bearer_ctxt_ie_type f) :=
  match f with
  | eps_bearer_id => gtp_eps_bearer_id_ie_member
  | cause => gtp_cause_ie_member
  end.

Definition gtp_del_bearer_fail_indication__bearer_ctxt_ie_sig : signature :=
  Signature gtp_del_bearer_fail_indication__bearer_ctxt_ie_member gtp_del_bearer_fail_indication__bearer_ctxt_ie_eq_dec gtp_del_bearer_fail_indication__bearer_ctxt_ie_type gtp_del_bearer_fail_indication__bearer_ctxt_ie_ie
    Empty_set no_counter_eq_dec.
Canonical Structure gtp_del_bearer_fail_indication__bearer_ctxt_ie_sig.

Definition gtp_del_bearer_fail_indication__bearer_ctxt_ie_t : Type := grouped gtp_del_bearer_fail_indication__bearer_ctxt_ie_sig.

Definition encode_gtp_del_bearer_fail_indication__bearer_ctxt_ie_order : list (visit gtp_del_bearer_fail_indication__bearer_ctxt_ie_sig) :=
  [One eps_bearer_id; One cause].

Definition encode_gtp_del_bearer_fail_indication__bearer_ctxt_ie (value : gtp_del_bearer_fail_indication__bearer_ctxt_ie_t) (buf : Z) : enc Z :=
  encode_grouped encode_gtp_del_bearer_fail_indication__bearer_ctxt_ie_order value buf.

Definition decode_gtp_del_bearer_fail_indication__bearer_ctxt_ie_table : list (branch gtp_del_bearer_fail_indication__bearer_ctxt_ie_sig) :=
  [(GTP_IE_EPS_BEARER_ID, Some GTP_IE_INSTANCE_ZERO, Into eps_bearer_id);
   (GTP_IE_CAUSE, Some GTP_IE_INSTANCE_ZERO, Into cause)].

Definition decode_gtp_del_bearer_fail_indication__bearer_ctxt_ie (m : bytes) (buf : Z) (value : gtp_del_bearer_fail_indication__bearer_ctxt_ie_t)
  : option (Z * gtp_del_bearer_fail_indication__bearer_ctxt_ie_t) :=
  decode_grouped decode_gtp_del_bearer_fail_indication__bearer_ctxt_ie_table m buf value.

#[global] Instance gtp_del_bearer_fail_indication__bearer_ctxt_ie_member_ie : IeMember gtp_del_bearer_fail_indication__bearer_ctxt_ie_t :=
  grouped_member encode_gtp_del_bearer_fail_indication__bearer_ctxt_ie_order decode_gtp_del_bearer_fail_indication__bearer_ctxt_ie_table.

End gtp_del_bearer_fail_indication__bearer_ctxt_ie.

(** ** [gtp_del_bearer_command__overload_ctl_info_ie] *)

Module gtp_del_bearer_command__overload_ctl_info_ie.

Inductive gtp_del_bearer_command__overload_ctl_info_ie_member :=
| ovrld_ctl_seqn_nbr
| ovrld_reduction_metric
| prd_of_validity.

Definition gtp_del_bearer_command__overload_ctl_info_ie_eq_dec (f g : gtp_del_bearer_command__overload_ctl_info_ie_member) : {f = g} + {f <> g}.
Proof. decide equality. Defined.

Definition gtp_del_bearer_command__overload_ctl_info_ie_type (f : gtp_del_bearer_command__overload_ctl_info_ie_member) : Type :=
  match f with
  | ovrld_ctl_seqn_nbr => gtp_sequence_number_ie.gtp_sequence_number_ie_t
  | ovrld_reduction_metric => gtp_metric_ie.gtp_metric_ie_t
  | prd_of_validity => gtp_epc_timer_ie.gtp_epc_timer_ie_t
  end.

Definition gtp_del_bearer_command__overload_ctl_info_ie_ie (f : gtp_del_bearer_command__overload_ctl_info_ie_member) : IeMember (gtp_del_bearer_command__overload_ctl_info_ie_type f) :=
  match f with
  | ovrld_ctl_seqn_nbr => gtp_sequence_number_ie_member
  | ovrld_reduction_metric => gtp_metric_ie_member
  | prd_of_validity => gtp_epc_timer_ie_member
  end.

Definition gtp_del_bearer_command__overload_ctl_info_ie_sig : signature :=
  Signature gtp_del_bearer_command__overload_ctl_info_ie_member gtp_del_bearer_command__overload_ctl_info_ie_eq_dec gtp_del_bearer_command__overload_ctl_info_ie_type gtp_del_bearer_command__overload_ctl_info_ie_ie
    Empty_set no_counter_eq_dec.
Canonical Structure gtp_del_bearer_command__overload_ctl_info_ie_sig.

Definition gtp_del_bearer_command__overload_ctl_info_ie_t : Type := grouped gtp_del_bearer_command__overload_ctl_info_ie_sig.

Definition encode_gtp_del_bearer_command__overload_ctl_info_ie_order : list (visit gtp_del_bearer_command__overload_ctl_info_ie_sig) :=
  [One ovrld_ctl_seqn_nbr; One ovrld_reduction_metric; One prd_of_validity].

Definition encode_gtp_del_bearer_command__overload_ctl_info_ie (value : gtp_del_bearer_command__overload_ctl_info_ie_t) (buf : Z) : enc Z :=
  encode_grouped encode_gtp_del_bearer_command__overload_ctl_info_ie_order value buf.

Definition decode_gtp_del_bearer_command__overload_ctl_info_ie_table : list (branch gtp_del_bearer_command__overload_ctl_info_ie_sig) :=
  [(GTP_IE_SEQUENCE_NUMBER, Some GTP_IE_INSTANCE_ZERO, Into ovrld_ctl_seqn_nbr);
   (GTP_IE_METRIC, Some GTP_IE_INSTANCE_ZERO, Into ovrld_reduction_metric);
   (GTP_IE_EPC_TIMER, Some GTP_IE_INSTANCE_ZERO, Into prd_of_validity)].

Definition decode_gtp_del_bearer_command__overload_ctl_info_ie (m : bytes) (buf : Z) (value : gtp_del_bearer_command__overload_ctl_info_ie_t)
  : option (Z * gtp_del_bearer_command__overload_ctl_info_ie_t) :=
  decode_grouped decode_gtp_del_bearer_command__overload_ctl_info_ie_table m buf value.

#[global] Instance gtp_del_bearer_command__overload_ctl_info_ie_member_ie : IeMember gtp_del_bearer_command__overload_ctl_info_ie_t :=
  grouped_member encode_gtp_del_bearer_command__overload_ctl_info_ie_order decode_gtp_del_bearer_command__overload_ctl_info_ie_table.

End gtp_del_bearer_command__overload_ctl_info_ie.

(** ** [gtp_fwd_reloc_request__remote_ue_ctxt_connected_ie] *)

Module gtp_fwd_reloc_request__remote_ue_ctxt_connected_ie.

Inductive gtp_fwd_reloc_request__remote_ue_ctxt_connected_ie_member :=
| remote_user_id
| rmt_ue_ip_info.

Definition gtp_fwd_reloc_request__remote_ue_ctxt_connected_ie_eq_dec (f g : gtp_fwd_reloc_request__remote_ue_ctxt_connected_ie_member) : {f = g} + {f <> g}.
Proof. decide equality. Defined.

Definition gtp_fwd_reloc_request__remote_ue_ctxt_connected_ie_type (f : gtp_fwd_reloc_request__remote_ue_ctxt_connected_ie_member) : Type :=
  match f with
  | remote_user_id => gtp_remote_user_id_ie.gtp_remote_user_id_ie_t
  | rmt_ue_ip_info => gtp_rmt_ue_ip_info_ie.gtp_rmt_ue_ip_info_ie_t
  end.

Definition gtp_fwd_reloc_request__remote_ue_ctxt_connected_ie_ie (f : gtp_fwd_reloc_request__remote_ue_ctxt_connected_ie_member) : IeMember (gtp_fwd_reloc_request__remote_ue_ctxt_connected_ie_type f) :=
  match f with
  | remote_user_id => gtp_remote_user_id_ie_member
  | rmt_ue_ip_info => gtp_rmt_ue_ip_info_ie_member
  end.

Definition gtp_fwd_reloc_request__remote_ue_ctxt_connected_ie_sig : signature :=
  Signature gtp_fwd_reloc_request__remote_ue_ctxt_connected_ie_member gtp_fwd_reloc_request__remote_ue_ctxt_connected_ie_eq_dec gtp_fwd_reloc_request__remote_ue_ctxt_connected_ie_type gtp_fwd_reloc_request__remote_ue_ctxt_connected_ie_ie
    Empty_set no_counter_eq_dec.
Canonical Structure gtp_fwd_reloc_request__remote_ue_ctxt_connected_ie_sig.

Definition gtp_fwd_reloc_request__remote_ue_ctxt_connected_ie_t : Type := grouped gtp_fwd_reloc_request__remote_ue_ctxt_connected_ie_sig.

Definition encode_gtp_fwd_reloc_request__remote_ue_ctxt_connected_ie_order : list (visit gtp_fwd_reloc_request__remote_ue_ctxt_connected_ie_sig) :=
  [One remote_user_id; One rmt_ue_ip_info].

Definition encode_gtp_fwd_reloc_request__remote_ue_ctxt_connected_ie (value : gtp_fwd_reloc_request__remote_ue_ctxt_connected_ie_t) (buf : Z) : enc Z :=
  encode_grouped encode_gtp_fwd_reloc_request__remote_ue_ctxt_connected_ie_order value buf.

Definition decode_gtp_fwd_reloc_request__remote_ue_ctxt_connected_ie_table : list (branch gtp_fwd_reloc_request__remote_ue_ctxt_connected_ie_sig) :=
  [(GTP_IE_REMOTE_USER_ID, Some GTP_IE_INSTANCE_ZERO, Into remote_user_id);
   (GTP_IE_RMT_UE_IP_INFO, Some GTP_IE_INSTANCE_ZERO, Into rmt_ue_ip_info)].

Definition decode_gtp_fwd_reloc_request__remote_ue_ctxt_connected_ie (m : bytes) (buf : Z) (value : gtp_fwd_reloc_request__remote_ue_ctxt_connected_ie_t)
  : option (Z * gtp_fwd_reloc_request__remote_ue_ctxt_connected_ie_t) :=
  decode_grouped decode_gtp_fwd_reloc_request__remote_ue_ctxt_connected_ie_table m buf value.

#[global] Instance gtp_fwd_reloc_request__remote_ue_ctxt_connected_ie_member_ie : IeMember gtp_fwd_reloc_request__remote_ue_ctxt_connected_ie_t :=
  grouped_member encode_gtp_fwd_reloc_request__remote_ue_ctxt_connected_ie_order decode_gtp_fwd_reloc_request__remote_ue_ctxt_connected_ie_table.

End gtp_fwd_reloc_request__remote_ue_ctxt_connected_ie.

(** ** [gtp_mod_acc_bearers_response__overload_ctl_info_ie] *)

Module gtp_mod_acc_bearers_response__overload_ctl_info_ie.

Inductive gtp_mod_acc_bearers_response__overload_ctl_info_ie_member :=
| ovrld_ctl_seqn_nbr
| ovrld_reduction_metric
| prd_of_validity.

Definition gtp_mod_acc_bearers_response__overload_ctl_info_ie_eq_dec (f g : gtp_mod_acc_bearers_response__overload_ctl_info_ie_member) : {f = g} + {f <> g}.
Proof. decide equality. Defined.

Definition gtp_mod_acc_bearers_response__overload_ctl_info_ie_type (f : gtp_mod_acc_bearers_response__overload_ctl_info_ie_member) : Type :=
  match f with
  | ovrld_ctl_seqn_nbr => gtp_sequence_number_ie.gtp_sequence_number_ie_t
  | ovrld_reduction_metric => gtp_metric_ie.gtp_metric_ie_t
  | prd_of_validity => gtp_epc_timer_ie.gtp_epc_timer_ie_t
  end.

Definition gtp_mod_acc_bearers_response__overload_ctl_info_ie_ie (f : gtp_mod_acc_bearers_response__overload_ctl_info_ie_member) : IeMember (gtp_mod_acc_bearers_response__overload_ctl_info_ie_type f) :=
  match f with
  | ovrld_ctl_seqn_nbr => gtp_sequence_number_ie_member
  | ovrld_reduction_metric => gtp_metric_ie_member
  | prd_of_validity => gtp_epc_timer_ie_member
  end.

Definition gtp_mod_acc_bearers_response__overload_ctl_info_ie_sig : signature :=
  Signature gtp_mod_acc_bearers_response__overload_ctl_info_ie_member gtp_mod_acc_bearers_response__overload_ctl_info_ie_eq_dec gtp_mod_acc_bearers_response__overload_ctl_info_ie_type gtp_mod_acc_bearers_response__overload_ctl_info_ie_ie
    Empty_set no_counter_eq_dec.
Canonical Structure gtp_mod_acc_bearers_response__overload_ctl_info_ie_sig.

Definition gtp_mod_acc_bearers_response__overload_ctl_info_ie_t : Type := grouped gtp_mod_acc_bearers_response__overload_ctl_info_ie_sig.

Definition encode_gtp_mod_acc_bearers_response__overload_ctl_info_ie_order : list (visit gtp_mod_acc_bearers_response__overload_ctl_info_ie_sig) :=
  [One ovrld_ctl_seqn_nbr; One ovrld_reduction_metric; One prd_of_validity].

Definition encode_gtp_mod_acc_bearers_response__overload_ctl_info_ie (value : gtp_mod_acc_bearers_response__overload_ctl_info_ie_t) (buf : Z) : enc Z :=
  encode_grouped encode_gtp_mod_acc_bearers_response__overload_ctl_info_ie_order value buf.

Definition decode_gtp_mod_acc_bearers_response__overload_ctl_info_ie_table : list (branch gtp_mod_acc_bearers_response__overload_ctl_info_ie_sig) :=
  [(GTP_IE_SEQUENCE_NUMBER, Some GTP_IE_INSTANCE_ZERO, Into ovrld_ctl_seqn_nbr);
   (GTP_IE_METRIC, Some GTP_IE_INSTANCE_ZERO, Into ovrld_reduction_metric);
   (GTP_IE_EPC_TIMER, Some GTP_IE_INSTANCE_ZERO, Into prd_of_validity)].

Definition decode_gtp_mod_acc_bearers_response__overload_ctl_info_ie (m : bytes) (buf : Z) (value : gtp_mod_acc_bearers_response__overload_ctl_info_ie_t)
  : option (Z * gtp_mod_acc_bearers_response__overload_ctl_info_ie_t) :=
  decode_grouped decode_gtp_mod_acc_bearers_response__overload_ctl_info_ie_table m buf value.

#[global] Instance gtp_mod_acc_bearers_response__overload_ctl_info_ie_member_ie : IeMember gtp_mod_acc_bearers_response__overload_ctl_info_ie_t :=
  grouped_member encode_gtp_mod_acc_bearers_response__overload_ctl_info_ie_order decode_gtp_mod_acc_bearers_response__overload_ctl_info_ie_table.

End gtp_mod_acc_bearers_response__overload_ctl_info_ie.

(** ** [gtp_ctxt_response__mmesgsn_ue_eps_pdn_connections_ie] *)

Module gtp_ctxt_response__mmesgsn_ue_eps_pdn_connections_ie.

Inductive gtp_ctxt_response__mmesgsn_ue_eps_pdn_connections_ie_member :=
| apn
| apn_restriction
| selection_mode
| ipv4_address
| ipv6_address
| linked_eps_bearer_id
| pgw_s5s8_ip_addr_ctl_plane_or_pmip
| pgw_node_name
| bearer_contexts
| apn_ambr
| chrgng_char
| chg_rptng_act
| csg_info_rptng_act
| henb_info_rptng
| indctn_flgs
| sgnllng_priority_indctn
| chg_to_rpt_flgs
| local_home_ntwk_id
| pres_rptng_area_act
| wlan_offldblty_indctn
| rmt_ue_ctxt_connected
| pdn_type
| hdr_comp_cfg.

Definition gtp_ctxt_response__mmesgsn_ue_eps_pdn_connections_ie_eq_dec (f g : gtp_ctxt_response__mmesgsn_ue_eps_pdn_connections_ie_member) : {f = g} + {f <> g}.
Proof. decide equality. Defined.

Definition gtp_ctxt_response__mmesgsn_ue_eps_pdn_connections_ie_type (f : gtp_ctxt_response__mmesgsn_ue_eps_pdn_connections_ie_member) : Type :=
  match f with
  | apn => gtp_acc_pt_name_ie.gtp_acc_pt_name_ie_t
  | apn_restriction => gtp_apn_restriction_ie.gtp_apn_restriction_ie_t
  | selection_mode => gtp_selection_mode_ie.gtp_selection_mode_ie_t
  | ipv4_address => gtp_ip_address_ie.gtp_ip_address_ie_t
  | ipv6_address => gtp_ip_address_ie.gtp_ip_address_ie_t
  | linked_eps_bearer_id => gtp_eps_bearer_id_ie.gtp_eps_bearer_id_ie_t
  | pgw_s5s8_ip_addr_ctl_plane_or_pmip => gtp_fully_qual_tunn_endpt_idnt_ie.gtp_fully_qual_tunn_endpt_idnt_ie_t
  | pgw_node_name => gtp_fully_qual_domain_name_ie.gtp_fully_qual_domain_name_ie_t
  | bearer_contexts => gtp_bearer_context_ie.gtp_bearer_context_ie_t
  | apn_ambr => gtp_agg_max_bit_rate_ie.gtp_agg_max_bit_rate_ie_t
  | chrgng_char => gtp_chrgng_char_ie.gtp_chrgng_char_ie_t
  | chg_rptng_act => gtp_chg_rptng_act_ie.gtp_chg_rptng_act_ie_t
  | csg_info_rptng_act => gtp_csg_info_rptng_act_ie.gtp_csg_info_rptng_act_ie_t
  | henb_info_rptng => gtp_henb_info_rptng_ie.gtp_henb_info_rptng_ie_t
  | indctn_flgs => gtp_indication_ie.gtp_indication_ie_t
  | sgnllng_priority_indctn => gtp_sgnllng_priority_indctn_ie.gtp_sgnllng_priority_indctn_ie_t
  | chg_to_rpt_flgs => gtp_chg_to_rpt_flgs_ie.gtp_chg_to_rpt_flgs_ie_t
  | local_home_ntwk_id => gtp_fully_qual_domain_name_ie.gtp_fully_qual_domain_name_ie_t
  | pres_rptng_area_act => gtp_pres_rptng_area_act_ie.gtp_pres_rptng_area_act_ie_t
  | wlan_offldblty_indctn => gtp_wlan_offldblty_indctn_ie.gtp_wlan_offldblty_indctn_ie_t
  | rmt_ue_ctxt_connected => gtp_rmt_ue_ctxt_ie.gtp_rmt_ue_ctxt_ie_t
  | pdn_type => gtp_pdn_type_ie.gtp_pdn_type_ie_t
  | hdr_comp_cfg => gtp_hdr_comp_cfg_ie.gtp_hdr_comp_cfg_ie_t
  end.

Definition gtp_ctxt_response__mmesgsn_ue_eps_pdn_connections_ie_ie (f : gtp_ctxt_response__mmesgsn_ue_eps_pdn_connections_ie_member) : IeMember (gtp_ctxt_response__mmesgsn_ue_eps_pdn_connections_ie_type f) :=
  match f with
  | apn => gtp_acc_pt_name_ie_member
  | apn_restriction => gtp_apn_restriction_ie_member
  | selection_mode => gtp_selection_mode_ie_member
  | ipv4_address => gtp_ip_address_ie_member
  | ipv6_address => gtp_ip_address_ie_member
  | linked_eps_bearer_id => gtp_eps_bearer_id_ie_member
  | pgw_s5s8_ip_addr_ctl_plane_or_pmip => gtp_fully_qual_tunn_endpt_idnt_ie_member
  | pgw_node_name => gtp_fully_qual_domain_name_ie_member
  | bearer_contexts => gtp_bearer_context_ie_member
  | apn_ambr => gtp_agg_max_bit_rate_ie_member
  | chrgng_char => gtp_chrgng_char_ie_member
  | chg_rptng_act => gtp_chg_rptng_act_ie_member
  | csg_info_rptng_act => gtp_csg_info_rptng_act_ie_member
  | henb_info_rptng => gtp_henb_info_rptng_ie_member
  | indctn_flgs => gtp_indication_ie_member
  | sgnllng_priority_indctn => gtp_sgnllng_priority_indctn_ie_member
  | chg_to_rpt_flgs => gtp_chg_to_rpt_flgs_ie_member
  | local_home_ntwk_id => gtp_fully_qual_domain_name_ie_member
  | pres_rptng_area_act => gtp_pres_rptng_area_act_ie_member
  | wlan_offldblty_indctn => gtp_wlan_offldblty_indctn_ie_member
  | rmt_ue_ctxt_connected => gtp_rmt_ue_ctxt_ie_member
  | pdn_type => gtp_pdn_type_ie_member
  | hdr_comp_cfg => gtp_hdr_comp_cfg_ie_member
  end.

Definition gtp_ctxt_response__mmesgsn_ue_eps_pdn_connections_ie_sig : signature :=
  Signature gtp_ctxt_response__mmesgsn_ue_eps_pdn_connections_ie_member gtp_ctxt_response__mmesgsn_ue_eps_pdn_connections_ie_eq_dec gtp_ctxt_response__mmesgsn_ue_eps_pdn_connections_ie_type gtp_ctxt_response__mmesgsn_ue_eps_pdn_connections_ie_ie
    Empty_set no_counter_eq_dec.
Canonical Structure gtp_ctxt_response__mmesgsn_ue_eps_pdn_connections_ie_sig.

Definition gtp_ctxt_response__mmesgsn_ue_eps_pdn_connections_ie_t : Type := grouped gtp_ctxt_response__mmesgsn_ue_eps_pdn_connections_ie_sig.

Definition encode_gtp_ctxt_response__mmesgsn_ue_eps_pdn_connections_ie_order : list (visit gtp_ctxt_response__mmesgsn_ue_eps_pdn_connections_ie_sig) :=
  [One apn; One apn_restriction; One selection_mode; One ipv4_address; One ipv6_address;
   One linked_eps_bearer_id; One pgw_s5s8_ip_addr_ctl_plane_or_pmip; One pgw_node_name;
   One bearer_contexts; One apn_ambr; One chrgng_char; One chg_rptng_act;
   One csg_info_rptng_act; One henb_info_rptng; One indctn_flgs; One sgnllng_priority_indctn;
   One chg_to_rpt_flgs; One local_home_ntwk_id; One pres_rptng_area_act;
   One wlan_offldblty_indctn; One rmt_ue_ctxt_connected; One pdn_type; One hdr_comp_cfg].

Definition encode_gtp_ctxt_response__mmesgsn_ue_eps_pdn_connections_ie (value : gtp_ctxt_response__mmesgsn_ue_eps_pdn_connections_ie_t) (buf : Z) : enc Z :=
  encode_grouped encode_gtp_ctxt_response__mmesgsn_ue_eps_pdn_connections_ie_order value buf.

Definition decode_gtp_ctxt_response__mmesgsn_ue_eps_pdn_connections_ie_table : list (branch gtp_ctxt_response__mmesgsn_ue_eps_pdn_connections_ie_sig) :=
  [(GTP_IE_ACC_PT_NAME, Some GTP_IE_INSTANCE_ZERO, Into apn);
   (GTP_IE_APN_RESTRICTION, Some GTP_IE_INSTANCE_ZERO, Into apn_restriction);
   (GTP_IE_SELECTION_MODE, Some GTP_IE_INSTANCE_ZERO, Into selection_mode);
   (GTP_IE_IP_ADDRESS, Some GTP_IE_INSTANCE_ZERO, Into ipv4_address);
   (GTP_IE_IP_ADDRESS, Some GTP_IE_INSTANCE_ONE, Into ipv6_address);
   (GTP_IE_EPS_BEARER_ID, Some GTP_IE_INSTANCE_ZERO, Into linked_eps_bearer_id);
   (GTP_IE_FULLY_QUAL_TUNN_ENDPT_IDNT, Some GTP_IE_INSTANCE_ZERO, Into pgw_s5s8_ip_addr_ctl_plane_or_pmip);
   (GTP_IE_FULLY_QUAL_DOMAIN_NAME, Some GTP_IE_INSTANCE_ZERO, Into pgw_node_name);
   (GTP_IE_BEARER_CONTEXT, Some GTP_IE_INSTANCE_ZERO, Into bearer_contexts);
   (GTP_IE_AGG_MAX_BIT_RATE, Some GTP_IE_INSTANCE_ZERO, Into apn_ambr);
   (GTP_IE_CHRGNG_CHAR, Some GTP_IE_INSTANCE_ZERO, Into chrgng_char);
   (GTP_IE_CHG_RPTNG_ACT, Some GTP_IE_INSTANCE_ZERO, Into chg_rptng_act);
   (GTP_IE_CSG_INFO_RPTNG_ACT, Some GTP_IE_INSTANCE_ZERO, Into csg_info_rptng_act);
   (GTP_IE_HENB_INFO_RPTNG, Some GTP_IE_INSTANCE_ZERO, Into henb_info_rptng);
   (GTP_IE_INDICATION, Some GTP_IE_INSTANCE_ZERO, Into indctn_flgs);
   (GTP_IE_SGNLLNG_PRIORITY_INDCTN, Some GTP_IE_INSTANCE_ZERO, Into sgnllng_priority_indctn);
   (GTP_IE_CHG_TO_RPT_FLGS, Some GTP_IE_INSTANCE_ZERO, Into chg_to_rpt_flgs);
   (GTP_IE_FULLY_QUAL_DOMAIN_NAME, Some GTP_IE_INSTANCE_ONE, Into local_home_ntwk_id);
   (GTP_IE_PRES_RPTNG_AREA_ACT, Some GTP_IE_INSTANCE_ZERO, Into pres_rptng_area_act);
   (GTP_IE_WLAN_OFFLDBLTY_INDCTN, Some GTP_IE_INSTANCE_ZERO, Into wlan_offldblty_indctn);
   (GTP_IE_RMT_UE_CTXT, Some GTP_IE_INSTANCE_ZERO, Into rmt_ue_ctxt_connected);
   (GTP_IE_PDN_TYPE, Some GTP_IE_INSTANCE_ZERO, Into pdn_type);
   (GTP_IE_HDR_COMP_CFG, Some GTP_IE_INSTANCE_ZERO, Into hdr_comp_cfg)].

Definition decode_gtp_ctxt_response__mmesgsn_ue_eps_pdn_connections_ie (m : bytes) (buf : Z) (value : gtp_ctxt_response__mmesgsn_ue_eps_pdn_connections_ie_t)
  : option (Z * gtp_ctxt_response__mmesgsn_ue_eps_pdn_connections_ie_t) :=
  decode_grouped decode_gtp_ctxt_response__mmesgsn_ue_eps_pdn_connections_ie_table m buf value.

#[global] Instance gtp_ctxt_response__mmesgsn_ue_eps_pdn_connections_ie_member_ie : IeMember gtp_ctxt_response__mmesgsn_ue_eps_pdn_connections_ie_t :=
  grouped_member encode_gtp_ctxt_response__mmesgsn_ue_eps_pdn_connections_ie_order decode_gtp_ctxt_response__mmesgsn_ue_eps_pdn_connections_ie_table.

End gtp_ctxt_response__mmesgsn_ue_eps_pdn_connections_ie.

(** ** [gtp_del_bearer_command_bearer_ctxt_ie] *)

Module gtp_del_bearer_command_bearer_ctxt_ie.

Inductive gtp_del_bearer_command_bearer_ctxt_ie_member :=
| eps_bearer_id
| bearer_flags
| ran_nas_release_cause.

Definition gtp_del_bearer_command_bearer_ctxt_ie_eq_dec (f g : gtp_del_bearer_command_bearer_ctxt_ie_member) : {f = g} + {f <> g}.
Proof. decide equality. Defined.

Definition gtp_del_bearer_command_bearer_ctxt_ie_type (f : gtp_del_bearer_command_bearer_ctxt_ie_member) : Type :=
  match f with
  | eps_bearer_id => gtp_eps_bearer_id_ie.gtp_eps_bearer_id_ie_t
  | bearer_flags => gtp_bearer_flags_ie.gtp_bearer_flags_ie_t
  | ran_nas_release_cause => gtp_ran_nas_cause_ie.gtp_ran_nas_cause_ie_t
  end.

Definition gtp_del_bearer_command_bearer_ctxt_ie_ie (f : gtp_del_bearer_command_bearer_ctxt_ie_member) : IeMember (gtp_del_bearer_command_bearer_ctxt_ie_type f) :=
  match f with
  | eps_bearer_id => gtp_eps_bearer_id_ie_member
  | bearer_flags => gtp_bearer_flags_ie_member
  | ran_nas_release_cause => gtp_ran_nas_cause_ie_member
  end.

Definition gtp_del_bearer_command_bearer_ctxt_ie_sig : signature :=
  Signature gtp_del_bearer_command_bearer_ctxt_ie_member gtp_del_bearer_command_bearer_ctxt_ie_eq_dec gtp_del_bearer_command_bearer_ctxt_ie_type gtp_del_bearer_command_bearer_ctxt_ie_ie
    Empty_set no_counter_eq_dec.
Canonical Structure gtp_del_bearer_command_bearer_ctxt_ie_sig.

Definition gtp_del_bearer_command_bearer_ctxt_ie_t : Type := grouped gtp_del_bearer_command_bearer_ctxt_ie_sig.

Definition encode_gtp_del_bearer_command_bearer_ctxt_ie_order : list (visit gtp_del_bearer_command_bearer_ctxt_ie_sig) :=
  [One eps_bearer_id; One bearer_flags; One ran_nas_release_cause].

Definition encode_gtp_del_bearer_command_bearer_ctxt_ie (value : gtp_del_bearer_command_bearer_ctxt_ie_t) (buf : Z) : enc Z :=
  encode_grouped encode_gtp_del_bearer_command_bearer_ctxt_ie_order value buf.

Definition decode_gtp_del_bearer_command_bearer_ctxt_ie_table : list (branch gtp_del_bearer_command_bearer_ctxt_ie_sig) :=
  [(GTP_IE_EPS_BEARER_ID, Some GTP_IE_INSTANCE_ZERO, Into eps_bearer_id);
   (GTP_IE_BEARER_FLAGS, Some GTP_IE_INSTANCE_ZERO, Into bearer_flags);
   (GTP_IE_RAN_NAS_CAUSE, Some GTP_IE_INSTANCE_ZERO, Into ran_nas_release_cause)].

Definition decode_gtp_del_bearer_command_bearer_ctxt_ie (m : bytes) (buf : Z) (value : gtp_del_bearer_command_bearer_ctxt_ie_t)
  : option (Z * gtp_del_bearer_command_bearer_ctxt_ie_t) :=
  decode_grouped decode_gtp_del_bearer_command_bearer_ctxt_ie_table m buf value.

#[global] Instance gtp_del_bearer_command_bearer_ctxt_ie_member_ie : IeMember gtp_del_bearer_command_bearer_ctxt_ie_t :=
  grouped_member encode_gtp_del_bearer_command_bearer_ctxt_ie_order decode_gtp_del_bearer_command_bearer_ctxt_ie_table.

End gtp_del_bearer_command_bearer_ctxt_ie.

(** ** [gtp_mod_bearer_response__overload_ctl_info_ie] *)

Module gtp_mod_bearer_response__overload_ctl_info_ie.

Inductive gtp_mod_bearer_response__overload_ctl_info_ie_member :=
| ovrld_ctl_seqn_nbr
| ovrld_reduction_metric
| prd_of_validity
| apn.

Definition gtp_mod_bearer_response__overload_ctl_info_ie_eq_dec (f g : gtp_mod_bearer_response__overload_ctl_info_ie_member) : {f = g} + {f <> g}.
Proof. decide equality. Defined.

Definition gtp_mod_bearer_response__overload_ctl_info_ie_type (f : gtp_mod_bearer_response__overload_ctl_info_ie_member) : Type :=
  match f with
  | ovrld_ctl_seqn_nbr => gtp_sequence_number_ie.gtp_sequence_number_ie_t
  | ovrld_reduction_metric => gtp_metric_ie.gtp_metric_ie_t
  | prd_of_validity => gtp_epc_timer_ie.gtp_epc_timer_ie_t
  | apn => gtp_acc_pt_name_ie.gtp_acc_pt_name_ie_t
  end.

Definition gtp_mod_bearer_response__overload_ctl_info_ie_ie (f : gtp_mod_bearer_response__overload_ctl_info_ie_member) : IeMember (gtp_mod_bearer_response__overload_ctl_info_ie_type f) :=
  match f with
  | ovrld_ctl_seqn_nbr => gtp_sequence_number_ie_member
  | ovrld_reduction_metric => gtp_metric_ie_member
  | prd_of_validity => gtp_epc_timer_ie_member
  | apn => gtp_acc_pt_name_ie_member
  end.

Definition gtp_mod_bearer_response__overload_ctl_info_ie_sig : signature :=
  Signature gtp_mod_bearer_response__overload_ctl_info_ie_member gtp_mod_bearer_response__overload_ctl_info_ie_eq_dec gtp_mod_bearer_response__overload_ctl_info_ie_type gtp_mod_bearer_response__overload_ctl_info_ie_ie
    Empty_set no_counter_eq_dec.
Canonical Structure gtp_mod_bearer_response__overload_ctl_info_ie_sig.

Definition gtp_mod_bearer_response__overload_ctl_info_ie_t : Type := grouped gtp_mod_bearer_response__overload_ctl_info_ie_sig.

Definition encode_gtp_mod_bearer_response__overload_ctl_info_ie_order : list (visit gtp_mod_bearer_response__overload_ctl_info_ie_sig) :=
  [One ovrld_ctl_seqn_nbr; One ovrld_reduction_metric; One prd_of_validity; One apn].

Definition encode_gtp_mod_bearer_response__overload_ctl_info_ie (value : gtp_mod_bearer_response__overload_ctl_info_ie_t) (buf : Z) : enc Z :=
  encode_grouped encode_gtp_mod_bearer_response__overload_ctl_info_ie_order value buf.

Definition decode_gtp_mod_bearer_response__overload_ctl_info_ie_table : list (branch gtp_mod_bearer_response__overload_ctl_info_ie_sig) :=
  [(GTP_IE_SEQUENCE_NUMBER, Some GTP_IE_INSTANCE_ZERO, Into ovrld_ctl_seqn_nbr);
   (GTP_IE_METRIC, Some GTP_IE_INSTANCE_ZERO, Into ovrld_reduction_metric);
   (GTP_IE_EPC_TIMER, Some GTP_IE_INSTANCE_ZERO, Into prd_of_validity);
   (GTP_IE_ACC_PT_NAME, Some GTP_IE_INSTANCE_ZERO, Into apn)].

Definition decode_gtp_mod_bearer_response__overload_ctl_info_ie (m : bytes) (buf : Z) (value : gtp_mod_bearer_response__overload_ctl_info_ie_t)
  : option (Z * gtp_mod_bearer_response__overload_ctl_info_ie_t) :=
  decode_grouped decode_gtp_mod_bearer_response__overload_ctl_info_ie_table m buf value.

#[global] Instance gtp_mod_bearer_response__overload_ctl_info_ie_member_ie : IeMember gtp_mod_bearer_response__overload_ctl_info_ie_t :=
  grouped_member encode_gtp_mod_bearer_response__overload_ctl_info_ie_order decode_gtp_mod_bearer_response__overload_ctl_info_ie_table.

End gtp_mod_bearer_response__overload_ctl_info_ie.

(** ** [gtp_create_indir_data_fwdng_tunn_request__bearer_ctxt_ie] *)

Module gtp_create_indir_data_fwdng_tunn_request__bearer_ctxt_ie.

Inductive gtp_create_indir_data_fwdng_tunn_request__bearer_ctxt_ie_member :=
| eps_bearer_id
| enb_fteid_dl_data_fwdng
| sgsn_fteid_dl_data_fwdng
| rnc_fteid_dl_data_fwdng
| enb_fteid_ul_data_fwdng
| sgw_fteid_ul_data_fwdng
| mme_fteid_dl_data_fwdng.

Definition gtp_create_indir_data_fwdng_tunn_request__bearer_ctxt_ie_eq_dec (f g : gtp_create_indir_data_fwdng_tunn_request__bearer_ctxt_ie_member) : {f = g} + {f <> g}.
Proof. decide equality. Defined.

Definition gtp_create_indir_data_fwdng_tunn_request__bearer_ctxt_ie_type (f : gtp_create_indir_data_fwdng_tunn_request__bearer_ctxt_ie_member) : Type :=
  match f with
  | eps_bearer_id => gtp_eps_bearer_id_ie.gtp_eps_bearer_id_ie_t
  | enb_fteid_dl_data_fwdng => gtp_fully_qual_tunn_endpt_idnt_ie.gtp_fully_qual_tunn_endpt_idnt_ie_t
  | sgsn_fteid_dl_data_fwdng => gtp_fully_qual_tunn_endpt_idnt_ie.gtp_fully_qual_tunn_endpt_idnt_ie_t
  | rnc_fteid_dl_data_fwdng => gtp_fully_qual_tunn_endpt_idnt_ie.gtp_fully_qual_tunn_endpt_idnt_ie_t
  | enb_fteid_ul_data_fwdng => gtp_fully_qual_tunn_endpt_idnt_ie.gtp_fully_qual_tunn_endpt_idnt_ie_t
  | sgw_fteid_ul_data_fwdng => gtp_fully_qual_tunn_endpt_idnt_ie.gtp_fully_qual_tunn_endpt_idnt_ie_t
  | mme_fteid_dl_data_fwdng => gtp_fully_qual_tunn_endpt_idnt_ie.gtp_fully_qual_tunn_endpt_idnt_ie_t
  end.

Definition gtp_create_indir_data_fwdng_tunn_request__bearer_ctxt_ie_ie (f : gtp_create_indir_data_fwdng_tunn_request__bearer_ctxt_ie_member) : IeMember (gtp_create_indir_data_fwdng_tunn_request__bearer_ctxt_ie_type f) :=
  match f with
  | eps_bearer_id => gtp_eps_bearer_id_ie_member
  | enb_fteid_dl_data_fwdng => gtp_fully_qual_tunn_endpt_idnt_ie_member
  | sgsn_fteid_dl_data_fwdng => gtp_fully_qual_tunn_endpt_idnt_ie_member
  | rnc_fteid_dl_data_fwdng => gtp_fully_qual_tunn_endpt_idnt_ie_member
  | enb_fteid_ul_data_fwdng => gtp_fully_qual_tunn_endpt_idnt_ie_member
  | sgw_fteid_ul_data_fwdng => gtp_fully_qual_tunn_endpt_idnt_ie_member
  | mme_fteid_dl_data_fwdng => gtp_fully_qual_tunn_endpt_idnt_ie_member
  end.

Definition gtp_create_indir_data_fwdng_tunn_request__bearer_ctxt_ie_sig : signature :=
  Signature gtp_create_indir_data_fwdng_tunn_request__bearer_ctxt_ie_member gtp_create_indir_data_fwdng_tunn_request__bearer_ctxt_ie_eq_dec gtp_create_indir_data_fwdng_tunn_request__bearer_ctxt_ie_type gtp_create_indir_data_fwdng_tunn_request__bearer_ctxt_ie_ie
    Empty_set no_counter_eq_dec.
Canonical Structure gtp_create_indir_data_fwdng_tunn_request__bearer_ctxt_ie_sig.

Definition gtp_create_indir_data_fwdng_tunn_request__bearer_ctxt_ie_t : Type := grouped gtp_create_indir_data_fwdng_tunn_request__bearer_ctxt_ie_sig.

Definition encode_gtp_create_indir_data_fwdng_tunn_request__bearer_ctxt_ie_order : list (visit gtp_create_indir_data_fwdng_tunn_request__bearer_ctxt_ie_sig) :=
  [One eps_bearer_id; One enb_fteid_dl_data_fwdng; One sgsn_fteid_dl_data_fwdng;
   One rnc_fteid_dl_data_fwdng; One enb_fteid_ul_data_fwdng; One sgw_fteid_ul_data_fwdng;
   One mme_fteid_dl_data_fwdng].

Definition encode_gtp_create_indir_data_fwdng_tunn_request__bearer_ctxt_ie (value : gtp_create_indir_data_fwdng_tunn_request__bearer_ctxt_ie_t) (buf : Z) : enc Z :=
  encode_grouped encode_gtp_create_indir_data_fwdng_tunn_request__bearer_ctxt_ie_order value buf.

Definition decode_gtp_create_indir_data_fwdng_tunn_request__bearer_ctxt_ie_table : list (branch gtp_create_indir_data_fwdng_tunn_request__bearer_ctxt_ie_sig) :=
  [(GTP_IE_EPS_BEARER_ID, Some GTP_IE_INSTANCE_ZERO, Into eps_bearer_id);
   (GTP_IE_FULLY_QUAL_TUNN_ENDPT_IDNT, Some GTP_IE_INSTANCE_ZERO, Into enb_fteid_dl_data_fwdng);
   (GTP_IE_FULLY_QUAL_TUNN_ENDPT_IDNT, Some GTP_IE_INSTANCE_TWO, Into sgsn_fteid_dl_data_fwdng);
   (GTP_IE_FULLY_QUAL_TUNN_ENDPT_IDNT, Some GTP_IE_INSTANCE_THREE, Into rnc_fteid_dl_data_fwdng);
   (GTP_IE_FULLY_QUAL_TUNN_ENDPT_IDNT, Some GTP_IE_INSTANCE_FOUR, Into enb_fteid_ul_data_fwdng);
   (GTP_IE_FULLY_QUAL_TUNN_ENDPT_IDNT, Some GTP_IE_INSTANCE_FIVE, Into sgw_fteid_ul_data_fwdng);
   (GTP_IE_FULLY_QUAL_TUNN_ENDPT_IDNT, Some GTP_IE_INSTANCE_SIX, Into mme_fteid_dl_data_fwdng)].

Definition decode_gtp_create_indir_data_fwdng_tunn_request__bearer_ctxt_ie (m : bytes) (buf : Z) (value : gtp_create_indir_data_fwdng_tunn_request__bearer_ctxt_ie_t)
  : option (Z * gtp_create_indir_data_fwdng_tunn_request__bearer_ctxt_ie_t) :=
  decode_grouped decode_gtp_create_indir_data_fwdng_tunn_request__bearer_ctxt_ie_table m buf value.

#[global] Instance gtp_create_indir_data_fwdng_tunn_request__bearer_ctxt_ie_member_ie : IeMember gtp_create_indir_data_fwdng_tunn_request__bearer_ctxt_ie_t :=
  grouped_member encode_gtp_create_indir_data_fwdng_tunn_request__bearer_ctxt_ie_order decode_gtp_create_indir_data_fwdng_tunn_request__bearer_ctxt_ie_table.

End gtp_create_indir_data_fwdng_tunn_request__bearer_ctxt_ie.

(** ** [gtp_create_sess_request_bearer_ctxt_to_be_removed_ie] *)

Module gtp_create_sess_request_bearer_ctxt_to_be_removed_ie.

Inductive gtp_create_sess_request_bearer_ctxt_to_be_removed_ie_member :=
| eps_bearer_id
| s4_u_sgsn_fteid.

Definition gtp_create_sess_request_bearer_ctxt_to_be_removed_ie_eq_dec (f g : gtp_create_sess_request_bearer_ctxt_to_be_removed_ie_member) : {f = g} + {f <> g}.
Proof. decide equality. Defined.

Definition gtp_create_sess_request_bearer_ctxt_to_be_removed_ie_type (f : gtp_create_sess_request_bearer_ctxt_to_be_removed_ie_member) : Type :=
  match f with
  | eps_bearer_id => gtp_eps_bearer_id_ie.gtp_eps_bearer_id_ie_t
  | s4_u_sgsn_fteid => gtp_fully_qual_tunn_endpt_idnt_ie.gtp_fully_qual_tunn_endpt_idnt_ie_t
  end.

Definition gtp_create_sess_request_bearer_ctxt_to_be_removed_ie_ie (f : gtp_create_sess_request_bearer_ctxt_to_be_removed_ie_member) : IeMember (gtp_create_sess_request_bearer_ctxt_to_be_removed_ie_type f) :=
  match f with
  | eps_bearer_id => gtp_eps_bearer_id_ie_member
  | s4_u_sgsn_fteid => gtp_fully_qual_tunn_endpt_idnt_ie_member
  end.

Definition gtp_create_sess_request_bearer_ctxt_to_be_removed_ie_sig : signature :=
  Signature gtp_create_sess_request_bearer_ctxt_to_be_removed_ie_member gtp_create_sess_request_bearer_ctxt_to_be_removed_ie_eq_dec gtp_create_sess_request_bearer_ctxt_to_be_removed_ie_type gtp_create_sess_request_bearer_ctxt_to_be_removed_ie_ie
    Empty_set no_counter_eq_dec.
Canonical Structure gtp_create_sess_request_bearer_ctxt_to_be_removed_ie_sig.

Definition gtp_create_sess_request_bearer_ctxt_to_be_removed_ie_t : Type := grouped gtp_create_sess_request_bearer_ctxt_to_be_removed_ie_sig.

Definition encode_gtp_create_sess_request_bearer_ctxt_to_be_removed_ie_order : list (visit gtp_create_sess_request_bearer_ctxt_to_be_removed_ie_sig) :=
  [One eps_bearer_id; One s4_u_sgsn_fteid].

Definition encode_gtp_create_sess_request_bearer_ctxt_to_be_removed_ie (value : gtp_create_sess_request_bearer_ctxt_to_be_removed_ie_t) (buf : Z) : enc Z :=
  encode_grouped encode_gtp_create_sess_request_bearer_ctxt_to_be_removed_ie_order value buf.

Definition decode_gtp_create_sess_request_bearer_ctxt_to_be_removed_ie_table : list (branch gtp_create_sess_request_bearer_ctxt_to_be_removed_ie_sig) :=
  [(GTP_IE_EPS_BEARER_ID, Some GTP_IE_INSTANCE_ZERO, Into eps_bearer_id);
   (GTP_IE_FULLY_QUAL_TUNN_ENDPT_IDNT, Some GTP_IE_INSTANCE_ZERO, Into s4_u_sgsn_fteid)].

Definition decode_gtp_create_sess_request_bearer_ctxt_to_be_removed_ie (m : bytes) (buf : Z) (value : gtp_create_sess_request_bearer_ctxt_to_be_removed_ie_t)
  : option (Z * gtp_create_sess_request_bearer_ctxt_to_be_removed_ie_t) :=
  decode_grouped decode_gtp_create_sess_request_bearer_ctxt_to_be_removed_ie_table m buf value.

#[global] Instance gtp_create_sess_request_bearer_ctxt_to_be_removed_ie_member_ie : IeMember gtp_create_sess_request_bearer_ctxt_to_be_removed_ie_t :=
  grouped_member encode_gtp_create_sess_request_bearer_ctxt_to_be_removed_ie_order decode_gtp_create_sess_request_bearer_ctxt_to_be_removed_ie_table.

End gtp_create_sess_request_bearer_ctxt_to_be_removed_ie.

(** ** [gtp_mod_bearer_response_bearer_ctxt_marked_removal_ie] *)

Module gtp_mod_bearer_response_bearer_ctxt_marked_removal_ie.

Inductive gtp_mod_bearer_response_bearer_ctxt_marked_removal_ie_member :=
| eps_bearer_id
| cause.

Definition gtp_mod_bearer_response_bearer_ctxt_marked_removal_ie_eq_dec (f g : gtp_mod_bearer_response_bearer_ctxt_marked_removal_ie_member) : {f = g} + {f <> g}.
Proof. decide equality. Defined.

Definition gtp_mod_bearer_response_bearer_ctxt_marked_removal_ie_type (f : gtp_mod_bearer_response_bearer_ctxt_marked_removal_ie_member) : Type :=
  match f with
  | eps_bearer_id => gtp_eps_bearer_id_ie.gtp_eps_bearer_id_ie_t
  | cause => gtp_cause_ie.gtp_cause_ie_t
  end.

Definition gtp_mod_bearer_response_bearer_ctxt_marked_removal_ie_ie (f : gtp_mod_bearer_response_bearer_ctxt_marked_removal_ie_member) : IeMember (gtp_mod_bearer_response_bearer_ctxt_marked_removal_ie_type f) :=
  match f with
  | eps_bearer_id => gtp_eps_bearer_id_ie_member
  | cause => gtp_cause_ie_member
  end.

Definition gtp_mod_bearer_response_bearer_ctxt_marked_removal_ie_sig : signature :=
  Signature gtp_mod_bearer_response_bearer_ctxt_marked_removal_ie_member gtp_mod_bearer_response_bearer_ctxt_marked_removal_ie_eq_dec gtp_mod_bearer_response_bearer_ctxt_marked_removal_ie_type gtp_mod_bearer_response_bearer_ctxt_marked_removal_ie_ie
    Empty_set no_counter_eq_dec.
Canonical Structure gtp_mod_bearer_response_bearer_ctxt_marked_removal_ie_sig.

Definition gtp_mod_bearer_response_bearer_ctxt_marked_removal_ie_t : Type := grouped gtp_mod_bearer_response_bearer_ctxt_marked_removal_ie_sig.

Definition encode_gtp_mod_bearer_response_bearer_ctxt_marked_removal_ie_order : list (visit gtp_mod_bearer_response_bearer_ctxt_marked_removal_ie_sig) :=
  [One eps_bearer_id; One cause].

Definition encode_gtp_mod_bearer_response_bearer_ctxt_marked_removal_ie (value : gtp_mod_bearer_response_bearer_ctxt_marked_removal_ie_t) (buf : Z) : enc Z :=
  encode_grouped encode_gtp_mod_bearer_response_bearer_ctxt_marked_removal_ie_order value buf.

Definition decode_gtp_mod_bearer_response_bearer_ctxt_marked_removal_ie_table : list (branch gtp_mod_bearer_response_bearer_ctxt_marked_removal_ie_sig) :=
  [(GTP_IE_EPS_BEARER_ID, Some GTP_IE_INSTANCE_ZERO, Into eps_bearer_id);
   (GTP_IE_CAUSE, Some GTP_IE_INSTANCE_ZERO, Into cause)].

Definition decode_gtp_mod_bearer_response_bearer_ctxt_marked_removal_ie (m : bytes) (buf : Z) (value : gtp_mod_bearer_response_bearer_ctxt_marked_removal_ie_t)
  : option (Z * gtp_mod_bearer_response_bearer_ctxt_marked_removal_ie_t) :=
  decode_grouped decode_gtp_mod_bearer_response_bearer_ctxt_marked_removal_ie_table m buf value.

#[global] Instance gtp_mod_bearer_response_bearer_ctxt_marked_removal_ie_member_ie : IeMember gtp_mod_bearer_response_bearer_ctxt_marked_removal_ie_t :=
  grouped_member encode_gtp_mod_bearer_response_bearer_ctxt_marked_removal_ie_order decode_gtp_mod_bearer_response_bearer_ctxt_marked_removal_ie_table.

End gtp_mod_bearer_response_bearer_ctxt_marked_removal_ie.

(** ** [gtp_del_sess_response__load_ctl_info_ie] *)

Module gtp_del_sess_response__load_ctl_info_ie.

Inductive gtp_del_sess_response__load_ctl_info_ie_member :=
| load_ctl_seqn_nbr
| load_metric
| list_of_apn_and_rltv_cap.

Definition gtp_del_sess_response__load_ctl_info_ie_eq_dec (f g : gtp_del_sess_response__load_ctl_info_ie_member) : {f = g} + {f <> g}.
Proof. decide equality. Defined.

Definition gtp_del_sess_response__load_ctl_info_ie_type (f : gtp_del_sess_response__load_ctl_info_ie_member) : Type :=
  match f with
  | load_ctl_seqn_nbr => gtp_sequence_number_ie.gtp_sequence_number_ie_t
  | load_metric => gtp_metric_ie.gtp_metric_ie_t
  | list_of_apn_and_rltv_cap => gtp_apn_and_rltv_cap_ie.gtp_apn_and_rltv_cap_ie_t
  end.

Definition gtp_del_sess_response__load_ctl_info_ie_ie (f : gtp_del_sess_response__load_ctl_info_ie_member) : IeMember (gtp_del_sess_response__load_ctl_info_ie_type f) :=
  match f with
  | load_ctl_seqn_nbr => gtp_sequence_number_ie_member
  | load_metric => gtp_metric_ie_member
  | list_of_apn_and_rltv_cap => gtp_apn_and_rltv_cap_ie_member
  end.

Definition gtp_del_sess_response__load_ctl_info_ie_sig : signature :=
  Signature gtp_del_sess_response__load_ctl_info_ie_member gtp_del_sess_response__load_ctl_info_ie_eq_dec gtp_del_sess_response__load_ctl_info_ie_type gtp_del_sess_response__load_ctl_info_ie_ie
    Empty_set no_counter_eq_dec.
Canonical Structure gtp_del_sess_response__load_ctl_info_ie_sig.

Definition gtp_del_sess_response__load_ctl_info_ie_t : Type := grouped gtp_del_sess_response__load_ctl_info_ie_sig.

Definition encode_gtp_del_sess_response__load_ctl_info_ie_order : list (visit gtp_del_sess_response__load_ctl_info_ie_sig) :=
  [One load_ctl_seqn_nbr; One load_metric; One list_of_apn_and_rltv_cap].

Definition encode_gtp_del_sess_response__load_ctl_info_ie (value : gtp_del_sess_response__load_ctl_info_ie_t) (buf : Z) : enc Z :=
  encode_grouped encode_gtp_del_sess_response__load_ctl_info_ie_order value buf.

Definition decode_gtp_del_sess_response__load_ctl_info_ie_table : list (branch gtp_del_sess_response__load_ctl_info_ie_sig) :=
  [(GTP_IE_SEQUENCE_NUMBER, Some GTP_IE_INSTANCE_ZERO, Into load_ctl_seqn_nbr);
   (GTP_IE_METRIC, Some GTP_IE_INSTANCE_ZERO, Into load_metric);
   (GTP_IE_APN_AND_RLTV_CAP, Some GTP_IE_INSTANCE_ZERO, Into list_of_apn_and_rltv_cap)].

Definition decode_gtp_del_sess_response__load_ctl_info_ie (m : bytes) (buf : Z) (value : gtp_del_sess_response__load_ctl_info_ie_t)
  : option (Z * gtp_del_sess_response__load_ctl_info_ie_t) :=
  decode_grouped decode_gtp_del_sess_response__load_ctl_info_ie_table m buf value.

#[global] Instance gtp_del_sess_response__load_ctl_info_ie_member_ie : IeMember gtp_del_sess_response__load_ctl_info_ie_t :=
  grouped_member encode_gtp_del_sess_response__load_ctl_info_ie_order decode_gtp_del_sess_response__load_ctl_info_ie_table.

End gtp_del_sess_response__load_ctl_info_ie.

(** ** [gtp_upd_bearer_request__load_ctl_info_ie] *)

Module gtp_upd_bearer_request__load_ctl_info_ie.

Inductive gtp_upd_bearer_request__load_ctl_info_ie_member :=
| load_ctl_seqn_nbr
| load_metric
| list_of_apn_and_rltv_cap.

Definition gtp_upd_bearer_request__load_ctl_info_ie_eq_dec (f g : gtp_upd_bearer_request__load_ctl_info_ie_member) : {f = g} + {f <> g}.
Proof. decide equality. Defined.

Definition gtp_upd_bearer_request__load_ctl_info_ie_type (f : gtp_upd_bearer_request__load_ctl_info_ie_member) : Type :=
  match f with
  | load_ctl_seqn_nbr => gtp_sequence_number_ie.gtp_sequence_number_ie_t
  | load_metric => gtp_metric_ie.gtp_metric_ie_t
  | list_of_apn_and_rltv_cap => gtp_apn_and_rltv_cap_ie.gtp_apn_and_rltv_cap_ie_t
  end.

Definition gtp_upd_bearer_request__load_ctl_info_ie_ie (f : gtp_upd_bearer_request__load_ctl_info_ie_member) : IeMember (gtp_upd_bearer_request__load_ctl_info_ie_type f) :=
  match f with
  | load_ctl_seqn_nbr => gtp_sequence_number_ie_member
  | load_metric => gtp_metric_ie_member
  | list_of_apn_and_rltv_cap => gtp_apn_and_rltv_cap_ie_member
  end.

Definition gtp_upd_bearer_request__load_ctl_info_ie_sig : signature :=
  Signature gtp_upd_bearer_request__load_ctl_info_ie_member gtp_upd_bearer_request__load_ctl_info_ie_eq_dec gtp_upd_bearer_request__load_ctl_info_ie_type gtp_upd_bearer_request__load_ctl_info_ie_ie
    Empty_set no_counter_eq_dec.
Canonical Structure gtp_upd_bearer_request__load_ctl_info_ie_sig.

Definition gtp_upd_bearer_request__load_ctl_info_ie_t : Type := grouped gtp_upd_bearer_request__load_ctl_info_ie_sig.

Definition encode_gtp_upd_bearer_request__load_ctl_info_ie_order : list (visit gtp_upd_bearer_request__load_ctl_info_ie_sig) :=
  [One load_ctl_seqn_nbr; One load_metric; One list_of_apn_and_rltv_cap].

Definition encode_gtp_upd_bearer_request__load_ctl_info_ie (value : gtp_upd_bearer_request__load_ctl_info_ie_t) (buf : Z) : enc Z :=
  encode_grouped encode_gtp_upd_bearer_request__load_ctl_info_ie_order value buf.

Definition decode_gtp_upd_bearer_request__load_ctl_info_ie_table : list (branch gtp_upd_bearer_request__load_ctl_info_ie_sig) :=
  [(GTP_IE_SEQUENCE_NUMBER, Some GTP_IE_INSTANCE_ZERO, Into load_ctl_seqn_nbr);
   (GTP_IE_METRIC, Some GTP_IE_INSTANCE_ZERO, Into load_metric);
   (GTP_IE_APN_AND_RLTV_CAP, Some GTP_IE_INSTANCE_ZERO, Into list_of_apn_and_rltv_cap)].

Definition decode_gtp_upd_bearer_request__load_ctl_info_ie (m : bytes) (buf : Z) (value : gtp_upd_bearer_request__load_ctl_info_ie_t)
  : option (Z * gtp_upd_bearer_request__load_ctl_info_ie_t) :=
  decode_grouped decode_gtp_upd_bearer_request__load_ctl_info_ie_table m buf value.

#[global] Instance gtp_upd_bearer_request__load_ctl_info_ie_member_ie : IeMember gtp_upd_bearer_request__load_ctl_info_ie_t :=
  grouped_member encode_gtp_upd_bearer_request__load_ctl_info_ie_order decode_gtp_upd_bearer_request__load_ctl_info_ie_table.

End gtp_upd_bearer_request__load_ctl_info_ie.

(** ** [gtp_upd_bearer_response__bearer_ctxt_ie] *)

Module gtp_upd_bearer_response__bearer_ctxt_ie.

Inductive gtp_upd_bearer_response__bearer_ctxt_ie_member :=
| eps_bearer_id
| cause
| s4_u_sgsn_fteid
| s12_rnc_fteid
| pco
| ran_nas_cause
| epco.

Definition gtp_upd_bearer_response__bearer_ctxt_ie_eq_dec (f g : gtp_upd_bearer_response__bearer_ctxt_ie_member) : {f = g} + {f <> g}.
Proof. decide equality. Defined.

Definition gtp_upd_bearer_response__bearer_ctxt_ie_type (f : gtp_upd_bearer_response__bearer_ctxt_ie_member) : Type :=
  match f with
  | eps_bearer_id => gtp_eps_bearer_id_ie.gtp_eps_bearer_id_ie_t
  | cause => gtp_cause_ie.gtp_cause_ie_t
  | s4_u_sgsn_fteid => gtp_fully_qual_tunn_endpt_idnt_ie.gtp_fully_qual_tunn_endpt_idnt_ie_t
  | s12_rnc_fteid => gtp_fully_qual_tunn_endpt_idnt_ie.gtp_fully_qual_tunn_endpt_idnt_ie_t
  | pco => gtp_prot_cfg_opts_ie.gtp_prot_cfg_opts_ie_t
  | ran_nas_cause => gtp_ran_nas_cause_ie.gtp_ran_nas_cause_ie_t
  | epco => gtp_extnded_prot_cfg_opts_ie.gtp_extnded_prot_cfg_opts_ie_t
  end.

Definition gtp_upd_bearer_response__bearer_ctxt_ie_ie (f : gtp_upd_bearer_response__bearer_ctxt_ie_member) : IeMember (gtp_upd_bearer_response__bearer_ctxt_ie_type f) :=
  match f with
  | eps_bearer_id => gtp_eps_bearer_id_ie_member
  | cause => gtp_cause_ie_member
  | s4_u_sgsn_fteid => gtp_fully_qual_tunn_endpt_idnt_ie_member
  | s12_rnc_fteid => gtp_fully_qual_tunn_endpt_idnt_ie_member
  | pco => gtp_prot_cfg_opts_ie_member
  | ran_nas_cause => gtp_ran_nas_cause_ie_member
  | epco => gtp_extnded_prot_cfg_opts_ie_member
  end.

Definition gtp_upd_bearer_response__bearer_ctxt_ie_sig : signature :=
  Signature gtp_upd_bearer_response__bearer_ctxt_ie_member gtp_upd_bearer_response__bearer_ctxt_ie_eq_dec gtp_upd_bearer_response__bearer_ctxt_ie_type gtp_upd_bearer_response__bearer_ctxt_ie_ie
    Empty_set no_counter_eq_dec.
Canonical Structure gtp_upd_bearer_response__bearer_ctxt_ie_sig.

Definition gtp_upd_bearer_response__bearer_ctxt_ie_t : Type := grouped gtp_upd_bearer_response__bearer_ctxt_ie_sig.

Definition encode_gtp_upd_bearer_response__bearer_ctxt_ie_order : list (visit gtp_upd_bearer_response__bearer_ctxt_ie_sig) :=
  [One eps_bearer_id; One cause; One s4_u_sgsn_fteid; One s12_rnc_fteid; One pco;
   One ran_nas_cause; One epco].

Definition encode_gtp_upd_bearer_response__bearer_ctxt_ie (value : gtp_upd_bearer_response__bearer_ctxt_ie_t) (buf : Z) : enc Z :=
  encode_grouped encode_gtp_upd_bearer_response__bearer_ctxt_ie_order value buf.

Definition decode_gtp_upd_bearer_response__bearer_ctxt_ie_table : list (branch gtp_upd_bearer_response__bearer_ctxt_ie_sig) :=
  [(GTP_IE_EPS_BEARER_ID, Some GTP_IE_INSTANCE_ZERO, Into eps_bearer_id);
   (GTP_IE_CAUSE, Some GTP_IE_INSTANCE_ZERO, Into cause);
   (GTP_IE_FULLY_QUAL_TUNN_ENDPT_IDNT, Some GTP_IE_INSTANCE_ZERO, Into s4_u_sgsn_fteid);
   (GTP_IE_FULLY_QUAL_TUNN_ENDPT_IDNT, Some GTP_IE_INSTANCE_ONE, Into s12_rnc_fteid);
   (GTP_IE_PROT_CFG_OPTS, Some GTP_IE_INSTANCE_ZERO, Into pco);
   (GTP_IE_RAN_NAS_CAUSE, Some GTP_IE_INSTANCE_ZERO, Into ran_nas_cause);
   (GTP_IE_EXTNDED_PROT_CFG_OPTS, Some GTP_IE_INSTANCE_ZERO, Into epco)].

Definition decode_gtp_upd_bearer_response__bearer_ctxt_ie (m : bytes) (buf : Z) (value : gtp_upd_bearer_response__bearer_ctxt_ie_t)
  : option (Z * gtp_upd_bearer_response__bearer_ctxt_ie_t) :=
  decode_grouped decode_gtp_upd_bearer_response__bearer_ctxt_ie_table m buf value.

#[global] Instance gtp_upd_bearer_response__bearer_ctxt_ie_member_ie : IeMember gtp_upd_bearer_response__bearer_ctxt_ie_t :=
  grouped_member encode_gtp_upd_bearer_response__bearer_ctxt_ie_order decode_gtp_upd_bearer_response__bearer_ctxt_ie_table.

End gtp_upd_bearer_response__bearer_ctxt_ie.

(** ** [gtp_create_bearer_response_bearer_ctxt_ie] *)

Module gtp_create_bearer_response_bearer_ctxt_ie.

Inductive gtp_create_bearer_response_bearer_ctxt_ie_member :=
| eps_bearer_id
| cause
| s1u_enb_fteid
| s1u_sgw_fteid
| s58_u_sgw_fteid
| s58_u_pgw_fteid
| s12_rnc_fteid
| s12_sgw_fteid
| s4_u_sgsn_fteid
| s4_u_sgw_fteid
| s2b_u_epdg_fteid
| s2b_u_pgw_fteid
| s2a_u_twan_fteid
| s2a_u_pgw_fteid
| pco
| ran_nas_cause
| epco.

Definition gtp_create_bearer_response_bearer_ctxt_ie_eq_dec (f g : gtp_create_bearer_response_bearer_ctxt_ie_member) : {f = g} + {f <> g}.
Proof. decide equality. Defined.

Definition gtp_create_bearer_response_bearer_ctxt_ie_type (f : gtp_create_bearer_response_bearer_ctxt_ie_member) : Type :=
  match f with
  | eps_bearer_id => gtp_eps_bearer_id_ie.gtp_eps_bearer_id_ie_t
  | cause => gtp_cause_ie.gtp_cause_ie_t
  | s1u_enb_fteid => gtp_fully_qual_tunn_endpt_idnt_ie.gtp_fully_qual_tunn_endpt_idnt_ie_t
  | s1u_sgw_fteid => gtp_fully_qual_tunn_endpt_idnt_ie.gtp_fully_qual_tunn_endpt_idnt_ie_t
  | s58_u_sgw_fteid => gtp_fully_qual_tunn_endpt_idnt_ie.gtp_fully_qual_tunn_endpt_idnt_ie_t
  | s58_u_pgw_fteid => gtp_fully_qual_tunn_endpt_idnt_ie.gtp_fully_qual_tunn_endpt_idnt_ie_t
  | s12_rnc_fteid => gtp_fully_qual_tunn_endpt_idnt_ie.gtp_fully_qual_tunn_endpt_idnt_ie_t
  | s12_sgw_fteid => gtp_fully_qual_tunn_endpt_idnt_ie.gtp_fully_qual_tunn_endpt_idnt_ie_t
  | s4_u_sgsn_fteid => gtp_fully_qual_tunn_endpt_idnt_ie.gtp_fully_qual_tunn_endpt_idnt_ie_t
  | s4_u_sgw_fteid => gtp_fully_qual_tunn_endpt_idnt_ie.gtp_fully_qual_tunn_endpt_idnt_ie_t
  | s2b_u_epdg_fteid => gtp_fully_qual_tunn_endpt_idnt_ie.gtp_fully_qual_tunn_endpt_idnt_ie_t
  | s2b_u_pgw_fteid => gtp_fully_qual_tunn_endpt_idnt_ie.gtp_fully_qual_tunn_endpt_idnt_ie_t
  | s2a_u_twan_fteid => gtp_fully_qual_tunn_endpt_idnt_ie.gtp_fully_qual_tunn_endpt_idnt_ie_t
  | s2a_u_pgw_fteid => gtp_fully_qual_tunn_endpt_idnt_ie.gtp_fully_qual_tunn_endpt_idnt_ie_t
  | pco => gtp_prot_cfg_opts_ie.gtp_prot_cfg_opts_ie_t
  | ran_nas_cause => gtp_ran_nas_cause_ie.gtp_ran_nas_cause_ie_t
  | epco => gtp_extnded_prot_cfg_opts_ie.gtp_extnded_prot_cfg_opts_ie_t
  end.

Definition gtp_create_bearer_response_bearer_ctxt_ie_ie (f : gtp_create_bearer_response_bearer_ctxt_ie_member) : IeMember (gtp_create_bearer_response_bearer_ctxt_ie_type f) :=
  match f with
  | eps_bearer_id => gtp_eps_bearer_id_ie_member
  | cause => gtp_cause_ie_member
  | s1u_enb_fteid => gtp_fully_qual_tunn_endpt_idnt_ie_member
  | s1u_sgw_fteid => gtp_fully_qual_tunn_endpt_idnt_ie_member
  | s58_u_sgw_fteid => gtp_fully_qual_tunn_endpt_idnt_ie_member
  | s58_u_pgw_fteid => gtp_fully_qual_tunn_endpt_idnt_ie_member
  | s12_rnc_fteid => gtp_fully_qual_tunn_endpt_idnt_ie_member
  | s12_sgw_fteid => gtp_fully_qual_tunn_endpt_idnt_ie_member
  | s4_u_sgsn_fteid => gtp_fully_qual_tunn_endpt_idnt_ie_member
  | s4_u_sgw_fteid => gtp_fully_qual_tunn_endpt_idnt_ie_member
  | s2b_u_epdg_fteid => gtp_fully_qual_tunn_endpt_idnt_ie_member
  | s2b_u_pgw_fteid => gtp_fully_qual_tunn_endpt_idnt_ie_member
  | s2a_u_twan_fteid => gtp_fully_qual_tunn_endpt_idnt_ie_member
  | s2a_u_pgw_fteid => gtp_fully_qual_tunn_endpt_idnt_ie_member
  | pco => gtp_prot_cfg_opts_ie_member
  | ran_nas_cause => gtp_ran_nas_cause_ie_member
  | epco => gtp_extnded_prot_cfg_opts_ie_member
  end.

Definition gtp_create_bearer_response_bearer_ctxt_ie_sig : signature :=
  Signature gtp_create_bearer_response_bearer_ctxt_ie_member gtp_create_bearer_response_bearer_ctxt_ie_eq_dec gtp_create_bearer_response_bearer_ctxt_ie_type gtp_create_bearer_response_bearer_ctxt_ie_ie
    Empty_set no_counter_eq_dec.
Canonical Structure gtp_create_bearer_response_bearer_ctxt_ie_sig.

Definition gtp_create_bearer_response_bearer_ctxt_ie_t : Type := grouped gtp_create_bearer_response_bearer_ctxt_ie_sig.

Definition encode_gtp_create_bearer_response_bearer_ctxt_ie_order : list (visit gtp_create_bearer_response_bearer_ctxt_ie_sig) :=
  [One eps_bearer_id; One cause; One s1u_enb_fteid; One s1u_sgw_fteid; One s58_u_sgw_fteid;
   One s58_u_pgw_fteid; One s12_rnc_fteid; One s12_sgw_fteid; One s4_u_sgsn_fteid;
   One s4_u_sgw_fteid; One s2b_u_epdg_fteid; One s2b_u_pgw_fteid; One s2a_u_twan_fteid;
   One s2a_u_pgw_fteid; One pco; One ran_nas_cause; One epco].

Definition encode_gtp_create_bearer_response_bearer_ctxt_ie (value : gtp_create_bearer_response_bearer_ctxt_ie_t) (buf : Z) : enc Z :=
  encode_grouped encode_gtp_create_bearer_response_bearer_ctxt_ie_order value buf.

Definition decode_gtp_create_bearer_response_bearer_ctxt_ie_table : list (branch gtp_create_bearer_response_bearer_ctxt_ie_sig) :=
  [(GTP_IE_EPS_BEARER_ID, Some GTP_IE_INSTANCE_ZERO, Into eps_bearer_id);
   (GTP_IE_CAUSE, Some GTP_IE_INSTANCE_ZERO, Into cause);
   (GTP_IE_FULLY_QUAL_TUNN_ENDPT_IDNT, Some GTP_IE_INSTANCE_ZERO, Into s1u_enb_fteid);
   (GTP_IE_FULLY_QUAL_TUNN_ENDPT_IDNT, Some GTP_IE_INSTANCE_ONE, Into s1u_sgw_fteid);
   (GTP_IE_FULLY_QUAL_TUNN_ENDPT_IDNT, Some GTP_IE_INSTANCE_TWO, Into s58_u_sgw_fteid);
   (GTP_IE_FULLY_QUAL_TUNN_ENDPT_IDNT, Some GTP_IE_INSTANCE_THREE, Into s58_u_pgw_fteid);
   (GTP_IE_FULLY_QUAL_TUNN_ENDPT_IDNT, Some GTP_IE_INSTANCE_FOUR, Into s12_rnc_fteid);
   (GTP_IE_FULLY_QUAL_TUNN_ENDPT_IDNT, Some GTP_IE_INSTANCE_FIVE, Into s12_sgw_fteid);
   (GTP_IE_FULLY_QUAL_TUNN_ENDPT_IDNT, Some GTP_IE_INSTANCE_SIX, Into s4_u_sgsn_fteid);
   (GTP_IE_FULLY_QUAL_TUNN_ENDPT_IDNT, Some GTP_IE_INSTANCE_SEVEN, Into s4_u_sgw_fteid);
   (GTP_IE_FULLY_QUAL_TUNN_ENDPT_IDNT, Some GTP_IE_INSTANCE_EIGHT, Into s2b_u_epdg_fteid);
   (GTP_IE_FULLY_QUAL_TUNN_ENDPT_IDNT, Some GTP_IE_INSTANCE_NINE, Into s2b_u_pgw_fteid);
   (GTP_IE_FULLY_QUAL_TUNN_ENDPT_IDNT, Some GTP_IE_INSTANCE_TEN, Into s2a_u_twan_fteid);
   (GTP_IE_FULLY_QUAL_TUNN_ENDPT_IDNT, Some GTP_IE_INSTANCE_ELEVEN, Into s2a_u_pgw_fteid);
   (GTP_IE_PROT_CFG_OPTS, Some GTP_IE_INSTANCE_ZERO, Into pco);
   (GTP_IE_RAN_NAS_CAUSE, Some GTP_IE_INSTANCE_ZERO, Into ran_nas_cause);
   (GTP_IE_EXTNDED_PROT_CFG_OPTS, Some GTP_IE_INSTANCE_ZERO, Into epco)].

Definition decode_gtp_create_bearer_response_bearer_ctxt_ie (m : bytes) (buf : Z) (value : gtp_create_bearer_response_bearer_ctxt_ie_t)
  : option (Z * gtp_create_bearer_response_bearer_ctxt_ie_t) :=
  decode_grouped decode_gtp_create_bearer_response_bearer_ctxt_ie_table m buf value.

#[global] Instance gtp_create_bearer_response_bearer_ctxt_ie_member_ie : IeMember gtp_create_bearer_response_bearer_ctxt_ie_t :=
  grouped_member encode_gtp_create_bearer_response_bearer_ctxt_ie_order decode_gtp_create_bearer_response_bearer_ctxt_ie_table.

End gtp_create_bearer_response_bearer_ctxt_ie.

(** ** [gtp_mod_acc_bearers_response__bearer_ctxt_marked_removal_ie] *)

Module gtp_mod_acc_bearers_response__bearer_ctxt_marked_removal_ie.

Inductive gtp_mod_acc_bearers_response__bearer_ctxt_marked_removal_ie_member :=
| eps_bearer_id
| cause.

Definition gtp_mod_acc_bearers_response__bearer_ctxt_marked_removal_ie_eq_dec (f g : gtp_mod_acc_bearers_response__bearer_ctxt_marked_removal_ie_member) : {f = g} + {f <> g}.
Proof. decide equality. Defined.

Definition gtp_mod_acc_bearers_response__bearer_ctxt_marked_removal_ie_type (f : gtp_mod_acc_bearers_response__bearer_ctxt_marked_removal_ie_member) : Type :=
  match f with
  | eps_bearer_id => gtp_eps_bearer_id_ie.gtp_eps_bearer_id_ie_t
  | cause => gtp_cause_ie.gtp_cause_ie_t
  end.

Definition gtp_mod_acc_bearers_response__bearer_ctxt_marked_removal_ie_ie (f : gtp_mod_acc_bearers_response__bearer_ctxt_marked_removal_ie_member) : IeMember (gtp_mod_acc_bearers_response__bearer_ctxt_marked_removal_ie_type f) :=
  match f with
  | eps_bearer_id => gtp_eps_bearer_id_ie_member
  | cause => gtp_cause_ie_member
  end.

Definition gtp_mod_acc_bearers_response__bearer_ctxt_marked_removal_ie_sig : signature :=
  Signature gtp_mod_acc_bearers_response__bearer_ctxt_marked_removal_ie_member gtp_mod_acc_bearers_response__bearer_ctxt_marked_removal_ie_eq_dec gtp_mod_acc_bearers_response__bearer_ctxt_marked_removal_ie_type gtp_mod_acc_bearers_response__bearer_ctxt_marked_removal_ie_ie
    Empty_set no_counter_eq_dec.
Canonical Structure gtp_mod_acc_bearers_response__bearer_ctxt_marked_removal_ie_sig.

Definition gtp_mod_acc_bearers_response__bearer_ctxt_marked_removal_ie_t : Type := grouped gtp_mod_acc_bearers_response__bearer_ctxt_marked_removal_ie_sig.

Definition encode_gtp_mod_acc_bearers_response__bearer_ctxt_marked_removal_ie_order : list (visit gtp_mod_acc_bearers_response__bearer_ctxt_marked_removal_ie_sig) :=
  [One eps_bearer_id; One cause].

Definition encode_gtp_mod_acc_bearers_response__bearer_ctxt_marked_removal_ie (value : gtp_mod_acc_bearers_response__bearer_ctxt_marked_removal_ie_t) (buf : Z) : enc Z :=
  encode_grouped encode_gtp_mod_acc_bearers_response__bearer_ctxt_marked_removal_ie_order value buf.

Definition decode_gtp_mod_acc_bearers_response__bearer_ctxt_marked_removal_ie_table : list (branch gtp_mod_acc_bearers_response__bearer_ctxt_marked_removal_ie_sig) :=
  [(GTP_IE_EPS_BEARER_ID, Some GTP_IE_INSTANCE_ZERO, Into eps_bearer_id);
   (GTP_IE_CAUSE, Some GTP_IE_INSTANCE_ZERO, Into cause)].

Definition decode_gtp_mod_acc_bearers_response__bearer_ctxt_marked_removal_ie (m : bytes) (buf : Z) (value : gtp_mod_acc_bearers_response__bearer_ctxt_marked_removal_ie_t)
  : option (Z * gtp_mod_acc_bearers_response__bearer_ctxt_marked_removal_ie_t) :=
  decode_grouped decode_gtp_mod_acc_bearers_response__bearer_ctxt_marked_removal_ie_table m buf value.

#[global] Instance gtp_mod_acc_bearers_response__bearer_ctxt_marked_removal_ie_member_ie : IeMember gtp_mod_acc_bearers_response__bearer_ctxt_marked_removal_ie_t :=
  grouped_member encode_gtp_mod_acc_bearers_response__bearer_ctxt_marked_removal_ie_order decode_gtp_mod_acc_bearers_response__bearer_ctxt_marked_removal_ie_table.

End gtp_mod_acc_bearers_response__bearer_ctxt_marked_removal_ie.

(** ** [gtp_upd_bearer_request__bearer_ctxt_ie] *)

Module gtp_upd_bearer_request__bearer_ctxt_ie.

Inductive gtp_upd_bearer_request__bearer_ctxt_ie_member :=
| eps_bearer_id
| tft
| bearer_lvl_qos
| bearer_flags
| pco
| apco
| epco
| max_pckt_loss_rate.

Definition gtp_upd_bearer_request__bearer_ctxt_ie_eq_dec (f g : gtp_upd_bearer_request__bearer_ctxt_ie_member) : {f = g} + {f <> g}.
Proof. decide equality. Defined.

Definition gtp_upd_bearer_request__bearer_ctxt_ie_type (f : gtp_upd_bearer_request__bearer_ctxt_ie_member) : Type :=
  match f with
  | eps_bearer_id => gtp_eps_bearer_id_ie.gtp_eps_bearer_id_ie_t
  | tft => gtp_eps_bearer_lvl_traffic_flow_tmpl_ie.gtp_eps_bearer_lvl_traffic_flow_tmpl_ie_t
  | bearer_lvl_qos => gtp_bearer_qlty_of_svc_ie.gtp_bearer_qlty_of_svc_ie_t
  | bearer_flags => gtp_bearer_flags_ie.gtp_bearer_flags_ie_t
  | pco => gtp_prot_cfg_opts_ie.gtp_prot_cfg_opts_ie_t
  | apco => gtp_addtl_prot_cfg_opts_ie.gtp_addtl_prot_cfg_opts_ie_t
  | epco => gtp_extnded_prot_cfg_opts_ie.gtp_extnded_prot_cfg_opts_ie_t
  | max_pckt_loss_rate => gtp_max_pckt_loss_rate_ie.gtp_max_pckt_loss_rate_ie_t
  end.

Definition gtp_upd_bearer_request__bearer_ctxt_ie_ie (f : gtp_upd_bearer_request__bearer_ctxt_ie_member) : IeMember (gtp_upd_bearer_request__bearer_ctxt_ie_type f) :=
  match f with
  | eps_bearer_id => gtp_eps_bearer_id_ie_member
  | tft => gtp_eps_bearer_lvl_traffic_flow_tmpl_ie_member
  | bearer_lvl_qos => gtp_bearer_qlty_of_svc_ie_member
  | bearer_flags => gtp_bearer_flags_ie_member
  | pco => gtp_prot_cfg_opts_ie_member
  | apco => gtp_addtl_prot_cfg_opts_ie_member
  | epco => gtp_extnded_prot_cfg_opts_ie_member
  | max_pckt_loss_rate => gtp_max_pckt_loss_rate_ie_member
  end.

Definition gtp_upd_bearer_request__bearer_ctxt_ie_sig : signature :=
  Signature gtp_upd_bearer_request__bearer_ctxt_ie_member gtp_upd_bearer_request__bearer_ctxt_ie_eq_dec gtp_upd_bearer_request__bearer_ctxt_ie_type gtp_upd_bearer_request__bearer_ctxt_ie_ie
    Empty_set no_counter_eq_dec.
Canonical Structure gtp_upd_bearer_request__bearer_ctxt_ie_sig.

Definition gtp_upd_bearer_request__bearer_ctxt_ie_t : Type := grouped gtp_upd_bearer_request__bearer_ctxt_ie_sig.

Definition encode_gtp_upd_bearer_request__bearer_ctxt_ie_order : list (visit gtp_upd_bearer_request__bearer_ctxt_ie_sig) :=
  [One eps_bearer_id; One tft; One bearer_lvl_qos; One bearer_flags; One pco; One apco;
   One epco; One max_pckt_loss_rate].

Definition encode_gtp_upd_bearer_request__bearer_ctxt_ie (value : gtp_upd_bearer_request__bearer_ctxt_ie_t) (buf : Z) : enc Z :=
  encode_grouped encode_gtp_upd_bearer_request__bearer_ctxt_ie_order value buf.

Definition decode_gtp_upd_bearer_request__bearer_ctxt_ie_table : list (branch gtp_upd_bearer_request__bearer_ctxt_ie_sig) :=
  [(GTP_IE_EPS_BEARER_ID, Some GTP_IE_INSTANCE_ZERO, Into eps_bearer_id);
   (GTP_IE_EPS_BEARER_LVL_TRAFFIC_FLOW_TMPL, Some GTP_IE_INSTANCE_ZERO, Into tft);
   (GTP_IE_BEARER_QLTY_OF_SVC, Some GTP_IE_INSTANCE_ZERO, Into bearer_lvl_qos);
   (GTP_IE_BEARER_FLAGS, Some GTP_IE_INSTANCE_ZERO, Into bearer_flags);
   (GTP_IE_PROT_CFG_OPTS, Some GTP_IE_INSTANCE_ZERO, Into pco);
   (GTP_IE_ADDTL_PROT_CFG_OPTS, Some GTP_IE_INSTANCE_ZERO, Into apco);
   (GTP_IE_EXTNDED_PROT_CFG_OPTS, Some GTP_IE_INSTANCE_ZERO, Into epco);
   (GTP_IE_MAX_PCKT_LOSS_RATE, Some GTP_IE_INSTANCE_ZERO, Into max_pckt_loss_rate)].

Definition decode_gtp_upd_bearer_request__bearer_ctxt_ie (m : bytes) (buf : Z) (value : gtp_upd_bearer_request__bearer_ctxt_ie_t)
  : option (Z * gtp_upd_bearer_request__bearer_ctxt_ie_t) :=
  decode_grouped decode_gtp_upd_bearer_request__bearer_ctxt_ie_table m buf value.

#[global] Instance gtp_upd_bearer_request__bearer_ctxt_ie_member_ie : IeMember gtp_upd_bearer_request__bearer_ctxt_ie_t :=
  grouped_member encode_gtp_upd_bearer_request__bearer_ctxt_ie_order decode_gtp_upd_bearer_request__bearer_ctxt_ie_table.

End gtp_upd_bearer_request__bearer_ctxt_ie.

(** ** [gtp_mod_bearer_response_bearer_ctxt_modified_ie] *)

Module gtp_mod_bearer_response_bearer_ctxt_modified_ie.

Inductive gtp_mod_bearer_response_bearer_ctxt_modified_ie_member :=
| eps_bearer_id
| cause
| s1u_sgw_fteid
| s12_sgw_fteid
| s4_u_sgw_fteid
| charging_id
| bearer_flags
| s11_u_sgw_fteid.

Definition gtp_mod_bearer_response_bearer_ctxt_modified_ie_eq_dec (f g : gtp_mod_bearer_response_bearer_ctxt_modified_ie_member) : {f = g} + {f <> g}.
Proof. decide equality. Defined.

Definition gtp_mod_bearer_response_bearer_ctxt_modified_ie_type (f : gtp_mod_bearer_response_bearer_ctxt_modified_ie_member) : Type :=
  match f with
  | eps_bearer_id => gtp_eps_bearer_id_ie.gtp_eps_bearer_id_ie_t
  | cause => gtp_cause_ie.gtp_cause_ie_t
  | s1u_sgw_fteid => gtp_fully_qual_tunn_endpt_idnt_ie.gtp_fully_qual_tunn_endpt_idnt_ie_t
  | s12_sgw_fteid => gtp_fully_qual_tunn_endpt_idnt_ie.gtp_fully_qual_tunn_endpt_idnt_ie_t
  | s4_u_sgw_fteid => gtp_fully_qual_tunn_endpt_idnt_ie.gtp_fully_qual_tunn_endpt_idnt_ie_t
  | charging_id => gtp_charging_id_ie.gtp_charging_id_ie_t
  | bearer_flags => gtp_bearer_flags_ie.gtp_bearer_flags_ie_t
  | s11_u_sgw_fteid => gtp_fully_qual_tunn_endpt_idnt_ie.gtp_fully_qual_tunn_endpt_idnt_ie_t
  end.

Definition gtp_mod_bearer_response_bearer_ctxt_modified_ie_ie (f : gtp_mod_bearer_response_bearer_ctxt_modified_ie_member) : IeMember (gtp_mod_bearer_response_bearer_ctxt_modified_ie_type f) :=
  match f with
  | eps_bearer_id => gtp_eps_bearer_id_ie_member
  | cause => gtp_cause_ie_member
  | s1u_sgw_fteid => gtp_fully_qual_tunn_endpt_idnt_ie_member
  | s12_sgw_fteid => gtp_fully_qual_tunn_endpt_idnt_ie_member
  | s4_u_sgw_fteid => gtp_fully_qual_tunn_endpt_idnt_ie_member
  | charging_id => gtp_charging_id_ie_member
  | bearer_flags => gtp_bearer_flags_ie_member
  | s11_u_sgw_fteid => gtp_fully_qual_tunn_endpt_idnt_ie_member
  end.

Definition gtp_mod_bearer_response_bearer_ctxt_modified_ie_sig : signature :=
  Signature gtp_mod_bearer_response_bearer_ctxt_modified_ie_member gtp_mod_bearer_response_bearer_ctxt_modified_ie_eq_dec gtp_mod_bearer_response_bearer_ctxt_modified_ie_type gtp_mod_bearer_response_bearer_ctxt_modified_ie_ie
    Empty_set no_counter_eq_dec.
Canonical Structure gtp_mod_bearer_response_bearer_ctxt_modified_ie_sig.

Definition gtp_mod_bearer_response_bearer_ctxt_modified_ie_t : Type := grouped gtp_mod_bearer_response_bearer_ctxt_modified_ie_sig.

Definition encode_gtp_mod_bearer_response_bearer_ctxt_modified_ie_order : list (visit gtp_mod_bearer_response_bearer_ctxt_modified_ie_sig) :=
  [One eps_bearer_id; One cause; One s1u_sgw_fteid; One s12_sgw_fteid; One s4_u_sgw_fteid;
   One charging_id; One bearer_flags; One s11_u_sgw_fteid].

Definition encode_gtp_mod_bearer_response_bearer_ctxt_modified_ie (value : gtp_mod_bearer_response_bearer_ctxt_modified_ie_t) (buf : Z) : enc Z :=
  encode_grouped encode_gtp_mod_bearer_response_bearer_ctxt_modified_ie_order value buf.

Definition decode_gtp_mod_bearer_response_bearer_ctxt_modified_ie_table : list (branch gtp_mod_bearer_response_bearer_ctxt_modified_ie_sig) :=
  [(GTP_IE_EPS_BEARER_ID, Some GTP_IE_INSTANCE_ZERO, Into eps_bearer_id);
   (GTP_IE_CAUSE, Some GTP_IE_INSTANCE_ZERO, Into cause);
   (GTP_IE_FULLY_QUAL_TUNN_ENDPT_IDNT, Some GTP_IE_INSTANCE_ZERO, Into s1u_sgw_fteid);
   (GTP_IE_FULLY_QUAL_TUNN_ENDPT_IDNT, Some GTP_IE_INSTANCE_ONE, Into s12_sgw_fteid);
   (GTP_IE_FULLY_QUAL_TUNN_ENDPT_IDNT, Some GTP_IE_INSTANCE_TWO, Into s4_u_sgw_fteid);
   (GTP_IE_CHARGING_ID, Some GTP_IE_INSTANCE_ZERO, Into charging_id);
   (GTP_IE_BEARER_FLAGS, Some GTP_IE_INSTANCE_ZERO, Into bearer_flags);
   (GTP_IE_FULLY_QUAL_TUNN_ENDPT_IDNT, Some GTP_IE_INSTANCE_THREE, Into s11_u_sgw_fteid)].

Definition decode_gtp_mod_bearer_response_bearer_ctxt_modified_ie (m : bytes) (buf : Z) (value : gtp_mod_bearer_response_bearer_ctxt_modified_ie_t)
  : option (Z * gtp_mod_bearer_response_bearer_ctxt_modified_ie_t) :=
  decode_grouped decode_gtp_mod_bearer_response_bearer_ctxt_modified_ie_table m buf value.

#[global] Instance gtp_mod_bearer_response_bearer_ctxt_modified_ie_member_ie : IeMember gtp_mod_bearer_response_bearer_ctxt_modified_ie_t :=
  grouped_member encode_gtp_mod_bearer_response_bearer_ctxt_modified_ie_order decode_gtp_mod_bearer_response_bearer_ctxt_modified_ie_table.

End gtp_mod_bearer_response_bearer_ctxt_modified_ie.

(** ** [gtp_create_sess_response__load_ctl_info_ie] *)

Module gtp_create_sess_response__load_ctl_info_ie.

Inductive gtp_create_sess_response__load_ctl_info_ie_member :=
| load_ctl_seqn_nbr
| load_metric
| list_of_apn_and_rltv_cap.

Definition gtp_create_sess_response__load_ctl_info_ie_eq_dec (f g : gtp_create_sess_response__load_ctl_info_ie_member) : {f = g} + {f <> g}.
Proof. decide equality. Defined.

Definition gtp_create_sess_response__load_ctl_info_ie_type (f : gtp_create_sess_response__load_ctl_info_ie_member) : Type :=
  match f with
  | load_ctl_seqn_nbr => gtp_sequence_number_ie.gtp_sequence_number_ie_t
  | load_metric => gtp_metric_ie.gtp_metric_ie_t
  | list_of_apn_and_rltv_cap => gtp_apn_and_rltv_cap_ie.gtp_apn_and_rltv_cap_ie_t
  end.

Definition gtp_create_sess_response__load_ctl_info_ie_ie (f : gtp_create_sess_response__load_ctl_info_ie_member) : IeMember (gtp_create_sess_response__load_ctl_info_ie_type f) :=
  match f with
  | load_ctl_seqn_nbr => gtp_sequence_number_ie_member
  | load_metric => gtp_metric_ie_member
  | list_of_apn_and_rltv_cap => gtp_apn_and_rltv_cap_ie_member
  end.

Definition gtp_create_sess_response__load_ctl_info_ie_sig : signature :=
  Signature gtp_create_sess_response__load_ctl_info_ie_member gtp_create_sess_response__load_ctl_info_ie_eq_dec gtp_create_sess_response__load_ctl_info_ie_type gtp_create_sess_response__load_ctl_info_ie_ie
    Empty_set no_counter_eq_dec.
Canonical Structure gtp_create_sess_response__load_ctl_info_ie_sig.

Definition gtp_create_sess_response__load_ctl_info_ie_t : Type := grouped gtp_create_sess_response__load_ctl_info_ie_sig.

Definition encode_gtp_create_sess_response__load_ctl_info_ie_order : list (visit gtp_create_sess_response__load_ctl_info_ie_sig) :=
  [One load_ctl_seqn_nbr; One load_metric; One list_of_apn_and_rltv_cap].

Definition encode_gtp_create_sess_response__load_ctl_info_ie (value : gtp_create_sess_response__load_ctl_info_ie_t) (buf : Z) : enc Z :=
  encode_grouped encode_gtp_create_sess_response__load_ctl_info_ie_order value buf.

Definition decode_gtp_create_sess_response__load_ctl_info_ie_table : list (branch gtp_create_sess_response__load_ctl_info_ie_sig) :=
  [(GTP_IE_SEQUENCE_NUMBER, Some GTP_IE_INSTANCE_ZERO, Into load_ctl_seqn_nbr);
   (GTP_IE_METRIC, Some GTP_IE_INSTANCE_ZERO, Into load_metric);
   (GTP_IE_APN_AND_RLTV_CAP, Some GTP_IE_INSTANCE_ZERO, Into list_of_apn_and_rltv_cap)].

Definition decode_gtp_create_sess_response__load_ctl_info_ie (m : bytes) (buf : Z) (value : gtp_create_sess_response__load_ctl_info_ie_t)
  : option (Z * gtp_create_sess_response__load_ctl_info_ie_t) :=
  decode_grouped decode_gtp_create_sess_response__load_ctl_info_ie_table m buf value.

#[global] Instance gtp_create_sess_response__load_ctl_info_ie_member_ie : IeMember gtp_create_sess_response__load_ctl_info_ie_t :=
  grouped_member encode_gtp_create_sess_response__load_ctl_info_ie_order decode_gtp_create_sess_response__load_ctl_info_ie_table.

End gtp_create_sess_response__load_ctl_info_ie.

(** ** [gtp_mod_acc_bearers_response__bearer_ctxt_modified_ie] *)

Module gtp_mod_acc_bearers_response__bearer_ctxt_modified_ie.

Inductive gtp_mod_acc_bearers_response__bearer_ctxt_modified_ie_member :=
| eps_bearer_id
| cause
| s1u_sgw_fteid
| s11_u_sgw_fteid.

Definition gtp_mod_acc_bearers_response__bearer_ctxt_modified_ie_eq_dec (f g : gtp_mod_acc_bearers_response__bearer_ctxt_modified_ie_member) : {f = g} + {f <> g}.
Proof. decide equality. Defined.

Definition gtp_mod_acc_bearers_response__bearer_ctxt_modified_ie_type (f : gtp_mod_acc_bearers_response__bearer_ctxt_modified_ie_member) : Type :=
  match f with
  | eps_bearer_id => gtp_eps_bearer_id_ie.gtp_eps_bearer_id_ie_t
  | cause => gtp_cause_ie.gtp_cause_ie_t
  | s1u_sgw_fteid => gtp_fully_qual_tunn_endpt_idnt_ie.gtp_fully_qual_tunn_endpt_idnt_ie_t
  | s11_u_sgw_fteid => gtp_fully_qual_tunn_endpt_idnt_ie.gtp_fully_qual_tunn_endpt_idnt_ie_t
  end.

Definition gtp_mod_acc_bearers_response__bearer_ctxt_modified_ie_ie (f : gtp_mod_acc_bearers_response__bearer_ctxt_modified_ie_member) : IeMember (gtp_mod_acc_bearers_response__bearer_ctxt_modified_ie_type f) :=
  match f with
  | eps_bearer_id => gtp_eps_bearer_id_ie_member
  | cause => gtp_cause_ie_member
  | s1u_sgw_fteid => gtp_fully_qual_tunn_endpt_idnt_ie_member
  | s11_u_sgw_fteid => gtp_fully_qual_tunn_endpt_idnt_ie_member
  end.

Definition gtp_mod_acc_bearers_response__bearer_ctxt_modified_ie_sig : signature :=
  Signature gtp_mod_acc_bearers_response__bearer_ctxt_modified_ie_member gtp_mod_acc_bearers_response__bearer_ctxt_modified_ie_eq_dec gtp_mod_acc_bearers_response__bearer_ctxt_modified_ie_type gtp_mod_acc_bearers_response__bearer_ctxt_modified_ie_ie
    Empty_set no_counter_eq_dec.
Canonical Structure gtp_mod_acc_bearers_response__bearer_ctxt_modified_ie_sig.

Definition gtp_mod_acc_bearers_response__bearer_ctxt_modified_ie_t : Type := grouped gtp_mod_acc_bearers_response__bearer_ctxt_modified_ie_sig.

Definition encode_gtp_mod_acc_bearers_response__bearer_ctxt_modified_ie_order : list (visit gtp_mod_acc_bearers_response__bearer_ctxt_modified_ie_sig) :=
  [One eps_bearer_id; One cause; One s1u_sgw_fteid; One s11_u_sgw_fteid].

Definition encode_gtp_mod_acc_bearers_response__bearer_ctxt_modified_ie (value : gtp_mod_acc_bearers_response__bearer_ctxt_modified_ie_t) (buf : Z) : enc Z :=
  encode_grouped encode_gtp_mod_acc_bearers_response__bearer_ctxt_modified_ie_order value buf.

Definition decode_gtp_mod_acc_bearers_response__bearer_ctxt_modified_ie_table : list (branch gtp_mod_acc_bearers_response__bearer_ctxt_modified_ie_sig) :=
  [(GTP_IE_EPS_BEARER_ID, Some GTP_IE_INSTANCE_ZERO, Into eps_bearer_id);
   (GTP_IE_CAUSE, Some GTP_IE_INSTANCE_ZERO, Into cause);
   (GTP_IE_FULLY_QUAL_TUNN_ENDPT_IDNT, Some GTP_IE_INSTANCE_ZERO, Into s1u_sgw_fteid);
   (GTP_IE_FULLY_QUAL_TUNN_ENDPT_IDNT, Some GTP_IE_INSTANCE_ONE, Into s11_u_sgw_fteid)].

Definition decode_gtp_mod_acc_bearers_response__bearer_ctxt_modified_ie (m : bytes) (buf : Z) (value : gtp_mod_acc_bearers_response__bearer_ctxt_modified_ie_t)
  : option (Z * gtp_mod_acc_bearers_response__bearer_ctxt_modified_ie_t) :=
  decode_grouped decode_gtp_mod_acc_bearers_response__bearer_ctxt_modified_ie_table m buf value.

#[global] Instance gtp_mod_acc_bearers_response__bearer_ctxt_modified_ie_member_ie : IeMember gtp_mod_acc_bearers_response__bearer_ctxt_modified_ie_t :=
  grouped_member encode_gtp_mod_acc_bearers_response__bearer_ctxt_modified_ie_order decode_gtp_mod_acc_bearers_response__bearer_ctxt_modified_ie_table.

End gtp_mod_acc_bearers_response__bearer_ctxt_modified_ie.

(** ** [gtp_del_bearer_request__load_ctl_info_ie] *)

Module gtp_del_bearer_request__load_ctl_info_ie.

Inductive gtp_del_bearer_request__load_ctl_info_ie_member :=
| load_ctl_seqn_nbr
| load_metric
| list_of_apn_and_rltv_cap.

Definition gtp_del_bearer_request__load_ctl_info_ie_eq_dec (f g : gtp_del_bearer_request__load_ctl_info_ie_member) : {f = g} + {f <> g}.
Proof. decide equality. Defined.

Definition gtp_del_bearer_request__load_ctl_info_ie_type (f : gtp_del_bearer_request__load_ctl_info_ie_member) : Type :=
  match f with
  | load_ctl_seqn_nbr => gtp_sequence_number_ie.gtp_sequence_number_ie_t
  | load_metric => gtp_metric_ie.gtp_metric_ie_t
  | list_of_apn_and_rltv_cap => gtp_apn_and_rltv_cap_ie.gtp_apn_and_rltv_cap_ie_t
  end.

Definition gtp_del_bearer_request__load_ctl_info_ie_ie (f : gtp_del_bearer_request__load_ctl_info_ie_member) : IeMember (gtp_del_bearer_request__load_ctl_info_ie_type f) :=
  match f with
  | load_ctl_seqn_nbr => gtp_sequence_number_ie_member
  | load_metric => gtp_metric_ie_member
  | list_of_apn_and_rltv_cap => gtp_apn_and_rltv_cap_ie_member
  end.

Definition gtp_del_bearer_request__load_ctl_info_ie_sig : signature :=
  Signature gtp_del_bearer_request__load_ctl_info_ie_member gtp_del_bearer_request__load_ctl_info_ie_eq_dec gtp_del_bearer_request__load_ctl_info_ie_type gtp_del_bearer_request__load_ctl_info_ie_ie
    Empty_set no_counter_eq_dec.
Canonical Structure gtp_del_bearer_request__load_ctl_info_ie_sig.

Definition gtp_del_bearer_request__load_ctl_info_ie_t : Type := grouped gtp_del_bearer_request__load_ctl_info_ie_sig.

Definition encode_gtp_del_bearer_request__load_ctl_info_ie_order : list (visit gtp_del_bearer_request__load_ctl_info_ie_sig) :=
  [One load_ctl_seqn_nbr; One load_metric; One list_of_apn_and_rltv_cap].

Definition encode_gtp_del_bearer_request__load_ctl_info_ie (value : gtp_del_bearer_request__load_ctl_info_ie_t) (buf : Z) : enc Z :=
  encode_grouped encode_gtp_del_bearer_request__load_ctl_info_ie_order value buf.

Definition decode_gtp_del_bearer_request__load_ctl_info_ie_table : list (branch gtp_del_bearer_request__load_ctl_info_ie_sig) :=
  [(GTP_IE_SEQUENCE_NUMBER, Some GTP_IE_INSTANCE_ZERO, Into load_ctl_seqn_nbr);
   (GTP_IE_METRIC, Some GTP_IE_INSTANCE_ZERO, Into load_metric);
   (GTP_IE_APN_AND_RLTV_CAP, Some GTP_IE_INSTANCE_ZERO, Into list_of_apn_and_rltv_cap)].

Definition decode_gtp_del_bearer_request__load_ctl_info_ie (m : bytes) (buf : Z) (value : gtp_del_bearer_request__load_ctl_info_ie_t)
  : option (Z * gtp_del_bearer_request__load_ctl_info_ie_t) :=
  decode_grouped decode_gtp_del_bearer_request__load_ctl_info_ie_table m buf value.

#[global] Instance gtp_del_bearer_request__load_ctl_info_ie_member_ie : IeMember gtp_del_bearer_request__load_ctl_info_ie_t :=
  grouped_member encode_gtp_del_bearer_request__load_ctl_info_ie_order decode_gtp_del_bearer_request__load_ctl_info_ie_table.

End gtp_del_bearer_request__load_ctl_info_ie.

(** ** [gtp_del_bearer_response__overload_ctl_info_ie] *)

Module gtp_del_bearer_response__overload_ctl_info_ie.

Inductive gtp_del_bearer_response__overload_ctl_info_ie_member :=
| ovrld_ctl_seqn_nbr
| ovrld_reduction_metric
| prd_of_validity.

Definition gtp_del_bearer_response__overload_ctl_info_ie_eq_dec (f g : gtp_del_bearer_response__overload_ctl_info_ie_member) : {f = g} + {f <> g}.
Proof. decide equality. Defined.

Definition gtp_del_bearer_response__overload_ctl_info_ie_type (f : gtp_del_bearer_response__overload_ctl_info_ie_member) : Type :=
  match f with
  | ovrld_ctl_seqn_nbr => gtp_sequence_number_ie.gtp_sequence_number_ie_t
  | ovrld_reduction_metric => gtp_metric_ie.gtp_metric_ie_t
  | prd_of_validity => gtp_epc_timer_ie.gtp_epc_timer_ie_t
  end.

Definition gtp_del_bearer_response__overload_ctl_info_ie_ie (f : gtp_del_bearer_response__overload_ctl_info_ie_member) : IeMember (gtp_del_bearer_response__overload_ctl_info_ie_type f) :=
  match f with
  | ovrld_ctl_seqn_nbr => gtp_sequence_number_ie_member
  | ovrld_reduction_metric => gtp_metric_ie_member
  | prd_of_validity => gtp_epc_timer_ie_member
  end.

Definition gtp_del_bearer_response__overload_ctl_info_ie_sig : signature :=
  Signature gtp_del_bearer_response__overload_ctl_info_ie_member gtp_del_bearer_response__overload_ctl_info_ie_eq_dec gtp_del_bearer_response__overload_ctl_info_ie_type gtp_del_bearer_response__overload_ctl_info_ie_ie
    Empty_set no_counter_eq_dec.
Canonical Structure gtp_del_bearer_response__overload_ctl_info_ie_sig.

Definition gtp_del_bearer_response__overload_ctl_info_ie_t : Type := grouped gtp_del_bearer_response__overload_ctl_info_ie_sig.

Definition encode_gtp_del_bearer_response__overload_ctl_info_ie_order : list (visit gtp_del_bearer_response__overload_ctl_info_ie_sig) :=
  [One ovrld_ctl_seqn_nbr; One ovrld_reduction_metric; One prd_of_validity].

Definition encode_gtp_del_bearer_response__overload_ctl_info_ie (value : gtp_del_bearer_response__overload_ctl_info_ie_t) (buf : Z) : enc Z :=
  encode_grouped encode_gtp_del_bearer_response__overload_ctl_info_ie_order value buf.

Definition decode_gtp_del_bearer_response__overload_ctl_info_ie_table : list (branch gtp_del_bearer_response__overload_ctl_info_ie_sig) :=
  [(GTP_IE_SEQUENCE_NUMBER, Some GTP_IE_INSTANCE_ZERO, Into ovrld_ctl_seqn_nbr);
   (GTP_IE_METRIC, Some GTP_IE_INSTANCE_ZERO, Into ovrld_reduction_metric);
   (GTP_IE_EPC_TIMER, Some GTP_IE_INSTANCE_ZERO, Into prd_of_validity)].

Definition decode_gtp_del_bearer_response__overload_ctl_info_ie (m : bytes) (buf : Z) (value : gtp_del_bearer_response__overload_ctl_info_ie_t)
  : option (Z * gtp_del_bearer_response__overload_ctl_info_ie_t) :=
  decode_grouped decode_gtp_del_bearer_response__overload_ctl_info_ie_table m buf value.

#[global] Instance gtp_del_bearer_response__overload_ctl_info_ie_member_ie : IeMember gtp_del_bearer_response__overload_ctl_info_ie_t :=
  grouped_member encode_gtp_del_bearer_response__overload_ctl_info_ie_order decode_gtp_del_bearer_response__overload_ctl_info_ie_table.

End gtp_del_bearer_response__overload_ctl_info_ie.

(** ** [gtp_dnlnk_data_notification__overload_ctl_info_ie] *)

Module gtp_dnlnk_data_notification__overload_ctl_info_ie.

Inductive gtp_dnlnk_data_notification__overload_ctl_info_ie_member :=
| ovrld_ctl_seqn_nbr
| ovrld_reduction_metric
| prd_of_validity.

Definition gtp_dnlnk_data_notification__overload_ctl_info_ie_eq_dec (f g : gtp_dnlnk_data_notification__overload_ctl_info_ie_member) : {f = g} + {f <> g}.
Proof. decide equality. Defined.

Definition gtp_dnlnk_data_notification__overload_ctl_info_ie_type (f : gtp_dnlnk_data_notification__overload_ctl_info_ie_member) : Type :=
  match f with
  | ovrld_ctl_seqn_nbr => gtp_sequence_number_ie.gtp_sequence_number_ie_t
  | ovrld_reduction_metric => gtp_metric_ie.gtp_metric_ie_t
  | prd_of_validity => gtp_epc_timer_ie.gtp_epc_timer_ie_t
  end.

Definition gtp_dnlnk_data_notification__overload_ctl_info_ie_ie (f : gtp_dnlnk_data_notification__overload_ctl_info_ie_member) : IeMember (gtp_dnlnk_data_notification__overload_ctl_info_ie_type f) :=
  match f with
  | ovrld_ctl_seqn_nbr => gtp_sequence_number_ie_member
  | ovrld_reduction_metric => gtp_metric_ie_member
  | prd_of_validity => gtp_epc_timer_ie_member
  end.

Definition gtp_dnlnk_data_notification__overload_ctl_info_ie_sig : signature :=
  Signature gtp_dnlnk_data_notification__overload_ctl_info_ie_member gtp_dnlnk_data_notification__overload_ctl_info_ie_eq_dec gtp_dnlnk_data_notification__overload_ctl_info_ie_type gtp_dnlnk_data_notification__overload_ctl_info_ie_ie
    Empty_set no_counter_eq_dec.
Canonical Structure gtp_dnlnk_data_notification__overload_ctl_info_ie_sig.

Definition gtp_dnlnk_data_notification__overload_ctl_info_ie_t : Type := grouped gtp_dnlnk_data_notification__overload_ctl_info_ie_sig.

Definition encode_gtp_dnlnk_data_notification__overload_ctl_info_ie_order : list (visit gtp_dnlnk_data_notification__overload_ctl_info_ie_sig) :=
  [One ovrld_ctl_seqn_nbr; One ovrld_reduction_metric; One prd_of_validity].

Definition encode_gtp_dnlnk_data_notification__overload_ctl_info_ie (value : gtp_dnlnk_data_notification__overload_ctl_info_ie_t) (buf : Z) : enc Z :=
  encode_grouped encode_gtp_dnlnk_data_notification__overload_ctl_info_ie_order value buf.

Definition decode_gtp_dnlnk_data_notification__overload_ctl_info_ie_table : list (branch gtp_dnlnk_data_notification__overload_ctl_info_ie_sig) :=
  [(GTP_IE_SEQUENCE_NUMBER, Some GTP_IE_INSTANCE_ZERO, Into ovrld_ctl_seqn_nbr);
   (GTP_IE_METRIC, Some GTP_IE_INSTANCE_ZERO, Into ovrld_reduction_metric);
   (GTP_IE_EPC_TIMER, Some GTP_IE_INSTANCE_ZERO, Into prd_of_validity)].

Definition decode_gtp_dnlnk_data_notification__overload_ctl_info_ie (m : bytes) (buf : Z) (value : gtp_dnlnk_data_notification__overload_ctl_info_ie_t)
  : option (Z * gtp_dnlnk_data_notification__overload_ctl_info_ie_t) :=
  decode_grouped decode_gtp_dnlnk_data_notification__overload_ctl_info_ie_table m buf value.

#[global] Instance gtp_dnlnk_data_notification__overload_ctl_info_ie_member_ie : IeMember gtp_dnlnk_data_notification__overload_ctl_info_ie_t :=
  grouped_member encode_gtp_dnlnk_data_notification__overload_ctl_info_ie_order decode_gtp_dnlnk_data_notification__overload_ctl_info_ie_table.

End gtp_dnlnk_data_notification__overload_ctl_info_ie.

(** ** [gtp_release_acc_bearers_response__overload_ctl_info_ie] *)

Module gtp_release_acc_bearers_response__overload_ctl_info_ie.

Inductive gtp_release_acc_bearers_response__overload_ctl_info_ie_member :=
| ovrld_ctl_seqn_nbr
| ovrld_reduction_metric
| prd_of_validity.

Definition gtp_release_acc_bearers_response__overload_ctl_info_ie_eq_dec (f g : gtp_release_acc_bearers_response__overload_ctl_info_ie_member) : {f = g} + {f <> g}.
Proof. decide equality. Defined.

Definition gtp_release_acc_bearers_response__overload_ctl_info_ie_type (f : gtp_release_acc_bearers_response__overload_ctl_info_ie_member) : Type :=
  match f with
  | ovrld_ctl_seqn_nbr => gtp_sequence_number_ie.gtp_sequence_number_ie_t
  | ovrld_reduction_metric => gtp_metric_ie.gtp_metric_ie_t
  | prd_of_validity => gtp_epc_timer_ie.gtp_epc_timer_ie_t
  end.

Definition gtp_release_acc_bearers_response__overload_ctl_info_ie_ie (f : gtp_release_acc_bearers_response__overload_ctl_info_ie_member) : IeMember (gtp_release_acc_bearers_response__overload_ctl_info_ie_type f) :=
  match f with
  | ovrld_ctl_seqn_nbr => gtp_sequence_number_ie_member
  | ovrld_reduction_metric => gtp_metric_ie_member
  | prd_of_validity => gtp_epc_timer_ie_member
  end.

Definition gtp_release_acc_bearers_response__overload_ctl_info_ie_sig : signature :=
  Signature gtp_release_acc_bearers_response__overload_ctl_info_ie_member gtp_release_acc_bearers_response__overload_ctl_info_ie_eq_dec gtp_release_acc_bearers_response__overload_ctl_info_ie_type gtp_release_acc_bearers_response__overload_ctl_info_ie_ie
    Empty_set no_counter_eq_dec.
Canonical Structure gtp_release_acc_bearers_response__overload_ctl_info_ie_sig.

Definition gtp_release_acc_bearers_response__overload_ctl_info_ie_t : Type := grouped gtp_release_acc_bearers_response__overload_ctl_info_ie_sig.

Definition encode_gtp_release_acc_bearers_response__overload_ctl_info_ie_order : list (visit gtp_release_acc_bearers_response__overload_ctl_info_ie_sig) :=
  [One ovrld_ctl_seqn_nbr; One ovrld_reduction_metric; One prd_of_validity].

Definition encode_gtp_release_acc_bearers_response__overload_ctl_info_ie (value : gtp_release_acc_bearers_response__overload_ctl_info_ie_t) (buf : Z) : enc Z :=
  encode_grouped encode_gtp_release_acc_bearers_response__overload_ctl_info_ie_order value buf.

Definition decode_gtp_release_acc_bearers_response__overload_ctl_info_ie_table : list (branch gtp_release_acc_bearers_response__overload_ctl_info_ie_sig) :=
  [(GTP_IE_SEQUENCE_NUMBER, Some GTP_IE_INSTANCE_ZERO, Into ovrld_ctl_seqn_nbr);
   (GTP_IE_METRIC, Some GTP_IE_INSTANCE_ZERO, Into ovrld_reduction_metric);
   (GTP_IE_EPC_TIMER, Some GTP_IE_INSTANCE_ZERO, Into prd_of_validity)].

Definition decode_gtp_release_acc_bearers_response__overload_ctl_info_ie (m : bytes) (buf : Z) (value : gtp_release_acc_bearers_response__overload_ctl_info_ie_t)
  : option (Z * gtp_release_acc_bearers_response__overload_ctl_info_ie_t) :=
  decode_grouped decode_gtp_release_acc_bearers_response__overload_ctl_info_ie_table m buf value.

#[global] Instance gtp_release_acc_bearers_response__overload_ctl_info_ie_member_ie : IeMember gtp_release_acc_bearers_response__overload_ctl_info_ie_t :=
  grouped_member encode_gtp_release_acc_bearers_response__overload_ctl_info_ie_order decode_gtp_release_acc_bearers_response__overload_ctl_info_ie_table.

End gtp_release_acc_bearers_response__overload_ctl_info_ie.

(** ** [gtp_mod_bearer_fail_indication__overload_ctl_info_ie] *)

Module gtp_mod_bearer_fail_indication__overload_ctl_info_ie.

Inductive gtp_mod_bearer_fail_indication__overload_ctl_info_ie_member :=
| ovrld_ctl_seqn_nbr
| ovrld_reduction_metric
| prd_of_validity
| apn.

Definition gtp_mod_bearer_fail_indication__overload_ctl_info_ie_eq_dec (f g : gtp_mod_bearer_fail_indication__overload_ctl_info_ie_member) : {f = g} + {f <> g}.
Proof. decide equality. Defined.

Definition gtp_mod_bearer_fail_indication__overload_ctl_info_ie_type (f : gtp_mod_bearer_fail_indication__overload_ctl_info_ie_member) : Type :=
  match f with
  | ovrld_ctl_seqn_nbr => gtp_sequence_number_ie.gtp_sequence_number_ie_t
  | ovrld_reduction_metric => gtp_metric_ie.gtp_metric_ie_t
  | prd_of_validity => gtp_epc_timer_ie.gtp_epc_timer_ie_t
  | apn => gtp_acc_pt_name_ie.gtp_acc_pt_name_ie_t
  end.

Definition gtp_mod_bearer_fail_indication__overload_ctl_info_ie_ie (f : gtp_mod_bearer_fail_indication__overload_ctl_info_ie_member) : IeMember (gtp_mod_bearer_fail_indication__overload_ctl_info_ie_type f) :=
  match f with
  | ovrld_ctl_seqn_nbr => gtp_sequence_number_ie_member
  | ovrld_reduction_metric => gtp_metric_ie_member
  | prd_of_validity => gtp_epc_timer_ie_member
  | apn => gtp_acc_pt_name_ie_member
  end.

Definition gtp_mod_bearer_fail_indication__overload_ctl_info_ie_sig : signature :=
  Signature gtp_mod_bearer_fail_indication__overload_ctl_info_ie_member gtp_mod_bearer_fail_indication__overload_ctl_info_ie_eq_dec gtp_mod_bearer_fail_indication__overload_ctl_info_ie_type gtp_mod_bearer_fail_indication__overload_ctl_info_ie_ie
    Empty_set no_counter_eq_dec.
Canonical Structure gtp_mod_bearer_fail_indication__overload_ctl_info_ie_sig.

Definition gtp_mod_bearer_fail_indication__overload_ctl_info_ie_t : Type := grouped gtp_mod_bearer_fail_indication__overload_ctl_info_ie_sig.

Definition encode_gtp_mod_bearer_fail_indication__overload_ctl_info_ie_order : list (visit gtp_mod_bearer_fail_indication__overload_ctl_info_ie_sig) :=
  [One ovrld_ctl_seqn_nbr; One ovrld_reduction_metric; One prd_of_validity; One apn].

Definition encode_gtp_mod_bearer_fail_indication__overload_ctl_info_ie (value : gtp_mod_bearer_fail_indication__overload_ctl_info_ie_t) (buf : Z) : enc Z :=
  encode_grouped encode_gtp_mod_bearer_fail_indication__overload_ctl_info_ie_order value buf.

Definition decode_gtp_mod_bearer_fail_indication__overload_ctl_info_ie_table : list (branch gtp_mod_bearer_fail_indication__overload_ctl_info_ie_sig) :=
  [(GTP_IE_SEQUENCE_NUMBER, Some GTP_IE_INSTANCE_ZERO, Into ovrld_ctl_seqn_nbr);
   (GTP_IE_METRIC, Some GTP_IE_INSTANCE_ZERO, Into ovrld_reduction_metric);
   (GTP_IE_EPC_TIMER, Some GTP_IE_INSTANCE_ZERO, Into prd_of_validity);
   (GTP_IE_ACC_PT_NAME, Some GTP_IE_INSTANCE_ZERO, Into apn)].

Definition decode_gtp_mod_bearer_fail_indication__overload_ctl_info_ie (m : bytes) (buf : Z) (value : gtp_mod_bearer_fail_indication__overload_ctl_info_ie_t)
  : option (Z * gtp_mod_bearer_fail_indication__overload_ctl_info_ie_t) :=
  decode_grouped decode_gtp_mod_bearer_fail_indication__overload_ctl_info_ie_table m buf value.

#[global] Instance gtp_mod_bearer_fail_indication__overload_ctl_info_ie_member_ie : IeMember gtp_mod_bearer_fail_indication__overload_ctl_info_ie_t :=
  grouped_member encode_gtp_mod_bearer_fail_indication__overload_ctl_info_ie_order decode_gtp_mod_bearer_fail_indication__overload_ctl_info_ie_table.

End gtp_mod_bearer_fail_indication__overload_ctl_info_ie.

(** ** [gtp_mod_bearer_request_bearer_ctxt_to_be_modified_ie] *)

Module gtp_mod_bearer_request_bearer_ctxt_to_be_modified_ie.

Inductive gtp_mod_bearer_request_bearer_ctxt_to_be_modified_ie_member :=
| eps_bearer_id
| s1_enodeb_fteid
| s58_u_sgw_fteid
| s12_rnc_fteid
| s4_u_sgsn_fteid
| s11_u_mme_fteid.

Definition gtp_mod_bearer_request_bearer_ctxt_to_be_modified_ie_eq_dec (f g : gtp_mod_bearer_request_bearer_ctxt_to_be_modified_ie_member) : {f = g} + {f <> g}.
Proof. decide equality. Defined.

Definition gtp_mod_bearer_request_bearer_ctxt_to_be_modified_ie_type (f : gtp_mod_bearer_request_bearer_ctxt_to_be_modified_ie_member) : Type :=
  match f with
  | eps_bearer_id => gtp_eps_bearer_id_ie.gtp_eps_bearer_id_ie_t
  | s1_enodeb_fteid => gtp_fully_qual_tunn_endpt_idnt_ie.gtp_fully_qual_tunn_endpt_idnt_ie_t
  | s58_u_sgw_fteid => gtp_fully_qual_tunn_endpt_idnt_ie.gtp_fully_qual_tunn_endpt_idnt_ie_t
  | s12_rnc_fteid => gtp_fully_qual_tunn_endpt_idnt_ie.gtp_fully_qual_tunn_endpt_idnt_ie_t
  | s4_u_sgsn_fteid => gtp_fully_qual_tunn_endpt_idnt_ie.gtp_fully_qual_tunn_endpt_idnt_ie_t
  | s11_u_mme_fteid => gtp_fully_qual_tunn_endpt_idnt_ie.gtp_fully_qual_tunn_endpt_idnt_ie_t
  end.

Definition gtp_mod_bearer_request_bearer_ctxt_to_be_modified_ie_ie (f : gtp_mod_bearer_request_bearer_ctxt_to_be_modified_ie_member) : IeMember (gtp_mod_bearer_request_bearer_ctxt_to_be_modified_ie_type f) :=
  match f with
  | eps_bearer_id => gtp_eps_bearer_id_ie_member
  | s1_enodeb_fteid => gtp_fully_qual_tunn_endpt_idnt_ie_member
  | s58_u_sgw_fteid => gtp_fully_qual_tunn_endpt_idnt_ie_member
  | s12_rnc_fteid => gtp_fully_qual_tunn_endpt_idnt_ie_member
  | s4_u_sgsn_fteid => gtp_fully_qual_tunn_endpt_idnt_ie_member
  | s11_u_mme_fteid => gtp_fully_qual_tunn_endpt_idnt_ie_member
  end.

Definition gtp_mod_bearer_request_bearer_ctxt_to_be_modified_ie_sig : signature :=
  Signature gtp_mod_bearer_request_bearer_ctxt_to_be_modified_ie_member gtp_mod_bearer_request_bearer_ctxt_to_be_modified_ie_eq_dec gtp_mod_bearer_request_bearer_ctxt_to_be_modified_ie_type gtp_mod_bearer_request_bearer_ctxt_to_be_modified_ie_ie
    Empty_set no_counter_eq_dec.
Canonical Structure gtp_mod_bearer_request_bearer_ctxt_to_be_modified_ie_sig.

Definition gtp_mod_bearer_request_bearer_ctxt_to_be_modified_ie_t : Type := grouped gtp_mod_bearer_request_bearer_ctxt_to_be_modified_ie_sig.

Definition encode_gtp_mod_bearer_request_bearer_ctxt_to_be_modified_ie_order : list (visit gtp_mod_bearer_request_bearer_ctxt_to_be_modified_ie_sig) :=
  [One eps_bearer_id; One s1_enodeb_fteid; One s58_u_sgw_fteid; One s12_rnc_fteid;
   One s4_u_sgsn_fteid; One s11_u_mme_fteid].

Definition encode_gtp_mod_bearer_request_bearer_ctxt_to_be_modified_ie (value : gtp_mod_bearer_request_bearer_ctxt_to_be_modified_ie_t) (buf : Z) : enc Z :=
  encode_grouped encode_gtp_mod_bearer_request_bearer_ctxt_to_be_modified_ie_order value buf.

Definition decode_gtp_mod_bearer_request_bearer_ctxt_to_be_modified_ie_table : list (branch gtp_mod_bearer_request_bearer_ctxt_to_be_modified_ie_sig) :=
  [(GTP_IE_EPS_BEARER_ID, Some GTP_IE_INSTANCE_ZERO, Into eps_bearer_id);
   (GTP_IE_FULLY_QUAL_TUNN_ENDPT_IDNT, Some GTP_IE_INSTANCE_ZERO, Into s1_enodeb_fteid);
   (GTP_IE_FULLY_QUAL_TUNN_ENDPT_IDNT, Some GTP_IE_INSTANCE_ONE, Into s58_u_sgw_fteid);
   (GTP_IE_FULLY_QUAL_TUNN_ENDPT_IDNT, Some GTP_IE_INSTANCE_TWO, Into s12_rnc_fteid);
   (GTP_IE_FULLY_QUAL_TUNN_ENDPT_IDNT, Some GTP_IE_INSTANCE_THREE, Into s4_u_sgsn_fteid);
   (GTP_IE_FULLY_QUAL_TUNN_ENDPT_IDNT, Some GTP_IE_INSTANCE_FOUR, Into s11_u_mme_fteid)].

Definition decode_gtp_mod_bearer_request_bearer_ctxt_to_be_modified_ie (m : bytes) (buf : Z) (value : gtp_mod_bearer_request_bearer_ctxt_to_be_modified_ie_t)
  : option (Z * gtp_mod_bearer_request_bearer_ctxt_to_be_modified_ie_t) :=
  decode_grouped decode_gtp_mod_bearer_request_bearer_ctxt_to_be_modified_ie_table m buf value.

#[global] Instance gtp_mod_bearer_request_bearer_ctxt_to_be_modified_ie_member_ie : IeMember gtp_mod_bearer_request_bearer_ctxt_to_be_modified_ie_t :=
  grouped_member encode_gtp_mod_bearer_request_bearer_ctxt_to_be_modified_ie_order decode_gtp_mod_bearer_request_bearer_ctxt_to_be_modified_ie_table.

End gtp_mod_bearer_request_bearer_ctxt_to_be_modified_ie.

(** ** [gtp_mod_bearer_command__bearer_ctxt_ie] *)

Module gtp_mod_bearer_command__bearer_ctxt_ie.

Inductive gtp_mod_bearer_command__bearer_ctxt_ie_member :=
| eps_bearer_id
| bearer_lvl_qos.

Definition gtp_mod_bearer_command__bearer_ctxt_ie_eq_dec (f g : gtp_mod_bearer_command__bearer_ctxt_ie_member) : {f = g} + {f <> g}.
Proof. decide equality. Defined.

Definition gtp_mod_bearer_command__bearer_ctxt_ie_type (f : gtp_mod_bearer_command__bearer_ctxt_ie_member) : Type :=
  match f with
  | eps_bearer_id => gtp_eps_bearer_id_ie.gtp_eps_bearer_id_ie_t
  | bearer_lvl_qos => gtp_bearer_qlty_of_svc_ie.gtp_bearer_qlty_of_svc_ie_t
  end.

Definition gtp_mod_bearer_command__bearer_ctxt_ie_ie (f : gtp_mod_bearer_command__bearer_ctxt_ie_member) : IeMember (gtp_mod_bearer_command__bearer_ctxt_ie_type f) :=
  match f with
  | eps_bearer_id => gtp_eps_bearer_id_ie_member
  | bearer_lvl_qos => gtp_bearer_qlty_of_svc_ie_member
  end.

Definition gtp_mod_bearer_command__bearer_ctxt_ie_sig : signature :=
  Signature gtp_mod_bearer_command__bearer_ctxt_ie_member gtp_mod_bearer_command__bearer_ctxt_ie_eq_dec gtp_mod_bearer_command__bearer_ctxt_ie_type gtp_mod_bearer_command__bearer_ctxt_ie_ie
    Empty_set no_counter_eq_dec.
Canonical Structure gtp_mod_bearer_command__bearer_ctxt_ie_sig.

Definition gtp_mod_bearer_command__bearer_ctxt_ie_t : Type := grouped gtp_mod_bearer_command__bearer_ctxt_ie_sig.

Definition encode_gtp_mod_bearer_command__bearer_ctxt_ie_order : list (visit gtp_mod_bearer_command__bearer_ctxt_ie_sig) :=
  [One eps_bearer_id; One bearer_lvl_qos].

Definition encode_gtp_mod_bearer_command__bearer_ctxt_ie (value : gtp_mod_bearer_command__bearer_ctxt_ie_t) (buf : Z) : enc Z :=
  encode_grouped encode_gtp_mod_bearer_command__bearer_ctxt_ie_order value buf.

Definition decode_gtp_mod_bearer_command__bearer_ctxt_ie_table : list (branch gtp_mod_bearer_command__bearer_ctxt_ie_sig) :=
  [(GTP_IE_EPS_BEARER_ID, Some GTP_IE_INSTANCE_ZERO, Into eps_bearer_id);
   (GTP_IE_BEARER_QLTY_OF_SVC, Some GTP_IE_INSTANCE_ZERO, Into bearer_lvl_qos)].

Definition decode_gtp_mod_bearer_command__bearer_ctxt_ie (m : bytes) (buf : Z) (value : gtp_mod_bearer_command__bearer_ctxt_ie_t)
  : option (Z * gtp_mod_bearer_command__bearer_ctxt_ie_t) :=
  decode_grouped decode_gtp_mod_bearer_command__bearer_ctxt_ie_table m buf value.

#[global] Instance gtp_mod_bearer_command__bearer_ctxt_ie_member_ie : IeMember gtp_mod_bearer_command__bearer_ctxt_ie_t :=
  grouped_member encode_gtp_mod_bearer_command__bearer_ctxt_ie_order decode_gtp_mod_bearer_command__bearer_ctxt_ie_table.

End gtp_mod_bearer_command__bearer_ctxt_ie.

(** ** [gtp_ctxt_response__mmesgsn_ue_scef_pdn_connections_ie] *)

Module gtp_ctxt_response__mmesgsn_ue_scef_pdn_connections_ie.

Inductive gtp_ctxt_response__mmesgsn_ue_scef_pdn_connections_ie_member :=
| apn
| dflt_eps_bearer_id
| scef_id.

Definition gtp_ctxt_response__mmesgsn_ue_scef_pdn_connections_ie_eq_dec (f g : gtp_ctxt_response__mmesgsn_ue_scef_pdn_connections_ie_member) : {f = g} + {f <> g}.
Proof. decide equality. Defined.

Definition gtp_ctxt_response__mmesgsn_ue_scef_pdn_connections_ie_type (f : gtp_ctxt_response__mmesgsn_ue_scef_pdn_connections_ie_member) : Type :=
  match f with
  | apn => gtp_acc_pt_name_ie.gtp_acc_pt_name_ie_t
  | dflt_eps_bearer_id => gtp_eps_bearer_id_ie.gtp_eps_bearer_id_ie_t
  | scef_id => gtp_node_identifier_ie.gtp_node_identifier_ie_t
  end.

Definition gtp_ctxt_response__mmesgsn_ue_scef_pdn_connections_ie_ie (f : gtp_ctxt_response__mmesgsn_ue_scef_pdn_connections_ie_member) : IeMember (gtp_ctxt_response__mmesgsn_ue_scef_pdn_connections_ie_type f) :=
  match f with
  | apn => gtp_acc_pt_name_ie_member
  | dflt_eps_bearer_id => gtp_eps_bearer_id_ie_member
  | scef_id => gtp_node_identifier_ie_member
  end.

Definition gtp_ctxt_response__mmesgsn_ue_scef_pdn_connections_ie_sig : signature :=
  Signature gtp_ctxt_response__mmesgsn_ue_scef_pdn_connections_ie_member gtp_ctxt_response__mmesgsn_ue_scef_pdn_connections_ie_eq_dec gtp_ctxt_response__mmesgsn_ue_scef_pdn_connections_ie_type gtp_ctxt_response__mmesgsn_ue_scef_pdn_connections_ie_ie
    Empty_set no_counter_eq_dec.
Canonical Structure gtp_ctxt_response__mmesgsn_ue_scef_pdn_connections_ie_sig.

Definition gtp_ctxt_response__mmesgsn_ue_scef_pdn_connections_ie_t : Type := grouped gtp_ctxt_response__mmesgsn_ue_scef_pdn_connections_ie_sig.

Definition encode_gtp_ctxt_response__mmesgsn_ue_scef_pdn_connections_ie_order : list (visit gtp_ctxt_response__mmesgsn_ue_scef_pdn_connections_ie_sig) :=
  [One apn; One dflt_eps_bearer_id; One scef_id].

Definition encode_gtp_ctxt_response__mmesgsn_ue_scef_pdn_connections_ie (value : gtp_ctxt_response__mmesgsn_ue_scef_pdn_connections_ie_t) (buf : Z) : enc Z :=
  encode_grouped encode_gtp_ctxt_response__mmesgsn_ue_scef_pdn_connections_ie_order value buf.

Definition decode_gtp_ctxt_response__mmesgsn_ue_scef_pdn_connections_ie_table : list (branch gtp_ctxt_response__mmesgsn_ue_scef_pdn_connections_ie_sig) :=
  [(GTP_IE_ACC_PT_NAME, Some GTP_IE_INSTANCE_ZERO, Into apn);
   (GTP_IE_EPS_BEARER_ID, Some GTP_IE_INSTANCE_ZERO, Into dflt_eps_bearer_id);
   (GTP_IE_NODE_IDENTIFIER, Some GTP_IE_INSTANCE_ZERO, Into scef_id)].

Definition decode_gtp_ctxt_response__mmesgsn_ue_scef_pdn_connections_ie (m : bytes) (buf : Z) (value : gtp_ctxt_response__mmesgsn_ue_scef_pdn_connections_ie_t)
  : option (Z * gtp_ctxt_response__mmesgsn_ue_scef_pdn_connections_ie_t) :=
  decode_grouped decode_gtp_ctxt_response__mmesgsn_ue_scef_pdn_connections_ie_table m buf value.

#[global] Instance gtp_ctxt_response__mmesgsn_ue_scef_pdn_connections_ie_member_ie : IeMember gtp_ctxt_response__mmesgsn_ue_scef_pdn_connections_ie_t :=
  grouped_member encode_gtp_ctxt_response__mmesgsn_ue_scef_pdn_connections_ie_order decode_gtp_ctxt_response__mmesgsn_ue_scef_pdn_connections_ie_table.

End gtp_ctxt_response__mmesgsn_ue_scef_pdn_connections_ie.

(** ** [gtp_release_acc_bearers_response__load_ctl_info_ie] *)

Module gtp_release_acc_bearers_response__load_ctl_info_ie.

Inductive gtp_release_acc_bearers_response__load_ctl_info_ie_member :=
| load_ctl_seqn_nbr
| load_metric.

Definition gtp_release_acc_bearers_response__load_ctl_info_ie_eq_dec (f g : gtp_release_acc_bearers_response__load_ctl_info_ie_member) : {f = g} + {f <> g}.
Proof. decide equality. Defined.

Definition gtp_release_acc_bearers_response__load_ctl_info_ie_type (f : gtp_release_acc_bearers_response__load_ctl_info_ie_member) : Type :=
  match f with
  | load_ctl_seqn_nbr => gtp_sequence_number_ie.gtp_sequence_number_ie_t
  | load_metric => gtp_metric_ie.gtp_metric_ie_t
  end.

Definition gtp_release_acc_bearers_response__load_ctl_info_ie_ie (f : gtp_release_acc_bearers_response__load_ctl_info_ie_member) : IeMember (gtp_release_acc_bearers_response__load_ctl_info_ie_type f) :=
  match f with
  | load_ctl_seqn_nbr => gtp_sequence_number_ie_member
  | load_metric => gtp_metric_ie_member
  end.

Definition gtp_release_acc_bearers_response__load_ctl_info_ie_sig : signature :=
  Signature gtp_release_acc_bearers_response__load_ctl_info_ie_member gtp_release_acc_bearers_response__load_ctl_info_ie_eq_dec gtp_release_acc_bearers_response__load_ctl_info_ie_type gtp_release_acc_bearers_response__load_ctl_info_ie_ie
    Empty_set no_counter_eq_dec.
Canonical Structure gtp_release_acc_bearers_response__load_ctl_info_ie_sig.

Definition gtp_release_acc_bearers_response__load_ctl_info_ie_t : Type := grouped gtp_release_acc_bearers_response__load_ctl_info_ie_sig.

Definition encode_gtp_release_acc_bearers_response__load_ctl_info_ie_order : list (visit gtp_release_acc_bearers_response__load_ctl_info_ie_sig) :=
  [One load_ctl_seqn_nbr; One load_metric].

Definition encode_gtp_release_acc_bearers_response__load_ctl_info_ie (value : gtp_release_acc_bearers_response__load_ctl_info_ie_t) (buf : Z) : enc Z :=
  encode_grouped encode_gtp_release_acc_bearers_response__load_ctl_info_ie_order value buf.

Definition decode_gtp_release_acc_bearers_response__load_ctl_info_ie_table : list (branch gtp_release_acc_bearers_response__load_ctl_info_ie_sig) :=
  [(GTP_IE_SEQUENCE_NUMBER, Some GTP_IE_INSTANCE_ZERO, Into load_ctl_seqn_nbr);
   (GTP_IE_METRIC, Some GTP_IE_INSTANCE_ZERO, Into load_metric)].

Definition decode_gtp_release_acc_bearers_response__load_ctl_info_ie (m : bytes) (buf : Z) (value : gtp_release_acc_bearers_response__load_ctl_info_ie_t)
  : option (Z * gtp_release_acc_bearers_response__load_ctl_info_ie_t) :=
  decode_grouped decode_gtp_release_acc_bearers_response__load_ctl_info_ie_table m buf value.

#[global] Instance gtp_release_acc_bearers_response__load_ctl_info_ie_member_ie : IeMember gtp_release_acc_bearers_response__load_ctl_info_ie_t :=
  grouped_member encode_gtp_release_acc_bearers_response__load_ctl_info_ie_order decode_gtp_release_acc_bearers_response__load_ctl_info_ie_table.

End gtp_release_acc_bearers_response__load_ctl_info_ie.

(** ** [gtp_mod_bearer_request_bearer_ctxt_to_be_removed_ie] *)

Module gtp_mod_bearer_request_bearer_ctxt_to_be_removed_ie.

Inductive gtp_mod_bearer_request_bearer_ctxt_to_be_removed_ie_member :=
| eps_bearer_id.

Definition gtp_mod_bearer_request_bearer_ctxt_to_be_removed_ie_eq_dec (f g : gtp_mod_bearer_request_bearer_ctxt_to_be_removed_ie_member) : {f = g} + {f <> g}.
Proof. decide equality. Defined.

Definition gtp_mod_bearer_request_bearer_ctxt_to_be_removed_ie_type (f : gtp_mod_bearer_request_bearer_ctxt_to_be_removed_ie_member) : Type :=
  match f with
  | eps_bearer_id => gtp_eps_bearer_id_ie.gtp_eps_bearer_id_ie_t
  end.

Definition gtp_mod_bearer_request_bearer_ctxt_to_be_removed_ie_ie (f : gtp_mod_bearer_request_bearer_ctxt_to_be_removed_ie_member) : IeMember (gtp_mod_bearer_request_bearer_ctxt_to_be_removed_ie_type f) :=
  match f with
  | eps_bearer_id => gtp_eps_bearer_id_ie_member
  end.

Definition gtp_mod_bearer_request_bearer_ctxt_to_be_removed_ie_sig : signature :=
  Signature gtp_mod_bearer_request_bearer_ctxt_to_be_removed_ie_member gtp_mod_bearer_request_bearer_ctxt_to_be_removed_ie_eq_dec gtp_mod_bearer_request_bearer_ctxt_to_be_removed_ie_type gtp_mod_bearer_request_bearer_ctxt_to_be_removed_ie_ie
    Empty_set no_counter_eq_dec.
Canonical Structure gtp_mod_bearer_request_bearer_ctxt_to_be_removed_ie_sig.

Definition gtp_mod_bearer_request_bearer_ctxt_to_be_removed_ie_t : Type := grouped gtp_mod_bearer_request_bearer_ctxt_to_be_removed_ie_sig.

Definition encode_gtp_mod_bearer_request_bearer_ctxt_to_be_removed_ie_order : list (visit gtp_mod_bearer_request_bearer_ctxt_to_be_removed_ie_sig) :=
  [One eps_bearer_id].

Definition encode_gtp_mod_bearer_request_bearer_ctxt_to_be_removed_ie (value : gtp_mod_bearer_request_bearer_ctxt_to_be_removed_ie_t) (buf : Z) : enc Z :=
  encode_grouped encode_gtp_mod_bearer_request_bearer_ctxt_to_be_removed_ie_order value buf.

Definition decode_gtp_mod_bearer_request_bearer_ctxt_to_be_removed_ie_table : list (branch gtp_mod_bearer_request_bearer_ctxt_to_be_removed_ie_sig) :=
  [(GTP_IE_EPS_BEARER_ID, Some GTP_IE_INSTANCE_ZERO, Into eps_bearer_id)].

Definition decode_gtp_mod_bearer_request_bearer_ctxt_to_be_removed_ie (m : bytes) (buf : Z) (value : gtp_mod_bearer_request_bearer_ctxt_to_be_removed_ie_t)
  : option (Z * gtp_mod_bearer_request_bearer_ctxt_to_be_removed_ie_t) :=
  decode_grouped decode_gtp_mod_bearer_request_bearer_ctxt_to_be_removed_ie_table m buf value.

#[global] Instance gtp_mod_bearer_request_bearer_ctxt_to_be_removed_ie_member_ie : IeMember gtp_mod_bearer_request_bearer_ctxt_to_be_removed_ie_t :=
  grouped_member encode_gtp_mod_bearer_request_bearer_ctxt_to_be_removed_ie_order decode_gtp_mod_bearer_request_bearer_ctxt_to_be_removed_ie_table.

End gtp_mod_bearer_request_bearer_ctxt_to_be_removed_ie.

(** ** [gtp_bearer_rsrc_fail_indication__overload_ctl_info_ie] *)

Module gtp_bearer_rsrc_fail_indication__overload_ctl_info_ie.

Inductive gtp_bearer_rsrc_fail_indication__overload_ctl_info_ie_member :=
| ovrld_ctl_seqn_nbr
| ovrld_reduction_metric
| prd_of_validity
| apn.

Definition gtp_bearer_rsrc_fail_indication__overload_ctl_info_ie_eq_dec (f g : gtp_bearer_rsrc_fail_indication__overload_ctl_info_ie_member) : {f = g} + {f <> g}.
Proof. decide equality. Defined.

Definition gtp_bearer_rsrc_fail_indication__overload_ctl_info_ie_type (f : gtp_bearer_rsrc_fail_indication__overload_ctl_info_ie_member) : Type :=
  match f with
  | ovrld_ctl_seqn_nbr => gtp_sequence_number_ie.gtp_sequence_number_ie_t
  | ovrld_reduction_metric => gtp_metric_ie.gtp_metric_ie_t
  | prd_of_validity => gtp_epc_timer_ie.gtp_epc_timer_ie_t
  | apn => gtp_acc_pt_name_ie.gtp_acc_pt_name_ie_t
  end.

Definition gtp_bearer_rsrc_fail_indication__overload_ctl_info_ie_ie (f : gtp_bearer_rsrc_fail_indication__overload_ctl_info_ie_member) : IeMember (gtp_bearer_rsrc_fail_indication__overload_ctl_info_ie_type f) :=
  match f with
  | ovrld_ctl_seqn_nbr => gtp_sequence_number_ie_member
  | ovrld_reduction_metric => gtp_metric_ie_member
  | prd_of_validity => gtp_epc_timer_ie_member
  | apn => gtp_acc_pt_name_ie_member
  end.

Definition gtp_bearer_rsrc_fail_indication__overload_ctl_info_ie_sig : signature :=
  Signature gtp_bearer_rsrc_fail_indication__overload_ctl_info_ie_member gtp_bearer_rsrc_fail_indication__overload_ctl_info_ie_eq_dec gtp_bearer_rsrc_fail_indication__overload_ctl_info_ie_type gtp_bearer_rsrc_fail_indication__overload_ctl_info_ie_ie
    Empty_set no_counter_eq_dec.
Canonical Structure gtp_bearer_rsrc_fail_indication__overload_ctl_info_ie_sig.

Definition gtp_bearer_rsrc_fail_indication__overload_ctl_info_ie_t : Type := grouped gtp_bearer_rsrc_fail_indication__overload_ctl_info_ie_sig.

Definition encode_gtp_bearer_rsrc_fail_indication__overload_ctl_info_ie_order : list (visit gtp_bearer_rsrc_fail_indication__overload_ctl_info_ie_sig) :=
  [One ovrld_ctl_seqn_nbr; One ovrld_reduction_metric; One prd_of_validity; One apn].

Definition encode_gtp_bearer_rsrc_fail_indication__overload_ctl_info_ie (value : gtp_bearer_rsrc_fail_indication__overload_ctl_info_ie_t) (buf : Z) : enc Z :=
  encode_grouped encode_gtp_bearer_rsrc_fail_indication__overload_ctl_info_ie_order value buf.

Definition decode_gtp_bearer_rsrc_fail_indication__overload_ctl_info_ie_table : list (branch gtp_bearer_rsrc_fail_indication__overload_ctl_info_ie_sig) :=
  [(GTP_IE_SEQUENCE_NUMBER, Some GTP_IE_INSTANCE_ZERO, Into ovrld_ctl_seqn_nbr);
   (GTP_IE_METRIC, Some GTP_IE_INSTANCE_ZERO, Into ovrld_reduction_metric);
   (GTP_IE_EPC_TIMER, Some GTP_IE_INSTANCE_ZERO, Into prd_of_validity);
   (GTP_IE_ACC_PT_NAME, Some GTP_IE_INSTANCE_ZERO, Into apn)].

Definition decode_gtp_bearer_rsrc_fail_indication__overload_ctl_info_ie (m : bytes) (buf : Z) (value : gtp_bearer_rsrc_fail_indication__overload_ctl_info_ie_t)
  : option (Z * gtp_bearer_rsrc_fail_indication__overload_ctl_info_ie_t) :=
  decode_grouped decode_gtp_bearer_rsrc_fail_indication__overload_ctl_info_ie_table m buf value.

#[global] Instance gtp_bearer_rsrc_fail_indication__overload_ctl_info_ie_member_ie : IeMember gtp_bearer_rsrc_fail_indication__overload_ctl_info_ie_t :=
  grouped_member encode_gtp_bearer_rsrc_fail_indication__overload_ctl_info_ie_order decode_gtp_bearer_rsrc_fail_indication__overload_ctl_info_ie_table.

End gtp_bearer_rsrc_fail_indication__overload_ctl_info_ie.

(** ** [gtp_mod_bearer_response__load_ctl_info_ie] *)

Module gtp_mod_bearer_response__load_ctl_info_ie.

Inductive gtp_mod_bearer_response__load_ctl_info_ie_member :=
| load_ctl_seqn_nbr
| load_metric
| list_of_apn_and_rltv_cap.

Definition gtp_mod_bearer_response__load_ctl_info_ie_eq_dec (f g : gtp_mod_bearer_response__load_ctl_info_ie_member) : {f = g} + {f <> g}.
Proof. decide equality. Defined.

Definition gtp_mod_bearer_response__load_ctl_info_ie_type (f : gtp_mod_bearer_response__load_ctl_info_ie_member) : Type :=
  match f with
  | load_ctl_seqn_nbr => gtp_sequence_number_ie.gtp_sequence_number_ie_t
  | load_metric => gtp_metric_ie.gtp_metric_ie_t
  | list_of_apn_and_rltv_cap => gtp_apn_and_rltv_cap_ie.gtp_apn_and_rltv_cap_ie_t
  end.

Definition gtp_mod_bearer_response__load_ctl_info_ie_ie (f : gtp_mod_bearer_response__load_ctl_info_ie_member) : IeMember (gtp_mod_bearer_response__load_ctl_info_ie_type f) :=
  match f with
  | load_ctl_seqn_nbr => gtp_sequence_number_ie_member
  | load_metric => gtp_metric_ie_member
  | list_of_apn_and_rltv_cap => gtp_apn_and_rltv_cap_ie_member
  end.

Definition gtp_mod_bearer_response__load_ctl_info_ie_sig : signature :=
  Signature gtp_mod_bearer_response__load_ctl_info_ie_member gtp_mod_bearer_response__load_ctl_info_ie_eq_dec gtp_mod_bearer_response__load_ctl_info_ie_type gtp_mod_bearer_response__load_ctl_info_ie_ie
    Empty_set no_counter_eq_dec.
Canonical Structure gtp_mod_bearer_response__load_ctl_info_ie_sig.

Definition gtp_mod_bearer_response__load_ctl_info_ie_t : Type := grouped gtp_mod_bearer_response__load_ctl_info_ie_sig.

Definition encode_gtp_mod_bearer_response__load_ctl_info_ie_order : list (visit gtp_mod_bearer_response__load_ctl_info_ie_sig) :=
  [One load_ctl_seqn_nbr; One load_metric; One list_of_apn_and_rltv_cap].

Definition encode_gtp_mod_bearer_response__load_ctl_info_ie (value : gtp_mod_bearer_response__load_ctl_info_ie_t) (buf : Z) : enc Z :=
  encode_grouped encode_gtp_mod_bearer_response__load_ctl_info_ie_order value buf.

Definition decode_gtp_mod_bearer_response__load_ctl_info_ie_table : list (branch gtp_mod_bearer_response__load_ctl_info_ie_sig) :=
  [(GTP_IE_SEQUENCE_NUMBER, Some GTP_IE_INSTANCE_ZERO, Into load_ctl_seqn_nbr);
   (GTP_IE_METRIC, Some GTP_IE_INSTANCE_ZERO, Into load_metric);
   (GTP_IE_APN_AND_RLTV_CAP, Some GTP_IE_INSTANCE_ZERO, Into list_of_apn_and_rltv_cap)].

Definition decode_gtp_mod_bearer_response__load_ctl_info_ie (m : bytes) (buf : Z) (value : gtp_mod_bearer_response__load_ctl_info_ie_t)
  : option (Z * gtp_mod_bearer_response__load_ctl_info_ie_t) :=
  decode_grouped decode_gtp_mod_bearer_response__load_ctl_info_ie_table m buf value.

#[global] Instance gtp_mod_bearer_response__load_ctl_info_ie_member_ie : IeMember gtp_mod_bearer_response__load_ctl_info_ie_t :=
  grouped_member encode_gtp_mod_bearer_response__load_ctl_info_ie_order decode_gtp_mod_bearer_response__load_ctl_info_ie_table.

End gtp_mod_bearer_response__load_ctl_info_ie.

(** ** [gtp_bearer_rsrc_command__overload_ctl_info_ie] *)

Module gtp_bearer_rsrc_command__overload_ctl_info_ie.

Inductive gtp_bearer_rsrc_command__overload_ctl_info_ie_member :=
| ovrld_ctl_seqn_nbr
| ovrld_reduction_metric
| prd_of_validity.

Definition gtp_bearer_rsrc_command__overload_ctl_info_ie_eq_dec (f g : gtp_bearer_rsrc_command__overload_ctl_info_ie_member) : {f = g} + {f <> g}.
Proof. decide equality. Defined.

Definition gtp_bearer_rsrc_command__overload_ctl_info_ie_type (f : gtp_bearer_rsrc_command__overload_ctl_info_ie_member) : Type :=
  match f with
  | ovrld_ctl_seqn_nbr => gtp_sequence_number_ie.gtp_sequence_number_ie_t
  | ovrld_reduction_metric => gtp_metric_ie.gtp_metric_ie_t
  | prd_of_validity => gtp_epc_timer_ie.gtp_epc_timer_ie_t
  end.

Definition gtp_bearer_rsrc_command__overload_ctl_info_ie_ie (f : gtp_bearer_rsrc_command__overload_ctl_info_ie_member) : IeMember (gtp_bearer_rsrc_command__overload_ctl_info_ie_type f) :=
  match f with
  | ovrld_ctl_seqn_nbr => gtp_sequence_number_ie_member
  | ovrld_reduction_metric => gtp_metric_ie_member
  | prd_of_validity => gtp_epc_timer_ie_member
  end.

Definition gtp_bearer_rsrc_command__overload_ctl_info_ie_sig : signature :=
  Signature gtp_bearer_rsrc_command__overload_ctl_info_ie_member gtp_bearer_rsrc_command__overload_ctl_info_ie_eq_dec gtp_bearer_rsrc_command__overload_ctl_info_ie_type gtp_bearer_rsrc_command__overload_ctl_info_ie_ie
    Empty_set no_counter_eq_dec.
Canonical Structure gtp_bearer_rsrc_command__overload_ctl_info_ie_sig.

Definition gtp_bearer_rsrc_command__overload_ctl_info_ie_t : Type := grouped gtp_bearer_rsrc_command__overload_ctl_info_ie_sig.

Definition encode_gtp_bearer_rsrc_command__overload_ctl_info_ie_order : list (visit gtp_bearer_rsrc_command__overload_ctl_info_ie_sig) :=
  [One ovrld_ctl_seqn_nbr; One ovrld_reduction_metric; One prd_of_validity].

Definition encode_gtp_bearer_rsrc_command__overload_ctl_info_ie (value : gtp_bearer_rsrc_command__overload_ctl_info_ie_t) (buf : Z) : enc Z :=
  encode_grouped encode_gtp_bearer_rsrc_command__overload_ctl_info_ie_order value buf.

Definition decode_gtp_bearer_rsrc_command__overload_ctl_info_ie_table : list (branch gtp_bearer_rsrc_command__overload_ctl_info_ie_sig) :=
  [(GTP_IE_SEQUENCE_NUMBER, Some GTP_IE_INSTANCE_ZERO, Into ovrld_ctl_seqn_nbr);
   (GTP_IE_METRIC, Some GTP_IE_INSTANCE_ZERO, Into ovrld_reduction_metric);
   (GTP_IE_EPC_TIMER, Some GTP_IE_INSTANCE_ZERO, Into prd_of_validity)].

Definition decode_gtp_bearer_rsrc_command__overload_ctl_info_ie (m : bytes) (buf : Z) (value : gtp_bearer_rsrc_command__overload_ctl_info_ie_t)
  : option (Z * gtp_bearer_rsrc_command__overload_ctl_info_ie_t) :=
  decode_grouped decode_gtp_bearer_rsrc_command__overload_ctl_info_ie_table m buf value.

#[global] Instance gtp_bearer_rsrc_command__overload_ctl_info_ie_member_ie : IeMember gtp_bearer_rsrc_command__overload_ctl_info_ie_t :=
  grouped_member encode_gtp_bearer_rsrc_command__overload_ctl_info_ie_order decode_gtp_bearer_rsrc_command__overload_ctl_info_ie_table.

End gtp_bearer_rsrc_command__overload_ctl_info_ie.

(** ** [gtp_mod_acc_bearers_response__load_ctl_info_ie] *)

Module gtp_mod_acc_bearers_response__load_ctl_info_ie.

Inductive gtp_mod_acc_bearers_response__load_ctl_info_ie_member :=
| load_ctl_seqn_nbr
| load_metric.

Definition gtp_mod_acc_bearers_response__load_ctl_info_ie_eq_dec (f g : gtp_mod_acc_bearers_response__load_ctl_info_ie_member) : {f = g} + {f <> g}.
Proof. decide equality. Defined.

Definition gtp_mod_acc_bearers_response__load_ctl_info_ie_type (f : gtp_mod_acc_bearers_response__load_ctl_info_ie_member) : Type :=
  match f with
  | load_ctl_seqn_nbr => gtp_sequence_number_ie.gtp_sequence_number_ie_t
  | load_metric => gtp_metric_ie.gtp_metric_ie_t
  end.

Definition gtp_mod_acc_bearers_response__load_ctl_info_ie_ie (f : gtp_mod_acc_bearers_response__load_ctl_info_ie_member) : IeMember (gtp_mod_acc_bearers_response__load_ctl_info_ie_type f) :=
  match f with
  | load_ctl_seqn_nbr => gtp_sequence_number_ie_member
  | load_metric => gtp_metric_ie_member
  end.

Definition gtp_mod_acc_bearers_response__load_ctl_info_ie_sig : signature :=
  Signature gtp_mod_acc_bearers_response__load_ctl_info_ie_member gtp_mod_acc_bearers_response__load_ctl_info_ie_eq_dec gtp_mod_acc_bearers_response__load_ctl_info_ie_type gtp_mod_acc_bearers_response__load_ctl_info_ie_ie
    Empty_set no_counter_eq_dec.
Canonical Structure gtp_mod_acc_bearers_response__load_ctl_info_ie_sig.

Definition gtp_mod_acc_bearers_response__load_ctl_info_ie_t : Type := grouped gtp_mod_acc_bearers_response__load_ctl_info_ie_sig.

Definition encode_gtp_mod_acc_bearers_response__load_ctl_info_ie_order : list (visit gtp_mod_acc_bearers_response__load_ctl_info_ie_sig) :=
  [One load_ctl_seqn_nbr; One load_metric].

Definition encode_gtp_mod_acc_bearers_response__load_ctl_info_ie (value : gtp_mod_acc_bearers_response__load_ctl_info_ie_t) (buf : Z) : enc Z :=
  encode_grouped encode_gtp_mod_acc_bearers_response__load_ctl_info_ie_order value buf.

Definition decode_gtp_mod_acc_bearers_response__load_ctl_info_ie_table : list (branch gtp_mod_acc_bearers_response__load_ctl_info_ie_sig) :=
  [(GTP_IE_SEQUENCE_NUMBER, Some GTP_IE_INSTANCE_ZERO, Into load_ctl_seqn_nbr);
   (GTP_IE_METRIC, Some GTP_IE_INSTANCE_ZERO, Into load_metric)].

Definition decode_gtp_mod_acc_bearers_response__load_ctl_info_ie (m : bytes) (buf : Z) (value : gtp_mod_acc_bearers_response__load_ctl_info_ie_t)
  : option (Z * gtp_mod_acc_bearers_response__load_ctl_info_ie_t) :=
  decode_grouped decode_gtp_mod_acc_bearers_response__load_ctl_info_ie_table m buf value.

#[global] Instance gtp_mod_acc_bearers_response__load_ctl_info_ie_member_ie : IeMember gtp_mod_acc_bearers_response__load_ctl_info_ie_t :=
  grouped_member encode_gtp_mod_acc_bearers_response__load_ctl_info_ie_order decode_gtp_mod_acc_bearers_response__load_ctl_info_ie_table.

End gtp_mod_acc_bearers_response__load_ctl_info_ie.

(** ** [gtp_del_bearer_response_bearer_ctxt_ie] *)

Module gtp_del_bearer_response_bearer_ctxt_ie.

Inductive gtp_del_bearer_response_bearer_ctxt_ie_member :=
| eps_bearer_id
| cause
| pco
| ran_nas_cause
| epco.

Definition gtp_del_bearer_response_bearer_ctxt_ie_eq_dec (f g : gtp_del_bearer_response_bearer_ctxt_ie_member) : {f = g} + {f <> g}.
Proof. decide equality. Defined.

Definition gtp_del_bearer_response_bearer_ctxt_ie_type (f : gtp_del_bearer_response_bearer_ctxt_ie_member) : Type :=
  match f with
  | eps_bearer_id => gtp_eps_bearer_id_ie.gtp_eps_bearer_id_ie_t
  | cause => gtp_cause_ie.gtp_cause_ie_t
  | pco => gtp_prot_cfg_opts_ie.gtp_prot_cfg_opts_ie_t
  | ran_nas_cause => gtp_ran_nas_cause_ie.gtp_ran_nas_cause_ie_t
  | epco => gtp_extnded_prot_cfg_opts_ie.gtp_extnded_prot_cfg_opts_ie_t
  end.

Definition gtp_del_bearer_response_bearer_ctxt_ie_ie (f : gtp_del_bearer_response_bearer_ctxt_ie_member) : IeMember (gtp_del_bearer_response_bearer_ctxt_ie_type f) :=
  match f with
  | eps_bearer_id => gtp_eps_bearer_id_ie_member
  | cause => gtp_cause_ie_member
  | pco => gtp_prot_cfg_opts_ie_member
  | ran_nas_cause => gtp_ran_nas_cause_ie_member
  | epco => gtp_extnded_prot_cfg_opts_ie_member
  end.

Definition gtp_del_bearer_response_bearer_ctxt_ie_sig : signature :=
  Signature gtp_del_bearer_response_bearer_ctxt_ie_member gtp_del_bearer_response_bearer_ctxt_ie_eq_dec gtp_del_bearer_response_bearer_ctxt_ie_type gtp_del_bearer_response_bearer_ctxt_ie_ie
    Empty_set no_counter_eq_dec.
Canonical Structure gtp_del_bearer_response_bearer_ctxt_ie_sig.

Definition gtp_del_bearer_response_bearer_ctxt_ie_t : Type := grouped gtp_del_bearer_response_bearer_ctxt_ie_sig.

Definition encode_gtp_del_bearer_response_bearer_ctxt_ie_order : list (visit gtp_del_bearer_response_bearer_ctxt_ie_sig) :=
  [One eps_bearer_id; One cause; One pco; One ran_nas_cause; One epco].

Definition encode_gtp_del_bearer_response_bearer_ctxt_ie (value : gtp_del_bearer_response_bearer_ctxt_ie_t) (buf : Z) : enc Z :=
  encode_grouped encode_gtp_del_bearer_response_bearer_ctxt_ie_order value buf.

Definition decode_gtp_del_bearer_response_bearer_ctxt_ie_table : list (branch gtp_del_bearer_response_bearer_ctxt_ie_sig) :=
  [(GTP_IE_EPS_BEARER_ID, Some GTP_IE_INSTANCE_ZERO, Into eps_bearer_id);
   (GTP_IE_CAUSE, Some GTP_IE_INSTANCE_ZERO, Into cause);
   (GTP_IE_PROT_CFG_OPTS, Some GTP_IE_INSTANCE_ZERO, Into pco);
   (GTP_IE_RAN_NAS_CAUSE, Some GTP_IE_INSTANCE_ZERO, Into ran_nas_cause);
   (GTP_IE_EXTNDED_PROT_CFG_OPTS, Some GTP_IE_INSTANCE_ZERO, Into epco)].

Definition decode_gtp_del_bearer_response_bearer_ctxt_ie (m : bytes) (buf : Z) (value : gtp_del_bearer_response_bearer_ctxt_ie_t)
  : option (Z * gtp_del_bearer_response_bearer_ctxt_ie_t) :=
  decode_grouped decode_gtp_del_bearer_response_bearer_ctxt_ie_table m buf value.

#[global] Instance gtp_del_bearer_response_bearer_ctxt_ie_member_ie : IeMember gtp_del_bearer_response_bearer_ctxt_ie_t :=
  grouped_member encode_gtp_del_bearer_response_bearer_ctxt_ie_order decode_gtp_del_bearer_response_bearer_ctxt_ie_table.

End gtp_del_bearer_response_bearer_ctxt_ie.

(** ** [gtp_del_sess_response__overload_ctl_info_ie] *)

Module gtp_del_sess_response__overload_ctl_info_ie.

Inductive gtp_del_sess_response__overload_ctl_info_ie_member :=
| ovrld_ctl_seqn_nbr
| ovrld_reduction_metric
| prd_of_validity
| apn.

Definition gtp_del_sess_response__overload_ctl_info_ie_eq_dec (f g : gtp_del_sess_response__overload_ctl_info_ie_member) : {f = g} + {f <> g}.
Proof. decide equality. Defined.

Definition gtp_del_sess_response__overload_ctl_info_ie_type (f : gtp_del_sess_response__overload_ctl_info_ie_member) : Type :=
  match f with
  | ovrld_ctl_seqn_nbr => gtp_sequence_number_ie.gtp_sequence_number_ie_t
  | ovrld_reduction_metric => gtp_metric_ie.gtp_metric_ie_t
  | prd_of_validity => gtp_epc_timer_ie.gtp_epc_timer_ie_t
  | apn => gtp_acc_pt_name_ie.gtp_acc_pt_name_ie_t
  end.

Definition gtp_del_sess_response__overload_ctl_info_ie_ie (f : gtp_del_sess_response__overload_ctl_info_ie_member) : IeMember (gtp_del_sess_response__overload_ctl_info_ie_type f) :=
  match f with
  | ovrld_ctl_seqn_nbr => gtp_sequence_number_ie_member
  | ovrld_reduction_metric => gtp_metric_ie_member
  | prd_of_validity => gtp_epc_timer_ie_member
  | apn => gtp_acc_pt_name_ie_member
  end.

Definition gtp_del_sess_response__overload_ctl_info_ie_sig : signature :=
  Signature gtp_del_sess_response__overload_ctl_info_ie_member gtp_del_sess_response__overload_ctl_info_ie_eq_dec gtp_del_sess_response__overload_ctl_info_ie_type gtp_del_sess_response__overload_ctl_info_ie_ie
    Empty_set no_counter_eq_dec.
Canonical Structure gtp_del_sess_response__overload_ctl_info_ie_sig.

Definition gtp_del_sess_response__overload_ctl_info_ie_t : Type := grouped gtp_del_sess_response__overload_ctl_info_ie_sig.

Definition encode_gtp_del_sess_response__overload_ctl_info_ie_order : list (visit gtp_del_sess_response__overload_ctl_info_ie_sig) :=
  [One ovrld_ctl_seqn_nbr; One ovrld_reduction_metric; One prd_of_validity; One apn].

Definition encode_gtp_del_sess_response__overload_ctl_info_ie (value : gtp_del_sess_response__overload_ctl_info_ie_t) (buf : Z) : enc Z :=
  encode_grouped encode_gtp_del_sess_response__overload_ctl_info_ie_order value buf.

Definition decode_gtp_del_sess_response__overload_ctl_info_ie_table : list (branch gtp_del_sess_response__overload_ctl_info_ie_sig) :=
  [(GTP_IE_SEQUENCE_NUMBER, Some GTP_IE_INSTANCE_ZERO, Into ovrld_ctl_seqn_nbr);
   (GTP_IE_METRIC, Some GTP_IE_INSTANCE_ZERO, Into ovrld_reduction_metric);
   (GTP_IE_EPC_TIMER, Some GTP_IE_INSTANCE_ZERO, Into prd_of_validity);
   (GTP_IE_ACC_PT_NAME, Some GTP_IE_INSTANCE_ZERO, Into apn)].

Definition decode_gtp_del_sess_response__overload_ctl_info_ie (m : bytes) (buf : Z) (value : gtp_del_sess_response__overload_ctl_info_ie_t)
  : option (Z * gtp_del_sess_response__overload_ctl_info_ie_t) :=
  decode_grouped decode_gtp_del_sess_response__overload_ctl_info_ie_table m buf value.

#[global] Instance gtp_del_sess_response__overload_ctl_info_ie_member_ie : IeMember gtp_del_sess_response__overload_ctl_info_ie_t :=
  grouped_member encode_gtp_del_sess_response__overload_ctl_info_ie_order decode_gtp_del_sess_response__overload_ctl_info_ie_table.

End gtp_del_sess_response__overload_ctl_info_ie.

(** ** [gtp_mod_acc_bearers_request__bearer_ctxt_to_be_removed_ie] *)

Module gtp_mod_acc_bearers_request__bearer_ctxt_to_be_removed_ie.

Inductive gtp_mod_acc_bearers_request__bearer_ctxt_to_be_removed_ie_member :=
| eps_bearer_id.

Definition gtp_mod_acc_bearers_request__bearer_ctxt_to_be_removed_ie_eq_dec (f g : gtp_mod_acc_bearers_request__bearer_ctxt_to_be_removed_ie_member) : {f = g} + {f <> g}.
Proof. decide equality. Defined.

Definition gtp_mod_acc_bearers_request__bearer_ctxt_to_be_removed_ie_type (f : gtp_mod_acc_bearers_request__bearer_ctxt_to_be_removed_ie_member) : Type :=
  match f with
  | eps_bearer_id => gtp_eps_bearer_id_ie.gtp_eps_bearer_id_ie_t
  end.

Definition gtp_mod_acc_bearers_request__bearer_ctxt_to_be_removed_ie_ie (f : gtp_mod_acc_bearers_request__bearer_ctxt_to_be_removed_ie_member) : IeMember (gtp_mod_acc_bearers_request__bearer_ctxt_to_be_removed_ie_type f) :=
  match f with
  | eps_bearer_id => gtp_eps_bearer_id_ie_member
  end.

Definition gtp_mod_acc_bearers_request__bearer_ctxt_to_be_removed_ie_sig : signature :=
  Signature gtp_mod_acc_bearers_request__bearer_ctxt_to_be_removed_ie_member gtp_mod_acc_bearers_request__bearer_ctxt_to_be_removed_ie_eq_dec gtp_mod_acc_bearers_request__bearer_ctxt_to_be_removed_ie_type gtp_mod_acc_bearers_request__bearer_ctxt_to_be_removed_ie_ie
    Empty_set no_counter_eq_dec.
Canonical Structure gtp_mod_acc_bearers_request__bearer_ctxt_to_be_removed_ie_sig.

Definition gtp_mod_acc_bearers_request__bearer_ctxt_to_be_removed_ie_t : Type := grouped gtp_mod_acc_bearers_request__bearer_ctxt_to_be_removed_ie_sig.

Definition encode_gtp_mod_acc_bearers_request__bearer_ctxt_to_be_removed_ie_order : list (visit gtp_mod_acc_bearers_request__bearer_ctxt_to_be_removed_ie_sig) :=
  [One eps_bearer_id].

Definition encode_gtp_mod_acc_bearers_request__bearer_ctxt_to_be_removed_ie (value : gtp_mod_acc_bearers_request__bearer_ctxt_to_be_removed_ie_t) (buf : Z) : enc Z :=
  encode_grouped encode_gtp_mod_acc_bearers_request__bearer_ctxt_to_be_removed_ie_order value buf.

Definition decode_gtp_mod_acc_bearers_request__bearer_ctxt_to_be_removed_ie_table : list (branch gtp_mod_acc_bearers_request__bearer_ctxt_to_be_removed_ie_sig) :=
  [(GTP_IE_EPS_BEARER_ID, Some GTP_IE_INSTANCE_ZERO, Into eps_bearer_id)].

Definition decode_gtp_mod_acc_bearers_request__bearer_ctxt_to_be_removed_ie (m : bytes) (buf : Z) (value : gtp_mod_acc_bearers_request__bearer_ctxt_to_be_removed_ie_t)
  : option (Z * gtp_mod_acc_bearers_request__bearer_ctxt_to_be_removed_ie_t) :=
  decode_grouped decode_gtp_mod_acc_bearers_request__bearer_ctxt_to_be_removed_ie_table m buf value.

#[global] Instance gtp_mod_acc_bearers_request__bearer_ctxt_to_be_removed_ie_member_ie : IeMember gtp_mod_acc_bearers_request__bearer_ctxt_to_be_removed_ie_t :=
  grouped_member encode_gtp_mod_acc_bearers_request__bearer_ctxt_to_be_removed_ie_order decode_gtp_mod_acc_bearers_request__bearer_ctxt_to_be_removed_ie_table.

End gtp_mod_acc_bearers_request__bearer_ctxt_to_be_removed_ie.

(** ** [gtp_create_indir_data_fwdng_tunn_response__bearer_ctxt_ie] *)

Module gtp_create_indir_data_fwdng_tunn_response__bearer_ctxt_ie.

Inductive gtp_create_indir_data_fwdng_tunn_response__bearer_ctxt_ie_member :=
| eps_bearer_id
| cause
| s1u_sgw_fteid_dl_data_fwdng
| s12_sgw_fteid_dl_data_fwdng
| s4_u_sgw_fteid_dl_data_fwdng
| sgw_fteid_dl_data_fwdng
| s1u_sgw_fteid_ul_data_fwdng
| sgw_fteid_ul_data_fwdng.

Definition gtp_create_indir_data_fwdng_tunn_response__bearer_ctxt_ie_eq_dec (f g : gtp_create_indir_data_fwdng_tunn_response__bearer_ctxt_ie_member) : {f = g} + {f <> g}.
Proof. decide equality. Defined.

Definition gtp_create_indir_data_fwdng_tunn_response__bearer_ctxt_ie_type (f : gtp_create_indir_data_fwdng_tunn_response__bearer_ctxt_ie_member) : Type :=
  match f with
  | eps_bearer_id => gtp_eps_bearer_id_ie.gtp_eps_bearer_id_ie_t
  | cause => gtp_cause_ie.gtp_cause_ie_t
  | s1u_sgw_fteid_dl_data_fwdng => gtp_fully_qual_tunn_endpt_idnt_ie.gtp_fully_qual_tunn_endpt_idnt_ie_t
  | s12_sgw_fteid_dl_data_fwdng => gtp_fully_qual_tunn_endpt_idnt_ie.gtp_fully_qual_tunn_endpt_idnt_ie_t
  | s4_u_sgw_fteid_dl_data_fwdng => gtp_fully_qual_tunn_endpt_idnt_ie.gtp_fully_qual_tunn_endpt_idnt_ie_t
  | sgw_fteid_dl_data_fwdng => gtp_fully_qual_tunn_endpt_idnt_ie.gtp_fully_qual_tunn_endpt_idnt_ie_t
  | s1u_sgw_fteid_ul_data_fwdng => gtp_fully_qual_tunn_endpt_idnt_ie.gtp_fully_qual_tunn_endpt_idnt_ie_t
  | sgw_fteid_ul_data_fwdng => gtp_fully_qual_tunn_endpt_idnt_ie.gtp_fully_qual_tunn_endpt_idnt_ie_t
  end.

Definition gtp_create_indir_data_fwdng_tunn_response__bearer_ctxt_ie_ie (f : gtp_create_indir_data_fwdng_tunn_response__bearer_ctxt_ie_member) : IeMember (gtp_create_indir_data_fwdng_tunn_response__bearer_ctxt_ie_type f) :=
  match f with
  | eps_bearer_id => gtp_eps_bearer_id_ie_member
  | cause => gtp_cause_ie_member
  | s1u_sgw_fteid_dl_data_fwdng => gtp_fully_qual_tunn_endpt_idnt_ie_member
  | s12_sgw_fteid_dl_data_fwdng => gtp_fully_qual_tunn_endpt_idnt_ie_member
  | s4_u_sgw_fteid_dl_data_fwdng => gtp_fully_qual_tunn_endpt_idnt_ie_member
  | sgw_fteid_dl_data_fwdng => gtp_fully_qual_tunn_endpt_idnt_ie_member
  | s1u_sgw_fteid_ul_data_fwdng => gtp_fully_qual_tunn_endpt_idnt_ie_member
  | sgw_fteid_ul_data_fwdng => gtp_fully_qual_tunn_endpt_idnt_ie_member
  end.

Definition gtp_create_indir_data_fwdng_tunn_response__bearer_ctxt_ie_sig : signature :=
  Signature gtp_create_indir_data_fwdng_tunn_response__bearer_ctxt_ie_member gtp_create_indir_data_fwdng_tunn_response__bearer_ctxt_ie_eq_dec gtp_create_indir_data_fwdng_tunn_response__bearer_ctxt_ie_type gtp_create_indir_data_fwdng_tunn_response__bearer_ctxt_ie_ie
    Empty_set no_counter_eq_dec.
Canonical Structure gtp_create_indir_data_fwdng_tunn_response__bearer_ctxt_ie_sig.

Definition gtp_create_indir_data_fwdng_tunn_response__bearer_ctxt_ie_t : Type := grouped gtp_create_indir_data_fwdng_tunn_response__bearer_ctxt_ie_sig.

Definition encode_gtp_create_indir_data_fwdng_tunn_response__bearer_ctxt_ie_order : list (visit gtp_create_indir_data_fwdng_tunn_response__bearer_ctxt_ie_sig) :=
  [One eps_bearer_id; One cause; One s1u_sgw_fteid_dl_data_fwdng;
   One s12_sgw_fteid_dl_data_fwdng; One s4_u_sgw_fteid_dl_data_fwdng;
   One sgw_fteid_dl_data_fwdng; One s1u_sgw_fteid_ul_data_fwdng; One sgw_fteid_ul_data_fwdng].

Definition encode_gtp_create_indir_data_fwdng_tunn_response__bearer_ctxt_ie (value : gtp_create_indir_data_fwdng_tunn_response__bearer_ctxt_ie_t) (buf : Z) : enc Z :=
  encode_grouped encode_gtp_create_indir_data_fwdng_tunn_response__bearer_ctxt_ie_order value buf.

Definition decode_gtp_create_indir_data_fwdng_tunn_response__bearer_ctxt_ie_table : list (branch gtp_create_indir_data_fwdng_tunn_response__bearer_ctxt_ie_sig) :=
  [(GTP_IE_EPS_BEARER_ID, Some GTP_IE_INSTANCE_ZERO, Into eps_bearer_id);
   (GTP_IE_CAUSE, Some GTP_IE_INSTANCE_ZERO, Into cause);
   (GTP_IE_FULLY_QUAL_TUNN_ENDPT_IDNT, Some GTP_IE_INSTANCE_ZERO, Into s1u_sgw_fteid_dl_data_fwdng);
   (GTP_IE_FULLY_QUAL_TUNN_ENDPT_IDNT, Some GTP_IE_INSTANCE_ONE, Into s12_sgw_fteid_dl_data_fwdng);
   (GTP_IE_FULLY_QUAL_TUNN_ENDPT_IDNT, Some GTP_IE_INSTANCE_TWO, Into s4_u_sgw_fteid_dl_data_fwdng);
   (GTP_IE_FULLY_QUAL_TUNN_ENDPT_IDNT, Some GTP_IE_INSTANCE_THREE, Into sgw_fteid_dl_data_fwdng);
   (GTP_IE_FULLY_QUAL_TUNN_ENDPT_IDNT, Some GTP_IE_INSTANCE_FOUR, Into s1u_sgw_fteid_ul_data_fwdng);
   (GTP_IE_FULLY_QUAL_TUNN_ENDPT_IDNT, Some GTP_IE_INSTANCE_FIVE, Into sgw_fteid_ul_data_fwdng)].

Definition decode_gtp_create_indir_data_fwdng_tunn_response__bearer_ctxt_ie (m : bytes) (buf : Z) (value : gtp_create_indir_data_fwdng_tunn_response__bearer_ctxt_ie_t)
  : option (Z * gtp_create_indir_data_fwdng_tunn_response__bearer_ctxt_ie_t) :=
  decode_grouped decode_gtp_create_indir_data_fwdng_tunn_response__bearer_ctxt_ie_table m buf value.

#[global] Instance gtp_create_indir_data_fwdng_tunn_response__bearer_ctxt_ie_member_ie : IeMember gtp_create_indir_data_fwdng_tunn_response__bearer_ctxt_ie_t :=
  grouped_member encode_gtp_create_indir_data_fwdng_tunn_response__bearer_ctxt_ie_order decode_gtp_create_indir_data_fwdng_tunn_response__bearer_ctxt_ie_table.

End gtp_create_indir_data_fwdng_tunn_response__bearer_ctxt_ie.
