(* ===== verification/GtpNumbers.v ===== *)
(** The type and the instance that the elements of a message carry, and what
    they must be for a decoder to find its way back.

    The header of an element has the number of its kind (the constants of
    gtp_ies.h), and an instance that tells apart the members of a message that
    are of one kind.  Both are set by the program that fills the structure; here
    they are given from the kinds of the members and their order in the
    structure, without the branches of the decoder, which are then checked
    against them. *)

From Stdlib Require Import ZArith List Lia Bool.
From S2P Require Import Prelude EncDecBits WireFormat IeFormat GtpDefs.
From S2P Require Import GtpIes1 GtpIes2 GtpIes3 GtpIesVar GtpIesSub GtpImsi GtpMessage GtpGrouped GtpMembers GtpGroupedIes.
Import ListNotations.
Open Scope Z_scope.

(** * The number of a kind of element *)

Class IeNumber (T : Type) := ie_number : Z.

#[global] Instance gtp_rfsp_index_ie_number : IeNumber gtp_rfsp_index_ie.gtp_rfsp_index_ie_t
  := GTP_IE_RFSP_INDEX.
#[global] Instance gtp_guti_ie_number : IeNumber gtp_guti_ie.gtp_guti_ie_t := GTP_IE_GUTI.
#[global] Instance gtp_eps_bearer_id_ie_number : IeNumber gtp_eps_bearer_id_ie.gtp_eps_bearer_id_ie_t
  := GTP_IE_EPS_BEARER_ID.
#[global] Instance gtp_mdt_cfg_ie_number : IeNumber gtp_mdt_cfg_ie.gtp_mdt_cfg_ie_t := GTP_IE_MDT_CFG.
#[global] Instance gtp_ran_nas_cause_ie_number : IeNumber gtp_ran_nas_cause_ie.gtp_ran_nas_cause_ie_t
  := GTP_IE_RAN_NAS_CAUSE.
#[global] Instance gtp_pdn_type_ie_number : IeNumber gtp_pdn_type_ie.gtp_pdn_type_ie_t := GTP_IE_PDN_TYPE.
#[global] Instance gtp_recovery_ie_number : IeNumber gtp_recovery_ie.gtp_recovery_ie_t := GTP_IE_RECOVERY.
#[global] Instance gtp_srvng_plmn_rate_ctl_ie_number : IeNumber gtp_srvng_plmn_rate_ctl_ie.gtp_srvng_plmn_rate_ctl_ie_t
  := GTP_IE_SRVNG_PLMN_RATE_CTL.
#[global] Instance gtp_mbms_dist_ack_ie_number : IeNumber gtp_mbms_dist_ack_ie.gtp_mbms_dist_ack_ie_t
  := GTP_IE_MBMS_DIST_ACK.
#[global] Instance gtp_ue_time_zone_ie_number : IeNumber gtp_ue_time_zone_ie.gtp_ue_time_zone_ie_t
  := GTP_IE_UE_TIME_ZONE.
#[global] Instance gtp_trstd_wlan_mode_indctn_ie_number : IeNumber gtp_trstd_wlan_mode_indctn_ie.gtp_trstd_wlan_mode_indctn_ie_t
  := GTP_IE_TRSTD_WLAN_MODE_INDCTN.
#[global] Instance gtp_proc_trans_id_ie_number : IeNumber gtp_proc_trans_id_ie.gtp_proc_trans_id_ie_t
  := GTP_IE_PROC_TRANS_ID.
#[global] Instance gtp_uli_timestamp_ie_number : IeNumber gtp_uli_timestamp_ie.gtp_uli_timestamp_ie_t
  := GTP_IE_ULI_TIMESTAMP.
#[global] Instance gtp_cn_oper_sel_entity_ie_number : IeNumber gtp_cn_oper_sel_entity_ie.gtp_cn_oper_sel_entity_ie_t
  := GTP_IE_CN_OPER_SEL_ENTITY.
#[global] Instance gtp_alloc_reten_priority_ie_number : IeNumber gtp_alloc_reten_priority_ie.gtp_alloc_reten_priority_ie_t
  := GTP_IE_ALLOC_RETEN_PRIORITY.
#[global] Instance gtp_apn_restriction_ie_number : IeNumber gtp_apn_restriction_ie.gtp_apn_restriction_ie_t
  := GTP_IE_APN_RESTRICTION.
#[global] Instance gtp_ptmsi_signature_ie_number : IeNumber gtp_ptmsi_signature_ie.gtp_ptmsi_signature_ie_t
  := GTP_IE_PTMSI_SIGNATURE.
#[global] Instance gtp_paging_and_svc_info_ie_number : IeNumber gtp_paging_and_svc_info_ie.gtp_paging_and_svc_info_ie_t
  := GTP_IE_PAGING_AND_SVC_INFO.
#[global] Instance gtp_ovrld_ctl_info_ie_number : IeNumber gtp_ovrld_ctl_info_ie.gtp_ovrld_ctl_info_ie_t
  := GTP_IE_OVRLD_CTL_INFO.
#[global] Instance gtp_ecgi_list_ie_number : IeNumber gtp_ecgi_list_ie.gtp_ecgi_list_ie_t := GTP_IE_ECGI_LIST.
#[global] Instance gtp_agg_max_bit_rate_ie_number : IeNumber gtp_agg_max_bit_rate_ie.gtp_agg_max_bit_rate_ie_t
  := GTP_IE_AGG_MAX_BIT_RATE.
#[global] Instance gtp_cmplt_req_msg_ie_number : IeNumber gtp_cmplt_req_msg_ie.gtp_cmplt_req_msg_ie_t
  := GTP_IE_CMPLT_REQ_MSG.
#[global] Instance gtp_epc_timer_ie_number : IeNumber gtp_epc_timer_ie.gtp_epc_timer_ie_t := GTP_IE_EPC_TIMER.
#[global] Instance gtp_tmgi_ie_number : IeNumber gtp_tmgi_ie.gtp_tmgi_ie_t := GTP_IE_TMGI.
#[global] Instance gtp_mntrng_evnt_info_ie_number : IeNumber gtp_mntrng_evnt_info_ie.gtp_mntrng_evnt_info_ie_t
  := GTP_IE_MNTRNG_EVNT_INFO.
#[global] Instance gtp_bearer_qlty_of_svc_ie_number : IeNumber gtp_bearer_qlty_of_svc_ie.gtp_bearer_qlty_of_svc_ie_t
  := GTP_IE_BEARER_QLTY_OF_SVC.
#[global] Instance gtp_mapped_ue_usage_type_ie_number : IeNumber gtp_mapped_ue_usage_type_ie.gtp_mapped_ue_usage_type_ie_t
  := GTP_IE_MAPPED_UE_USAGE_TYPE.
#[global] Instance gtp_local_distgsd_name_ie_number : IeNumber gtp_local_distgsd_name_ie.gtp_local_distgsd_name_ie_t
  := GTP_IE_LOCAL_DISTGSD_NAME.
#[global] Instance gtp_csg_info_rptng_act_ie_number : IeNumber gtp_csg_info_rptng_act_ie.gtp_csg_info_rptng_act_ie_t
  := GTP_IE_CSG_INFO_RPTNG_ACT.
#[global] Instance gtp_secdry_rat_usage_data_rpt_ie_number : IeNumber gtp_secdry_rat_usage_data_rpt_ie.gtp_secdry_rat_usage_data_rpt_ie_t
  := GTP_IE_SECDRY_RAT_USAGE_DATA_RPT.
#[global] Instance gtp_rat_type_ie_number : IeNumber gtp_rat_type_ie.gtp_rat_type_ie_t := GTP_IE_RAT_TYPE.
#[global] Instance gtp_charging_id_ie_number : IeNumber gtp_charging_id_ie.gtp_charging_id_ie_t
  := GTP_IE_CHARGING_ID.
#[global] Instance gtp_counter_ie_number : IeNumber gtp_counter_ie.gtp_counter_ie_t := GTP_IE_COUNTER.
#[global] Instance gtp_serving_network_ie_number : IeNumber gtp_serving_network_ie.gtp_serving_network_ie_t
  := GTP_IE_SERVING_NETWORK.
#[global] Instance gtp_node_identifier_ie_number : IeNumber gtp_node_identifier_ie.gtp_node_identifier_ie_t
  := GTP_IE_NODE_IDENTIFIER.
#[global] Instance gtp_trc_info_ie_number : IeNumber gtp_trc_info_ie.gtp_trc_info_ie_t := GTP_IE_TRC_INFO.
#[global] Instance gtp_mbms_ip_multcst_dist_ie_number : IeNumber gtp_mbms_ip_multcst_dist_ie.gtp_mbms_ip_multcst_dist_ie_t
  := GTP_IE_MBMS_IP_MULTCST_DIST.
#[global] Instance gtp_full_qual_cntnr_ie_number : IeNumber gtp_full_qual_cntnr_ie.gtp_full_qual_cntnr_ie_t
  := GTP_IE_FULL_QUAL_CNTNR.
#[global] Instance gtp_mbms_data_xfer_abs_time_ie_number : IeNumber gtp_mbms_data_xfer_abs_time_ie.gtp_mbms_data_xfer_abs_time_ie_t
  := GTP_IE_MBMS_DATA_XFER_ABS_TIME.
#[global] Instance gtp_twan_idnt_ts_ie_number : IeNumber gtp_twan_idnt_ts_ie.gtp_twan_idnt_ts_ie_t
  := GTP_IE_TWAN_IDNT_TS.
#[global] Instance gtp_twan_identifier_ie_number : IeNumber gtp_twan_identifier_ie.gtp_twan_identifier_ie_t
  := GTP_IE_TWAN_IDENTIFIER.
#[global] Instance gtp_ptmsi_ie_number : IeNumber gtp_ptmsi_ie.gtp_ptmsi_ie_t := GTP_IE_PTMSI.
#[global] Instance gtp_node_type_ie_number : IeNumber gtp_node_type_ie.gtp_node_type_ie_t := GTP_IE_NODE_TYPE.
#[global] Instance gtp_user_csg_info_ie_number : IeNumber gtp_user_csg_info_ie.gtp_user_csg_info_ie_t
  := GTP_IE_USER_CSG_INFO.
#[global] Instance gtp_mbms_sess_dur_ie_number : IeNumber gtp_mbms_sess_dur_ie.gtp_mbms_sess_dur_ie_t
  := GTP_IE_MBMS_SESS_DUR.
#[global] Instance gtp_bearer_context_ie_number : IeNumber gtp_bearer_context_ie.gtp_bearer_context_ie_t
  := GTP_IE_BEARER_CONTEXT.
#[global] Instance gtp_ciot_optim_supp_indctn_ie_number : IeNumber gtp_ciot_optim_supp_indctn_ie.gtp_ciot_optim_supp_indctn_ie_t
  := GTP_IE_CIOT_OPTIM_SUPP_INDCTN.
#[global] Instance gtp_pdu_numbers_ie_number : IeNumber gtp_pdu_numbers_ie.gtp_pdu_numbers_ie_t
  := GTP_IE_PDU_NUMBERS.
#[global] Instance gtp_rab_context_ie_number : IeNumber gtp_rab_context_ie.gtp_rab_context_ie_t
  := GTP_IE_RAB_CONTEXT.
#[global] Instance gtp_node_number_ie_number : IeNumber gtp_node_number_ie.gtp_node_number_ie_t
  := GTP_IE_NODE_NUMBER.
#[global] Instance gtp_load_ctl_info_ie_number : IeNumber gtp_load_ctl_info_ie.gtp_load_ctl_info_ie_t
  := GTP_IE_LOAD_CTL_INFO.
#[global] Instance gtp_rmt_ue_ctxt_ie_number : IeNumber gtp_rmt_ue_ctxt_ie.gtp_rmt_ue_ctxt_ie_t
  := GTP_IE_RMT_UE_CTXT.
#[global] Instance gtp_full_qual_cause_ie_number : IeNumber gtp_full_qual_cause_ie.gtp_full_qual_cause_ie_t
  := GTP_IE_FULL_QUAL_CAUSE.
#[global] Instance gtp_ipv4_cfg_parms_ie_number : IeNumber gtp_ipv4_cfg_parms_ie.gtp_ipv4_cfg_parms_ie_t
  := GTP_IE_IPV4_CFG_PARMS.
#[global] Instance gtp_trace_reference_ie_number : IeNumber gtp_trace_reference_ie.gtp_trace_reference_ie_t
  := GTP_IE_TRACE_REFERENCE.
#[global] Instance gtp_node_features_ie_number : IeNumber gtp_node_features_ie.gtp_node_features_ie_t
  := GTP_IE_NODE_FEATURES.
#[global] Instance gtp_port_number_ie_number : IeNumber gtp_port_number_ie.gtp_port_number_ie_t
  := GTP_IE_PORT_NUMBER.
#[global] Instance gtp_act_indctn_ie_number : IeNumber gtp_act_indctn_ie.gtp_act_indctn_ie_t
  := GTP_IE_ACT_INDCTN.
#[global] Instance gtp_plmn_id_ie_number : IeNumber gtp_plmn_id_ie.gtp_plmn_id_ie_t := GTP_IE_PLMN_ID.
#[global] Instance gtp_mbms_flow_idnt_ie_number : IeNumber gtp_mbms_flow_idnt_ie.gtp_mbms_flow_idnt_ie_t
  := GTP_IE_MBMS_FLOW_IDNT.
#[global] Instance gtp_sgnllng_priority_indctn_ie_number : IeNumber gtp_sgnllng_priority_indctn_ie.gtp_sgnllng_priority_indctn_ie_t
  := GTP_IE_SGNLLNG_PRIORITY_INDCTN.
#[global] Instance gtp_mbms_time_to_data_xfer_ie_number : IeNumber gtp_mbms_time_to_data_xfer_ie.gtp_mbms_time_to_data_xfer_ie_t
  := GTP_IE_MBMS_TIME_TO_DATA_XFER.
#[global] Instance gtp_trgt_id_ie_number : IeNumber gtp_trgt_id_ie.gtp_trgt_id_ie_t := GTP_IE_TRGT_ID.
#[global] Instance gtp_mbms_flags_ie_number : IeNumber gtp_mbms_flags_ie.gtp_mbms_flags_ie_t
  := GTP_IE_MBMS_FLAGS.
#[global] Instance gtp_msec_time_stmp_ie_number : IeNumber gtp_msec_time_stmp_ie.gtp_msec_time_stmp_ie_t
  := GTP_IE_MSEC_TIME_STMP.
#[global] Instance gtp_scef_pdn_conn_ie_number : IeNumber gtp_scef_pdn_conn_ie.gtp_scef_pdn_conn_ie_t
  := GTP_IE_SCEF_PDN_CONN.
#[global] Instance gtp_chg_rptng_act_ie_number : IeNumber gtp_chg_rptng_act_ie.gtp_chg_rptng_act_ie_t
  := GTP_IE_CHG_RPTNG_ACT.
#[global] Instance gtp_delay_value_ie_number : IeNumber gtp_delay_value_ie.gtp_delay_value_ie_t
  := GTP_IE_DELAY_VALUE.
#[global] Instance gtp_pdn_connection_ie_number : IeNumber gtp_pdn_connection_ie.gtp_pdn_connection_ie_t
  := GTP_IE_PDN_CONNECTION.
#[global] Instance gtp_detach_type_ie_number : IeNumber gtp_detach_type_ie.gtp_detach_type_ie_t
  := GTP_IE_DETACH_TYPE.
#[global] Instance gtp_mbms_svc_area_ie_number : IeNumber gtp_mbms_svc_area_ie.gtp_mbms_svc_area_ie_t
  := GTP_IE_MBMS_SVC_AREA.
#[global] Instance gtp_chrgng_char_ie_number : IeNumber gtp_chrgng_char_ie.gtp_chrgng_char_ie_t
  := GTP_IE_CHRGNG_CHAR.
#[global] Instance gtp_henb_info_rptng_ie_number : IeNumber gtp_henb_info_rptng_ie.gtp_henb_info_rptng_ie_t
  := GTP_IE_HENB_INFO_RPTNG.
#[global] Instance gtp_throttling_ie_number : IeNumber gtp_throttling_ie.gtp_throttling_ie_t
  := GTP_IE_THROTTLING.
#[global] Instance gtp_src_rnc_pdcp_ctxt_info_ie_number : IeNumber gtp_src_rnc_pdcp_ctxt_info_ie.gtp_src_rnc_pdcp_ctxt_info_ie_t
  := GTP_IE_SRC_RNC_PDCP_CTXT_INFO.
#[global] Instance gtp_hop_counter_ie_number : IeNumber gtp_hop_counter_ie.gtp_hop_counter_ie_t
  := GTP_IE_HOP_COUNTER.
#[global] Instance gtp_pres_rptng_area_info_ie_number : IeNumber gtp_pres_rptng_area_info_ie.gtp_pres_rptng_area_info_ie_t
  := GTP_IE_PRES_RPTNG_AREA_INFO.
#[global] Instance gtp_mbms_sess_idnt_ie_number : IeNumber gtp_mbms_sess_idnt_ie.gtp_mbms_sess_idnt_ie_t
  := GTP_IE_MBMS_SESS_IDNT.
#[global] Instance gtp_selection_mode_ie_number : IeNumber gtp_selection_mode_ie.gtp_selection_mode_ie_t
  := GTP_IE_SELECTION_MODE.
#[global] Instance gtp_up_func_sel_indctn_flgs_ie_number : IeNumber gtp_up_func_sel_indctn_flgs_ie.gtp_up_func_sel_indctn_flgs_ie_t
  := GTP_IE_UP_FUNC_SEL_INDCTN_FLGS.
#[global] Instance gtp_mbl_equip_idnty_ie_number : IeNumber gtp_mbl_equip_idnty_ie.gtp_mbl_equip_idnty_ie_t
  := GTP_IE_MBL_EQUIP_IDNTY.
#[global] Instance gtp_priv_ext_ie_number : IeNumber gtp_priv_ext_ie.gtp_priv_ext_ie_t := GTP_IE_PRIV_EXT.
#[global] Instance gtp_acc_pt_name_ie_number : IeNumber gtp_acc_pt_name_ie.gtp_acc_pt_name_ie_t
  := GTP_IE_ACC_PT_NAME.
#[global] Instance gtp_fully_qual_domain_name_ie_number : IeNumber gtp_fully_qual_domain_name_ie.gtp_fully_qual_domain_name_ie_t
  := GTP_IE_FULLY_QUAL_DOMAIN_NAME.
#[global] Instance gtp_ip_address_ie_number : IeNumber gtp_ip_address_ie.gtp_ip_address_ie_t
  := GTP_IE_IP_ADDRESS.
#[global] Instance gtp_cause_ie_number : IeNumber gtp_cause_ie.gtp_cause_ie_t := GTP_IE_CAUSE.
#[global] Instance gtp_fully_qual_tunn_endpt_idnt_ie_number : IeNumber gtp_fully_qual_tunn_endpt_idnt_ie.gtp_fully_qual_tunn_endpt_idnt_ie_t
  := GTP_IE_FULLY_QUAL_TUNN_ENDPT_IDNT.
#[global] Instance gtp_pdn_addr_alloc_ie_number : IeNumber gtp_pdn_addr_alloc_ie.gtp_pdn_addr_alloc_ie_t
  := GTP_IE_PDN_ADDR_ALLOC.
#[global] Instance gtp_msisdn_ie_number : IeNumber gtp_msisdn_ie.gtp_msisdn_ie_t := GTP_IE_MSISDN.
#[global] Instance gtp_integer_number_ie_number : IeNumber gtp_integer_number_ie.gtp_integer_number_ie_t
  := GTP_IE_INTEGER_NUMBER.
#[global] Instance gtp_fqcsid_ie_number : IeNumber gtp_fqcsid_ie.gtp_fqcsid_ie_t := GTP_IE_FQCSID.
#[global] Instance gtp_user_loc_info_ie_number : IeNumber gtp_user_loc_info_ie.gtp_user_loc_info_ie_t
  := GTP_IE_USER_LOC_INFO.
#[global] Instance gtp_pres_rptng_area_act_ie_number : IeNumber gtp_pres_rptng_area_act_ie.gtp_pres_rptng_area_act_ie_t
  := GTP_IE_PRES_RPTNG_AREA_ACT.
#[global] Instance gtp_indication_ie_number : IeNumber gtp_indication_ie.gtp_indication_ie_t
  := GTP_IE_INDICATION.
#[global] Instance gtp_prot_cfg_opts_ie_number : IeNumber gtp_prot_cfg_opts_ie.gtp_prot_cfg_opts_ie_t
  := GTP_IE_PROT_CFG_OPTS.
#[global] Instance gtp_addtl_prot_cfg_opts_ie_number : IeNumber gtp_addtl_prot_cfg_opts_ie.gtp_addtl_prot_cfg_opts_ie_t
  := GTP_IE_ADDTL_PROT_CFG_OPTS.
#[global] Instance gtp_extnded_prot_cfg_opts_ie_number : IeNumber gtp_extnded_prot_cfg_opts_ie.gtp_extnded_prot_cfg_opts_ie_t
  := GTP_IE_EXTNDED_PROT_CFG_OPTS.
#[global] Instance gtp_imsi_ie_number : IeNumber gtp_imsi_ie.gtp_imsi_ie_t := GTP_IE_IMSI.
#[global] Instance gtp_create_bearer_request_bearer_ctxt_ie_number : IeNumber gtp_create_bearer_request_bearer_ctxt_ie.gtp_create_bearer_request_bearer_ctxt_ie_t
  := GTP_IE_BEARER_CONTEXT.
#[global] Instance gtp_create_bearer_response_bearer_ctxt_ie_number : IeNumber gtp_create_bearer_response_bearer_ctxt_ie.gtp_create_bearer_response_bearer_ctxt_ie_t
  := GTP_IE_BEARER_CONTEXT.
#[global] Instance gtp_create_indir_data_fwdng_tunn_request__bearer_ctxt_ie_number : IeNumber gtp_create_indir_data_fwdng_tunn_request__bearer_ctxt_ie.gtp_create_indir_data_fwdng_tunn_request__bearer_ctxt_ie_t
  := GTP_IE_BEARER_CONTEXT.
#[global] Instance gtp_create_indir_data_fwdng_tunn_response__bearer_ctxt_ie_number : IeNumber gtp_create_indir_data_fwdng_tunn_response__bearer_ctxt_ie.gtp_create_indir_data_fwdng_tunn_response__bearer_ctxt_ie_t
  := GTP_IE_BEARER_CONTEXT.
#[global] Instance gtp_create_sess_request_bearer_ctxt_to_be_created_ie_number : IeNumber gtp_create_sess_request_bearer_ctxt_to_be_created_ie.gtp_create_sess_request_bearer_ctxt_to_be_created_ie_t
  := GTP_IE_BEARER_CONTEXT.
#[global] Instance gtp_create_sess_request_bearer_ctxt_to_be_removed_ie_number : IeNumber gtp_create_sess_request_bearer_ctxt_to_be_removed_ie.gtp_create_sess_request_bearer_ctxt_to_be_removed_ie_t
  := GTP_IE_BEARER_CONTEXT.
#[global] Instance gtp_create_sess_response_bearer_ctxt_created_ie_number : IeNumber gtp_create_sess_response_bearer_ctxt_created_ie.gtp_create_sess_response_bearer_ctxt_created_ie_t
  := GTP_IE_BEARER_CONTEXT.
#[global] Instance gtp_create_sess_response_bearer_ctxt_marked_removal_ie_number : IeNumber gtp_create_sess_response_bearer_ctxt_marked_removal_ie.gtp_create_sess_response_bearer_ctxt_marked_removal_ie_t
  := GTP_IE_BEARER_CONTEXT.
#[global] Instance gtp_del_bearer_command_bearer_ctxt_ie_number : IeNumber gtp_del_bearer_command_bearer_ctxt_ie.gtp_del_bearer_command_bearer_ctxt_ie_t
  := GTP_IE_BEARER_CONTEXT.
#[global] Instance gtp_del_bearer_fail_indication__bearer_ctxt_ie_number : IeNumber gtp_del_bearer_fail_indication__bearer_ctxt_ie.gtp_del_bearer_fail_indication__bearer_ctxt_ie_t
  := GTP_IE_BEARER_CONTEXT.
#[global] Instance gtp_del_bearer_response_bearer_ctxt_ie_number : IeNumber gtp_del_bearer_response_bearer_ctxt_ie.gtp_del_bearer_response_bearer_ctxt_ie_t
  := GTP_IE_BEARER_CONTEXT.
#[global] Instance gtp_mod_bearer_command__bearer_ctxt_ie_number : IeNumber gtp_mod_bearer_command__bearer_ctxt_ie.gtp_mod_bearer_command__bearer_ctxt_ie_t
  := GTP_IE_BEARER_CONTEXT.
#[global] Instance gtp_mod_bearer_request_bearer_ctxt_to_be_modified_ie_number : IeNumber gtp_mod_bearer_request_bearer_ctxt_to_be_modified_ie.gtp_mod_bearer_request_bearer_ctxt_to_be_modified_ie_t
  := GTP_IE_BEARER_CONTEXT.
#[global] Instance gtp_mod_bearer_request_bearer_ctxt_to_be_removed_ie_number : IeNumber gtp_mod_bearer_request_bearer_ctxt_to_be_removed_ie.gtp_mod_bearer_request_bearer_ctxt_to_be_removed_ie_t
  := GTP_IE_BEARER_CONTEXT.
#[global] Instance gtp_mod_bearer_response_bearer_ctxt_marked_removal_ie_number : IeNumber gtp_mod_bearer_response_bearer_ctxt_marked_removal_ie.gtp_mod_bearer_response_bearer_ctxt_marked_removal_ie_t
  := GTP_IE_BEARER_CONTEXT.
#[global] Instance gtp_mod_bearer_response_bearer_ctxt_modified_ie_number : IeNumber gtp_mod_bearer_response_bearer_ctxt_modified_ie.gtp_mod_bearer_response_bearer_ctxt_modified_ie_t
  := GTP_IE_BEARER_CONTEXT.
#[global] Instance gtp_upd_bearer_request__bearer_ctxt_ie_number : IeNumber gtp_upd_bearer_request__bearer_ctxt_ie.gtp_upd_bearer_request__bearer_ctxt_ie_t
  := GTP_IE_BEARER_CONTEXT.
#[global] Instance gtp_upd_bearer_response__bearer_ctxt_ie_number : IeNumber gtp_upd_bearer_response__bearer_ctxt_ie.gtp_upd_bearer_response__bearer_ctxt_ie_t
  := GTP_IE_BEARER_CONTEXT.

(** * The numbers of the members of a message *)

Section Numbers.
Context {S : signature} (number : forall f : member S, IeNumber (member_type S f)).
Implicit Types (f : member S) (v : visit S) (order : list (visit S)) (table : list (branch S)).

(** The first member of a visit. *)
Definition visited v : member S :=
  match v with
  | One f => f
  | Many _ f _ => f 0%nat
  end.

Definition kind_of v : Z := @ie_number _ (number (visited v)).

(** The instance of a member: how many members of its kind come before it. *)
Fixpoint instances (seen : list Z) order : list Z :=
  match order with
  | [] => []
  | v :: order => Z.of_nat (count_occ Z.eq_dec seen (kind_of v)) :: instances (kind_of v :: seen) order
  end.

(** Other instances, by position. *)
Fixpoint replaced (others : list (nat * Z)) (i : nat) (l : list Z) : list Z :=
  match l with
  | [] => []
  | k :: l =>
      match find (fun x => Nat.eqb (fst x) i) others with Some (_, k') => k' | None => k end
      :: replaced others (Datatypes.S i) l
  end.

(** A visit with the type and the instance of its elements, and whether the
    decoder is to recover them. *)
Record numbered := Numbered { n_visit : visit S; n_kind : Z; n_instance : Z; n_kept : bool }.

Definition numbering (others : list (nat * Z)) (exempt : list nat) order : list numbered :=
  map (fun x : nat * (visit S * Z) =>
         Numbered (fst (snd x)) (kind_of (fst (snd x))) (snd (snd x)) (negb (existsb (Nat.eqb (fst x)) exempt)))
      (combine (seq 0 (length order)) (combine order (replaced others 0 (instances [] order)))).

(** * Messages with these numbers *)

Definition labelled (ies : forall f : member S, member_type S f) (t k : Z) f : Prop :=
  present ies f = true ->
  (member_header (ies f)).(hdr_type) = t /\ (member_header (ies f)).(hdr_instance) = k.

(** A member carries its numbers if it is there; of an array the first [n]
    elements are there and carry them; a member that is exempt is not there. *)
Definition well_labelled (ies : forall f : member S, member_type S f) (counts : counter S -> Z) (x : numbered) : Prop :=
  if n_kept x then
    match n_visit x with
    | One f => labelled ies (n_kind x) (n_instance x) f
    | Many upto f cap =>
        exists n, (n <= Z.to_nat (upto counts))%nat
          /\ (forall j, (j < Z.to_nat (upto counts))%nat -> present ies (f j) = (j <? n)%nat)
          /\ forall j, (j < n)%nat -> labelled ies (n_kind x) (n_instance x) (f j)
    end
  else
    match n_visit x with
    | One f => present ies f = false
    | Many upto f cap => forall j, (j < Z.to_nat (upto counts))%nat -> present ies (f j) = false
    end.

(** * Decoders with branches for these numbers *)

(** The counter of the array the elements are decoded into. *)
Definition counter_of table (x : numbered) : option (counter S) :=
  match dispatch table (n_kind x) (n_instance x) with Some (Next c _ _) => Some c | _ => None end.

(** The branch for the numbers leads to the member, or to the array. *)
Definition leads_back table (x : numbered) : bool :=
  match n_visit x, dispatch table (n_kind x) (n_instance x) with
  | One f, Some (Into g) => if member_eq_dec S f g then true else false
  | Many _ f cap, Some (Next c g cap') =>
      (Z.of_nat cap <=? cap') && (cap' <? 256)
      && forallb (fun j => if member_eq_dec S (f j) (g j) then true else false) (seq 0 cap)
  | _, _ => false
  end.

(** The members a visit can send. *)
Definition members_of v : list (member S) :=
  match v with
  | One f => [f]
  | Many _ f cap => map f (seq 0 cap)
  end.

Fixpoint no_dup {A} (dec : forall x y : A, {x = y} + {x <> y}) (l : list A) : bool :=
  match l with
  | [] => true
  | x :: l => (if in_dec dec x l then false else true) && no_dup dec l
  end.

Definition counters_of table (l : list numbered) : list (counter S) :=
  flat_map (fun x => if n_kept x then match counter_of table x with Some c => [c] | None => [] end else []) l.

(** Every member that is not exempt has its branch, no member is sent twice and
    no two arrays share a counter. *)
Definition finds_way table (l : list numbered) : bool :=
  forallb (fun x => negb (n_kept x) || leads_back table x) l
  && no_dup (member_eq_dec S) (flat_map (fun x => members_of (n_visit x)) l)
  && no_dup (counter_eq_dec S) (counters_of table l).

(** * The decoder finds its way back *)

Lemma filter_keeps {A} (P : A -> bool) l : (forall x, In x l -> P x = true) -> filter P l = l.
Proof.
  intros H. apply forallb_filter_id, forallb_forall, H.
Qed.

Lemma filter_drops {A} (P : A -> bool) l : (forall x, In x l -> P x = false) -> filter P l = [].
Proof.
  induction l as [|x l IH]; intros H; [reflexivity|]. cbn. rewrite (H x (or_introl eq_refl)). apply IH.
  intros y Hy. apply H. right. exact Hy.
Qed.

(** What a visit sends. *)
Definition sent_by (ies : forall f : member S, member_type S f) (counts : counter S -> Z) (x : numbered)
  : list (member S) :=
  filter (present ies)
    match n_visit x with
    | One f => [f]
    | Many upto f _ => map f (seq 0 (Z.to_nat (upto counts)))
    end.

Section Way.
Context (table : list (branch S)) (ies : forall f : member S, member_type S f) (counts : counter S -> Z).

Lemma emitted_by l :
  flatten counts (map n_visit l) <> None -> emitted ies counts (map n_visit l) = flat_map (sent_by ies counts) l.
Proof.
  unfold emitted. induction l as [|[v t k b] l IH]; [reflexivity|]. cbn [map n_visit flat_map].
  destruct v as [f|upto f cap]; cbn [flatten].
  - destruct (flatten counts (map n_visit l)) as [ms|]; cbn [option_map]; [|congruence]. intros _.
    rewrite <- IH by discriminate. unfold sent_by. cbn [n_visit filter]. destruct (present ies f); reflexivity.
  - destruct (Nat.leb_spec (Z.to_nat (upto counts)) cap); [|congruence].
    destruct (flatten counts (map n_visit l)) as [ms|]; cbn [option_map]; [|congruence]. intros _.
    rewrite <- IH by discriminate. rewrite filter_app. reflexivity.
Qed.

Lemma routed_app l1 l2 n :
  routed table ies (l1 ++ l2) n = match routed table ies l1 n with Some n' => routed table ies l2 n' | None => None end.
Proof.
  revert n. induction l1 as [|f l1 IH]; intros n; [reflexivity|]. cbn [app routed].
  destruct (dispatch _ _ _) as [[g|k g cap|]|]; try reflexivity.
  - destruct (member_eq_dec S f g); [apply IH | reflexivity].
  - destruct (_ && _); [|reflexivity]. destruct (member_eq_dec S f _); [apply IH | reflexivity].
Qed.

(** The elements of an array, from the [i]-th on. *)
Lemma routed_array t k c (f g : nat -> member S) cap cap' todo : forall i n,
  dispatch table t k = Some (Next c g cap') -> cap' < 256 -> Z.of_nat cap <= cap' ->
  (forall j, (j < cap)%nat -> f j = g j) -> (forall j, (j < i + todo)%nat -> present ies (f j) = true) ->
  (forall j, (j < i + todo)%nat -> labelled ies t k (f j)) -> (i + todo <= cap)%nat -> n c = Z.of_nat i ->
  exists n', routed table ies (map f (seq i todo)) n = Some n'
    /\ n' c = Z.of_nat (i + todo) /\ forall d, d <> c -> n' d = n d.
Proof.
  induction todo as [|todo IH]; intros i n Hd Hc Hcap Hfg Hp Hl Hi Hn; cbn [seq map routed].
  - exists n. rewrite Nat.add_0_r. auto.
  - destruct (Hl i ltac:(lia) (Hp i ltac:(lia))) as [-> ->]. rewrite Hd, Hn.
    destruct (Z.leb_spec 0 (Z.of_nat i)), (Z.ltb_spec (Z.of_nat i) cap'); try lia. cbn [andb].
    rewrite Nat2Z.id, <- (Hfg i) by lia. destruct (member_eq_dec S (f i) (f i)); [|congruence].
    destruct (IH (Datatypes.S i) (set_count n c (u8 (Z.of_nat i + 1)))) as (n' & E & Hn' & Ho); auto; try lia.
    + intros j Hj. apply Hp. lia.
    + intros j Hj. apply Hl. lia.
    + unfold set_count. destruct (counter_eq_dec S c c); [|congruence]. unfold u8. rewrite Z.mod_small; lia.
    + exists n'. split; [exact E|]. split; [rewrite Hn'; f_equal; lia|]. intros d Hd'. rewrite Ho by exact Hd'.
      unfold set_count. destruct (counter_eq_dec S c d); [congruence | reflexivity].
Qed.

Lemma first_present n m (f : nat -> member S) :
  (n <= m)%nat -> (forall j, (j < m)%nat -> present ies (f j) = (j <? n)%nat) ->
  filter (present ies) (map f (seq 0 m)) = map f (seq 0 n).
Proof.
  intros Hn Hp. replace m with (n + (m - n))%nat by lia. rewrite seq_app, map_app, filter_app. cbn [Nat.add].
  rewrite filter_keeps, (filter_drops _ (map f (seq n (m - n)))), app_nil_r; [reflexivity| |].
  - intros x (j & <- & Hj%in_seq)%in_map_iff. rewrite Hp by lia. apply Nat.ltb_ge. lia.
  - intros x (j & <- & Hj%in_seq)%in_map_iff. rewrite Hp by lia. apply Nat.ltb_lt. lia.
Qed.

Lemma no_dup_spec {A} (dec : forall x y : A, {x = y} + {x <> y}) l : no_dup dec l = true -> NoDup l.
Proof.
  induction l as [|x l IH]; cbn [no_dup]; [constructor|]. intros [H1 H2]%andb_true_iff.
  destruct (in_dec dec x l); [discriminate|]. constructor; auto.
Qed.

(** One visit. *)
Lemma routed_visit x n :
  (n_kept x = true -> leads_back table x = true) -> well_labelled ies counts x ->
  (match n_visit x with One _ => True | Many upto _ cap => (Z.to_nat (upto counts) <= cap)%nat end) ->
  (forall c, n_kept x = true -> counter_of table x = Some c -> n c = 0) ->
  exists n', routed table ies (sent_by ies counts x) n = Some n'
    /\ (forall c, n_kept x = true -> counter_of table x = Some c -> n' c = Z.of_nat (length (sent_by ies counts x)))
    /\ forall d, (n_kept x = true -> counter_of table x <> Some d) -> n' d = n d.
Proof.
  unfold leads_back, well_labelled, sent_by, counter_of. destruct x as [v t k b]. cbn [n_visit n_kind n_instance n_kept].
  destruct b.
  - intros Hb Hw Hcap Hc. specialize (Hb eq_refl). destruct v as [f|upto f cap].
    + destruct (dispatch table t k) as [[g|c g cap'|]|] eqn:Ed; try discriminate.
      destruct (member_eq_dec S f g) as [<-|]; [|discriminate]. cbn [filter]. destruct (present ies f) eqn:Ep.
      * cbn [routed]. destruct (Hw Ep) as [-> ->]. rewrite Ed. destruct (member_eq_dec S f f); [|congruence].
        exists n. split; [reflexivity|]. split; [discriminate | reflexivity].
      * exists n. split; [reflexivity|]. split; [discriminate | reflexivity].
    + destruct (dispatch table t k) as [[g|c g cap'|]|] eqn:Ed; try discriminate.
      apply andb_true_iff in Hb. destruct Hb as [Hb Hfg]. apply andb_true_iff in Hb. destruct Hb as [Hle Hlt].
      apply Z.leb_le in Hle. apply Z.ltb_lt in Hlt. rewrite forallb_forall in Hfg.
      destruct Hw as (m & Hm & Hp & Hl). rewrite (first_present m) by assumption. rewrite length_map, length_seq.
      destruct (routed_array t k c f g cap cap' m 0 n) as (n' & E & Hn' & Ho); auto; try lia.
      * intros j Hj. specialize (Hfg j ltac:(apply in_seq; lia)). destruct (member_eq_dec S (f j) (g j)); congruence.
      * intros j Hj. rewrite Hp by lia. apply Nat.ltb_lt. lia.
      * exists n'. split; [exact E|]. split; [intros c' _ [= <-]; exact Hn'|]. intros d Hd. apply Ho. intros ->. apply (Hd eq_refl). reflexivity.
  - intros _ Hw _ _. assert (E : filter (present ies) match v with One f => [f] | Many upto f _ => map f (seq 0 (Z.to_nat (upto counts))) end = []).
    { destruct v as [f|upto f cap].
      - cbn. rewrite Hw. reflexivity.
      - apply filter_drops. intros y (j & <- & Hj%in_seq)%in_map_iff. apply Hw. lia. }
    rewrite E. exists n. split; [reflexivity|]. split; [discriminate | reflexivity].
Qed.
(** The arrays have room. *)
Lemma flatten_cons x l :
  flatten counts (map n_visit (x :: l)) <> None ->
  flatten counts (map n_visit l) <> None
  /\ match n_visit x with One _ => True | Many upto _ cap => (Z.to_nat (upto counts) <= cap)%nat end.
Proof.
  cbn [map flatten]. intros Hfl. destruct (n_visit x) as [f|upto f cap].
  - split; [|exact I]. intros E. rewrite E in Hfl. apply Hfl. reflexivity.
  - destruct (Nat.leb_spec (Z.to_nat (upto counts)) cap); [|congruence]. split; [|assumption].
    intros E. rewrite E in Hfl. apply Hfl. reflexivity.
Qed.

Lemma counters_of_cons x l : counters_of table (x :: l) = counters_of table [x] ++ counters_of table l.
Proof. unfold counters_of. cbn [flat_map]. rewrite app_nil_r. reflexivity. Qed.

Lemma counters_of_one x c : In c (counters_of table [x]) <-> n_kept x = true /\ counter_of table x = Some c.
Proof.
  unfold counters_of. cbn [flat_map]. rewrite app_nil_r. destruct (n_kept x), (counter_of table x) as [d|]; cbn;
    split; try tauto; try (intros [H|[]]; subst; auto); intros [H1 H2]; try congruence. injection H2 as <-. auto.
Qed.

Lemma routed_all l : forall n,
  forallb (fun x => negb (n_kept x) || leads_back table x) l = true -> NoDup (counters_of table l) ->
  Forall (well_labelled ies counts) l -> flatten counts (map n_visit l) <> None ->
  (forall c, In c (counters_of table l) -> n c = 0) ->
  exists n', routed table ies (flat_map (sent_by ies counts) l) n = Some n'
    /\ (forall x c, In x l -> n_kept x = true -> counter_of table x = Some c ->
          n' c = Z.of_nat (length (sent_by ies counts x)))
    /\ forall d, ~ In d (counters_of table l) -> n' d = n d.
Proof.
  induction l as [|x l IH]; intros n Hb Hn Hw Hfl Hz; cbn [flat_map].
  { exists n. split; [reflexivity|]. split; [intros ? ? [] | reflexivity]. }
  rewrite counters_of_cons in *. cbn [forallb] in Hb. apply andb_true_iff in Hb. destruct Hb as [Hx Hb].
  inversion_clear Hw as [|? ? Hwx Hwl]. apply NoDup_app_remove_l in Hn as Hnl.
  destruct (flatten_cons x l Hfl) as [Hfl' Hcap].
  destruct (routed_visit x n) as (n1 & E1 & Hc1 & Ho1); auto.
  { intros Hk. rewrite Hk in Hx. exact Hx. }
  { intros c Hk Hc. apply Hz, in_or_app. left. apply counters_of_one. auto. }
  assert (Hout : forall d, ~ In d (counters_of table [x]) -> n1 d = n d).
  { intros d Hd. apply Ho1. intros Hk Hc. apply Hd, counters_of_one. auto. }
  assert (Hdis : forall d, In d (counters_of table [x]) -> In d (counters_of table l) -> False).
  { clear -Hn. induction (counters_of table [x]) as [|y m IHm]; cbn in *; [tauto|]. inversion_clear Hn as [|? ? Hy Hm].
    intros d [->|Hd] Hin; [apply Hy, in_or_app; auto | eapply IHm; eauto]. }
  destruct (IH n1 Hb Hnl Hwl Hfl') as (n2 & E2 & Hc2 & Ho2).
  { intros c Hc. rewrite Hout; [apply Hz, in_or_app; auto|]. intros Hx'. eapply Hdis; eauto. }
  exists n2. rewrite routed_app, E1. split; [exact E2|]. split.
  - intros y c [<-|Hy] Hk Hc; [|eapply Hc2; eauto]. rewrite Ho2; [apply Hc1; assumption|].
    intros Hin. eapply Hdis; [|exact Hin]. apply counters_of_one. auto.
  - intros d Hd. rewrite in_app_iff in Hd. rewrite Ho2 by tauto. apply Hout. tauto.
Qed.

(** No member is sent twice. *)
Lemma sent_incl x :
  match n_visit x with One _ => True | Many upto _ cap => (Z.to_nat (upto counts) <= cap)%nat end ->
  incl (sent_by ies counts x) (members_of (n_visit x)).
Proof.
  unfold sent_by. destruct (n_visit x) as [f|upto f cap]; cbn [members_of]; intros Hcap y [Hy _]%filter_In; [exact Hy|].
  apply in_map_iff in Hy. destruct Hy as (j & <- & Hj%in_seq). apply in_map, in_seq. lia.
Qed.

Lemma sent_nodup l :
  NoDup (flat_map (fun x => members_of (n_visit x)) l) -> flatten counts (map n_visit l) <> None ->
  NoDup (flat_map (sent_by ies counts) l)
  /\ incl (flat_map (sent_by ies counts) l) (flat_map (fun x => members_of (n_visit x)) l).
Proof.
  induction l as [|x l IH]; cbn [flat_map]; [split; [constructor | apply incl_refl]|]. intros Hn Hfl.
  destruct (flatten_cons x l Hfl) as [Hfl' Hcap]. apply NoDup_app_remove_l in Hn as Hnl. destruct (IH Hnl Hfl') as [IHn IHi].
  pose proof (sent_incl x Hcap) as Hi. split.
  - apply NoDup_app; [|exact IHn|].
    + unfold sent_by. apply NoDup_filter. apply NoDup_app_remove_r in Hn. destruct (n_visit x) as [f|upto f cap]; [exact Hn|].
      cbn [members_of] in Hn. replace cap with (Z.to_nat (upto counts) + (cap - Z.to_nat (upto counts)))%nat in Hn by lia.
      rewrite seq_app, map_app in Hn. apply NoDup_app_remove_r in Hn. exact Hn.
    + intros y Hy Hy'. apply Hi in Hy. apply IHi in Hy'. clear -Hn Hy Hy'.
      induction (members_of (n_visit x)) as [|z m IHm]; cbn in *; [exact Hy|]. inversion_clear Hn as [|? ? Hz Hm].
      destruct Hy as [->|Hy]; [apply Hz, in_or_app; auto | auto].
  - intros y [Hy|Hy]%in_app_or; apply in_or_app; auto.
Qed.
End Way.

End Numbers.
