(* ===== verification/GtpMessages1.v ===== *)
(** The messages of libgtpv2c, part 1 of 2.

    Each structure of gtp_messages.h is a module: the members, their types, the
    order in which [encode_X] (gtp_messages_encoder.c) visits them, and the
    table of branches of [decode_X] (gtp_messages_decoder.c). *)

From Stdlib Require Import ZArith List Arith.
From S2P Require Import Prelude WireFormat IeFormat GtpDefs.
From S2P Require Import GtpIes1 GtpIes2 GtpIes3 GtpIesVar GtpIesSub GtpImsi.
From S2P Require Import GtpMessage GtpGrouped GtpMembers GtpGroupedIes.
Import ListNotations.
Open Scope Z_scope.

(** ** [detach_ack] *)

Module detach_ack.

Inductive detach_ack_member :=
| cause
| recovery
| priv_ext.

Definition detach_ack_eq_dec (f g : detach_ack_member) : {f = g} + {f <> g}.
Proof. decide equality. Defined.

Definition detach_ack_type (f : detach_ack_member) : Type :=
  match f with
  | cause => gtp_cause_ie.gtp_cause_ie_t
  | recovery => gtp_recovery_ie.gtp_recovery_ie_t
  | priv_ext => gtp_priv_ext_ie.gtp_priv_ext_ie_t
  end.

Definition detach_ack_ie (f : detach_ack_member) : IeMember (detach_ack_type f) :=
  match f with
  | cause => gtp_cause_ie_member
  | recovery => gtp_recovery_ie_member
  | priv_ext => gtp_priv_ext_ie_member
  end.

Definition detach_ack_sig : signature :=
  Signature detach_ack_member detach_ack_eq_dec detach_ack_type detach_ack_ie
    Empty_set no_counter_eq_dec.
Canonical Structure detach_ack_sig.

Definition detach_ack_t : Type := message detach_ack_sig.

Definition encode_detach_ack_order : list (visit detach_ack_sig) :=
  [One cause; One recovery; One priv_ext].

Definition encode_detach_ack (value : detach_ack_t) (buf : Z) : enc Z :=
  encode_message encode_detach_ack_order value buf.

Definition decode_detach_ack_table : list (branch detach_ack_sig) :=
  [(GTP_IE_CAUSE, Some GTP_IE_INSTANCE_ZERO, Into cause);
   (GTP_IE_RECOVERY, Some GTP_IE_INSTANCE_ZERO, Into recovery);
   (GTP_IE_PRIV_EXT, None, Into priv_ext)].

Definition decode_detach_ack (fuel : nat) (m : bytes) (buf : Z) (value : detach_ack_t)
  : outcome (Z * detach_ack_t) :=
  decode_message decode_detach_ack_table [] false fuel m buf value.

End detach_ack.

(** ** [dnlnk_data_notif_ack] *)

Module dnlnk_data_notif_ack.

Inductive dnlnk_data_notif_ack_member :=
| cause
| data_notif_delay
| recovery
| dl_low_priority_traffic_thrtlng
| imsi
| dl_buffering_dur
| dl_buffering_suggested_pckt_cnt
| priv_ext.

Definition dnlnk_data_notif_ack_eq_dec (f g : dnlnk_data_notif_ack_member) : {f = g} + {f <> g}.
Proof. decide equality. Defined.

Definition dnlnk_data_notif_ack_type (f : dnlnk_data_notif_ack_member) : Type :=
  match f with
  | cause => gtp_cause_ie.gtp_cause_ie_t
  | data_notif_delay => gtp_delay_value_ie.gtp_delay_value_ie_t
  | recovery => gtp_recovery_ie.gtp_recovery_ie_t
  | dl_low_priority_traffic_thrtlng => gtp_throttling_ie.gtp_throttling_ie_t
  | imsi => gtp_imsi_ie.gtp_imsi_ie_t
  | dl_buffering_dur => gtp_epc_timer_ie.gtp_epc_timer_ie_t
  | dl_buffering_suggested_pckt_cnt => gtp_integer_number_ie.gtp_integer_number_ie_t
  | priv_ext => gtp_priv_ext_ie.gtp_priv_ext_ie_t
  end.

Definition dnlnk_data_notif_ack_ie (f : dnlnk_data_notif_ack_member) : IeMember (dnlnk_data_notif_ack_type f) :=
  match f with
  | cause => gtp_cause_ie_member
  | data_notif_delay => gtp_delay_value_ie_member
  | recovery => gtp_recovery_ie_member
  | dl_low_priority_traffic_thrtlng => gtp_throttling_ie_member
  | imsi => gtp_imsi_ie_member
  | dl_buffering_dur => gtp_epc_timer_ie_member
  | dl_buffering_suggested_pckt_cnt => gtp_integer_number_ie_member
  | priv_ext => gtp_priv_ext_ie_member
  end.

Definition dnlnk_data_notif_ack_sig : signature :=
  Signature dnlnk_data_notif_ack_member dnlnk_data_notif_ack_eq_dec dnlnk_data_notif_ack_type dnlnk_data_notif_ack_ie
    Empty_set no_counter_eq_dec.
Canonical Structure dnlnk_data_notif_ack_sig.

Definition dnlnk_data_notif_ack_t : Type := message dnlnk_data_notif_ack_sig.

Definition encode_dnlnk_data_notif_ack_order : list (visit dnlnk_data_notif_ack_sig) :=
  [One cause; One data_notif_delay; One recovery; One dl_low_priority_traffic_thrtlng; One imsi;
   One dl_buffering_dur; One dl_buffering_suggested_pckt_cnt; One priv_ext].

Definition encode_dnlnk_data_notif_ack (value : dnlnk_data_notif_ack_t) (buf : Z) : enc Z :=
  encode_message encode_dnlnk_data_notif_ack_order value buf.

Definition decode_dnlnk_data_notif_ack_table : list (branch dnlnk_data_notif_ack_sig) :=
  [(GTP_IE_CAUSE, Some GTP_IE_INSTANCE_ZERO, Into cause);
   (GTP_IE_DELAY_VALUE, Some GTP_IE_INSTANCE_ZERO, Into data_notif_delay);
   (GTP_IE_RECOVERY, Some GTP_IE_INSTANCE_ZERO, Into recovery);
   (GTP_IE_THROTTLING, Some GTP_IE_INSTANCE_ZERO, Into dl_low_priority_traffic_thrtlng);
   (GTP_IE_IMSI, Some GTP_IE_INSTANCE_ZERO, Into imsi);
   (GTP_IE_EPC_TIMER, Some GTP_IE_INSTANCE_ZERO, Into dl_buffering_dur);
   (GTP_IE_INTEGER_NUMBER, Some GTP_IE_INSTANCE_ZERO, Into dl_buffering_suggested_pckt_cnt);
   (GTP_IE_PRIV_EXT, None, Into priv_ext)].

Definition decode_dnlnk_data_notif_ack (fuel : nat) (m : bytes) (buf : Z) (value : dnlnk_data_notif_ack_t)
  : outcome (Z * dnlnk_data_notif_ack_t) :=
  decode_message decode_dnlnk_data_notif_ack_table [] false fuel m buf value.

End dnlnk_data_notif_ack.

(** ** [reloc_cncl_rsp] *)

Module reloc_cncl_rsp.

Inductive reloc_cncl_rsp_member :=
| cause
| priv_ext.

Definition reloc_cncl_rsp_eq_dec (f g : reloc_cncl_rsp_member) : {f = g} + {f <> g}.
Proof. decide equality. Defined.

Definition reloc_cncl_rsp_type (f : reloc_cncl_rsp_member) : Type :=
  match f with
  | cause => gtp_cause_ie.gtp_cause_ie_t
  | priv_ext => gtp_priv_ext_ie.gtp_priv_ext_ie_t
  end.

Definition reloc_cncl_rsp_ie (f : reloc_cncl_rsp_member) : IeMember (reloc_cncl_rsp_type f) :=
  match f with
  | cause => gtp_cause_ie_member
  | priv_ext => gtp_priv_ext_ie_member
  end.

Definition reloc_cncl_rsp_sig : signature :=
  Signature reloc_cncl_rsp_member reloc_cncl_rsp_eq_dec reloc_cncl_rsp_type reloc_cncl_rsp_ie
    Empty_set no_counter_eq_dec.
Canonical Structure reloc_cncl_rsp_sig.

Definition reloc_cncl_rsp_t : Type := message reloc_cncl_rsp_sig.

Definition encode_reloc_cncl_rsp_order : list (visit reloc_cncl_rsp_sig) :=
  [One cause; One priv_ext].

Definition encode_reloc_cncl_rsp (value : reloc_cncl_rsp_t) (buf : Z) : enc Z :=
  encode_message encode_reloc_cncl_rsp_order value buf.

Definition decode_reloc_cncl_rsp_table : list (branch reloc_cncl_rsp_sig) :=
  [(GTP_IE_CAUSE, Some GTP_IE_INSTANCE_ZERO, Into cause);
   (GTP_IE_PRIV_EXT, None, Into priv_ext)].

Definition decode_reloc_cncl_rsp (fuel : nat) (m : bytes) (buf : Z) (value : reloc_cncl_rsp_t)
  : outcome (Z * reloc_cncl_rsp_t) :=
  decode_message decode_reloc_cncl_rsp_table [] false fuel m buf value.

End reloc_cncl_rsp.

(** ** [fwd_reloc_cmplt_ack] *)

Module fwd_reloc_cmplt_ack.

Inductive fwd_reloc_cmplt_ack_member :=
| cause
| recovery
| secdry_rat_usage_data_rpt
| priv_ext.

Definition fwd_reloc_cmplt_ack_eq_dec (f g : fwd_reloc_cmplt_ack_member) : {f = g} + {f <> g}.
Proof. decide equality. Defined.

Definition fwd_reloc_cmplt_ack_type (f : fwd_reloc_cmplt_ack_member) : Type :=
  match f with
  | cause => gtp_cause_ie.gtp_cause_ie_t
  | recovery => gtp_recovery_ie.gtp_recovery_ie_t
  | secdry_rat_usage_data_rpt => gtp_secdry_rat_usage_data_rpt_ie.gtp_secdry_rat_usage_data_rpt_ie_t
  | priv_ext => gtp_priv_ext_ie.gtp_priv_ext_ie_t
  end.

Definition fwd_reloc_cmplt_ack_ie (f : fwd_reloc_cmplt_ack_member) : IeMember (fwd_reloc_cmplt_ack_type f) :=
  match f with
  | cause => gtp_cause_ie_member
  | recovery => gtp_recovery_ie_member
  | secdry_rat_usage_data_rpt => gtp_secdry_rat_usage_data_rpt_ie_member
  | priv_ext => gtp_priv_ext_ie_member
  end.

Definition fwd_reloc_cmplt_ack_sig : signature :=
  Signature fwd_reloc_cmplt_ack_member fwd_reloc_cmplt_ack_eq_dec fwd_reloc_cmplt_ack_type fwd_reloc_cmplt_ack_ie
    Empty_set no_counter_eq_dec.
Canonical Structure fwd_reloc_cmplt_ack_sig.

Definition fwd_reloc_cmplt_ack_t : Type := message fwd_reloc_cmplt_ack_sig.

Definition encode_fwd_reloc_cmplt_ack_order : list (visit fwd_reloc_cmplt_ack_sig) :=
  [One cause; One recovery; One secdry_rat_usage_data_rpt; One priv_ext].

Definition encode_fwd_reloc_cmplt_ack (value : fwd_reloc_cmplt_ack_t) (buf : Z) : enc Z :=
  encode_message encode_fwd_reloc_cmplt_ack_order value buf.

Definition decode_fwd_reloc_cmplt_ack_table : list (branch fwd_reloc_cmplt_ack_sig) :=
  [(GTP_IE_CAUSE, Some GTP_IE_INSTANCE_ZERO, Into cause);
   (GTP_IE_RECOVERY, Some GTP_IE_INSTANCE_ZERO, Into recovery);
   (GTP_IE_SECDRY_RAT_USAGE_DATA_RPT, Some GTP_IE_INSTANCE_ZERO, Into secdry_rat_usage_data_rpt);
   (GTP_IE_PRIV_EXT, None, Into priv_ext)].

Definition decode_fwd_reloc_cmplt_ack (fuel : nat) (m : bytes) (buf : Z) (value : fwd_reloc_cmplt_ack_t)
  : outcome (Z * fwd_reloc_cmplt_ack_t) :=
  decode_message decode_fwd_reloc_cmplt_ack_table [] false fuel m buf value.

End fwd_reloc_cmplt_ack.

(** ** [isr_status_indctn] *)

Module isr_status_indctn.

Inductive isr_status_indctn_member :=
| act_indctn
| priv_ext.

Definition isr_status_indctn_eq_dec (f g : isr_status_indctn_member) : {f = g} + {f <> g}.
Proof. decide equality. Defined.

Definition isr_status_indctn_type (f : isr_status_indctn_member) : Type :=
  match f with
  | act_indctn => gtp_act_indctn_ie.gtp_act_indctn_ie_t
  | priv_ext => gtp_priv_ext_ie.gtp_priv_ext_ie_t
  end.

Definition isr_status_indctn_ie (f : isr_status_indctn_member) : IeMember (isr_status_indctn_type f) :=
  match f with
  | act_indctn => gtp_act_indctn_ie_member
  | priv_ext => gtp_priv_ext_ie_member
  end.

Definition isr_status_indctn_sig : signature :=
  Signature isr_status_indctn_member isr_status_indctn_eq_dec isr_status_indctn_type isr_status_indctn_ie
    Empty_set no_counter_eq_dec.
Canonical Structure isr_status_indctn_sig.

Definition isr_status_indctn_t : Type := message isr_status_indctn_sig.

Definition encode_isr_status_indctn_order : list (visit isr_status_indctn_sig) :=
  [One act_indctn; One priv_ext].

Definition encode_isr_status_indctn (value : isr_status_indctn_t) (buf : Z) : enc Z :=
  encode_message encode_isr_status_indctn_order value buf.

Definition decode_isr_status_indctn_table : list (branch isr_status_indctn_sig) :=
  [(GTP_IE_ACT_INDCTN, Some GTP_IE_INSTANCE_ZERO, Into act_indctn);
   (GTP_IE_PRIV_EXT, None, Into priv_ext)].

Definition decode_isr_status_indctn (fuel : nat) (m : bytes) (buf : Z) (value : isr_status_indctn_t)
  : outcome (Z * isr_status_indctn_t) :=
  decode_message decode_isr_status_indctn_table [] false fuel m buf value.

End isr_status_indctn.

(** ** [ran_info_rly] *)

Module ran_info_rly.

Inductive ran_info_rly_member :=
| bss_container
| rim_rtng_addr
| priv_ext.

Definition ran_info_rly_eq_dec (f g : ran_info_rly_member) : {f = g} + {f <> g}.
Proof. decide equality. Defined.

Definition ran_info_rly_type (f : ran_info_rly_member) : Type :=
  match f with
  | bss_container => gtp_full_qual_cntnr_ie.gtp_full_qual_cntnr_ie_t
  | rim_rtng_addr => gtp_trgt_id_ie.gtp_trgt_id_ie_t
  | priv_ext => gtp_priv_ext_ie.gtp_priv_ext_ie_t
  end.

Definition ran_info_rly_ie (f : ran_info_rly_member) : IeMember (ran_info_rly_type f) :=
  match f with
  | bss_container => gtp_full_qual_cntnr_ie_member
  | rim_rtng_addr => gtp_trgt_id_ie_member
  | priv_ext => gtp_priv_ext_ie_member
  end.

Definition ran_info_rly_sig : signature :=
  Signature ran_info_rly_member ran_info_rly_eq_dec ran_info_rly_type ran_info_rly_ie
    Empty_set no_counter_eq_dec.
Canonical Structure ran_info_rly_sig.

Definition ran_info_rly_t : Type := message ran_info_rly_sig.

Definition encode_ran_info_rly_order : list (visit ran_info_rly_sig) :=
  [One bss_container; One rim_rtng_addr; One priv_ext].

Definition encode_ran_info_rly (value : ran_info_rly_t) (buf : Z) : enc Z :=
  encode_message encode_ran_info_rly_order value buf.

Definition decode_ran_info_rly_table : list (branch ran_info_rly_sig) :=
  [(GTP_IE_FULL_QUAL_CNTNR, Some GTP_IE_INSTANCE_ZERO, Into bss_container);
   (GTP_IE_TRGT_ID, Some GTP_IE_INSTANCE_ZERO, Into rim_rtng_addr);
   (GTP_IE_PRIV_EXT, None, Into priv_ext)].

Definition decode_ran_info_rly (fuel : nat) (m : bytes) (buf : Z) (value : ran_info_rly_t)
  : outcome (Z * ran_info_rly_t) :=
  decode_message decode_ran_info_rly_table [] false fuel m buf value.

End ran_info_rly.

(** ** [ue_reg_qry_rsp] *)

Module ue_reg_qry_rsp.

Inductive ue_reg_qry_rsp_member :=
| cause
| imsi
| selected_core_ntwk_oper_idnt
| priv_ext.

Definition ue_reg_qry_rsp_eq_dec (f g : ue_reg_qry_rsp_member) : {f = g} + {f <> g}.
Proof. decide equality. Defined.

Definition ue_reg_qry_rsp_type (f : ue_reg_qry_rsp_member) : Type :=
  match f with
  | cause => gtp_cause_ie.gtp_cause_ie_t
  | imsi => gtp_imsi_ie.gtp_imsi_ie_t
  | selected_core_ntwk_oper_idnt => gtp_plmn_id_ie.gtp_plmn_id_ie_t
  | priv_ext => gtp_priv_ext_ie.gtp_priv_ext_ie_t
  end.

Definition ue_reg_qry_rsp_ie (f : ue_reg_qry_rsp_member) : IeMember (ue_reg_qry_rsp_type f) :=
  match f with
  | cause => gtp_cause_ie_member
  | imsi => gtp_imsi_ie_member
  | selected_core_ntwk_oper_idnt => gtp_plmn_id_ie_member
  | priv_ext => gtp_priv_ext_ie_member
  end.

Definition ue_reg_qry_rsp_sig : signature :=
  Signature ue_reg_qry_rsp_member ue_reg_qry_rsp_eq_dec ue_reg_qry_rsp_type ue_reg_qry_rsp_ie
    Empty_set no_counter_eq_dec.
Canonical Structure ue_reg_qry_rsp_sig.

Definition ue_reg_qry_rsp_t : Type := message ue_reg_qry_rsp_sig.

Definition encode_ue_reg_qry_rsp_order : list (visit ue_reg_qry_rsp_sig) :=
  [One cause; One imsi; One selected_core_ntwk_oper_idnt; One priv_ext].

Definition encode_ue_reg_qry_rsp (value : ue_reg_qry_rsp_t) (buf : Z) : enc Z :=
  encode_message encode_ue_reg_qry_rsp_order value buf.

Definition decode_ue_reg_qry_rsp_table : list (branch ue_reg_qry_rsp_sig) :=
  [(GTP_IE_CAUSE, Some GTP_IE_INSTANCE_ZERO, Into cause);
   (GTP_IE_IMSI, Some GTP_IE_INSTANCE_ZERO, Into imsi);
   (GTP_IE_PLMN_ID, Some GTP_IE_INSTANCE_ZERO, Into selected_core_ntwk_oper_idnt);
   (GTP_IE_PRIV_EXT, None, Into priv_ext)].

Definition decode_ue_reg_qry_rsp (fuel : nat) (m : bytes) (buf : Z) (value : ue_reg_qry_rsp_t)
  : outcome (Z * ue_reg_qry_rsp_t) :=
  decode_message decode_ue_reg_qry_rsp_table [] false fuel m buf value.

End ue_reg_qry_rsp.

(** ** [fwd_reloc_cmplt_notif] *)

Module fwd_reloc_cmplt_notif.

Inductive fwd_reloc_cmplt_notif_member :=
| indctn_flgs
| priv_ext.

Definition fwd_reloc_cmplt_notif_eq_dec (f g : fwd_reloc_cmplt_notif_member) : {f = g} + {f <> g}.
Proof. decide equality. Defined.

Definition fwd_reloc_cmplt_notif_type (f : fwd_reloc_cmplt_notif_member) : Type :=
  match f with
  | indctn_flgs => gtp_indication_ie.gtp_indication_ie_t
  | priv_ext => gtp_priv_ext_ie.gtp_priv_ext_ie_t
  end.

Definition fwd_reloc_cmplt_notif_ie (f : fwd_reloc_cmplt_notif_member) : IeMember (fwd_reloc_cmplt_notif_type f) :=
  match f with
  | indctn_flgs => gtp_indication_ie_member
  | priv_ext => gtp_priv_ext_ie_member
  end.

Definition fwd_reloc_cmplt_notif_sig : signature :=
  Signature fwd_reloc_cmplt_notif_member fwd_reloc_cmplt_notif_eq_dec fwd_reloc_cmplt_notif_type fwd_reloc_cmplt_notif_ie
    Empty_set no_counter_eq_dec.
Canonical Structure fwd_reloc_cmplt_notif_sig.

Definition fwd_reloc_cmplt_notif_t : Type := message fwd_reloc_cmplt_notif_sig.

Definition encode_fwd_reloc_cmplt_notif_order : list (visit fwd_reloc_cmplt_notif_sig) :=
  [One indctn_flgs; One priv_ext].

Definition encode_fwd_reloc_cmplt_notif (value : fwd_reloc_cmplt_notif_t) (buf : Z) : enc Z :=
  encode_message encode_fwd_reloc_cmplt_notif_order value buf.

Definition decode_fwd_reloc_cmplt_notif_table : list (branch fwd_reloc_cmplt_notif_sig) :=
  [(GTP_IE_INDICATION, Some GTP_IE_INSTANCE_ZERO, Into indctn_flgs);
   (GTP_IE_PRIV_EXT, None, Into priv_ext)].

Definition decode_fwd_reloc_cmplt_notif (fuel : nat) (m : bytes) (buf : Z) (value : fwd_reloc_cmplt_notif_t)
  : outcome (Z * fwd_reloc_cmplt_notif_t) :=
  decode_message decode_fwd_reloc_cmplt_notif_table [] false fuel m buf value.

End fwd_reloc_cmplt_notif.

(** ** [id_req] *)

Module id_req.

Inductive id_req_member :=
| guti
| rai
| ptmsi
| ptmsi_signature
| cmplt_attach_req_msg
| addr_ctl_plane
| udp_src_port_nbr
| hop_counter
| target_plmn_id
| priv_ext.

Definition id_req_eq_dec (f g : id_req_member) : {f = g} + {f <> g}.
Proof. decide equality. Defined.

Definition id_req_type (f : id_req_member) : Type :=
  match f with
  | guti => gtp_guti_ie.gtp_guti_ie_t
  | rai => gtp_user_loc_info_ie.gtp_user_loc_info_ie_t
  | ptmsi => gtp_ptmsi_ie.gtp_ptmsi_ie_t
  | ptmsi_signature => gtp_ptmsi_signature_ie.gtp_ptmsi_signature_ie_t
  | cmplt_attach_req_msg => gtp_cmplt_req_msg_ie.gtp_cmplt_req_msg_ie_t
  | addr_ctl_plane => gtp_ip_address_ie.gtp_ip_address_ie_t
  | udp_src_port_nbr => gtp_port_number_ie.gtp_port_number_ie_t
  | hop_counter => gtp_hop_counter_ie.gtp_hop_counter_ie_t
  | target_plmn_id => gtp_serving_network_ie.gtp_serving_network_ie_t
  | priv_ext => gtp_priv_ext_ie.gtp_priv_ext_ie_t
  end.

Definition id_req_ie (f : id_req_member) : IeMember (id_req_type f) :=
  match f with
  | guti => gtp_guti_ie_member
  | rai => gtp_user_loc_info_ie_member
  | ptmsi => gtp_ptmsi_ie_member
  | ptmsi_signature => gtp_ptmsi_signature_ie_member
  | cmplt_attach_req_msg => gtp_cmplt_req_msg_ie_member
  | addr_ctl_plane => gtp_ip_address_ie_member
  | udp_src_port_nbr => gtp_port_number_ie_member
  | hop_counter => gtp_hop_counter_ie_member
  | target_plmn_id => gtp_serving_network_ie_member
  | priv_ext => gtp_priv_ext_ie_member
  end.

Definition id_req_sig : signature :=
  Signature id_req_member id_req_eq_dec id_req_type id_req_ie
    Empty_set no_counter_eq_dec.
Canonical Structure id_req_sig.

Definition id_req_t : Type := message id_req_sig.

Definition encode_id_req_order : list (visit id_req_sig) :=
  [One guti; One rai; One ptmsi; One ptmsi_signature; One cmplt_attach_req_msg;
   One addr_ctl_plane; One udp_src_port_nbr; One hop_counter; One target_plmn_id; One priv_ext].

Definition encode_id_req (value : id_req_t) (buf : Z) : enc Z :=
  encode_message encode_id_req_order value buf.

Definition decode_id_req_table : list (branch id_req_sig) :=
  [(GTP_IE_GUTI, Some GTP_IE_INSTANCE_ZERO, Into guti);
   (GTP_IE_USER_LOC_INFO, Some GTP_IE_INSTANCE_ZERO, Into rai);
   (GTP_IE_PTMSI, Some GTP_IE_INSTANCE_ZERO, Into ptmsi);
   (GTP_IE_PTMSI_SIGNATURE, Some GTP_IE_INSTANCE_ZERO, Into ptmsi_signature);
   (GTP_IE_CMPLT_REQ_MSG, Some GTP_IE_INSTANCE_ZERO, Into cmplt_attach_req_msg);
   (GTP_IE_IP_ADDRESS, Some GTP_IE_INSTANCE_ZERO, Into addr_ctl_plane);
   (GTP_IE_PORT_NUMBER, Some GTP_IE_INSTANCE_ZERO, Into udp_src_port_nbr);
   (GTP_IE_HOP_COUNTER, Some GTP_IE_INSTANCE_ZERO, Into hop_counter);
   (GTP_IE_SERVING_NETWORK, Some GTP_IE_INSTANCE_ZERO, Into target_plmn_id);
   (GTP_IE_PRIV_EXT, None, Into priv_ext)].

Definition decode_id_req (fuel : nat) (m : bytes) (buf : Z) (value : id_req_t)
  : outcome (Z * id_req_t) :=
  decode_message decode_id_req_table [] false fuel m buf value.

End id_req.

(** ** [ue_reg_qry_req] *)

Module ue_reg_qry_req.

Inductive ue_reg_qry_req_member :=
| imsi
| priv_ext.

Definition ue_reg_qry_req_eq_dec (f g : ue_reg_qry_req_member) : {f = g} + {f <> g}.
Proof. decide equality. Defined.

Definition ue_reg_qry_req_type (f : ue_reg_qry_req_member) : Type :=
  match f with
  | imsi => gtp_imsi_ie.gtp_imsi_ie_t
  | priv_ext => gtp_priv_ext_ie.gtp_priv_ext_ie_t
  end.

Definition ue_reg_qry_req_ie (f : ue_reg_qry_req_member) : IeMember (ue_reg_qry_req_type f) :=
  match f with
  | imsi => gtp_imsi_ie_member
  | priv_ext => gtp_priv_ext_ie_member
  end.

Definition ue_reg_qry_req_sig : signature :=
  Signature ue_reg_qry_req_member ue_reg_qry_req_eq_dec ue_reg_qry_req_type ue_reg_qry_req_ie
    Empty_set no_counter_eq_dec.
Canonical Structure ue_reg_qry_req_sig.

Definition ue_reg_qry_req_t : Type := message ue_reg_qry_req_sig.

Definition encode_ue_reg_qry_req_order : list (visit ue_reg_qry_req_sig) :=
  [One imsi; One priv_ext].

Definition encode_ue_reg_qry_req (value : ue_reg_qry_req_t) (buf : Z) : enc Z :=
  encode_message encode_ue_reg_qry_req_order value buf.

Definition decode_ue_reg_qry_req_table : list (branch ue_reg_qry_req_sig) :=
  [(GTP_IE_IMSI, Some GTP_IE_INSTANCE_ZERO, Into imsi);
   (GTP_IE_PRIV_EXT, None, Into priv_ext)].

Definition decode_ue_reg_qry_req (fuel : nat) (m : bytes) (buf : Z) (value : ue_reg_qry_req_t)
  : outcome (Z * ue_reg_qry_req_t) :=
  decode_message decode_ue_reg_qry_req_table [] false fuel m buf value.

End ue_reg_qry_req.

(** ** [del_sess_rsp] *)

Module del_sess_rsp.

Inductive del_sess_rsp_member :=
| cause
| recovery
| pco
| indctn_flgs
| pgws_node_lvl_load_ctl_info
| pgws_apn_lvl_load_ctl_info
| sgws_node_lvl_load_ctl_info
| pgws_ovrld_ctl_info
| sgws_ovrld_ctl_info
| epco
| priv_ext.

Definition del_sess_rsp_eq_dec (f g : del_sess_rsp_member) : {f = g} + {f <> g}.
Proof. decide equality. Defined.

Definition del_sess_rsp_type (f : del_sess_rsp_member) : Type :=
  match f with
  | cause => gtp_cause_ie.gtp_cause_ie_t
  | recovery => gtp_recovery_ie.gtp_recovery_ie_t
  | pco => gtp_prot_cfg_opts_ie.gtp_prot_cfg_opts_ie_t
  | indctn_flgs => gtp_indication_ie.gtp_indication_ie_t
  | pgws_node_lvl_load_ctl_info => gtp_load_ctl_info_ie.gtp_load_ctl_info_ie_t
  | pgws_apn_lvl_load_ctl_info => gtp_load_ctl_info_ie.gtp_load_ctl_info_ie_t
  | sgws_node_lvl_load_ctl_info => gtp_load_ctl_info_ie.gtp_load_ctl_info_ie_t
  | pgws_ovrld_ctl_info => gtp_ovrld_ctl_info_ie.gtp_ovrld_ctl_info_ie_t
  | sgws_ovrld_ctl_info => gtp_ovrld_ctl_info_ie.gtp_ovrld_ctl_info_ie_t
  | epco => gtp_extnded_prot_cfg_opts_ie.gtp_extnded_prot_cfg_opts_ie_t
  | priv_ext => gtp_priv_ext_ie.gtp_priv_ext_ie_t
  end.

Definition del_sess_rsp_ie (f : del_sess_rsp_member) : IeMember (del_sess_rsp_type f) :=
  match f with
  | cause => gtp_cause_ie_member
  | recovery => gtp_recovery_ie_member
  | pco => gtp_prot_cfg_opts_ie_member
  | indctn_flgs => gtp_indication_ie_member
  | pgws_node_lvl_load_ctl_info => gtp_load_ctl_info_ie_member
  | pgws_apn_lvl_load_ctl_info => gtp_load_ctl_info_ie_member
  | sgws_node_lvl_load_ctl_info => gtp_load_ctl_info_ie_member
  | pgws_ovrld_ctl_info => gtp_ovrld_ctl_info_ie_member
  | sgws_ovrld_ctl_info => gtp_ovrld_ctl_info_ie_member
  | epco => gtp_extnded_prot_cfg_opts_ie_member
  | priv_ext => gtp_priv_ext_ie_member
  end.

Definition del_sess_rsp_sig : signature :=
  Signature del_sess_rsp_member del_sess_rsp_eq_dec del_sess_rsp_type del_sess_rsp_ie
    Empty_set no_counter_eq_dec.
Canonical Structure del_sess_rsp_sig.

Definition del_sess_rsp_t : Type := message del_sess_rsp_sig.

Definition encode_del_sess_rsp_order : list (visit del_sess_rsp_sig) :=
  [One cause; One recovery; One pco; One indctn_flgs; One pgws_node_lvl_load_ctl_info;
   One pgws_apn_lvl_load_ctl_info; One sgws_node_lvl_load_ctl_info; One pgws_ovrld_ctl_info;
   One sgws_ovrld_ctl_info; One epco; One priv_ext].

Definition encode_del_sess_rsp (value : del_sess_rsp_t) (buf : Z) : enc Z :=
  encode_message encode_del_sess_rsp_order value buf.

Definition decode_del_sess_rsp_table : list (branch del_sess_rsp_sig) :=
  [(GTP_IE_CAUSE, Some GTP_IE_INSTANCE_ZERO, Into cause);
   (GTP_IE_RECOVERY, Some GTP_IE_INSTANCE_ZERO, Into recovery);
   (GTP_IE_PROT_CFG_OPTS, Some GTP_IE_INSTANCE_ZERO, Into pco);
   (GTP_IE_LOAD_CTL_INFO, Some GTP_IE_INSTANCE_ZERO, Into pgws_node_lvl_load_ctl_info);
   (GTP_IE_LOAD_CTL_INFO, Some GTP_IE_INSTANCE_ONE, Into pgws_apn_lvl_load_ctl_info);
   (GTP_IE_LOAD_CTL_INFO, Some GTP_IE_INSTANCE_TWO, Into sgws_node_lvl_load_ctl_info);
   (GTP_IE_OVRLD_CTL_INFO, Some GTP_IE_INSTANCE_ZERO, Into pgws_ovrld_ctl_info);
   (GTP_IE_OVRLD_CTL_INFO, Some GTP_IE_INSTANCE_ONE, Into sgws_ovrld_ctl_info);
   (GTP_IE_EXTNDED_PROT_CFG_OPTS, Some GTP_IE_INSTANCE_ZERO, Into epco);
   (GTP_IE_PRIV_EXT, None, Into priv_ext)].

Definition decode_del_sess_rsp (fuel : nat) (m : bytes) (buf : Z) (value : del_sess_rsp_t)
  : outcome (Z * del_sess_rsp_t) :=
  decode_message decode_del_sess_rsp_table [] false fuel m buf value.

End del_sess_rsp.

(** ** [fwd_reloc_rsp] *)

Module fwd_reloc_rsp.

Inductive fwd_reloc_rsp_member :=
| cause
| senders_fteid_ctl_plane
| indctn_flgs
| list_of_set_up_bearers
| list_of_set_up_rabs
| list_of_set_up_pfcs
| s1_ap_cause
| ranap_cause
| bssgp_cause
| e_utran_transparent_cntnr
| utran_transparent_cntnr
| bss_container
| mmes4_sgsn_ldn
| sgsn_node_name
| mme_node_name
| sgsn_number
| sgsn_identifier
| mme_identifier
| mme_nbr_mt_sms
| sgsn_idnt_mt_sms
| mme_idnt_mt_sms
| list_of_set_up_bearers_scef_pdn_connections
| priv_ext.

Definition fwd_reloc_rsp_eq_dec (f g : fwd_reloc_rsp_member) : {f = g} + {f <> g}.
Proof. decide equality. Defined.

Definition fwd_reloc_rsp_type (f : fwd_reloc_rsp_member) : Type :=
  match f with
  | cause => gtp_cause_ie.gtp_cause_ie_t
  | senders_fteid_ctl_plane => gtp_fully_qual_tunn_endpt_idnt_ie.gtp_fully_qual_tunn_endpt_idnt_ie_t
  | indctn_flgs => gtp_indication_ie.gtp_indication_ie_t
  | list_of_set_up_bearers => gtp_bearer_context_ie.gtp_bearer_context_ie_t
  | list_of_set_up_rabs => gtp_bearer_context_ie.gtp_bearer_context_ie_t
  | list_of_set_up_pfcs => gtp_bearer_context_ie.gtp_bearer_context_ie_t
  | s1_ap_cause => gtp_full_qual_cause_ie.gtp_full_qual_cause_ie_t
  | ranap_cause => gtp_full_qual_cause_ie.gtp_full_qual_cause_ie_t
  | bssgp_cause => gtp_full_qual_cause_ie.gtp_full_qual_cause_ie_t
  | e_utran_transparent_cntnr => gtp_full_qual_cntnr_ie.gtp_full_qual_cntnr_ie_t
  | utran_transparent_cntnr => gtp_full_qual_cntnr_ie.gtp_full_qual_cntnr_ie_t
  | bss_container => gtp_full_qual_cntnr_ie.gtp_full_qual_cntnr_ie_t
  | mmes4_sgsn_ldn => gtp_local_distgsd_name_ie.gtp_local_distgsd_name_ie_t
  | sgsn_node_name => gtp_fully_qual_domain_name_ie.gtp_fully_qual_domain_name_ie_t
  | mme_node_name => gtp_fully_qual_domain_name_ie.gtp_fully_qual_domain_name_ie_t
  | sgsn_number => gtp_node_number_ie.gtp_node_number_ie_t
  | sgsn_identifier => gtp_node_identifier_ie.gtp_node_identifier_ie_t
  | mme_identifier => gtp_node_identifier_ie.gtp_node_identifier_ie_t
  | mme_nbr_mt_sms => gtp_node_number_ie.gtp_node_number_ie_t
  | sgsn_idnt_mt_sms => gtp_node_identifier_ie.gtp_node_identifier_ie_t
  | mme_idnt_mt_sms => gtp_node_identifier_ie.gtp_node_identifier_ie_t
  | list_of_set_up_bearers_scef_pdn_connections => gtp_bearer_context_ie.gtp_bearer_context_ie_t
  | priv_ext => gtp_priv_ext_ie.gtp_priv_ext_ie_t
  end.

Definition fwd_reloc_rsp_ie (f : fwd_reloc_rsp_member) : IeMember (fwd_reloc_rsp_type f) :=
  match f with
  | cause => gtp_cause_ie_member
  | senders_fteid_ctl_plane => gtp_fully_qual_tunn_endpt_idnt_ie_member
  | indctn_flgs => gtp_indication_ie_member
  | list_of_set_up_bearers => gtp_bearer_context_ie_member
  | list_of_set_up_rabs => gtp_bearer_context_ie_member
  | list_of_set_up_pfcs => gtp_bearer_context_ie_member
  | s1_ap_cause => gtp_full_qual_cause_ie_member
  | ranap_cause => gtp_full_qual_cause_ie_member
  | bssgp_cause => gtp_full_qual_cause_ie_member
  | e_utran_transparent_cntnr => gtp_full_qual_cntnr_ie_member
  | utran_transparent_cntnr => gtp_full_qual_cntnr_ie_member
  | bss_container => gtp_full_qual_cntnr_ie_member
  | mmes4_sgsn_ldn => gtp_local_distgsd_name_ie_member
  | sgsn_node_name => gtp_fully_qual_domain_name_ie_member
  | mme_node_name => gtp_fully_qual_domain_name_ie_member
  | sgsn_number => gtp_node_number_ie_member
  | sgsn_identifier => gtp_node_identifier_ie_member
  | mme_identifier => gtp_node_identifier_ie_member
  | mme_nbr_mt_sms => gtp_node_number_ie_member
  | sgsn_idnt_mt_sms => gtp_node_identifier_ie_member
  | mme_idnt_mt_sms => gtp_node_identifier_ie_member
  | list_of_set_up_bearers_scef_pdn_connections => gtp_bearer_context_ie_member
  | priv_ext => gtp_priv_ext_ie_member
  end.

Definition fwd_reloc_rsp_sig : signature :=
  Signature fwd_reloc_rsp_member fwd_reloc_rsp_eq_dec fwd_reloc_rsp_type fwd_reloc_rsp_ie
    Empty_set no_counter_eq_dec.
Canonical Structure fwd_reloc_rsp_sig.

Definition fwd_reloc_rsp_t : Type := message fwd_reloc_rsp_sig.

Definition encode_fwd_reloc_rsp_order : list (visit fwd_reloc_rsp_sig) :=
  [One cause; One senders_fteid_ctl_plane; One indctn_flgs; One list_of_set_up_bearers;
   One list_of_set_up_rabs; One list_of_set_up_pfcs; One s1_ap_cause; One ranap_cause;
   One bssgp_cause; One e_utran_transparent_cntnr; One utran_transparent_cntnr;
   One bss_container; One mmes4_sgsn_ldn; One sgsn_node_name; One mme_node_name;
   One sgsn_number; One sgsn_identifier; One mme_identifier; One mme_nbr_mt_sms;
   One sgsn_idnt_mt_sms; One mme_idnt_mt_sms; One list_of_set_up_bearers_scef_pdn_connections;
   One priv_ext].

Definition encode_fwd_reloc_rsp (value : fwd_reloc_rsp_t) (buf : Z) : enc Z :=
  encode_message encode_fwd_reloc_rsp_order value buf.

Definition decode_fwd_reloc_rsp_table : list (branch fwd_reloc_rsp_sig) :=
  [(GTP_IE_CAUSE, Some GTP_IE_INSTANCE_ZERO, Into cause);
   (GTP_IE_FULLY_QUAL_TUNN_ENDPT_IDNT, Some GTP_IE_INSTANCE_ZERO, Into senders_fteid_ctl_plane);
   (GTP_IE_INDICATION, Some GTP_IE_INSTANCE_ZERO, Into indctn_flgs);
   (GTP_IE_BEARER_CONTEXT, Some GTP_IE_INSTANCE_ZERO, Into list_of_set_up_bearers);
   (GTP_IE_BEARER_CONTEXT, Some GTP_IE_INSTANCE_ONE, Into list_of_set_up_rabs);
   (GTP_IE_BEARER_CONTEXT, Some GTP_IE_INSTANCE_TWO, Into list_of_set_up_pfcs);
   (GTP_IE_FULL_QUAL_CAUSE, Some GTP_IE_INSTANCE_ZERO, Into s1_ap_cause);
   (GTP_IE_FULL_QUAL_CAUSE, Some GTP_IE_INSTANCE_ONE, Into ranap_cause);
   (GTP_IE_FULL_QUAL_CAUSE, Some GTP_IE_INSTANCE_TWO, Into bssgp_cause);
   (GTP_IE_FULL_QUAL_CNTNR, Some GTP_IE_INSTANCE_ZERO, Into e_utran_transparent_cntnr);
   (GTP_IE_FULL_QUAL_CNTNR, Some GTP_IE_INSTANCE_ONE, Into utran_transparent_cntnr);
   (GTP_IE_FULL_QUAL_CNTNR, Some GTP_IE_INSTANCE_TWO, Into bss_container);
   (GTP_IE_LOCAL_DISTGSD_NAME, Some GTP_IE_INSTANCE_ZERO, Into mmes4_sgsn_ldn);
   (GTP_IE_FULLY_QUAL_DOMAIN_NAME, Some GTP_IE_INSTANCE_ZERO, Into sgsn_node_name);
   (GTP_IE_FULLY_QUAL_DOMAIN_NAME, Some GTP_IE_INSTANCE_ONE, Into mme_node_name);
   (GTP_IE_NODE_NUMBER, Some GTP_IE_INSTANCE_ZERO, Into sgsn_number);
   (GTP_IE_NODE_IDENTIFIER, Some GTP_IE_INSTANCE_ZERO, Into sgsn_identifier);
   (GTP_IE_NODE_IDENTIFIER, Some GTP_IE_INSTANCE_ONE, Into mme_identifier);
   (GTP_IE_NODE_NUMBER, Some GTP_IE_INSTANCE_ONE, Into mme_nbr_mt_sms);
   (GTP_IE_NODE_IDENTIFIER, Some GTP_IE_INSTANCE_TWO, Into sgsn_idnt_mt_sms);
   (GTP_IE_NODE_IDENTIFIER, Some GTP_IE_INSTANCE_THREE, Into mme_idnt_mt_sms);
   (GTP_IE_BEARER_CONTEXT, Some GTP_IE_INSTANCE_THREE, Into list_of_set_up_bearers_scef_pdn_connections);
   (GTP_IE_PRIV_EXT, None, Into priv_ext)].

Definition decode_fwd_reloc_rsp (fuel : nat) (m : bytes) (buf : Z) (value : fwd_reloc_rsp_t)
  : outcome (Z * fwd_reloc_rsp_t) :=
  decode_message decode_fwd_reloc_rsp_table [] false fuel m buf value.

End fwd_reloc_rsp.

(** ** [trc_sess_actvn] *)

Module trc_sess_actvn.

Inductive trc_sess_actvn_member :=
| imsi
| trc_info
| mei.

Definition trc_sess_actvn_eq_dec (f g : trc_sess_actvn_member) : {f = g} + {f <> g}.
Proof. decide equality. Defined.

Definition trc_sess_actvn_type (f : trc_sess_actvn_member) : Type :=
  match f with
  | imsi => gtp_imsi_ie.gtp_imsi_ie_t
  | trc_info => gtp_trc_info_ie.gtp_trc_info_ie_t
  | mei => gtp_mbl_equip_idnty_ie.gtp_mbl_equip_idnty_ie_t
  end.

Definition trc_sess_actvn_ie (f : trc_sess_actvn_member) : IeMember (trc_sess_actvn_type f) :=
  match f with
  | imsi => gtp_imsi_ie_member
  | trc_info => gtp_trc_info_ie_member
  | mei => gtp_mbl_equip_idnty_ie_member
  end.

Definition trc_sess_actvn_sig : signature :=
  Signature trc_sess_actvn_member trc_sess_actvn_eq_dec trc_sess_actvn_type trc_sess_actvn_ie
    Empty_set no_counter_eq_dec.
Canonical Structure trc_sess_actvn_sig.

Definition trc_sess_actvn_t : Type := message trc_sess_actvn_sig.

Definition encode_trc_sess_actvn_order : list (visit trc_sess_actvn_sig) :=
  [One imsi; One trc_info; One mei].

Definition encode_trc_sess_actvn (value : trc_sess_actvn_t) (buf : Z) : enc Z :=
  encode_message encode_trc_sess_actvn_order value buf.

Definition decode_trc_sess_actvn_table : list (branch trc_sess_actvn_sig) :=
  [(GTP_IE_IMSI, Some GTP_IE_INSTANCE_ZERO, Into imsi);
   (GTP_IE_TRC_INFO, Some GTP_IE_INSTANCE_ZERO, Into trc_info);
   (GTP_IE_MBL_EQUIP_IDNTY, Some GTP_IE_INSTANCE_ZERO, Into mei)].

Definition decode_trc_sess_actvn (fuel : nat) (m : bytes) (buf : Z) (value : trc_sess_actvn_t)
  : outcome (Z * trc_sess_actvn_t) :=
  decode_message decode_trc_sess_actvn_table [] false fuel m buf value.

End trc_sess_actvn.

(** ** [cfg_xfer_tunn] *)

Module cfg_xfer_tunn.

Inductive cfg_xfer_tunn_member :=
| e_utran_transparent_cntnr
| trgt_enb_id.

Definition cfg_xfer_tunn_eq_dec (f g : cfg_xfer_tunn_member) : {f = g} + {f <> g}.
Proof. decide equality. Defined.

Definition cfg_xfer_tunn_type (f : cfg_xfer_tunn_member) : Type :=
  match f with
  | e_utran_transparent_cntnr => gtp_full_qual_cntnr_ie.gtp_full_qual_cntnr_ie_t
  | trgt_enb_id => gtp_trgt_id_ie.gtp_trgt_id_ie_t
  end.

Definition cfg_xfer_tunn_ie (f : cfg_xfer_tunn_member) : IeMember (cfg_xfer_tunn_type f) :=
  match f with
  | e_utran_transparent_cntnr => gtp_full_qual_cntnr_ie_member
  | trgt_enb_id => gtp_trgt_id_ie_member
  end.

Definition cfg_xfer_tunn_sig : signature :=
  Signature cfg_xfer_tunn_member cfg_xfer_tunn_eq_dec cfg_xfer_tunn_type cfg_xfer_tunn_ie
    Empty_set no_counter_eq_dec.
Canonical Structure cfg_xfer_tunn_sig.

Definition cfg_xfer_tunn_t : Type := message cfg_xfer_tunn_sig.

Definition encode_cfg_xfer_tunn_order : list (visit cfg_xfer_tunn_sig) :=
  [One e_utran_transparent_cntnr; One trgt_enb_id].

Definition encode_cfg_xfer_tunn (value : cfg_xfer_tunn_t) (buf : Z) : enc Z :=
  encode_message encode_cfg_xfer_tunn_order value buf.

Definition decode_cfg_xfer_tunn_table : list (branch cfg_xfer_tunn_sig) :=
  [(GTP_IE_FULL_QUAL_CNTNR, Some GTP_IE_INSTANCE_ZERO, Into e_utran_transparent_cntnr);
   (GTP_IE_TRGT_ID, Some GTP_IE_INSTANCE_ZERO, Into trgt_enb_id)].

Definition decode_cfg_xfer_tunn (fuel : nat) (m : bytes) (buf : Z) (value : cfg_xfer_tunn_t)
  : outcome (Z * cfg_xfer_tunn_t) :=
  decode_message decode_cfg_xfer_tunn_table [] false fuel m buf value.

End cfg_xfer_tunn.

(** ** [detach_notif] *)

Module detach_notif.

Inductive detach_notif_member :=
| cause
| detach_type
| priv_ext.

Definition detach_notif_eq_dec (f g : detach_notif_member) : {f = g} + {f <> g}.
Proof. decide equality. Defined.

Definition detach_notif_type (f : detach_notif_member) : Type :=
  match f with
  | cause => gtp_cause_ie.gtp_cause_ie_t
  | detach_type => gtp_detach_type_ie.gtp_detach_type_ie_t
  | priv_ext => gtp_priv_ext_ie.gtp_priv_ext_ie_t
  end.

Definition detach_notif_ie (f : detach_notif_member) : IeMember (detach_notif_type f) :=
  match f with
  | cause => gtp_cause_ie_member
  | detach_type => gtp_detach_type_ie_member
  | priv_ext => gtp_priv_ext_ie_member
  end.

Definition detach_notif_sig : signature :=
  Signature detach_notif_member detach_notif_eq_dec detach_notif_type detach_notif_ie
    Empty_set no_counter_eq_dec.
Canonical Structure detach_notif_sig.

Definition detach_notif_t : Type := message detach_notif_sig.

Definition encode_detach_notif_order : list (visit detach_notif_sig) :=
  [One cause; One detach_type; One priv_ext].

Definition encode_detach_notif (value : detach_notif_t) (buf : Z) : enc Z :=
  encode_message encode_detach_notif_order value buf.

Definition decode_detach_notif_table : list (branch detach_notif_sig) :=
  [(GTP_IE_CAUSE, Some GTP_IE_INSTANCE_ZERO, Into cause);
   (GTP_IE_DETACH_TYPE, Some GTP_IE_INSTANCE_ZERO, Into detach_type);
   (GTP_IE_PRIV_EXT, None, Into priv_ext)].

Definition decode_detach_notif (fuel : nat) (m : bytes) (buf : Z) (value : detach_notif_t)
  : outcome (Z * detach_notif_t) :=
  decode_message decode_detach_notif_table [] false fuel m buf value.

End detach_notif.

(** ** [echo_request] *)

Module echo_request.

Inductive echo_request_member :=
| recovery
| sending_node_feat
| priv_ext.

Definition echo_request_eq_dec (f g : echo_request_member) : {f = g} + {f <> g}.
Proof. decide equality. Defined.

Definition echo_request_type (f : echo_request_member) : Type :=
  match f with
  | recovery => gtp_recovery_ie.gtp_recovery_ie_t
  | sending_node_feat => gtp_node_features_ie.gtp_node_features_ie_t
  | priv_ext => gtp_priv_ext_ie.gtp_priv_ext_ie_t
  end.

Definition echo_request_ie (f : echo_request_member) : IeMember (echo_request_type f) :=
  match f with
  | recovery => gtp_recovery_ie_member
  | sending_node_feat => gtp_node_features_ie_member
  | priv_ext => gtp_priv_ext_ie_member
  end.

Definition echo_request_sig : signature :=
  Signature echo_request_member echo_request_eq_dec echo_request_type echo_request_ie
    Empty_set no_counter_eq_dec.
Canonical Structure echo_request_sig.

Definition echo_request_t : Type := message echo_request_sig.

Definition encode_echo_request_order : list (visit echo_request_sig) :=
  [One recovery; One sending_node_feat; One priv_ext].

Definition encode_echo_request (value : echo_request_t) (buf : Z) : enc Z :=
  encode_message encode_echo_request_order value buf.

Definition decode_echo_request_table : list (branch echo_request_sig) :=
  [(GTP_IE_RECOVERY, Some GTP_IE_INSTANCE_ZERO, Into recovery);
   (GTP_IE_NODE_FEATURES, Some GTP_IE_INSTANCE_ZERO, Into sending_node_feat);
   (GTP_IE_PRIV_EXT, None, Into priv_ext)].

Definition decode_echo_request (fuel : nat) (m : bytes) (buf : Z) (value : echo_request_t)
  : outcome (Z * echo_request_t) :=
  decode_message decode_echo_request_table [] false fuel m buf value.

End echo_request.

(** ** [rmt_ue_rpt_notif] *)

Module rmt_ue_rpt_notif.

Inductive rmt_ue_rpt_notif_member :=
| rmt_ue_ctxt_connected
| rmt_ue_ctxt_disconnected
| priv_ext.

Definition rmt_ue_rpt_notif_eq_dec (f g : rmt_ue_rpt_notif_member) : {f = g} + {f <> g}.
Proof. decide equality. Defined.

Definition rmt_ue_rpt_notif_type (f : rmt_ue_rpt_notif_member) : Type :=
  match f with
  | rmt_ue_ctxt_connected => gtp_rmt_ue_ctxt_ie.gtp_rmt_ue_ctxt_ie_t
  | rmt_ue_ctxt_disconnected => gtp_rmt_ue_ctxt_ie.gtp_rmt_ue_ctxt_ie_t
  | priv_ext => gtp_priv_ext_ie.gtp_priv_ext_ie_t
  end.

Definition rmt_ue_rpt_notif_ie (f : rmt_ue_rpt_notif_member) : IeMember (rmt_ue_rpt_notif_type f) :=
  match f with
  | rmt_ue_ctxt_connected => gtp_rmt_ue_ctxt_ie_member
  | rmt_ue_ctxt_disconnected => gtp_rmt_ue_ctxt_ie_member
  | priv_ext => gtp_priv_ext_ie_member
  end.

Definition rmt_ue_rpt_notif_sig : signature :=
  Signature rmt_ue_rpt_notif_member rmt_ue_rpt_notif_eq_dec rmt_ue_rpt_notif_type rmt_ue_rpt_notif_ie
    Empty_set no_counter_eq_dec.
Canonical Structure rmt_ue_rpt_notif_sig.

Definition rmt_ue_rpt_notif_t : Type := message rmt_ue_rpt_notif_sig.

Definition encode_rmt_ue_rpt_notif_order : list (visit rmt_ue_rpt_notif_sig) :=
  [One rmt_ue_ctxt_connected; One rmt_ue_ctxt_disconnected; One priv_ext].

Definition encode_rmt_ue_rpt_notif (value : rmt_ue_rpt_notif_t) (buf : Z) : enc Z :=
  encode_message encode_rmt_ue_rpt_notif_order value buf.

Definition decode_rmt_ue_rpt_notif_table : list (branch rmt_ue_rpt_notif_sig) :=
  [(GTP_IE_RMT_UE_CTXT, Some GTP_IE_INSTANCE_ZERO, Into rmt_ue_ctxt_connected);
   (GTP_IE_RMT_UE_CTXT, Some GTP_IE_INSTANCE_ONE, Into rmt_ue_ctxt_disconnected);
   (GTP_IE_PRIV_EXT, None, Into priv_ext)].

Definition decode_rmt_ue_rpt_notif (fuel : nat) (m : bytes) (buf : Z) (value : rmt_ue_rpt_notif_t)
  : outcome (Z * rmt_ue_rpt_notif_t) :=
  decode_message decode_rmt_ue_rpt_notif_table [] false fuel m buf value.

End rmt_ue_rpt_notif.

(** ** [ctxt_rsp] *)

Module ctxt_rsp.

Inductive ctxt_rsp_member :=
| cause
| imsi
| mmesgsnamf_ue_eps_pdn_connections
| sender_fteid_ctl_plane
| sgw_s11s4_ip_addr_and_teid_ctl_plane
| sgw_node_name
| indctn_flgs
| trc_info
| hrpd_acc_node_s101_ip_addr
| onexiws_sone02_ip_addr
| subscrbd_rfsp_idx
| rfsp_idx_in_use
| ue_time_zone
| mmes4_sgsn_ldn
| mdt_cfg
| sgsn_node_name
| mme_node_name
| uci
| mntrng_evnt_info
| ue_usage_type
| mmesgsn_ue_scef_pdn_connections
| rat_type
| srvng_plmn_rate_ctl
| mo_exception_data_cntr
| rem_running_svc_gap_timer
| priv_ext.

Definition ctxt_rsp_eq_dec (f g : ctxt_rsp_member) : {f = g} + {f <> g}.
Proof. decide equality. Defined.

Definition ctxt_rsp_type (f : ctxt_rsp_member) : Type :=
  match f with
  | cause => gtp_cause_ie.gtp_cause_ie_t
  | imsi => gtp_imsi_ie.gtp_imsi_ie_t
  | mmesgsnamf_ue_eps_pdn_connections => gtp_pdn_connection_ie.gtp_pdn_connection_ie_t
  | sender_fteid_ctl_plane => gtp_fully_qual_tunn_endpt_idnt_ie.gtp_fully_qual_tunn_endpt_idnt_ie_t
  | sgw_s11s4_ip_addr_and_teid_ctl_plane => gtp_fully_qual_tunn_endpt_idnt_ie.gtp_fully_qual_tunn_endpt_idnt_ie_t
  | sgw_node_name => gtp_fully_qual_domain_name_ie.gtp_fully_qual_domain_name_ie_t
  | indctn_flgs => gtp_indication_ie.gtp_indication_ie_t
  | trc_info => gtp_trc_info_ie.gtp_trc_info_ie_t
  | hrpd_acc_node_s101_ip_addr => gtp_ip_address_ie.gtp_ip_address_ie_t
  | onexiws_sone02_ip_addr => gtp_ip_address_ie.gtp_ip_address_ie_t
  | subscrbd_rfsp_idx => gtp_rfsp_index_ie.gtp_rfsp_index_ie_t
  | rfsp_idx_in_use => gtp_rfsp_index_ie.gtp_rfsp_index_ie_t
  | ue_time_zone => gtp_ue_time_zone_ie.gtp_ue_time_zone_ie_t
  | mmes4_sgsn_ldn => gtp_local_distgsd_name_ie.gtp_local_distgsd_name_ie_t
  | mdt_cfg => gtp_mdt_cfg_ie.gtp_mdt_cfg_ie_t
  | sgsn_node_name => gtp_fully_qual_domain_name_ie.gtp_fully_qual_domain_name_ie_t
  | mme_node_name => gtp_fully_qual_domain_name_ie.gtp_fully_qual_domain_name_ie_t
  | uci => gtp_user_csg_info_ie.gtp_user_csg_info_ie_t
  | mntrng_evnt_info => gtp_mntrng_evnt_info_ie.gtp_mntrng_evnt_info_ie_t
  | ue_usage_type => gtp_integer_number_ie.gtp_integer_number_ie_t
  | mmesgsn_ue_scef_pdn_connections => gtp_scef_pdn_conn_ie.gtp_scef_pdn_conn_ie_t
  | rat_type => gtp_rat_type_ie.gtp_rat_type_ie_t
  | srvng_plmn_rate_ctl => gtp_srvng_plmn_rate_ctl_ie.gtp_srvng_plmn_rate_ctl_ie_t
  | mo_exception_data_cntr => gtp_counter_ie.gtp_counter_ie_t
  | rem_running_svc_gap_timer => gtp_integer_number_ie.gtp_integer_number_ie_t
  | priv_ext => gtp_priv_ext_ie.gtp_priv_ext_ie_t
  end.

Definition ctxt_rsp_ie (f : ctxt_rsp_member) : IeMember (ctxt_rsp_type f) :=
  match f with
  | cause => gtp_cause_ie_member
  | imsi => gtp_imsi_ie_member
  | mmesgsnamf_ue_eps_pdn_connections => gtp_pdn_connection_ie_member
  | sender_fteid_ctl_plane => gtp_fully_qual_tunn_endpt_idnt_ie_member
  | sgw_s11s4_ip_addr_and_teid_ctl_plane => gtp_fully_qual_tunn_endpt_idnt_ie_member
  | sgw_node_name => gtp_fully_qual_domain_name_ie_member
  | indctn_flgs => gtp_indication_ie_member
  | trc_info => gtp_trc_info_ie_member
  | hrpd_acc_node_s101_ip_addr => gtp_ip_address_ie_member
  | onexiws_sone02_ip_addr => gtp_ip_address_ie_member
  | subscrbd_rfsp_idx => gtp_rfsp_index_ie_member
  | rfsp_idx_in_use => gtp_rfsp_index_ie_member
  | ue_time_zone => gtp_ue_time_zone_ie_member
  | mmes4_sgsn_ldn => gtp_local_distgsd_name_ie_member
  | mdt_cfg => gtp_mdt_cfg_ie_member
  | sgsn_node_name => gtp_fully_qual_domain_name_ie_member
  | mme_node_name => gtp_fully_qual_domain_name_ie_member
  | uci => gtp_user_csg_info_ie_member
  | mntrng_evnt_info => gtp_mntrng_evnt_info_ie_member
  | ue_usage_type => gtp_integer_number_ie_member
  | mmesgsn_ue_scef_pdn_connections => gtp_scef_pdn_conn_ie_member
  | rat_type => gtp_rat_type_ie_member
  | srvng_plmn_rate_ctl => gtp_srvng_plmn_rate_ctl_ie_member
  | mo_exception_data_cntr => gtp_counter_ie_member
  | rem_running_svc_gap_timer => gtp_integer_number_ie_member
  | priv_ext => gtp_priv_ext_ie_member
  end.

Definition ctxt_rsp_sig : signature :=
  Signature ctxt_rsp_member ctxt_rsp_eq_dec ctxt_rsp_type ctxt_rsp_ie
    Empty_set no_counter_eq_dec.
Canonical Structure ctxt_rsp_sig.

Definition ctxt_rsp_t : Type := message ctxt_rsp_sig.

Definition encode_ctxt_rsp_order : list (visit ctxt_rsp_sig) :=
  [One cause; One imsi; One mmesgsnamf_ue_eps_pdn_connections; One sender_fteid_ctl_plane;
   One sgw_s11s4_ip_addr_and_teid_ctl_plane; One sgw_node_name; One indctn_flgs; One trc_info;
   One hrpd_acc_node_s101_ip_addr; One onexiws_sone02_ip_addr; One subscrbd_rfsp_idx;
   One rfsp_idx_in_use; One ue_time_zone; One mmes4_sgsn_ldn; One mdt_cfg; One sgsn_node_name;
   One mme_node_name; One uci; One mntrng_evnt_info; One ue_usage_type;
   One mmesgsn_ue_scef_pdn_connections; One rat_type; One srvng_plmn_rate_ctl;
   One mo_exception_data_cntr; One rem_running_svc_gap_timer; One priv_ext].

Definition encode_ctxt_rsp (value : ctxt_rsp_t) (buf : Z) : enc Z :=
  encode_message encode_ctxt_rsp_order value buf.

Definition decode_ctxt_rsp_table : list (branch ctxt_rsp_sig) :=
  [(GTP_IE_CAUSE, Some GTP_IE_INSTANCE_ZERO, Into cause);
   (GTP_IE_IMSI, Some GTP_IE_INSTANCE_ZERO, Into imsi);
   (GTP_IE_PDN_CONNECTION, Some GTP_IE_INSTANCE_ZERO, Into mmesgsnamf_ue_eps_pdn_connections);
   (GTP_IE_FULLY_QUAL_TUNN_ENDPT_IDNT, Some GTP_IE_INSTANCE_ZERO, Into sender_fteid_ctl_plane);
   (GTP_IE_FULLY_QUAL_TUNN_ENDPT_IDNT, Some GTP_IE_INSTANCE_ONE, Into sgw_s11s4_ip_addr_and_teid_ctl_plane);
   (GTP_IE_FULLY_QUAL_DOMAIN_NAME, Some GTP_IE_INSTANCE_ZERO, Into sgw_node_name);
   (GTP_IE_INDICATION, Some GTP_IE_INSTANCE_ZERO, Into indctn_flgs);
   (GTP_IE_TRC_INFO, Some GTP_IE_INSTANCE_ZERO, Into trc_info);
   (GTP_IE_IP_ADDRESS, Some GTP_IE_INSTANCE_ZERO, Into hrpd_acc_node_s101_ip_addr);
   (GTP_IE_IP_ADDRESS, Some GTP_IE_INSTANCE_ONE, Into onexiws_sone02_ip_addr);
   (GTP_IE_RFSP_INDEX, Some GTP_IE_INSTANCE_ZERO, Into subscrbd_rfsp_idx);
   (GTP_IE_RFSP_INDEX, Some GTP_IE_INSTANCE_ONE, Into rfsp_idx_in_use);
   (GTP_IE_UE_TIME_ZONE, Some GTP_IE_INSTANCE_ZERO, Into ue_time_zone);
   (GTP_IE_LOCAL_DISTGSD_NAME, Some GTP_IE_INSTANCE_ZERO, Into mmes4_sgsn_ldn);
   (GTP_IE_MDT_CFG, Some GTP_IE_INSTANCE_ZERO, Into mdt_cfg);
   (GTP_IE_FULLY_QUAL_DOMAIN_NAME, Some GTP_IE_INSTANCE_ONE, Into sgsn_node_name);
   (GTP_IE_FULLY_QUAL_DOMAIN_NAME, Some GTP_IE_INSTANCE_TWO, Into mme_node_name);
   (GTP_IE_USER_CSG_INFO, Some GTP_IE_INSTANCE_ZERO, Into uci);
   (GTP_IE_MNTRNG_EVNT_INFO, Some GTP_IE_INSTANCE_ZERO, Into mntrng_evnt_info);
   (GTP_IE_INTEGER_NUMBER, Some GTP_IE_INSTANCE_ZERO, Into ue_usage_type);
   (GTP_IE_SCEF_PDN_CONN, Some GTP_IE_INSTANCE_ZERO, Into mmesgsn_ue_scef_pdn_connections);
   (GTP_IE_RAT_TYPE, Some GTP_IE_INSTANCE_ZERO, Into rat_type);
   (GTP_IE_SRVNG_PLMN_RATE_CTL, Some GTP_IE_INSTANCE_ZERO, Into srvng_plmn_rate_ctl);
   (GTP_IE_COUNTER, Some GTP_IE_INSTANCE_ZERO, Into mo_exception_data_cntr);
   (GTP_IE_INTEGER_NUMBER, Some GTP_IE_INSTANCE_ONE, Into rem_running_svc_gap_timer);
   (GTP_IE_PRIV_EXT, None, Into priv_ext)].

Definition decode_ctxt_rsp (fuel : nat) (m : bytes) (buf : Z) (value : ctxt_rsp_t)
  : outcome (Z * ctxt_rsp_t) :=
  decode_message decode_ctxt_rsp_table [] false fuel m buf value.

End ctxt_rsp.

(** ** [mbms_sess_start_rsp] *)

Module mbms_sess_start_rsp.

Inductive mbms_sess_start_rsp_member :=
| cause
| sender_fteid_ctl_plane
| mbms_dist_ack
| sn_u_sgsn_fteid
| recovery
| priv_ext.

Definition mbms_sess_start_rsp_eq_dec (f g : mbms_sess_start_rsp_member) : {f = g} + {f <> g}.
Proof. decide equality. Defined.

Definition mbms_sess_start_rsp_type (f : mbms_sess_start_rsp_member) : Type :=
  match f with
  | cause => gtp_cause_ie.gtp_cause_ie_t
  | sender_fteid_ctl_plane => gtp_fully_qual_tunn_endpt_idnt_ie.gtp_fully_qual_tunn_endpt_idnt_ie_t
  | mbms_dist_ack => gtp_mbms_dist_ack_ie.gtp_mbms_dist_ack_ie_t
  | sn_u_sgsn_fteid => gtp_fully_qual_tunn_endpt_idnt_ie.gtp_fully_qual_tunn_endpt_idnt_ie_t
  | recovery => gtp_recovery_ie.gtp_recovery_ie_t
  | priv_ext => gtp_priv_ext_ie.gtp_priv_ext_ie_t
  end.

Definition mbms_sess_start_rsp_ie (f : mbms_sess_start_rsp_member) : IeMember (mbms_sess_start_rsp_type f) :=
  match f with
  | cause => gtp_cause_ie_member
  | sender_fteid_ctl_plane => gtp_fully_qual_tunn_endpt_idnt_ie_member
  | mbms_dist_ack => gtp_mbms_dist_ack_ie_member
  | sn_u_sgsn_fteid => gtp_fully_qual_tunn_endpt_idnt_ie_member
  | recovery => gtp_recovery_ie_member
  | priv_ext => gtp_priv_ext_ie_member
  end.

Definition mbms_sess_start_rsp_sig : signature :=
  Signature mbms_sess_start_rsp_member mbms_sess_start_rsp_eq_dec mbms_sess_start_rsp_type mbms_sess_start_rsp_ie
    Empty_set no_counter_eq_dec.
Canonical Structure mbms_sess_start_rsp_sig.

Definition mbms_sess_start_rsp_t : Type := message mbms_sess_start_rsp_sig.

Definition encode_mbms_sess_start_rsp_order : list (visit mbms_sess_start_rsp_sig) :=
  [One cause; One sender_fteid_ctl_plane; One mbms_dist_ack; One sn_u_sgsn_fteid; One recovery;
   One priv_ext].

Definition encode_mbms_sess_start_rsp (value : mbms_sess_start_rsp_t) (buf : Z) : enc Z :=
  encode_message encode_mbms_sess_start_rsp_order value buf.

Definition decode_mbms_sess_start_rsp_table : list (branch mbms_sess_start_rsp_sig) :=
  [(GTP_IE_CAUSE, Some GTP_IE_INSTANCE_ZERO, Into cause);
   (GTP_IE_FULLY_QUAL_TUNN_ENDPT_IDNT, Some GTP_IE_INSTANCE_ZERO, Into sender_fteid_ctl_plane);
   (GTP_IE_MBMS_DIST_ACK, Some GTP_IE_INSTANCE_ZERO, Into mbms_dist_ack);
   (GTP_IE_FULLY_QUAL_TUNN_ENDPT_IDNT, Some GTP_IE_INSTANCE_ONE, Into sn_u_sgsn_fteid);
   (GTP_IE_RECOVERY, Some GTP_IE_INSTANCE_ZERO, Into recovery);
   (GTP_IE_PRIV_EXT, None, Into priv_ext)].

Definition decode_mbms_sess_start_rsp (fuel : nat) (m : bytes) (buf : Z) (value : mbms_sess_start_rsp_t)
  : outcome (Z * mbms_sess_start_rsp_t) :=
  decode_message decode_mbms_sess_start_rsp_table [] false fuel m buf value.

End mbms_sess_start_rsp.

(** ** [context_request] *)

Module context_request.

Inductive context_request_member :=
| imsi
| guti
| rai
| ptmsi
| ptmsi_signature
| cmplt_tau_req_msg
| s3s16s10n26_addr_and_teid_ctl_plane
| udp_src_port_nbr
| rat_type
| indication
| hop_counter
| target_plmn_id
| mmes4_sgsn_ldn
| sgsn_node_name
| mme_node_name
| sgsn_number
| sgsn_identifier
| mme_identifier
| ciot_optim_supp_indctn
| priv_ext.

Definition context_request_eq_dec (f g : context_request_member) : {f = g} + {f <> g}.
Proof. decide equality. Defined.

Definition context_request_type (f : context_request_member) : Type :=
  match f with
  | imsi => gtp_imsi_ie.gtp_imsi_ie_t
  | guti => gtp_guti_ie.gtp_guti_ie_t
  | rai => gtp_user_loc_info_ie.gtp_user_loc_info_ie_t
  | ptmsi => gtp_ptmsi_ie.gtp_ptmsi_ie_t
  | ptmsi_signature => gtp_ptmsi_signature_ie.gtp_ptmsi_signature_ie_t
  | cmplt_tau_req_msg => gtp_cmplt_req_msg_ie.gtp_cmplt_req_msg_ie_t
  | s3s16s10n26_addr_and_teid_ctl_plane => gtp_fully_qual_tunn_endpt_idnt_ie.gtp_fully_qual_tunn_endpt_idnt_ie_t
  | udp_src_port_nbr => gtp_port_number_ie.gtp_port_number_ie_t
  | rat_type => gtp_rat_type_ie.gtp_rat_type_ie_t
  | indication => gtp_indication_ie.gtp_indication_ie_t
  | hop_counter => gtp_hop_counter_ie.gtp_hop_counter_ie_t
  | target_plmn_id => gtp_serving_network_ie.gtp_serving_network_ie_t
  | mmes4_sgsn_ldn => gtp_local_distgsd_name_ie.gtp_local_distgsd_name_ie_t
  | sgsn_node_name => gtp_fully_qual_domain_name_ie.gtp_fully_qual_domain_name_ie_t
  | mme_node_name => gtp_fully_qual_domain_name_ie.gtp_fully_qual_domain_name_ie_t
  | sgsn_number => gtp_node_number_ie.gtp_node_number_ie_t
  | sgsn_identifier => gtp_node_identifier_ie.gtp_node_identifier_ie_t
  | mme_identifier => gtp_node_identifier_ie.gtp_node_identifier_ie_t
  | ciot_optim_supp_indctn => gtp_ciot_optim_supp_indctn_ie.gtp_ciot_optim_supp_indctn_ie_t
  | priv_ext => gtp_priv_ext_ie.gtp_priv_ext_ie_t
  end.

Definition context_request_ie (f : context_request_member) : IeMember (context_request_type f) :=
  match f with
  | imsi => gtp_imsi_ie_member
  | guti => gtp_guti_ie_member
  | rai => gtp_user_loc_info_ie_member
  | ptmsi => gtp_ptmsi_ie_member
  | ptmsi_signature => gtp_ptmsi_signature_ie_member
  | cmplt_tau_req_msg => gtp_cmplt_req_msg_ie_member
  | s3s16s10n26_addr_and_teid_ctl_plane => gtp_fully_qual_tunn_endpt_idnt_ie_member
  | udp_src_port_nbr => gtp_port_number_ie_member
  | rat_type => gtp_rat_type_ie_member
  | indication => gtp_indication_ie_member
  | hop_counter => gtp_hop_counter_ie_member
  | target_plmn_id => gtp_serving_network_ie_member
  | mmes4_sgsn_ldn => gtp_local_distgsd_name_ie_member
  | sgsn_node_name => gtp_fully_qual_domain_name_ie_member
  | mme_node_name => gtp_fully_qual_domain_name_ie_member
  | sgsn_number => gtp_node_number_ie_member
  | sgsn_identifier => gtp_node_identifier_ie_member
  | mme_identifier => gtp_node_identifier_ie_member
  | ciot_optim_supp_indctn => gtp_ciot_optim_supp_indctn_ie_member
  | priv_ext => gtp_priv_ext_ie_member
  end.

Definition context_request_sig : signature :=
  Signature context_request_member context_request_eq_dec context_request_type context_request_ie
    Empty_set no_counter_eq_dec.
Canonical Structure context_request_sig.

Definition context_request_t : Type := message context_request_sig.

Definition encode_context_request_order : list (visit context_request_sig) :=
  [One imsi; One guti; One rai; One ptmsi; One ptmsi_signature; One cmplt_tau_req_msg;
   One s3s16s10n26_addr_and_teid_ctl_plane; One udp_src_port_nbr; One rat_type; One indication;
   One hop_counter; One target_plmn_id; One mmes4_sgsn_ldn; One sgsn_node_name;
   One mme_node_name; One sgsn_number; One sgsn_identifier; One mme_identifier;
   One ciot_optim_supp_indctn; One priv_ext].

Definition encode_context_request (value : context_request_t) (buf : Z) : enc Z :=
  encode_message encode_context_request_order value buf.

Definition decode_context_request_table : list (branch context_request_sig) :=
  [(GTP_IE_IMSI, Some GTP_IE_INSTANCE_ZERO, Into imsi);
   (GTP_IE_GUTI, Some GTP_IE_INSTANCE_ZERO, Into guti);
   (GTP_IE_USER_LOC_INFO, Some GTP_IE_INSTANCE_ZERO, Into rai);
   (GTP_IE_PTMSI, Some GTP_IE_INSTANCE_ZERO, Into ptmsi);
   (GTP_IE_PTMSI_SIGNATURE, Some GTP_IE_INSTANCE_ZERO, Into ptmsi_signature);
   (GTP_IE_CMPLT_REQ_MSG, Some GTP_IE_INSTANCE_ZERO, Into cmplt_tau_req_msg);
   (GTP_IE_FULLY_QUAL_TUNN_ENDPT_IDNT, Some GTP_IE_INSTANCE_ZERO, Into s3s16s10n26_addr_and_teid_ctl_plane);
   (GTP_IE_PORT_NUMBER, Some GTP_IE_INSTANCE_ZERO, Into udp_src_port_nbr);
   (GTP_IE_RAT_TYPE, Some GTP_IE_INSTANCE_ZERO, Into rat_type);
   (GTP_IE_INDICATION, Some GTP_IE_INSTANCE_ZERO, Into indication);
   (GTP_IE_HOP_COUNTER, Some GTP_IE_INSTANCE_ZERO, Into hop_counter);
   (GTP_IE_SERVING_NETWORK, Some GTP_IE_INSTANCE_ZERO, Into target_plmn_id);
   (GTP_IE_LOCAL_DISTGSD_NAME, Some GTP_IE_INSTANCE_ZERO, Into mmes4_sgsn_ldn);
   (GTP_IE_FULLY_QUAL_DOMAIN_NAME, Some GTP_IE_INSTANCE_ZERO, Into sgsn_node_name);
   (GTP_IE_FULLY_QUAL_DOMAIN_NAME, Some GTP_IE_INSTANCE_ONE, Into mme_node_name);
   (GTP_IE_NODE_NUMBER, Some GTP_IE_INSTANCE_ZERO, Into sgsn_number);
   (GTP_IE_NODE_IDENTIFIER, Some GTP_IE_INSTANCE_ZERO, Into sgsn_identifier);
   (GTP_IE_NODE_IDENTIFIER, Some GTP_IE_INSTANCE_ONE, Into mme_identifier);
   (GTP_IE_CIOT_OPTIM_SUPP_INDCTN, Some GTP_IE_INSTANCE_ZERO, Into ciot_optim_supp_indctn);
   (GTP_IE_PRIV_EXT, None, Into priv_ext)].

Definition decode_context_request (fuel : nat) (m : bytes) (buf : Z) (value : context_request_t)
  : outcome (Z * context_request_t) :=
  decode_message decode_context_request_table [] false fuel m buf value.

End context_request.

(** ** [mbms_sess_upd_req] *)

Module mbms_sess_upd_req.

Inductive mbms_sess_upd_req_member :=
| mbms_svc_area
| tmgi
| sender_fteid_ctl_plane
| mbms_sess_dur
| qos_profile
| mbms_sess_idnt
| mbms_flow_idnt
| mbms_time_to_data_xfer
| mbms_data_xfer_start_upd_stop
| mbms_cell_list
| priv_ext.

Definition mbms_sess_upd_req_eq_dec (f g : mbms_sess_upd_req_member) : {f = g} + {f <> g}.
Proof. decide equality. Defined.

Definition mbms_sess_upd_req_type (f : mbms_sess_upd_req_member) : Type :=
  match f with
  | mbms_svc_area => gtp_mbms_svc_area_ie.gtp_mbms_svc_area_ie_t
  | tmgi => gtp_tmgi_ie.gtp_tmgi_ie_t
  | sender_fteid_ctl_plane => gtp_fully_qual_tunn_endpt_idnt_ie.gtp_fully_qual_tunn_endpt_idnt_ie_t
  | mbms_sess_dur => gtp_mbms_sess_dur_ie.gtp_mbms_sess_dur_ie_t
  | qos_profile => gtp_bearer_qlty_of_svc_ie.gtp_bearer_qlty_of_svc_ie_t
  | mbms_sess_idnt => gtp_mbms_sess_idnt_ie.gtp_mbms_sess_idnt_ie_t
  | mbms_flow_idnt => gtp_mbms_flow_idnt_ie.gtp_mbms_flow_idnt_ie_t
  | mbms_time_to_data_xfer => gtp_mbms_time_to_data_xfer_ie.gtp_mbms_time_to_data_xfer_ie_t
  | mbms_data_xfer_start_upd_stop => gtp_mbms_data_xfer_abs_time_ie.gtp_mbms_data_xfer_abs_time_ie_t
  | mbms_cell_list => gtp_ecgi_list_ie.gtp_ecgi_list_ie_t
  | priv_ext => gtp_priv_ext_ie.gtp_priv_ext_ie_t
  end.

Definition mbms_sess_upd_req_ie (f : mbms_sess_upd_req_member) : IeMember (mbms_sess_upd_req_type f) :=
  match f with
  | mbms_svc_area => gtp_mbms_svc_area_ie_member
  | tmgi => gtp_tmgi_ie_member
  | sender_fteid_ctl_plane => gtp_fully_qual_tunn_endpt_idnt_ie_member
  | mbms_sess_dur => gtp_mbms_sess_dur_ie_member
  | qos_profile => gtp_bearer_qlty_of_svc_ie_member
  | mbms_sess_idnt => gtp_mbms_sess_idnt_ie_member
  | mbms_flow_idnt => gtp_mbms_flow_idnt_ie_member
  | mbms_time_to_data_xfer => gtp_mbms_time_to_data_xfer_ie_member
  | mbms_data_xfer_start_upd_stop => gtp_mbms_data_xfer_abs_time_ie_member
  | mbms_cell_list => gtp_ecgi_list_ie_member
  | priv_ext => gtp_priv_ext_ie_member
  end.

Definition mbms_sess_upd_req_sig : signature :=
  Signature mbms_sess_upd_req_member mbms_sess_upd_req_eq_dec mbms_sess_upd_req_type mbms_sess_upd_req_ie
    Empty_set no_counter_eq_dec.
Canonical Structure mbms_sess_upd_req_sig.

Definition mbms_sess_upd_req_t : Type := message mbms_sess_upd_req_sig.

Definition encode_mbms_sess_upd_req_order : list (visit mbms_sess_upd_req_sig) :=
  [One mbms_svc_area; One tmgi; One sender_fteid_ctl_plane; One mbms_sess_dur; One qos_profile;
   One mbms_sess_idnt; One mbms_flow_idnt; One mbms_time_to_data_xfer;
   One mbms_data_xfer_start_upd_stop; One mbms_cell_list; One priv_ext].

Definition encode_mbms_sess_upd_req (value : mbms_sess_upd_req_t) (buf : Z) : enc Z :=
  encode_message encode_mbms_sess_upd_req_order value buf.

Definition decode_mbms_sess_upd_req_table : list (branch mbms_sess_upd_req_sig) :=
  [(GTP_IE_MBMS_SVC_AREA, Some GTP_IE_INSTANCE_ZERO, Into mbms_svc_area);
   (GTP_IE_TMGI, Some GTP_IE_INSTANCE_ZERO, Into tmgi);
   (GTP_IE_FULLY_QUAL_TUNN_ENDPT_IDNT, Some GTP_IE_INSTANCE_ZERO, Into sender_fteid_ctl_plane);
   (GTP_IE_MBMS_SESS_DUR, Some GTP_IE_INSTANCE_ZERO, Into mbms_sess_dur);
   (GTP_IE_BEARER_QLTY_OF_SVC, Some GTP_IE_INSTANCE_ZERO, Into qos_profile);
   (GTP_IE_MBMS_SESS_IDNT, Some GTP_IE_INSTANCE_ZERO, Into mbms_sess_idnt);
   (GTP_IE_MBMS_FLOW_IDNT, Some GTP_IE_INSTANCE_ZERO, Into mbms_flow_idnt);
   (GTP_IE_MBMS_TIME_TO_DATA_XFER, Some GTP_IE_INSTANCE_ZERO, Into mbms_time_to_data_xfer);
   (GTP_IE_MBMS_DATA_XFER_ABS_TIME, Some GTP_IE_INSTANCE_ZERO, Into mbms_data_xfer_start_upd_stop);
   (GTP_IE_ECGI_LIST, Some GTP_IE_INSTANCE_ZERO, Into mbms_cell_list);
   (GTP_IE_PRIV_EXT, None, Into priv_ext)].

Definition decode_mbms_sess_upd_req (fuel : nat) (m : bytes) (buf : Z) (value : mbms_sess_upd_req_t)
  : outcome (Z * mbms_sess_upd_req_t) :=
  decode_message decode_mbms_sess_upd_req_table [] false fuel m buf value.

End mbms_sess_upd_req.

(** ** [fwd_acc_ctxt_ack] *)

Module fwd_acc_ctxt_ack.

Inductive fwd_acc_ctxt_ack_member :=
| cause
| priv_ext.

Definition fwd_acc_ctxt_ack_eq_dec (f g : fwd_acc_ctxt_ack_member) : {f = g} + {f <> g}.
Proof. decide equality. Defined.

Definition fwd_acc_ctxt_ack_type (f : fwd_acc_ctxt_ack_member) : Type :=
  match f with
  | cause => gtp_cause_ie.gtp_cause_ie_t
  | priv_ext => gtp_priv_ext_ie.gtp_priv_ext_ie_t
  end.

Definition fwd_acc_ctxt_ack_ie (f : fwd_acc_ctxt_ack_member) : IeMember (fwd_acc_ctxt_ack_type f) :=
  match f with
  | cause => gtp_cause_ie_member
  | priv_ext => gtp_priv_ext_ie_member
  end.

Definition fwd_acc_ctxt_ack_sig : signature :=
  Signature fwd_acc_ctxt_ack_member fwd_acc_ctxt_ack_eq_dec fwd_acc_ctxt_ack_type fwd_acc_ctxt_ack_ie
    Empty_set no_counter_eq_dec.
Canonical Structure fwd_acc_ctxt_ack_sig.

Definition fwd_acc_ctxt_ack_t : Type := message fwd_acc_ctxt_ack_sig.

Definition encode_fwd_acc_ctxt_ack_order : list (visit fwd_acc_ctxt_ack_sig) :=
  [One cause; One priv_ext].

Definition encode_fwd_acc_ctxt_ack (value : fwd_acc_ctxt_ack_t) (buf : Z) : enc Z :=
  encode_message encode_fwd_acc_ctxt_ack_order value buf.

Definition decode_fwd_acc_ctxt_ack_table : list (branch fwd_acc_ctxt_ack_sig) :=
  [(GTP_IE_CAUSE, Some GTP_IE_INSTANCE_ZERO, Into cause);
   (GTP_IE_PRIV_EXT, None, Into priv_ext)].

Definition decode_fwd_acc_ctxt_ack (fuel : nat) (m : bytes) (buf : Z) (value : fwd_acc_ctxt_ack_t)
  : outcome (Z * fwd_acc_ctxt_ack_t) :=
  decode_message decode_fwd_acc_ctxt_ack_table [] false fuel m buf value.

End fwd_acc_ctxt_ack.

(** ** [bearer_rsrc_fail_indctn] *)

Module bearer_rsrc_fail_indctn.

Inductive bearer_rsrc_fail_indctn_member :=
| cause
| linked_eps_bearer_id
| pti
| indctn_flgs
| pgws_ovrld_ctl_info
| sgws_ovrld_ctl_info
| recovery
| nbifom_cntnr
| priv_ext.

Definition bearer_rsrc_fail_indctn_eq_dec (f g : bearer_rsrc_fail_indctn_member) : {f = g} + {f <> g}.
Proof. decide equality. Defined.

Definition bearer_rsrc_fail_indctn_type (f : bearer_rsrc_fail_indctn_member) : Type :=
  match f with
  | cause => gtp_cause_ie.gtp_cause_ie_t
  | linked_eps_bearer_id => gtp_eps_bearer_id_ie.gtp_eps_bearer_id_ie_t
  | pti => gtp_proc_trans_id_ie.gtp_proc_trans_id_ie_t
  | indctn_flgs => gtp_indication_ie.gtp_indication_ie_t
  | pgws_ovrld_ctl_info => gtp_ovrld_ctl_info_ie.gtp_ovrld_ctl_info_ie_t
  | sgws_ovrld_ctl_info => gtp_ovrld_ctl_info_ie.gtp_ovrld_ctl_info_ie_t
  | recovery => gtp_recovery_ie.gtp_recovery_ie_t
  | nbifom_cntnr => gtp_full_qual_cntnr_ie.gtp_full_qual_cntnr_ie_t
  | priv_ext => gtp_priv_ext_ie.gtp_priv_ext_ie_t
  end.

Definition bearer_rsrc_fail_indctn_ie (f : bearer_rsrc_fail_indctn_member) : IeMember (bearer_rsrc_fail_indctn_type f) :=
  match f with
  | cause => gtp_cause_ie_member
  | linked_eps_bearer_id => gtp_eps_bearer_id_ie_member
  | pti => gtp_proc_trans_id_ie_member
  | indctn_flgs => gtp_indication_ie_member
  | pgws_ovrld_ctl_info => gtp_ovrld_ctl_info_ie_member
  | sgws_ovrld_ctl_info => gtp_ovrld_ctl_info_ie_member
  | recovery => gtp_recovery_ie_member
  | nbifom_cntnr => gtp_full_qual_cntnr_ie_member
  | priv_ext => gtp_priv_ext_ie_member
  end.

Definition bearer_rsrc_fail_indctn_sig : signature :=
  Signature bearer_rsrc_fail_indctn_member bearer_rsrc_fail_indctn_eq_dec bearer_rsrc_fail_indctn_type bearer_rsrc_fail_indctn_ie
    Empty_set no_counter_eq_dec.
Canonical Structure bearer_rsrc_fail_indctn_sig.

Definition bearer_rsrc_fail_indctn_t : Type := message bearer_rsrc_fail_indctn_sig.

Definition encode_bearer_rsrc_fail_indctn_order : list (visit bearer_rsrc_fail_indctn_sig) :=
  [One cause; One linked_eps_bearer_id; One pti; One indctn_flgs; One pgws_ovrld_ctl_info;
   One sgws_ovrld_ctl_info; One recovery; One nbifom_cntnr; One priv_ext].

Definition encode_bearer_rsrc_fail_indctn (value : bearer_rsrc_fail_indctn_t) (buf : Z) : enc Z :=
  encode_message encode_bearer_rsrc_fail_indctn_order value buf.

Definition decode_bearer_rsrc_fail_indctn_table : list (branch bearer_rsrc_fail_indctn_sig) :=
  [(GTP_IE_CAUSE, Some GTP_IE_INSTANCE_ZERO, Into cause);
   (GTP_IE_EPS_BEARER_ID, Some GTP_IE_INSTANCE_ZERO, Into linked_eps_bearer_id);
   (GTP_IE_PROC_TRANS_ID, Some GTP_IE_INSTANCE_ZERO, Into pti);
   (GTP_IE_INDICATION, Some GTP_IE_INSTANCE_ZERO, Into indctn_flgs);
   (GTP_IE_OVRLD_CTL_INFO, Some GTP_IE_INSTANCE_ZERO, Into pgws_ovrld_ctl_info);
   (GTP_IE_OVRLD_CTL_INFO, Some GTP_IE_INSTANCE_ONE, Into sgws_ovrld_ctl_info);
   (GTP_IE_RECOVERY, Some GTP_IE_INSTANCE_ZERO, Into recovery);
   (GTP_IE_FULL_QUAL_CNTNR, Some GTP_IE_INSTANCE_ZERO, Into nbifom_cntnr);
   (GTP_IE_PRIV_EXT, None, Into priv_ext)].

Definition decode_bearer_rsrc_fail_indctn (fuel : nat) (m : bytes) (buf : Z) (value : bearer_rsrc_fail_indctn_t)
  : outcome (Z * bearer_rsrc_fail_indctn_t) :=
  decode_message decode_bearer_rsrc_fail_indctn_table [] false fuel m buf value.

End bearer_rsrc_fail_indctn.

(** ** [pgw_dnlnk_trigrng_ack] *)

Module pgw_dnlnk_trigrng_ack.

Inductive pgw_dnlnk_trigrng_ack_member :=
| cause
| imsi
| mmes4_sgsn_idnt
| priv_ext.

Definition pgw_dnlnk_trigrng_ack_eq_dec (f g : pgw_dnlnk_trigrng_ack_member) : {f = g} + {f <> g}.
Proof. decide equality. Defined.

Definition pgw_dnlnk_trigrng_ack_type (f : pgw_dnlnk_trigrng_ack_member) : Type :=
  match f with
  | cause => gtp_cause_ie.gtp_cause_ie_t
  | imsi => gtp_imsi_ie.gtp_imsi_ie_t
  | mmes4_sgsn_idnt => gtp_ip_address_ie.gtp_ip_address_ie_t
  | priv_ext => gtp_priv_ext_ie.gtp_priv_ext_ie_t
  end.

Definition pgw_dnlnk_trigrng_ack_ie (f : pgw_dnlnk_trigrng_ack_member) : IeMember (pgw_dnlnk_trigrng_ack_type f) :=
  match f with
  | cause => gtp_cause_ie_member
  | imsi => gtp_imsi_ie_member
  | mmes4_sgsn_idnt => gtp_ip_address_ie_member
  | priv_ext => gtp_priv_ext_ie_member
  end.

Definition pgw_dnlnk_trigrng_ack_sig : signature :=
  Signature pgw_dnlnk_trigrng_ack_member pgw_dnlnk_trigrng_ack_eq_dec pgw_dnlnk_trigrng_ack_type pgw_dnlnk_trigrng_ack_ie
    Empty_set no_counter_eq_dec.
Canonical Structure pgw_dnlnk_trigrng_ack_sig.

Definition pgw_dnlnk_trigrng_ack_t : Type := message pgw_dnlnk_trigrng_ack_sig.

Definition encode_pgw_dnlnk_trigrng_ack_order : list (visit pgw_dnlnk_trigrng_ack_sig) :=
  [One cause; One imsi; One mmes4_sgsn_idnt; One priv_ext].

Definition encode_pgw_dnlnk_trigrng_ack (value : pgw_dnlnk_trigrng_ack_t) (buf : Z) : enc Z :=
  encode_message encode_pgw_dnlnk_trigrng_ack_order value buf.

Definition decode_pgw_dnlnk_trigrng_ack_table : list (branch pgw_dnlnk_trigrng_ack_sig) :=
  [(GTP_IE_CAUSE, Some GTP_IE_INSTANCE_ZERO, Into cause);
   (GTP_IE_IMSI, Some GTP_IE_INSTANCE_ZERO, Into imsi);
   (GTP_IE_IP_ADDRESS, Some GTP_IE_INSTANCE_ZERO, Into mmes4_sgsn_idnt);
   (GTP_IE_PRIV_EXT, None, Into priv_ext)].

Definition decode_pgw_dnlnk_trigrng_ack (fuel : nat) (m : bytes) (buf : Z) (value : pgw_dnlnk_trigrng_ack_t)
  : outcome (Z * pgw_dnlnk_trigrng_ack_t) :=
  decode_message decode_pgw_dnlnk_trigrng_ack_table [] false fuel m buf value.

End pgw_dnlnk_trigrng_ack.

(** ** [echo_response] *)

Module echo_response.

Inductive echo_response_member :=
| recovery
| sending_node_feat
| priv_ext.

Definition echo_response_eq_dec (f g : echo_response_member) : {f = g} + {f <> g}.
Proof. decide equality. Defined.

Definition echo_response_type (f : echo_response_member) : Type :=
  match f with
  | recovery => gtp_recovery_ie.gtp_recovery_ie_t
  | sending_node_feat => gtp_node_features_ie.gtp_node_features_ie_t
  | priv_ext => gtp_priv_ext_ie.gtp_priv_ext_ie_t
  end.

Definition echo_response_ie (f : echo_response_member) : IeMember (echo_response_type f) :=
  match f with
  | recovery => gtp_recovery_ie_member
  | sending_node_feat => gtp_node_features_ie_member
  | priv_ext => gtp_priv_ext_ie_member
  end.

Definition echo_response_sig : signature :=
  Signature echo_response_member echo_response_eq_dec echo_response_type echo_response_ie
    Empty_set no_counter_eq_dec.
Canonical Structure echo_response_sig.

Definition echo_response_t : Type := message echo_response_sig.

Definition encode_echo_response_order : list (visit echo_response_sig) :=
  [One recovery; One sending_node_feat; One priv_ext].

Definition encode_echo_response (value : echo_response_t) (buf : Z) : enc Z :=
  encode_message encode_echo_response_order value buf.

Definition decode_echo_response_table : list (branch echo_response_sig) :=
  [(GTP_IE_RECOVERY, Some GTP_IE_INSTANCE_ZERO, Into recovery);
   (GTP_IE_NODE_FEATURES, Some GTP_IE_INSTANCE_ZERO, Into sending_node_feat);
   (GTP_IE_PRIV_EXT, None, Into priv_ext)].

Definition decode_echo_response (fuel : nat) (m : bytes) (buf : Z) (value : echo_response_t)
  : outcome (Z * echo_response_t) :=
  decode_message decode_echo_response_table [] false fuel m buf value.

End echo_response.

(** ** [mbms_sess_upd_rsp] *)

Module mbms_sess_upd_rsp.

Inductive mbms_sess_upd_rsp_member :=
| cause
| mbms_dist_ack
| sn_u_sgsn_fteid
| recovery
| priv_ext.

Definition mbms_sess_upd_rsp_eq_dec (f g : mbms_sess_upd_rsp_member) : {f = g} + {f <> g}.
Proof. decide equality. Defined.

Definition mbms_sess_upd_rsp_type (f : mbms_sess_upd_rsp_member) : Type :=
  match f with
  | cause => gtp_cause_ie.gtp_cause_ie_t
  | mbms_dist_ack => gtp_mbms_dist_ack_ie.gtp_mbms_dist_ack_ie_t
  | sn_u_sgsn_fteid => gtp_fully_qual_tunn_endpt_idnt_ie.gtp_fully_qual_tunn_endpt_idnt_ie_t
  | recovery => gtp_recovery_ie.gtp_recovery_ie_t
  | priv_ext => gtp_priv_ext_ie.gtp_priv_ext_ie_t
  end.

Definition mbms_sess_upd_rsp_ie (f : mbms_sess_upd_rsp_member) : IeMember (mbms_sess_upd_rsp_type f) :=
  match f with
  | cause => gtp_cause_ie_member
  | mbms_dist_ack => gtp_mbms_dist_ack_ie_member
  | sn_u_sgsn_fteid => gtp_fully_qual_tunn_endpt_idnt_ie_member
  | recovery => gtp_recovery_ie_member
  | priv_ext => gtp_priv_ext_ie_member
  end.

Definition mbms_sess_upd_rsp_sig : signature :=
  Signature mbms_sess_upd_rsp_member mbms_sess_upd_rsp_eq_dec mbms_sess_upd_rsp_type mbms_sess_upd_rsp_ie
    Empty_set no_counter_eq_dec.
Canonical Structure mbms_sess_upd_rsp_sig.

Definition mbms_sess_upd_rsp_t : Type := message mbms_sess_upd_rsp_sig.

Definition encode_mbms_sess_upd_rsp_order : list (visit mbms_sess_upd_rsp_sig) :=
  [One cause; One mbms_dist_ack; One sn_u_sgsn_fteid; One recovery; One priv_ext].

Definition encode_mbms_sess_upd_rsp (value : mbms_sess_upd_rsp_t) (buf : Z) : enc Z :=
  encode_message encode_mbms_sess_upd_rsp_order value buf.

Definition decode_mbms_sess_upd_rsp_table : list (branch mbms_sess_upd_rsp_sig) :=
  [(GTP_IE_CAUSE, Some GTP_IE_INSTANCE_ZERO, Into cause);
   (GTP_IE_MBMS_DIST_ACK, Some GTP_IE_INSTANCE_ZERO, Into mbms_dist_ack);
   (GTP_IE_FULLY_QUAL_TUNN_ENDPT_IDNT, Some GTP_IE_INSTANCE_ZERO, Into sn_u_sgsn_fteid);
   (GTP_IE_RECOVERY, Some GTP_IE_INSTANCE_ZERO, Into recovery);
   (GTP_IE_PRIV_EXT, None, Into priv_ext)].

Definition decode_mbms_sess_upd_rsp (fuel : nat) (m : bytes) (buf : Z) (value : mbms_sess_upd_rsp_t)
  : outcome (Z * mbms_sess_upd_rsp_t) :=
  decode_message decode_mbms_sess_upd_rsp_table [] false fuel m buf value.

End mbms_sess_upd_rsp.

(** ** [mod_bearer_fail_indctn] *)

Module mod_bearer_fail_indctn.

Inductive mod_bearer_fail_indctn_member :=
| cause
| recovery
| indctn_flgs
| pgws_ovrld_ctl_info
| sgws_ovrld_ctl_info
| priv_ext.

Definition mod_bearer_fail_indctn_eq_dec (f g : mod_bearer_fail_indctn_member) : {f = g} + {f <> g}.
Proof. decide equality. Defined.

Definition mod_bearer_fail_indctn_type (f : mod_bearer_fail_indctn_member) : Type :=
  match f with
  | cause => gtp_cause_ie.gtp_cause_ie_t
  | recovery => gtp_recovery_ie.gtp_recovery_ie_t
  | indctn_flgs => gtp_indication_ie.gtp_indication_ie_t
  | pgws_ovrld_ctl_info => gtp_ovrld_ctl_info_ie.gtp_ovrld_ctl_info_ie_t
  | sgws_ovrld_ctl_info => gtp_ovrld_ctl_info_ie.gtp_ovrld_ctl_info_ie_t
  | priv_ext => gtp_priv_ext_ie.gtp_priv_ext_ie_t
  end.

Definition mod_bearer_fail_indctn_ie (f : mod_bearer_fail_indctn_member) : IeMember (mod_bearer_fail_indctn_type f) :=
  match f with
  | cause => gtp_cause_ie_member
  | recovery => gtp_recovery_ie_member
  | indctn_flgs => gtp_indication_ie_member
  | pgws_ovrld_ctl_info => gtp_ovrld_ctl_info_ie_member
  | sgws_ovrld_ctl_info => gtp_ovrld_ctl_info_ie_member
  | priv_ext => gtp_priv_ext_ie_member
  end.

Definition mod_bearer_fail_indctn_sig : signature :=
  Signature mod_bearer_fail_indctn_member mod_bearer_fail_indctn_eq_dec mod_bearer_fail_indctn_type mod_bearer_fail_indctn_ie
    Empty_set no_counter_eq_dec.
Canonical Structure mod_bearer_fail_indctn_sig.

Definition mod_bearer_fail_indctn_t : Type := message mod_bearer_fail_indctn_sig.

Definition encode_mod_bearer_fail_indctn_order : list (visit mod_bearer_fail_indctn_sig) :=
  [One cause; One recovery; One indctn_flgs; One pgws_ovrld_ctl_info; One sgws_ovrld_ctl_info;
   One priv_ext].

Definition encode_mod_bearer_fail_indctn (value : mod_bearer_fail_indctn_t) (buf : Z) : enc Z :=
  encode_message encode_mod_bearer_fail_indctn_order value buf.

Definition decode_mod_bearer_fail_indctn_table : list (branch mod_bearer_fail_indctn_sig) :=
  [(GTP_IE_CAUSE, Some GTP_IE_INSTANCE_ZERO, Into cause);
   (GTP_IE_RECOVERY, Some GTP_IE_INSTANCE_ZERO, Into recovery);
   (GTP_IE_INDICATION, Some GTP_IE_INSTANCE_ZERO, Into indctn_flgs);
   (GTP_IE_OVRLD_CTL_INFO, Some GTP_IE_INSTANCE_ZERO, Into pgws_ovrld_ctl_info);
   (GTP_IE_OVRLD_CTL_INFO, Some GTP_IE_INSTANCE_ONE, Into sgws_ovrld_ctl_info);
   (GTP_IE_PRIV_EXT, None, Into priv_ext)].

Definition decode_mod_bearer_fail_indctn (fuel : nat) (m : bytes) (buf : Z) (value : mod_bearer_fail_indctn_t)
  : outcome (Z * mod_bearer_fail_indctn_t) :=
  decode_message decode_mod_bearer_fail_indctn_table [] false fuel m buf value.

End mod_bearer_fail_indctn.

(** ** [pgw_rstrt_notif_ack] *)

Module pgw_rstrt_notif_ack.

Inductive pgw_rstrt_notif_ack_member :=
| cause
| priv_ext.

Definition pgw_rstrt_notif_ack_eq_dec (f g : pgw_rstrt_notif_ack_member) : {f = g} + {f <> g}.
Proof. decide equality. Defined.

Definition pgw_rstrt_notif_ack_type (f : pgw_rstrt_notif_ack_member) : Type :=
  match f with
  | cause => gtp_cause_ie.gtp_cause_ie_t
  | priv_ext => gtp_priv_ext_ie.gtp_priv_ext_ie_t
  end.

Definition pgw_rstrt_notif_ack_ie (f : pgw_rstrt_notif_ack_member) : IeMember (pgw_rstrt_notif_ack_type f) :=
  match f with
  | cause => gtp_cause_ie_member
  | priv_ext => gtp_priv_ext_ie_member
  end.

Definition pgw_rstrt_notif_ack_sig : signature :=
  Signature pgw_rstrt_notif_ack_member pgw_rstrt_notif_ack_eq_dec pgw_rstrt_notif_ack_type pgw_rstrt_notif_ack_ie
    Empty_set no_counter_eq_dec.
Canonical Structure pgw_rstrt_notif_ack_sig.

Definition pgw_rstrt_notif_ack_t : Type := message pgw_rstrt_notif_ack_sig.

Definition encode_pgw_rstrt_notif_ack_order : list (visit pgw_rstrt_notif_ack_sig) :=
  [One cause; One priv_ext].

Definition encode_pgw_rstrt_notif_ack (value : pgw_rstrt_notif_ack_t) (buf : Z) : enc Z :=
  encode_message encode_pgw_rstrt_notif_ack_order value buf.

Definition decode_pgw_rstrt_notif_ack_table : list (branch pgw_rstrt_notif_ack_sig) :=
  [(GTP_IE_CAUSE, Some GTP_IE_INSTANCE_ZERO, Into cause);
   (GTP_IE_PRIV_EXT, None, Into priv_ext)].

Definition decode_pgw_rstrt_notif_ack (fuel : nat) (m : bytes) (buf : Z) (value : pgw_rstrt_notif_ack_t)
  : outcome (Z * pgw_rstrt_notif_ack_t) :=
  decode_message decode_pgw_rstrt_notif_ack_table [] false fuel m buf value.

End pgw_rstrt_notif_ack.

(** ** [pgw_dnlnk_trigrng_notif] *)

Module pgw_dnlnk_trigrng_notif.

Inductive pgw_dnlnk_trigrng_notif_member :=
| imsi
| mmes4_sgsn_idnt
| pgw_s5_fteid_gtp_or_pmip_ctl_plane
| priv_ext.

Definition pgw_dnlnk_trigrng_notif_eq_dec (f g : pgw_dnlnk_trigrng_notif_member) : {f = g} + {f <> g}.
Proof. decide equality. Defined.

Definition pgw_dnlnk_trigrng_notif_type (f : pgw_dnlnk_trigrng_notif_member) : Type :=
  match f with
  | imsi => gtp_imsi_ie.gtp_imsi_ie_t
  | mmes4_sgsn_idnt => gtp_ip_address_ie.gtp_ip_address_ie_t
  | pgw_s5_fteid_gtp_or_pmip_ctl_plane => gtp_fully_qual_tunn_endpt_idnt_ie.gtp_fully_qual_tunn_endpt_idnt_ie_t
  | priv_ext => gtp_priv_ext_ie.gtp_priv_ext_ie_t
  end.

Definition pgw_dnlnk_trigrng_notif_ie (f : pgw_dnlnk_trigrng_notif_member) : IeMember (pgw_dnlnk_trigrng_notif_type f) :=
  match f with
  | imsi => gtp_imsi_ie_member
  | mmes4_sgsn_idnt => gtp_ip_address_ie_member
  | pgw_s5_fteid_gtp_or_pmip_ctl_plane => gtp_fully_qual_tunn_endpt_idnt_ie_member
  | priv_ext => gtp_priv_ext_ie_member
  end.

Definition pgw_dnlnk_trigrng_notif_sig : signature :=
  Signature pgw_dnlnk_trigrng_notif_member pgw_dnlnk_trigrng_notif_eq_dec pgw_dnlnk_trigrng_notif_type pgw_dnlnk_trigrng_notif_ie
    Empty_set no_counter_eq_dec.
Canonical Structure pgw_dnlnk_trigrng_notif_sig.

Definition pgw_dnlnk_trigrng_notif_t : Type := message pgw_dnlnk_trigrng_notif_sig.

Definition encode_pgw_dnlnk_trigrng_notif_order : list (visit pgw_dnlnk_trigrng_notif_sig) :=
  [One imsi; One mmes4_sgsn_idnt; One pgw_s5_fteid_gtp_or_pmip_ctl_plane; One priv_ext].

Definition encode_pgw_dnlnk_trigrng_notif (value : pgw_dnlnk_trigrng_notif_t) (buf : Z) : enc Z :=
  encode_message encode_pgw_dnlnk_trigrng_notif_order value buf.

Definition decode_pgw_dnlnk_trigrng_notif_table : list (branch pgw_dnlnk_trigrng_notif_sig) :=
  [(GTP_IE_IMSI, Some GTP_IE_INSTANCE_ZERO, Into imsi);
   (GTP_IE_IP_ADDRESS, Some GTP_IE_INSTANCE_ZERO, Into mmes4_sgsn_idnt);
   (GTP_IE_FULLY_QUAL_TUNN_ENDPT_IDNT, Some GTP_IE_INSTANCE_ZERO, Into pgw_s5_fteid_gtp_or_pmip_ctl_plane);
   (GTP_IE_PRIV_EXT, None, Into priv_ext)].

Definition decode_pgw_dnlnk_trigrng_notif (fuel : nat) (m : bytes) (buf : Z) (value : pgw_dnlnk_trigrng_notif_t)
  : outcome (Z * pgw_dnlnk_trigrng_notif_t) :=
  decode_message decode_pgw_dnlnk_trigrng_notif_table [] false fuel m buf value.

End pgw_dnlnk_trigrng_notif.

(** ** [pgw_rstrt_notif] *)

Module pgw_rstrt_notif.

Inductive pgw_rstrt_notif_member :=
| pgw_s5s8_ip_addr_ctl_plane_or_pmip
| sgw_s11s4_ip_addr_ctl_plane
| cause
| priv_ext.

Definition pgw_rstrt_notif_eq_dec (f g : pgw_rstrt_notif_member) : {f = g} + {f <> g}.
Proof. decide equality. Defined.

Definition pgw_rstrt_notif_type (f : pgw_rstrt_notif_member) : Type :=
  match f with
  | pgw_s5s8_ip_addr_ctl_plane_or_pmip => gtp_ip_address_ie.gtp_ip_address_ie_t
  | sgw_s11s4_ip_addr_ctl_plane => gtp_ip_address_ie.gtp_ip_address_ie_t
  | cause => gtp_cause_ie.gtp_cause_ie_t
  | priv_ext => gtp_priv_ext_ie.gtp_priv_ext_ie_t
  end.

Definition pgw_rstrt_notif_ie (f : pgw_rstrt_notif_member) : IeMember (pgw_rstrt_notif_type f) :=
  match f with
  | pgw_s5s8_ip_addr_ctl_plane_or_pmip => gtp_ip_address_ie_member
  | sgw_s11s4_ip_addr_ctl_plane => gtp_ip_address_ie_member
  | cause => gtp_cause_ie_member
  | priv_ext => gtp_priv_ext_ie_member
  end.

Definition pgw_rstrt_notif_sig : signature :=
  Signature pgw_rstrt_notif_member pgw_rstrt_notif_eq_dec pgw_rstrt_notif_type pgw_rstrt_notif_ie
    Empty_set no_counter_eq_dec.
Canonical Structure pgw_rstrt_notif_sig.

Definition pgw_rstrt_notif_t : Type := message pgw_rstrt_notif_sig.

Definition encode_pgw_rstrt_notif_order : list (visit pgw_rstrt_notif_sig) :=
  [One pgw_s5s8_ip_addr_ctl_plane_or_pmip; One sgw_s11s4_ip_addr_ctl_plane; One cause;
   One priv_ext].

Definition encode_pgw_rstrt_notif (value : pgw_rstrt_notif_t) (buf : Z) : enc Z :=
  encode_message encode_pgw_rstrt_notif_order value buf.

Definition decode_pgw_rstrt_notif_table : list (branch pgw_rstrt_notif_sig) :=
  [(GTP_IE_IP_ADDRESS, Some GTP_IE_INSTANCE_ZERO, Into pgw_s5s8_ip_addr_ctl_plane_or_pmip);
   (GTP_IE_IP_ADDRESS, Some GTP_IE_INSTANCE_ONE, Into sgw_s11s4_ip_addr_ctl_plane);
   (GTP_IE_CAUSE, Some GTP_IE_INSTANCE_ZERO, Into cause);
   (GTP_IE_PRIV_EXT, None, Into priv_ext)].

Definition decode_pgw_rstrt_notif (fuel : nat) (m : bytes) (buf : Z) (value : pgw_rstrt_notif_t)
  : outcome (Z * pgw_rstrt_notif_t) :=
  decode_message decode_pgw_rstrt_notif_table [] false fuel m buf value.

End pgw_rstrt_notif.

(** ** [reloc_cncl_req] *)

Module reloc_cncl_req.

Inductive reloc_cncl_req_member :=
| imsi
| mei
| indctn_flgs
| ranap_cause
| priv_ext.

Definition reloc_cncl_req_eq_dec (f g : reloc_cncl_req_member) : {f = g} + {f <> g}.
Proof. decide equality. Defined.

Definition reloc_cncl_req_type (f : reloc_cncl_req_member) : Type :=
  match f with
  | imsi => gtp_imsi_ie.gtp_imsi_ie_t
  | mei => gtp_mbl_equip_idnty_ie.gtp_mbl_equip_idnty_ie_t
  | indctn_flgs => gtp_indication_ie.gtp_indication_ie_t
  | ranap_cause => gtp_full_qual_cause_ie.gtp_full_qual_cause_ie_t
  | priv_ext => gtp_priv_ext_ie.gtp_priv_ext_ie_t
  end.

Definition reloc_cncl_req_ie (f : reloc_cncl_req_member) : IeMember (reloc_cncl_req_type f) :=
  match f with
  | imsi => gtp_imsi_ie_member
  | mei => gtp_mbl_equip_idnty_ie_member
  | indctn_flgs => gtp_indication_ie_member
  | ranap_cause => gtp_full_qual_cause_ie_member
  | priv_ext => gtp_priv_ext_ie_member
  end.

Definition reloc_cncl_req_sig : signature :=
  Signature reloc_cncl_req_member reloc_cncl_req_eq_dec reloc_cncl_req_type reloc_cncl_req_ie
    Empty_set no_counter_eq_dec.
Canonical Structure reloc_cncl_req_sig.

Definition reloc_cncl_req_t : Type := message reloc_cncl_req_sig.

Definition encode_reloc_cncl_req_order : list (visit reloc_cncl_req_sig) :=
  [One imsi; One mei; One indctn_flgs; One ranap_cause; One priv_ext].

Definition encode_reloc_cncl_req (value : reloc_cncl_req_t) (buf : Z) : enc Z :=
  encode_message encode_reloc_cncl_req_order value buf.

Definition decode_reloc_cncl_req_table : list (branch reloc_cncl_req_sig) :=
  [(GTP_IE_IMSI, Some GTP_IE_INSTANCE_ZERO, Into imsi);
   (GTP_IE_MBL_EQUIP_IDNTY, Some GTP_IE_INSTANCE_ZERO, Into mei);
   (GTP_IE_INDICATION, Some GTP_IE_INSTANCE_ZERO, Into indctn_flgs);
   (GTP_IE_FULL_QUAL_CAUSE, Some GTP_IE_INSTANCE_ZERO, Into ranap_cause);
   (GTP_IE_PRIV_EXT, None, Into priv_ext)].

Definition decode_reloc_cncl_req (fuel : nat) (m : bytes) (buf : Z) (value : reloc_cncl_req_t)
  : outcome (Z * reloc_cncl_req_t) :=
  decode_message decode_reloc_cncl_req_table [] false fuel m buf value.

End reloc_cncl_req.

(** ** [upd_bearer_rsp] *)

Module upd_bearer_rsp.

Inductive upd_bearer_rsp_member :=
| cause
| bearer_contexts (i : nat)
| pco
| recovery
| mme_fqcsid
| sgw_fqcsid
| epdg_fqcsid
| twan_fqcsid
| indctn_flgs
| ue_time_zone
| uli
| twan_identifier
| mmes4_sgsns_ovrld_ctl_info
| sgws_ovrld_ctl_info
| pres_rptng_area_info
| mmes4_sgsn_idnt
| twanepdgs_ovrld_ctl_info
| wlan_loc_info
| wlan_loc_ts
| ue_local_ip_addr
| ue_udp_port
| nbifom_cntnr
| ue_tcp_port
| priv_ext.

Definition upd_bearer_rsp_eq_dec (f g : upd_bearer_rsp_member) : {f = g} + {f <> g}.
Proof. decide equality; apply Nat.eq_dec. Defined.

Definition upd_bearer_rsp_type (f : upd_bearer_rsp_member) : Type :=
  match f with
  | cause => gtp_cause_ie.gtp_cause_ie_t
  | bearer_contexts _ => gtp_upd_bearer_response__bearer_ctxt_ie.gtp_upd_bearer_response__bearer_ctxt_ie_t
  | pco => gtp_prot_cfg_opts_ie.gtp_prot_cfg_opts_ie_t
  | recovery => gtp_recovery_ie.gtp_recovery_ie_t
  | mme_fqcsid => gtp_fqcsid_ie.gtp_fqcsid_ie_t
  | sgw_fqcsid => gtp_fqcsid_ie.gtp_fqcsid_ie_t
  | epdg_fqcsid => gtp_fqcsid_ie.gtp_fqcsid_ie_t
  | twan_fqcsid => gtp_fqcsid_ie.gtp_fqcsid_ie_t
  | indctn_flgs => gtp_indication_ie.gtp_indication_ie_t
  | ue_time_zone => gtp_ue_time_zone_ie.gtp_ue_time_zone_ie_t
  | uli => gtp_user_loc_info_ie.gtp_user_loc_info_ie_t
  | twan_identifier => gtp_twan_identifier_ie.gtp_twan_identifier_ie_t
  | mmes4_sgsns_ovrld_ctl_info => gtp_ovrld_ctl_info_ie.gtp_ovrld_ctl_info_ie_t
  | sgws_ovrld_ctl_info => gtp_ovrld_ctl_info_ie.gtp_ovrld_ctl_info_ie_t
  | pres_rptng_area_info => gtp_pres_rptng_area_info_ie.gtp_pres_rptng_area_info_ie_t
  | mmes4_sgsn_idnt => gtp_ip_address_ie.gtp_ip_address_ie_t
  | twanepdgs_ovrld_ctl_info => gtp_ovrld_ctl_info_ie.gtp_ovrld_ctl_info_ie_t
  | wlan_loc_info => gtp_twan_identifier_ie.gtp_twan_identifier_ie_t
  | wlan_loc_ts => gtp_twan_idnt_ts_ie.gtp_twan_idnt_ts_ie_t
  | ue_local_ip_addr => gtp_ip_address_ie.gtp_ip_address_ie_t
  | ue_udp_port => gtp_port_number_ie.gtp_port_number_ie_t
  | nbifom_cntnr => gtp_full_qual_cntnr_ie.gtp_full_qual_cntnr_ie_t
  | ue_tcp_port => gtp_port_number_ie.gtp_port_number_ie_t
  | priv_ext => gtp_priv_ext_ie.gtp_priv_ext_ie_t
  end.

Definition upd_bearer_rsp_ie (f : upd_bearer_rsp_member) : IeMember (upd_bearer_rsp_type f) :=
  match f with
  | cause => gtp_cause_ie_member
  | bearer_contexts _ => gtp_upd_bearer_response__bearer_ctxt_ie.gtp_upd_bearer_response__bearer_ctxt_ie_member_ie
  | pco => gtp_prot_cfg_opts_ie_member
  | recovery => gtp_recovery_ie_member
  | mme_fqcsid => gtp_fqcsid_ie_member
  | sgw_fqcsid => gtp_fqcsid_ie_member
  | epdg_fqcsid => gtp_fqcsid_ie_member
  | twan_fqcsid => gtp_fqcsid_ie_member
  | indctn_flgs => gtp_indication_ie_member
  | ue_time_zone => gtp_ue_time_zone_ie_member
  | uli => gtp_user_loc_info_ie_member
  | twan_identifier => gtp_twan_identifier_ie_member
  | mmes4_sgsns_ovrld_ctl_info => gtp_ovrld_ctl_info_ie_member
  | sgws_ovrld_ctl_info => gtp_ovrld_ctl_info_ie_member
  | pres_rptng_area_info => gtp_pres_rptng_area_info_ie_member
  | mmes4_sgsn_idnt => gtp_ip_address_ie_member
  | twanepdgs_ovrld_ctl_info => gtp_ovrld_ctl_info_ie_member
  | wlan_loc_info => gtp_twan_identifier_ie_member
  | wlan_loc_ts => gtp_twan_idnt_ts_ie_member
  | ue_local_ip_addr => gtp_ip_address_ie_member
  | ue_udp_port => gtp_port_number_ie_member
  | nbifom_cntnr => gtp_full_qual_cntnr_ie_member
  | ue_tcp_port => gtp_port_number_ie_member
  | priv_ext => gtp_priv_ext_ie_member
  end.

Inductive upd_bearer_rsp_counter := bearer_context_count.

Definition upd_bearer_rsp_counter_eq_dec (c d : upd_bearer_rsp_counter) : {c = d} + {c <> d}.
Proof. decide equality. Defined.

Definition upd_bearer_rsp_sig : signature :=
  Signature upd_bearer_rsp_member upd_bearer_rsp_eq_dec upd_bearer_rsp_type upd_bearer_rsp_ie
    upd_bearer_rsp_counter upd_bearer_rsp_counter_eq_dec.
Canonical Structure upd_bearer_rsp_sig.

Definition upd_bearer_rsp_t : Type := message upd_bearer_rsp_sig.

Definition encode_upd_bearer_rsp_order : list (visit upd_bearer_rsp_sig) :=
  [One cause;
   Many (S := upd_bearer_rsp_sig) (fun n => n bearer_context_count) bearer_contexts (Z.to_nat MAX_BEARERS_PER_UE);
   One pco; One recovery; One mme_fqcsid; One sgw_fqcsid; One epdg_fqcsid; One twan_fqcsid;
   One indctn_flgs; One ue_time_zone; One uli; One twan_identifier;
   One mmes4_sgsns_ovrld_ctl_info; One sgws_ovrld_ctl_info; One pres_rptng_area_info;
   One mmes4_sgsn_idnt; One twanepdgs_ovrld_ctl_info; One wlan_loc_info; One wlan_loc_ts;
   One ue_local_ip_addr; One ue_udp_port; One nbifom_cntnr; One ue_tcp_port; One priv_ext].

Definition encode_upd_bearer_rsp (value : upd_bearer_rsp_t) (buf : Z) : enc Z :=
  encode_message encode_upd_bearer_rsp_order value buf.

Definition decode_upd_bearer_rsp_table : list (branch upd_bearer_rsp_sig) :=
  [(GTP_IE_CAUSE, Some GTP_IE_INSTANCE_ZERO, Into cause);
   (GTP_IE_BEARER_CONTEXT, Some GTP_IE_INSTANCE_ZERO, Next (S := upd_bearer_rsp_sig) bearer_context_count bearer_contexts MAX_BEARERS_PER_UE);
   (GTP_IE_PROT_CFG_OPTS, Some GTP_IE_INSTANCE_ZERO, Into pco);
   (GTP_IE_RECOVERY, Some GTP_IE_INSTANCE_ZERO, Into recovery);
   (GTP_IE_FQCSID, Some GTP_IE_INSTANCE_ZERO, Into mme_fqcsid);
   (GTP_IE_FQCSID, Some GTP_IE_INSTANCE_ONE, Into sgw_fqcsid);
   (GTP_IE_FQCSID, Some GTP_IE_INSTANCE_TWO, Into epdg_fqcsid);
   (GTP_IE_FQCSID, Some GTP_IE_INSTANCE_THREE, Into twan_fqcsid);
   (GTP_IE_INDICATION, Some GTP_IE_INSTANCE_ZERO, Into indctn_flgs);
   (GTP_IE_UE_TIME_ZONE, Some GTP_IE_INSTANCE_ZERO, Into ue_time_zone);
   (GTP_IE_USER_LOC_INFO, Some GTP_IE_INSTANCE_ZERO, Into uli);
   (GTP_IE_TWAN_IDENTIFIER, Some GTP_IE_INSTANCE_ZERO, Into twan_identifier);
   (GTP_IE_OVRLD_CTL_INFO, Some GTP_IE_INSTANCE_ZERO, Into mmes4_sgsns_ovrld_ctl_info);
   (GTP_IE_OVRLD_CTL_INFO, Some GTP_IE_INSTANCE_ONE, Into sgws_ovrld_ctl_info);
   (GTP_IE_PRES_RPTNG_AREA_INFO, Some GTP_IE_INSTANCE_ZERO, Into pres_rptng_area_info);
   (GTP_IE_IP_ADDRESS, Some GTP_IE_INSTANCE_ZERO, Into mmes4_sgsn_idnt);
   (GTP_IE_OVRLD_CTL_INFO, Some GTP_IE_INSTANCE_TWO, Into twanepdgs_ovrld_ctl_info);
   (GTP_IE_TWAN_IDENTIFIER, Some GTP_IE_INSTANCE_ONE, Into wlan_loc_info);
   (GTP_IE_TWAN_IDNT_TS, Some GTP_IE_INSTANCE_ONE, Into wlan_loc_ts);
   (GTP_IE_IP_ADDRESS, Some GTP_IE_INSTANCE_ZERO, Into ue_local_ip_addr);
   (GTP_IE_PORT_NUMBER, Some GTP_IE_INSTANCE_ZERO, Into ue_udp_port);
   (GTP_IE_FULL_QUAL_CNTNR, Some GTP_IE_INSTANCE_ZERO, Into nbifom_cntnr);
   (GTP_IE_PORT_NUMBER, Some GTP_IE_INSTANCE_ONE, Into ue_tcp_port);
   (GTP_IE_PRIV_EXT, None, Into priv_ext)].

Definition decode_upd_bearer_rsp (fuel : nat) (m : bytes) (buf : Z) (value : upd_bearer_rsp_t)
  : outcome (Z * upd_bearer_rsp_t) :=
  decode_message decode_upd_bearer_rsp_table [] false fuel m buf value.

End upd_bearer_rsp.

(** ** [mbms_sess_stop_req] *)

Module mbms_sess_stop_req.

Inductive mbms_sess_stop_req_member :=
| mbms_flow_idnt
| mbms_data_xfer_stop
| mbms_flags
| priv_ext.

Definition mbms_sess_stop_req_eq_dec (f g : mbms_sess_stop_req_member) : {f = g} + {f <> g}.
Proof. decide equality. Defined.

Definition mbms_sess_stop_req_type (f : mbms_sess_stop_req_member) : Type :=
  match f with
  | mbms_flow_idnt => gtp_mbms_flow_idnt_ie.gtp_mbms_flow_idnt_ie_t
  | mbms_data_xfer_stop => gtp_mbms_data_xfer_abs_time_ie.gtp_mbms_data_xfer_abs_time_ie_t
  | mbms_flags => gtp_mbms_flags_ie.gtp_mbms_flags_ie_t
  | priv_ext => gtp_priv_ext_ie.gtp_priv_ext_ie_t
  end.

Definition mbms_sess_stop_req_ie (f : mbms_sess_stop_req_member) : IeMember (mbms_sess_stop_req_type f) :=
  match f with
  | mbms_flow_idnt => gtp_mbms_flow_idnt_ie_member
  | mbms_data_xfer_stop => gtp_mbms_data_xfer_abs_time_ie_member
  | mbms_flags => gtp_mbms_flags_ie_member
  | priv_ext => gtp_priv_ext_ie_member
  end.

Definition mbms_sess_stop_req_sig : signature :=
  Signature mbms_sess_stop_req_member mbms_sess_stop_req_eq_dec mbms_sess_stop_req_type mbms_sess_stop_req_ie
    Empty_set no_counter_eq_dec.
Canonical Structure mbms_sess_stop_req_sig.

Definition mbms_sess_stop_req_t : Type := message mbms_sess_stop_req_sig.

Definition encode_mbms_sess_stop_req_order : list (visit mbms_sess_stop_req_sig) :=
  [One mbms_flow_idnt; One mbms_data_xfer_stop; One mbms_flags; One priv_ext].

Definition encode_mbms_sess_stop_req (value : mbms_sess_stop_req_t) (buf : Z) : enc Z :=
  encode_message encode_mbms_sess_stop_req_order value buf.

Definition decode_mbms_sess_stop_req_table : list (branch mbms_sess_stop_req_sig) :=
  [(GTP_IE_MBMS_FLOW_IDNT, Some GTP_IE_INSTANCE_ZERO, Into mbms_flow_idnt);
   (GTP_IE_MBMS_DATA_XFER_ABS_TIME, Some GTP_IE_INSTANCE_ZERO, Into mbms_data_xfer_stop);
   (GTP_IE_MBMS_FLAGS, Some GTP_IE_INSTANCE_ZERO, Into mbms_flags);
   (GTP_IE_PRIV_EXT, None, Into priv_ext)].

Definition decode_mbms_sess_stop_req (fuel : nat) (m : bytes) (buf : Z) (value : mbms_sess_stop_req_t)
  : outcome (Z * mbms_sess_stop_req_t) :=
  decode_message decode_mbms_sess_stop_req_table [] false fuel m buf value.

End mbms_sess_stop_req.
