(* ===== verification/GtpMessages2.v ===== *)
(** The messages of libgtpv2c, part 2 of 2.

    Each structure of gtp_messages.h is a module: the members, their types, the
    order in which [encode_X] (gtp_messages_encoder.c) visits them, and the
    table of branches of [decode_X] (gtp_messages_decoder.c). *)

From Stdlib Require Import ZArith List Arith.
From S2P Require Import Prelude WireFormat IeFormat GtpDefs.
From S2P Require Import GtpIes1 GtpIes2 GtpIes3 GtpIesVar GtpIesSub GtpImsi.
From S2P Require Import GtpMessage GtpGrouped GtpMembers GtpGroupedIes.
Import ListNotations.
Open Scope Z_scope.

(** ** [del_pdn_conn_set_req] *)

Module del_pdn_conn_set_req.

Inductive del_pdn_conn_set_req_member :=
| mme_fqcsid
| sgw_fqcsid
| pgw_fqcsid
| epdg_fqcsid
| twan_fqcsid
| priv_ext.

Definition del_pdn_conn_set_req_eq_dec (f g : del_pdn_conn_set_req_member) : {f = g} + {f <> g}.
Proof. decide equality. Defined.

Definition del_pdn_conn_set_req_type (f : del_pdn_conn_set_req_member) : Type :=
  match f with
  | mme_fqcsid => gtp_fqcsid_ie.gtp_fqcsid_ie_t
  | sgw_fqcsid => gtp_fqcsid_ie.gtp_fqcsid_ie_t
  | pgw_fqcsid => gtp_fqcsid_ie.gtp_fqcsid_ie_t
  | epdg_fqcsid => gtp_fqcsid_ie.gtp_fqcsid_ie_t
  | twan_fqcsid => gtp_fqcsid_ie.gtp_fqcsid_ie_t
  | priv_ext => gtp_priv_ext_ie.gtp_priv_ext_ie_t
  end.

Definition del_pdn_conn_set_req_ie (f : del_pdn_conn_set_req_member) : IeMember (del_pdn_conn_set_req_type f) :=
  match f with
  | mme_fqcsid => gtp_fqcsid_ie_member
  | sgw_fqcsid => gtp_fqcsid_ie_member
  | pgw_fqcsid => gtp_fqcsid_ie_member
  | epdg_fqcsid => gtp_fqcsid_ie_member
  | twan_fqcsid => gtp_fqcsid_ie_member
  | priv_ext => gtp_priv_ext_ie_member
  end.

Definition del_pdn_conn_set_req_sig : signature :=
  Signature del_pdn_conn_set_req_member del_pdn_conn_set_req_eq_dec del_pdn_conn_set_req_type del_pdn_conn_set_req_ie
    Empty_set no_counter_eq_dec.
Canonical Structure del_pdn_conn_set_req_sig.

Definition del_pdn_conn_set_req_t : Type := message del_pdn_conn_set_req_sig.

Definition encode_del_pdn_conn_set_req_order : list (visit del_pdn_conn_set_req_sig) :=
  [One mme_fqcsid; One sgw_fqcsid; One pgw_fqcsid; One priv_ext].

Definition encode_del_pdn_conn_set_req (value : del_pdn_conn_set_req_t) (buf : Z) : enc Z :=
  encode_message encode_del_pdn_conn_set_req_order value buf.

Definition decode_del_pdn_conn_set_req_table : list (branch del_pdn_conn_set_req_sig) :=
  [(GTP_IE_FQCSID, Some GTP_IE_INSTANCE_ZERO, Into mme_fqcsid);
   (GTP_IE_FQCSID, Some GTP_IE_INSTANCE_ONE, Into sgw_fqcsid);
   (GTP_IE_FQCSID, Some GTP_IE_INSTANCE_TWO, Into pgw_fqcsid);
   (GTP_IE_FQCSID, Some GTP_IE_INSTANCE_THREE, Into epdg_fqcsid);
   (GTP_IE_FQCSID, Some GTP_IE_INSTANCE_FOUR, Into twan_fqcsid);
   (GTP_IE_PRIV_EXT, None, Into priv_ext)].

Definition decode_del_pdn_conn_set_req (fuel : nat) (m : bytes) (buf : Z) (value : del_pdn_conn_set_req_t)
  : outcome (Z * del_pdn_conn_set_req_t) :=
  decode_message decode_del_pdn_conn_set_req_table [] false fuel m buf value.

End del_pdn_conn_set_req.

(** ** [del_pdn_conn_set_rsp] *)

Module del_pdn_conn_set_rsp.

Inductive del_pdn_conn_set_rsp_member :=
| cause
| recovery
| priv_ext.

Definition del_pdn_conn_set_rsp_eq_dec (f g : del_pdn_conn_set_rsp_member) : {f = g} + {f <> g}.
Proof. decide equality. Defined.

Definition del_pdn_conn_set_rsp_type (f : del_pdn_conn_set_rsp_member) : Type :=
  match f with
  | cause => gtp_cause_ie.gtp_cause_ie_t
  | recovery => gtp_recovery_ie.gtp_recovery_ie_t
  | priv_ext => gtp_priv_ext_ie.gtp_priv_ext_ie_t
  end.

Definition del_pdn_conn_set_rsp_ie (f : del_pdn_conn_set_rsp_member) : IeMember (del_pdn_conn_set_rsp_type f) :=
  match f with
  | cause => gtp_cause_ie_member
  | recovery => gtp_recovery_ie_member
  | priv_ext => gtp_priv_ext_ie_member
  end.

Definition del_pdn_conn_set_rsp_sig : signature :=
  Signature del_pdn_conn_set_rsp_member del_pdn_conn_set_rsp_eq_dec del_pdn_conn_set_rsp_type del_pdn_conn_set_rsp_ie
    Empty_set no_counter_eq_dec.
Canonical Structure del_pdn_conn_set_rsp_sig.

Definition del_pdn_conn_set_rsp_t : Type := message del_pdn_conn_set_rsp_sig.

Definition encode_del_pdn_conn_set_rsp_order : list (visit del_pdn_conn_set_rsp_sig) :=
  [One cause; One recovery; One priv_ext].

Definition encode_del_pdn_conn_set_rsp (value : del_pdn_conn_set_rsp_t) (buf : Z) : enc Z :=
  encode_message encode_del_pdn_conn_set_rsp_order value buf.

Definition decode_del_pdn_conn_set_rsp_table : list (branch del_pdn_conn_set_rsp_sig) :=
  [(GTP_IE_CAUSE, Some GTP_IE_INSTANCE_ZERO, Into cause);
   (GTP_IE_RECOVERY, Some GTP_IE_INSTANCE_ZERO, Into recovery);
   (GTP_IE_PRIV_EXT, None, Into priv_ext)].

Definition decode_del_pdn_conn_set_rsp (fuel : nat) (m : bytes) (buf : Z) (value : del_pdn_conn_set_rsp_t)
  : outcome (Z * del_pdn_conn_set_rsp_t) :=
  decode_message decode_del_pdn_conn_set_rsp_table [] false fuel m buf value.

End del_pdn_conn_set_rsp.

(** ** [fwd_acc_ctxt_notif] *)

Module fwd_acc_ctxt_notif.

Inductive fwd_acc_ctxt_notif_member :=
| rab_contexts
| src_rnc_pdcp_ctxt_info
| pdu_numbers
| e_utran_transparent_cntnr
| priv_ext.

Definition fwd_acc_ctxt_notif_eq_dec (f g : fwd_acc_ctxt_notif_member) : {f = g} + {f <> g}.
Proof. decide equality. Defined.

Definition fwd_acc_ctxt_notif_type (f : fwd_acc_ctxt_notif_member) : Type :=
  match f with
  | rab_contexts => gtp_rab_context_ie.gtp_rab_context_ie_t
  | src_rnc_pdcp_ctxt_info => gtp_src_rnc_pdcp_ctxt_info_ie.gtp_src_rnc_pdcp_ctxt_info_ie_t
  | pdu_numbers => gtp_pdu_numbers_ie.gtp_pdu_numbers_ie_t
  | e_utran_transparent_cntnr => gtp_full_qual_cntnr_ie.gtp_full_qual_cntnr_ie_t
  | priv_ext => gtp_priv_ext_ie.gtp_priv_ext_ie_t
  end.

Definition fwd_acc_ctxt_notif_ie (f : fwd_acc_ctxt_notif_member) : IeMember (fwd_acc_ctxt_notif_type f) :=
  match f with
  | rab_contexts => gtp_rab_context_ie_member
  | src_rnc_pdcp_ctxt_info => gtp_src_rnc_pdcp_ctxt_info_ie_member
  | pdu_numbers => gtp_pdu_numbers_ie_member
  | e_utran_transparent_cntnr => gtp_full_qual_cntnr_ie_member
  | priv_ext => gtp_priv_ext_ie_member
  end.

Definition fwd_acc_ctxt_notif_sig : signature :=
  Signature fwd_acc_ctxt_notif_member fwd_acc_ctxt_notif_eq_dec fwd_acc_ctxt_notif_type fwd_acc_ctxt_notif_ie
    Empty_set no_counter_eq_dec.
Canonical Structure fwd_acc_ctxt_notif_sig.

Definition fwd_acc_ctxt_notif_t : Type := message fwd_acc_ctxt_notif_sig.

Definition encode_fwd_acc_ctxt_notif_order : list (visit fwd_acc_ctxt_notif_sig) :=
  [One rab_contexts; One src_rnc_pdcp_ctxt_info; One pdu_numbers; One e_utran_transparent_cntnr;
   One priv_ext].

Definition encode_fwd_acc_ctxt_notif (value : fwd_acc_ctxt_notif_t) (buf : Z) : enc Z :=
  encode_message encode_fwd_acc_ctxt_notif_order value buf.

Definition decode_fwd_acc_ctxt_notif_table : list (branch fwd_acc_ctxt_notif_sig) :=
  [(GTP_IE_RAB_CONTEXT, Some GTP_IE_INSTANCE_ZERO, Into rab_contexts);
   (GTP_IE_SRC_RNC_PDCP_CTXT_INFO, Some GTP_IE_INSTANCE_ZERO, Into src_rnc_pdcp_ctxt_info);
   (GTP_IE_PDU_NUMBERS, Some GTP_IE_INSTANCE_ZERO, Into pdu_numbers);
   (GTP_IE_FULL_QUAL_CNTNR, Some GTP_IE_INSTANCE_ZERO, Into e_utran_transparent_cntnr);
   (GTP_IE_PRIV_EXT, None, Into priv_ext)].

Definition decode_fwd_acc_ctxt_notif (fuel : nat) (m : bytes) (buf : Z) (value : fwd_acc_ctxt_notif_t)
  : outcome (Z * fwd_acc_ctxt_notif_t) :=
  decode_message decode_fwd_acc_ctxt_notif_table [] false fuel m buf value.

End fwd_acc_ctxt_notif.

(** ** [ctxt_ack] *)

Module ctxt_ack.

Inductive ctxt_ack_member :=
| cause
| indctn_flgs
| fwdng_fteid
| bearer_contexts
| sgsn_number
| mme_nbr_mt_sms
| sgsn_idnt_mt_sms
| mme_idnt_mt_sms
| priv_ext.

Definition ctxt_ack_eq_dec (f g : ctxt_ack_member) : {f = g} + {f <> g}.
Proof. decide equality. Defined.

Definition ctxt_ack_type (f : ctxt_ack_member) : Type :=
  match f with
  | cause => gtp_cause_ie.gtp_cause_ie_t
  | indctn_flgs => gtp_indication_ie.gtp_indication_ie_t
  | fwdng_fteid => gtp_fully_qual_tunn_endpt_idnt_ie.gtp_fully_qual_tunn_endpt_idnt_ie_t
  | bearer_contexts => gtp_bearer_context_ie.gtp_bearer_context_ie_t
  | sgsn_number => gtp_node_number_ie.gtp_node_number_ie_t
  | mme_nbr_mt_sms => gtp_node_number_ie.gtp_node_number_ie_t
  | sgsn_idnt_mt_sms => gtp_node_identifier_ie.gtp_node_identifier_ie_t
  | mme_idnt_mt_sms => gtp_node_identifier_ie.gtp_node_identifier_ie_t
  | priv_ext => gtp_priv_ext_ie.gtp_priv_ext_ie_t
  end.

Definition ctxt_ack_ie (f : ctxt_ack_member) : IeMember (ctxt_ack_type f) :=
  match f with
  | cause => gtp_cause_ie_member
  | indctn_flgs => gtp_indication_ie_member
  | fwdng_fteid => gtp_fully_qual_tunn_endpt_idnt_ie_member
  | bearer_contexts => gtp_bearer_context_ie_member
  | sgsn_number => gtp_node_number_ie_member
  | mme_nbr_mt_sms => gtp_node_number_ie_member
  | sgsn_idnt_mt_sms => gtp_node_identifier_ie_member
  | mme_idnt_mt_sms => gtp_node_identifier_ie_member
  | priv_ext => gtp_priv_ext_ie_member
  end.

Definition ctxt_ack_sig : signature :=
  Signature ctxt_ack_member ctxt_ack_eq_dec ctxt_ack_type ctxt_ack_ie
    Empty_set no_counter_eq_dec.
Canonical Structure ctxt_ack_sig.

Definition ctxt_ack_t : Type := message ctxt_ack_sig.

Definition encode_ctxt_ack_order : list (visit ctxt_ack_sig) :=
  [One cause; One indctn_flgs; One fwdng_fteid; One bearer_contexts; One sgsn_number;
   One mme_nbr_mt_sms; One sgsn_idnt_mt_sms; One mme_idnt_mt_sms; One priv_ext].

Definition encode_ctxt_ack (value : ctxt_ack_t) (buf : Z) : enc Z :=
  encode_message encode_ctxt_ack_order value buf.

Definition decode_ctxt_ack_table : list (branch ctxt_ack_sig) :=
  [(GTP_IE_CAUSE, Some GTP_IE_INSTANCE_ZERO, Into cause);
   (GTP_IE_INDICATION, Some GTP_IE_INSTANCE_ZERO, Into indctn_flgs);
   (GTP_IE_FULLY_QUAL_TUNN_ENDPT_IDNT, Some GTP_IE_INSTANCE_ZERO, Into fwdng_fteid);
   (GTP_IE_BEARER_CONTEXT, Some GTP_IE_INSTANCE_ZERO, Into bearer_contexts);
   (GTP_IE_NODE_NUMBER, Some GTP_IE_INSTANCE_ZERO, Into sgsn_number);
   (GTP_IE_NODE_NUMBER, Some GTP_IE_INSTANCE_ONE, Into mme_nbr_mt_sms);
   (GTP_IE_NODE_IDENTIFIER, Some GTP_IE_INSTANCE_ZERO, Into sgsn_idnt_mt_sms);
   (GTP_IE_NODE_IDENTIFIER, Some GTP_IE_INSTANCE_ONE, Into mme_idnt_mt_sms);
   (GTP_IE_PRIV_EXT, None, Into priv_ext)].

Definition decode_ctxt_ack (fuel : nat) (m : bytes) (buf : Z) (value : ctxt_ack_t)
  : outcome (Z * ctxt_ack_t) :=
  decode_message decode_ctxt_ack_table [] false fuel m buf value.

End ctxt_ack.

(** ** [alert_mme_ack] *)

Module alert_mme_ack.

Inductive alert_mme_ack_member :=
| cause
| priv_ext.

Definition alert_mme_ack_eq_dec (f g : alert_mme_ack_member) : {f = g} + {f <> g}.
Proof. decide equality. Defined.

Definition alert_mme_ack_type (f : alert_mme_ack_member) : Type :=
  match f with
  | cause => gtp_cause_ie.gtp_cause_ie_t
  | priv_ext => gtp_priv_ext_ie.gtp_priv_ext_ie_t
  end.

Definition alert_mme_ack_ie (f : alert_mme_ack_member) : IeMember (alert_mme_ack_type f) :=
  match f with
  | cause => gtp_cause_ie_member
  | priv_ext => gtp_priv_ext_ie_member
  end.

Definition alert_mme_ack_sig : signature :=
  Signature alert_mme_ack_member alert_mme_ack_eq_dec alert_mme_ack_type alert_mme_ack_ie
    Empty_set no_counter_eq_dec.
Canonical Structure alert_mme_ack_sig.

Definition alert_mme_ack_t : Type := message alert_mme_ack_sig.

Definition encode_alert_mme_ack_order : list (visit alert_mme_ack_sig) :=
  [One cause; One priv_ext].

Definition encode_alert_mme_ack (value : alert_mme_ack_t) (buf : Z) : enc Z :=
  encode_message encode_alert_mme_ack_order value buf.

Definition decode_alert_mme_ack_table : list (branch alert_mme_ack_sig) :=
  [(GTP_IE_CAUSE, Some GTP_IE_INSTANCE_ZERO, Into cause);
   (GTP_IE_PRIV_EXT, None, Into priv_ext)].

Definition decode_alert_mme_ack (fuel : nat) (m : bytes) (buf : Z) (value : alert_mme_ack_t)
  : outcome (Z * alert_mme_ack_t) :=
  decode_message decode_alert_mme_ack_table [] false fuel m buf value.

End alert_mme_ack.

(** ** [dnlnk_data_notif_fail_indctn] *)

Module dnlnk_data_notif_fail_indctn.

Inductive dnlnk_data_notif_fail_indctn_member :=
| cause
| originating_node
| imsi
| priv_ext.

Definition dnlnk_data_notif_fail_indctn_eq_dec (f g : dnlnk_data_notif_fail_indctn_member) : {f = g} + {f <> g}.
Proof. decide equality. Defined.

Definition dnlnk_data_notif_fail_indctn_type (f : dnlnk_data_notif_fail_indctn_member) : Type :=
  match f with
  | cause => gtp_cause_ie.gtp_cause_ie_t
  | originating_node => gtp_node_type_ie.gtp_node_type_ie_t
  | imsi => gtp_imsi_ie.gtp_imsi_ie_t
  | priv_ext => gtp_priv_ext_ie.gtp_priv_ext_ie_t
  end.

Definition dnlnk_data_notif_fail_indctn_ie (f : dnlnk_data_notif_fail_indctn_member) : IeMember (dnlnk_data_notif_fail_indctn_type f) :=
  match f with
  | cause => gtp_cause_ie_member
  | originating_node => gtp_node_type_ie_member
  | imsi => gtp_imsi_ie_member
  | priv_ext => gtp_priv_ext_ie_member
  end.

Definition dnlnk_data_notif_fail_indctn_sig : signature :=
  Signature dnlnk_data_notif_fail_indctn_member dnlnk_data_notif_fail_indctn_eq_dec dnlnk_data_notif_fail_indctn_type dnlnk_data_notif_fail_indctn_ie
    Empty_set no_counter_eq_dec.
Canonical Structure dnlnk_data_notif_fail_indctn_sig.

Definition dnlnk_data_notif_fail_indctn_t : Type := message dnlnk_data_notif_fail_indctn_sig.

Definition encode_dnlnk_data_notif_fail_indctn_order : list (visit dnlnk_data_notif_fail_indctn_sig) :=
  [One cause; One originating_node; One imsi; One priv_ext].

Definition encode_dnlnk_data_notif_fail_indctn (value : dnlnk_data_notif_fail_indctn_t) (buf : Z) : enc Z :=
  encode_message encode_dnlnk_data_notif_fail_indctn_order value buf.

Definition decode_dnlnk_data_notif_fail_indctn_table : list (branch dnlnk_data_notif_fail_indctn_sig) :=
  [(GTP_IE_CAUSE, Some GTP_IE_INSTANCE_ZERO, Into cause);
   (GTP_IE_NODE_TYPE, Some GTP_IE_INSTANCE_ZERO, Into originating_node);
   (GTP_IE_IMSI, Some GTP_IE_INSTANCE_ZERO, Into imsi);
   (GTP_IE_PRIV_EXT, None, Into priv_ext)].

Definition decode_dnlnk_data_notif_fail_indctn (fuel : nat) (m : bytes) (buf : Z) (value : dnlnk_data_notif_fail_indctn_t)
  : outcome (Z * dnlnk_data_notif_fail_indctn_t) :=
  decode_message decode_dnlnk_data_notif_fail_indctn_table [] false fuel m buf value.

End dnlnk_data_notif_fail_indctn.

(** ** [ue_actvty_ack] *)

Module ue_actvty_ack.

Inductive ue_actvty_ack_member :=
| cause
| priv_ext.

Definition ue_actvty_ack_eq_dec (f g : ue_actvty_ack_member) : {f = g} + {f <> g}.
Proof. decide equality. Defined.

Definition ue_actvty_ack_type (f : ue_actvty_ack_member) : Type :=
  match f with
  | cause => gtp_cause_ie.gtp_cause_ie_t
  | priv_ext => gtp_priv_ext_ie.gtp_priv_ext_ie_t
  end.

Definition ue_actvty_ack_ie (f : ue_actvty_ack_member) : IeMember (ue_actvty_ack_type f) :=
  match f with
  | cause => gtp_cause_ie_member
  | priv_ext => gtp_priv_ext_ie_member
  end.

Definition ue_actvty_ack_sig : signature :=
  Signature ue_actvty_ack_member ue_actvty_ack_eq_dec ue_actvty_ack_type ue_actvty_ack_ie
    Empty_set no_counter_eq_dec.
Canonical Structure ue_actvty_ack_sig.

Definition ue_actvty_ack_t : Type := message ue_actvty_ack_sig.

Definition encode_ue_actvty_ack_order : list (visit ue_actvty_ack_sig) :=
  [One cause; One priv_ext].

Definition encode_ue_actvty_ack (value : ue_actvty_ack_t) (buf : Z) : enc Z :=
  encode_message encode_ue_actvty_ack_order value buf.

Definition decode_ue_actvty_ack_table : list (branch ue_actvty_ack_sig) :=
  [(GTP_IE_CAUSE, Some GTP_IE_INSTANCE_ZERO, Into cause);
   (GTP_IE_PRIV_EXT, None, Into priv_ext)].

Definition decode_ue_actvty_ack (fuel : nat) (m : bytes) (buf : Z) (value : ue_actvty_ack_t)
  : outcome (Z * ue_actvty_ack_t) :=
  decode_message decode_ue_actvty_ack_table [] false fuel m buf value.

End ue_actvty_ack.

(** ** [trc_sess_deact] *)

Module trc_sess_deact.

Inductive trc_sess_deact_member :=
| trace_reference.

Definition trc_sess_deact_eq_dec (f g : trc_sess_deact_member) : {f = g} + {f <> g}.
Proof. decide equality. Defined.

Definition trc_sess_deact_type (f : trc_sess_deact_member) : Type :=
  match f with
  | trace_reference => gtp_trace_reference_ie.gtp_trace_reference_ie_t
  end.

Definition trc_sess_deact_ie (f : trc_sess_deact_member) : IeMember (trc_sess_deact_type f) :=
  match f with
  | trace_reference => gtp_trace_reference_ie_member
  end.

Definition trc_sess_deact_sig : signature :=
  Signature trc_sess_deact_member trc_sess_deact_eq_dec trc_sess_deact_type trc_sess_deact_ie
    Empty_set no_counter_eq_dec.
Canonical Structure trc_sess_deact_sig.

Definition trc_sess_deact_t : Type := message trc_sess_deact_sig.

Definition encode_trc_sess_deact_order : list (visit trc_sess_deact_sig) :=
  [One trace_reference].

Definition encode_trc_sess_deact (value : trc_sess_deact_t) (buf : Z) : enc Z :=
  encode_message encode_trc_sess_deact_order value buf.

Definition decode_trc_sess_deact_table : list (branch trc_sess_deact_sig) :=
  [(GTP_IE_TRACE_REFERENCE, Some GTP_IE_INSTANCE_ZERO, Into trace_reference)].

Definition decode_trc_sess_deact (fuel : nat) (m : bytes) (buf : Z) (value : trc_sess_deact_t)
  : outcome (Z * trc_sess_deact_t) :=
  decode_message decode_trc_sess_deact_table [] false fuel m buf value.

End trc_sess_deact.

(** ** [dnlnk_data_notif] *)

Module dnlnk_data_notif.

Inductive dnlnk_data_notif_member :=
| cause
| eps_bearer_id
| alloc_reten_priority
| imsi
| sender_fteid_ctl_plane
| indctn_flgs
| sgws_node_lvl_load_ctl_info
| sgws_ovrld_ctl_info
| paging_and_svc_info
| priv_ext.

Definition dnlnk_data_notif_eq_dec (f g : dnlnk_data_notif_member) : {f = g} + {f <> g}.
Proof. decide equality. Defined.

Definition dnlnk_data_notif_type (f : dnlnk_data_notif_member) : Type :=
  match f with
  | cause => gtp_cause_ie.gtp_cause_ie_t
  | eps_bearer_id => gtp_eps_bearer_id_ie.gtp_eps_bearer_id_ie_t
  | alloc_reten_priority => gtp_alloc_reten_priority_ie.gtp_alloc_reten_priority_ie_t
  | imsi => gtp_imsi_ie.gtp_imsi_ie_t
  | sender_fteid_ctl_plane => gtp_fully_qual_tunn_endpt_idnt_ie.gtp_fully_qual_tunn_endpt_idnt_ie_t
  | indctn_flgs => gtp_indication_ie.gtp_indication_ie_t
  | sgws_node_lvl_load_ctl_info => gtp_load_ctl_info_ie.gtp_load_ctl_info_ie_t
  | sgws_ovrld_ctl_info => gtp_ovrld_ctl_info_ie.gtp_ovrld_ctl_info_ie_t
  | paging_and_svc_info => gtp_paging_and_svc_info_ie.gtp_paging_and_svc_info_ie_t
  | priv_ext => gtp_priv_ext_ie.gtp_priv_ext_ie_t
  end.

Definition dnlnk_data_notif_ie (f : dnlnk_data_notif_member) : IeMember (dnlnk_data_notif_type f) :=
  match f with
  | cause => gtp_cause_ie_member
  | eps_bearer_id => gtp_eps_bearer_id_ie_member
  | alloc_reten_priority => gtp_alloc_reten_priority_ie_member
  | imsi => gtp_imsi_ie_member
  | sender_fteid_ctl_plane => gtp_fully_qual_tunn_endpt_idnt_ie_member
  | indctn_flgs => gtp_indication_ie_member
  | sgws_node_lvl_load_ctl_info => gtp_load_ctl_info_ie_member
  | sgws_ovrld_ctl_info => gtp_ovrld_ctl_info_ie_member
  | paging_and_svc_info => gtp_paging_and_svc_info_ie_member
  | priv_ext => gtp_priv_ext_ie_member
  end.

Definition dnlnk_data_notif_sig : signature :=
  Signature dnlnk_data_notif_member dnlnk_data_notif_eq_dec dnlnk_data_notif_type dnlnk_data_notif_ie
    Empty_set no_counter_eq_dec.
Canonical Structure dnlnk_data_notif_sig.

Definition dnlnk_data_notif_t : Type := message dnlnk_data_notif_sig.

Definition encode_dnlnk_data_notif_order : list (visit dnlnk_data_notif_sig) :=
  [One cause; One eps_bearer_id; One alloc_reten_priority; One imsi; One sender_fteid_ctl_plane;
   One indctn_flgs; One sgws_node_lvl_load_ctl_info; One sgws_ovrld_ctl_info;
   One paging_and_svc_info; One priv_ext].

Definition encode_dnlnk_data_notif (value : dnlnk_data_notif_t) (buf : Z) : enc Z :=
  encode_message encode_dnlnk_data_notif_order value buf.

Definition decode_dnlnk_data_notif_table : list (branch dnlnk_data_notif_sig) :=
  [(GTP_IE_CAUSE, Some GTP_IE_INSTANCE_ZERO, Into cause);
   (GTP_IE_EPS_BEARER_ID, Some GTP_IE_INSTANCE_ZERO, Into eps_bearer_id);
   (GTP_IE_ALLOC_RETEN_PRIORITY, Some GTP_IE_INSTANCE_ZERO, Into alloc_reten_priority);
   (GTP_IE_IMSI, Some GTP_IE_INSTANCE_ZERO, Into imsi);
   (GTP_IE_FULLY_QUAL_TUNN_ENDPT_IDNT, Some GTP_IE_INSTANCE_ZERO, Into sender_fteid_ctl_plane);
   (GTP_IE_INDICATION, Some GTP_IE_INSTANCE_ZERO, Into indctn_flgs);
   (GTP_IE_LOAD_CTL_INFO, Some GTP_IE_INSTANCE_ZERO, Into sgws_node_lvl_load_ctl_info);
   (GTP_IE_OVRLD_CTL_INFO, Some GTP_IE_INSTANCE_ZERO, Into sgws_ovrld_ctl_info);
   (GTP_IE_PAGING_AND_SVC_INFO, Some GTP_IE_INSTANCE_ZERO, Into paging_and_svc_info);
   (GTP_IE_PRIV_EXT, None, Into priv_ext)].

Definition decode_dnlnk_data_notif (fuel : nat) (m : bytes) (buf : Z) (value : dnlnk_data_notif_t)
  : outcome (Z * dnlnk_data_notif_t) :=
  decode_message decode_dnlnk_data_notif_table [] false fuel m buf value.

End dnlnk_data_notif.

(** ** [create_indir_data_fwdng_tunn_req] *)

Module create_indir_data_fwdng_tunn_req.

Inductive create_indir_data_fwdng_tunn_req_member :=
| imsi
| mei
| indctn_flgs
| sender_fteid_ctl_plane
| bearer_contexts (i : nat)
| recovery
| priv_ext.

Definition create_indir_data_fwdng_tunn_req_eq_dec (f g : create_indir_data_fwdng_tunn_req_member) : {f = g} + {f <> g}.
Proof. decide equality; apply Nat.eq_dec. Defined.

Definition create_indir_data_fwdng_tunn_req_type (f : create_indir_data_fwdng_tunn_req_member) : Type :=
  match f with
  | imsi => gtp_imsi_ie.gtp_imsi_ie_t
  | mei => gtp_mbl_equip_idnty_ie.gtp_mbl_equip_idnty_ie_t
  | indctn_flgs => gtp_indication_ie.gtp_indication_ie_t
  | sender_fteid_ctl_plane => gtp_fully_qual_tunn_endpt_idnt_ie.gtp_fully_qual_tunn_endpt_idnt_ie_t
  | bearer_contexts _ => gtp_create_indir_data_fwdng_tunn_request__bearer_ctxt_ie.gtp_create_indir_data_fwdng_tunn_request__bearer_ctxt_ie_t
  | recovery => gtp_recovery_ie.gtp_recovery_ie_t
  | priv_ext => gtp_priv_ext_ie.gtp_priv_ext_ie_t
  end.

Definition create_indir_data_fwdng_tunn_req_ie (f : create_indir_data_fwdng_tunn_req_member) : IeMember (create_indir_data_fwdng_tunn_req_type f) :=
  match f with
  | imsi => gtp_imsi_ie_member
  | mei => gtp_mbl_equip_idnty_ie_member
  | indctn_flgs => gtp_indication_ie_member
  | sender_fteid_ctl_plane => gtp_fully_qual_tunn_endpt_idnt_ie_member
  | bearer_contexts _ => gtp_create_indir_data_fwdng_tunn_request__bearer_ctxt_ie.gtp_create_indir_data_fwdng_tunn_request__bearer_ctxt_ie_member_ie
  | recovery => gtp_recovery_ie_member
  | priv_ext => gtp_priv_ext_ie_member
  end.

Inductive create_indir_data_fwdng_tunn_req_counter := bearer_count.

Definition create_indir_data_fwdng_tunn_req_counter_eq_dec (c d : create_indir_data_fwdng_tunn_req_counter) : {c = d} + {c <> d}.
Proof. decide equality. Defined.

Definition create_indir_data_fwdng_tunn_req_sig : signature :=
  Signature create_indir_data_fwdng_tunn_req_member create_indir_data_fwdng_tunn_req_eq_dec create_indir_data_fwdng_tunn_req_type create_indir_data_fwdng_tunn_req_ie
    create_indir_data_fwdng_tunn_req_counter create_indir_data_fwdng_tunn_req_counter_eq_dec.
Canonical Structure create_indir_data_fwdng_tunn_req_sig.

Definition create_indir_data_fwdng_tunn_req_t : Type := message create_indir_data_fwdng_tunn_req_sig.

Definition encode_create_indir_data_fwdng_tunn_req_order : list (visit create_indir_data_fwdng_tunn_req_sig) :=
  [One imsi; One mei; One indctn_flgs; One sender_fteid_ctl_plane;
   Many (S := create_indir_data_fwdng_tunn_req_sig) (fun n => n bearer_count) bearer_contexts (Z.to_nat MAX_BEARERS);
   One recovery; One priv_ext].

Definition encode_create_indir_data_fwdng_tunn_req (value : create_indir_data_fwdng_tunn_req_t) (buf : Z) : enc Z :=
  encode_message encode_create_indir_data_fwdng_tunn_req_order value buf.

Definition decode_create_indir_data_fwdng_tunn_req_table : list (branch create_indir_data_fwdng_tunn_req_sig) :=
  [(GTP_IE_IMSI, Some GTP_IE_INSTANCE_ZERO, Into imsi);
   (GTP_IE_MBL_EQUIP_IDNTY, Some GTP_IE_INSTANCE_ZERO, Into mei);
   (GTP_IE_INDICATION, Some GTP_IE_INSTANCE_ZERO, Into indctn_flgs);
   (GTP_IE_FULLY_QUAL_TUNN_ENDPT_IDNT, Some GTP_IE_INSTANCE_ZERO, Into sender_fteid_ctl_plane);
   (GTP_IE_BEARER_CONTEXT, Some GTP_IE_INSTANCE_ZERO, Next (S := create_indir_data_fwdng_tunn_req_sig) bearer_count bearer_contexts MAX_BEARERS);
   (GTP_IE_RECOVERY, Some GTP_IE_INSTANCE_ZERO, Into recovery);
   (GTP_IE_PRIV_EXT, None, Into priv_ext)].

Definition decode_create_indir_data_fwdng_tunn_req (fuel : nat) (m : bytes) (buf : Z) (value : create_indir_data_fwdng_tunn_req_t)
  : outcome (Z * create_indir_data_fwdng_tunn_req_t) :=
  decode_message decode_create_indir_data_fwdng_tunn_req_table [] false fuel m buf value.

End create_indir_data_fwdng_tunn_req.

(** ** [mbms_sess_start_req] *)

Module mbms_sess_start_req.

Inductive mbms_sess_start_req_member :=
| sender_fteid_ctl_plane
| tmgi
| mbms_sess_dur
| mbms_svc_area
| mbms_sess_idnt
| mbms_flow_idnt
| qos_profile
| mbms_ip_multcst_dist
| recovery
| mbms_time_to_data_xfer
| mbms_data_xfer_start
| mbms_flags
| mbms_alternative_ip_multcst_dist
| mbms_cell_list
| priv_ext.

Definition mbms_sess_start_req_eq_dec (f g : mbms_sess_start_req_member) : {f = g} + {f <> g}.
Proof. decide equality. Defined.

Definition mbms_sess_start_req_type (f : mbms_sess_start_req_member) : Type :=
  match f with
  | sender_fteid_ctl_plane => gtp_fully_qual_tunn_endpt_idnt_ie.gtp_fully_qual_tunn_endpt_idnt_ie_t
  | tmgi => gtp_tmgi_ie.gtp_tmgi_ie_t
  | mbms_sess_dur => gtp_mbms_sess_dur_ie.gtp_mbms_sess_dur_ie_t
  | mbms_svc_area => gtp_mbms_svc_area_ie.gtp_mbms_svc_area_ie_t
  | mbms_sess_idnt => gtp_mbms_sess_idnt_ie.gtp_mbms_sess_idnt_ie_t
  | mbms_flow_idnt => gtp_mbms_flow_idnt_ie.gtp_mbms_flow_idnt_ie_t
  | qos_profile => gtp_bearer_qlty_of_svc_ie.gtp_bearer_qlty_of_svc_ie_t
  | mbms_ip_multcst_dist => gtp_mbms_ip_multcst_dist_ie.gtp_mbms_ip_multcst_dist_ie_t
  | recovery => gtp_recovery_ie.gtp_recovery_ie_t
  | mbms_time_to_data_xfer => gtp_mbms_time_to_data_xfer_ie.gtp_mbms_time_to_data_xfer_ie_t
  | mbms_data_xfer_start => gtp_mbms_data_xfer_abs_time_ie.gtp_mbms_data_xfer_abs_time_ie_t
  | mbms_flags => gtp_mbms_flags_ie.gtp_mbms_flags_ie_t
  | mbms_alternative_ip_multcst_dist => gtp_mbms_ip_multcst_dist_ie.gtp_mbms_ip_multcst_dist_ie_t
  | mbms_cell_list => gtp_ecgi_list_ie.gtp_ecgi_list_ie_t
  | priv_ext => gtp_priv_ext_ie.gtp_priv_ext_ie_t
  end.

Definition mbms_sess_start_req_ie (f : mbms_sess_start_req_member) : IeMember (mbms_sess_start_req_type f) :=
  match f with
  | sender_fteid_ctl_plane => gtp_fully_qual_tunn_endpt_idnt_ie_member
  | tmgi => gtp_tmgi_ie_member
  | mbms_sess_dur => gtp_mbms_sess_dur_ie_member
  | mbms_svc_area => gtp_mbms_svc_area_ie_member
  | mbms_sess_idnt => gtp_mbms_sess_idnt_ie_member
  | mbms_flow_idnt => gtp_mbms_flow_idnt_ie_member
  | qos_profile => gtp_bearer_qlty_of_svc_ie_member
  | mbms_ip_multcst_dist => gtp_mbms_ip_multcst_dist_ie_member
  | recovery => gtp_recovery_ie_member
  | mbms_time_to_data_xfer => gtp_mbms_time_to_data_xfer_ie_member
  | mbms_data_xfer_start => gtp_mbms_data_xfer_abs_time_ie_member
  | mbms_flags => gtp_mbms_flags_ie_member
  | mbms_alternative_ip_multcst_dist => gtp_mbms_ip_multcst_dist_ie_member
  | mbms_cell_list => gtp_ecgi_list_ie_member
  | priv_ext => gtp_priv_ext_ie_member
  end.

Definition mbms_sess_start_req_sig : signature :=
  Signature mbms_sess_start_req_member mbms_sess_start_req_eq_dec mbms_sess_start_req_type mbms_sess_start_req_ie
    Empty_set no_counter_eq_dec.
Canonical Structure mbms_sess_start_req_sig.

Definition mbms_sess_start_req_t : Type := message mbms_sess_start_req_sig.

Definition encode_mbms_sess_start_req_order : list (visit mbms_sess_start_req_sig) :=
  [One sender_fteid_ctl_plane; One tmgi; One mbms_sess_dur; One mbms_svc_area;
   One mbms_sess_idnt; One mbms_flow_idnt; One qos_profile; One mbms_ip_multcst_dist;
   One recovery; One mbms_time_to_data_xfer; One mbms_data_xfer_start; One mbms_flags;
   One mbms_alternative_ip_multcst_dist; One mbms_cell_list; One priv_ext].

Definition encode_mbms_sess_start_req (value : mbms_sess_start_req_t) (buf : Z) : enc Z :=
  encode_message encode_mbms_sess_start_req_order value buf.

Definition decode_mbms_sess_start_req_table : list (branch mbms_sess_start_req_sig) :=
  [(GTP_IE_FULLY_QUAL_TUNN_ENDPT_IDNT, Some GTP_IE_INSTANCE_ZERO, Into sender_fteid_ctl_plane);
   (GTP_IE_TMGI, Some GTP_IE_INSTANCE_ZERO, Into tmgi);
   (GTP_IE_MBMS_SESS_DUR, Some GTP_IE_INSTANCE_ZERO, Into mbms_sess_dur);
   (GTP_IE_MBMS_SVC_AREA, Some GTP_IE_INSTANCE_ZERO, Into mbms_svc_area);
   (GTP_IE_MBMS_SESS_IDNT, Some GTP_IE_INSTANCE_ZERO, Into mbms_sess_idnt);
   (GTP_IE_MBMS_FLOW_IDNT, Some GTP_IE_INSTANCE_ZERO, Into mbms_flow_idnt);
   (GTP_IE_BEARER_QLTY_OF_SVC, Some GTP_IE_INSTANCE_ZERO, Into qos_profile);
   (GTP_IE_MBMS_IP_MULTCST_DIST, Some GTP_IE_INSTANCE_ZERO, Into mbms_ip_multcst_dist);
   (GTP_IE_RECOVERY, Some GTP_IE_INSTANCE_ZERO, Into recovery);
   (GTP_IE_MBMS_TIME_TO_DATA_XFER, Some GTP_IE_INSTANCE_ZERO, Into mbms_time_to_data_xfer);
   (GTP_IE_MBMS_DATA_XFER_ABS_TIME, Some GTP_IE_INSTANCE_ZERO, Into mbms_data_xfer_start);
   (GTP_IE_MBMS_FLAGS, Some GTP_IE_INSTANCE_ZERO, Into mbms_flags);
   (GTP_IE_MBMS_IP_MULTCST_DIST, Some GTP_IE_INSTANCE_ONE, Into mbms_alternative_ip_multcst_dist);
   (GTP_IE_ECGI_LIST, Some GTP_IE_INSTANCE_ZERO, Into mbms_cell_list);
   (GTP_IE_PRIV_EXT, None, Into priv_ext)].

Definition decode_mbms_sess_start_req (fuel : nat) (m : bytes) (buf : Z) (value : mbms_sess_start_req_t)
  : outcome (Z * mbms_sess_start_req_t) :=
  decode_message decode_mbms_sess_start_req_table [] false fuel m buf value.

End mbms_sess_start_req.

(** ** [del_bearer_req] *)

Module del_bearer_req.

Inductive del_bearer_req_member :=
| lbi
| eps_bearer_ids (i : nat)
| failed_bearer_contexts
| pti
| pco
| pgw_fqcsid
| sgw_fqcsid
| indctn_flgs
| pgws_node_lvl_load_ctl_info
| pgws_apn_lvl_load_ctl_info
| sgws_node_lvl_load_ctl_info
| pgws_ovrld_ctl_info
| sgws_ovrld_ctl_info
| nbifom_cntnr
| epco
| priv_ext.

Definition del_bearer_req_eq_dec (f g : del_bearer_req_member) : {f = g} + {f <> g}.
Proof. decide equality; apply Nat.eq_dec. Defined.

Definition del_bearer_req_type (f : del_bearer_req_member) : Type :=
  match f with
  | lbi => gtp_eps_bearer_id_ie.gtp_eps_bearer_id_ie_t
  | eps_bearer_ids _ => gtp_eps_bearer_id_ie.gtp_eps_bearer_id_ie_t
  | failed_bearer_contexts => gtp_bearer_context_ie.gtp_bearer_context_ie_t
  | pti => gtp_proc_trans_id_ie.gtp_proc_trans_id_ie_t
  | pco => gtp_prot_cfg_opts_ie.gtp_prot_cfg_opts_ie_t
  | pgw_fqcsid => gtp_fqcsid_ie.gtp_fqcsid_ie_t
  | sgw_fqcsid => gtp_fqcsid_ie.gtp_fqcsid_ie_t
  | indctn_flgs => gtp_indication_ie.gtp_indication_ie_t
  | pgws_node_lvl_load_ctl_info => gtp_load_ctl_info_ie.gtp_load_ctl_info_ie_t
  | pgws_apn_lvl_load_ctl_info => gtp_load_ctl_info_ie.gtp_load_ctl_info_ie_t
  | sgws_node_lvl_load_ctl_info => gtp_load_ctl_info_ie.gtp_load_ctl_info_ie_t
  | pgws_ovrld_ctl_info => gtp_ovrld_ctl_info_ie.gtp_ovrld_ctl_info_ie_t
  | sgws_ovrld_ctl_info => gtp_ovrld_ctl_info_ie.gtp_ovrld_ctl_info_ie_t
  | nbifom_cntnr => gtp_full_qual_cntnr_ie.gtp_full_qual_cntnr_ie_t
  | epco => gtp_extnded_prot_cfg_opts_ie.gtp_extnded_prot_cfg_opts_ie_t
  | priv_ext => gtp_priv_ext_ie.gtp_priv_ext_ie_t
  end.

Definition del_bearer_req_ie (f : del_bearer_req_member) : IeMember (del_bearer_req_type f) :=
  match f with
  | lbi => gtp_eps_bearer_id_ie_member
  | eps_bearer_ids _ => gtp_eps_bearer_id_ie_member
  | failed_bearer_contexts => gtp_bearer_context_ie_member
  | pti => gtp_proc_trans_id_ie_member
  | pco => gtp_prot_cfg_opts_ie_member
  | pgw_fqcsid => gtp_fqcsid_ie_member
  | sgw_fqcsid => gtp_fqcsid_ie_member
  | indctn_flgs => gtp_indication_ie_member
  | pgws_node_lvl_load_ctl_info => gtp_load_ctl_info_ie_member
  | pgws_apn_lvl_load_ctl_info => gtp_load_ctl_info_ie_member
  | sgws_node_lvl_load_ctl_info => gtp_load_ctl_info_ie_member
  | pgws_ovrld_ctl_info => gtp_ovrld_ctl_info_ie_member
  | sgws_ovrld_ctl_info => gtp_ovrld_ctl_info_ie_member
  | nbifom_cntnr => gtp_full_qual_cntnr_ie_member
  | epco => gtp_extnded_prot_cfg_opts_ie_member
  | priv_ext => gtp_priv_ext_ie_member
  end.

Inductive del_bearer_req_counter := bearer_count.

Definition del_bearer_req_counter_eq_dec (c d : del_bearer_req_counter) : {c = d} + {c <> d}.
Proof. decide equality. Defined.

Definition del_bearer_req_sig : signature :=
  Signature del_bearer_req_member del_bearer_req_eq_dec del_bearer_req_type del_bearer_req_ie
    del_bearer_req_counter del_bearer_req_counter_eq_dec.
Canonical Structure del_bearer_req_sig.

Definition del_bearer_req_t : Type := message del_bearer_req_sig.

Definition encode_del_bearer_req_order : list (visit del_bearer_req_sig) :=
  [One lbi;
   Many (S := del_bearer_req_sig) (fun n => n bearer_count) eps_bearer_ids (Z.to_nat MAX_BEARERS);
   One failed_bearer_contexts; One pti; One pco; One pgw_fqcsid; One sgw_fqcsid;
   One indctn_flgs; One pgws_node_lvl_load_ctl_info; One pgws_apn_lvl_load_ctl_info;
   One sgws_node_lvl_load_ctl_info; One pgws_ovrld_ctl_info; One sgws_ovrld_ctl_info;
   One nbifom_cntnr; One epco; One priv_ext].

Definition encode_del_bearer_req (value : del_bearer_req_t) (buf : Z) : enc Z :=
  encode_message encode_del_bearer_req_order value buf.

Definition decode_del_bearer_req_table : list (branch del_bearer_req_sig) :=
  [(GTP_IE_EPS_BEARER_ID, Some GTP_IE_INSTANCE_ZERO, Into lbi);
   (GTP_IE_EPS_BEARER_ID, Some GTP_IE_INSTANCE_ONE, Next (S := del_bearer_req_sig) bearer_count eps_bearer_ids MAX_BEARERS);
   (GTP_IE_BEARER_CONTEXT, Some GTP_IE_INSTANCE_ZERO, Into failed_bearer_contexts);
   (GTP_IE_PROC_TRANS_ID, Some GTP_IE_INSTANCE_ZERO, Into pti);
   (GTP_IE_PROT_CFG_OPTS, Some GTP_IE_INSTANCE_ZERO, Into pco);
   (GTP_IE_FQCSID, Some GTP_IE_INSTANCE_ZERO, Into pgw_fqcsid);
   (GTP_IE_FQCSID, Some GTP_IE_INSTANCE_ONE, Into sgw_fqcsid);
   (GTP_IE_INDICATION, Some GTP_IE_INSTANCE_ZERO, Into indctn_flgs);
   (GTP_IE_LOAD_CTL_INFO, Some GTP_IE_INSTANCE_ZERO, Into pgws_node_lvl_load_ctl_info);
   (GTP_IE_LOAD_CTL_INFO, Some GTP_IE_INSTANCE_ONE, Into pgws_apn_lvl_load_ctl_info);
   (GTP_IE_LOAD_CTL_INFO, Some GTP_IE_INSTANCE_TWO, Into sgws_node_lvl_load_ctl_info);
   (GTP_IE_OVRLD_CTL_INFO, Some GTP_IE_INSTANCE_ZERO, Into pgws_ovrld_ctl_info);
   (GTP_IE_OVRLD_CTL_INFO, Some GTP_IE_INSTANCE_ONE, Into sgws_ovrld_ctl_info);
   (GTP_IE_FULL_QUAL_CNTNR, Some GTP_IE_INSTANCE_ZERO, Into nbifom_cntnr);
   (GTP_IE_EXTNDED_PROT_CFG_OPTS, Some GTP_IE_INSTANCE_ZERO, Into epco);
   (GTP_IE_PRIV_EXT, None, Into priv_ext)].

Definition decode_del_bearer_req (fuel : nat) (m : bytes) (buf : Z) (value : del_bearer_req_t)
  : outcome (Z * del_bearer_req_t) :=
  decode_message decode_del_bearer_req_table [] false fuel m buf value.

End del_bearer_req.

(** ** [del_sess_req] *)

Module del_sess_req.

Inductive del_sess_req_member :=
| lbi
| uli
| indctn_flgs
| pco
| originating_node
| sender_fteid_ctl_plane
| ue_time_zone
| uli_timestamp
| ran_nas_release_cause
| twan_identifier
| twan_idnt_ts
| mmes4_sgsns_ovrld_ctl_info
| sgws_ovrld_ctl_info
| twanepdgs_ovrld_ctl_info
| wlan_loc_info
| wlan_loc_ts
| ue_local_ip_addr
| ue_udp_port
| epco
| ue_tcp_port
| secdry_rat_usage_data_rpt
| priv_ext.

Definition del_sess_req_eq_dec (f g : del_sess_req_member) : {f = g} + {f <> g}.
Proof. decide equality. Defined.

Definition del_sess_req_type (f : del_sess_req_member) : Type :=
  match f with
  | lbi => gtp_eps_bearer_id_ie.gtp_eps_bearer_id_ie_t
  | uli => gtp_user_loc_info_ie.gtp_user_loc_info_ie_t
  | indctn_flgs => gtp_indication_ie.gtp_indication_ie_t
  | pco => gtp_prot_cfg_opts_ie.gtp_prot_cfg_opts_ie_t
  | originating_node => gtp_node_type_ie.gtp_node_type_ie_t
  | sender_fteid_ctl_plane => gtp_fully_qual_tunn_endpt_idnt_ie.gtp_fully_qual_tunn_endpt_idnt_ie_t
  | ue_time_zone => gtp_ue_time_zone_ie.gtp_ue_time_zone_ie_t
  | uli_timestamp => gtp_uli_timestamp_ie.gtp_uli_timestamp_ie_t
  | ran_nas_release_cause => gtp_ran_nas_cause_ie.gtp_ran_nas_cause_ie_t
  | twan_identifier => gtp_twan_identifier_ie.gtp_twan_identifier_ie_t
  | twan_idnt_ts => gtp_twan_idnt_ts_ie.gtp_twan_idnt_ts_ie_t
  | mmes4_sgsns_ovrld_ctl_info => gtp_ovrld_ctl_info_ie.gtp_ovrld_ctl_info_ie_t
  | sgws_ovrld_ctl_info => gtp_ovrld_ctl_info_ie.gtp_ovrld_ctl_info_ie_t
  | twanepdgs_ovrld_ctl_info => gtp_ovrld_ctl_info_ie.gtp_ovrld_ctl_info_ie_t
  | wlan_loc_info => gtp_twan_identifier_ie.gtp_twan_identifier_ie_t
  | wlan_loc_ts => gtp_twan_idnt_ts_ie.gtp_twan_idnt_ts_ie_t
  | ue_local_ip_addr => gtp_ip_address_ie.gtp_ip_address_ie_t
  | ue_udp_port => gtp_port_number_ie.gtp_port_number_ie_t
  | epco => gtp_extnded_prot_cfg_opts_ie.gtp_extnded_prot_cfg_opts_ie_t
  | ue_tcp_port => gtp_port_number_ie.gtp_port_number_ie_t
  | secdry_rat_usage_data_rpt => gtp_secdry_rat_usage_data_rpt_ie.gtp_secdry_rat_usage_data_rpt_ie_t
  | priv_ext => gtp_priv_ext_ie.gtp_priv_ext_ie_t
  end.

Definition del_sess_req_ie (f : del_sess_req_member) : IeMember (del_sess_req_type f) :=
  match f with
  | lbi => gtp_eps_bearer_id_ie_member
  | uli => gtp_user_loc_info_ie_member
  | indctn_flgs => gtp_indication_ie_member
  | pco => gtp_prot_cfg_opts_ie_member
  | originating_node => gtp_node_type_ie_member
  | sender_fteid_ctl_plane => gtp_fully_qual_tunn_endpt_idnt_ie_member
  | ue_time_zone => gtp_ue_time_zone_ie_member
  | uli_timestamp => gtp_uli_timestamp_ie_member
  | ran_nas_release_cause => gtp_ran_nas_cause_ie_member
  | twan_identifier => gtp_twan_identifier_ie_member
  | twan_idnt_ts => gtp_twan_idnt_ts_ie_member
  | mmes4_sgsns_ovrld_ctl_info => gtp_ovrld_ctl_info_ie_member
  | sgws_ovrld_ctl_info => gtp_ovrld_ctl_info_ie_member
  | twanepdgs_ovrld_ctl_info => gtp_ovrld_ctl_info_ie_member
  | wlan_loc_info => gtp_twan_identifier_ie_member
  | wlan_loc_ts => gtp_twan_idnt_ts_ie_member
  | ue_local_ip_addr => gtp_ip_address_ie_member
  | ue_udp_port => gtp_port_number_ie_member
  | epco => gtp_extnded_prot_cfg_opts_ie_member
  | ue_tcp_port => gtp_port_number_ie_member
  | secdry_rat_usage_data_rpt => gtp_secdry_rat_usage_data_rpt_ie_member
  | priv_ext => gtp_priv_ext_ie_member
  end.

Definition del_sess_req_sig : signature :=
  Signature del_sess_req_member del_sess_req_eq_dec del_sess_req_type del_sess_req_ie
    Empty_set no_counter_eq_dec.
Canonical Structure del_sess_req_sig.

Definition del_sess_req_t : Type := message del_sess_req_sig.

Definition encode_del_sess_req_order : list (visit del_sess_req_sig) :=
  [One lbi; One uli; One indctn_flgs; One pco; One originating_node; One sender_fteid_ctl_plane;
   One ue_time_zone; One uli_timestamp; One ran_nas_release_cause; One twan_identifier;
   One twan_idnt_ts; One mmes4_sgsns_ovrld_ctl_info; One sgws_ovrld_ctl_info;
   One twanepdgs_ovrld_ctl_info; One wlan_loc_info; One wlan_loc_ts; One ue_local_ip_addr;
   One ue_udp_port; One epco; One ue_tcp_port; One secdry_rat_usage_data_rpt; One priv_ext].

Definition encode_del_sess_req (value : del_sess_req_t) (buf : Z) : enc Z :=
  encode_message encode_del_sess_req_order value buf.

Definition decode_del_sess_req_table : list (branch del_sess_req_sig) :=
  [(GTP_IE_EPS_BEARER_ID, Some GTP_IE_INSTANCE_ZERO, Into lbi);
   (GTP_IE_USER_LOC_INFO, Some GTP_IE_INSTANCE_ZERO, Into uli);
   (GTP_IE_INDICATION, Some GTP_IE_INSTANCE_ZERO, Into indctn_flgs);
   (GTP_IE_PROT_CFG_OPTS, Some GTP_IE_INSTANCE_ZERO, Into pco);
   (GTP_IE_NODE_TYPE, Some GTP_IE_INSTANCE_ZERO, Into originating_node);
   (GTP_IE_FULLY_QUAL_TUNN_ENDPT_IDNT, Some GTP_IE_INSTANCE_ZERO, Into sender_fteid_ctl_plane);
   (GTP_IE_UE_TIME_ZONE, Some GTP_IE_INSTANCE_ZERO, Into ue_time_zone);
   (GTP_IE_ULI_TIMESTAMP, Some GTP_IE_INSTANCE_ZERO, Into uli_timestamp);
   (GTP_IE_RAN_NAS_CAUSE, Some GTP_IE_INSTANCE_ZERO, Into ran_nas_release_cause);
   (GTP_IE_TWAN_IDENTIFIER, Some GTP_IE_INSTANCE_ZERO, Into twan_identifier);
   (GTP_IE_TWAN_IDNT_TS, Some GTP_IE_INSTANCE_ZERO, Into twan_idnt_ts);
   (GTP_IE_OVRLD_CTL_INFO, Some GTP_IE_INSTANCE_ZERO, Into mmes4_sgsns_ovrld_ctl_info);
   (GTP_IE_OVRLD_CTL_INFO, Some GTP_IE_INSTANCE_ONE, Into sgws_ovrld_ctl_info);
   (GTP_IE_OVRLD_CTL_INFO, Some GTP_IE_INSTANCE_TWO, Into twanepdgs_ovrld_ctl_info);
   (GTP_IE_TWAN_IDENTIFIER, Some GTP_IE_INSTANCE_ONE, Into wlan_loc_info);
   (GTP_IE_TWAN_IDNT_TS, Some GTP_IE_INSTANCE_ONE, Into wlan_loc_ts);
   (GTP_IE_IP_ADDRESS, Some GTP_IE_INSTANCE_ZERO, Into ue_local_ip_addr);
   (GTP_IE_PORT_NUMBER, Some GTP_IE_INSTANCE_ZERO, Into ue_udp_port);
   (GTP_IE_EXTNDED_PROT_CFG_OPTS, Some GTP_IE_INSTANCE_ZERO, Into epco);
   (GTP_IE_PORT_NUMBER, Some GTP_IE_INSTANCE_ONE, Into ue_tcp_port);
   (GTP_IE_SECDRY_RAT_USAGE_DATA_RPT, Some GTP_IE_INSTANCE_ZERO, Into secdry_rat_usage_data_rpt);
   (GTP_IE_PRIV_EXT, None, Into priv_ext)].

Definition decode_del_sess_req (fuel : nat) (m : bytes) (buf : Z) (value : del_sess_req_t)
  : outcome (Z * del_sess_req_t) :=
  decode_message decode_del_sess_req_table [] false fuel m buf value.

End del_sess_req.

(** ** [upd_pdn_conn_set_rsp] *)

Module upd_pdn_conn_set_rsp.

Inductive upd_pdn_conn_set_rsp_member :=
| cause
| pgw_fqcsid
| recovery
| priv_ext.

Definition upd_pdn_conn_set_rsp_eq_dec (f g : upd_pdn_conn_set_rsp_member) : {f = g} + {f <> g}.
Proof. decide equality. Defined.

Definition upd_pdn_conn_set_rsp_type (f : upd_pdn_conn_set_rsp_member) : Type :=
  match f with
  | cause => gtp_cause_ie.gtp_cause_ie_t
  | pgw_fqcsid => gtp_fqcsid_ie.gtp_fqcsid_ie_t
  | recovery => gtp_recovery_ie.gtp_recovery_ie_t
  | priv_ext => gtp_priv_ext_ie.gtp_priv_ext_ie_t
  end.

Definition upd_pdn_conn_set_rsp_ie (f : upd_pdn_conn_set_rsp_member) : IeMember (upd_pdn_conn_set_rsp_type f) :=
  match f with
  | cause => gtp_cause_ie_member
  | pgw_fqcsid => gtp_fqcsid_ie_member
  | recovery => gtp_recovery_ie_member
  | priv_ext => gtp_priv_ext_ie_member
  end.

Definition upd_pdn_conn_set_rsp_sig : signature :=
  Signature upd_pdn_conn_set_rsp_member upd_pdn_conn_set_rsp_eq_dec upd_pdn_conn_set_rsp_type upd_pdn_conn_set_rsp_ie
    Empty_set no_counter_eq_dec.
Canonical Structure upd_pdn_conn_set_rsp_sig.

Definition upd_pdn_conn_set_rsp_t : Type := message upd_pdn_conn_set_rsp_sig.

Definition encode_upd_pdn_conn_set_rsp_order : list (visit upd_pdn_conn_set_rsp_sig) :=
  [One cause; One pgw_fqcsid; One recovery; One priv_ext].

Definition encode_upd_pdn_conn_set_rsp (value : upd_pdn_conn_set_rsp_t) (buf : Z) : enc Z :=
  encode_message encode_upd_pdn_conn_set_rsp_order value buf.

Definition decode_upd_pdn_conn_set_rsp_table : list (branch upd_pdn_conn_set_rsp_sig) :=
  [(GTP_IE_CAUSE, Some GTP_IE_INSTANCE_ZERO, Into cause);
   (GTP_IE_FQCSID, Some GTP_IE_INSTANCE_ZERO, Into pgw_fqcsid);
   (GTP_IE_RECOVERY, Some GTP_IE_INSTANCE_ZERO, Into recovery);
   (GTP_IE_PRIV_EXT, None, Into priv_ext)].

Definition decode_upd_pdn_conn_set_rsp (fuel : nat) (m : bytes) (buf : Z) (value : upd_pdn_conn_set_rsp_t)
  : outcome (Z * upd_pdn_conn_set_rsp_t) :=
  decode_message decode_upd_pdn_conn_set_rsp_table [] false fuel m buf value.

End upd_pdn_conn_set_rsp.

(** ** [stop_paging_indctn] *)

Module stop_paging_indctn.

Inductive stop_paging_indctn_member :=
| imsi
| priv_ext.

Definition stop_paging_indctn_eq_dec (f g : stop_paging_indctn_member) : {f = g} + {f <> g}.
Proof. decide equality. Defined.

Definition stop_paging_indctn_type (f : stop_paging_indctn_member) : Type :=
  match f with
  | imsi => gtp_imsi_ie.gtp_imsi_ie_t
  | priv_ext => gtp_priv_ext_ie.gtp_priv_ext_ie_t
  end.

Definition stop_paging_indctn_ie (f : stop_paging_indctn_member) : IeMember (stop_paging_indctn_type f) :=
  match f with
  | imsi => gtp_imsi_ie_member
  | priv_ext => gtp_priv_ext_ie_member
  end.

Definition stop_paging_indctn_sig : signature :=
  Signature stop_paging_indctn_member stop_paging_indctn_eq_dec stop_paging_indctn_type stop_paging_indctn_ie
    Empty_set no_counter_eq_dec.
Canonical Structure stop_paging_indctn_sig.

Definition stop_paging_indctn_t : Type := message stop_paging_indctn_sig.

Definition encode_stop_paging_indctn_order : list (visit stop_paging_indctn_sig) :=
  [One imsi; One priv_ext].

Definition encode_stop_paging_indctn (value : stop_paging_indctn_t) (buf : Z) : enc Z :=
  encode_message encode_stop_paging_indctn_order value buf.

Definition decode_stop_paging_indctn_table : list (branch stop_paging_indctn_sig) :=
  [(GTP_IE_IMSI, Some GTP_IE_INSTANCE_ZERO, Into imsi);
   (GTP_IE_PRIV_EXT, None, Into priv_ext)].

Definition decode_stop_paging_indctn (fuel : nat) (m : bytes) (buf : Z) (value : stop_paging_indctn_t)
  : outcome (Z * stop_paging_indctn_t) :=
  decode_message decode_stop_paging_indctn_table [] false fuel m buf value.

End stop_paging_indctn.

(** ** [create_bearer_rsp] *)

Module create_bearer_rsp.

Inductive create_bearer_rsp_member :=
| cause
| bearer_contexts (i : nat)
| recovery
| mme_fqcsid
| sgw_fqcsid
| epdg_fqcsid
| twan_fqcsid
| pco
| ue_time_zone
| uli
| twan_identifier
| mmes4_sgsns_ovrld_ctl_info
| sgws_ovrld_ctl_info
| pres_rptng_area_info
| mmes4_sgsn_idnt
| twanepdgs_ovrld_ctl_info
| wlan_loc_info
| wlan_loc_ts
| ue_local_ip_addr
| ue_udp_port
| nbifom_cntnr
| ue_tcp_port
| priv_ext.

Definition create_bearer_rsp_eq_dec (f g : create_bearer_rsp_member) : {f = g} + {f <> g}.
Proof. decide equality; apply Nat.eq_dec. Defined.

Definition create_bearer_rsp_type (f : create_bearer_rsp_member) : Type :=
  match f with
  | cause => gtp_cause_ie.gtp_cause_ie_t
  | bearer_contexts _ => gtp_create_bearer_response_bearer_ctxt_ie.gtp_create_bearer_response_bearer_ctxt_ie_t
  | recovery => gtp_recovery_ie.gtp_recovery_ie_t
  | mme_fqcsid => gtp_fqcsid_ie.gtp_fqcsid_ie_t
  | sgw_fqcsid => gtp_fqcsid_ie.gtp_fqcsid_ie_t
  | epdg_fqcsid => gtp_fqcsid_ie.gtp_fqcsid_ie_t
  | twan_fqcsid => gtp_fqcsid_ie.gtp_fqcsid_ie_t
  | pco => gtp_prot_cfg_opts_ie.gtp_prot_cfg_opts_ie_t
  | ue_time_zone => gtp_ue_time_zone_ie.gtp_ue_time_zone_ie_t
  | uli => gtp_user_loc_info_ie.gtp_user_loc_info_ie_t
  | twan_identifier => gtp_twan_identifier_ie.gtp_twan_identifier_ie_t
  | mmes4_sgsns_ovrld_ctl_info => gtp_ovrld_ctl_info_ie.gtp_ovrld_ctl_info_ie_t
  | sgws_ovrld_ctl_info => gtp_ovrld_ctl_info_ie.gtp_ovrld_ctl_info_ie_t
  | pres_rptng_area_info => gtp_pres_rptng_area_info_ie.gtp_pres_rptng_area_info_ie_t
  | mmes4_sgsn_idnt => gtp_ip_address_ie.gtp_ip_address_ie_t
  | twanepdgs_ovrld_ctl_info => gtp_ovrld_ctl_info_ie.gtp_ovrld_ctl_info_ie_t
  | wlan_loc_info => gtp_twan_identifier_ie.gtp_twan_identifier_ie_t
  | wlan_loc_ts => gtp_twan_idnt_ts_ie.gtp_twan_idnt_ts_ie_t
  | ue_local_ip_addr => gtp_ip_address_ie.gtp_ip_address_ie_t
  | ue_udp_port => gtp_port_number_ie.gtp_port_number_ie_t
  | nbifom_cntnr => gtp_full_qual_cntnr_ie.gtp_full_qual_cntnr_ie_t
  | ue_tcp_port => gtp_port_number_ie.gtp_port_number_ie_t
  | priv_ext => gtp_priv_ext_ie.gtp_priv_ext_ie_t
  end.

Definition create_bearer_rsp_ie (f : create_bearer_rsp_member) : IeMember (create_bearer_rsp_type f) :=
  match f with
  | cause => gtp_cause_ie_member
  | bearer_contexts _ => gtp_create_bearer_response_bearer_ctxt_ie.gtp_create_bearer_response_bearer_ctxt_ie_member_ie
  | recovery => gtp_recovery_ie_member
  | mme_fqcsid => gtp_fqcsid_ie_member
  | sgw_fqcsid => gtp_fqcsid_ie_member
  | epdg_fqcsid => gtp_fqcsid_ie_member
  | twan_fqcsid => gtp_fqcsid_ie_member
  | pco => gtp_prot_cfg_opts_ie_member
  | ue_time_zone => gtp_ue_time_zone_ie_member
  | uli => gtp_user_loc_info_ie_member
  | twan_identifier => gtp_twan_identifier_ie_member
  | mmes4_sgsns_ovrld_ctl_info => gtp_ovrld_ctl_info_ie_member
  | sgws_ovrld_ctl_info => gtp_ovrld_ctl_info_ie_member
  | pres_rptng_area_info => gtp_pres_rptng_area_info_ie_member
  | mmes4_sgsn_idnt => gtp_ip_address_ie_member
  | twanepdgs_ovrld_ctl_info => gtp_ovrld_ctl_info_ie_member
  | wlan_loc_info => gtp_twan_identifier_ie_member
  | wlan_loc_ts => gtp_twan_idnt_ts_ie_member
  | ue_local_ip_addr => gtp_ip_address_ie_member
  | ue_udp_port => gtp_port_number_ie_member
  | nbifom_cntnr => gtp_full_qual_cntnr_ie_member
  | ue_tcp_port => gtp_port_number_ie_member
  | priv_ext => gtp_priv_ext_ie_member
  end.

Inductive create_bearer_rsp_counter := bearer_cnt.

Definition create_bearer_rsp_counter_eq_dec (c d : create_bearer_rsp_counter) : {c = d} + {c <> d}.
Proof. decide equality. Defined.

Definition create_bearer_rsp_sig : signature :=
  Signature create_bearer_rsp_member create_bearer_rsp_eq_dec create_bearer_rsp_type create_bearer_rsp_ie
    create_bearer_rsp_counter create_bearer_rsp_counter_eq_dec.
Canonical Structure create_bearer_rsp_sig.

Definition create_bearer_rsp_t : Type := message create_bearer_rsp_sig.

Definition encode_create_bearer_rsp_order : list (visit create_bearer_rsp_sig) :=
  [One cause;
   Many (S := create_bearer_rsp_sig) (fun n => n bearer_cnt) bearer_contexts (Z.to_nat MAX_BEARERS);
   One recovery; One mme_fqcsid; One sgw_fqcsid; One epdg_fqcsid; One twan_fqcsid; One pco;
   One ue_time_zone; One uli; One twan_identifier; One mmes4_sgsns_ovrld_ctl_info;
   One sgws_ovrld_ctl_info; One pres_rptng_area_info; One mmes4_sgsn_idnt;
   One twanepdgs_ovrld_ctl_info; One wlan_loc_info; One wlan_loc_ts; One ue_local_ip_addr;
   One ue_udp_port; One nbifom_cntnr; One ue_tcp_port; One priv_ext].

Definition encode_create_bearer_rsp (value : create_bearer_rsp_t) (buf : Z) : enc Z :=
  encode_message encode_create_bearer_rsp_order value buf.

Definition decode_create_bearer_rsp_table : list (branch create_bearer_rsp_sig) :=
  [(GTP_IE_CAUSE, Some GTP_IE_INSTANCE_ZERO, Into cause);
   (GTP_IE_BEARER_CONTEXT, Some GTP_IE_INSTANCE_ZERO, Next (S := create_bearer_rsp_sig) bearer_cnt bearer_contexts MAX_BEARERS);
   (GTP_IE_RECOVERY, Some GTP_IE_INSTANCE_ZERO, Into recovery);
   (GTP_IE_FQCSID, Some GTP_IE_INSTANCE_ZERO, Into mme_fqcsid);
   (GTP_IE_FQCSID, Some GTP_IE_INSTANCE_ONE, Into sgw_fqcsid);
   (GTP_IE_FQCSID, Some GTP_IE_INSTANCE_TWO, Into epdg_fqcsid);
   (GTP_IE_FQCSID, Some GTP_IE_INSTANCE_THREE, Into twan_fqcsid);
   (GTP_IE_PROT_CFG_OPTS, Some GTP_IE_INSTANCE_ZERO, Into pco);
   (GTP_IE_UE_TIME_ZONE, Some GTP_IE_INSTANCE_ZERO, Into ue_time_zone);
   (GTP_IE_USER_LOC_INFO, Some GTP_IE_INSTANCE_ZERO, Into uli);
   (GTP_IE_TWAN_IDENTIFIER, Some GTP_IE_INSTANCE_ZERO, Into twan_identifier);
   (GTP_IE_OVRLD_CTL_INFO, Some GTP_IE_INSTANCE_ZERO, Into mmes4_sgsns_ovrld_ctl_info);
   (GTP_IE_OVRLD_CTL_INFO, Some GTP_IE_INSTANCE_ONE, Into sgws_ovrld_ctl_info);
   (GTP_IE_PRES_RPTNG_AREA_INFO, Some GTP_IE_INSTANCE_ZERO, Into pres_rptng_area_info);
   (GTP_IE_IP_ADDRESS, Some GTP_IE_INSTANCE_ZERO, Into mmes4_sgsn_idnt);
   (GTP_IE_OVRLD_CTL_INFO, Some GTP_IE_INSTANCE_TWO, Into twanepdgs_ovrld_ctl_info);
   (GTP_IE_TWAN_IDENTIFIER, Some GTP_IE_INSTANCE_ONE, Into wlan_loc_info);
   (GTP_IE_TWAN_IDNT_TS, Some GTP_IE_INSTANCE_ONE, Into wlan_loc_ts);
   (GTP_IE_IP_ADDRESS, Some GTP_IE_INSTANCE_ZERO, Into ue_local_ip_addr);
   (GTP_IE_PORT_NUMBER, Some GTP_IE_INSTANCE_ZERO, Into ue_udp_port);
   (GTP_IE_FULL_QUAL_CNTNR, Some GTP_IE_INSTANCE_ZERO, Into nbifom_cntnr);
   (GTP_IE_PORT_NUMBER, Some GTP_IE_INSTANCE_ONE, Into ue_tcp_port);
   (GTP_IE_PRIV_EXT, None, Into priv_ext)].

Definition decode_create_bearer_rsp (fuel : nat) (m : bytes) (buf : Z) (value : create_bearer_rsp_t)
  : outcome (Z * create_bearer_rsp_t) :=
  decode_message decode_create_bearer_rsp_table [] false fuel m buf value.

End create_bearer_rsp.

(** ** [rmt_ue_rpt_ack] *)

Module rmt_ue_rpt_ack.

Inductive rmt_ue_rpt_ack_member :=
| cause
| priv_ext.

Definition rmt_ue_rpt_ack_eq_dec (f g : rmt_ue_rpt_ack_member) : {f = g} + {f <> g}.
Proof. decide equality. Defined.

Definition rmt_ue_rpt_ack_type (f : rmt_ue_rpt_ack_member) : Type :=
  match f with
  | cause => gtp_cause_ie.gtp_cause_ie_t
  | priv_ext => gtp_priv_ext_ie.gtp_priv_ext_ie_t
  end.

Definition rmt_ue_rpt_ack_ie (f : rmt_ue_rpt_ack_member) : IeMember (rmt_ue_rpt_ack_type f) :=
  match f with
  | cause => gtp_cause_ie_member
  | priv_ext => gtp_priv_ext_ie_member
  end.

Definition rmt_ue_rpt_ack_sig : signature :=
  Signature rmt_ue_rpt_ack_member rmt_ue_rpt_ack_eq_dec rmt_ue_rpt_ack_type rmt_ue_rpt_ack_ie
    Empty_set no_counter_eq_dec.
Canonical Structure rmt_ue_rpt_ack_sig.

Definition rmt_ue_rpt_ack_t : Type := message rmt_ue_rpt_ack_sig.

Definition encode_rmt_ue_rpt_ack_order : list (visit rmt_ue_rpt_ack_sig) :=
  [One cause; One priv_ext].

Definition encode_rmt_ue_rpt_ack (value : rmt_ue_rpt_ack_t) (buf : Z) : enc Z :=
  encode_message encode_rmt_ue_rpt_ack_order value buf.

Definition decode_rmt_ue_rpt_ack_table : list (branch rmt_ue_rpt_ack_sig) :=
  [(GTP_IE_CAUSE, Some GTP_IE_INSTANCE_ZERO, Into cause);
   (GTP_IE_PRIV_EXT, None, Into priv_ext)].

Definition decode_rmt_ue_rpt_ack (fuel : nat) (m : bytes) (buf : Z) (value : rmt_ue_rpt_ack_t)
  : outcome (Z * rmt_ue_rpt_ack_t) :=
  decode_message decode_rmt_ue_rpt_ack_table [] false fuel m buf value.

End rmt_ue_rpt_ack.

(** ** [upd_pdn_conn_set_req] *)

Module upd_pdn_conn_set_req.

Inductive upd_pdn_conn_set_req_member :=
| mme_fqcsid
| sgw_fqcsid
| priv_ext.

Definition upd_pdn_conn_set_req_eq_dec (f g : upd_pdn_conn_set_req_member) : {f = g} + {f <> g}.
Proof. decide equality. Defined.

Definition upd_pdn_conn_set_req_type (f : upd_pdn_conn_set_req_member) : Type :=
  match f with
  | mme_fqcsid => gtp_fqcsid_ie.gtp_fqcsid_ie_t
  | sgw_fqcsid => gtp_fqcsid_ie.gtp_fqcsid_ie_t
  | priv_ext => gtp_priv_ext_ie.gtp_priv_ext_ie_t
  end.

Definition upd_pdn_conn_set_req_ie (f : upd_pdn_conn_set_req_member) : IeMember (upd_pdn_conn_set_req_type f) :=
  match f with
  | mme_fqcsid => gtp_fqcsid_ie_member
  | sgw_fqcsid => gtp_fqcsid_ie_member
  | priv_ext => gtp_priv_ext_ie_member
  end.

Definition upd_pdn_conn_set_req_sig : signature :=
  Signature upd_pdn_conn_set_req_member upd_pdn_conn_set_req_eq_dec upd_pdn_conn_set_req_type upd_pdn_conn_set_req_ie
    Empty_set no_counter_eq_dec.
Canonical Structure upd_pdn_conn_set_req_sig.

Definition upd_pdn_conn_set_req_t : Type := message upd_pdn_conn_set_req_sig.

Definition encode_upd_pdn_conn_set_req_order : list (visit upd_pdn_conn_set_req_sig) :=
  [One mme_fqcsid; One sgw_fqcsid; One priv_ext].

Definition encode_upd_pdn_conn_set_req (value : upd_pdn_conn_set_req_t) (buf : Z) : enc Z :=
  encode_message encode_upd_pdn_conn_set_req_order value buf.

Definition decode_upd_pdn_conn_set_req_table : list (branch upd_pdn_conn_set_req_sig) :=
  [(GTP_IE_FQCSID, Some GTP_IE_INSTANCE_ZERO, Into mme_fqcsid);
   (GTP_IE_FQCSID, Some GTP_IE_INSTANCE_ONE, Into sgw_fqcsid);
   (GTP_IE_PRIV_EXT, None, Into priv_ext)].

Definition decode_upd_pdn_conn_set_req (fuel : nat) (m : bytes) (buf : Z) (value : upd_pdn_conn_set_req_t)
  : outcome (Z * upd_pdn_conn_set_req_t) :=
  decode_message decode_upd_pdn_conn_set_req_table [] false fuel m buf value.

End upd_pdn_conn_set_req.

(** ** [change_noti_req] *)

Module change_noti_req.

Inductive change_noti_req_member :=
| imsi
| rat_type
| uli
| uci
| ipv4_address
| lbi
| pres_rptng_area_info
| secdry_rat_usage_data_rpt (i : nat).

Definition change_noti_req_eq_dec (f g : change_noti_req_member) : {f = g} + {f <> g}.
Proof. decide equality; apply Nat.eq_dec. Defined.

Definition change_noti_req_type (f : change_noti_req_member) : Type :=
  match f with
  | imsi => gtp_imsi_ie.gtp_imsi_ie_t
  | rat_type => gtp_rat_type_ie.gtp_rat_type_ie_t
  | uli => gtp_user_loc_info_ie.gtp_user_loc_info_ie_t
  | uci => gtp_user_csg_info_ie.gtp_user_csg_info_ie_t
  | ipv4_address => gtp_ip_address_ie.gtp_ip_address_ie_t
  | lbi => gtp_eps_bearer_id_ie.gtp_eps_bearer_id_ie_t
  | pres_rptng_area_info => gtp_pres_rptng_area_info_ie.gtp_pres_rptng_area_info_ie_t
  | secdry_rat_usage_data_rpt _ => gtp_secdry_rat_usage_data_rpt_ie.gtp_secdry_rat_usage_data_rpt_ie_t
  end.

Definition change_noti_req_ie (f : change_noti_req_member) : IeMember (change_noti_req_type f) :=
  match f with
  | imsi => gtp_imsi_ie_member
  | rat_type => gtp_rat_type_ie_member
  | uli => gtp_user_loc_info_ie_member
  | uci => gtp_user_csg_info_ie_member
  | ipv4_address => gtp_ip_address_ie_member
  | lbi => gtp_eps_bearer_id_ie_member
  | pres_rptng_area_info => gtp_pres_rptng_area_info_ie_member
  | secdry_rat_usage_data_rpt _ => gtp_secdry_rat_usage_data_rpt_ie_member
  end.

Inductive change_noti_req_counter := second_rat_count.

Definition change_noti_req_counter_eq_dec (c d : change_noti_req_counter) : {c = d} + {c <> d}.
Proof. decide equality. Defined.

Definition change_noti_req_sig : signature :=
  Signature change_noti_req_member change_noti_req_eq_dec change_noti_req_type change_noti_req_ie
    change_noti_req_counter change_noti_req_counter_eq_dec.
Canonical Structure change_noti_req_sig.

Definition change_noti_req_t : Type := message change_noti_req_sig.

Definition encode_change_noti_req_order : list (visit change_noti_req_sig) :=
  [One imsi; One rat_type; One uli; One uci; One ipv4_address; One lbi;
   One pres_rptng_area_info;
   Many (S := change_noti_req_sig) (fun n => n second_rat_count) secdry_rat_usage_data_rpt (Z.to_nat MAX_BEARERS)].

Definition encode_change_noti_req (value : change_noti_req_t) (buf : Z) : enc Z :=
  encode_message encode_change_noti_req_order value buf.

Definition decode_change_noti_req_table : list (branch change_noti_req_sig) :=
  [(GTP_IE_IMSI, Some GTP_IE_INSTANCE_ZERO, Into imsi);
   (GTP_IE_RAT_TYPE, Some GTP_IE_INSTANCE_ZERO, Into rat_type);
   (GTP_IE_USER_LOC_INFO, Some GTP_IE_INSTANCE_ZERO, Into uli);
   (GTP_IE_USER_CSG_INFO, Some GTP_IE_INSTANCE_ZERO, Into uci);
   (GTP_IE_IP_ADDRESS, Some GTP_IE_INSTANCE_ZERO, Into ipv4_address);
   (GTP_IE_EPS_BEARER_ID, Some GTP_IE_INSTANCE_ZERO, Into lbi);
   (GTP_IE_PRES_RPTNG_AREA_INFO, Some GTP_IE_INSTANCE_ZERO, Into pres_rptng_area_info);
   (GTP_IE_SECDRY_RAT_USAGE_DATA_RPT, Some GTP_IE_INSTANCE_ZERO, Next (S := change_noti_req_sig) second_rat_count secdry_rat_usage_data_rpt MAX_BEARERS)].

Definition decode_change_noti_req (fuel : nat) (m : bytes) (buf : Z) (value : change_noti_req_t)
  : outcome (Z * change_noti_req_t) :=
  decode_message decode_change_noti_req_table [second_rat_count] false fuel m buf value.

End change_noti_req.

(** ** [change_noti_rsp] *)

Module change_noti_rsp.

Inductive change_noti_rsp_member :=
| imsi
| cause
| pres_rptng_area_act.

Definition change_noti_rsp_eq_dec (f g : change_noti_rsp_member) : {f = g} + {f <> g}.
Proof. decide equality. Defined.

Definition change_noti_rsp_type (f : change_noti_rsp_member) : Type :=
  match f with
  | imsi => gtp_imsi_ie.gtp_imsi_ie_t
  | cause => gtp_cause_ie.gtp_cause_ie_t
  | pres_rptng_area_act => gtp_pres_rptng_area_act_ie.gtp_pres_rptng_area_act_ie_t
  end.

Definition change_noti_rsp_ie (f : change_noti_rsp_member) : IeMember (change_noti_rsp_type f) :=
  match f with
  | imsi => gtp_imsi_ie_member
  | cause => gtp_cause_ie_member
  | pres_rptng_area_act => gtp_pres_rptng_area_act_ie_member
  end.

Definition change_noti_rsp_sig : signature :=
  Signature change_noti_rsp_member change_noti_rsp_eq_dec change_noti_rsp_type change_noti_rsp_ie
    Empty_set no_counter_eq_dec.
Canonical Structure change_noti_rsp_sig.

Definition change_noti_rsp_t : Type := message change_noti_rsp_sig.

Definition encode_change_noti_rsp_order : list (visit change_noti_rsp_sig) :=
  [One imsi; One cause; One pres_rptng_area_act].

Definition encode_change_noti_rsp (value : change_noti_rsp_t) (buf : Z) : enc Z :=
  encode_message encode_change_noti_rsp_order value buf.

Definition decode_change_noti_rsp_table : list (branch change_noti_rsp_sig) :=
  [(GTP_IE_IMSI, Some GTP_IE_INSTANCE_ZERO, Into imsi);
   (GTP_IE_CAUSE, Some GTP_IE_INSTANCE_ZERO, Into cause);
   (GTP_IE_PRES_RPTNG_AREA_ACT, Some GTP_IE_INSTANCE_ZERO, Into pres_rptng_area_act)].

Definition decode_change_noti_rsp (fuel : nat) (m : bytes) (buf : Z) (value : change_noti_rsp_t)
  : outcome (Z * change_noti_rsp_t) :=
  decode_message decode_change_noti_rsp_table [] false fuel m buf value.

End change_noti_rsp.

(** ** [create_indir_data_fwdng_tunn_rsp] *)

Module create_indir_data_fwdng_tunn_rsp.

Inductive create_indir_data_fwdng_tunn_rsp_member :=
| cause
| sender_fteid_ctl_plane
| bearer_contexts (i : nat)
| recovery
| priv_ext.

Definition create_indir_data_fwdng_tunn_rsp_eq_dec (f g : create_indir_data_fwdng_tunn_rsp_member) : {f = g} + {f <> g}.
Proof. decide equality; apply Nat.eq_dec. Defined.

Definition create_indir_data_fwdng_tunn_rsp_type (f : create_indir_data_fwdng_tunn_rsp_member) : Type :=
  match f with
  | cause => gtp_cause_ie.gtp_cause_ie_t
  | sender_fteid_ctl_plane => gtp_fully_qual_tunn_endpt_idnt_ie.gtp_fully_qual_tunn_endpt_idnt_ie_t
  | bearer_contexts _ => gtp_create_indir_data_fwdng_tunn_response__bearer_ctxt_ie.gtp_create_indir_data_fwdng_tunn_response__bearer_ctxt_ie_t
  | recovery => gtp_recovery_ie.gtp_recovery_ie_t
  | priv_ext => gtp_priv_ext_ie.gtp_priv_ext_ie_t
  end.

Definition create_indir_data_fwdng_tunn_rsp_ie (f : create_indir_data_fwdng_tunn_rsp_member) : IeMember (create_indir_data_fwdng_tunn_rsp_type f) :=
  match f with
  | cause => gtp_cause_ie_member
  | sender_fteid_ctl_plane => gtp_fully_qual_tunn_endpt_idnt_ie_member
  | bearer_contexts _ => gtp_create_indir_data_fwdng_tunn_response__bearer_ctxt_ie.gtp_create_indir_data_fwdng_tunn_response__bearer_ctxt_ie_member_ie
  | recovery => gtp_recovery_ie_member
  | priv_ext => gtp_priv_ext_ie_member
  end.

Inductive create_indir_data_fwdng_tunn_rsp_counter := bearer_count.

Definition create_indir_data_fwdng_tunn_rsp_counter_eq_dec (c d : create_indir_data_fwdng_tunn_rsp_counter) : {c = d} + {c <> d}.
Proof. decide equality. Defined.

Definition create_indir_data_fwdng_tunn_rsp_sig : signature :=
  Signature create_indir_data_fwdng_tunn_rsp_member create_indir_data_fwdng_tunn_rsp_eq_dec create_indir_data_fwdng_tunn_rsp_type create_indir_data_fwdng_tunn_rsp_ie
    create_indir_data_fwdng_tunn_rsp_counter create_indir_data_fwdng_tunn_rsp_counter_eq_dec.
Canonical Structure create_indir_data_fwdng_tunn_rsp_sig.

Definition create_indir_data_fwdng_tunn_rsp_t : Type := message create_indir_data_fwdng_tunn_rsp_sig.

Definition encode_create_indir_data_fwdng_tunn_rsp_order : list (visit create_indir_data_fwdng_tunn_rsp_sig) :=
  [One cause; One sender_fteid_ctl_plane;
   Many (S := create_indir_data_fwdng_tunn_rsp_sig) (fun _ => MAX_BEARERS) bearer_contexts (Z.to_nat MAX_BEARERS);
   One recovery; One priv_ext].

Definition encode_create_indir_data_fwdng_tunn_rsp (value : create_indir_data_fwdng_tunn_rsp_t) (buf : Z) : enc Z :=
  encode_message encode_create_indir_data_fwdng_tunn_rsp_order value buf.

Definition decode_create_indir_data_fwdng_tunn_rsp_table : list (branch create_indir_data_fwdng_tunn_rsp_sig) :=
  [(GTP_IE_CAUSE, Some GTP_IE_INSTANCE_ZERO, Into cause);
   (GTP_IE_FULLY_QUAL_TUNN_ENDPT_IDNT, Some GTP_IE_INSTANCE_ZERO, Into sender_fteid_ctl_plane);
   (GTP_IE_BEARER_CONTEXT, Some GTP_IE_INSTANCE_ZERO, Next (S := create_indir_data_fwdng_tunn_rsp_sig) bearer_count bearer_contexts MAX_BEARERS);
   (GTP_IE_RECOVERY, Some GTP_IE_INSTANCE_ZERO, Into recovery);
   (GTP_IE_PRIV_EXT, None, Into priv_ext)].

Definition decode_create_indir_data_fwdng_tunn_rsp (fuel : nat) (m : bytes) (buf : Z) (value : create_indir_data_fwdng_tunn_rsp_t)
  : outcome (Z * create_indir_data_fwdng_tunn_rsp_t) :=
  decode_message decode_create_indir_data_fwdng_tunn_rsp_table [] false fuel m buf value.

End create_indir_data_fwdng_tunn_rsp.

(** ** [del_bearer_cmd] *)

Module del_bearer_cmd.

Inductive del_bearer_cmd_member :=
| bearer_contexts (i : nat)
| uli
| uli_timestamp
| ue_time_zone
| mmes4_sgsns_ovrld_ctl_info
| sgws_ovrld_ctl_info
| sender_fteid_ctl_plane
| secdry_rat_usage_data_rpt
| priv_ext.

Definition del_bearer_cmd_eq_dec (f g : del_bearer_cmd_member) : {f = g} + {f <> g}.
Proof. decide equality; apply Nat.eq_dec. Defined.

Definition del_bearer_cmd_type (f : del_bearer_cmd_member) : Type :=
  match f with
  | bearer_contexts _ => gtp_del_bearer_command_bearer_ctxt_ie.gtp_del_bearer_command_bearer_ctxt_ie_t
  | uli => gtp_user_loc_info_ie.gtp_user_loc_info_ie_t
  | uli_timestamp => gtp_uli_timestamp_ie.gtp_uli_timestamp_ie_t
  | ue_time_zone => gtp_ue_time_zone_ie.gtp_ue_time_zone_ie_t
  | mmes4_sgsns_ovrld_ctl_info => gtp_ovrld_ctl_info_ie.gtp_ovrld_ctl_info_ie_t
  | sgws_ovrld_ctl_info => gtp_ovrld_ctl_info_ie.gtp_ovrld_ctl_info_ie_t
  | sender_fteid_ctl_plane => gtp_fully_qual_tunn_endpt_idnt_ie.gtp_fully_qual_tunn_endpt_idnt_ie_t
  | secdry_rat_usage_data_rpt => gtp_secdry_rat_usage_data_rpt_ie.gtp_secdry_rat_usage_data_rpt_ie_t
  | priv_ext => gtp_priv_ext_ie.gtp_priv_ext_ie_t
  end.

Definition del_bearer_cmd_ie (f : del_bearer_cmd_member) : IeMember (del_bearer_cmd_type f) :=
  match f with
  | bearer_contexts _ => gtp_del_bearer_command_bearer_ctxt_ie.gtp_del_bearer_command_bearer_ctxt_ie_member_ie
  | uli => gtp_user_loc_info_ie_member
  | uli_timestamp => gtp_uli_timestamp_ie_member
  | ue_time_zone => gtp_ue_time_zone_ie_member
  | mmes4_sgsns_ovrld_ctl_info => gtp_ovrld_ctl_info_ie_member
  | sgws_ovrld_ctl_info => gtp_ovrld_ctl_info_ie_member
  | sender_fteid_ctl_plane => gtp_fully_qual_tunn_endpt_idnt_ie_member
  | secdry_rat_usage_data_rpt => gtp_secdry_rat_usage_data_rpt_ie_member
  | priv_ext => gtp_priv_ext_ie_member
  end.

Inductive del_bearer_cmd_counter := bearer_count.

Definition del_bearer_cmd_counter_eq_dec (c d : del_bearer_cmd_counter) : {c = d} + {c <> d}.
Proof. decide equality. Defined.

Definition del_bearer_cmd_sig : signature :=
  Signature del_bearer_cmd_member del_bearer_cmd_eq_dec del_bearer_cmd_type del_bearer_cmd_ie
    del_bearer_cmd_counter del_bearer_cmd_counter_eq_dec.
Canonical Structure del_bearer_cmd_sig.

Definition del_bearer_cmd_t : Type := message del_bearer_cmd_sig.

Definition encode_del_bearer_cmd_order : list (visit del_bearer_cmd_sig) :=
  [Many (S := del_bearer_cmd_sig) (fun n => n bearer_count) bearer_contexts (Z.to_nat MAX_BEARERS);
   One uli; One uli_timestamp; One ue_time_zone; One mmes4_sgsns_ovrld_ctl_info;
   One sgws_ovrld_ctl_info; One sender_fteid_ctl_plane; One secdry_rat_usage_data_rpt;
   One priv_ext].

Definition encode_del_bearer_cmd (value : del_bearer_cmd_t) (buf : Z) : enc Z :=
  encode_message encode_del_bearer_cmd_order value buf.

Definition decode_del_bearer_cmd_table : list (branch del_bearer_cmd_sig) :=
  [(GTP_IE_BEARER_CONTEXT, Some GTP_IE_INSTANCE_ZERO, Next (S := del_bearer_cmd_sig) bearer_count bearer_contexts MAX_BEARERS);
   (GTP_IE_USER_LOC_INFO, Some GTP_IE_INSTANCE_ZERO, Into uli);
   (GTP_IE_ULI_TIMESTAMP, Some GTP_IE_INSTANCE_ZERO, Into uli_timestamp);
   (GTP_IE_UE_TIME_ZONE, Some GTP_IE_INSTANCE_ZERO, Into ue_time_zone);
   (GTP_IE_OVRLD_CTL_INFO, Some GTP_IE_INSTANCE_ZERO, Into mmes4_sgsns_ovrld_ctl_info);
   (GTP_IE_OVRLD_CTL_INFO, Some GTP_IE_INSTANCE_ONE, Into sgws_ovrld_ctl_info);
   (GTP_IE_FULLY_QUAL_TUNN_ENDPT_IDNT, Some GTP_IE_INSTANCE_ZERO, Into sender_fteid_ctl_plane);
   (GTP_IE_SECDRY_RAT_USAGE_DATA_RPT, Some GTP_IE_INSTANCE_ZERO, Into secdry_rat_usage_data_rpt);
   (GTP_IE_PRIV_EXT, None, Into priv_ext)].

Definition decode_del_bearer_cmd (fuel : nat) (m : bytes) (buf : Z) (value : del_bearer_cmd_t)
  : outcome (Z * del_bearer_cmd_t) :=
  decode_message decode_del_bearer_cmd_table [bearer_count] false fuel m buf value.

End del_bearer_cmd.

(** ** [mod_bearer_cmd] *)

Module mod_bearer_cmd.

Inductive mod_bearer_cmd_member :=
| apn_ambr
| bearer_context
| mmes4_sgsns_ovrld_ctl_info
| sgws_ovrld_ctl_info
| twanepdgs_ovrld_ctl_info
| sender_fteid_ctl_plane
| priv_ext.

Definition mod_bearer_cmd_eq_dec (f g : mod_bearer_cmd_member) : {f = g} + {f <> g}.
Proof. decide equality. Defined.

Definition mod_bearer_cmd_type (f : mod_bearer_cmd_member) : Type :=
  match f with
  | apn_ambr => gtp_agg_max_bit_rate_ie.gtp_agg_max_bit_rate_ie_t
  | bearer_context => gtp_mod_bearer_command__bearer_ctxt_ie.gtp_mod_bearer_command__bearer_ctxt_ie_t
  | mmes4_sgsns_ovrld_ctl_info => gtp_ovrld_ctl_info_ie.gtp_ovrld_ctl_info_ie_t
  | sgws_ovrld_ctl_info => gtp_ovrld_ctl_info_ie.gtp_ovrld_ctl_info_ie_t
  | twanepdgs_ovrld_ctl_info => gtp_ovrld_ctl_info_ie.gtp_ovrld_ctl_info_ie_t
  | sender_fteid_ctl_plane => gtp_fully_qual_tunn_endpt_idnt_ie.gtp_fully_qual_tunn_endpt_idnt_ie_t
  | priv_ext => gtp_priv_ext_ie.gtp_priv_ext_ie_t
  end.

Definition mod_bearer_cmd_ie (f : mod_bearer_cmd_member) : IeMember (mod_bearer_cmd_type f) :=
  match f with
  | apn_ambr => gtp_agg_max_bit_rate_ie_member
  | bearer_context => gtp_mod_bearer_command__bearer_ctxt_ie.gtp_mod_bearer_command__bearer_ctxt_ie_member_ie
  | mmes4_sgsns_ovrld_ctl_info => gtp_ovrld_ctl_info_ie_member
  | sgws_ovrld_ctl_info => gtp_ovrld_ctl_info_ie_member
  | twanepdgs_ovrld_ctl_info => gtp_ovrld_ctl_info_ie_member
  | sender_fteid_ctl_plane => gtp_fully_qual_tunn_endpt_idnt_ie_member
  | priv_ext => gtp_priv_ext_ie_member
  end.

Definition mod_bearer_cmd_sig : signature :=
  Signature mod_bearer_cmd_member mod_bearer_cmd_eq_dec mod_bearer_cmd_type mod_bearer_cmd_ie
    Empty_set no_counter_eq_dec.
Canonical Structure mod_bearer_cmd_sig.

Definition mod_bearer_cmd_t : Type := message mod_bearer_cmd_sig.

Definition encode_mod_bearer_cmd_order : list (visit mod_bearer_cmd_sig) :=
  [One apn_ambr; One bearer_context; One mmes4_sgsns_ovrld_ctl_info; One sgws_ovrld_ctl_info;
   One twanepdgs_ovrld_ctl_info; One sender_fteid_ctl_plane; One priv_ext].

Definition encode_mod_bearer_cmd (value : mod_bearer_cmd_t) (buf : Z) : enc Z :=
  encode_message encode_mod_bearer_cmd_order value buf.

Definition decode_mod_bearer_cmd_table : list (branch mod_bearer_cmd_sig) :=
  [(GTP_IE_AGG_MAX_BIT_RATE, Some GTP_IE_INSTANCE_ZERO, Into apn_ambr);
   (GTP_IE_BEARER_CONTEXT, Some GTP_IE_INSTANCE_ZERO, Into bearer_context);
   (GTP_IE_OVRLD_CTL_INFO, Some GTP_IE_INSTANCE_ZERO, Into mmes4_sgsns_ovrld_ctl_info);
   (GTP_IE_OVRLD_CTL_INFO, Some GTP_IE_INSTANCE_ONE, Into sgws_ovrld_ctl_info);
   (GTP_IE_OVRLD_CTL_INFO, Some GTP_IE_INSTANCE_TWO, Into twanepdgs_ovrld_ctl_info);
   (GTP_IE_FULLY_QUAL_TUNN_ENDPT_IDNT, Some GTP_IE_INSTANCE_ZERO, Into sender_fteid_ctl_plane);
   (GTP_IE_PRIV_EXT, None, Into priv_ext)].

Definition decode_mod_bearer_cmd (fuel : nat) (m : bytes) (buf : Z) (value : mod_bearer_cmd_t)
  : outcome (Z * mod_bearer_cmd_t) :=
  decode_message decode_mod_bearer_cmd_table [] false fuel m buf value.

End mod_bearer_cmd.

(** ** [mod_bearer_req] *)

Module mod_bearer_req.

Inductive mod_bearer_req_member :=
| mei
| uli
| serving_network
| selection_mode
| indctn_flgs
| sender_fteid_ctl_plane
| apn_ambr
| delay_dnlnk_pckt_notif_req
| bearer_contexts_to_be_modified (i : nat)
| bearer_contexts_to_be_removed
| recovery
| ue_time_zone
| mme_fqcsid
| sgw_fqcsid
| uci
| ue_local_ip_addr
| ue_udp_port
| mmes4_sgsn_ldn
| sgw_ldn
| henb_local_ip_addr
| henb_udp_port
| mmes4_sgsn_idnt
| cn_oper_sel_entity
| pres_rptng_area_info
| mmes4_sgsns_ovrld_ctl_info
| sgws_ovrld_ctl_info
| epdgs_ovrld_ctl_info
| srvng_plmn_rate_ctl
| mo_exception_data_cntr
| imsi
| user_loc_info_sgw
| wlan_loc_info
| wlan_loc_ts
| secdry_rat_usage_data_rpt (i : nat)
| priv_ext
| rat_type.

Definition mod_bearer_req_eq_dec (f g : mod_bearer_req_member) : {f = g} + {f <> g}.
Proof. decide equality; apply Nat.eq_dec. Defined.

Definition mod_bearer_req_type (f : mod_bearer_req_member) : Type :=
  match f with
  | mei => gtp_mbl_equip_idnty_ie.gtp_mbl_equip_idnty_ie_t
  | uli => gtp_user_loc_info_ie.gtp_user_loc_info_ie_t
  | serving_network => gtp_serving_network_ie.gtp_serving_network_ie_t
  | selection_mode => gtp_selection_mode_ie.gtp_selection_mode_ie_t
  | indctn_flgs => gtp_indication_ie.gtp_indication_ie_t
  | sender_fteid_ctl_plane => gtp_fully_qual_tunn_endpt_idnt_ie.gtp_fully_qual_tunn_endpt_idnt_ie_t
  | apn_ambr => gtp_agg_max_bit_rate_ie.gtp_agg_max_bit_rate_ie_t
  | delay_dnlnk_pckt_notif_req => gtp_delay_value_ie.gtp_delay_value_ie_t
  | bearer_contexts_to_be_modified _ => gtp_mod_bearer_request_bearer_ctxt_to_be_modified_ie.gtp_mod_bearer_request_bearer_ctxt_to_be_modified_ie_t
  | bearer_contexts_to_be_removed => gtp_mod_bearer_request_bearer_ctxt_to_be_removed_ie.gtp_mod_bearer_request_bearer_ctxt_to_be_removed_ie_t
  | recovery => gtp_recovery_ie.gtp_recovery_ie_t
  | ue_time_zone => gtp_ue_time_zone_ie.gtp_ue_time_zone_ie_t
  | mme_fqcsid => gtp_fqcsid_ie.gtp_fqcsid_ie_t
  | sgw_fqcsid => gtp_fqcsid_ie.gtp_fqcsid_ie_t
  | uci => gtp_user_csg_info_ie.gtp_user_csg_info_ie_t
  | ue_local_ip_addr => gtp_ip_address_ie.gtp_ip_address_ie_t
  | ue_udp_port => gtp_port_number_ie.gtp_port_number_ie_t
  | mmes4_sgsn_ldn => gtp_local_distgsd_name_ie.gtp_local_distgsd_name_ie_t
  | sgw_ldn => gtp_local_distgsd_name_ie.gtp_local_distgsd_name_ie_t
  | henb_local_ip_addr => gtp_ip_address_ie.gtp_ip_address_ie_t
  | henb_udp_port => gtp_port_number_ie.gtp_port_number_ie_t
  | mmes4_sgsn_idnt => gtp_ip_address_ie.gtp_ip_address_ie_t
  | cn_oper_sel_entity => gtp_cn_oper_sel_entity_ie.gtp_cn_oper_sel_entity_ie_t
  | pres_rptng_area_info => gtp_pres_rptng_area_info_ie.gtp_pres_rptng_area_info_ie_t
  | mmes4_sgsns_ovrld_ctl_info => gtp_ovrld_ctl_info_ie.gtp_ovrld_ctl_info_ie_t
  | sgws_ovrld_ctl_info => gtp_ovrld_ctl_info_ie.gtp_ovrld_ctl_info_ie_t
  | epdgs_ovrld_ctl_info => gtp_ovrld_ctl_info_ie.gtp_ovrld_ctl_info_ie_t
  | srvng_plmn_rate_ctl => gtp_srvng_plmn_rate_ctl_ie.gtp_srvng_plmn_rate_ctl_ie_t
  | mo_exception_data_cntr => gtp_counter_ie.gtp_counter_ie_t
  | imsi => gtp_imsi_ie.gtp_imsi_ie_t
  | user_loc_info_sgw => gtp_user_loc_info_ie.gtp_user_loc_info_ie_t
  | wlan_loc_info => gtp_twan_identifier_ie.gtp_twan_identifier_ie_t
  | wlan_loc_ts => gtp_twan_idnt_ts_ie.gtp_twan_idnt_ts_ie_t
  | secdry_rat_usage_data_rpt _ => gtp_secdry_rat_usage_data_rpt_ie.gtp_secdry_rat_usage_data_rpt_ie_t
  | priv_ext => gtp_priv_ext_ie.gtp_priv_ext_ie_t
  | rat_type => gtp_rat_type_ie.gtp_rat_type_ie_t
  end.

Definition mod_bearer_req_ie (f : mod_bearer_req_member) : IeMember (mod_bearer_req_type f) :=
  match f with
  | mei => gtp_mbl_equip_idnty_ie_member
  | uli => gtp_user_loc_info_ie_member
  | serving_network => gtp_serving_network_ie_member
  | selection_mode => gtp_selection_mode_ie_member
  | indctn_flgs => gtp_indication_ie_member
  | sender_fteid_ctl_plane => gtp_fully_qual_tunn_endpt_idnt_ie_member
  | apn_ambr => gtp_agg_max_bit_rate_ie_member
  | delay_dnlnk_pckt_notif_req => gtp_delay_value_ie_member
  | bearer_contexts_to_be_modified _ => gtp_mod_bearer_request_bearer_ctxt_to_be_modified_ie.gtp_mod_bearer_request_bearer_ctxt_to_be_modified_ie_member_ie
  | bearer_contexts_to_be_removed => gtp_mod_bearer_request_bearer_ctxt_to_be_removed_ie.gtp_mod_bearer_request_bearer_ctxt_to_be_removed_ie_member_ie
  | recovery => gtp_recovery_ie_member
  | ue_time_zone => gtp_ue_time_zone_ie_member
  | mme_fqcsid => gtp_fqcsid_ie_member
  | sgw_fqcsid => gtp_fqcsid_ie_member
  | uci => gtp_user_csg_info_ie_member
  | ue_local_ip_addr => gtp_ip_address_ie_member
  | ue_udp_port => gtp_port_number_ie_member
  | mmes4_sgsn_ldn => gtp_local_distgsd_name_ie_member
  | sgw_ldn => gtp_local_distgsd_name_ie_member
  | henb_local_ip_addr => gtp_ip_address_ie_member
  | henb_udp_port => gtp_port_number_ie_member
  | mmes4_sgsn_idnt => gtp_ip_address_ie_member
  | cn_oper_sel_entity => gtp_cn_oper_sel_entity_ie_member
  | pres_rptng_area_info => gtp_pres_rptng_area_info_ie_member
  | mmes4_sgsns_ovrld_ctl_info => gtp_ovrld_ctl_info_ie_member
  | sgws_ovrld_ctl_info => gtp_ovrld_ctl_info_ie_member
  | epdgs_ovrld_ctl_info => gtp_ovrld_ctl_info_ie_member
  | srvng_plmn_rate_ctl => gtp_srvng_plmn_rate_ctl_ie_member
  | mo_exception_data_cntr => gtp_counter_ie_member
  | imsi => gtp_imsi_ie_member
  | user_loc_info_sgw => gtp_user_loc_info_ie_member
  | wlan_loc_info => gtp_twan_identifier_ie_member
  | wlan_loc_ts => gtp_twan_idnt_ts_ie_member
  | secdry_rat_usage_data_rpt _ => gtp_secdry_rat_usage_data_rpt_ie_member
  | priv_ext => gtp_priv_ext_ie_member
  | rat_type => gtp_rat_type_ie_member
  end.

Inductive mod_bearer_req_counter := bearer_count | second_rat_count.

Definition mod_bearer_req_counter_eq_dec (c d : mod_bearer_req_counter) : {c = d} + {c <> d}.
Proof. decide equality. Defined.

Definition mod_bearer_req_sig : signature :=
  Signature mod_bearer_req_member mod_bearer_req_eq_dec mod_bearer_req_type mod_bearer_req_ie
    mod_bearer_req_counter mod_bearer_req_counter_eq_dec.
Canonical Structure mod_bearer_req_sig.

Definition mod_bearer_req_t : Type := message mod_bearer_req_sig.

Definition encode_mod_bearer_req_order : list (visit mod_bearer_req_sig) :=
  [One mei; One uli; One serving_network; One selection_mode; One indctn_flgs;
   One sender_fteid_ctl_plane; One apn_ambr; One delay_dnlnk_pckt_notif_req;
   Many (S := mod_bearer_req_sig) (fun _ => MAX_BEARERS) bearer_contexts_to_be_modified (Z.to_nat MAX_BEARERS);
   One bearer_contexts_to_be_removed; One recovery; One ue_time_zone; One mme_fqcsid;
   One sgw_fqcsid; One uci; One ue_local_ip_addr; One ue_udp_port; One mmes4_sgsn_ldn;
   One sgw_ldn; One henb_local_ip_addr; One henb_udp_port; One mmes4_sgsn_idnt;
   One cn_oper_sel_entity; One pres_rptng_area_info; One mmes4_sgsns_ovrld_ctl_info;
   One sgws_ovrld_ctl_info; One epdgs_ovrld_ctl_info; One srvng_plmn_rate_ctl;
   One mo_exception_data_cntr; One imsi; One user_loc_info_sgw; One wlan_loc_info;
   One wlan_loc_ts;
   Many (S := mod_bearer_req_sig) (fun n => n second_rat_count) secdry_rat_usage_data_rpt (Z.to_nat MAX_BEARERS);
   One priv_ext; One rat_type].

Definition encode_mod_bearer_req (value : mod_bearer_req_t) (buf : Z) : enc Z :=
  encode_message encode_mod_bearer_req_order value buf.

Definition decode_mod_bearer_req_table : list (branch mod_bearer_req_sig) :=
  [(GTP_IE_MBL_EQUIP_IDNTY, Some GTP_IE_INSTANCE_ZERO, Into mei);
   (GTP_IE_USER_LOC_INFO, Some GTP_IE_INSTANCE_ZERO, Into uli);
   (GTP_IE_SERVING_NETWORK, Some GTP_IE_INSTANCE_ZERO, Into serving_network);
   (GTP_IE_INDICATION, Some GTP_IE_INSTANCE_ZERO, Into indctn_flgs);
   (GTP_IE_SELECTION_MODE, Some GTP_IE_INSTANCE_ZERO, Into selection_mode);
   (GTP_IE_FULLY_QUAL_TUNN_ENDPT_IDNT, Some GTP_IE_INSTANCE_ZERO, Into sender_fteid_ctl_plane);
   (GTP_IE_AGG_MAX_BIT_RATE, Some GTP_IE_INSTANCE_ZERO, Into apn_ambr);
   (GTP_IE_DELAY_VALUE, Some GTP_IE_INSTANCE_ZERO, Into delay_dnlnk_pckt_notif_req);
   (GTP_IE_MOD_BEARER_REQUEST_BEARER_CTXT_TO_BE_MODIFIED, Some GTP_IE_INSTANCE_ZERO, Next (S := mod_bearer_req_sig) bearer_count bearer_contexts_to_be_modified MAX_BEARERS);
   (GTP_IE_MOD_BEARER_REQUEST_BEARER_CTXT_TO_BE_REMOVED, Some GTP_IE_INSTANCE_ONE, Into bearer_contexts_to_be_removed);
   (GTP_IE_RECOVERY, Some GTP_IE_INSTANCE_ZERO, Into recovery);
   (GTP_IE_UE_TIME_ZONE, Some GTP_IE_INSTANCE_ZERO, Into ue_time_zone);
   (GTP_IE_FQCSID, Some GTP_IE_INSTANCE_ZERO, Into mme_fqcsid);
   (GTP_IE_FQCSID, Some GTP_IE_INSTANCE_ONE, Into sgw_fqcsid);
   (GTP_IE_USER_CSG_INFO, Some GTP_IE_INSTANCE_ZERO, Into uci);
   (GTP_IE_IP_ADDRESS, Some GTP_IE_INSTANCE_ONE, Into ue_local_ip_addr);
   (GTP_IE_PORT_NUMBER, Some GTP_IE_INSTANCE_ONE, Into ue_udp_port);
   (GTP_IE_LOCAL_DISTGSD_NAME, Some GTP_IE_INSTANCE_ZERO, Into mmes4_sgsn_ldn);
   (GTP_IE_LOCAL_DISTGSD_NAME, Some GTP_IE_INSTANCE_ONE, Into sgw_ldn);
   (GTP_IE_IP_ADDRESS, Some GTP_IE_INSTANCE_ZERO, Into henb_local_ip_addr);
   (GTP_IE_PORT_NUMBER, Some GTP_IE_INSTANCE_ZERO, Into henb_udp_port);
   (GTP_IE_IP_ADDRESS, Some GTP_IE_INSTANCE_TWO, Into mmes4_sgsn_idnt);
   (GTP_IE_CN_OPER_SEL_ENTITY, Some GTP_IE_INSTANCE_ZERO, Into cn_oper_sel_entity);
   (GTP_IE_PRES_RPTNG_AREA_INFO, Some GTP_IE_INSTANCE_ZERO, Into pres_rptng_area_info);
   (GTP_IE_OVRLD_CTL_INFO, Some GTP_IE_INSTANCE_ZERO, Into mmes4_sgsns_ovrld_ctl_info);
   (GTP_IE_OVRLD_CTL_INFO, Some GTP_IE_INSTANCE_ONE, Into sgws_ovrld_ctl_info);
   (GTP_IE_OVRLD_CTL_INFO, Some GTP_IE_INSTANCE_TWO, Into epdgs_ovrld_ctl_info);
   (GTP_IE_SRVNG_PLMN_RATE_CTL, Some GTP_IE_INSTANCE_ZERO, Into srvng_plmn_rate_ctl);
   (GTP_IE_COUNTER, Some GTP_IE_INSTANCE_ZERO, Into mo_exception_data_cntr);
   (GTP_IE_IMSI, Some GTP_IE_INSTANCE_ZERO, Into imsi);
   (GTP_IE_USER_LOC_INFO, Some GTP_IE_INSTANCE_ONE, Into user_loc_info_sgw);
   (GTP_IE_TWAN_IDENTIFIER, Some GTP_IE_INSTANCE_ZERO, Into wlan_loc_info);
   (GTP_IE_TWAN_IDNT_TS, Some GTP_IE_INSTANCE_ZERO, Into wlan_loc_ts);
   (GTP_IE_SECDRY_RAT_USAGE_DATA_RPT, Some GTP_IE_INSTANCE_ZERO, Next (S := mod_bearer_req_sig) second_rat_count secdry_rat_usage_data_rpt MAX_BEARERS);
   (GTP_IE_PRIV_EXT, None, Into priv_ext);
   (GTP_IE_RAT_TYPE, Some GTP_IE_INSTANCE_ZERO, Into rat_type)].

Definition decode_mod_bearer_req (fuel : nat) (m : bytes) (buf : Z) (value : mod_bearer_req_t)
  : outcome (Z * mod_bearer_req_t) :=
  decode_message decode_mod_bearer_req_table [bearer_count; second_rat_count] true fuel m buf value.

End mod_bearer_req.

(** ** [del_bearer_fail_indctn] *)

Module del_bearer_fail_indctn.

Inductive del_bearer_fail_indctn_member :=
| cause
| bearer_context (i : nat)
| recovery
| indctn_flgs
| pgws_ovrld_ctl_info
| sgws_ovrld_ctl_info
| priv_ext.

Definition del_bearer_fail_indctn_eq_dec (f g : del_bearer_fail_indctn_member) : {f = g} + {f <> g}.
Proof. decide equality; apply Nat.eq_dec. Defined.

Definition del_bearer_fail_indctn_type (f : del_bearer_fail_indctn_member) : Type :=
  match f with
  | cause => gtp_cause_ie.gtp_cause_ie_t
  | bearer_context _ => gtp_del_bearer_fail_indication__bearer_ctxt_ie.gtp_del_bearer_fail_indication__bearer_ctxt_ie_t
  | recovery => gtp_recovery_ie.gtp_recovery_ie_t
  | indctn_flgs => gtp_indication_ie.gtp_indication_ie_t
  | pgws_ovrld_ctl_info => gtp_ovrld_ctl_info_ie.gtp_ovrld_ctl_info_ie_t
  | sgws_ovrld_ctl_info => gtp_ovrld_ctl_info_ie.gtp_ovrld_ctl_info_ie_t
  | priv_ext => gtp_priv_ext_ie.gtp_priv_ext_ie_t
  end.

Definition del_bearer_fail_indctn_ie (f : del_bearer_fail_indctn_member) : IeMember (del_bearer_fail_indctn_type f) :=
  match f with
  | cause => gtp_cause_ie_member
  | bearer_context _ => gtp_del_bearer_fail_indication__bearer_ctxt_ie.gtp_del_bearer_fail_indication__bearer_ctxt_ie_member_ie
  | recovery => gtp_recovery_ie_member
  | indctn_flgs => gtp_indication_ie_member
  | pgws_ovrld_ctl_info => gtp_ovrld_ctl_info_ie_member
  | sgws_ovrld_ctl_info => gtp_ovrld_ctl_info_ie_member
  | priv_ext => gtp_priv_ext_ie_member
  end.

Inductive del_bearer_fail_indctn_counter := bearer_count.

Definition del_bearer_fail_indctn_counter_eq_dec (c d : del_bearer_fail_indctn_counter) : {c = d} + {c <> d}.
Proof. decide equality. Defined.

Definition del_bearer_fail_indctn_sig : signature :=
  Signature del_bearer_fail_indctn_member del_bearer_fail_indctn_eq_dec del_bearer_fail_indctn_type del_bearer_fail_indctn_ie
    del_bearer_fail_indctn_counter del_bearer_fail_indctn_counter_eq_dec.
Canonical Structure del_bearer_fail_indctn_sig.

Definition del_bearer_fail_indctn_t : Type := message del_bearer_fail_indctn_sig.

Definition encode_del_bearer_fail_indctn_order : list (visit del_bearer_fail_indctn_sig) :=
  [One cause;
   Many (S := del_bearer_fail_indctn_sig) (fun n => n bearer_count) bearer_context (Z.to_nat MAX_BEARERS);
   One recovery; One indctn_flgs; One pgws_ovrld_ctl_info; One sgws_ovrld_ctl_info; One priv_ext].

Definition encode_del_bearer_fail_indctn (value : del_bearer_fail_indctn_t) (buf : Z) : enc Z :=
  encode_message encode_del_bearer_fail_indctn_order value buf.

Definition decode_del_bearer_fail_indctn_table : list (branch del_bearer_fail_indctn_sig) :=
  [(GTP_IE_CAUSE, Some GTP_IE_INSTANCE_ZERO, Into cause);
   (GTP_IE_BEARER_CONTEXT, Some GTP_IE_INSTANCE_ZERO, Next (S := del_bearer_fail_indctn_sig) bearer_count bearer_context MAX_BEARERS);
   (GTP_IE_RECOVERY, Some GTP_IE_INSTANCE_ZERO, Into recovery);
   (GTP_IE_INDICATION, Some GTP_IE_INSTANCE_ZERO, Into indctn_flgs);
   (GTP_IE_OVRLD_CTL_INFO, Some GTP_IE_INSTANCE_ZERO, Into pgws_ovrld_ctl_info);
   (GTP_IE_OVRLD_CTL_INFO, Some GTP_IE_INSTANCE_ONE, Into sgws_ovrld_ctl_info);
   (GTP_IE_PRIV_EXT, None, Into priv_ext)].

Definition decode_del_bearer_fail_indctn (fuel : nat) (m : bytes) (buf : Z) (value : del_bearer_fail_indctn_t)
  : outcome (Z * del_bearer_fail_indctn_t) :=
  decode_message decode_del_bearer_fail_indctn_table [] false fuel m buf value.

End del_bearer_fail_indctn.

(** ** [mod_bearer_rsp] *)

Module mod_bearer_rsp.

Inductive mod_bearer_rsp_member :=
| cause
| msisdn
| linked_eps_bearer_id
| apn_restriction
| pco
| bearer_contexts_modified (i : nat)
| bearer_contexts_marked_removal
| chg_rptng_act
| csg_info_rptng_act
| henb_info_rptng
| chrgng_gateway_name
| chrgng_gateway_addr
| pgw_fqcsid
| sgw_fqcsid
| recovery
| sgw_ldn
| pgw_ldn
| indctn_flgs
| pres_rptng_area_act
| pgws_node_lvl_load_ctl_info
| pgws_apn_lvl_load_ctl_info
| sgws_node_lvl_load_ctl_info
| pgws_ovrld_ctl_info
| sgws_ovrld_ctl_info
| pdn_conn_chrgng_id
| priv_ext.

Definition mod_bearer_rsp_eq_dec (f g : mod_bearer_rsp_member) : {f = g} + {f <> g}.
Proof. decide equality; apply Nat.eq_dec. Defined.

Definition mod_bearer_rsp_type (f : mod_bearer_rsp_member) : Type :=
  match f with
  | cause => gtp_cause_ie.gtp_cause_ie_t
  | msisdn => gtp_msisdn_ie.gtp_msisdn_ie_t
  | linked_eps_bearer_id => gtp_eps_bearer_id_ie.gtp_eps_bearer_id_ie_t
  | apn_restriction => gtp_apn_restriction_ie.gtp_apn_restriction_ie_t
  | pco => gtp_prot_cfg_opts_ie.gtp_prot_cfg_opts_ie_t
  | bearer_contexts_modified _ => gtp_mod_bearer_response_bearer_ctxt_modified_ie.gtp_mod_bearer_response_bearer_ctxt_modified_ie_t
  | bearer_contexts_marked_removal => gtp_mod_bearer_response_bearer_ctxt_marked_removal_ie.gtp_mod_bearer_response_bearer_ctxt_marked_removal_ie_t
  | chg_rptng_act => gtp_chg_rptng_act_ie.gtp_chg_rptng_act_ie_t
  | csg_info_rptng_act => gtp_csg_info_rptng_act_ie.gtp_csg_info_rptng_act_ie_t
  | henb_info_rptng => gtp_henb_info_rptng_ie.gtp_henb_info_rptng_ie_t
  | chrgng_gateway_name => gtp_fully_qual_domain_name_ie.gtp_fully_qual_domain_name_ie_t
  | chrgng_gateway_addr => gtp_ip_address_ie.gtp_ip_address_ie_t
  | pgw_fqcsid => gtp_fqcsid_ie.gtp_fqcsid_ie_t
  | sgw_fqcsid => gtp_fqcsid_ie.gtp_fqcsid_ie_t
  | recovery => gtp_recovery_ie.gtp_recovery_ie_t
  | sgw_ldn => gtp_local_distgsd_name_ie.gtp_local_distgsd_name_ie_t
  | pgw_ldn => gtp_local_distgsd_name_ie.gtp_local_distgsd_name_ie_t
  | indctn_flgs => gtp_indication_ie.gtp_indication_ie_t
  | pres_rptng_area_act => gtp_pres_rptng_area_act_ie.gtp_pres_rptng_area_act_ie_t
  | pgws_node_lvl_load_ctl_info => gtp_load_ctl_info_ie.gtp_load_ctl_info_ie_t
  | pgws_apn_lvl_load_ctl_info => gtp_load_ctl_info_ie.gtp_load_ctl_info_ie_t
  | sgws_node_lvl_load_ctl_info => gtp_load_ctl_info_ie.gtp_load_ctl_info_ie_t
  | pgws_ovrld_ctl_info => gtp_ovrld_ctl_info_ie.gtp_ovrld_ctl_info_ie_t
  | sgws_ovrld_ctl_info => gtp_ovrld_ctl_info_ie.gtp_ovrld_ctl_info_ie_t
  | pdn_conn_chrgng_id => gtp_charging_id_ie.gtp_charging_id_ie_t
  | priv_ext => gtp_priv_ext_ie.gtp_priv_ext_ie_t
  end.

Definition mod_bearer_rsp_ie (f : mod_bearer_rsp_member) : IeMember (mod_bearer_rsp_type f) :=
  match f with
  | cause => gtp_cause_ie_member
  | msisdn => gtp_msisdn_ie_member
  | linked_eps_bearer_id => gtp_eps_bearer_id_ie_member
  | apn_restriction => gtp_apn_restriction_ie_member
  | pco => gtp_prot_cfg_opts_ie_member
  | bearer_contexts_modified _ => gtp_mod_bearer_response_bearer_ctxt_modified_ie.gtp_mod_bearer_response_bearer_ctxt_modified_ie_member_ie
  | bearer_contexts_marked_removal => gtp_mod_bearer_response_bearer_ctxt_marked_removal_ie.gtp_mod_bearer_response_bearer_ctxt_marked_removal_ie_member_ie
  | chg_rptng_act => gtp_chg_rptng_act_ie_member
  | csg_info_rptng_act => gtp_csg_info_rptng_act_ie_member
  | henb_info_rptng => gtp_henb_info_rptng_ie_member
  | chrgng_gateway_name => gtp_fully_qual_domain_name_ie_member
  | chrgng_gateway_addr => gtp_ip_address_ie_member
  | pgw_fqcsid => gtp_fqcsid_ie_member
  | sgw_fqcsid => gtp_fqcsid_ie_member
  | recovery => gtp_recovery_ie_member
  | sgw_ldn => gtp_local_distgsd_name_ie_member
  | pgw_ldn => gtp_local_distgsd_name_ie_member
  | indctn_flgs => gtp_indication_ie_member
  | pres_rptng_area_act => gtp_pres_rptng_area_act_ie_member
  | pgws_node_lvl_load_ctl_info => gtp_load_ctl_info_ie_member
  | pgws_apn_lvl_load_ctl_info => gtp_load_ctl_info_ie_member
  | sgws_node_lvl_load_ctl_info => gtp_load_ctl_info_ie_member
  | pgws_ovrld_ctl_info => gtp_ovrld_ctl_info_ie_member
  | sgws_ovrld_ctl_info => gtp_ovrld_ctl_info_ie_member
  | pdn_conn_chrgng_id => gtp_charging_id_ie_member
  | priv_ext => gtp_priv_ext_ie_member
  end.

Inductive mod_bearer_rsp_counter := bearer_count.

Definition mod_bearer_rsp_counter_eq_dec (c d : mod_bearer_rsp_counter) : {c = d} + {c <> d}.
Proof. decide equality. Defined.

Definition mod_bearer_rsp_sig : signature :=
  Signature mod_bearer_rsp_member mod_bearer_rsp_eq_dec mod_bearer_rsp_type mod_bearer_rsp_ie
    mod_bearer_rsp_counter mod_bearer_rsp_counter_eq_dec.
Canonical Structure mod_bearer_rsp_sig.

Definition mod_bearer_rsp_t : Type := message mod_bearer_rsp_sig.

Definition encode_mod_bearer_rsp_order : list (visit mod_bearer_rsp_sig) :=
  [One cause; One msisdn; One linked_eps_bearer_id; One apn_restriction; One pco;
   Many (S := mod_bearer_rsp_sig) (fun n => n bearer_count) bearer_contexts_modified (Z.to_nat MAX_BEARERS);
   One bearer_contexts_marked_removal; One chg_rptng_act; One csg_info_rptng_act;
   One henb_info_rptng; One chrgng_gateway_name; One chrgng_gateway_addr; One pgw_fqcsid;
   One sgw_fqcsid; One recovery; One sgw_ldn; One pgw_ldn; One indctn_flgs;
   One pres_rptng_area_act; One pgws_node_lvl_load_ctl_info; One pgws_apn_lvl_load_ctl_info;
   One sgws_node_lvl_load_ctl_info; One pgws_ovrld_ctl_info; One sgws_ovrld_ctl_info;
   One pdn_conn_chrgng_id; One priv_ext].

Definition encode_mod_bearer_rsp (value : mod_bearer_rsp_t) (buf : Z) : enc Z :=
  encode_message encode_mod_bearer_rsp_order value buf.

Definition decode_mod_bearer_rsp_table : list (branch mod_bearer_rsp_sig) :=
  [(GTP_IE_CAUSE, Some GTP_IE_INSTANCE_ZERO, Into cause);
   (GTP_IE_MSISDN, Some GTP_IE_INSTANCE_ZERO, Into msisdn);
   (GTP_IE_EPS_BEARER_ID, Some GTP_IE_INSTANCE_ZERO, Into linked_eps_bearer_id);
   (GTP_IE_APN_RESTRICTION, Some GTP_IE_INSTANCE_ZERO, Into apn_restriction);
   (GTP_IE_PROT_CFG_OPTS, Some GTP_IE_INSTANCE_ZERO, Into pco);
   (GTP_IE_MOD_BEARER_RESPONSE_BEARER_CTXT_MODIFIED, Some GTP_IE_INSTANCE_ZERO, Next (S := mod_bearer_rsp_sig) bearer_count bearer_contexts_modified MAX_BEARERS);
   (GTP_IE_MOD_BEARER_RESPONSE_BEARER_CTXT_MARKED_REMOVAL, Some GTP_IE_INSTANCE_ONE, Into bearer_contexts_marked_removal);
   (GTP_IE_CHG_RPTNG_ACT, Some GTP_IE_INSTANCE_ZERO, Into chg_rptng_act);
   (GTP_IE_CSG_INFO_RPTNG_ACT, Some GTP_IE_INSTANCE_ZERO, Into csg_info_rptng_act);
   (GTP_IE_HENB_INFO_RPTNG, Some GTP_IE_INSTANCE_ZERO, Into henb_info_rptng);
   (GTP_IE_FULLY_QUAL_DOMAIN_NAME, Some GTP_IE_INSTANCE_ZERO, Into chrgng_gateway_name);
   (GTP_IE_IP_ADDRESS, Some GTP_IE_INSTANCE_ZERO, Into chrgng_gateway_addr);
   (GTP_IE_FQCSID, Some GTP_IE_INSTANCE_ZERO, Into pgw_fqcsid);
   (GTP_IE_FQCSID, Some GTP_IE_INSTANCE_ONE, Into sgw_fqcsid);
   (GTP_IE_RECOVERY, Some GTP_IE_INSTANCE_ZERO, Into recovery);
   (GTP_IE_LOCAL_DISTGSD_NAME, Some GTP_IE_INSTANCE_ZERO, Into sgw_ldn);
   (GTP_IE_LOCAL_DISTGSD_NAME, Some GTP_IE_INSTANCE_ONE, Into pgw_ldn);
   (GTP_IE_INDICATION, Some GTP_IE_INSTANCE_ZERO, Into indctn_flgs);
   (GTP_IE_PRES_RPTNG_AREA_ACT, Some GTP_IE_INSTANCE_ZERO, Into pres_rptng_area_act);
   (GTP_IE_LOAD_CTL_INFO, Some GTP_IE_INSTANCE_ZERO, Into pgws_node_lvl_load_ctl_info);
   (GTP_IE_LOAD_CTL_INFO, Some GTP_IE_INSTANCE_ONE, Into pgws_apn_lvl_load_ctl_info);
   (GTP_IE_LOAD_CTL_INFO, Some GTP_IE_INSTANCE_TWO, Into sgws_node_lvl_load_ctl_info);
   (GTP_IE_OVRLD_CTL_INFO, Some GTP_IE_INSTANCE_ZERO, Into pgws_ovrld_ctl_info);
   (GTP_IE_OVRLD_CTL_INFO, Some GTP_IE_INSTANCE_ONE, Into sgws_ovrld_ctl_info);
   (GTP_IE_CHARGING_ID, Some GTP_IE_INSTANCE_ZERO, Into pdn_conn_chrgng_id);
   (GTP_IE_PRIV_EXT, None, Into priv_ext)].

Definition decode_mod_bearer_rsp (fuel : nat) (m : bytes) (buf : Z) (value : mod_bearer_rsp_t)
  : outcome (Z * mod_bearer_rsp_t) :=
  decode_message decode_mod_bearer_rsp_table [] false fuel m buf value.

End mod_bearer_rsp.

(** ** [create_sess_rsp] *)

Module create_sess_rsp.

Inductive create_sess_rsp_member :=
| cause
| chg_rptng_act
| csg_info_rptng_act
| henb_info_rptng
| sender_fteid_ctl_plane
| pgw_s5s8_s2as2b_fteid_pmip_based_intfc_or_gtp_based_ctl_plane_intfc
| paa
| apn_restriction
| apn_ambr
| linked_eps_bearer_id
| pco
| bearer_contexts_created (i : nat)
| bearer_contexts_marked_removal
| recovery
| chrgng_gateway_name
| chrgng_gateway_addr
| pgw_fqcsid
| sgw_fqcsid
| sgw_ldn
| pgw_ldn
| pgw_back_off_time
| apco
| trstd_wlan_ipv4_parms
| indctn_flgs
| pres_rptng_area_act
| pgws_node_lvl_load_ctl_info
| pgws_apn_lvl_load_ctl_info
| sgws_node_lvl_load_ctl_info
| pgws_ovrld_ctl_info
| sgws_ovrld_ctl_info
| nbifom_cntnr
| pdn_conn_chrgng_id
| epco
| priv_ext.

Definition create_sess_rsp_eq_dec (f g : create_sess_rsp_member) : {f = g} + {f <> g}.
Proof. decide equality; apply Nat.eq_dec. Defined.

Definition create_sess_rsp_type (f : create_sess_rsp_member) : Type :=
  match f with
  | cause => gtp_cause_ie.gtp_cause_ie_t
  | chg_rptng_act => gtp_chg_rptng_act_ie.gtp_chg_rptng_act_ie_t
  | csg_info_rptng_act => gtp_csg_info_rptng_act_ie.gtp_csg_info_rptng_act_ie_t
  | henb_info_rptng => gtp_henb_info_rptng_ie.gtp_henb_info_rptng_ie_t
  | sender_fteid_ctl_plane => gtp_fully_qual_tunn_endpt_idnt_ie.gtp_fully_qual_tunn_endpt_idnt_ie_t
  | pgw_s5s8_s2as2b_fteid_pmip_based_intfc_or_gtp_based_ctl_plane_intfc => gtp_fully_qual_tunn_endpt_idnt_ie.gtp_fully_qual_tunn_endpt_idnt_ie_t
  | paa => gtp_pdn_addr_alloc_ie.gtp_pdn_addr_alloc_ie_t
  | apn_restriction => gtp_apn_restriction_ie.gtp_apn_restriction_ie_t
  | apn_ambr => gtp_agg_max_bit_rate_ie.gtp_agg_max_bit_rate_ie_t
  | linked_eps_bearer_id => gtp_eps_bearer_id_ie.gtp_eps_bearer_id_ie_t
  | pco => gtp_prot_cfg_opts_ie.gtp_prot_cfg_opts_ie_t
  | bearer_contexts_created _ => gtp_create_sess_response_bearer_ctxt_created_ie.gtp_create_sess_response_bearer_ctxt_created_ie_t
  | bearer_contexts_marked_removal => gtp_create_sess_response_bearer_ctxt_marked_removal_ie.gtp_create_sess_response_bearer_ctxt_marked_removal_ie_t
  | recovery => gtp_recovery_ie.gtp_recovery_ie_t
  | chrgng_gateway_name => gtp_fully_qual_domain_name_ie.gtp_fully_qual_domain_name_ie_t
  | chrgng_gateway_addr => gtp_ip_address_ie.gtp_ip_address_ie_t
  | pgw_fqcsid => gtp_fqcsid_ie.gtp_fqcsid_ie_t
  | sgw_fqcsid => gtp_fqcsid_ie.gtp_fqcsid_ie_t
  | sgw_ldn => gtp_local_distgsd_name_ie.gtp_local_distgsd_name_ie_t
  | pgw_ldn => gtp_local_distgsd_name_ie.gtp_local_distgsd_name_ie_t
  | pgw_back_off_time => gtp_epc_timer_ie.gtp_epc_timer_ie_t
  | apco => gtp_addtl_prot_cfg_opts_ie.gtp_addtl_prot_cfg_opts_ie_t
  | trstd_wlan_ipv4_parms => gtp_ipv4_cfg_parms_ie.gtp_ipv4_cfg_parms_ie_t
  | indctn_flgs => gtp_indication_ie.gtp_indication_ie_t
  | pres_rptng_area_act => gtp_pres_rptng_area_act_ie.gtp_pres_rptng_area_act_ie_t
  | pgws_node_lvl_load_ctl_info => gtp_load_ctl_info_ie.gtp_load_ctl_info_ie_t
  | pgws_apn_lvl_load_ctl_info => gtp_load_ctl_info_ie.gtp_load_ctl_info_ie_t
  | sgws_node_lvl_load_ctl_info => gtp_load_ctl_info_ie.gtp_load_ctl_info_ie_t
  | pgws_ovrld_ctl_info => gtp_ovrld_ctl_info_ie.gtp_ovrld_ctl_info_ie_t
  | sgws_ovrld_ctl_info => gtp_ovrld_ctl_info_ie.gtp_ovrld_ctl_info_ie_t
  | nbifom_cntnr => gtp_full_qual_cntnr_ie.gtp_full_qual_cntnr_ie_t
  | pdn_conn_chrgng_id => gtp_charging_id_ie.gtp_charging_id_ie_t
  | epco => gtp_extnded_prot_cfg_opts_ie.gtp_extnded_prot_cfg_opts_ie_t
  | priv_ext => gtp_priv_ext_ie.gtp_priv_ext_ie_t
  end.

Definition create_sess_rsp_ie (f : create_sess_rsp_member) : IeMember (create_sess_rsp_type f) :=
  match f with
  | cause => gtp_cause_ie_member
  | chg_rptng_act => gtp_chg_rptng_act_ie_member
  | csg_info_rptng_act => gtp_csg_info_rptng_act_ie_member
  | henb_info_rptng => gtp_henb_info_rptng_ie_member
  | sender_fteid_ctl_plane => gtp_fully_qual_tunn_endpt_idnt_ie_member
  | pgw_s5s8_s2as2b_fteid_pmip_based_intfc_or_gtp_based_ctl_plane_intfc => gtp_fully_qual_tunn_endpt_idnt_ie_member
  | paa => gtp_pdn_addr_alloc_ie_member
  | apn_restriction => gtp_apn_restriction_ie_member
  | apn_ambr => gtp_agg_max_bit_rate_ie_member
  | linked_eps_bearer_id => gtp_eps_bearer_id_ie_member
  | pco => gtp_prot_cfg_opts_ie_member
  | bearer_contexts_created _ => gtp_create_sess_response_bearer_ctxt_created_ie.gtp_create_sess_response_bearer_ctxt_created_ie_member_ie
  | bearer_contexts_marked_removal => gtp_create_sess_response_bearer_ctxt_marked_removal_ie.gtp_create_sess_response_bearer_ctxt_marked_removal_ie_member_ie
  | recovery => gtp_recovery_ie_member
  | chrgng_gateway_name => gtp_fully_qual_domain_name_ie_member
  | chrgng_gateway_addr => gtp_ip_address_ie_member
  | pgw_fqcsid => gtp_fqcsid_ie_member
  | sgw_fqcsid => gtp_fqcsid_ie_member
  | sgw_ldn => gtp_local_distgsd_name_ie_member
  | pgw_ldn => gtp_local_distgsd_name_ie_member
  | pgw_back_off_time => gtp_epc_timer_ie_member
  | apco => gtp_addtl_prot_cfg_opts_ie_member
  | trstd_wlan_ipv4_parms => gtp_ipv4_cfg_parms_ie_member
  | indctn_flgs => gtp_indication_ie_member
  | pres_rptng_area_act => gtp_pres_rptng_area_act_ie_member
  | pgws_node_lvl_load_ctl_info => gtp_load_ctl_info_ie_member
  | pgws_apn_lvl_load_ctl_info => gtp_load_ctl_info_ie_member
  | sgws_node_lvl_load_ctl_info => gtp_load_ctl_info_ie_member
  | pgws_ovrld_ctl_info => gtp_ovrld_ctl_info_ie_member
  | sgws_ovrld_ctl_info => gtp_ovrld_ctl_info_ie_member
  | nbifom_cntnr => gtp_full_qual_cntnr_ie_member
  | pdn_conn_chrgng_id => gtp_charging_id_ie_member
  | epco => gtp_extnded_prot_cfg_opts_ie_member
  | priv_ext => gtp_priv_ext_ie_member
  end.

Inductive create_sess_rsp_counter := bearer_count.

Definition create_sess_rsp_counter_eq_dec (c d : create_sess_rsp_counter) : {c = d} + {c <> d}.
Proof. decide equality. Defined.

Definition create_sess_rsp_sig : signature :=
  Signature create_sess_rsp_member create_sess_rsp_eq_dec create_sess_rsp_type create_sess_rsp_ie
    create_sess_rsp_counter create_sess_rsp_counter_eq_dec.
Canonical Structure create_sess_rsp_sig.

Definition create_sess_rsp_t : Type := message create_sess_rsp_sig.

Definition encode_create_sess_rsp_order : list (visit create_sess_rsp_sig) :=
  [One cause; One chg_rptng_act; One csg_info_rptng_act; One henb_info_rptng;
   One sender_fteid_ctl_plane;
   One pgw_s5s8_s2as2b_fteid_pmip_based_intfc_or_gtp_based_ctl_plane_intfc; One paa;
   One apn_restriction; One apn_ambr; One linked_eps_bearer_id; One pco;
   Many (S := create_sess_rsp_sig) (fun n => n bearer_count) bearer_contexts_created (Z.to_nat MAX_BEARERS);
   One bearer_contexts_marked_removal; One recovery; One chrgng_gateway_name;
   One chrgng_gateway_addr; One sgw_fqcsid; One pgw_fqcsid; One sgw_ldn; One pgw_ldn;
   One pgw_back_off_time; One apco; One trstd_wlan_ipv4_parms; One indctn_flgs;
   One pres_rptng_area_act; One pgws_node_lvl_load_ctl_info; One pgws_apn_lvl_load_ctl_info;
   One sgws_node_lvl_load_ctl_info; One pgws_ovrld_ctl_info; One sgws_ovrld_ctl_info;
   One nbifom_cntnr; One pdn_conn_chrgng_id; One epco; One priv_ext].

Definition encode_create_sess_rsp (value : create_sess_rsp_t) (buf : Z) : enc Z :=
  encode_message encode_create_sess_rsp_order value buf.

Definition decode_create_sess_rsp_table : list (branch create_sess_rsp_sig) :=
  [(GTP_IE_CAUSE, Some GTP_IE_INSTANCE_ZERO, Into cause);
   (GTP_IE_CHG_RPTNG_ACT, Some GTP_IE_INSTANCE_ZERO, Into chg_rptng_act);
   (GTP_IE_CSG_INFO_RPTNG_ACT, Some GTP_IE_INSTANCE_ZERO, Into csg_info_rptng_act);
   (GTP_IE_HENB_INFO_RPTNG, Some GTP_IE_INSTANCE_ZERO, Into henb_info_rptng);
   (GTP_IE_FULLY_QUAL_TUNN_ENDPT_IDNT, Some GTP_IE_INSTANCE_ZERO, Into sender_fteid_ctl_plane);
   (GTP_IE_FULLY_QUAL_TUNN_ENDPT_IDNT, Some GTP_IE_INSTANCE_ONE, Into pgw_s5s8_s2as2b_fteid_pmip_based_intfc_or_gtp_based_ctl_plane_intfc);
   (GTP_IE_PDN_ADDR_ALLOC, Some GTP_IE_INSTANCE_ZERO, Into paa);
   (GTP_IE_APN_RESTRICTION, Some GTP_IE_INSTANCE_ZERO, Into apn_restriction);
   (GTP_IE_AGG_MAX_BIT_RATE, Some GTP_IE_INSTANCE_ZERO, Into apn_ambr);
   (GTP_IE_EPS_BEARER_ID, Some GTP_IE_INSTANCE_ZERO, Into linked_eps_bearer_id);
   (GTP_IE_PROT_CFG_OPTS, Some GTP_IE_INSTANCE_ZERO, Into pco);
   (GTP_IE_CREATE_SESS_RESPONSE_BEARER_CTXT_CREATED, Some GTP_IE_INSTANCE_ZERO, Next (S := create_sess_rsp_sig) bearer_count bearer_contexts_created MAX_BEARERS);
   (GTP_IE_CREATE_SESS_RESPONSE_BEARER_CTXT_MARKED_REMOVAL, Some GTP_IE_INSTANCE_ONE, Into bearer_contexts_marked_removal);
   (GTP_IE_RECOVERY, Some GTP_IE_INSTANCE_ZERO, Into recovery);
   (GTP_IE_FULLY_QUAL_DOMAIN_NAME, Some GTP_IE_INSTANCE_ZERO, Into chrgng_gateway_name);
   (GTP_IE_IP_ADDRESS, Some GTP_IE_INSTANCE_ZERO, Into chrgng_gateway_addr);
   (GTP_IE_FQCSID, Some GTP_IE_INSTANCE_ZERO, Into pgw_fqcsid);
   (GTP_IE_FQCSID, Some GTP_IE_INSTANCE_ONE, Into sgw_fqcsid);
   (GTP_IE_LOCAL_DISTGSD_NAME, Some GTP_IE_INSTANCE_ZERO, Into sgw_ldn);
   (GTP_IE_LOCAL_DISTGSD_NAME, Some GTP_IE_INSTANCE_ONE, Into pgw_ldn);
   (GTP_IE_EPC_TIMER, Some GTP_IE_INSTANCE_ZERO, Into pgw_back_off_time);
   (GTP_IE_ADDTL_PROT_CFG_OPTS, Some GTP_IE_INSTANCE_ZERO, Into apco);
   (GTP_IE_IPV4_CFG_PARMS, Some GTP_IE_INSTANCE_ZERO, Into trstd_wlan_ipv4_parms);
   (GTP_IE_INDICATION, Some GTP_IE_INSTANCE_ZERO, Into indctn_flgs);
   (GTP_IE_PRES_RPTNG_AREA_ACT, Some GTP_IE_INSTANCE_ZERO, Into pres_rptng_area_act);
   (GTP_IE_LOAD_CTL_INFO, Some GTP_IE_INSTANCE_ZERO, Into pgws_node_lvl_load_ctl_info);
   (GTP_IE_LOAD_CTL_INFO, Some GTP_IE_INSTANCE_ONE, Into pgws_apn_lvl_load_ctl_info);
   (GTP_IE_LOAD_CTL_INFO, Some GTP_IE_INSTANCE_TWO, Into sgws_node_lvl_load_ctl_info);
   (GTP_IE_OVRLD_CTL_INFO, Some GTP_IE_INSTANCE_ZERO, Into pgws_ovrld_ctl_info);
   (GTP_IE_OVRLD_CTL_INFO, Some GTP_IE_INSTANCE_ONE, Into sgws_ovrld_ctl_info);
   (GTP_IE_FULL_QUAL_CNTNR, Some GTP_IE_INSTANCE_ZERO, Into nbifom_cntnr);
   (GTP_IE_CHARGING_ID, Some GTP_IE_INSTANCE_ZERO, Into pdn_conn_chrgng_id);
   (GTP_IE_EXTNDED_PROT_CFG_OPTS, Some GTP_IE_INSTANCE_ZERO, Into epco);
   (GTP_IE_PRIV_EXT, None, Into priv_ext)].

Definition decode_create_sess_rsp (fuel : nat) (m : bytes) (buf : Z) (value : create_sess_rsp_t)
  : outcome (Z * create_sess_rsp_t) :=
  decode_message decode_create_sess_rsp_table [bearer_count] false fuel m buf value.

End create_sess_rsp.

(** ** [create_bearer_req] *)

Module create_bearer_req.

Inductive create_bearer_req_member :=
| pti
| lbi
| pco
| bearer_contexts (i : nat)
| pgw_fqcsid
| sgw_fqcsid
| chg_rptng_act
| csg_info_rptng_act
| henb_info_rptng
| pres_rptng_area_act
| indctn_flgs
| pgws_node_lvl_load_ctl_info
| pgws_apn_lvl_load_ctl_info
| sgws_node_lvl_load_ctl_info
| pgws_ovrld_ctl_info
| sgws_ovrld_ctl_info
| nbifom_cntnr
| priv_ext.

Definition create_bearer_req_eq_dec (f g : create_bearer_req_member) : {f = g} + {f <> g}.
Proof. decide equality; apply Nat.eq_dec. Defined.

Definition create_bearer_req_type (f : create_bearer_req_member) : Type :=
  match f with
  | pti => gtp_proc_trans_id_ie.gtp_proc_trans_id_ie_t
  | lbi => gtp_eps_bearer_id_ie.gtp_eps_bearer_id_ie_t
  | pco => gtp_prot_cfg_opts_ie.gtp_prot_cfg_opts_ie_t
  | bearer_contexts _ => gtp_create_bearer_request_bearer_ctxt_ie.gtp_create_bearer_request_bearer_ctxt_ie_t
  | pgw_fqcsid => gtp_fqcsid_ie.gtp_fqcsid_ie_t
  | sgw_fqcsid => gtp_fqcsid_ie.gtp_fqcsid_ie_t
  | chg_rptng_act => gtp_chg_rptng_act_ie.gtp_chg_rptng_act_ie_t
  | csg_info_rptng_act => gtp_csg_info_rptng_act_ie.gtp_csg_info_rptng_act_ie_t
  | henb_info_rptng => gtp_henb_info_rptng_ie.gtp_henb_info_rptng_ie_t
  | pres_rptng_area_act => gtp_pres_rptng_area_act_ie.gtp_pres_rptng_area_act_ie_t
  | indctn_flgs => gtp_indication_ie.gtp_indication_ie_t
  | pgws_node_lvl_load_ctl_info => gtp_load_ctl_info_ie.gtp_load_ctl_info_ie_t
  | pgws_apn_lvl_load_ctl_info => gtp_load_ctl_info_ie.gtp_load_ctl_info_ie_t
  | sgws_node_lvl_load_ctl_info => gtp_load_ctl_info_ie.gtp_load_ctl_info_ie_t
  | pgws_ovrld_ctl_info => gtp_ovrld_ctl_info_ie.gtp_ovrld_ctl_info_ie_t
  | sgws_ovrld_ctl_info => gtp_ovrld_ctl_info_ie.gtp_ovrld_ctl_info_ie_t
  | nbifom_cntnr => gtp_full_qual_cntnr_ie.gtp_full_qual_cntnr_ie_t
  | priv_ext => gtp_priv_ext_ie.gtp_priv_ext_ie_t
  end.

Definition create_bearer_req_ie (f : create_bearer_req_member) : IeMember (create_bearer_req_type f) :=
  match f with
  | pti => gtp_proc_trans_id_ie_member
  | lbi => gtp_eps_bearer_id_ie_member
  | pco => gtp_prot_cfg_opts_ie_member
  | bearer_contexts _ => gtp_create_bearer_request_bearer_ctxt_ie.gtp_create_bearer_request_bearer_ctxt_ie_member_ie
  | pgw_fqcsid => gtp_fqcsid_ie_member
  | sgw_fqcsid => gtp_fqcsid_ie_member
  | chg_rptng_act => gtp_chg_rptng_act_ie_member
  | csg_info_rptng_act => gtp_csg_info_rptng_act_ie_member
  | henb_info_rptng => gtp_henb_info_rptng_ie_member
  | pres_rptng_area_act => gtp_pres_rptng_area_act_ie_member
  | indctn_flgs => gtp_indication_ie_member
  | pgws_node_lvl_load_ctl_info => gtp_load_ctl_info_ie_member
  | pgws_apn_lvl_load_ctl_info => gtp_load_ctl_info_ie_member
  | sgws_node_lvl_load_ctl_info => gtp_load_ctl_info_ie_member
  | pgws_ovrld_ctl_info => gtp_ovrld_ctl_info_ie_member
  | sgws_ovrld_ctl_info => gtp_ovrld_ctl_info_ie_member
  | nbifom_cntnr => gtp_full_qual_cntnr_ie_member
  | priv_ext => gtp_priv_ext_ie_member
  end.

Inductive create_bearer_req_counter := bearer_cnt.

Definition create_bearer_req_counter_eq_dec (c d : create_bearer_req_counter) : {c = d} + {c <> d}.
Proof. decide equality. Defined.

Definition create_bearer_req_sig : signature :=
  Signature create_bearer_req_member create_bearer_req_eq_dec create_bearer_req_type create_bearer_req_ie
    create_bearer_req_counter create_bearer_req_counter_eq_dec.
Canonical Structure create_bearer_req_sig.

Definition create_bearer_req_t : Type := message create_bearer_req_sig.

Definition encode_create_bearer_req_order : list (visit create_bearer_req_sig) :=
  [One pti; One lbi; One pco;
   Many (S := create_bearer_req_sig) (fun n => n bearer_cnt) bearer_contexts (Z.to_nat MAX_BEARERS);
   One pgw_fqcsid; One sgw_fqcsid; One chg_rptng_act; One csg_info_rptng_act;
   One henb_info_rptng; One pres_rptng_area_act; One indctn_flgs;
   One pgws_node_lvl_load_ctl_info; One pgws_apn_lvl_load_ctl_info;
   One sgws_node_lvl_load_ctl_info; One pgws_ovrld_ctl_info; One sgws_ovrld_ctl_info;
   One nbifom_cntnr; One priv_ext].

Definition encode_create_bearer_req (value : create_bearer_req_t) (buf : Z) : enc Z :=
  encode_message encode_create_bearer_req_order value buf.

Definition decode_create_bearer_req_table : list (branch create_bearer_req_sig) :=
  [(GTP_IE_PROC_TRANS_ID, Some GTP_IE_INSTANCE_ZERO, Into pti);
   (GTP_IE_EPS_BEARER_ID, Some GTP_IE_INSTANCE_ZERO, Into lbi);
   (GTP_IE_PROT_CFG_OPTS, Some GTP_IE_INSTANCE_ZERO, Into pco);
   (GTP_IE_BEARER_CONTEXT, Some GTP_IE_INSTANCE_ZERO, Next (S := create_bearer_req_sig) bearer_cnt bearer_contexts MAX_BEARERS);
   (GTP_IE_FQCSID, Some GTP_IE_INSTANCE_ZERO, Into pgw_fqcsid);
   (GTP_IE_FQCSID, Some GTP_IE_INSTANCE_ONE, Into sgw_fqcsid);
   (GTP_IE_CHG_RPTNG_ACT, Some GTP_IE_INSTANCE_ZERO, Into chg_rptng_act);
   (GTP_IE_CSG_INFO_RPTNG_ACT, Some GTP_IE_INSTANCE_ZERO, Into csg_info_rptng_act);
   (GTP_IE_HENB_INFO_RPTNG, Some GTP_IE_INSTANCE_ZERO, Into henb_info_rptng);
   (GTP_IE_PRES_RPTNG_AREA_ACT, Some GTP_IE_INSTANCE_ZERO, Into pres_rptng_area_act);
   (GTP_IE_INDICATION, Some GTP_IE_INSTANCE_ZERO, Into indctn_flgs);
   (GTP_IE_LOAD_CTL_INFO, Some GTP_IE_INSTANCE_ZERO, Into pgws_node_lvl_load_ctl_info);
   (GTP_IE_LOAD_CTL_INFO, Some GTP_IE_INSTANCE_ONE, Into pgws_apn_lvl_load_ctl_info);
   (GTP_IE_LOAD_CTL_INFO, Some GTP_IE_INSTANCE_TWO, Into sgws_node_lvl_load_ctl_info);
   (GTP_IE_OVRLD_CTL_INFO, Some GTP_IE_INSTANCE_ZERO, Into pgws_ovrld_ctl_info);
   (GTP_IE_OVRLD_CTL_INFO, Some GTP_IE_INSTANCE_ONE, Into sgws_ovrld_ctl_info);
   (GTP_IE_FULL_QUAL_CNTNR, Some GTP_IE_INSTANCE_ZERO, Into nbifom_cntnr);
   (GTP_IE_PRIV_EXT, None, Into priv_ext)].

Definition decode_create_bearer_req (fuel : nat) (m : bytes) (buf : Z) (value : create_bearer_req_t)
  : outcome (Z * create_bearer_req_t) :=
  decode_message decode_create_bearer_req_table [] false fuel m buf value.

End create_bearer_req.

(** ** [mod_acc_bearers_rsp] *)

Module mod_acc_bearers_rsp.

Inductive mod_acc_bearers_rsp_member :=
| cause
| bearer_contexts_modified (i : nat)
| bearer_contexts_marked_removal (i : nat)
| recovery
| indctn_flgs
| sgws_node_lvl_load_ctl_info
| sgws_ovrld_ctl_info
| priv_ext.

Definition mod_acc_bearers_rsp_eq_dec (f g : mod_acc_bearers_rsp_member) : {f = g} + {f <> g}.
Proof. decide equality; apply Nat.eq_dec. Defined.

Definition mod_acc_bearers_rsp_type (f : mod_acc_bearers_rsp_member) : Type :=
  match f with
  | cause => gtp_cause_ie.gtp_cause_ie_t
  | bearer_contexts_modified _ => gtp_mod_bearer_response_bearer_ctxt_modified_ie.gtp_mod_bearer_response_bearer_ctxt_modified_ie_t
  | bearer_contexts_marked_removal _ => gtp_mod_bearer_response_bearer_ctxt_marked_removal_ie.gtp_mod_bearer_response_bearer_ctxt_marked_removal_ie_t
  | recovery => gtp_recovery_ie.gtp_recovery_ie_t
  | indctn_flgs => gtp_indication_ie.gtp_indication_ie_t
  | sgws_node_lvl_load_ctl_info => gtp_load_ctl_info_ie.gtp_load_ctl_info_ie_t
  | sgws_ovrld_ctl_info => gtp_ovrld_ctl_info_ie.gtp_ovrld_ctl_info_ie_t
  | priv_ext => gtp_priv_ext_ie.gtp_priv_ext_ie_t
  end.

Definition mod_acc_bearers_rsp_ie (f : mod_acc_bearers_rsp_member) : IeMember (mod_acc_bearers_rsp_type f) :=
  match f with
  | cause => gtp_cause_ie_member
  | bearer_contexts_modified _ => gtp_mod_bearer_response_bearer_ctxt_modified_ie.gtp_mod_bearer_response_bearer_ctxt_modified_ie_member_ie
  | bearer_contexts_marked_removal _ => gtp_mod_bearer_response_bearer_ctxt_marked_removal_ie.gtp_mod_bearer_response_bearer_ctxt_marked_removal_ie_member_ie
  | recovery => gtp_recovery_ie_member
  | indctn_flgs => gtp_indication_ie_member
  | sgws_node_lvl_load_ctl_info => gtp_load_ctl_info_ie_member
  | sgws_ovrld_ctl_info => gtp_ovrld_ctl_info_ie_member
  | priv_ext => gtp_priv_ext_ie_member
  end.

Inductive mod_acc_bearers_rsp_counter := bearer_modify_count | bearer_remove_count.

Definition mod_acc_bearers_rsp_counter_eq_dec (c d : mod_acc_bearers_rsp_counter) : {c = d} + {c <> d}.
Proof. decide equality. Defined.

Definition mod_acc_bearers_rsp_sig : signature :=
  Signature mod_acc_bearers_rsp_member mod_acc_bearers_rsp_eq_dec mod_acc_bearers_rsp_type mod_acc_bearers_rsp_ie
    mod_acc_bearers_rsp_counter mod_acc_bearers_rsp_counter_eq_dec.
Canonical Structure mod_acc_bearers_rsp_sig.

Definition mod_acc_bearers_rsp_t : Type := message mod_acc_bearers_rsp_sig.

Definition encode_mod_acc_bearers_rsp_order : list (visit mod_acc_bearers_rsp_sig) :=
  [One cause;
   Many (S := mod_acc_bearers_rsp_sig) (fun _ => MAX_BEARERS) bearer_contexts_modified (Z.to_nat MAX_BEARERS);
   Many (S := mod_acc_bearers_rsp_sig) (fun _ => MAX_BEARERS) bearer_contexts_marked_removal (Z.to_nat MAX_BEARERS);
   One recovery; One indctn_flgs; One sgws_node_lvl_load_ctl_info; One sgws_ovrld_ctl_info;
   One priv_ext].

Definition encode_mod_acc_bearers_rsp (value : mod_acc_bearers_rsp_t) (buf : Z) : enc Z :=
  encode_message encode_mod_acc_bearers_rsp_order value buf.

Definition decode_mod_acc_bearers_rsp_table : list (branch mod_acc_bearers_rsp_sig) :=
  [(GTP_IE_CAUSE, Some GTP_IE_INSTANCE_ZERO, Into cause);
   (GTP_IE_MOD_BEARER_REQUEST_BEARER_CTXT_TO_BE_MODIFIED, Some GTP_IE_INSTANCE_ZERO, Next (S := mod_acc_bearers_rsp_sig) bearer_modify_count bearer_contexts_modified MAX_BEARERS);
   (GTP_IE_MOD_BEARER_REQUEST_BEARER_CTXT_TO_BE_REMOVED, Some GTP_IE_INSTANCE_ONE, Next (S := mod_acc_bearers_rsp_sig) bearer_remove_count bearer_contexts_marked_removal MAX_BEARERS);
   (GTP_IE_RECOVERY, Some GTP_IE_INSTANCE_ZERO, Into recovery);
   (GTP_IE_INDICATION, Some GTP_IE_INSTANCE_ZERO, Into indctn_flgs);
   (GTP_IE_LOAD_CTL_INFO, Some GTP_IE_INSTANCE_ZERO, Into sgws_node_lvl_load_ctl_info);
   (GTP_IE_OVRLD_CTL_INFO, Some GTP_IE_INSTANCE_ZERO, Into sgws_ovrld_ctl_info);
   (GTP_IE_PRIV_EXT, None, Into priv_ext)].

Definition decode_mod_acc_bearers_rsp (fuel : nat) (m : bytes) (buf : Z) (value : mod_acc_bearers_rsp_t)
  : outcome (Z * mod_acc_bearers_rsp_t) :=
  decode_message decode_mod_acc_bearers_rsp_table [bearer_modify_count; bearer_remove_count] true fuel m buf value.

End mod_acc_bearers_rsp.

(** ** [create_sess_req] *)

Module create_sess_req.

Inductive create_sess_req_member :=
| imsi
| msisdn
| mei
| uli
| rat_type
| indctn_flgs
| sender_fteid_ctl_plane
| pgw_s5s8_addr_ctl_plane_or_pmip
| apn
| selection_mode
| pdn_type
| paa
| max_apn_rstrct
| apn_ambr
| linked_eps_bearer_id
| trstd_wlan_mode_indctn
| pco
| bearer_contexts_to_be_created (i : nat)
| bearer_contexts_to_be_removed
| trc_info
| recovery
| mme_fqcsid
| sgw_fqcsid
| epdg_fqcsid
| twan_fqcsid
| ue_time_zone
| uci
| chrgng_char
| mmes4_sgsn_ldn
| sgw_ldn
| epdg_ldn
| twan_ldn
| sgnllng_priority_indctn
| ue_local_ip_addr
| ue_udp_port
| apco
| henb_local_ip_addr
| henb_udp_port
| mmes4_sgsn_idnt
| twan_identifier
| epdg_ip_address
| cn_oper_sel_entity
| pres_rptng_area_info
| mmes4_sgsns_ovrld_ctl_info
| sgws_ovrld_ctl_info
| twanepdgs_ovrld_ctl_info
| origination_time_stmp
| max_wait_time
| wlan_loc_info
| wlan_loc_ts
| nbifom_cntnr
| rmt_ue_ctxt_connected
| threegpp_aaa_server_idnt
| epco
| srvng_plmn_rate_ctl
| mo_exception_data_cntr
| ue_tcp_port
| mapped_ue_usage_type
| user_loc_info_sgw
| sgw_u_node_name
| secdry_rat_usage_data_rpt
| up_func_sel_indctn_flgs
| priv_ext
| serving_network.

Definition create_sess_req_eq_dec (f g : create_sess_req_member) : {f = g} + {f <> g}.
Proof. decide equality; apply Nat.eq_dec. Defined.

Definition create_sess_req_type (f : create_sess_req_member) : Type :=
  match f with
  | imsi => gtp_imsi_ie.gtp_imsi_ie_t
  | msisdn => gtp_msisdn_ie.gtp_msisdn_ie_t
  | mei => gtp_mbl_equip_idnty_ie.gtp_mbl_equip_idnty_ie_t
  | uli => gtp_user_loc_info_ie.gtp_user_loc_info_ie_t
  | rat_type => gtp_rat_type_ie.gtp_rat_type_ie_t
  | indctn_flgs => gtp_indication_ie.gtp_indication_ie_t
  | sender_fteid_ctl_plane => gtp_fully_qual_tunn_endpt_idnt_ie.gtp_fully_qual_tunn_endpt_idnt_ie_t
  | pgw_s5s8_addr_ctl_plane_or_pmip => gtp_fully_qual_tunn_endpt_idnt_ie.gtp_fully_qual_tunn_endpt_idnt_ie_t
  | apn => gtp_acc_pt_name_ie.gtp_acc_pt_name_ie_t
  | selection_mode => gtp_selection_mode_ie.gtp_selection_mode_ie_t
  | pdn_type => gtp_pdn_type_ie.gtp_pdn_type_ie_t
  | paa => gtp_pdn_addr_alloc_ie.gtp_pdn_addr_alloc_ie_t
  | max_apn_rstrct => gtp_apn_restriction_ie.gtp_apn_restriction_ie_t
  | apn_ambr => gtp_agg_max_bit_rate_ie.gtp_agg_max_bit_rate_ie_t
  | linked_eps_bearer_id => gtp_eps_bearer_id_ie.gtp_eps_bearer_id_ie_t
  | trstd_wlan_mode_indctn => gtp_trstd_wlan_mode_indctn_ie.gtp_trstd_wlan_mode_indctn_ie_t
  | pco => gtp_prot_cfg_opts_ie.gtp_prot_cfg_opts_ie_t
  | bearer_contexts_to_be_created _ => gtp_create_sess_request_bearer_ctxt_to_be_created_ie.gtp_create_sess_request_bearer_ctxt_to_be_created_ie_t
  | bearer_contexts_to_be_removed => gtp_create_sess_request_bearer_ctxt_to_be_removed_ie.gtp_create_sess_request_bearer_ctxt_to_be_removed_ie_t
  | trc_info => gtp_trc_info_ie.gtp_trc_info_ie_t
  | recovery => gtp_recovery_ie.gtp_recovery_ie_t
  | mme_fqcsid => gtp_fqcsid_ie.gtp_fqcsid_ie_t
  | sgw_fqcsid => gtp_fqcsid_ie.gtp_fqcsid_ie_t
  | epdg_fqcsid => gtp_fqcsid_ie.gtp_fqcsid_ie_t
  | twan_fqcsid => gtp_fqcsid_ie.gtp_fqcsid_ie_t
  | ue_time_zone => gtp_ue_time_zone_ie.gtp_ue_time_zone_ie_t
  | uci => gtp_user_csg_info_ie.gtp_user_csg_info_ie_t
  | chrgng_char => gtp_chrgng_char_ie.gtp_chrgng_char_ie_t
  | mmes4_sgsn_ldn => gtp_local_distgsd_name_ie.gtp_local_distgsd_name_ie_t
  | sgw_ldn => gtp_local_distgsd_name_ie.gtp_local_distgsd_name_ie_t
  | epdg_ldn => gtp_local_distgsd_name_ie.gtp_local_distgsd_name_ie_t
  | twan_ldn => gtp_local_distgsd_name_ie.gtp_local_distgsd_name_ie_t
  | sgnllng_priority_indctn => gtp_sgnllng_priority_indctn_ie.gtp_sgnllng_priority_indctn_ie_t
  | ue_local_ip_addr => gtp_ip_address_ie.gtp_ip_address_ie_t
  | ue_udp_port => gtp_port_number_ie.gtp_port_number_ie_t
  | apco => gtp_addtl_prot_cfg_opts_ie.gtp_addtl_prot_cfg_opts_ie_t
  | henb_local_ip_addr => gtp_ip_address_ie.gtp_ip_address_ie_t
  | henb_udp_port => gtp_port_number_ie.gtp_port_number_ie_t
  | mmes4_sgsn_idnt => gtp_ip_address_ie.gtp_ip_address_ie_t
  | twan_identifier => gtp_twan_identifier_ie.gtp_twan_identifier_ie_t
  | epdg_ip_address => gtp_ip_address_ie.gtp_ip_address_ie_t
  | cn_oper_sel_entity => gtp_cn_oper_sel_entity_ie.gtp_cn_oper_sel_entity_ie_t
  | pres_rptng_area_info => gtp_pres_rptng_area_info_ie.gtp_pres_rptng_area_info_ie_t
  | mmes4_sgsns_ovrld_ctl_info => gtp_ovrld_ctl_info_ie.gtp_ovrld_ctl_info_ie_t
  | sgws_ovrld_ctl_info => gtp_ovrld_ctl_info_ie.gtp_ovrld_ctl_info_ie_t
  | twanepdgs_ovrld_ctl_info => gtp_ovrld_ctl_info_ie.gtp_ovrld_ctl_info_ie_t
  | origination_time_stmp => gtp_msec_time_stmp_ie.gtp_msec_time_stmp_ie_t
  | max_wait_time => gtp_integer_number_ie.gtp_integer_number_ie_t
  | wlan_loc_info => gtp_twan_identifier_ie.gtp_twan_identifier_ie_t
  | wlan_loc_ts => gtp_twan_idnt_ts_ie.gtp_twan_idnt_ts_ie_t
  | nbifom_cntnr => gtp_full_qual_cntnr_ie.gtp_full_qual_cntnr_ie_t
  | rmt_ue_ctxt_connected => gtp_rmt_ue_ctxt_ie.gtp_rmt_ue_ctxt_ie_t
  | threegpp_aaa_server_idnt => gtp_node_identifier_ie.gtp_node_identifier_ie_t
  | epco => gtp_extnded_prot_cfg_opts_ie.gtp_extnded_prot_cfg_opts_ie_t
  | srvng_plmn_rate_ctl => gtp_srvng_plmn_rate_ctl_ie.gtp_srvng_plmn_rate_ctl_ie_t
  | mo_exception_data_cntr => gtp_counter_ie.gtp_counter_ie_t
  | ue_tcp_port => gtp_port_number_ie.gtp_port_number_ie_t
  | mapped_ue_usage_type => gtp_mapped_ue_usage_type_ie.gtp_mapped_ue_usage_type_ie_t
  | user_loc_info_sgw => gtp_user_loc_info_ie.gtp_user_loc_info_ie_t
  | sgw_u_node_name => gtp_fully_qual_domain_name_ie.gtp_fully_qual_domain_name_ie_t
  | secdry_rat_usage_data_rpt => gtp_secdry_rat_usage_data_rpt_ie.gtp_secdry_rat_usage_data_rpt_ie_t
  | up_func_sel_indctn_flgs => gtp_up_func_sel_indctn_flgs_ie.gtp_up_func_sel_indctn_flgs_ie_t
  | priv_ext => gtp_priv_ext_ie.gtp_priv_ext_ie_t
  | serving_network => gtp_serving_network_ie.gtp_serving_network_ie_t
  end.

Definition create_sess_req_ie (f : create_sess_req_member) : IeMember (create_sess_req_type f) :=
  match f with
  | imsi => gtp_imsi_ie_member
  | msisdn => gtp_msisdn_ie_member
  | mei => gtp_mbl_equip_idnty_ie_member
  | uli => gtp_user_loc_info_ie_member
  | rat_type => gtp_rat_type_ie_member
  | indctn_flgs => gtp_indication_ie_member
  | sender_fteid_ctl_plane => gtp_fully_qual_tunn_endpt_idnt_ie_member
  | pgw_s5s8_addr_ctl_plane_or_pmip => gtp_fully_qual_tunn_endpt_idnt_ie_member
  | apn => gtp_acc_pt_name_ie_member
  | selection_mode => gtp_selection_mode_ie_member
  | pdn_type => gtp_pdn_type_ie_member
  | paa => gtp_pdn_addr_alloc_ie_member
  | max_apn_rstrct => gtp_apn_restriction_ie_member
  | apn_ambr => gtp_agg_max_bit_rate_ie_member
  | linked_eps_bearer_id => gtp_eps_bearer_id_ie_member
  | trstd_wlan_mode_indctn => gtp_trstd_wlan_mode_indctn_ie_member
  | pco => gtp_prot_cfg_opts_ie_member
  | bearer_contexts_to_be_created _ => gtp_create_sess_request_bearer_ctxt_to_be_created_ie.gtp_create_sess_request_bearer_ctxt_to_be_created_ie_member_ie
  | bearer_contexts_to_be_removed => gtp_create_sess_request_bearer_ctxt_to_be_removed_ie.gtp_create_sess_request_bearer_ctxt_to_be_removed_ie_member_ie
  | trc_info => gtp_trc_info_ie_member
  | recovery => gtp_recovery_ie_member
  | mme_fqcsid => gtp_fqcsid_ie_member
  | sgw_fqcsid => gtp_fqcsid_ie_member
  | epdg_fqcsid => gtp_fqcsid_ie_member
  | twan_fqcsid => gtp_fqcsid_ie_member
  | ue_time_zone => gtp_ue_time_zone_ie_member
  | uci => gtp_user_csg_info_ie_member
  | chrgng_char => gtp_chrgng_char_ie_member
  | mmes4_sgsn_ldn => gtp_local_distgsd_name_ie_member
  | sgw_ldn => gtp_local_distgsd_name_ie_member
  | epdg_ldn => gtp_local_distgsd_name_ie_member
  | twan_ldn => gtp_local_distgsd_name_ie_member
  | sgnllng_priority_indctn => gtp_sgnllng_priority_indctn_ie_member
  | ue_local_ip_addr => gtp_ip_address_ie_member
  | ue_udp_port => gtp_port_number_ie_member
  | apco => gtp_addtl_prot_cfg_opts_ie_member
  | henb_local_ip_addr => gtp_ip_address_ie_member
  | henb_udp_port => gtp_port_number_ie_member
  | mmes4_sgsn_idnt => gtp_ip_address_ie_member
  | twan_identifier => gtp_twan_identifier_ie_member
  | epdg_ip_address => gtp_ip_address_ie_member
  | cn_oper_sel_entity => gtp_cn_oper_sel_entity_ie_member
  | pres_rptng_area_info => gtp_pres_rptng_area_info_ie_member
  | mmes4_sgsns_ovrld_ctl_info => gtp_ovrld_ctl_info_ie_member
  | sgws_ovrld_ctl_info => gtp_ovrld_ctl_info_ie_member
  | twanepdgs_ovrld_ctl_info => gtp_ovrld_ctl_info_ie_member
  | origination_time_stmp => gtp_msec_time_stmp_ie_member
  | max_wait_time => gtp_integer_number_ie_member
  | wlan_loc_info => gtp_twan_identifier_ie_member
  | wlan_loc_ts => gtp_twan_idnt_ts_ie_member
  | nbifom_cntnr => gtp_full_qual_cntnr_ie_member
  | rmt_ue_ctxt_connected => gtp_rmt_ue_ctxt_ie_member
  | threegpp_aaa_server_idnt => gtp_node_identifier_ie_member
  | epco => gtp_extnded_prot_cfg_opts_ie_member
  | srvng_plmn_rate_ctl => gtp_srvng_plmn_rate_ctl_ie_member
  | mo_exception_data_cntr => gtp_counter_ie_member
  | ue_tcp_port => gtp_port_number_ie_member
  | mapped_ue_usage_type => gtp_mapped_ue_usage_type_ie_member
  | user_loc_info_sgw => gtp_user_loc_info_ie_member
  | sgw_u_node_name => gtp_fully_qual_domain_name_ie_member
  | secdry_rat_usage_data_rpt => gtp_secdry_rat_usage_data_rpt_ie_member
  | up_func_sel_indctn_flgs => gtp_up_func_sel_indctn_flgs_ie_member
  | priv_ext => gtp_priv_ext_ie_member
  | serving_network => gtp_serving_network_ie_member
  end.

Inductive create_sess_req_counter := bearer_count.

Definition create_sess_req_counter_eq_dec (c d : create_sess_req_counter) : {c = d} + {c <> d}.
Proof. decide equality. Defined.

Definition create_sess_req_sig : signature :=
  Signature create_sess_req_member create_sess_req_eq_dec create_sess_req_type create_sess_req_ie
    create_sess_req_counter create_sess_req_counter_eq_dec.
Canonical Structure create_sess_req_sig.

Definition create_sess_req_t : Type := message create_sess_req_sig.

Definition encode_create_sess_req_order : list (visit create_sess_req_sig) :=
  [One imsi; One msisdn; One mei; One uli; One serving_network; One rat_type;
   One sender_fteid_ctl_plane; One pgw_s5s8_addr_ctl_plane_or_pmip; One apn; One selection_mode;
   One pdn_type; One paa; One max_apn_rstrct; One apn_ambr; One linked_eps_bearer_id;
   One trstd_wlan_mode_indctn; One pco;
   Many (S := create_sess_req_sig) (fun n => n bearer_count) bearer_contexts_to_be_created (Z.to_nat MAX_BEARERS);
   One bearer_contexts_to_be_removed; One trc_info; One recovery; One mme_fqcsid;
   One sgw_fqcsid; One epdg_fqcsid; One twan_fqcsid; One ue_time_zone; One indctn_flgs; One uci;
   One chrgng_char; One mmes4_sgsn_ldn; One sgw_ldn; One epdg_ldn; One twan_ldn;
   One sgnllng_priority_indctn; One ue_local_ip_addr; One ue_udp_port; One apco;
   One henb_local_ip_addr; One henb_udp_port; One mmes4_sgsn_idnt; One twan_identifier;
   One epdg_ip_address; One cn_oper_sel_entity; One pres_rptng_area_info;
   One mmes4_sgsns_ovrld_ctl_info; One sgws_ovrld_ctl_info; One twanepdgs_ovrld_ctl_info;
   One origination_time_stmp; One max_wait_time; One wlan_loc_info; One wlan_loc_ts;
   One nbifom_cntnr; One rmt_ue_ctxt_connected; One threegpp_aaa_server_idnt; One epco;
   One srvng_plmn_rate_ctl; One mo_exception_data_cntr; One ue_tcp_port;
   One mapped_ue_usage_type; One user_loc_info_sgw; One sgw_u_node_name;
   One secdry_rat_usage_data_rpt; One up_func_sel_indctn_flgs; One priv_ext].

Definition encode_create_sess_req (value : create_sess_req_t) (buf : Z) : enc Z :=
  encode_message encode_create_sess_req_order value buf.

Definition decode_create_sess_req_table : list (branch create_sess_req_sig) :=
  [(GTP_IE_IMSI, Some GTP_IE_INSTANCE_ZERO, Into imsi);
   (GTP_IE_MSISDN, Some GTP_IE_INSTANCE_ZERO, Into msisdn);
   (GTP_IE_MBL_EQUIP_IDNTY, Some GTP_IE_INSTANCE_ZERO, Into mei);
   (GTP_IE_USER_LOC_INFO, Some GTP_IE_INSTANCE_ZERO, Into uli);
   (GTP_IE_RAT_TYPE, Some GTP_IE_INSTANCE_ZERO, Into rat_type);
   (GTP_IE_FULLY_QUAL_TUNN_ENDPT_IDNT, Some GTP_IE_INSTANCE_ZERO, Into sender_fteid_ctl_plane);
   (GTP_IE_FULLY_QUAL_TUNN_ENDPT_IDNT, Some GTP_IE_INSTANCE_ONE, Into pgw_s5s8_addr_ctl_plane_or_pmip);
   (GTP_IE_ACC_PT_NAME, Some GTP_IE_INSTANCE_ZERO, Into apn);
   (GTP_IE_SELECTION_MODE, Some GTP_IE_INSTANCE_ZERO, Into selection_mode);
   (GTP_IE_PDN_TYPE, Some GTP_IE_INSTANCE_ZERO, Into pdn_type);
   (GTP_IE_PDN_ADDR_ALLOC, Some GTP_IE_INSTANCE_ZERO, Into paa);
   (GTP_IE_APN_RESTRICTION, Some GTP_IE_INSTANCE_ZERO, Into max_apn_rstrct);
   (GTP_IE_AGG_MAX_BIT_RATE, Some GTP_IE_INSTANCE_ZERO, Into apn_ambr);
   (GTP_IE_EPS_BEARER_ID, Some GTP_IE_INSTANCE_ZERO, Into linked_eps_bearer_id);
   (GTP_IE_TRSTD_WLAN_MODE_INDCTN, Some GTP_IE_INSTANCE_ZERO, Into trstd_wlan_mode_indctn);
   (GTP_IE_PROT_CFG_OPTS, Some GTP_IE_INSTANCE_ZERO, Into pco);
   (GTP_IE_CREATE_SESS_REQUEST_BEARER_CTXT_TO_BE_CREATED, Some GTP_IE_INSTANCE_ZERO, Next (S := create_sess_req_sig) bearer_count bearer_contexts_to_be_created MAX_BEARERS);
   (GTP_IE_CREATE_SESS_REQUEST_BEARER_CTXT_TO_BE_REMOVED, Some GTP_IE_INSTANCE_ONE, Into bearer_contexts_to_be_removed);
   (GTP_IE_TRC_INFO, Some GTP_IE_INSTANCE_ZERO, Into trc_info);
   (GTP_IE_RECOVERY, Some GTP_IE_INSTANCE_ZERO, Into recovery);
   (GTP_IE_FQCSID, Some GTP_IE_INSTANCE_ZERO, Into mme_fqcsid);
   (GTP_IE_FQCSID, Some GTP_IE_INSTANCE_ONE, Into sgw_fqcsid);
   (GTP_IE_FQCSID, Some GTP_IE_INSTANCE_TWO, Into epdg_fqcsid);
   (GTP_IE_FQCSID, Some GTP_IE_INSTANCE_THREE, Into twan_fqcsid);
   (GTP_IE_UE_TIME_ZONE, Some GTP_IE_INSTANCE_ZERO, Into ue_time_zone);
   (GTP_IE_USER_CSG_INFO, Some GTP_IE_INSTANCE_ZERO, Into uci);
   (GTP_IE_CHRGNG_CHAR, Some GTP_IE_INSTANCE_ZERO, Into chrgng_char);
   (GTP_IE_LOCAL_DISTGSD_NAME, Some GTP_IE_INSTANCE_ZERO, Into mmes4_sgsn_ldn);
   (GTP_IE_LOCAL_DISTGSD_NAME, Some GTP_IE_INSTANCE_ONE, Into sgw_ldn);
   (GTP_IE_LOCAL_DISTGSD_NAME, Some GTP_IE_INSTANCE_TWO, Into epdg_ldn);
   (GTP_IE_LOCAL_DISTGSD_NAME, Some GTP_IE_INSTANCE_THREE, Into twan_ldn);
   (GTP_IE_SGNLLNG_PRIORITY_INDCTN, Some GTP_IE_INSTANCE_ZERO, Into sgnllng_priority_indctn);
   (GTP_IE_IP_ADDRESS, Some GTP_IE_INSTANCE_ZERO, Into ue_local_ip_addr);
   (GTP_IE_PORT_NUMBER, Some GTP_IE_INSTANCE_ZERO, Into ue_udp_port);
   (GTP_IE_ADDTL_PROT_CFG_OPTS, Some GTP_IE_INSTANCE_ZERO, Into apco);
   (GTP_IE_IP_ADDRESS, Some GTP_IE_INSTANCE_ONE, Into henb_local_ip_addr);
   (GTP_IE_PORT_NUMBER, Some GTP_IE_INSTANCE_ONE, Into henb_udp_port);
   (GTP_IE_IP_ADDRESS, Some GTP_IE_INSTANCE_TWO, Into mmes4_sgsn_idnt);
   (GTP_IE_TWAN_IDENTIFIER, Some GTP_IE_INSTANCE_ZERO, Into twan_identifier);
   (GTP_IE_IP_ADDRESS, Some GTP_IE_INSTANCE_THREE, Into epdg_ip_address);
   (GTP_IE_CN_OPER_SEL_ENTITY, Some GTP_IE_INSTANCE_ZERO, Into cn_oper_sel_entity);
   (GTP_IE_PRES_RPTNG_AREA_INFO, Some GTP_IE_INSTANCE_ZERO, Into pres_rptng_area_info);
   (GTP_IE_OVRLD_CTL_INFO, Some GTP_IE_INSTANCE_ZERO, Into mmes4_sgsns_ovrld_ctl_info);
   (GTP_IE_OVRLD_CTL_INFO, Some GTP_IE_INSTANCE_ONE, Into sgws_ovrld_ctl_info);
   (GTP_IE_OVRLD_CTL_INFO, Some GTP_IE_INSTANCE_TWO, Into twanepdgs_ovrld_ctl_info);
   (GTP_IE_MSEC_TIME_STMP, Some GTP_IE_INSTANCE_ZERO, Into origination_time_stmp);
   (GTP_IE_INTEGER_NUMBER, Some GTP_IE_INSTANCE_ZERO, Into max_wait_time);
   (GTP_IE_TWAN_IDENTIFIER, Some GTP_IE_INSTANCE_ONE, Into wlan_loc_info);
   (GTP_IE_TWAN_IDNT_TS, Some GTP_IE_INSTANCE_ZERO, Into wlan_loc_ts);
   (GTP_IE_FULL_QUAL_CNTNR, Some GTP_IE_INSTANCE_ZERO, Into nbifom_cntnr);
   (GTP_IE_RMT_UE_CTXT, Some GTP_IE_INSTANCE_ZERO, Into rmt_ue_ctxt_connected);
   (GTP_IE_NODE_IDENTIFIER, Some GTP_IE_INSTANCE_ZERO, Into threegpp_aaa_server_idnt);
   (GTP_IE_EXTNDED_PROT_CFG_OPTS, Some GTP_IE_INSTANCE_ZERO, Into epco);
   (GTP_IE_SRVNG_PLMN_RATE_CTL, Some GTP_IE_INSTANCE_ZERO, Into srvng_plmn_rate_ctl);
   (GTP_IE_COUNTER, Some GTP_IE_INSTANCE_ZERO, Into mo_exception_data_cntr);
   (GTP_IE_PORT_NUMBER, Some GTP_IE_INSTANCE_TWO, Into ue_tcp_port);
   (GTP_IE_MAPPED_UE_USAGE_TYPE, Some GTP_IE_INSTANCE_ZERO, Into mapped_ue_usage_type);
   (GTP_IE_USER_LOC_INFO, Some GTP_IE_INSTANCE_ONE, Into user_loc_info_sgw);
   (GTP_IE_FULLY_QUAL_DOMAIN_NAME, Some GTP_IE_INSTANCE_ZERO, Into sgw_u_node_name);
   (GTP_IE_SECDRY_RAT_USAGE_DATA_RPT, Some GTP_IE_INSTANCE_ZERO, Into secdry_rat_usage_data_rpt);
   (GTP_IE_UP_FUNC_SEL_INDCTN_FLGS, Some GTP_IE_INSTANCE_ZERO, Into up_func_sel_indctn_flgs);
   (GTP_IE_PRIV_EXT, None, Into priv_ext);
   (GTP_IE_SERVING_NETWORK, Some GTP_IE_INSTANCE_ZERO, Into serving_network);
   (GTP_IE_INDICATION, Some GTP_IE_INSTANCE_ZERO, Into indctn_flgs)].

Definition decode_create_sess_req (fuel : nat) (m : bytes) (buf : Z) (value : create_sess_req_t)
  : outcome (Z * create_sess_req_t) :=
  decode_message decode_create_sess_req_table [bearer_count] false fuel m buf value.

End create_sess_req.

(** ** [upd_bearer_req] *)

Module upd_bearer_req.

Inductive upd_bearer_req_member :=
| bearer_contexts (i : nat)
| pti
| pco
| apn_ambr
| chg_rptng_act
| csg_info_rptng_act
| henb_info_rptng
| indctn_flgs
| pgw_fqcsid
| sgw_fqcsid
| pres_rptng_area_act
| pgws_node_lvl_load_ctl_info
| pgws_apn_lvl_load_ctl_info
| sgws_node_lvl_load_ctl_info
| pgws_ovrld_ctl_info
| sgws_ovrld_ctl_info
| nbifom_cntnr
| priv_ext.

Definition upd_bearer_req_eq_dec (f g : upd_bearer_req_member) : {f = g} + {f <> g}.
Proof. decide equality; apply Nat.eq_dec. Defined.

Definition upd_bearer_req_type (f : upd_bearer_req_member) : Type :=
  match f with
  | bearer_contexts _ => gtp_upd_bearer_request__bearer_ctxt_ie.gtp_upd_bearer_request__bearer_ctxt_ie_t
  | pti => gtp_proc_trans_id_ie.gtp_proc_trans_id_ie_t
  | pco => gtp_prot_cfg_opts_ie.gtp_prot_cfg_opts_ie_t
  | apn_ambr => gtp_agg_max_bit_rate_ie.gtp_agg_max_bit_rate_ie_t
  | chg_rptng_act => gtp_chg_rptng_act_ie.gtp_chg_rptng_act_ie_t
  | csg_info_rptng_act => gtp_csg_info_rptng_act_ie.gtp_csg_info_rptng_act_ie_t
  | henb_info_rptng => gtp_henb_info_rptng_ie.gtp_henb_info_rptng_ie_t
  | indctn_flgs => gtp_indication_ie.gtp_indication_ie_t
  | pgw_fqcsid => gtp_fqcsid_ie.gtp_fqcsid_ie_t
  | sgw_fqcsid => gtp_fqcsid_ie.gtp_fqcsid_ie_t
  | pres_rptng_area_act => gtp_pres_rptng_area_act_ie.gtp_pres_rptng_area_act_ie_t
  | pgws_node_lvl_load_ctl_info => gtp_load_ctl_info_ie.gtp_load_ctl_info_ie_t
  | pgws_apn_lvl_load_ctl_info => gtp_load_ctl_info_ie.gtp_load_ctl_info_ie_t
  | sgws_node_lvl_load_ctl_info => gtp_load_ctl_info_ie.gtp_load_ctl_info_ie_t
  | pgws_ovrld_ctl_info => gtp_ovrld_ctl_info_ie.gtp_ovrld_ctl_info_ie_t
  | sgws_ovrld_ctl_info => gtp_ovrld_ctl_info_ie.gtp_ovrld_ctl_info_ie_t
  | nbifom_cntnr => gtp_full_qual_cntnr_ie.gtp_full_qual_cntnr_ie_t
  | priv_ext => gtp_priv_ext_ie.gtp_priv_ext_ie_t
  end.

Definition upd_bearer_req_ie (f : upd_bearer_req_member) : IeMember (upd_bearer_req_type f) :=
  match f with
  | bearer_contexts _ => gtp_upd_bearer_request__bearer_ctxt_ie.gtp_upd_bearer_request__bearer_ctxt_ie_member_ie
  | pti => gtp_proc_trans_id_ie_member
  | pco => gtp_prot_cfg_opts_ie_member
  | apn_ambr => gtp_agg_max_bit_rate_ie_member
  | chg_rptng_act => gtp_chg_rptng_act_ie_member
  | csg_info_rptng_act => gtp_csg_info_rptng_act_ie_member
  | henb_info_rptng => gtp_henb_info_rptng_ie_member
  | indctn_flgs => gtp_indication_ie_member
  | pgw_fqcsid => gtp_fqcsid_ie_member
  | sgw_fqcsid => gtp_fqcsid_ie_member
  | pres_rptng_area_act => gtp_pres_rptng_area_act_ie_member
  | pgws_node_lvl_load_ctl_info => gtp_load_ctl_info_ie_member
  | pgws_apn_lvl_load_ctl_info => gtp_load_ctl_info_ie_member
  | sgws_node_lvl_load_ctl_info => gtp_load_ctl_info_ie_member
  | pgws_ovrld_ctl_info => gtp_ovrld_ctl_info_ie_member
  | sgws_ovrld_ctl_info => gtp_ovrld_ctl_info_ie_member
  | nbifom_cntnr => gtp_full_qual_cntnr_ie_member
  | priv_ext => gtp_priv_ext_ie_member
  end.

Inductive upd_bearer_req_counter := bearer_context_count.

Definition upd_bearer_req_counter_eq_dec (c d : upd_bearer_req_counter) : {c = d} + {c <> d}.
Proof. decide equality. Defined.

Definition upd_bearer_req_sig : signature :=
  Signature upd_bearer_req_member upd_bearer_req_eq_dec upd_bearer_req_type upd_bearer_req_ie
    upd_bearer_req_counter upd_bearer_req_counter_eq_dec.
Canonical Structure upd_bearer_req_sig.

Definition upd_bearer_req_t : Type := message upd_bearer_req_sig.

Definition encode_upd_bearer_req_order : list (visit upd_bearer_req_sig) :=
  [Many (S := upd_bearer_req_sig) (fun n => n bearer_context_count) bearer_contexts (Z.to_nat MAX_BEARERS_PER_UE);
   One pti; One pco; One apn_ambr; One chg_rptng_act; One csg_info_rptng_act;
   One henb_info_rptng; One indctn_flgs; One pgw_fqcsid; One sgw_fqcsid;
   One pres_rptng_area_act; One pgws_node_lvl_load_ctl_info; One pgws_apn_lvl_load_ctl_info;
   One sgws_node_lvl_load_ctl_info; One pgws_ovrld_ctl_info; One sgws_ovrld_ctl_info;
   One nbifom_cntnr; One priv_ext].

Definition encode_upd_bearer_req (value : upd_bearer_req_t) (buf : Z) : enc Z :=
  encode_message encode_upd_bearer_req_order value buf.

Definition decode_upd_bearer_req_table : list (branch upd_bearer_req_sig) :=
  [(GTP_IE_BEARER_CONTEXT, Some GTP_IE_INSTANCE_ZERO, Next (S := upd_bearer_req_sig) bearer_context_count bearer_contexts MAX_BEARERS_PER_UE);
   (GTP_IE_PROC_TRANS_ID, Some GTP_IE_INSTANCE_ZERO, Into pti);
   (GTP_IE_PROT_CFG_OPTS, Some GTP_IE_INSTANCE_ZERO, Into pco);
   (GTP_IE_AGG_MAX_BIT_RATE, Some GTP_IE_INSTANCE_ZERO, Into apn_ambr);
   (GTP_IE_CHG_RPTNG_ACT, Some GTP_IE_INSTANCE_ZERO, Into chg_rptng_act);
   (GTP_IE_CSG_INFO_RPTNG_ACT, Some GTP_IE_INSTANCE_ZERO, Into csg_info_rptng_act);
   (GTP_IE_HENB_INFO_RPTNG, Some GTP_IE_INSTANCE_ZERO, Into henb_info_rptng);
   (GTP_IE_INDICATION, Some GTP_IE_INSTANCE_ZERO, Into indctn_flgs);
   (GTP_IE_FQCSID, Some GTP_IE_INSTANCE_ZERO, Into pgw_fqcsid);
   (GTP_IE_FQCSID, Some GTP_IE_INSTANCE_ONE, Into sgw_fqcsid);
   (GTP_IE_PRES_RPTNG_AREA_ACT, Some GTP_IE_INSTANCE_ZERO, Into pres_rptng_area_act);
   (GTP_IE_LOAD_CTL_INFO, Some GTP_IE_INSTANCE_ZERO, Into pgws_node_lvl_load_ctl_info);
   (GTP_IE_LOAD_CTL_INFO, Some GTP_IE_INSTANCE_ONE, Into pgws_apn_lvl_load_ctl_info);
   (GTP_IE_LOAD_CTL_INFO, Some GTP_IE_INSTANCE_TWO, Into sgws_node_lvl_load_ctl_info);
   (GTP_IE_OVRLD_CTL_INFO, Some GTP_IE_INSTANCE_ZERO, Into pgws_ovrld_ctl_info);
   (GTP_IE_OVRLD_CTL_INFO, Some GTP_IE_INSTANCE_ONE, Into sgws_ovrld_ctl_info);
   (GTP_IE_FULL_QUAL_CNTNR, Some GTP_IE_INSTANCE_ZERO, Into nbifom_cntnr);
   (GTP_IE_PRIV_EXT, None, Into priv_ext)].

Definition decode_upd_bearer_req (fuel : nat) (m : bytes) (buf : Z) (value : upd_bearer_req_t)
  : outcome (Z * upd_bearer_req_t) :=
  decode_message decode_upd_bearer_req_table [] false fuel m buf value.

End upd_bearer_req.

(** ** [del_bearer_rsp] *)

Module del_bearer_rsp.

Inductive del_bearer_rsp_member :=
| cause
| lbi
| bearer_contexts (i : nat)
| recovery
| mme_fqcsid
| sgw_fqcsid
| epdg_fqcsid
| twan_fqcsid
| pco
| ue_time_zone
| uli
| uli_timestamp
| twan_identifier
| twan_idnt_ts
| mmes4_sgsns_ovrld_ctl_info
| sgws_ovrld_ctl_info
| mmes4_sgsn_idnt
| twanepdgs_ovrld_ctl_info
| wlan_loc_info
| wlan_loc_ts
| ue_local_ip_addr
| ue_udp_port
| nbifom_cntnr
| ue_tcp_port
| secdry_rat_usage_data_rpt
| priv_ext.

Definition del_bearer_rsp_eq_dec (f g : del_bearer_rsp_member) : {f = g} + {f <> g}.
Proof. decide equality; apply Nat.eq_dec. Defined.

Definition del_bearer_rsp_type (f : del_bearer_rsp_member) : Type :=
  match f with
  | cause => gtp_cause_ie.gtp_cause_ie_t
  | lbi => gtp_eps_bearer_id_ie.gtp_eps_bearer_id_ie_t
  | bearer_contexts _ => gtp_del_bearer_response_bearer_ctxt_ie.gtp_del_bearer_response_bearer_ctxt_ie_t
  | recovery => gtp_recovery_ie.gtp_recovery_ie_t
  | mme_fqcsid => gtp_fqcsid_ie.gtp_fqcsid_ie_t
  | sgw_fqcsid => gtp_fqcsid_ie.gtp_fqcsid_ie_t
  | epdg_fqcsid => gtp_fqcsid_ie.gtp_fqcsid_ie_t
  | twan_fqcsid => gtp_fqcsid_ie.gtp_fqcsid_ie_t
  | pco => gtp_prot_cfg_opts_ie.gtp_prot_cfg_opts_ie_t
  | ue_time_zone => gtp_ue_time_zone_ie.gtp_ue_time_zone_ie_t
  | uli => gtp_user_loc_info_ie.gtp_user_loc_info_ie_t
  | uli_timestamp => gtp_uli_timestamp_ie.gtp_uli_timestamp_ie_t
  | twan_identifier => gtp_twan_identifier_ie.gtp_twan_identifier_ie_t
  | twan_idnt_ts => gtp_twan_idnt_ts_ie.gtp_twan_idnt_ts_ie_t
  | mmes4_sgsns_ovrld_ctl_info => gtp_ovrld_ctl_info_ie.gtp_ovrld_ctl_info_ie_t
  | sgws_ovrld_ctl_info => gtp_ovrld_ctl_info_ie.gtp_ovrld_ctl_info_ie_t
  | mmes4_sgsn_idnt => gtp_ip_address_ie.gtp_ip_address_ie_t
  | twanepdgs_ovrld_ctl_info => gtp_ovrld_ctl_info_ie.gtp_ovrld_ctl_info_ie_t
  | wlan_loc_info => gtp_twan_identifier_ie.gtp_twan_identifier_ie_t
  | wlan_loc_ts => gtp_twan_idnt_ts_ie.gtp_twan_idnt_ts_ie_t
  | ue_local_ip_addr => gtp_ip_address_ie.gtp_ip_address_ie_t
  | ue_udp_port => gtp_port_number_ie.gtp_port_number_ie_t
  | nbifom_cntnr => gtp_full_qual_cntnr_ie.gtp_full_qual_cntnr_ie_t
  | ue_tcp_port => gtp_port_number_ie.gtp_port_number_ie_t
  | secdry_rat_usage_data_rpt => gtp_secdry_rat_usage_data_rpt_ie.gtp_secdry_rat_usage_data_rpt_ie_t
  | priv_ext => gtp_priv_ext_ie.gtp_priv_ext_ie_t
  end.

Definition del_bearer_rsp_ie (f : del_bearer_rsp_member) : IeMember (del_bearer_rsp_type f) :=
  match f with
  | cause => gtp_cause_ie_member
  | lbi => gtp_eps_bearer_id_ie_member
  | bearer_contexts _ => gtp_del_bearer_response_bearer_ctxt_ie.gtp_del_bearer_response_bearer_ctxt_ie_member_ie
  | recovery => gtp_recovery_ie_member
  | mme_fqcsid => gtp_fqcsid_ie_member
  | sgw_fqcsid => gtp_fqcsid_ie_member
  | epdg_fqcsid => gtp_fqcsid_ie_member
  | twan_fqcsid => gtp_fqcsid_ie_member
  | pco => gtp_prot_cfg_opts_ie_member
  | ue_time_zone => gtp_ue_time_zone_ie_member
  | uli => gtp_user_loc_info_ie_member
  | uli_timestamp => gtp_uli_timestamp_ie_member
  | twan_identifier => gtp_twan_identifier_ie_member
  | twan_idnt_ts => gtp_twan_idnt_ts_ie_member
  | mmes4_sgsns_ovrld_ctl_info => gtp_ovrld_ctl_info_ie_member
  | sgws_ovrld_ctl_info => gtp_ovrld_ctl_info_ie_member
  | mmes4_sgsn_idnt => gtp_ip_address_ie_member
  | twanepdgs_ovrld_ctl_info => gtp_ovrld_ctl_info_ie_member
  | wlan_loc_info => gtp_twan_identifier_ie_member
  | wlan_loc_ts => gtp_twan_idnt_ts_ie_member
  | ue_local_ip_addr => gtp_ip_address_ie_member
  | ue_udp_port => gtp_port_number_ie_member
  | nbifom_cntnr => gtp_full_qual_cntnr_ie_member
  | ue_tcp_port => gtp_port_number_ie_member
  | secdry_rat_usage_data_rpt => gtp_secdry_rat_usage_data_rpt_ie_member
  | priv_ext => gtp_priv_ext_ie_member
  end.

Inductive del_bearer_rsp_counter := bearer_count.

Definition del_bearer_rsp_counter_eq_dec (c d : del_bearer_rsp_counter) : {c = d} + {c <> d}.
Proof. decide equality. Defined.

Definition del_bearer_rsp_sig : signature :=
  Signature del_bearer_rsp_member del_bearer_rsp_eq_dec del_bearer_rsp_type del_bearer_rsp_ie
    del_bearer_rsp_counter del_bearer_rsp_counter_eq_dec.
Canonical Structure del_bearer_rsp_sig.

Definition del_bearer_rsp_t : Type := message del_bearer_rsp_sig.

Definition encode_del_bearer_rsp_order : list (visit del_bearer_rsp_sig) :=
  [One cause; One lbi;
   Many (S := del_bearer_rsp_sig) (fun n => n bearer_count) bearer_contexts (Z.to_nat MAX_BEARERS);
   One recovery; One mme_fqcsid; One sgw_fqcsid; One epdg_fqcsid; One twan_fqcsid; One pco;
   One ue_time_zone; One uli; One uli_timestamp; One twan_identifier; One twan_idnt_ts;
   One mmes4_sgsns_ovrld_ctl_info; One sgws_ovrld_ctl_info; One mmes4_sgsn_idnt;
   One twanepdgs_ovrld_ctl_info; One wlan_loc_info; One wlan_loc_ts; One ue_local_ip_addr;
   One ue_udp_port; One nbifom_cntnr; One ue_tcp_port; One secdry_rat_usage_data_rpt;
   One priv_ext].

Definition encode_del_bearer_rsp (value : del_bearer_rsp_t) (buf : Z) : enc Z :=
  encode_message encode_del_bearer_rsp_order value buf.

Definition decode_del_bearer_rsp_table : list (branch del_bearer_rsp_sig) :=
  [(GTP_IE_CAUSE, Some GTP_IE_INSTANCE_ZERO, Into cause);
   (GTP_IE_EPS_BEARER_ID, Some GTP_IE_INSTANCE_ZERO, Into lbi);
   (GTP_IE_BEARER_CONTEXT, Some GTP_IE_INSTANCE_ZERO, Next (S := del_bearer_rsp_sig) bearer_count bearer_contexts MAX_BEARERS);
   (GTP_IE_RECOVERY, Some GTP_IE_INSTANCE_ZERO, Into recovery);
   (GTP_IE_FQCSID, Some GTP_IE_INSTANCE_ZERO, Into mme_fqcsid);
   (GTP_IE_FQCSID, Some GTP_IE_INSTANCE_ONE, Into sgw_fqcsid);
   (GTP_IE_FQCSID, Some GTP_IE_INSTANCE_TWO, Into epdg_fqcsid);
   (GTP_IE_FQCSID, Some GTP_IE_INSTANCE_THREE, Into twan_fqcsid);
   (GTP_IE_PROT_CFG_OPTS, Some GTP_IE_INSTANCE_ZERO, Into pco);
   (GTP_IE_UE_TIME_ZONE, Some GTP_IE_INSTANCE_ZERO, Into ue_time_zone);
   (GTP_IE_USER_LOC_INFO, Some GTP_IE_INSTANCE_ZERO, Into uli);
   (GTP_IE_ULI_TIMESTAMP, Some GTP_IE_INSTANCE_ZERO, Into uli_timestamp);
   (GTP_IE_TWAN_IDENTIFIER, Some GTP_IE_INSTANCE_ZERO, Into twan_identifier);
   (GTP_IE_TWAN_IDNT_TS, Some GTP_IE_INSTANCE_ZERO, Into twan_idnt_ts);
   (GTP_IE_OVRLD_CTL_INFO, Some GTP_IE_INSTANCE_ZERO, Into mmes4_sgsns_ovrld_ctl_info);
   (GTP_IE_OVRLD_CTL_INFO, Some GTP_IE_INSTANCE_ONE, Into sgws_ovrld_ctl_info);
   (GTP_IE_IP_ADDRESS, Some GTP_IE_INSTANCE_ZERO, Into mmes4_sgsn_idnt);
   (GTP_IE_OVRLD_CTL_INFO, Some GTP_IE_INSTANCE_TWO, Into twanepdgs_ovrld_ctl_info);
   (GTP_IE_TWAN_IDENTIFIER, Some GTP_IE_INSTANCE_ONE, Into wlan_loc_info);
   (GTP_IE_TWAN_IDNT_TS, Some GTP_IE_INSTANCE_ONE, Into wlan_loc_ts);
   (GTP_IE_IP_ADDRESS, Some GTP_IE_INSTANCE_ZERO, Into ue_local_ip_addr);
   (GTP_IE_PORT_NUMBER, Some GTP_IE_INSTANCE_ZERO, Into ue_udp_port);
   (GTP_IE_FULL_QUAL_CNTNR, Some GTP_IE_INSTANCE_ZERO, Into nbifom_cntnr);
   (GTP_IE_PORT_NUMBER, Some GTP_IE_INSTANCE_ONE, Into ue_tcp_port);
   (GTP_IE_SECDRY_RAT_USAGE_DATA_RPT, Some GTP_IE_INSTANCE_ZERO, Into secdry_rat_usage_data_rpt);
   (GTP_IE_PRIV_EXT, None, Into priv_ext)].

Definition decode_del_bearer_rsp (fuel : nat) (m : bytes) (buf : Z) (value : del_bearer_rsp_t)
  : outcome (Z * del_bearer_rsp_t) :=
  decode_message decode_del_bearer_rsp_table [bearer_count] false fuel m buf value.

End del_bearer_rsp.

(** ** [mod_acc_bearers_req] *)

Module mod_acc_bearers_req.

Inductive mod_acc_bearers_req_member :=
| indctn_flgs
| sender_fteid_ctl_plane
| delay_dnlnk_pckt_notif_req
| bearer_contexts_to_be_modified (i : nat)
| bearer_contexts_to_be_removed (i : nat)
| recovery
| secdry_rat_usage_data_rpt (i : nat)
| priv_ext.

Definition mod_acc_bearers_req_eq_dec (f g : mod_acc_bearers_req_member) : {f = g} + {f <> g}.
Proof. decide equality; apply Nat.eq_dec. Defined.

Definition mod_acc_bearers_req_type (f : mod_acc_bearers_req_member) : Type :=
  match f with
  | indctn_flgs => gtp_indication_ie.gtp_indication_ie_t
  | sender_fteid_ctl_plane => gtp_fully_qual_tunn_endpt_idnt_ie.gtp_fully_qual_tunn_endpt_idnt_ie_t
  | delay_dnlnk_pckt_notif_req => gtp_delay_value_ie.gtp_delay_value_ie_t
  | bearer_contexts_to_be_modified _ => gtp_mod_bearer_request_bearer_ctxt_to_be_modified_ie.gtp_mod_bearer_request_bearer_ctxt_to_be_modified_ie_t
  | bearer_contexts_to_be_removed _ => gtp_mod_bearer_request_bearer_ctxt_to_be_removed_ie.gtp_mod_bearer_request_bearer_ctxt_to_be_removed_ie_t
  | recovery => gtp_recovery_ie.gtp_recovery_ie_t
  | secdry_rat_usage_data_rpt _ => gtp_secdry_rat_usage_data_rpt_ie.gtp_secdry_rat_usage_data_rpt_ie_t
  | priv_ext => gtp_priv_ext_ie.gtp_priv_ext_ie_t
  end.

Definition mod_acc_bearers_req_ie (f : mod_acc_bearers_req_member) : IeMember (mod_acc_bearers_req_type f) :=
  match f with
  | indctn_flgs => gtp_indication_ie_member
  | sender_fteid_ctl_plane => gtp_fully_qual_tunn_endpt_idnt_ie_member
  | delay_dnlnk_pckt_notif_req => gtp_delay_value_ie_member
  | bearer_contexts_to_be_modified _ => gtp_mod_bearer_request_bearer_ctxt_to_be_modified_ie.gtp_mod_bearer_request_bearer_ctxt_to_be_modified_ie_member_ie
  | bearer_contexts_to_be_removed _ => gtp_mod_bearer_request_bearer_ctxt_to_be_removed_ie.gtp_mod_bearer_request_bearer_ctxt_to_be_removed_ie_member_ie
  | recovery => gtp_recovery_ie_member
  | secdry_rat_usage_data_rpt _ => gtp_secdry_rat_usage_data_rpt_ie_member
  | priv_ext => gtp_priv_ext_ie_member
  end.

Inductive mod_acc_bearers_req_counter := bearer_modify_count | bearer_remove_count | second_rat_count.

Definition mod_acc_bearers_req_counter_eq_dec (c d : mod_acc_bearers_req_counter) : {c = d} + {c <> d}.
Proof. decide equality. Defined.

Definition mod_acc_bearers_req_sig : signature :=
  Signature mod_acc_bearers_req_member mod_acc_bearers_req_eq_dec mod_acc_bearers_req_type mod_acc_bearers_req_ie
    mod_acc_bearers_req_counter mod_acc_bearers_req_counter_eq_dec.
Canonical Structure mod_acc_bearers_req_sig.

Definition mod_acc_bearers_req_t : Type := message mod_acc_bearers_req_sig.

Definition encode_mod_acc_bearers_req_order : list (visit mod_acc_bearers_req_sig) :=
  [One indctn_flgs; One sender_fteid_ctl_plane; One delay_dnlnk_pckt_notif_req;
   Many (S := mod_acc_bearers_req_sig) (fun _ => MAX_BEARERS) bearer_contexts_to_be_modified (Z.to_nat MAX_BEARERS);
   Many (S := mod_acc_bearers_req_sig) (fun _ => MAX_BEARERS) bearer_contexts_to_be_removed (Z.to_nat MAX_BEARERS);
   One recovery;
   Many (S := mod_acc_bearers_req_sig) (fun n => n second_rat_count) secdry_rat_usage_data_rpt (Z.to_nat MAX_BEARERS);
   One priv_ext].

Definition encode_mod_acc_bearers_req (value : mod_acc_bearers_req_t) (buf : Z) : enc Z :=
  encode_message encode_mod_acc_bearers_req_order value buf.

Definition decode_mod_acc_bearers_req_table : list (branch mod_acc_bearers_req_sig) :=
  [(GTP_IE_INDICATION, Some GTP_IE_INSTANCE_ZERO, Into indctn_flgs);
   (GTP_IE_FULLY_QUAL_TUNN_ENDPT_IDNT, Some GTP_IE_INSTANCE_ZERO, Into sender_fteid_ctl_plane);
   (GTP_IE_DELAY_VALUE, Some GTP_IE_INSTANCE_ZERO, Into delay_dnlnk_pckt_notif_req);
   (GTP_IE_MOD_BEARER_REQUEST_BEARER_CTXT_TO_BE_MODIFIED, Some GTP_IE_INSTANCE_ZERO, Next (S := mod_acc_bearers_req_sig) bearer_modify_count bearer_contexts_to_be_modified MAX_BEARERS);
   (GTP_IE_MOD_BEARER_REQUEST_BEARER_CTXT_TO_BE_REMOVED, Some GTP_IE_INSTANCE_ONE, Next (S := mod_acc_bearers_req_sig) bearer_remove_count bearer_contexts_to_be_removed MAX_BEARERS);
   (GTP_IE_RECOVERY, Some GTP_IE_INSTANCE_ZERO, Into recovery);
   (GTP_IE_SECDRY_RAT_USAGE_DATA_RPT, Some GTP_IE_INSTANCE_ZERO, Next (S := mod_acc_bearers_req_sig) second_rat_count secdry_rat_usage_data_rpt MAX_BEARERS);
   (GTP_IE_PRIV_EXT, None, Into priv_ext)].

Definition decode_mod_acc_bearers_req (fuel : nat) (m : bytes) (buf : Z) (value : mod_acc_bearers_req_t)
  : outcome (Z * mod_acc_bearers_req_t) :=
  decode_message decode_mod_acc_bearers_req_table [bearer_modify_count; bearer_remove_count; second_rat_count] false fuel m buf value.

End mod_acc_bearers_req.
