(* ===== verification/GtpMessageTable.v ===== *)
(** The table of the messages of libgtpv2c, and what holds of all of them.

    Every message of GtpMessages1-2 is an entry with its encoder, its decoder
    and the order and the branches they are made of. *)

From Stdlib Require Import ZArith List Lia Bool String.
From S2P Require Import Prelude EncDecBits WireFormat IeFormat GtpDefs.
From S2P Require Import GtpIes1 GtpIes2 GtpIes3 GtpIesVar GtpIesSub GtpImsi.
From S2P Require Import GtpMessage GtpGrouped GtpMembers GtpGroupedIes GtpNumbers GtpMessages1 GtpMessages2.
Import ListNotations.
Open Scope Z_scope.

Record message_codec := MessageCodec {
  mc_name : string;
  mc_sig : signature;
  mc_encode : message mc_sig -> Z -> enc Z;
  mc_decode : nat -> bytes -> Z -> message mc_sig -> outcome (Z * message mc_sig);
  mc_order : list (visit mc_sig);
  mc_table : list (branch mc_sig);
  mc_resets : list (counter mc_sig);
  mc_guarded : bool;
  mc_encode_eq : forall v buf, mc_encode v buf = encode_message mc_order v buf;
  mc_decode_eq : forall fuel m buf v,
    mc_decode fuel m buf v = decode_message mc_table mc_resets mc_guarded fuel m buf v;
  mc_number : forall f : member mc_sig, IeNumber (member_type mc_sig f)
}.

(** The number of each member is that of its kind. *)
Ltac member_numbers := intros f; destruct f; cbn; exact _.

Definition all_messages : list message_codec := [
  MessageCodec "detach_ack" _ detach_ack.encode_detach_ack detach_ack.decode_detach_ack
    detach_ack.encode_detach_ack_order detach_ack.decode_detach_ack_table _ _ (fun _ _ => eq_refl) (fun _ _ _ _ => eq_refl) ltac:(member_numbers);
  MessageCodec "dnlnk_data_notif_ack" _ dnlnk_data_notif_ack.encode_dnlnk_data_notif_ack dnlnk_data_notif_ack.decode_dnlnk_data_notif_ack
    dnlnk_data_notif_ack.encode_dnlnk_data_notif_ack_order dnlnk_data_notif_ack.decode_dnlnk_data_notif_ack_table _ _ (fun _ _ => eq_refl) (fun _ _ _ _ => eq_refl) ltac:(member_numbers);
  MessageCodec "reloc_cncl_rsp" _ reloc_cncl_rsp.encode_reloc_cncl_rsp reloc_cncl_rsp.decode_reloc_cncl_rsp
    reloc_cncl_rsp.encode_reloc_cncl_rsp_order reloc_cncl_rsp.decode_reloc_cncl_rsp_table _ _ (fun _ _ => eq_refl) (fun _ _ _ _ => eq_refl) ltac:(member_numbers);
  MessageCodec "fwd_reloc_cmplt_ack" _ fwd_reloc_cmplt_ack.encode_fwd_reloc_cmplt_ack fwd_reloc_cmplt_ack.decode_fwd_reloc_cmplt_ack
    fwd_reloc_cmplt_ack.encode_fwd_reloc_cmplt_ack_order fwd_reloc_cmplt_ack.decode_fwd_reloc_cmplt_ack_table _ _ (fun _ _ => eq_refl) (fun _ _ _ _ => eq_refl) ltac:(member_numbers);
  MessageCodec "isr_status_indctn" _ isr_status_indctn.encode_isr_status_indctn isr_status_indctn.decode_isr_status_indctn
    isr_status_indctn.encode_isr_status_indctn_order isr_status_indctn.decode_isr_status_indctn_table _ _ (fun _ _ => eq_refl) (fun _ _ _ _ => eq_refl) ltac:(member_numbers);
  MessageCodec "ran_info_rly" _ ran_info_rly.encode_ran_info_rly ran_info_rly.decode_ran_info_rly
    ran_info_rly.encode_ran_info_rly_order ran_info_rly.decode_ran_info_rly_table _ _ (fun _ _ => eq_refl) (fun _ _ _ _ => eq_refl) ltac:(member_numbers);
  MessageCodec "ue_reg_qry_rsp" _ ue_reg_qry_rsp.encode_ue_reg_qry_rsp ue_reg_qry_rsp.decode_ue_reg_qry_rsp
    ue_reg_qry_rsp.encode_ue_reg_qry_rsp_order ue_reg_qry_rsp.decode_ue_reg_qry_rsp_table _ _ (fun _ _ => eq_refl) (fun _ _ _ _ => eq_refl) ltac:(member_numbers);
  MessageCodec "fwd_reloc_cmplt_notif" _ fwd_reloc_cmplt_notif.encode_fwd_reloc_cmplt_notif fwd_reloc_cmplt_notif.decode_fwd_reloc_cmplt_notif
    fwd_reloc_cmplt_notif.encode_fwd_reloc_cmplt_notif_order fwd_reloc_cmplt_notif.decode_fwd_reloc_cmplt_notif_table _ _ (fun _ _ => eq_refl) (fun _ _ _ _ => eq_refl) ltac:(member_numbers);
  MessageCodec "id_req" _ id_req.encode_id_req id_req.decode_id_req
    id_req.encode_id_req_order id_req.decode_id_req_table _ _ (fun _ _ => eq_refl) (fun _ _ _ _ => eq_refl) ltac:(member_numbers);
  MessageCodec "ue_reg_qry_req" _ ue_reg_qry_req.encode_ue_reg_qry_req ue_reg_qry_req.decode_ue_reg_qry_req
    ue_reg_qry_req.encode_ue_reg_qry_req_order ue_reg_qry_req.decode_ue_reg_qry_req_table _ _ (fun _ _ => eq_refl) (fun _ _ _ _ => eq_refl) ltac:(member_numbers);
  MessageCodec "del_sess_rsp" _ del_sess_rsp.encode_del_sess_rsp del_sess_rsp.decode_del_sess_rsp
    del_sess_rsp.encode_del_sess_rsp_order del_sess_rsp.decode_del_sess_rsp_table _ _ (fun _ _ => eq_refl) (fun _ _ _ _ => eq_refl) ltac:(member_numbers);
  MessageCodec "fwd_reloc_rsp" _ fwd_reloc_rsp.encode_fwd_reloc_rsp fwd_reloc_rsp.decode_fwd_reloc_rsp
    fwd_reloc_rsp.encode_fwd_reloc_rsp_order fwd_reloc_rsp.decode_fwd_reloc_rsp_table _ _ (fun _ _ => eq_refl) (fun _ _ _ _ => eq_refl) ltac:(member_numbers);
  MessageCodec "trc_sess_actvn" _ trc_sess_actvn.encode_trc_sess_actvn trc_sess_actvn.decode_trc_sess_actvn
    trc_sess_actvn.encode_trc_sess_actvn_order trc_sess_actvn.decode_trc_sess_actvn_table _ _ (fun _ _ => eq_refl) (fun _ _ _ _ => eq_refl) ltac:(member_numbers);
  MessageCodec "cfg_xfer_tunn" _ cfg_xfer_tunn.encode_cfg_xfer_tunn cfg_xfer_tunn.decode_cfg_xfer_tunn
    cfg_xfer_tunn.encode_cfg_xfer_tunn_order cfg_xfer_tunn.decode_cfg_xfer_tunn_table _ _ (fun _ _ => eq_refl) (fun _ _ _ _ => eq_refl) ltac:(member_numbers);
  MessageCodec "detach_notif" _ detach_notif.encode_detach_notif detach_notif.decode_detach_notif
    detach_notif.encode_detach_notif_order detach_notif.decode_detach_notif_table _ _ (fun _ _ => eq_refl) (fun _ _ _ _ => eq_refl) ltac:(member_numbers);
  MessageCodec "echo_request" _ echo_request.encode_echo_request echo_request.decode_echo_request
    echo_request.encode_echo_request_order echo_request.decode_echo_request_table _ _ (fun _ _ => eq_refl) (fun _ _ _ _ => eq_refl) ltac:(member_numbers);
  MessageCodec "rmt_ue_rpt_notif" _ rmt_ue_rpt_notif.encode_rmt_ue_rpt_notif rmt_ue_rpt_notif.decode_rmt_ue_rpt_notif
    rmt_ue_rpt_notif.encode_rmt_ue_rpt_notif_order rmt_ue_rpt_notif.decode_rmt_ue_rpt_notif_table _ _ (fun _ _ => eq_refl) (fun _ _ _ _ => eq_refl) ltac:(member_numbers);
  MessageCodec "ctxt_rsp" _ ctxt_rsp.encode_ctxt_rsp ctxt_rsp.decode_ctxt_rsp
    ctxt_rsp.encode_ctxt_rsp_order ctxt_rsp.decode_ctxt_rsp_table _ _ (fun _ _ => eq_refl) (fun _ _ _ _ => eq_refl) ltac:(member_numbers);
  MessageCodec "mbms_sess_start_rsp" _ mbms_sess_start_rsp.encode_mbms_sess_start_rsp mbms_sess_start_rsp.decode_mbms_sess_start_rsp
    mbms_sess_start_rsp.encode_mbms_sess_start_rsp_order mbms_sess_start_rsp.decode_mbms_sess_start_rsp_table _ _ (fun _ _ => eq_refl) (fun _ _ _ _ => eq_refl) ltac:(member_numbers);
  MessageCodec "context_request" _ context_request.encode_context_request context_request.decode_context_request
    context_request.encode_context_request_order context_request.decode_context_request_table _ _ (fun _ _ => eq_refl) (fun _ _ _ _ => eq_refl) ltac:(member_numbers);
  MessageCodec "mbms_sess_upd_req" _ mbms_sess_upd_req.encode_mbms_sess_upd_req mbms_sess_upd_req.decode_mbms_sess_upd_req
    mbms_sess_upd_req.encode_mbms_sess_upd_req_order mbms_sess_upd_req.decode_mbms_sess_upd_req_table _ _ (fun _ _ => eq_refl) (fun _ _ _ _ => eq_refl) ltac:(member_numbers);
  MessageCodec "fwd_acc_ctxt_ack" _ fwd_acc_ctxt_ack.encode_fwd_acc_ctxt_ack fwd_acc_ctxt_ack.decode_fwd_acc_ctxt_ack
    fwd_acc_ctxt_ack.encode_fwd_acc_ctxt_ack_order fwd_acc_ctxt_ack.decode_fwd_acc_ctxt_ack_table _ _ (fun _ _ => eq_refl) (fun _ _ _ _ => eq_refl) ltac:(member_numbers);
  MessageCodec "bearer_rsrc_fail_indctn" _ bearer_rsrc_fail_indctn.encode_bearer_rsrc_fail_indctn bearer_rsrc_fail_indctn.decode_bearer_rsrc_fail_indctn
    bearer_rsrc_fail_indctn.encode_bearer_rsrc_fail_indctn_order bearer_rsrc_fail_indctn.decode_bearer_rsrc_fail_indctn_table _ _ (fun _ _ => eq_refl) (fun _ _ _ _ => eq_refl) ltac:(member_numbers);
  MessageCodec "pgw_dnlnk_trigrng_ack" _ pgw_dnlnk_trigrng_ack.encode_pgw_dnlnk_trigrng_ack pgw_dnlnk_trigrng_ack.decode_pgw_dnlnk_trigrng_ack
    pgw_dnlnk_trigrng_ack.encode_pgw_dnlnk_trigrng_ack_order pgw_dnlnk_trigrng_ack.decode_pgw_dnlnk_trigrng_ack_table _ _ (fun _ _ => eq_refl) (fun _ _ _ _ => eq_refl) ltac:(member_numbers);
  MessageCodec "echo_response" _ echo_response.encode_echo_response echo_response.decode_echo_response
    echo_response.encode_echo_response_order echo_response.decode_echo_response_table _ _ (fun _ _ => eq_refl) (fun _ _ _ _ => eq_refl) ltac:(member_numbers);
  MessageCodec "mbms_sess_upd_rsp" _ mbms_sess_upd_rsp.encode_mbms_sess_upd_rsp mbms_sess_upd_rsp.decode_mbms_sess_upd_rsp
    mbms_sess_upd_rsp.encode_mbms_sess_upd_rsp_order mbms_sess_upd_rsp.decode_mbms_sess_upd_rsp_table _ _ (fun _ _ => eq_refl) (fun _ _ _ _ => eq_refl) ltac:(member_numbers);
  MessageCodec "mod_bearer_fail_indctn" _ mod_bearer_fail_indctn.encode_mod_bearer_fail_indctn mod_bearer_fail_indctn.decode_mod_bearer_fail_indctn
    mod_bearer_fail_indctn.encode_mod_bearer_fail_indctn_order mod_bearer_fail_indctn.decode_mod_bearer_fail_indctn_table _ _ (fun _ _ => eq_refl) (fun _ _ _ _ => eq_refl) ltac:(member_numbers);
  MessageCodec "pgw_rstrt_notif_ack" _ pgw_rstrt_notif_ack.encode_pgw_rstrt_notif_ack pgw_rstrt_notif_ack.decode_pgw_rstrt_notif_ack
    pgw_rstrt_notif_ack.encode_pgw_rstrt_notif_ack_order pgw_rstrt_notif_ack.decode_pgw_rstrt_notif_ack_table _ _ (fun _ _ => eq_refl) (fun _ _ _ _ => eq_refl) ltac:(member_numbers);
  MessageCodec "pgw_dnlnk_trigrng_notif" _ pgw_dnlnk_trigrng_notif.encode_pgw_dnlnk_trigrng_notif pgw_dnlnk_trigrng_notif.decode_pgw_dnlnk_trigrng_notif
    pgw_dnlnk_trigrng_notif.encode_pgw_dnlnk_trigrng_notif_order pgw_dnlnk_trigrng_notif.decode_pgw_dnlnk_trigrng_notif_table _ _ (fun _ _ => eq_refl) (fun _ _ _ _ => eq_refl) ltac:(member_numbers);
  MessageCodec "pgw_rstrt_notif" _ pgw_rstrt_notif.encode_pgw_rstrt_notif pgw_rstrt_notif.decode_pgw_rstrt_notif
    pgw_rstrt_notif.encode_pgw_rstrt_notif_order pgw_rstrt_notif.decode_pgw_rstrt_notif_table _ _ (fun _ _ => eq_refl) (fun _ _ _ _ => eq_refl) ltac:(member_numbers);
  MessageCodec "reloc_cncl_req" _ reloc_cncl_req.encode_reloc_cncl_req reloc_cncl_req.decode_reloc_cncl_req
    reloc_cncl_req.encode_reloc_cncl_req_order reloc_cncl_req.decode_reloc_cncl_req_table _ _ (fun _ _ => eq_refl) (fun _ _ _ _ => eq_refl) ltac:(member_numbers);
  MessageCodec "upd_bearer_rsp" _ upd_bearer_rsp.encode_upd_bearer_rsp upd_bearer_rsp.decode_upd_bearer_rsp
    upd_bearer_rsp.encode_upd_bearer_rsp_order upd_bearer_rsp.decode_upd_bearer_rsp_table _ _ (fun _ _ => eq_refl) (fun _ _ _ _ => eq_refl) ltac:(member_numbers);
  MessageCodec "mbms_sess_stop_req" _ mbms_sess_stop_req.encode_mbms_sess_stop_req mbms_sess_stop_req.decode_mbms_sess_stop_req
    mbms_sess_stop_req.encode_mbms_sess_stop_req_order mbms_sess_stop_req.decode_mbms_sess_stop_req_table _ _ (fun _ _ => eq_refl) (fun _ _ _ _ => eq_refl) ltac:(member_numbers);
  MessageCodec "del_pdn_conn_set_req" _ del_pdn_conn_set_req.encode_del_pdn_conn_set_req del_pdn_conn_set_req.decode_del_pdn_conn_set_req
    del_pdn_conn_set_req.encode_del_pdn_conn_set_req_order del_pdn_conn_set_req.decode_del_pdn_conn_set_req_table _ _ (fun _ _ => eq_refl) (fun _ _ _ _ => eq_refl) ltac:(member_numbers);
  MessageCodec "del_pdn_conn_set_rsp" _ del_pdn_conn_set_rsp.encode_del_pdn_conn_set_rsp del_pdn_conn_set_rsp.decode_del_pdn_conn_set_rsp
    del_pdn_conn_set_rsp.encode_del_pdn_conn_set_rsp_order del_pdn_conn_set_rsp.decode_del_pdn_conn_set_rsp_table _ _ (fun _ _ => eq_refl) (fun _ _ _ _ => eq_refl) ltac:(member_numbers);
  MessageCodec "fwd_acc_ctxt_notif" _ fwd_acc_ctxt_notif.encode_fwd_acc_ctxt_notif fwd_acc_ctxt_notif.decode_fwd_acc_ctxt_notif
    fwd_acc_ctxt_notif.encode_fwd_acc_ctxt_notif_order fwd_acc_ctxt_notif.decode_fwd_acc_ctxt_notif_table _ _ (fun _ _ => eq_refl) (fun _ _ _ _ => eq_refl) ltac:(member_numbers);
  MessageCodec "ctxt_ack" _ ctxt_ack.encode_ctxt_ack ctxt_ack.decode_ctxt_ack
    ctxt_ack.encode_ctxt_ack_order ctxt_ack.decode_ctxt_ack_table _ _ (fun _ _ => eq_refl) (fun _ _ _ _ => eq_refl) ltac:(member_numbers);
  MessageCodec "alert_mme_ack" _ alert_mme_ack.encode_alert_mme_ack alert_mme_ack.decode_alert_mme_ack
    alert_mme_ack.encode_alert_mme_ack_order alert_mme_ack.decode_alert_mme_ack_table _ _ (fun _ _ => eq_refl) (fun _ _ _ _ => eq_refl) ltac:(member_numbers);
  MessageCodec "dnlnk_data_notif_fail_indctn" _ dnlnk_data_notif_fail_indctn.encode_dnlnk_data_notif_fail_indctn dnlnk_data_notif_fail_indctn.decode_dnlnk_data_notif_fail_indctn
    dnlnk_data_notif_fail_indctn.encode_dnlnk_data_notif_fail_indctn_order dnlnk_data_notif_fail_indctn.decode_dnlnk_data_notif_fail_indctn_table _ _ (fun _ _ => eq_refl) (fun _ _ _ _ => eq_refl) ltac:(member_numbers);
  MessageCodec "ue_actvty_ack" _ ue_actvty_ack.encode_ue_actvty_ack ue_actvty_ack.decode_ue_actvty_ack
    ue_actvty_ack.encode_ue_actvty_ack_order ue_actvty_ack.decode_ue_actvty_ack_table _ _ (fun _ _ => eq_refl) (fun _ _ _ _ => eq_refl) ltac:(member_numbers);
  MessageCodec "trc_sess_deact" _ trc_sess_deact.encode_trc_sess_deact trc_sess_deact.decode_trc_sess_deact
    trc_sess_deact.encode_trc_sess_deact_order trc_sess_deact.decode_trc_sess_deact_table _ _ (fun _ _ => eq_refl) (fun _ _ _ _ => eq_refl) ltac:(member_numbers);
  MessageCodec "dnlnk_data_notif" _ dnlnk_data_notif.encode_dnlnk_data_notif dnlnk_data_notif.decode_dnlnk_data_notif
    dnlnk_data_notif.encode_dnlnk_data_notif_order dnlnk_data_notif.decode_dnlnk_data_notif_table _ _ (fun _ _ => eq_refl) (fun _ _ _ _ => eq_refl) ltac:(member_numbers);
  MessageCodec "create_indir_data_fwdng_tunn_req" _ create_indir_data_fwdng_tunn_req.encode_create_indir_data_fwdng_tunn_req create_indir_data_fwdng_tunn_req.decode_create_indir_data_fwdng_tunn_req
    create_indir_data_fwdng_tunn_req.encode_create_indir_data_fwdng_tunn_req_order create_indir_data_fwdng_tunn_req.decode_create_indir_data_fwdng_tunn_req_table _ _ (fun _ _ => eq_refl) (fun _ _ _ _ => eq_refl) ltac:(member_numbers);
  MessageCodec "mbms_sess_start_req" _ mbms_sess_start_req.encode_mbms_sess_start_req mbms_sess_start_req.decode_mbms_sess_start_req
    mbms_sess_start_req.encode_mbms_sess_start_req_order mbms_sess_start_req.decode_mbms_sess_start_req_table _ _ (fun _ _ => eq_refl) (fun _ _ _ _ => eq_refl) ltac:(member_numbers);
  MessageCodec "del_bearer_req" _ del_bearer_req.encode_del_bearer_req del_bearer_req.decode_del_bearer_req
    del_bearer_req.encode_del_bearer_req_order del_bearer_req.decode_del_bearer_req_table _ _ (fun _ _ => eq_refl) (fun _ _ _ _ => eq_refl) ltac:(member_numbers);
  MessageCodec "del_sess_req" _ del_sess_req.encode_del_sess_req del_sess_req.decode_del_sess_req
    del_sess_req.encode_del_sess_req_order del_sess_req.decode_del_sess_req_table _ _ (fun _ _ => eq_refl) (fun _ _ _ _ => eq_refl) ltac:(member_numbers);
  MessageCodec "upd_pdn_conn_set_rsp" _ upd_pdn_conn_set_rsp.encode_upd_pdn_conn_set_rsp upd_pdn_conn_set_rsp.decode_upd_pdn_conn_set_rsp
    upd_pdn_conn_set_rsp.encode_upd_pdn_conn_set_rsp_order upd_pdn_conn_set_rsp.decode_upd_pdn_conn_set_rsp_table _ _ (fun _ _ => eq_refl) (fun _ _ _ _ => eq_refl) ltac:(member_numbers);
  MessageCodec "stop_paging_indctn" _ stop_paging_indctn.encode_stop_paging_indctn stop_paging_indctn.decode_stop_paging_indctn
    stop_paging_indctn.encode_stop_paging_indctn_order stop_paging_indctn.decode_stop_paging_indctn_table _ _ (fun _ _ => eq_refl) (fun _ _ _ _ => eq_refl) ltac:(member_numbers);
  MessageCodec "create_bearer_rsp" _ create_bearer_rsp.encode_create_bearer_rsp create_bearer_rsp.decode_create_bearer_rsp
    create_bearer_rsp.encode_create_bearer_rsp_order create_bearer_rsp.decode_create_bearer_rsp_table _ _ (fun _ _ => eq_refl) (fun _ _ _ _ => eq_refl) ltac:(member_numbers);
  MessageCodec "rmt_ue_rpt_ack" _ rmt_ue_rpt_ack.encode_rmt_ue_rpt_ack rmt_ue_rpt_ack.decode_rmt_ue_rpt_ack
    rmt_ue_rpt_ack.encode_rmt_ue_rpt_ack_order rmt_ue_rpt_ack.decode_rmt_ue_rpt_ack_table _ _ (fun _ _ => eq_refl) (fun _ _ _ _ => eq_refl) ltac:(member_numbers);
  MessageCodec "upd_pdn_conn_set_req" _ upd_pdn_conn_set_req.encode_upd_pdn_conn_set_req upd_pdn_conn_set_req.decode_upd_pdn_conn_set_req
    upd_pdn_conn_set_req.encode_upd_pdn_conn_set_req_order upd_pdn_conn_set_req.decode_upd_pdn_conn_set_req_table _ _ (fun _ _ => eq_refl) (fun _ _ _ _ => eq_refl) ltac:(member_numbers);
  MessageCodec "change_noti_req" _ change_noti_req.encode_change_noti_req change_noti_req.decode_change_noti_req
    change_noti_req.encode_change_noti_req_order change_noti_req.decode_change_noti_req_table _ _ (fun _ _ => eq_refl) (fun _ _ _ _ => eq_refl) ltac:(member_numbers);
  MessageCodec "change_noti_rsp" _ change_noti_rsp.encode_change_noti_rsp change_noti_rsp.decode_change_noti_rsp
    change_noti_rsp.encode_change_noti_rsp_order change_noti_rsp.decode_change_noti_rsp_table _ _ (fun _ _ => eq_refl) (fun _ _ _ _ => eq_refl) ltac:(member_numbers);
  MessageCodec "create_indir_data_fwdng_tunn_rsp" _ create_indir_data_fwdng_tunn_rsp.encode_create_indir_data_fwdng_tunn_rsp create_indir_data_fwdng_tunn_rsp.decode_create_indir_data_fwdng_tunn_rsp
    create_indir_data_fwdng_tunn_rsp.encode_create_indir_data_fwdng_tunn_rsp_order create_indir_data_fwdng_tunn_rsp.decode_create_indir_data_fwdng_tunn_rsp_table _ _ (fun _ _ => eq_refl) (fun _ _ _ _ => eq_refl) ltac:(member_numbers);
  MessageCodec "del_bearer_cmd" _ del_bearer_cmd.encode_del_bearer_cmd del_bearer_cmd.decode_del_bearer_cmd
    del_bearer_cmd.encode_del_bearer_cmd_order del_bearer_cmd.decode_del_bearer_cmd_table _ _ (fun _ _ => eq_refl) (fun _ _ _ _ => eq_refl) ltac:(member_numbers);
  MessageCodec "mod_bearer_cmd" _ mod_bearer_cmd.encode_mod_bearer_cmd mod_bearer_cmd.decode_mod_bearer_cmd
    mod_bearer_cmd.encode_mod_bearer_cmd_order mod_bearer_cmd.decode_mod_bearer_cmd_table _ _ (fun _ _ => eq_refl) (fun _ _ _ _ => eq_refl) ltac:(member_numbers);
  MessageCodec "mod_bearer_req" _ mod_bearer_req.encode_mod_bearer_req mod_bearer_req.decode_mod_bearer_req
    mod_bearer_req.encode_mod_bearer_req_order mod_bearer_req.decode_mod_bearer_req_table _ _ (fun _ _ => eq_refl) (fun _ _ _ _ => eq_refl) ltac:(member_numbers);
  MessageCodec "del_bearer_fail_indctn" _ del_bearer_fail_indctn.encode_del_bearer_fail_indctn del_bearer_fail_indctn.decode_del_bearer_fail_indctn
    del_bearer_fail_indctn.encode_del_bearer_fail_indctn_order del_bearer_fail_indctn.decode_del_bearer_fail_indctn_table _ _ (fun _ _ => eq_refl) (fun _ _ _ _ => eq_refl) ltac:(member_numbers);
  MessageCodec "mod_bearer_rsp" _ mod_bearer_rsp.encode_mod_bearer_rsp mod_bearer_rsp.decode_mod_bearer_rsp
    mod_bearer_rsp.encode_mod_bearer_rsp_order mod_bearer_rsp.decode_mod_bearer_rsp_table _ _ (fun _ _ => eq_refl) (fun _ _ _ _ => eq_refl) ltac:(member_numbers);
  MessageCodec "create_sess_rsp" _ create_sess_rsp.encode_create_sess_rsp create_sess_rsp.decode_create_sess_rsp
    create_sess_rsp.encode_create_sess_rsp_order create_sess_rsp.decode_create_sess_rsp_table _ _ (fun _ _ => eq_refl) (fun _ _ _ _ => eq_refl) ltac:(member_numbers);
  MessageCodec "create_bearer_req" _ create_bearer_req.encode_create_bearer_req create_bearer_req.decode_create_bearer_req
    create_bearer_req.encode_create_bearer_req_order create_bearer_req.decode_create_bearer_req_table _ _ (fun _ _ => eq_refl) (fun _ _ _ _ => eq_refl) ltac:(member_numbers);
  MessageCodec "mod_acc_bearers_rsp" _ mod_acc_bearers_rsp.encode_mod_acc_bearers_rsp mod_acc_bearers_rsp.decode_mod_acc_bearers_rsp
    mod_acc_bearers_rsp.encode_mod_acc_bearers_rsp_order mod_acc_bearers_rsp.decode_mod_acc_bearers_rsp_table _ _ (fun _ _ => eq_refl) (fun _ _ _ _ => eq_refl) ltac:(member_numbers);
  MessageCodec "create_sess_req" _ create_sess_req.encode_create_sess_req create_sess_req.decode_create_sess_req
    create_sess_req.encode_create_sess_req_order create_sess_req.decode_create_sess_req_table _ _ (fun _ _ => eq_refl) (fun _ _ _ _ => eq_refl) ltac:(member_numbers);
  MessageCodec "upd_bearer_req" _ upd_bearer_req.encode_upd_bearer_req upd_bearer_req.decode_upd_bearer_req
    upd_bearer_req.encode_upd_bearer_req_order upd_bearer_req.decode_upd_bearer_req_table _ _ (fun _ _ => eq_refl) (fun _ _ _ _ => eq_refl) ltac:(member_numbers);
  MessageCodec "del_bearer_rsp" _ del_bearer_rsp.encode_del_bearer_rsp del_bearer_rsp.decode_del_bearer_rsp
    del_bearer_rsp.encode_del_bearer_rsp_order del_bearer_rsp.decode_del_bearer_rsp_table _ _ (fun _ _ => eq_refl) (fun _ _ _ _ => eq_refl) ltac:(member_numbers);
  MessageCodec "mod_acc_bearers_req" _ mod_acc_bearers_req.encode_mod_acc_bearers_req mod_acc_bearers_req.decode_mod_acc_bearers_req
    mod_acc_bearers_req.encode_mod_acc_bearers_req_order mod_acc_bearers_req.decode_mod_acc_bearers_req_table _ _ (fun _ _ => eq_refl) (fun _ _ _ _ => eq_refl) ltac:(member_numbers)
].

(** * Which members survive the dispatch *)

Definition target {S} (a : action S) : option (member S) :=
  match a with
  | Into f => Some f
  | Next _ f _ => Some (f 0%nat)
  | Empty => None
  end.

Definition targets {S} (f : member S) (a : option (action S)) : bool :=
  match a with
  | Some a => match target a with
              | Some g => if member_eq_dec S f g then true else false
              | None => false
              end
  | None => false
  end.

(** Some type and instance lead to the member: the branch that names it is not
    hidden by an earlier one. *)
Definition decodable {S} (table : list (branch S)) (f : member S) : bool :=
  existsb (fun b : branch S =>
    let '(t, i, _) := b in
    targets f (dispatch table t (match i with Some i => i | None => 0 end))) table.

(** The positions, in the encoder's order, of the members no element is ever
    decoded into. *)
Definition lost (c : message_codec) : list nat :=
  map fst (filter (fun '(_, v) => negb (decodable (mc_table c) (visited v)))
                  (combine (seq 0 (List.length (mc_order c))) (mc_order c))).

(** The positions of the decoder's branches whose member the encoder never
    visits. *)
Definition unsent (c : message_codec) : list nat :=
  map fst (filter (fun '(_, b) =>
      match target (snd b) with
      | Some f => negb (existsb (fun v => targets f (Some (Into (visited v)))) (mc_order c))
      | None => false
      end) (combine (seq 0 (List.length (mc_table c))) (mc_table c))).

(** * Properties of the messages *)

(** The instances of the members, where they are not the place of the member
    among those of its kind in the order of the encoder (3GPP TS 29.274): the
    WLAN location timestamp is the second of its kind although the first is not
    in these messages; the addresses and ports of the UE come before those of
    the HeNB but are the second ones; the FQ-CSIDs of a create session response
    are written in the other order. *)
Definition other_instances (name : string) : list (nat * Z) :=
  match name with
  | "upd_bearer_rsp" => [(18%nat, 1)]
  | "create_bearer_rsp" => [(17%nat, 1)]
  | "mod_bearer_req" => [(15%nat, 1); (16%nat, 1); (19%nat, 0); (20%nat, 0)]
  | "create_sess_rsp" => [(16%nat, 1); (17%nat, 0)]
  | _ => []
  end%string.

(** The positions of the four members that are lost: see
    [members_lost_in_decoding]. *)
Definition not_recovered (name : string) : list nat :=
  match name with
  | "del_sess_rsp" => [3%nat]
  | "upd_bearer_rsp" => [19%nat]
  | "create_bearer_rsp" => [18%nat]
  | "del_bearer_rsp" => [20%nat]
  | _ => []
  end%string.

Definition mc_numbering (c : message_codec) : list (@numbered (mc_sig c)) :=
  numbering (mc_number c) (other_instances (mc_name c)) (not_recovered (mc_name c)) (mc_order c).

(** The branches of every decoder lead the members back. *)
Lemma all_find_way : forallb (fun c => finds_way (mc_table c) (mc_numbering c)) all_messages = true.
Proof. vm_compute. reflexivity. Qed.

Lemma all_numbered :
  Forall (fun c => map n_visit (mc_numbering c) = mc_order c) all_messages.
Proof. repeat constructor. Qed.

(** What it means that a decoder inverts its encoder.  The old structure has its
    counters at zero where the decoder does not reset them. *)
Definition message_inverts (c : message_codec) : Prop :=
  forall (value old : message (mc_sig c)) buf m fuel,
    encodable (mc_order c) value -> Forall (well_labelled (ie value) (count_of value)) (mc_numbering c) ->
    wf_bytes m -> zeroed m (8 * buf) (8 * size_of (mc_order c) value) ->
    (forall f, ie_shape (ie old f)) -> (forall k, In k (mc_resets c) \/ count_of old k = 0) ->
    (mc_guarded c = true -> sent (mc_order c) value <> []) ->
    (List.length (sent (mc_order c) value) <= fuel)%nat ->
    exists m' v',
      mc_encode c value buf m = Some (size_of (mc_order c) value, m')
      /\ mc_decode c fuel m' buf old = Done (size_of (mc_order c) value, v')
      /\ header v' = merge_header (header old)
                       (with_len (header value) (size_of (mc_order c) value - 4))
      /\ (forall f, ie v' f = if in_dec (member_eq_dec _) f (sent (mc_order c) value)
                              then ie_merge (ie old f) (ie value f) else ie old f)
      /\ (forall x k, In x (mc_numbering c) -> n_kept x = true -> counter_of (mc_table c) x = Some k ->
           count_of v' k = Z.of_nat (List.length (sent_by (ie value) (count_of value) x)))
      /\ forall k, ~ In k (counters_of (mc_table c) (mc_numbering c)) -> count_of v' k = 0.

Lemma reset_counts {S} (resets : list (counter S)) (n : counter S -> Z) :
  (forall k, In k resets \/ n k = 0) -> forall k, fold_left (fun n k => set_count n k 0) resets n k = 0.
Proof.
  revert n. induction resets as [|r resets IH]; intros n H k; cbn [fold_left].
  - destruct (H k) as [[]|E]. exact E.
  - apply IH. intros j. unfold set_count. destruct (counter_eq_dec S r j) as [->|Hn]; [auto|].
    destruct (H j) as [[->|Hj]|E]; auto. congruence.
Qed.


(** The address of the first element, and the length of the elements. *)
Definition elements_at (m : bytes) (buf : Z) (h : gtpv2c_header_t) : Z := buf + fst (decode_gtpv2c_header_t m buf h).
Definition elements_len (m : bytes) (buf : Z) (h : gtpv2c_header_t) : Z :=
  let h := snd (decode_gtpv2c_header_t m buf h) in
  u16 (gtpc_message_len h - (if negb (gtpc_teid_flag h =? 0) then 8 else 4)).

(** The decoder of [c] ends on the bytes at [buf], after at most 65536 elements,
    when no element it looks at announces a size that takes the sixteen bit
    counter past its end. *)
Definition message_terminates (c : message_codec) : Prop :=
  forall m buf old,
    wf_bytes m ->
    (forall o, reached m (elements_at m buf (header old)) (elements_len m buf (header old)) o ->
       o < elements_len m buf (header old) ->
       o + wire_len m (elements_at m buf (header old) + o) + IE_HEADER_SIZE < 65536) ->
    mc_decode c (Z.to_nat 65536) m buf old <> OutOfFuel.

Lemma all_tables_no_empty : forallb (fun c => no_empty (mc_table c)) all_messages = true.
Proof. vm_compute. reflexivity. Qed.


(** An element of a type no decoder knows. *)
Definition unknown_type : Z := 0.

Lemma unknown_to_all i :
  forallb (fun c => match dispatch (mc_table c) unknown_type i with None => true | _ => false end)
    all_messages = true.
Proof. vm_compute. reflexivity. Qed.

(** C13: one element of an unknown type whose length is 0xFFFC as the first
    element of a datagram makes each of the 66 decoders loop for ever: the
    counter has sixteen bits and 4 + 0xFFFC is 0 modulo 2^16. *)
Theorem every_message_decoder_hangs :
  Forall (fun c => forall fuel m buf old,
      let p := buf + fst (decode_gtpv2c_header_t m buf (header old)) in
      let h := snd (decode_gtpv2c_header_t m buf (header old)) in
      0 < u16 (gtpc_message_len h - (if negb (gtpc_teid_flag h =? 0) then 8 else 4)) ->
      m p = unknown_type -> wire_len m p = 0xFFFC ->
      mc_decode c fuel m buf old = OutOfFuel) all_messages.
Proof.
  apply Forall_forall. intros c Hc fuel m buf old. rewrite mc_decode_eq. unfold decode_message.
  destruct (decode_gtpv2c_header_t m buf (header old)) as [n h]. cbn [fst snd].
  set (buf_len := u16 _). intros Hb Ht Hl.
  assert (Hb2 : buf_len < 65536) by (apply Z.mod_pos_bound; lia).
  destruct (Z.eqb_spec buf_len 0); [lia|]. rewrite andb_false_r.
  rewrite (decode_loop_stuck _ _ _ _ _ _ _ (IE_HEADER_SIZE + 0xFFFC)); [reflexivity|lia|lia| |reflexivity].
  rewrite Z.add_0_r. unfold decode_element. rewrite Ht, Hl.
  pose proof (proj1 (forallb_forall _ _) (unknown_to_all (m (buf + n + 3))) c Hc) as Hd. cbv beta in Hd.
  destruct (dispatch _ _ _); [discriminate | reflexivity].
Qed.

(** of all the members the 66 encoders can send, the decoders can recover
    every one but four: the indication flags of a delete session response (no
    branch) and [ue_local_ip_addr] of the update, create and delete bearer
    responses (its branch tests the same type and instance as an earlier one). *)
Theorem members_lost_in_decoding :
  filter (fun x => negb (Nat.eqb (List.length (snd x)) 0))
    (map (fun c => (mc_name c, lost c)) all_messages)
  = [("del_sess_rsp"%string, [3%nat]); ("upd_bearer_rsp"%string, [19%nat]);
     ("create_bearer_rsp"%string, [18%nat]); ("del_bearer_rsp"%string, [20%nat])].
Proof. vm_compute. reflexivity. Qed.

(** of the arrays, nine have a counter that their decoder uses from where it
    stands, without resetting it as the others do. *)
Theorem counters_not_reset :
  filter (fun x => negb (Nat.eqb (List.length (snd x)) 0))
    (map (fun c => (mc_name c,
            filter (fun i => match nth_error (mc_table c) i with
                             | Some (_, _, Next k _ _) => negb (existsb (fun d => if counter_eq_dec (mc_sig c) k d then true else false) (mc_resets c))
                             | _ => false
                             end) (seq 0 (List.length (mc_table c))))) all_messages)
  = [("upd_bearer_rsp"%string, [1%nat]); ("create_indir_data_fwdng_tunn_req"%string, [4%nat]);
     ("del_bearer_req"%string, [1%nat]); ("create_bearer_rsp"%string, [1%nat]);
     ("create_indir_data_fwdng_tunn_rsp"%string, [2%nat]); ("del_bearer_fail_indctn"%string, [1%nat]);
     ("mod_bearer_rsp"%string, [5%nat]); ("create_bearer_req"%string, [3%nat]); ("upd_bearer_req"%string, [0%nat])].
Proof. vm_compute. reflexivity. Qed.

(** of all the members the 66 decoders accept, the encoders can send every
    one but two: [epdg_fqcsid] and [twan_fqcsid] of a delete PDN connection set
    request. *)
Theorem members_never_sent :
  filter (fun x => negb (Nat.eqb (List.length (snd x)) 0))
    (map (fun c => (mc_name c, unsent c)) all_messages)
  = [("del_pdn_conn_set_req"%string, [3%nat; 4%nat])].
Proof. vm_compute. reflexivity. Qed.

(** * A message on the wire *)

Definition echo (h : gtpv2c_header_t) (r : gtp_recovery_ie.gtp_recovery_ie_t)
    (f : gtp_node_features_ie.gtp_node_features_ie_t) : echo_request.echo_request_t :=
  Message (S := echo_request.echo_request_sig) h
    (fun m => match m with
              | echo_request.recovery => r
              | echo_request.sending_node_feat => f
              | echo_request.priv_ext =>
                  gtp_priv_ext_ie.Build_gtp_priv_ext_ie_t (mk_ie_header 0 0 0) 0 0
              end)
    (fun c : Empty_set => match c with end).

Definition blank : echo_request.echo_request_t :=
  echo (Build_gtpv2c_header_t 0 0 0 0 0 0 0 0 0)
    (gtp_recovery_ie.Build_gtp_recovery_ie_t (mk_ie_header 0 0 0) 0)
    (gtp_node_features_ie.Build_gtp_node_features_ie_t (mk_ie_header 0 0 0) 0).

(** An echo request with a recovery counter and no TEID: the 13 bytes, and
    what the decoder makes of them. *)
Example echo_request_on_the_wire :
  let v := echo (Build_gtpv2c_header_t 0 0 0 2 1 0 0x000102 0 0)
             (gtp_recovery_ie.Build_gtp_recovery_ie_t (mk_ie_header 3 1 0) 7)
             (gtp_node_features_ie.Build_gtp_node_features_ie_t (mk_ie_header 0 0 0) 0) in
  match echo_request.encode_echo_request v 0 (fun _ => 0) with
  | Some (n, m) =>
      n = 13
      /\ to_list m 0 13 = [0x40; 1; 0; 9; 0; 1; 2; 0; 3; 0; 1; 0; 7]
      /\ match echo_request.decode_echo_request 1 m 0 blank with
         | Done (n', v') =>
             n' = 13 /\ gtpc_message_len (header v') = 9
             /\ ie v' echo_request.recovery = ie v echo_request.recovery
         | _ => False
         end
  | None => False
  end.
Proof. vm_compute. repeat split. Qed.

(** * Witnesses *)

Definition sample : echo_request.echo_request_t :=
  echo (Build_gtpv2c_header_t 0 0 0 2 1 0 0x000102 0 0)
    (gtp_recovery_ie.Build_gtp_recovery_ie_t (mk_ie_header 3 1 0) 7)
    (gtp_node_features_ie.Build_gtp_node_features_ie_t (mk_ie_header 0 0 0) 0).

Lemma zeros_wf : wf_bytes (fun _ => 0).
Proof. intros i. lia. Qed.


Definition datagram : bytes := fun i => nth (Z.to_nat i) [0x40; 1; 0; 9; 0; 1; 2; 0; 3; 0; 1; 0; 7] 0.

