(* ===== verification/GtpZero.v ===== *)
(** The structures [memset] to zero before a message is filled in or decoded
    ([memset(&req, 0, sizeof(req))] in s2a_interface.cpp), for the messages the
    gateway uses. *)

From Stdlib Require Import ZArith List Lia.
From S2P Require Import Prelude EncDecBits WireFormat IeFormat GtpDefs GtpFields GtpIes1 GtpIes2 GtpIes3.
From S2P Require Import GtpIesVar GtpIesSub GtpImsi GtpMessage GtpGrouped GtpMembers GtpGroupedIes.
From S2P Require Import GtpMessages1 GtpMessages2.
Import ListNotations.
Open Scope Z_scope.

(** The value of all zero bytes. *)
Class Zero (T : Type) := zero : T.

#[export] Instance zero_gtpv2c_header : Zero gtpv2c_header_t := Build_gtpv2c_header_t 0 0 0 0 0 0 0 0 0.

#[export] Instance zero_gtp_imsi_ie : Zero gtp_imsi_ie.gtp_imsi_ie_t :=
  gtp_imsi_ie.Build_gtp_imsi_ie_t (mk_ie_header 0 0 0) 0.

#[export] Instance zero_gtp_msisdn_ie : Zero gtp_msisdn_ie.gtp_msisdn_ie_t :=
  gtp_msisdn_ie.Build_gtp_msisdn_ie_t (mk_ie_header 0 0 0) 0.

#[export] Instance zero_gtp_mbl_equip_idnty_ie : Zero gtp_mbl_equip_idnty_ie.gtp_mbl_equip_idnty_ie_t :=
  gtp_mbl_equip_idnty_ie.Build_gtp_mbl_equip_idnty_ie_t (mk_ie_header 0 0 0) 0.

#[export] Instance zero_cgi_field : Zero cgi_field.cgi_field_t :=
  cgi_field.Build_cgi_field_t 0 0 0 0 0 0 0 0.

#[export] Instance zero_sai_field : Zero sai_field.sai_field_t :=
  sai_field.Build_sai_field_t 0 0 0 0 0 0 0 0.

#[export] Instance zero_rai_field : Zero rai_field.rai_field_t :=
  rai_field.Build_rai_field_t 0 0 0 0 0 0 0 0.

#[export] Instance zero_tai_field : Zero tai_field.tai_field_t :=
  tai_field.Build_tai_field_t 0 0 0 0 0 0 0.

#[export] Instance zero_ecgi_field : Zero ecgi_field.ecgi_field_t :=
  ecgi_field.Build_ecgi_field_t 0 0 0 0 0 0 0 0.

#[export] Instance zero_lai_field : Zero lai_field.lai_field_t :=
  lai_field.Build_lai_field_t 0 0 0 0 0 0 0.

#[export] Instance zero_macro_enb_id_fld : Zero macro_enb_id_fld.macro_enb_id_fld_t :=
  macro_enb_id_fld.Build_macro_enb_id_fld_t 0 0 0 0 0 0 0 0 0.

#[export] Instance zero_extnded_macro_enb_id_fld : Zero extnded_macro_enb_id_fld.extnded_macro_enb_id_fld_t :=
  extnded_macro_enb_id_fld.Build_extnded_macro_enb_id_fld_t 0 0 0 0 0 0 0 0 0 0.

#[export] Instance zero_gtp_user_loc_info_ie : Zero gtp_user_loc_info_ie.gtp_user_loc_info_ie_t :=
  gtp_user_loc_info_ie.Build_gtp_user_loc_info_ie_t (mk_ie_header 0 0 0) 0 0 0 0 0 0 0 0 zero zero zero zero zero zero zero zero.

#[export] Instance zero_gtp_rat_type_ie : Zero gtp_rat_type_ie.gtp_rat_type_ie_t :=
  gtp_rat_type_ie.Build_gtp_rat_type_ie_t (mk_ie_header 0 0 0) 0.

#[export] Instance zero_gtp_indication_ie : Zero gtp_indication_ie.gtp_indication_ie_t :=
  gtp_indication_ie.Build_gtp_indication_ie_t (mk_ie_header 0 0 0) (repeat 0 (Z.to_nat 56)).

#[export] Instance zero_gtp_fully_qual_tunn_endpt_idnt_ie : Zero gtp_fully_qual_tunn_endpt_idnt_ie.gtp_fully_qual_tunn_endpt_idnt_ie_t :=
  gtp_fully_qual_tunn_endpt_idnt_ie.Build_gtp_fully_qual_tunn_endpt_idnt_ie_t (mk_ie_header 0 0 0) 0 0 0 0 0 (repeat 0 (Z.to_nat IPV6_ADDRESS_LEN)).

#[export] Instance zero_gtp_acc_pt_name_ie : Zero gtp_acc_pt_name_ie.gtp_acc_pt_name_ie_t :=
  gtp_acc_pt_name_ie.Build_gtp_acc_pt_name_ie_t (mk_ie_header 0 0 0) (repeat 0 (Z.to_nat APN_LEN)).

#[export] Instance zero_gtp_selection_mode_ie : Zero gtp_selection_mode_ie.gtp_selection_mode_ie_t :=
  gtp_selection_mode_ie.Build_gtp_selection_mode_ie_t (mk_ie_header 0 0 0) 0 0.

#[export] Instance zero_gtp_pdn_type_ie : Zero gtp_pdn_type_ie.gtp_pdn_type_ie_t :=
  gtp_pdn_type_ie.Build_gtp_pdn_type_ie_t (mk_ie_header 0 0 0) 0 0.

#[export] Instance zero_gtp_pdn_addr_alloc_ie : Zero gtp_pdn_addr_alloc_ie.gtp_pdn_addr_alloc_ie_t :=
  gtp_pdn_addr_alloc_ie.Build_gtp_pdn_addr_alloc_ie_t (mk_ie_header 0 0 0) 0 0 0 0 (repeat 0 (Z.to_nat IPV6_ADDRESS_LEN)).

#[export] Instance zero_gtp_apn_restriction_ie : Zero gtp_apn_restriction_ie.gtp_apn_restriction_ie_t :=
  gtp_apn_restriction_ie.Build_gtp_apn_restriction_ie_t (mk_ie_header 0 0 0) 0.

#[export] Instance zero_gtp_agg_max_bit_rate_ie : Zero gtp_agg_max_bit_rate_ie.gtp_agg_max_bit_rate_ie_t :=
  gtp_agg_max_bit_rate_ie.Build_gtp_agg_max_bit_rate_ie_t (mk_ie_header 0 0 0) 0 0.

#[export] Instance zero_gtp_eps_bearer_id_ie : Zero gtp_eps_bearer_id_ie.gtp_eps_bearer_id_ie_t :=
  gtp_eps_bearer_id_ie.Build_gtp_eps_bearer_id_ie_t (mk_ie_header 0 0 0) 0 0.

#[export] Instance zero_gtp_trstd_wlan_mode_indctn_ie : Zero gtp_trstd_wlan_mode_indctn_ie.gtp_trstd_wlan_mode_indctn_ie_t :=
  gtp_trstd_wlan_mode_indctn_ie.Build_gtp_trstd_wlan_mode_indctn_ie_t (mk_ie_header 0 0 0) 0 0 0.

#[export] Instance zero_prot_content : Zero prot_content_t :=
  Build_prot_content_t 0 0 (repeat 0 (Z.to_nat GTP_PCO_CONTENT_LEN)).

#[export] Instance zero_prot_cfg_opts : Zero prot_cfg_opts_t :=
  Build_prot_cfg_opts_t 0 0 0 0 0 0 (repeat zero (Z.to_nat 8)).

#[export] Instance zero_gtp_prot_cfg_opts_ie : Zero gtp_prot_cfg_opts_ie.gtp_prot_cfg_opts_ie_t :=
  gtp_prot_cfg_opts_ie.Build_gtp_prot_cfg_opts_ie_t (mk_ie_header 0 0 0) zero.

#[export] Instance zero_gtp_eps_bearer_lvl_traffic_flow_tmpl_ie : Zero gtp_eps_bearer_lvl_traffic_flow_tmpl_ie.gtp_eps_bearer_lvl_traffic_flow_tmpl_ie_t :=
  gtp_eps_bearer_lvl_traffic_flow_tmpl_ie.Build_gtp_eps_bearer_lvl_traffic_flow_tmpl_ie_t (mk_ie_header 0 0 0) (repeat 0 (Z.to_nat BUFF_SIZE)).

#[export] Instance zero_gtp_bearer_qlty_of_svc_ie : Zero gtp_bearer_qlty_of_svc_ie.gtp_bearer_qlty_of_svc_ie_t :=
  gtp_bearer_qlty_of_svc_ie.Build_gtp_bearer_qlty_of_svc_ie_t (mk_ie_header 0 0 0) 0 0 0 0 0 0 0 0 0 0.

#[export] Instance zero_gtp_create_sess_request_bearer_ctxt_to_be_created_ie : Zero gtp_create_sess_request_bearer_ctxt_to_be_created_ie.gtp_create_sess_request_bearer_ctxt_to_be_created_ie_t :=
  Grouped (S := gtp_create_sess_request_bearer_ctxt_to_be_created_ie.gtp_create_sess_request_bearer_ctxt_to_be_created_ie_sig) (mk_ie_header 0 0 0)
    (fun f => match f with
      | gtp_create_sess_request_bearer_ctxt_to_be_created_ie.eps_bearer_id => zero
      | gtp_create_sess_request_bearer_ctxt_to_be_created_ie.tft => zero
      | gtp_create_sess_request_bearer_ctxt_to_be_created_ie.s1u_enb_fteid => zero
      | gtp_create_sess_request_bearer_ctxt_to_be_created_ie.s4_u_sgsn_fteid => zero
      | gtp_create_sess_request_bearer_ctxt_to_be_created_ie.s5s8_u_sgw_fteid => zero
      | gtp_create_sess_request_bearer_ctxt_to_be_created_ie.s5s8_u_pgw_fteid => zero
      | gtp_create_sess_request_bearer_ctxt_to_be_created_ie.s12_rnc_fteid => zero
      | gtp_create_sess_request_bearer_ctxt_to_be_created_ie.s2b_u_epdg_fteid => zero
      | gtp_create_sess_request_bearer_ctxt_to_be_created_ie.s2a_u_twan_fteid => zero
      | gtp_create_sess_request_bearer_ctxt_to_be_created_ie.bearer_lvl_qos => zero
      | gtp_create_sess_request_bearer_ctxt_to_be_created_ie.s11_u_mme_fteid => zero
      end)
    (fun c : Empty_set => match c with end).

#[export] Instance zero_gtp_create_sess_request_bearer_ctxt_to_be_removed_ie : Zero gtp_create_sess_request_bearer_ctxt_to_be_removed_ie.gtp_create_sess_request_bearer_ctxt_to_be_removed_ie_t :=
  Grouped (S := gtp_create_sess_request_bearer_ctxt_to_be_removed_ie.gtp_create_sess_request_bearer_ctxt_to_be_removed_ie_sig) (mk_ie_header 0 0 0)
    (fun f => match f with
      | gtp_create_sess_request_bearer_ctxt_to_be_removed_ie.eps_bearer_id => zero
      | gtp_create_sess_request_bearer_ctxt_to_be_removed_ie.s4_u_sgsn_fteid => zero
      end)
    (fun c : Empty_set => match c with end).

#[export] Instance zero_gtp_trc_info_ie : Zero gtp_trc_info_ie.gtp_trc_info_ie_t :=
  gtp_trc_info_ie.Build_gtp_trc_info_ie_t (mk_ie_header 0 0 0) 0 0 0 0 0 0 0 (repeat 0 (Z.to_nat TRIGRNG_EVNTS_LEN)) 0 0 (repeat 0 (Z.to_nat LIST_OF_INTFCS_LEN)) 0.

#[export] Instance zero_gtp_recovery_ie : Zero gtp_recovery_ie.gtp_recovery_ie_t :=
  gtp_recovery_ie.Build_gtp_recovery_ie_t (mk_ie_header 0 0 0) 0.

#[export] Instance zero_gtp_fqcsid_ie : Zero gtp_fqcsid_ie.gtp_fqcsid_ie_t :=
  gtp_fqcsid_ie.Build_gtp_fqcsid_ie_t (mk_ie_header 0 0 0) 0 0 (repeat 0 (Z.to_nat IPV6_ADDRESS_LEN)) (repeat 0 (Z.to_nat PDN_CSID_LEN)).

#[export] Instance zero_gtp_ue_time_zone_ie : Zero gtp_ue_time_zone_ie.gtp_ue_time_zone_ie_t :=
  gtp_ue_time_zone_ie.Build_gtp_ue_time_zone_ie_t (mk_ie_header 0 0 0) 0 0 0.

#[export] Instance zero_gtp_user_csg_info_ie : Zero gtp_user_csg_info_ie.gtp_user_csg_info_ie_t :=
  gtp_user_csg_info_ie.Build_gtp_user_csg_info_ie_t (mk_ie_header 0 0 0) 0 0 0 0 0 0 0 0 0 0 0 0 0.

#[export] Instance zero_gtp_chrgng_char_ie : Zero gtp_chrgng_char_ie.gtp_chrgng_char_ie_t :=
  gtp_chrgng_char_ie.Build_gtp_chrgng_char_ie_t (mk_ie_header 0 0 0) 0.

#[export] Instance zero_gtp_local_distgsd_name_ie : Zero gtp_local_distgsd_name_ie.gtp_local_distgsd_name_ie_t :=
  gtp_local_distgsd_name_ie.Build_gtp_local_distgsd_name_ie_t (mk_ie_header 0 0 0) 0.

#[export] Instance zero_gtp_sgnllng_priority_indctn_ie : Zero gtp_sgnllng_priority_indctn_ie.gtp_sgnllng_priority_indctn_ie_t :=
  gtp_sgnllng_priority_indctn_ie.Build_gtp_sgnllng_priority_indctn_ie_t (mk_ie_header 0 0 0) 0 0.

#[export] Instance zero_gtp_ip_address_ie : Zero gtp_ip_address_ie.gtp_ip_address_ie_t :=
  gtp_ip_address_ie.Build_gtp_ip_address_ie_t (mk_ie_header 0 0 0) (repeat 0 (Z.to_nat IPV6_ADDRESS_LEN)).

#[export] Instance zero_gtp_port_number_ie : Zero gtp_port_number_ie.gtp_port_number_ie_t :=
  gtp_port_number_ie.Build_gtp_port_number_ie_t (mk_ie_header 0 0 0) 0.

#[export] Instance zero_gtp_addtl_prot_cfg_opts_ie : Zero gtp_addtl_prot_cfg_opts_ie.gtp_addtl_prot_cfg_opts_ie_t :=
  gtp_addtl_prot_cfg_opts_ie.Build_gtp_addtl_prot_cfg_opts_ie_t (mk_ie_header 0 0 0) zero.

#[export] Instance zero_gtp_twan_identifier_ie : Zero gtp_twan_identifier_ie.gtp_twan_identifier_ie_t :=
  gtp_twan_identifier_ie.Build_gtp_twan_identifier_ie_t (mk_ie_header 0 0 0) 0 0 0 0 0 0 0 0 0 0 0 0 0 0 0 0 0 0 0.

#[export] Instance zero_gtp_cn_oper_sel_entity_ie : Zero gtp_cn_oper_sel_entity_ie.gtp_cn_oper_sel_entity_ie_t :=
  gtp_cn_oper_sel_entity_ie.Build_gtp_cn_oper_sel_entity_ie_t (mk_ie_header 0 0 0) 0 0.

#[export] Instance zero_gtp_pres_rptng_area_info_ie : Zero gtp_pres_rptng_area_info_ie.gtp_pres_rptng_area_info_ie_t :=
  gtp_pres_rptng_area_info_ie.Build_gtp_pres_rptng_area_info_ie_t (mk_ie_header 0 0 0) 0 0 0 0 0 0.

#[export] Instance zero_gtp_ovrld_ctl_info_ie : Zero gtp_ovrld_ctl_info_ie.gtp_ovrld_ctl_info_ie_t :=
  gtp_ovrld_ctl_info_ie.Build_gtp_ovrld_ctl_info_ie_t (mk_ie_header 0 0 0) (repeat 0 (Z.to_nat OVERLOAD_CONTROL_INFORMATION_LEN)).

#[export] Instance zero_gtp_msec_time_stmp_ie : Zero gtp_msec_time_stmp_ie.gtp_msec_time_stmp_ie_t :=
  gtp_msec_time_stmp_ie.Build_gtp_msec_time_stmp_ie_t (mk_ie_header 0 0 0) 0.

#[export] Instance zero_gtp_integer_number_ie : Zero gtp_integer_number_ie.gtp_integer_number_ie_t :=
  gtp_integer_number_ie.Build_gtp_integer_number_ie_t (mk_ie_header 0 0 0) 0.

#[export] Instance zero_gtp_twan_idnt_ts_ie : Zero gtp_twan_idnt_ts_ie.gtp_twan_idnt_ts_ie_t :=
  gtp_twan_idnt_ts_ie.Build_gtp_twan_idnt_ts_ie_t (mk_ie_header 0 0 0) 0.

#[export] Instance zero_gtp_full_qual_cntnr_ie : Zero gtp_full_qual_cntnr_ie.gtp_full_qual_cntnr_ie_t :=
  gtp_full_qual_cntnr_ie.Build_gtp_full_qual_cntnr_ie_t (mk_ie_header 0 0 0) 0 0 0.

#[export] Instance zero_gtp_rmt_ue_ctxt_ie : Zero gtp_rmt_ue_ctxt_ie.gtp_rmt_ue_ctxt_ie_t :=
  gtp_rmt_ue_ctxt_ie.Build_gtp_rmt_ue_ctxt_ie_t (mk_ie_header 0 0 0) (repeat 0 (Z.to_nat REMOTE_UE_CONTEXT_LEN)).

#[export] Instance zero_gtp_node_identifier_ie : Zero gtp_node_identifier_ie.gtp_node_identifier_ie_t :=
  gtp_node_identifier_ie.Build_gtp_node_identifier_ie_t (mk_ie_header 0 0 0) 0 0 0 0.

#[export] Instance zero_gtp_extnded_prot_cfg_opts_ie : Zero gtp_extnded_prot_cfg_opts_ie.gtp_extnded_prot_cfg_opts_ie_t :=
  gtp_extnded_prot_cfg_opts_ie.Build_gtp_extnded_prot_cfg_opts_ie_t (mk_ie_header 0 0 0) zero.

#[export] Instance zero_gtp_srvng_plmn_rate_ctl_ie : Zero gtp_srvng_plmn_rate_ctl_ie.gtp_srvng_plmn_rate_ctl_ie_t :=
  gtp_srvng_plmn_rate_ctl_ie.Build_gtp_srvng_plmn_rate_ctl_ie_t (mk_ie_header 0 0 0) 0 0.

#[export] Instance zero_gtp_counter_ie : Zero gtp_counter_ie.gtp_counter_ie_t :=
  gtp_counter_ie.Build_gtp_counter_ie_t (mk_ie_header 0 0 0) 0 0.

#[export] Instance zero_gtp_mapped_ue_usage_type_ie : Zero gtp_mapped_ue_usage_type_ie.gtp_mapped_ue_usage_type_ie_t :=
  gtp_mapped_ue_usage_type_ie.Build_gtp_mapped_ue_usage_type_ie_t (mk_ie_header 0 0 0) 0.

#[export] Instance zero_gtp_fully_qual_domain_name_ie : Zero gtp_fully_qual_domain_name_ie.gtp_fully_qual_domain_name_ie_t :=
  gtp_fully_qual_domain_name_ie.Build_gtp_fully_qual_domain_name_ie_t (mk_ie_header 0 0 0) (repeat 0 (Z.to_nat FQDN_LEN)).

#[export] Instance zero_gtp_secdry_rat_usage_data_rpt_ie : Zero gtp_secdry_rat_usage_data_rpt_ie.gtp_secdry_rat_usage_data_rpt_ie_t :=
  gtp_secdry_rat_usage_data_rpt_ie.Build_gtp_secdry_rat_usage_data_rpt_ie_t (mk_ie_header 0 0 0) 0 0 0 0 0 0 0 0 0 0.

#[export] Instance zero_gtp_up_func_sel_indctn_flgs_ie : Zero gtp_up_func_sel_indctn_flgs_ie.gtp_up_func_sel_indctn_flgs_ie_t :=
  gtp_up_func_sel_indctn_flgs_ie.Build_gtp_up_func_sel_indctn_flgs_ie_t (mk_ie_header 0 0 0) 0 0.

#[export] Instance zero_gtp_priv_ext_ie : Zero gtp_priv_ext_ie.gtp_priv_ext_ie_t :=
  gtp_priv_ext_ie.Build_gtp_priv_ext_ie_t (mk_ie_header 0 0 0) 0 0.

#[export] Instance zero_gtp_serving_network_ie : Zero gtp_serving_network_ie.gtp_serving_network_ie_t :=
  gtp_serving_network_ie.Build_gtp_serving_network_ie_t (mk_ie_header 0 0 0) 0 0 0 0 0 0.

#[export] Instance zero_create_sess_req : Zero create_sess_req.create_sess_req_t :=
  Message (S := create_sess_req.create_sess_req_sig) zero
    (fun f => match f with
      | create_sess_req.imsi => zero
      | create_sess_req.msisdn => zero
      | create_sess_req.mei => zero
      | create_sess_req.uli => zero
      | create_sess_req.rat_type => zero
      | create_sess_req.indctn_flgs => zero
      | create_sess_req.sender_fteid_ctl_plane => zero
      | create_sess_req.pgw_s5s8_addr_ctl_plane_or_pmip => zero
      | create_sess_req.apn => zero
      | create_sess_req.selection_mode => zero
      | create_sess_req.pdn_type => zero
      | create_sess_req.paa => zero
      | create_sess_req.max_apn_rstrct => zero
      | create_sess_req.apn_ambr => zero
      | create_sess_req.linked_eps_bearer_id => zero
      | create_sess_req.trstd_wlan_mode_indctn => zero
      | create_sess_req.pco => zero
      | create_sess_req.bearer_contexts_to_be_created _ => zero
      | create_sess_req.bearer_contexts_to_be_removed => zero
      | create_sess_req.trc_info => zero
      | create_sess_req.recovery => zero
      | create_sess_req.mme_fqcsid => zero
      | create_sess_req.sgw_fqcsid => zero
      | create_sess_req.epdg_fqcsid => zero
      | create_sess_req.twan_fqcsid => zero
      | create_sess_req.ue_time_zone => zero
      | create_sess_req.uci => zero
      | create_sess_req.chrgng_char => zero
      | create_sess_req.mmes4_sgsn_ldn => zero
      | create_sess_req.sgw_ldn => zero
      | create_sess_req.epdg_ldn => zero
      | create_sess_req.twan_ldn => zero
      | create_sess_req.sgnllng_priority_indctn => zero
      | create_sess_req.ue_local_ip_addr => zero
      | create_sess_req.ue_udp_port => zero
      | create_sess_req.apco => zero
      | create_sess_req.henb_local_ip_addr => zero
      | create_sess_req.henb_udp_port => zero
      | create_sess_req.mmes4_sgsn_idnt => zero
      | create_sess_req.twan_identifier => zero
      | create_sess_req.epdg_ip_address => zero
      | create_sess_req.cn_oper_sel_entity => zero
      | create_sess_req.pres_rptng_area_info => zero
      | create_sess_req.mmes4_sgsns_ovrld_ctl_info => zero
      | create_sess_req.sgws_ovrld_ctl_info => zero
      | create_sess_req.twanepdgs_ovrld_ctl_info => zero
      | create_sess_req.origination_time_stmp => zero
      | create_sess_req.max_wait_time => zero
      | create_sess_req.wlan_loc_info => zero
      | create_sess_req.wlan_loc_ts => zero
      | create_sess_req.nbifom_cntnr => zero
      | create_sess_req.rmt_ue_ctxt_connected => zero
      | create_sess_req.threegpp_aaa_server_idnt => zero
      | create_sess_req.epco => zero
      | create_sess_req.srvng_plmn_rate_ctl => zero
      | create_sess_req.mo_exception_data_cntr => zero
      | create_sess_req.ue_tcp_port => zero
      | create_sess_req.mapped_ue_usage_type => zero
      | create_sess_req.user_loc_info_sgw => zero
      | create_sess_req.sgw_u_node_name => zero
      | create_sess_req.secdry_rat_usage_data_rpt => zero
      | create_sess_req.up_func_sel_indctn_flgs => zero
      | create_sess_req.priv_ext => zero
      | create_sess_req.serving_network => zero
      end)
    (fun _ => 0).

#[export] Instance zero_gtp_cause_ie : Zero gtp_cause_ie.gtp_cause_ie_t :=
  gtp_cause_ie.Build_gtp_cause_ie_t (mk_ie_header 0 0 0) 0 0 0 0 0 0 0 0.

#[export] Instance zero_gtp_chg_rptng_act_ie : Zero gtp_chg_rptng_act_ie.gtp_chg_rptng_act_ie_t :=
  gtp_chg_rptng_act_ie.Build_gtp_chg_rptng_act_ie_t (mk_ie_header 0 0 0) 0.

#[export] Instance zero_gtp_csg_info_rptng_act_ie : Zero gtp_csg_info_rptng_act_ie.gtp_csg_info_rptng_act_ie_t :=
  gtp_csg_info_rptng_act_ie.Build_gtp_csg_info_rptng_act_ie_t (mk_ie_header 0 0 0) 0 0 0 0.

#[export] Instance zero_gtp_henb_info_rptng_ie : Zero gtp_henb_info_rptng_ie.gtp_henb_info_rptng_ie_t :=
  gtp_henb_info_rptng_ie.Build_gtp_henb_info_rptng_ie_t (mk_ie_header 0 0 0) 0 0.

#[export] Instance zero_gtp_charging_id_ie : Zero gtp_charging_id_ie.gtp_charging_id_ie_t :=
  gtp_charging_id_ie.Build_gtp_charging_id_ie_t (mk_ie_header 0 0 0) 0.

#[export] Instance zero_gtp_bearer_flags_ie : Zero gtp_bearer_flags_ie.gtp_bearer_flags_ie_t :=
  gtp_bearer_flags_ie.Build_gtp_bearer_flags_ie_t (mk_ie_header 0 0 0) 0 0 0 0 0.

#[export] Instance zero_gtp_create_sess_response_bearer_ctxt_created_ie : Zero gtp_create_sess_response_bearer_ctxt_created_ie.gtp_create_sess_response_bearer_ctxt_created_ie_t :=
  Grouped (S := gtp_create_sess_response_bearer_ctxt_created_ie.gtp_create_sess_response_bearer_ctxt_created_ie_sig) (mk_ie_header 0 0 0)
    (fun f => match f with
      | gtp_create_sess_response_bearer_ctxt_created_ie.eps_bearer_id => zero
      | gtp_create_sess_response_bearer_ctxt_created_ie.cause => zero
      | gtp_create_sess_response_bearer_ctxt_created_ie.s1u_sgw_fteid => zero
      | gtp_create_sess_response_bearer_ctxt_created_ie.s4_u_sgw_fteid => zero
      | gtp_create_sess_response_bearer_ctxt_created_ie.s5s8_u_pgw_fteid => zero
      | gtp_create_sess_response_bearer_ctxt_created_ie.s12_sgw_fteid => zero
      | gtp_create_sess_response_bearer_ctxt_created_ie.s2b_u_pgw_fteid => zero
      | gtp_create_sess_response_bearer_ctxt_created_ie.s2a_u_pgw_fteid => zero
      | gtp_create_sess_response_bearer_ctxt_created_ie.bearer_lvl_qos => zero
      | gtp_create_sess_response_bearer_ctxt_created_ie.charging_id => zero
      | gtp_create_sess_response_bearer_ctxt_created_ie.bearer_flags => zero
      | gtp_create_sess_response_bearer_ctxt_created_ie.s11_u_sgw_fteid => zero
      end)
    (fun c : Empty_set => match c with end).

#[export] Instance zero_gtp_create_sess_response_bearer_ctxt_marked_removal_ie : Zero gtp_create_sess_response_bearer_ctxt_marked_removal_ie.gtp_create_sess_response_bearer_ctxt_marked_removal_ie_t :=
  Grouped (S := gtp_create_sess_response_bearer_ctxt_marked_removal_ie.gtp_create_sess_response_bearer_ctxt_marked_removal_ie_sig) (mk_ie_header 0 0 0)
    (fun f => match f with
      | gtp_create_sess_response_bearer_ctxt_marked_removal_ie.eps_bearer_id => zero
      | gtp_create_sess_response_bearer_ctxt_marked_removal_ie.cause => zero
      end)
    (fun c : Empty_set => match c with end).

#[export] Instance zero_gtp_epc_timer_ie : Zero gtp_epc_timer_ie.gtp_epc_timer_ie_t :=
  gtp_epc_timer_ie.Build_gtp_epc_timer_ie_t (mk_ie_header 0 0 0) 0 0.

#[export] Instance zero_gtp_ipv4_cfg_parms_ie : Zero gtp_ipv4_cfg_parms_ie.gtp_ipv4_cfg_parms_ie_t :=
  gtp_ipv4_cfg_parms_ie.Build_gtp_ipv4_cfg_parms_ie_t (mk_ie_header 0 0 0) 0 0.

#[export] Instance zero_home_enb_id_fld : Zero home_enb_id_fld.home_enb_id_fld_t :=
  home_enb_id_fld.Build_home_enb_id_fld_t 0 0 0 0 0 0 0 0 0.

#[export] Instance zero_gtp_pres_rptng_area_act_ie : Zero gtp_pres_rptng_area_act_ie.gtp_pres_rptng_area_act_ie_t :=
  gtp_pres_rptng_area_act_ie.Build_gtp_pres_rptng_area_act_ie_t (mk_ie_header 0 0 0) 0 0 0 0 0 0 0 0 0 0 0 0 0 0 0 0 (repeat zero (Z.to_nat MAX_TAIS)) (repeat zero (Z.to_nat MAX_MACRO_ENB_IDS)) (repeat zero (Z.to_nat MAX_HOME_ENB_IDS)) (repeat zero (Z.to_nat MAX_ECGIS)) (repeat zero (Z.to_nat MAX_RAIS)) (repeat zero (Z.to_nat MAX_SAIS)) (repeat zero (Z.to_nat MAX_CGIS)) 0 0 (repeat zero (Z.to_nat MAX_EX_MACRO_ENB_IDS)).

#[export] Instance zero_gtp_load_ctl_info_ie : Zero gtp_load_ctl_info_ie.gtp_load_ctl_info_ie_t :=
  gtp_load_ctl_info_ie.Build_gtp_load_ctl_info_ie_t (mk_ie_header 0 0 0) (repeat 0 (Z.to_nat LOAD_CONTROL_INFORMATION_LEN)).

#[export] Instance zero_create_sess_rsp : Zero create_sess_rsp.create_sess_rsp_t :=
  Message (S := create_sess_rsp.create_sess_rsp_sig) zero
    (fun f => match f with
      | create_sess_rsp.cause => zero
      | create_sess_rsp.chg_rptng_act => zero
      | create_sess_rsp.csg_info_rptng_act => zero
      | create_sess_rsp.henb_info_rptng => zero
      | create_sess_rsp.sender_fteid_ctl_plane => zero
      | create_sess_rsp.pgw_s5s8_s2as2b_fteid_pmip_based_intfc_or_gtp_based_ctl_plane_intfc => zero
      | create_sess_rsp.paa => zero
      | create_sess_rsp.apn_restriction => zero
      | create_sess_rsp.apn_ambr => zero
      | create_sess_rsp.linked_eps_bearer_id => zero
      | create_sess_rsp.pco => zero
      | create_sess_rsp.bearer_contexts_created _ => zero
      | create_sess_rsp.bearer_contexts_marked_removal => zero
      | create_sess_rsp.recovery => zero
      | create_sess_rsp.chrgng_gateway_name => zero
      | create_sess_rsp.chrgng_gateway_addr => zero
      | create_sess_rsp.pgw_fqcsid => zero
      | create_sess_rsp.sgw_fqcsid => zero
      | create_sess_rsp.sgw_ldn => zero
      | create_sess_rsp.pgw_ldn => zero
      | create_sess_rsp.pgw_back_off_time => zero
      | create_sess_rsp.apco => zero
      | create_sess_rsp.trstd_wlan_ipv4_parms => zero
      | create_sess_rsp.indctn_flgs => zero
      | create_sess_rsp.pres_rptng_area_act => zero
      | create_sess_rsp.pgws_node_lvl_load_ctl_info => zero
      | create_sess_rsp.pgws_apn_lvl_load_ctl_info => zero
      | create_sess_rsp.sgws_node_lvl_load_ctl_info => zero
      | create_sess_rsp.pgws_ovrld_ctl_info => zero
      | create_sess_rsp.sgws_ovrld_ctl_info => zero
      | create_sess_rsp.nbifom_cntnr => zero
      | create_sess_rsp.pdn_conn_chrgng_id => zero
      | create_sess_rsp.epco => zero
      | create_sess_rsp.priv_ext => zero
      end)
    (fun _ => 0).

#[export] Instance zero_gtp_bearer_context_ie : Zero gtp_bearer_context_ie.gtp_bearer_context_ie_t :=
  gtp_bearer_context_ie.Build_gtp_bearer_context_ie_t (mk_ie_header 0 0 0) (repeat 0 (Z.to_nat BEARER_CONTEXT_LEN)).

#[export] Instance zero_gtp_proc_trans_id_ie : Zero gtp_proc_trans_id_ie.gtp_proc_trans_id_ie_t :=
  gtp_proc_trans_id_ie.Build_gtp_proc_trans_id_ie_t (mk_ie_header 0 0 0) 0.

#[export] Instance zero_del_bearer_req : Zero del_bearer_req.del_bearer_req_t :=
  Message (S := del_bearer_req.del_bearer_req_sig) zero
    (fun f => match f with
      | del_bearer_req.lbi => zero
      | del_bearer_req.eps_bearer_ids _ => zero
      | del_bearer_req.failed_bearer_contexts => zero
      | del_bearer_req.pti => zero
      | del_bearer_req.pco => zero
      | del_bearer_req.pgw_fqcsid => zero
      | del_bearer_req.sgw_fqcsid => zero
      | del_bearer_req.indctn_flgs => zero
      | del_bearer_req.pgws_node_lvl_load_ctl_info => zero
      | del_bearer_req.pgws_apn_lvl_load_ctl_info => zero
      | del_bearer_req.sgws_node_lvl_load_ctl_info => zero
      | del_bearer_req.pgws_ovrld_ctl_info => zero
      | del_bearer_req.sgws_ovrld_ctl_info => zero
      | del_bearer_req.nbifom_cntnr => zero
      | del_bearer_req.epco => zero
      | del_bearer_req.priv_ext => zero
      end)
    (fun _ => 0).

#[export] Instance zero_gtp_ran_nas_cause_ie : Zero gtp_ran_nas_cause_ie.gtp_ran_nas_cause_ie_t :=
  gtp_ran_nas_cause_ie.Build_gtp_ran_nas_cause_ie_t (mk_ie_header 0 0 0) 0 0 0.

#[export] Instance zero_gtp_del_bearer_response_bearer_ctxt_ie : Zero gtp_del_bearer_response_bearer_ctxt_ie.gtp_del_bearer_response_bearer_ctxt_ie_t :=
  Grouped (S := gtp_del_bearer_response_bearer_ctxt_ie.gtp_del_bearer_response_bearer_ctxt_ie_sig) (mk_ie_header 0 0 0)
    (fun f => match f with
      | gtp_del_bearer_response_bearer_ctxt_ie.eps_bearer_id => zero
      | gtp_del_bearer_response_bearer_ctxt_ie.cause => zero
      | gtp_del_bearer_response_bearer_ctxt_ie.pco => zero
      | gtp_del_bearer_response_bearer_ctxt_ie.ran_nas_cause => zero
      | gtp_del_bearer_response_bearer_ctxt_ie.epco => zero
      end)
    (fun c : Empty_set => match c with end).

#[export] Instance zero_gtp_uli_timestamp_ie : Zero gtp_uli_timestamp_ie.gtp_uli_timestamp_ie_t :=
  gtp_uli_timestamp_ie.Build_gtp_uli_timestamp_ie_t (mk_ie_header 0 0 0) 0.

#[export] Instance zero_del_bearer_rsp : Zero del_bearer_rsp.del_bearer_rsp_t :=
  Message (S := del_bearer_rsp.del_bearer_rsp_sig) zero
    (fun f => match f with
      | del_bearer_rsp.cause => zero
      | del_bearer_rsp.lbi => zero
      | del_bearer_rsp.bearer_contexts _ => zero
      | del_bearer_rsp.recovery => zero
      | del_bearer_rsp.mme_fqcsid => zero
      | del_bearer_rsp.sgw_fqcsid => zero
      | del_bearer_rsp.epdg_fqcsid => zero
      | del_bearer_rsp.twan_fqcsid => zero
      | del_bearer_rsp.pco => zero
      | del_bearer_rsp.ue_time_zone => zero
      | del_bearer_rsp.uli => zero
      | del_bearer_rsp.uli_timestamp => zero
      | del_bearer_rsp.twan_identifier => zero
      | del_bearer_rsp.twan_idnt_ts => zero
      | del_bearer_rsp.mmes4_sgsns_ovrld_ctl_info => zero
      | del_bearer_rsp.sgws_ovrld_ctl_info => zero
      | del_bearer_rsp.mmes4_sgsn_idnt => zero
      | del_bearer_rsp.twanepdgs_ovrld_ctl_info => zero
      | del_bearer_rsp.wlan_loc_info => zero
      | del_bearer_rsp.wlan_loc_ts => zero
      | del_bearer_rsp.ue_local_ip_addr => zero
      | del_bearer_rsp.ue_udp_port => zero
      | del_bearer_rsp.nbifom_cntnr => zero
      | del_bearer_rsp.ue_tcp_port => zero
      | del_bearer_rsp.secdry_rat_usage_data_rpt => zero
      | del_bearer_rsp.priv_ext => zero
      end)
    (fun _ => 0).

#[export] Instance zero_gtp_node_type_ie : Zero gtp_node_type_ie.gtp_node_type_ie_t :=
  gtp_node_type_ie.Build_gtp_node_type_ie_t (mk_ie_header 0 0 0) 0.

#[export] Instance zero_del_sess_req : Zero del_sess_req.del_sess_req_t :=
  Message (S := del_sess_req.del_sess_req_sig) zero
    (fun f => match f with
      | del_sess_req.lbi => zero
      | del_sess_req.uli => zero
      | del_sess_req.indctn_flgs => zero
      | del_sess_req.pco => zero
      | del_sess_req.originating_node => zero
      | del_sess_req.sender_fteid_ctl_plane => zero
      | del_sess_req.ue_time_zone => zero
      | del_sess_req.uli_timestamp => zero
      | del_sess_req.ran_nas_release_cause => zero
      | del_sess_req.twan_identifier => zero
      | del_sess_req.twan_idnt_ts => zero
      | del_sess_req.mmes4_sgsns_ovrld_ctl_info => zero
      | del_sess_req.sgws_ovrld_ctl_info => zero
      | del_sess_req.twanepdgs_ovrld_ctl_info => zero
      | del_sess_req.wlan_loc_info => zero
      | del_sess_req.wlan_loc_ts => zero
      | del_sess_req.ue_local_ip_addr => zero
      | del_sess_req.ue_udp_port => zero
      | del_sess_req.epco => zero
      | del_sess_req.ue_tcp_port => zero
      | del_sess_req.secdry_rat_usage_data_rpt => zero
      | del_sess_req.priv_ext => zero
      end)
    (fun c : Empty_set => match c with end).
