(* ===== verification/TwagNet.v ===== *)
(** What the gateway uses of the C and C++ libraries below its protocols:
    [std::string] as Rocq strings of bytes, byte order, the text form of IPv4
    addresses ([inet_pton], [inet_ntop]) and socket addresses. *)

From Stdlib Require Import ZArith List Lia Bool String Ascii.
From S2P Require Import Prelude EncDecBits WireFormat IeFormat GtpImsi.
Import ListNotations.
Open Scope Z_scope.

(** * Strings and bytes *)

Definition ord (c : ascii) : Z := Z.of_N (N_of_ascii c).
Definition chr (z : Z) : ascii := ascii_of_N (Z.to_N (u8 z)).

(** [std::string(ptr, len)] of the bytes at [ptr], and back. *)
Definition bytes_string (l : list Z) : string := string_of_list_ascii (map chr l).
Definition string_bytes (s : string) : list Z := map ord (list_ascii_of_string s).

Definition is_byte (x : Z) : Prop := 0 <= x < 256.

(** [s.c_str()] as the C functions see it: up to the first NUL. *)
Fixpoint c_str (s : string) : string :=
  match s with
  | EmptyString => EmptyString
  | String c s => if ord c =? 0 then EmptyString else String c (c_str s)
  end.

(** [s.find(c)]: the first position; [None] is [npos]. *)
Fixpoint str_find (c : ascii) (s : string) : option nat :=
  match s with
  | EmptyString => None
  | String d s => if Ascii.eqb c d then Some O else option_map S (str_find c s)
  end.

(** [s.find_last_of(c)]. *)
Fixpoint str_find_last_of (c : ascii) (s : string) : option nat :=
  match s with
  | EmptyString => None
  | String d s =>
      match str_find_last_of c s with
      | Some n => Some (S n)
      | None => if Ascii.eqb c d then Some O else None
      end
  end.

(** [s.find(t) != npos] for a string [t]. *)
Fixpoint str_contains (t s : string) : bool :=
  prefix t s || match s with EmptyString => false | String _ s => str_contains t s end.

(** [s.substr(n)] with [n <= s.size()], and [s.substr(0, n)]. *)
Fixpoint str_drop (n : nat) (s : string) : string :=
  match n, s with
  | S n, String _ s => str_drop n s
  | _, _ => s
  end.

Fixpoint str_take (n : nat) (s : string) : string :=
  match n, s with
  | S n, String c s => String c (str_take n s)
  | _, _ => EmptyString
  end.

Definition str_empty (s : string) : bool := match s with EmptyString => true | _ => false end.

(** [std::to_string] of an unsigned number. *)
Definition to_string (v : Z) : string := bytes_string (map (fun d => 48 + d) (digits v)).

(** * Byte order on a little-endian host *)

Definition htonl (x : Z) : Z := le_val (rev (le_bytes 4 x)).
Definition htons (x : Z) : Z := le_val (rev (le_bytes 2 x)).
Definition ntohl : Z -> Z := htonl.
Definition ntohs : Z -> Z := htons.

(** * IPv4 addresses as text *)

Definition digit_char (c : ascii) : bool := (48 <=? ord c) && (ord c <=? 57).

(** [inet_pton(AF_INET, s, &addr)]: the octets read so far and the one being
    read; no leading zeros, four octets. *)
Fixpoint pton_loop (s : string) (octets : list Z) (cur : option Z) : option (list Z) :=
  match s with
  | EmptyString =>
      match cur with
      | Some v => if (List.length octets =? 3)%nat then Some (octets ++ [v]) else None
      | None => None
      end
  | String c s =>
      if digit_char c then
        let d := ord c - 48 in
        match cur with
        | None => pton_loop s octets (Some d)
        | Some v =>
            if (v =? 0) || (255 <? 10 * v + d) then None
            else pton_loop s octets (Some (10 * v + d))
        end
      else if ord c =? 46 then
        match cur with
        | Some v => if (List.length octets =? 3)%nat then None
                    else pton_loop s (octets ++ [v]) None
        | None => None
        end
      else None
  end.

(** The [s_addr] the call stores: its four bytes in memory are the octets. *)
Definition inet_pton (s : string) : option Z :=
  option_map le_val (pton_loop (c_str s) [] None).

(** [inet_ntop(AF_INET, &addr, ...)] and [inet_ntoa]. *)
Definition inet_ntop (s_addr : Z) : string :=
  match map to_string (le_bytes 4 s_addr) with
  | [a; b; c; d] => (a ++ "." ++ b ++ "." ++ c ++ "." ++ d)%string
  | _ => EmptyString
  end.

(** [struct sockaddr_in]: the port and the address in network byte order. *)
Record sockaddr_in := { sin_port : Z; sin_addr : Z }.

(** * Lemmas *)

Lemma app_inj_len {A} (a b c d : list A) :
  List.length a = List.length b -> a ++ c = b ++ d -> a = b /\ c = d.
Proof.
  revert b. induction a as [|x a IH]; intros [|y b] L E; try discriminate; [auto|].
  cbn in E. injection E as -> E. injection L as L. destruct (IH b L E) as [-> ->]. auto.
Qed.

Lemma ord_range c : is_byte (ord c).
Proof. unfold is_byte, ord. pose proof (N_ascii_bounded c). lia. Qed.

Lemma chr_ord c : chr (ord c) = c.
Proof.
  unfold chr, u8. rewrite Z.mod_small by apply ord_range. unfold ord.
  rewrite N2Z.id. apply ascii_N_embedding.
Qed.

Lemma ord_chr z : is_byte z -> ord (chr z) = z.
Proof.
  intros H. unfold ord, chr, u8. rewrite Z.mod_small by exact H. unfold is_byte in H.
  rewrite N_ascii_embedding by lia. lia.
Qed.

Lemma bytes_string_bytes s : bytes_string (string_bytes s) = s.
Proof.
  unfold bytes_string, string_bytes. rewrite map_map.
  rewrite (map_ext _ (fun c => c)) by apply chr_ord.
  rewrite map_id. apply string_of_list_ascii_of_string.
Qed.

Lemma string_bytes_string l : Forall is_byte l -> string_bytes (bytes_string l) = l.
Proof.
  intros H. unfold bytes_string, string_bytes. rewrite list_ascii_of_string_of_list_ascii, map_map.
  induction H as [|x l Hx _ IH]; [reflexivity|]. cbn [map]. rewrite ord_chr by exact Hx. congruence.
Qed.

Lemma string_bytes_range s : Forall is_byte (string_bytes s).
Proof. apply Forall_forall. intros x Hx. apply in_map_iff in Hx. destruct Hx as (c & <- & _). apply ord_range. Qed.

Lemma string_bytes_length s : List.length (string_bytes s) = String.length s.
Proof.
  unfold string_bytes. rewrite length_map. induction s; [reflexivity | cbn; congruence].
Qed.

Lemma string_bytes_app s t : string_bytes (s ++ t) = string_bytes s ++ string_bytes t.
Proof.
  unfold string_bytes. induction s as [|c s IH]; [reflexivity|]. cbn [append list_ascii_of_string map].
  rewrite <- app_comm_cons. f_equal. exact IH.
Qed.

#[export] Hint Resolve string_bytes_range ord_range : twag.

(** The character [c] does not occur in [s]. *)
Fixpoint lacks (c : ascii) (s : string) : bool :=
  match s with
  | EmptyString => true
  | String d s => negb (Ascii.eqb c d) && lacks c s
  end.

Lemma str_find_app c s t : lacks c s = true -> str_find c (s ++ String c t) = Some (String.length s).
Proof.
  induction s as [|d s IH]; cbn [lacks append str_find String.length]; intros H.
  - rewrite Ascii.eqb_refl. reflexivity.
  - apply andb_true_iff in H. destruct H as [H1 H2]. apply negb_true_iff in H1. rewrite H1, IH by exact H2.
    reflexivity.
Qed.

Lemma str_find_none c s : lacks c s = true -> str_find c s = None.
Proof.
  induction s as [|d s IH]; cbn [lacks str_find]; intros H; [reflexivity|].
  apply andb_true_iff in H. destruct H as [H1 H2]. apply negb_true_iff in H1. rewrite H1, IH by exact H2.
  reflexivity.
Qed.

Lemma str_find_last_none c s : lacks c s = true -> str_find_last_of c s = None.
Proof.
  induction s as [|d s IH]; cbn [lacks str_find_last_of]; intros H; [reflexivity|].
  apply andb_true_iff in H. destruct H as [H1 H2]. apply negb_true_iff in H1. rewrite IH, H1 by exact H2.
  reflexivity.
Qed.

Lemma str_find_last_app c s t :
  lacks c t = true -> str_find_last_of c (s ++ String c t) = Some (String.length s).
Proof.
  intros H. induction s as [|d s IH]; cbn [append str_find_last_of String.length].
  - rewrite (str_find_last_none c t H), Ascii.eqb_refl. reflexivity.
  - rewrite IH. reflexivity.
Qed.

Lemma str_take_app s t : str_take (String.length s) (s ++ t) = s.
Proof. induction s as [|c s IH]; cbn [String.length append str_take]; [destruct t; reflexivity | congruence]. Qed.

Lemma str_drop_app s t : str_drop (String.length s) (s ++ t) = t.
Proof. induction s as [|c s IH]; cbn [String.length append str_drop]; [reflexivity | exact IH]. Qed.

Lemma lacks_app c s t : lacks c (s ++ t) = lacks c s && lacks c t.
Proof. induction s as [|d s IH]; cbn [append lacks]; [reflexivity|]. rewrite IH. apply andb_assoc. Qed.

Lemma c_str_lacks s : lacks (chr 0) s = true -> c_str s = s.
Proof.
  induction s as [|c s IH]; cbn [lacks c_str]; intros H; [reflexivity|].
  apply andb_true_iff in H. destruct H as [H1 H2]. rewrite IH by exact H2.
  destruct (Z.eqb_spec (ord c) 0) as [E|_]; [|reflexivity].
  rewrite <- (chr_ord c), E, Ascii.eqb_refl in H1. discriminate.
Qed.

Lemma htonl_htonl x : 0 <= x < 2 ^ 32 -> ntohl (htonl x) = x.
Proof.
  intros H. unfold ntohl, htonl.
  rewrite <- (le_val_bytes 4 x) at 2 by exact H. f_equal.
  pose proof (le_bytes_val (rev (le_bytes 4 x))) as E.
  rewrite length_rev, le_bytes_length in E. rewrite E by (apply Forall_rev, le_bytes_range).
  apply rev_involutive.
Qed.

Lemma htonl_range x : 0 <= htonl x < 2 ^ 32.
Proof.
  unfold htonl. pose proof (le_val_range (rev (le_bytes 4 x))) as H.
  rewrite length_rev, le_bytes_length in H. apply H, Forall_rev, le_bytes_range.
Qed.

Lemma pton_first a t octets :
  48 <= a <= 57 -> pton_loop (String (chr a) t) octets None = pton_loop t octets (Some (a - 48)).
Proof.
  intros H. cbn [pton_loop]. unfold digit_char. rewrite !ord_chr by (unfold is_byte; lia).
  destruct (Z.leb_spec 48 a), (Z.leb_spec a 57); try lia. reflexivity.
Qed.

Lemma pton_next a t octets v :
  48 <= a <= 57 -> v <> 0 -> 10 * v + (a - 48) <= 255 ->
  pton_loop (String (chr a) t) octets (Some v) = pton_loop t octets (Some (10 * v + (a - 48))).
Proof.
  intros H Hv Hm. cbn [pton_loop]. unfold digit_char. rewrite !ord_chr by (unfold is_byte; lia).
  destruct (Z.leb_spec 48 a), (Z.leb_spec a 57); try lia. cbn [andb].
  destruct (Z.eqb_spec v 0); [lia|]. destruct (Z.ltb_spec 255 (10 * v + (a - 48))); [lia|]. reflexivity.
Qed.

(** One octet printed by [to_string] and read back. *)
Lemma pton_octet v t octets :
  is_byte v -> pton_loop (to_string v ++ t) octets None = pton_loop t octets (Some v).
Proof.
  intros H. unfold is_byte in H.
  assert (E : forallb (fun n => match map (fun d => 48 + d) (digits (Z.of_nat n)) with
    | [a] => (48 <=? a) && (a <=? 57) && (a - 48 =? Z.of_nat n)
    | [a; b] => (49 <=? a) && (a <=? 57) && (48 <=? b) && (b <=? 57)
                && (10 * (a - 48) + (b - 48) =? Z.of_nat n)
    | [a; b; c] => (49 <=? a) && (a <=? 57) && (48 <=? b) && (b <=? 57) && (48 <=? c) && (c <=? 57)
                && (10 * (10 * (a - 48) + (b - 48)) + (c - 48) =? Z.of_nat n)
    | _ => false end) (seq 0 256) = true) by (vm_compute; reflexivity).
  rewrite forallb_forall in E. specialize (E (Z.to_nat v)). rewrite Z2Nat.id in E by lia.
  specialize (E ltac:(apply in_seq; lia)). unfold to_string.
  destruct (map _ (digits v)) as [|a [|b [|c [|? ?]]]]; try discriminate; zbool;
    unfold bytes_string; cbn [map string_of_list_ascii append];
    rewrite pton_first by lia; rewrite ?pton_next by lia; f_equal; f_equal; lia.
Qed.

Lemma pton_dot v t octets :
  List.length octets <> 3%nat ->
  pton_loop ("." ++ t) octets (Some v) = pton_loop t (octets ++ [v]) None.
Proof. intros H. cbn. apply Nat.eqb_neq in H. rewrite H. reflexivity. Qed.

Lemma to_string_no_nul v : is_byte v -> lacks (chr 0) (to_string v) = true.
Proof.
  intros H. unfold is_byte in H.
  assert (E : forallb (fun n => lacks (chr 0) (to_string (Z.of_nat n))) (seq 0 256) = true)
    by (vm_compute; reflexivity).
  rewrite forallb_forall in E. specialize (E (Z.to_nat v)). rewrite Z2Nat.id in E by lia.
  apply E, in_seq. lia.
Qed.

(** The text of an address reads back as the address. *)
Lemma inet_pton_ntop a : 0 <= a < 2 ^ 32 -> inet_pton (inet_ntop a) = Some a.
Proof.
  intros H. unfold inet_ntop, inet_pton.
  pose proof (le_bytes_range 4 a) as R. pose proof (le_bytes_length 4 a) as L.
  rewrite <- (le_val_bytes 4 a) at 2 by exact H.
  destruct (le_bytes 4 a) as [|b0 [|b1 [|b2 [|b3 [|? ?]]]]]; try discriminate. cbn [map].
  inversion R as [|? ? R0 R']; subst. inversion R' as [|? ? R1 R'']; subst.
  inversion R'' as [|? ? R2 R3']; subst. inversion R3' as [|? ? R3 _]; subst.
  rewrite c_str_lacks.
  2:{ rewrite !lacks_app, !to_string_no_nul by assumption. reflexivity. }
  rewrite pton_octet, pton_dot, pton_octet, pton_dot, pton_octet, pton_dot by (assumption || discriminate).
  rewrite <- (bytes_string_bytes (to_string b3)).
  replace (bytes_string (string_bytes (to_string b3))) with (to_string b3 ++ "")%string.
  2:{ rewrite bytes_string_bytes. induction (to_string b3); cbn; congruence. }
  rewrite pton_octet by assumption. reflexivity.
Qed.
