(* ===== verification/TwagRadius.v ===== *)
(** The RADIUS packets of the gateway (radius_server.cpp): the parsing part of
    [RadiusServer::handle_udp_rx], the identity it takes from an EAP response,
    and the datagrams [send_response] and [send_disconnect_request] build.

    The abstract format is a header followed by a list of attributes
    ([encode_attributes]); the parser of the code works with offsets into the
    receive buffer. *)

From Stdlib Require Import ZArith List Lia Bool String Ascii.
From S2P Require Import Prelude EncDecBits WireFormat IeFormat TwagNet.
Import ListNotations.
Open Scope Z_scope.

Definition sizeof_radius_hdr : nat := 20.

Definition ACCESS_REQUEST : Z := 1.
Definition ACCESS_ACCEPT : Z := 2.
Definition ACCESS_REJECT : Z := 3.
Definition ACCOUNTING_REQUEST : Z := 4.
Definition ACCOUNTING_RESPONSE : Z := 5.
Definition ACCESS_CHALLENGE : Z := 11.
Definition DISCONNECT_REQUEST : Z := 40.

Definition ATTR_ACCT_STATUS_TYPE : Z := 4.
Definition ATTR_CALLING_STATION_ID : Z := 31.
Definition ATTR_EAP_MESSAGE : Z := 79.

(** * Parsing *)

(** The local variables the loop over the attributes fills. *)
Record radius_attrs := {
  mac_addr : string;
  eap_payload : string;
  acct_status_type : Z
}.

Definition default_attrs : radius_attrs :=
  {| mac_addr := "00:11:22:33:44:55"; eap_payload := "dummy_eap"; acct_status_type := 0 |}.

(** [n] bytes of the datagram from [offset] on. *)
Definition slice (buffer : list Z) (offset n : nat) : list Z := firstn n (skipn offset buffer).

(** The branches on the attribute type; [value] is [attr_len - 2] bytes. *)
Definition apply_attribute (a : radius_attrs) (attr_type : Z) (value : list Z) : radius_attrs :=
  if attr_type =? ATTR_CALLING_STATION_ID then
    {| mac_addr := bytes_string value; eap_payload := a.(eap_payload);
       acct_status_type := a.(acct_status_type) |}
  else if attr_type =? ATTR_EAP_MESSAGE then
    {| mac_addr := a.(mac_addr); eap_payload := bytes_string value;
       acct_status_type := a.(acct_status_type) |}
  else if attr_type =? ATTR_ACCT_STATUS_TYPE then
    if (List.length value + 2 =? 6)%nat then
      {| mac_addr := a.(mac_addr); eap_payload := a.(eap_payload);
         acct_status_type := ntohl (le_val value) |}
    else a
  else a.

(** [while (offset + 2 <= rad_len)]; [Fault] is a read past the bytes the
    socket delivered. *)
Fixpoint parse_attributes (fuel : nat) (buffer : list Z) (rad_len offset : nat)
    (a : radius_attrs) : outcome radius_attrs :=
  if (offset + 2 <=? rad_len)%nat then
    match fuel with
    | O => OutOfFuel
    | S fuel =>
        match nth_error buffer offset, nth_error buffer (offset + 1) with
        | Some attr_type, Some attr_len =>
            if (attr_len <? 2) || (rad_len <? offset + Z.to_nat attr_len)%nat then Done a
            else if (List.length buffer <? offset + Z.to_nat attr_len)%nat then Fault
            else parse_attributes fuel buffer rad_len (offset + Z.to_nat attr_len)
                   (apply_attribute a attr_type (slice buffer (offset + 2) (Z.to_nat attr_len - 2)))
        | _, _ => Fault
        end
    end
  else Done a.

Record radius_packet := {
  rp_code : Z;
  rp_id : Z;
  rp_len : nat;
  rp_authenticator : list Z;
  rp_attrs : radius_attrs
}.

(** [handle_udp_rx] up to the branches on the code; [None]: the packet is
    dropped for its length. *)
Definition parse_packet (buffer : list Z) : outcome (option radius_packet) :=
  match buffer with
  | code :: id :: l0 :: l1 :: _ =>
      let n := List.length buffer in
      let rad_len := Z.to_nat (ntohs (le_val [l0; l1])) in
      if (n <? sizeof_radius_hdr)%nat then Done None
      else if (n <? rad_len)%nat || (rad_len <? sizeof_radius_hdr)%nat then Done None
      else match parse_attributes rad_len buffer rad_len sizeof_radius_hdr default_attrs with
           | Done a => Done (Some {| rp_code := code; rp_id := id; rp_len := rad_len;
                                     rp_authenticator := slice buffer 4 16; rp_attrs := a |})
           | Fault => Fault
           | OutOfFuel => OutOfFuel
           end
  | _ => Done None
  end.

Definition AT : ascii := "@".
Definition BANG : ascii := "!".

(** The user part of the identity, and the digits after the 3GPP prefix. *)
Definition strip_realm (identity : string) : string :=
  match str_find AT identity with
  | Some at_pos => str_take at_pos identity
  | None => identity
  end.

Definition strip_decoration (username : string) : string :=
  match str_find_last_of BANG username with
  | Some bang_pos => str_drop (bang_pos + 1) username
  | None => username
  end.

Definition strip_prefix (username : string) : string :=
  match username with
  | EmptyString => EmptyString
  | String prefix rest =>
      if Ascii.eqb prefix "0" || Ascii.eqb prefix "1" || Ascii.eqb prefix "6" then rest
      else username
  end.

(** The IMSI of an EAP-Response/Identity: [Code = 2, Id, Len, Type = 1, Data]. *)
Definition extract_imsi (eap_payload : string) : string :=
  match string_bytes eap_payload with
  | c0 :: _ :: _ :: _ :: c4 :: _ =>
      if (c0 =? 2) && (c4 =? 1)
      then strip_prefix (strip_decoration (strip_realm (str_drop 5 eap_payload)))
      else EmptyString
  | _ => EmptyString
  end.

(** * Building *)

(** [hdr->length = htons(offset);] *)
Definition length_field (offset : nat) : list Z := rev (le_bytes 2 (u16 (Z.of_nat offset))).

(** [send_response] up to [sendto]: the datagram, or [None] when the payload
    does not fit [buffer[4096]]. *)
Definition response_datagram (code id : Z) (req_auth : list Z) (eap : string) : option (list Z) :=
  let payload := string_bytes eap in
  let attribute :=
    if str_empty eap then []
    else ATTR_EAP_MESSAGE :: u8 (Z.of_nat (List.length payload + 2)) :: payload in
  let offset := (sizeof_radius_hdr + List.length attribute)%nat in
  if (4096 <? offset)%nat then None
  else Some (code :: id :: length_field offset ++ req_auth ++ attribute).

(** [send_disconnect_request] up to [sendto], in [buffer[1024]]. *)
Definition disconnect_datagram (mac : string) : option (list Z) :=
  let name := string_bytes mac in
  let attribute :=
    if str_empty mac then []
    else ATTR_CALLING_STATION_ID :: u8 (Z.of_nat (List.length name + 2)) :: name in
  let offset := (sizeof_radius_hdr + List.length attribute)%nat in
  if (1024 <? offset)%nat then None
  else Some (DISCONNECT_REQUEST :: 1 :: length_field offset ++ repeat 0 16 ++ attribute).

(** [target_addr.sin_port = htons(3799);] *)
Definition disconnect_target (wlc_addr : sockaddr_in) : sockaddr_in :=
  {| sin_port := htons 3799; sin_addr := wlc_addr.(sin_addr) |}.

(** * The abstract format *)

Definition attribute : Type := Z * list Z.

Definition encode_attribute (a : attribute) : list Z :=
  fst a :: Z.of_nat (List.length (snd a) + 2) :: snd a.

Definition encode_attributes (l : list attribute) : list Z := flat_map encode_attribute l.

Definition apply_all (l : list attribute) (a : radius_attrs) : radius_attrs :=
  fold_left (fun a x => apply_attribute a (fst x) (snd x)) l a.

Definition packet (code id : Z) (auth : list Z) (l : list attribute) : list Z :=
  let body := encode_attributes l in
  code :: id :: length_field (sizeof_radius_hdr + List.length body) ++ auth ++ body.

Definition attribute_ok (a : attribute) : Prop := (List.length (snd a) <= 253)%nat.

(** What stops the parser: fewer than two bytes, or a length byte that is too
    small or reaches past the packet. *)
Definition malformed (rest : list Z) : Prop :=
  match rest with
  | _ :: len :: _ => len < 2 \/ (List.length rest < Z.to_nat len)%nat
  | _ => True
  end.

(** * Lemmas *)

Lemma slice_split buffer offset n k :
  (k <= n)%nat -> slice buffer offset n = slice buffer offset k ++ slice buffer (offset + k) (n - k).
Proof.
  intros H. unfold slice. rewrite Nat.add_comm, <- skipn_skipn.
  replace n with (k + (n - k))%nat at 1 by lia.
  rewrite <- (firstn_skipn k (firstn (k + (n - k)) (skipn offset buffer))).
  rewrite firstn_firstn, Nat.min_l by lia. f_equal.
  rewrite skipn_firstn_comm. f_equal. lia.
Qed.

Lemma slice_length buffer offset n :
  (offset + n <= List.length buffer)%nat -> List.length (slice buffer offset n) = n.
Proof. intros H. unfold slice. rewrite length_firstn, length_skipn. lia. Qed.

Lemma slice_one buffer offset x : nth_error buffer offset = Some x -> slice buffer offset 1 = [x].
Proof.
  intros H. apply nth_error_split in H. destruct H as (l1 & l2 & -> & <-). unfold slice.
  rewrite skipn_app, skipn_all, Nat.sub_diag. reflexivity.
Qed.

(** The header of an attribute and the bytes its length byte announces. *)
Lemma slice_attribute buffer offset t len :
  nth_error buffer offset = Some t -> nth_error buffer (offset + 1) = Some len ->
  2 <= len < 256 -> (offset + Z.to_nat len <= List.length buffer)%nat ->
  slice buffer offset (Z.to_nat len)
  = encode_attribute (t, slice buffer (offset + 2) (Z.to_nat len - 2)).
Proof.
  intros H1 H2 Hl Hb. rewrite (slice_split _ _ _ 1) by lia. rewrite (slice_one _ _ _ H1).
  rewrite (slice_split _ (offset + 1) _ 1) by lia. rewrite (slice_one _ _ _ H2).
  replace (offset + 1 + 1)%nat with (offset + 2)%nat by lia.
  replace (Z.to_nat len - 1 - 1)%nat with (Z.to_nat len - 2)%nat by lia.
  unfold encode_attribute. cbn [fst snd app]. rewrite slice_length by lia. f_equal. f_equal. lia.
Qed.

Lemma nth_error_byte (buffer : list Z) i :
  Forall is_byte buffer -> (i < List.length buffer)%nat ->
  exists x, nth_error buffer i = Some x /\ is_byte x.
Proof.
  intros H Hi. destruct (nth_error buffer i) as [x|] eqn:E.
  - exists x. split; [reflexivity|]. rewrite Forall_forall in H. apply H, (nth_error_In _ _ E).
  - apply nth_error_None in E. lia.
Qed.

Lemma malformed_slice buffer offset n t len :
  nth_error buffer offset = Some t -> nth_error buffer (offset + 1) = Some len ->
  (2 <= n)%nat -> (offset + n <= List.length buffer)%nat ->
  len < 2 \/ (n < Z.to_nat len)%nat -> malformed (slice buffer offset n).
Proof.
  intros H1 H2 Hn Hb Hm.
  pose proof (slice_length buffer offset n Hb) as L. revert L.
  rewrite (slice_split _ _ _ 1) by lia. rewrite (slice_one _ _ _ H1).
  rewrite (slice_split _ (offset + 1) _ 1) by lia. rewrite (slice_one _ _ _ H2).
  cbn [app malformed]. intros ->. exact Hm.
Qed.

(** The loop consumes the attributes up to the first malformed one. *)
Lemma parse_attributes_spec fuel : forall buffer rad_len offset a,
  Forall is_byte buffer -> (rad_len <= List.length buffer)%nat -> (offset <= rad_len)%nat ->
  (rad_len - offset <= fuel)%nat ->
  exists l rest,
    slice buffer offset (rad_len - offset) = encode_attributes l ++ rest
    /\ Forall attribute_ok l /\ malformed rest
    /\ parse_attributes fuel buffer rad_len offset a = Done (apply_all l a).
Proof.
  induction fuel as [|fuel IH]; intros buffer rad_len offset a Hb Hn Ho Hf.
  - exists [], (slice buffer offset (rad_len - offset)).
    replace (rad_len - offset)%nat with 0%nat by lia. cbn [parse_attributes].
    destruct (Nat.leb_spec (offset + 2) rad_len); [lia|]. repeat split; constructor.
  - cbn [parse_attributes]. destruct (Nat.leb_spec (offset + 2) rad_len) as [H2|H2].
    2:{ exists [], (slice buffer offset (rad_len - offset)). repeat split; [constructor|].
        assert (L : (List.length (slice buffer offset (rad_len - offset)) <= 1)%nat)
          by (rewrite slice_length; lia).
        destruct (slice _ _ _) as [|? [|? ?]]; cbn in *; auto; lia. }
    destruct (nth_error_byte buffer offset Hb ltac:(lia)) as (t & Et & _).
    destruct (nth_error_byte buffer (offset + 1) Hb ltac:(lia)) as (len & El & Rl).
    rewrite Et, El. unfold is_byte in Rl.
    destruct ((len <? 2) || (rad_len <? offset + Z.to_nat len)%nat) eqn:Hstop.
    + exists [], (slice buffer offset (rad_len - offset)). repeat split; [constructor|].
      apply (malformed_slice _ _ _ _ _ Et El); [lia|lia|].
      apply orb_true_iff in Hstop. destruct Hstop as [H|H]; [left; lia | right].
      apply Nat.ltb_lt in H. lia.
    + apply orb_false_iff in Hstop. destruct Hstop as [H3 H4].
      apply Z.ltb_ge in H3. apply Nat.ltb_ge in H4.
      destruct (Nat.ltb_spec (List.length buffer) (offset + Z.to_nat len)); [lia|].
      set (v := slice buffer (offset + 2) (Z.to_nat len - 2)).
      destruct (IH buffer rad_len (offset + Z.to_nat len)%nat (apply_attribute a t v) Hb Hn H4
                  ltac:(lia)) as (l & rest & E & Hl & Hr & ->).
      exists ((t, v) :: l), rest. split; [|split; [|split; [exact Hr|reflexivity]]].
      * rewrite (slice_split _ _ _ (Z.to_nat len)) by lia.
        rewrite (slice_attribute _ _ _ _ Et El) by lia. fold v.
        replace (rad_len - offset - Z.to_nat len)%nat with (rad_len - (offset + Z.to_nat len))%nat by lia.
        rewrite E. cbn [encode_attributes flat_map]. rewrite app_assoc. reflexivity.
      * constructor; [|exact Hl]. unfold attribute_ok, v. cbn [snd]. rewrite slice_length; lia.
Qed.

(** A list of attributes followed by a malformed rest splits in one way. *)
Lemma encode_attributes_inj l l' rest rest' :
  malformed rest -> malformed rest' ->
  encode_attributes l ++ rest = encode_attributes l' ++ rest' -> l = l' /\ rest = rest'.
Proof.
  assert (Hhead : forall t v l r, ~ malformed (encode_attributes ((t, v) :: l) ++ r)).
  { intros t v m r. cbn. rewrite length_app. rewrite !length_app. intros [H|H]; lia. }
  revert l'. induction l as [|[t v] l IH]; intros [|[t' v'] l'] Hr Hr' E.
  - auto.
  - exfalso. cbn [encode_attributes flat_map app] in E. rewrite E in Hr. exact (Hhead _ _ _ _ Hr).
  - exfalso. cbn [encode_attributes flat_map app] in E. rewrite <- E in Hr'. exact (Hhead _ _ _ _ Hr').
  - cbn [encode_attributes flat_map] in E. unfold encode_attribute at 1 3 in E. cbn [fst snd] in E.
    rewrite <- !app_comm_cons in E. injection E as E1 E2 E3. subst t'.
    assert (Hlen : List.length v = List.length v') by lia.
    rewrite <- !app_assoc in E3. apply app_inj_len in E3; [|exact Hlen]. destruct E3 as [-> E3].
    destruct (IH l' Hr Hr' E3) as [-> ->]. auto.
Qed.

Lemma length_field_value offset :
  Z.of_nat offset < 65536 ->
  exists l0 l1, length_field offset = [l0; l1] /\ is_byte l0 /\ is_byte l1
    /\ ntohs (le_val [l0; l1]) = Z.of_nat offset.
Proof.
  intros H. unfold length_field, u16. rewrite Z.mod_small by lia.
  pose proof (le_bytes_length 2 (Z.of_nat offset)) as L.
  pose proof (le_bytes_range 2 (Z.of_nat offset)) as R.
  pose proof (le_val_bytes 2 (Z.of_nat offset) ltac:(lia)) as V.
  destruct (le_bytes 2 (Z.of_nat offset)) as [|b0 [|b1 [|? ?]]]; try discriminate.
  inversion R as [|? ? R0 R']; subst. inversion R' as [|? ? R1 _]; subst.
  exists b1, b0. repeat split; try apply R0; try apply R1.
  unfold ntohs, htons.
  pose proof (le_bytes_val [b1; b0]) as E. cbn [List.length] in E.
  rewrite E by (constructor; [exact R1 | constructor; [exact R0 | constructor]]). exact V.
Qed.

(** The packet length a datagram announces. *)
Definition announced (buffer : list Z) : nat := Z.to_nat (ntohs (le_val (slice buffer 2 2))).

Lemma parse_packet_eq buffer :
  parse_packet buffer =
  if (List.length buffer <? sizeof_radius_hdr)%nat then Done None
  else if (List.length buffer <? announced buffer)%nat || (announced buffer <? sizeof_radius_hdr)%nat
  then Done None
  else match parse_attributes (announced buffer) buffer (announced buffer) sizeof_radius_hdr
               default_attrs with
       | Done a => Done (Some {| rp_code := nth 0 buffer 0; rp_id := nth 1 buffer 0;
                                 rp_len := announced buffer;
                                 rp_authenticator := slice buffer 4 16; rp_attrs := a |})
       | Fault => Fault
       | OutOfFuel => OutOfFuel
       end.
Proof. destruct buffer as [|? [|? [|? [|? ?]]]]; reflexivity. Qed.

(** C11: whatever bytes arrive, the RADIUS parser returns without reading past
    the datagram.  It drops the packet exactly when the datagram is shorter
    than a header or than the length it announces, or announces less than a
    header; otherwise the fields it extracts are those of the attributes in
    front of the first malformed one, the later of two equal attributes
    winning. *)
Theorem parse_packet_spec buffer :
  Forall is_byte buffer ->
  if (List.length buffer <? sizeof_radius_hdr)%nat
     || (List.length buffer <? announced buffer)%nat
     || (announced buffer <? sizeof_radius_hdr)%nat
  then parse_packet buffer = Done None
  else exists l rest,
    slice buffer sizeof_radius_hdr (announced buffer - sizeof_radius_hdr)
      = encode_attributes l ++ rest
    /\ Forall attribute_ok l /\ malformed rest
    /\ parse_packet buffer
       = Done (Some {| rp_code := nth 0 buffer 0; rp_id := nth 1 buffer 0;
                       rp_len := announced buffer; rp_authenticator := slice buffer 4 16;
                       rp_attrs := apply_all l default_attrs |}).
Proof.
  intros Hb. rewrite parse_packet_eq.
  destruct (Nat.ltb_spec (List.length buffer) sizeof_radius_hdr) as [H1|H1]; [reflexivity|].
  destruct (Nat.ltb_spec (List.length buffer) (announced buffer)) as [H2|H2]; [reflexivity|].
  destruct (Nat.ltb_spec (announced buffer) sizeof_radius_hdr) as [H3|H3]; [reflexivity|].
  cbn [orb].
  destruct (parse_attributes_spec (announced buffer) buffer (announced buffer) sizeof_radius_hdr
              default_attrs Hb H2 H3 ltac:(lia)) as (l & rest & E & Hl & Hr & ->).
  exists l, rest. auto.
Qed.

Definition sample_packet : list Z :=
  [1; 7; 0; 30] ++ repeat 9 16 ++ [31; 4; 65; 66; 4; 6; 0; 0; 0; 2].

Lemma parse_packet_spec_witness :
  Forall is_byte sample_packet
  /\ exists l rest,
    slice sample_packet 20 10 = encode_attributes l ++ rest
    /\ Forall attribute_ok l /\ malformed rest
    /\ parse_packet sample_packet
       = Done (Some {| rp_code := 1; rp_id := 7; rp_len := 30; rp_authenticator := repeat 9 16;
                       rp_attrs := apply_all l default_attrs |}).
Proof.
  assert (H : Forall is_byte sample_packet)
    by (repeat (constructor; [unfold is_byte; lia|]); constructor).
  split; [exact H|]. exact (parse_packet_spec sample_packet H).
Defined.

Lemma encode_attributes_app l l' : encode_attributes (l ++ l') = encode_attributes l ++ encode_attributes l'.
Proof. apply flat_map_app. Qed.

Lemma encode_attributes_bytes l :
  Forall (fun a => is_byte (fst a) /\ Forall is_byte (snd a) /\ attribute_ok a) l ->
  Forall is_byte (encode_attributes l).
Proof.
  induction 1 as [|[t v] l (Ht & Hv & Hok) _ IH]; [constructor|].
  unfold attribute_ok in Hok. cbn [fst snd] in *.
  cbn [encode_attributes flat_map]. apply Forall_app. split; [|exact IH].
  unfold encode_attribute. cbn [fst snd]. constructor; [exact Ht|]. constructor; [unfold is_byte; lia|exact Hv].
Qed.

Definition attribute_bytes (a : attribute) : Prop :=
  is_byte (fst a) /\ Forall is_byte (snd a) /\ attribute_ok a.

(** The parts of a packet followed by other bytes of the datagram. *)
Lemma packet_parts code id auth l trailing :
  List.length auth = 16%nat ->
  Z.of_nat (sizeof_radius_hdr + List.length (encode_attributes l)) < 65536 ->
  let b := packet code id auth l ++ trailing in
  announced b = (sizeof_radius_hdr + List.length (encode_attributes l))%nat
  /\ List.length b = (announced b + List.length trailing)%nat
  /\ slice b 4 16 = auth
  /\ slice b sizeof_radius_hdr (announced b - sizeof_radius_hdr) = encode_attributes l.
Proof.
  intros Ha Hs b. subst b. unfold packet.
  destruct (length_field_value _ Hs) as (l0 & l1 & E & _ & _ & V). rewrite E.
  assert (A : forall t, announced (code :: id :: [l0; l1] ++ t)
              = (sizeof_radius_hdr + List.length (encode_attributes l))%nat).
  { intros t. unfold announced, slice. cbn [skipn firstn app]. rewrite V. apply Nat2Z.id. }
  replace ((code :: id :: [l0; l1] ++ auth ++ encode_attributes l) ++ trailing)
    with (code :: id :: [l0; l1] ++ (auth ++ encode_attributes l ++ trailing))
    by (cbn [app]; rewrite <- !app_assoc; reflexivity).
  rewrite A. split; [reflexivity|]. split; [|split].
  - cbn [app List.length]. rewrite !length_app, Ha. unfold sizeof_radius_hdr. lia.
  - unfold slice. cbn [app skipn]. rewrite <- Ha.
    rewrite firstn_app, firstn_all, Nat.sub_diag, firstn_O, app_nil_r. reflexivity.
  - unfold sizeof_radius_hdr, slice. cbn [app]. do 4 rewrite skipn_cons.
    replace (20 + List.length (encode_attributes l) - 20)%nat with (List.length (encode_attributes l)) by lia.
    rewrite <- Ha, skipn_app, skipn_all, Nat.sub_diag. cbn [app skipn].
    rewrite firstn_app, firstn_all, Nat.sub_diag, firstn_O, app_nil_r. reflexivity.
Qed.

Lemma packet_bytes code id auth l :
  is_byte code -> is_byte id -> Forall is_byte auth -> Forall attribute_bytes l ->
  Forall is_byte (packet code id auth l).
Proof.
  intros Hc Hi Ha Hl. unfold packet. constructor; [exact Hc|]. constructor; [exact Hi|].
  apply Forall_app. split; [apply Forall_rev, le_bytes_range|].
  apply Forall_app. split; [exact Ha|]. apply encode_attributes_bytes, Hl.
Qed.

(** A packet of well-formed attributes is read back, whatever follows it in
    the datagram. *)
Lemma parse_packet_encoded code id auth l trailing :
  is_byte code -> is_byte id -> Forall is_byte auth -> List.length auth = 16%nat ->
  Forall attribute_bytes l -> Forall is_byte trailing ->
  Z.of_nat (sizeof_radius_hdr + List.length (encode_attributes l)) < 65536 ->
  parse_packet (packet code id auth l ++ trailing)
  = Done (Some {| rp_code := code; rp_id := id;
                  rp_len := sizeof_radius_hdr + List.length (encode_attributes l);
                  rp_authenticator := auth; rp_attrs := apply_all l default_attrs |}).
Proof.
  intros Hc Hi Ha La Hl Ht Hs.
  destruct (packet_parts code id auth l trailing La Hs) as (E1 & E2 & E3 & E4).
  set (b := packet code id auth l ++ trailing) in *.
  assert (Hb : Forall is_byte b) by (apply Forall_app; auto using packet_bytes).
  rewrite parse_packet_eq.
  destruct (Nat.ltb_spec (List.length b) sizeof_radius_hdr); [lia|].
  destruct (Nat.ltb_spec (List.length b) (announced b)); [lia|].
  destruct (Nat.ltb_spec (announced b) sizeof_radius_hdr); [lia|]. cbn [orb].
  destruct (parse_attributes_spec (announced b) b (announced b) sizeof_radius_hdr
              default_attrs Hb ltac:(lia) ltac:(lia) ltac:(lia)) as (l' & rest & E & _ & Hr & ->).
  rewrite E4 in E. rewrite <- (app_nil_r (encode_attributes l)) in E.
  apply encode_attributes_inj in E; [|exact I|exact Hr]. destruct E as [<- _].
  rewrite E1, E3. reflexivity.
Qed.

Lemma bytes_string_length l : String.length (bytes_string l) = List.length l.
Proof. unfold bytes_string. induction l; [reflexivity | cbn; congruence]. Qed.

(** No value the parser extracts is longer than an attribute can carry. *)
Lemma apply_all_short l : forall a,
  Forall attribute_ok l ->
  (String.length (mac_addr a) <= 253)%nat -> (String.length (eap_payload a) <= 253)%nat ->
  (String.length (mac_addr (apply_all l a)) <= 253)%nat
  /\ (String.length (eap_payload (apply_all l a)) <= 253)%nat.
Proof.
  induction l as [|[t v] l IH]; intros a Hl Hm He; [auto|].
  inversion Hl as [|? ? Hv Hl']; subst. unfold attribute_ok in Hv. cbn [snd] in Hv.
  cbn [apply_all fold_left fst snd]. apply IH; [exact Hl'| |]; unfold apply_attribute;
    destruct (_ =? _); cbn [mac_addr eap_payload]; rewrite ?bytes_string_length; try lia;
    destruct (_ =? _); cbn [mac_addr eap_payload]; rewrite ?bytes_string_length; try lia;
    destruct (_ =? _); try lia; destruct (_ =? _)%nat; cbn [mac_addr eap_payload]; lia.
Qed.

Lemma parse_packet_short buffer p :
  Forall is_byte buffer -> parse_packet buffer = Done (Some p) ->
  (String.length (mac_addr (rp_attrs p)) <= 253)%nat
  /\ (String.length (eap_payload (rp_attrs p)) <= 253)%nat.
Proof.
  intros Hb. rewrite parse_packet_eq.
  destruct (Nat.ltb_spec (List.length buffer) sizeof_radius_hdr); [discriminate|].
  destruct (Nat.ltb_spec (List.length buffer) (announced buffer)); [discriminate|].
  destruct (Nat.ltb_spec (announced buffer) sizeof_radius_hdr); [discriminate|]. cbn [orb].
  destruct (parse_attributes_spec (announced buffer) buffer (announced buffer) sizeof_radius_hdr
              default_attrs Hb ltac:(lia) ltac:(lia) ltac:(lia)) as (l & rest & _ & Hl & _ & ->).
  intros E. injection E as <-. cbn [rp_attrs].
  apply apply_all_short; [exact Hl | cbn; lia | cbn; lia].
Qed.

Lemma str_empty_spec s : str_empty s = true <-> s = EmptyString.
Proof. destruct s; cbn; split; congruence. Qed.

(** A response as a packet of the abstract format. *)
Lemma response_is_packet code id auth eap :
  (String.length eap <= 253)%nat ->
  response_datagram code id auth eap
  = Some (packet code id auth (if str_empty eap then [] else [(ATTR_EAP_MESSAGE, string_bytes eap)])).
Proof.
  intros H. unfold response_datagram, packet. destruct (str_empty eap).
  - reflexivity.
  - cbn [encode_attributes flat_map encode_attribute fst snd app List.length].
    rewrite app_nil_r, string_bytes_length. unfold sizeof_radius_hdr.
    destruct (Nat.ltb_spec 4096 (20 + S (S (String.length eap)))); [lia|].
    unfold u8. rewrite Z.mod_small by lia. reflexivity.
Qed.

(** What a RADIUS parser reads in a response, with the EAP payload [e]. *)
Definition reads_back (d : list Z) (code id : Z) (auth : list Z) (e : string) : Prop :=
  exists p, parse_packet d = Done (Some p)
    /\ rp_code p = code /\ rp_id p = id /\ rp_authenticator p = auth
    /\ rp_len p = List.length d /\ eap_payload (rp_attrs p) = e.

Definition eap_of (eap : string) : string := if str_empty eap then "dummy_eap"%string else eap.

Section Response.
Context (code id : Z) (auth : list Z).
Hypotheses (Hc : is_byte code) (Hi : is_byte id) (Ha : Forall is_byte auth)
  (La : List.length auth = 16%nat).

Lemma response_short eap :
  (String.length eap <= 253)%nat ->
  exists d, response_datagram code id auth eap = Some d /\ reads_back d code id auth (eap_of eap).
Proof.
  intros Hs. rewrite response_is_packet by exact Hs. eexists. split; [reflexivity|].
  set (l := if str_empty eap then _ else _).
  assert (Hl : Forall attribute_bytes l).
  { subst l. destruct (str_empty eap); constructor; [|constructor].
    split; [unfold ATTR_EAP_MESSAGE, is_byte; cbn; lia|]. split; [apply string_bytes_range|].
    unfold attribute_ok. cbn [snd]. rewrite string_bytes_length. exact Hs. }
  assert (Hn : (List.length (encode_attributes l) <= 255)%nat).
  { subst l. destruct (str_empty eap); cbn; [lia|]. rewrite app_nil_r, string_bytes_length. lia. }
  destruct (packet_parts code id auth l [] La ltac:(unfold sizeof_radius_hdr; lia)) as (E1 & E2 & _).
  rewrite <- (app_nil_r (packet code id auth l)). eexists.
  rewrite parse_packet_encoded by (assumption || constructor || (unfold sizeof_radius_hdr; lia)).
  split; [reflexivity|]. repeat split; cbn [rp_len rp_attrs List.length] in *; [lia|].
  unfold eap_of. subst l. destruct (str_empty eap); [reflexivity|]. cbn. apply bytes_string_bytes.
Qed.

Lemma response_long eap :
  (253 < String.length eap <= 4074)%nat ->
  exists d e, response_datagram code id auth eap = Some d /\ reads_back d code id auth e
    /\ (String.length e <= 253)%nat.
Proof.
  intros Hs. unfold response_datagram.
  replace (str_empty eap) with false by (destruct eap; [cbn in Hs; lia|reflexivity]).
  set (attr := ATTR_EAP_MESSAGE :: _). set (n := (sizeof_radius_hdr + _)%nat).
  assert (Lattr : List.length attr = S (S (String.length eap)))
    by (subst attr; cbn [List.length]; rewrite string_bytes_length; reflexivity).
  assert (Ln : n = (22 + String.length eap)%nat) by (unfold n, sizeof_radius_hdr; lia).
  destruct (Nat.ltb_spec 4096 n) as [H|_]; [lia|].
  destruct (length_field_value n ltac:(lia)) as (l0 & l1 & E & R0 & R1 & V). rewrite E.
  set (d := code :: id :: [l0; l1] ++ auth ++ attr).
  assert (Hd : Forall is_byte d).
  { subst d attr. repeat (constructor; [assumption|]). apply Forall_app. split; [exact Ha|].
    constructor; [unfold ATTR_EAP_MESSAGE, is_byte; lia|].
    constructor; [apply Z.mod_pos_bound; lia|apply string_bytes_range]. }
  assert (Ld : List.length d = n) by (subst d; cbn [List.length app]; rewrite length_app; lia).
  assert (An : announced d = n) by (unfold announced, slice; subst d; cbn [skipn firstn app]; rewrite V; lia).
  pose proof (parse_packet_eq d) as Ep. rewrite An, Ld in Ep.
  destruct (parse_attributes_spec n d n sizeof_radius_hdr default_attrs Hd ltac:(lia)
              ltac:(unfold sizeof_radius_hdr; lia) ltac:(lia)) as (l & rest & _ & Hl & _ & Ea).
  rewrite Ea in Ep. destruct (Nat.ltb_spec n sizeof_radius_hdr) as [Hx|_];
    [unfold sizeof_radius_hdr in Hx; lia|]. rewrite Nat.ltb_irrefl in Ep. cbn [orb] in Ep.
  exists d, (eap_payload (apply_all l default_attrs)). split; [reflexivity|].
  split; [|apply apply_all_short; [exact Hl | cbn; lia | cbn; lia]].
  eexists. split; [exact Ep|]. repeat split; [|cbn [rp_len]; lia].
  subst d. unfold slice. cbn [app skipn rp_authenticator]. rewrite <- La.
  rewrite firstn_app, firstn_all, Nat.sub_diag, firstn_O, app_nil_r. reflexivity.
Qed.

End Response.

(** a response [send_response] builds for at most 4074 bytes of EAP is a
    packet a RADIUS parser reads back with its code, identifier and
    authenticator, and with the EAP payload exactly when that is no longer than
    the 253 bytes one attribute holds (an empty payload sends no attribute);
    for a longer payload the build runs past its buffer. *)
Theorem response_roundtrip code id auth eap :
  is_byte code -> is_byte id -> Forall is_byte auth -> List.length auth = 16%nat ->
  match response_datagram code id auth eap with
  | None => (4074 < String.length eap)%nat
  | Some d =>
      (String.length eap <= 4074)%nat
      /\ exists e, reads_back d code id auth e
         /\ (e = eap_of eap <-> (String.length eap <= 253)%nat)
  end.
Proof.
  intros Hc Hi Ha La. destruct (Nat.leb_spec (String.length eap) 253) as [Hs|Hs].
  - destruct (response_short code id auth Hc Hi Ha La eap Hs) as (d & -> & Hr).
    split; [lia|]. exists (eap_of eap). repeat split; [exact Hr | intros _; exact Hs].
  - destruct (Nat.leb_spec (String.length eap) 4074) as [Hm|Hm].
    + destruct (response_long code id auth Hc Hi Ha La eap (conj Hs Hm)) as (d & e & -> & Hr & He).
      split; [lia|]. exists e. split; [exact Hr|]. split; [|lia]. intros ->.
      unfold eap_of in He. destruct (str_empty eap) eqn:Ee; [|lia].
      apply str_empty_spec in Ee. rewrite Ee in Hs. cbn in Hs. lia.
    + unfold response_datagram. replace (str_empty eap) with false by (destruct eap; [cbn in Hs; lia|reflexivity]).
      cbn [List.length]. rewrite string_bytes_length. unfold sizeof_radius_hdr.
      destruct (Nat.ltb_spec 4096 (20 + S (S (String.length eap)))); lia.
Qed.

Lemma response_roundtrip_witness :
  match response_datagram ACCESS_ACCEPT 5 (repeat 1 16) "eap" with
  | None => False
  | Some d => (3 <= 4074)%nat /\ exists e, reads_back d ACCESS_ACCEPT 5 (repeat 1 16) e
                /\ (e = "eap"%string <-> (3 <= 253)%nat)
  end.
Proof.
  apply (response_roundtrip ACCESS_ACCEPT 5 (repeat 1 16) "eap").
  - unfold is_byte, ACCESS_ACCEPT; lia.
  - unfold is_byte; lia.
  - repeat (constructor; [unfold is_byte; lia|]). constructor.
  - reflexivity.
Defined.

(** An EAP-Response/Identity packet around an identity. *)
Definition eap_identity (id len0 len1 : Z) (identity : string) : string :=
  (bytes_string [2; id; len0; len1; 1] ++ identity)%string.

(** The network access identifiers of TS 23.003: an optional decoration in
    front of a [!], a digit for the method, the IMSI, a realm. *)
Definition nai (decoration : option string) (method : ascii) (imsi realm : string) : string :=
  (match decoration with Some d => d ++ String BANG EmptyString | None => EmptyString end
   ++ String method imsi ++ String AT realm)%string.

(** from an EAP identity in the 3GPP form (decorated or not, for EAP-SIM,
    EAP-AKA or EAP-AKA') the code extracts exactly the IMSI. *)
Theorem extract_imsi_of_nai id len0 len1 decoration method imsi realm :
  In method ["0"; "1"; "6"]%char ->
  lacks AT imsi = true -> lacks BANG imsi = true ->
  lacks AT (match decoration with Some d => d | None => EmptyString end) = true ->
  extract_imsi (eap_identity id len0 len1 (nai decoration method imsi realm)) = imsi.
Proof.
  intros Hm H1 H2 H3. unfold extract_imsi, eap_identity.
  replace (string_bytes _) with (2 :: ord (chr id) :: ord (chr len0) :: ord (chr len1) :: 1
    :: string_bytes (nai decoration method imsi realm)) by reflexivity.
  cbn [Z.eqb Pos.eqb andb]. cbn [bytes_string map string_of_list_ascii append str_drop].
  assert (Hd : lacks AT (String method imsi) = true
               /\ lacks BANG (String method imsi) = true
               /\ strip_prefix (String method imsi) = imsi).
  { cbn [lacks]. rewrite H1, H2. destruct Hm as [<-|[<-|[<-|[]]]]; auto. }
  destruct Hd as (Ha & Hb & Hp).
  assert (Hr : forall u, lacks AT u = true -> strip_realm (u ++ String AT realm) = u).
  { intros u Hu. unfold strip_realm. rewrite str_find_app by exact Hu. apply str_take_app. }
  unfold nai. destruct decoration as [d|].
  - replace ((d ++ String BANG EmptyString) ++ String method imsi ++ String AT realm)%string
      with ((d ++ String BANG (String method imsi)) ++ String AT realm)%string.
    2:{ clear. induction d as [|c d IH]; [reflexivity|]. cbn. rewrite IH. reflexivity. }
    rewrite Hr by (rewrite lacks_app, H3; exact Ha).
    unfold strip_decoration. rewrite str_find_last_app by exact Hb.
    replace (String.length d + 1)%nat with (String.length (d ++ String BANG EmptyString)).
    2:{ clear. induction d as [|c d IH]; [reflexivity|]. cbn. rewrite IH. reflexivity. }
    replace (d ++ String BANG (String method imsi))%string
      with ((d ++ String BANG EmptyString) ++ String method imsi)%string.
    2:{ clear. induction d as [|c d IH]; [reflexivity|]. cbn. rewrite IH. reflexivity. }
    rewrite str_drop_app. exact Hp.
  - cbn [append]. change (String method (imsi ++ String AT realm)) with (String method imsi ++ String AT realm)%string.
    rewrite Hr by exact Ha. unfold strip_decoration. rewrite str_find_last_none by exact Hb. exact Hp.
Qed.

Lemma extract_imsi_of_nai_witness :
  extract_imsi (eap_identity 1 0 60
    (nai (Some "wlan.home.org"%string) "0" "001010123456789" "visited.org")) = "001010123456789"%string.
Proof.
  apply (extract_imsi_of_nai 1 0 60 (Some "wlan.home.org"%string) "0" "001010123456789" "visited.org").
  - left. reflexivity.
  - reflexivity.
  - reflexivity.
  - reflexivity.
Defined.
