(* ===== verification/TwagDhcp.v ===== *)
(** The DHCP packets of the gateway (dhcp_server.cpp): the parsing part of
    [DhcpServer::handle_udp_rx] and the datagram of [send_dhcp_response].

    The receive buffer has 2048 bytes of which the socket fills the first [n];
    the option loop stops by [offset < n] but reads one or two bytes further. *)

From Stdlib Require Import ZArith List Lia Bool String Ascii.
From S2P Require Import Prelude EncDecBits WireFormat IeFormat TwagNet.
Import ListNotations.
Open Scope Z_scope.

(** * [struct bootp_hdr], packed *)

Definition BOOTP_OP : Z := 0.
Definition BOOTP_XID : Z := 4.
Definition BOOTP_YIADDR : Z := 16.
Definition BOOTP_SIADDR : Z := 20.
Definition BOOTP_CHADDR : Z := 28.
Definition BOOTP_MAGIC_COOKIE : Z := 236.
Definition sizeof_bootp_hdr : Z := 240.

Definition MAGIC_COOKIE : Z := 0x63825363.
Definition DHCP_BUFFER : Z := 2048.

Definition DHCP_DISCOVER : Z := 1.
Definition DHCP_OFFER : Z := 2.
Definition DHCP_REQUEST : Z := 3.
Definition DHCP_ACK : Z := 5.

(** * Receiving *)

(** [std::hex << setw(2) << setfill('0')] and [toupper]. *)
Definition hex_upper (d : Z) : ascii := chr (if d <? 10 then 48 + d else 55 + d).

Definition hex_byte (b : Z) : string :=
  String (hex_upper (b / 16)) (String (hex_upper (b mod 16)) EmptyString).

Fixpoint format_mac (l : list Z) : string :=
  match l with
  | [] => EmptyString
  | [b] => hex_byte b
  | b :: l => (hex_byte b ++ ":" ++ format_mac l)%string
  end.

(** [while (offset < n)] over the options; the value of the first option 53 of
    length 1, or 0.  [Fault]: a read past the buffer. *)
Fixpoint find_msg_type (fuel : nat) (buffer : bytes) (n offset : Z) : outcome Z :=
  if offset <? n then
    match fuel with
    | O => OutOfFuel
    | S fuel =>
        let opt_code := buffer offset in
        if opt_code =? 255 then Done 0
        else if opt_code =? 0 then find_msg_type fuel buffer n (offset + 1)
        else if DHCP_BUFFER <=? offset + 1 then Fault
        else
          let opt_len := buffer (offset + 1) in
          if (opt_code =? 53) && (opt_len =? 1) then
            if DHCP_BUFFER <=? offset + 2 then Fault else Done (buffer (offset + 2))
          else find_msg_type fuel buffer n (offset + 2 + opt_len)
    end
  else Done 0.

Inductive dhcp_event :=
| Discover (mac_addr : string) (xid : Z)
| Request (mac_addr : string) (xid : Z).

(** [n] is what [recvfrom] returned. *)
Definition dhcp_parse (buffer : bytes) (n : Z) : outcome (option dhcp_event) :=
  if n <? sizeof_bootp_hdr then Done None
  else if (buffer BOOTP_OP =? 1)
          && (ntohl (le_val (to_list buffer BOOTP_MAGIC_COOKIE 4)) =? MAGIC_COOKIE) then
    let mac_addr := format_mac (to_list buffer BOOTP_CHADDR 6) in
    let xid := le_val (to_list buffer BOOTP_XID 4) in
    match find_msg_type (Z.to_nat n) buffer n sizeof_bootp_hdr with
    | Done msg_type =>
        Done (if msg_type =? DHCP_DISCOVER then Some (Discover mac_addr xid)
              else if msg_type =? DHCP_REQUEST then Some (Request mac_addr xid)
              else None)
    | Fault => Fault
    | OutOfFuel => OutOfFuel
    end
  else Done None.

(** * Sending *)

Definition hex_digit (c : ascii) : option Z :=
  let z := ord c in
  if (48 <=? z) && (z <=? 57) then Some (z - 48)
  else if (65 <=? z) && (z <=? 70) then Some (z - 55)
  else if (97 <=? z) && (z <=? 102) then Some (z - 87)
  else None.

Definition is_space (c : ascii) : bool := (ord c =? 32) || (9 <=? ord c) && (ord c <=? 13).

Fixpoint skip_spaces (s : string) : string :=
  match s with
  | String c t => if is_space c then skip_spaces t else s
  | EmptyString => s
  end.

Fixpoint scan_hex_digits (s : string) (acc : Z) (seen : bool) : Z * bool * string :=
  match s with
  | String c t =>
      match hex_digit c with
      | Some d => scan_hex_digits t (16 * acc + d) true
      | None => (acc, seen, s)
      end
  | EmptyString => (acc, seen, s)
  end.

(** One [%x] of [sscanf]: blanks, a sign, [0x], digits; the value saturates at
    64 bits and is stored in 32. *)
Definition scan_x (s : string) : option (Z * string) :=
  let s := skip_spaces s in
  let '(neg, s) := match s with
                   | String "-" t => (true, t)
                   | String "+" t => (false, t)
                   | _ => (false, s)
                   end in
  let '(v, seen, rest) :=
    match s with
    | String "0" (String "x" t) | String "0" (String "X" t) => scan_hex_digits t 0 true
    | _ => scan_hex_digits s 0 false
    end in
  if seen then
    let v := Z.min v 0xFFFFFFFFFFFFFFFF in
    Some (u32 (if neg : bool then - v else v), rest)
  else None.

(** [sscanf(s, "%x:%x:...", ...)] with [n + 1] conversions: [None] when fewer
    succeed. *)
Fixpoint scan_mac (n : nat) (s : string) : option (list Z) :=
  match scan_x s with
  | None => None
  | Some (v, rest) =>
      match n with
      | O => Some [v]
      | S n => match rest with
               | String ":" t => option_map (cons v) (scan_mac n t)
               | _ => None
               end
      end
  end.

(** [inet_pton(AF_INET, "10.0.0.1", &server_ip_)] and the DNS server. *)
Definition server_ip : Z := match inet_pton "10.0.0.1" with Some a => a | None => 0 end.
Definition dns_ip : Z := match inet_pton "8.8.8.8" with Some a => a | None => 0 end.

Definition dhcp_option (code : Z) (value : list Z) : list Z :=
  code :: Z.of_nat (List.length value) :: value.

(** The 240 bytes of the header and the options of [send_dhcp_response]. *)
Definition dhcp_response (mac_addr : string) (ue_ip transaction_id msg_type : Z) : list Z :=
  let chaddr := match scan_mac 5 (c_str mac_addr) with
                | Some l => map u8 l
                | None => repeat 0 6
                end in
  [2; 1; 6; 0] ++ le_bytes 4 transaction_id ++ repeat 0 4 (* secs, flags *)
  ++ repeat 0 4 (* ciaddr *) ++ le_bytes 4 ue_ip ++ le_bytes 4 server_ip ++ repeat 0 4 (* giaddr *)
  ++ chaddr ++ repeat 0 10 ++ repeat 0 64 ++ repeat 0 128
  ++ le_bytes 4 (htonl MAGIC_COOKIE)
  ++ dhcp_option 53 [msg_type]
  ++ dhcp_option 1 (le_bytes 4 (htonl 0xFFFFFF00))
  ++ dhcp_option 3 (le_bytes 4 server_ip)
  ++ dhcp_option 51 (le_bytes 4 (htonl 3600))
  ++ dhcp_option 54 (le_bytes 4 server_ip)
  ++ dhcp_option 6 (le_bytes 4 dns_ip)
  ++ [255].

Definition dhcp_target : sockaddr_in := {| sin_port := htons 68; sin_addr := htonl 0xFFFFFFFF |}.

(** * The option format *)

Inductive dhcp_opt :=
| Pad
| Opt (code : Z) (value : list Z).

Definition encode_opt (o : dhcp_opt) : list Z :=
  match o with
  | Pad => [0]
  | Opt code value => dhcp_option code value
  end.

Definition opt_ok (o : dhcp_opt) : Prop :=
  match o with
  | Pad => True
  | Opt code value => 0 < code < 255 /\ (List.length value <= 255)%nat
  end.

(** The message type a list of options carries. *)
Fixpoint msg_type_of (l : list dhcp_opt) : Z :=
  match l with
  | [] => 0
  | Opt 53 [t] :: _ => t
  | _ :: l => msg_type_of l
  end.

(** * Lemmas *)

Lemma byte_cases (P : Z -> Prop) : (forall n, (n < 256)%nat -> P (Z.of_nat n)) -> forall b, is_byte b -> P b.
Proof. intros H b Hb. unfold is_byte in Hb. rewrite <- (Z2Nat.id b) by lia. apply H. lia. Qed.

(** One pair of hexadecimal digits is read back. *)
Lemma scan_x_byte b t :
  is_byte b -> scan_x (hex_byte b ++ String ":" t) = Some (b, String ":" t)
               /\ scan_x (hex_byte b) = Some (b, EmptyString).
Proof.
  revert b. apply byte_cases. intros n Hn.
  do 256 (destruct n as [|n]; [split; reflexivity|]). lia.
Qed.

Lemma scan_format_mac l : forall n,
  Forall is_byte l -> List.length l = S n -> scan_mac n (format_mac l) = Some l.
Proof.
  induction l as [|b l IH]; intros n Hl Ln; [discriminate|].
  inversion Hl as [|? ? Hb Hl']; subst. cbn in Ln. injection Ln as Ln.
  destruct l as [|c l].
  - subst n. change (format_mac [b]) with (hex_byte b). cbn [List.length scan_mac]. rewrite (proj2 (scan_x_byte b EmptyString Hb)). reflexivity.
  - destruct n as [|n]; [discriminate|].
    change (format_mac (b :: c :: l)) with (hex_byte b ++ String ":" (format_mac (c :: l)))%string.
    cbn [scan_mac]. rewrite (proj1 (scan_x_byte b _ Hb)).
    rewrite (IH n Hl' Ln). reflexivity.
Qed.

Lemma hex_byte_chars b : is_byte b -> lacks (chr 0) (hex_byte b) = true.
Proof.
  revert b. apply byte_cases. intros n Hn.
  assert (E : forallb (fun n => lacks (chr 0) (hex_byte (Z.of_nat n))) (seq 0 256) = true)
    by (vm_compute; reflexivity).
  rewrite forallb_forall in E. apply E, in_seq. lia.
Qed.

Lemma format_mac_no_nul l : Forall is_byte l -> lacks (chr 0) (format_mac l) = true.
Proof.
  induction 1 as [|b l Hb Hl IH]; [reflexivity|]. destruct l as [|c l]; [apply hex_byte_chars, Hb|].
  change (format_mac (b :: c :: l)) with (hex_byte b ++ String ":" (format_mac (c :: l)))%string.
  rewrite lacks_app, (hex_byte_chars b Hb). exact IH.
Qed.

(** The loop ends and stays in the buffer when the datagram leaves two bytes
    of it free. *)
Lemma find_msg_type_total fuel : forall buffer n offset,
  wf_bytes buffer -> n <= DHCP_BUFFER - 2 -> 0 <= offset -> (Z.to_nat (n - offset) <= fuel)%nat ->
  exists t, find_msg_type fuel buffer n offset = Done t.
Proof.
  induction fuel as [|fuel IH]; intros buffer n offset Hb Hn Ho Hf; cbn [find_msg_type].
  - destruct (Z.ltb_spec offset n); [lia|]. eauto.
  - destruct (Z.ltb_spec offset n); [|eauto].
    destruct (buffer offset =? 255); [eauto|].
    destruct (buffer offset =? 0); [apply IH; auto; lia|].
    pose proof (Hb (offset + 1)). unfold DHCP_BUFFER in *.
    destruct (Z.leb_spec 2048 (offset + 1)); [lia|].
    destruct (_ && _).
    + destruct (Z.leb_spec 2048 (offset + 2)); [lia|]. eauto.
    + apply IH; auto; lia.
Qed.

(** The bytes [l] lie at [offset]. *)
Definition holds (buffer : bytes) (offset : Z) (l : list Z) : Prop :=
  forall i, (i < List.length l)%nat -> buffer (offset + Z.of_nat i) = nth i l 0.

Lemma holds_cons buffer offset x l :
  holds buffer offset (x :: l) <-> buffer offset = x /\ holds buffer (offset + 1) l.
Proof.
  unfold holds. split.
  - intros H. split.
    + specialize (H 0%nat). cbn in H. rewrite Z.add_0_r in H. apply H. lia.
    + intros i Hi. specialize (H (S i)). cbn [List.length nth] in H.
      replace (offset + 1 + Z.of_nat i) with (offset + Z.of_nat (S i)) by lia. apply H. lia.
  - intros [H1 H2] [|i] Hi; cbn [nth].
    + rewrite Z.add_0_r. exact H1.
    + replace (offset + Z.of_nat (S i)) with (offset + 1 + Z.of_nat i) by lia. apply H2. cbn in Hi. lia.
Qed.

Lemma holds_app buffer offset a b :
  holds buffer offset (a ++ b)
  <-> holds buffer offset a /\ holds buffer (offset + Z.of_nat (List.length a)) b.
Proof.
  revert offset. induction a as [|x a IH]; intros offset.
  - cbn [app List.length]. rewrite Z.add_0_r. split; [|intros [_ H]; exact H].
    intros H. split; [intros i Hi; inversion Hi | exact H].
  - cbn [app]. rewrite !holds_cons, IH. cbn [List.length].
    replace (offset + 1 + Z.of_nat (List.length a)) with (offset + Z.of_nat (S (List.length a))) by lia.
    tauto.
Qed.

Lemma holds_of_list l : holds (of_list l) 0 l.
Proof.
  intros i Hi. unfold of_list. destruct (Z.ltb_spec (0 + Z.of_nat i) 0); [lia|].
  rewrite Z.add_0_l, Nat2Z.id. reflexivity.
Qed.

Lemma holds_to_list buffer offset l :
  holds buffer offset l -> to_list buffer offset (List.length l) = l.
Proof.
  intros H. unfold to_list. apply (nth_ext _ _ 0 0); [rewrite length_map, length_seq; reflexivity|].
  intros i Hi. rewrite length_map, length_seq in Hi.
  rewrite (nth_indep _ 0 (buffer (offset + Z.of_nat 0))) by (rewrite length_map, length_seq; exact Hi).
  rewrite map_nth with (f := fun j => buffer (offset + Z.of_nat j)), seq_nth by exact Hi. apply H, Hi.
Qed.

Definition encode_opts (l : list dhcp_opt) : list Z := flat_map encode_opt l ++ [255].

Lemma encode_opts_length l : (List.length l < List.length (encode_opts l))%nat.
Proof.
  unfold encode_opts. rewrite length_app. cbn [List.length].
  induction l as [|o l IH]; [cbn; lia|]. cbn [flat_map List.length]. rewrite length_app.
  destruct o; cbn [encode_opt dhcp_option List.length] in *; lia.
Qed.

(** The loop finds the message type of a well-formed list of options. *)
Lemma find_msg_type_spec l : forall fuel buffer n offset,
  Forall opt_ok l -> holds buffer offset (encode_opts l) ->
  offset + Z.of_nat (List.length (encode_opts l)) <= n -> n <= DHCP_BUFFER -> 0 <= offset ->
  (List.length l < fuel)%nat ->
  find_msg_type fuel buffer n offset = Done (msg_type_of l).
Proof.
  unfold encode_opts. induction l as [|o l IH]; intros fuel buffer n offset Hok Hh Hn Hm Ho Hf.
  - destruct fuel as [|fuel]; [cbn in Hf; lia|].
    cbn [flat_map app List.length] in *. apply holds_cons in Hh. destruct Hh as [H1 _].
    cbn [find_msg_type]. destruct (Z.ltb_spec offset n); [|lia]. rewrite H1. reflexivity.
  - destruct fuel as [|fuel]; [lia|]. cbn [List.length] in Hf.
    cbn [flat_map] in *. rewrite <- app_assoc in Hh, Hn. rewrite length_app in Hn.
    apply holds_app in Hh. destruct Hh as [H1 H2]. inversion Hok as [|? ? Ho1 Hok']; subst.
    pose proof (length_app (flat_map encode_opt l) [255]) as Le. cbn [List.length] in Le.
    cbn [find_msg_type]. destruct (Z.ltb_spec offset n); [|lia].
    destruct o as [|code value]; cbn [encode_opt] in *.
    + apply holds_cons in H1. destruct H1 as [-> _]. cbn [Z.eqb]. cbn [msg_type_of].
      cbn [List.length] in *. apply IH; auto; lia.
    + unfold dhcp_option in *. cbn [List.length] in *. destruct Ho1 as [Hc Hv].
      apply holds_cons in H1. destruct H1 as [-> H1]. apply holds_cons in H1. destruct H1 as [-> H1].
      destruct (Z.eqb_spec code 255); [lia|]. destruct (Z.eqb_spec code 0); [lia|].
      unfold DHCP_BUFFER in *. destruct (Z.leb_spec 2048 (offset + 1)); [lia|].
      replace (offset + 1 + 1) with (offset + 2) in H1 by lia.
      assert (Hrec : find_msg_type fuel buffer n (offset + 2 + Z.of_nat (List.length value))
                     = Done (msg_type_of l)).
      { apply IH; auto; try lia.
        replace (offset + 2 + Z.of_nat (List.length value))
          with (offset + Z.of_nat (S (S (List.length value)))) by lia. exact H2. }
      destruct (Z.eqb_spec code 53) as [->|Hne].
      * destruct value as [|t [|t2 value]]; cbn [List.length] in *; [exact Hrec| |].
        -- cbn [Z.of_nat Pos.of_succ_nat Z.eqb Pos.eqb andb].
           destruct (Z.leb_spec 2048 (offset + 2)); [lia|].
           apply holds_cons in H1. destruct H1 as [-> _]. reflexivity.
        -- destruct (Z.eqb_spec (Z.of_nat (S (S (List.length value)))) 1); [lia|]. exact Hrec.
      * cbn [andb]. replace (msg_type_of (Opt code value :: l)) with (msg_type_of l); [exact Hrec|].
        clear -Hne. destruct code as [|p|p]; try reflexivity.
        do 6 (destruct p as [p|p|]; try reflexivity; try congruence).
Qed.

(** whatever a datagram of at most 2046 bytes holds, the DHCP receiver ends
    its option loop and reads only its own buffer. *)
Theorem dhcp_parse_in_bounds buffer n :
  wf_bytes buffer -> n <= DHCP_BUFFER - 2 -> exists r, dhcp_parse buffer n = Done r.
Proof.
  intros Hb Hn. unfold dhcp_parse. destruct (n <? sizeof_bootp_hdr); [eauto|].
  destruct (_ && _); [|eauto].
  destruct (find_msg_type_total (Z.to_nat n) buffer n sizeof_bootp_hdr Hb Hn) as [t ->];
    [unfold sizeof_bootp_hdr; lia | unfold sizeof_bootp_hdr; lia | eauto].
Qed.

(** A BOOTREQUEST header with the magic cookie. *)
Definition bootrequest : list Z :=
  [1; 1; 6; 0; 0xDD; 0xCC; 0xBB; 0xAA] ++ repeat 0 20 ++ [0; 17; 34; 51; 68; 0xFE]
  ++ repeat 0 202 ++ [0x63; 0x82; 0x53; 0x63].

Lemma wf_of_list l : Forall is_byte l -> wf_bytes (of_list l).
Proof.
  intros H i. unfold of_list. destruct (i <? 0); [lia|].
  destruct (Nat.ltb_spec (Z.to_nat i) (List.length l)) as [Hi|Hi].
  - rewrite Forall_forall in H. apply H, nth_In, Hi.
  - rewrite nth_overflow by exact Hi. lia.
Qed.

Definition is_byte_b (x : Z) : bool := (0 <=? x) && (x <? 256).

Lemma bytes_check l : forallb is_byte_b l = true -> Forall is_byte l.
Proof.
  intros H. apply Forall_forall. intros x Hx. rewrite forallb_forall in H. specialize (H x Hx).
  unfold is_byte_b in H. unfold is_byte. zbool. lia.
Qed.

Lemma dhcp_parse_in_bounds_witness :
  exists r, dhcp_parse (of_list (bootrequest ++ [53; 1; 1; 255])) 244 = Done r.
Proof.
  apply (dhcp_parse_in_bounds (of_list (bootrequest ++ [53; 1; 1; 255])) 244).
  - apply wf_of_list, bytes_check. reflexivity.
  - unfold DHCP_BUFFER. lia.
Defined.

(** the two bytes matter: a datagram that fills the buffer with padding
    and an option code in its last byte makes the receiver read past it. *)
Theorem dhcp_overread :
  exists buffer, wf_bytes buffer /\ dhcp_parse buffer DHCP_BUFFER = Fault.
Proof.
  exists (of_list (bootrequest ++ repeat 0 (Z.to_nat 1807) ++ [12])). split.
  - apply wf_of_list, bytes_check. vm_compute. reflexivity.
  - vm_compute. reflexivity.
Qed.

(** a request with the BOOTP operation and the magic cookie whose options
    are well formed is handed to the core with the hardware address in upper
    case hexadecimal and the transaction identifier, as a Discover or a Request
    by the first message type option; other message types are ignored. *)
Theorem dhcp_request_parsed buffer n chaddr xid l :
  wf_bytes buffer ->
  holds buffer BOOTP_OP [1] -> holds buffer BOOTP_XID (le_bytes 4 xid) ->
  holds buffer BOOTP_CHADDR chaddr -> List.length chaddr = 6%nat ->
  holds buffer BOOTP_MAGIC_COOKIE [0x63; 0x82; 0x53; 0x63] ->
  holds buffer sizeof_bootp_hdr (encode_opts l) -> Forall opt_ok l -> 0 <= xid < 2 ^ 32 ->
  sizeof_bootp_hdr + Z.of_nat (List.length (encode_opts l)) <= n <= DHCP_BUFFER ->
  dhcp_parse buffer n
  = Done (if msg_type_of l =? DHCP_DISCOVER then Some (Discover (format_mac chaddr) xid)
          else if msg_type_of l =? DHCP_REQUEST then Some (Request (format_mac chaddr) xid)
          else None).
Proof.
  intros Hb H1 H2 H3 L3 H4 H5 Hok Hx Hn. unfold dhcp_parse.
  destruct (Z.ltb_spec n sizeof_bootp_hdr); [lia|].
  apply holds_cons in H1. destruct H1 as [-> _].
  apply holds_to_list in H4. cbn [List.length] in H4. rewrite H4.
  apply holds_to_list in H3. rewrite L3 in H3. rewrite H3.
  apply holds_to_list in H2. rewrite le_bytes_length in H2. rewrite H2, le_val_bytes by exact Hx.
  replace ((1 =? 1) && _) with true by reflexivity.
  pose proof (encode_opts_length l). unfold sizeof_bootp_hdr in *.
  rewrite (find_msg_type_spec l) by (auto; lia).
  reflexivity.
Qed.

Lemma dhcp_request_parsed_witness :
  dhcp_parse (of_list (bootrequest ++ encode_opts [Pad; Opt 55 [1; 3]; Opt 53 [3]])) 250
  = Done (Some (Request "00:11:22:33:44:FE" 0xAABBCCDD)).
Proof.
  apply (dhcp_request_parsed _ 250 [0; 17; 34; 51; 68; 0xFE] 0xAABBCCDD [Pad; Opt 55 [1; 3]; Opt 53 [3]]).
  - apply wf_of_list, bytes_check. reflexivity.
  - intros i Hi. do 1 (destruct i; [reflexivity|]). cbn in Hi. lia.
  - intros i Hi. do 4 (destruct i; [reflexivity|]). cbn in Hi. lia.
  - intros i Hi. do 6 (destruct i; [reflexivity|]). cbn in Hi. lia.
  - reflexivity.
  - intros i Hi. do 4 (destruct i; [reflexivity|]). cbn in Hi. lia.
  - intros i Hi. do 9 (destruct i; [reflexivity|]). cbn in Hi. lia.
  - repeat (constructor; [cbn; lia || exact I|]). constructor.
  - lia.
  - unfold sizeof_bootp_hdr, DHCP_BUFFER. cbn. lia.
Defined.

Lemma le_bytes_4 v : exists a b c d, le_bytes 4 v = [a; b; c; d].
Proof.
  pose proof (le_bytes_length 4 v) as L.
  destruct (le_bytes 4 v) as [|a [|b [|c [|d [|? ?]]]]]; try discriminate. eauto.
Qed.

(** the answer to a client, for the address text the receiver made of its
    hardware address, is a BOOTREPLY of 274 bytes that carries the transaction
    identifier, the UE address, the hardware address and the magic cookie at
    their places and the message type as an option. *)
Theorem dhcp_response_spec chaddr ue_ip xid t :
  Forall is_byte chaddr -> List.length chaddr = 6%nat ->
  0 <= ue_ip < 2 ^ 32 -> 0 <= xid < 2 ^ 32 ->
  let d := dhcp_response (format_mac chaddr) ue_ip xid t in
  let buffer := of_list d in
  List.length d = 274%nat
  /\ buffer BOOTP_OP = 2
  /\ le_val (to_list buffer BOOTP_XID 4) = xid
  /\ le_val (to_list buffer BOOTP_YIADDR 4) = ue_ip
  /\ le_val (to_list buffer BOOTP_SIADDR 4) = server_ip
  /\ to_list buffer BOOTP_CHADDR 6 = chaddr
  /\ ntohl (le_val (to_list buffer BOOTP_MAGIC_COOKIE 4)) = MAGIC_COOKIE
  /\ find_msg_type 274 buffer 274 sizeof_bootp_hdr = Done t.
Proof.
  intros Hc Lc Hu Hx d buffer. subst buffer d. unfold dhcp_response.
  rewrite c_str_lacks by apply format_mac_no_nul, Hc.
  rewrite scan_format_mac by assumption.
  replace (map u8 chaddr) with chaddr.
  2:{ symmetry. rewrite <- (map_id chaddr) at 2. apply map_ext_in. intros b Hb.
      rewrite Forall_forall in Hc. apply Z.mod_small, Hc, Hb. }
  pose proof (le_val_bytes 4 ue_ip Hu) as Eu. pose proof (le_val_bytes 4 xid Hx) as Ex.
  destruct (le_bytes_4 ue_ip) as (u0 & u1 & u2 & u3 & Hu4). rewrite Hu4 in *.
  destruct (le_bytes_4 xid) as (x0 & x1 & x2 & x3 & Hx4). rewrite Hx4 in *.
  destruct chaddr as [|c0 [|c1 [|c2 [|c3 [|c4 [|c5 [|? ?]]]]]]]; try discriminate.
  repeat split; try reflexivity; try assumption.
Qed.

Lemma dhcp_response_spec_witness :
  let d := dhcp_response (format_mac [0; 17; 34; 51; 68; 0xFE]) 0x0A00000A 7 DHCP_OFFER in
  List.length d = 274%nat /\ of_list d BOOTP_OP = 2.
Proof.
  destruct (dhcp_response_spec [0; 17; 34; 51; 68; 0xFE] 0x0A00000A 7 DHCP_OFFER) as (H1 & H2 & _).
  - apply bytes_check. reflexivity.
  - reflexivity.
  - lia.
  - lia.
  - exact (conj H1 H2).
Defined.
