(* ===== verification/TwagS2a.v ===== *)
(** The GTPv2-C side of the gateway (s2a_interface.cpp), without its sockets:
    the requests it fills in and encodes, and what
    [S2aInterface::handle_udp_rx] makes of a datagram.  The messages are those
    of libgtpv2c (GtpMessages2); a stack buffer that is not initialised is an
    arbitrary memory. *)

From Stdlib Require Import ZArith List Lia Bool String Ascii.
From S2P Require Import Prelude EncDecBits WireFormat IeFormat GtpDefs GtpIes1 GtpIes2 GtpIesVar GtpImsi.
From S2P Require Import GtpMessage GtpGrouped GtpGroupedIes GtpMessages2 GtpZero TwagNet.
Import ListNotations.
Open Scope Z_scope.

Definition CREATE_SESS_REQ : Z := 32.
Definition CREATE_SESS_RSP : Z := 33.
Definition DEL_SESS_REQ : Z := 36.
Definition DEL_BEARER_REQ : Z := 99.
Definition DEL_BEARER_RSP : Z := 100.

(** * Small functions *)

(** The digit at [i], or the filler, for the eight bytes of the packed IMSI. *)
Definition bcd_nibble (imsi : string) (len i : nat) : Z :=
  if (i <? len)%nat then u8 (match String.get i imsi with Some c => ord c | None => 0 end - 48)
  else 0x0f.

Definition encode_imsi_bcd (imsi : string) : Z :=
  let len := Nat.min (String.length imsi) 15 in
  le_val (map (fun i => u8 (Z.lor (Z.shiftl (bcd_nibble imsi len (2 * i + 1)) 4)
                                  (bcd_nibble imsi len (2 * i)))) (seq 0 8)).

Definition map_qci_to_dscp (qci : Z) : Z :=
  match qci with
  | 1 => 46
  | 2 => 46
  | 5 => 24
  | 6 => 18
  | 7 => 20
  | 8 => 10
  | 9 => 0
  | _ => 0
  end.

(** * Requests *)

(** A header without TEID: [seq] is the sequence number of [no_teid]. *)
Definition no_teid_header (message_type seq : Z) : gtpv2c_header_t :=
  Build_gtpv2c_header_t 0 0 0 2 message_type 0 seq 0 0.

(** [req.apn]: the length prefix and the name, in [apn[APN_LEN]]; [None] when
    the copy runs past the array. *)
Definition apn_ie (apn : string) : option gtp_acc_pt_name_ie.gtp_acc_pt_name_ie_t :=
  let name := u8 (Z.of_nat (String.length apn)) :: string_bytes apn in
  if (Z.to_nat APN_LEN <? List.length name)%nat then None
  else Some (gtp_acc_pt_name_ie.Build_gtp_acc_pt_name_ie_t
               (mk_ie_header GTP_IE_ACC_PT_NAME (u16 (Z.of_nat (String.length apn) + 1)) 0)
               (name ++ repeat 0 (Z.to_nat APN_LEN - List.length name))).

(** [htonl(x ? x : 1000000)]. *)
Definition ambr_field (x : Z) : Z := htonl (if x =? 0 then 1000000 else x).

Definition create_session_request (imsi : string) (gtp_teid_c local_ip pdn_type ambr_ul ambr_dl : Z)
    (apn : gtp_acc_pt_name_ie.gtp_acc_pt_name_ie_t) : create_sess_req.create_sess_req_t :=
  let set := @set_ie create_sess_req.create_sess_req_sig in
  let ies := ie (zero : create_sess_req.create_sess_req_t) in
  let ies := set ies create_sess_req.imsi
    (gtp_imsi_ie.Build_gtp_imsi_ie_t (mk_ie_header GTP_IE_IMSI 8 0) (encode_imsi_bcd imsi)) in
  let ies := set ies create_sess_req.rat_type
    (gtp_rat_type_ie.Build_gtp_rat_type_ie_t (mk_ie_header GTP_IE_RAT_TYPE 1 0) 3) in
  let ies := set ies create_sess_req.sender_fteid_ctl_plane
    (gtp_fully_qual_tunn_endpt_idnt_ie.Build_gtp_fully_qual_tunn_endpt_idnt_ie_t
       (mk_ie_header GTP_IE_FULLY_QUAL_TUNN_ENDPT_IDNT 9 0) 1 0 0 gtp_teid_c local_ip
       (repeat 0 (Z.to_nat IPV6_ADDRESS_LEN))) in
  let ies := set ies create_sess_req.apn apn in
  let ies := set ies create_sess_req.pdn_type
    (gtp_pdn_type_ie.Build_gtp_pdn_type_ie_t (mk_ie_header GTP_IE_PDN_TYPE 1 0) 0 (pdn_type mod 8)) in
  let ies := set ies create_sess_req.apn_ambr
    (gtp_agg_max_bit_rate_ie.Build_gtp_agg_max_bit_rate_ie_t
       (mk_ie_header GTP_IE_AGG_MAX_BIT_RATE 8 0) (ambr_field ambr_ul) (ambr_field ambr_dl)) in
  Message (S := create_sess_req.create_sess_req_sig) (no_teid_header CREATE_SESS_REQ 1) ies (fun _ => 0).

Definition delete_session_request (pgw_teid_c : Z) : del_sess_req.del_sess_req_t :=
  Message (S := del_sess_req.del_sess_req_sig)
    (Build_gtpv2c_header_t 0 1 0 2 DEL_SESS_REQ 0 pgw_teid_c 2 0)
    (@set_ie del_sess_req.del_sess_req_sig (ie (zero : del_sess_req.del_sess_req_t)) del_sess_req.lbi
       (gtp_eps_bearer_id_ie.Build_gtp_eps_bearer_id_ie_t (mk_ie_header GTP_IE_EPS_BEARER_ID 1 0) 0 5))
    (count_of (zero : del_sess_req.del_sess_req_t)).

Definition delete_bearer_response (seq : Z) : del_bearer_rsp.del_bearer_rsp_t :=
  Message (S := del_bearer_rsp.del_bearer_rsp_sig) (no_teid_header DEL_BEARER_RSP seq)
    (@set_ie del_bearer_rsp.del_bearer_rsp_sig (ie (zero : del_bearer_rsp.del_bearer_rsp_t))
       del_bearer_rsp.cause
       (gtp_cause_ie.Build_gtp_cause_ie_t (mk_ie_header GTP_IE_CAUSE 2 0) 16 0 0 0 0 0 0 0))
    (fun _ => 0).

(** The bytes an encoder left in a stack buffer that held [stack] before. *)
Definition encoded (e : Z -> enc Z) (stack : bytes) : option (list Z) :=
  match e 0 stack with
  | Some (n, m) => Some (to_list m 0 (Z.to_nat n))
  | None => None
  end.

Definition create_session_datagram (imsi : string) (gtp_teid_c local_ip pdn_type ambr_ul ambr_dl : Z)
    (apn : string) (stack : bytes) : option (list Z) :=
  match apn_ie apn with
  | None => None
  | Some a =>
      encoded (create_sess_req.encode_create_sess_req
                 (create_session_request imsi gtp_teid_c local_ip pdn_type ambr_ul ambr_dl a)) stack
  end.

Definition delete_session_datagram (pgw_teid_c : Z) (stack : bytes) : option (list Z) :=
  encoded (del_sess_req.encode_del_sess_req (delete_session_request pgw_teid_c)) stack.

(** * Receiving *)

Inductive s2a_event :=
| CreateResponse (dest_teid : Z) (success : bool) (pgw_teid ue_ip qci : Z)
| DeleteBearer (dest_teid : Z) (reply : list Z).

Definition header_type {T} `{IeMember T} (x : T) : Z := hdr_type (member_header x).

Definition teid_of (buffer : bytes) : Z :=
  if negb (Z.land (buffer 0) 0x08 =? 0) then ntohl (le_val (to_list buffer 4 4)) else 0.

(** What the code takes from a decoded create session response: its elements
    and the number of bearer contexts. *)
Definition create_response_event (dest_teid : Z)
    (rsp : forall f : create_sess_rsp.create_sess_rsp_member, create_sess_rsp.create_sess_rsp_type f)
    (bearer_count : Z) : s2a_event :=
  let ctxt := rsp (create_sess_rsp.bearer_contexts_created 0) in
  let s2a := g_ie ctxt gtp_create_sess_response_bearer_ctxt_created_ie.s2a_u_pgw_fteid in
  let s5s8 := g_ie ctxt gtp_create_sess_response_bearer_ctxt_created_ie.s5s8_u_pgw_fteid in
  let qos := g_ie ctxt gtp_create_sess_response_bearer_ctxt_created_ie.bearer_lvl_qos in
  let paa := rsp create_sess_rsp.paa in
  let bearers := 0 <? bearer_count in
  let pgw_teid :=
    if bearers then
      if negb (header_type s2a =? 0) then gtp_fully_qual_tunn_endpt_idnt_ie.teid_gre_key s2a
      else if negb (header_type s5s8 =? 0) then gtp_fully_qual_tunn_endpt_idnt_ie.teid_gre_key s5s8
      else 0
    else 0 in
  let qci :=
    if bearers && negb (header_type qos =? 0) then gtp_bearer_qlty_of_svc_ie.qci qos else 9 in
  let ue_ip :=
    if negb (header_type paa =? 0)
    then Z.land (gtp_pdn_addr_alloc_ie.pdn_addr_and_pfx paa) 0xFFFFFFFF else 0 in
  CreateResponse dest_teid true pgw_teid ue_ip qci.

(** Enough passes for any loop of a decoder that ends. *)
Definition decode_fuel : nat := Z.to_nat 65536.

(** [handle_udp_rx] up to the calls into the core; [buffer] holds the datagram
    of [n] bytes and whatever was on the stack behind it, [stack] is the
    reply's buffer. *)
Definition s2a_rx (buffer stack : bytes) (n : Z) : outcome (option s2a_event) :=
  if (4 <=? n) && (buffer 1 =? CREATE_SESS_RSP) then
    match create_sess_rsp.decode_create_sess_rsp decode_fuel buffer 0 zero with
    | Done (r, rsp) =>
        Done (if 0 <? r
              then Some (create_response_event (teid_of buffer) (ie rsp)
                           (count_of rsp create_sess_rsp.bearer_count))
              else None)
    | Fault => Fault
    | OutOfFuel => OutOfFuel
    end
  else if (4 <=? n) && (buffer 1 =? DEL_BEARER_REQ) then
    match del_bearer_req.decode_del_bearer_req decode_fuel buffer 0 zero with
    | Done (r, req) =>
        if 0 <? r then
          let seq := if negb (Z.land (buffer 0) 0x08 =? 0) then teid_has_teid_seq (header req)
                     else teid_no_teid_seq (header req) in
          match encoded (del_bearer_rsp.encode_del_bearer_rsp (delete_bearer_response seq)) stack with
          | Some reply => Done (Some (DeleteBearer (teid_of buffer) reply))
          | None => Fault
          end
        else Done None
    | Fault => Fault
    | OutOfFuel => OutOfFuel
    end
  else Done None.

(** * The IMSI of the request *)

(** The first digits of a long number. *)
Lemma dec_digits_split k : forall f v,
  10 ^ Z.of_nat k <= v ->
  exists rest, List.length rest = k
    /\ dec_digits (k + f) v = dec_digits f (v / 10 ^ Z.of_nat k) ++ rest.
Proof.
  induction k as [|k IH]; intros f v Hv.
  - exists []. cbn [Nat.add Z.of_nat]. rewrite Z.pow_0_r, Z.div_1_r, app_nil_r. auto.
  - rewrite Nat2Z.inj_succ, Z.pow_succ_r in * by lia.
    assert (0 < 10 ^ Z.of_nat k) by (apply Z.pow_pos_nonneg; lia).
    cbn [Nat.add dec_digits]. destruct (Z.ltb_spec v 10); [nia|].
    destruct (IH f (v / 10)) as (rest & L & E).
    { apply Z.div_le_lower_bound; lia. }
    exists (rest ++ [v mod 10]). rewrite length_app, L. split; [cbn [List.length]; lia|].
    rewrite E, app_assoc. rewrite Z.div_div by lia. reflexivity.
Qed.

Fixpoint all_digits (s : string) : bool :=
  match s with
  | EmptyString => true
  | String c s => digit_char c && all_digits s
  end.

Lemma get_digit s i : all_digits s = true -> (i < String.length s)%nat ->
  exists c, String.get i s = Some c /\ 48 <= ord c <= 57.
Proof.
  revert i. induction s as [|c s IH]; intros i H Hi; [cbn in Hi; lia|].
  cbn [all_digits] in H. apply andb_true_iff in H. destruct H as [H1 H2].
  unfold digit_char in H1. zbool. destruct i as [|i].
  - exists c. cbn. split; [reflexivity|lia].
  - cbn [String.get]. apply IH; [exact H2|cbn in Hi; lia].
Qed.

(** The packed IMSI starts, in its most significant byte, with the filler. *)
Lemma encode_imsi_bcd_range imsi :
  String.length imsi = 15%nat -> all_digits imsi = true ->
  240 * 2 ^ 56 <= encode_imsi_bcd imsi < 250 * 2 ^ 56.
Proof.
  intros L D. unfold encode_imsi_bcd. rewrite L. cbn [Nat.min].
  replace (seq 0 8) with (seq 0 7 ++ [7%nat]) by reflexivity. rewrite map_app. cbn [map].
  set (b := fun i => u8 _). set (l := map b (seq 0 7)).
  assert (R : Forall (fun x => 0 <= x < 256) l).
  { apply Forall_forall. intros x Hx. apply in_map_iff in Hx. destruct Hx as (i & <- & _).
    apply Z.mod_pos_bound. lia. }
  pose proof (le_val_range l R) as Rl. replace (List.length l) with 7%nat in Rl
    by (unfold l; rewrite length_map, length_seq; reflexivity).
  rewrite le_val_snoc. replace (List.length l) with 7%nat by (unfold l; rewrite length_map, length_seq; reflexivity).
  change (8 * Z.of_nat 7) with 56 in *.
  destruct (get_digit imsi 14 D ltac:(lia)) as (c & Ec & Hc).
  assert (B : b 7%nat = 0xF0 + (ord c - 48)).
  { unfold b, bcd_nibble. cbn [Nat.mul Nat.add Nat.ltb Nat.leb]. rewrite Ec.
    assert (Hd : is_digit (ord c - 48)) by (unfold is_digit; lia).
    revert Hd. generalize (ord c - 48). intros d Hd.
    pattern d. revert d Hd. apply digit_ind; reflexivity. }
  unfold b in B. cbv beta in B. rewrite B. lia.
Qed.

(** the IMSI element of every create session request for a subscriber with
    fifteen digits starts with the digits 17 or 18, whatever the IMSI: the code
    packs the digits into the number before [encode_imsi] prints that number
    in decimal. *)
Theorem imsi_on_the_wire imsi p m :
  String.length imsi = 15%nat -> all_digits imsi = true ->
  exists m', encode_imsi (encode_imsi_bcd imsi) 8 p m = Some (tt, m') /\ (m' p = 0x71 \/ m' p = 0x81).
Proof.
  intros L D. pose proof (encode_imsi_bcd_range imsi L D) as R.
  set (v := encode_imsi_bcd imsi) in *.
  destruct (dec_digits_split 18 1 v) as (rest & Lr & E); [change (10 ^ Z.of_nat 18) with (10^18); lia|].
  change (10 ^ Z.of_nat 18) with (10^18) in E. change (dec_digits (18 + 1) v) with (digits v) in E.
  assert (Hq : v / 10^18 = 17 \/ v / 10^18 = 18) by (Z.div_mod_to_equations; lia).
  assert (Hd : digits v = [1; 7] ++ rest \/ digits v = [1; 8] ++ rest)
    by (rewrite E; destruct Hq as [-> | ->]; [left | right]; reflexivity).
  assert (Ld : List.length (digits v) = 20%nat)
    by (destruct Hd as [-> | ->]; rewrite length_app, Lr; reflexivity).
  unfold encode_imsi. rewrite Ld.
  destruct (encode_imsi_loop_spec (Z.to_nat 8) 0 (printed v) p m) as (m' & -> & Hm).
  { rewrite printed_length by lia. cbn. lia. }
  exists m'. split; [reflexivity|]. rewrite Hm.
  replace ((p + Z.of_nat 0 <=? p) && (p <? p + Z.of_nat (0 + Z.to_nat 8))) with true
    by (symmetry; apply andb_true_iff; split; [apply Z.leb_le | apply Z.ltb_lt]; lia).
  rewrite Z.sub_diag. cbn [Z.to_nat Nat.mul Nat.add].
  unfold printed. destruct Hd as [-> | ->]; cbn [app map nth]; [left | right]; reflexivity.
Qed.

Lemma imsi_on_the_wire_witness :
  exists m', encode_imsi (encode_imsi_bcd "001010123456789") 8 0 (fun _ => 0) = Some (tt, m')
             /\ (m' 0 = 0x71 \/ m' 0 = 0x81).
Proof. apply (imsi_on_the_wire "001010123456789" 0 (fun _ => 0)); reflexivity. Defined.

(** * A response of the P-GW *)

Lemma zero_shape (f : member create_sess_rsp.create_sess_rsp_sig) :
  ie_shape (ie (zero : create_sess_rsp.create_sess_rsp_t) f).
Proof.
  destruct f; cbn; try exact I; try (repeat split; reflexivity);
    intros g; destruct g; cbn; try exact I; repeat split; reflexivity.
Qed.

Lemma ntohl_getbits m p : wf_bytes m -> ntohl (le_val (to_list m p 4)) = getbits m (8 * p) 32.
Proof.
  intros Hm. unfold ntohl, htonl. unfold to_list. cbn [seq map].
  set (l := [_; _; _; _]).
  assert (R : Forall (fun x => 0 <= x < 256) l) by (repeat (constructor; [apply Hm|]); constructor).
  pose proof (le_bytes_val l R) as E. change (List.length l) with 4%nat in E. rewrite E.
  subst l. cbn [rev app le_val]. change (Z.of_nat 0) with 0. change (Z.of_nat 1) with 1.
  change (Z.of_nat 2) with 2. change (Z.of_nat 3) with 3. rewrite Z.add_0_r.
  change 32 with (8 + (8 + (8 + 8))).
  rewrite (getbits_split m _ 8 (8 + (8 + 8))), (getbits_split m _ 8 (8 + 8)), (getbits_split m _ 8 8) by lia.
  replace (8 * p + 8 + 8 + 8) with (8 * (p + 3)) by lia.
  replace (8 * p + 8 + 8) with (8 * (p + 2)) by lia. replace (8 * p + 8) with (8 * (p + 1)) by lia.
  rewrite !getbits_byte by exact Hm.
  change (2 ^ (8 + (8 + 8))) with 16777216. change (2 ^ (8 + 8)) with 65536. change (2 ^ 8) with 256. rewrite ?Z.add_0_r. lia.
Qed.

Lemma land_8 b : 0 <= b -> (Z.land b 0x08 =? 0) = (Z.land (Z.shiftr b 3) 1 =? 0).
Proof.
  intros Hb. replace (Z.land b 8) with (Z.shiftl (Z.land (Z.shiftr b 3) 1) 3).
  - rewrite Z.shiftl_mul_pow2 by lia. apply eq_true_iff_eq. rewrite !Z.eqb_eq. lia.
  - apply Z.bits_inj'. intros n Hn. rewrite Z.shiftl_spec, Z.land_spec by lia.
    destruct (Z.ltb_spec n 3).
    + rewrite Z.testbit_neg_r by lia. symmetry. rewrite Z.land_spec.
      replace (Z.testbit 8 n) with false; [apply andb_false_r|].
      symmetry. change 8 with (2 ^ 3). apply Z.pow2_bits_false. lia.
    + rewrite Z.land_spec, Z.shiftr_spec by lia. replace (n - 3 + 3) with n by lia. f_equal.
      change 8 with (2 ^ 3). change 1 with (2 ^ 0). rewrite !Z.pow2_bits_eqb by lia.
      apply eq_true_iff_eq. rewrite !Z.eqb_eq. lia.
Qed.

(** The TEID the gateway takes from the raw bytes is that of the header. *)
Lemma teid_of_header m old :
  wf_bytes m ->
  teid_of m = let h := snd (decode_gtpv2c_header_t m 0 old) in
              if negb (gtpc_teid_flag h =? 0) then teid_has_teid_teid h else 0.
Proof.
  intros Hm. unfold teid_of, decode_gtpv2c_header_t. cbv zeta. rewrite land_8 by apply Hm.
  destruct (Z.eqb_spec (Z.land (Z.shiftr (m 0) 3) 1) 0) as [E|E]; cbn [negb snd gtpc_teid_flag].
  - rewrite E. reflexivity.
  - apply Z.eqb_neq in E. rewrite E. cbn [negb teid_has_teid_teid]. apply ntohl_getbits, Hm.
Qed.

Lemma decode_message_header {S} (table : list (branch S)) resets guarded fuel m buf old n v :
  decode_message table resets guarded fuel m buf old = Done (n, v) ->
  header v = snd (decode_gtpv2c_header_t m buf (header old)).
Proof.
  unfold decode_message. destruct (decode_gtpv2c_header_t m buf (header old)) as [c h]. cbn [snd].
  destruct (decode_loop _ _ _ _ _ _ _) as [[? [? ?]]| |]; intros E; try discriminate.
  injection E as _ <-. reflexivity.
Qed.

Definition rsp_sent : create_sess_rsp.create_sess_rsp_t -> list create_sess_rsp.create_sess_rsp_member :=
  @sent create_sess_rsp.create_sess_rsp_sig create_sess_rsp.encode_create_sess_rsp_order.

(** What the gateway sees of a response over its zeroed structure. *)
Definition rsp_view (value : create_sess_rsp.create_sess_rsp_t)
  : forall f : create_sess_rsp.create_sess_rsp_member, create_sess_rsp.create_sess_rsp_type f :=
  @merged create_sess_rsp.create_sess_rsp_sig (ie value) (ie (zero : create_sess_rsp.create_sess_rsp_t))
    (rsp_sent value).

Lemma sent_fuel {S} (ies : forall f : member S, member_type S f) l :
  Forall (fun f => sendable (ies f)) l -> 4 * Z.of_nat (List.length l) <= total_size ies l.
Proof.
  induction 1 as [|f l Hf _ IH]; [cbn; lia|]. cbn [total_size List.length].
  pose proof (sendable_size _ Hf). lia.
Qed.

(** a create session response that is encoded by the library and sent
    with a TEID reaches the core with that TEID, the user plane TEID of its
    first bearer context (S2a, else S5/S8), its QCI and the IPv4 address of its
    PAA, and always as a success: the cause of the response is not looked at. *)
Theorem create_response_received value counts stack m :
  encodable create_sess_rsp.encode_create_sess_rsp_order value -> wf_bytes m ->
  zeroed m 0 (8 * size_of create_sess_rsp.encode_create_sess_rsp_order value) ->
  NoDup (rsp_sent value) ->
  routed create_sess_rsp.decode_create_sess_rsp_table (ie value) (rsp_sent value)
    (@set_count create_sess_rsp.create_sess_rsp_sig (fun _ => 0) create_sess_rsp.bearer_count 0)
    = Some counts ->
  gtpc_teid_flag (header value) = 1 -> gtpc_message_type (header value) = CREATE_SESS_RSP ->
  exists n m',
    create_sess_rsp.encode_create_sess_rsp value 0 m = Some (n, m')
    /\ s2a_rx m' stack n
       = Done (Some (create_response_event (teid_has_teid_teid (header value)) (rsp_view value)
                       (counts create_sess_rsp.bearer_count))).
Proof.
  intros He Hm Hz Hn Hr Hflag Htype.
  set (order := create_sess_rsp.encode_create_sess_rsp_order) in *.
  set (table := create_sess_rsp.decode_create_sess_rsp_table) in *.
  set (old := zero : create_sess_rsp.create_sess_rsp_t).
  destruct (encode_message_spec order value 0 m He Hm Hz) as (m1 & E1 & Hm1 & _).
  pose proof He as (_ & _ & Hs & Hsz).
  pose proof (sent_fuel _ _ Hs) as Hfuel.
  pose proof (header_size_cases (header value)) as Hhs. unfold size_of in Hsz.
  destruct (message_roundtrip_spec order table [create_sess_rsp.bearer_count] value old
    false 0 m counts decode_fuel He Hm Hz Hn zero_shape) as (m' & E & D);
    [exact Hr | discriminate | unfold decode_fuel; lia |].
  rewrite E1 in E. injection E as <-.
  exists (size_of order value), m1. split; [exact E1|].
  pose proof (decode_message_header _ _ _ _ _ _ _ _ _ D) as Hh. cbn [header] in Hh.
  assert (Ht : m1 1 = CREATE_SESS_RSP).
  { rewrite <- Htype. transitivity (gtpc_message_type (snd (decode_gtpv2c_header_t m1 0 (header old)))).
    - unfold decode_gtpv2c_header_t. cbv zeta. destruct (negb _); reflexivity.
    - rewrite <- Hh. unfold merge_header. cbn. destruct (_ =? 1); reflexivity. }
  unfold s2a_rx. rewrite Ht, Z.eqb_refl.
  destruct (Z.leb_spec 4 (size_of order value)) as [_|Hx];
    [|unfold size_of in Hx; change (sent order value) with (rsp_sent value) in *; lia].
  cbn [andb]. unfold create_sess_rsp.decode_create_sess_rsp. fold table old. rewrite D.
  destruct (Z.ltb_spec 0 (size_of order value)) as [_|Hx];
    [|unfold size_of in Hx; change (sent order value) with (rsp_sent value) in *; lia].
  rewrite (teid_of_header m1 (header old) Hm1), <- Hh. cbv zeta. cbn [ie count_of].
  unfold merge_header, with_len. cbn. rewrite Hflag. reflexivity.
Qed.

(** A response that rejects the session and still carries an address. *)
Definition rejected_response : create_sess_rsp.create_sess_rsp_t :=
  let set := @set_ie create_sess_rsp.create_sess_rsp_sig in
  let ctxt := Grouped (S := gtp_create_sess_response_bearer_ctxt_created_ie.gtp_create_sess_response_bearer_ctxt_created_ie_sig)
    (mk_ie_header 93 13 0)
    (@set_ie gtp_create_sess_response_bearer_ctxt_created_ie.gtp_create_sess_response_bearer_ctxt_created_ie_sig
       (g_ie zero) gtp_create_sess_response_bearer_ctxt_created_ie.s2a_u_pgw_fteid
       (gtp_fully_qual_tunn_endpt_idnt_ie.Build_gtp_fully_qual_tunn_endpt_idnt_ie_t
          (mk_ie_header 87 9 5) 1 0 37 0x11223344 0x0100007F (repeat 0 16)))
    (g_count zero) in
  let ies := ie (zero : create_sess_rsp.create_sess_rsp_t) in
  let ies := set ies create_sess_rsp.cause
    (gtp_cause_ie.Build_gtp_cause_ie_t (mk_ie_header 2 2 0) 73 0 0 0 0 0 0 0) in
  let ies := set ies create_sess_rsp.paa
    (gtp_pdn_addr_alloc_ie.Build_gtp_pdn_addr_alloc_ie_t (mk_ie_header 79 5 0) 0 1 0x0500000A 0 (repeat 0 16)) in
  let ies := set ies (create_sess_rsp.bearer_contexts_created 0) ctxt in
  Message (S := create_sess_rsp.create_sess_rsp_sig)
    (Build_gtpv2c_header_t 0 1 0 2 CREATE_SESS_RSP 0 42 1 0) ies (fun _ => 1).

Lemma rejected_sent :
  rsp_sent rejected_response
  = [create_sess_rsp.cause; create_sess_rsp.paa; create_sess_rsp.bearer_contexts_created 0].
Proof. vm_compute. reflexivity. Qed.

Lemma repeat_bytes n : Forall (fun x => 0 <= x < 256) (repeat 0 n).
Proof. apply Forall_forall. intros x Hx. apply repeat_spec in Hx. lia. Qed.

Ltac fits := vm_compute; repeat (constructor || (intros H; discriminate H)).


Lemma rejected_encodable :
  encodable create_sess_rsp.encode_create_sess_rsp_order rejected_response.
Proof.
  unfold encodable. fold (rsp_sent rejected_response). unfold size_of. fold (rsp_sent rejected_response).
  rewrite rejected_sent. split; [vm_compute; discriminate|]. split; [fits|]. split; [|vm_compute; reflexivity].
  repeat apply Forall_cons; [| | |apply Forall_nil].
  - split; [split; [cbn; auto | fits]|reflexivity].
  - split; [split; fits|reflexivity].
  - split; [split; [|fits]|reflexivity].
    set (ctxt := ie rejected_response (create_sess_rsp.bearer_contexts_created 0)).
    change (g_ok gtp_create_sess_response_bearer_ctxt_created_ie.encode_gtp_create_sess_response_bearer_ctxt_created_ie_order
              gtp_create_sess_response_bearer_ctxt_created_ie.decode_gtp_create_sess_response_bearer_ctxt_created_ie_table ctxt).
    unfold g_ok. set (sent := g_sent _ ctxt).
    replace sent with [gtp_create_sess_response_bearer_ctxt_created_ie.s2a_u_pgw_fteid]
      by (vm_compute; reflexivity).
    split; [vm_compute; discriminate|]. split; [repeat constructor; intros []|].
    split; [|split; [|split; vm_compute; reflexivity]].
    + constructor; [|constructor]. split; [split; fits|reflexivity].
    + constructor; [reflexivity|constructor].
Qed.

Lemma create_response_received_witness :
  exists n m',
    create_sess_rsp.encode_create_sess_rsp rejected_response 0 (fun _ => 0) = Some (n, m')
    /\ s2a_rx m' (fun _ => 0) n = Done (Some (CreateResponse 42 true 0x11223344 0x0500000A 9)).
Proof.
  destruct (create_response_received rejected_response
    (@set_count create_sess_rsp.create_sess_rsp_sig
       (@set_count create_sess_rsp.create_sess_rsp_sig (fun _ => 0) create_sess_rsp.bearer_count 0)
       create_sess_rsp.bearer_count 1)
    (fun _ => 0) (fun _ => 0)) as (n & m' & E & D).
  - exact rejected_encodable.
  - intros i. lia.
  - intros k _. unfold mbit, bit8. apply Z.bits_0.
  - rewrite rejected_sent. repeat constructor; cbn; intuition discriminate.
  - rewrite rejected_sent. vm_compute. reflexivity.
  - reflexivity.
  - reflexivity.
  - exists n, m'. split; [exact E|]. rewrite D. vm_compute. reflexivity.
Defined.

(** The request for a sample subscriber with the PDN type in the byte [t]. *)
Definition sample_request (t : Z) : list Z :=
  [0x40; 32; 0; 64; 0; 0; 1; 0]
  ++ [1; 0; 8; 0; 0x71; 0x89; 0x40; 0x15; 0x73; 0x26; 0x09; 0x29]
  ++ [82; 0; 1; 0; 3]
  ++ [87; 0; 9; 0; 0x80; 0; 0; 0; 7; 127; 0; 0; 1]
  ++ [71; 0; 9; 0; 8] ++ string_bytes "internet"
  ++ [99; 0; 1; 0; t]
  ++ [72; 0; 8; 0; 0x40; 0x42; 0x0F; 0; 0x40; 0x42; 0x0F; 0].

(** the create session request of a sample subscriber, byte by byte: the
    default bit rate of 1000000 goes out with its bytes reversed, and over a
    dirty stack the spare bits of the PDN type hold bits of the stack, the one
    byte that depends on it. *)
Theorem create_session_request_sample :
  let request := create_session_datagram "001010123456789" 7 (htonl 0x7F000001) 1 0 0 "internet" in
  request (fun _ => 0) = Some (sample_request 1)
  /\ request (fun _ => 0xFF) = Some (sample_request 0x51).
Proof. split; vm_compute; reflexivity. Qed.

(** * The encoders return *)

Lemma encode_imsi_total v p m :
  0 <= v < 2 ^ 64 -> exists m', encode_imsi v 8 p m = Some (tt, m').
Proof.
  intros Hv. unfold encode_imsi.
  destruct (encode_imsi_loop_spec (Z.to_nat 8) 0 (printed v) p m) as (m1 & -> & _).
  { rewrite printed_length by exact Hv. cbn. lia. }
  destruct (Nat.odd _); [|eauto]. change (8 <? 1) with false. cbv iota.
  destruct (nth_error (printed v) (Z.to_nat (8 - 1) * 2)) as [lo|] eqn:E; [eauto|].
  apply nth_error_None in E. rewrite printed_length in E by exact Hv. cbn in E. lia.
Qed.

Lemma encode_imsi_bcd_u64 imsi : 0 <= encode_imsi_bcd imsi < 2 ^ 64.
Proof.
  unfold encode_imsi_bcd. set (l := map _ _).
  assert (R : Forall (fun x => 0 <= x < 256) l).
  { apply Forall_forall. intros x Hx. apply in_map_iff in Hx. destruct Hx as (i & <- & _).
    apply Z.mod_pos_bound. lia. }
  pose proof (le_val_range l R) as H. replace (List.length l) with 8%nat in H by reflexivity. exact H.
Qed.

Lemma put_bytes_total src n buf encoded m :
  n <= Z.of_nat (List.length src) -> exists r, put_bytes src n buf encoded m = Some r.
Proof. intros H. unfold put_bytes. destruct (Z.leb_spec n (Z.of_nat (List.length src))); [eauto|lia]. Qed.

(** Run an encoder over a memory nothing is known of. *)
Ltac encode_steps tac :=
  repeat (cbv beta iota zeta;
    match goal with
    | |- context [encode_bits ?a ?b ?c ?d ?e] => destruct (encode_bits a b c d e) as [? ?]
    | |- context [encode_imsi ?a ?b ?c ?d] =>
        let m := fresh "m" in destruct (encode_imsi_total a c d ltac:(tac)) as [m ->]
    | |- context [put_bytes ?a ?b ?c ?d ?e] =>
        let m := fresh "m" in destruct (put_bytes_total a b c d e ltac:(tac)) as [[? ?] ->]
    end).

Lemma create_session_datagram_total imsi tc ip pt ul dl apn stack : (String.length apn <= 127)%nat -> exists l, create_session_datagram imsi tc ip pt ul dl apn stack = Some l.
Proof.
  intros Ha. unfold create_session_datagram, apn_ie.
  cbn [List.length]. rewrite string_bytes_length.
  destruct (Nat.ltb_spec (Z.to_nat APN_LEN) (S (String.length apn))) as [H|_]; [unfold APN_LEN in H; lia|].
  set (x := gtp_acc_pt_name_ie.Build_gtp_acc_pt_name_ie_t _ _).
  assert (Hh : gtp_acc_pt_name_ie.header x = mk_ie_header GTP_IE_ACC_PT_NAME (Z.of_nat (String.length apn) + 1) 0)
    by (unfold x; cbn; unfold u16; rewrite Z.mod_small by lia; reflexivity).
  assert (Hl : List.length (gtp_acc_pt_name_ie.apn x) = 128%nat).
  { unfold x. cbn [gtp_acc_pt_name_ie.apn]. rewrite length_app, repeat_length. cbn [List.length].
    rewrite string_bytes_length. change (Z.to_nat APN_LEN) with 128%nat. lia. }
  clearbody x. unfold encoded.
  enough (exists r, create_sess_req.encode_create_sess_req (create_session_request imsi tc ip pt ul dl x) 0 stack = Some r)
    as [[n m] ->] by eauto.
  destruct x as [h a]. cbn in Hh, Hl. subst h.
  assert (Hn : 0 < Z.of_nat (String.length apn) + 1 <= 128) by lia.
  revert Hn. generalize (Z.of_nat (String.length apn) + 1). intros n Hn.
  destruct n as [|n|n]; try lia.
  unfold create_sess_req.encode_create_sess_req.
  cbv -[upd Z.lor Z.land Z.shiftl Z.shiftr Z.modulo Z.div Z.add Z.mul Z.sub Z.opp encode_bits u8 u16
    encode_imsi encode_imsi_bcd put_bytes le_bytes repeat ambr_field].
  encode_steps ltac:(idtac; first [apply encode_imsi_bcd_u64 | rewrite Hl; lia | rewrite le_bytes_length; lia]).
  eauto.
Qed.

Lemma delete_session_datagram_total t stack : exists l, delete_session_datagram t stack = Some l.
Proof.
  unfold delete_session_datagram, encoded.
  enough (exists r, del_sess_req.encode_del_sess_req (delete_session_request t) 0 stack = Some r)
    as [[n m] ->] by eauto.
  unfold del_sess_req.encode_del_sess_req.
  cbv -[upd Z.lor Z.land Z.shiftl Z.shiftr Z.modulo Z.div Z.add Z.mul Z.sub Z.opp encode_bits u8 u16].
  encode_steps ltac:(idtac). eauto.
Qed.
