(* ===== verification/TwagSta.v ===== *)
(** The Diameter side of the gateway (sta_interface.cpp): the attribute-value
    pairs of the requests [send_der] and [send_str] compose, and what [dea_cb]
    and [asr_cb] extract from a message.

    A message is a tree of AVPs identified by code and vendor; the dictionary,
    which freeDiameter loads at run time, is a parameter: [dict name] is the
    code and vendor of an AVP it defines. *)

From Stdlib Require Import ZArith List Lia Bool String Ascii.
From S2P Require Import Prelude EncDecBits WireFormat IeFormat TwagNet.
Import ListNotations.
Open Scope Z_scope.

(** [union avp_value], with a field per view of it. *)
Record avp_value := { os : string; u32_of : Z; i32_of : Z }.

Inductive avp := Avp (avp_code avp_vendor : Z) (value : option avp_value) (children : list avp).

Definition avp_key (a : avp) : Z * Z := match a with Avp c v _ _ => (c, v) end.
Definition avp_val (a : avp) : option avp_value := match a with Avp _ _ x _ => x end.
Definition avp_children (a : avp) : list avp := match a with Avp _ _ _ l => l end.

Definition key_eqb (a b : Z * Z) : bool := (fst a =? fst b) && (snd a =? snd b).

(** [fd_msg_search_avp]: the first child with the code and vendor. *)
Definition fd_msg_search_avp (children : list avp) (what : Z * Z) : option avp :=
  find (fun a => key_eqb (avp_key a) what) children.

Definition DIAMETER_SUCCESS : Z := 2001.
Definition DIAMETER_MULTI_ROUND_AUTH : Z := 1001.
Definition DIAMETER_UNABLE_TO_DELIVER : Z := 3002.

(** * Session identifiers *)

Definition SEMI : ascii := ";".

Definition session_id (mac : string) : string := ("twag;" ++ mac)%string.

(** [sid.substr(sid.find(';') + 1)]. *)
Definition mac_of_session_id (sid : string) : option string :=
  match str_find SEMI sid with
  | Some delim => Some (str_drop (delim + 1) sid)
  | None => None
  end.

(** * Requests *)

Definition os_value (s : string) : avp_value := {| os := s; u32_of := 0; i32_of := 0 |}.
Definition u32_value (x : Z) : avp_value := {| os := EmptyString; u32_of := x; i32_of := 0 |}.
Definition i32_value (x : Z) : avp_value := {| os := EmptyString; u32_of := 0; i32_of := x |}.

Inductive diameter_cmd := DER | STR | ASA.

(** A request: its command and the AVPs added to it, by name; [Origin] stands
    for the Origin-Host and Origin-Realm of [fd_msg_add_origin]. *)
Inductive added_avp := Named (name : string) (v : avp_value) | Origin.

(** An AVP is added when [fd_msg_avp_new] succeeds for it. *)
Definition add (avp_new_ok : string -> bool) (name : string) (v : avp_value) : list added_avp :=
  if avp_new_ok name then [Named name v] else [].

Definition der_avps (avp_new_ok : string -> bool) (mac aaa_realm eap_domain eap_payload : string)
  : list added_avp :=
  add avp_new_ok "Session-Id" (os_value (session_id mac))
  ++ [Origin]
  ++ add avp_new_ok "Destination-Realm" (os_value aaa_realm)
  ++ add avp_new_ok "Auth-Request-Type" (i32_value 1)
  ++ add avp_new_ok "User-Name" (os_value (mac ++ "@" ++ eap_domain))
  ++ add avp_new_ok "EAP-Payload" (os_value eap_payload).

Definition str_avps (avp_new_ok : string -> bool) (mac aaa_realm : string) : list added_avp :=
  add avp_new_ok "Session-Id" (os_value (session_id mac))
  ++ [Origin]
  ++ add avp_new_ok "Destination-Realm" (os_value aaa_realm)
  ++ add avp_new_ok "Termination-Cause" (i32_value 1).

(** What [fd_msg_rescode_set] adds to the answer to an abort request. *)
Definition asa_avps : list added_avp := [Named "Result-Code" (u32_value DIAMETER_SUCCESS); Origin].

(** * Answers *)

(** The arguments of [on_dea_received]. *)
Record dea := {
  dea_mac : string;
  dea_result_code : Z;
  dea_eap : string;
  dea_apn : string;
  dea_pdn_type : Z;
  dea_ambr_ul : Z;
  dea_ambr_dl : Z;
  dea_pgw_ip : string
}.

Section Answers.
Context (dict : string -> option (Z * Z)).

(** The AVP of that name among the children, if the dictionary knows it. *)
Definition search (name : string) (children : list avp) : option avp :=
  match dict name with
  | Some k => fd_msg_search_avp children k
  | None => None
  end.

(** Its value, if it has one. *)
Definition search_value (name : string) (children : list avp) : option avp_value :=
  match search name children with
  | Some a => avp_val a
  | None => None
  end.

Definition search_children (name : string) (children : list avp) : list avp :=
  match search name children with
  | Some a => avp_children a
  | None => []
  end.

Definition u32_or (default : Z) (v : option avp_value) : Z :=
  match v with Some v => u32_of v | None => default end.

Definition os_or_empty (v : option avp_value) : string :=
  match v with Some v => os v | None => EmptyString end.

(** The result code of a DEA: success when the AVP is missing, and
    [UNABLE_TO_DELIVER] taken for success. *)
Definition result_code_of (msg : list avp) : Z :=
  let result_code := u32_or DIAMETER_SUCCESS (search_value "Result-Code" msg) in
  if result_code =? DIAMETER_UNABLE_TO_DELIVER then DIAMETER_SUCCESS else result_code.

(** The P-GW address of a MIP-Home-Agent-Address: family 1 and four octets. *)
Definition home_agent (v : option avp_value) : string :=
  match v with
  | Some v =>
      match string_bytes (os v) with
      | [0; 1; a; b; c; d] => inet_ntop (le_val [a; b; c; d])
      | _ => EmptyString
      end
  | None => EmptyString
  end.

(** [dea_cb] up to the call into the core. *)
Definition dea_cb (msg : list avp) : option dea :=
  match search_value "Session-Id" msg with
  | None => None
  | Some v =>
      match mac_of_session_id (os v) with
      | None => None
      | Some mac =>
          let apn_config := search_children "APN-Configuration" msg in
          let ambr := search_children "AMBR" apn_config in
          Some {| dea_mac := mac;
                  dea_result_code := result_code_of msg;
                  dea_eap := os_or_empty (search_value "EAP-Payload" msg);
                  dea_apn := os_or_empty (search_value "Service-Selection" apn_config);
                  dea_pdn_type := u32_or 0 (search_value "PDN-Type" apn_config);
                  dea_ambr_ul := u32_or 0 (search_value "Max-Requested-Bandwidth-UL" ambr);
                  dea_ambr_dl := u32_or 0 (search_value "Max-Requested-Bandwidth-DL" ambr);
                  dea_pgw_ip := home_agent (search_value "MIP-Home-Agent-Address"
                                              (search_children "MIP6-Agent-Info" msg)) |}
      end
  end.

(** [asr_cb]: the hardware address the abort is for; empty: no call. *)
Definition asr_cb (msg : list avp) : string :=
  match search_value "Session-Id" msg with
  | None => EmptyString
  | Some v => match mac_of_session_id (os v) with Some mac => mac | None => EmptyString end
  end.

End Answers.

(** * Theorems *)

(** The hardware address survives the session identifier, whatever it holds. *)
Lemma mac_of_session_id_of mac : mac_of_session_id (session_id mac) = Some mac.
Proof. reflexivity. Qed.

(** The AVPs the code looks for. *)
Definition sta_names : list string :=
  ["Session-Id"; "Result-Code"; "EAP-Payload"; "APN-Configuration"; "Service-Selection"; "PDN-Type";
   "AMBR"; "Max-Requested-Bandwidth-UL"; "Max-Requested-Bandwidth-DL"; "MIP6-Agent-Info";
   "MIP-Home-Agent-Address"]%string.

(** A dictionary that defines them, with different codes or vendors. *)
Definition dict_ok (dict : string -> option (Z * Z)) : Prop :=
  forall a b, In a sta_names -> In b sta_names ->
    exists k, dict a = Some k /\ (dict b = Some k -> a = b).

Section Message.
Context (dict : string -> option (Z * Z)) (Hd : dict_ok dict).

Definition avp_of (name : string) (v : option avp_value) (children : list avp) : list avp :=
  match dict name with
  | Some (c, vendor) => [Avp c vendor v children]
  | None => []
  end.

Lemma search_avp_of name name' v children rest :
  In name sta_names -> In name' sta_names ->
  search dict name (avp_of name' v children ++ rest)
  = if String.eqb name name' then match dict name with
                                  | Some (c, vendor) => Some (Avp c vendor v children)
                                  | None => None
                                  end
    else search dict name rest.
Proof.
  intros H1 H2. unfold search, avp_of.
  destruct (Hd name name' H1 H2) as ([c vendor] & E & Hinj).
  destruct (Hd name' name' H2 H2) as ([c' vendor'] & E' & _). rewrite E, E'. rewrite E' in Hinj.
  cbn [app fd_msg_search_avp find avp_key]. unfold key_eqb. cbn [fst snd].
  destruct (String.eqb_spec name name') as [->|Hne].
  - rewrite E in E'. injection E' as <- <-. rewrite !Z.eqb_refl. reflexivity.
  - destruct (Z.eqb_spec c' c) as [->|]; [|reflexivity].
    destruct (Z.eqb_spec vendor' vendor) as [->|]; [|reflexivity].
    exfalso. apply Hne, Hinj. reflexivity.
Qed.

Lemma search_nil name : search dict name [] = None.
Proof. unfold search. destruct (dict name); reflexivity. Qed.

(** The answer of an AAA server with a subscriber profile. *)
Definition dea_message (mac : string) (result_code : Z) (eap apn : string)
    (pdn_type ambr_ul ambr_dl pgw : Z) : list avp :=
  avp_of "Session-Id" (Some (os_value (session_id mac))) []
  ++ avp_of "Result-Code" (Some (u32_value result_code)) []
  ++ avp_of "EAP-Payload" (Some (os_value eap)) []
  ++ avp_of "APN-Configuration" None
       (avp_of "Service-Selection" (Some (os_value apn)) []
        ++ avp_of "PDN-Type" (Some (u32_value pdn_type)) []
        ++ avp_of "AMBR" None
             (avp_of "Max-Requested-Bandwidth-UL" (Some (u32_value ambr_ul)) []
              ++ avp_of "Max-Requested-Bandwidth-DL" (Some (u32_value ambr_dl)) [] ++ [])
        ++ [])
  ++ avp_of "MIP6-Agent-Info" None
       (avp_of "MIP-Home-Agent-Address"
          (Some (os_value (bytes_string (0 :: 1 :: le_bytes 4 pgw)))) [] ++ [])
  ++ [].

End Message.

Ltac known := cbn; tauto.

(** an answer with a full subscriber profile reaches the core as sent: the
    hardware address of the session identifier, the EAP payload, the APN, the
    PDN type, the bit rates and the P-GW address in text, and the result code,
    with UNABLE_TO_DELIVER turned into success. *)
Theorem dea_received dict mac result_code eap apn pdn_type ambr_ul ambr_dl pgw :
  dict_ok dict ->
  dea_cb dict (dea_message dict mac result_code eap apn pdn_type ambr_ul ambr_dl pgw)
  = Some {| dea_mac := mac;
            dea_result_code := if result_code =? DIAMETER_UNABLE_TO_DELIVER
                               then DIAMETER_SUCCESS else result_code;
            dea_eap := eap; dea_apn := apn; dea_pdn_type := pdn_type;
            dea_ambr_ul := ambr_ul; dea_ambr_dl := ambr_dl; dea_pgw_ip := inet_ntop pgw |}.
Proof.
  intros Hd.
  assert (K : forall n, In n sta_names -> exists c v, dict n = Some (c, v)).
  { intros n Hn. destruct (Hd n n Hn Hn) as ([c v] & E & _). eauto. }
  assert (V : forall name name' v kids rest, In name sta_names -> In name' sta_names ->
    search_value dict name (avp_of dict name' v kids ++ rest)
    = if String.eqb name name' then v else search_value dict name rest).
  { intros. unfold search_value. rewrite search_avp_of by assumption. destruct (String.eqb _ _); [|reflexivity].
    destruct (K name) as (c & w & ->); [assumption|reflexivity]. }
  assert (C : forall name name' v kids rest, In name sta_names -> In name' sta_names ->
    search_children dict name (avp_of dict name' v kids ++ rest)
    = if String.eqb name name' then kids else search_children dict name rest).
  { intros. unfold search_children. rewrite search_avp_of by assumption. destruct (String.eqb _ _); [|reflexivity].
    destruct (K name) as (c & w & ->); [assumption|reflexivity]. }
  unfold dea_cb, dea_message, result_code_of.
  repeat (rewrite V by known; cbn [String.eqb Ascii.eqb Bool.eqb]).
  cbn [os os_value]. rewrite mac_of_session_id_of.
  repeat (rewrite C by known; cbn [String.eqb Ascii.eqb Bool.eqb]).
  repeat (rewrite V by known; cbn [String.eqb Ascii.eqb Bool.eqb]).
  cbn [os_or_empty u32_or u32_of u32_value os os_value home_agent].
  rewrite string_bytes_string
    by (constructor; [unfold is_byte; lia|]; constructor; [unfold is_byte; lia|apply le_bytes_range]).
  f_equal. f_equal.
  pose proof (le_bytes_length 4 pgw) as L. pose proof (le_bytes_range 4 pgw) as R.
  pose proof (le_bytes_val (le_bytes 4 pgw) R) as E. rewrite L in E.
  replace (inet_ntop pgw) with (inet_ntop (le_val (le_bytes 4 pgw))) by (unfold inet_ntop; rewrite E; reflexivity).
  destruct (le_bytes 4 pgw) as [|a [|b [|c [|d [|? ?]]]]]; try discriminate. reflexivity.
Qed.

(** A dictionary with the codes of RFC 6733, RFC 4072, RFC 5447, RFC 5778 and
    TS 29.272. *)
Definition sample_dict (name : string) : option (Z * Z) :=
  if String.eqb name "Session-Id" then Some (263, 0)
  else if String.eqb name "Result-Code" then Some (268, 0)
  else if String.eqb name "EAP-Payload" then Some (462, 0)
  else if String.eqb name "APN-Configuration" then Some (1430, 10415)
  else if String.eqb name "Service-Selection" then Some (493, 0)
  else if String.eqb name "PDN-Type" then Some (1456, 10415)
  else if String.eqb name "AMBR" then Some (1435, 10415)
  else if String.eqb name "Max-Requested-Bandwidth-UL" then Some (516, 10415)
  else if String.eqb name "Max-Requested-Bandwidth-DL" then Some (515, 10415)
  else if String.eqb name "MIP6-Agent-Info" then Some (486, 0)
  else if String.eqb name "MIP-Home-Agent-Address" then Some (334, 0)
  else None.

Lemma sample_dict_ok : dict_ok sample_dict.
Proof.
  intros a b Ha Hb. cbn in Ha, Hb.
  repeat match goal with H : _ \/ _ |- _ => destruct H as [<-|H] | H : False |- _ => destruct H end;
    (eexists; split; [reflexivity | vm_compute; congruence]).
Qed.

Lemma dea_received_witness :
  dea_cb sample_dict (dea_message sample_dict "AA:BB" 3002 "eap" "internet" 1 5 6 0x0500000A)
  = Some {| dea_mac := "AA:BB"; dea_result_code := 2001; dea_eap := "eap"; dea_apn := "internet";
            dea_pdn_type := 1; dea_ambr_ul := 5; dea_ambr_dl := 6; dea_pgw_ip := "10.0.0.5" |}.
Proof. apply (dea_received sample_dict "AA:BB" 3002 "eap" "internet" 1 5 6 0x0500000A), sample_dict_ok. Defined.

(** what the core is told of the outcome of an authentication: success for
    every answer of the session that carries DIAMETER_SUCCESS or
    UNABLE_TO_DELIVER or no result code at all, and the result code itself for
    every other answer. *)
Theorem dea_success_iff dict msg d :
  dea_cb dict msg = Some d ->
  (dea_result_code d = DIAMETER_SUCCESS
   <-> match search_value dict "Result-Code" msg with
       | None => True
       | Some v => u32_of v = DIAMETER_SUCCESS \/ u32_of v = DIAMETER_UNABLE_TO_DELIVER
       end)
  /\ dea_result_code d <> DIAMETER_UNABLE_TO_DELIVER.
Proof.
  unfold dea_cb. destruct (search_value dict "Session-Id" msg) as [v|]; [|discriminate].
  destruct (mac_of_session_id (os v)); [|discriminate]. intros E. injection E as <-.
  cbn [dea_result_code]. unfold result_code_of, DIAMETER_SUCCESS, DIAMETER_UNABLE_TO_DELIVER in *.
  destruct (search_value dict "Result-Code" msg) as [r|]; cbn [u32_or]; [|cbn; split; [tauto|lia]].
  destruct (Z.eqb_spec (u32_of r) 3002); split; lia.
Qed.

Lemma dea_success_iff_witness :
  exists d, dea_cb sample_dict [Avp 263 0 (Some (os_value (session_id "AA:BB"))) []] = Some d
            /\ dea_result_code d = DIAMETER_SUCCESS.
Proof.
  eexists. split; [reflexivity|].
  apply (dea_success_iff sample_dict [Avp 263 0 (Some (os_value (session_id "AA:BB"))) []] _ eq_refl).
  exact I.
Defined.
