(* ===== verification/TwagDns.v ===== *)
(** The choice of the P-GW by DNS ([TwagCore::resolve_pgw_snaptr]).

    The resolver is a parameter: what a query returned is a [dns_answer], the
    response bytes with the records the resolver library found in them and its
    expansion of compressed names ([dn_expand]). *)

From Stdlib Require Import ZArith List Lia Bool String Ascii.
From S2P Require Import Prelude EncDecBits WireFormat IeFormat TwagNet.
Import ListNotations.
Open Scope Z_scope.

(** [NS_PACKETSZ], the size of [response]. *)
Definition NS_PACKETSZ : Z := 512.

(** One record of the answer section, as [ns_parserr] reports it: an error,
    another type, or a NAPTR with the place and length of its data. *)
Inductive ns_rr :=
| RrError
| RrOther
| RrNaptr (rdata rdlen : Z).

Record dns_answer := {
  response : bytes;
  records : list ns_rr;
  dn_expand : Z -> option string  (* the name at a place of the response *)
}.

Record naptr := {
  n_order : Z;
  n_pref : Z;
  n_services : string;
  n_replacement : string
}.

Definition inside (p n : Z) : bool := p + n <=? NS_PACKETSZ.

(** The fields of a NAPTR record; [Done None]: the record is skipped. *)
Definition parse_naptr (a : dns_answer) (rdata rdlen : Z) : outcome (option naptr) :=
  if rdlen <? 4 then Done None
  else if negb (inside rdata 5) then Fault
  else
    let order := response a rdata * 256 + response a (rdata + 1) in
    let pref := response a (rdata + 2) * 256 + response a (rdata + 3) in
    let p := rdata + 4 in
    let flags_len := response a p in
    let p := p + (1 + flags_len) in
    if negb (inside p 1) then Fault
    else
      let svc_len := response a p in
      if negb (inside (p + 1) svc_len) then Fault
      else
        let services := bytes_string (to_list (response a) (p + 1) (Z.to_nat svc_len)) in
        let p := p + (1 + svc_len) in
        if negb (inside p 1) then Fault
        else
          let reg_len := response a p in
          let p := p + (1 + reg_len) in
          match dn_expand a p with
          | None => Done None
          | Some replacement =>
              Done (Some {| n_order := order; n_pref := pref; n_services := services;
                            n_replacement := replacement |})
          end.

Definition TARGET_SERVICE : string := "x-3gpp-pgw:x-s2a-gtp".

Definition is_target (r : naptr) : bool := str_contains TARGET_SERVICE (n_services r).

(** [best_replacement], [best_order], [best_pref]. *)
Record best := { b_replacement : string; b_order : Z; b_pref : Z }.

Definition no_best : best := {| b_replacement := ""; b_order := 65536; b_pref := 65536 |}.

Definition consider (b : best) (r : naptr) : best :=
  if is_target r || str_empty (b_replacement b) then
    if str_empty (b_replacement b) || (n_order r <? b_order b)
       || ((n_order r =? b_order b) && (n_pref r <? b_pref b))
    then {| b_replacement := n_replacement r; b_order := n_order r; b_pref := n_pref r |}
    else b
  else b.

(** The loop over the answers. *)
Fixpoint select_naptr (a : dns_answer) (l : list ns_rr) (b : best) : outcome best :=
  match l with
  | [] => Done b
  | RrNaptr rdata rdlen :: l =>
      match parse_naptr a rdata rdlen with
      | Done (Some r) => select_naptr a l (consider b r)
      | Done None => select_naptr a l b
      | Fault => Fault
      | OutOfFuel => OutOfFuel
      end
  | _ :: l => select_naptr a l b
  end.

(** [resolve_pgw_snaptr]: [query] is what [res_query] and [ns_initparse] gave
    for the name, [getaddrinfo] the address of a host name in text (empty for a
    family other than IPv4 and IPv6). *)
Definition resolve_pgw_snaptr (query : string -> option dns_answer)
    (getaddrinfo : string -> option string) (apn_fqdn : string) : outcome string :=
  match query apn_fqdn with
  | None => Done EmptyString
  | Some a =>
      match select_naptr a (records a) no_best with
      | Done b =>
          if str_empty (b_replacement b) then Done EmptyString
          else match getaddrinfo (b_replacement b) with
               | Some ip => Done ip
               | None => Done EmptyString
               end
      | Fault => Fault
      | OutOfFuel => OutOfFuel
      end
  end.

(** * What the loop selects *)

(** The records it considers, in the order of the answer. *)
Fixpoint parsed (a : dns_answer) (l : list ns_rr) : outcome (list naptr) :=
  match l with
  | [] => Done []
  | RrNaptr rdata rdlen :: l =>
      match parse_naptr a rdata rdlen with
      | Done None => parsed a l
      | Done (Some r) =>
          match parsed a l with Done rs => Done (r :: rs) | Fault => Fault | OutOfFuel => OutOfFuel end
      | Fault => Fault
      | OutOfFuel => OutOfFuel
      end
  | _ :: l => parsed a l
  end.

(** Order first, then preference. *)
Definition preferred (o p o' p' : Z) : Prop := o < o' \/ (o = o' /\ p <= p').

Lemma select_parsed a l rs : forall b,
  parsed a l = Done rs -> select_naptr a l b = Done (fold_left consider rs b).
Proof.
  revert rs. induction l as [|r l IH]; intros rs b E; cbn in *; [injection E as <-; reflexivity|].
  destruct r as [| |rdata rdlen]; [auto|auto|].
  destruct (parse_naptr a rdata rdlen) as [[r|]| |]; try discriminate; [|auto].
  destruct (parsed a l) as [rs'| |]; try discriminate. injection E as <-. cbn [fold_left]. auto.
Qed.

(** The best so far is the record [r0]. *)
Definition is_best (b : best) (r : naptr) : Prop :=
  b_replacement b = n_replacement r /\ b_order b = n_order r /\ b_pref b = n_pref r.

Lemma fold_consider rs : forall b r0,
  is_best b r0 -> Forall (fun r => n_replacement r <> ""%string) (r0 :: rs) ->
  exists r, is_best (fold_left consider rs b) r
    /\ (r = r0 \/ (In r rs /\ is_target r = true))
    /\ preferred (n_order r) (n_pref r) (n_order r0) (n_pref r0)
    /\ Forall (fun t => is_target t = true -> preferred (n_order r) (n_pref r) (n_order t) (n_pref t)) rs.
Proof.
  unfold preferred. induction rs as [|t rs IH]; intros b r0 Hb Hne.
  - exists r0. repeat split; try apply Hb; [left; reflexivity | right; lia | constructor].
  - inversion Hne as [|? ? H0 Hrest]; subst. inversion Hrest as [|? ? Ht Hrs]; subst.
    destruct Hb as (E1 & E2 & E3). cbn [fold_left]. unfold consider at 2. rewrite E1, E2, E3.
    replace (str_empty (n_replacement r0)) with false by (destruct (n_replacement r0); [congruence|reflexivity]).
    rewrite orb_false_r. cbn [orb].
    destruct (is_target t) eqn:Htgt; cbn [orb].
    + destruct ((n_order t <? n_order r0) || ((n_order t =? n_order r0) && (n_pref t <? n_pref r0))) eqn:Hlt.
      * set (b' := {| b_replacement := n_replacement t; b_order := n_order t; b_pref := n_pref t |}).
        destruct (IH b' t ltac:(repeat split) ltac:(constructor; assumption)) as (r & Hr & Hin & Hp & Hf).
        exists r. split; [exact Hr|].
        assert (n_order t < n_order r0 \/ n_order t = n_order r0 /\ n_pref t < n_pref r0)
          by (apply orb_true_iff in Hlt; destruct Hlt; zbool; lia).
        repeat split.
        -- destruct Hin as [->|[Hin Hx]]; right; cbn; auto.
        -- lia.
        -- constructor; [intros _; lia|exact Hf].
      * destruct (IH b r0 ltac:(repeat split; assumption) ltac:(constructor; assumption)) as (r & Hr & Hin & Hp & Hf).
        exists r. split; [exact Hr|].
        assert (n_order r0 < n_order t \/ n_order r0 = n_order t /\ n_pref r0 <= n_pref t).
        { apply orb_false_iff in Hlt. destruct Hlt as [L1 L2]. zbool.
          destruct (Z.eqb_spec (n_order t) (n_order r0)); cbn [andb] in L2; zbool; lia. }
        repeat split.
        -- destruct Hin as [->|[Hin Hx]]; [left|right; cbn]; auto.
        -- lia.
        -- constructor; [intros _; lia|exact Hf].
    + destruct (IH b r0 ltac:(repeat split; assumption) ltac:(constructor; assumption)) as (r & Hr & Hin & Hp & Hf).
      exists r. split; [exact Hr|]. repeat split; [|exact Hp|].
      * destruct Hin as [->|[Hin Hx]]; [left|right; cbn]; auto.
      * constructor; [congruence|exact Hf].
Qed.

(** over an answer whose NAPTR records all expand to a name, the loop
    selects a record that no record for the S2a GTP service of a P-GW is
    preferred to, by order and then preference; it is one of these records or
    the first record of the answer, whatever its service. *)
Theorem select_naptr_spec a l r0 rs :
  parsed a l = Done (r0 :: rs) ->
  Forall (fun r => n_replacement r <> ""%string) (r0 :: rs) ->
  exists b r, select_naptr a l no_best = Done b /\ is_best b r
    /\ (r = r0 \/ (In r rs /\ is_target r = true))
    /\ Forall (fun t => is_target t = true ->
                        preferred (n_order r) (n_pref r) (n_order t) (n_pref t)) (r0 :: rs).
Proof.
  intros Hp Hne. rewrite (select_parsed _ _ _ _ Hp). cbn [fold_left].
  replace (consider no_best r0)
    with {| b_replacement := n_replacement r0; b_order := n_order r0; b_pref := n_pref r0 |}
    by (unfold consider; cbn; rewrite orb_true_r; reflexivity).
  destruct (fold_consider rs {| b_replacement := n_replacement r0; b_order := n_order r0; b_pref := n_pref r0 |}
    r0 ltac:(repeat split) Hne) as (r & Hr & Hin & Hpr & Hf).
  eexists. exists r. split; [reflexivity|]. split; [exact Hr|]. split; [exact Hin|].
  constructor; [intros _; exact Hpr|exact Hf].
Qed.

(** Two records: one for another service with a better order, one for the
    service of the gateway. *)
Definition sample_naptr (order : Z) (services : string) : list Z :=
  [0; order; 0; 10; 1; 97; Z.of_nat (String.length services)] ++ string_bytes services ++ [0].

Definition sample_answer : dns_answer :=
  let first := sample_naptr 5 "x-3gpp-sgw:x-s5-gtp" in
  let second := sample_naptr 9 "x-3gpp-pgw:x-s2a-gtp" in
  {| response := of_list (first ++ second);
     records := [RrNaptr 0 (Z.of_nat (List.length first));
                 RrNaptr (Z.of_nat (List.length first)) (Z.of_nat (List.length second))];
     dn_expand p := Some (if p <=? Z.of_nat (List.length first) then "sgw"%string else "pgw"%string) |}.

Lemma select_naptr_spec_witness :
  exists b r, select_naptr sample_answer (records sample_answer) no_best = Done b
    /\ is_best b r /\ b_replacement b = "sgw"%string.
Proof.
  destruct (select_naptr_spec sample_answer (records sample_answer)
    {| n_order := 5; n_pref := 10; n_services := "x-3gpp-sgw:x-s5-gtp"; n_replacement := "sgw" |}
    [{| n_order := 9; n_pref := 10; n_services := "x-3gpp-pgw:x-s2a-gtp"; n_replacement := "pgw" |}])
    as (b & r & E & Hb & _).
  - vm_compute. reflexivity.
  - repeat (constructor; [discriminate|]). constructor.
  - exists b, r. split; [exact E|]. split; [exact Hb|].
    vm_compute in E. injection E as <-. reflexivity.
Defined.
