(* ===== verification/TwagState.v ===== *)
(** The state of the gateway and its atomic operations.

    [UeSession] (ue_session.hpp) and [SessionManager] (session_manager.cpp) are
    modelled with the sharing of the code: sessions are objects of a heap, the
    manager maps hardware addresses to objects, and a handler keeps the pointer
    it looked up while other threads go on.  A handler is a program
    ([prog]) over atomic operations ([op]): one per call into the manager, per
    statement that writes a member, per effect on the world.  What the world
    answers (sockets, freeDiameter, the kernel, the resolver, the bytes of
    uninitialised memory) is a parameter ([Env]), a function of the number of
    operations executed so far, so that no answer is fixed. *)

From stdpp Require Import base gmap strings list.
From Stdlib Require Import ZArith Lia.
From S2P Require Import Prelude EncDecBits WireFormat IeFormat TwagNet TwagDns TwagSta.
Open Scope Z_scope.

(** * Data *)

Inductive SessionState := INIT | AUTH_PENDING | GTP_CREATE_PENDING | CONNECTED | DISCONNECTING.

#[export] Instance SessionState_eq_dec : EqDecision SessionState.
Proof. solve_decision. Defined.

Record UeSession := {
  mac_address_ : string;
  state_ : SessionState;
  imsi_ : string;
  ue_ip_ : Z;
  gtp_teid_c_ : Z;
  gtp_teid_u_ : Z;
  pgw_teid_c_ : Z;
  pgw_teid_u_ : Z;
  pgw_ip_ : string;
  apn_ : string;
  pdn_type_ : Z;
  ambr_ul_ : Z;
  ambr_dl_ : Z;
  qci_ : Z;
  radius_client_addr_ : sockaddr_in;
  radius_req_id_ : Z;
  radius_req_auth_ : list Z
}.

(** The members the constructor leaves uninitialised. *)
Record uninitialised := {
  un_ue_ip : Z;
  un_pgw_teid_c : Z;
  un_pgw_teid_u : Z;
  un_client_addr : sockaddr_in;
  un_req_id : Z;
  un_req_auth : list Z
}.

(** [UeSession::UeSession], and the assignments of [create_session]. *)
Definition new_session (mac : string) (teid_c teid_u : Z) (u : uninitialised) : UeSession :=
  {| mac_address_ := mac; state_ := INIT; imsi_ := ""; ue_ip_ := un_ue_ip u;
     gtp_teid_c_ := teid_c; gtp_teid_u_ := teid_u; pgw_teid_c_ := un_pgw_teid_c u;
     pgw_teid_u_ := un_pgw_teid_u u; pgw_ip_ := ""; apn_ := ""; pdn_type_ := 1; ambr_ul_ := 0;
     ambr_dl_ := 0; qci_ := 0; radius_client_addr_ := un_client_addr u;
     radius_req_id_ := un_req_id u; radius_req_auth_ := un_req_auth u |}.

(** A place in the heap. *)
Abbreviation loc := nat.

Record SessionManager := {
  sessions_ : gmap string loc;
  next_teid_ : Z;
  total_connections_ : Z;
  total_disconnections_ : Z;
  total_rejected_sessions_ : Z
}.

Record TwagConfig := {
  cfg_pgw_ip : string;
  cfg_aaa_realm : string;
  cfg_apn : string;
  cfg_eap_domain : string;
  cfg_acct_server_ip : string;
  cfg_max_active_sessions : Z
}.

(** Callbacks of [event_loop_->add_timer]. *)
Inductive timer := GtpTimeout (mac : string).

(** What the gateway does to the world; the flag is the result of the call.
    The session of a RADIUS response and of a tunnel is bookkeeping of the
    model. *)
Inductive effect :=
| RadiusSend (who : option loc) (to : sockaddr_in) (datagram : list Z) (ok : bool)
| DhcpSend (mac : string) (datagram : list Z) (ok : bool)
| GtpSend (to_addr : Z) (datagram : list Z) (ok : bool)
| DiameterSend (cmd : diameter_cmd) (avps : list added_avp) (ok : bool)
| TunnelAdd (who : loc) (i_tei o_tei ms_ip sgsn_ip : Z) (ok : bool)
| System (command : string).

Record state := State {
  heap : list UeSession;
  manager : SessionManager;
  timers : list timer;
  pending_acct_reqs_ : gmap Z sockaddr_in;
  trace : list effect;   (* the latest first *)
  ticks : nat
}.

(** * The world *)

Class Env := {
  env_config : TwagConfig;
  env_dict : string -> option (Z * Z);
  env_bool : nat -> bool;                     (* success of a call *)
  env_avp_new_ok : nat -> string -> bool;
  env_stack : nat -> bytes;                   (* an uninitialised buffer *)
  env_uninit : nat -> uninitialised;          (* a new object *)
  env_local_ip : nat -> Z;                    (* [getsockname], or the loopback address *)
  env_query : nat -> string -> option dns_answer;
  env_getaddrinfo : nat -> string -> option string;
  env_acct_server_addr : sockaddr_in;         (* never assigned by the code *)
  env_order : gmap string loc -> list (string * loc);  (* iteration order of the table *)
  env_order_perm m : env_order m ≡ₚ map_to_list m
}.

(** * Atomic operations *)

Inductive op : Type -> Type :=
| GetSession (mac : string) : op (option loc)
| GetSessionByTeidC (teid : Z) : op (option loc)
| CreateSession (mac : string) : op loc
| RemoveSession (mac : string) : op unit
| IncrementRejected : op unit
| GetActiveSessionsCount : op Z
| Read (l : loc) : op UeSession
| Assign (l : loc) (f : UeSession -> UeSession) : op unit
| AddTimer (t : timer) : op unit
| SetPending (id : Z) (a : sockaddr_in) : op unit
| TakePending (id : Z) : op (option sockaddr_in)
| Ask {A} (f : nat -> A) : op A
| Emit (e : effect) : op unit.

Inductive prog (A : Type) : Type :=
| Ret (a : A)
| Op {B} (o : op B) (k : B -> prog A)
| Crash.
Arguments Ret {A}.
Arguments Op {A B}.
Arguments Crash {A}.

Fixpoint prog_bind {A B} (f : A -> prog B) (p : prog A) : prog B :=
  match p with
  | Ret a => f a
  | Op o k => Op o (fun b => prog_bind f (k b))
  | Crash => Crash
  end.

#[export] Instance prog_mret : MRet prog := @Ret.
#[export] Instance prog_mbind : MBind prog := @prog_bind.

(** One operation as a program. *)
Definition do {A} (o : op A) : prog A := Op o Ret.

(** [shared_ptr] dereference: the pointers of the code are never dangling
    (lemma [inv] of TwagSafety); the default is never read. *)
#[export] Instance UeSession_inhabited : Inhabited UeSession :=
  populate (new_session "" 0 0
    {| un_ue_ip := 0; un_pgw_teid_c := 0; un_pgw_teid_u := 0;
       un_client_addr := {| sin_port := 0; sin_addr := 0 |}; un_req_id := 0; un_req_auth := [] |}).

Section Exec.
Context {E : Env}.

Definition with_manager (st : state) (m : SessionManager) : state :=
  State (heap st) m (timers st) (pending_acct_reqs_ st) (trace st) (S (ticks st)).

(** [SessionManager::create_session]. *)
Definition create_session (mac : string) (st : state) : loc * state :=
  let m := manager st in
  let l := length (heap st) in
  let teid_c := next_teid_ m in
  let teid_u := u32 (teid_c + 1) in
  let s := new_session mac teid_c teid_u (env_uninit (ticks st)) in
  let m := {| sessions_ := <[mac := l]> (sessions_ m); next_teid_ := u32 (teid_u + 1);
              total_connections_ := u64 (total_connections_ m + 1);
              total_disconnections_ := total_disconnections_ m;
              total_rejected_sessions_ := total_rejected_sessions_ m |} in
  (l, State (heap st ++ [s]) m (timers st) (pending_acct_reqs_ st) (trace st) (S (ticks st))).

(** [SessionManager::get_session_by_teid_c]: the first in iteration order. *)
Definition get_session_by_teid_c (teid : Z) (st : state) : option loc :=
  snd <$> List.find (fun p => gtp_teid_c_ (heap st !!! snd p) =? teid)
            (env_order (sessions_ (manager st))).

(** [SessionManager::remove_session]. *)
Definition remove_session (mac : string) (m : SessionManager) : SessionManager :=
  match sessions_ m !! mac with
  | Some _ =>
      {| sessions_ := delete mac (sessions_ m); next_teid_ := next_teid_ m;
         total_connections_ := total_connections_ m;
         total_disconnections_ := u64 (total_disconnections_ m + 1);
         total_rejected_sessions_ := total_rejected_sessions_ m |}
  | None => m
  end.

(** [SessionManager::increment_rejected]. *)
Definition increment_rejected (m : SessionManager) : SessionManager :=
  {| sessions_ := sessions_ m; next_teid_ := next_teid_ m;
     total_connections_ := total_connections_ m;
     total_disconnections_ := total_disconnections_ m;
     total_rejected_sessions_ := u64 (total_rejected_sessions_ m + 1) |}.

(** [SessionManager::get_stats]: active, connections, disconnections, rejected. *)
Definition get_stats (m : SessionManager) : Z * Z * Z * Z :=
  (Z.of_nat (size (sessions_ m)), total_connections_ m, total_disconnections_ m,
   total_rejected_sessions_ m).

Definition exec {A} (o : op A) (st : state) : A * state :=
  let keep := with_manager st (manager st) in
  match o in op A return A * state with
  | GetSession mac => (sessions_ (manager st) !! mac, keep)
  | GetSessionByTeidC teid => (get_session_by_teid_c teid st, keep)
  | CreateSession mac => create_session mac st
  | RemoveSession mac => (tt, with_manager st (remove_session mac (manager st)))
  | IncrementRejected => (tt, with_manager st (increment_rejected (manager st)))
  | GetActiveSessionsCount => (Z.of_nat (size (sessions_ (manager st))), keep)
  | Read l => (heap st !!! l, keep)
  | Assign l f =>
      (tt, State (alter f l (heap st)) (manager st) (timers st) (pending_acct_reqs_ st)
             (trace st) (S (ticks st)))
  | AddTimer t =>
      (tt, State (heap st) (manager st) (timers st ++ [t]) (pending_acct_reqs_ st)
             (trace st) (S (ticks st)))
  | SetPending id a =>
      (tt, State (heap st) (manager st) (timers st) (<[id := a]> (pending_acct_reqs_ st))
             (trace st) (S (ticks st)))
  | TakePending id =>
      (pending_acct_reqs_ st !! id,
       State (heap st) (manager st) (timers st) (delete id (pending_acct_reqs_ st))
         (trace st) (S (ticks st)))
  | Ask f => (f (ticks st), keep)
  | Emit e =>
      (tt, State (heap st) (manager st) (timers st) (pending_acct_reqs_ st)
             (e :: trace st) (S (ticks st)))
  end.

(** A program run to its end without interference; [None]: it crashed. *)
Fixpoint run {A} (p : prog A) (st : state) : option (A * state) :=
  match p with
  | Ret a => Some (a, st)
  | Op o k => let '(b, st) := exec o st in run (k b) st
  | Crash => None
  end.

End Exec.

(** The state at start: [SessionManager() : next_teid_(1)]. *)
Definition initial : state :=
  State [] {| sessions_ := ∅; next_teid_ := 1; total_connections_ := 0;
              total_disconnections_ := 0; total_rejected_sessions_ := 0 |} [] ∅ [] 0.
