(* ===== verification/TwagCore.v ===== *)
(** The handlers of the gateway (twag_core.cpp) and the parts of the interfaces
    they call (radius_server.cpp, dhcp_server.cpp, s2a_interface.cpp,
    sta_interface.cpp), as programs over the operations of TwagState. *)

From stdpp Require Import base gmap strings list.
From Stdlib Require Import ZArith Lia.
From S2P Require Import Prelude EncDecBits WireFormat IeFormat TwagNet TwagRadius TwagDhcp TwagS2a TwagDns TwagSta TwagState.
Open Scope Z_scope.

(** Assignments to one member. *)
Definition set_state (x : SessionState) (s : UeSession) : UeSession :=
  {| mac_address_ := mac_address_ s; state_ := x; imsi_ := imsi_ s; ue_ip_ := ue_ip_ s;
     gtp_teid_c_ := gtp_teid_c_ s; gtp_teid_u_ := gtp_teid_u_ s; pgw_teid_c_ := pgw_teid_c_ s;
     pgw_teid_u_ := pgw_teid_u_ s; pgw_ip_ := pgw_ip_ s; apn_ := apn_ s; pdn_type_ := pdn_type_ s;
     ambr_ul_ := ambr_ul_ s; ambr_dl_ := ambr_dl_ s; qci_ := qci_ s;
     radius_client_addr_ := radius_client_addr_ s; radius_req_id_ := radius_req_id_ s;
     radius_req_auth_ := radius_req_auth_ s |}.

(** The members that carry no state of the protocol, by a record of their new
    values; the constructors below name the one that changes. *)
Inductive member :=
| M_imsi (x : string) | M_ue_ip (x : Z) | M_pgw_teid_u (x : Z) | M_pgw_ip (x : string)
| M_apn (x : string) | M_pdn_type (x : Z) | M_ambr_ul (x : Z) | M_ambr_dl (x : Z) | M_qci (x : Z)
| M_radius_client_addr (x : sockaddr_in) | M_radius_req_id (x : Z) | M_radius_req_auth (x : list Z).

Definition set_member (m : member) (s : UeSession) : UeSession :=
  {| mac_address_ := mac_address_ s; state_ := state_ s;
     imsi_ := match m with M_imsi x => x | _ => imsi_ s end;
     ue_ip_ := match m with M_ue_ip x => x | _ => ue_ip_ s end;
     gtp_teid_c_ := gtp_teid_c_ s; gtp_teid_u_ := gtp_teid_u_ s; pgw_teid_c_ := pgw_teid_c_ s;
     pgw_teid_u_ := match m with M_pgw_teid_u x => x | _ => pgw_teid_u_ s end;
     pgw_ip_ := match m with M_pgw_ip x => x | _ => pgw_ip_ s end;
     apn_ := match m with M_apn x => x | _ => apn_ s end;
     pdn_type_ := match m with M_pdn_type x => x | _ => pdn_type_ s end;
     ambr_ul_ := match m with M_ambr_ul x => x | _ => ambr_ul_ s end;
     ambr_dl_ := match m with M_ambr_dl x => x | _ => ambr_dl_ s end;
     qci_ := match m with M_qci x => x | _ => qci_ s end;
     radius_client_addr_ := match m with M_radius_client_addr x => x | _ => radius_client_addr_ s end;
     radius_req_id_ := match m with M_radius_req_id x => x | _ => radius_req_id_ s end;
     radius_req_auth_ := match m with M_radius_req_auth x => x | _ => radius_req_auth_ s end |}.

Section Handlers.
Context {E : Env}.

Definition skip : prog unit := Ret tt.

(** * RadiusServer *)

Definition send_response (who : option loc) (client_addr : sockaddr_in) (code id : Z)
    (req_auth : list Z) (eap_payload : string) : prog bool :=
  match response_datagram code id req_auth eap_payload with
  | None => Crash
  | Some d =>
      ok ← do (Ask env_bool);
      do (Emit (RadiusSend who client_addr d ok));; mret ok
  end.

Definition send_disconnect_request (wlc_addr : sockaddr_in) (mac : string) : prog bool :=
  match disconnect_datagram mac with
  | None => Crash
  | Some d =>
      ok ← do (Ask env_bool);
      do (Emit (RadiusSend None (disconnect_target wlc_addr) d ok));; mret ok
  end.

(** * StaInterface *)

Definition send_der (l : loc) (eap_payload : string) : prog bool :=
  new_ok ← do (Ask env_bool);
  if negb new_ok then mret false
  else
    s ← do (Read l);
    avp_ok ← do (Ask env_avp_new_ok);
    ok ← do (Ask env_bool);
    do (Emit (DiameterSend DER
                (der_avps avp_ok (mac_address_ s) (cfg_aaa_realm env_config)
                   (cfg_eap_domain env_config) eap_payload) ok));;
    if negb ok then mret false
    else do (Assign l (set_state AUTH_PENDING));; mret true.

Definition send_str (l : loc) : prog bool :=
  new_ok ← do (Ask env_bool);
  if negb new_ok then mret false
  else
    s ← do (Read l);
    avp_ok ← do (Ask env_avp_new_ok);
    ok ← do (Ask env_bool);
    do (Emit (DiameterSend STR (str_avps avp_ok (mac_address_ s) (cfg_aaa_realm env_config)) ok));;
    mret ok.

(** * S2aInterface *)

(** [dest_ip]: the P-GW of the session, or of the configuration. *)
Definition dest_ip (s : UeSession) : string :=
  if str_empty (pgw_ip_ s) then cfg_pgw_ip env_config else pgw_ip_ s.

Definition send_create_session_request (l : loc) : prog bool :=
  local_ip ← do (Ask env_local_ip);
  s ← do (Read l);
  stack ← do (Ask env_stack);
  let apn := if str_empty (apn_ s) then cfg_apn env_config else apn_ s in
  match create_session_datagram (imsi_ s) (gtp_teid_c_ s) local_ip (pdn_type_ s) (ambr_ul_ s)
          (ambr_dl_ s) apn stack with
  | None => Crash
  | Some d =>
      match inet_pton (dest_ip s) with
      | None => mret false
      | Some addr =>
          ok ← do (Ask env_bool);
          do (Emit (GtpSend addr d ok));;
          if negb ok then mret false
          else do (Assign l (set_state GTP_CREATE_PENDING));; mret true
      end
  end.

Definition send_delete_session_request (l : loc) : prog bool :=
  s ← do (Read l);
  stack ← do (Ask env_stack);
  match delete_session_datagram (pgw_teid_c_ s) stack with
  | None => Crash
  | Some d =>
      match inet_pton (dest_ip s) with
      | None => mret false
      | Some addr =>
          ok ← do (Ask env_bool);
          do (Emit (GtpSend addr d ok));; mret ok
      end
  end.

(** [setup_kernel_gtpu_tunnel]: the answers are those of [genl_socket_open],
    [genl_lookup_family], [gtp_tunnel_alloc] and [gtp_add_tunnel]. *)
Definition setup_kernel_gtpu_tunnel (l : loc) : prog bool :=
  opened ← do (Ask env_bool);
  if negb opened then mret false
  else
    found ← do (Ask env_bool);
    if negb found then mret false
    else
      allocated ← do (Ask env_bool);
      if negb allocated then mret false
      else
        s ← do (Read l);
        ok ← do (Ask env_bool);
        let sgsn_ip := match inet_pton (cfg_pgw_ip env_config) with Some a => a | None => 0 end in
        do (Emit (TunnelAdd l (gtp_teid_u_ s) (pgw_teid_u_ s) (ue_ip_ s) sgsn_ip ok));;
        (if (ok : bool)
         then do (Emit (System ("ip route add " ++ inet_ntop (ue_ip_ s) ++ " dev gtp0")))
         else skip);;
        mret true.

Definition teardown_kernel_gtpu_tunnel (l : loc) : prog bool :=
  s ← do (Read l);
  do (Emit (System ("ip route del " ++ inet_ntop (ue_ip_ s) ++ " dev gtp0")));;
  let dscp := map_qci_to_dscp (qci_ s) in
  (if negb (dscp =? 0)
   then do (Emit (System ("iptables -t mangle -D POSTROUTING -o twag_gre -d " ++ inet_ntop (ue_ip_ s)
                          ++ " -j DSCP --set-dscp " ++ to_string dscp)))
   else skip);;
  mret true.

(** * DhcpServer *)

Definition send_dhcp_response (mac : string) (ue_ip transaction_id msg_type : Z) : prog unit :=
  ok ← do (Ask env_bool);
  do (Emit (DhcpSend mac (dhcp_response mac ue_ip transaction_id msg_type) ok)).

(** * TwagCore *)

Definition handle_radius_access_request (mac imsi eap_payload : string) (client_addr : sockaddr_in)
    (req_id : Z) (req_auth : list Z) : prog unit :=
  let attach l :=
    (if str_empty imsi then skip else do (Assign l (set_member (M_imsi imsi))));;
    do (Assign l (set_member (M_radius_client_addr client_addr)));;
    do (Assign l (set_member (M_radius_req_id req_id)));;
    do (Assign l (set_member (M_radius_req_auth req_auth)));;
    send_der l eap_payload;; skip in
  session ← do (GetSession mac);
  match session with
  | Some l => attach l
  | None =>
      active ← do GetActiveSessionsCount;
      if cfg_max_active_sessions env_config <=? active then
        do IncrementRejected;;
        send_response None client_addr ACCESS_REJECT req_id req_auth "";; skip
      else
        l ← do (CreateSession mac);
        attach l
  end.

Definition disconnect_ue (mac : string) : prog unit :=
  session ← do (GetSession mac);
  match session with
  | None => skip
  | Some l =>
      send_str l;;
      send_delete_session_request l;;
      teardown_kernel_gtpu_tunnel l;;
      do (RemoveSession mac)
  end.

(** The callback of the timer [on_dea_received] starts. *)
Definition on_gtp_timeout (mac : string) : prog unit :=
  session ← do (GetSession mac);
  match session with
  | None => skip
  | Some l =>
      s ← do (Read l);
      if decide (state_ s = GTP_CREATE_PENDING) then
        s ← do (Read l);
        send_response (Some l) (radius_client_addr_ s) ACCESS_REJECT (radius_req_id_ s)
          (radius_req_auth_ s) "";;
        disconnect_ue mac
      else skip
  end.

(** A response to the RADIUS request the session remembers. *)
Definition respond (l : loc) (code : Z) (eap_payload : string) : prog bool :=
  s ← do (Read l);
  send_response (Some l) (radius_client_addr_ s) code (radius_req_id_ s) (radius_req_auth_ s)
    eap_payload.

(** The P-GW of the session: the AAA server's, the one DNS gives for the APN, or
    that of the configuration. *)
Definition choose_pgw (l : loc) (d : dea) : prog unit :=
  if negb (str_empty (dea_pgw_ip d)) then do (Assign l (set_member (M_pgw_ip (dea_pgw_ip d))))
  else
    s ← do (Read l);
    let apn_fqdn := (apn_ s ++ ".apn." ++ cfg_aaa_realm env_config)%string in
    query ← do (Ask env_query);
    getaddrinfo ← do (Ask env_getaddrinfo);
    match resolve_pgw_snaptr query getaddrinfo apn_fqdn with
    | Done resolved_ip =>
        if negb (str_empty resolved_ip) then do (Assign l (set_member (M_pgw_ip resolved_ip)))
        else do (Assign l (set_member (M_pgw_ip (cfg_pgw_ip env_config))))
    | _ => Crash
    end.

(** What the session takes from the answer, whatever its result code. *)
Definition store_subscription (l : loc) (d : dea) : prog unit :=
  (if negb (str_empty (dea_apn d)) then do (Assign l (set_member (M_apn (dea_apn d))))
   else
     s ← do (Read l);
     if str_empty (apn_ s) then do (Assign l (set_member (M_apn (cfg_apn env_config)))) else skip);;
  (if negb (dea_pdn_type d =? 0) then do (Assign l (set_member (M_pdn_type (dea_pdn_type d)))) else skip);;
  (if negb (dea_ambr_ul d =? 0) then do (Assign l (set_member (M_ambr_ul (dea_ambr_ul d)))) else skip);;
  (if negb (dea_ambr_dl d =? 0) then do (Assign l (set_member (M_ambr_dl (dea_ambr_dl d)))) else skip);;
  choose_pgw l d.

Definition on_dea_received (d : dea) : prog unit :=
  session ← do (GetSession (dea_mac d));
  match session with
  | None => skip
  | Some l =>
      s ← do (Read l);
      if decide (state_ s <> AUTH_PENDING) then skip
      else
        store_subscription l d;;
        if dea_result_code d =? DIAMETER_MULTI_ROUND_AUTH then
          respond l ACCESS_CHALLENGE (dea_eap d);; skip
        else if dea_result_code d =? DIAMETER_SUCCESS then
          respond l ACCESS_ACCEPT (dea_eap d);;
          sent ← send_create_session_request l;
          if (sent : bool) then
            s ← do (Read l);
            do (AddTimer (GtpTimeout (mac_address_ s)))
          else skip
        else respond l ACCESS_REJECT "";; skip
  end.

Definition on_gtp_create_response_received (dest_teid : Z) (success : bool)
    (pgw_teid ue_ip qci : Z) : prog unit :=
  session ← do (GetSessionByTeidC dest_teid);
  match session with
  | None => skip
  | Some l =>
      if negb success then skip
      else
        s ← do (Read l);
        if decide (state_ s <> GTP_CREATE_PENDING) then skip
        else
          do (Assign l (set_member (M_pgw_teid_u pgw_teid)));;
          do (Assign l (set_member (M_ue_ip ue_ip)));;
          do (Assign l (set_member (M_qci qci)));;
          done ← setup_kernel_gtpu_tunnel l;
          if (done : bool) then do (Assign l (set_state CONNECTED)) else skip
  end.

Definition on_gtp_delete_bearer_request_received (dest_teid : Z) : prog unit :=
  session ← do (GetSessionByTeidC dest_teid);
  match session with
  | None => skip
  | Some l =>
      s ← do (Read l);
      let mac := mac_address_ s in
      do (Assign l (set_state DISCONNECTING));;
      teardown_kernel_gtpu_tunnel l;;
      send_str l;;
      s ← do (Read l);
      send_disconnect_request (radius_client_addr_ s) mac;;
      do (RemoveSession mac)
  end.

Definition on_aaa_abort_session_received (mac : string) : prog unit :=
  session ← do (GetSession mac);
  match session with
  | None => skip
  | Some l =>
      do (Assign l (set_state DISCONNECTING));;
      teardown_kernel_gtpu_tunnel l;;
      send_delete_session_request l;;
      s ← do (Read l);
      send_disconnect_request (radius_client_addr_ s) mac;;
      do (RemoveSession mac)
  end.

(** [handle_dhcp_discover] and [handle_dhcp_request], which differ in the
    message they send. *)
Definition handle_dhcp (mac : string) (transaction_id msg_type : Z) : prog unit :=
  session ← do (GetSession mac);
  match session with
  | None => skip
  | Some l =>
      s ← do (Read l);
      if decide (state_ s = CONNECTED /\ ue_ip_ s <> 0)
      then send_dhcp_response mac (ue_ip_ s) transaction_id msg_type
      else skip
  end.

Definition handle_dhcp_discover (mac : string) (transaction_id : Z) : prog unit :=
  handle_dhcp mac transaction_id DHCP_OFFER.

Definition handle_dhcp_request (mac : string) (transaction_id : Z) : prog unit :=
  handle_dhcp mac transaction_id DHCP_ACK.

(** * Events *)

(** [RadiusServer::handle_udp_rx]. *)
Definition radius_handle_udp_rx (src : sockaddr_in) (buffer : list Z) : prog unit :=
  match parse_packet buffer with
  | Done None => skip
  | Done (Some p) =>
      let a := rp_attrs p in
      let acct := negb (str_empty (cfg_acct_server_ip env_config)) in
      if rp_code p =? ACCESS_REQUEST then
        handle_radius_access_request (mac_addr a) (extract_imsi (eap_payload a)) (eap_payload a)
          src (rp_id p) (rp_authenticator p)
      else if rp_code p =? ACCOUNTING_REQUEST then
        (if acct_status_type a =? 2 then disconnect_ue (mac_addr a) else skip);;
        if acct then
          do (SetPending (rp_id p) src);;
          ok ← do (Ask env_bool);
          do (Emit (RadiusSend None env_acct_server_addr (take (rp_len p) buffer) ok))
        else
          send_response None src ACCOUNTING_RESPONSE (rp_id p) (rp_authenticator p) "";; skip
      else if rp_code p =? ACCOUNTING_RESPONSE then
        if acct && (sin_addr src =? sin_addr env_acct_server_addr) then
          to ← do (TakePending (rp_id p));
          match to with
          | Some addr =>
              ok ← do (Ask env_bool);
              do (Emit (RadiusSend None addr (take (rp_len p) buffer) ok))
          | None => skip
          end
        else skip
      else skip
  | _ => Crash
  end.

(** [DhcpServer::handle_udp_rx]. *)
Definition dhcp_handle_udp_rx (buffer : bytes) (n : Z) : prog unit :=
  match dhcp_parse buffer n with
  | Done (Some (Discover mac xid)) => handle_dhcp_discover mac xid
  | Done (Some (Request mac xid)) => handle_dhcp_request mac xid
  | Done None => skip
  | _ => Crash
  end.

(** [S2aInterface::handle_udp_rx]; a decoder that does not end takes the event
    loop with it. *)
Definition s2a_handle_udp_rx (src : sockaddr_in) (buffer : bytes) (n : Z) : prog unit :=
  stack ← do (Ask env_stack);
  match s2a_rx buffer stack n with
  | Done (Some (CreateResponse dest_teid success pgw_teid ue_ip qci)) =>
      on_gtp_create_response_received dest_teid success pgw_teid ue_ip qci
  | Done (Some (DeleteBearer dest_teid reply)) =>
      ok ← do (Ask env_bool);
      do (Emit (GtpSend (sin_addr src) reply ok));;
      on_gtp_delete_bearer_request_received dest_teid
  | Done None => skip
  | _ => Crash
  end.

(** What the event loop thread handles. *)
Inductive loop_event :=
| RadiusRx (src : sockaddr_in) (buffer : list Z)
| DhcpRx (buffer : bytes) (n : Z)
| S2aRx (src : sockaddr_in) (buffer : bytes) (n : Z)
| TimerExpired (t : timer).

Definition loop_handler (e : loop_event) : prog unit :=
  match e with
  | RadiusRx src buffer => radius_handle_udp_rx src buffer
  | DhcpRx buffer n => dhcp_handle_udp_rx buffer n
  | S2aRx src buffer n => s2a_handle_udp_rx src buffer n
  | TimerExpired (GtpTimeout mac) => on_gtp_timeout mac
  end.

(** What the threads of freeDiameter handle. *)
Inductive diameter_event :=
| DeaRx (msg : list avp)
| AsrRx (msg : list avp).

Definition diameter_handler (e : diameter_event) : prog unit :=
  match e with
  | DeaRx msg =>
      match dea_cb env_dict msg with
      | Some d => on_dea_received d
      | None => skip
      end
  | AsrRx msg =>
      let mac := asr_cb env_dict msg in
      answered ← do (Ask env_bool);
      (if (answered : bool) then
         ok ← do (Ask env_bool);
         do (Emit (DiameterSend ASA asa_avps ok))
       else skip);;
      if str_empty mac then skip else on_aaa_abort_session_received mac
  end.

End Handlers.
