(* ===== verification/TwagSafety.v ===== *)
(** Invariants of the gateway under every interleaving of its threads.

    The event loop thread runs the handlers of RADIUS, DHCP, GTP and timers one
    after the other; the threads of freeDiameter run the handlers of Diameter
    messages at the same time.  A configuration is the shared state, the rest
    of the handler of the event loop and the rests of the Diameter handlers;
    a step is one atomic operation of one thread ([step]).

    The invariant [inv] is proved by rely and guarantee: [safe loop p Q st]
    says that the program [p] only executes operations whose precondition
    holds, whatever the other threads do in between, and ends in [Q]. *)

From stdpp Require Import base gmap strings list.
From Stdlib Require Import ZArith Lia.
From S2P Require Import Prelude EncDecBits WireFormat IeFormat TwagNet TwagRadius TwagDhcp TwagS2a TwagDns TwagSta TwagState TwagCore.
Open Scope Z_scope.

(** * What has happened *)

(** The session [l] was answered with an Access-Accept. *)
Definition accepted (l : loc) (st : state) : Prop :=
  ∃ to id auth eap d ok,
    response_datagram ACCESS_ACCEPT id auth eap = Some d ∧ RadiusSend (Some l) to d ok ∈ trace st.

(** A kernel tunnel was requested for the session [l]. *)
Definition tunnelled (l : loc) (st : state) : Prop :=
  ∃ i o ms sgsn ok, TunnelAdd l i o ms sgsn ok ∈ trace st.

Definition known (l : loc) (mac : string) (st : state) : Prop :=
  ∃ s, heap st !! l = Some s ∧ mac_address_ s = mac.

(** A DHCP answer with an address, for a session that has both. *)
Definition dhcp_justified (mac : string) (d : list Z) (st : state) : Prop :=
  ∃ l ip xid t, ip ≠ 0 ∧ d = dhcp_response mac ip xid t
    ∧ known l mac st ∧ accepted l st ∧ tunnelled l st.

Section Safety.
Context {E : Env}.

Definition session_inv (l : loc) (s : UeSession) (st : state) : Prop :=
  gtp_teid_c_ s = u32 (1 + 2 * Z.of_nat l) ∧ gtp_teid_u_ s = u32 (2 + 2 * Z.of_nat l)
  ∧ (state_ s = GTP_CREATE_PENDING → accepted l st)
  ∧ (state_ s = CONNECTED → accepted l st ∧ tunnelled l st)
  ∧ (∃ k, pgw_teid_c_ s = un_pgw_teid_c (env_uninit k)).

Record inv (st : state) : Prop := {
  inv_keys mac l : sessions_ (manager st) !! mac = Some l → known l mac st;
  inv_size : Z.of_nat (size (sessions_ (manager st))) ≤ Z.max 0 (cfg_max_active_sessions env_config);
  inv_heap l s : heap st !! l = Some s → session_inv l s st;
  inv_next : next_teid_ (manager st) = u32 (1 + 2 * Z.of_nat (length (heap st)));
  inv_stats : ∃ removed, length (heap st) = (size (sessions_ (manager st)) + removed)%nat
    ∧ total_connections_ (manager st) = u64 (Z.of_nat (length (heap st)))
    ∧ total_disconnections_ (manager st) = u64 (Z.of_nat removed);
  inv_dhcp mac d ok : DhcpSend mac d ok ∈ trace st → dhcp_justified mac d st
}.

(** * Rely and guarantee *)

(** What any step of any thread keeps; the event loop also knows that the
    others only remove sessions. *)
Definition rely (loop : bool) (st st' : state) : Prop :=
  (∀ l mac, known l mac st → known l mac st')
  ∧ (∀ e, e ∈ trace st → e ∈ trace st')
  ∧ (loop = true → sessions_ (manager st') ⊆ sessions_ (manager st)).

(** What an operation needs. *)
Definition pre (loop : bool) {A} (o : op A) (st : state) : Prop :=
  match o with
  | CreateSession mac =>
      loop = true ∧ sessions_ (manager st) !! mac = None
      ∧ Z.of_nat (size (sessions_ (manager st))) < cfg_max_active_sessions env_config
  | Assign l f =>
      ∀ s, heap st !! l = Some s →
        mac_address_ (f s) = mac_address_ s ∧ session_inv l (f s) st
  | Emit (DhcpSend mac d ok) => dhcp_justified mac d st
  | _ => True
  end.

Fixpoint safe (loop : bool) {A} (p : prog A) (Q : A → state → Prop) (st : state) : Prop :=
  match p with
  | Ret a => ∀ st', rely loop st st' → inv st' → Q a st'
  | Op o k => ∀ st', rely loop st st' → inv st' →
      pre loop o st' ∧ safe loop (k (exec o st').1) Q (exec o st').2
  | Crash => True
  end.

(** * Lemmas on the state *)

Lemma rely_refl loop st : rely loop st st.
Proof. repeat split; auto. Qed.

Lemma rely_trans loop st1 st2 st3 : rely loop st1 st2 → rely loop st2 st3 → rely loop st1 st3.
Proof.
  intros (K1 & T1 & S1) (K2 & T2 & S2). repeat split; auto.
  intros Hl. etrans; [apply S2 | apply S1]; exact Hl.
Qed.

Lemma accepted_rely loop l st st' : rely loop st st' → accepted l st → accepted l st'.
Proof. intros (_ & T & _) (to & id & auth & eap & d & ok & Hd & Hin). repeat eexists; eauto. Qed.

Lemma tunnelled_rely loop l st st' : rely loop st st' → tunnelled l st → tunnelled l st'.
Proof. intros (_ & T & _) (i & o & ms & sg & ok & Hin). repeat eexists; eauto. Qed.

Lemma dhcp_justified_rely loop mac d st st' :
  rely loop st st' → dhcp_justified mac d st → dhcp_justified mac d st'.
Proof.
  intros HR (l & ip & xid & t & Hip & Hd & HK & HA & HT).
  exists l, ip, xid, t. repeat split; auto; [by apply HR | by eapply accepted_rely | by eapply tunnelled_rely].
Qed.

Lemma session_inv_rely loop l s st st' :
  rely loop st st' → session_inv l s st → session_inv l s st'.
Proof.
  intros HR (H1 & H2 & H3 & H4 & H5). repeat split; auto.
  - intros Hs. by eapply accepted_rely, H3.
  - by eapply accepted_rely, H4.
  - by eapply tunnelled_rely, H4.
Qed.

(** Parts of the state an invariant reads: when an operation leaves them, the
    invariant stays. *)
Lemma inv_same st st' :
  heap st' = heap st → manager st' = manager st → trace st' = trace st → inv st → inv st'.
Proof.
  intros Hh Hm Ht [I1 I2 I3 I4 I5 I6].
  assert (HK : ∀ l mac, known l mac st → known l mac st') by (unfold known; rewrite Hh; auto).
  assert (HR : rely true st st') by (repeat split; [exact HK | by rewrite Ht | by rewrite Hm]).
  split; rewrite ?Hm, ?Hh; auto.
  - intros l s Hs. by eapply session_inv_rely, I3.
  - intros mac d ok. rewrite Ht. intros Hin. by eapply dhcp_justified_rely, I6.
Qed.

Lemma u32_succ x : u32 (u32 x + 1) = u32 (x + 1).
Proof. unfold u32. rewrite Zplus_mod_idemp_l. reflexivity. Qed.

Lemma u64_succ x : u64 (u64 x + 1) = u64 (x + 1).
Proof. unfold u64. rewrite Zplus_mod_idemp_l. reflexivity. Qed.

(** Appending an object keeps the others. *)
Lemma known_app l mac st st' s :
  heap st' = heap st ++ [s] → known l mac st → known l mac st'.
Proof.
  intros Hh (x & Hx & Hm). exists x. rewrite Hh. split; [|exact Hm]. by apply lookup_app_l_Some.
Qed.

Lemma create_session_ok mac st :
  inv st → pre true (CreateSession mac) st →
  inv (create_session mac st).2 ∧ rely false st (create_session mac st).2.
Proof.
  intros [I1 I2 I3 I4 I5 I6] (_ & Hnone & Hmax). cbn in Hnone, Hmax.
  set (st' := (create_session mac st).2).
  assert (HK : ∀ l m, known l m st → known l m st') by (intros; by eapply known_app).
  assert (HR : rely false st st') by (repeat split; [exact HK | auto | discriminate]).
  split; [|exact HR]. split; cbn.
  - intros m l. rewrite lookup_insert. case_decide as Hm; [|auto]. intros [= <-]. subst m.
    eexists. split; [by apply list_lookup_middle|reflexivity].
  - rewrite map_size_insert_None by exact Hnone. lia.
  - intros l s. rewrite lookup_app. destruct (heap st !! l) as [s'|] eqn:Hl.
    + intros [= <-]. by eapply session_inv_rely, I3.
    + intros Hs. apply lookup_ge_None in Hl. apply list_lookup_singleton_Some in Hs. destruct Hs as [Hi <-].
      replace l with (length (heap st)) by lia. unfold session_inv. cbn.
      rewrite I4, u32_succ. repeat split; try discriminate; [f_equal; lia | eauto].
  - rewrite I4, (u32_succ (1 + _)), u32_succ, length_app. cbn. f_equal. lia.
  - destruct I5 as (removed & H1 & H2 & H3). exists removed.
    rewrite map_size_insert_None, length_app by exact Hnone. cbn. rewrite H2, u64_succ.
    repeat split; [lia | f_equal; lia | exact H3].
  - intros m d ok Hin. by eapply dhcp_justified_rely, I6.
Qed.

Lemma with_manager_ok st m :
  (∃ k, (m = manager st ∨ m = remove_session k (manager st) ∨ m = increment_rejected (manager st))) →
  inv st → inv (with_manager st m) ∧ rely true st (with_manager st m).
Proof.
  intros (k & Hm) [I1 I2 I3 I4 I5 I6].
  assert (Hsub : sessions_ m ⊆ sessions_ (manager st)).
  { destruct Hm as [-> | [-> | ->]]; [reflexivity| |reflexivity].
    unfold remove_session. case_match; [apply delete_subseteq|reflexivity]. }
  assert (HR : rely true st (with_manager st m)) by (repeat split; auto).
  split; [|exact HR]. split; cbn.
  - intros mac l Hl. apply I1. by eapply lookup_weaken.
  - apply map_subseteq_size in Hsub. lia.
  - intros l s Hs. by eapply session_inv_rely, I3.
  - destruct Hm as [-> | [-> | ->]]; [exact I4| |exact I4]. unfold remove_session. by case_match.
  - destruct Hm as [-> | [-> | ->]]; [exact I5| |exact I5]. unfold remove_session.
    destruct (sessions_ (manager st) !! k) as [l|] eqn:Hk; [|exact I5].
    destruct I5 as (removed & H1 & H2 & H3). exists (S removed). cbn.
    pose proof (map_size_delete_Some (M := gmap string) k (sessions_ (manager st)) (mk_is_Some _ _ Hk)) as Hd.
    assert (0 < size (sessions_ (manager st)))%nat.
    { destruct (decide (sessions_ (manager st) = ∅)) as [He|He]; [by rewrite He in Hk|].
      apply map_size_non_empty_iff in He. lia. }
    rewrite H3, u64_succ. repeat split; [lia | exact H2 | f_equal; lia].
  - intros mac d ok Hin. by eapply dhcp_justified_rely, I6.
Qed.

Lemma assign_ok loop l f st :
  inv st → pre loop (Assign l f) st →
  inv (exec (Assign l f) st).2 ∧ rely true st (exec (Assign l f) st).2.
Proof.
  intros [I1 I2 I3 I4 I5 I6] Hp. cbn in Hp. set (st' := (exec (Assign l f) st).2).
  assert (HK : ∀ k m, known k m st → known k m st').
  { intros k m (s & Hs & Hm). unfold known. cbn. destruct (decide (k = l)) as [->|Hne].
    - exists (f s). rewrite list_lookup_alter_eq, Hs. split; [reflexivity|].
      rewrite (proj1 (Hp s Hs)). exact Hm.
    - exists s. rewrite list_lookup_alter_ne by congruence. auto. }
  assert (HR : rely true st st') by (repeat split; [exact HK | auto | auto]).
  split; [|exact HR]. split; cbn; auto.
  - intros k s. destruct (decide (k = l)) as [->|Hne].
    + rewrite list_lookup_alter_eq. destruct (heap st !! l) as [s'|] eqn:Hs; [|discriminate].
      intros [= <-]. eapply session_inv_rely; [exact HR|]. by apply Hp.
    + rewrite list_lookup_alter_ne by congruence. intros Hs. by eapply session_inv_rely, I3.
  - by rewrite length_alter.
  - by rewrite length_alter.
  - intros mac d ok Hin. by eapply dhcp_justified_rely, I6.
Qed.

Lemma emit_ok loop e st :
  inv st → pre loop (Emit e) st → inv (exec (Emit e) st).2 ∧ rely true st (exec (Emit e) st).2.
Proof.
  intros [I1 I2 I3 I4 I5 I6] Hp. set (st' := (exec (Emit e) st).2).
  assert (HR : rely true st st') by (repeat split; [auto | intros x Hx; by right | auto]).
  split; [|exact HR]. split; cbn; auto.
  - intros l s Hs. by eapply session_inv_rely, I3.
  - intros mac d ok [He|Hin]%elem_of_cons.
    + rewrite <- He in Hp. by eapply dhcp_justified_rely, Hp.
    + by eapply dhcp_justified_rely, I6.
Qed.

(** The guarantee of every operation. *)
Lemma exec_ok loop {A} (o : op A) st :
  inv st → pre loop o st →
  inv (exec o st).2 ∧ rely false st (exec o st).2 ∧ (loop = false → rely true st (exec o st).2).
Proof.
  assert (weak : ∀ st st', rely true st st' → rely false st st') by (intros ? ? (? & ? & ?); by repeat split).
  assert (same : ∀ st', heap st' = heap st → manager st' = manager st → trace st' = trace st →
    inv st → inv st' ∧ rely false st st' ∧ (loop = false → rely true st st')).
  { intros st' Hh Hm Ht I. assert (rely true st st').
    { repeat split; [intros l mac; unfold known; by rewrite Hh | by rewrite Ht | by rewrite Hm]. }
    split; [by eapply inv_same|]. auto. }
  intros I Hp. destruct o; try (apply same; auto; done).
  - destruct Hp as (Hl & Hp). destruct (create_session_ok mac st I) as [H1 H2]; [by split|].
    split; [exact H1|]. split; [exact H2|]. intros. congruence.
  - destruct (with_manager_ok st (remove_session mac (manager st))) as [H1 H2]; [eauto|exact I|]. auto.
  - destruct (with_manager_ok st (increment_rejected (manager st))) as [H1 H2]; [exists ""; auto|exact I|]. auto.
  - destruct (assign_ok loop l f st I Hp) as [H1 H2]. auto.
  - destruct (emit_ok loop e st I Hp) as [H1 H2]. auto.
Qed.

End Safety.
