(* ===== verification/TwagHandlers.v ===== *)
(** Every handler of the gateway is safe under interference: the rules of
    [safe] and one lemma per routine and handler of TwagCore. *)

From stdpp Require Import base gmap strings list.
From Stdlib Require Import ZArith Lia.
From S2P Require Import Prelude EncDecBits WireFormat IeFormat TwagNet TwagRadius TwagDhcp TwagS2a TwagDns TwagSta TwagState TwagCore TwagSafety.
Open Scope Z_scope.

Create HintDb rely.
#[export] Hint Resolve accepted_rely tunnelled_rely : rely.

Section Rules.
Context {E : Env} (loop : bool).

Lemma safe_later {A} (p : prog A) Q st :
  (∀ st', rely loop st st' → inv st' → safe loop p Q st') → safe loop p Q st.
Proof.
  intros H. destruct p; cbn; [| |exact I].
  - intros st' HR HI. exact (H st' HR HI st' (rely_refl _ _) HI).
  - intros st' HR HI. exact (H st' HR HI st' (rely_refl _ _) HI).
Qed.

(** Interference before the program starts. *)
Lemma safe_rely {A} (p : prog A) Q st st' : safe loop p Q st → rely loop st st' → safe loop p Q st'.
Proof.
  destruct p; cbn; intros H HR; [| |exact I]; intros st'' HR' HI; apply H; auto;
    by eapply rely_trans.
Qed.

Lemma safe_bind {A B} (p : prog A) (f : A → prog B) Q st :
  safe loop p (λ a st', safe loop (f a) Q st') st → safe loop (p ≫= f) Q st.
Proof.
  revert st. induction p as [a|C o k IH|]; intros st; cbn.
  - apply safe_later.
  - intros H st' HR HI. destruct (H st' HR HI) as [Hp Hs]. split; [exact Hp|]. by apply IH.
  - done.
Qed.

Lemma safe_mono {A} (p : prog A) Q Q' st :
  safe loop p Q st → (∀ a st', rely false st st' → inv st' → Q a st' → Q' a st') → safe loop p Q' st.
Proof.
  revert st. induction p as [a|C o k IH|]; intros st; cbn; [| |done].
  - intros H HQ st' HR HI. apply HQ; auto. destruct HR as (? & ? & ?). by repeat split.
  - intros H HQ st' HR HI. destruct (H st' HR HI) as [Hp Hs]. split; [exact Hp|].
    apply (IH _ _ Hs). intros a st'' HR' HI' Hq. apply HQ; auto.
    destruct (exec_ok loop o st' HI Hp) as (_ & HR'' & _).
    assert (rely false st st') by (destruct HR as (? & ? & ?); by repeat split).
    by repeat (eapply rely_trans; [eassumption|]).
Qed.

(** A sequence whose first part gives [P] and keeps what was known. *)
Lemma safe_seq {A B} (p : prog A) (f : A → prog B) P Q st :
  safe loop p P st →
  (∀ a st', rely false st st' → inv st' → P a st' → safe loop (f a) Q st') →
  safe loop (p ≫= f) Q st.
Proof. intros H1 H2. apply safe_bind. apply (safe_mono p P); auto. Qed.

Lemma safe_ret {A} (a : A) (Q : A → state → Prop) st :
  (∀ st', rely loop st st' → inv st' → Q a st') → safe loop (mret a) Q st.
Proof. auto. Qed.

Lemma safe_skip (Q : unit → state → Prop) st :
  (∀ st', rely loop st st' → inv st' → Q tt st') → safe loop skip Q st.
Proof. auto. Qed.

Lemma safe_if {A} (b : bool) (p q : prog A) Q st :
  (b = true → safe loop p Q st) → (b = false → safe loop q Q st) →
  safe loop (if b then p else q) Q st.
Proof. destruct b; auto. Qed.

(** One operation; what it gives is known of the state it ran in. *)
Lemma safe_do {A} (o : op A) Q st :
  (∀ st', rely loop st st' → inv st' →
     pre loop o st' ∧ (∀ st'', rely loop (exec o st').2 st'' → inv st'' → Q (exec o st').1 st'')) →
  safe loop (do o) Q st.
Proof. intros H st' HR HI. destruct (H st' HR HI) as [H1 H2]. auto. Qed.

(** An operation nothing is to be known of. *)
Definition plain {A} (o : op A) : Prop := ∀ st, pre loop o st.

Lemma safe_plain {A} (o : op A) st : plain o → safe loop (do o) (λ _ _, True) st.
Proof. intros Hp. apply safe_do. auto. Qed.

Lemma safe_get mac st :
  safe loop (do (GetSession mac)) (λ r st', ∀ l, r = Some l → known l mac st') st.
Proof.
  apply safe_do. intros st' HR HI. split; [exact I|]. intros st'' HR' HI' l Hl. cbn in Hl.
  apply HR'. unfold known. cbn. by apply inv_keys.
Qed.

Lemma safe_assign l f st :
  (∀ st' s, rely loop st st' → inv st' → heap st' !! l = Some s → session_inv l s st' →
     mac_address_ (f s) = mac_address_ s ∧ session_inv l (f s) st') →
  safe loop (do (Assign l f)) (λ _ _, True) st.
Proof.
  intros H. apply safe_do. intros st' HR HI. split; [|done].
  intros s Hs. apply H; auto. by apply inv_heap.
Qed.

Lemma safe_set_member l m st : safe loop (do (Assign l (set_member m))) (λ _ _, True) st.
Proof. apply safe_assign. intros st' s HR HI Hs (H1 & H2 & H3 & H4 & H5). done. Qed.

(** A state that needs no evidence. *)
Lemma safe_set_state l x st :
  x ≠ GTP_CREATE_PENDING → x ≠ CONNECTED →
  safe loop (do (Assign l (set_state x))) (λ _ _, True) st.
Proof.
  intros Hx Hy. apply safe_assign. intros st' s HR HI Hs (H1 & H2 & H3 & H4 & H5).
  split; [reflexivity|]. split_and!; auto; cbn; intros; congruence.
Qed.

End Rules.

(** A step of a program nothing is to be known of. *)
Ltac plain_step :=
  eapply safe_seq; [apply safe_plain; intros ?; exact I|];
  let a := fresh "a" in let st := fresh "st" in
  let R := fresh "Rely" in let V := fresh "Inv" in
  intros a st R V _.

Ltac plain_last := eapply safe_mono; [apply safe_plain; intros ?; exact I | done].

Section Routines.
Context {E : Env} (loop : bool).

Lemma send_response_safe who addr code id auth eap st :
  safe loop (send_response who addr code id auth eap)
    (λ _ st', ∀ l, who = Some l → code = ACCESS_ACCEPT → accepted l st') st.
Proof.
  unfold send_response. destruct (response_datagram _ _ _ _) as [d|] eqn:Hd; [|exact I].
  plain_step. apply safe_bind, safe_do. intros st' HR HI. split; [exact I|].
  intros st'' HR' HI'. apply safe_ret. intros st3 HR3 HI3 l -> ->.
  eapply (accepted_rely loop); [exact HR3|]. eapply (accepted_rely loop); [exact HR'|].
  repeat eexists; [exact Hd|]. by left.
Qed.

Lemma send_disconnect_request_safe addr mac st :
  safe loop (send_disconnect_request addr mac) (λ _ _, True) st.
Proof.
  unfold send_disconnect_request. destruct (disconnect_datagram mac) as [d|]; [|exact I].
  plain_step. plain_step. by apply safe_ret.
Qed.

Lemma send_der_safe l eap st : safe loop (send_der l eap) (λ _ _, True) st.
Proof.
  unfold send_der. plain_step. apply safe_if; intros _; [by apply safe_ret|].
  plain_step. plain_step. plain_step. plain_step. apply safe_if; intros _; [by apply safe_ret|].
  eapply safe_seq; [by apply safe_set_state|]. intros. by apply safe_ret.
Qed.

Lemma send_str_safe l st : safe loop (send_str l) (λ _ _, True) st.
Proof.
  unfold send_str. plain_step. apply safe_if; intros _; [by apply safe_ret|].
  plain_step. plain_step. plain_step. plain_step. by apply safe_ret.
Qed.

Lemma send_create_session_request_safe l st :
  accepted l st → safe loop (send_create_session_request l) (λ _ _, True) st.
Proof.
  intros HA. unfold send_create_session_request. plain_step. plain_step. plain_step.
  destruct (create_session_datagram _ _ _ _ _ _ _ _) as [d|]; [|exact I].
  destruct (inet_pton _) as [addr|]; [|by apply safe_ret].
  plain_step. plain_step. apply safe_if; intros _; [by apply safe_ret|].
  eapply safe_seq; [|intros; by apply safe_ret].
  apply safe_assign. intros st' s HR HI Hs (H1 & H2 & H3 & H4 & H5).
  split; [reflexivity|]. split_and!; auto; cbn; try discriminate.
  intros _. eauto 10 with rely.
Qed.

Lemma send_delete_session_request_safe l st :
  safe loop (send_delete_session_request l) (λ _ _, True) st.
Proof.
  unfold send_delete_session_request. plain_step. plain_step.
  destruct (delete_session_datagram _ _) as [d|]; [|exact I].
  destruct (inet_pton _) as [addr|]; [|by apply safe_ret].
  plain_step. plain_step. by apply safe_ret.
Qed.

Lemma setup_kernel_gtpu_tunnel_safe l st :
  safe loop (setup_kernel_gtpu_tunnel l) (λ r st', r = true → tunnelled l st') st.
Proof.
  unfold setup_kernel_gtpu_tunnel.
  plain_step. apply safe_if; intros _; [by apply safe_ret|].
  plain_step. apply safe_if; intros _; [by apply safe_ret|].
  plain_step. apply safe_if; intros _; [by apply safe_ret|].
  plain_step. plain_step.
  eapply (safe_seq _ _ _ (λ _ st', tunnelled l st')).
  - apply safe_do. intros st' HR HI. split; [exact I|]. intros st'' HR' HI'.
    eapply (tunnelled_rely loop); [exact HR'|]. repeat eexists. by left.
  - intros ? ? HR1 HI1 HT. eapply safe_seq.
    + apply safe_if; intros _; [plain_last | by apply safe_skip].
    + intros ? ? HR2 HI2 _. apply safe_ret. intros ? HR3 HI3 _. eauto with rely.
Qed.

Lemma teardown_kernel_gtpu_tunnel_safe l st :
  safe loop (teardown_kernel_gtpu_tunnel l) (λ _ _, True) st.
Proof.
  unfold teardown_kernel_gtpu_tunnel. plain_step. plain_step. eapply safe_seq.
  - apply safe_if; intros _; [plain_last | by apply safe_skip].
  - intros. by apply safe_ret.
Qed.

End Routines.

Section Handlers.
Context {E : Env} (loop : bool).

Lemma safe_read l st :
  safe loop (do (Read l))
    (λ s st', (state_ s = GTP_CREATE_PENDING → accepted l st')
              ∧ (state_ s = CONNECTED → accepted l st' ∧ tunnelled l st')) st.
Proof.
  apply safe_do. intros st' HR HI. split; [exact I|]. intros st'' HR' HI'. cbn [exec fst].
  assert (HR2 : rely loop st' st'') by exact HR'.
  destruct (heap st' !! l) as [s|] eqn:Hs.
  - rewrite (list_lookup_total_correct _ _ _ Hs).
    destruct (inv_heap _ HI l s Hs) as (_ & _ & H3 & H4 & _).
    split; intros Hx; [|split]; [|destruct (H4 Hx)..]; eauto with rely.
  - rewrite list_lookup_total_alt, Hs. cbn. split; discriminate.
Qed.

Lemma attach_safe l imsi addr id auth eap st :
  safe loop ((if str_empty imsi then skip else do (Assign l (set_member (M_imsi imsi))));;
    do (Assign l (set_member (M_radius_client_addr addr)));;
    do (Assign l (set_member (M_radius_req_id id)));;
    do (Assign l (set_member (M_radius_req_auth auth)));;
    send_der l eap;; skip) (λ _ _, True) st.
Proof.
  eapply (safe_seq _ _ _ (λ _ _, True)); [apply safe_if; intros _; [by apply safe_skip | apply safe_set_member]|]. intros.
  do 3 (eapply safe_seq; [apply safe_set_member|]; intros).
  eapply safe_seq; [apply send_der_safe|]. intros. by apply safe_skip.
Qed.

Lemma disconnect_ue_safe mac st : safe loop (disconnect_ue mac) (λ _ _, True) st.
Proof.
  unfold disconnect_ue. eapply safe_seq; [apply safe_get|]. intros [l|] ? ? ? ?; [|by apply safe_skip].
  eapply safe_seq; [apply send_str_safe|]. intros.
  eapply safe_seq; [apply send_delete_session_request_safe|]. intros.
  eapply safe_seq; [apply teardown_kernel_gtpu_tunnel_safe|]. intros. plain_last.
Qed.

Lemma on_gtp_timeout_safe mac st : safe loop (on_gtp_timeout mac) (λ _ _, True) st.
Proof.
  unfold on_gtp_timeout. eapply safe_seq; [apply safe_get|]. intros [l|] ? ? ? ?; [|by apply safe_skip].
  plain_step. case_decide; [|by apply safe_skip]. plain_step.
  eapply safe_seq; [apply send_response_safe|]. intros. apply disconnect_ue_safe.
Qed.

Lemma respond_safe l code eap st :
  safe loop (respond l code eap) (λ _ st', code = ACCESS_ACCEPT → accepted l st') st.
Proof.
  unfold respond. plain_step. eapply safe_mono; [apply send_response_safe|]. cbn. eauto.
Qed.

Lemma choose_pgw_safe l d st : safe loop (choose_pgw l d) (λ _ _, True) st.
Proof.
  unfold choose_pgw. apply safe_if; intros _; [apply safe_set_member|]. plain_step. plain_step. plain_step.
  destruct (resolve_pgw_snaptr _ _ _); [|exact I|exact I].
  apply safe_if; intros _; apply safe_set_member.
Qed.

Lemma store_subscription_safe l d st : safe loop (store_subscription l d) (λ _ _, True) st.
Proof.
  unfold store_subscription. eapply safe_seq.
  { apply safe_if; intros _; [apply safe_set_member|]. plain_step.
    apply safe_if; intros _; [apply safe_set_member | by apply safe_skip]. }
  intros. do 3 (eapply safe_seq; [apply safe_if; intros _; [apply safe_set_member | by apply safe_skip]|]; intros).
  apply choose_pgw_safe.
Qed.

Lemma on_dea_received_safe d st : safe loop (on_dea_received d) (λ _ _, True) st.
Proof.
  unfold on_dea_received. eapply safe_seq; [apply safe_get|]. intros [l|] ? ? ? ?; [|by apply safe_skip].
  plain_step. case_decide; [by apply safe_skip|].
  eapply safe_seq; [apply store_subscription_safe|]. intros. apply safe_if; intros _.
  { eapply safe_seq; [apply respond_safe|]. intros. by apply safe_skip. }
  apply safe_if; intros _.
  2:{ eapply safe_seq; [apply respond_safe|]. intros. by apply safe_skip. }
  eapply safe_seq; [apply respond_safe|]. intros ? ? ? ? HA. cbn beta in HA.
  eapply safe_seq; [apply send_create_session_request_safe, HA, eq_refl|]. intros [|] ? ? ? _; [|by apply safe_skip].
  plain_step. plain_last.
Qed.

Lemma on_gtp_create_response_received_safe teid success pgw_teid ue_ip qci st :
  safe loop (on_gtp_create_response_received teid success pgw_teid ue_ip qci) (λ _ _, True) st.
Proof.
  unfold on_gtp_create_response_received. plain_step. destruct a as [l|]; [|by apply safe_skip].
  apply safe_if; intros _; [by apply safe_skip|].
  eapply safe_seq; [apply safe_read|]. intros s ? ? ? [HA _].
  case_decide as Hs; [by apply safe_skip|]. specialize (HA Hs).
  do 3 (eapply safe_seq; [apply safe_set_member|]; intros).
  eapply safe_seq; [apply setup_kernel_gtpu_tunnel_safe|]. intros [|] ? ? ? HT; [|by apply safe_skip].
  specialize (HT eq_refl). apply safe_assign. intros st9 x HR HI Hx (H1' & H2' & _ & _ & H5').
  split; [reflexivity|]. split_and!; auto; cbn; [discriminate|]. intros _. split; eauto 10 with rely.
Qed.

Lemma on_gtp_delete_bearer_request_received_safe teid st :
  safe loop (on_gtp_delete_bearer_request_received teid) (λ _ _, True) st.
Proof.
  unfold on_gtp_delete_bearer_request_received. plain_step. destruct a as [l|]; [|by apply safe_skip].
  plain_step. eapply safe_seq; [by apply safe_set_state|]. intros.
  eapply safe_seq; [apply teardown_kernel_gtpu_tunnel_safe|]. intros.
  eapply safe_seq; [apply send_str_safe|]. intros. plain_step.
  eapply safe_seq; [apply send_disconnect_request_safe|]. intros. plain_last.
Qed.

Lemma on_aaa_abort_session_received_safe mac st :
  safe loop (on_aaa_abort_session_received mac) (λ _ _, True) st.
Proof.
  unfold on_aaa_abort_session_received. eapply safe_seq; [apply safe_get|].
  intros [l|] ? ? ? ?; [|by apply safe_skip].
  eapply safe_seq; [by apply safe_set_state|]. intros.
  eapply safe_seq; [apply teardown_kernel_gtpu_tunnel_safe|]. intros.
  eapply safe_seq; [apply send_delete_session_request_safe|]. intros. plain_step.
  eapply safe_seq; [apply send_disconnect_request_safe|]. intros. plain_last.
Qed.

Lemma handle_dhcp_safe mac xid t st : safe loop (handle_dhcp mac xid t) (λ _ _, True) st.
Proof.
  unfold handle_dhcp. eapply safe_seq; [apply safe_get|]. intros [l|] st1 _ _ HK; [|by apply safe_skip].
  specialize (HK l eq_refl).
  eapply safe_seq; [apply safe_read|]. intros s st2 HR2 HI2 [_ HC].
  case_decide as Hs; [|by apply safe_skip]. destruct Hs as [Hs Hip]. destruct (HC Hs) as [HA HT].
  unfold send_dhcp_response. plain_step. apply safe_do. intros st' HR HI. split; [|done].
  exists l, (ue_ip_ s), xid, t. split_and!; auto; [|eauto with rely..].
  apply HR, Rely, HR2, HK.
Qed.

Lemma diameter_handler_safe e st : safe loop (diameter_handler e) (λ _ _, True) st.
Proof.
  destruct e as [msg|msg]; cbn [diameter_handler].
  - destruct (dea_cb _ _); [apply on_dea_received_safe | by apply safe_skip].
  - plain_step. eapply safe_seq.
    + apply safe_if; intros _; [plain_step; plain_last | by apply safe_skip].
    + intros. apply safe_if; intros _; [by apply safe_skip | apply on_aaa_abort_session_received_safe].
Qed.

End Handlers.

Section LoopHandlers.
Context {E : Env}.

Lemma handle_radius_access_request_safe mac imsi eap addr id auth st :
  safe true (handle_radius_access_request mac imsi eap addr id auth) (λ _ _, True) st.
Proof.
  unfold handle_radius_access_request.
  eapply (safe_seq _ _ _ (λ r st', r = None → sessions_ (manager st') !! mac = None)).
  { apply safe_do. intros st' HR HI. split; [exact I|]. intros st'' (_ & _ & Hsub) _ Hn. cbn in Hn.
    eapply lookup_weaken_None; [exact Hn | by apply Hsub]. }
  intros [l|] st1 _ _ Hn; [apply attach_safe|]. specialize (Hn eq_refl).
  eapply (safe_seq _ _ _ (λ n st', sessions_ (manager st') !! mac = None
                                   ∧ Z.of_nat (size (sessions_ (manager st'))) ≤ n)).
  { apply safe_do. intros st' HR HI. split; [exact I|]. intros st'' HR'' _. cbn [exec fst].
    assert (Hsub : sessions_ (manager st') ⊆ sessions_ (manager st1)) by by apply HR.
    assert (Hsub' : sessions_ (manager st'') ⊆ sessions_ (manager st')) by by apply HR''.
    split; [eapply lookup_weaken_None; [exact Hn | by etrans]|].
    apply map_subseteq_size in Hsub'. lia. }
  intros active st2 _ _ [Hn2 Hsz]. apply safe_if.
  - intros _. plain_step. eapply safe_seq; [apply send_response_safe|]. intros. by apply safe_skip.
  - intros Hlt. eapply (safe_seq _ _ _ (λ _ _, True)); [|intros; apply attach_safe].
    apply safe_do. intros st' (_ & _ & Hsub) HI. specialize (Hsub eq_refl). split; [|done].
    split; [reflexivity|]. split; [eapply lookup_weaken_None; [exact Hn2 | exact Hsub]|].
    apply map_subseteq_size in Hsub. zbool. lia.
Qed.

Lemma loop_handler_safe e st : safe true (loop_handler e) (λ _ _, True) st.
Proof.
  destruct e as [src buffer|buffer n|src buffer n|[mac]]; cbn [loop_handler].
  - unfold radius_handle_udp_rx. destruct (parse_packet buffer) as [[p|]| |]; [|by apply safe_skip|exact I|exact I].
    apply safe_if; intros _; [apply handle_radius_access_request_safe|].
    apply safe_if; intros _.
    + eapply safe_seq; [apply safe_if; intros _; [apply disconnect_ue_safe | by apply safe_skip]|]. intros.
      apply safe_if; intros _; [plain_step; plain_step; plain_last|].
      eapply safe_seq; [apply send_response_safe|]. intros. by apply safe_skip.
    + apply safe_if; intros _; [|by apply safe_skip]. apply safe_if; intros _; [|by apply safe_skip].
      plain_step. destruct a; [plain_step; plain_last | by apply safe_skip].
  - unfold dhcp_handle_udp_rx. destruct (dhcp_parse buffer n) as [[[]|]| |];
      first [apply handle_dhcp_safe | by apply safe_skip | exact I].
  - unfold s2a_handle_udp_rx. plain_step.
    destruct (s2a_rx _ _ _) as [[[]|]| |];
      first [apply on_gtp_create_response_received_safe | by apply safe_skip | exact I | idtac].
    plain_step. plain_step. apply on_gtp_delete_bearer_request_received_safe.
  - apply on_gtp_timeout_safe.
Qed.

End LoopHandlers.
