(* ===== verification/TwagSystem.v ===== *)
(** The gateway as a system of threads: steps, reachable configurations, and
    what holds in all of them. *)

From stdpp Require Import base gmap strings list relations.
From Stdlib Require Import ZArith Lia.
From S2P Require Import Prelude EncDecBits WireFormat IeFormat TwagNet TwagRadius TwagDhcp TwagS2a TwagDns TwagSta TwagState TwagCore TwagSafety TwagHandlers.
Open Scope Z_scope.

(** The shared state, what is left of the handler the event loop
    ([EventLoop::run]) is in, and of the handlers of the Diameter threads. *)
Record config := Config {
  shared : state;
  loop_thread : prog unit;
  diameter_threads : list (prog unit)
}.

Definition without_timer (st : state) (ts : list timer) : state :=
  State (heap st) (manager st) ts (pending_acct_reqs_ st) (trace st) (ticks st).

Section System.
Context {E : Env}.

Inductive step : config → config → Prop :=
| step_event st ds src buffer :
    step (Config st (Ret tt) ds) (Config st (loop_handler (RadiusRx src buffer)) ds)
| step_dhcp st ds buffer n :
    step (Config st (Ret tt) ds) (Config st (loop_handler (DhcpRx buffer n)) ds)
| step_s2a st ds src buffer n :
    step (Config st (Ret tt) ds) (Config st (loop_handler (S2aRx src buffer n)) ds)
| step_timer st ds ts1 t ts2 :
    timers st = ts1 ++ t :: ts2 →
    step (Config st (Ret tt) ds) (Config (without_timer st (ts1 ++ ts2)) (loop_handler (TimerExpired t)) ds)
| step_loop {B} st (o : op B) k ds :
    step (Config st (Op o k) ds) (Config (exec o st).2 (k (exec o st).1) ds)
| step_message st p ds e :
    step (Config st p ds) (Config st p (ds ++ [diameter_handler e]))
| step_diameter {B} st p ds1 (o : op B) k ds2 :
    step (Config st p (ds1 ++ Op o k :: ds2))
         (Config (exec o st).2 p (ds1 ++ k (exec o st).1 :: ds2)).

Definition start : config := Config initial (Ret tt) [].

Definition reachable (c : config) : Prop := rtc step start c.

(** * The invariant *)

Lemma initial_inv : inv initial.
Proof.
  split; cbn.
  - intros mac l. by rewrite lookup_empty.
  - rewrite map_size_empty. lia.
  - done.
  - done.
  - exists 0%nat. by rewrite map_size_empty.
  - intros mac d ok H. by apply not_elem_of_nil in H.
Qed.

Definition config_inv (c : config) : Prop :=
  inv (shared c) ∧ safe true (loop_thread c) (λ _ _, True) (shared c)
  ∧ Forall (λ p, safe false p (λ _ _, True) (shared c)) (diameter_threads c).

Lemma diameter_stable ds st st' :
  rely false st st' → Forall (λ p : prog unit, safe false p (λ _ _, True) st) ds →
  Forall (λ p : prog unit, safe false p (λ _ _, True) st') ds.
Proof. intros HR H. eapply Forall_impl; [exact H|]. intros p Hp. exact (safe_rely false p _ st _ Hp HR). Qed.

Lemma step_inv c c' : step c c' → config_inv c → config_inv c'.
Proof.
  intros Hs (HI & HL & HD). destruct Hs; cbn in *.
  - split_and!; [exact HI | exact (loop_handler_safe (RadiusRx src buffer) st) | exact HD].
  - split_and!; [exact HI | exact (loop_handler_safe (DhcpRx buffer n) st) | exact HD].
  - split_and!; [exact HI | exact (loop_handler_safe (S2aRx src buffer n) st) | exact HD].
  - assert (HI' : inv (without_timer st (ts1 ++ ts2))) by (by apply (inv_same st)).
    split_and!; [exact HI' | exact (loop_handler_safe (TimerExpired t) _) |].
    eapply diameter_stable; [|exact HD]. by repeat split.
  - destruct (HL st (rely_refl _ _) HI) as [Hp HS].
    destruct (exec_ok true o st HI Hp) as (HI' & HR & _).
    split_and!; auto. by eapply diameter_stable.
  - split_and!; auto. apply Forall_app. split; [exact HD|]. constructor; [|constructor].
    apply diameter_handler_safe.
  - apply Forall_app in HD. destruct HD as [HD1 HD2]. inversion HD2 as [|? ? HO HD3]; subst. cbn in HO.
    destruct (HO st (rely_refl _ _) HI) as [Hp HS].
    destruct (exec_ok false o st HI Hp) as (HI' & HR & HR').
    split_and!; [exact HI' | exact (safe_rely true p _ st _ HL (HR' eq_refl)) |].
    apply Forall_app. split; [by eapply diameter_stable|].
    constructor; [exact HS | by eapply diameter_stable].
Qed.

Lemma reachable_inv c : reachable c → inv (shared c).
Proof.
  intros H. cut (config_inv c); [by intros [? _]|].
  assert (Hstart : config_inv start) by (split_and!; [apply initial_inv | done | constructor]).
  revert Hstart. unfold reachable in H. induction H; eauto using step_inv.
Qed.

(** * Running a schedule *)

Inductive choice :=
| StartLoop (e : loop_event)
| StartDiameter (e : diameter_event)
| StepLoop
| StepDiameter (i : nat).

(** One step of a schedule, if it is possible. *)
Definition take_step (c : config) (x : choice) : option config :=
  let st := shared c in
  match x with
  | StartLoop e =>
      match loop_thread c with
      | Ret _ =>
          match e with
          | TimerExpired (GtpTimeout mac) =>
              match timers st with
              | GtpTimeout mac' :: ts =>
                  if decide (mac = mac')
                  then Some (Config (without_timer st ts) (loop_handler e) (diameter_threads c))
                  else None
              | [] => None
              end
          | _ => Some (Config st (loop_handler e) (diameter_threads c))
          end
      | _ => None
      end
  | StartDiameter e => Some (Config st (loop_thread c) (diameter_threads c ++ [diameter_handler e]))
  | StepLoop =>
      match loop_thread c with
      | Op o k => Some (Config (exec o st).2 (k (exec o st).1) (diameter_threads c))
      | _ => None
      end
  | StepDiameter i =>
      match diameter_threads c !! i with
      | Some (Op o k) =>
          Some (Config (exec o st).2 (loop_thread c) (<[i := k (exec o st).1]> (diameter_threads c)))
      | _ => None
      end
  end.

Definition run_schedule : list choice → config → option config :=
  fix go xs c :=
    match xs with
    | [] => Some c
    | x :: xs => match take_step c x with Some c => go xs c | None => None end
    end.

Lemma take_step_sound c x c' : take_step c x = Some c' → step c c'.
Proof.
  destruct c as [st p ds], x as [e|e| |i]; cbn.
  - destruct p as [[]| |]; try discriminate.
    destruct e as [src buffer|buffer n|src buffer n|[mac]]; try (intros [= <-]; constructor).
    destruct (timers st) as [|[mac'] ts] eqn:Ht; [discriminate|].
    destruct (decide (mac = mac')) as [<-|]; [|discriminate]. intros [= <-].
    exact (step_timer st ds [] (GtpTimeout mac) ts Ht).
  - intros [= <-]. constructor.
  - destruct p; try discriminate. intros [= <-]. constructor.
  - destruct (ds !! i) as [[| |]|] eqn:Hi; try discriminate. intros [= <-].
    pose proof (lookup_lt_Some _ _ _ Hi) as Hlt.
    rewrite <- (take_drop_middle ds i _ Hi) at 1.
    rewrite insert_take_drop by exact Hlt. constructor.
Qed.

Lemma run_schedule_reachable xs c : run_schedule xs start = Some c → reachable c.
Proof.
  unfold reachable. generalize start. induction xs as [|x xs IH]; intros c0; cbn.
  - intros [= <-]. constructor.
  - destruct (take_step c0 x) as [c1|] eqn:Hx; [|discriminate].
    intros Hr. eapply rtc_l; [by eapply take_step_sound|]. by apply IH.
Qed.

End System.
