(* ===== verification/TwagScenario.v ===== *)
(** Runs of the gateway on concrete inputs: a world in which every call
    succeeds, the messages of an attach, and what schedules of them lead to. *)

From stdpp Require Import base gmap strings list relations.
From Stdlib Require Import ZArith Lia.
From S2P Require Import Prelude EncDecBits WireFormat IeFormat GtpMessage GtpMessages2 TwagNet TwagRadius TwagDhcp TwagS2a TwagDns TwagSta TwagState TwagCore TwagSafety TwagHandlers TwagSystem.
Open Scope Z_scope.

(** * A world *)

Definition sample_config : TwagConfig :=
  {| cfg_pgw_ip := "127.0.0.1"; cfg_aaa_realm := "epc.mnc001.mcc001.3gppnetwork.org";
     cfg_apn := "internet"; cfg_eap_domain := "wlan.mnc001.mcc001.3gppnetwork.org";
     cfg_acct_server_ip := ""; cfg_max_active_sessions := 2 |}.

Definition sample_uninit : uninitialised :=
  {| un_ue_ip := 0xDEAD; un_pgw_teid_c := 0xDEADBEEF; un_pgw_teid_u := 0xBEEF;
     un_client_addr := {| sin_port := 0; sin_addr := 0 |}; un_req_id := 0; un_req_auth := [] |}.

Definition sample_env : Env :=
  {| env_config := sample_config; env_dict := sample_dict; env_bool _ := true;
     env_avp_new_ok _ _ := true; env_stack _ := fun _ => 0; env_uninit _ := sample_uninit;
     env_local_ip _ := htonl 0x7F000001; env_query _ _ := None; env_getaddrinfo _ _ := None;
     env_acct_server_addr := {| sin_port := 0; sin_addr := 0 |};
     env_order := map_to_list; env_order_perm m := reflexivity _ |}.

(** * Messages *)

Definition wlc : sockaddr_in := {| sin_port := htons 1812; sin_addr := htonl 0x0A000002 |}.

Definition sample_mac : string := "00:11:22:33:44:FE".

(** The Access-Request of a station with the default hardware address [mac]. *)
Definition access_request (mac : string) (id : Z) : list Z :=
  packet ACCESS_REQUEST id (repeat 1 16)
    [(ATTR_CALLING_STATION_ID, string_bytes mac);
     (ATTR_EAP_MESSAGE, string_bytes (eap_identity 1 0 60 (nai None (chr 48) "001010123456789" "wlan.org")))].

Definition dea_of (mac : string) (result_code : Z) : list avp :=
  dea_message sample_dict mac result_code "eap-success" "internet" 1 0 0 (htonl 0x7F000001).

(** A create session response for the session with TEID 1 that refuses it. *)
Definition refusal : bytes :=
  match create_sess_rsp.encode_create_sess_rsp
          (Message (S := create_sess_rsp.create_sess_rsp_sig)
             (Build_gtpv2c_header_t 0 1 0 2 CREATE_SESS_RSP 0 1 1 0)
             (ie rejected_response) (count_of rejected_response)) 0 (fun _ => 0) with
  | Some (_, m) => m
  | None => fun _ => 0
  end.

Definition discover : bytes := of_list (bootrequest ++ encode_opts [Opt 53 [DHCP_DISCOVER]]).

(** * Schedules *)

(** The attach of one station: Access-Request, the answer of the AAA server,
    the refusal of the P-GW, a DHCP discover; each handler runs to its end. *)
Definition attach_schedule : list choice :=
  StartLoop (RadiusRx wlc (access_request sample_mac 5)) :: repeat StepLoop 13
  ++ StartDiameter (DeaRx (dea_of sample_mac DIAMETER_SUCCESS)) :: repeat (StepDiameter 0) 16
  ++ StartLoop (S2aRx wlc refusal 40) :: repeat StepLoop 14
  ++ StartLoop (DhcpRx discover 244) :: repeat StepLoop 4.

(** The same Access-Request, with the answer of the AAA server handled between
    the send of the request and the assignment of the state in [send_der]. *)
Definition race_schedule : list choice :=
  StartLoop (RadiusRx wlc (access_request sample_mac 5)) :: repeat StepLoop 12
  ++ StartDiameter (DeaRx (dea_of sample_mac DIAMETER_SUCCESS)) :: repeat (StepDiameter 0) 2
  ++ [StepLoop].

(** All handlers have ended. *)
Definition idle (c : config) : bool :=
  match loop_thread c with Ret _ => true | _ => false end
  && forallb (fun p => match p with Ret _ => true | _ => false end) (diameter_threads c).

Definition states (c : config) : list SessionState := map state_ (heap (shared c)).

Definition is_offer (ip : Z) (e : effect) : bool :=
  match e with
  | DhcpSend mac d _ =>
      bool_decide (d = dhcp_response mac ip (le_val [0xDD; 0xCC; 0xBB; 0xAA]) DHCP_OFFER)
  | _ => false
  end.

Definition is_radius (e : effect) : bool := match e with RadiusSend _ _ _ _ => true | _ => false end.

(** A schedule that ends in a configuration with the decidable property [P]. *)
Definition leads_to {E : Env} (xs : list choice) (P : config → bool) : bool :=
  match run_schedule xs start with Some c => P c | None => false end.

Lemma leads_to_reachable {E : Env} xs P :
  leads_to xs P = true → ∃ c, reachable c ∧ P c = true.
Proof.
  unfold leads_to. destruct (run_schedule xs start) as [c|] eqn:Hc; [|discriminate].
  intros HP. exists c. split; [by eapply run_schedule_reachable | exact HP].
Qed.

(** a P-GW that refuses the session (cause 73, no resources available) does
    not keep the gateway from taking the station as connected: with the
    address of the response it answers its DHCP discover with an offer. *)
Theorem refused_session_is_connected :
  ∃ c, reachable (E := sample_env) c
    ∧ (idle c && bool_decide (states c = [CONNECTED])
       && existsb (is_offer 0x0500000A) (trace (shared c))) = true.
Proof. apply (leads_to_reachable (E := sample_env) attach_schedule). vm_compute. reflexivity. Qed.

(** the success of an authentication can be lost: when the answer is
    handled by a Diameter thread before [send_der] records that it waits for
    one, the session stays in AUTH_PENDING with no timer running and the
    station gets no answer. *)
Theorem dea_can_be_lost :
  ∃ c, reachable (E := sample_env) c
    ∧ (idle c && bool_decide (states c = [AUTH_PENDING])
       && bool_decide (timers (shared c) = [])
       && negb (existsb is_radius (trace (shared c)))) = true.
Proof. apply (leads_to_reachable (E := sample_env) race_schedule). vm_compute. reflexivity. Qed.
