(* ===== verification/TwagInvariants.v ===== *)
(** What holds of the gateway whatever the messages, the order of the threads
    and the answers of the world: consequences of [reachable_inv]. *)

From stdpp Require Import base gmap strings list relations.
From Stdlib Require Import ZArith Lia.
From S2P Require Import Prelude EncDecBits WireFormat IeFormat TwagNet TwagRadius TwagDhcp TwagS2a TwagDns TwagSta TwagState TwagCore TwagSafety TwagHandlers TwagSystem TwagScenario.
Open Scope Z_scope.

(** The number of sessions ever created that fit the space of TEIDs. *)
Definition teids_fit (st : state) : Prop := Z.of_nat (length (heap st)) < 2 ^ 31.

#[export] Instance teids_fit_dec st : Decision (teids_fit st).
Proof. unfold teids_fit. apply _. Defined.

(** The object [l] is in the table and has the TEID [t]. *)
Definition active_with_teid (t : Z) (l : loc) (st : state) : Prop :=
  ∃ mac s, sessions_ (manager st) !! mac = Some l ∧ heap st !! l = Some s ∧ gtp_teid_c_ s = t.

Section Lemmas.
Context {E : Env}.

(** The TEIDs of an object, as long as they do not wrap. *)
Lemma teids_exact st l s :
  inv st → teids_fit st → heap st !! l = Some s →
  gtp_teid_c_ s = 1 + 2 * Z.of_nat l ∧ gtp_teid_u_ s = 2 + 2 * Z.of_nat l.
Proof.
  intros I F Hl. destruct (inv_heap st I l s Hl) as (Hc & Hu & _).
  apply lookup_lt_Some in Hl. unfold teids_fit, u32 in *.
  rewrite Z.mod_small in Hc by lia. destruct (decide (2 + 2 * Z.of_nat l < 2 ^ 32)).
  - by rewrite Z.mod_small in Hu by lia.
  - lia.
Qed.

Lemma table_lookup st mac l :
  inv st → sessions_ (manager st) !! mac = Some l → ∃ s, heap st !! l = Some s.
Proof. intros I Hl. destruct (inv_keys st I mac l Hl) as (s & Hs & _). eauto. Qed.

Lemma order_lookup st mac l :
  (mac, l) ∈ env_order (sessions_ (manager st)) ↔ sessions_ (manager st) !! mac = Some l.
Proof. rewrite env_order_perm. apply elem_of_map_to_list. Qed.

(** A session of the table is found by its TEID, and nothing else is. *)
Lemma get_by_teid st t l :
  inv st → teids_fit st →
  (get_session_by_teid_c t st = Some l ↔ active_with_teid t l st).
Proof.
  intros Hr F. unfold get_session_by_teid_c. split.
  - intros ([mac l'] & Hf & Hl)%fmap_Some. cbn in Hl. subst l'. apply List.find_some in Hf. cbn in *.
    destruct Hf as [Hin Ht]. apply list_elem_of_In, order_lookup in Hin.
    destruct (table_lookup st mac l Hr Hin) as [s Hs]. exists mac, s. split_and!; auto.
    rewrite (list_lookup_total_correct _ _ _ Hs) in Ht. by apply Z.eqb_eq.
  - intros (mac & s & Hm & Hs & Ht). destruct (List.find _ _) as [[mac' l']|] eqn:Hf.
    + apply List.find_some in Hf. cbn in *. destruct Hf as [Hin Ht'].
      apply list_elem_of_In, order_lookup in Hin.
      destruct (table_lookup st mac' l' Hr Hin) as [s' Hs'].
      rewrite (list_lookup_total_correct _ _ _ Hs') in Ht'. apply Z.eqb_eq in Ht'.
      destruct (teids_exact st _ _ Hr F Hs), (teids_exact st _ _ Hr F Hs'). f_equal. lia.
    + apply order_lookup, list_elem_of_In in Hm. apply (List.find_none _ _ Hf) in Hm.
      cbn in Hm. rewrite (list_lookup_total_correct _ _ _ Hs) in Hm. apply Z.eqb_neq in Hm. done.
Qed.

End Lemmas.

(** C3: at every moment, whatever the messages, the order of the threads and the
    failures of calls, the table holds at most [max_active_sessions] sessions
    (none for a limit that is not positive): no two requests pass the check of
    [handle_radius_access_request] for the last free place. *)
Theorem congestion_control {E : Env} c :
  reachable c →
  Z.of_nat (size (sessions_ (manager (shared c)))) ≤ Z.max 0 (cfg_max_active_sessions env_config).
Proof. intros H. apply inv_size. by apply reachable_inv. Qed.

(** Two stations attach and a third is refused. *)
Definition three_requests : list choice :=
  StartLoop (RadiusRx wlc (access_request sample_mac 5)) :: repeat StepLoop 13
  ++ StartLoop (RadiusRx wlc (access_request "00:11:22:33:44:01" 6)) :: repeat StepLoop 13
  ++ StartLoop (RadiusRx wlc (access_request "00:11:22:33:44:02" 7)) :: repeat StepLoop 5.

Lemma congestion_control_witness :
  ∃ c, reachable (E := sample_env) c
    ∧ (idle c && bool_decide (get_stats (manager (shared c)) = (2, 2, 0, 1))) = true
    ∧ Z.of_nat (size (sessions_ (manager (shared c)))) ≤ Z.max 0 2.
Proof.
  destruct (leads_to_reachable (E := sample_env) three_requests
              (λ c, idle c && bool_decide (get_stats (manager (shared c)) = (2, 2, 0, 1))))
    as (c & Hr & HP); [vm_compute; reflexivity|].
  exists c. split; [exact Hr|]. split; [exact HP|]. exact (congestion_control (E := sample_env) c Hr).
Defined.

(** C10: until 2^31 sessions have been created, every TEID the gateway has handed
    out, for the control and for the user plane, belongs to one session and
    one plane; the n-th session has the TEIDs 2n-1 and 2n. *)
Theorem teids_unique {E : Env} c i j si sj :
  reachable c → teids_fit (shared c) →
  heap (shared c) !! i = Some si → heap (shared c) !! j = Some sj →
  gtp_teid_c_ si = 1 + 2 * Z.of_nat i ∧ gtp_teid_u_ si = 2 + 2 * Z.of_nat i
  ∧ gtp_teid_c_ si ≠ gtp_teid_u_ sj
  ∧ (gtp_teid_c_ si = gtp_teid_c_ sj ∨ gtp_teid_u_ si = gtp_teid_u_ sj → i = j).
Proof.
  intros Hr F Hi Hj. apply reachable_inv in Hr.
  destruct (teids_exact _ _ _ Hr F Hi), (teids_exact _ _ _ Hr F Hj). lia.
Qed.

Lemma teids_unique_witness :
  ∃ c si sj, reachable (E := sample_env) c ∧ heap (shared c) !! 0%nat = Some si
    ∧ heap (shared c) !! 1%nat = Some sj ∧ gtp_teid_c_ si ≠ gtp_teid_u_ sj.
Proof.
  destruct (leads_to_reachable (E := sample_env) three_requests
              (λ c, bool_decide (length (heap (shared c)) = 2%nat))) as (c & Hr & HP);
    [vm_compute; reflexivity|].
  apply bool_decide_eq_true in HP.
  destruct (heap (shared c)) as [|si [|sj [|]]] eqn:Hh; try discriminate HP.
  exists c, si, sj. repeat split; [exact Hr|by rewrite Hh|by rewrite Hh|].
  apply (teids_unique (E := sample_env) c 0 1 si sj Hr);
    [unfold teids_fit; rewrite Hh; cbn; lia | by rewrite Hh | by rewrite Hh].
Defined.

(** the statistics are those of the table at every moment: connections
    less disconnections are the active sessions (modulo 2^64, the width of the
    counters), and the connections count the sessions ever created. *)
Theorem statistics_consistent {E : Env} c :
  reachable c →
  let '(active, connections, disconnections, _) := get_stats (manager (shared c)) in
  active = Z.of_nat (size (sessions_ (manager (shared c))))
  ∧ u64 (connections - disconnections) = u64 active
  ∧ connections = u64 (Z.of_nat (length (heap (shared c)))).
Proof.
  intros Hr. apply reachable_inv in Hr. destruct (inv_stats _ Hr) as (removed & Hl & Hc & Hd).
  cbn. split; [reflexivity|]. split; [|exact Hc]. rewrite Hc, Hd. unfold u64.
  rewrite <- Zminus_mod. f_equal. lia.
Qed.

Lemma statistics_consistent_witness :
  ∃ c, reachable (E := sample_env) c
    ∧ get_stats (manager (shared c)) = (2, 2, 0, 1) ∧ u64 (2 - 0) = u64 2.
Proof.
  destruct (leads_to_reachable (E := sample_env) three_requests
              (λ c, bool_decide (get_stats (manager (shared c)) = (2, 2, 0, 1))))
    as (c & Hr & HP); [vm_compute; reflexivity|].
  apply bool_decide_eq_true in HP. exists c. split; [exact Hr|]. split; [exact HP|].
  pose proof (statistics_consistent (E := sample_env) c Hr) as H. rewrite HP in H. apply H.
Defined.

(** C1: no service without authentication: a session waits for its tunnel or is
    connected only after the station was sent an Access-Accept, is connected
    only after a tunnel was requested for it, and every DHCP answer ever sent
    carries an address that is not 0 to a station with such a session. *)
Theorem no_service_without_accept {E : Env} c :
  reachable c →
  (∀ l s, heap (shared c) !! l = Some s →
     (state_ s = GTP_CREATE_PENDING → accepted l (shared c))
     ∧ (state_ s = CONNECTED → accepted l (shared c) ∧ tunnelled l (shared c)))
  ∧ (∀ mac d ok, DhcpSend mac d ok ∈ trace (shared c) → dhcp_justified mac d (shared c)).
Proof.
  intros Hr. apply reachable_inv in Hr. split; [|apply inv_dhcp, Hr].
  intros l s Hs. destruct (inv_heap _ Hr l s Hs) as (_ & _ & H & H' & _). auto.
Qed.

Lemma no_service_without_accept_witness :
  ∃ c, reachable (E := sample_env) c ∧ states c = [CONNECTED] ∧ accepted 0 (shared c).
Proof.
  destruct (leads_to_reachable (E := sample_env) attach_schedule
              (λ c, bool_decide (states c = [CONNECTED]))) as (c & Hr & HP);
    [vm_compute; reflexivity|].
  apply bool_decide_eq_true in HP. exists c. split; [exact Hr|]. split; [exact HP|].
  destruct (heap (shared c)) as [|s h] eqn:Hh; unfold states in HP; rewrite Hh in HP; [discriminate HP|].
  injection HP as Hs _.
  apply (no_service_without_accept (E := sample_env) c Hr) with (s := s); [by rewrite Hh | exact Hs].
Defined.

(** the P-GW's control TEID, which the header of every delete session
    request carries, is never assigned: in every session, at every moment, it
    is what the memory of the object held when it was created. *)
Theorem pgw_teid_c_never_set {E : Env} c l s :
  reachable c → heap (shared c) !! l = Some s →
  ∃ k, pgw_teid_c_ s = un_pgw_teid_c (env_uninit k).
Proof. intros Hr Hs. apply reachable_inv in Hr. by destruct (inv_heap _ Hr l s Hs) as (_ & _ & _ & _ & H). Qed.

Lemma pgw_teid_c_never_set_witness :
  ∃ c s, reachable (E := sample_env) c ∧ heap (shared c) !! 0%nat = Some s
    ∧ state_ s = CONNECTED ∧ pgw_teid_c_ s = 0xDEADBEEF.
Proof.
  destruct (leads_to_reachable (E := sample_env) attach_schedule
              (λ c, bool_decide (states c = [CONNECTED]))) as (c & Hr & HP);
    [vm_compute; reflexivity|].
  apply bool_decide_eq_true in HP. unfold states in HP.
  destruct (heap (shared c)) as [|s h] eqn:Hh; [discriminate HP|]. injection HP as Hs _.
  exists c, s. split; [exact Hr|]. split; [by rewrite Hh|]. split; [exact Hs|].
  destruct (pgw_teid_c_never_set (E := sample_env) c 0 s Hr) as [k Hk]; [by rewrite Hh|]. exact Hk.
Defined.

(** [get_session_by_teid_c], which scans the hash table in whatever order
    its buckets give, is a lookup: until the TEIDs wrap it returns a session
    exactly when that session is in the table with that TEID, and there is at
    most one such session. *)
Theorem get_session_by_teid_c_spec {E : Env} c t l :
  reachable c → teids_fit (shared c) →
  (get_session_by_teid_c t (shared c) = Some l ↔ active_with_teid t l (shared c)).
Proof. intros Hr F. apply get_by_teid; [by apply reachable_inv | exact F]. Qed.

Lemma get_session_by_teid_c_spec_witness :
  ∃ c, reachable (E := sample_env) c
    ∧ get_session_by_teid_c (E := sample_env) 3 (shared c) = Some 1%nat
    ∧ active_with_teid 3 1 (shared c).
Proof.
  destruct (leads_to_reachable (E := sample_env) three_requests
              (λ c, bool_decide (teids_fit (shared c))
                    && bool_decide (get_session_by_teid_c (E := sample_env) 3 (shared c) = Some 1%nat)))
    as (c & Hr & HP); [vm_compute; reflexivity|].
  apply andb_true_iff in HP. destruct HP as [HF%bool_decide_eq_true HP%bool_decide_eq_true].
  exists c. split; [exact Hr|]. split; [exact HP|].
  by apply (get_session_by_teid_c_spec (E := sample_env) c 3 1 Hr HF).
Defined.
