(* ===== verification/TwagRuns.v ===== *)
(** What the handlers do when they run to their end: the whole attach of a
    station, the timeout of a session request, a failed authentication.

    [wp p Q st]: the program [p] started in [st] returns (no call of it crashes)
    with a result and a state in [Q]. *)

From stdpp Require Import base gmap strings list relations.
From Stdlib Require Import ZArith Lia.
From S2P Require Import Prelude EncDecBits WireFormat IeFormat TwagNet TwagRadius TwagDhcp TwagS2a TwagDns TwagSta TwagState TwagCore TwagSafety TwagHandlers TwagSystem TwagScenario TwagInvariants.
Open Scope Z_scope.

Section Wp.
Context {E : Env}.

Definition wp {A} (p : prog A) (Q : A → state → Prop) (st : state) : Prop :=
  match run p st with Some (a, st') => Q a st' | None => False end.

Lemma run_bind {A B} (p : prog A) (f : A → prog B) st :
  run (p ≫= f) st = match run p st with Some (a, st') => run (f a) st' | None => None end.
Proof.
  revert st. induction p as [a|C o k IH|]; intros st; cbn; [done| |done].
  destruct (exec o st) as [b st']. apply IH.
Qed.

Lemma wp_bind {A B} (p : prog A) (f : A → prog B) Q st :
  wp p (λ a st', wp (f a) Q st') st → wp (p ≫= f) Q st.
Proof. unfold wp. rewrite run_bind. by destruct (run p st) as [[a st']|]. Qed.

Lemma wp_mono {A} (p : prog A) (Q Q' : A → state → Prop) st :
  wp p Q st → (∀ a st', Q a st' → Q' a st') → wp p Q' st.
Proof. unfold wp. destruct (run p st) as [[a st']|]; auto. Qed.

Lemma wp_seq {A B} (p : prog A) (f : A → prog B) P Q st :
  wp p P st → (∀ a st', P a st' → wp (f a) Q st') → wp (p ≫= f) Q st.
Proof. intros H1 H2. apply wp_bind. by eapply wp_mono. Qed.

Lemma wp_do {A} (o : op A) (Q : A → state → Prop) st :
  Q (exec o st).1 (exec o st).2 → wp (do o) Q st.
Proof. unfold wp. cbn. by destruct (exec o st). Qed.

Lemma wp_ret {A} (a : A) (Q : A → state → Prop) st : Q a st → wp (mret a) Q st.
Proof. done. Qed.

Lemma wp_run {A} (p : prog A) Q st : wp p Q st → ∃ a st', run p st = Some (a, st') ∧ Q a st'.
Proof. unfold wp. destruct (run p st) as [[a st']|]; [eauto|done]. Qed.

(** A safe program keeps the invariant. *)
Lemma run_inv {A} loop (p : prog A) Q st a st' :
  safe loop p Q st → inv st → run p st = Some (a, st') → inv st'.
Proof.
  revert st. induction p as [b|C o k IH|]; intros st Hs HI; cbn; [by intros [= <- <-]| |done].
  destruct (Hs st (rely_refl _ _) HI) as [Hp Hk]. destruct (exec_ok loop o st HI Hp) as [HI' _].
  destruct (exec o st) as [b st1]. by apply IH.
Qed.

Lemma wp_inv {A} loop (p : prog A) R Q st :
  safe loop p R st → inv st → wp p Q st → wp p (λ a st', Q a st' ∧ inv st') st.
Proof.
  intros Hs HI. unfold wp. destruct (run p st) as [[a st']|] eqn:Hr; [|done].
  intros HQ. split; [exact HQ|]. exact (run_inv loop p R st a st' Hs HI Hr).
Qed.

Lemma wp_seq_inv {A B} loop (p : prog A) (f : A → prog B) R P Q st :
  safe loop p R st → inv st → wp p P st →
  (∀ a st', P a st' → inv st' → wp (f a) Q st') → wp (p ≫= f) Q st.
Proof.
  intros Hs HI Hp Hf. eapply wp_seq; [by eapply wp_inv|]. intros a st' [HP HI']. auto.
Qed.

(** Only the trace grows. *)
Definition quiet (st st' : state) : Prop :=
  heap st' = heap st ∧ manager st' = manager st ∧ timers st' = timers st
  ∧ pending_acct_reqs_ st' = pending_acct_reqs_ st ∧ ∃ es, trace st' = es ++ trace st.

#[export] Instance quiet_preorder : PreOrder quiet.
Proof.
  split.
  - intros st. repeat split. by exists [].
  - intros x y z (? & ? & ? & ? & es & Hes) (? & ? & ? & ? & es' & Hes').
    repeat split; try congruence. exists (es' ++ es). by rewrite Hes', Hes, app_assoc.
Qed.

Lemma quiet_ask {A} (f : nat → A) st : quiet st (exec (Ask f) st).2.
Proof. repeat split. by exists []. Qed.

Lemma quiet_read l st : quiet st (exec (Read l) st).2.
Proof. repeat split. by exists []. Qed.

Lemma quiet_emit e st : quiet st (exec (Emit e) st).2.
Proof. repeat split. by exists [e]. Qed.

Lemma wp_quiet {A} (p : prog A) st Q :
  wp p (λ _, quiet st) st → (∀ a st', quiet st st' → Q a st') → wp p Q st.
Proof. intros H HQ. eapply wp_mono; [exact H|]. auto. Qed.

End Wp.

Create HintDb quiet.
#[export] Hint Resolve quiet_ask quiet_read quiet_emit : quiet.

(** One operation of a program that only asks, reads and emits. *)
Ltac quiet_op :=
  eapply (wp_seq (do _) _ (λ _, quiet _));
    [apply wp_do; etrans; [eassumption|]; auto with quiet | intros ? ? ?].

(** One operation, executed. *)
Ltac wp_op :=
  apply wp_bind, wp_do;
  cbn [exec fst snd heap manager timers trace ticks pending_acct_reqs_ with_manager].

Section Quiet.
Context {E : Env}.

Lemma send_str_quiet l st st0 : quiet st0 st → wp (send_str l) (λ _, quiet st0) st.
Proof.
  intros Q. unfold send_str. quiet_op. case_match; [by apply wp_ret|].
  repeat quiet_op. by apply wp_ret.
Qed.

Lemma send_delete_session_request_quiet l st st0 :
  quiet st0 st → wp (send_delete_session_request l) (λ _, quiet st0) st.
Proof.
  intros Q. unfold send_delete_session_request. quiet_op. quiet_op.
  match goal with |- context [delete_session_datagram ?t ?m] =>
    destruct (delete_session_datagram_total t m) as [d ->] end.
  case_match; [|by apply wp_ret]. repeat quiet_op. by apply wp_ret.
Qed.

Lemma teardown_kernel_gtpu_tunnel_quiet l st st0 :
  quiet st0 st → wp (teardown_kernel_gtpu_tunnel l) (λ _, quiet st0) st.
Proof.
  intros Q. unfold teardown_kernel_gtpu_tunnel. quiet_op. quiet_op.
  eapply (wp_seq _ _ (λ _, quiet st0)); [|intros; by apply wp_ret].
  case_match; [|by apply wp_ret]. apply wp_do. etrans; [eassumption|]. auto with quiet.
Qed.

End Quiet.

Section Disconnect.
Context {E : Env}.

(** The table without [mac]; heap and timers stay. *)
Definition removed (mac : string) (st st' : state) : Prop :=
  heap st' = heap st ∧ timers st' = timers st
  ∧ manager st' = remove_session mac (manager st) ∧ ∃ es, trace st' = es ++ trace st.

Lemma sessions_removed mac m : sessions_ (remove_session mac m) = delete mac (sessions_ m).
Proof.
  unfold remove_session. destruct (sessions_ m !! mac) eqn:H; [done|]. cbn.
  by rewrite delete_id.
Qed.

Lemma disconnect_ue_removes mac st : wp (disconnect_ue mac) (λ _, removed mac st) st.
Proof.
  unfold disconnect_ue. wp_op.
  set (st1 := with_manager st (manager st)).
  assert (Q : quiet st st1) by (repeat split; by exists []).
  destruct (sessions_ (manager st) !! mac) as [l|] eqn:Hl.
  - eapply (wp_seq _ _ (λ _, quiet st)); [by apply send_str_quiet|]. intros _ st2 Q2.
    eapply (wp_seq _ _ (λ _, quiet st)); [by apply send_delete_session_request_quiet|]. intros _ st3 Q3.
    eapply (wp_seq _ _ (λ _, quiet st)); [by apply teardown_kernel_gtpu_tunnel_quiet|].
    intros _ st4 (Hh & Hm & Ht & _ & Htr). apply wp_do. unfold removed. cbn. rewrite Hm. auto.
  - apply wp_ret. destruct Q as (Hh & Hm & Ht & _ & Htr). split_and!; auto.
    rewrite Hm. unfold remove_session. by rewrite Hl.
Qed.

(** A RADIUS response without payload. *)
Lemma response_datagram_empty code id auth : is_Some (response_datagram code id auth "").
Proof. unfold response_datagram. cbn. eauto. Qed.

Lemma send_response_sends who to code id auth eap d st :
  response_datagram code id auth eap = Some d →
  wp (send_response who to code id auth eap)
    (λ ok st', quiet st st' ∧ trace st' = RadiusSend who to d ok :: trace st
               ∧ ok = env_bool (ticks st)) st.
Proof.
  intros Hd. unfold send_response. rewrite Hd. unfold wp. cbn. split; [|auto].
  repeat split. cbn. eexists [_]. reflexivity.
Qed.

End Disconnect.

(** The response [code] without payload to the request a session remembers. *)
Definition answered_with (code : Z) (l : loc) (s : UeSession) (st : state) : Prop :=
  ∃ d ok, response_datagram code (radius_req_id_ s) (radius_req_auth_ s) "" = Some d
    ∧ RadiusSend (Some l) (radius_client_addr_ s) d ok ∈ trace st.

(** when the P-GW does not answer in time, the handler of the timer returns
    whatever calls fail, the session is removed and the station is sent an
    Access-Reject, for a request that was answered with an Access-Accept
    before. *)
Theorem gtp_timeout_rejects_accepted {E : Env} c mac l s :
  reachable c → sessions_ (manager (shared c)) !! mac = Some l →
  heap (shared c) !! l = Some s → state_ s = GTP_CREATE_PENDING →
  ∃ st', run (on_gtp_timeout mac) (shared c) = Some (tt, st')
    ∧ sessions_ (manager st') = delete mac (sessions_ (manager (shared c)))
    ∧ accepted l (shared c) ∧ answered_with ACCESS_REJECT l s st'.
Proof.
  intros Hr Hl Hs Hp. pose proof (reachable_inv c Hr) as HI. set (st := shared c) in *.
  cut (wp (on_gtp_timeout mac) (λ _ st', sessions_ (manager st') = delete mac (sessions_ (manager st))
         ∧ accepted l st ∧ answered_with ACCESS_REJECT l s st') st).
  { intros ([] & st' & Hrun & H)%wp_run. eauto. }
  unfold on_gtp_timeout. wp_op. rewrite Hl.
  wp_op. rewrite (list_lookup_total_correct _ _ _ Hs).
  destruct (decide _) as [_|]; [|done]. wp_op.
  rewrite (list_lookup_total_correct _ _ _ Hs).
  destruct (response_datagram_empty ACCESS_REJECT (radius_req_id_ s) (radius_req_auth_ s)) as [d Hd].
  eapply wp_seq; [by apply send_response_sends|]. intros ok st1 ((Hh & Hm & _) & Ht & _).
  eapply wp_mono; [apply disconnect_ue_removes|]. intros [] st2 (_ & _ & Hm2 & es & Ht2).
  split_and!.
  - rewrite Hm2, sessions_removed, Hm. done.
  - destruct (inv_heap st HI l s Hs) as (_ & _ & H & _). auto.
  - exists d, ok. split; [exact Hd|]. rewrite Ht2, Ht. apply elem_of_app. right. by left.
Qed.

(** The attach up to the answer of the AAA server. *)
Definition accepted_schedule : list choice :=
  StartLoop (RadiusRx wlc (access_request sample_mac 5)) :: repeat StepLoop 13
  ++ StartDiameter (DeaRx (dea_of sample_mac DIAMETER_SUCCESS)) :: repeat (StepDiameter 0) 16.

Lemma gtp_timeout_rejects_accepted_witness :
  ∃ c st' s, reachable (E := sample_env) c
    ∧ run (E := sample_env) (on_gtp_timeout (E := sample_env) sample_mac) (shared c) = Some (tt, st')
    ∧ accepted 0 (shared c) ∧ answered_with ACCESS_REJECT 0 s st'.
Proof.
  destruct (leads_to_reachable (E := sample_env) accepted_schedule
              (λ c, bool_decide (sessions_ (manager (shared c)) !! sample_mac = Some 0%nat)
                    && bool_decide (states c = [GTP_CREATE_PENDING])))
    as (c & Hr & HP); [vm_compute; reflexivity|].
  apply andb_true_iff in HP. destruct HP as [Hl%bool_decide_eq_true Hp%bool_decide_eq_true].
  unfold states in Hp. destruct (heap (shared c)) as [|s h] eqn:Hh; [discriminate Hp|]. injection Hp as Hp _.
  destruct (gtp_timeout_rejects_accepted (E := sample_env) c sample_mac 0 s Hr Hl) as (st' & H1 & _ & H2 & H3);
    [by rewrite Hh | exact Hp |].
  exists c, st', s. auto.
Defined.

(** * Authentication *)

(** The parts of the state a subscription does not touch: all but the heap, and
    of the heap the states of the sessions and who asked for them. *)
Definition asked_by (s : UeSession) :=
  (mac_address_ s, state_ s, radius_client_addr_ s, radius_req_id_ s, radius_req_auth_ s).

Definition stays (st st' : state) : Prop :=
  manager st' = manager st ∧ timers st' = timers st ∧ trace st' = trace st
  ∧ asked_by <$> heap st' = asked_by <$> heap st.

#[export] Instance stays_preorder : PreOrder stays.
Proof. split; [done|]. intros x y z (? & ? & ? & ?) (? & ? & ? & ?). split_and!; congruence. Qed.

(** Assignments of the subscription: APN, PDN type, bit rates, P-GW. *)
Definition subscription (m : member) : bool :=
  match m with
  | M_apn _ | M_pdn_type _ | M_ambr_ul _ | M_ambr_dl _ | M_pgw_ip _ => true
  | _ => false
  end.

(** The P-GW is named by the AAA server, or DNS answers nothing. *)
Definition resolves {E : Env} (d : dea) : Prop :=
  str_empty (dea_pgw_ip d) = false ∨ ∀ k name, env_query k name = None.

Section Authentication.
Context {E : Env}.

Lemma stays_assign l m st :
  subscription m = true → stays st (exec (Assign l (set_member m)) st).2.
Proof.
  intros Hm. split_and!; [done..|]. cbn. rewrite (list_fmap_alter _ _ id).
  - by apply list_alter_id.
  - apply Forall_forall. intros s _. destruct m; done || discriminate Hm.
Qed.

Lemma wp_stays l m st0 st :
  subscription m = true → stays st0 st → wp (do (Assign l (set_member m))) (λ _, stays st0) st.
Proof. intros Hm Q. apply wp_do. etrans; [exact Q|]. by apply stays_assign. Qed.

Lemma choose_pgw_stays l d st0 st :
  resolves d → stays st0 st → wp (choose_pgw l d) (λ _, stays st0) st.
Proof.
  intros HR Q. unfold choose_pgw. destruct (str_empty (dea_pgw_ip d)) eqn:Hp; cbn [negb].
  - destruct HR as [HR|HR]; [congruence|]. wp_op. wp_op. wp_op. unfold resolve_pgw_snaptr.
    rewrite HR. cbn [negb str_empty]. by apply wp_stays.
  - by apply wp_stays.
Qed.

Lemma store_subscription_stays l d st0 st :
  resolves d → stays st0 st → wp (store_subscription l d) (λ _, stays st0) st.
Proof.
  intros HR Q. unfold store_subscription.
  eapply (wp_seq _ _ (λ _, stays st0)).
  { case_match; [by apply wp_stays|]. wp_op. case_match; [by apply wp_stays | exact Q]. }
  intros _ st1 Q1.
  do 3 (eapply (wp_seq _ _ (λ _, stays st0)); [case_match; [by apply wp_stays | assumption]|]; intros _ ? ?).
  by apply choose_pgw_stays.
Qed.

End Authentication.

(** after a failed authentication (a result code other than 1001 and 2001)
    the handler returns and the station is sent an Access-Reject, but the
    session stays: the table, the timers and the states of all sessions are as
    before, so nothing will ever release it unless the station comes back. *)
Theorem failed_authentication_keeps_session {E : Env} st d l s :
  sessions_ (manager st) !! dea_mac d = Some l → heap st !! l = Some s →
  state_ s = AUTH_PENDING → dea_result_code d ≠ DIAMETER_MULTI_ROUND_AUTH →
  dea_result_code d ≠ DIAMETER_SUCCESS → resolves d →
  ∃ st', run (on_dea_received d) st = Some (tt, st')
    ∧ manager st' = manager st ∧ timers st' = timers st
    ∧ state_ <$> heap st' = state_ <$> heap st ∧ answered_with ACCESS_REJECT l s st'.
Proof.
  intros Hl Hs Hp H1 H2 HR.
  cut (wp (on_dea_received d) (λ _ st', manager st' = manager st ∧ timers st' = timers st
         ∧ asked_by <$> heap st' = asked_by <$> heap st ∧ answered_with ACCESS_REJECT l s st') st).
  { intros ([] & st' & Hrun & Hm & Ht & Hh & Ha)%wp_run. exists st'. split_and!; auto.
    apply (f_equal (fmap (λ x, x.1.1.1.2))) in Hh. by rewrite <- !list_fmap_compose in Hh. }
  unfold on_dea_received. wp_op. rewrite Hl. wp_op. rewrite (list_lookup_total_correct _ _ _ Hs).
  destruct (decide _) as [Hn|_]; [congruence|].
  eapply (wp_seq _ _ (λ _, stays st)); [by apply store_subscription_stays|].
  intros _ st1 (Hm & Ht & Htr & Hh). apply Z.eqb_neq in H1, H2. rewrite H1, H2.
  unfold respond. apply wp_bind. wp_op.
  assert (∃ s1, heap st1 !! l = Some s1 ∧ asked_by s1 = asked_by s) as (s1 & Hs1 & Hask).
  { apply (f_equal (lookup l)) in Hh. rewrite !list_lookup_fmap, Hs in Hh.
    destruct (heap st1 !! l) as [s1|]; [|discriminate]. injection Hh as Hh. exists s1. split; [done|].
    unfold asked_by. congruence. }
  rewrite (list_lookup_total_correct _ _ _ Hs1). unfold asked_by in Hask. injection Hask as _ _ Hc Hi Ha.
  destruct (response_datagram_empty ACCESS_REJECT (radius_req_id_ s1) (radius_req_auth_ s1)) as [x Hx].
  eapply wp_mono; [by apply send_response_sends|]. intros ok st2 ((Hh2 & Hm2 & Ht2 & _) & Htr2 & _).
  apply wp_ret. split_and!; try congruence; [by rewrite Hm2|by rewrite Ht2|by rewrite Hh2|].
  exists x, ok. rewrite <- Hi, <- Ha, <- Hc, Htr2. split; [exact Hx|]. by left.
Qed.

(** The first Access-Request, sent and waiting for its answer. *)
Definition waiting : option state :=
  shared <$> run_schedule (E := sample_env)
    (StartLoop (RadiusRx wlc (access_request sample_mac 5)) :: repeat StepLoop 13) start.

Definition refused_dea : dea :=
  {| dea_mac := sample_mac; dea_result_code := 5001; dea_eap := ""; dea_apn := "";
     dea_pdn_type := 0; dea_ambr_ul := 0; dea_ambr_dl := 0; dea_pgw_ip := "" |}.

Lemma failed_authentication_keeps_session_witness :
  match waiting with
  | Some st => ∃ s st', run (E := sample_env) (on_dea_received (E := sample_env) refused_dea) st = Some (tt, st')
      ∧ manager st' = manager st ∧ answered_with ACCESS_REJECT 0 s st'
  | None => False
  end.
Proof.
  destruct waiting as [st|] eqn:Hw; [|vm_compute in Hw; discriminate Hw].
  assert (Hl : (λ st, sessions_ (manager st) !! sample_mac) <$> waiting = Some (Some 0%nat))
    by (vm_compute; reflexivity).
  assert (Hs : (λ st, state_ <$> heap st) <$> waiting = Some [AUTH_PENDING]) by (vm_compute; reflexivity).
  rewrite Hw in Hl, Hs. injection Hl as Hl. injection Hs as Hs.
  destruct (heap st) as [|s h] eqn:Hh; [discriminate Hs|]. injection Hs as Hs _.
  destruct (failed_authentication_keeps_session (E := sample_env) st refused_dea 0 s)
    as (st' & Hrun & Hm & _ & _ & Ha);
    [exact Hl | by rewrite Hh | exact Hs | done | done | by right |].
  exists s, st'. auto.
Defined.

(** Two stations whose authentication failed, and a third. *)
Definition exhaustion_schedule : list choice :=
  StartLoop (RadiusRx wlc (access_request sample_mac 5)) :: repeat StepLoop 13
  ++ StartDiameter (DeaRx (dea_of sample_mac 5001)) :: repeat (StepDiameter 0) 8
  ++ StartLoop (RadiusRx wlc (access_request "00:11:22:33:44:01" 6)) :: repeat StepLoop 13
  ++ StartDiameter (DeaRx (dea_of "00:11:22:33:44:01" 5001)) :: repeat (StepDiameter 1) 8
  ++ StartLoop (RadiusRx wlc (access_request "00:11:22:33:44:02" 7)) :: repeat StepLoop 5.

(** stations whose authentication fails take the places of others: with room
    for two sessions, after two refused stations the third is turned away,
    with no handler or timer left that would free a place. *)
Theorem failed_authentications_exhaust :
  ∃ c, reachable (E := sample_env) c
    ∧ (idle c && bool_decide (states c = [AUTH_PENDING; AUTH_PENDING])
       && bool_decide (timers (shared c) = [])
       && bool_decide (get_stats (manager (shared c)) = (2, 2, 0, 1))) = true.
Proof. apply (leads_to_reachable (E := sample_env) exhaustion_schedule). vm_compute. reflexivity. Qed.
