(* ===== verification/TwagAttach.v ===== *)
(** The attach of a station, from its Access-Request to the DHCP offer, when the
    calls into the kernel and the libraries succeed. *)

From stdpp Require Import base gmap strings list relations.
From Stdlib Require Import ZArith Lia.
From S2P Require Import Prelude EncDecBits WireFormat IeFormat TwagNet TwagRadius TwagDhcp TwagS2a TwagDns TwagSta TwagState TwagCore TwagSafety TwagHandlers TwagSystem TwagScenario TwagInvariants TwagRuns.
Open Scope Z_scope.

(** Sockets, freeDiameter and the kernel do what they are asked. *)
Definition calls_succeed (E : Env) : Prop := ∀ k, env_bool k = true.

(** The newest object. *)
Lemma alter_last (f : UeSession → UeSession) h s : alter f (length h) (h ++ [s]) = h ++ [f s].
Proof. induction h as [|x h IH]; cbn; [done|]. f_equal. exact IH. Qed.

Lemma lookup_total_last h (s : UeSession) : (h ++ [s]) !!! length h = s.
Proof. induction h; [done|]. assumption. Qed.

(** The session after the Access-Request. *)
Definition requested (mac imsi : string) (addr : sockaddr_in) (id : Z) (auth : list Z)
    (teid : Z) (u : uninitialised) : UeSession :=
  set_state AUTH_PENDING
    (set_member (M_radius_req_auth auth) (set_member (M_radius_req_id id)
       (set_member (M_radius_client_addr addr)
          (set_member (M_imsi imsi) (new_session mac teid (u32 (teid + 1)) u))))).

(** The session with the subscription of an answer that names APN and P-GW. *)
Definition subscribed (d : dea) (s : UeSession) : UeSession :=
  let s := set_member (M_apn (dea_apn d)) s in
  let s := if dea_pdn_type d =? 0 then s else set_member (M_pdn_type (dea_pdn_type d)) s in
  let s := if dea_ambr_ul d =? 0 then s else set_member (M_ambr_ul (dea_ambr_ul d)) s in
  let s := if dea_ambr_dl d =? 0 then s else set_member (M_ambr_dl (dea_ambr_dl d)) s in
  set_member (M_pgw_ip (dea_pgw_ip d)) s.

(** The session with its bearer. *)
Definition connected (pgw_teid ue_ip qci : Z) (s : UeSession) : UeSession :=
  set_state CONNECTED (set_member (M_qci qci) (set_member (M_ue_ip ue_ip) (set_member (M_pgw_teid_u pgw_teid) s))).

(** A subscription leaves the other members. *)
Lemma subscribed_keeps {A} (g : UeSession → A) d s :
  (∀ m s, subscription m = true → g (set_member m s) = g s) → g (subscribed d s) = g s.
Proof. intros Hg. unfold subscribed. repeat case_match; rewrite !Hg; done. Qed.

Section Stages.
Context {E : Env} (ok : calls_succeed E).

Lemma request_stage mac imsi eap addr id auth st :
  sessions_ (manager st) !! mac = None →
  Z.of_nat (size (sessions_ (manager st))) < cfg_max_active_sessions env_config →
  wp (handle_radius_access_request mac imsi eap addr id auth)
    (λ _ st', ∃ u avps,
       heap st' = heap st ++ [requested mac imsi addr id auth (next_teid_ (manager st)) u]
       ∧ sessions_ (manager st') = <[mac := length (heap st)]> (sessions_ (manager st))
       ∧ timers st' = timers st ∧ trace st' = DiameterSend DER avps true :: trace st) st.
Proof.
  intros Hn Hm. unfold handle_radius_access_request. wp_op. rewrite Hn. wp_op.
  destruct (Z.leb_spec (cfg_max_active_sessions env_config) (Z.of_nat (size (sessions_ (manager st))))) as [H|_]; [lia|].
  wp_op. unfold create_session. cbn [fst snd heap manager timers trace ticks pending_acct_reqs_ with_manager].
  eapply (wp_seq _ _ (λ _ st', heap st' = heap st ++ [set_member (M_imsi imsi) (new_session mac (next_teid_ (manager st)) (u32 (next_teid_ (manager st) + 1)) (env_uninit (S (S (ticks st)))))]
     ∧ sessions_ (manager st') = <[mac := length (heap st)]> (sessions_ (manager st))
     ∧ timers st' = timers st ∧ trace st' = trace st)).
  { destruct (str_empty imsi) eqn:Hi.
    - destruct imsi; [|discriminate Hi]. by apply wp_ret.
    - apply wp_do. cbn. by rewrite alter_last. }
  intros _ st1 (Hh & Hs & Ht & Htr). wp_op. wp_op. wp_op. rewrite Hh, !alter_last.
  apply wp_bind. unfold send_der. wp_op. rewrite ok. cbn [negb]. wp_op. wp_op. wp_op. wp_op.
  rewrite ok. cbn [negb]. wp_op. apply wp_ret, wp_ret. rewrite alter_last, Htr. eauto 10.
Qed.

Lemma subscription_stage d h s st :
  str_empty (dea_apn d) = false → str_empty (dea_pgw_ip d) = false → heap st = h ++ [s] →
  wp (store_subscription (length h) d)
    (λ _ st', heap st' = h ++ [subscribed d s] ∧ manager st' = manager st
              ∧ timers st' = timers st ∧ trace st' = trace st) st.
Proof.
  intros Ha Hp Hh. unfold store_subscription, choose_pgw. rewrite Ha, Hp. cbn [negb].
  unfold wp. unfold subscribed.
  destruct (dea_pdn_type d =? 0), (dea_ambr_ul d =? 0), (dea_ambr_dl d =? 0); cbn;
    rewrite Hh, ?alter_last; done.
Qed.

Lemma session_request_stage h s addr st :
  heap st = h ++ [s] → str_empty (apn_ s) = false → (String.length (apn_ s) <= 127)%nat →
  inet_pton (dest_ip s) = Some addr →
  wp (send_create_session_request (length h))
    (λ sent st', sent = true ∧ heap st' = h ++ [set_state GTP_CREATE_PENDING s] ∧ manager st' = manager st
       ∧ timers st' = timers st
       ∧ ∃ local_ip stack dgram, trace st' = GtpSend addr dgram true :: trace st
         ∧ create_session_datagram (imsi_ s) (gtp_teid_c_ s) local_ip (pdn_type_ s) (ambr_ul_ s)
             (ambr_dl_ s) (apn_ s) stack = Some dgram) st.
Proof.
  intros Hh Ha Hl Hd. unfold send_create_session_request. wp_op. wp_op. wp_op.
  rewrite Hh, lookup_total_last, Ha. set (ip := env_local_ip _). set (stack := env_stack _).
  destruct (create_session_datagram_total (imsi_ s) (gtp_teid_c_ s) ip (pdn_type_ s) (ambr_ul_ s)
              (ambr_dl_ s) (apn_ s) stack Hl) as [dgram Hg].
  rewrite Hg, Hd. wp_op. rewrite ok. wp_op. cbn [negb]. wp_op. apply wp_ret.
  rewrite Hh, alter_last. split_and!; try done. exists ip, stack, dgram. auto.
Qed.

(** Whether an answer opens a session: success, with an APN that fits its
    element, and a P-GW by its address. *)
Definition opens (d : dea) (addr : Z) : Prop :=
  dea_result_code d = DIAMETER_SUCCESS ∧ str_empty (dea_apn d) = false
  ∧ (String.length (dea_apn d) <= 127)%nat ∧ str_empty (dea_pgw_ip d) = false
  ∧ inet_pton (dea_pgw_ip d) = Some addr.

Lemma answer_stage d addr h s x st :
  opens d addr → heap st = h ++ [s] → sessions_ (manager st) !! dea_mac d = Some (length h) →
  state_ s = AUTH_PENDING →
  response_datagram ACCESS_ACCEPT (radius_req_id_ s) (radius_req_auth_ s) (dea_eap d) = Some x →
  wp (on_dea_received d)
    (λ _ st', heap st' = h ++ [set_state GTP_CREATE_PENDING (subscribed d s)] ∧ manager st' = manager st
       ∧ timers st' = timers st ++ [GtpTimeout (mac_address_ s)]
       ∧ ∃ local_ip stack dgram,
           trace st' = GtpSend addr dgram true
                       :: RadiusSend (Some (length h)) (radius_client_addr_ s) x true :: trace st
           ∧ create_session_datagram (imsi_ s) (gtp_teid_c_ s) local_ip (pdn_type_ (subscribed d s))
               (ambr_ul_ (subscribed d s)) (ambr_dl_ (subscribed d s)) (dea_apn d) stack = Some dgram) st.
Proof.
  intros (Hc & Ha & Hl & Hp & Hd) Hh Hm Hs Hx. unfold on_dea_received. wp_op. rewrite Hm. wp_op.
  rewrite Hh, lookup_total_last. destruct (decide _) as [Hn|_]; [congruence|].
  eapply wp_seq; [by apply subscription_stage|]. intros _ st1 (Hh1 & Hm1 & Ht1 & Htr1).
  rewrite Hc. change (DIAMETER_SUCCESS =? DIAMETER_MULTI_ROUND_AUTH) with false.
  rewrite Z.eqb_refl. cbv iota.
  unfold respond. apply wp_bind. wp_op. rewrite Hh1, lookup_total_last.
  rewrite (subscribed_keeps radius_client_addr_), (subscribed_keeps radius_req_id_), (subscribed_keeps radius_req_auth_) by (by intros []).
  eapply wp_mono; [by apply send_response_sends|]. intros b st2 ((Hh2 & Hm2 & Ht2 & _) & Htr2 & ->).
  cbn in Hm1, Ht1, Htr1, Hh2, Hm2, Ht2, Htr2. rewrite ok in Htr2.
  eapply wp_seq.
  { apply (session_request_stage h (subscribed d s) addr); [congruence | | |].
    - unfold subscribed. repeat case_match; exact Ha.
    - unfold subscribed. repeat case_match; exact Hl.
    - unfold dest_ip, subscribed. cbn [set_member pgw_ip_]. rewrite Hp. exact Hd. }
  intros sent st3 (-> & Hh3 & Hm3 & Ht3 & ip & stack & dgram & Htr3 & Hg).
  wp_op. rewrite Hh3, lookup_total_last. apply wp_do. cbn [exec fst snd heap manager timers trace with_manager].
  split_and!; [done | congruence | |].
  - rewrite Ht3, Ht2, Ht1.
    change (mac_address_ (set_state _ ?x)) with (mac_address_ x). by rewrite (subscribed_keeps mac_address_) by (by intros []).
  - exists ip, stack, dgram. split; [congruence|].
    rewrite (subscribed_keeps imsi_), (subscribed_keeps gtp_teid_c_) in Hg by (by intros []).
    replace (apn_ (subscribed d s)) with (dea_apn d) in Hg by (unfold subscribed; by repeat case_match).
    exact Hg.
Qed.

(** The tunnel and the route of a session with address [ue_ip]. *)
Definition tunnel_effects (l : loc) (teid_u pgw_teid ue_ip : Z) : list effect :=
  [System ("ip route add " ++ inet_ntop ue_ip ++ " dev gtp0");
   TunnelAdd l teid_u pgw_teid ue_ip
     (match inet_pton (cfg_pgw_ip env_config) with Some a => a | None => 0 end) true].

Lemma bearer_stage h s mac pgw_teid ue_ip qci st :
  inv st → teids_fit st → heap st = h ++ [s] → sessions_ (manager st) !! mac = Some (length h) →
  state_ s = GTP_CREATE_PENDING →
  wp (on_gtp_create_response_received (gtp_teid_c_ s) true pgw_teid ue_ip qci)
    (λ _ st', heap st' = h ++ [connected pgw_teid ue_ip qci s] ∧ manager st' = manager st
       ∧ timers st' = timers st
       ∧ trace st' = tunnel_effects (length h) (gtp_teid_u_ s) pgw_teid ue_ip ++ trace st) st.
Proof.
  intros HI HF Hh Hm Hs. unfold on_gtp_create_response_received. wp_op.
  assert (Hg : get_session_by_teid_c (gtp_teid_c_ s) st = Some (length h)).
  { apply get_by_teid; [done..|]. exists mac, s. split_and!; [done | | done].
    rewrite Hh. by apply list_lookup_middle. }
  rewrite Hg. cbn [negb]. wp_op. rewrite Hh, lookup_total_last.
  destruct (decide _) as [Hn|_]; [congruence|]. wp_op. wp_op. wp_op.
  rewrite Hh, !alter_last. apply wp_bind. unfold setup_kernel_gtpu_tunnel.
  do 3 (wp_op; rewrite ok; cbn [negb]). wp_op. wp_op. rewrite ok, lookup_total_last. wp_op.
  apply wp_bind, wp_do. cbn [exec fst snd heap manager timers trace with_manager].
  apply wp_ret, wp_do. cbn [exec fst snd heap manager timers trace with_manager].
  rewrite alter_last. done.
Qed.

Lemma offer_stage h s mac xid st :
  heap st = h ++ [s] → sessions_ (manager st) !! mac = Some (length h) → state_ s = CONNECTED →
  ue_ip_ s ≠ 0 →
  wp (handle_dhcp_discover mac xid)
    (λ _ st', heap st' = heap st ∧ manager st' = manager st ∧ timers st' = timers st
       ∧ trace st' = DhcpSend mac (dhcp_response mac (ue_ip_ s) xid DHCP_OFFER) true :: trace st) st.
Proof.
  intros Hh Hm Hs Hip. unfold handle_dhcp_discover, handle_dhcp. wp_op. rewrite Hm. wp_op.
  rewrite Hh, lookup_total_last. destruct (decide _) as [_|Hn]; [|tauto].
  unfold send_dhcp_response. wp_op. rewrite ok. apply wp_do. done.
Qed.

End Stages.

(** The handlers of an attach one after the other: the Access-Request, the
    answer of the AAA server, the response of the P-GW to the TEID the request
    carried, and the DHCP discover. *)
Definition attach {E : Env} (mac imsi eap : string) (addr : sockaddr_in) (id : Z) (auth : list Z)
    (d : dea) (teid pgw_teid ue_ip qci xid : Z) : prog unit :=
  handle_radius_access_request mac imsi eap addr id auth;;
  on_dea_received d;;
  on_gtp_create_response_received teid true pgw_teid ue_ip qci;;
  handle_dhcp_discover mac xid.

(** What it leaves for the object [l] with the TEIDs [teid] and [teid + 1]. *)
Definition attached {E : Env} (mac imsi : string) (addr : sockaddr_in) (d : dea) (pgw_addr : Z)
    (accept : list Z) (l : loc) (teid pgw_teid ue_ip xid : Z) (st st' : state) : Prop :=
  ∃ s avps local_ip stack request,
    sessions_ (manager st') = <[mac := l]> (sessions_ (manager st))
    ∧ heap st' = heap st ++ [s] ∧ state_ s = CONNECTED ∧ ue_ip_ s = ue_ip
    ∧ timers st' = timers st ++ [GtpTimeout mac]
    ∧ create_session_datagram imsi teid local_ip (pdn_type_ s) (ambr_ul_ s) (ambr_dl_ s) (dea_apn d)
        stack = Some request
    ∧ trace st' =
        DhcpSend mac (dhcp_response mac ue_ip xid DHCP_OFFER) true
        :: tunnel_effects l (teid + 1) pgw_teid ue_ip
        ++ GtpSend pgw_addr request true
        :: RadiusSend (Some l) addr accept true
        :: DiameterSend DER avps true :: trace st.

(** C2: an attach completes when nothing goes wrong.  From every reachable state
    with room for a session under the limit, fewer than 2^31 sessions created and
    the station unknown: if every call of the system succeeds ([calls_succeed]), the
    Diameter answer is a success with an APN of 1 to 127 octets and the address of
    a P-GW ([opens]), the Access-Accept with its EAP payload fits a datagram and the
    P-GW assigns an address other than 0, and the four handlers run one after the
    other with no other thread in between, then they return, and the station ends
    connected with the address of the P-GW's response and a timer that finds nothing
    to do; the world has seen, in this order, the Diameter request, the
    Access-Accept, the create session request with the station's IMSI and
    TEID, the tunnel between the TEIDs of gateway and P-GW, the route, and the
    offer of the address. *)
Theorem attach_completes {E : Env} c mac imsi eap addr id auth d pgw_addr accept pgw_teid ue_ip qci xid :
  calls_succeed E → reachable c →
  let st := shared c in let l := length (heap st) in let teid := next_teid_ (manager st) in
  Z.of_nat l + 1 < 2 ^ 31 → sessions_ (manager st) !! mac = None →
  Z.of_nat (size (sessions_ (manager st))) < cfg_max_active_sessions env_config →
  dea_mac d = mac → opens d pgw_addr → ue_ip ≠ 0 →
  response_datagram ACCESS_ACCEPT id auth (dea_eap d) = Some accept →
  ∃ st', run (attach mac imsi eap addr id auth d teid pgw_teid ue_ip qci xid) st = Some (tt, st')
    ∧ attached mac imsi addr d pgw_addr accept l teid pgw_teid ue_ip xid st st'.
Proof.
  intros ok Hr st l teid HF Hn Hroom Hmac Ho Hip Hx. subst mac. pose proof (reachable_inv c Hr) as HI.
  fold st in HI.
  assert (Hteid : u32 (teid + 1) = teid + 1).
  { assert (Hnext : teid = u32 (1 + 2 * Z.of_nat l)) by (apply inv_next, HI).
    unfold u32 in *. rewrite Z.mod_small in Hnext by lia. apply Z.mod_small. lia. }
  match goal with |- ∃ st', run ?p _ = _ ∧ @?Q st' => cut (wp p (λ _, Q) st) end.
  { intros ([] & st' & H1 & H2)%wp_run. eauto. }
  unfold attach.
  eapply (wp_seq_inv true); [apply handle_radius_access_request_safe | exact HI | by apply request_stage |].
  intros _ st1 (u & avps & Hh1 & Hs1 & Ht1 & Htr1) HI1. fold l teid in Hh1, Hs1.
  set (s1 := requested _ _ _ _ _ _ _) in Hh1.
  eapply (wp_seq_inv false); [apply on_dea_received_safe | exact HI1 | |].
  { apply (answer_stage ok d pgw_addr (heap st) s1 accept); auto. rewrite Hs1. by rewrite lookup_insert_eq. }
  intros _ st2 (Hh2 & Hm2 & Ht2 & ip & stack & rq & Htr2 & Hg) HI2. set (s2 := set_state _ _) in Hh2.
  assert (Hc2 : gtp_teid_c_ s2 = teid) by exact (subscribed_keeps gtp_teid_c_ d s1 ltac:(by intros [])).
  assert (Hu2 : gtp_teid_u_ s2 = teid + 1).
  { rewrite <- Hteid. exact (subscribed_keeps gtp_teid_u_ d s1 ltac:(by intros [])). }
  eapply wp_seq.
  { rewrite <- Hc2. apply (bearer_stage ok (heap st) s2 (dea_mac d)); auto.
    - unfold teids_fit. rewrite Hh2, length_app. cbn. fold l. lia.
    - rewrite Hm2, Hs1. by rewrite lookup_insert_eq. }
  intros _ st3 (Hh3 & Hm3 & Ht3 & Htr3). set (s3 := connected _ _ _ _) in Hh3.
  eapply wp_mono; [apply (offer_stage ok (heap st) s3 (dea_mac d)); auto|].
  { rewrite Hm3, Hm2, Hs1. by rewrite lookup_insert_eq. }
  intros _ st4 (Hh4 & Hm4 & Ht4 & Htr4). exists s3, avps, ip, stack, rq. split_and!; auto; try congruence.
  - rewrite Ht4, Ht3, Ht2, Ht1. done.
  - rewrite Htr4, Htr3, Htr2, Htr1, Hu2. done.
Qed.

Definition sample_dea : dea :=
  {| dea_mac := sample_mac; dea_result_code := DIAMETER_SUCCESS; dea_eap := "eap"; dea_apn := "internet";
     dea_pdn_type := 1; dea_ambr_ul := 0; dea_ambr_dl := 0; dea_pgw_ip := "127.0.0.1" |}.

Definition sample_accept : list Z :=
  match response_datagram ACCESS_ACCEPT 5 (repeat 1 16) "eap" with Some x => x | None => [] end.

Lemma attach_completes_witness :
  ∃ st', run (E := sample_env)
    (attach (E := sample_env) sample_mac "001010123456789" "" wlc 5 (repeat 1 16) sample_dea 1 77 0x0500000A 9 1) initial
      = Some (tt, st')
    ∧ attached (E := sample_env) sample_mac "001010123456789" wlc sample_dea (htonl 0x7F000001) sample_accept
        0 1 77 0x0500000A 1 initial st'.
Proof.
  apply (attach_completes (E := sample_env) start sample_mac "001010123456789" "" wlc 5 (repeat 1 16) sample_dea
           (htonl 0x7F000001) sample_accept 77 0x0500000A 9 1);
    [done | apply rtc_refl | done | done | done | done | | done | vm_compute; reflexivity].
  split_and!; try (vm_compute; reflexivity). cbn. lia.
Defined.
