(* ===== verification/FdList.v ===== *)
(** The intrusive doubly linked lists of freeDiameter (libfdproto/lists.c).

    A list is a ring of [struct fd_list] nodes through a sentinel; every node
    points to the sentinel.  The memory is a finite map from addresses to
    nodes, an operation is a sequence of loads and stores, and [None] is an
    access to an address without a node or a failed ASSERT.  The abstraction
    [is_list h s xs] says that the ring of the sentinel [s] has the nodes [xs]
    in this order; the theorems say what list each operation leaves. *)

From stdpp Require Import base gmap list sorting.
From Stdlib Require Import ZArith Lia.

Abbreviation ptr := positive.

(** [struct fd_list]; [o] is the address of the object the node is part of. *)
Record fd_list := FdNode { next : ptr; prev : ptr; head : ptr; o : ptr }.

Abbreviation mem := (gmap ptr fd_list).

(** * Loads and stores *)

Definition get {A} (field : fd_list → A) (p : ptr) (h : mem) : option A := field <$> h !! p.

Definition store (f : fd_list → fd_list) (p : ptr) (h : mem) : option mem :=
  n ← h !! p; Some (<[p := f n]> h).

Definition upd_next (v : ptr) (n : fd_list) : fd_list := FdNode v (prev n) (head n) (o n).
Definition upd_prev (v : ptr) (n : fd_list) : fd_list := FdNode (next n) v (head n) (o n).
Definition upd_head (v : ptr) (n : fd_list) : fd_list := FdNode (next n) (prev n) v (o n).

Definition set_next (p v : ptr) : mem → option mem := store (upd_next v) p.
Definition set_prev (p v : ptr) : mem → option mem := store (upd_prev v) p.
Definition set_head (p v : ptr) : mem → option mem := store (upd_head v) p.

(** * Operations *)

Definition fd_list_init (list obj : ptr) (h : mem) : option mem :=
  store (λ _, FdNode list list list obj) list h.

(** [CHECK_SINGLE]. *)
Definition CHECK_SINGLE (li : ptr) (h : mem) : bool :=
  bool_decide (get next li h = Some li ∧ get prev li h = Some li ∧ get head li h = Some li).

Definition list_insert_after (ref item : ptr) (h : mem) : option mem :=
  h ← set_prev item ref h;
  n ← get next ref h; h ← set_next item n h;
  hd ← get head ref h; h ← set_head item hd h;
  n ← get next ref h; h ← set_prev n item h;
  set_next ref item h.

Definition fd_list_insert_after (ref item : ptr) (h : mem) : option mem :=
  if CHECK_SINGLE item h && negb (bool_decide (get head ref h = Some item))
  then list_insert_after ref item h else None.

Definition list_insert_before (ref item : ptr) (h : mem) : option mem :=
  p ← get prev ref h; h ← set_prev item p h;
  h ← set_next item ref h;
  hd ← get head ref h; h ← set_head item hd h;
  p ← get prev ref h; h ← set_next p item h;
  set_prev ref item h.

Definition fd_list_insert_before (ref item : ptr) (h : mem) : option mem :=
  if CHECK_SINGLE item h && negb (bool_decide (get head ref h = Some item))
  then list_insert_before ref item h else None.

(** [for (li = senti->next; li != senti; li = li->next) li->head = ref;] *)
Fixpoint set_heads (fuel : nat) (li senti ref : ptr) (h : mem) : option mem :=
  if decide (li = senti) then Some h
  else
    match fuel with
    | O => None
    | S fuel => h ← set_head li ref h; n ← get next li h; set_heads fuel n senti ref h
    end.

(** A walk along a ring visits each node of the memory at most once. *)
Definition walk_fuel (h : mem) : nat := size h.

Definition fd_list_move_end (ref senti : ptr) (h : mem) : option mem :=
  if bool_decide (get head ref h = Some ref) && bool_decide (get head senti h = Some senti) then
    first ← get next senti h;
    if decide (first = senti) then Some h
    else
      h ← set_heads (walk_fuel h) first senti ref h;
      n ← get next senti h; p ← get prev ref h; h ← set_prev n p h;
      p ← get prev ref h; n ← get next senti h; h ← set_next p n h;
      p ← get prev senti h; h ← set_next p ref h;
      p ← get prev senti h; h ← set_prev ref p h;
      h ← set_prev senti senti h;
      set_next senti senti h
  else None.

Inductive insert_result :=
| Inserted (h : mem)
| Eexist (ref_duplicate : ptr).

(** The loop of [fd_list_insert_ordered], at [ptr]. *)
Fixpoint insert_ordered_from (cmp_fct : ptr → ptr → Z) (fuel : nat) (p head item : ptr) (h : mem)
    : option insert_result :=
  n ← get next p h;
  if decide (n = head) then Inserted <$> list_insert_after p item h
  else
    match fuel with
    | O => None
    | S fuel =>
        item_o ← get o item h; n_o ← get o n h;
        let cmp := cmp_fct item_o n_o in
        if decide (cmp = 0%Z) then Some (Eexist n_o)
        else if decide (cmp < 0)%Z then Inserted <$> list_insert_after p item h
        else insert_ordered_from cmp_fct fuel n head item h
    end.

Definition fd_list_insert_ordered (list item : ptr) (cmp_fct : ptr → ptr → Z) (h : mem)
    : option insert_result :=
  if bool_decide (get head list h = Some list) && CHECK_SINGLE item h
  then insert_ordered_from cmp_fct (walk_fuel h) list list item h else None.

Definition fd_list_unlink (item : ptr) (h : mem) : option mem :=
  hd ← get head item h;
  if decide (hd = item) then Some h
  else
    n ← get next item h; p ← get prev item h; h ← set_prev n p h;
    p ← get prev item h; n ← get next item h; h ← set_next p n h;
    h ← set_next item item h;
    h ← set_prev item item h;
    set_head item item h.

(** * The abstraction *)

(** Consecutive nodes point to each other. *)
Fixpoint chain (h : mem) (c : list ptr) : Prop :=
  match c with
  | p :: (q :: _) as c' => get next p h = Some q ∧ get prev q h = Some p ∧ chain h c'
  | _ => True
  end.

(** The ring of the sentinel [s] over the nodes [xs]. *)
Record is_list (h : mem) (s : ptr) (xs : list ptr) : Prop := {
  list_chain : chain h (s :: xs ++ [s]);
  list_nodup : NoDup (s :: xs);
  list_heads x : x ∈ s :: xs → get head x h = Some s
}.

(** A node in no list: its own ring. *)
Abbreviation single h item := (is_list h item []).

(** Outside [ps] the memory is as before, and no object moves. *)
Definition frame (ps : list ptr) (h h' : mem) : Prop :=
  (∀ p, p ∉ ps → h' !! p = h !! p) ∧ (∀ p, get o p h' = get o p h).

(** * Loads after stores *)

Section Memory.
Implicit Types (h : mem) (p q v : ptr).

(** [f] with the value [v] at [p]. *)
Definition at_ptr (f : ptr → option ptr) (p v : ptr) (q : ptr) : option ptr :=
  if decide (q = p) then Some v else f q.

Lemma get_exists {A B} (f : fd_list → A) (g : fd_list → B) p h x :
  get f p h = Some x → ∃ y, get g p h = Some y.
Proof. unfold get. destruct (h !! p); [|done]. cbn. eauto. Qed.

(** The effect of a store, by the fields it changes and keeps. *)
Lemma store_spec f p h x :
  get next p h = Some x →
  ∃ h', store f p h = Some h' ∧ (∀ q, q ≠ p → h' !! q = h !! q)
    ∧ (∀ A (g : fd_list → A), (∀ n, g (f n) = g n) → ∀ q, get g q h' = get g q h)
    ∧ (∀ (g : fd_list → ptr) v, (∀ n, g (f n) = v) → ∀ q, get g q h' = at_ptr (λ q, get g q h) p v q).
Proof.
  unfold get, store. intros (n & H & _)%fmap_Some. rewrite H. cbn. eexists. split; [done|]. split_and!.
  - intros q Hq. by rewrite lookup_insert_ne.
  - intros A g Hg q. destruct (decide (q = p)) as [->|Hq]; [|by rewrite lookup_insert_ne].
    rewrite lookup_insert_eq, H. cbn. by rewrite Hg.
  - intros g v Hg q. unfold at_ptr. case_decide as Hq; [|by rewrite lookup_insert_ne].
    subst. rewrite lookup_insert_eq. cbn. by rewrite Hg.
Qed.

(** What a store leaves, field by field: the new [next], [prev] and [head]. *)
Definition fields (h h' : mem) (n p hd : ptr → option ptr) : Prop :=
  (∀ q, get next q h' = n q) ∧ (∀ q, get prev q h' = p q) ∧ (∀ q, get head q h' = hd q)
  ∧ (∀ q, get o q h' = get o q h).

Lemma fields_refl h : fields h h (λ q, get next q h) (λ q, get prev q h) (λ q, get head q h).
Proof. done. Qed.

Section Step.
Context (h0 h : mem) (n pv hd : ptr → option ptr) (p : ptr) (ps : list ptr).
Context (F : fields h0 h n pv hd) (R : frame ps h0 h) (Hp : ∃ x, n p = Some x).

Lemma frame_cons h' : (∀ q, q ≠ p → h' !! q = h !! q) → (∀ q, get o q h' = get o q h) →
  frame (p :: ps) h0 h'.
Proof.
  intros H1 H2. destruct R as [R1 R2]. split.
  - intros q [Hq Hq']%not_elem_of_cons. rewrite H1 by done. auto.
  - intros q. by rewrite H2.
Qed.

Lemma set_next_spec v :
  ∃ h', set_next p v h = Some h' ∧ fields h0 h' (at_ptr n p v) pv hd ∧ frame (p :: ps) h0 h'.
Proof.
  destruct F as (F1 & F2 & F3 & F4), Hp as [x Hx].
  destruct (store_spec (upd_next v) p h x) as (h' & H & Hf & Hs & Hc); [by rewrite F1|].
  exists h'. split; [exact H|]. split; [|apply frame_cons; [exact Hf | by apply Hs]].
  split_and!; intros q; [|by rewrite Hs.. ].
  rewrite (Hc next v) by done. unfold at_ptr. by rewrite F1.
Qed.

Lemma set_prev_spec v :
  ∃ h', set_prev p v h = Some h' ∧ fields h0 h' n (at_ptr pv p v) hd ∧ frame (p :: ps) h0 h'.
Proof.
  destruct F as (F1 & F2 & F3 & F4), Hp as [x Hx].
  destruct (store_spec (upd_prev v) p h x) as (h' & H & Hf & Hs & Hc); [by rewrite F1|].
  exists h'. split; [exact H|]. split; [|apply frame_cons; [exact Hf | by apply Hs]].
  split_and!; intros q; [by rewrite Hs| |by rewrite Hs..].
  rewrite (Hc prev v) by done. unfold at_ptr. by rewrite F2.
Qed.

Lemma set_head_spec v :
  ∃ h', set_head p v h = Some h' ∧ fields h0 h' n pv (at_ptr hd p v) ∧ frame (p :: ps) h0 h'.
Proof.
  destruct F as (F1 & F2 & F3 & F4), Hp as [x Hx].
  destruct (store_spec (upd_head v) p h x) as (h' & H & Hf & Hs & Hc); [by rewrite F1|].
  exists h'. split; [exact H|]. split; [|apply frame_cons; [exact Hf | by apply Hs]].
  split_and!; intros q; [by rewrite Hs..| |by rewrite Hs].
  rewrite (Hc head v) by done. unfold at_ptr. by rewrite F3.
Qed.

End Step.
End Memory.

Lemma at_ptr_eq f p v : at_ptr f p v p = Some v.
Proof. unfold at_ptr. by rewrite decide_True. Qed.

Lemma at_ptr_ne f p v q : q ≠ p → at_ptr f p v q = f q.
Proof. intros. unfold at_ptr. by rewrite decide_False. Qed.

Lemma at_ptr_exists f p v q : (∃ x, f q = Some x) → ∃ x, at_ptr f p v q = Some x.
Proof. intros [x Hx]. unfold at_ptr. case_decide; eauto. Qed.

Lemma at_ptr_comm f p v p' v' q : p ≠ p' → at_ptr (at_ptr f p v) p' v' q = at_ptr (at_ptr f p' v') p v q.
Proof. intros. unfold at_ptr. repeat case_decide; congruence. Qed.

Lemma fields_ext h h' n n' p p' hd hd' :
  fields h h' n p hd → (∀ q, n q = n' q) → (∀ q, p q = p' q) → (∀ q, hd q = hd' q) →
  fields h h' n' p' hd'.
Proof. intros (F1 & F2 & F3 & F4) E1 E2 E3. split_and!; intros q; rewrite <- ?E1, <- ?E2, <- ?E3; auto. Qed.

Lemma frame_weaken ps ps' h h' : frame ps h h' → ps ⊆ ps' → frame ps' h h'.
Proof. intros [H1 H2] Hs. split; [|done]. intros p Hp. apply H1. set_solver. Qed.

(** A pointer whose node exists after earlier stores. *)
Ltac exists_node := repeat apply at_ptr_exists; cbv beta; eauto using get_exists.

(** Loads of what was stored. *)
Ltac at_simpl :=
  repeat first [rewrite at_ptr_eq | rewrite at_ptr_ne by first [done | congruence] | progress cbv beta].

(** The value a load gives, when it is known. *)
Ltac load :=
  at_simpl;
  match goal with
  | H : get ?f ?p ?h = Some _ |- context [mbind _ (get ?f ?p ?h)] => rewrite H
  | |- _ => idtac
  end;
  cbn [mbind option_bind].

(** One load or store of an operation. *)
Ltac mem_step :=
  match goal with
  | F : fields ?h0 ?h ?n ?pv ?hd, R : frame ?ps ?h0 ?h |- context [set_next ?p ?v ?h] =>
      let h' := fresh "h" in let E := fresh in let F' := fresh "F" in let R' := fresh "R" in
      destruct (set_next_spec h0 h n pv hd p ps F R ltac:(exists_node) v) as (h' & E & F' & R');
      rewrite E; clear E F R; cbn [mbind option_bind]
  | F : fields ?h0 ?h ?n ?pv ?hd, R : frame ?ps ?h0 ?h |- context [set_prev ?p ?v ?h] =>
      let h' := fresh "h" in let E := fresh in let F' := fresh "F" in let R' := fresh "R" in
      destruct (set_prev_spec h0 h n pv hd p ps F R ltac:(exists_node) v) as (h' & E & F' & R');
      rewrite E; clear E F R; cbn [mbind option_bind]
  | F : fields ?h0 ?h ?n ?pv ?hd, R : frame ?ps ?h0 ?h |- context [set_head ?p ?v ?h] =>
      let h' := fresh "h" in let E := fresh in let F' := fresh "F" in let R' := fresh "R" in
      destruct (set_head_spec h0 h n pv hd p ps F R ltac:(exists_node) v) as (h' & E & F' & R');
      rewrite E; clear E F R; cbn [mbind option_bind]
  | F : fields _ ?h _ _ _ |- context [get next ?p ?h] => progress (try rewrite (proj1 F p); load)
  | F : fields _ ?h _ _ _ |- context [get prev ?p ?h] => progress (try rewrite (proj1 (proj2 F) p); load)
  | F : fields _ ?h _ _ _ |- context [get head ?p ?h] => progress (try rewrite (proj1 (proj2 (proj2 F)) p); load)
  end.

Section Chains.
Implicit Types (h : mem) (p q r s : ptr) (c xs ys : list ptr).

Lemma chain_app h c p c' : chain h (c ++ p :: c') ↔ chain h (c ++ [p]) ∧ chain h (p :: c').
Proof.
  induction c as [|q c IH]; [cbn; tauto|].
  destruct c as [|q' c]; cbn in *; [tauto|]. rewrite IH. tauto.
Qed.

(** A chain only depends on the pointers inside it. *)
Lemma chain_ext h h' c :
  chain h c →
  (∀ c1 p q c2, c = c1 ++ p :: q :: c2 →
     get next p h' = get next p h ∧ get prev q h' = get prev q h) →
  chain h' c.
Proof.
  induction c as [|p [|q c] IH]; [done..|]. intros (H1 & H2 & H3) Hext.
  destruct (Hext [] p q c eq_refl) as [E1 E2]. split_and!; [by rewrite E1|by rewrite E2|].
  apply IH; [done|]. intros c1 p' q' c2 Hc. apply (Hext (p :: c1) p' q' c2). by rewrite Hc.
Qed.

(** Neighbours in a list without repetition. *)
Lemma adjacent_last c1 p q c2 r :
  NoDup (c1 ++ p :: q :: c2) → last (c1 ++ p :: q :: c2) = Some r → p ≠ r.
Proof.
  intros (_ & _ & Hd)%NoDup_app Hl ->. apply NoDup_cons in Hd. destruct Hd as [Hd _]. apply Hd.
  rewrite last_app_cons, last_cons_cons in Hl. by apply last_Some_elem_of in Hl.
Qed.

Lemma adjacent_head c1 p q c2 r :
  NoDup (c1 ++ p :: q :: c2) → list.head (c1 ++ p :: q :: c2) = Some r → q ≠ r.
Proof.
  intros Hd Hh ->. destruct c1 as [|x c1]; injection Hh as ->.
  - apply NoDup_cons in Hd. destruct Hd as [Hd _]. apply Hd. by left.
  - apply NoDup_cons in Hd. destruct Hd as [Hd _]. apply Hd. set_solver.
Qed.

(** A chain does not depend on the [prev] of its first and the [next] of its
    last node. *)
Lemma chain_keep h h' c a b :
  chain h c → NoDup c → list.head c = Some a → last c = Some b →
  (∀ q, q ∈ c → q ≠ b → get next q h' = get next q h) →
  (∀ q, q ∈ c → q ≠ a → get prev q h' = get prev q h) → chain h' c.
Proof.
  intros C N Ha Hb Hn Hp. apply (chain_ext h); [exact C|]. intros c1 p q c2 Hc. pose proof N as N'.
  rewrite Hc in N', Ha, Hb. split.
  - apply Hn; [rewrite Hc; set_solver | exact (adjacent_last _ _ _ _ _ N' Hb)].
  - apply Hp; [rewrite Hc; set_solver | exact (adjacent_head _ _ _ _ _ N' Ha)].
Qed.

End Chains.

(** [item] between [ref] and [nx] in a list of the sentinel [s]. *)
Definition spliced (h h' : mem) (ref item nx s : ptr) : Prop :=
  fields h h' (at_ptr (at_ptr (λ q, get next q h) ref item) item nx)
              (at_ptr (at_ptr (λ q, get prev q h) nx item) item ref)
              (at_ptr (λ q, get head q h) item s).

(** The ring without [item], which stood between [pv] and [nx]. *)
Definition unspliced (h h' : mem) (pv item nx : ptr) : Prop :=
  fields h h' (at_ptr (at_ptr (λ q, get next q h) pv nx) item item)
              (at_ptr (at_ptr (λ q, get prev q h) nx pv) item item)
              (at_ptr (λ q, get head q h) item item).

(** The parts of a ring around the place between [xs] and [ys]. *)
Lemma ring_cut h s xs ys ref nx :
  is_list h s (xs ++ ys) → last (s :: xs) = Some ref → list.head (ys ++ [s]) = Some nx →
  ∃ c1 c2, s :: xs = c1 ++ [ref] ∧ ys ++ [s] = nx :: c2
    ∧ chain h (s :: xs) ∧ chain h (ys ++ [s]) ∧ ref ∈ s :: xs ∧ nx ∈ ys ++ [s]
    ∧ NoDup (s :: xs) ∧ NoDup (ys ++ [s]) ∧ (∀ x, x ∈ s :: xs → x ∉ ys) ∧ s ∉ xs.
Proof.
  intros [HC HN _] Hr Hnx.
  pose proof Hr as Hr'. apply last_Some in Hr'. destruct Hr' as [c1 Hc1].
  destruct (ys ++ [s]) as [|nx' c2] eqn:Hc2; [done|]. injection Hnx as ->.
  exists c1, c2. split; [done|]. split; [done|].
  rewrite <- app_assoc, Hc2 in HC. change (chain h ((s :: xs) ++ nx :: c2)) in HC.
  rewrite Hc1, <- app_assoc in HC. apply chain_app in HC. destruct HC as [C1 C2].
  apply (chain_app h [ref]) in C2. destruct C2 as [_ C3].
  rewrite <- Hc1 in C1. change (NoDup ((s :: xs) ++ ys)) in HN. apply NoDup_app in HN.
  destruct HN as (HN1 & HN2 & HN3). apply NoDup_cons in HN1 as HN4.
  split_and!; try done.
  - by apply last_Some_elem_of.
  - by left.
  - rewrite <- Hc2. apply NoDup_app. split_and!; [done | set_solver | apply NoDup_singleton].
  - apply HN4.
Qed.

Section Splice.
Context (h h' : mem) (s : ptr) (xs ys : list ptr) (ref item nx : ptr).
Context (L : is_list h s (xs ++ ys)) (Hr : last (s :: xs) = Some ref)
        (Hnx : list.head (ys ++ [s]) = Some nx) (Hi : item ∉ s :: xs ++ ys)
        (F : spliced h h' ref item nx s).

Lemma splice_before : chain h' (s :: xs).
Proof.
  destruct (ring_cut _ _ _ _ _ _ L Hr Hnx) as (c1 & c2 & Hc1 & Hc2 & C1 & _ & _ & Hn & HN1 & _ & Hdis & Hs).
  destruct F as (Fn & Fp & _). apply (chain_keep h h' (s :: xs) s ref); auto.
  - intros q Hq Hne. rewrite Fn. assert (q ≠ item) by set_solver. by at_simpl.
  - intros q Hq Hqs. rewrite Fp. assert (q ≠ item) by set_solver.
    assert (q ≠ nx) by (intros ->; apply elem_of_app in Hn; set_solver). by at_simpl.
Qed.

Lemma splice_after : chain h' (ys ++ [s]).
Proof.
  destruct (ring_cut _ _ _ _ _ _ L Hr Hnx) as (c1 & c2 & Hc1 & Hc2 & _ & C3 & Href & _ & _ & HN2 & Hdis & Hs).
  destruct F as (Fn & Fp & _). apply (chain_keep h h' (ys ++ [s]) nx s); auto using last_snoc.
  - intros q Hq Hqs. rewrite Fn. assert (q ≠ item) by set_solver.
    assert (q ≠ ref) by (intros ->; apply (Hdis ref Href); set_solver). by at_simpl.
  - intros q Hq Hne. rewrite Fp. assert (q ≠ item) by set_solver. by at_simpl.
Qed.

Lemma splice : is_list h' s (xs ++ item :: ys).
Proof.
  pose proof splice_before as B. pose proof splice_after as A.
  destruct (ring_cut _ _ _ _ _ _ L Hr Hnx) as (c1 & c2 & Hc1 & Hc2 & _ & _ & Href & Hn & _ & _ & _ & _).
  destruct F as (Fn & Fp & Fh & _), L as [_ HN HH].
  assert (item ≠ ref) by set_solver. assert (nx ≠ item) by set_solver.
  split.
  - rewrite <- app_assoc. change ((item :: ys) ++ [s]) with (item :: ys ++ [s]).
    change (chain h' ((s :: xs) ++ item :: ys ++ [s])). rewrite Hc2 in *. rewrite Hc1 in *.
    rewrite <- app_assoc. apply chain_app. split; [exact B|].
    do 2 (split_and!; [rewrite Fn; by at_simpl | rewrite Fp; by at_simpl |]). exact A.
  - change (NoDup ((s :: xs) ++ item :: ys)). change (NoDup ((s :: xs) ++ ys)) in HN.
    apply NoDup_app in HN. destruct HN as (N1 & N2 & N3). change (item ∉ (s :: xs) ++ ys) in Hi.
    apply not_elem_of_app in Hi. destruct Hi as [Hi1 Hi2]. apply NoDup_app.
    split_and!; [done | | by apply NoDup_cons].
    intros x Hx [->|Hy]%elem_of_cons; [done | by apply (N2 x)].
  - intros x Hx. rewrite Fh. unfold at_ptr. case_decide; [done|]. apply HH. set_solver.
Qed.

End Splice.

Lemma unsplice h h' s xs ys pv item nx :
  is_list h s (xs ++ item :: ys) → last (s :: xs) = Some pv → list.head (ys ++ [s]) = Some nx →
  unspliced h h' pv item nx → is_list h' s (xs ++ ys) ∧ single h' item.
Proof.
  intros L Hr Hnx (Fn & Fp & Fh & _).
  destruct (ring_cut h s xs (item :: ys) pv item L Hr eq_refl)
    as (c1 & c2 & Hc1 & _ & C1 & C2 & Hin & _ & N1 & N2 & Hdis & Hs).
  destruct L as [_ HN HH]. cbn [app] in C2, N2. apply NoDup_cons in N2. destruct N2 as [Hi N2].
  assert (Hi' : item ∉ s :: xs) by (intros Hx; by apply (Hdis item Hx); left).
  assert (C3 : chain h (ys ++ [s])) by (destruct (ys ++ [s]); [done|]; apply C2).
  assert (Hnin : nx ∈ ys ++ [s]) by (destruct (ys ++ [s]); [done|]; injection Hnx as ->; by left).
  assert (pv ≠ item) by set_solver. assert (nx ≠ item) by set_solver.
  split; split.
  - rewrite <- app_assoc. change (chain h' ((s :: xs) ++ ys ++ [s])).
    assert (B : chain h' (s :: xs)).
    { apply (chain_keep h h' (s :: xs) s pv); auto.
      - intros q Hq Hne. rewrite Fn. assert (q ≠ item) by set_solver. by at_simpl.
      - intros q Hq Hqs. rewrite Fp. assert (q ≠ item) by set_solver.
        assert (q ≠ nx) by (intros ->; apply elem_of_app in Hnin; set_solver). by at_simpl. }
    assert (A : chain h' (ys ++ [s])).
    { apply (chain_keep h h' (ys ++ [s]) nx s); auto using last_snoc.
      - intros q Hq Hqs. rewrite Fn. assert (q ≠ item) by set_solver.
        assert (q ≠ pv) by (intros ->; apply (Hdis pv Hin); set_solver). by at_simpl.
      - intros q Hq Hne. rewrite Fp. assert (q ≠ item) by set_solver. by at_simpl. }
    rewrite Hc1 in *. destruct (ys ++ [s]) as [|nx' c3]; [done|]. injection Hnx as ->.
    rewrite <- app_assoc. apply chain_app. split; [exact B|].
    split_and!; [rewrite Fn; by at_simpl | rewrite Fp; by at_simpl | exact A].
  - change (NoDup ((s :: xs) ++ ys)). apply NoDup_app. split_and!; [done | | apply NoDup_app in N2; tauto].
    intros x Hx Hy. apply (Hdis x Hx). by right.
  - intros x Hx. rewrite Fh. assert (x ≠ item) by set_solver. at_simpl. apply HH. set_solver.
  - split_and!; [rewrite Fn; by at_simpl | rewrite Fp; by at_simpl | done].
  - apply NoDup_singleton.
  - intros x ->%list_elem_of_singleton. rewrite Fh. by at_simpl.
Qed.

(** * What the operations do *)

Section Operations.
Implicit Types (h : mem) (s ref item : ptr) (xs ys : list ptr).

Lemma single_not_in h s xs item : is_list h s xs → single h item → item ≠ s → item ∉ s :: xs.
Proof.
  intros L S Hne Hin. pose proof (list_heads _ _ _ L item Hin) as H.
  pose proof (list_heads _ _ _ S item ltac:(by left)) as H'. congruence.
Qed.

Lemma CHECK_SINGLE_spec h item : CHECK_SINGLE item h = true ↔ single h item.
Proof.
  unfold CHECK_SINGLE. rewrite bool_decide_eq_true. split.
  - intros (Hn & Hp & Hh). split; [done | apply NoDup_singleton | intros x ->%list_elem_of_singleton; done].
  - intros [(Hn & Hp & _) _ Hh]. split_and!; [done..|]. apply Hh. by left.
Qed.

(** The neighbours of the place between [xs] and [ys]. *)
Lemma neighbours h s xs ys :
  is_list h s (xs ++ ys) →
  ∃ ref nx, last (s :: xs) = Some ref ∧ list.head (ys ++ [s]) = Some nx
    ∧ get next ref h = Some nx ∧ get prev nx h = Some ref ∧ get head ref h = Some s ∧ get head nx h = Some s
    ∧ ref ∈ s :: xs ∧ nx ∈ ys ++ [s].
Proof.
  intros [HC _ HH]. destruct (last (s :: xs)) as [ref|] eqn:Hr; [|by apply last_None in Hr].
  destruct (ys ++ [s]) as [|nx c2] eqn:Hc2; [by destruct ys|]. exists ref, nx.
  pose proof Hr as Hr'. apply last_Some in Hr'. destruct Hr' as [c1 Hc1].
  rewrite <- app_assoc, Hc2 in HC. change (chain h ((s :: xs) ++ nx :: c2)) in HC.
  rewrite Hc1, <- app_assoc in HC. apply chain_app in HC. destruct HC as [_ (Hn & Hp & _)].
  apply last_Some_elem_of in Hr.
  assert (Hx : nx ∈ ys ++ [s]) by (rewrite Hc2; by left).
  split_and!; auto; try (apply HH; set_solver). by left.
Qed.

Lemma list_insert_after_ok h s xs ys ref item :
  is_list h s (xs ++ ys) → single h item → item ≠ s → last (s :: xs) = Some ref →
  ∃ h', list_insert_after ref item h = Some h' ∧ is_list h' s (xs ++ item :: ys)
    ∧ frame (item :: s :: xs ++ ys) h h'.
Proof.
  intros L S Hne Hr. pose proof (single_not_in _ _ _ _ L S Hne) as Hi.
  destruct (neighbours _ _ _ _ L) as (ref' & nx & Hr' & Hx & Hn & Hp & Hh & Hhn & Hin & Hinx).
  rewrite Hr in Hr'. injection Hr' as <-.
  assert (item ≠ ref) by set_solver. assert (item ≠ nx) by set_solver.
  destruct S as [(Sn & Sp & _) _ Sh]. unfold list_insert_after.
  pose proof (fields_refl h) as F. assert (R : frame [] h h) by done.
  repeat mem_step. eexists. split; [done|]. split.
  - eapply splice; eauto. eapply fields_ext; [exact F0|..]; intros q; [apply at_ptr_comm; congruence..|done].
  - eapply frame_weaken; [exact R0|]. set_solver.
Qed.

Lemma list_insert_before_ok h s xs ys ref item :
  is_list h s (xs ++ ys) → single h item → item ≠ s → list.head (ys ++ [s]) = Some ref →
  ∃ h', list_insert_before ref item h = Some h' ∧ is_list h' s (xs ++ item :: ys)
    ∧ frame (item :: s :: xs ++ ys) h h'.
Proof.
  intros L S Hne Hx. pose proof (single_not_in _ _ _ _ L S Hne) as Hi.
  destruct (neighbours _ _ _ _ L) as (pv & ref' & Hr & Hx' & Hn & Hp & Hhp & Hh & Hin & Hinx).
  rewrite Hx in Hx'. injection Hx' as <-.
  assert (item ≠ ref) by set_solver. assert (item ≠ pv) by set_solver.
  destruct S as [(Sn & Sp & _) _ Sh]. unfold list_insert_before.
  pose proof (fields_refl h) as F. assert (R : frame [] h h) by done.
  repeat mem_step. eexists. split; [done|]. split.
  - eapply splice; eauto. eapply fields_ext; [exact F0|..]; intros q; [apply at_ptr_comm; congruence..|done].
  - eapply frame_weaken; [exact R0|]. set_solver.
Qed.

Lemma fd_list_unlink_ok h s xs ys item :
  is_list h s (xs ++ item :: ys) →
  ∃ h', fd_list_unlink item h = Some h' ∧ is_list h' s (xs ++ ys) ∧ single h' item
    ∧ frame (s :: xs ++ item :: ys) h h'.
Proof.
  intros L. destruct (neighbours _ _ _ _ L) as (pv & x & Hr & Hx & Hn & Hp & _ & Hh & Hin & _).
  injection Hx as <-.
  replace (xs ++ item :: ys) with ((xs ++ [item]) ++ ys) in L by (by rewrite <- app_assoc).
  destruct (neighbours _ _ _ _ L) as (x & nx & Hr' & Hx & Hn' & Hp' & _ & _ & _ & Hinx).
  change (last ((s :: xs) ++ [item]) = Some x) in Hr'. rewrite last_snoc in Hr'. injection Hr' as <-.
  rewrite <- app_assoc in L. cbn in L. pose proof (list_nodup _ _ _ L) as N.
  apply (NoDup_app (s :: xs)) in N. destruct N as (N1 & N2 & N3). apply NoDup_cons in N3.
  assert (item ∉ s :: xs) by (intros Hi; apply (N2 item Hi); by left).
  assert (item ≠ s) by set_solver. assert (pv ≠ item) by set_solver.
  assert (nx ≠ item) by set_solver.
  unfold fd_list_unlink. rewrite Hh. cbn [mbind option_bind]. rewrite decide_False by congruence.
  pose proof (fields_refl h) as F. assert (R : frame [] h h) by done.
  repeat mem_step. eexists. split; [done|]. split_and!.
  - eapply unsplice; eauto.
  - eapply unsplice; eauto.
  - eapply frame_weaken; [exact R0|]. set_solver.
Qed.

End Operations.

(** Where [fd_list_insert_ordered] puts an object among those of a list. *)
Definition goes_after (cmp : ptr → ptr → Z) (x : ptr) (l : list ptr) : Prop := Forall (λ y, (0 < cmp x y)%Z) l.

Section Ordered.
Context (cmp : ptr → ptr → Z) (ob : ptr → ptr).

(** The objects of the nodes [xs] are given by [ob]. *)
Definition objects (h : mem) (xs : list ptr) : Prop := ∀ x, x ∈ xs → get o x h = Some (ob x).

(** What it returns: the object with the same key, or the list with the node
    behind all smaller ones. *)
Definition ordered_result (h : mem) (s item : ptr) (xs : list ptr) (r : insert_result) : Prop :=
  match r with
  | Eexist d => ∃ pre y post, xs = pre ++ y :: post ∧ d = ob y
      ∧ goes_after cmp (ob item) (ob <$> pre) ∧ cmp (ob item) (ob y) = 0%Z
  | Inserted h' => ∃ pre post, xs = pre ++ post ∧ is_list h' s (pre ++ item :: post)
      ∧ frame (item :: s :: xs) h h' ∧ goes_after cmp (ob item) (ob <$> pre)
      ∧ (∀ y, list.head post = Some y → (cmp (ob item) (ob y) < 0)%Z)
  end.

Lemma insert_ordered_from_ok fuel : ∀ h s item pre post p,
  is_list h s (pre ++ post) → single h item → item ≠ s → objects h (item :: pre ++ post) →
  last (s :: pre) = Some p → goes_after cmp (ob item) (ob <$> pre) → length post ≤ fuel →
  ∃ r, insert_ordered_from cmp fuel p s item h = Some r ∧ ordered_result h s item (pre ++ post) r.
Proof.
  induction fuel as [|fuel IH]; intros h s item pre post p L S Hne Hob Hp Hpre Hf;
    destruct (neighbours _ _ _ _ L) as (p' & nx & Hp' & Hx & Hn & _);
    rewrite Hp in Hp'; injection Hp' as <-; cbn [insert_ordered_from]; rewrite Hn; cbn [mbind option_bind].
  all: assert (ends : post = [] → ∃ r, Inserted <$> list_insert_after p item h = Some r
        ∧ ordered_result h s item (pre ++ post) r)
    by (intros ->; destruct (list_insert_after_ok h s pre [] p item L S Hne Hp) as (h' & -> & L' & R');
        eexists; split; [done|]; exists pre, []; by rewrite app_nil_r in *).
  - destruct post; [|cbn in Hf; lia]. injection Hx as <-. rewrite decide_True by done. auto.
  - destruct post as [|y post]; injection Hx as <-; [rewrite decide_True by done; auto|].
    assert (y ≠ s).
    { pose proof (list_nodup _ _ _ L) as N. apply NoDup_cons in N. set_solver. }
    rewrite decide_False by done. rewrite (Hob item) by (by left). rewrite (Hob y) by set_solver.
    cbn [mbind option_bind]. case_decide as Hz; [|case_decide as Hlt].
    + eexists. split; [done|]. exists pre, y, post. auto.
    + destruct (list_insert_after_ok h s pre (y :: post) p item L S Hne Hp) as (h' & -> & L' & R').
      eexists. split; [done|]. exists pre, (y :: post). split_and!; auto. intros y' [= <-]. done.
    + replace (pre ++ y :: post) with ((pre ++ [y]) ++ post) in * by (by rewrite <- app_assoc).
      apply IH; auto.
      * change (s :: pre ++ [y]) with ((s :: pre) ++ [y]). apply last_snoc.
      * unfold goes_after. rewrite fmap_app, Forall_app. split; [done|]. repeat constructor. lia.
      * cbn in Hf. lia.
Qed.

End Ordered.

(** A list has fewer nodes than the memory. *)
Lemma list_fits h s xs : is_list h s xs → length xs ≤ walk_fuel h.
Proof.
  intros [_ N H]. apply NoDup_cons in N. destruct N as [_ N]. unfold walk_fuel.
  rewrite <- (length_map (λ x, x) xs), <- (size_dom (D := gset ptr)).
  rewrite <- (size_list_to_set (C := gset ptr)) by (by rewrite map_id).
  apply subseteq_size. intros x Hx. rewrite map_id in Hx. apply elem_of_list_to_set in Hx.
  apply elem_of_dom. destruct (h !! x) eqn:E; [eauto|]. specialize (H x ltac:(by right)).
  unfold get in H. by rewrite E in H.
Qed.

(** * Ordered lists *)

(** A comparison function that orders objects by a key. *)
Class KeyOrder (cmp : ptr → ptr → Z) : Prop := {
  cmp_flip x y : (cmp x y < 0)%Z ↔ (0 < cmp y x)%Z;
  cmp_trans x y z : (cmp x y < 0)%Z → (cmp y z < 0)%Z → (cmp x z < 0)%Z
}.

Definition ordered (cmp : ptr → ptr → Z) (l : list ptr) : Prop := StronglySorted (λ x y, (cmp x y < 0)%Z) l.

Section Sorted.
Context (cmp : ptr → ptr → Z) `{KeyOrder cmp}.

(** Behind an object only greater ones follow. *)
Lemma ordered_insert x pre post :
  ordered cmp (pre ++ post) → goes_after cmp x pre →
  (∀ y, list.head post = Some y → (cmp x y < 0)%Z) → ordered cmp (pre ++ x :: post).
Proof.
  unfold ordered, goes_after. intros Hs Hpre Hpost. induction pre as [|y pre IH]; cbn in *.
  - constructor; [done|]. destruct post as [|y post]; [constructor|].
    apply StronglySorted_inv in Hs. destruct Hs as [_ Hs]. specialize (Hpost y eq_refl).
    constructor; [done|]. eapply Forall_impl; [exact Hs|]. cbn. intros z Hz. by eapply cmp_trans.
  - apply StronglySorted_inv in Hs. destruct Hs as [Hs Hy]. apply Forall_cons in Hpre. destruct Hpre as [Hyx Hpre].
    constructor; [auto|]. apply Forall_app in Hy. destruct Hy as [Hy1 Hy2]. apply Forall_app. split; [done|].
    constructor; [by apply cmp_flip | done].
Qed.

(** No object of an ordered list has the key of one that was passed over. *)
Lemma goes_after_fresh x pre post :
  ordered cmp (pre ++ post) → goes_after cmp x pre →
  (∀ y, list.head post = Some y → (cmp x y < 0)%Z) → ∀ y, y ∈ pre ++ post → cmp x y ≠ 0%Z.
Proof.
  unfold ordered, goes_after. intros Hs Hpre Hpost y [Hy|Hy]%elem_of_app.
  - rewrite Forall_forall in Hpre. specialize (Hpre y Hy). lia.
  - destruct post as [|z post]; [by apply not_elem_of_nil in Hy|]. specialize (Hpost z eq_refl).
    apply elem_of_cons in Hy. destruct Hy as [->|Hy]; [lia|].
    apply StronglySorted_app_1_r in Hs. apply StronglySorted_inv in Hs. destruct Hs as [_ Hs].
    rewrite Forall_forall in Hs. specialize (Hs y Hy). pose proof (cmp_trans x z y Hpost Hs). lia.
Qed.

End Sorted.

(** [fd_list_insert_ordered] on an ordered list inserts the node at its
    place, unless the list has an object with the same key, which it then
    returns without a change; it always returns. *)
Theorem fd_list_insert_ordered_spec cmp `{!KeyOrder cmp} ob h s xs item :
  is_list h s xs → single h item → item ≠ s → objects ob h (item :: xs) → ordered cmp (ob <$> xs) →
  ∃ r, fd_list_insert_ordered s item cmp h = Some r
    ∧ match r with
      | Inserted h' => ∃ ys, is_list h' s ys ∧ ys ≡ₚ item :: xs ∧ ordered cmp (ob <$> ys)
          ∧ frame (item :: s :: xs) h h' ∧ (∀ x, x ∈ xs → cmp (ob item) (ob x) ≠ 0%Z)
      | Eexist d => ∃ x, x ∈ xs ∧ d = ob x ∧ cmp (ob item) (ob x) = 0%Z
      end.
Proof.
  intros L S Hne Hob Hs. unfold fd_list_insert_ordered.
  rewrite bool_decide_true by (apply (list_heads _ _ _ L); by left).
  rewrite (proj2 (CHECK_SINGLE_spec h item)) by done. cbn [andb].
  destruct (insert_ordered_from_ok cmp ob (walk_fuel h) h s item [] xs s) as (r & -> & Hr);
    [done..|constructor|by eapply list_fits|].
  exists r. split; [done|]. destruct r as [h'|d].
  - destruct Hr as (pre & post & E & L' & R & Hpre & Hpost). cbn in E. subst xs.
    rewrite fmap_app in Hs.
    assert (Hh : ∀ y, list.head (ob <$> post) = Some y → (cmp (ob item) y < 0)%Z).
    { destruct post as [|z post]; [done|]. intros y [= <-]. by apply Hpost. }
    exists (pre ++ item :: post). split_and!; auto.
    + by rewrite Permutation_middle.
    + rewrite fmap_app, fmap_cons. by apply ordered_insert.
    + intros x Hx. apply (goes_after_fresh cmp (ob item) (ob <$> pre) (ob <$> post)); auto.
      rewrite <- fmap_app. by apply list_elem_of_fmap_2.
  - destruct Hr as (pre & y & post & E & -> & _ & Hz). cbn in E. exists y. split_and!; auto. subst. set_solver.
Qed.

(** * Moving a list *)

(** The loop that sets the heads of the nodes [ys]. *)
Lemma set_heads_ok s ref : ∀ ys fuel h p,
  chain h (p :: ys ++ [s]) → s ∉ ys → length ys ≤ fuel →
  (∀ first, list.head (ys ++ [s]) = Some first →
   ∃ h', set_heads fuel first s ref h = Some h'
     ∧ fields h h' (λ q, get next q h) (λ q, get prev q h)
         (λ q, if decide (q ∈ ys) then Some ref else get head q h)
     ∧ frame ys h h').
Proof.
  induction ys as [|y ys IH]; intros fuel h p C Hs Hf first Hfirst; injection Hfirst as <-.
  - exists h. destruct fuel; cbn; rewrite decide_True by done; (split; [done|]; split; [|done]);
      (eapply fields_ext; [apply fields_refl|..]; intros q; [done..|]; by rewrite decide_False by set_solver).
  - destruct fuel as [|fuel]; [cbn in Hf; lia|]. cbn [set_heads].
    rewrite decide_False by set_solver.
    destruct C as (Hp & Hpv & C).
    assert (Hn : ∃ n, get next y h = Some n ∧ list.head (ys ++ [s]) = Some n).
    { destruct ys; destruct C as (Hn & _); eauto. }
    destruct Hn as (n & Hn & Hhd).
    pose proof (fields_refl h) as F. assert (R : frame [] h h) by done. mem_step. mem_step.
    destruct (IH fuel h0 y) with (first := n) as (h' & -> & (F1 & F2 & F3 & F4) & (R1 & R2)); auto.
    + apply (chain_ext h); [exact C|]. intros. destruct F0 as (E1 & E2 & _). by rewrite E1, E2.
    + set_solver.
    + cbn in Hf. lia.
    + exists h'. split; [done|]. destruct F0 as (E1 & E2 & E3 & E4), R0 as [R3 R4]. split.
      * split_and!; intros q; rewrite ?F1, ?F2, ?F3, ?F4, ?E1, ?E2, ?E4; auto. rewrite E3. unfold at_ptr.
        repeat case_decide; set_solver.
      * split; [|intros q; by rewrite R2, R4]. intros q Hq. rewrite R1, R3; set_solver.
Qed.

(** The rings of [ref] and [senti] joined: [lx] is the last node of the one,
    [y1] and [yl] are the first and the last of the other. *)
Definition joined (h h' : mem) (ref senti lx y1 yl : ptr) (ys : list ptr) : Prop :=
  fields h h' (at_ptr (at_ptr (at_ptr (λ q, get next q h) lx y1) yl ref) senti senti)
              (at_ptr (at_ptr (at_ptr (λ q, get prev q h) y1 lx) ref yl) senti senti)
              (λ q, if decide (q ∈ ys) then Some ref else get head q h).

Section Join.
Context (h h' : mem) (ref senti lx y1 yl : ptr) (xs ys : list ptr).
Context (L1 : is_list h ref xs) (L2 : is_list h senti ys) (Hne : ref ≠ senti).
Context (Hlx : last (ref :: xs) = Some lx) (Hy1 : list.head ys = Some y1) (Hyl : last ys = Some yl).
Context (F : joined h h' ref senti lx y1 yl ys).

Lemma rings_disjoint q : q ∈ ref :: xs → q ∉ senti :: ys.
Proof using L1 L2 Hne.
  intros H1 H2. pose proof (list_heads _ _ _ L1 q H1). pose proof (list_heads _ _ _ L2 q H2). congruence.
Qed.

Lemma ends_in : lx ∈ ref :: xs ∧ y1 ∈ ys ∧ yl ∈ ys ∧ ref ∉ xs ∧ senti ∉ ys ∧ NoDup xs ∧ NoDup ys.
Proof using L1 L2 Hlx Hy1 Hyl.
  clear F h' Hne.
  pose proof (list_nodup _ _ _ L1) as N1. pose proof (list_nodup _ _ _ L2) as N2.
  apply NoDup_cons in N1, N2. split_and!; try tauto.
  - by apply last_Some_elem_of.
  - destruct ys; [done|]. injection Hy1 as ->. by left.
  - by apply last_Some_elem_of.
Qed.

(** What is left of the two rings. *)
Lemma join_first : chain h' (ref :: xs).
Proof.
  destruct F as (Fn & Fp & _). assert (D := rings_disjoint). destruct ends_in as (Hlxin & Hy1in & Hylin & _).
  pose proof (list_chain _ _ _ L1) as C1. pose proof Hlx as Hc. apply last_Some in Hc. destruct Hc as [c1 Hc1].
  apply (chain_keep h h' (ref :: xs) ref lx); auto; [| exact (list_nodup _ _ _ L1) | |].
  - change (chain h ((ref :: xs) ++ [ref])) in C1. rewrite Hc1, <- app_assoc in C1. rewrite Hc1.
    apply chain_app in C1. tauto.
  - intros q Hq Hql. rewrite Fn. specialize (D q Hq). apply not_elem_of_cons in D.
    assert (q ≠ yl) by (intros ->; tauto). assert (q ≠ senti) by tauto. by at_simpl.
  - intros q Hq Hqr. rewrite Fp. specialize (D q Hq). apply not_elem_of_cons in D.
    assert (q ≠ y1) by (intros ->; tauto). assert (q ≠ senti) by tauto. by at_simpl.
Qed.

Lemma join_second : chain h' ys.
Proof.
  destruct F as (Fn & Fp & _). assert (D := rings_disjoint).
  destruct ends_in as (Hlxin & Hy1in & Hylin & _ & Ns & _ & N2).
  pose proof (list_chain _ _ _ L2) as C2. pose proof Hyl as Hc. apply last_Some in Hc. destruct Hc as [c3 Hc3].
  apply (chain_keep h h' ys y1 yl); auto.
  - rewrite Hc3, <- app_assoc in C2. rewrite Hc3. destruct c3 as [|y c3]; [done|].
    apply (chain_app h [senti] y) in C2. destruct C2 as [_ C2].
    apply (chain_app h (y :: c3) yl) in C2. apply C2.
  - intros q Hq Hql. rewrite Fn. assert (q ≠ lx) by (intros ->; apply (D lx Hlxin); by right).
    assert (q ≠ senti) by (by intros ->). by at_simpl.
  - intros q Hq Hqr. rewrite Fp. assert (q ≠ ref) by (intros ->; apply (D ref); [by left | by right]).
    assert (q ≠ senti) by (by intros ->). by at_simpl.
Qed.

Lemma join : is_list h' ref (xs ++ ys) ∧ single h' senti.
Proof.
  pose proof join_first as A. pose proof join_second as B. assert (D := rings_disjoint).
  destruct ends_in as (Hlxin & Hy1in & Hylin & Nr & Ns & N1 & N2). destruct F as (Fn & Fp & Fh & _).
  pose proof (D lx Hlxin) as Dl. pose proof (D ref ltac:(by left)) as Dr. apply not_elem_of_cons in Dl, Dr.
  assert (lx ≠ yl ∧ lx ≠ senti ∧ y1 ≠ ref ∧ y1 ≠ senti ∧ yl ≠ senti) as (? & ? & ? & ? & ?)
    by (split_and!; [intros ->; tauto | tauto | intros ->; tauto | intros ->; tauto | intros ->; tauto]).
  split; split.
  - rewrite <- app_assoc. change (chain h' ((ref :: xs) ++ ys ++ [ref])).
    pose proof Hlx as Hc. apply last_Some in Hc. destruct Hc as [c1 Hc1]. rewrite Hc1 in *.
    rewrite <- app_assoc. apply chain_app. split; [exact A|].
    assert (C : chain h' (ys ++ [ref])).
    { pose proof Hyl as Hc. apply last_Some in Hc. destruct Hc as [c3 Hc3]. rewrite Hc3, <- app_assoc in *.
      apply chain_app. split; [exact B|]. split_and!; [rewrite Fn; by at_simpl | rewrite Fp; by at_simpl | done]. }
    destruct ys as [|y ys']; [done|]. injection Hy1 as ->.
    split_and!; [rewrite Fn; by at_simpl | rewrite Fp; by at_simpl | exact C].
  - change (NoDup ((ref :: xs) ++ ys)). apply NoDup_app. split_and!; [by apply NoDup_cons | | done].
    intros q Hq. specialize (D q Hq). apply not_elem_of_cons in D. tauto.
  - intros q Hq. rewrite Fh. case_decide; [done|]. apply (list_heads _ _ _ L1).
    change (q ∈ (ref :: xs) ++ ys) in Hq. apply elem_of_app in Hq. tauto.
  - split_and!; [rewrite Fn; by at_simpl | rewrite Fp; by at_simpl | done].
  - apply NoDup_singleton.
  - intros q ->%list_elem_of_singleton. rewrite Fh. rewrite decide_False by done.
    apply (list_heads _ _ _ L2). by left.
Qed.

End Join.

Lemma fd_list_move_end_ok h ref senti xs ys :
  is_list h ref xs → is_list h senti ys → ref ≠ senti →
  ∃ h', fd_list_move_end ref senti h = Some h' ∧ is_list h' ref (xs ++ ys) ∧ single h' senti
    ∧ frame (ref :: xs ++ senti :: ys) h h'.
Proof.
  intros L1 L2 Hne. unfold fd_list_move_end.
  rewrite !bool_decide_true by (eapply list_heads; [eassumption | by left]). cbn [andb].
  rewrite <- (app_nil_r xs) in L1.
  destruct (neighbours _ _ _ _ L1) as (lx & r & Hlx & Er & Hlxn & Hlxp & _ & _ & Hlxin & _).
  injection Er as <-. rewrite app_nil_r in L1.
  destruct (neighbours h senti [] ys L2) as (s' & n & Es & Hhd & Hn & Hp & _ & _ & _ & _).
  injection Es as <-.
  rewrite Hn. cbn [mbind option_bind]. destruct ys as [|y1 ys'] eqn:Hys.
  { injection Hhd as <-. rewrite decide_True by done. exists h. rewrite app_nil_r. done. }
  injection Hhd as <-. rewrite <- Hys in *.
  assert (Hy1 : list.head ys = Some y1) by (by rewrite Hys).
  destruct (last ys) as [yl|] eqn:Hyl; [|by apply last_None in Hyl; subst].
  assert (get prev senti h = Some yl ∧ get next yl h = Some senti) as [Hylp Hyln].
  { rewrite <- (app_nil_r ys) in L2.
    destruct (neighbours _ _ _ _ L2) as (yl' & s' & Hyl' & Es & ? & ? & _). injection Es as <-.
    assert (yl' = yl) as ->; [|done]. rewrite last_cons, Hyl in Hyl'. congruence. }
  destruct (ends_in h ref senti lx y1 yl xs ys L1 L2 Hlx Hy1 Hyl) as (_ & Hy1in & Hylin & _ & Ns & _ & _).
  assert (D := rings_disjoint h ref senti xs ys L1 L2 Hne).
  pose proof (D lx Hlxin) as Dl. pose proof (D ref ltac:(by left)) as Dr. apply not_elem_of_cons in Dl, Dr.
  assert (lx ≠ yl ∧ lx ≠ senti ∧ y1 ≠ ref ∧ y1 ≠ senti ∧ yl ≠ senti) as (? & ? & ? & ? & ?)
    by (split_and!; [intros ->; tauto | tauto | intros ->; tauto | intros ->; tauto | intros ->; tauto]).
  rewrite decide_False by done.
  destruct (set_heads_ok senti ref ys (walk_fuel h) h senti (list_chain _ _ _ L2) Ns (list_fits _ _ _ L2) y1)
    as (h1 & -> & F & R); [by rewrite Hys|]. cbn [mbind option_bind].
  repeat mem_step. eexists. split; [done|].
  destruct (join h h6 ref senti lx y1 yl xs ys L1 L2 Hne Hlx Hy1 Hyl F) as [J1 J2].
  split_and!; [exact J1 | exact J2 |]. eapply frame_weaken; [exact R|].
  intros q. rewrite !elem_of_cons, !elem_of_app, !elem_of_cons. intuition (subst; auto).
  apply elem_of_cons in Hlxin. tauto.
Qed.

Lemma fd_list_init_ok h list obj :
  is_Some (h !! list) → ∃ h', fd_list_init list obj h = Some h' ∧ single h' list ∧ get o list h' = Some obj
    ∧ ∀ p, p ≠ list → h' !! p = h !! p.
Proof.
  intros [n Hn]. unfold fd_list_init, store. rewrite Hn. cbn. eexists. split; [done|].
  split_and!; [|unfold get; by rewrite lookup_insert_eq | intros; by rewrite lookup_insert_ne].
  apply CHECK_SINGLE_spec. unfold CHECK_SINGLE, get. rewrite lookup_insert_eq. by apply bool_decide_true.
Qed.

(** C18: The operations of lists.c implement those of lists, on the ring of any
    sentinel: insertion behind and before a node, removal of a node, and the
    move of all nodes of one list to the end of another.  Each returns, keeps
    the nodes of all other lists and leaves every object in its node. *)
Theorem fd_list_refines h s xs ys :
  is_list h s (xs ++ ys) →
  (∀ ref item, last (s :: xs) = Some ref → single h item → item ≠ s →
     ∃ h', fd_list_insert_after ref item h = Some h' ∧ is_list h' s (xs ++ item :: ys)
       ∧ frame (item :: s :: xs ++ ys) h h')
  ∧ (∀ ref item, list.head (ys ++ [s]) = Some ref → single h item → item ≠ s →
     ∃ h', fd_list_insert_before ref item h = Some h' ∧ is_list h' s (xs ++ item :: ys)
       ∧ frame (item :: s :: xs ++ ys) h h')
  ∧ (∀ item zs, ys = item :: zs →
     ∃ h', fd_list_unlink item h = Some h' ∧ is_list h' s (xs ++ zs) ∧ single h' item
       ∧ frame (s :: xs ++ ys) h h')
  ∧ (∀ senti zs, is_list h senti zs → s ≠ senti →
     ∃ h', fd_list_move_end s senti h = Some h' ∧ is_list h' s ((xs ++ ys) ++ zs) ∧ single h' senti
       ∧ frame (s :: (xs ++ ys) ++ senti :: zs) h h').
Proof.
  intros L. destruct (neighbours _ _ _ _ L) as (r & n & Hr & Hn & _ & _ & Hhr & Hhn & _).
  split_and!.
  - intros ref item Href S Hne. unfold fd_list_insert_after.
    rewrite (proj2 (CHECK_SINGLE_spec h item)), bool_decide_false by (done || congruence).
    by apply list_insert_after_ok.
  - intros ref item Href S Hne. unfold fd_list_insert_before.
    rewrite (proj2 (CHECK_SINGLE_spec h item)), bool_decide_false by (done || congruence).
    by apply list_insert_before_ok.
  - intros item zs ->. by apply fd_list_unlink_ok.
  - intros senti zs L' Hne. by apply fd_list_move_end_ok.
Qed.

(** * A sample *)

(** The sentinel 1 with the nodes 2 and 3, whose objects are 20 and 30, the
    free node 4 with the object 25, and the empty list of the sentinel 5. *)
Definition sample_mem : mem :=
  {[ 1%positive := FdNode 2 3 1 1; 2%positive := FdNode 3 1 1 20; 3%positive := FdNode 1 2 1 30;
     4%positive := FdNode 4 4 4 25; 5%positive := FdNode 5 5 5 5 ]}.

Definition by_number (x y : ptr) : Z := (Zpos x - Zpos y)%Z.

#[export] Instance by_number_order : KeyOrder by_number.
Proof. unfold by_number. split; intros; lia. Qed.

Definition sample_ob (p : ptr) : ptr :=
  match sample_mem !! p with Some n => o n | None => 1%positive end.

Lemma sample_list : is_list sample_mem 1 [2; 3]%positive.
Proof.
  split; [by repeat split | by apply (bool_decide_unpack _) |].
  intros x Hx. repeat (apply elem_of_cons in Hx; destruct Hx as [->|Hx]; [reflexivity|]). by apply not_elem_of_nil in Hx.
Qed.

Lemma sample_single : single sample_mem 4.
Proof. apply CHECK_SINGLE_spec. reflexivity. Qed.

Lemma fd_list_refines_witness :
  ∃ h', fd_list_unlink 2 sample_mem = Some h' ∧ is_list h' 1 [3]%positive ∧ single h' 2.
Proof.
  destruct (fd_list_refines sample_mem 1 [] [2; 3]%positive sample_list) as (_ & _ & H & _).
  destruct (H 2%positive [3]%positive eq_refl) as (h' & H1 & H2 & H3 & _). eauto.
Defined.

Lemma fd_list_insert_ordered_spec_witness :
  ∃ r, fd_list_insert_ordered 1 4 by_number sample_mem = Some r
    ∧ match r with
      | Inserted h' => ∃ ys, is_list h' 1 ys ∧ ordered by_number (sample_ob <$> ys)
      | Eexist _ => False
      end.
Proof.
  destruct (fd_list_insert_ordered_spec by_number sample_ob sample_mem 1 [2; 3]%positive 4) as (r & Hr & H).
  - exact sample_list.
  - exact sample_single.
  - done.
  - intros x Hx. repeat (apply elem_of_cons in Hx; destruct Hx as [->|Hx]; [reflexivity|]). by apply not_elem_of_nil in Hx.
  - repeat constructor.
  - exists r. split; [exact Hr|]. destruct r as [h'|d].
    + destruct H as (ys & L & _ & O & _). eauto.
    + vm_compute in Hr. discriminate Hr.
Defined.
