(* ===== verification/FdMessages.v ===== *)
(** Diameter messages on the wire (libfdproto/messages.c): the tree of a message,
    its lengths ([fd_msg_update_length]), the buffer it is written to
    ([fd_msg_bufferize]) and the tree that is read from a buffer
    ([fd_msg_parse_buffer]).

    The chains of AVPs are lists (the rings of FdList).  A buffer is a list of
    bytes of the size that was allocated; a write or a read outside of it is
    [Crash], as is a failed ASSERT.  Memory allocation succeeds. *)

From stdpp Require Import base list strings.
From Stdlib Require Import ZArith Lia.
From S2P Require Import Prelude IeFormat.
Open Scope Z_scope.

(** * Results *)

Inductive errno := ENOSPC | EFAULT | EINVAL | EBADMSG | ENOTSUP | ENOENT | EEXIST | ECHECK (ret : Z).

(** [Err e code]: the error and what [fd_pei.pei_errcode] names. *)
Inductive result (A : Type) :=
| Ok (a : A)
| Err (e : errno) (pei_errcode : string)
| Crash
| NoFuel.
Arguments Ok {A}.
Arguments Err {A}.
Arguments Crash {A}.
Arguments NoFuel {A}.

#[export] Instance result_mret : MRet result := @Ok.
#[export] Instance result_mbind : MBind result := λ A B f m,
  match m with
  | Ok a => f a
  | Err e c => Err e c
  | Crash => Crash
  | NoFuel => NoFuel
  end.

(** * Data *)

Inductive dict_avp_basetype :=
| AVP_TYPE_GROUPED | AVP_TYPE_OCTETSTRING | AVP_TYPE_INTEGER32 | AVP_TYPE_INTEGER64
| AVP_TYPE_UNSIGNED32 | AVP_TYPE_UNSIGNED64 | AVP_TYPE_FLOAT32 | AVP_TYPE_FLOAT64.

#[export] Instance basetype_eq_dec : EqDecision dict_avp_basetype.
Proof. solve_decision. Defined.

(** [avp_value_sizes]; 0: the size is dynamic. *)
Definition avp_value_sizes (t : dict_avp_basetype) : nat :=
  match t with
  | AVP_TYPE_GROUPED | AVP_TYPE_OCTETSTRING => 0
  | AVP_TYPE_INTEGER32 | AVP_TYPE_UNSIGNED32 | AVP_TYPE_FLOAT32 => 4
  | AVP_TYPE_INTEGER64 | AVP_TYPE_UNSIGNED64 | AVP_TYPE_FLOAT64 => 8
  end.

(** [union avp_value]: an octet string, or the bits of a number, of which the
    32-bit members are the lower half. *)
Inductive avp_value :=
| OctetString (os : list Z)
| Number (bits : Z).

(** [struct dict_avp_data], with the check of the derived type of the AVP, which
    returns 0 for a valid value. *)
Record dict_avp_data := {
  dict_avp_code : Z;
  dict_avp_vendor : Z;
  dict_basetype : dict_avp_basetype;
  dict_type_check : option (avp_value → Z)
}.

Definition AVP_FLAG_VENDOR : Z := 0x80.
Definition AVP_FLAG_MANDATORY : Z := 0x40.

Definition has_flag (flags flag : Z) : bool := negb (Z.land flags flag =? 0).

(** [struct avp] without its chain: the public header and value, the model, the
    code and vendor no model was found for, and the two places where the data
    of an AVP without value can be. [avp_source] are the bytes of the message
    from the place it points to. *)
Record avp_data := {
  avp_model : option dict_avp_data;
  mnf_code : Z;
  mnf_vendor : Z;
  avp_code : Z;
  avp_flags : Z;
  avp_len : Z;
  avp_vendor : Z;
  avp_val : option avp_value;
  avp_source : option (list Z);
  avp_rawdata : option (list Z)
}.

Inductive avp := Avp (d : avp_data) (children : list avp).

Definition data_of (a : avp) : avp_data := let 'Avp d _ := a in d.
Definition children_of (a : avp) : list avp := let 'Avp _ c := a in c.

(** [struct msg_hdr]. *)
Record msg_hdr := {
  msg_version : Z;
  msg_length : Z;
  msg_flags : Z;
  msg_code : Z;
  msg_appl : Z;
  msg_hbhid : Z;
  msg_eteid : Z
}.

Record dict_cmd_data := {
  cmd_code : Z;
  cmd_flag_mask : Z;
  cmd_flag_val : Z
}.

Record msg := {
  msg_public : msg_hdr;
  msg_model : option dict_cmd_data;
  msg_mnf_code : Z;
  msg_mnf_flags : Z;
  msg_children : list avp
}.

(** * Sizes *)

Definition GETMSGHDRSZ : nat := 20.
Definition AVPHDRSZ_NOVEND : nat := 8.
Definition AVPHDRSZ_VENDOR : nat := 12.

Definition GETAVPHDRSZ (flags : Z) : nat :=
  if has_flag flags AVP_FLAG_VENDOR then AVPHDRSZ_VENDOR else AVPHDRSZ_NOVEND.

Definition PAD4 (x : Z) : Z := x + Z.land (4 - x) 3.

Definition set_len (n : Z) (d : avp_data) : avp_data :=
  {| avp_model := avp_model d; mnf_code := mnf_code d; mnf_vendor := mnf_vendor d;
     avp_code := avp_code d; avp_flags := avp_flags d; avp_len := n; avp_vendor := avp_vendor d;
     avp_val := avp_val d; avp_source := avp_source d; avp_rawdata := avp_rawdata d |}.

(** The octets of a value of a basic type; [None]: the member the code reads is
    not the one that was written. *)
Definition value_len (t : dict_avp_basetype) (v : avp_value) : option Z :=
  match t, v with
  | AVP_TYPE_GROUPED, _ => None
  | AVP_TYPE_OCTETSTRING, OctetString os => Some (Z.of_nat (length os))
  | AVP_TYPE_OCTETSTRING, Number _ => None
  | _, _ => Some (Z.of_nat (avp_value_sizes t))
  end.

(** [fd_msg_update_length] on an AVP, and the size of a chain. *)
Fixpoint update_length_avp (a : avp) : result avp :=
  let 'Avp d children := a in
  match avp_model d with
  | None => mret a
  | Some model =>
      let hdrsz := Z.of_nat (GETAVPHDRSZ (avp_flags d)) in
      if decide (dict_basetype model = AVP_TYPE_GROUPED) then
        '(sz, children) ←
          (fix go (sz : Z) (l : list avp) : result (Z * list avp) :=
             match l with
             | [] => mret (sz, [])
             | a :: l =>
                 a ← update_length_avp a;
                 '(sz, l) ← go (sz + u32 (PAD4 (avp_len (data_of a)))) l;
                 mret (sz, a :: l)
             end) hdrsz children;
        mret (Avp (set_len (u32 sz) d) children)
      else
        match children with
        | _ :: _ => Crash
        | [] =>
            match avp_val d with
            | None => Err EINVAL ""
            | Some v =>
                match value_len (dict_basetype model) v with
                | Some n => mret (Avp (set_len (u32 (hdrsz + n)) d) [])
                | None => Crash
                end
            end
        end
  end.

Fixpoint update_length_chain (sz : Z) (l : list avp) : result (Z * list avp) :=
  match l with
  | [] => mret (sz, [])
  | a :: l =>
      a ← update_length_avp a;
      '(sz, l) ← update_length_chain (sz + u32 (PAD4 (avp_len (data_of a)))) l;
      mret (sz, a :: l)
  end.

Definition set_msg_length (n : Z) (h : msg_hdr) : msg_hdr :=
  {| msg_version := msg_version h; msg_length := n; msg_flags := msg_flags h; msg_code := msg_code h;
     msg_appl := msg_appl h; msg_hbhid := msg_hbhid h; msg_eteid := msg_eteid h |}.

Definition fd_msg_update_length (m : msg) : result msg :=
  '(sz, children) ← update_length_chain (Z.of_nat GETMSGHDRSZ) (msg_children m);
  mret {| msg_public := set_msg_length (u32 sz) (msg_public m); msg_model := msg_model m;
          msg_mnf_code := msg_mnf_code m; msg_mnf_flags := msg_mnf_flags m; msg_children := children |}.

(** * Writing *)

(** The big-endian octets of a number. *)
Definition be_bytes (n : nat) (v : Z) : list Z := rev (le_bytes n v).

Definition put (off : nat) (bs buf : list Z) : result (list Z) :=
  if decide (off + length bs ≤ length buf)%nat
  then mret (take off buf ++ bs ++ drop (off + length bs) buf) else Crash.

Definition read (n : nat) (src : list Z) : result (list Z) :=
  if decide (n ≤ length src)%nat then mret (take n src) else Crash.

(** A 32-bit field whose first octet is written again: the version before the
    length of a message, the flags before a code or the length of an AVP. *)
Definition put_32_under (off : nat) (v first : Z) (buf : list Z) : result (list Z) :=
  buf ← put off (be_bytes 4 v) buf; put off [first] buf.

(** The buffer and [*offset]. *)
Abbreviation wstate := (list Z * nat)%type.

(** [buflen - *offset < n], in [size_t]. *)
Definition no_space (buflen offset n : Z) : bool := u64 (buflen - offset) <? n.

Definition bufferize_msg (buflen : Z) (h : msg_hdr) (st : wstate) : result wstate :=
  let '(buf, off) := st in
  if no_space buflen (Z.of_nat off) (Z.of_nat GETMSGHDRSZ) then Err ENOSPC ""
  else if negb (Z.land (Z.of_nat off) 3 =? 0) then Err EFAULT ""
  else
    buf ← put_32_under off (msg_length h) (msg_version h) buf;
    buf ← put_32_under (off + 4) (msg_code h) (msg_flags h) buf;
    buf ← put (off + 8) (be_bytes 4 (msg_appl h)) buf;
    buf ← put (off + 12) (be_bytes 4 (msg_hbhid h)) buf;
    buf ← put (off + 16) (be_bytes 4 (msg_eteid h)) buf;
    mret (buf, (off + 20)%nat).

(** The value of an AVP whose model has a basic type. *)
Definition bufferize_value (t : dict_avp_basetype) (v : avp_value) (st : wstate) : result wstate :=
  let '(buf, off) := st in
  match t, v with
  | AVP_TYPE_GROUPED, _ => Crash
  | AVP_TYPE_OCTETSTRING, OctetString os =>
      buf ← put off os buf;
      mret (buf, (off + Z.to_nat (PAD4 (Z.of_nat (length os))))%nat)
  | AVP_TYPE_OCTETSTRING, Number _ => Crash
  | _, OctetString _ => Crash
  | _, Number x =>
      buf ← put off (be_bytes (avp_value_sizes t) x) buf;
      mret (buf, (off + avp_value_sizes t)%nat)
  end.

(** The data of an AVP without a model. *)
Definition bufferize_raw (d : avp_data) (st : wstate) : result wstate :=
  let '(buf, off) := st in
  match avp_rawdata d, avp_source d with
  | Some raw, _ =>
      buf ← put off raw buf;
      mret (buf, (off + Z.to_nat (PAD4 (Z.of_nat (length raw))))%nat)
  | None, Some source =>
      let datalen := u32 (avp_len d - Z.of_nat (GETAVPHDRSZ (avp_flags d))) in
      data ← read (Z.to_nat datalen) source;
      buf ← put off data buf;
      mret (buf, (off + Z.to_nat (PAD4 datalen))%nat)
  | None, None => mret st
  end.

Definition bufferize_avp_hdr (buflen : Z) (d : avp_data) (st : wstate) : result wstate :=
  let '(buf, off) := st in
  if no_space buflen (Z.of_nat off) (avp_len d) then Err ENOSPC ""
  else
    buf ← put off (be_bytes 4 (avp_code d)) buf;
    buf ← put_32_under (off + 4) (avp_len d) (avp_flags d) buf;
    if has_flag (avp_flags d) AVP_FLAG_VENDOR then
      buf ← put (off + 8) (be_bytes 4 (avp_vendor d)) buf;
      mret (buf, (off + 12)%nat)
    else mret (buf, (off + 8)%nat).

Fixpoint bufferize_avp (buflen : Z) (a : avp) (st : wstate) : result wstate :=
  let 'Avp d children := a in
  st ← bufferize_avp_hdr buflen d st;
  match avp_model d with
  | None => bufferize_raw d st
  | Some model =>
      if decide (dict_basetype model = AVP_TYPE_GROUPED) then
        (fix go (l : list avp) (st : wstate) : result wstate :=
           match l with
           | [] => mret st
           | a :: l => st ← bufferize_avp buflen a st; go l st
           end) children st
      else
        match avp_val d with
        | None => Err EINVAL ""
        | Some v => bufferize_value (dict_basetype model) v st
        end
  end.

Fixpoint bufferize_chain (buflen : Z) (l : list avp) (st : wstate) : result wstate :=
  match l with
  | [] => mret st
  | a :: l => st ← bufferize_avp buflen a st; bufferize_chain buflen l st
  end.

(** [fd_msg_bufferize]: the buffer, and the message with its lengths. *)
Definition fd_msg_bufferize (m : msg) : result (list Z * msg) :=
  m ← fd_msg_update_length m;
  let len := msg_length (msg_public m) in
  let buf := replicate (Z.to_nat len) 0 in
  st ← bufferize_msg len (msg_public m) (buf, 0%nat);
  '(buf, off) ← bufferize_chain len (msg_children m) st;
  if decide (Z.of_nat off = len) then mret (buf, m) else Crash.

(** * Reading *)

(** The number at an offset, big-endian; [None]: past the end. *)
Definition get_be (n off : nat) (buf : list Z) : result Z :=
  bs ← read n (drop off buf); mret (le_val (rev bs)).

Definition DIAMETER_VERSION : Z := 1.

(** A new AVP ([init_avp]) with the header read from a buffer. *)
Definition received (code flags len vendor : Z) (source : list Z) : avp :=
  Avp {| avp_model := None; mnf_code := 0; mnf_vendor := 0; avp_code := code; avp_flags := flags;
         avp_len := len; avp_vendor := vendor; avp_val := None; avp_source := Some source;
         avp_rawdata := None |} [].

(** One pass of the loop of [parsebuf_list] at [offset]: the AVP, and the next
    offset. *)
Definition parse_one (buf : list Z) (buflen offset : nat) : result (avp * nat) :=
  if decide (buflen - offset < AVPHDRSZ_NOVEND)%nat then Err EBADMSG ""
  else
    code ← get_be 4 offset buf;
    flags ← get_be 1 (offset + 4) buf;
    len ← get_be 3 (offset + 5) buf;
    let offset := (offset + 8)%nat in
    let hdrsz := Z.of_nat (GETAVPHDRSZ flags) in
    let with_vendor := has_flag flags AVP_FLAG_VENDOR in
    if with_vendor && bool_decide (buflen - offset < 4)%nat then Err EBADMSG ""
    else
      vendor ← (if with_vendor then get_be 4 offset buf else mret 0);
      let offset := if with_vendor then (offset + 4)%nat else offset in
      if len <? hdrsz then Err EBADMSG ""
      else if (hdrsz <? len) && (Z.of_nat (buflen - offset) <? len - hdrsz) then Err EBADMSG ""
      else mret (received code flags len vendor (drop offset buf),
                 (offset + Z.to_nat (PAD4 (len - hdrsz)))%nat).

(** [parsebuf_list]: one unit of fuel per AVP; the caller passes the bytes from
    [buf] on, of which [buflen] belong to the list. *)
Fixpoint parsebuf_list (fuel : nat) (buf : list Z) (buflen offset : nat) : result (list avp) :=
  if decide (offset < buflen)%nat then
    match fuel with
    | O => NoFuel
    | S fuel =>
        '(a, offset) ← parse_one buf buflen offset;
        l ← parsebuf_list fuel buf buflen offset;
        mret (a :: l)
    end
  else mret [].

Definition fd_msg_parse_buffer (buf : list Z) : result msg :=
  let buflen := length buf in
  if decide (buflen < GETMSGHDRSZ)%nat then Err EINVAL ""
  else
    version ← get_be 1 0 buf;
    if negb (version =? DIAMETER_VERSION) then Err EBADMSG ""
    else
      w ← get_be 4 0 buf;
      let msglen := Z.land w 0x00ffffff in
      if Z.of_nat buflen <? msglen then Err EBADMSG ""
      else if msglen <? Z.of_nat GETMSGHDRSZ then Err EBADMSG ""
      else
        flags ← get_be 1 4 buf;
        w ← get_be 4 4 buf;
        appl ← get_be 4 8 buf;
        hbhid ← get_be 4 12 buf;
        eteid ← get_be 4 16 buf;
        children ← parsebuf_list (buflen - GETMSGHDRSZ) (drop GETMSGHDRSZ buf) (buflen - GETMSGHDRSZ) 0;
        mret {| msg_public := {| msg_version := version; msg_length := msglen; msg_flags := flags;
                                 msg_code := Z.land w 0x00ffffff; msg_appl := appl; msg_hbhid := hbhid;
                                 msg_eteid := eteid |};
                msg_model := None; msg_mnf_code := 0; msg_mnf_flags := 0; msg_children := children |}.
