(* ===== verification/FdWire.v ===== *)
(** The wire format of Diameter and its refinement by FdMessages.

    A [wire] AVP is a header with octets, or with AVPs for a grouped one;
    [encode] is its encoding in the format of RFC 6733, padded to 32 bits.  A
    tree of the library denotes a [wire] tree ([wire_of]); the theorems say
    that [fd_msg_bufferize] writes the encoding of what the tree denotes and
    that [fd_msg_parse_buffer] reads the list of AVPs a buffer encodes. *)

From stdpp Require Import base list strings.
From Stdlib Require Import ZArith Lia.
From S2P Require Import Prelude IeFormat FdMessages.
Open Scope Z_scope.

(** * The format *)

Record whdr := { w_code : Z; w_flags : Z; w_vendor : Z }.

Inductive wire :=
| Leaf (h : whdr) (data : list Z)
| Group (h : whdr) (l : list wire).

Definition hdr_of (w : wire) : whdr := match w with Leaf h _ | Group h _ => h end.

Definition padding (n : nat) : nat := Z.to_nat (Z.land (4 - Z.of_nat n) 3).

Definition encode_hdr (h : whdr) (len : nat) : list Z :=
  be_bytes 4 (w_code h) ++ w_flags h :: be_bytes 3 (Z.of_nat (GETAVPHDRSZ (w_flags h) + len))
  ++ (if has_flag (w_flags h) AVP_FLAG_VENDOR then be_bytes 4 (w_vendor h) else []).

Definition frame_avp (h : whdr) (data : list Z) : list Z :=
  encode_hdr h (length data) ++ data ++ replicate (padding (length data)) 0.

Fixpoint encode (w : wire) : list Z :=
  match w with
  | Leaf h data => frame_avp h data
  | Group h l => frame_avp h (concat (map encode l))
  end.

Definition wdata (w : wire) : list Z :=
  match w with Leaf _ data => data | Group _ l => concat (map encode l) end.

Lemma encode_frame w : encode w = frame_avp (hdr_of w) (wdata w).
Proof. by destruct w. Qed.

(** The length of the AVP, without its padding. *)
Definition wlen (w : wire) : nat := (GETAVPHDRSZ (w_flags (hdr_of w)) + length (wdata w))%nat.

(** * What a tree denotes *)

(** The octets of a value. *)
Definition octets (t : dict_avp_basetype) (v : avp_value) : option (list Z) :=
  match t, v with
  | AVP_TYPE_GROUPED, _ => None
  | AVP_TYPE_OCTETSTRING, OctetString os => Some os
  | AVP_TYPE_OCTETSTRING, Number _ => None
  | _, OctetString _ => None
  | _, Number x => Some (be_bytes (avp_value_sizes t) x)
  end.

Definition whdr_of (d : avp_data) : whdr :=
  {| w_code := avp_code d; w_flags := avp_flags d; w_vendor := avp_vendor d |}.

(** The data of an AVP without a model, when it agrees with its length. *)
Definition raw_data (d : avp_data) : option (list Z) :=
  let n := avp_len d - Z.of_nat (GETAVPHDRSZ (avp_flags d)) in
  match avp_rawdata d, avp_source d with
  | Some raw, _ => if decide (Z.of_nat (length raw) = n) then Some raw else None
  | None, Some source =>
      if decide (0 ≤ n ≤ Z.of_nat (length source)) then Some (take (Z.to_nat n) source) else None
  | None, None => if decide (n = 0) then Some [] else None
  end.

Fixpoint wire_of (a : avp) : option wire :=
  let 'Avp d children := a in
  match avp_model d with
  | None => Leaf (whdr_of d) <$> raw_data d
  | Some model =>
      if decide (dict_basetype model = AVP_TYPE_GROUPED) then
        Group (whdr_of d) <$>
          (fix go (l : list avp) : option (list wire) :=
             match l with
             | [] => Some []
             | a :: l => w ← wire_of a; ws ← go l; Some (w :: ws)
             end) children
      else
        match children, avp_val d with
        | [], Some v => Leaf (whdr_of d) <$> octets (dict_basetype model) v
        | _, _ => None
        end
  end.

Fixpoint wires_of (l : list avp) : option (list wire) :=
  match l with
  | [] => Some []
  | a :: l => w ← wire_of a; ws ← wires_of l; Some (w :: ws)
  end.

(** Induction over the AVPs of a tree. *)
Lemma avp_tree_ind (P : avp → Prop) :
  (∀ d children, Forall P children → P (Avp d children)) → ∀ a, P a.
Proof.
  intros H. fix IH 1. intros [d children]. apply H. induction children; constructor; auto.
Qed.

Lemma wire_of_unfold d children :
  wire_of (Avp d children) =
  match avp_model d with
  | None => Leaf (whdr_of d) <$> raw_data d
  | Some model =>
      if decide (dict_basetype model = AVP_TYPE_GROUPED) then Group (whdr_of d) <$> wires_of children
      else match children, avp_val d with
           | [], Some v => Leaf (whdr_of d) <$> octets (dict_basetype model) v
           | _, _ => None
           end
  end.
Proof.
  cbn. destruct (avp_model d); [|done]. case_decide; [|done]. f_equal.
Qed.

Lemma update_length_unfold d children :
  update_length_avp (Avp d children) =
  match avp_model d with
  | None => mret (Avp d children)
  | Some model =>
      let hdrsz := Z.of_nat (GETAVPHDRSZ (avp_flags d)) in
      if decide (dict_basetype model = AVP_TYPE_GROUPED) then
        '(sz, children) ← update_length_chain hdrsz children; mret (Avp (set_len (u32 sz) d) children)
      else match children with
           | _ :: _ => Crash
           | [] =>
               match avp_val d with
               | None => Err EINVAL ""
               | Some v => match value_len (dict_basetype model) v with
                           | Some n => mret (Avp (set_len (u32 (hdrsz + n)) d) [])
                           | None => Crash
                           end
               end
           end
  end.
Proof. cbn. destruct (avp_model d); [|done]. case_decide; done. Qed.

Lemma bufferize_unfold buflen d children st :
  bufferize_avp buflen (Avp d children) st =
  (st ← bufferize_avp_hdr buflen d st;
   match avp_model d with
   | None => bufferize_raw d st
   | Some model =>
       if decide (dict_basetype model = AVP_TYPE_GROUPED) then bufferize_chain buflen children st
       else match avp_val d with
            | None => Err EINVAL ""
            | Some v => bufferize_value (dict_basetype model) v st
            end
   end).
Proof.
  cbn. destruct (bufferize_avp_hdr buflen d st) as [st'| | |]; [|done..]. cbn.
  destruct (avp_model d); [|done]. case_decide; [|done]. revert st'.
  induction children as [|a l IH]; intros st'; [done|]. cbn.
  destruct (bufferize_avp buflen a st'); [|done..]. apply IH.
Qed.

(** * Octets *)

Lemma be_bytes_length n v : length (be_bytes n v) = n.
Proof. unfold be_bytes. by rewrite length_rev, le_bytes_length. Qed.

Lemma PAD4_padding n : PAD4 (Z.of_nat n) = Z.of_nat (n + padding n).
Proof.
  unfold PAD4, padding. rewrite Nat2Z.inj_add, Z2Nat.id; [done|]. apply Z.land_nonneg. lia.
Qed.

Lemma land_3 x : Z.land x 3 = x mod 4.
Proof. change 3 with (Z.ones 2). by rewrite Z.land_ones by lia. Qed.

Lemma padding_spec n : (padding n < 4)%nat ∧ Z.of_nat (n + padding n) mod 4 = 0.
Proof.
  unfold padding. rewrite land_3. pose proof (Z.mod_pos_bound (4 - Z.of_nat n) 4 ltac:(lia)).
  split; [lia|]. rewrite Nat2Z.inj_add, Z2Nat.id by lia. Z.div_mod_to_equations. lia.
Qed.

(** The padding of an AVP is that of its data, as headers are multiples of 4. *)
Lemma padding_hdr n flags : padding (GETAVPHDRSZ flags + n) = padding n.
Proof.
  unfold padding, GETAVPHDRSZ. case_match; cbn [AVPHDRSZ_VENDOR AVPHDRSZ_NOVEND].
  - rewrite !land_3. f_equal. rewrite Nat2Z.inj_add. unfold AVPHDRSZ_VENDOR. Z.div_mod_to_equations. lia.
  - rewrite !land_3. f_equal. rewrite Nat2Z.inj_add. unfold AVPHDRSZ_NOVEND. Z.div_mod_to_equations. lia.
Qed.

Lemma encode_hdr_length h len : length (encode_hdr h len) = GETAVPHDRSZ (w_flags h).
Proof.
  unfold encode_hdr, GETAVPHDRSZ. rewrite length_app, length_cons, length_app, !be_bytes_length.
  case_match; [by rewrite be_bytes_length | done].
Qed.

Lemma encode_length w : length (encode w) = (wlen w + padding (wlen w))%nat.
Proof.
  rewrite encode_frame. unfold frame_avp, wlen.
  rewrite !length_app, encode_hdr_length, length_replicate, padding_hdr. lia.
Qed.

Definition size (ws : list wire) : nat := length (concat (map encode ws)).

Lemma size_cons w ws : size (w :: ws) = (length (encode w) + size ws)%nat.
Proof. unfold size. cbn. by rewrite length_app. Qed.

(** The low octets of a field do not depend on the one that is written over. *)
Lemma be_bytes_tail n v : drop 1 (be_bytes (S n) v) = be_bytes n v.
Proof.
  unfold be_bytes, le_bytes. rewrite seq_S, map_app, rev_app_distr. done.
Qed.

(** * Writing behind what was written *)

Definition zeros (k : nat) : list Z := replicate k 0.

Lemma put_zeros pre bs k :
  (length bs ≤ k)%nat →
  put (length pre) bs (pre ++ zeros k) = Ok (pre ++ bs ++ zeros (k - length bs)).
Proof.
  intros H. unfold put, zeros. rewrite decide_True by (rewrite length_app, length_replicate; lia).
  rewrite take_app_length. f_equal. f_equal. f_equal.
  by rewrite drop_app_add, drop_replicate.
Qed.

Lemma put_at off pre bs k :
  off = length pre → (length bs ≤ k)%nat →
  put off bs (pre ++ zeros k) = Ok ((pre ++ bs) ++ zeros (k - length bs)).
Proof. intros -> H. by rewrite put_zeros, app_assoc. Qed.

Lemma put_under_at off pre v b k :
  off = length pre → (4 ≤ k)%nat →
  put_32_under off v b (pre ++ zeros k) = Ok ((pre ++ b :: be_bytes 3 v) ++ zeros (k - 4)).
Proof.
  intros -> H. unfold put_32_under. rewrite put_at by (rewrite ?be_bytes_length; lia || done).
  cbn [mbind result_mbind]. rewrite be_bytes_length, <- (be_bytes_tail 3 v).
  pose proof (be_bytes_length 4 v) as L. destruct (be_bytes 4 v) as [|x l]; [done|]. cbn [drop skipn].
  unfold put. rewrite decide_True by (rewrite !length_app; cbn; lia).
  rewrite <- !app_assoc. rewrite take_app_length. cbn [app].
  rewrite drop_app_add. done.
Qed.

(** A write into a buffer of [n] octets, of which [pre] is used and [k] are left,
    adds the octets [bs]. *)
Definition writes (n : nat) (f : wstate → result wstate) (bs : list Z) : Prop :=
  ∀ pre k, (length pre + k = n)%nat → (length bs ≤ k)%nat →
    f (pre ++ zeros k, length pre) = Ok ((pre ++ bs) ++ zeros (k - length bs), length (pre ++ bs)).

Section Writes.
Context (n : nat).

Lemma writes_bind f g bs bs' :
  writes n f bs → writes n g bs' → writes n (λ st, st ← f st; g st) (bs ++ bs').
Proof.
  intros Hf Hg pre k Hn Hk. rewrite length_app in Hk. rewrite Hf by lia. cbn [mbind result_mbind].
  rewrite Hg by (rewrite ?length_app; lia).
  rewrite <- (app_assoc pre bs bs'), (length_app bs bs'), Nat.sub_add_distr. done.
Qed.

Lemma writes_nil : writes n mret [].
Proof. intros pre k _ _. cbn [length]. by rewrite app_nil_r, Nat.sub_0_r. Qed.

(** Octets with their padding, which is already in the buffer. *)
Lemma writes_padded bs p :
  p = Z.to_nat (PAD4 (Z.of_nat (length bs))) →
  writes n (λ st, buf ← put st.2 bs st.1; mret (buf, (st.2 + p)%nat)) (bs ++ zeros (padding (length bs))).
Proof.
  intros -> pre k _ Hk. rewrite length_app in Hk. unfold zeros in Hk. rewrite length_replicate in Hk.
  cbn [fst snd]. rewrite put_at by (done || lia). cbn. rewrite PAD4_padding, Nat2Z.id. do 2 f_equal.
  - rewrite <- !app_assoc. f_equal. f_equal. unfold zeros. rewrite <- replicate_add. f_equal.
    rewrite !length_app, length_replicate. lia.
  - unfold zeros. rewrite !length_app, length_replicate. lia.
Qed.

Lemma writes_exact m v :
  writes n (λ st, buf ← put st.2 (be_bytes m v) st.1; mret (buf, (st.2 + m)%nat)) (be_bytes m v).
Proof.
  intros pre k _ Hk. cbn [fst snd]. rewrite put_at by (done || lia). cbn. do 2 f_equal.
  by rewrite length_app, be_bytes_length.
Qed.

Lemma bufferize_hdr_writes d len :
  avp_len d = Z.of_nat (GETAVPHDRSZ (avp_flags d) + len) → Z.of_nat n < 2 ^ 32 →
  ∀ pre k, (length pre + k = n)%nat → (GETAVPHDRSZ (avp_flags d) + len ≤ k)%nat →
  bufferize_avp_hdr (Z.of_nat n) d (pre ++ zeros k, length pre)
  = Ok ((pre ++ encode_hdr (whdr_of d) len) ++ zeros (k - GETAVPHDRSZ (avp_flags d)),
        length (pre ++ encode_hdr (whdr_of d) len)).
Proof.
  intros Hl Hn pre k Hk Hs. unfold bufferize_avp_hdr, no_space, u64.
  rewrite Z.mod_small by lia. rewrite (proj2 (Z.ltb_ge _ _)) by lia.
  assert (8 ≤ GETAVPHDRSZ (avp_flags d))%nat by (unfold GETAVPHDRSZ; case_match; cbv; lia).
  rewrite put_at by (rewrite ?be_bytes_length; lia || done). cbn [mbind result_mbind]. rewrite be_bytes_length.
  rewrite put_under_at by (rewrite ?length_app, ?be_bytes_length; lia || done). cbn [mbind result_mbind].
  unfold encode_hdr, whdr_of. cbn [w_code w_flags w_vendor]. unfold GETAVPHDRSZ in *.
  destruct (has_flag (avp_flags d) AVP_FLAG_VENDOR).
  - rewrite put_at; [|rewrite !length_app, length_cons, !be_bytes_length; lia|rewrite be_bytes_length; unfold AVPHDRSZ_VENDOR in *; lia].
    cbn [mbind result_mbind]. rewrite be_bytes_length, Hl. do 2 f_equal.
    + rewrite <- !app_assoc. cbn [app]. rewrite <- !app_assoc. do 6 f_equal. unfold AVPHDRSZ_VENDOR. lia.
    + rewrite !length_app, length_cons, !length_app, !be_bytes_length. lia.
  - rewrite Hl. do 2 f_equal.
    + rewrite app_nil_r, <- !app_assoc. f_equal. f_equal. f_equal. f_equal. unfold AVPHDRSZ_NOVEND. lia.
    + rewrite app_nil_r, !length_app, length_cons, !be_bytes_length. lia.
Qed.

End Writes.

(** * Trees are written as they are encoded *)

Lemma value_writes n t v os :
  octets t v = Some os → writes n (bufferize_value t v) (os ++ zeros (padding (length os))).
Proof.
  intros H. destruct t, v as [x|x]; try discriminate H; injection H as <-; intros pre k Hn Hk;
    [by apply (writes_padded n x _ eq_refl)|..].
  all: rewrite be_bytes_length in *; cbn [padding zeros replicate Z.to_nat] in *; rewrite app_nil_r in *;
    rewrite be_bytes_length in Hk; unfold bufferize_value; cbn [avp_value_sizes];
    rewrite put_at by (rewrite ?be_bytes_length; lia || done); cbn [mbind result_mbind];
    rewrite be_bytes_length; do 2 f_equal; by rewrite length_app, be_bytes_length.
Qed.

Lemma raw_len d data :
  raw_data d = Some data → avp_len d = Z.of_nat (GETAVPHDRSZ (avp_flags d) + length data).
Proof.
  unfold raw_data. intros H.
  destruct (avp_rawdata d) as [raw|]; [|destruct (avp_source d) as [source|]]; case_decide;
    try discriminate H; injection H as <-; rewrite ?length_take; cbn [length]; lia.
Qed.

Lemma raw_writes n d data :
  raw_data d = Some data → avp_len d < 2 ^ 32 →
  writes n (bufferize_raw d) (data ++ zeros (padding (length data))).
Proof.
  intros H Hr. pose proof (raw_len d data H) as L. unfold raw_data in H. unfold bufferize_raw.
  destruct (avp_rawdata d) as [raw|]; [|destruct (avp_source d) as [source|]]; case_decide as Hd;
    try discriminate H; injection H as <-.
  - intros pre k Hn Hk. exact (writes_padded n raw _ eq_refl pre k Hn Hk).
  - intros pre k Hn Hk. unfold u32. rewrite Z.mod_small by lia.
    unfold read. rewrite decide_True by lia. cbn [mbind result_mbind mret result_mret].
    refine (writes_padded n _ _ _ pre k Hn Hk). do 2 f_equal. lia.
  - intros pre k Hn Hk. exact (writes_nil n pre k Hn Hk).
Qed.

(** What the two passes over a tree do: the lengths become those of the encoding,
    and the octets are the encoding. *)
Definition written (a : avp) : Prop := ∀ w, wire_of a = Some w → Z.of_nat (wlen w) < 2 ^ 31 →
  ∃ a', update_length_avp a = Ok a' ∧ avp_len (data_of a') = Z.of_nat (wlen w)
    ∧ ∀ n, Z.of_nat n < 2 ^ 32 → writes n (bufferize_avp (Z.of_nat n) a') (encode w).

(** A header followed by what writes its data. *)
Lemma framed_writes n buflen d children w f :
  avp_len d = Z.of_nat (wlen w) → hdr_of w = whdr_of d → buflen = Z.of_nat n → Z.of_nat n < 2 ^ 32 →
  writes n f (wdata w ++ zeros (padding (length (wdata w)))) →
  (∀ st, bufferize_avp buflen (Avp d children) st = (st ← bufferize_avp_hdr buflen d st; f st)) →
  writes n (bufferize_avp buflen (Avp d children)) (encode w).
Proof.
  intros Hl Hh -> Hn Hf E pre k Hk Hs. rewrite E. rewrite encode_frame in *. unfold frame_avp in *.
  unfold wlen in Hl. rewrite Hh in *. cbn [w_flags whdr_of] in Hl.
  rewrite !length_app, encode_hdr_length in Hs. cbn [w_flags whdr_of] in Hs.
  rewrite (bufferize_hdr_writes n d (length (wdata w))) by (done || lia). cbn [mbind result_mbind].
  pose proof (encode_hdr_length (whdr_of d) (length (wdata w))) as LH. cbn [w_flags whdr_of] in LH.
  rewrite Hf by (unfold zeros; rewrite ?length_app, ?LH; lia).
  change (replicate (padding (length (wdata w))) 0) with (zeros (padding (length (wdata w)))).
  rewrite <- (app_assoc pre), (length_app (encode_hdr _ _)), LH, Nat.sub_add_distr. done.
Qed.

Lemma chain_written l : Forall written l → ∀ ws sz,
  wires_of l = Some ws → 0 ≤ sz → sz + Z.of_nat (size ws) < 2 ^ 31 →
  ∃ l', update_length_chain sz l = Ok (sz + Z.of_nat (size ws), l')
    ∧ ∀ n, Z.of_nat n < 2 ^ 32 → writes n (bufferize_chain (Z.of_nat n) l') (concat (map encode ws)).
Proof.
  induction 1 as [|a l Ha _ IH]; intros ws sz Hw Hz Hb; cbn in Hw.
  - injection Hw as <-. exists []. cbn. rewrite Z.add_0_r. split; [done|]. intros n _. apply writes_nil.
  - destruct (wire_of a) as [w|] eqn:Ew; [|discriminate]. cbn in Hw.
    destruct (wires_of l) as [ws'|] eqn:El; [|discriminate]. injection Hw as <-.
    rewrite size_cons, encode_length in Hb.
    destruct (Ha w Ew ltac:(lia)) as (a' & Hu & Hl & Hwr).
    destruct (IH ws' (sz + u32 (PAD4 (avp_len (data_of a')))) eq_refl) as (l' & Hul & Hwl).
    { unfold u32. rewrite Hl, PAD4_padding, Z.mod_small by lia. lia. }
    { unfold u32. rewrite Hl, PAD4_padding, Z.mod_small by lia. lia. }
    exists (a' :: l'). split.
    + cbn [update_length_chain]. rewrite Hu. cbn [mbind result_mbind]. rewrite Hul. cbn [mbind result_mbind].
      do 2 f_equal. unfold u32. rewrite Hl, PAD4_padding, Z.mod_small by lia.
      rewrite size_cons, encode_length. lia.
    + intros n Hn. cbn [map concat]. exact (writes_bind n _ _ _ _ (Hwr n Hn) (Hwl n Hn)).
Qed.

(** A chain of AVPs needs no padding. *)
Lemma padding_size ws : padding (size ws) = 0%nat.
Proof.
  assert (H : Z.of_nat (size ws) mod 4 = 0).
  { induction ws as [|w ws IH]; [done|]. rewrite size_cons, Nat2Z.inj_add, encode_length.
    pose proof (padding_spec (wlen w)) as [_ P]. rewrite Z.add_mod, P, IH by lia. done. }
  unfold padding. rewrite land_3. Z.div_mod_to_equations. lia.
Qed.

Lemma octets_len t v os : octets t v = Some os → value_len t v = Some (Z.of_nat (length os)).
Proof. by destruct t, v; intros [= <-]; cbn; rewrite ?be_bytes_length. Qed.

Lemma avp_written a : written a.
Proof.
  induction a as [d children IH] using avp_tree_ind. intros w Hw Hb. rewrite wire_of_unfold in Hw.
  rewrite update_length_unfold.
  destruct (avp_model d) as [model|] eqn:Hm; [case_decide as Hg|].
  - apply fmap_Some in Hw. destruct Hw as (ws & Hws & ->).
    unfold wlen in *. cbn [hdr_of wdata whdr_of w_flags] in *. fold (size ws) in *.
    destruct (chain_written children IH ws (Z.of_nat (GETAVPHDRSZ (avp_flags d))) Hws) as (l' & Hu & Hwr); [lia..|].
    rewrite Hu. cbn [mbind result_mbind mret result_mret]. eexists. split; [reflexivity|].
    split; [cbn; unfold u32; rewrite Z.mod_small by lia; lia|]. intros n Hn.
    apply (framed_writes n _ _ _ (Group (whdr_of d) ws) (bufferize_chain (Z.of_nat n) l')); try done.
    + cbn. unfold wlen, u32. cbn. rewrite Z.mod_small by lia. unfold size in *. lia.
    + cbn [wdata]. fold (size ws). rewrite padding_size. cbn [zeros replicate]. rewrite app_nil_r. auto.
    + intros st. rewrite bufferize_unfold. destruct (bufferize_avp_hdr _ _ st); [|done..]. cbn.
      rewrite Hm. by rewrite decide_True.
  - destruct children; [|discriminate]. destruct (avp_val d) as [v|] eqn:Hv; [|discriminate].
    apply fmap_Some in Hw. destruct Hw as (os & Hos & ->). rewrite (octets_len _ _ _ Hos).
    unfold wlen in *. cbn [hdr_of wdata whdr_of w_flags] in *.
    eexists. split; [reflexivity|]. split; [cbn; unfold u32; rewrite Z.mod_small by lia; lia|]. intros n Hn.
    apply (framed_writes n _ _ _ (Leaf (whdr_of d) os) (bufferize_value (dict_basetype model) v)); try done.
    + cbn. unfold wlen, u32. cbn. rewrite Z.mod_small by lia. lia.
    + by apply value_writes.
    + intros st. rewrite bufferize_unfold. destruct (bufferize_avp_hdr _ _ st); [|done..]. cbn.
      rewrite Hm, Hv. by rewrite decide_False.
  - apply fmap_Some in Hw. destruct Hw as (data & Hd & ->). pose proof (raw_len d data Hd) as L.
    unfold wlen in *. cbn [hdr_of wdata whdr_of w_flags] in *.
    eexists. split; [reflexivity|]. split; [exact L|]. intros n Hn.
    apply (framed_writes n _ _ _ (Leaf (whdr_of d) data) (bufferize_raw d)); try done.
    + apply raw_writes; [done|lia].
    + intros st. rewrite bufferize_unfold. destruct (bufferize_avp_hdr _ _ st); [|done..]. cbn. by rewrite Hm.
Qed.

(** * Messages *)

Definition encode_msg_hdr (h : msg_hdr) (len : nat) : list Z :=
  msg_version h :: be_bytes 3 (Z.of_nat len) ++ msg_flags h :: be_bytes 3 (msg_code h)
  ++ be_bytes 4 (msg_appl h) ++ be_bytes 4 (msg_hbhid h) ++ be_bytes 4 (msg_eteid h).

Definition encode_msg (h : msg_hdr) (ws : list wire) : list Z :=
  encode_msg_hdr h (GETMSGHDRSZ + size ws) ++ concat (map encode ws).

Lemma msg_hdr_written n h :
  Z.of_nat n < 2 ^ 32 → (20 ≤ n)%nat → msg_length h = Z.of_nat n →
  bufferize_msg (Z.of_nat n) h (zeros n, 0%nat) = Ok (encode_msg_hdr h n ++ zeros (n - 20), 20%nat).
Proof.
  intros Hn Hs Hl. unfold bufferize_msg, no_space, u64. change (Z.of_nat 0) with 0.
  rewrite Z.sub_0_r, Z.mod_small by lia. rewrite (proj2 (Z.ltb_ge _ _)) by (unfold GETMSGHDRSZ; lia).
  change (Z.land 0 3 =? 0) with true. cbn [negb].
  change (zeros n) with ([] ++ zeros n) at 1. rewrite put_under_at by (done || lia). cbn [mbind result_mbind].
  rewrite put_under_at by (rewrite ?length_app, ?length_cons, ?be_bytes_length; done || lia). cbn [mbind result_mbind].
  do 3 (rewrite put_at by (rewrite ?length_app, ?length_cons, ?length_app, ?length_cons, ?be_bytes_length; done || lia);
        cbn [mbind result_mbind]; rewrite be_bytes_length).
  rewrite Hl. unfold encode_msg_hdr. do 2 f_equal.
  repeat first [progress cbn [app] | rewrite <- app_assoc]. by replace (n - 4 - 4 - 4 - 4 - 4)%nat with (n - 20)%nat by lia.
Qed.

Lemma fd_msg_bufferize_ok m ws :
  wires_of (msg_children m) = Some ws → Z.of_nat (GETMSGHDRSZ + size ws) < 2 ^ 31 →
  ∃ m', fd_msg_update_length m = Ok m' ∧ fd_msg_bufferize m = Ok (encode_msg (msg_public m) ws, m')
    ∧ msg_public m' = set_msg_length (Z.of_nat (GETMSGHDRSZ + size ws)) (msg_public m).
Proof.
  intros Hw Hb. unfold fd_msg_bufferize, fd_msg_update_length.
  destruct (chain_written (msg_children m) ltac:(apply Forall_forall; intros; apply avp_written)
              ws (Z.of_nat GETMSGHDRSZ) Hw) as (l' & -> & Hwr); [lia..|].
  cbn [mbind result_mbind mret result_mret msg_public set_msg_length msg_length msg_children].
  unfold u32. rewrite Z.mod_small, <- Nat2Z.inj_add by lia. set (n := (GETMSGHDRSZ + size ws)%nat) in *.
  rewrite Nat2Z.id. change (replicate n 0) with (zeros n).
  assert (L : length (encode_msg_hdr (msg_public m) n) = 20%nat).
  { unfold encode_msg_hdr. by rewrite length_cons, !length_app, length_cons, !length_app, !be_bytes_length. }
  rewrite (msg_hdr_written n (set_msg_length (Z.of_nat n) (msg_public m))); [|lia|unfold n, GETMSGHDRSZ; lia|done].
  change (encode_msg_hdr (set_msg_length _ ?h) n) with (encode_msg_hdr h n).
  cbn [mbind result_mbind]. 
  pose proof (Hwr n ltac:(lia) (encode_msg_hdr (msg_public m) n) (n - 20)%nat) as W.
  rewrite L in W. fold (size ws) in W. rewrite W by (unfold n, GETMSGHDRSZ in *; lia).
  cbn [mbind result_mbind]. fold (size ws). rewrite length_app, L. fold (size ws).
  rewrite decide_True by done. eexists. split; [reflexivity|]. split; [|done].
  unfold encode_msg. fold n. replace (n - 20 - size ws)%nat with 0%nat by (unfold n, GETMSGHDRSZ; lia).
  cbn [zeros replicate]. by rewrite app_nil_r.
Qed.

(** C15: [fd_msg_bufferize] refines the format: for a tree that denotes AVPs whose
    encoding is shorter than 2^31 octets it returns (so its final ASSERT, that
    the octets written are those announced, holds), the buffer is the encoding,
    and the length of the message is that of the buffer. *)
Theorem fd_msg_bufferize_spec m ws :
  wires_of (msg_children m) = Some ws → Z.of_nat (GETMSGHDRSZ + size ws) < 2 ^ 31 →
  ∃ m', fd_msg_bufferize m = Ok (encode_msg (msg_public m) ws, m')
    ∧ msg_length (msg_public m') = Z.of_nat (length (encode_msg (msg_public m) ws))
    ∧ set_msg_length 0 (msg_public m') = set_msg_length 0 (msg_public m).
Proof.
  intros Hw Hb. destruct (fd_msg_bufferize_ok m ws Hw Hb) as (m' & _ & Hm & Hp).
  exists m'. split; [done|]. rewrite Hp. split; [|done]. unfold encode_msg, encode_msg_hdr.
  rewrite length_app, length_cons, !length_app, length_cons, !length_app, !be_bytes_length. fold (size ws).
  cbn [set_msg_length msg_length]. unfold GETMSGHDRSZ. lia.
Qed.

(** * Reading what was encoded *)

Lemma get_be_at n off buf v rest :
  drop off buf = be_bytes n v ++ rest → 0 ≤ v < 2 ^ (8 * Z.of_nat n) → get_be n off buf = Ok v.
Proof.
  intros E H. unfold get_be, read. rewrite E.
  rewrite decide_True by (rewrite length_app, be_bytes_length; lia). cbn.
  rewrite take_app_length' by (by rewrite be_bytes_length). unfold be_bytes. rewrite rev_involutive.
  by rewrite le_val_bytes.
Qed.

Lemma get_byte_at off buf b rest : drop off buf = b :: rest → get_be 1 off buf = Ok b.
Proof. intros E. unfold get_be, read. rewrite E, decide_True by (cbn; lia). cbn. rewrite take_0. cbn. f_equal. lia. Qed.

Lemma drop_more {A} off k (buf l rest : list A) : drop off buf = l ++ rest → k = length l → drop (off + k) buf = rest.
Proof. intros E ->. rewrite <- drop_drop, E. apply drop_app_length. Qed.

(** The fields of the header fit their widths. *)
Definition hdr_ok (w : wire) : Prop :=
  0 ≤ w_code (hdr_of w) < 2 ^ 32 ∧ 0 ≤ w_flags (hdr_of w) < 256 ∧ 0 ≤ w_vendor (hdr_of w) < 2 ^ 32
  ∧ Z.of_nat (wlen w) < 2 ^ 24.

(** The AVP as it is received, with the octets [rest] behind its data. *)
Definition received_as (w : wire) (rest : list Z) : avp :=
  let h := hdr_of w in
  received (w_code h) (w_flags h) (Z.of_nat (wlen w))
    (if has_flag (w_flags h) AVP_FLAG_VENDOR then w_vendor h else 0) (wdata w ++ rest).

Lemma parse_one_encoded w buf buflen off post :
  hdr_ok w → drop off buf = encode w ++ post → (off + length (encode w) ≤ buflen)%nat →
  parse_one buf buflen off
  = Ok (received_as w (zeros (padding (length (wdata w))) ++ post), (off + length (encode w))%nat).
Proof.
  intros (Hc & Hf & Hv & Hl) E Hb. rewrite encode_length in *. rewrite encode_frame in E.
  unfold frame_avp, encode_hdr in E. rewrite <- !app_assoc in E. cbn [app] in E. rewrite <- !app_assoc in E.
  set (h := hdr_of w) in *.
  assert (Hmin : (8 ≤ GETAVPHDRSZ (w_flags h))%nat) by (unfold GETAVPHDRSZ; case_match; cbv; lia).
  assert (Hwl : wlen w = (GETAVPHDRSZ (w_flags h) + length (wdata w))%nat) by done.
  unfold parse_one. rewrite decide_False by (unfold AVPHDRSZ_NOVEND; lia).
  pose proof (drop_more _ 4 _ _ _ E ltac:(by rewrite be_bytes_length)) as E1.
  pose proof (drop_more _ 1 _ [_] _ E1 eq_refl) as E2. rewrite <- Nat.add_assoc in E2. cbn [Nat.add] in E2.
  pose proof (drop_more _ 3 _ _ _ E2 ltac:(by rewrite be_bytes_length)) as E3. rewrite <- Nat.add_assoc in E3. cbn [Nat.add] in E3.
  rewrite (get_be_at 4 off buf (w_code h) _ E) by lia. cbn [mbind result_mbind].
  rewrite (get_byte_at (off + 4) buf (w_flags h) _ E1). cbn [mbind result_mbind].
  rewrite (get_be_at 3 (off + 5) buf _ _ E2) by (rewrite <- Hwl; lia). cbn [mbind result_mbind]. cbv zeta.
  rewrite <- Hwl. unfold received_as. fold h.
  assert (Hpad : Z.to_nat (PAD4 (Z.of_nat (wlen w) - Z.of_nat (GETAVPHDRSZ (w_flags h))))
                 = (length (wdata w) + padding (wlen w))%nat).
  { replace (Z.of_nat (wlen w) - _) with (Z.of_nat (length (wdata w))) by lia.
    rewrite PAD4_padding, Nat2Z.id, Hwl, padding_hdr. done. }
  rewrite Hpad, (proj2 (Z.ltb_ge _ _)) by lia.
  unfold GETAVPHDRSZ, AVPHDRSZ_VENDOR, AVPHDRSZ_NOVEND in *.
  destruct (has_flag (w_flags h) AVP_FLAG_VENDOR) eqn:HV.
  - pose proof (drop_more _ 4 _ _ _ E3 ltac:(by rewrite be_bytes_length)) as E4.
    rewrite bool_decide_false by lia. cbn [andb].
    rewrite (get_be_at 4 (off + 8) buf _ _ E3) by lia. cbn [mbind result_mbind].
    rewrite (proj2 (Z.ltb_ge (Z.of_nat (buflen - (off + 8 + 4))) _)), andb_false_r by lia.
    rewrite E4. do 2 f_equal. rewrite Hwl. lia.
  - cbn [andb mbind result_mbind mret result_mret app] in *.
    rewrite (proj2 (Z.ltb_ge (Z.of_nat (buflen - (off + 8))) _)), andb_false_r by lia.
    rewrite E3. do 2 f_equal. rewrite Hwl. lia.
Qed.

(** The AVPs of a list as they are received. *)
Fixpoint received_list (ws : list wire) (rest : list Z) : list avp :=
  match ws with
  | [] => []
  | w :: ws => received_as w (zeros (padding (length (wdata w))) ++ concat (map encode ws) ++ rest)
               :: received_list ws rest
  end.

Lemma encode_min w : (8 ≤ length (encode w))%nat.
Proof. rewrite encode_length. unfold wlen, GETAVPHDRSZ. case_match; cbv [AVPHDRSZ_VENDOR AVPHDRSZ_NOVEND]; lia. Qed.

Lemma parsebuf_list_encoded ws : ∀ fuel buf off rest,
  Forall hdr_ok ws → drop off buf = concat (map encode ws) ++ rest → (length ws ≤ fuel)%nat →
  parsebuf_list fuel buf (off + size ws) off = Ok (received_list ws rest).
Proof.
  induction ws as [|w ws IH]; intros fuel buf off rest Hok E Hf.
  - unfold size. cbn. destruct fuel; cbn; rewrite decide_False by lia; done.
  - apply Forall_cons in Hok. destruct Hok as [Hw Hok]. destruct fuel as [|fuel]; [cbn in Hf; lia|].
    cbn [map concat] in E. rewrite <- app_assoc in E. rewrite size_cons. pose proof (encode_min w).
    cbn [parsebuf_list]. rewrite decide_True by lia.
    rewrite (parse_one_encoded w buf _ off _ Hw E) by lia. cbn [mbind result_mbind].
    rewrite Nat.add_assoc. rewrite (IH fuel buf _ rest Hok); [done| |cbn in Hf; lia].
    by apply (drop_more _ _ _ _ _ E).
Qed.

Definition msg_hdr_ok (h : msg_hdr) : Prop :=
  msg_version h = DIAMETER_VERSION ∧ 0 ≤ msg_flags h < 256 ∧ 0 ≤ msg_code h < 2 ^ 24
  ∧ 0 ≤ msg_appl h < 2 ^ 32 ∧ 0 ≤ msg_hbhid h < 2 ^ 32 ∧ 0 ≤ msg_eteid h < 2 ^ 32.

(** The 24 bits behind an octet. *)
Lemma get_under off buf b v rest :
  drop off buf = (b :: be_bytes 3 v) ++ rest → 0 ≤ v < 2 ^ 24 →
  ∃ x, get_be 4 off buf = Ok x ∧ Z.land x 0x00ffffff = v.
Proof.
  intros E Hv. exists (v + 2 ^ 24 * b). split.
  - unfold get_be, read. rewrite E, decide_True by (rewrite length_app, length_cons, be_bytes_length; lia).
    rewrite take_app_length' by (by rewrite length_cons, be_bytes_length). cbn [mbind result_mbind rev mret result_mret].
    unfold be_bytes. rewrite rev_involutive, le_val_snoc, le_val_bytes, le_bytes_length by done. done.
  - change 0x00ffffff with (Z.ones 24). rewrite Z.land_ones, (Z.mul_comm (2 ^ 24)), Z.mod_add by lia.
    apply Z.mod_small. lia.
Qed.

Lemma length_ws ws : (length ws ≤ size ws)%nat.
Proof. induction ws as [|w ws IH]; [done|]. rewrite size_cons. pose proof (encode_min w). cbn [length]. lia. Qed.

(** [fd_msg_parse_buffer] reads the format: from the encoding of a message of
    less than 2^24 octets it returns the header, with the length, and the
    AVPs, each with its header and its data at its source. *)
Lemma fd_msg_parse_buffer_encoded h ws :
  msg_hdr_ok h → Forall hdr_ok ws → Z.of_nat (GETMSGHDRSZ + size ws) < 2 ^ 24 →
  fd_msg_parse_buffer (encode_msg h ws)
  = Ok {| msg_public := set_msg_length (Z.of_nat (GETMSGHDRSZ + size ws)) h; msg_model := None;
          msg_mnf_code := 0; msg_mnf_flags := 0; msg_children := received_list ws [] |}.
Proof.
  intros (Hv & Hf & Hc & Ha & Hhb & He) Hok Hb. unfold fd_msg_parse_buffer.
  set (n := (GETMSGHDRSZ + size ws)%nat) in *. unfold encode_msg. fold n.
  set (buf := encode_msg_hdr h n ++ concat (map encode ws)).
  assert (L : length (encode_msg_hdr h n) = 20%nat).
  { unfold encode_msg_hdr. by rewrite length_cons, !length_app, length_cons, !length_app, !be_bytes_length. }
  assert (Lb : length buf = n) by (unfold buf; rewrite length_app, L; done).
  assert (E0 : drop 0 buf = (msg_version h :: be_bytes 3 (Z.of_nat n)) ++ (msg_flags h :: be_bytes 3 (msg_code h))
    ++ be_bytes 4 (msg_appl h) ++ be_bytes 4 (msg_hbhid h) ++ be_bytes 4 (msg_eteid h) ++ concat (map encode ws)).
  { rewrite drop_0. unfold buf, encode_msg_hdr. repeat first [progress cbn [app] | rewrite <- app_assoc]. done. }
  pose proof (drop_more 0 4 _ _ _ E0 ltac:(by rewrite length_cons, be_bytes_length)) as E4.
  pose proof (drop_more 4 4 _ _ _ E4 ltac:(by rewrite length_cons, be_bytes_length)) as E8.
  pose proof (drop_more 8 4 _ _ _ E8 ltac:(by rewrite be_bytes_length)) as E12.
  pose proof (drop_more 12 4 _ _ _ E12 ltac:(by rewrite be_bytes_length)) as E16.
  pose proof (drop_more 16 4 _ _ _ E16 ltac:(by rewrite be_bytes_length)) as E20. cbn [Nat.add] in *.
  rewrite Lb, decide_False by (unfold n, GETMSGHDRSZ; lia).
  rewrite (get_byte_at 0 buf _ _ E0). cbn [mbind result_mbind]. rewrite Hv, Z.eqb_refl. cbn [negb].
  destruct (get_under 0 buf _ _ _ E0) as (x & -> & Hx); [lia|]. cbn [mbind result_mbind]. rewrite Hx.
  rewrite !(proj2 (Z.ltb_ge _ _)) by (unfold n; lia).
  rewrite (get_byte_at 4 buf _ _ E4). cbn [mbind result_mbind].
  destruct (get_under 4 buf _ _ _ E4) as (y & -> & Hy); [lia|]. cbn [mbind result_mbind].
  rewrite (get_be_at 4 8 buf _ _ E8), (get_be_at 4 12 buf _ _ E12), (get_be_at 4 16 buf _ _ E16) by lia.
  cbn [mbind result_mbind]. replace (n - GETMSGHDRSZ)%nat with (0 + size ws)%nat at 2 by (unfold n; lia).
  rewrite (parsebuf_list_encoded ws _ _ 0 []); [|done| |].
  - cbn [mbind result_mbind]. rewrite Hy, <- Hv. done.
  - rewrite drop_0, app_nil_r. exact E20.
  - pose proof (length_ws ws). unfold n. lia.
Qed.
