(* ===== verification/FdTrees.v ===== *)
(** Moving in the tree of a message and adding AVPs to it (libfdproto/messages.c,
    [fd_msg_browse], [fd_msg_avp_add], [fd_msg_unhook_avp]).

    An object of the tree is known by its place: the numbers of the children
    that lead to it, the last one first.  The ring of an object's children has
    the object itself as its sentinel, so that the code moves to the parent
    from the end of the ring. *)

From stdpp Require Import base list sets.
From Stdlib Require Import ZArith Lia.
From S2P Require Import Prelude FdMessages FdWire.
Open Scope Z_scope.

(** * Places *)

Definition place : Type := list nat.

(** The object at the top: a message, or an AVP that is not chained. *)
Record tree := Tree { is_msg : bool; top_children : list avp }.

Definition msg_tree (m : msg) : tree := Tree true (msg_children m).

Fixpoint children_at (t : tree) (p : place) : list avp :=
  match p with
  | [] => top_children t
  | i :: p => match children_at t p !! i with Some a => children_of a | None => [] end
  end.

(** The AVP at a place that is not the top. *)
Definition avp_at (t : tree) (p : place) : option avp :=
  match p with [] => None | i :: p => children_at t p !! i end.

Definition valid_place (t : tree) (p : place) : Prop :=
  match p with [] => True | _ => is_Some (avp_at t p) end.

(** [enum msg_brw_dir]. *)
Inductive msg_brw_dir :=
| MSG_BRW_NEXT | MSG_BRW_PREV | MSG_BRW_FIRST_CHILD | MSG_BRW_LAST_CHILD | MSG_BRW_PARENT | MSG_BRW_WALK.

(** [_C(reference)->type == MSG_AVP]. *)
Definition is_avp (t : tree) (p : place) : bool := match p with [] => negb (is_msg t) | _ => true end.

(** The loop of MSG_BRW_WALK: the next one at this level or above, and how the
    depth changes. *)
Fixpoint climb (t : tree) (p : place) (diff : Z) : option place * Z :=
  match p with
  | [] => (None, diff)
  | i :: p => if (S i <? length (children_at t p))%nat then (Some (S i :: p), diff) else climb t p (diff - 1)
  end.

(** [None] is EINVAL; else the object found and the change of the depth. *)
Definition fd_msg_browse_internal (t : tree) (p : place) (dir : msg_brw_dir) : option (option place * Z) :=
  match dir with
  | MSG_BRW_NEXT =>
      if is_avp t p then
        Some (match p with
              | i :: p => if (S i <? length (children_at t p))%nat then (Some (S i :: p), 0) else (None, 0)
              | [] => (None, 0)
              end)
      else None
  | MSG_BRW_PREV =>
      if is_avp t p then
        Some (match p with S i :: p => (Some (i :: p), 0) | _ => (None, 0) end)
      else None
  | MSG_BRW_FIRST_CHILD => Some (match children_at t p with [] => (None, 0) | _ :: _ => (Some (0%nat :: p), 1) end)
  | MSG_BRW_LAST_CHILD =>
      Some (match children_at t p with [] => (None, 0) | _ :: _ => (Some (pred (length (children_at t p)) :: p), 1) end)
  | MSG_BRW_PARENT => Some (match p with [] => (None, 0) | _ :: p => (Some p, -1) end)
  | MSG_BRW_WALK =>
      Some (match children_at t p with [] => climb t p 0 | _ :: _ => (Some (0%nat :: p), 1) end)
  end.

Definition walk (t : tree) (p : place) : option place :=
  match fd_msg_browse_internal t p MSG_BRW_WALK with Some (q, _) => q | None => None end.

(** ** Adding *)

(** The children of one object change. *)
Fixpoint set_children_at (p : place) (f : list avp → list avp) (t : tree) : tree :=
  match p with
  | [] => Tree (is_msg t) (f (top_children t))
  | i :: p => set_children_at p (alter (λ a, Avp (data_of a) (f (children_of a))) i) t
  end.

(** What adding gives: a changed tree, EINVAL (another direction, or a place
    next to a message), or, next to an AVP that is not chained, a ring of two
    AVPs of which the old one is the head: no tree. *)
Inductive add_result := Added (t : tree) | AddInvalid | AddRing.

(** The new AVP is not chained. *)
Definition fd_msg_avp_add (t : tree) (p : place) (dir : msg_brw_dir) (a : avp) : add_result :=
  match dir with
  | MSG_BRW_NEXT =>
      if is_avp t p then
        match p with i :: p => Added (set_children_at p (λ l, take (S i) l ++ a :: drop (S i) l) t) | [] => AddRing end
      else AddInvalid
  | MSG_BRW_PREV =>
      if is_avp t p then
        match p with i :: p => Added (set_children_at p (λ l, take i l ++ a :: drop i l) t) | [] => AddRing end
      else AddInvalid
  | MSG_BRW_FIRST_CHILD => Added (set_children_at p (λ l, a :: l) t)
  | MSG_BRW_LAST_CHILD => Added (set_children_at p (λ l, l ++ [a]) t)
  | MSG_BRW_PARENT | MSG_BRW_WALK => AddInvalid
  end.

(** The AVP leaves its parent; the top is left alone. *)
Definition fd_msg_unhook_avp (t : tree) (p : place) : tree :=
  match p with [] => t | i :: p => set_children_at p (λ l, take i l ++ drop (S i) l) t end.

(** * The walk *)

(** The places below an AVP at [p], each before those inside it. *)
Fixpoint preorder_avp (a : avp) (p : place) : list place :=
  let 'Avp _ c := a in
  p :: (fix go (i : nat) (l : list avp) : list place :=
          match l with [] => [] | x :: l => preorder_avp x (i :: p) ++ go (S i) l end) 0%nat c.

Fixpoint preorder_list (p : place) (i : nat) (l : list avp) : list place :=
  match l with [] => [] | x :: l => preorder_avp x (i :: p) ++ preorder_list p (S i) l end.

(** All places of a tree. *)
Definition preorder (t : tree) : list place := [] :: preorder_list [] 0 (top_children t).

Lemma preorder_avp_eq d c p : preorder_avp (Avp d c) p = p :: preorder_list p 0 c.
Proof. cbn. f_equal. generalize 0%nat. induction c as [|x c IH]; intros i; [done|]. cbn. by rewrite IH. Qed.


(** [l] is walked from its first place to its last, and then [q] comes. *)
Fixpoint walks (t : tree) (l : list place) (q : option place) : Prop :=
  match l with
  | [] => True
  | x :: l => walk t x = match l with [] => q | y :: _ => Some y end ∧ walks t l q
  end.

Lemma walks_app t l1 y l2 q : walks t l1 (Some y) → walks t (y :: l2) q → walks t (l1 ++ y :: l2) q.
Proof.
  induction l1 as [|x l1 IH]; [done|]. intros [Hx Hl] Hy. split; [|by apply IH].
  by destruct l1.
Qed.

Lemma climb_cons t i p diff :
  climb t (i :: p) diff =
  if (S i <? length (children_at t p))%nat then (Some (S i :: p), diff) else climb t p (diff - 1).
Proof. reflexivity. Qed.

Lemma climb_diff t p diff : fst (climb t p diff) = fst (climb t p 0).
Proof.
  revert diff. induction p as [|i p IH]; intros diff; [done|]. rewrite !climb_cons. destruct (_ <? _)%nat; [done|].
  by rewrite IH, (IH (0 - 1)).
Qed.

Lemma climb_next t i p x y l :
  drop i (children_at t p) = x :: y :: l → fst (climb t (i :: p) 0) = Some (S i :: p).
Proof.
  intros H. rewrite climb_cons. apply (f_equal length) in H. rewrite length_drop in H. cbn in H.
  by rewrite (proj2 (Nat.ltb_lt _ _)) by lia.
Qed.

Lemma climb_last t i p x : drop i (children_at t p) = [x] → fst (climb t (i :: p) 0) = fst (climb t p 0).
Proof.
  intros H. rewrite climb_cons. apply (f_equal length) in H. rewrite length_drop in H. cbn in H.
  rewrite (proj2 (Nat.ltb_ge _ _)) by lia. apply climb_diff.
Qed.

Lemma preorder_list_hd p i x l : ∃ r, preorder_list p i (x :: l) = (i :: p) :: r.
Proof. destruct x as [d c]. cbn [preorder_list]. rewrite preorder_avp_eq. by eexists. Qed.

Lemma drop_cons_lookup {A} i (l : list A) x k : drop i l = x :: k → l !! i = Some x ∧ drop (S i) l = k.
Proof. intros H. split; [by rewrite <-(Nat.add_0_r i), <-lookup_drop, H|]. by rewrite <-(Nat.add_1_r i), <-drop_drop, H. Qed.

(** The children of an object, from the [i]-th on. *)
Lemma walks_children t p l :
  Forall (λ a, ∀ q, avp_at t q = Some a → walks t (preorder_avp a q) (fst (climb t q 0))) l →
  ∀ i, drop i (children_at t p) = l → walks t (preorder_list p i l) (fst (climb t p 0)).
Proof.
  induction 1 as [|x l Hx Hl IH]; intros i Hd; [done|].
  destruct (drop_cons_lookup _ _ _ _ Hd) as [Hi Hd']. specialize (Hx (i :: p) Hi). specialize (IH _ Hd').
  destruct l as [|y l]; cbn [preorder_list] in *.
  - rewrite app_nil_r. by rewrite <-(climb_last _ _ _ _ Hd).
  - rewrite (climb_next _ _ _ _ _ _ Hd) in Hx. destruct (preorder_list_hd p (S i) y l) as [r Hr].
    cbn [preorder_list] in Hr. rewrite Hr in *. by apply walks_app.
Qed.

(** The objects in and below one whose children are [c]. *)
Lemma walks_object t p :
  Forall (λ a, ∀ q, avp_at t q = Some a → walks t (preorder_avp a q) (fst (climb t q 0))) (children_at t p) →
  walks t (p :: preorder_list p 0 (children_at t p)) (fst (climb t p 0)).
Proof.
  intros H. pose proof (walks_children t p _ H 0%nat eq_refl) as Hw. split; [|done].
  unfold walk, fd_msg_browse_internal. destruct (children_at t p) as [|x l] eqn:Hc.
  - cbn. by destruct (climb t p 0).
  - by destruct (preorder_list_hd p 0 x l) as [r ->].
Qed.

Lemma walks_avp t a : ∀ q, avp_at t q = Some a → walks t (preorder_avp a q) (fst (climb t q 0)).
Proof.
  induction a as [d c IH] using avp_tree_ind. intros q Hq. rewrite preorder_avp_eq.
  assert (children_at t q = c) as <-; [|by apply walks_object].
  destruct q as [|i q]; [done|]. cbn in *. by rewrite Hq.
Qed.

Lemma walks_tree t : walks t (preorder t) None.
Proof. apply (walks_object t []). apply Forall_forall. intros a _. apply walks_avp. Qed.

(** ** Each place once *)

Lemma preorder_avp_suffix a : ∀ p q, q ∈ preorder_avp a p → ∃ r, q = r ++ p.
Proof.
  induction a as [d c IH] using avp_tree_ind. intros p q. rewrite preorder_avp_eq, elem_of_cons.
  intros [->|Hq]; [by exists []|]. revert Hq. generalize 0%nat. induction IH as [|x c Hx _ IHc]; intros i; cbn.
  - by intros ?%elem_of_nil.
  - rewrite elem_of_app. intros [[r ->]%Hx|H]; [exists (r ++ [i]); by rewrite <-app_assoc|by apply (IHc (S i))].
Qed.

Lemma preorder_list_suffix p l : ∀ i q, q ∈ preorder_list p i l → ∃ r j, q = r ++ j :: p ∧ (i ≤ j)%nat.
Proof.
  induction l as [|x l IH]; intros i q; cbn; [by intros ?%elem_of_nil|]. rewrite elem_of_app.
  intros [[r ->]%preorder_avp_suffix|(r & j & -> & Hj)%IH]; [by exists r, i|exists r, j; split; [done|lia]].
Qed.

Lemma preorder_list_nodup p l :
  Forall (λ a, ∀ q, NoDup (preorder_avp a q)) l → ∀ i, NoDup (preorder_list p i l).
Proof.
  induction 1 as [|x l Hx _ IH]; intros i; cbn; [constructor|]. apply NoDup_app. split_and!; [done| |done].
  intros q [r ->]%preorder_avp_suffix (r' & j & Hq & Hj)%preorder_list_suffix.
  apply (app_inj_2 _ _ (i :: p) (j :: p)) in Hq as [_ ?]; [|done]. simplify_eq. lia.
Qed.

Lemma preorder_cons_nodup p l :
  Forall (λ a, ∀ q, NoDup (preorder_avp a q)) l → NoDup (p :: preorder_list p 0 l).
Proof.
  intros H. constructor; [|by apply preorder_list_nodup].
  intros (r & j & Hp & _)%preorder_list_suffix. apply (f_equal length) in Hp. rewrite length_app in Hp. cbn in Hp. lia.
Qed.

Lemma preorder_avp_nodup a : ∀ q, NoDup (preorder_avp a q).
Proof. induction a as [d c IH] using avp_tree_ind. intros q. rewrite preorder_avp_eq. by apply preorder_cons_nodup. Qed.

Lemma preorder_nodup t : NoDup (preorder t).
Proof. apply preorder_cons_nodup, Forall_forall. intros a _. apply preorder_avp_nodup. Qed.

(** ** Every place *)

Lemma preorder_list_in q l : ∀ i j x, l !! j = Some x → preorder_avp x ((i + j)%nat :: q) ⊆ preorder_list q i l.
Proof.
  induction l as [|y l IH]; intros i [|j] x Hx; try done; cbn in *; [simplify_eq|].
  - rewrite Nat.add_0_r. set_solver.
  - rewrite Nat.add_succ_r. specialize (IH (S i) j x Hx). set_solver.
Qed.

Lemma preorder_covers t p : ∀ a, avp_at t p = Some a → preorder_avp a p ⊆ preorder t.
Proof.
  induction p as [|i p IH]; intros a Ha; [done|]. cbn in Ha.
  pose proof (preorder_list_in p (children_at t p) 0 i a Ha) as Hin. cbn in Hin. etrans; [exact Hin|].
  destruct p as [|j p]; [unfold preorder; set_solver|]. cbn in Hin, Ha |- *.
  destruct (children_at t p !! j) as [[d c]|] eqn:Hb; [|done]. specialize (IH _ Hb).
  rewrite preorder_avp_eq in IH. cbn. set_solver.
Qed.

Lemma preorder_avp_places t a : ∀ p, avp_at t p = Some a → ∀ q, q ∈ preorder_avp a p → is_Some (avp_at t q).
Proof.
  induction a as [d c IH] using avp_tree_ind. intros p Hp q. rewrite preorder_avp_eq, elem_of_cons.
  intros [->|Hq]; [by eexists|]. destruct p as [|i p]; [done|].
  assert (Hc : children_at t (i :: p) = c) by (cbn in *; by rewrite Hp).
  assert (Hd : drop 0 (children_at t (i :: p)) = c) by by rewrite drop_0. clear Hp Hc.
  revert Hd Hq. generalize 0%nat. induction IH as [|x c Hx _ IHc]; intros j Hd; cbn; [by intros ?%elem_of_nil|].
  apply drop_cons_lookup in Hd as [Hj Hd]. rewrite elem_of_app. intros [H|H]; [by apply (Hx (j :: i :: p))|].
  by apply (IHc (S j)).
Qed.

Lemma preorder_places t p : p ∈ preorder t ↔ valid_place t p.
Proof.
  split.
  - unfold preorder. rewrite elem_of_cons. intros [->|Hp]; [done|].
    assert (is_Some (avp_at t p)) as [a Ha]; [|destruct p; [done|by eexists]].
    pose proof (drop_0 (top_children t)) as Hd. revert Hd Hp. generalize 0%nat.
    generalize (top_children t) at 2 3. intros l. induction l as [|x l IH]; intros i Hd; cbn; [by intros ?%elem_of_nil|].
    apply drop_cons_lookup in Hd as [Hi Hd]. rewrite elem_of_app. intros [H|H]; [|by apply (IH (S i))].
    by apply (preorder_avp_places t x (i :: [])).
  - destruct p as [|i p]; [intros _; left|]. intros [[d c] Ha]. apply (preorder_covers t _ _ Ha).
    rewrite preorder_avp_eq. left.
Qed.

(** ** From the top to the end *)

(** The objects found by [fd_msg_browse] with MSG_BRW_WALK, one after the other. *)
Fixpoint walk_all (n : nat) (t : tree) (q : option place) : list place :=
  match n, q with S n, Some p => p :: walk_all n t (walk t p) | _, _ => [] end.

Lemma walk_all_walks t l : ∀ n x, walks t (x :: l) None → (length (x :: l) < n)%nat → walk_all n t (Some x) = x :: l.
Proof.
  induction l as [|y l IH]; intros [|n] x [Hx Hl] Hn; cbn [length walk_all] in *; try lia; f_equal; rewrite Hx.
  - destruct n; done.
  - apply IH; [done|lia].
Qed.

(** How the depth changes: by what the places say; by the whole depth when the
    walk is over. *)
Lemma climb_depth t p : ∀ diff,
  match climb t p diff with
  | (Some q, k) => k - diff = Z.of_nat (length q) - Z.of_nat (length p)
  | (None, k) => k - diff = - Z.of_nat (length p)
  end.
Proof.
  induction p as [|i p IH]; intros diff; [cbn; lia|]. rewrite climb_cons. destruct (_ <? _)%nat; [cbn; lia|].
  specialize (IH (diff - 1)). destruct (climb t p (diff - 1)) as [[q|] k]; cbn [length]; lia.
Qed.

(** C31: browsing a message or an AVP with MSG_BRW_WALK terminates and visits
    every object of its tree exactly once, each before the AVPs it contains and
    in their order on the wire; and the depth that the code keeps is the depth
    of the object it has found. *)
Theorem walk_visits_tree t :
  walk_all (S (length (preorder t))) t (Some []) = preorder t
  ∧ NoDup (preorder t)
  ∧ (∀ p, p ∈ preorder t ↔ valid_place t p)
  ∧ (∀ p q k, fd_msg_browse_internal t p MSG_BRW_WALK = Some (q, k) →
       k = match q with Some q => Z.of_nat (length q) - Z.of_nat (length p) | None => - Z.of_nat (length p) end).
Proof.
  split; [apply (walk_all_walks t); [apply (walks_tree t)|apply Nat.lt_succ_diag_r]|].
  split; [apply preorder_nodup|]. split; [apply preorder_places|].
  intros p q k. unfold fd_msg_browse_internal. destruct (children_at t p); [|intros [= <- <-]; cbn [length]; lia].
  pose proof (climb_depth t p 0) as Hd. destruct (climb t p 0) as [q' k']. intros [= <- <-].
  destruct q'; lia.
Qed.

(** * Adding and taking away *)

Lemma valid_parent t i p : valid_place t (i :: p) → valid_place t p.
Proof.
  intros [a Ha]. destruct p as [|j p]; [done|]. cbn in *. by destruct (children_at t p !! j).
Qed.

Lemma children_set_at t p : valid_place t p → ∀ f, children_at (set_children_at p f t) p = f (children_at t p).
Proof.
  induction p as [|i p IH]; intros V f; [done|]. cbn. rewrite (IH (valid_parent _ _ _ V)), list_lookup_alter_eq.
  destruct V as [a Ha]. cbn in Ha. by rewrite Ha.
Qed.

Lemma alter_undo {A} (f g : A → A) (l : list A) (i : nat) x : l !! i = Some x → f (g x) = x → alter f i (alter g i l) = l.
Proof.
  revert i. induction l as [|y l IH]; intros [|i] Hx Hfg; try done; cbn in *; [simplify_eq; by rewrite Hfg|].
  f_equal. by apply IH.
Qed.

Lemma set_children_undo t p :
  valid_place t p → ∀ f g, f (g (children_at t p)) = children_at t p →
  set_children_at p f (set_children_at p g t) = t.
Proof.
  induction p as [|i p IH]; intros V f g Hfg; cbn; [destruct t; cbn in *; by rewrite Hfg|].
  apply IH; [by eapply valid_parent|]. destruct V as [[d c] Ha]. cbn in Ha, Hfg. rewrite Ha in Hfg.
  apply (alter_undo _ _ _ _ _ Ha). cbn in *. by rewrite Hfg.
Qed.

(** Where [fd_msg_avp_add] puts an AVP: the parent and the number. *)
Definition added_at (t : tree) (p : place) (dir : msg_brw_dir) : option (nat * place) :=
  match dir, p with
  | MSG_BRW_NEXT, i :: p => Some (S i, p)
  | MSG_BRW_PREV, i :: p => Some (i, p)
  | MSG_BRW_FIRST_CHILD, p => Some (0%nat, p)
  | MSG_BRW_LAST_CHILD, p => Some (length (children_at t p), p)
  | _, _ => None
  end.

Lemma fd_msg_avp_add_spec t p dir a t' :
  valid_place t p → fd_msg_avp_add t p dir a = Added t' →
  ∃ i q, added_at t p dir = Some (i, q) ∧ valid_place t q ∧ (i ≤ length (children_at t q))%nat
         ∧ ∃ f, t' = set_children_at q f t
                ∧ f (children_at t q) = take i (children_at t q) ++ a :: drop i (children_at t q).
Proof.
  intros V. destruct dir; cbn; try done; destruct (is_avp t p); try done.
  1,2: destruct p as [|i p]; [done|]; intros [= <-]; pose proof (valid_parent _ _ _ V) as Vp;
    destruct V as [x Hx]; cbn in Hx; pose proof (lookup_lt_Some _ _ _ Hx).
  - exists (S i), p. split_and!; [done..|lia|]. by eexists.
  - exists i, p. split_and!; [done..|lia|]. by eexists.
  - intros [= <-]. exists 0%nat, p. split_and!; [done..|lia|]. by eexists.
  - intros [= <-]. exists 0%nat, p. split_and!; [done..|lia|]. by eexists.
  - intros [= <-]. eexists _, p. split_and!; [done..|]. eexists; split; [done|]. by rewrite firstn_all, drop_all.
  - intros [= <-]. eexists _, p. split_and!; [done..|]. eexists; split; [done|]. by rewrite firstn_all, drop_all.
Qed.

(** an AVP that is added to a message is found at the place that was asked
    for, among the AVPs that were there, and taking it out again gives the
    message as it was. *)
Theorem avp_add_unhook t p dir a t' :
  valid_place t p → fd_msg_avp_add t p dir a = Added t' →
  ∃ i q, added_at t p dir = Some (i, q) ∧ avp_at t' (i :: q) = Some a
         ∧ children_at t' q = take i (children_at t q) ++ a :: drop i (children_at t q)
         ∧ fd_msg_unhook_avp t' (i :: q) = t.
Proof.
  intros V Ha. destruct (fd_msg_avp_add_spec t p dir a t' V Ha) as (i & q & Hat & Vq & Hi & f & -> & Hf).
  exists i, q. cbn [avp_at fd_msg_unhook_avp]. rewrite (children_set_at t q Vq), Hf.
  pose proof (length_take_le _ _ Hi) as Hlen. split_and!; [done| |done|].
  - rewrite lookup_app_r by lia. by rewrite Hlen, Nat.sub_diag.
  - apply (set_children_undo t q Vq). rewrite Hf, take_app_length', drop_app_ge by lia.
    rewrite Hlen. replace (S i - i)%nat with 1%nat by lia. cbn. by rewrite drop_0, take_drop.
Qed.

Definition bare_avp (code : Z) (children : list avp) : avp :=
  Avp {| avp_model := None; mnf_code := 0; mnf_vendor := 0; avp_code := code; avp_flags := 0; avp_len := 0;
         avp_vendor := 0; avp_val := None; avp_source := None; avp_rawdata := None |} children.

(** A message with an AVP that contains two. *)
Definition small_tree : tree := Tree true [bare_avp 260 [bare_avp 258 []; bare_avp 266 []]; bare_avp 263 []].

Example small_walk : walk_all 9 small_tree (Some []) = [[]; [0]; [0; 0]; [1; 0]; [1]]%nat.
Proof. reflexivity. Qed.

Lemma avp_add_unhook_witness :
  ∃ t', fd_msg_avp_add small_tree [0; 0]%nat MSG_BRW_NEXT (bare_avp 259 []) = Added t'
        ∧ avp_at t' [1; 0]%nat = Some (bare_avp 259 []) ∧ fd_msg_unhook_avp t' [1; 0]%nat = small_tree.
Proof.
  eexists. split; [reflexivity|].
  assert (valid_place small_tree [0; 0]%nat) as V by (by eexists).
  destruct (avp_add_unhook small_tree [0; 0]%nat MSG_BRW_NEXT (bare_avp 259 []) _ V eq_refl)
    as (i & q & [= <- <-] & Ha & _ & Hu). split; [exact Ha|exact Hu].
Defined.
