(* ===== verification/FdTypes.v ===== *)
(** Derived types of AVPs (libfdproto/dictionary_functions.c): times, which are
    seconds since 1900 in 32 bits, and the check that a value has given
    characters in their order.  The type Address is in FdEndpoints. *)

From stdpp Require Import base list sorting.
From Stdlib Require Import ZArith Lia Bool.
From S2P Require Import Prelude FdMessages.
Open Scope Z_scope.

(** * Time *)

(** 70 years with 17 leap days. *)
Definition DIFF_EPOCH_TO_NTP : Z := (365 * (1970 - 1900) + 17) * 24 * 60 * 60.
Definition NTP_OVERFLOW_CORRECTION : Z := 0x100000000.

(** [None] is EINVAL.  [time_t] has 64 bits. *)
Definition diameter_string_to_time_t (str : list Z) : option Z :=
  match str with
  | [a; b; c; d] =>
      let time_stamp := Z.shiftl (Z.land a 0xff) 24 + Z.shiftl (Z.land b 0xff) 16 + Z.shiftl (Z.land c 0xff) 8 + Z.land d 0xff in
      let time_stamp := time_stamp - DIFF_EPOCH_TO_NTP in
      Some (if Z.land a 0x80 =? 0 then time_stamp + NTP_OVERFLOW_CORRECTION else time_stamp)
  | _ => None
  end.

(** [~0x80000000] is an [unsigned int], so the mask clears the upper half too. *)
Definition time_t_to_diameter_string (time_stamp : Z) : option (list Z) :=
  let out := u64 time_stamp in
  let out := u64 (out + DIFF_EPOCH_TO_NTP) in
  let out := if NTP_OVERFLOW_CORRECTION <=? out then Z.land (out - NTP_OVERFLOW_CORRECTION) (u32 (Z.lnot 0x80000000)) else out in
  if Z.shiftr out 32 =? 0
  then Some [Z.land (Z.shiftr out 24) 0xff; Z.land (Z.shiftr out 16) 0xff; Z.land (Z.shiftr out 8) 0xff; Z.land out 0xff]
  else None.

Definition fd_dictfct_Time_encode (data : Z) : option avp_value := OctetString <$> time_t_to_diameter_string data.

Definition fd_dictfct_Time_interpret (v : avp_value) : option Z :=
  match v with OctetString os => diameter_string_to_time_t os | Number _ => None end.

(** The number that four octets make. *)
Definition be32 (l : list Z) : Z :=
  match l with [a; b; c; d] => a * 2 ^ 24 + b * 2 ^ 16 + c * 2 ^ 8 + d | _ => 0 end.

Lemma land_ff x : Z.land x 0xff = x mod 2 ^ 8.
Proof. change 0xff with (Z.ones 8). by rewrite Z.land_ones. Qed.

Lemma octets_be32 x :
  0 ≤ x < 2 ^ 32 →
  be32 [Z.land (Z.shiftr x 24) 0xff; Z.land (Z.shiftr x 16) 0xff; Z.land (Z.shiftr x 8) 0xff; Z.land x 0xff] = x.
Proof. intros Hx. unfold be32. rewrite !land_ff, !Z.shiftr_div_pow2 by lia. Z.div_mod_to_equations. lia. Qed.

Lemma octets_range x : 0 ≤ Z.land x 0xff < 256.
Proof. rewrite land_ff. apply Z.mod_pos_bound. lia. Qed.

(** The high bit of the first octet tells the era. *)
Lemma high_bit a : 0 ≤ a < 256 → (Z.land a 0x80 =? 0) = (a <? 128).
Proof.
  intros Ha. assert (H : forallb (λ a, eqb (Z.land a 0x80 =? 0) (a <? 128)) (seqZ 0 256) = true) by (by vm_compute).
  rewrite forallb_forall in H. apply eqb_prop, H, list_elem_of_In, elem_of_seqZ. lia.
Qed.

Lemma interpret_be32 str :
  length str = 4%nat → Forall (λ x, 0 ≤ x < 256) str →
  diameter_string_to_time_t str
  = Some (be32 str - DIFF_EPOCH_TO_NTP + if be32 str <? 2 ^ 31 then NTP_OVERFLOW_CORRECTION else 0).
Proof.
  intros Hl Ho. destruct str as [|a [|b [|c [|d [|? ?]]]]]; cbn in Hl; try lia.
  repeat match goal with H : Forall _ (_ :: _) |- _ => apply Forall_cons in H; destruct H as [? H] end.
  unfold diameter_string_to_time_t, be32. rewrite high_bit, !land_ff, !Z.shiftl_mul_pow2, !Z.mod_small by lia.
  f_equal. destruct (Z.ltb_spec a 128), (Z.ltb_spec (a * 2 ^ 24 + b * 2 ^ 16 + c * 2 ^ 8 + d) (2 ^ 31)); lia.
Qed.

(** What is written for a time: the seconds since 1900, in the era they are in,
    without the high bit after the first. *)
Definition ntp (t : Z) : Z := u64 (t + DIFF_EPOCH_TO_NTP).
Definition ntp32 (t : Z) : Z := if ntp t <? 2 ^ 32 then ntp t else ntp t mod 2 ^ 31.

Lemma encode_be32 t :
  ∃ str, time_t_to_diameter_string t = Some str ∧ length str = 4%nat ∧ Forall (λ x, 0 ≤ x < 256) str ∧ be32 str = ntp32 t.
Proof.
  unfold time_t_to_diameter_string. cbv zeta.
  assert (E : u64 (u64 t + DIFF_EPOCH_TO_NTP) = ntp t) by (unfold ntp, u64; by rewrite Zplus_mod_idemp_l).
  rewrite E. assert (Hn : 0 ≤ ntp t < 2 ^ 64) by (apply (Z.mod_pos_bound _ 18446744073709551616); lia).
  set (out := if _ <=? ntp t then _ else ntp t).
  assert (Ho : out = ntp32 t).
  { unfold out, ntp32, NTP_OVERFLOW_CORRECTION. change 0x100000000 with (2 ^ 32).
    destruct (Z.leb_spec (2 ^ 32) (ntp t)), (Z.ltb_spec (ntp t) (2 ^ 32)); try lia; try done.
    change (u32 (Z.lnot 0x80000000)) with (Z.ones 31). rewrite Z.land_ones by lia.
    rewrite <- (Z.mod_add (ntp t - 2 ^ 32) 2 (2 ^ 31)) by lia. f_equal. lia. }
  assert (Hr : 0 ≤ out < 2 ^ 32).
  { rewrite Ho. unfold ntp32. destruct (Z.ltb_spec (ntp t) (2 ^ 32)); [lia|].
    pose proof (Z.mod_pos_bound (ntp t) (2 ^ 31)). lia. }
  rewrite Z.shiftr_div_pow2, Z.div_small by lia. cbn [Z.eqb]. eexists. split; [done|]. split; [done|]. split.
  - repeat constructor; apply octets_range.
  - by rewrite octets_be32.
Qed.

Lemma be32_range str : length str = 4%nat → Forall (λ x, 0 ≤ x < 256) str → 0 ≤ be32 str < 2 ^ 32.
Proof.
  intros Hl Ho. destruct str as [|a [|b [|c [|d [|? ?]]]]]; cbn in Hl; try lia.
  repeat match goal with H : Forall _ (_ :: _) |- _ => apply Forall_cons in H; destruct H as [? H] end. unfold be32. lia.
Qed.

Lemma be32_inj s1 s2 :
  length s1 = 4%nat → length s2 = 4%nat → Forall (λ x, 0 ≤ x < 256) s1 → Forall (λ x, 0 ≤ x < 256) s2 →
  be32 s1 = be32 s2 → s1 = s2.
Proof.
  intros L1 L2 O1 O2. destruct s1 as [|a [|b [|c [|d [|? ?]]]]], s2 as [|a' [|b' [|c' [|d' [|? ?]]]]]; cbn in L1, L2; try lia.
  repeat match goal with H : Forall _ (_ :: _) |- _ => apply Forall_cons in H; destruct H as [? H] end.
  unfold be32. intros E. repeat f_equal; lia.
Qed.

Lemma ntp_cases t :
  - 2 ^ 63 ≤ t < 2 ^ 63 - DIFF_EPOCH_TO_NTP →
  0 ≤ t + DIFF_EPOCH_TO_NTP ∧ ntp t = t + DIFF_EPOCH_TO_NTP
  ∨ t + DIFF_EPOCH_TO_NTP < 0 ∧ ntp t = t + DIFF_EPOCH_TO_NTP + 2 ^ 64.
Proof.
  intros Ht. unfold ntp, u64, DIFF_EPOCH_TO_NTP in *. change 18446744073709551616 with (2 ^ 64).
  destruct (Z.lt_ge_cases (t + (365 * (1970 - 1900) + 17) * 24 * 60 * 60) 0).
  - right. split; [done|]. rewrite <- (Z.mod_add _ 1) by lia. rewrite Z.mod_small; lia.
  - left. split; [lia|]. rewrite Z.mod_small; lia.
Qed.

(** every time is written, as four octets; reading gives the time back
    exactly if it is between 2^31 seconds after 1900 and 2^31 seconds after the
    end of the first era (January 1968 to February 2104), and any four octets
    that are read are written again the same. *)
Theorem time_roundtrip (t : Z) :
  - 2 ^ 63 ≤ t < 2 ^ 63 - DIFF_EPOCH_TO_NTP →
  (∃ v, fd_dictfct_Time_encode t = Some v
    ∧ (fd_dictfct_Time_interpret v = Some t ↔ 2 ^ 31 ≤ t + DIFF_EPOCH_TO_NTP < 2 ^ 32 + 2 ^ 31))
  ∧ (∀ str, length str = 4%nat → Forall (λ x, 0 ≤ x < 256) str →
       ∃ t', fd_dictfct_Time_interpret (OctetString str) = Some t' ∧ fd_dictfct_Time_encode t' = Some (OctetString str)).
Proof.
  intros Ht. split.
  - destruct (encode_be32 t) as (str & E & Hl & Ho & Hb). exists (OctetString str).
    unfold fd_dictfct_Time_encode, fd_dictfct_Time_interpret. rewrite E. split; [done|]. rewrite interpret_be32, Hb by done.
    assert (Hs : ∀ x y : Z, Some x = Some y ↔ x = y) by (intros x y; split; [by intros [= ->]|by intros ->]). rewrite Hs.
    unfold ntp32, NTP_OVERFLOW_CORRECTION. change 0x100000000 with (2 ^ 32).
    pose proof (Z.mod_pos_bound (ntp t) (2 ^ 31) ltac:(lia)) as Hm. pose proof (Z.div_mod (ntp t) (2 ^ 31) ltac:(lia)) as Hd.
    destruct (ntp_cases t Ht) as [[H0 En]|[H0 En]]; rewrite En in *.
    + destruct (Z.ltb_spec (t + DIFF_EPOCH_TO_NTP) (2 ^ 32));
        match goal with |- context [?x <? 2 ^ 31] => destruct (Z.ltb_spec x (2 ^ 31)) end; lia.
    + destruct (Z.ltb_spec (t + DIFF_EPOCH_TO_NTP + 2 ^ 64) (2 ^ 32)); [unfold DIFF_EPOCH_TO_NTP in *; lia|].
      match goal with |- context [?x <? 2 ^ 31] => destruct (Z.ltb_spec x (2 ^ 31)) end; lia.
  - intros str Hl Ho. pose proof (be32_range str Hl Ho) as Hx. unfold fd_dictfct_Time_interpret, fd_dictfct_Time_encode.
    rewrite interpret_be32 by done. eexists. split; [done|].
    set (t' := be32 str - DIFF_EPOCH_TO_NTP + _). destruct (encode_be32 t') as (str' & E & Hl' & Ho' & Hb). rewrite E.
    cbn. do 2 f_equal. apply be32_inj; [done..|]. rewrite Hb. unfold ntp32.
    assert (En : ntp t' = be32 str + if be32 str <? 2 ^ 31 then 2 ^ 32 else 0).
    { unfold ntp, u64, t', NTP_OVERFLOW_CORRECTION. rewrite Z.mod_small; destruct (be32 str <? 2 ^ 31); lia. }
    rewrite En. destruct (Z.ltb_spec (be32 str) (2 ^ 31)).
    + destruct (Z.ltb_spec (be32 str + 2 ^ 32) (2 ^ 32)); [lia|]. change (2 ^ 32) with (2 * 2 ^ 31).
      rewrite Z.mod_add, Z.mod_small by lia. done.
    + destruct (Z.ltb_spec (be32 str + 0) (2 ^ 32)); lia.
Qed.

(** The year 2000 in the first era, and 2040 in the second. *)
Lemma time_roundtrip_witness :
  (∃ v, fd_dictfct_Time_encode 946684800 = Some v ∧ fd_dictfct_Time_interpret v = Some 946684800)
  ∧ (∃ v, fd_dictfct_Time_encode 2208988800 = Some v ∧ fd_dictfct_Time_interpret v = Some 2208988800).
Proof.
  split.
  - destruct (time_roundtrip 946684800) as [(v & E & H) _]; [unfold DIFF_EPOCH_TO_NTP; lia|].
    exists v. split; [exact E|]. apply H. unfold DIFF_EPOCH_TO_NTP. lia.
  - destruct (time_roundtrip 2208988800) as [(v & E & H) _]; [unfold DIFF_EPOCH_TO_NTP; lia|].
    exists v. split; [exact E|]. apply H. unfold DIFF_EPOCH_TO_NTP. lia.
Defined.

(** * Characters in an octet string *)

(** What is left of the characters to find. *)
Fixpoint char_loop (chars data : list Z) : list Z :=
  match chars, data with
  | [], _ => []
  | _, [] => chars
  | c :: cs, x :: data => if c =? x then char_loop cs data else char_loop chars data
  end.

(** The character the message of the error names. *)
Definition fd_dictfct_CharInOS_check (data : list Z) (os : list Z) : option Z := head (char_loop data os).

Lemma char_loop_spec data : ∀ chars, char_loop chars data = [] ↔ chars `sublist_of` data.
Proof.
  induction data as [|x data IH]; intros [|c cs]; cbn.
  - split; [constructor|done].
  - split; [done|]. by intros ?%sublist_nil_r.
  - split; [intros _; apply sublist_nil_l|done].
  - destruct (Z.eqb_spec c x) as [->|Hne]; rewrite IH.
    + split; [by constructor|]. intros H%sublist_cons_r. destruct H as [H|(l & [= <-] & H)]; [|done].
      etrans; [|exact H]. by apply sublist_cons.
    + split; [by apply sublist_cons|]. intros H%sublist_cons_r. destruct H as [H|(l & [= -> ->] & H)]; done.
Qed.

(** The search, which takes the first match of every character, accepts exactly
    the values in which the characters occur in their order. *)
Lemma char_in_os_spec data os : fd_dictfct_CharInOS_check data os = None ↔ data `sublist_of` os.
Proof. unfold fd_dictfct_CharInOS_check. rewrite <- char_loop_spec. destruct (char_loop data os); done. Qed.
