(* ===== verification/FdParse.v ===== *)
(** Interpreting received AVPs with the dictionary (libfdproto/messages.c,
    [fd_msg_parse_dict]).

    The dictionary is seen through its interface ([Dictionary]), which
    FdDictModel implements.  An error ends the call; the tree it leaves behind
    is not modelled. *)

From stdpp Require Import base list strings.
From Stdlib Require Import ZArith Lia.
From S2P Require Import Prelude IeFormat FdMessages FdWire.
Open Scope Z_scope.

(** What [fd_dict_search] promises: objects with the code, the vendor and the
    kind that were asked for. *)
Class Dictionary := {
  avp_by_code : Z → option dict_avp_data;
  avp_by_vendor : Z → Z → option dict_avp_data;
  cmd_by_code : bool → Z → option dict_cmd_data;
  avp_by_code_spec c m : avp_by_code c = Some m → dict_avp_code m = c ∧ dict_avp_vendor m = 0;
  avp_by_vendor_spec v c m : avp_by_vendor v c = Some m → dict_avp_code m = c ∧ dict_avp_vendor m = v;
  cmd_by_code_spec r c m : cmd_by_code r c = Some m → cmd_code m = c
}.

Definition CMD_FLAG_REQUEST : Z := 0x80.

(** * Assignments *)

Definition set_model (m : option dict_avp_data) (d : avp_data) : avp_data :=
  {| avp_model := m; mnf_code := mnf_code d; mnf_vendor := mnf_vendor d; avp_code := avp_code d;
     avp_flags := avp_flags d; avp_len := avp_len d; avp_vendor := avp_vendor d; avp_val := avp_val d;
     avp_source := avp_source d; avp_rawdata := avp_rawdata d |}.

Definition set_not_found (d : avp_data) : avp_data :=
  {| avp_model := avp_model d; mnf_code := avp_code d; mnf_vendor := avp_vendor d; avp_code := avp_code d;
     avp_flags := avp_flags d; avp_len := avp_len d; avp_vendor := avp_vendor d; avp_val := avp_val d;
     avp_source := avp_source d; avp_rawdata := avp_rawdata d |}.

Definition set_data (v : option avp_value) (source raw : option (list Z)) (d : avp_data) : avp_data :=
  {| avp_model := avp_model d; mnf_code := mnf_code d; mnf_vendor := mnf_vendor d; avp_code := avp_code d;
     avp_flags := avp_flags d; avp_len := avp_len d; avp_vendor := avp_vendor d; avp_val := v;
     avp_source := source; avp_rawdata := raw |}.

Section Parse.
Context {D : Dictionary}.

(** The search for the model: by structure, which needs a vendor and a code
    that are not 0, or by code. *)
Definition search_model (code flags vendor : Z) : option dict_avp_data :=
  if has_flag flags AVP_FLAG_VENDOR then
    if (vendor =? 0) || (code =? 0) then None else avp_by_vendor vendor code
  else avp_by_code code.

Definition resolve (d : avp_data) : avp_data :=
  if negb (mnf_code d =? avp_code d) || negb (mnf_vendor d =? avp_vendor d) then
    match search_model (avp_code d) (avp_flags d) (avp_vendor d) with
    | Some m => set_model (Some m) d
    | None => set_not_found d
    end
  else d.

(** [avp_len - GETAVPHDRSZ(avp_flags)], in 32 bits. *)
Definition datalen (d : avp_data) : Z := u32 (avp_len d - Z.of_nat (GETAVPHDRSZ (avp_flags d))).

(** An AVP the dictionary does not know. *)
Definition keep_raw (mandatory : bool) (d : avp_data) (children : list avp) : result avp :=
  if mandatory && has_flag (avp_flags d) AVP_FLAG_MANDATORY then Err ENOTSUP "DIAMETER_AVP_UNSUPPORTED"
  else
    match avp_source d, avp_rawdata d with
    | None, _ => mret (Avp d children)
    | Some _, Some _ => Err EINVAL ""
    | Some source, None =>
        if datalen d =? 0 then mret (Avp (set_data (avp_val d) None None d) children)
        else
          raw ← read (Z.to_nat (datalen d)) source;
          mret (Avp (set_data (avp_val d) None (Some raw) d) children)
    end.

(** The value of a basic type from the octets at [source]. *)
Definition read_value (t : dict_avp_basetype) (d : avp_data) (source : list Z) : result avp_value :=
  match t with
  | AVP_TYPE_GROUPED => Crash
  | AVP_TYPE_OCTETSTRING =>
      if avp_len d <? Z.of_nat (GETAVPHDRSZ (avp_flags d)) then Err EBADMSG "DIAMETER_INVALID_AVP_LENGTH"
      else os ← read (Z.to_nat (datalen d)) source; mret (OctetString os)
  | _ => x ← get_be (avp_value_sizes t) 0 source; mret (Number x)
  end.

(** The check of the derived type. *)
Definition check_type (m : dict_avp_data) (v : avp_value) : result unit :=
  match dict_type_check m with
  | Some check => if check v =? 0 then mret tt else Err (ECHECK (check v)) "DIAMETER_INVALID_AVP_VALUE"
  | None => mret tt
  end.

Definition grouped_error {A} (r : result A) : result A :=
  match r with Err EBADMSG _ => Err EBADMSG "DIAMETER_INVALID_AVP_VALUE" | _ => r end.

(** [parsedict_do_chain], with what processes an AVP as argument. *)
Fixpoint parsedict_chain (do_avp : avp → result avp) (l : list avp) : result (list avp) :=
  match l with
  | [] => mret []
  | a :: l => a ← do_avp a; l ← parsedict_chain do_avp l; mret (a :: l)
  end.

(** One unit of fuel per level of grouped AVPs. *)
Fixpoint parsedict_do_avp (fuel : nat) (mandatory : bool) (a : avp) : result avp :=
  match fuel with
  | O => NoFuel
  | S fuel =>
      let 'Avp d children := a in
      let inner := mandatory && has_flag (avp_flags d) AVP_FLAG_MANDATORY in
      let resolved := match avp_model d with Some m => avp_code d =? dict_avp_code m | None => false end in
      if resolved then
        children ← parsedict_chain (parsedict_do_avp fuel inner) children;
        mret (Avp d children)
      else
        let d := resolve (set_model None d) in
        match avp_model d with
        | None => keep_raw mandatory d children
        | Some m =>
            let source := match avp_rawdata d with Some raw => raw | None => default [] (avp_source d) end in
            let size := Z.of_nat (avp_value_sizes (dict_basetype m)) in
            if negb (size =? 0) && negb (datalen d =? size) then Err EBADMSG "DIAMETER_INVALID_AVP_LENGTH"
            else if decide (dict_basetype m = AVP_TYPE_GROUPED) then
              let n := Z.to_nat (datalen d) in
              l ← grouped_error (parsebuf_list n source n 0);
              children ← parsedict_chain (parsedict_do_avp fuel inner) (children ++ l);
              mret (Avp (set_data (avp_val d) None (avp_rawdata d) d) children)
            else
              v ← read_value (dict_basetype m) d source;
              _ ← check_type m v;
              mret (Avp (set_data (Some v) None (avp_rawdata d) d) children)
        end
  end.

Definition parsedict_do_chain (fuel : nat) (mandatory : bool) (l : list avp) : result (list avp) :=
  parsedict_chain (parsedict_do_avp fuel mandatory) l.

Definition set_msg (model : option dict_cmd_data) (mc mf : Z) (children : list avp) (m : msg) : msg :=
  {| msg_public := msg_public m; msg_model := model; msg_mnf_code := mc; msg_mnf_flags := mf;
     msg_children := children |}.

(** Whether the model a message has is kept: the flags are compared with the
    truth value of [flags && mask]. *)
Definition model_kept (h : msg_hdr) (data : dict_cmd_data) : bool :=
  (cmd_code data =? msg_code h)
  && (Z.land (cmd_flag_val data) (cmd_flag_mask data)
      =? (if negb (msg_flags h =? 0) && negb (cmd_flag_mask data =? 0) then 1 else 0)).

Definition parsedict_do_msg (fuel : nat) (m : msg) : result msg :=
  let h := msg_public m in
  let chain (model : option dict_cmd_data) (mc : Z) : result msg :=
    children ← parsedict_do_chain fuel true (msg_children m);
    mret (set_msg model mc (msg_mnf_flags m) children m) in
  let search : result msg :=
    if (msg_mnf_code m =? msg_code h) && (msg_mnf_flags m =? msg_flags h)
    then Err ENOTSUP "DIAMETER_COMMAND_UNSUPPORTED"
    else
      match cmd_by_code (has_flag (msg_flags h) CMD_FLAG_REQUEST) (msg_code h) with
      | Some data => chain (Some data) 0
      | None => Err ENOTSUP "DIAMETER_COMMAND_UNSUPPORTED"
      end in
  match msg_model m with
  | Some data => if model_kept h data then chain (Some data) (msg_mnf_code m) else search
  | None => search
  end.

End Parse.

(** * Any octets are parsed safely *)

Definition octet_list (l : list Z) : Prop := Forall (λ x, 0 ≤ x < 256) l.

(** The call returned, with a value in [P] or with an error. *)
Definition returns {A} (r : result A) (P : A → Prop) : Prop :=
  match r with Ok a => P a | Err _ _ => True | Crash | NoFuel => False end.

Lemma result_returns_bind {A B} (r : result A) (f : A → result B) P Q :
  returns r P → (∀ a, P a → returns (f a) Q) → returns (r ≫= f) Q.
Proof. destruct r; cbn; auto. Qed.

Lemma returns_mono {A} (r : result A) (P Q : A → Prop) : returns r P → (∀ a, P a → Q a) → returns r Q.
Proof. destruct r; cbn; auto. Qed.

Lemma get_be_returns n off buf :
  octet_list buf → (off + n ≤ length buf)%nat →
  ∃ x, get_be n off buf = Ok x ∧ 0 ≤ x < 2 ^ (8 * Z.of_nat n).
Proof.
  intros Hb Hn. unfold get_be, read. rewrite decide_True by (rewrite length_drop; lia). cbn.
  eexists. split; [done|].
  assert (R : octet_list (rev (take n (drop off buf)))) by (apply Forall_rev, Forall_take, Forall_drop; done).
  pose proof (le_val_range _ R) as H. rewrite length_rev, length_take, length_drop in H.
  by replace (n `min` (length buf - off))%nat with n in H by lia.
Qed.

(** A received AVP whose data is there, of at most [n] octets. *)
Definition complete (n : nat) (a : avp) : Prop :=
  ∃ code flags len vendor source, a = received code flags len vendor source ∧ octet_list source
    ∧ len < 2 ^ 24 ∧ Z.of_nat (GETAVPHDRSZ flags) ≤ len
    ∧ (Z.to_nat (len - Z.of_nat (GETAVPHDRSZ flags)) ≤ length source)%nat
    ∧ (Z.to_nat (len - Z.of_nat (GETAVPHDRSZ flags)) ≤ n)%nat.

Lemma hdrsz_cases flags :
  GETAVPHDRSZ flags = (if has_flag flags AVP_FLAG_VENDOR then 12 else 8)%nat.
Proof. unfold GETAVPHDRSZ. by case_match. Qed.

Lemma parse_one_returns buf buflen off :
  octet_list buf → (buflen ≤ length buf)%nat → (off < buflen)%nat →
  returns (parse_one buf buflen off) (λ '(a, off'), complete (buflen - off - 8) a ∧ (off + 8 ≤ buflen)%nat ∧ (off + 8 ≤ off')%nat).
Proof.
  intros Hb Hl Ho. unfold parse_one, AVPHDRSZ_NOVEND. case_decide; [exact I|].
  destruct (get_be_returns 4 off buf Hb ltac:(lia)) as (code & -> & Hc). cbn [mbind result_mbind].
  destruct (get_be_returns 1 (off + 4) buf Hb ltac:(lia)) as (flags & -> & Hf). cbn [mbind result_mbind].
  destruct (get_be_returns 3 (off + 5) buf Hb ltac:(lia)) as (len & -> & Hlen). cbn [mbind result_mbind].
  cbv zeta. rewrite hdrsz_cases.
  destruct (has_flag flags AVP_FLAG_VENDOR) eqn:HV; cbn [andb].
  - case_bool_decide; [exact I|].
    destruct (get_be_returns 4 (off + 8) buf Hb ltac:(lia)) as (vendor & -> & Hv). cbn [mbind result_mbind].
    destruct (Z.ltb_spec len (Z.of_nat 12)); [exact I|].
    destruct (Z.ltb_spec (Z.of_nat 12) len), (Z.ltb_spec (Z.of_nat (buflen - (off + 8 + 4))) (len - Z.of_nat 12));
      try exact I; cbn [andb returns]; (split; [|split; lia]);
      exists code, flags, len, vendor, (drop (off + 8 + 4) buf);
      rewrite hdrsz_cases, HV, length_drop; repeat split; try lia; by apply Forall_drop.
  - cbn [mbind result_mbind mret result_mret]. destruct (Z.ltb_spec len (Z.of_nat 8)); [exact I|].
    destruct (Z.ltb_spec (Z.of_nat 8) len), (Z.ltb_spec (Z.of_nat (buflen - (off + 8))) (len - Z.of_nat 8));
      try exact I; cbn [andb returns]; (split; [|split; lia]);
      exists code, flags, len, 0, (drop (off + 8) buf);
      rewrite hdrsz_cases, HV, length_drop; repeat split; try lia; by apply Forall_drop.
Qed.

Lemma complete_mono n n' a : (n ≤ n')%nat → complete n a → complete n' a.
Proof. intros Hn (c & f & l & v & s & H & H1 & H2 & H3 & H4 & H5). exists c, f, l, v, s. repeat split; auto; lia. Qed.

Lemma parsebuf_list_returns fuel : ∀ buf buflen off,
  octet_list buf → (buflen ≤ length buf)%nat → (buflen - off ≤ fuel)%nat →
  returns (parsebuf_list fuel buf buflen off) (Forall (λ a, complete (buflen - 8) a ∧ (8 ≤ buflen)%nat)).
Proof.
  induction fuel as [|fuel IH]; intros buf buflen off Hb Hl Hf; cbn [parsebuf_list]; case_decide; try lia;
    try constructor.
  eapply result_returns_bind; [by apply parse_one_returns|]. intros [a off'] (Ha & Hb8 & Ho).
  eapply result_returns_bind; [apply IH; [done|done|lia]|]. intros l Hal. cbn. constructor; [|done].
  split; [|lia]. eapply complete_mono; [|exact Ha]. lia.
Qed.

Section Safe.
Context {D : Dictionary}.

Lemma parsedict_chain_returns f (l : list avp) P :
  Forall P l → (∀ a, P a → returns (f a) (λ _, True)) → returns (parsedict_chain f l) (λ _, True).
Proof.
  intros Hl Hf. induction Hl as [|a l Ha _ IH]; cbn; [exact I|].
  eapply result_returns_bind; [by apply Hf|]. intros a' _. eapply result_returns_bind; [exact IH|]. done.
Qed.

Lemma resolve_received code flags len vendor source :
  let 'Avp d _ := received code flags len vendor source in
  resolve (set_model None d) = d
  ∨ (∃ m, search_model code flags vendor = Some m ∧ resolve (set_model None d) = set_model (Some m) d)
  ∨ resolve (set_model None d) = set_not_found d.
Proof.
  cbn. unfold resolve. cbn [set_model mnf_code mnf_vendor avp_code avp_vendor avp_flags].
  destruct (negb _ || negb _); [|auto]. destruct (search_model code flags vendor); eauto.
Qed.

Lemma parsedict_do_avp_returns fuel : ∀ n mandatory a,
  complete n a → (n < fuel)%nat → returns (parsedict_do_avp fuel mandatory a) (λ _, True).
Proof.
  induction fuel as [|fuel IH]; [lia|]. intros n mandatory a (code & flags & len & vendor & source & -> & Hs & Hl & Hh & Hd & Hn) Hf.
  pose proof (resolve_received code flags len vendor source) as HR. cbn in HR.
  cbn [parsedict_do_avp received avp_model].
  set (d := {| avp_model := None; avp_len := len |}) in *.
  set (k := Z.to_nat (len - Z.of_nat (GETAVPHDRSZ flags))) in *.
  assert (Hdl : datalen d = Z.of_nat k).
  { unfold datalen, u32, d, k. cbn. rewrite Z.mod_small by lia. lia. }
  assert (raw : ∀ d', avp_source d' = Some source → avp_rawdata d' = None → datalen d' = Z.of_nat k →
    returns (keep_raw mandatory d' []) (λ _, True)).
  { intros d' H1 H2 H3. unfold keep_raw. rewrite H1, H2, H3. case_match; [exact I|]. case_match; [exact I|].
    unfold read. rewrite Nat2Z.id, decide_True by done. exact I. }
  destruct HR as [-> | [(m & Hm & ->) | ->]]; cbn [avp_model set_model set_not_found].
  1,3: by apply raw.
  cbn [avp_rawdata set_model d avp_source default id]. change (datalen (set_model (Some m) d)) with (datalen d).
  unfold id. rewrite Hdl. case_match eqn:Hsz; [exact I|]. rewrite Nat2Z.id. case_decide as Hg.
  - eapply result_returns_bind with (P := Forall (λ a, complete (k - 8) a ∧ (8 ≤ k)%nat)).
    { pose proof (parsebuf_list_returns k source k 0 Hs ltac:(lia) ltac:(lia)) as H.
      destruct (parsebuf_list k source k 0) as [l|[] c| |]; first [exact H | exact I]. }
    intros l Hal. eapply result_returns_bind with (P := λ _, True); [|done]. cbn [app].
    apply (parsedict_chain_returns _ _ _ Hal). intros a [Ha H8]. apply (IH (k - 8)%nat); [done|lia].
  - eapply result_returns_bind with (P := λ _, True); [|intros v _].
    + unfold read_value. destruct (dict_basetype m) eqn:Ht; try congruence; cbn [avp_value_sizes] in *.
      all: change (datalen (set_model (Some m) d)) with (datalen d); rewrite ?Hdl, ?Nat2Z.id.
      { case_match; [exact I|]. unfold read. rewrite decide_True by done. exact I. }
      all: apply andb_false_iff in Hsz; destruct Hsz as [Hsz|Hsz]; [discriminate Hsz|];
        apply negb_false_iff, Z.eqb_eq in Hsz;
        match goal with |- context [get_be ?j 0 ?src] =>
          destruct (get_be_returns j 0 src Hs ltac:(lia)) as (x & -> & _) end; exact I.
    + unfold check_type. destruct (dict_type_check m); [case_match|]; exact I.
Qed.

Lemma parsedict_do_msg_returns fuel n m :
  Forall (complete n) (msg_children m) → (n < fuel)%nat → returns (parsedict_do_msg fuel m) (λ _, True).
Proof.
  intros Hc Hf.
  assert (chain : ∀ f : list avp → msg,
    returns (parsedict_do_chain fuel true (msg_children m) ≫= λ l, mret (f l)) (λ _, True)).
  { intros f. eapply result_returns_bind with (P := λ _, True); [|done].
    apply (parsedict_chain_returns _ _ _ Hc). intros a Ha. by apply (parsedict_do_avp_returns fuel n). }
  unfold parsedict_do_msg. cbv zeta.
  destruct (msg_model m) as [data|]; [destruct (model_kept (msg_public m) data); [apply chain|]|];
    (destruct (_ && _); [exact I|]; destruct (cmd_by_code _ _); [apply chain | exact I]).
Qed.

(** The header of any 20 octets can be read. *)
Lemma fd_msg_parse_buffer_returns buf :
  octet_list buf →
  returns (fd_msg_parse_buffer buf) (λ m, Forall (complete (length buf - 28)) (msg_children m)
    ∧ (20 ≤ length buf)%nat ∧ 20 ≤ msg_length (msg_public m) ≤ Z.of_nat (length buf)).
Proof.
  intros Hb. unfold fd_msg_parse_buffer. case_decide as H20; [exact I|]. unfold GETMSGHDRSZ in *.
  destruct (get_be_returns 1 0 buf Hb ltac:(lia)) as (version & -> & _). cbn [mbind result_mbind].
  case_match; [exact I|].
  destruct (get_be_returns 4 0 buf Hb ltac:(lia)) as (w & -> & _). cbn [mbind result_mbind]. cbv zeta.
  destruct (Z.ltb_spec (Z.of_nat (length buf)) (Z.land w 0x00ffffff)); [exact I|].
  destruct (Z.ltb_spec (Z.land w 0x00ffffff) (Z.of_nat 20)); [exact I|].
  destruct (get_be_returns 1 4 buf Hb ltac:(lia)) as (flags & -> & _). cbn [mbind result_mbind].
  destruct (get_be_returns 4 4 buf Hb ltac:(lia)) as (code & -> & _). cbn [mbind result_mbind].
  destruct (get_be_returns 4 8 buf Hb ltac:(lia)) as (appl & -> & _). cbn [mbind result_mbind].
  destruct (get_be_returns 4 12 buf Hb ltac:(lia)) as (hbhid & -> & _). cbn [mbind result_mbind].
  destruct (get_be_returns 4 16 buf Hb ltac:(lia)) as (eteid & -> & _). cbn [mbind result_mbind].
  eapply result_returns_bind.
  { apply parsebuf_list_returns; [by apply Forall_drop| |]; rewrite ?length_drop; lia. }
  intros l Hl. cbn. split; [|lia]. eapply Forall_impl; [exact Hl|]. intros a [Ha _].
  eapply complete_mono; [|exact Ha]. lia.
Qed.

(** C7: Received octets are handled safely: whatever a peer sends,
    [fd_msg_parse_buffer] returns a message or an error and, for a message,
    [fd_msg_parse_dict] does so too, whatever the dictionary. Neither reads
    outside of the octets it was given, and both end: the levels of grouped
    AVPs are fewer than the octets. *)
Theorem fd_msg_parse_safe buf :
  octet_list buf →
  returns (fd_msg_parse_buffer buf) (λ m, returns (parsedict_do_msg (length buf) m) (λ _, True)).
Proof.
  intros Hb. eapply returns_mono; [by apply fd_msg_parse_buffer_returns|]. intros m (Hc & H20 & _).
  eapply parsedict_do_msg_returns; [exact Hc|]. lia.
Qed.

End Safe.
