(* ===== verification/FdRoundTrip.v ===== *)
(** Diameter messages survive the way over the wire: what [fd_msg_bufferize]
    writes, [fd_msg_parse_buffer] and [fd_msg_parse_dict] read back.

    The theorem is proved against the interface of the dictionary
    ([FdParse.Dictionary]). *)

From stdpp Require Import base list strings.
From Stdlib Require Import ZArith Lia.
From S2P Require Import Prelude IeFormat FdMessages FdWire FdParse.
Open Scope Z_scope.

Section RoundTrip.
Context {D : Dictionary}.

(** A value of the model's type: a number fits its width, the type's check
    accepts it. *)
Definition value_ok (m : dict_avp_data) (v : avp_value) : Prop :=
  (∀ x, v = Number x → 0 ≤ x < 2 ^ (8 * Z.of_nat (avp_value_sizes (dict_basetype m))))
  ∧ (∀ check, dict_type_check m = Some check → check v = 0).

Definition data_ok (d : avp_data) : Prop :=
  0 ≤ avp_code d < 2 ^ 32 ∧ 0 ≤ avp_flags d < 256 ∧ 0 ≤ avp_vendor d < 2 ^ 32
  ∧ (has_flag (avp_flags d) AVP_FLAG_VENDOR = false → avp_vendor d = 0).

(** A tree whose models are those the dictionary has for its headers; an AVP
    the dictionary does not know is not mandatory. Code and vendor 0 are never
    looked up. *)
Inductive parseable : bool → avp → Prop :=
| parseable_group mandatory d m children :
    data_ok d → avp_code d ≠ 0 ∨ avp_vendor d ≠ 0 → avp_model d = Some m →
    search_model (avp_code d) (avp_flags d) (avp_vendor d) = Some m →
    dict_basetype m = AVP_TYPE_GROUPED → avp_val d = None →
    Forall (parseable (mandatory && has_flag (avp_flags d) AVP_FLAG_MANDATORY)) children →
    parseable mandatory (Avp d children)
| parseable_value mandatory d m v :
    data_ok d → avp_code d ≠ 0 ∨ avp_vendor d ≠ 0 → avp_model d = Some m →
    search_model (avp_code d) (avp_flags d) (avp_vendor d) = Some m →
    dict_basetype m ≠ AVP_TYPE_GROUPED → avp_val d = Some v → value_ok m v →
    parseable mandatory (Avp d [])
| parseable_raw mandatory d :
    data_ok d → avp_model d = None →
    (avp_code d = 0 ∧ avp_vendor d = 0) ∨ search_model (avp_code d) (avp_flags d) (avp_vendor d) = None →
    mandatory && has_flag (avp_flags d) AVP_FLAG_MANDATORY = false →
    parseable mandatory (Avp d []).

(** An AVP after it was parsed: no source; the data of an unknown AVP is its raw
    data, and the failed search is remembered. *)
Fixpoint settled (a : avp) : avp :=
  let 'Avp d children := a in
  match avp_model d with
  | Some m =>
      Avp {| avp_model := Some m; mnf_code := 0; mnf_vendor := 0; avp_code := avp_code d;
             avp_flags := avp_flags d; avp_len := avp_len d; avp_vendor := avp_vendor d;
             avp_val := avp_val d; avp_source := None; avp_rawdata := None |} (map settled children)
  | None =>
      Avp {| avp_model := None; mnf_code := avp_code d; mnf_vendor := avp_vendor d; avp_code := avp_code d;
             avp_flags := avp_flags d; avp_len := avp_len d; avp_vendor := avp_vendor d;
             avp_val := None; avp_source := None;
             avp_rawdata := match raw_data d with Some (x :: l) => Some (x :: l) | _ => None end |} []
  end.

(** Parsing what an AVP was written as. *)
Definition reads_back (a : avp) : Prop := ∀ mandatory w,
  parseable mandatory a → wire_of a = Some w → Z.of_nat (wlen w) < 2 ^ 24 →
  ∃ a', update_length_avp a = Ok a' ∧ avp_len (data_of a') = Z.of_nat (wlen w)
    ∧ ∀ fuel rest, (length (wdata w) < fuel)%nat →
      parsedict_do_avp fuel mandatory (received_as w rest) = Ok (settled a').

Lemma parseable_hdr mandatory a w :
  parseable mandatory a → wire_of a = Some w → Z.of_nat (wlen w) < 2 ^ 24 → hdr_ok w.
Proof.
  intros Hp Hw Hl.
  assert (E : hdr_of w = whdr_of (data_of a) ∧ data_ok (data_of a)).
  { inversion Hp; subst; rewrite wire_of_unfold in Hw; simplify_option_eq; simplify_eq; done. }
  destruct E as [E (H1 & H2 & H3 & _)]. unfold hdr_ok. rewrite E. cbn. auto.
Qed.

Lemma parseable_hdrs mandatory l : ∀ ws,
  Forall (parseable mandatory) l → wires_of l = Some ws → Z.of_nat (size ws) < 2 ^ 24 → Forall hdr_ok ws.
Proof.
  induction l as [|a l IH]; intros ws Hp Hw Hs; cbn in Hw; [by simplify_eq; constructor|].
  destruct (wire_of a) as [w|] eqn:Ew; [|discriminate]. cbn in Hw.
  destruct (wires_of l) as [ws'|] eqn:El; [|discriminate]. injection Hw as <-.
  apply Forall_cons in Hp. destruct Hp as [Ha Hl]. rewrite size_cons, encode_length in Hs. constructor.
  - eapply parseable_hdr; [exact Ha | exact Ew | lia].
  - apply IH; auto; lia.
Qed.

Lemma chain_reads_back mandatory l : Forall reads_back l → ∀ ws sz,
  Forall (parseable mandatory) l → wires_of l = Some ws → 0 ≤ sz → sz + Z.of_nat (size ws) < 2 ^ 24 →
  ∃ l', update_length_chain sz l = Ok (sz + Z.of_nat (size ws), l')
    ∧ ∀ fuel rest, (size ws ≤ fuel)%nat →
      parsedict_chain (parsedict_do_avp fuel mandatory) (received_list ws rest) = Ok (map settled l').
Proof.
  induction 1 as [|a l Ha _ IH]; intros ws sz Hp Hw Hz Hb; cbn in Hw.
  - injection Hw as <-. exists []. cbn. rewrite Z.add_0_r. done.
  - destruct (wire_of a) as [w|] eqn:Ew; [|discriminate]. cbn in Hw.
    destruct (wires_of l) as [ws'|] eqn:El; [|discriminate]. injection Hw as <-.
    apply Forall_cons in Hp. destruct Hp as [Hpa Hpl].
    pose proof (encode_min w). rewrite size_cons in *. pose proof (encode_length w) as EL.
    destruct (Ha mandatory w Hpa Ew ltac:(lia)) as (a' & Hu & Hl & Hr).
    assert (Hsz : u32 (PAD4 (avp_len (data_of a'))) = Z.of_nat (length (encode w))).
    { unfold u32. rewrite Hl, PAD4_padding, Z.mod_small by lia. lia. }
    destruct (IH ws' (sz + Z.of_nat (length (encode w))) Hpl eq_refl) as (l' & Hul & Hrl); [lia..|].
    exists (a' :: l'). split.
    + cbn [update_length_chain]. rewrite Hu. cbn [mbind result_mbind]. rewrite Hsz, Hul.
      cbn [mbind result_mbind]. do 2 f_equal. lia.
    + intros fuel rest Hf. cbn [received_list parsedict_chain map].
      assert (length (wdata w) + 8 ≤ length (encode w))%nat.
      { rewrite EL. unfold wlen, GETAVPHDRSZ, AVPHDRSZ_VENDOR, AVPHDRSZ_NOVEND. case_match; lia. }
      rewrite Hr by lia. cbn [mbind result_mbind].
      by rewrite Hrl by lia.
Qed.

(** ** One AVP *)

Lemma received_as_hdr d w rest :
  hdr_of w = whdr_of d → data_ok d →
  received_as w rest
  = received (avp_code d) (avp_flags d) (Z.of_nat (wlen w)) (avp_vendor d) (wdata w ++ rest).
Proof.
  intros Hh (_ & _ & _ & Hv). unfold received_as. rewrite Hh. cbn. f_equal.
  destruct (has_flag _ _); [done|]. by rewrite Hv.
Qed.

Definition found (m : dict_avp_data) (code flags len vendor : Z) (source : list Z) : avp_data :=
  let 'Avp d _ := received code flags len vendor source in set_model (Some m) d.

(** The interpretation of a received AVP the dictionary knows. *)
Lemma parsedict_found fuel mandatory code flags len vendor source m :
  code ≠ 0 ∨ vendor ≠ 0 → search_model code flags vendor = Some m →
  parsedict_do_avp (S fuel) mandatory (received code flags len vendor source) =
  let d := found m code flags len vendor source in
  let size := Z.of_nat (avp_value_sizes (dict_basetype m)) in
  if negb (size =? 0) && negb (datalen d =? size) then Err EBADMSG "DIAMETER_INVALID_AVP_LENGTH"
  else if decide (dict_basetype m = AVP_TYPE_GROUPED) then
    let n := Z.to_nat (datalen d) in
    l ← grouped_error (parsebuf_list n source n 0);
    children ← parsedict_chain (parsedict_do_avp fuel (mandatory && has_flag flags AVP_FLAG_MANDATORY)) l;
    mret (Avp (set_data None None None d) children)
  else
    v ← read_value (dict_basetype m) d source;
    _ ← check_type m v;
    mret (Avp (set_data (Some v) None None d) []).
Proof.
  intros H0 Hs. cbn [received parsedict_do_avp avp_model]. unfold resolve.
  cbn [set_model mnf_code mnf_vendor avp_code avp_vendor avp_flags]. rewrite Hs.
  replace (negb (0 =? code) || negb (0 =? vendor)) with true; [done|].
  destruct (Z.eqb_spec 0 code), (Z.eqb_spec 0 vendor); try done. lia.
Qed.

Lemma datalen_wire d w :
  avp_len d = Z.of_nat (wlen w) → avp_flags d = w_flags (hdr_of w) → Z.of_nat (wlen w) < 2 ^ 24 →
  datalen d = Z.of_nat (length (wdata w)).
Proof.
  intros Hl Hf Hb. unfold datalen, u32. rewrite Hl, Hf. unfold wlen in *. rewrite Z.mod_small by lia. lia.
Qed.

Lemma read_take (n : nat) (l rest : list Z) : n = length l → read n (l ++ rest) = Ok l.
Proof. intros ->. unfold read. rewrite decide_True by (rewrite length_app; lia). by rewrite take_app_length. Qed.

Lemma read_value_octets t v os d rest :
  octets t v = Some os → (∀ x, v = Number x → 0 ≤ x < 2 ^ (8 * Z.of_nat (avp_value_sizes t))) →
  datalen d = Z.of_nat (length os) → Z.of_nat (GETAVPHDRSZ (avp_flags d)) ≤ avp_len d →
  read_value t d (os ++ rest) = Ok v.
Proof.
  intros Ho Hn Hd Hl. destruct t, v as [x|x]; try discriminate Ho; injection Ho as <-; cbn [read_value].
  1: by rewrite (proj2 (Z.ltb_ge _ _)), Hd, Nat2Z.id, read_take by (done || lia).
  all: by erewrite get_be_at; [| by rewrite drop_0 | by apply Hn].
Qed.

Lemma size_octets t v os : octets t v = Some os → t ≠ AVP_TYPE_OCTETSTRING → length os = avp_value_sizes t.
Proof. destruct t, v; intros [= <-] ?; try done; by rewrite be_bytes_length. Qed.

Lemma value_reads_back mandatory d m v w fuel rest :
  data_ok d → avp_code d ≠ 0 ∨ avp_vendor d ≠ 0 →
  search_model (avp_code d) (avp_flags d) (avp_vendor d) = Some m →
  dict_basetype m ≠ AVP_TYPE_GROUPED → avp_model d = Some m → avp_val d = Some v → value_ok m v →
  avp_len d = Z.of_nat (wlen w) → hdr_of w = whdr_of d → octets (dict_basetype m) v = Some (wdata w) →
  Z.of_nat (wlen w) < 2 ^ 24 →
  parsedict_do_avp (S fuel) mandatory (received_as w rest) = Ok (settled (Avp d [])).
Proof.
  intros Hd H0 Hs Hg Hm Hv [Hr Hc] Hl Hh Ho Hb. rewrite (received_as_hdr d), parsedict_found with (m := m) by done.
  cbv zeta. set (d' := found _ _ _ _ _ _).
  assert (Hdl : datalen d' = Z.of_nat (length (wdata w))) by (apply datalen_wire; [done | by rewrite Hh | done]).
  rewrite Hdl, (decide_False (P := dict_basetype m = AVP_TYPE_GROUPED)) by done.
  replace (negb (Z.of_nat (avp_value_sizes (dict_basetype m)) =? 0)
    && negb (Z.of_nat (length (wdata w)) =? Z.of_nat (avp_value_sizes (dict_basetype m)))) with false.
  2: { destruct (decide (dict_basetype m = AVP_TYPE_OCTETSTRING)) as [->|Hos]; [done|].
       rewrite (size_octets _ _ _ Ho Hos), Z.eqb_refl. by rewrite andb_false_r. }
  rewrite (read_value_octets _ v (wdata w)); [|done..|cbn; unfold wlen; rewrite Hh; cbn; lia].
  cbn [mbind result_mbind]. unfold check_type.
  replace (match dict_type_check m with Some check => _ | None => _ end) with (Ok tt).
  2: { destruct (dict_type_check m) as [check|]; [|done]. by rewrite Hc. }
  cbn. rewrite Hm, Hv, Hl. done.
Qed.

Lemma raw_reads_back mandatory d w fuel rest :
  data_ok d → avp_model d = None →
  (avp_code d = 0 ∧ avp_vendor d = 0) ∨ search_model (avp_code d) (avp_flags d) (avp_vendor d) = None →
  mandatory && has_flag (avp_flags d) AVP_FLAG_MANDATORY = false →
  avp_len d = Z.of_nat (wlen w) → hdr_of w = whdr_of d → raw_data d = Some (wdata w) →
  Z.of_nat (wlen w) < 2 ^ 24 →
  parsedict_do_avp (S fuel) mandatory (received_as w rest) = Ok (settled (Avp d [])).
Proof.
  intros Hd Hm Hs Hma Hl Hh Hr Hb. rewrite (received_as_hdr d) by done.
  set (src := wdata w ++ rest). set (n := Z.of_nat (wlen w)) in *.
  assert (E : resolve (set_model None (data_of (received (avp_code d) (avp_flags d) n (avp_vendor d) src)))
    = set_not_found (data_of (received (avp_code d) (avp_flags d) n (avp_vendor d) src))).
  { unfold resolve, received. cbn [data_of set_model mnf_code mnf_vendor avp_code avp_vendor avp_flags].
    destruct Hs as [[H0 H1] | ->]; [by rewrite H0, H1|].
    destruct (Z.eqb_spec 0 (avp_code d)) as [<-|]; [|done]. by destruct (Z.eqb_spec 0 (avp_vendor d)) as [<-|]. }
  cbn [received data_of] in E. cbn [received parsedict_do_avp avp_model]. rewrite E.
  cbn [avp_model set_not_found]. set (d' := set_not_found _).
  assert (Hdl : datalen d' = Z.of_nat (length (wdata w))) by (apply datalen_wire; [done | by rewrite Hh | done]).
  unfold keep_raw. rewrite Hdl. cbn [d' set_not_found avp_flags avp_source avp_rawdata]. rewrite Hma. cbn [settled].
  rewrite Hm, Hr. unfold src. destruct (wdata w) as [|x l]; cbn [length].
  - cbn. rewrite Hl. done.
  - rewrite (proj2 (Z.eqb_neq _ _)) by lia. rewrite Nat2Z.id, read_take by done. cbn. rewrite Hl. done.
Qed.

Lemma group_reads_back mandatory d m ws l' fuel rest :
  data_ok d → avp_code d ≠ 0 ∨ avp_vendor d ≠ 0 →
  search_model (avp_code d) (avp_flags d) (avp_vendor d) = Some m →
  dict_basetype m = AVP_TYPE_GROUPED → avp_model d = Some m → avp_val d = None →
  Forall hdr_ok ws → avp_len d = Z.of_nat (wlen (Group (whdr_of d) ws)) → avp_len d < 2 ^ 24 →
  (size ws ≤ fuel)%nat →
  parsedict_chain (parsedict_do_avp fuel (mandatory && has_flag (avp_flags d) AVP_FLAG_MANDATORY))
    (received_list ws rest) = Ok (map settled l') →
  parsedict_do_avp (S fuel) mandatory (received_as (Group (whdr_of d) ws) rest) = Ok (settled (Avp d l')).
Proof.
  intros Hd H0 Hs Hg Hm Hv Hok Hl Hb Hf Hch. set (w := Group (whdr_of d) ws) in *.
  rewrite (received_as_hdr d), parsedict_found with (m := m) by done. cbv zeta. set (d' := found _ _ _ _ _ _).
  assert (Hdl : datalen d' = Z.of_nat (size ws)) by (apply (datalen_wire d' w); [done | done | lia]).
  rewrite Hdl, Hg, decide_True, Nat2Z.id by done. cbn [avp_value_sizes Z.of_nat Z.eqb negb andb].
  rewrite (parsebuf_list_encoded ws _ _ 0 rest); [|done|by rewrite drop_0|apply length_ws].
  cbn [grouped_error mbind result_mbind]. rewrite Hch. cbn. rewrite Hm, Hv, Hl. done.
Qed.

Lemma avp_reads_back a : reads_back a.
Proof.
  induction a as [d children IH] using avp_tree_ind. intros mandatory w Hp Hw Hb.
  rewrite wire_of_unfold in Hw. rewrite update_length_unfold.
  inversion Hp as [? ? m ? Hd H0 Hm Hs Hg Hv Hc|? ? m v Hd H0 Hm Hs Hg Hv Hok|? ? Hd Hm Hs Hma]; subst; rewrite Hm in *.
  - rewrite decide_True by done. rewrite decide_True in Hw by done. apply fmap_Some in Hw. destruct Hw as (ws & Hws & ->).
    unfold wlen in *. cbn [hdr_of wdata whdr_of w_flags] in *. fold (size ws) in *.
    destruct (chain_reads_back _ children IH ws (Z.of_nat (GETAVPHDRSZ (avp_flags d))) Hc Hws)
      as (l' & Hu & Hr); [lia..|].
    rewrite Hu. cbn [mbind result_mbind mret result_mret]. eexists. split; [reflexivity|].
    cbn [data_of set_len avp_len]. unfold u32. rewrite Z.mod_small by lia. split; [lia|].
    intros [|fuel] rest Hf; [lia|]. apply (group_reads_back _ (set_len _ d) m); try done; cbn [set_len avp_len].
    + eapply parseable_hdrs; [exact Hc | exact Hws | lia].
    + unfold wlen. cbn. unfold size. lia.
    + lia.
    + lia.
    + apply Hr. lia.
  - rewrite decide_False by done. rewrite decide_False in Hw by done. rewrite Hv in *. apply fmap_Some in Hw. destruct Hw as (os & Hos & ->).
    rewrite (octets_len _ _ _ Hos). unfold wlen in *. cbn [hdr_of wdata whdr_of w_flags] in *.
    eexists. split; [reflexivity|]. cbn [data_of set_len avp_len]. unfold u32. rewrite Z.mod_small by lia.
    split; [lia|]. intros [|fuel] rest Hf; [lia|]. apply (value_reads_back _ (set_len _ d) m v); try done.
    cbn. unfold wlen. cbn. lia.
  - apply fmap_Some in Hw. destruct Hw as (data & Hr & ->). pose proof (raw_len d data Hr) as L.
    eexists. split; [reflexivity|]. split; [exact L|]. intros [|fuel] rest Hf; [lia|].
    by apply raw_reads_back.
Qed.

(** ** Messages *)

(** What the peer's library has after parsing the message [m]. *)
Definition received_msg (data : dict_cmd_data) (m : msg) : msg :=
  {| msg_public := msg_public m; msg_model := Some data; msg_mnf_code := 0; msg_mnf_flags := 0;
     msg_children := map settled (msg_children m) |}.

Lemma fd_msg_survives m ws data :
  msg_hdr_ok (msg_public m) → wires_of (msg_children m) = Some ws →
  Z.of_nat (GETMSGHDRSZ + size ws) < 2 ^ 24 → Forall (parseable true) (msg_children m) →
  msg_code (msg_public m) ≠ 0 ∨ msg_flags (msg_public m) ≠ 0 →
  cmd_by_code (has_flag (msg_flags (msg_public m)) CMD_FLAG_REQUEST) (msg_code (msg_public m)) = Some data →
  ∃ buf m', fd_msg_bufferize m = Ok (buf, m') ∧ fd_msg_update_length m = Ok m'
    ∧ (received ← fd_msg_parse_buffer buf; parsedict_do_msg (length buf) received) = Ok (received_msg data m').
Proof.
  intros Hh Hw Hb Hp H0 Hc. destruct (fd_msg_bufferize_ok m ws Hw ltac:(lia)) as (m' & Hu & -> & Hpub).
  eexists _, m'. split; [reflexivity|]. split; [done|].
  unfold fd_msg_update_length in Hu.
  destruct (chain_reads_back true (msg_children m) ltac:(apply Forall_forall; intros; apply avp_reads_back)
    ws (Z.of_nat GETMSGHDRSZ) Hp Hw) as (l' & Hul & Hr); [lia..|].
  rewrite Hul in Hu. injection Hu as <-. cbn [msg_public] in Hpub.
  rewrite fd_msg_parse_buffer_encoded; [|done|eapply parseable_hdrs; [exact Hp | exact Hw | lia]|done].
  cbn [mbind result_mbind]. unfold parsedict_do_msg.
  cbn [msg_public msg_model msg_mnf_code msg_mnf_flags msg_children set_msg_length msg_code msg_flags].
  replace ((0 =? _) && (0 =? _)) with false.
  2: { destruct (Z.eqb_spec 0 (msg_code (msg_public m))), (Z.eqb_spec 0 (msg_flags (msg_public m))); try done. lia. }
  rewrite Hc. unfold parsedict_do_chain. rewrite Hr; [|unfold encode_msg; rewrite length_app; fold (size ws); lia].
  unfold received_msg. rewrite <- Hpub. done.
Qed.

(** C6: A message survives the wire: a message of less than 2^24 octets, whose
    command and AVPs are those of the dictionary and whose values fit their
    types, is written by [fd_msg_bufferize]; reading the buffer with
    [fd_msg_parse_buffer] and [fd_msg_parse_dict] ends, and gives its header
    with the length, its command, and the same tree of AVPs with the same
    models, values and children; the data of unknown AVPs is kept as raw data. *)
Theorem fd_msg_roundtrip m ws data :
  msg_hdr_ok (msg_public m) → wires_of (msg_children m) = Some ws →
  Z.of_nat (GETMSGHDRSZ + size ws) < 2 ^ 24 → Forall (parseable true) (msg_children m) →
  msg_code (msg_public m) ≠ 0 ∨ msg_flags (msg_public m) ≠ 0 →
  cmd_by_code (has_flag (msg_flags (msg_public m)) CMD_FLAG_REQUEST) (msg_code (msg_public m)) = Some data →
  ∃ buf m', fd_msg_bufferize m = Ok (buf, m')
    ∧ (received ← fd_msg_parse_buffer buf; parsedict_do_msg (length buf) received) = Ok (received_msg data m').
Proof.
  intros Hh Hw Hb Hp H0 Hc. destruct (fd_msg_survives m ws data Hh Hw Hb Hp H0 Hc) as (buf & m' & Hbuf & _ & Hr). eauto.
Qed.

End RoundTrip.
