(* ===== verification/FdRules.v ===== *)
(** The rules of the dictionary (libfdproto/messages.c, [fd_msg_parse_rules]):
    how many AVPs of a model a command or a grouped AVP may have, and where.

    Objects of the dictionary are compared by reference in the code; here an
    AVP object is known by its code and vendor, which are unique in a
    dictionary.  [int] counters hold the number of AVPs of a message, which is
    less than 2^24. *)

From stdpp Require Import base list strings.
From Stdlib Require Import ZArith Lia.
From S2P Require Import Prelude FdMessages FdWire FdParse.
Open Scope Z_scope.

Inductive rule_position := RULE_FIXED_HEAD | RULE_REQUIRED | RULE_OPTIONAL | RULE_FIXED_TAIL.

#[export] Instance rule_position_eq_dec : EqDecision rule_position.
Proof. solve_decision. Defined.

Record dict_rule_data := {
  rule_avp : Z * Z;
  rule_pos : rule_position;
  rule_order : N;
  rule_min : Z;
  rule_max : Z
}.

(** The rules [fd_dict_iterate_rules] goes through. *)
Class RuleBook := {
  avp_rules : dict_avp_data → list dict_rule_data;
  cmd_rules : dict_cmd_data → list dict_rule_data;
  error_rules : list dict_rule_data
}.

Definition CMD_FLAG_ERROR : Z := 0x20.

(** * The checks *)

Definition is_model (r : Z * Z) (a : avp) : bool :=
  match avp_model (data_of a) with
  | Some m => (dict_avp_code m =? r.1) && (dict_avp_vendor m =? r.2)
  | None => false
  end.

(** [*count], [*firstpos] and [*lastpos]. *)
Record stats := { st_count : Z; st_first : Z; st_last : Z }.

Fixpoint stat_avps_from (r : Z * Z) (l : list avp) (curpos : Z) (s : stats) : stats :=
  match l with
  | [] => s
  | a :: l =>
      let curpos := curpos + 1 in
      let last := if st_last s =? 0 then 0 else st_last s + 1 in
      stat_avps_from r l curpos
        (if is_model r a
         then {| st_count := st_count s + 1; st_first := if st_first s =? 0 then curpos else st_first s;
                 st_last := 1 |}
         else {| st_count := st_count s; st_first := st_first s; st_last := last |})
  end.

Definition parserules_stat_avps (r : Z * Z) (l : list avp) : stats :=
  stat_avps_from r l 0 {| st_count := 0; st_first := 0; st_last := 0 |}.

Definition effective_min (rule : dict_rule_data) : Z :=
  if rule_min rule =? -1 then (if decide (rule_pos rule = RULE_OPTIONAL) then 0 else 1) else rule_min rule.

Definition parserules_check_one_rule (children : list avp) (rule : dict_rule_data) : result unit :=
  let s := parserules_stat_avps (rule_avp rule) children in
  if st_count s <? effective_min rule then Err EBADMSG "DIAMETER_MISSING_AVP"
  else if negb (rule_max rule =? -1) && (rule_max rule <? st_count s) then
    Err EBADMSG (if rule_max rule =? 0 then "DIAMETER_AVP_NOT_ALLOWED" else "DIAMETER_AVP_OCCURS_TOO_MANY_TIMES")
  else
    match rule_pos rule with
    | RULE_OPTIONAL | RULE_REQUIRED => mret tt
    | RULE_FIXED_HEAD => if Z.of_N (rule_order rule) <? st_first s then Err EBADMSG "DIAMETER_MISSING_AVP" else mret tt
    | RULE_FIXED_TAIL => if Z.of_N (rule_order rule) <? st_last s then Err EBADMSG "DIAMETER_MISSING_AVP" else mret tt
    end.

(** [fd_dict_iterate_rules] with [parserules_check_one_rule]. *)
Fixpoint iterate_rules (rules : list dict_rule_data) (children : list avp) : result unit :=
  match rules with
  | [] => mret tt
  | rule :: rules => _ ← parserules_check_one_rule children rule; iterate_rules rules children
  end.

Section Rules.
Context {R : RuleBook}.

(** [parserules_do] on an AVP. *)
Fixpoint parserules_do_avp (mandatory : bool) (a : avp) : result unit :=
  let 'Avp d children := a in
  let mand := mandatory && has_flag (avp_flags d) AVP_FLAG_MANDATORY in
  match avp_model d with
  | None => if mand then Err EBADMSG "DIAMETER_AVP_UNSUPPORTED" else mret tt
  | Some m =>
      if decide (dict_basetype m = AVP_TYPE_GROUPED) then
        _ ← (fix go (l : list avp) : result unit :=
               match l with
               | [] => mret tt
               | a :: l => _ ← parserules_do_avp mand a; go l
               end) children;
        iterate_rules (avp_rules m) children
      else mret tt
  end.

Fixpoint parserules_children (mandatory : bool) (l : list avp) : result unit :=
  match l with
  | [] => mret tt
  | a :: l => _ ← parserules_do_avp mandatory a; parserules_children mandatory l
  end.

(** [parserules_do] on a message. *)
Definition parserules_do_msg (m : msg) : result unit :=
  let rules :=
    if has_flag (msg_flags (msg_public m)) CMD_FLAG_ERROR then Some error_rules
    else cmd_rules <$> msg_model m in
  match rules with
  | None => Err EBADMSG "DIAMETER_COMMAND_UNSUPPORTED"
  | Some rules =>
      _ ← parserules_children true (msg_children m);
      iterate_rules rules (msg_children m)
  end.

Definition fd_msg_parse_rules {D : Dictionary} (fuel : nat) (m : msg) : result msg :=
  m ← parsedict_do_msg fuel m;
  _ ← parserules_do_msg m;
  mret m.

(** * What the rules mean *)

(** The places of the AVPs of a model. *)
Definition at_place (r : Z * Z) (l : list avp) (i : nat) : Prop := ∃ a, l !! i = Some a ∧ is_model r a = true.

Definition occurrences (r : Z * Z) (l : list avp) : nat := length (filter (λ a, is_model r a = true) l).

(** A list of AVPs obeys a rule: the number of occurrences is between the
    minimum and the maximum; for a fixed position, one of the first (or last)
    [rule_order] AVPs is one of the model, when there is one at all. *)
Definition obeys (l : list avp) (rule : dict_rule_data) : Prop :=
  let r := rule_avp rule in
  effective_min rule ≤ Z.of_nat (occurrences r l)
  ∧ (rule_max rule = -1 ∨ Z.of_nat (occurrences r l) ≤ rule_max rule)
  ∧ match rule_pos rule with
    | RULE_OPTIONAL | RULE_REQUIRED => True
    | RULE_FIXED_HEAD => occurrences r l = 0%nat ∨ ∃ i, at_place r l i ∧ Z.of_nat i < Z.of_N (rule_order rule)
    | RULE_FIXED_TAIL =>
        occurrences r l = 0%nat ∨ ∃ i, at_place r l i ∧ Z.of_nat (length l) ≤ Z.of_nat i + Z.of_N (rule_order rule)
    end.

(** A tree that obeys its rules, below optional AVPs too; what is mandatory is
    known. *)
Inductive compliant : bool → avp → Prop :=
| compliant_unknown mandatory d children :
    avp_model d = None → mandatory && has_flag (avp_flags d) AVP_FLAG_MANDATORY = false →
    compliant mandatory (Avp d children)
| compliant_value mandatory d children m :
    avp_model d = Some m → dict_basetype m ≠ AVP_TYPE_GROUPED → compliant mandatory (Avp d children)
| compliant_group mandatory d children m :
    avp_model d = Some m → dict_basetype m = AVP_TYPE_GROUPED →
    Forall (compliant (mandatory && has_flag (avp_flags d) AVP_FLAG_MANDATORY)) children →
    Forall (obeys children) (avp_rules m) → compliant mandatory (Avp d children).

Definition compliant_msg (m : msg) : Prop :=
  Forall (compliant true) (msg_children m)
  ∧ if has_flag (msg_flags (msg_public m)) CMD_FLAG_ERROR then Forall (obeys (msg_children m)) error_rules
    else ∃ data, msg_model m = Some data ∧ Forall (obeys (msg_children m)) (cmd_rules data).

(** * The checks decide compliance *)

Lemma occurrences_snoc r l a :
  occurrences r (l ++ [a]) = (occurrences r l + if is_model r a then 1 else 0)%nat.
Proof.
  unfold occurrences. rewrite filter_app, length_app. f_equal.
  destruct (is_model r a) eqn:E; [by rewrite filter_cons_True | by rewrite filter_cons_False by congruence].
Qed.

Lemma at_place_snoc r l a i :
  at_place r (l ++ [a]) i ↔ at_place r l i ∨ (i = length l ∧ is_model r a = true).
Proof.
  unfold at_place. split.
  - intros (b & Hb & Hm). apply lookup_snoc_Some in Hb. destruct Hb as [[_ Hb]|[-> ->]]; eauto.
  - intros [(b & Hb & Hm)|[-> Hm]]; [exists b | exists a]; split; try done.
    + by apply lookup_app_l_Some.
    + by rewrite lookup_app_r, Nat.sub_diag.
Qed.

Lemma at_place_bound r l i : at_place r l i → (i < length l)%nat.
Proof. intros (a & Ha & _). by eapply lookup_lt_Some. Qed.

(** What the statistics say of the AVPs passed. *)
Record describes (r : Z * Z) (l : list avp) (s : stats) : Prop := {
  d_count : st_count s = Z.of_nat (occurrences r l);
  d_none : occurrences r l = 0%nat → st_first s = 0 ∧ st_last s = 0 ∧ ∀ i, ¬ at_place r l i;
  d_first : occurrences r l ≠ 0%nat →
    ∃ i, at_place r l i ∧ st_first s = Z.of_nat i + 1 ∧ ∀ j, at_place r l j → (i ≤ j)%nat;
  d_last : occurrences r l ≠ 0%nat →
    ∃ i, at_place r l i ∧ st_last s = Z.of_nat (length l) - Z.of_nat i ∧ ∀ j, at_place r l j → (j ≤ i)%nat
}.

Lemma describes_step r l a s :
  describes r l s →
  describes r (l ++ [a])
    (if is_model r a
     then {| st_count := st_count s + 1;
             st_first := if st_first s =? 0 then Z.of_nat (length l) + 1 else st_first s; st_last := 1 |}
     else {| st_count := st_count s; st_first := st_first s;
             st_last := if st_last s =? 0 then 0 else st_last s + 1 |}).
Proof.
  intros [Hc Hn Hf Hl]. destruct (is_model r a) eqn:E; split; cbn [st_count st_first st_last];
    rewrite occurrences_snoc, E.
  - lia.
  - lia.
  - intros _. destruct (decide (occurrences r l = 0%nat)) as [H0|H0].
    + destruct (Hn H0) as (-> & _ & Hno). exists (length l). rewrite Z.eqb_refl. split; [|split; [done|]].
      * apply at_place_snoc. auto.
      * intros j [Hj|[-> _]]%at_place_snoc; [by destruct (Hno j) | done].
    + destruct (Hf H0) as (i & Hi & -> & Hmin). exists i. rewrite (proj2 (Z.eqb_neq _ _)) by lia.
      split; [|split; [done|]]; [apply at_place_snoc; auto|].
      intros j [Hj|[-> _]]%at_place_snoc; [auto | apply at_place_bound in Hi; lia].
  - intros _. exists (length l). rewrite length_app. cbn [length]. split; [|split; [lia|]].
    + apply at_place_snoc. auto.
    + intros j [Hj|[-> _]]%at_place_snoc; [apply at_place_bound in Hj; lia | done].
  - lia.
  - rewrite Nat.add_0_r. intros H0. destruct (Hn H0) as (-> & -> & Hno). split; [done|]. split; [done|].
    intros i [Hi|[_ Hi]]%at_place_snoc; [by destruct (Hno i) | congruence].
  - rewrite Nat.add_0_r. intros H0. destruct (Hf H0) as (i & Hi & Hfi & Hmin). exists i.
    split; [apply at_place_snoc; auto|]. split; [done|]. intros j [Hj|[_ Hj]]%at_place_snoc; [auto | congruence].
  - rewrite Nat.add_0_r. intros H0. destruct (Hl H0) as (i & Hi & -> & Hmax). exists i.
    pose proof (at_place_bound _ _ _ Hi). rewrite (proj2 (Z.eqb_neq _ _)), length_app by lia. cbn [length].
    split; [apply at_place_snoc; auto|]. split; [lia|]. intros j [Hj|[_ Hj]]%at_place_snoc; [auto | congruence].
Qed.

Lemma stat_avps_from_ok r l : ∀ pre s,
  describes r pre s → describes r (pre ++ l) (stat_avps_from r l (Z.of_nat (length pre)) s).
Proof.
  induction l as [|a l IH]; intros pre s H; cbn [stat_avps_from]; [by rewrite app_nil_r|].
  apply (describes_step r pre a s), IH in H. rewrite <- app_assoc, length_app in H. cbn [length app] in H.
  by rewrite Nat2Z.inj_add in H.
Qed.

Lemma stat_avps_ok r l : describes r l (parserules_stat_avps r l).
Proof.
  apply (stat_avps_from_ok r l []). split; cbn; try done. intros _. split; [done|]. split; [done|].
  intros i (a & Ha & _). discriminate Ha.
Qed.

Lemma check_one_rule_ok l rule :
  (parserules_check_one_rule l rule = Ok tt ∧ obeys l rule)
  ∨ (∃ code, parserules_check_one_rule l rule = Err EBADMSG code) ∧ ¬ obeys l rule.
Proof.
  unfold parserules_check_one_rule, obeys. cbv zeta. set (r := rule_avp rule).
  destruct (stat_avps_ok r l) as [-> Hn Hf Hl].
  destruct (Z.ltb_spec (Z.of_nat (occurrences r l)) (effective_min rule)); [right; split; [eauto | lia]|].
  destruct (Z.eqb_spec (rule_max rule) (-1)) as [Hm|Hm]; cbn [negb andb];
    [|destruct (Z.ltb_spec (rule_max rule) (Z.of_nat (occurrences r l))); [right; split; [eauto | lia]|]];
    (destruct (rule_pos rule); [|left; split; [done | lia]..|];
     (destruct (decide (occurrences r l = 0%nat)) as [Ho|Ho];
      [destruct (Hn Ho) as (E1 & E2 & _); rewrite ?E1, ?E2, (proj2 (Z.ltb_ge _ _)) by lia; left; split; [done | lia]|])).
  1,3: destruct (Hf Ho) as (i & Hi & -> & Hmin);
    destruct (Z.ltb_spec (Z.of_N (rule_order rule)) (Z.of_nat i + 1));
    [right; split; [eauto|]; intros (_ & _ & [?|(j & Hj & ?)]); [done | specialize (Hmin j Hj); lia]
    | left; split; [done|]; split; [done|]; split; [lia|]; right; exists i; split; [done | lia]].
  all: destruct (Hl Ho) as (i & Hi & -> & Hmax);
    destruct (Z.ltb_spec (Z.of_N (rule_order rule)) (Z.of_nat (length l) - Z.of_nat i));
    [right; split; [eauto|]; intros (_ & _ & [?|(j & Hj & ?)]); [done | specialize (Hmax j Hj); lia]
    | left; split; [done|]; split; [done|]; split; [lia|]; right; exists i; split; [done | lia]].
Qed.

(** A check that passes exactly when [P] holds, and fails with EBADMSG. *)
Definition decides (r : result unit) (P : Prop) : Prop :=
  (r = Ok tt ∧ P) ∨ ((∃ code, r = Err EBADMSG code) ∧ ¬ P).

Lemma decides_iff r P : decides r P → (r = Ok tt ↔ P) ∧ (r = Ok tt ∨ ∃ code, r = Err EBADMSG code).
Proof. intros [[-> ?]|[[code ->] ?]]; (split; [|eauto]); split; done. Qed.

Lemma decides_and r s P Q : decides r P → decides s Q → decides (_ ← r; s) (P ∧ Q).
Proof. unfold decides. intros [[-> ?]|[[code ->] ?]] Hs; cbn; naive_solver. Qed.

Lemma decides_ext r P Q : (P ↔ Q) → decides r P → decides r Q.
Proof. unfold decides. tauto. Qed.

Lemma iterate_rules_ok rules l : decides (iterate_rules rules l) (Forall (obeys l) rules).
Proof.
  induction rules as [|rule rules IH]; cbn [iterate_rules]; [left; split; [done | constructor]|].
  eapply decides_ext; [symmetry; apply Forall_cons|]. apply decides_and; [apply check_one_rule_ok | done].
Qed.

Lemma parserules_unfold mandatory d children :
  parserules_do_avp mandatory (Avp d children) =
  let mand := mandatory && has_flag (avp_flags d) AVP_FLAG_MANDATORY in
  match avp_model d with
  | None => if mand then Err EBADMSG "DIAMETER_AVP_UNSUPPORTED" else mret tt
  | Some m =>
      if decide (dict_basetype m = AVP_TYPE_GROUPED) then
        _ ← parserules_children mand children; iterate_rules (avp_rules m) children
      else mret tt
  end.
Proof.
  cbn. destruct (avp_model d); [|done]. case_decide; [|done]. f_equal.
  induction children as [|a l IH]; cbn; [done|]. destruct (parserules_do_avp _ a); [apply IH | done..].
Qed.

Lemma children_ok mandatory l :
  Forall (λ a, ∀ mandatory, decides (parserules_do_avp mandatory a) (compliant mandatory a)) l →
  decides (parserules_children mandatory l) (Forall (compliant mandatory) l).
Proof.
  induction 1 as [|a l Ha _ IH]; cbn [parserules_children]; [left; split; [done | constructor]|].
  eapply decides_ext; [symmetry; apply Forall_cons|]. by apply decides_and.
Qed.

Lemma parserules_avp_ok a : ∀ mandatory, decides (parserules_do_avp mandatory a) (compliant mandatory a).
Proof.
  induction a as [d children IH] using avp_tree_ind. intros mandatory. rewrite parserules_unfold. cbv zeta.
  destruct (avp_model d) as [m|] eqn:Hm; [case_decide as Hg|].
  - eapply decides_ext; [|apply decides_and; [by apply children_ok | apply iterate_rules_ok]]. split.
    + intros [? ?]. by eapply compliant_group.
    + inversion 1; simplify_eq; done.
  - left. split; [done|]. by eapply compliant_value.
  - destruct (_ && _) eqn:E; [right | left; split; [done | by apply compliant_unknown]].
    split; [eauto|]. inversion 1; congruence.
Qed.

Lemma parserules_msg_ok m : decides (parserules_do_msg m) (compliant_msg m).
Proof.
  unfold parserules_do_msg, compliant_msg.
  assert (Hch : decides (parserules_children true (msg_children m)) (Forall (compliant true) (msg_children m))).
  { apply children_ok, Forall_forall. intros a _. apply parserules_avp_ok. }
  destruct (has_flag _ _); [by apply decides_and; [|apply iterate_rules_ok]|].
  destruct (msg_model m) as [data|]; cbn [fmap option_fmap option_map].
  - eapply decides_ext; [|apply decides_and; [exact Hch | apply (iterate_rules_ok (cmd_rules data))]]. naive_solver.
  - right. split; [eauto|]. by intros (_ & data & ? & _).
Qed.

(** C16: [parserules_do] on a message accepts exactly the messages that obey the
    rules of their command (of the error format, when the 'E' flag is set), in
    which every grouped AVP obeys its own rules and every mandatory AVP is
    known; otherwise it returns EBADMSG. *)
Theorem parserules_do_spec m :
  (parserules_do_msg m = Ok tt ↔ compliant_msg m)
  ∧ (parserules_do_msg m = Ok tt ∨ ∃ code, parserules_do_msg m = Err EBADMSG code).
Proof. apply decides_iff, parserules_msg_ok. Qed.

End Rules.
