(* ===== verification/FdParseError.v ===== *)
(** What is done with a message that the dictionary or the rules refuse
    (libfdcore/messages.c, [fd_msg_parse_or_error]): a request is answered with
    the error, an answer that reports an error is given to the application all
    the same, another one is dropped. *)

From stdpp Require Import base list strings.
From Stdlib Require Import ZArith Lia.
From S2P Require Import Prelude FdMessages FdWire FdParse FdRules.
Open Scope Z_scope.

Definition AC_RESULT_CODE : Z := 268.

Section ParseError.
Context {D : Dictionary} {R : RuleBook}.

(** [*msg], [*error] and the value returned; [PRefused] has the code of the
    error answer that was made.  [PRescued] is the message as it was received:
    what the parser did to it before the error is not kept (FdParse). *)
Inductive parse_outcome :=
| PAccepted (m : msg)
| PRefused (pei_errcode : string)
| PRescued (m : msg)
| PInvalid (m : msg)
| PFailed (e : errno).

(** The first Result-Code AVP of the message. *)
Definition result_code_avp (m : msg) : option avp :=
  head (filter (λ a, avp_code (data_of a) = AC_RESULT_CODE ∧ has_flag (avp_flags (data_of a)) AVP_FLAG_VENDOR = false)
               (msg_children m)).

(** Its value.  [fd_msg_parse_dict] returns no negative value: the test of its
    result never holds, and the value decides. *)
Definition result_code (fuel : nat) (m : msg) : result (option avp_value) :=
  match result_code_avp m with
  | None => mret None
  | Some a =>
      match parsedict_do_avp fuel false a with
      | Ok a => mret (avp_val (data_of a))
      | Err _ _ => mret (avp_val (data_of a))
      | Crash => Crash
      | NoFuel => NoFuel
      end
  end.

(** Whether a value of Result-Code has the message rescued: [u32 / 1000] is
    neither 1 nor 2.  An octet string has no member [u32]. *)
Definition rescues (v : avp_value) : result bool :=
  match v with
  | OctetString _ => Crash
  | Number bits => let rc := bits mod 2 ^ 32 in mret (negb ((rc / 1000 =? 1) || (rc / 1000 =? 2)))
  end.

Definition parse_failed (fuel : nat) (m : msg) (code : string) : result parse_outcome :=
  if has_flag (msg_flags (msg_public m)) CMD_FLAG_REQUEST then mret (PRefused code)
  else
    rc ← result_code fuel m;
    match rc with
    | None => mret (PInvalid m)
    | Some v => b ← rescues v; mret (if b : bool then PRescued m else PInvalid m)
    end.

Definition fd_msg_parse_or_error (fuel : nat) (m : msg) : result parse_outcome :=
  match fd_msg_parse_rules fuel m with
  | Ok m => mret (PAccepted m)
  | Err EBADMSG code | Err ENOTSUP code => parse_failed fuel m code
  | Err e _ => mret (PFailed e)
  | Crash => Crash
  | NoFuel => NoFuel
  end.

(** An answer of a command that the dictionary does not have, with an error as
    its result, comes out of the parser without a model. *)
Lemma unknown_answer_rescued fuel m a v :
  has_flag (msg_flags (msg_public m)) CMD_FLAG_REQUEST = false → msg_model m = None →
  cmd_by_code false (msg_code (msg_public m)) = None →
  result_code_avp m = Some a → parsedict_do_avp fuel false a = Ok v →
  (∃ bits, avp_val (data_of v) = Some (Number bits) ∧ 3000 ≤ bits < 2 ^ 32) →
  fd_msg_parse_or_error fuel m = Ok (PRescued m).
Proof.
  intros Hr Hm Hc Ha Hv (bits & Hb & H3).
  assert (fd_msg_parse_rules fuel m = Err ENOTSUP "DIAMETER_COMMAND_UNSUPPORTED") as E.
  { unfold fd_msg_parse_rules, parsedict_do_msg. rewrite Hm, Hr, Hc. by case_match. }
  unfold fd_msg_parse_or_error, parse_failed, result_code. rewrite E, Hr, Ha, Hv. cbn. rewrite Hb. cbn.
  rewrite Z.mod_small by lia.
  assert (3 ≤ bits / 1000) by (apply Z.div_le_lower_bound; lia).
  rewrite (proj2 (Z.eqb_neq _ 1)), (proj2 (Z.eqb_neq _ 2)) by lia. done.
Qed.
End ParseError.
