(* ===== verification/FdDictionary.v ===== *)
(** The dictionary of libfdproto (libfdproto/dictionary.c): its objects, their
    ordered lists, the searches, [fd_dict_new] and [fd_dict_delete].

    Objects live at addresses; a list is known by the address of its sentinel,
    the member [list[i]] of an object or one of the three sentinels of the
    dictionary, and holds the objects in order (FdList shows that the rings of
    the code do).  A freed or invalid address that is read is [Crash].  Callers
    pass NULL or addresses of live objects; memory allocation and the lock
    succeed. *)

From stdpp Require Import base list gmap strings.
From Stdlib Require Import ZArith Lia SpecFloat.
From S2P Require Import Prelude FdMessages.
Open Scope Z_scope.

(** * Objects *)

Abbreviation ref := positive.

(** The octets of a string, without its final NUL. *)
Abbreviation os0 := (list Z).

Inductive dict_object_type :=
| DICT_VENDOR | DICT_APPLICATION | DICT_TYPE | DICT_ENUMVAL | DICT_AVP | DICT_COMMAND | DICT_RULE.

#[export] Instance object_type_eq_dec : EqDecision dict_object_type.
Proof. solve_decision. Defined.

Record dict_vendor_data := { vendor_id : Z; vendor_name : os0 }.

Record dict_application_data := { application_id : Z; application_name : os0 }.

(** Callbacks are known by their addresses, except for the check, which is the
    function. *)
Record dict_type_data := {
  type_base : dict_avp_basetype;
  type_name : os0;
  type_interpret : option ref;
  type_encode : option ref;
  type_dump : option ref;
  type_check : option (avp_value → Z)
}.

Record dict_enumval_data := { enum_name : os0; enum_value : avp_value }.

Record dict_avp_data := {
  avp_code : Z;
  avp_vendor : Z;
  avp_name : os0;
  avp_flag_mask : Z;
  avp_flag_val : Z;
  avp_basetype : dict_avp_basetype
}.

Record dict_cmd_data := {
  cmd_code : Z;
  cmd_name : os0;
  cmd_flag_mask : Z;
  cmd_flag_val : Z
}.

Inductive rule_position := RULE_FIXED_HEAD | RULE_REQUIRED | RULE_OPTIONAL | RULE_FIXED_TAIL.

#[export] Instance rule_position_eq_dec : EqDecision rule_position.
Proof. solve_decision. Defined.

Record dict_rule_data := {
  rule_avp : option ref;
  rule_pos : rule_position;
  rule_order : N;
  rule_min : Z;
  rule_max : Z
}.

Inductive object_data :=
| VENDOR (v : dict_vendor_data)
| APPLICATION (a : dict_application_data)
| TYPE (t : dict_type_data)
| ENUMVAL (e : dict_enumval_data)
| AVP (a : dict_avp_data)
| COMMAND (c : dict_cmd_data)
| RULE (r : dict_rule_data).

Definition type_of (data : object_data) : dict_object_type :=
  match data with
  | VENDOR _ => DICT_VENDOR
  | APPLICATION _ => DICT_APPLICATION
  | TYPE _ => DICT_TYPE
  | ENUMVAL _ => DICT_ENUMVAL
  | AVP _ => DICT_AVP
  | COMMAND _ => DICT_COMMAND
  | RULE _ => DICT_RULE
  end.

(** The value of the enumeration, and the greatest one. *)
Definition type_index (t : dict_object_type) : nat :=
  match t with
  | DICT_VENDOR => 1 | DICT_APPLICATION => 2 | DICT_TYPE => 3 | DICT_ENUMVAL => 4
  | DICT_AVP => 5 | DICT_COMMAND => 6 | DICT_RULE => 7
  end.
Definition DICT_TYPE_MAX : nat := 7.

(** The address of a list: [&object->list[i]]. *)
Definition lid : Type := ref * nat.

(** [struct dict_object]: its data, its parent and the lists its links
    [list[0]] and [list[1]] are in. *)
Record dict_object := {
  data : object_data;
  parent : option ref;
  head0 : option lid;
  head1 : option lid
}.

(** [struct dictionary].  [brk]: addresses from it on were never used. *)
Record dictionary := {
  objs : gmap ref dict_object;
  lists : gmap lid (list ref);
  dict_count : list Z;
  brk : ref
}.

(** The members of the dictionary. *)
Definition dict_vendors : ref := 1.
Definition dict_applications : ref := 2.
Definition dict_cmd_error : ref := 3.
Definition dict_types : lid := (4%positive, 0%nat).
Definition dict_cmd_name : lid := (5%positive, 0%nat).
Definition dict_cmd_code : lid := (6%positive, 0%nat).

Definition vendors : lid := (dict_vendors, 0%nat).
Definition applications : lid := (dict_applications, 0%nat).

Definition list_at (d : dictionary) (L : lid) : list ref := default [] (lists d !! L).

Definition CMD_FLAG_REQUEST : Z := 0x80.
Definition CMD_FLAG_ERROR : Z := 0x20.
Definition CMD_FLAG_RETRANSMIT : Z := 0x10.

Definition ascii_octets (s : string) : os0 := map (λ c, Z.of_N (Ascii.N_of_ascii c)) (String.list_ascii_of_string s).

Definition sentinel (dat : object_data) : dict_object :=
  {| data := dat; parent := None; head0 := None; head1 := None |}.

Definition fd_dict_init : dictionary :=
  {| objs := <[dict_vendors := sentinel (VENDOR {| vendor_id := 0; vendor_name := ascii_octets "(no vendor)" |})]>
       (<[dict_applications := sentinel (APPLICATION
            {| application_id := 0; application_name := ascii_octets "Diameter Common Messages" |})]>
       {[dict_cmd_error := sentinel (COMMAND
            {| cmd_code := 0; cmd_name := ascii_octets "(generic error format)";
               cmd_flag_mask := Z.lor (Z.lor CMD_FLAG_ERROR CMD_FLAG_REQUEST) CMD_FLAG_RETRANSMIT;
               cmd_flag_val := CMD_FLAG_ERROR |})]});
     lists := ∅;
     dict_count := replicate (DICT_TYPE_MAX + 1) 0;
     brk := 7 |}.

(** * Comparisons *)

Definition ORDER_scalar (a b : Z) : Z := if a <? b then -1 else if b <? a then 1 else 0.

(** [memcmp] on as many octets as the first has. *)
Fixpoint memcmp (a b : os0) : Z :=
  match a, b with
  | x :: a, y :: b => if x =? y then memcmp a b else ORDER_scalar x y
  | _, _ => 0
  end.

(** [fd_os_cmp_int]. *)
Definition fd_os_cmp (a b : os0) : Z :=
  if (length a <? length b)%nat then -1
  else if (length b <? length a)%nat then 1
  else memcmp a b.

Definition i32 (bits : Z) : Z := (bits + 2 ^ 31) mod 2 ^ 32 - 2 ^ 31.
Definition i64 (bits : Z) : Z := (bits + 2 ^ 63) mod 2 ^ 64 - 2 ^ 63.

(** An IEEE 754 number with [m] bits of mantissa and [e] of exponent. *)
Definition float_of_bits (m e bits : Z) : spec_float :=
  let man := bits mod 2 ^ m in
  let exp := bits / 2 ^ m mod 2 ^ e in
  let s := Z.testbit bits (m + e) in
  if exp =? 0 then
    (if man =? 0 then S754_zero s else S754_finite s (Z.to_pos man) (2 - 2 ^ (e - 1) - m))
  else if exp =? 2 ^ e - 1 then (if man =? 0 then S754_infinity s else S754_nan)
  else S754_finite s (Z.to_pos (man + 2 ^ m)) (exp - (2 ^ (e - 1) - 1) - m).

Definition ORDER_float (a b : spec_float) : Z :=
  match SFcompare a b with Some Lt => -1 | Some Gt => 1 | _ => 0 end.

(** The comparison of values by base type; [None]: ASSERT(0), or a member that
    was not written. *)
Definition order_value (t : dict_avp_basetype) (a b : avp_value) : option Z :=
  match t, a, b with
  | AVP_TYPE_OCTETSTRING, OctetString a, OctetString b => Some (fd_os_cmp a b)
  | AVP_TYPE_INTEGER32, Number a, Number b => Some (ORDER_scalar (i32 a) (i32 b))
  | AVP_TYPE_INTEGER64, Number a, Number b => Some (ORDER_scalar (i64 a) (i64 b))
  | AVP_TYPE_UNSIGNED32, Number a, Number b => Some (ORDER_scalar (a mod 2 ^ 32) (b mod 2 ^ 32))
  | AVP_TYPE_UNSIGNED64, Number a, Number b => Some (ORDER_scalar (a mod 2 ^ 64) (b mod 2 ^ 64))
  | AVP_TYPE_FLOAT32, Number a, Number b => Some (ORDER_float (float_of_bits 23 8 a) (float_of_bits 23 8 b))
  | AVP_TYPE_FLOAT64, Number a, Number b => Some (ORDER_float (float_of_bits 52 11 a) (float_of_bits 52 11 b))
  | _, _, _ => None
  end.

(** How two objects of a list are compared. *)
Abbreviation order := (dictionary → dict_object → dict_object → option Z).

Definition order_vendor_by_id : order := λ _ o1 o2,
  match data o1, data o2 with
  | VENDOR v1, VENDOR v2 => Some (ORDER_scalar (vendor_id v1) (vendor_id v2))
  | _, _ => None
  end.

Definition order_appli_by_id : order := λ _ o1 o2,
  match data o1, data o2 with
  | APPLICATION a1, APPLICATION a2 => Some (ORDER_scalar (application_id a1) (application_id a2))
  | _, _ => None
  end.

Definition order_type_by_name : order := λ _ o1 o2,
  match data o1, data o2 with
  | TYPE t1, TYPE t2 => Some (fd_os_cmp (type_name t1) (type_name t2))
  | _, _ => None
  end.

Definition order_enum_by_name : order := λ _ o1 o2,
  match data o1, data o2 with
  | ENUMVAL e1, ENUMVAL e2 => Some (fd_os_cmp (enum_name e1) (enum_name e2))
  | _, _ => None
  end.

Definition order_enum_by_val : order := λ d o1 o2,
  match parent o1 ≫= λ p, objs d !! p, data o1, data o2 with
  | Some p, ENUMVAL e1, ENUMVAL e2 =>
      match data p with
      | TYPE t => order_value (type_base t) (enum_value e1) (enum_value e2)
      | _ => None
      end
  | _, _, _ => None
  end.

Definition order_avp_by_code : order := λ _ o1 o2,
  match data o1, data o2 with
  | AVP a1, AVP a2 => Some (ORDER_scalar (avp_code a1) (avp_code a2))
  | _, _ => None
  end.

Definition order_avp_by_name : order := λ _ o1 o2,
  match data o1, data o2 with
  | AVP a1, AVP a2 => Some (fd_os_cmp (avp_name a1) (avp_name a2))
  | _, _ => None
  end.

Definition order_cmd_by_name : order := λ _ o1 o2,
  match data o1, data o2 with
  | COMMAND c1, COMMAND c2 => Some (fd_os_cmp (cmd_name c1) (cmd_name c2))
  | _, _ => None
  end.

(** By code, requests first. *)
Definition order_cmd_by_codefl : order := λ _ o1 o2,
  match data o1, data o2 with
  | COMMAND c1, COMMAND c2 =>
      let cmp := ORDER_scalar (cmd_code c1) (cmd_code c2) in
      if negb (cmp =? 0) then Some cmp
      else Some (ORDER_scalar (Z.land (cmd_flag_val c2) CMD_FLAG_REQUEST) (Z.land (cmd_flag_val c1) CMD_FLAG_REQUEST))
  | _, _ => None
  end.

(** The AVP a rule refers to. *)
Definition avp_of_rule (d : dictionary) (o : dict_object) : option dict_avp_data :=
  match data o with
  | RULE r =>
      a ← rule_avp r ≫= λ p, objs d !! p;
      match data a with AVP a => Some a | _ => None end
  | _ => None
  end.

Definition order_rule_by_avpvc : order := λ d o1 o2,
  a1 ← avp_of_rule d o1; a2 ← avp_of_rule d o2;
  let cmp := ORDER_scalar (avp_vendor a1) (avp_vendor a2) in
  if negb (cmp =? 0) then Some cmp else Some (ORDER_scalar (avp_code a1) (avp_code a2)).

(** * Searches *)

(** A pointer to where a result goes: [None] is NULL, [Some old] a variable with
    its content. *)
Definition slot : Type := option (option ref).

(** The value returned, [None] for 0, and the slot. *)
Definition answer : Type := option errno * slot.

Definition deliver (o : option ref) (s : slot) : slot := match s with Some _ => Some o | None => None end.

Definition found (x : ref) (s : slot) : answer := (None, deliver (Some x) s).

Definition not_found (s : slot) : answer :=
  match s with Some _ => (None, Some None) | None => (Some ENOENT, None) end.

Definition EINVALID (s : slot) : result answer := Ok (Some EINVAL, s).

Definition object (d : dictionary) (x : ref) : result dict_object :=
  match objs d !! x with Some o => Ok o | None => Crash end.

(** [verify_object] on an argument, and its type. *)
Definition verify_object (d : dictionary) (x : option ref) (t : dict_object_type) : bool :=
  match x ≫= λ p, objs d !! p with Some o => bool_decide (type_of (data o) = t) | None => false end.

(** The loop of SEARCH_os0_l, SEARCH_os, SEARCH_scalar and SEARCH_ruleavpname,
    with [__cmp] for the object at hand. *)
Fixpoint search_list (d : dictionary) (cmp : dict_object → option Z) (isindex : bool) (l : list ref)
    : result (option ref) :=
  match l with
  | [] => mret None
  | x :: l =>
      o ← object d x;
      match cmp o with
      | None => Crash
      | Some c =>
          if c =? 0 then mret (Some x)
          else if isindex && (c <? 0) then mret None
          else search_list d cmp isindex l
      end
  end.

Definition SEARCH (d : dictionary) (cmp : dict_object → option Z) (isindex : bool) (l : list ref) (s : slot)
    : result answer :=
  x ← search_list d cmp isindex l;
  mret (match x with Some x => found x s | None => not_found s end).

(** The loop of SEARCH_codefl. *)
Fixpoint search_codefl (d : dictionary) (value R_flag_val : Z) (l : list ref) : result (option ref) :=
  match l with
  | [] => mret None
  | x :: l =>
      o ← object d x;
      match data o with
      | COMMAND c =>
          let cmp := ORDER_scalar value (cmd_code c) in
          if cmp =? 0 then
            if Z.land (cmd_flag_mask c) CMD_FLAG_REQUEST =? 0 then search_codefl d value R_flag_val l
            else if negb (Z.land (cmd_flag_val c) CMD_FLAG_REQUEST =? R_flag_val)
            then search_codefl d value R_flag_val l
            else mret (Some x)
          else if cmp <? 0 then mret None
          else search_codefl d value R_flag_val l
      | _ => Crash
      end
  end.

(** SEARCH_childs_parent. *)
Definition SEARCH_childs_parent (d : dictionary) (what : option ref) (t : dict_object_type)
    (default_parent : option ref) (s : slot) : result answer :=
  if verify_object d what t then
    match what ≫= λ p, objs d !! p with
    | Some o => Ok (None, deliver (match parent o with Some p => Some p | None => default_parent end) s)
    | None => Crash
    end
  else EINVALID s.

(** ** Vendors *)

Inductive vendor_criteria :=
| VENDOR_BY_ID (id : Z)
| VENDOR_BY_NAME (name : os0)
| VENDOR_OF_APPLICATION (what : option ref)
| VENDOR_OF_AVP (what : option ref).

Definition vendor_id_cmp (id : Z) (o : dict_object) : option Z :=
  match data o with VENDOR v => Some (ORDER_scalar id (vendor_id v)) | _ => None end.
Definition vendor_name_cmp (name : os0) (o : dict_object) : option Z :=
  match data o with VENDOR v => Some (fd_os_cmp name (vendor_name v)) | _ => None end.

Definition search_vendor (d : dictionary) (criteria : vendor_criteria) (s : slot) : result answer :=
  match criteria with
  | VENDOR_BY_ID id =>
      o ← object d dict_vendors;
      if decide (vendor_id_cmp id o = Some 0) then Ok (found dict_vendors s)
      else SEARCH d (vendor_id_cmp id) true (list_at d vendors) s
  | VENDOR_BY_NAME name => SEARCH d (vendor_name_cmp name) false (list_at d vendors) s
  | VENDOR_OF_APPLICATION what => SEARCH_childs_parent d what DICT_APPLICATION (Some dict_vendors) s
  | VENDOR_OF_AVP what =>
      (* SEARCH_sentinel: the object whose member list[1] the AVP is linked to *)
      if verify_object d what DICT_AVP then
        match what ≫= λ p, objs d !! p with
        | Some o => Ok (None, deliver (fst <$> head0 o) s)
        | None => Crash
        end
      else EINVALID s
  end.

(** ** Applications *)

Inductive application_criteria :=
| APPLICATION_BY_ID (id : Z)
| APPLICATION_BY_NAME (name : os0)
| APPLICATION_OF_TYPE (what : option ref)
| APPLICATION_OF_COMMAND (what : option ref).

Definition appli_id_cmp (id : Z) (o : dict_object) : option Z :=
  match data o with APPLICATION a => Some (ORDER_scalar id (application_id a)) | _ => None end.
Definition appli_name_cmp (name : os0) (o : dict_object) : option Z :=
  match data o with APPLICATION a => Some (fd_os_cmp name (application_name a)) | _ => None end.

Definition search_application (d : dictionary) (criteria : application_criteria) (s : slot) : result answer :=
  match criteria with
  | APPLICATION_BY_ID id =>
      o ← object d dict_applications;
      if decide (appli_id_cmp id o = Some 0) then Ok (found dict_applications s)
      else SEARCH d (appli_id_cmp id) true (list_at d applications) s
  | APPLICATION_BY_NAME name => SEARCH d (appli_name_cmp name) false (list_at d applications) s
  | APPLICATION_OF_TYPE what => SEARCH_childs_parent d what DICT_TYPE (Some dict_applications) s
  | APPLICATION_OF_COMMAND what => SEARCH_childs_parent d what DICT_COMMAND (Some dict_applications) s
  end.

(** ** Types and their constants *)

Inductive type_criteria :=
| TYPE_BY_NAME (name : os0)
| TYPE_OF_ENUMVAL (what : option ref)
| TYPE_OF_AVP (what : option ref).

Definition type_name_cmp (name : os0) (o : dict_object) : option Z :=
  match data o with TYPE t => Some (fd_os_cmp name (type_name t)) | _ => None end.

Definition search_type (d : dictionary) (criteria : type_criteria) (s : slot) : result answer :=
  match criteria with
  | TYPE_BY_NAME name => SEARCH d (type_name_cmp name) true (list_at d dict_types) s
  | TYPE_OF_ENUMVAL what => SEARCH_childs_parent d what DICT_ENUMVAL None s
  | TYPE_OF_AVP what => SEARCH_childs_parent d what DICT_AVP None s
  end.

(** [struct dict_enumval_request]. *)
Record dict_enumval_request := {
  type_obj : option ref;
  req_type_name : option os0;
  search_name : option os0;
  search_value : avp_value
}.

Definition enum_name_cmp (name : os0) (o : dict_object) : option Z :=
  match data o with ENUMVAL e => Some (fd_os_cmp name (enum_name e)) | _ => None end.
Definition enum_value_cmp (t : dict_avp_basetype) (v : avp_value) (o : dict_object) : option Z :=
  match data o with ENUMVAL e => order_value t v (enum_value e) | _ => None end.

(** ENUMVAL_BY_STRUCT.  A type name that is not found leaves [parent] NULL, which
    is then dereferenced. *)
Definition search_enumval (d : dictionary) (what : dict_enumval_request) (s : slot) : result answer :=
  let search (parent : ref) : result answer :=
    p ← object d parent;
    match search_name what with
    | Some name => SEARCH d (enum_name_cmp name) true (list_at d (parent, 1%nat)) s
    | None =>
        match data p with
        | TYPE t =>
            if decide (type_base t = AVP_TYPE_GROUPED) then EINVALID s
            else SEARCH d (enum_value_cmp (type_base t) (search_value what)) true (list_at d (parent, 2%nat)) s
        | _ => Crash
        end
    end in
  match type_obj what, req_type_name what with
  | None, None => EINVALID s
  | Some t, _ => if verify_object d (Some t) DICT_TYPE then search t else EINVALID s
  | None, Some name =>
      '(ret, parent) ← search_type d (TYPE_BY_NAME name) (Some None);
      match ret, parent with
      | Some _, _ => EINVALID s
      | None, Some (Some parent) => search parent
      | None, _ => Crash
      end
  end.

(** ** AVPs *)

(** [struct dict_avp_request_ex]: an id or a code that is 0 and NULL are not
    set. *)
Record dict_avp_request_ex := {
  req_vendor : option ref;
  req_vendor_id : Z;
  req_vendor_name : option os0;
  req_avp_code : Z;
  req_avp_name : option os0
}.

Inductive avp_criteria :=
| AVP_BY_CODE (code : Z)
| AVP_BY_NAME (name : os0)
| AVP_BY_NAME_ALL_VENDORS (name : os0)
| AVP_BY_STRUCT (what : dict_avp_request_ex)
| AVP_BY_CODE_AND_VENDOR (vendor code : Z)
| AVP_BY_NAME_AND_VENDOR (vendor : Z) (name : option os0).

Definition avp_code_cmp (code : Z) (o : dict_object) : option Z :=
  match data o with AVP a => Some (ORDER_scalar code (avp_code a)) | _ => None end.
Definition avp_name_cmp (name : os0) (o : dict_object) : option Z :=
  match data o with AVP a => Some (fd_os_cmp name (avp_name a)) | _ => None end.

(** The search in the lists of a vendor that was found. *)
Definition in_vendor (ret : answer) (s : slot) (f : ref → result answer) : result answer :=
  match ret with
  | (Some e, _) => Ok (Some e, s)
  | (None, Some (Some v)) => f v
  | (None, _) => Ok (not_found s)
  end.

(** The loop of AVP_BY_NAME_ALL_VENDORS over the vendors. *)
Fixpoint search_all_vendors (d : dictionary) (name : os0) (l : list ref) (s : slot) (last : answer)
    : result answer :=
  match l with
  | [] => Ok last
  | v :: l =>
      x ← search_list d (avp_name_cmp name) true (list_at d (v, 2%nat));
      match x with
      | Some x => Ok (found x s)
      | None => search_all_vendors d name l s (not_found s)
      end
  end.

Definition search_avp (d : dictionary) (criteria : avp_criteria) (s : slot) : result answer :=
  match criteria with
  | AVP_BY_CODE code => SEARCH d (avp_code_cmp code) true (list_at d (dict_vendors, 1%nat)) s
  | AVP_BY_NAME name => SEARCH d (avp_name_cmp name) true (list_at d (dict_vendors, 2%nat)) s
  | AVP_BY_CODE_AND_VENDOR vendor code =>
      ret ← search_vendor d (VENDOR_BY_ID vendor) (Some None);
      in_vendor ret s (λ v, SEARCH d (avp_code_cmp code) true (list_at d (v, 1%nat)) s)
  | AVP_BY_NAME_AND_VENDOR vendor name =>
      match name with
      | None => EINVALID s
      | Some name =>
          ret ← search_vendor d (VENDOR_BY_ID vendor) (Some None);
          in_vendor ret s (λ v, SEARCH d (avp_name_cmp name) true (list_at d (v, 2%nat)) s)
      end
  | AVP_BY_STRUCT what =>
      if bool_decide (req_vendor what = None) && (req_vendor_id what =? 0)
         && bool_decide (req_vendor_name what = None) then EINVALID s
      else if (req_avp_code what =? 0) && bool_decide (req_avp_name what = None) then EINVALID s
      else
        ret ←
          match req_vendor what, req_vendor_name what with
          | Some v, name =>
              if (req_vendor_id what =? 0) && bool_decide (name = None)
              then Ok (None, Some (Some v)) else EINVALID (Some None)
          | None, name =>
              if req_vendor_id what =? 0
              then match name with
                   | Some name => search_vendor d (VENDOR_BY_NAME name) (Some None)
                   | None => Crash
                   end
              else match name with
                   | None => search_vendor d (VENDOR_BY_ID (req_vendor_id what)) (Some None)
                   | Some _ => EINVALID (Some None)
                   end
          end;
        in_vendor ret s (λ v,
          if req_avp_code what =? 0 then
            match req_avp_name what with
            | Some name => SEARCH d (avp_name_cmp name) true (list_at d (v, 2%nat)) s
            | None => Crash
            end
          else
            match req_avp_name what with
            | None => SEARCH d (avp_code_cmp (req_avp_code what)) true (list_at d (v, 1%nat)) s
            | Some _ => EINVALID s
            end)
  | AVP_BY_NAME_ALL_VENDORS name =>
      x ← search_list d (avp_name_cmp name) true (list_at d (dict_vendors, 2%nat));
      match x with
      | Some x => Ok (found x s)
      | None => search_all_vendors d name (list_at d vendors) s (not_found s)
      end
  end.

(** ** Commands *)

Inductive cmd_criteria :=
| CMD_BY_NAME (name : os0)
| CMD_BY_CODE_R (code : Z)
| CMD_BY_CODE_A (code : Z)
| CMD_ANSWER (what : option ref).

Definition cmd_name_cmp (name : os0) (o : dict_object) : option Z :=
  match data o with COMMAND c => Some (fd_os_cmp name (cmd_name c)) | _ => None end.

(** The element behind another one in a list. *)
Fixpoint next_of (x : ref) (l : list ref) : option ref :=
  match l with
  | [] => None
  | y :: l => if decide (x = y) then head l else next_of x l
  end.

(** An answer to the request [c]. *)
Definition answers (c a : dict_cmd_data) : bool :=
  (cmd_code a =? cmd_code c) && negb (Z.land (cmd_flag_mask a) CMD_FLAG_REQUEST =? 0)
  && (Z.land (cmd_flag_val a) CMD_FLAG_REQUEST =? 0).

Definition search_cmd (d : dictionary) (criteria : cmd_criteria) (s : slot) : result answer :=
  match criteria with
  | CMD_BY_NAME name => SEARCH d (cmd_name_cmp name) true (list_at d dict_cmd_name) s
  | CMD_BY_CODE_R code =>
      x ← search_codefl d code CMD_FLAG_REQUEST (list_at d dict_cmd_code);
      mret (match x with Some x => found x s | None => not_found s end)
  | CMD_BY_CODE_A code =>
      x ← search_codefl d code 0 (list_at d dict_cmd_code);
      mret (match x with Some x => found x s | None => not_found s end)
  | CMD_ANSWER what =>
      match what ≫= λ p, (p,.) <$> objs d !! p with
      | None => EINVALID s
      | Some (x, o) =>
          match data o with
          | COMMAND c =>
              if (Z.land (cmd_flag_mask c) CMD_FLAG_REQUEST =? 0) || (Z.land (cmd_flag_val c) CMD_FLAG_REQUEST =? 0)
              then EINVALID s
              else
                match head1 o ≫= λ L, next_of x (list_at d L) with
                | None => Ok (Some ENOENT, s)
                | Some y =>
                    a ← object d y;
                    match data a with
                    | COMMAND a => if answers c a then Ok (found y s) else Ok (Some ENOENT, s)
                    | _ => Crash
                    end
                end
          | _ => EINVALID s
          end
      end
  end.

(** ** Rules *)

Definition grouped (o : dict_object) : bool :=
  match data o with
  | COMMAND _ => true
  | AVP a => bool_decide (avp_basetype a = AVP_TYPE_GROUPED)
  | _ => false
  end.

(** RULE_BY_AVP_AND_PARENT. *)
Definition search_rule (d : dictionary) (rule_parent rule_avp : option ref) (s : slot) : result answer :=
  match rule_parent ≫= λ p, (p,.) <$> objs d !! p, rule_avp ≫= λ p, objs d !! p with
  | Some (p, po), Some a =>
      match grouped po, data a with
      | true, AVP a =>
          SEARCH d (λ o, fd_os_cmp (avp_name a) ∘ avp_name <$> avp_of_rule d o) false (list_at d (p, 2%nat)) s
      | _, _ => EINVALID s
      end
  | _, _ => EINVALID s
  end.

(** ** [fd_dict_search] *)

Inductive request :=
| R_VENDOR (c : vendor_criteria)
| R_APPLICATION (c : application_criteria)
| R_TYPE (c : type_criteria)
| R_ENUMVAL (what : dict_enumval_request)
| R_AVP (c : avp_criteria)
| R_COMMAND (c : cmd_criteria)
| R_RULE (rule_parent rule_avp : option ref).

Definition search_fct (d : dictionary) (r : request) : slot → result answer :=
  match r with
  | R_VENDOR c => search_vendor d c
  | R_APPLICATION c => search_application d c
  | R_TYPE c => search_type d c
  | R_ENUMVAL what => search_enumval d what
  | R_AVP c => search_avp d c
  | R_COMMAND c => search_cmd d c
  | R_RULE p a => search_rule d p a
  end.

Definition fd_dict_search (d : dictionary) (r : request) (s : slot) (retval : option errno) : result answer :=
  '(ret, s) ← search_fct d r s;
  mret (if decide (s = Some None) then retval else ret, s).

(** The criteria of [fd_dict_getlistof], with their parents. *)
Inductive list_criteria :=
| L_VENDOR_BY_ID | L_APPLICATION_BY_ID | L_TYPE_BY_NAME | L_CMD_BY_NAME | L_CMD_BY_CODE_R
| L_ENUMVAL_BY_NAME (t : option ref) | L_ENUMVAL_BY_VALUE (t : option ref)
| L_AVP_BY_NAME (v : option ref) | L_AVP_BY_CODE (v : option ref)
| L_RULE_BY_AVP_AND_PARENT (p : option ref).

Definition fd_dict_getlistof (d : dictionary) (criteria : list_criteria) : errno + lid :=
  let at_object (x : option ref) (t : dict_object_type) (i : nat) : errno + lid :=
    match x with
    | Some p => if verify_object d x t then inr (p, i) else inl EINVAL
    | None => inl EINVAL
    end in
  match criteria with
  | L_VENDOR_BY_ID => inr vendors
  | L_APPLICATION_BY_ID => inr applications
  | L_TYPE_BY_NAME => inr dict_types
  | L_CMD_BY_NAME => inr dict_cmd_name
  | L_CMD_BY_CODE_R => inr dict_cmd_code
  | L_ENUMVAL_BY_NAME t => at_object t DICT_TYPE 1%nat
  | L_ENUMVAL_BY_VALUE t => at_object t DICT_TYPE 2%nat
  | L_AVP_BY_NAME v => at_object v DICT_VENDOR 2%nat
  | L_AVP_BY_CODE v => at_object v DICT_VENDOR 1%nat
  | L_RULE_BY_AVP_AND_PARENT p =>
      match p ≫= λ p, (p,.) <$> objs d !! p with
      | Some (p, o) => if grouped o then inr (p, 2%nat) else inl EINVAL
      | None => inl EINVAL
      end
  end.

(** [fd_dict_iterate_rules]: the rules it gives to the callback, until that
    returns an error. *)
Definition rules_of (d : dictionary) (p : ref) : list dict_rule_data :=
  omap (λ x, match objs d !! x with
             | Some o => match data o with RULE r => Some r | _ => None end
             | None => None
             end) (list_at d (p, 2%nat)).

(** [fd_dict_get_vendorid_list]; [Crash] where the ASSERT fails. *)
Definition fd_dict_get_vendorid_list (d : dictionary) : result (list Z) :=
  let l := list_at d vendors in
  let count := default 0 (dict_count d !! type_index DICT_VENDOR) in
  if count <? Z.of_nat (length l) then Crash
  else
    mret (omap (λ x, match objs d !! x with
                     | Some o => match data o with VENDOR v => Some (vendor_id v) | _ => None end
                     | None => None
                     end) l ++ replicate (Z.to_nat (count + 1) - length l) 0).

(** * New objects *)

(** [haslist[i]]: the member [list[i]] links the object; it is a sentinel
    otherwise. *)
Definition haslist (t : dict_object_type) (i : nat) : bool :=
  match t, i with
  | _, 0%nat => true
  | (DICT_ENUMVAL | DICT_AVP | DICT_COMMAND), 1%nat => true
  | _, _ => false
  end.

(** The check of the parameter [parent]. *)
Definition parent_ok (d : dictionary) (dat : object_data) (parent : option ref) : bool :=
  let may (t : dict_object_type) := bool_decide (parent = None) || verify_object d parent t in
  match dat with
  | VENDOR _ => bool_decide (parent = None)
  | APPLICATION _ => may DICT_VENDOR
  | TYPE _ => may DICT_APPLICATION
  | AVP _ => may DICT_TYPE
  | COMMAND _ => may DICT_APPLICATION
  | ENUMVAL _ => verify_object d parent DICT_TYPE
  | RULE _ => match parent ≫= λ p, objs d !! p with Some o => grouped o | None => false end
  end.

Definition base_of (d : dictionary) (x : ref) : option dict_avp_basetype :=
  match objs d !! x with
  | Some o => match data o with TYPE t => Some (type_base t) | _ => None end
  | None => None
  end.

(** The other checks; the vendor of an AVP. *)
Definition check_data (d : dictionary) (dat : object_data) (parent : option ref) : result (bool * option ref) :=
  match dat with
  | AVP a =>
      '(ret, vendor) ← fd_dict_search d (R_VENDOR (VENDOR_BY_ID (avp_vendor a))) (Some None) (Some ENOENT);
      match ret, vendor with
      | None, Some (Some v) =>
          mret (match parent with
                | Some p => bool_decide (base_of d p = Some (avp_basetype a))
                | None => true
                end, Some v)
      | _, _ => mret (false, None)
      end
  | RULE r => mret (verify_object d (rule_avp r) DICT_AVP, None)
  | COMMAND c => mret (negb (Z.land (cmd_flag_mask c) CMD_FLAG_REQUEST =? 0), None)
  | VENDOR v => mret (negb (vendor_id v =? 0), None)
  | APPLICATION a => mret (negb (application_id a =? 0), None)
  | TYPE _ | ENUMVAL _ => mret (true, None)
  end.

(** Where an object is linked: the lists, the links and the orders. *)
Definition places (dat : object_data) (parent vendor : option ref) : list (lid * nat * order) :=
  match dat, parent, vendor with
  | VENDOR _, _, _ => [(vendors, 0%nat, order_vendor_by_id)]
  | APPLICATION _, _, _ => [(applications, 0%nat, order_appli_by_id)]
  | TYPE _, _, _ => [(dict_types, 0%nat, order_type_by_name)]
  | ENUMVAL _, Some p, _ => [((p, 1%nat), 0%nat, order_enum_by_name); ((p, 2%nat), 1%nat, order_enum_by_val)]
  | AVP _, _, Some v => [((v, 1%nat), 0%nat, order_avp_by_code); ((v, 2%nat), 1%nat, order_avp_by_name)]
  | COMMAND _, _, _ => [(dict_cmd_code, 1%nat, order_cmd_by_codefl); (dict_cmd_name, 0%nat, order_cmd_by_name)]
  | RULE _, Some p, _ => [((p, 2%nat), 0%nat, order_rule_by_avpvc)]
  | _, _, _ => []
  end.

(** [fd_list_insert_ordered] on the objects of a list: the object with the same
    key, or the list with [x]. *)
Fixpoint insert_ordered (d : dictionary) (ord : order) (x : ref) (o : dict_object) (l : list ref)
    : result (ref + list ref) :=
  match l with
  | [] => mret (inr [x])
  | y :: l' =>
      oy ← object d y;
      match ord d o oy with
      | None => Crash
      | Some c =>
          if c =? 0 then mret (inl y)
          else if c <? 0 then mret (inr (x :: l))
          else
            r ← insert_ordered d ord x o l';
            mret (match r with inl y => inl y | inr l' => inr (y :: l') end)
      end
  end.

Definition set_head (i : nat) (L : option lid) (o : dict_object) : dict_object :=
  match i with
  | 0%nat => {| data := data o; parent := parent o; head0 := L; head1 := head1 o |}
  | _ => {| data := data o; parent := parent o; head0 := head0 o; head1 := L |}
  end.

Definition with_objs (objs : gmap ref dict_object) (d : dictionary) : dictionary :=
  {| objs := objs; lists := lists d; dict_count := dict_count d; brk := brk d |}.

Definition with_list (L : lid) (l : list ref) (d : dictionary) : dictionary :=
  {| objs := objs d; lists := <[L := l]> (lists d); dict_count := dict_count d; brk := brk d |}.

Definition count_by (t : dict_object_type) (n : Z) (d : dictionary) : dictionary :=
  {| objs := objs d; lists := lists d;
     dict_count := alter (λ c, c + n) (type_index t) (dict_count d); brk := brk d |}.

(** The object [x] is linked at its places, the duplicate or the dictionary. A
    first link is undone when the second fails. *)
Fixpoint link_at (ps : list (lid * nat * order)) (x : ref) (d : dictionary) : result (ref + dictionary) :=
  match ps with
  | [] => mret (inr d)
  | (L, i, ord) :: ps =>
      o ← object d x;
      r ← insert_ordered d ord x o (list_at d L);
      match r with
      | inl y => mret (inl y)
      | inr l => link_at ps x (with_list L l (with_objs (<[x := set_head i (Some L) o]> (objs d)) d))
      end
  end.

(** Whether the rules' minima conflict. *)
Definition min_conflict (p : rule_position) (r1 r2 : Z) : bool :=
  negb (r1 =? r2)
  && ((negb (r1 =? -1) && negb (r2 =? -1))
      || (bool_decide (p = RULE_OPTIONAL) && negb (r1 =? 0) && negb (r2 =? 0))
      || (negb (r1 =? 1) && negb (r2 =? 1))).

Definition fixed (p : rule_position) : bool := bool_decide (p = RULE_FIXED_HEAD) || bool_decide (p = RULE_FIXED_TAIL).

Definition same_cb (new old : option ref) : bool := bool_decide (new = None) || bool_decide (old = new).

(** Whether the object with the same key is the same as the new one; [None]:
    the comparison cannot be made. *)
Definition same_object (d : dictionary) (old new : dict_object) : option bool :=
  match data old, data new with
  | VENDOR o, VENDOR n => Some (fd_os_cmp (vendor_name o) (vendor_name n) =? 0)
  | APPLICATION o, APPLICATION n => Some (fd_os_cmp (application_name o) (application_name n) =? 0)
  | TYPE o, TYPE n =>
      Some (bool_decide (type_base o = type_base n) && same_cb (type_interpret n) (type_interpret o)
            && same_cb (type_encode n) (type_encode o) && same_cb (type_dump n) (type_dump o))
  | ENUMVAL _, ENUMVAL _ =>
      c ← order_enum_by_name d old new;
      if c =? 0 then v ← order_enum_by_val d old new; Some (v =? 0) else Some false
  | AVP o, AVP n =>
      Some ((ORDER_scalar (avp_code o) (avp_code n) =? 0) && (fd_os_cmp (avp_name o) (avp_name n) =? 0)
            && (avp_vendor o =? avp_vendor n) && (avp_flag_mask o =? avp_flag_mask n)
            && (Z.land (avp_flag_val o) (avp_flag_mask o) =? Z.land (avp_flag_val n) (avp_flag_mask n))
            && bool_decide (avp_basetype o = avp_basetype n))
  | COMMAND o, COMMAND n =>
      Some ((fd_os_cmp (cmd_name o) (cmd_name n) =? 0) && (cmd_code o =? cmd_code n)
            && (cmd_flag_mask o =? cmd_flag_mask n)
            && (Z.land (cmd_flag_val o) (cmd_flag_mask o) =? Z.land (cmd_flag_val n) (cmd_flag_mask n)))
  | RULE o, RULE n =>
      Some (bool_decide (rule_pos o = rule_pos n)
            && negb (fixed (rule_pos o) && negb (N.eqb (rule_order o) (rule_order n)))
            && negb (min_conflict (rule_pos o) (rule_min o) (rule_min n)) && (rule_max o =? rule_max n))
  | _, _ => None
  end.

(** The log of an error dumps the data: a constant with the type of its parent, a
    rule with the name of its AVP. *)
Definition can_dump (d : dictionary) (dat : object_data) (parent : option ref) : bool :=
  match dat with
  | ENUMVAL _ => verify_object d parent DICT_TYPE
  | RULE r => verify_object d (rule_avp r) DICT_AVP
  | _ => true
  end.

(** The value returned, what is stored in [*ref], and the dictionary. *)
Definition fd_dict_new (d : dictionary) (dat : object_data) (par : option ref)
    : result (option errno * option ref * dictionary) :=
  let fail (e : errno) (r : option ref) :=
    if can_dump d dat par then Ok (Some e, r, d) else Crash in
  if negb (parent_ok d dat par) then fail EINVAL None
  else
    '(ok, vendor) ← check_data d dat par;
    if negb ok then fail EINVAL None
    else
      let x := brk d in
      let new := {| data := dat; parent := par; head0 := None; head1 := None |} in
      let d' := {| objs := <[x := new]> (objs d); lists := lists d; dict_count := dict_count d;
                   brk := Pos.succ (brk d) |} in
      r ← link_at (places dat par vendor) x d';
      match r with
      | inr d' => Ok (None, Some x, count_by (type_of dat) 1 d')
      | inl y =>
          old ← object d' y;
          match same_object d' old new with
          | None => Crash
          | Some true => Ok (None, Some y, d)
          | Some false => fail EEXIST (Some y)
          end
      end.

(** * Deletion *)

Definition remove_from (L : option lid) (x : ref) (d : dictionary) : dictionary :=
  match L with
  | Some L => with_list L (filter (λ y, y ≠ x) (list_at d L)) d
  | None => d
  end.

(** [destroy_object]; what has no object of its own cannot be freed. *)
Definition destroy_object (x : ref) (o : dict_object) (d : dictionary) : result dictionary :=
  if bool_decide (x ∈ [dict_vendors; dict_applications; dict_cmd_error]) then Crash
  else
    let d := count_by (type_of (data o)) (-1) d in
    let d := remove_from (head0 o) x d in
    let d := remove_from (head1 o) x d in
    Ok (with_objs (delete x (objs d)) d).

(** A list the object is the sentinel of has elements. *)
Definition has_children (d : dictionary) (x : ref) (o : dict_object) : bool :=
  existsb (λ i, negb (haslist (type_of (data o)) i) && negb (bool_decide (list_at d (x, i) = [])))
    [0; 1; 2]%nat.

Definition fd_dict_delete (d : dictionary) (x : ref) : result (option errno * dictionary) :=
  match objs d !! x with
  | None => Ok (Some EINVAL, d)
  | Some o =>
      if has_children d x o then Ok (Some EINVAL, d)
      else d' ← destroy_object x o d; Ok (None, d')
  end.
