(* ===== verification/FdDictInv.v ===== *)
(** The invariant of the dictionary: what its lists hold, and that they are
    ordered.  [fd_dict_init] establishes it, [fd_dict_new] keeps it on every
    path, and [fd_dict_delete] keeps it unless another object refers to the one
    that is deleted. *)

From stdpp Require Import base list gmap strings sorting.
From Stdlib Require Import ZArith Lia.
From S2P Require Import Prelude FdMessages FdDictionary.
Open Scope Z_scope.

(** * Keys *)

(** All orders of the dictionary are the lexicographic order of keys. *)
Fixpoint lex (a b : list Z) : Z :=
  match a, b with
  | [], [] => 0
  | [], _ => -1
  | _, [] => 1
  | x :: a, y :: b => if x <? y then -1 else if y <? x then 1 else lex a b
  end.

Lemma lex_eq a : ∀ b, lex a b = 0 ↔ a = b.
Proof.
  induction a as [|x a IH]; intros [|y b]; cbn; try done.
  destruct (Z.ltb_spec x y), (Z.ltb_spec y x); try (split; [done | intros; simplify_eq; lia]).
  rewrite IH. split; [intros ->; f_equal; lia | by intros [= _ ->]].
Qed.

Lemma lex_refl a : lex a a = 0.
Proof. by apply lex_eq. Qed.

Lemma lex_flip a : ∀ b, lex a b < 0 ↔ 0 < lex b a.
Proof.
  induction a as [|x a IH]; intros [|y b]; cbn; try lia.
  destruct (Z.ltb_spec x y), (Z.ltb_spec y x); try lia. apply IH.
Qed.

Lemma lex_trans a : ∀ b c, lex a b < 0 → lex b c < 0 → lex a c < 0.
Proof.
  induction a as [|x a IH]; intros [|y b] [|z c]; cbn; try lia.
  destruct (Z.ltb_spec x y), (Z.ltb_spec y x), (Z.ltb_spec y z), (Z.ltb_spec z y), (Z.ltb_spec x z), (Z.ltb_spec z x);
    try lia. apply IH.
Qed.

Definition os_key (s : os0) : list Z := Z.of_nat (length s) :: s.

Lemma memcmp_lex a : ∀ b, length a = length b → memcmp a b = lex a b.
Proof.
  induction a as [|x a IH]; intros [|y b] H; try discriminate H; [done|]. cbn. unfold ORDER_scalar.
  destruct (Z.eqb_spec x y) as [->|]; [rewrite Z.ltb_irrefl; apply IH; by injection H|].
  destruct (Z.ltb_spec x y), (Z.ltb_spec y x); try done. lia.
Qed.

Lemma fd_os_cmp_lex a b : fd_os_cmp a b = lex (os_key a) (os_key b).
Proof.
  unfold fd_os_cmp, os_key. cbn [lex].
  destruct (Nat.ltb_spec (length a) (length b)), (Z.ltb_spec (Z.of_nat (length a)) (Z.of_nat (length b))); try lia.
  destruct (Nat.ltb_spec (length b) (length a)), (Z.ltb_spec (Z.of_nat (length b)) (Z.of_nat (length a))); try lia.
  apply memcmp_lex. lia.
Qed.

Lemma ORDER_scalar_lex a b : ORDER_scalar a b = lex [a] [b].
Proof. unfold ORDER_scalar. cbn. done. Qed.

Lemma order2_lex a b c d :
  (if negb (ORDER_scalar a b =? 0) then Some (ORDER_scalar a b) else Some (ORDER_scalar c d)) = Some (lex [a; c] [b; d]).
Proof. unfold ORDER_scalar. cbn. destruct (Z.ltb_spec a b), (Z.ltb_spec b a); done. Qed.

(** ** The lists *)

Inductive kind :=
| KVendors | KApplications | KTypes | KCmdName | KCmdCode
| KAvpCode | KAvpName | KEnumName | KEnumVal (b : dict_avp_basetype) | KRules.

(** What the list at an address holds. *)
Definition kind_at (d : dictionary) (L : lid) : option kind :=
  if decide (L = vendors) then Some KVendors
  else if decide (L = applications) then Some KApplications
  else if decide (L = dict_types) then Some KTypes
  else if decide (L = dict_cmd_name) then Some KCmdName
  else if decide (L = dict_cmd_code) then Some KCmdCode
  else
    match data <$> objs d !! L.1, L.2 with
    | Some (VENDOR _), 1%nat => Some KAvpCode
    | Some (VENDOR _), 2%nat => Some KAvpName
    | Some (TYPE _), 1%nat => Some KEnumName
    | Some (TYPE t), 2%nat => Some (KEnumVal (type_base t))
    | Some (AVP _), 2%nat | Some (COMMAND _), 2%nat => Some KRules
    | _, _ => None
    end.

Definition order_for (k : kind) : order :=
  match k with
  | KVendors => order_vendor_by_id
  | KApplications => order_appli_by_id
  | KTypes => order_type_by_name
  | KCmdName => order_cmd_by_name
  | KCmdCode => order_cmd_by_codefl
  | KAvpCode => order_avp_by_code
  | KAvpName => order_avp_by_name
  | KEnumName => order_enum_by_name
  | KEnumVal _ => order_enum_by_val
  | KRules => order_rule_by_avpvc
  end.

Definition value_key (b : dict_avp_basetype) (v : avp_value) : option (list Z) :=
  match b, v with
  | AVP_TYPE_OCTETSTRING, OctetString s => Some (os_key s)
  | AVP_TYPE_INTEGER32, Number x => Some [i32 x]
  | AVP_TYPE_INTEGER64, Number x => Some [i64 x]
  | AVP_TYPE_UNSIGNED32, Number x => Some [x mod 2 ^ 32]
  | AVP_TYPE_UNSIGNED64, Number x => Some [x mod 2 ^ 64]
  | _, _ => None
  end.

(** Floating-point constants have no key: NaN compares as equal to all others. *)
Definition keyed (k : kind) : bool :=
  match k with KEnumVal (AVP_TYPE_FLOAT32 | AVP_TYPE_FLOAT64) => false | _ => true end.

Definition key_for (d : dictionary) (k : kind) (o : dict_object) : option (list Z) :=
  match k, data o with
  | KVendors, VENDOR v => Some [vendor_id v]
  | KApplications, APPLICATION a => Some [application_id a]
  | KTypes, TYPE t => Some (os_key (type_name t))
  | KCmdName, COMMAND c => Some (os_key (cmd_name c))
  | KCmdCode, COMMAND c => Some [cmd_code c; - Z.land (cmd_flag_val c) CMD_FLAG_REQUEST]
  | KAvpCode, AVP a => Some [avp_code a]
  | KAvpName, AVP a => Some (os_key (avp_name a))
  | KEnumName, ENUMVAL e => Some (os_key (enum_name e))
  | KEnumVal b, ENUMVAL e => value_key b (enum_value e)
  | KRules, RULE _ => (λ a, [avp_vendor a; avp_code a]) <$> avp_of_rule d o
  | _, _ => None
  end.

Lemma ORDER_scalar_opp a b : ORDER_scalar b a = lex [- a] [- b].
Proof.
  unfold ORDER_scalar. cbn.
  destruct (Z.ltb_spec b a), (Z.ltb_spec a b), (Z.ltb_spec (- a) (- b)), (Z.ltb_spec (- b) (- a)); lia || done.
Qed.

Lemma order_key_codefl c1 c2 :
  (if negb (ORDER_scalar (cmd_code c1) (cmd_code c2) =? 0) then Some (ORDER_scalar (cmd_code c1) (cmd_code c2))
   else Some (ORDER_scalar (Z.land (cmd_flag_val c2) CMD_FLAG_REQUEST) (Z.land (cmd_flag_val c1) CMD_FLAG_REQUEST)))
  = Some (lex [cmd_code c1; - Z.land (cmd_flag_val c1) CMD_FLAG_REQUEST]
              [cmd_code c2; - Z.land (cmd_flag_val c2) CMD_FLAG_REQUEST]).
Proof.
  rewrite (ORDER_scalar_opp (Z.land (cmd_flag_val c1) _)), <- ORDER_scalar_lex. apply order2_lex.
Qed.

(** The base type an order by value uses is that of the list. *)
Definition base_agrees (d : dictionary) (k : kind) (o : dict_object) : Prop :=
  match k with
  | KEnumVal b => ∃ p, parent o = Some p ∧ base_of d p = Some b
  | _ => True
  end.

(** The orders are the order of the keys. *)
Lemma order_key d k o1 o2 c :
  keyed k = true → base_agrees d k o1 → order_for k d o1 o2 = Some c →
  ∃ k1 k2, key_for d k o1 = Some k1 ∧ key_for d k o2 = Some k2 ∧ c = lex k1 k2.
Proof.
  intros Hk Hb H. destruct k; cbn [order_for] in H.
  1-8: unfold order_vendor_by_id, order_appli_by_id, order_type_by_name, order_cmd_by_name, order_cmd_by_codefl,
         order_avp_by_code, order_avp_by_name, order_enum_by_name in H; unfold key_for;
       destruct (data o1), (data o2); try discriminate H; rewrite ?order_key_codefl in H;
       injection H as <-; eexists _, _; (split; [reflexivity|]); (split; [reflexivity|]);
       rewrite ?fd_os_cmp_lex, ?ORDER_scalar_lex; done.
  - destruct Hb as (p & Hp & Hb). unfold order_enum_by_val in H. rewrite Hp in H. cbn in H. unfold base_of in Hb.
    destruct (objs d !! p) as [po|]; [|discriminate]. cbn [key_for]. unfold key_for.
    destruct (data o1), (data o2); try discriminate H. destruct (data po); try discriminate H.
    injection Hb as <-. unfold order_value in H.
    destruct (type_base t), (enum_value e), (enum_value e0); try discriminate; injection H as <-;
      eexists _, _; (split; [reflexivity|]); (split; [reflexivity|]);
      rewrite ?fd_os_cmp_lex, ?ORDER_scalar_lex; done.
  - unfold order_rule_by_avpvc in H. unfold key_for.
    destruct (avp_of_rule d o1) as [a1|] eqn:E1; [|discriminate].
    destruct (avp_of_rule d o2) as [a2|] eqn:E2; [|discriminate]. cbn in H. rewrite order2_lex in H.
    injection H as <-. unfold avp_of_rule in E1, E2. destruct (data o1); try discriminate.
    destruct (data o2); try discriminate. cbn. eauto.
Qed.

(** * The invariant *)

Definition data_at (d : dictionary) (x : ref) : option object_data := data <$> objs d !! x.

Definition linked_to (o : dict_object) (L : lid) : Prop := head0 o = Some L ∨ head1 o = Some L.

Definition key_lt (d : dictionary) (k : kind) (x y : ref) : Prop :=
  ∃ ox oy kx ky, objs d !! x = Some ox ∧ objs d !! y = Some oy
    ∧ key_for d k ox = Some kx ∧ key_for d k oy = Some ky ∧ lex kx ky < 0.

(** The lists: they hold the objects that are linked to them, in order, and each
    belongs to an object that has such a list. *)
Record core (d : dictionary) : Prop := {
  c_brk : ∀ x o, objs d !! x = Some o → (x < brk d)%positive;
  c_sentinels : ∀ x, x ∈ [dict_vendors; dict_applications; dict_cmd_error] → objs d !! x = objs fd_dict_init !! x;
  c_member : ∀ L x, x ∈ list_at d L ↔ ∃ o, objs d !! x = Some o ∧ linked_to o L;
  c_sorted : ∀ L k, kind_at d L = Some k → keyed k = true → StronglySorted (key_lt d k) (list_at d L);
  c_owner : ∀ x o L, objs d !! x = Some o → linked_to o L → is_Some (kind_at d L)
}.

Definition optional_parent (d : dictionary) (o : dict_object) (t : dict_object_type) : Prop :=
  ∀ p, parent o = Some p → type_of <$> data_at d p = Some t.

Definition linked_as (o : dict_object) (L0 L1 : option lid) : Prop := head0 o = L0 ∧ head1 o = L1.

(** An object is in the lists of its type, and what it refers to exists. *)
Definition object_ok (d : dictionary) (x : ref) (o : dict_object) : Prop :=
  match data o with
  | VENDOR v => x = dict_vendors ∨ (vendor_id v ≠ 0 ∧ linked_as o (Some vendors) None)
  | APPLICATION a =>
      x = dict_applications
      ∨ (application_id a ≠ 0 ∧ linked_as o (Some applications) None ∧ optional_parent d o DICT_VENDOR)
  | TYPE t => linked_as o (Some dict_types) None ∧ optional_parent d o DICT_APPLICATION
  | ENUMVAL e =>
      ∃ p, parent o = Some p ∧ type_of <$> data_at d p = Some DICT_TYPE
        ∧ linked_as o (Some (p, 1%nat)) (Some (p, 2%nat))
  | AVP a =>
      ∃ v vd, data_at d v = Some (VENDOR vd) ∧ vendor_id vd = avp_vendor a
        ∧ linked_as o (Some (v, 1%nat)) (Some (v, 2%nat))
        ∧ ∀ p, parent o = Some p → base_of d p = Some (avp_basetype a)
  | COMMAND c =>
      x = dict_cmd_error
      ∨ (Z.land (cmd_flag_mask c) CMD_FLAG_REQUEST ≠ 0 ∧ linked_as o (Some dict_cmd_name) (Some dict_cmd_code)
         ∧ optional_parent d o DICT_APPLICATION)
  | RULE r =>
      ∃ p, parent o = Some p ∧ (∃ po, objs d !! p = Some po ∧ grouped po = true)
        ∧ linked_as o (Some (p, 2%nat)) None ∧ is_Some (avp_of_rule d o)
  end.

Definition wf (d : dictionary) : Prop := core d ∧ ∀ x o, objs d !! x = Some o → object_ok d x o.

(** ** Dictionaries with more objects *)

Definition view (d : dictionary) (x : ref) : option (object_data * option ref) :=
  (λ o, (data o, parent o)) <$> objs d !! x.

Definition extends (d d' : dictionary) : Prop := ∀ x v, view d x = Some v → view d' x = Some v.

Lemma extends_lookup d d' x o :
  extends d d' → objs d !! x = Some o → ∃ o', objs d' !! x = Some o' ∧ data o' = data o ∧ parent o' = parent o.
Proof.
  intros E H. specialize (E x (data o, parent o)). unfold view in E. rewrite H in E. specialize (E eq_refl).
  apply fmap_Some in E. destruct E as (o' & Ho & [= ]). eauto.
Qed.

Lemma extends_data d d' x dat : extends d d' → data_at d x = Some dat → data_at d' x = Some dat.
Proof.
  unfold data_at. intros E H. apply fmap_Some in H. destruct H as (o & Ho & ->).
  destruct (extends_lookup d d' x o E Ho) as (o' & -> & <- & _). done.
Qed.

Lemma extends_base d d' p b : extends d d' → base_of d p = Some b → base_of d' p = Some b.
Proof.
  unfold base_of. intros E H. destruct (objs d !! p) as [o|] eqn:Ho; [|discriminate].
  destruct (extends_lookup d d' p o E Ho) as (o' & -> & -> & _). done.
Qed.

Lemma extends_rule d d' o o' a :
  extends d d' → data o' = data o → avp_of_rule d o = Some a → avp_of_rule d' o' = Some a.
Proof.
  unfold avp_of_rule. intros E -> H. destruct (data o); try discriminate.
  destruct (rule_avp r) as [p|]; [|discriminate]. cbn in *.
  destruct (objs d !! p) as [q|] eqn:Hq; [|discriminate].
  destruct (extends_lookup d d' p q E Hq) as (q' & -> & Hd & _). cbn in *. by rewrite Hd.
Qed.

Lemma extends_key d d' k o o' kk :
  extends d d' → data o' = data o → key_for d k o = Some kk → key_for d' k o' = Some kk.
Proof.
  unfold key_for. intros E Hd H. rewrite Hd. destruct k; try done. destruct (data o) eqn:Ho; try done.
  apply fmap_Some in H. destruct H as (a & Ha & ->).
  rewrite (extends_rule d d' o o' a); [done..|by rewrite Hd|done].
Qed.

Lemma extends_key_lt d d' k x y : extends d d' → key_lt d k x y → key_lt d' k x y.
Proof.
  intros E (ox & oy & kx & ky & Hx & Hy & Hkx & Hky & Hl).
  destruct (extends_lookup d d' x ox E Hx) as (ox' & Hx' & Dx & _).
  destruct (extends_lookup d d' y oy E Hy) as (oy' & Hy' & Dy & _).
  exists ox', oy', kx, ky. split_and!; eauto using extends_key.
Qed.

Lemma extends_kind d d' L k : extends d d' → kind_at d L = Some k → kind_at d' L = Some k.
Proof.
  intros E. unfold kind_at. repeat case_decide; try done.
  destruct (data <$> objs d !! L.1) as [dat|] eqn:Hd; [|done].
  pose proof (extends_data d d' L.1 dat E Hd) as Hd'. unfold data_at in Hd'. by rewrite Hd'.
Qed.

Lemma extends_ok d d' x o : extends d d' → object_ok d x o → object_ok d' x o.
Proof.
  intros E. unfold object_ok, optional_parent.
  assert (T : ∀ p t, type_of <$> data_at d p = Some t → type_of <$> data_at d' p = Some t).
  { intros p t H. apply fmap_Some in H. destruct H as (dat & Hd & ->). by rewrite (extends_data d d' p dat). }
  destruct (data o) eqn:Ho; try naive_solver.
  - intros (v & vd & Hv & Hi & Hl & Hp). exists v, vd. split_and!; eauto using extends_data, extends_base.
  - intros (p & Hp & (po & Hpo & Hg) & Hl & (a & Ha)). exists p.
    destruct (extends_lookup d d' p po E Hpo) as (po' & Hpo' & Dp & _).
    split_and!; [done| |done|eexists; by eapply extends_rule]. exists po'. split; [done|].
    unfold grouped in *. by rewrite Dp.
Qed.

(** ** Sorted insertion *)

Lemma sorted_mono {A} (R R' : A → A → Prop) l :
  (∀ x y, x ∈ l → y ∈ l → R x y → R' x y) → StronglySorted R l → StronglySorted R' l.
Proof.
  intros H. induction 1 as [|x l Hl IH Hx]; constructor.
  - apply IH. intros y z Hy Hz. apply H; by right.
  - rewrite Forall_forall in *. intros y Hy. apply H; [by left | by right | by apply Hx].
Qed.

Lemma key_lt_trans d k x y z : key_lt d k x y → key_lt d k y z → key_lt d k x z.
Proof.
  intros (ox & oy & kx & ky & Hx & Hy & Kx & Ky & Hl) (oy' & oz & ky' & kz & Hy' & Hz & Ky' & Kz & Hl').
  simplify_eq. exists ox, oz, kx, kz. split_and!; try done. by eapply lex_trans.
Qed.

Lemma insert_ordered_place d ord x o l : ∀ l',
  insert_ordered d ord x o l = Ok (inr l') → ∃ pre post, l = pre ++ post ∧ l' = pre ++ x :: post.
Proof.
  induction l as [|y l IH]; intros l' H; cbn in H; [injection H as <-; by exists [], []|].
  destruct (object d y) as [oy| | |]; try discriminate. cbn in H.
  destruct (ord d o oy) as [c|]; [|discriminate]. destruct (c =? 0); [discriminate|].
  destruct (c <? 0); [injection H as <-; by exists [], (y :: l)|].
  destruct (insert_ordered d ord x o l) as [[z|l'']| | |]; try discriminate. injection H as <-.
  destruct (IH l'' eq_refl) as (pre & post & -> & ->). by exists (y :: pre), post.
Qed.

Lemma insert_ordered_sorted d k x o l : ∀ l',
  objs d !! x = Some o → keyed k = true → base_agrees d k o →
  insert_ordered d (order_for k) x o l = Ok (inr l') →
  StronglySorted (key_lt d k) l → StronglySorted (key_lt d k) l'.
Proof.
  induction l as [|y l IH]; intros l' Hx Hk Hb H Hs; cbn in H; [injection H as <-; by repeat constructor|].
  unfold object in H. destruct (objs d !! y) as [oy|] eqn:Hy; [|discriminate]. cbn in H.
  destruct (order_for k d o oy) as [c|] eqn:Hc; [|discriminate].
  destruct (order_key d k o oy c Hk Hb Hc) as (kx & ky & Kx & Ky & ->).
  apply StronglySorted_inv in Hs. destruct Hs as [Hs Hall].
  destruct (Z.eqb_spec (lex kx ky) 0); [discriminate|]. destruct (Z.ltb_spec (lex kx ky) 0) as [Hlt|Hge].
  - injection H as <-. assert (Hxy : key_lt d k x y) by (exists o, oy, kx, ky; done).
    constructor; [by constructor|]. constructor; [done|]. eapply Forall_impl; [exact Hall|].
    intros z Hz. by eapply key_lt_trans.
  - destruct (insert_ordered d (order_for k) x o l) as [[z|l'']| | |] eqn:E; try discriminate. injection H as <-.
    destruct (insert_ordered_place _ _ _ _ _ _ E) as (pre & post & -> & ->).
    constructor; [by apply IH|]. apply Forall_app in Hall. destruct Hall as [H1 H2].
    apply Forall_app. split; [done|]. constructor; [|done]. exists oy, o, ky, kx. split_and!; try done.
    apply lex_flip. lia.
Qed.

Lemma list_at_list L l d L' : list_at (with_list L l d) L' = if decide (L = L') then l else list_at d L'.
Proof. unfold list_at, with_list. cbn. case_decide as E; [subst; by rewrite lookup_insert_eq | by rewrite lookup_insert_ne]. Qed.

Lemma empty_list d L : core d → kind_at d L = None → list_at d L = [].
Proof.
  intros C H. destruct (list_at d L) as [|x l] eqn:E; [done|].
  destruct (proj1 (c_member d C L x)) as (o & Ho & Hl); [rewrite E; by left|].
  destruct (c_owner d C x o L Ho Hl) as [k Hk]. congruence.
Qed.

(** The lists of a dictionary stay sorted when objects are added. *)
Lemma sorted_extends d d' L :
  core d → extends d d' → list_at d' L = list_at d L →
  ∀ k, kind_at d' L = Some k → keyed k = true → StronglySorted (key_lt d' k) (list_at d' L).
Proof.
  intros C E HL k Hk' Hy. rewrite HL. destruct (kind_at d L) as [k0|] eqn:Hk0.
  - pose proof (extends_kind d d' L k0 E Hk0). simplify_eq.
    eapply sorted_mono; [|by apply (c_sorted d C)]. intros x y _ _. by apply extends_key_lt.
  - rewrite (empty_list d L C Hk0). constructor.
Qed.

(** ** The steps of [fd_dict_new] *)

Definition allocate (dat : object_data) (par : option ref) (d : dictionary) : dictionary :=
  {| objs := <[brk d := {| data := dat; parent := par; head0 := None; head1 := None |}]> (objs d);
     lists := lists d; dict_count := dict_count d; brk := Pos.succ (brk d) |}.

Lemma brk_free d : core d → objs d !! brk d = None.
Proof.
  intros C. destruct (objs d !! brk d) as [o|] eqn:E; [|done]. pose proof (c_brk d C _ _ E). lia.
Qed.

Lemma allocate_extends dat par d : core d → extends d (allocate dat par d).
Proof.
  intros C x v H. unfold view, allocate in *. cbn.
  destruct (decide (x = brk d)) as [->|]; [by rewrite brk_free in H | by rewrite lookup_insert_ne].
Qed.

Lemma allocate_core dat par d : core d → core (allocate dat par d).
Proof.
  intros C. pose proof (allocate_extends dat par d C) as E. pose proof (brk_free d C) as F. split.
  - intros x o. cbn. intros [[<- _]|[_ H]]%lookup_insert_Some; [lia|]. pose proof (c_brk d C x o H). lia.
  - intros x Hx. cbn. rewrite lookup_insert_ne; [by apply (c_sentinels d C)|]. intros <-.
    rewrite (c_sentinels d C _ Hx) in F. rewrite !elem_of_cons, elem_of_nil in Hx.
    destruct Hx as [Hx|[Hx|[Hx|[]]]]; rewrite Hx in F; discriminate F.
  - intros L x. change (list_at (allocate dat par d) L) with (list_at d L). rewrite (c_member d C). cbn. split.
    + intros (o & Ho & Hl). exists o. split; [|done]. rewrite lookup_insert_ne; [done|]. intros <-. congruence.
    + intros (o & [[_ <-]|[_ Ho]]%lookup_insert_Some & Hl); [by destruct Hl | by exists o].
  - intros L. by apply (sorted_extends d).
  - intros x o L. cbn. intros [[_ <-]|[_ Ho]]%lookup_insert_Some Hl; [by destruct Hl|].
    destruct (c_owner d C x o L Ho Hl) as [k Hk]. exists k. by eapply extends_kind.
Qed.

Definition attach (L : lid) (i : nat) (l : list ref) (x : ref) (o : dict_object) (d : dictionary) : dictionary :=
  with_list L l (with_objs (<[x := set_head i (Some L) o]> (objs d)) d).

(** The link [i] of an object is not used yet. *)
Definition head_of (i : nat) (o : dict_object) : option lid := match i with 0%nat => head0 o | _ => head1 o end.

Lemma set_head_linked i L o L' :
  head_of i o = None → linked_to (set_head i (Some L) o) L' ↔ L' = L ∨ linked_to o L'.
Proof. unfold linked_to, set_head, head_of. intros H. destruct i; cbn; rewrite H; naive_solver. Qed.

Lemma attach_extends L i l x o d : objs d !! x = Some o → extends d (attach L i l x o d).
Proof.
  intros Hx y v H. unfold view, attach in *. cbn. destruct (decide (y = x)) as [->|]; [|by rewrite lookup_insert_ne].
  rewrite lookup_insert_eq. rewrite Hx in H. cbn in *. by destruct i.
Qed.

(** Where an object may be linked. *)
Definition fits (d : dictionary) (o : dict_object) (L : lid) (i : nat) (ord : order) : Prop :=
  head_of i o = None ∧ ¬ linked_to o L ∧ ∃ k, kind_at d L = Some k ∧ ord = order_for k ∧ base_agrees d k o.

Lemma attach_core d x o L i ord l :
  core d → objs d !! x = Some o → x ∉ [dict_vendors; dict_applications; dict_cmd_error] → fits d o L i ord →
  insert_ordered d ord x o (list_at d L) = Ok (inr l) → core (attach L i l x o d).
Proof.
  intros C Hx Hns (Hi & Hnl & k & Hk & -> & Hb) Hins. pose proof (attach_extends L i l x o d Hx) as E.
  destruct (insert_ordered_place _ _ _ _ _ _ Hins) as (pre & post & Hl & Hl').
  assert (HL : ∀ L', list_at (attach L i l x o d) L' = if decide (L = L') then l else list_at d L').
  { intros L'. unfold attach. by rewrite list_at_list. }
  split.
  - intros y oy. cbn. intros [[<- _]|[_ H]]%lookup_insert_Some; by eapply (c_brk d C).
  - intros y Hy. cbn. rewrite lookup_insert_ne by (by intros <-). by apply (c_sentinels d C).
  - intros L' y. rewrite HL. cbn [attach with_list with_objs objs].
    assert (M : y ∈ (if decide (L = L') then l else list_at d L') ↔ y ∈ list_at d L' ∨ (y = x ∧ L' = L)).
    { case_decide as D; [subst L'; rewrite Hl, Hl'; set_solver | naive_solver]. }
    rewrite M, (c_member d C). split.
    + intros [(oy & Hy & Hly)|[-> ->]].
      * destruct (decide (y = x)) as [->|]; [|exists oy; by rewrite lookup_insert_ne]. simplify_eq.
        eexists. rewrite lookup_insert_eq. split; [done|]. apply set_head_linked; auto.
      * eexists. rewrite lookup_insert_eq. split; [done|]. apply set_head_linked; auto.
    + intros (oy & [[<- <-]|[Hne Hy]]%lookup_insert_Some & Hly); [|left; by exists oy].
      apply set_head_linked in Hly; [|done]. destruct Hly as [->|Hly]; [by right | left; by exists o].
  - intros L' k' Hk' Hy. destruct (decide (L = L')) as [<-|Hne].
    + rewrite HL, decide_True by done. pose proof (extends_kind _ _ L k E Hk). simplify_eq.
      eapply sorted_mono; [intros a b _ _; by apply extends_key_lt|].
      apply (insert_ordered_sorted d k' x o (list_at d L)); try done. by apply (c_sorted d C).
    + apply (sorted_extends d); try done. by rewrite HL, decide_False.
  - intros y oy L'. cbn. intros [[<- <-]|[_ Hy]]%lookup_insert_Some Hly.
    + apply set_head_linked in Hly; [|done]. destruct Hly as [->|Hly].
      * exists k. by eapply extends_kind.
      * destruct (c_owner d C x o L' Hx Hly) as [k' Hk']. exists k'. by eapply extends_kind.
    + destruct (c_owner d C y oy L' Hy Hly) as [k' Hk']. exists k'. by eapply extends_kind.
Qed.

Definition separate (p q : lid * nat * order) : Prop := p.1.1 ≠ q.1.1 ∧ (p.1.2 =? 0)%nat ≠ (q.1.2 =? 0)%nat.

Definition place (o : dict_object) (p : lid * nat * order) : dict_object := let '(L, i, _) := p in set_head i (Some L) o.

Lemma fits_after d x o L i ord l p :
  objs d !! x = Some o → fits d o L i ord → separate (L, i, ord) p → (let '(L', i', ord') := p in fits d o L' i' ord') →
  let '(L', i', ord') := p in fits (attach L i l x o d) (set_head i (Some L) o) L' i' ord'.
Proof.
  destruct p as [[L' i'] ord']. intros Hx (Hi & _) [HL Hii] (Hi' & Hn & k & Hk & Ho & Hb). cbn in HL, Hii.
  pose proof (attach_extends L i l x o d Hx) as E. split; [|split].
  - by destruct i, i'.
  - rewrite set_head_linked by done. intros [->|?]; done.
  - exists k. split; [by eapply extends_kind|]. split; [done|]. destruct k; try done.
    destruct Hb as (p & Hp & Hb). exists p. split; [by destruct i | by eapply extends_base].
Qed.

Lemma link_at_ok ps : ∀ d x o d',
  core d → objs d !! x = Some o → x ∉ [dict_vendors; dict_applications; dict_cmd_error] →
  Forall (λ '(L, i, ord), fits d o L i ord) ps → StronglySorted separate ps →
  link_at ps x d = Ok (inr d') →
  core d' ∧ extends d d' ∧ objs d' !! x = Some (foldl place o ps)
  ∧ (∀ y, y ≠ x → objs d' !! y = objs d !! y) ∧ dict_count d' = dict_count d ∧ brk d' = brk d.
Proof.
  induction ps as [|[[L i] ord] ps IH]; intros d x o d' C Hx Hns Hf Hs H; cbn in H.
  - injection H as <-. split_and!; try done. by intros ?.
  - unfold object in H. rewrite Hx in H. cbn in H.
    destruct (insert_ordered d ord x o (list_at d L)) as [[y|l]| | |] eqn:E; try discriminate. cbn in H.
    apply Forall_cons in Hf. destruct Hf as [Hf Hfs]. apply StronglySorted_inv in Hs. destruct Hs as [Hs Hsep].
    pose proof (attach_core d x o L i ord l C Hx Hns Hf E) as C'.
    pose proof (attach_extends L i l x o d Hx) as X. fold (attach L i l x o d) in H.
    destruct (IH (attach L i l x o d) x (set_head i (Some L) o) d' C') as (C'' & X' & Hx' & Hy & Hc & Hb); try done.
    + cbn. by rewrite lookup_insert_eq.
    + rewrite Forall_forall in *. intros p Hp. pose proof (fits_after d x o L i ord l p Hx Hf (Hsep p Hp) (Hfs p Hp)) as F.
      by destruct p as [[? ?] ?].
    + split_and!; try done.
      * intros y v Hv. by apply X', X.
      * intros y Hne. rewrite Hy by done. cbn. by rewrite lookup_insert_ne.
Qed.

(** ** What was checked *)

Lemma search_list_sound d cmp isindex l x :
  search_list d cmp isindex l = Ok (Some x) → x ∈ l ∧ ∃ o, objs d !! x = Some o ∧ cmp o = Some 0.
Proof.
  induction l as [|y l IH]; cbn; [done|]. unfold object. destruct (objs d !! y) as [o|] eqn:Ho; [|done]. cbn.
  destruct (cmp o) as [c|] eqn:Hc; [|done]. destruct (Z.eqb_spec c 0) as [->|].
  - intros [= <-]. split; [by left | eauto].
  - destruct (isindex && (c <? 0)); [done|]. intros H. destruct (IH H) as [? ?]. split; [by right | done].
Qed.

Lemma ORDER_scalar_eq a b : ORDER_scalar a b = 0 ↔ a = b.
Proof. unfold ORDER_scalar. destruct (Z.ltb_spec a b), (Z.ltb_spec b a); lia. Qed.

Lemma vendor_id_cmp_eq id o : vendor_id_cmp id o = Some 0 → ∃ v, data o = VENDOR v ∧ vendor_id v = id.
Proof.
  unfold vendor_id_cmp. destruct (data o) as [v| | | | | |]; try done. intros [= H].
  apply (proj1 (ORDER_scalar_eq _ _)) in H. by exists v.
Qed.

Lemma search_vendor_sound d id v s :
  search_vendor d (VENDOR_BY_ID id) s = Ok (None, Some (Some v)) →
  ∃ vd, data_at d v = Some (VENDOR vd) ∧ vendor_id vd = id.
Proof.
  unfold search_vendor, object, data_at. destruct (objs d !! dict_vendors) as [o|] eqn:Ho; [|done]. cbn.
  case_decide as Hc.
  - destruct s; cbn; [|done]. intros [= <-]. apply vendor_id_cmp_eq in Hc. destruct Hc as (vd & Hd & Hid).
    exists vd. rewrite Ho. cbn. by rewrite Hd.
  - unfold SEARCH. destruct (search_list d _ true _) as [[x|]| | |] eqn:E; try done; cbn; destruct s; try done.
    intros [= <-]. apply search_list_sound in E. destruct E as (_ & o' & Hx & Hcmp).
    apply vendor_id_cmp_eq in Hcmp. destruct Hcmp as (vd & Hd & Hid). exists vd. rewrite Hx. cbn. by rewrite Hd.
Qed.

Lemma verify_type d p t : verify_object d (Some p) t = true → type_of <$> data_at d p = Some t.
Proof.
  unfold verify_object, data_at. cbn. destruct (objs d !! p) as [o|]; [|done]. cbn. intros H.
  apply bool_decide_eq_true in H. by rewrite H.
Qed.

Lemma may_parent d par t :
  bool_decide (par = None) || verify_object d par t = true →
  ∀ p, par = Some p → type_of <$> data_at d p = Some t.
Proof. intros H p ->. apply verify_type. by rewrite bool_decide_false in H. Qed.

(** [check_data] found the vendor of an AVP. *)
Lemma check_avp d a par v :
  check_data d (AVP a) par = Ok (true, v) →
  ∃ x vd, v = Some x ∧ data_at d x = Some (VENDOR vd) ∧ vendor_id vd = avp_vendor a
    ∧ ∀ p, par = Some p → base_of d p = Some (avp_basetype a).
Proof.
  unfold check_data, fd_dict_search, search_fct.
  destruct (search_vendor d _ (Some None)) as [[ret s]| | |] eqn:E; try done. cbn [mbind result_mbind].
  destruct s as [[x|]|]; cbn; repeat case_decide; try done; destruct ret; try done.
  intros [= Hb <-]. apply search_vendor_sound in E. destruct E as (vd & Hd & Hid). exists x, vd. split_and!; try done.
  intros p ->. by apply bool_decide_eq_true in Hb.
Qed.

Definition new_object (dat : object_data) (par : option ref) : dict_object :=
  {| data := dat; parent := par; head0 := None; head1 := None |}.

(** The places of a new object, and what it is when it was linked there. *)
Definition placed (d : dictionary) (x : ref) (o : dict_object) (ps : list (lid * nat * order)) : Prop :=
  Forall (λ '(L, i, ord), fits d o L i ord) ps ∧ StronglySorted separate ps
  ∧ ∀ d', extends d d' → object_ok d' x (foldl place o ps).

Lemma new_fits d dat par L i k :
  kind_at d L = Some k → base_agrees d k (new_object dat par) →
  fits d (new_object dat par) L i (order_for k).
Proof. intros Hk Hb. split; [by destruct i|]. split; [by intros [|]|]. by exists k. Qed.

Lemma extends_type d d' p t : extends d d' → type_of <$> data_at d p = Some t → type_of <$> data_at d' p = Some t.
Proof. intros E H. apply fmap_Some in H. destruct H as (dat & Hd & ->). by rewrite (extends_data d d' p dat). Qed.

Lemma kind_member d p i dat :
  data_at d p = Some dat → i ≠ 0%nat →
  kind_at d (p, i) =
  match dat, i with
  | VENDOR _, 1%nat => Some KAvpCode
  | VENDOR _, 2%nat => Some KAvpName
  | TYPE _, 1%nat => Some KEnumName
  | TYPE t, 2%nat => Some (KEnumVal (type_base t))
  | AVP _, 2%nat | COMMAND _, 2%nat => Some KRules
  | _, _ => None
  end.
Proof.
  intros Hd Hi. unfold kind_at, vendors, applications, dict_types, dict_cmd_name, dict_cmd_code.
  repeat (rewrite decide_False; [|congruence]). cbn. unfold data_at in Hd. by rewrite Hd.
Qed.

Lemma placed_one d x o L i ord :
  fits d o L i ord → (∀ d', extends d d' → object_ok d' x (set_head i (Some L) o)) → placed d x o [(L, i, ord)].
Proof. intros Hf Ho. split_and!; [by apply Forall_singleton | by repeat constructor | exact Ho]. Qed.

Lemma placed_two d x o L L' i i' ord ord' :
  fits d o L i ord → fits d o L' i' ord' → L ≠ L' → (i =? 0)%nat ≠ (i' =? 0)%nat →
  (∀ d', extends d d' → object_ok d' x (set_head i' (Some L') (set_head i (Some L) o))) →
  placed d x o [(L, i, ord); (L', i', ord')].
Proof.
  intros Hf Hf' HL Hi Ho. split_and!; [apply Forall_cons; split; [done | by apply Forall_singleton] | | exact Ho].
  repeat constructor; done.
Qed.

Lemma checked_placed d x dat par vendor :
  parent_ok d dat par = true → check_data d dat par = Ok (true, vendor) → core d →
  placed (allocate dat par d) x (new_object dat par) (places dat par vendor).
Proof.
  intros Hp Hc C. pose proof (allocate_extends dat par d C) as E. set (d1 := allocate dat par d) in *.
  assert (T : ∀ p t, type_of <$> data_at d p = Some t → ∀ d', extends d1 d' → type_of <$> data_at d' p = Some t).
  { intros p t H d' E'. eapply extends_type; [exact E'|]. by eapply extends_type. }
  destruct dat as [v|a|t|e|a|c|r]; cbn [parent_ok places] in *.
  - apply placed_one; [by apply (new_fits _ _ _ _ _ KVendors)|]. intros d' E'. right. injection Hc as Hc _.
    split; [|done]. apply negb_true_iff, Z.eqb_neq in Hc. done.
  - apply placed_one; [by apply (new_fits _ _ _ _ _ KApplications)|]. intros d' E'. right. injection Hc as Hc _.
    apply negb_true_iff, Z.eqb_neq in Hc. split_and!; [done..|]. intros p H. by eapply T; [eapply may_parent|].
  - apply placed_one; [by apply (new_fits _ _ _ _ _ KTypes)|]. intros d' E'. split; [done|].
    intros p H. by eapply T; [eapply may_parent|].
  - destruct par as [p|]; [|done]. apply verify_type in Hp. pose proof Hp as Hp'.
    apply fmap_Some in Hp. destruct Hp as ([| |t| | | |] & Hd & Ht); try discriminate Ht.
    pose proof (extends_data _ _ _ _ E Hd) as Hd1.
    apply placed_two; try done.
    + apply (new_fits _ _ _ _ _ KEnumName); [by rewrite (kind_member _ _ _ _ Hd1) | done].
    + apply (new_fits _ _ _ _ _ (KEnumVal (type_base t))); [by rewrite (kind_member _ _ _ _ Hd1)|].
      exists p. split; [done|]. unfold base_of. unfold data_at in Hd1. apply fmap_Some in Hd1.
      destruct Hd1 as (o & -> & <-). done.
    + intros d' E'. exists p. split_and!; [done | by eapply T | done].
  - apply check_avp in Hc. destruct Hc as (v & vd & -> & Hd & Hid & Hb).
    pose proof (extends_data _ _ _ _ E Hd) as Hd1. apply placed_two; try done.
    + apply (new_fits _ _ _ _ _ KAvpCode); [by rewrite (kind_member _ _ _ _ Hd1) | done].
    + apply (new_fits _ _ _ _ _ KAvpName); [by rewrite (kind_member _ _ _ _ Hd1) | done].
    + intros d' E'. exists v, vd. split_and!; try done; [by eapply extends_data|].
      intros p H. eapply extends_base; [exact E'|]. eapply extends_base; [exact E|]. by apply Hb.
  - apply placed_two; try done.
    + by apply (new_fits _ _ _ _ _ KCmdCode).
    + by apply (new_fits _ _ _ _ _ KCmdName).
    + intros d' E'. right. injection Hc as Hc _. apply negb_true_iff, Z.eqb_neq in Hc.
      split_and!; [done..|]. intros p H. by eapply T; [eapply may_parent|].
  - destruct par as [p|]; [|done]. cbn in Hp. destruct (objs d !! p) as [po|] eqn:Hpo; [|done]. injection Hc as Hc _.
    destruct (extends_lookup d d1 p po E Hpo) as (po1 & Hpo1 & Dp & _).
    assert (Hg : grouped po1 = true) by (unfold grouped in *; by rewrite Dp).
    assert (Hd1 : data_at d1 p = Some (data po1)) by (unfold data_at; by rewrite Hpo1).
    apply placed_one.
    + apply (new_fits _ _ _ _ _ KRules); [|done]. rewrite (kind_member _ _ _ _ Hd1) by done.
      unfold grouped in Hg. by destruct (data po1).
    + intros d' E'. exists p. destruct (extends_lookup d1 d' p po1 E' Hpo1) as (po' & Hpo' & Dp' & _).
      split_and!; [done| |done|].
      * exists po'. split; [done|]. unfold grouped in *. by rewrite Dp'.
      * destruct (rule_avp r) as [q|] eqn:Hq; [|done]. apply verify_type in Hc. apply fmap_Some in Hc.
        destruct Hc as ([| | | |a| |] & Hqd & Hqt); try discriminate Hqt.
        pose proof (extends_data _ _ _ _ E' (extends_data _ _ _ _ E Hqd)) as Hq'. unfold data_at in Hq'.
        apply fmap_Some in Hq'. destruct Hq' as (qo & Hqo & Hqa). exists a. cbn. rewrite Hq. cbn. rewrite Hqo. cbn.
        by rewrite <- Hqa.
Qed.

Lemma brk_not_sentinel d : core d → brk d ∉ [dict_vendors; dict_applications; dict_cmd_error].
Proof.
  intros C H. pose proof (brk_free d C) as F. rewrite (c_sentinels d C _ H) in F.
  rewrite !elem_of_cons, elem_of_nil in H. destruct H as [H|[H|[H|[]]]]; rewrite H in F; discriminate F.
Qed.

Lemma count_by_wf t n d : wf d → wf (count_by t n d).
Proof. intros [[] Ho]. split; [split; done | exact Ho]. Qed.

Lemma insert_ordered_dup d ord x o l y : insert_ordered d ord x o l = Ok (inl y) → y ∈ l.
Proof.
  induction l as [|z l IH]; cbn; [done|]. destruct (object d z) as [oz| | |]; try done. cbn.
  destruct (ord d o oz) as [c|]; [|done]. destruct (c =? 0); [intros [= <-]; by left|].
  destruct (c <? 0); [done|]. destruct (insert_ordered d ord x o l) as [[u|u]| | |]; try done. cbn. intros [= ->].
  right. auto.
Qed.

Lemma link_at_dup ps : ∀ d x y,
  link_at ps x d = Ok (inl y) → StronglySorted separate ps → (∀ p, p ∈ ps → x ∉ list_at d p.1.1) → y ≠ x.
Proof.
  induction ps as [|[[L i] ord] ps IH]; intros d x y H Hs Hn; cbn in H; [done|].
  destruct (object d x) as [o| | |]; try done. cbn in H. apply StronglySorted_inv in Hs. destruct Hs as [Hs Hsep].
  destruct (insert_ordered d ord x o (list_at d L)) as [[z|l]| | |] eqn:E; try done; cbn in H.
  - injection H as ->. apply insert_ordered_dup in E. intros ->. by apply (Hn (L, i, ord)); [left|].
  - eapply IH; [exact H | exact Hs |]. intros p Hp. rewrite list_at_list. rewrite Forall_forall in Hsep.
    destruct (Hsep p Hp) as [HL _]. cbn in HL. rewrite decide_False by done. apply Hn. by right.
Qed.

(** No list has the address of a new object. *)
Lemma brk_not_listed d L : core d → brk d ∉ list_at d L.
Proof. intros C H. apply (c_member d C) in H. destruct H as (o & Ho & _). by rewrite brk_free in Ho. Qed.

(** [fd_dict_new] keeps the invariant: a new object is linked in the lists of its
    type, at its place; where an object with the same key exists, or where it
    is refused, the dictionary is the same as before. *)
Lemma fd_dict_new_ok d dat par ret r d' :
  wf d → fd_dict_new d dat par = Ok (ret, r, d') →
  wf d' ∧ ((d' = d ∧ (ret = None → ∃ y old, r = Some y ∧ objs d !! y = Some old
                         ∧ same_object (allocate dat par d) old (new_object dat par) = Some true))
           ∨ (ret = None ∧ r = Some (brk d) ∧ extends d d' ∧ objs d !! brk d = None
                     ∧ ∃ o, objs d' !! brk d = Some o ∧ data o = dat ∧ parent o = par)).
Proof.
  intros W H. pose proof W as [C Ho]. unfold fd_dict_new in H.
  destruct (parent_ok d dat par) eqn:Hp; cbn [negb] in H; [|case_match; [by simplify_eq; split; [exact W | left] | done]].
  destruct (check_data d dat par) as [[ok vendor]| | |] eqn:Hc; try done. cbn [mbind result_mbind] in H.
  destruct ok; cbn [negb] in H; [|case_match; [by simplify_eq; split; [exact W | left] | done]].
  fold (allocate dat par d) in H. pose proof (checked_placed d (brk d) dat par vendor Hp Hc C) as (Hf & Hs & Hok).
  fold (new_object dat par) in H.
  pose proof (allocate_core dat par d C) as C1. pose proof (allocate_extends dat par d C) as E1.
  destruct (link_at (places dat par vendor) (brk d) (allocate dat par d)) as [[y|d2]| | |] eqn:Hl; try done;
    cbn [mbind result_mbind] in H.
  - unfold object in H. destruct (objs (allocate dat par d) !! y) as [old|] eqn:Hy; try done.
    cbn [mbind result_mbind] in H. destruct (same_object _ _ _) as [[|]|] eqn:Hsame; [| |done].
    + injection H as <- <- <-. split; [exact W | left]. split; [done|]. intros _. exists y, old. split_and!; try done.
      assert (y ≠ brk d) by (eapply link_at_dup; [exact Hl | exact Hs | intros p _; exact (brk_not_listed d p.1.1 C)]).
      cbn in Hy. by rewrite lookup_insert_ne in Hy.
    + case_match; [by simplify_eq; split; [exact W | left] | done].
  - injection H as <- <- <-.
    assert (Hx : objs (allocate dat par d) !! brk d = Some (new_object dat par)) by (cbn; by rewrite lookup_insert_eq).
    destruct (link_at_ok _ _ _ _ _ C1 Hx (brk_not_sentinel d C) Hf Hs Hl) as (C2 & E2 & Hx2 & Hy & _).
    split.
    + apply count_by_wf. split; [done|]. intros y o Hyo. destruct (decide (y = brk d)) as [->|Hne].
      * rewrite Hx2 in Hyo. injection Hyo as <-. by apply Hok.
      * rewrite Hy in Hyo by done. cbn in Hyo. rewrite lookup_insert_ne in Hyo by done.
        eapply extends_ok; [exact E2|]. eapply extends_ok; [exact E1|]. by apply Ho.
    + right. split_and!; try done; [by intros y v Hv; apply E2, E1 | by apply brk_free|].
      exists (foldl place (new_object dat par) (places dat par vendor)). split; [exact Hx2|].
      by destruct dat, par, vendor.
Qed.

(** ** Deletion *)

(** No other object has [x] as parent, and no rule is about it. *)
Definition unreferenced (d : dictionary) (x : ref) : Prop :=
  ∀ y o, objs d !! y = Some o → parent o ≠ Some x ∧ ∀ r, data o = RULE r → rule_avp r ≠ Some x.

(** The dictionary without the object. *)
Definition destroyed (x : ref) (o : dict_object) (d : dictionary) : dictionary :=
  let d := remove_from (head1 o) x (remove_from (head0 o) x (count_by (type_of (data o)) (-1) d)) in
  with_objs (delete x (objs d)) d.

Lemma remove_from_list L x d L' :
  list_at (remove_from L x d) L'
  = if decide (L = Some L') then filter (λ y, y ≠ x) (list_at d L') else list_at d L'.
Proof.
  destruct L as [L|]; cbn; [|by rewrite decide_False]. rewrite list_at_list.
  repeat case_decide; simplify_eq; done.
Qed.

Lemma filter_id (x : ref) (l : list ref) : x ∉ l → filter (λ y, y ≠ x) l = l.
Proof.
  induction l as [|y l IH]; [done|]. intros [? ?]%not_elem_of_cons. rewrite filter_cons_True by done. by rewrite IH.
Qed.

Lemma filter_twice (x : ref) (l : list ref) : filter (λ y, y ≠ x) (filter (λ y, y ≠ x) l) = filter (λ y, y ≠ x) l.
Proof. apply filter_id. rewrite list_elem_of_filter. naive_solver. Qed.

Lemma remove_from_objs L x d : objs (remove_from L x d) = objs d.
Proof. by destruct L. Qed.

Lemma destroyed_objs x o d : objs (destroyed x o d) = delete x (objs d).
Proof. cbn. by rewrite !remove_from_objs. Qed.

Lemma destroyed_list d x o L :
  core d → objs d !! x = Some o → list_at (destroyed x o d) L = filter (λ y, y ≠ x) (list_at d L).
Proof.
  intros C Hx. unfold destroyed. set (d2 := remove_from (head1 o) x _).
  change (list_at (with_objs _ d2) L) with (list_at d2 L). unfold d2. rewrite !remove_from_list.
  change (list_at (count_by _ _ d) L) with (list_at d L).
  destruct (decide (head0 o = Some L)) as [H0|H0], (decide (head1 o = Some L)) as [H1|H1];
    [apply filter_twice | done..|]. symmetry. apply filter_id. rewrite (c_member d C).
  intros (o' & Ho' & [?|?]); simplify_eq.
Qed.

Section Delete.
Context (d : dictionary) (x : ref) (o : dict_object).
Hypothesis W : wf d.
Hypothesis U : unreferenced d x.
Hypothesis Hx : objs d !! x = Some o.
Hypothesis Hch : has_children d x o = false.
Let d' := destroyed x o d.

Lemma kept_lookup y : y ≠ x → objs d' !! y = objs d !! y.
Proof. intros Hy. unfold d'. rewrite destroyed_objs. by rewrite lookup_delete_ne. Qed.

Lemma kept_data y : y ≠ x → data_at d' y = data_at d y.
Proof. intros Hy. unfold data_at. by rewrite kept_lookup. Qed.

Lemma kept_rule y oy a : objs d !! y = Some oy → avp_of_rule d oy = Some a → avp_of_rule d' oy = Some a.
Proof.
  intros Hy H. destruct (U y oy Hy) as [_ Hr]. unfold avp_of_rule in *. destruct (data oy) as [| | | | | |r]; try done.
  specialize (Hr r eq_refl). destruct (rule_avp r) as [p|]; [|done]. cbn in *. rewrite kept_lookup; [done|congruence].
Qed.

Lemma kept_key_lt k y z : y ≠ x → z ≠ x → key_lt d k y z → key_lt d' k y z.
Proof.
  intros Hy Hz (oy & oz & ky & kz & Hoy & Hoz & Ky & Kz & Hl). exists oy, oz, ky, kz.
  rewrite !kept_lookup by done. split_and!; try done.
  all: destruct k; try done; unfold key_for in *.
  1: destruct (data oy); try done; apply fmap_Some in Ky; destruct Ky as (a & Ha & ->);
     by rewrite (kept_rule y oy a Hoy Ha).
  1: destruct (data oz); try done; apply fmap_Some in Kz; destruct Kz as (a & Ha & ->);
     by rewrite (kept_rule z oz a Hoz Ha).
Qed.

(** The lists of an object without children are empty. *)
Lemma no_list i : is_Some (kind_at d (x, i)) → i ≠ 0%nat → list_at d (x, i) = [].
Proof.
  intros [k Hk] Hi. rewrite (kind_member d x i (data o)) in Hk by (unfold data_at; by rewrite ?Hx).
  destruct (decide (list_at d (x, i) = [])) as [?|Hne]; [done|].
  unfold has_children in Hch. cbn in Hch.
  rewrite !orb_false_iff, !andb_false_iff, !negb_false_iff in Hch. destruct Hch as (_ & H1 & H2 & _).
  destruct (data o), i as [|[|[|i]]]; try done; cbn in H1, H2;
    repeat match goal with
           | H : _ ∨ bool_decide _ = true |- _ => destruct H as [?|?%bool_decide_eq_true]; done
           end.
Qed.

Lemma kept_kind L k y : y ∈ list_at d L → y ≠ x → kind_at d L = Some k → kind_at d' L = Some k.
Proof.
  intros Hy Hne Hk. destruct (decide (L.1 = x)) as [E|E].
  - destruct L as [p i]. cbn in E. subst p. destruct (decide (i = 0%nat)) as [->|Hi].
    + unfold kind_at in *. repeat case_decide; try done. cbn [fst snd] in *. by repeat case_match.
    + rewrite no_list in Hy; [|by eexists|done]. by apply elem_of_nil in Hy.
  - unfold kind_at in *. by rewrite kept_lookup.
Qed.

Lemma kept_kind_inv L k : kind_at d' L = Some k → kind_at d L = Some k.
Proof.
  intros Hk. destruct (decide (L.1 = x)) as [E|E]; [|unfold kind_at in *; by rewrite kept_lookup in Hk].
  unfold kind_at in *. repeat case_decide; try done. unfold d' in Hk. rewrite destroyed_objs, E in Hk.
  by rewrite lookup_delete_eq in Hk.
Qed.

Lemma kept_ok y oy : y ≠ x → objs d !! y = Some oy → object_ok d' y oy.
Proof.
  intros Hne Hy. destruct W as [C Hok]. specialize (Hok y oy Hy). destruct (U y oy Hy) as [Hpar Hrule].
  unfold object_ok, optional_parent in *. destruct (data oy) as [v|a|t|e|a|c|r] eqn:Hd; try done.
  - destruct Hok as [?|(? & ? & Hp)]; [by left|]. right. split_and!; try done. intros p Hpp.
    rewrite kept_data by congruence. by apply Hp.
  - destruct Hok as (? & Hp). split; [done|]. intros p Hpp. rewrite kept_data by congruence. by apply Hp.
  - destruct Hok as (p & Hp & Ht & Hl). exists p. split_and!; try done. rewrite kept_data by congruence. done.
  - destruct Hok as (v & vd & Hv & Hid & Hl & Hp). exists v, vd.
    assert (v ≠ x).
    { intros ->. assert (M : y ∈ list_at d (x, 1%nat)).
      { apply (c_member d C). exists oy. split; [done|]. left. apply Hl. }
      rewrite no_list in M; [by apply elem_of_nil in M| |done]. rewrite (kind_member d x 1 _ Hv) by done. by eexists. }
    rewrite kept_data by done. split_and!; try done. intros p Hpp. specialize (Hp p Hpp). unfold base_of in *.
    by rewrite kept_lookup by congruence.
  - destruct Hok as [?|(? & ? & Hp)]; [by left|]. right. split_and!; try done. intros p Hpp.
    rewrite kept_data by congruence. by apply Hp.
  - destruct Hok as (p & Hp & (po & Hpo & Hg) & Hl & (a & Ha)). exists p. split_and!; try done.
    + exists po. rewrite kept_lookup by congruence. done.
    + exists a. by eapply kept_rule.
Qed.

Lemma destroyed_wf : x ∉ [dict_vendors; dict_applications; dict_cmd_error] → wf d'.
Proof.
  intros Hns. destruct W as [C Hok]. split.
  2: { intros y oy Hy. unfold d' in Hy. rewrite destroyed_objs in Hy. apply lookup_delete_Some in Hy.
       apply kept_ok; naive_solver. }
  assert (B : brk d' = brk d) by (unfold d', destroyed; cbn; by destruct (head0 o), (head1 o)).
  split.
  - intros y oy Hy. rewrite B. unfold d' in Hy. rewrite destroyed_objs in Hy. apply lookup_delete_Some in Hy.
    destruct Hy as [_ Hy]. by apply (c_brk d C y oy).
  - intros y Hy. rewrite kept_lookup by (by intros ->). by apply (c_sentinels d C).
  - intros L y. unfold d'. rewrite (destroyed_list d x o L C Hx), list_elem_of_filter, (c_member d C), destroyed_objs. split.
    + intros (Hne & oy & Hy & Hl). exists oy. by rewrite lookup_delete_ne.
    + intros (oy & [Hne Hy]%lookup_delete_Some & Hl). split; [done | by exists oy].
  - intros L k Hk Hky. apply kept_kind_inv in Hk. unfold d' at 2. rewrite (destroyed_list d x o L C Hx).
    pose proof (c_sorted d C L k Hk Hky) as S. fold d'.
    assert (F : StronglySorted (key_lt d k) (filter (λ y, y ≠ x) (list_at d L))).
    { clear -S. induction S as [|y l _ IH Hy]; [constructor|]. rewrite filter_cons. case_decide; [|done].
      constructor; [done|]. rewrite Forall_forall in *. intros z Hz. apply list_elem_of_filter in Hz. naive_solver. }
    eapply sorted_mono; [|exact F]. intros y z Hy Hz. apply list_elem_of_filter in Hy, Hz.
    apply kept_key_lt; naive_solver.
  - intros y oy L Hy Hl. unfold d' in Hy. rewrite destroyed_objs in Hy. apply lookup_delete_Some in Hy.
    destruct Hy as [Hne Hy]. destruct (c_owner d C y oy L Hy Hl) as [k Hk]. exists k.
    apply (kept_kind L k y); try done. apply (c_member d C). by exists oy.
Qed.

End Delete.

Lemma fd_dict_delete_ok d x ret d' :
  wf d → unreferenced d x → fd_dict_delete d x = Ok (ret, d') →
  wf d' ∧ (d' = d ∧ ret = Some EINVAL ∨ ret = None ∧ objs d' = delete x (objs d)).
Proof.
  intros W U H. unfold fd_dict_delete in H. destruct (objs d !! x) as [o|] eqn:Hx; [|by simplify_eq; auto].
  destruct (has_children d x o) eqn:Hch; [by simplify_eq; auto|]. unfold destroy_object in H.
  case_bool_decide as Hs; [discriminate|]. cbn [mbind result_mbind] in H. injection H as <- <-.
  split; [by apply destroyed_wf | right; split; [done | apply destroyed_objs]].
Qed.

(** ** All dictionaries *)

Lemma fd_dict_init_wf : wf fd_dict_init.
Proof.
  assert (objects : ∀ x o, objs fd_dict_init !! x = Some o →
    x ∈ [dict_vendors; dict_applications; dict_cmd_error] ∧ head0 o = None ∧ head1 o = None
    ∧ object_ok fd_dict_init x o ∧ (x < 7)%positive).
  { intros x o. cbn. intros [[<- <-]|[_ H]]%lookup_insert_Some; [split_and!; cbn; (set_solver || auto || lia)|].
    apply lookup_insert_Some in H. destruct H as [[<- <-]|[_ H]]; [split_and!; cbn; (set_solver || auto || lia)|].
    apply lookup_singleton_Some in H. destruct H as [<- <-]. split_and!; cbn; (set_solver || auto || lia). }
  split; [|intros x o H; by apply objects].
  assert (nolist : ∀ L, list_at fd_dict_init L = []) by (intros L; unfold list_at; cbn; by rewrite lookup_empty).
  split.
  - intros x o H. by apply (objects x o).
  - done.
  - intros L x. rewrite nolist, elem_of_nil. split; [done|]. intros (o & Ho & [H|H]);
      destruct (objects x o Ho) as (_ & H0 & H1 & _); congruence.
  - intros L k _ _. rewrite nolist. constructor.
  - intros x o L Ho [H|H]; destruct (objects x o Ho) as (_ & H0 & H1 & _); congruence.
Qed.

(** The dictionaries a program can have: it adds objects, successfully or not, and
    deletes those nothing refers to. *)
Inductive reachable : dictionary → Prop :=
| reach_init : reachable fd_dict_init
| reach_new d dat par ret r d' : reachable d → fd_dict_new d dat par = Ok (ret, r, d') → reachable d'
| reach_delete d x ret d' :
    reachable d → unreferenced d x → fd_dict_delete d x = Ok (ret, d') → reachable d'.

Lemma reachable_wf d : reachable d → wf d.
Proof.
  induction 1 as [|d dat par ret r d' _ IH H|d x ret d' _ IH U H].
  - apply fd_dict_init_wf.
  - by eapply fd_dict_new_ok.
  - by eapply fd_dict_delete_ok.
Qed.

(** C8: The invariant of the dictionary: after any sequence of [fd_dict_new],
    whatever it returned, and of [fd_dict_delete] on objects nothing refers to,
    the lists hold exactly the objects of their kind, ordered by their keys,
    without duplicates; every AVP is in both lists of the vendor it names; what
    an object refers to exists.  The next operation keeps this, too. *)
Theorem dictionary_invariant d :
  reachable d →
  wf d
  ∧ (∀ dat par ret r d', fd_dict_new d dat par = Ok (ret, r, d') →
       wf d' ∧ (d' = d ∨ (ret = None ∧ r = Some (brk d) ∧ extends d d' ∧ objs d !! brk d = None)))
  ∧ ∀ x ret d', unreferenced d x → fd_dict_delete d x = Ok (ret, d') →
       wf d' ∧ (d' = d ∨ objs d' = delete x (objs d)).
Proof.
  intros R. pose proof (reachable_wf d R) as W. split; [done|]. split.
  - intros dat par ret r d' H. destruct (fd_dict_new_ok d dat par ret r d' W H) as [? [[? _]|(? & ? & ? & ? & _)]]; auto 7.
  - intros x ret d' U H. destruct (fd_dict_delete_ok d x ret d' W U H) as [? [[? _]|[_ ?]]]; auto.
Qed.

(** * Searches find what there is *)

Lemma key_lt_irrefl d k x : ¬ key_lt d k x x.
Proof.
  intros (ox & oy & kx & ky & Hx & Hy & Kx & Ky & Hl). simplify_eq.
  pose proof (lex_refl kx). lia.
Qed.

(** A loop over an ordered list stops at the key, or where it would be. *)
Lemma search_list_ordered d k kk cmp l :
  StronglySorted (key_lt d k) l →
  (∀ x, x ∈ l → ∃ o ko, objs d !! x = Some o ∧ key_for d k o = Some ko ∧ cmp o = Some (lex kk ko)) →
  ∃ r, search_list d cmp true l = Ok r
    ∧ ∀ x, r = Some x ↔ x ∈ l ∧ ∃ o, objs d !! x = Some o ∧ key_for d k o = Some kk.
Proof.
  induction 1 as [|y l Hs IH Hy]; intros H; cbn [search_list].
  - exists None. split; [done|]. intros x. rewrite elem_of_nil. naive_solver.
  - destruct (H y ltac:(by left)) as (o & ko & Ho & Hk & Hc). unfold object. rewrite Ho. cbn [mbind result_mbind].
    rewrite Hc. rewrite Forall_forall in Hy.
    assert (greater : ∀ x ox kx, x ∈ l → objs d !! x = Some ox → key_for d k ox = Some kx → lex ko kx < 0).
    { intros x ox kx Hx Hox Hkx. destruct (Hy x Hx) as (o1 & o2 & k1 & k2 & H1 & H2 & K1 & K2 & Hlt). by simplify_eq. }
    destruct (Z.eqb_spec (lex kk ko) 0) as [E|E]; [|destruct (Z.ltb_spec (lex kk ko) 0) as [Hlt|Hge]; cbn [andb]].
    + apply lex_eq in E. subst ko. exists (Some y). split; [done|]. intros x. rewrite elem_of_cons. split.
      * intros [= <-]. eauto.
      * intros ([->|Hx] & ox & Hox & Hkx); [done|]. specialize (greater x ox kk Hx Hox Hkx).
        pose proof (lex_refl kk). lia.
    + exists None. split; [done|]. intros x. rewrite elem_of_cons. split; [done|].
      intros ([->|Hx] & ox & Hox & Hkx).
      * simplify_eq. pose proof (lex_refl ko). lia.
      * specialize (greater x ox kk Hx Hox Hkx). apply lex_flip in Hlt. lia.
    + destruct IH as (r & -> & Hr); [intros x Hx; apply H; by right|]. exists r. split; [done|]. intros x.
      rewrite Hr, elem_of_cons. split; [naive_solver|]. intros ([->|Hx] & ox & Hox & Hkx); [|eauto].
      simplify_eq. by rewrite lex_refl in E.
Qed.

(** The object with a key in a list that has one kind of objects. *)
Lemma search_ordered d L k kk cmp :
  wf d → kind_at d L = Some k → keyed k = true →
  (∀ x o, x ∈ list_at d L → objs d !! x = Some o → ∃ ko, key_for d k o = Some ko ∧ cmp o = Some (lex kk ko)) →
  ∃ r, search_list d cmp true (list_at d L) = Ok r
    ∧ ∀ x, r = Some x ↔ x ∈ list_at d L ∧ ∃ o, objs d !! x = Some o ∧ key_for d k o = Some kk.
Proof.
  intros [C _] Hk Hy H. apply search_list_ordered; [by apply (c_sorted d C)|]. intros x Hx.
  destruct (proj1 (c_member d C L x) Hx) as (o & Ho & _). destruct (H x o Hx Ho) as (ko & ? & ?). eauto.
Qed.

Lemma key_unique d L k x y ox oy kk :
  wf d → kind_at d L = Some k → keyed k = true → x ∈ list_at d L → y ∈ list_at d L →
  objs d !! x = Some ox → objs d !! y = Some oy → key_for d k ox = Some kk → key_for d k oy = Some kk → x = y.
Proof.
  intros [C _] Hk Hy Hx Hy' Hox Hoy Kx Ky. pose proof (c_sorted d C L k Hk Hy) as S.
  assert (I : ∀ u v, key_lt d k u v → (u = x ∧ v = y) ∨ (u = y ∧ v = x) → False).
  { intros u v (o1 & o2 & k1 & k2 & H1 & H2 & K1 & K2 & Hlt) [[-> ->]|[-> ->]]; simplify_eq;
      rewrite lex_refl in Hlt; lia. }
  induction S as [|z l _ IH Hz]; [by apply elem_of_nil in Hx|]. rewrite Forall_forall in Hz.
  apply elem_of_cons in Hx, Hy'. destruct Hx as [->|Hx], Hy' as [->|Hy']; [done|..].
  - exfalso. apply (I z y); auto.
  - exfalso. apply (I z x); auto.
  - auto.
Qed.
