(* ===== verification/FdDictSearch.v ===== *)
(** The searches of a dictionary that keeps its invariant find the object that
    was asked for, when there is one, and never crash; with them a dictionary
    implements the interface [fd_msg_parse_dict] uses (FdParse.Dictionary). *)

From stdpp Require Import base list gmap strings sorting.
From Stdlib Require Import ZArith Lia.
From S2P Require Import Prelude FdMessages FdParse FdDictionary FdDictInv.
Open Scope Z_scope.

Section Search.
Context (d : dictionary).
Hypothesis W : wf d.

Lemma core_d : core d.
Proof. apply W. Qed.

(** The objects of the lists. *)
Lemma member_ok L x : x ∈ list_at d L → ∃ o, objs d !! x = Some o ∧ linked_to o L ∧ object_ok d x o.
Proof. intros H. apply (c_member d core_d) in H. destruct H as (o & Ho & Hl). exists o. split_and!; try done. by apply W. Qed.

(** The sentinels are linked nowhere. *)
Lemma linked_not_sentinel x o L :
  objs d !! x = Some o → linked_to o L → x ∉ [dict_vendors; dict_applications; dict_cmd_error].
Proof.
  intros Ho Hl H. rewrite (c_sentinels d core_d x H) in Ho. rewrite !elem_of_cons, elem_of_nil in H.
  destruct H as [->|[->|[->|[]]]]; injection Ho as <-; by destruct Hl.
Qed.

(** Which lists an object can be in. *)
Definition belongs (o : dict_object) (L : lid) : Prop :=
  match data o with
  | VENDOR _ => L = vendors
  | APPLICATION _ => L = applications
  | TYPE _ => L = dict_types
  | ENUMVAL _ => type_of <$> data_at d L.1 = Some DICT_TYPE ∧ L.2 ≠ 0%nat
  | AVP a => (∃ vd, data_at d L.1 = Some (VENDOR vd) ∧ vendor_id vd = avp_vendor a) ∧ L.2 ≠ 0%nat
  | COMMAND _ => L = dict_cmd_name ∨ L = dict_cmd_code
  | RULE _ => (∃ po, objs d !! L.1 = Some po ∧ grouped po = true) ∧ L.2 ≠ 0%nat
  end.

Lemma linked_belongs x o L : objs d !! x = Some o → linked_to o L → belongs o L.
Proof.
  intros Ho Hl. pose proof (linked_not_sentinel x o L Ho Hl) as Hns.
  assert (x ≠ dict_vendors ∧ x ≠ dict_applications ∧ x ≠ dict_cmd_error) as (N1 & N2 & N3)
    by (split_and!; intros ->; apply Hns; rewrite !elem_of_cons; auto).
  pose proof (proj2 W x o Ho) as Hok. unfold object_ok, belongs, linked_as, linked_to in *.
  destruct (data o); naive_solver.
Qed.

Lemma vendors_member x :
  x ∈ list_at d vendors ↔ x ≠ dict_vendors ∧ ∃ vd, data_at d x = Some (VENDOR vd).
Proof.
  unfold data_at. split.
  - intros H. destruct (member_ok _ _ H) as (o & Ho & Hl & _). rewrite Ho.
    pose proof (linked_belongs x o _ Ho Hl) as B. pose proof (linked_not_sentinel x o _ Ho Hl) as N.
    split; [intros ->; apply N; by left|].
    unfold belongs, vendors, applications, dict_types, dict_cmd_name, dict_cmd_code in B. cbn [fst snd] in B.
    cbn [fmap option_fmap option_map]. destruct (data o); [by eauto | naive_solver..].
  - intros [Hne [vd Hd]]. apply fmap_Some in Hd. destruct Hd as (o & Ho & Hd).
    apply (c_member d core_d). exists o. split; [done|]. pose proof (proj2 W x o Ho) as Hok. unfold object_ok in Hok.
    rewrite <- Hd in Hok. destruct Hok as [?|(_ & Hl & _)]; [done | by left].
Qed.

Lemma vendor_0 : ∃ vd, data_at d dict_vendors = Some (VENDOR vd) ∧ vendor_id vd = 0.
Proof.
  unfold data_at. rewrite (c_sentinels d core_d) by (by left). cbn. eauto.
Qed.

Lemma vendor_nonzero x vd : data_at d x = Some (VENDOR vd) → vendor_id vd = 0 → x = dict_vendors.
Proof.
  intros Hd Hid. unfold data_at in Hd. apply fmap_Some in Hd. destruct Hd as (o & Ho & Hd).
  pose proof (proj2 W x o Ho) as Hok. unfold object_ok in Hok. rewrite <- Hd in Hok. by destruct Hok as [?|[? _]].
Qed.

Lemma search_vendor_ok id :
  ∃ r, search_vendor d (VENDOR_BY_ID id) (Some None) = Ok (None, Some r)
    ∧ ∀ x, r = Some x ↔ ∃ vd, data_at d x = Some (VENDOR vd) ∧ vendor_id vd = id.
Proof.
  unfold search_vendor, object. destruct vendor_0 as (v0 & Hd0 & Hid0). unfold data_at in Hd0.
  apply fmap_Some in Hd0. destruct Hd0 as (o0 & Ho0 & Hd0). rewrite Ho0. cbn [mbind result_mbind].
  case_decide as Hc.
  - exists (Some dict_vendors). split; [done|].
    apply vendor_id_cmp_eq in Hc. destruct Hc as (v & Hv & Hid). rewrite Hv in Hd0. injection Hd0 as <-.
    intros x. split.
    + intros [= <-]. exists v0. unfold data_at. rewrite Ho0. cbn. by rewrite Hv.
    + intros (vd & Hd & Hvd). f_equal. symmetry. eapply vendor_nonzero; [exact Hd | congruence].
  - assert (Hid : id ≠ 0).
    { intros ->. apply Hc. unfold vendor_id_cmp. rewrite <- Hd0, Hid0. done. }
    destruct (search_ordered d vendors KVendors [id] (vendor_id_cmp id) W) as (r & Hr & Hx); [done..| |].
    + intros x o Hx Ho. apply vendors_member in Hx. destruct Hx as (_ & vd & Hd). unfold data_at in Hd. rewrite Ho in Hd.
      injection Hd as Hd. exists [vendor_id vd]. unfold key_for, vendor_id_cmp. rewrite Hd.
      by rewrite ORDER_scalar_lex.
    + exists r. unfold SEARCH. rewrite Hr. split; [by destruct r|]. intros x. rewrite Hx, vendors_member.
      unfold data_at. split.
      * intros ((_ & vd & Hd) & o & Ho & Hk). exists vd. split; [done|]. rewrite Ho in Hd. injection Hd as Hd.
        unfold key_for in Hk. rewrite Hd in Hk. by injection Hk.
      * intros (vd & Hd & Hvd). apply fmap_Some in Hd. destruct Hd as (o & Ho & Hd). rewrite Ho. cbn. rewrite <- Hd. split.
        -- split; [|eauto]. intros ->. simplify_eq. rewrite <- Hd0 in Hd. congruence.
        -- exists o. split; [done|]. unfold key_for. by rewrite <- Hd, Hvd.
Qed.

Lemma vendor_unique x y vx vy :
  data_at d x = Some (VENDOR vx) → data_at d y = Some (VENDOR vy) → vendor_id vx = vendor_id vy → x = y.
Proof.
  intros Hx Hy E. destruct (search_vendor_ok (vendor_id vx)) as (r & _ & Hr).
  assert (r = Some x) by (apply Hr; eauto). assert (r = Some y) by (apply Hr; eauto). congruence.
Qed.

(** The AVPs of a vendor are in both its lists. *)
Lemma avp_member v vd i x :
  data_at d v = Some (VENDOR vd) → i = 1%nat ∨ i = 2%nat →
  x ∈ list_at d (v, i) ↔ ∃ a, data_at d x = Some (AVP a) ∧ avp_vendor a = vendor_id vd.
Proof.
  intros Hv Hi. split.
  - intros H. destruct (member_ok _ _ H) as (o & Ho & Hl & _).
    pose proof (linked_belongs x o _ Ho Hl) as B. unfold belongs in B. cbn [fst snd] in B.
    assert (Hi0 : i ≠ 0%nat) by (by destruct Hi as [-> | ->]). unfold data_at in *. rewrite Ho. cbn.
    apply fmap_Some in Hv. destruct Hv as (vo & Hvo & Hvd). rewrite Hvo in B. cbn in B.
    unfold vendors, applications, dict_types, dict_cmd_name, dict_cmd_code in B.
    destruct (data o) as [v'|a|t|e|a|c|r]; try (by naive_solver).
    + rewrite <- Hvd in B. by destruct B.
    + destruct B as [(vd' & Hv' & Hid) _]. rewrite <- Hvd in Hv'. injection Hv' as <-. eauto.
    + destruct B as [(po & Hpo & Hg) _]. injection Hpo as <-. unfold grouped in Hg. by rewrite <- Hvd in Hg.
  - intros (a & Hx & Ha). unfold data_at in Hx. apply fmap_Some in Hx. destruct Hx as (o & Ho & Hd).
    apply (c_member d core_d). exists o. split; [done|]. pose proof (proj2 W x o Ho) as Hok. unfold object_ok in Hok.
    rewrite <- Hd in Hok. destruct Hok as (v' & vd' & Hv' & Hid & (H0 & H1) & _).
    assert (v' = v) as -> by (eapply vendor_unique; [exact Hv' | exact Hv | congruence]).
    unfold linked_to. destruct Hi as [-> | ->]; auto.
Qed.

(** A search with an empty result variable returns 0 and the one object in [P],
    or NULL when there is none. *)
Definition finds (r : result answer) (P : ref → Prop) : Prop :=
  ∃ o, r = Ok (None, Some o) ∧ ∀ x, o = Some x ↔ P x.

Lemma finds_ext r P Q : (∀ x, P x ↔ Q x) → finds r P → finds r Q.
Proof. intros H (o & -> & Ho). exists o. split; [done|]. intros x. by rewrite Ho. Qed.

Lemma SEARCH_finds cmp isindex l r P :
  search_list d cmp isindex l = Ok r → (∀ x, r = Some x ↔ P x) → finds (SEARCH d cmp isindex l (Some None)) P.
Proof. intros H HP. exists r. split; [|done]. unfold SEARCH. rewrite H. by destruct r. Qed.

Definition avp_with (P : dict_avp_data → Prop) (x : ref) : Prop := ∃ a, data_at d x = Some (AVP a) ∧ P a.

(** The AVPs of a vendor by one of their keys. *)
Lemma avps_of_vendor v vd i k kk cmp :
  data_at d v = Some (VENDOR vd) → i = 1%nat ∨ i = 2%nat → kind_at d (v, i) = Some k → keyed k = true →
  (∀ o a, data o = AVP a → ∃ ko, key_for d k o = Some ko ∧ cmp o = Some (lex kk ko)) →
  finds (SEARCH d cmp true (list_at d (v, i)) (Some None))
    (λ x, ∃ o a, objs d !! x = Some o ∧ data o = AVP a ∧ avp_vendor a = vendor_id vd ∧ key_for d k o = Some kk).
Proof.
  intros Hv Hi Hk Hy Hc. destruct (search_ordered d (v, i) k kk cmp W Hk Hy) as (r & Hr & Hx).
  - intros x o Hx Ho. apply (avp_member v vd i x Hv Hi) in Hx. destruct Hx as (a & Hd & _). unfold data_at in Hd.
    rewrite Ho in Hd. injection Hd as Hd. by apply (Hc o a).
  - eapply SEARCH_finds; [exact Hr|]. intros x. rewrite Hx, (avp_member v vd i x Hv Hi). unfold data_at. split.
    + intros ((a & Hd & Ha) & o & Ho & Hko). rewrite Ho in Hd. injection Hd as Hd. eauto 10.
    + intros (o & a & Ho & Hd & Ha & Hko). rewrite Ho. cbn. rewrite Hd. eauto 10.
Qed.

Lemma search_code_in v vd c :
  data_at d v = Some (VENDOR vd) →
  finds (SEARCH d (avp_code_cmp c) true (list_at d (v, 1%nat)) (Some None))
    (avp_with (λ a, avp_vendor a = vendor_id vd ∧ avp_code a = c)).
Proof.
  intros Hv. eapply finds_ext; [|apply (avps_of_vendor v vd 1 KAvpCode [c])]; try done; auto.
  - unfold avp_with, data_at, key_for. intros x. split.
    + intros (o & a & Ho & Hd & Ha & Hk). exists a. rewrite Ho. cbn. rewrite Hd in *. injection Hk as ->. done.
    + intros (a & Hd & Ha & <-). apply fmap_Some in Hd. destruct Hd as (o & Ho & Hd). exists o, a.
      rewrite <- Hd. done.
  - by rewrite (kind_member d v 1 _ Hv).
  - intros o a Hd. exists [avp_code a]. unfold key_for, avp_code_cmp. rewrite Hd. by rewrite ORDER_scalar_lex.
Qed.

Lemma search_name_in v vd n :
  data_at d v = Some (VENDOR vd) →
  finds (SEARCH d (avp_name_cmp n) true (list_at d (v, 2%nat)) (Some None))
    (avp_with (λ a, avp_vendor a = vendor_id vd ∧ avp_name a = n)).
Proof.
  intros Hv. eapply finds_ext; [|apply (avps_of_vendor v vd 2 KAvpName (os_key n))]; try done; auto.
  - unfold avp_with, data_at, key_for. intros x. split.
    + intros (o & a & Ho & Hd & Ha & Hk). exists a. rewrite Ho. cbn. rewrite Hd in *.
      injection Hk as Hk. done.
    + intros (a & Hd & Ha & <-). apply fmap_Some in Hd. destruct Hd as (o & Ho & Hd). exists o, a.
      rewrite <- Hd. done.
  - by rewrite (kind_member d v 2 _ Hv).
  - intros o a Hd. exists (os_key (avp_name a)). unfold key_for, avp_name_cmp. rewrite Hd. by rewrite fd_os_cmp_lex.
Qed.

(** First the vendor, then its AVPs. *)
Lemma search_in_vendor id f (P : dict_avp_data → Prop) :
  (∀ v vd, data_at d v = Some (VENDOR vd) → vendor_id vd = id →
    finds (f v) (avp_with (λ a, avp_vendor a = id ∧ P a))) →
  finds (ret ← search_vendor d (VENDOR_BY_ID id) (Some None); in_vendor ret (Some None) f)
    (avp_with (λ a, avp_vendor a = id ∧ P a)).
Proof.
  intros Hf. destruct (search_vendor_ok id) as (r & -> & Hr). cbn [mbind result_mbind in_vendor].
  destruct r as [v|].
  - destruct (proj1 (Hr v) eq_refl) as (vd & Hv & Hid). by apply (Hf v vd).
  - exists None. split; [done|]. intros x. split; [done|]. intros (a & Hx & Ha & _).
    unfold data_at in Hx. apply fmap_Some in Hx. destruct Hx as (o & Ho & Hd).
    pose proof (proj2 W x o Ho) as Hok. unfold object_ok in Hok. rewrite <- Hd in Hok.
    destruct Hok as (v & vd & Hv & Hid & _). assert (None = Some v) by (apply Hr; exists vd; split; [done | congruence]).
    done.
Qed.

(** ** Commands *)

Lemma command_member L x :
  L = dict_cmd_name ∨ L = dict_cmd_code →
  x ∈ list_at d L ↔ x ≠ dict_cmd_error ∧ ∃ c, data_at d x = Some (COMMAND c).
Proof.
  intros HL. unfold data_at. split.
  - intros H. destruct (member_ok _ _ H) as (o & Ho & Hl & _). rewrite Ho.
    pose proof (linked_belongs x o _ Ho Hl) as B. pose proof (linked_not_sentinel x o _ Ho Hl) as N.
    split; [intros ->; apply N; set_solver|].
    unfold belongs, vendors, applications, dict_types in B. cbn [fmap option_fmap option_map].
    destruct (data o) as [| | | | |c|]; [..|by eauto|];
      destruct HL as [-> | ->]; unfold dict_cmd_name, dict_cmd_code in B; cbn in B; naive_solver.
  - intros [Hne [c Hd]]. apply fmap_Some in Hd. destruct Hd as (o & Ho & Hd).
    apply (c_member d core_d). exists o. split; [done|]. pose proof (proj2 W x o Ho) as Hok. unfold object_ok in Hok.
    rewrite <- Hd in Hok. destruct Hok as [?|(_ & (H0 & H1) & _)]; [done|]. unfold linked_to.
    destruct HL as [-> | ->]; auto.
Qed.

(** The command with a code and the 'R' flag, or without it. *)
Definition command_with (code R_flag : Z) (x : ref) : Prop :=
  x ≠ dict_cmd_error
  ∧ ∃ c, data_at d x = Some (COMMAND c) ∧ cmd_code c = code ∧ Z.land (cmd_flag_val c) CMD_FLAG_REQUEST = R_flag.

Lemma search_codefl_ordered code f l :
  StronglySorted (key_lt d KCmdCode) l →
  (∀ x, x ∈ l → ∃ o c, objs d !! x = Some o ∧ data o = COMMAND c
    ∧ Z.land (cmd_flag_mask c) CMD_FLAG_REQUEST ≠ 0) →
  ∃ r, search_codefl d code f l = Ok r
    ∧ ∀ x, r = Some x ↔ x ∈ l ∧ ∃ o, objs d !! x = Some o ∧ key_for d KCmdCode o = Some [code; - f].
Proof.
  induction 1 as [|y l Hs IH Hy]; intros H; cbn [search_codefl].
  - exists None. split; [done|]. intros x. rewrite elem_of_nil. naive_solver.
  - destruct (H y ltac:(by left)) as (o & c & Ho & Hd & Hm). unfold object. rewrite Ho. cbn [mbind result_mbind].
    rewrite Hd. rewrite Forall_forall in Hy.
    assert (Ky : key_for d KCmdCode o = Some [cmd_code c; - Z.land (cmd_flag_val c) CMD_FLAG_REQUEST])
      by (unfold key_for; by rewrite Hd).
    set (fl := Z.land (cmd_flag_val c) CMD_FLAG_REQUEST) in *.
    assert (later : ∀ x ox, x ∈ l → objs d !! x = Some ox → key_for d KCmdCode ox = Some [code; - f] →
      lex [cmd_code c; - fl] [code; - f] < 0).
    { intros x ox Hx Hox Hkx. destruct (Hy x Hx) as (o1 & o2 & k1 & k2 & H1 & H2 & K1 & K2 & Hlt). by simplify_eq. }
    destruct IH as (r & Hr & HP); [intros x Hx; apply H; by right|].
    assert (skip : [cmd_code c; - fl] ≠ [code; - f] → ∀ x, r = Some x ↔
      x ∈ y :: l ∧ ∃ o, objs d !! x = Some o ∧ key_for d KCmdCode o = Some [code; - f]).
    { intros Hne x. rewrite HP, elem_of_cons. split; [naive_solver|].
      intros ([->|Hx] & ox & Hox & Hkx); [|eauto]. simplify_eq. }
    unfold ORDER_scalar at 1 2. cbn [lex] in later.
    destruct (Z.ltb_spec code (cmd_code c)) as [Hlt|Hge]; cbn [Z.eqb Z.ltb Z.compare].
    { exists None. split; [done|]. intros x. rewrite elem_of_cons. split; [done|].
      intros ([->|Hx] & ox & Hox & Hkx); [simplify_eq; lia|]. specialize (later x ox Hx Hox Hkx).
      destruct (Z.ltb_spec (cmd_code c) code), (Z.ltb_spec code (cmd_code c)); lia. }
    destruct (Z.ltb_spec (cmd_code c) code) as [Hlt|Heq]; cbn [Z.eqb Z.ltb Z.compare].
    { exists r. split; [done|]. apply skip. intros [=]. lia. }
    rewrite (proj2 (Z.eqb_neq _ _) Hm). assert (cmd_code c = code) by lia.
    destruct (Z.eqb_spec fl f) as [Ef|Ef]; cbn [negb].
    + exists (Some y). split; [done|]. intros x. rewrite elem_of_cons. split.
      * intros [= <-]. split; [by left|]. exists o. split; [done|]. rewrite Ky. congruence.
      * intros ([->|Hx] & ox & Hox & Hkx); [done|]. specialize (later x ox Hx Hox Hkx).
        rewrite Ef in later. subst code. rewrite !Z.ltb_irrefl in later. lia.
    + exists r. split; [done|]. apply skip. intros [=]. lia.
Qed.

Lemma search_codefl_ok code f :
  ∃ r, search_codefl d code f (list_at d dict_cmd_code) = Ok r ∧ ∀ x, r = Some x ↔ command_with code f x.
Proof.
  destruct (search_codefl_ordered code f (list_at d dict_cmd_code)) as (r & Hr & HP).
  - by apply (c_sorted d core_d).
  - intros x Hx. destruct (member_ok _ _ Hx) as (o & Ho & Hl & Hok).
    apply command_member in Hx; [|by right]. destruct Hx as (Hne & c & Hd). unfold data_at in Hd. rewrite Ho in Hd.
    injection Hd as Hd. exists o, c. split_and!; try done. unfold object_ok in Hok. rewrite Hd in Hok.
    by destruct Hok as [?|[? _]].
  - exists r. split; [done|]. intros x. rewrite HP, (command_member _ _ (or_intror eq_refl)). unfold command_with, data_at.
    split.
    + intros ((Hne & c & Hd) & o & Ho & Hk). split; [done|]. exists c. split; [done|]. rewrite Ho in Hd.
      injection Hd as Hd. unfold key_for in Hk. rewrite Hd in Hk. injection Hk as H1 H2. split; [done | lia].
    + intros (Hne & c & Hd & H1 & H2). apply fmap_Some in Hd. destruct Hd as (o & Ho & Hd). rewrite Ho. cbn.
      rewrite <- Hd. split; [eauto|]. exists o. split; [done|]. unfold key_for. rewrite <- Hd. by rewrite H1, H2.
Qed.

End Search.

Definition by_vendor (id code : Z) : dict_avp_request_ex :=
  {| req_vendor := None; req_vendor_id := id; req_vendor_name := None; req_avp_code := code; req_avp_name := None |}.

Section Found.
Context (d : dictionary) (W : wf d).

Lemma search_avp_code code :
  finds (search_avp d (AVP_BY_CODE code) (Some None)) (avp_with d (λ a, avp_vendor a = 0 ∧ avp_code a = code)).
Proof.
  destruct (vendor_0 d W) as (vd & Hv & Hid). cbn [search_avp].
  pose proof (search_code_in d W dict_vendors vd code Hv) as H. by rewrite Hid in H.
Qed.

Lemma search_avp_code_vendor id code :
  finds (search_avp d (AVP_BY_CODE_AND_VENDOR id code) (Some None))
    (avp_with d (λ a, avp_vendor a = id ∧ avp_code a = code)).
Proof.
  cbn [search_avp]. apply search_in_vendor; [done|]. intros v vd Hv <-. by apply search_code_in.
Qed.

Lemma search_avp_struct id code :
  id ≠ 0 → code ≠ 0 →
  finds (search_avp d (AVP_BY_STRUCT (by_vendor id code)) (Some None))
    (avp_with d (λ a, avp_vendor a = id ∧ avp_code a = code)).
Proof.
  intros Hi Hc. cbn [search_avp by_vendor req_vendor req_vendor_id req_vendor_name req_avp_code req_avp_name].
  rewrite (proj2 (Z.eqb_neq _ _) Hi), (proj2 (Z.eqb_neq _ _) Hc). cbn [andb bool_decide].
  rewrite andb_false_r. cbn [andb]. apply search_in_vendor; [done|]. intros v vd Hv <-. by apply search_code_in.
Qed.

Lemma search_avp_name_vendor id name :
  finds (search_avp d (AVP_BY_NAME_AND_VENDOR id (Some name)) (Some None))
    (avp_with d (λ a, avp_vendor a = id ∧ avp_name a = name)).
Proof.
  cbn [search_avp]. apply search_in_vendor; [done|]. intros v vd Hv <-. by apply search_name_in.
Qed.

Lemma search_cmd_code (request : bool) code :
  finds (search_cmd d (if request then CMD_BY_CODE_R code else CMD_BY_CODE_A code) (Some None))
    (command_with d code (if request then CMD_FLAG_REQUEST else 0)).
Proof.
  destruct request; cbn [search_cmd];
    [destruct (search_codefl_ok d W code CMD_FLAG_REQUEST) as (r & -> & Hr)
    |destruct (search_codefl_ok d W code 0) as (r & -> & Hr)]; exists r; (split; [by destruct r | done]).
Qed.

(** C17: The searches by key are complete and exact: in a dictionary that keeps its
    invariant they return, with the one object that has the key, or with NULL
    when there is none; so no two objects share a key. *)
Theorem fd_dict_search_spec :
  (∀ id, finds (search_vendor d (VENDOR_BY_ID id) (Some None))
           (λ x, ∃ vd, data_at d x = Some (VENDOR vd) ∧ vendor_id vd = id))
  ∧ (∀ code, finds (search_avp d (AVP_BY_CODE code) (Some None))
               (avp_with d (λ a, avp_vendor a = 0 ∧ avp_code a = code)))
  ∧ (∀ id code, finds (search_avp d (AVP_BY_CODE_AND_VENDOR id code) (Some None))
                  (avp_with d (λ a, avp_vendor a = id ∧ avp_code a = code)))
  ∧ (∀ id code, id ≠ 0 → code ≠ 0 → finds (search_avp d (AVP_BY_STRUCT (by_vendor id code)) (Some None))
                  (avp_with d (λ a, avp_vendor a = id ∧ avp_code a = code)))
  ∧ (∀ id name, finds (search_avp d (AVP_BY_NAME_AND_VENDOR id (Some name)) (Some None))
                  (avp_with d (λ a, avp_vendor a = id ∧ avp_name a = name)))
  ∧ (∀ code, finds (search_cmd d (CMD_BY_CODE_R code) (Some None)) (command_with d code CMD_FLAG_REQUEST))
  ∧ (∀ code, finds (search_cmd d (CMD_BY_CODE_A code) (Some None)) (command_with d code 0)).
Proof.
  split_and!.
  - intros id. destruct (search_vendor_ok d W id) as (r & H & Hr). by exists r.
  - apply search_avp_code.
  - apply search_avp_code_vendor.
  - apply search_avp_struct.
  - apply search_avp_name_vendor.
  - apply (search_cmd_code true).
  - apply (search_cmd_code false).
Qed.

End Found.

(** * A new AVP is found *)

Lemma same_avp d old new a :
  same_object d old new = Some true → data new = AVP a →
  ∃ a', data old = AVP a' ∧ avp_vendor a' = avp_vendor a ∧ avp_code a' = avp_code a.
Proof.
  unfold same_object. intros H Hn. rewrite Hn in H. destruct (data old) as [| | | |a'| |]; try done. exists a'.
  injection H as H. rewrite !andb_true_iff in H. destruct H as (((((H1 & _) & H2) & _) & _) & _).
  apply Z.eqb_eq in H1, H2. by apply (proj1 (ORDER_scalar_eq _ _)) in H1.
Qed.

(** [fd_dict_new] and [fd_dict_search] agree: when the creation of an AVP returns
    0, a search for its code and vendor in the dictionary finds the object that
    was returned, be it the new one or the same AVP that was there. *)
Theorem fd_dict_new_found d a par x d' :
  wf d → fd_dict_new d (AVP a) par = Ok (None, Some x, d') →
  search_avp d' (AVP_BY_CODE_AND_VENDOR (avp_vendor a) (avp_code a)) (Some None) = Ok (None, Some (Some x)).
Proof.
  intros W H. destruct (fd_dict_new_ok d (AVP a) par _ _ d' W H) as [W' Hd'].
  destruct (search_avp_code_vendor d' W' (avp_vendor a) (avp_code a)) as (r & -> & Hr).
  do 3 f_equal. apply Hr. unfold avp_with, data_at.
  destruct Hd' as [[-> Hsame]|(_ & [= ->] & _ & _ & o & -> & Ho & _)].
  - destruct (Hsame eq_refl) as (y & old & [= ->] & -> & Hs). destruct (same_avp _ _ _ a Hs eq_refl) as (a' & Hd & Hv & Hc).
    exists a'. cbn. by rewrite Hd.
  - exists a. cbn. by rewrite Ho.
Qed.
