(* ===== verification/FdDictModel.v ===== *)
(** The dictionary as the parser of messages sees it: it implements
    [FdParse.Dictionary].  A sample dictionary, with which the theorems of the
    files before are instantiated, and what goes wrong in the dictionary. *)

From stdpp Require Import base list gmap strings.
From Stdlib Require Import ZArith Lia.
From S2P Require Import Prelude FdMessages FdWire FdParse FdRoundTrip FdDictionary FdDictInv FdDictSearch.
Open Scope Z_scope.

(** * The interface *)

(** The check of the type of an AVP: TYPE_OF_AVP and [fd_dict_getval]. *)
Definition check_of (d : dictionary) (x : ref) : option (avp_value → Z) :=
  match fd_dict_search d (R_TYPE (TYPE_OF_AVP (Some x))) (Some None) None with
  | Ok (_, Some (Some t)) =>
      match objs d !! t with
      | Some o => match data o with TYPE t => type_check t | _ => None end
      | None => None
      end
  | _ => None
  end.

(** [fd_dict_getval] on an AVP. *)
Definition model_of (d : dictionary) (x : ref) : option FdMessages.dict_avp_data :=
  match objs d !! x with
  | Some o =>
      match data o with
      | AVP a => Some {| dict_avp_code := avp_code a; dict_avp_vendor := avp_vendor a;
                         dict_basetype := avp_basetype a; dict_type_check := check_of d x |}
      | _ => None
      end
  | None => None
  end.

Definition command_of (d : dictionary) (x : ref) : option FdMessages.dict_cmd_data :=
  match objs d !! x with
  | Some o =>
      match data o with
      | COMMAND c => Some {| FdMessages.cmd_code := cmd_code c; FdMessages.cmd_flag_mask := cmd_flag_mask c;
                             FdMessages.cmd_flag_val := cmd_flag_val c |}
      | _ => None
      end
  | None => None
  end.

(** What a search leaves in a variable that was NULL. *)
Definition found_by (d : dictionary) (r : request) : option ref :=
  match fd_dict_search d r (Some None) None with Ok (_, Some o) => o | _ => None end.

Lemma found_by_finds d c P x :
  finds (search_avp d c (Some None)) P → found_by d (R_AVP c) = Some x → P x.
Proof.
  unfold found_by, fd_dict_search. cbn [search_fct]. intros (o & -> & Ho). cbn [mbind result_mbind].
  case_decide; cbn; intros; by apply Ho.
Qed.

Lemma found_by_command d (request : bool) code x :
  wf d → found_by d (R_COMMAND (if request then CMD_BY_CODE_R code else CMD_BY_CODE_A code)) = Some x →
  ∃ c, data_at d x = Some (COMMAND c) ∧ cmd_code c = code.
Proof.
  intros W. unfold found_by, fd_dict_search. cbn [search_fct].
  destruct (search_cmd_code d W request code) as (o & -> & Ho). cbn [mbind result_mbind].
  case_decide; cbn; intros (_ & c & Hd & Hc & _)%Ho; eauto.
Qed.

Lemma model_of_avp d x (P : dict_avp_data → Prop) m :
  avp_with d P x → model_of d x = Some m →
  ∃ a, P a ∧ dict_avp_code m = avp_code a ∧ dict_avp_vendor m = avp_vendor a.
Proof.
  unfold avp_with, data_at, model_of. intros (a & Hx & HP). apply fmap_Some in Hx. destruct Hx as (o & -> & <-).
  intros [= <-]. eauto.
Qed.

(** A dictionary that keeps its invariant implements the interface. *)
#[export, refine] Instance dictionary_interface (d : dictionary) (W : wf d) : Dictionary := {|
  avp_by_code c := found_by d (R_AVP (AVP_BY_CODE c)) ≫= model_of d;
  avp_by_vendor v c := found_by d (R_AVP (AVP_BY_STRUCT (by_vendor v c))) ≫= model_of d;
  cmd_by_code request c :=
    found_by d (R_COMMAND (if request then CMD_BY_CODE_R c else CMD_BY_CODE_A c)) ≫= command_of d
|}.
Proof.
  - intros c m H. apply bind_Some in H. destruct H as (x & Hx & Hm).
    apply (found_by_finds d _ _ x (search_avp_code d W c)) in Hx.
    destruct (model_of_avp d x _ m Hx Hm) as (a & [Hv Hc] & -> & ->). done.
  - intros v c m H. apply bind_Some in H. destruct H as (x & Hx & Hm).
    destruct (decide (v = 0)) as [->|Hv]; [done|]. destruct (decide (c = 0)) as [->|Hc].
    + unfold found_by, fd_dict_search in Hx. cbn [search_fct search_avp by_vendor req_vendor req_vendor_id
        req_vendor_name req_avp_code req_avp_name] in Hx.
      rewrite (proj2 (Z.eqb_neq _ _) Hv) in Hx. discriminate Hx.
    + apply (found_by_finds d _ _ x (search_avp_struct d W v c Hv Hc)) in Hx.
      destruct (model_of_avp d x _ m Hx Hm) as (a & [Ha Hac] & -> & ->). done.
  - intros request c m H. apply bind_Some in H. destruct H as (x & Hx & Hm).
    apply (found_by_command d request c x W) in Hx. destruct Hx as (cd & Hd & <-).
    unfold command_of, data_at in *. apply fmap_Some in Hd. destruct Hd as (o & Ho & Hd). rewrite Ho, <- Hd in Hm.
    by injection Hm as <-.
Defined.

(** * A sample dictionary *)

Definition add (d : dictionary) (x : object_data * option ref) : dictionary :=
  match fd_dict_new d x.1 x.2 with Ok (_, _, d') => d' | _ => d end.

Lemma add_reachable l : ∀ d, reachable d → reachable (foldl add d l).
Proof.
  induction l as [|[dat par] l IH]; intros d R; [done|]. apply IH. unfold add.
  destruct (fd_dict_new d _ _) as [[[ret r] d']| | |] eqn:E; try done. by eapply reach_new.
Qed.

Definition avp_entry (code vendor : Z) (name : string) (t : dict_avp_basetype) : object_data :=
  AVP {| avp_code := code; avp_vendor := vendor; avp_name := ascii_octets name; avp_flag_mask := 0x40;
         avp_flag_val := 0x40; avp_basetype := t |}.

Definition cmd_entry (code flags : Z) (name : string) : object_data :=
  COMMAND {| cmd_code := code; cmd_name := ascii_octets name; cmd_flag_mask := CMD_FLAG_REQUEST;
             cmd_flag_val := flags |}.

(** Identifiers of applications that are not 0. *)
Definition check_appl (v : avp_value) : Z :=
  match v with Number Z0 | OctetString _ => 22 | Number _ => 0 end.

Definition type_entry (name : string) (check : option (avp_value → Z)) : object_data :=
  TYPE {| type_base := AVP_TYPE_UNSIGNED32; type_name := ascii_octets name; type_interpret := None;
          type_encode := None; type_dump := None; type_check := check |}.

Definition sample : dictionary := foldl add fd_dict_init
  [(VENDOR {| vendor_id := 10415; vendor_name := ascii_octets "3GPP" |}, None);
   (type_entry "AppId" (Some check_appl), None);
   (avp_entry 263 0 "Session-Id" AVP_TYPE_OCTETSTRING, None);
   (avp_entry 260 0 "Vendor-Specific-Application-Id" AVP_TYPE_GROUPED, None);
   (avp_entry 258 0 "Auth-Application-Id" AVP_TYPE_UNSIGNED32, Some 8%positive);
   (avp_entry 1423 10415 "Context-Identifier" AVP_TYPE_UNSIGNED32, None);
   (cmd_entry 268 CMD_FLAG_REQUEST "Diameter-EAP-Request", None);
   (cmd_entry 268 0 "Diameter-EAP-Answer", None)].

Lemma sample_reachable : reachable sample.
Proof. apply add_reachable, reach_init. Qed.

Lemma sample_wf : wf sample.
Proof. apply reachable_wf, sample_reachable. Qed.

Lemma dictionary_invariant_witness :
  wf sample ∧ list_at sample (dict_vendors, 1%nat) = [11; 10; 9]%positive
  ∧ list_at sample dict_cmd_code = [13; 14]%positive.
Proof. split; [apply (dictionary_invariant sample sample_reachable)|]. split; vm_compute; reflexivity. Defined.

Lemma fd_dict_search_spec_witness :
  search_avp sample (AVP_BY_CODE_AND_VENDOR 10415 1423) (Some None) = Ok (None, Some (Some 12%positive))
  ∧ finds (search_cmd sample (CMD_BY_CODE_A 268) (Some None)) (command_with sample 268 0).
Proof.
  split; [vm_compute; reflexivity|].
  destruct (fd_dict_search_spec sample sample_wf) as (_ & _ & _ & _ & _ & _ & H). apply H.
Defined.

(** The same AVP again: its object is found, not a second one. *)
Definition again : FdDictionary.dict_avp_data :=
  {| avp_code := 1423; avp_vendor := 10415; avp_name := ascii_octets "Context-Identifier";
     avp_flag_mask := 0x40; avp_flag_val := 0x40; avp_basetype := AVP_TYPE_UNSIGNED32 |}.

Lemma again_same : fd_dict_new sample (AVP again) None = Ok (None, Some 12%positive, sample).
Proof. vm_compute. reflexivity. Qed.

Lemma fd_dict_new_found_witness :
  search_avp sample (AVP_BY_CODE_AND_VENDOR 10415 1423) (Some None) = Ok (None, Some (Some 12%positive)).
Proof. apply (fd_dict_new_found sample again None 12 sample); [apply sample_wf | apply again_same]. Defined.

(** ** A message *)

Definition sample_dict : Dictionary := dictionary_interface sample sample_wf.

Definition avp_built (m : option FdMessages.dict_avp_data) (code flags vendor : Z) (v : option avp_value)
    (raw : option (list Z)) (children : list avp) : avp :=
  Avp {| avp_model := m; mnf_code := 0; mnf_vendor := 0; FdMessages.avp_code := code; avp_flags := flags;
         avp_len := match raw with Some l => 12 + Z.of_nat (length l) | None => 0 end; FdMessages.avp_vendor := vendor;
         avp_val := v; avp_source := None; avp_rawdata := raw |} children.

Definition sample_msg : msg :=
  {| msg_public := {| msg_version := 1; msg_length := 0; msg_flags := 0xc0; msg_code := 268; msg_appl := 5;
                      msg_hbhid := 7; msg_eteid := 9 |};
     msg_model := None; msg_mnf_code := 0; msg_mnf_flags := 0;
     msg_children :=
       [avp_built (model_of sample 9) 263 0x40 0 (Some (OctetString [0x61; 0x3b; 0x31; 0x3b; 0x32])) None [];
        avp_built (model_of sample 10) 260 0x40 0 None None
          [avp_built (model_of sample 11) 258 0x40 0 (Some (Number 5)) None []];
        avp_built (model_of sample 12) 1423 0xc0 10415 (Some (Number 1)) None [];
        avp_built None 7777 0x80 10415 None (Some [1; 2; 3]) []] |}.

Definition sample_wires : list wire :=
  [Leaf {| w_code := 263; w_flags := 0x40; w_vendor := 0 |} [0x61; 0x3b; 0x31; 0x3b; 0x32];
   Group {| w_code := 260; w_flags := 0x40; w_vendor := 0 |}
     [Leaf {| w_code := 258; w_flags := 0x40; w_vendor := 0 |} [0; 0; 0; 5]];
   Leaf {| w_code := 1423; w_flags := 0xc0; w_vendor := 10415 |} [0; 0; 0; 1];
   Leaf {| w_code := 7777; w_flags := 0x80; w_vendor := 10415 |} [1; 2; 3]].

Lemma sample_denotes : wires_of (msg_children sample_msg) = Some sample_wires.
Proof. vm_compute. reflexivity. Qed.

Lemma fd_msg_bufferize_spec_witness :
  ∃ m', fd_msg_bufferize sample_msg = Ok (encode_msg (msg_public sample_msg) sample_wires, m')
    ∧ msg_length (msg_public m') = 88.
Proof.
  destruct (fd_msg_bufferize_spec sample_msg sample_wires sample_denotes) as (m' & H & L & _).
  - vm_compute. reflexivity.
  - exists m'. split; [exact H|]. rewrite L. vm_compute. reflexivity.
Defined.

Lemma sample_value (m : option FdMessages.dict_avp_data) mandatory code flags vendor v mm :
  m = Some mm → data_ok (data_of (avp_built m code flags vendor (Some v) None [])) → code ≠ 0 ∨ vendor ≠ 0 →
  @search_model sample_dict code flags vendor = Some mm → dict_basetype mm ≠ AVP_TYPE_GROUPED → value_ok mm v →
  @parseable sample_dict mandatory (avp_built m code flags vendor (Some v) None []).
Proof. intros -> Hd H0 Hs Hg Hv. by apply (@parseable_value sample_dict _ _ mm v). Qed.

Ltac solve_data_ok :=
  unfold data_ok; cbn [data_of avp_built FdMessages.avp_code avp_flags FdMessages.avp_vendor];
  split_and!; first [lia | done].

Lemma sample_parseable : Forall (@parseable sample_dict true) (msg_children sample_msg).
Proof.
  unfold sample_msg. cbn [msg_children]. 
  apply List.Forall_cons; [|apply List.Forall_cons; [|apply List.Forall_cons; [|apply Forall_singleton]]].
  - eapply sample_value; [vm_compute; reflexivity | solve_data_ok | lia | vm_compute; reflexivity | done | by split].
  - eapply (@parseable_group sample_dict); [solve_data_ok | cbn; lia | vm_compute; reflexivity..|].
    apply Forall_singleton.
    eapply sample_value; [vm_compute; reflexivity | solve_data_ok | lia | vm_compute; reflexivity | done|].
    split; [by intros x [= <-] | by intros check [= <-]].
  - eapply sample_value; [vm_compute; reflexivity | solve_data_ok | lia | vm_compute; reflexivity | done|].
    split; [by intros x [= <-] | done].
  - apply (@parseable_raw sample_dict); [solve_data_ok | done | right; vm_compute; reflexivity | done].
Qed.

Lemma fd_msg_roundtrip_witness :
  ∃ buf m', fd_msg_bufferize sample_msg = Ok (buf, m')
    ∧ (received ← fd_msg_parse_buffer buf; @parsedict_do_msg sample_dict (length buf) received)
      = Ok (received_msg {| FdMessages.cmd_code := 268; FdMessages.cmd_flag_mask := 0x80;
                            FdMessages.cmd_flag_val := 0x80 |} m').
Proof.
  apply (@fd_msg_roundtrip sample_dict sample_msg sample_wires).
  - repeat split; vm_compute; congruence.
  - apply sample_denotes.
  - vm_compute. reflexivity.
  - apply sample_parseable.
  - left. discriminate.
  - vm_compute. reflexivity.
Defined.

(** A grouped AVP that is longer than what is in it. *)
Definition truncated : list Z :=
  [1; 0; 0; 32; 0xc0; 0; 1; 12; 0; 0; 0; 5; 0; 0; 0; 7; 0; 0; 0; 9;
   0; 0; 1; 4; 0x40; 0; 0; 12; 0; 0; 1; 2].

Lemma fd_msg_parse_safe_witness :
  returns (fd_msg_parse_buffer truncated) (λ m, returns (@parsedict_do_msg sample_dict (length truncated) m) (λ _, True))
  ∧ (m ← fd_msg_parse_buffer truncated; @parsedict_do_msg sample_dict (length truncated) m)
    = Err EBADMSG "DIAMETER_INVALID_AVP_VALUE".
Proof.
  split; [|vm_compute; reflexivity]. apply (@fd_msg_parse_safe sample_dict).
  repeat (constructor; [lia|]). constructor.
Defined.

(** * What goes wrong *)


Lemma search_list_outcome d cmp isindex l :
  (∃ r, search_list d cmp isindex l = Ok r) ∨ search_list d cmp isindex l = Crash.
Proof.
  induction l as [|x l IH]; cbn; [eauto|]. unfold object. destruct (objs d !! x); cbn; [|auto].
  destruct (cmp _) as [c|]; [|auto]. destruct (c =? 0); [eauto|]. destruct (isindex && (c <? 0)); [eauto | auto].
Qed.

(** Arguments the interface calls invalid make the library read through NULL
    instead of an error: a constant without a type (the log of the error reads
    the type), a rule without an AVP (the log reads its name), and the search
    for a constant by the name of a type the dictionary does not have (the
    search for the type returns 0, and its result is not checked). *)
Theorem invalid_arguments_crash d :
  (∀ e, fd_dict_new d (ENUMVAL e) None = Crash)
  ∧ (∀ r par, rule_avp r = None → fd_dict_new d (RULE r) par = Crash)
  ∧ (∀ name enum value s, (∀ x t, data_at d x = Some (TYPE t) → type_name t ≠ name) →
       search_enumval d {| type_obj := None; req_type_name := Some name; search_name := enum; search_value := value |} s
       = Crash).
Proof.
  split_and!.
  - done.
  - intros r par H. unfold fd_dict_new. cbn [can_dump check_data mbind result_mbind mret result_mret]. rewrite H. cbn.
    by case_match.
  - intros name enum value s H. unfold search_enumval, search_type, SEARCH. cbn [type_obj req_type_name].
    destruct (search_list_outcome d (type_name_cmp name) true (list_at d dict_types)) as [[[x|] E]|E];
      rewrite E; [|done..]. exfalso. apply search_list_sound in E. destruct E as (_ & o & Ho & Hc).
    unfold type_name_cmp in Hc. destruct (data o) as [| |t| | | |] eqn:Hd; try done. injection Hc as Hc.
    rewrite fd_os_cmp_lex in Hc. apply (proj1 (lex_eq _ _)) in Hc. injection Hc as _ Hc.
    apply (H x t); [|done]. unfold data_at. by rewrite Ho, <- Hd.
Qed.

(** The header says that an object with children cannot be deleted; a type of
    which AVPs are derived is, and the AVP is left with a parent that was freed. *)
Theorem delete_leaves_dangling_parent :
  ∃ d', fd_dict_delete sample 8 = Ok (None, d')
    ∧ ∃ o, objs d' !! 11%positive = Some o ∧ parent o = Some 8%positive ∧ objs d' !! 8%positive = None.
Proof. eexists. split; [vm_compute; reflexivity|]. eexists. split_and!; vm_compute; reflexivity. Qed.

(** An optional rule with the default minimum and one with the minimum 0 mean the
    same, but are a conflict. *)
Theorem optional_minimum_conflicts d old new o n :
  data old = RULE o → data new = RULE n → rule_pos o = RULE_OPTIONAL → rule_min o = -1 → rule_min n = 0 →
  same_object d old new = Some false.
Proof.
  intros Ho Hn Hp H1 H2. unfold same_object. rewrite Ho, Hn, Hp, H1, H2. cbn.
  by rewrite !andb_false_r.
Qed.
