(* ===== verification/FdAnswers.v ===== *)
(** The answer to a request (libfdproto/messages.c, [fd_msg_new_answer_from_req]):
    its header, the Session-Id, and the copies of the Proxy-Info AVPs, which are
    made by writing them to a buffer and parsing the buffer.

    The session of the request is given by its identifier; [fd_msg_sess_get] and
    the count of references are in FdSessions.  The buffer of a copy is zeroed
    here; the code leaves in it what the memory held, which it does not read but
    for the octets it has written. *)

From stdpp Require Import base list strings.
From Stdlib Require Import ZArith Lia.
From S2P Require Import Prelude FdDictionary FdDictInv FdDictSearch FdDictModel IeFormat FdMessages FdWire FdParse FdRoundTrip.
Open Scope Z_scope.

(** * The dictionary *)

(** What the creation of answers asks of the dictionary: the answer to a command
    (CMD_ANSWER), the command for errors ([fd_dict_get_error_cmd]) and the AVP
    Session-Id with its flags. *)
Class AnswerBook := {
  answer_model : dict_cmd_data → option dict_cmd_data;
  error_model : dict_cmd_data;
  session_id_avp : option (dict_avp_data * Z);
  answer_model_spec c a :
    answer_model c = Some a → cmd_code a = cmd_code c ∧ has_flag (cmd_flag_val a) CMD_FLAG_REQUEST = false;
  error_model_spec : has_flag (cmd_flag_val error_model) CMD_FLAG_REQUEST = false
}.

Definition AC_PROXY_INFO : Z := 284.

(** [flags]. *)
Record answer_flags := AnswerFlags { ANSW_ERROR : bool; ANSW_NOSID : bool; ANSW_NOPROXYINFO : bool }.

(** The answer, the session it is bound to and the query it is associated with. *)
Record answered := Answered { ans : msg; ans_sess : option (list Z); ans_query : msg }.

Section Answers.
Context {D : Dictionary} {A : AnswerBook}.

(** [parsedict_do_msg] on the header only, its error ignored: the model that is
    kept or found. *)
Definition header_model (m : msg) : msg :=
  let h := msg_public m in
  let search : msg :=
    if (msg_mnf_code m =? msg_code h) && (msg_mnf_flags m =? msg_flags h)
    then set_msg None (msg_mnf_code m) (msg_mnf_flags m) (msg_children m) m
    else
      match cmd_by_code (has_flag (msg_flags h) CMD_FLAG_REQUEST) (msg_code h) with
      | Some data => set_msg (Some data) 0 (msg_mnf_flags m) (msg_children m) m
      | None => set_msg None (msg_code h) (msg_flags h) (msg_children m) m
      end in
  match msg_model m with
  | Some data => if model_kept h data then m else search
  | None => search
  end.

(** [fd_msg_new], and the fields that are taken from the query. *)
Definition answer_hdr (model : option dict_cmd_data) (q : msg_hdr) : msg_hdr :=
  {| msg_version := DIAMETER_VERSION; msg_length := Z.of_nat GETMSGHDRSZ;
     msg_flags := match model with Some c => cmd_flag_val c | None => 0 end;
     msg_code := msg_code q; msg_appl := msg_appl q; msg_hbhid := msg_hbhid q; msg_eteid := msg_eteid q |}.

(** [fd_msg_avp_new] and [fd_msg_avp_setvalue]. *)
Definition session_id_new (m : dict_avp_data) (flags : Z) (sid : list Z) : avp :=
  Avp {| avp_model := Some m; mnf_code := 0; mnf_vendor := 0; avp_code := dict_avp_code m; avp_flags := flags;
         avp_len := Z.of_nat (avp_value_sizes (dict_basetype m) + GETAVPHDRSZ flags);
         avp_vendor := dict_avp_vendor m; avp_val := Some (OctetString sid); avp_source := None;
         avp_rawdata := None |} [].

Definition is_proxy_info (a : avp) : bool :=
  (avp_code (data_of a) =? AC_PROXY_INFO) && (avp_vendor (data_of a) =? 0).

(** The copies of an AVP, and the AVP with its lengths. *)
Definition copy_avp (fuel : nat) (a : avp) : result (list avp * avp) :=
  a ← update_length_avp a;
  let len := avp_len (data_of a) in
  let n := Z.to_nat len in
  '(buf, _) ← bufferize_avp len a (replicate n 0, 0%nat);
  l ← parsebuf_list n buf n 0;
  l ← parsedict_do_chain fuel false l;
  mret (l, a).

(** The loop on the AVPs of the query. *)
Fixpoint copy_proxies (fuel : nat) (l : list avp) : result (list avp * list avp) :=
  match l with
  | [] => mret ([], [])
  | a :: l =>
      '(copies, a) ← (if is_proxy_info a then copy_avp fuel a else mret ([], a));
      '(more, l) ← copy_proxies fuel l;
      mret (copies ++ more, a :: l)
  end.

Definition find_answer_model (flags : answer_flags) (qry : msg) : result (msg * option dict_cmd_data) :=
  if ANSW_ERROR flags then mret (qry, Some error_model)
  else
    let qry := header_model qry in
    match msg_model qry with
    | None => mret (qry, None)
    | Some c => match answer_model c with Some a => mret (qry, Some a) | None => Err EINVAL "" end
    end.

Definition session_avps (sess : option (list Z)) : result (list avp) :=
  match sess with
  | None => mret []
  | Some sid => match session_id_avp with Some (m, f) => mret [session_id_new m f sid] | None => Err ENOENT "" end
  end.

Definition set_children (l : list avp) (m : msg) : msg := set_msg (msg_model m) (msg_mnf_code m) (msg_mnf_flags m) l m.

(** [sess]: the identifier of the session of the query, if it has one. *)
Definition fd_msg_new_answer_from_req (fuel : nat) (qry : msg) (flags : answer_flags) (sess : option (list Z))
    : result answered :=
  if negb (has_flag (msg_flags (msg_public qry)) CMD_FLAG_REQUEST) then Err EINVAL ""
  else
    let sess := if ANSW_NOSID flags then None else sess in
    '(qry, model) ← find_answer_model flags qry;
    first ← session_avps sess;
    '(copies, children) ← (if ANSW_NOPROXYINFO flags then mret ([], msg_children qry)
                           else copy_proxies fuel (msg_children qry));
    mret (Answered {| msg_public := answer_hdr model (msg_public qry); msg_model := model; msg_mnf_code := 0;
                      msg_mnf_flags := 0; msg_children := first ++ copies |}
                   sess (set_children children qry)).

(** * Copies *)

(** What is parsed denotes what was written. *)
Definition settles (a : avp) : Prop := ∀ a' b w,
  update_length_avp a = Ok a' → parseable b a → wire_of a = Some w → wire_of (settled a') = Some w.

Lemma settles_chain b l : Forall settles l → ∀ sz sz' l' ws,
  update_length_chain sz l = Ok (sz', l') → Forall (parseable b) l → wires_of l = Some ws →
  wires_of (map settled l') = Some ws.
Proof.
  induction 1 as [|a l Ha _ IH]; intros sz sz' l' ws Hu Hp Hw; cbn in Hu, Hw;
    [injection Hu as <- <-; injection Hw as <-; done|].
  destruct (update_length_avp a) as [a'| | |] eqn:Ea; cbn in Hu; try done.
  destruct (update_length_chain _ l) as [[sz1 l1]| | |] eqn:El; cbn in Hu; try done. injection Hu as <- <-.
  apply Forall_cons in Hp. destruct Hp as [Hpa Hpl].
  apply bind_Some in Hw as (w & Hw & (ws' & Hws & [= <-])%bind_Some). cbn.
  rewrite (Ha a' b w Ea Hpa Hw). cbn. by rewrite (IH _ _ _ _ El Hpl Hws).
Qed.

Lemma raw_settled d data :
  raw_data d = Some data →
  raw_data {| avp_model := None; mnf_code := avp_code d; mnf_vendor := avp_vendor d; avp_code := avp_code d;
              avp_flags := avp_flags d; avp_len := avp_len d; avp_vendor := avp_vendor d;
              avp_val := None; avp_source := None;
              avp_rawdata := match data with x :: l => Some (x :: l) | [] => None end |} = Some data.
Proof.
  intros H. pose proof (raw_len d data H) as L. unfold raw_data. cbn [avp_rawdata avp_source avp_len avp_flags].
  destruct data as [|x l]; rewrite decide_True; try done; rewrite L; cbn [length]; lia.
Qed.

Lemma avp_settles a : settles a.
Proof.
  induction a as [d children IH] using avp_tree_ind. intros a' b w Hu Hp Hw.
  rewrite wire_of_unfold in Hw. rewrite update_length_unfold in Hu.
  inversion Hp as [? ? m ? Hd H0 Hm Hs Hg Hv Hc|? ? m v Hd H0 Hm Hs Hg Hv Hok|? ? Hd Hm Hs Hma]; subst; rewrite Hm in *.
  - rewrite decide_True in Hu by done. rewrite decide_True in Hw by done. apply fmap_Some in Hw. destruct Hw as (ws & Hws & ->).
    destruct (update_length_chain _ children) as [[sz l']| | |] eqn:El; cbn in Hu; try done. injection Hu as <-.
    cbn [settled]. change (avp_model (set_len _ d)) with (avp_model d). rewrite Hm, wire_of_unfold. cbn [avp_model].
    rewrite decide_True by done. by rewrite (settles_chain _ _ IH _ _ _ _ El Hc Hws).
  - rewrite decide_False in Hu by done. rewrite decide_False in Hw by done. rewrite Hv in *. apply fmap_Some in Hw. destruct Hw as (os & Hos & ->).
    rewrite (octets_len _ _ _ Hos) in Hu. injection Hu as <-. cbn [settled].
    change (avp_model (set_len _ d)) with (avp_model d). rewrite Hm, wire_of_unfold. cbn [avp_model map].
    rewrite decide_False by done. change (avp_val (set_len _ d)) with (avp_val d). cbn. rewrite Hv. by rewrite Hos.
  - apply fmap_Some in Hw. destruct Hw as (data & Hr & ->). injection Hu as <-. cbn [settled]. rewrite Hm, wire_of_unfold.
    cbn [avp_model]. rewrite Hr. pose proof (raw_settled d data Hr) as E. destruct data; rewrite E; done.
Qed.

(** An AVP that was interpreted as a grouped one. *)
Definition is_group (a : avp) : Prop :=
  ∃ m, avp_model (data_of a) = Some m ∧ dict_basetype m = AVP_TYPE_GROUPED.

Lemma group_wire a w : is_group a → wire_of a = Some w → length (encode w) = wlen w.
Proof.
  destruct a as [d c]. intros (m & Hm & Hg) Hw. rewrite wire_of_unfold in Hw. cbn in Hm. rewrite Hm, decide_True in Hw by done.
  apply fmap_Some in Hw as (ws & _ & ->). rewrite encode_length. unfold wlen. rewrite padding_hdr.
  cbn [wdata]. fold (size ws). rewrite padding_size. lia.
Qed.

Lemma copy_avp_ok fuel a w :
  is_group a → parseable false a → wire_of a = Some w → Z.of_nat (wlen w) < 2 ^ 24 → (wlen w ≤ fuel)%nat →
  ∃ a', copy_avp fuel a = Ok ([settled a'], a') ∧ wire_of (settled a') = Some w.
Proof.
  intros Hg Hp Hw Hb Hf. pose proof (group_wire a w Hg Hw) as He.
  destruct (avp_reads_back a false w Hp Hw Hb) as (a' & Hu & Hl & Hr).
  destruct (avp_written a w Hw ltac:(lia)) as (a'' & Hu' & _ & Hwr). rewrite Hu in Hu'. injection Hu' as <-.
  exists a'. split; [|by eapply avp_settles].
  unfold copy_avp. rewrite Hu. cbn [mbind result_mbind]. rewrite Hl, Nat2Z.id.
  pose proof (Hwr (wlen w) ltac:(lia) [] (wlen w) eq_refl ltac:(lia)) as E. cbn [app length] in E. unfold zeros in E.
  rewrite E, He, Nat.sub_diag. cbn [mbind result_mbind replicate]. rewrite app_nil_r.
  assert (Hs : size [w] = wlen w) by (unfold size; cbn; by rewrite app_nil_r).
  pose proof (parsebuf_list_encoded [w] (wlen w) (encode w) 0 []) as P. rewrite Hs in P. cbn [Nat.add] in P. rewrite P.
  - cbn [mbind result_mbind received_list]. unfold parsedict_do_chain, parsedict_chain.
    rewrite Hr; [done|]. unfold wlen, GETAVPHDRSZ, AVPHDRSZ_VENDOR, AVPHDRSZ_NOVEND in Hf. case_match; lia.
  - apply Forall_singleton. by eapply parseable_hdr.
  - cbn. by rewrite !app_nil_r.
  - cbn. pose proof (encode_min w). lia.
Qed.

(** What is asked of the Proxy-Info AVPs of a request: they are interpreted, and
    can be written. *)
Definition proxy_ok (fuel : nat) (a : avp) (w : wire) : Prop :=
  is_group a ∧ parseable false a ∧ wire_of a = Some w ∧ Z.of_nat (wlen w) < 2 ^ 24 ∧ (wlen w ≤ fuel)%nat.

Lemma copy_proxies_ok fuel l : ∀ ws,
  Forall2 (proxy_ok fuel) (filter (λ a, is_proxy_info a = true) l) ws →
  ∃ copies l', copy_proxies fuel l = Ok (copies, l') ∧ wires_of copies = Some ws.
Proof.
  induction l as [|a l IH]; intros ws H; [inversion H; subst; by exists [], []|].
  rewrite filter_cons in H. cbn [copy_proxies]. destruct (is_proxy_info a).
  - rewrite decide_True in H by done. apply Forall2_cons_inv_l in H as (w & ws' & Hw & Hws & ->).
    destruct Hw as (Hg & Hp & Hw & Hb & Hf). destruct (copy_avp_ok fuel a w Hg Hp Hw Hb Hf) as (a' & -> & Ha').
    destruct (IH ws' Hws) as (copies & l' & -> & Hc). eexists _, _. split; [done|]. cbn. by rewrite Ha', Hc.
  - rewrite decide_False in H by done. destruct (IH ws H) as (copies & l' & -> & Hc). eexists _, _. split; [done|].
    done.
Qed.

(** * The answer *)

(** The model of the answer is found, or the command of the request is not
    known. *)
Definition model_ok (flags : answer_flags) (qry : msg) : Prop :=
  ANSW_ERROR flags = true ∨ ∀ c, msg_model (header_model qry) = Some c → is_Some (answer_model c).

Lemma header_model_same m :
  msg_public (header_model m) = msg_public m ∧ msg_children (header_model m) = msg_children m.
Proof. unfold header_model. repeat case_match; done. Qed.

Lemma find_answer_model_ok flags qry :
  model_ok flags qry →
  ∃ q c, find_answer_model flags qry = Ok (q, c) ∧ msg_public q = msg_public qry ∧ msg_children q = msg_children qry
         ∧ has_flag (msg_flags (answer_hdr c (msg_public qry))) CMD_FLAG_REQUEST = false
         ∧ (ANSW_ERROR flags = true → c = Some error_model).
Proof.
  unfold find_answer_model. intros [He|Hm].
  - rewrite He. eexists _, _. split_and!; try done. apply error_model_spec.
  - destruct (header_model_same qry) as [Hp Hc].
    destruct (ANSW_ERROR flags); [eexists _, _; split_and!; try done; apply error_model_spec|].
    destruct (msg_model (header_model qry)) as [c|] eqn:E.
    + destruct (Hm c eq_refl) as [a Ha]. rewrite Ha. eexists _, _. split_and!; try done. by apply answer_model_spec in Ha as [_ ?].
    + eexists _, _. by split_and!.
Qed.

(** The Session-Id AVP of the answer on the wire. *)
Definition session_wire (sess : option (list Z)) : option (list wire) :=
  match sess with
  | None => Some []
  | Some sid =>
      '(m, f) ← session_id_avp;
      if decide (dict_basetype m = AVP_TYPE_OCTETSTRING)
      then Some [Leaf {| w_code := dict_avp_code m; w_flags := f; w_vendor := dict_avp_vendor m |} sid] else None
  end.

Lemma session_avps_ok sess ws : session_wire sess = Some ws → ∃ l, session_avps sess = Ok l ∧ wires_of l = Some ws.
Proof.
  unfold session_wire, session_avps. destruct sess as [sid|]; [|intros [= <-]; by eexists].
  destruct session_id_avp as [[m f]|]; cbn; [|done]. case_decide as Ht; [|done]. intros [= <-].
  eexists. split; [done|]. cbn [wires_of]. unfold session_id_new. rewrite wire_of_unfold. cbn [avp_model avp_val].
  by rewrite decide_False, Ht by (rewrite Ht; done).
Qed.

Lemma wires_of_app l1 l2 ws1 ws2 :
  wires_of l1 = Some ws1 → wires_of l2 = Some ws2 → wires_of (l1 ++ l2) = Some (ws1 ++ ws2).
Proof.
  revert ws1. induction l1 as [|a l1 IH]; intros ws1 H1 H2; cbn in *; [by simplify_eq|].
  apply bind_Some in H1 as (w & -> & (ws & Hws & [= <-])%bind_Some). cbn. by rewrite (IH ws Hws H2).
Qed.

(** C32: the answer to a request has the command, the application and both
    identifiers of the request and is no request; on the wire it begins with the
    Session-Id of the session of the request, and has the Proxy-Info AVPs of the
    request in their order and octet for octet, whatever AVPs are in them. *)
Theorem answer_mirrors_request fuel qry flags sess sws pws :
  has_flag (msg_flags (msg_public qry)) CMD_FLAG_REQUEST = true → model_ok flags qry →
  session_wire (if ANSW_NOSID flags then None else sess) = Some sws →
  Forall2 (proxy_ok fuel) (filter (λ a, is_proxy_info a = true) (msg_children qry)) pws →
  ∃ r, fd_msg_new_answer_from_req fuel qry flags sess = Ok r
       ∧ wires_of (msg_children (ans r)) = Some (sws ++ if ANSW_NOPROXYINFO flags then [] else pws)
       ∧ let h := msg_public (ans r) in
         msg_code h = msg_code (msg_public qry) ∧ msg_appl h = msg_appl (msg_public qry)
         ∧ msg_hbhid h = msg_hbhid (msg_public qry) ∧ msg_eteid h = msg_eteid (msg_public qry)
         ∧ has_flag (msg_flags h) CMD_FLAG_REQUEST = false
         ∧ (ANSW_ERROR flags = true → msg_model (ans r) = Some error_model).
Proof.
  intros Hr Hm Hs Hp. unfold fd_msg_new_answer_from_req. rewrite Hr. cbn [negb].
  destruct (find_answer_model_ok flags qry Hm) as (q & c & -> & Hpub & Hch & Hf & He). cbn [mbind result_mbind].
  destruct (session_avps_ok _ _ Hs) as (l & -> & Hl). cbn [mbind result_mbind]. rewrite Hpub, Hch.
  destruct (copy_proxies_ok fuel _ _ Hp) as (copies & l' & Hc & Hw).
  destruct (ANSW_NOPROXYINFO flags); [|rewrite Hc]; cbn [mbind result_mbind]; eexists; (split; [done|]);
    (split; [by apply wires_of_app|by split_and!]).
Qed.
End Answers.

(** * A dictionary has the answers *)

(** A search that leaves the variable as it was. *)
Ltac no_object := cbn; try case_decide; done.

Lemma answer_found d x y :
  found_by d (R_COMMAND (CMD_ANSWER (Some x))) = Some y →
  ∃ c a, data_at d x = Some (COMMAND c) ∧ data_at d y = Some (COMMAND a) ∧ answers c a = true.
Proof.
  unfold found_by, fd_dict_search, data_at. cbn [search_fct search_cmd mbind option_bind].
  destruct (objs d !! x) as [o|] eqn:Ho; [|no_object]. cbn.
  destruct (data o) as [| | | | |c|] eqn:Hd; try no_object.
  destruct (_ || _); [no_object|]. destruct (head1 o ≫= _) as [z|]; [|no_object].
  unfold object. destruct (objs d !! z) as [oa|] eqn:Hz; [|done]. cbn.
  destruct (data oa) as [| | | | |a|] eqn:Ha; try done. destruct (answers c a) eqn:E; [|no_object].
  cbn. try (case_decide; cbn; [done|]).
  intros [= <-]. exists c, a. rewrite Hz. cbn. by rewrite ?Hd, ?Ha.
Qed.

#[export, refine] Instance dictionary_answers (d : dictionary) (W : wf d) : AnswerBook := {|
  answer_model c :=
    found_by d (R_COMMAND (CMD_BY_CODE_R (cmd_code c))) ≫= λ x,
    found_by d (R_COMMAND (CMD_ANSWER (Some x))) ≫= command_of d;
  error_model := {| cmd_code := 0; cmd_flag_mask := 0xb0; cmd_flag_val := 0x20 |};
  session_id_avp :=
    x ← found_by d (R_AVP (AVP_BY_NAME (ascii_octets "Session-Id")));
    m ← model_of d x;
    a ← data_at d x;
    match a with AVP a => Some (m, FdDictionary.avp_flag_val a) | _ => None end
|}.
Proof.
  - intros c a H. apply bind_Some in H as (x & Hx & (y & Hy & Ha)%bind_Some).
    destruct (found_by_command d true _ x W Hx) as (cx & Hdx & Hcode).
    apply answer_found in Hy as (c' & a' & Hd & Hy & E). rewrite Hdx in Hd. injection Hd as <-.
    unfold data_at in Hy. apply fmap_Some in Hy as (o & Ho & Hdo). unfold command_of in Ha. rewrite Ho, <-Hdo in Ha.
    injection Ha as <-. unfold answers in E. apply andb_true_iff in E as [[E _]%andb_true_iff E2].
    apply Z.eqb_eq in E. cbn. split; [congruence|]. unfold has_flag.
    change CMD_FLAG_REQUEST with FdDictionary.CMD_FLAG_REQUEST. by rewrite E2.
  - reflexivity.
Defined.

(** * A sample *)

Definition proxy_sample : dictionary := foldl add sample
  [(avp_entry 284 0 "Proxy-Info" AVP_TYPE_GROUPED, None);
   (avp_entry 280 0 "Proxy-Host" AVP_TYPE_OCTETSTRING, None)].

Lemma proxy_sample_wf : wf proxy_sample.
Proof. apply reachable_wf, add_reachable, sample_reachable. Qed.

Definition proxy_dict : Dictionary := dictionary_interface proxy_sample proxy_sample_wf.
Definition proxy_answers : AnswerBook := dictionary_answers proxy_sample proxy_sample_wf.

(** Proxy-Info with a host and an AVP that the dictionary does not know. *)
Definition sample_proxy : avp :=
  avp_built (model_of proxy_sample 15) 284 0x40 0 None None
    [avp_built (model_of proxy_sample 16) 280 0x40 0 (Some (OctetString [0x61; 0x62; 0x63])) None [];
     avp_built None 7777 0x80 10415 None (Some [1; 2; 3]) []].

Definition proxy_wire : wire :=
  Group {| w_code := 284; w_flags := 0x40; w_vendor := 0 |}
    [Leaf {| w_code := 280; w_flags := 0x40; w_vendor := 0 |} [0x61; 0x62; 0x63];
     Leaf {| w_code := 7777; w_flags := 0x80; w_vendor := 10415 |} [1; 2; 3]].

Definition proxy_request : msg :=
  {| msg_public := msg_public sample_msg; msg_model := None; msg_mnf_code := 0; msg_mnf_flags := 0;
     msg_children := [sample_proxy] |}.

Lemma sample_proxy_parseable : @parseable proxy_dict false sample_proxy.
Proof.
  eapply (@parseable_group proxy_dict); [solve_data_ok | cbn; lia | vm_compute; reflexivity..|].
  apply List.Forall_cons; [|apply Forall_singleton].
  - eapply (@parseable_value proxy_dict); [solve_data_ok | cbn; lia | vm_compute; reflexivity | vm_compute; reflexivity
      | done | reflexivity | by split].
  - apply (@parseable_raw proxy_dict); [solve_data_ok | done | right; vm_compute; reflexivity | done].
Qed.

Lemma sample_proxy_group : is_group sample_proxy.
Proof. eexists. split; vm_compute; reflexivity. Qed.

Lemma answer_mirrors_request_witness :
  ∃ r, @fd_msg_new_answer_from_req proxy_dict proxy_answers 64 proxy_request (AnswerFlags false false false)
         (Some [0x73]) = Ok r
       ∧ wires_of (msg_children (ans r))
         = Some [Leaf {| w_code := 263; w_flags := 0x40; w_vendor := 0 |} [0x73]; proxy_wire]
       ∧ msg_hbhid (msg_public (ans r)) = 7.
Proof.
  destruct (@answer_mirrors_request proxy_dict proxy_answers 64 proxy_request (AnswerFlags false false false) (Some [0x73])
    [Leaf {| w_code := 263; w_flags := 0x40; w_vendor := 0 |} [0x73]] [proxy_wire]) as (r & Hr & Hw & _ & _ & Hh & _).
  - reflexivity.
  - right. intros c E. assert (c = {| cmd_code := 268; cmd_flag_mask := 0x80; cmd_flag_val := 0x80 |}) as ->.
    { vm_compute in E. by injection E as <-. }
    vm_compute. by eexists.
  - vm_compute. reflexivity.
  - change (filter _ _) with [sample_proxy]. constructor; [|constructor]. split_and!.
    + apply sample_proxy_group.
    + apply sample_proxy_parseable.
    + vm_compute. reflexivity.
    + vm_compute. reflexivity.
    + vm_compute. lia.
  - exists r. split; [exact Hr|]. split; [exact Hw|exact Hh].
Defined.
