(* ===== verification/FdDispatch.v ===== *)
(** Which callbacks a received message goes to (libfdproto/dispatch.c and
    [fd_msg_dispatch] of libfdproto/messages.c, and the end of [msg_dispatch] of
    libfdcore/routing_dispatch.c, which acts on the result).

    A handler is known by its address.  The list of an object of the dictionary
    ([disp_cbs]) is known by the address of the object.  The callbacks belong to
    the applications: they are a parameter, as are their state and the data that
    is registered with them.  A message is a value; a callback may put another one
    in its place.  The AVPs that are walked are those the message has when the
    walk begins: a callback that asks to go on does not cut the message it was
    given into another shape. *)

From stdpp Require Import base list gmap strings.
From Stdlib Require Import ZArith Lia.
From S2P Require Import Prelude FdMessages FdTrees FdDictionary.
Open Scope Z_scope.

(** * Handlers *)

Inductive disp_how := DISP_HOW_ANY | DISP_HOW_APPID | DISP_HOW_CC | DISP_HOW_AVP | DISP_HOW_AVP_ENUMVAL.
Inductive disp_action := DISP_ACT_CONT | DISP_ACT_SEND | DISP_ACT_ERROR.

#[export] Instance disp_action_eq_dec : EqDecision disp_action.
Proof. solve_decision. Defined.
#[export] Instance disp_how_eq_dec : EqDecision disp_how.
Proof. solve_decision. Defined.

(** [struct disp_when]; also the objects a message and an AVP of it have. *)
Record disp_when := When { w_app : option ref; w_command : option ref; w_avp : option ref; w_value : option ref }.

(** A message with the addresses of its model and of the models of its AVPs. *)
Record disp_msg := DispMsg { dm_msg : msg; dm_cmd : option ref; dm_model : place → option ref }.

Section Dispatch.
Context {W C Opq : Type}.

(** [struct disp_hdl]. *)
Record disp_hdl := Hdl { h_how : disp_how; h_when : disp_when; h_cb : C; h_opaque : Opq }.

(** The two global lists, the lists in the dictionary, the handlers that are
    allocated, and the addresses that were never used. *)
Record disp_state := Disp {
  hdls : gmap ref disp_hdl;
  all_handlers : list ref;
  any_handlers : list ref;
  disp_cbs : gmap ref (list ref);
  disp_brk : ref
}.

Definition disp_init : disp_state := Disp ∅ [] [] ∅ 1%positive.

(** A [cb_list]: [None] is [any_handlers]. *)
Definition cb_list (s : disp_state) (L : option ref) : list ref :=
  match L with None => any_handlers s | Some x => default [] (disp_cbs s !! x) end.

(** [None] is EINVAL. *)
Definition fd_dict_disp_cb (d : dictionary) (t : dict_object_type) (x : option ref) : option ref :=
  if verify_object d x t then x else None.

(** The type that a search has to find, with EINVAL otherwise. *)
Definition type_of_or_fail (d : dictionary) (c : type_criteria) : result (errno + option ref) :=
  '(ret, s) ← fd_dict_search d (R_TYPE c) (Some None) (Some EINVAL);
  mret (match ret, s with Some e, _ => inl e | None, Some t => inr t | None, None => inr None end).

(** The first [switch] of [fd_disp_register]: the list, or an error. *)
Definition register_list (d : dictionary) (how : disp_how) (w : disp_when) : result (errno + option ref) :=
  let at_object t x := mret (match fd_dict_disp_cb d t x with Some y => inr (Some y) | None => inl EINVAL end) in
  match how with
  | DISP_HOW_ANY => mret (inr None)
  | DISP_HOW_APPID => at_object DICT_APPLICATION (w_app w)
  | DISP_HOW_CC => at_object DICT_COMMAND (w_command w)
  | DISP_HOW_AVP => at_object DICT_AVP (w_avp w)
  | DISP_HOW_AVP_ENUMVAL =>
      match fd_dict_disp_cb d DICT_ENUMVAL (w_value w) with
      | None => mret (inl EINVAL)
      | Some _ =>
          r ← type_of_or_fail d (TYPE_OF_ENUMVAL (w_value w));
          match r with
          | inl e => mret (inl e)
          | inr type_enum =>
              match fd_dict_disp_cb d DICT_AVP (w_avp w) with
              | None => mret (inl EINVAL)
              | Some a =>
                  r ← type_of_or_fail d (TYPE_OF_AVP (w_avp w));
                  match r with
                  | inl e => mret (inl e)
                  | inr type_avp =>
                      mret (if bool_decide (type_enum = None ∨ type_enum = type_avp) then inr (Some a) else inl EINVAL)
                  end
              end
          end
      end
  end.

(** The second [switch]: what is copied, each case with those below it. *)
Definition when_copied (how : disp_how) (w : disp_when) : disp_when :=
  match how with
  | DISP_HOW_ANY => When None None None None
  | DISP_HOW_APPID => When (w_app w) None None None
  | DISP_HOW_CC => When (w_app w) (w_command w) None None
  | DISP_HOW_AVP => When (w_app w) (w_command w) (w_avp w) None
  | DISP_HOW_AVP_ENUMVAL => When (w_app w) (w_command w) (w_avp w) (w_value w)
  end.

(** [fd_list_insert_before] the sentinel of a list. *)
Definition link_parent (L : option ref) (h : ref) (s : disp_state) : disp_state :=
  match L with
  | None => Disp (hdls s) (all_handlers s) (any_handlers s ++ [h]) (disp_cbs s) (disp_brk s)
  | Some x => Disp (hdls s) (all_handlers s) (any_handlers s)
                   (<[x := cb_list s L ++ [h]]> (disp_cbs s)) (disp_brk s)
  end.

Definition link_all (h : ref) (x : disp_hdl) (s : disp_state) : disp_state :=
  Disp (<[h := x]> (hdls s)) (all_handlers s ++ [h]) (any_handlers s) (disp_cbs s) (Pos.succ h).

(** The value returned, the handle and the new state. *)
Definition fd_disp_register (d : dictionary) (s : disp_state) (cb : option C) (how : disp_how) (w : option disp_when)
    (opaque : Opq) : result (option errno * option ref * disp_state) :=
  match cb, (if decide (how = DISP_HOW_ANY) then Some (default (When None None None None) w) else w) with
  | Some cb, Some w =>
      r ← register_list d how w;
      match r with
      | inl e => mret (Some e, None, s)
      | inr L =>
          let h := disp_brk s in
          mret (None, Some h, link_parent L h (link_all h (Hdl how (when_copied how w) cb opaque) s))
      end
  | _, _ => mret (Some EINVAL, None, s)
  end.

(** [fd_list_unlink] of both links. *)
Definition without (h : ref) (l : list ref) : list ref := filter (λ x, x ≠ h) l.

Definition unlink_hdl (h : ref) (s : disp_state) : disp_state :=
  Disp (delete h (hdls s)) (without h (all_handlers s)) (without h (any_handlers s)) (without h <$> disp_cbs s)
       (disp_brk s).

(** NULL is refused; the handle of a handler that was deleted is freed memory. *)
Definition fd_disp_unregister (s : disp_state) (handle : option ref) : result (option errno * option Opq * disp_state) :=
  match handle with
  | None => mret (Some EINVAL, None, s)
  | Some h =>
      match hdls s !! h with
      | None => Crash
      | Some x => mret (None, Some (h_opaque x), unlink_hdl h s)
      end
  end.

(** The loop of [fd_disp_unregister_all]: the first of the list, until it is
    empty. *)
Fixpoint unregister_loop (fuel : nat) (s : disp_state) : result disp_state :=
  match all_handlers s with
  | [] => mret s
  | h :: _ =>
      match fuel with
      | O => NoFuel
      | S fuel => '(_, s) ← fd_disp_unregister s (Some h); unregister_loop fuel s
      end
  end.

Definition fd_disp_unregister_all (s : disp_state) : result disp_state :=
  unregister_loop (length (all_handlers s)) s.

(** * Calling *)

(** What a callback returns and leaves in [*msg] and [*action]. *)
Record cb_out := CbOut { out_ret : Z; out_msg : option disp_msg; out_action : disp_action; out_world : W }.

Context (run_cb : C → W → option disp_msg → option place → option ref → Opq → cb_out).

(** [*msg], [*action], [*drop_reason] with [*drop_msg], the state of the
    applications, and the handlers that were called, with their AVPs. *)
Record disp_run := Run {
  r_msg : option disp_msg;
  r_action : disp_action;
  r_drop : option (string * option disp_msg);
  r_world : W;
  r_calls : list (ref * option place)
}.

(** TEST_ACTION_STOP. *)
Definition stopped (r : disp_run) : bool :=
  bool_decide (r_msg r = None) || negb (bool_decide (r_action r = DISP_ACT_CONT)).

(** A field that is not set matches. *)
Definition may (w obj : option ref) : bool :=
  match w with None => true | Some _ => bool_decide (w = obj) end.

Definition matches (w ob : disp_when) : bool :=
  may (w_app w) (w_app ob) && may (w_command w) (w_command ob) && may (w_avp w) (w_avp ob) && may (w_value w) (w_value ob).

Definition callback_error : string := "Internal error: a DISPATCH callback returned an error".

Definition call (h : ref) (x : disp_hdl) (av : option place) (sess : option ref) (r : disp_run) : disp_run :=
  let out := run_cb (h_cb x) (r_world r) (r_msg r) av sess (h_opaque x) in
  let calls := r_calls r ++ [(h, av)] in
  if out_ret out =? 0 then Run (out_msg out) (out_action out) (r_drop r) (out_world out) calls
  else Run None (out_action out) (Some (callback_error, out_msg out)) (out_world out) calls.

(** [fd_disp_call_cb_int] on the handlers of a list. *)
Fixpoint call_cbs (s : disp_state) (l : list ref) (av : option place) (sess : option ref) (ob : disp_when)
    (r : disp_run) : result disp_run :=
  match l with
  | [] => mret r
  | h :: l =>
      match hdls s !! h with
      | None => Crash
      | Some x =>
          if matches (h_when x) ob then
            let r := call h x av sess r in
            if stopped r then mret r else call_cbs s l av sess ob r
          else call_cbs s l av sess ob r
      end
  end.

Definition fd_disp_call_cb_int (s : disp_state) (L : option ref) := call_cbs s (cb_list s L).

(** ** A message *)

(** The enumerated value of an AVP, if it has a value and its type has the
    value. *)
Definition enumval_of (d : dictionary) (model : ref) (v : option avp_value) : result (errno + option ref) :=
  match v with
  | None => mret (inr None)
  | Some v =>
      '(ret, s) ← fd_dict_search d (R_TYPE (TYPE_OF_AVP (Some model))) (Some None) None;
      match ret, s with
      | Some e, _ => mret (inl e)
      | None, Some (Some t) =>
          '(ret, s) ← fd_dict_search d (R_ENUMVAL {| type_obj := Some t; req_type_name := None; search_name := None;
                                                      search_value := v |}) (Some None) None;
          mret (match ret, s with Some e, _ => inl e | None, Some x => inr x | None, None => inr None end)
      | None, _ => mret (inr None)
      end
  end.

(** The list of callbacks for an AVP with a model, and what they are matched
    with. *)
Definition avp_callbacks (d : dictionary) (m : disp_msg) (app cmd : ref) (p : place) (model : ref)
    : result (errno + option ref * disp_when) :=
  match fd_dict_disp_cb d DICT_AVP (Some model) with
  | None => mret (inl EINVAL)
  | Some L =>
      r ← enumval_of d model (avp_at (msg_tree (dm_msg m)) p ≫= λ a, avp_val (data_of a));
      mret (match r with
            | inl e => inl e
            | inr enumval => inr (Some L, When (Some app) (Some cmd) (Some model) enumval)
            end)
  end.

(** The loop on the AVPs; an error, or what was done until the end or a stop. *)
Fixpoint avp_loop (fuel : nat) (d : dictionary) (s : disp_state) (sess : option ref) (m : disp_msg) (app cmd : ref)
    (q : option place) (r : disp_run) : result (option errno * disp_run) :=
  match q with
  | None => mret (None, r)
  | Some p =>
      match fuel with
      | O => NoFuel
      | S fuel =>
          let next := avp_loop fuel d s sess m app cmd (walk (msg_tree (dm_msg m)) p) in
          match dm_model m p with
          | None => next r
          | Some model =>
              cbs ← avp_callbacks d m app cmd p model;
              match cbs with
              | inl e => mret (Some e, r)
              | inr (L, ob) =>
                  r ← fd_disp_call_cb_int s L (Some p) sess ob r;
                  if stopped r then mret (None, r) else next r
              end
          end
      end
  end.

Definition no_application : string :=
  "Internal error: Received this answer to a local query with an unsupported application".

(** The callbacks of an object that is not an AVP. *)
Definition object_callbacks (d : dictionary) (s : disp_state) (sess : option ref) (t : dict_object_type) (x : ref)
    (app cmd : ref) (r : disp_run) : result (option errno * disp_run) :=
  match fd_dict_disp_cb d t (Some x) with
  | None => mret (Some EINVAL, r)
  | L => r ← fd_disp_call_cb_int s L None sess (When (Some app) (Some cmd) None None) r; mret (None, r)
  end.

(** [if (ret) goto out; TEST_ACTION_STOP()]. *)
Definition go_on (r : result (option errno * disp_run)) (f : disp_run → result (option errno * disp_run))
    : result (option errno * disp_run) :=
  '(ret, r) ← r;
  match ret with Some _ => mret (ret, r) | None => if stopped r then mret (None, r) else f r end.

Definition FIRST_CHILD (m : disp_msg) : option place :=
  match fd_msg_browse_internal (msg_tree (dm_msg m)) [] MSG_BRW_FIRST_CHILD with Some (q, _) => q | None => None end.

(** From the AVPs on. *)
Definition dispatch_objects (d : dictionary) (s : disp_state) (sess : option ref) (m : disp_msg) (app cmd : ref)
    (r : disp_run) : result (option errno * disp_run) :=
  go_on (avp_loop (S (length (preorder (msg_tree (dm_msg m))))) d s sess m app cmd (FIRST_CHILD m) r) (λ r,
  go_on (object_callbacks d s sess DICT_COMMAND cmd app cmd r) (λ r,
  object_callbacks d s sess DICT_APPLICATION app app cmd r)).

(** The value returned, [*error_code] and the rest. *)
Definition fd_msg_dispatch (d : dictionary) (s : disp_state) (sess : option ref) (m : disp_msg) (w : W)
    : result (option errno * option string * disp_run) :=
  r ← fd_disp_call_cb_int s None None sess (When None None None None) (Run (Some m) DISP_ACT_CONT None w []);
  if stopped r then mret (None, None, r) else
  match r_msg r with
  | None => Crash
  | Some m =>
      match dm_cmd m with
      | None => mret (Some EINVAL, None, r)
      | Some cmd =>
          let hdr := msg_public (dm_msg m) in
          '(ret, app) ← fd_dict_search d (R_APPLICATION (APPLICATION_BY_ID (msg_appl hdr))) (Some None) None;
          match ret, app with
          | Some e, _ => mret (Some e, None, r)
          | None, Some (Some app) =>
              '(ret, r) ← dispatch_objects d s sess m app cmd r; mret (ret, None, r)
          | None, _ =>
              if has_flag (msg_flags hdr) CMD_FLAG_REQUEST then
                mret (None, Some "DIAMETER_APPLICATION_UNSUPPORTED"%string,
                      Run (r_msg r) DISP_ACT_ERROR (r_drop r) (r_world r) (r_calls r))
              else
                mret (None, None, Run None (r_action r) (Some (no_application, Some m)) (r_world r) (r_calls r))
          end
      end
  end.

(** ** What becomes of it *)

(** What [msg_dispatch] does with a message: it is posted for the network, an
    error answer to it is, it is dropped with a reason, the error answer that the
    parser made is posted, or it was taken by a callback.  The answers are
    those of FdAnswers; the code and the text that [fd_msg_rescode_set] puts in them
    are those of [ErrorAnswered]. *)
Inductive fate :=
| Forwarded (m : disp_msg)
| Replied (m : disp_msg)
| ErrorAnswered (m : disp_msg) (ec : string) (em : option string)
| Dropped (m : option disp_msg) (reason : string)
| Refused (ec : string)
| Taken.

Definition not_handled : string :=
  "Internal error: Answer received to locally issued request, but not handled by any handler.".

(** DISP_ACT_ERROR. *)
Definition act_error (is_req : bool) (m : disp_msg) (ec em : option string) : fate :=
  if is_req then ErrorAnswered m (default "DIAMETER_UNABLE_TO_COMPLY"%string ec) em else Dropped (Some m) not_handled.

Definition act_on (no_fwd is_req from_peer : bool) (error_code : option string) (r : disp_run) : fate :=
  match r_msg r with
  | Some m =>
      match r_action r with
      | DISP_ACT_CONT =>
          if negb no_fwd && (is_req || from_peer) then Forwarded m
          else act_error is_req m (Some "DIAMETER_COMMAND_UNSUPPORTED"%string)
                 (Some "The message was not handled by any extension callback"%string)
      | DISP_ACT_ERROR => act_error is_req m error_code (fst <$> r_drop r)
      | DISP_ACT_SEND => Replied m
      end
  | None => match r_drop r with Some (em, m) => Dropped m em | None => Taken end
  end.

(** The outcome of [fd_msg_parse_or_error] (FdParseError), with the addresses of
    the models. *)
Inductive parsed :=
| ParsedOk (m : disp_msg)
| ParsedRefused (ec : string)
| ParsedRescued (m : disp_msg)
| ParsedInvalid (m : disp_msg)
| ParsedFailed (m : disp_msg).

(** [is_req] of [msg_dispatch]: the flag R of the message that was received. *)
Definition is_request (m : disp_msg) : bool := has_flag (msg_flags (msg_public (dm_msg m))) CMD_FLAG_REQUEST.

(** The callback [anscb] that was registered when the query was sent is given
    the answer, and may keep it. *)
Definition answer_cb (anscb : option (W → disp_msg → option disp_msg * W)) (m : disp_msg) (w : W)
    : option disp_msg * W :=
  match anscb with
  | Some f => if is_request m then (Some m, w) else f w m
  | None => (Some m, w)
  end.

(** From the callback of the query on.  [from_peer]: the query came from a peer;
    [sess]: the session, or the error of [fd_msg_sess_get]. *)
Definition dispatch_parsed (d : dictionary) (s : disp_state) (no_fwd from_peer : bool)
    (anscb : option (W → disp_msg → option disp_msg * W)) (sess : errno + option ref) (m : disp_msg) (w : W)
    : result (errno + fate) :=
  let is_req := is_request m in
  let '(m, w) := answer_cb anscb m w in
  match m, sess with
  | None, _ => mret (inr Taken)
  | Some _, inl e => mret (inl e)
  | Some m, inr sess =>
      '(ret, ec, r) ← fd_msg_dispatch d s sess m w;
      mret (match ret with Some e => inl e | None => inr (act_on no_fwd is_req from_peer ec r) end)
  end.

(** [inl]: the error that [msg_dispatch] returns; its thread then ends, and the
    daemon with it. *)
Definition msg_dispatch (d : dictionary) (s : disp_state) (no_fwd from_peer : bool)
    (anscb : option (W → disp_msg → option disp_msg * W)) (sess : errno + option ref) (p : parsed) (w : W)
    : result (errno + fate) :=
  match p with
  | ParsedFailed m => mret (inr (Dropped (Some m) "Error while parsing received answer"))
  | ParsedRefused ec => mret (inr (Refused ec))
  | ParsedInvalid m => mret (inr (Dropped (Some m) "Received answer failed the dictionary / rules parsing"))
  | ParsedOk m | ParsedRescued m => dispatch_parsed d s no_fwd from_peer anscb sess m w
  end.
End Dispatch.
