(* ===== verification/FdDispatchInv.v ===== *)
(** The handlers of FdDispatch: every list of callbacks is the part of
    [all_handlers] that was registered for it, in the order of registration,
    whatever is registered and deleted; and a handler has the fields that its
    [disp_how] needs, of the right types, and no others. *)

From stdpp Require Import base list gmap strings.
From Stdlib Require Import ZArith Lia.
From S2P Require Import Prelude FdMessages FdTrees FdDictionary FdDispatch.
Open Scope Z_scope.

(** * Lists *)

Lemma filter_ext_in {A} (P Q : A → Prop) `{!∀ x, Decision (P x), !∀ x, Decision (Q x)} (l : list A) :
  (∀ x, x ∈ l → (P x ↔ Q x)) → filter P l = filter Q l.
Proof.
  induction l as [|x l IH]; intros HPQ; [done|]. rewrite !filter_cons.
  rewrite IH by (intros; apply HPQ; by right).
  destruct (decide (P x)) as [p|p], (decide (Q x)) as [q|q]; try done.
  - destruct q. apply HPQ; [left|done].
  - destruct p. apply HPQ; [left|done].
Qed.

Lemma filter_comm {A} (P Q : A → Prop) `{!∀ x, Decision (P x), !∀ x, Decision (Q x)} (l : list A) :
  filter P (filter Q l) = filter Q (filter P l).
Proof. rewrite !list_filter_filter. apply list_filter_iff. naive_solver. Qed.

Section Invariant.
Context {W C Opq : Type}.
Implicit Types (x : disp_hdl (C := C) (Opq := Opq)) (s : disp_state (C := C) (Opq := Opq)).

(** The list a handler was registered for. *)
Definition target x : option ref :=
  match h_how x with
  | DISP_HOW_ANY => None
  | DISP_HOW_APPID => w_app (h_when x)
  | DISP_HOW_CC => w_command (h_when x)
  | DISP_HOW_AVP | DISP_HOW_AVP_ENUMVAL => w_avp (h_when x)
  end.

Definition parent_of s (h : ref) : option (option ref) := target <$> hdls s !! h.

(** The fields that must be set are of their types, those that are ignored are
    not set. *)
Definition hdl_ok (d : dictionary) x : Prop :=
  match h_how x, h_when x with
  | DISP_HOW_ANY, When None None None None => True
  | DISP_HOW_APPID, When app None None None => verify_object d app DICT_APPLICATION = true
  | DISP_HOW_CC, When _ command None None => verify_object d command DICT_COMMAND = true
  | DISP_HOW_AVP, When _ _ avp None => verify_object d avp DICT_AVP = true
  | DISP_HOW_AVP_ENUMVAL, When _ _ avp value =>
      verify_object d avp DICT_AVP = true ∧ verify_object d value DICT_ENUMVAL = true
  | _, _ => False
  end.

Record dinv (d : dictionary) s : Prop := {
  di_nodup : NoDup (all_handlers s);
  di_all h : h ∈ all_handlers s ↔ is_Some (hdls s !! h);
  di_list L : cb_list s L = filter (λ h, parent_of s h = Some L) (all_handlers s);
  di_fresh h : is_Some (hdls s !! h) → (h < disp_brk s)%positive;
  di_hdl h x : hdls s !! h = Some x → hdl_ok d x
}.

Lemma dinv_init d : dinv d disp_init.
Proof.
  split; cbn; try done; [constructor|..].
  - intros h. rewrite lookup_empty. split; [by intros ?%elem_of_nil|by intros [??]].
  - intros [x|]; [|done]. cbn. by rewrite lookup_empty.
  - intros h. rewrite lookup_empty. by intros [??].
Qed.

(** ** Registration *)

Lemma verify_some d (x : option ref) t : verify_object d x t = true → is_Some x.
Proof. by destruct x. Qed.

Lemma disp_cb_some d t (x : option ref) y : fd_dict_disp_cb d t x = Some y → x = Some y ∧ verify_object d x t = true.
Proof. unfold fd_dict_disp_cb. by destruct (verify_object d x t). Qed.

Lemma register_list_ok d how w L (cb : C) (opaque : Opq) :
  register_list d how w = Ok (inr L) →
  hdl_ok d (Hdl how (when_copied how w) cb opaque) ∧ target (Hdl how (when_copied how w) cb opaque) = L.
Proof.
  unfold hdl_ok, target. destruct how; cbn -[type_of_or_fail]; [by intros [= <-]|..]; intros H.
  1-3: destruct (fd_dict_disp_cb _ _ _) as [y|] eqn:E in H; [|done]; apply disp_cb_some in E as [E V];
    injection H as <-; by rewrite E in *.
  destruct (fd_dict_disp_cb d DICT_ENUMVAL _) as [v|] eqn:Ev; [|done]. apply disp_cb_some in Ev as [Ev Vv].
  destruct (type_of_or_fail d (TYPE_OF_ENUMVAL (w_value w))) as [[e|ty]| | |]; cbn -[type_of_or_fail] in H; try done.
  destruct (fd_dict_disp_cb d DICT_AVP _) as [a|] eqn:Ea; [|done]. apply disp_cb_some in Ea as [Ea Va].
  destruct (type_of_or_fail d (TYPE_OF_AVP (w_avp w))) as [[e|ta]| | |]; cbn in H; try done.
  destruct (bool_decide _); [|done]. injection H as <-. done.
Qed.

Lemma parent_link s h y h' : h' ≠ h → parent_of (link_all h y s) h' = parent_of s h'.
Proof. intros Hne. unfold parent_of. cbn. by rewrite lookup_insert_ne. Qed.

Lemma cb_list_link s L h L' :
  cb_list (link_parent L h s) L' = cb_list s L' ++ (if decide (L = L') then [h] else []).
Proof.
  destruct L as [x|], L' as [y|]; cbn; case_decide; simplify_eq; cbn; rewrite ?app_nil_r; try done.
  - by rewrite lookup_insert_eq.
  - rewrite lookup_insert_ne; [done|]. naive_solver.
Qed.

Lemma link_parent_same L h s :
  hdls (link_parent L h s) = hdls s ∧ all_handlers (link_parent L h s) = all_handlers s
  ∧ disp_brk (link_parent L h s) = disp_brk s.
Proof. by destruct L. Qed.

Lemma dinv_register d s y :
  dinv d s → hdl_ok d y → dinv d (link_parent (target y) (disp_brk s) (link_all (disp_brk s) y s)).
Proof.
  intros I Hy. set (h := disp_brk s). set (s1 := link_all h y s).
  destruct (link_parent_same (target y) h s1) as (Eh & Ea & Eb).
  assert (Hnew : h ∉ all_handlers s) by (intros Hin%(di_all _ _ I)%(di_fresh _ _ I); lia).
  assert (Hp : ∀ h', parent_of (link_parent (target y) h s1) h' = parent_of s1 h') by (intros; unfold parent_of; by rewrite Eh).
  split; rewrite ?Eh, ?Ea, ?Eb; cbn.
  - apply NoDup_app. split_and!; [apply I| |apply NoDup_singleton]. intros z Hz ->%list_elem_of_singleton. done.
  - intros h'. rewrite elem_of_app, list_elem_of_singleton, (di_all _ _ I).
    destruct (decide (h' = h)) as [->|Hne]; [rewrite lookup_insert_eq; naive_solver|].
    rewrite lookup_insert_ne by done. naive_solver.
  - intros L. rewrite cb_list_link. change (cb_list s1 L) with (cb_list s L). rewrite (di_list _ _ I), filter_app. f_equal.
    + apply filter_ext_in. intros h' Hin. rewrite Hp. unfold s1. rewrite parent_link; [done|]. by intros ->.
    + rewrite filter_cons, filter_nil, Hp. unfold parent_of, s1. cbn. rewrite lookup_insert_eq. cbn.
      destruct (decide (target y = L)) as [->|?]; [by rewrite decide_True|rewrite decide_False by congruence; done].
  - intros h'. destruct (decide (h' = h)) as [->|Hne]; [intros; lia|]. rewrite lookup_insert_ne by done.
    intros ?%(di_fresh _ _ I). fold h in H. lia.
  - intros h' z. destruct (decide (h' = h)) as [->|Hne]; [rewrite lookup_insert_eq; by intros [= <-]|].
    rewrite lookup_insert_ne by done. apply (di_hdl _ _ I).
Qed.

Lemma fd_disp_register_inv d s cb how w opaque e h s' :
  dinv d s → fd_disp_register d s cb how w opaque = Ok (e, h, s') → dinv d s'.
Proof.
  unfold fd_disp_register. intros I. destruct cb as [cb|]; [|by intros [= <- <- <-]].
  destruct (if decide _ then _ else _) as [w'|]; [|by intros [= <- <- <-]].
  destruct (register_list d how w') as [[e'|L]| | |] eqn:E; cbn; try done; intros [= <- <- <-]; [done|].
  destruct (register_list_ok d how w' L cb opaque E) as [Hok <-]. by apply dinv_register.
Qed.

(** ** Deletion *)

Lemma dinv_unlink d s h : dinv d s → dinv d (unlink_hdl h s).
Proof.
  intros I. split; cbn; unfold without.
  - apply NoDup_filter, I.
  - intros h'. rewrite list_elem_of_filter, (di_all _ _ I).
    destruct (decide (h' = h)) as [->|Hne]; [rewrite lookup_delete_eq; naive_solver|].
    rewrite lookup_delete_ne by done. naive_solver.
  - intros L. transitivity (filter (λ z, z ≠ h) (cb_list s L)).
    { destruct L as [x|]; [|done]. cbn. rewrite lookup_fmap. by destruct (disp_cbs s !! x). }
    rewrite (di_list _ _ I), filter_comm. apply filter_ext_in. intros h' [Hne _]%list_elem_of_filter.
    unfold parent_of. cbn. by rewrite lookup_delete_ne.
  - intros h' [_ Hh]%lookup_delete_is_Some. by apply (di_fresh _ _ I).
  - intros h' x [_ Hh]%lookup_delete_Some. by apply (di_hdl _ _ I h').
Qed.

Lemma fd_disp_unregister_inv d s h e o s' : dinv d s → fd_disp_unregister s h = Ok (e, o, s') → dinv d s'.
Proof.
  unfold fd_disp_unregister. intros I. destruct h as [h|]; [|by intros [= <- <- <-]].
  destruct (hdls s !! h); [|done]. intros [= <- <- <-]. by apply dinv_unlink.
Qed.

(** Nothing is left by [fd_disp_unregister_all]. *)
Lemma unregister_loop_ok d : ∀ n s, dinv d s → (length (all_handlers s) ≤ n)%nat →
  ∃ s', unregister_loop n s = Ok s' ∧ dinv d s' ∧ all_handlers s' = [].
Proof.
  induction n as [|n IH]; intros s I Hn; destruct (all_handlers s) as [|h l] eqn:E; cbn in Hn |- *; rewrite ?E; try lia.
  1,2: by exists s.
  assert (is_Some (hdls s !! h)) as [x Hx] by (apply (di_all _ _ I); rewrite E; left).
  rewrite Hx. cbn. apply IH; [by apply dinv_unlink|]. cbn. rewrite E. unfold without. rewrite filter_cons_False by naive_solver.
  pose proof (length_filter (λ z, z ≠ h) l). lia.
Qed.

(** ** Every state *)

Inductive disp_reachable (d : dictionary) : disp_state → Prop :=
| reach_disp_init : disp_reachable d disp_init
| reach_register s cb how w opaque e h s' :
    disp_reachable d s → fd_disp_register d s cb how w opaque = Ok (e, h, s') → disp_reachable d s'
| reach_unregister s h e o s' :
    disp_reachable d s → fd_disp_unregister s h = Ok (e, o, s') → disp_reachable d s'.

Lemma disp_reachable_inv d s : disp_reachable d s → dinv d s.
Proof.
  induction 1; [apply dinv_init|by eapply fd_disp_register_inv|by eapply fd_disp_unregister_inv].
Qed.

Lemma dinv_empty d s : dinv d s → all_handlers s = [] → hdls s = ∅ ∧ ∀ L, cb_list s L = [].
Proof.
  intros I E. split.
  - apply map_eq. intros h. rewrite lookup_empty. destruct (hdls s !! h) as [x|] eqn:Hx; [|done].
    assert (Hin : h ∈ all_handlers s) by (apply (di_all _ _ I); by eexists). rewrite E in Hin. by apply elem_of_nil in Hin.
  - intros L. by rewrite (di_list _ _ I), E.
Qed.

(** C30: whatever is registered and deleted, each handler is well typed (it has
    the objects that its way of registration requires, of the right kinds, and
    nothing in the fields that are ignored) and is in the one list it was
    registered for, every list being in the order of registration; the lists can
    be emptied completely. *)
Theorem handlers_typed d s :
  disp_reachable d s →
  (∀ h x, hdls s !! h = Some x → hdl_ok d x ∧ h ∈ cb_list s (target x) ∧ ∀ L, h ∈ cb_list s L → L = target x)
  ∧ (∀ L, cb_list s L = filter (λ h, parent_of s h = Some L) (all_handlers s))
  ∧ NoDup (all_handlers s)
  ∧ (∃ s', fd_disp_unregister_all s = Ok s' ∧ hdls s' = ∅ ∧ ∀ L, cb_list s' L = []).
Proof.
  intros R. apply disp_reachable_inv in R as I. split_and!.
  - intros h x Hx. split; [by apply (di_hdl _ _ I h)|].
    split; [|intros L]; rewrite (di_list _ _ I), list_elem_of_filter; unfold parent_of; rewrite Hx.
    + split; [done|]. apply (di_all _ _ I). by eexists.
    + intros [[= ->] _]. done.
  - apply I.
  - apply I.
  - destruct (unregister_loop_ok d (length (all_handlers s)) s I) as (s' & Hs & I' & E); [done|].
    exists s'. split; [done|]. by apply (dinv_empty d).
Qed.
End Invariant.
