(* ===== verification/FdDispatchRuns.v ===== *)
(** The order in which the callbacks of FdDispatch are called, and what becomes of
    the message.

    The specification is the documentation of [enum disp_how] in libfdproto.h: a
    message goes to the handlers of DISP_HOW_ANY, then for each AVP to those of
    DISP_HOW_AVP and DISP_HOW_AVP_ENUMVAL, then to those of its command and of its
    application, those of one object in the order of registration, until one of
    them takes the message or says what to do with it.  It is stated on the list of
    all handlers; the code goes through the lists of the dictionary. *)

From stdpp Require Import base list gmap strings.
From Stdlib Require Import ZArith Lia.
From S2P Require Import Prelude FdMessages FdWire FdParse FdRules FdParseError FdTrees FdDictionary FdDictModel FdDispatch.
From S2P Require Import FdDispatchInv.
Open Scope Z_scope.

Section Order.
Context {W C Opq : Type} (run_cb : C → W → option disp_msg → option place → option ref → Opq → @cb_out W).
Implicit Types (x : disp_hdl (C := C) (Opq := Opq)) (s : disp_state (C := C) (Opq := Opq)) (r : disp_run (W := W)).

Notation run_call := (call run_cb).

(** * The specification *)

Inductive occasion := OnAny | OnAvp | OnCommand | OnApplication.

(** The summary of the fields of [disp_when] in libfdproto.h: M (must be equal), m
    (may be set). *)
Definition selects (k : occasion) (ob : disp_when) x : bool :=
  let w := h_when x in
  match k, h_how x with
  | OnAny, DISP_HOW_ANY => true
  | OnAvp, DISP_HOW_AVP =>
      may (w_app w) (w_app ob) && may (w_command w) (w_command ob) && bool_decide (w_avp w = w_avp ob)
  | OnAvp, DISP_HOW_AVP_ENUMVAL =>
      may (w_app w) (w_app ob) && may (w_command w) (w_command ob) && bool_decide (w_avp w = w_avp ob)
      && bool_decide (w_value w = w_value ob)
  | OnCommand, DISP_HOW_CC => may (w_app w) (w_app ob) && bool_decide (w_command w = w_command ob)
  | OnApplication, DISP_HOW_APPID => bool_decide (w_app w = w_app ob)
  | _, _ => false
  end.

Definition selected s (k : occasion) (ob : disp_when) (av : option place) : list (ref * option place) :=
  (λ h, (h, av)) <$>
    filter (λ h, match hdls s !! h with Some x => selects k ob x | None => false end = true) (all_handlers s).

(** The calls for an AVP; [None]: the dictionary does not have what is looked
    up. *)
Definition avp_calls (d : dictionary) s (m : disp_msg) (app cmd : ref) (p : place) : option (list (ref * option place)) :=
  match dm_model m p with
  | None => Some []
  | Some model =>
      match avp_callbacks d m app cmd p model with
      | Ok (inr (_, ob)) => Some (selected s OnAvp ob (Some p))
      | _ => None
      end
  end.

(** The calls for a message of a known command and application, as documented. *)
Definition object_calls (d : dictionary) s (m : disp_msg) (app cmd : ref) : option (list (ref * option place)) :=
  let ob := When (Some app) (Some cmd) None None in
  if verify_object d (Some cmd) DICT_COMMAND && verify_object d (Some app) DICT_APPLICATION then
    l ← mapM (avp_calls d s m app cmd) (preorder_list [] 0 (msg_children (dm_msg m)));
    Some (concat l ++ selected s OnCommand ob None ++ selected s OnApplication ob None)
  else None.

Definition any_calls s : list (ref * option place) := selected s OnAny (When None None None None) None.

(** The calls of a list, one after the other, until one stops. *)
Fixpoint call_all s (sess : option ref) (l : list (ref * option place)) r : result (disp_run (W := W)) :=
  match l with
  | [] => Ok r
  | (h, av) :: l =>
      match hdls s !! h with
      | None => Crash
      | Some x =>
          let r := run_call h x av sess r in
          if stopped r then Ok r else call_all s sess l r
      end
  end.

Definition start (m : disp_msg) (w : W) : disp_run := Run (Some m) DISP_ACT_CONT None w [].

(** * The lists of the dictionary *)

Definition list_for (k : occasion) (ob : disp_when) : option ref :=
  match k with OnAny => None | OnAvp => w_avp ob | OnCommand => w_command ob | OnApplication => w_app ob end.

(** What a handler of that list is matched with. *)
Definition occasion_ok (d : dictionary) (k : occasion) (ob : disp_when) : Prop :=
  match k with
  | OnAny => ob = When None None None None
  | OnAvp => verify_object d (w_avp ob) DICT_AVP = true
  | OnCommand => verify_object d (w_command ob) DICT_COMMAND = true
  | OnApplication => verify_object d (w_app ob) DICT_APPLICATION = true
  end.

Lemma verify_unique d y t t' : verify_object d y t = true → verify_object d y t' = true → t = t'.
Proof.
  unfold verify_object. destruct (y ≫= _) as [o|]; [|done]. intros H%bool_decide_eq_true H'%bool_decide_eq_true.
  congruence.
Qed.

Lemma may_refl w : may w w = true.
Proof. destruct w; [by apply bool_decide_eq_true|done]. Qed.

Lemma may_some w y : is_Some w → may w y = bool_decide (w = y).
Proof. by intros [z ->]. Qed.

(** An object is not of two types, and not NULL. *)
Ltac wrong_type :=
  match goal with
  | H : verify_object ?d ?y ?t = true, H' : verify_object ?d ?y ?t' = true |- _ =>
      exfalso; pose proof (verify_unique d y t t' H H'); discriminate
  | H : verify_object ?d None ?t = true |- _ => exfalso; exact (is_Some_None (verify_some d None t H))
  end.

(** A handler of the list of an object, with the fields that match, is one that
    the documentation selects. *)
Lemma selects_matches d k ob x :
  hdl_ok d x → occasion_ok d k ob →
  (matches (h_when x) ob = true ∧ Some (target x) = Some (list_for k ob)) ↔ selects k ob x = true.
Proof.
  unfold hdl_ok, target, matches, selects. destruct x as [how [app cmd avp value] cb o], ob as [oapp ocmd oavp oval].
  cbn [h_how h_when w_app w_command w_avp w_value list_for occasion_ok].
  intros Hx Hk. destruct how, k; cbn [occasion_ok list_for w_app w_command w_avp w_value] in *;
    repeat match type of Hx with context [match ?v with _ => _ end] => destruct v; [done|] || (destruct v; [|done]) end;
    try (split; [intros [_ [= Ht]]; subst; destruct_and?; wrong_type|done]).
  all: try (injection Hk as -> -> -> ->).
  all: try (destruct Hx as [_ Hv%verify_some]; rewrite (may_some value) by done).
  all: rewrite ?andb_true_iff, ?bool_decide_eq_true.
  all: pose proof may_refl; naive_solver.
Qed.

Lemma call_cbs_filter s l av sess ob : (∀ h, h ∈ l → is_Some (hdls s !! h)) → ∀ r,
  call_cbs run_cb s l av sess ob r =
  call_all s sess ((λ h, (h, av)) <$>
    filter (λ h, match hdls s !! h with Some x => matches (h_when x) ob | None => false end = true) l) r.
Proof.
  induction l as [|h l IH]; intros Hl r; [done|].
  destruct (Hl h) as [x Hx]; [left|]. cbn [call_cbs]. rewrite filter_cons, Hx.
  assert (∀ h, h ∈ l → is_Some (hdls s !! h)) as Hl' by (intros; apply Hl; by right).
  destruct (matches (h_when x) ob).
  - rewrite decide_True by done. cbn. rewrite Hx. destruct (stopped _); [done|]. by apply IH.
  - rewrite decide_False by done. by apply IH.
Qed.

(** The list of an object holds what the documentation selects. *)
Lemma call_cb_int_selected d s k ob av sess r :
  dinv d s → occasion_ok d k ob →
  fd_disp_call_cb_int run_cb s (list_for k ob) av sess ob r = call_all s sess (selected s k ob av) r.
Proof.
  intros I Hk. unfold fd_disp_call_cb_int, selected. rewrite (di_list _ _ I), call_cbs_filter.
  - rewrite list_filter_filter. do 2 f_equal. apply filter_ext_in. intros h [x Hx]%(di_all _ _ I).
    unfold parent_of. rewrite Hx. cbn. apply (selects_matches d); [|done]. by apply (di_hdl _ _ I h).
  - intros h [_ Hh]%list_elem_of_filter. by apply (di_all _ _ I).
Qed.

(** * Calls in a row *)

Lemma call_all_app s sess l1 l2 : ∀ r, stopped r = false →
  call_all s sess (l1 ++ l2) r = (r1 ← call_all s sess l1 r; if stopped r1 then Ok r1 else call_all s sess l2 r1).
Proof.
  induction l1 as [|[h av] l1 IH]; intros r Hr; cbn; [by rewrite Hr|].
  destruct (hdls s !! h) as [x|]; [|done]. destruct (stopped (run_call h x av sess r)) eqn:E; cbn; [by rewrite E|].
  by apply IH.
Qed.

(** The calls that were made are the first of the list; no more are made after
    one that stops, and if none stops all are made. *)
Lemma call_all_prefix s sess l : ∀ r r', call_all s sess l r = Ok r' →
  ∃ l1 l2, l = l1 ++ l2 ∧ r_calls r' = r_calls r ++ l1 ∧ (stopped r' = false → l2 = [])
           ∧ (l2 = [] ∨ stopped r' = true).
Proof.
  induction l as [|[h av] l IH]; intros r r'; cbn.
  - intros [= ->]. exists [], []. split_and!; [done|by rewrite app_nil_r|done|by left].
  - destruct (hdls s !! h) as [x|]; [|done].
    assert (r_calls (run_call h x av sess r) = r_calls r ++ [(h, av)]) as Hc by (unfold call; by case_match).
    destruct (stopped (run_call h x av sess r)) eqn:E.
    + intros [= <-]. exists [(h, av)], l. rewrite Hc, E. split_and!; [done..|by right].
    + intros (l1 & l2 & -> & Hr & Hs & Hl)%IH. exists ((h, av) :: l1), l2. rewrite Hr, Hc, <-app_assoc. done.
Qed.

Lemma call_all_total s sess l : (∀ c, c ∈ l → is_Some (hdls s !! c.1)) → ∀ r, ∃ r', call_all s sess l r = Ok r'.
Proof.
  induction l as [|[h av] l IH]; intros Hl r; [by eexists|]. cbn. destruct (Hl (h, av)) as [x Hx]; [left|]. cbn in Hx.
  rewrite Hx. case_match; [by eexists|]. apply IH. intros c Hc. apply Hl. by right.
Qed.

Lemma selected_registered d s k ob av : dinv d s → ∀ c, c ∈ selected s k ob av → is_Some (hdls s !! c.1).
Proof. intros I c (h & -> & [_ Hh]%list_elem_of_filter)%list_elem_of_fmap. by apply (di_all _ _ I). Qed.

(** * The AVPs *)

Lemma avp_callbacks_ok d m app cmd p model L ob :
  avp_callbacks d m app cmd p model = Ok (inr (L, ob)) → L = list_for OnAvp ob ∧ occasion_ok d OnAvp ob.
Proof.
  unfold avp_callbacks. destruct (fd_dict_disp_cb _ _ _) as [y|] eqn:E; [|done]. apply disp_cb_some in E as [[= <-] V].
  destruct (enumval_of _ _ _) as [[e|v]| | |]; cbn; try done. by intros [= <- <-].
Qed.

Lemma head_walks t p l : walks t (p :: l) None → walk t p = head l.
Proof. intros [-> _]. by destruct l. Qed.

Lemma avp_loop_calls d s sess m app cmd l : dinv d s → ∀ fuel cs r,
  walks (msg_tree (dm_msg m)) l None → (length l ≤ fuel)%nat → mapM (avp_calls d s m app cmd) l = Some cs →
  stopped r = false →
  avp_loop run_cb fuel d s sess m app cmd (head l) r =
  (r' ← call_all s sess (concat cs) r; Ok (None, r')).
Proof.
  intros I. induction l as [|p l IH]; intros fuel cs r Hw Hf Hcs Hr; cbn [head].
  { injection Hcs as <-. by destruct fuel. }
  destruct fuel as [|fuel]; [cbn in Hf; lia|]. cbn [length] in Hf.
  cbn in Hcs. apply bind_Some in Hcs as (c & Hc & (cs' & Hcs' & [= <-])%bind_Some).
  pose proof (head_walks _ _ _ Hw) as Hn. destruct Hw as [_ Hw]. cbn [avp_loop concat]. rewrite Hn.
  unfold avp_calls in Hc. destruct (dm_model m p) as [model|].
  - destruct (avp_callbacks d m app cmd p model) as [[e|[L ob]]| | |] eqn:E; try done. injection Hc as <-.
    apply avp_callbacks_ok in E as [-> Hob]. cbn [mbind result_mbind]. rewrite (call_cb_int_selected d s OnAvp) by done.
    rewrite call_all_app by done. destruct (call_all s sess (selected _ _ _ _) r) as [r1| | |]; cbn; try done.
    destruct (stopped r1) eqn:Hs; [done|]. apply IH; [done|lia|done|done].
  - injection Hc as <-. apply IH; [done|lia|done|done].
Qed.

Lemma object_callbacks_calls d s sess k t y app cmd r :
  dinv d s →
  (k = OnCommand ∧ t = DICT_COMMAND ∧ y = cmd) ∨ (k = OnApplication ∧ t = DICT_APPLICATION ∧ y = app) →
  verify_object d (Some y) t = true →
  object_callbacks run_cb d s sess t y app cmd r =
  (r' ← call_all s sess (selected s k (When (Some app) (Some cmd) None None) None) r; Ok (None, r')).
Proof.
  intros I Hk Hv. unfold object_callbacks, fd_dict_disp_cb. rewrite Hv.
  by destruct Hk as [(-> & -> & ->)|(-> & -> & ->)];
    [rewrite <-(call_cb_int_selected d s OnCommand) by done|rewrite <-(call_cb_int_selected d s OnApplication) by done].
Qed.

Lemma go_on_calls s sess l r f :
  stopped r = false →
  go_on (r' ← call_all s sess l r; Ok (None, r')) f =
  (r1 ← call_all s sess l r; if stopped r1 then Ok (None, r1) else f r1).
Proof. intros Hr. by destruct (call_all s sess l r). Qed.

Lemma FIRST_CHILD_head m : FIRST_CHILD m = head (preorder_list [] 0 (msg_children (dm_msg m))).
Proof.
  unfold FIRST_CHILD. cbn. destruct (msg_children (dm_msg m)) as [|a l]; [done|].
  by destruct (preorder_list_hd [] 0 a l) as [q ->].
Qed.

(** From the AVPs on, the calls are those that are documented. *)
Lemma dispatch_objects_calls d s sess m app cmd l r :
  dinv d s → object_calls d s m app cmd = Some l → stopped r = false →
  dispatch_objects run_cb d s sess m app cmd r = (r' ← call_all s sess l r; Ok (None, r')).
Proof.
  unfold object_calls, dispatch_objects. intros I Hl Hr.
  destruct (verify_object d (Some cmd) _) eqn:Hc; [|done]. destruct (verify_object d (Some app) _) eqn:Ha; [|done].
  apply bind_Some in Hl as (cs & Hcs & [= <-]). rewrite FIRST_CHILD_head.
  rewrite (avp_loop_calls d s sess m app cmd _ I _ cs r); [|apply (walks_tree (msg_tree (dm_msg m)))|cbn; lia|done..].
  rewrite go_on_calls, call_all_app by done.
  destruct (call_all s sess (concat cs) r) as [r1| | |]; cbn; try done. destruct (stopped r1) eqn:H1; [done|].
  rewrite (object_callbacks_calls d s sess OnCommand) by (done || by left).
  rewrite go_on_calls, call_all_app by done.
  destruct (call_all s sess (selected s OnCommand _ _) r1) as [r2| | |]; cbn; try done.
  destruct (stopped r2) eqn:H2; [done|]. apply (object_callbacks_calls d s sess OnApplication); [done|by right|done].
Qed.

Lemma object_calls_registered d s m app cmd l :
  dinv d s → object_calls d s m app cmd = Some l → ∀ c, c ∈ l → is_Some (hdls s !! c.1).
Proof.
  unfold object_calls. intros I Hl. case_match; [|done]. apply bind_Some in Hl as (cs & Hcs & [= <-]).
  intros c. rewrite !elem_of_app. intros [Hc|[Hc|Hc]]; [|by eapply selected_registered..].
  apply list_elem_of_In, in_concat in Hc as (l & Hl%list_elem_of_In & Hc%list_elem_of_In).
  apply mapM_Some in Hcs. apply list_elem_of_lookup in Hl as [i Hi].
  destruct (Forall2_lookup_r _ _ _ _ _ Hcs Hi) as (p & _ & Hp). unfold avp_calls in Hp.
  destruct (dm_model m p); [|simplify_eq; by apply elem_of_nil in Hc].
  destruct (avp_callbacks _ _ _ _ _ _) as [[e|[L ob]]| | |]; simplify_eq. by eapply selected_registered.
Qed.

(** * A message *)

Definition application_of (d : dictionary) (m : disp_msg) : result answer :=
  fd_dict_search d (R_APPLICATION (APPLICATION_BY_ID (msg_appl (msg_public (dm_msg m))))) (Some None) None.

Lemma any_phase d s sess m w :
  dinv d s →
  fd_disp_call_cb_int run_cb s None None sess (When None None None None) (start m w) =
  call_all s sess (any_calls s) (start m w).
Proof. intros I. unfold any_calls. by rewrite <-(call_cb_int_selected d s OnAny). Qed.

Lemma not_stopped_msg r : stopped r = false → r_action r = DISP_ACT_CONT ∧ ∃ m, r_msg r = Some m.
Proof.
  unfold stopped. intros [Hm Ha]%orb_false_iff. apply bool_decide_eq_false in Hm.
  apply negb_false_iff, bool_decide_eq_true in Ha. split; [done|]. destruct (r_msg r); [by eexists|done].
Qed.

(** C28: the callbacks that a message goes to are the first of the documented ones
    in the documented order (DISP_HOW_ANY; for each AVP, in the order of the walk
    through the message, DISP_HOW_AVP and DISP_HOW_AVP_ENUMVAL; the command; the
    application; in each group the order of registration), and all of them unless
    one stops; the lists that the code keeps in the dictionary select exactly the
    handlers that the documented table of fields does.  [m1] is the message that
    the callbacks of DISP_HOW_ANY leave. *)
Theorem dispatch_order d s sess m w :
  disp_reachable d s →
  ∃ r1, call_all s sess (any_calls s) (start m w) = Ok r1 ∧
    if stopped r1 then
      fd_msg_dispatch run_cb d s sess m w = Ok (None, None, r1) ∧ r_calls r1 `prefix_of` any_calls s
    else ∃ m1, r_msg r1 = Some m1 ∧
      ∀ cmd app l, dm_cmd m1 = Some cmd → application_of d m1 = Ok (None, Some (Some app)) →
        object_calls d s m1 app cmd = Some l →
        ∃ r, fd_msg_dispatch run_cb d s sess m w = Ok (None, None, r)
             ∧ r_calls r `prefix_of` any_calls s ++ l
             ∧ (stopped r = false → r_calls r = any_calls s ++ l).
Proof.
  intros I%disp_reachable_inv.
  destruct (call_all_total s sess (any_calls s) (selected_registered d s _ _ _ I) (start m w)) as [r1 H1].
  exists r1. split; [done|]. unfold fd_msg_dispatch. fold (start m w). rewrite (any_phase d), H1 by done.
  cbn [mbind result_mbind]. destruct (call_all_prefix s sess _ _ _ H1) as (l1 & l2 & El & Ec & Hs & _).
  destruct (stopped r1) eqn:E1; [split; [done|]; cbn in Ec; rewrite Ec, El; by apply prefix_app_r|].
  destruct (not_stopped_msg _ E1) as (Ha & m1 & Hm). exists m1. split; [done|]. intros cmd app l Hcmd Happ Hl.
  pose proof (object_calls_registered d s m1 app cmd l I Hl) as Hreg.
  rewrite Hm, Hcmd. unfold application_of in Happ. rewrite Happ. cbn [mbind result_mbind].
  rewrite (dispatch_objects_calls d s sess m1 app cmd l r1 I Hl E1).
  destruct (call_all_total s sess l Hreg r1) as [r Hr]. rewrite Hr. exists r. split; [done|].
  rewrite (Hs eq_refl), app_nil_r in El. cbn in Ec.
  destruct (call_all_prefix s sess _ _ _ Hr) as (k1 & k2 & -> & Ek & Hk & _).
  rewrite Ek, Ec, El. split; [apply prefix_app, prefix_app_r; done|].
  intros H. by rewrite (Hk H), app_nil_r.
Qed.

(** * What becomes of the message *)

(** What the callbacks say of a message: none of them stopped; one returned an
    error, and left a message or none; one kept the message; one left a message
    with an action; or the application of the message is not in the dictionary. *)
Inductive verdict :=
| Unhandled (m : disp_msg)
| Failed (m : option disp_msg)
| Kept
| Said (m : disp_msg) (a : disp_action)
| NoApplication (m : disp_msg).

(** The callbacks of a list are asked one after the other: what the first that
    stops says, or the message and the state after the last. *)
Fixpoint ask s (sess : option ref) (l : list (ref * option place)) (m : disp_msg) (w : W)
    : option (verdict + disp_msg * W) :=
  match l with
  | [] => Some (inr (m, w))
  | (h, av) :: l =>
      x ← hdls s !! h;
      let out := run_cb (h_cb x) w (Some m) av sess (h_opaque x) in
      if decide (out_ret out = 0) then
        match out_msg out, out_action out with
        | None, _ => Some (inl Kept)
        | Some m, DISP_ACT_CONT => ask s sess l m (out_world out)
        | Some m, a => Some (inl (Said m a))
        end
      else Some (inl (Failed (out_msg out)))
  end.

(** The documented callbacks in the documented order; [None]: [fd_msg_dispatch]
    returns an error. *)
Definition verdict_on (d : dictionary) s (sess : option ref) (m : disp_msg) (w : W) : option verdict :=
  v ← ask s sess (any_calls s) m w;
  match v with
  | inl v => Some v
  | inr (m, w) =>
      cmd ← dm_cmd m;
      match application_of d m with
      | Ok (None, Some (Some app)) =>
          l ← object_calls d s m app cmd;
          v ← ask s sess l m w;
          Some (match v with inl v => v | inr (m, _) => Unhandled m end)
      | Ok (None, _) => Some (NoApplication m)
      | _ => None
      end
  end.

(** What a run of calls leaves in the variables of [msg_dispatch]. *)
Definition leaves (v : verdict + disp_msg * W) r : Prop :=
  match v with
  | inr (m, w) => r_msg r = Some m ∧ r_action r = DISP_ACT_CONT ∧ r_drop r = None ∧ r_world r = w
  | inl (Failed m) => r_msg r = None ∧ r_drop r = Some (callback_error, m)
  | inl Kept => r_msg r = None ∧ r_drop r = None
  | inl (Said m a) => r_msg r = Some m ∧ r_action r = a ∧ a ≠ DISP_ACT_CONT ∧ r_drop r = None
  | inl _ => False
  end.

Lemma leaves_stopped v r : leaves v r → stopped r = match v with inl _ => true | inr _ => false end.
Proof.
  unfold leaves, stopped. destruct v as [[m|m| |m a|m]|[m w]]; try done.
  - by intros [-> _].
  - by intros [-> _].
  - intros (-> & -> & Ha & _). by rewrite (bool_decide_eq_false_2 _ Ha).
  - by intros (-> & -> & _).
Qed.

Lemma ask_calls s sess l : ∀ m w v r,
  leaves (inr (m, w)) r → ask s sess l m w = Some v → ∃ r', call_all s sess l r = Ok r' ∧ leaves v r'.
Proof.
  induction l as [|[h av] l IH]; intros m w v r Hr; [intros [= <-]; by exists r|]. cbn [ask call_all].
  destruct (hdls s !! h) as [x|]; [|done]. cbn [mbind option_bind]. destruct Hr as (Hm & Ha & Hd & Hw).
  unfold call. rewrite Hm, Hw, Hd. destruct (run_cb _ _ _ _ _ _) as [ret m1 a1 w1]. cbn [out_ret out_msg out_action out_world].
  destruct (decide (ret = 0)) as [->|Hret]; cbn [Z.eqb].
  - destruct m1 as [m1|]; [destruct a1|].
    + intros H. eapply IH; [|exact H]. done.
    + intros [= <-]. eexists. split; [reflexivity|done].
    + intros [= <-]. eexists. split; [reflexivity|done].
    + intros [= <-]. eexists. split; [reflexivity|done].
  - intros [= <-]. rewrite (proj2 (Z.eqb_neq _ _) Hret). eexists. split; [reflexivity|done].
Qed.

(** How [fd_msg_dispatch] ends. *)
Lemma fd_msg_dispatch_verdict d s sess m w v :
  dinv d s → verdict_on d s sess m w = Some v →
  ∃ ec r, fd_msg_dispatch run_cb d s sess m w = Ok (None, ec, r) ∧
  match v with
  | Unhandled m' => ec = None ∧ ∃ w', leaves (inr (m', w')) r
  | NoApplication m' =>
      if is_request m' then
        ec = Some "DIAMETER_APPLICATION_UNSUPPORTED"%string ∧ r_msg r = Some m' ∧ r_action r = DISP_ACT_ERROR ∧ r_drop r = None
      else r_msg r = None ∧ r_drop r = Some (no_application, Some m')
  | _ => ec = None ∧ leaves (inl v) r
  end.
Proof.
  unfold verdict_on, fd_msg_dispatch. fold (start m w). intros I (v1 & H1 & Hv)%bind_Some. rewrite (any_phase d) by done.
  destruct (ask_calls s sess _ m w v1 (start m w) ltac:(done) H1) as (r1 & -> & Hr1). cbn [mbind result_mbind].
  pose proof (leaves_stopped _ _ Hr1) as Hst. rewrite Hst. destruct v1 as [v1|[m1 w1]].
  { injection Hv as <-. exists None, r1. split; [done|]. by destruct v1. }
  destruct (Hr1) as (Hm & Ha & Hd & Hw). rewrite Hm. apply bind_Some in Hv as (cmd & -> & Hv).
  unfold application_of in Hv. unfold is_request.
  destruct (fd_dict_search _ _ _ _) as [[[e|] [[app|]|]]| | |]; try done; cbn [mbind result_mbind].
  2,3: injection Hv as <-; case_match; eexists _, _; (split; [reflexivity|done]).
  apply bind_Some in Hv as (l & Hl & (v2 & H2 & [= <-])%bind_Some).
  rewrite (dispatch_objects_calls d s sess m1 app cmd l r1 I Hl Hst).
  destruct (ask_calls s sess l m1 w1 v2 r1 Hr1 H2) as (r2 & -> & Hr2). cbn [mbind result_mbind].
  exists None, r2. split; [done|]. destruct v2 as [[]|[m2 w2]]; try done. split; [done|]. by exists w2.
Qed.

Ltac pick := solve [assumption | reflexivity | split; pick | left; pick | right; pick | eexists; pick].

(** The fate is known: the equivalences are read off. *)
Ltac fates :=
  split_and!; intros; try done; split; intros; destruct_or?; destruct_and?; destruct_or?; destruct_and?; simplify_eq;
  try (repeat (destruct_or? || destruct_and? || match goal with H : ex _ |- _ => destruct H end || simplify_eq); congruence);
  pick.

End Order.

(** * An answer that nobody expected *)

(** An answer of an unknown command whose Result-Code is an error passes the
    parser, and with no callback for its query and none for any message,
    [msg_dispatch] returns an error, which ends the thread and the daemon. *)
Theorem rescued_answer_ends_thread {D : Dictionary} {R : RuleBook} {W C Opq : Type}
    (run_cb : C → W → option disp_msg → option place → option ref → Opq → cb_out)
    d s fuel m a v models no_fwd from_peer sess w :
  has_flag (msg_flags (msg_public m)) CMD_FLAG_REQUEST = false → msg_model m = None →
  cmd_by_code false (msg_code (msg_public m)) = None →
  result_code_avp m = Some a → parsedict_do_avp fuel false a = Ok v →
  (∃ bits, avp_val (data_of v) = Some (Number bits) ∧ 3000 ≤ bits < 2 ^ 32) →
  any_handlers s = [] →
  fd_msg_parse_or_error fuel m = Ok (PRescued m)
  ∧ msg_dispatch run_cb d s no_fwd from_peer None (inr sess) (ParsedRescued (DispMsg m None models)) w
    = Ok (inl EINVAL).
Proof.
  intros. split; [by eapply unknown_answer_rescued|]. cbn. unfold fd_msg_dispatch, fd_disp_call_cb_int. cbn.
  by replace (any_handlers s) with (@nil ref).
Qed.

(** * A sample *)

(** Callback 0 goes on, 1 sends. *)
Definition sample_cb (c : nat) (w : nat) (m : option disp_msg) (av : option place) (sess : option ref) (o : Z)
    : cb_out (W := nat) :=
  CbOut 0 m (if decide (c = 1%nat) then DISP_ACT_SEND else DISP_ACT_CONT) (S w).

Definition sample_register (s : disp_state (C := nat) (Opq := Z)) (x : nat * disp_how * disp_when) : disp_state :=
  match fd_disp_register sample s (Some x.1.1) x.1.2 (Some x.2) 0 with Ok (_, _, s') => s' | _ => s end.

(** For the application, the command, Session-Id, Auth-Application-Id and any
    message. *)
Definition sample_handlers : disp_state := foldl sample_register disp_init
  [(0%nat, DISP_HOW_APPID, When (Some 2%positive) None None None);
   (1%nat, DISP_HOW_CC, When None (Some 13%positive) None None);
   (0%nat, DISP_HOW_AVP, When None None (Some 11%positive) None);
   (0%nat, DISP_HOW_AVP, When (Some 2%positive) (Some 13%positive) (Some 9%positive) None);
   (0%nat, DISP_HOW_ANY, When None None None None);
   (0%nat, DISP_HOW_AVP, When None (Some 14%positive) (Some 9%positive) None)].

Lemma sample_register_reachable l : ∀ s, disp_reachable sample s → disp_reachable sample (foldl sample_register s l).
Proof.
  induction l as [|x l IH]; intros s Hs; [done|]. apply IH. unfold sample_register.
  destruct (fd_disp_register _ _ _ _ _ _) as [[[e h] s']| | |] eqn:E; try done. by eapply reach_register.
Qed.

Lemma sample_handlers_reachable : disp_reachable sample sample_handlers.
Proof. apply sample_register_reachable, reach_disp_init. Qed.

Definition sample_request : disp_msg :=
  DispMsg {| msg_public := {| msg_version := 1; msg_length := 0; msg_flags := 0xc0; msg_code := 268; msg_appl := 0;
                              msg_hbhid := 7; msg_eteid := 9 |};
             msg_model := None; msg_mnf_code := 0; msg_mnf_flags := 0; msg_children := msg_children sample_msg |}
          (Some 13%positive)
          (λ p, match p with
                | [0%nat] => Some 9%positive | [1%nat] => Some 10%positive | [0%nat; 1%nat] => Some 11%positive
                | [2%nat] => Some 12%positive | _ => None
                end).

Lemma handlers_typed_witness :
  hdls sample_handlers !! 4%positive = Some (Hdl DISP_HOW_AVP (When (Some 2) (Some 13) (Some 9) None)%positive 0%nat 0)
  ∧ cb_list sample_handlers (Some 9%positive) = [4; 6]%positive
  ∧ ∃ s', fd_disp_unregister_all sample_handlers = Ok s' ∧ hdls s' = ∅ ∧ ∀ L, cb_list s' L = [].
Proof.
  split; [vm_compute; reflexivity|]. split; [vm_compute; reflexivity|].
  apply (handlers_typed sample sample_handlers sample_handlers_reachable).
Defined.

(** The handler of the command stops: the one of the application is not called. *)
Lemma dispatch_order_witness :
  (∃ r1, call_all sample_cb sample_handlers None (any_calls sample_handlers) (start sample_request 0%nat) = Ok r1)
  ∧ (r ← fd_msg_dispatch sample_cb sample sample_handlers None sample_request 0%nat; Ok (r_calls r.2))
    = Ok [(5, None); (4, Some [0%nat]); (3, Some [0%nat; 1%nat]); (2, None)]%positive.
Proof.
  split; [|vm_compute; reflexivity].
  destruct (dispatch_order sample_cb sample sample_handlers None sample_request 0%nat sample_handlers_reachable)
    as (r1 & H & _). exists r1. exact H.
Defined.


(** An answer of command 999, which the sample does not have. *)
Definition stray_result : avp :=
  avp_built (Some {| dict_avp_code := 268; dict_avp_vendor := 0; dict_basetype := AVP_TYPE_UNSIGNED32;
                     dict_type_check := None |}) 268 0x40 0 (Some (Number 3001)) None [].

Definition stray_answer : msg :=
  {| msg_public := {| msg_version := 1; msg_length := 0; msg_flags := 0x20; msg_code := 999; msg_appl := 0;
                      msg_hbhid := 7; msg_eteid := 9 |};
     msg_model := None; msg_mnf_code := 0; msg_mnf_flags := 0; msg_children := [stray_result] |}.

Definition no_rules : RuleBook := {| avp_rules _ := []; cmd_rules _ := []; error_rules := [] |}.

Lemma rescued_answer_ends_thread_witness :
  msg_dispatch sample_cb sample disp_init false false None (inr None)
    (ParsedRescued (DispMsg stray_answer None (λ _, None))) 0%nat = Ok (inl EINVAL).
Proof.
  refine (proj2 (rescued_answer_ends_thread (D := sample_dict) (R := no_rules) sample_cb sample disp_init 1 stray_answer
    stray_result stray_result _ _ _ _ _ eq_refl eq_refl _ eq_refl eq_refl _ eq_refl)); [vm_compute; reflexivity|].
  exists 3001. split; [reflexivity|lia].
Defined.
