(* ===== verification/FdFifo.v ===== *)
(** The message queues of freeDiameter (libfdproto/fifo.c), under every
    interleaving of the threads that use one.

    A thread holds the mutex of the queue from the place where it takes it to
    the next [pthread_mutex_unlock] or [pthread_cond_wait]; one step of the
    model is such a critical section.  A thread asleep on a condition variable
    ([PushWait], [PullWait]) leaves it by a signal, spuriously, at its time-out
    or by cancellation.  The log of a system ([posted], [taken]) lists the items
    in the order they entered and left the queue; no step reads it. *)

From stdpp Require Import base list sorting.
From Stdlib Require Import ZArith Lia.
Open Scope Z_scope.

(** [struct timespec]. *)
Record timespec := Timespec { tv_sec : Z; tv_nsec : Z }.

(** Nanoseconds in a second. *)
Definition NSEC : Z := 1000000000.

(** [FIFO_EYEC]; [0xdead] while the queue is being deleted or moved. *)
Definition FIFO_EYEC : Z := 0xe7ec1130.
Definition EYEC_DEAD : Z := 0xdead.

Section Fifo.
Context {item : Type}.

Record fifo_item := FifoItem { fi_o : item; fi_posted_on : timespec }.

(** [struct fifo], but for its mutex and condition variables.  The opaque
    pointer [data] is an address; of the callbacks only their presence counts. *)
Record fifo := Fifo {
  eyec : Z;
  q_list : list fifo_item;
  q_count : Z;
  thrs : Z;
  q_max : Z;
  thrs_push : Z;
  q_high : Z;
  q_low : Z;
  q_data : option positive;
  h_cb : bool;
  l_cb : bool;
  highest : Z;
  highest_ever : Z;
  total_items : Z;
  total_time : timespec;
  blocking_time : timespec;
  last_time : timespec
}.

Definition CHECK_FIFO (q : fifo) : bool := eyec q =? FIFO_EYEC.

Definition fd_fifo_new (max : Z) : fifo :=
  Fifo FIFO_EYEC [] 0 0 max 0 0 0 None false false 0 0 0 (Timespec 0 0) (Timespec 0 0) (Timespec 0 0).

Definition set_eyec (e : Z) (q : fifo) : fifo :=
  Fifo e (q_list q) (q_count q) (thrs q) (q_max q) (thrs_push q) (q_high q) (q_low q) (q_data q)
    (h_cb q) (l_cb q) (highest q) (highest_ever q) (total_items q) (total_time q) (blocking_time q) (last_time q).
Definition set_thrs (n : Z) (q : fifo) : fifo :=
  Fifo (eyec q) (q_list q) (q_count q) n (q_max q) (thrs_push q) (q_high q) (q_low q) (q_data q)
    (h_cb q) (l_cb q) (highest q) (highest_ever q) (total_items q) (total_time q) (blocking_time q) (last_time q).
Definition set_thrs_push (n : Z) (q : fifo) : fifo :=
  Fifo (eyec q) (q_list q) (q_count q) (thrs q) (q_max q) n (q_high q) (q_low q) (q_data q)
    (h_cb q) (l_cb q) (highest q) (highest_ever q) (total_items q) (total_time q) (blocking_time q) (last_time q).

Definition fd_fifo_set_max (max : Z) (q : fifo) : fifo :=
  Fifo (eyec q) (q_list q) (q_count q) (thrs q) max (thrs_push q) (q_high q) (q_low q) (q_data q)
    (h_cb q) (l_cb q) (highest q) (highest_ever q) (total_items q) (total_time q) (blocking_time q) (last_time q).

(** The thresholds; [None] is EINVAL. *)
Definition fd_fifo_setthrhd (data : option positive) (high : Z) (h : bool) (low : Z) (l : bool) (q : fifo)
    : option fifo :=
  if CHECK_FIFO q && (low <? high) && bool_decide (q_data q = None) then
    Some (Fifo (eyec q) (q_list q) (q_count q) (thrs q) (q_max q) (thrs_push q) high low data
            h l (highest q) (highest_ever q) (total_items q) (total_time q) (blocking_time q) (last_time q))
  else None.

Definition fd_fifo_length (q : fifo) : Z := if CHECK_FIFO q then q_count q else 0.

(** What [fd_fifo_getstats] reads; [None] is EINVAL. *)
Definition fd_fifo_getstats (q : fifo) : option (Z * Z * Z * Z * timespec * timespec * timespec) :=
  if CHECK_FIFO q then
    Some (q_count q, q_max q, highest_ever q, total_items q, total_time q, blocking_time q, last_time q)
  else None.

(** The part of [fd_fifo_post_internal] after the wait: the new item, the
    counters and the time the poster was blocked; the flag [call_cb]. *)
Definition enqueue (x : item) (posted_on queued_on : timespec) (q : fifo) : fifo * bool :=
  let count := q_count q + 1 in
  let call_cb := negb (q_high q =? 0) && (Z.rem count (q_high q) =? 0) in
  let blocked_ns := (tv_sec queued_on - tv_sec posted_on) * NSEC
                    + (tv_nsec queued_on - tv_nsec posted_on) + tv_nsec (blocking_time q) in
  (Fifo (eyec q) (q_list q ++ [FifoItem x posted_on]) count (thrs q) (q_max q) (thrs_push q)
     (q_high q) (q_low q) (q_data q) (h_cb q) (l_cb q)
     (if call_cb then count else highest q)
     (if highest_ever q <? count then count else highest_ever q)
     (total_items q) (total_time q)
     (Timespec (tv_sec (blocking_time q) + Z.quot blocked_ns NSEC) (Z.rem blocked_ns NSEC))
     (last_time q),
   call_cb).

(** [None] is the failed ASSERT on an empty list. *)
Definition mq_pop (now : timespec) (q : fifo) : option (item * fifo) :=
  match q_list q with
  | [] => None
  | fi :: rest =>
      let elapsed := (tv_sec now - tv_sec (fi_posted_on fi)) * NSEC
                     + (tv_nsec now - tv_nsec (fi_posted_on fi)) in
      let total := elapsed + tv_nsec (total_time q) in
      Some (fi_o fi,
            Fifo (eyec q) rest (q_count q - 1) (thrs q) (q_max q) (thrs_push q)
              (q_high q) (q_low q) (q_data q) (h_cb q) (l_cb q) (highest q) (highest_ever q)
              (total_items q + 1)
              (Timespec (tv_sec (total_time q) + Z.quot total NSEC) (Z.rem total NSEC))
              (blocking_time q)
              (Timespec (Z.quot elapsed NSEC) (Z.rem elapsed NSEC)))
  end.

Definition test_l_cb (q : fifo) : fifo * bool :=
  if (q_high q =? 0) || (q_low q =? 0) || negb (l_cb q) then (q, false)
  else if (Z.rem (q_count q) (q_high q) =? q_low q) && (q_count q <? highest q) then
    (Fifo (eyec q) (q_list q) (q_count q) (thrs q) (q_max q) (thrs_push q) (q_high q) (q_low q) (q_data q)
       (h_cb q) (l_cb q) (highest q - q_high q) (highest_ever q) (total_items q) (total_time q)
       (blocking_time q) (last_time q), true)
  else (q, false).

(** The sum of two times, as [fd_fifo_move] carries the nanoseconds. *)
Definition merge_time (a b : timespec) : timespec :=
  let ns := tv_nsec a + tv_nsec b in
  Timespec (tv_sec a + (tv_sec b + Z.quot ns NSEC)) (Z.rem ns NSEC).

Inductive move_result :=
| MoveInvalid
| MoveWaits   (** threads still wait on [old] *)
| Moved (old new : fifo) (signal_pull : bool).

(** [fd_fifo_move], from the time no thread waits on [old] any more.  The steps
    below are those of one queue, which others are moved into. *)
Definition fd_fifo_move (old new : fifo) : move_result :=
  if negb (CHECK_FIFO old && CHECK_FIFO new && bool_decide (q_data old = None)) then MoveInvalid
  else if negb (thrs_push old =? 0) then MoveInvalid
  else if negb (thrs old =? 0) then MoveWaits
  else
    Moved
      (Fifo FIFO_EYEC [] 0 (thrs old) (q_max old) (thrs_push old) (q_high old) (q_low old) (q_data old)
         (h_cb old) (l_cb old) (highest old) (highest_ever old) 0 (Timespec 0 0) (Timespec 0 0) (last_time old))
      (Fifo (eyec new) (q_list new ++ q_list old) (q_count new + q_count old) (thrs new) (q_max new)
         (thrs_push new) (q_high new) (q_low new) (q_data new) (h_cb new) (l_cb new) (highest new)
         (highest_ever new) (total_items new + total_items old)
         (merge_time (total_time new) (total_time old))
         (merge_time (blocking_time new) (blocking_time old)) (last_time new))
      (negb (q_count old =? 0) && (q_count new =? 0)).

(** * Threads *)

Inductive result :=
| Posted
| Got (x : item)
| WouldBlock
| TimedOut
| Pipe      (** EPIPE: the queue is being destroyed *)
| Invalid   (** EINVAL *)
| Available (n : Z)
| Deleted
| Cancelled.

(** Who sleeps on [cond_pull]: [fifo_tget], timed or not, or [fd_fifo_select]. *)
Inductive waiter := WGet (istimed : bool) | WSelect.

(** Where a thread is: about to take the mutex, asleep, woken and about to take
    the mutex again, or back from the call.  [Done r cb]: the result, and
    whether it calls a threshold callback. *)
Inductive thread :=
| PostStart (x : item) (posted_on : timespec) (skip_max : bool)
| PushWait (x : item) (posted_on : timespec)
| PushWoken (x : item) (posted_on : timespec)
| GetStart (istimed : bool)
| TryStart
| TrySignal
| TrySleep
| SelectStart (abstime : bool)
| PullWait (w : waiter)
| PullWoken (w : waiter)
| DelStart
| DelSignal (loops : Z)
| DelSleep (loops : Z)
| Done (r : result) (call_cb : bool).

(** What a critical section leaves: the queue ([None] once it is freed), the
    thread, the signals it sends, and the items that entered and left. *)
Record outcome := Outcome {
  out_queue : option fifo;
  out_thread : thread;
  signal_pull : bool;
  signal_push : bool;
  enqueued : list item;
  dequeued : list item
}.

(** The end of [fd_fifo_post_internal]. *)
Definition post_now (x : item) (posted_on now : timespec) (q : fifo) : outcome :=
  let (q', call_cb) := enqueue x posted_on now q in
  Outcome (Some q') (Done Posted (call_cb && h_cb q')) (0 <? thrs q') (0 <? thrs_push q') [x] [].

(** [while (queue->count >= queue->max)] of [fd_fifo_post_internal]. *)
Definition post_wait (x : item) (posted_on now : timespec) (q : fifo) : outcome :=
  if q_max q <=? q_count q then
    Outcome (Some (set_thrs_push (thrs_push q + 1) q)) (PushWait x posted_on) false false [] []
  else post_now x posted_on now q.

(** The item of [mq_pop] and the call of [test_l_cb] after it. *)
Definition take (now : timespec) (q : fifo) : option outcome :=
  match mq_pop now q with
  | None => None
  | Some (x, q') =>
      let (q'', call_cb) := test_l_cb q' in
      Some (Outcome (Some q'') (Done (Got x) call_cb) false (negb (thrs_push q' =? 0)) [] [x])
  end.

(** [fifo_tget] from [awaken]. *)
Definition tget_awaken (istimed : bool) (now : timespec) (q : fifo) : option outcome :=
  if negb (CHECK_FIFO q) then Some (Outcome (Some q) (Done Pipe false) false false [] [])
  else if 0 <? q_count q then take now q
  else Some (Outcome (Some (set_thrs (thrs q + 1) q)) (PullWait (WGet istimed)) false false [] []).

(** [fd_fifo_select] from [awaken]. *)
Definition select_awaken (abstime : bool) (q : fifo) : outcome :=
  let ret := if 0 <? q_count q then q_count q else 0 in
  if (ret =? 0) && abstime
  then Outcome (Some (set_thrs (thrs q + 1) q)) (PullWait WSelect) false false [] []
  else Outcome (Some q) (Done (Available ret) false) false false [] [].

(** The test of [while (q->thrs)] of [fd_fifo_del], and the end of the call;
    [None] is the failed ASSERT that the list is empty. *)
Definition del_loop (loops : Z) (q : fifo) : option outcome :=
  if thrs q =? 0 then
    match q_list q with
    | [] => Some (Outcome None (Done Deleted false) false false [] [])
    | _ :: _ => None
    end
  else Some (Outcome (Some q) (DelSignal loops) false false [] []).

(** One critical section of a thread.  [None]: the thread cannot run, or an
    ASSERT fails. *)
Definition run_thread (t : thread) (now : timespec) (q : fifo) : option outcome :=
  match t with
  | PostStart x posted_on skip_max =>
      Some (if negb skip_max && negb (q_max q =? 0) then post_wait x posted_on now q
            else post_now x posted_on now q)
  | PushWoken x posted_on => Some (post_wait x posted_on now (set_thrs_push (thrs_push q - 1) q))
  | GetStart istimed => tget_awaken istimed now q
  | PullWoken (WGet istimed) => tget_awaken istimed now (set_thrs (thrs q - 1) q)
  | SelectStart abstime => Some (select_awaken abstime q)
  | PullWoken WSelect => Some (select_awaken true (set_thrs (thrs q - 1) q))
  | TryStart =>
      if 0 <? q_count q then take now q
      else if 0 <? thrs_push q then Some (Outcome (Some q) TrySignal false false [] [])
      else Some (Outcome (Some q) (Done WouldBlock false) false false [] [])
  | TrySignal => Some (Outcome (Some q) TrySleep false true [] [])
  | TrySleep =>
      if 0 <? q_count q then take now q
      else Some (Outcome (Some q) (Done WouldBlock false) false false [] [])
  | DelStart =>
      if negb (q_count q =? 0) || negb (bool_decide (q_data q = None))
      then Some (Outcome (Some q) (Done Invalid false) false false [] [])
      else del_loop 0 (set_eyec EYEC_DEAD q)
  | DelSignal loops => Some (Outcome (Some q) (DelSleep loops) true false [] [])
  | DelSleep loops => if loops + 1 <? 200 then del_loop (loops + 1) q else None
  | PushWait _ _ | PullWait _ | Done _ _ => None
  end.

(** * The system *)

Record system := System {
  queue : option fifo;
  threads : list thread;
  posted : list item;
  taken : list item
}.

Definition start (max : Z) : system := System (Some (fd_fifo_new max)) [] [] [].

Definition push_asleep (t : thread) : bool := match t with PushWait _ _ => true | _ => false end.
Definition pull_asleep (t : thread) : bool := match t with PullWait _ => true | _ => false end.

Definition woken (t : thread) : thread :=
  match t with
  | PushWait x posted_on => PushWoken x posted_on
  | PullWait w => PullWoken w
  | t => t
  end.

(** [pthread_cond_signal]: one of the threads asleep wakes up, the [k]th. *)
Definition cond_signal (asleep : thread → bool) (k : nat) (ts : list thread) : option (list thread) :=
  if existsb asleep ts then
    match ts !! k with
    | Some t => if asleep t then Some (<[k := woken t]> ts) else None
    | None => None
    end
  else Some ts.

Definition signal_if (b : bool) (asleep : thread → bool) (k : nat) (ts : list thread) : option (list thread) :=
  if b then cond_signal asleep k ts else Some ts.

(** What happens next: a call by a new thread, the critical section of a thread
    with the clock and the threads its signals wake, the ways to leave a wait,
    and the calls that run at once. *)
Inductive choice :=
| CallPost (x : item) (now : timespec) (skip_max : bool)
| CallGet (istimed : bool)
| CallTryget
| CallSelect (abstime : bool)
| CallDel
| Run (i : nat) (now : timespec) (kpull kpush : nat)
| Spurious (i : nat)
| Timeout (i : nat)
| Cancel (i : nat)
| SetMax (max : Z)
| SetThrhd (data : option positive) (high : Z) (h : bool) (low : Z) (l : bool)
| MoveIn (old : fifo) (k : nat).

(** A call checks the queue before it takes the mutex. *)
Definition call (t : thread) (s : system) : option system :=
  match queue s with
  | None => None
  | Some q =>
      Some (System (queue s) (threads s ++ [if CHECK_FIFO q then t else Done Invalid false]) (posted s) (taken s))
  end.

(** The end of a wait without an item: the time-out of [fifo_tget] and of
    [fd_fifo_select] (also when a signal reached the thread at the same time),
    and the cleanup handlers [fifo_cleanup_push] and [fifo_cleanup]. *)
Definition timed_out (t : thread) : option result :=
  match t with
  | PullWait (WGet true) | PullWoken (WGet true) => Some TimedOut
  | PullWait WSelect | PullWoken WSelect => Some (Available 0)
  | _ => None
  end.

Definition leave_pull (i : nat) (r : result) (q : fifo) (s : system) : system :=
  System (Some (set_thrs (thrs q - 1) q)) (<[i := Done r false]> (threads s)) (posted s) (taken s).

Definition leave_push (i : nat) (q : fifo) (s : system) : system :=
  System (Some (set_thrs_push (thrs_push q - 1) q)) (<[i := Done Cancelled false]> (threads s))
    (posted s) (taken s).

Definition do_step (c : choice) (s : system) : option system :=
  match c with
  | CallPost x now skip_max => call (PostStart x now skip_max) s
  | CallGet istimed => call (GetStart istimed) s
  | CallTryget => call TryStart s
  | CallSelect abstime => call (SelectStart abstime) s
  | CallDel => call DelStart s
  | Run i now kpull kpush =>
      t ← threads s !! i; q ← queue s; out ← run_thread t now q;
      let ts := <[i := out_thread out]> (threads s) in
      ts ← signal_if (signal_pull out) pull_asleep kpull ts;
      ts ← signal_if (signal_push out) push_asleep kpush ts;
      Some (System (out_queue out) ts (posted s ++ enqueued out) (taken s ++ dequeued out))
  | Spurious i =>
      t ← threads s !! i;
      if push_asleep t || pull_asleep t
      then Some (System (queue s) (<[i := woken t]> (threads s)) (posted s) (taken s)) else None
  | Timeout i =>
      t ← threads s !! i; q ← queue s; r ← timed_out t; Some (leave_pull i r q s)
  | Cancel i =>
      t ← threads s !! i; q ← queue s;
      if push_asleep t then Some (leave_push i q s)
      else if pull_asleep t then Some (leave_pull i Cancelled q s) else None
  | SetMax max =>
      q ← queue s; Some (System (Some (fd_fifo_set_max max q)) (threads s) (posted s) (taken s))
  | SetThrhd data high h low l =>
      q ← queue s; q' ← fd_fifo_setthrhd data high h low l q;
      Some (System (Some q') (threads s) (posted s) (taken s))
  | MoveIn old k =>
      q ← queue s;
      match fd_fifo_move old q with
      | Moved _ q' signal =>
          ts ← signal_if signal pull_asleep k (threads s);
          Some (System (Some q') ts (posted s ++ (fi_o <$> q_list old)) (taken s))
      | _ => None
      end
  end.

Fixpoint run (cs : list choice) (s : system) : option system :=
  match cs with
  | [] => Some s
  | c :: cs => s' ← do_step c s; run cs s'
  end.

End Fifo.

Arguments fifo_item : clear implicits.
Arguments fifo : clear implicits.
Arguments thread : clear implicits.
Arguments result : clear implicits.
Arguments outcome : clear implicits.
Arguments system : clear implicits.
Arguments choice : clear implicits.

(** * Counting threads *)

Section Counting.
Context {A : Type}.
Implicit Types (p : A → bool) (ts : list A).

(** How many threads of a list are in a kind of place. *)
Fixpoint countb p ts : Z :=
  match ts with
  | [] => 0
  | t :: ts => Z.b2z (p t) + countb p ts
  end.

Lemma countb_nonneg p ts : 0 <= countb p ts.
Proof. induction ts as [|t ts IH]; cbn; [lia|]. destruct (p t); cbn; lia. Qed.

Lemma countb_app p ts ts' : countb p (ts ++ ts') = countb p ts + countb p ts'.
Proof. induction ts as [|t ts IH]; cbn; lia. Qed.

Lemma countb_insert p ts i t t' :
  ts !! i = Some t → countb p (<[i := t']> ts) = countb p ts - Z.b2z (p t) + Z.b2z (p t').
Proof.
  revert i. induction ts as [|u ts IH]; intros [|i] H; [done..| |].
  - injection H as ->. cbn. lia.
  - change (<[S i := t']> (u :: ts)) with (u :: <[i := t']> ts). cbn. rewrite (IH i H). lia.
Qed.

Lemma countb_lookup_le p ts i t : ts !! i = Some t → Z.b2z (p t) ≤ countb p ts.
Proof.
  revert i. induction ts as [|u ts IH]; intros [|i] H; [done..| |]; cbn in *.
  - injection H as ->. pose proof (countb_nonneg p ts). lia.
  - specialize (IH i H). destruct (p u); cbn; lia.
Qed.

Lemma countb_existsb p ts : existsb p ts = true ↔ 0 < countb p ts.
Proof.
  induction ts as [|t ts IH]; cbn; [split; [done|lia]|].
  pose proof (countb_nonneg p ts). rewrite orb_true_iff, IH. destruct (p t); cbn; intuition lia.
Qed.

Lemma countb_lookup p ts : 0 < countb p ts → ∃ i t, ts !! i = Some t ∧ p t = true.
Proof.
  induction ts as [|t ts IH]; cbn; [lia|]. destruct (p t) eqn:E; intros H.
  - by exists 0%nat, t.
  - destruct (IH H) as (i & u & ? & ?). by exists (S i), u.
Qed.

End Counting.

Section Invariant.
Context {item : Type}.
Implicit Types (q : fifo item) (t : thread item) (ts : list (thread item)) (s : system item).

(** A thread between the start and the end of a wait. *)
Definition pull_in t : bool := match t with PullWait _ | PullWoken _ => true | _ => false end.
Definition push_in t : bool := match t with PushWait _ _ | PushWoken _ _ => true | _ => false end.

(** A thread that was woken and has not run yet. *)
Definition pull_woken t : bool := match t with PullWoken _ => true | _ => false end.
Definition push_woken t : bool := match t with PushWoken _ _ => true | _ => false end.

Definition got t : option item := match t with Done (Got x) _ => Some x | _ => None end.

Lemma pull_in_split ts : countb pull_in ts = countb pull_asleep ts + countb pull_woken ts.
Proof. induction ts as [|t ts IH]; cbn; [done|]. destruct t; cbn; lia. Qed.

Lemma push_in_split ts : countb push_in ts = countb push_asleep ts + countb push_woken ts.
Proof. induction ts as [|t ts IH]; cbn; [done|]. destruct t; cbn; lia. Qed.

Lemma omap_got_insert ts i t t' :
  ts !! i = Some t → got t = None → omap got (<[i := t']> ts) ≡ₚ option_list (got t') ++ omap got ts.
Proof.
  intros H Hn. apply list_elem_of_split_length in H as (l1 & l2 & -> & ->).
  rewrite insert_app_r_alt, Nat.sub_diag by lia. cbn. rewrite !omap_app. cbn. rewrite Hn.
  destruct (got t'); cbn; [|done]. by rewrite Permutation_middle.
Qed.

(** A signal wakes one of the threads asleep, if there is any. *)
Lemma cond_signal_inv asleep k ts ts' :
  cond_signal asleep k ts = Some ts' →
  (countb asleep ts = 0 ∧ ts' = ts)
  ∨ (0 < countb asleep ts ∧ ∃ t, ts !! k = Some t ∧ asleep t = true ∧ ts' = <[k := woken t]> ts).
Proof.
  unfold cond_signal. pose proof (countb_nonneg asleep ts). destruct (existsb asleep ts) eqn:E.
  - apply countb_existsb in E. destruct (ts !! k) as [t|]; [|done]. destruct (asleep t) eqn:Ht; [|done].
    intros [= <-]. eauto 10.
  - intros [= <-]. left. split; [|done]. rewrite <- not_true_iff_false, countb_existsb in E. lia.
Qed.

(** ... and changes the counts by this alone. *)
Lemma signal_pull_counts b k ts ts' :
  signal_if b pull_asleep k ts = Some ts' →
  let n := Z.b2z (b && (0 <? countb pull_asleep ts)) in
  countb pull_asleep ts' = countb pull_asleep ts - n
  ∧ countb pull_woken ts' = countb pull_woken ts + n
  ∧ countb push_asleep ts' = countb push_asleep ts ∧ countb push_woken ts' = countb push_woken ts
  ∧ omap got ts' ≡ₚ omap got ts.
Proof.
  unfold signal_if. destruct b; cbn; [|intros [= <-]; split_and!; [lia..|done]].
  intros [[E ->]|(H & t & Hk & Ht & ->)]%cond_signal_inv; cbn; [rewrite E; split_and!; [cbn; lia..|done]|].
  destruct t; try done. rewrite !(countb_insert _ _ _ _ _ Hk), (omap_got_insert _ _ _ _ Hk eq_refl).
  rewrite (proj2 (Z.ltb_lt _ _) H). cbn. split_and!; [lia..|done].
Qed.

Lemma signal_push_counts b k ts ts' :
  signal_if b push_asleep k ts = Some ts' →
  let n := Z.b2z (b && (0 <? countb push_asleep ts)) in
  countb push_asleep ts' = countb push_asleep ts - n
  ∧ countb push_woken ts' = countb push_woken ts + n
  ∧ countb pull_asleep ts' = countb pull_asleep ts ∧ countb pull_woken ts' = countb pull_woken ts
  ∧ omap got ts' ≡ₚ omap got ts.
Proof.
  unfold signal_if. destruct b; cbn; [|intros [= <-]; split_and!; [lia..|done]].
  intros [[E ->]|(H & t & Hk & Ht & ->)]%cond_signal_inv; cbn; [rewrite E; split_and!; [cbn; lia..|done]|].
  destruct t; try done. rewrite !(countb_insert _ _ _ _ _ Hk), (omap_got_insert _ _ _ _ Hk eq_refl).
  rewrite (proj2 (Z.ltb_lt _ _) H). cbn. split_and!; [lia..|done].
Qed.

(** * One critical section *)

Definition contents (oq : option (fifo item)) : list item :=
  match oq with Some q => fi_o <$> q_list q | None => [] end.

(** What a critical section of the thread [t] does to the queue [q]. *)
Record section_spec t q (out : outcome item) : Prop := {
  sec_content : contents (Some q) ++ enqueued out = dequeued out ++ contents (out_queue out);
  sec_got : dequeued out = option_list (got (out_thread out));
  sec_one : (length (enqueued out) ≤ 1)%nat;
  sec_queue q' : out_queue out = Some q' →
    q_count q' = Z.of_nat (length (q_list q'))
    ∧ thrs q' = thrs q + Z.b2z (pull_in (out_thread out)) - Z.b2z (pull_in t)
    ∧ thrs_push q' = thrs_push q + Z.b2z (push_in (out_thread out)) - Z.b2z (push_in t)
    ∧ q_max q' = q_max q ∧ (eyec q' = eyec q ∨ t = DelStart)
    ∧ (enqueued out ≠ [] → signal_pull out = (0 <? thrs q') ∧ signal_push out = (0 <? thrs_push q')
         ∧ pull_in t = false ∧ ((q_max q = 0 ∧ push_in t = false) ∨ q_count q < q_max q ∨ ∃ x now, t = PostStart x now true))
    ∧ (dequeued out ≠ [] → signal_push out = negb (thrs_push q' =? 0))
    ∧ (push_in (out_thread out) = true → q_max q ≤ q_count q')
    ∧ (pull_in (out_thread out) = true → q_count q' = 0);
  sec_woken : push_woken (out_thread out) = false ∧ pull_woken (out_thread out) = false;
  sec_from : got t = None ∧ push_asleep t = false ∧ pull_asleep t = false
}.

Lemma enqueue_section t x posted_on now q :
  q_count q = Z.of_nat (length (q_list q)) → got t = None → push_asleep t = false → pull_in t = false →
  (q_max q = 0 ∧ push_in t = false) ∨ q_count q < q_max q ∨ (∃ x now, t = PostStart x now true) →
  section_spec t (set_thrs_push (thrs_push q + Z.b2z (push_in t)) q) (post_now x posted_on now q).
Proof.
  intros Hc Hg Hp Hl Hm. unfold post_now, enqueue. cbn. split; cbn; [| | | |done|].
  - by rewrite fmap_app.
  - done.
  - done.
  - intros q' [= <-]. cbn. rewrite length_app, Hl. cbn. split_and!; [lia..|by left|done|done|done|done].
  - by destruct t.
Qed.

Lemma wait_section t x posted_on now q :
  q_count q = Z.of_nat (length (q_list q)) → got t = None → push_asleep t = false → pull_in t = false →
  q_max q ≠ 0 ∨ push_in t = true →
  section_spec t (set_thrs_push (thrs_push q + Z.b2z (push_in t)) q) (post_wait x posted_on now q).
Proof.
  intros Hc Hg Hp Hl Hm. unfold post_wait. destruct (Z.leb_spec (q_max q) (q_count q)).
  - split; cbn; [by rewrite app_nil_r|done|lia| |done|by destruct t].
    intros q' [= <-]. cbn. rewrite Hl. cbn. split_and!; [lia..|by left|done|done|done|done].
  - apply enqueue_section; auto.
Qed.

Lemma take_section t now q out :
  q_count q = Z.of_nat (length (q_list q)) → got t = None → push_in t = false → pull_asleep t = false →
  take now q = Some out → section_spec t (set_thrs (thrs q + Z.b2z (pull_in t)) q) out.
Proof.
  intros Hc Hg Hp Hl. unfold take, mq_pop. destruct (q_list q) as [|fi rest] eqn:El; [done|].
  unfold test_l_cb. cbn.
  assert (Hp' : push_asleep t = false) by (by destruct t).
  repeat case_match; intros [= <-]; simplify_eq; split; cbn; try done; rewrite ?El, ?app_nil_r; try done; try lia;
    intros q' [= <-]; cbn; rewrite Hp; cbn in Hc |- *; split_and!; try lia; try done; by left.
Qed.

Lemma awaken_section t istimed now q out :
  q_count q = Z.of_nat (length (q_list q)) → got t = None → push_in t = false → pull_asleep t = false →
  tget_awaken istimed now q = Some out → section_spec t (set_thrs (thrs q + Z.b2z (pull_in t)) q) out.
Proof.
  intros Hc Hg Hp Hl. assert (Hp' : push_asleep t = false) by (by destruct t).
  unfold tget_awaken. repeat case_match; [| |]; intros Hout.
  - injection Hout as <-. split; cbn; rewrite ?app_nil_r; try done; try lia. intros q' [= <-]. cbn.
    rewrite Hp. cbn. split_and!; try lia; try done; by left.
  - by apply (take_section t now).
  - injection Hout as <-. split; cbn; rewrite ?app_nil_r; try done; try lia. intros q' [= <-]. cbn.
    rewrite Hp. cbn. apply Z.ltb_ge in H0. split_and!; try lia; try done; by left.
Qed.

Lemma select_section t abstime q :
  q_count q = Z.of_nat (length (q_list q)) → got t = None → push_in t = false → pull_asleep t = false →
  section_spec t (set_thrs (thrs q + Z.b2z (pull_in t)) q) (select_awaken abstime q).
Proof.
  intros Hc Hg Hp Hl. assert (Hp' : push_asleep t = false) by (by destruct t).
  unfold select_awaken. case_match eqn:E; split; cbn; rewrite ?app_nil_r; try done; try lia;
    intros q' [= <-]; cbn; rewrite Hp; cbn; split_and!; try lia; try done; try (by left).
  intros _. destruct (Z.ltb_spec 0 (q_count q)); [|lia].
  apply andb_true_iff in E as [E _]. lia.
Qed.

Lemma set_thrs_back q n : n = thrs q → set_thrs n q = q.
Proof. intros ->. by destruct q. Qed.

Lemma set_thrs_push_back q n : n = thrs_push q → set_thrs_push n q = q.
Proof. intros ->. by destruct q. Qed.

(** A section that only moves the thread, or changes the eye-catcher. *)
Lemma idle_section t q q' t' b1 b2 :
  q_count q = Z.of_nat (length (q_list q)) →
  q' = q ∨ (t = DelStart ∧ q' = set_eyec EYEC_DEAD q) → pull_in t = false → push_in t = false → got t = None →
  got t' = None → pull_in t' = false → push_in t' = false →
  section_spec t q (Outcome (Some q') t' b1 b2 [] []).
Proof.
  intros Hc Hq Hl Hp Hg Hg' Hl' Hp'. split; cbn.
  - rewrite app_nil_r. by destruct Hq as [->|[_ ->]].
  - by rewrite Hg'.
  - lia.
  - intros q'' [= <-]. rewrite Hl, Hp, Hl', Hp'. cbn.
    destruct Hq as [->|[-> ->]]; cbn; split_and!; try lia; try done; auto.
  - by destruct t'.
  - by destruct t.
Qed.

Lemma del_section t loops q q0 out :
  q_count q = Z.of_nat (length (q_list q)) → pull_in t = false → push_in t = false → got t = None →
  q = q0 ∨ (t = DelStart ∧ q = set_eyec EYEC_DEAD q0) → del_loop loops q = Some out → section_spec t q0 out.
Proof.
  intros Hc Hl Hp Hg Hq. unfold del_loop. repeat case_match; intros [= <-].
  - assert (q_list q0 = []) as E by (destruct Hq as [<-|[_ ->]]; done).
    split; cbn; [by rewrite E|done|lia|done|done|by destruct t].
  - apply idle_section; try done. by destruct Hq as [<-|[_ ->]].
Qed.

Lemma run_section t now q out :
  q_count q = Z.of_nat (length (q_list q)) → run_thread t now q = Some out → section_spec t q out.
Proof.
  intros Hc H. destruct t as [x posted_on skip|x posted_on|x posted_on|istimed| | | |abstime|w|w| |loops|loops|r cb];
    cbn [run_thread] in H; try done.
  - rewrite <- (set_thrs_push_back q (thrs_push q + Z.b2z false)) by (cbn; lia). injection H as <-.
    destruct skip; cbn; [apply (enqueue_section (PostStart x posted_on true)); eauto|].
    destruct (Z.eqb_spec (q_max q) 0); cbn;
      [apply (enqueue_section (PostStart x posted_on false))|apply (wait_section (PostStart x posted_on false))]; auto.
  - injection H as <-. pose proof (wait_section (PushWoken x posted_on) x posted_on now (set_thrs_push (thrs_push q - 1) q))
      as W. cbn in W. replace (set_thrs_push _ (set_thrs_push _ q)) with q in W; [by apply W; auto|].
    destruct q; unfold set_thrs_push; cbn. f_equal. lia.
  - rewrite <- (set_thrs_back q (thrs q + Z.b2z false)) by (cbn; lia).
    by apply (awaken_section (GetStart istimed) istimed now).
  - rewrite <- (set_thrs_back q (thrs q + Z.b2z false)) by (cbn; lia).
    case_match; [by apply (take_section TryStart now)|]. rewrite set_thrs_back by (cbn; lia).
    case_match; injection H as <-; apply idle_section; auto.
  - injection H as <-. apply idle_section; auto.
  - rewrite <- (set_thrs_back q (thrs q + Z.b2z false)) by (cbn; lia).
    case_match; [by apply (take_section TrySleep now)|]. rewrite set_thrs_back by (cbn; lia).
    injection H as <-; apply idle_section; auto.
  - rewrite <- (set_thrs_back q (thrs q + Z.b2z false)) by (cbn; lia). injection H as <-.
    by apply (select_section (SelectStart abstime)).
  - set (q1 := set_thrs (thrs q - 1) q).
    assert (E : q = set_thrs (thrs q1 + Z.b2z (pull_in (PullWoken w : thread item))) q1)
      by (destruct q; unfold q1, set_thrs; cbn; f_equal; lia).
    rewrite E. destruct w as [istimed|].
    + by apply (awaken_section (PullWoken (WGet istimed)) istimed now).
    + injection H as <-. by apply (select_section (PullWoken WSelect)).
  - case_match; [injection H as <-; apply idle_section; auto|].
    eapply (del_section DelStart); [| | | | |exact H]; auto.
  - injection H as <-. apply idle_section; auto.
  - case_match; [|done]. eapply (del_section (DelSleep loops)); [| | | | |exact H]; auto.
Qed.

(** * The invariant of every run *)

Record fifo_inv s : Prop := {
  inv_log : posted s = taken s ++ contents (queue s);
  inv_got : taken s ≡ₚ omap got (threads s);
  inv_queue q : queue s = Some q →
    q_count q = Z.of_nat (length (q_list q))
    ∧ thrs q = countb pull_in (threads s) ∧ thrs_push q = countb push_in (threads s)
}.

(** What another queue must satisfy to be moved into this one. *)
Definition choice_ok (c : choice item) : Prop :=
  match c with MoveIn old _ => q_count old = Z.of_nat (length (q_list old)) | _ => True end.

Lemma call_inv t s s' :
  got t = None → pull_in t = false → push_in t = false → call t s = Some s' → fifo_inv s → fifo_inv s'.
Proof.
  unfold call. intros Hg Hl Hp H [I1 I2 I3]. destruct (queue s) as [q|] eqn:Eq; [|done].
  injection H as <-. set (t' := if CHECK_FIFO q then t else Done Invalid false).
  assert (got t' = None ∧ pull_in t' = false ∧ push_in t' = false) as (Hg' & Hl' & Hp')
    by (unfold t'; by case_match).
  split; cbn.
  - done.
  - rewrite omap_app. cbn. by rewrite Hg', app_nil_r.
  - intros q' [= <-]. destruct (I3 q eq_refl) as (? & ? & ?). rewrite !countb_app. cbn. rewrite Hl', Hp'. cbn. lia.
Qed.

(** The counters and items of a thread that changes place. *)
Lemma move_thread_inv s i t t' q :
  threads s !! i = Some t → got t = None → got t' = None → fifo_inv s → 
  contents (Some q) = contents (queue s) → q_count q = Z.of_nat (length (q_list q)) →
  thrs q = countb pull_in (threads s) - Z.b2z (pull_in t) + Z.b2z (pull_in t') →
  thrs_push q = countb push_in (threads s) - Z.b2z (push_in t) + Z.b2z (push_in t') →
  fifo_inv (System (Some q) (<[i := t']> (threads s)) (posted s) (taken s)).
Proof.
  intros Hi Hg Hg' [I1 I2 _] Hc Hn Hl Hp. split; cbn.
  - by rewrite I1, <- Hc.
  - by rewrite (omap_got_insert _ _ _ _ Hi Hg), Hg'.
  - intros q' [= <-]. rewrite !(countb_insert _ _ _ _ _ Hi). lia.
Qed.

Lemma fifo_run_inv s s' i now kpull kpush :
  do_step (Run i now kpull kpush) s = Some s' → fifo_inv s → fifo_inv s'.
Proof.
  cbn. destruct (threads s !! i) as [t|] eqn:Hi; [|done]. cbn.
  destruct (queue s) as [q|] eqn:Hq; [|done]. cbn.
  destruct (run_thread t now q) as [out|] eqn:Hr; [|done]. cbn.
  destruct (signal_if (signal_pull out) _ _ _) as [ts1|] eqn:H1; [|done]. cbn.
  destruct (signal_if (signal_push out) _ _ ts1) as [ts2|] eqn:H2; [|done]. cbn.
  intros [= <-] [I1 I2 I3]. destruct (I3 q Hq) as (Hc & Hl & Hp).
  destruct (run_section t now q out Hc Hr) as [S1 S2 _ S3 _ (Hg & _)].
  destruct (signal_pull_counts _ _ _ _ H1) as (A1 & A2 & A3 & A4 & A5).
  destruct (signal_push_counts _ _ _ _ H2) as (B1 & B2 & B3 & B4 & B5).
  split; cbn.
  - rewrite I1, Hq, <- !app_assoc. by rewrite S1.
  - rewrite B5, A5, (omap_got_insert _ _ _ _ Hi Hg), I2, S2. by rewrite Permutation_app_comm.
  - intros q' Hq'. destruct (S3 q' Hq') as (? & Ht & Htp & _). split; [done|].
    rewrite !pull_in_split, !push_in_split in *.
    pose proof (countb_insert pull_in _ _ _ (out_thread out) Hi) as C1.
    pose proof (countb_insert push_in _ _ _ (out_thread out) Hi) as C2.
    rewrite !pull_in_split, !push_in_split in *. lia.
Qed.

Lemma fifo_step_inv c s s' : choice_ok c → do_step c s = Some s' → fifo_inv s → fifo_inv s'.
Proof.
  intros Hok Hs I. destruct c as [x now skip|istimed| |abstime| |i now kpull kpush|i|i|i|max|data high h low l|old k];
    [by eapply call_inv; [..|exact Hs|exact I]..|by eapply fifo_run_inv| | | | | |]; cbn in Hs; pose proof (inv_queue _ I) as Iq.
  - destruct (threads s !! i) as [t|] eqn:Hi; [|done]. cbn in Hs.
    destruct (push_asleep t || pull_asleep t) eqn:Ht; [|done]. injection Hs as <-. destruct I as [I1 I2 I3].
    split; cbn; [done| |].
    + destruct t; try done; by rewrite (omap_got_insert _ _ _ _ Hi eq_refl).
    + intros q Hq. destruct (I3 q Hq) as (? & ? & ?). rewrite !(countb_insert _ _ _ _ _ Hi).
      destruct t; try done; cbn; lia.
  - destruct (threads s !! i) as [t|] eqn:Hi; [|done]. cbn in Hs. destruct (queue s) as [q|] eqn:Hq; [|done]. cbn in Hs.
    destruct (timed_out t) as [r|] eqn:Ht; [|done]. injection Hs as <-. destruct (Iq q eq_refl) as (? & ? & ?).
    apply (move_thread_inv s i t); rewrite ?Hq; auto; destruct t as [| | | | | | | |[[]|]|[[]|]| | | |]; try done;
      injection Ht as <-; try done; cbn; lia.
  - destruct (threads s !! i) as [t|] eqn:Hi; [|done]. cbn in Hs. destruct (queue s) as [q|] eqn:Hq; [|done]. cbn in Hs.
    destruct (Iq q eq_refl) as (? & ? & ?).
    repeat case_match; try done; injection Hs as <-; apply (move_thread_inv s i t); rewrite ?Hq; auto;
      destruct t; try done; cbn; lia.
  - destruct (queue s) as [q|] eqn:Hq; [|done]. injection Hs as <-. destruct I as [I1 I2 I3].
    split; cbn; [by rewrite I1, Hq|done|]. intros q' [= <-]. exact (Iq q eq_refl).
  - destruct (queue s) as [q|] eqn:Hq; [|done]. cbn in Hs. unfold fd_fifo_setthrhd in Hs. case_match; [|done].
    injection Hs as <-. destruct I as [I1 I2 I3].
    split; cbn; [by rewrite I1, Hq|done|]. intros q' [= <-]. exact (Iq q eq_refl).
  - destruct (queue s) as [q|] eqn:Hq; [|done]. cbn in Hs. unfold fd_fifo_move in Hs. repeat case_match; try done.
    simplify_eq. destruct (signal_if _ _ _ _) as [ts|] eqn:Hsig; [|done]. injection Hs as <-.
    destruct (signal_pull_counts _ _ _ _ Hsig) as (A1 & A2 & A3 & A4 & A5). destruct I as [I1 I2 I3].
    split; cbn.
    + by rewrite I1, Hq, fmap_app, app_assoc.
    + by rewrite A5.
    + intros q' [= <-]. cbn. destruct (Iq q eq_refl) as (? & ? & ?). cbn in Hok.
      rewrite length_app, !pull_in_split, !push_in_split in *. lia.
Qed.

Lemma start_inv max : fifo_inv (start max).
Proof. split; [done|done|]. intros q [= <-]. done. Qed.

Lemma run_fifo_inv cs s s' : Forall choice_ok cs → run cs s = Some s' → fifo_inv s → fifo_inv s'.
Proof.
  intros Hok. revert s. induction Hok as [|c cs Hc Hcs IH]; intros s; cbn; [by intros [= <-]|].
  destruct (do_step c s) as [s1|] eqn:E; [|done]. cbn. eauto using fifo_step_inv.
Qed.

(** * Capacity and wake-ups *)

(** Calls after which the limit of the queue holds: posts that block, no change
    of the limit, nothing moved in from another queue. *)
Definition bounded_choice (c : choice item) : bool :=
  match c with
  | CallPost _ _ skip_max => negb skip_max
  | SetMax _ | MoveIn _ _ => false
  | _ => true
  end.

(** Calls after which no wake-up is lost: no thread leaves [cond_pull] without
    looking at the queue ([Timeout], and [fd_fifo_select], which takes nothing),
    the limit is constant, and the queue is neither deleted nor filled from
    another one. *)
Definition plain_choice (c : choice item) : bool :=
  match c with
  | CallGet istimed => negb istimed
  | CallSelect _ | CallDel | Timeout _ | SetMax _ | MoveIn _ _ => false
  | _ => true
  end.

Definition bounded_thread t : bool := match t with PostStart _ _ skip_max => negb skip_max | _ => true end.
Definition plain_thread t : bool :=
  match t with
  | GetStart istimed | PullWait (WGet istimed) | PullWoken (WGet istimed) => negb istimed
  | SelectStart _ | PullWait WSelect | PullWoken WSelect | DelStart | DelSignal _ | DelSleep _ => false
  | _ => true
  end.

(** A property of the threads that a run keeps. *)
Lemma signal_if_forall (P : thread item → bool) b asleep k ts ts' :
  (∀ t, P t = true → P (woken t) = true) → signal_if b asleep k ts = Some ts' →
  Forall P ts → Forall P ts'.
Proof.
  intros Hw. unfold signal_if. destruct b; [|by intros [= <-]].
  intros [[_ ->]|(_ & t & Hk & _ & ->)]%cond_signal_inv Hts; [done|].
  apply Forall_insert; [done|]. apply Is_true_true, Hw, Is_true_true. by eapply Forall_lookup in Hts.
Qed.

Lemma step_forall (P : thread item → bool) (C : choice item → bool) c s s' :
  (∀ t, P t = true → P (woken t) = true) → (∀ r b, P (Done r b) = true) →
  (∀ t now q out, P t = true → run_thread t now q = Some out → P (out_thread out) = true) →
  (∀ x now b, C (CallPost x now b) = true → P (PostStart x now b) = true) →
  (∀ b, C (CallGet b) = true → P (GetStart b) = true) → P TryStart = true →
  (∀ b, C (CallSelect b) = true → P (SelectStart b) = true) → (C CallDel = true → P DelStart = true) →
  C c = true → do_step c s = Some s' → Forall P (threads s) → Forall P (threads s').
Proof.
  intros Hw Hd Hr H1 H2 H3 H4 H5 HC Hs HP.
  assert (call_ok : ∀ t, P t = true → call t s = Some s' → Forall P (threads s')).
  { intros t Ht. unfold call. destruct (queue s); [|done]. intros [= <-]. apply Forall_app. split; [done|].
    apply Forall_singleton, Is_true_true. by case_match. }
  destruct c; cbn in Hs; eauto; try (destruct (threads s !! i) as [t|] eqn:Hi; [|done]); cbn in Hs;
    try (destruct (queue s) as [q|]; [|done]); cbn in Hs.
  - destruct (run_thread t now q) as [out|] eqn:Ho; [|done]. cbn in Hs.
    destruct (signal_if (signal_pull out) _ _ _) as [ts1|] eqn:E1; [|done]. cbn in Hs.
    destruct (signal_if (signal_push out) _ _ ts1) as [ts2|] eqn:E2; [|done]. injection Hs as <-. cbn.
    eapply signal_if_forall; [exact Hw|exact E2|]. eapply signal_if_forall; [exact Hw|exact E1|].
    apply Forall_insert; [done|]. apply Is_true_true. eapply Hr; [|exact Ho]. apply Is_true_true.
    by eapply Forall_lookup in HP.
  - case_match; [|done]. injection Hs as <-. apply Forall_insert; [done|]. apply Is_true_true, Hw, Is_true_true.
    by eapply Forall_lookup in HP.
  - destruct (timed_out t); [|done]. injection Hs as <-. apply Forall_insert; [done|]. by apply Is_true_true.
  - repeat case_match; try done; injection Hs as <-; apply Forall_insert; try done; by apply Is_true_true.
  - by injection Hs as <-.
  - destruct (fd_fifo_setthrhd _ _ _ _ _ _); [|done]. by injection Hs as <-.
  - case_match; try done. destruct (signal_if _ _ _ _) as [ts|] eqn:E; [|done]. injection Hs as <-. cbn.
    eapply signal_if_forall; [exact Hw|exact E|done].
Qed.

(** The places a critical section leads to. *)
Lemma run_thread_places t now q out :
  run_thread t now q = Some out →
  bounded_thread (out_thread out) = true ∧ (plain_thread t = true → plain_thread (out_thread out) = true).
Proof.
  unfold run_thread, post_wait, post_now, tget_awaken, select_awaken, take, del_loop, enqueue, test_l_cb.
  intros H. repeat case_match; simplify_eq; done.
Qed.

(** A step that is not a critical section keeps the items, the limit and the
    eye-catcher, and puts no thread to sleep. *)
Lemma quiet_step c s s' q' :
  do_step c s = Some s' → queue s' = Some q' →
  match c with Run _ _ _ _ | SetMax _ | MoveIn _ _ => False | _ => True end →
  (∃ q, queue s = Some q ∧ q_count q' = q_count q ∧ q_max q' = q_max q ∧ eyec q' = eyec q)
  ∧ countb pull_asleep (threads s') ≤ countb pull_asleep (threads s)
  ∧ countb push_asleep (threads s') ≤ countb push_asleep (threads s)
  ∧ (match c with Timeout _ => True | _ =>
       countb pull_woken (threads s) ≤ countb pull_woken (threads s')
       ∧ countb push_woken (threads s) ≤ countb push_woken (threads s') end).
Proof.
  intros Hs Hq Hc.
  assert (call_ok : ∀ t, pull_in t = false → push_in t = false → call t s = Some s' →
    (∃ q, queue s = Some q ∧ q_count q' = q_count q ∧ q_max q' = q_max q ∧ eyec q' = eyec q)
    ∧ countb pull_asleep (threads s') ≤ countb pull_asleep (threads s)
    ∧ countb push_asleep (threads s') ≤ countb push_asleep (threads s)
    ∧ countb pull_woken (threads s) ≤ countb pull_woken (threads s')
    ∧ countb push_woken (threads s) ≤ countb push_woken (threads s')).
  { intros t Hl Hp. unfold call. destruct (queue s) as [q|] eqn:E; [|done]. intros [= <-]. cbn in Hq. simplify_eq.
    cbn. split; [by eauto|]. rewrite !countb_app. destruct (CHECK_FIFO _); destruct t; try done; cbn; lia. }
  destruct c; try done; try (by apply call_ok in Hs); cbn in Hs;
    try (destruct (threads s !! i) as [t|] eqn:Hi; [|done]); cbn in Hs.
  - case_match; [|done]. injection Hs as <-. cbn in *. split; [by eauto|].
    rewrite !(countb_insert _ _ _ _ _ Hi). destruct t; try done; cbn; lia.
  - destruct (queue s) as [q|]; [|done]. cbn in Hs. destruct (timed_out t) eqn:Ht; [|done]. injection Hs as <-.
    cbn in *. simplify_eq. cbn. split; [by eauto|]. rewrite !(countb_insert _ _ _ _ _ Hi).
    destruct t; try done; cbn; lia.
  - destruct (queue s) as [q|]; [|done]. cbn in Hs. repeat case_match; try done; injection Hs as <-;
      cbn in *; simplify_eq; cbn; (split; [by eauto|]); rewrite !(countb_insert _ _ _ _ _ Hi);
      destruct t; try done; cbn; lia.
  - destruct (queue s) as [q|]; [|done]. cbn in Hs. unfold fd_fifo_setthrhd in Hs. case_match; [|done].
    injection Hs as <-. cbn in *. simplify_eq. cbn. split; [by eauto|lia].
Qed.

(** A critical section, by what it does to the counts. *)
Lemma run_step_counts i now kpull kpush s s' q' :
  fifo_inv s → do_step (Run i now kpull kpush) s = Some s' → queue s' = Some q' →
  ∃ t q out, threads s !! i = Some t ∧ queue s = Some q ∧ run_thread t now q = Some out
    ∧ section_spec t q out ∧ out_queue out = Some q'
    ∧ q_count q' = q_count q + Z.of_nat (length (enqueued out)) - Z.of_nat (length (dequeued out))
    ∧ thrs q' = countb pull_in (threads s') ∧ thrs_push q' = countb push_in (threads s')
    ∧ (let a := countb pull_asleep (threads s) + Z.b2z (pull_asleep (out_thread out)) in
       let n := Z.b2z (signal_pull out && (0 <? a)) in
       countb pull_asleep (threads s') = a - n
       ∧ countb pull_woken (threads s') = countb pull_woken (threads s) - Z.b2z (pull_woken t) + n)
    ∧ (let a := countb push_asleep (threads s) + Z.b2z (push_asleep (out_thread out)) in
       let n := Z.b2z (signal_push out && (0 <? a)) in
       countb push_asleep (threads s') = a - n
       ∧ countb push_woken (threads s') = countb push_woken (threads s) - Z.b2z (push_woken t) + n).
Proof.
  intros I Hs Hq'. pose proof (fifo_run_inv _ _ _ _ _ _ Hs I) as [_ _ I3']. specialize (I3' q' Hq'). cbn in Hs.
  destruct (threads s !! i) as [t|] eqn:Hi; [|done]. cbn in Hs.
  destruct (queue s) as [q|] eqn:Hq; [|done]. cbn in Hs.
  destruct (run_thread t now q) as [out|] eqn:Hr; [|done]. cbn in Hs.
  destruct (signal_if (signal_pull out) _ _ _) as [ts1|] eqn:H1; [|done]. cbn in Hs.
  destruct (signal_if (signal_push out) _ _ ts1) as [ts2|] eqn:H2; [|done]. injection Hs as <-. cbn in *.
  destruct (inv_queue _ I q Hq) as (Hc & _). pose proof (run_section t now q out Hc Hr) as Sec.
  destruct (signal_pull_counts _ _ _ _ H1) as (A1 & A2 & A3 & A4 & _).
  destruct (signal_push_counts _ _ _ _ H2) as (B1 & B2 & B3 & B4 & _).
  repeat match goal with A : context [<[i := _]> _] |- _ => rewrite !(countb_insert _ _ _ _ _ Hi) in A end.
  destruct (sec_from _ _ _ Sec) as (_ & F1 & F2). destruct (sec_woken _ _ _ Sec) as (W1 & W2).
  rewrite F1, F2, W1, W2 in *. cbn [Z.b2z] in *. rewrite !Z.sub_0_r, !Z.add_0_r in *.
  exists t, q, out. split_and!; try done; try lia.
  - pose proof (f_equal length (sec_content _ _ _ Sec)) as E. rewrite Hq' in E. cbn in E.
    rewrite !length_app, !length_fmap in E. lia.
  - by rewrite B1, A3.
  - by rewrite B2, A4, A3.
Qed.

Definition bound_inv (m : Z) s : Prop :=
  fifo_inv s ∧ Forall bounded_thread (threads s)
  ∧ ∀ q, queue s = Some q → q_max q = m ∧ q_count q ≤ m.

Lemma bound_step m c s s' :
  0 < m → bounded_choice c = true → do_step c s = Some s' → bound_inv m s → bound_inv m s'.
Proof.
  intros Hm Hc Hs (I & HF & HB). split_and!.
  - eapply fifo_step_inv; [|exact Hs|exact I]. by destruct c.
  - eapply (step_forall bounded_thread bounded_choice); [..|exact Hc|exact Hs|exact HF]; try done.
    + by intros [].
    + intros. by eapply run_thread_places.
  - intros q' Hq'. destruct c; try done;
      try (destruct (quiet_step _ _ _ _ Hs Hq' Logic.I) as [(q & Hq & -> & -> & _) _]; by apply HB).
    destruct (run_step_counts _ _ _ _ _ _ _ I Hs Hq') as (t & q & out & Hi & Hq & _ & Sec & Ho & Hn & _).
    destruct (HB q Hq) as [Hmax Hcount].
    destruct (sec_queue _ _ _ Sec q' Ho) as (_ & _ & _ & -> & _ & He & _).
    pose proof (sec_one _ _ _ Sec). split; [done|].
    destruct (enqueued out) as [|x l]; cbn in *; [lia|].
    destruct (He ltac:(done)) as (_ & _ & _ & [[? _]|[?|(x' & now' & ->)]]); [lia..|].
    by pose proof (Forall_lookup_1 _ _ _ _ HF Hi).
Qed.

Definition wake_inv (m : Z) s : Prop :=
  fifo_inv s ∧ Forall plain_thread (threads s)
  ∧ ∀ q, queue s = Some q → q_max q = m ∧ eyec q = FIFO_EYEC
      ∧ (0 < countb pull_asleep (threads s) → q_count q ≤ countb pull_woken (threads s))
      ∧ (0 < countb push_asleep (threads s) → m ≤ q_count q ∨ 0 < countb push_woken (threads s)).

(** A getter that was woken takes an item or goes back to sleep. *)
Lemma woken_get_serves t now q out :
  run_thread t now q = Some out → plain_thread t = true → pull_woken t = true → eyec q = FIFO_EYEC →
  dequeued out ≠ [] ∨ pull_in (out_thread out) = true.
Proof.
  destruct t as [| | | | | | | | |[]| | | |]; try done. cbn. unfold tget_awaken, CHECK_FIFO, take. cbn.
  intros H _ _ Hv. rewrite Hv, Z.eqb_refl in H. cbn in H. repeat case_match; simplify_eq; cbn; auto.
Qed.

(** A poster that was woken posts or goes back to sleep. *)
Lemma woken_post_serves t now q out :
  run_thread t now q = Some out → push_woken t = true →
  enqueued out ≠ [] ∨ push_in (out_thread out) = true.
Proof.
  destruct t; try done. cbn. intros [= <-] _. unfold post_wait, post_now, enqueue. case_match; cbn; auto.
Qed.

Lemma wake_pull_step m i now kpull kpush s s' q' :
  wake_inv m s → do_step (Run i now kpull kpush) s = Some s' → queue s' = Some q' →
  0 < countb pull_asleep (threads s') → q_count q' ≤ countb pull_woken (threads s').
Proof.
  intros (I & HF & HW) Hs Hq' Hpos.
  destruct (run_step_counts _ _ _ _ _ _ _ I Hs Hq')
    as (t & q & out & Hi & Hq & Hr & Sec & Ho & Hn & Ht & _ & [L1 L2] & _).
  destruct (HW q Hq) as (_ & Hv & HL & _).
  assert (Hpt : plain_thread t = true) by (apply Is_true_true; by eapply Forall_lookup in HF).
  destruct (sec_queue _ _ _ Sec q' Ho) as (_ & _ & _ & _ & _ & He & _ & _ & Hlw).
  pose proof (sec_one _ _ _ Sec) as H1. destruct (sec_woken _ _ _ Sec) as (_ & Hnw).
  pose proof (countb_nonneg pull_woken (threads s')). rewrite pull_in_split in Ht.
  destruct (pull_asleep (out_thread out)) eqn:Ea.
  { rewrite Hlw; [lia|]. by destruct (out_thread out). }
  cbn [Z.b2z] in *. rewrite Z.add_0_r in *.
  assert (HA : 0 < countb pull_asleep (threads s)) by (destruct (signal_pull out && _); cbn in *; lia).
  specialize (HL HA). rewrite (proj2 (Z.ltb_lt _ _) HA), andb_true_r in *.
  destruct (enqueued out) as [|x l]; cbn [length] in *.
  - destruct (pull_woken t) eqn:Ew; cbn [Z.b2z] in *; [|destruct (signal_pull out); cbn in *; lia].
    destruct (woken_get_serves _ _ _ _ Hr Hpt Ew Hv) as [Hd|Hp].
    + destruct (dequeued out) as [|y l]; [done|]. cbn [length] in *. destruct (signal_pull out); cbn in *; lia.
    + exfalso. destruct (out_thread out); done.
  - destruct (He ltac:(done)) as (Hsp & _ & Hpi & _).
    assert (signal_pull out = true) as E by (rewrite Hsp; apply Z.ltb_lt; lia). rewrite E in *. cbn [Z.b2z] in *.
    assert (pull_woken t = false) as E' by (by destruct t). rewrite E' in *. cbn [Z.b2z] in *. lia.
Qed.

Lemma wake_push_step m i now kpull kpush s s' q' :
  wake_inv m s → do_step (Run i now kpull kpush) s = Some s' → queue s' = Some q' →
  0 < countb push_asleep (threads s') → m ≤ q_count q' ∨ 0 < countb push_woken (threads s').
Proof.
  intros (I & HF & HW) Hs Hq' Hpos.
  destruct (run_step_counts _ _ _ _ _ _ _ I Hs Hq')
    as (t & q & out & Hi & Hq & Hr & Sec & Ho & Hn & _ & Htp & _ & [P1 P2]).
  destruct (HW q Hq) as (<- & Hv & _ & HP).
  destruct (sec_queue _ _ _ Sec q' Ho) as (_ & _ & _ & _ & _ & He & Hd & Hpw & _).
  destruct (sec_woken _ _ _ Sec) as (Hnw & _).
  pose proof (countb_nonneg push_woken (threads s')). rewrite push_in_split in Htp.
  pose proof (countb_lookup_le push_woken _ _ _ Hi).
  destruct (push_asleep (out_thread out)) eqn:Ea.
  { left. apply Hpw. by destruct (out_thread out). }
  cbn [Z.b2z] in *. rewrite Z.add_0_r in *.
  assert (HA : 0 < countb push_asleep (threads s)) by (destruct (signal_push out && _); cbn in *; lia).
  specialize (HP HA). rewrite (proj2 (Z.ltb_lt _ _) HA), andb_true_r in *.
  assert (Hsig : enqueued out ≠ [] ∨ dequeued out ≠ [] → signal_push out = true).
  { intros [Hx|Hx]; [destruct (He Hx) as (_ & -> & _); apply Z.ltb_lt; lia|].
    rewrite (Hd Hx). apply negb_true_iff, Z.eqb_neq. lia. }
  destruct (enqueued out) as [|x l] eqn:Ee; [destruct (dequeued out) as [|y l'] eqn:Ed|].
  - cbn [length] in *. destruct (push_woken t) eqn:Ew; [|destruct (signal_push out); cbn in *; lia].
    destruct (woken_post_serves _ _ _ _ Hr Ew) as [?|?]; [congruence|]. exfalso. destruct (out_thread out); done.
  - rewrite Hsig in * by auto. cbn [Z.b2z] in *. lia.
  - rewrite Hsig in * by auto. cbn [Z.b2z] in *. lia.
Qed.

Lemma wake_step m c s s' :
  plain_choice c = true → do_step c s = Some s' → wake_inv m s → wake_inv m s'.
Proof.
  intros Hc Hs (I & HF & HW). split_and!.
  - eapply fifo_step_inv; [|exact Hs|exact I]. by destruct c.
  - eapply (step_forall plain_thread plain_choice); [..|exact Hc|exact Hs|exact HF]; try done.
    + by intros [].
    + intros. by eapply run_thread_places.
  - intros q' Hq'. destruct c; try done;
      try (destruct (quiet_step _ _ _ _ Hs Hq' Logic.I) as [(q & Hq & -> & -> & ->) (? & ? & ? & ?)];
           destruct (HW q Hq) as (? & ? & ? & ?); split_and!; [done|done|lia|lia]).
    assert (wake_inv m s) by done.
    destruct (run_step_counts _ _ _ _ _ _ _ I Hs Hq') as (t & q & out & Hi & Hq & _ & Sec & Ho & _).
    destruct (HW q Hq) as (Hmax & Hv & _).
    destruct (sec_queue _ _ _ Sec q' Ho) as (_ & _ & _ & Hm & Hv' & _).
    split_and!; [congruence| |by eapply wake_pull_step|by eapply wake_push_step].
    destruct Hv' as [-> | ->]; [done|]. by pose proof (Forall_lookup_1 _ _ _ _ HF Hi).
Qed.

Lemma run_ind (C : choice item → bool) (P : system item → Prop) cs s s' :
  (∀ c s s', C c = true → do_step c s = Some s' → P s → P s') →
  forallb C cs = true → run cs s = Some s' → P s → P s'.
Proof.
  intros Hstep. revert s. induction cs as [|c cs IH]; intros s; cbn; [by intros _ [= <-]|].
  intros [Hc Hcs]%andb_true_iff. destruct (do_step c s) as [s1|] eqn:E; [|done]. cbn. eauto.
Qed.

End Invariant.

(** C19: In every run of the threads that use a queue, with posts, gets, time-outs,
    cancellations and moves in any order, the items leave the queue in the order
    they entered it: what entered is what was taken followed by what is in the
    queue.  Every item taken is the result of exactly one call, [count] is the
    number of items, and [thrs] and [thrs_push] count the threads that wait. *)
Theorem fifo_order {item} (m : Z) (cs : list (choice item)) s :
  Forall choice_ok cs → run cs (start m) = Some s →
  posted s = taken s ++ contents (queue s)
  ∧ taken s ≡ₚ omap got (threads s)
  ∧ ∀ q, queue s = Some q →
      q_count q = Z.of_nat (length (q_list q))
      ∧ thrs q = countb pull_in (threads s) ∧ thrs_push q = countb push_in (threads s).
Proof.
  intros Hok Hrun. destruct (run_fifo_inv cs _ _ Hok Hrun (start_inv m)) as [I1 I2 I3]. auto.
Qed.

(** A queue made with a limit [m > 0] never holds more than [m] items, as
    long as the posts are the blocking ones ([fd_fifo_post]) and the limit does
    not change. *)
Theorem fifo_bounded {item} (m : Z) (cs : list (choice item)) s q :
  0 < m → forallb bounded_choice cs = true → run cs (start m) = Some s → queue s = Some q →
  q_count q ≤ m.
Proof.
  intros Hm Hc Hrun Hq.
  assert (H : bound_inv m s); [|by destruct H as (_ & _ & H); destruct (H q Hq)].
  eapply (run_ind bounded_choice (bound_inv m)); [|exact Hc|exact Hrun|].
  - intros c s1 s2. by apply bound_step.
  - split_and!; [apply start_inv|constructor|]. intros q' [= <-]. cbn. lia.
Qed.

(** C20: No wake-up is lost by posts, gets without time limit and cancellations on a
    queue with a constant limit ([plain_choice]: no timed get or time-out, no
    [fd_fifo_select], no [fd_fifo_setmax], no deletion, and nothing moved in from
    another queue; [move_loses_wakeup] shows a move that loses one): while an item is in the queue and a getter sleeps on
    [cond_pull], there are at least as many woken getters as items, and while
    there is room and a poster sleeps on [cond_push], a woken poster is about to
    run.  So in such a run a thread never sleeps for good beside what it waits for. *)
Theorem fifo_no_lost_wakeup {item} (m : Z) (cs : list (choice item)) s q :
  forallb plain_choice cs = true → run cs (start m) = Some s → queue s = Some q →
  (0 < countb pull_asleep (threads s) → q_count q ≤ countb pull_woken (threads s))
  ∧ (0 < countb push_asleep (threads s) → m ≤ q_count q ∨ 0 < countb push_woken (threads s)).
Proof.
  intros Hc Hrun Hq.
  assert (H : wake_inv m s); [|by destruct H as (_ & _ & H); destruct (H q Hq) as (_ & _ & ?)].
  eapply (run_ind plain_choice (wake_inv m)); [|exact Hc|exact Hrun|].
  - intros c s1 s2. by apply wake_step.
  - split_and!; [apply start_inv|constructor|]. intros q' [= <-]. cbn. split_and!; auto; lia.
Qed.

(** * Runs *)

Definition clock (n : Z) : timespec := Timespec n 500000000.

(** Two posts into a queue of one item, the second one blocked until the get. *)
Definition sample_run : list (choice nat) :=
  [CallPost 7%nat (clock 1) false; Run 0 (clock 1) 0 0;
   CallPost 8%nat (clock 2) false; Run 1 (clock 2) 0 0;
   CallGet false; Run 2 (clock 5) 0 1; Run 1 (clock 6) 0 0].

Lemma fifo_order_witness :
  ∃ s, run sample_run (start 1) = Some s ∧ posted s = [7; 8]%nat ∧ taken s = [7]%nat
    ∧ posted s = taken s ++ contents (queue s).
Proof.
  eexists. split; [vm_compute; reflexivity|]. split; [reflexivity|]. split; [reflexivity|].
  refine (proj1 (fifo_order 1 sample_run _ _ _)); [repeat constructor | vm_compute; reflexivity].
Defined.

Lemma fifo_bounded_witness :
  ∃ s q, run sample_run (start 1) = Some s ∧ queue s = Some q ∧ q_count q = 1 ∧ q_count q ≤ 1.
Proof.
  do 2 eexists. split; [vm_compute; reflexivity|]. split; [reflexivity|]. split; [reflexivity|].
  refine (fifo_bounded 1 sample_run _ _ _ _ _ _); [lia | vm_compute; reflexivity..].
Defined.

(** A getter asleep, woken by a post. *)
Definition sample_wait : list (choice nat) :=
  [CallGet false; Run 0 (clock 1) 0 0; CallGet false; Run 1 (clock 1) 0 0;
   CallPost 7%nat (clock 2) false; Run 2 (clock 2) 1 0].

Lemma fifo_no_lost_wakeup_witness :
  ∃ s q, run sample_wait (start 3) = Some s ∧ queue s = Some q
    ∧ countb pull_asleep (threads s) = 1 ∧ q_count q = 1 ∧ countb pull_woken (threads s) = 1
    ∧ (0 < countb pull_asleep (threads s) → q_count q ≤ countb pull_woken (threads s)).
Proof.
  do 2 eexists. split; [vm_compute; reflexivity|]. do 4 (split; [reflexivity|]).
  refine (proj1 (fifo_no_lost_wakeup 3 sample_wait _ _ _ _ _)); vm_compute; reflexivity.
Defined.

(** Two items arrive by [fd_fifo_move] while two getters sleep: only one is
    woken, the other one sleeps beside an item; and [highest_ever] still says
    that the queue was never used. *)
Definition sample_old : fifo nat :=
  match run [CallPost 1%nat (clock 1) false; Run 0 (clock 1) 0 0;
             CallPost 2%nat (clock 1) false; Run 1 (clock 1) 0 0] (start 0) with
  | Some (System (Some q) _ _ _) => q
  | _ => fd_fifo_new 0
  end.

Definition sample_move : list (choice nat) :=
  [CallGet false; Run 0 (clock 1) 0 0; CallGet false; Run 1 (clock 1) 0 0; MoveIn sample_old 0; Run 0 (clock 2) 0 0].

(** [fd_fifo_move] wakes one getter whatever it moves, and does not raise
    [highest_ever]: here two getters sleep, two items are moved in, and after the
    woken getter took one, the other getter sleeps with an item in the queue and
    nobody about to wake it; two items were in the queue and the highest count
    on record is 0. *)
Theorem move_loses_wakeup :
  ∃ s q, Forall choice_ok sample_move ∧ run sample_move (start 0) = Some s ∧ queue s = Some q
    ∧ q_count q = 1 ∧ threads s = [Done (Got 1%nat) false; PullWait (WGet false)] ∧ highest_ever q = 0.
Proof. do 2 eexists. split; [repeat constructor|]. vm_compute. done. Qed.
