(* ===== verification/FdLoops.v ===== *)
(** Searches over the rings of freeDiameter, as the code writes them: from the
    first element on ([for (li = l->next; ...)]) or from the last one back
    ([for (li = l->prev; ...)]), until an element stops the search.  The place
    found splits the list in two; [fd_list_insert_before] and
    [fd_list_insert_after] insert there. *)

From stdpp Require Import base list sorting.
From Stdlib Require Import ZArith Lia.

Section Loops.
Context {A : Type}.
Implicit Types (stop : A → bool) (l : list A) (x : A).

(** The elements before the first one that stops the search, and the rest. *)
Fixpoint walk_next stop l : list A * list A :=
  match l with
  | [] => ([], [])
  | x :: l' => if stop x then ([], l) else let (l1, l2) := walk_next stop l' in (x :: l1, l2)
  end.

(** From the end: the elements up to the last one that stops the search, and
    the ones after it; [rev] is the part still to visit, last element first. *)
Fixpoint walk_prev_from stop (rev after : list A) : list A * list A :=
  match rev with
  | [] => ([], after)
  | x :: rev' => if stop x then (reverse rev, after) else walk_prev_from stop rev' (x :: after)
  end.

Definition walk_prev stop l : list A * list A := walk_prev_from stop (reverse l) [].

(** Where a search ends. *)
Lemma walk_next_spec stop l l1 l2 :
  walk_next stop l = (l1, l2) →
  l = l1 ++ l2 ∧ Forall (λ x, stop x = false) l1 ∧ (∀ x, head l2 = Some x → stop x = true).
Proof.
  revert l1 l2. induction l as [|x l IH]; cbn; intros l1 l2; [by intros [= <- <-]|].
  destruct (stop x) eqn:E.
  - intros [= <- <-]. split_and!; [done..|]. by intros y [= <-].
  - destruct (walk_next stop l) as [m1 m2]. intros [= <- <-]. destruct (IH m1 m2 eq_refl) as (-> & ? & ?).
    split_and!; [done|by constructor|done].
Qed.

Lemma walk_prev_from_spec stop rev after l1 l2 :
  walk_prev_from stop rev after = (l1, l2) →
  ∃ l, reverse rev = l1 ++ l ∧ l2 = l ++ after ∧ Forall (λ x, stop x = false) l
    ∧ (∀ x, last l1 = Some x → stop x = true).
Proof.
  revert after. induction rev as [|x rev IH]; cbn [walk_prev_from]; intros after.
  - intros [= <- <-]. by exists [].
  - destruct (stop x) eqn:E.
    + intros [= <- <-]. exists []. rewrite app_nil_r. split_and!; [done..|].
      intros y. rewrite reverse_cons, last_snoc. by intros [= <-].
    + intros (l & Hr & -> & Hl & Hlast)%IH. exists (l ++ [x]). rewrite reverse_cons, Hr, <- !app_assoc.
      split_and!; [done..| |done]. apply Forall_app. split; [done|]. by constructor.
Qed.

Lemma walk_prev_spec stop l l1 l2 :
  walk_prev stop l = (l1, l2) →
  l = l1 ++ l2 ∧ Forall (λ x, stop x = false) l2 ∧ (∀ x, last l1 = Some x → stop x = true).
Proof.
  intros (m & Hm & -> & ? & ?)%walk_prev_from_spec. rewrite reverse_involutive in Hm. by rewrite app_nil_r.
Qed.

(** Insertion where everything before is smaller and everything after is larger. *)
Lemma sorted_insert (R : relation A) l1 l2 x :
  StronglySorted R (l1 ++ l2) → Forall (λ y, R y x) l1 → Forall (R x) l2 → StronglySorted R (l1 ++ x :: l2).
Proof.
  induction l1 as [|y l1 IH]; cbn; intros Hs H1 H2; [by constructor|].
  apply StronglySorted_inv in Hs as [Hs Hy]. apply Forall_cons in H1 as [Hyx H1]. constructor; [by apply IH|].
  apply Forall_app in Hy as [Hy1 Hy2]. apply Forall_app. split; [done|]. by constructor.
Qed.

(** In a sorted list the last element before a place bounds all before it, and
    the first one after it all after it. *)
Lemma sorted_before (R : relation A) `{!Transitive R} l x :
  StronglySorted R l → (∀ y, last l = Some y → R y x) → Forall (λ y, R y x) l.
Proof.
  intros Hs Hl. induction Hs as [|y l Hs IH Hy]; [constructor|].
  assert (H : Forall (λ z, R z x) l).
  { apply IH. intros z Hz. apply Hl. destruct l; [done|]. by rewrite last_cons_cons. }
  constructor; [|done]. destruct l as [|z l]; [by apply Hl|].
  apply Forall_cons in Hy as [Hyz _]. apply Forall_cons in H as [Hzx _]. by etrans.
Qed.

Lemma sorted_after (R : relation A) `{!Transitive R} l x :
  StronglySorted R l → (∀ y, head l = Some y → R x y) → Forall (R x) l.
Proof.
  intros Hs Hl. destruct Hs as [|y l Hs Hy]; [constructor|]. specialize (Hl y eq_refl).
  constructor; [done|]. eapply Forall_impl; [exact Hy|]. intros z Hz. by etrans.
Qed.

Lemma sorted_app_inv (R : relation A) l1 l2 :
  StronglySorted R (l1 ++ l2) → StronglySorted R l1 ∧ StronglySorted R l2.
Proof.
  induction l1 as [|x l1 IH]; cbn; intros H; [split; [constructor|done]|].
  apply StronglySorted_inv in H as [H Hx]. destruct (IH H) as [H1 H2]. apply Forall_app in Hx as [Hx _].
  split; [by constructor|done].
Qed.

(** Elements may leave a sorted list. *)
Lemma sorted_sublist (R : relation A) l k : k `sublist_of` l → StronglySorted R l → StronglySorted R k.
Proof.
  intros Hk. induction Hk as [|x k l Hk IH|x k l Hk IH]; [done| |].
  - intros [Hs Hx]%StronglySorted_inv. constructor; [by apply IH|]. rewrite Forall_forall in *. intros y Hy.
    apply Hx. by apply (sublist_subseteq k l).
  - intros [Hs _]%StronglySorted_inv. by apply IH.
Qed.

End Loops.
