(* ===== verification/FdApps.v ===== *)
(** The lists of applications of a Diameter peer (libfdcore/apps.c): merging,
    searching, and the test for a common application. *)

From stdpp Require Import base list sorting sets.
From Stdlib Require Import ZArith Lia.
From S2P Require Import FdLoops.
Open Scope Z_scope.

(** [struct fd_app]. *)
Record fd_app := FdApp { app_auth : bool; app_acct : bool; vndid : Z; appid : Z }.

(** The search stops before the first entry that is not smaller; an entry for
    the same application takes the new flags. *)
Definition fd_app_merge (l : list fd_app) (aid vid : Z) (auth acct : bool) : list fd_app :=
  let (l1, l2) := walk_next (λ na, negb (appid na <? aid)) l in
  match l2 with
  | na :: rest =>
      if aid <? appid na then l1 ++ FdApp auth acct vid aid :: l2
      else l1 ++ FdApp (app_auth na || auth) (app_acct na || acct) (vndid na) (appid na) :: rest
  | [] => l1 ++ [FdApp auth acct vid aid]
  end.

Definition fd_app_check (l : list fd_app) (aid : Z) : option fd_app :=
  match (walk_next (λ a, negb (appid a <? aid)) l).2 with
  | a :: _ => if appid a =? aid then Some a else None
  | [] => None
  end.

(** Both lists advance at the same time. *)
Fixpoint fd_app_check_common (l1 l2 : list fd_app) : bool :=
  match l1 with
  | [] => false
  | a1 :: l1' =>
      (fix inner (l2 : list fd_app) : bool :=
         match l2 with
         | [] => false
         | a2 :: l2' =>
             if appid a1 <? appid a2 then fd_app_check_common l1' l2
             else if appid a2 <? appid a1 then inner l2'
             else if (app_auth a1 && app_auth a2) || (app_acct a1 && app_acct a2) then true
             else fd_app_check_common l1' l2'
         end) l2
  end.

Definition fd_app_count (l : list fd_app) : Z := fold_left (λ count _, count + 1) l 0.

(** * The order *)

Definition app_lt (a b : fd_app) : Prop := appid a < appid b.

#[export] Instance app_lt_trans : Transitive app_lt.
Proof. unfold app_lt. intros a b c. lia. Qed.

Abbreviation apps_sorted := (StronglySorted app_lt).

(** The lists the code builds start empty and grow by [fd_app_merge]. *)
Lemma merge_shape l aid vid auth acct :
  apps_sorted l →
  ∃ l1 l2, Forall (λ a, appid a < aid) l1 ∧ Forall (λ a, aid < appid a) l2
    ∧ ((l = l1 ++ l2 ∧ fd_app_merge l aid vid auth acct = l1 ++ FdApp auth acct vid aid :: l2)
       ∨ ∃ na, l = l1 ++ na :: l2 ∧ appid na = aid
           ∧ fd_app_merge l aid vid auth acct
             = l1 ++ FdApp (app_auth na || auth) (app_acct na || acct) (vndid na) aid :: l2).
Proof.
  intros Hs. unfold fd_app_merge. destruct (walk_next _ l) as [l1 l2] eqn:E.
  apply walk_next_spec in E as (-> & H1 & H2). apply sorted_app_inv in Hs as [_ Hs].
  assert (H1' : Forall (λ a, appid a < aid) l1).
  { eapply Forall_impl; [exact H1|]. intros a Ha. apply negb_false_iff in Ha. lia. }
  destruct l2 as [|na rest]; [exists l1, []; auto 10|].
  specialize (H2 na eq_refl). apply negb_true_iff in H2. apply StronglySorted_inv in Hs as [_ Hna].
  destruct (Z.ltb_spec aid (appid na)).
  - exists l1, (na :: rest). split_and!; [done| |by left]. constructor; [done|].
    eapply Forall_impl; [exact Hna|]. unfold app_lt. intros a. lia.
  - assert (appid na = aid) as Hn by lia. exists l1, rest. split_and!; [done| |].
    + eapply Forall_impl; [exact Hna|]. unfold app_lt. intros a. lia.
    + right. exists na. rewrite Hn. auto.
Qed.

Lemma merge_sorted l aid vid auth acct : apps_sorted l → apps_sorted (fd_app_merge l aid vid auth acct).
Proof.
  intros Hs. destruct (merge_shape l aid vid auth acct Hs) as (l1 & l2 & H1 & H2 & [[-> ->]|(na & -> & Hn & ->)]).
  - by apply sorted_insert.
  - apply sorted_insert; [|done|done]. eapply sorted_sublist; [|exact Hs]. apply sublist_app; [done|]. by constructor.
Qed.

(** In a sorted list the search finds the entry of the application. *)
Lemma check_spec l aid a : apps_sorted l → fd_app_check l aid = Some a ↔ a ∈ l ∧ appid a = aid.
Proof.
  intros Hs. unfold fd_app_check. destruct (walk_next _ l) as [l1 l2] eqn:E.
  apply walk_next_spec in E as (-> & H1 & H2). apply sorted_app_inv in Hs as [_ Hs]. cbn.
  rewrite Forall_forall in H1. destruct l2 as [|b rest].
  - split; [done|]. rewrite app_nil_r. intros [Ha He]. specialize (H1 a Ha). apply negb_false_iff in H1. lia.
  - specialize (H2 b eq_refl). apply negb_true_iff in H2. apply StronglySorted_inv in Hs as [_ Hb].
    rewrite Forall_forall in Hb. destruct (Z.eqb_spec (appid b) aid).
    + split; [intros [= <-]; set_solver|]. rewrite elem_of_app, elem_of_cons. intros [[Ha|[->|Ha]] He]; [|done|].
      * specialize (H1 a Ha). apply negb_false_iff in H1. lia.
      * specialize (Hb a Ha). unfold app_lt in Hb. lia.
    + split; [done|]. rewrite elem_of_app, elem_of_cons. intros [[Ha|[->|Ha]] He]; [|done|].
      * specialize (H1 a Ha). apply negb_false_iff in H1. lia.
      * specialize (Hb a Ha). unfold app_lt in Hb. lia.
Qed.

(** Both use an application in the same role. *)
Definition common (a1 a2 : fd_app) : Prop :=
  appid a1 = appid a2 ∧ ((app_auth a1 = true ∧ app_auth a2 = true) ∨ (app_acct a1 = true ∧ app_acct a2 = true)).

Lemma check_common_spec l1 : ∀ l2, apps_sorted l1 → apps_sorted l2 →
  fd_app_check_common l1 l2 = true ↔ ∃ a1 a2, a1 ∈ l1 ∧ a2 ∈ l2 ∧ common a1 a2.
Proof.
  induction l1 as [|a1 l1 IH]; intros l2 H1 H2; [split; [done|set_solver]|].
  induction l2 as [|a2 l2 IH2]; [split; [done|set_solver]|]. cbn [fd_app_check_common].
  pose proof (StronglySorted_inv H1) as [Hs1 Ha1]. pose proof (StronglySorted_inv H2) as [Hs2 Ha2].
  rewrite Forall_forall in Ha1, Ha2. unfold app_lt in Ha1, Ha2.
  destruct (Z.ltb_spec (appid a1) (appid a2)); [|destruct (Z.ltb_spec (appid a2) (appid a1))].
  - rewrite IH by done. split; [intros (b1 & b2 & ? & ? & ?); exists b1, b2; set_solver|].
    intros (b1 & b2 & [->|?]%elem_of_cons & Hb2 & Hc); [|eauto].
    destruct Hc as [Hc _]. apply elem_of_cons in Hb2 as [->|Hb2]; [lia|]. specialize (Ha2 b2 Hb2). lia.
  - specialize (IH2 Hs2). cbn [fd_app_check_common] in IH2. rewrite IH2.
    split; [intros (b1 & b2 & ? & ? & ?); exists b1, b2; set_solver|].
    intros (b1 & b2 & Hb1 & [->|?]%elem_of_cons & Hc); [|eauto].
    destruct Hc as [Hc _]. apply elem_of_cons in Hb1 as [->|Hb1]; [lia|]. specialize (Ha1 b1 Hb1). lia.
  - assert (He : appid a1 = appid a2) by lia.
    destruct ((app_auth a1 && app_auth a2) || (app_acct a1 && app_acct a2)) eqn:E.
    + split; [intros _|done]. exists a1, a2. split_and!; [by left..|]. split; [done|].
      apply orb_true_iff in E. rewrite !andb_true_iff in E. tauto.
    + rewrite IH by done. split; [intros (b1 & b2 & ? & ? & ?); exists b1, b2; set_solver|].
      intros (b1 & b2 & [->|Hb1]%elem_of_cons & [->|Hb2]%elem_of_cons & [Hc Hf]).
      * exfalso. apply orb_false_iff in E. rewrite !andb_false_iff in E. destruct Hf as [[E1 E2]|[E1 E2]];
          rewrite E1, E2 in E; intuition done.
      * specialize (Ha2 b2 Hb2). lia.
      * specialize (Ha1 b1 Hb1). lia.
      * exists b1, b2. split_and!; [done..|]. by split.
Qed.

Lemma check_merged l aid vid auth acct :
  apps_sorted l → ∃ a, fd_app_check (fd_app_merge l aid vid auth acct) aid = Some a
    ∧ (auth = true → app_auth a = true) ∧ (acct = true → app_acct a = true).
Proof.
  intros Hs. pose proof (merge_sorted l aid vid auth acct Hs) as Hm.
  destruct (merge_shape l aid vid auth acct Hs) as (l1 & l2 & H1 & H2 & [[-> E]|(na & -> & Hn & E)]); rewrite E in *.
  - exists (FdApp auth acct vid aid). split; [|done]. apply check_spec; [done|]. split; [set_solver|done].
  - eexists. split; [apply check_spec; [done|]; split; [apply elem_of_app; right; by left|done]|]. cbn.
    split; intros ->; by rewrite orb_true_r.
Qed.

(** * Capabilities *)

(** Whether a list has an application for authentication, for accounting. *)
Definition has_auth (l : list fd_app) (aid : Z) : bool := from_option app_auth false (fd_app_check l aid).
Definition has_acct (l : list fd_app) (aid : Z) : bool := from_option app_acct false (fd_app_check l aid).

Lemma check_app_middle l1 a l2 aid :
  apps_sorted (l1 ++ a :: l2) → appid a = aid → fd_app_check (l1 ++ a :: l2) aid = Some a.
Proof. intros Hs Ha. apply check_spec; [done|]. split; [set_solver|done]. Qed.

Lemma check_none l aid : apps_sorted l → fd_app_check l aid = None ↔ ∀ a, a ∈ l → appid a ≠ aid.
Proof.
  intros Hs. split.
  - intros Hn a Ha He. by rewrite (proj2 (check_spec l aid a Hs)) in Hn.
  - intros H. destruct (fd_app_check l aid) as [a|] eqn:E; [|done]. apply check_spec in E as [Ha He]; [|done].
    by destruct (H a Ha).
Qed.

(** Removing entries of other applications does not change a search. *)
Lemma check_other l1 l2 a aid :
  apps_sorted (l1 ++ a :: l2) → appid a ≠ aid → fd_app_check (l1 ++ a :: l2) aid = fd_app_check (l1 ++ l2) aid.
Proof.
  intros Hs Ha.
  assert (Hs' : apps_sorted (l1 ++ l2)) by (eapply sorted_sublist; [|exact Hs]; apply sublist_app; [done|by constructor]).
  destruct (fd_app_check (l1 ++ l2) aid) as [b|] eqn:E.
  - apply check_spec in E as [Hb He]; [|done]. apply check_spec; [done|]. split; [set_solver|done].
  - rewrite check_none in E |- * by done. intros b. rewrite elem_of_app, elem_of_cons. intros [Hb|[->|Hb]]; [|done|];
      apply E; set_solver.
Qed.

Lemma merge_roles l aid vid auth acct x :
  apps_sorted l →
  has_auth (fd_app_merge l aid vid auth acct) x = has_auth l x || ((x =? aid) && auth)
  ∧ has_acct (fd_app_merge l aid vid auth acct) x = has_acct l x || ((x =? aid) && acct).
Proof.
  intros Hs. pose proof (merge_sorted l aid vid auth acct Hs) as Hm. unfold has_auth, has_acct.
  destruct (merge_shape l aid vid auth acct Hs) as (l1 & l2 & H1 & H2 & [[-> E]|(na & -> & Hn & E)]); rewrite E in *;
    (destruct (Z.eqb_spec x aid) as [->|Hx]; cbn [andb]; [|rewrite !orb_false_r]).
  - rewrite check_app_middle by done. cbn. assert (fd_app_check (l1 ++ l2) aid = None) as ->; [|done].
    apply check_none; [done|]. rewrite Forall_forall in H1, H2. intros a [Ha|Ha]%elem_of_app;
      [specialize (H1 a Ha)|specialize (H2 a Ha)]; lia.
  - by rewrite check_other by (done || congruence).
  - by rewrite !check_app_middle.
  - rewrite !check_other; [done|done|congruence|done|]. cbn. congruence.
Qed.

Lemma common_roles l1 l2 :
  apps_sorted l1 → apps_sorted l2 →
  fd_app_check_common l1 l2 = true ↔
  ∃ x, (has_auth l1 x && has_auth l2 x) || (has_acct l1 x && has_acct l2 x) = true.
Proof.
  intros H1 H2. rewrite check_common_spec by done. unfold has_auth, has_acct. split.
  - intros (a1 & a2 & Ha1 & Ha2 & [He Hr]). exists (appid a1).
    rewrite (proj2 (check_spec l1 (appid a1) a1 H1)), (proj2 (check_spec l2 (appid a1) a2 H2)) by auto. cbn.
    apply orb_true_iff. rewrite !andb_true_iff. tauto.
  - intros [x Hx]. destruct (fd_app_check l1 x) as [a1|] eqn:E1, (fd_app_check l2 x) as [a2|] eqn:E2; cbn in Hx;
      rewrite ?andb_false_r in Hx; try done.
    apply check_spec in E1 as [Ha1 E1]; [|done]. apply check_spec in E2 as [Ha2 E2]; [|done].
    exists a1, a2. split_and!; [done..|]. split; [congruence|]. apply orb_true_iff in Hx. rewrite !andb_true_iff in Hx. tauto.
Qed.

(** What the AVPs of a CER or CEA announce: application, vendor, roles. *)
Abbreviation capability := (Z * Z * bool * bool)%type.

Definition merge_all (caps : list capability) : list fd_app :=
  fold_left (λ l '(aid, vid, auth, acct), fd_app_merge l aid vid auth acct) caps [].

Definition announces_auth (caps : list capability) (x : Z) : bool :=
  existsb (λ '(aid, _, auth, _), (x =? aid) && auth) caps.
Definition announces_acct (caps : list capability) (x : Z) : bool :=
  existsb (λ '(aid, _, _, acct), (x =? aid) && acct) caps.

Lemma merge_all_roles caps x :
  apps_sorted (merge_all caps) ∧ has_auth (merge_all caps) x = announces_auth caps x
  ∧ has_acct (merge_all caps) x = announces_acct caps x.
Proof.
  unfold merge_all. cut (∀ l, apps_sorted l →
    let l' := fold_left (λ l '(aid, vid, auth, acct), fd_app_merge l aid vid auth acct) caps l in
    apps_sorted l' ∧ has_auth l' x = has_auth l x || announces_auth caps x
    ∧ has_acct l' x = has_acct l x || announces_acct caps x).
  { intros H. exact (H [] (SSorted_nil _)). }
  induction caps as [|[[[aid vid] auth] acct] caps IH]; intros l Hl; cbn; [by rewrite !orb_false_r|].
  destruct (IH _ (merge_sorted l aid vid auth acct Hl)) as (Hs & -> & ->).
  destruct (merge_roles l aid vid auth acct x Hl) as [-> ->]. by rewrite !orb_assoc.
Qed.

(** Two peers have a common application, by the test of the code on the
    lists it merged from their capabilities, exactly if both announced one
    application in the same role, authentication or accounting, in whatever
    order and however often. *)
Theorem common_application caps1 caps2 :
  fd_app_check_common (merge_all caps1) (merge_all caps2) = true ↔
  ∃ x, (announces_auth caps1 x = true ∧ announces_auth caps2 x = true)
     ∨ (announces_acct caps1 x = true ∧ announces_acct caps2 x = true).
Proof.
  rewrite common_roles by apply (merge_all_roles _ 0). split; intros [x Hx]; exists x;
    destruct (merge_all_roles caps1 x) as (_ & E1 & E2), (merge_all_roles caps2 x) as (_ & E3 & E4);
    rewrite E1, E2, E3, E4, ?orb_true_iff, ?andb_true_iff in *; done.
Qed.
