(* ===== verification/FdRtData.v ===== *)
(** The routing data of a message (libfdproto/rt_data.c) and the comparisons of
    Diameter identities it uses (libfdproto/ostr.c): the peers a message may be
    sent to, the errors it met, and the order in which the peers are tried. *)

From stdpp Require Import base list sorting sets.
From Stdlib Require Import ZArith Lia.
From S2P Require Import Prelude FdMessages FdDictionary FdDictInv FdLoops.
Open Scope Z_scope.

(** * Identities (ostr.c) *)

Definition asciitolower (a : Z) : Z := if (65 <=? a) && (a <=? 90) then a + 32 else a.

(** The loop of [fd_os_almostcasesrch_int] over strings of the same size. *)
Fixpoint almostcase_loop (os1 os2 : os0) (res : Z) : Z :=
  match os1, os2 with
  | x :: os1, y :: os2 =>
      if x =? y then almostcase_loop os1 os2 res
      else
        let res := if res =? 0 then (if x <? y then -1 else 1) else res in
        if asciitolower x =? asciitolower y then almostcase_loop os1 os2 res else res
  | _, _ => 0
  end.

(** The result and [*maybefurther]. *)
Definition fd_os_almostcasesrch (os1 os2 : os0) : Z * bool :=
  if (length os1 <? length os2)%nat then (-1, false)
  else if (length os2 <? length os1)%nat then (1, true)
  else (almostcase_loop os1 os2 0, true).

(** Letters, digits, hyphen, dot. *)
Definition identity_char (c : Z) : bool :=
  if 122 <? c then false
  else if 97 <=? c then true
  else if (65 <=? c) && (c <=? 90) then true
  else if (c =? 45) || (c =? 46) then true
  else (48 <=? c) && (c <=? 57).

Definition fd_os_is_valid_DiameterIdentity (os : os0) : bool := forallb identity_char os.

(** * Routing data (rt_data.c) *)

Record rtd_candidate := Candidate { diamid : os0; realm : option os0; score : Z }.

Record rtd_error := RtdError { nexthop : os0; erh : option os0; rtd_code : Z }.

Record rt_data := RtData {
  extracted : Z;
  candidates : list rtd_candidate;
  errors : list rtd_error
}.

Definition fd_rtd_init : rt_data := RtData 0 [] [].

(** The search from the end stops at a smaller identity, or at the same one. *)
Definition candidate_add (peerid : os0) (peer_realm : option os0) (l : list rtd_candidate) : list rtd_candidate :=
  let (l1, l2) := walk_prev (λ cp, 0 <=? fd_os_cmp peerid (diamid cp)) l in
  match last l1 with
  | Some cp => if fd_os_cmp peerid (diamid cp) =? 0 then l else l1 ++ Candidate peerid peer_realm 0 :: l2
  | None => l1 ++ Candidate peerid peer_realm 0 :: l2
  end.

(** [None] is EINVAL. *)
Definition fd_rtd_candidate_add (rtd : rt_data) (peerid : os0) (peer_realm : option os0) : option rt_data :=
  if (length peerid =? 0)%nat then None
  else Some (RtData (extracted rtd) (candidate_add peerid peer_realm (candidates rtd)) (errors rtd)).

(** The list is ordered unless it was extracted: the search ends at a longer
    identity then. *)
Fixpoint candidate_del (was_extracted : bool) (id : os0) (l : list rtd_candidate) : list rtd_candidate :=
  match l with
  | [] => []
  | c :: l' =>
      let (cmp, cont) := fd_os_almostcasesrch id (diamid c) in
      if cmp =? 0 then l'
      else if cont then c :: candidate_del was_extracted id l'
      else if negb was_extracted then l
      else c :: candidate_del was_extracted id l'
  end.

Definition fd_rtd_candidate_del (rtd : rt_data) (id : os0) : rt_data :=
  if (length id =? 0)%nat then rtd
  else if negb (fd_os_is_valid_DiameterIdentity id) then rtd
  else RtData (extracted rtd) (candidate_del (negb (extracted rtd =? 0)) id (candidates rtd)) (errors rtd).

(** Who sent an error: nobody, a string with its size, which is not 0, or a C
    string, whose size is given as 0. *)
Inductive origin :=
| NoOrigin
| Sized (id : os0)
| CString (id : os0).

(** The origin after the entry was saved: what is left of the argument. *)
Definition saved_origin (o : origin) : option os0 :=
  match o with
  | NoOrigin => None
  | Sized id => if fd_os_is_valid_DiameterIdentity id then Some id else None
  | CString id => Some id
  end.

(** The origin when there was an entry already: a C string is still of size 0. *)
Definition given_origin (o : origin) : option os0 :=
  match o with NoOrigin => None | Sized id => Some id | CString _ => Some [] end.

(** [None] is EINVAL; the sending attempts are [extracted]. *)
Definition fd_rtd_error_add (rtd : rt_data) (sentto : os0) (o : origin) (rcode : Z) : option rt_data :=
  if (length sentto =? 0)%nat then None
  else
    let (l1, l2) := walk_next (λ e, negb (0 <? fd_os_cmp sentto (nexthop e))) (errors rtd) in
    let found := match l2 with e :: _ => fd_os_cmp sentto (nexthop e) =? 0 | [] => false end in
    let rtd1 := if found then rtd
                else RtData (extracted rtd) (candidates rtd)
                       (l1 ++ RtdError sentto (saved_origin o) rcode :: l2) in
    let org := if found then given_origin o else saved_origin o in
    let rtd2 := fd_rtd_candidate_del rtd1 sentto in
    Some (match org with Some id => fd_rtd_candidate_del rtd2 id | None => rtd2 end).

Definition fd_rtd_get_nb_attempts (rtd : rt_data) : Z := extracted rtd.

Definition set_score (n : Z) (c : rtd_candidate) : rtd_candidate := Candidate (diamid c) (realm c) n.

Definition fd_rtd_candidate_extract (rtd : rt_data) (ini_score : Z) : rt_data :=
  RtData (extracted rtd + 1) (set_score ini_score <$> candidates rtd) (errors rtd).

(** The loop of [fd_rtd_candidate_reorder]; [rnd k] is the lowest bit of the
    [k]th [rand()]. *)
Fixpoint reorder_loop (rnd : nat → bool) (k : nat) (hs : Z) (unordered ordered highest : list rtd_candidate)
    : list rtd_candidate :=
  match unordered with
  | [] => ordered ++ highest
  | c :: unordered =>
      let ordered' := if hs <? score c then ordered ++ highest else ordered in
      let highest' := if hs <? score c then [] else highest in
      let hs' := if hs <? score c then score c else hs in
      if score c =? hs' then
        reorder_loop rnd (S k) hs' unordered ordered' (if rnd k then c :: highest' else highest' ++ [c])
      else
        let (l1, l2) := walk_next (λ cnext, score c <=? score cnext) ordered' in
        reorder_loop rnd k hs' unordered (l1 ++ c :: l2) highest'
  end.

Definition fd_rtd_candidate_reorder (rnd : nat → bool) (l : list rtd_candidate) : list rtd_candidate :=
  reorder_loop rnd 0 (-1) l [] [].

(** * Identities up to case *)

Definition caseless (a b : os0) : Prop := asciitolower <$> a = asciitolower <$> b.

#[export] Instance caseless_dec a b : Decision (caseless a b) := decide (asciitolower <$> a = asciitolower <$> b).

#[export] Instance caseless_equiv : Equivalence caseless.
Proof. unfold caseless. split; intros ?; intros; congruence. Qed.

Lemma caseless_length a b : caseless a b → length a = length b.
Proof. intros H%(f_equal length). by rewrite !length_fmap in H. Qed.

Lemma almostcase_loop_spec a : ∀ b res, length a = length b →
  almostcase_loop a b res = 0 ↔ caseless a b.
Proof.
  unfold caseless. induction a as [|x a IH]; intros [|y b] res Hl; try done. cbn.
  injection Hl as Hl. destruct (Z.eqb_spec x y) as [->|Hne].
  - rewrite IH by done. split; [by intros ->|by intros [= ->]].
  - destruct (Z.eqb_spec (asciitolower x) (asciitolower y)) as [E|E].
    + rewrite IH by done. rewrite E. split; [by intros ->|by intros [= ->]].
    + split; [|by intros [= ? _]]. destruct (Z.eqb_spec res 0); [|lia]. by destruct (x <? y).
Qed.

Lemma almostcasesrch_match a b : (fd_os_almostcasesrch a b).1 = 0 ↔ caseless a b.
Proof.
  unfold fd_os_almostcasesrch. destruct (Nat.ltb_spec (length a) (length b)); [|destruct (Nat.ltb_spec (length b) (length a))]; cbn.
  - split; [done|]. intros ?%caseless_length. lia.
  - split; [done|]. intros ?%caseless_length. lia.
  - apply almostcase_loop_spec; lia.
Qed.

Lemma almostcasesrch_further a b : (fd_os_almostcasesrch a b).2 = false ↔ (length a < length b)%nat.
Proof.
  unfold fd_os_almostcasesrch. destruct (Nat.ltb_spec (length a) (length b)); [done|].
  destruct (Nat.ltb_spec (length b) (length a)); cbn; split; (done || lia).
Qed.

(** * The candidates *)

Definition cand_lt (a b : rtd_candidate) : Prop := fd_os_cmp (diamid a) (diamid b) < 0.

#[export] Instance cand_lt_trans : Transitive cand_lt.
Proof. unfold cand_lt. intros a b c. rewrite !fd_os_cmp_lex. apply lex_trans. Qed.

Abbreviation ordered := (StronglySorted cand_lt).

Lemma fd_os_cmp_eq a b : fd_os_cmp a b = 0 ↔ a = b.
Proof. rewrite fd_os_cmp_lex, lex_eq. unfold os_key. split; [by intros [= _ ->]|by intros ->]. Qed.

Lemma fd_os_cmp_flip a b : fd_os_cmp a b < 0 ↔ 0 < fd_os_cmp b a.
Proof. rewrite !fd_os_cmp_lex. apply lex_flip. Qed.

Lemma fd_os_cmp_length a b : fd_os_cmp a b < 0 → (length a ≤ length b)%nat.
Proof. unfold fd_os_cmp. destruct (Nat.ltb_spec (length a) (length b)), (Nat.ltb_spec (length b) (length a)); lia. Qed.

Lemma candidate_add_spec peerid rlm l :
  ordered l →
  ordered (candidate_add peerid rlm l)
  ∧ ∀ x, x ∈ diamid <$> candidate_add peerid rlm l ↔ x ∈ diamid <$> l ∨ x = peerid.
Proof.
  intros Hs. unfold candidate_add. destruct (walk_prev _ l) as [l1 l2] eqn:E.
  apply walk_prev_spec in E as (-> & H2 & H1). pose proof Hs as [Hs1 _]%sorted_app_inv.
  set (new := Candidate peerid rlm 0).
  assert (Hafter : Forall (cand_lt new) l2).
  { eapply Forall_impl; [exact H2|]. intros c Hc. apply Z.leb_gt in Hc. exact Hc. }
  assert (Hnew : Forall (λ c, cand_lt c new) l1 →
    ordered (l1 ++ new :: l2) ∧ ∀ x, x ∈ diamid <$> l1 ++ new :: l2 ↔ x ∈ diamid <$> l1 ++ l2 ∨ x = peerid).
  { intros Hb. split; [by apply sorted_insert|]. intros x. rewrite !fmap_app, fmap_cons, !elem_of_app, elem_of_cons.
    cbn. tauto. }
  destruct (last l1) as [cp|] eqn:El.
  - destruct (Z.eqb_spec (fd_os_cmp peerid (diamid cp)) 0) as [Ez|Ez].
    + split; [done|]. apply fd_os_cmp_eq in Ez. subst. apply last_Some_elem_of in El. intros x. split; [auto|].
      intros [?| ->]; [done|]. apply (list_elem_of_fmap_2 diamid). by apply elem_of_app; left.
    + apply Hnew, sorted_before; [apply _|done|]. intros y Hy. assert (y = cp) as -> by congruence.
      specialize (H1 cp eq_refl). apply Z.leb_le in H1. apply fd_os_cmp_flip. cbn. lia.
  - apply Hnew. apply last_None in El as ->. constructor.
Qed.

(** The first candidate with an identity, up to case, leaves the list. *)
Fixpoint remove_first (id : os0) (l : list rtd_candidate) : list rtd_candidate :=
  match l with
  | [] => []
  | c :: l => if decide (caseless id (diamid c)) then l else c :: remove_first id l
  end.

Lemma remove_first_none id l : Forall (λ c, ¬ caseless id (diamid c)) l → remove_first id l = l.
Proof. induction 1 as [|c l Hc Hl IH]; cbn; [done|]. by rewrite decide_False, IH. Qed.

(** The early end of the search in an ordered list misses nothing. *)
Lemma candidate_del_spec b id l : (b = false → ordered l) → candidate_del b id l = remove_first id l.
Proof.
  intros Hs. induction l as [|c l IH]; [done|].
  cbn [candidate_del remove_first]. destruct (fd_os_almostcasesrch id (diamid c)) as [cmp cont] eqn:E.
  pose proof (almostcasesrch_match id (diamid c)) as Hm. pose proof (almostcasesrch_further id (diamid c)) as Hf.
  rewrite E in Hm, Hf. cbn in Hm, Hf.
  assert (Hs' : b = false → ordered l) by (intros Hb; apply (StronglySorted_inv (Hs Hb))).
  destruct (Z.eqb_spec cmp 0) as [->|Hz].
  - rewrite decide_True by (by apply Hm). done.
  - rewrite decide_False by (rewrite <- Hm; done).
    destruct cont; [by rewrite IH|]. destruct b; cbn; [by rewrite IH|].
    rewrite remove_first_none; [done|]. specialize (Hs eq_refl). apply StronglySorted_inv in Hs as [_ Hc].
    eapply Forall_impl; [exact Hc|]. intros d Hd%fd_os_cmp_length Hcl%caseless_length.
    assert (length id < length (diamid c))%nat by (by apply Hf). lia.
Qed.

Lemma remove_first_sublist id l : remove_first id l `sublist_of` l.
Proof.
  induction l as [|c l IH]; cbn; [done|]. destruct (decide _); [by constructor|by apply sublist_skip].
Qed.

(** No two candidates are the same up to case. *)
Definition distinct (l : list rtd_candidate) : Prop :=
  ∀ i j c d, l !! i = Some c → l !! j = Some d → caseless (diamid c) (diamid d) → i = j.

Lemma distinct_cons c l : distinct (c :: l) ↔ Forall (λ d, ¬ caseless (diamid c) (diamid d)) l ∧ distinct l.
Proof.
  split.
  - intros H. split.
    + apply Forall_lookup. intros i d Hd Hc. by specialize (H 0%nat (S i) c d eq_refl Hd Hc).
    + intros i j a b Ha Hb Hab. specialize (H (S i) (S j) a b Ha Hb Hab). lia.
  - intros [Hc Hl] [|i] [|j] a b Ha Hb Hab; cbn in *; simplify_eq; [done| | |f_equal; by eapply Hl].
    + by pose proof (Forall_lookup_1 _ _ _ _ Hc Hb).
    + symmetry in Hab. by pose proof (Forall_lookup_1 _ _ _ _ Hc Ha).
Qed.

Lemma remove_first_distinct id l c :
  distinct l → c ∈ remove_first id l ↔ c ∈ l ∧ ¬ caseless id (diamid c).
Proof.
  induction l as [|d l IH]; cbn; [set_solver|]. intros [Hd Hl]%distinct_cons. rewrite Forall_forall in Hd.
  destruct (decide (caseless id (diamid d))) as [Hc|Hc].
  - rewrite elem_of_cons. split; [|intros [[->|?] ?]; done]. intros H. split; [auto|].
    intros Hid. apply (Hd c H). by rewrite <- Hc.
  - rewrite !elem_of_cons, IH by done. split; [intros [->|[? ?]]; auto|]. intros [[->|?] ?]; auto.
Qed.

Lemma distinct_sublist l k : k `sublist_of` l → distinct l → distinct k.
Proof.
  induction 1 as [|c k l Hk IH|c k l Hk IH]; [done| |].
  - intros [Hc Hl]%distinct_cons. apply distinct_cons. split; [|by apply IH].
    rewrite Forall_forall in *. intros d Hd. apply Hc. by apply (sublist_subseteq k l).
  - intros [_ Hl]%distinct_cons. by apply IH.
Qed.

(** * The order by score *)

Definition by_score (a b : rtd_candidate) : Prop := score a ≤ score b.

#[export] Instance by_score_trans : Transitive by_score.
Proof. unfold by_score. intros a b c. lia. Qed.

Abbreviation scored := (StronglySorted by_score).

Lemma scored_app l k : scored l → scored k → (∀ a b, a ∈ l → b ∈ k → by_score a b) → scored (l ++ k).
Proof.
  induction 1 as [|a l Hl IH Ha]; cbn; intros Hk Hlk; [done|]. constructor; [apply IH; set_solver|].
  apply Forall_app. split; [done|]. apply Forall_forall. intros b Hb. apply Hlk; [by left|done].
Qed.

Lemma scored_const n l : Forall (λ c, score c = n) l → scored l.
Proof.
  induction 1 as [|c l Hc Hl IH]; constructor; [done|]. eapply Forall_impl; [exact Hl|]. unfold by_score. intros d. lia.
Qed.

Lemma reorder_loop_spec rnd unordered : ∀ k hs ord high,
  scored ord → Forall (λ c, score c ≤ hs) ord → Forall (λ c, score c = hs) high →
  scored (reorder_loop rnd k hs unordered ord high)
  ∧ reorder_loop rnd k hs unordered ord high ≡ₚ unordered ++ ord ++ high.
Proof.
  induction unordered as [|c l IH]; intros k hs ord high Ho Hle Hh; cbn [reorder_loop].
  - split; [|done]. apply scored_app; [done|by eapply scored_const|]. rewrite Forall_forall in *.
    unfold by_score. intros a b Ha Hb. rewrite (Hh b Hb). by apply Hle.
  - set (ord' := if hs <? score c then ord ++ high else ord). set (high' := if hs <? score c then [] else high).
    set (hs' := if hs <? score c then score c else hs).
    assert (scored ord' ∧ Forall (λ c, score c ≤ hs') ord' ∧ Forall (λ c, score c = hs') high'
            ∧ ord ++ high ≡ₚ ord' ++ high' ∧ score c ≤ hs') as (Ho' & Hle' & Hh' & Hp & Hc').
    { unfold ord', high', hs'. destruct (Z.ltb_spec hs (score c)); [|split_and!; done].
      split_and!; [| |constructor|by rewrite app_nil_r|done].
      - apply scored_app; [done|by eapply scored_const|]. rewrite Forall_forall in *.
        unfold by_score. intros a b Ha Hb. rewrite (Hh b Hb). by apply Hle.
      - apply Forall_app. split; (eapply Forall_impl; [eassumption|]); cbn; intros; lia. }
    clearbody ord' high' hs'. destruct (Z.eqb_spec (score c) hs').
    + destruct (IH (S k) hs' ord' (if rnd k then c :: high' else high' ++ [c])) as [H1 H2]; [done|done| |].
      { destruct (rnd k); [by constructor|]. apply Forall_app. split; [done|]. by constructor. }
      split; [done|]. rewrite H2, Hp. destruct (rnd k); solve_Permutation.
    + destruct (walk_next _ ord') as [l1 l2] eqn:E. apply walk_next_spec in E as (-> & H1 & H2).
      destruct (IH k hs' (l1 ++ c :: l2) high') as [G1 G2]; [| |done|].
      * apply sorted_insert; [done| |].
        -- eapply Forall_impl; [exact H1|]. unfold by_score. intros d Hd. apply Z.leb_gt in Hd. lia.
        -- apply sorted_after; [apply _|by apply sorted_app_inv in Ho' as [_ ?]|].
           intros d Hd. apply H2, Z.leb_le in Hd. exact Hd.
      * apply Forall_app in Hle' as [? ?]. apply Forall_app. split; [done|]. by constructor.
      * split; [done|]. rewrite G2, Hp. solve_Permutation.
Qed.

Lemma reorder_spec rnd l :
  scored (fd_rtd_candidate_reorder rnd l) ∧ fd_rtd_candidate_reorder rnd l ≡ₚ l.
Proof.
  destruct (reorder_loop_spec rnd l 0 (-1) [] []) as [H1 H2]; [constructor..|]. split; [done|].
  unfold fd_rtd_candidate_reorder. by rewrite H2, app_nil_r.
Qed.

(** [fd_rtd_candidate_reorder] puts the candidates in the order of their
    scores, the best last, and loses and adds none, whatever the random numbers
    that place candidates of the same score. *)
Theorem candidates_reordered rnd l :
  StronglySorted by_score (fd_rtd_candidate_reorder rnd l) ∧ fd_rtd_candidate_reorder rnd l ≡ₚ l.
Proof. apply reorder_spec. Qed.
