(* ===== verification/FdPeers.v ===== *)
(** The list of peers of a Diameter node (libfdcore/peers.c): adding a peer and
    searching one by its identity, with or without regard to case.  What a peer
    holds besides its identity is left open. *)

From stdpp Require Import base list sorting sets.
From Stdlib Require Import ZArith Lia.
From S2P Require Import Prelude FdMessages FdDictionary FdDictInv FdLoops FdRtData.
Open Scope Z_scope.

(** [enum peer_state]. *)
Inductive peer_state :=
| STATE_NEW | STATE_OPEN | STATE_CLOSED | STATE_CLOSING | STATE_WAITCNXACK | STATE_WAITCNXACK_ELEC
| STATE_WAITCEA | STATE_OPEN_HANDSHAKE | STATE_SUSPECT | STATE_REOPEN | STATE_OPEN_NEW
| STATE_CLOSING_GRACE | STATE_ZOMBIE.

#[export] Instance peer_state_eq_dec : EqDecision peer_state.
Proof. solve_decision. Defined.

Section Peers.
Context {peer : Type} (pi_diamid : peer → os0).
Implicit Types (p : peer) (l : list peer) (id : os0).

(** The loop of [fd_peer_add] over [fd_g_peers]: [inf] are the peers up to
    [li_inf], [mid] the ones between it and the place of the search.  [None] is
    EEXIST; the checks of the arguments before it, and a failure of
    [fd_p_expi_update] after it, are not part of this. *)
Fixpoint add_loop p (inf mid l : list peer) : option (list peer) :=
  match l with
  | [] => Some (inf ++ p :: mid)
  | next :: l' =>
      let (cmp, cont) := fd_os_almostcasesrch (pi_diamid p) (pi_diamid next) in
      if cmp =? 0 then None
      else
        let inf' := if 0 <? cmp then inf ++ mid ++ [next] else inf in
        let mid' := if 0 <? cmp then [] else mid ++ [next] in
        if cont then add_loop p inf' mid' l' else Some (inf' ++ p :: mid' ++ l')
  end.

Definition fd_peer_add p l : option (list peer) := add_loop p [] [] l.

(** [fd_peer_getbyid] with [igncase] set. *)
Fixpoint getbyid_igncase id l : option peer :=
  match l with
  | [] => None
  | next :: l =>
      let (cmp, cont) := fd_os_almostcasesrch id (pi_diamid next) in
      if cmp =? 0 then Some next
      else if cont then getbyid_igncase id l else None
  end.

(** ... and without it. *)
Definition getbyid_exact id l : option peer :=
  match (walk_next (λ next, negb (0 <? fd_os_cmp id (pi_diamid next))) l).2 with
  | next :: _ => if fd_os_cmp id (pi_diamid next) =? 0 then Some next else None
  | [] => None
  end.

(** The parameters must not be empty: [None] is EINVAL. *)
Definition fd_peer_getbyid id (igncase : bool) l : option (option peer) :=
  if (length id =? 0)%nat then None
  else Some (if igncase then getbyid_igncase id l else getbyid_exact id l).

(** * The invariant *)

Definition peer_lt p q : Prop := fd_os_cmp (pi_diamid p) (pi_diamid q) < 0.

#[export] Instance peer_lt_trans : Transitive peer_lt.
Proof. unfold peer_lt. intros a b c. rewrite !fd_os_cmp_lex. apply lex_trans. Qed.

(** Ordered, and distinct up to case. *)
Definition peers_ok l : Prop :=
  StronglySorted peer_lt l
  ∧ ∀ p q, p ∈ l → q ∈ l → caseless (pi_diamid p) (pi_diamid q) → pi_diamid p = pi_diamid q.

(** Identities that differ by more than case are compared as by [fd_os_cmp]. *)
Lemma almostcase_loop_sign a : ∀ b res,
  length a = length b → almostcase_loop a b res ≠ 0 →
  almostcase_loop a b res = if res =? 0 then memcmp a b else res.
Proof.
  induction a as [|x a IH]; intros [|y b] res Hl Hn; try done. injection Hl as Hl. cbn in *.
  unfold ORDER_scalar. destruct (Z.eqb_spec x y) as [->|Hxy]; [by apply IH|].
  destruct (Z.eqb_spec (asciitolower x) (asciitolower y)).
  - rewrite IH by done. destruct (Z.eqb_spec res 0) as [->|]; [|by rewrite (proj2 (Z.eqb_neq res 0))].
    destruct (Z.ltb_spec x y); cbn; [done|]. destruct (Z.ltb_spec y x); [done|lia].
  - destruct (Z.eqb_spec res 0) as [->|]; [|done].
    destruct (Z.ltb_spec x y); [done|]. destruct (Z.ltb_spec y x); [done|lia].
Qed.

Lemma almostcase_cmp a b :
  (fd_os_almostcasesrch a b).1 ≠ 0 → (fd_os_almostcasesrch a b).1 = fd_os_cmp a b.
Proof.
  unfold fd_os_almostcasesrch, fd_os_cmp. repeat case_match; cbn; try done. intros Hn.
  apply Nat.ltb_ge in H, H0. rewrite almostcase_loop_sign by (done || lia). done.
Qed.

(** What the loop keeps: the peers visited are smaller before [li_inf] and
    larger after it. *)
Lemma add_loop_spec p l : ∀ inf mid l',
  peers_ok (inf ++ mid ++ l) →
  Forall (λ q, peer_lt q p) inf → Forall (λ q, peer_lt p q) mid →
  Forall (λ q, ¬ caseless (pi_diamid p) (pi_diamid q)) (inf ++ mid) →
  add_loop p inf mid l = Some l' →
  peers_ok l' ∧ ∀ q, q ∈ l' ↔ q ∈ inf ++ mid ++ l ∨ q = p.
Proof.
  assert (done_ok : ∀ inf rest, peers_ok (inf ++ rest) → Forall (λ q, peer_lt q p) inf →
    Forall (λ q, peer_lt p q) rest → Forall (λ q, ¬ caseless (pi_diamid p) (pi_diamid q)) (inf ++ rest) →
    peers_ok (inf ++ p :: rest) ∧ ∀ q, q ∈ inf ++ p :: rest ↔ q ∈ inf ++ rest ∨ q = p).
  { intros inf rest [Hs Hd] Hi Hr Hc. split; [split|].
    - by apply sorted_insert.
    - rewrite Forall_forall in Hc.
      assert (He : ∀ q, q ∈ inf ++ p :: rest → q = p ∨ q ∈ inf ++ rest) by (intros q; rewrite !elem_of_app, elem_of_cons; tauto).
      intros q r [->|Hq]%He [->|Hr']%He Hqr; [done| | |by apply Hd].
      + by destruct (Hc r Hr').
      + destruct (Hc q Hq). by symmetry.
    - intros q. rewrite !elem_of_app, elem_of_cons. tauto. }
  induction l as [|next l IH]; intros inf mid l' Hok Hi Hm Hc; cbn [add_loop].
  - intros [= <-]. rewrite app_nil_r in *. by apply done_ok.
  - destruct (fd_os_almostcasesrch _ _) as [cmp cont] eqn:E.
    pose proof (almostcasesrch_match (pi_diamid p) (pi_diamid next)) as Hmatch.
    pose proof (almostcase_cmp (pi_diamid p) (pi_diamid next)) as Hcmp.
    pose proof (almostcasesrch_further (pi_diamid p) (pi_diamid next)) as Hfur. rewrite E in Hmatch, Hcmp, Hfur.
    cbn in Hmatch, Hcmp, Hfur. destruct (Z.eqb_spec cmp 0) as [->|Hn]; [done|]. specialize (Hcmp Hn).
    assert (Hnc : ¬ caseless (pi_diamid p) (pi_diamid next)) by (rewrite <- Hmatch; done).
    assert (Hsm : StronglySorted peer_lt (mid ++ next :: l)) by (destruct Hok as [Hs _]; by apply sorted_app_inv in Hs as [_ ?]).
    apply Forall_app in Hc as [Hc1 Hc2].
    destruct (Z.ltb_spec 0 cmp) as [Hpos|Hneg].
    + (* next is smaller: nothing larger came before it *)
      assert (Hnp : peer_lt next p) by (unfold peer_lt; apply fd_os_cmp_flip; lia).
      assert (mid = []) as ->.
      { destruct mid as [|m mid]; [done|]. exfalso. apply Forall_cons in Hm as [Hm _].
        apply StronglySorted_inv in Hsm as [_ Hx]. rewrite Forall_forall in Hx.
        assert (peer_lt m next) by (apply Hx; set_solver).
        assert (Hpp : peer_lt p p) by (etrans; [exact Hm|]; by etrans).
        unfold peer_lt in Hpp. rewrite (proj2 (fd_os_cmp_eq _ _) eq_refl) in Hpp. lia. }
      assert (cont = true) as ->.
      { destruct cont; [done|]. assert (length (pi_diamid p) < length (pi_diamid next))%nat by (by apply Hfur).
        apply fd_os_cmp_length in Hnp. lia. }
      cbn [app] in *. intros H. apply IH in H; cbn [app] in *.
      * rewrite <- app_assoc in H. cbn [app] in H. exact H.
      * by rewrite <- app_assoc.
      * apply Forall_app. split; [done|]. by constructor.
      * constructor.
      * rewrite app_nil_r. apply Forall_app. split; [done|]. by constructor.
    + assert (Hpn : peer_lt p next) by (unfold peer_lt; lia). destruct cont.
      * intros H. apply IH in H; rewrite <- ?app_assoc in *; cbn [app] in *; try done.
        -- apply Forall_app. split; [done|]. by constructor.
        -- apply Forall_app. split; [done|]. apply Forall_app. split; [done|]. by constructor.
      * intros [= <-]. rewrite <- app_assoc. cbn [app]. apply done_ok; [done|done| |].
        -- apply Forall_app. split; [done|]. apply sorted_app_inv in Hsm as [_ Hs].
           apply sorted_after; [apply _|done|]. intros q [= <-]. done.
        -- apply Forall_app. split; [done|]. apply Forall_app. split; [done|]. constructor; [done|].
           apply sorted_app_inv in Hsm as [_ [_ Hs]%StronglySorted_inv]. eapply Forall_impl; [exact Hs|].
           intros q Hq%fd_os_cmp_length Hcl%caseless_length.
           assert (length (pi_diamid p) < length (pi_diamid next))%nat by (by apply Hfur). lia.
Qed.

(** A duplicate, and only a duplicate, is refused. *)
Lemma add_loop_eexist p l : ∀ inf mid,
  StronglySorted peer_lt l → add_loop p inf mid l = None ↔ ∃ q, q ∈ l ∧ caseless (pi_diamid p) (pi_diamid q).
Proof.
  induction l as [|next l IH]; intros inf mid Hs; cbn [add_loop]; [split; [done|set_solver]|].
  destruct (fd_os_almostcasesrch _ _) as [cmp cont] eqn:E.
  pose proof (almostcasesrch_match (pi_diamid p) (pi_diamid next)) as Hmatch.
  pose proof (almostcasesrch_further (pi_diamid p) (pi_diamid next)) as Hfur. rewrite E in Hmatch, Hfur. cbn in Hmatch, Hfur.
  apply StronglySorted_inv in Hs as [Hs Hn]. destruct (Z.eqb_spec cmp 0) as [->|Hne].
  { split; [intros _|done]. exists next. split; [by left|by apply Hmatch]. }
  assert (Hnc : ¬ caseless (pi_diamid p) (pi_diamid next)) by (rewrite <- Hmatch; done).
  destruct cont.
  - rewrite IH by done. split; [intros (q & ? & ?); exists q; set_solver|].
    intros (q & [->|?]%elem_of_cons & ?); [done|eauto].
  - split; [done|]. intros (q & [->|Hq]%elem_of_cons & Hc); [done|].
    rewrite Forall_forall in Hn. specialize (Hn q Hq). apply fd_os_cmp_length in Hn. apply caseless_length in Hc.
    assert (length (pi_diamid p) < length (pi_diamid next))%nat by (by apply Hfur). lia.
Qed.

Lemma peers_unique l p q : StronglySorted peer_lt l → p ∈ l → q ∈ l → pi_diamid p = pi_diamid q → p = q.
Proof.
  intros Hs. induction Hs as [|r l Hs IH Hr]; [set_solver|]. rewrite Forall_forall in Hr.
  assert (Hirr : ∀ a b, peer_lt a b → pi_diamid a ≠ pi_diamid b).
  { unfold peer_lt. intros a b Hab He. rewrite (proj2 (fd_os_cmp_eq _ _) He) in Hab. lia. }
  intros [->|Hp]%elem_of_cons [->|Hq]%elem_of_cons He; [done| | |by apply IH].
  - by destruct (Hirr r q (Hr q Hq)).
  - by destruct (Hirr r p (Hr p Hp)).
Qed.

Lemma getbyid_igncase_spec id l p :
  peers_ok l → getbyid_igncase id l = Some p ↔ p ∈ l ∧ caseless id (pi_diamid p).
Proof.
  intros [Hs Hd]. induction l as [|next l IH]; cbn [getbyid_igncase]; [split; [done|set_solver]|].
  destruct (fd_os_almostcasesrch _ _) as [cmp cont] eqn:E.
  pose proof (almostcasesrch_match id (pi_diamid next)) as Hmatch.
  pose proof (almostcasesrch_further id (pi_diamid next)) as Hfur. rewrite E in Hmatch, Hfur. cbn in Hmatch, Hfur.
  pose proof (StronglySorted_inv Hs) as [Hs' Hn]. destruct (Z.eqb_spec cmp 0) as [->|Hne].
  { assert (Hc : caseless id (pi_diamid next)) by (by apply Hmatch). split.
    - intros [= <-]. split; [by left|done].
    - intros [Hp Hcp]. f_equal. apply (peers_unique (next :: l)); [done|by left|done|].
      apply Hd; [by left|done|]. by rewrite <- Hc. }
  assert (Hnc : ¬ caseless id (pi_diamid next)) by (rewrite <- Hmatch; done).
  destruct cont.
  - rewrite IH; [|done|intros q r Hq Hr; apply Hd; by right].
    split; [intros [? ?]; split; [by right|done]|]. by intros [[->|?]%elem_of_cons ?].
  - split; [done|]. intros [[->|Hp]%elem_of_cons Hc]; [done|].
    rewrite Forall_forall in Hn. specialize (Hn p Hp). apply fd_os_cmp_length in Hn. apply caseless_length in Hc.
    assert (length id < length (pi_diamid next))%nat by (by apply Hfur). lia.
Qed.

Lemma getbyid_exact_spec id l p :
  StronglySorted peer_lt l → getbyid_exact id l = Some p ↔ p ∈ l ∧ pi_diamid p = id.
Proof.
  intros Hs. unfold getbyid_exact. destruct (walk_next _ l) as [l1 l2] eqn:E.
  apply walk_next_spec in E as (-> & H1 & H2). cbn [snd].
  assert (Hno : ∀ q, q ∈ l1 → pi_diamid q ≠ id).
  { rewrite Forall_forall in H1. intros q Hq He. specialize (H1 q Hq). apply negb_false_iff, Z.ltb_lt in H1.
    rewrite (proj2 (fd_os_cmp_eq id (pi_diamid q))) in H1 by done. lia. }
  destruct l2 as [|next l2]; [split; [done|]; rewrite app_nil_r; intros [Hp He]; by destruct (Hno p Hp)|].
  destruct (Z.eqb_spec (fd_os_cmp id (pi_diamid next)) 0) as [Hz|Hz].
  - apply fd_os_cmp_eq in Hz. split; [intros [= <-]; split; [set_solver|done]|].
    intros [Hp He]. f_equal. apply (peers_unique (l1 ++ next :: l2)); [done|set_solver|done|congruence].
  - split; [done|]. intros [[Hp|[->|Hp]%elem_of_cons]%elem_of_app He]; [by destruct (Hno p Hp)| |].
    + by rewrite (proj2 (fd_os_cmp_eq id (pi_diamid next))) in Hz.
    + specialize (H2 next eq_refl). apply negb_true_iff, Z.ltb_ge in H2.
      apply sorted_app_inv in Hs as [_ [_ Hn]%StronglySorted_inv]. rewrite Forall_forall in Hn.
      specialize (Hn p Hp). unfold peer_lt in Hn. rewrite He in Hn. apply fd_os_cmp_flip in Hn. lia.
Qed.

(** The lists the node can have: peers are added, and unlinked. *)
Inductive registry : list peer → Prop :=
| registry_empty : registry []
| registry_add p l l' : registry l → fd_peer_add p l = Some l' → registry l'
| registry_unlink l1 p l2 : registry (l1 ++ p :: l2) → registry (l1 ++ l2).

Lemma peers_ok_sublist l k : k `sublist_of` l → peers_ok l → peers_ok k.
Proof.
  intros Hk [Hs Hd]. split; [by eapply sorted_sublist|]. intros p q Hp Hq.
  apply Hd; by apply (sublist_subseteq k l).
Qed.

Lemma registry_ok l : registry l → peers_ok l.
Proof.
  induction 1 as [|p l l' _ IH Ha|l1 p l2 _ IH].
  - split; [constructor|set_solver].
  - by apply (add_loop_spec p l [] [] l') in Ha as [Hok _].
  - eapply peers_ok_sublist; [|exact IH]. apply sublist_app; [done|by constructor].
Qed.

(** C37: In every list of peers the node can build, adding a peer fails exactly
    if one with the same identity up to case is there; when it succeeds, the
    list gains this peer and no other, and both searches find it; and a search,
    which ends early, finds a peer exactly if the list has it. *)
Theorem peers_registered l p :
  registry l →
  (fd_peer_add p l = None ↔ ∃ q, q ∈ l ∧ caseless (pi_diamid p) (pi_diamid q))
  ∧ (∀ l', fd_peer_add p l = Some l' →
       (∀ q, q ∈ l' ↔ q ∈ l ∨ q = p)
       ∧ getbyid_exact (pi_diamid p) l' = Some p ∧ getbyid_igncase (pi_diamid p) l' = Some p)
  ∧ (∀ id q, getbyid_exact id l = Some q ↔ q ∈ l ∧ pi_diamid q = id)
  ∧ (∀ id q, getbyid_igncase id l = Some q ↔ q ∈ l ∧ caseless id (pi_diamid q)).
Proof.
  intros Hr. pose proof (registry_ok l Hr) as Hok. split_and!.
  - apply add_loop_eexist, Hok.
  - intros l' Ha. pose proof (registry_ok l' (registry_add p l l' Hr Ha)) as Hok'.
    apply (add_loop_spec p l [] [] l') in Ha as [_ Hin]; [|done|constructor..].
    assert (p ∈ l') by (apply Hin; by right). split; [done|].
    split; [by apply getbyid_exact_spec; [apply Hok'|]|by apply getbyid_igncase_spec].
  - intros. apply getbyid_exact_spec, Hok.
  - intros. by apply getbyid_igncase_spec.
Qed.

End Peers.

(** Peers that are nothing but their identity: "b", "A", "ab". *)
Definition sample_peers : list os0 := [[65]; [98]; [97; 98]].

Lemma sample_registry : registry id sample_peers.
Proof.
  apply (registry_add id [97; 98] [[65]; [98]]); [|reflexivity].
  apply (registry_add id [65] [[98]]); [|reflexivity].
  apply (registry_add id [98] []); [constructor|reflexivity].
Qed.

Lemma peers_registered_witness :
  registry id sample_peers ∧ fd_peer_add id [97] sample_peers = None
  ∧ (fd_peer_add id [97] sample_peers = None ↔ ∃ q, q ∈ sample_peers ∧ caseless [97] q).
Proof.
  split; [exact sample_registry|]. split; [reflexivity|].
  exact (proj1 (peers_registered id sample_peers [97] sample_registry)).
Defined.
