(* ===== verification/FdRouting.v ===== *)
(** The routing of Diameter messages (libfdcore/routing_dispatch.c): what happens
    to a received message ([msg_rt_in]), to which peer a request is sent
    ([msg_rt_out]), the callbacks that score the peers, and decorated network
    access identifiers.

    Messages are those of FdMessages, parsed by FdParse with the dictionary;
    the registered callbacks of extensions are arguments.  The error answer of
    [return_error] is the value [ReturnError] with its code. *)

From stdpp Require Import base list strings sorting sets.
From Stdlib Require Import ZArith Lia.
From S2P Require Import Prelude FdDictionary FdLoops FdApps FdRtData FdPeers FdMessages FdParse.
Open Scope Z_scope.

Definition AC_USER_NAME : Z := 1.
Definition AC_ROUTE_RECORD : Z := 282.
Definition AC_DESTINATION_REALM : Z := 283.
Definition AC_DESTINATION_HOST : Z := 293.
Definition AI_RELAY : Z := 0xffffffff.

Definition FD_SCORE_NO_DELIVERY : Z := -70.
Definition FD_SCORE_INI : Z := -2.
Definition FD_SCORE_REALM : Z := 15.
Definition FD_SCORE_FINALDEST : Z := 100.

Definition RT_FWD_REQ : Z := 1.
Definition RT_FWD_ALL : Z := 2.
Definition RT_FWD_ANS : Z := 3.

(** What routing reads of the configuration and of a peer. *)
Record rt_config := RtConfig {
  cnf_diamid : os0;
  cnf_diamrlm : os0;
  cnf_apps : list fd_app;
  no_fwd : bool
}.

Record rt_peer := RtPeer {
  rp_diamid : os0;
  rp_state : peer_state;
  pir_realm : option os0;
  pir_relay : bool;
  pir_apps : list fd_app
}.

(** * Decorated network access identifiers *)

(** [nai_get_indexes] from the index [i] on. *)
Fixpoint nai_scan (un : list Z) (i excl at_idx : nat) : nat * nat :=
  match un with
  | [] => (excl, at_idx)
  | c :: un =>
      if c =? 33 (* ! *) then nai_scan un (S i) (if (excl =? 0)%nat then i else excl) at_idx
      else if c =? 64 (* @ *) then (excl, i)
      else if c =? 0 then (excl, at_idx)
      else if c =? 92 (* \ *) then
        match un with
        | [] => (excl, at_idx)
        | _ :: un => nai_scan un (S (S i)) excl at_idx
        end
      else nai_scan un (S i) excl at_idx
  end.

Definition nai_get_indexes (un : list Z) : nat * nat := nai_scan un 0 0 0.

Inductive nai_result :=
| NotNai
| Nai (un dr : list Z)
| NaiOverrun.   (** a copy outside of the old or the new value *)

(** [memcpy] of [n] octets from an offset of a value. *)
Definition copy_from (off n : nat) (s : list Z) : option (list Z) :=
  if (off + n <=? length s)%nat then Some (take n (drop off s)) else None.

Definition process_decorated_NAI (un : list Z) : nai_result :=
  let (sep_idx, at_idx) := nai_get_indexes un in
  if (sep_idx =? 0)%nat || (at_idx <? sep_idx)%nat || negb (fd_os_is_valid_DiameterIdentity (take sep_idx un))
  then NotNai
  else
    match copy_from (S sep_idx) (at_idx - sep_idx) un, copy_from 0 sep_idx un with
    | Some user, Some home =>
        if (at_idx - sep_idx + sep_idx <=? at_idx)%nat then Nai (user ++ home) home else NaiOverrun
    | _, _ => NaiOverrun
    end.

(** * Registered callbacks *)

(** [struct rt_hdl]; [order] is the direction or the priority. *)
Record rt_hdl (cb : Type) := RtHdl { order : Z; rt_cb : cb }.
Arguments RtHdl {cb}.
Arguments order {cb}.
Arguments rt_cb {cb}.

Definition add_ordered {cb} (new : rt_hdl cb) (l : list (rt_hdl cb)) : list (rt_hdl cb) :=
  let (l1, l2) := walk_next (λ h, order new <=? order h) l in l1 ++ new :: l2.

(** [None] is EINVAL. *)
Definition fd_rt_fwd_register {cb} (f : cb) (dir : Z) (l : list (rt_hdl cb)) : option (list (rt_hdl cb)) :=
  if (RT_FWD_REQ <=? dir) && (dir <=? RT_FWD_ANS) then Some (add_ordered (RtHdl dir f) l) else None.

Definition fd_rt_out_register {cb} (f : cb) (priority : Z) (l : list (rt_hdl cb)) : list (rt_hdl cb) :=
  add_ordered (RtHdl priority f) l.

(** A forwarding callback returns its result and the message, if it is still there. *)
Abbreviation fwd_cb := (msg → Z * option msg).

(** What an output callback leaves: an error, or the message, if it is still
    there, and the candidates; or an ASSERT failed. *)
Inductive out_result :=
| CbOk (m : option msg) (l : list rtd_candidate)
| CbError (e : errno)
| CbAbort.

Abbreviation out_cb := (msg → list rtd_candidate → out_result).

Section Routing.
Context {D : Dictionary}.

(** [fd_msg_parse_dict] on an AVP, which nests no deeper than it is long. *)
Definition parse_avp (a : avp) : FdMessages.result avp :=
  parsedict_do_avp (S (Z.to_nat (avp_len (data_of a)))) false a.

Definition base_avp (code : Z) (a : avp) : bool :=
  negb (has_flag (avp_flags (data_of a)) AVP_FLAG_VENDOR) && (avp_code (data_of a) =? code).

(** The octets of the value, after the ASSERT that there is one. *)
Definition os_of (a : avp) : option (list Z) :=
  match avp_val (data_of a) with Some (OctetString s) => Some s | _ => None end.

(** * Received messages *)

Inductive status := UNKNOWN | YES | NO.

#[export] Instance status_eq_dec : EqDecision status.
Proof. solve_decision. Defined.

(** Up to case, as received from the network. *)
Definition same_id (a b : os0) : bool := (fd_os_almostcasesrch a b).1 =? 0.

Definition yes_no (b : bool) : status := if b then YES else NO.

(** What the scan of a request found; [un] and [dr] are positions of AVPs. *)
Record rt_info := RtInfo {
  is_dest_host : status;
  is_dest_realm : status;
  ri_un : option nat;
  ri_dr : option nat
}.

Inductive routed :=
| ReturnError (error_code : string)
| PostLocal (m : msg)
| PostIncoming (m : msg)
| PostOutgoing (m : msg)
| DroppedByCallback
| RtFailed (e : errno)
| RtAborted.

Definition four_codes (a : avp) : bool :=
  base_avp AC_DESTINATION_HOST a || base_avp AC_DESTINATION_REALM a || base_avp AC_USER_NAME a
  || base_avp AC_ROUTE_RECORD a.

(** One AVP of the scan, the [i]th: [inl] ends the processing. *)
Definition scan_avp (cfg : rt_config) (i : nat) (info : rt_info) (a : avp) : routed + (avp * rt_info) :=
  if negb (four_codes a) then inr (a, info)
  else
    match parse_avp a with
    | Err e code => inl (if decide (code = ""%string) then RtFailed e else ReturnError code)
    | Ok a' =>
        match os_of a' with
        | None => inl RtAborted
        | Some v =>
            if base_avp AC_DESTINATION_HOST a then
              inr (a', RtInfo (yes_no (same_id v (cnf_diamid cfg))) (is_dest_realm info) (ri_un info) (ri_dr info))
            else if base_avp AC_DESTINATION_REALM a then
              inr (a', RtInfo (is_dest_host info) (yes_no (same_id v (cnf_diamrlm cfg))) (ri_un info) (Some i))
            else if base_avp AC_USER_NAME a then
              inr (a', RtInfo (is_dest_host info) (is_dest_realm info) (Some i) (ri_dr info))
            else if same_id v (cnf_diamid cfg) then inl (ReturnError "DIAMETER_LOOP_DETECTED")
            else inr (a', info)
        end
    | Crash | NoFuel => inl RtAborted
    end.

Definition all_found (info : rt_info) : bool :=
  negb (bool_decide (is_dest_host info = UNKNOWN)) && negb (bool_decide (is_dest_realm info = UNKNOWN))
  && bool_decide (is_Some (ri_un info)).

(** The AVPs of the message after the scan, and what it found. *)
Fixpoint scan (cfg : rt_config) (i : nat) (info : rt_info) (l : list avp) : routed + (list avp * rt_info) :=
  match l with
  | [] => inr ([], info)
  | a :: l =>
      match scan_avp cfg i info a with
      | inl r => inl r
      | inr (a', info') =>
          if all_found info' then inr (a' :: l, info')
          else
            match scan cfg (S i) info' l with
            | inl r => inl r
            | inr (l', info'') => inr (a' :: l', info'')
            end
      end
  end.

Definition set_children (l : list avp) (m : msg) : msg :=
  {| msg_public := msg_public m; msg_model := msg_model m; msg_mnf_code := msg_mnf_code m;
     msg_mnf_flags := msg_mnf_flags m; msg_children := l |}.

Definition set_os (s : list Z) (a : avp) : avp :=
  let 'Avp d c := a in Avp (set_data (Some (OctetString s)) (avp_source d) (avp_rawdata d) d) c.

(** The registered callbacks, in order for requests and in reverse order for
    answers, until one takes the message. *)
Fixpoint call_fwd (is_req : bool) (l : list (rt_hdl fwd_cb)) (m : msg) : option msg :=
  match l with
  | [] => Some m
  | rh :: l =>
      if is_req && (RT_FWD_ALL <? order rh) then Some m
      else if negb is_req && (order rh <? RT_FWD_ALL) then Some m
      else
        match rt_cb rh m with
        | (0, Some m') => call_fwd is_req l m'
        | _ => None
        end
  end.

Definition forward (is_req to_peer : bool) (fwd : list (rt_hdl fwd_cb)) (m : msg) : routed :=
  match call_fwd is_req (if is_req then fwd else reverse fwd) m with
  | None => DroppedByCallback
  | Some m' => if to_peer then PostOutgoing m' else PostLocal m'
  end.

(** The decision on a request after the scan. *)
Definition decide_request (cfg : rt_config) (fwd : list (rt_hdl fwd_cb)) (info : rt_info) (m : msg) : routed :=
  let local_app := match fd_app_check (cnf_apps cfg) (msg_appl (msg_public m)) with Some _ => true | None => false end in
  if decide (is_dest_realm info = UNKNOWN) then ReturnError "DIAMETER_COMMAND_UNSUPPORTED"
  else if decide (is_dest_host info = YES) then
    if local_app then PostLocal m else ReturnError "DIAMETER_APPLICATION_UNSUPPORTED"
  else if bool_decide (is_dest_host info = NO) || bool_decide (is_dest_realm info = NO) then
    if no_fwd cfg then ReturnError "DIAMETER_UNABLE_TO_DELIVER" else forward true true fwd m
  else
    let nai :=
      match ri_un info, ri_dr info with
      | Some u, Some d =>
          match msg_children m !! u ≫= os_of with
          | Some un =>
              match process_decorated_NAI un with
              | NotNai => Some None
              | Nai un' dr' => Some (Some (alter (set_os dr') d (alter (set_os un') u (msg_children m))))
              | NaiOverrun => None
              end
          | None => None
          end
      | _, _ => Some None
      end in
    match nai with
    | None => RtAborted
    | Some (Some l) => PostIncoming (set_children l m)
    | Some None =>
        if local_app then PostLocal m
        else if no_fwd cfg then ReturnError "DIAMETER_APPLICATION_UNSUPPORTED"
        else forward true true fwd m
    end.

(** [qry_src]: for an answer, the peer its request came from, if any. *)
Definition msg_rt_in (cfg : rt_config) (fwd : list (rt_hdl fwd_cb)) (qry_src : option os0) (m : msg) : routed :=
  let h := msg_public m in
  let is_req := has_flag (msg_flags h) CMD_FLAG_REQUEST in
  let is_err := has_flag (msg_flags h) CMD_FLAG_ERROR in
  if is_req && is_err then ReturnError "DIAMETER_INVALID_HDR_BITS"
  else if is_req then
    if (msg_appl h =? 0) || (msg_appl h =? AI_RELAY) then ReturnError "DIAMETER_APPLICATION_UNSUPPORTED"
    else
      match scan cfg 0 (RtInfo UNKNOWN UNKNOWN None None) (msg_children m) with
      | inl r => r
      | inr (l, info) => decide_request cfg fwd info (set_children l m)
      end
  else
    match qry_src with
    | None => if negb is_err then PostLocal m else forward false false fwd m
    | Some _ => forward false true fwd m
    end.

(** * Sent messages *)

(** [fd_peer_getbyid] with the case, and the state of the peer; a peer that is
    not there has no state. *)
Definition peer_by_id (peers : list rt_peer) (id : os0) : option rt_peer := getbyid_exact rp_diamid id peers.

Definition is_open (peers : list rt_peer) (id : os0) : bool :=
  match peer_by_id peers id with Some p => bool_decide (rp_state p = STATE_OPEN) | None => false end.

Definition add_score (n : Z) (c : rtd_candidate) : rtd_candidate := set_score (score c + n) c.

Definition dont_send_if_no_common_app (peers : list rt_peer) (m : msg) (l : list rtd_candidate) : out_result :=
  let appl := msg_appl (msg_public m) in
  if appl =? 0 then CbOk (Some m) l
  else
    CbOk (Some m)
      ((λ c, match peer_by_id peers (diamid c) with
             | Some p =>
                 if negb (pir_relay p) && negb (bool_decide (is_Some (fd_app_check (pir_apps p) appl)))
                 then add_score FD_SCORE_NO_DELIVERY c else c
             | None => c
             end) <$> l).

(** Destination-Host and Destination-Realm of a message, whose AVPs are parsed
    until both are found; [inl] is an error, or a failed ASSERT. *)
Fixpoint find_destination (dh dr : option (list Z)) (l : list avp)
    : option errno + (list avp * option (list Z) * option (list Z)) :=
  match l with
  | [] => inr ([], dh, dr)
  | a :: l =>
      let stop (a' : avp) (dh dr : option (list Z)) :=
        match dh, dr with
        | Some _, Some _ => inr (a' :: l, dh, dr)
        | _, _ =>
            match find_destination dh dr l with
            | inl r => inl r
            | inr (l', dh', dr') => inr (a' :: l', dh', dr')
            end
        end in
      if base_avp AC_DESTINATION_HOST a || base_avp AC_DESTINATION_REALM a then
        match parse_avp a with
        | Ok a' =>
            match os_of a' with
            | Some v => if base_avp AC_DESTINATION_HOST a then stop a' (Some v) dr else stop a' dh (Some v)
            | None => inl None
            end
        | Err e _ => inl (Some e)
        | Crash | NoFuel => inl None
        end
      else stop a dh dr
  end.

(** The score of one candidate; [None] is the failed ASSERT on a missing realm. *)
Definition destination_score (dh dr : option (list Z)) (c : rtd_candidate) : option rtd_candidate :=
  if match dh with Some h => same_id h (diamid c) | None => false end
  then Some (add_score FD_SCORE_FINALDEST c)
  else
    match dr, realm c with
    | None, _ => Some c
    | Some _, None => None
    | Some r, Some cr => Some (if same_id r cr then add_score FD_SCORE_REALM c else c)
    end.

Definition score_destination_avp (m : msg) (l : list rtd_candidate) : out_result :=
  match find_destination None None (msg_children m) with
  | inl None => CbAbort
  | inl (Some e) => CbError e
  | inr (children, dh, dr) =>
      match mapM (destination_score dh dr) l with
      | Some l' => CbOk (Some (set_children children m)) l'
      | None => CbAbort
      end
  end.

(** The callbacks [fd_rtdisp_init] registers, after those of the extensions. *)
Definition default_callbacks (peers : list rt_peer) (ext : list (rt_hdl out_cb)) : list (rt_hdl out_cb) :=
  fd_rt_out_register score_destination_avp 10 (fd_rt_out_register (dont_send_if_no_common_app peers) 10 ext).

Inductive sent :=
| SentTo (id : os0) (m : msg) (rtd : rt_data)
| SendError (error_code : string) (rtd : rt_data)
| SendDropped
| SendFailed (e : errno)
| SendAborted.

(** The peers in the list of active peers become the candidates. *)
Definition initial_candidates (active : list rt_peer) : option rt_data :=
  foldl (λ acc p, rtd ← acc; fd_rtd_candidate_add rtd (rp_diamid p) (pir_realm p)) (Some fd_rtd_init) active.

(** The peers a message has been at leave the candidates; [inl] is an error with
    its code, or a failed ASSERT. *)
Fixpoint drop_route_records (rtd : rt_data) (l : list avp) : option (errno * string) + (list avp * rt_data) :=
  match l with
  | [] => inr ([], rtd)
  | a :: l =>
      if base_avp AC_ROUTE_RECORD a then
        match parse_avp a with
        | Ok a' =>
            match os_of a' with
            | Some v =>
                match drop_route_records (fd_rtd_candidate_del rtd v) l with
                | inl r => inl r
                | inr (l', rtd') => inr (a' :: l', rtd')
                end
            | None => inl None
            end
        | Err e code => inl (Some (e, code))
        | Crash | NoFuel => inl None
        end
      else
        match drop_route_records rtd l with
        | inl r => inl r
        | inr (l', rtd') => inr (a :: l', rtd')
        end
  end.

(** The callbacks, the last of the list first. *)
Fixpoint call_out (l : list (rt_hdl out_cb)) (m : msg) (cands : list rtd_candidate) : out_result :=
  match l with
  | [] => CbOk (Some m) cands
  | rh :: l =>
      match rt_cb rh m cands with
      | CbOk (Some m') cands' => call_out l m' cands'
      | r => r
      end
  end.

(** The candidates are tried from the last one back, while their score is not
    negative; [send] tells whether [fd_out_send] succeeds. *)
Fixpoint try_send (peers : list rt_peer) (send : os0 → bool) (l : list rtd_candidate) : option os0 :=
  match l with
  | [] => None
  | c :: l =>
      if score c <? 0 then None
      else if is_open peers (diamid c) && send (diamid c) then Some (diamid c)
      else try_send peers send l
  end.

(** [msg_rt_out] for a request; [rtd] is the routing data of an earlier attempt. *)
Definition msg_rt_out_request (active peers : list rt_peer) (out : list (rt_hdl out_cb)) (rnd : nat → bool)
    (send : os0 → bool) (rtd : option rt_data) (m : msg) : sent :=
  let prepared : sent + (msg * rt_data) :=
    match rtd with
    | Some rtd => inr (m, rtd)
    | None =>
        match initial_candidates active with
        | None => inl (SendFailed EINVAL)
        | Some rtd =>
            match drop_route_records rtd (msg_children m) with
            | inl None => inl SendAborted
            | inl (Some (e, code)) => inl (if decide (code = ""%string) then SendFailed e else SendError code rtd)
            | inr (l, rtd) => inr (set_children l m, rtd)
            end
        end
    end in
  match prepared with
  | inl r => r
  | inr (m, rtd) =>
      let rtd := fd_rtd_candidate_extract rtd FD_SCORE_INI in
      match call_out (reverse out) m (candidates rtd) with
      | CbAbort => SendAborted
      | CbError _ | CbOk None _ => SendDropped
      | CbOk (Some m) cands =>
          let cands := fd_rtd_candidate_reorder rnd cands in
          let rtd := RtData (extracted rtd) cands (errors rtd) in
          match try_send peers send (reverse cands) with
          | Some id => SentTo id m rtd
          | None => SendError "DIAMETER_UNABLE_TO_DELIVER" rtd
          end
      end
  end.

(** ... and for an answer, which goes back to where its request came from. *)
Inductive answered :=
| AnswerTo (id : os0) (hbhid : Z)
| AnswerDropped
| AnswerAborted.

Definition msg_rt_out_answer (peers : list rt_peer) (qry_src : option os0) (qry_hbhid : Z) : answered :=
  match qry_src with
  | None => AnswerAborted
  | Some id =>
      match peer_by_id peers id with
      | Some p =>
          if decide (rp_state p = STATE_OPEN ∨ rp_state p = STATE_CLOSING_GRACE)
          then AnswerTo id qry_hbhid else AnswerDropped
      | None => AnswerDropped
      end
  end.

End Routing.

(** * Decorated identifiers: what is read and written *)

Lemma nai_scan_bound un : ∀ i excl at0,
  (nai_scan un i excl at0).2 = at0 ∨ (i ≤ (nai_scan un i excl at0).2 < i + length un)%nat.
Proof.
  induction un as [un IH] using (induction_ltof1 _ length). unfold ltof in IH. intros i excl at0.
  destruct un as [|c un]; [by left|]. cbn [nai_scan length].
  assert (Hstep : ∀ un' j e, (length un' ≤ length un)%nat → (i ≤ j)%nat → (j + length un' ≤ i + S (length un))%nat →
    (nai_scan un' j e at0).2 = at0 ∨ (i ≤ (nai_scan un' j e at0).2 < i + S (length un))%nat).
  { intros un' j e H1 H2 H3. destruct (IH un' ltac:(cbn; lia) j e at0) as [?|?]; [by left|right; lia]. }
  repeat case_match; try (by left); try (by apply Hstep; cbn in *; lia).
  right. cbn. lia.
Qed.

Lemma identity_char_plain c : identity_char c = true → c ≠ 33 ∧ c ≠ 64 ∧ c ≠ 0 ∧ c ≠ 92.
Proof.
  unfold identity_char. intros H. split_and!; intros ->; vm_compute in H; done.
Qed.

Lemma nai_scan_plain s r i excl at0 :
  Forall (λ c, c ≠ 33 ∧ c ≠ 64 ∧ c ≠ 0 ∧ c ≠ 92) s →
  nai_scan (s ++ r) i excl at0 = nai_scan r (i + length s) excl at0.
Proof.
  intros Hs. revert i. induction Hs as [|c s (? & ? & ? & ?) Hs IH]; intros i; cbn [app nai_scan length];
    [by rewrite Nat.add_0_r|].
  repeat rewrite (proj2 (Z.eqb_neq _ _)) by done. rewrite IH. f_equal. lia.
Qed.

Lemma nai_scan_user s r i excl at0 :
  excl ≠ 0%nat → Forall (λ c, c ≠ 64 ∧ c ≠ 0 ∧ c ≠ 92) s →
  nai_scan (s ++ r) i excl at0 = nai_scan r (i + length s) excl at0.
Proof.
  intros He Hs. revert i. induction Hs as [|c s (? & ? & ?) Hs IH]; intros i; cbn [app nai_scan length];
    [by rewrite Nat.add_0_r|].
  rewrite (proj2 (Nat.eqb_neq _ _) He). rewrite (proj2 (Z.eqb_neq c 64)), (proj2 (Z.eqb_neq c 0)), (proj2 (Z.eqb_neq c 92)) by done.
  replace (i + S (length s))%nat with (S i + length s)%nat by lia. case_match; apply IH.
Qed.

(** A decorated identifier "home!user@other" becomes "user@home" with the
    realm "home", for any home realm that is an identity and any user part
    without '@', NUL and backslash; further decorations in the user part stay.
    No value, however malformed, makes the copies leave the old or the new
    buffer. *)
Theorem decorated_nai :
  (∀ home user other,
     home ≠ [] → fd_os_is_valid_DiameterIdentity home = true → Forall (λ c, c ≠ 64 ∧ c ≠ 0 ∧ c ≠ 92) user →
     process_decorated_NAI (home ++ 33 :: user ++ 64 :: other) = Nai ((user ++ [64]) ++ home) home)
  ∧ (∀ un, process_decorated_NAI un ≠ NaiOverrun).
Proof.
  split.
  - intros home user other Hne Hv Hu. unfold process_decorated_NAI, nai_get_indexes.
    assert (Hh : Forall (λ c, c ≠ 33 ∧ c ≠ 64 ∧ c ≠ 0 ∧ c ≠ 92) home).
    { apply Forall_forall. intros c Hc. apply identity_char_plain.
      apply (proj1 (forallb_forall _ _) Hv), list_elem_of_In, Hc. }
    assert (Hl : length home ≠ 0%nat) by (by destruct home).
    rewrite (nai_scan_plain home _ 0 0 0 Hh). cbn [nai_scan Z.eqb Pos.eqb Nat.eqb]. rewrite Nat.add_0_l.
    rewrite (nai_scan_user user _ (S (length home)) (length home) 0 Hl Hu). cbn [nai_scan Z.eqb Pos.eqb].
    rewrite (proj2 (Nat.eqb_neq _ _) Hl), (proj2 (Nat.ltb_ge _ _)), take_app_length, Hv by lia. cbn [orb negb].
    unfold copy_from. rewrite !length_app. cbn [length]. rewrite !length_app. cbn [length].
    rewrite !(proj2 (Nat.leb_le _ _)) by lia. rewrite drop_0, take_app_length.
    rewrite (drop_app_ge home) by lia. replace (S (length home) - length home)%nat with 1%nat by lia.
    cbn [drop]. replace (S (length home) + length user - length home)%nat with (length (user ++ [64]))
      by (rewrite length_app; cbn; lia).
    change (64 :: other) with ([64] ++ other). by rewrite drop_0, app_assoc, take_app_length.
  - intros un. unfold process_decorated_NAI, nai_get_indexes.
    pose proof (nai_scan_bound un 0 0 0) as Hb. destruct (nai_scan un 0 0 0) as [sep at_idx]. cbn in Hb.
    case_match eqn:E; [done|]. apply orb_false_iff in E as [E _]. apply orb_false_iff in E as [E1 E2].
    apply Nat.eqb_neq in E1. apply Nat.ltb_ge in E2. unfold copy_from.
    rewrite !(proj2 (Nat.leb_le _ _)) by lia. done.
Qed.

Lemma decorated_nai_witness :
  process_decorated_NAI (ascii_octets "home.net!user@other.net") = Nai (ascii_octets "user@home.net") (ascii_octets "home.net").
Proof.
  refine (proj1 decorated_nai (ascii_octets "home.net") (ascii_octets "user") (ascii_octets "other.net") _ _ _);
    [done | reflexivity | repeat constructor; done].
Defined.

(** * The candidates of a request *)

Lemma candidate_add_elem peerid rlm l c :
  c ∈ candidate_add peerid rlm l → c ∈ l ∨ c = Candidate peerid rlm 0.
Proof.
  unfold candidate_add. destruct (walk_prev _ l) as [l1 l2] eqn:E. apply walk_prev_spec in E as (-> & _ & _).
  repeat case_match; rewrite ?elem_of_app, ?elem_of_cons; tauto.
Qed.

Section Candidates.

(** Candidates that stand for peers of the list. *)
Definition from_peers (active : list rt_peer) (l : list rtd_candidate) : Prop :=
  ∀ c, c ∈ l → ∃ p, p ∈ active ∧ diamid c = rp_diamid p ∧ realm c = pir_realm p.

Lemma initial_candidates_spec active rtd :
  initial_candidates active = Some rtd →
  extracted rtd = 0 ∧ ordered (candidates rtd) ∧ from_peers active (candidates rtd)
  ∧ (∀ p, p ∈ active → rp_diamid p ∈ diamid <$> candidates rtd).
Proof.
  unfold initial_candidates. revert rtd. induction active as [|p active IH] using rev_ind; intros rtd.
  - intros [= <-]. cbn. split_and!; [done|constructor|set_solver..].
  - rewrite foldl_snoc. destruct (foldl _ _ active) as [rtd0|]; [|done]. cbn.
    destruct (IH rtd0 eq_refl) as (H1 & H2 & H3 & H4). unfold fd_rtd_candidate_add. case_match; [done|].
    intros [= <-]. cbn. destruct (candidate_add_spec (rp_diamid p) (pir_realm p) _ H2) as [Ho Hi].
    split_and!; [done|done| |].
    + intros c [Hc| ->]%candidate_add_elem.
      * destruct (H3 c Hc) as (q & ? & ?). exists q. set_solver.
      * exists p. set_solver.
    + intros q [Hq|Hq]%elem_of_app; apply Hi; [left; by apply H4|right]. apply list_elem_of_singleton in Hq. by subst.
Qed.

(** Peers differ by more than case, so their candidates do. *)
Lemma from_peers_distinct peers active l : registry rp_diamid peers → active ⊆ peers → ordered l → from_peers active l → distinct l.
Proof.
  intros Hreg Ha Ho Hf. destruct (registry_ok _ _ Hreg) as [_ Hd].
  induction Ho as [|c l Ho IH Hc]; [by intros [] ? ? ? ?|]. apply distinct_cons. split.
  - rewrite Forall_forall in *. intros d Hd' Hcl. destruct (Hf c) as (p & Hp & Ep & _); [by left|].
    destruct (Hf d) as (q & Hq & Eq & _); [by right|]. rewrite Ep, Eq in Hcl.
    apply Hd in Hcl; [|by apply Ha..]. specialize (Hc d Hd'). unfold cand_lt in Hc. rewrite Ep, Eq, Hcl in Hc.
    rewrite (proj2 (fd_os_cmp_eq _ _) eq_refl) in Hc. lia.
  - apply IH. intros d Hd'. apply Hf. by right.
Qed.

Context {D : Dictionary}.

(** The AVP has the code, and names an identity. *)
Definition names (code : Z) (a : avp) (v : os0) : Prop :=
  base_avp code a = true ∧ ∃ a', parse_avp a = Ok a' ∧ os_of a' = Some v.

Lemma candidate_del_zero rtd v :
  extracted rtd = 0 → ordered (candidates rtd) → length v ≠ 0%nat → fd_os_is_valid_DiameterIdentity v = true →
  fd_rtd_candidate_del rtd v = RtData 0 (remove_first v (candidates rtd)) (errors rtd).
Proof.
  intros He Ho Hl Hv. unfold fd_rtd_candidate_del. rewrite (proj2 (Nat.eqb_neq _ _) Hl), Hv, He. cbn.
  by rewrite candidate_del_spec.
Qed.

Lemma candidate_del_shape rtd v :
  extracted rtd = 0 → ordered (candidates rtd) →
  extracted (fd_rtd_candidate_del rtd v) = 0 ∧ ordered (candidates (fd_rtd_candidate_del rtd v))
  ∧ candidates (fd_rtd_candidate_del rtd v) `sublist_of` candidates rtd.
Proof.
  intros He Ho. unfold fd_rtd_candidate_del. repeat case_match; [split_and!; done..|]. cbn.
  rewrite candidate_del_spec by (intros; done). pose proof (remove_first_sublist v (candidates rtd)).
  split_and!; [done|by eapply sorted_sublist|done].
Qed.

Lemma drop_route_records_spec l : ∀ rtd l' rtd',
  extracted rtd = 0 → ordered (candidates rtd) → distinct (candidates rtd) →
  drop_route_records rtd l = inr (l', rtd') →
  candidates rtd' `sublist_of` candidates rtd
  ∧ ∀ a v c, a ∈ l → names AC_ROUTE_RECORD a v → length v ≠ 0%nat → fd_os_is_valid_DiameterIdentity v = true →
      c ∈ candidates rtd' → ¬ caseless v (diamid c).
Proof.
  induction l as [|b l IH]; intros rtd l' rtd' He Ho Hd; cbn [drop_route_records].
  { intros [= <- <-]. split; [done|set_solver]. }
  destruct (base_avp AC_ROUTE_RECORD b) eqn:Eb.
  - destruct (parse_avp b) as [b'| | |] eqn:Ep; try done. destruct (os_of b') as [w|] eqn:Ew; [|done].
    destruct (candidate_del_shape rtd w He Ho) as (He' & Ho' & Hs).
    destruct (drop_route_records _ l) as [|[l2 rtd2]] eqn:El; [done|]. intros [= <- <-].
    destruct (IH _ _ _ He' Ho' (distinct_sublist _ _ Hs Hd) El) as [Hs2 Hr]. split; [by etrans|].
    intros a v c [->|Ha]%elem_of_cons Hv Hl Hok Hc; [|by eapply Hr].
    destruct Hv as (_ & a' & Hp & Ho2). assert (v = w) as -> by congruence. apply (sublist_subseteq _ _ Hs2) in Hc.
    rewrite (candidate_del_zero rtd _ He Ho Hl Hok) in Hc. cbn in Hc. by apply remove_first_distinct in Hc as [_ ?].
  - destruct (drop_route_records rtd l) as [|[l2 rtd2]] eqn:El; [done|]. intros [= <- <-].
    destruct (IH _ _ _ He Ho Hd El) as [Hs2 Hr]. split; [done|].
    intros a v c [->|Ha]%elem_of_cons Hv Hl Hok Hc; [|by eapply Hr]. destruct Hv as [Hb _]. congruence.
Qed.

End Candidates.

(** * The peer a request is sent to *)

Lemma try_send_some peers send l id :
  StronglySorted (flip by_score) l → try_send peers send l = Some id →
  ∃ c, c ∈ l ∧ diamid c = id ∧ 0 ≤ score c ∧ is_open peers id = true
    ∧ ∀ d, d ∈ l → is_open peers (diamid d) = true → send (diamid d) = true → score d ≤ score c.
Proof.
  induction 1 as [|c l Hs IH Hc]; cbn; [done|]. destruct (Z.ltb_spec (score c) 0); [done|].
  rewrite Forall_forall in Hc. unfold by_score in Hc. cbn in Hc.
  destruct (is_open peers (diamid c) && send (diamid c)) eqn:E.
  - intros [= <-]. apply andb_true_iff in E as [Eo _]. exists c. split_and!; [by left|done|done|done|].
    intros d [->|Hd]%elem_of_cons _ _; [done|by apply Hc].
  - intros (d & ? & ? & ? & ? & Hmax)%IH. exists d. split_and!; [by right|done..|].
    intros e [->|He]%elem_of_cons Ho Hse; [by rewrite Ho, Hse in E|by apply Hmax].
Qed.

Lemma try_send_none peers send l d :
  StronglySorted (flip by_score) l → try_send peers send l = None →
  d ∈ l → is_open peers (diamid d) = true → send (diamid d) = true → score d < 0.
Proof.
  induction 1 as [|c l Hs IH Hc]; cbn; [set_solver|]. rewrite Forall_forall in Hc. unfold by_score in Hc. cbn in Hc.
  destruct (Z.ltb_spec (score c) 0).
  - intros _ [->|Hd]%elem_of_cons _ _; [done|]. specialize (Hc d Hd). lia.
  - destruct (is_open peers (diamid c) && send (diamid c)) eqn:E; [done|]. intros Hn [->|Hd]%elem_of_cons Ho Hse.
    + by rewrite Ho, Hse in E.
    + by apply IH.
Qed.

Lemma scored_reverse l : scored l → StronglySorted (flip by_score) (reverse l).
Proof.
  induction 1 as [|c l Hs IH Hc]; [constructor|]. rewrite reverse_cons.
  apply (sorted_insert _ (reverse l) [] c); [by rewrite app_nil_r| |constructor].
  rewrite Forall_reverse. exact Hc.
Qed.

Section Request.
Context {D : Dictionary}.
Context (peers active : list rt_peer) (Hreg : registry rp_diamid peers) (Hact : active ⊆ peers).

(** The peer of a candidate can take messages of an application. *)
Definition supports (appl : Z) (p : rt_peer) : Prop :=
  appl = 0 ∨ pir_relay p = true ∨ is_Some (fd_app_check (pir_apps p) appl).

Lemma same_id_caseless a b : same_id a b = true ↔ caseless a b.
Proof. unfold same_id. rewrite Z.eqb_eq. apply almostcasesrch_match. Qed.

(** What the two callbacks of the core do to a candidate with its first score. *)
Definition scored_as (appl : Z) (dh dr : option (list Z)) (c c' : rtd_candidate) : Prop :=
  diamid c' = diamid c ∧ realm c' = realm c
  ∧ (0 ≤ score c' →
       (∃ h, dh = Some h ∧ caseless h (diamid c))
       ∨ (∃ r cr, dr = Some r ∧ realm c = Some cr ∧ caseless r cr
            ∧ ∀ p, peer_by_id peers (diamid c) = Some p → supports appl p)).

Lemma destination_score_spec dh dr c c' :
  destination_score dh dr c = Some c' →
  diamid c' = diamid c ∧ realm c' = realm c
  ∧ ((∃ h, dh = Some h ∧ caseless h (diamid c))
     ∨ (score c' = score c + FD_SCORE_REALM ∧ ∃ r cr, dr = Some r ∧ realm c = Some cr ∧ caseless r cr)
     ∨ score c' = score c).
Proof.
  unfold destination_score. destruct (match dh with Some h => _ | None => _ end) eqn:E.
  - intros [= <-]. destruct dh as [h|]; [|done]. apply same_id_caseless in E. cbn. eauto 10.
  - destruct dr as [r|]; [|intros [= <-]; auto 10]. destruct (realm c) as [cr|] eqn:Er; [|done].
    destruct (same_id r cr) eqn:Es; intros [= <-]; cbn; auto 10. apply same_id_caseless in Es. split_and!; eauto 10.
Qed.

(** The score after the test of the application. *)
Definition penalised (appl : Z) (c c' : rtd_candidate) : Prop :=
  diamid c' = diamid c ∧ realm c' = realm c
  ∧ ((score c' = FD_SCORE_INI ∧ ∀ p, peer_by_id peers (diamid c) = Some p → supports appl p)
     ∨ score c' = FD_SCORE_INI + FD_SCORE_NO_DELIVERY).

Lemma dont_send_spec m l :
  Forall (λ c, score c = FD_SCORE_INI) l →
  ∃ k, dont_send_if_no_common_app peers m l = CbOk (Some m) k ∧ Forall2 (penalised (msg_appl (msg_public m))) l k.
Proof.
  intros Hini. unfold dont_send_if_no_common_app. destruct (Z.eqb_spec (msg_appl (msg_public m)) 0) as [E|E].
  - exists l. split; [done|]. induction Hini as [|c l Hc Hl IH]; constructor; [|done].
    split_and!; [done..|]. left. split; [done|]. intros p _. by left.
  - eexists. split; [done|]. apply Forall2_fmap_r. induction Hini as [|c l Hc Hl IH]; constructor; [|done].
    unfold compose, penalised. destruct (peer_by_id peers (diamid c)) as [p|]; [|split_and!; [done..|left; split; [done|by intros ? ?]]].
    destruct (pir_relay p) eqn:Er; cbn.
    { split_and!; [done..|]. left. split; [done|]. intros q [= <-]. right. by left. }
    case_bool_decide as Ha; cbn.
    { split_and!; [done..|]. left. split; [done|]. intros q [= <-]. right. by right. }
    split_and!; [done..|]. right. by rewrite Hc.
Qed.

Lemma score_destination_spec m k m' l' :
  score_destination_avp m k = CbOk (Some m') l' →
  ∃ dh dr, find_destination None None (msg_children m) = inr (msg_children m', dh, dr)
    ∧ Forall2 (λ c c', destination_score dh dr c = Some c') k l'.
Proof.
  unfold score_destination_avp. destruct (find_destination _ _ _) as [[]|[[children dh] dr]]; [done..|].
  destruct (mapM _ k) as [l|] eqn:E; [|done]. intros [= <- <-]. exists dh, dr. split; [done|].
  by apply mapM_Some.
Qed.

Lemma default_callbacks_spec m l m' l' :
  Forall (λ c, score c = FD_SCORE_INI) l →
  call_out (reverse (default_callbacks peers [])) m l = CbOk (Some m') l' →
  ∃ dh dr, find_destination None None (msg_children m) = inr (msg_children m', dh, dr)
    ∧ Forall2 (scored_as (msg_appl (msg_public m)) dh dr) l l'.
Proof.
  intros Hini. change (reverse (default_callbacks peers []))
    with [RtHdl 10 (dont_send_if_no_common_app peers); RtHdl 10 score_destination_avp].
  cbn [call_out rt_cb]. destruct (dont_send_spec m l Hini) as (k & -> & Hk).
  destruct (score_destination_avp m k) as [[m1|] l1| |] eqn:E; intros H; simplify_eq.
  destruct (score_destination_spec _ _ _ _ E) as (dh & dr & Hf & Hd). exists dh, dr. split; [done|].
  clear E Hf Hini. revert l' Hd. induction Hk as [|c d l k (Hc1 & Hc2 & Hc3) Hk IH]; intros l' Hd;
    inversion Hd as [|? c' ? l'' Hds Hd']; subst; constructor; [|by apply IH].
  apply destination_score_spec in Hds as (Hd1 & Hd2 & Hd3). split_and!; [congruence..|].
  intros Hpos. rewrite Hc1, Hc2 in Hd3. unfold FD_SCORE_INI, FD_SCORE_NO_DELIVERY, FD_SCORE_REALM in *.
  destruct Hd3 as [?|[[Hs (r & cr & ?)]|Hs]]; [by left| |lia].
  destruct Hc3 as [[_ Hsup]|?]; [|lia]. right. exists r, cr. tauto.
Qed.

(** C35: A request is only sent to a peer that is open, that the message has not
    been at by its Route-Records, and that is its Destination-Host or is in its
    Destination-Realm and takes messages of its application; and among the open
    candidates it can be sent to, this one has the highest score, whatever the
    random numbers.  [active] are the peers in the list of active peers.  It is the
    first attempt (no routing data of an earlier one), and only the two callbacks of the
    core are registered, none of an extension such as rt_default. *)
Theorem request_routed rnd send m id m' rtd' :
  msg_rt_out_request active peers (default_callbacks peers []) rnd send None m = SentTo id m' rtd' →
  ∃ p c children dh dr,
    p ∈ active ∧ rp_diamid p = id ∧ rp_state p = STATE_OPEN
    ∧ (∀ a v, a ∈ msg_children m → names AC_ROUTE_RECORD a v → length v ≠ 0%nat →
         fd_os_is_valid_DiameterIdentity v = true → ¬ caseless v id)
    ∧ find_destination None None children = inr (msg_children m', dh, dr)
    ∧ ((∃ h, dh = Some h ∧ caseless h id)
       ∨ (∃ r cr, dr = Some r ∧ pir_realm p = Some cr ∧ caseless r cr ∧ supports (msg_appl (msg_public m)) p))
    ∧ c ∈ candidates rtd' ∧ diamid c = id
    ∧ (∀ d, d ∈ candidates rtd' → is_open peers (diamid d) = true → send (diamid d) = true → score d ≤ score c).
Proof.
  unfold msg_rt_out_request. destruct (initial_candidates active) as [rtd0|] eqn:Ei; [|done].
  destruct (drop_route_records rtd0 (msg_children m)) as [[[e code]|]|[children rtd1]] eqn:Ed; [by case_decide|done|].
  destruct (initial_candidates_spec active rtd0 Ei) as (He & Ho & Hf & _).
  pose proof (from_peers_distinct peers active _ Hreg Hact Ho Hf) as Hdis.
  destruct (drop_route_records_spec _ _ _ _ He Ho Hdis Ed) as [Hsub Hrr].
  set (rtd2 := fd_rtd_candidate_extract rtd1 FD_SCORE_INI).
  destruct (call_out _ _ _) as [[m1|] cands| |] eqn:Ec; try done.
  destruct (try_send _ _ _) as [id'|] eqn:Et; [|done]. intros [= <- <- <-]. cbn [candidates].
  destruct (default_callbacks_spec (set_children children m) (candidates rtd2) m1 cands) as (dh & dr & Hfd & Hsc);
    [|exact Ec|].
  { unfold rtd2. cbn. apply Forall_fmap, Forall_true. done. }
  destruct (reorder_spec rnd cands) as [Hord Hperm].
  destruct (try_send_some _ _ _ _ (scored_reverse _ Hord) Et) as (c & Hc & <- & Hpos & Hopen & Hmax).
  rewrite elem_of_reverse in Hc.
  assert (Hc' : c ∈ cands) by (by rewrite <- Hperm).
  apply list_elem_of_lookup_1 in Hc' as [i Hi]. destruct (Forall2_lookup_r _ _ _ _ _ Hsc Hi) as (c0 & Hc0 & Hid & Hrl & Hwhy).
  unfold rtd2 in Hc0. cbn in Hc0. rewrite list_lookup_fmap in Hc0. apply fmap_Some in Hc0 as (c1 & Hc1 & ->).
  cbn in Hid, Hrl, Hwhy. apply list_elem_of_lookup_2 in Hc1.
  destruct (Hf c1) as (p & Hp & Hpid & Hprl); [by apply (sublist_subseteq _ _ Hsub)|].
  assert (Hlook : peer_by_id peers (diamid c) = Some p).
  { apply getbyid_exact_spec; [by destruct (registry_ok _ _ Hreg)|]. split; [by apply Hact|congruence]. }
  exists p, c, children, dh, dr. split_and!; [done|congruence| | |exact Hfd| |done|done|].
  - unfold is_open in Hopen. rewrite Hlook in Hopen. by apply bool_decide_eq_true in Hopen.
  - intros a v Ha Hv Hl Hok. rewrite Hid. by eapply Hrr.
  - destruct (Hwhy Hpos) as [Hh|(r & cr & ? & ? & ? & Hs)]; [left; by rewrite Hid|].
    right. exists r, cr. split_and!; [done|congruence|done|]. apply Hs. by rewrite <- Hid.
  - intros d Hd. apply Hmax. by rewrite elem_of_reverse.
Qed.

End Request.

(** * Received requests *)

Section Received.
Context {D : Dictionary} (cfg : rt_config).

Lemma base_avp_code code a : base_avp code a = true → avp_code (data_of a) = code.
Proof. unfold base_avp. intros [_ H]%andb_true_iff. by apply Z.eqb_eq. Qed.

Lemma yes_no_yes b : yes_no b = YES ↔ b = true.
Proof. by destruct b. Qed.

(** What one AVP adds to the information. *)
Lemma scan_avp_spec i info a a' info' :
  scan_avp cfg i info a = inr (a', info') →
  (is_dest_host info' = YES → is_dest_host info = YES
     ∨ ∃ v, names AC_DESTINATION_HOST a v ∧ caseless v (cnf_diamid cfg))
  ∧ (is_dest_host info' = UNKNOWN → is_dest_host info = UNKNOWN ∧ base_avp AC_DESTINATION_HOST a = false)
  ∧ (is_dest_realm info' = YES → is_dest_realm info = YES
       ∨ ∃ v, names AC_DESTINATION_REALM a v ∧ caseless v (cnf_diamrlm cfg))
  ∧ (base_avp AC_USER_NAME a = false → ri_un info = None → ri_un info' = None)
  ∧ (∀ v, names AC_ROUTE_RECORD a v → ¬ caseless v (cnf_diamid cfg)).
Proof.
  unfold scan_avp, four_codes. destruct (base_avp AC_DESTINATION_HOST a) eqn:E1; cbn [orb negb].
  { destruct (parse_avp a) as [b| | |] eqn:Ep; try done. destruct (os_of b) as [w|] eqn:Ew; [|done].
    intros [= <- <-]. cbn. rewrite yes_no_yes, same_id_caseless. split_and!; auto.
    - intros Hw. right. exists w. split; [|done]. split; [done|eauto].
    - unfold yes_no. by case_match.
    - intros v [Hb _] _. apply base_avp_code in E1, Hb. rewrite E1 in Hb. discriminate Hb. }
  destruct (base_avp AC_DESTINATION_REALM a) eqn:E2; cbn [orb negb].
  { destruct (parse_avp a) as [b| | |] eqn:Ep; try done. destruct (os_of b) as [w|] eqn:Ew; [|done].
    intros [= <- <-]. cbn. rewrite yes_no_yes, same_id_caseless. split_and!; auto.
    - intros Hw. right. exists w. split; [|done]. split; [done|eauto].
    - intros v [Hb _] _. apply base_avp_code in E2, Hb. rewrite E2 in Hb. discriminate Hb. }
  destruct (base_avp AC_USER_NAME a) eqn:E3; cbn [orb negb].
  { destruct (parse_avp a) as [b| | |] eqn:Ep; try done. destruct (os_of b) as [w|] eqn:Ew; [|done].
    intros [= <- <-]. cbn. split_and!; auto; [done|].
    intros v [Hb _] _. apply base_avp_code in E3, Hb. rewrite E3 in Hb. discriminate Hb. }
  destruct (base_avp AC_ROUTE_RECORD a) eqn:E4; cbn [orb negb].
  - destruct (parse_avp a) as [b| | |] eqn:Ep; try done. destruct (os_of b) as [w|] eqn:Ew; [|done].
    destruct (same_id w (cnf_diamid cfg)) eqn:Es; [done|]. intros [= <- <-]. split_and!; auto.
    intros v (_ & b' & Hp & Hv). assert (v = w) as -> by congruence. rewrite <- same_id_caseless. congruence.
  - intros [= <- <-]. split_and!; auto. intros v [Hb _]. congruence.
Qed.

Lemma scan_spec l : ∀ i info l' info',
  scan cfg i info l = inr (l', info') →
  (is_dest_host info' = YES → is_dest_host info = YES
     ∨ ∃ a v, a ∈ l ∧ names AC_DESTINATION_HOST a v ∧ caseless v (cnf_diamid cfg))
  ∧ (is_dest_host info' = UNKNOWN → is_dest_host info = UNKNOWN ∧ ∀ a, a ∈ l → base_avp AC_DESTINATION_HOST a = false)
  ∧ (is_dest_realm info' = YES → is_dest_realm info = YES
       ∨ ∃ a v, a ∈ l ∧ names AC_DESTINATION_REALM a v ∧ caseless v (cnf_diamrlm cfg))
  ∧ (ri_un info = None → (∀ a, a ∈ l → base_avp AC_USER_NAME a = false) →
       ∀ a v, a ∈ l → names AC_ROUTE_RECORD a v → ¬ caseless v (cnf_diamid cfg)).
Proof.
  induction l as [|b l IH]; intros i info l' info'; cbn [scan].
  { intros [= <- <-]. split_and!; auto; set_solver. }
  destruct (scan_avp cfg i info b) as [|[b' info1]] eqn:Eb; [done|].
  apply scan_avp_spec in Eb as (B1 & B2 & B3 & B4 & B5). destruct (all_found info1) eqn:Ea.
  - intros [= <- <-]. unfold all_found in Ea. rewrite !andb_true_iff, !negb_true_iff in Ea.
    destruct Ea as [[Ea1 Ea2] Ea3]. apply bool_decide_eq_false in Ea1, Ea2. apply bool_decide_eq_true in Ea3.
    split_and!; [intros H; destruct (B1 H) as [?|(v & ? & ?)]; [by left|right; exists b, v; set_solver]|done
                |intros H; destruct (B3 H) as [?|(v & ? & ?)]; [by left|right; exists b, v; set_solver]|].
    intros Hn Hu. rewrite (B4 (Hu b ltac:(by left)) Hn) in Ea3. by destruct Ea3.
  - destruct (scan cfg (S i) info1 l) as [|[l2 info2]] eqn:Es; [done|]. intros [= <- <-].
    apply IH in Es as (S1 & S2 & S3 & S4). split_and!.
    + intros H. destruct (S1 H) as [H1|(a & v & ? & ?)]; [|right; exists a, v; set_solver].
      destruct (B1 H1) as [?|(v & ? & ?)]; [by left|right; exists b, v; set_solver].
    + intros H. destruct (S2 H) as [H1 H2]. destruct (B2 H1) as [H3 H4]. split; [done|].
      intros a [->|Ha]%elem_of_cons; [done|by apply H2].
    + intros H. destruct (S3 H) as [H1|(a & v & ? & ?)]; [|right; exists a, v; set_solver].
      destruct (B3 H1) as [?|(v & ? & ?)]; [by left|right; exists b, v; set_solver].
    + intros Hn Hu a v [->|Ha]%elem_of_cons Hv; [by apply B5|].
      apply (S4 (B4 (Hu b ltac:(by left)) Hn)) with a; [|done|done]. intros c Hc. apply Hu. by right.
Qed.

(** A message that goes on to a queue, or that a callback took. *)
Definition passed (r : routed) : Prop :=
  match r with PostLocal _ | PostIncoming _ | PostOutgoing _ | DroppedByCallback => True | _ => False end.

Lemma scan_stops l : ∀ i info r, scan cfg i info l = inl r → ¬ passed r.
Proof.
  induction l as [|b l IH]; intros i info r; cbn [scan]; [done|].
  destruct (scan_avp cfg i info b) as [r'|[b' info1]] eqn:Eb.
  - intros [= <-]. unfold scan_avp in Eb. repeat case_match; simplify_eq; auto.
  - destruct (all_found info1); [done|]. destruct (scan cfg (S i) info1 l) as [|[? ?]] eqn:Es; [|done].
    intros [= <-]. by eapply IH.
Qed.

(** The request that reaches the decision. *)
Lemma request_decided fwd qry_src m r :
  has_flag (msg_flags (msg_public m)) CMD_FLAG_REQUEST = true →
  msg_rt_in cfg fwd qry_src m = r → passed r →
  ∃ l info, scan cfg 0 (RtInfo UNKNOWN UNKNOWN None None) (msg_children m) = inr (l, info)
    ∧ decide_request cfg fwd info (set_children l m) = r.
Proof.
  intros Hr <-. unfold msg_rt_in. rewrite Hr. cbn [andb]. destruct (has_flag _ CMD_FLAG_ERROR); [done|].
  destruct ((_ =? 0) || _); [done|]. destruct (scan cfg 0 _ _) as [r|[l info]] eqn:Es; [|eauto].
  intros Hp. by apply scan_stops in Es.
Qed.

(** C38: A request is given to the local extensions only if the node supports its
    application and the request is for this node: a Destination-Host AVP names
    it, or there is none and a Destination-Realm AVP names its realm. *)
Theorem local_delivery fwd qry_src m m' :
  has_flag (msg_flags (msg_public m)) CMD_FLAG_REQUEST = true →
  msg_rt_in cfg fwd qry_src m = PostLocal m' →
  is_Some (fd_app_check (cnf_apps cfg) (msg_appl (msg_public m)))
  ∧ ((∃ a v, a ∈ msg_children m ∧ names AC_DESTINATION_HOST a v ∧ caseless v (cnf_diamid cfg))
     ∨ ((∀ a, a ∈ msg_children m → base_avp AC_DESTINATION_HOST a = false)
        ∧ ∃ a v, a ∈ msg_children m ∧ names AC_DESTINATION_REALM a v ∧ caseless v (cnf_diamrlm cfg))).
Proof.
  intros Hr Hm. destruct (request_decided fwd qry_src m _ Hr Hm I) as (l & info & Hs & Hd).
  destruct (scan_spec _ _ _ _ _ Hs) as (S1 & S2 & S3 & _). unfold decide_request, forward in Hd. cbn in Hd.
  destruct (fd_app_check _ _) as [app|] eqn:Ea; [split; [done|]|repeat case_match; simplify_eq].
  case_decide as Hu; [done|]. case_decide as Hh.
  { left. destruct (S1 Hh) as [?|?]; done. }
  destruct (bool_decide _ || _) eqn:Eb; [repeat case_match; simplify_eq|].
  apply orb_false_iff in Eb as [Eb1 Eb2]. apply bool_decide_eq_false in Eb1, Eb2. right.
  destruct (is_dest_host info) eqn:E1; try done. destruct (is_dest_realm info) eqn:E2; try done.
  destruct (S2 eq_refl) as [_ Hno]. split; [done|]. by destruct (S3 eq_refl) as [?|?].
Qed.

(** [fd_msg_parse_dict] accepts the AVP, whose value is an octet string. *)
Definition readable (a : avp) : Prop := ∃ a' v, parse_avp a = Ok a' ∧ os_of a' = Some v.

(** The scan goes past the AVPs of [l]: one of the three AVPs that end it is
    still missing. *)
Definition scan_continues (info : rt_info) (l : list avp) : Prop :=
  is_dest_host info = UNKNOWN ∧ (∀ b, b ∈ l → base_avp AC_DESTINATION_HOST b = false)
  ∨ is_dest_realm info = UNKNOWN ∧ (∀ b, b ∈ l → base_avp AC_DESTINATION_REALM b = false)
  ∨ ri_un info = None ∧ (∀ b, b ∈ l → base_avp AC_USER_NAME b = false).

Lemma scan_continues_nil info : scan_continues info [] ↔ all_found info = false.
Proof.
  unfold scan_continues, all_found. rewrite !andb_false_iff, !negb_false_iff, !bool_decide_eq_true, bool_decide_eq_false.
  rewrite <-eq_None_not_Some. set_solver.
Qed.

Lemma yes_no_known b : yes_no b ≠ UNKNOWN.
Proof. by destruct b. Qed.

Lemma base_avp_one c c' a : base_avp c a = true → c ≠ c' → base_avp c' a = false.
Proof. intros H%base_avp_code Hc. apply not_true_is_false. intros H'%base_avp_code. congruence. Qed.

(** A Route-Record of this node. *)
Definition names_us (a : avp) : Prop := ∃ v, names AC_ROUTE_RECORD a v ∧ caseless v (cnf_diamid cfg).

Lemma not_names_us c a : base_avp c a = true → c ≠ AC_ROUTE_RECORD → ¬ names_us a.
Proof. intros H Hc (v & [Hv _] & _). by rewrite (base_avp_one _ _ _ H Hc) in Hv. Qed.

(** An AVP that is read is a Route-Record of this node, or the scan goes on as if
    it were not there. *)
Lemma scan_avp_readable i info a :
  (four_codes a = true → readable a) →
  (scan_avp cfg i info a = inl (ReturnError "DIAMETER_LOOP_DETECTED") ∧ names_us a)
  ∨ ¬ names_us a
    ∧ ∃ a' info', scan_avp cfg i info a = inr (a', info')
      ∧ ∀ l, scan_continues info (a :: l) ↔ scan_continues info' l.
Proof.
  unfold scan_avp. intros Ha. destruct (four_codes a) eqn:Ef; cbn [negb].
  2: { unfold four_codes in Ef. rewrite !orb_false_iff in Ef. destruct Ef as [[[E1 E2] E3] E4]. right. split.
       - intros (v & [H _] & _). congruence.
       - exists a, info. split; [done|]. intros l. unfold scan_continues. setoid_rewrite elem_of_cons. naive_solver. }
  destruct (Ha eq_refl) as (a' & v & Hp & Hv). rewrite Hp, Hv. unfold four_codes in Ef.
  destruct (base_avp AC_DESTINATION_HOST a) eqn:E1; [|destruct (base_avp AC_DESTINATION_REALM a) eqn:E2;
    [|destruct (base_avp AC_USER_NAME a) eqn:E3]].
  4: { cbn in Ef. assert (names AC_ROUTE_RECORD a v) as Hn by (split; eauto).
       destruct (same_id v (cnf_diamid cfg)) eqn:Es; [left; split; [done|]; exists v; by rewrite <-same_id_caseless|].
       right. split.
       - intros (v' & (_ & b & Hb & Hv') & Hc). assert (v' = v) as -> by congruence.
         apply same_id_caseless in Hc. congruence.
       - exists a', info. split; [done|]. intros l. unfold scan_continues. setoid_rewrite elem_of_cons. naive_solver. }
  all: right; split; [by eapply not_names_us|]; eexists _, _; (split; [reflexivity|]); intros l; unfold scan_continues; cbn;
    setoid_rewrite elem_of_cons.
  - pose proof (base_avp_one _ AC_DESTINATION_REALM _ E1 ltac:(done)). pose proof (base_avp_one _ AC_USER_NAME _ E1 ltac:(done)).
    pose proof (yes_no_known (same_id v (cnf_diamid cfg))). naive_solver congruence.
  - pose proof (base_avp_one _ AC_USER_NAME _ E2 ltac:(done)).
    pose proof (yes_no_known (same_id v (cnf_diamrlm cfg))). naive_solver congruence.
  - naive_solver congruence.
Qed.

Lemma scan_loop l : ∀ i info,
  all_found info = false → (∀ b, b ∈ l → four_codes b = true → readable b) →
  (scan cfg i info l = inl (ReturnError "DIAMETER_LOOP_DETECTED")
   ∧ ∃ l1 a l2, l = l1 ++ a :: l2 ∧ names_us a ∧ scan_continues info l1)
  ∨ (∃ p, scan cfg i info l = inr p)
    ∧ ¬ ∃ l1 a l2, l = l1 ++ a :: l2 ∧ names_us a ∧ scan_continues info l1.
Proof.
  induction l as [|a l IH]; intros i info Hi Hl; cbn [scan].
  { right. split; [by eexists|]. by intros ([|??] & ? & ? & [=] & _). }
  destruct (scan_avp_readable i info a) as [(-> & Ha)|(Ha & a' & info' & -> & Hc)]; [apply Hl; by left| |].
  { left. split; [done|]. exists [], a, l. split_and!; [done..|]. by apply scan_continues_nil. }
  assert ((∃ l1 b l2, a :: l = l1 ++ b :: l2 ∧ names_us b ∧ scan_continues info l1)
          ↔ ∃ l1 b l2, l = l1 ++ b :: l2 ∧ names_us b ∧ scan_continues info' l1) as Hiff.
  { split.
    - intros ([|c l1] & b & l2 & [= <- E] & Hb & H); [done|]. exists l1, b, l2. by rewrite <-Hc.
    - intros (l1 & b & l2 & -> & Hb & H). exists (a :: l1), b, l2. by rewrite Hc. }
  rewrite Hiff. destruct (all_found info') eqn:Ef.
  - right. split; [by eexists|]. intros (l1 & b & l2 & _ & _ & H).
    assert (scan_continues info' []) as H0%scan_continues_nil; [|congruence].
    unfold scan_continues in *. set_solver.
  - destruct (IH (S i) info' Ef) as [(-> & H)|([p ->] & H)]; [intros b Hb; apply Hl; by right|by left|].
    right. split; [|done]. destruct p. by eexists.
Qed.

Lemma decide_request_no_loop fwd info m : decide_request cfg fwd info m ≠ ReturnError "DIAMETER_LOOP_DETECTED".
Proof. unfold decide_request, forward. repeat case_match; done. Qed.

Lemma scan_continues_start l :
  scan_continues (RtInfo UNKNOWN UNKNOWN None None) l ↔
  ∃ code, code ∈ [AC_DESTINATION_HOST; AC_DESTINATION_REALM; AC_USER_NAME] ∧ ∀ b, b ∈ l → base_avp code b = false.
Proof.
  unfold scan_continues. cbn [is_dest_host is_dest_realm ri_un]. split.
  - intros [[_ H]|[[_ H]|[_ H]]]; eexists; (split; [|exact H]); rewrite !elem_of_cons; auto.
  - intros (code & Hc & H). rewrite !elem_of_cons, elem_of_nil in Hc. destruct Hc as [->|[->|[->|[]]]]; auto.
Qed.

(** C39: A request with a valid header whose routing AVPs (Destination-Host,
    Destination-Realm, User-Name and Route-Record) can be read is answered with
    DIAMETER_LOOP_DETECTED exactly if it has been here: a Route-Record names this
    node up to case, and it is not behind all of Destination-Host,
    Destination-Realm and User-Name, where the scan ends (loop_missed).
    [ReturnError] is a call of [return_error], which sends the answer unless the
    peer that the request came from is no longer there. *)
Theorem loop_detected fwd qry_src m :
  has_flag (msg_flags (msg_public m)) CMD_FLAG_REQUEST = true →
  has_flag (msg_flags (msg_public m)) CMD_FLAG_ERROR = false →
  msg_appl (msg_public m) ≠ 0 → msg_appl (msg_public m) ≠ AI_RELAY →
  (∀ b, b ∈ msg_children m → four_codes b = true → ∃ b' v, parse_avp b = Ok b' ∧ os_of b' = Some v) →
  msg_rt_in cfg fwd qry_src m = ReturnError "DIAMETER_LOOP_DETECTED" ↔
  ∃ before a after v, msg_children m = before ++ a :: after
    ∧ names AC_ROUTE_RECORD a v ∧ caseless v (cnf_diamid cfg)
    ∧ ∃ code, code ∈ [AC_DESTINATION_HOST; AC_DESTINATION_REALM; AC_USER_NAME]
              ∧ ∀ b, b ∈ before → base_avp code b = false.
Proof.
  intros Hr He H0 H1 Hl. unfold msg_rt_in. rewrite Hr, He, (proj2 (Z.eqb_neq _ _) H0), (proj2 (Z.eqb_neq _ _) H1).
  cbn [andb orb]. set (info := RtInfo UNKNOWN UNKNOWN None None).
  transitivity (∃ l1 a l2, msg_children m = l1 ++ a :: l2 ∧ names_us a ∧ scan_continues info l1).
  - destruct (scan_loop (msg_children m) 0 info eq_refl Hl) as [(-> & H)|([[l i] ->] & H)]; [done|].
    split; [by intros E%decide_request_no_loop|done].
  - subst info. setoid_rewrite scan_continues_start. unfold names_us. split.
    + intros (l1 & a & l2 & E & (v & Hn & Hv) & Hs). by exists l1, a, l2, v.
    + intros (l1 & a & l2 & v & E & Hn & Hv & Hs). exists l1, a, l2. split_and!; [done|by exists v|done].
Qed.

End Received.
