(* ===== verification/FdRoutingRuns.v ===== *)
(** Routing on concrete messages: the routing AVPs of a small dictionary, the
    runs that show the hypotheses of FdRouting to be met, and two behaviours
    that differ from what the comments of the code say. *)

From stdpp Require Import base list strings sorting sets.
From Stdlib Require Import ZArith Lia.
From S2P Require Import Prelude FdDictionary FdLoops FdApps FdRtData FdPeers FdMessages FdParse FdRouting.
Open Scope Z_scope.

Definition identity_avp (c : Z) : dict_avp_data :=
  {| dict_avp_code := c; dict_avp_vendor := 0; dict_basetype := AVP_TYPE_OCTETSTRING; dict_type_check := None |}.

(** User-Name, Route-Record, Destination-Realm and Destination-Host. *)
Definition routing_avp (c : Z) : option dict_avp_data :=
  if (c =? 1) || (c =? 282) || (c =? 283) || (c =? 293) then Some (identity_avp c) else None.

Lemma routing_avp_spec c m : routing_avp c = Some m → dict_avp_code m = c ∧ dict_avp_vendor m = 0.
Proof. unfold routing_avp. destruct (_ || _); [|done]. by intros [= <-]. Qed.

#[local] Instance routing_dictionary : Dictionary := {|
  avp_by_code := routing_avp;
  avp_by_vendor _ _ := None;
  cmd_by_code _ _ := None;
  avp_by_code_spec := routing_avp_spec;
  avp_by_vendor_spec v c m H := False_ind _ (eq_ind None (λ o, if o then False else True) I _ H);
  cmd_by_code_spec r c m H := False_ind _ (eq_ind None (λ o, if o then False else True) I _ H)
|}.

(** An AVP as [fd_msg_parse_buffer] leaves it. *)
Definition sample_avp (code : Z) (s : string) : avp :=
  let os := ascii_octets s in
  Avp {| avp_model := None; mnf_code := 0; mnf_vendor := 0; avp_code := code; avp_flags := 0x40;
         avp_len := 8 + Z.of_nat (length os); avp_vendor := 0; avp_val := None; avp_source := Some os;
         avp_rawdata := None |} [].

Definition sample_request (children : list avp) : msg :=
  {| msg_public := {| msg_version := 1; msg_length := 0; msg_flags := 0xc0; msg_code := 272; msg_appl := 4;
                      msg_hbhid := 7; msg_eteid := 8 |};
     msg_model := None; msg_mnf_code := 0; msg_mnf_flags := 0; msg_children := children |}.

(** The node gw.a of the realm a, which supports application 4. *)
Definition sample_config : rt_config :=
  RtConfig (ascii_octets "gw.a") (ascii_octets "a") [FdApp true false 0 4] false.

Definition for_us : msg := sample_request [sample_avp 283 "A"; sample_avp 293 "gw.A"].

Lemma local_delivery_witness :
  match msg_rt_in sample_config [] None for_us with
  | PostLocal m' => is_Some (fd_app_check (cnf_apps sample_config) (msg_appl (msg_public for_us)))
  | _ => False
  end.
Proof.
  destruct (msg_rt_in sample_config [] None for_us) eqn:E; try (vm_compute in E; discriminate E).
  refine (proj1 (local_delivery sample_config [] None for_us m _ E)). vm_compute. reflexivity.
Defined.

Definition looping : msg := sample_request [sample_avp 283 "b"; sample_avp 293 "srv.b"; sample_avp 282 "GW.a"].

Lemma loop_detected_witness :
  msg_rt_in sample_config [] None looping = ReturnError "DIAMETER_LOOP_DETECTED".
Proof.
  apply (loop_detected sample_config [] None looping); [reflexivity|reflexivity|done|done| |].
  - intros b Hb _. cbn in Hb.
    repeat (apply elem_of_cons in Hb as [->|Hb]; [eexists _, _; split; [vm_compute; reflexivity|reflexivity]|]).
    by apply not_elem_of_nil in Hb.
  - exists [sample_avp 283 "b"; sample_avp 293 "srv.b"], (sample_avp 282 "GW.a"), [], (ascii_octets "GW.a").
    split; [reflexivity|]. split.
    { split; [reflexivity|]. eexists. split; [vm_compute; reflexivity|reflexivity]. }
    split; [reflexivity|]. exists AC_USER_NAME. split; [set_solver|].
    intros b Hb. repeat (apply elem_of_cons in Hb as [->|Hb]; [reflexivity|]). by apply not_elem_of_nil in Hb.
Defined.

(** The same message with a User-Name before the Route-Record. *)
Definition looping_user : msg :=
  sample_request [sample_avp 283 "b"; sample_avp 293 "srv.b"; sample_avp 1 "user"; sample_avp 282 "GW.a"].

(** The scan of a request ends once Destination-Host, Destination-Realm and
    User-Name are found, so a Route-Record after them, where every node appends
    its own, is not looked at: this message, which has been here before, is
    forwarded again instead of being answered with DIAMETER_LOOP_DETECTED. *)
Theorem loop_missed :
  names AC_ROUTE_RECORD (sample_avp 282 "GW.a") (ascii_octets "GW.a")
  ∧ caseless (ascii_octets "GW.a") (cnf_diamid sample_config)
  ∧ ∃ m', msg_rt_in sample_config [] None looping_user = PostOutgoing m'.
Proof.
  split_and!.
  - split; [reflexivity|]. eexists. split; [vm_compute; reflexivity|reflexivity].
  - reflexivity.
  - eexists. vm_compute. reflexivity.
Qed.

(** Two open peers: srv.b, which announced no application, and rel.b, a relay. *)
Definition srv : rt_peer := RtPeer (ascii_octets "srv.b") STATE_OPEN (Some (ascii_octets "b")) false [].
Definition rel : rt_peer := RtPeer (ascii_octets "rel.b") STATE_OPEN (Some (ascii_octets "b")) true [].

Lemma sample_peers_registry : registry rp_diamid [rel; srv].
Proof.
  apply (registry_add rp_diamid srv [rel]); [|vm_compute; reflexivity].
  apply (registry_add rp_diamid rel []); [constructor|vm_compute; reflexivity].
Qed.

Definition to_realm : msg := sample_request [sample_avp 283 "b"].
Definition to_host : msg := sample_request [sample_avp 283 "b"; sample_avp 293 "srv.b"].

Definition send_request (m : msg) : sent :=
  msg_rt_out_request [rel; srv] [rel; srv] (default_callbacks [rel; srv] []) (λ _, true) (λ _, true) None m.

Lemma request_routed_witness :
  match send_request to_realm with
  | SentTo id m' rtd' =>
      id = rp_diamid rel
      ∧ ∃ p c children dh dr,
          p ∈ [rel; srv] ∧ rp_diamid p = id ∧ rp_state p = STATE_OPEN
          ∧ (∀ a v, a ∈ msg_children to_realm → names AC_ROUTE_RECORD a v → length v ≠ 0%nat →
               fd_os_is_valid_DiameterIdentity v = true → ¬ caseless v id)
          ∧ find_destination None None children = inr (msg_children m', dh, dr)
          ∧ ((∃ h, dh = Some h ∧ caseless h id)
             ∨ (∃ r cr, dr = Some r ∧ pir_realm p = Some cr ∧ caseless r cr ∧ supports 4 p))
          ∧ c ∈ candidates rtd' ∧ diamid c = id
          ∧ (∀ d, d ∈ candidates rtd' → is_open [rel; srv] (diamid d) = true → true = true → score d ≤ score c)
  | _ => False
  end.
Proof.
  destruct (send_request to_realm) eqn:E; try (vm_compute in E; discriminate E). split.
  - vm_compute in E. injection E as <- _ _. reflexivity.
  - exact (request_routed [rel; srv] [rel; srv] sample_peers_registry (λ x H, H) (λ _, true) (λ _, true) to_realm id m rtd E).
Defined.

(** FD_SCORE_NO_DELIVERY, meant to keep a message from a peer that does not
    support its application, is outweighed by FD_SCORE_FINALDEST: srv.b, which
    announced no application at all, is sent the request that names it. *)
Theorem unsupported_application_sent :
  ¬ supports 4 srv ∧ ∃ m' rtd', send_request to_host = SentTo (rp_diamid srv) m' rtd'.
Proof.
  split.
  - intros [H|[H|H]]; [done|done|]. vm_compute in H. by destruct H.
  - do 2 eexists. vm_compute. reflexivity.
Qed.
