(* ===== verification/FdSentReq.v ===== *)
(** The requests a peer has sent and not yet seen answered (libfdcore/p_sr.c):
    one list ordered by hop-by-hop identifier, one of those with a time-out
    ordered by it, and their counters.

    A request is a message of FdMessages; the identifier an entry is known by is
    the one in its header, and [prevhbh] the one to put back.  Each function is
    one critical section of the mutex of the list. *)

From stdpp Require Import base list gmap sorting sets.
From Stdlib Require Import ZArith Lia.
From S2P Require Import Prelude FdMessages FdParse FdFifo FdLoops.
Open Scope Z_scope.

Definition CMD_FLAG_PROXIABLE : Z := 0x40.
Definition CMD_FLAG_RETRANSMIT : Z := 0x10.

Definition TS_IS_INFERIOR (a b : timespec) : bool :=
  (tv_sec a <? tv_sec b) || ((tv_sec a =? tv_sec b) && (tv_nsec a <? tv_nsec b)).

(** [fd_msg_is_routable]. *)
Definition fd_msg_is_routable (m : msg) : bool :=
  negb (msg_appl (msg_public m) =? 0) || has_flag (msg_flags (msg_public m)) CMD_FLAG_PROXIABLE.

Definition set_hdr (h : msg_hdr) (m : msg) : msg :=
  {| msg_public := h; msg_model := msg_model m; msg_mnf_code := msg_mnf_code m; msg_mnf_flags := msg_mnf_flags m;
     msg_children := msg_children m |}.

Definition set_hbhid (hbh : Z) (m : msg) : msg :=
  let h := msg_public m in
  set_hdr {| msg_version := msg_version h; msg_length := msg_length h; msg_flags := msg_flags h;
             msg_code := msg_code h; msg_appl := msg_appl h; msg_hbhid := hbh; msg_eteid := msg_eteid h |} m.

Definition set_retransmit (m : msg) : msg :=
  let h := msg_public m in
  set_hdr {| msg_version := msg_version h; msg_length := msg_length h;
             msg_flags := Z.lor (msg_flags h) CMD_FLAG_RETRANSMIT;
             msg_code := msg_code h; msg_appl := msg_appl h; msg_hbhid := msg_hbhid h; msg_eteid := msg_eteid h |} m.

(** [struct sentreq]; [sr_timeout] is there if the entry is in the list [exp]. *)
Record sentreq := SentReq { sr_req : msg; prevhbh : Z; sr_timeout : option timespec }.

Definition sr_hbh (s : sentreq) : Z := msg_hbhid (msg_public (sr_req s)).

(** The message with the identifier it had before. *)
Definition restored (s : sentreq) : msg := set_hbhid (prevhbh s) (sr_req s).

(** [struct sr_list]; [sr_thr]: the expiry thread exists. *)
Record sr_list := SrList {
  srs : list sentreq;
  sr_exp : list sentreq;
  sr_cnt : Z;
  cnt_lost : Z;
  sr_thr : bool
}.

Definition sr_init : sr_list := SrList [] [] 0 0 false.

Definition find_or_next (l : list sentreq) (hbh : Z) : list sentreq * list sentreq :=
  walk_next (λ s, negb (sr_hbh s <? hbh)) l.

Definition find_or_prev (l : list sentreq) (hbh : Z) : list sentreq * list sentreq :=
  walk_prev (λ s, negb (hbh <? sr_hbh s)) l.

(** [fd_list_unlink] of the link in [exp]. *)
Definition unlink_expire (s : sentreq) (l : list sentreq) : list sentreq :=
  filter (λ s', sr_hbh s' ≠ sr_hbh s) l.

Definition earlier (ts : timespec) (s : sentreq) : bool :=
  match sr_timeout s with Some t => TS_IS_INFERIOR t ts | None => false end.

(** [None] is EINVAL; the flag: the expiry thread is woken up. *)
Definition fd_p_sr_store (req : msg) (hbh_restore : Z) (ts : option timespec) (l : sr_list) : option (sr_list * bool) :=
  let hbh := msg_hbhid (msg_public req) in
  let sr := SentReq req hbh_restore ts in
  let (l1, l2) := find_or_prev (srs l) hbh in
  let found := match last l1 with Some s => sr_hbh s =? hbh | None => false end in
  if found then None
  else
    Some (match ts with
          | None => (SrList (l1 ++ sr :: l2) (sr_exp l) (sr_cnt l + 1) (cnt_lost l) (sr_thr l), false)
          | Some t =>
              let (e1, e2) := walk_prev (earlier t) (sr_exp l) in
              (SrList (l1 ++ sr :: l2) (e1 ++ sr :: e2) (sr_cnt l + 1) (cnt_lost l) true,
               sr_thr l && bool_decide (e1 = []))
          end).

(** The request an answer belongs to, with its identifier restored. *)
Definition fd_p_sr_fetch (hbh : Z) (l : sr_list) : option msg * sr_list :=
  let (l1, l2) := find_or_next (srs l) hbh in
  match l2 with
  | s :: l2 =>
      if sr_hbh s =? hbh
      then (Some (restored s), SrList (l1 ++ l2) (unlink_expire s (sr_exp l)) (sr_cnt l - 1) (cnt_lost l) (sr_thr l))
      else (None, SrList (srs l) (sr_exp l) (sr_cnt l) (if 0 <? cnt_lost l then cnt_lost l - 1 else cnt_lost l) (sr_thr l))
  | [] => (None, SrList (srs l) (sr_exp l) (sr_cnt l) (if 0 <? cnt_lost l then cnt_lost l - 1 else cnt_lost l) (sr_thr l))
  end.

(** One round of the expiry thread [sr_expiry_th]: it waits, or the first
    request to expire leaves the lists and goes to its callback. *)
Definition sr_expire (now : timespec) (l : sr_list) : option msg * sr_list :=
  match sr_exp l with
  | [] => (None, l)
  | first :: rest =>
      match sr_timeout first with
      | Some t =>
          if TS_IS_INFERIOR now t then (None, l)
          else (Some (restored first),
                SrList (filter (λ s, sr_hbh s ≠ sr_hbh first) (srs l)) rest (sr_cnt l - 1) (cnt_lost l + 1) (sr_thr l))
      | None => (None, l)
      end
  end.

(** The loop of [fd_p_sr_failover]: what goes back to the outgoing queue, and
    what is left of the list [exp]; requests that are not routable are freed. *)
Fixpoint failover_loop (l exp : list sentreq) (cnt : Z) : list msg * list sentreq * Z :=
  match l with
  | [] => ([], exp, cnt)
  | s :: l =>
      let '(out, exp', cnt') := failover_loop l (unlink_expire s exp) (cnt - 1) in
      if fd_msg_is_routable (sr_req s)
      then (set_hbhid (prevhbh s) (set_retransmit (sr_req s)) :: out, exp', cnt')
      else (out, exp', cnt')
  end.

(** [None]: one of the two ASSERTs fails. *)
Definition fd_p_sr_failover (l : sr_list) : option (list msg * sr_list) :=
  let '(out, exp, cnt) := failover_loop (srs l) (sr_exp l) (sr_cnt l) in
  match exp with
  | [] => if cnt =? 0 then Some (out, SrList [] [] cnt (cnt_lost l) false) else None
  | _ :: _ => None
  end.

(** The loop of [fd_p_sr_on_disconnect]. *)
Fixpoint disconnect_loop (l exp : list sentreq) (cnt : Z) : list sentreq * list sentreq * Z :=
  match l with
  | [] => ([], exp, cnt)
  | s :: l =>
      if fd_msg_is_routable (sr_req s) then
        let '(l', exp', cnt') := disconnect_loop l exp cnt in (s :: l', exp', cnt')
      else disconnect_loop l (unlink_expire s exp) (cnt - 1)
  end.

Definition fd_p_sr_on_disconnect (l : sr_list) : sr_list :=
  let '(srs', exp', cnt') := disconnect_loop (srs l) (sr_exp l) (sr_cnt l) in
  SrList srs' exp' cnt' (cnt_lost l) (sr_thr l).

(** * The invariant *)

Definition sr_lt (a b : sentreq) : Prop := sr_hbh a < sr_hbh b.

#[export] Instance sr_lt_trans : Transitive sr_lt.
Proof. unfold sr_lt. intros a b c. lia. Qed.

Definition ts_le (a b : timespec) : Prop := TS_IS_INFERIOR b a = false.

Lemma ts_le_alt a b : ts_le a b ↔ tv_sec a < tv_sec b ∨ (tv_sec a = tv_sec b ∧ tv_nsec a ≤ tv_nsec b).
Proof.
  unfold ts_le, TS_IS_INFERIOR. destruct (Z.ltb_spec (tv_sec b) (tv_sec a)), (Z.eqb_spec (tv_sec b) (tv_sec a)),
    (Z.ltb_spec (tv_nsec b) (tv_nsec a)); cbn; intuition lia.
Qed.

Lemma inferior_alt a b :
  TS_IS_INFERIOR a b = true ↔ tv_sec a < tv_sec b ∨ (tv_sec a = tv_sec b ∧ tv_nsec a < tv_nsec b).
Proof. unfold TS_IS_INFERIOR. rewrite orb_true_iff, andb_true_iff, Z.eqb_eq, !Z.ltb_lt. done. Qed.

Lemma inferior_le a b : TS_IS_INFERIOR a b = true → ts_le a b.
Proof.
  rewrite ts_le_alt, inferior_alt. lia.
Qed.

Definition exp_le (a b : sentreq) : Prop :=
  match sr_timeout a, sr_timeout b with Some t1, Some t2 => ts_le t1 t2 | _, _ => False end.

#[export] Instance exp_le_trans : Transitive exp_le.
Proof.
  unfold exp_le. intros a b c. destruct (sr_timeout a), (sr_timeout b), (sr_timeout c); try done.
  rewrite !ts_le_alt. lia.
Qed.

Definition timed (s : sentreq) : Prop := is_Some (sr_timeout s).

Record sr_ok (l : sr_list) : Prop := {
  ok_srs : StronglySorted sr_lt (srs l);
  ok_cnt : sr_cnt l = Z.of_nat (length (srs l));
  ok_exp : StronglySorted exp_le (sr_exp l);
  ok_timed : sr_exp l ≡ₚ filter timed (srs l)
}.

Lemma sr_init_ok : sr_ok sr_init.
Proof. by split; [constructor|..]; [|constructor|]. Qed.

Lemma filter_all {A} (P : A → Prop) `{!∀ x, Decision (P x)} (l : list A) : (∀ x, x ∈ l → P x) → filter P l = l.
Proof.
  induction l as [|x l IH]; intros HP; [done|]. rewrite filter_cons_True by (apply HP; by left).
  rewrite IH; [done|]. intros y Hy. apply HP. by right.
Qed.

(** An identifier belongs to one entry. *)
Lemma sr_unique l s s' : StronglySorted sr_lt l → s ∈ l → s' ∈ l → sr_hbh s = sr_hbh s' → s = s'.
Proof.
  induction 1 as [|x l Hs IH Hx]; [set_solver|]. rewrite Forall_forall in Hx. unfold sr_lt in Hx.
  intros [->|H1]%elem_of_cons [->|H2]%elem_of_cons He; [done| | |by apply IH].
  - specialize (Hx _ H2). lia.
  - specialize (Hx _ H1). lia.
Qed.

Lemma sr_nodup l : StronglySorted sr_lt l → NoDup l.
Proof.
  induction 1 as [|x l Hs IH Hx]; constructor; [|done]. intros Hin. rewrite Forall_forall in Hx.
  specialize (Hx x Hin). unfold sr_lt in Hx. lia.
Qed.

Lemma sr_middle l1 s l2 :
  StronglySorted sr_lt (l1 ++ s :: l2) → filter (λ s', sr_hbh s' ≠ sr_hbh s) (l1 ++ s :: l2) = l1 ++ l2.
Proof.
  intros Hs. rewrite filter_app, filter_cons, decide_False by auto.
  assert (Hd : ∀ s', s' ∈ l1 ++ l2 → sr_hbh s' ≠ sr_hbh s).
  { intros s' Hs' He. assert (s' = s) as ->; [apply (sr_unique (l1 ++ s :: l2)); set_solver|].
    clear He. induction l1 as [|x l1 IH]; cbn in *.
    - apply StronglySorted_inv in Hs as [_ Hs]. rewrite Forall_forall in Hs. specialize (Hs s Hs'). unfold sr_lt in Hs. lia.
    - apply StronglySorted_inv in Hs as [Hs Hx]. apply elem_of_cons in Hs' as [->|Hs']; [|by apply IH].
      rewrite Forall_forall in Hx. specialize (Hx x ltac:(set_solver)). unfold sr_lt in Hx. lia. }
  rewrite !filter_all; [done|intros; apply Hd; set_solver..].
Qed.

(** Entries leave both lists. *)
Lemma filter_sorted {A} (R : relation A) (P : A → Prop) `{!∀ x, Decision (P x)} (l : list A) :
  StronglySorted R l → StronglySorted R (filter P l).
Proof. apply sorted_sublist, sublist_filter. Qed.

Lemma filter_ok (P : sentreq → Prop) `{!∀ s, Decision (P s)} l cnt lost thr exp' :
  sr_ok l → exp' = filter P (sr_exp l) → cnt = Z.of_nat (length (filter P (srs l))) →
  sr_ok (SrList (filter P (srs l)) exp' cnt lost thr).
Proof.
  intros [H1 H2 H3 H4] -> ->. split; cbn; [by apply filter_sorted|done|by apply filter_sorted|].
  rewrite H4, !list_filter_filter. apply reflexive_eq, list_filter_iff. intros s. tauto.
Qed.

Lemma length_drop_one l s :
  StronglySorted sr_lt l → s ∈ l →
  Z.of_nat (length (filter (λ s', sr_hbh s' ≠ sr_hbh s) l)) = Z.of_nat (length l) - 1.
Proof.
  intros Hs [l1 [l2 ->]]%list_elem_of_split. rewrite sr_middle by done. rewrite !length_app. cbn. lia.
Qed.

(** * The abstraction: a finite map from identifiers to requests *)

Definition abs (l : sr_list) : gmap Z sentreq := list_to_map ((λ s, (sr_hbh s, s)) <$> srs l).

Lemma abs_lookup l h s : sr_ok l → abs l !! h = Some s ↔ s ∈ srs l ∧ sr_hbh s = h.
Proof.
  intros Hok. unfold abs. rewrite <- elem_of_list_to_map.
  - rewrite list_elem_of_fmap. split; [intros (s' & [= -> ->] & ?); done|]. intros [? <-]. by exists s.
  - rewrite <- list_fmap_compose. pose proof (ok_srs _ Hok) as Hs.
    induction Hs as [|x k Hs IH Hx]; [constructor|]. rewrite fmap_cons. constructor; [|done].
    intros (y & Hy & Hin)%list_elem_of_fmap. rewrite Forall_forall in Hx. specialize (Hx y Hin).
    unfold sr_lt in Hx. cbn in Hy. lia.
Qed.

Lemma abs_none l h : sr_ok l → abs l !! h = None ↔ ∀ s, s ∈ srs l → sr_hbh s ≠ h.
Proof.
  intros Hok. split.
  - intros Hn s Hs He. by rewrite (proj2 (abs_lookup l h s Hok)) in Hn.
  - intros H. destruct (abs l !! h) as [s|] eqn:E; [|done]. apply abs_lookup in E as [Hs He]; [|done]. by destruct (H s Hs).
Qed.

(** Two lists with the same entries are the same map. *)
Lemma abs_ext l (M : gmap Z sentreq) :
  sr_ok l → (∀ h s, M !! h = Some s ↔ s ∈ srs l ∧ sr_hbh s = h) → abs l = M.
Proof.
  intros Hok HM. apply map_eq. intros h. apply option_eq. intros s. by rewrite abs_lookup, HM.
Qed.

(** * Operations *)

Lemma store_found l hbh l1 l2 :
  sr_ok l → find_or_prev (srs l) hbh = (l1, l2) →
  srs l = l1 ++ l2 ∧ Forall (λ s, hbh < sr_hbh s) l2
  ∧ (if match last l1 with Some s => sr_hbh s =? hbh | None => false end
     then ∃ s, s ∈ srs l ∧ sr_hbh s = hbh
     else Forall (λ s, sr_hbh s < hbh) l1).
Proof.
  intros Hok E. apply walk_prev_spec in E as (E & H2 & H1). split; [done|]. split.
  { eapply Forall_impl; [exact H2|]. intros s Hs. apply negb_false_iff in Hs. lia. }
  destruct (last l1) as [s|] eqn:El.
  - specialize (H1 s eq_refl). apply negb_true_iff, Z.ltb_ge in H1. destruct (Z.eqb_spec (sr_hbh s) hbh).
    + exists s. split; [|done]. rewrite E. apply elem_of_app. left. by apply last_Some_elem_of.
    + pose proof (ok_srs _ Hok) as Hs. rewrite E in Hs. apply sorted_app_inv in Hs as [Hs _].
      apply last_Some in El as [k ->]. apply Forall_app. split; [|constructor; [lia|constructor]].
      apply Forall_forall. intros x Hx.
      assert (sr_lt x s); [|unfold sr_lt in *; lia].
      clear -Hs Hx. induction k as [|y k IH]; [set_solver|]. cbn in Hs. apply StronglySorted_inv in Hs as [Hs Hy].
      apply elem_of_cons in Hx as [->|Hx]; [|by apply IH]. rewrite Forall_forall in Hy. apply Hy. set_solver.
  - apply last_None in El as ->. constructor.
Qed.

Lemma store_exp t req hr l1 l2 exp :
  exp ≡ₚ filter timed (l1 ++ l2) → StronglySorted exp_le exp →
  StronglySorted exp_le (let (e1, e2) := walk_prev (earlier t) exp in e1 ++ SentReq req hr (Some t) :: e2)
  ∧ (let (e1, e2) := walk_prev (earlier t) exp in e1 ++ SentReq req hr (Some t) :: e2)
    ≡ₚ filter timed (l1 ++ SentReq req hr (Some t) :: l2).
Proof.
  intros Hp Hs. destruct (walk_prev (earlier t) exp) as [e1 e2] eqn:E. apply walk_prev_spec in E as (-> & H2 & H1).
  set (new := SentReq req hr (Some t)).
  assert (Htimed : ∀ s, s ∈ e1 ++ e2 → timed s) by (intros s; rewrite Hp, list_elem_of_filter; tauto).
  pose proof Hs as [Hs1 Hs2]%sorted_app_inv. split.
  - apply sorted_insert; [done| |].
    + apply sorted_before; [apply _|done|]. intros s Hl. specialize (H1 s Hl). unfold earlier in H1. unfold exp_le.
      destruct (sr_timeout s); [|done]. by apply inferior_le.
    + rewrite Forall_forall in *. intros s Hin. specialize (H2 s Hin). unfold earlier in H2. unfold exp_le. cbn.
      destruct (Htimed s ltac:(set_solver)) as [t' Ht']. rewrite Ht' in *. exact H2.
  - rewrite filter_app, filter_cons, decide_True by (by exists t). rewrite filter_app in Hp.
    rewrite <- !Permutation_middle. by rewrite Hp.
Qed.

Lemma sr_store_spec req hr ts l :
  sr_ok l →
  match fd_p_sr_store req hr ts l with
  | None => is_Some (abs l !! msg_hbhid (msg_public req))
  | Some (l', _) => sr_ok l' ∧ abs l !! msg_hbhid (msg_public req) = None
      ∧ abs l' = <[msg_hbhid (msg_public req) := SentReq req hr ts]> (abs l)
  end.
Proof.
  intros Hok. unfold fd_p_sr_store. set (hbh := msg_hbhid (msg_public req)).
  destruct (find_or_prev (srs l) hbh) as [l1 l2] eqn:E. destruct (store_found l hbh l1 l2 Hok E) as (Hl & H2 & H1).
  destruct (match last l1 with Some _ => _ | None => _ end).
  { destruct H1 as (s & Hs & He). exists s. by apply abs_lookup. }
  assert (Hnone : abs l !! hbh = None).
  { apply abs_none; [done|]. rewrite Forall_forall in H1, H2. rewrite Hl. intros s [Hs|Hs]%elem_of_app;
      [specialize (H1 s Hs)|specialize (H2 s Hs)]; lia. }
  set (new := SentReq req hr ts). destruct Hok as [K1 K2 K3 K4]. rewrite Hl in *.
  assert (Hsorted : StronglySorted sr_lt (l1 ++ new :: l2)) by (by apply sorted_insert).
  assert (Hlen : sr_cnt l + 1 = Z.of_nat (length (l1 ++ new :: l2))) by (rewrite K2, !length_app; cbn; lia).
  assert (Habs : ∀ l', sr_ok l' → srs l' = l1 ++ new :: l2 → abs l' = <[hbh := new]> (abs l)).
  { intros l' Hok' Hl'. apply abs_ext; [done|]. intros h s. rewrite Hl', elem_of_app, elem_of_cons.
    assert (Hok : sr_ok l) by (split; rewrite ?Hl; done).
    destruct (decide (h = hbh)) as [->|Hne].
    - rewrite lookup_insert_eq. split; [intros [= <-]; auto|]. intros [[Hs|[->|Hs]] He]; [|done|].
      + rewrite Forall_forall in H1. specialize (H1 s Hs). lia.
      + rewrite Forall_forall in H2. specialize (H2 s Hs). lia.
    - rewrite lookup_insert_ne by done. rewrite abs_lookup, Hl, elem_of_app by done.
      split; [tauto|]. intros [[?|[->|?]] He]; [tauto| |tauto]. by destruct Hne. }
  destruct ts as [t|].
  - destruct (store_exp t req hr l1 l2 _ K4 K3) as [X1 X2]. destruct (walk_prev (earlier t) (sr_exp l)) as [e1 e2].
    assert (Hok' : sr_ok (SrList (l1 ++ new :: l2) (e1 ++ new :: e2) (sr_cnt l + 1) (cnt_lost l) true)) by by split.
    split_and!; [done|done|by apply Habs].
  - assert (Hok' : sr_ok (SrList (l1 ++ new :: l2) (sr_exp l) (sr_cnt l + 1) (cnt_lost l) (sr_thr l))).
    { split; [done|done|done|]. cbn. rewrite filter_app, filter_cons, decide_False, <- filter_app by (by intros []).
      done. }
    split_and!; [done|done|by apply Habs].
Qed.

(** An entry leaves both lists. *)
Lemma drop_ok l s lost :
  sr_ok l → s ∈ srs l →
  let l' := SrList (filter (λ s', sr_hbh s' ≠ sr_hbh s) (srs l)) (unlink_expire s (sr_exp l)) (sr_cnt l - 1) lost (sr_thr l) in
  sr_ok l' ∧ abs l' = delete (sr_hbh s) (abs l).
Proof.
  intros Hok Hs l'. assert (Hok' : sr_ok l').
  { apply filter_ok; [done|done|]. rewrite length_drop_one, (ok_cnt _ Hok) by (apply Hok || done). done. }
  split; [done|]. apply abs_ext; [done|]. intros h x. cbn. rewrite list_elem_of_filter.
  destruct (decide (h = sr_hbh s)) as [->|Hne].
  - rewrite lookup_delete_eq. split; [done|]. intros [[? _] ?]. done.
  - rewrite lookup_delete_ne, abs_lookup by done. split; [intros [? <-]; auto|tauto].
Qed.

Lemma fetch_spec h l :
  sr_ok l →
  let '(res, l') := fd_p_sr_fetch h l in
  res = restored <$> abs l !! h ∧ sr_ok l' ∧ abs l' = delete h (abs l).
Proof.
  intros Hok. unfold fd_p_sr_fetch, find_or_next.
  destruct (walk_next _ (srs l)) as [l1 l2] eqn:E. apply walk_next_spec in E as (El & H1 & H2).
  assert (Hb : ∀ s, s ∈ l1 → sr_hbh s < h).
  { rewrite Forall_forall in H1. intros s Hs. specialize (H1 s Hs). apply negb_false_iff in H1. lia. }
  assert (Hmiss : ∀ lost, (∀ s, s ∈ srs l → sr_hbh s ≠ h) →
    let l' := SrList (srs l) (sr_exp l) (sr_cnt l) lost (sr_thr l) in
    (None : option msg) = restored <$> abs l !! h ∧ sr_ok l' ∧ abs l' = delete h (abs l)).
  { intros lost Hn%abs_none l'; [|done]. rewrite Hn. split; [done|]. split; [by destruct Hok; split|].
    by rewrite delete_id. }
  destruct l2 as [|s l2].
  { apply Hmiss. rewrite El, app_nil_r. intros s Hs. specialize (Hb s Hs). lia. }
  pose proof (ok_srs _ Hok) as Hsort. rewrite El in Hsort. destruct (Z.eqb_spec (sr_hbh s) h) as [<-|Hne].
  - assert (Hs : s ∈ srs l) by (rewrite El; set_solver).
    rewrite (proj2 (abs_lookup l (sr_hbh s) s Hok)) by done. split; [done|].
    destruct (drop_ok l s (cnt_lost l) Hok Hs) as [Hok' Habs]. rewrite El, sr_middle in Hok', Habs by done. done.
  - apply Hmiss. rewrite El. intros x [Hx|[->|Hx]%elem_of_cons]%elem_of_app; [specialize (Hb x Hx); lia|done|].
    specialize (H2 s eq_refl). apply negb_true_iff, Z.ltb_ge in H2.
    apply sorted_app_inv in Hsort as [_ [_ Hf]%StronglySorted_inv]. rewrite Forall_forall in Hf.
    specialize (Hf x Hx). unfold sr_lt in Hf. lia.
Qed.

(** A request whose time is over. *)
Definition due (now : timespec) (s : sentreq) : Prop :=
  match sr_timeout s with Some t => TS_IS_INFERIOR now t = false | None => False end.

Lemma expire_spec now l :
  sr_ok l →
  match sr_expire now l with
  | (Some m, l') => ∃ s, abs l !! sr_hbh s = Some s ∧ m = restored s ∧ due now s
      ∧ (∀ h s', abs l !! h = Some s' → timed s' → exp_le s s')
      ∧ sr_ok l' ∧ abs l' = delete (sr_hbh s) (abs l)
  | (None, l') => l' = l ∧ ∀ h s, abs l !! h = Some s → ¬ due now s
  end.
Proof.
  intros Hok. unfold sr_expire. pose proof (ok_timed _ Hok) as Hp. pose proof (ok_exp _ Hok) as He.
  assert (Hin : ∀ s, timed s → s ∈ srs l → s ∈ sr_exp l) by (intros s Ht Hs; rewrite Hp, list_elem_of_filter; done).
  assert (Hout : ∀ s, s ∈ sr_exp l → timed s ∧ s ∈ srs l) by (intros s; rewrite Hp, list_elem_of_filter; tauto).
  assert (Hdue : ∀ s, due now s → timed s) by (unfold due, timed; intros s; destruct (sr_timeout s); done).
  destruct (sr_exp l) as [|first rest] eqn:Ee.
  { split; [done|]. intros h s [Hs _]%abs_lookup Hd; [|done]. specialize (Hin s (Hdue s Hd) Hs). set_solver. }
  destruct (Hout first ltac:(by left)) as [[t Ht] Hf]. rewrite Ht.
  apply StronglySorted_inv in He as [_ Hmin]. rewrite Forall_forall in Hmin.
  destruct (TS_IS_INFERIOR now t) eqn:Ei.
  - split; [done|]. intros h s [Hs _]%abs_lookup Hd; [|done]. pose proof (Hin s (Hdue s Hd) Hs) as Hs'.
    apply elem_of_cons in Hs' as [->|Hs']; [unfold due in Hd; rewrite Ht in Hd; congruence|].
    specialize (Hmin s Hs'). unfold exp_le, due in *. rewrite Ht in Hmin. destruct (sr_timeout s) as [ts|]; [|done].
    apply inferior_alt in Ei. apply ts_le_alt in Hmin. apply (ts_le_alt ts now) in Hd. lia.
  - exists first. destruct (drop_ok l first (cnt_lost l + 1) Hok Hf) as [Hok' Habs].
    assert (Hrest : unlink_expire first (sr_exp l) = rest).
    { unfold unlink_expire. rewrite Ee, filter_cons_False by auto. apply filter_all. intros x Hx Hh.
      destruct (Hout x ltac:(by right)) as [_ Hxs].
      assert (x = first) as -> by (by apply (sr_unique (srs l)); [apply Hok|..]).
      assert (Hnd : NoDup (first :: rest)); [|apply NoDup_cons in Hnd; tauto].
      rewrite Hp. apply NoDup_filter, sr_nodup, Hok. }
    rewrite Hrest in Hok', Habs. split_and!; [by apply abs_lookup|done|by unfold due; rewrite Ht| |done|done].
    intros h s [Hs _]%abs_lookup Hts; [|done]. pose proof (Hin s Hts Hs) as [->|Hs']%elem_of_cons; [|by apply Hmin].
    unfold exp_le. rewrite Ht. apply ts_le_alt. lia.
Qed.

(** The requests another peer can be asked. *)
Definition routable (s : sentreq) : Prop := fd_msg_is_routable (sr_req s) = true.

#[export] Instance routable_dec s : Decision (routable s) := decide (fd_msg_is_routable (sr_req s) = true).

(** What the two loops do to the list [exp] and to the counter. *)
Definition listed (l : list sentreq) (s : sentreq) : Prop := sr_hbh s ∈ sr_hbh <$> l.

#[export] Instance listed_dec l s : Decision (listed l s) := decide (sr_hbh s ∈ sr_hbh <$> l).

Lemma failover_loop_spec l : ∀ exp cnt,
  failover_loop l exp cnt
  = ((λ s, set_hbhid (prevhbh s) (set_retransmit (sr_req s))) <$> filter routable l,
     filter (λ s, ¬ listed l s) exp, cnt - Z.of_nat (length l)).
Proof.
  induction l as [|s l IH]; intros exp cnt; cbn [failover_loop].
  { rewrite (filter_all (λ s, ¬ listed [] s)); [|intros x _ H; by apply not_elem_of_nil in H].
    cbn. do 2 f_equal. lia. }
  rewrite IH. unfold unlink_expire. rewrite list_filter_filter.
  assert (E : filter (λ x, ¬ listed l x ∧ sr_hbh x ≠ sr_hbh s) exp = filter (λ x, ¬ listed (s :: l) x) exp).
  { apply list_filter_iff. intros x. unfold listed. rewrite fmap_cons, elem_of_cons. tauto. }
  rewrite E. cbn [length]. replace (cnt - 1 - Z.of_nat (length l)) with (cnt - Z.of_nat (S (length l))) by lia.
  rewrite filter_cons. destruct (fd_msg_is_routable (sr_req s)) eqn:Er.
  - by rewrite (decide_True (P := routable s)).
  - rewrite (decide_False (P := routable s)); [done|]. unfold routable. congruence.
Qed.

Lemma failover_spec l :
  sr_ok l →
  fd_p_sr_failover l
  = Some ((λ s, set_hbhid (prevhbh s) (set_retransmit (sr_req s)))
            <$> filter routable (srs l),
          SrList [] [] 0 (cnt_lost l) false).
Proof.
  intros Hok. unfold fd_p_sr_failover. rewrite failover_loop_spec.
  assert (E : filter (λ s, ¬ listed (srs l) s) (sr_exp l) = []).
  { destruct (filter _ (sr_exp l)) as [|x k] eqn:E; [done|]. exfalso.
    assert (Hx : x ∈ filter (λ s, ¬ listed (srs l) s) (sr_exp l)) by (rewrite E; by left).
    apply list_elem_of_filter in Hx as [Hn Hx]. rewrite (ok_timed _ Hok), list_elem_of_filter in Hx.
    apply Hn. unfold listed. apply (list_elem_of_fmap_2 sr_hbh), Hx. }
  rewrite E. replace (sr_cnt l - Z.of_nat (length (srs l))) with 0 by (rewrite (ok_cnt _ Hok); lia). done.
Qed.

Lemma disconnect_loop_spec l : ∀ exp cnt,
  disconnect_loop l exp cnt
  = (filter routable l,
     filter (λ s, ¬ listed (filter (λ s, ¬ routable s) l) s) exp,
     cnt - Z.of_nat (length l) + Z.of_nat (length (filter routable l))).
Proof.
  induction l as [|s l IH]; intros exp cnt; cbn [disconnect_loop].
  { rewrite (filter_all (λ s, ¬ listed (filter _ []) s)); [|intros x _ H; by apply not_elem_of_nil in H].
    cbn. do 2 f_equal. lia. }
  rewrite !filter_cons. destruct (fd_msg_is_routable (sr_req s)) eqn:Er; rewrite IH; cbn [length].
  - rewrite (decide_False (P := ¬ routable s)) by (unfold routable; congruence).
    rewrite (decide_True (P := routable s)) by done. cbn [length]. f_equal. lia.
  - rewrite (decide_True (P := ¬ routable s)), (decide_False (P := routable s)) by (unfold routable; congruence).
    f_equal; [f_equal|lia].
    unfold unlink_expire. rewrite list_filter_filter. apply list_filter_iff. intros x. unfold listed.
    rewrite fmap_cons, elem_of_cons. tauto.
Qed.

Lemma disconnect_spec l :
  sr_ok l →
  sr_ok (fd_p_sr_on_disconnect l)
  ∧ abs (fd_p_sr_on_disconnect l) = filter (λ '(_, s), routable s) (abs l).
Proof.
  intros Hok. unfold fd_p_sr_on_disconnect. rewrite disconnect_loop_spec.
  assert (E : filter (λ s, ¬ listed (filter (λ s, ¬ routable s) (srs l)) s) (sr_exp l) = filter routable (sr_exp l)).
  { assert (Hin : ∀ s, s ∈ sr_exp l → s ∈ srs l) by (intros s; rewrite (ok_timed _ Hok), list_elem_of_filter; tauto).
    revert Hin. induction (sr_exp l) as [|s k IH]; intros Hin; [done|]. rewrite !filter_cons, IH by set_solver.
    destruct (decide (routable s)) as [Hs|Hs].
    - rewrite decide_True; [done|]. intros (x & Hx & [Hnx Hxs]%list_elem_of_filter)%list_elem_of_fmap.
      assert (s = x) as ->; [|done]. apply (sr_unique (srs l)); [apply Hok|apply Hin; by left|done|done].
    - rewrite decide_False; [done|]. intros Hn. apply Hn. apply list_elem_of_fmap_2, list_elem_of_filter.
      split; [done|]. apply Hin. by left. }
  rewrite E. assert (Hok' : sr_ok (SrList (filter routable (srs l)) (filter routable (sr_exp l))
      (sr_cnt l - Z.of_nat (length (srs l)) + Z.of_nat (length (filter routable (srs l)))) (cnt_lost l) (sr_thr l))).
  { apply filter_ok; [done|done|]. rewrite (ok_cnt _ Hok). lia. }
  split; [exact Hok'|]. apply abs_ext; [exact Hok'|]. intros h s. cbn.
  rewrite map_lookup_filter_Some, abs_lookup, list_elem_of_filter by done. tauto.
Qed.

(** * Refinement *)

Inductive sr_op :=
| Store (req : msg) (hbh_restore : Z) (ts : option timespec)
| Fetch (hbh : Z)
| Expire (now : timespec)
| Failover
| Disconnect.

Inductive sr_out :=
| Refused
| Stored
| Fetched (m : option msg)
| Expired (m : option msg)
| Requeued (ms : list msg)
| Discarded.

(** [None]: an ASSERT fails. *)
Definition sr_exec (op : sr_op) (l : sr_list) : option (sr_out * sr_list) :=
  match op with
  | Store req hr ts =>
      match fd_p_sr_store req hr ts l with Some (l', _) => Some (Stored, l') | None => Some (Refused, l) end
  | Fetch h => let (res, l') := fd_p_sr_fetch h l in Some (Fetched res, l')
  | Expire now => let (res, l') := sr_expire now l in Some (Expired res, l')
  | Failover => match fd_p_sr_failover l with Some (out, l') => Some (Requeued out, l') | None => None end
  | Disconnect => Some (Discarded, fd_p_sr_on_disconnect l)
  end.

Inductive sr_reachable : sr_list → Prop :=
| sr_start : sr_reachable sr_init
| sr_step op l out l' : sr_reachable l → sr_exec op l = Some (out, l') → sr_reachable l'.

(** What goes back to the outgoing queue for a request. *)
Definition retry (s : sentreq) : msg := set_hbhid (prevhbh s) (set_retransmit (sr_req s)).

(** The operations on a finite map from hop-by-hop identifiers. *)
Definition abs_step (op : sr_op) (M : gmap Z sentreq) (out : sr_out) (M' : gmap Z sentreq) : Prop :=
  match op, out with
  | Store req hr ts, Refused => is_Some (M !! msg_hbhid (msg_public req)) ∧ M' = M
  | Store req hr ts, Stored =>
      M !! msg_hbhid (msg_public req) = None ∧ M' = <[msg_hbhid (msg_public req) := SentReq req hr ts]> M
  | Fetch h, Fetched res => res = restored <$> M !! h ∧ M' = delete h M
  | Expire now, Expired (Some m) =>
      ∃ s, M !! sr_hbh s = Some s ∧ m = restored s ∧ due now s
        ∧ (∀ h s', M !! h = Some s' → timed s' → exp_le s s') ∧ M' = delete (sr_hbh s) M
  | Expire now, Expired None => M' = M ∧ ∀ h s, M !! h = Some s → ¬ due now s
  | Failover, Requeued ms => ms ≡ₚ retry <$> filter routable (map_to_list M).*2 ∧ M' = ∅
  | Disconnect, Discarded => M' = filter (λ '(_, s), routable s) M
  | _, _ => False
  end.

Lemma abs_keys l : sr_ok l → NoDup ((λ s, (sr_hbh s, s)) <$> srs l).*1.
Proof.
  intros Hok. rewrite <- list_fmap_compose. pose proof (ok_srs _ Hok) as Hs.
  induction Hs as [|x k Hs IH Hx]; [constructor|]. rewrite fmap_cons. constructor; [|done].
  intros (y & Hy & Hin)%list_elem_of_fmap. rewrite Forall_forall in Hx. specialize (Hx y Hin).
  unfold sr_lt in Hx. cbn in Hy. lia.
Qed.

Lemma abs_list l : sr_ok l → (map_to_list (abs l)).*2 ≡ₚ srs l.
Proof.
  intros Hok. unfold abs. rewrite map_to_list_to_map by (by apply abs_keys).
  by rewrite <- list_fmap_compose, list_fmap_id.
Qed.

Lemma abs_size l : sr_ok l → sr_cnt l = Z.of_nat (size (abs l)).
Proof.
  intros Hok. rewrite (ok_cnt _ Hok), <- (abs_list l Hok), length_fmap, length_map_to_list. done.
Qed.

Lemma exec_spec op l :
  sr_ok l → ∃ out l', sr_exec op l = Some (out, l') ∧ sr_ok l' ∧ abs_step op (abs l) out (abs l').
Proof.
  intros Hok. destruct op as [req hr ts|h|now| |]; cbn.
  - pose proof (sr_store_spec req hr ts l Hok) as H. destruct (fd_p_sr_store req hr ts l) as [[l' b]|].
    + destruct H as (? & ? & ?). by exists Stored, l'.
    + by exists Refused, l.
  - pose proof (fetch_spec h l Hok) as H. destruct (fd_p_sr_fetch h l) as [res l']. destruct H as (? & ? & ?).
    by exists (Fetched res), l'.
  - pose proof (expire_spec now l Hok) as H. destruct (sr_expire now l) as [[m|] l'].
    + destruct H as (s & ? & ? & ? & ? & ? & ?). exists (Expired (Some m)), l'. split_and!; [done|done|]. by exists s.
    + destruct H as (-> & ?). by exists (Expired None), l.
  - rewrite (failover_spec l Hok). eexists _, _. split; [done|]. split; [apply sr_init_ok || by split; [constructor|..]; [|constructor|]|].
    split; [|done]. by rewrite (abs_list l Hok).
  - destruct (disconnect_spec l Hok) as [? ?]. by exists Discarded, (fd_p_sr_on_disconnect l).
Qed.

Lemma sr_reachable_ok l : sr_reachable l → sr_ok l.
Proof.
  induction 1 as [|op l out l' _ IH He]; [apply sr_init_ok|].
  destruct (exec_spec op l IH) as (out2 & l2 & E & Hok & _). congruence.
Qed.

(** C36: The lists of sent requests implement a finite map from hop-by-hop
    identifiers: whatever was done before, storing a request is refused exactly
    if its identifier is in use; an answer fetches the request with its
    identifier, once, with the identifier it had before; the request that
    expires is one whose time is over and no other is earlier; a failover
    requeues each request that can go to another peer, marked as retransmitted,
    and empties the lists, with both ASSERTs holding; a disconnection discards
    the others; and [cnt] is the number of requests. *)
Theorem sent_requests_refine l op :
  sr_reachable l →
  ∃ out l', sr_exec op l = Some (out, l') ∧ abs_step op (abs l) out (abs l')
    ∧ sr_cnt l' = Z.of_nat (size (abs l')).
Proof.
  intros Hr%sr_reachable_ok. destruct (exec_spec op l Hr) as (out & l' & E & Hok & Ha).
  exists out, l'. split_and!; [done|done|by apply abs_size].
Qed.

(** A request in flight. *)
Definition sample_sent : msg :=
  {| msg_public := {| msg_version := 1; msg_length := 20; msg_flags := 0xc0; msg_code := 268; msg_appl := 5;
                      msg_hbhid := 100; msg_eteid := 9 |};
     msg_model := None; msg_mnf_code := 0; msg_mnf_flags := 0; msg_children := [] |}.

Definition sample_list : sr_list :=
  match fd_p_sr_store sample_sent 7 (Some (Timespec 5 0)) sr_init with Some (l, _) => l | None => sr_init end.

Lemma sample_list_reachable : sr_reachable sample_list.
Proof.
  apply (sr_step (Store sample_sent 7 (Some (Timespec 5 0))) sr_init Stored); [constructor|vm_compute; reflexivity].
Qed.

Lemma sent_requests_refine_witness :
  ∃ out l', sr_exec (Fetch 100) sample_list = Some (out, l')
    ∧ abs_step (Fetch 100) (abs sample_list) out (abs l') ∧ out = Fetched (Some (set_hbhid 7 sample_sent)).
Proof.
  destruct (sent_requests_refine sample_list (Fetch 100) sample_list_reachable) as (out & l' & E & Ha & _).
  exists out, l'. split; [exact E|]. split; [exact Ha|]. vm_compute in E. injection E as <- _. reflexivity.
Defined.
