(* ===== verification/FdEndpoints.v ===== *)
(** The endpoints of a peer (libfdcore/endpoints.c): a list of transport
    addresses ordered by family, address and port, each with the flags that say
    where it is known from; and the addresses in AVPs of type Address
    (libfdproto/dictionary_functions.c). *)

From stdpp Require Import base list sorting.
From Stdlib Require Import ZArith Lia.
From S2P Require Import Prelude FdDictionary FdDictInv FdMessages FdLoops.
Open Scope Z_scope.

Definition AF_INET : Z := 2.
Definition AF_INET6 : Z := 10.

Definition EP_FL_CONF : Z := 1.
Definition EP_FL_DISC : Z := 2.
Definition EP_FL_ADV : Z := 4.
Definition EP_FL_LL : Z := 8.
Definition EP_FL_PRIMARY : Z := 16.
Definition EP_ACCEPTALL : Z := 32768.

(** A socket address: the family, the octets of the address, and the port as the
    16-bit number the code compares. *)
Record sockaddr := SockAddr { sa_family : Z; sa_addr : list Z; sa_port : Z }.

(** [struct fd_endpoint]. *)
Record fd_endpoint := Endpoint { ep_sa : sockaddr; ep_flags : Z }.

(** The addresses [fd_ep_add_merge] ignores without EP_ACCEPTALL. *)
Definition in_filtered (a : list Z) : bool :=
  match a with
  | x :: _ => forallb (Z.eqb 0) a || (x =? 127) || (224 <=? x)
  | [] => false
  end.

Definition in6_filtered (a : list Z) : bool :=
  match a with
  | x :: y :: _ =>
      forallb (Z.eqb 0) a
      || (forallb (Z.eqb 0) (take 15 a) && (nth 15 a 0 =? 1))
      || (x =? 255)
      || ((x =? 0xfe) && (Z.land y 0xc0 =? 0x80))
      || ((x =? 0xfe) && (Z.land y 0xc0 =? 0xc0))
  | _ => false
  end.

Definition set_port (p : Z) (sa : sockaddr) : sockaddr := SockAddr (sa_family sa) (sa_addr sa) p.

(** The search and what follows it, for the rest of the list. *)
Fixpoint ep_merge (sa : sockaddr) (flags : Z) (l : list fd_endpoint) : list fd_endpoint :=
  match l with
  | [] => [Endpoint sa flags]
  | ep :: l' =>
      let e := ep_sa ep in
      let merged e := Endpoint e (Z.lor (ep_flags ep) flags) in
      if sa_family e <? sa_family sa then ep :: ep_merge sa flags l'
      else if sa_family sa <? sa_family e then Endpoint sa flags :: l
      else
        let cmp := memcmp (sa_addr e) (sa_addr sa) in
        if cmp <? 0 then ep :: ep_merge sa flags l'
        else if 0 <? cmp then Endpoint sa flags :: l
        else if sa_port sa =? 0 then merged e :: l'
        else if sa_port e =? 0 then merged (set_port (sa_port sa) e) :: l'
        else if sa_port e <? sa_port sa then ep :: ep_merge sa flags l'
        else if sa_port sa <? sa_port e then Endpoint sa flags :: l
        else merged e :: l'
  end.

Definition fd_ep_add_merge (l : list fd_endpoint) (sa : sockaddr) (flags : Z) : list fd_endpoint :=
  let all := has_flag flags EP_ACCEPTALL in
  let flags := Z.land flags (Z.lnot EP_ACCEPTALL) in
  if sa_family sa =? AF_INET then if negb all && in_filtered (sa_addr sa) then l else ep_merge sa flags l
  else if sa_family sa =? AF_INET6 then if negb all && in6_filtered (sa_addr sa) then l else ep_merge sa flags l
  else l.

Definition fd_ep_filter (l : list fd_endpoint) (flags : Z) : list fd_endpoint :=
  filter (λ ep, has_flag (ep_flags ep) flags = true) l.

Definition fd_ep_filter_family (l : list fd_endpoint) (af : Z) : list fd_endpoint :=
  filter (λ ep, sa_family (ep_sa ep) = af) l.

(** An endpoint whose last flag is cleared is removed. *)
Definition fd_ep_clearflags (l : list fd_endpoint) (flags : Z) : list fd_endpoint :=
  filter (λ ep, ep_flags ep ≠ 0)
    ((λ ep, Endpoint (ep_sa ep) (Z.land (ep_flags ep) (Z.lnot flags))) <$> l).

(** * Addresses in AVPs *)

(** [None] is EINVAL. *)
Definition fd_dictfct_Address_encode (sa : sockaddr) : option (list Z) :=
  if sa_family sa =? AF_INET then Some (0 :: 1 :: sa_addr sa)
  else if sa_family sa =? AF_INET6 then Some (0 :: 2 :: sa_addr sa)
  else None.

(** The port stays what the caller put there, 0. *)
Definition fd_dictfct_Address_interpret (os : list Z) : option sockaddr :=
  match os with
  | t1 :: t2 :: buf =>
      let AddressType := t1 * 256 + t2 in
      if AddressType =? 1 then
        if (length os =? 6)%nat then Some (SockAddr AF_INET buf 0) else None
      else if AddressType =? 2 then
        if (length os =? 18)%nat then Some (SockAddr AF_INET6 buf 0) else None
      else None
  | _ => None
  end.

(** * The order of the list *)

Definition addr_len (fam : Z) : nat := if fam =? AF_INET then 4 else 16.

(** A socket address of the two families, with its octets. *)
Definition sa_ok (sa : sockaddr) : Prop :=
  (sa_family sa = AF_INET ∨ sa_family sa = AF_INET6) ∧ length (sa_addr sa) = addr_len (sa_family sa)
  ∧ 0 ≤ sa_port sa.

Definition sa_key (sa : sockaddr) : list Z := sa_family sa :: sa_addr sa.

(** Before in the list: a smaller address, or the same one and a smaller port,
    where neither port is the wildcard 0. *)
Definition ep_lt (x y : fd_endpoint) : Prop :=
  lex (sa_key (ep_sa x)) (sa_key (ep_sa y)) < 0
  ∨ sa_key (ep_sa x) = sa_key (ep_sa y) ∧ 0 < sa_port (ep_sa x) < sa_port (ep_sa y).

#[export] Instance ep_lt_trans : Transitive ep_lt.
Proof.
  intros x y z [Hxy|[Exy Hxy]] [Hyz|[Eyz Hyz]].
  - left. by eapply lex_trans.
  - left. by rewrite <- Eyz.
  - left. by rewrite Exy.
  - right. split; [congruence|lia].
Qed.

Definition eps_ok (l : list fd_endpoint) : Prop :=
  StronglySorted ep_lt l ∧ Forall (λ ep, sa_ok (ep_sa ep)) l.

Lemma sorted_head (x : fd_endpoint) l : Forall (ep_lt x) l → StronglySorted ep_lt l → StronglySorted ep_lt (x :: l).
Proof. by constructor. Qed.

(** What the comparisons of the code say of the keys. *)
Lemma key_cases (e sa : sockaddr) :
  sa_ok e → sa_ok sa →
  (lex (sa_key e) (sa_key sa) < 0
     ∧ ((sa_family e <? sa_family sa) = true
        ∨ (sa_family e <? sa_family sa) = false ∧ (sa_family sa <? sa_family e) = false
          ∧ (memcmp (sa_addr e) (sa_addr sa) <? 0) = true))
  ∨ (0 < lex (sa_key e) (sa_key sa)
     ∧ (sa_family e <? sa_family sa) = false
     ∧ ((sa_family sa <? sa_family e) = true
        ∨ (sa_family sa <? sa_family e) = false
          ∧ (memcmp (sa_addr e) (sa_addr sa) <? 0) = false ∧ (0 <? memcmp (sa_addr e) (sa_addr sa)) = true))
  ∨ (sa_key e = sa_key sa
     ∧ (sa_family e <? sa_family sa) = false ∧ (sa_family sa <? sa_family e) = false
     ∧ (memcmp (sa_addr e) (sa_addr sa) <? 0) = false ∧ (0 <? memcmp (sa_addr e) (sa_addr sa)) = false).
Proof.
  intros (_ & He & _) (_ & Hs & _). unfold sa_key. cbn [lex].
  destruct (Z.ltb_spec (sa_family e) (sa_family sa)); [left; split; [lia|by left]|].
  destruct (Z.ltb_spec (sa_family sa) (sa_family e)); [right; left; split_and!; [lia|done|by left]|].
  assert (Ef : sa_family e = sa_family sa) by lia. rewrite memcmp_lex by congruence.
  destruct (Z.ltb_spec (lex (sa_addr e) (sa_addr sa)) 0); [left; split; [done|by right]|]. right.
  destruct (Z.ltb_spec 0 (lex (sa_addr e) (sa_addr sa))); [left; split_and!; [done..|by right]|]. right.
  split_and!; try done. f_equal; [done|]. apply lex_eq. lia.
Qed.

(** An endpoint covers a socket address: the same address, and the same port or
    one in place of the wildcard. *)
Definition covers (ep : fd_endpoint) (sa : sockaddr) (flags : Z) : Prop :=
  sa_key (ep_sa ep) = sa_key sa ∧ (sa_port sa = 0 ∨ sa_port (ep_sa ep) = sa_port sa)
  ∧ Z.land (ep_flags ep) flags = flags.

Lemma covers_self ep : covers ep (ep_sa ep) (ep_flags ep).
Proof. split_and!; [done|by right|apply Z.land_diag]. Qed.

Lemma lor_absorbs a b : Z.land (Z.lor a b) a = a ∧ Z.land (Z.lor a b) b = b.
Proof. split; apply Z.bits_inj'; intros n _; rewrite Z.land_spec, Z.lor_spec; by destruct (Z.testbit a n), (Z.testbit b n). Qed.

Lemma key_port_eq (e sa : sockaddr) : sa_key e = sa_key sa → set_port (sa_port sa) e = sa.
Proof. destruct e, sa. cbn. by intros [= -> ->]. Qed.

Record merges (sa : sockaddr) (flags : Z) (l l' : list fd_endpoint) : Prop := {
  merges_ok : eps_ok l';
  merges_new : Exists (λ ep, covers ep sa flags) l';
  merges_old : ∀ x, x ∈ l → Exists (λ ep, covers ep (ep_sa x) (ep_flags x)) l';
  merges_only : ∀ y, y ∈ l' → ep_sa y = sa ∨ ∃ x, x ∈ l ∧ ep_sa y = ep_sa x
}.

Lemma merge_skip sa flags ep l l' :
  ep_lt ep (Endpoint sa flags) → eps_ok (ep :: l) → merges sa flags l l' → merges sa flags (ep :: l) (ep :: l').
Proof.
  intros Hlt [Hs Ho] [[M1 M1'] M2 M3 M4]. apply StronglySorted_inv in Hs as [_ Hf]. apply Forall_cons in Ho as [Ho _].
  split.
  - split; [|by constructor]. apply sorted_head; [|done]. apply Forall_forall. intros y Hy.
    destruct (M4 y Hy) as [E|(x & Hx & E)]; unfold ep_lt; rewrite E; [exact Hlt|].
    rewrite Forall_forall in Hf. exact (Hf x Hx).
  - by apply Exists_cons_tl.
  - intros x [->|Hx]%elem_of_cons; [apply Exists_cons_hd, covers_self|by apply Exists_cons_tl, M3].
  - intros y [->|Hy]%elem_of_cons; [right; exists ep; split; [left|done]|].
    destruct (M4 y Hy) as [?|(x & ? & ?)]; [by left|right; exists x; split; [by right|done]].
Qed.

Lemma merge_insert sa flags ep l :
  sa_ok sa → ep_lt (Endpoint sa flags) ep → eps_ok (ep :: l) →
  merges sa flags (ep :: l) (Endpoint sa flags :: ep :: l).
Proof.
  intros Hsa Hlt [Hs Ho]. split.
  - split; [|by constructor]. apply sorted_head; [|done]. apply StronglySorted_inv in Hs as [_ Hf].
    constructor; [done|]. eapply Forall_impl; [exact Hf|]. intros y. by transitivity ep.
  - apply Exists_cons_hd. exact (covers_self (Endpoint sa flags)).
  - intros x Hx. apply Exists_cons_tl, Exists_exists. exists x. split; [done|apply covers_self].
  - intros y [->|Hy]%elem_of_cons; [by left|right; by exists y].
Qed.

(** The entry at the place of the search takes the flags, and the port if it has
    none. *)
Lemma merge_join sa flags ep l e' :
  sa_key (ep_sa ep) = sa_key sa → sa_ok e' →
  e' = ep_sa ep ∧ (sa_port sa = 0 ∨ sa_port (ep_sa ep) = sa_port sa)
    ∨ sa_port (ep_sa ep) = 0 ∧ 0 < sa_port sa ∧ e' = sa →
  eps_ok (ep :: l) → merges sa flags (ep :: l) (Endpoint e' (Z.lor (ep_flags ep) flags) :: l).
Proof.
  intros Hk He' Hcase [Hs Ho]. apply StronglySorted_inv in Hs as [Hs Hf]. apply Forall_cons in Ho as [_ Ho].
  assert (Hlt : ∀ y, ep_lt ep y → ep_lt (Endpoint e' (Z.lor (ep_flags ep) flags)) y).
  { intros y. destruct Hcase as [[-> _]|(Hp & _ & ->)]; [done|]. unfold ep_lt. cbn [ep_sa]. rewrite Hk, Hp. intros [?|[_ ?]]; [by left|lia]. }
  split.
  - split; [|by constructor]. apply sorted_head; [|done]. eapply Forall_impl; [exact Hf|exact Hlt].
  - apply Exists_cons_hd. split_and!; [by destruct Hcase as [[-> _]|(_ & _ & ->)]| |apply lor_absorbs].
    destruct Hcase as [[-> ?]|(_ & _ & ->)]; [done|by right].
  - intros x [->|Hx]%elem_of_cons.
    + apply Exists_cons_hd. split_and!; [destruct Hcase as [[-> _]|(_ & _ & ->)]; done| |apply lor_absorbs].
      destruct Hcase as [[-> _]|(? & _ & ->)]; [by right|by left].
    + apply Exists_cons_tl, Exists_exists. exists x. split; [done|apply covers_self].
  - intros y [->|Hy]%elem_of_cons; [|right; exists y; split; [by right|done]]. cbn.
    destruct Hcase as [[-> _]|(_ & _ & ->)]; [right; exists ep; split; [left|done]|by left].
Qed.

Lemma ep_merge_spec sa flags l : sa_ok sa → eps_ok l → merges sa flags l (ep_merge sa flags l).
Proof.
  intros Hsa. induction l as [|ep l IH]; intros Hok.
  { split; [split; [apply SSorted_cons; constructor|by constructor]|apply Exists_cons_hd; exact (covers_self (Endpoint sa flags))|by intros ? ?%elem_of_nil|].
    intros y [->|?%elem_of_nil]%elem_of_cons; [by left|done]. }
  pose proof Hok as [Hs Ho]. apply Forall_cons in Ho as [He Ho]. apply StronglySorted_inv in Hs as [Hs _].
  cbn [ep_merge]. cbv zeta.
  destruct (key_cases (ep_sa ep) sa He Hsa) as [[Hlt [->|(-> & -> & ->)]]|[(Hlt & -> & [->|(-> & -> & ->)])|(Hk & -> & -> & -> & ->)]];
    try (apply merge_skip; [by left|done|by apply IH]);
    try (apply merge_insert; [done|left; by apply lex_flip|done]).
  assert (Hp : 0 ≤ sa_port sa ∧ 0 ≤ sa_port (ep_sa ep)) by (split; apply Hsa || apply He).
  destruct (Z.eqb_spec (sa_port sa) 0) as [E0|N0]; [apply merge_join; auto|].
  destruct (Z.eqb_spec (sa_port (ep_sa ep)) 0) as [E1|N1].
  { rewrite key_port_eq by done. apply merge_join; [done..| |done]. right. split_and!; [done|lia|done]. }
  destruct (Z.ltb_spec (sa_port (ep_sa ep)) (sa_port sa)).
  { apply merge_skip; [|done|by apply IH]. right. split; [done|cbn; lia]. }
  destruct (Z.ltb_spec (sa_port sa) (sa_port (ep_sa ep))).
  { apply merge_insert; [done| |done]. right. split; [done|cbn; lia]. }
  apply merge_join; [done..| |done]. left. split; [done|]. right. lia.
Qed.

Lemma eps_ok_filter (P : fd_endpoint → Prop) `{∀ x, Decision (P x)} l : eps_ok l → eps_ok (filter P l).
Proof.
  intros [Hs Ho]. split; [|rewrite Forall_forall in *; intros x [_ Hx]%list_elem_of_filter; by apply Ho]. eapply sorted_sublist; [|exact Hs]. apply sublist_filter.
Qed.

Lemma eps_ok_flags (f : Z → Z) l : eps_ok l → eps_ok ((λ ep, Endpoint (ep_sa ep) (f (ep_flags ep))) <$> l).
Proof.
  intros [Hs Ho]. split; [|by apply Forall_fmap]. induction Hs as [|x l _ IH Hf]; [constructor|].
  apply Forall_cons in Ho as [_ Ho]. constructor; [by apply IH|]. by apply Forall_fmap.
Qed.

(** The operations of the code on a list that starts empty. *)
Inductive ep_op :=
| AddMerge (sa : sockaddr) (flags : Z)
| Filter (flags : Z)
| FilterFamily (af : Z)
| ClearFlags (flags : Z).

Definition ep_exec (l : list fd_endpoint) (op : ep_op) : list fd_endpoint :=
  match op with
  | AddMerge sa flags => fd_ep_add_merge l sa flags
  | Filter flags => fd_ep_filter l flags
  | FilterFamily af => fd_ep_filter_family l af
  | ClearFlags flags => fd_ep_clearflags l flags
  end.

Definition op_ok (op : ep_op) : Prop := match op with AddMerge sa _ => sa_ok sa | _ => True end.

(** The address is one [fd_ep_add_merge] takes with these flags. *)
Definition accepted (sa : sockaddr) (flags : Z) : bool :=
  has_flag flags EP_ACCEPTALL
  || negb (if sa_family sa =? AF_INET then in_filtered (sa_addr sa) else in6_filtered (sa_addr sa)).

Lemma add_merge_cases l sa flags :
  sa_ok sa →
  fd_ep_add_merge l sa flags
  = if accepted sa flags then ep_merge sa (Z.land flags (Z.lnot EP_ACCEPTALL)) l else l.
Proof.
  intros [[Hf|Hf] _]; unfold fd_ep_add_merge, accepted; rewrite Hf; cbn;
    destruct (has_flag flags EP_ACCEPTALL); cbn; [done| |done|]; by case_match.
Qed.

Lemma ep_exec_ok l op : op_ok op → eps_ok l → eps_ok (ep_exec l op).
Proof.
  destruct op as [sa flags|flags|af|flags]; cbn; intros Hop Hok.
  - rewrite add_merge_cases by done. case_match; [|done]. by apply ep_merge_spec.
  - by apply eps_ok_filter.
  - by apply eps_ok_filter.
  - by apply eps_ok_filter, (eps_ok_flags (λ f, Z.land f (Z.lnot flags))).
Qed.

(** Whatever was done to a list of endpoints, it is ordered by family, address
    and port, without duplicates, and an address with an entry of unknown port
    has no other entry.  Adding an address that is not filtered out leaves an
    entry for it with its flags, keeps every entry that was there, up to a port
    that became known, and makes no other. *)
Theorem endpoints_merged (ops : list ep_op) (sa : sockaddr) (flags : Z) :
  Forall op_ok ops → sa_ok sa →
  let l := foldl ep_exec [] ops in
  eps_ok l
  ∧ if accepted sa flags
    then merges sa (Z.land flags (Z.lnot EP_ACCEPTALL)) l (fd_ep_add_merge l sa flags)
    else fd_ep_add_merge l sa flags = l.
Proof.
  intros Hops Hsa l. assert (Hl : eps_ok l).
  { assert (H : ∀ l0, eps_ok l0 → eps_ok (foldl ep_exec l0 ops)); [|apply H; split; constructor].
    induction Hops as [|op ops Hop _ IH]; intros l0 H0; [done|]. cbn. by apply IH, ep_exec_ok. }
  split; [done|]. rewrite add_merge_cases by done. case_match; [by apply ep_merge_spec|done].
Qed.

(** The first address becomes known with its port, then a second port of it, and
    an IPv6 address; a loopback address is ignored. *)
Definition sample_ops : list ep_op :=
  [AddMerge (SockAddr AF_INET6 (replicate 15 32 ++ [1]) 3868) EP_FL_CONF;
   AddMerge (SockAddr AF_INET [10; 0; 0; 1] 0) EP_FL_ADV;
   AddMerge (SockAddr AF_INET [10; 0; 0; 1] 3868) EP_FL_LL;
   AddMerge (SockAddr AF_INET [127; 0; 0; 1] 3868) EP_FL_CONF].

Lemma endpoints_merged_witness :
  let l := foldl ep_exec [] sample_ops in
  let sa := SockAddr AF_INET [10; 0; 0; 1] 5868 in
  map (λ ep, (sa_port (ep_sa ep), ep_flags ep)) l = [(3868, 12); (3868, 1)]
  ∧ eps_ok l ∧ merges sa EP_FL_DISC l (fd_ep_add_merge l sa EP_FL_DISC).
Proof.
  intros l sa. split; [vm_compute; reflexivity|].
  refine (endpoints_merged sample_ops sa EP_FL_DISC _ _).
  - repeat constructor; cbn; auto; unfold AF_INET, AF_INET6; lia.
  - repeat split; cbn; auto; lia.
Defined.
