(* ===== verification/FdCapa.v ===== *)
(** Capabilities exchange (libfdcore/p_ce.c): the AVPs a node announces itself
    with in a CER or CEA ([add_CE_info]) and what it keeps of those it receives
    ([save_remote_CE_info]).  The AVPs of the base protocol are the entries of
    dict_base_proto.c. *)

From stdpp Require Import base list strings sorting.
From Stdlib Require Import ZArith Lia.
From S2P Require Import Prelude FdDictionary FdLoops FdApps FdRtData FdMessages FdRouting FdEndpoints.
Open Scope Z_scope.

Definition AC_HOST_IP_ADDRESS : Z := 257.
Definition AC_AUTH_APPLICATION_ID : Z := 258.
Definition AC_ACCT_APPLICATION_ID : Z := 259.
Definition AC_VENDOR_SPECIFIC_APPLICATION_ID : Z := 260.
Definition AC_ORIGIN_HOST : Z := 264.
Definition AC_SUPPORTED_VENDOR_ID : Z := 265.
Definition AC_VENDOR_ID : Z := 266.
Definition AC_FIRMWARE_REVISION : Z := 267.
Definition AC_RESULT_CODE : Z := 268.
Definition AC_PRODUCT_NAME : Z := 269.
Definition AC_DISCONNECT_CAUSE : Z := 273.
Definition AC_ORIGIN_STATE_ID : Z := 278.
Definition AC_FAILED_AVP : Z := 279.
Definition AC_ERROR_MESSAGE : Z := 281.
Definition AC_ORIGIN_REALM : Z := 296.
Definition AC_INBAND_SECURITY_ID : Z := 299.
Definition ACV_ISI_NO_INBAND_SECURITY : Z := 0.
Definition ACV_ISI_TLS : Z := 1.
Definition PI_SEC_NONE : Z := 1.
Definition PI_SEC_TLS_OLD : Z := 2.

(** The values of the build: the name and version of the project. *)
Definition MY_VENDOR_ID : Z := 0.
Definition FD_PROJECT_NAME : list Z := ascii_octets "freeDiameter".
Definition FD_PROJECT_VERSION : Z := 1 * 10000 + 6 * 100 + 1.

(** * AVPs of the base protocol *)

(** Code, fixed flag values and base type. *)
Definition base_avps : list (Z * (Z * dict_avp_basetype)) :=
  [(AC_HOST_IP_ADDRESS, (AVP_FLAG_MANDATORY, AVP_TYPE_OCTETSTRING));
   (AC_AUTH_APPLICATION_ID, (AVP_FLAG_MANDATORY, AVP_TYPE_UNSIGNED32));
   (AC_ACCT_APPLICATION_ID, (AVP_FLAG_MANDATORY, AVP_TYPE_UNSIGNED32));
   (AC_VENDOR_SPECIFIC_APPLICATION_ID, (AVP_FLAG_MANDATORY, AVP_TYPE_GROUPED));
   (AC_ORIGIN_HOST, (AVP_FLAG_MANDATORY, AVP_TYPE_OCTETSTRING));
   (AC_SUPPORTED_VENDOR_ID, (AVP_FLAG_MANDATORY, AVP_TYPE_UNSIGNED32));
   (AC_VENDOR_ID, (AVP_FLAG_MANDATORY, AVP_TYPE_UNSIGNED32));
   (AC_FIRMWARE_REVISION, (0, AVP_TYPE_UNSIGNED32));
   (AC_RESULT_CODE, (AVP_FLAG_MANDATORY, AVP_TYPE_UNSIGNED32));
   (AC_PRODUCT_NAME, (0, AVP_TYPE_OCTETSTRING));
   (AC_DISCONNECT_CAUSE, (AVP_FLAG_MANDATORY, AVP_TYPE_INTEGER32));
   (AC_ORIGIN_STATE_ID, (AVP_FLAG_MANDATORY, AVP_TYPE_UNSIGNED32));
   (AC_FAILED_AVP, (AVP_FLAG_MANDATORY, AVP_TYPE_GROUPED));
   (AC_ERROR_MESSAGE, (0, AVP_TYPE_OCTETSTRING));
   (AC_ROUTE_RECORD, (AVP_FLAG_MANDATORY, AVP_TYPE_OCTETSTRING));
   (AC_ORIGIN_REALM, (AVP_FLAG_MANDATORY, AVP_TYPE_OCTETSTRING));
   (AC_INBAND_SECURITY_ID, (AVP_FLAG_MANDATORY, AVP_TYPE_UNSIGNED32))].

Definition base_def (code : Z) : option (Z * dict_avp_basetype) :=
  (λ p : nat * (Z * (Z * dict_avp_basetype)), p.2.2) <$> list_find (λ e, e.1 = code) base_avps.

Definition base_model (code : Z) (t : dict_avp_basetype) : dict_avp_data :=
  {| dict_avp_code := code; dict_avp_vendor := 0; dict_basetype := t; dict_type_check := None |}.

(** [fd_msg_avp_new] with the model of the code, then the value and the children
    it is given. *)
Definition new_avp (code : Z) (v : option avp_value) (children : list avp) : avp :=
  let (flags, t) := default (0, AVP_TYPE_OCTETSTRING) (base_def code) in
  Avp {| avp_model := Some (base_model code t); mnf_code := 0; mnf_vendor := 0;
         avp_code := code; avp_flags := flags;
         avp_len := Z.of_nat (avp_value_sizes t + GETAVPHDRSZ flags); avp_vendor := 0;
         avp_val := v; avp_source := None; avp_rawdata := None |} children.

Definition u32_avp (code n : Z) : avp := new_avp code (Some (Number n)) [].
Definition os_avp (code : Z) (s : list Z) : avp := new_avp code (Some (OctetString s)) [].

(** * What a node announces *)

(** What [add_CE_info] reads of the configuration: that of the routing, the
    state of the node, its addresses and the vendors of its dictionary (before the
    0 that ends the array). *)
Record ce_config := CeConfig {
  ce_cnf : rt_config;
  cnf_orstateid : Z;
  cnf_endpoints : list fd_endpoint;
  cnf_vendors : list Z
}.

(** [fd_msg_add_origin]. *)
Definition add_origin (cfg : ce_config) (osi : bool) : list avp :=
  [os_avp AC_ORIGIN_HOST (cnf_diamid (ce_cnf cfg)); os_avp AC_ORIGIN_REALM (cnf_diamrlm (ce_cnf cfg))]
  ++ if osi then [u32_avp AC_ORIGIN_STATE_ID (cnf_orstateid cfg)] else [].

(** [fd_msg_avp_value_encode] of each address; [None] is EINVAL. *)
Definition host_ip_avps (eps : list fd_endpoint) : option (list avp) :=
  mapM (λ ep, os_avp AC_HOST_IP_ADDRESS <$> fd_dictfct_Address_encode (ep_sa ep)) eps.

Definition isi_avps (isi_tls isi_none : bool) : list avp :=
  (if isi_none then [u32_avp AC_INBAND_SECURITY_ID ACV_ISI_NO_INBAND_SECURITY] else [])
  ++ (if isi_tls then [u32_avp AC_INBAND_SECURITY_ID ACV_ISI_TLS] else []).

(** One role of an application. *)
Definition role_avp (code : Z) (a : fd_app) : avp :=
  if negb (vndid a =? 0) then
    new_avp AC_VENDOR_SPECIFIC_APPLICATION_ID None [u32_avp code (appid a); u32_avp AC_VENDOR_ID (vndid a)]
  else u32_avp code (appid a).

Definition app_avps (a : fd_app) : list avp :=
  (if app_auth a then [role_avp AC_AUTH_APPLICATION_ID a] else [])
  ++ (if app_acct a then [role_avp AC_ACCT_APPLICATION_ID a] else []).

Definition add_CE_info (cfg : ce_config) (isi_tls isi_none : bool) : option (list avp) :=
  ips ← host_ip_avps (cnf_endpoints cfg);
  Some (add_origin cfg true ++ ips
        ++ [u32_avp AC_VENDOR_ID MY_VENDOR_ID; os_avp AC_PRODUCT_NAME FD_PROJECT_NAME;
            u32_avp AC_FIRMWARE_REVISION FD_PROJECT_VERSION]
        ++ isi_avps isi_tls isi_none
        ++ (cnf_apps (ce_cnf cfg) ≫= app_avps)
        ++ (if negb (no_fwd (ce_cnf cfg)) then [u32_avp AC_AUTH_APPLICATION_ID AI_RELAY] else [])
        ++ (u32_avp AC_SUPPORTED_VENDOR_ID <$> cnf_vendors cfg)).

(** * What a node keeps *)

(** The runtime part of [struct peer_info]. *)
Record runtime := Runtime {
  pir_realm : option os0;
  pir_vendorid : Z;
  pir_orstate : Z;
  pir_prodname : option (list Z);
  pir_firmrev : Z;
  pir_relay : bool;
  pir_apps : list fd_app;
  pir_isi : Z;
  pir_lastDC : Z
}.

(** The state [cleanup_remote_CE_info] leaves. *)
Definition runtime0 : runtime := Runtime None 0 0 None 0 false [] 0 0.

(** What a CER or CEA changes: the runtime part, the endpoints of the peer, and
    the result code for the caller. *)
Record ce_state := CeState { ce_run : runtime; ce_eps : list fd_endpoint; ce_rc : Z }.

(** [CeError]: the code of the error, with EINVAL; [CeCrash]: an ASSERT fails, or
    the code reads another member of the value than was written. *)
Inductive ce_status := CeNext | CeError (errcode : string) | CeCrash.

#[export] Instance ce_status_eq_dec : EqDecision ce_status.
Proof. solve_decision. Defined.

Definition u32_of (v : avp_value) : option Z := match v with Number n => Some (u32 n) | OctetString _ => None end.
Definition octets_of (v : avp_value) : option (list Z) := match v with OctetString s => Some s | Number _ => None end.

(** The fields the loop assigns. *)
Definition set_realm (x : os0) (s : ce_state) : ce_state :=
  let r := ce_run s in
  CeState (Runtime (Some x) (pir_vendorid r) (pir_orstate r) (pir_prodname r) (pir_firmrev r) (pir_relay r)
             (pir_apps r) (pir_isi r) (pir_lastDC r)) (ce_eps s) (ce_rc s).
Definition set_vendorid (x : Z) (s : ce_state) : ce_state :=
  let r := ce_run s in
  CeState (Runtime (pir_realm r) x (pir_orstate r) (pir_prodname r) (pir_firmrev r) (pir_relay r)
             (pir_apps r) (pir_isi r) (pir_lastDC r)) (ce_eps s) (ce_rc s).
Definition set_orstate (x : Z) (s : ce_state) : ce_state :=
  let r := ce_run s in
  CeState (Runtime (pir_realm r) (pir_vendorid r) x (pir_prodname r) (pir_firmrev r) (pir_relay r)
             (pir_apps r) (pir_isi r) (pir_lastDC r)) (ce_eps s) (ce_rc s).
Definition set_prodname (x : list Z) (s : ce_state) : ce_state :=
  let r := ce_run s in
  CeState (Runtime (pir_realm r) (pir_vendorid r) (pir_orstate r) (Some x) (pir_firmrev r) (pir_relay r)
             (pir_apps r) (pir_isi r) (pir_lastDC r)) (ce_eps s) (ce_rc s).
Definition set_firmrev (x : Z) (s : ce_state) : ce_state :=
  let r := ce_run s in
  CeState (Runtime (pir_realm r) (pir_vendorid r) (pir_orstate r) (pir_prodname r) x (pir_relay r)
             (pir_apps r) (pir_isi r) (pir_lastDC r)) (ce_eps s) (ce_rc s).
Definition set_relay (s : ce_state) : ce_state :=
  let r := ce_run s in
  CeState (Runtime (pir_realm r) (pir_vendorid r) (pir_orstate r) (pir_prodname r) (pir_firmrev r) true
             (pir_apps r) (pir_isi r) (pir_lastDC r)) (ce_eps s) (ce_rc s).
Definition set_apps (x : list fd_app) (s : ce_state) : ce_state :=
  let r := ce_run s in
  CeState (Runtime (pir_realm r) (pir_vendorid r) (pir_orstate r) (pir_prodname r) (pir_firmrev r) (pir_relay r)
             x (pir_isi r) (pir_lastDC r)) (ce_eps s) (ce_rc s).
Definition set_isi (x : Z) (s : ce_state) : ce_state :=
  let r := ce_run s in
  CeState (Runtime (pir_realm r) (pir_vendorid r) (pir_orstate r) (pir_prodname r) (pir_firmrev r) (pir_relay r)
             (pir_apps r) x (pir_lastDC r)) (ce_eps s) (ce_rc s).
Definition set_eps (x : list fd_endpoint) (s : ce_state) : ce_state := CeState (ce_run s) x (ce_rc s).
Definition set_rc (x : Z) (s : ce_state) : ce_state := CeState (ce_run s) (ce_eps s) x.

Definition merge_app (aid vid : Z) (auth acct : bool) (s : ce_state) : ce_state :=
  set_apps (fd_app_merge (pir_apps (ce_run s)) aid vid auth acct) s.

(** The value of an AVP as the member of the union the code reads: an AVP without
    value fails the ASSERT. *)
Definition with_u32 (d : avp_data) (s : ce_state) (k : Z → ce_state * ce_status) : ce_state * ce_status :=
  match avp_val d ≫= u32_of with Some n => k n | None => (s, CeCrash) end.
Definition with_os (d : avp_data) (s : ce_state) (k : list Z → ce_state * ce_status) : ce_state * ce_status :=
  match avp_val d ≫= octets_of with Some os => k os | None => (s, CeCrash) end.

Inductive vsai_result := VsaiOk (vid auth_aid acct_aid : Z) | VsaiInvalid | VsaiCrash.

(** The loop over the AVPs of a Vendor-Specific-Application-Id.  The ASSERT that
    an AVP has a value comes before the test of its code. *)
Fixpoint vsai_loop (l : list avp) (vid auth_aid acct_aid : Z) : vsai_result :=
  match l with
  | [] => VsaiOk vid auth_aid acct_aid
  | a :: l =>
      let d := data_of a in
      if has_flag (avp_flags d) AVP_FLAG_VENDOR then vsai_loop l vid auth_aid acct_aid
      else
        match avp_val d with
        | None => VsaiCrash
        | Some v =>
            if avp_code d =? AC_VENDOR_ID then
              match u32_of v with
              | None => VsaiCrash
              | Some n => if negb (vid =? 0) then VsaiInvalid else vsai_loop l n auth_aid acct_aid
              end
            else if avp_code d =? AC_AUTH_APPLICATION_ID then
              match u32_of v with
              | None => VsaiCrash
              | Some n => if negb (auth_aid =? 0) || negb (acct_aid =? 0) then VsaiInvalid
                          else vsai_loop l vid n acct_aid
              end
            else if avp_code d =? AC_ACCT_APPLICATION_ID then
              match u32_of v with
              | None => VsaiCrash
              | Some n => if negb (acct_aid =? 0) || negb (auth_aid =? 0) then VsaiInvalid
                          else vsai_loop l vid auth_aid n
              end
            else vsai_loop l vid auth_aid acct_aid
        end
  end.

(** One pass of the loop of [save_remote_CE_info]; [want_rc]: the caller asked
    for the result code. *)
Definition ce_avp (diamid : os0) (want_rc : bool) (a : avp) (s : ce_state) : ce_state * ce_status :=
  let d := data_of a in
  let r := ce_run s in
  let too_many := (s, CeError "DIAMETER_AVP_OCCURS_TOO_MANY_TIMES") in
  let invalid := (s, CeError "DIAMETER_INVALID_AVP_VALUE") in
  let code := avp_code d in
  if has_flag (avp_flags d) AVP_FLAG_VENDOR then (s, CeNext)
  else if code =? AC_RESULT_CODE then with_u32 d s (λ n, (if want_rc then set_rc n s else s, CeNext))
  else if code =? AC_ORIGIN_HOST then
    with_os d s (λ os, if same_id os diamid then (s, CeNext) else (s, CeError "DIAMETER_AVP_NOT_ALLOWED"))
  else if code =? AC_ORIGIN_REALM then
    with_os d s (λ os,
      if decide (is_Some (pir_realm r)) then too_many
      else if negb (fd_os_is_valid_DiameterIdentity os) then invalid
      else if (length os =? 0)%nat then invalid
      else (set_realm os s, CeNext))
  else if code =? AC_HOST_IP_ADDRESS then
    with_os d s (λ os,
      match fd_dictfct_Address_interpret os with
      | None => invalid
      | Some sa => (set_eps (fd_ep_add_merge (ce_eps s) sa EP_FL_ADV) s, CeNext)
      end)
  else if code =? AC_VENDOR_ID then
    with_u32 d s (λ n, if negb (pir_vendorid r =? 0) then too_many else (set_vendorid n s, CeNext))
  else if code =? AC_PRODUCT_NAME then
    with_os d s (λ os, if decide (is_Some (pir_prodname r)) then too_many else (set_prodname os s, CeNext))
  else if code =? AC_ORIGIN_STATE_ID then
    with_u32 d s (λ n, if negb (pir_orstate r =? 0) then too_many else (set_orstate n s, CeNext))
  else if code =? AC_SUPPORTED_VENDOR_ID then with_u32 d s (λ _, (s, CeNext))
  else if code =? AC_VENDOR_SPECIFIC_APPLICATION_ID then
    match vsai_loop (children_of a) 0 0 0 with
    | VsaiCrash => (s, CeCrash)
    | VsaiInvalid => invalid
    | VsaiOk vid auth_aid acct_aid =>
        let s1 := if negb (auth_aid =? 0) then merge_app auth_aid vid true false s else s in
        (if negb (acct_aid =? 0) then merge_app acct_aid vid false true s1 else s1, CeNext)
    end
  else if code =? AC_AUTH_APPLICATION_ID then
    with_u32 d s (λ n, (if n =? AI_RELAY then set_relay s else merge_app n 0 true false s, CeNext))
  else if code =? AC_ACCT_APPLICATION_ID then
    with_u32 d s (λ n, (if n =? AI_RELAY then set_relay s else merge_app n 0 false true s, CeNext))
  else if code =? AC_FIRMWARE_REVISION then with_u32 d s (λ n, (set_firmrev n s, CeNext))
  else if code =? AC_INBAND_SECURITY_ID then
    with_u32 d s (λ n, if 32 <=? n then invalid else (set_isi (Z.lor (pir_isi r) (Z.shiftl 1 n)) s, CeNext))
  else (s, CeNext).

Fixpoint ce_loop (diamid : os0) (want_rc : bool) (l : list avp) (s : ce_state) : ce_state * ce_status :=
  match l with
  | [] => (s, CeNext)
  | a :: l =>
      match ce_avp diamid want_rc a s with
      | (s, CeNext) => ce_loop diamid want_rc l s
      | r => r
      end
  end.

(** [cleanup_remote_CE_info]. *)
Definition cleanup_remote_CE_info (eps : list fd_endpoint) (rc : Z) : ce_state :=
  CeState runtime0 (fd_ep_clearflags eps EP_FL_ADV) rc.

Definition save_remote_CE_info (diamid : os0) (want_rc : bool) (eps : list fd_endpoint) (l : list avp)
    : ce_state * ce_status :=
  ce_loop diamid want_rc l (cleanup_remote_CE_info eps 0).

(** * The exchange *)

Lemma ce_loop_app diamid rc l1 l2 s s' :
  ce_loop diamid rc l1 s = (s', CeNext) → ce_loop diamid rc (l1 ++ l2) s = ce_loop diamid rc l2 s'.
Proof.
  revert s. induction l1 as [|a l1 IH]; cbn; intros s; [by intros [= ->]|].
  destruct (ce_avp diamid rc a s) as [s1 []]; [apply IH|done..].
Qed.

(** Steps of the loop that go on, one after the other. *)
Definition saves (diamid : os0) (rc : bool) (l : list avp) (s s' : ce_state) : Prop :=
  ce_loop diamid rc l s = (s', CeNext).

Lemma saves_app diamid rc l1 l2 s s1 s2 :
  saves diamid rc l1 s s1 → saves diamid rc l2 s1 s2 → saves diamid rc (l1 ++ l2) s s2.
Proof. unfold saves. intros H1 H2. by erewrite ce_loop_app. Qed.

Lemma saves_one diamid rc a s s' : ce_avp diamid rc a s = (s', CeNext) → saves diamid rc [a] s s'.
Proof. unfold saves. cbn. by intros ->. Qed.

Lemma saves_cons diamid rc a l s s1 s2 :
  ce_avp diamid rc a s = (s1, CeNext) → saves diamid rc l s1 s2 → saves diamid rc (a :: l) s s2.
Proof. intros H1 H2. apply (saves_app _ _ [a]) with s1; [by apply saves_one|done]. Qed.

Definition below (aid : Z) (l : list fd_app) : Prop := Forall (λ x, appid x < aid) l.

Lemma walk_below aid l l' :
  below aid l → walk_next (λ na, negb (appid na <? aid)) (l ++ l')
                = let (l1, l2) := walk_next (λ na, negb (appid na <? aid)) l' in (l ++ l1, l2).
Proof.
  induction 1 as [|x l Hx _ IH]; cbn; [by case_match|]. rewrite (proj2 (Z.ltb_lt _ _) Hx), IH. cbn. by case_match.
Qed.

Lemma merge_fresh l aid vid auth acct :
  below aid l → fd_app_merge l aid vid auth acct = l ++ [FdApp auth acct vid aid].
Proof. intros H. unfold fd_app_merge. pose proof (walk_below aid l [] H) as E. rewrite app_nil_r in E. rewrite E. cbn. by rewrite app_nil_r. Qed.

Lemma merge_same l aid v x y vid auth acct :
  below aid l → fd_app_merge (l ++ [FdApp x y v aid]) aid vid auth acct = l ++ [FdApp (x || auth) (y || acct) v aid].
Proof. intros H. unfold fd_app_merge. rewrite walk_below by done. cbn. rewrite Z.ltb_irrefl. cbn. rewrite Z.ltb_irrefl. by rewrite app_nil_r. Qed.

(** An application a node can announce: it has a role, its identifier is not the
    relay's, and with a vendor it is not 0. *)
Definition announceable (a : fd_app) : Prop :=
  (app_auth a = true ∨ app_acct a = true) ∧ 0 ≤ appid a < AI_RELAY ∧ 0 ≤ vndid a < 2 ^ 32
  ∧ (vndid a ≠ 0 → appid a ≠ 0).

Lemma u32_announced a : announceable a → u32 (appid a) = appid a ∧ u32 (vndid a) = vndid a.
Proof. intros (_ & Ha & Hv & _). unfold AI_RELAY in Ha. split; apply Z.mod_small; lia. Qed.

(** An AVP of the base protocol as its reader sees it. *)
Lemma new_avp_read code v c :
  has_flag (avp_flags (data_of (new_avp code v c))) AVP_FLAG_VENDOR = false
  ∧ avp_code (data_of (new_avp code v c)) = code ∧ avp_val (data_of (new_avp code v c)) = v
  ∧ children_of (new_avp code v c) = c.
Proof.
  unfold new_avp. destruct (base_def code) as [[flags t]|] eqn:E; cbn; [|done]. split; [|done].
  unfold base_def in E. apply fmap_Some in E as ([i [c' ft]] & Hf & E). cbn in E. subst ft.
  apply list_find_Some in Hf as (Hl & _). apply list_elem_of_lookup_2 in Hl.
  repeat (apply elem_of_cons in Hl as [[= _ -> _]|Hl]; [done|]). by apply elem_of_nil in Hl.
Qed.

(** Decides what the loop does with an AVP of a known code. *)
Ltac read_avp :=
  match goal with
  | |- context [ce_avp _ _ (new_avp ?code ?v ?c) _] =>
      let H := fresh in
      pose proof (new_avp_read code v c) as H; unfold ce_avp; destruct H as (-> & -> & H & ->);
      unfold with_u32, with_os; rewrite ?H; clear H; cbn -[AI_RELAY u32 vsai_loop FD_PROJECT_NAME FD_PROJECT_VERSION]
  end.

Lemma vsai_role code aid vid :
  code = AC_AUTH_APPLICATION_ID ∨ code = AC_ACCT_APPLICATION_ID →
  vsai_loop [u32_avp code aid; u32_avp AC_VENDOR_ID vid] 0 0 0
  = VsaiOk (u32 vid) (if code =? AC_AUTH_APPLICATION_ID then u32 aid else 0)
      (if code =? AC_ACCT_APPLICATION_ID then u32 aid else 0).
Proof.
  intros Hc. unfold u32_avp. cbn [vsai_loop].
  destruct (new_avp_read code (Some (Number aid)) []) as (-> & -> & -> & _).
  destruct (new_avp_read AC_VENDOR_ID (Some (Number vid)) []) as (-> & -> & -> & _).
  by destruct Hc as [-> | ->].
Qed.

Lemma role_saved diamid rc code a s :
  announceable a → code = AC_AUTH_APPLICATION_ID ∨ code = AC_ACCT_APPLICATION_ID →
  ce_avp diamid rc (role_avp code a) s
  = (merge_app (appid a) (vndid a) (code =? AC_AUTH_APPLICATION_ID) (code =? AC_ACCT_APPLICATION_ID) s, CeNext).
Proof.
  intros Ha Hc. destruct (u32_announced a Ha) as [E1 E2]. destruct Ha as (_ & Hr & _ & H0). unfold role_avp.
  destruct (Z.eqb_spec (vndid a) 0) as [Ev|Nv]; cbn [negb].
  - destruct Hc as [-> | ->]; unfold u32_avp; read_avp;
      rewrite E1, (proj2 (Z.eqb_neq (appid a) AI_RELAY)) by lia; by rewrite Ev.
  - specialize (H0 Nv). read_avp. rewrite vsai_role by done.
    destruct Hc as [-> | ->]; cbn -[u32]; rewrite E1, E2, (proj2 (Z.eqb_neq (appid a) 0)) by done; done.
Qed.

Lemma set_apps_twice l1 l2 s : set_apps l1 (set_apps l2 s) = set_apps l1 s.
Proof. done. Qed.

Lemma app_saved diamid rc a s :
  announceable a → below (appid a) (pir_apps (ce_run s)) →
  saves diamid rc (app_avps a) s (set_apps (pir_apps (ce_run s) ++ [a]) s).
Proof.
  intros Ha Hb. destruct a as [auth acct vid aid]. unfold app_avps. cbn [app_auth app_acct].
  destruct auth, acct; cbn [app]; try (destruct Ha as [[?|?] _]; discriminate).
  - eapply saves_cons; [apply role_saved; [done|by left]|]. eapply saves_one. rewrite role_saved by auto.
    unfold merge_app. cbn. by rewrite (merge_fresh (pir_apps (ce_run s)) aid vid), merge_same.
  - eapply saves_one. rewrite role_saved by auto. unfold merge_app. cbn. by rewrite merge_fresh.
  - eapply saves_one. rewrite role_saved by auto. unfold merge_app. cbn. by rewrite merge_fresh.
Qed.

Lemma apps_saved diamid rc apps s :
  Forall announceable apps → apps_sorted (pir_apps (ce_run s) ++ apps) →
  saves diamid rc (apps ≫= app_avps) s (set_apps (pir_apps (ce_run s) ++ apps) s).
Proof.
  revert s. induction apps as [|a apps IH]; intros s Hann Hs; cbn.
  { rewrite app_nil_r. by destruct s as [[]]. }
  apply Forall_cons in Hann as [Ha Hann].
  eapply saves_app.
  - apply app_saved; [done|]. apply Forall_forall. intros x Hx.
    eapply (StronglySorted_app_1_elem_of app_lt); [exact Hs|done|left].
  - assert (E : pir_apps (ce_run s) ++ a :: apps = (pir_apps (ce_run s) ++ [a]) ++ apps) by by rewrite <- app_assoc.
    rewrite E. exact (IH (set_apps (pir_apps (ce_run s) ++ [a]) s) Hann ltac:(cbn; by rewrite <- E)).
Qed.

Lemma address_roundtrip sa :
  sa_ok sa →
  ∃ os, fd_dictfct_Address_encode sa = Some os ∧ fd_dictfct_Address_interpret os = Some (set_port 0 sa).
Proof.
  intros ([Hf|Hf] & Hl & _); unfold fd_dictfct_Address_encode, addr_len, set_port in *; rewrite Hf in *; cbn in Hl |- *;
    eexists; (split; [done|]); cbn; by rewrite Hl.
Qed.

(** The addresses of the sender join the endpoints, as advertised ones. *)
Definition advertised (eps announced : list fd_endpoint) : list fd_endpoint :=
  foldl (λ l ep, fd_ep_add_merge l (set_port 0 (ep_sa ep)) EP_FL_ADV) eps announced.

Lemma ips_saved diamid rc eps s :
  Forall (λ ep, sa_ok (ep_sa ep)) eps →
  ∃ ips, host_ip_avps eps = Some ips ∧ saves diamid rc ips s (set_eps (advertised (ce_eps s) eps) s).
Proof.
  intros Hok. revert s. induction Hok as [|ep eps Hep _ IH]; intros s; [exists []; split; [done|by destruct s]|].
  destruct (address_roundtrip _ Hep) as (os & He & Hi).
  destruct (IH (set_eps (fd_ep_add_merge (ce_eps s) (set_port 0 (ep_sa ep)) EP_FL_ADV) s)) as (ips & Hips & Hs).
  exists (os_avp AC_HOST_IP_ADDRESS os :: ips). unfold host_ip_avps in *. cbn. rewrite He. cbn. rewrite Hips. split; [done|].
  eapply saves_cons; [|exact Hs]. unfold os_avp. read_avp. by rewrite Hi.
Qed.

Lemma vendors_saved diamid rc vs s : saves diamid rc (u32_avp AC_SUPPORTED_VENDOR_ID <$> vs) s s.
Proof. induction vs as [|v vs IH]; [done|]. cbn. eapply saves_cons; [|exact IH]. unfold u32_avp. by read_avp. Qed.

Definition isi_bits (isi_tls isi_none : bool) : Z :=
  Z.lor (if isi_none then PI_SEC_NONE else 0) (if isi_tls then PI_SEC_TLS_OLD else 0).

Lemma isi_saved diamid rc tls none s :
  pir_isi (ce_run s) = 0 → saves diamid rc (isi_avps tls none) s (set_isi (isi_bits tls none) s).
Proof.
  intros H0. unfold isi_avps. eapply (saves_app _ _ _ _ _ (set_isi (if none then 1 else 0) s)).
  - destruct none; [apply saves_one; unfold u32_avp; read_avp; by rewrite H0|]. destruct s as [[]]. cbn in *. by rewrite H0.
  - destruct tls; [apply saves_one; unfold u32_avp; read_avp; by destruct none|]. by destruct none.
Qed.

Lemma origin_saved diamid rc cfg s :
  caseless (cnf_diamid (ce_cnf cfg)) diamid →
  fd_os_is_valid_DiameterIdentity (cnf_diamrlm (ce_cnf cfg)) = true → cnf_diamrlm (ce_cnf cfg) ≠ [] →
  0 ≤ cnf_orstateid cfg < 2 ^ 32 → pir_realm (ce_run s) = None → pir_orstate (ce_run s) = 0 →
  saves diamid rc (add_origin cfg true) s (set_orstate (cnf_orstateid cfg) (set_realm (cnf_diamrlm (ce_cnf cfg)) s)).
Proof.
  intros Hid Hv Hne Ho H0 H1. unfold add_origin, os_avp, u32_avp. cbn [app].
  eapply saves_cons; [read_avp; by rewrite (proj2 (same_id_caseless _ _) Hid)|].
  eapply saves_cons.
  { read_avp. rewrite H0, Hv. rewrite decide_False by (by intros [? [=]]). cbn.
    rewrite (proj2 (Nat.eqb_neq _ _)); [done|]. by destruct (cnf_diamrlm (ce_cnf cfg)). }
  apply saves_one. read_avp. rewrite H1. cbn -[u32]. f_equal. unfold u32. by rewrite Z.mod_small by lia.
Qed.

Lemma relay_saved diamid rc (b : bool) s :
  saves diamid rc (if b then [u32_avp AC_AUTH_APPLICATION_ID AI_RELAY] else []) s (if b then set_relay s else s).
Proof. destruct b; [|done]. apply saves_one. unfold u32_avp. by read_avp. Qed.

(** What a receiver should know of the node. *)
Definition announced_runtime (cfg : ce_config) (isi_tls isi_none : bool) : runtime :=
  {| pir_realm := Some (cnf_diamrlm (ce_cnf cfg));
     pir_vendorid := MY_VENDOR_ID;
     pir_orstate := cnf_orstateid cfg;
     pir_prodname := Some FD_PROJECT_NAME;
     pir_firmrev := FD_PROJECT_VERSION;
     pir_relay := negb (no_fwd (ce_cnf cfg));
     pir_apps := cnf_apps (ce_cnf cfg);
     pir_isi := isi_bits isi_tls isi_none;
     pir_lastDC := 0 |}.

(** A configuration that can be announced. *)
Record ce_config_ok (cfg : ce_config) : Prop := {
  ok_realm : fd_os_is_valid_DiameterIdentity (cnf_diamrlm (ce_cnf cfg)) = true ∧ cnf_diamrlm (ce_cnf cfg) ≠ [];
  ok_orstate : 0 ≤ cnf_orstateid cfg < 2 ^ 32;
  ok_apps : apps_sorted (cnf_apps (ce_cnf cfg)) ∧ Forall announceable (cnf_apps (ce_cnf cfg));
  ok_endpoints : cnf_endpoints cfg ≠ [] ∧ Forall (λ ep, sa_ok (ep_sa ep)) (cnf_endpoints cfg);
  ok_vendors : Forall (λ v, 0 < v < 2 ^ 32) (cnf_vendors cfg)
}.

(** Whoever receives the AVPs of a node keeps exactly what the node is. [diamid]
    is the name the receiver expects, in whatever case. *)
Lemma capabilities_saved (cfg : ce_config) (isi_tls isi_none : bool) (diamid : os0) (want_rc : bool)
    (eps : list fd_endpoint) :
  caseless (cnf_diamid (ce_cnf cfg)) diamid → ce_config_ok cfg →
  ∃ l, add_CE_info cfg isi_tls isi_none = Some l
    ∧ save_remote_CE_info diamid want_rc eps l
      = (CeState (announced_runtime cfg isi_tls isi_none)
           (advertised (fd_ep_clearflags eps EP_FL_ADV) (cnf_endpoints cfg)) 0, CeNext).
Proof.
  intros Hid [[Hv Hne] Ho [Hs Ha] [_ Hep] _]. set (s0 := cleanup_remote_CE_info eps 0).
  pose proof (origin_saved diamid want_rc cfg s0 Hid Hv Hne Ho eq_refl eq_refl) as H1.
  match type of H1 with saves _ _ _ _ ?s => set (s1 := s) in * end.
  destruct (ips_saved diamid want_rc (cnf_endpoints cfg) s1 Hep) as (ips & Hips & H2).
  unfold add_CE_info. rewrite Hips. eexists. split; [done|].
  eapply saves_app; [exact H1|]. eapply saves_app; [exact H2|].
  eapply saves_app.
  { unfold u32_avp, os_avp. eapply saves_cons; [by read_avp|]. eapply saves_cons; [by read_avp|].
    apply saves_one. by read_avp. }
  eapply saves_app; [by apply isi_saved|].
  eapply saves_app; [apply apps_saved; [done|exact Hs]|].
  eapply saves_app; [apply relay_saved|].
  unfold announced_runtime. destruct (no_fwd (ce_cnf cfg)); apply vendors_saved.
Qed.
