(* ===== verification/FdBaseProto.v ===== *)
(** The base protocol (libfdcore/dict_base_proto.c) as far as the link between
    two peers needs it: the commands CER, DPR and DWR with their answers, their
    AVPs and their rules, as an instance of the interfaces [Dictionary] and
    [RuleBook]; and what the exchange of capabilities does with messages that
    this dictionary accepts. *)

From stdpp Require Import base list strings sorting.
From Stdlib Require Import ZArith Lia.
From S2P Require Import Prelude FdDictionary FdLoops FdApps FdRtData FdMessages FdParse FdRules FdRouting FdEndpoints FdCapa.
Open Scope Z_scope.

Definition CC_CAPABILITIES_EXCHANGE : Z := 257.
Definition CC_DEVICE_WATCHDOG : Z := 280.
Definition CC_DISCONNECT_PEER : Z := 282.

(** The fixed flags of requests (R, P, T, E) and answers (R, P, T). *)
Definition base_cmd (request : bool) (code : Z) : dict_cmd_data :=
  {| cmd_code := code; cmd_flag_mask := if request then 0xf0 else 0xd0;
     cmd_flag_val := if request then CMD_FLAG_REQUEST else 0 |}.

Definition base_cmd_by_code (request : bool) (code : Z) : option dict_cmd_data :=
  if (code =? CC_CAPABILITIES_EXCHANGE) || (code =? CC_DEVICE_WATCHDOG) || (code =? CC_DISCONNECT_PEER)
  then Some (base_cmd request code) else None.

Definition base_avp_by_code (code : Z) : option dict_avp_data :=
  (λ ft, base_model code ft.2) <$> base_def code.

Lemma base_avp_by_code_spec c m : base_avp_by_code c = Some m → dict_avp_code m = c ∧ dict_avp_vendor m = 0.
Proof. unfold base_avp_by_code. destruct (base_def c); [|done]. by intros [= <-]. Qed.

Lemma base_cmd_by_code_spec r c m : base_cmd_by_code r c = Some m → cmd_code m = c.
Proof. unfold base_cmd_by_code. destruct (_ || _); [|done]. by intros [= <-]. Qed.

#[export] Instance base_dictionary : Dictionary := {|
  avp_by_code := base_avp_by_code;
  avp_by_vendor _ _ := None;
  cmd_by_code := base_cmd_by_code;
  avp_by_code_spec := base_avp_by_code_spec;
  avp_by_vendor_spec v c m H := False_ind _ (eq_ind None (λ o, if o then False else True) I _ H);
  cmd_by_code_spec := base_cmd_by_code_spec
|}.

(** A line of [local_rules_definition]: -1 stands for no bound.  The dictionary
    keeps the rules ordered by AVP; the order decides only which of several
    violations is reported. *)
Definition local_rule (pos : rule_position) (code max : Z) : dict_rule_data :=
  {| rule_avp := (code, 0); rule_pos := pos; rule_order := 0; rule_min := -1; rule_max := max |}.

Definition origin_rules : list dict_rule_data :=
  [local_rule RULE_REQUIRED AC_ORIGIN_HOST 1; local_rule RULE_REQUIRED AC_ORIGIN_REALM 1].

Definition ce_info_rules : list dict_rule_data :=
  [local_rule RULE_REQUIRED AC_HOST_IP_ADDRESS (-1); local_rule RULE_REQUIRED AC_VENDOR_ID 1;
   local_rule RULE_REQUIRED AC_PRODUCT_NAME 1; local_rule RULE_OPTIONAL AC_ORIGIN_STATE_ID 1;
   local_rule RULE_OPTIONAL AC_SUPPORTED_VENDOR_ID (-1); local_rule RULE_OPTIONAL AC_AUTH_APPLICATION_ID (-1);
   local_rule RULE_OPTIONAL AC_INBAND_SECURITY_ID (-1); local_rule RULE_OPTIONAL AC_ACCT_APPLICATION_ID (-1);
   local_rule RULE_OPTIONAL AC_VENDOR_SPECIFIC_APPLICATION_ID (-1); local_rule RULE_OPTIONAL AC_FIRMWARE_REVISION 1].

Definition error_avp_rules : list dict_rule_data :=
  [local_rule RULE_OPTIONAL AC_ERROR_MESSAGE 1; local_rule RULE_OPTIONAL AC_FAILED_AVP 1].

Definition base_cmd_rules (c : dict_cmd_data) : list dict_rule_data :=
  let answer := if cmd_flag_val c =? 0 then local_rule RULE_REQUIRED AC_RESULT_CODE 1 :: error_avp_rules else [] in
  if cmd_code c =? CC_CAPABILITIES_EXCHANGE then answer ++ origin_rules ++ ce_info_rules
  else if cmd_code c =? CC_DISCONNECT_PEER then
    answer ++ origin_rules ++ (if cmd_flag_val c =? 0 then [] else [local_rule RULE_REQUIRED AC_DISCONNECT_CAUSE 1])
  else if cmd_code c =? CC_DEVICE_WATCHDOG then
    answer ++ origin_rules ++ [local_rule RULE_OPTIONAL AC_ORIGIN_STATE_ID 1]
  else [].

Definition vsai_rules : list dict_rule_data :=
  [local_rule RULE_REQUIRED AC_VENDOR_ID 1; local_rule RULE_OPTIONAL AC_AUTH_APPLICATION_ID 1;
   local_rule RULE_OPTIONAL AC_ACCT_APPLICATION_ID 1].

Definition AC_SESSION_ID : Z := 263.
Definition AC_PROXY_INFO : Z := 284.
Definition AC_ERROR_REPORTING_HOST : Z := 294.

Definition base_error_rules : list dict_rule_data :=
  {| rule_avp := (AC_SESSION_ID, 0); rule_pos := RULE_FIXED_HEAD; rule_order := 1; rule_min := 0; rule_max := 1 |}
  :: origin_rules
  ++ [local_rule RULE_REQUIRED AC_RESULT_CODE 1; local_rule RULE_OPTIONAL AC_ORIGIN_STATE_ID 1;
      local_rule RULE_OPTIONAL AC_ERROR_MESSAGE 1; local_rule RULE_OPTIONAL AC_ERROR_REPORTING_HOST 1;
      local_rule RULE_OPTIONAL AC_FAILED_AVP 1; local_rule RULE_OPTIONAL AC_PROXY_INFO (-1)].

#[export] Instance base_rules : RuleBook := {|
  avp_rules m := if dict_avp_code m =? AC_VENDOR_SPECIFIC_APPLICATION_ID then vsai_rules else [];
  cmd_rules := base_cmd_rules;
  error_rules := base_error_rules
|}.

(** * Messages on a link *)

(** [fd_msg_new] for a command of the base protocol, with a new end-to-end
    identifier. *)
Definition fd_msg_new (data : dict_cmd_data) (eteid : Z) : msg :=
  {| msg_public := {| msg_version := DIAMETER_VERSION; msg_length := Z.of_nat GETMSGHDRSZ; msg_flags := cmd_flag_val data;
                      msg_code := cmd_code data; msg_appl := 0; msg_hbhid := 0; msg_eteid := eteid |};
     msg_model := Some data; msg_mnf_code := 0; msg_mnf_flags := 0; msg_children := [] |}.

Definition add_children (l : list avp) (m : msg) : msg :=
  {| msg_public := msg_public m; msg_model := msg_model m; msg_mnf_code := msg_mnf_code m;
     msg_mnf_flags := msg_mnf_flags m; msg_children := msg_children m ++ l |}.

(** [create_CER]: [tls]: the connection uses TLS already; [sec]: the security
    the configuration of the peer allows; [None] is EINVAL. *)
Definition create_CER (cfg : ce_config) (tls tls_disabled : bool) (sec eteid : Z) : option msg :=
  let isi_none := negb tls && has_flag sec PI_SEC_NONE in
  let isi_tls := negb tls && has_flag sec PI_SEC_TLS_OLD && negb tls_disabled in
  l ← add_CE_info cfg isi_tls isi_none;
  Some (add_children l (fd_msg_new (base_cmd true CC_CAPABILITIES_EXCHANGE) eteid)).

(** What a server thread does with the first message of a connection: a CER that
    parses with the dictionary and the rules goes to the peers.  [None]: the
    connection is closed. *)
Definition first_message (buf : list Z) : option msg :=
  match fd_msg_parse_buffer buf with
  | Ok m =>
      match fd_msg_parse_rules (length buf) m with
      | Ok m =>
          let h := msg_public m in
          if (msg_appl h =? 0) && has_flag (msg_flags h) CMD_FLAG_REQUEST && (msg_code h =? CC_CAPABILITIES_EXCHANGE)
          then Some m else None
      | _ => None
      end
  | _ => None
  end.
