(* ===== verification/FdCapaWire.v ===== *)
(** The exchange of capabilities over the wire: the CER one node writes, read,
    checked and kept by another.  Joins FdCapa with the codec (FdRoundTrip), the
    dictionary and the rules of the base protocol (FdBaseProto, FdRules); and the
    accepted messages that fail an assertion of the one that keeps them. *)

From stdpp Require Import base list strings sorting.
From Stdlib Require Import ZArith Lia.
From S2P Require Import Prelude FdDictionary FdLoops FdApps FdRtData FdMessages FdWire FdParse FdRoundTrip FdRules FdRouting FdFifo FdSentReq FdEndpoints FdCapa FdBaseProto.
Open Scope Z_scope.

(** * Trees that differ in lengths only *)

Inductive alike : avp → avp → Prop :=
| alike_intro d d' c c' :
    avp_model d = avp_model d' → avp_code d = avp_code d' → avp_flags d = avp_flags d' → avp_val d = avp_val d' →
    Forall2 alike c c' → alike (Avp d c) (Avp d' c').

(** Every AVP of the tree has a model. *)
Inductive known : avp → Prop :=
| known_intro d c m : avp_model d = Some m → Forall known c → known (Avp d c).

Lemma chain_alike l :
  Forall (λ a, known a → ∀ a', update_length_avp a = Ok a' → alike a (settled a')) l → Forall known l →
  ∀ n sz l', update_length_chain n l = Ok (sz, l') → Forall2 alike l (map settled l').
Proof.
  induction 1 as [|a l Ha _ IH]; intros Hk n sz l'; cbn; [by intros [= _ <-]|].
  apply Forall_cons in Hk as [Hk Hl]. destruct (update_length_avp a) as [a1| | |] eqn:E; [|done..]. cbn.
  destruct (update_length_chain _ l) as [[sz1 l1]| | |] eqn:E1; [|done..]. intros [= _ <-].
  constructor; [by apply Ha|]. by eapply IH.
Qed.

(** An AVP whose lengths were computed, after it was read back. *)
Lemma settled_alike a : known a → ∀ a', update_length_avp a = Ok a' → alike a (settled a').
Proof.
  induction a as [d children IH] using avp_tree_ind. intros Hk a'. inversion_clear Hk as [? ? m Hm Hc].
  rewrite update_length_unfold, Hm. cbv zeta. case_decide.
  - destruct (update_length_chain _ children) as [[sz l]| | |] eqn:E; intros [= <-]. cbn. rewrite Hm.
    constructor; try done. by eapply chain_alike.
  - destruct children; [|done]. destruct (avp_val d) as [v|] eqn:Hv; [|done].
    destruct (value_len _ v); [|done]. intros [= <-]. cbn. rewrite Hm, Hv. by constructor.
Qed.

Lemma children_alike l n sz l' :
  Forall known l → update_length_chain n l = Ok (sz, l') → Forall2 alike l (map settled l').
Proof. intros Hk. eapply chain_alike; [|done]. apply Forall_forall. intros a _. apply settled_alike. Qed.

(** Readers see no difference. *)
Lemma vsai_alike l l' : Forall2 alike l l' → ∀ v au ac, vsai_loop l v au ac = vsai_loop l' v au ac.
Proof.
  induction 1 as [|a a' l l' Ha _ IH]; intros v au ac; [done|]. destruct Ha as [d d' c c' _ E1 E2 E3 _].
  cbn [vsai_loop data_of]. rewrite E1, E2, E3.
  destruct (has_flag _ _); [apply IH|]. destruct (avp_val d') as [x|]; [|done].
  destruct (u32_of x); rewrite ?IH; repeat case_match; done || apply IH.
Qed.

Lemma ce_avp_alike diamid rc a a' s : alike a a' → ce_avp diamid rc a s = ce_avp diamid rc a' s.
Proof.
  intros [d d' c c' _ E1 E2 E3 Hc]. unfold ce_avp, with_u32, with_os. cbn [data_of children_of].
  by rewrite E1, E2, E3, (vsai_alike c c' Hc).
Qed.

Lemma ce_loop_alike diamid rc l l' : Forall2 alike l l' → ∀ s, ce_loop diamid rc l s = ce_loop diamid rc l' s.
Proof.
  induction 1 as [|a a' l l' Ha _ IH]; intros s; [done|]. cbn. rewrite (ce_avp_alike _ _ _ _ _ Ha). repeat case_match; done || apply IH.
Qed.

Lemma occurrences_alike r l l' : Forall2 alike l l' → occurrences r l = occurrences r l'.
Proof.
  unfold occurrences. induction 1 as [|a a' l l' Ha _ IH]; [done|]. rewrite !filter_cons.
  assert (E : is_model r a = is_model r a') by (destruct Ha as [? ? ? ? E]; unfold is_model; cbn; by rewrite E).
  rewrite E. case_decide; cbn; by rewrite IH.
Qed.

(** Rules that do not fix a position. *)
Definition floating (rule : dict_rule_data) : Prop :=
  match rule_pos rule with RULE_REQUIRED | RULE_OPTIONAL => True | _ => False end.

Lemma obeys_alike l l' rule : floating rule → Forall2 alike l l' → obeys l rule → obeys l' rule.
Proof.
  unfold floating, obeys. intros Hf Hl. rewrite <- (occurrences_alike _ l l' Hl). by destruct (rule_pos rule).
Qed.

Lemma avp_rules_floating m : Forall floating (avp_rules m).
Proof. unfold avp_rules. cbn. case_match; repeat constructor. Qed.

Lemma compliant_alike a : ∀ mandatory a', alike a a' → compliant mandatory a → compliant mandatory a'.
Proof.
  induction a as [d c IH] using avp_tree_ind. intros mandatory a' Ha. inversion_clear Ha as [? d' ? c' E1 _ E2 _ Hc].
  inversion 1 as [? ? ? Hm ?|? ? ? m Hm Ht|? ? ? m Hm Ht Hall Hr]; subst.
  - apply compliant_unknown; congruence.
  - apply (compliant_value _ _ _ m); congruence.
  - apply (compliant_group _ _ _ m); [congruence|done| |].
    + rewrite <- E2. generalize dependent (mandatory && has_flag (avp_flags d) AVP_FLAG_MANDATORY). intros b Hall.
      clear - IH Hc Hall. induction Hc as [|x x' c c' Hx _ IHc]; [constructor|].
      apply Forall_cons in IH as [IHx IH]. apply Forall_cons in Hall as [Hx1 Hall]. constructor; [by eapply IHx|by apply IHc].
    + pose proof (avp_rules_floating m) as Hf. rewrite Forall_forall in *. intros rule Hin. eapply obeys_alike; eauto.
Qed.

(** * The AVPs of a CER *)

Lemma Forall_two {A} (P : A → Prop) x y : P x → P y → Forall P [x; y].
Proof. intros Hx Hy. by repeat constructor. Qed.

(** A value of the base type, and a vendor-specific application. *)
Inductive announced : avp → Prop :=
| announced_u32 code flags n :
    base_def code = Some (flags, AVP_TYPE_UNSIGNED32) → 0 ≤ n < 2 ^ 32 → announced (u32_avp code n)
| announced_os code flags s :
    base_def code = Some (flags, AVP_TYPE_OCTETSTRING) → announced (os_avp code s)
| announced_vsai role aid vid :
    role = AC_AUTH_APPLICATION_ID ∨ role = AC_ACCT_APPLICATION_ID → 0 ≤ aid < 2 ^ 32 → 0 ≤ vid < 2 ^ 32 →
    announced (new_avp AC_VENDOR_SPECIFIC_APPLICATION_ID None [u32_avp role aid; u32_avp AC_VENDOR_ID vid]).

Lemma base_def_bounds code flags t :
  base_def code = Some (flags, t) → 0 < code < 2 ^ 32 ∧ (flags = 0 ∨ flags = AVP_FLAG_MANDATORY).
Proof.
  unfold base_def. intros E. apply fmap_Some in E as ([i [c' ft]] & Hf & E). cbn in E. subst ft.
  apply list_find_Some in Hf as (Hl & Hc & _). cbn in Hc. subst c'. apply list_elem_of_lookup_2 in Hl.
  unfold base_avps in Hl. repeat (apply elem_of_cons in Hl as [[= -> -> _]|Hl]; [split; [done|auto]|]). by apply elem_of_nil in Hl.
Qed.

Lemma new_avp_shape code flags t v c :
  base_def code = Some (flags, t) →
  ∃ n, new_avp code v c
    = Avp {| avp_model := Some (base_model code t); mnf_code := 0; mnf_vendor := 0; avp_code := code;
             avp_flags := flags; avp_len := n; avp_vendor := 0; avp_val := v; avp_source := None;
             avp_rawdata := None |} c.
Proof. intros E. unfold new_avp. rewrite E. eexists. reflexivity. Qed.

Lemma value_parseable mandatory code flags t v :
  base_def code = Some (flags, t) → t ≠ AVP_TYPE_GROUPED →
  (∀ x, v = Number x → 0 ≤ x < 2 ^ (8 * Z.of_nat (avp_value_sizes t))) →
  parseable mandatory (new_avp code (Some v) []).
Proof.
  intros Hb Ht Hv. destruct (base_def_bounds _ _ _ Hb) as [Hc Hf]. destruct (new_avp_shape code flags t (Some v) [] Hb) as (n & ->).
  assert (Hs : search_model code flags 0 = Some (base_model code t)).
  { unfold search_model. replace (has_flag flags AVP_FLAG_VENDOR) with false by (destruct Hf; by subst).
    change (base_avp_by_code code = Some (base_model code t)). unfold base_avp_by_code. by rewrite Hb. }
  apply (parseable_value _ _ (base_model code t) v); try done.
  - repeat split; cbn; try lia; destruct Hf; subst; done.
  - cbn. lia.
Qed.

Lemma announced_parseable a : announced a → parseable true a.
Proof.
  destruct 1 as [code flags n Hb Hn|code flags s Hb|role aid vid Hr Ha Hv].
  - eapply value_parseable; [exact Hb|done|]. cbn. intros x [= <-]. lia.
  - eapply value_parseable; [exact Hb|done|]. done.
  - destruct (new_avp_shape AC_VENDOR_SPECIFIC_APPLICATION_ID _ _ None [u32_avp role aid; u32_avp AC_VENDOR_ID vid] eq_refl) as (n & ->).
    apply (parseable_group _ _ (base_model AC_VENDOR_SPECIFIC_APPLICATION_ID AVP_TYPE_GROUPED)); cbn; try done.
    + by left.
    + apply Forall_two; (apply (value_parseable _ _ AVP_FLAG_MANDATORY AVP_TYPE_UNSIGNED32); [|done|cbn; intros x [= <-]; lia]); [|reflexivity].
      by destruct Hr as [-> | ->].
Qed.

Lemma value_known code flags t v : base_def code = Some (flags, t) → known (new_avp code v []).
Proof. intros Hb. destruct (new_avp_shape code flags t v [] Hb) as (n & ->). by econstructor. Qed.

Lemma announced_known a : announced a → known a.
Proof.
  destruct 1 as [code flags n Hb Hn|code flags s Hb|role aid vid Hr Ha Hv]; [by eapply value_known..|].
  econstructor; [reflexivity|]. apply Forall_two; apply (value_known _ AVP_FLAG_MANDATORY AVP_TYPE_UNSIGNED32); [|reflexivity]. by destruct Hr as [-> | ->].
Qed.

Lemma value_compliant mandatory code flags t v c :
  base_def code = Some (flags, t) → t ≠ AVP_TYPE_GROUPED → compliant mandatory (new_avp code v c).
Proof. intros Hb Ht. destruct (new_avp_shape code flags t v c Hb) as (n & ->). by eapply compliant_value. Qed.

Lemma announced_compliant a : announced a → compliant true a.
Proof.
  destruct 1 as [code flags n Hb Hn|code flags s Hb|role aid vid Hr Ha Hv]; [by eapply value_compliant..|].
  destruct (new_avp_shape AC_VENDOR_SPECIFIC_APPLICATION_ID _ _ None [u32_avp role aid; u32_avp AC_VENDOR_ID vid] eq_refl) as (n & ->).
  eapply compliant_group; [reflexivity|done| |].
  - apply Forall_two; (apply (value_compliant _ _ AVP_FLAG_MANDATORY AVP_TYPE_UNSIGNED32); [|done]); [|reflexivity]. by destruct Hr as [-> | ->].
  - cbn. destruct Hr as [-> | ->]; repeat constructor; cbn; unfold occurrences; cbn; lia || (right; lia) || (by left) || done.
Qed.

Lemma role_announced code a :
  announceable a → code = AC_AUTH_APPLICATION_ID ∨ code = AC_ACCT_APPLICATION_ID → announced (role_avp code a).
Proof.
  intros (_ & Ha & Hv & _) Hc. unfold role_avp, AI_RELAY in *. destruct (negb _); [constructor; [done|lia..]|].
  apply (announced_u32 _ AVP_FLAG_MANDATORY); [by destruct Hc as [-> | ->]|lia].
Qed.

Lemma apps_announced apps : Forall announceable apps → Forall announced (apps ≫= app_avps).
Proof.
  induction 1 as [|a apps Ha _ IH]; [constructor|]. cbn. apply Forall_app. split; [|done]. unfold app_avps.
  apply Forall_app. split; case_match; try apply Forall_nil_2; apply Forall_singleton, role_announced; auto.
Qed.

Lemma ips_announced eps ips : host_ip_avps eps = Some ips → Forall announced ips ∧ length ips = length eps.
Proof.
  unfold host_ip_avps. intros H. apply mapM_Some in H. induction H as [|ep ip eps ips He _ [IH1 IH2]]; [by split|].
  apply fmap_Some in He as (os & _ & ->). split; [|cbn; by rewrite IH2]. constructor; [|done].
  by apply (announced_os _ AVP_FLAG_MANDATORY).
Qed.

(** A number the dictionary has a type for. *)
Ltac u32_known := eapply announced_u32; [reflexivity|first [done | vm_compute; split; congruence]].

Lemma info_announced cfg tls none l :
  ce_config_ok cfg → add_CE_info cfg tls none = Some l → Forall announced l.
Proof.
  intros [_ Ho [_ Ha] _ Hv]. unfold add_CE_info. destruct (host_ip_avps _) as [ips|] eqn:Hi; [|done]. intros [= <-].
  apply ips_announced in Hi as [Hi _]. unfold add_origin, isi_avps. cbn [app].
  repeat first [rewrite Forall_app; split | rewrite Forall_cons; split | progress case_match]; try done;
    try (by eapply announced_os); try u32_known; try (by apply apps_announced); try by apply Forall_nil_2.
  all: apply Forall_fmap; (eapply Forall_impl; [exact Hv|]); intros v Hv'; cbn in *; (eapply announced_u32; [reflexivity|lia]).
Qed.

(** * The rules of a CER *)

Definition occ (c : Z) (l : list avp) : nat := occurrences (c, 0) l.

Lemma occ_app c l1 l2 : occ c (l1 ++ l2) = (occ c l1 + occ c l2)%nat.
Proof. unfold occ, occurrences. by rewrite filter_app, length_app. Qed.

Lemma occ_cons c code v ch l :
  occ c (new_avp code v ch :: l) = ((if (code =? c)%Z then 1 else 0) + occ c l)%nat.
Proof.
  unfold occ, occurrences. rewrite filter_cons.
  assert (E : is_model (c, 0) (new_avp code v ch) = (code =? c)).
  { unfold is_model, new_avp. destruct (default _ (base_def code)) as [flags t]. cbn. apply andb_true_r. }
  rewrite E. by destruct (code =? c).
Qed.

Lemma occ_map c code (f : Z → avp) l :
  (∀ x, ∃ v ch, f x = new_avp code v ch) → occ c (f <$> l) = if code =? c then length l else 0%nat.
Proof.
  intros Hf. induction l as [|x l IH]; [by case_match|]. destruct (Hf x) as (v & ch & E).
  rewrite fmap_cons, E, occ_cons, IH. by destruct (code =? c).
Qed.

Lemma occ_ips c eps ips :
  host_ip_avps eps = Some ips → occ c ips = if AC_HOST_IP_ADDRESS =? c then length eps else 0%nat.
Proof.
  unfold host_ip_avps. intros H. apply mapM_Some in H. induction H as [|ep ip eps ips He _ IH]; [by case_match|].
  apply fmap_Some in He as (os & _ & ->). unfold os_avp. rewrite occ_cons, IH. by case_match.
Qed.

Lemma occ_apps c apps :
  c ≠ AC_AUTH_APPLICATION_ID → c ≠ AC_ACCT_APPLICATION_ID → c ≠ AC_VENDOR_SPECIFIC_APPLICATION_ID →
  occ c (apps ≫= app_avps) = 0%nat.
Proof.
  intros H1 H2 H3. induction apps as [|a apps IH]; [done|]. rewrite bind_cons, occ_app, IH. unfold app_avps. rewrite occ_app.
  assert (E : ∀ code, code ≠ c → occ c [role_avp code a] = 0%nat).
  { intros code Hc. unfold role_avp, u32_avp. case_match; rewrite occ_cons; rewrite (proj2 (Z.eqb_neq _ _)) by congruence; done. }
  destruct (app_auth a), (app_acct a); rewrite ?E by congruence; done.
Qed.

(** The AVPs of the fixed part of a CER. *)
Lemma occ_info c cfg tls none l :
  add_CE_info cfg tls none = Some l →
  c ≠ AC_AUTH_APPLICATION_ID → c ≠ AC_ACCT_APPLICATION_ID → c ≠ AC_VENDOR_SPECIFIC_APPLICATION_ID →
  c ≠ AC_INBAND_SECURITY_ID → c ≠ AC_SUPPORTED_VENDOR_ID →
  occ c l
  = ((if (AC_HOST_IP_ADDRESS =? c)%Z then length (cnf_endpoints cfg) else 0)
     + if decide (c ∈ [AC_ORIGIN_HOST; AC_ORIGIN_REALM; AC_ORIGIN_STATE_ID; AC_VENDOR_ID; AC_PRODUCT_NAME; AC_FIRMWARE_REVISION])
       then 1 else 0)%nat.
Proof.
  intros H H1 H2 H3 H4 H5. unfold add_CE_info in H. destruct (host_ip_avps _) as [ips|] eqn:Hi; [|done]. injection H as <-.
  assert (Hisi : occ c (isi_avps tls none) = 0%nat).
  { unfold isi_avps, u32_avp. destruct tls, none; cbn [app]; rewrite ?occ_cons, ?(proj2 (Z.eqb_neq _ _)) by congruence; done. }
  unfold add_origin, os_avp, u32_avp. cbn [app].
  rewrite !occ_cons, occ_app, (occ_ips c _ _ Hi), !occ_cons, !occ_app, Hisi, occ_apps by done.
  rewrite (occ_map c AC_SUPPORTED_VENDOR_ID) by eauto.
  rewrite (proj2 (Z.eqb_neq AC_SUPPORTED_VENDOR_ID c)) by congruence.
  assert (E : occ c (if negb (no_fwd (ce_cnf cfg)) then [new_avp AC_AUTH_APPLICATION_ID (Some (Number AI_RELAY)) []] else []) = 0%nat).
  { case_match; [|done]. rewrite occ_cons. by rewrite (proj2 (Z.eqb_neq _ _)) by congruence. }
  rewrite E. clear. case_decide as Hc.
  - repeat (apply elem_of_cons in Hc as [->|Hc]; [cbn; lia|]). by apply elem_of_nil in Hc.
  - rewrite !(not_elem_of_cons (A := Z)) in Hc. destruct Hc as (? & ? & ? & ? & ? & ? & _).
    rewrite (proj2 (Z.eqb_neq AC_ORIGIN_HOST c)), (proj2 (Z.eqb_neq AC_ORIGIN_REALM c)), (proj2 (Z.eqb_neq AC_ORIGIN_STATE_ID c)),
      (proj2 (Z.eqb_neq AC_VENDOR_ID c)), (proj2 (Z.eqb_neq AC_PRODUCT_NAME c)), (proj2 (Z.eqb_neq AC_FIRMWARE_REVISION c)) by congruence.
    lia.
Qed.

Lemma cer_rules_floating : Forall floating (base_cmd_rules (base_cmd true CC_CAPABILITIES_EXCHANGE)).
Proof. cbn. repeat constructor. Qed.

Lemma obeys_once pos code l :
  pos = RULE_REQUIRED ∨ pos = RULE_OPTIONAL → occ code l = 1%nat → obeys l (local_rule pos code 1).
Proof.
  unfold obeys, occ. cbn [rule_avp rule_max rule_pos local_rule]. intros Hp ->. unfold effective_min.
  destruct Hp as [-> | ->]; (split_and!; [vm_compute; congruence|by right|done]).
Qed.

Lemma obeys_some code l : (1 ≤ occ code l)%nat → obeys l (local_rule RULE_REQUIRED code (-1)).
Proof. unfold obeys, occ. cbn [rule_avp rule_max rule_pos local_rule]. intros H. change (effective_min _) with 1. split_and!; [lia|by left|done]. Qed.

Lemma obeys_any code l : obeys l (local_rule RULE_OPTIONAL code (-1)).
Proof. unfold obeys. cbn [rule_avp rule_max rule_pos local_rule]. change (effective_min _) with 0. split_and!; [lia|by left|done]. Qed.

Lemma info_obeys cfg tls none l :
  ce_config_ok cfg → add_CE_info cfg tls none = Some l →
  Forall (obeys l) (base_cmd_rules (base_cmd true CC_CAPABILITIES_EXCHANGE)).
Proof.
  intros Hok Hl. destruct (ok_endpoints _ Hok) as [He _].
  assert (Hip : (1 ≤ occ AC_HOST_IP_ADDRESS l)%nat).
  { rewrite (occ_info _ cfg tls none l Hl) by done. cbn. destruct (cnf_endpoints cfg); [done|cbn; lia]. }
  change (base_cmd_rules _) with (origin_rules ++ ce_info_rules). apply Forall_app.
  split; repeat (apply Forall_cons; split); try apply Forall_nil_2; try apply obeys_any; try (by apply obeys_some).
  all: apply obeys_once; [auto|]; by rewrite (occ_info _ cfg tls none _ Hl).
Qed.

(** * The exchange *)

Lemma cer_header cfg tls tls_disabled sec eteid m :
  create_CER cfg tls tls_disabled sec eteid = Some m →
  msg_public m = msg_public (fd_msg_new (base_cmd true CC_CAPABILITIES_EXCHANGE) eteid)
  ∧ add_CE_info cfg (negb tls && has_flag sec PI_SEC_TLS_OLD && negb tls_disabled) (negb tls && has_flag sec PI_SEC_NONE)
    = Some (msg_children m).
Proof.
  unfold create_CER. destruct (add_CE_info _ _ _) as [l|] eqn:E; [|done]. intros [= <-]. done.
Qed.

(** What is read back has the same AVPs. *)
Lemma update_length_children m m' :
  Forall known (msg_children m) → fd_msg_update_length m = Ok m' →
  Forall2 alike (msg_children m) (map settled (msg_children m'))
  ∧ ∃ n, msg_public m' = set_msg_length n (msg_public m).
Proof.
  intros Hk. unfold fd_msg_update_length. destruct (update_length_chain _ _) as [[sz l]| | |] eqn:E; [|done..].
  intros [= <-]. split; [|eauto]. by eapply children_alike.
Qed.

(** A request written with known AVPs that obey the rules is accepted. *)
Lemma request_accepted data m m' :
  Forall (compliant true) (msg_children m) → Forall known (msg_children m) →
  Forall floating (cmd_rules data) → Forall (obeys (msg_children m)) (cmd_rules data) →
  has_flag (msg_flags (msg_public m)) CMD_FLAG_ERROR = false → fd_msg_update_length m = Ok m' →
  parserules_do_msg (received_msg data m') = Ok tt.
Proof.
  intros Hc Hk Hf Ho He Hu. destruct (update_length_children m m' Hk Hu) as [Hl [n Hp]].
  apply (decides_iff _ _ (parserules_msg_ok _)). unfold compliant_msg, received_msg. cbn [msg_children msg_public msg_model].
  rewrite Hp. split.
  - clear - Hc Hl. induction Hl as [|a a' l l' Ha _ IH]; [constructor|].
    apply Forall_cons in Hc as [Ha' Hc]. constructor; [by eapply compliant_alike|by apply IH].
  - change (msg_flags (set_msg_length n (msg_public m))) with (msg_flags (msg_public m)). rewrite He. exists data. split; [done|].
    rewrite Forall_forall in *. intros rule Hin. eapply obeys_alike; eauto.
Qed.

(** C24: The capabilities of a node reach its peer: the CER a node creates, sent
    with a hop-by-hop identifier, is accepted by the peer as the first message of a connection
    (it parses with the dictionary and the rules of the base protocol), and what
    the peer keeps of it is exactly the realm, state, product, applications,
    relay flag, security and addresses of the node; the name is compared without
    regard to case. *)
Theorem cer_exchanged cfg tls tls_disabled sec eteid hbh m ws diamid eps :
  ce_config_ok cfg → caseless (cnf_diamid (ce_cnf cfg)) diamid → 0 ≤ eteid < 2 ^ 32 → 0 ≤ hbh < 2 ^ 32 →
  create_CER cfg tls tls_disabled sec eteid = Some m →
  wires_of (msg_children m) = Some ws → Z.of_nat (GETMSGHDRSZ + size ws) < 2 ^ 24 →
  ∃ buf m' cer,
    fd_msg_bufferize (set_hbhid hbh m) = Ok (buf, m') ∧ first_message buf = Some cer ∧ msg_hbhid (msg_public cer) = hbh
    ∧ save_remote_CE_info diamid false eps (msg_children cer)
      = (CeState
           (announced_runtime cfg (negb tls && has_flag sec PI_SEC_TLS_OLD && negb tls_disabled)
              (negb tls && has_flag sec PI_SEC_NONE))
           (advertised (fd_ep_clearflags eps EP_FL_ADV) (cnf_endpoints cfg)) 0, CeNext).
Proof.
  intros Hok Hid He Hh Hm Hw Hs. destruct (cer_header _ _ _ _ _ _ Hm) as [Hp Hl].
  pose proof (info_announced _ _ _ _ Hok Hl) as Ha.
  assert (Hk : Forall known (msg_children m)) by (eapply Forall_impl; [exact Ha|apply announced_known]).
  destruct (fd_msg_survives (set_hbhid hbh m) ws (base_cmd true CC_CAPABILITIES_EXCHANGE)) as (buf & m' & Hb & Hu & Hr).
  - unfold set_hbhid, msg_hdr_ok. cbn [set_hdr msg_public]. rewrite Hp. repeat split; cbn; lia || done.
  - done.
  - done.
  - eapply Forall_impl; [exact Ha|apply announced_parseable].
  - left. cbn. by rewrite Hp.
  - cbn. by rewrite Hp.
  - destruct (update_length_children (set_hbhid hbh m) m' Hk Hu) as [Hal [n Hpub]].
    exists buf, m', (received_msg (base_cmd true CC_CAPABILITIES_EXCHANGE) m'). split; [done|]. split_and!.
    + unfold first_message. destruct (fd_msg_parse_buffer buf) as [r| | |]; [|done..]. cbn [mbind result_mbind] in Hr.
      unfold fd_msg_parse_rules. rewrite Hr. cbn [mbind result_mbind]. rewrite (request_accepted _ (set_hbhid hbh m) m'); try done.
      * cbn [mbind result_mbind mret result_mret]. unfold received_msg. cbn [msg_public]. rewrite Hpub. cbn. rewrite Hp. done.
      * eapply Forall_impl; [exact Ha|apply announced_compliant].
      * apply cer_rules_floating.
      * by eapply info_obeys.
      * cbn. by rewrite Hp.
    + cbn [received_msg msg_public]. by rewrite Hpub.
    + destruct (capabilities_saved cfg (negb tls && has_flag sec PI_SEC_TLS_OLD && negb tls_disabled)
                  (negb tls && has_flag sec PI_SEC_NONE) diamid false eps Hid Hok) as (l & Hl' & Hsv).
      rewrite Hl in Hl'. injection Hl' as <-. unfold save_remote_CE_info. cbn [received_msg msg_children].
      rewrite <- (ce_loop_alike _ _ _ _ Hal). exact Hsv.
Qed.

(** A gateway with two addresses, the STa application of 3GPP and NASREQ. *)
Definition sample_gateway : ce_config :=
  {| ce_cnf := {| cnf_diamid := ascii_octets "gw.example"; cnf_diamrlm := ascii_octets "example";
                  cnf_apps := [FdApp true true 0 1; FdApp true false 10415 16777250]; no_fwd := false |};
     cnf_orstateid := 1700000000;
     cnf_endpoints := [Endpoint (SockAddr AF_INET [10; 0; 0; 1] 3868) EP_FL_CONF;
                       Endpoint (SockAddr AF_INET6 [32; 1; 13; 184; 0; 0; 0; 0; 0; 0; 0; 0; 0; 0; 0; 1] 3868) EP_FL_CONF];
     cnf_vendors := [5535; 10415] |}.

Lemma sample_gateway_ok : ce_config_ok sample_gateway.
Proof.
  split; cbn.
  - split; [vm_compute; reflexivity|discriminate].
  - lia.
  - split; [repeat constructor; cbn; vm_compute; reflexivity|].
    apply Forall_two; (split; [by left|]); unfold AI_RELAY; cbn; split_and!; lia || done.
  - split; [done|]. apply Forall_two; unfold sa_ok; cbn; split_and!; lia || auto.
  - apply Forall_two; lia.
Qed.

Lemma cer_exchanged_witness :
  ∃ m, create_CER sample_gateway false true 3 7 = Some m
  ∧ ∃ buf m' cer,
      fd_msg_bufferize (set_hbhid 9 m) = Ok (buf, m') ∧ length buf = 260%nat ∧ first_message buf = Some cer
      ∧ pir_apps (ce_run (save_remote_CE_info (ascii_octets "GW.EXAMPLE") false [] (msg_children cer)).1)
        = cnf_apps (ce_cnf sample_gateway).
Proof.
  destruct (create_CER sample_gateway false true 3 7) as [m|] eqn:Hm; [|vm_compute in Hm; discriminate Hm].
  destruct (wires_of (msg_children m)) as [ws|] eqn:Hw; [|vm_compute in Hm; injection Hm as <-; vm_compute in Hw; discriminate Hw].
  exists m. split; [reflexivity|].
  destruct (cer_exchanged sample_gateway false true 3 7 9 m ws (ascii_octets "GW.EXAMPLE") [])
    as (buf & m' & cer & Hb & Hf & _ & Hs); [exact sample_gateway_ok|vm_compute; reflexivity|lia|lia|exact Hm|exact Hw| |].
  - vm_compute in Hm. injection Hm as <-. vm_compute in Hw. injection Hw as <-. vm_compute. reflexivity.
  - exists buf, m', cer. split; [exact Hb|]. split; [|split; [exact Hf|rewrite Hs; reflexivity]].
    clear Hs Hf. vm_compute in Hm. injection Hm as <-. vm_compute in Hb. injection Hb as <- _. reflexivity.
Defined.

(** * An AVP without a value *)

Section Crash.
Context {D : Dictionary} {R : RuleBook}.

(** The dictionary has the AVPs of the base protocol, and maybe others. *)
Definition knows_base : Prop :=
  ∀ code flags t, base_def code = Some (flags, t) → ∃ m, avp_by_code code = Some m ∧ dict_basetype m = t.

(** The dictionary gives the AVP no value of its own: it does not know the AVP, or
    the AVP is a group. *)
Definition unvalued (a : avp) : Prop :=
  match avp_model (data_of a) with Some m => dict_basetype m = AVP_TYPE_GROUPED | None => True end.

Definition has_type (t : dict_avp_basetype) (v : avp_value) : Prop :=
  match v with OctetString _ => t = AVP_TYPE_OCTETSTRING | Number _ => t ≠ AVP_TYPE_OCTETSTRING ∧ t ≠ AVP_TYPE_GROUPED end.

(** An AVP as [fd_msg_parse_dict] leaves it. *)
Definition interpreted (a : avp) : Prop :=
  let d := data_of a in
  match avp_model d with
  | Some m => if decide (dict_basetype m = AVP_TYPE_GROUPED) then avp_val d = None
              else ∃ v, avp_val d = Some v ∧ has_type (dict_basetype m) v
  | None => avp_val d = None
  end
  ∧ (has_flag (avp_flags d) AVP_FLAG_VENDOR = false → avp_code d ≠ 0 → avp_model d = avp_by_code (avp_code d)).

Definition is_received (a : avp) : Prop := ∃ code flags len vendor source, a = received code flags len vendor source.

Lemma bind_Ok {A B} (r : FdMessages.result A) (f : A → FdMessages.result B) b :
  r ≫= f = Ok b → ∃ x, r = Ok x ∧ f x = Ok b.
Proof. destruct r; try done. by eexists. Qed.

Lemma parse_one_received buf n off a off' : parse_one buf n off = Ok (a, off') → is_received a.
Proof.
  unfold parse_one. case_decide; [done|]. intros E.
  repeat (apply bind_Ok in E as (? & _ & E)). case_match; [done|]. apply bind_Ok in E as (? & _ & E).
  case_match; [done|]. case_match; [done|]. injection E as <- _. unfold is_received. eauto 10.
Qed.

Lemma parsebuf_list_received fuel : ∀ buf n off l, parsebuf_list fuel buf n off = Ok l → Forall is_received l.
Proof.
  induction fuel as [|fuel IH]; intros buf n off l; cbn [parsebuf_list]; case_decide; try done; try (intros [= <-]; constructor).
  intros ([a off'] & Ha & (l' & Hl & [= <-])%bind_Ok)%bind_Ok. constructor; [by eapply parse_one_received|by eapply IH].
Qed.

Lemma read_value_typed t d source v : read_value t d source = Ok v → has_type t v.
Proof.
  unfold read_value. destruct t; try done; repeat case_match; try done; by intros (x & _ & [= <-])%bind_Ok.
Qed.

Lemma parsedict_chain_Forall f (P Q : avp → Prop) l : ∀ l',
  (∀ a a', P a → f a = Ok a' → Q a') → Forall P l → parsedict_chain f l = Ok l' → Forall Q l'.
Proof.
  intros l' Hf Hl. revert l'. induction Hl as [|a l Ha _ IH]; intros l'; cbn; [intros [= <-]; constructor|].
  intros (a' & Ha' & (l1 & Hl1 & [= <-])%bind_Ok)%bind_Ok. constructor; eauto.
Qed.

Lemma resolve_model code flags len vendor source :
  let 'Avp d _ := received code flags len vendor source in
  has_flag flags AVP_FLAG_VENDOR = false → code ≠ 0 → avp_model (resolve (set_model None d)) = avp_by_code code.
Proof.
  cbn. intros Hv Hc. unfold resolve. cbn [set_model mnf_code mnf_vendor avp_code avp_vendor avp_flags].
  rewrite (proj2 (Z.eqb_neq 0 code)) by done. cbn [negb orb]. unfold search_model. rewrite Hv.
  by destruct (avp_by_code code).
Qed.

(** What [fd_msg_parse_dict] makes of a received AVP, and of the AVPs inside. *)
Lemma parsedict_interpreted fuel mandatory a a' :
  is_received a → parsedict_do_avp fuel mandatory a = Ok a' → interpreted a'.
Proof.
  intros (code & flags & len & vendor & source & ->). destruct fuel as [|fuel]; [done|].
  pose proof (resolve_received code flags len vendor source) as HR.
  pose proof (resolve_model code flags len vendor source) as HM. cbn in HR, HM. cbn [parsedict_do_avp received avp_model].
  destruct HR as [E|[(m & _ & E)|E]]; rewrite E in HM |- *; cbn [avp_model set_model set_not_found] in HM |- *.
  1,3: unfold keep_raw; case_match; [done|]; cbn; case_match;
    [intros [= <-]|intros (raw & _ & [= <-])%bind_Ok]; by split.
  case_match; [done|]. case_decide as Hg.
  - intros (l & _ & (c & _ & [= <-])%bind_Ok)%bind_Ok. unfold interpreted. cbn. by rewrite decide_True.
  - intros (v & Hv & (u & _ & [= <-])%bind_Ok)%bind_Ok. unfold interpreted. cbn. rewrite decide_False by done.
    split; [|done]. exists v. split; [done|]. by eapply read_value_typed.
Qed.

Lemma grouped_error_Ok {A} (r : FdMessages.result A) x : grouped_error r = Ok x → r = Ok x.
Proof. unfold grouped_error. destruct r as [|e c| |]; try done. by destruct e. Qed.

Lemma parsedict_interpreted_inside fuel mandatory a a' :
  is_received a → parsedict_do_avp fuel mandatory a = Ok a' → Forall interpreted (children_of a').
Proof.
  intros (code & flags & len & vendor & source & ->). destruct fuel as [|fuel]; [done|].
  cbn [parsedict_do_avp received avp_model]. destruct (avp_model (resolve _)) as [m|].
  - case_match; [done|]. case_decide.
    + intros (l & Hl & (c & Hc & [= <-])%bind_Ok)%bind_Ok. cbn.
      apply grouped_error_Ok, parsebuf_list_received in Hl.
      eapply parsedict_chain_Forall; [|exact Hl|exact Hc]. intros ??. apply parsedict_interpreted.
    + intros (v & _ & (u & _ & [= <-])%bind_Ok)%bind_Ok. constructor.
  - unfold keep_raw. repeat case_match; intros E; try (apply bind_Ok in E as (? & _ & E)); try done;
      injection E as <-; constructor.
Qed.

Lemma accepted_interpreted buf fuel r cer :
  fd_msg_parse_buffer buf = Ok r → fd_msg_parse_rules fuel r = Ok cer →
  Forall (λ a, interpreted a ∧ Forall interpreted (children_of a)) (msg_children cer).
Proof.
  intros Hb Hc.
  assert (Forall is_received (msg_children r) ∧ msg_model r = None) as [Hr Hm].
  { unfold fd_msg_parse_buffer in Hb. case_decide; [done|].
    repeat (case_match; [done|] || (apply bind_Ok in Hb as (? & ? & Hb))). injection Hb as <-. cbn. split; [|done].
    by eapply parsebuf_list_received. }
  unfold fd_msg_parse_rules in Hc. apply bind_Ok in Hc as (m & Hd & (u & _ & [= <-])%bind_Ok).
  unfold parsedict_do_msg in Hd. rewrite Hm in Hd. case_match; [done|]. case_match; [|done].
  apply bind_Ok in Hd as (l & Hl & [= <-]). cbn. eapply parsedict_chain_Forall; [|exact Hr|exact Hl].
  intros a a' Ha E. split; [by eapply parsedict_interpreted|by eapply parsedict_interpreted_inside].
Qed.

(** * Which AVPs fail the assertions *)

Lemma base_def_nonzero code x : base_def code = Some x → code ≠ 0.
Proof. intros H ->. discriminate H. Qed.

(** An AVP of the base protocol has a value of its type. *)
Lemma base_value code flags t a :
  knows_base → base_def code = Some (flags, t) → t ≠ AVP_TYPE_GROUPED → interpreted a → base_avp code a = true →
  ∃ v, avp_val (data_of a) = Some v ∧ has_type t v.
Proof.
  intros Hk Hb Ht [Hv Hm] [Hf Hc]%andb_true_iff. apply negb_true_iff in Hf. apply Z.eqb_eq in Hc.
  rewrite Hc in Hm. rewrite (Hm Hf (base_def_nonzero _ _ Hb)) in Hv. destruct (Hk _ _ _ Hb) as (m & E & <-).
  by rewrite E, decide_False in Hv.
Qed.

(** The value that is read is of the member that is read. *)
Lemma with_u32_safe code flags a s k :
  knows_base → interpreted a → base_avp code a = true → base_def code = Some (flags, AVP_TYPE_UNSIGNED32) →
  (∀ n, (k n).2 ≠ CeCrash) → (with_u32 (data_of a) s k).2 ≠ CeCrash.
Proof.
  intros Hk Hi Ha Hb Hn. destruct (base_value _ _ _ _ Hk Hb ltac:(done) Hi Ha) as (v & Hv & Ht). unfold with_u32.
  rewrite Hv. destruct v; cbn; [done|apply Hn].
Qed.

Lemma with_os_safe code flags a s k :
  knows_base → interpreted a → base_avp code a = true → base_def code = Some (flags, AVP_TYPE_OCTETSTRING) →
  (∀ n, (k n).2 ≠ CeCrash) → (with_os (data_of a) s k).2 ≠ CeCrash.
Proof.
  intros Hk Hi Ha Hb Hn. destruct (base_value _ _ _ _ Hk Hb ltac:(done) Hi Ha) as (v & Hv & Ht). unfold with_os.
  rewrite Hv. destruct v; cbn; [apply Hn|by destruct Ht].
Qed.

Ltac reads_value :=
  first [eapply with_u32_safe|eapply with_os_safe];
  [eassumption|eassumption|eassumption|reflexivity|intros; repeat case_match; done].

Lemma not_vsai st b (P : Prop) : st ≠ CeCrash → b = false → st = CeCrash ↔ b = true ∧ P.
Proof. intros Hs ->. naive_solver. Qed.

Lemma ce_avp_crash diamid rc a s :
  knows_base → interpreted a →
  (ce_avp diamid rc a s).2 = CeCrash ↔
  base_avp AC_VENDOR_SPECIFIC_APPLICATION_ID a = true ∧ vsai_loop (children_of a) 0 0 0 = VsaiCrash.
Proof.
  intros Hk Hi. unfold ce_avp. cbv zeta.
  destruct (has_flag (avp_flags (data_of a)) AVP_FLAG_VENDOR) eqn:Hf; [unfold base_avp; rewrite Hf; split; [done|by intros []]|].
  repeat match goal with
  | |- context [if avp_code (data_of a) =? ?c then _ else _] =>
      destruct (avp_code (data_of a) =? c) eqn:?;
      [assert (base_avp c a = true) by (unfold base_avp; by rewrite Hf);
       try (apply not_vsai; [reads_value|by eapply base_avp_one])|]
  end.
  - case_match; split; try done; by intros [].
  - split; [done|]. intros [E%base_avp_code _]. lia.
Qed.

Lemma vsai_loop_cons a l v au ac :
  vsai_loop (a :: l) v au ac
  = match vsai_loop [a] v au ac with VsaiOk v' au' ac' => vsai_loop l v' au' ac' | x => x end.
Proof. cbn. repeat case_match; done. Qed.

Lemma vsai_one a v au ac :
  knows_base → interpreted a →
  vsai_loop [a] v au ac = VsaiCrash ↔ has_flag (avp_flags (data_of a)) AVP_FLAG_VENDOR = false ∧ unvalued a.
Proof.
  intros Hk Hi. cbn. destruct (has_flag _ AVP_FLAG_VENDOR) eqn:Hf; [naive_solver|].
  destruct (avp_val (data_of a)) as [x|] eqn:Hx.
  - assert (¬ unvalued a) as Hu.
    { destruct Hi as [Hv _]. unfold unvalued. intros Hg. destruct (avp_model _); [|congruence].
      rewrite decide_True in Hv by done. congruence. }
    split; [|naive_solver]. intros H. exfalso.
    assert (∀ c flags, base_def c = Some (flags, AVP_TYPE_UNSIGNED32) → avp_code (data_of a) =? c = true → u32_of x ≠ None) as Hn.
    { intros c flags Hb Hc. destruct (base_value c flags AVP_TYPE_UNSIGNED32 a) as (y & Hy & Ht); try done.
      - unfold base_avp. by rewrite Hf.
      - rewrite Hx in Hy. injection Hy as <-. by destruct x. }
    repeat case_match; try done; eapply Hn; try eassumption; reflexivity.
  - split; [intros _; split; [done|]|done]. destruct Hi as [Hv _]. unfold unvalued. destruct (avp_model _) as [m|]; [|done].
    case_decide; [done|]. destruct Hv as (y & Hy & _). congruence.
Qed.

(** The first AVP without a value ends the loop. *)
Lemma vsai_crash l : knows_base → Forall interpreted l → ∀ v au ac,
  vsai_loop l v au ac = VsaiCrash ↔
  ∃ inner u rest vid auth_aid acct_aid, l = inner ++ u :: rest ∧ vsai_loop inner v au ac = VsaiOk vid auth_aid acct_aid
    ∧ has_flag (avp_flags (data_of u)) AVP_FLAG_VENDOR = false ∧ unvalued u.
Proof.
  intros Hk. induction 1 as [|a l Ha _ IH]; intros v au ac.
  { split; [done|]. by intros ([|??] & ? & ? & ? & ? & ? & [=] & _). }
  rewrite vsai_loop_cons. split.
  - destruct (vsai_loop [a] v au ac) as [v1 au1 ac1| |] eqn:E; [|done|].
    + intros (inner & u & rest & vid & x & y & -> & Hi & Hu)%IH. exists (a :: inner), u, rest, vid, x, y.
      by rewrite vsai_loop_cons, E.
    + intros _. apply (vsai_one a v au ac Hk Ha) in E. by exists [], a, l, v, au, ac.
  - intros ([|b inner] & u & rest & vid & x & y & [= <- Hl] & Hi & Hu).
    + apply (vsai_one a v au ac Hk Ha) in Hu. by rewrite Hu.
    + rewrite vsai_loop_cons in Hi. destruct (vsai_loop [a] v au ac) as [v1 au1 ac1| |]; [|done..]. apply IH. eauto 10.
Qed.

Lemma ce_loop_crash diamid rc l : ∀ s,
  (ce_loop diamid rc l s).2 = CeCrash ↔
  ∃ before a after s', l = before ++ a :: after ∧ ce_loop diamid rc before s = (s', CeNext)
    ∧ (ce_avp diamid rc a s').2 = CeCrash.
Proof.
  induction l as [|a l IH]; intros s.
  { split; [done|]. by intros ([|??] & ? & ? & ? & [=] & _). }
  cbn [ce_loop]. destruct (ce_avp diamid rc a s) as [s1 st] eqn:E. split.
  - intros H. destruct st; [|done|].
    + apply IH in H as (b & x & c & s' & -> & Hb & Hx). exists (a :: b), x, c, s'. cbn. by rewrite E.
    + exists [], a, l, s. by rewrite E.
  - intros ([|b0 b] & x & c & s' & [= <- Hl] & Hb & Hx); cbn in Hb.
    + injection Hb as <-. rewrite E in Hx. cbn in Hx. by subst st.
    + rewrite E in Hb. destruct st; [|done..]. apply IH. eauto 10.
Qed.

(** C40: The ASSERTs of [save_remote_CE_info] on the messages that the dictionary and
    the rules accept, for any dictionary that has the AVPs of the base protocol and
    any rules: keeping the capabilities of the message fails one exactly if the
    loop comes to a Vendor-Specific-Application-Id in which it comes to an AVP that
    is of no vendor and unknown to the dictionary, or a group: such an AVP has no value.
    No other content of an accepted message does it. *)
Theorem capabilities_crash buf fuel r cer diamid want_rc eps :
  knows_base → fd_msg_parse_buffer buf = Ok r → fd_msg_parse_rules fuel r = Ok cer →
  (save_remote_CE_info diamid want_rc eps (msg_children cer)).2 = CeCrash ↔
  ∃ before a after s inner u rest vid auth_aid acct_aid,
    msg_children cer = before ++ a :: after ∧ save_remote_CE_info diamid want_rc eps before = (s, CeNext)
    ∧ base_avp AC_VENDOR_SPECIFIC_APPLICATION_ID a = true
    ∧ children_of a = inner ++ u :: rest ∧ vsai_loop inner 0 0 0 = VsaiOk vid auth_aid acct_aid
    ∧ has_flag (avp_flags (data_of u)) AVP_FLAG_VENDOR = false ∧ unvalued u.
Proof.
  intros Hk Hb Hc. pose proof (accepted_interpreted _ _ _ _ Hb Hc) as Hi. unfold save_remote_CE_info.
  rewrite ce_loop_crash. split.
  - intros (before & a & after & s & El & Hs & Ha). rewrite El in Hi. apply Forall_app in Hi as [_ [[Hia Hin] _]%Forall_cons].
    apply ce_avp_crash in Ha as [Hv Ha]; [|done..]. apply (vsai_crash _ Hk Hin) in Ha as (inner & u & rest & x & y & z & Hu).
    by exists before, a, after, s, inner, u, rest, x, y, z.
  - intros (before & a & after & s & inner & u & rest & x & y & z & El & Hs & Hv & Hu). exists before, a, after, s.
    split; [done|]. split; [done|]. rewrite El in Hi. apply Forall_app in Hi as [_ [[Hia Hin] _]%Forall_cons].
    apply ce_avp_crash; [done..|]. split; [done|]. apply (vsai_crash _ Hk Hin). eauto 10.
Qed.
End Crash.

(** An AVP as a foreign implementation writes it. *)
Definition raw_avp (code flags : Z) (data : list Z) : list Z :=
  be_bytes 4 code ++ [flags] ++ be_bytes 3 (8 + Z.of_nat (length data)) ++ data
  ++ replicate ((4 - length data mod 4) mod 4)%nat 0.

(** A CER with an optional AVP 9999, which the dictionary does not have, inside its
    Vendor-Specific-Application-Id. *)
Definition extended_cer : list Z :=
  let avps :=
    raw_avp AC_VENDOR_SPECIFIC_APPLICATION_ID 0x40
      (raw_avp AC_VENDOR_ID 0x40 (be_bytes 4 10415) ++ raw_avp AC_AUTH_APPLICATION_ID 0x40 (be_bytes 4 16777250)
       ++ raw_avp 9999 0 [])
    ++ raw_avp AC_ORIGIN_HOST 0x40 (ascii_octets "new.example") ++ raw_avp AC_ORIGIN_REALM 0x40 (ascii_octets "example")
    ++ raw_avp AC_HOST_IP_ADDRESS 0x40 [0; 1; 10; 0; 0; 2] ++ raw_avp AC_VENDOR_ID 0x40 (be_bytes 4 0)
    ++ raw_avp AC_PRODUCT_NAME 0 (ascii_octets "new") in
  [1] ++ be_bytes 3 (20 + Z.of_nat (length avps)) ++ [0x80] ++ be_bytes 3 CC_CAPABILITIES_EXCHANGE
  ++ be_bytes 4 0 ++ be_bytes 4 1 ++ be_bytes 4 2 ++ avps.

Lemma base_dictionary_knows : knows_base (D := base_dictionary).
Proof.
  intros code flags t H. exists (base_model code t). split; [|done].
  change (base_avp_by_code code = Some (base_model code t)). unfold base_avp_by_code. by rewrite H.
Qed.

(** Whoever the peer is. *)
Lemma capabilities_crash_witness :
  ∃ cer, first_message extended_cer = Some cer
  ∧ ∀ diamid eps, (save_remote_CE_info diamid false eps (msg_children cer)).2 = CeCrash.
Proof.
  destruct (fd_msg_parse_buffer extended_cer) as [r| | |] eqn:Er; [|vm_compute in Er; discriminate Er..].
  destruct (fd_msg_parse_rules (length extended_cer) r) as [cer| | |] eqn:Ec;
    [|vm_compute in Er; injection Er as <-; vm_compute in Ec; discriminate Ec..].
  exists cer. split.
  { unfold first_message. rewrite Er, Ec. vm_compute in Er. injection Er as <-. vm_compute in Ec. injection Ec as <-. reflexivity. }
  intros diamid eps.
  apply (capabilities_crash extended_cer (length extended_cer) r cer diamid false eps base_dictionary_knows Er Ec).
  vm_compute in Er. injection Er as <-. vm_compute in Ec. injection Ec as <-.
  cbn [msg_children]. eexists [], _, _, _, [_; _], _, [], _, _, _.
  repeat split; vm_compute; reflexivity.
Defined.
