(* ===== verification/FdHash.v ===== *)
(** The hash of octet strings (libfdproto/ostr.c, [fd_os_hash]), which chooses
    the line of the table of sessions.

    Octets that do not start at a multiple of four are read in a way of their
    own; the hash does not depend on it, so that a Session-Id has one line
    wherever its octets lie.  Words are read as a little-endian machine does. *)

From stdpp Require Import base list sorting.
From Stdlib Require Import ZArith Lia.
From S2P Require Import Prelude.
Open Scope Z_scope.

(** The word that octets make, the first one lowest. *)
Fixpoint le (l : list Z) : Z := match l with [] => 0 | x :: l => x + 256 * le l end.

Definition hash_m : Z := 0x5bd1e995.

(** [_HASH_MIX]. *)
Definition HASH_MIX (h k : Z) : Z :=
  let k := u32 (k * hash_m) in
  let k := Z.lxor k (Z.shiftr k 24) in
  let k := u32 (k * hash_m) in
  Z.lxor (u32 (h * hash_m)) k.

(** [case 3: hash ^= data[2] << 16; case 2: ... case 1: ... hash *= m]. *)
Definition hash_tail (hash : Z) (data : list Z) : Z :=
  match data with
  | [a; b; c] => u32 (Z.lxor (Z.lxor (Z.lxor hash (Z.shiftl c 16)) (Z.shiftl b 8)) a * hash_m)
  | [a; b] => u32 (Z.lxor (Z.lxor hash (Z.shiftl b 8)) a * hash_m)
  | [a] => u32 (Z.lxor hash a * hash_m)
  | _ => hash
  end.

(** The loop over aligned words, and what is left of the octets. *)
Fixpoint hash_aligned (hash : Z) (data : list Z) : Z :=
  match data with
  | a :: b :: c :: d :: data => hash_aligned (HASH_MIX hash (le [a; b; c; d])) data
  | _ => hash_tail hash data
  end.

(** [case 3: t |= data[2] << 16; case 2: ... case 1: t |= data[0]], of [n] octets. *)
Definition preload (n : nat) (data : list Z) : Z :=
  match n with
  | 3%nat => Z.lor (Z.lor (Z.shiftl (nth 2 data 0) 16) (Z.shiftl (nth 1 data 0) 8)) (nth 0 data 0)
  | 2%nat => Z.lor (Z.shiftl (nth 1 data 0) 8) (nth 0 data 0)
  | 1%nat => nth 0 data 0
  | _ => 0
  end.

(** The loop over words read one after the other from an aligned address: the
    word to mix is the end of the last one and the start of this one. *)
Fixpoint hash_unaligned (align : nat) (hash t : Z) (data : list Z) : Z :=
  let sr := 8 * Z.of_nat align in
  let sl := 8 * (4 - Z.of_nat align) in
  match data with
  | a :: b :: c :: d :: data =>
      let w := le [a; b; c; d] in
      hash_unaligned align (HASH_MIX hash (Z.lor (Z.shiftr t sr) (u32 (Z.shiftl w sl)))) w data
  | _ =>
      if (align <=? length data)%nat then
        let k := Z.lor (Z.shiftr t sr) (u32 (Z.shiftl (preload align data) sl)) in
        hash_tail (HASH_MIX hash k) (drop align data)
      else
        u32 (Z.lxor hash (Z.lor (Z.shiftr t sr) (u32 (Z.shiftl (preload (length data) data) sl))) * hash_m)
  end.

Definition hash_final (hash : Z) : Z :=
  let hash := Z.lxor hash (Z.shiftr hash 13) in
  let hash := u32 (hash * hash_m) in
  Z.lxor hash (Z.shiftr hash 15).

(** [align] is [(long)string & 3]. *)
Definition fd_os_hash (align : nat) (string : list Z) : Z :=
  let hash := u32 (Z.of_nat (length string)) in
  hash_final
    (if (align =? 0)%nat || (length string <? 4)%nat then hash_aligned hash string
     else
       let t := u32 (Z.shiftl (preload (4 - align) string) (8 * Z.of_nat align)) in
       hash_unaligned align hash t (drop (4 - align) string)).

(** * Words and their octets *)

Definition octet (x : Z) : Prop := 0 <= x < 256.

Lemma lxor_disjoint a b n : 0 <= n -> 0 <= a < 2 ^ n -> Z.lxor (Z.shiftl b n) a = a + b * 2 ^ n.
Proof.
  intros Hn Ha. rewrite <- Z.shiftl_mul_pow2, Z.lxor_comm by done. symmetry. apply Z.add_nocarry_lxor.
  apply Z.bits_inj'. intros i Hi. rewrite Z.land_spec, Z.bits_0. destruct (Z.lt_ge_cases i n).
  - rewrite Z.shiftl_spec_low by done. apply andb_false_r.
  - by rewrite (proj1 (Z.bounded_iff_bits_nonneg n a Hn (proj1 Ha))) by lia.
Qed.

Lemma lor_disjoint a b n : 0 <= n -> 0 <= a < 2 ^ n -> Z.lor a (Z.shiftl b n) = a + b * 2 ^ n.
Proof.
  intros Hn Ha. rewrite <- lxor_disjoint by done. apply Z.bits_inj'. intros i Hi.
  rewrite Z.lxor_spec, Z.lor_spec. destruct (Z.lt_ge_cases i n).
  - rewrite Z.shiftl_spec_low by done. by rewrite orb_false_r, xorb_false_l.
  - rewrite (proj1 (Z.bounded_iff_bits_nonneg n a Hn (proj1 Ha))) by lia. by rewrite xorb_false_r.
Qed.

Lemma le_bound l : Forall octet l -> 0 <= le l < 256 ^ Z.of_nat (length l).
Proof.
  induction 1 as [|x l Hx Hl IH]; [done|]. cbn [le length]. unfold octet in Hx.
  rewrite Nat2Z.inj_succ, Z.pow_succ_r by lia. lia.
Qed.

Lemma le_app l1 l2 : le (l1 ++ l2) = le l1 + 256 ^ Z.of_nat (length l1) * le l2.
Proof.
  induction l1 as [|x l1 IH]; [cbn [le app length]; lia|]. cbn [le app length].
  rewrite IH, Nat2Z.inj_succ, Z.pow_succ_r by lia. ring.
Qed.

Ltac octets :=
  repeat match goal with H : Forall octet (_ :: _) |- _ => apply Forall_cons in H; destruct H as [? H] end;
  unfold octet in *.

(** The octets shifted into place make the word. *)
Lemma preload_le n data :
  (n <= 3)%nat -> (n <= length data)%nat -> Forall octet data -> preload n data = le (take n data).
Proof.
  intros Hn Hl Hd. destruct n as [|[|[|[|n]]]]; [done| | | |lia].
  - destruct data as [|a data]; cbn in *; [lia|]. rewrite take_0. cbn. lia.
  - destruct data as [|a [|b data]]; cbn in Hl; try lia. octets. cbn. rewrite take_0. cbn [le].
    rewrite Z.lor_comm, lor_disjoint by lia. lia.
  - destruct data as [|a [|b [|c data]]]; cbn in Hl; try lia. octets. cbn. rewrite take_0. cbn [le].
    rewrite <- Z.lor_assoc, Z.lor_comm, (Z.lor_comm _ a), !lor_disjoint; [lia|lia..|].
    rewrite lor_disjoint; lia.
Qed.

Lemma hash_tail_le hash data :
  (0 < length data < 4)%nat -> Forall octet data -> hash_tail hash data = u32 (Z.lxor hash (le data) * hash_m).
Proof.
  intros Hl Hd. destruct data as [|a [|b [|c [|? ?]]]]; cbn in Hl; try lia; octets; cbn [hash_tail le];
    do 2 f_equal; rewrite ?Z.lxor_assoc; f_equal; [lia| |].
  - rewrite lxor_disjoint by lia. lia.
  - rewrite (lxor_disjoint a b), lxor_disjoint by lia. lia.
Qed.

(** * The two ways to read *)

Lemma word_split align :
  (1 <= align <= 3)%nat ->
  256 ^ Z.of_nat align * 2 ^ (8 * (4 - Z.of_nat align)) = 4294967296
  ∧ 2 ^ (8 * (4 - Z.of_nat align)) = 256 ^ Z.of_nat (4 - align).
Proof. intros Ha. destruct align as [|[|[|[|align]]]]; try lia; done. Qed.

(** The first [align] octets of [q] moved to the end of the word; what is
    behind them is shifted out. *)
Lemma shift_in align q :
  (1 <= align <= 3)%nat -> Forall octet q ->
  u32 (Z.shiftl (le q) (8 * (4 - Z.of_nat align))) = Z.shiftl (le (take align q)) (8 * (4 - Z.of_nat align)).
Proof.
  intros Ha Oq. destruct (word_split align Ha) as [W _]. pose proof (le_bound _ (Forall_take _ align _ Oq)) as Bt.
  assert (Ht : 256 ^ Z.of_nat (length (take align q)) <= 256 ^ Z.of_nat align).
  { apply Z.pow_le_mono_r; [lia|]. rewrite length_take. lia. }
  rewrite !Z.shiftl_mul_pow2 by lia. unfold u32. set (s := 2 ^ _) in *.
  assert (0 < s) by (apply Z.pow_pos_nonneg; lia).
  assert (E : le q * s = le (take align q) * s + le (drop align q) * 4294967296).
  { rewrite <- W. rewrite <- (take_drop align q) at 1. rewrite le_app. destruct (Nat.le_gt_cases align (length q)).
    - rewrite length_take_le by done. ring.
    - rewrite drop_ge by lia. cbn. ring. }
  rewrite E, Z.mod_add, Z.mod_small; [done| |lia]. rewrite <- W. split; [lia|]. apply Z.mul_lt_mono_pos_r; lia.
Qed.

(** The end of one word and the start of the next: the octets [p], then the
    first [align] octets of [q]. *)
Lemma straddle align t p q :
  (1 <= align <= 3)%nat -> length p = (4 - align)%nat -> Forall octet p -> Forall octet q ->
  Z.shiftr t (8 * Z.of_nat align) = le p ->
  Z.lor (Z.shiftr t (8 * Z.of_nat align)) (u32 (Z.shiftl (le q) (8 * (4 - Z.of_nat align)))) = le (p ++ take align q).
Proof.
  intros Ha Hp Op Oq ->. pose proof (le_bound p Op) as Bp. rewrite Hp in Bp.
  destruct (word_split align Ha) as [_ W]. rewrite shift_in, lor_disjoint, le_app, Hp, W by (done || lia). lia.
Qed.

(** The rest of a word behind its first [align] octets. *)
Lemma rest_of_word align q :
  (1 <= align <= 3)%nat -> length q = 4%nat -> Forall octet q ->
  Z.shiftr (le q) (8 * Z.of_nat align) = le (drop align q).
Proof.
  intros Ha Hq Oq. rewrite <- (take_drop align q) at 1. rewrite le_app, length_take_le by lia.
  pose proof (le_bound (take align q) (Forall_take _ align _ Oq)) as Bt. rewrite length_take_le in Bt by lia.
  rewrite Z.shiftr_div_pow2 by lia. replace (2 ^ (8 * Z.of_nat align)) with (256 ^ Z.of_nat align).
  2: { rewrite Z.pow_mul_r by lia. done. }
  rewrite Z.mul_comm, Z.div_add by lia. rewrite Z.div_small; lia.
Qed.

Lemma hash_aligned_word hash p q :
  length p = 4%nat -> hash_aligned hash (p ++ q) = hash_aligned (HASH_MIX hash (le p)) q.
Proof. intros Hp. destruct p as [|a [|b [|c [|d [|? ?]]]]]; cbn in Hp; try lia. done. Qed.

Lemma hash_aligned_short hash q : (length q < 4)%nat -> hash_aligned hash q = hash_tail hash q.
Proof. intros Hq. destruct q as [|a [|b [|c [|d q]]]]; cbn in Hq; try lia; done. Qed.

(** Four octets at a time. *)
Lemma words_ind (P : list Z -> Prop) :
  (forall l, (length l < 4)%nat -> P l) -> (forall a b c d l, P l -> P (a :: b :: c :: d :: l)) -> forall l, P l.
Proof.
  intros Hs Hw l. remember (length l) as n eqn:Hn. revert l Hn.
  induction n as [n IH] using lt_wf_ind. intros l ->.
  destruct l as [|a [|b [|c [|d l]]]]; try (apply Hs; cbn; lia). apply Hw. eapply IH; [|done]. cbn. lia.
Qed.

Lemma hash_unaligned_short align hash t p data :
  (1 <= align <= 3)%nat -> (length data < 4)%nat -> length p = (4 - align)%nat -> Forall octet p -> Forall octet data ->
  Z.shiftr t (8 * Z.of_nat align) = le p ->
  hash_unaligned align hash t data = hash_aligned hash (p ++ data).
Proof.
  intros Ha Hl Hp Op Od Ht.
  transitivity (if (align <=? length data)%nat then
      hash_tail (HASH_MIX hash (Z.lor (Z.shiftr t (8 * Z.of_nat align))
        (u32 (Z.shiftl (preload align data) (8 * (4 - Z.of_nat align)))))) (drop align data)
    else u32 (Z.lxor hash (Z.lor (Z.shiftr t (8 * Z.of_nat align))
        (u32 (Z.shiftl (preload (length data) data) (8 * (4 - Z.of_nat align))))) * hash_m)).
  { destruct data as [|? [|? [|? [|? ?]]]]; cbn in Hl; try lia; done. }
  destruct (Nat.leb_spec align (length data)) as [Hle|Hlt].
  - rewrite preload_le by (done || lia).
    rewrite (straddle align t p (take align data)), take_take, Nat.min_id by (done || by apply Forall_take).
    rewrite <- (take_drop align data) at 3. rewrite app_assoc, hash_aligned_word.
    2: { rewrite length_app, length_take_le, Hp by done. lia. }
    rewrite hash_aligned_short; [done|]. rewrite length_drop. lia.
  - rewrite hash_aligned_short by (rewrite length_app; lia).
    rewrite hash_tail_le; [|rewrite length_app; lia|by apply Forall_app]. do 3 f_equal.
    rewrite preload_le, (take_ge data (length data)), (straddle align t p data), take_ge by (done || lia). done.
Qed.

Lemma hash_unaligned_spec align data :
  (1 <= align <= 3)%nat -> Forall octet data ->
  forall hash t p, length p = (4 - align)%nat -> Forall octet p -> Z.shiftr t (8 * Z.of_nat align) = le p ->
  hash_unaligned align hash t data = hash_aligned hash (p ++ data).
Proof.
  intros Ha. induction data as [data Hl|a b c d data IH] using words_ind; intros Od hash t p Hp Op Ht.
  { by apply hash_unaligned_short. }
  cbn [hash_unaligned]. assert (Forall octet [a; b; c; d] ∧ Forall octet data) as [Ow Od'] by (by apply Forall_app).
  rewrite (straddle align t p [a; b; c; d]) by done.
  rewrite (IH Od' _ _ (drop align [a; b; c; d])); [|rewrite length_drop; cbn; lia|by apply Forall_drop|by apply rest_of_word].
  change (a :: b :: c :: d :: data) with ([a; b; c; d] ++ data).
  rewrite <- (take_drop align [a; b; c; d]) at 3. rewrite <- !app_assoc, (app_assoc p).
  rewrite (hash_aligned_word hash (p ++ _)); [done|].
  rewrite length_app, length_take_le, Hp by (cbn; lia). lia.
Qed.

(** C33: the hash of an octet string does not depend on the address it is read
    from: the routine for unaligned octets, which mixes words made of the end
    of one read and the start of the next, computes MurmurHash2, as the one for
    aligned octets does. *)
Theorem hash_alignment (align : nat) (string : list Z) :
  (align < 4)%nat -> Forall octet string ->
  fd_os_hash align string = hash_final (hash_aligned (u32 (Z.of_nat (length string))) string).
Proof.
  intros Ha Os. unfold fd_os_hash. destruct (Nat.eqb_spec align 0); [done|].
  destruct (Nat.ltb_spec (length string) 4) as [|Hl]; [done|]. cbn [orb]. f_equal.
  rewrite <- (take_drop (4 - align) string) at 5. apply hash_unaligned_spec; [lia|by apply Forall_drop| |by apply Forall_take|].
  { rewrite length_take_le; lia. }
  rewrite preload_le by (done || lia). pose proof (le_bound _ (Forall_take _ (4 - align) _ Os)) as B.
  rewrite length_take_le in B by lia. unfold u32. rewrite Z.mod_small.
  - by rewrite Z.shiftr_shiftl_l, Z.sub_diag, Z.shiftl_0_r by lia.
  - rewrite Z.shiftl_mul_pow2 by lia. destruct align as [|[|[|[|align]]]]; try lia; cbn in B |- *; lia.
Qed.

Lemma hash_alignment_witness :
  fd_os_hash 3 [104; 111; 115; 116; 59; 49; 59; 50; 120]
  = hash_final (hash_aligned (u32 (Z.of_nat 9)) [104; 111; 115; 116; 59; 49; 59; 50; 120]).
Proof. apply (hash_alignment 3); [lia|]. repeat constructor; done. Defined.
