(* ===== verification/FdSessions.v ===== *)
(** The sessions of libfdproto (sessions.c): one object for each value of
    Session-Id, in a hash table whose lines are ordered by hash and identifier,
    and in a list ordered by the date at which a session expires; the states
    that extensions keep in a session, ordered by handler; the thread that
    expires sessions.

    Session objects and handlers live in a heap and are known by pointer; the
    links of a list are the pointers in it.  The definitions of this file are
    whole calls, run without another thread in between.  The sections that the
    locks make of the calls, and what threads do between them, are in
    FdSessConc, where each call is shown to be its sections one after the other.
    Pointers that [malloc] returns and the clock are arguments.  A pointer
    argument is [None] for NULL; [Undef] is an access to an object that was
    freed, [Assert] an assertion that fails. *)

From stdpp Require Import base list gmap sorting.
From Stdlib Require Import ZArith Lia.
From S2P Require Import Prelude GtpImsi FdDictionary FdFifo FdLoops FdRtData FdSentReq FdHash.
Open Scope Z_scope.

Definition SESS_HASH_SIZE : Z := 12.
Definition SESS_DEFAULT_LIFETIME : Z := 2678400.

Inductive code := SUCCESS | EINVAL | ENOMEM | EALREADY.

#[export] Instance code_eq_dec : EqDecision code.
Proof. solve_decision. Defined.

Inductive res (A : Type) := Ret (a : A) | Assert | Undef.
Arguments Ret {A} _.
Arguments Assert {A}.
Arguments Undef {A}.

Definition res_bind {A B} (r : res A) (f : A → res B) : res B :=
  match r with Ret a => f a | Assert => Assert | Undef => Undef end.

Declare Scope sess_scope.
Notation "'let!' x ':=' r 'in' k" := (res_bind r (λ x, k)) (at level 200, x pattern) : sess_scope.
Open Scope sess_scope.

(** * Data *)

(** [struct session_handler]; [h_cleanup] names the callback. *)
Record session_handler := Handler { h_id : Z; h_cleanup : Z; h_opaque : Z }.

(** [struct state]; a [struct sess_state *] is a number, 0 is NULL. *)
Record state := State { st_state : Z; st_hdl : positive }.

(** [struct session]; [sidlen] is the length of [sid]. *)
Record session := Session {
  sid : os0;
  hash : Z;
  timeout : timespec;
  states : list state;
  msg_cnt : Z;
  is_destroyed : bool
}.

(** The expiry thread: about to look at the list, asleep (until a date), or
    with the copy of the identifier of the session that it is going to destroy. *)
Inductive exp_thread := Awake | Sleeps (until : option timespec) | Expires (sid : os0).

(** A call of a cleanup callback. *)
Inductive call := Cleanup (f st : Z) (sid : os0) (opaque : Z).

Record sessions := Sessions {
  heap : gmap positive session;
  handlers : gmap positive session_handler;
  sess_hash : gmap Z (list positive);
  exp_list : list positive;
  sess_cnt : Z;
  sid_h : Z;
  sid_l : Z;
  hdl_id : Z;
  exp_thr : exp_thread;
  calls : list call
}.

(** What [malloc] returns for a string and for an object. *)
Record mem := Mem { m_str : bool; m_obj : option positive }.

Definition set_heap (f : gmap positive session → gmap positive session) (w : sessions) : sessions :=
  Sessions (f (heap w)) (handlers w) (sess_hash w) (exp_list w) (sess_cnt w) (sid_h w) (sid_l w) (hdl_id w) (exp_thr w) (calls w).

Definition set_handlers (hs : gmap positive session_handler) (n : Z) (w : sessions) : sessions :=
  Sessions (heap w) hs (sess_hash w) (exp_list w) (sess_cnt w) (sid_h w) (sid_l w) n (exp_thr w) (calls w).

Definition set_line (i : Z) (l : list positive) (w : sessions) : sessions :=
  Sessions (heap w) (handlers w) (<[i := l]> (sess_hash w)) (exp_list w) (sess_cnt w) (sid_h w) (sid_l w) (hdl_id w) (exp_thr w) (calls w).

Definition set_exp (l : list positive) (cnt : Z) (w : sessions) : sessions :=
  Sessions (heap w) (handlers w) (sess_hash w) l cnt (sid_h w) (sid_l w) (hdl_id w) (exp_thr w) (calls w).

Definition set_sid (h l : Z) (w : sessions) : sessions :=
  Sessions (heap w) (handlers w) (sess_hash w) (exp_list w) (sess_cnt w) h l (hdl_id w) (exp_thr w) (calls w).

Definition set_thr (t : exp_thread) (w : sessions) : sessions :=
  Sessions (heap w) (handlers w) (sess_hash w) (exp_list w) (sess_cnt w) (sid_h w) (sid_l w) (hdl_id w) t (calls w).

Definition add_calls (cs : list call) (w : sessions) : sessions :=
  Sessions (heap w) (handlers w) (sess_hash w) (exp_list w) (sess_cnt w) (sid_h w) (sid_l w) (hdl_id w) (exp_thr w) (calls w ++ cs).

Definition set_cnt (n : Z) (s : session) : session :=
  Session (sid s) (hash s) (timeout s) (states s) n (is_destroyed s).

Definition set_states (l : list state) (s : session) : session :=
  Session (sid s) (hash s) (timeout s) l (msg_cnt s) (is_destroyed s).

Definition set_timeout (t : timespec) (s : session) : session :=
  Session (sid s) (hash s) t (states s) (msg_cnt s) (is_destroyed s).

Definition set_destroyed (b : bool) (s : session) : session :=
  Session (sid s) (hash s) (timeout s) (states s) (msg_cnt s) b.

Definition H_MASK (h : Z) : Z := Z.land h (Z.shiftl 1 SESS_HASH_SIZE - 1).

Definition line (w : sessions) (i : Z) : list positive := default [] (sess_hash w !! i).

(** The strings the module hashes were allocated, so they are aligned. *)
Definition os_hash (s : os0) : Z := fd_os_hash 0 s.

Definition fd_sess_init (now : Z) : sessions := Sessions ∅ ∅ ∅ [] 0 (u32 now) 0 0 Awake [].

(** * The hash table *)

(** The session in the line does not make the loop [continue]. *)
Definition line_stop (H : gmap positive session) (h : Z) (id : os0) (p : positive) : bool :=
  match H !! p with
  | Some s => if hash s <? h then false else if h <? hash s then true else negb (fd_os_cmp (sid s) id <? 0)
  | None => false
  end.

Definition line_same (H : gmap positive session) (h : Z) (id : os0) (p : positive) : bool :=
  match H !! p with Some s => (hash s =? h) && (fd_os_cmp (sid s) id =? 0) | None => false end.

(** The loop of [fd_sess_new] and of [del_session_states]: the place in the
    line and the session with this identifier. *)
Definition find_line (H : gmap positive session) (h : Z) (id : os0) (l : list positive) :
  list positive * list positive * option positive :=
  let (l1, l2) := walk_next (line_stop H h id) l in
  (l1, l2, match l2 with p :: _ => if line_same H h id p then Some p else None | [] => None end).

(** * Handlers *)

Definition fd_sess_handler_create (m : mem) (cleanup opaque : Z) (w : sessions) : code * option positive * sessions :=
  match m_obj m with
  | None => (ENOMEM, None, w)
  | Some p => (SUCCESS, Some p, set_handlers (<[p := Handler (hdl_id w + 1) cleanup opaque]> (handlers w)) (hdl_id w + 1) w)
  end.

(** The [id] of the handler of a state. *)
Definition st_id (hs : gmap positive session_handler) (st : state) : Z :=
  match hs !! st_hdl st with Some h => h_id h | None => 0 end.

(** What is moved to [deleted_states], and what stays in the session. *)
Fixpoint take_state (hs : gmap positive session_handler) (id : Z) (l : list state) : option state * list state :=
  match l with
  | [] => (None, [])
  | st :: l =>
      if st_id hs st <? id then let (d, l) := take_state hs id l in (d, st :: l)
      else if st_id hs st =? id then (Some st, l)
      else (None, st :: l)
  end.

(** A state in [deleted_states], with the session whose [sid] it points to. *)
Record deleted := Deleted { d_st : state; d_sess : positive; d_sid : os0 }.

(** The loop over the sessions of all lines. *)
Fixpoint take_states (hs : gmap positive session_handler) (id : Z) (ps : list positive) (H : gmap positive session) :
  res (list deleted * gmap positive session) :=
  match ps with
  | [] => Ret ([], H)
  | p :: ps =>
      match H !! p with
      | None => Undef
      | Some s =>
          let (d, l) := take_state hs id (states s) in
          let! (ds, H') := take_states hs id ps (<[p := set_states l s]> H) in
          Ret (match d with Some st => Deleted st p (sid s) :: ds | None => ds end, H')
      end
  end.

Definition all_lines (w : sessions) : list positive := mjoin (line w <$> seqZ 0 (Z.shiftl 1 SESS_HASH_SIZE)).

(** The call of the cleanup function of [del] for one of them. *)
Definition deleted_call (h : session_handler) (d : deleted) : call :=
  Cleanup (h_cleanup h) (st_state (d_st d)) (d_sid d) (h_opaque h).

(** The second component is [*opaque]. *)
Definition fd_sess_handler_destroy (hp : option positive) (w : sessions) : res (code * Z * sessions) :=
  match hp with
  | None => Ret (EINVAL, 0, w)
  | Some hp =>
      match handlers w !! hp with
      | None => Undef
      | Some h =>
          let! (ds, H) := take_states (handlers w) (h_id h) (all_lines w) (heap w) in
          let cs := deleted_call h <$> ds in
          Ret (SUCCESS, h_opaque h,
               add_calls cs (set_handlers (delete hp (handlers w)) (hdl_id w) (set_heap (λ _, H) w)))
      end
  end.

(** * Session identifiers *)

(** The octets of a C string. *)
Fixpoint c_string (s : list Z) : os0 :=
  match s with [] => [] | c :: s => if c =? 0 then [] else c :: c_string s end.

(** A buffer and the size given for it; 0 asks for [strlen]. *)
Definition c_arg (a : list Z * nat) : os0 :=
  match a.2 with O => c_string a.1 | S _ => firstn a.2 a.1 end.

Definition fd_os_is_valid_os0 (s : os0) : bool := forallb (λ c, negb (c =? 0)) s.

(** [%u]. *)
Definition decimal (v : Z) : os0 := map (λ d, 48 + d) (digits v).

Definition semicolon : Z := 59.

(** [snprintf(sid, sidlen, "%.*s;%u;%u;%.*s", ...)]: the whole string. *)
Definition sid_string (diamid : os0) (h l : Z) (opt : option os0) : os0 :=
  diamid ++ semicolon :: decimal h ++ semicolon :: decimal l
    ++ match opt with Some o => semicolon :: o | None => [] end.

(** The size of its buffer. *)
Definition sid_size (diamid : os0) (opt : option os0) : nat :=
  length diamid + 22 + match opt with Some o => 1 + length o | None => 0 end + 1.

(** [if ( ++sid_l == 0 ) ++sid_h]. *)
Definition next_sid (w : sessions) : sessions :=
  let l := u32 (sid_l w + 1) in
  set_sid (if l =? 0 then u32 (sid_h w + 1) else sid_h w) l w.

(** The arguments of [fd_sess_new] that are not accepted. *)
Definition sid_args_valid (diamid opt : option (list Z * nat)) : bool :=
  match diamid, opt with
  | None, None => false
  | _, _ =>
      match diamid with Some d => fd_os_is_valid_DiameterIdentity (c_arg d) | None => true end
      && match opt with Some o => (o.2 =? 0)%nat || fd_os_is_valid_os0 (c_arg o) | None => true end
  end.

(** The identifier of the new session.  A string cut by [snprintf] would leave
    [sidlen] behind the end of the buffer. *)
Definition make_sid (diamid opt : option (list Z * nat)) (w : sessions) : res (os0 * sessions) :=
  match diamid with
  | None => Ret (match opt with Some o => c_arg o | None => [] end, w)
  | Some d =>
      let w' := next_sid w in
      let o := c_arg <$> opt in
      let str := sid_string (c_arg d) (sid_h w') (sid_l w') o in
      if (length str <? sid_size (c_arg d) o)%nat then Ret (str, w') else Undef
  end.

(** * Creation *)

Definition lifetime (now : timespec) : timespec := Timespec (tv_sec now + SESS_DEFAULT_LIFETIME) (tv_nsec now).

(** The session expires before the date. *)
Definition expires_before (H : gmap positive session) (t : timespec) (p : positive) : bool :=
  match H !! p with Some s => TS_IS_INFERIOR (timeout s) t | None => false end.

(** [pthread_cond_signal(&exp_cond)]. *)
Definition woken (t : exp_thread) : exp_thread := match t with Sleeps _ => Awake | t => t end.

Definition signal (w : sessions) : sessions := set_thr (woken (exp_thr w)) w.

(** The insertion in the list of expiring sessions, from its end. *)
Definition link_expire (p : positive) (t : timespec) (w : sessions) : res sessions :=
  if bool_decide (p ∈ exp_list w) then Assert
  else
    let (e1, e2) := walk_prev (expires_before (heap w) t) (exp_list w) in
    let w' := set_exp (e1 ++ p :: e2) (u32 (sess_cnt w + 1)) w in
    Ret (if bool_decide (e1 = []) then signal w' else w').

Definition link_session (now : timespec) (m : mem) (id : os0) (w : sessions) : res (code * option positive * sessions) :=
  let h := os_hash id in
  let '(l1, l2, found) := find_line (heap w) h id (line w (H_MASK h)) in
  match found with
  | None =>
      match m_obj m, id with
      | Some p, _ :: _ =>
          let s := Session id h (lifetime now) [] 1 false in
          let! w' := link_expire p (timeout s) (set_line (H_MASK h) (l1 ++ p :: l2) (set_heap (<[p := s]>) w)) in
          Ret (SUCCESS, Some p, w')
      | _, _ => Ret (ENOMEM, None, w)
      end
  | Some p =>
      match heap w !! p with
      | None => Undef
      | Some s =>
          let s := set_cnt (msg_cnt s + 1) s in
          if negb (is_destroyed s) then Ret (EALREADY, Some p, set_heap (<[p := s]>) w)
          else
            let s := set_timeout (lifetime now) (set_destroyed false s) in
            let! w' := link_expire p (timeout s) (set_heap (<[p := s]>) w) in
            Ret (SUCCESS, Some p, w')
      end
  end.

(** The second component is [*session]. *)
Definition fd_sess_new (now : timespec) (m : mem) (diamid opt : option (list Z * nat)) (w : sessions) :
  res (code * option positive * sessions) :=
  if negb (sid_args_valid diamid opt) then Ret (EINVAL, None, w)
  else if negb (m_str m) then Ret (ENOMEM, None, w)
  else let! (id, w') := make_sid diamid opt w in link_session now m id w'.

(** The last component is [*new]. *)
Definition fd_sess_fromsid_msg (now : timespec) (m : mem) (id : list Z) (len : nat) (w : sessions) :
  res (code * option positive * sessions * bool) :=
  let! (c, p, w') := fd_sess_new now m None (Some (id, len)) w in
  Ret match c with
      | SUCCESS => (SUCCESS, p, w', true)
      | EALREADY => (SUCCESS, p, w', false)
      | c => (c, p, w', false)
      end.

(** * Operations on a session *)

Definition with_session (sp : option positive) (w : sessions) (k : positive → session → res (code * sessions)) :
  res (code * sessions) :=
  match sp with
  | None => Ret (EINVAL, w)
  | Some p => match heap w !! p with Some s => k p s | None => Undef end
  end.

(** The reference of a message. *)
Definition fd_sess_ref_msg (sp : option positive) (w : sessions) : res (code * sessions) :=
  with_session sp w (λ p s, Ret (SUCCESS, set_heap (<[p := set_cnt (msg_cnt s + 1) s]>) w)).

(** The decrement of [fd_sess_fromsid] and [fd_sess_reclaim_msg]. *)
Definition unref (sp : option positive) (w : sessions) : res (code * sessions) :=
  with_session sp w (λ p s, Ret (SUCCESS, set_heap (<[p := set_cnt (msg_cnt s - 1) s]>) w)).

Definition fd_sess_fromsid (now : timespec) (m : mem) (id : list Z) (len : nat) (w : sessions) :
  res (code * option positive * sessions * bool) :=
  if (len =? 0)%nat then Ret (EINVAL, None, w, false)
  else
    let! (c, p, w', new) := fd_sess_fromsid_msg now m id len w in
    match c with
    | SUCCESS => let! (_, w'') := unref p w' in Ret (SUCCESS, p, w'', new)
    | _ => Ret (c, p, w', new)
    end.

Definition fd_sess_getsid (sp : option positive) (w : sessions) : res (code * os0) :=
  match sp with
  | None => Ret (EINVAL, [])
  | Some p => match heap w !! p with Some s => Ret (SUCCESS, sid s) | None => Undef end
  end.

Definition fd_sess_getcount (w : sessions) : Z := sess_cnt w.

Definition unlink (p : positive) (l : list positive) : list positive := filter (λ q, q ≠ p) l.

(** The search goes from the start of the list. *)
Definition fd_sess_settimeout (sp : option positive) (t : timespec) (w : sessions) : res (code * sessions) :=
  with_session sp w (λ p s,
    let H := <[p := set_timeout t s]> (heap w) in
    let (e1, e2) := walk_next (λ q, negb (expires_before H t q)) (unlink p (exp_list w)) in
    let w' := set_exp (e1 ++ p :: e2) (sess_cnt w) (set_heap (λ _, H) w) in
    Ret (SUCCESS, if bool_decide (e1 = []) then signal w' else w')).

(** The cleanup callbacks of the states of a session. *)
Definition cleanups (hs : gmap positive session_handler) (id : os0) (l : list state) : option (list call) :=
  mapM (λ st, (λ h, Cleanup (h_cleanup h) (st_state st) id (h_opaque h)) <$> hs !! st_hdl st) l.

(** The object goes, or is kept for the messages that refer to it. *)
Definition drop_session (p : positive) (s : session) (w : sessions) : sessions :=
  if msg_cnt s =? 0
  then set_line (H_MASK (hash s)) (unlink p (line w (H_MASK (hash s)))) (set_heap (delete p) w)
  else set_heap (<[p := set_destroyed true (set_states [] s)]>) w.

Definition destroy_states (id : os0) (p : positive) (s : session) (w : sessions) : res (code * sessions) :=
  let cnt := if bool_decide (p ∈ exp_list w) then u32 (sess_cnt w - 1) else sess_cnt w in
  let w' := drop_session p s (set_exp (unlink p (exp_list w)) cnt w) in
  match cleanups (handlers w) id (states s) with
  | Some cs => Ret (SUCCESS, add_calls cs w')
  | None => Undef
  end.

(** By pointer, or by identifier if that is NULL. *)
Definition del_session_states (sp : option positive) (id : os0) (w : sessions) : res (code * sessions) :=
  match sp with
  | Some p => match heap w !! p with Some s => destroy_states id p s w | None => Undef end
  | None =>
      let h := os_hash id in
      let '(_, _, found) := find_line (heap w) h id (line w (H_MASK h)) in
      match found with
      | Some p => match heap w !! p with Some s => destroy_states id p s w | None => Undef end
      | None => Ret (EALREADY, w)
      end
  end.

Definition fd_sess_destroy (sp : option positive) (w : sessions) : res (code * sessions) :=
  with_session sp w (λ p s, del_session_states sp (sid s) w).

(** The counter of the sessions in the list is left as it is. *)
Definition fd_sess_reclaim (sp : option positive) (w : sessions) : res (code * sessions) :=
  with_session sp w (λ p s,
    match states s with
    | [] => Ret (SUCCESS, drop_session p s (set_exp (unlink p (exp_list w)) (sess_cnt w) w))
    | _ :: _ => Ret (SUCCESS, w)
    end).

Definition fd_sess_reclaim_msg (sp : option positive) (w : sessions) : res (code * sessions) :=
  with_session sp w (λ p s,
    let! (c, w') := unref sp w in
    if msg_cnt s =? 1 then fd_sess_reclaim sp w' else Ret (c, w')).

(** * States *)

(** Handlers and sessions are both live. *)
Definition with_handler (hp : option positive) (w : sessions) (k : positive → session_handler → res (code * Z * sessions)) :
  res (code * Z * sessions) :=
  match hp with
  | None => Ret (EINVAL, 0, w)
  | Some p => match handlers w !! p with Some h => k p h | None => Undef end
  end.

(** The second component is what is left in [*state]. *)
Definition fd_sess_state_store (mem_ok : bool) (hp sp : option positive) (st : Z) (w : sessions) : res (code * Z * sessions) :=
  with_handler hp w (λ hp h,
    match sp with
    | None => Ret (EINVAL, st, w)
    | Some p =>
        match heap w !! p with
        | None => Undef
        | Some s =>
            if is_destroyed s then Ret (EINVAL, st, w)
            else if negb mem_ok then Ret (ENOMEM, st, w)
            else
              let (l1, l2) := walk_next (λ x, negb (st_id (handlers w) x <? h_id h)) (states s) in
              let already := match l2 with x :: _ => st_id (handlers w) x =? h_id h | [] => false end in
              if already then Ret (EALREADY, st, w)
              else Ret (SUCCESS, 0, set_heap (<[p := set_states (l1 ++ State st hp :: l2) s]>) w)
        end
    end).

(** The loop of [fd_sess_state_retrieve]: the state it ends with, and those
    before and after it. *)
Fixpoint retrieve_loop (hs : gmap positive session_handler) (id : Z) (l : list state) : option (list state * state * list state) :=
  match l with
  | [] => None
  | x :: l =>
      if id <? st_id hs x then Some ([], x, l)
      else match retrieve_loop hs id l with Some (l1, st, l2) => Some (x :: l1, st, l2) | None => Some ([], x, []) end
  end.

(** The second component is [*state]. *)
Definition fd_sess_state_retrieve (hp sp : option positive) (w : sessions) : res (code * Z * sessions) :=
  with_handler hp w (λ hp h,
    match sp with
    | None => Ret (EINVAL, 0, w)
    | Some p =>
        match heap w !! p with
        | None => Undef
        | Some s =>
            match retrieve_loop (handlers w) (h_id h) (states s) with
            | Some (l1, st, l2) =>
                if bool_decide (st_hdl st = hp) then Ret (SUCCESS, st_state st, set_heap (<[p := set_states (l1 ++ l2) s]>) w)
                else Ret (SUCCESS, 0, w)
            | None => Ret (SUCCESS, 0, w)
            end
        end
    end).

(** * The expiry thread *)

(** With the lock: from [again] to the wait, or to the copy of the identifier
    of a session that expired. *)
Definition exp_round (now : timespec) (mem_ok : bool) (w : sessions) : res sessions :=
  match exp_thr w with
  | Awake =>
      match exp_list w with
      | [] => Ret (set_thr (Sleeps None) w)
      | first :: _ =>
          match heap w !! first with
          | None => Undef
          | Some s =>
              if TS_IS_INFERIOR now (timeout s) then Ret (set_thr (Sleeps (Some (timeout s))) w)
              else if mem_ok then Ret (set_thr (Expires (sid s)) w)
              else Assert
          end
      end
  | _ => Ret w
  end.

(** After the lock was given back: any error of [del_session_states] ends the
    loop, and behind it is ASSERT(0). *)
Definition exp_destroy (w : sessions) : res sessions :=
  match exp_thr w with
  | Expires id =>
      let! (c, w') := del_session_states None id w in
      match c with SUCCESS => Ret (set_thr Awake w') | _ => Assert end
  | _ => Ret w
  end.

(** The wait ends by itself, at its date or before. *)
Definition exp_wake (w : sessions) : sessions := signal w.
