(* ===== verification/FdSessInv.v ===== *)
(** The invariant of the sessions (FdSessions), for every sequence of whole
    calls, and the map from identifiers to sessions that they implement; FdSessConc
    has the calls that overlap.

    The table and the list of expiring sessions depend on the keys and the dates
    of the sessions only; [table_ok] and [exp_ok] say what they are, and have a
    lemma for an object that comes, goes or changes. *)

From stdpp Require Import base list gmap sorting sets.
From Stdlib Require Import ZArith Lia.
From S2P Require Import Prelude GtpImsi FdDictionary FdDictInv FdFifo FdLoops FdRtData FdSentReq FdHash FdSessions.
Open Scope Z_scope.
Open Scope sess_scope.

Create HintDb sess.

(** * Steps *)

Inductive op :=
| New (now : timespec) (m : mem) (diamid opt : option (list Z * nat))
| Ref (sp : option positive)
| Unref (sp : option positive)
| SetTimeout (sp : option positive) (t : timespec)
| Destroy (sp : option positive)
| Reclaim (sp : option positive)
| Store (mem_ok : bool) (hp sp : option positive) (st : Z)
| Retrieve (hp sp : option positive)
| CreateHandler (m : mem) (cleanup opaque : Z)
| DestroyHandler (hp : option positive)
| ExpRound (now : timespec) (mem_ok : bool)
| ExpDestroy
| ExpWake.

Definition sess_step (o : op) (w : sessions) : res (code * sessions) :=
  match o with
  | New now m diamid opt => let! (c, _, w') := fd_sess_new now m diamid opt w in Ret (c, w')
  | Ref sp => fd_sess_ref_msg sp w
  | Unref sp => unref sp w
  | SetTimeout sp t => fd_sess_settimeout sp t w
  | Destroy sp => fd_sess_destroy sp w
  | Reclaim sp => fd_sess_reclaim sp w
  | Store mem_ok hp sp st => let! (c, _, w') := fd_sess_state_store mem_ok hp sp st w in Ret (c, w')
  | Retrieve hp sp => let! (c, _, w') := fd_sess_state_retrieve hp sp w in Ret (c, w')
  | CreateHandler m cleanup opaque => let '(c, _, w') := fd_sess_handler_create m cleanup opaque w in Ret (c, w')
  | DestroyHandler hp => let! (c, _, w') := fd_sess_handler_destroy hp w in Ret (c, w')
  | ExpRound now mem_ok => let! w' := exp_round now mem_ok w in Ret (SUCCESS, w')
  | ExpDestroy => let! w' := exp_destroy w in Ret (SUCCESS, w')
  | ExpWake => Ret (SUCCESS, exp_wake w)
  end.

(** [malloc] returns no object that is in use. *)
Definition fresh (o : op) (w : sessions) : Prop :=
  match o with
  | New _ m _ _ => ∀ p, m_obj m = Some p → heap w !! p = None
  | CreateHandler m _ _ => ∀ p, m_obj m = Some p → handlers w !! p = None
  | _ => True
  end.

Inductive reachable : sessions → Prop :=
| reach_init now : reachable (fd_sess_init now)
| reach_step o w c w' : reachable w → fresh o w → sess_step o w = Ret (c, w') → reachable w'.

(** * The table *)

Abbreviation skey := (Z * os0)%type.
Definition key (s : session) : skey := (hash s, sid s).
Definition lexkey (k : skey) : list Z := k.1 :: os_key k.2.

Definition before (K : gmap positive skey) (p q : positive) : Prop :=
  ∃ k1 k2, K !! p = Some k1 ∧ K !! q = Some k2 ∧ lex (lexkey k1) (lexkey k2) < 0.

Record table_ok (K : gmap positive skey) (L : Z → list positive) : Prop := {
  tb_sorted : ∀ i, StronglySorted (before K) (L i);
  tb_linked : ∀ p i, p ∈ L i ↔ ∃ k, K !! p = Some k ∧ H_MASK k.1 = i;
  tb_hash : ∀ p k, K !! p = Some k → k.1 = os_hash k.2 ∧ k.2 ≠ []
}.

#[export] Instance before_trans K : Transitive (before K).
Proof.
  intros p q r (k1 & k2 & H1 & H2 & Hl) (k2' & k3 & H2' & H3 & Hl'). rewrite H2 in H2'. injection H2' as <-.
  exists k1, k3. split_and!; [done..|]. by eapply lex_trans.
Qed.

Lemma before_irrefl K p : ¬ before K p p.
Proof. intros (k1 & k2 & H1 & H2 & Hl). rewrite H1 in H2. injection H2 as <-. rewrite lex_refl in Hl. lia. Qed.

Lemma line_nodup K l : StronglySorted (before K) l → NoDup l.
Proof.
  induction 1 as [|p l Hs IH Hp]; constructor; [|done]. intros Hin. rewrite Forall_forall in Hp.
  by apply (before_irrefl K p), Hp.
Qed.

(** Objects that are not in a list do not matter for its order. *)
Lemma sorted_restrict {A} (R R' : relation A) l :
  (∀ p q, p ∈ l → q ∈ l → R p q → R' p q) → StronglySorted R l → StronglySorted R' l.
Proof.
  intros HR. induction 1 as [|p l Hs IH Hp]; constructor; [apply IH; set_solver|].
  rewrite Forall_forall in *. intros q Hq. apply HR; [set_solver..|]. by apply Hp.
Qed.

(** One identifier, one object. *)
Lemma sid_key_unique K L p q k k' :
  table_ok K L → K !! p = Some k → K !! q = Some k' → k.2 = k'.2 → p = q.
Proof.
  intros [Hs Hl Hh] Hp Hq Hk. destruct (Hh p k Hp) as [Hk1 _], (Hh q k' Hq) as [Hk2 _].
  assert (k = k') as <- by (destruct k, k'; cbn in *; congruence).
  assert (Pp : p ∈ L (H_MASK k.1)) by (apply Hl; eauto). assert (Pq : q ∈ L (H_MASK k.1)) by (apply Hl; eauto).
  specialize (Hs (H_MASK k.1)). clear -Hs Pp Pq Hp Hq.
  assert (Hn : ∀ a b, before K a b → K !! a = Some k → K !! b = Some k → False).
  { intros a b (k1 & k2 & H1 & H2 & Hlt) Ha Hb. rewrite Ha in H1. rewrite Hb in H2. simplify_eq. rewrite lex_refl in Hlt. lia. }
  induction Hs as [|x l Hs IH Hx]; [set_solver|]. rewrite Forall_forall in Hx.
  apply elem_of_cons in Pp as [->|Pp], Pq as [->|Pq]; [done| | |by apply IH].
  - destruct (Hn x q); auto.
  - destruct (Hn x p); auto.
Qed.

Definition on_line (L : Z → list positive) (i : Z) (l : list positive) : Z → list positive :=
  λ j, if decide (j = i) then l else L j.

Lemma table_ext K L L' : (∀ i, L i = L' i) → table_ok K L → table_ok K L'.
Proof.
  intros E [Hs Hl Hh]. split; [intros i; by rewrite <- E|intros p i; by rewrite <- E|done].
Qed.

Lemma table_insert K L p h id l1 l2 :
  table_ok K L → K !! p = None → h = os_hash id → id ≠ [] → L (H_MASK h) = l1 ++ l2 →
  Forall (λ q, ∃ k, K !! q = Some k ∧ lex (lexkey k) (lexkey (h, id)) < 0) l1 →
  Forall (λ q, ∃ k, K !! q = Some k ∧ lex (lexkey (h, id)) (lexkey k) < 0) l2 →
  table_ok (<[p := (h, id)]> K) (on_line L (H_MASK h) (l1 ++ p :: l2)).
Proof.
  intros [Hs Hl Hh] Hp -> Hid E H1 H2.
  assert (Hnp : ∀ i, p ∉ L i) by (intros i (k & Hk & _)%Hl; congruence).
  assert (Hm : ∀ i, StronglySorted (before (<[p := (os_hash id, id)]> K)) (L i)).
  { intros i. eapply sorted_restrict; [|apply Hs]. intros a b Ha Hb (k1 & k2 & Ka & Kb & Hlt).
    exists k1, k2. rewrite !lookup_insert_ne by (intros <-; by eapply Hnp). done. }
  split.
  - intros i. unfold on_line. case_decide as Hi; [|done]. subst i. specialize (Hm (H_MASK (os_hash id))). rewrite E in Hm.
    assert (Hne : ∀ q, q ∈ l1 ++ l2 → p ≠ q) by (intros q Hq <-; apply (Hnp (H_MASK (os_hash id))); by rewrite E).
    apply sorted_insert; [done| |]; rewrite Forall_forall in *; intros q Hq.
    + destruct (H1 q Hq) as (k & Hk & Hlt). exists k, (os_hash id, id). rewrite lookup_insert_eq.
      rewrite lookup_insert_ne by (apply Hne; set_solver). done.
    + destruct (H2 q Hq) as (k & Hk & Hlt). exists (os_hash id, id), k. rewrite lookup_insert_eq.
      rewrite lookup_insert_ne by (apply Hne; set_solver). done.
  - intros q i. unfold on_line. destruct (decide (q = p)) as [->|Hq].
    + rewrite lookup_insert_eq. case_decide as Hi; [subst; split; [intros _; eauto|set_solver]|].
      split; [intros Hin; by destruct (Hnp i)|]. intros (k & [= <-] & Hk). by destruct Hi.
    + rewrite lookup_insert_ne by done. rewrite <- Hl. case_decide as Hi; [|done]. subst i. rewrite E. set_solver.
  - intros q k. destruct (decide (q = p)) as [->|Hq].
    + rewrite lookup_insert_eq. by intros [= <-].
    + rewrite lookup_insert_ne by done. apply Hh.
Qed.

Lemma table_delete K L p k :
  table_ok K L → K !! p = Some k → table_ok (delete p K) (on_line L (H_MASK k.1) (unlink p (L (H_MASK k.1)))).
Proof.
  intros [Hs Hl Hh] Hp. split.
  - intros i. unfold on_line. case_decide as Hi.
    + subst i. eapply sorted_restrict; [|eapply sorted_sublist; [apply sublist_filter|apply Hs]].
      intros a b [Ha _]%list_elem_of_filter [Hb _]%list_elem_of_filter (k1 & k2 & Ka & Kb & Hlt).
      exists k1, k2. by rewrite !lookup_delete_ne.
    + eapply sorted_restrict; [|apply Hs]. intros a b Ha Hb (k1 & k2 & Ka & Kb & Hlt).
      assert (Hn : ∀ q, q ∈ L i → p ≠ q) by (intros q (k' & Hk' & <-)%Hl <-; congruence).
      exists k1, k2. rewrite !lookup_delete_ne by (by apply Hn). done.
  - intros q i. unfold on_line. destruct (decide (q = p)) as [->|Hq].
    + rewrite lookup_delete_eq. split; [|intros (? & ? & _); done]. case_decide as Hi.
      * intros [? _]%list_elem_of_filter. done.
      * intros (k' & Hk' & <-)%Hl. congruence.
    + rewrite lookup_delete_ne by done. rewrite <- Hl. case_decide as Hi; [|done]. subst i.
      unfold unlink. rewrite list_elem_of_filter. tauto.
  - intros q k' [_ Hk]%lookup_delete_Some. eapply Hh; eauto.
Qed.

(** * The search in a line *)

Lemma cmp_lex s h id :
  lex (lexkey (key s)) (lexkey (h, id)) = if hash s <? h then -1 else if h <? hash s then 1 else fd_os_cmp (sid s) id.
Proof. rewrite fd_os_cmp_lex. done. Qed.

Lemma line_stop_lex H h id p s :
  H !! p = Some s → line_stop H h id p = negb (lex (lexkey (key s)) (lexkey (h, id)) <? 0).
Proof. intros Hp. unfold line_stop. rewrite Hp, cmp_lex. destruct (hash s <? h), (h <? hash s); done. Qed.

Lemma line_same_lex H h id p s :
  H !! p = Some s → line_same H h id p = (lex (lexkey (key s)) (lexkey (h, id)) =? 0).
Proof.
  intros Hp. unfold line_same. rewrite Hp, cmp_lex.
  destruct (Z.eqb_spec (hash s) h), (Z.ltb_spec (hash s) h), (Z.ltb_spec h (hash s)); try lia; try done.
Qed.

Lemma lexkey_eq k h id : lex (lexkey k) (lexkey (h, id)) = 0 → k = (h, id).
Proof. intros E%(proj1 (lex_eq _ _)). destruct k as [a b]. unfold lexkey, os_key in E. cbn in E. by simplify_eq. Qed.

Lemma lookup_key (H : gmap positive session) p k : (key <$> H) !! p = Some k ↔ ∃ s, H !! p = Some s ∧ key s = k.
Proof. rewrite lookup_fmap, fmap_Some. naive_solver. Qed.

(** The search stopped before a session with another key, or at the end. *)
Definition not_same (H : gmap positive session) (h : Z) (id : os0) (l : list positive) : Prop :=
  match l with p :: _ => line_same H h id p = false | [] => True end.

Section Search.
Context (H : gmap positive session) (L : Z → list positive) (id : os0) (l1 l2 : list positive).
Context (Hok : table_ok (key <$> H) L).
Context (Hl : L (H_MASK (os_hash id)) = l1 ++ l2).

Lemma line_live q : q ∈ l1 ++ l2 → ∃ s, H !! q = Some s ∧ (key <$> H) !! q = Some (key s).
Proof using Hok Hl.
  rewrite <- Hl. intros (k & (s & ? & <-)%lookup_key & _)%(tb_linked _ _ Hok). exists s. rewrite lookup_key. eauto.
Qed.

Lemma line_smaller :
  Forall (λ q, line_stop H (os_hash id) id q = false) l1 →
  Forall (λ q, ∃ k, (key <$> H) !! q = Some k ∧ lex (lexkey k) (lexkey (os_hash id, id)) < 0) l1.
Proof using Hok Hl.
  rewrite !Forall_forall. intros H1 q Hq. destruct (line_live q ltac:(set_solver)) as (s & Hs & Hk).
  specialize (H1 q Hq). rewrite (line_stop_lex _ _ _ _ _ Hs) in H1. apply negb_false_iff, Z.ltb_lt in H1. eauto.
Qed.

Lemma line_greater :
  (∀ q, head l2 = Some q → line_stop H (os_hash id) id q = true) → not_same H (os_hash id) id l2 →
  Forall (λ q, ∃ k, (key <$> H) !! q = Some k ∧ lex (lexkey (os_hash id, id)) (lexkey k) < 0) l2.
Proof using Hok Hl.
  intros H2 Hf. unfold not_same in Hf. pose proof line_live as Hlive. pose proof (tb_sorted _ _ Hok (H_MASK (os_hash id))) as Hs.
  rewrite Hl in Hs. apply sorted_app_inv in Hs as [_ Hs]. destruct l2 as [|p m]; [constructor|].
  destruct (Hlive p ltac:(set_solver)) as (s & Hp & Hk). specialize (H2 p eq_refl).
  rewrite (line_stop_lex _ _ _ _ _ Hp) in H2. apply negb_true_iff, Z.ltb_ge in H2.
  rewrite (line_same_lex _ _ _ _ _ Hp) in Hf. apply Z.eqb_neq in Hf.
  assert (Hlt : lex (lexkey (os_hash id, id)) (lexkey (key s)) < 0) by (apply lex_flip; lia).
  apply StronglySorted_inv in Hs as [_ Hs]. constructor; [eauto|]. rewrite Forall_forall in *. intros q Hq.
  destruct (Hs q Hq) as (k1 & k2 & Hk1 & Hk2 & Hlt2). rewrite Hk in Hk1. injection Hk1 as <-.
  exists k2. split; [done|]. by eapply lex_trans.
Qed.

Lemma line_absent :
  Forall (λ q, ∃ k, (key <$> H) !! q = Some k ∧ lex (lexkey k) (lexkey (os_hash id, id)) < 0) l1 →
  Forall (λ q, ∃ k, (key <$> H) !! q = Some k ∧ lex (lexkey (os_hash id, id)) (lexkey k) < 0) l2 →
  ∀ p s, H !! p = Some s → sid s ≠ id.
Proof using Hok Hl.
  rewrite !Forall_forall. intros A1 A2 p s Hp Hid. assert (Hk : (key <$> H) !! p = Some (key s)) by (apply lookup_key; eauto).
  destruct (tb_hash _ _ Hok _ _ Hk) as [Hh _]. cbn in Hh. rewrite Hid in Hh.
  assert (Ek : key s = (os_hash id, id)) by (unfold key; congruence). rewrite Ek in Hk.
  assert (Hin : p ∈ l1 ++ l2) by (rewrite <- Hl; apply (tb_linked _ _ Hok); eauto).
  apply elem_of_app in Hin as [Hin|Hin]; [destruct (A1 p Hin) as (k & Hk' & Hlt)|destruct (A2 p Hin) as (k & Hk' & Hlt)];
    rewrite Hk in Hk'; simplify_eq; rewrite lex_refl in Hlt; lia.
Qed.

End Search.

(** The session with this identifier, or the place where it belongs. *)
Lemma find_line_spec H L id l1 l2 found :
  table_ok (key <$> H) L → find_line H (os_hash id) id (L (H_MASK (os_hash id))) = (l1, l2, found) →
  match found with
  | Some p => ∃ s, H !! p = Some s ∧ sid s = id
  | None =>
      (∀ p s, H !! p = Some s → sid s ≠ id) ∧ L (H_MASK (os_hash id)) = l1 ++ l2
      ∧ Forall (λ q, ∃ k, (key <$> H) !! q = Some k ∧ lex (lexkey k) (lexkey (os_hash id, id)) < 0) l1
      ∧ Forall (λ q, ∃ k, (key <$> H) !! q = Some k ∧ lex (lexkey (os_hash id, id)) (lexkey k) < 0) l2
  end.
Proof.
  intros Hok. unfold find_line. destruct (walk_next _ _) as [m1 m2] eqn:E. intros [= <- <- <-].
  apply walk_next_spec in E as (E & H1 & H2). pose proof (line_smaller _ _ _ _ _ Hok E H1) as A1.
  assert (Hno : not_same H (os_hash id) id m2 →
    (∀ p s, H !! p = Some s → sid s ≠ id) ∧ L (H_MASK (os_hash id)) = m1 ++ m2
    ∧ Forall (λ q, ∃ k, (key <$> H) !! q = Some k ∧ lex (lexkey k) (lexkey (os_hash id, id)) < 0) m1
    ∧ Forall (λ q, ∃ k, (key <$> H) !! q = Some k ∧ lex (lexkey (os_hash id, id)) (lexkey k) < 0) m2).
  { intros Hf. pose proof (line_greater _ _ _ _ _ Hok E H2 Hf) as A2. pose proof (line_absent _ _ _ _ _ Hok E A1 A2). eauto. }
  unfold not_same in Hno. destruct m2 as [|p m2]; [by apply Hno|].
  destruct (line_same H (os_hash id) id p) eqn:Es; [|by apply Hno].
  destruct (line_live _ _ _ _ _ Hok E p ltac:(set_solver)) as (s & Hp & _). exists s. split; [done|].
  rewrite (line_same_lex _ _ _ _ _ Hp) in Es. apply Z.eqb_eq, lexkey_eq in Es. by injection Es.
Qed.

(** * The list of expiring sessions *)

Definition exp_before (T : gmap positive timespec) (p q : positive) : Prop :=
  ∃ t u, T !! p = Some t ∧ T !! q = Some u ∧ ts_le t u.

Record exp_ok (T : gmap positive timespec) (e : list positive) : Prop := {
  ex_nodup : NoDup e;
  ex_live : ∀ p, p ∈ e → is_Some (T !! p);
  ex_sorted : StronglySorted (exp_before T) e
}.

#[export] Instance ts_le_trans : Transitive ts_le.
Proof. intros a b c. rewrite !ts_le_alt. lia. Qed.

#[export] Instance exp_before_trans T : Transitive (exp_before T).
Proof.
  intros p q r (t & u & Hp & Hq & H1) (u' & v & Hq' & Hr & H2). rewrite Hq in Hq'. injection Hq' as <-.
  exists t, v. split_and!; [done..|]. by etrans.
Qed.

Lemma exp_unlink T e p : exp_ok T e → exp_ok T (unlink p e).
Proof.
  intros [Hn Hl Hs]. split.
  - by apply NoDup_filter.
  - intros q [_ Hq]%list_elem_of_filter. by apply Hl.
  - eapply sorted_sublist; [apply sublist_filter|done].
Qed.

Lemma exp_mono T T' e : (∀ p, p ∈ e → T' !! p = T !! p) → exp_ok T e → exp_ok T' e.
Proof.
  intros HT [Hn Hl Hs]. split; [done|intros p Hp; rewrite HT by done; by apply Hl|].
  eapply sorted_restrict; [|exact Hs]. intros p q Hp Hq (t & u & H1 & H2 & Hle). exists t, u. by rewrite !HT.
Qed.

Lemma exp_insert T e1 e2 p t :
  exp_ok T (e1 ++ e2) → p ∉ e1 ++ e2 → T !! p = Some t →
  (∀ q u, last e1 = Some q → T !! q = Some u → ts_le u t) →
  (∀ q u, head e2 = Some q → T !! q = Some u → ts_le t u) → exp_ok T (e1 ++ p :: e2).
Proof.
  intros [Hn Hl Hs] Hp Ht H1 H2. pose proof Hs as [Hs1 Hs2]%sorted_app_inv. split.
  - rewrite NoDup_app in *. destruct Hn as (Hn1 & Hd & Hn2). split_and!; [done|set_solver|]. constructor; [set_solver|done].
  - intros q [Hq|[->|Hq]%elem_of_cons]%elem_of_app; [apply Hl; set_solver|eauto|apply Hl; set_solver].
  - apply sorted_insert; [done| |].
    + apply sorted_before; [apply _|done|]. intros q Hq. destruct (Hl q) as [u Hu].
      { apply elem_of_app. left. by apply last_Some_elem_of. }
      exists u, t. eauto.
    + apply sorted_after; [apply _|done|]. intros q Hq. destruct (Hl q) as [u Hu].
      { apply elem_of_app. right. destruct e2; [done|]. injection Hq as ->. by left. }
      exists t, u. eauto.
Qed.

(** * The invariant *)

Definition st_lt (hs : gmap positive session_handler) (a b : state) : Prop := st_id hs a < st_id hs b.

(** A session: its states are those of live handlers, one each and in their
    order; an active session is going to expire, a destroyed one has no states. *)
Record sess_ok (hs : gmap positive session_handler) (e : list positive) (p : positive) (s : session) : Prop := {
  so_states : StronglySorted (st_lt hs) (states s);
  so_handlers : ∀ st, st ∈ states s → is_Some (hs !! st_hdl st);
  so_active : is_destroyed s = false → p ∈ e;
  so_destroyed : is_destroyed s = true → states s = []
}.

(** Handlers have different numbers, those given so far. *)
Record handlers_ok (hs : gmap positive session_handler) (n : Z) : Prop := {
  ho_bound : ∀ p h, hs !! p = Some h → h_id h ≤ n;
  ho_unique : ∀ p q h k, hs !! p = Some h → hs !! q = Some k → h_id h = h_id k → p = q
}.

(** The expiry thread does not sleep beyond the date of a session. *)
Definition thread_ok (T : gmap positive timespec) (e : list positive) (thr : exp_thread) : Prop :=
  match thr with
  | Sleeps None => e = []
  | Sleeps (Some t) => ∀ p u, p ∈ e → T !! p = Some u → ts_le t u
  | _ => True
  end.

Record inv_of (H : gmap positive session) (hs : gmap positive session_handler) (L : Z → list positive)
    (e : list positive) (n : Z) (thr : exp_thread) : Prop := {
  iv_table : table_ok (key <$> H) L;
  iv_exp : exp_ok (timeout <$> H) e;
  iv_sess : ∀ p s, H !! p = Some s → sess_ok hs e p s;
  iv_handlers : handlers_ok hs n;
  iv_thread : thread_ok (timeout <$> H) e thr
}.

Definition inv (w : sessions) : Prop :=
  inv_of (heap w) (handlers w) (line w) (exp_list w) (hdl_id w) (exp_thr w).

Lemma inv_line_ext H hs L L' e n thr : (∀ i, L i = L' i) → inv_of H hs L e n thr → inv_of H hs L' e n thr.
Proof. intros E [H1 H2 H3 H4 H5]. split; try done. by eapply table_ext. Qed.

Lemma line_set_line w i l j : line (set_line i l w) j = on_line (line w) i l j.
Proof.
  unfold line, on_line, set_line. cbn. destruct (decide (j = i)) as [->|]; [by rewrite lookup_insert_eq|].
  by rewrite lookup_insert_ne.
Qed.

Lemma sess_ok_mono hs e e' p s : (p ∈ e → p ∈ e') → sess_ok hs e p s → sess_ok hs e' p s.
Proof. intros He [H1 H2 H3 H4]. split; auto. Qed.

Lemma thread_woken T e thr : thread_ok T e (woken thr).
Proof. by destruct thr. Qed.

Lemma thread_mono T T' e e' thr :
  (∀ p, p ∈ e' → p ∈ e ∧ T' !! p = T !! p) → thread_ok T e thr → thread_ok T' e' thr.
Proof.
  intros He. destruct thr as [|[t|]|id]; cbn; [done| | |done].
  - intros Ht p u Hp. destruct (He p Hp) as [Hp' ->]. by apply Ht.
  - intros ->. destruct e' as [|p e']; [done|]. destruct (He p) as [Hp _]; [by left|set_solver].
Qed.

(** A session changes, but not its key or its date. *)
Lemma fmap_insert_same {A} (f : session → A) H p s s' :
  H !! p = Some s → f s' = f s → f <$> <[p := s']> H = f <$> (H : gmap positive session).
Proof. intros Hp Hf. rewrite fmap_insert, Hf. apply insert_id. by rewrite lookup_fmap, Hp. Qed.

Lemma inv_update H hs L e n thr p s s' :
  inv_of H hs L e n thr → H !! p = Some s → key s' = key s → timeout s' = timeout s → sess_ok hs e p s' →
  inv_of (<[p := s']> H) hs L e n thr.
Proof.
  intros [H1 H2 H3 H4 H5] Hp Hk Ht Hok. split; rewrite ?(fmap_insert_same _ H p s s') by done; try done.
  intros q x. destruct (decide (q = p)) as [->|Hq].
  - rewrite lookup_insert_eq. by intros [= <-].
  - rewrite lookup_insert_ne by done. apply H3.
Qed.

(** What a session that leaves the list of expiring sessions must have become. *)
Lemma inv_unlink H hs L e n thr p :
  inv_of H hs L e n thr → (∀ s, H !! p = Some s → is_destroyed s = true) → inv_of H hs L (unlink p e) n thr.
Proof.
  intros [H1 H2 H3 H4 H5] Hp. split; try done.
  - by apply exp_unlink.
  - intros q s Hq. specialize (H3 q s Hq). destruct H3 as [A1 A2 A3 A4]. split; try done. intros Hd.
    apply list_elem_of_filter. split; [|by apply A3]. intros ->. rewrite (Hp s Hq) in Hd. done.
  - eapply thread_mono; [|exact H5]. intros q [_ Hq]%list_elem_of_filter. done.
Qed.

Lemma unlink_other hs e p q s :
  q ≠ p → sess_ok hs e q s → sess_ok hs (unlink p e) q s.
Proof. intros Hq. apply sess_ok_mono. intros He. apply list_elem_of_filter. done. Qed.

(** The object is freed. *)
Lemma inv_delete H hs L e n thr p s :
  inv_of H hs L e n thr → H !! p = Some s →
  inv_of (delete p H) hs (on_line L (H_MASK (hash s)) (unlink p (L (H_MASK (hash s))))) (unlink p e) n thr.
Proof.
  intros [H1 H2 H3 H4 H5] Hp. split; rewrite ?fmap_delete; try done.
  - change (hash s) with (key s).1. apply table_delete; [done|]. by rewrite lookup_fmap, Hp.
  - eapply exp_mono; [|by apply exp_unlink]. intros q [Hq _]%list_elem_of_filter. by rewrite lookup_delete_ne.
  - intros q x [Hq Hx]%lookup_delete_Some. apply unlink_other; [done|by apply H3].
  - eapply thread_mono; [|exact H5]. intros q [Hq He]%list_elem_of_filter. by rewrite lookup_delete_ne.
Qed.

Lemma drop_inv w p s cnt :
  inv w → heap w !! p = Some s → inv (drop_session p s (set_exp (unlink p (exp_list w)) cnt w)).
Proof.
  intros Hw Hp. unfold drop_session. destruct (msg_cnt s =? 0).
  - eapply inv_line_ext; [|exact (inv_delete _ _ _ _ _ _ p s Hw Hp)]. intros i. by rewrite line_set_line.
  - apply (inv_unlink (<[p := set_destroyed true (set_states [] s)]> (heap w))).
    + apply (inv_update _ _ _ _ _ _ p s); [done..|]. split; [constructor|set_solver|done|done].
    + intros x. rewrite lookup_insert_eq. by intros [= <-].
Qed.

Lemma cleanups_some hs id l :
  (∀ st, st ∈ l → is_Some (hs !! st_hdl st)) → is_Some (cleanups hs id l).
Proof.
  intros Hl. apply mapM_is_Some_2, Forall_forall. intros st Hst. apply fmap_is_Some, Hl, Hst.
Qed.

(** The session is destroyed, with a call for each state. *)
Lemma destroy_states_ret w p s id :
  inv w → heap w !! p = Some s →
  ∃ cs cnt, cleanups (handlers w) id (states s) = Some cs
    ∧ destroy_states id p s w = Ret (SUCCESS, add_calls cs (drop_session p s (set_exp (unlink p (exp_list w)) cnt w))).
Proof.
  intros Hw Hp. destruct (cleanups_some (handlers w) id (states s)) as [cs Hcs].
  { apply (so_handlers _ _ _ _ (iv_sess _ _ _ _ _ _ Hw p s Hp)). }
  eexists cs, _. split; [done|]. unfold destroy_states. by rewrite Hcs.
Qed.

(** ** Insertion in the list of expiring sessions *)

Lemma expires_before_alt H t p :
  expires_before H t p = match (timeout <$> H) !! p with Some u => TS_IS_INFERIOR u t | None => false end.
Proof. unfold expires_before. rewrite lookup_fmap. by destruct (H !! p). Qed.

(** A place in order, not first, is behind a date the thread knows. *)
Lemma thread_insert T e1 e2 p thr :
  exp_ok T (e1 ++ p :: e2) → e1 ≠ [] → thread_ok T (e1 ++ e2) thr → thread_ok T (e1 ++ p :: e2) thr.
Proof.
  intros [Hn Hl Hs] Hne. destruct thr as [|[t|]|id]; cbn; [done| | |done].
  - intros Ht q u Hq Hu. destruct (decide (q = p)) as [->|]; [|apply (Ht q u); set_solver].
    destruct e1 as [|x e1]; [done|]. apply StronglySorted_inv in Hs as [_ Hx]. rewrite Forall_forall in Hx.
    destruct (Hx p ltac:(set_solver)) as (a & b & Ha & Hb & Hab). rewrite Hu in Hb. injection Hb as <-.
    etrans; [|exact Hab]. apply (Ht x); [set_solver|done].
  - destruct e1; [done|]. intros. done.
Qed.

Lemma inv_insert H hs L e1 e2 n thr p t :
  table_ok (key <$> H) L → exp_ok (timeout <$> H) (e1 ++ e2) → (∀ q s, H !! q = Some s → sess_ok hs (p :: e1 ++ e2) q s) →
  handlers_ok hs n → thread_ok (timeout <$> H) (e1 ++ e2) thr → p ∉ e1 ++ e2 → (timeout <$> H) !! p = Some t →
  (∀ q, last e1 = Some q → expires_before H t q = true) → (∀ q, head e2 = Some q → expires_before H t q = false) →
  inv_of H hs L (e1 ++ p :: e2) n (if bool_decide (e1 = []) then woken thr else thr).
Proof.
  intros H1 H2 H3 H4 H5 Hp Ht Hb1 Hb2.
  assert (Hok : exp_ok (timeout <$> H) (e1 ++ p :: e2)).
  { apply (exp_insert _ _ _ _ t); [done..| |].
    - intros q u Hq Hu. specialize (Hb1 q Hq). rewrite expires_before_alt, Hu in Hb1. by apply inferior_le.
    - intros q u Hq Hu. specialize (Hb2 q Hq). rewrite expires_before_alt, Hu in Hb2. done. }
  split; [done|done| |done|].
  - intros q s Hq. eapply sess_ok_mono; [|by apply H3]. set_solver.
  - case_bool_decide as He; [apply thread_woken|]. by apply thread_insert.
Qed.

Lemma last_not_stop {A} (f : A → bool) l x : Forall (λ x, f x = false) l → head l = Some x → f x = false.
Proof. destruct l; [done|]. intros [? _]%Forall_cons [= <-]. done. Qed.

(** The invariant, with a session that is not linked yet. *)
Definition inv_but (p : positive) (w : sessions) : Prop :=
  table_ok (key <$> heap w) (line w) ∧ exp_ok (timeout <$> heap w) (exp_list w)
  ∧ (∀ q s, heap w !! q = Some s → sess_ok (handlers w) (p :: exp_list w) q s)
  ∧ handlers_ok (handlers w) (hdl_id w) ∧ thread_ok (timeout <$> heap w) (exp_list w) (exp_thr w).

Lemma link_expire_inv w p t :
  inv_but p w → p ∉ exp_list w → (timeout <$> heap w) !! p = Some t →
  ∃ w', link_expire p t w = Ret w' ∧ inv w' ∧ heap w' = heap w ∧ handlers w' = handlers w ∧ calls w' = calls w
    ∧ exp_list w' ≡ₚ p :: exp_list w.
Proof.
  intros (H1 & H2 & H3 & H4 & H5) Hp Ht. unfold link_expire. rewrite bool_decide_false by done.
  destruct (walk_prev _ _) as [e1 e2] eqn:E. apply walk_prev_spec in E as (E & Hb2 & Hb1). rewrite E in *.
  eexists. split; [done|].
  assert (Hi : inv_of (heap w) (handlers w) (line w) (e1 ++ p :: e2) (hdl_id w)
    (if bool_decide (e1 = []) then woken (exp_thr w) else exp_thr w)).
  { apply (inv_insert _ _ _ _ _ _ _ _ t); try done. intros q Hq. by eapply last_not_stop. }
  case_bool_decide as He.
  - split_and!; [done..|]. cbn. by rewrite Permutation_middle.
  - split_and!; [done..|]. cbn. by rewrite Permutation_middle.
Qed.

Lemma not_in_exp H hs L e n thr p : inv_of H hs L e n thr → H !! p = None → p ∉ e.
Proof. intros Hw Hp Hin. destruct (ex_live _ _ (iv_exp _ _ _ _ _ _ Hw) p Hin) as [t Ht]. by rewrite lookup_fmap, Hp in Ht. Qed.

(** A new session, linked in its line. *)
Lemma new_session_but w p id now l1 l2 :
  inv w → heap w !! p = None → id ≠ [] →
  find_line (heap w) (os_hash id) id (line w (H_MASK (os_hash id))) = (l1, l2, None) →
  inv_but p (set_line (H_MASK (os_hash id)) (l1 ++ p :: l2)
               (set_heap (<[p := Session id (os_hash id) (lifetime now) [] 1 false]>) w)).
Proof.
  intros Hw Hp Hid E. pose proof (not_in_exp _ _ _ _ _ _ p Hw Hp) as Hpe. destruct Hw as [H1 H2 H3 H4 H5].
  apply (find_line_spec _ (line w)) in E as (_ & E & A1 & A2); [|done].
  assert (HT : ∀ q, q ∈ exp_list w → (timeout <$> <[p := Session id (os_hash id) (lifetime now) [] 1 false]> (heap w)) !! q = (timeout <$> heap w) !! q).
  { intros q Hq. rewrite !lookup_fmap, lookup_insert_ne; [done|]. by intros <-. }
  unfold inv_but. split_and!; cbn [heap handlers exp_list hdl_id exp_thr set_line set_heap].
  - rewrite fmap_insert. eapply table_ext; [|apply table_insert; try done; by rewrite lookup_fmap, Hp].
    intros i. by rewrite line_set_line.
  - eapply exp_mono; [|exact H2]. done.
  - intros q s. destruct (decide (q = p)) as [->|Hq].
    + rewrite lookup_insert_eq. intros [= <-]. split; cbn; [constructor|set_solver|by left|done].
    + rewrite lookup_insert_ne by done. intros Hs. eapply sess_ok_mono; [|by apply H3]. by right.
  - done.
  - eapply thread_mono; [|exact H5]. auto.
Qed.

(** A destroyed session becomes active again. *)
Lemma reactivate_but w p s now :
  inv w → heap w !! p = Some s → is_destroyed s = true → p ∉ exp_list w →
  inv_but p (set_heap (<[p := set_timeout (lifetime now) (set_destroyed false (set_cnt (msg_cnt s + 1) s))]>) w).
Proof.
  intros [H1 H2 H3 H4 H5] Hp Hd Hpe. set (s' := set_timeout _ _).
  assert (HT : ∀ q, q ∈ exp_list w → (timeout <$> <[p := s']> (heap w)) !! q = (timeout <$> heap w) !! q).
  { intros q Hq. rewrite !lookup_fmap, lookup_insert_ne; [done|]. by intros <-. }
  unfold inv_but. split_and!; cbn [heap handlers exp_list hdl_id exp_thr set_heap].
  - rewrite (fmap_insert_same _ _ _ s) by done. done.
  - eapply exp_mono; [|exact H2]. done.
  - intros q x. destruct (decide (q = p)) as [->|Hq].
    + rewrite lookup_insert_eq. intros [= <-]. specialize (H3 p s Hp). destruct H3 as [A1 A2 A3 A4].
      split; cbn; [done..|by left|done].
    + rewrite lookup_insert_ne by done. intros Hs. eapply sess_ok_mono; [|by apply H3]. by right.
  - done.
  - eapply thread_mono; [|exact H5]. auto.
Qed.

(** ** States of a handler *)

Definition others (hs : gmap positive session_handler) (id : Z) (s : session) : session :=
  set_states (filter (λ st, st_id hs st ≠ id) (states s)) s.

Lemma filter_none {A} (P : A → Prop) `{!∀ x, Decision (P x)} l : Forall P l → filter P l = l.
Proof. rewrite Forall_forall. apply filter_all. Qed.

(** The loop, which stops early, takes exactly the state of the handler. *)
Lemma take_state_spec hs id l :
  StronglySorted (st_lt hs) l →
  ∃ d, take_state hs id l = (d, filter (λ st, st_id hs st ≠ id) l) ∧ ∀ st, d = Some st ↔ st ∈ l ∧ st_id hs st = id.
Proof.
  induction 1 as [|x l Hs (d & IH & Hd) Hx]; [exists None; split; [done|set_solver]|]. cbn [take_state].
  rewrite Forall_forall in Hx. unfold st_lt in Hx.
  destruct (Z.ltb_spec (st_id hs x) id) as [Hlt|Hge]; [|destruct (Z.eqb_spec (st_id hs x) id) as [He|Hne]].
  - exists d. rewrite IH, filter_cons_True by lia. split; [done|]. intros st. rewrite Hd, elem_of_cons.
    split; [naive_solver|]. intros [[->|?] ?]; [lia|done].
  - exists (Some x). rewrite filter_cons_False by lia. split.
    + f_equal. symmetry. apply filter_none, Forall_forall. intros y Hy. specialize (Hx y Hy). lia.
    + intros st. rewrite elem_of_cons. split; [intros [= <-]; auto|]. intros [[->|Hin] Hst]; [done|].
      specialize (Hx st Hin). lia.
  - exists None. split.
    + f_equal. symmetry. apply filter_none. constructor; [lia|]. apply Forall_forall. intros y Hy. specialize (Hx y Hy). lia.
    + intros st. rewrite elem_of_cons. split; [done|]. intros [[->|Hin] Hst]; [lia|]. specialize (Hx st Hin). lia.
Qed.

Lemma others_sorted hs id s : StronglySorted (st_lt hs) (states s) → StronglySorted (st_lt hs) (states (others hs id s)).
Proof. apply sorted_sublist, sublist_filter. Qed.

Lemma others_twice hs id s : others hs id (others hs id s) = others hs id s.
Proof.
  unfold others, set_states. cbn. f_equal. rewrite list_filter_filter. apply list_filter_iff. naive_solver.
Qed.

(** Of all sessions visited. *)
Lemma take_states_spec hs id ps : ∀ H,
  (∀ p, p ∈ ps → is_Some (H !! p)) → (∀ p s, H !! p = Some s → StronglySorted (st_lt hs) (states s)) →
  ∃ ds H', take_states hs id ps H = Ret (ds, H')
    ∧ ∀ p, H' !! p = (if decide (p ∈ ps) then others hs id else λ s, s) <$> H !! p.
Proof.
  induction ps as [|p ps IH]; intros H Hl Hs.
  { exists [], H. split; [done|]. intros p. cbn. by destruct (H !! p). }
  destruct (Hl p ltac:(set_solver)) as [s Hp]. destruct (take_state_spec hs id (states s) (Hs p s Hp)) as (d & Hd & _).
  destruct (IH (<[p := others hs id s]> H)) as (ds & H' & E & HH).
  - intros q Hq. destruct (decide (q = p)) as [->|]; [rewrite lookup_insert_eq; eauto|].
    rewrite lookup_insert_ne by done. apply Hl. set_solver.
  - intros q x. destruct (decide (q = p)) as [->|]; [|rewrite lookup_insert_ne by done; apply Hs].
    rewrite lookup_insert_eq. intros [= <-]. apply others_sorted. by eapply Hs.
  - eexists _, H'. split; [cbn [take_states]; rewrite Hp, Hd; cbn [res_bind]; unfold others in E; rewrite E; done|].
    intros q. rewrite HH. destruct (decide (q = p)) as [->|Hq].
    + rewrite lookup_insert_eq, Hp, (decide_True (P := p ∈ p :: ps)) by set_solver. cbn. f_equal.
      case_decide; [apply others_twice|done].
    + rewrite lookup_insert_ne by done. destruct (decide (q ∈ ps)), (decide (q ∈ p :: ps)); set_solver.
Qed.

(** What is taken: the states of the handler, with the sessions they are from. *)
Lemma taken_spec hs id ps : ∀ H ds H',
  NoDup ps → (∀ p s, H !! p = Some s → StronglySorted (st_lt hs) (states s)) → take_states hs id ps H = Ret (ds, H') →
  NoDup (d_sess <$> ds)
  ∧ ∀ st p i, Deleted st p i ∈ ds ↔ p ∈ ps ∧ ∃ s, H !! p = Some s ∧ i = sid s ∧ st ∈ states s ∧ st_id hs st = id.
Proof.
  induction ps as [|p ps IH]; intros H ds H' Hn Hs; cbn [take_states].
  { intros [= <- <-]. split; [constructor|]. intros st q i. split; [set_solver|]. intros [Hq _]. set_solver. }
  destruct (H !! p) as [s|] eqn:Hp; [|done]. apply NoDup_cons in Hn as [Hpn Hn].
  destruct (take_state_spec hs id (states s) (Hs p s Hp)) as (d & -> & Hd).
  destruct (take_states _ _ _ _) as [[ds' H1]| |] eqn:E; [|done..]. cbn [res_bind]. intros [= <- <-].
  apply IH in E as [Hnd Hin]; [|done|].
  2: { intros q x. destruct (decide (q = p)) as [->|]; [|rewrite lookup_insert_ne by done; apply Hs].
       rewrite lookup_insert_eq. intros [= <-]. apply others_sorted. by eapply Hs. }
  assert (Hin' : ∀ st q i, Deleted st q i ∈ ds' ↔ q ∈ ps ∧ ∃ s, H !! q = Some s ∧ i = sid s ∧ st ∈ states s ∧ st_id hs st = id).
  { intros st q i. rewrite Hin. split; intros [Hq Hx]; (split; [done|]);
      (rewrite lookup_insert_ne in * by (by intros <-)); exact Hx. }
  split.
  - destruct d as [st|]; [|done]. cbn. constructor; [|done]. intros ([st' q i] & -> & Hx)%list_elem_of_fmap.
    apply Hin' in Hx as [Hx _]. done.
  - intros st q i. rewrite (elem_of_cons ps). assert (Hst : ∀ x, d = Some x ↔ x ∈ states s ∧ st_id hs x = id) by exact Hd.
    clear Hd Hin. destruct d as [x|].
    + rewrite elem_of_cons, Hin'. split.
      * intros [[= -> -> ->]|[Hq Hx]]; [|tauto]. split; [tauto|]. exists s. split_and!; [done..| |]; by apply Hst.
      * intros [[->|Hq] (s' & Hs' & -> & Hx)]; [|right; eauto]. left. rewrite Hp in Hs'. injection Hs' as <-.
        apply Hst in Hx. by injection Hx as ->.
    + rewrite Hin'. split; [tauto|]. intros [[->|Hq] (s' & Hs' & -> & Hx)]; [|eauto]. rewrite Hp in Hs'. injection Hs' as <-.
      by apply Hst in Hx.
Qed.

Lemma H_MASK_range h : 0 ≤ H_MASK h < Z.shiftl 1 SESS_HASH_SIZE.
Proof.
  unfold H_MASK. change (Z.shiftl 1 SESS_HASH_SIZE - 1) with (Z.ones 12). rewrite Z.land_ones by done.
  change (Z.shiftl 1 SESS_HASH_SIZE) with (2 ^ 12). apply Z.mod_pos_bound. lia.
Qed.

Lemma all_lines_elem w p : inv w → p ∈ all_lines w ↔ is_Some (heap w !! p).
Proof.
  intros Hw. pose proof (iv_table _ _ _ _ _ _ Hw) as Ht. unfold all_lines. rewrite list_elem_of_join. split.
  - intros (l & Hin & (i & -> & _)%list_elem_of_fmap). apply (tb_linked _ _ Ht) in Hin as (k & (s & Hs & _)%lookup_key & _).
    eauto.
  - intros [s Hs]. exists (line w (H_MASK (hash s))). split.
    + apply (tb_linked _ _ Ht). exists (key s). split; [|done]. apply lookup_key. eauto.
    + apply list_elem_of_fmap. eexists. split; [done|]. apply elem_of_seqZ. pose proof (H_MASK_range (hash s)). lia.
Qed.

Lemma all_lines_nodup w : inv w → NoDup (all_lines w).
Proof.
  intros Hw. pose proof (iv_table _ _ _ _ _ _ Hw) as Ht. unfold all_lines.
  assert (E : ∀ l : list Z, mjoin (line w <$> l) = l ≫= line w) by (induction l as [|x l IH]; [done|cbn; f_equal; exact IH]).
  rewrite E. apply NoDup_bind; [| |apply NoDup_seqZ].
  - intros i j p _ _ (k & Hk & <-)%(tb_linked _ _ Ht) (k' & Hk' & <-)%(tb_linked _ _ Ht). congruence.
  - intros i _. eapply line_nodup, (tb_sorted _ _ Ht).
Qed.

(** The handler goes, and its states with it. *)
Lemma inv_drop_handler w hp h H' :
  inv w → handlers w !! hp = Some h → (∀ p, H' !! p = others (handlers w) (h_id h) <$> heap w !! p) →
  inv (set_handlers (delete hp (handlers w)) (hdl_id w) (set_heap (λ _, H') w)).
Proof.
  intros [H1 H2 H3 [H4 H4'] H5] Hh HH.
  assert (Ef : ∀ {A} (f : session → A), (∀ s, f (others (handlers w) (h_id h) s) = f s) → f <$> H' = f <$> heap w).
  { intros A f Hf. apply map_eq. intros p. rewrite !lookup_fmap, HH. destruct (heap w !! p); cbn; [by rewrite Hf|done]. }
  split; cbn [heap handlers exp_list hdl_id exp_thr set_handlers set_heap]; rewrite ?(Ef _ key), ?(Ef _ timeout) by done; try done.
  - intros p s. rewrite HH. intros (x & Hx & Ex)%fmap_Some. subst s. specialize (H3 p x Hx). destruct H3 as [A1 A2 A3 A4].
    assert (Hne : ∀ st, st ∈ states (others (handlers w) (h_id h) x) →
      st ∈ states x ∧ st_hdl st ≠ hp ∧ st_id (delete hp (handlers w)) st = st_id (handlers w) st).
    { intros st [Hid Hin]%list_elem_of_filter. assert (st_hdl st ≠ hp).
      { intros E. apply Hid. unfold st_id. by rewrite E, Hh. }
      split_and!; [done..|]. unfold st_id. by rewrite lookup_delete_ne. }
    split; [| |exact A3|].
    + eapply (sorted_restrict (st_lt (handlers w))); [|by apply others_sorted].
      intros a b Ha Hb. unfold st_lt. destruct (Hne a Ha) as (_ & _ & ->), (Hne b Hb) as (_ & _ & ->). done.
    + intros st Hst. destruct (Hne st Hst) as (Hin & Hn & _). rewrite lookup_delete_ne by done. by apply A2.
    + intros Hd. cbn. by rewrite (A4 Hd).
  - split.
    + intros p k [_ Hk]%lookup_delete_Some. by eapply H4.
    + intros p q k k' [_ Hk]%lookup_delete_Some [_ Hk']%lookup_delete_Some. by eapply H4'.
Qed.

Lemma retrieve_split hs id l l1 st l2 : retrieve_loop hs id l = Some (l1, st, l2) → l = l1 ++ st :: l2.
Proof.
  revert l1 st l2. induction l as [|x l IH]; cbn [retrieve_loop]; intros l1 st l2; [done|].
  destruct (id <? st_id hs x); [by intros [= <- <- <-]|].
  destruct (retrieve_loop hs id l) as [[[m1 y] m2]|] eqn:E.
  - intros [= <- <- <-]. by rewrite (IH _ _ _ eq_refl).
  - intros [= <- <- <-]. destruct l as [|z l]; [done|]. cbn in E. destruct (id <? st_id hs z); [done|].
    by destruct (retrieve_loop hs id l) as [[[? ?] ?]|].
Qed.

(** The place of a state, by the number of its handler. *)
Lemma store_place hs hp h l l1 l2 :
  hs !! hp = Some h → StronglySorted (st_lt hs) l →
  walk_next (λ x, negb (st_id hs x <? h_id h)) l = (l1, l2) →
  l = l1 ++ l2 ∧
  (match l2 with x :: _ => st_id hs x =? h_id h | [] => false end = false →
   ∀ st, StronglySorted (st_lt hs) (l1 ++ State st hp :: l2) ∧ ∀ x, x ∈ l → st_id hs x ≠ h_id h).
Proof.
  intros Hh Hs E. apply walk_next_spec in E as (-> & H1 & H2). split; [done|]. intros Ha st.
  assert (Hid : st_id hs (State st hp) = h_id h) by (unfold st_id; cbn; by rewrite Hh).
  assert (A1 : Forall (λ x, st_id hs x < h_id h) l1).
  { eapply Forall_impl; [exact H1|]. intros x Hx. apply negb_false_iff in Hx. lia. }
  assert (A2 : Forall (λ x, h_id h < st_id hs x) l2).
  { apply sorted_app_inv in Hs as [_ Hs]. destruct l2 as [|x l2]; [constructor|]. apply Z.eqb_neq in Ha.
    specialize (H2 x eq_refl). apply negb_true_iff, Z.ltb_ge in H2. apply StronglySorted_inv in Hs as [_ Hx].
    constructor; [lia|]. eapply Forall_impl; [exact Hx|]. unfold st_lt. intros y Hy. lia. }
  split.
  - apply sorted_insert; [done| |]; unfold st_lt; by rewrite Hid.
  - rewrite Forall_forall in A1, A2. intros x [Hx|Hx]%elem_of_app; [specialize (A1 x Hx)|specialize (A2 x Hx)]; lia.
Qed.

Lemma inv_new_handler w m f o :
  inv w → fresh (CreateHandler m f o) w → inv (fd_sess_handler_create m f o w).2.
Proof.
  intros [H1 H2 H3 [H4 H4'] H5] Hf. unfold fd_sess_handler_create. cbn in Hf. destruct (m_obj m) as [p|]; [|by split].
  specialize (Hf p eq_refl). set (h := Handler _ _ _).
  assert (Hst : ∀ st, is_Some (handlers w !! st_hdl st) →
    is_Some (<[p := h]> (handlers w) !! st_hdl st) ∧ st_id (<[p := h]> (handlers w)) st = st_id (handlers w) st).
  { intros st [k Hk]. assert (p ≠ st_hdl st) by congruence. unfold st_id. rewrite lookup_insert_ne by done. eauto. }
  split; cbn [heap handlers exp_list hdl_id exp_thr set_handlers snd]; try done.
  - intros q s Hq. specialize (H3 q s Hq). destruct H3 as [A1 A2 A3 A4]. split; [| |done..].
    + eapply sorted_restrict; [|exact A1]. intros a b Ha Hb. unfold st_lt.
      by rewrite (proj2 (Hst a (A2 a Ha))), (proj2 (Hst b (A2 b Hb))).
    + intros st Hin. by apply Hst, A2.
  - split.
    + intros q k. destruct (decide (q = p)) as [->|]; [rewrite lookup_insert_eq; intros [= <-]; cbn; lia|].
      rewrite lookup_insert_ne by done. intros Hk. specialize (H4 q k Hk). lia.
    + intros q r k k'. destruct (decide (q = p)) as [->|], (decide (r = p)) as [->|];
        rewrite ?lookup_insert_eq, ?lookup_insert_ne by done; [done| | |apply H4'].
      * intros [= <-] Hk He. specialize (H4 r k' Hk). cbn in He. lia.
      * intros Hk [= <-] He. specialize (H4 q k Hk). cbn in He. lia.
Qed.

Lemma sid_counters_inv w : inv w → inv (next_sid w).
Proof. done. Qed.

(** * Every step keeps the invariant *)

Definition keeps (r : res (code * sessions)) : Prop := ∀ c w', r = Ret (c, w') → inv w'.

Lemma with_session_keeps sp w k :
  inv w → (∀ p s, sp = Some p → heap w !! p = Some s → keeps (k p s)) → keeps (with_session sp w k).
Proof.
  intros Hw Hk c w'. unfold with_session. destruct sp as [p|]; [|by intros [= <- <-]].
  destruct (heap w !! p) as [s|] eqn:Hp; [|done]. by apply Hk.
Qed.

Lemma cnt_keeps w p s n : inv w → heap w !! p = Some s → inv (set_heap (<[p := set_cnt n s]>) w).
Proof.
  intros Hw Hp. apply (inv_update _ _ _ _ _ _ p s); [done..|].
  pose proof (iv_sess _ _ _ _ _ _ Hw p s Hp) as [A1 A2 A3 A4]. by split.
Qed.

Lemma settimeout_keeps w sp t : inv w → keeps (fd_sess_settimeout sp t w).
Proof.
  intros Hw. apply with_session_keeps; [done|]. intros p s _ Hp c w'. cbv beta zeta. pose proof Hw as [H1 H2 H3 H4 H5].
  set (s' := set_timeout t s). destruct (walk_next _ _) as [e1 e2] eqn:E. apply walk_next_spec in E as (E & Hb1 & Hb2).
  assert (Hpn : p ∉ e1 ++ e2) by (rewrite <- E; intros [? _]%list_elem_of_filter; done).
  assert (HT : ∀ q, q ∈ e1 ++ e2 → q ∈ exp_list w ∧ (timeout <$> <[p := s']> (heap w)) !! q = (timeout <$> heap w) !! q).
  { intros q Hq. rewrite <- E in Hq. apply list_elem_of_filter in Hq as [Hq Hin].
    by rewrite !lookup_fmap, lookup_insert_ne by done. }
  intros [= <- <-].
  assert (Hi : inv_of (<[p := s']> (heap w)) (handlers w) (line w) (e1 ++ p :: e2) (hdl_id w)
    (if bool_decide (e1 = []) then woken (exp_thr w) else exp_thr w)).
  { apply (inv_insert _ _ _ _ _ _ _ _ t); [| | |done| |done| | |].
    - by rewrite (fmap_insert_same _ _ _ s) by done.
    - eapply exp_mono; [intros q Hq; by apply HT|]. rewrite <- E. by apply exp_unlink.
    - intros q x. destruct (decide (q = p)) as [->|Hq].
      + rewrite lookup_insert_eq. intros [= <-]. specialize (H3 p s Hp). destruct H3 as [A1 A2 A3 A4]. split; [done..|by left|done].
      + rewrite lookup_insert_ne by done. intros Hx. eapply sess_ok_mono; [|by apply H3].
        intros Hin. right. rewrite <- E. by apply list_elem_of_filter.
    - eapply thread_mono; [|exact H5]. done.
    - by rewrite lookup_fmap, lookup_insert_eq.
    - intros q Hq. rewrite Forall_forall in Hb1. by apply negb_false_iff, Hb1, last_Some_elem_of.
    - intros q Hq. by apply negb_true_iff, Hb2. }
  by case_bool_decide.
Qed.

(** What [fd_sess_new] does for an identifier: a new session, another reference
    to the one there is, or a destroyed one active again. *)
Lemma link_session_spec now m id w :
  inv w → (∀ p, m_obj m = Some p → heap w !! p = None) →
  (∀ p s, heap w !! p = Some s → sid s ≠ id)
    ∧ (m_obj m = None ∨ id = []) ∧ link_session now m id w = Ret (ENOMEM, None, w)
  ∨ (∀ p s, heap w !! p = Some s → sid s ≠ id)
    ∧ (∃ p w', m_obj m = Some p ∧ id ≠ [] ∧ link_session now m id w = Ret (SUCCESS, Some p, w') ∧ inv w'
        ∧ heap w' = <[p := Session id (os_hash id) (lifetime now) [] 1 false]> (heap w)
        ∧ handlers w' = handlers w ∧ calls w' = calls w)
  ∨ (∃ p s, heap w !! p = Some s ∧ sid s = id ∧ is_destroyed s = false
        ∧ link_session now m id w = Ret (EALREADY, Some p, set_heap (<[p := set_cnt (msg_cnt s + 1) s]>) w))
  ∨ (∃ p s, heap w !! p = Some s ∧ sid s = id ∧ is_destroyed s = true
        ∧ (p ∈ exp_list w ∧ link_session now m id w = Assert
           ∨ p ∉ exp_list w ∧ ∃ w', link_session now m id w = Ret (SUCCESS, Some p, w') ∧ inv w'
               ∧ heap w' = <[p := set_timeout (lifetime now) (set_destroyed false (set_cnt (msg_cnt s + 1) s))]> (heap w)
               ∧ handlers w' = handlers w ∧ calls w' = calls w)).
Proof.
  intros Hw Hm. unfold link_session.
  destruct (find_line _ _ _ _) as [[l1 l2] found] eqn:E.
  pose proof (find_line_spec _ (line w) _ _ _ _ (iv_table _ _ _ _ _ _ Hw) E) as Hf. destruct found as [p|].
  - do 2 right. destruct Hf as (s & Hp & Hid). rewrite Hp. cbn [is_destroyed set_cnt].
    destruct (is_destroyed s) eqn:Hd; cbn [negb]; [right|left; exists p, s; done].
    exists p, s. split_and!; [done..|]. destruct (decide (p ∈ exp_list w)) as [Hin|Hin].
    + left. split; [done|]. unfold link_expire. cbn [exp_list set_heap]. by rewrite bool_decide_true.
    + right. split; [done|]. edestruct (link_expire_inv _ p (lifetime now) (reactivate_but w p s now Hw Hp Hd Hin)) as (w' & E' & Hi & Hh & Hhs & Hc & _).
      * done.
      * cbn [heap set_heap]. by rewrite lookup_fmap, lookup_insert_eq.
      * exists w'. cbn [timeout set_timeout]. rewrite E'. split_and!; done.
  - destruct Hf as [Hno _]. destruct (m_obj m) as [p|] eqn:Em; [|left; auto].
    destruct id as [|c id]; [left; auto|]. right; left. split; [done|]. specialize (Hm p eq_refl).
    edestruct (link_expire_inv _ p (lifetime now) (new_session_but w p (c :: id) now l1 l2 Hw Hm ltac:(done) E))
      as (w' & E' & Hi & Hh & Hhs & Hc & _).
    + by eapply not_in_exp.
    + cbn [heap set_heap set_line]. by rewrite lookup_fmap, lookup_insert_eq.
    + exists p, w'. cbn [timeout]. rewrite E'. split_and!; done.
Qed.

Lemma new_keeps now m diamid opt w : inv w → fresh (New now m diamid opt) w → keeps (sess_step (New now m diamid opt) w).
Proof.
  intros Hw Hm c w'. cbn [sess_step]. unfold fd_sess_new. destruct (sid_args_valid diamid opt); cbn; [|by intros [= <- <-]].
  destruct (m_str m); cbn; [|by intros [= <- <-]]. destruct (make_sid diamid opt w) as [[id w1]| |] eqn:E; [|done..].
  cbn [res_bind].
  assert (inv w1 ∧ heap w1 = heap w) as [Hw1 Hh].
  { unfold make_sid in E. destruct diamid; [|by injection E as <- <-]. destruct (_ <? _)%nat; [|done]. by injection E as <- <-. }
  destruct (link_session_spec now m id w1 Hw1) as [(_ & _ & ->)|[(_ & p & w2 & _ & _ & -> & Hi & _)|[(p & s & Hp & _ & _ & ->)|(p & s & Hp & _ & _ & [[_ ->]|(_ & w2 & -> & Hi & _)])]]].
  - rewrite Hh. exact Hm.
  - by intros [= <- <-].
  - by intros [= <- <-].
  - intros [= <- <-]. by apply cnt_keeps.
  - done.
  - by intros [= <- <-].
Qed.

Lemma del_keeps sp id w : inv w → keeps (del_session_states sp id w).
Proof.
  intros Hw. assert (Hd : ∀ p s, heap w !! p = Some s → keeps (destroy_states id p s w)).
  { intros p s Hp c w'. destruct (destroy_states_ret w p s id Hw Hp) as (cs & cnt & _ & ->). intros [= <- <-].
    exact (drop_inv w p s cnt Hw Hp). }
  intros c w'. unfold del_session_states. destruct sp as [p|].
  - destruct (heap w !! p) as [s|] eqn:Hp; [|done]. by apply Hd.
  - destruct (find_line _ _ _ _) as [[l1 l2] [p|]]; [|by intros [= <- <-]].
    destruct (heap w !! p) as [s|] eqn:Hp; [|done]. by apply Hd.
Qed.

Lemma reclaim_keeps sp w : inv w → keeps (fd_sess_reclaim sp w).
Proof.
  intros Hw. apply with_session_keeps; [done|]. intros p s _ Hp c w'.
  destruct (states s); intros [= <- <-]; [by apply drop_inv|done].
Qed.

Lemma states_keeps w p s l :
  inv w → heap w !! p = Some s → is_destroyed s = false ∨ l = [] →
  StronglySorted (st_lt (handlers w)) l → (∀ st, st ∈ l → is_Some (handlers w !! st_hdl st)) →
  inv (set_heap (<[p := set_states l s]>) w).
Proof.
  intros Hw Hp Hd Hs Hl. apply (inv_update _ _ _ _ _ _ p s); [done..|].
  pose proof (iv_sess _ _ _ _ _ _ Hw p s Hp) as [A1 A2 A3 A4]. split; [done..|]. cbn. intros Hd'. destruct Hd as [Hd|]; congruence.
Qed.

Lemma store_keeps mem_ok hp sp st w : inv w → keeps (sess_step (Store mem_ok hp sp st) w).
Proof.
  intros Hw c w'. cbn [sess_step]. unfold fd_sess_state_store, with_handler. destruct hp as [hp|]; [|by intros [= <- <-]].
  destruct (handlers w !! hp) as [h|] eqn:Hh; [|done]. destruct sp as [p|]; [|by intros [= <- <-]].
  destruct (heap w !! p) as [s|] eqn:Hp; [|done]. destruct (is_destroyed s) eqn:Hd; [by intros [= <- <-]|].
  destruct mem_ok; cbn [negb]; [|by intros [= <- <-]]. pose proof (iv_sess _ _ _ _ _ _ Hw p s Hp) as [A1 A2 A3 A4].
  destruct (walk_next _ _) as [l1 l2] eqn:E. destruct (store_place _ _ _ _ _ _ Hh A1 E) as [El Hs].
  destruct (match l2 with _ :: _ => _ | [] => false end); [by intros [= <- <-]|]. intros [= <- <-].
  destruct (Hs eq_refl st) as [Hs' _]. apply states_keeps; [done..|auto|done|].
  intros x. rewrite El in A2. rewrite elem_of_app, elem_of_cons. intros [Hx|[->|Hx]]; [apply A2; set_solver|eauto|apply A2; set_solver].
Qed.

Lemma retrieve_keeps hp sp w : inv w → keeps (sess_step (Retrieve hp sp) w).
Proof.
  intros Hw c w'. cbn [sess_step]. unfold fd_sess_state_retrieve, with_handler. destruct hp as [hp|]; [|by intros [= <- <-]].
  destruct (handlers w !! hp) as [h|] eqn:Hh; [|done]. destruct sp as [p|]; [|by intros [= <- <-]].
  destruct (heap w !! p) as [s|] eqn:Hp; [|done]. pose proof (iv_sess _ _ _ _ _ _ Hw p s Hp) as [A1 A2 A3 A4].
  destruct (retrieve_loop _ _ _) as [[[l1 st] l2]|] eqn:E; [|by intros [= <- <-]].
  apply retrieve_split in E. case_bool_decide; [|by intros [= <- <-]]. intros [= <- <-]. rewrite E in *.
  apply states_keeps; [done..| | |].
  - left. destruct (is_destroyed s); [|done]. destruct l1; discriminate (A4 eq_refl).
  - eapply sorted_sublist; [|exact A1]. apply sublist_app; [done|]. by apply sublist_cons.
  - intros x Hx. apply A2. set_solver.
Qed.

Lemma destroy_handler_keeps hp w : inv w → keeps (sess_step (DestroyHandler hp) w).
Proof.
  intros Hw c w'. cbn [sess_step]. unfold fd_sess_handler_destroy. destruct hp as [hp|]; [|by intros [= <- <-]].
  destruct (handlers w !! hp) as [h|] eqn:Hh; [|done].
  destruct (take_states_spec (handlers w) (h_id h) (all_lines w) (heap w)) as (ds & H' & -> & HH).
  - intros p. apply all_lines_elem, Hw.
  - intros p s Hp. apply (iv_sess _ _ _ _ _ _ Hw p s Hp).
  - cbn [res_bind]. intros [= <- <-]. apply (inv_drop_handler w hp h H' Hw Hh). intros p. rewrite HH.
    case_decide as Hp; [done|]. rewrite all_lines_elem in Hp by done. destruct (heap w !! p); [|done]. destruct Hp. eauto.
Qed.

Lemma exp_round_keeps now mem_ok w : inv w → keeps (sess_step (ExpRound now mem_ok) w).
Proof.
  intros Hw c w'. cbn [sess_step]. unfold exp_round. pose proof Hw as [H1 H2 H3 H4 H5].
  destruct (exp_thr w) eqn:Et; [|by intros [= <- <-]..].
  destruct (exp_list w) as [|p e] eqn:Ee.
  { intros [= <- <-]. split; cbn [heap handlers exp_list hdl_id exp_thr set_thr]; rewrite ?Ee; done. }
  destruct (heap w !! p) as [s|] eqn:Hp; [|done]. destruct (TS_IS_INFERIOR _ _).
  - intros [= <- <-]. split; cbn [heap handlers exp_list hdl_id exp_thr set_thr]; rewrite ?Ee; try done.
    cbn. intros q u Hq Hu. assert (Hpt : (timeout <$> heap w) !! p = Some (timeout s)) by (by rewrite lookup_fmap, Hp).
    destruct H2 as [_ _ Hs]. apply StronglySorted_inv in Hs as [_ Hs]. rewrite Forall_forall in Hs.
    apply elem_of_cons in Hq as [->|Hq]; [rewrite Hpt in Hu; injection Hu as <-; rewrite ts_le_alt; lia|].
    destruct (Hs q Hq) as (a & b & Ha & Hb & Hab). rewrite Hpt in Ha. rewrite Hu in Hb. by simplify_eq.
  - destruct mem_ok; [|done]. intros [= <- <-]. split; cbn [heap handlers exp_list hdl_id exp_thr set_thr]; rewrite ?Ee; done.
Qed.

Lemma set_thr_keeps w t : inv w → (∀ u, t ≠ Sleeps u) → inv (set_thr t w).
Proof. intros [H1 H2 H3 H4 H5] Ht. split; try done. cbn. destruct t as [|u|]; [done|by destruct (Ht u)|done]. Qed.

Lemma exec_keeps o w : inv w → fresh o w → keeps (sess_step o w).
Proof.
  intros Hw Hf. destruct o.
  - by apply new_keeps.
  - apply with_session_keeps; [done|]. intros p s _ Hp c w' [= <- <-]. by apply cnt_keeps.
  - apply with_session_keeps; [done|]. intros p s _ Hp c w' [= <- <-]. by apply cnt_keeps.
  - by apply settimeout_keeps.
  - apply with_session_keeps; [done|]. intros p s _ Hp. by apply del_keeps.
  - by apply reclaim_keeps.
  - by apply store_keeps.
  - by apply retrieve_keeps.
  - intros c w'. cbn [sess_step]. pose proof (inv_new_handler w m cleanup opaque Hw Hf) as Hi.
    destruct (fd_sess_handler_create _ _ _ _) as [[c' p] w1]. by intros [= <- <-].
  - by apply destroy_handler_keeps.
  - by apply exp_round_keeps.
  - intros c w'. cbn [sess_step]. unfold exp_destroy. destruct (exp_thr w); [by intros [= <- <-]..|].
    destruct (del_session_states None sid w) as [[c' w1]| |] eqn:E; [|done..]. cbn.
    destruct c'; [|done..]. intros [= <- <-]. apply set_thr_keeps; [by eapply del_keeps|done].
  - intros c w' [= <- <-]. destruct Hw as [H1 H2 H3 H4 H5]. split; try done. apply thread_woken.
Qed.

Lemma init_inv now : inv (fd_sess_init now).
Proof.
  split; cbn.
  - rewrite fmap_empty. split; [intros i; constructor| |done]. intros p i. cbn. split; [set_solver|]. by intros (k & ? & _).
  - split; [constructor|set_solver|constructor].
  - done.
  - split; done.
  - done.
Qed.

Lemma sess_reachable_inv w : reachable w → inv w.
Proof. induction 1 as [now|o w c w' Hr IH Hf E]; [apply init_inv|]. by apply (exec_keeps o w IH Hf c). Qed.
