(* ===== verification/FdSessMap.v ===== *)
(** What the sessions promise to the extensions: a finite map from Session-Ids.
    An entry has the references of messages, the date at which it expires, and
    the states of the handlers by their number.  [inv_implements] says that the
    functions of FdSessions, with their hash table, their lists and their early
    exits, are operations on this map; [sessions_refine] (FdSessConc) says it of
    the states that threads reach. *)

From stdpp Require Import base list gmap sorting sets.
From Stdlib Require Import ZArith Lia.
From S2P Require Import Prelude GtpImsi FdDictionary FdDictInv FdFifo FdLoops FdRtData FdSentReq FdHash FdSessions FdSessInv.
Open Scope Z_scope.
Open Scope sess_scope.

(** * The map *)

Record entry := Entry {
  e_ptr : positive;
  e_states : gmap Z Z;
  e_timeout : timespec;
  e_refs : Z;
  e_active : bool
}.

Abbreviation table := (gmap os0 entry).

Definition states_map (hs : gmap positive session_handler) (l : list state) : gmap Z Z :=
  list_to_map ((λ st, (st_id hs st, st_state st)) <$> l).

Definition view (hs : gmap positive session_handler) (p : positive) (s : session) : entry :=
  Entry p (states_map hs (states s)) (timeout s) (msg_cnt s) (negb (is_destroyed s)).

Definition abs_of (hs : gmap positive session_handler) (H : gmap positive session) : table :=
  list_to_map ((λ x : positive * session, (sid x.2, view hs x.1 x.2)) <$> map_to_list H).

Definition abs (w : sessions) : table := abs_of (handlers w) (heap w).

(** ** Operations on the map *)

Definition with_refs (n : Z) (a : entry) : entry := Entry (e_ptr a) (e_states a) (e_timeout a) n (e_active a).
Definition with_states (m : gmap Z Z) (a : entry) : entry := Entry (e_ptr a) m (e_timeout a) (e_refs a) (e_active a).
Definition with_timeout (t : timespec) (a : entry) : entry := Entry (e_ptr a) (e_states a) t (e_refs a) (e_active a).

(** The entry goes unless messages refer to it. *)
Definition end_entry (a : entry) : option entry :=
  if e_refs a =? 0 then None else Some (Entry (e_ptr a) ∅ (e_timeout a) (e_refs a) false).

Definition map_destroy (id : os0) (M : table) : table := partial_alter (λ o, o ≫= end_entry) id M.

Definition map_reclaim (id : os0) (M : table) : table :=
  partial_alter (λ o, o ≫= λ a, if decide (e_states a = ∅) then end_entry a else Some a) id M.

Definition map_change (f : entry → entry) (id : os0) (M : table) : table := alter f id M.

(** The result, the object and the new map. *)
Definition map_new (now : timespec) (m : mem) (id : os0) (M : table) : code * option positive * table :=
  match M !! id with
  | None =>
      match m_obj m, id with
      | Some p, _ :: _ => (SUCCESS, Some p, <[id := Entry p ∅ (lifetime now) 1 true]> M)
      | _, _ => (ENOMEM, None, M)
      end
  | Some a =>
      if e_active a then (EALREADY, Some (e_ptr a), <[id := with_refs (e_refs a + 1) a]> M)
      else (SUCCESS, Some (e_ptr a), <[id := Entry (e_ptr a) (e_states a) (lifetime now) (e_refs a + 1) true]> M)
  end.

Definition map_store (hid st : Z) (id : os0) (M : table) : code * Z * table :=
  match M !! id with
  | Some a =>
      if negb (e_active a) then (EINVAL, st, M)
      else match e_states a !! hid with
           | Some _ => (EALREADY, st, M)
           | None => (SUCCESS, 0, <[id := with_states (<[hid := st]> (e_states a)) a]> M)
           end
  | None => (EINVAL, st, M)
  end.

(** As documented: the state of the handler, which is then no longer in the
    session, or NULL. *)
Definition map_retrieve (hid : Z) (id : os0) (M : table) : Z * table :=
  match M !! id ≫= λ a, (a,.) <$> e_states a !! hid with
  | Some (a, st) => (st, <[id := with_states (delete hid (e_states a)) a]> M)
  | None => (0, M)
  end.

(** No handler that was created later has a state in the session. *)
Definition newest (hid : Z) (id : os0) (M : table) : Prop :=
  ∀ a, M !! id = Some a → map_Forall (λ i _, i ≤ hid) (e_states a).

Definition map_drop_handler (hid : Z) (M : table) : table := (λ a, with_states (delete hid (e_states a)) a) <$> M.

(** The calls of the cleanup function of a handler, one for each session with a
    state of it. *)
Definition map_drop_calls (h : session_handler) (M : table) : list call :=
  omap (λ x : os0 * entry, (λ st, Cleanup (h_cleanup h) st x.1 (h_opaque h)) <$> e_states x.2 !! h_id h) (map_to_list M).

(** * The abstraction *)

Definition sids_unique (H : gmap positive session) : Prop :=
  ∀ p q s t, H !! p = Some s → H !! q = Some t → sid s = sid t → p = q.

Lemma inv_unique w : inv w → sids_unique (heap w).
Proof.
  intros Hw p q s t Hp Hq He. eapply (sid_key_unique _ _ p q (key s) (key t) (iv_table _ _ _ _ _ _ Hw)); [| |done];
    apply lookup_key; eauto.
Qed.

Lemma sid_lookup hs H id a :
  sids_unique H → abs_of hs H !! id = Some a ↔ ∃ p s, H !! p = Some s ∧ sid s = id ∧ view hs p s = a.
Proof.
  intros Hu. unfold abs_of. rewrite <- elem_of_list_to_map.
  - rewrite list_elem_of_fmap. split.
    + intros ([p s] & [= -> ->] & Hin%elem_of_map_to_list). eauto.
    + intros (p & s & Hp & <- & <-). exists (p, s). by rewrite elem_of_map_to_list.
  - rewrite <- list_fmap_compose. apply NoDup_fmap_2_strong; [|apply NoDup_map_to_list].
    intros [p s] [q t] Hp%elem_of_map_to_list Hq%elem_of_map_to_list He. cbn in He.
    assert (p = q) as -> by (by eapply Hu). rewrite Hp in Hq. by injection Hq as ->.
Qed.

Lemma abs_some hs H p s : sids_unique H → H !! p = Some s → abs_of hs H !! sid s = Some (view hs p s).
Proof. intros Hu Hp. apply sid_lookup; [done|]. eauto. Qed.

Lemma table_none hs H id : sids_unique H → (∀ p s, H !! p = Some s → sid s ≠ id) → abs_of hs H !! id = None.
Proof.
  intros Hu Hn. destruct (abs_of hs H !! id) as [a|] eqn:E; [|done]. apply sid_lookup in E as (p & s & Hp & Hs & _); [|done].
  by destruct (Hn p s Hp).
Qed.

(** An object comes or changes. *)
Lemma unique_insert H p s' :
  sids_unique H → (∀ q t, H !! q = Some t → sid t = sid s' → q = p) → sids_unique (<[p := s']> H).
Proof.
  intros Hu Hs a b x y. destruct (decide (a = p)) as [->|], (decide (b = p)) as [->|];
    rewrite ?lookup_insert_eq, ?lookup_insert_ne by done; [done| | |by apply Hu].
  - intros [= <-] Hb He. symmetry. by apply (Hs b y).
  - intros Ha [= <-] He. by apply (Hs a x).
Qed.

Lemma abs_insert hs H p s' :
  sids_unique H → (∀ q t, H !! q = Some t → sid t = sid s' → q = p) → (∀ s, H !! p = Some s → sid s = sid s') →
  abs_of hs (<[p := s']> H) = <[sid s' := view hs p s']> (abs_of hs H).
Proof.
  intros Hu Hs Hp. pose proof (unique_insert H p s' Hu Hs) as Hu'. apply map_eq. intros id. apply option_eq. intros a.
  rewrite sid_lookup by done. destruct (decide (id = sid s')) as [->|Hid].
  - rewrite lookup_insert_eq. split.
    + intros (q & t & Hq & Ht & Ha). destruct (decide (q = p)) as [->|Hqp].
      * rewrite lookup_insert_eq in Hq. injection Hq as <-. by rewrite Ha.
      * rewrite lookup_insert_ne in Hq by done. destruct Hqp. by apply (Hs q t).
    + intros [= <-]. exists p, s'. by rewrite lookup_insert_eq.
  - rewrite lookup_insert_ne by done. rewrite sid_lookup by done. split; intros (q & t & Hq & Ht & Ha); exists q, t.
    + destruct (decide (q = p)) as [->|Hqp]; [rewrite lookup_insert_eq in Hq; injection Hq as <-; congruence|].
      by rewrite lookup_insert_ne in Hq.
    + destruct (decide (q = p)) as [->|Hqp]; [destruct Hid; rewrite <- (Hp t Hq); done|].
      by rewrite lookup_insert_ne.
Qed.

Lemma abs_update hs H p s s' :
  sids_unique H → H !! p = Some s → sid s' = sid s → abs_of hs (<[p := s']> H) = <[sid s := view hs p s']> (abs_of hs H).
Proof.
  intros Hu Hp He. rewrite <- He. apply abs_insert; [done| |].
  - intros q t Hq Ht. apply (Hu q p t s); congruence.
  - intros x Hx. congruence.
Qed.

Lemma abs_delete hs H p s :
  sids_unique H → H !! p = Some s → abs_of hs (delete p H) = delete (sid s) (abs_of hs H).
Proof.
  intros Hu Hp. assert (Hu' : sids_unique (delete p H)).
  { intros a b x y [_ Ha]%lookup_delete_Some [_ Hb]%lookup_delete_Some. by apply Hu. }
  apply map_eq. intros id. apply option_eq. intros a. rewrite sid_lookup, lookup_delete_Some, sid_lookup by done. split.
  - intros (q & t & [Hq Ht]%lookup_delete_Some & <- & <-). split; [|eauto]. intros He. apply Hq. by apply (Hu p q s t).
  - intros (Hid & q & t & Hq & <- & <-). exists q, t. rewrite lookup_delete_ne; [done|]. intros ->. congruence.
Qed.

(** ** The states of an entry *)

Section States.
Context (hs : gmap positive session_handler).
Implicit Types (l : list state) (st : state) (i x : Z).

Lemma st_unique l a b : StronglySorted (st_lt hs) l → a ∈ l → b ∈ l → st_id hs a = st_id hs b → a = b.
Proof.
  induction 1 as [|y l Hs IH Hy]; [set_solver|]. rewrite Forall_forall in Hy. unfold st_lt in Hy.
  intros [->|Ha]%elem_of_cons [->|Hb]%elem_of_cons He; [done| | |by apply IH].
  - specialize (Hy b Hb). lia.
  - specialize (Hy a Ha). lia.
Qed.

Lemma states_lookup l i x :
  StronglySorted (st_lt hs) l → states_map hs l !! i = Some x ↔ ∃ st, st ∈ l ∧ st_id hs st = i ∧ st_state st = x.
Proof.
  intros Hs. unfold states_map. rewrite <- elem_of_list_to_map.
  - rewrite list_elem_of_fmap. split; [intros (st & [= -> ->] & ?); eauto|]. intros (st & ? & <- & <-). eauto.
  - rewrite <- list_fmap_compose. apply NoDup_fmap_2_strong; [intros a b Ha Hb; by apply (st_unique l)|].
    clear -Hs. induction Hs as [|y l Hs IH Hy]; constructor; [|done]. intros Hin. rewrite Forall_forall in Hy.
    specialize (Hy y Hin). unfold st_lt in Hy. lia.
Qed.

Lemma states_none l i :
  StronglySorted (st_lt hs) l → states_map hs l !! i = None ↔ ∀ st, st ∈ l → st_id hs st ≠ i.
Proof.
  intros Hs. split.
  - intros Hn st Hst He. assert (states_map hs l !! i = Some (st_state st)) by (apply states_lookup; eauto). congruence.
  - intros Hn. destruct (states_map hs l !! i) as [x|] eqn:E; [|done]. apply states_lookup in E as (st & Hst & He & _); [|done].
    by destruct (Hn st Hst).
Qed.

Lemma states_insert l1 l2 st :
  StronglySorted (st_lt hs) (l1 ++ st :: l2) → StronglySorted (st_lt hs) (l1 ++ l2) →
  states_map hs (l1 ++ st :: l2) = <[st_id hs st := st_state st]> (states_map hs (l1 ++ l2)).
Proof.
  intros Hs Hs'. apply map_eq. intros i. apply option_eq. intros x. rewrite states_lookup by done.
  destruct (decide (i = st_id hs st)) as [->|Hi].
  - rewrite lookup_insert_eq. split; [|intros [= <-]; exists st; set_solver].
    intros (a & Ha & He & <-). f_equal. f_equal. symmetry. apply (st_unique (l1 ++ st :: l2)); set_solver.
  - rewrite lookup_insert_ne by done. rewrite states_lookup by done. split; intros (a & Ha & He & <-); exists a; [|set_solver].
    split; [|done]. apply elem_of_app in Ha as [Ha|[->|Ha]%elem_of_cons]; [set_solver|by destruct Hi|set_solver].
Qed.

Lemma states_remove l1 l2 st :
  StronglySorted (st_lt hs) (l1 ++ st :: l2) → StronglySorted (st_lt hs) (l1 ++ l2) →
  states_map hs (l1 ++ l2) = delete (st_id hs st) (states_map hs (l1 ++ st :: l2)).
Proof.
  intros Hs Hs'. rewrite states_insert by done. rewrite delete_insert_eq, delete_id; [done|].
  apply states_none; [done|]. intros a Ha He. assert (a = st) as -> by (apply (st_unique (l1 ++ st :: l2)); set_solver).
  clear He. induction l1 as [|y l1 IH]; cbn in *; apply StronglySorted_inv in Hs as [Hs Hy]; rewrite Forall_forall in Hy.
  - specialize (Hy st Ha). unfold st_lt in Hy. lia.
  - apply elem_of_cons in Ha as [->|Ha].
    + specialize (Hy y ltac:(set_solver)). unfold st_lt in Hy. lia.
    + apply IH; [done| |done]. by apply StronglySorted_inv in Hs' as [? _].
Qed.

Lemma states_filter l i :
  StronglySorted (st_lt hs) l → states_map hs (filter (λ st, st_id hs st ≠ i) l) = delete i (states_map hs l).
Proof.
  intros Hs. apply map_eq. intros j. apply option_eq. intros x.
  rewrite lookup_delete_Some, !states_lookup; [|done|by apply (sorted_sublist _ l); [apply sublist_filter|]].
  split.
  - intros (st & [Hn Hst]%list_elem_of_filter & <- & <-). split; [done|eauto].
  - intros (Hj & st & Hst & <- & <-). exists st. rewrite list_elem_of_filter. naive_solver.
Qed.

Lemma retrieve_last l i l1 st l2 :
  retrieve_loop hs i l = Some (l1, st, l2) → (i < st_id hs st ∨ l2 = [] ∧ st_id hs st ≤ i) ∧ Forall (λ y, st_id hs y ≤ i) l1.
Proof.
  revert l1 st l2. induction l as [|y l IH]; cbn [retrieve_loop]; intros l1 st l2; [done|].
  destruct (Z.ltb_spec i (st_id hs y)); [intros [= <- <- <-]; auto|].
  destruct (retrieve_loop hs i l) as [[[m1 z] m2]|] eqn:E.
  - intros [= <- <- <-]. destruct (IH _ _ _ eq_refl). split; [done|]. by constructor.
  - intros [= <- <- <-]. split; [by right|constructor].
Qed.

Lemma retrieve_none l i : retrieve_loop hs i l = None → l = [].
Proof.
  destruct l as [|y l]; [done|]. cbn. destruct (i <? st_id hs y); [done|]. by destruct (retrieve_loop hs i l) as [[[? ?] ?]|].
Qed.

(** The loop ends with the state of the handler exactly if it is the last one. *)
Lemma retrieve_found l i l1 st l2 :
  StronglySorted (st_lt hs) l → retrieve_loop hs i l = Some (l1, st, l2) →
  st_id hs st = i ↔ is_Some (states_map hs l !! i) ∧ map_Forall (λ j _, j ≤ i) (states_map hs l).
Proof.
  intros Hs E. pose proof (retrieve_last _ _ _ _ _ E) as [Hst Hl1]. apply retrieve_split in E as El.
  rewrite Forall_forall in Hl1. split.
  - intros Hi. split; [exists (st_state st); apply states_lookup; [done|]; exists st; set_solver|].
    intros j x (a & Ha & <- & _)%states_lookup; [|done]. destruct Hst as [|[-> _]]; [lia|].
    rewrite El in Ha. apply elem_of_app in Ha as [Ha|[->|Ha]%elem_of_cons]; [by apply Hl1|lia|set_solver].
  - intros [[x (a & Ha & Hi & _)%states_lookup] Hall]; [|done].
    assert (Hle : st_id hs st ≤ i).
    { apply (Hall _ (st_state st)), states_lookup; [done|]. exists st. set_solver. }
    destruct Hst as [|[-> _]]; [lia|]. rewrite El in Ha. apply elem_of_app in Ha as [Ha|[->|Ha]%elem_of_cons]; [|done|set_solver].
    rewrite El in Hs. clear -Hs Ha Hi Hle. exfalso. induction l1 as [|y l1 IH]; [set_solver|]. cbn in Hs.
    apply StronglySorted_inv in Hs as [Hs Hy]. rewrite Forall_forall in Hy. apply elem_of_cons in Ha as [->|Ha]; [|by apply IH].
    specialize (Hy st ltac:(set_solver)). unfold st_lt in Hy. lia.
Qed.

End States.

(** * The functions on the map *)

(** The session with this identifier, if it was destroyed, is not in the list of
    expiring sessions; only [fd_sess_settimeout] puts a destroyed one there. *)
Definition settled (id : os0) (w : sessions) : Prop :=
  ∀ p s, heap w !! p = Some s → sid s = id → is_destroyed s = true → p ∉ exp_list w.

Lemma new_refines now m id w :
  inv w → settled id w → (∀ p, m_obj m = Some p → heap w !! p = None) →
  ∃ w', link_session now m id w = Ret ((map_new now m id (abs w)).1, w')
    ∧ abs w' = (map_new now m id (abs w)).2 ∧ calls w' = calls w.
Proof.
  intros Hw Hq Hm. pose proof (inv_unique w Hw) as Hu. unfold map_new.
  destruct (link_session_spec now m id w Hw Hm) as
    [(Hn & He & ->)|[(Hn & p & w' & Hp & Hid & -> & _ & Hh & Hhs & Hc)|[(p & s & Hp & <- & Hd & ->)|(p & s & Hp & <- & Hd & [[Hin _]|(_ & w' & -> & _ & Hh & Hhs & Hc)])]]].
  - unfold abs. rewrite (table_none _ _ _ Hu Hn). exists w. destruct He as [->| ->]; [done|]. by destruct (m_obj m).
  - unfold abs. rewrite (table_none _ _ _ Hu Hn), Hp. destruct id as [|c id]; [done|]. exists w'. split_and!; [done| |done].
    cbn [snd]. rewrite Hh, Hhs, abs_insert; [done|done| |].
    + intros q t Hq' Ht. by destruct (Hn q t Hq').
    + intros t Ht. rewrite (Hm p Hp) in Ht. done.
  - unfold abs. rewrite (abs_some _ _ _ _ Hu Hp).
    assert (e_active (view (handlers w) p s) = true) as -> by (cbn; by rewrite Hd).
    eexists. split_and!; [done| |done]. cbn [snd heap handlers set_heap]. by rewrite (abs_update _ _ _ s).
  - by destruct (Hq p s Hp eq_refl Hd).
  - unfold abs. rewrite (abs_some _ _ _ _ Hu Hp).
    assert (e_active (view (handlers w) p s) = false) as -> by (cbn; by rewrite Hd).
    exists w'. split_and!; [done| |done]. cbn [snd]. rewrite Hh, Hhs. by rewrite (abs_update _ _ _ s).
Qed.

Lemma drop_refines w p s cnt :
  inv w → heap w !! p = Some s → abs (drop_session p s (set_exp (unlink p (exp_list w)) cnt w)) = map_destroy (sid s) (abs w).
Proof.
  intros Hw Hp. pose proof (inv_unique w Hw) as Hu. unfold drop_session, map_destroy. apply map_eq. intros id.
  assert (Hs : abs w !! sid s = Some (view (handlers w) p s)) by (by apply abs_some).
  destruct (msg_cnt s =? 0) eqn:E; unfold abs at 1; cbn [heap handlers set_heap set_line set_exp].
  - rewrite (abs_delete _ _ _ s Hu Hp). destruct (decide (id = sid s)) as [->|].
    + rewrite lookup_delete_eq, lookup_partial_alter_eq, Hs. cbn. unfold end_entry. cbn. by rewrite E.
    + by rewrite lookup_delete_ne, lookup_partial_alter_ne by done.
  - rewrite (abs_update _ _ _ s _ Hu Hp) by done. destruct (decide (id = sid s)) as [->|].
    + rewrite lookup_insert_eq, lookup_partial_alter_eq, Hs. cbn. unfold end_entry. cbn. by rewrite E.
    + by rewrite lookup_insert_ne, lookup_partial_alter_ne by done.
Qed.

Lemma destroy_refines w p s :
  inv w → heap w !! p = Some s →
  ∃ w' cs, destroy_states (sid s) p s w = Ret (SUCCESS, w') ∧ abs w' = map_destroy (sid s) (abs w)
    ∧ cleanups (handlers w) (sid s) (states s) = Some cs ∧ calls w' = calls w ++ cs.
Proof.
  intros Hw Hp. destruct (destroy_states_ret w p s (sid s) Hw Hp) as (cs & cnt & Hcs & ->). eexists _, cs.
  split_and!; [done| |done|].
  - exact (drop_refines w p s cnt Hw Hp).
  - cbn. unfold drop_session. by destruct (msg_cnt s =? 0).
Qed.

Lemma states_map_empty hs l : states_map hs l = ∅ ↔ l = [].
Proof.
  split; [|by intros ->]. destruct l as [|st l]; [done|]. unfold states_map. cbn. intros E. by apply insert_non_empty in E.
Qed.

Lemma reclaim_refines w p s :
  inv w → heap w !! p = Some s →
  ∃ w', fd_sess_reclaim (Some p) w = Ret (SUCCESS, w') ∧ abs w' = map_reclaim (sid s) (abs w) ∧ calls w' = calls w.
Proof.
  intros Hw Hp. pose proof (inv_unique w Hw) as Hu. unfold fd_sess_reclaim, with_session. rewrite Hp.
  assert (Hs : abs w !! sid s = Some (view (handlers w) p s)) by (by apply abs_some).
  destruct (states s) as [|st l] eqn:E; eexists; (split_and!; [done| |]).
  - rewrite drop_refines by done. apply map_eq. intros id. unfold map_reclaim, map_destroy.
    destruct (decide (id = sid s)) as [->|]; [|by rewrite !lookup_partial_alter_ne].
    rewrite !lookup_partial_alter_eq, Hs. cbn. rewrite decide_True; [done|]. by rewrite E.
  - unfold drop_session. by destruct (msg_cnt s =? 0).
  - apply map_eq. intros id. unfold map_reclaim. destruct (decide (id = sid s)) as [->|]; [|by rewrite lookup_partial_alter_ne].
    rewrite lookup_partial_alter_eq, Hs. cbn. rewrite decide_False; [done|]. by rewrite states_map_empty, E.
  - done.
Qed.

(** A function that changes one field. *)
Lemma change_refines w p s s' f :
  inv w → heap w !! p = Some s → sid s' = sid s → view (handlers w) p s' = f (view (handlers w) p s) →
  abs_of (handlers w) (<[p := s']> (heap w)) = map_change f (sid s) (abs w).
Proof.
  intros Hw Hp Hs Hv. pose proof (inv_unique w Hw) as Hu. rewrite (abs_update _ _ _ s _ Hu Hp Hs), Hv. apply map_eq. intros id.
  unfold map_change. destruct (decide (id = sid s)) as [->|].
  - unfold abs. by rewrite lookup_insert_eq, lookup_alter_eq, (abs_some _ _ _ _ Hu Hp).
  - by rewrite lookup_insert_ne, lookup_alter_ne.
Qed.

Lemma cnt_refines w p s n :
  inv w → heap w !! p = Some s → abs (set_heap (<[p := set_cnt n s]>) w) = map_change (with_refs n) (sid s) (abs w).
Proof. intros Hw Hp. by apply (change_refines w p s). Qed.

Lemma settimeout_refines w p s t :
  inv w → heap w !! p = Some s →
  ∃ w', fd_sess_settimeout (Some p) t w = Ret (SUCCESS, w') ∧ abs w' = map_change (with_timeout t) (sid s) (abs w)
    ∧ calls w' = calls w ∧ p ∈ exp_list w'.
Proof.
  intros Hw Hp. unfold fd_sess_settimeout, with_session. rewrite Hp. destruct (walk_next _ _) as [e1 e2].
  assert (Ha : abs_of (handlers w) (<[p := set_timeout t s]> (heap w)) = map_change (with_timeout t) (sid s) (abs w))
    by (by apply (change_refines w p s)).
  eexists. split; [done|]. case_bool_decide; (split_and!; [exact Ha|done|cbn; set_solver]).
Qed.

Lemma store_refines w hp h p s st :
  inv w → handlers w !! hp = Some h → heap w !! p = Some s →
  ∃ w', fd_sess_state_store true (Some hp) (Some p) st w = Ret ((map_store (h_id h) st (sid s) (abs w)).1, w')
    ∧ abs w' = (map_store (h_id h) st (sid s) (abs w)).2 ∧ calls w' = calls w.
Proof.
  intros Hw Hh Hp. pose proof (inv_unique w Hw) as Hu. pose proof (iv_sess _ _ _ _ _ _ Hw p s Hp) as [A1 A2 A3 A4].
  assert (Habs : abs w !! sid s = Some (view (handlers w) p s)) by (by apply abs_some). unfold map_store. rewrite !Habs.
  unfold fd_sess_state_store, with_handler. rewrite Hh, Hp. cbn [e_active e_states view]. rewrite negb_involutive.
  destruct (is_destroyed s) eqn:Hd; [by exists w|]. cbn [negb].
  destruct (walk_next _ _) as [l1 l2] eqn:E. destruct (store_place _ _ _ _ _ _ Hh A1 E) as [El Hs].
  destruct (match l2 with _ :: _ => _ | [] => false end) eqn:Ea.
  - destruct l2 as [|x l2]; [done|]. apply Z.eqb_eq in Ea.
    assert (states_map (handlers w) (states s) !! h_id h = Some (st_state x)) as ->; [|by exists w].
    apply states_lookup; [done|]. exists x. rewrite El. set_solver.
  - destruct (Hs eq_refl st) as [Hs' Hn]. rewrite (proj2 (states_none _ _ _ A1) Hn). eexists. split_and!; [done| |done].
    unfold abs. cbn [snd heap handlers set_heap]. rewrite (abs_update _ _ _ s _ Hu Hp) by done. f_equal.
    unfold view, with_states. cbn -[states_map]. rewrite Hd. f_equal. rewrite El in A1 |- *. rewrite states_insert by done. f_equal.
    unfold st_id. cbn. by rewrite Hh.
Qed.

Lemma st_hdl_id w st hp h :
  handlers_ok (handlers w) (hdl_id w) → handlers w !! hp = Some h → is_Some (handlers w !! st_hdl st) →
  st_hdl st = hp ↔ st_id (handlers w) st = h_id h.
Proof.
  intros [_ Hu] Hh [k Hk]. unfold st_id. rewrite Hk. split; [intros E; congruence|]. intros E. by apply (Hu _ _ k h).
Qed.

(** The loop ends with the state of the handler, or with that of another. *)
Lemma retrieve_loop_handler w hp h p s l1 st l2 :
  inv w → handlers w !! hp = Some h → heap w !! p = Some s →
  retrieve_loop (handlers w) (h_id h) (states s) = Some (l1, st, l2) →
  st_hdl st = hp ↔ is_Some (states_map (handlers w) (states s) !! h_id h)
    ∧ map_Forall (λ j _, j ≤ h_id h) (states_map (handlers w) (states s)).
Proof.
  intros Hw Hh Hp E. pose proof (iv_sess _ _ _ _ _ _ Hw p s Hp) as [A1 A2 A3 A4].
  rewrite <- (retrieve_found _ _ _ _ _ _ A1 E). apply st_hdl_id; [apply Hw|done|]. apply A2.
  apply retrieve_split in E. rewrite E. set_solver.
Qed.

Lemma newest_view w p s h :
  inv w → heap w !! p = Some s →
  newest (h_id h) (sid s) (abs w) ↔ map_Forall (λ j _, j ≤ h_id h) (states_map (handlers w) (states s)).
Proof.
  intros Hw Hp. unfold newest, abs. rewrite (abs_some _ _ _ _ (inv_unique w Hw) Hp). split; [intros H; exact (H _ eq_refl)|].
  by intros H a [= <-].
Qed.

Lemma retrieve_refines w hp h p s :
  inv w → handlers w !! hp = Some h → heap w !! p = Some s → newest (h_id h) (sid s) (abs w) →
  ∃ w', fd_sess_state_retrieve (Some hp) (Some p) w = Ret (SUCCESS, (map_retrieve (h_id h) (sid s) (abs w)).1, w')
    ∧ abs w' = (map_retrieve (h_id h) (sid s) (abs w)).2 ∧ calls w' = calls w.
Proof.
  intros Hw Hh Hp Hall. rewrite newest_view in Hall by done. pose proof (inv_unique w Hw) as Hu.
  pose proof (iv_sess _ _ _ _ _ _ Hw p s Hp) as [A1 A2 A3 A4].
  assert (Habs : abs w !! sid s = Some (view (handlers w) p s)) by (by apply abs_some). unfold map_retrieve. rewrite !Habs.
  unfold fd_sess_state_retrieve, with_handler. rewrite Hh, Hp. cbn [mbind option_bind e_states view].
  destruct (retrieve_loop _ _ _) as [[[l1 st] l2]|] eqn:E.
  2: { apply retrieve_none in E. rewrite E. by exists w. }
  pose proof (retrieve_loop_handler w hp h p s _ _ _ Hw Hh Hp E) as Hf. pose proof (retrieve_found _ _ _ _ _ _ A1 E) as Hid.
  apply retrieve_split in E as El. case_bool_decide as Hb.
  - apply Hf in Hb. apply Hid in Hb.
    assert (states_map (handlers w) (states s) !! h_id h = Some (st_state st)) as ->.
    { apply states_lookup; [done|]. exists st. rewrite El. set_solver. }
    eexists. split_and!; [done| |done].
    unfold abs. cbn [fmap option_fmap option_map snd heap handlers set_heap]. rewrite (abs_update _ _ _ s _ Hu Hp) by done. f_equal.
    unfold view, with_states. cbn -[states_map]. f_equal. rewrite El in A1 |- *. rewrite <- Hb. apply states_remove; [done|].
    eapply sorted_sublist; [|exact A1]. apply sublist_app; [done|]. by apply sublist_cons.
  - exists w. destruct (states_map (handlers w) (states s) !! h_id h) as [x|] eqn:Ex; [|done].
    destruct Hb. apply Hf. split; [by exists x|exact Hall].
Qed.

(** Otherwise the state is not found although it is there. *)
Lemma retrieve_finds_none w hp h p s :
  inv w → handlers w !! hp = Some h → heap w !! p = Some s → ¬ newest (h_id h) (sid s) (abs w) →
  fd_sess_state_retrieve (Some hp) (Some p) w = Ret (SUCCESS, 0, w).
Proof.
  intros Hw Hh Hp Hall. rewrite newest_view in Hall by done. unfold fd_sess_state_retrieve, with_handler. rewrite Hh, Hp.
  destruct (retrieve_loop _ _ _) as [[[l1 st] l2]|] eqn:E; [|done]. rewrite bool_decide_false; [done|].
  rewrite (retrieve_loop_handler w hp h p s _ _ _ Hw Hh Hp E). tauto.
Qed.

(** A handler is destroyed. *)
Lemma view_others w hp h p s :
  inv w → handlers w !! hp = Some h → heap w !! p = Some s →
  view (delete hp (handlers w)) p (others (handlers w) (h_id h) s)
  = with_states (delete (h_id h) (e_states (view (handlers w) p s))) (view (handlers w) p s).
Proof.
  intros Hw Hh Hp. pose proof (iv_sess _ _ _ _ _ _ Hw p s Hp) as [A1 A2 A3 A4].
  unfold view, with_states, others. cbn -[states_map]. f_equal. rewrite <- states_filter by done. unfold states_map. f_equal.
  apply list_fmap_ext. intros i st [Hn Hst]%list_elem_of_lookup_2%list_elem_of_filter. f_equal. unfold st_id.
  rewrite lookup_delete_ne; [done|]. intros E. apply Hn. unfold st_id. by rewrite <- E, Hh.
Qed.

(** The calls are those of the entries with a state of the handler. *)
Lemma drop_calls_refine w h ds H' :
  inv w → take_states (handlers w) (h_id h) (all_lines w) (heap w) = Ret (ds, H') →
  deleted_call h <$> ds ≡ₚ map_drop_calls h (abs w).
Proof.
  intros Hw E. pose proof (inv_unique w Hw) as Hu. pose proof (iv_sess _ _ _ _ _ _ Hw) as Hso.
  apply taken_spec in E as [Hn Hin]; [|by apply all_lines_nodup|intros p s Hp; apply (Hso p s Hp)].
  assert (Hin' : ∀ st p i, Deleted st p i ∈ ds ↔
    ∃ s, heap w !! p = Some s ∧ i = sid s ∧ st ∈ states s ∧ st_id (handlers w) st = h_id h).
  { intros st p i. rewrite Hin. split; [tauto|]. intros (s & Hp & Hx). split; [apply all_lines_elem; eauto|eauto]. }
  apply NoDup_Permutation.
  - rewrite list_fmap_alt. apply NoDup_fmap_2_strong; [|by eapply NoDup_fmap_1].
    intros [st p i] [st' p' i'] (s & Hp & -> & Hx)%Hin' (s' & Hp' & -> & Hx')%Hin' He. unfold deleted_call in He. cbn in He.
    injection He as Hv Hi. assert (p = p') as <- by (by apply (Hu p p' s s')). rewrite Hp in Hp'. injection Hp' as <-.
    f_equal. apply (st_unique (handlers w) (states s)); [apply (Hso p s Hp)|tauto|tauto|destruct Hx, Hx'; congruence].
  - unfold map_drop_calls. generalize (NoDup_fst_map_to_list (abs w)). generalize (map_to_list (abs w)) as l.
    induction l as [|[id a] l IH]; cbn; [constructor|]. intros [Hid Hl]%NoDup_cons.
    destruct (e_states a !! h_id h) as [x|]; cbn; [|by apply IH]. constructor; [|by apply IH].
    intros ([id' a'] & Hx & (y & Hy & He)%fmap_Some)%list_elem_of_omap. injection He as _ <-.
    apply Hid, list_elem_of_fmap. by exists (id, a').
  - intros [f x i o]. rewrite list_elem_of_fmap. unfold map_drop_calls. rewrite list_elem_of_omap. split.
    + intros ([st p i'] & He & (s & Hp & -> & Hst & Hid)%Hin'). unfold deleted_call in He. cbn in He. injection He as -> -> -> ->.
      exists (sid s, view (handlers w) p s). split; [by apply elem_of_map_to_list, abs_some|]. cbn -[states_map].
      assert (states_map (handlers w) (states s) !! h_id h = Some (st_state st)) as ->; [|done].
      apply states_lookup; [apply (Hso p s Hp)|eauto].
    + intros ([id a] & Ha%elem_of_map_to_list & (y & Hy & He)%fmap_Some). cbn in He. injection He as -> -> -> ->.
      apply sid_lookup in Ha as (p & s & Hp & <- & <-); [|done]. cbn -[states_map] in Hy.
      apply states_lookup in Hy as (st & Hst & Hid & <-); [|apply (Hso p s Hp)]. exists (Deleted st p (sid s)).
      split; [done|]. apply Hin'. eauto.
Qed.

Lemma drop_handler_refines w hp h :
  inv w → handlers w !! hp = Some h →
  ∃ w' cs, fd_sess_handler_destroy (Some hp) w = Ret (SUCCESS, h_opaque h, w') ∧ abs w' = map_drop_handler (h_id h) (abs w)
    ∧ calls w' = calls w ++ cs ∧ cs ≡ₚ map_drop_calls h (abs w).
Proof.
  intros Hw Hh. unfold fd_sess_handler_destroy. rewrite Hh. pose proof (inv_unique w Hw) as Hu.
  destruct (take_states_spec (handlers w) (h_id h) (all_lines w) (heap w)) as (ds & H' & E & HH).
  - intros p. apply all_lines_elem, Hw.
  - intros p s Hp. apply (iv_sess _ _ _ _ _ _ Hw p s Hp).
  - rewrite E. eexists _, _. split_and!; [done| |done|by eapply drop_calls_refine]. unfold abs at 1. cbn [heap handlers set_handlers set_heap add_calls].
    assert (HH' : ∀ p, H' !! p = others (handlers w) (h_id h) <$> heap w !! p).
    { intros p. rewrite HH. case_decide as Hp; [done|]. rewrite all_lines_elem in Hp by done.
      destruct (heap w !! p); [|done]. destruct Hp. eauto. }
    assert (Hu' : sids_unique H').
    { intros a b x y. rewrite !HH'. intros (x' & Hx & ->)%fmap_Some (y' & Hy & ->)%fmap_Some. by apply (Hu a b x' y'). }
    apply map_eq. intros id. apply option_eq. intros a. unfold map_drop_handler. rewrite sid_lookup, lookup_fmap, fmap_Some by done.
    split.
    + intros (p & x & Hx & <- & <-). rewrite HH' in Hx. apply fmap_Some in Hx as (s & Hp & ->).
      exists (view (handlers w) p s). split; [exact (abs_some (handlers w) (heap w) p s Hu Hp)|]. by apply view_others.
    + intros (b & Hb & ->). apply sid_lookup in Hb as (p & s & Hp & <- & <-); [|done].
      exists p, (others (handlers w) (h_id h) s). rewrite HH', Hp. split_and!; [done..|]. by apply view_others.
Qed.

(** The thread destroys the session by its identifier, if it is still there. *)
Lemma expiry_refines w id :
  inv w → exp_thr w = Expires id →
  match abs w !! id with
  | Some _ => ∃ w', exp_destroy w = Ret w' ∧ abs w' = map_destroy id (abs w)
  | None => exp_destroy w = Assert
  end.
Proof.
  intros Hw Ht. pose proof (inv_unique w Hw) as Hu. unfold exp_destroy, del_session_states. rewrite Ht.
  destruct (find_line _ _ _ _) as [[l1 l2] found] eqn:E.
  pose proof (find_line_spec _ (line w) _ _ _ _ (iv_table _ _ _ _ _ _ Hw) E) as Hf. destruct found as [p|].
  - destruct Hf as (s & Hp & <-). unfold abs. rewrite Hp, (abs_some _ _ _ _ Hu Hp).
    destruct (destroy_refines w p s Hw Hp) as (w' & cs & -> & Ha & _). exists (set_thr Awake w'). split; [done|]. exact Ha.
  - destruct Hf as [Hn _]. unfold abs. by rewrite (table_none _ _ _ Hu Hn).
Qed.

(** ** The interface *)

(** What the functions do to the map, with their results and the callbacks; an
    operation on a session is given a live one.  [im_retrieve_hidden] is where
    the code does not do what it documents. *)
Record implements (w : sessions) : Prop := {
  im_new : ∀ now m o,
    settled (c_arg o) w → fresh (New now m None (Some o)) w → sid_args_valid None (Some o) = true → m_str m = true →
    ∃ w', fd_sess_new now m None (Some o) w = Ret ((map_new now m (c_arg o) (abs w)).1, w')
      ∧ abs w' = (map_new now m (c_arg o) (abs w)).2 ∧ calls w' = calls w;
  im_ref : ∀ p s, heap w !! p = Some s →
    ∃ w', fd_sess_ref_msg (Some p) w = Ret (SUCCESS, w') ∧ abs w' = map_change (with_refs (msg_cnt s + 1)) (sid s) (abs w)
      ∧ calls w' = calls w;
  im_unref : ∀ p s, heap w !! p = Some s →
    ∃ w', unref (Some p) w = Ret (SUCCESS, w') ∧ abs w' = map_change (with_refs (msg_cnt s - 1)) (sid s) (abs w)
      ∧ calls w' = calls w;
  im_settimeout : ∀ p s t, heap w !! p = Some s →
    ∃ w', fd_sess_settimeout (Some p) t w = Ret (SUCCESS, w') ∧ abs w' = map_change (with_timeout t) (sid s) (abs w)
      ∧ calls w' = calls w;
  im_destroy : ∀ p s, heap w !! p = Some s →
    ∃ w' cs, fd_sess_destroy (Some p) w = Ret (SUCCESS, w') ∧ abs w' = map_destroy (sid s) (abs w)
      ∧ cleanups (handlers w) (sid s) (states s) = Some cs ∧ calls w' = calls w ++ cs;
  im_reclaim : ∀ p s, heap w !! p = Some s →
    ∃ w', fd_sess_reclaim (Some p) w = Ret (SUCCESS, w') ∧ abs w' = map_reclaim (sid s) (abs w) ∧ calls w' = calls w;
  im_store : ∀ hp h p s st, handlers w !! hp = Some h → heap w !! p = Some s →
    ∃ w', fd_sess_state_store true (Some hp) (Some p) st w = Ret ((map_store (h_id h) st (sid s) (abs w)).1, w')
      ∧ abs w' = (map_store (h_id h) st (sid s) (abs w)).2 ∧ calls w' = calls w;
  im_retrieve : ∀ hp h p s, handlers w !! hp = Some h → heap w !! p = Some s → newest (h_id h) (sid s) (abs w) →
    ∃ w', fd_sess_state_retrieve (Some hp) (Some p) w = Ret (SUCCESS, (map_retrieve (h_id h) (sid s) (abs w)).1, w')
      ∧ abs w' = (map_retrieve (h_id h) (sid s) (abs w)).2 ∧ calls w' = calls w;
  im_retrieve_hidden : ∀ hp h p s, handlers w !! hp = Some h → heap w !! p = Some s → ¬ newest (h_id h) (sid s) (abs w) →
    fd_sess_state_retrieve (Some hp) (Some p) w = Ret (SUCCESS, 0, w);
  im_drop_handler : ∀ hp h, handlers w !! hp = Some h →
    ∃ w' cs, fd_sess_handler_destroy (Some hp) w = Ret (SUCCESS, h_opaque h, w') ∧ abs w' = map_drop_handler (h_id h) (abs w)
      ∧ calls w' = calls w ++ cs ∧ cs ≡ₚ map_drop_calls h (abs w)
}.

Lemma inv_implements (w : sessions) : inv w → implements w.
Proof.
  intros Hw. split.
  - intros now m o Hq Hf Ha Hm. unfold fd_sess_new. rewrite Ha, Hm. cbn [negb make_sid res_bind].
    destruct (new_refines now m (c_arg o) w Hw Hq Hf) as (w' & -> & ? & ?). eauto.
  - intros p s Hp. unfold fd_sess_ref_msg, with_session. rewrite Hp. eexists. split; [done|]. split; [by apply cnt_refines|done].
  - intros p s Hp. unfold unref, with_session. rewrite Hp. eexists. split; [done|]. split; [by apply cnt_refines|done].
  - intros p s t Hp. destruct (settimeout_refines w p s t Hw Hp) as (w' & ? & ? & ? & _). eauto.
  - intros p s Hp. unfold fd_sess_destroy, with_session, del_session_states. rewrite Hp. by apply destroy_refines.
  - intros p s Hp. by apply reclaim_refines.
  - intros hp h p s st Hh Hp. by apply store_refines.
  - intros hp h p s. by apply retrieve_refines.
  - intros hp h p s. by apply retrieve_finds_none.
  - intros hp h. by apply drop_handler_refines.
Qed.
