(* ===== verification/FdSessRuns.v ===== *)
(** What holds of every run of the sessions (FdSessions), and runs that end
    badly: the identifiers that [fd_sess_new] makes, which steps can fail, when
    an object is freed, and what the code does that it does not mean to. *)

From stdpp Require Import base list gmap sorting sets strings.
From Stdlib Require Import ZArith Lia.
From S2P Require Import Prelude GtpImsi FdDictionary FdDictInv FdFifo FdLoops FdRtData FdSentReq FdHash FdSessions FdSessInv FdSessMap.
Open Scope Z_scope.
Open Scope sess_scope.

(** * Identifiers *)

Definition not_semicolon (c : Z) : Prop := c ≠ semicolon.

Lemma decimal_chars v : 0 ≤ v < 2 ^ 32 → Forall (λ c, 48 ≤ c ≤ 57) (decimal v).
Proof.
  intros Hv. unfold decimal. assert (Hd : Forall is_digit (digits v)) by (apply digits_ok; lia).
  induction Hd as [|d ds Hd Hds IH]; cbn; constructor; [unfold is_digit in Hd; lia|done].
Qed.

Lemma decimal_length v : 0 ≤ v < 2 ^ 32 → (length (decimal v) ≤ 10)%nat.
Proof.
  intros Hv. unfold decimal. rewrite length_map. unfold digits. apply dec_digits_length; [|lia].
  change (10 ^ Z.of_nat 10) with (10 ^ 10). lia.
Qed.

Lemma decimal_inj v v' : decimal v = decimal v' → v = v'.
Proof.
  intros E. rewrite <- (digits_val_dec 19 v), <- (digits_val_dec 19 v'). f_equal. unfold decimal in E.
  fold (digits v) (digits v'). revert E. generalize (digits v), (digits v').
  intros l. induction l as [|d l IH]; intros [|d' l'] E; try discriminate E; [done|].
  cbn in E. injection E as Hd El. f_equal; [lia|by apply IH].
Qed.

Lemma decimal_plain v : 0 ≤ v < 2 ^ 32 → Forall not_semicolon (decimal v).
Proof. intros Hv. eapply Forall_impl; [by apply decimal_chars|]. unfold not_semicolon, semicolon. intros c Hc. lia. Qed.

Lemma identity_plain d : fd_os_is_valid_DiameterIdentity d = true → Forall not_semicolon d.
Proof.
  unfold fd_os_is_valid_DiameterIdentity. intros H. apply Forall_forall. intros c Hc ->.
  rewrite forallb_forall in H. specialize (H semicolon). rewrite <- list_elem_of_In in H. by specialize (H Hc).
Qed.

(** What is before the first semicolon. *)
Lemma split_semicolon a b x y :
  Forall not_semicolon a → Forall not_semicolon b → a ++ semicolon :: x = b ++ semicolon :: y → a = b ∧ x = y.
Proof.
  revert b. induction a as [|c a IH]; intros [|d b] Ha Hb E.
  - by injection E.
  - injection E as E _. apply Forall_cons in Hb as [Hd _]. by destruct Hd.
  - injection E as E _. apply Forall_cons in Ha as [Hc _]. by destruct Hc.
  - injection E as -> E. apply Forall_cons in Ha as [_ Ha], Hb as [_ Hb]. destruct (IH b Ha Hb E) as [-> ->]. done.
Qed.

Lemma split_end a b x :
  Forall not_semicolon a → Forall not_semicolon b → a = b ++ semicolon :: x → False.
Proof.
  intros Ha _ ->. apply Forall_app in Ha as [_ [H _]%Forall_cons]. by destruct H.
Qed.

Definition opt_end (o : option os0) : os0 := match o with Some o => semicolon :: o | None => [] end.

Lemma split_last a b (o o' : option os0) :
  Forall not_semicolon a → Forall not_semicolon b → a ++ opt_end o = b ++ opt_end o' → a = b.
Proof.
  intros Ha Hb. destruct o as [x|], o' as [y|]; cbn [opt_end]; rewrite ?app_nil_r; intros E.
  - by apply split_semicolon in E as [-> _].
  - symmetry in E. by destruct (split_end b a x).
  - by destruct (split_end a b y).
  - done.
Qed.

Definition u32_range (v : Z) : Prop := 0 ≤ v < 2 ^ 32.

Lemma sid_string_inj d d' h l h' l' o o' :
  fd_os_is_valid_DiameterIdentity d = true → fd_os_is_valid_DiameterIdentity d' = true →
  u32_range h → u32_range l → u32_range h' → u32_range l' →
  sid_string d h l o = sid_string d' h' l' o' → d = d' ∧ h = h' ∧ l = l'.
Proof.
  intros Hd Hd' Hh Hl Hh' Hl' E. unfold sid_string in E.
  apply split_semicolon in E as [-> E]; [|by apply identity_plain..].
  apply split_semicolon in E as [Eh E]; [|by apply decimal_plain..].
  apply (split_last (decimal l) (decimal l') o o') in E; [|by apply decimal_plain..].
  split_and!; [done|by apply decimal_inj..].
Qed.

(** The buffer of 22 octets for the two numbers is large enough. *)
Lemma sid_fits d h l o : u32_range h → u32_range l → (length (sid_string d h l o) < sid_size d o)%nat.
Proof.
  intros Hh Hl. pose proof (decimal_length h Hh). pose proof (decimal_length l Hl). unfold sid_string, sid_size.
  rewrite length_app. cbn [length]. rewrite length_app. cbn [length]. rewrite length_app. destruct o; cbn [length]; lia.
Qed.

(** The two counters are one number of 64 bits. *)
Definition sid_number (w : sessions) : Z := sid_h w * 2 ^ 32 + sid_l w.

Lemma next_sid_number w :
  u32_range (sid_h w) → u32_range (sid_l w) →
  u32_range (sid_h (next_sid w)) ∧ u32_range (sid_l (next_sid w)) ∧ sid_number (next_sid w) = (sid_number w + 1) mod 2 ^ 64.
Proof.
  unfold u32_range, sid_number, next_sid, u32. cbn [sid_h sid_l set_sid]. intros Hh Hl.
  destruct (Z.eq_dec (sid_l w) (2 ^ 32 - 1)) as [E|E].
  - rewrite E. change ((2 ^ 32 - 1 + 1) mod 4294967296) with 0. rewrite Z.eqb_refl.
    split_and!; [apply (Z.mod_pos_bound _ 4294967296); lia..|lia|lia|].
    destruct (Z.eq_dec (sid_h w) (2 ^ 32 - 1)) as [->|]; [done|].
    rewrite (Z.mod_small (sid_h w + 1)), Z.mod_small by lia. lia.
  - rewrite (Z.mod_small (sid_l w + 1)) by lia. destruct (Z.eqb_spec (sid_l w + 1) 0); [lia|].
    split_and!; try lia. rewrite Z.mod_small by lia. lia.
Qed.

(** The state in which the [n]-th identifier is made. *)
Definition after (n : nat) (w : sessions) : sessions := Nat.iter n next_sid w.

Lemma after_number n w :
  u32_range (sid_h w) → u32_range (sid_l w) →
  u32_range (sid_h (after n w)) ∧ u32_range (sid_l (after n w)) ∧ sid_number (after n w) = (sid_number w + Z.of_nat n) mod 2 ^ 64.
Proof.
  intros Hh Hl. induction n as [|n (IHh & IHl & IHn)].
  - split_and!; [done..|]. cbn [after Nat.iter]. rewrite Z.add_0_r, Z.mod_small; [done|]. unfold sid_number, u32_range in *. lia.
  - destruct (next_sid_number (after n w) IHh IHl) as (? & ? & E). split_and!; [done..|].
    change (after (S n) w) with (next_sid (after n w)). rewrite E, IHn, Zplus_mod_idemp_l. f_equal. lia.
Qed.

Lemma args_identity d o : sid_args_valid (Some d) o = true → fd_os_is_valid_DiameterIdentity (c_arg d) = true.
Proof. unfold sid_args_valid. by intros [? _]%andb_true_iff. Qed.

(** C34: the identifiers that [fd_sess_new] makes are never the same twice in
    2^64 calls, whatever the identities and the optional ends, and they fit in
    the buffer the code allocates for them. *)
Theorem session_ids_unique (w : sessions) (i j : nat) (d d' : list Z * nat) (o o' : option (list Z * nat)) :
  u32_range (sid_h w) → u32_range (sid_l w) → (i < j)%nat → Z.of_nat (j - i) < 2 ^ 64 →
  sid_args_valid (Some d) o = true → sid_args_valid (Some d') o' = true →
  ∃ id id', make_sid (Some d) o (after i w) = Ret (id, after (S i) w)
    ∧ make_sid (Some d') o' (after j w) = Ret (id', after (S j) w) ∧ id ≠ id'.
Proof.
  intros Hh Hl Hij Hn Ha Ha'. unfold make_sid.
  destruct (after_number (S i) w Hh Hl) as (Ih & Il & In), (after_number (S j) w Hh Hl) as (Jh & Jl & Jn).
  change (next_sid (after i w)) with (after (S i) w). change (next_sid (after j w)) with (after (S j) w).
  rewrite !(proj2 (Nat.ltb_lt _ _)) by (by apply sid_fits). eexists _, _. split_and!; [done..|]. intros E.
  apply sid_string_inj in E as (_ & Eh & El); [|by apply args_identity in Ha|by apply args_identity in Ha'|done..].
  assert (En : sid_number (after (S i) w) = sid_number (after (S j) w)) by (unfold sid_number; by rewrite Eh, El).
  rewrite In, Jn in En.
  assert (Hm : ((sid_number w + Z.of_nat (S j)) - (sid_number w + Z.of_nat (S i))) mod 2 ^ 64 = 0).
  { rewrite Zminus_mod, En, Z.sub_diag. done. }
  replace (_ - _) with (Z.of_nat (j - i)) in Hm by lia. rewrite Z.mod_small in Hm; lia.
Qed.

Definition counters (w : sessions) : Z * Z := (sid_h w, sid_l w).

(** The counters are those of the last identifier made. *)
Lemma link_expire_counters p t w w' : link_expire p t w = Ret w' → counters w' = counters w.
Proof. unfold link_expire. repeat case_match; intros; simplify_eq; done. Qed.

Lemma link_session_counters now m id w c q w' : link_session now m id w = Ret (c, q, w') → counters w' = counters w.
Proof.
  assert (Hl : ∀ r p, (let! w' := r in Ret (SUCCESS, Some p, w')) = Ret (c, q, w') → r = Ret w').
  { intros [x| |] p; cbn; [|done..]. by intros [= _ _ ->]. }
  unfold link_session. destruct (find_line _ _ _ _) as [[l1 l2] found].
  repeat case_match; intros E; try (by simplify_eq); apply Hl, link_expire_counters in E; exact E.
Qed.

Lemma with_session_counters sp w k c w' :
  (∀ p s c w', k p s = Ret (c, w') → counters w' = counters w) → with_session sp w k = Ret (c, w') → counters w' = counters w.
Proof. intros Hk. unfold with_session. repeat case_match; intros; simplify_eq; [by eapply Hk|done]. Qed.

Lemma drop_counters p s w : counters (drop_session p s w) = counters w.
Proof. unfold drop_session. by case_match. Qed.

Lemma del_counters sp id w c w' : del_session_states sp id w = Ret (c, w') → counters w' = counters w.
Proof.
  assert (Hd : ∀ p s c w', destroy_states id p s w = Ret (c, w') → counters w' = counters w).
  { intros p s c1 w1. unfold destroy_states. case_match; intros; simplify_eq. exact (drop_counters p s (set_exp _ _ w)). }
  unfold del_session_states. repeat case_match; intros; simplify_eq; try done; by eapply Hd.
Qed.

Lemma exec_counters o w c w' : sess_step o w = Ret (c, w') → counters w' = counters w ∨ counters w' = counters (next_sid w).
Proof.
  destruct o; cbn [sess_step].
  - unfold fd_sess_new, make_sid. destruct (sid_args_valid diamid opt), (m_str m); cbn [negb res_bind]; try (intros; simplify_eq; by left).
    destruct diamid; [destruct (_ <? _)%nat; [|done]|]; cbn [res_bind];
      (destruct (link_session _ _ _ _) as [[[c1 q] w1]| |] eqn:E; [|done..]); cbn [res_bind]; intros [= <- <-];
      apply link_session_counters in E; auto.
  - intros E. left. revert E. apply with_session_counters. intros; simplify_eq; done.
  - intros E. left. revert E. apply with_session_counters. intros; simplify_eq; done.
  - intros E. left. revert E. apply with_session_counters. intros p s c1 w1. cbv beta zeta.
    destruct (walk_next _ _) as [e1 e2]. intros [= <- <-]. by case_bool_decide.
  - intros E. left. revert E. apply with_session_counters. intros p s c1 w1. apply del_counters.
  - intros E. left. revert E. apply with_session_counters. intros p s c1 w1. case_match; intros; simplify_eq; [|done].
    by rewrite drop_counters.
  - unfold fd_sess_state_store, with_handler. repeat case_match; cbn; intros; simplify_eq; by left.
  - unfold fd_sess_state_retrieve, with_handler. repeat case_match; cbn; intros; simplify_eq; by left.
  - unfold fd_sess_handler_create. destruct (m_obj m); intros [= <- <-]; by left.
  - unfold fd_sess_handler_destroy. destruct hp as [hp|]; [|intros [= <- <-]; by left]. case_match; [|done].
    destruct (take_states _ _ _ _) as [[ds H']| |]; [|done..]. intros [= <- <-]. by left.
  - unfold exp_round. repeat case_match; cbn; intros; simplify_eq; by left.
  - unfold exp_destroy. destruct (exp_thr w); [intros [= <- <-]; by left..|].
    destruct (del_session_states None sid w) as [[c1 w1]| |] eqn:E; [|done..]. apply del_counters in E.
    destruct c1; [|done..]. intros [= <- <-]. by left.
  - intros [= <- <-]. by left.
Qed.

Lemma reachable_counters w : reachable w → u32_range (sid_h w) ∧ u32_range (sid_l w).
Proof.
  induction 1 as [now|o w c w' Hr [IHh IHl] Hf E].
  - cbn. unfold u32_range, u32. split; [apply (Z.mod_pos_bound _ 4294967296); lia|lia].
  - destruct (next_sid_number w IHh IHl) as (Hh & Hl & _). apply exec_counters in E as [E|E]; unfold counters in E;
      injection E as -> ->; done.
Qed.

(** * Which steps fail *)

Definition live_session (w : sessions) (sp : option positive) : Prop := ∀ p, sp = Some p → is_Some (heap w !! p).
Definition live_handler (w : sessions) (hp : option positive) : Prop := ∀ p, hp = Some p → is_Some (handlers w !! p).

(** The pointers an operation is given are NULL or live. *)
Definition live (o : op) (w : sessions) : Prop :=
  match o with
  | Ref sp | Unref sp | SetTimeout sp _ | Destroy sp | Reclaim sp => live_session w sp
  | Store _ hp sp _ | Retrieve hp sp => live_handler w hp ∧ live_session w sp
  | DestroyHandler hp => live_handler w hp
  | _ => True
  end.

(** A session comes back to life that is in the list of expiring sessions
    already; there is no memory for the identifier of a session that expires;
    the session that expires was freed by another thread. *)
Definition asserts (o : op) (w : sessions) : Prop :=
  match o with
  | New now m diamid opt =>
      sid_args_valid diamid opt = true ∧ m_str m = true ∧
      ∃ id w1 p s, make_sid diamid opt w = Ret (id, w1) ∧ heap w !! p = Some s ∧ sid s = id ∧ is_destroyed s = true
        ∧ p ∈ exp_list w
  | ExpRound now mem_ok =>
      mem_ok = false ∧ exp_thr w = Awake ∧
      ∃ p e s, exp_list w = p :: e ∧ heap w !! p = Some s ∧ TS_IS_INFERIOR now (timeout s) = false
  | ExpDestroy => ∃ id, exp_thr w = Expires id ∧ ∀ p s, heap w !! p = Some s → sid s ≠ id
  | _ => False
  end.

Definition safe (r : res (code * sessions)) (P : Prop) : Prop := (r = Assert ↔ P) ∧ r ≠ Undef.

Lemma step_ret_safe x (P : Prop) : ¬ P → safe (Ret x) P.
Proof. intros HP. split; [|done]. by split. Qed.

Lemma safe_done x : safe (Ret x) False.
Proof. apply step_ret_safe. tauto. Qed.

Lemma safe_assert (P : Prop) : P → safe Assert P.
Proof. by split. Qed.

Lemma with_session_safe sp w k :
  live_session w sp → (∀ p s, sp = Some p → heap w !! p = Some s → ∃ x, k p s = Ret x) → safe (with_session sp w k) False.
Proof.
  intros Hl Hk. unfold with_session. destruct sp as [p|]; [|apply safe_done]. destruct (Hl p eq_refl) as [s Hp].
  rewrite Hp. destruct (Hk p s eq_refl Hp) as [x ->]. apply safe_done.
Qed.

Lemma handler_safe hp w k :
  live_handler w hp → (∀ p h, handlers w !! p = Some h → ∃ x, k p h = Ret x) → ∃ x, with_handler hp w k = Ret x.
Proof.
  intros Hl Hk. unfold with_handler. destruct hp as [p|]; [|eauto]. destruct (Hl p eq_refl) as [h Hh]. rewrite Hh. eauto.
Qed.

Lemma new_safe now m diamid opt w :
  inv w → u32_range (sid_h w) → u32_range (sid_l w) → fresh (New now m diamid opt) w →
  safe (sess_step (New now m diamid opt) w) (asserts (New now m diamid opt) w).
Proof.
  intros Hw Hh Hl Hf.
  destruct (next_sid_number w Hh Hl) as (Hh' & Hl' & _). cbn [sess_step asserts]. unfold fd_sess_new.
  destruct (sid_args_valid diamid opt); cbn [negb]; [|apply step_ret_safe; naive_solver].
  destruct (m_str m); cbn [negb]; [|apply step_ret_safe; naive_solver].
  assert (∃ id w1, make_sid diamid opt w = Ret (id, w1) ∧ inv w1 ∧ heap w1 = heap w ∧ exp_list w1 = exp_list w)
    as (id & w1 & E & Hw1 & Hh1 & He1).
  { unfold make_sid. cbv zeta. destruct diamid as [d|]; [rewrite (proj2 (Nat.ltb_lt _ _)) by (by apply sid_fits)|];
      eexists _, _; (split_and!; [reflexivity|done..]). }
  rewrite E. cbn [res_bind]. rewrite <- Hh1, <- He1. pose proof (inv_unique w1 Hw1) as Hu.
  destruct (link_session_spec now m id w1 Hw1) as
    [(Hn & _ & ->)|[(Hn & p & w2 & _ & _ & -> & _)|[(p & s & Hp & Hs & Hd & ->)|(p & s & Hp & Hs & Hd & [[Hin ->]|(Hin & w2 & -> & _)])]]].
  - rewrite Hh1. exact Hf.
  - apply step_ret_safe. intros (_ & _ & id' & w' & q & t & [= <- <-] & Hq & Ht & _). by apply (Hn q t).
  - apply step_ret_safe. intros (_ & _ & id' & w' & q & t & [= <- <-] & Hq & Ht & _). by apply (Hn q t).
  - apply step_ret_safe. intros (_ & _ & id' & w' & q & t & [= <- <-] & Hq & Ht & Hd' & _).
    assert (q = p) as -> by (apply (Hu q p t s); congruence). congruence.
  - apply safe_assert. split_and!; [done..|]. exists id, w1, p, s. done.
  - apply step_ret_safe. intros (_ & _ & id' & w' & q & t & [= <- <-] & Hq & Ht & Hd' & Hin').
    assert (q = p) as -> by (apply (Hu q p t s); congruence). done.
Qed.

Lemma round_safe now mem_ok w : inv w → safe (sess_step (ExpRound now mem_ok) w) (asserts (ExpRound now mem_ok) w).
Proof.
  intros Hw. cbn [sess_step asserts]. unfold exp_round. destruct (exp_thr w); [|apply step_ret_safe; naive_solver..].
  destruct (exp_list w) as [|p e] eqn:Ee; [apply step_ret_safe; naive_solver|].
  destruct (ex_live _ _ (iv_exp _ _ _ _ _ _ Hw) p) as [t Ht]; [rewrite Ee; set_solver|].
  rewrite lookup_fmap in Ht. destruct (heap w !! p) as [s|] eqn:Hp; [|done]. destruct (TS_IS_INFERIOR _ _) eqn:Ei.
  - apply step_ret_safe. intros (_ & _ & q & e' & x & [= <- <-] & Hq & Hx). congruence.
  - destruct mem_ok; [apply step_ret_safe; naive_solver|]. apply safe_assert. split_and!; [done..|]. by exists p, e, s.
Qed.

Lemma expire_safe w : inv w → safe (sess_step ExpDestroy w) (asserts ExpDestroy w).
Proof.
  intros Hw. cbn [sess_step asserts]. destruct (exp_thr w) as [|u|id] eqn:Et;
    [unfold exp_destroy; rewrite Et; apply step_ret_safe; naive_solver..|].
  pose proof (expiry_refines w id Hw Et) as He. pose proof (inv_unique w Hw) as Hu.
  destruct (abs w !! id) as [a|] eqn:Ea.
  - destruct He as (w' & -> & _). apply step_ret_safe. intros (id' & [= <-] & Hn).
    apply sid_lookup in Ea as (p & s & Hp & Hs & _); [|done]. by apply (Hn p s).
  - rewrite He. apply safe_assert. exists id. split; [done|]. intros p s Hp Hs. unfold abs in Ea.
    rewrite <- Hs, (abs_some _ _ _ _ Hu Hp) in Ea. done.
Qed.

(** One call at a time. *)
Lemma call_safe (w : sessions) (o : op) :
  inv w → u32_range (sid_h w) → u32_range (sid_l w) → fresh o w → live o w → safe (sess_step o w) (asserts o w).
Proof.
  intros Hw Hh1 Hl1 Hf Hl. destruct o.
  - by apply new_safe.
  - apply with_session_safe; [done|eauto].
  - apply with_session_safe; [done|eauto].
  - apply with_session_safe; [done|]. intros p s _ Hp. cbv beta zeta. destruct (walk_next _ _). eauto.
  - apply with_session_safe; [done|]. intros p s -> Hp. cbn [del_session_states]. rewrite Hp.
    destruct (destroy_states_ret w p s (sid s) Hw Hp) as (cs & cnt & _ & ->). eauto.
  - apply with_session_safe; [done|]. intros p s _ Hp. cbv beta. destruct (states s); eauto.
  - destruct Hl as [Hh Hs]. cbn [sess_step asserts]. unfold fd_sess_state_store.
    edestruct (handler_safe hp w) as [[[c z] w'] E]; [exact Hh| |rewrite E; apply safe_done].
    intros q h Hq. destruct sp as [p|]; [|eauto]. destruct (Hs p eq_refl) as [s Hp]. rewrite Hp.
    destruct (is_destroyed s), mem_ok; cbn [negb]; eauto. destruct (walk_next _ _) as [l1 l2]. case_match; eauto.
  - destruct Hl as [Hh Hs]. cbn [sess_step asserts]. unfold fd_sess_state_retrieve.
    edestruct (handler_safe hp w) as [[[c z] w'] E]; [exact Hh| |rewrite E; apply safe_done].
    intros q h Hq. destruct sp as [p|]; [|eauto]. destruct (Hs p eq_refl) as [s Hp]. rewrite Hp.
    destruct (retrieve_loop _ _ _) as [[[l1 st] l2]|]; [|eauto]. case_bool_decide; eauto.
  - cbn [sess_step asserts]. destruct (fd_sess_handler_create _ _ _ _) as [[c q] w']. apply safe_done.
  - cbn [sess_step asserts]. destruct hp as [hp|]; [|apply safe_done]. destruct (Hl hp eq_refl) as [h Hh].
    destruct (drop_handler_refines w hp h Hw Hh) as (w' & cs & -> & _). apply safe_done.
  - by apply round_safe.
  - by apply expire_safe.
  - apply safe_done.
Qed.

(** * When a session is freed *)

Lemma insert_stays (H : gmap positive session) p q s : is_Some (H !! p) → is_Some (<[q := s]> H !! p).
Proof. intros [x Hx]. destruct (decide (q = p)) as [->|]; [rewrite lookup_insert_eq|rewrite lookup_insert_ne by done]; eauto. Qed.

#[local] Hint Resolve insert_stays : sess.

Lemma drop_stays w q s p :
  heap w !! q = Some s → is_Some (heap w !! p) →
  is_Some (heap (drop_session q s w) !! p) ∨ (p = q ∧ msg_cnt s = 0).
Proof.
  intros Hq Hp. unfold drop_session. destruct (Z.eqb_spec (msg_cnt s) 0); cbn; [|eauto with sess].
  destruct (decide (p = q)) as [->|]; [auto|]. left. by rewrite lookup_delete_ne.
Qed.

Lemma with_session_stays sp w k c w' p s :
  heap w !! p = Some s → with_session sp w k = Ret (c, w') →
  (∀ q x, heap w !! q = Some x → k q x = Ret (c, w') → is_Some (heap w' !! p) ∨ msg_cnt s = 0) →
  is_Some (heap w' !! p) ∨ msg_cnt s = 0.
Proof.
  intros Hp E Hk. unfold with_session in E. destruct sp as [q|]; [|injection E as <- <-; eauto].
  destruct (heap w !! q) as [x|] eqn:Hq; [|done]. by eapply Hk.
Qed.

Lemma del_stays sp id w c w' p s :
  inv w → heap w !! p = Some s → del_session_states sp id w = Ret (c, w') → is_Some (heap w' !! p) ∨ msg_cnt s = 0.
Proof.
  intros Hw Hp. assert (Hd : ∀ q x, heap w !! q = Some x → destroy_states id q x w = Ret (c, w') →
    is_Some (heap w' !! p) ∨ msg_cnt s = 0).
  { intros q x Hq. destruct (destroy_states_ret w q x id Hw Hq) as (cs & cnt & _ & ->). intros [= <- <-].
    destruct (drop_stays (set_exp (unlink q (exp_list w)) cnt w) q x p Hq) as [?|[-> ?]]; [eauto|auto|right; congruence]. }
  unfold del_session_states. destruct sp as [q|].
  - destruct (heap w !! q) as [x|] eqn:Hq; [|done]. by apply Hd.
  - destruct (find_line _ _ _ _) as [[l1 l2] [q|]]; [|intros [= <- <-]; eauto].
    destruct (heap w !! q) as [x|] eqn:Hq; [|done]. by apply Hd.
Qed.

Lemma new_stays now m diamid opt w c w' p s :
  inv w → fresh (New now m diamid opt) w → heap w !! p = Some s → sess_step (New now m diamid opt) w = Ret (c, w') →
  is_Some (heap w' !! p).
Proof.
  intros Hw Hf Hp. cbn [sess_step]. unfold fd_sess_new.
  destruct (sid_args_valid diamid opt), (m_str m); cbn [negb res_bind]; try (intros [= <- <-]; by eauto).
  destruct (make_sid diamid opt w) as [[id w1]| |] eqn:E; [|done..]. cbn [res_bind].
  assert (inv w1 ∧ heap w1 = heap w) as [Hw1 Hh1].
  { unfold make_sid in E. destruct diamid; [|by injection E as <- <-]. destruct (_ <? _)%nat; [|done]. by injection E as <- <-. }
  rewrite <- Hh1 in Hp. destruct (link_session_spec now m id w1 Hw1) as
    [(_ & _ & ->)|[(_ & q & w2 & _ & _ & -> & _ & Hh & _)|[(q & x & Hq & _ & _ & ->)|(q & x & Hq & _ & _ & [[_ ->]|(_ & w2 & -> & _ & Hh & _)])]]].
  - rewrite Hh1. exact Hf.
  - intros [= <- <-]. eauto.
  - intros [= <- <-]. rewrite Hh. eauto with sess.
  - intros [= <- <-]. cbn. eauto with sess.
  - done.
  - intros [= <- <-]. rewrite Hh. eauto with sess.
Qed.

(** whatever the threads do, an object of a session is freed only by a step
    that finds that no message refers to it. *)
Theorem referenced_sessions_stay (w : sessions) (o : op) (c : code) (w' : sessions) (p : positive) (s : session) :
  reachable w → fresh o w → sess_step o w = Ret (c, w') → heap w !! p = Some s → msg_cnt s ≠ 0 → is_Some (heap w' !! p).
Proof.
  intros Hw%sess_reachable_inv Hf E Hp Hn. enough (is_Some (heap w' !! p) ∨ msg_cnt s = 0) by tauto. destruct o.
  - left. by eapply new_stays.
  - eapply with_session_stays; [done..|]. intros q x Hq [= <- <-]. cbn. eauto with sess.
  - eapply with_session_stays; [done..|]. intros q x Hq [= <- <-]. cbn. eauto with sess.
  - eapply with_session_stays; [done..|]. intros q x Hq. cbv beta zeta. destruct (walk_next _ _) as [e1 e2]. intros [= <- <-].
    left. case_bool_decide; cbn; eauto with sess.
  - eapply with_session_stays; [done..|]. intros q x Hq. by apply del_stays.
  - eapply with_session_stays; [done..|]. intros q x Hq. cbv beta. destruct (states x); intros [= <- <-]; [|eauto].
    destruct (drop_stays (set_exp (unlink q (exp_list w)) (sess_cnt w) w) q x p Hq) as [?|[-> ?]]; [eauto|auto|right; congruence].
  - left. revert E. cbn [sess_step]. unfold fd_sess_state_store, with_handler. repeat case_match; cbn; intros; simplify_eq; cbn; eauto with sess.
  - left. revert E. cbn [sess_step]. unfold fd_sess_state_retrieve, with_handler. repeat case_match; cbn; intros; simplify_eq; cbn; eauto with sess.
  - left. revert E. cbn [sess_step]. unfold fd_sess_handler_create. destruct (m_obj m); intros [= <- <-]; eauto.
  - left. revert E. cbn [sess_step]. unfold fd_sess_handler_destroy. destruct hp as [hp|]; [|intros [= <- <-]; eauto].
    destruct (handlers w !! hp) as [h|]; [|done].
    destruct (take_states_spec (handlers w) (h_id h) (all_lines w) (heap w)) as (ds & H' & -> & HH).
    + intros q. by apply all_lines_elem.
    + intros q x Hq. apply (iv_sess _ _ _ _ _ _ Hw q x Hq).
    + intros [= <- <-]. cbn. rewrite HH, Hp. case_decide; eauto.
  - left. revert E. cbn [sess_step]. unfold exp_round. repeat case_match; cbn; intros; simplify_eq; cbn; eauto.
  - revert E. cbn [sess_step]. unfold exp_destroy. destruct (exp_thr w); [intros [= <- <-]; eauto..|].
    destruct (del_session_states None sid w) as [[c1 w1]| |] eqn:E; [|done..]. destruct c1; [|done..]. intros [= <- <-].
    exact (del_stays _ _ _ _ _ _ _ Hw Hp E).
  - left. injection E as <- <-. eauto.
Qed.

(** * Runs *)

Fixpoint run (os : list op) (w : sessions) : res sessions :=
  match os with
  | [] => Ret w
  | o :: os => let! (_, w') := sess_step o w in run os w'
  end.

(** [malloc] keeps its promise all along. *)
Definition freshb (o : op) (w : sessions) : bool :=
  match o with
  | New _ (Mem _ (Some p)) _ _ => bool_decide (heap w !! p = None)
  | CreateHandler (Mem _ (Some p)) _ _ => bool_decide (handlers w !! p = None)
  | _ => true
  end.

Fixpoint fresh_run (os : list op) (w : sessions) : bool :=
  match os with
  | [] => true
  | o :: os => freshb o w && match sess_step o w with Ret (_, w') => fresh_run os w' | _ => true end
  end.

Lemma freshb_spec o w : freshb o w = true → fresh o w.
Proof.
  destruct o; cbn; try done; destruct m as [b [p|]]; cbn; [|done| |done];
    intros H%bool_decide_eq_true q [= <-]; done.
Qed.

Lemma run_reachable os w w' : reachable w → fresh_run os w = true → run os w = Ret w' → reachable w'.
Proof.
  revert w. induction os as [|o os IH]; cbn; intros w Hr Hf E; [by injection E as <-|].
  apply andb_true_iff in Hf as [Hf%freshb_spec Hfs]. destruct (sess_step o w) as [[c w1]| |] eqn:Eo; [|done..]. cbn in E.
  apply (IH w1); [|done..]. by eapply reach_step.
Qed.

(** A Session-Id, two handlers, some dates. *)
Definition sid1 : list Z * nat := (ascii_octets "nas;1;7"%string, 0%nat).
Definition sid_host : list Z * nat := (ascii_octets "aaa.example.net"%string, 0%nat).
Definition noon : timespec := Timespec 43200 0.
Definition later (n : Z) : timespec := Timespec (43200 + n) 0.
Definition obj (p : positive) : mem := Mem true (Some p).
Definition from_msg (now : timespec) (p : positive) : op := New now (obj p) None (Some sid1).
Definition start : sessions := fd_sess_init 1700000000.

(** Two handlers each store a state in the session of a message. *)
Definition two_states : list op :=
  [CreateHandler (obj 1) 10 0; CreateHandler (obj 2) 20 0; from_msg noon 7;
   Store true (Some 1%positive) (Some 7%positive) 111; Store true (Some 2%positive) (Some 7%positive) 222].

(** when two handlers keep a state in one session,
    [fd_sess_state_retrieve] does not find that of the handler created first:
    it returns NULL and the state stays, until the other one is taken out. *)
Theorem retrieve_misses_state :
  match run two_states start with
  | Ret w =>
      fd_sess_state_retrieve (Some 1%positive) (Some 7%positive) w = Ret (SUCCESS, 0, w)
      ∧ match fd_sess_state_retrieve (Some 2%positive) (Some 7%positive) w with
        | Ret (c, st, w') =>
            c = SUCCESS ∧ st = 222
            ∧ match fd_sess_state_retrieve (Some 1%positive) (Some 7%positive) w' with
              | Ret (c', st', _) => c' = SUCCESS ∧ st' = 111
              | _ => False
              end
        | _ => False
        end
  | _ => False
  end.
Proof. vm_compute. by split_and!. Qed.

(** The session of a message expires; before the thread, which has given its
    lock back, destroys it, the extension does. *)
Definition race_to_destroy : list op :=
  [from_msg noon 7; Unref (Some 7%positive); SetTimeout (Some 7%positive) (later 1);
   ExpRound (later 2) true; Destroy (Some 7%positive)].

(** if an extension destroys a session between the two steps in which the
    expiry thread finds it expired and destroys it, the thread fails its
    assertion, and with it the node. *)
Theorem expiry_thread_dies :
  match run race_to_destroy start with
  | Ret w => reachable w ∧ heap w = ∅ ∧ sess_step ExpDestroy w = Assert
  | _ => False
  end.
Proof.
  destruct (run race_to_destroy start) as [w| |] eqn:E; [|vm_compute in E; discriminate E..].
  split; [eapply run_reachable; [apply reach_init| |exact E]; by vm_compute|].
  vm_compute in E. injection E as <-. by vm_compute.
Qed.

(** The last message of a session is freed while the session expires. *)
Definition race_to_reclaim : list op :=
  [from_msg noon 7; SetTimeout (Some 7%positive) (later 1); ExpRound (later 2) true; Unref (Some 7%positive); ExpDestroy].

(** [fd_sess_reclaim_msg] gives the lock of the line back before it calls
    [fd_sess_reclaim]: if the session expires in between it is freed, and the
    call reads the freed object. *)
Theorem reclaim_after_free :
  match run race_to_reclaim start with
  | Ret w => reachable w ∧ heap w = ∅ ∧ sess_step (Reclaim (Some 7%positive)) w = Undef
  | _ => False
  end.
Proof.
  destruct (run race_to_reclaim start) as [w| |] eqn:E; [|vm_compute in E; discriminate E..].
  split; [eapply run_reachable; [apply reach_init| |exact E]; by vm_compute|].
  vm_compute in E. injection E as <-. by vm_compute.
Qed.

(** The date of a destroyed session is set; then a message with its Session-Id
    arrives. *)
Definition back_to_life : list op :=
  [from_msg noon 7; Destroy (Some 7%positive); SetTimeout (Some 7%positive) (later 60)].

(** setting the date of a session that was destroyed, but that a message
    still refers to, links it again; the next message with its Session-Id then
    fails an assertion. *)
Theorem settimeout_breaks_destroyed :
  match run back_to_life start with
  | Ret w => reachable w ∧ exp_list w = [7%positive] ∧ sess_cnt w = 0 ∧ sess_step (from_msg (later 5) 8) w = Assert
  | _ => False
  end.
Proof.
  destruct (run back_to_life start) as [w| |] eqn:E; [|vm_compute in E; discriminate E..].
  split; [eapply run_reachable; [apply reach_init| |exact E]; by vm_compute|].
  vm_compute in E. injection E as <-. by vm_compute.
Qed.

(** A message with a Session-Id arrives and is freed, as [fd_sess_reclaim_msg]
    does it. *)
Definition one_message : list op := [from_msg noon 7; Unref (Some 7%positive); Reclaim (Some 7%positive)].

Lemma empty_lists w : inv w → heap w = ∅ → (∀ i, line w i = []) ∧ exp_list w = [].
Proof.
  intros Hw Hh. split.
  - intros i. destruct (line w i) as [|p l] eqn:E; [done|].
    assert (Hin : p ∈ line w i) by (rewrite E; set_solver).
    apply (tb_linked _ _ (iv_table _ _ _ _ _ _ Hw)) in Hin as (k & Hk & _). by rewrite Hh in Hk.
  - destruct (exp_list w) as [|p e] eqn:E; [done|].
    destruct (ex_live _ _ (iv_exp _ _ _ _ _ _ Hw) p) as [t Ht]; [rewrite E; set_solver|]. by rewrite Hh in Ht.
Qed.

(** The first session. *)
Lemma link_empty now m p id w :
  (∀ i, line w i = []) → exp_list w = [] → m_obj m = Some p → id ≠ [] →
  link_session now m id w = Ret (SUCCESS, Some p,
    signal (set_exp [p] (u32 (sess_cnt w + 1)) (set_line (H_MASK (os_hash id)) [p]
      (set_heap (<[p := Session id (os_hash id) (lifetime now) [] 1 false]>) w)))).
Proof.
  intros Hl He Hm Hid. unfold link_session, find_line. rewrite Hl. cbn [walk_next]. rewrite Hm.
  destruct id as [|c id]; [done|]. unfold link_expire. cbn [exp_list set_line set_heap]. by rewrite He.
Qed.

Lemma one_message_counts w :
  reachable w → heap w = ∅ →
  ∃ w', run one_message w = Ret w' ∧ reachable w' ∧ heap w' = ∅ ∧ sess_cnt w' = u32 (sess_cnt w + 1).
Proof.
  intros Hr Hh. destruct (empty_lists w (sess_reachable_inv w Hr) Hh) as [Hl He].
  set (w1 := signal (set_exp [7%positive] (u32 (sess_cnt w + 1)) (set_line (H_MASK (os_hash (c_arg sid1))) [7%positive]
    (set_heap (<[7%positive := Session (c_arg sid1) (os_hash (c_arg sid1)) (lifetime noon) [] 1 false]>) w)))).
  set (s := Session (c_arg sid1) (os_hash (c_arg sid1)) (lifetime noon) [] 1 false).
  assert (E1 : sess_step (from_msg noon 7) w = Ret (SUCCESS, w1)).
  { change (sess_step (from_msg noon 7) w) with (let! (c, _, w') := link_session noon (obj 7) (c_arg sid1) w in Ret (c, w')).
    by rewrite (link_empty noon (obj 7) 7 (c_arg sid1) w Hl He). }
  assert (H1 : heap w1 !! 7%positive = Some s) by (apply lookup_insert_eq).
  set (w2 := set_heap (<[7%positive := set_cnt 0 s]>) w1).
  assert (E2 : sess_step (Unref (Some 7%positive)) w1 = Ret (SUCCESS, w2)).
  { cbn [sess_step]. unfold unref, with_session. by rewrite H1. }
  assert (H2 : heap w2 !! 7%positive = Some (set_cnt 0 s)) by (apply lookup_insert_eq).
  set (w3 := drop_session 7 (set_cnt 0 s) (set_exp (unlink 7 (exp_list w2)) (sess_cnt w2) w2)).
  assert (E3 : sess_step (Reclaim (Some 7%positive)) w2 = Ret (SUCCESS, w3)).
  { cbn [sess_step]. unfold fd_sess_reclaim, with_session. by rewrite H2. }
  assert (Hrun : run one_message w = Ret w3).
  { unfold one_message. cbn [run]. rewrite E1. cbn [res_bind]. rewrite E2. cbn [res_bind]. by rewrite E3. }
  exists w3. split_and!; [done| | |done].
  - refine (reach_step (Reclaim _) _ _ _ (reach_step (Unref _) _ _ _ (reach_step _ _ _ _ Hr _ E1) I E2) I E3).
    intros q [= <-]. by rewrite Hh.
  - change (heap w3) with (delete 7%positive (<[7%positive := set_cnt 0 s]> (<[7%positive := s]> (heap w)))).
    by rewrite !delete_insert_eq, Hh.
Qed.

Lemma run_app os1 os2 w : run (os1 ++ os2) w = (let! w' := run os1 w in run os2 w').
Proof.
  revert w. induction os1 as [|o os1 IH]; intros w; [done|]. cbn [app run].
  destruct (sess_step o w) as [[c w1]| |]; cbn [res_bind]; [apply IH|done..].
Qed.

(** [fd_sess_reclaim] takes a session out of the list of expiring sessions
    and leaves the counter as it is: after [n] messages that were freed there is
    no session left, and [fd_sess_getcount] says there are [n]. *)
Theorem count_drifts (n : nat) :
  ∃ w, run (concat (repeat one_message n)) start = Ret w ∧ reachable w ∧ heap w = ∅ ∧ exp_list w = []
    ∧ fd_sess_getcount w = u32 (Z.of_nat n).
Proof.
  induction n as [|n (w & E & Hr & Hh & _ & Hc)]; [exists start; split_and!; try done; apply reach_init|].
  destruct (one_message_counts w Hr Hh) as (w' & E' & Hr' & Hh' & Hc').
  exists w'. split_and!; [|done..|by apply empty_lists; [apply sess_reachable_inv|]|].
  - cbn [repeat]. rewrite repeat_cons, concat_app, run_app, E. cbn [res_bind concat]. by rewrite app_nil_r.
  - unfold fd_sess_getcount in *. rewrite Hc', Hc. unfold u32. rewrite Zplus_mod_idemp_l. f_equal. lia.
Qed.

(** * Every state *)

(** The lines of the table hold the live sessions, each once and in order, and
    no two have one Session-Id; the list of expiring sessions is ordered by date
    and has every active session; the states of a session are those of live
    handlers, in the order of their numbers; and the expiry thread does not
    sleep beyond the date of a session. *)
Definition consistent (w : sessions) : Prop :=
  (∀ i, NoDup (line w i) ∧ StronglySorted (before (key <$> heap w)) (line w i))
  ∧ (∀ p i, p ∈ line w i ↔ ∃ s, heap w !! p = Some s ∧ H_MASK (os_hash (sid s)) = i)
  ∧ (∀ p q s t, heap w !! p = Some s → heap w !! q = Some t → sid s = sid t → p = q)
  ∧ NoDup (exp_list w) ∧ StronglySorted (exp_before (timeout <$> heap w)) (exp_list w)
  ∧ (∀ p s, heap w !! p = Some s →
       (is_destroyed s = false → p ∈ exp_list w) ∧ (is_destroyed s = true → states s = [])
       ∧ StronglySorted (st_lt (handlers w)) (states s) ∧ ∀ st, st ∈ states s → is_Some (handlers w !! st_hdl st))
  ∧ (∀ u, exp_thr w = Sleeps u →
       ∀ p s, p ∈ exp_list w → heap w !! p = Some s → ∃ t, u = Some t ∧ ts_le t (timeout s)).

Lemma inv_consistent (w : sessions) : inv w → consistent w.
Proof.
  intros Hr. pose proof (inv_unique w Hr) as Hu. destruct Hr as [H1 H2 H3 H4 H5]. split_and!.
  - intros i. pose proof (tb_sorted _ _ H1 i) as Hs. split; [by eapply line_nodup|done].
  - intros p i. rewrite (tb_linked _ _ H1). split.
    + intros (k & (s & Hp & <-)%lookup_key & <-). exists s. split; [done|].
      destruct (tb_hash _ _ H1 p (key s)) as [Hk _]; [apply lookup_key; eauto|]. cbn in *. by rewrite <- Hk.
    + intros (s & Hp & <-). exists (key s). split; [apply lookup_key; eauto|].
      destruct (tb_hash _ _ H1 p (key s)) as [Hk _]; [apply lookup_key; eauto|]. by rewrite Hk.
  - exact Hu.
  - apply H2.
  - apply H2.
  - intros p s Hp. destruct (H3 p s Hp) as [A1 A2 A3 A4]. done.
  - intros u E p s Hp Hs. rewrite E in H5. cbn in H5. destruct u as [t|]; [|rewrite H5 in Hp; set_solver].
    exists t. split; [done|]. apply (H5 p); [done|]. by rewrite lookup_fmap, Hs.
Qed.

Lemma run_start os w : fresh_run os start = true → run os start = Ret w → reachable w.
Proof. intros Hf E. eapply run_reachable; [apply reach_init|exact Hf|exact E]. Qed.

(** The session of [two_states]. *)
Definition with_two_states (P : sessions → Prop) : Prop :=
  match run two_states start with Ret w => P w | _ => False end.

Lemma referenced_sessions_stay_witness :
  with_two_states (λ w, ∀ c w', sess_step (Destroy (Some 7%positive)) w = Ret (c, w') → is_Some (heap w' !! 7%positive)).
Proof.
  unfold with_two_states. destruct (run two_states start) as [w| |] eqn:E; [|vm_compute in E; discriminate E..].
  assert (Hs : ∃ s, heap w !! 7%positive = Some s ∧ msg_cnt s = 1).
  { vm_compute in E. injection E as <-. eexists. split; [by vm_compute|]. done. }
  destruct Hs as (s & Hp & Hn). intros c w' Ex.
  apply (referenced_sessions_stay w (Destroy (Some 7%positive)) c w' 7 s); [by apply (run_start two_states)|done..|]. by rewrite Hn.
Defined.

Lemma session_ids_unique_witness :
  ∃ id id', make_sid (Some sid_host) None (after 3 start) = Ret (id, after 4 start)
    ∧ make_sid (Some sid_host) None (after 5 start) = Ret (id', after 6 start) ∧ id ≠ id'.
Proof.
  apply (session_ids_unique start 3 5 sid_host sid_host None None); [|by split|lia|done|by vm_compute..].
  split; by vm_compute.
Defined.
