(* ===== verification/FdSessConc.v ===== *)
(** The sessions with several threads.  A call of FdSessions is cut where
    sessions.c gives a lock back or has not taken it yet: [fd_sess_state_store]
    checks its arguments before it takes the lock of the states, the states of
    a session that ends are called back after the lock of its line was given
    back, [fd_sess_handler_destroy] takes the lines one by one and calls back
    after the last, [fd_sess_new] has a lock of its own for the identifier.
    Between the sections of one call those of any others may run.

    A section that holds the lock of a line also takes, inside, the lock of the
    states or that of the list of expiring sessions.  The calls that take only
    one of these inner locks touch only what it protects, so each of them acts
    as if it came before or after the whole section, and the section is one
    step.  An object counts as freed from the section that unlinks it on. *)

From stdpp Require Import base list gmap sorting sets.
From Stdlib Require Import ZArith Lia.
From S2P Require Import Prelude GtpImsi FdDictionary FdDictInv FdFifo FdLoops FdRtData FdSentReq FdHash FdSessions FdSessInv FdSessMap FdSessRuns.
Open Scope Z_scope.
Open Scope sess_scope.

(** * Calls in progress *)

Inductive pending :=
| Creating (id : os0)
    (* [fd_sess_new] has its identifier, and not yet the lock of the line *)
| Storing (hp p : positive) (st : Z)
    (* [fd_sess_state_store] has checked its arguments *)
| Cleaning (thr : bool) (src : option positive) (id : os0) (sts : list state)
    (* [del_session_states], of the expiry thread if [thr], has to call back
       these states; [src] is the session that [id] is read from, if another
       thread may free it *)
| Dropping (hp : positive) (i : Z) (ds : list deleted).
    (* [fd_sess_handler_destroy] has to take the lines from [i] on, and to call
       back the states it took *)

(** [dying]: the handlers whose [eyec] is 0xdead. *)
Record conc := Conc { base : sessions; dying : gset positive; flight : list pending }.

Definition with_base (w : sessions) (c : conc) : conc := Conc w (dying c) (flight c).
Definition begins (x : pending) (w : sessions) (c : conc) : conc := Conc w (dying c) (flight c ++ [x]).
Definition goes_on (i : nat) (x : pending) (w : sessions) (c : conc) : conc := Conc w (dying c) (<[i := x]> (flight c)).
Definition ends_call (i : nat) (w : sessions) (c : conc) : conc := Conc w (dying c) (delete i (flight c)).

Definition conc_init (now : Z) : conc := Conc (fd_sess_init now) ∅ [].

(** * Sections *)

(** [fd_sess_new], before the lock of the line. *)
Definition new_start (str_ok : bool) (diamid opt : option (list Z * nat)) (c : conc) : res (code * conc) :=
  if negb (sid_args_valid diamid opt) then Ret (EINVAL, c)
  else if negb str_ok then Ret (ENOMEM, c)
  else let! (id, w) := make_sid diamid opt (base c) in Ret (SUCCESS, begins (Creating id) w c).

Definition new_link (now : timespec) (m : mem) (i : nat) (c : conc) : res (code * conc) :=
  match flight c !! i with
  | Some (Creating id) => let! (r, _, w) := link_session now m id (base c) in Ret (r, ends_call i w c)
  | _ => Ret (SUCCESS, c)
  end.

(** [VALIDATE_SH]. *)
Definition handler_valid (hp : option positive) (c : conc) : res bool :=
  match hp with
  | None => Ret false
  | Some hp => match handlers (base c) !! hp with
               | Some _ => Ret (negb (bool_decide (hp ∈ dying c)))
               | None => Undef
               end
  end.

(** [fd_sess_state_store], before the lock. *)
Definition store_start (hp sp : option positive) (st : Z) (c : conc) : res (code * conc) :=
  let! ok := handler_valid hp c in
  match ok, hp, sp with
  | true, Some hp, Some p =>
      match heap (base c) !! p with
      | None => Undef
      | Some s => if is_destroyed s then Ret (EINVAL, c) else Ret (SUCCESS, begins (Storing hp p st) (base c) c)
      end
  | _, _, _ => Ret (EINVAL, c)
  end.

(** With the lock of the states; the second component is [*state]. *)
Definition store_locked (mem_ok : bool) (hp p : positive) (st : Z) (w : sessions) : res (code * Z * sessions) :=
  match handlers w !! hp, heap w !! p with
  | Some h, Some s =>
      if negb mem_ok then Ret (ENOMEM, st, w)
      else
        let (l1, l2) := walk_next (λ x, negb (st_id (handlers w) x <? h_id h)) (states s) in
        let already := match l2 with x :: _ => st_id (handlers w) x =? h_id h | [] => false end in
        if already then Ret (EALREADY, st, w)
        else Ret (SUCCESS, 0, set_heap (<[p := set_states (l1 ++ State st hp :: l2) s]>) w)
  | _, _ => Undef
  end.

Definition store_end (mem_ok : bool) (i : nat) (c : conc) : res (code * conc) :=
  match flight c !! i with
  | Some (Storing hp p st) =>
      let! (r, _, w) := store_locked mem_ok hp p st (base c) in Ret (r, ends_call i w c)
  | _ => Ret (SUCCESS, c)
  end.

(** [del_session_states] with the lock of the line: all but the callbacks. *)
Definition del_locked (p : positive) (s : session) (w : sessions) : sessions :=
  let cnt := if bool_decide (p ∈ exp_list w) then u32 (sess_cnt w - 1) else sess_cnt w in
  drop_session p s (set_exp (unlink p (exp_list w)) cnt w).

Definition destroy_start (sp : option positive) (c : conc) : res (code * conc) :=
  match sp with
  | None => Ret (EINVAL, c)
  | Some p =>
      match heap (base c) !! p with
      | None => Undef
      | Some s =>
          let src := if msg_cnt s =? 0 then None else Some p in
          Ret (SUCCESS, begins (Cleaning false src (sid s) (states s)) (del_locked p s (base c)) c)
      end
  end.

Definition is_expiry (x : pending) : bool := match x with Cleaning true _ _ _ => true | _ => false end.

(** The expiry thread has a copy of the identifier. *)
Definition exp_start (c : conc) : res (code * conc) :=
  match exp_thr (base c) with
  | Expires id =>
      if existsb is_expiry (flight c) then Ret (SUCCESS, c)
      else
        let h := os_hash id in
        let '(_, _, found) := find_line (heap (base c)) h id (line (base c) (H_MASK h)) in
        match found with
        | Some p =>
            match heap (base c) !! p with
            | Some s => Ret (SUCCESS, begins (Cleaning true None id (states s)) (del_locked p s (base c)) c)
            | None => Undef
            end
        | None => Assert
        end
  | _ => Ret (SUCCESS, c)
  end.

(** The string is still there. *)
Definition readable (src : option positive) (id : os0) (w : sessions) : bool :=
  match src with
  | Some p => match heap w !! p with Some s => bool_decide (sid s = id) | None => false end
  | None => true
  end.

(** One callback, or the end of the call. *)
Definition clean_next (i : nat) (c : conc) : res (code * conc) :=
  match flight c !! i with
  | Some (Cleaning thr src id []) => Ret (SUCCESS, ends_call i (if thr then set_thr Awake (base c) else base c) c)
  | Some (Cleaning thr src id (st :: sts)) =>
      match handlers (base c) !! st_hdl st, readable src id (base c) with
      | Some h, true =>
          Ret (SUCCESS, goes_on i (Cleaning thr src id sts)
                          (add_calls [Cleanup (h_cleanup h) (st_state st) id (h_opaque h)] (base c)) c)
      | _, _ => Undef
      end
  | _ => Ret (SUCCESS, c)
  end.

(** [fd_sess_handler_destroy]: the handler is made invalid, *)
Definition drop_start (hp : option positive) (c : conc) : res (code * conc) :=
  let! ok := handler_valid hp c in
  match ok, hp with
  | true, Some hp => Ret (SUCCESS, Conc (base c) ({[hp]} ∪ dying c) (flight c ++ [Dropping hp 0 []]))
  | _, _ => Ret (EINVAL, c)
  end.

(** its states are taken from the sessions of a line, they are called back one
    by one, and it is freed. *)
Definition drop_next (i : nat) (c : conc) : res (code * conc) :=
  match flight c !! i with
  | Some (Dropping hp n ds) =>
      match handlers (base c) !! hp with
      | None => Undef
      | Some h =>
          if n <? Z.shiftl 1 SESS_HASH_SIZE then
            let! (ds', H) := take_states (handlers (base c)) (h_id h) (line (base c) n) (heap (base c)) in
            Ret (SUCCESS, goes_on i (Dropping hp (n + 1) (ds ++ ds')) (set_heap (λ _, H) (base c)) c)
          else
            match ds with
            | d :: ds =>
                if readable (Some (d_sess d)) (d_sid d) (base c)
                then Ret (SUCCESS, goes_on i (Dropping hp n ds) (add_calls [deleted_call h d] (base c)) c)
                else Undef
            | [] =>
                Ret (SUCCESS, Conc (set_handlers (delete hp (handlers (base c))) (hdl_id (base c)) (base c))
                                (dying c ∖ {[hp]}) (delete i (flight c)))
            end
      end
  | _ => Ret (SUCCESS, c)
  end.

(** The calls that are one section. *)
Definition one_section (o : op) : bool :=
  match o with New _ _ _ _ | Store _ _ _ _ | Destroy _ | DestroyHandler _ | ExpDestroy => false | _ => true end.

Definition handler_of (o : op) : option positive := match o with Retrieve hp _ => hp | _ => None end.

Definition refused (o : op) (c : conc) : bool :=
  match handler_of o with Some hp => bool_decide (hp ∈ dying c) | None => false end.

Definition one_call (o : op) (c : conc) : res (code * conc) :=
  if negb (one_section o) then Ret (SUCCESS, c)
  else if refused o c then Ret (EINVAL, c)
  else let! (r, w) := sess_step o (base c) in Ret (r, with_base w c).

Inductive cop :=
| Call (o : op)
| NewStart (str_ok : bool) (diamid opt : option (list Z * nat))
| NewLink (now : timespec) (m : mem) (i : nat)
| StoreStart (hp sp : option positive) (st : Z)
| StoreEnd (mem_ok : bool) (i : nat)
| DestroyStart (sp : option positive)
| ExpStart
| CleanNext (i : nat)
| DropStart (hp : option positive)
| DropNext (i : nat).

Definition conc_step (o : cop) (c : conc) : res (code * conc) :=
  match o with
  | Call o => one_call o c
  | NewStart str_ok diamid opt => new_start str_ok diamid opt c
  | NewLink now m i => new_link now m i c
  | StoreStart hp sp st => store_start hp sp st c
  | StoreEnd mem_ok i => store_end mem_ok i c
  | DestroyStart sp => destroy_start sp c
  | ExpStart => exp_start c
  | CleanNext i => clean_next i c
  | DropStart hp => drop_start hp c
  | DropNext i => drop_next i c
  end.

(** * Races *)

(** The session that a section takes away, and whether its object is freed. *)
Definition takes_away (o : cop) (w : sessions) (p : positive) : Prop :=
  match o with
  | Call (Reclaim sp) => sp = Some p ∧ ∃ s, heap w !! p = Some s ∧ states s = []
  | DestroyStart sp => sp = Some p
  | ExpStart => ∃ s, heap w !! p = Some s ∧ exp_thr w = Expires (sid s)
  | _ => False
  end.

Definition frees (o : cop) (w : sessions) (p : positive) : Prop :=
  takes_away o w p ∧ ∃ s, heap w !! p = Some s ∧ msg_cnt s = 0.

(** A callback is going to be given the identifier in this object. *)
Definition borrows (x : pending) (p : positive) : Prop :=
  match x with
  | Cleaning _ src _ _ => src = Some p
  | Dropping _ _ ds => p ∈ d_sess <$> ds
  | _ => False
  end.

(** No session ends while a state is being stored in it, no object goes while a
    callback is to be given its identifier; no handler is destroyed while a
    state of it is being stored or called back. *)
Record no_race (o : cop) (c : conc) : Prop := {
  nr_store : ∀ hp p st, Storing hp p st ∈ flight c → ¬ takes_away o (base c) p;
  nr_sid : ∀ x p, x ∈ flight c → borrows x p → ¬ frees o (base c) p;
  nr_start : ∀ hp p st, Storing hp p st ∈ flight c → o ≠ DropStart (Some hp);
  nr_free : ∀ i hp n ds, o = DropNext i → flight c !! i = Some (Dropping hp n ds) →
    ∀ thr src id sts st, Cleaning thr src id sts ∈ flight c → st ∈ sts → st_hdl st ≠ hp
}.

Definition conc_fresh (o : cop) (c : conc) : Prop :=
  match o with
  | Call o => fresh o (base c)
  | NewLink _ m _ => ∀ p, m_obj m = Some p → heap (base c) !! p = None
  | _ => True
  end.

(** The states that threads reach without a race. *)
Inductive conc_reachable : conc → Prop :=
| conc_start now : conc_reachable (conc_init now)
| conc_next o c r c' :
    conc_reachable c → conc_fresh o c → no_race o c → conc_step o c = Ret (r, c') → conc_reachable c'.

(** * What the sections keep *)

(** What a call in progress relies on. *)
Definition pending_ok (w : sessions) (D : gset positive) (x : pending) : Prop :=
  match x with
  | Creating _ => True
  | Storing hp p _ => is_Some (handlers w !! hp) ∧ hp ∉ D ∧ ∃ s, heap w !! p = Some s ∧ is_destroyed s = false
  | Cleaning _ src id sts =>
      (∀ st, st ∈ sts → is_Some (handlers w !! st_hdl st)) ∧ ∀ p, src = Some p → ∃ s, heap w !! p = Some s ∧ sid s = id
  | Dropping hp i ds =>
      hp ∈ D ∧ is_Some (handlers w !! hp)
      ∧ (∀ p s st, heap w !! p = Some s → H_MASK (hash s) < i → st ∈ states s → st_hdl st ≠ hp)
      ∧ (∀ d, d ∈ ds → ∃ s, heap w !! d_sess d = Some s ∧ sid s = d_sid d)
  end.

Definition dropped (x : pending) : option positive := match x with Dropping hp _ _ => Some hp | _ => None end.

Record conc_inv (c : conc) : Prop := {
  cv_base : inv (base c);
  cv_counters : u32_range (sid_h (base c)) ∧ u32_range (sid_l (base c));
  cv_flight : ∀ x, x ∈ flight c → pending_ok (base c) (dying c) x;
  cv_drops : NoDup (omap dropped (flight c))
}.

(** What a section does to the objects, [E] being the sessions that end and [F]
    those that are freed: no handler goes, no state of a handler in [D] comes. *)
Record evolves (D : gset positive) (E F : positive → Prop) (w w' : sessions) : Prop := {
  ev_handlers : ∀ hp, is_Some (handlers w !! hp) → is_Some (handlers w' !! hp);
  ev_stays : ∀ p s, heap w !! p = Some s → ¬ F p →
    ∃ s', heap w' !! p = Some s' ∧ sid s' = sid s ∧ (¬ E p → is_destroyed s = false → is_destroyed s' = false);
  ev_states : ∀ p s' st, heap w' !! p = Some s' → st ∈ states s' → st_hdl st ∈ D →
    ∃ s, heap w !! p = Some s ∧ hash s' = hash s ∧ st ∈ states s
}.

Definition nobody : positive → Prop := λ _, False.

Lemma pending_evolves D (E F : positive → Prop) w w' x :
  evolves D E F w w' → pending_ok w D x →
  (∀ hp p st, x = Storing hp p st → ¬ E p ∧ ¬ F p) → (∀ p, borrows x p → ¬ F p) → pending_ok w' D x.
Proof.
  intros [H1 H2 H3] Hx HE HF. destruct x as [id|hp p st|thr src id sts|hp i ds]; cbn in *.
  - done.
  - destruct Hx as (Hh & Hn & s & Hp & Hd). destruct (HE hp p st eq_refl) as [HEp HFp]. split_and!; [auto|done|].
    destruct (H2 p s Hp HFp) as (s' & Hp' & _ & Hd'). eauto.
  - destruct Hx as [Hh Hs]. split; [auto|]. intros p ->. destruct (Hs p eq_refl) as (s & Hp & <-).
    destruct (H2 p s Hp (HF p eq_refl)) as (s' & Hp' & Hid & _). eauto.
  - destruct Hx as (Hd & Hh & Hl & Hs). split_and!; [done|auto| |].
    + intros p s' st Hp Hi Hst <-. destruct (H3 p s' st Hp Hst Hd) as (s & Hp0 & Hh0 & Hst0).
      rewrite Hh0 in Hi. by apply (Hl p s st).
    + intros d Hin. destruct (Hs d Hin) as (s & Hp & <-).
      destruct (H2 _ s Hp) as (s' & Hp' & Hid & _); [|eauto]. apply HF, list_elem_of_fmap. eauto.
Qed.

Lemma evolves_same D w w' : heap w' = heap w → handlers w' = handlers w → evolves D nobody nobody w w'.
Proof. intros Hh Hs. split; rewrite ?Hh, ?Hs; naive_solver. Qed.

Lemma evolves_update D w w' p s s' :
  heap w !! p = Some s → heap w' = <[p := s']> (heap w) → handlers w' = handlers w → key s' = key s →
  (is_destroyed s = false → is_destroyed s' = false) → (∀ st, st ∈ states s' → st_hdl st ∈ D → st ∈ states s) →
  evolves D nobody nobody w w'.
Proof.
  intros Hp Hh Hs Hk Hd Hst. injection Hk as Hk1 Hk2. split; rewrite ?Hh, ?Hs; [done| |].
  - intros q x Hq _. destruct (decide (q = p)) as [->|]; [rewrite lookup_insert_eq|rewrite lookup_insert_ne by done; eauto].
    assert (x = s) as -> by congruence. eauto.
  - intros q x st. destruct (decide (q = p)) as [->|]; [rewrite lookup_insert_eq|rewrite lookup_insert_ne by done; eauto].
    intros [= <-] Hin HD. exists s. auto.
Qed.

Lemma evolves_drop D w p s cnt (E F : positive → Prop) :
  heap w !! p = Some s → E p → (msg_cnt s = 0 → F p) →
  evolves D E F w (drop_session p s (set_exp (unlink p (exp_list w)) cnt w)).
Proof.
  intros Hp HE HF. unfold drop_session. destruct (Z.eqb_spec (msg_cnt s) 0) as [Hz|Hz];
    split; cbn [heap handlers set_heap set_exp set_line]; try done.
  - intros q x Hq HFq. rewrite lookup_delete_ne; [eauto|]. intros <-. auto.
  - intros q x st [_ Hq]%lookup_delete_Some. eauto.
  - intros q x Hq HFq. destruct (decide (q = p)) as [->|]; [rewrite lookup_insert_eq|rewrite lookup_insert_ne by done; eauto].
    assert (x = s) as -> by congruence. eexists. split_and!; [done..|]. done.
  - intros q x st. destruct (decide (q = p)) as [->|]; [rewrite lookup_insert_eq|rewrite lookup_insert_ne by done; eauto].
    intros [= <-]. set_solver.
Qed.

Lemma evolves_weaken D (E F : positive → Prop) w w' : evolves D nobody nobody w w' → evolves D E F w w'.
Proof. intros [H1 H2 H3]. split; [done| |done]. intros p s Hp _. destruct (H2 p s Hp) as (s' & ? & ? & Hd); [tauto|]. naive_solver. Qed.

(** A step whose calls in progress are those from before or in order by themselves. *)
Lemma conc_inv_step o c w' l' :
  conc_inv c → no_race o c → evolves (dying c) (takes_away o (base c)) (frees o (base c)) (base c) w' →
  inv w' → u32_range (sid_h w') ∧ u32_range (sid_l w') →
  (∀ x, x ∈ l' → x ∈ flight c ∨ pending_ok w' (dying c) x) → NoDup (omap dropped l') → conc_inv (Conc w' (dying c) l').
Proof.
  intros [C1 C2 C3 C4] [N1 N2 _ _] Hev Hi Hc Hl Hn. split; cbn; [done..| |done].
  intros x Hx. destruct (Hl x Hx) as [Hin|Hok]; [|done]. eapply pending_evolves; [done|by apply C3| |].
  - intros hp p st ->. specialize (N1 hp p st Hin). split; [done|]. intros [? _]. done.
  - intros p Hb. by apply (N2 x p).
Qed.

Lemma drops_app c x : NoDup (omap dropped (flight c)) → dropped x = None → NoDup (omap dropped (flight c ++ [x])).
Proof. intros Hn Hx. rewrite omap_app. cbn. rewrite Hx. by rewrite app_nil_r. Qed.

Lemma drops_delete c i : NoDup (omap dropped (flight c)) → NoDup (omap dropped (delete i (flight c))).
Proof.
  intros Hn. eapply sublist_NoDup; [exact Hn|]. clear Hn. revert i. induction (flight c) as [|x l IH]; intros [|i]; cbn.
  - done.
  - done.
  - destruct (dropped x); [by apply sublist_cons|done].
  - destruct (dropped x); [apply sublist_skip|]; apply IH.
Qed.

Lemma drops_insert c i x y :
  flight c !! i = Some y → dropped x = dropped y → omap dropped (<[i := x]> (flight c)) = omap dropped (flight c).
Proof.
  revert i. induction (flight c) as [|z l IH]; intros [|i]; cbn; [done..| |].
  - intros [= ->] ->. done.
  - intros Hy Hd. destruct (dropped z); [f_equal|]; by apply IH.
Qed.

(** Objects and handlers as they were. *)
Lemma conc_inv_same o c w' l' :
  conc_inv c → no_race o c → heap w' = heap (base c) → handlers w' = handlers (base c) →
  inv w' → u32_range (sid_h w') ∧ u32_range (sid_l w') →
  (∀ x, x ∈ l' → x ∈ flight c ∨ pending_ok w' (dying c) x) → NoDup (omap dropped l') → conc_inv (Conc w' (dying c) l').
Proof. intros Hc Hr Hh Hs. apply (conc_inv_step o); [done..|]. by apply evolves_weaken, evolves_same. Qed.

Lemma insert_subset (l : list pending) i x y : x ∈ <[i := y]> l → x ∈ l ∨ x = y.
Proof.
  intros (j & Hj)%list_elem_of_lookup. apply list_lookup_insert_Some in Hj as [(_ & -> & _)|[_ Hj]]; [by right|].
  left. by eapply list_elem_of_lookup_2.
Qed.

Lemma app_subset (l : list pending) x y : x ∈ l ++ [y] → x ∈ l ∨ x = y.
Proof. set_solver. Qed.

(** ** The calls of one section *)

Lemma call_evolves o c r w' :
  conc_inv c → one_section o = true → refused o c = false → fresh o (base c) → sess_step o (base c) = Ret (r, w') →
  evolves (dying c) (takes_away (Call o) (base c)) (frees (Call o) (base c)) (base c) w'.
Proof.
  intros [Hw _ _ _] Ho Hr Hf. set (w := base c) in *.
  assert (Hs : ∀ sp k, with_session sp w k = Ret (r, w') →
    (∀ p s, sp = Some p → heap w !! p = Some s → k p s = Ret (r, w') → evolves (dying c) (takes_away (Call o) w) (frees (Call o) w) w w') →
    evolves (dying c) (takes_away (Call o) w) (frees (Call o) w) w w').
  { intros sp k E Hk. unfold with_session in E. destruct sp as [p|]; [|injection E as <- <-; by apply evolves_weaken, evolves_same].
    destruct (heap w !! p) as [s|] eqn:Hp; [|done]. by eapply Hk. }
  destruct o; try done; cbn [sess_step].
  - intros E. eapply Hs; [exact E|]. intros p s _ Hp [= <- <-]. by eapply evolves_weaken, evolves_update.
  - intros E. eapply Hs; [exact E|]. intros p s _ Hp [= <- <-]. by eapply evolves_weaken, evolves_update.
  - intros E. eapply Hs; [exact E|]. intros p s _ Hp. cbv beta zeta. destruct (walk_next _ _) as [e1 e2]. intros [= <- <-].
    case_bool_decide; by eapply evolves_weaken, evolves_update.
  - intros E. eapply Hs; [exact E|]. intros p s -> Hp. cbv beta. destruct (states s) eqn:El; intros [= <- <-];
      [|by apply evolves_weaken, evolves_same]. assert (takes_away (Call (Reclaim (Some p))) w p) by (split; eauto).
    apply evolves_drop; [done..|]. intros Hz. split; eauto.
  - unfold fd_sess_state_retrieve, with_handler. destruct hp as [hp|]; [|intros [= <- <-]; by apply evolves_weaken, evolves_same].
    destruct (handlers w !! hp) as [h|]; [|done]. destruct sp as [p|]; [|intros [= <- <-]; by apply evolves_weaken, evolves_same].
    destruct (heap w !! p) as [s|] eqn:Hp; [|done]. destruct (retrieve_loop _ _ _) as [[[l1 st] l2]|] eqn:E;
      [|intros [= <- <-]; by apply evolves_weaken, evolves_same]. apply retrieve_split in E.
    case_bool_decide; intros [= <- <-]; [|by apply evolves_weaken, evolves_same].
    eapply evolves_weaken, evolves_update; [exact Hp|done..|]. cbn. rewrite E. set_solver.
  - unfold fd_sess_handler_create. destruct (m_obj m) as [p|] eqn:Em; intros [= <- <-]; [|by apply evolves_weaken, evolves_same].
    apply evolves_weaken. split; cbn; [|naive_solver..]. intros hp Hhp. rewrite lookup_insert_is_Some'. by right.
  - unfold exp_round. repeat case_match; cbn; intros; simplify_eq; by apply evolves_weaken, evolves_same.
  - intros [= <- <-]. by apply evolves_weaken, evolves_same.
Qed.

Lemma call_keeps o c r c' :
  conc_inv c → conc_fresh (Call o) c → no_race (Call o) c → one_call o c = Ret (r, c') → conc_inv c'.
Proof.
  intros Hc Hf Hn. unfold one_call. destruct (one_section o) eqn:Ho; cbn [negb]; [|by intros [= <- <-]].
  destruct (refused o c) eqn:Hr; [by intros [= <- <-]|]. destruct (sess_step o (base c)) as [[r' w']| |] eqn:E; [|done..].
  cbn [res_bind]. intros [= <- <-]. pose proof Hc as [Hw [Hh Hl] _ Hd]. apply (conc_inv_step (Call o)); auto.
  - by eapply call_evolves.
  - by eapply exec_keeps.
  - destruct (next_sid_number (base c) Hh Hl) as (Hh' & Hl' & _). apply exec_counters in E as [E|E]; unfold counters in E;
      injection E as -> ->; done.
Qed.

(** ** Creation *)

Lemma new_start_keeps b d o c r c' :
  conc_inv c → no_race (NewStart b d o) c → new_start b d o c = Ret (r, c') → conc_inv c'.
Proof.
  intros Hc Hn. unfold new_start. destruct (sid_args_valid d o), b; cbn [negb]; try by intros [= <- <-].
  pose proof Hc as [Hw [Hh Hl] _ Hd]. destruct (next_sid_number (base c) Hh Hl) as (Hh' & Hl' & _).
  destruct (make_sid d o (base c)) as [[id w]| |] eqn:E; [|done..]. cbn [res_bind]. intros [= <- <-].
  assert (w = base c ∨ w = next_sid (base c)) as Ew.
  { unfold make_sid in E. destruct d; [destruct (_ <? _)%nat; [|done]|]; injection E as _ <-; auto. }
  apply (conc_inv_same (NewStart true d o)); [done..| | | | | |by apply drops_app].
  - by destruct Ew as [->| ->].
  - by destruct Ew as [->| ->].
  - by destruct Ew as [->| ->].
  - by destruct Ew as [->| ->].
  - intros x [Hx| ->]%app_subset; [by left|by right].
Qed.

Lemma link_evolves D now m id w r q w' :
  inv w → (∀ p, m_obj m = Some p → heap w !! p = None) → link_session now m id w = Ret (r, q, w') →
  inv w' ∧ evolves D nobody nobody w w'.
Proof.
  intros Hw Hm. destruct (link_session_spec now m id w Hw Hm) as
    [(_ & _ & ->)|[(_ & p & w2 & Em & _ & -> & Hi & Hh & Hs & _)|[(p & s & Hp & _ & _ & ->)|(p & s & Hp & _ & Hd & [[_ ->]|(_ & w2 & -> & Hi & Hh & Hs & _)])]]].
  - intros [= <- <- <-]. split; [done|by apply evolves_same].
  - intros [= <- <- <-]. split; [done|]. specialize (Hm p Em). split; rewrite ?Hs, ?Hh; [done| |].
    + intros x s Hx _. rewrite lookup_insert_ne by congruence. eauto.
    + intros x s st. destruct (decide (x = p)) as [->|]; [rewrite lookup_insert_eq; intros [= <-]; set_solver|].
      rewrite lookup_insert_ne by done. eauto.
  - intros [= <- <- <-]. split; [by apply cnt_keeps|]. by eapply evolves_update.
  - done.
  - intros [= <- <- <-]. split; [done|]. by eapply evolves_update.
Qed.

Lemma new_link_keeps now m i c r c' :
  conc_inv c → conc_fresh (NewLink now m i) c → no_race (NewLink now m i) c → new_link now m i c = Ret (r, c') → conc_inv c'.
Proof.
  intros Hc Hf Hn. unfold new_link. destruct (flight c !! i) as [[id| | |]|] eqn:Ei; [|by intros [= <- <-]..].
  destruct (link_session now m id (base c)) as [[[r' q] w]| |] eqn:E; [|done..]. cbn [res_bind]. intros [= <- <-].
  pose proof Hc as [Hw Hcn _ Hd]. destruct (link_evolves (dying c) _ _ _ _ _ _ _ Hw Hf E) as [Hi Hev].
  apply (conc_inv_step (NewLink now m i)); [done..|by apply evolves_weaken|done| | |by apply drops_delete].
  - apply link_session_counters in E. unfold counters in E. by injection E as -> ->.
  - intros x Hx%list_elem_of_delete_inv. by left.
Qed.

(** ** States *)

Lemma store_start_keeps hp sp st c r c' :
  conc_inv c → no_race (StoreStart hp sp st) c → store_start hp sp st c = Ret (r, c') → conc_inv c'.
Proof.
  intros Hc Hn. unfold store_start, handler_valid. destruct hp as [hp|]; [|by intros [= <- <-]].
  destruct (handlers (base c) !! hp) as [h|] eqn:Hh; [|done]. cbn [res_bind]. case_bool_decide as Hd; cbn [negb]; [by intros [= <- <-]|].
  destruct sp as [p|]; [|by intros [= <- <-]]. destruct (heap (base c) !! p) as [s|] eqn:Hp; [|done].
  destruct (is_destroyed s) eqn:Hds; [by intros [= <- <-]|]. intros [= <- <-]. pose proof Hc as [Hw Hcn _ Hdr].
  apply (conc_inv_same (StoreStart (Some hp) (Some p) st)); [done..| |by apply drops_app].
  intros x [Hx| ->]%app_subset; [by left|right]. cbn. eauto.
Qed.

(** The insertion is that of the whole call, if its check would still pass. *)
Lemma store_locked_whole mem_ok hp p s st w :
  is_Some (handlers w !! hp) → heap w !! p = Some s → is_destroyed s = false →
  store_locked mem_ok hp p st w = fd_sess_state_store mem_ok (Some hp) (Some p) st w.
Proof.
  intros [h Hh] Hp Hd. unfold store_locked, fd_sess_state_store, with_handler. by rewrite Hh, Hp, Hd.
Qed.

Lemma store_locked_evolves mem_ok hp p st w D r z w' :
  hp ∉ D → store_locked mem_ok hp p st w = Ret (r, z, w') → evolves D nobody nobody w w'.
Proof.
  intros HD. unfold store_locked. destruct (handlers w !! hp) as [h|]; [|done]. destruct (heap w !! p) as [s|] eqn:Hp; [|done].
  destruct mem_ok; cbn [negb]; [|intros [= <- <- <-]; by apply evolves_same].
  destruct (walk_next _ _) as [l1 l2] eqn:E. apply walk_next_spec in E as (E & _ & _).
  destruct (match l2 with _ :: _ => _ | [] => false end); intros [= <- <- <-]; [by apply evolves_same|].
  eapply evolves_update; [exact Hp|done..|]. cbn. rewrite E. set_solver.
Qed.

Lemma store_end_keeps mem_ok i c r c' :
  conc_inv c → no_race (StoreEnd mem_ok i) c → store_end mem_ok i c = Ret (r, c') → conc_inv c'.
Proof.
  intros Hc Hn. unfold store_end. destruct (flight c !! i) as [[|hp p st| |]|] eqn:Ei; try by intros [= <- <-].
  pose proof Hc as [Hw Hcn Hfl Hdr].
  destruct (Hfl (Storing hp p st)) as (Hh & HD & s & Hp & Hd); [by eapply list_elem_of_lookup_2|].
  destruct (store_locked mem_ok hp p st (base c)) as [[[r' z] w]| |] eqn:E; [|done..]. cbn [res_bind]. intros [= <- <-].
  pose proof (store_locked_evolves _ _ _ _ _ _ _ _ _ HD E) as Hev. rewrite (store_locked_whole _ _ _ s) in E by done.
  assert (Es : sess_step (Store mem_ok (Some hp) (Some p) st) (base c) = Ret (r', w)) by (cbn [sess_step]; by rewrite E).
  apply (conc_inv_step (StoreEnd mem_ok i)); [done..|by apply evolves_weaken| | | |by apply drops_delete].
  - by eapply (store_keeps mem_ok (Some hp) (Some p) st).
  - apply exec_counters in Es as [Ec|Ec]; unfold counters in Ec; injection Ec as -> ->; [done|].
    destruct Hcn as [H1 H2]. destruct (next_sid_number (base c) H1 H2) as (? & ? & _). done.
  - intros x Hx%list_elem_of_delete_inv. by left.
Qed.

(** ** The end of a session *)

Lemma del_locked_keeps o c p s x :
  conc_inv c → no_race o c → heap (base c) !! p = Some s → takes_away o (base c) p → dropped x = None →
  pending_ok (del_locked p s (base c)) (dying c) x → conc_inv (begins x (del_locked p s (base c)) c).
Proof.
  intros Hc Hn Hp Ht Hx Hok. pose proof Hc as [Hw Hcn _ Hdr].
  apply (conc_inv_step o); [done..| | | | |by apply drops_app].
  - apply evolves_drop; [done..|]. intros Hz. split; [done|]. eauto.
  - by apply drop_inv.
  - unfold del_locked. pose proof (drop_counters p s (set_exp (unlink p (exp_list (base c)))
      (if bool_decide (p ∈ exp_list (base c)) then u32 (sess_cnt (base c) - 1) else sess_cnt (base c)) (base c))) as E.
    unfold counters in E. by injection E as -> ->.
  - intros y [Hy| ->]%app_subset; [by left|by right].
Qed.

Lemma drop_session_handlers p s w : handlers (drop_session p s w) = handlers w.
Proof. unfold drop_session. by case_match. Qed.

Lemma destroy_start_keeps sp c r c' :
  conc_inv c → no_race (DestroyStart sp) c → destroy_start sp c = Ret (r, c') → conc_inv c'.
Proof.
  intros Hc Hn. unfold destroy_start. destruct sp as [p|]; [|by intros [= <- <-]].
  destruct (heap (base c) !! p) as [s|] eqn:Hp; [|done]. intros [= <- <-].
  apply (del_locked_keeps (DestroyStart (Some p))); [done..|]. unfold del_locked. cbn. rewrite drop_session_handlers. split.
  - apply (so_handlers _ _ _ _ (iv_sess _ _ _ _ _ _ (cv_base c Hc) p s Hp)).
  - intros q. unfold drop_session. destruct (Z.eqb_spec (msg_cnt s) 0); [done|]. intros [= <-]. cbn. rewrite lookup_insert_eq. eauto.
Qed.

Lemma exp_start_keeps c r c' : conc_inv c → no_race ExpStart c → exp_start c = Ret (r, c') → conc_inv c'.
Proof.
  intros Hc Hn. unfold exp_start. destruct (exp_thr (base c)) as [| |id] eqn:Et; [by intros [= <- <-]..|].
  destruct (existsb is_expiry (flight c)); [by intros [= <- <-]|].
  destruct (find_line _ _ _ _) as [[l1 l2] [p|]] eqn:E; [|done].
  apply (find_line_spec _ (line (base c)) _ _ _ _ (iv_table _ _ _ _ _ _ (cv_base c Hc))) in E as (s & Hp & Hid). rewrite Hp.
  intros [= <- <-]. apply (del_locked_keeps ExpStart); [done..| |done|].
  - exists s. by rewrite Hid.
  - unfold del_locked. cbn. rewrite drop_session_handlers. split; [|done].
    apply (so_handlers _ _ _ _ (iv_sess _ _ _ _ _ _ (cv_base c Hc) p s Hp)).
Qed.

Lemma clean_next_keeps i c r c' : conc_inv c → no_race (CleanNext i) c → clean_next i c = Ret (r, c') → conc_inv c'.
Proof.
  intros Hc Hn. unfold clean_next. pose proof Hc as [Hw Hcn Hfl Hdr].
  destruct (flight c !! i) as [[| |thr src id [|st sts]|]|] eqn:Ei; try by intros [= <- <-].
  - intros [= <- <-]. apply (conc_inv_same (CleanNext i)); [done..| | | | | |by apply drops_delete]; [by destruct thr..| | |].
    + destruct thr; [by apply set_thr_keeps|done].
    + by destruct thr.
    + intros x Hx%list_elem_of_delete_inv. by left.
  - destruct (handlers _ !! _) as [h|] eqn:Hh; [|done]. destruct (readable _ _ _); [|done]. intros [= <- <-].
    destruct (Hfl _ (list_elem_of_lookup_2 _ _ _ Ei)) as [Hst Hsrc].
    apply (conc_inv_same (CleanNext i)); [done..| |]; [|by rewrite (drops_insert _ _ _ _ Ei)].
    intros x [Hx| ->]%insert_subset; [by left|right]. cbn. split; [|done]. intros y Hy. apply Hst. set_solver.
Qed.

(** ** The end of a handler *)

Lemma dropped_elem c hp : hp ∈ omap dropped (flight c) ↔ ∃ i ds, Dropping hp i ds ∈ flight c.
Proof.
  rewrite list_elem_of_omap. split.
  - intros (x & Hx & Hd). destruct x; try done. injection Hd as ->. eauto.
  - intros (i & ds & Hx). by exists (Dropping hp i ds).
Qed.

Lemma drop_start_keeps hp c r c' :
  conc_inv c → no_race (DropStart hp) c → drop_start hp c = Ret (r, c') → conc_inv c'.
Proof.
  intros [Hw Hcn Hfl Hdr] [_ _ Hn _]. unfold drop_start, handler_valid. destruct hp as [hp|]; [|by intros [= <- <-]].
  destruct (handlers (base c) !! hp) as [h|] eqn:Hh; [|done]. cbn [res_bind].
  case_bool_decide as HD; cbn [negb]; [by intros [= <- <-]|]. intros [= <- <-]. split; cbn; [done..| |].
  - intros x [Hx| ->]%app_subset.
    + specialize (Hfl x Hx). destruct x as [id|hp' p st|thr src id sts|hp' n ds]; cbn in *; [done| |done|].
      * destruct Hfl as (? & ? & ?). split_and!; [done| |done]. specialize (Hn hp' p st Hx). set_solver.
      * destruct Hfl as (? & ?). split; [set_solver|done].
    + cbn. split_and!; [set_solver|eauto| |set_solver]. intros p s st _ Hm. pose proof (H_MASK_range (hash s)). lia.
  - rewrite omap_app. cbn. apply NoDup_app. split_and!; [done| |apply NoDup_singleton].
    intros q (n & ds & Hq)%dropped_elem. apply Hfl in Hq as [Hq _]. set_solver.
Qed.

(** Some sessions lose the states of a handler. *)
Lemma inv_others w id (P : positive → Prop) `{!∀ p, Decision (P p)} H' :
  inv w → (∀ p, H' !! p = (if decide (P p) then others (handlers w) id else λ s, s) <$> heap w !! p) →
  inv (set_heap (λ _, H') w).
Proof.
  intros [H1 H2 H3 H4 H5] HH.
  assert (Ef : ∀ {A} (f : session → A), (∀ s, f (others (handlers w) id s) = f s) → f <$> H' = f <$> heap w).
  { intros A f Hf. apply map_eq. intros p. rewrite !lookup_fmap, HH. case_decide; destruct (heap w !! p); cbn; by rewrite ?Hf. }
  split; cbn [heap handlers exp_list hdl_id exp_thr set_heap]; rewrite ?(Ef _ key), ?(Ef _ timeout) by done; try done.
  intros p s. rewrite HH. intros (x & Hx & ->)%fmap_Some. specialize (H3 p x Hx). case_decide; [|done].
  destruct H3 as [A1 A2 A3 A4]. split; cbn; [by apply others_sorted| |done|].
  - intros st [_ Hst]%list_elem_of_filter. by apply A2.
  - intros Hd. by rewrite (A4 Hd).
Qed.

Section DropLine.
Context (c : conc) (hp : positive) (h : session_handler) (n : Z) (ds : list deleted).
Context (Hc : conc_inv c) (Hh : handlers (base c) !! hp = Some h).
Context (Hok : pending_ok (base c) (dying c) (Dropping hp n ds)).

Lemma line_taken :
  ∃ ds' H', take_states (handlers (base c)) (h_id h) (line (base c) n) (heap (base c)) = Ret (ds', H')
    ∧ inv (set_heap (λ _, H') (base c)) ∧ evolves (dying c) nobody nobody (base c) (set_heap (λ _, H') (base c))
    ∧ pending_ok (set_heap (λ _, H') (base c)) (dying c) (Dropping hp (n + 1) (ds ++ ds')).
Proof using Hc Hh Hok.
  pose proof (cv_base c Hc) as Hw. pose proof (iv_table _ _ _ _ _ _ Hw) as Ht.
  assert (Hs : ∀ p s, heap (base c) !! p = Some s → StronglySorted (st_lt (handlers (base c))) (states s)).
  { intros p s Hp. apply (iv_sess _ _ _ _ _ _ Hw p s Hp). }
  destruct (take_states_spec (handlers (base c)) (h_id h) (line (base c) n) (heap (base c))) as (ds' & H' & E & HH); [|done|].
  { intros p (k & (s & Hp & _)%lookup_key & _)%(tb_linked _ _ Ht). eauto. }
  destruct (taken_spec _ _ _ _ _ _ (line_nodup _ _ (tb_sorted _ _ Ht n)) Hs E) as [_ Hin].
  assert (Hstays : ∀ p s, heap (base c) !! p = Some s → ∃ s', H' !! p = Some s' ∧ key s' = key s ∧ is_destroyed s' = is_destroyed s
    ∧ (∀ st, st ∈ states s' → st ∈ states s) ∧ (p ∈ line (base c) n → ∀ st, st ∈ states s' → st_hdl st ≠ hp)).
  { intros p s Hp. rewrite HH, Hp. cbn [fmap option_fmap option_map]. case_decide as Hl; eexists; (split; [done|]).
    - split_and!; [done..| |]; [by intros st [_ ?]%list_elem_of_filter|]. intros _ st [Hst _]%list_elem_of_filter <-.
      apply Hst. unfold st_id. by rewrite Hh.
    - by split_and!. }
  assert (Hback : ∀ p s', H' !! p = Some s' → is_Some (heap (base c) !! p)).
  { intros p s'. rewrite HH. destruct (heap (base c) !! p); [eauto|done]. }
  exists ds', H'. split_and!; [done|by eapply (inv_others _ _ (λ p, p ∈ line (base c) n))| |].
  - split; cbn; [done| |].
    + intros p s Hp _. destruct (Hstays p s Hp) as (s' & ? & Hk & Hd & _). injection Hk as _ Hk. exists s'. rewrite Hd. done.
    + intros p s' st Hp' Hst _. destruct (Hback p s' Hp') as [s Hp]. destruct (Hstays p s Hp) as (x & Hx & Hk & _ & Hsub & _).
      assert (x = s') as -> by congruence. injection Hk as Hk _. eauto.
  - destruct Hok as (HD & Hl & Hlow & Hds). cbn. split_and!; [done|done| |].
    + intros p s' st Hp' Hm Hst. destruct (Hback p s' Hp') as [s Hp]. destruct (Hstays p s Hp) as (x & Hx & Hk & _ & Hsub & Hout).
      assert (x = s') as -> by congruence. injection Hk as Hk _. rewrite Hk in Hm.
      destruct (decide (H_MASK (hash s) < n)); [by apply (Hlow p s); auto|]. apply Hout; [|done].
      apply (tb_linked _ _ Ht). exists (key s). split; [apply lookup_key; eauto|cbn; lia].
    + intros [st p i] [Hd|Hd]%elem_of_app; cbn.
      * destruct (Hds _ Hd) as (s & Hp & Hi). destruct (Hstays _ s Hp) as (s' & ? & Hk & _). injection Hk as _ Hk.
        exists s'. cbn in Hi. by rewrite Hk.
      * apply Hin in Hd as (_ & s & Hp & -> & _). destruct (Hstays _ s Hp) as (s' & ? & Hk & _). injection Hk as _ Hk. eauto.
Qed.

(** After the last line no session has a state of the handler. *)
Lemma handler_freed :
  Z.shiftl 1 SESS_HASH_SIZE ≤ n → inv (set_handlers (delete hp (handlers (base c))) (hdl_id (base c)) (base c)).
Proof using Hc Hh Hok.
  intros Hn. destruct Hok as (HD & Hl & Hlow & Hds).
  apply (inv_drop_handler (base c) hp h (heap (base c)) (cv_base c Hc) Hh). intros p.
  destruct (heap (base c) !! p) as [s|] eqn:Hp; [|done]. cbn. f_equal. unfold others. rewrite filter_none; [by destruct s|].
  apply Forall_forall. intros st Hst. pose proof (H_MASK_range (hash s)).
  assert (st_hdl st ≠ hp) as Hne by (apply (Hlow p s); [done|lia|done]).
  destruct (so_handlers _ _ _ _ (iv_sess _ _ _ _ _ _ (cv_base c Hc) p s Hp) st Hst) as [k Hk].
  intros Hid. apply Hne. apply (st_hdl_id (base c) st hp h); [apply (cv_base c Hc)|done|eauto|done].
Qed.
End DropLine.

Lemma dropped_once l i hp n ds :
  NoDup (omap dropped l) → l !! i = Some (Dropping hp n ds) → hp ∉ omap dropped (delete i l).
Proof.
  intros Hn Hi. rewrite <- (take_drop_middle l i _ Hi) in Hn. rewrite delete_take_drop. rewrite omap_app in *. cbn in Hn.
  apply NoDup_app in Hn as (_ & H1 & H2). apply NoDup_cons in H2 as [H2 _]. set_solver.
Qed.

Lemma handler_free_keeps i hp h n c :
  conc_inv c → no_race (DropNext i) c → flight c !! i = Some (Dropping hp n []) → handlers (base c) !! hp = Some h →
  Z.shiftl 1 SESS_HASH_SIZE ≤ n →
  conc_inv (Conc (set_handlers (delete hp (handlers (base c))) (hdl_id (base c)) (base c)) (dying c ∖ {[hp]}) (delete i (flight c))).
Proof.
  intros Hc [_ _ _ Hn] Hi Hh Hge. pose proof Hc as [Hw Hcn Hfl Hdr].
  pose proof (Hfl _ (list_elem_of_lookup_2 _ _ _ Hi)) as Hok. pose proof (dropped_once _ _ _ _ _ Hdr Hi) as Hone.
  specialize (Hn i hp n [] eq_refl Hi). split; cbn; [by eapply handler_freed|done| |by apply drops_delete].
  intros x Hx. pose proof (Hfl x (list_elem_of_delete_inv _ _ _ Hx)) as Hx0. destruct Hok as [HD _].
  destruct x as [id|hp' p st|thr src id sts|hp' m ds]; cbn in *.
  - done.
  - destruct Hx0 as (? & Hnd & ?). assert (hp ≠ hp') by (by intros <-). rewrite lookup_delete_ne by done. set_solver.
  - destruct Hx0 as [H1 H2]. split; [|done]. intros st Hst. rewrite lookup_delete_ne; [by apply H1|].
    intros He. eapply Hn; [by eapply list_elem_of_delete_inv|exact Hst|by symmetry].
  - destruct Hx0 as (? & H1 & H2). assert (hp ≠ hp').
    { intros <-. apply Hone, list_elem_of_omap. eexists. by split; [exact Hx|]. }
    rewrite lookup_delete_ne by done. split; [set_solver|done].
Qed.

Lemma drop_next_keeps i c r c' : conc_inv c → no_race (DropNext i) c → drop_next i c = Ret (r, c') → conc_inv c'.
Proof.
  intros Hc Hn. unfold drop_next. pose proof Hc as [Hw Hcn Hfl Hdr].
  destruct (flight c !! i) as [[| | |hp n ds]|] eqn:Ei; try by intros [= <- <-].
  pose proof (Hfl _ (list_elem_of_lookup_2 _ _ _ Ei)) as Hok.
  destruct (handlers (base c) !! hp) as [h|] eqn:Hh; [|done]. destruct (Z.ltb_spec n (Z.shiftl 1 SESS_HASH_SIZE)) as [Hlt|Hge].
  - destruct (line_taken c hp h n ds Hc Hh Hok) as (ds' & H' & -> & Hi & Hev & Hok'). cbn [res_bind]. intros [= <- <-].
    apply (conc_inv_step (DropNext i)); [done..|by apply evolves_weaken|done|done| |by rewrite (drops_insert _ _ _ _ Ei)].
    intros x [Hx| ->]%insert_subset; [by left|by right].
  - destruct ds as [|d ds]; [intros [= <- <-]; by eapply handler_free_keeps|].
    destruct (readable _ _ _); [|done]. intros [= <- <-].
    apply (conc_inv_same (DropNext i)); [done..| |by rewrite (drops_insert _ _ _ _ Ei)].
    intros x [Hx| ->]%insert_subset; [by left|right]. destruct Hok as (? & ? & ? & Hds). cbn. split_and!; [done..|].
    intros d' Hd. apply Hds. set_solver.
Qed.

Lemma conc_step_keeps o c r c' :
  conc_inv c → conc_fresh o c → no_race o c → conc_step o c = Ret (r, c') → conc_inv c'.
Proof.
  destruct o; cbn [conc_step]; intros Hc Hf Hn E.
  - by eapply call_keeps.
  - by eapply new_start_keeps.
  - by eapply new_link_keeps.
  - by eapply store_start_keeps.
  - by eapply store_end_keeps.
  - by eapply destroy_start_keeps.
  - by eapply exp_start_keeps.
  - by eapply clean_next_keeps.
  - by eapply drop_start_keeps.
  - by eapply drop_next_keeps.
Qed.

Lemma conc_reachable_inv c : conc_reachable c → conc_inv c.
Proof.
  induction 1 as [now|o c r c' Hr IH Hf Hn E]; [|by eapply conc_step_keeps].
  split; cbn; [apply init_inv| |set_solver|constructor]. unfold u32_range, u32.
  split; [apply (Z.mod_pos_bound _ 4294967296); lia|lia].
Qed.

(** * Every state *)



(** ** Which sections fail *)

Definition conc_live (o : cop) (c : conc) : Prop :=
  match o with
  | Call o => live o (base c)
  | StoreStart hp sp _ => live_handler (base c) hp ∧ live_session (base c) sp
  | DestroyStart sp => live_session (base c) sp
  | DropStart hp => live_handler (base c) hp
  | _ => True
  end.

(** A session comes back to life that is in the list of expiring sessions; there
    is no memory for an identifier; the session that expires was freed. *)
Definition conc_asserts (o : cop) (c : conc) : Prop :=
  match o with
  | Call o => one_section o = true ∧ asserts o (base c)
  | NewLink now m i =>
      ∃ id p s, flight c !! i = Some (Creating id) ∧ heap (base c) !! p = Some s ∧ sid s = id ∧ is_destroyed s = true
        ∧ p ∈ exp_list (base c)
  | ExpStart =>
      ∃ id, exp_thr (base c) = Expires id ∧ existsb is_expiry (flight c) = false
        ∧ ∀ p s, heap (base c) !! p = Some s → sid s ≠ id
  | _ => False
  end.

Definition conc_safe (r : res (code * conc)) (P : Prop) : Prop := (r = Assert ↔ P) ∧ r ≠ Undef.

Lemma conc_ret x (P : Prop) : ¬ P → conc_safe (Ret x) P.
Proof. by split. Qed.

Lemma conc_done x : conc_safe (Ret x) False.
Proof. apply conc_ret. tauto. Qed.

Lemma handler_valid_live hp c : live_handler (base c) hp → ∃ b, handler_valid hp c = Ret b.
Proof. intros Hl. unfold handler_valid. destruct hp as [hp|]; [|eauto]. destruct (Hl hp eq_refl) as [h ->]. eauto. Qed.

Lemma new_link_safe now m i c :
  conc_inv c → conc_fresh (NewLink now m i) c → conc_safe (new_link now m i c) (conc_asserts (NewLink now m i) c).
Proof.
  intros [Hw _ _ _] Hf. unfold new_link, conc_asserts.
  destruct (flight c !! i) as [[id| | |]|]; [|apply conc_ret; naive_solver..]. pose proof (inv_unique _ Hw) as Hu.
  destruct (link_session_spec now m id (base c) Hw Hf) as
    [(Hn & _ & ->)|[(Hn & p & w2 & _ & _ & -> & _)|[(p & s & Hp & Hs & Hd & ->)|(p & s & Hp & Hs & Hd & [[Hin ->]|(Hin & w2 & -> & _)])]]].
  - apply conc_ret. intros (id' & q & t & [= <-] & Hq & Ht & _). by apply (Hn q t).
  - apply conc_ret. intros (id' & q & t & [= <-] & Hq & Ht & _). by apply (Hn q t).
  - apply conc_ret. intros (id' & q & t & [= <-] & Hq & Ht & Hd' & _). assert (q = p) as -> by (apply (Hu q p t s); congruence).
    congruence.
  - split; [|done]. split; [|done]. intros _. exists id, p, s. done.
  - apply conc_ret. intros (id' & q & t & [= <-] & Hq & Ht & Hd' & Hin'). assert (q = p) as -> by (apply (Hu q p t s); congruence).
    done.
Qed.

Lemma exp_start_safe c : conc_inv c → conc_safe (exp_start c) (conc_asserts ExpStart c).
Proof.
  intros [Hw _ _ _]. unfold exp_start, conc_asserts. destruct (exp_thr (base c)) as [| |id]; [apply conc_ret; naive_solver..|].
  destruct (existsb is_expiry (flight c)); [apply conc_ret; naive_solver|]. destruct (find_line _ _ _ _) as [[l1 l2] found] eqn:E.
  apply (find_line_spec _ (line (base c)) _ _ _ _ (iv_table _ _ _ _ _ _ Hw)) in E. destruct found as [p|].
  - destruct E as (s & Hp & <-). rewrite Hp. apply conc_ret. intros (id & [= <-] & _ & Hn). by apply (Hn p s).
  - destruct E as [Hn _]. split; [|done]. split; [|done]. eauto.
Qed.

Lemma readable_ok src id w : (∀ p, src = Some p → ∃ s, heap w !! p = Some s ∧ sid s = id) → readable src id w = true.
Proof. intros H. destruct src as [p|]; [|done]. cbn. destruct (H p eq_refl) as (s & -> & ->). by rewrite bool_decide_true. Qed.

Lemma clean_next_safe i c : conc_inv c → conc_safe (clean_next i c) False.
Proof.
  intros [_ _ Hfl _]. unfold clean_next. destruct (flight c !! i) as [[| |thr src id [|st sts]|]|] eqn:Ei; try apply conc_done.
  destruct (Hfl _ (list_elem_of_lookup_2 _ _ _ Ei)) as [Hst Hsrc]. destruct (Hst st ltac:(set_solver)) as [h ->].
  rewrite readable_ok by done. apply conc_done.
Qed.

Lemma drop_next_safe i c : conc_inv c → conc_safe (drop_next i c) False.
Proof.
  intros Hc. unfold drop_next. destruct (flight c !! i) as [[| | |hp n ds]|] eqn:Ei; try apply conc_done.
  pose proof (cv_flight c Hc _ (list_elem_of_lookup_2 _ _ _ Ei)) as Hok. pose proof Hok as (_ & [h Hh] & _ & Hds). rewrite Hh.
  destruct (n <? _); [destruct (line_taken c hp h n ds Hc Hh Hok) as (ds' & H' & -> & _); apply conc_done|].
  destruct ds as [|d ds]; [apply conc_done|]. rewrite readable_ok; [apply conc_done|].
  intros p [= <-]. apply Hds. set_solver.
Qed.

(** C27: in every state that threads reach with their sections interleaved and
    without a race, a section that is given live objects touches no object that
    was freed, and it fails an assertion exactly in three cases: a session comes
    back to life while it is in the list of expiring sessions, there is no
    memory to copy an identifier, or the session that the expiry thread is about
    to destroy was freed meanwhile. *)
Theorem sessions_safe (c : conc) (o : cop) :
  conc_reachable c → conc_fresh o c → conc_live o c →
  (conc_step o c = Assert ↔ conc_asserts o c) ∧ conc_step o c ≠ Undef.
Proof.
  intros Hc%conc_reachable_inv Hf Hl. change (conc_safe (conc_step o c) (conc_asserts o c)).
  pose proof Hc as [Hw [Hh1 Hl1] Hfl _]. destruct o; cbn [conc_step].
  - cbn [conc_asserts]. unfold one_call. destruct (one_section o) eqn:Ho; cbn [negb]; [|apply conc_ret; by intros []].
    destruct (refused o c) eqn:Er.
    { apply conc_ret. intros [_ Ha]. unfold refused, handler_of in Er. by destruct o. }
    destruct (call_safe (base c) o Hw Hh1 Hl1 Hf Hl) as [Ha Hu].
    destruct (sess_step o (base c)) as [[r w]| |]; cbn [res_bind]; [apply conc_ret; naive_solver|split; [naive_solver|done]|done].
  - unfold new_start. destruct (sid_args_valid diamid opt), str_ok; cbn [negb]; try apply conc_done.
    destruct (next_sid_number (base c) Hh1 Hl1) as (Hh2 & Hl2 & _).
    assert (∃ id w, make_sid diamid opt (base c) = Ret (id, w)) as (id & w & ->); [|apply conc_done].
    unfold make_sid. cbv zeta. destruct diamid as [d|]; [rewrite (proj2 (Nat.ltb_lt _ _)) by (by apply sid_fits)|]; eauto.
  - by apply new_link_safe.
  - destruct Hl as [Hlh Hls]. unfold store_start. destruct (handler_valid_live hp c Hlh) as [[] ->]; cbn [res_bind]; [|apply conc_done].
    destruct hp as [hp|]; [|apply conc_done]. destruct sp as [p|]; [|apply conc_done]. destruct (Hls p eq_refl) as [s ->].
    destruct (is_destroyed s); apply conc_done.
  - unfold store_end. destruct (flight c !! i) as [[|hp p st| |]|] eqn:Ei; try apply conc_done.
    destruct (Hfl _ (list_elem_of_lookup_2 _ _ _ Ei)) as ([h Hh] & _ & s & Hp & Hd). unfold store_locked. rewrite Hh, Hp.
    destruct mem_ok; [|apply conc_done]. cbn [negb]. destruct (walk_next _ _) as [l1 l2]. case_match; apply conc_done.
  - unfold destroy_start. destruct sp as [p|]; [|apply conc_done]. destruct (Hl p eq_refl) as [s ->]. apply conc_done.
  - by apply exp_start_safe.
  - by apply clean_next_safe.
  - unfold drop_start. destruct (handler_valid_live hp c Hl) as [[] ->]; cbn [res_bind]; [|apply conc_done].
    destruct hp; apply conc_done.
  - by apply drop_next_safe.
Qed.

(** * Whole calls *)

Lemma race_free o c :
  (∀ p, ¬ takes_away o (base c) p) → (∀ hp, o ≠ DropStart (Some hp)) → (∀ i, o ≠ DropNext i) → no_race o c.
Proof. intros Ht Hs Hd. split; [by intros hp p st _|intros x p _ _ [? _]; by eapply Ht|by intros|]. intros i hp n ds ->. by destruct (Hd i). Qed.

Lemma race_alone o w D : no_race o (Conc w D []).
Proof.
  split; cbn; [by intros ? ? ? ?%elem_of_nil|by intros ? ? ?%elem_of_nil|by intros ? ? ? ?%elem_of_nil|].
  intros i hp n ds _ E. by rewrite lookup_nil in E.
Qed.

Lemma race_drop i w D hp n ds : no_race (DropNext i) (Conc w D [Dropping hp n ds]).
Proof.
  split; cbn; [by intros ? ? ? ?%list_elem_of_singleton|by intros x p _ _ [? _]|done|].
  by intros j hp' n' ds' _ _ thr src id sts st ?%list_elem_of_singleton.
Qed.

Lemma add_calls_nil w : add_calls [] w = w.
Proof. destruct w. unfold add_calls. cbn. by rewrite app_nil_r. Qed.

Lemma add_calls_app cs cs' w : add_calls cs' (add_calls cs w) = add_calls (cs ++ cs') w.
Proof. unfold add_calls. cbn. by rewrite app_assoc. Qed.

(** All the callbacks of a session that ended. *)
Lemma clean_all thr src id sts : ∀ w D cs,
  cleanups (handlers w) id sts = Some cs → conc_reachable (Conc w D [Cleaning thr src id sts]) →
  conc_reachable (Conc (if thr then set_thr Awake (add_calls cs w) else add_calls cs w) D []).
Proof.
  induction sts as [|st sts IH]; intros w D cs Hcs Hr.
  - injection Hcs as <-. rewrite add_calls_nil.
    apply (conc_next (CleanNext 0) _ SUCCESS _ Hr); [done|apply race_free; [by intros ? []|done..]|]. by destruct thr.
  - assert (∃ h cs', handlers w !! st_hdl st = Some h ∧ cleanups (handlers w) id sts = Some cs'
      ∧ cs = Cleanup (h_cleanup h) (st_state st) id (h_opaque h) :: cs') as (h & cs' & Hh & E & ->).
    { unfold cleanups in *. cbn in Hcs. destruct (handlers w !! st_hdl st) as [h|]; cbn in Hcs; [|done].
      destruct (mapM _ sts) as [cs'|]; cbn in Hcs; [|done]. injection Hcs as <-. eauto. }
    pose proof (cv_flight _ (conc_reachable_inv _ Hr) _ (list_elem_of_here _ _)) as [_ Hsrc]. cbn [base] in Hsrc.
    change (_ :: cs') with ([Cleanup (h_cleanup h) (st_state st) id (h_opaque h)] ++ cs'). rewrite <- add_calls_app.
    apply IH; [exact E|]. eapply (conc_next (CleanNext 0) _ SUCCESS _ Hr); [done|apply race_free; [by intros ? []|done..]|].
    cbn. by rewrite Hh, (readable_ok src id w Hsrc).
Qed.

Lemma take_states_app hs id ps qs H :
  take_states hs id (ps ++ qs) H
  = (let! (ds, H1) := take_states hs id ps H in let! (ds', H2) := take_states hs id qs H1 in Ret (ds ++ ds', H2)).
Proof.
  revert H. induction ps as [|p ps IH]; intros H; cbn [app take_states res_bind].
  - by destruct (take_states hs id qs H) as [[ds H1]| |].
  - destruct (H !! p) as [s|]; [|done]. destruct (take_state hs id (states s)) as [d l]. rewrite IH.
    destruct (take_states hs id ps _) as [[ds H1]| |]; [|done..]. cbn [res_bind].
    destruct (take_states hs id qs H1) as [[ds' H2]| |]; [|done..]. cbn. by destruct d.
Qed.

(** All the lines, *)
Lemma drop_lines hp h w D : ∀ (k : nat) n ds H ds' H',
  n + Z.of_nat k = Z.shiftl 1 SESS_HASH_SIZE → handlers w !! hp = Some h →
  take_states (handlers w) (h_id h) (mjoin (line w <$> seqZ n (Z.of_nat k))) H = Ret (ds', H') →
  conc_reachable (Conc (set_heap (λ _, H) w) D [Dropping hp n ds]) →
  conc_reachable (Conc (set_heap (λ _, H') w) D [Dropping hp (Z.shiftl 1 SESS_HASH_SIZE) (ds ++ ds')]).
Proof.
  induction k as [|k IH]; intros n ds H ds' H' Hn Hh E Hr.
  - change (Z.of_nat 0) with 0 in *. assert (n = Z.shiftl 1 SESS_HASH_SIZE) as -> by lia. injection E as <- <-.
    by rewrite app_nil_r.
  - rewrite seqZ_cons in E by lia. replace (Z.pred (Z.of_nat (S k))) with (Z.of_nat k) in E by lia. cbn [fmap list_fmap] in E.
    change (mjoin (line w n :: ?l)) with (line w n ++ mjoin l) in E. rewrite take_states_app in E.
    destruct (take_states _ _ (line w n) H) as [[d1 H1]| |] eqn:E1; [|done..]. cbn [res_bind] in E.
    change (list_fmap _ _ (line w) (seqZ (Z.succ n) (Z.of_nat k))) with (line w <$> seqZ (Z.succ n) (Z.of_nat k)) in E.
    destruct (take_states _ _ (mjoin _) H1) as [[d2 H2]| |] eqn:E2; [|done..]. injection E as <- <-. rewrite app_assoc.
    apply (IH (Z.succ n) (ds ++ d1) H1); [lia|done|exact E2|].
    eapply (conc_next (DropNext 0) _ SUCCESS _ Hr); [done|apply race_drop|]. cbn [conc_step]. unfold drop_next. cbn [flight lookup list_lookup base].
    cbn [handlers heap set_heap]. rewrite Hh. destruct (Z.ltb_spec n (Z.shiftl 1 SESS_HASH_SIZE)); [|lia].
    change (line (set_heap (λ _, H) w) n) with (line w n). rewrite E1. done.
Qed.

(** all the callbacks, and the handler is freed. *)
Lemma drop_end hp h D ds : ∀ w,
  handlers w !! hp = Some h → conc_reachable (Conc w D [Dropping hp (Z.shiftl 1 SESS_HASH_SIZE) ds]) →
  conc_reachable (Conc (add_calls (deleted_call h <$> ds) (set_handlers (delete hp (handlers w)) (hdl_id w) w)) (D ∖ {[hp]}) []).
Proof.
  induction ds as [|d ds IH]; intros w Hh Hr.
  - rewrite add_calls_nil. apply (conc_next (DropNext 0) _ SUCCESS _ Hr); [done|apply race_drop|].
    cbn [conc_step]. unfold drop_next. cbn [flight lookup list_lookup base]. rewrite Hh, Z.ltb_irrefl. done.
  - pose proof (cv_flight _ (conc_reachable_inv _ Hr) _ (list_elem_of_here _ _)) as (_ & _ & _ & Hds). cbn [base] in Hds.
    change (deleted_call h <$> d :: ds) with ([deleted_call h d] ++ (deleted_call h <$> ds)).
    apply (IH (add_calls [deleted_call h d] w)) in Hh as Hg; [|].
    + revert Hg. unfold add_calls, set_handlers. cbn. by rewrite <- app_assoc.
    + eapply (conc_next (DropNext 0) _ SUCCESS _ Hr); [done|apply race_drop|]. cbn [conc_step]. unfold drop_next.
      cbn [flight lookup list_lookup base]. rewrite Hh, Z.ltb_irrefl, readable_ok; [done|]. intros p [= <-]. apply Hds. by left.
Qed.

Lemma whole_new now m diamid opt w r w' :
  conc_reachable (Conc w ∅ []) → fresh (New now m diamid opt) w → sess_step (New now m diamid opt) w = Ret (r, w') →
  conc_reachable (Conc w' ∅ []).
Proof.
  intros Hr Hf. cbn [sess_step]. unfold fd_sess_new. destruct (sid_args_valid diamid opt) eqn:Ea; cbn [negb]; [|by intros [= <- <-]].
  destruct (m_str m) eqn:Em; cbn [negb]; [|by intros [= <- <-]]. destruct (make_sid diamid opt w) as [[id w1]| |] eqn:E; [|done..].
  cbn [res_bind]. destruct (link_session now m id w1) as [[[r' q] w2]| |] eqn:El; [|done..]. intros [= <- <-].
  assert (H1 : conc_reachable (Conc w1 ∅ [Creating id])).
  { apply (conc_next (NewStart true diamid opt) _ SUCCESS _ Hr); [done|apply race_alone|]. cbn. unfold new_start. rewrite Ea. cbn. by rewrite E. }
  apply (conc_next (NewLink now m 0) _ r' _ H1); [|apply race_free; [by intros ? []|done..]|cbn; by rewrite El].
  assert (heap w1 = heap w) as Eh; [|cbn; rewrite Eh; exact Hf].
  unfold make_sid in E. destruct diamid; [destruct (_ <? _)%nat; [|done]|]; by injection E as _ <-.
Qed.

Lemma whole_store mem_ok hp sp st w r w' :
  conc_reachable (Conc w ∅ []) → sess_step (Store mem_ok hp sp st) w = Ret (r, w') → conc_reachable (Conc w' ∅ []).
Proof.
  intros Hr E. cbn [sess_step] in E. unfold fd_sess_state_store, with_handler in E.
  destruct hp as [hp|]; [|by injection E as <- <-]. destruct (handlers w !! hp) as [h|] eqn:Hh; [|done].
  destruct sp as [p|]; [|by injection E as <- <-]. destruct (heap w !! p) as [s|] eqn:Hp; [|done].
  destruct (is_destroyed s) eqn:Hd; [by injection E as <- <-|].
  assert (H1 : conc_reachable (Conc w ∅ [Storing hp p st])).
  { apply (conc_next (StoreStart (Some hp) (Some p) st) _ SUCCESS _ Hr); [done|apply race_alone|].
    cbn [conc_step]. unfold store_start, handler_valid. cbn [base dying]. rewrite Hh. cbn. by rewrite Hp, Hd. }
  apply (conc_next (StoreEnd mem_ok 0) _ r _ H1); [done|apply race_free; [by intros ? []|done..]|].
  cbn [conc_step]. unfold store_end, store_locked. cbn [flight lookup list_lookup base]. rewrite Hh, Hp.
  destruct mem_ok; cbn [negb] in *; [|by injection E as <- <-]. destruct (walk_next _ _) as [l1 l2].
  destruct (match l2 with _ :: _ => _ | [] => false end); by injection E as <- <-.
Qed.

Lemma whole_del thr src id p s w D w' :
  (D = ∅ ∧ conc_reachable (Conc (del_locked p s w) D [Cleaning thr src id (states s)])) →
  destroy_states id p s w = Ret (SUCCESS, w') → conc_reachable (Conc (if thr then set_thr Awake w' else w') D []).
Proof.
  intros [-> Hr] E. unfold destroy_states in E. destruct (cleanups _ _ _) as [cs|] eqn:Ec; [|done]. injection E as <-.
  eapply clean_all in Hr; [exact Hr|]. unfold del_locked. by rewrite drop_session_handlers.
Qed.

Lemma destroy_states_code id p s w r w' : destroy_states id p s w = Ret (r, w') → r = SUCCESS.
Proof. unfold destroy_states. destruct (cleanups _ _ _); [|done]. by intros [= <- _]. Qed.

Lemma whole_destroy sp w r w' :
  conc_reachable (Conc w ∅ []) → sess_step (Destroy sp) w = Ret (r, w') → conc_reachable (Conc w' ∅ []).
Proof.
  intros Hr E. cbn [sess_step] in E. unfold fd_sess_destroy, with_session in E. destruct sp as [p|]; [|by injection E as <- <-].
  destruct (heap w !! p) as [s|] eqn:Hp; [|done]. cbn [del_session_states] in E. rewrite Hp in E.
  pose proof (destroy_states_code _ _ _ _ _ _ E) as ->. eapply (whole_del false); [|exact E]. split; [done|].
  apply (conc_next (DestroyStart (Some p)) _ SUCCESS _ Hr); [done|apply race_alone|].
  cbn [conc_step]. unfold destroy_start. cbn [base]. rewrite Hp. done.
Qed.

Lemma whole_expiry w r w' :
  conc_reachable (Conc w ∅ []) → sess_step ExpDestroy w = Ret (r, w') → conc_reachable (Conc w' ∅ []).
Proof.
  intros Hr E. cbn [sess_step] in E. unfold exp_destroy in E. destruct (exp_thr w) as [| |id] eqn:Et; [by injection E as <- <-..|].
  cbn [del_session_states] in E. destruct (find_line _ _ _ _) as [[l1 l2] [p|]] eqn:Ef; [|done].
  destruct (heap w !! p) as [s|] eqn:Hp; [|done]. destruct (destroy_states id p s w) as [[c w1]| |] eqn:Ed; [|done..].
  pose proof (destroy_states_code _ _ _ _ _ _ Ed) as ->. injection E as <- <-.
  eapply (whole_del true); [|exact Ed]. split; [done|].
  apply (conc_next ExpStart _ SUCCESS _ Hr); [done|apply race_alone|].
  cbn [conc_step]. unfold exp_start. cbn [base flight existsb]. rewrite Et, Ef, Hp. done.
Qed.

Lemma set_heap_id w : set_heap (λ _, heap w) w = w.
Proof. by destruct w. Qed.

Lemma whole_handler_destroy hp w r w' :
  conc_reachable (Conc w ∅ []) → sess_step (DestroyHandler hp) w = Ret (r, w') → conc_reachable (Conc w' ∅ []).
Proof.
  intros Hr E. cbn [sess_step] in E. unfold fd_sess_handler_destroy in E. destruct hp as [hp|]; [|by injection E as <- <-].
  destruct (handlers w !! hp) as [h|] eqn:Hh; [|done].
  destruct (take_states _ _ _ _) as [[ds H']| |] eqn:Et; [|done..]. injection E as <- <-.
  assert (H1 : conc_reachable (Conc w {[hp]} [Dropping hp 0 []])).
  { apply (conc_next (DropStart (Some hp)) _ SUCCESS _ Hr); [done|apply race_alone|].
    cbn [conc_step]. unfold drop_start, handler_valid. cbn [base dying flight]. rewrite Hh. cbn [res_bind].
    rewrite bool_decide_false by set_solver. cbn [negb app]. by rewrite (right_id_L ∅ (∪)). }
  assert (E0 : (∅ : gset positive) = {[hp]} ∖ {[hp]}) by set_solver. rewrite E0.
  rewrite <- (set_heap_id w) in H1. eapply (drop_lines hp h w _ (Z.to_nat (Z.shiftl 1 SESS_HASH_SIZE)) 0) in H1; [|done|done|exact Et].
  eapply drop_end in H1; [exact H1|done].
Qed.

(** The sections of a call, one after the other, are the whole call. *)
Theorem calls_are_sections (o : op) (w : sessions) (r : code) (w' : sessions) :
  conc_reachable (Conc w ∅ []) → fresh o w → sess_step o w = Ret (r, w') → conc_reachable (Conc w' ∅ []).
Proof.
  intros Hr Hf E. destruct (one_section o) eqn:Ho.
  - apply (conc_next (Call o) _ r _ Hr); [exact Hf|apply race_alone|]. cbn [conc_step]. unfold one_call. rewrite Ho. cbn [negb].
    unfold refused. cbn [dying]. destruct (handler_of o); [rewrite bool_decide_false by set_solver|]; cbn [base]; by rewrite E.
  - destruct o; try done.
    + by eapply whole_new.
    + by eapply whole_destroy.
    + by eapply whole_store.
    + by eapply whole_handler_destroy.
    + by eapply whole_expiry.
Qed.

Lemma sequential w : reachable w → conc_reachable (Conc w ∅ []).
Proof. induction 1 as [now|o w r w' Hr IH Hf E]; [apply conc_start|by eapply calls_are_sections]. Qed.

(** * Races *)

Fixpoint conc_run (os : list cop) (c : conc) : res conc :=
  match os with
  | [] => Ret c
  | o :: os => let! (_, c') := conc_step o c in conc_run os c'
  end.

Definition conc_from (os : list cop) : res conc := conc_run os (conc_init 1700000000).

(** A message brings a session; an extension has a handler and has checked the
    arguments of [fd_sess_state_store]. *)
Definition about_to_store : list cop :=
  [NewStart true None (Some sid1); NewLink noon (obj 7) 0; Call (CreateHandler (obj 1) 10 0);
   StoreStart (Some 1%positive) (Some 7%positive) 111].

(** [fd_sess_state_store] checks that the session was not destroyed before it
    takes its lock: if the session ends in between, the state is stored in a
    destroyed session, or in one that was freed. *)
Theorem store_in_destroyed_session :
  match conc_from (about_to_store ++ [DestroyStart (Some 7%positive); StoreEnd true 0]) with
  | Ret c => ∃ s, heap (base c) !! 7%positive = Some s ∧ is_destroyed s = true ∧ states s = [State 111 1]
  | _ => False
  end
  ∧ conc_from (about_to_store ++ [Call (Unref (Some 7%positive)); DestroyStart (Some 7%positive); StoreEnd true 0]) = Undef.
Proof. split; [|by vm_compute]. vm_compute. eexists. by split_and!. Qed.

(** A state is stored; the session is destroyed, and before the callback for its
    state the handler is. *)
Definition handler_goes_first : list cop :=
  about_to_store ++ [StoreEnd true 0; DestroyStart (Some 7%positive); DropStart (Some 1%positive)]
  ++ replicate 4097 (DropNext 1).

(** [del_session_states] gives its lock back before it calls the states back: if
    their handler is destroyed in between, the callback is read from a handler
    that was freed. *)
Theorem cleanup_after_free :
  match conc_from handler_goes_first with
  | Ret c => handlers (base c) = ∅ ∧ conc_step (CleanNext 0) c = Undef
  | _ => False
  end.
Proof. vm_compute. by split. Qed.

(** A handler is destroyed; it has taken its state from the session, and before
    the callback the session is freed. *)
Definition session_goes_first : list cop :=
  about_to_store ++ [StoreEnd true 0; DropStart (Some 1%positive)] ++ replicate 4096 (DropNext 0)
  ++ [Call (Unref (Some 7%positive)); DestroyStart (Some 7%positive)].

(** [fd_sess_handler_destroy] keeps a pointer to the identifier of the session,
    not a copy: if the session is freed before the callback, the callback is
    given a string that was freed. *)
Theorem sid_after_free :
  match conc_from session_goes_first with
  | Ret c => heap (base c) = ∅ ∧ conc_step (DropNext 0) c = Undef
  | _ => False
  end.
Proof. vm_compute. by split. Qed.

(** * Witnesses *)

(** Two states, and a third on its way while the session of another message is
    being created. *)
Definition on_its_way : list cop :=
  [NewStart true (Some sid_host) None; Call (CreateHandler (obj 3) 30 0); StoreStart (Some 3%positive) (Some 7%positive) 333].

Definition busy (P : conc → Prop) : Prop :=
  with_two_states (λ w, match conc_run on_its_way (Conc w ∅ []) with Ret c => P c | _ => False end).

Fixpoint quiet_run (os : list cop) (c : conc) : Prop :=
  match os with
  | [] => True
  | o :: os => conc_fresh o c ∧ no_race o c ∧ match conc_step o c with Ret (_, c') => quiet_run os c' | _ => True end
  end.

Lemma conc_run_reachable os c c' : conc_reachable c → quiet_run os c → conc_run os c = Ret c' → conc_reachable c'.
Proof.
  revert c. induction os as [|o os IH]; cbn; intros c Hr Hq E; [by injection E as <-|]. destruct Hq as (Hf & Hn & Hq).
  destruct (conc_step o c) as [[r c1]| |] eqn:Eo; [|done..]. cbn in E. apply (IH c1); [|done..]. by eapply conc_next.
Qed.

Lemma busy_reachable P : (∀ c, conc_reachable c → heap (base c) !! 7%positive ≠ None → length (flight c) = 2%nat → P c) → busy P.
Proof.
  intros HP. unfold busy, with_two_states. destruct (run two_states start) as [w| |] eqn:E; [|vm_compute in E; discriminate E..].
  destruct (conc_run on_its_way _) as [c| |] eqn:Ec; [|clear HP; vm_compute in E; injection E as <-; vm_compute in Ec; discriminate Ec..].
  assert (Hw : conc_reachable (Conc w ∅ [])) by (apply sequential; by apply (run_start two_states)).
  assert (Hr : conc_reachable c).
  { eapply conc_run_reachable; [exact Hw| |exact Ec]. vm_compute in E. injection E as <-. unfold on_its_way. cbn [quiet_run].
    split; [done|]. split; [apply race_alone|]. destruct (conc_step _ _) as [[r1 c1]| |] eqn:E1; [|done..].
    vm_compute in E1. injection E1 as <- <-. split; [intros p [= <-]; by vm_compute|]. split; [apply race_free; [by intros ? []|done..]|].
    destruct (conc_step _ _) as [[r2 c2]| |]; [|done..]. split; [done|]. split; [apply race_free; [by intros ? []|done..]|].
    by destruct (conc_step _ _) as [[r3 c3]| |]. }
  apply HP; [exact Hr| |]; clear Hr Hw; vm_compute in E; injection E as <-; vm_compute in Ec; injection Ec as <-; by vm_compute.
Qed.



Lemma sessions_safe_witness : busy (λ c, conc_step (DestroyStart (Some 7%positive)) c ≠ Undef).
Proof.
  apply busy_reachable. intros c Hr Hp _. apply (sessions_safe c (DestroyStart (Some 7%positive)) Hr); [done|].
  intros p [= <-]. by apply not_eq_None_Some.
Defined.
