(* ===== verification/FdPsm.v ===== *)
(** The peer state machine (libfdcore/p_psm.c) with what it calls: the exchange of
    capabilities and the election (p_ce.c), the watchdog (p_dw.c), disconnection
    (p_dp.c), sending (p_out.c) and failover (peers.c).

    [peer] is [struct fd_peer] with the global queues it touches; a handler is a
    function on it that may fail as the code does (CHECK_FCT: the changes made so
    far stay) or fail an ASSERT.  [psm_step] is one round of the loop of
    [p_psm_th].  The connection, its handshake and the validators of extensions
    are parameters.  Not modelled: shortage of memory and of threads, the expiry
    of idle peers, the hooks, and what a connecting thread tries. *)

From stdpp Require Import base list strings.
From Stdlib Require Import ZArith Lia.
From S2P Require Import Prelude FdDictionary FdLoops FdApps FdRtData FdMessages FdParse FdRules FdRouting FdFifo FdPeers FdSentReq FdEndpoints FdCapa FdBaseProto.
Open Scope Z_scope.

(** * Updates of a field *)

Class Update {R T : Type} (f : R → T) := update : T → R → R.

Notation "r <| f := v |>" := (update (f := f) v r)
  (at level 52, left associativity, f at next level, format "r  <| f  :=  v |>").

(** A record rebuilt from its fields, with one of them replaced. *)
Ltac replace_field rebuild f :=
  let v := fresh "v" in let r := fresh "r" in
  intros v r;
  let e := eval unfold rebuild in (rebuild r) in
  match eval pattern (f r) in e with
  | ?F _ => let t := eval cbv beta in (F v) in exact t
  end.

(** * Connections and events *)

(** What a connection reports. *)
Inductive cnx_event :=
| CNX_MSG_RECV (buf : list Z)
| CNX_ERROR
| CNX_EP_CHANGE
| CNX_SHUTDOWN.

(** [struct cnxctx]: whether TLS is on, unordered delivery is supported, and a
    handshake would succeed; the remote addresses with their flags; what was
    received before the peer owns it. *)
Record cnxctx := Cnx {
  cc_id : Z;
  cc_tls : bool;
  cc_unordered : bool;
  cc_handshake : bool;
  cc_remote : list (sockaddr * Z);
  cc_incoming : list cnx_event
}.

(** The events of a peer ([FDEVP_*]). *)
Inductive event :=
| FromCnx (e : cnx_event)
| TERMINATE (reason : option string)
| CNX_INCOMING (cer : msg) (cnx : cnxctx)
| CNX_ESTABLISHED (cnx : cnxctx)
| CNX_FAILED
| PSM_TIMEOUT.

(** A message to send: one with its AVPs, or an answer the node itself gives to a
    request of the link, known by its result code and the AVPs beside it. *)
Inductive outmsg :=
| OutMsg (m : msg)
| LinkAnswer (q : msg) (rescode : string) (avps : list avp).

(** What was handed to a connection. *)
Inductive sent :=
| Written (buf : list Z)
| Answered (q : msg) (rescode : string) (avps : list avp).

Inductive out_thread := OutNone | OutRunning | OutPurging.

#[export] Instance out_thread_eq_dec : EqDecision out_thread.
Proof. solve_decision. Defined.

(** * The peer *)

(** [struct fd_peer].  [p_timer]: the last [fd_psm_next_timeout]; [p_cb2]: the
    callback a validator left, which accepts ([true]) or not; [p_active]: it is
    in [fd_g_activ_peers], with [g_others]; [g_incoming] and [g_outgoing]: what
    it added to the global queues. *)
Record peer := Peer {
  p_state : peer_state;
  pf_responder : bool;
  pf_delete : bool;
  pf_localterm : bool;
  pf_dw_pending : bool;
  pf_cnx_pb : bool;
  pf_reopen_cnt : Z;
  p_events : list event;
  p_timer : bool * Z;
  p_tosend : list outmsg;
  p_outthr : out_thread;
  p_hbh : Z;
  p_sr : sr_list;
  p_tofailover : list outmsg;
  p_reqin_count : Z;
  p_receiver : option cnxctx;
  p_cer : option msg;
  p_ini_thr : bool;
  p_cnxctx : option cnxctx;
  p_cb2 : option (runtime → bool);
  p_sec : Z;
  p_run : runtime;
  p_eps : list fd_endpoint;
  p_active : bool;
  g_others : list os0;
  g_incoming : list msg;
  g_outgoing : list outmsg;
  g_eteid : Z;
  p_wire : list (option Z * sent)
}.

Definition rebuild (p : peer) : peer :=
  Peer (p_state p) (pf_responder p) (pf_delete p) (pf_localterm p) (pf_dw_pending p) (pf_cnx_pb p) (pf_reopen_cnt p)
    (p_events p) (p_timer p) (p_tosend p) (p_outthr p) (p_hbh p) (p_sr p) (p_tofailover p) (p_reqin_count p)
    (p_receiver p) (p_cer p) (p_ini_thr p) (p_cnxctx p) (p_cb2 p) (p_sec p) (p_run p) (p_eps p) (p_active p)
    (g_others p) (g_incoming p) (g_outgoing p) (g_eteid p) (p_wire p).

#[export] Instance set_p_state : Update p_state := ltac:(replace_field rebuild p_state).
#[export] Instance set_pf_localterm : Update pf_localterm := ltac:(replace_field rebuild pf_localterm).
#[export] Instance set_pf_dw_pending : Update pf_dw_pending := ltac:(replace_field rebuild pf_dw_pending).
#[export] Instance set_pf_cnx_pb : Update pf_cnx_pb := ltac:(replace_field rebuild pf_cnx_pb).
#[export] Instance set_pf_reopen_cnt : Update pf_reopen_cnt := ltac:(replace_field rebuild pf_reopen_cnt).
#[export] Instance set_p_events : Update p_events := ltac:(replace_field rebuild p_events).
#[export] Instance set_p_timer : Update p_timer := ltac:(replace_field rebuild p_timer).
#[export] Instance set_p_tosend : Update p_tosend := ltac:(replace_field rebuild p_tosend).
#[export] Instance set_p_outthr : Update p_outthr := ltac:(replace_field rebuild p_outthr).
#[export] Instance set_p_hbh : Update p_hbh := ltac:(replace_field rebuild p_hbh).
#[export] Instance set_p_sr : Update p_sr := ltac:(replace_field rebuild p_sr).
#[export] Instance set_p_tofailover : Update p_tofailover := ltac:(replace_field rebuild p_tofailover).
#[export] Instance set_p_reqin_count : Update p_reqin_count := ltac:(replace_field rebuild p_reqin_count).
#[export] Instance set_p_receiver : Update p_receiver := ltac:(replace_field rebuild p_receiver).
#[export] Instance set_p_cer : Update p_cer := ltac:(replace_field rebuild p_cer).
#[export] Instance set_p_ini_thr : Update p_ini_thr := ltac:(replace_field rebuild p_ini_thr).
#[export] Instance set_p_cnxctx : Update p_cnxctx := ltac:(replace_field rebuild p_cnxctx).
#[export] Instance set_p_cb2 : Update p_cb2 := ltac:(replace_field rebuild p_cb2).
#[export] Instance set_p_sec : Update p_sec := ltac:(replace_field rebuild p_sec).
#[export] Instance set_p_run : Update p_run := ltac:(replace_field rebuild p_run).
#[export] Instance set_p_eps : Update p_eps := ltac:(replace_field rebuild p_eps).
#[export] Instance set_p_active : Update p_active := ltac:(replace_field rebuild p_active).
#[export] Instance set_g_others : Update g_others := ltac:(replace_field rebuild g_others).
#[export] Instance set_g_incoming : Update g_incoming := ltac:(replace_field rebuild g_incoming).
#[export] Instance set_g_outgoing : Update g_outgoing := ltac:(replace_field rebuild g_outgoing).
#[export] Instance set_g_eteid : Update g_eteid := ltac:(replace_field rebuild g_eteid).
#[export] Instance set_p_wire : Update p_wire := ltac:(replace_field rebuild p_wire).

(** * Results *)

(** ASSERTs that can fail: the state [OPEN_HANDSHAKE] at the top of the loop, an
    AVP without the value that is read, a reason without a value, the lists of
    sent requests, and a case nobody foresaw. *)
Inductive abort := HandshakeState | NoValue | UnknownReason | SentRequests | Unforeseen.

(** [Failed]: an error code, with the changes made before. *)
Inductive outcome := Done (p : peer) | Failed (p : peer) | Aborted (why : abort).

(** CHECK_FCT. *)
Definition andthen (o : outcome) (k : peer → outcome) : outcome :=
  match o with Done p => k p | _ => o end.

Notation "'let!' p := o 'in' k" := (andthen o (λ p, k)) (at level 200, p name, right associativity).

(** CHECK_FCT_DO with nothing to do. *)
Definition ignoring (o : outcome) : outcome := match o with Failed p => Done p | _ => o end.

(** * Configuration *)

(** What a validator of an extension answers: its return code, [auth], the
    callback and the security it leaves. *)
Record verdict := Verdict { v_ret : Z; v_auth : Z; v_cb2 : option (runtime → bool); v_sec : Z }.

Record psm_config := PsmConfig {
  cnf_local : ce_config;
  pi_diamid : os0;
  pic_realm : option os0;
  pic_tctimer : Z;
  pic_twtimer : Z;
  cnf_timer_tc : Z;
  cnf_timer_tw : Z;
  pic_persist : bool;
  tls_disabled : bool;
  cnf_rr_in_answers : bool;
  validators : list (runtime → verdict);
  cnf_processing_peers_minimum : Z;
  processing_peer : os0 → bool;
  anscb_timeout : msg → option timespec
}.

Definition CNX_TIMEOUT : Z := 10.
Definition CEA_TIMEOUT : Z := 10.
Definition DPR_TIMEOUT : Z := 15.
Definition GRACE_TIMEOUT : Z := 1.
Definition INCNX_TIMEOUT : Z := 20.

Definition ACV_DC_REBOOTING : Z := 0.
Definition ACV_DC_BUSY : Z := 1.
Definition ACV_DC_NOT_FRIEND : Z := 2.

Definition ER_DIAMETER_SUCCESS : Z := 2001.
Definition ER_DIAMETER_TOO_BUSY : Z := 3004.
Definition ER_ELECTION_LOST : Z := 4003.

Definition post (ev : event) (p : peer) : peer := p <| p_events := p_events p ++ [ev] |>.

Definition next_timeout (add_random : bool) (delay : Z) (p : peer) : peer := p <| p_timer := (add_random, delay) |>.

Definition wire (c : option cnxctx) (s : sent) (p : peer) : peer :=
  p <| p_wire := p_wire p ++ [(cc_id <$> c, s)] |>.

Section Psm.
Context {D : Dictionary} {R : RuleBook} (cfg : psm_config).
Implicit Types (p : peer) (c : option cnxctx) (m : msg).

Definition tctimer : Z := if pic_tctimer cfg =? 0 then cnf_timer_tc cfg else pic_tctimer cfg.
Definition twtimer : Z := if pic_twtimer cfg =? 0 then cnf_timer_tw cfg else pic_twtimer cfg.

(** * Sending *)

(** [do_send]; the flag: no error.  A request is stored before it is handed to
    the connection. *)
Definition do_send (o : outmsg) c p : peer * bool :=
  match o with
  | LinkAnswer q rescode avps => (wire c (Answered q rescode avps) p, true)
  | OutMsg m =>
      if has_flag (msg_flags (msg_public m)) CMD_FLAG_REQUEST then
        let m' := set_hbhid (p_hbh p) m in
        let p := p <| p_hbh := u32 (p_hbh p + 1) |> in
        match fd_msg_bufferize m' with
        | Ok (buf, _) =>
            match fd_p_sr_store m' (msg_hbhid (msg_public m)) (anscb_timeout cfg m) (p_sr p) with
            | Some (sr, _) => (wire c (Written buf) (p <| p_sr := sr |>), true)
            | None => (p, false)
            end
        | _ => (p, false)
        end
      else
        match fd_msg_bufferize m with Ok (buf, _) => (wire c (Written buf) p, true) | _ => (p, false) end
  end.

(** [fd_out_send] for this peer: an error of [do_send] is only logged. *)
Definition fd_out_send (o : outmsg) c p : outcome :=
  match c, p_cnxctx p with
  | None, None => Failed p
  | _, _ =>
      if decide (p_state p = STATE_OPEN) then Done (p <| p_tosend := p_tosend p ++ [o] |>)
      else Done (do_send o (match c with Some _ => c | None => p_cnxctx p end) p).1
  end.

Definition out_routable (o : outmsg) : bool :=
  match o with OutMsg m => fd_msg_is_routable m | LinkAnswer q _ _ => fd_msg_is_routable q end.

(** One round of the thread [out_thr]; [ok]: the connection accepts the octets.
    After an error it empties the queue for the failover. *)
Definition out_thr (ok : bool) p : peer :=
  match p_outthr p, p_tosend p with
  | OutRunning, o :: rest =>
      let p := p <| p_tosend := rest |> in
      let (p, sent) := do_send o (p_cnxctx p) p in
      if ok && sent then p else post (FromCnx CNX_ERROR) p <| p_outthr := OutPurging |>
  | OutPurging, o :: rest =>
      let p := p <| p_tosend := rest |> in
      if out_routable o then p <| p_tofailover := p_tofailover p ++ [o] |> else p
  | _, _ => p
  end.

(** [fd_peer_failover_msg]. *)
Definition fd_peer_failover_msg p : outcome :=
  let requeued := filter out_routable (p_tosend p) ++ p_tofailover p in
  match fd_p_sr_failover (p_sr p) with
  | Some (msgs, sr) =>
      Done (p <| p_tosend := [] |> <| p_tofailover := [] |> <| p_sr := sr |>
              <| g_outgoing := g_outgoing p ++ requeued ++ (OutMsg <$> msgs) |>)
  | None => Aborted SentRequests
  end.

(** * States *)

Definition enter_open_state p : outcome :=
  if p_active p then Failed p
  else
    match p_cb2 p with
    | Some cb2 =>
        let p := if cb2 (p_run p) then p else post (TERMINATE (Some "DO_NOT_WANT_TO_TALK_TO_YOU"%string)) p in
        Done (p <| p_cb2 := None |>)
    | None =>
        let p := p <| p_active := true |> in
        if decide (p_outthr p = OutNone) then
          let p := p <| p_outthr := OutRunning |> in
          match p_cnxctx p with Some _ => Done p | None => Failed p end
        else Failed p
    end.

Definition leave_open_state (skip_failover : bool) p : outcome :=
  let p := p <| p_active := false |> in
  match p_cnxctx p with
  | None => Failed p
  | Some _ =>
      let p := p <| p_outthr := OutNone |> in
      if skip_failover then Done p else fd_peer_failover_msg p
  end.

Definition fd_psm_change_state (new_state : peer_state) p : outcome :=
  let old := p_state p in
  if decide (old = new_state) then Done p
  else
    let p := p <| p_state := new_state |> in
    let! p := if decide (old = STATE_OPEN)
              then leave_open_state (bool_decide (new_state = STATE_CLOSING_GRACE)) p else Done p in
    let! p := if decide (old = STATE_CLOSING_GRACE) then fd_peer_failover_msg p else Done p in
    let! p := if decide (new_state = STATE_OPEN) then enter_open_state p else Done p in
    if decide (new_state = STATE_CLOSED) then
      let p := p <| p_events := [] |> <| p_reqin_count := 0 |> in
      Done (if pic_persist cfg then p else post (TERMINATE None) p)
    else Done p.

(** [fd_p_ce_clear_cnx] without a connection to keep. *)
Definition fd_p_ce_clear_cnx p : peer := p <| p_cnxctx := None |>.

Definition fd_p_cnx_abort p : peer := p <| p_ini_thr := false |>.

Definition fd_psm_cleanup (terminate : bool) p : outcome :=
  let! p := if decide (p_state p = STATE_ZOMBIE) then Done p else ignoring (fd_psm_change_state STATE_CLOSED p) in
  let p := p <| p_sr := fd_p_sr_on_disconnect (p_sr p) |> in
  let p := fd_p_ce_clear_cnx (fd_p_cnx_abort p) <| p_receiver := None |> in
  Done (if terminate then p <| p_events := [] |> else p).

(** * Watchdog *)

Definition find_avp (code : Z) m : option avp :=
  snd <$> list_find (λ a, avp_code (data_of a) = code ∧ avp_vendor (data_of a) = 0) (msg_children m).

Definition check_state_id m p : outcome :=
  match find_avp AC_ORIGIN_STATE_ID m with
  | None => Done p
  | Some a =>
      match avp_val (data_of a) ≫= u32_of with
      | None => Aborted NoValue
      | Some n =>
          let r := p_run p in
          let p := if pir_orstate r =? 0
                   then p <| p_run := ce_run (set_orstate n (CeState r [] 0)) |> else p in
          if pir_orstate (p_run p) =? n then Done p else Failed p
      end
  end.

(** A request of the link with the AVPs given. *)
Definition link_request (code : Z) (avps : list avp) p : outmsg :=
  OutMsg (add_children avps (fd_msg_new (base_cmd true code) (g_eteid p))).

Definition next_eteid p : peer := p <| g_eteid := u32 (g_eteid p + 1) |>.

Definition send_DWR p : outcome :=
  let dwr := link_request CC_DEVICE_WATCHDOG (add_origin (cnf_local cfg) true) p in
  fd_out_send dwr None (next_eteid p <| pf_dw_pending := true |>).

Definition fd_p_dw_handle m (req : bool) p : outcome :=
  let! p := check_state_id m p in
  let! p := if req then fd_out_send (LinkAnswer m "DIAMETER_SUCCESS" (add_origin (cnf_local cfg) true)) (p_cnxctx p) p
            else Done (p <| pf_dw_pending := false |>) in
  let p := if negb req || negb (pf_dw_pending p) then next_timeout true twtimer p else p in
  if decide (p_state p = STATE_REOPEN) then
    let p := p <| pf_reopen_cnt := (pf_reopen_cnt p + 1) mod 4 |> in
    if pf_reopen_cnt p =? 0 then fd_psm_change_state STATE_OPEN p else send_DWR p
  else Done p.

Definition fd_p_dw_timeout p : outcome :=
  if pf_dw_pending p then
    let! p := fd_psm_change_state STATE_SUSPECT p in
    Done (next_timeout false (2 * twtimer) p)
  else
    let! p := send_DWR p in
    Done (next_timeout false twtimer p).

Definition fd_p_dw_reopen p : outcome :=
  send_DWR (p <| pf_reopen_cnt := 1 |> <| pf_cnx_pb := false |>).

(** * Disconnection *)

Definition fd_p_dp_newdelay p : Z :=
  let dc := pir_lastDC (p_run p) in
  if dc =? ACV_DC_BUSY then tctimer * 10 else if dc =? ACV_DC_NOT_FRIEND then tctimer * 200 else tctimer.

Definition set_lastDC (dc : Z) p : peer :=
  let r := p_run p in
  p <| p_run := Runtime (pir_realm r) (pir_vendorid r) (pir_orstate r) (pir_prodname r) (pir_firmrev r) (pir_relay r)
                  (pir_apps r) (pir_isi r) dc |>.

(** [fd_peer_get_load_pending]: there is something to receive or to send. *)
Definition load_pending p : bool := negb ((sr_cnt (p_sr p) =? 0) && (p_reqin_count p =? 0)).

Definition fd_p_dp_handle m (req : bool) p : outcome :=
  if req then
    let! p := match find_avp AC_DISCONNECT_CAUSE m with
              | None => Done p
              | Some a => match avp_val (data_of a) ≫= u32_of with
                          | Some dc => Done (set_lastDC dc p)
                          | None => Aborted NoValue
                          end
              end in
    let dpa := LinkAnswer m "DIAMETER_SUCCESS" (add_origin (cnf_local cfg) false) in
    if load_pending p then
      let! p := fd_psm_change_state STATE_CLOSING_GRACE p in
      fd_out_send dpa None (next_timeout false GRACE_TIMEOUT p)
    else
      let! p := fd_psm_change_state STATE_CLOSING p in
      let! p := fd_out_send dpa None p in
      let! p := fd_psm_cleanup false p in
      Done (next_timeout true (fd_p_dp_newdelay p) p)
  else if load_pending p then Done (next_timeout false GRACE_TIMEOUT p <| pf_localterm := true |>)
  else fd_psm_change_state STATE_CLOSING p.

(** The values of the type of Disconnect-Cause. *)
Definition disconnect_cause (reason : string) : option Z :=
  if decide (reason = "REBOOTING"%string) then Some ACV_DC_REBOOTING
  else if decide (reason = "BUSY"%string) then Some ACV_DC_BUSY
  else if decide (reason = "DO_NOT_WANT_TO_TALK_TO_YOU"%string) then Some ACV_DC_NOT_FRIEND
  else None.

Definition fd_p_dp_initiate (reason : option string) p : outcome :=
  match disconnect_cause (default "REBOOTING"%string reason) with
  | None => Aborted UnknownReason
  | Some dc =>
      let dpr := link_request CC_DISCONNECT_PEER
                   (add_origin (cnf_local cfg) false ++ [u32_avp AC_DISCONNECT_CAUSE dc]) p in
      let! p := fd_psm_change_state STATE_CLOSING_GRACE (set_lastDC dc (next_eteid p)) in
      ignoring (fd_out_send dpr None (next_timeout false DPR_TIMEOUT p))
  end.

(** * Connections *)

(** [fd_cnx_getremoteeps]. *)
Definition fd_cnx_getremoteeps (cnx : cnxctx) (eps : list fd_endpoint) : list fd_endpoint :=
  foldl (λ l e, fd_ep_add_merge l e.1 e.2) (fd_ep_filter eps (Z.lor EP_FL_CONF (Z.lor EP_FL_DISC EP_FL_ADV))) (cc_remote cnx).

Definition fd_cnx_getTLS c : bool := match c with Some cnx => cc_tls cnx | None => false end.

(** [fd_cnx_handshake]: not twice on a connection; [None] is an error. *)
Definition fd_cnx_handshake c : option cnxctx :=
  match c with
  | Some cnx =>
      if cc_tls cnx || negb (cc_handshake cnx) then None
      else Some (Cnx (cc_id cnx) true (cc_unordered cnx) (cc_handshake cnx) (cc_remote cnx) (cc_incoming cnx))
  | None => None
  end.

(** [set_peer_cnx]; [moved] empties the place the connection comes from.  What
    the connection has received becomes events of the peer. *)
Definition set_peer_cnx c (moved : peer → peer) p : outcome :=
  match p_cnxctx p with
  | Some _ => Failed p
  | None =>
      let p := moved p <| p_cnxctx := c |> in
      match c with
      | None => Failed p
      | Some cnx =>
          let cnx' := Cnx (cc_id cnx) (cc_tls cnx) (cc_unordered cnx) (cc_handshake cnx) (cc_remote cnx) [] in
          Done (p <| p_cnxctx := Some cnx' |> <| p_events := p_events p ++ (FromCnx <$> cc_incoming cnx) |>
                  <| p_eps := fd_cnx_getremoteeps cnx (p_eps p) |>)
      end
  end.

(** * Capabilities and election *)

(** [strcasecmp], its sign. *)
Fixpoint strcasecmp (a b : os0) : Z :=
  match a, b with
  | [], [] => 0
  | [], _ :: _ => -1
  | _ :: _, [] => 1
  | x :: a, y :: b =>
      if asciitolower x =? asciitolower y then strcasecmp a b
      else if asciitolower x <? asciitolower y then -1 else 1
  end.

Definition election_result : bool := strcasecmp (pi_diamid cfg) (cnf_diamid (ce_cnf (cnf_local cfg))) <? 0.

(** [receiver_reject] on a connection that the caller then forgets. *)
Definition receiver_reject c (cer : option msg) (errcode : string) p : peer :=
  match c, cer with
  | Some _, Some q => wire c (Answered q errcode []) p
  | _, _ => p
  end.

(** What a message changes, whatever the status. *)
Definition keep_info (s : ce_state) p : peer := p <| p_run := ce_run s |> <| p_eps := ce_eps s |>.

(** The last lines of [fd_p_ce_msgrcv] and [fd_p_ce_process_receiver]: the
    connection goes and the machine is told. *)
Definition drop_cnx (fatal : bool) p : outcome :=
  Done (post (if fatal then TERMINATE None else FromCnx CNX_ERROR) (fd_p_ce_clear_cnx p)).

(** The moves to OPEN, when the DWR is not sent first. *)
Definition open_or_reopen p : outcome :=
  if pf_cnx_pb p then
    let! p := ignoring (fd_psm_change_state STATE_REOPEN p) in
    fd_p_dw_reopen p
  else
    let! p := ignoring (fd_psm_change_state STATE_OPEN p) in
    Done (next_timeout true twtimer p).

Definition fd_p_ce_msgrcv m (req : bool) p : outcome :=
  if req then ignoring (fd_out_send (LinkAnswer m "DIAMETER_UNABLE_TO_COMPLY" []) None p)
  else if decide (p_state p = STATE_WAITCEA) then
    let (s, st) := save_remote_CE_info (pi_diamid cfg) true (p_eps p) (msg_children m) in
    let p := keep_info s p in
    match st with
    | CeCrash => Aborted NoValue
    | CeError _ => drop_cnx false p
    | CeNext =>
        if ce_rc s =? ER_DIAMETER_SUCCESS then
          let c := p_cnxctx p in
          let isi := pir_isi (p_run p) in
          let todo := if isi =? 0 then p_sec p else Z.land (p_sec p) isi in
          if fd_cnx_getTLS c then open_or_reopen p
          else if todo =? PI_SEC_NONE then
            match c with None => Failed p | Some _ => open_or_reopen p end
          else if tls_disabled cfg then drop_cnx false p
          else
            let! p := ignoring (fd_psm_change_state STATE_OPEN_HANDSHAKE p) in
            match fd_cnx_handshake c with
            | None => drop_cnx false p
            | Some cnx => open_or_reopen (p <| p_cnxctx := Some cnx |>)
            end
        else if ce_rc s =? ER_DIAMETER_TOO_BUSY then
          let! p := fd_psm_cleanup false p in
          Done (next_timeout false 300 p)
        else if ce_rc s =? ER_ELECTION_LOST then Done p
        else Failed p
    end
  else Done p.

(** [fd_peer_validate]. *)
Fixpoint validate (l : list (runtime → verdict)) p : Z * peer :=
  match l with
  | [] => (-1, p)
  | v :: l =>
      let r := v (p_run p) in
      let p := p <| p_cb2 := v_cb2 r |> <| p_sec := v_sec r |> in
      if negb (v_ret r =? 0) then (v_ret r, p)
      else if negb (v_auth r =? 0) then ((if 0 <? v_auth r then 0 else -1), p)
      else validate l (p <| p_cb2 := None |>)
  end.

Definition sufficient_processing_peers p : bool :=
  let actives := (if p_active p then [pi_diamid cfg] else []) ++ g_others p in
  cnf_processing_peers_minimum cfg <=? Z.of_nat (length (filter (processing_peer cfg) actives)).

(** The security both sides agree on; [None]: there is none. *)
Definition agree_isi (tls : bool) (sec isi : Z) : option Z :=
  if negb tls then
    if negb (has_flag sec PI_SEC_TLS_OLD) then if has_flag sec PI_SEC_NONE then Some 0 else None
    else if isi =? 0 then if has_flag sec PI_SEC_NONE then Some PI_SEC_NONE else None
    else if has_flag sec PI_SEC_NONE && has_flag isi PI_SEC_NONE then Some PI_SEC_NONE
    else if tls_disabled cfg then None
    else if has_flag isi PI_SEC_TLS_OLD then Some PI_SEC_TLS_OLD
    else None
  else if has_flag isi PI_SEC_TLS_OLD then Some PI_SEC_TLS_OLD
  else Some 0.

(** The checks of [fd_p_ce_process_receiver] that reject a CER: the error code,
    and whether it is fatal; [inr]: the security to announce. *)
Definition check_receiver p : (string * bool) + Z :=
  let r := p_run p in
  let node := ce_cnf (cnf_local cfg) in
  if (0 <? cnf_processing_peers_minimum cfg) && negb (processing_peer cfg (pi_diamid cfg))
     && negb (sufficient_processing_peers p) then inl ("DIAMETER_TOO_BUSY"%string, false)
  else if no_fwd node && negb (pir_relay r) && negb (fd_app_check_common (cnf_apps node) (pir_apps r))
  then inl ("DIAMETER_NO_COMMON_APPLICATION"%string, true)
  else
    match agree_isi (fd_cnx_getTLS (p_cnxctx p)) (p_sec p) (pir_isi r) with
    | None => inl ("DIAMETER_NO_COMMON_SECURITY"%string, true)
    | Some isi => inr isi
    end.

Definition realm_accepted p : bool :=
  match pic_realm cfg with
  | None => true
  | Some realm =>
      match pir_realm (p_run p) with
      | Some r => (fd_os_almostcasesrch realm r).1 =? 0
      | None => false
      end
  end.

(** The CEA is sent; the handshake, and the move to the next state. *)
Definition receiver_accept (cer : msg) (isi : Z) p : outcome :=
  match add_CE_info (cnf_local cfg) (has_flag isi PI_SEC_TLS_OLD) (has_flag isi PI_SEC_NONE) with
  | None => Failed p
  | Some avps =>
      let! p := fd_out_send (LinkAnswer cer "DIAMETER_SUCCESS" avps) (p_cnxctx p) p in
      if has_flag isi PI_SEC_TLS_OLD then
        let! p := ignoring (fd_psm_change_state STATE_OPEN_HANDSHAKE p) in
        match fd_cnx_handshake (p_cnxctx p) with
        | None => drop_cnx false p
        | Some cnx =>
            let p := p <| p_cnxctx := Some cnx |> in
            match p_cb2 p with
            | Some cb2 =>
                if cb2 (p_run p) then open_or_reopen p
                else Done (post (TERMINATE (Some "DO_NOT_WANT_TO_TALK_TO_YOU"%string)) p)
            | None => open_or_reopen p
            end
        end
      else
        match p_cnxctx p with
        | None => Failed p
        | Some cnx =>
            if negb (pf_cnx_pb p) && cc_unordered cnx then
              let! p := ignoring (fd_psm_change_state STATE_OPEN_NEW p) in
              fd_p_dw_timeout p
            else open_or_reopen p
        end
  end.

(** [error_abort] with an error code. *)
Definition receiver_abort (cer : option msg) (errcode : string) (fatal : bool) p : outcome :=
  drop_cnx fatal (receiver_reject (p_cnxctx p) cer errcode p).

Definition fd_p_ce_process_receiver p : outcome :=
  let! p := set_peer_cnx (p_receiver p) (λ p, p <| p_receiver := None |>) p in
  match p_cer p with
  | None => drop_cnx false (keep_info (cleanup_remote_CE_info (p_eps p) 0) p)
  | Some cer =>
      let p := p <| p_cer := None |> in
      let (s, st) := save_remote_CE_info (pi_diamid cfg) false (p_eps p) (msg_children cer) in
      let p := keep_info s p in
      match st with
      | CeCrash => Aborted NoValue
      | CeError errcode => receiver_abort (Some cer) errcode false p
      | CeNext =>
          if negb (realm_accepted p) then receiver_abort (Some cer) "DIAMETER_UNKNOWN_PEER" false p
          else
            let (res, p) := if pf_responder p then validate (validators cfg) p else (0, p) in
            if res <? 0 then receiver_abort (Some cer) "DIAMETER_UNKNOWN_PEER" false p
            else if 0 <? res then Failed p
            else
              match check_receiver p with
              | inl (errcode, fatal) => receiver_abort (Some cer) errcode fatal p
              | inr isi => receiver_accept cer isi p
              end
      end
  end.

Definition to_waitcea (cnx : cnxctx) p : outcome :=
  let! p := set_peer_cnx (Some cnx) id p in
  let! p := fd_psm_change_state STATE_WAITCEA p in
  Done (next_timeout false CEA_TIMEOUT p).

Definition fd_p_ce_handle_newcnx (initiator : cnxctx) p : outcome :=
  match create_CER (cnf_local cfg) (cc_tls initiator) (tls_disabled cfg) (p_sec p) (g_eteid p) with
  | None => Failed p
  | Some cer =>
      let! p := fd_out_send (OutMsg cer) (Some initiator) (next_eteid p) in
      if decide (p_state p = STATE_WAITCNXACK_ELEC) then
        if election_result then fd_p_ce_process_receiver p
        else
          let p := receiver_reject (p_receiver p) (p_cer p) "ELECTION_LOST" p in
          to_waitcea initiator (p <| p_receiver := None |> <| p_cer := None |>)
      else to_waitcea initiator p
  end.

Definition fd_p_ce_handle_newCER (cer : msg) (cnx : cnxctx) p : outcome :=
  let received p := p <| p_receiver := Some cnx |> <| p_cer := Some cer |> in
  match p_state p with
  | STATE_CLOSED => fd_p_ce_process_receiver (received p)
  | STATE_WAITCNXACK => fd_psm_change_state STATE_WAITCNXACK_ELEC (received p)
  | STATE_WAITCEA =>
      if election_result then fd_p_ce_process_receiver (received (fd_p_ce_clear_cnx p))
      else Done (receiver_reject (Some cnx) (Some cer) "ELECTION_LOST" p)
  | _ => Done (receiver_reject (Some cnx) (Some cer) "DIAMETER_UNABLE_TO_COMPLY" p)
  end.

(** * The loop *)

(** After a round: the loop goes on, the thread has ended, or an ASSERT failed. *)
Inductive round := Loop (p : peer) | Ended (p : peer) | Abort (why : abort).

(** The label [psm_end]. *)
Definition psm_end p : round :=
  match fd_psm_cleanup true p with
  | Done p | Failed p => Ended (p <| p_state := STATE_ZOMBIE |> <| pf_cnx_pb := false |> <| pf_dw_pending := false |>)
  | Aborted why => Abort why
  end.

(** The label [psm_reset]. *)
Definition psm_reset p : round :=
  if pf_delete p then psm_end p
  else match fd_psm_cleanup false p with Done p | Failed p => Loop p | Aborted why => Abort why end.

(** CHECK_FCT_DO with a label to go to. *)
Definition or_else (o : outcome) (failed : peer → round) : round :=
  match o with Done p => Loop p | Failed p => failed p | Aborted why => Abort why end.

(** The connection failed: back to CLOSED, to connect again later. *)
Definition reset_later p : round := psm_reset (next_timeout true tctimer p).

(** A message for the routing. *)
Definition psm_routable (cur_state : peer_state) m p : round :=
  match cur_state with
  | STATE_REOPEN | STATE_SUSPECT | STATE_CLOSING | STATE_CLOSING_GRACE | STATE_OPEN_NEW | STATE_OPEN =>
      let req := has_flag (msg_flags (msg_public m)) CMD_FLAG_REQUEST in
      let m := if cnf_rr_in_answers cfg || req then add_children [os_avp AC_ROUTE_RECORD (pi_diamid cfg)] m else m in
      let p := if req then p <| p_reqin_count := p_reqin_count p + 1 |> else p in
      let p := p <| g_incoming := g_incoming p ++ [m] |> in
      Loop (if bool_decide (cur_state = STATE_OPEN) && negb (pf_dw_pending p) then next_timeout true twtimer p else p)
  | _ => Loop p
  end.

(** A message of the link that obeys the dictionary. *)
Definition psm_link m p : round :=
  let req := has_flag (msg_flags (msg_public m)) CMD_FLAG_REQUEST in
  let code := msg_code (msg_public m) in
  if code =? CC_CAPABILITIES_EXCHANGE then or_else (fd_p_ce_msgrcv m req p) psm_reset
  else if code =? CC_DISCONNECT_PEER then
    match fd_p_dp_handle m req p with
    | Done p => if decide (p_state p = STATE_CLOSING) then psm_end p else Loop p
    | Failed p => psm_reset p
    | Aborted why => Abort why
    end
  else if code =? CC_DEVICE_WATCHDOG then or_else (fd_p_dw_handle m req p) psm_reset
  else if req then
    or_else (ignoring (fd_out_send (LinkAnswer m "DIAMETER_COMMAND_UNSUPPORTED" (add_origin (cnf_local cfg) false))
                         (p_cnxctx p) p)) psm_reset
  else Loop p.

(** [fd_msg_parse_or_error] and what follows; an answer that breaks the rules ends
    the connection. *)
Definition psm_parse (fuel : nat) m p : round :=
  match fd_msg_parse_rules fuel m with
  | Ok m => psm_link m p
  | Err EBADMSG errcode | Err ENOTSUP errcode =>
      if has_flag (msg_flags (msg_public m)) CMD_FLAG_REQUEST
      then or_else (ignoring (fd_out_send (LinkAnswer m errcode (add_origin (cnf_local cfg) false)) None p)) psm_reset
      else Loop (post (FromCnx CNX_ERROR) p)
  | Err _ _ => psm_end p
  | Crash | NoFuel => Abort Unforeseen
  end.

Definition psm_message (cur_state : peer_state) (buf : list Z) p : round :=
  match fd_msg_parse_buffer buf with
  | Ok m =>
      if decide (cur_state = STATE_CLOSED) then Loop p
      else
        let req := has_flag (msg_flags (msg_public m)) CMD_FLAG_REQUEST in
        let (found, p) := if req then (true, p)
                          else let (q, sr) := fd_p_sr_fetch (msg_hbhid (msg_public m)) (p_sr p) in
                               (bool_decide (is_Some q), p <| p_sr := sr |>) in
        if negb found then Loop p
        else
          match (if decide (cur_state = STATE_OPEN_NEW) then ignoring (fd_psm_change_state STATE_OPEN p) else Done p) with
          | Done p | Failed p =>
              if fd_msg_is_routable m then psm_routable cur_state m p else psm_parse (length buf) m p
          | Aborted why => Abort why
          end
  | Err _ _ => Loop (post (FromCnx CNX_ERROR) p)
  | Crash | NoFuel => Abort Unforeseen
  end.

(** The initiating side ends; the CER that was received is handled. *)
Definition elect_receiver p : round := or_else (fd_p_ce_process_receiver (fd_p_cnx_abort p)) psm_end.

(** [FDEVP_CNX_ERROR]. *)
Definition psm_cnx_error (cur_state : peer_state) p : round :=
  match cur_state with
  | STATE_WAITCNXACK_ELEC => elect_receiver p
  | STATE_CLOSED => psm_reset p
  | STATE_CLOSING => psm_end p
  | STATE_CLOSING_GRACE =>
      if pf_localterm p then psm_end p
      else or_else (let! p := fd_psm_cleanup false p in Done (next_timeout true (fd_p_dp_newdelay p) p)) psm_end
  | _ => reset_later (p <| pf_cnx_pb := true |>)
  end.

(** [FDEVP_PSM_TIMEOUT]. *)
Definition psm_timeout (cur_state : peer_state) p : round :=
  match cur_state with
  | STATE_OPEN | STATE_REOPEN | STATE_OPEN_NEW => or_else (fd_p_dw_timeout p) psm_end
  | STATE_CLOSED =>
      or_else (let! p := fd_psm_change_state STATE_WAITCNXACK p in
               Done (next_timeout false CNX_TIMEOUT p <| p_ini_thr := true |>)) psm_end
  | STATE_SUSPECT => reset_later (p <| pf_cnx_pb := true |>)
  | STATE_WAITCNXACK | STATE_WAITCEA | STATE_CLOSING => reset_later p
  | STATE_CLOSING_GRACE =>
      if pf_localterm p then psm_end p
      else or_else (let! p := fd_psm_cleanup false p in Done (next_timeout true (fd_p_dp_newdelay p) p)) psm_end
  | STATE_WAITCNXACK_ELEC => elect_receiver p
  | _ => Abort Unforeseen
  end.

(** One round of the loop of [p_psm_th] with the event it received. *)
Definition psm_step (ev : event) p : round :=
  let cur_state := p_state p in
  match cur_state with
  | STATE_NEW | STATE_ZOMBIE => Abort Unforeseen
  | STATE_OPEN_HANDSHAKE => Abort HandshakeState
  | _ =>
      match ev with
      | TERMINATE reason =>
          match cur_state with
          | STATE_OPEN | STATE_OPEN_NEW | STATE_REOPEN => or_else (fd_p_dp_initiate reason p) psm_end
          | _ => psm_end p
          end
      | FromCnx (CNX_MSG_RECV buf) => psm_message cur_state buf p
      | FromCnx CNX_ERROR => psm_cnx_error cur_state p
      | FromCnx CNX_EP_CHANGE =>
          let eps := fd_ep_clearflags
                       (fd_ep_filter (p_eps p) (Z.lor EP_FL_CONF (Z.lor EP_FL_DISC EP_FL_ADV))) EP_FL_PRIMARY in
          Loop (p <| p_eps := match p_cnxctx p with Some cnx => fd_cnx_getremoteeps cnx eps | None => eps end |>)
      | FromCnx CNX_SHUTDOWN => psm_reset p
      | CNX_INCOMING cer cnx => or_else (fd_p_ce_handle_newCER cer cnx p) psm_end
      | CNX_ESTABLISHED cnx =>
          let p := p <| p_ini_thr := false |> in
          match cur_state with
          | STATE_WAITCNXACK_ELEC | STATE_WAITCNXACK => or_else (fd_p_ce_handle_newcnx cnx p) Loop
          | _ => Loop p
          end
      | CNX_FAILED =>
          let p := p <| p_ini_thr := false |> in
          match cur_state with
          | STATE_WAITCNXACK_ELEC => elect_receiver p
          | STATE_WAITCNXACK => reset_later p
          | _ => Loop p
          end
      | PSM_TIMEOUT => psm_timeout cur_state p
      end
  end.

(** * Runs *)

(** What happens to a peer: its thread takes the next event of the queue, or times
    out on an empty one; other threads post events, send messages through it,
    empty its queue or change the other peers; a request it sent expires, an
    answer to one it received leaves. *)
Inductive psm_op :=
| Next
| Timeout
| Post (ev : event)
| RouteOut (m : msg)
| OutThread (ok : bool)
| SrExpire (now : timespec)
| Others (l : list os0).

Definition psm_exec (op : psm_op) p : round :=
  match op with
  | Next => match p_events p with [] => Loop p | ev :: evs => psm_step ev (p <| p_events := evs |>) end
  | Timeout => match p_events p with [] => psm_step PSM_TIMEOUT p | _ :: _ => Loop p end
  | Post ev => Loop (post ev p)
  | RouteOut m =>
      let answered := negb (has_flag (msg_flags (msg_public m)) CMD_FLAG_REQUEST) && bool_decide (is_Some (p_cnxctx p)) in
      let p := if answered then p <| p_reqin_count := p_reqin_count p - 1 |> else p in
      match fd_out_send (OutMsg m) None p with Done p | Failed p => Loop p | Aborted why => Abort why end
  | OutThread ok => Loop (out_thr ok p)
  | SrExpire now => Loop (p <| p_sr := (sr_expire now (p_sr p)).2 |>)
  | Others l => Loop (p <| g_others := l |>)
  end.

Fixpoint psm_run (ops : list psm_op) p : round :=
  match ops with
  | [] => Loop p
  | op :: ops => match psm_exec op p with Loop p => psm_run ops p | r => r end
  end.

End Psm.

(** The peer [p_psm_th] starts with; [responder]: it was created for a connection
    from outside; [started]: after the daemon was. *)
Definition psm_start (responder started : bool) (sec hbh : Z) (eps : list fd_endpoint) : peer :=
  Peer STATE_CLOSED responder responder false false false 0 [] (if responder then (false, INCNX_TIMEOUT) else (started, 0))
    [] OutNone hbh sr_init [] 0 None None false None None sec runtime0 eps false [] [] [] 0 [].
