(* ===== verification/FdPsmInv.v ===== *)
(** The invariant of the peer state machine (FdPsm): what holds of a peer whatever
    events it receives, in whatever order, and which ASSERTs can fail. *)

From stdpp Require Import base list strings.
From Stdlib Require Import ZArith Lia.
From S2P Require Import Prelude FdDictionary FdLoops FdApps FdRtData FdMessages FdParse FdRules FdRouting FdFifo FdPeers FdSentReq FdEndpoints FdCapa FdBaseProto FdPsm.
Open Scope Z_scope.

(** The states that need a connection. *)
Definition linked (s : peer_state) : Prop :=
  match s with
  | STATE_OPEN | STATE_OPEN_NEW | STATE_REOPEN | STATE_SUSPECT => True
  | _ => False
  end.

Section Inv.
Context {D : Dictionary} {R : RuleBook} (cfg : psm_config).
Implicit Types (p : peer) (o : outcome) (c : option cnxctx).

(** What the environment gives: octets, reasons the dictionary has, and, when TLS
    is disabled, connections without it. *)
Definition cnx_event_ok (e : cnx_event) : Prop :=
  match e with CNX_MSG_RECV buf => octet_list buf | _ => True end.

Definition cnx_ok (cnx : cnxctx) : Prop :=
  (tls_disabled cfg = true → cc_tls cnx = false) ∧ Forall cnx_event_ok (cc_incoming cnx).

Definition event_ok (ev : event) : Prop :=
  match ev with
  | FromCnx e => cnx_event_ok e
  | TERMINATE (Some reason) => is_Some (disconnect_cause reason)
  | CNX_INCOMING _ cnx | CNX_ESTABLISHED cnx => cnx_ok cnx
  | _ => True
  end.

(** The part of the invariant that holds between any two statements, on the fields
    it is about ... *)
Record frame_on (st : peer_state) c (receiver : option cnxctx) (sr : sr_list) (cb2 : option (runtime → bool))
    (evs : list event) : Prop := {
  frame_state : st ≠ STATE_NEW ∧ st ≠ STATE_ZOMBIE ∧ (tls_disabled cfg = true → st ≠ STATE_OPEN_HANDSHAKE);
  frame_cnx : linked st → is_Some c;
  frame_tls : tls_disabled cfg = true → fd_cnx_getTLS c = false;
  frame_receiver : from_option cnx_ok True receiver;
  frame_sr : sr_ok sr;
  frame_cb2 : cb2 = None;
  frame_events : Forall event_ok evs
}.

Definition frame p : Prop :=
  frame_on (p_state p) (p_cnxctx p) (p_receiver p) (p_sr p) (p_cb2 p) (p_events p).

(** ... and with it: the peer is in the list of active peers, and has a thread to
    send its messages, exactly in the state OPEN. *)
Definition core p : Prop :=
  frame p ∧ p_active p = bool_decide (p_state p = STATE_OPEN) ∧ (p_active p = false ↔ p_outthr p = OutNone).

(** A handler ends with [P], or fails with [Q]; of the ASSERTs only the one of a
    missing value can fail. *)
Definition sat (P Q : peer → Prop) o : Prop :=
  match o with Done p => P p | Failed p => Q p | Aborted why => why = NoValue end.

Lemma sat_andthen P Q P' o k :
  sat P' Q o → (∀ p, P' p → sat P Q (k p)) → sat P Q (let! p := o in k p).
Proof. destruct o; cbn; auto. Qed.

Lemma sat_ignoring P Q o : sat P P o → sat P Q (ignoring o).
Proof. by destruct o. Qed.

Lemma sat_mono (P Q P' Q' : peer → Prop) o :
  sat P Q o → (∀ p, P p → P' p) → (∀ p, Q p → Q' p) → sat P' Q' o.
Proof. destruct o; cbn; auto. Qed.

(** The link is the same. *)
Definition same_link p p' : Prop :=
  p_state p' = p_state p ∧ p_cnxctx p' = p_cnxctx p ∧ p_active p' = p_active p ∧ p_outthr p' = p_outthr p.

Lemma same_link_trans p1 p2 p3 : same_link p1 p2 → same_link p2 p3 → same_link p1 p3.
Proof. unfold same_link. intuition congruence. Qed.

Lemma core_same p p' : core p → frame p' → same_link p p' → core p'.
Proof. unfold core. intros (_ & Ha & Ht) Hf (Es & _ & -> & ->). by rewrite Es. Qed.

(** * Sending and states *)

Lemma frame_post ev p : frame p → event_ok ev → frame (post ev p).
Proof. intros [] He. split; try done. cbn. apply Forall_app. split; [done|by constructor]. Qed.

Lemma core_post ev p : core p → event_ok ev → core (post ev p).
Proof. intros H He. apply (core_same p); [done|apply frame_post; [apply H|done]|done]. Qed.

Lemma do_send_frame om c p : frame p → frame (do_send cfg om c p).1 ∧ same_link p (do_send cfg om c p).1.
Proof.
  intros H. unfold do_send. destruct om as [m|]; [|done]. destruct (has_flag _ _).
  - destruct (fd_msg_bufferize _) as [[buf m'']| | |]; [|done..].
    cbn. destruct (fd_p_sr_store _ _ _ _) as [[sr b]|] eqn:E; [|done]. split; [|done].
    pose proof (sr_store_spec (set_hbhid (p_hbh p) m) (msg_hbhid (msg_public m)) (anscb_timeout cfg m) _ (frame_sr _ _ _ _ _ _ H)) as Hs.
    rewrite E in Hs. destruct H. split; try done. apply Hs.
  - by destruct (fd_msg_bufferize _) as [[buf m'']| | |].
Qed.

(** It fails only without a connection. *)
Lemma out_send_frame om c p :
  frame p →
  sat (λ p', frame p' ∧ same_link p p') (λ p', p' = p ∧ c = None ∧ p_cnxctx p = None) (fd_out_send cfg om c p).
Proof.
  intros H. assert (Hs : ∀ c', sat (λ p', frame p' ∧ same_link p p') (λ _, False)
    (if decide (p_state p = STATE_OPEN) then Done (p <| p_tosend := p_tosend p ++ [om] |>) else Done (do_send cfg om c' p).1)).
  { intros c'. destruct (decide (p_state p = STATE_OPEN)); [done|]. by apply do_send_frame. }
  unfold fd_out_send. destruct c, (p_cnxctx p) eqn:E; (eapply sat_mono; [apply Hs|done|done]) || done.
Qed.

Lemma out_send_core om c p :
  core p → sat (λ p', core p' ∧ same_link p p') (λ p', p' = p ∧ c = None ∧ p_cnxctx p = None) (fd_out_send cfg om c p).
Proof.
  intros H. eapply sat_mono; [apply out_send_frame, H| |done]. intros p' [Hf Hs]. split; [by eapply core_same|done].
Qed.

Lemma failover_frame p :
  frame p → sat (λ p', frame p' ∧ same_link p p') (λ _, False) (fd_peer_failover_msg p).
Proof.
  intros H. unfold fd_peer_failover_msg. rewrite failover_spec by apply H. cbn. split; [|done].
  destruct H. split; try done. split; cbn; [constructor|done|constructor|done].
Qed.

(** A state with its connection; active when it is OPEN. *)
Lemma change_state_core new p :
  core p → (linked new → is_Some (p_cnxctx p)) → new ≠ STATE_NEW → new ≠ STATE_ZOMBIE →
  (tls_disabled cfg = true → new ≠ STATE_OPEN_HANDSHAKE) →
  sat (λ p', core p' ∧ p_state p' = new ∧ p_cnxctx p' = p_cnxctx p) (λ _, False) (fd_psm_change_state cfg new p).
Proof.
  intros (Hf & Ha & Ht) Hl Hn Hz Hh. unfold fd_psm_change_state. cbv zeta.
  destruct (decide (p_state p = new)) as [Heq|Heq].
  { split; [exact (conj Hf (conj Ha Ht))|done]. }
  set (inactive := λ p', frame p' ∧ p_state p' = new ∧ p_cnxctx p' = p_cnxctx p ∧ p_active p' = false ∧ p_outthr p' = OutNone).
  assert (Hf' : frame (p <| p_state := new |>)) by (destruct Hf; by split).
  eapply (sat_andthen _ _ inactive).
  { destruct (decide (p_state p = STATE_OPEN)) as [Ho|Ho].
    - unfold leave_open_state. cbn -[fd_peer_failover_msg].
      destruct (p_cnxctx p) as [cnx|] eqn:Ec; [|destruct Hf as [_ Hc _ _ _ _ _]; rewrite Ho, Ec in Hc; by destruct (Hc I)].
      destruct (bool_decide (new = STATE_CLOSING_GRACE)); [unfold inactive; by cbn|].
      match goal with |- sat _ _ (fd_peer_failover_msg ?q) => pose proof (failover_frame q Hf') as Hq end.
      eapply sat_mono; [exact Hq| |done]. intros p' (Hp' & E1 & E2 & E3 & E4). cbn in E1, E2, E3, E4. split_and!; congruence.
    - cbn. rewrite Ha, (bool_decide_eq_false_2 _ Ho) in Ht. unfold inactive. cbn.
      split_and!; [done..|by rewrite Ha, bool_decide_eq_false_2|by apply Ht]. }
  intros p1 (Hf1 & Hs1 & Hc1 & Ha1 & Ht1). eapply (sat_andthen _ _ inactive).
  { destruct (decide (p_state p = STATE_CLOSING_GRACE)); [|done]. eapply sat_mono; [by apply failover_frame| |done].
    intros p' (Hp' & E1 & E2 & E3 & E4). split_and!; congruence. }
  clear Hf1 Hs1 Hc1 Ha1 Ht1 p1. intros p1 (Hf1 & Hs1 & Hc1 & Ha1 & Ht1).
  eapply (sat_andthen _ _ (λ p', core p' ∧ p_state p' = new ∧ p_cnxctx p' = p_cnxctx p)).
  { destruct (decide (new = STATE_OPEN)) as [Ho|Ho]; cbn.
    - unfold enter_open_state. rewrite Ha1, (frame_cb2 _ _ _ _ _ _ Hf1). cbn. rewrite decide_True by done.
      destruct (p_cnxctx p1) as [cnx|] eqn:Ec; cbn; [|rewrite Ho in Hl; rewrite <- Hc1 in Hl; by destruct (Hl I)].
      unfold core. cbn. rewrite Hs1, Ec, bool_decide_eq_true_2 by done. split_and!; done.
    - split_and!; [|done..]. unfold core. rewrite Hs1, Ha1, bool_decide_eq_false_2 by done. by split_and!. }
  intros p2 (H2 & Hs2 & Hc2). destruct (decide (new = STATE_CLOSED)) as [Hcl|Hcl]; [|by cbn].
  assert (H3 : core (p2 <| p_events := [] |> <| p_reqin_count := 0 |>)).
  { destruct H2 as (Hf2 & H2). split; [|done]. destruct Hf2. by split. }
  cbn. destruct (pic_persist cfg); cbn; (split; [|done]); [done|by apply core_post].
Qed.

(** The invariant at the top of the loop: the machine is not CLOSING, in its grace
    period it has a connection, and none when it is CLOSED. *)
Definition settled_state p : Prop :=
  p_state p ≠ STATE_CLOSING ∧ (p_state p = STATE_CLOSING_GRACE → is_Some (p_cnxctx p))
  ∧ (p_state p = STATE_CLOSED → p_cnxctx p = None).

Definition loop_ok p : Prop := core p ∧ settled_state p.

Lemma linked_settled p : linked (p_state p) → settled_state p.
Proof. unfold settled_state. by destruct (p_state p). Qed.

Lemma same_settled p p' : same_link p p' → settled_state p → settled_state p'.
Proof. unfold settled_state. by intros (-> & -> & _). Qed.

Lemma cleanup_core t p :
  core p → sat (λ p', loop_ok p' ∧ p_state p' = STATE_CLOSED) (λ _, False) (fd_psm_cleanup cfg t p).
Proof.
  intros H. unfold fd_psm_cleanup. destruct (decide (p_state p = STATE_ZOMBIE)) as [Hz|Hz].
  { by destruct H as ([(_ & H & _)] & _). }
  eapply sat_andthen.
  { eapply sat_ignoring, sat_mono; [by apply (change_state_core STATE_CLOSED)|intros p' Hp'; exact Hp'|done]. }
  intros p' ((Hf & Ha & Ht) & Hs & _). cbn.
  assert (H' : core (p' <| p_sr := fd_p_sr_on_disconnect (p_sr p') |> <| p_ini_thr := false |> <| p_cnxctx := None |>
                        <| p_receiver := None |>)).
  { split; [|done]. destruct Hf as [F1 F2 F3 F4 F5 F6 F7]. split; cbn; try done.
    - by rewrite Hs.
    - by apply disconnect_spec. }
  assert (Hst : settled_state (p' <| p_cnxctx := None |>)) by (unfold settled_state; cbn; by rewrite Hs).
  destruct t; (split; [|done]); (split; [|done]); [|done].
  destruct H' as [Hf' H']. split; [|done]. destruct Hf'. by split.
Qed.

(** * Handlers *)

Lemma check_state_id_core m p :
  core p → sat (λ p', core p' ∧ same_link p p') (λ p', core p' ∧ same_link p p') (check_state_id m p).
Proof.
  intros H. unfold check_state_id. destruct (find_avp _ m) as [a|]; [|done].
  destruct (avp_val (data_of a) ≫= u32_of) as [n|]; [|done]. cbn -[Z.eqb]. by destruct (_ =? 0), (_ =? n).
Qed.

Lemma send_DWR_core p :
  core p → sat (λ p', core p' ∧ same_link p p') (λ p', core p' ∧ same_link p p' ∧ p_cnxctx p = None) (send_DWR cfg p).
Proof.
  intros H. unfold send_DWR. eapply sat_mono; [by apply out_send_core|done|]. by intros p' (-> & _ & E).
Qed.

Lemma dw_timeout_core p :
  core p → is_Some (p_cnxctx p) → linked (p_state p) → sat loop_ok (λ _, False) (fd_p_dw_timeout cfg p).
Proof.
  intros H Hc Hl. unfold fd_p_dw_timeout. destruct (pf_dw_pending p).
  - eapply sat_andthen; [by apply change_state_core|]. intros p' (Hp' & Hs & _). split; [done|].
    apply linked_settled. cbn. by rewrite Hs.
  - eapply sat_andthen; [eapply sat_mono; [by apply send_DWR_core|intros p' Hp'; exact Hp'|]|].
    + intros p' (_ & _ & E). rewrite E in Hc. by destruct Hc.
    + intros p' (Hp' & Hs). split; [done|]. apply linked_settled. cbn. by rewrite (proj1 Hs).
Qed.

Lemma dw_reopen_core p :
  core p → is_Some (p_cnxctx p) → linked (p_state p) → sat loop_ok (λ _, False) (fd_p_dw_reopen cfg p).
Proof.
  intros H Hc Hl. unfold fd_p_dw_reopen. eapply sat_mono; [by apply send_DWR_core| |].
  - intros p' (Hp' & Hs). split; [done|]. apply linked_settled. rewrite (proj1 Hs). done.
  - intros p' (_ & _ & E). cbn in E. rewrite E in Hc. by destruct Hc.
Qed.

Lemma dw_handle_core m req p :
  loop_ok p → sat loop_ok core (fd_p_dw_handle cfg m req p).
Proof.
  intros [H Hst]. unfold fd_p_dw_handle. eapply sat_andthen.
  { eapply sat_mono; [by apply check_state_id_core|intros p' Hp'; exact Hp'|by intros p' []]. }
  intros p1 [H1 Hs1]. eapply (sat_andthen _ _ (λ p', core p' ∧ same_link p p')).
  { destruct req; [|done]. eapply sat_mono; [by apply out_send_core| |by intros p' [-> _]].
    intros p' [Hp' Hs']. split; [done|]. by eapply same_link_trans. }
  clear p1 H1 Hs1. intros p1 [H1 Hs1]. cbv zeta.
  set (p2 := if negb req || negb (pf_dw_pending p1) then _ else p1).
  assert (H2 : core p2 ∧ same_link p p2) by (unfold p2; by destruct (_ || _)). clearbody p2. clear p1 H1 Hs1.
  destruct H2 as [H2 Hs2]. destruct (decide (p_state p2 = STATE_REOPEN)) as [Hr|Hr].
  - assert (Hc : is_Some (p_cnxctx p2)) by (destruct H2 as [[_ Hc]]; apply Hc; by rewrite Hr).
    case_match.
    + eapply sat_mono; [by apply (change_state_core STATE_OPEN)| |done]. intros p' (Hp' & Hs & _). split; [done|].
      apply linked_settled. by rewrite Hs.
    + eapply sat_mono; [by apply send_DWR_core| |by intros p' []]. intros p' [Hp' Hs]. split; [done|].
      apply linked_settled. rewrite (proj1 Hs). cbn. by rewrite Hr.
  - split; [done|]. by eapply same_settled.
Qed.

Lemma dp_answer_core dpa p :
  core p → p_state p = STATE_CLOSING_GRACE → sat loop_ok core (fd_out_send cfg dpa None p).
Proof.
  intros H Hg. pose proof (out_send_core dpa None p H) as Ho.
  destruct (fd_out_send cfg dpa None p) as [p'|p'|] eqn:E; cbn in *; [|by destruct Ho as [-> _]|done].
  destruct Ho as [Hp' Hs]. split; [done|]. destruct Hs as (Es & Ec & _). unfold settled_state. rewrite Es, Ec, Hg.
  split; [done|]. split; [|done]. intros _. unfold fd_out_send in E. by destruct (p_cnxctx p).
Qed.

(** A DPR or DPA leaves the machine CLOSING or ready for the next event. *)
Lemma dp_handle_core m req p :
  loop_ok p → sat (λ p', core p' ∧ (p_state p' = STATE_CLOSING ∨ settled_state p')) core (fd_p_dp_handle cfg m req p).
Proof.
  intros [H Hst]. unfold fd_p_dp_handle. destruct req.
  - eapply (sat_andthen _ _ core).
    { destruct (find_avp _ m) as [a|]; [|done]. by destruct (avp_val (data_of a) ≫= u32_of). }
    intros p1 H1. cbv zeta. destruct (load_pending p1).
    + eapply sat_andthen.
      { eapply sat_mono; [by apply (change_state_core STATE_CLOSING_GRACE)|intros p' Hp'; exact Hp'|done]. }
      intros p2 (H2 & Hs2 & _). eapply sat_mono; [by apply dp_answer_core| |done]. intros p' [? ?]. by split; [|right].
    + eapply sat_andthen.
      { eapply sat_mono; [by apply (change_state_core STATE_CLOSING)|intros p' Hp'; exact Hp'|done]. }
      intros p2 (H2 & _). eapply sat_andthen.
      { eapply sat_mono; [by apply out_send_core|intros p' Hp'; exact Hp'|by intros p' [-> _]]. }
      intros p3 (H3 & _). eapply sat_andthen.
      { eapply sat_mono; [by apply cleanup_core|intros p' Hp'; exact Hp'|done]. }
      intros p4 ([H4 Hst4] & _). split; [done|by right].
  - destruct (load_pending p); [by split; [|right]|].
    eapply sat_mono; [by apply (change_state_core STATE_CLOSING)| |done]. intros p' (? & ? & _). by split; [|left].
Qed.

Lemma dp_initiate_core reason p :
  loop_ok p → event_ok (TERMINATE reason) → linked (p_state p) → sat loop_ok (λ _, False) (fd_p_dp_initiate cfg reason p).
Proof.
  intros [H Hst] Hr Hl. unfold fd_p_dp_initiate.
  destruct (disconnect_cause _) as [dc|] eqn:E; [|destruct reason as [r|]; cbn in *; [rewrite E in Hr; by destruct Hr|done]].
  assert (Hc : is_Some (p_cnxctx p)) by by apply H.
  eapply sat_andthen; [by apply (change_state_core STATE_CLOSING_GRACE)|]. intros p' (Hp' & Hs & Ec). cbn in Ec.
  match goal with |- context [fd_out_send cfg ?om None ?q] => pose proof (out_send_core om None q Hp') as Ho;
    destruct (fd_out_send cfg om None q) as [p2|p2|] end; cbn in *; [|destruct Ho as (-> & _ & E'); rewrite E' in Ec; rewrite <- Ec in Hc; by destruct Hc|done].
  destruct Ho as [H2 Hs2]. split; [done|]. eapply same_settled; [exact Hs2|]. unfold settled_state. cbn. by rewrite Hs, Ec.
Qed.

(** * Capabilities *)

(** The states before a peer is open. *)
Definition opening (s : peer_state) : Prop :=
  match s with
  | STATE_CLOSED | STATE_WAITCNXACK | STATE_WAITCNXACK_ELEC | STATE_WAITCEA | STATE_OPEN_HANDSHAKE => True
  | _ => False
  end.

Lemma drop_cnx_core fatal p : core p → opening (p_state p) → sat loop_ok (λ _, False) (drop_cnx fatal p).
Proof.
  intros (Hf & H) Ho. unfold drop_cnx. cbn.
  assert (H' : core (fd_p_ce_clear_cnx p)).
  { split; [|done]. destruct Hf. split; cbn; try done. by destruct (p_state p). }
  split; [apply core_post; [done|by destruct fatal]|]. unfold settled_state. cbn. by destruct (p_state p).
Qed.

Lemma open_or_reopen_core p : core p → is_Some (p_cnxctx p) → sat loop_ok (λ _, False) (open_or_reopen cfg p).
Proof.
  intros H Hc. unfold open_or_reopen. destruct (pf_cnx_pb p).
  - eapply sat_andthen.
    { eapply sat_ignoring, sat_mono; [by apply (change_state_core STATE_REOPEN)|intros p' Hp'; exact Hp'|done]. }
    intros p' (Hp' & Hs & Ec). apply dw_reopen_core; [done|by rewrite Ec|by rewrite Hs].
  - eapply sat_andthen.
    { eapply sat_ignoring, sat_mono; [by apply (change_state_core STATE_OPEN)|intros p' Hp'; exact Hp'|done]. }
    intros p' (Hp' & Hs & Ec). split; [done|]. apply linked_settled. cbn. by rewrite Hs.
Qed.

Lemma handshake_core c cnx p :
  core p → fd_cnx_handshake c = Some cnx → tls_disabled cfg = false → core (p <| p_cnxctx := Some cnx |>).
Proof.
  intros (Hf & H) Hc Ht. split; [|done]. destruct Hf. split; cbn; try done. by rewrite Ht.
Qed.

Lemma ce_msgrcv_core m req p : loop_ok p → sat loop_ok core (fd_p_ce_msgrcv cfg m req p).
Proof.
  intros [H Hst]. unfold fd_p_ce_msgrcv. destruct req.
  { eapply sat_ignoring, sat_mono; [by apply out_send_core| |by intros p' [-> _]].
    intros p' [? Hs]. split; [done|]. by eapply same_settled. }
  destruct (decide (p_state p = STATE_WAITCEA)) as [Hw|Hw]; [|done].
  destruct (save_remote_CE_info _ _ _ _) as [s st]. cbv zeta.
  assert (Hk : core (keep_info s p)) by done. destruct st; [|eapply sat_mono; [apply drop_cnx_core; [done|cbn; by rewrite Hw]|done|done]|done].
  destruct (_ =? ER_DIAMETER_SUCCESS).
  2: { destruct (_ =? ER_DIAMETER_TOO_BUSY); [|by destruct (_ =? ER_ELECTION_LOST)].
       eapply sat_andthen; [eapply sat_mono; [by apply cleanup_core|intros p' Hp'; exact Hp'|done]|]. by intros p' (Hp' & _). }
  destruct (fd_cnx_getTLS _) eqn:Et.
  { eapply sat_mono; [apply open_or_reopen_core; [done|]|done|done]. cbn in *. by destruct (p_cnxctx p). }
  destruct (_ =? PI_SEC_NONE).
  { destruct (p_cnxctx _) as [cnx|] eqn:Ec; [|done]. eapply sat_mono; [by apply open_or_reopen_core|done|done]. }
  destruct (tls_disabled cfg) eqn:Ed; [eapply sat_mono; [apply drop_cnx_core; [done|cbn; by rewrite Hw]|done|done]|].
  eapply sat_andthen.
  { eapply sat_ignoring, sat_mono; [apply (change_state_core STATE_OPEN_HANDSHAKE); try done; congruence|intros p' Hp'; exact Hp'|done]. }
  intros p' (Hp' & Hs & Ec). destruct (fd_cnx_handshake _) as [cnx|] eqn:Eh.
  - eapply sat_mono; [apply open_or_reopen_core; [by eapply handshake_core|done]|done|done].
  - eapply sat_mono; [apply drop_cnx_core; [done|by rewrite Hs]|done|done].
Qed.

(** The connection of the peer, with what it has received. *)
Definition connected p p' : Prop := core p' ∧ p_state p' = p_state p ∧ is_Some (p_cnxctx p').
Definition unchanged p p' : Prop := core p' ∧ p_state p' = p_state p.

Lemma set_peer_cnx_core c moved p :
  core p → core (moved p) → same_link p (moved p) → opening (p_state p) → from_option cnx_ok True c →
  sat (connected p) (unchanged p) (set_peer_cnx c moved p).
Proof.
  intros H (Hf & Hm) (Es & _) Ho Hc. unfold set_peer_cnx. destruct (p_cnxctx p); [done|].
  assert (Hl : ¬ linked (p_state (moved p))) by (rewrite Es; intros Hl; by destruct (p_state p)).
  destruct c as [cnx|]; cbn.
  - destruct Hc as [Ht Hi]. split_and!; [|done..]. split; [|done]. destruct Hf. split; cbn; try done.
    apply Forall_app. split; [done|]. by apply Forall_fmap.
  - split; [|done]. split; [|done]. destruct Hf. by split.
Qed.

(** No validator leaves a second callback. *)
Definition no_cb2 : Prop := Forall (λ v, ∀ r, v_cb2 (v r) = None) (validators cfg).

Lemma validate_core l : Forall (λ v : runtime → verdict, ∀ r, v_cb2 (v r) = None) l →
  ∀ p, core p → core (validate l p).2 ∧ same_link p (validate l p).2.
Proof.
  induction 1 as [|v l Hv _ IH]; intros p H; [done|]. cbn.
  assert (Hq : ∀ cb2, cb2 = None → core (p <| p_cb2 := cb2 |> <| p_sec := v_sec (v (p_run p)) |>)).
  { intros cb2 Hcb. destruct H as [Hf H]. split; [|done]. destruct Hf. split; cbn; done. }
  destruct (negb _); [by split; [apply Hq|]|]. destruct (negb _); [by split; [apply Hq|]|].
  exact (IH _ (Hq None eq_refl)).
Qed.

Hypothesis Hcb2 : no_cb2.

Lemma receiver_abort_core cer errcode fatal p :
  core p → opening (p_state p) → sat loop_ok (λ _, False) (receiver_abort cer errcode fatal p).
Proof.
  intros H Ho. unfold receiver_abort, receiver_reject.
  destruct (p_cnxctx p), cer; by apply drop_cnx_core.
Qed.

(** Without TLS there is no handshake to agree on. *)
Lemma agree_isi_clear sec isi z :
  tls_disabled cfg = true → agree_isi cfg false sec isi = Some z → has_flag z PI_SEC_TLS_OLD = false.
Proof. intros Hd. unfold agree_isi. rewrite Hd. cbn. repeat case_match; intros [= <-]; done. Qed.

Lemma receiver_accept_core cer isi p :
  core p → opening (p_state p) → is_Some (p_cnxctx p) →
  (tls_disabled cfg = true → has_flag isi PI_SEC_TLS_OLD = false) →
  sat loop_ok (unchanged p) (receiver_accept cfg cer isi p).
Proof.
  intros H Ho Hc Ht. unfold receiver_accept. destruct (add_CE_info _ _ _) as [avps|]; [|done].
  eapply sat_andthen.
  { eapply sat_mono; [by apply out_send_core|intros p' Hp'; exact Hp'|by intros p' [-> _]]. }
  intros p1 (H1 & Hs1 & Hc1 & _). assert (Hc' : is_Some (p_cnxctx p1)) by by rewrite Hc1.
  destruct (has_flag isi PI_SEC_TLS_OLD) eqn:Ei.
  - assert (Hd : tls_disabled cfg = false) by (destruct (tls_disabled cfg); [by specialize (Ht eq_refl)|done]).
    eapply sat_andthen.
    { eapply sat_ignoring, sat_mono; [apply (change_state_core STATE_OPEN_HANDSHAKE); try done; congruence|intros p' Hp'; exact Hp'|done]. }
    intros p2 (H2 & Hs2 & Hc2). destruct (fd_cnx_handshake _) as [cnx|] eqn:Eh.
    + cbv zeta. rewrite (frame_cb2 _ _ _ _ _ _ (proj1 (handshake_core _ _ _ H2 Eh Hd))).
      eapply sat_mono; [apply open_or_reopen_core; [by eapply handshake_core|done]|done|done].
    + eapply sat_mono; [apply drop_cnx_core; [done|by rewrite Hs2]|done|done].
  - destruct (p_cnxctx p1) as [cnx|] eqn:Ec; [|by destruct Hc'].
    destruct (_ && _).
    + eapply sat_andthen.
      { eapply sat_ignoring, sat_mono; [apply (change_state_core STATE_OPEN_NEW); try done; by rewrite Ec|intros p' Hp'; exact Hp'|done]. }
      intros p2 (H2 & Hs2 & Hc2). eapply sat_mono; [apply dw_timeout_core; [done|by rewrite Hc2, Ec|by rewrite Hs2]|done|done].
    + eapply sat_mono; [apply open_or_reopen_core; [done|by rewrite Ec]|done|done].
Qed.

Lemma check_receiver_isi p isi :
  check_receiver cfg p = inr isi → agree_isi cfg (fd_cnx_getTLS (p_cnxctx p)) (p_sec p) (pir_isi (p_run p)) = Some isi.
Proof.
  unfold check_receiver. cbv zeta. destruct (_ && _ && _); [done|]. destruct (_ && _ && _); [done|].
  destruct (agree_isi _ _ _ _); [|done]. by intros [= ->].
Qed.

Lemma process_receiver_core p :
  core p → opening (p_state p) → sat loop_ok (unchanged p) (fd_p_ce_process_receiver cfg p).
Proof.
  intros H Ho. unfold fd_p_ce_process_receiver. eapply sat_andthen.
  { apply set_peer_cnx_core; try done; [|by apply H]. destruct H as [Hf H]. split; [|done]. by destruct Hf; split. }
  intros p1 (H1 & Hs1 & Hc1). rewrite <- Hs1 in Ho.
  assert (Hgive : ∀ f q, core q → same_link p1 q → sat loop_ok (unchanged p) (drop_cnx f q)).
  { intros f q Hq Hsq. eapply sat_mono; [apply drop_cnx_core; [done|by rewrite (proj1 Hsq)]|done|done]. }
  assert (Habort : ∀ cer e f q, core q → same_link p1 q → sat loop_ok (unchanged p) (receiver_abort cer e f q)).
  { intros cer e f q Hq Hsq. eapply sat_mono; [apply receiver_abort_core; [done|by rewrite (proj1 Hsq)]|done|done]. }
  destruct (p_cer p1) as [cer|]; [|by apply Hgive]. destruct (save_remote_CE_info _ _ _ _) as [s st]. cbv zeta.
  set (p2 := keep_info s (p1 <| p_cer := None |>)). assert (H2 : core p2 ∧ same_link p1 p2) by done. clearbody p2.
  destruct H2 as [H2 Hs2]. destruct st; [|by apply Habort|done].
  destruct (negb (realm_accepted cfg p2)); [by apply Habort|].
  set (v := if pf_responder p2 then _ else _).
  assert (H3 : core v.2 ∧ same_link p1 v.2).
  { unfold v. destruct (pf_responder p2); [|done]. destruct (validate_core _ Hcb2 p2 H2). split; [done|]. by eapply same_link_trans. }
  destruct v as [res p3]. cbn in H3. destruct H3 as [H3 Hs3].
  destruct (res <? 0); [by apply Habort|]. destruct (0 <? res).
  { cbn. split; [done|]. rewrite (proj1 Hs3). done. }
  destruct (check_receiver cfg p3) as [[e f]|isi] eqn:Ec; [by apply Habort|].
  eapply sat_mono; [apply receiver_accept_core; [done|by rewrite (proj1 Hs3)|by rewrite (proj1 (proj2 Hs3))|]|done|].
  - intros Hd. apply check_receiver_isi in Ec. rewrite (frame_tls _ _ _ _ _ _ (proj1 H3) Hd) in Ec. by eapply agree_isi_clear.
  - intros p' [Hp' Es]. split; [done|]. rewrite Es, (proj1 Hs3). done.
Qed.

Lemma to_waitcea_core cnx p :
  core p → opening (p_state p) → cnx_ok cnx → sat loop_ok (unchanged p) (to_waitcea cfg cnx p).
Proof.
  intros H Ho Hc. unfold to_waitcea. eapply sat_andthen; [by apply set_peer_cnx_core|]. intros p1 (H1 & _ & _).
  eapply sat_andthen.
  { eapply sat_mono; [by apply (change_state_core STATE_WAITCEA)|intros p' Hp'; exact Hp'|done]. }
  intros p2 (H2 & Hs2 & _). split; [done|]. unfold settled_state. cbn. by rewrite Hs2.
Qed.

Lemma reject_core c cer e p : core p → core (receiver_reject c cer e p) ∧ same_link p (receiver_reject c cer e p).
Proof. intros H. unfold receiver_reject. by destruct c, cer. Qed.

Lemma newcnx_core cnx p :
  core p → opening (p_state p) → cnx_ok cnx → sat loop_ok (unchanged p) (fd_p_ce_handle_newcnx cfg cnx p).
Proof.
  intros H Ho Hc. unfold fd_p_ce_handle_newcnx. destruct (create_CER _ _ _ _ _) as [cer|]; [|done].
  eapply sat_andthen.
  { eapply sat_mono; [by apply out_send_core|intros p' Hp'; exact Hp'|by intros p' (-> & ? & _)]. }
  intros p1 (H1 & Hs1 & _). cbn in Hs1. rewrite <- Hs1 in Ho.
  assert (Hweak : ∀ q o, same_link p1 q → sat loop_ok (unchanged q) o → sat loop_ok (unchanged p) o).
  { intros q o Hq Hsat. eapply sat_mono; [exact Hsat|done|]. intros p' [Hp' Es]. split; [done|]. rewrite Es, (proj1 Hq). done. }
  destruct (decide (p_state p1 = STATE_WAITCNXACK_ELEC)); [destruct (election_result cfg)|];
    [by apply (Hweak p1); [|apply process_receiver_core]| |by apply (Hweak p1); [|apply to_waitcea_core]].
  cbv zeta. destruct (reject_core (p_receiver p1) (p_cer p1) "ELECTION_LOST" p1 H1) as [H2 Hs2].
  set (p2 := receiver_reject _ _ _ p1) in *. clearbody p2.
  apply (Hweak (p2 <| p_receiver := None |> <| p_cer := None |>)); [done|]. apply to_waitcea_core; [|cbn; by rewrite (proj1 Hs2)|done].
  destruct H2 as [Hf2 H2]. split; [|done]. by destruct Hf2; split.
Qed.

Lemma newCER_core cer cnx p :
  loop_ok p → cnx_ok cnx → sat loop_ok core (fd_p_ce_handle_newCER cfg cer cnx p).
Proof.
  intros [H Hst] Hc. unfold fd_p_ce_handle_newCER. cbv zeta.
  assert (Hr : ∀ q, core q → core (q <| p_receiver := Some cnx |> <| p_cer := Some cer |>)).
  { intros q [Hf Hq]. split; [|done]. by destruct Hf; split. }
  assert (Hj : ∀ e, loop_ok (receiver_reject (Some cnx) (Some cer) e p)) by done.
  destruct (p_state p) eqn:Es; try by apply Hj.
  - eapply sat_mono; [apply process_receiver_core; [by apply Hr|cbn; by rewrite Es]|done|by intros p' []].
  - eapply sat_mono; [apply (change_state_core STATE_WAITCNXACK_ELEC); [by apply Hr|done..]| |done].
    intros p' (Hp' & Hs & _). split; [done|]. unfold settled_state. by rewrite Hs.
  - destruct (election_result cfg); [|by apply Hj].
    eapply sat_mono; [apply process_receiver_core; [apply Hr|cbn; by rewrite Es]|done|by intros p' []].
    destruct H as [Hf H]. split; [|done]. destruct Hf. split; cbn; try done. by rewrite Es.
Qed.

(** * The loop *)

(** A peer whose thread has ended holds nothing. *)
Definition released p : Prop :=
  p_state p = STATE_ZOMBIE ∧ p_active p = false ∧ p_outthr p = OutNone ∧ p_cnxctx p = None ∧ p_events p = [].

Definition round_ok (r : round) : Prop :=
  match r with
  | Loop p => loop_ok p
  | Ended p => released p
  | Abort why => why = NoValue ∨ (why = HandshakeState ∧ tls_disabled cfg = false)
  end.

Lemma cleanup_events p p' : fd_psm_cleanup cfg true p = Done p' → p_events p' = [].
Proof.
  unfold fd_psm_cleanup. destruct (if decide _ then _ else _); cbn; [|done..]. by intros [= <-].
Qed.

Lemma psm_end_ok p : core p → round_ok (psm_end cfg p).
Proof.
  intros H. unfold psm_end. pose proof (cleanup_core true p H) as Hc.
  destruct (fd_psm_cleanup cfg true p) as [p'|p'|why] eqn:E; cbn in Hc; [|done|by left].
  destruct Hc as ([(Hf & Ha & Ht) (_ & _ & Hn)] & Hs). cbn. rewrite Hs in Ha. cbn in Ha.
  unfold released. cbn. split_and!; [done|done|by apply Ht|by apply Hn|by eapply cleanup_events].
Qed.

Lemma psm_reset_ok p : core p → round_ok (psm_reset cfg p).
Proof.
  intros H. unfold psm_reset. destruct (pf_delete p); [by apply psm_end_ok|]. pose proof (cleanup_core false p H) as Hc.
  destruct (fd_psm_cleanup cfg false p); cbn in *; [by destruct Hc|done|by left].
Qed.

Lemma or_else_ok P o failed : sat loop_ok P o → (∀ p, P p → round_ok (failed p)) → round_ok (or_else o failed).
Proof. destruct o; cbn; auto. Qed.

Lemma elect_ok p : core p → opening (p_state p) → round_ok (elect_receiver cfg p).
Proof.
  intros H Ho. unfold elect_receiver. eapply or_else_ok; [by apply process_receiver_core|]. intros p' []. by apply psm_end_ok.
Qed.

Lemma answer_ok om c p : loop_ok p → round_ok (or_else (ignoring (fd_out_send cfg om c p)) (psm_reset cfg)).
Proof.
  intros [H Hst]. eapply (or_else_ok core); [|intros p'; by apply psm_reset_ok].
  eapply sat_ignoring, sat_mono; [by apply out_send_core| |by intros p' [-> _]].
  intros p' [? Hs]. split; [done|]. by eapply same_settled.
Qed.

Lemma error_event_ok p : loop_ok p → round_ok (Loop (post (FromCnx CNX_ERROR) p)).
Proof. intros [H Hst]. split; [by apply core_post|done]. Qed.

Lemma grace_over_ok p :
  loop_ok p →
  round_ok (if pf_localterm p then psm_end cfg p
            else or_else (let! p := fd_psm_cleanup cfg false p in Done (next_timeout true (fd_p_dp_newdelay cfg p) p)) (psm_end cfg)).
Proof.
  intros [H _]. destruct (pf_localterm p); [by apply psm_end_ok|].
  eapply (or_else_ok (λ _, False)); [|done]. eapply sat_andthen; [by apply cleanup_core|]. by intros p' [? _].
Qed.

Lemma link_ok m p : loop_ok p → round_ok (psm_link cfg m p).
Proof.
  intros H. unfold psm_link. cbv zeta. destruct (_ =? CC_CAPABILITIES_EXCHANGE).
  { eapply or_else_ok; [by apply ce_msgrcv_core|]. intros p'. by apply psm_reset_ok. }
  destruct (_ =? CC_DISCONNECT_PEER).
  { pose proof (dp_handle_core m (has_flag (msg_flags (msg_public m)) CMD_FLAG_REQUEST) p H) as Hd.
    destruct (fd_p_dp_handle _ _ _ _) as [p'|p'|why]; cbn in Hd; [|by apply psm_reset_ok|by left].
    destruct Hd as [Hp' Hst]. destruct (decide (p_state p' = STATE_CLOSING)); [by apply psm_end_ok|].
    split; [done|]. by destruct Hst. }
  destruct (_ =? CC_DEVICE_WATCHDOG).
  { eapply or_else_ok; [by apply dw_handle_core|]. intros p'. by apply psm_reset_ok. }
  destruct (has_flag _ _); [by apply answer_ok|done].
Qed.

Lemma parse_ok fuel m p :
  loop_ok p → returns (parsedict_do_msg fuel m) (λ _, True) → round_ok (psm_parse cfg fuel m p).
Proof.
  intros H Hr. unfold psm_parse, fd_msg_parse_rules. destruct (parsedict_do_msg fuel m) as [m'|e err| |]; cbn in Hr; cbn [mbind result_mbind]; try done.
  - pose proof (proj2 (decides_iff _ _ (parserules_msg_ok m'))) as [-> | [code ->]]; cbn [mbind result_mbind mret result_mret]; [by apply link_ok|].
    case_match; [by apply answer_ok|by apply error_event_ok].
  - destruct e; try (apply psm_end_ok, H); (case_match; [by apply answer_ok|by apply error_event_ok]).
Qed.

Lemma routable_ok st m p : loop_ok p → round_ok (psm_routable cfg st m p).
Proof.
  intros H. unfold psm_routable. destruct st; try done; cbv zeta;
    (destruct (has_flag _ _), (_ && _); exact H).
Qed.

Lemma message_ok buf p : loop_ok p → octet_list buf → round_ok (psm_message cfg (p_state p) buf p).
Proof.
  intros H Hb. unfold psm_message. pose proof (fd_msg_parse_buffer_returns buf Hb) as Hr.
  destruct (fd_msg_parse_buffer buf) as [m| | |]; cbn in Hr; [|by apply error_event_ok|done..].
  destruct Hr as (Hc & H20 & _). destruct (decide (p_state p = STATE_CLOSED)); [done|]. cbv zeta.
  set (f := if has_flag _ _ then _ else _).
  assert (Hf : loop_ok f.2 ∧ same_link p f.2).
  { unfold f. destruct (has_flag _ _); [done|]. destruct H as ((Hf & H) & Hst).
    pose proof (fetch_spec (msg_hbhid (msg_public m)) _ (frame_sr _ _ _ _ _ _ Hf)) as Hfs.
    destruct (fd_p_sr_fetch _ _) as [q sr]. destruct Hfs as (_ & Hok & _). split; [|done].
    split; [|done]. split; [|done]. by destruct Hf; split. }
  destruct f as [found p1]. cbn in Hf. destruct Hf as [H1 Hs1]. destruct (negb found); [done|].
  set (o := if decide _ then _ else _).
  assert (Ho : sat loop_ok (λ _, False) o).
  { unfold o. destruct (decide (p_state p = STATE_OPEN_NEW)) as [Hn|]; [|done]. destruct H1 as [H1 _].
    eapply sat_ignoring, sat_mono; [apply (change_state_core STATE_OPEN); try done| |done].
    - intros _. destruct H1 as [[_ Hl] _]. apply Hl. by rewrite (proj1 Hs1), Hn.
    - intros p' (Hp' & Es & _). split; [done|]. apply linked_settled. by rewrite Es. }
  destruct o as [p2|p2|why]; cbn in Ho; [|done|by left]. destruct (fd_msg_is_routable m); [by apply routable_ok|].
  apply parse_ok; [done|]. eapply parsedict_do_msg_returns; [exact Hc|lia].
Qed.

Lemma cnx_error_ok p : loop_ok p → round_ok (psm_cnx_error cfg (p_state p) p).
Proof.
  intros H. assert (Hreset : round_ok (reset_later cfg (p <| pf_cnx_pb := true |>))) by (apply psm_reset_ok, H).
  unfold psm_cnx_error. destruct (p_state p) eqn:Es; try exact Hreset.
  - apply psm_reset_ok, H.
  - apply psm_end_ok, H.
  - apply elect_ok; [apply H|by rewrite Es].
  - by apply grace_over_ok.
Qed.

Lemma loop_state p :
  loop_ok p →
  p_state p ≠ STATE_NEW ∧ p_state p ≠ STATE_ZOMBIE ∧ (tls_disabled cfg = true → p_state p ≠ STATE_OPEN_HANDSHAKE).
Proof. intros [[Hf _] _]. apply Hf. Qed.

Lemma timeout_ok p :
  loop_ok p → p_state p ≠ STATE_OPEN_HANDSHAKE → round_ok (psm_timeout cfg (p_state p) p).
Proof.
  intros H Hh. unfold psm_timeout.
  assert (Hdw : linked (p_state p) → round_ok (or_else (fd_p_dw_timeout cfg p) (psm_end cfg))).
  { intros Hl. eapply (or_else_ok (λ _, False)); [|done]. destruct H as [H _]. apply dw_timeout_core; [done|by apply H|done]. }
  destruct (p_state p) eqn:Es; try by apply Hdw.
  - by destruct (loop_state p H) as (? & ? & _).
  - eapply (or_else_ok (λ _, False)); [|done]. eapply sat_andthen.
    { eapply sat_mono; [apply (change_state_core STATE_WAITCNXACK); [apply H|done..]|intros p' Hp'; exact Hp'|done]. }
    intros p' (Hp' & Hs & _). split; [done|]. unfold settled_state. cbn. by rewrite Hs.
  - apply psm_reset_ok, H.
  - apply psm_reset_ok, H.
  - apply elect_ok; [apply H|by rewrite Es].
  - apply psm_reset_ok, H.
  - done.
  - apply psm_reset_ok, H.
  - by apply grace_over_ok.
  - by destruct (loop_state p H) as (? & ? & _).
Qed.

(** One round of the loop, whatever the event. *)
Lemma step_ok ev p : loop_ok p → event_ok ev → round_ok (psm_step cfg ev p).
Proof.
  intros H He. pose proof (loop_state p H) as Hstate.
  pose proof (timeout_ok p H) as Htime. pose proof (cnx_error_ok p H) as Herr.
  assert (Hmsg : ∀ buf, octet_list buf → round_ok (psm_message cfg (p_state p) buf p)) by (intros buf; by apply message_ok).
  assert (Hend : round_ok (psm_end cfg p)) by apply psm_end_ok, H.
  assert (Hdp : ∀ reason, event_ok (TERMINATE reason) → linked (p_state p) →
    round_ok (or_else (fd_p_dp_initiate cfg reason p) (psm_end cfg))).
  { intros reason Hr Hl. eapply (or_else_ok (λ _, False)); [by apply dp_initiate_core|done]. }
  assert (Hinc : ∀ cer cnx, cnx_ok cnx → round_ok (or_else (fd_p_ce_handle_newCER cfg cer cnx p) (psm_end cfg))).
  { intros cer cnx Hc. eapply or_else_ok; [by apply newCER_core|]. intros p'. by apply psm_end_ok. }
  assert (Hnew : ∀ cnx, cnx_ok cnx → p_state p = STATE_WAITCNXACK ∨ p_state p = STATE_WAITCNXACK_ELEC →
    round_ok (or_else (fd_p_ce_handle_newcnx cfg cnx (p <| p_ini_thr := false |>)) Loop)).
  { intros cnx Hc Hw. eapply or_else_ok; [apply newcnx_core; [apply H|cbn; by destruct Hw as [-> | ->]|done]|].
    intros p' [Hp' Es]. split; [done|]. unfold settled_state. rewrite Es. cbn. by destruct Hw as [-> | ->]. }
  unfold psm_step. cbv zeta.
  destruct (p_state p) eqn:Es; [by destruct Hstate|..|by destruct Hstate as (_ & ? & _)];
    try (right; split; [done|]; destruct Hstate as (_ & _ & Ht); by destruct (tls_disabled cfg); [destruct (Ht eq_refl)|]);
    destruct ev as [[buf| | |]|reason|cer cnx|cnx| |]; cbn in He;
    first [by apply Hmsg | done | by apply Hdp | by apply Hinc | by apply Hnew; [|auto] | by apply Htime
          | apply psm_reset_ok, H | apply elect_ok; [apply H|cbn; by rewrite Es] | idtac].
Qed.

Definition op_ok (op : psm_op) : Prop := match op with Post ev => event_ok ev | _ => True end.

Lemma out_thr_ok ok p : loop_ok p → loop_ok (out_thr cfg ok p).
Proof.
  intros [H Hst]. unfold out_thr. destruct (p_outthr p) eqn:Et, (p_tosend p) as [|om rest]; try done.
  - assert (Hq : frame (p <| p_tosend := rest |>)) by apply H.
    pose proof (do_send_frame om (p_cnxctx p) _ Hq) as Hd. cbn.
    destruct (do_send cfg om _ _) as [p' sent]. cbn in Hd. destruct Hd as [Hf Hs].
    assert (Hp' : loop_ok p') by (split; [by eapply core_same|by eapply same_settled]).
    destruct (ok && sent); [done|]. destruct Hs as (Es & Ec & Ea & Eo). cbn in Es, Ec, Ea, Eo.
    destruct H as (_ & Ha & Ht). destruct Hp' as ((_ & Ha' & _) & Hst').
    split; [|done]. split; [by apply frame_post|]. split; [done|]. cbn. rewrite Ea, Ht, Et. done.
  - by destruct (out_routable om).
Qed.

Lemma psm_exec_ok op p : loop_ok p → op_ok op → round_ok (psm_exec cfg op p).
Proof.
  intros H Ho. destruct op as [| |ev|m|ok|now|l]; cbn [psm_exec]; cbv zeta.
  - destruct (p_events p) as [|ev evs] eqn:E; [done|]. destruct H as (([F1 F2 F3 F4 F5 F6 F7] & H) & Hst).
    rewrite E in F7. apply Forall_cons in F7 as [He F7]. apply step_ok; [|done]. split; [|done]. split; [|done]. by split.
  - destruct (p_events p); [by apply step_ok|done].
  - destruct H as [H Hst]. split; [by apply core_post|done].
  - set (q := if _ && _ then _ else p). assert (Hq : loop_ok q) by (unfold q; by destruct (_ && _)). clearbody q.
    destruct Hq as [Hq Hst]. pose proof (out_send_core (OutMsg m) None q Hq) as Hs.
    destruct (fd_out_send _ _ _ _); cbn in Hs; [|destruct Hs as [-> _]; exact (conj Hq Hst)|by left].
    destruct Hs. split; [done|]. by eapply same_settled.
  - by apply out_thr_ok.
  - destruct H as (([F1 F2 F3 F4 F5 F6 F7] & H) & Hst). split; [|done]. split; [|done]. split; try done. cbn.
    pose proof (expire_spec now _ F5) as Hx. destruct (sr_expire now (p_sr p)) as [[m|] sr]; cbn.
    + by destruct Hx as (? & _ & _ & _ & _ & ? & _).
    + by destruct Hx as [-> _].
  - done.
Qed.

Lemma run_ok ops p : loop_ok p → Forall op_ok ops → round_ok (psm_run cfg ops p).
Proof.
  intros H Hops. revert p H. induction Hops as [|op ops Ho _ IH]; intros p H; [done|]. cbn.
  pose proof (psm_exec_ok op p H Ho) as Hx. destruct (psm_exec cfg op p); [by apply IH|done|done].
Qed.

Lemma start_ok responder started sec hbh eps : loop_ok (psm_start responder started sec hbh eps).
Proof.
  split; [|done]. split; [|done]. split; try done. apply sr_init_ok.
Qed.

End Inv.

(** C21: The state machine of a peer that no extension has validated with a second
    callback ([no_cb2]: with one, which is called when the security of the connection
    is known, a peer can become OPEN without being active), in every run: whatever
    events of the kinds the daemon posts arrive ([op_ok]: octets, reasons of the
    dictionary and, when TLS is disabled, connections without it), in
    whatever order, interleaved with the threads that send, the peer is in the
    list of active peers and has its sending thread exactly when it is OPEN; in
    the states OPEN, OPEN_NEW, REOPEN and SUSPECT, and in its grace period, it
    has a connection, and none when it is CLOSED; the lists of sent requests are
    in order; CLOSING is never seen by the loop.  A thread that ends leaves
    nothing behind.  The only ASSERTs that can fail are the one of a value that is
    missing and, unless TLS is disabled, that of the state OPEN_HANDSHAKE. *)
Theorem psm_invariant {D : Dictionary} {R : RuleBook} cfg responder started sec hbh eps ops :
  no_cb2 cfg → Forall (op_ok cfg) ops →
  round_ok cfg (psm_run cfg ops (psm_start responder started sec hbh eps)).
Proof. intros Hcb2 Hops. apply run_ok; [done|apply start_ok|done]. Qed.
