(* ===== verification/FdPsmRuns.v ===== *)
(** Runs of the peer state machine (FdPsm): what a broken connection does with the
    messages of the peer, what it takes to reopen one, and runs in which the
    machine does not do what it means to. *)

From stdpp Require Import base list strings.
From Stdlib Require Import ZArith Lia.
From S2P Require Import Prelude FdDictionary FdLoops FdApps FdRtData FdMessages FdParse FdRules FdRouting FdFifo FdPeers FdSentReq FdEndpoints FdCapa FdBaseProto FdCapaWire FdPsm FdPsmInv.
Open Scope Z_scope.

(** * A node and its peer *)

Definition raw_msg (flags code hbh : Z) (avps : list Z) : list Z :=
  [1] ++ be_bytes 3 (20 + Z.of_nat (length avps)) ++ [flags] ++ be_bytes 3 code
  ++ be_bytes 4 0 ++ be_bytes 4 hbh ++ be_bytes 4 2 ++ avps.

Definition origin (realm : string) : list Z :=
  raw_avp AC_ORIGIN_HOST 0x40 (ascii_octets "hss.example") ++ raw_avp AC_ORIGIN_REALM 0x40 (ascii_octets realm).

Definition raw_ce (realm : string) (isi : Z) : list Z :=
  origin realm ++ raw_avp AC_HOST_IP_ADDRESS 0x40 [0; 1; 10; 0; 0; 2] ++ raw_avp AC_VENDOR_ID 0x40 (be_bytes 4 0)
  ++ raw_avp AC_PRODUCT_NAME 0 (ascii_octets "hss") ++ raw_avp AC_INBAND_SECURITY_ID 0x40 (be_bytes 4 isi)
  ++ raw_avp AC_AUTH_APPLICATION_ID 0x40 (be_bytes 4 1).

Definition raw_cea (hbh rc : Z) : list Z :=
  raw_msg 0 CC_CAPABILITIES_EXCHANGE hbh (raw_avp AC_RESULT_CODE 0x40 (be_bytes 4 rc) ++ raw_ce "example" 0).

Definition raw_cer (realm : string) (isi : Z) : list Z := raw_msg 0x80 CC_CAPABILITIES_EXCHANGE 1 (raw_ce realm isi).

Definition raw_dpr : list Z :=
  raw_msg 0x80 CC_DISCONNECT_PEER 5 (origin "example" ++ raw_avp AC_DISCONNECT_CAUSE 0x40 (be_bytes 4 0)).

Definition raw_dwr (hbh : Z) : list Z := raw_msg 0x80 CC_DEVICE_WATCHDOG hbh (origin "example").
Definition raw_dwa (hbh : Z) : list Z :=
  raw_msg 0 CC_DEVICE_WATCHDOG hbh (raw_avp AC_RESULT_CODE 0x40 (be_bytes 4 2001) ++ origin "example").

(** A configured, persistent peer; [realm]: the one it must have. *)
Definition sample_psm (realm : option os0) (no_tls : bool) : psm_config :=
  {| cnf_local := sample_gateway; pi_diamid := ascii_octets "hss.example"; pic_realm := realm;
     pic_tctimer := 0; pic_twtimer := 0; cnf_timer_tc := 30; cnf_timer_tw := 30; pic_persist := true;
     tls_disabled := no_tls; cnf_rr_in_answers := false; validators := []; cnf_processing_peers_minimum := 0;
     processing_peer := λ _, true; anscb_timeout := λ _, None |}.

Definition sample_cnx (id : Z) (tls : bool) : cnxctx :=
  {| cc_id := id; cc_tls := tls; cc_unordered := false; cc_handshake := true;
     cc_remote := [(SockAddr AF_INET [10; 0; 0; 2] 3868, Z.lor EP_FL_LL EP_FL_PRIMARY)]; cc_incoming := [] |}.

Definition recv (buf : list Z) : psm_op := Post (FromCnx (CNX_MSG_RECV buf)).

(** The node connects and its CER, the request [hbh], is answered. *)
Definition connects (id hbh : Z) : list psm_op :=
  [Timeout; Post (CNX_ESTABLISHED (sample_cnx id false)); Next; recv (raw_cea hbh ER_DIAMETER_SUCCESS); Next].


(** A CER of the peer arrives on another connection. *)
Definition incoming (cnx : cnxctx) (buf : list Z) : list psm_op :=
  match first_message buf with Some cer => [Post (CNX_INCOMING cer cnx); Next] | None => [] end.

(** * Failover *)

Section Failover.
Context {D : Dictionary} {R : RuleBook} (cfg : psm_config).
Implicit Types (p : peer).

Definition failed_over (s : sentreq) : outmsg := OutMsg (set_hbhid (prevhbh s) (set_retransmit (sr_req s))).

(** What other peers should deliver instead: the messages for the routing that
    wait to be sent, and the requests without an answer. *)
Definition unsent p : list outmsg :=
  filter out_routable (p_tosend p) ++ p_tofailover p ++ (failed_over <$> filter routable (srs (p_sr p))).

(** They went back to the routing. *)
Definition handed_back p p' : Prop :=
  g_outgoing p' = g_outgoing p ++ unsent p ∧ p_tosend p' = [] ∧ p_tofailover p' = [] ∧ srs (p_sr p') = [].

Lemma failover_hands_back p :
  sr_ok (p_sr p) → ∃ p', fd_peer_failover_msg p = Done p' ∧ handed_back p p' ∧ p_events p' = p_events p.
Proof.
  intros Hsr. unfold fd_peer_failover_msg. rewrite failover_spec by done. eexists. split; [done|].
  unfold handed_back, unsent. cbn. rewrite <- list_fmap_compose, <- app_assoc. by split_and!.
Qed.

Lemma closed_hands_back p :
  core cfg p → p_state p = STATE_OPEN ∨ p_state p = STATE_CLOSING_GRACE →
  ∃ p', fd_psm_change_state cfg STATE_CLOSED p = Done p' ∧ handed_back p p'.
Proof.
  intros ([Hst Hc _ _ Hsr _ _] & _) Hs. unfold fd_psm_change_state. cbv zeta.
  destruct Hs as [Hs | Hs]; rewrite Hs.
  - destruct (Hc ltac:(by rewrite Hs)) as [cnx Ec]. cbn -[fd_peer_failover_msg]. unfold leave_open_state. cbn -[fd_peer_failover_msg].
    rewrite Ec. match goal with |- context [fd_peer_failover_msg ?q] => destruct (failover_hands_back q Hsr) as (p' & -> & Hp' & _) end.
    cbn. eexists. split; [reflexivity|]. by destruct (pic_persist cfg).
  - rewrite !decide_False by done. cbn [andthen]. rewrite (decide_True _ _ eq_refl).
    match goal with |- context [fd_peer_failover_msg ?q] => destruct (failover_hands_back q Hsr) as (p' & -> & Hp' & _) end.
    cbn. eexists. split; [reflexivity|]. by destruct (pic_persist cfg).
Qed.

Lemma cleanup_hands_back t p :
  core cfg p → p_state p = STATE_OPEN ∨ p_state p = STATE_CLOSING_GRACE →
  ∃ p', fd_psm_cleanup cfg t p = Done p' ∧ handed_back p p'.
Proof.
  intros H Hs. unfold fd_psm_cleanup. destruct (closed_hands_back p H Hs) as (p' & E & H1 & H2 & H3 & H4). rewrite E.
  destruct (decide (p_state p = STATE_ZOMBIE)) as [Hz|_]; [rewrite Hz in Hs; by destruct Hs|]. cbn.
  eexists. split; [reflexivity|]. unfold handed_back. destruct t; cbn; unfold fd_p_sr_on_disconnect; rewrite H4; by split_and!.
Qed.

End Failover.

(** C22: When the connection of an OPEN peer breaks, or that of a peer in its grace
    period, no message for the routing is lost: those that wait in its queue,
    those its sending thread has put aside and every request it has sent and not
    seen answered go to the global outgoing queue, the latter marked as
    retransmitted and with the identifier they had before; the peer keeps none. *)
Theorem no_request_lost {D : Dictionary} {R : RuleBook} cfg responder started sec hbh eps ops p :
  no_cb2 cfg → Forall (op_ok cfg) ops → psm_run cfg ops (psm_start responder started sec hbh eps) = Loop p →
  p_state p = STATE_OPEN ∨ p_state p = STATE_CLOSING_GRACE →
  ∃ p', (psm_step cfg (FromCnx CNX_ERROR) p = Loop p' ∨ psm_step cfg (FromCnx CNX_ERROR) p = Ended p') ∧ handed_back p p'.
Proof.
  intros Hcb Hops Hrun Hs.
  assert (H : core cfg p).
  { pose proof (run_ok cfg Hcb ops _ (start_ok cfg responder started sec hbh eps) Hops) as H. rewrite Hrun in H. apply H. }
  assert (Hclean : ∀ t q, core cfg q → same_link p q → unsent q = unsent p → g_outgoing q = g_outgoing p →
    ∃ p', fd_psm_cleanup cfg t q = Done p' ∧ handed_back p p').
  { intros t q Hq (Es & _) Eu Eo. destruct (cleanup_hands_back cfg t q) as (p' & E & Hp'); [done|by rewrite Es|].
    exists p'. split; [done|]. unfold handed_back in *. by rewrite Eu, Eo in Hp'. }
  unfold psm_step, psm_cnx_error. cbv zeta. destruct Hs as [Hs | Hs]; rewrite Hs; unfold reset_later, psm_reset, psm_end.
  - match goal with |- context [pf_delete ?q] => destruct (pf_delete q) end;
      match goal with |- context [fd_psm_cleanup cfg ?t ?q] => destruct (Hclean t q H) as (p' & -> & Hp'); [done..|] end; cbn; eauto.
  - destruct (pf_localterm p);
      match goal with |- context [fd_psm_cleanup cfg ?t ?q] => destruct (Hclean t q H) as (p' & -> & Hp'); [done..|] end; cbn.
    + eexists. split; [by right|]. exact Hp'.
    + eexists. split; [by left|]. exact Hp'.
Qed.

(** * Reopening *)

Section Reopen.
Context {D : Dictionary} {R : RuleBook} (cfg : psm_config).
Implicit Types (p : peer) (o : outcome).

Definition is_watchdog (ev : event) : bool :=
  match ev with
  | FromCnx (CNX_MSG_RECV buf) =>
      match fd_msg_parse_buffer buf with Ok m => msg_code (msg_public m) =? CC_DEVICE_WATCHDOG | _ => false end
  | _ => false
  end.

(** The operation takes a watchdog message from the queue. *)
Definition takes_watchdog (op : psm_op) p : nat :=
  match op, p_events p with Next, ev :: _ => if is_watchdog ev then 1 else 0 | _, _ => 0 end.

(** A run in REOPEN up to OPEN, with the number of watchdog messages taken. *)
Inductive reopens : peer → nat → peer → Prop :=
| reopens_last p op p' :
    p_state p = STATE_REOPEN → psm_exec cfg op p = Loop p' → p_state p' = STATE_OPEN →
    reopens p (takes_watchdog op p) p'
| reopens_more p op p1 n p' :
    p_state p = STATE_REOPEN → psm_exec cfg op p = Loop p1 → reopens p1 n p' →
    reopens p (takes_watchdog op p + n) p'.

(** The same, computed. *)
Fixpoint reopening (ops : list psm_op) p : option (nat * peer) :=
  match ops with
  | [] => None
  | op :: ops =>
      if decide (p_state p = STATE_REOPEN) then
        match psm_exec cfg op p with
        | Loop p1 =>
            if decide (p_state p1 = STATE_OPEN) then Some (takes_watchdog op p, p1)
            else kp ← reopening ops p1; Some ((takes_watchdog op p + kp.1)%nat, kp.2)
        | _ => None
        end
      else None
  end.

Lemma reopening_sound ops p k p' : reopening ops p = Some (k, p') → reopens p k p'.
Proof.
  revert p k. induction ops as [|op ops IH]; intros p k; [done|]. cbn [reopening]. destruct (decide _) as [Hs|]; [|done].
  destruct (psm_exec cfg op p) as [p1| |] eqn:E; [|done..]. destruct (decide _) as [Ho|].
  - intros [= <- <-]. by constructor.
  - destruct (reopening ops p1) as [[k1 p2]|] eqn:E1; [|done]. intros [= <- <-]. eapply reopens_more; [done|exact E|by apply IH].
Qed.

(** What holds of the peer a handler leaves, if it fails or not. *)
Definition ends (P : peer → Prop) o : Prop := match o with Done p | Failed p => P p | Aborted _ => True end.

Lemma ends_andthen (P P' : peer → Prop) o k :
  ends P' o → (∀ p, P' p → P p) → (∀ p, P' p → ends P (k p)) → ends P (let! p := o in k p).
Proof. destruct o; cbn; auto. Qed.

Lemma ends_ignoring P o : ends P o → ends P (ignoring o).
Proof. by destruct o. Qed.

Definition in_state (s : peer_state) (n : Z) p : Prop := p_state p = s ∧ pf_reopen_cnt p = n.

Lemma do_send_state om c p s n : in_state s n p → in_state s n (do_send cfg om c p).1.
Proof.
  intros H. unfold do_send. destruct om as [m|]; [|done]. destruct (has_flag _ _).
  - destruct (fd_msg_bufferize _) as [[buf m'']| | |]; [|done..]. cbn. by destruct (fd_p_sr_store _ _ _ _) as [[sr b]|].
  - by destruct (fd_msg_bufferize _) as [[buf m'']| | |].
Qed.

Lemma out_send_state om c p s n : in_state s n p → ends (in_state s n) (fd_out_send cfg om c p).
Proof.
  intros H. unfold fd_out_send.
  destruct c, (p_cnxctx p); try done; destruct (decide (p_state p = STATE_OPEN)); done || by apply do_send_state.
Qed.

Lemma out_send_pending om c p : ends (λ p', pf_dw_pending p' = pf_dw_pending p) (fd_out_send cfg om c p).
Proof.
  unfold fd_out_send. destruct c, (p_cnxctx p); try done; destruct (decide (p_state p = STATE_OPEN)); try done;
    (unfold do_send; destruct om as [m|]; [|done]; destruct (has_flag _ _);
     [destruct (fd_msg_bufferize _) as [[buf m'']| | |]; [|done..]; cbn; by destruct (fd_p_sr_store _ _ _ _) as [[sr b]|]
     |by destruct (fd_msg_bufferize _) as [[buf m'']| | |]]).
Qed.

Lemma failover_state p s n : in_state s n p → ends (in_state s n) (fd_peer_failover_msg p).
Proof. intros H. unfold fd_peer_failover_msg. by destruct (fd_p_sr_failover _) as [[msgs sr]|]. Qed.

Lemma change_state_state new p n :
  pf_reopen_cnt p = n → ends (in_state new n) (fd_psm_change_state cfg new p).
Proof.
  intros Hn. unfold fd_psm_change_state. cbv zeta. destruct (decide (p_state p = new)); [by cbn|].
  assert (H : in_state new n (p <| p_state := new |>)) by done.
  apply (ends_andthen _ (in_state new n)); [|done|].
  { destruct (decide (p_state p = STATE_OPEN)); [|done]. unfold leave_open_state. cbn -[fd_peer_failover_msg].
    destruct (p_cnxctx p); [|done]. destruct (bool_decide _); [done|by apply failover_state]. }
  intros p1 H1. apply (ends_andthen _ (in_state new n)); [|done|].
  { destruct (decide (p_state p = STATE_CLOSING_GRACE)); [by apply failover_state|done]. }
  intros p2 H2. apply (ends_andthen _ (in_state new n)); [|done|].
  { destruct (decide (new = STATE_OPEN)); [|done]. unfold enter_open_state. destruct (p_active p2); [done|].
    destruct (p_cb2 p2) as [cb2|]; [by destruct (cb2 _)|]. cbn. destruct (decide _); [|done]. by destruct (p_cnxctx p2). }
  intros p3 H3. destruct (decide (new = STATE_CLOSED)); [|done]. cbn. by destruct (pic_persist cfg).
Qed.

Definition closed p : Prop := p_state p = STATE_CLOSED.

Lemma cleanup_closed t p : p_state p ≠ STATE_ZOMBIE → ends closed (fd_psm_cleanup cfg t p).
Proof.
  intros Hz. unfold fd_psm_cleanup. destruct (decide _); [done|].
  apply (ends_andthen _ closed); [|done|].
  - apply ends_ignoring. pose proof (change_state_state STATE_CLOSED p _ eq_refl) as H.
    destruct (fd_psm_change_state _ _ _); [apply H|apply H|done].
  - intros p' H. by destruct t.
Qed.

(** The peer after a round, if the loop goes on. *)
Definition on_loop (P : peer → Prop) (r : round) : Prop := match r with Loop p => P p | _ => True end.

(** What one operation can do to a peer that reopens: the counter grows only with a
    watchdog message, and OPEN comes when it was 3. *)
Definition reopen_step (n : Z) (watchdog : bool) p : Prop :=
  (p_state p = STATE_REOPEN → pf_reopen_cnt p = n ∨ (watchdog = true ∧ pf_reopen_cnt p = n + 1 ∧ n < 3))
  ∧ (p_state p = STATE_OPEN → watchdog = true ∧ n = 3).

Lemma same_reopens n w p : in_state STATE_REOPEN n p → reopen_step n w p.
Proof. intros [Hs Hn]. split; [by left|]. by rewrite Hs. Qed.

Lemma elsewhere n w p : p_state p ≠ STATE_REOPEN → p_state p ≠ STATE_OPEN → reopen_step n w p.
Proof. by split. Qed.

Lemma closed_elsewhere n w p : closed p → reopen_step n w p.
Proof. intros H. apply elsewhere; by rewrite H. Qed.

Lemma reset_reopens n w p : p_state p ≠ STATE_ZOMBIE → on_loop (reopen_step n w) (psm_reset cfg p).
Proof.
  intros Hz. unfold psm_reset, psm_end. destruct (pf_delete p).
  - by destruct (fd_psm_cleanup cfg true p).
  - pose proof (cleanup_closed false p Hz) as H. destruct (fd_psm_cleanup cfg false p); cbn in *; try done; by apply closed_elsewhere.
Qed.

Lemma end_reopens n w p : on_loop (reopen_step n w) (psm_end cfg p).
Proof. unfold psm_end. by destruct (fd_psm_cleanup cfg true p). Qed.

Lemma or_else_reopens n w o failed :
  ends (reopen_step n w) o → (∀ p, o = Failed p → on_loop (reopen_step n w) (failed p)) →
  on_loop (reopen_step n w) (or_else o failed).
Proof. destruct o; cbn; auto. Qed.

Lemma dw_handle_reopens m req n p :
  in_state STATE_REOPEN n p → 1 ≤ n ≤ 3 →
  ends (λ p', reopen_step n true p' ∧ p_state p' ≠ STATE_ZOMBIE) (fd_p_dw_handle cfg m req p).
Proof.
  intros H Hn. assert (Hw : ∀ q, in_state STATE_REOPEN n q → reopen_step n true q ∧ p_state q ≠ STATE_ZOMBIE).
  { intros q Hq. split; [by apply same_reopens|]. by rewrite (proj1 Hq). }
  unfold fd_p_dw_handle. apply (ends_andthen _ (in_state STATE_REOPEN n)); [|done|].
  { unfold check_state_id. destruct (find_avp _ m) as [a|]; [|done]. destruct (_ ≫= u32_of); [|done]. cbn -[Z.eqb].
    by destruct (_ =? 0), (_ =? _). }
  intros p1 H1. apply (ends_andthen _ (in_state STATE_REOPEN n)); [|done|].
  { destruct req; [by apply out_send_state|done]. }
  intros p2 H2. cbv zeta. set (p3 := if _ || _ then _ else p2).
  assert (H3 : in_state STATE_REOPEN n p3) by (unfold p3; by destruct (_ || _)). clearbody p3.
  rewrite decide_True by apply H3. destruct H3 as [Hs3 Hc3].
  destruct (_ =? 0) eqn:E.
  - cbn -[Z.modulo] in E. rewrite Hc3 in E. apply Z.eqb_eq in E.
    pose proof (change_state_state STATE_OPEN (p3 <| pf_reopen_cnt := (pf_reopen_cnt p3 + 1) mod 4 |>) _ eq_refl) as Hc.
    assert (n = 3) as -> by (assert (n = 1 ∨ n = 2 ∨ n = 3) as [-> | [-> | ->]] by lia; by cbn in E).
    destruct (fd_psm_change_state _ _ _); [..|done]; cbn in Hc |- *; destruct Hc as [Hs _]; unfold reopen_step; rewrite Hs; by split_and!.
  - cbn -[Z.modulo] in E. rewrite Hc3 in E. apply Z.eqb_neq in E.
    assert (Hlt : n < 3) by (assert (n = 1 ∨ n = 2 ∨ n = 3) as [-> | [-> | ->]] by lia; [lia..|by destruct E]).
    assert (Hx : ends (in_state STATE_REOPEN (n + 1)) (send_DWR cfg (p3 <| pf_reopen_cnt := (pf_reopen_cnt p3 + 1) mod 4 |>))).
    { apply out_send_state. split; [done|]. cbn -[Z.modulo]. rewrite Hc3. by rewrite Z.mod_small by lia. }
    destruct (send_DWR _ _); [..|done]; cbn in Hx |- *; destruct Hx as [Hs Hc]; (split; [|by rewrite Hs]);
      (split; [|by rewrite Hs]); intros _; right; by rewrite Hc.
Qed.

Lemma dp_handle_reopens m req n p :
  in_state STATE_REOPEN n p →
  match fd_p_dp_handle cfg m req p with
  | Done p' => p_state p' = STATE_CLOSING ∨ reopen_step n false p'
  | Failed p' => p_state p' ≠ STATE_ZOMBIE
  | Aborted _ => True
  end.
Proof.
  intros H. set (P := λ o, match o with
    | Done p' => p_state p' = STATE_CLOSING ∨ reopen_step n false p' | Failed p' => p_state p' ≠ STATE_ZOMBIE | Aborted _ => True end).
  change (P (fd_p_dp_handle cfg m req p)).
  assert (Hthen : ∀ s o k, s ≠ STATE_ZOMBIE → ends (in_state s n) o → (∀ q, in_state s n q → P (k q)) → P (let! q := o in k q)).
  { intros s o k Hs Ho Hk. destruct o as [q|q|]; cbn in *; [by apply Hk|by rewrite (proj1 Ho)|done]. }
  unfold fd_p_dp_handle. destruct req.
  - apply (Hthen STATE_REOPEN); [done| |].
    { destruct (find_avp _ m) as [a|]; [|done]. by destruct (avp_val (data_of a) ≫= u32_of). }
    intros p1 H1. cbv zeta. destruct (load_pending p1).
    + apply (Hthen STATE_CLOSING_GRACE); [done|by apply change_state_state, H1|]. intros p2 H2.
      assert (Hx : ends (in_state STATE_CLOSING_GRACE n) (fd_out_send cfg (LinkAnswer m "DIAMETER_SUCCESS" (add_origin (cnf_local cfg) false)) None
        (next_timeout false GRACE_TIMEOUT p2))) by by apply out_send_state.
      destruct (fd_out_send _ _ _ _) as [q|q|]; cbn in *; [right; apply elsewhere|..]; try done; by rewrite (proj1 Hx).
    + apply (Hthen STATE_CLOSING); [done|by apply change_state_state, H1|]. intros p2 H2.
      apply (Hthen STATE_CLOSING); [done|by apply out_send_state|]. intros p3 H3.
      pose proof (cleanup_closed false p3 ltac:(by rewrite (proj1 H3))) as Hc.
      destruct (fd_psm_cleanup _ _ _) as [q|q|]; cbn in *; [right; by apply closed_elsewhere|by rewrite Hc|done].
  - destruct (load_pending p); [right; by apply same_reopens|].
    pose proof (change_state_state STATE_CLOSING p n ltac:(apply H)) as Hc.
    destruct (fd_psm_change_state _ _ _); cbn in *; [left; apply Hc|by rewrite (proj1 Hc)|done].
Qed.

Lemma answer_reopens om c n w p :
  in_state STATE_REOPEN n p → on_loop (reopen_step n w) (or_else (ignoring (fd_out_send cfg om c p)) (psm_reset cfg)).
Proof.
  intros H. pose proof (out_send_state om c p _ _ H) as Ho.
  destruct (fd_out_send cfg om c p); cbn in *; try done; by apply same_reopens.
Qed.

Lemma link_reopens m n p :
  in_state STATE_REOPEN n p → 1 ≤ n ≤ 3 →
  on_loop (reopen_step n (msg_code (msg_public m) =? CC_DEVICE_WATCHDOG)) (psm_link cfg m p).
Proof.
  intros H Hn. unfold psm_link. cbv zeta. set (req := has_flag _ _).
  destruct (_ =? CC_CAPABILITIES_EXCHANGE).
  { unfold fd_p_ce_msgrcv. destruct req; [by apply answer_reopens|].
    rewrite decide_False by by rewrite (proj1 H). by apply same_reopens. }
  destruct (_ =? CC_DISCONNECT_PEER) eqn:Ed.
  { pose proof (dp_handle_reopens m req n p H) as Hd.
    replace (msg_code (msg_public m) =? CC_DEVICE_WATCHDOG) with false by (apply Z.eqb_eq in Ed; by rewrite Ed).
    destruct (fd_p_dp_handle cfg m req p) as [q|q|]; [|by apply reset_reopens|done].
    destruct (decide (p_state q = STATE_CLOSING)); [apply end_reopens|]. cbn. by destruct Hd. }
  destruct (_ =? CC_DEVICE_WATCHDOG) eqn:Ew.
  { pose proof (dw_handle_reopens m req n p H Hn) as Hd.
    apply or_else_reopens; [|intros q Hq; rewrite Hq in Hd; apply reset_reopens; apply Hd].
    destruct (fd_p_dw_handle _ _ _ _); [apply Hd|apply Hd|done]. }
  destruct req; [by apply answer_reopens|by apply same_reopens].
Qed.

Lemma dict_keeps_header fuel m m' : parsedict_do_msg fuel m = Ok m' → msg_public m' = msg_public m.
Proof.
  unfold parsedict_do_msg. cbv zeta.
  assert (Hc : ∀ model mc, (children ← parsedict_do_chain fuel true (msg_children m);
    mret (set_msg model mc (msg_mnf_flags m) children m)) = Ok m' → msg_public m' = msg_public m).
  { intros model mc. destruct (parsedict_do_chain _ _ _); [|done..]. by intros [= <-]. }
  destruct (msg_model m) as [data|]; [destruct (model_kept _ _); [apply Hc|]|];
    (destruct (_ && _); [done|]; destruct (cmd_by_code _ _); [apply Hc|done]).
Qed.

Lemma parse_reopens fuel m n p :
  in_state STATE_REOPEN n p → 1 ≤ n ≤ 3 →
  on_loop (reopen_step n (msg_code (msg_public m) =? CC_DEVICE_WATCHDOG)) (psm_parse cfg fuel m p).
Proof.
  intros H Hn. unfold psm_parse, fd_msg_parse_rules.
  destruct (parsedict_do_msg fuel m) as [m'|e err| |] eqn:E; cbn [mbind result_mbind]; [| |done..].
  - apply dict_keeps_header in E. rewrite <- E. destruct (parserules_do_msg m') as [u|e err| |]; cbn [mbind result_mbind mret result_mret];
      [by apply link_reopens| |done..].
    destruct e; try apply end_reopens; (rewrite E; case_match; [by apply answer_reopens|by apply same_reopens]).
  - destruct e; try apply end_reopens; (case_match; [by apply answer_reopens|by apply same_reopens]).
Qed.

Lemma message_reopens buf n p :
  in_state STATE_REOPEN n p → 1 ≤ n ≤ 3 →
  on_loop (reopen_step n (is_watchdog (FromCnx (CNX_MSG_RECV buf)))) (psm_message cfg STATE_REOPEN buf p).
Proof.
  intros H Hn. unfold psm_message, is_watchdog. destruct (fd_msg_parse_buffer buf) as [m| | |]; [|by apply same_reopens|done..].
  rewrite decide_False by done. cbv zeta. set (f := if has_flag _ _ then _ else _).
  assert (Hf : in_state STATE_REOPEN n f.2) by (unfold f; destruct (has_flag _ _); [done|]; by destruct (fd_p_sr_fetch _ _)).
  destruct f as [found p1]. cbn in Hf. destruct (negb found); [by apply same_reopens|].
  rewrite decide_False by done. destruct (fd_msg_is_routable m); [|by apply parse_reopens].
  unfold psm_routable. cbv zeta. destruct (has_flag _ _), (_ && _); by apply same_reopens.
Qed.

Lemma step_reopens ev n p :
  in_state STATE_REOPEN n p → 1 ≤ n ≤ 3 → on_loop (reopen_step n (is_watchdog ev)) (psm_step cfg ev p).
Proof.
  intros H Hn. unfold psm_step. cbv zeta. rewrite (proj1 H).
  assert (Hz : p_state p ≠ STATE_ZOMBIE) by by rewrite (proj1 H).
  destruct ev as [[buf| | |]|reason|cer cnx|cnx| |].
  - by apply message_reopens.
  - by apply reset_reopens.
  - by apply same_reopens.
  - by apply reset_reopens.
  - unfold fd_p_dp_initiate. destruct (disconnect_cause _) as [dc|]; [|done].
    pose proof (change_state_state STATE_CLOSING_GRACE (set_lastDC dc (next_eteid p)) _ eq_refl) as Hc.
    destruct (fd_psm_change_state _ _ _) as [q|q|]; cbn -[fd_out_send]; [|apply end_reopens|done].
    match goal with |- context [fd_out_send cfg ?om None ?r] => pose proof (out_send_state om None r _ _ Hc) as Ho;
      destruct (fd_out_send cfg om None r) end; cbn in *; try done; apply elsewhere; by rewrite (proj1 Ho).
  - unfold fd_p_ce_handle_newCER. cbv zeta. rewrite (proj1 H). by apply same_reopens.
  - by apply same_reopens.
  - by apply same_reopens.
  - unfold psm_timeout, fd_p_dw_timeout. destruct (pf_dw_pending p).
    + pose proof (change_state_state STATE_SUSPECT p _ eq_refl) as Hc.
      destruct (fd_psm_change_state _ _ _) as [q|q|]; cbn; [|apply end_reopens|done]. apply elsewhere; cbn; by rewrite (proj1 Hc).
    + assert (Hx : ends (in_state STATE_REOPEN n) (send_DWR cfg p)) by by apply out_send_state.
      destruct (send_DWR cfg p) as [q|q|]; cbn; [by apply same_reopens|apply end_reopens|done].
Qed.

Lemma exec_reopens op n p :
  in_state STATE_REOPEN n p → 1 ≤ n ≤ 3 →
  on_loop (reopen_step n (bool_decide (takes_watchdog op p = 1%nat))) (psm_exec cfg op p).
Proof.
  intros H Hn. destruct op as [| |ev|m|ok|now|l]; cbn [psm_exec takes_watchdog]; try by apply same_reopens.
  - destruct (p_events p) as [|ev evs] eqn:Ee; [by apply same_reopens|].
    replace (bool_decide _) with (is_watchdog ev) by by destruct (is_watchdog ev). by apply step_reopens.
  - destruct (p_events p); [|by apply same_reopens]. by apply (step_reopens PSM_TIMEOUT).
  - cbv zeta. set (q := if _ && _ then _ else p). assert (Hq : in_state STATE_REOPEN n q) by (unfold q; by destruct (_ && _)).
    pose proof (out_send_state (OutMsg m) None q _ _ Hq) as Ho. destruct (fd_out_send _ _ _ _); cbn in *; try done; by apply same_reopens.
  - apply same_reopens. unfold out_thr. destruct (p_outthr p), (p_tosend p) as [|om rest]; try done; cbv zeta.
    + match goal with |- context [do_send cfg om ?c ?q] => pose proof (do_send_state om c q _ _ H) as Hd;
        destruct (do_send cfg om c q) as [p' sent] end. by destruct (ok && sent).
    + by destruct (out_routable om).
Qed.

Lemma reopens_count p k p' : reopens p k p' → 1 ≤ pf_reopen_cnt p ≤ 3 → 4 - pf_reopen_cnt p ≤ Z.of_nat k.
Proof.
  induction 1 as [p op p' Hs Hx Ho|p op p1 k p' Hs Hx Hr IH]; intros Hn;
    pose proof (exec_reopens op _ p (conj Hs eq_refl) Hn) as Hstep; rewrite Hx in Hstep; cbn in Hstep; destruct Hstep as [H1 H2].
  - destruct (H2 Ho) as [Hw ->]. apply bool_decide_eq_true in Hw. lia.
  - destruct (H1 ltac:(by destruct Hr)) as [Hc|(Hw & Hc & Hlt)]; rewrite Hc in IH.
    + specialize (IH Hn). lia.
    + apply bool_decide_eq_true in Hw. specialize (IH ltac:(lia)). lia.
Qed.

End Reopen.

(** C23: After a connection was lost, the peer must prove itself: the move to OPEN on
    the next connection leads to REOPEN instead, with a DWR pending; and a run that
    goes from there to OPEN without leaving REOPEN in between, whatever else
    arrives, takes at least three watchdog messages from the queue.  (A run that
    leaves REOPEN otherwise, by a shutdown or a DPR, ends this connection; what the
    next one has to prove is not part of it.) *)
Theorem reopen_after_three_watchdogs {D : Dictionary} {R : RuleBook} cfg p p1 :
  pf_cnx_pb p = true → open_or_reopen cfg p = Done p1 →
  p_state p1 = STATE_REOPEN ∧ pf_dw_pending p1 = true ∧ ∀ k p2, reopens cfg p1 k p2 → (3 ≤ k)%nat.
Proof.
  intros Hpb. unfold open_or_reopen. rewrite Hpb. pose proof (change_state_state cfg STATE_REOPEN p _ eq_refl) as Hs.
  assert (Hdw : ∀ q, in_state STATE_REOPEN (pf_reopen_cnt p) q → fd_p_dw_reopen cfg q = Done p1 →
    in_state STATE_REOPEN 1 p1 ∧ pf_dw_pending p1 = true).
  { intros q [Hq _] E. unfold fd_p_dw_reopen, send_DWR in E.
    match type of E with fd_out_send cfg ?om ?c ?r = _ =>
      pose proof (out_send_state cfg om c r STATE_REOPEN 1 (conj Hq eq_refl)) as Ho; pose proof (out_send_pending cfg om c r) as Hp end.
    rewrite E in Ho, Hp. done. }
  destruct (fd_psm_change_state cfg STATE_REOPEN p) as [q|q|]; cbn [ignoring andthen]; [| |done];
    (intros E; destruct (Hdw q Hs E) as [[H1 Hc] Hp]; split_and!; [done..|]; intros k p2 Hk;
     pose proof (reopens_count cfg p1 k p2 Hk ltac:(lia)); lia).
Qed.

(** * Runs *)

Definition sample_start : peer := psm_start false false PI_SEC_NONE 100 [].

(** The peer a run ends with. *)
Definition final (r : round) : peer := match r with Loop p | Ended p => p | Abort _ => sample_start end.

(** A request of an application. *)
Definition sample_request (eteid : Z) : msg :=
  {| msg_public := {| msg_version := 1; msg_length := 20; msg_flags := 0xc0; msg_code := 268; msg_appl := 16777250;
                      msg_hbhid := 0; msg_eteid := eteid |};
     msg_model := None; msg_mnf_code := 0; msg_mnf_flags := 0; msg_children := [] |}.

(** An OPEN peer with a DWR and a request without an answer, and another request
    to send. *)
Definition busy_ops : list psm_op :=
  connects 1 100 ++ [Timeout; OutThread true; RouteOut (sample_request 5); OutThread true; RouteOut (sample_request 6)].

Lemma octets_ok l : forallb (λ x, (0 <=? x) && (x <? 256)) l = true → octet_list l.
Proof. rewrite forallb_forall. intros H. apply Forall_forall. intros x Hx%list_elem_of_In%H. lia. Qed.

Ltac run_ops_ok := repeat constructor; try (apply octets_ok; vm_compute; reflexivity); try discriminate.

Lemma psm_invariant_witness :
  let r := psm_run (sample_psm None true) busy_ops sample_start in
  round_ok (sample_psm None true) r ∧ p_state (final r) = STATE_OPEN ∧ p_active (final r) = true
  ∧ length (p_tosend (final r)) = 1%nat ∧ length (srs (p_sr (final r))) = 2%nat.
Proof.
  intros r. split.
  - apply (psm_invariant (sample_psm None true) false false PI_SEC_NONE 100 [] busy_ops).
    + apply Forall_nil_2.
    + run_ops_ok.
  - vm_compute. split; [reflexivity|]. split; [reflexivity|]. split; reflexivity.
Defined.

Lemma no_request_lost_witness :
  let cfg := sample_psm None true in
  let p := final (psm_run cfg busy_ops sample_start) in
  length (unsent p) = 2%nat ∧ ∃ p', (psm_step cfg (FromCnx CNX_ERROR) p = Loop p' ∨ psm_step cfg (FromCnx CNX_ERROR) p = Ended p')
  ∧ handed_back p p'.
Proof.
  intros cfg p. split; [vm_compute; reflexivity|]. apply (no_request_lost cfg false false PI_SEC_NONE 100 [] busy_ops p).
  - apply Forall_nil_2.
  - run_ops_ok.
  - vm_compute. reflexivity.
  - left. vm_compute. reflexivity.
Defined.

(** The connection of an OPEN peer breaks, and the node connects again. *)
Definition lost_ops : list psm_op :=
  connects 1 100 ++ [Post (FromCnx CNX_ERROR); Next; Timeout; Post (CNX_ESTABLISHED (sample_cnx 2 false)); Next].

Definition three_answers : list psm_op :=
  [recv (raw_dwa 102); Next; recv (raw_dwr 9); Next; recv (raw_dwa 103); Next].

Lemma reopen_after_three_watchdogs_witness :
  let cfg := sample_psm None true in
  let p := final (psm_run cfg lost_ops sample_start) in
  ∃ p1 p2, open_or_reopen cfg p = Done p1 ∧ reopens cfg p1 3 p2 ∧ p_state p1 = STATE_REOPEN
  ∧ (∀ k p2, reopens cfg p1 k p2 → (3 ≤ k)%nat).
Proof.
  intros cfg p. destruct (open_or_reopen cfg p) as [p1|p1|] eqn:E; [|vm_compute in E; discriminate E..].
  destruct (reopening cfg three_answers p1) as [[k p2]|] eqn:E2.
  - exists p1, p2. split; [reflexivity|].
    destruct (reopen_after_three_watchdogs cfg p p1 ltac:(vm_compute; reflexivity) E) as (Hs & _ & Hk).
    split; [|split; [exact Hs|exact Hk]].
    vm_compute in E. injection E as <-. assert (k = 3%nat) as -> by (vm_compute in E2; injection E2 as <- _; reflexivity).
    eapply reopening_sound. exact E2.
  - vm_compute in E. injection E as <-. vm_compute in E2. discriminate E2.
Defined.

(** A CER with Inband-Security-Id TLS on a connection that is protected by TLS
    already stops the daemon: the machine agrees on a handshake, which is refused
    on such a connection, and stays in OPEN_HANDSHAKE, where the next event fails
    an ASSERT.  The same CER without that value opens the peer. *)
Theorem inband_security_crash :
  let cfg := sample_psm None false in
  let crash := incoming (sample_cnx 1 true) (raw_cer "example" ACV_ISI_TLS) in
  let works := incoming (sample_cnx 1 true) (raw_cer "example" ACV_ISI_NO_INBAND_SECURITY) in
  crash ≠ [] ∧ Forall (op_ok cfg) crash
  ∧ psm_run cfg (crash ++ [Next]) sample_start = Abort HandshakeState
  ∧ p_state (final (psm_run cfg works sample_start)) = STATE_OPEN.
Proof.
  cbv zeta. split; [vm_compute; discriminate|]. split; [vm_compute; run_ops_ok|]. split; vm_compute; reflexivity.
Qed.

(** A rejected CER can end a configured peer: received while the node itself
    connects, and rejected (here for its realm) when that attempt fails, it
    leaves the machine in the election; the error it reports to itself is then
    taken for one of the initiating side, there is no second CER to handle, and
    the peer, though persistent, becomes a ZOMBIE.  When the node does not
    connect at the time, the same CER leaves it CLOSED, to connect later. *)
Theorem rejected_election_ends_peer :
  let cfg := sample_psm (Some (ascii_octets "other")) true in
  let cer := incoming (sample_cnx 1 false) (raw_cer "example" ACV_ISI_NO_INBAND_SECURITY) in
  let fails := [Timeout] ++ cer ++ [Post CNX_FAILED; Next] in
  pic_persist cfg = true ∧ Forall (op_ok cfg) fails
  ∧ (∃ p, psm_run cfg fails sample_start = Loop p ∧ p_state p = STATE_WAITCNXACK_ELEC ∧ p_receiver p = None)
  ∧ (∃ p, psm_run cfg (fails ++ [Next]) sample_start = Ended p ∧ p_state p = STATE_ZOMBIE)
  ∧ (∃ p, psm_run cfg (cer ++ [Next]) sample_start = Loop p ∧ p_state p = STATE_CLOSED).
Proof.
  cbv zeta. split; [reflexivity|]. split; [vm_compute; run_ops_ok|].
  split_and!; eexists; vm_compute; split_and!; reflexivity.
Qed.

(** The mark of an unanswered DWR outlives the connection: when the peer
    disconnects with a DPR while a DWR is pending, and the node connects again
    and opens it, the first time-out makes the peer SUSPECT, though nothing but
    the CER was ever sent on the new connection. *)
Theorem stale_watchdog_suspects :
  let cfg := sample_psm None true in
  let ops := connects 1 100 ++ [Timeout; OutThread true; recv raw_dpr; Next; Timeout] ++ connects 2 102 in
  Forall (op_ok cfg) ops
  ∧ ∃ p p', psm_run cfg ops sample_start = Loop p ∧ p_state p = STATE_OPEN ∧ p_cnxctx p ≠ None
    ∧ length (filter (λ s, s.1 = Some 2) (p_wire p)) = 1%nat
    ∧ psm_step cfg PSM_TIMEOUT p = Loop p' ∧ p_state p' = STATE_SUSPECT ∧ p_wire p' = p_wire p.
Proof.
  cbv zeta. split; [vm_compute; run_ops_ok|].
  exists (final (psm_run (sample_psm None true)
            (connects 1 100 ++ [Timeout; OutThread true; recv raw_dpr; Next; Timeout] ++ connects 2 102) sample_start)).
  eexists. split; [vm_compute; reflexivity|]. split; [vm_compute; reflexivity|]. split; [vm_compute; discriminate|].
  split; [vm_compute; reflexivity|]. split; [vm_compute; reflexivity|]. split; vm_compute; reflexivity.
Qed.
